(* ===== verification/_CoqProject ===== *)
-Q . S2P
Prelude.v
Shards.v
Names.v
MethodsOther.v
MethodsQt3D.v
MethodsNetwork.v
MethodsGraphsB.v
MethodsCore.v
MethodsGraphsA.v
MethodsGui.v
MethodsWidgetsA.v
MethodsWidgetsB.v
ValueMethodsOther.v
ValueMethodsNetwork.v
ValueMethodsCore.v
ValueMethodsGui.v
ValueMethodsWidgets.v
ConstructorTables.v
ValueConstructorTables.v
Doubles.v
Json.v
Meta.v
Qt.v
State.v
Invariant.v
Modules.v
ValueTypes.v
Factories.v
Generated.v
Convert.v
Invoke.v
Create.v
ShardRuns.v
ShardTables.v
Calls.v
Requests.v
Wire.v
Safety.v
Stores.v
Preservation.v
ShardsOk.v
RequestsOk.v
Toy.v
Sessions.v
HandleTable.v
Handles.v
Lifecycle.v
Events.v
Frames.v
Roundtrips.v
Polling.v
Conversions.v
ShardCalls.v
Registry.v
FactoryFacts.v
TableFacts.v
ClassFacts.v
Reflection.v
Contract.v
ContractOk.v
ContractShards.v
Construction.v
Replies.v
Values.v
Program.v
ContractRun.v
Protocol.v
