(* ===== verification/Prelude.v ===== *)
(** * Verification of the Qt 6 bridge of Kryndel

    ** The program

    Kryndel's package qt6 drives the Qt libraries through one native function.
    The bridge (src/packages/qt6/native, C++) receives a JSON request, carries it
    out against live Qt objects, and writes a base64-encoded JSON response. It
    keeps three tables between requests: objects by identifier (guarded
    pointers), stored values by identifier, and signal subscriptions by object.
    Identifiers of objects and values come from one counter. A mutex makes calls
    from several threads a sequence; objects belong to the thread that started
    the application.

    The native directory has these parts, and this development these files:

    - qt6_bridge.cpp, lines 173-280: the state and the handle tables. [State]
      has the record [bridge] (the file-scope variables), the monad [M] of
      functions that read and write it, and objectForId, idForObject,
      registerObject, registerValue, isDescendantOf, parseObjectId and
      objectArgument.
    - readNumber to toJson: [Convert], with one definition per family of
      target types of fromJson ([fromJson_enum], [fromJson_geometry], ...).
    - buildArguments, metaInherits, invokeMethod, setProperty and
      metaObjectDescription: [Invoke].
    - constructInvokable, createObject (its native constructors are the rows of
      [explicit_rows]) and adopt: [Create].
    - handleRequest: [Calls] has the operation call, with the handlers of its
      chain of tests in twelve groups; [Requests] has the other operations (one
      definition [op_x] per operation x) and the dispatch with its guards.
    - writeResponse and the exported functions: [Wire].
    - generated_default_constructors.h and generated_modules: [Factories] has the
      templates over the traits of a class and the seven functions of a factory
      file, each over the list of its own rows; [Modules] has the lists of the 49
      files and the headers they include, one definition per section where a
      file is long; [Generated] the registry.
    - The four dispatch files: [Generated], and the table of
      describeDirectValueType in [ValueTypes].
    - The shards of generated_methods, generated_value_methods,
      generated_constructors and generated_value_constructors: one block of C++
      per signature of a method, or per class and number of constructor
      arguments, all made from one template. A block is a row of a table
      ([Shards] has the types of rows); the files Methods*, ValueMethods*,
      [ConstructorTables] and [ValueConstructorTables] list the rows of every
      shard, in the order of the source, and [Names] the names they share.
      [ShardRuns] says, construct by construct, what the code of a row does:
      the conversion of each argument with its error text, the call, the
      conversion of the result, the macros and the if constexpr around it.
      [ShardTables] gives the interface of the dispatch files, [Generated], by
      running the rows ([table_generated], [table_names]).

    ** How the program is modelled

    [Doubles] models the numbers of JSON (IEEE binary64, from the Standard
    Library's SpecFloat) and shows that the tests of the source on doubles are
    tests on the integers they stand for. [Json] has JSON values; objects are
    association lists sorted by key, as QJsonObject keeps them. [Meta] has
    meta-types, QVariant and meta-objects. Integers are in Z; a conversion to a
    narrower type is written as a reduction modulo a power of two, and the tests
    in front of the others are proved to be enough. A QString is its UTF-8 text.

    Qt itself is a parameter: [Qt] declares the classes [QtLib] (functions
    without side effects), [QtWorld] (the objects: aliveness, parents, classes,
    queues of signal spies, and one constructor of [native] per native call the
    bridge makes, among them [CxxMethod], [CxxStatic], [CxxValueMethod], [QNew]
    and [CxxValue] for the calls of the shards) and the laws that are assumed of
    them, [QtLibLaws] and [QtLaws]: documented facts on lifetimes (a new object
    is fresh, a dead one stays dead, deleting an object kills its descendants),
    on QVariant conversions, and on signal spies. [QtDefined] (in [Replies])
    has one more, on the variants of JSON values. [CxxTraits] has the facts the
    templates and the preprocessor decide at compile time, and [BuildFlags] the
    one build option. [Toy] is a concrete Qt that satisfies all the laws, at
    which every theorem with hypotheses is used.

    The bridge by hand and the generated shards meet in one interface. The
    class [Generated] has the functions of the shards, and [GeneratedLaws]
    (in [Safety]) what they promise: they keep the bridge's invariant, and give a
    result they constructed. The theorems on the bridge are proved against the
    interface; [table_laws] (in [ShardsOk]) proves the laws of the functions
    that run the tables, for all rows. [Program] puts both together.

    A function of the bridge is a term of [M]: it ends with a value, an
    exception of Qt, or undefined behaviour ([Crashed]): using an object or
    value after it was deleted ([UseAfterFree]), or reading a QVariant with a
    dangling pointer ([DanglingVariant]). A C++ function that writes an error
    text and returns nothing gives [Err]; where the source threads a text
    through several calls, it is passed and returned. Every loop is structural,
    except two: the walk over the ancestors of an object (isDescendantOf), which
    has the depth of the object as fuel ([isDescendantOf_spec] shows that this is
    enough), and the
    loop that drains a signal queue, which is bounded by the room left in the
    response (C24 shows that the loop of the source, as a step relation,
    terminates and ends where the bounded function does).

    ** What is proved

    - [Invariant], [Safety], [Stores], [Preservation], [RequestsOk], [ShardsOk]:
      the invariant [bridge_ok], a Hoare logic for [M] and its automation, the
      proof that handleRequest keeps the invariant for all shards within their
      laws, and that the tables are. [Sessions] states it for requests (C1), and
      for all reachable states the consequences: identifiers are never reused
      (C3), requests are confined to the owner thread (C6), and nothing happens
      before the application starts (C23). [Program] states it for the program
      with its actual shards (C2).
    - [Contract], [ContractOk], [ContractShards], [ContractRun]: the calls the
      bridge makes into Qt. [traced] is a Qt that writes down every call;
      [allowed] is the contract of a call, given what the bridge was told before
      (the indices of rows, columns and items below the counts it asked for,
      arguments of the range of their type, and so on); [polite] is the logic to
      prove it of a computation, and [PoliteShards] what it needs of the shards.
      All calls of a request to the program are allowed (C4).
    - [HandleTable]: an abstract table of handles, opened in order and closed,
      and the refinement: every session of the bridge is a run of it (C5).
    - [Frames] (C8): a request leaves every entry of the tables alone that it
      does not name, and the subscriptions of every other identifier exactly as
      they were. [Roundtrips] (C29, C30): a handle that was handed out is
      read back as the object or value it was made for, after any requests that
      spare it.
    - [Replies] (C7): a request is answered with a success, or with a failure
      that says why, be it with the text of Qt for a call it has refused;
      [set_without_value] is the exception, and [listen_without_text] shows where
      the text of Qt is passed on though it is empty.
    - [Lifecycle] (C11, C12, C21, C22): delete, shutdown, new and connect;
      [Handles]: parsing of handles, descent in the object tree.
    - [Events] (C13, C25) and [Polling] (C14, C24): what events delivers, loses
      (nothing) and leaves, how a queued argument can dangle, that the loop over
      a queue ends, and that polling again and again delivers everything.
    - [Conversions] (C26, C27, C28, C31, C32): types, ranges and round trips of
      conversions, truncation of enumerations, safety of request headers.
    - [ShardCalls] (C10, C19, C20): what a shard does with a call, on every
      branch; the types of the arguments it passes on; that a refused object it
      constructed is deleted.
    - [Registry] (C33, C35, C36), [FactoryFacts] (C34), [TableFacts] (C9, C15,
      C16) and [ClassFacts] (C17, C18): the tables of constructors agree, names
      resolve to one module or are ambiguous, the functions of a factory file
      agree with each other; what is published of value types and classes is
      what their shards handle; a call that fits a row is made, a construction
      reaches the block of its class, and arguments are judged by the signature
      alone. The facts on the tables are computed by the kernel from the rows.
    - [Construction]: createObject and adopt report failures. [Reflection]:
      arguments and method calls by reflection.
    - [Values] (C38) and [Program] (C37): stored values.
    - [Protocol] (C39, C40): the wire format's limits and the exported function.

    Some theorems state behaviour that differs from what the code means to do:
    C25 (dangling signal arguments), C31 (enumerations are truncated), C36 (a
    published short name that is refused), C37 (a published value type that cannot
    be built by its short name without arguments), C38 (a lost error), C40 (a
    response that does not fit has had its effects), [adopt_spec] (a refused object
    leaks), [describe_value_type_always_succeeds] (an unknown value type is
    described as null), [set_without_value] and [listen_without_text] (failures
    without a text) and [float_argument_overflows] (a finite number becomes an
    infinite float).

    ** What is not modelled

    The C++ overload resolution and implicit conversions of the calls in the
    shards: a row says which class, method, parameter and result types its call
    names, and the call is a parameter. The Go toolchain, the self-hosted
    compiler, the Kryndel sources, the generators of the shards (Python) and the
    scripts of the repository; the window system behind Qt. Memory exhaustion
    and the C++ evaluation order inside one expression are not modelled, nor is the
    overflow of the counter of identifiers, a qint64.

    ** Plan

    Still to come: that [traced] only observes (the bridge on it and the bridge
    on the Qt it wraps give the same answers), so that the contract can be
    stated of a run without the record; the round trips of the remaining value
    types of toJson and fromJson.

    This file: strings, sorted sets of names, fallible results, and their
    lemmas. *)
From Stdlib Require Export ZArith Lia Ascii.
From stdpp Require Export base gmap strings list sorting.

#[global] Open Scope Z_scope.

(** * Strings

    A QString is represented by its UTF-8 encoding and a QByteArray by its
    bytes, both as [string]; the operations below only cut at ASCII
    characters, which UTF-8 never uses inside a longer code point. *)

Definition estr : string := EmptyString.

Definition dquote : string := String "034"%char EmptyString.

Definition str_empty (s : string) : bool :=
  match s with EmptyString => true | String _ _ => false end.

(** [s.contains(c)]. *)
Fixpoint str_contains (c : Ascii.ascii) (s : string) : bool :=
  match s with
  | EmptyString => false
  | String a s' => bool_decide (a = c) || str_contains c s'
  end.

(** [s.indexOf(c)], [None] for -1. *)
Fixpoint str_index_of (c : Ascii.ascii) (s : string) : option nat :=
  match s with
  | EmptyString => None
  | String a s' => if bool_decide (a = c) then Some O else S <$> str_index_of c s'
  end.

(** [s.left(n)]. *)
Fixpoint str_left (n : nat) (s : string) : string :=
  match n, s with
  | O, _ => EmptyString
  | S _, EmptyString => EmptyString
  | S n', String a s' => String a (str_left n' s')
  end.

(** [s.mid(n)]. *)
Fixpoint str_mid (n : nat) (s : string) : string :=
  match n, s with
  | O, _ => s
  | S _, EmptyString => EmptyString
  | S n', String _ s' => str_mid n' s'
  end.

(** [s.startsWith(p)]. *)
Fixpoint str_starts_with (p s : string) : bool :=
  match p, s with
  | EmptyString, _ => true
  | String _ _, EmptyString => false
  | String a p', String b s' => bool_decide (a = b) && str_starts_with p' s'
  end.

(** [s.endsWith(c)]. *)
Fixpoint str_ends_with (c : Ascii.ascii) (s : string) : bool :=
  match s with
  | EmptyString => false
  | String a EmptyString => bool_decide (a = c)
  | String _ s' => str_ends_with c s'
  end.

(** [s.lastIndexOf(p)], [None] for -1. *)
Fixpoint str_last_index_of (p s : string) : option nat :=
  match s with
  | EmptyString => None
  | String _ s' =>
      match str_last_index_of p s' with
      | Some n => Some (S n)
      | None => if str_starts_with p s then Some O else None
      end
  end.

(** [s.replace(c, "")]. *)
Fixpoint str_remove (c : Ascii.ascii) (s : string) : string :=
  match s with
  | EmptyString => EmptyString
  | String a s' => if bool_decide (a = c) then str_remove c s' else String a (str_remove c s')
  end.

(** [list.join(sep)]. *)
Fixpoint str_join (sep : string) (l : list string) : string :=
  match l with
  | [] => EmptyString
  | [s] => s
  | s :: l' => (s ++ sep ++ str_join sep l')%string
  end.

(** [a < b] on strings, the order of std::sort and of the keys of QMap and
    QJsonObject (bytewise; the names sorted by the program are ASCII). *)
Definition str_lt (a b : string) : bool :=
  match String.compare a b with Lt => true | _ => false end.

Definition str_le (a b : string) : Prop := str_lt b a = false.

(** [std::sort] of a list of strings. *)
Fixpoint str_insert (a : string) (l : list string) : list string :=
  match l with
  | [] => [a]
  | b :: l' => if str_lt b a then b :: str_insert a l' else a :: l
  end.

Definition std_sort (l : list string) : list string := foldr str_insert [] l.

(** * Sorted sets of names *)

(** [QSet<QString>], [values()] and [std::sort]. *)
Definition sorted_set (l : list string) : list string := std_sort (remove_dups l).

Definition str_count (x : string) (l : list string) : nat := length (filter (fun y => y = x) l).

(** The keys of a QMap<QString, int> of counters whose counter is 1. *)
Definition counted_once (l : list string) : list string :=
  filter (fun x => str_count x l = 1%nat) (sorted_set l).

(** A quick test that no string occurs twice. *)
Fixpoint str_no_dup (l : list string) : bool :=
  match l with
  | [] => true
  | x :: l' => negb (existsb (String.eqb x) l') && str_no_dup l'
  end.

Definition str_mem (x : string) (l : list string) : bool := bool_decide (x ∈ l).

(** [Module.Class] split at the first dot. *)
Definition split_qualified (name : string) : string * string :=
  match str_index_of "."%char name with
  | None => (estr, name)
  | Some n => (str_left n name, str_mid (S n) name)
  end.

Definition qualify (m name : string) : string := (m ++ "." ++ name)%string.


(** * Fallible results

    A C++ function that returns [false], [nullptr] or an invalid value after
    writing [*error] returns [Err] of that text. *)
Inductive res (A : Type) : Type :=
  | Ok (a : A)
  | Err (msg : string).
Arguments Ok {A} a.
Arguments Err {A} msg.

Definition is_ok {A} (r : res A) : bool := match r with Ok _ => true | Err _ => false end.

Declare Scope kry_scope.
Delimit Scope kry_scope with kry.

Notation "'let?' x ':=' r 'in' k" :=
  (match r with Ok x => k | Err e_msg => Err e_msg end)
  (at level 10, x pattern, r at level 200, k at level 200) : kry_scope.

#[global] Open Scope kry_scope.

(** * Hints *)

Create HintDb kry.

(** * Lemmas on sorted lists of names *)

Lemma str_lt_asym a b : str_lt a b = true -> str_lt b a = false.
Proof. unfold str_lt. rewrite (String.compare_antisym b a). by destruct (String.compare a b). Qed.

Lemma std_sort_perm l : std_sort l ≡ₚ l.
Proof.
  assert (forall a l, str_insert a l ≡ₚ a :: l) as Hins.
  { intros a l'. induction l' as [|b l' IH]; simpl; [done|]. destruct (str_lt b a); [|done].
    rewrite IH. apply Permutation_swap. }
  induction l as [|a l IH]; simpl; [done|]. by rewrite Hins, IH.
Qed.

Lemma std_sort_sorted l : Sorted str_le (std_sort l).
Proof.
  induction l as [|a l IH]; simpl; [constructor|]. induction IH as [|b l' Hl IH' Hb]; simpl.
  - by repeat constructor.
  - destruct (str_lt b a) eqn:E; [|by repeat constructor].
    constructor; [done|]. destruct Hb as [|c l'' Hbc]; simpl; [|destruct (str_lt c a)];
      constructor; try done; by apply str_lt_asym.
Qed.

Lemma elem_of_sorted_set x l : x ∈ sorted_set l <-> x ∈ l.
Proof. unfold sorted_set. rewrite std_sort_perm. apply elem_of_remove_dups. Qed.

Lemma NoDup_sorted_set l : NoDup (sorted_set l).
Proof. unfold sorted_set. rewrite std_sort_perm. apply NoDup_remove_dups. Qed.

Lemma sorted_set_sorted l : Sorted str_le (sorted_set l).
Proof. apply std_sort_sorted. Qed.

Lemma elem_of_counted_once x l : x ∈ counted_once l <-> str_count x l = 1%nat.
Proof.
  unfold counted_once. rewrite list_elem_of_filter, elem_of_sorted_set. split; [naive_solver|].
  intros H. split; [done|]. unfold str_count in H.
  destruct (filter _ l) as [|y l'] eqn:E; [done|].
  assert (y ∈ filter (fun y => y = x) l) as [-> ?]%list_elem_of_filter by (rewrite E; constructor).
  done.
Qed.

Lemma str_no_dup_sound l : str_no_dup l = true -> NoDup l.
Proof.
  induction l as [|x l IH]; simpl; [constructor|]. intros [Hx Hl]%andb_true_iff.
  constructor; [|by apply IH]. intros Hin. apply negb_true_iff in Hx.
  rewrite <- not_true_iff_false, existsb_exists in Hx. apply Hx. exists x.
  split; [by apply list_elem_of_In|by apply String.eqb_eq].
Qed.
