(* ===== verification/Shards.v ===== *)
(** The contents of the generated shards as data: the rows from which
    generated_methods, generated_value_methods, generated_constructors and
    generated_value_constructors are made. The files [Names] to
    [ValueConstructorTables] list the rows, [ShardRuns] says what the code of a
    row does. *)
From S2P Require Export Prelude.

(** * Definitions *)

(** ** Preprocessor blocks

    [ClassInclude m h c]: if the header m/h exists, it is included and the
    macro of the class c of the shard is defined. [TypeInclude m h macro] is
    the same with a macro given in full, [EnumDefine] defines one always. *)
Inductive include : Set :=
  | ClassInclude (module header class_name : string)
  | TypeInclude (module header macro : string)
  | EnumDefine (macro : string).

(** ** Parameters and results

    [PMeta] and [PValue] are converted by fromJson to the meta-type of the C++
    type; for [PValue] the type must also be registered, copyable and default
    constructible, or the row compiles to nothing. *)
Inductive item : Set :=
  | IVariant
  | IMeta (type : string)
  | IValue (type : string)
  | IObject (class_name : string).

Inductive param : Set :=
  | PBool | PInt | PUInt
  | PNumber (type : string)
  | PString (nullable : bool)
  | PVariant
  | PMeta (type : string)
  | PValue (type : string)
  | PObject (class_name : string) (nullable : bool)
  | PStringList
  | PList (i : item)
  | PVariantMap.

Inductive result : Set :=
  | RVoid | RBool
  | RDouble                       (* any arithmetic type, through static_cast<double> *)
  | RString | RVariant
  | RMeta (type : string)         (* QVariant::fromValue<type> *)
  | RValue (type : string)        (* storeValue<type> *)
  | RObject
  | RList (i : item)
  | RMap (type : string) (i : item).

(** ** Rows of method shards *)

(** A class whose method is called: on the receiver, or statically. *)
Inductive target : Set :=
  | On (class_name : string)
  | Static (class_name : string).

(** A block [invoke_signature_<n>]. *)
Record signature_row : Set := Sig {
  sr_macros : list string;
  sr_name : string;
  sr_params : list param;
  sr_result : result;
  sr_targets : list target;
}.

Record method_shard : Set := MethodShard {
  ms_module : string;
  ms_prefix : string;              (* the macro of class C is ms_prefix ++ C *)
  ms_includes : list include;
  ms_rows : list signature_row;
  ms_types : list string;          (* direct_value_types_<shard> *)
}.

(** ** Rows of constructor shards *)

(** One candidate: the macros it needs besides the one of its class, its
    parameters, and where the parent goes among the arguments. *)
Record candidate : Set := Cand {
  ca_macros : list string;
  ca_params : list param;
  ca_parent : option (nat * string);
}.

(** A block for one class and one number of arguments. *)
Record constructor_row : Set := Ctor {
  cr_class : string;
  cr_count : Z;
  cr_candidates : list candidate;
}.

(** A line of constructor_classes_<shard>. *)
Record class_row : Set := Cls {
  cl_macros : list string;
  cl_class : string;
  cl_alternatives : list (list string);
}.

Record constructor_shard : Set := ConstructorShard {
  cs_module : string;
  cs_prefix : string;
  cs_includes : list include;
  cs_rows : list constructor_row;
  cs_classes : list class_row;
}.

(** ** Names *)

Definition pointer_to (class_name : string) : string := (class_name ++ "*")%string.

Definition list_of (type : string) : string := ("QList<" ++ type ++ ">")%string.

(** The C++ name of a class of a module. *)
Definition cpp_class (module name : string) : string :=
  if str_starts_with "Qt3D" module then (module ++ "::" ++ name)%string else name.

(** The C++ type of an item of a list. *)
Definition item_type (i : item) : string :=
  match i with
  | IVariant => "QVariant"
  | IMeta type | IValue type => type
  | IObject c => pointer_to c
  end.

(** The C++ type of a parameter, as signatures spell it. *)
Definition param_type (p : param) : string :=
  match p with
  | PBool => "bool" | PInt => "int" | PUInt => "unsigned int"
  | PNumber type => type
  | PString _ => "QString"
  | PVariant => "QVariant"
  | PMeta type | PValue type => type
  | PObject c _ => pointer_to c
  | PStringList => "QStringList"
  | PList i => list_of (item_type i)
  | PVariantMap => "QVariantMap"
  end.

(** The literal the code compares the signature of the request with. *)
Definition signature_text (r : signature_row) : string :=
  (sr_name r ++ "(" ++ str_join "," (param_type <$> sr_params r) ++ ")")%string.
