(* ===== verification/Names.v ===== *)
(** The names the generated shards mention: modules, classes, C++ types, and the
    macros that record which headers exist. A name with [::] is written with an
    underscore, a macro without its prefix KRY_QT6_NATIVE_. *)
From S2P Require Export Shards.

(** * Definitions *)

Definition Connection := "Connection"%string.
Definition ENUM_QT_ALIGNMENT := "KRY_QT6_NATIVE_ENUM_QT_ALIGNMENT"%string.
Definition ENUM_QT_APPLICATIONATTRIBUTE := "KRY_QT6_NATIVE_ENUM_QT_APPLICATIONATTRIBUTE"%string.
Definition ENUM_QT_APPLICATIONSTATE := "KRY_QT6_NATIVE_ENUM_QT_APPLICATIONSTATE"%string.
Definition ENUM_QT_ARROWTYPE := "KRY_QT6_NATIVE_ENUM_QT_ARROWTYPE"%string.
Definition ENUM_QT_ASPECTRATIOMODE := "KRY_QT6_NATIVE_ENUM_QT_ASPECTRATIOMODE"%string.
Definition ENUM_QT_AXIS := "KRY_QT6_NATIVE_ENUM_QT_AXIS"%string.
Definition ENUM_QT_BGMODE := "KRY_QT6_NATIVE_ENUM_QT_BGMODE"%string.
Definition ENUM_QT_BRUSHSTYLE := "KRY_QT6_NATIVE_ENUM_QT_BRUSHSTYLE"%string.
Definition ENUM_QT_CASESENSITIVITY := "KRY_QT6_NATIVE_ENUM_QT_CASESENSITIVITY"%string.
Definition ENUM_QT_CHECKSTATE := "KRY_QT6_NATIVE_ENUM_QT_CHECKSTATE"%string.
Definition ENUM_QT_CLIPOPERATION := "KRY_QT6_NATIVE_ENUM_QT_CLIPOPERATION"%string.
Definition ENUM_QT_COLORSCHEME := "KRY_QT6_NATIVE_ENUM_QT_COLORSCHEME"%string.
Definition ENUM_QT_CONTEXTMENUPOLICY := "KRY_QT6_NATIVE_ENUM_QT_CONTEXTMENUPOLICY"%string.
Definition ENUM_QT_CONTEXTMENUTRIGGER := "KRY_QT6_NATIVE_ENUM_QT_CONTEXTMENUTRIGGER"%string.
Definition ENUM_QT_CONTRASTPREFERENCE := "KRY_QT6_NATIVE_ENUM_QT_CONTRASTPREFERENCE"%string.
Definition ENUM_QT_CORNER := "KRY_QT6_NATIVE_ENUM_QT_CORNER"%string.
Definition ENUM_QT_CURSORMOVESTYLE := "KRY_QT6_NATIVE_ENUM_QT_CURSORMOVESTYLE"%string.
Definition ENUM_QT_CURSORSHAPE := "KRY_QT6_NATIVE_ENUM_QT_CURSORSHAPE"%string.
Definition ENUM_QT_DATEFORMAT := "KRY_QT6_NATIVE_ENUM_QT_DATEFORMAT"%string.
Definition ENUM_QT_DAYOFWEEK := "KRY_QT6_NATIVE_ENUM_QT_DAYOFWEEK"%string.
Definition ENUM_QT_DOCKWIDGETAREA := "KRY_QT6_NATIVE_ENUM_QT_DOCKWIDGETAREA"%string.
Definition ENUM_QT_DOCKWIDGETAREAS := "KRY_QT6_NATIVE_ENUM_QT_DOCKWIDGETAREAS"%string.
Definition ENUM_QT_DROPACTION := "KRY_QT6_NATIVE_ENUM_QT_DROPACTION"%string.
Definition ENUM_QT_DROPACTIONS := "KRY_QT6_NATIVE_ENUM_QT_DROPACTIONS"%string.
Definition ENUM_QT_EDGES := "KRY_QT6_NATIVE_ENUM_QT_EDGES"%string.
Definition ENUM_QT_FILLRULE := "KRY_QT6_NATIVE_ENUM_QT_FILLRULE"%string.
Definition ENUM_QT_FOCUSPOLICY := "KRY_QT6_NATIVE_ENUM_QT_FOCUSPOLICY"%string.
Definition ENUM_QT_FOCUSREASON := "KRY_QT6_NATIVE_ENUM_QT_FOCUSREASON"%string.
Definition ENUM_QT_GESTURESTATE := "KRY_QT6_NATIVE_ENUM_QT_GESTURESTATE"%string.
Definition ENUM_QT_GESTURETYPE := "KRY_QT6_NATIVE_ENUM_QT_GESTURETYPE"%string.
Definition ENUM_QT_GLOBALCOLOR := "KRY_QT6_NATIVE_ENUM_QT_GLOBALCOLOR"%string.
Definition ENUM_QT_HANDLE := "KRY_QT6_NATIVE_ENUM_QT_HANDLE"%string.
Definition ENUM_QT_HIGHDPISCALEFACTORROUNDINGPOLICY := "KRY_QT6_NATIVE_ENUM_QT_HIGHDPISCALEFACTORROUNDINGPOLICY"%string.
Definition ENUM_QT_HITTESTACCURACY := "KRY_QT6_NATIVE_ENUM_QT_HITTESTACCURACY"%string.
Definition ENUM_QT_INPUTMETHODQUERIES := "KRY_QT6_NATIVE_ENUM_QT_INPUTMETHODQUERIES"%string.
Definition ENUM_QT_INPUTMETHODQUERY := "KRY_QT6_NATIVE_ENUM_QT_INPUTMETHODQUERY"%string.
Definition ENUM_QT_ITEMSELECTIONMODE := "KRY_QT6_NATIVE_ENUM_QT_ITEMSELECTIONMODE"%string.
Definition ENUM_QT_ITEMSELECTIONOPERATION := "KRY_QT6_NATIVE_ENUM_QT_ITEMSELECTIONOPERATION"%string.
Definition ENUM_QT_KEY := "KRY_QT6_NATIVE_ENUM_QT_KEY"%string.
Definition ENUM_QT_KEYBOARDMODIFIERS := "KRY_QT6_NATIVE_ENUM_QT_KEYBOARDMODIFIERS"%string.
Definition ENUM_QT_LAYOUTDIRECTION := "KRY_QT6_NATIVE_ENUM_QT_LAYOUTDIRECTION"%string.
Definition ENUM_QT_MASKMODE := "KRY_QT6_NATIVE_ENUM_QT_MASKMODE"%string.
Definition ENUM_QT_MODIFIERS := "KRY_QT6_NATIVE_ENUM_QT_MODIFIERS"%string.
Definition ENUM_QT_MOUSEBUTTON := "KRY_QT6_NATIVE_ENUM_QT_MOUSEBUTTON"%string.
Definition ENUM_QT_MOUSEBUTTONS := "KRY_QT6_NATIVE_ENUM_QT_MOUSEBUTTONS"%string.
Definition ENUM_QT_MOUSEEVENTSOURCE := "KRY_QT6_NATIVE_ENUM_QT_MOUSEEVENTSOURCE"%string.
Definition ENUM_QT_NATIVEGESTURETYPE := "KRY_QT6_NATIVE_ENUM_QT_NATIVEGESTURETYPE"%string.
Definition ENUM_QT_ORIENTATION := "KRY_QT6_NATIVE_ENUM_QT_ORIENTATION"%string.
Definition ENUM_QT_ORIENTATIONS := "KRY_QT6_NATIVE_ENUM_QT_ORIENTATIONS"%string.
Definition ENUM_QT_PENCAPSTYLE := "KRY_QT6_NATIVE_ENUM_QT_PENCAPSTYLE"%string.
Definition ENUM_QT_PENJOINSTYLE := "KRY_QT6_NATIVE_ENUM_QT_PENJOINSTYLE"%string.
Definition ENUM_QT_PENSTYLE := "KRY_QT6_NATIVE_ENUM_QT_PENSTYLE"%string.
Definition ENUM_QT_PERMISSIONSTATUS := "KRY_QT6_NATIVE_ENUM_QT_PERMISSIONSTATUS"%string.
Definition ENUM_QT_SCREENORIENTATION := "KRY_QT6_NATIVE_ENUM_QT_SCREENORIENTATION"%string.
Definition ENUM_QT_SCROLLBARPOLICY := "KRY_QT6_NATIVE_ENUM_QT_SCROLLBARPOLICY"%string.
Definition ENUM_QT_SCROLLPHASE := "KRY_QT6_NATIVE_ENUM_QT_SCROLLPHASE"%string.
Definition ENUM_QT_SHORTCUTCONTEXT := "KRY_QT6_NATIVE_ENUM_QT_SHORTCUTCONTEXT"%string.
Definition ENUM_QT_SIZEHINT := "KRY_QT6_NATIVE_ENUM_QT_SIZEHINT"%string.
Definition ENUM_QT_SIZEMODE := "KRY_QT6_NATIVE_ENUM_QT_SIZEMODE"%string.
Definition ENUM_QT_SORTORDER := "KRY_QT6_NATIVE_ENUM_QT_SORTORDER"%string.
Definition ENUM_QT_TABFOCUSBEHAVIOR := "KRY_QT6_NATIVE_ENUM_QT_TABFOCUSBEHAVIOR"%string.
Definition ENUM_QT_TEXTELIDEMODE := "KRY_QT6_NATIVE_ENUM_QT_TEXTELIDEMODE"%string.
Definition ENUM_QT_TEXTFORMAT := "KRY_QT6_NATIVE_ENUM_QT_TEXTFORMAT"%string.
Definition ENUM_QT_TIMERTYPE := "KRY_QT6_NATIVE_ENUM_QT_TIMERTYPE"%string.
Definition ENUM_QT_TIMESPEC := "KRY_QT6_NATIVE_ENUM_QT_TIMESPEC"%string.
Definition ENUM_QT_TOOLBARAREA := "KRY_QT6_NATIVE_ENUM_QT_TOOLBARAREA"%string.
Definition ENUM_QT_TOOLBARAREAS := "KRY_QT6_NATIVE_ENUM_QT_TOOLBARAREAS"%string.
Definition ENUM_QT_TOOLBUTTONSTYLE := "KRY_QT6_NATIVE_ENUM_QT_TOOLBUTTONSTYLE"%string.
Definition ENUM_QT_TRANSFORMATIONMODE := "KRY_QT6_NATIVE_ENUM_QT_TRANSFORMATIONMODE"%string.
Definition ENUM_QT_UIEFFECT := "KRY_QT6_NATIVE_ENUM_QT_UIEFFECT"%string.
Definition ENUM_QT_WIDGETATTRIBUTE := "KRY_QT6_NATIVE_ENUM_QT_WIDGETATTRIBUTE"%string.
Definition ENUM_QT_WINDOWFLAGS := "KRY_QT6_NATIVE_ENUM_QT_WINDOWFLAGS"%string.
Definition ENUM_QT_WINDOWMODALITY := "KRY_QT6_NATIVE_ENUM_QT_WINDOWMODALITY"%string.
Definition ENUM_QT_WINDOWSTATE := "KRY_QT6_NATIVE_ENUM_QT_WINDOWSTATE"%string.
Definition ENUM_QT_WINDOWSTATES := "KRY_QT6_NATIVE_ENUM_QT_WINDOWSTATES"%string.
Definition ENUM_QT_WINDOWTYPE := "KRY_QT6_NATIVE_ENUM_QT_WINDOWTYPE"%string.
Definition Q3DBars := "Q3DBars"%string.
Definition Q3DBarsWidgetItem := "Q3DBarsWidgetItem"%string.
Definition Q3DCamera := "Q3DCamera"%string.
Definition Q3DCamera_CameraPreset := "Q3DCamera::CameraPreset"%string.
Definition Q3DGraphsWidgetItem := "Q3DGraphsWidgetItem"%string.
Definition Q3DInputHandler := "Q3DInputHandler"%string.
Definition Q3DLight := "Q3DLight"%string.
Definition Q3DObject := "Q3DObject"%string.
Definition Q3DScatter := "Q3DScatter"%string.
Definition Q3DScatterWidgetItem := "Q3DScatterWidgetItem"%string.
Definition Q3DScene := "Q3DScene"%string.
Definition Q3DSurface := "Q3DSurface"%string.
Definition Q3DSurfaceWidgetItem := "Q3DSurfaceWidgetItem"%string.
Definition Q3DTheme := "Q3DTheme"%string.
Definition Q3DTheme_ColorStyle := "Q3DTheme::ColorStyle"%string.
Definition Q3DTheme_Theme := "Q3DTheme::Theme"%string.
Definition QAbstract3DAxis := "QAbstract3DAxis"%string.
Definition QAbstract3DAxis_AxisOrientation := "QAbstract3DAxis::AxisOrientation"%string.
Definition QAbstract3DAxis_AxisType := "QAbstract3DAxis::AxisType"%string.
Definition QAbstract3DGraph := "QAbstract3DGraph"%string.
Definition QAbstract3DGraph_ElementType := "QAbstract3DGraph::ElementType"%string.
Definition QAbstract3DGraph_OptimizationHints := "QAbstract3DGraph::OptimizationHints"%string.
Definition QAbstract3DGraph_ShadowQuality := "QAbstract3DGraph::ShadowQuality"%string.
Definition QAbstract3DInputHandler := "QAbstract3DInputHandler"%string.
Definition QAbstract3DInputHandler_InputView := "QAbstract3DInputHandler::InputView"%string.
Definition QAbstract3DSeries := "QAbstract3DSeries"%string.
Definition QAbstract3DSeries_Mesh := "QAbstract3DSeries::Mesh"%string.
Definition QAbstract3DSeries_SeriesType := "QAbstract3DSeries::SeriesType"%string.
Definition QAbstractActionInput := "QAbstractActionInput"%string.
Definition QAbstractAnimation := "QAbstractAnimation"%string.
Definition QAbstractAnimationClip := "QAbstractAnimationClip"%string.
Definition QAbstractAnimation_DeletionPolicy := "QAbstractAnimation::DeletionPolicy"%string.
Definition QAbstractAnimation_Direction := "QAbstractAnimation::Direction"%string.
Definition QAbstractAnimation_State := "QAbstractAnimation::State"%string.
Definition QAbstractAspect := "QAbstractAspect"%string.
Definition QAbstractAxis := "QAbstractAxis"%string.
Definition QAbstractAxisInput := "QAbstractAxisInput"%string.
Definition QAbstractAxis_AxisType := "QAbstractAxis::AxisType"%string.
Definition QAbstractBarSeries := "QAbstractBarSeries"%string.
Definition QAbstractBarSeries_LabelsPosition := "QAbstractBarSeries::LabelsPosition"%string.
Definition QAbstractBarSeries_ptr := "QAbstractBarSeries*"%string.
Definition QAbstractButton := "QAbstractButton"%string.
Definition QAbstractCameraController := "QAbstractCameraController"%string.
Definition QAbstractChannelMapping := "QAbstractChannelMapping"%string.
Definition QAbstractClipAnimator := "QAbstractClipAnimator"%string.
Definition QAbstractClipBlendNode := "QAbstractClipBlendNode"%string.
Definition QAbstractDataProxy := "QAbstractDataProxy"%string.
Definition QAbstractDataProxy_DataType := "QAbstractDataProxy::DataType"%string.
Definition QAbstractEventDispatcher := "QAbstractEventDispatcher"%string.
Definition QAbstractFileIconProvider := "QAbstractFileIconProvider"%string.
Definition QAbstractFileIconProvider_IconType := "QAbstractFileIconProvider::IconType"%string.
Definition QAbstractFileIconProvider_Options := "QAbstractFileIconProvider::Options"%string.
Definition QAbstractFormBuilder := "QAbstractFormBuilder"%string.
Definition QAbstractFunctor := "QAbstractFunctor"%string.
Definition QAbstractGraphicsShapeItem := "QAbstractGraphicsShapeItem"%string.
Definition QAbstractItemDelegate := "QAbstractItemDelegate"%string.
Definition QAbstractItemModel := "QAbstractItemModel"%string.
Definition QAbstractItemModelReplica := "QAbstractItemModelReplica"%string.
Definition QAbstractItemModelTester := "QAbstractItemModelTester"%string.
Definition QAbstractItemModelTester_FailureReportingMode := "QAbstractItemModelTester::FailureReportingMode"%string.
Definition QAbstractItemModel_ptr := "QAbstractItemModel*"%string.
Definition QAbstractItemView := "QAbstractItemView"%string.
Definition QAbstractItemView_DragDropMode := "QAbstractItemView::DragDropMode"%string.
Definition QAbstractItemView_ScrollHint := "QAbstractItemView::ScrollHint"%string.
Definition QAbstractItemView_ScrollMode := "QAbstractItemView::ScrollMode"%string.
Definition QAbstractItemView_SelectionBehavior := "QAbstractItemView::SelectionBehavior"%string.
Definition QAbstractItemView_SelectionMode := "QAbstractItemView::SelectionMode"%string.
Definition QAbstractLight := "QAbstractLight"%string.
Definition QAbstractListModel := "QAbstractListModel"%string.
Definition QAbstractNativeEventFilter := "QAbstractNativeEventFilter"%string.
Definition QAbstractNetworkCache := "QAbstractNetworkCache"%string.
Definition QAbstractOAuth := "QAbstractOAuth"%string.
Definition QAbstractOAuth2 := "QAbstractOAuth2"%string.
Definition QAbstractOAuthReplyHandler := "QAbstractOAuthReplyHandler"%string.
Definition QAbstractOAuth_ContentType := "QAbstractOAuth::ContentType"%string.
Definition QAbstractOAuth_Status := "QAbstractOAuth::Status"%string.
Definition QAbstractPhysicalDevice := "QAbstractPhysicalDevice"%string.
Definition QAbstractPrintDialog := "QAbstractPrintDialog"%string.
Definition QAbstractPrintDialog_PrintDialogOption := "QAbstractPrintDialog::PrintDialogOption"%string.
Definition QAbstractPrintDialog_PrintDialogOptions := "QAbstractPrintDialog::PrintDialogOptions"%string.
Definition QAbstractPrintDialog_PrintRange := "QAbstractPrintDialog::PrintRange"%string.
Definition QAbstractProxyModel := "QAbstractProxyModel"%string.
Definition QAbstractRayCaster := "QAbstractRayCaster"%string.
Definition QAbstractScrollArea := "QAbstractScrollArea"%string.
Definition QAbstractScrollArea_SizeAdjustPolicy := "QAbstractScrollArea::SizeAdjustPolicy"%string.
Definition QAbstractSeries := "QAbstractSeries"%string.
Definition QAbstractSeries_SeriesType := "QAbstractSeries::SeriesType"%string.
Definition QAbstractSkeleton := "QAbstractSkeleton"%string.
Definition QAbstractSlider := "QAbstractSlider"%string.
Definition QAbstractSlider_SliderAction := "QAbstractSlider::SliderAction"%string.
Definition QAbstractSocket := "QAbstractSocket"%string.
Definition QAbstractSocket_NetworkLayerProtocol := "QAbstractSocket::NetworkLayerProtocol"%string.
Definition QAbstractSocket_SocketError := "QAbstractSocket::SocketError"%string.
Definition QAbstractSocket_SocketOption := "QAbstractSocket::SocketOption"%string.
Definition QAbstractSocket_SocketState := "QAbstractSocket::SocketState"%string.
Definition QAbstractSocket_SocketType := "QAbstractSocket::SocketType"%string.
Definition QAbstractSpinBox := "QAbstractSpinBox"%string.
Definition QAbstractSpinBox_ButtonSymbols := "QAbstractSpinBox::ButtonSymbols"%string.
Definition QAbstractSpinBox_CorrectionMode := "QAbstractSpinBox::CorrectionMode"%string.
Definition QAbstractSpinBox_StepType := "QAbstractSpinBox::StepType"%string.
Definition QAbstractSpriteSheet := "QAbstractSpriteSheet"%string.
Definition QAbstractState := "QAbstractState"%string.
Definition QAbstractTableModel := "QAbstractTableModel"%string.
Definition QAbstractTextDocumentLayout := "QAbstractTextDocumentLayout"%string.
Definition QAbstractTexture := "QAbstractTexture"%string.
Definition QAbstractTextureImage := "QAbstractTextureImage"%string.
Definition QAbstractTransition := "QAbstractTransition"%string.
Definition QAbstractTransition_TransitionType := "QAbstractTransition::TransitionType"%string.
Definition QAccelerometer := "QAccelerometer"%string.
Definition QAccelerometerReading := "QAccelerometerReading"%string.
Definition QAccelerometer_AccelerationMode := "QAccelerometer::AccelerationMode"%string.
Definition QAccessibilityHints := "QAccessibilityHints"%string.
Definition QAction := "QAction"%string.
Definition QActionEvent := "QActionEvent"%string.
Definition QActionGroup := "QActionGroup"%string.
Definition QActionGroup_ExclusionPolicy := "QActionGroup::ExclusionPolicy"%string.
Definition QActionInput := "QActionInput"%string.
Definition QAction_ActionEvent := "QAction::ActionEvent"%string.
Definition QAction_MenuRole := "QAction::MenuRole"%string.
Definition QAction_Priority := "QAction::Priority"%string.
Definition QAction_ptr := "QAction*"%string.
Definition QAdditiveClipBlend := "QAdditiveClipBlend"%string.
Definition QAlphaCoverage := "QAlphaCoverage"%string.
Definition QAlphaTest := "QAlphaTest"%string.
Definition QAmbientLightReading := "QAmbientLightReading"%string.
Definition QAmbientLightReading_LightLevel := "QAmbientLightReading::LightLevel"%string.
Definition QAmbientLightSensor := "QAmbientLightSensor"%string.
Definition QAmbientSound := "QAmbientSound"%string.
Definition QAmbientTemperatureReading := "QAmbientTemperatureReading"%string.
Definition QAmbientTemperatureSensor := "QAmbientTemperatureSensor"%string.
Definition QAnalogAxisInput := "QAnalogAxisInput"%string.
Definition QAnimationAspect := "QAnimationAspect"%string.
Definition QAnimationClip := "QAnimationClip"%string.
Definition QAnimationClipData := "QAnimationClipData"%string.
Definition QAnimationClipLoader := "QAnimationClipLoader"%string.
Definition QAnimationController := "QAnimationController"%string.
Definition QAnimationGroup := "QAnimationGroup"%string.
Definition QApplication := "QApplication"%string.
Definition QAreaLegendMarker := "QAreaLegendMarker"%string.
Definition QAreaSeries := "QAreaSeries"%string.
Definition QAreaSeries_ptr := "QAreaSeries*"%string.
Definition QArmature := "QArmature"%string.
Definition QAspectEngine := "QAspectEngine"%string.
Definition QAttribute := "QAttribute"%string.
Definition QAudioBuffer := "QAudioBuffer"%string.
Definition QAudioBufferInput := "QAudioBufferInput"%string.
Definition QAudioBufferOutput := "QAudioBufferOutput"%string.
Definition QAudioDecoder := "QAudioDecoder"%string.
Definition QAudioDecoder_Error := "QAudioDecoder::Error"%string.
Definition QAudioDevice := "QAudioDevice"%string.
Definition QAudioDevice_Mode := "QAudioDevice::Mode"%string.
Definition QAudioEngine := "QAudioEngine"%string.
Definition QAudioEngine_OutputMode := "QAudioEngine::OutputMode"%string.
Definition QAudioEngine_ptr := "QAudioEngine*"%string.
Definition QAudioFormat := "QAudioFormat"%string.
Definition QAudioFormat_AudioChannelPosition := "QAudioFormat::AudioChannelPosition"%string.
Definition QAudioFormat_ChannelConfig := "QAudioFormat::ChannelConfig"%string.
Definition QAudioFormat_SampleFormat := "QAudioFormat::SampleFormat"%string.
Definition QAudioInput := "QAudioInput"%string.
Definition QAudioListener := "QAudioListener"%string.
Definition QAudioOutput := "QAudioOutput"%string.
Definition QAudioRoom := "QAudioRoom"%string.
Definition QAudioRoom_Material := "QAudioRoom::Material"%string.
Definition QAudioRoom_Wall := "QAudioRoom::Wall"%string.
Definition QAudioSink := "QAudioSink"%string.
Definition QAudioSource := "QAudioSource"%string.
Definition QAuthenticator := "QAuthenticator"%string.
Definition QAxBase := "QAxBase"%string.
Definition QAxContainer := "QAxContainer"%string.
Definition QAxObject := "QAxObject"%string.
Definition QAxWidget := "QAxWidget"%string.
Definition QAxis := "QAxis"%string.
Definition QAxisAccumulator := "QAxisAccumulator"%string.
Definition QAxisSetting := "QAxisSetting"%string.
Definition QBackendNode := "QBackendNode"%string.
Definition QBackingStore := "QBackingStore"%string.
Definition QBar3DSeries := "QBar3DSeries"%string.
Definition QBarCategoryAxis := "QBarCategoryAxis"%string.
Definition QBarDataProxy := "QBarDataProxy"%string.
Definition QBarDataProxy_ptr := "QBarDataProxy*"%string.
Definition QBarLegendMarker := "QBarLegendMarker"%string.
Definition QBarModelMapper := "QBarModelMapper"%string.
Definition QBarSeries := "QBarSeries"%string.
Definition QBarSeries_BarsType := "QBarSeries::BarsType"%string.
Definition QBarSeries_LabelsPosition := "QBarSeries::LabelsPosition"%string.
Definition QBarSet := "QBarSet"%string.
Definition QBarSet_ptr := "QBarSet*"%string.
Definition QBasicTimer := "QBasicTimer"%string.
Definition QBitArray := "QBitArray"%string.
Definition QBitmap := "QBitmap"%string.
Definition QBlendEquation := "QBlendEquation"%string.
Definition QBlendEquationArguments := "QBlendEquationArguments"%string.
Definition QBlendedClipAnimator := "QBlendedClipAnimator"%string.
Definition QBlitFramebuffer := "QBlitFramebuffer"%string.
Definition QBluetoothAddress := "QBluetoothAddress"%string.
Definition QBluetoothDeviceDiscoveryAgent := "QBluetoothDeviceDiscoveryAgent"%string.
Definition QBluetoothDeviceDiscoveryAgent_Error := "QBluetoothDeviceDiscoveryAgent::Error"%string.
Definition QBluetoothDeviceInfo := "QBluetoothDeviceInfo"%string.
Definition QBluetoothDeviceInfo_MajorDeviceClass := "QBluetoothDeviceInfo::MajorDeviceClass"%string.
Definition QBluetoothHostInfo := "QBluetoothHostInfo"%string.
Definition QBluetoothLocalDevice := "QBluetoothLocalDevice"%string.
Definition QBluetoothLocalDevice_HostMode := "QBluetoothLocalDevice::HostMode"%string.
Definition QBluetoothLocalDevice_Pairing := "QBluetoothLocalDevice::Pairing"%string.
Definition QBluetoothPermission := "QBluetoothPermission"%string.
Definition QBluetoothServer := "QBluetoothServer"%string.
Definition QBluetoothServer_Error := "QBluetoothServer::Error"%string.
Definition QBluetoothServiceDiscoveryAgent := "QBluetoothServiceDiscoveryAgent"%string.
Definition QBluetoothServiceDiscoveryAgent_DiscoveryMode := "QBluetoothServiceDiscoveryAgent::DiscoveryMode"%string.
Definition QBluetoothServiceDiscoveryAgent_Error := "QBluetoothServiceDiscoveryAgent::Error"%string.
Definition QBluetoothServiceInfo := "QBluetoothServiceInfo"%string.
Definition QBluetoothServiceInfo_Protocol := "QBluetoothServiceInfo::Protocol"%string.
Definition QBluetoothSocket := "QBluetoothSocket"%string.
Definition QBluetoothSocket_SocketError := "QBluetoothSocket::SocketError"%string.
Definition QBluetoothSocket_SocketState := "QBluetoothSocket::SocketState"%string.
Definition QBluetoothUuid := "QBluetoothUuid"%string.
Definition QBluetoothUuid_CharacteristicType := "QBluetoothUuid::CharacteristicType"%string.
Definition QBluetoothUuid_DescriptorType := "QBluetoothUuid::DescriptorType"%string.
Definition QBluetoothUuid_ProtocolUuid := "QBluetoothUuid::ProtocolUuid"%string.
Definition QBluetoothUuid_ServiceClassUuid := "QBluetoothUuid::ServiceClassUuid"%string.
Definition QBoundingVolume := "QBoundingVolume"%string.
Definition QBoxLayout := "QBoxLayout"%string.
Definition QBoxLayout_Direction := "QBoxLayout::Direction"%string.
Definition QBoxPlotLegendMarker := "QBoxPlotLegendMarker"%string.
Definition QBoxPlotSeries := "QBoxPlotSeries"%string.
Definition QBoxPlotSeries_ptr := "QBoxPlotSeries*"%string.
Definition QBoxSet := "QBoxSet"%string.
Definition QBrush := "QBrush"%string.
Definition QBuffer := "QBuffer"%string.
Definition QButtonAxisInput := "QButtonAxisInput"%string.
Definition QButtonGroup := "QButtonGroup"%string.
Definition QByteArray := "QByteArray"%string.
Definition QByteArrayMatcher := "QByteArrayMatcher"%string.
Definition QCalendar := "QCalendar"%string.
Definition QCalendarPermission := "QCalendarPermission"%string.
Definition QCalendarPermission_AccessMode := "QCalendarPermission::AccessMode"%string.
Definition QCalendarWidget := "QCalendarWidget"%string.
Definition QCalendarWidget_HorizontalHeaderFormat := "QCalendarWidget::HorizontalHeaderFormat"%string.
Definition QCalendarWidget_SelectionMode := "QCalendarWidget::SelectionMode"%string.
Definition QCalendarWidget_VerticalHeaderFormat := "QCalendarWidget::VerticalHeaderFormat"%string.
Definition QCalendar_System := "QCalendar::System"%string.
Definition QCalendar_YearMonthDay := "QCalendar::YearMonthDay"%string.
Definition QCamera := "QCamera"%string.
Definition QCameraDevice := "QCameraDevice"%string.
Definition QCameraDevice_Position := "QCameraDevice::Position"%string.
Definition QCameraFormat := "QCameraFormat"%string.
Definition QCameraLens := "QCameraLens"%string.
Definition QCameraPermission := "QCameraPermission"%string.
Definition QCameraSelector := "QCameraSelector"%string.
Definition QCamera_Error := "QCamera::Error"%string.
Definition QCamera_ExposureMode := "QCamera::ExposureMode"%string.
Definition QCamera_Features := "QCamera::Features"%string.
Definition QCamera_FlashMode := "QCamera::FlashMode"%string.
Definition QCamera_FocusMode := "QCamera::FocusMode"%string.
Definition QCamera_TorchMode := "QCamera::TorchMode"%string.
Definition QCamera_WhiteBalanceMode := "QCamera::WhiteBalanceMode"%string.
Definition QCandlestickLegendMarker := "QCandlestickLegendMarker"%string.
Definition QCandlestickModelMapper := "QCandlestickModelMapper"%string.
Definition QCandlestickSeries := "QCandlestickSeries"%string.
Definition QCandlestickSeries_ptr := "QCandlestickSeries*"%string.
Definition QCandlestickSet := "QCandlestickSet"%string.
Definition QCapturableWindow := "QCapturableWindow"%string.
Definition QCategory3DAxis := "QCategory3DAxis"%string.
Definition QCategoryAxis := "QCategoryAxis"%string.
Definition QCategoryAxis_AxisLabelsPosition := "QCategoryAxis::AxisLabelsPosition"%string.
Definition QCborStreamReader := "QCborStreamReader"%string.
Definition QCborStreamReader_Type := "QCborStreamReader::Type"%string.
Definition QCborStreamWriter := "QCborStreamWriter"%string.
Definition QChannel := "QChannel"%string.
Definition QChannelComponent := "QChannelComponent"%string.
Definition QChannelMapper := "QChannelMapper"%string.
Definition QChannelMapping := "QChannelMapping"%string.
Definition QChar := "QChar"%string.
Definition QChar_Script := "QChar::Script"%string.
Definition QChart := "QChart"%string.
Definition QChartView := "QChartView"%string.
Definition QChart_ChartTheme := "QChart::ChartTheme"%string.
Definition QChart_ChartType := "QChart::ChartType"%string.
Definition QChart_ptr := "QChart*"%string.
Definition QCheckBox := "QCheckBox"%string.
Definition QChildEvent := "QChildEvent"%string.
Definition QChildWindowEvent := "QChildWindowEvent"%string.
Definition QClearBuffers := "QClearBuffers"%string.
Definition QClipAnimator := "QClipAnimator"%string.
Definition QClipBlendValue := "QClipBlendValue"%string.
Definition QClipPlane := "QClipPlane"%string.
Definition QClipboard := "QClipboard"%string.
Definition QClipboard_Mode := "QClipboard::Mode"%string.
Definition QClock := "QClock"%string.
Definition QCloseEvent := "QCloseEvent"%string.
Definition QCollator := "QCollator"%string.
Definition QCollatorSortKey := "QCollatorSortKey"%string.
Definition QColor := "QColor"%string.
Definition QColorDialog := "QColorDialog"%string.
Definition QColorDialog_ColorDialogOption := "QColorDialog::ColorDialogOption"%string.
Definition QColorDialog_ColorDialogOptions := "QColorDialog::ColorDialogOptions"%string.
Definition QColorMask := "QColorMask"%string.
Definition QColorSpace := "QColorSpace"%string.
Definition QColorSpace_ColorModel := "QColorSpace::ColorModel"%string.
Definition QColorSpace_NamedColorSpace := "QColorSpace::NamedColorSpace"%string.
Definition QColorSpace_Primaries := "QColorSpace::Primaries"%string.
Definition QColorSpace_PrimaryPoints := "QColorSpace::PrimaryPoints"%string.
Definition QColorSpace_TransferFunction := "QColorSpace::TransferFunction"%string.
Definition QColorSpace_TransformModel := "QColorSpace::TransformModel"%string.
Definition QColorTransform := "QColorTransform"%string.
Definition QColor_NameFormat := "QColor::NameFormat"%string.
Definition QColor_Spec := "QColor::Spec"%string.
Definition QColumnView := "QColumnView"%string.
Definition QComboBox := "QComboBox"%string.
Definition QComboBox_InsertPolicy := "QComboBox::InsertPolicy"%string.
Definition QComboBox_LabelDrawingMode := "QComboBox::LabelDrawingMode"%string.
Definition QComboBox_SizeAdjustPolicy := "QComboBox::SizeAdjustPolicy"%string.
Definition QCommandLineOption := "QCommandLineOption"%string.
Definition QCommandLineOption_Flags := "QCommandLineOption::Flags"%string.
Definition QCommandLineParser := "QCommandLineParser"%string.
Definition QCommandLineParser_MessageType := "QCommandLineParser::MessageType"%string.
Definition QCommandLineParser_OptionsAfterPositionalArgumentsMode := "QCommandLineParser::OptionsAfterPositionalArgumentsMode"%string.
Definition QCommandLineParser_SingleDashWordOptionMode := "QCommandLineParser::SingleDashWordOptionMode"%string.
Definition QCommandLinkButton := "QCommandLinkButton"%string.
Definition QCommonStyle := "QCommonStyle"%string.
Definition QCompass := "QCompass"%string.
Definition QCompassReading := "QCompassReading"%string.
Definition QCompleter := "QCompleter"%string.
Definition QCompleter_CompletionMode := "QCompleter::CompletionMode"%string.
Definition QCompleter_ModelSorting := "QCompleter::ModelSorting"%string.
Definition QComponent := "QComponent"%string.
Definition QCompressedHelpInfo := "QCompressedHelpInfo"%string.
Definition QComputeCommand := "QComputeCommand"%string.
Definition QConcatenateTablesProxyModel := "QConcatenateTablesProxyModel"%string.
Definition QConeGeometry := "QConeGeometry"%string.
Definition QConeGeometryView := "QConeGeometryView"%string.
Definition QConeMesh := "QConeMesh"%string.
Definition QConicalGradient := "QConicalGradient"%string.
Definition QContactsPermission := "QContactsPermission"%string.
Definition QContactsPermission_AccessMode := "QContactsPermission::AccessMode"%string.
Definition QContextMenuEvent := "QContextMenuEvent"%string.
Definition QContextMenuEvent_Reason := "QContextMenuEvent::Reason"%string.
Definition QCoreApplication := "QCoreApplication"%string.
Definition QCoreSettings := "QCoreSettings"%string.
Definition QCryptographicHash := "QCryptographicHash"%string.
Definition QCryptographicHash_Algorithm := "QCryptographicHash::Algorithm"%string.
Definition QCuboidGeometry := "QCuboidGeometry"%string.
Definition QCuboidGeometryView := "QCuboidGeometryView"%string.
Definition QCuboidMesh := "QCuboidMesh"%string.
Definition QCullFace := "QCullFace"%string.
Definition QCursor := "QCursor"%string.
Definition QCustom3DItem := "QCustom3DItem"%string.
Definition QCustom3DLabel := "QCustom3DLabel"%string.
Definition QCustom3DVolume := "QCustom3DVolume"%string.
Definition QCylinderGeometry := "QCylinderGeometry"%string.
Definition QCylinderGeometryView := "QCylinderGeometryView"%string.
Definition QCylinderMesh := "QCylinderMesh"%string.
Definition QDBusAbstractInterface := "QDBusAbstractInterface"%string.
Definition QDBusArgument := "QDBusArgument"%string.
Definition QDBusConnection := "QDBusConnection"%string.
Definition QDBusConnectionInterface := "QDBusConnectionInterface"%string.
Definition QDBusConnection_BusType := "QDBusConnection::BusType"%string.
Definition QDBusConnection_UnregisterMode := "QDBusConnection::UnregisterMode"%string.
Definition QDBusError := "QDBusError"%string.
Definition QDBusError_ErrorType := "QDBusError::ErrorType"%string.
Definition QDBusInterface := "QDBusInterface"%string.
Definition QDBusMessage := "QDBusMessage"%string.
Definition QDBusMessage_MessageType := "QDBusMessage::MessageType"%string.
Definition QDBusObjectPath := "QDBusObjectPath"%string.
Definition QDBusPendingCall := "QDBusPendingCall"%string.
Definition QDBusPendingCallWatcher := "QDBusPendingCallWatcher"%string.
Definition QDBusServiceWatcher := "QDBusServiceWatcher"%string.
Definition QDBusServiceWatcher_WatchMode := "QDBusServiceWatcher::WatchMode"%string.
Definition QDBusSignature := "QDBusSignature"%string.
Definition QDBusUnixFileDescriptor := "QDBusUnixFileDescriptor"%string.
Definition QDBusVariant := "QDBusVariant"%string.
Definition QDataStream := "QDataStream"%string.
Definition QDataStream_ByteOrder := "QDataStream::ByteOrder"%string.
Definition QDataStream_FloatingPointPrecision := "QDataStream::FloatingPointPrecision"%string.
Definition QDataStream_Status := "QDataStream::Status"%string.
Definition QDataWidgetMapper := "QDataWidgetMapper"%string.
Definition QDataWidgetMapper_SubmitPolicy := "QDataWidgetMapper::SubmitPolicy"%string.
Definition QDate := "QDate"%string.
Definition QDateEdit := "QDateEdit"%string.
Definition QDateTime := "QDateTime"%string.
Definition QDateTimeAxis := "QDateTimeAxis"%string.
Definition QDateTimeEdit := "QDateTimeEdit"%string.
Definition QDateTimeEdit_Section := "QDateTimeEdit::Section"%string.
Definition QDateTimeEdit_Sections := "QDateTimeEdit::Sections"%string.
Definition QDateTime_TransitionResolution := "QDateTime::TransitionResolution"%string.
Definition QDeadlineTimer := "QDeadlineTimer"%string.
Definition QDeadlineTimer_ForeverConstant := "QDeadlineTimer::ForeverConstant"%string.
Definition QDepthRange := "QDepthRange"%string.
Definition QDepthTest := "QDepthTest"%string.
Definition QDesignerActionEditorInterface := "QDesignerActionEditorInterface"%string.
Definition QDesignerContainerExtension := "QDesignerContainerExtension"%string.
Definition QDesignerCustomWidgetInterface := "QDesignerCustomWidgetInterface"%string.
Definition QDesignerFormEditorInterface := "QDesignerFormEditorInterface"%string.
Definition QDesignerFormWindowCursorInterface := "QDesignerFormWindowCursorInterface"%string.
Definition QDesignerFormWindowInterface := "QDesignerFormWindowInterface"%string.
Definition QDesignerFormWindowManagerInterface := "QDesignerFormWindowManagerInterface"%string.
Definition QDesignerMemberSheetExtension := "QDesignerMemberSheetExtension"%string.
Definition QDesignerObjectInspectorInterface := "QDesignerObjectInspectorInterface"%string.
Definition QDesignerPropertyEditorInterface := "QDesignerPropertyEditorInterface"%string.
Definition QDesignerPropertySheetExtension := "QDesignerPropertySheetExtension"%string.
Definition QDesignerTaskMenuExtension := "QDesignerTaskMenuExtension"%string.
Definition QDesignerWidgetBoxInterface := "QDesignerWidgetBoxInterface"%string.
Definition QDesktopServices := "QDesktopServices"%string.
Definition QDial := "QDial"%string.
Definition QDialog := "QDialog"%string.
Definition QDialogButtonBox := "QDialogButtonBox"%string.
Definition QDialogButtonBox_ButtonRole := "QDialogButtonBox::ButtonRole"%string.
Definition QDialogButtonBox_StandardButton := "QDialogButtonBox::StandardButton"%string.
Definition QDialogButtonBox_StandardButtons := "QDialogButtonBox::StandardButtons"%string.
Definition QDiffuseMapMaterial := "QDiffuseMapMaterial"%string.
Definition QDiffuseSpecularMapMaterial := "QDiffuseSpecularMapMaterial"%string.
Definition QDiffuseSpecularMaterial := "QDiffuseSpecularMaterial"%string.
Definition QDir := "QDir"%string.
Definition QDirIterator := "QDirIterator"%string.
Definition QDirIterator_IteratorFlags := "QDirIterator::IteratorFlags"%string.
Definition QDir_Filters := "QDir::Filters"%string.
Definition QDir_SortFlags := "QDir::SortFlags"%string.
Definition QDirectionalLight := "QDirectionalLight"%string.
Definition QDispatchCompute := "QDispatchCompute"%string.
Definition QDithering := "QDithering"%string.
Definition QDnsDomainNameRecord := "QDnsDomainNameRecord"%string.
Definition QDnsHostAddressRecord := "QDnsHostAddressRecord"%string.
Definition QDnsLookup := "QDnsLookup"%string.
Definition QDnsLookup_Error := "QDnsLookup::Error"%string.
Definition QDnsLookup_Protocol := "QDnsLookup::Protocol"%string.
Definition QDnsLookup_Type := "QDnsLookup::Type"%string.
Definition QDnsMailExchangeRecord := "QDnsMailExchangeRecord"%string.
Definition QDnsServiceRecord := "QDnsServiceRecord"%string.
Definition QDnsTextRecord := "QDnsTextRecord"%string.
Definition QDnsTlsAssociationRecord := "QDnsTlsAssociationRecord"%string.
Definition QDnsTlsAssociationRecord_CertificateUsage := "QDnsTlsAssociationRecord::CertificateUsage"%string.
Definition QDnsTlsAssociationRecord_MatchingType := "QDnsTlsAssociationRecord::MatchingType"%string.
Definition QDnsTlsAssociationRecord_Selector := "QDnsTlsAssociationRecord::Selector"%string.
Definition QDockWidget := "QDockWidget"%string.
Definition QDomAttr := "QDomAttr"%string.
Definition QDomCDATASection := "QDomCDATASection"%string.
Definition QDomCharacterData := "QDomCharacterData"%string.
Definition QDomComment := "QDomComment"%string.
Definition QDomDocument := "QDomDocument"%string.
Definition QDomDocumentFragment := "QDomDocumentFragment"%string.
Definition QDomDocumentType := "QDomDocumentType"%string.
Definition QDomElement := "QDomElement"%string.
Definition QDomEntity := "QDomEntity"%string.
Definition QDomEntityReference := "QDomEntityReference"%string.
Definition QDomImplementation := "QDomImplementation"%string.
Definition QDomImplementation_InvalidDataPolicy := "QDomImplementation::InvalidDataPolicy"%string.
Definition QDomNamedNodeMap := "QDomNamedNodeMap"%string.
Definition QDomNode := "QDomNode"%string.
Definition QDomNodeList := "QDomNodeList"%string.
Definition QDomNode_EncodingPolicy := "QDomNode::EncodingPolicy"%string.
Definition QDomNode_NodeType := "QDomNode::NodeType"%string.
Definition QDomNotation := "QDomNotation"%string.
Definition QDomProcessingInstruction := "QDomProcessingInstruction"%string.
Definition QDomText := "QDomText"%string.
Definition QDoubleSpinBox := "QDoubleSpinBox"%string.
Definition QDoubleValidator := "QDoubleValidator"%string.
Definition QDoubleValidator_Notation := "QDoubleValidator::Notation"%string.
Definition QDrag := "QDrag"%string.
Definition QDragEnterEvent := "QDragEnterEvent"%string.
Definition QDragLeaveEvent := "QDragLeaveEvent"%string.
Definition QDragMoveEvent := "QDragMoveEvent"%string.
Definition QDropEvent := "QDropEvent"%string.
Definition QDynamicPropertyChangeEvent := "QDynamicPropertyChangeEvent"%string.
Definition QEasingCurve := "QEasingCurve"%string.
Definition QEasingCurve_Type := "QEasingCurve::Type"%string.
Definition QEffect := "QEffect"%string.
Definition QElapsedTimer := "QElapsedTimer"%string.
Definition QElapsedTimer_ClockType := "QElapsedTimer::ClockType"%string.
Definition QEnterEvent := "QEnterEvent"%string.
Definition QEntity := "QEntity"%string.
Definition QEnvironmentLight := "QEnvironmentLight"%string.
Definition QErrorMessage := "QErrorMessage"%string.
Definition QEvent := "QEvent"%string.
Definition QEventLoop := "QEventLoop"%string.
Definition QEventLoopLocker := "QEventLoopLocker"%string.
Definition QEventLoop_ptr := "QEventLoop*"%string.
Definition QEventPoint := "QEventPoint"%string.
Definition QEventPoint_State := "QEventPoint::State"%string.
Definition QEventPoint_States := "QEventPoint::States"%string.
Definition QEventTransition := "QEventTransition"%string.
Definition QEvent_Type := "QEvent::Type"%string.
Definition QExposeEvent := "QExposeEvent"%string.
Definition QExtensionFactory := "QExtensionFactory"%string.
Definition QExtensionManager := "QExtensionManager"%string.
Definition QExtensionManager_ptr := "QExtensionManager*"%string.
Definition QExtrudedTextGeometry := "QExtrudedTextGeometry"%string.
Definition QExtrudedTextMesh := "QExtrudedTextMesh"%string.
Definition QFile := "QFile"%string.
Definition QFileDevice := "QFileDevice"%string.
Definition QFileDevice_FileError := "QFileDevice::FileError"%string.
Definition QFileDevice_FileTime := "QFileDevice::FileTime"%string.
Definition QFileDialog := "QFileDialog"%string.
Definition QFileDialog_AcceptMode := "QFileDialog::AcceptMode"%string.
Definition QFileDialog_DialogLabel := "QFileDialog::DialogLabel"%string.
Definition QFileDialog_FileMode := "QFileDialog::FileMode"%string.
Definition QFileDialog_Option := "QFileDialog::Option"%string.
Definition QFileDialog_Options := "QFileDialog::Options"%string.
Definition QFileDialog_ViewMode := "QFileDialog::ViewMode"%string.
Definition QFileIconProvider := "QFileIconProvider"%string.
Definition QFileInfo := "QFileInfo"%string.
Definition QFileOpenEvent := "QFileOpenEvent"%string.
Definition QFileSelector := "QFileSelector"%string.
Definition QFileSystemModel := "QFileSystemModel"%string.
Definition QFileSystemModel_Option := "QFileSystemModel::Option"%string.
Definition QFileSystemModel_Options := "QFileSystemModel::Options"%string.
Definition QFileSystemWatcher := "QFileSystemWatcher"%string.
Definition QFilterKey := "QFilterKey"%string.
Definition QFinalState := "QFinalState"%string.
Definition QFirstPersonCameraController := "QFirstPersonCameraController"%string.
Definition QFocusEvent := "QFocusEvent"%string.
Definition QFocusFrame := "QFocusFrame"%string.
Definition QFont := "QFont"%string.
Definition QFontComboBox := "QFontComboBox"%string.
Definition QFontDatabase := "QFontDatabase"%string.
Definition QFontDatabase_SystemFont := "QFontDatabase::SystemFont"%string.
Definition QFontDatabase_WritingSystem := "QFontDatabase::WritingSystem"%string.
Definition QFontDialog := "QFontDialog"%string.
Definition QFontDialog_FontDialogOption := "QFontDialog::FontDialogOption"%string.
Definition QFontDialog_FontDialogOptions := "QFontDialog::FontDialogOptions"%string.
Definition QFontInfo := "QFontInfo"%string.
Definition QFontMetrics := "QFontMetrics"%string.
Definition QFontMetricsF := "QFontMetricsF"%string.
Definition QFontVariableAxis := "QFontVariableAxis"%string.
Definition QFont_Capitalization := "QFont::Capitalization"%string.
Definition QFont_HintingPreference := "QFont::HintingPreference"%string.
Definition QFont_SpacingType := "QFont::SpacingType"%string.
Definition QFont_Style := "QFont::Style"%string.
Definition QFont_StyleHint := "QFont::StyleHint"%string.
Definition QFont_StyleStrategy := "QFont::StyleStrategy"%string.
Definition QFont_Tag := "QFont::Tag"%string.
Definition QFormBuilder := "QFormBuilder"%string.
Definition QFormDataBuilder := "QFormDataBuilder"%string.
Definition QFormDataPartBuilder := "QFormDataPartBuilder"%string.
Definition QFormLayout := "QFormLayout"%string.
Definition QFormLayout_FieldGrowthPolicy := "QFormLayout::FieldGrowthPolicy"%string.
Definition QFormLayout_ItemRole := "QFormLayout::ItemRole"%string.
Definition QFormLayout_RowWrapPolicy := "QFormLayout::RowWrapPolicy"%string.
Definition QFormLayout_TakeRowResult := "QFormLayout::TakeRowResult"%string.
Definition QForwardRenderer := "QForwardRenderer"%string.
Definition QFrame := "QFrame"%string.
Definition QFrameAction := "QFrameAction"%string.
Definition QFrameGraphNode := "QFrameGraphNode"%string.
Definition QFrame_Shadow := "QFrame::Shadow"%string.
Definition QFrame_Shape := "QFrame::Shape"%string.
Definition QFrontFace := "QFrontFace"%string.
Definition QFrustumCulling := "QFrustumCulling"%string.
Definition QGeoAddress := "QGeoAddress"%string.
Definition QGeoAreaMonitorInfo := "QGeoAreaMonitorInfo"%string.
Definition QGeoAreaMonitorSource := "QGeoAreaMonitorSource"%string.
Definition QGeoCircle := "QGeoCircle"%string.
Definition QGeoCoordinate := "QGeoCoordinate"%string.
Definition QGeoCoordinate_CoordinateFormat := "QGeoCoordinate::CoordinateFormat"%string.
Definition QGeoCoordinate_CoordinateType := "QGeoCoordinate::CoordinateType"%string.
Definition QGeoLocation := "QGeoLocation"%string.
Definition QGeoPath := "QGeoPath"%string.
Definition QGeoPolygon := "QGeoPolygon"%string.
Definition QGeoPositionInfo := "QGeoPositionInfo"%string.
Definition QGeoPositionInfoSource := "QGeoPositionInfoSource"%string.
Definition QGeoPositionInfoSource_Error := "QGeoPositionInfoSource::Error"%string.
Definition QGeoPositionInfo_Attribute := "QGeoPositionInfo::Attribute"%string.
Definition QGeoRectangle := "QGeoRectangle"%string.
Definition QGeoSatelliteInfo := "QGeoSatelliteInfo"%string.
Definition QGeoSatelliteInfoSource := "QGeoSatelliteInfoSource"%string.
Definition QGeoSatelliteInfoSource_Error := "QGeoSatelliteInfoSource::Error"%string.
Definition QGeoSatelliteInfo_Attribute := "QGeoSatelliteInfo::Attribute"%string.
Definition QGeoSatelliteInfo_SatelliteSystem := "QGeoSatelliteInfo::SatelliteSystem"%string.
Definition QGeoShape := "QGeoShape"%string.
Definition QGeoShape_ShapeType := "QGeoShape::ShapeType"%string.
Definition QGeometry := "QGeometry"%string.
Definition QGeometryRenderer := "QGeometryRenderer"%string.
Definition QGeometryView := "QGeometryView"%string.
Definition QGesture := "QGesture"%string.
Definition QGestureEvent := "QGestureEvent"%string.
Definition QGestureRecognizer := "QGestureRecognizer"%string.
Definition QGesture_GestureCancelPolicy := "QGesture::GestureCancelPolicy"%string.
Definition QGlyphRun := "QGlyphRun"%string.
Definition QGlyphRun_GlyphRunFlag := "QGlyphRun::GlyphRunFlag"%string.
Definition QGlyphRun_GlyphRunFlags := "QGlyphRun::GlyphRunFlags"%string.
Definition QGoochMaterial := "QGoochMaterial"%string.
Definition QGradient := "QGradient"%string.
Definition QGradient_CoordinateMode := "QGradient::CoordinateMode"%string.
Definition QGradient_Preset := "QGradient::Preset"%string.
Definition QGradient_Spread := "QGradient::Spread"%string.
Definition QGradient_Type := "QGradient::Type"%string.
Definition QGraphicsAnchor := "QGraphicsAnchor"%string.
Definition QGraphicsAnchorLayout := "QGraphicsAnchorLayout"%string.
Definition QGraphicsApiFilter := "QGraphicsApiFilter"%string.
Definition QGraphicsBlurEffect := "QGraphicsBlurEffect"%string.
Definition QGraphicsColorizeEffect := "QGraphicsColorizeEffect"%string.
Definition QGraphicsDropShadowEffect := "QGraphicsDropShadowEffect"%string.
Definition QGraphicsEffect := "QGraphicsEffect"%string.
Definition QGraphicsEllipseItem := "QGraphicsEllipseItem"%string.
Definition QGraphicsGridLayout := "QGraphicsGridLayout"%string.
Definition QGraphicsItem := "QGraphicsItem"%string.
Definition QGraphicsItemGroup := "QGraphicsItemGroup"%string.
Definition QGraphicsItem_CacheMode := "QGraphicsItem::CacheMode"%string.
Definition QGraphicsItem_GraphicsItemFlag := "QGraphicsItem::GraphicsItemFlag"%string.
Definition QGraphicsItem_GraphicsItemFlags := "QGraphicsItem::GraphicsItemFlags"%string.
Definition QGraphicsItem_PanelModality := "QGraphicsItem::PanelModality"%string.
Definition QGraphicsLayout := "QGraphicsLayout"%string.
Definition QGraphicsLayoutItem := "QGraphicsLayoutItem"%string.
Definition QGraphicsLineItem := "QGraphicsLineItem"%string.
Definition QGraphicsLinearLayout := "QGraphicsLinearLayout"%string.
Definition QGraphicsObject := "QGraphicsObject"%string.
Definition QGraphicsOpacityEffect := "QGraphicsOpacityEffect"%string.
Definition QGraphicsPathItem := "QGraphicsPathItem"%string.
Definition QGraphicsPixmapItem := "QGraphicsPixmapItem"%string.
Definition QGraphicsPixmapItem_ShapeMode := "QGraphicsPixmapItem::ShapeMode"%string.
Definition QGraphicsPolygonItem := "QGraphicsPolygonItem"%string.
Definition QGraphicsProxyWidget := "QGraphicsProxyWidget"%string.
Definition QGraphicsRectItem := "QGraphicsRectItem"%string.
Definition QGraphicsRotation := "QGraphicsRotation"%string.
Definition QGraphicsScale := "QGraphicsScale"%string.
Definition QGraphicsScene := "QGraphicsScene"%string.
Definition QGraphicsSceneContextMenuEvent := "QGraphicsSceneContextMenuEvent"%string.
Definition QGraphicsSceneContextMenuEvent_Reason := "QGraphicsSceneContextMenuEvent::Reason"%string.
Definition QGraphicsSceneDragDropEvent := "QGraphicsSceneDragDropEvent"%string.
Definition QGraphicsSceneEvent := "QGraphicsSceneEvent"%string.
Definition QGraphicsSceneHelpEvent := "QGraphicsSceneHelpEvent"%string.
Definition QGraphicsSceneHoverEvent := "QGraphicsSceneHoverEvent"%string.
Definition QGraphicsSceneMouseEvent := "QGraphicsSceneMouseEvent"%string.
Definition QGraphicsSceneMoveEvent := "QGraphicsSceneMoveEvent"%string.
Definition QGraphicsSceneResizeEvent := "QGraphicsSceneResizeEvent"%string.
Definition QGraphicsSceneWheelEvent := "QGraphicsSceneWheelEvent"%string.
Definition QGraphicsScene_ItemIndexMethod := "QGraphicsScene::ItemIndexMethod"%string.
Definition QGraphicsScene_ptr := "QGraphicsScene*"%string.
Definition QGraphicsSimpleTextItem := "QGraphicsSimpleTextItem"%string.
Definition QGraphicsSvgItem := "QGraphicsSvgItem"%string.
Definition QGraphicsTextItem := "QGraphicsTextItem"%string.
Definition QGraphicsTransform := "QGraphicsTransform"%string.
Definition QGraphicsVideoItem := "QGraphicsVideoItem"%string.
Definition QGraphicsView := "QGraphicsView"%string.
Definition QGraphicsView_DragMode := "QGraphicsView::DragMode"%string.
Definition QGraphicsView_OptimizationFlag := "QGraphicsView::OptimizationFlag"%string.
Definition QGraphicsView_OptimizationFlags := "QGraphicsView::OptimizationFlags"%string.
Definition QGraphicsView_ViewportAnchor := "QGraphicsView::ViewportAnchor"%string.
Definition QGraphicsView_ViewportUpdateMode := "QGraphicsView::ViewportUpdateMode"%string.
Definition QGraphicsWidget := "QGraphicsWidget"%string.
Definition QGraphsLine := "QGraphsLine"%string.
Definition QGraphsTheme := "QGraphsTheme"%string.
Definition QGraphsTheme_ColorScheme := "QGraphsTheme::ColorScheme"%string.
Definition QGraphsTheme_ColorStyle := "QGraphsTheme::ColorStyle"%string.
Definition QGraphsTheme_Theme := "QGraphsTheme::Theme"%string.
Definition QGridLayout := "QGridLayout"%string.
Definition QGroupBox := "QGroupBox"%string.
Definition QGuiApplication := "QGuiApplication"%string.
Definition QGyroscope := "QGyroscope"%string.
Definition QGyroscopeReading := "QGyroscopeReading"%string.
Definition QHBarModelMapper := "QHBarModelMapper"%string.
Definition QHBoxLayout := "QHBoxLayout"%string.
Definition QHBoxPlotModelMapper := "QHBoxPlotModelMapper"%string.
Definition QHCandlestickModelMapper := "QHCandlestickModelMapper"%string.
Definition QHPieModelMapper := "QHPieModelMapper"%string.
Definition QHXYModelMapper := "QHXYModelMapper"%string.
Definition QHeaderView := "QHeaderView"%string.
Definition QHeaderView_ResizeMode := "QHeaderView::ResizeMode"%string.
Definition QHeightMapSurfaceDataProxy := "QHeightMapSurfaceDataProxy"%string.
Definition QHelpContentItem := "QHelpContentItem"%string.
Definition QHelpContentModel := "QHelpContentModel"%string.
Definition QHelpContentWidget := "QHelpContentWidget"%string.
Definition QHelpEngine := "QHelpEngine"%string.
Definition QHelpEngineCore := "QHelpEngineCore"%string.
Definition QHelpEngineCore_ptr := "QHelpEngineCore*"%string.
Definition QHelpEvent := "QHelpEvent"%string.
Definition QHelpFilterData := "QHelpFilterData"%string.
Definition QHelpFilterEngine := "QHelpFilterEngine"%string.
Definition QHelpFilterSettingsWidget := "QHelpFilterSettingsWidget"%string.
Definition QHelpIndexModel := "QHelpIndexModel"%string.
Definition QHelpIndexWidget := "QHelpIndexWidget"%string.
Definition QHelpSearchEngine := "QHelpSearchEngine"%string.
Definition QHelpSearchEngineCore := "QHelpSearchEngineCore"%string.
Definition QHelpSearchQuery := "QHelpSearchQuery"%string.
Definition QHelpSearchQueryWidget := "QHelpSearchQueryWidget"%string.
Definition QHelpSearchQuery_FieldName := "QHelpSearchQuery::FieldName"%string.
Definition QHelpSearchResult := "QHelpSearchResult"%string.
Definition QHelpSearchResultWidget := "QHelpSearchResultWidget"%string.
Definition QHideEvent := "QHideEvent"%string.
Definition QHistoryState := "QHistoryState"%string.
Definition QHistoryState_HistoryType := "QHistoryState::HistoryType"%string.
Definition QHorizontalBarSeries := "QHorizontalBarSeries"%string.
Definition QHorizontalPercentBarSeries := "QHorizontalPercentBarSeries"%string.
Definition QHorizontalStackedBarSeries := "QHorizontalStackedBarSeries"%string.
Definition QHostAddress := "QHostAddress"%string.
Definition QHostAddress_SpecialAddress := "QHostAddress::SpecialAddress"%string.
Definition QHostInfo := "QHostInfo"%string.
Definition QHostInfo_HostInfoError := "QHostInfo::HostInfoError"%string.
Definition QHoverEvent := "QHoverEvent"%string.
Definition QHstsPolicy := "QHstsPolicy"%string.
Definition QHstsPolicy_PolicyFlags := "QHstsPolicy::PolicyFlags"%string.
Definition QHttp1Configuration := "QHttp1Configuration"%string.
Definition QHttp2Configuration := "QHttp2Configuration"%string.
Definition QHttpHeaders := "QHttpHeaders"%string.
Definition QHttpHeaders_WellKnownHeader := "QHttpHeaders::WellKnownHeader"%string.
Definition QHttpMultiPart := "QHttpMultiPart"%string.
Definition QHttpMultiPart_ContentType := "QHttpMultiPart::ContentType"%string.
Definition QHttpPart := "QHttpPart"%string.
Definition QHumidityReading := "QHumidityReading"%string.
Definition QHumiditySensor := "QHumiditySensor"%string.
Definition QIODevice := "QIODevice"%string.
Definition QIODevice_ptr := "QIODevice*"%string.
Definition QIRProximityReading := "QIRProximityReading"%string.
Definition QIRProximitySensor := "QIRProximitySensor"%string.
Definition QIcon := "QIcon"%string.
Definition QIconDragEvent := "QIconDragEvent"%string.
Definition QIconEngine := "QIconEngine"%string.
Definition QIcon_Mode := "QIcon::Mode"%string.
Definition QIcon_State := "QIcon::State"%string.
Definition QIcon_ThemeIcon := "QIcon::ThemeIcon"%string.
Definition QIdentityProxyModel := "QIdentityProxyModel"%string.
Definition QImage := "QImage"%string.
Definition QImageCapture := "QImageCapture"%string.
Definition QImageCapture_Error := "QImageCapture::Error"%string.
Definition QImageCapture_FileFormat := "QImageCapture::FileFormat"%string.
Definition QImageCapture_Quality := "QImageCapture::Quality"%string.
Definition QImageIOHandler := "QImageIOHandler"%string.
Definition QImageIOHandler_ImageOption := "QImageIOHandler::ImageOption"%string.
Definition QImageReader := "QImageReader"%string.
Definition QImageReader_ImageReaderError := "QImageReader::ImageReaderError"%string.
Definition QImageWriter := "QImageWriter"%string.
Definition QImageWriter_ImageWriterError := "QImageWriter::ImageWriterError"%string.
Definition QImage_Format := "QImage::Format"%string.
Definition QImage_InvertMode := "QImage::InvertMode"%string.
Definition QInputAspect := "QInputAspect"%string.
Definition QInputChord := "QInputChord"%string.
Definition QInputDevice := "QInputDevice"%string.
Definition QInputDevice_Capabilities := "QInputDevice::Capabilities"%string.
Definition QInputDevice_Capability := "QInputDevice::Capability"%string.
Definition QInputDevice_DeviceType := "QInputDevice::DeviceType"%string.
Definition QInputDialog := "QInputDialog"%string.
Definition QInputDialog_InputDialogOption := "QInputDialog::InputDialogOption"%string.
Definition QInputDialog_InputDialogOptions := "QInputDialog::InputDialogOptions"%string.
Definition QInputDialog_InputMode := "QInputDialog::InputMode"%string.
Definition QInputEvent := "QInputEvent"%string.
Definition QInputMethod := "QInputMethod"%string.
Definition QInputMethodEvent := "QInputMethodEvent"%string.
Definition QInputMethodEvent_Attribute := "QInputMethodEvent::Attribute"%string.
Definition QInputMethodQueryEvent := "QInputMethodQueryEvent"%string.
Definition QInputMethod_Action := "QInputMethod::Action"%string.
Definition QInputSequence := "QInputSequence"%string.
Definition QInputSettings := "QInputSettings"%string.
Definition QIntValidator := "QIntValidator"%string.
Definition QItemDelegate := "QItemDelegate"%string.
Definition QItemEditorFactory := "QItemEditorFactory"%string.
Definition QItemModelBarDataProxy := "QItemModelBarDataProxy"%string.
Definition QItemModelBarDataProxy_MultiMatchBehavior := "QItemModelBarDataProxy::MultiMatchBehavior"%string.
Definition QItemModelScatterDataProxy := "QItemModelScatterDataProxy"%string.
Definition QItemModelSurfaceDataProxy := "QItemModelSurfaceDataProxy"%string.
Definition QItemModelSurfaceDataProxy_MultiMatchBehavior := "QItemModelSurfaceDataProxy::MultiMatchBehavior"%string.
Definition QItemSelection := "QItemSelection"%string.
Definition QItemSelectionModel := "QItemSelectionModel"%string.
Definition QItemSelectionRange := "QItemSelectionRange"%string.
Definition QJSEngine := "QJSEngine"%string.
Definition QJSEngine_ObjectOwnership := "QJSEngine::ObjectOwnership"%string.
Definition QJSEngine_ptr := "QJSEngine*"%string.
Definition QJSManagedValue := "QJSManagedValue"%string.
Definition QJSManagedValue_Type := "QJSManagedValue::Type"%string.
Definition QJSPrimitiveValue := "QJSPrimitiveValue"%string.
Definition QJSPrimitiveValue_Type := "QJSPrimitiveValue::Type"%string.
Definition QJSValue := "QJSValue"%string.
Definition QJSValueIterator := "QJSValueIterator"%string.
Definition QJSValue_ErrorType := "QJSValue::ErrorType"%string.
Definition QJSValue_ObjectConversionBehavior := "QJSValue::ObjectConversionBehavior"%string.
Definition QJSValue_SpecialValue := "QJSValue::SpecialValue"%string.
Definition QJoint := "QJoint"%string.
Definition QJsonArray := "QJsonArray"%string.
Definition QJsonDocument := "QJsonDocument"%string.
Definition QJsonDocument_JsonFormat := "QJsonDocument::JsonFormat"%string.
Definition QJsonObject := "QJsonObject"%string.
Definition QJsonValue := "QJsonValue"%string.
Definition QJsonValue_JsonFormat := "QJsonValue::JsonFormat"%string.
Definition QJsonValue_Type := "QJsonValue::Type"%string.
Definition QKeyCombination := "QKeyCombination"%string.
Definition QKeyEvent := "QKeyEvent"%string.
Definition QKeyEventTransition := "QKeyEventTransition"%string.
Definition QKeyFrame := "QKeyFrame"%string.
Definition QKeySequence := "QKeySequence"%string.
Definition QKeySequenceEdit := "QKeySequenceEdit"%string.
Definition QKeySequence_SequenceFormat := "QKeySequence::SequenceFormat"%string.
Definition QKeySequence_SequenceMatch := "QKeySequence::SequenceMatch"%string.
Definition QKeySequence_StandardKey := "QKeySequence::StandardKey"%string.
Definition QKeyboardDevice := "QKeyboardDevice"%string.
Definition QKeyboardHandler := "QKeyboardHandler"%string.
Definition QKeyframeAnimation := "QKeyframeAnimation"%string.
Definition QLCDNumber := "QLCDNumber"%string.
Definition QLCDNumber_Mode := "QLCDNumber::Mode"%string.
Definition QLCDNumber_SegmentStyle := "QLCDNumber::SegmentStyle"%string.
Definition QLabel := "QLabel"%string.
Definition QLayer := "QLayer"%string.
Definition QLayerFilter := "QLayerFilter"%string.
Definition QLayout := "QLayout"%string.
Definition QLayoutItem := "QLayoutItem"%string.
Definition QLayout_SizeConstraint := "QLayout::SizeConstraint"%string.
Definition QLayout_ptr := "QLayout*"%string.
Definition QLegend := "QLegend"%string.
Definition QLegendMarker := "QLegendMarker"%string.
Definition QLegendMarker_LegendMarkerType := "QLegendMarker::LegendMarkerType"%string.
Definition QLegend_MarkerShape := "QLegend::MarkerShape"%string.
Definition QLegend_ptr := "QLegend*"%string.
Definition QLerpClipBlend := "QLerpClipBlend"%string.
Definition QLevelOfDetail := "QLevelOfDetail"%string.
Definition QLevelOfDetailBoundingSphere := "QLevelOfDetailBoundingSphere"%string.
Definition QLevelOfDetailSwitch := "QLevelOfDetailSwitch"%string.
Definition QLibrary := "QLibrary"%string.
Definition QLibraryInfo := "QLibraryInfo"%string.
Definition QLibraryInfo_LibraryPath := "QLibraryInfo::LibraryPath"%string.
Definition QLidReading := "QLidReading"%string.
Definition QLidSensor := "QLidSensor"%string.
Definition QLightReading := "QLightReading"%string.
Definition QLightSensor := "QLightSensor"%string.
Definition QLine := "QLine"%string.
Definition QLineEdit := "QLineEdit"%string.
Definition QLineEdit_EchoMode := "QLineEdit::EchoMode"%string.
Definition QLineF := "QLineF"%string.
Definition QLineSeries := "QLineSeries"%string.
Definition QLineSeries_ptr := "QLineSeries*"%string.
Definition QLineWidth := "QLineWidth"%string.
Definition QLinearGradient := "QLinearGradient"%string.
Definition QListView := "QListView"%string.
Definition QListView_Flow := "QListView::Flow"%string.
Definition QListView_LayoutMode := "QListView::LayoutMode"%string.
Definition QListView_Movement := "QListView::Movement"%string.
Definition QListView_ResizeMode := "QListView::ResizeMode"%string.
Definition QListView_ViewMode := "QListView::ViewMode"%string.
Definition QListWidget := "QListWidget"%string.
Definition QListWidgetItem := "QListWidgetItem"%string.
Definition QListWidget_ptr := "QListWidget*"%string.
Definition QList_QEventPoint := "QList<QEventPoint>"%string.
Definition QList_QGeoCoordinate := "QList<QGeoCoordinate>"%string.
Definition QList_QGesture_ptr := "QList<QGesture*>"%string.
Definition QList_QInputMethodEvent_Attribute := "QList<QInputMethodEvent::Attribute>"%string.
Definition QList_QNdefRecord := "QList<QNdefRecord>"%string.
Definition QList_QPoint := "QList<QPoint>"%string.
Definition QList_QPointF := "QList<QPointF>"%string.
Definition QList_int := "QList<int>"%string.
Definition QLocalServer := "QLocalServer"%string.
Definition QLocalServer_SocketOptions := "QLocalServer::SocketOptions"%string.
Definition QLocalSocket := "QLocalSocket"%string.
Definition QLocalSocket_LocalSocketError := "QLocalSocket::LocalSocketError"%string.
Definition QLocalSocket_LocalSocketState := "QLocalSocket::LocalSocketState"%string.
Definition QLocalSocket_SocketOptions := "QLocalSocket::SocketOptions"%string.
Definition QLocale := "QLocale"%string.
Definition QLocale_Country := "QLocale::Country"%string.
Definition QLocale_CurrencySymbolFormat := "QLocale::CurrencySymbolFormat"%string.
Definition QLocale_FormatType := "QLocale::FormatType"%string.
Definition QLocale_Language := "QLocale::Language"%string.
Definition QLocale_MeasurementSystem := "QLocale::MeasurementSystem"%string.
Definition QLocale_Script := "QLocale::Script"%string.
Definition QLocale_TagSeparator := "QLocale::TagSeparator"%string.
Definition QLocale_Territory := "QLocale::Territory"%string.
Definition QLocationPermission := "QLocationPermission"%string.
Definition QLocationPermission_Accuracy := "QLocationPermission::Accuracy"%string.
Definition QLocationPermission_Availability := "QLocationPermission::Availability"%string.
Definition QLockFile := "QLockFile"%string.
Definition QLockFile_LockError := "QLockFile::LockError"%string.
Definition QLogValue3DAxisFormatter := "QLogValue3DAxisFormatter"%string.
Definition QLogValueAxis := "QLogValueAxis"%string.
Definition QLoggingCategory := "QLoggingCategory"%string.
Definition QLogicAspect := "QLogicAspect"%string.
Definition QLogicalDevice := "QLogicalDevice"%string.
Definition QLowEnergyAdvertisingData := "QLowEnergyAdvertisingData"%string.
Definition QLowEnergyAdvertisingData_Discoverability := "QLowEnergyAdvertisingData::Discoverability"%string.
Definition QLowEnergyAdvertisingParameters := "QLowEnergyAdvertisingParameters"%string.
Definition QLowEnergyAdvertisingParameters_FilterPolicy := "QLowEnergyAdvertisingParameters::FilterPolicy"%string.
Definition QLowEnergyAdvertisingParameters_Mode := "QLowEnergyAdvertisingParameters::Mode"%string.
Definition QLowEnergyCharacteristic := "QLowEnergyCharacteristic"%string.
Definition QLowEnergyCharacteristicData := "QLowEnergyCharacteristicData"%string.
Definition QLowEnergyConnectionParameters := "QLowEnergyConnectionParameters"%string.
Definition QLowEnergyController := "QLowEnergyController"%string.
Definition QLowEnergyController_ControllerState := "QLowEnergyController::ControllerState"%string.
Definition QLowEnergyController_Error := "QLowEnergyController::Error"%string.
Definition QLowEnergyController_RemoteAddressType := "QLowEnergyController::RemoteAddressType"%string.
Definition QLowEnergyController_Role := "QLowEnergyController::Role"%string.
Definition QLowEnergyDescriptor := "QLowEnergyDescriptor"%string.
Definition QLowEnergyDescriptorData := "QLowEnergyDescriptorData"%string.
Definition QLowEnergyService := "QLowEnergyService"%string.
Definition QLowEnergyServiceData := "QLowEnergyServiceData"%string.
Definition QLowEnergyServiceData_ServiceType := "QLowEnergyServiceData::ServiceType"%string.
Definition QLowEnergyService_DiscoveryMode := "QLowEnergyService::DiscoveryMode"%string.
Definition QLowEnergyService_ServiceError := "QLowEnergyService::ServiceError"%string.
Definition QLowEnergyService_ServiceState := "QLowEnergyService::ServiceState"%string.
Definition QLowEnergyService_ServiceTypes := "QLowEnergyService::ServiceTypes"%string.
Definition QLowEnergyService_WriteMode := "QLowEnergyService::WriteMode"%string.
Definition QMagnetometer := "QMagnetometer"%string.
Definition QMagnetometerReading := "QMagnetometerReading"%string.
Definition QMainWindow := "QMainWindow"%string.
Definition QMap_QString_QString := "QMap<QString, QString>"%string.
Definition QMargins := "QMargins"%string.
Definition QMarginsF := "QMarginsF"%string.
Definition QMaskGenerator := "QMaskGenerator"%string.
Definition QMaterial := "QMaterial"%string.
Definition QMatrix2x2 := "QMatrix2x2"%string.
Definition QMatrix2x3 := "QMatrix2x3"%string.
Definition QMatrix2x4 := "QMatrix2x4"%string.
Definition QMatrix3x2 := "QMatrix3x2"%string.
Definition QMatrix3x3 := "QMatrix3x3"%string.
Definition QMatrix3x4 := "QMatrix3x4"%string.
Definition QMatrix4x2 := "QMatrix4x2"%string.
Definition QMatrix4x3 := "QMatrix4x3"%string.
Definition QMatrix4x4 := "QMatrix4x4"%string.
Definition QMdiArea := "QMdiArea"%string.
Definition QMdiArea_AreaOption := "QMdiArea::AreaOption"%string.
Definition QMdiArea_ViewMode := "QMdiArea::ViewMode"%string.
Definition QMdiArea_WindowOrder := "QMdiArea::WindowOrder"%string.
Definition QMdiSubWindow := "QMdiSubWindow"%string.
Definition QMdiSubWindow_SubWindowOption := "QMdiSubWindow::SubWindowOption"%string.
Definition QMediaCaptureSession := "QMediaCaptureSession"%string.
Definition QMediaDevices := "QMediaDevices"%string.
Definition QMediaFormat := "QMediaFormat"%string.
Definition QMediaFormat_AudioCodec := "QMediaFormat::AudioCodec"%string.
Definition QMediaFormat_ConversionMode := "QMediaFormat::ConversionMode"%string.
Definition QMediaFormat_FileFormat := "QMediaFormat::FileFormat"%string.
Definition QMediaFormat_ResolveFlags := "QMediaFormat::ResolveFlags"%string.
Definition QMediaFormat_VideoCodec := "QMediaFormat::VideoCodec"%string.
Definition QMediaMetaData := "QMediaMetaData"%string.
Definition QMediaMetaData_Key := "QMediaMetaData::Key"%string.
Definition QMediaPlayer := "QMediaPlayer"%string.
Definition QMediaPlayer_Error := "QMediaPlayer::Error"%string.
Definition QMediaPlayer_MediaStatus := "QMediaPlayer::MediaStatus"%string.
Definition QMediaPlayer_PitchCompensationAvailability := "QMediaPlayer::PitchCompensationAvailability"%string.
Definition QMediaPlayer_PlaybackState := "QMediaPlayer::PlaybackState"%string.
Definition QMediaRecorder := "QMediaRecorder"%string.
Definition QMediaRecorder_EncodingMode := "QMediaRecorder::EncodingMode"%string.
Definition QMediaRecorder_Error := "QMediaRecorder::Error"%string.
Definition QMediaRecorder_Quality := "QMediaRecorder::Quality"%string.
Definition QMediaRecorder_RecorderState := "QMediaRecorder::RecorderState"%string.
Definition QMediaTimeRange := "QMediaTimeRange"%string.
Definition QMediaTimeRange_Interval := "QMediaTimeRange::Interval"%string.
Definition QMemoryBarrier := "QMemoryBarrier"%string.
Definition QMenu := "QMenu"%string.
Definition QMenuBar := "QMenuBar"%string.
Definition QMesh := "QMesh"%string.
Definition QMessageAuthenticationCode := "QMessageAuthenticationCode"%string.
Definition QMessageBox := "QMessageBox"%string.
Definition QMessageBox_ButtonRole := "QMessageBox::ButtonRole"%string.
Definition QMessageBox_Icon := "QMessageBox::Icon"%string.
Definition QMessageBox_Option := "QMessageBox::Option"%string.
Definition QMessageBox_Options := "QMessageBox::Options"%string.
Definition QMessageBox_StandardButton := "QMessageBox::StandardButton"%string.
Definition QMessageBox_StandardButtons := "QMessageBox::StandardButtons"%string.
Definition QMessageLogger := "QMessageLogger"%string.
Definition QMetaClassInfo := "QMetaClassInfo"%string.
Definition QMetaEnum := "QMetaEnum"%string.
Definition QMetaMethod := "QMetaMethod"%string.
Definition QMetaMethod_Access := "QMetaMethod::Access"%string.
Definition QMetaMethod_MethodType := "QMetaMethod::MethodType"%string.
Definition QMetaProperty := "QMetaProperty"%string.
Definition QMetaType := "QMetaType"%string.
Definition QMetalRoughMaterial := "QMetalRoughMaterial"%string.
Definition QMicrophonePermission := "QMicrophonePermission"%string.
Definition QMimeData := "QMimeData"%string.
Definition QMimeData_ptr := "QMimeData*"%string.
Definition QMimeDatabase := "QMimeDatabase"%string.
Definition QMimeDatabase_MatchMode := "QMimeDatabase::MatchMode"%string.
Definition QMimeType := "QMimeType"%string.
Definition QModelIndex := "QModelIndex"%string.
Definition QModelRoleData := "QModelRoleData"%string.
Definition QModelRoleDataSpan := "QModelRoleDataSpan"%string.
Definition QMorphPhongMaterial := "QMorphPhongMaterial"%string.
Definition QMorphTarget := "QMorphTarget"%string.
Definition QMorphingAnimation := "QMorphingAnimation"%string.
Definition QMouseDevice := "QMouseDevice"%string.
Definition QMouseEvent := "QMouseEvent"%string.
Definition QMouseEventTransition := "QMouseEventTransition"%string.
Definition QMouseHandler := "QMouseHandler"%string.
Definition QMoveEvent := "QMoveEvent"%string.
Definition QMovie := "QMovie"%string.
Definition QMovie_CacheMode := "QMovie::CacheMode"%string.
Definition QMovie_MovieState := "QMovie::MovieState"%string.
Definition QMultiSampleAntiAliasing := "QMultiSampleAntiAliasing"%string.
Definition QMutex := "QMutex"%string.
Definition QNativeGestureEvent := "QNativeGestureEvent"%string.
Definition QNativeIpcKey := "QNativeIpcKey"%string.
Definition QNativeIpcKey_Type := "QNativeIpcKey::Type"%string.
Definition QNdefFilter := "QNdefFilter"%string.
Definition QNdefFilter_Record := "QNdefFilter::Record"%string.
Definition QNdefMessage := "QNdefMessage"%string.
Definition QNdefNfcIconRecord := "QNdefNfcIconRecord"%string.
Definition QNdefNfcSmartPosterRecord := "QNdefNfcSmartPosterRecord"%string.
Definition QNdefNfcSmartPosterRecord_Action := "QNdefNfcSmartPosterRecord::Action"%string.
Definition QNdefNfcTextRecord := "QNdefNfcTextRecord"%string.
Definition QNdefNfcTextRecord_Encoding := "QNdefNfcTextRecord::Encoding"%string.
Definition QNdefNfcUriRecord := "QNdefNfcUriRecord"%string.
Definition QNdefRecord := "QNdefRecord"%string.
Definition QNdefRecord_TypeNameFormat := "QNdefRecord::TypeNameFormat"%string.
Definition QNearFieldManager := "QNearFieldManager"%string.
Definition QNearFieldTarget := "QNearFieldTarget"%string.
Definition QNearFieldTarget_AccessMethod := "QNearFieldTarget::AccessMethod"%string.
Definition QNearFieldTarget_AccessMethods := "QNearFieldTarget::AccessMethods"%string.
Definition QNearFieldTarget_RequestId := "QNearFieldTarget::RequestId"%string.
Definition QNearFieldTarget_Type := "QNearFieldTarget::Type"%string.
Definition QNetworkAccessManager := "QNetworkAccessManager"%string.
Definition QNetworkAccessManager_Operation := "QNetworkAccessManager::Operation"%string.
Definition QNetworkAccessManager_ptr := "QNetworkAccessManager*"%string.
Definition QNetworkAddressEntry := "QNetworkAddressEntry"%string.
Definition QNetworkAddressEntry_DnsEligibilityStatus := "QNetworkAddressEntry::DnsEligibilityStatus"%string.
Definition QNetworkCacheMetaData := "QNetworkCacheMetaData"%string.
Definition QNetworkCookie := "QNetworkCookie"%string.
Definition QNetworkCookieJar := "QNetworkCookieJar"%string.
Definition QNetworkCookie_RawForm := "QNetworkCookie::RawForm"%string.
Definition QNetworkCookie_SameSite := "QNetworkCookie::SameSite"%string.
Definition QNetworkDatagram := "QNetworkDatagram"%string.
Definition QNetworkDiskCache := "QNetworkDiskCache"%string.
Definition QNetworkInformation := "QNetworkInformation"%string.
Definition QNetworkInformation_Features := "QNetworkInformation::Features"%string.
Definition QNetworkInformation_Reachability := "QNetworkInformation::Reachability"%string.
Definition QNetworkInformation_TransportMedium := "QNetworkInformation::TransportMedium"%string.
Definition QNetworkInterface := "QNetworkInterface"%string.
Definition QNetworkInterface_InterfaceType := "QNetworkInterface::InterfaceType"%string.
Definition QNetworkProxy := "QNetworkProxy"%string.
Definition QNetworkProxyFactory := "QNetworkProxyFactory"%string.
Definition QNetworkProxyQuery := "QNetworkProxyQuery"%string.
Definition QNetworkProxyQuery_QueryType := "QNetworkProxyQuery::QueryType"%string.
Definition QNetworkProxy_Capabilities := "QNetworkProxy::Capabilities"%string.
Definition QNetworkProxy_ProxyType := "QNetworkProxy::ProxyType"%string.
Definition QNetworkReply := "QNetworkReply"%string.
Definition QNetworkReply_NetworkError := "QNetworkReply::NetworkError"%string.
Definition QNetworkReply_ptr := "QNetworkReply*"%string.
Definition QNetworkRequest := "QNetworkRequest"%string.
Definition QNetworkRequestFactory := "QNetworkRequestFactory"%string.
Definition QNetworkRequest_Attribute := "QNetworkRequest::Attribute"%string.
Definition QNetworkRequest_KnownHeaders := "QNetworkRequest::KnownHeaders"%string.
Definition QNetworkRequest_Priority := "QNetworkRequest::Priority"%string.
Definition QNetworkRequest_RedirectPolicy := "QNetworkRequest::RedirectPolicy"%string.
Definition QNmeaPositionInfoSource := "QNmeaPositionInfoSource"%string.
Definition QNmeaPositionInfoSource_UpdateMode := "QNmeaPositionInfoSource::UpdateMode"%string.
Definition QNmeaSatelliteInfoSource := "QNmeaSatelliteInfoSource"%string.
Definition QNmeaSatelliteInfoSource_UpdateMode := "QNmeaSatelliteInfoSource::UpdateMode"%string.
Definition QNoDepthMask := "QNoDepthMask"%string.
Definition QNoDraw := "QNoDraw"%string.
Definition QNoPicking := "QNoPicking"%string.
Definition QNode := "QNode"%string.
Definition QNodeId := "QNodeId"%string.
Definition QNormalDiffuseMapAlphaMaterial := "QNormalDiffuseMapAlphaMaterial"%string.
Definition QNormalDiffuseMapMaterial := "QNormalDiffuseMapMaterial"%string.
Definition QNormalDiffuseSpecularMapMaterial := "QNormalDiffuseSpecularMapMaterial"%string.
Definition QOAuth1 := "QOAuth1"%string.
Definition QOAuth1Signature := "QOAuth1Signature"%string.
Definition QOAuth1Signature_HttpRequestMethod := "QOAuth1Signature::HttpRequestMethod"%string.
Definition QOAuth1_SignatureMethod := "QOAuth1::SignatureMethod"%string.
Definition QOAuth2AuthorizationCodeFlow := "QOAuth2AuthorizationCodeFlow"%string.
Definition QOAuthHttpServerReplyHandler := "QOAuthHttpServerReplyHandler"%string.
Definition QOAuthOobReplyHandler := "QOAuthOobReplyHandler"%string.
Definition QObject := "QObject"%string.
Definition QObjectCleanupHandler := "QObjectCleanupHandler"%string.
Definition QObjectPicker := "QObjectPicker"%string.
Definition QObject_ptr := "QObject*"%string.
Definition QOcspResponse := "QOcspResponse"%string.
Definition QOffscreenSurface := "QOffscreenSurface"%string.
Definition QOpenGLBuffer := "QOpenGLBuffer"%string.
Definition QOpenGLBuffer_Type := "QOpenGLBuffer::Type"%string.
Definition QOpenGLBuffer_UsagePattern := "QOpenGLBuffer::UsagePattern"%string.
Definition QOpenGLContext := "QOpenGLContext"%string.
Definition QOpenGLContextGroup := "QOpenGLContextGroup"%string.
Definition QOpenGLContext_OpenGLModuleType := "QOpenGLContext::OpenGLModuleType"%string.
Definition QOpenGLContext_ptr := "QOpenGLContext*"%string.
Definition QOpenGLDebugLogger := "QOpenGLDebugLogger"%string.
Definition QOpenGLDebugLogger_LoggingMode := "QOpenGLDebugLogger::LoggingMode"%string.
Definition QOpenGLDebugMessage := "QOpenGLDebugMessage"%string.
Definition QOpenGLDebugMessage_Severities := "QOpenGLDebugMessage::Severities"%string.
Definition QOpenGLDebugMessage_Severity := "QOpenGLDebugMessage::Severity"%string.
Definition QOpenGLDebugMessage_Source := "QOpenGLDebugMessage::Source"%string.
Definition QOpenGLDebugMessage_Sources := "QOpenGLDebugMessage::Sources"%string.
Definition QOpenGLDebugMessage_Type := "QOpenGLDebugMessage::Type"%string.
Definition QOpenGLDebugMessage_Types := "QOpenGLDebugMessage::Types"%string.
Definition QOpenGLFramebufferObject := "QOpenGLFramebufferObject"%string.
Definition QOpenGLFramebufferObjectFormat := "QOpenGLFramebufferObjectFormat"%string.
Definition QOpenGLFramebufferObject_Attachment := "QOpenGLFramebufferObject::Attachment"%string.
Definition QOpenGLFunctions_2_0 := "QOpenGLFunctions_2_0"%string.
Definition QOpenGLFunctions_2_1 := "QOpenGLFunctions_2_1"%string.
Definition QOpenGLFunctions_4_1_Core := "QOpenGLFunctions_4_1_Core"%string.
Definition QOpenGLPaintDevice := "QOpenGLPaintDevice"%string.
Definition QOpenGLPixelTransferOptions := "QOpenGLPixelTransferOptions"%string.
Definition QOpenGLShader := "QOpenGLShader"%string.
Definition QOpenGLShaderProgram := "QOpenGLShaderProgram"%string.
Definition QOpenGLShader_ShaderType := "QOpenGLShader::ShaderType"%string.
Definition QOpenGLTexture := "QOpenGLTexture"%string.
Definition QOpenGLTextureBlitter := "QOpenGLTextureBlitter"%string.
Definition QOpenGLTextureBlitter_Origin := "QOpenGLTextureBlitter::Origin"%string.
Definition QOpenGLTexture_ComparisonFunction := "QOpenGLTexture::ComparisonFunction"%string.
Definition QOpenGLTexture_ComparisonMode := "QOpenGLTexture::ComparisonMode"%string.
Definition QOpenGLTexture_CoordinateDirection := "QOpenGLTexture::CoordinateDirection"%string.
Definition QOpenGLTexture_DepthStencilMode := "QOpenGLTexture::DepthStencilMode"%string.
Definition QOpenGLTexture_Feature := "QOpenGLTexture::Feature"%string.
Definition QOpenGLTexture_Filter := "QOpenGLTexture::Filter"%string.
Definition QOpenGLTexture_MipMapGeneration := "QOpenGLTexture::MipMapGeneration"%string.
Definition QOpenGLTexture_PixelFormat := "QOpenGLTexture::PixelFormat"%string.
Definition QOpenGLTexture_PixelType := "QOpenGLTexture::PixelType"%string.
Definition QOpenGLTexture_SwizzleComponent := "QOpenGLTexture::SwizzleComponent"%string.
Definition QOpenGLTexture_SwizzleValue := "QOpenGLTexture::SwizzleValue"%string.
Definition QOpenGLTexture_Target := "QOpenGLTexture::Target"%string.
Definition QOpenGLTexture_TextureFormat := "QOpenGLTexture::TextureFormat"%string.
Definition QOpenGLTexture_TextureUnitReset := "QOpenGLTexture::TextureUnitReset"%string.
Definition QOpenGLTexture_WrapMode := "QOpenGLTexture::WrapMode"%string.
Definition QOpenGLTimeMonitor := "QOpenGLTimeMonitor"%string.
Definition QOpenGLTimerQuery := "QOpenGLTimerQuery"%string.
Definition QOpenGLVersionProfile := "QOpenGLVersionProfile"%string.
Definition QOpenGLVertexArrayObject := "QOpenGLVertexArrayObject"%string.
Definition QOpenGLWidget := "QOpenGLWidget"%string.
Definition QOpenGLWidget_TargetBuffer := "QOpenGLWidget::TargetBuffer"%string.
Definition QOpenGLWidget_UpdateBehavior := "QOpenGLWidget::UpdateBehavior"%string.
Definition QOpenGLWindow := "QOpenGLWindow"%string.
Definition QOpenGLWindow_UpdateBehavior := "QOpenGLWindow::UpdateBehavior"%string.
Definition QOperatingSystemVersion := "QOperatingSystemVersion"%string.
Definition QOperatingSystemVersionBase := "QOperatingSystemVersionBase"%string.
Definition QOperatingSystemVersion_OSType := "QOperatingSystemVersion::OSType"%string.
Definition QOrbitCameraController := "QOrbitCameraController"%string.
Definition QOrientationReading := "QOrientationReading"%string.
Definition QOrientationReading_Orientation := "QOrientationReading::Orientation"%string.
Definition QOrientationSensor := "QOrientationSensor"%string.
Definition QPageLayout := "QPageLayout"%string.
Definition QPageLayout_Mode := "QPageLayout::Mode"%string.
Definition QPageLayout_Orientation := "QPageLayout::Orientation"%string.
Definition QPageLayout_OutOfBoundsPolicy := "QPageLayout::OutOfBoundsPolicy"%string.
Definition QPageLayout_Unit := "QPageLayout::Unit"%string.
Definition QPageRanges := "QPageRanges"%string.
Definition QPageSetupDialog := "QPageSetupDialog"%string.
Definition QPageSize := "QPageSize"%string.
Definition QPageSize_PageSizeId := "QPageSize::PageSizeId"%string.
Definition QPageSize_SizeMatchPolicy := "QPageSize::SizeMatchPolicy"%string.
Definition QPageSize_Unit := "QPageSize::Unit"%string.
Definition QPagedPaintDevice := "QPagedPaintDevice"%string.
Definition QPagedPaintDevice_PdfVersion := "QPagedPaintDevice::PdfVersion"%string.
Definition QPaintDevice := "QPaintDevice"%string.
Definition QPaintDeviceWindow := "QPaintDeviceWindow"%string.
Definition QPaintEngine := "QPaintEngine"%string.
Definition QPaintEngineState := "QPaintEngineState"%string.
Definition QPaintEngine_PaintEngineFeatures := "QPaintEngine::PaintEngineFeatures"%string.
Definition QPaintEvent := "QPaintEvent"%string.
Definition QPaintedTextureImage := "QPaintedTextureImage"%string.
Definition QPainter := "QPainter"%string.
Definition QPainterPath := "QPainterPath"%string.
Definition QPainterPathStroker := "QPainterPathStroker"%string.
Definition QPainterPath_Element := "QPainterPath::Element"%string.
Definition QPainterStateGuard := "QPainterStateGuard"%string.
Definition QPainter_CompositionMode := "QPainter::CompositionMode"%string.
Definition QPainter_RenderHint := "QPainter::RenderHint"%string.
Definition QPainter_RenderHints := "QPainter::RenderHints"%string.
Definition QPalette := "QPalette"%string.
Definition QPalette_ColorGroup := "QPalette::ColorGroup"%string.
Definition QPalette_ColorRole := "QPalette::ColorRole"%string.
Definition QPanGesture := "QPanGesture"%string.
Definition QParallelAnimationGroup := "QParallelAnimationGroup"%string.
Definition QParameter := "QParameter"%string.
Definition QPauseAnimation := "QPauseAnimation"%string.
Definition QPdfBookmarkModel := "QPdfBookmarkModel"%string.
Definition QPdfDocument := "QPdfDocument"%string.
Definition QPdfDocumentRenderOptions := "QPdfDocumentRenderOptions"%string.
Definition QPdfDocumentRenderOptions_Rotation := "QPdfDocumentRenderOptions::Rotation"%string.
Definition QPdfDocument_Error := "QPdfDocument::Error"%string.
Definition QPdfDocument_MetaDataField := "QPdfDocument::MetaDataField"%string.
Definition QPdfDocument_Status := "QPdfDocument::Status"%string.
Definition QPdfLink := "QPdfLink"%string.
Definition QPdfLinkModel := "QPdfLinkModel"%string.
Definition QPdfOutputIntent := "QPdfOutputIntent"%string.
Definition QPdfPageNavigator := "QPdfPageNavigator"%string.
Definition QPdfPageRenderer := "QPdfPageRenderer"%string.
Definition QPdfPageRenderer_RenderMode := "QPdfPageRenderer::RenderMode"%string.
Definition QPdfPageSelector := "QPdfPageSelector"%string.
Definition QPdfSearchModel := "QPdfSearchModel"%string.
Definition QPdfSelection := "QPdfSelection"%string.
Definition QPdfView := "QPdfView"%string.
Definition QPdfView_PageMode := "QPdfView::PageMode"%string.
Definition QPdfView_ZoomMode := "QPdfView::ZoomMode"%string.
Definition QPdfWriter := "QPdfWriter"%string.
Definition QPdfWriter_ColorModel := "QPdfWriter::ColorModel"%string.
Definition QPen := "QPen"%string.
Definition QPerVertexColorMaterial := "QPerVertexColorMaterial"%string.
Definition QPercentBarSeries := "QPercentBarSeries"%string.
Definition QPermission := "QPermission"%string.
Definition QPersistentModelIndex := "QPersistentModelIndex"%string.
Definition QPhongAlphaMaterial := "QPhongAlphaMaterial"%string.
Definition QPhongMaterial := "QPhongMaterial"%string.
Definition QPickEvent := "QPickEvent"%string.
Definition QPickLineEvent := "QPickLineEvent"%string.
Definition QPickPointEvent := "QPickPointEvent"%string.
Definition QPickTriangleEvent := "QPickTriangleEvent"%string.
Definition QPickingProxy := "QPickingProxy"%string.
Definition QPickingSettings := "QPickingSettings"%string.
Definition QPicture := "QPicture"%string.
Definition QPieLegendMarker := "QPieLegendMarker"%string.
Definition QPieModelMapper := "QPieModelMapper"%string.
Definition QPieSeries := "QPieSeries"%string.
Definition QPieSeries_ptr := "QPieSeries*"%string.
Definition QPieSlice := "QPieSlice"%string.
Definition QPieSlice_LabelPosition := "QPieSlice::LabelPosition"%string.
Definition QPieSlice_ptr := "QPieSlice*"%string.
Definition QPinchGesture := "QPinchGesture"%string.
Definition QPixelFormat := "QPixelFormat"%string.
Definition QPixelFormat_AlphaPosition := "QPixelFormat::AlphaPosition"%string.
Definition QPixelFormat_AlphaPremultiplied := "QPixelFormat::AlphaPremultiplied"%string.
Definition QPixelFormat_AlphaUsage := "QPixelFormat::AlphaUsage"%string.
Definition QPixelFormat_ByteOrder := "QPixelFormat::ByteOrder"%string.
Definition QPixelFormat_ColorModel := "QPixelFormat::ColorModel"%string.
Definition QPixelFormat_TypeInterpretation := "QPixelFormat::TypeInterpretation"%string.
Definition QPixelFormat_YUVLayout := "QPixelFormat::YUVLayout"%string.
Definition QPixmap := "QPixmap"%string.
Definition QPixmapCache := "QPixmapCache"%string.
Definition QPixmapCache_Key := "QPixmapCache::Key"%string.
Definition QPlainTextDocumentLayout := "QPlainTextDocumentLayout"%string.
Definition QPlainTextEdit := "QPlainTextEdit"%string.
Definition QPlainTextEdit_LineWrapMode := "QPlainTextEdit::LineWrapMode"%string.
Definition QPlaneGeometry := "QPlaneGeometry"%string.
Definition QPlaneGeometryView := "QPlaneGeometryView"%string.
Definition QPlaneMesh := "QPlaneMesh"%string.
Definition QPlatformSurfaceEvent := "QPlatformSurfaceEvent"%string.
Definition QPlatformSurfaceEvent_SurfaceEventType := "QPlatformSurfaceEvent::SurfaceEventType"%string.
Definition QPlaybackOptions := "QPlaybackOptions"%string.
Definition QPlaybackOptions_PlaybackIntent := "QPlaybackOptions::PlaybackIntent"%string.
Definition QPluginLoader := "QPluginLoader"%string.
Definition QPoint := "QPoint"%string.
Definition QPointF := "QPointF"%string.
Definition QPointLight := "QPointLight"%string.
Definition QPointSize := "QPointSize"%string.
Definition QPointerEvent := "QPointerEvent"%string.
Definition QPointingDevice := "QPointingDevice"%string.
Definition QPointingDeviceUniqueId := "QPointingDeviceUniqueId"%string.
Definition QPointingDevice_PointerType := "QPointingDevice::PointerType"%string.
Definition QPointingDevice_ptr := "QPointingDevice*"%string.
Definition QPolarChart := "QPolarChart"%string.
Definition QPolarChart_PolarOrientation := "QPolarChart::PolarOrientation"%string.
Definition QPolarChart_PolarOrientations := "QPolarChart::PolarOrientations"%string.
Definition QPolygon := "QPolygon"%string.
Definition QPolygonF := "QPolygonF"%string.
Definition QPolygonOffset := "QPolygonOffset"%string.
Definition QPressureReading := "QPressureReading"%string.
Definition QPressureSensor := "QPressureSensor"%string.
Definition QPrintDialog := "QPrintDialog"%string.
Definition QPrintPreviewDialog := "QPrintPreviewDialog"%string.
Definition QPrintPreviewWidget := "QPrintPreviewWidget"%string.
Definition QPrintPreviewWidget_ViewMode := "QPrintPreviewWidget::ViewMode"%string.
Definition QPrintPreviewWidget_ZoomMode := "QPrintPreviewWidget::ZoomMode"%string.
Definition QPrinter := "QPrinter"%string.
Definition QPrinterInfo := "QPrinterInfo"%string.
Definition QPrinter_ColorMode := "QPrinter::ColorMode"%string.
Definition QPrinter_DuplexMode := "QPrinter::DuplexMode"%string.
Definition QPrinter_OutputFormat := "QPrinter::OutputFormat"%string.
Definition QPrinter_PageOrder := "QPrinter::PageOrder"%string.
Definition QPrinter_PaperSource := "QPrinter::PaperSource"%string.
Definition QPrinter_PrintRange := "QPrinter::PrintRange"%string.
Definition QPrinter_PrinterMode := "QPrinter::PrinterMode"%string.
Definition QPrinter_PrinterState := "QPrinter::PrinterState"%string.
Definition QPrinter_Unit := "QPrinter::Unit"%string.
Definition QProcess := "QProcess"%string.
Definition QProcessEnvironment := "QProcessEnvironment"%string.
Definition QProcessEnvironment_Initialization := "QProcessEnvironment::Initialization"%string.
Definition QProcess_ExitStatus := "QProcess::ExitStatus"%string.
Definition QProcess_InputChannelMode := "QProcess::InputChannelMode"%string.
Definition QProcess_ProcessChannel := "QProcess::ProcessChannel"%string.
Definition QProcess_ProcessChannelMode := "QProcess::ProcessChannelMode"%string.
Definition QProcess_ProcessError := "QProcess::ProcessError"%string.
Definition QProcess_ProcessState := "QProcess::ProcessState"%string.
Definition QProgressBar := "QProgressBar"%string.
Definition QProgressBar_Direction := "QProgressBar::Direction"%string.
Definition QProgressDialog := "QProgressDialog"%string.
Definition QPropertyAnimation := "QPropertyAnimation"%string.
Definition QProximityFilter := "QProximityFilter"%string.
Definition QProximityReading := "QProximityReading"%string.
Definition QProximitySensor := "QProximitySensor"%string.
Definition QProxyStyle := "QProxyStyle"%string.
Definition QPushButton := "QPushButton"%string.
Definition QPyDesignerContainerExtension := "QPyDesignerContainerExtension"%string.
Definition QPyDesignerCustomWidgetCollectionPlugin := "QPyDesignerCustomWidgetCollectionPlugin"%string.
Definition QPyDesignerCustomWidgetPlugin := "QPyDesignerCustomWidgetPlugin"%string.
Definition QPyDesignerMemberSheetExtension := "QPyDesignerMemberSheetExtension"%string.
Definition QPyDesignerPropertySheetExtension := "QPyDesignerPropertySheetExtension"%string.
Definition QPyDesignerTaskMenuExtension := "QPyDesignerTaskMenuExtension"%string.
Definition QQmlAbstractUrlInterceptor := "QQmlAbstractUrlInterceptor"%string.
Definition QQmlAbstractUrlInterceptor_DataType := "QQmlAbstractUrlInterceptor::DataType"%string.
Definition QQmlApplicationEngine := "QQmlApplicationEngine"%string.
Definition QQmlComponent := "QQmlComponent"%string.
Definition QQmlComponent_CompilationMode := "QQmlComponent::CompilationMode"%string.
Definition QQmlComponent_Status := "QQmlComponent::Status"%string.
Definition QQmlContext := "QQmlContext"%string.
Definition QQmlContext_ptr := "QQmlContext*"%string.
Definition QQmlEngine := "QQmlEngine"%string.
Definition QQmlEngineExtensionPlugin := "QQmlEngineExtensionPlugin"%string.
Definition QQmlEngine_ptr := "QQmlEngine*"%string.
Definition QQmlError := "QQmlError"%string.
Definition QQmlExpression := "QQmlExpression"%string.
Definition QQmlExtensionPlugin := "QQmlExtensionPlugin"%string.
Definition QQmlFileSelector := "QQmlFileSelector"%string.
Definition QQmlImageProviderBase := "QQmlImageProviderBase"%string.
Definition QQmlImageProviderBase_Flags := "QQmlImageProviderBase::Flags"%string.
Definition QQmlImageProviderBase_ImageType := "QQmlImageProviderBase::ImageType"%string.
Definition QQmlIncubationController := "QQmlIncubationController"%string.
Definition QQmlIncubator := "QQmlIncubator"%string.
Definition QQmlIncubator_IncubationMode := "QQmlIncubator::IncubationMode"%string.
Definition QQmlIncubator_Status := "QQmlIncubator::Status"%string.
Definition QQmlListReference := "QQmlListReference"%string.
Definition QQmlParserStatus := "QQmlParserStatus"%string.
Definition QQmlProperty := "QQmlProperty"%string.
Definition QQmlPropertyMap := "QQmlPropertyMap"%string.
Definition QQmlPropertyValueSource := "QQmlPropertyValueSource"%string.
Definition QQmlProperty_PropertyTypeCategory := "QQmlProperty::PropertyTypeCategory"%string.
Definition QQmlProperty_Type := "QQmlProperty::Type"%string.
Definition QQmlScriptString := "QQmlScriptString"%string.
Definition QQuaternion := "QQuaternion"%string.
Definition QQuaternion_Axes := "QQuaternion::Axes"%string.
Definition QQuick3D := "QQuick3D"%string.
Definition QQuick3DGeometry := "QQuick3DGeometry"%string.
Definition QQuick3DGeometry_Attribute := "QQuick3DGeometry::Attribute"%string.
Definition QQuick3DGeometry_PrimitiveType := "QQuick3DGeometry::PrimitiveType"%string.
Definition QQuick3DGeometry_TargetAttribute := "QQuick3DGeometry::TargetAttribute"%string.
Definition QQuick3DObject := "QQuick3DObject"%string.
Definition QQuick3DObject_ptr := "QQuick3DObject*"%string.
Definition QQuick3DTextureData := "QQuick3DTextureData"%string.
Definition QQuick3DTextureData_Format := "QQuick3DTextureData::Format"%string.
Definition QQuickAsyncImageProvider := "QQuickAsyncImageProvider"%string.
Definition QQuickFramebufferObject := "QQuickFramebufferObject"%string.
Definition QQuickGraphicsConfiguration := "QQuickGraphicsConfiguration"%string.
Definition QQuickGraphicsDevice := "QQuickGraphicsDevice"%string.
Definition QQuickImageProvider := "QQuickImageProvider"%string.
Definition QQuickImageResponse := "QQuickImageResponse"%string.
Definition QQuickItem := "QQuickItem"%string.
Definition QQuickItemGrabResult := "QQuickItemGrabResult"%string.
Definition QQuickItem_Flag := "QQuickItem::Flag"%string.
Definition QQuickItem_Flags := "QQuickItem::Flags"%string.
Definition QQuickItem_TransformOrigin := "QQuickItem::TransformOrigin"%string.
Definition QQuickItem_ptr := "QQuickItem*"%string.
Definition QQuickPaintedItem := "QQuickPaintedItem"%string.
Definition QQuickPaintedItem_PerformanceHint := "QQuickPaintedItem::PerformanceHint"%string.
Definition QQuickPaintedItem_PerformanceHints := "QQuickPaintedItem::PerformanceHints"%string.
Definition QQuickPaintedItem_RenderTarget := "QQuickPaintedItem::RenderTarget"%string.
Definition QQuickRenderControl := "QQuickRenderControl"%string.
Definition QQuickRenderTarget := "QQuickRenderTarget"%string.
Definition QQuickRenderTarget_Flags := "QQuickRenderTarget::Flags"%string.
Definition QQuickTextDocument := "QQuickTextDocument"%string.
Definition QQuickTextDocument_Status := "QQuickTextDocument::Status"%string.
Definition QQuickTextureFactory := "QQuickTextureFactory"%string.
Definition QQuickView := "QQuickView"%string.
Definition QQuickView_ResizeMode := "QQuickView::ResizeMode"%string.
Definition QQuickView_Status := "QQuickView::Status"%string.
Definition QQuickWebEngineProfile := "QQuickWebEngineProfile"%string.
Definition QQuickWebEngineProfile_HttpCacheType := "QQuickWebEngineProfile::HttpCacheType"%string.
Definition QQuickWebEngineProfile_PersistentCookiesPolicy := "QQuickWebEngineProfile::PersistentCookiesPolicy"%string.
Definition QQuickWidget := "QQuickWidget"%string.
Definition QQuickWidget_ResizeMode := "QQuickWidget::ResizeMode"%string.
Definition QQuickWidget_Status := "QQuickWidget::Status"%string.
Definition QQuickWindow := "QQuickWindow"%string.
Definition QQuickWindow_TextRenderType := "QQuickWindow::TextRenderType"%string.
Definition QRadialGradient := "QRadialGradient"%string.
Definition QRadioButton := "QRadioButton"%string.
Definition QRandomGenerator := "QRandomGenerator"%string.
Definition QRangeModel := "QRangeModel"%string.
Definition QRangeModel_AutoConnectPolicy := "QRangeModel::AutoConnectPolicy"%string.
Definition QRasterMode := "QRasterMode"%string.
Definition QRasterWindow := "QRasterWindow"%string.
Definition QRawFont := "QRawFont"%string.
Definition QRayCaster := "QRayCaster"%string.
Definition QRayCasterHit := "QRayCasterHit"%string.
Definition QReadLocker := "QReadLocker"%string.
Definition QReadWriteLock := "QReadWriteLock"%string.
Definition QReadWriteLock_RecursionMode := "QReadWriteLock::RecursionMode"%string.
Definition QRect := "QRect"%string.
Definition QRectF := "QRectF"%string.
Definition QRecursiveMutex := "QRecursiveMutex"%string.
Definition QRegion := "QRegion"%string.
Definition QRegion_RegionType := "QRegion::RegionType"%string.
Definition QRegularExpression := "QRegularExpression"%string.
Definition QRegularExpressionMatch := "QRegularExpressionMatch"%string.
Definition QRegularExpressionMatchIterator := "QRegularExpressionMatchIterator"%string.
Definition QRegularExpressionValidator := "QRegularExpressionValidator"%string.
Definition QRegularExpression_MatchType := "QRegularExpression::MatchType"%string.
Definition QRegularExpression_PatternOptions := "QRegularExpression::PatternOptions"%string.
Definition QRemoteObjectAbstractPersistedStore := "QRemoteObjectAbstractPersistedStore"%string.
Definition QRemoteObjectDynamicReplica := "QRemoteObjectDynamicReplica"%string.
Definition QRemoteObjectHost := "QRemoteObjectHost"%string.
Definition QRemoteObjectHostBase := "QRemoteObjectHostBase"%string.
Definition QRemoteObjectHostBase_AllowedSchemas := "QRemoteObjectHostBase::AllowedSchemas"%string.
Definition QRemoteObjectNode := "QRemoteObjectNode"%string.
Definition QRemoteObjectNode_ErrorCode := "QRemoteObjectNode::ErrorCode"%string.
Definition QRemoteObjectRegistry := "QRemoteObjectRegistry"%string.
Definition QRemoteObjectRegistryHost := "QRemoteObjectRegistryHost"%string.
Definition QRemoteObjectReplica := "QRemoteObjectReplica"%string.
Definition QRemoteObjectReplica_State := "QRemoteObjectReplica::State"%string.
Definition QRenderAspect := "QRenderAspect"%string.
Definition QRenderCapabilities := "QRenderCapabilities"%string.
Definition QRenderCapture := "QRenderCapture"%string.
Definition QRenderCaptureReply := "QRenderCaptureReply"%string.
Definition QRenderPass := "QRenderPass"%string.
Definition QRenderPassFilter := "QRenderPassFilter"%string.
Definition QRenderSettings := "QRenderSettings"%string.
Definition QRenderState := "QRenderState"%string.
Definition QRenderStateSet := "QRenderStateSet"%string.
Definition QRenderSurfaceSelector := "QRenderSurfaceSelector"%string.
Definition QRenderTarget := "QRenderTarget"%string.
Definition QRenderTargetOutput := "QRenderTargetOutput"%string.
Definition QRenderTargetSelector := "QRenderTargetSelector"%string.
Definition QResizeEvent := "QResizeEvent"%string.
Definition QResource := "QResource"%string.
Definition QResource_Compression := "QResource::Compression"%string.
Definition QRestAccessManager := "QRestAccessManager"%string.
Definition QRestReply := "QRestReply"%string.
Definition QRgba64 := "QRgba64"%string.
Definition QRotationReading := "QRotationReading"%string.
Definition QRotationSensor := "QRotationSensor"%string.
Definition QRubberBand := "QRubberBand"%string.
Definition QRubberBand_Shape := "QRubberBand::Shape"%string.
Definition QRunnable := "QRunnable"%string.
Definition QSGClipNode := "QSGClipNode"%string.
Definition QSGDynamicTexture := "QSGDynamicTexture"%string.
Definition QSGFlatColorMaterial := "QSGFlatColorMaterial"%string.
Definition QSGGeometry := "QSGGeometry"%string.
Definition QSGGeometryNode := "QSGGeometryNode"%string.
Definition QSGGeometry_AttributeSet := "QSGGeometry::AttributeSet"%string.
Definition QSGGeometry_DataPattern := "QSGGeometry::DataPattern"%string.
Definition QSGImageNode := "QSGImageNode"%string.
Definition QSGMaterial := "QSGMaterial"%string.
Definition QSGMaterialShader := "QSGMaterialShader"%string.
Definition QSGMaterialShader_Flags := "QSGMaterialShader::Flags"%string.
Definition QSGMaterial_Flags := "QSGMaterial::Flags"%string.
Definition QSGNode := "QSGNode"%string.
Definition QSGNode_Flags := "QSGNode::Flags"%string.
Definition QSGNode_NodeType := "QSGNode::NodeType"%string.
Definition QSGOpacityNode := "QSGOpacityNode"%string.
Definition QSGOpaqueTextureMaterial := "QSGOpaqueTextureMaterial"%string.
Definition QSGRectangleNode := "QSGRectangleNode"%string.
Definition QSGRenderNode := "QSGRenderNode"%string.
Definition QSGRendererInterface := "QSGRendererInterface"%string.
Definition QSGRendererInterface_GraphicsApi := "QSGRendererInterface::GraphicsApi"%string.
Definition QSGSimpleRectNode := "QSGSimpleRectNode"%string.
Definition QSGSimpleTextureNode := "QSGSimpleTextureNode"%string.
Definition QSGTextNode := "QSGTextNode"%string.
Definition QSGTexture := "QSGTexture"%string.
Definition QSGTextureProvider := "QSGTextureProvider"%string.
Definition QSGTexture_AnisotropyLevel := "QSGTexture::AnisotropyLevel"%string.
Definition QSGTexture_Filtering := "QSGTexture::Filtering"%string.
Definition QSGTexture_WrapMode := "QSGTexture::WrapMode"%string.
Definition QSGTransformNode := "QSGTransformNode"%string.
Definition QSGVertexColorMaterial := "QSGVertexColorMaterial"%string.
Definition QSaveFile := "QSaveFile"%string.
Definition QScatter3DSeries := "QScatter3DSeries"%string.
Definition QScatterDataProxy := "QScatterDataProxy"%string.
Definition QScatterDataProxy_ptr := "QScatterDataProxy*"%string.
Definition QScatterSeries := "QScatterSeries"%string.
Definition QScatterSeries_MarkerShape := "QScatterSeries::MarkerShape"%string.
Definition QSceneLoader := "QSceneLoader"%string.
Definition QScissorTest := "QScissorTest"%string.
Definition QScreen := "QScreen"%string.
Definition QScreenCapture := "QScreenCapture"%string.
Definition QScreenCapture_Error := "QScreenCapture::Error"%string.
Definition QScreenRayCaster := "QScreenRayCaster"%string.
Definition QScreen_ptr := "QScreen*"%string.
Definition QScrollArea := "QScrollArea"%string.
Definition QScrollBar := "QScrollBar"%string.
Definition QScrollEvent := "QScrollEvent"%string.
Definition QScrollEvent_ScrollState := "QScrollEvent::ScrollState"%string.
Definition QScrollPrepareEvent := "QScrollPrepareEvent"%string.
Definition QScroller := "QScroller"%string.
Definition QScrollerProperties := "QScrollerProperties"%string.
Definition QScrollerProperties_ScrollMetric := "QScrollerProperties::ScrollMetric"%string.
Definition QScroller_Input := "QScroller::Input"%string.
Definition QScroller_ScrollerGestureType := "QScroller::ScrollerGestureType"%string.
Definition QScroller_State := "QScroller::State"%string.
Definition QSeamlessCubemap := "QSeamlessCubemap"%string.
Definition QSemaphore := "QSemaphore"%string.
Definition QSemaphoreReleaser := "QSemaphoreReleaser"%string.
Definition QSensor := "QSensor"%string.
Definition QSensorReading := "QSensorReading"%string.
Definition QSensor_AxesOrientationMode := "QSensor::AxesOrientationMode"%string.
Definition QSensor_Feature := "QSensor::Feature"%string.
Definition QSequentialAnimationGroup := "QSequentialAnimationGroup"%string.
Definition QSerialPort := "QSerialPort"%string.
Definition QSerialPortInfo := "QSerialPortInfo"%string.
Definition QSerialPort_DataBits := "QSerialPort::DataBits"%string.
Definition QSerialPort_Directions := "QSerialPort::Directions"%string.
Definition QSerialPort_FlowControl := "QSerialPort::FlowControl"%string.
Definition QSerialPort_Parity := "QSerialPort::Parity"%string.
Definition QSerialPort_SerialPortError := "QSerialPort::SerialPortError"%string.
Definition QSerialPort_StopBits := "QSerialPort::StopBits"%string.
Definition QSessionManager := "QSessionManager"%string.
Definition QSessionManager_RestartHint := "QSessionManager::RestartHint"%string.
Definition QSetFence := "QSetFence"%string.
Definition QSettings := "QSettings"%string.
Definition QSettings_Format := "QSettings::Format"%string.
Definition QSettings_Scope := "QSettings::Scope"%string.
Definition QSettings_Status := "QSettings::Status"%string.
Definition QShaderData := "QShaderData"%string.
Definition QShaderImage := "QShaderImage"%string.
Definition QShaderProgram := "QShaderProgram"%string.
Definition QShaderProgramBuilder := "QShaderProgramBuilder"%string.
Definition QSharedGLTexture := "QSharedGLTexture"%string.
Definition QSharedMemory := "QSharedMemory"%string.
Definition QSharedMemory_AccessMode := "QSharedMemory::AccessMode"%string.
Definition QSharedMemory_SharedMemoryError := "QSharedMemory::SharedMemoryError"%string.
Definition QShortcut := "QShortcut"%string.
Definition QShortcutEvent := "QShortcutEvent"%string.
Definition QShortcut_ptr := "QShortcut*"%string.
Definition QShowEvent := "QShowEvent"%string.
Definition QSignalBlocker := "QSignalBlocker"%string.
Definition QSignalMapper := "QSignalMapper"%string.
Definition QSignalSpy := "QSignalSpy"%string.
Definition QSignalTransition := "QSignalTransition"%string.
Definition QSinglePointEvent := "QSinglePointEvent"%string.
Definition QSize := "QSize"%string.
Definition QSizeF := "QSizeF"%string.
Definition QSizeGrip := "QSizeGrip"%string.
Definition QSizePolicy := "QSizePolicy"%string.
Definition QSizePolicy_ControlType := "QSizePolicy::ControlType"%string.
Definition QSizePolicy_ControlTypes := "QSizePolicy::ControlTypes"%string.
Definition QSizePolicy_Policy := "QSizePolicy::Policy"%string.
Definition QSkeleton := "QSkeleton"%string.
Definition QSkeletonLoader := "QSkeletonLoader"%string.
Definition QSkeletonMapping := "QSkeletonMapping"%string.
Definition QSkyboxEntity := "QSkyboxEntity"%string.
Definition QSlider := "QSlider"%string.
Definition QSlider_TickPosition := "QSlider::TickPosition"%string.
Definition QSocketNotifier := "QSocketNotifier"%string.
Definition QSocketNotifier_Type := "QSocketNotifier::Type"%string.
Definition QSortFilterProxyModel := "QSortFilterProxyModel"%string.
Definition QSortPolicy := "QSortPolicy"%string.
Definition QSoundEffect := "QSoundEffect"%string.
Definition QSoundEffect_Status := "QSoundEffect::Status"%string.
Definition QSpacerItem := "QSpacerItem"%string.
Definition QSpatialSound := "QSpatialSound"%string.
Definition QSpatialSound_DistanceModel := "QSpatialSound::DistanceModel"%string.
Definition QSphereGeometry := "QSphereGeometry"%string.
Definition QSphereGeometryView := "QSphereGeometryView"%string.
Definition QSphereMesh := "QSphereMesh"%string.
Definition QSpinBox := "QSpinBox"%string.
Definition QSplashScreen := "QSplashScreen"%string.
Definition QSplineSeries := "QSplineSeries"%string.
Definition QSplitter := "QSplitter"%string.
Definition QSplitterHandle := "QSplitterHandle"%string.
Definition QSplitter_ptr := "QSplitter*"%string.
Definition QSpotLight := "QSpotLight"%string.
Definition QSpriteGrid := "QSpriteGrid"%string.
Definition QSpriteSheet := "QSpriteSheet"%string.
Definition QSpriteSheetItem := "QSpriteSheetItem"%string.
Definition QSqlDatabase := "QSqlDatabase"%string.
Definition QSqlDriver := "QSqlDriver"%string.
Definition QSqlDriver_DbmsType := "QSqlDriver::DbmsType"%string.
Definition QSqlDriver_IdentifierType := "QSqlDriver::IdentifierType"%string.
Definition QSqlDriver_StatementType := "QSqlDriver::StatementType"%string.
Definition QSqlError := "QSqlError"%string.
Definition QSqlError_ErrorType := "QSqlError::ErrorType"%string.
Definition QSqlField := "QSqlField"%string.
Definition QSqlField_RequiredStatus := "QSqlField::RequiredStatus"%string.
Definition QSqlIndex := "QSqlIndex"%string.
Definition QSqlQuery := "QSqlQuery"%string.
Definition QSqlQueryModel := "QSqlQueryModel"%string.
Definition QSqlQuery_BatchExecutionMode := "QSqlQuery::BatchExecutionMode"%string.
Definition QSqlRecord := "QSqlRecord"%string.
Definition QSqlRelation := "QSqlRelation"%string.
Definition QSqlRelationalDelegate := "QSqlRelationalDelegate"%string.
Definition QSqlRelationalTableModel := "QSqlRelationalTableModel"%string.
Definition QSqlRelationalTableModel_JoinMode := "QSqlRelationalTableModel::JoinMode"%string.
Definition QSqlResult := "QSqlResult"%string.
Definition QSqlTableModel := "QSqlTableModel"%string.
Definition QSqlTableModel_EditStrategy := "QSqlTableModel::EditStrategy"%string.
Definition QSslCertificate := "QSslCertificate"%string.
Definition QSslCertificateExtension := "QSslCertificateExtension"%string.
Definition QSslCertificate_SubjectInfo := "QSslCertificate::SubjectInfo"%string.
Definition QSslCipher := "QSslCipher"%string.
Definition QSslConfiguration := "QSslConfiguration"%string.
Definition QSslConfiguration_NextProtocolNegotiationStatus := "QSslConfiguration::NextProtocolNegotiationStatus"%string.
Definition QSslDiffieHellmanParameters := "QSslDiffieHellmanParameters"%string.
Definition QSslDiffieHellmanParameters_Error := "QSslDiffieHellmanParameters::Error"%string.
Definition QSslEllipticCurve := "QSslEllipticCurve"%string.
Definition QSslError := "QSslError"%string.
Definition QSslError_SslError := "QSslError::SslError"%string.
Definition QSslKey := "QSslKey"%string.
Definition QSslPreSharedKeyAuthenticator := "QSslPreSharedKeyAuthenticator"%string.
Definition QSslServer := "QSslServer"%string.
Definition QSslSocket := "QSslSocket"%string.
Definition QSslSocket_PeerVerifyMode := "QSslSocket::PeerVerifyMode"%string.
Definition QSslSocket_SslMode := "QSslSocket::SslMode"%string.
Definition QStackedBarSeries := "QStackedBarSeries"%string.
Definition QStackedLayout := "QStackedLayout"%string.
Definition QStackedLayout_StackingMode := "QStackedLayout::StackingMode"%string.
Definition QStackedWidget := "QStackedWidget"%string.
Definition QStandardItem := "QStandardItem"%string.
Definition QStandardItemModel := "QStandardItemModel"%string.
Definition QStandardPaths := "QStandardPaths"%string.
Definition QStandardPaths_StandardLocation := "QStandardPaths::StandardLocation"%string.
Definition QState := "QState"%string.
Definition QStateMachine := "QStateMachine"%string.
Definition QStateMachine_Error := "QStateMachine::Error"%string.
Definition QState_ChildMode := "QState::ChildMode"%string.
Definition QState_RestorePolicy := "QState::RestorePolicy"%string.
Definition QState_ptr := "QState*"%string.
Definition QStaticText := "QStaticText"%string.
Definition QStaticText_PerformanceHint := "QStaticText::PerformanceHint"%string.
Definition QStatusBar := "QStatusBar"%string.
Definition QStatusTipEvent := "QStatusTipEvent"%string.
Definition QStencilMask := "QStencilMask"%string.
Definition QStencilOperation := "QStencilOperation"%string.
Definition QStencilOperationArguments := "QStencilOperationArguments"%string.
Definition QStencilTest := "QStencilTest"%string.
Definition QStencilTestArguments := "QStencilTestArguments"%string.
Definition QStorageInfo := "QStorageInfo"%string.
Definition QString := "QString"%string.
Definition QStringConverter := "QStringConverter"%string.
Definition QStringConverterBase := "QStringConverterBase"%string.
Definition QStringConverterBase_Flags := "QStringConverterBase::Flags"%string.
Definition QStringConverter_Encoding := "QStringConverter::Encoding"%string.
Definition QStringDecoder := "QStringDecoder"%string.
Definition QStringEncoder := "QStringEncoder"%string.
Definition QStringList := "QStringList"%string.
Definition QStringListModel := "QStringListModel"%string.
Definition QStyle := "QStyle"%string.
Definition QStyleFactory := "QStyleFactory"%string.
Definition QStyleHintReturn := "QStyleHintReturn"%string.
Definition QStyleHintReturnMask := "QStyleHintReturnMask"%string.
Definition QStyleHintReturnVariant := "QStyleHintReturnVariant"%string.
Definition QStyleHints := "QStyleHints"%string.
Definition QStyleOption := "QStyleOption"%string.
Definition QStyleOptionButton := "QStyleOptionButton"%string.
Definition QStyleOptionComboBox := "QStyleOptionComboBox"%string.
Definition QStyleOptionComplex := "QStyleOptionComplex"%string.
Definition QStyleOptionDockWidget := "QStyleOptionDockWidget"%string.
Definition QStyleOptionFocusRect := "QStyleOptionFocusRect"%string.
Definition QStyleOptionFrame := "QStyleOptionFrame"%string.
Definition QStyleOptionGraphicsItem := "QStyleOptionGraphicsItem"%string.
Definition QStyleOptionGroupBox := "QStyleOptionGroupBox"%string.
Definition QStyleOptionHeader := "QStyleOptionHeader"%string.
Definition QStyleOptionHeaderV2 := "QStyleOptionHeaderV2"%string.
Definition QStyleOptionMenuItem := "QStyleOptionMenuItem"%string.
Definition QStyleOptionMenuItemV2 := "QStyleOptionMenuItemV2"%string.
Definition QStyleOptionProgressBar := "QStyleOptionProgressBar"%string.
Definition QStyleOptionRubberBand := "QStyleOptionRubberBand"%string.
Definition QStyleOptionSizeGrip := "QStyleOptionSizeGrip"%string.
Definition QStyleOptionSlider := "QStyleOptionSlider"%string.
Definition QStyleOptionSpinBox := "QStyleOptionSpinBox"%string.
Definition QStyleOptionTab := "QStyleOptionTab"%string.
Definition QStyleOptionTabBarBase := "QStyleOptionTabBarBase"%string.
Definition QStyleOptionTabWidgetFrame := "QStyleOptionTabWidgetFrame"%string.
Definition QStyleOptionTitleBar := "QStyleOptionTitleBar"%string.
Definition QStyleOptionToolBar := "QStyleOptionToolBar"%string.
Definition QStyleOptionToolBox := "QStyleOptionToolBox"%string.
Definition QStyleOptionToolButton := "QStyleOptionToolButton"%string.
Definition QStyleOptionViewItem := "QStyleOptionViewItem"%string.
Definition QStylePainter := "QStylePainter"%string.
Definition QStyle_ComplexControl := "QStyle::ComplexControl"%string.
Definition QStyle_ControlElement := "QStyle::ControlElement"%string.
Definition QStyle_PrimitiveElement := "QStyle::PrimitiveElement"%string.
Definition QStyle_ptr := "QStyle*"%string.
Definition QStyledItemDelegate := "QStyledItemDelegate"%string.
Definition QSubtreeEnabler := "QSubtreeEnabler"%string.
Definition QSurface := "QSurface"%string.
Definition QSurface3DSeries := "QSurface3DSeries"%string.
Definition QSurface3DSeries_Shading := "QSurface3DSeries::Shading"%string.
Definition QSurfaceDataProxy := "QSurfaceDataProxy"%string.
Definition QSurfaceDataProxy_ptr := "QSurfaceDataProxy*"%string.
Definition QSurfaceFormat := "QSurfaceFormat"%string.
Definition QSurfaceFormat_FormatOption := "QSurfaceFormat::FormatOption"%string.
Definition QSurfaceFormat_FormatOptions := "QSurfaceFormat::FormatOptions"%string.
Definition QSurfaceFormat_OpenGLContextProfile := "QSurfaceFormat::OpenGLContextProfile"%string.
Definition QSurfaceFormat_RenderableType := "QSurfaceFormat::RenderableType"%string.
Definition QSurfaceFormat_SwapBehavior := "QSurfaceFormat::SwapBehavior"%string.
Definition QSurface_SurfaceClass := "QSurface::SurfaceClass"%string.
Definition QSurface_SurfaceType := "QSurface::SurfaceType"%string.
Definition QSvgGenerator := "QSvgGenerator"%string.
Definition QSvgGenerator_SvgVersion := "QSvgGenerator::SvgVersion"%string.
Definition QSvgRenderer := "QSvgRenderer"%string.
Definition QSvgWidget := "QSvgWidget"%string.
Definition QSwipeGesture := "QSwipeGesture"%string.
Definition QSwipeGesture_SwipeDirection := "QSwipeGesture::SwipeDirection"%string.
Definition QSyntaxHighlighter := "QSyntaxHighlighter"%string.
Definition QSysInfo := "QSysInfo"%string.
Definition QSysInfo_Endian := "QSysInfo::Endian"%string.
Definition QSystemSemaphore := "QSystemSemaphore"%string.
Definition QSystemSemaphore_AccessMode := "QSystemSemaphore::AccessMode"%string.
Definition QSystemSemaphore_SystemSemaphoreError := "QSystemSemaphore::SystemSemaphoreError"%string.
Definition QSystemTrayIcon := "QSystemTrayIcon"%string.
Definition QSystemTrayIcon_MessageIcon := "QSystemTrayIcon::MessageIcon"%string.
Definition QTabBar := "QTabBar"%string.
Definition QTabBar_ButtonPosition := "QTabBar::ButtonPosition"%string.
Definition QTabBar_SelectionBehavior := "QTabBar::SelectionBehavior"%string.
Definition QTabBar_Shape := "QTabBar::Shape"%string.
Definition QTabWidget := "QTabWidget"%string.
Definition QTabWidget_TabPosition := "QTabWidget::TabPosition"%string.
Definition QTabWidget_TabShape := "QTabWidget::TabShape"%string.
Definition QTableView := "QTableView"%string.
Definition QTableWidget := "QTableWidget"%string.
Definition QTableWidgetItem := "QTableWidgetItem"%string.
Definition QTableWidgetSelectionRange := "QTableWidgetSelectionRange"%string.
Definition QTabletEvent := "QTabletEvent"%string.
Definition QTapAndHoldGesture := "QTapAndHoldGesture"%string.
Definition QTapGesture := "QTapGesture"%string.
Definition QTapReading := "QTapReading"%string.
Definition QTapReading_TapDirection := "QTapReading::TapDirection"%string.
Definition QTapSensor := "QTapSensor"%string.
Definition QTcpServer := "QTcpServer"%string.
Definition QTcpSocket := "QTcpSocket"%string.
Definition QTechnique := "QTechnique"%string.
Definition QTechniqueFilter := "QTechniqueFilter"%string.
Definition QTemporaryDir := "QTemporaryDir"%string.
Definition QTemporaryFile := "QTemporaryFile"%string.
Definition QText2DEntity := "QText2DEntity"%string.
Definition QTextBlock := "QTextBlock"%string.
Definition QTextBlockFormat := "QTextBlockFormat"%string.
Definition QTextBlockFormat_MarkerType := "QTextBlockFormat::MarkerType"%string.
Definition QTextBlock_iterator := "QTextBlock::iterator"%string.
Definition QTextBoundaryFinder := "QTextBoundaryFinder"%string.
Definition QTextBoundaryFinder_BoundaryType := "QTextBoundaryFinder::BoundaryType"%string.
Definition QTextBrowser := "QTextBrowser"%string.
Definition QTextCharFormat := "QTextCharFormat"%string.
Definition QTextCharFormat_FontPropertiesInheritanceBehavior := "QTextCharFormat::FontPropertiesInheritanceBehavior"%string.
Definition QTextCharFormat_UnderlineStyle := "QTextCharFormat::UnderlineStyle"%string.
Definition QTextCharFormat_VerticalAlignment := "QTextCharFormat::VerticalAlignment"%string.
Definition QTextCursor := "QTextCursor"%string.
Definition QTextCursor_MoveMode := "QTextCursor::MoveMode"%string.
Definition QTextCursor_MoveOperation := "QTextCursor::MoveOperation"%string.
Definition QTextCursor_SelectionType := "QTextCursor::SelectionType"%string.
Definition QTextDocument := "QTextDocument"%string.
Definition QTextDocumentFragment := "QTextDocumentFragment"%string.
Definition QTextDocumentWriter := "QTextDocumentWriter"%string.
Definition QTextDocument_MetaInformation := "QTextDocument::MetaInformation"%string.
Definition QTextDocument_ResourceType := "QTextDocument::ResourceType"%string.
Definition QTextDocument_Stacks := "QTextDocument::Stacks"%string.
Definition QTextDocument_ptr := "QTextDocument*"%string.
Definition QTextEdit := "QTextEdit"%string.
Definition QTextEdit_LineWrapMode := "QTextEdit::LineWrapMode"%string.
Definition QTextFormat := "QTextFormat"%string.
Definition QTextFragment := "QTextFragment"%string.
Definition QTextFrame := "QTextFrame"%string.
Definition QTextFrameFormat := "QTextFrameFormat"%string.
Definition QTextFrameFormat_BorderStyle := "QTextFrameFormat::BorderStyle"%string.
Definition QTextFrameFormat_Position := "QTextFrameFormat::Position"%string.
Definition QTextFrame_iterator := "QTextFrame::iterator"%string.
Definition QTextFrame_ptr := "QTextFrame*"%string.
Definition QTextImageFormat := "QTextImageFormat"%string.
Definition QTextInlineObject := "QTextInlineObject"%string.
Definition QTextItem := "QTextItem"%string.
Definition QTextLayout := "QTextLayout"%string.
Definition QTextLayout_CursorMode := "QTextLayout::CursorMode"%string.
Definition QTextLength := "QTextLength"%string.
Definition QTextLength_Type := "QTextLength::Type"%string.
Definition QTextLine := "QTextLine"%string.
Definition QTextLine_CursorPosition := "QTextLine::CursorPosition"%string.
Definition QTextList := "QTextList"%string.
Definition QTextListFormat := "QTextListFormat"%string.
Definition QTextListFormat_Style := "QTextListFormat::Style"%string.
Definition QTextObject := "QTextObject"%string.
Definition QTextOption := "QTextOption"%string.
Definition QTextOption_Flags := "QTextOption::Flags"%string.
Definition QTextOption_WrapMode := "QTextOption::WrapMode"%string.
Definition QTextStream := "QTextStream"%string.
Definition QTextStream_FieldAlignment := "QTextStream::FieldAlignment"%string.
Definition QTextStream_RealNumberNotation := "QTextStream::RealNumberNotation"%string.
Definition QTextStream_Status := "QTextStream::Status"%string.
Definition QTextTable := "QTextTable"%string.
Definition QTextTableCell := "QTextTableCell"%string.
Definition QTextTableCellFormat := "QTextTableCellFormat"%string.
Definition QTextTableFormat := "QTextTableFormat"%string.
Definition QTextToSpeech := "QTextToSpeech"%string.
Definition QTextToSpeech_BoundaryHint := "QTextToSpeech::BoundaryHint"%string.
Definition QTextToSpeech_Capabilities := "QTextToSpeech::Capabilities"%string.
Definition QTextToSpeech_ErrorReason := "QTextToSpeech::ErrorReason"%string.
Definition QTextToSpeech_State := "QTextToSpeech::State"%string.
Definition QTexture1D := "QTexture1D"%string.
Definition QTexture1DArray := "QTexture1DArray"%string.
Definition QTexture2D := "QTexture2D"%string.
Definition QTexture2DArray := "QTexture2DArray"%string.
Definition QTexture2DMultisample := "QTexture2DMultisample"%string.
Definition QTexture2DMultisampleArray := "QTexture2DMultisampleArray"%string.
Definition QTexture3D := "QTexture3D"%string.
Definition QTextureBuffer := "QTextureBuffer"%string.
Definition QTextureCubeMap := "QTextureCubeMap"%string.
Definition QTextureCubeMapArray := "QTextureCubeMapArray"%string.
Definition QTextureData := "QTextureData"%string.
Definition QTextureDataUpdate := "QTextureDataUpdate"%string.
Definition QTextureImage := "QTextureImage"%string.
Definition QTextureImageData := "QTextureImageData"%string.
Definition QTextureLoader := "QTextureLoader"%string.
Definition QTextureMaterial := "QTextureMaterial"%string.
Definition QTextureRectangle := "QTextureRectangle"%string.
Definition QTextureWrapMode := "QTextureWrapMode"%string.
Definition QThread := "QThread"%string.
Definition QThreadPool := "QThreadPool"%string.
Definition QThread_Priority := "QThread::Priority"%string.
Definition QThread_QualityOfService := "QThread::QualityOfService"%string.
Definition QThread_ptr := "QThread*"%string.
Definition QTiltReading := "QTiltReading"%string.
Definition QTiltSensor := "QTiltSensor"%string.
Definition QTime := "QTime"%string.
Definition QTimeEdit := "QTimeEdit"%string.
Definition QTimeLine := "QTimeLine"%string.
Definition QTimeLine_Direction := "QTimeLine::Direction"%string.
Definition QTimeLine_State := "QTimeLine::State"%string.
Definition QTimeZone := "QTimeZone"%string.
Definition QTimeZone_Initialization := "QTimeZone::Initialization"%string.
Definition QTimeZone_NameType := "QTimeZone::NameType"%string.
Definition QTimeZone_OffsetData := "QTimeZone::OffsetData"%string.
Definition QTimeZone_TimeType := "QTimeZone::TimeType"%string.
Definition QTimer := "QTimer"%string.
Definition QTimerEvent := "QTimerEvent"%string.
Definition QToolBar := "QToolBar"%string.
Definition QToolBox := "QToolBox"%string.
Definition QToolButton := "QToolButton"%string.
Definition QToolButton_ToolButtonPopupMode := "QToolButton::ToolButtonPopupMode"%string.
Definition QToolTip := "QToolTip"%string.
Definition QTorusGeometry := "QTorusGeometry"%string.
Definition QTorusGeometryView := "QTorusGeometryView"%string.
Definition QTorusMesh := "QTorusMesh"%string.
Definition QTouch3DInputHandler := "QTouch3DInputHandler"%string.
Definition QTouchEvent := "QTouchEvent"%string.
Definition QTransform := "QTransform"%string.
Definition QTransform_TransformationType := "QTransform::TransformationType"%string.
Definition QTranslator := "QTranslator"%string.
Definition QTransposeProxyModel := "QTransposeProxyModel"%string.
Definition QTreeView := "QTreeView"%string.
Definition QTreeWidget := "QTreeWidget"%string.
Definition QTreeWidgetItem := "QTreeWidgetItem"%string.
Definition QTreeWidgetItemIterator := "QTreeWidgetItemIterator"%string.
Definition QTreeWidgetItemIterator_IteratorFlags := "QTreeWidgetItemIterator::IteratorFlags"%string.
Definition QTreeWidgetItem_ChildIndicatorPolicy := "QTreeWidgetItem::ChildIndicatorPolicy"%string.
Definition QTreeWidget_ptr := "QTreeWidget*"%string.
Definition QTypeRevision := "QTypeRevision"%string.
Definition QUdpSocket := "QUdpSocket"%string.
Definition QUndoCommand := "QUndoCommand"%string.
Definition QUndoGroup := "QUndoGroup"%string.
Definition QUndoGroup_ptr := "QUndoGroup*"%string.
Definition QUndoStack := "QUndoStack"%string.
Definition QUndoStack_ptr := "QUndoStack*"%string.
Definition QUndoView := "QUndoView"%string.
Definition QUrl := "QUrl"%string.
Definition QUrlQuery := "QUrlQuery"%string.
Definition QUrl_ParsingMode := "QUrl::ParsingMode"%string.
Definition QUuid := "QUuid"%string.
Definition QUuid_Id128Bytes := "QUuid::Id128Bytes"%string.
Definition QUuid_StringFormat := "QUuid::StringFormat"%string.
Definition QUuid_Variant := "QUuid::Variant"%string.
Definition QUuid_Version := "QUuid::Version"%string.
Definition QVBarModelMapper := "QVBarModelMapper"%string.
Definition QVBoxLayout := "QVBoxLayout"%string.
Definition QVBoxPlotModelMapper := "QVBoxPlotModelMapper"%string.
Definition QVCandlestickModelMapper := "QVCandlestickModelMapper"%string.
Definition QVPieModelMapper := "QVPieModelMapper"%string.
Definition QVXYModelMapper := "QVXYModelMapper"%string.
Definition QValidator := "QValidator"%string.
Definition QValue3DAxis := "QValue3DAxis"%string.
Definition QValue3DAxisFormatter := "QValue3DAxisFormatter"%string.
Definition QValueAxis := "QValueAxis"%string.
Definition QValueAxis_TickType := "QValueAxis::TickType"%string.
Definition QVariant := "QVariant"%string.
Definition QVariantAnimation := "QVariantAnimation"%string.
Definition QVariantHash := "QVariantHash"%string.
Definition QVariantMap := "QVariantMap"%string.
Definition QVector2D := "QVector2D"%string.
Definition QVector3D := "QVector3D"%string.
Definition QVector4D := "QVector4D"%string.
Definition QVersionNumber := "QVersionNumber"%string.
Definition QVertexBlendAnimation := "QVertexBlendAnimation"%string.
Definition QVideoFrame := "QVideoFrame"%string.
Definition QVideoFrameFormat := "QVideoFrameFormat"%string.
Definition QVideoFrameFormat_ColorRange := "QVideoFrameFormat::ColorRange"%string.
Definition QVideoFrameFormat_ColorSpace := "QVideoFrameFormat::ColorSpace"%string.
Definition QVideoFrameFormat_ColorTransfer := "QVideoFrameFormat::ColorTransfer"%string.
Definition QVideoFrameFormat_Direction := "QVideoFrameFormat::Direction"%string.
Definition QVideoFrameFormat_PixelFormat := "QVideoFrameFormat::PixelFormat"%string.
Definition QVideoFrameFormat_YCbCrColorSpace := "QVideoFrameFormat::YCbCrColorSpace"%string.
Definition QVideoFrameInput := "QVideoFrameInput"%string.
Definition QVideoFrame_HandleType := "QVideoFrame::HandleType"%string.
Definition QVideoFrame_MapMode := "QVideoFrame::MapMode"%string.
Definition QVideoFrame_RotationAngle := "QVideoFrame::RotationAngle"%string.
Definition QVideoSink := "QVideoSink"%string.
Definition QVideoWidget := "QVideoWidget"%string.
Definition QViewport := "QViewport"%string.
Definition QVoice := "QVoice"%string.
Definition QVoice_Age := "QVoice::Age"%string.
Definition QVoice_Gender := "QVoice::Gender"%string.
Definition QWaitCondition := "QWaitCondition"%string.
Definition QWaitFence := "QWaitFence"%string.
Definition QWebChannel := "QWebChannel"%string.
Definition QWebChannelAbstractTransport := "QWebChannelAbstractTransport"%string.
Definition QWebEngineCertificateError := "QWebEngineCertificateError"%string.
Definition QWebEngineCertificateError_Type := "QWebEngineCertificateError::Type"%string.
Definition QWebEngineClientCertificateSelection := "QWebEngineClientCertificateSelection"%string.
Definition QWebEngineClientCertificateStore := "QWebEngineClientCertificateStore"%string.
Definition QWebEngineContextMenuRequest := "QWebEngineContextMenuRequest"%string.
Definition QWebEngineContextMenuRequest_MediaType := "QWebEngineContextMenuRequest::MediaType"%string.
Definition QWebEngineCookieStore := "QWebEngineCookieStore"%string.
Definition QWebEngineDownloadRequest := "QWebEngineDownloadRequest"%string.
Definition QWebEngineDownloadRequest_DownloadInterruptReason := "QWebEngineDownloadRequest::DownloadInterruptReason"%string.
Definition QWebEngineDownloadRequest_DownloadState := "QWebEngineDownloadRequest::DownloadState"%string.
Definition QWebEngineDownloadRequest_SavePageFormat := "QWebEngineDownloadRequest::SavePageFormat"%string.
Definition QWebEngineFindTextResult := "QWebEngineFindTextResult"%string.
Definition QWebEngineFullScreenRequest := "QWebEngineFullScreenRequest"%string.
Definition QWebEngineHistory := "QWebEngineHistory"%string.
Definition QWebEngineHistoryItem := "QWebEngineHistoryItem"%string.
Definition QWebEngineHistoryModel := "QWebEngineHistoryModel"%string.
Definition QWebEngineHttpRequest := "QWebEngineHttpRequest"%string.
Definition QWebEngineHttpRequest_Method := "QWebEngineHttpRequest::Method"%string.
Definition QWebEngineLoadingInfo := "QWebEngineLoadingInfo"%string.
Definition QWebEngineLoadingInfo_ErrorDomain := "QWebEngineLoadingInfo::ErrorDomain"%string.
Definition QWebEngineLoadingInfo_LoadStatus := "QWebEngineLoadingInfo::LoadStatus"%string.
Definition QWebEngineNavigationRequest := "QWebEngineNavigationRequest"%string.
Definition QWebEngineNavigationRequest_NavigationType := "QWebEngineNavigationRequest::NavigationType"%string.
Definition QWebEngineNewWindowRequest := "QWebEngineNewWindowRequest"%string.
Definition QWebEngineNewWindowRequest_DestinationType := "QWebEngineNewWindowRequest::DestinationType"%string.
Definition QWebEngineNotification := "QWebEngineNotification"%string.
Definition QWebEnginePage := "QWebEnginePage"%string.
Definition QWebEnginePage_Feature := "QWebEnginePage::Feature"%string.
Definition QWebEnginePage_LifecycleState := "QWebEnginePage::LifecycleState"%string.
Definition QWebEnginePage_PermissionPolicy := "QWebEnginePage::PermissionPolicy"%string.
Definition QWebEnginePage_WebAction := "QWebEnginePage::WebAction"%string.
Definition QWebEngineProfile := "QWebEngineProfile"%string.
Definition QWebEngineProfile_HttpCacheType := "QWebEngineProfile::HttpCacheType"%string.
Definition QWebEngineProfile_PersistentCookiesPolicy := "QWebEngineProfile::PersistentCookiesPolicy"%string.
Definition QWebEngineProfile_ptr := "QWebEngineProfile*"%string.
Definition QWebEngineQuotaRequest := "QWebEngineQuotaRequest"%string.
Definition QWebEngineRegisterProtocolHandlerRequest := "QWebEngineRegisterProtocolHandlerRequest"%string.
Definition QWebEngineScript := "QWebEngineScript"%string.
Definition QWebEngineScriptCollection := "QWebEngineScriptCollection"%string.
Definition QWebEngineScript_InjectionPoint := "QWebEngineScript::InjectionPoint"%string.
Definition QWebEngineSettings := "QWebEngineSettings"%string.
Definition QWebEngineSettings_FontFamily := "QWebEngineSettings::FontFamily"%string.
Definition QWebEngineSettings_FontSize := "QWebEngineSettings::FontSize"%string.
Definition QWebEngineSettings_UnknownUrlSchemePolicy := "QWebEngineSettings::UnknownUrlSchemePolicy"%string.
Definition QWebEngineSettings_WebAttribute := "QWebEngineSettings::WebAttribute"%string.
Definition QWebEngineUrlRequestInfo := "QWebEngineUrlRequestInfo"%string.
Definition QWebEngineUrlRequestInfo_NavigationType := "QWebEngineUrlRequestInfo::NavigationType"%string.
Definition QWebEngineUrlRequestInfo_ResourceType := "QWebEngineUrlRequestInfo::ResourceType"%string.
Definition QWebEngineUrlRequestInterceptor := "QWebEngineUrlRequestInterceptor"%string.
Definition QWebEngineUrlRequestJob := "QWebEngineUrlRequestJob"%string.
Definition QWebEngineUrlRequestJob_Error := "QWebEngineUrlRequestJob::Error"%string.
Definition QWebEngineUrlScheme := "QWebEngineUrlScheme"%string.
Definition QWebEngineUrlSchemeHandler := "QWebEngineUrlSchemeHandler"%string.
Definition QWebEngineUrlScheme_Flags := "QWebEngineUrlScheme::Flags"%string.
Definition QWebEngineUrlScheme_Syntax := "QWebEngineUrlScheme::Syntax"%string.
Definition QWebEngineView := "QWebEngineView"%string.
Definition QWebSocket := "QWebSocket"%string.
Definition QWebSocketCorsAuthenticator := "QWebSocketCorsAuthenticator"%string.
Definition QWebSocketHandshakeOptions := "QWebSocketHandshakeOptions"%string.
Definition QWebSocketServer := "QWebSocketServer"%string.
Definition QWebSocketServer_SslMode := "QWebSocketServer::SslMode"%string.
Definition QWhatsThis := "QWhatsThis"%string.
Definition QWhatsThisClickedEvent := "QWhatsThisClickedEvent"%string.
Definition QWheelEvent := "QWheelEvent"%string.
Definition QWidget := "QWidget"%string.
Definition QWidgetAction := "QWidgetAction"%string.
Definition QWidgetItem := "QWidgetItem"%string.
Definition QWidget_ptr := "QWidget*"%string.
Definition QWinEventNotifier := "QWinEventNotifier"%string.
Definition QWindow := "QWindow"%string.
Definition QWindowCapture := "QWindowCapture"%string.
Definition QWindowCapture_Error := "QWindowCapture::Error"%string.
Definition QWindowStateChangeEvent := "QWindowStateChangeEvent"%string.
Definition QWindow_AncestorMode := "QWindow::AncestorMode"%string.
Definition QWindow_Visibility := "QWindow::Visibility"%string.
Definition QWindow_ptr := "QWindow*"%string.
Definition QWizard := "QWizard"%string.
Definition QWizardPage := "QWizardPage"%string.
Definition QWizard_WizardButton := "QWizard::WizardButton"%string.
Definition QWizard_WizardOption := "QWizard::WizardOption"%string.
Definition QWizard_WizardOptions := "QWizard::WizardOptions"%string.
Definition QWizard_WizardPixmap := "QWizard::WizardPixmap"%string.
Definition QWizard_WizardStyle := "QWizard::WizardStyle"%string.
Definition QWriteLocker := "QWriteLocker"%string.
Definition QXYLegendMarker := "QXYLegendMarker"%string.
Definition QXYModelMapper := "QXYModelMapper"%string.
Definition QXYSeries := "QXYSeries"%string.
Definition QXYSeries_ptr := "QXYSeries*"%string.
Definition QXmlStreamAttribute := "QXmlStreamAttribute"%string.
Definition QXmlStreamAttributes := "QXmlStreamAttributes"%string.
Definition QXmlStreamEntityDeclaration := "QXmlStreamEntityDeclaration"%string.
Definition QXmlStreamEntityResolver := "QXmlStreamEntityResolver"%string.
Definition QXmlStreamNamespaceDeclaration := "QXmlStreamNamespaceDeclaration"%string.
Definition QXmlStreamNotationDeclaration := "QXmlStreamNotationDeclaration"%string.
Definition QXmlStreamReader := "QXmlStreamReader"%string.
Definition QXmlStreamReader_Error := "QXmlStreamReader::Error"%string.
Definition QXmlStreamReader_ReadElementTextBehaviour := "QXmlStreamReader::ReadElementTextBehaviour"%string.
Definition QXmlStreamReader_TokenType := "QXmlStreamReader::TokenType"%string.
Definition QXmlStreamWriter := "QXmlStreamWriter"%string.
Definition QXmlStreamWriter_Error := "QXmlStreamWriter::Error"%string.
Definition Qt3DAnimation := "Qt3DAnimation"%string.
Definition Qt3DAnimation_QAbstractAnimation := "Qt3DAnimation::QAbstractAnimation"%string.
Definition Qt3DAnimation_QAbstractAnimationClip := "Qt3DAnimation::QAbstractAnimationClip"%string.
Definition Qt3DAnimation_QAbstractAnimationClip_ptr := "Qt3DAnimation::QAbstractAnimationClip*"%string.
Definition Qt3DAnimation_QAbstractAnimation_AnimationType := "Qt3DAnimation::QAbstractAnimation::AnimationType"%string.
Definition Qt3DAnimation_QAbstractChannelMapping := "Qt3DAnimation::QAbstractChannelMapping"%string.
Definition Qt3DAnimation_QAbstractClipBlendNode := "Qt3DAnimation::QAbstractClipBlendNode"%string.
Definition Qt3DAnimation_QAnimationClipLoader_Status := "Qt3DAnimation::QAnimationClipLoader::Status"%string.
Definition Qt3DAnimation_QAnimationGroup := "Qt3DAnimation::QAnimationGroup"%string.
Definition Qt3DAnimation_QChannelMapper := "Qt3DAnimation::QChannelMapper"%string.
Definition Qt3DAnimation_QClock := "Qt3DAnimation::QClock"%string.
Definition Qt3DAnimation_QKeyFrame_InterpolationType := "Qt3DAnimation::QKeyFrame::InterpolationType"%string.
Definition Qt3DAnimation_QKeyframeAnimation_RepeatMode := "Qt3DAnimation::QKeyframeAnimation::RepeatMode"%string.
Definition Qt3DAnimation_QMorphTarget := "Qt3DAnimation::QMorphTarget"%string.
Definition Qt3DAnimation_QMorphingAnimation_Method := "Qt3DAnimation::QMorphingAnimation::Method"%string.
Definition Qt3DCore := "Qt3DCore"%string.
Definition Qt3DCore_QAbstractAspect := "Qt3DCore::QAbstractAspect"%string.
Definition Qt3DCore_QAbstractSkeleton := "Qt3DCore::QAbstractSkeleton"%string.
Definition Qt3DCore_QAspectEngine_RunMode := "Qt3DCore::QAspectEngine::RunMode"%string.
Definition Qt3DCore_QAttribute := "Qt3DCore::QAttribute"%string.
Definition Qt3DCore_QAttribute_AttributeType := "Qt3DCore::QAttribute::AttributeType"%string.
Definition Qt3DCore_QAttribute_VertexBaseType := "Qt3DCore::QAttribute::VertexBaseType"%string.
Definition Qt3DCore_QBackendNode_Mode := "Qt3DCore::QBackendNode::Mode"%string.
Definition Qt3DCore_QBuffer := "Qt3DCore::QBuffer"%string.
Definition Qt3DCore_QBuffer_AccessType := "Qt3DCore::QBuffer::AccessType"%string.
Definition Qt3DCore_QBuffer_UsageType := "Qt3DCore::QBuffer::UsageType"%string.
Definition Qt3DCore_QBuffer_ptr := "Qt3DCore::QBuffer*"%string.
Definition Qt3DCore_QComponent := "Qt3DCore::QComponent"%string.
Definition Qt3DCore_QEntity := "Qt3DCore::QEntity"%string.
Definition Qt3DCore_QGeometry := "Qt3DCore::QGeometry"%string.
Definition Qt3DCore_QGeometryView := "Qt3DCore::QGeometryView"%string.
Definition Qt3DCore_QGeometryView_PrimitiveType := "Qt3DCore::QGeometryView::PrimitiveType"%string.
Definition Qt3DCore_QJoint := "Qt3DCore::QJoint"%string.
Definition Qt3DCore_QNode := "Qt3DCore::QNode"%string.
Definition Qt3DCore_QNode_ptr := "Qt3DCore::QNode*"%string.
Definition Qt3DCore_QSkeletonLoader_Status := "Qt3DCore::QSkeletonLoader::Status"%string.
Definition Qt3DExtras := "Qt3DExtras"%string.
Definition Qt3DExtras_QSpriteSheetItem := "Qt3DExtras::QSpriteSheetItem"%string.
Definition Qt3DInput := "Qt3DInput"%string.
Definition Qt3DInput_QAbstractActionInput := "Qt3DInput::QAbstractActionInput"%string.
Definition Qt3DInput_QAbstractAxisInput := "Qt3DInput::QAbstractAxisInput"%string.
Definition Qt3DInput_QAbstractPhysicalDevice := "Qt3DInput::QAbstractPhysicalDevice"%string.
Definition Qt3DInput_QAction := "Qt3DInput::QAction"%string.
Definition Qt3DInput_QAxis := "Qt3DInput::QAxis"%string.
Definition Qt3DInput_QAxisAccumulator_SourceAxisType := "Qt3DInput::QAxisAccumulator::SourceAxisType"%string.
Definition Qt3DInput_QAxisSetting := "Qt3DInput::QAxisSetting"%string.
Definition Qt3DInput_QKeyboardDevice := "Qt3DInput::QKeyboardDevice"%string.
Definition Qt3DInput_QMouseDevice := "Qt3DInput::QMouseDevice"%string.
Definition Qt3DInput_QMouseEvent_Buttons := "Qt3DInput::QMouseEvent::Buttons"%string.
Definition Qt3DInput_QMouseEvent_Modifiers := "Qt3DInput::QMouseEvent::Modifiers"%string.
Definition Qt3DInput_QWheelEvent_Modifiers := "Qt3DInput::QWheelEvent::Modifiers"%string.
Definition Qt3DLogic := "Qt3DLogic"%string.
Definition Qt3DRender := "Qt3DRender"%string.
Definition Qt3DRender_QAbstractLight_Type := "Qt3DRender::QAbstractLight::Type"%string.
Definition Qt3DRender_QAbstractRayCaster_FilterMode := "Qt3DRender::QAbstractRayCaster::FilterMode"%string.
Definition Qt3DRender_QAbstractRayCaster_RunMode := "Qt3DRender::QAbstractRayCaster::RunMode"%string.
Definition Qt3DRender_QAbstractTexture := "Qt3DRender::QAbstractTexture"%string.
Definition Qt3DRender_QAbstractTextureImage := "Qt3DRender::QAbstractTextureImage"%string.
Definition Qt3DRender_QAbstractTexture_ComparisonFunction := "Qt3DRender::QAbstractTexture::ComparisonFunction"%string.
Definition Qt3DRender_QAbstractTexture_ComparisonMode := "Qt3DRender::QAbstractTexture::ComparisonMode"%string.
Definition Qt3DRender_QAbstractTexture_CubeMapFace := "Qt3DRender::QAbstractTexture::CubeMapFace"%string.
Definition Qt3DRender_QAbstractTexture_Filter := "Qt3DRender::QAbstractTexture::Filter"%string.
Definition Qt3DRender_QAbstractTexture_HandleType := "Qt3DRender::QAbstractTexture::HandleType"%string.
Definition Qt3DRender_QAbstractTexture_Status := "Qt3DRender::QAbstractTexture::Status"%string.
Definition Qt3DRender_QAbstractTexture_Target := "Qt3DRender::QAbstractTexture::Target"%string.
Definition Qt3DRender_QAbstractTexture_TextureFormat := "Qt3DRender::QAbstractTexture::TextureFormat"%string.
Definition Qt3DRender_QAbstractTexture_ptr := "Qt3DRender::QAbstractTexture*"%string.
Definition Qt3DRender_QAlphaTest_AlphaFunction := "Qt3DRender::QAlphaTest::AlphaFunction"%string.
Definition Qt3DRender_QBlendEquationArguments_Blending := "Qt3DRender::QBlendEquationArguments::Blending"%string.
Definition Qt3DRender_QBlendEquation_BlendFunction := "Qt3DRender::QBlendEquation::BlendFunction"%string.
Definition Qt3DRender_QBlitFramebuffer_InterpolationMethod := "Qt3DRender::QBlitFramebuffer::InterpolationMethod"%string.
Definition Qt3DRender_QCamera := "Qt3DRender::QCamera"%string.
Definition Qt3DRender_QCameraLens_ProjectionType := "Qt3DRender::QCameraLens::ProjectionType"%string.
Definition Qt3DRender_QCamera_CameraTranslationOption := "Qt3DRender::QCamera::CameraTranslationOption"%string.
Definition Qt3DRender_QClearBuffers_BufferType := "Qt3DRender::QClearBuffers::BufferType"%string.
Definition Qt3DRender_QComputeCommand_RunType := "Qt3DRender::QComputeCommand::RunType"%string.
Definition Qt3DRender_QCullFace_CullingMode := "Qt3DRender::QCullFace::CullingMode"%string.
Definition Qt3DRender_QDepthTest_DepthFunction := "Qt3DRender::QDepthTest::DepthFunction"%string.
Definition Qt3DRender_QEffect := "Qt3DRender::QEffect"%string.
Definition Qt3DRender_QFilterKey := "Qt3DRender::QFilterKey"%string.
Definition Qt3DRender_QFrameGraphNode := "Qt3DRender::QFrameGraphNode"%string.
Definition Qt3DRender_QFrontFace_WindingDirection := "Qt3DRender::QFrontFace::WindingDirection"%string.
Definition Qt3DRender_QGeometryRenderer := "Qt3DRender::QGeometryRenderer"%string.
Definition Qt3DRender_QGeometryRenderer_PrimitiveType := "Qt3DRender::QGeometryRenderer::PrimitiveType"%string.
Definition Qt3DRender_QGraphicsApiFilter_Api := "Qt3DRender::QGraphicsApiFilter::Api"%string.
Definition Qt3DRender_QGraphicsApiFilter_OpenGLProfile := "Qt3DRender::QGraphicsApiFilter::OpenGLProfile"%string.
Definition Qt3DRender_QLayer := "Qt3DRender::QLayer"%string.
Definition Qt3DRender_QLayerFilter_FilterMode := "Qt3DRender::QLayerFilter::FilterMode"%string.
Definition Qt3DRender_QLevelOfDetail_ThresholdType := "Qt3DRender::QLevelOfDetail::ThresholdType"%string.
Definition Qt3DRender_QMemoryBarrier_Operations := "Qt3DRender::QMemoryBarrier::Operations"%string.
Definition Qt3DRender_QMesh_Status := "Qt3DRender::QMesh::Status"%string.
Definition Qt3DRender_QParameter := "Qt3DRender::QParameter"%string.
Definition Qt3DRender_QPickEvent_Buttons := "Qt3DRender::QPickEvent::Buttons"%string.
Definition Qt3DRender_QPickingSettings_FaceOrientationPickingMode := "Qt3DRender::QPickingSettings::FaceOrientationPickingMode"%string.
Definition Qt3DRender_QPickingSettings_PickMethod := "Qt3DRender::QPickingSettings::PickMethod"%string.
Definition Qt3DRender_QPickingSettings_PickResultMode := "Qt3DRender::QPickingSettings::PickResultMode"%string.
Definition Qt3DRender_QPointSize_SizeMode := "Qt3DRender::QPointSize::SizeMode"%string.
Definition Qt3DRender_QRasterMode_FaceMode := "Qt3DRender::QRasterMode::FaceMode"%string.
Definition Qt3DRender_QRasterMode_RasterMode := "Qt3DRender::QRasterMode::RasterMode"%string.
Definition Qt3DRender_QRayCasterHit_HitType := "Qt3DRender::QRayCasterHit::HitType"%string.
Definition Qt3DRender_QRenderAspect_SubmissionType := "Qt3DRender::QRenderAspect::SubmissionType"%string.
Definition Qt3DRender_QRenderCapabilities_API := "Qt3DRender::QRenderCapabilities::API"%string.
Definition Qt3DRender_QRenderCapabilities_Profile := "Qt3DRender::QRenderCapabilities::Profile"%string.
Definition Qt3DRender_QRenderPass := "Qt3DRender::QRenderPass"%string.
Definition Qt3DRender_QRenderSettings_RenderPolicy := "Qt3DRender::QRenderSettings::RenderPolicy"%string.
Definition Qt3DRender_QRenderState := "Qt3DRender::QRenderState"%string.
Definition Qt3DRender_QRenderTarget := "Qt3DRender::QRenderTarget"%string.
Definition Qt3DRender_QRenderTargetOutput := "Qt3DRender::QRenderTargetOutput"%string.
Definition Qt3DRender_QRenderTargetOutput_AttachmentPoint := "Qt3DRender::QRenderTargetOutput::AttachmentPoint"%string.
Definition Qt3DRender_QSceneLoader_ComponentType := "Qt3DRender::QSceneLoader::ComponentType"%string.
Definition Qt3DRender_QSceneLoader_Status := "Qt3DRender::QSceneLoader::Status"%string.
Definition Qt3DRender_QSetFence_HandleType := "Qt3DRender::QSetFence::HandleType"%string.
Definition Qt3DRender_QShaderImage_Access := "Qt3DRender::QShaderImage::Access"%string.
Definition Qt3DRender_QShaderImage_ImageFormat := "Qt3DRender::QShaderImage::ImageFormat"%string.
Definition Qt3DRender_QShaderProgram := "Qt3DRender::QShaderProgram"%string.
Definition Qt3DRender_QShaderProgram_Format := "Qt3DRender::QShaderProgram::Format"%string.
Definition Qt3DRender_QShaderProgram_ShaderType := "Qt3DRender::QShaderProgram::ShaderType"%string.
Definition Qt3DRender_QShaderProgram_Status := "Qt3DRender::QShaderProgram::Status"%string.
Definition Qt3DRender_QSortPolicy_SortType := "Qt3DRender::QSortPolicy::SortType"%string.
Definition Qt3DRender_QStencilOperationArguments_FaceMode := "Qt3DRender::QStencilOperationArguments::FaceMode"%string.
Definition Qt3DRender_QStencilOperationArguments_Operation := "Qt3DRender::QStencilOperationArguments::Operation"%string.
Definition Qt3DRender_QStencilTestArguments_StencilFaceMode := "Qt3DRender::QStencilTestArguments::StencilFaceMode"%string.
Definition Qt3DRender_QStencilTestArguments_StencilFunction := "Qt3DRender::QStencilTestArguments::StencilFunction"%string.
Definition Qt3DRender_QSubtreeEnabler_Enablement := "Qt3DRender::QSubtreeEnabler::Enablement"%string.
Definition Qt3DRender_QTechnique := "Qt3DRender::QTechnique"%string.
Definition Qt3DRender_QTextureImage_Status := "Qt3DRender::QTextureImage::Status"%string.
Definition Qt3DRender_QTextureWrapMode_WrapMode := "Qt3DRender::QTextureWrapMode::WrapMode"%string.
Definition Qt3DRender_QWaitFence_HandleType := "Qt3DRender::QWaitFence::HandleType"%string.
Definition Qt3DWindow := "Qt3DWindow"%string.
Definition QtAxContainer := "QtAxContainer"%string.
Definition QtBluetooth := "QtBluetooth"%string.
Definition QtCharts := "QtCharts"%string.
Definition QtCore := "QtCore"%string.
Definition QtDBus := "QtDBus"%string.
Definition QtDataVisualization := "QtDataVisualization"%string.
Definition QtDesigner := "QtDesigner"%string.
Definition QtGraphs := "QtGraphs"%string.
Definition QtGraphsWidgets := "QtGraphsWidgets"%string.
Definition QtGui := "QtGui"%string.
Definition QtHelp := "QtHelp"%string.
Definition QtMultimedia := "QtMultimedia"%string.
Definition QtMultimediaWidgets := "QtMultimediaWidgets"%string.
Definition QtNetwork := "QtNetwork"%string.
Definition QtNetworkAuth := "QtNetworkAuth"%string.
Definition QtNfc := "QtNfc"%string.
Definition QtOpenGL := "QtOpenGL"%string.
Definition QtOpenGLWidgets := "QtOpenGLWidgets"%string.
Definition QtPdf := "QtPdf"%string.
Definition QtPdfWidgets := "QtPdfWidgets"%string.
Definition QtPositioning := "QtPositioning"%string.
Definition QtPrintSupport := "QtPrintSupport"%string.
Definition QtQml := "QtQml"%string.
Definition QtQuick := "QtQuick"%string.
Definition QtQuick3D := "QtQuick3D"%string.
Definition QtQuickWidgets := "QtQuickWidgets"%string.
Definition QtRemoteObjects := "QtRemoteObjects"%string.
Definition QtSensors := "QtSensors"%string.
Definition QtSerialPort := "QtSerialPort"%string.
Definition QtSpatialAudio := "QtSpatialAudio"%string.
Definition QtSql := "QtSql"%string.
Definition QtStateMachine := "QtStateMachine"%string.
Definition QtSvg := "QtSvg"%string.
Definition QtSvgWidgets := "QtSvgWidgets"%string.
Definition QtTest := "QtTest"%string.
Definition QtTextToSpeech := "QtTextToSpeech"%string.
Definition QtWebChannel := "QtWebChannel"%string.
Definition QtWebEngineCore := "QtWebEngineCore"%string.
Definition QtWebEngineQuick := "QtWebEngineQuick"%string.
Definition QtWebEngineWidgets := "QtWebEngineWidgets"%string.
Definition QtWebSockets := "QtWebSockets"%string.
Definition QtWidgets := "QtWidgets"%string.
Definition QtXml := "QtXml"%string.
Definition Qt_Alignment := "Qt::Alignment"%string.
Definition Qt_ApplicationAttribute := "Qt::ApplicationAttribute"%string.
Definition Qt_ApplicationState := "Qt::ApplicationState"%string.
Definition Qt_ArrowType := "Qt::ArrowType"%string.
Definition Qt_AspectRatioMode := "Qt::AspectRatioMode"%string.
Definition Qt_Axis := "Qt::Axis"%string.
Definition Qt_BGMode := "Qt::BGMode"%string.
Definition Qt_BrushStyle := "Qt::BrushStyle"%string.
Definition Qt_CaseSensitivity := "Qt::CaseSensitivity"%string.
Definition Qt_CheckState := "Qt::CheckState"%string.
Definition Qt_ClipOperation := "Qt::ClipOperation"%string.
Definition Qt_ColorScheme := "Qt::ColorScheme"%string.
Definition Qt_ContextMenuPolicy := "Qt::ContextMenuPolicy"%string.
Definition Qt_ContextMenuTrigger := "Qt::ContextMenuTrigger"%string.
Definition Qt_ContrastPreference := "Qt::ContrastPreference"%string.
Definition Qt_Corner := "Qt::Corner"%string.
Definition Qt_CursorMoveStyle := "Qt::CursorMoveStyle"%string.
Definition Qt_CursorShape := "Qt::CursorShape"%string.
Definition Qt_DateFormat := "Qt::DateFormat"%string.
Definition Qt_DayOfWeek := "Qt::DayOfWeek"%string.
Definition Qt_DockWidgetArea := "Qt::DockWidgetArea"%string.
Definition Qt_DockWidgetAreas := "Qt::DockWidgetAreas"%string.
Definition Qt_DropAction := "Qt::DropAction"%string.
Definition Qt_DropActions := "Qt::DropActions"%string.
Definition Qt_Edges := "Qt::Edges"%string.
Definition Qt_FillRule := "Qt::FillRule"%string.
Definition Qt_FocusPolicy := "Qt::FocusPolicy"%string.
Definition Qt_FocusReason := "Qt::FocusReason"%string.
Definition Qt_GestureState := "Qt::GestureState"%string.
Definition Qt_GestureType := "Qt::GestureType"%string.
Definition Qt_GlobalColor := "Qt::GlobalColor"%string.
Definition Qt_HANDLE := "Qt::HANDLE"%string.
Definition Qt_HighDpiScaleFactorRoundingPolicy := "Qt::HighDpiScaleFactorRoundingPolicy"%string.
Definition Qt_HitTestAccuracy := "Qt::HitTestAccuracy"%string.
Definition Qt_InputMethodQueries := "Qt::InputMethodQueries"%string.
Definition Qt_InputMethodQuery := "Qt::InputMethodQuery"%string.
Definition Qt_ItemSelectionMode := "Qt::ItemSelectionMode"%string.
Definition Qt_ItemSelectionOperation := "Qt::ItemSelectionOperation"%string.
Definition Qt_Key := "Qt::Key"%string.
Definition Qt_KeyboardModifiers := "Qt::KeyboardModifiers"%string.
Definition Qt_LayoutDirection := "Qt::LayoutDirection"%string.
Definition Qt_MaskMode := "Qt::MaskMode"%string.
Definition Qt_Modifiers := "Qt::Modifiers"%string.
Definition Qt_MouseButton := "Qt::MouseButton"%string.
Definition Qt_MouseButtons := "Qt::MouseButtons"%string.
Definition Qt_MouseEventSource := "Qt::MouseEventSource"%string.
Definition Qt_NativeGestureType := "Qt::NativeGestureType"%string.
Definition Qt_Orientation := "Qt::Orientation"%string.
Definition Qt_Orientations := "Qt::Orientations"%string.
Definition Qt_PenCapStyle := "Qt::PenCapStyle"%string.
Definition Qt_PenJoinStyle := "Qt::PenJoinStyle"%string.
Definition Qt_PenStyle := "Qt::PenStyle"%string.
Definition Qt_PermissionStatus := "Qt::PermissionStatus"%string.
Definition Qt_ScreenOrientation := "Qt::ScreenOrientation"%string.
Definition Qt_ScrollBarPolicy := "Qt::ScrollBarPolicy"%string.
Definition Qt_ScrollPhase := "Qt::ScrollPhase"%string.
Definition Qt_ShortcutContext := "Qt::ShortcutContext"%string.
Definition Qt_SizeHint := "Qt::SizeHint"%string.
Definition Qt_SizeMode := "Qt::SizeMode"%string.
Definition Qt_SortOrder := "Qt::SortOrder"%string.
Definition Qt_TabFocusBehavior := "Qt::TabFocusBehavior"%string.
Definition Qt_TextElideMode := "Qt::TextElideMode"%string.
Definition Qt_TextFormat := "Qt::TextFormat"%string.
Definition Qt_TimeSpec := "Qt::TimeSpec"%string.
Definition Qt_TimerType := "Qt::TimerType"%string.
Definition Qt_ToolBarArea := "Qt::ToolBarArea"%string.
Definition Qt_ToolBarAreas := "Qt::ToolBarAreas"%string.
Definition Qt_ToolButtonStyle := "Qt::ToolButtonStyle"%string.
Definition Qt_TransformationMode := "Qt::TransformationMode"%string.
Definition Qt_UIEffect := "Qt::UIEffect"%string.
Definition Qt_WidgetAttribute := "Qt::WidgetAttribute"%string.
Definition Qt_WindowFlags := "Qt::WindowFlags"%string.
Definition Qt_WindowModality := "Qt::WindowModality"%string.
Definition Qt_WindowState := "Qt::WindowState"%string.
Definition Qt_WindowStates := "Qt::WindowStates"%string.
Definition Qt_WindowType := "Qt::WindowType"%string.
Definition TYPE_QT3DANIMATION_QABSTRACTANIMATION := "KRY_QT6_NATIVE_TYPE_QT3DANIMATION_QABSTRACTANIMATION"%string.
Definition TYPE_QT3DANIMATION_QABSTRACTANIMATIONCLIP := "KRY_QT6_NATIVE_TYPE_QT3DANIMATION_QABSTRACTANIMATIONCLIP"%string.
Definition TYPE_QT3DANIMATION_QABSTRACTCHANNELMAPPING := "KRY_QT6_NATIVE_TYPE_QT3DANIMATION_QABSTRACTCHANNELMAPPING"%string.
Definition TYPE_QT3DANIMATION_QABSTRACTCLIPBLENDNODE := "KRY_QT6_NATIVE_TYPE_QT3DANIMATION_QABSTRACTCLIPBLENDNODE"%string.
Definition TYPE_QT3DANIMATION_QANIMATIONCLIPLOADER := "KRY_QT6_NATIVE_TYPE_QT3DANIMATION_QANIMATIONCLIPLOADER"%string.
Definition TYPE_QT3DANIMATION_QANIMATIONGROUP := "KRY_QT6_NATIVE_TYPE_QT3DANIMATION_QANIMATIONGROUP"%string.
Definition TYPE_QT3DANIMATION_QCHANNELMAPPER := "KRY_QT6_NATIVE_TYPE_QT3DANIMATION_QCHANNELMAPPER"%string.
Definition TYPE_QT3DANIMATION_QCLOCK := "KRY_QT6_NATIVE_TYPE_QT3DANIMATION_QCLOCK"%string.
Definition TYPE_QT3DANIMATION_QKEYFRAME := "KRY_QT6_NATIVE_TYPE_QT3DANIMATION_QKEYFRAME"%string.
Definition TYPE_QT3DANIMATION_QKEYFRAMEANIMATION := "KRY_QT6_NATIVE_TYPE_QT3DANIMATION_QKEYFRAMEANIMATION"%string.
Definition TYPE_QT3DANIMATION_QMORPHINGANIMATION := "KRY_QT6_NATIVE_TYPE_QT3DANIMATION_QMORPHINGANIMATION"%string.
Definition TYPE_QT3DANIMATION_QMORPHTARGET := "KRY_QT6_NATIVE_TYPE_QT3DANIMATION_QMORPHTARGET"%string.
Definition TYPE_QT3DCORE_QABSTRACTASPECT := "KRY_QT6_NATIVE_TYPE_QT3DCORE_QABSTRACTASPECT"%string.
Definition TYPE_QT3DCORE_QABSTRACTSKELETON := "KRY_QT6_NATIVE_TYPE_QT3DCORE_QABSTRACTSKELETON"%string.
Definition TYPE_QT3DCORE_QASPECTENGINE := "KRY_QT6_NATIVE_TYPE_QT3DCORE_QASPECTENGINE"%string.
Definition TYPE_QT3DCORE_QATTRIBUTE := "KRY_QT6_NATIVE_TYPE_QT3DCORE_QATTRIBUTE"%string.
Definition TYPE_QT3DCORE_QBACKENDNODE := "KRY_QT6_NATIVE_TYPE_QT3DCORE_QBACKENDNODE"%string.
Definition TYPE_QT3DCORE_QBUFFER := "KRY_QT6_NATIVE_TYPE_QT3DCORE_QBUFFER"%string.
Definition TYPE_QT3DCORE_QCOMPONENT := "KRY_QT6_NATIVE_TYPE_QT3DCORE_QCOMPONENT"%string.
Definition TYPE_QT3DCORE_QENTITY := "KRY_QT6_NATIVE_TYPE_QT3DCORE_QENTITY"%string.
Definition TYPE_QT3DCORE_QGEOMETRY := "KRY_QT6_NATIVE_TYPE_QT3DCORE_QGEOMETRY"%string.
Definition TYPE_QT3DCORE_QGEOMETRYVIEW := "KRY_QT6_NATIVE_TYPE_QT3DCORE_QGEOMETRYVIEW"%string.
Definition TYPE_QT3DCORE_QJOINT := "KRY_QT6_NATIVE_TYPE_QT3DCORE_QJOINT"%string.
Definition TYPE_QT3DCORE_QNODE := "KRY_QT6_NATIVE_TYPE_QT3DCORE_QNODE"%string.
Definition TYPE_QT3DCORE_QSKELETONLOADER := "KRY_QT6_NATIVE_TYPE_QT3DCORE_QSKELETONLOADER"%string.
Definition TYPE_QT3DEXTRAS_QFORWARDRENDERER := "KRY_QT6_NATIVE_TYPE_QT3DEXTRAS_QFORWARDRENDERER"%string.
Definition TYPE_QT3DEXTRAS_QSPRITESHEETITEM := "KRY_QT6_NATIVE_TYPE_QT3DEXTRAS_QSPRITESHEETITEM"%string.
Definition TYPE_QT3DINPUT_QABSTRACTACTIONINPUT := "KRY_QT6_NATIVE_TYPE_QT3DINPUT_QABSTRACTACTIONINPUT"%string.
Definition TYPE_QT3DINPUT_QABSTRACTAXISINPUT := "KRY_QT6_NATIVE_TYPE_QT3DINPUT_QABSTRACTAXISINPUT"%string.
Definition TYPE_QT3DINPUT_QABSTRACTPHYSICALDEVICE := "KRY_QT6_NATIVE_TYPE_QT3DINPUT_QABSTRACTPHYSICALDEVICE"%string.
Definition TYPE_QT3DINPUT_QACTION := "KRY_QT6_NATIVE_TYPE_QT3DINPUT_QACTION"%string.
Definition TYPE_QT3DINPUT_QAXIS := "KRY_QT6_NATIVE_TYPE_QT3DINPUT_QAXIS"%string.
Definition TYPE_QT3DINPUT_QAXISACCUMULATOR := "KRY_QT6_NATIVE_TYPE_QT3DINPUT_QAXISACCUMULATOR"%string.
Definition TYPE_QT3DINPUT_QAXISSETTING := "KRY_QT6_NATIVE_TYPE_QT3DINPUT_QAXISSETTING"%string.
Definition TYPE_QT3DINPUT_QKEYBOARDDEVICE := "KRY_QT6_NATIVE_TYPE_QT3DINPUT_QKEYBOARDDEVICE"%string.
Definition TYPE_QT3DINPUT_QKEYBOARDHANDLER := "KRY_QT6_NATIVE_TYPE_QT3DINPUT_QKEYBOARDHANDLER"%string.
Definition TYPE_QT3DINPUT_QMOUSEDEVICE := "KRY_QT6_NATIVE_TYPE_QT3DINPUT_QMOUSEDEVICE"%string.
Definition TYPE_QT3DINPUT_QMOUSEEVENT := "KRY_QT6_NATIVE_TYPE_QT3DINPUT_QMOUSEEVENT"%string.
Definition TYPE_QT3DINPUT_QWHEELEVENT := "KRY_QT6_NATIVE_TYPE_QT3DINPUT_QWHEELEVENT"%string.
Definition TYPE_QT3DRENDER_QABSTRACTLIGHT := "KRY_QT6_NATIVE_TYPE_QT3DRENDER_QABSTRACTLIGHT"%string.
Definition TYPE_QT3DRENDER_QABSTRACTRAYCASTER := "KRY_QT6_NATIVE_TYPE_QT3DRENDER_QABSTRACTRAYCASTER"%string.
Definition TYPE_QT3DRENDER_QABSTRACTTEXTURE := "KRY_QT6_NATIVE_TYPE_QT3DRENDER_QABSTRACTTEXTURE"%string.
Definition TYPE_QT3DRENDER_QABSTRACTTEXTUREIMAGE := "KRY_QT6_NATIVE_TYPE_QT3DRENDER_QABSTRACTTEXTUREIMAGE"%string.
Definition TYPE_QT3DRENDER_QALPHATEST := "KRY_QT6_NATIVE_TYPE_QT3DRENDER_QALPHATEST"%string.
Definition TYPE_QT3DRENDER_QBLENDEQUATION := "KRY_QT6_NATIVE_TYPE_QT3DRENDER_QBLENDEQUATION"%string.
Definition TYPE_QT3DRENDER_QBLENDEQUATIONARGUMENTS := "KRY_QT6_NATIVE_TYPE_QT3DRENDER_QBLENDEQUATIONARGUMENTS"%string.
Definition TYPE_QT3DRENDER_QBLITFRAMEBUFFER := "KRY_QT6_NATIVE_TYPE_QT3DRENDER_QBLITFRAMEBUFFER"%string.
Definition TYPE_QT3DRENDER_QCAMERA := "KRY_QT6_NATIVE_TYPE_QT3DRENDER_QCAMERA"%string.
Definition TYPE_QT3DRENDER_QCAMERALENS := "KRY_QT6_NATIVE_TYPE_QT3DRENDER_QCAMERALENS"%string.
Definition TYPE_QT3DRENDER_QCLEARBUFFERS := "KRY_QT6_NATIVE_TYPE_QT3DRENDER_QCLEARBUFFERS"%string.
Definition TYPE_QT3DRENDER_QCOMPUTECOMMAND := "KRY_QT6_NATIVE_TYPE_QT3DRENDER_QCOMPUTECOMMAND"%string.
Definition TYPE_QT3DRENDER_QCULLFACE := "KRY_QT6_NATIVE_TYPE_QT3DRENDER_QCULLFACE"%string.
Definition TYPE_QT3DRENDER_QDEPTHTEST := "KRY_QT6_NATIVE_TYPE_QT3DRENDER_QDEPTHTEST"%string.
Definition TYPE_QT3DRENDER_QEFFECT := "KRY_QT6_NATIVE_TYPE_QT3DRENDER_QEFFECT"%string.
Definition TYPE_QT3DRENDER_QFILTERKEY := "KRY_QT6_NATIVE_TYPE_QT3DRENDER_QFILTERKEY"%string.
Definition TYPE_QT3DRENDER_QFRAMEGRAPHNODE := "KRY_QT6_NATIVE_TYPE_QT3DRENDER_QFRAMEGRAPHNODE"%string.
Definition TYPE_QT3DRENDER_QFRONTFACE := "KRY_QT6_NATIVE_TYPE_QT3DRENDER_QFRONTFACE"%string.
Definition TYPE_QT3DRENDER_QGEOMETRYRENDERER := "KRY_QT6_NATIVE_TYPE_QT3DRENDER_QGEOMETRYRENDERER"%string.
Definition TYPE_QT3DRENDER_QGRAPHICSAPIFILTER := "KRY_QT6_NATIVE_TYPE_QT3DRENDER_QGRAPHICSAPIFILTER"%string.
Definition TYPE_QT3DRENDER_QLAYER := "KRY_QT6_NATIVE_TYPE_QT3DRENDER_QLAYER"%string.
Definition TYPE_QT3DRENDER_QLAYERFILTER := "KRY_QT6_NATIVE_TYPE_QT3DRENDER_QLAYERFILTER"%string.
Definition TYPE_QT3DRENDER_QLEVELOFDETAIL := "KRY_QT6_NATIVE_TYPE_QT3DRENDER_QLEVELOFDETAIL"%string.
Definition TYPE_QT3DRENDER_QMEMORYBARRIER := "KRY_QT6_NATIVE_TYPE_QT3DRENDER_QMEMORYBARRIER"%string.
Definition TYPE_QT3DRENDER_QMESH := "KRY_QT6_NATIVE_TYPE_QT3DRENDER_QMESH"%string.
Definition TYPE_QT3DRENDER_QPARAMETER := "KRY_QT6_NATIVE_TYPE_QT3DRENDER_QPARAMETER"%string.
Definition TYPE_QT3DRENDER_QPICKEVENT := "KRY_QT6_NATIVE_TYPE_QT3DRENDER_QPICKEVENT"%string.
Definition TYPE_QT3DRENDER_QPICKINGSETTINGS := "KRY_QT6_NATIVE_TYPE_QT3DRENDER_QPICKINGSETTINGS"%string.
Definition TYPE_QT3DRENDER_QPOINTSIZE := "KRY_QT6_NATIVE_TYPE_QT3DRENDER_QPOINTSIZE"%string.
Definition TYPE_QT3DRENDER_QRASTERMODE := "KRY_QT6_NATIVE_TYPE_QT3DRENDER_QRASTERMODE"%string.
Definition TYPE_QT3DRENDER_QRAYCASTERHIT := "KRY_QT6_NATIVE_TYPE_QT3DRENDER_QRAYCASTERHIT"%string.
Definition TYPE_QT3DRENDER_QRENDERASPECT := "KRY_QT6_NATIVE_TYPE_QT3DRENDER_QRENDERASPECT"%string.
Definition TYPE_QT3DRENDER_QRENDERCAPABILITIES := "KRY_QT6_NATIVE_TYPE_QT3DRENDER_QRENDERCAPABILITIES"%string.
Definition TYPE_QT3DRENDER_QRENDERCAPTUREREPLY := "KRY_QT6_NATIVE_TYPE_QT3DRENDER_QRENDERCAPTUREREPLY"%string.
Definition TYPE_QT3DRENDER_QRENDERPASS := "KRY_QT6_NATIVE_TYPE_QT3DRENDER_QRENDERPASS"%string.
Definition TYPE_QT3DRENDER_QRENDERSETTINGS := "KRY_QT6_NATIVE_TYPE_QT3DRENDER_QRENDERSETTINGS"%string.
Definition TYPE_QT3DRENDER_QRENDERSTATE := "KRY_QT6_NATIVE_TYPE_QT3DRENDER_QRENDERSTATE"%string.
Definition TYPE_QT3DRENDER_QRENDERTARGET := "KRY_QT6_NATIVE_TYPE_QT3DRENDER_QRENDERTARGET"%string.
Definition TYPE_QT3DRENDER_QRENDERTARGETOUTPUT := "KRY_QT6_NATIVE_TYPE_QT3DRENDER_QRENDERTARGETOUTPUT"%string.
Definition TYPE_QT3DRENDER_QSCENELOADER := "KRY_QT6_NATIVE_TYPE_QT3DRENDER_QSCENELOADER"%string.
Definition TYPE_QT3DRENDER_QSETFENCE := "KRY_QT6_NATIVE_TYPE_QT3DRENDER_QSETFENCE"%string.
Definition TYPE_QT3DRENDER_QSHADERIMAGE := "KRY_QT6_NATIVE_TYPE_QT3DRENDER_QSHADERIMAGE"%string.
Definition TYPE_QT3DRENDER_QSHADERPROGRAM := "KRY_QT6_NATIVE_TYPE_QT3DRENDER_QSHADERPROGRAM"%string.
Definition TYPE_QT3DRENDER_QSORTPOLICY := "KRY_QT6_NATIVE_TYPE_QT3DRENDER_QSORTPOLICY"%string.
Definition TYPE_QT3DRENDER_QSTENCILOPERATIONARGUMENTS := "KRY_QT6_NATIVE_TYPE_QT3DRENDER_QSTENCILOPERATIONARGUMENTS"%string.
Definition TYPE_QT3DRENDER_QSTENCILTESTARGUMENTS := "KRY_QT6_NATIVE_TYPE_QT3DRENDER_QSTENCILTESTARGUMENTS"%string.
Definition TYPE_QT3DRENDER_QSUBTREEENABLER := "KRY_QT6_NATIVE_TYPE_QT3DRENDER_QSUBTREEENABLER"%string.
Definition TYPE_QT3DRENDER_QTECHNIQUE := "KRY_QT6_NATIVE_TYPE_QT3DRENDER_QTECHNIQUE"%string.
Definition TYPE_QT3DRENDER_QTEXTUREIMAGE := "KRY_QT6_NATIVE_TYPE_QT3DRENDER_QTEXTUREIMAGE"%string.
Definition TYPE_QT3DRENDER_QTEXTUREWRAPMODE := "KRY_QT6_NATIVE_TYPE_QT3DRENDER_QTEXTUREWRAPMODE"%string.
Definition TYPE_QT3DRENDER_QVIEWPORT := "KRY_QT6_NATIVE_TYPE_QT3DRENDER_QVIEWPORT"%string.
Definition TYPE_QT3DRENDER_QWAITFENCE := "KRY_QT6_NATIVE_TYPE_QT3DRENDER_QWAITFENCE"%string.
Definition TYPE_QTBLUETOOTH_QBLUETOOTHDEVICEDISCOVERYAGENT := "KRY_QT6_NATIVE_TYPE_QTBLUETOOTH_QBLUETOOTHDEVICEDISCOVERYAGENT"%string.
Definition TYPE_QTBLUETOOTH_QBLUETOOTHDEVICEINFO := "KRY_QT6_NATIVE_TYPE_QTBLUETOOTH_QBLUETOOTHDEVICEINFO"%string.
Definition TYPE_QTBLUETOOTH_QBLUETOOTHLOCALDEVICE := "KRY_QT6_NATIVE_TYPE_QTBLUETOOTH_QBLUETOOTHLOCALDEVICE"%string.
Definition TYPE_QTBLUETOOTH_QBLUETOOTHSERVER := "KRY_QT6_NATIVE_TYPE_QTBLUETOOTH_QBLUETOOTHSERVER"%string.
Definition TYPE_QTBLUETOOTH_QBLUETOOTHSERVICEDISCOVERYAGENT := "KRY_QT6_NATIVE_TYPE_QTBLUETOOTH_QBLUETOOTHSERVICEDISCOVERYAGENT"%string.
Definition TYPE_QTBLUETOOTH_QBLUETOOTHSERVICEINFO := "KRY_QT6_NATIVE_TYPE_QTBLUETOOTH_QBLUETOOTHSERVICEINFO"%string.
Definition TYPE_QTBLUETOOTH_QBLUETOOTHSOCKET := "KRY_QT6_NATIVE_TYPE_QTBLUETOOTH_QBLUETOOTHSOCKET"%string.
Definition TYPE_QTBLUETOOTH_QBLUETOOTHUUID := "KRY_QT6_NATIVE_TYPE_QTBLUETOOTH_QBLUETOOTHUUID"%string.
Definition TYPE_QTBLUETOOTH_QLOWENERGYADVERTISINGDATA := "KRY_QT6_NATIVE_TYPE_QTBLUETOOTH_QLOWENERGYADVERTISINGDATA"%string.
Definition TYPE_QTBLUETOOTH_QLOWENERGYADVERTISINGPARAMETERS := "KRY_QT6_NATIVE_TYPE_QTBLUETOOTH_QLOWENERGYADVERTISINGPARAMETERS"%string.
Definition TYPE_QTBLUETOOTH_QLOWENERGYCONTROLLER := "KRY_QT6_NATIVE_TYPE_QTBLUETOOTH_QLOWENERGYCONTROLLER"%string.
Definition TYPE_QTBLUETOOTH_QLOWENERGYSERVICE := "KRY_QT6_NATIVE_TYPE_QTBLUETOOTH_QLOWENERGYSERVICE"%string.
Definition TYPE_QTBLUETOOTH_QLOWENERGYSERVICEDATA := "KRY_QT6_NATIVE_TYPE_QTBLUETOOTH_QLOWENERGYSERVICEDATA"%string.
Definition TYPE_QTCHARTS_QABSTRACTAXIS := "KRY_QT6_NATIVE_TYPE_QTCHARTS_QABSTRACTAXIS"%string.
Definition TYPE_QTCHARTS_QABSTRACTBARSERIES := "KRY_QT6_NATIVE_TYPE_QTCHARTS_QABSTRACTBARSERIES"%string.
Definition TYPE_QTCHARTS_QABSTRACTSERIES := "KRY_QT6_NATIVE_TYPE_QTCHARTS_QABSTRACTSERIES"%string.
Definition TYPE_QTCHARTS_QAREASERIES := "KRY_QT6_NATIVE_TYPE_QTCHARTS_QAREASERIES"%string.
Definition TYPE_QTCHARTS_QBARSET := "KRY_QT6_NATIVE_TYPE_QTCHARTS_QBARSET"%string.
Definition TYPE_QTCHARTS_QBOXPLOTSERIES := "KRY_QT6_NATIVE_TYPE_QTCHARTS_QBOXPLOTSERIES"%string.
Definition TYPE_QTCHARTS_QBOXSET := "KRY_QT6_NATIVE_TYPE_QTCHARTS_QBOXSET"%string.
Definition TYPE_QTCHARTS_QCANDLESTICKSERIES := "KRY_QT6_NATIVE_TYPE_QTCHARTS_QCANDLESTICKSERIES"%string.
Definition TYPE_QTCHARTS_QCANDLESTICKSET := "KRY_QT6_NATIVE_TYPE_QTCHARTS_QCANDLESTICKSET"%string.
Definition TYPE_QTCHARTS_QCATEGORYAXIS := "KRY_QT6_NATIVE_TYPE_QTCHARTS_QCATEGORYAXIS"%string.
Definition TYPE_QTCHARTS_QCHART := "KRY_QT6_NATIVE_TYPE_QTCHARTS_QCHART"%string.
Definition TYPE_QTCHARTS_QLEGEND := "KRY_QT6_NATIVE_TYPE_QTCHARTS_QLEGEND"%string.
Definition TYPE_QTCHARTS_QLEGENDMARKER := "KRY_QT6_NATIVE_TYPE_QTCHARTS_QLEGENDMARKER"%string.
Definition TYPE_QTCHARTS_QLINESERIES := "KRY_QT6_NATIVE_TYPE_QTCHARTS_QLINESERIES"%string.
Definition TYPE_QTCHARTS_QPIESERIES := "KRY_QT6_NATIVE_TYPE_QTCHARTS_QPIESERIES"%string.
Definition TYPE_QTCHARTS_QPIESLICE := "KRY_QT6_NATIVE_TYPE_QTCHARTS_QPIESLICE"%string.
Definition TYPE_QTCHARTS_QPOLARCHART := "KRY_QT6_NATIVE_TYPE_QTCHARTS_QPOLARCHART"%string.
Definition TYPE_QTCHARTS_QSCATTERSERIES := "KRY_QT6_NATIVE_TYPE_QTCHARTS_QSCATTERSERIES"%string.
Definition TYPE_QTCHARTS_QVALUEAXIS := "KRY_QT6_NATIVE_TYPE_QTCHARTS_QVALUEAXIS"%string.
Definition TYPE_QTCHARTS_QXYSERIES := "KRY_QT6_NATIVE_TYPE_QTCHARTS_QXYSERIES"%string.
Definition TYPE_QTCORE_QABSTRACTANIMATION := "KRY_QT6_NATIVE_TYPE_QTCORE_QABSTRACTANIMATION"%string.
Definition TYPE_QTCORE_QABSTRACTEVENTDISPATCHER := "KRY_QT6_NATIVE_TYPE_QTCORE_QABSTRACTEVENTDISPATCHER"%string.
Definition TYPE_QTCORE_QABSTRACTITEMMODEL := "KRY_QT6_NATIVE_TYPE_QTCORE_QABSTRACTITEMMODEL"%string.
Definition TYPE_QTCORE_QABSTRACTLISTMODEL := "KRY_QT6_NATIVE_TYPE_QTCORE_QABSTRACTLISTMODEL"%string.
Definition TYPE_QTCORE_QABSTRACTPROXYMODEL := "KRY_QT6_NATIVE_TYPE_QTCORE_QABSTRACTPROXYMODEL"%string.
Definition TYPE_QTCORE_QANIMATIONGROUP := "KRY_QT6_NATIVE_TYPE_QTCORE_QANIMATIONGROUP"%string.
Definition TYPE_QTCORE_QCALENDAR := "KRY_QT6_NATIVE_TYPE_QTCORE_QCALENDAR"%string.
Definition TYPE_QTCORE_QCALENDARPERMISSION := "KRY_QT6_NATIVE_TYPE_QTCORE_QCALENDARPERMISSION"%string.
Definition TYPE_QTCORE_QCBORSTREAMREADER := "KRY_QT6_NATIVE_TYPE_QTCORE_QCBORSTREAMREADER"%string.
Definition TYPE_QTCORE_QCHAR := "KRY_QT6_NATIVE_TYPE_QTCORE_QCHAR"%string.
Definition TYPE_QTCORE_QCOMMANDLINEOPTION := "KRY_QT6_NATIVE_TYPE_QTCORE_QCOMMANDLINEOPTION"%string.
Definition TYPE_QTCORE_QCOMMANDLINEPARSER := "KRY_QT6_NATIVE_TYPE_QTCORE_QCOMMANDLINEPARSER"%string.
Definition TYPE_QTCORE_QCONTACTSPERMISSION := "KRY_QT6_NATIVE_TYPE_QTCORE_QCONTACTSPERMISSION"%string.
Definition TYPE_QTCORE_QCOREAPPLICATION := "KRY_QT6_NATIVE_TYPE_QTCORE_QCOREAPPLICATION"%string.
Definition TYPE_QTCORE_QCRYPTOGRAPHICHASH := "KRY_QT6_NATIVE_TYPE_QTCORE_QCRYPTOGRAPHICHASH"%string.
Definition TYPE_QTCORE_QDATASTREAM := "KRY_QT6_NATIVE_TYPE_QTCORE_QDATASTREAM"%string.
Definition TYPE_QTCORE_QDATETIME := "KRY_QT6_NATIVE_TYPE_QTCORE_QDATETIME"%string.
Definition TYPE_QTCORE_QDEADLINETIMER := "KRY_QT6_NATIVE_TYPE_QTCORE_QDEADLINETIMER"%string.
Definition TYPE_QTCORE_QDIR := "KRY_QT6_NATIVE_TYPE_QTCORE_QDIR"%string.
Definition TYPE_QTCORE_QDIRITERATOR := "KRY_QT6_NATIVE_TYPE_QTCORE_QDIRITERATOR"%string.
Definition TYPE_QTCORE_QEASINGCURVE := "KRY_QT6_NATIVE_TYPE_QTCORE_QEASINGCURVE"%string.
Definition TYPE_QTCORE_QELAPSEDTIMER := "KRY_QT6_NATIVE_TYPE_QTCORE_QELAPSEDTIMER"%string.
Definition TYPE_QTCORE_QEVENT := "KRY_QT6_NATIVE_TYPE_QTCORE_QEVENT"%string.
Definition TYPE_QTCORE_QEVENTLOOP := "KRY_QT6_NATIVE_TYPE_QTCORE_QEVENTLOOP"%string.
Definition TYPE_QTCORE_QFILEDEVICE := "KRY_QT6_NATIVE_TYPE_QTCORE_QFILEDEVICE"%string.
Definition TYPE_QTCORE_QFILESELECTOR := "KRY_QT6_NATIVE_TYPE_QTCORE_QFILESELECTOR"%string.
Definition TYPE_QTCORE_QIODEVICE := "KRY_QT6_NATIVE_TYPE_QTCORE_QIODEVICE"%string.
Definition TYPE_QTCORE_QITEMSELECTIONMODEL := "KRY_QT6_NATIVE_TYPE_QTCORE_QITEMSELECTIONMODEL"%string.
Definition TYPE_QTCORE_QJSONDOCUMENT := "KRY_QT6_NATIVE_TYPE_QTCORE_QJSONDOCUMENT"%string.
Definition TYPE_QTCORE_QJSONVALUE := "KRY_QT6_NATIVE_TYPE_QTCORE_QJSONVALUE"%string.
Definition TYPE_QTCORE_QLIBRARYINFO := "KRY_QT6_NATIVE_TYPE_QTCORE_QLIBRARYINFO"%string.
Definition TYPE_QTCORE_QLOCALE := "KRY_QT6_NATIVE_TYPE_QTCORE_QLOCALE"%string.
Definition TYPE_QTCORE_QLOCATIONPERMISSION := "KRY_QT6_NATIVE_TYPE_QTCORE_QLOCATIONPERMISSION"%string.
Definition TYPE_QTCORE_QLOCKFILE := "KRY_QT6_NATIVE_TYPE_QTCORE_QLOCKFILE"%string.
Definition TYPE_QTCORE_QMETAMETHOD := "KRY_QT6_NATIVE_TYPE_QTCORE_QMETAMETHOD"%string.
Definition TYPE_QTCORE_QMIMEDATA := "KRY_QT6_NATIVE_TYPE_QTCORE_QMIMEDATA"%string.
Definition TYPE_QTCORE_QMIMEDATABASE := "KRY_QT6_NATIVE_TYPE_QTCORE_QMIMEDATABASE"%string.
Definition TYPE_QTCORE_QNATIVEIPCKEY := "KRY_QT6_NATIVE_TYPE_QTCORE_QNATIVEIPCKEY"%string.
Definition TYPE_QTCORE_QOBJECT := "KRY_QT6_NATIVE_TYPE_QTCORE_QOBJECT"%string.
Definition TYPE_QTCORE_QOPERATINGSYSTEMVERSION := "KRY_QT6_NATIVE_TYPE_QTCORE_QOPERATINGSYSTEMVERSION"%string.
Definition TYPE_QTCORE_QPAUSEANIMATION := "KRY_QT6_NATIVE_TYPE_QTCORE_QPAUSEANIMATION"%string.
Definition TYPE_QTCORE_QPROCESS := "KRY_QT6_NATIVE_TYPE_QTCORE_QPROCESS"%string.
Definition TYPE_QTCORE_QPROCESSENVIRONMENT := "KRY_QT6_NATIVE_TYPE_QTCORE_QPROCESSENVIRONMENT"%string.
Definition TYPE_QTCORE_QRANGEMODEL := "KRY_QT6_NATIVE_TYPE_QTCORE_QRANGEMODEL"%string.
Definition TYPE_QTCORE_QREADWRITELOCK := "KRY_QT6_NATIVE_TYPE_QTCORE_QREADWRITELOCK"%string.
Definition TYPE_QTCORE_QREGULAREXPRESSION := "KRY_QT6_NATIVE_TYPE_QTCORE_QREGULAREXPRESSION"%string.
Definition TYPE_QTCORE_QRESOURCE := "KRY_QT6_NATIVE_TYPE_QTCORE_QRESOURCE"%string.
Definition TYPE_QTCORE_QSETTINGS := "KRY_QT6_NATIVE_TYPE_QTCORE_QSETTINGS"%string.
Definition TYPE_QTCORE_QSHAREDMEMORY := "KRY_QT6_NATIVE_TYPE_QTCORE_QSHAREDMEMORY"%string.
Definition TYPE_QTCORE_QSOCKETNOTIFIER := "KRY_QT6_NATIVE_TYPE_QTCORE_QSOCKETNOTIFIER"%string.
Definition TYPE_QTCORE_QSTANDARDPATHS := "KRY_QT6_NATIVE_TYPE_QTCORE_QSTANDARDPATHS"%string.
Definition TYPE_QTCORE_QSTRINGCONVERTER := "KRY_QT6_NATIVE_TYPE_QTCORE_QSTRINGCONVERTER"%string.
Definition TYPE_QTCORE_QSTRINGCONVERTERBASE := "KRY_QT6_NATIVE_TYPE_QTCORE_QSTRINGCONVERTERBASE"%string.
Definition TYPE_QTCORE_QSYSINFO := "KRY_QT6_NATIVE_TYPE_QTCORE_QSYSINFO"%string.
Definition TYPE_QTCORE_QSYSTEMSEMAPHORE := "KRY_QT6_NATIVE_TYPE_QTCORE_QSYSTEMSEMAPHORE"%string.
Definition TYPE_QTCORE_QTEMPORARYFILE := "KRY_QT6_NATIVE_TYPE_QTCORE_QTEMPORARYFILE"%string.
Definition TYPE_QTCORE_QTEXTBOUNDARYFINDER := "KRY_QT6_NATIVE_TYPE_QTCORE_QTEXTBOUNDARYFINDER"%string.
Definition TYPE_QTCORE_QTEXTSTREAM := "KRY_QT6_NATIVE_TYPE_QTCORE_QTEXTSTREAM"%string.
Definition TYPE_QTCORE_QTHREAD := "KRY_QT6_NATIVE_TYPE_QTCORE_QTHREAD"%string.
Definition TYPE_QTCORE_QTHREADPOOL := "KRY_QT6_NATIVE_TYPE_QTCORE_QTHREADPOOL"%string.
Definition TYPE_QTCORE_QTIMELINE := "KRY_QT6_NATIVE_TYPE_QTCORE_QTIMELINE"%string.
Definition TYPE_QTCORE_QTIMEZONE := "KRY_QT6_NATIVE_TYPE_QTCORE_QTIMEZONE"%string.
Definition TYPE_QTCORE_QTRANSLATOR := "KRY_QT6_NATIVE_TYPE_QTCORE_QTRANSLATOR"%string.
Definition TYPE_QTCORE_QURL := "KRY_QT6_NATIVE_TYPE_QTCORE_QURL"%string.
Definition TYPE_QTCORE_QUUID := "KRY_QT6_NATIVE_TYPE_QTCORE_QUUID"%string.
Definition TYPE_QTCORE_QXMLSTREAMREADER := "KRY_QT6_NATIVE_TYPE_QTCORE_QXMLSTREAMREADER"%string.
Definition TYPE_QTCORE_QXMLSTREAMWRITER := "KRY_QT6_NATIVE_TYPE_QTCORE_QXMLSTREAMWRITER"%string.
Definition TYPE_QTDATAVISUALIZATION_Q3DCAMERA := "KRY_QT6_NATIVE_TYPE_QTDATAVISUALIZATION_Q3DCAMERA"%string.
Definition TYPE_QTDATAVISUALIZATION_Q3DLIGHT := "KRY_QT6_NATIVE_TYPE_QTDATAVISUALIZATION_Q3DLIGHT"%string.
Definition TYPE_QTDATAVISUALIZATION_Q3DSCENE := "KRY_QT6_NATIVE_TYPE_QTDATAVISUALIZATION_Q3DSCENE"%string.
Definition TYPE_QTDATAVISUALIZATION_Q3DTHEME := "KRY_QT6_NATIVE_TYPE_QTDATAVISUALIZATION_Q3DTHEME"%string.
Definition TYPE_QTDATAVISUALIZATION_QABSTRACT3DAXIS := "KRY_QT6_NATIVE_TYPE_QTDATAVISUALIZATION_QABSTRACT3DAXIS"%string.
Definition TYPE_QTDATAVISUALIZATION_QABSTRACT3DGRAPH := "KRY_QT6_NATIVE_TYPE_QTDATAVISUALIZATION_QABSTRACT3DGRAPH"%string.
Definition TYPE_QTDATAVISUALIZATION_QABSTRACT3DINPUTHANDLER := "KRY_QT6_NATIVE_TYPE_QTDATAVISUALIZATION_QABSTRACT3DINPUTHANDLER"%string.
Definition TYPE_QTDATAVISUALIZATION_QABSTRACT3DSERIES := "KRY_QT6_NATIVE_TYPE_QTDATAVISUALIZATION_QABSTRACT3DSERIES"%string.
Definition TYPE_QTDATAVISUALIZATION_QABSTRACTDATAPROXY := "KRY_QT6_NATIVE_TYPE_QTDATAVISUALIZATION_QABSTRACTDATAPROXY"%string.
Definition TYPE_QTDATAVISUALIZATION_QBAR3DSERIES := "KRY_QT6_NATIVE_TYPE_QTDATAVISUALIZATION_QBAR3DSERIES"%string.
Definition TYPE_QTDATAVISUALIZATION_QBARDATAPROXY := "KRY_QT6_NATIVE_TYPE_QTDATAVISUALIZATION_QBARDATAPROXY"%string.
Definition TYPE_QTDATAVISUALIZATION_QCATEGORY3DAXIS := "KRY_QT6_NATIVE_TYPE_QTDATAVISUALIZATION_QCATEGORY3DAXIS"%string.
Definition TYPE_QTDATAVISUALIZATION_QCUSTOM3DITEM := "KRY_QT6_NATIVE_TYPE_QTDATAVISUALIZATION_QCUSTOM3DITEM"%string.
Definition TYPE_QTDATAVISUALIZATION_QITEMMODELBARDATAPROXY := "KRY_QT6_NATIVE_TYPE_QTDATAVISUALIZATION_QITEMMODELBARDATAPROXY"%string.
Definition TYPE_QTDATAVISUALIZATION_QITEMMODELSURFACEDATAPROXY := "KRY_QT6_NATIVE_TYPE_QTDATAVISUALIZATION_QITEMMODELSURFACEDATAPROXY"%string.
Definition TYPE_QTDATAVISUALIZATION_QSCATTER3DSERIES := "KRY_QT6_NATIVE_TYPE_QTDATAVISUALIZATION_QSCATTER3DSERIES"%string.
Definition TYPE_QTDATAVISUALIZATION_QSCATTERDATAPROXY := "KRY_QT6_NATIVE_TYPE_QTDATAVISUALIZATION_QSCATTERDATAPROXY"%string.
Definition TYPE_QTDATAVISUALIZATION_QSURFACE3DSERIES := "KRY_QT6_NATIVE_TYPE_QTDATAVISUALIZATION_QSURFACE3DSERIES"%string.
Definition TYPE_QTDATAVISUALIZATION_QSURFACEDATAPROXY := "KRY_QT6_NATIVE_TYPE_QTDATAVISUALIZATION_QSURFACEDATAPROXY"%string.
Definition TYPE_QTDATAVISUALIZATION_QVALUE3DAXIS := "KRY_QT6_NATIVE_TYPE_QTDATAVISUALIZATION_QVALUE3DAXIS"%string.
Definition TYPE_QTDATAVISUALIZATION_QVALUE3DAXISFORMATTER := "KRY_QT6_NATIVE_TYPE_QTDATAVISUALIZATION_QVALUE3DAXISFORMATTER"%string.
Definition TYPE_QTDBUS_QDBUSCONNECTION := "KRY_QT6_NATIVE_TYPE_QTDBUS_QDBUSCONNECTION"%string.
Definition TYPE_QTDBUS_QDBUSCONNECTIONINTERFACE := "KRY_QT6_NATIVE_TYPE_QTDBUS_QDBUSCONNECTIONINTERFACE"%string.
Definition TYPE_QTDBUS_QDBUSERROR := "KRY_QT6_NATIVE_TYPE_QTDBUS_QDBUSERROR"%string.
Definition TYPE_QTDBUS_QDBUSMESSAGE := "KRY_QT6_NATIVE_TYPE_QTDBUS_QDBUSMESSAGE"%string.
Definition TYPE_QTDBUS_QDBUSSERVICEWATCHER := "KRY_QT6_NATIVE_TYPE_QTDBUS_QDBUSSERVICEWATCHER"%string.
Definition TYPE_QTDESIGNER_QDESIGNERACTIONEDITORINTERFACE := "KRY_QT6_NATIVE_TYPE_QTDESIGNER_QDESIGNERACTIONEDITORINTERFACE"%string.
Definition TYPE_QTDESIGNER_QDESIGNERFORMEDITORINTERFACE := "KRY_QT6_NATIVE_TYPE_QTDESIGNER_QDESIGNERFORMEDITORINTERFACE"%string.
Definition TYPE_QTDESIGNER_QDESIGNERFORMWINDOWINTERFACE := "KRY_QT6_NATIVE_TYPE_QTDESIGNER_QDESIGNERFORMWINDOWINTERFACE"%string.
Definition TYPE_QTDESIGNER_QDESIGNERFORMWINDOWMANAGERINTERFACE := "KRY_QT6_NATIVE_TYPE_QTDESIGNER_QDESIGNERFORMWINDOWMANAGERINTERFACE"%string.
Definition TYPE_QTDESIGNER_QDESIGNEROBJECTINSPECTORINTERFACE := "KRY_QT6_NATIVE_TYPE_QTDESIGNER_QDESIGNEROBJECTINSPECTORINTERFACE"%string.
Definition TYPE_QTDESIGNER_QDESIGNERPROPERTYEDITORINTERFACE := "KRY_QT6_NATIVE_TYPE_QTDESIGNER_QDESIGNERPROPERTYEDITORINTERFACE"%string.
Definition TYPE_QTDESIGNER_QDESIGNERWIDGETBOXINTERFACE := "KRY_QT6_NATIVE_TYPE_QTDESIGNER_QDESIGNERWIDGETBOXINTERFACE"%string.
Definition TYPE_QTDESIGNER_QEXTENSIONMANAGER := "KRY_QT6_NATIVE_TYPE_QTDESIGNER_QEXTENSIONMANAGER"%string.
Definition TYPE_QTGRAPHS_QABSTRACT3DAXIS := "KRY_QT6_NATIVE_TYPE_QTGRAPHS_QABSTRACT3DAXIS"%string.
Definition TYPE_QTGRAPHS_QABSTRACT3DSERIES := "KRY_QT6_NATIVE_TYPE_QTGRAPHS_QABSTRACT3DSERIES"%string.
Definition TYPE_QTGRAPHS_QABSTRACTAXIS := "KRY_QT6_NATIVE_TYPE_QTGRAPHS_QABSTRACTAXIS"%string.
Definition TYPE_QTGRAPHS_QABSTRACTDATAPROXY := "KRY_QT6_NATIVE_TYPE_QTGRAPHS_QABSTRACTDATAPROXY"%string.
Definition TYPE_QTGRAPHS_QABSTRACTSERIES := "KRY_QT6_NATIVE_TYPE_QTGRAPHS_QABSTRACTSERIES"%string.
Definition TYPE_QTGRAPHS_QBAR3DSERIES := "KRY_QT6_NATIVE_TYPE_QTGRAPHS_QBAR3DSERIES"%string.
Definition TYPE_QTGRAPHS_QBARDATAPROXY := "KRY_QT6_NATIVE_TYPE_QTGRAPHS_QBARDATAPROXY"%string.
Definition TYPE_QTGRAPHS_QBARSERIES := "KRY_QT6_NATIVE_TYPE_QTGRAPHS_QBARSERIES"%string.
Definition TYPE_QTGRAPHS_QBARSET := "KRY_QT6_NATIVE_TYPE_QTGRAPHS_QBARSET"%string.
Definition TYPE_QTGRAPHS_QGRAPHSTHEME := "KRY_QT6_NATIVE_TYPE_QTGRAPHS_QGRAPHSTHEME"%string.
Definition TYPE_QTGRAPHS_QITEMMODELBARDATAPROXY := "KRY_QT6_NATIVE_TYPE_QTGRAPHS_QITEMMODELBARDATAPROXY"%string.
Definition TYPE_QTGRAPHS_QITEMMODELSURFACEDATAPROXY := "KRY_QT6_NATIVE_TYPE_QTGRAPHS_QITEMMODELSURFACEDATAPROXY"%string.
Definition TYPE_QTGRAPHS_QPIESERIES := "KRY_QT6_NATIVE_TYPE_QTGRAPHS_QPIESERIES"%string.
Definition TYPE_QTGRAPHS_QPIESLICE := "KRY_QT6_NATIVE_TYPE_QTGRAPHS_QPIESLICE"%string.
Definition TYPE_QTGRAPHS_QSCATTER3DSERIES := "KRY_QT6_NATIVE_TYPE_QTGRAPHS_QSCATTER3DSERIES"%string.
Definition TYPE_QTGRAPHS_QSCATTERDATAPROXY := "KRY_QT6_NATIVE_TYPE_QTGRAPHS_QSCATTERDATAPROXY"%string.
Definition TYPE_QTGRAPHS_QSURFACE3DSERIES := "KRY_QT6_NATIVE_TYPE_QTGRAPHS_QSURFACE3DSERIES"%string.
Definition TYPE_QTGRAPHS_QSURFACEDATAPROXY := "KRY_QT6_NATIVE_TYPE_QTGRAPHS_QSURFACEDATAPROXY"%string.
Definition TYPE_QTGRAPHS_QVALUE3DAXISFORMATTER := "KRY_QT6_NATIVE_TYPE_QTGRAPHS_QVALUE3DAXISFORMATTER"%string.
Definition TYPE_QTGRAPHS_QXYSERIES := "KRY_QT6_NATIVE_TYPE_QTGRAPHS_QXYSERIES"%string.
Definition TYPE_QTGUI_QABSTRACTFILEICONPROVIDER := "KRY_QT6_NATIVE_TYPE_QTGUI_QABSTRACTFILEICONPROVIDER"%string.
Definition TYPE_QTGUI_QABSTRACTTEXTDOCUMENTLAYOUT := "KRY_QT6_NATIVE_TYPE_QTGUI_QABSTRACTTEXTDOCUMENTLAYOUT"%string.
Definition TYPE_QTGUI_QACCESSIBILITYHINTS := "KRY_QT6_NATIVE_TYPE_QTGUI_QACCESSIBILITYHINTS"%string.
Definition TYPE_QTGUI_QACTION := "KRY_QT6_NATIVE_TYPE_QTGUI_QACTION"%string.
Definition TYPE_QTGUI_QACTIONGROUP := "KRY_QT6_NATIVE_TYPE_QTGUI_QACTIONGROUP"%string.
Definition TYPE_QTGUI_QCLIPBOARD := "KRY_QT6_NATIVE_TYPE_QTGUI_QCLIPBOARD"%string.
Definition TYPE_QTGUI_QCOLOR := "KRY_QT6_NATIVE_TYPE_QTGUI_QCOLOR"%string.
Definition TYPE_QTGUI_QCOLORSPACE := "KRY_QT6_NATIVE_TYPE_QTGUI_QCOLORSPACE"%string.
Definition TYPE_QTGUI_QCONTEXTMENUEVENT := "KRY_QT6_NATIVE_TYPE_QTGUI_QCONTEXTMENUEVENT"%string.
Definition TYPE_QTGUI_QDOUBLEVALIDATOR := "KRY_QT6_NATIVE_TYPE_QTGUI_QDOUBLEVALIDATOR"%string.
Definition TYPE_QTGUI_QEVENTPOINT := "KRY_QT6_NATIVE_TYPE_QTGUI_QEVENTPOINT"%string.
Definition TYPE_QTGUI_QFILESYSTEMMODEL := "KRY_QT6_NATIVE_TYPE_QTGUI_QFILESYSTEMMODEL"%string.
Definition TYPE_QTGUI_QFONT := "KRY_QT6_NATIVE_TYPE_QTGUI_QFONT"%string.
Definition TYPE_QTGUI_QFONTDATABASE := "KRY_QT6_NATIVE_TYPE_QTGUI_QFONTDATABASE"%string.
Definition TYPE_QTGUI_QGLYPHRUN := "KRY_QT6_NATIVE_TYPE_QTGUI_QGLYPHRUN"%string.
Definition TYPE_QTGUI_QGRADIENT := "KRY_QT6_NATIVE_TYPE_QTGUI_QGRADIENT"%string.
Definition TYPE_QTGUI_QICON := "KRY_QT6_NATIVE_TYPE_QTGUI_QICON"%string.
Definition TYPE_QTGUI_QIMAGE := "KRY_QT6_NATIVE_TYPE_QTGUI_QIMAGE"%string.
Definition TYPE_QTGUI_QIMAGEIOHANDLER := "KRY_QT6_NATIVE_TYPE_QTGUI_QIMAGEIOHANDLER"%string.
Definition TYPE_QTGUI_QIMAGEREADER := "KRY_QT6_NATIVE_TYPE_QTGUI_QIMAGEREADER"%string.
Definition TYPE_QTGUI_QIMAGEWRITER := "KRY_QT6_NATIVE_TYPE_QTGUI_QIMAGEWRITER"%string.
Definition TYPE_QTGUI_QINPUTDEVICE := "KRY_QT6_NATIVE_TYPE_QTGUI_QINPUTDEVICE"%string.
Definition TYPE_QTGUI_QINPUTMETHOD := "KRY_QT6_NATIVE_TYPE_QTGUI_QINPUTMETHOD"%string.
Definition TYPE_QTGUI_QINPUTMETHODEVENT := "KRY_QT6_NATIVE_TYPE_QTGUI_QINPUTMETHODEVENT"%string.
Definition TYPE_QTGUI_QKEYSEQUENCE := "KRY_QT6_NATIVE_TYPE_QTGUI_QKEYSEQUENCE"%string.
Definition TYPE_QTGUI_QMOVIE := "KRY_QT6_NATIVE_TYPE_QTGUI_QMOVIE"%string.
Definition TYPE_QTGUI_QOPENGLCONTEXT := "KRY_QT6_NATIVE_TYPE_QTGUI_QOPENGLCONTEXT"%string.
Definition TYPE_QTGUI_QOPENGLCONTEXTGROUP := "KRY_QT6_NATIVE_TYPE_QTGUI_QOPENGLCONTEXTGROUP"%string.
Definition TYPE_QTGUI_QPAGEDPAINTDEVICE := "KRY_QT6_NATIVE_TYPE_QTGUI_QPAGEDPAINTDEVICE"%string.
Definition TYPE_QTGUI_QPAGELAYOUT := "KRY_QT6_NATIVE_TYPE_QTGUI_QPAGELAYOUT"%string.
Definition TYPE_QTGUI_QPAGESIZE := "KRY_QT6_NATIVE_TYPE_QTGUI_QPAGESIZE"%string.
Definition TYPE_QTGUI_QPAINTENGINE := "KRY_QT6_NATIVE_TYPE_QTGUI_QPAINTENGINE"%string.
Definition TYPE_QTGUI_QPAINTER := "KRY_QT6_NATIVE_TYPE_QTGUI_QPAINTER"%string.
Definition TYPE_QTGUI_QPAINTERPATH := "KRY_QT6_NATIVE_TYPE_QTGUI_QPAINTERPATH"%string.
Definition TYPE_QTGUI_QPALETTE := "KRY_QT6_NATIVE_TYPE_QTGUI_QPALETTE"%string.
Definition TYPE_QTGUI_QPDFWRITER := "KRY_QT6_NATIVE_TYPE_QTGUI_QPDFWRITER"%string.
Definition TYPE_QTGUI_QPIXELFORMAT := "KRY_QT6_NATIVE_TYPE_QTGUI_QPIXELFORMAT"%string.
Definition TYPE_QTGUI_QPIXMAPCACHE := "KRY_QT6_NATIVE_TYPE_QTGUI_QPIXMAPCACHE"%string.
Definition TYPE_QTGUI_QPLATFORMSURFACEEVENT := "KRY_QT6_NATIVE_TYPE_QTGUI_QPLATFORMSURFACEEVENT"%string.
Definition TYPE_QTGUI_QPOINTINGDEVICE := "KRY_QT6_NATIVE_TYPE_QTGUI_QPOINTINGDEVICE"%string.
Definition TYPE_QTGUI_QQUATERNION := "KRY_QT6_NATIVE_TYPE_QTGUI_QQUATERNION"%string.
Definition TYPE_QTGUI_QREGION := "KRY_QT6_NATIVE_TYPE_QTGUI_QREGION"%string.
Definition TYPE_QTGUI_QSCREEN := "KRY_QT6_NATIVE_TYPE_QTGUI_QSCREEN"%string.
Definition TYPE_QTGUI_QSCROLLEVENT := "KRY_QT6_NATIVE_TYPE_QTGUI_QSCROLLEVENT"%string.
Definition TYPE_QTGUI_QSESSIONMANAGER := "KRY_QT6_NATIVE_TYPE_QTGUI_QSESSIONMANAGER"%string.
Definition TYPE_QTGUI_QSHORTCUT := "KRY_QT6_NATIVE_TYPE_QTGUI_QSHORTCUT"%string.
Definition TYPE_QTGUI_QSTANDARDITEMMODEL := "KRY_QT6_NATIVE_TYPE_QTGUI_QSTANDARDITEMMODEL"%string.
Definition TYPE_QTGUI_QSTATICTEXT := "KRY_QT6_NATIVE_TYPE_QTGUI_QSTATICTEXT"%string.
Definition TYPE_QTGUI_QSTYLEHINTS := "KRY_QT6_NATIVE_TYPE_QTGUI_QSTYLEHINTS"%string.
Definition TYPE_QTGUI_QSURFACE := "KRY_QT6_NATIVE_TYPE_QTGUI_QSURFACE"%string.
Definition TYPE_QTGUI_QSURFACEFORMAT := "KRY_QT6_NATIVE_TYPE_QTGUI_QSURFACEFORMAT"%string.
Definition TYPE_QTGUI_QTEXTBLOCK := "KRY_QT6_NATIVE_TYPE_QTGUI_QTEXTBLOCK"%string.
Definition TYPE_QTGUI_QTEXTBLOCKFORMAT := "KRY_QT6_NATIVE_TYPE_QTGUI_QTEXTBLOCKFORMAT"%string.
Definition TYPE_QTGUI_QTEXTCHARFORMAT := "KRY_QT6_NATIVE_TYPE_QTGUI_QTEXTCHARFORMAT"%string.
Definition TYPE_QTGUI_QTEXTCURSOR := "KRY_QT6_NATIVE_TYPE_QTGUI_QTEXTCURSOR"%string.
Definition TYPE_QTGUI_QTEXTDOCUMENT := "KRY_QT6_NATIVE_TYPE_QTGUI_QTEXTDOCUMENT"%string.
Definition TYPE_QTGUI_QTEXTFRAME := "KRY_QT6_NATIVE_TYPE_QTGUI_QTEXTFRAME"%string.
Definition TYPE_QTGUI_QTEXTFRAMEFORMAT := "KRY_QT6_NATIVE_TYPE_QTGUI_QTEXTFRAMEFORMAT"%string.
Definition TYPE_QTGUI_QTEXTLAYOUT := "KRY_QT6_NATIVE_TYPE_QTGUI_QTEXTLAYOUT"%string.
Definition TYPE_QTGUI_QTEXTLENGTH := "KRY_QT6_NATIVE_TYPE_QTGUI_QTEXTLENGTH"%string.
Definition TYPE_QTGUI_QTEXTLINE := "KRY_QT6_NATIVE_TYPE_QTGUI_QTEXTLINE"%string.
Definition TYPE_QTGUI_QTEXTLIST := "KRY_QT6_NATIVE_TYPE_QTGUI_QTEXTLIST"%string.
Definition TYPE_QTGUI_QTEXTLISTFORMAT := "KRY_QT6_NATIVE_TYPE_QTGUI_QTEXTLISTFORMAT"%string.
Definition TYPE_QTGUI_QTEXTOBJECT := "KRY_QT6_NATIVE_TYPE_QTGUI_QTEXTOBJECT"%string.
Definition TYPE_QTGUI_QTEXTOPTION := "KRY_QT6_NATIVE_TYPE_QTGUI_QTEXTOPTION"%string.
Definition TYPE_QTGUI_QTEXTTABLE := "KRY_QT6_NATIVE_TYPE_QTGUI_QTEXTTABLE"%string.
Definition TYPE_QTGUI_QTRANSFORM := "KRY_QT6_NATIVE_TYPE_QTGUI_QTRANSFORM"%string.
Definition TYPE_QTGUI_QUNDOGROUP := "KRY_QT6_NATIVE_TYPE_QTGUI_QUNDOGROUP"%string.
Definition TYPE_QTGUI_QUNDOSTACK := "KRY_QT6_NATIVE_TYPE_QTGUI_QUNDOSTACK"%string.
Definition TYPE_QTGUI_QVALIDATOR := "KRY_QT6_NATIVE_TYPE_QTGUI_QVALIDATOR"%string.
Definition TYPE_QTGUI_QWINDOW := "KRY_QT6_NATIVE_TYPE_QTGUI_QWINDOW"%string.
Definition TYPE_QTHELP_QHELPCONTENTMODEL := "KRY_QT6_NATIVE_TYPE_QTHELP_QHELPCONTENTMODEL"%string.
Definition TYPE_QTHELP_QHELPCONTENTWIDGET := "KRY_QT6_NATIVE_TYPE_QTHELP_QHELPCONTENTWIDGET"%string.
Definition TYPE_QTHELP_QHELPENGINECORE := "KRY_QT6_NATIVE_TYPE_QTHELP_QHELPENGINECORE"%string.
Definition TYPE_QTHELP_QHELPFILTERENGINE := "KRY_QT6_NATIVE_TYPE_QTHELP_QHELPFILTERENGINE"%string.
Definition TYPE_QTHELP_QHELPINDEXMODEL := "KRY_QT6_NATIVE_TYPE_QTHELP_QHELPINDEXMODEL"%string.
Definition TYPE_QTHELP_QHELPINDEXWIDGET := "KRY_QT6_NATIVE_TYPE_QTHELP_QHELPINDEXWIDGET"%string.
Definition TYPE_QTHELP_QHELPSEARCHENGINE := "KRY_QT6_NATIVE_TYPE_QTHELP_QHELPSEARCHENGINE"%string.
Definition TYPE_QTHELP_QHELPSEARCHQUERY := "KRY_QT6_NATIVE_TYPE_QTHELP_QHELPSEARCHQUERY"%string.
Definition TYPE_QTHELP_QHELPSEARCHQUERYWIDGET := "KRY_QT6_NATIVE_TYPE_QTHELP_QHELPSEARCHQUERYWIDGET"%string.
Definition TYPE_QTHELP_QHELPSEARCHRESULTWIDGET := "KRY_QT6_NATIVE_TYPE_QTHELP_QHELPSEARCHRESULTWIDGET"%string.
Definition TYPE_QTMULTIMEDIA_QAUDIOBUFFERINPUT := "KRY_QT6_NATIVE_TYPE_QTMULTIMEDIA_QAUDIOBUFFERINPUT"%string.
Definition TYPE_QTMULTIMEDIA_QAUDIOBUFFEROUTPUT := "KRY_QT6_NATIVE_TYPE_QTMULTIMEDIA_QAUDIOBUFFEROUTPUT"%string.
Definition TYPE_QTMULTIMEDIA_QAUDIODECODER := "KRY_QT6_NATIVE_TYPE_QTMULTIMEDIA_QAUDIODECODER"%string.
Definition TYPE_QTMULTIMEDIA_QAUDIODEVICE := "KRY_QT6_NATIVE_TYPE_QTMULTIMEDIA_QAUDIODEVICE"%string.
Definition TYPE_QTMULTIMEDIA_QAUDIOFORMAT := "KRY_QT6_NATIVE_TYPE_QTMULTIMEDIA_QAUDIOFORMAT"%string.
Definition TYPE_QTMULTIMEDIA_QAUDIOINPUT := "KRY_QT6_NATIVE_TYPE_QTMULTIMEDIA_QAUDIOINPUT"%string.
Definition TYPE_QTMULTIMEDIA_QAUDIOOUTPUT := "KRY_QT6_NATIVE_TYPE_QTMULTIMEDIA_QAUDIOOUTPUT"%string.
Definition TYPE_QTMULTIMEDIA_QCAMERA := "KRY_QT6_NATIVE_TYPE_QTMULTIMEDIA_QCAMERA"%string.
Definition TYPE_QTMULTIMEDIA_QCAMERADEVICE := "KRY_QT6_NATIVE_TYPE_QTMULTIMEDIA_QCAMERADEVICE"%string.
Definition TYPE_QTMULTIMEDIA_QIMAGECAPTURE := "KRY_QT6_NATIVE_TYPE_QTMULTIMEDIA_QIMAGECAPTURE"%string.
Definition TYPE_QTMULTIMEDIA_QMEDIACAPTURESESSION := "KRY_QT6_NATIVE_TYPE_QTMULTIMEDIA_QMEDIACAPTURESESSION"%string.
Definition TYPE_QTMULTIMEDIA_QMEDIAFORMAT := "KRY_QT6_NATIVE_TYPE_QTMULTIMEDIA_QMEDIAFORMAT"%string.
Definition TYPE_QTMULTIMEDIA_QMEDIAMETADATA := "KRY_QT6_NATIVE_TYPE_QTMULTIMEDIA_QMEDIAMETADATA"%string.
Definition TYPE_QTMULTIMEDIA_QMEDIAPLAYER := "KRY_QT6_NATIVE_TYPE_QTMULTIMEDIA_QMEDIAPLAYER"%string.
Definition TYPE_QTMULTIMEDIA_QMEDIARECORDER := "KRY_QT6_NATIVE_TYPE_QTMULTIMEDIA_QMEDIARECORDER"%string.
Definition TYPE_QTMULTIMEDIA_QMEDIATIMERANGE := "KRY_QT6_NATIVE_TYPE_QTMULTIMEDIA_QMEDIATIMERANGE"%string.
Definition TYPE_QTMULTIMEDIA_QPLAYBACKOPTIONS := "KRY_QT6_NATIVE_TYPE_QTMULTIMEDIA_QPLAYBACKOPTIONS"%string.
Definition TYPE_QTMULTIMEDIA_QSCREENCAPTURE := "KRY_QT6_NATIVE_TYPE_QTMULTIMEDIA_QSCREENCAPTURE"%string.
Definition TYPE_QTMULTIMEDIA_QSOUNDEFFECT := "KRY_QT6_NATIVE_TYPE_QTMULTIMEDIA_QSOUNDEFFECT"%string.
Definition TYPE_QTMULTIMEDIA_QVIDEOFRAME := "KRY_QT6_NATIVE_TYPE_QTMULTIMEDIA_QVIDEOFRAME"%string.
Definition TYPE_QTMULTIMEDIA_QVIDEOFRAMEFORMAT := "KRY_QT6_NATIVE_TYPE_QTMULTIMEDIA_QVIDEOFRAMEFORMAT"%string.
Definition TYPE_QTMULTIMEDIA_QVIDEOFRAMEINPUT := "KRY_QT6_NATIVE_TYPE_QTMULTIMEDIA_QVIDEOFRAMEINPUT"%string.
Definition TYPE_QTMULTIMEDIA_QVIDEOSINK := "KRY_QT6_NATIVE_TYPE_QTMULTIMEDIA_QVIDEOSINK"%string.
Definition TYPE_QTMULTIMEDIA_QWINDOWCAPTURE := "KRY_QT6_NATIVE_TYPE_QTMULTIMEDIA_QWINDOWCAPTURE"%string.
Definition TYPE_QTNETWORKAUTH_QABSTRACTOAUTH := "KRY_QT6_NATIVE_TYPE_QTNETWORKAUTH_QABSTRACTOAUTH"%string.
Definition TYPE_QTNETWORKAUTH_QABSTRACTOAUTHREPLYHANDLER := "KRY_QT6_NATIVE_TYPE_QTNETWORKAUTH_QABSTRACTOAUTHREPLYHANDLER"%string.
Definition TYPE_QTNETWORKAUTH_QOAUTH1 := "KRY_QT6_NATIVE_TYPE_QTNETWORKAUTH_QOAUTH1"%string.
Definition TYPE_QTNETWORKAUTH_QOAUTH1SIGNATURE := "KRY_QT6_NATIVE_TYPE_QTNETWORKAUTH_QOAUTH1SIGNATURE"%string.
Definition TYPE_QTNETWORK_QABSTRACTNETWORKCACHE := "KRY_QT6_NATIVE_TYPE_QTNETWORK_QABSTRACTNETWORKCACHE"%string.
Definition TYPE_QTNETWORK_QABSTRACTSOCKET := "KRY_QT6_NATIVE_TYPE_QTNETWORK_QABSTRACTSOCKET"%string.
Definition TYPE_QTNETWORK_QDNSLOOKUP := "KRY_QT6_NATIVE_TYPE_QTNETWORK_QDNSLOOKUP"%string.
Definition TYPE_QTNETWORK_QDNSTLSASSOCIATIONRECORD := "KRY_QT6_NATIVE_TYPE_QTNETWORK_QDNSTLSASSOCIATIONRECORD"%string.
Definition TYPE_QTNETWORK_QHOSTADDRESS := "KRY_QT6_NATIVE_TYPE_QTNETWORK_QHOSTADDRESS"%string.
Definition TYPE_QTNETWORK_QHOSTINFO := "KRY_QT6_NATIVE_TYPE_QTNETWORK_QHOSTINFO"%string.
Definition TYPE_QTNETWORK_QHSTSPOLICY := "KRY_QT6_NATIVE_TYPE_QTNETWORK_QHSTSPOLICY"%string.
Definition TYPE_QTNETWORK_QHTTPHEADERS := "KRY_QT6_NATIVE_TYPE_QTNETWORK_QHTTPHEADERS"%string.
Definition TYPE_QTNETWORK_QHTTPMULTIPART := "KRY_QT6_NATIVE_TYPE_QTNETWORK_QHTTPMULTIPART"%string.
Definition TYPE_QTNETWORK_QLOCALSERVER := "KRY_QT6_NATIVE_TYPE_QTNETWORK_QLOCALSERVER"%string.
Definition TYPE_QTNETWORK_QLOCALSOCKET := "KRY_QT6_NATIVE_TYPE_QTNETWORK_QLOCALSOCKET"%string.
Definition TYPE_QTNETWORK_QNETWORKACCESSMANAGER := "KRY_QT6_NATIVE_TYPE_QTNETWORK_QNETWORKACCESSMANAGER"%string.
Definition TYPE_QTNETWORK_QNETWORKADDRESSENTRY := "KRY_QT6_NATIVE_TYPE_QTNETWORK_QNETWORKADDRESSENTRY"%string.
Definition TYPE_QTNETWORK_QNETWORKCOOKIE := "KRY_QT6_NATIVE_TYPE_QTNETWORK_QNETWORKCOOKIE"%string.
Definition TYPE_QTNETWORK_QNETWORKCOOKIEJAR := "KRY_QT6_NATIVE_TYPE_QTNETWORK_QNETWORKCOOKIEJAR"%string.
Definition TYPE_QTNETWORK_QNETWORKINFORMATION := "KRY_QT6_NATIVE_TYPE_QTNETWORK_QNETWORKINFORMATION"%string.
Definition TYPE_QTNETWORK_QNETWORKINTERFACE := "KRY_QT6_NATIVE_TYPE_QTNETWORK_QNETWORKINTERFACE"%string.
Definition TYPE_QTNETWORK_QNETWORKPROXY := "KRY_QT6_NATIVE_TYPE_QTNETWORK_QNETWORKPROXY"%string.
Definition TYPE_QTNETWORK_QNETWORKPROXYQUERY := "KRY_QT6_NATIVE_TYPE_QTNETWORK_QNETWORKPROXYQUERY"%string.
Definition TYPE_QTNETWORK_QNETWORKREPLY := "KRY_QT6_NATIVE_TYPE_QTNETWORK_QNETWORKREPLY"%string.
Definition TYPE_QTNETWORK_QNETWORKREQUEST := "KRY_QT6_NATIVE_TYPE_QTNETWORK_QNETWORKREQUEST"%string.
Definition TYPE_QTNETWORK_QSSLCERTIFICATE := "KRY_QT6_NATIVE_TYPE_QTNETWORK_QSSLCERTIFICATE"%string.
Definition TYPE_QTNETWORK_QSSLCONFIGURATION := "KRY_QT6_NATIVE_TYPE_QTNETWORK_QSSLCONFIGURATION"%string.
Definition TYPE_QTNETWORK_QSSLDIFFIEHELLMANPARAMETERS := "KRY_QT6_NATIVE_TYPE_QTNETWORK_QSSLDIFFIEHELLMANPARAMETERS"%string.
Definition TYPE_QTNETWORK_QSSLERROR := "KRY_QT6_NATIVE_TYPE_QTNETWORK_QSSLERROR"%string.
Definition TYPE_QTNETWORK_QSSLSOCKET := "KRY_QT6_NATIVE_TYPE_QTNETWORK_QSSLSOCKET"%string.
Definition TYPE_QTNETWORK_QTCPSOCKET := "KRY_QT6_NATIVE_TYPE_QTNETWORK_QTCPSOCKET"%string.
Definition TYPE_QTNFC_QNDEFFILTER := "KRY_QT6_NATIVE_TYPE_QTNFC_QNDEFFILTER"%string.
Definition TYPE_QTNFC_QNDEFNFCSMARTPOSTERRECORD := "KRY_QT6_NATIVE_TYPE_QTNFC_QNDEFNFCSMARTPOSTERRECORD"%string.
Definition TYPE_QTNFC_QNDEFNFCTEXTRECORD := "KRY_QT6_NATIVE_TYPE_QTNFC_QNDEFNFCTEXTRECORD"%string.
Definition TYPE_QTNFC_QNDEFRECORD := "KRY_QT6_NATIVE_TYPE_QTNFC_QNDEFRECORD"%string.
Definition TYPE_QTNFC_QNEARFIELDTARGET := "KRY_QT6_NATIVE_TYPE_QTNFC_QNEARFIELDTARGET"%string.
Definition TYPE_QTOPENGLWIDGETS_QOPENGLWIDGET := "KRY_QT6_NATIVE_TYPE_QTOPENGLWIDGETS_QOPENGLWIDGET"%string.
Definition TYPE_QTOPENGL_QOPENGLBUFFER := "KRY_QT6_NATIVE_TYPE_QTOPENGL_QOPENGLBUFFER"%string.
Definition TYPE_QTOPENGL_QOPENGLDEBUGLOGGER := "KRY_QT6_NATIVE_TYPE_QTOPENGL_QOPENGLDEBUGLOGGER"%string.
Definition TYPE_QTOPENGL_QOPENGLDEBUGMESSAGE := "KRY_QT6_NATIVE_TYPE_QTOPENGL_QOPENGLDEBUGMESSAGE"%string.
Definition TYPE_QTOPENGL_QOPENGLFRAMEBUFFEROBJECT := "KRY_QT6_NATIVE_TYPE_QTOPENGL_QOPENGLFRAMEBUFFEROBJECT"%string.
Definition TYPE_QTOPENGL_QOPENGLSHADER := "KRY_QT6_NATIVE_TYPE_QTOPENGL_QOPENGLSHADER"%string.
Definition TYPE_QTOPENGL_QOPENGLTEXTURE := "KRY_QT6_NATIVE_TYPE_QTOPENGL_QOPENGLTEXTURE"%string.
Definition TYPE_QTOPENGL_QOPENGLTEXTUREBLITTER := "KRY_QT6_NATIVE_TYPE_QTOPENGL_QOPENGLTEXTUREBLITTER"%string.
Definition TYPE_QTOPENGL_QOPENGLWINDOW := "KRY_QT6_NATIVE_TYPE_QTOPENGL_QOPENGLWINDOW"%string.
Definition TYPE_QTPDFWIDGETS_QPDFVIEW := "KRY_QT6_NATIVE_TYPE_QTPDFWIDGETS_QPDFVIEW"%string.
Definition TYPE_QTPDF_QPDFDOCUMENT := "KRY_QT6_NATIVE_TYPE_QTPDF_QPDFDOCUMENT"%string.
Definition TYPE_QTPDF_QPDFDOCUMENTRENDEROPTIONS := "KRY_QT6_NATIVE_TYPE_QTPDF_QPDFDOCUMENTRENDEROPTIONS"%string.
Definition TYPE_QTPDF_QPDFPAGENAVIGATOR := "KRY_QT6_NATIVE_TYPE_QTPDF_QPDFPAGENAVIGATOR"%string.
Definition TYPE_QTPDF_QPDFPAGERENDERER := "KRY_QT6_NATIVE_TYPE_QTPDF_QPDFPAGERENDERER"%string.
Definition TYPE_QTPDF_QPDFSEARCHMODEL := "KRY_QT6_NATIVE_TYPE_QTPDF_QPDFSEARCHMODEL"%string.
Definition TYPE_QTPOSITIONING_QGEOAREAMONITORSOURCE := "KRY_QT6_NATIVE_TYPE_QTPOSITIONING_QGEOAREAMONITORSOURCE"%string.
Definition TYPE_QTPOSITIONING_QGEOCOORDINATE := "KRY_QT6_NATIVE_TYPE_QTPOSITIONING_QGEOCOORDINATE"%string.
Definition TYPE_QTPOSITIONING_QGEOPOSITIONINFO := "KRY_QT6_NATIVE_TYPE_QTPOSITIONING_QGEOPOSITIONINFO"%string.
Definition TYPE_QTPOSITIONING_QGEOPOSITIONINFOSOURCE := "KRY_QT6_NATIVE_TYPE_QTPOSITIONING_QGEOPOSITIONINFOSOURCE"%string.
Definition TYPE_QTPOSITIONING_QGEOSATELLITEINFO := "KRY_QT6_NATIVE_TYPE_QTPOSITIONING_QGEOSATELLITEINFO"%string.
Definition TYPE_QTPOSITIONING_QGEOSATELLITEINFOSOURCE := "KRY_QT6_NATIVE_TYPE_QTPOSITIONING_QGEOSATELLITEINFOSOURCE"%string.
Definition TYPE_QTPOSITIONING_QGEOSHAPE := "KRY_QT6_NATIVE_TYPE_QTPOSITIONING_QGEOSHAPE"%string.
Definition TYPE_QTPOSITIONING_QNMEAPOSITIONINFOSOURCE := "KRY_QT6_NATIVE_TYPE_QTPOSITIONING_QNMEAPOSITIONINFOSOURCE"%string.
Definition TYPE_QTPOSITIONING_QNMEASATELLITEINFOSOURCE := "KRY_QT6_NATIVE_TYPE_QTPOSITIONING_QNMEASATELLITEINFOSOURCE"%string.
Definition TYPE_QTPRINTSUPPORT_QABSTRACTPRINTDIALOG := "KRY_QT6_NATIVE_TYPE_QTPRINTSUPPORT_QABSTRACTPRINTDIALOG"%string.
Definition TYPE_QTPRINTSUPPORT_QPRINTER := "KRY_QT6_NATIVE_TYPE_QTPRINTSUPPORT_QPRINTER"%string.
Definition TYPE_QTPRINTSUPPORT_QPRINTPREVIEWWIDGET := "KRY_QT6_NATIVE_TYPE_QTPRINTSUPPORT_QPRINTPREVIEWWIDGET"%string.
Definition TYPE_QTQML_QJSENGINE := "KRY_QT6_NATIVE_TYPE_QTQML_QJSENGINE"%string.
Definition TYPE_QTQML_QJSMANAGEDVALUE := "KRY_QT6_NATIVE_TYPE_QTQML_QJSMANAGEDVALUE"%string.
Definition TYPE_QTQML_QJSPRIMITIVEVALUE := "KRY_QT6_NATIVE_TYPE_QTQML_QJSPRIMITIVEVALUE"%string.
Definition TYPE_QTQML_QJSVALUE := "KRY_QT6_NATIVE_TYPE_QTQML_QJSVALUE"%string.
Definition TYPE_QTQML_QQMLABSTRACTURLINTERCEPTOR := "KRY_QT6_NATIVE_TYPE_QTQML_QQMLABSTRACTURLINTERCEPTOR"%string.
Definition TYPE_QTQML_QQMLCOMPONENT := "KRY_QT6_NATIVE_TYPE_QTQML_QQMLCOMPONENT"%string.
Definition TYPE_QTQML_QQMLCONTEXT := "KRY_QT6_NATIVE_TYPE_QTQML_QQMLCONTEXT"%string.
Definition TYPE_QTQML_QQMLENGINE := "KRY_QT6_NATIVE_TYPE_QTQML_QQMLENGINE"%string.
Definition TYPE_QTQML_QQMLIMAGEPROVIDERBASE := "KRY_QT6_NATIVE_TYPE_QTQML_QQMLIMAGEPROVIDERBASE"%string.
Definition TYPE_QTQML_QQMLINCUBATOR := "KRY_QT6_NATIVE_TYPE_QTQML_QQMLINCUBATOR"%string.
Definition TYPE_QTQML_QQMLPROPERTY := "KRY_QT6_NATIVE_TYPE_QTQML_QQMLPROPERTY"%string.
Definition TYPE_QTQUICK3D_QQUICK3DGEOMETRY := "KRY_QT6_NATIVE_TYPE_QTQUICK3D_QQUICK3DGEOMETRY"%string.
Definition TYPE_QTQUICK3D_QQUICK3DOBJECT := "KRY_QT6_NATIVE_TYPE_QTQUICK3D_QQUICK3DOBJECT"%string.
Definition TYPE_QTQUICK3D_QQUICK3DTEXTUREDATA := "KRY_QT6_NATIVE_TYPE_QTQUICK3D_QQUICK3DTEXTUREDATA"%string.
Definition TYPE_QTQUICKWIDGETS_QQUICKWIDGET := "KRY_QT6_NATIVE_TYPE_QTQUICKWIDGETS_QQUICKWIDGET"%string.
Definition TYPE_QTQUICK_QQUICKITEM := "KRY_QT6_NATIVE_TYPE_QTQUICK_QQUICKITEM"%string.
Definition TYPE_QTQUICK_QQUICKPAINTEDITEM := "KRY_QT6_NATIVE_TYPE_QTQUICK_QQUICKPAINTEDITEM"%string.
Definition TYPE_QTQUICK_QQUICKRENDERTARGET := "KRY_QT6_NATIVE_TYPE_QTQUICK_QQUICKRENDERTARGET"%string.
Definition TYPE_QTQUICK_QQUICKTEXTDOCUMENT := "KRY_QT6_NATIVE_TYPE_QTQUICK_QQUICKTEXTDOCUMENT"%string.
Definition TYPE_QTQUICK_QQUICKTEXTUREFACTORY := "KRY_QT6_NATIVE_TYPE_QTQUICK_QQUICKTEXTUREFACTORY"%string.
Definition TYPE_QTQUICK_QQUICKVIEW := "KRY_QT6_NATIVE_TYPE_QTQUICK_QQUICKVIEW"%string.
Definition TYPE_QTQUICK_QQUICKWINDOW := "KRY_QT6_NATIVE_TYPE_QTQUICK_QQUICKWINDOW"%string.
Definition TYPE_QTQUICK_QSGGEOMETRY := "KRY_QT6_NATIVE_TYPE_QTQUICK_QSGGEOMETRY"%string.
Definition TYPE_QTQUICK_QSGMATERIAL := "KRY_QT6_NATIVE_TYPE_QTQUICK_QSGMATERIAL"%string.
Definition TYPE_QTQUICK_QSGMATERIALSHADER := "KRY_QT6_NATIVE_TYPE_QTQUICK_QSGMATERIALSHADER"%string.
Definition TYPE_QTQUICK_QSGNODE := "KRY_QT6_NATIVE_TYPE_QTQUICK_QSGNODE"%string.
Definition TYPE_QTQUICK_QSGRENDERERINTERFACE := "KRY_QT6_NATIVE_TYPE_QTQUICK_QSGRENDERERINTERFACE"%string.
Definition TYPE_QTQUICK_QSGTEXTURE := "KRY_QT6_NATIVE_TYPE_QTQUICK_QSGTEXTURE"%string.
Definition TYPE_QTQUICK_QSGTEXTUREPROVIDER := "KRY_QT6_NATIVE_TYPE_QTQUICK_QSGTEXTUREPROVIDER"%string.
Definition TYPE_QTREMOTEOBJECTS_QREMOTEOBJECTABSTRACTPERSISTEDSTORE := "KRY_QT6_NATIVE_TYPE_QTREMOTEOBJECTS_QREMOTEOBJECTABSTRACTPERSISTEDSTORE"%string.
Definition TYPE_QTREMOTEOBJECTS_QREMOTEOBJECTDYNAMICREPLICA := "KRY_QT6_NATIVE_TYPE_QTREMOTEOBJECTS_QREMOTEOBJECTDYNAMICREPLICA"%string.
Definition TYPE_QTREMOTEOBJECTS_QREMOTEOBJECTHOSTBASE := "KRY_QT6_NATIVE_TYPE_QTREMOTEOBJECTS_QREMOTEOBJECTHOSTBASE"%string.
Definition TYPE_QTREMOTEOBJECTS_QREMOTEOBJECTNODE := "KRY_QT6_NATIVE_TYPE_QTREMOTEOBJECTS_QREMOTEOBJECTNODE"%string.
Definition TYPE_QTREMOTEOBJECTS_QREMOTEOBJECTREGISTRY := "KRY_QT6_NATIVE_TYPE_QTREMOTEOBJECTS_QREMOTEOBJECTREGISTRY"%string.
Definition TYPE_QTREMOTEOBJECTS_QREMOTEOBJECTREPLICA := "KRY_QT6_NATIVE_TYPE_QTREMOTEOBJECTS_QREMOTEOBJECTREPLICA"%string.
Definition TYPE_QTSENSORS_QACCELEROMETER := "KRY_QT6_NATIVE_TYPE_QTSENSORS_QACCELEROMETER"%string.
Definition TYPE_QTSENSORS_QACCELEROMETERREADING := "KRY_QT6_NATIVE_TYPE_QTSENSORS_QACCELEROMETERREADING"%string.
Definition TYPE_QTSENSORS_QAMBIENTLIGHTREADING := "KRY_QT6_NATIVE_TYPE_QTSENSORS_QAMBIENTLIGHTREADING"%string.
Definition TYPE_QTSENSORS_QAMBIENTTEMPERATUREREADING := "KRY_QT6_NATIVE_TYPE_QTSENSORS_QAMBIENTTEMPERATUREREADING"%string.
Definition TYPE_QTSENSORS_QCOMPASSREADING := "KRY_QT6_NATIVE_TYPE_QTSENSORS_QCOMPASSREADING"%string.
Definition TYPE_QTSENSORS_QGYROSCOPEREADING := "KRY_QT6_NATIVE_TYPE_QTSENSORS_QGYROSCOPEREADING"%string.
Definition TYPE_QTSENSORS_QHUMIDITYREADING := "KRY_QT6_NATIVE_TYPE_QTSENSORS_QHUMIDITYREADING"%string.
Definition TYPE_QTSENSORS_QIRPROXIMITYREADING := "KRY_QT6_NATIVE_TYPE_QTSENSORS_QIRPROXIMITYREADING"%string.
Definition TYPE_QTSENSORS_QLIDREADING := "KRY_QT6_NATIVE_TYPE_QTSENSORS_QLIDREADING"%string.
Definition TYPE_QTSENSORS_QLIGHTREADING := "KRY_QT6_NATIVE_TYPE_QTSENSORS_QLIGHTREADING"%string.
Definition TYPE_QTSENSORS_QMAGNETOMETERREADING := "KRY_QT6_NATIVE_TYPE_QTSENSORS_QMAGNETOMETERREADING"%string.
Definition TYPE_QTSENSORS_QORIENTATIONREADING := "KRY_QT6_NATIVE_TYPE_QTSENSORS_QORIENTATIONREADING"%string.
Definition TYPE_QTSENSORS_QPRESSUREREADING := "KRY_QT6_NATIVE_TYPE_QTSENSORS_QPRESSUREREADING"%string.
Definition TYPE_QTSENSORS_QPROXIMITYREADING := "KRY_QT6_NATIVE_TYPE_QTSENSORS_QPROXIMITYREADING"%string.
Definition TYPE_QTSENSORS_QROTATIONREADING := "KRY_QT6_NATIVE_TYPE_QTSENSORS_QROTATIONREADING"%string.
Definition TYPE_QTSENSORS_QSENSOR := "KRY_QT6_NATIVE_TYPE_QTSENSORS_QSENSOR"%string.
Definition TYPE_QTSENSORS_QSENSORREADING := "KRY_QT6_NATIVE_TYPE_QTSENSORS_QSENSORREADING"%string.
Definition TYPE_QTSENSORS_QTAPREADING := "KRY_QT6_NATIVE_TYPE_QTSENSORS_QTAPREADING"%string.
Definition TYPE_QTSENSORS_QTILTREADING := "KRY_QT6_NATIVE_TYPE_QTSENSORS_QTILTREADING"%string.
Definition TYPE_QTSERIALPORT_QSERIALPORT := "KRY_QT6_NATIVE_TYPE_QTSERIALPORT_QSERIALPORT"%string.
Definition TYPE_QTSPATIALAUDIO_QAUDIOENGINE := "KRY_QT6_NATIVE_TYPE_QTSPATIALAUDIO_QAUDIOENGINE"%string.
Definition TYPE_QTSPATIALAUDIO_QAUDIOROOM := "KRY_QT6_NATIVE_TYPE_QTSPATIALAUDIO_QAUDIOROOM"%string.
Definition TYPE_QTSPATIALAUDIO_QSPATIALSOUND := "KRY_QT6_NATIVE_TYPE_QTSPATIALAUDIO_QSPATIALSOUND"%string.
Definition TYPE_QTSQL_QSQLDRIVER := "KRY_QT6_NATIVE_TYPE_QTSQL_QSQLDRIVER"%string.
Definition TYPE_QTSQL_QSQLERROR := "KRY_QT6_NATIVE_TYPE_QTSQL_QSQLERROR"%string.
Definition TYPE_QTSQL_QSQLFIELD := "KRY_QT6_NATIVE_TYPE_QTSQL_QSQLFIELD"%string.
Definition TYPE_QTSQL_QSQLQUERY := "KRY_QT6_NATIVE_TYPE_QTSQL_QSQLQUERY"%string.
Definition TYPE_QTSQL_QSQLRELATIONALTABLEMODEL := "KRY_QT6_NATIVE_TYPE_QTSQL_QSQLRELATIONALTABLEMODEL"%string.
Definition TYPE_QTSQL_QSQLTABLEMODEL := "KRY_QT6_NATIVE_TYPE_QTSQL_QSQLTABLEMODEL"%string.
Definition TYPE_QTSTATEMACHINE_QABSTRACTSTATE := "KRY_QT6_NATIVE_TYPE_QTSTATEMACHINE_QABSTRACTSTATE"%string.
Definition TYPE_QTSTATEMACHINE_QABSTRACTTRANSITION := "KRY_QT6_NATIVE_TYPE_QTSTATEMACHINE_QABSTRACTTRANSITION"%string.
Definition TYPE_QTSTATEMACHINE_QHISTORYSTATE := "KRY_QT6_NATIVE_TYPE_QTSTATEMACHINE_QHISTORYSTATE"%string.
Definition TYPE_QTSTATEMACHINE_QSTATE := "KRY_QT6_NATIVE_TYPE_QTSTATEMACHINE_QSTATE"%string.
Definition TYPE_QTSTATEMACHINE_QSTATEMACHINE := "KRY_QT6_NATIVE_TYPE_QTSTATEMACHINE_QSTATEMACHINE"%string.
Definition TYPE_QTSVG_QSVGGENERATOR := "KRY_QT6_NATIVE_TYPE_QTSVG_QSVGGENERATOR"%string.
Definition TYPE_QTSVG_QSVGRENDERER := "KRY_QT6_NATIVE_TYPE_QTSVG_QSVGRENDERER"%string.
Definition TYPE_QTTEST_QABSTRACTITEMMODELTESTER := "KRY_QT6_NATIVE_TYPE_QTTEST_QABSTRACTITEMMODELTESTER"%string.
Definition TYPE_QTTEXTTOSPEECH_QTEXTTOSPEECH := "KRY_QT6_NATIVE_TYPE_QTTEXTTOSPEECH_QTEXTTOSPEECH"%string.
Definition TYPE_QTTEXTTOSPEECH_QVOICE := "KRY_QT6_NATIVE_TYPE_QTTEXTTOSPEECH_QVOICE"%string.
Definition TYPE_QTWEBCHANNEL_QWEBCHANNEL := "KRY_QT6_NATIVE_TYPE_QTWEBCHANNEL_QWEBCHANNEL"%string.
Definition TYPE_QTWEBCHANNEL_QWEBCHANNELABSTRACTTRANSPORT := "KRY_QT6_NATIVE_TYPE_QTWEBCHANNEL_QWEBCHANNELABSTRACTTRANSPORT"%string.
Definition TYPE_QTWEBENGINECORE_QWEBENGINECERTIFICATEERROR := "KRY_QT6_NATIVE_TYPE_QTWEBENGINECORE_QWEBENGINECERTIFICATEERROR"%string.
Definition TYPE_QTWEBENGINECORE_QWEBENGINECONTEXTMENUREQUEST := "KRY_QT6_NATIVE_TYPE_QTWEBENGINECORE_QWEBENGINECONTEXTMENUREQUEST"%string.
Definition TYPE_QTWEBENGINECORE_QWEBENGINECOOKIESTORE := "KRY_QT6_NATIVE_TYPE_QTWEBENGINECORE_QWEBENGINECOOKIESTORE"%string.
Definition TYPE_QTWEBENGINECORE_QWEBENGINEDOWNLOADREQUEST := "KRY_QT6_NATIVE_TYPE_QTWEBENGINECORE_QWEBENGINEDOWNLOADREQUEST"%string.
Definition TYPE_QTWEBENGINECORE_QWEBENGINEHISTORY := "KRY_QT6_NATIVE_TYPE_QTWEBENGINECORE_QWEBENGINEHISTORY"%string.
Definition TYPE_QTWEBENGINECORE_QWEBENGINEHISTORYMODEL := "KRY_QT6_NATIVE_TYPE_QTWEBENGINECORE_QWEBENGINEHISTORYMODEL"%string.
Definition TYPE_QTWEBENGINECORE_QWEBENGINEHTTPREQUEST := "KRY_QT6_NATIVE_TYPE_QTWEBENGINECORE_QWEBENGINEHTTPREQUEST"%string.
Definition TYPE_QTWEBENGINECORE_QWEBENGINELOADINGINFO := "KRY_QT6_NATIVE_TYPE_QTWEBENGINECORE_QWEBENGINELOADINGINFO"%string.
Definition TYPE_QTWEBENGINECORE_QWEBENGINENAVIGATIONREQUEST := "KRY_QT6_NATIVE_TYPE_QTWEBENGINECORE_QWEBENGINENAVIGATIONREQUEST"%string.
Definition TYPE_QTWEBENGINECORE_QWEBENGINENEWWINDOWREQUEST := "KRY_QT6_NATIVE_TYPE_QTWEBENGINECORE_QWEBENGINENEWWINDOWREQUEST"%string.
Definition TYPE_QTWEBENGINECORE_QWEBENGINENOTIFICATION := "KRY_QT6_NATIVE_TYPE_QTWEBENGINECORE_QWEBENGINENOTIFICATION"%string.
Definition TYPE_QTWEBENGINECORE_QWEBENGINEPAGE := "KRY_QT6_NATIVE_TYPE_QTWEBENGINECORE_QWEBENGINEPAGE"%string.
Definition TYPE_QTWEBENGINECORE_QWEBENGINEPROFILE := "KRY_QT6_NATIVE_TYPE_QTWEBENGINECORE_QWEBENGINEPROFILE"%string.
Definition TYPE_QTWEBENGINECORE_QWEBENGINESCRIPT := "KRY_QT6_NATIVE_TYPE_QTWEBENGINECORE_QWEBENGINESCRIPT"%string.
Definition TYPE_QTWEBENGINECORE_QWEBENGINESETTINGS := "KRY_QT6_NATIVE_TYPE_QTWEBENGINECORE_QWEBENGINESETTINGS"%string.
Definition TYPE_QTWEBENGINECORE_QWEBENGINEURLREQUESTINFO := "KRY_QT6_NATIVE_TYPE_QTWEBENGINECORE_QWEBENGINEURLREQUESTINFO"%string.
Definition TYPE_QTWEBENGINECORE_QWEBENGINEURLREQUESTINTERCEPTOR := "KRY_QT6_NATIVE_TYPE_QTWEBENGINECORE_QWEBENGINEURLREQUESTINTERCEPTOR"%string.
Definition TYPE_QTWEBENGINECORE_QWEBENGINEURLREQUESTJOB := "KRY_QT6_NATIVE_TYPE_QTWEBENGINECORE_QWEBENGINEURLREQUESTJOB"%string.
Definition TYPE_QTWEBENGINECORE_QWEBENGINEURLSCHEME := "KRY_QT6_NATIVE_TYPE_QTWEBENGINECORE_QWEBENGINEURLSCHEME"%string.
Definition TYPE_QTWEBENGINECORE_QWEBENGINEURLSCHEMEHANDLER := "KRY_QT6_NATIVE_TYPE_QTWEBENGINECORE_QWEBENGINEURLSCHEMEHANDLER"%string.
Definition TYPE_QTWEBENGINEQUICK_QQUICKWEBENGINEPROFILE := "KRY_QT6_NATIVE_TYPE_QTWEBENGINEQUICK_QQUICKWEBENGINEPROFILE"%string.
Definition TYPE_QTWEBENGINEWIDGETS_QWEBENGINEVIEW := "KRY_QT6_NATIVE_TYPE_QTWEBENGINEWIDGETS_QWEBENGINEVIEW"%string.
Definition TYPE_QTWEBSOCKETS_QMASKGENERATOR := "KRY_QT6_NATIVE_TYPE_QTWEBSOCKETS_QMASKGENERATOR"%string.
Definition TYPE_QTWEBSOCKETS_QWEBSOCKET := "KRY_QT6_NATIVE_TYPE_QTWEBSOCKETS_QWEBSOCKET"%string.
Definition TYPE_QTWEBSOCKETS_QWEBSOCKETSERVER := "KRY_QT6_NATIVE_TYPE_QTWEBSOCKETS_QWEBSOCKETSERVER"%string.
Definition TYPE_QTWIDGETS_QABSTRACTBUTTON := "KRY_QT6_NATIVE_TYPE_QTWIDGETS_QABSTRACTBUTTON"%string.
Definition TYPE_QTWIDGETS_QABSTRACTITEMDELEGATE := "KRY_QT6_NATIVE_TYPE_QTWIDGETS_QABSTRACTITEMDELEGATE"%string.
Definition TYPE_QTWIDGETS_QABSTRACTITEMVIEW := "KRY_QT6_NATIVE_TYPE_QTWIDGETS_QABSTRACTITEMVIEW"%string.
Definition TYPE_QTWIDGETS_QABSTRACTSCROLLAREA := "KRY_QT6_NATIVE_TYPE_QTWIDGETS_QABSTRACTSCROLLAREA"%string.
Definition TYPE_QTWIDGETS_QABSTRACTSLIDER := "KRY_QT6_NATIVE_TYPE_QTWIDGETS_QABSTRACTSLIDER"%string.
Definition TYPE_QTWIDGETS_QABSTRACTSPINBOX := "KRY_QT6_NATIVE_TYPE_QTWIDGETS_QABSTRACTSPINBOX"%string.
Definition TYPE_QTWIDGETS_QAPPLICATION := "KRY_QT6_NATIVE_TYPE_QTWIDGETS_QAPPLICATION"%string.
Definition TYPE_QTWIDGETS_QBOXLAYOUT := "KRY_QT6_NATIVE_TYPE_QTWIDGETS_QBOXLAYOUT"%string.
Definition TYPE_QTWIDGETS_QBUTTONGROUP := "KRY_QT6_NATIVE_TYPE_QTWIDGETS_QBUTTONGROUP"%string.
Definition TYPE_QTWIDGETS_QCALENDARWIDGET := "KRY_QT6_NATIVE_TYPE_QTWIDGETS_QCALENDARWIDGET"%string.
Definition TYPE_QTWIDGETS_QCHECKBOX := "KRY_QT6_NATIVE_TYPE_QTWIDGETS_QCHECKBOX"%string.
Definition TYPE_QTWIDGETS_QCOLORDIALOG := "KRY_QT6_NATIVE_TYPE_QTWIDGETS_QCOLORDIALOG"%string.
Definition TYPE_QTWIDGETS_QCOMBOBOX := "KRY_QT6_NATIVE_TYPE_QTWIDGETS_QCOMBOBOX"%string.
Definition TYPE_QTWIDGETS_QCOMPLETER := "KRY_QT6_NATIVE_TYPE_QTWIDGETS_QCOMPLETER"%string.
Definition TYPE_QTWIDGETS_QDATAWIDGETMAPPER := "KRY_QT6_NATIVE_TYPE_QTWIDGETS_QDATAWIDGETMAPPER"%string.
Definition TYPE_QTWIDGETS_QDATETIMEEDIT := "KRY_QT6_NATIVE_TYPE_QTWIDGETS_QDATETIMEEDIT"%string.
Definition TYPE_QTWIDGETS_QDIALOGBUTTONBOX := "KRY_QT6_NATIVE_TYPE_QTWIDGETS_QDIALOGBUTTONBOX"%string.
Definition TYPE_QTWIDGETS_QDOCKWIDGET := "KRY_QT6_NATIVE_TYPE_QTWIDGETS_QDOCKWIDGET"%string.
Definition TYPE_QTWIDGETS_QERRORMESSAGE := "KRY_QT6_NATIVE_TYPE_QTWIDGETS_QERRORMESSAGE"%string.
Definition TYPE_QTWIDGETS_QFILEDIALOG := "KRY_QT6_NATIVE_TYPE_QTWIDGETS_QFILEDIALOG"%string.
Definition TYPE_QTWIDGETS_QFONTDIALOG := "KRY_QT6_NATIVE_TYPE_QTWIDGETS_QFONTDIALOG"%string.
Definition TYPE_QTWIDGETS_QFORMLAYOUT := "KRY_QT6_NATIVE_TYPE_QTWIDGETS_QFORMLAYOUT"%string.
Definition TYPE_QTWIDGETS_QFRAME := "KRY_QT6_NATIVE_TYPE_QTWIDGETS_QFRAME"%string.
Definition TYPE_QTWIDGETS_QGESTURE := "KRY_QT6_NATIVE_TYPE_QTWIDGETS_QGESTURE"%string.
Definition TYPE_QTWIDGETS_QGRAPHICSEFFECT := "KRY_QT6_NATIVE_TYPE_QTWIDGETS_QGRAPHICSEFFECT"%string.
Definition TYPE_QTWIDGETS_QGRAPHICSITEM := "KRY_QT6_NATIVE_TYPE_QTWIDGETS_QGRAPHICSITEM"%string.
Definition TYPE_QTWIDGETS_QGRAPHICSOBJECT := "KRY_QT6_NATIVE_TYPE_QTWIDGETS_QGRAPHICSOBJECT"%string.
Definition TYPE_QTWIDGETS_QGRAPHICSPIXMAPITEM := "KRY_QT6_NATIVE_TYPE_QTWIDGETS_QGRAPHICSPIXMAPITEM"%string.
Definition TYPE_QTWIDGETS_QGRAPHICSPROXYWIDGET := "KRY_QT6_NATIVE_TYPE_QTWIDGETS_QGRAPHICSPROXYWIDGET"%string.
Definition TYPE_QTWIDGETS_QGRAPHICSSCENE := "KRY_QT6_NATIVE_TYPE_QTWIDGETS_QGRAPHICSSCENE"%string.
Definition TYPE_QTWIDGETS_QGRAPHICSSCENECONTEXTMENUEVENT := "KRY_QT6_NATIVE_TYPE_QTWIDGETS_QGRAPHICSSCENECONTEXTMENUEVENT"%string.
Definition TYPE_QTWIDGETS_QGRAPHICSTEXTITEM := "KRY_QT6_NATIVE_TYPE_QTWIDGETS_QGRAPHICSTEXTITEM"%string.
Definition TYPE_QTWIDGETS_QGRAPHICSTRANSFORM := "KRY_QT6_NATIVE_TYPE_QTWIDGETS_QGRAPHICSTRANSFORM"%string.
Definition TYPE_QTWIDGETS_QGRAPHICSVIEW := "KRY_QT6_NATIVE_TYPE_QTWIDGETS_QGRAPHICSVIEW"%string.
Definition TYPE_QTWIDGETS_QGRAPHICSWIDGET := "KRY_QT6_NATIVE_TYPE_QTWIDGETS_QGRAPHICSWIDGET"%string.
Definition TYPE_QTWIDGETS_QHEADERVIEW := "KRY_QT6_NATIVE_TYPE_QTWIDGETS_QHEADERVIEW"%string.
Definition TYPE_QTWIDGETS_QINPUTDIALOG := "KRY_QT6_NATIVE_TYPE_QTWIDGETS_QINPUTDIALOG"%string.
Definition TYPE_QTWIDGETS_QLABEL := "KRY_QT6_NATIVE_TYPE_QTWIDGETS_QLABEL"%string.
Definition TYPE_QTWIDGETS_QLAYOUT := "KRY_QT6_NATIVE_TYPE_QTWIDGETS_QLAYOUT"%string.
Definition TYPE_QTWIDGETS_QLCDNUMBER := "KRY_QT6_NATIVE_TYPE_QTWIDGETS_QLCDNUMBER"%string.
Definition TYPE_QTWIDGETS_QLINEEDIT := "KRY_QT6_NATIVE_TYPE_QTWIDGETS_QLINEEDIT"%string.
Definition TYPE_QTWIDGETS_QLISTVIEW := "KRY_QT6_NATIVE_TYPE_QTWIDGETS_QLISTVIEW"%string.
Definition TYPE_QTWIDGETS_QLISTWIDGET := "KRY_QT6_NATIVE_TYPE_QTWIDGETS_QLISTWIDGET"%string.
Definition TYPE_QTWIDGETS_QMDIAREA := "KRY_QT6_NATIVE_TYPE_QTWIDGETS_QMDIAREA"%string.
Definition TYPE_QTWIDGETS_QMDISUBWINDOW := "KRY_QT6_NATIVE_TYPE_QTWIDGETS_QMDISUBWINDOW"%string.
Definition TYPE_QTWIDGETS_QMENU := "KRY_QT6_NATIVE_TYPE_QTWIDGETS_QMENU"%string.
Definition TYPE_QTWIDGETS_QMENUBAR := "KRY_QT6_NATIVE_TYPE_QTWIDGETS_QMENUBAR"%string.
Definition TYPE_QTWIDGETS_QMESSAGEBOX := "KRY_QT6_NATIVE_TYPE_QTWIDGETS_QMESSAGEBOX"%string.
Definition TYPE_QTWIDGETS_QPLAINTEXTEDIT := "KRY_QT6_NATIVE_TYPE_QTWIDGETS_QPLAINTEXTEDIT"%string.
Definition TYPE_QTWIDGETS_QPROGRESSBAR := "KRY_QT6_NATIVE_TYPE_QTWIDGETS_QPROGRESSBAR"%string.
Definition TYPE_QTWIDGETS_QPUSHBUTTON := "KRY_QT6_NATIVE_TYPE_QTWIDGETS_QPUSHBUTTON"%string.
Definition TYPE_QTWIDGETS_QRUBBERBAND := "KRY_QT6_NATIVE_TYPE_QTWIDGETS_QRUBBERBAND"%string.
Definition TYPE_QTWIDGETS_QSCROLLBAR := "KRY_QT6_NATIVE_TYPE_QTWIDGETS_QSCROLLBAR"%string.
Definition TYPE_QTWIDGETS_QSCROLLER := "KRY_QT6_NATIVE_TYPE_QTWIDGETS_QSCROLLER"%string.
Definition TYPE_QTWIDGETS_QSCROLLERPROPERTIES := "KRY_QT6_NATIVE_TYPE_QTWIDGETS_QSCROLLERPROPERTIES"%string.
Definition TYPE_QTWIDGETS_QSIZEPOLICY := "KRY_QT6_NATIVE_TYPE_QTWIDGETS_QSIZEPOLICY"%string.
Definition TYPE_QTWIDGETS_QSLIDER := "KRY_QT6_NATIVE_TYPE_QTWIDGETS_QSLIDER"%string.
Definition TYPE_QTWIDGETS_QSPLITTER := "KRY_QT6_NATIVE_TYPE_QTWIDGETS_QSPLITTER"%string.
Definition TYPE_QTWIDGETS_QSPLITTERHANDLE := "KRY_QT6_NATIVE_TYPE_QTWIDGETS_QSPLITTERHANDLE"%string.
Definition TYPE_QTWIDGETS_QSTACKEDLAYOUT := "KRY_QT6_NATIVE_TYPE_QTWIDGETS_QSTACKEDLAYOUT"%string.
Definition TYPE_QTWIDGETS_QSTATUSBAR := "KRY_QT6_NATIVE_TYPE_QTWIDGETS_QSTATUSBAR"%string.
Definition TYPE_QTWIDGETS_QSTYLE := "KRY_QT6_NATIVE_TYPE_QTWIDGETS_QSTYLE"%string.
Definition TYPE_QTWIDGETS_QSWIPEGESTURE := "KRY_QT6_NATIVE_TYPE_QTWIDGETS_QSWIPEGESTURE"%string.
Definition TYPE_QTWIDGETS_QSYSTEMTRAYICON := "KRY_QT6_NATIVE_TYPE_QTWIDGETS_QSYSTEMTRAYICON"%string.
Definition TYPE_QTWIDGETS_QTABBAR := "KRY_QT6_NATIVE_TYPE_QTWIDGETS_QTABBAR"%string.
Definition TYPE_QTWIDGETS_QTABLEWIDGET := "KRY_QT6_NATIVE_TYPE_QTWIDGETS_QTABLEWIDGET"%string.
Definition TYPE_QTWIDGETS_QTABWIDGET := "KRY_QT6_NATIVE_TYPE_QTWIDGETS_QTABWIDGET"%string.
Definition TYPE_QTWIDGETS_QTEXTEDIT := "KRY_QT6_NATIVE_TYPE_QTWIDGETS_QTEXTEDIT"%string.
Definition TYPE_QTWIDGETS_QTOOLBAR := "KRY_QT6_NATIVE_TYPE_QTWIDGETS_QTOOLBAR"%string.
Definition TYPE_QTWIDGETS_QTOOLBUTTON := "KRY_QT6_NATIVE_TYPE_QTWIDGETS_QTOOLBUTTON"%string.
Definition TYPE_QTWIDGETS_QTREEWIDGET := "KRY_QT6_NATIVE_TYPE_QTWIDGETS_QTREEWIDGET"%string.
Definition TYPE_QTWIDGETS_QTREEWIDGETITEM := "KRY_QT6_NATIVE_TYPE_QTWIDGETS_QTREEWIDGETITEM"%string.
Definition TYPE_QTWIDGETS_QTREEWIDGETITEMITERATOR := "KRY_QT6_NATIVE_TYPE_QTWIDGETS_QTREEWIDGETITEMITERATOR"%string.
Definition TYPE_QTWIDGETS_QWIDGET := "KRY_QT6_NATIVE_TYPE_QTWIDGETS_QWIDGET"%string.
Definition TYPE_QTWIDGETS_QWIZARD := "KRY_QT6_NATIVE_TYPE_QTWIDGETS_QWIZARD"%string.
Definition TYPE_QTWIDGETS_QWIZARDPAGE := "KRY_QT6_NATIVE_TYPE_QTWIDGETS_QWIZARDPAGE"%string.
Definition TYPE_QTXML_QDOMIMPLEMENTATION := "KRY_QT6_NATIVE_TYPE_QTXML_QDOMIMPLEMENTATION"%string.
Definition TYPE_QTXML_QDOMNODE := "KRY_QT6_NATIVE_TYPE_QTXML_QDOMNODE"%string.
Definition VALUE_TYPE_QTBLUETOOTH_QBLUETOOTHADDRESS := "KRY_QT6_NATIVE_VALUE_TYPE_QTBLUETOOTH_QBLUETOOTHADDRESS"%string.
Definition VALUE_TYPE_QTBLUETOOTH_QBLUETOOTHDEVICEINFO := "KRY_QT6_NATIVE_VALUE_TYPE_QTBLUETOOTH_QBLUETOOTHDEVICEINFO"%string.
Definition VALUE_TYPE_QTBLUETOOTH_QBLUETOOTHHOSTINFO := "KRY_QT6_NATIVE_VALUE_TYPE_QTBLUETOOTH_QBLUETOOTHHOSTINFO"%string.
Definition VALUE_TYPE_QTBLUETOOTH_QBLUETOOTHSERVICEINFO := "KRY_QT6_NATIVE_VALUE_TYPE_QTBLUETOOTH_QBLUETOOTHSERVICEINFO"%string.
Definition VALUE_TYPE_QTBLUETOOTH_QBLUETOOTHUUID := "KRY_QT6_NATIVE_VALUE_TYPE_QTBLUETOOTH_QBLUETOOTHUUID"%string.
Definition VALUE_TYPE_QTBLUETOOTH_QLOWENERGYADVERTISINGDATA := "KRY_QT6_NATIVE_VALUE_TYPE_QTBLUETOOTH_QLOWENERGYADVERTISINGDATA"%string.
Definition VALUE_TYPE_QTBLUETOOTH_QLOWENERGYADVERTISINGPARAMETERS := "KRY_QT6_NATIVE_VALUE_TYPE_QTBLUETOOTH_QLOWENERGYADVERTISINGPARAMETERS"%string.
Definition VALUE_TYPE_QTBLUETOOTH_QLOWENERGYCHARACTERISTIC := "KRY_QT6_NATIVE_VALUE_TYPE_QTBLUETOOTH_QLOWENERGYCHARACTERISTIC"%string.
Definition VALUE_TYPE_QTBLUETOOTH_QLOWENERGYCHARACTERISTICDATA := "KRY_QT6_NATIVE_VALUE_TYPE_QTBLUETOOTH_QLOWENERGYCHARACTERISTICDATA"%string.
Definition VALUE_TYPE_QTBLUETOOTH_QLOWENERGYCONNECTIONPARAMETERS := "KRY_QT6_NATIVE_VALUE_TYPE_QTBLUETOOTH_QLOWENERGYCONNECTIONPARAMETERS"%string.
Definition VALUE_TYPE_QTBLUETOOTH_QLOWENERGYDESCRIPTOR := "KRY_QT6_NATIVE_VALUE_TYPE_QTBLUETOOTH_QLOWENERGYDESCRIPTOR"%string.
Definition VALUE_TYPE_QTBLUETOOTH_QLOWENERGYDESCRIPTORDATA := "KRY_QT6_NATIVE_VALUE_TYPE_QTBLUETOOTH_QLOWENERGYDESCRIPTORDATA"%string.
Definition VALUE_TYPE_QTBLUETOOTH_QLOWENERGYSERVICEDATA := "KRY_QT6_NATIVE_VALUE_TYPE_QTBLUETOOTH_QLOWENERGYSERVICEDATA"%string.
Definition VALUE_TYPE_QTCORE_QBASICTIMER := "KRY_QT6_NATIVE_VALUE_TYPE_QTCORE_QBASICTIMER"%string.
Definition VALUE_TYPE_QTCORE_QBITARRAY := "KRY_QT6_NATIVE_VALUE_TYPE_QTCORE_QBITARRAY"%string.
Definition VALUE_TYPE_QTCORE_QBLUETOOTHPERMISSION := "KRY_QT6_NATIVE_VALUE_TYPE_QTCORE_QBLUETOOTHPERMISSION"%string.
Definition VALUE_TYPE_QTCORE_QBYTEARRAY := "KRY_QT6_NATIVE_VALUE_TYPE_QTCORE_QBYTEARRAY"%string.
Definition VALUE_TYPE_QTCORE_QBYTEARRAYMATCHER := "KRY_QT6_NATIVE_VALUE_TYPE_QTCORE_QBYTEARRAYMATCHER"%string.
Definition VALUE_TYPE_QTCORE_QCALENDAR := "KRY_QT6_NATIVE_VALUE_TYPE_QTCORE_QCALENDAR"%string.
Definition VALUE_TYPE_QTCORE_QCALENDARPERMISSION := "KRY_QT6_NATIVE_VALUE_TYPE_QTCORE_QCALENDARPERMISSION"%string.
Definition VALUE_TYPE_QTCORE_QCAMERAPERMISSION := "KRY_QT6_NATIVE_VALUE_TYPE_QTCORE_QCAMERAPERMISSION"%string.
Definition VALUE_TYPE_QTCORE_QCOLLATOR := "KRY_QT6_NATIVE_VALUE_TYPE_QTCORE_QCOLLATOR"%string.
Definition VALUE_TYPE_QTCORE_QCOLLATORSORTKEY := "KRY_QT6_NATIVE_VALUE_TYPE_QTCORE_QCOLLATORSORTKEY"%string.
Definition VALUE_TYPE_QTCORE_QCOMMANDLINEOPTION := "KRY_QT6_NATIVE_VALUE_TYPE_QTCORE_QCOMMANDLINEOPTION"%string.
Definition VALUE_TYPE_QTCORE_QCONTACTSPERMISSION := "KRY_QT6_NATIVE_VALUE_TYPE_QTCORE_QCONTACTSPERMISSION"%string.
Definition VALUE_TYPE_QTCORE_QCRYPTOGRAPHICHASH := "KRY_QT6_NATIVE_VALUE_TYPE_QTCORE_QCRYPTOGRAPHICHASH"%string.
Definition VALUE_TYPE_QTCORE_QDATASTREAM := "KRY_QT6_NATIVE_VALUE_TYPE_QTCORE_QDATASTREAM"%string.
Definition VALUE_TYPE_QTCORE_QDATE := "KRY_QT6_NATIVE_VALUE_TYPE_QTCORE_QDATE"%string.
Definition VALUE_TYPE_QTCORE_QDATETIME := "KRY_QT6_NATIVE_VALUE_TYPE_QTCORE_QDATETIME"%string.
Definition VALUE_TYPE_QTCORE_QDEADLINETIMER := "KRY_QT6_NATIVE_VALUE_TYPE_QTCORE_QDEADLINETIMER"%string.
Definition VALUE_TYPE_QTCORE_QDIR := "KRY_QT6_NATIVE_VALUE_TYPE_QTCORE_QDIR"%string.
Definition VALUE_TYPE_QTCORE_QEASINGCURVE := "KRY_QT6_NATIVE_VALUE_TYPE_QTCORE_QEASINGCURVE"%string.
Definition VALUE_TYPE_QTCORE_QELAPSEDTIMER := "KRY_QT6_NATIVE_VALUE_TYPE_QTCORE_QELAPSEDTIMER"%string.
Definition VALUE_TYPE_QTCORE_QEVENTLOOPLOCKER := "KRY_QT6_NATIVE_VALUE_TYPE_QTCORE_QEVENTLOOPLOCKER"%string.
Definition VALUE_TYPE_QTCORE_QFILEINFO := "KRY_QT6_NATIVE_VALUE_TYPE_QTCORE_QFILEINFO"%string.
Definition VALUE_TYPE_QTCORE_QITEMSELECTION := "KRY_QT6_NATIVE_VALUE_TYPE_QTCORE_QITEMSELECTION"%string.
Definition VALUE_TYPE_QTCORE_QITEMSELECTIONRANGE := "KRY_QT6_NATIVE_VALUE_TYPE_QTCORE_QITEMSELECTIONRANGE"%string.
Definition VALUE_TYPE_QTCORE_QJSONDOCUMENT := "KRY_QT6_NATIVE_VALUE_TYPE_QTCORE_QJSONDOCUMENT"%string.
Definition VALUE_TYPE_QTCORE_QJSONVALUE := "KRY_QT6_NATIVE_VALUE_TYPE_QTCORE_QJSONVALUE"%string.
Definition VALUE_TYPE_QTCORE_QKEYCOMBINATION := "KRY_QT6_NATIVE_VALUE_TYPE_QTCORE_QKEYCOMBINATION"%string.
Definition VALUE_TYPE_QTCORE_QLINE := "KRY_QT6_NATIVE_VALUE_TYPE_QTCORE_QLINE"%string.
Definition VALUE_TYPE_QTCORE_QLINEF := "KRY_QT6_NATIVE_VALUE_TYPE_QTCORE_QLINEF"%string.
Definition VALUE_TYPE_QTCORE_QLOCALE := "KRY_QT6_NATIVE_VALUE_TYPE_QTCORE_QLOCALE"%string.
Definition VALUE_TYPE_QTCORE_QLOCATIONPERMISSION := "KRY_QT6_NATIVE_VALUE_TYPE_QTCORE_QLOCATIONPERMISSION"%string.
Definition VALUE_TYPE_QTCORE_QMARGINS := "KRY_QT6_NATIVE_VALUE_TYPE_QTCORE_QMARGINS"%string.
Definition VALUE_TYPE_QTCORE_QMARGINSF := "KRY_QT6_NATIVE_VALUE_TYPE_QTCORE_QMARGINSF"%string.
Definition VALUE_TYPE_QTCORE_QMESSAGEAUTHENTICATIONCODE := "KRY_QT6_NATIVE_VALUE_TYPE_QTCORE_QMESSAGEAUTHENTICATIONCODE"%string.
Definition VALUE_TYPE_QTCORE_QMETAENUM := "KRY_QT6_NATIVE_VALUE_TYPE_QTCORE_QMETAENUM"%string.
Definition VALUE_TYPE_QTCORE_QMETAMETHOD := "KRY_QT6_NATIVE_VALUE_TYPE_QTCORE_QMETAMETHOD"%string.
Definition VALUE_TYPE_QTCORE_QMETAPROPERTY := "KRY_QT6_NATIVE_VALUE_TYPE_QTCORE_QMETAPROPERTY"%string.
Definition VALUE_TYPE_QTCORE_QMETATYPE := "KRY_QT6_NATIVE_VALUE_TYPE_QTCORE_QMETATYPE"%string.
Definition VALUE_TYPE_QTCORE_QMICROPHONEPERMISSION := "KRY_QT6_NATIVE_VALUE_TYPE_QTCORE_QMICROPHONEPERMISSION"%string.
Definition VALUE_TYPE_QTCORE_QMIMETYPE := "KRY_QT6_NATIVE_VALUE_TYPE_QTCORE_QMIMETYPE"%string.
Definition VALUE_TYPE_QTCORE_QMODELINDEX := "KRY_QT6_NATIVE_VALUE_TYPE_QTCORE_QMODELINDEX"%string.
Definition VALUE_TYPE_QTCORE_QMODELROLEDATA := "KRY_QT6_NATIVE_VALUE_TYPE_QTCORE_QMODELROLEDATA"%string.
Definition VALUE_TYPE_QTCORE_QMODELROLEDATASPAN := "KRY_QT6_NATIVE_VALUE_TYPE_QTCORE_QMODELROLEDATASPAN"%string.
Definition VALUE_TYPE_QTCORE_QNATIVEIPCKEY := "KRY_QT6_NATIVE_VALUE_TYPE_QTCORE_QNATIVEIPCKEY"%string.
Definition VALUE_TYPE_QTCORE_QOPERATINGSYSTEMVERSION := "KRY_QT6_NATIVE_VALUE_TYPE_QTCORE_QOPERATINGSYSTEMVERSION"%string.
Definition VALUE_TYPE_QTCORE_QPERSISTENTMODELINDEX := "KRY_QT6_NATIVE_VALUE_TYPE_QTCORE_QPERSISTENTMODELINDEX"%string.
Definition VALUE_TYPE_QTCORE_QPOINT := "KRY_QT6_NATIVE_VALUE_TYPE_QTCORE_QPOINT"%string.
Definition VALUE_TYPE_QTCORE_QPOINTF := "KRY_QT6_NATIVE_VALUE_TYPE_QTCORE_QPOINTF"%string.
Definition VALUE_TYPE_QTCORE_QPROCESSENVIRONMENT := "KRY_QT6_NATIVE_VALUE_TYPE_QTCORE_QPROCESSENVIRONMENT"%string.
Definition VALUE_TYPE_QTCORE_QRANDOMGENERATOR := "KRY_QT6_NATIVE_VALUE_TYPE_QTCORE_QRANDOMGENERATOR"%string.
Definition VALUE_TYPE_QTCORE_QRECT := "KRY_QT6_NATIVE_VALUE_TYPE_QTCORE_QRECT"%string.
Definition VALUE_TYPE_QTCORE_QRECTF := "KRY_QT6_NATIVE_VALUE_TYPE_QTCORE_QRECTF"%string.
Definition VALUE_TYPE_QTCORE_QREGULAREXPRESSION := "KRY_QT6_NATIVE_VALUE_TYPE_QTCORE_QREGULAREXPRESSION"%string.
Definition VALUE_TYPE_QTCORE_QREGULAREXPRESSIONMATCH := "KRY_QT6_NATIVE_VALUE_TYPE_QTCORE_QREGULAREXPRESSIONMATCH"%string.
Definition VALUE_TYPE_QTCORE_QREGULAREXPRESSIONMATCHITERATOR := "KRY_QT6_NATIVE_VALUE_TYPE_QTCORE_QREGULAREXPRESSIONMATCHITERATOR"%string.
Definition VALUE_TYPE_QTCORE_QSEMAPHORERELEASER := "KRY_QT6_NATIVE_VALUE_TYPE_QTCORE_QSEMAPHORERELEASER"%string.
Definition VALUE_TYPE_QTCORE_QSIZE := "KRY_QT6_NATIVE_VALUE_TYPE_QTCORE_QSIZE"%string.
Definition VALUE_TYPE_QTCORE_QSIZEF := "KRY_QT6_NATIVE_VALUE_TYPE_QTCORE_QSIZEF"%string.
Definition VALUE_TYPE_QTCORE_QSTORAGEINFO := "KRY_QT6_NATIVE_VALUE_TYPE_QTCORE_QSTORAGEINFO"%string.
Definition VALUE_TYPE_QTCORE_QTEMPORARYDIR := "KRY_QT6_NATIVE_VALUE_TYPE_QTCORE_QTEMPORARYDIR"%string.
Definition VALUE_TYPE_QTCORE_QTEXTBOUNDARYFINDER := "KRY_QT6_NATIVE_VALUE_TYPE_QTCORE_QTEXTBOUNDARYFINDER"%string.
Definition VALUE_TYPE_QTCORE_QTEXTSTREAM := "KRY_QT6_NATIVE_VALUE_TYPE_QTCORE_QTEXTSTREAM"%string.
Definition VALUE_TYPE_QTCORE_QTIME := "KRY_QT6_NATIVE_VALUE_TYPE_QTCORE_QTIME"%string.
Definition VALUE_TYPE_QTCORE_QTIMEZONE := "KRY_QT6_NATIVE_VALUE_TYPE_QTCORE_QTIMEZONE"%string.
Definition VALUE_TYPE_QTCORE_QTYPEREVISION := "KRY_QT6_NATIVE_VALUE_TYPE_QTCORE_QTYPEREVISION"%string.
Definition VALUE_TYPE_QTCORE_QURL := "KRY_QT6_NATIVE_VALUE_TYPE_QTCORE_QURL"%string.
Definition VALUE_TYPE_QTCORE_QURLQUERY := "KRY_QT6_NATIVE_VALUE_TYPE_QTCORE_QURLQUERY"%string.
Definition VALUE_TYPE_QTCORE_QUUID := "KRY_QT6_NATIVE_VALUE_TYPE_QTCORE_QUUID"%string.
Definition VALUE_TYPE_QTCORE_QVERSIONNUMBER := "KRY_QT6_NATIVE_VALUE_TYPE_QTCORE_QVERSIONNUMBER"%string.
Definition VALUE_TYPE_QTCORE_QXMLSTREAMATTRIBUTE := "KRY_QT6_NATIVE_VALUE_TYPE_QTCORE_QXMLSTREAMATTRIBUTE"%string.
Definition VALUE_TYPE_QTCORE_QXMLSTREAMATTRIBUTES := "KRY_QT6_NATIVE_VALUE_TYPE_QTCORE_QXMLSTREAMATTRIBUTES"%string.
Definition VALUE_TYPE_QTCORE_QXMLSTREAMNAMESPACEDECLARATION := "KRY_QT6_NATIVE_VALUE_TYPE_QTCORE_QXMLSTREAMNAMESPACEDECLARATION"%string.
Definition VALUE_TYPE_QTCORE_QXMLSTREAMREADER := "KRY_QT6_NATIVE_VALUE_TYPE_QTCORE_QXMLSTREAMREADER"%string.
Definition VALUE_TYPE_QTDBUS_QDBUSARGUMENT := "KRY_QT6_NATIVE_VALUE_TYPE_QTDBUS_QDBUSARGUMENT"%string.
Definition VALUE_TYPE_QTDBUS_QDBUSCONNECTION := "KRY_QT6_NATIVE_VALUE_TYPE_QTDBUS_QDBUSCONNECTION"%string.
Definition VALUE_TYPE_QTDBUS_QDBUSERROR := "KRY_QT6_NATIVE_VALUE_TYPE_QTDBUS_QDBUSERROR"%string.
Definition VALUE_TYPE_QTDBUS_QDBUSMESSAGE := "KRY_QT6_NATIVE_VALUE_TYPE_QTDBUS_QDBUSMESSAGE"%string.
Definition VALUE_TYPE_QTDBUS_QDBUSOBJECTPATH := "KRY_QT6_NATIVE_VALUE_TYPE_QTDBUS_QDBUSOBJECTPATH"%string.
Definition VALUE_TYPE_QTDBUS_QDBUSPENDINGCALL := "KRY_QT6_NATIVE_VALUE_TYPE_QTDBUS_QDBUSPENDINGCALL"%string.
Definition VALUE_TYPE_QTDBUS_QDBUSSIGNATURE := "KRY_QT6_NATIVE_VALUE_TYPE_QTDBUS_QDBUSSIGNATURE"%string.
Definition VALUE_TYPE_QTDBUS_QDBUSUNIXFILEDESCRIPTOR := "KRY_QT6_NATIVE_VALUE_TYPE_QTDBUS_QDBUSUNIXFILEDESCRIPTOR"%string.
Definition VALUE_TYPE_QTDBUS_QDBUSVARIANT := "KRY_QT6_NATIVE_VALUE_TYPE_QTDBUS_QDBUSVARIANT"%string.
Definition VALUE_TYPE_QTGRAPHS_QGRAPHSLINE := "KRY_QT6_NATIVE_VALUE_TYPE_QTGRAPHS_QGRAPHSLINE"%string.
Definition VALUE_TYPE_QTGUI_QBITMAP := "KRY_QT6_NATIVE_VALUE_TYPE_QTGUI_QBITMAP"%string.
Definition VALUE_TYPE_QTGUI_QBRUSH := "KRY_QT6_NATIVE_VALUE_TYPE_QTGUI_QBRUSH"%string.
Definition VALUE_TYPE_QTGUI_QCOLOR := "KRY_QT6_NATIVE_VALUE_TYPE_QTGUI_QCOLOR"%string.
Definition VALUE_TYPE_QTGUI_QCOLORSPACE := "KRY_QT6_NATIVE_VALUE_TYPE_QTGUI_QCOLORSPACE"%string.
Definition VALUE_TYPE_QTGUI_QCOLORTRANSFORM := "KRY_QT6_NATIVE_VALUE_TYPE_QTGUI_QCOLORTRANSFORM"%string.
Definition VALUE_TYPE_QTGUI_QCURSOR := "KRY_QT6_NATIVE_VALUE_TYPE_QTGUI_QCURSOR"%string.
Definition VALUE_TYPE_QTGUI_QEVENTPOINT := "KRY_QT6_NATIVE_VALUE_TYPE_QTGUI_QEVENTPOINT"%string.
Definition VALUE_TYPE_QTGUI_QFONT := "KRY_QT6_NATIVE_VALUE_TYPE_QTGUI_QFONT"%string.
Definition VALUE_TYPE_QTGUI_QFONTINFO := "KRY_QT6_NATIVE_VALUE_TYPE_QTGUI_QFONTINFO"%string.
Definition VALUE_TYPE_QTGUI_QFONTMETRICS := "KRY_QT6_NATIVE_VALUE_TYPE_QTGUI_QFONTMETRICS"%string.
Definition VALUE_TYPE_QTGUI_QFONTMETRICSF := "KRY_QT6_NATIVE_VALUE_TYPE_QTGUI_QFONTMETRICSF"%string.
Definition VALUE_TYPE_QTGUI_QFONTVARIABLEAXIS := "KRY_QT6_NATIVE_VALUE_TYPE_QTGUI_QFONTVARIABLEAXIS"%string.
Definition VALUE_TYPE_QTGUI_QGLYPHRUN := "KRY_QT6_NATIVE_VALUE_TYPE_QTGUI_QGLYPHRUN"%string.
Definition VALUE_TYPE_QTGUI_QICON := "KRY_QT6_NATIVE_VALUE_TYPE_QTGUI_QICON"%string.
Definition VALUE_TYPE_QTGUI_QIMAGE := "KRY_QT6_NATIVE_VALUE_TYPE_QTGUI_QIMAGE"%string.
Definition VALUE_TYPE_QTGUI_QKEYSEQUENCE := "KRY_QT6_NATIVE_VALUE_TYPE_QTGUI_QKEYSEQUENCE"%string.
Definition VALUE_TYPE_QTGUI_QLINEARGRADIENT := "KRY_QT6_NATIVE_VALUE_TYPE_QTGUI_QLINEARGRADIENT"%string.
Definition VALUE_TYPE_QTGUI_QMATRIX2X2 := "KRY_QT6_NATIVE_VALUE_TYPE_QTGUI_QMATRIX2X2"%string.
Definition VALUE_TYPE_QTGUI_QMATRIX2X3 := "KRY_QT6_NATIVE_VALUE_TYPE_QTGUI_QMATRIX2X3"%string.
Definition VALUE_TYPE_QTGUI_QMATRIX2X4 := "KRY_QT6_NATIVE_VALUE_TYPE_QTGUI_QMATRIX2X4"%string.
Definition VALUE_TYPE_QTGUI_QMATRIX3X2 := "KRY_QT6_NATIVE_VALUE_TYPE_QTGUI_QMATRIX3X2"%string.
Definition VALUE_TYPE_QTGUI_QMATRIX3X3 := "KRY_QT6_NATIVE_VALUE_TYPE_QTGUI_QMATRIX3X3"%string.
Definition VALUE_TYPE_QTGUI_QMATRIX3X4 := "KRY_QT6_NATIVE_VALUE_TYPE_QTGUI_QMATRIX3X4"%string.
Definition VALUE_TYPE_QTGUI_QMATRIX4X2 := "KRY_QT6_NATIVE_VALUE_TYPE_QTGUI_QMATRIX4X2"%string.
Definition VALUE_TYPE_QTGUI_QMATRIX4X3 := "KRY_QT6_NATIVE_VALUE_TYPE_QTGUI_QMATRIX4X3"%string.
Definition VALUE_TYPE_QTGUI_QMATRIX4X4 := "KRY_QT6_NATIVE_VALUE_TYPE_QTGUI_QMATRIX4X4"%string.
Definition VALUE_TYPE_QTGUI_QPAGELAYOUT := "KRY_QT6_NATIVE_VALUE_TYPE_QTGUI_QPAGELAYOUT"%string.
Definition VALUE_TYPE_QTGUI_QPAGERANGES := "KRY_QT6_NATIVE_VALUE_TYPE_QTGUI_QPAGERANGES"%string.
Definition VALUE_TYPE_QTGUI_QPAGESIZE := "KRY_QT6_NATIVE_VALUE_TYPE_QTGUI_QPAGESIZE"%string.
Definition VALUE_TYPE_QTGUI_QPAINTERPATH := "KRY_QT6_NATIVE_VALUE_TYPE_QTGUI_QPAINTERPATH"%string.
Definition VALUE_TYPE_QTGUI_QPAINTERSTATEGUARD := "KRY_QT6_NATIVE_VALUE_TYPE_QTGUI_QPAINTERSTATEGUARD"%string.
Definition VALUE_TYPE_QTGUI_QPALETTE := "KRY_QT6_NATIVE_VALUE_TYPE_QTGUI_QPALETTE"%string.
Definition VALUE_TYPE_QTGUI_QPDFOUTPUTINTENT := "KRY_QT6_NATIVE_VALUE_TYPE_QTGUI_QPDFOUTPUTINTENT"%string.
Definition VALUE_TYPE_QTGUI_QPEN := "KRY_QT6_NATIVE_VALUE_TYPE_QTGUI_QPEN"%string.
Definition VALUE_TYPE_QTGUI_QPICTURE := "KRY_QT6_NATIVE_VALUE_TYPE_QTGUI_QPICTURE"%string.
Definition VALUE_TYPE_QTGUI_QPIXELFORMAT := "KRY_QT6_NATIVE_VALUE_TYPE_QTGUI_QPIXELFORMAT"%string.
Definition VALUE_TYPE_QTGUI_QPIXMAP := "KRY_QT6_NATIVE_VALUE_TYPE_QTGUI_QPIXMAP"%string.
Definition VALUE_TYPE_QTGUI_QPOINTINGDEVICEUNIQUEID := "KRY_QT6_NATIVE_VALUE_TYPE_QTGUI_QPOINTINGDEVICEUNIQUEID"%string.
Definition VALUE_TYPE_QTGUI_QPOLYGON := "KRY_QT6_NATIVE_VALUE_TYPE_QTGUI_QPOLYGON"%string.
Definition VALUE_TYPE_QTGUI_QPOLYGONF := "KRY_QT6_NATIVE_VALUE_TYPE_QTGUI_QPOLYGONF"%string.
Definition VALUE_TYPE_QTGUI_QQUATERNION := "KRY_QT6_NATIVE_VALUE_TYPE_QTGUI_QQUATERNION"%string.
Definition VALUE_TYPE_QTGUI_QRAWFONT := "KRY_QT6_NATIVE_VALUE_TYPE_QTGUI_QRAWFONT"%string.
Definition VALUE_TYPE_QTGUI_QREGION := "KRY_QT6_NATIVE_VALUE_TYPE_QTGUI_QREGION"%string.
Definition VALUE_TYPE_QTGUI_QRGBA64 := "KRY_QT6_NATIVE_VALUE_TYPE_QTGUI_QRGBA64"%string.
Definition VALUE_TYPE_QTGUI_QSTATICTEXT := "KRY_QT6_NATIVE_VALUE_TYPE_QTGUI_QSTATICTEXT"%string.
Definition VALUE_TYPE_QTGUI_QSURFACEFORMAT := "KRY_QT6_NATIVE_VALUE_TYPE_QTGUI_QSURFACEFORMAT"%string.
Definition VALUE_TYPE_QTGUI_QTEXTBLOCK := "KRY_QT6_NATIVE_VALUE_TYPE_QTGUI_QTEXTBLOCK"%string.
Definition VALUE_TYPE_QTGUI_QTEXTBLOCKFORMAT := "KRY_QT6_NATIVE_VALUE_TYPE_QTGUI_QTEXTBLOCKFORMAT"%string.
Definition VALUE_TYPE_QTGUI_QTEXTCHARFORMAT := "KRY_QT6_NATIVE_VALUE_TYPE_QTGUI_QTEXTCHARFORMAT"%string.
Definition VALUE_TYPE_QTGUI_QTEXTCURSOR := "KRY_QT6_NATIVE_VALUE_TYPE_QTGUI_QTEXTCURSOR"%string.
Definition VALUE_TYPE_QTGUI_QTEXTDOCUMENTFRAGMENT := "KRY_QT6_NATIVE_VALUE_TYPE_QTGUI_QTEXTDOCUMENTFRAGMENT"%string.
Definition VALUE_TYPE_QTGUI_QTEXTFORMAT := "KRY_QT6_NATIVE_VALUE_TYPE_QTGUI_QTEXTFORMAT"%string.
Definition VALUE_TYPE_QTGUI_QTEXTFRAGMENT := "KRY_QT6_NATIVE_VALUE_TYPE_QTGUI_QTEXTFRAGMENT"%string.
Definition VALUE_TYPE_QTGUI_QTEXTFRAMEFORMAT := "KRY_QT6_NATIVE_VALUE_TYPE_QTGUI_QTEXTFRAMEFORMAT"%string.
Definition VALUE_TYPE_QTGUI_QTEXTIMAGEFORMAT := "KRY_QT6_NATIVE_VALUE_TYPE_QTGUI_QTEXTIMAGEFORMAT"%string.
Definition VALUE_TYPE_QTGUI_QTEXTITEM := "KRY_QT6_NATIVE_VALUE_TYPE_QTGUI_QTEXTITEM"%string.
Definition VALUE_TYPE_QTGUI_QTEXTLENGTH := "KRY_QT6_NATIVE_VALUE_TYPE_QTGUI_QTEXTLENGTH"%string.
Definition VALUE_TYPE_QTGUI_QTEXTLINE := "KRY_QT6_NATIVE_VALUE_TYPE_QTGUI_QTEXTLINE"%string.
Definition VALUE_TYPE_QTGUI_QTEXTLISTFORMAT := "KRY_QT6_NATIVE_VALUE_TYPE_QTGUI_QTEXTLISTFORMAT"%string.
Definition VALUE_TYPE_QTGUI_QTEXTOPTION := "KRY_QT6_NATIVE_VALUE_TYPE_QTGUI_QTEXTOPTION"%string.
Definition VALUE_TYPE_QTGUI_QTEXTTABLECELL := "KRY_QT6_NATIVE_VALUE_TYPE_QTGUI_QTEXTTABLECELL"%string.
Definition VALUE_TYPE_QTGUI_QTEXTTABLECELLFORMAT := "KRY_QT6_NATIVE_VALUE_TYPE_QTGUI_QTEXTTABLECELLFORMAT"%string.
Definition VALUE_TYPE_QTGUI_QTEXTTABLEFORMAT := "KRY_QT6_NATIVE_VALUE_TYPE_QTGUI_QTEXTTABLEFORMAT"%string.
Definition VALUE_TYPE_QTGUI_QTRANSFORM := "KRY_QT6_NATIVE_VALUE_TYPE_QTGUI_QTRANSFORM"%string.
Definition VALUE_TYPE_QTGUI_QVECTOR2D := "KRY_QT6_NATIVE_VALUE_TYPE_QTGUI_QVECTOR2D"%string.
Definition VALUE_TYPE_QTGUI_QVECTOR3D := "KRY_QT6_NATIVE_VALUE_TYPE_QTGUI_QVECTOR3D"%string.
Definition VALUE_TYPE_QTGUI_QVECTOR4D := "KRY_QT6_NATIVE_VALUE_TYPE_QTGUI_QVECTOR4D"%string.
Definition VALUE_TYPE_QTHELP_QCOMPRESSEDHELPINFO := "KRY_QT6_NATIVE_VALUE_TYPE_QTHELP_QCOMPRESSEDHELPINFO"%string.
Definition VALUE_TYPE_QTHELP_QHELPFILTERDATA := "KRY_QT6_NATIVE_VALUE_TYPE_QTHELP_QHELPFILTERDATA"%string.
Definition VALUE_TYPE_QTHELP_QHELPSEARCHRESULT := "KRY_QT6_NATIVE_VALUE_TYPE_QTHELP_QHELPSEARCHRESULT"%string.
Definition VALUE_TYPE_QTMULTIMEDIA_QAUDIOBUFFER := "KRY_QT6_NATIVE_VALUE_TYPE_QTMULTIMEDIA_QAUDIOBUFFER"%string.
Definition VALUE_TYPE_QTMULTIMEDIA_QAUDIODEVICE := "KRY_QT6_NATIVE_VALUE_TYPE_QTMULTIMEDIA_QAUDIODEVICE"%string.
Definition VALUE_TYPE_QTMULTIMEDIA_QAUDIOFORMAT := "KRY_QT6_NATIVE_VALUE_TYPE_QTMULTIMEDIA_QAUDIOFORMAT"%string.
Definition VALUE_TYPE_QTMULTIMEDIA_QCAMERADEVICE := "KRY_QT6_NATIVE_VALUE_TYPE_QTMULTIMEDIA_QCAMERADEVICE"%string.
Definition VALUE_TYPE_QTMULTIMEDIA_QCAMERAFORMAT := "KRY_QT6_NATIVE_VALUE_TYPE_QTMULTIMEDIA_QCAMERAFORMAT"%string.
Definition VALUE_TYPE_QTMULTIMEDIA_QCAPTURABLEWINDOW := "KRY_QT6_NATIVE_VALUE_TYPE_QTMULTIMEDIA_QCAPTURABLEWINDOW"%string.
Definition VALUE_TYPE_QTMULTIMEDIA_QMEDIAFORMAT := "KRY_QT6_NATIVE_VALUE_TYPE_QTMULTIMEDIA_QMEDIAFORMAT"%string.
Definition VALUE_TYPE_QTMULTIMEDIA_QMEDIAMETADATA := "KRY_QT6_NATIVE_VALUE_TYPE_QTMULTIMEDIA_QMEDIAMETADATA"%string.
Definition VALUE_TYPE_QTMULTIMEDIA_QMEDIATIMERANGE := "KRY_QT6_NATIVE_VALUE_TYPE_QTMULTIMEDIA_QMEDIATIMERANGE"%string.
Definition VALUE_TYPE_QTMULTIMEDIA_QPLAYBACKOPTIONS := "KRY_QT6_NATIVE_VALUE_TYPE_QTMULTIMEDIA_QPLAYBACKOPTIONS"%string.
Definition VALUE_TYPE_QTMULTIMEDIA_QVIDEOFRAME := "KRY_QT6_NATIVE_VALUE_TYPE_QTMULTIMEDIA_QVIDEOFRAME"%string.
Definition VALUE_TYPE_QTMULTIMEDIA_QVIDEOFRAMEFORMAT := "KRY_QT6_NATIVE_VALUE_TYPE_QTMULTIMEDIA_QVIDEOFRAMEFORMAT"%string.
Definition VALUE_TYPE_QTNETWORKAUTH_QOAUTH1SIGNATURE := "KRY_QT6_NATIVE_VALUE_TYPE_QTNETWORKAUTH_QOAUTH1SIGNATURE"%string.
Definition VALUE_TYPE_QTNETWORK_QAUTHENTICATOR := "KRY_QT6_NATIVE_VALUE_TYPE_QTNETWORK_QAUTHENTICATOR"%string.
Definition VALUE_TYPE_QTNETWORK_QDNSDOMAINNAMERECORD := "KRY_QT6_NATIVE_VALUE_TYPE_QTNETWORK_QDNSDOMAINNAMERECORD"%string.
Definition VALUE_TYPE_QTNETWORK_QDNSHOSTADDRESSRECORD := "KRY_QT6_NATIVE_VALUE_TYPE_QTNETWORK_QDNSHOSTADDRESSRECORD"%string.
Definition VALUE_TYPE_QTNETWORK_QDNSMAILEXCHANGERECORD := "KRY_QT6_NATIVE_VALUE_TYPE_QTNETWORK_QDNSMAILEXCHANGERECORD"%string.
Definition VALUE_TYPE_QTNETWORK_QDNSSERVICERECORD := "KRY_QT6_NATIVE_VALUE_TYPE_QTNETWORK_QDNSSERVICERECORD"%string.
Definition VALUE_TYPE_QTNETWORK_QDNSTEXTRECORD := "KRY_QT6_NATIVE_VALUE_TYPE_QTNETWORK_QDNSTEXTRECORD"%string.
Definition VALUE_TYPE_QTNETWORK_QDNSTLSASSOCIATIONRECORD := "KRY_QT6_NATIVE_VALUE_TYPE_QTNETWORK_QDNSTLSASSOCIATIONRECORD"%string.
Definition VALUE_TYPE_QTNETWORK_QFORMDATABUILDER := "KRY_QT6_NATIVE_VALUE_TYPE_QTNETWORK_QFORMDATABUILDER"%string.
Definition VALUE_TYPE_QTNETWORK_QFORMDATAPARTBUILDER := "KRY_QT6_NATIVE_VALUE_TYPE_QTNETWORK_QFORMDATAPARTBUILDER"%string.
Definition VALUE_TYPE_QTNETWORK_QHOSTADDRESS := "KRY_QT6_NATIVE_VALUE_TYPE_QTNETWORK_QHOSTADDRESS"%string.
Definition VALUE_TYPE_QTNETWORK_QHOSTINFO := "KRY_QT6_NATIVE_VALUE_TYPE_QTNETWORK_QHOSTINFO"%string.
Definition VALUE_TYPE_QTNETWORK_QHSTSPOLICY := "KRY_QT6_NATIVE_VALUE_TYPE_QTNETWORK_QHSTSPOLICY"%string.
Definition VALUE_TYPE_QTNETWORK_QHTTP1CONFIGURATION := "KRY_QT6_NATIVE_VALUE_TYPE_QTNETWORK_QHTTP1CONFIGURATION"%string.
Definition VALUE_TYPE_QTNETWORK_QHTTP2CONFIGURATION := "KRY_QT6_NATIVE_VALUE_TYPE_QTNETWORK_QHTTP2CONFIGURATION"%string.
Definition VALUE_TYPE_QTNETWORK_QHTTPHEADERS := "KRY_QT6_NATIVE_VALUE_TYPE_QTNETWORK_QHTTPHEADERS"%string.
Definition VALUE_TYPE_QTNETWORK_QHTTPPART := "KRY_QT6_NATIVE_VALUE_TYPE_QTNETWORK_QHTTPPART"%string.
Definition VALUE_TYPE_QTNETWORK_QNETWORKADDRESSENTRY := "KRY_QT6_NATIVE_VALUE_TYPE_QTNETWORK_QNETWORKADDRESSENTRY"%string.
Definition VALUE_TYPE_QTNETWORK_QNETWORKCACHEMETADATA := "KRY_QT6_NATIVE_VALUE_TYPE_QTNETWORK_QNETWORKCACHEMETADATA"%string.
Definition VALUE_TYPE_QTNETWORK_QNETWORKCOOKIE := "KRY_QT6_NATIVE_VALUE_TYPE_QTNETWORK_QNETWORKCOOKIE"%string.
Definition VALUE_TYPE_QTNETWORK_QNETWORKDATAGRAM := "KRY_QT6_NATIVE_VALUE_TYPE_QTNETWORK_QNETWORKDATAGRAM"%string.
Definition VALUE_TYPE_QTNETWORK_QNETWORKINTERFACE := "KRY_QT6_NATIVE_VALUE_TYPE_QTNETWORK_QNETWORKINTERFACE"%string.
Definition VALUE_TYPE_QTNETWORK_QNETWORKPROXY := "KRY_QT6_NATIVE_VALUE_TYPE_QTNETWORK_QNETWORKPROXY"%string.
Definition VALUE_TYPE_QTNETWORK_QNETWORKPROXYQUERY := "KRY_QT6_NATIVE_VALUE_TYPE_QTNETWORK_QNETWORKPROXYQUERY"%string.
Definition VALUE_TYPE_QTNETWORK_QNETWORKREQUEST := "KRY_QT6_NATIVE_VALUE_TYPE_QTNETWORK_QNETWORKREQUEST"%string.
Definition VALUE_TYPE_QTNETWORK_QNETWORKREQUESTFACTORY := "KRY_QT6_NATIVE_VALUE_TYPE_QTNETWORK_QNETWORKREQUESTFACTORY"%string.
Definition VALUE_TYPE_QTNETWORK_QOCSPRESPONSE := "KRY_QT6_NATIVE_VALUE_TYPE_QTNETWORK_QOCSPRESPONSE"%string.
Definition VALUE_TYPE_QTNETWORK_QRESTREPLY := "KRY_QT6_NATIVE_VALUE_TYPE_QTNETWORK_QRESTREPLY"%string.
Definition VALUE_TYPE_QTNETWORK_QSSLCERTIFICATE := "KRY_QT6_NATIVE_VALUE_TYPE_QTNETWORK_QSSLCERTIFICATE"%string.
Definition VALUE_TYPE_QTNETWORK_QSSLCERTIFICATEEXTENSION := "KRY_QT6_NATIVE_VALUE_TYPE_QTNETWORK_QSSLCERTIFICATEEXTENSION"%string.
Definition VALUE_TYPE_QTNETWORK_QSSLCIPHER := "KRY_QT6_NATIVE_VALUE_TYPE_QTNETWORK_QSSLCIPHER"%string.
Definition VALUE_TYPE_QTNETWORK_QSSLCONFIGURATION := "KRY_QT6_NATIVE_VALUE_TYPE_QTNETWORK_QSSLCONFIGURATION"%string.
Definition VALUE_TYPE_QTNETWORK_QSSLDIFFIEHELLMANPARAMETERS := "KRY_QT6_NATIVE_VALUE_TYPE_QTNETWORK_QSSLDIFFIEHELLMANPARAMETERS"%string.
Definition VALUE_TYPE_QTNETWORK_QSSLELLIPTICCURVE := "KRY_QT6_NATIVE_VALUE_TYPE_QTNETWORK_QSSLELLIPTICCURVE"%string.
Definition VALUE_TYPE_QTNETWORK_QSSLERROR := "KRY_QT6_NATIVE_VALUE_TYPE_QTNETWORK_QSSLERROR"%string.
Definition VALUE_TYPE_QTNETWORK_QSSLKEY := "KRY_QT6_NATIVE_VALUE_TYPE_QTNETWORK_QSSLKEY"%string.
Definition VALUE_TYPE_QTNETWORK_QSSLPRESHAREDKEYAUTHENTICATOR := "KRY_QT6_NATIVE_VALUE_TYPE_QTNETWORK_QSSLPRESHAREDKEYAUTHENTICATOR"%string.
Definition VALUE_TYPE_QTNFC_QNDEFFILTER := "KRY_QT6_NATIVE_VALUE_TYPE_QTNFC_QNDEFFILTER"%string.
Definition VALUE_TYPE_QTNFC_QNDEFMESSAGE := "KRY_QT6_NATIVE_VALUE_TYPE_QTNFC_QNDEFMESSAGE"%string.
Definition VALUE_TYPE_QTNFC_QNDEFNFCICONRECORD := "KRY_QT6_NATIVE_VALUE_TYPE_QTNFC_QNDEFNFCICONRECORD"%string.
Definition VALUE_TYPE_QTNFC_QNDEFNFCSMARTPOSTERRECORD := "KRY_QT6_NATIVE_VALUE_TYPE_QTNFC_QNDEFNFCSMARTPOSTERRECORD"%string.
Definition VALUE_TYPE_QTNFC_QNDEFNFCTEXTRECORD := "KRY_QT6_NATIVE_VALUE_TYPE_QTNFC_QNDEFNFCTEXTRECORD"%string.
Definition VALUE_TYPE_QTNFC_QNDEFNFCURIRECORD := "KRY_QT6_NATIVE_VALUE_TYPE_QTNFC_QNDEFNFCURIRECORD"%string.
Definition VALUE_TYPE_QTNFC_QNDEFRECORD := "KRY_QT6_NATIVE_VALUE_TYPE_QTNFC_QNDEFRECORD"%string.
Definition VALUE_TYPE_QTOPENGL_QOPENGLBUFFER := "KRY_QT6_NATIVE_VALUE_TYPE_QTOPENGL_QOPENGLBUFFER"%string.
Definition VALUE_TYPE_QTOPENGL_QOPENGLDEBUGMESSAGE := "KRY_QT6_NATIVE_VALUE_TYPE_QTOPENGL_QOPENGLDEBUGMESSAGE"%string.
Definition VALUE_TYPE_QTOPENGL_QOPENGLFRAMEBUFFEROBJECTFORMAT := "KRY_QT6_NATIVE_VALUE_TYPE_QTOPENGL_QOPENGLFRAMEBUFFEROBJECTFORMAT"%string.
Definition VALUE_TYPE_QTOPENGL_QOPENGLPIXELTRANSFEROPTIONS := "KRY_QT6_NATIVE_VALUE_TYPE_QTOPENGL_QOPENGLPIXELTRANSFEROPTIONS"%string.
Definition VALUE_TYPE_QTOPENGL_QOPENGLVERSIONPROFILE := "KRY_QT6_NATIVE_VALUE_TYPE_QTOPENGL_QOPENGLVERSIONPROFILE"%string.
Definition VALUE_TYPE_QTPDF_QPDFDOCUMENTRENDEROPTIONS := "KRY_QT6_NATIVE_VALUE_TYPE_QTPDF_QPDFDOCUMENTRENDEROPTIONS"%string.
Definition VALUE_TYPE_QTPDF_QPDFLINK := "KRY_QT6_NATIVE_VALUE_TYPE_QTPDF_QPDFLINK"%string.
Definition VALUE_TYPE_QTPDF_QPDFSELECTION := "KRY_QT6_NATIVE_VALUE_TYPE_QTPDF_QPDFSELECTION"%string.
Definition VALUE_TYPE_QTPOSITIONING_QGEOADDRESS := "KRY_QT6_NATIVE_VALUE_TYPE_QTPOSITIONING_QGEOADDRESS"%string.
Definition VALUE_TYPE_QTPOSITIONING_QGEOAREAMONITORINFO := "KRY_QT6_NATIVE_VALUE_TYPE_QTPOSITIONING_QGEOAREAMONITORINFO"%string.
Definition VALUE_TYPE_QTPOSITIONING_QGEOCIRCLE := "KRY_QT6_NATIVE_VALUE_TYPE_QTPOSITIONING_QGEOCIRCLE"%string.
Definition VALUE_TYPE_QTPOSITIONING_QGEOCOORDINATE := "KRY_QT6_NATIVE_VALUE_TYPE_QTPOSITIONING_QGEOCOORDINATE"%string.
Definition VALUE_TYPE_QTPOSITIONING_QGEOLOCATION := "KRY_QT6_NATIVE_VALUE_TYPE_QTPOSITIONING_QGEOLOCATION"%string.
Definition VALUE_TYPE_QTPOSITIONING_QGEOPATH := "KRY_QT6_NATIVE_VALUE_TYPE_QTPOSITIONING_QGEOPATH"%string.
Definition VALUE_TYPE_QTPOSITIONING_QGEOPOLYGON := "KRY_QT6_NATIVE_VALUE_TYPE_QTPOSITIONING_QGEOPOLYGON"%string.
Definition VALUE_TYPE_QTPOSITIONING_QGEOPOSITIONINFO := "KRY_QT6_NATIVE_VALUE_TYPE_QTPOSITIONING_QGEOPOSITIONINFO"%string.
Definition VALUE_TYPE_QTPOSITIONING_QGEORECTANGLE := "KRY_QT6_NATIVE_VALUE_TYPE_QTPOSITIONING_QGEORECTANGLE"%string.
Definition VALUE_TYPE_QTPOSITIONING_QGEOSATELLITEINFO := "KRY_QT6_NATIVE_VALUE_TYPE_QTPOSITIONING_QGEOSATELLITEINFO"%string.
Definition VALUE_TYPE_QTPOSITIONING_QGEOSHAPE := "KRY_QT6_NATIVE_VALUE_TYPE_QTPOSITIONING_QGEOSHAPE"%string.
Definition VALUE_TYPE_QTPRINTSUPPORT_QPRINTER := "KRY_QT6_NATIVE_VALUE_TYPE_QTPRINTSUPPORT_QPRINTER"%string.
Definition VALUE_TYPE_QTPRINTSUPPORT_QPRINTERINFO := "KRY_QT6_NATIVE_VALUE_TYPE_QTPRINTSUPPORT_QPRINTERINFO"%string.
Definition VALUE_TYPE_QTQML_QJSMANAGEDVALUE := "KRY_QT6_NATIVE_VALUE_TYPE_QTQML_QJSMANAGEDVALUE"%string.
Definition VALUE_TYPE_QTQML_QJSPRIMITIVEVALUE := "KRY_QT6_NATIVE_VALUE_TYPE_QTQML_QJSPRIMITIVEVALUE"%string.
Definition VALUE_TYPE_QTQML_QJSVALUE := "KRY_QT6_NATIVE_VALUE_TYPE_QTQML_QJSVALUE"%string.
Definition VALUE_TYPE_QTQML_QQMLERROR := "KRY_QT6_NATIVE_VALUE_TYPE_QTQML_QQMLERROR"%string.
Definition VALUE_TYPE_QTQML_QQMLINCUBATOR := "KRY_QT6_NATIVE_VALUE_TYPE_QTQML_QQMLINCUBATOR"%string.
Definition VALUE_TYPE_QTQML_QQMLLISTREFERENCE := "KRY_QT6_NATIVE_VALUE_TYPE_QTQML_QQMLLISTREFERENCE"%string.
Definition VALUE_TYPE_QTQML_QQMLPROPERTY := "KRY_QT6_NATIVE_VALUE_TYPE_QTQML_QQMLPROPERTY"%string.
Definition VALUE_TYPE_QTQML_QQMLSCRIPTSTRING := "KRY_QT6_NATIVE_VALUE_TYPE_QTQML_QQMLSCRIPTSTRING"%string.
Definition VALUE_TYPE_QTQUICK_QQUICKGRAPHICSCONFIGURATION := "KRY_QT6_NATIVE_VALUE_TYPE_QTQUICK_QQUICKGRAPHICSCONFIGURATION"%string.
Definition VALUE_TYPE_QTQUICK_QQUICKGRAPHICSDEVICE := "KRY_QT6_NATIVE_VALUE_TYPE_QTQUICK_QQUICKGRAPHICSDEVICE"%string.
Definition VALUE_TYPE_QTQUICK_QQUICKRENDERTARGET := "KRY_QT6_NATIVE_VALUE_TYPE_QTQUICK_QQUICKRENDERTARGET"%string.
Definition VALUE_TYPE_QTSERIALPORT_QSERIALPORTINFO := "KRY_QT6_NATIVE_VALUE_TYPE_QTSERIALPORT_QSERIALPORTINFO"%string.
Definition VALUE_TYPE_QTSQL_QSQLDATABASE := "KRY_QT6_NATIVE_VALUE_TYPE_QTSQL_QSQLDATABASE"%string.
Definition VALUE_TYPE_QTSQL_QSQLERROR := "KRY_QT6_NATIVE_VALUE_TYPE_QTSQL_QSQLERROR"%string.
Definition VALUE_TYPE_QTSQL_QSQLFIELD := "KRY_QT6_NATIVE_VALUE_TYPE_QTSQL_QSQLFIELD"%string.
Definition VALUE_TYPE_QTSQL_QSQLINDEX := "KRY_QT6_NATIVE_VALUE_TYPE_QTSQL_QSQLINDEX"%string.
Definition VALUE_TYPE_QTSQL_QSQLQUERY := "KRY_QT6_NATIVE_VALUE_TYPE_QTSQL_QSQLQUERY"%string.
Definition VALUE_TYPE_QTSQL_QSQLRECORD := "KRY_QT6_NATIVE_VALUE_TYPE_QTSQL_QSQLRECORD"%string.
Definition VALUE_TYPE_QTSQL_QSQLRELATION := "KRY_QT6_NATIVE_VALUE_TYPE_QTSQL_QSQLRELATION"%string.
Definition VALUE_TYPE_QTTEXTTOSPEECH_QVOICE := "KRY_QT6_NATIVE_VALUE_TYPE_QTTEXTTOSPEECH_QVOICE"%string.
Definition VALUE_TYPE_QTWEBENGINECORE_QWEBENGINECERTIFICATEERROR := "KRY_QT6_NATIVE_VALUE_TYPE_QTWEBENGINECORE_QWEBENGINECERTIFICATEERROR"%string.
Definition VALUE_TYPE_QTWEBENGINECORE_QWEBENGINECLIENTCERTIFICATESELECTION := "KRY_QT6_NATIVE_VALUE_TYPE_QTWEBENGINECORE_QWEBENGINECLIENTCERTIFICATESELECTION"%string.
Definition VALUE_TYPE_QTWEBENGINECORE_QWEBENGINEFINDTEXTRESULT := "KRY_QT6_NATIVE_VALUE_TYPE_QTWEBENGINECORE_QWEBENGINEFINDTEXTRESULT"%string.
Definition VALUE_TYPE_QTWEBENGINECORE_QWEBENGINEFULLSCREENREQUEST := "KRY_QT6_NATIVE_VALUE_TYPE_QTWEBENGINECORE_QWEBENGINEFULLSCREENREQUEST"%string.
Definition VALUE_TYPE_QTWEBENGINECORE_QWEBENGINEHISTORYITEM := "KRY_QT6_NATIVE_VALUE_TYPE_QTWEBENGINECORE_QWEBENGINEHISTORYITEM"%string.
Definition VALUE_TYPE_QTWEBENGINECORE_QWEBENGINEHTTPREQUEST := "KRY_QT6_NATIVE_VALUE_TYPE_QTWEBENGINECORE_QWEBENGINEHTTPREQUEST"%string.
Definition VALUE_TYPE_QTWEBENGINECORE_QWEBENGINELOADINGINFO := "KRY_QT6_NATIVE_VALUE_TYPE_QTWEBENGINECORE_QWEBENGINELOADINGINFO"%string.
Definition VALUE_TYPE_QTWEBENGINECORE_QWEBENGINESCRIPT := "KRY_QT6_NATIVE_VALUE_TYPE_QTWEBENGINECORE_QWEBENGINESCRIPT"%string.
Definition VALUE_TYPE_QTWEBENGINECORE_QWEBENGINESCRIPTCOLLECTION := "KRY_QT6_NATIVE_VALUE_TYPE_QTWEBENGINECORE_QWEBENGINESCRIPTCOLLECTION"%string.
Definition VALUE_TYPE_QTWEBENGINECORE_QWEBENGINEURLSCHEME := "KRY_QT6_NATIVE_VALUE_TYPE_QTWEBENGINECORE_QWEBENGINEURLSCHEME"%string.
Definition VALUE_TYPE_QTWEBSOCKETS_QWEBSOCKETCORSAUTHENTICATOR := "KRY_QT6_NATIVE_VALUE_TYPE_QTWEBSOCKETS_QWEBSOCKETCORSAUTHENTICATOR"%string.
Definition VALUE_TYPE_QTWEBSOCKETS_QWEBSOCKETHANDSHAKEOPTIONS := "KRY_QT6_NATIVE_VALUE_TYPE_QTWEBSOCKETS_QWEBSOCKETHANDSHAKEOPTIONS"%string.
Definition VALUE_TYPE_QTWIDGETS_QLISTWIDGETITEM := "KRY_QT6_NATIVE_VALUE_TYPE_QTWIDGETS_QLISTWIDGETITEM"%string.
Definition VALUE_TYPE_QTWIDGETS_QSCROLLERPROPERTIES := "KRY_QT6_NATIVE_VALUE_TYPE_QTWIDGETS_QSCROLLERPROPERTIES"%string.
Definition VALUE_TYPE_QTWIDGETS_QSIZEPOLICY := "KRY_QT6_NATIVE_VALUE_TYPE_QTWIDGETS_QSIZEPOLICY"%string.
Definition VALUE_TYPE_QTWIDGETS_QSTYLEOPTION := "KRY_QT6_NATIVE_VALUE_TYPE_QTWIDGETS_QSTYLEOPTION"%string.
Definition VALUE_TYPE_QTWIDGETS_QSTYLEOPTIONBUTTON := "KRY_QT6_NATIVE_VALUE_TYPE_QTWIDGETS_QSTYLEOPTIONBUTTON"%string.
Definition VALUE_TYPE_QTWIDGETS_QSTYLEOPTIONCOMBOBOX := "KRY_QT6_NATIVE_VALUE_TYPE_QTWIDGETS_QSTYLEOPTIONCOMBOBOX"%string.
Definition VALUE_TYPE_QTWIDGETS_QSTYLEOPTIONCOMPLEX := "KRY_QT6_NATIVE_VALUE_TYPE_QTWIDGETS_QSTYLEOPTIONCOMPLEX"%string.
Definition VALUE_TYPE_QTWIDGETS_QSTYLEOPTIONDOCKWIDGET := "KRY_QT6_NATIVE_VALUE_TYPE_QTWIDGETS_QSTYLEOPTIONDOCKWIDGET"%string.
Definition VALUE_TYPE_QTWIDGETS_QSTYLEOPTIONFOCUSRECT := "KRY_QT6_NATIVE_VALUE_TYPE_QTWIDGETS_QSTYLEOPTIONFOCUSRECT"%string.
Definition VALUE_TYPE_QTWIDGETS_QSTYLEOPTIONFRAME := "KRY_QT6_NATIVE_VALUE_TYPE_QTWIDGETS_QSTYLEOPTIONFRAME"%string.
Definition VALUE_TYPE_QTWIDGETS_QSTYLEOPTIONGRAPHICSITEM := "KRY_QT6_NATIVE_VALUE_TYPE_QTWIDGETS_QSTYLEOPTIONGRAPHICSITEM"%string.
Definition VALUE_TYPE_QTWIDGETS_QSTYLEOPTIONGROUPBOX := "KRY_QT6_NATIVE_VALUE_TYPE_QTWIDGETS_QSTYLEOPTIONGROUPBOX"%string.
Definition VALUE_TYPE_QTWIDGETS_QSTYLEOPTIONHEADER := "KRY_QT6_NATIVE_VALUE_TYPE_QTWIDGETS_QSTYLEOPTIONHEADER"%string.
Definition VALUE_TYPE_QTWIDGETS_QSTYLEOPTIONHEADERV2 := "KRY_QT6_NATIVE_VALUE_TYPE_QTWIDGETS_QSTYLEOPTIONHEADERV2"%string.
Definition VALUE_TYPE_QTWIDGETS_QSTYLEOPTIONMENUITEM := "KRY_QT6_NATIVE_VALUE_TYPE_QTWIDGETS_QSTYLEOPTIONMENUITEM"%string.
Definition VALUE_TYPE_QTWIDGETS_QSTYLEOPTIONMENUITEMV2 := "KRY_QT6_NATIVE_VALUE_TYPE_QTWIDGETS_QSTYLEOPTIONMENUITEMV2"%string.
Definition VALUE_TYPE_QTWIDGETS_QSTYLEOPTIONPROGRESSBAR := "KRY_QT6_NATIVE_VALUE_TYPE_QTWIDGETS_QSTYLEOPTIONPROGRESSBAR"%string.
Definition VALUE_TYPE_QTWIDGETS_QSTYLEOPTIONRUBBERBAND := "KRY_QT6_NATIVE_VALUE_TYPE_QTWIDGETS_QSTYLEOPTIONRUBBERBAND"%string.
Definition VALUE_TYPE_QTWIDGETS_QSTYLEOPTIONSIZEGRIP := "KRY_QT6_NATIVE_VALUE_TYPE_QTWIDGETS_QSTYLEOPTIONSIZEGRIP"%string.
Definition VALUE_TYPE_QTWIDGETS_QSTYLEOPTIONSLIDER := "KRY_QT6_NATIVE_VALUE_TYPE_QTWIDGETS_QSTYLEOPTIONSLIDER"%string.
Definition VALUE_TYPE_QTWIDGETS_QSTYLEOPTIONSPINBOX := "KRY_QT6_NATIVE_VALUE_TYPE_QTWIDGETS_QSTYLEOPTIONSPINBOX"%string.
Definition VALUE_TYPE_QTWIDGETS_QSTYLEOPTIONTAB := "KRY_QT6_NATIVE_VALUE_TYPE_QTWIDGETS_QSTYLEOPTIONTAB"%string.
Definition VALUE_TYPE_QTWIDGETS_QSTYLEOPTIONTABBARBASE := "KRY_QT6_NATIVE_VALUE_TYPE_QTWIDGETS_QSTYLEOPTIONTABBARBASE"%string.
Definition VALUE_TYPE_QTWIDGETS_QSTYLEOPTIONTABWIDGETFRAME := "KRY_QT6_NATIVE_VALUE_TYPE_QTWIDGETS_QSTYLEOPTIONTABWIDGETFRAME"%string.
Definition VALUE_TYPE_QTWIDGETS_QSTYLEOPTIONTITLEBAR := "KRY_QT6_NATIVE_VALUE_TYPE_QTWIDGETS_QSTYLEOPTIONTITLEBAR"%string.
Definition VALUE_TYPE_QTWIDGETS_QSTYLEOPTIONTOOLBAR := "KRY_QT6_NATIVE_VALUE_TYPE_QTWIDGETS_QSTYLEOPTIONTOOLBAR"%string.
Definition VALUE_TYPE_QTWIDGETS_QSTYLEOPTIONTOOLBOX := "KRY_QT6_NATIVE_VALUE_TYPE_QTWIDGETS_QSTYLEOPTIONTOOLBOX"%string.
Definition VALUE_TYPE_QTWIDGETS_QSTYLEOPTIONTOOLBUTTON := "KRY_QT6_NATIVE_VALUE_TYPE_QTWIDGETS_QSTYLEOPTIONTOOLBUTTON"%string.
Definition VALUE_TYPE_QTWIDGETS_QSTYLEOPTIONVIEWITEM := "KRY_QT6_NATIVE_VALUE_TYPE_QTWIDGETS_QSTYLEOPTIONVIEWITEM"%string.
Definition VALUE_TYPE_QTWIDGETS_QTABLEWIDGETITEM := "KRY_QT6_NATIVE_VALUE_TYPE_QTWIDGETS_QTABLEWIDGETITEM"%string.
Definition VALUE_TYPE_QTWIDGETS_QTABLEWIDGETSELECTIONRANGE := "KRY_QT6_NATIVE_VALUE_TYPE_QTWIDGETS_QTABLEWIDGETSELECTIONRANGE"%string.
Definition VALUE_TYPE_QTWIDGETS_QTREEWIDGETITEM := "KRY_QT6_NATIVE_VALUE_TYPE_QTWIDGETS_QTREEWIDGETITEM"%string.
Definition VALUE_TYPE_QTWIDGETS_QTREEWIDGETITEMITERATOR := "KRY_QT6_NATIVE_VALUE_TYPE_QTWIDGETS_QTREEWIDGETITEMITERATOR"%string.
Definition VALUE_TYPE_QTXML_QDOMATTR := "KRY_QT6_NATIVE_VALUE_TYPE_QTXML_QDOMATTR"%string.
Definition VALUE_TYPE_QTXML_QDOMCDATASECTION := "KRY_QT6_NATIVE_VALUE_TYPE_QTXML_QDOMCDATASECTION"%string.
Definition VALUE_TYPE_QTXML_QDOMCHARACTERDATA := "KRY_QT6_NATIVE_VALUE_TYPE_QTXML_QDOMCHARACTERDATA"%string.
Definition VALUE_TYPE_QTXML_QDOMCOMMENT := "KRY_QT6_NATIVE_VALUE_TYPE_QTXML_QDOMCOMMENT"%string.
Definition VALUE_TYPE_QTXML_QDOMDOCUMENT := "KRY_QT6_NATIVE_VALUE_TYPE_QTXML_QDOMDOCUMENT"%string.
Definition VALUE_TYPE_QTXML_QDOMDOCUMENTFRAGMENT := "KRY_QT6_NATIVE_VALUE_TYPE_QTXML_QDOMDOCUMENTFRAGMENT"%string.
Definition VALUE_TYPE_QTXML_QDOMDOCUMENTTYPE := "KRY_QT6_NATIVE_VALUE_TYPE_QTXML_QDOMDOCUMENTTYPE"%string.
Definition VALUE_TYPE_QTXML_QDOMELEMENT := "KRY_QT6_NATIVE_VALUE_TYPE_QTXML_QDOMELEMENT"%string.
Definition VALUE_TYPE_QTXML_QDOMENTITY := "KRY_QT6_NATIVE_VALUE_TYPE_QTXML_QDOMENTITY"%string.
Definition VALUE_TYPE_QTXML_QDOMENTITYREFERENCE := "KRY_QT6_NATIVE_VALUE_TYPE_QTXML_QDOMENTITYREFERENCE"%string.
Definition VALUE_TYPE_QTXML_QDOMIMPLEMENTATION := "KRY_QT6_NATIVE_VALUE_TYPE_QTXML_QDOMIMPLEMENTATION"%string.
Definition VALUE_TYPE_QTXML_QDOMNAMEDNODEMAP := "KRY_QT6_NATIVE_VALUE_TYPE_QTXML_QDOMNAMEDNODEMAP"%string.
Definition VALUE_TYPE_QTXML_QDOMNODE := "KRY_QT6_NATIVE_VALUE_TYPE_QTXML_QDOMNODE"%string.
Definition VALUE_TYPE_QTXML_QDOMNODELIST := "KRY_QT6_NATIVE_VALUE_TYPE_QTXML_QDOMNODELIST"%string.
Definition VALUE_TYPE_QTXML_QDOMNOTATION := "KRY_QT6_NATIVE_VALUE_TYPE_QTXML_QDOMNOTATION"%string.
Definition VALUE_TYPE_QTXML_QDOMPROCESSINGINSTRUCTION := "KRY_QT6_NATIVE_VALUE_TYPE_QTXML_QDOMPROCESSINGINSTRUCTION"%string.
Definition VALUE_TYPE_QTXML_QDOMTEXT := "KRY_QT6_NATIVE_VALUE_TYPE_QTXML_QDOMTEXT"%string.
Definition cxx_bool := "bool"%string.
Definition cxx_double := "double"%string.
Definition cxx_float := "float"%string.
Definition cxx_int := "int"%string.
Definition cxx_qint64 := "qint64"%string.
Definition cxx_qreal := "qreal"%string.
Definition cxx_qsizetype := "qsizetype"%string.
Definition cxx_quint64 := "quint64"%string.
Definition cxx_unsigned_int := "unsigned int"%string.
