(* ===== verification/MethodsOther.v ===== *)
(** Rows of the shards of generated_methods: qaxcontainer_0, qtdesigner_0, qthelp_0,
    qtmultimedia_0, qtmultimediawidgets_0, qtopengl_0, qtopenglwidgets_0, qtpdf_0,
    qtpdfwidgets_0, qtprintsupport_0, qtqml_0, qtquick3d_0, qtquick_0, qtquickwidgets_0,
    qtspatialaudio_0, qtsql_0, qtstatemachine_0, qtsvg_0, qtsvgwidgets_0, qttest_0,
    qttexttospeech_0, qtxml_0. *)
From S2P Require Import Names.

(** * Definitions *)

Definition methods_qaxcontainer_0_i0 : list include :=
  [
    ClassInclude QtAxContainer QAxObject QAxObject;
    ClassInclude QtAxContainer QAxWidget QAxWidget;
    TypeInclude QtCore QSize VALUE_TYPE_QTCORE_QSIZE
  ].

Definition methods_qaxcontainer_0_s0 : list signature_row :=
  [
    Sig [] "clear" [] RVoid [On QAxObject; On QAxWidget];
    Sig [] "control" [] RString [On QAxObject; On QAxWidget];
    Sig [] "doVerb" [PString true] RBool [On QAxObject; On QAxWidget];
    Sig [VALUE_TYPE_QTCORE_QSIZE] "minimumSizeHint" [] (RValue QSize) [On QAxWidget];
    Sig [] "resetControl" [] RVoid [On QAxObject; On QAxWidget];
    Sig [] "setControl" [PString true] RBool [On QAxObject; On QAxWidget];
    Sig [VALUE_TYPE_QTCORE_QSIZE] "sizeHint" [] (RValue QSize) [On QAxWidget]
  ].

Definition methods_qaxcontainer_0 : method_shard :=
  MethodShard QAxContainer "KRY_QT6_NATIVE_METHODS_QAXCONTAINER_"
    (methods_qaxcontainer_0_i0)
    (methods_qaxcontainer_0_s0)
    [].

Definition methods_qtdesigner_0_i0 : list include :=
  [
    ClassInclude QtDesigner QDesignerActionEditorInterface QDesignerActionEditorInterface;
    ClassInclude QtDesigner QDesignerFormEditorInterface QDesignerFormEditorInterface;
    ClassInclude QtDesigner QDesignerFormWindowInterface QDesignerFormWindowInterface;
    ClassInclude QtDesigner QDesignerObjectInspectorInterface QDesignerObjectInspectorInterface;
    ClassInclude QtDesigner QDesignerPropertyEditorInterface QDesignerPropertyEditorInterface;
    ClassInclude QtDesigner QExtensionFactory QExtensionFactory;
    ClassInclude QtDesigner QExtensionManager QExtensionManager;
    TypeInclude QtCore QObject TYPE_QTCORE_QOBJECT;
    TypeInclude QtDesigner QDesignerActionEditorInterface TYPE_QTDESIGNER_QDESIGNERACTIONEDITORINTERFACE;
    TypeInclude QtDesigner QDesignerFormEditorInterface TYPE_QTDESIGNER_QDESIGNERFORMEDITORINTERFACE;
    TypeInclude QtDesigner QDesignerFormWindowInterface TYPE_QTDESIGNER_QDESIGNERFORMWINDOWINTERFACE;
    TypeInclude QtDesigner QDesignerFormWindowManagerInterface
        TYPE_QTDESIGNER_QDESIGNERFORMWINDOWMANAGERINTERFACE;
    TypeInclude QtDesigner QDesignerObjectInspectorInterface
        TYPE_QTDESIGNER_QDESIGNEROBJECTINSPECTORINTERFACE;
    TypeInclude QtDesigner QDesignerPropertyEditorInterface
        TYPE_QTDESIGNER_QDESIGNERPROPERTYEDITORINTERFACE;
    TypeInclude QtDesigner QDesignerWidgetBoxInterface TYPE_QTDESIGNER_QDESIGNERWIDGETBOXINTERFACE;
    TypeInclude QtDesigner QExtensionManager TYPE_QTDESIGNER_QEXTENSIONMANAGER;
    TypeInclude QtWidgets QWidget TYPE_QTWIDGETS_QWIDGET
  ].

Definition methods_qtdesigner_0_s0 : list signature_row :=
  [
    Sig [TYPE_QTDESIGNER_QDESIGNERACTIONEDITORINTERFACE] "actionEditor" [] RObject [On
        QDesignerFormEditorInterface];
    Sig [] "activeResourceFilePaths" [] (RList (IMeta QString)) [On QDesignerFormWindowInterface];
    Sig [TYPE_QTDESIGNER_QDESIGNERFORMEDITORINTERFACE] "core" [] RObject [On
        QDesignerActionEditorInterface; On QDesignerFormWindowInterface; On
        QDesignerObjectInspectorInterface; On QDesignerPropertyEditorInterface];
    Sig [TYPE_QTCORE_QOBJECT] "extension" [PObject QObject false; PString true] RObject [On
        QExtensionFactory; On QExtensionManager];
    Sig [TYPE_QTDESIGNER_QEXTENSIONMANAGER] "extensionManager" [] RObject [On QDesignerFormEditorInterface;
        On QExtensionFactory];
    Sig [TYPE_QTCORE_QOBJECT; TYPE_QTDESIGNER_QDESIGNERFORMWINDOWINTERFACE] "findFormWindow" [PObject
        QObject false] RObject [Static QDesignerFormWindowInterface];
    Sig [TYPE_QTDESIGNER_QDESIGNERFORMWINDOWINTERFACE; TYPE_QTWIDGETS_QWIDGET] "findFormWindow" [PObject
        QWidget false] RObject [Static QDesignerFormWindowInterface];
    Sig [TYPE_QTDESIGNER_QDESIGNERFORMWINDOWMANAGERINTERFACE] "formWindowManager" [] RObject [On
        QDesignerFormEditorInterface];
    Sig [TYPE_QTDESIGNER_QDESIGNEROBJECTINSPECTORINTERFACE] "objectInspector" [] RObject [On
        QDesignerFormEditorInterface]
  ].

Definition methods_qtdesigner_0_s9 : list signature_row :=
  [
    Sig [TYPE_QTDESIGNER_QDESIGNERPROPERTYEDITORINTERFACE] "propertyEditor" [] RObject [On
        QDesignerFormEditorInterface];
    Sig [TYPE_QTDESIGNER_QDESIGNERACTIONEDITORINTERFACE] "setActionEditor" [PObject
        QDesignerActionEditorInterface false] RVoid [On QDesignerFormEditorInterface];
    Sig [TYPE_QTDESIGNER_QDESIGNEROBJECTINSPECTORINTERFACE] "setObjectInspector" [PObject
        QDesignerObjectInspectorInterface false] RVoid [On QDesignerFormEditorInterface];
    Sig [TYPE_QTDESIGNER_QDESIGNERPROPERTYEDITORINTERFACE] "setPropertyEditor" [PObject
        QDesignerPropertyEditorInterface false] RVoid [On QDesignerFormEditorInterface];
    Sig [TYPE_QTDESIGNER_QDESIGNERWIDGETBOXINTERFACE] "setWidgetBox" [PObject QDesignerWidgetBoxInterface
        false] RVoid [On QDesignerFormEditorInterface];
    Sig [TYPE_QTWIDGETS_QWIDGET] "topLevel" [] RObject [On QDesignerFormEditorInterface];
    Sig [TYPE_QTDESIGNER_QDESIGNERWIDGETBOXINTERFACE] "widgetBox" [] RObject [On
        QDesignerFormEditorInterface]
  ].

Definition methods_qtdesigner_0 : method_shard :=
  MethodShard QtDesigner "KRY_QT6_NATIVE_METHODS_QTDESIGNER_"
    (methods_qtdesigner_0_i0)
    (methods_qtdesigner_0_s0 ++ methods_qtdesigner_0_s9)
    [].

Definition methods_qthelp_0_i0 : list include :=
  [
    ClassInclude QtHelp QCompressedHelpInfo QCompressedHelpInfo;
    ClassInclude QtHelp QHelpContentModel QHelpContentModel;
    ClassInclude QtHelp QHelpContentWidget QHelpContentWidget;
    ClassInclude QtHelp QHelpEngine QHelpEngine;
    ClassInclude QtHelp QHelpEngineCore QHelpEngineCore;
    ClassInclude QtHelp QHelpFilterEngine QHelpFilterEngine;
    ClassInclude QtHelp QHelpFilterSettingsWidget QHelpFilterSettingsWidget;
    ClassInclude QtHelp QHelpIndexModel QHelpIndexModel;
    ClassInclude QtHelp QHelpIndexWidget QHelpIndexWidget;
    ClassInclude QtHelp QHelpSearchEngine QHelpSearchEngine;
    ClassInclude QtHelp QHelpSearchEngineCore QHelpSearchEngineCore;
    ClassInclude QtHelp QHelpSearchQueryWidget QHelpSearchQueryWidget;
    ClassInclude QtHelp QHelpSearchResultWidget QHelpSearchResultWidget;
    TypeInclude QtHelp QHelpContentModel TYPE_QTHELP_QHELPCONTENTMODEL;
    TypeInclude QtHelp QHelpContentWidget TYPE_QTHELP_QHELPCONTENTWIDGET;
    TypeInclude QtHelp QHelpEngineCore TYPE_QTHELP_QHELPENGINECORE;
    TypeInclude QtHelp QHelpFilterEngine TYPE_QTHELP_QHELPFILTERENGINE;
    TypeInclude QtHelp QHelpIndexModel TYPE_QTHELP_QHELPINDEXMODEL;
    TypeInclude QtHelp QHelpIndexWidget TYPE_QTHELP_QHELPINDEXWIDGET;
    TypeInclude QtHelp QHelpSearchEngine TYPE_QTHELP_QHELPSEARCHENGINE;
    TypeInclude QtHelp QHelpSearchQueryWidget TYPE_QTHELP_QHELPSEARCHQUERYWIDGET;
    TypeInclude QtHelp QHelpSearchResultWidget TYPE_QTHELP_QHELPSEARCHRESULTWIDGET;
    TypeInclude QtCore QByteArray VALUE_TYPE_QTCORE_QBYTEARRAY;
    TypeInclude QtCore QModelIndex VALUE_TYPE_QTCORE_QMODELINDEX;
    TypeInclude QtCore QPoint VALUE_TYPE_QTCORE_QPOINT;
    TypeInclude QtCore QUrl VALUE_TYPE_QTCORE_QURL;
    TypeInclude QtCore QVersionNumber VALUE_TYPE_QTCORE_QVERSIONNUMBER;
    TypeInclude QtHelp QCompressedHelpInfo VALUE_TYPE_QTHELP_QCOMPRESSEDHELPINFO;
    TypeInclude QtHelp QHelpFilterData VALUE_TYPE_QTHELP_QHELPFILTERDATA;
    TypeInclude QtHelp QHelpSearchResult VALUE_TYPE_QTHELP_QHELPSEARCHRESULT
  ].

Definition methods_qthelp_0_s0 : list signature_row :=
  [
    Sig [] "activateCurrentItem" [] RVoid [On QHelpIndexWidget];
    Sig [] "activeFilter" [] RString [On QHelpFilterEngine];
    Sig [TYPE_QTHELP_QHELPFILTERENGINE] "applySettings" [PObject QHelpFilterEngine false] RBool [On
        QHelpFilterSettingsWidget];
    Sig [] "autoSaveFilter" [] RBool [On QHelpEngineCore];
    Sig [] "availableComponents" [] (RList (IMeta QString)) [On QHelpFilterEngine];
    Sig [VALUE_TYPE_QTCORE_QVERSIONNUMBER] "availableVersions" [] (RList (IValue QVersionNumber)) [On
        QHelpFilterEngine];
    Sig [] "cancelIndexing" [] RVoid [On QHelpSearchEngine; On QHelpSearchEngineCore];
    Sig [] "cancelSearching" [] RVoid [On QHelpSearchEngine; On QHelpSearchEngineCore];
    Sig [] "collapseExtendedSearch" [] RVoid [On QHelpSearchQueryWidget];
    Sig [] "collectionFile" [] RString [On QHelpEngineCore]
  ].

Definition methods_qthelp_0_s10 : list signature_row :=
  [
    Sig [VALUE_TYPE_QTCORE_QMODELINDEX] "columnCount" [PValue QModelIndex] RDouble [On QHelpContentModel];
    Sig [TYPE_QTHELP_QHELPCONTENTMODEL] "contentModel" [] RObject [On QHelpEngine];
    Sig [TYPE_QTHELP_QHELPCONTENTWIDGET] "contentWidget" [] RObject [On QHelpEngine];
    Sig [] "copyCollectionFile" [PString true] RBool [On QHelpEngineCore];
    Sig [] "createContents" [PString true] RVoid [On QHelpContentModel];
    Sig [] "createContentsForCurrentFilter" [] RVoid [On QHelpContentModel];
    Sig [] "createIndex" [PString true] RVoid [On QHelpIndexModel];
    Sig [] "createIndexForCurrentFilter" [] RVoid [On QHelpIndexModel];
    Sig [] "customValue" [PString true; PVariant] RVariant [On QHelpEngineCore];
    Sig [VALUE_TYPE_QTCORE_QMODELINDEX] "data" [PValue QModelIndex; PInt] RVariant [On QHelpContentModel];
    Sig [] "documentationFileName" [PString true] RString [On QHelpEngineCore]
  ].

Definition methods_qthelp_0_s21 : list signature_row :=
  [
    Sig [] "error" [] RString [On QHelpEngineCore];
    Sig [] "expandExtendedSearch" [] RVoid [On QHelpSearchQueryWidget];
    Sig [VALUE_TYPE_QTCORE_QBYTEARRAY; VALUE_TYPE_QTCORE_QURL] "fileData" [PValue QUrl] (RValue QByteArray)
        [On QHelpEngineCore];
    Sig [VALUE_TYPE_QTCORE_QURL] "files" [PString true; PString true; PString true] (RList (IValue QUrl))
        [On QHelpEngineCore];
    Sig [VALUE_TYPE_QTCORE_QMODELINDEX] "filter" [PString true; PString true] (RValue QModelIndex) [On
        QHelpIndexModel];
    Sig [VALUE_TYPE_QTHELP_QHELPFILTERDATA] "filterData" [PString true] (RValue QHelpFilterData) [On
        QHelpFilterEngine];
    Sig [TYPE_QTHELP_QHELPFILTERENGINE] "filterEngine" [] RObject [On QHelpEngineCore];
    Sig [] "filterIndices" [PString true; PString true] RVoid [On QHelpIndexWidget];
    Sig [] "filters" [] (RList (IMeta QString)) [On QHelpFilterEngine]
  ].

Definition methods_qthelp_0_s30 : list signature_row :=
  [
    Sig [VALUE_TYPE_QTCORE_QURL] "findFile" [PValue QUrl] (RValue QUrl) [On QHelpEngineCore];
    Sig [VALUE_TYPE_QTHELP_QCOMPRESSEDHELPINFO] "fromCompressedHelpFile" [PString true] (RValue
        QCompressedHelpInfo) [Static QCompressedHelpInfo];
    Sig [TYPE_QTHELP_QHELPENGINECORE] "helpEngine" [] RObject [On QHelpIndexModel];
    Sig [VALUE_TYPE_QTCORE_QMODELINDEX] "index" [PInt; PInt; PValue QModelIndex] (RValue QModelIndex) [On
        QHelpContentModel];
    Sig [TYPE_QTHELP_QHELPINDEXMODEL] "indexModel" [] RObject [On QHelpEngine];
    Sig [VALUE_TYPE_QTCORE_QMODELINDEX; VALUE_TYPE_QTCORE_QURL] "indexOf" [PValue QUrl] (RValue
        QModelIndex) [On QHelpContentWidget];
    Sig [TYPE_QTHELP_QHELPINDEXWIDGET] "indexWidget" [] RObject [On QHelpEngine];
    Sig [] "indices" [] (RList (IMeta QString)) [On QHelpFilterEngine];
    Sig [] "indices" [PString true] (RList (IMeta QString)) [On QHelpFilterEngine];
    Sig [] "isCompactMode" [] RBool [On QHelpSearchQueryWidget]
  ].

Definition methods_qthelp_0_s40 : list signature_row :=
  [
    Sig [] "isCreatingContents" [] RBool [On QHelpContentModel];
    Sig [] "isCreatingIndex" [] RBool [On QHelpIndexModel];
    Sig [] "isReadOnly" [] RBool [On QHelpEngineCore];
    Sig [VALUE_TYPE_QTCORE_QPOINT; VALUE_TYPE_QTCORE_QURL] "linkAt" [PValue QPoint] (RValue QUrl) [On
        QHelpSearchResultWidget];
    Sig [] "metaData" [PString true; PString true] RVariant [Static QHelpEngineCore];
    Sig [] "namespaceName" [PString true] RString [Static QHelpEngineCore];
    Sig [] "namespaceToComponent" [] (RMap QMap_QString_QString (IMeta QString)) [On QHelpFilterEngine];
    Sig [] "namespacesForFilter" [PString true] (RList (IMeta QString)) [On QHelpFilterEngine];
    Sig [VALUE_TYPE_QTCORE_QMODELINDEX] "parent" [PValue QModelIndex] (RValue QModelIndex) [On
        QHelpContentModel];
    Sig [TYPE_QTHELP_QHELPSEARCHQUERYWIDGET] "queryWidget" [] RObject [On QHelpSearchEngine]
  ].

Definition methods_qthelp_0_s50 : list signature_row :=
  [
    Sig [TYPE_QTHELP_QHELPFILTERENGINE] "readSettings" [PObject QHelpFilterEngine false] RVoid [On
        QHelpFilterSettingsWidget];
    Sig [] "registerDocumentation" [PString true] RBool [On QHelpEngineCore];
    Sig [] "registeredDocumentations" [] (RList (IMeta QString)) [On QHelpEngineCore];
    Sig [] "reindexDocumentation" [] RVoid [On QHelpSearchEngine; On QHelpSearchEngineCore];
    Sig [] "removeCustomValue" [PString true] RBool [On QHelpEngineCore];
    Sig [] "removeFilter" [PString true] RBool [On QHelpFilterEngine];
    Sig [TYPE_QTHELP_QHELPSEARCHRESULTWIDGET] "resultWidget" [] RObject [On QHelpSearchEngine];
    Sig [VALUE_TYPE_QTCORE_QMODELINDEX] "rowCount" [PValue QModelIndex] RDouble [On QHelpContentModel];
    Sig [] "search" [PString true] RVoid [On QHelpSearchEngine; On QHelpSearchEngineCore];
    Sig [TYPE_QTHELP_QHELPSEARCHENGINE] "searchEngine" [] RObject [On QHelpEngine]
  ].

Definition methods_qthelp_0_s60 : list signature_row :=
  [
    Sig [] "searchInput" [] RString [On QHelpSearchEngine; On QHelpSearchEngineCore; On
        QHelpSearchQueryWidget];
    Sig [] "searchResultCount" [] RDouble [On QHelpSearchEngine; On QHelpSearchEngineCore];
    Sig [VALUE_TYPE_QTHELP_QHELPSEARCHRESULT] "searchResults" [PInt; PInt] (RList (IValue
        QHelpSearchResult)) [On QHelpSearchEngine; On QHelpSearchEngineCore];
    Sig [] "setActiveFilter" [PString true] RBool [On QHelpFilterEngine];
    Sig [] "setAutoSaveFilter" [PBool] RVoid [On QHelpEngineCore];
    Sig [] "setAvailableComponents" [PStringList] RVoid [On QHelpFilterSettingsWidget];
    Sig [VALUE_TYPE_QTCORE_QVERSIONNUMBER] "setAvailableVersions" [PList (IValue QVersionNumber)] RVoid [On
        QHelpFilterSettingsWidget];
    Sig [] "setCollectionFile" [PString true] RVoid [On QHelpEngineCore]
  ].

Definition methods_qthelp_0_s68 : list signature_row :=
  [
    Sig [] "setCompactMode" [PBool] RVoid [On QHelpSearchQueryWidget];
    Sig [] "setCustomValue" [PString true; PVariant] RBool [On QHelpEngineCore];
    Sig [VALUE_TYPE_QTHELP_QHELPFILTERDATA] "setFilterData" [PString true; PValue QHelpFilterData] RBool
        [On QHelpFilterEngine];
    Sig [] "setReadOnly" [PBool] RVoid [On QHelpEngineCore];
    Sig [] "setSearchInput" [PString true] RVoid [On QHelpSearchQueryWidget];
    Sig [] "setUsesFilterEngine" [PBool] RVoid [On QHelpEngineCore];
    Sig [] "setupData" [] RBool [On QHelpEngineCore];
    Sig [] "unregisterDocumentation" [PString true] RBool [On QHelpEngineCore];
    Sig [] "usesFilterEngine" [] RBool [On QHelpEngineCore]
  ].

Definition methods_qthelp_0 : method_shard :=
  MethodShard QtHelp "KRY_QT6_NATIVE_METHODS_QTHELP_"
    (methods_qthelp_0_i0)
    (methods_qthelp_0_s0 ++ methods_qthelp_0_s10 ++ methods_qthelp_0_s21 ++ methods_qthelp_0_s30 ++
        methods_qthelp_0_s40 ++ methods_qthelp_0_s50 ++ methods_qthelp_0_s60 ++ methods_qthelp_0_s68)
    [].

Definition methods_qtmultimedia_0_i0 : list include :=
  [
    ClassInclude QtMultimedia QAudioBufferInput QAudioBufferInput;
    ClassInclude QtMultimedia QAudioBufferOutput QAudioBufferOutput;
    ClassInclude QtMultimedia QAudioDecoder QAudioDecoder;
    ClassInclude QtMultimedia QAudioFormat QAudioFormat;
    ClassInclude QtMultimedia QAudioInput QAudioInput;
    ClassInclude QtMultimedia QAudioOutput QAudioOutput;
    ClassInclude QtMultimedia QAudioSink QAudioSink;
    ClassInclude QtMultimedia QAudioSource QAudioSource;
    ClassInclude QtMultimedia QCamera QCamera;
    ClassInclude QtMultimedia QImageCapture QImageCapture;
    ClassInclude QtMultimedia QMediaCaptureSession QMediaCaptureSession;
    ClassInclude QtMultimedia QMediaDevices QMediaDevices;
    ClassInclude QtMultimedia QMediaFormat QMediaFormat;
    ClassInclude QtMultimedia QMediaMetaData QMediaMetaData;
    ClassInclude QtMultimedia QMediaPlayer QMediaPlayer;
    ClassInclude QtMultimedia QMediaRecorder QMediaRecorder;
    ClassInclude QtMultimedia QScreenCapture QScreenCapture;
    ClassInclude QtMultimedia QSoundEffect QSoundEffect;
    ClassInclude QtMultimedia QVideoFrameFormat QVideoFrameFormat;
    ClassInclude QtMultimedia QVideoFrameInput QVideoFrameInput;
    ClassInclude QtMultimedia QVideoSink QVideoSink;
    ClassInclude QtMultimedia QWindowCapture QWindowCapture;
    TypeInclude QtCore QIODevice TYPE_QTCORE_QIODEVICE;
    TypeInclude QtCore QObject TYPE_QTCORE_QOBJECT;
    TypeInclude QtGui QScreen TYPE_QTGUI_QSCREEN;
    TypeInclude QtMultimedia QAudioBufferInput TYPE_QTMULTIMEDIA_QAUDIOBUFFERINPUT;
    TypeInclude QtMultimedia QAudioBufferOutput TYPE_QTMULTIMEDIA_QAUDIOBUFFEROUTPUT;
    TypeInclude QtMultimedia QAudioInput TYPE_QTMULTIMEDIA_QAUDIOINPUT;
    TypeInclude QtMultimedia QAudioOutput TYPE_QTMULTIMEDIA_QAUDIOOUTPUT;
    TypeInclude QtMultimedia QCamera TYPE_QTMULTIMEDIA_QCAMERA;
    TypeInclude QtMultimedia QImageCapture TYPE_QTMULTIMEDIA_QIMAGECAPTURE;
    TypeInclude QtMultimedia QMediaCaptureSession TYPE_QTMULTIMEDIA_QMEDIACAPTURESESSION;
    TypeInclude QtMultimedia QMediaRecorder TYPE_QTMULTIMEDIA_QMEDIARECORDER;
    TypeInclude QtMultimedia QScreenCapture TYPE_QTMULTIMEDIA_QSCREENCAPTURE;
    TypeInclude QtMultimedia QVideoFrameInput TYPE_QTMULTIMEDIA_QVIDEOFRAMEINPUT;
    TypeInclude QtMultimedia QVideoSink TYPE_QTMULTIMEDIA_QVIDEOSINK;
    TypeInclude QtMultimedia QWindowCapture TYPE_QTMULTIMEDIA_QWINDOWCAPTURE;
    TypeInclude QtGui QImage TYPE_QTGUI_QIMAGE;
    TypeInclude QtMultimedia QAudioDecoder TYPE_QTMULTIMEDIA_QAUDIODECODER;
    TypeInclude QtMultimedia QAudioFormat TYPE_QTMULTIMEDIA_QAUDIOFORMAT;
    TypeInclude QtMultimedia QCamera TYPE_QTMULTIMEDIA_QCAMERA;
    TypeInclude QtMultimedia QImageCapture TYPE_QTMULTIMEDIA_QIMAGECAPTURE;
    TypeInclude QtMultimedia QMediaFormat TYPE_QTMULTIMEDIA_QMEDIAFORMAT;
    TypeInclude QtMultimedia QMediaMetaData TYPE_QTMULTIMEDIA_QMEDIAMETADATA;
    TypeInclude QtMultimedia QMediaPlayer TYPE_QTMULTIMEDIA_QMEDIAPLAYER;
    TypeInclude QtMultimedia QMediaRecorder TYPE_QTMULTIMEDIA_QMEDIARECORDER;
    TypeInclude QtMultimedia QScreenCapture TYPE_QTMULTIMEDIA_QSCREENCAPTURE;
    TypeInclude QtMultimedia QSoundEffect TYPE_QTMULTIMEDIA_QSOUNDEFFECT;
    TypeInclude QtMultimedia QVideoFrameFormat TYPE_QTMULTIMEDIA_QVIDEOFRAMEFORMAT;
    TypeInclude QtMultimedia QWindowCapture TYPE_QTMULTIMEDIA_QWINDOWCAPTURE;
    TypeInclude QtCore QPointF VALUE_TYPE_QTCORE_QPOINTF;
    TypeInclude QtCore QSize VALUE_TYPE_QTCORE_QSIZE
  ].

Definition methods_qtmultimedia_0_i1 : list include :=
  [
    TypeInclude QtCore QUrl VALUE_TYPE_QTCORE_QURL;
    TypeInclude QtMultimedia QAudioBuffer VALUE_TYPE_QTMULTIMEDIA_QAUDIOBUFFER;
    TypeInclude QtMultimedia QAudioDevice VALUE_TYPE_QTMULTIMEDIA_QAUDIODEVICE;
    TypeInclude QtMultimedia QAudioFormat VALUE_TYPE_QTMULTIMEDIA_QAUDIOFORMAT;
    TypeInclude QtMultimedia QCameraDevice VALUE_TYPE_QTMULTIMEDIA_QCAMERADEVICE;
    TypeInclude QtMultimedia QCameraFormat VALUE_TYPE_QTMULTIMEDIA_QCAMERAFORMAT;
    TypeInclude QtMultimedia QCapturableWindow VALUE_TYPE_QTMULTIMEDIA_QCAPTURABLEWINDOW;
    TypeInclude QtMultimedia QMediaFormat VALUE_TYPE_QTMULTIMEDIA_QMEDIAFORMAT;
    TypeInclude QtMultimedia QMediaMetaData VALUE_TYPE_QTMULTIMEDIA_QMEDIAMETADATA;
    TypeInclude QtMultimedia QMediaTimeRange VALUE_TYPE_QTMULTIMEDIA_QMEDIATIMERANGE;
    TypeInclude QtMultimedia QPlaybackOptions VALUE_TYPE_QTMULTIMEDIA_QPLAYBACKOPTIONS;
    TypeInclude QtMultimedia QVideoFrame VALUE_TYPE_QTMULTIMEDIA_QVIDEOFRAME;
    TypeInclude QtMultimedia QVideoFrameFormat VALUE_TYPE_QTMULTIMEDIA_QVIDEOFRAMEFORMAT
  ].

Definition methods_qtmultimedia_0_s0 : list signature_row :=
  [
    Sig [] "activeAudioTrack" [] RDouble [On QMediaPlayer];
    Sig [] "activeSubtitleTrack" [] RDouble [On QMediaPlayer];
    Sig [] "activeVideoTrack" [] RDouble [On QMediaPlayer];
    Sig [VALUE_TYPE_QTCORE_QURL] "actualLocation" [] (RValue QUrl) [On QMediaRecorder];
    Sig [VALUE_TYPE_QTMULTIMEDIA_QMEDIAMETADATA] "addMetaData" [PValue QMediaMetaData] RVoid [On
        QImageCapture];
    Sig [] "audioBitRate" [] RDouble [On QMediaRecorder];
    Sig [TYPE_QTMULTIMEDIA_QAUDIOBUFFERINPUT] "audioBufferInput" [] RObject [On QMediaCaptureSession];
    Sig [TYPE_QTMULTIMEDIA_QAUDIOBUFFEROUTPUT] "audioBufferOutput" [] RObject [On QMediaPlayer];
    Sig [] "audioChannelCount" [] RDouble [On QMediaRecorder];
    Sig [TYPE_QTMULTIMEDIA_QMEDIAFORMAT] "audioCodecDescription" [PValue QMediaFormat_AudioCodec] RString
        [Static QMediaFormat];
    Sig [TYPE_QTMULTIMEDIA_QMEDIAFORMAT] "audioCodecName" [PValue QMediaFormat_AudioCodec] RString [Static
        QMediaFormat]
  ].

Definition methods_qtmultimedia_0_s11 : list signature_row :=
  [
    Sig [VALUE_TYPE_QTMULTIMEDIA_QAUDIODEVICE] "audioDevice" [] (RValue QAudioDevice) [On QSoundEffect];
    Sig [VALUE_TYPE_QTMULTIMEDIA_QAUDIOFORMAT] "audioFormat" [] (RValue QAudioFormat) [On QAudioDecoder];
    Sig [TYPE_QTMULTIMEDIA_QAUDIOINPUT] "audioInput" [] RObject [On QMediaCaptureSession];
    Sig [VALUE_TYPE_QTMULTIMEDIA_QAUDIODEVICE] "audioInputs" [] (RList (IValue QAudioDevice)) [Static
        QMediaDevices];
    Sig [TYPE_QTMULTIMEDIA_QAUDIOOUTPUT] "audioOutput" [] RObject [On QMediaCaptureSession; On
        QMediaPlayer];
    Sig [VALUE_TYPE_QTMULTIMEDIA_QAUDIODEVICE] "audioOutputs" [] (RList (IValue QAudioDevice)) [Static
        QMediaDevices];
    Sig [] "audioSampleRate" [] RDouble [On QMediaRecorder];
    Sig [VALUE_TYPE_QTMULTIMEDIA_QMEDIAMETADATA] "audioTracks" [] (RList (IValue QMediaMetaData)) [On
        QMediaPlayer];
    Sig [] "autoStop" [] RBool [On QMediaRecorder];
    Sig [] "bufferAvailable" [] RBool [On QAudioDecoder]
  ].

Definition methods_qtmultimedia_0_s21 : list signature_row :=
  [
    Sig [] "bufferFrameCount" [] (RMeta cxx_qsizetype) [On QAudioSink; On QAudioSource];
    Sig [] "bufferProgress" [] RDouble [On QMediaPlayer];
    Sig [] "bufferSize" [] (RMeta cxx_qsizetype) [On QAudioSink; On QAudioSource];
    Sig [VALUE_TYPE_QTMULTIMEDIA_QMEDIATIMERANGE] "bufferedTimeRange" [] (RValue QMediaTimeRange) [On
        QMediaPlayer];
    Sig [] "bytesAvailable" [] (RMeta cxx_qsizetype) [On QAudioSource];
    Sig [] "bytesFree" [] (RMeta cxx_qsizetype) [On QAudioSink];
    Sig [TYPE_QTMULTIMEDIA_QCAMERA] "camera" [] RObject [On QMediaCaptureSession];
    Sig [VALUE_TYPE_QTMULTIMEDIA_QCAMERADEVICE] "cameraDevice" [] (RValue QCameraDevice) [On QCamera];
    Sig [VALUE_TYPE_QTMULTIMEDIA_QCAMERAFORMAT] "cameraFormat" [] (RValue QCameraFormat) [On QCamera];
    Sig [VALUE_TYPE_QTMULTIMEDIA_QCAPTURABLEWINDOW] "capturableWindows" [] (RList (IValue
        QCapturableWindow)) [Static QWindowCapture];
    Sig [] "capture" [] RDouble [On QImageCapture]
  ].

Definition methods_qtmultimedia_0_s32 : list signature_row :=
  [
    Sig [TYPE_QTMULTIMEDIA_QMEDIACAPTURESESSION] "captureSession" [] RObject [On QAudioBufferInput; On
        QCamera; On QImageCapture; On QMediaRecorder; On QScreenCapture; On QVideoFrameInput];
    Sig [] "captureToFile" [PString true] RDouble [On QImageCapture];
    Sig [] "colorTemperature" [] RDouble [On QCamera];
    Sig [VALUE_TYPE_QTCORE_QPOINTF] "customFocusPoint" [] (RValue QPointF) [On QCamera];
    Sig [VALUE_TYPE_QTMULTIMEDIA_QAUDIODEVICE] "defaultAudioInput" [] (RValue QAudioDevice) [Static
        QMediaDevices];
    Sig [VALUE_TYPE_QTMULTIMEDIA_QAUDIODEVICE] "defaultAudioOutput" [] (RValue QAudioDevice) [Static
        QMediaDevices];
    Sig [TYPE_QTMULTIMEDIA_QAUDIOFORMAT] "defaultChannelConfigForChannelCount" [PInt] (RMeta
        QAudioFormat_ChannelConfig) [Static QAudioFormat];
    Sig [VALUE_TYPE_QTMULTIMEDIA_QCAMERADEVICE] "defaultVideoInput" [] (RValue QCameraDevice) [Static
        QMediaDevices]
  ].

Definition methods_qtmultimedia_0_s40 : list signature_row :=
  [
    Sig [VALUE_TYPE_QTMULTIMEDIA_QAUDIODEVICE] "device" [] (RValue QAudioDevice) [On QAudioInput; On
        QAudioOutput];
    Sig [] "duration" [] (RMeta cxx_qint64) [On QAudioDecoder; On QMediaPlayer; On QMediaRecorder];
    Sig [] "elapsedUSecs" [] (RMeta cxx_qint64) [On QAudioSink; On QAudioSource];
    Sig [TYPE_QTMULTIMEDIA_QMEDIARECORDER] "encodingMode" [] (RMeta QMediaRecorder_EncodingMode) [On
        QMediaRecorder];
    Sig [TYPE_QTMULTIMEDIA_QAUDIODECODER] "error" [] (RMeta QAudioDecoder_Error) [On QAudioDecoder];
    Sig [TYPE_QTMULTIMEDIA_QCAMERA] "error" [] (RMeta QCamera_Error) [On QCamera];
    Sig [TYPE_QTMULTIMEDIA_QIMAGECAPTURE] "error" [] (RMeta QImageCapture_Error) [On QImageCapture];
    Sig [TYPE_QTMULTIMEDIA_QMEDIAPLAYER] "error" [] (RMeta QMediaPlayer_Error) [On QMediaPlayer];
    Sig [TYPE_QTMULTIMEDIA_QMEDIARECORDER] "error" [] (RMeta QMediaRecorder_Error) [On QMediaRecorder];
    Sig [TYPE_QTMULTIMEDIA_QSCREENCAPTURE] "error" [] (RMeta QScreenCapture_Error) [On QScreenCapture]
  ].

Definition methods_qtmultimedia_0_s50 : list signature_row :=
  [
    Sig [TYPE_QTMULTIMEDIA_QWINDOWCAPTURE] "error" [] (RMeta QWindowCapture_Error) [On QWindowCapture];
    Sig [] "errorString" [] RString [On QAudioDecoder; On QCamera; On QImageCapture; On QMediaPlayer; On
        QMediaRecorder; On QScreenCapture; On QWindowCapture];
    Sig [] "exposureCompensation" [] RDouble [On QCamera];
    Sig [TYPE_QTMULTIMEDIA_QCAMERA] "exposureMode" [] (RMeta QCamera_ExposureMode) [On QCamera];
    Sig [] "exposureTime" [] RDouble [On QCamera];
    Sig [TYPE_QTMULTIMEDIA_QIMAGECAPTURE] "fileFormat" [] (RMeta QImageCapture_FileFormat) [On
        QImageCapture];
    Sig [TYPE_QTMULTIMEDIA_QIMAGECAPTURE] "fileFormatDescription" [PValue QImageCapture_FileFormat] RString
        [Static QImageCapture];
    Sig [TYPE_QTMULTIMEDIA_QMEDIAFORMAT] "fileFormatDescription" [PValue QMediaFormat_FileFormat] RString
        [Static QMediaFormat];
    Sig [TYPE_QTMULTIMEDIA_QIMAGECAPTURE] "fileFormatName" [PValue QImageCapture_FileFormat] RString
        [Static QImageCapture]
  ].

Definition methods_qtmultimedia_0_s59 : list signature_row :=
  [
    Sig [TYPE_QTMULTIMEDIA_QMEDIAFORMAT] "fileFormatName" [PValue QMediaFormat_FileFormat] RString [Static
        QMediaFormat];
    Sig [TYPE_QTMULTIMEDIA_QCAMERA] "flashMode" [] (RMeta QCamera_FlashMode) [On QCamera];
    Sig [] "focusDistance" [] RDouble [On QCamera];
    Sig [TYPE_QTMULTIMEDIA_QCAMERA] "focusMode" [] (RMeta QCamera_FocusMode) [On QCamera];
    Sig [VALUE_TYPE_QTCORE_QPOINTF] "focusPoint" [] (RValue QPointF) [On QCamera];
    Sig [VALUE_TYPE_QTMULTIMEDIA_QAUDIOFORMAT] "format" [] (RValue QAudioFormat) [On QAudioBufferInput; On
        QAudioBufferOutput; On QAudioSink; On QAudioSource];
    Sig [VALUE_TYPE_QTMULTIMEDIA_QVIDEOFRAMEFORMAT] "format" [] (RValue QVideoFrameFormat) [On
        QVideoFrameInput];
    Sig [] "framesAvailable" [] (RMeta cxx_qsizetype) [On QAudioSource];
    Sig [] "framesFree" [] (RMeta cxx_qsizetype) [On QAudioSink];
    Sig [] "hasAudio" [] RBool [On QMediaPlayer]
  ].

Definition methods_qtmultimedia_0_s69 : list signature_row :=
  [
    Sig [] "hasVideo" [] RBool [On QMediaPlayer];
    Sig [TYPE_QTMULTIMEDIA_QIMAGECAPTURE] "imageCapture" [] RObject [On QMediaCaptureSession];
    Sig [TYPE_QTGUI_QIMAGE; TYPE_QTMULTIMEDIA_QVIDEOFRAMEFORMAT] "imageFormatFromPixelFormat" [PValue
        QVideoFrameFormat_PixelFormat] (RMeta QImage_Format) [Static QVideoFrameFormat];
    Sig [] "isActive" [] RBool [On QCamera; On QScreenCapture; On QWindowCapture];
    Sig [] "isAvailable" [] RBool [On QCamera; On QImageCapture; On QMediaPlayer; On QMediaRecorder];
    Sig [] "isDecoding" [] RBool [On QAudioDecoder];
    Sig [TYPE_QTMULTIMEDIA_QCAMERA] "isExposureModeSupported" [PValue QCamera_ExposureMode] RBool [On
        QCamera];
    Sig [TYPE_QTMULTIMEDIA_QCAMERA] "isFlashModeSupported" [PValue QCamera_FlashMode] RBool [On QCamera];
    Sig [] "isFlashReady" [] RBool [On QCamera]
  ].

Definition methods_qtmultimedia_0_s78 : list signature_row :=
  [
    Sig [TYPE_QTMULTIMEDIA_QCAMERA] "isFocusModeSupported" [PValue QCamera_FocusMode] RBool [On QCamera];
    Sig [] "isLoaded" [] RBool [On QSoundEffect];
    Sig [] "isMuted" [] RBool [On QAudioInput; On QAudioOutput; On QSoundEffect];
    Sig [] "isPlaying" [] RBool [On QMediaPlayer; On QSoundEffect];
    Sig [] "isReadyForCapture" [] RBool [On QImageCapture];
    Sig [] "isSeekable" [] RBool [On QMediaPlayer];
    Sig [] "isSupported" [] RBool [On QAudioDecoder];
    Sig [TYPE_QTMULTIMEDIA_QCAMERA] "isTorchModeSupported" [PValue QCamera_TorchMode] RBool [On QCamera];
    Sig [TYPE_QTMULTIMEDIA_QCAMERA] "isWhiteBalanceModeSupported" [PValue QCamera_WhiteBalanceMode] RBool
        [On QCamera];
    Sig [] "isoSensitivity" [] RDouble [On QCamera];
    Sig [] "loopCount" [] RDouble [On QSoundEffect]
  ].

Definition methods_qtmultimedia_0_s89 : list signature_row :=
  [
    Sig [] "loops" [] RDouble [On QMediaPlayer];
    Sig [] "loopsRemaining" [] RDouble [On QSoundEffect];
    Sig [] "manualExposureTime" [] RDouble [On QCamera];
    Sig [] "manualIsoSensitivity" [] RDouble [On QCamera];
    Sig [] "maximumExposureTime" [] RDouble [On QCamera];
    Sig [] "maximumIsoSensitivity" [] RDouble [On QCamera];
    Sig [] "maximumZoomFactor" [] RDouble [On QCamera];
    Sig [VALUE_TYPE_QTMULTIMEDIA_QMEDIAFORMAT] "mediaFormat" [] (RValue QMediaFormat) [On QMediaRecorder];
    Sig [TYPE_QTMULTIMEDIA_QMEDIAPLAYER] "mediaStatus" [] (RMeta QMediaPlayer_MediaStatus) [On
        QMediaPlayer];
    Sig [VALUE_TYPE_QTMULTIMEDIA_QMEDIAMETADATA] "metaData" [] (RValue QMediaMetaData) [On QImageCapture;
        On QMediaPlayer; On QMediaRecorder];
    Sig [TYPE_QTMULTIMEDIA_QMEDIAMETADATA] "metaDataKeyToString" [PValue QMediaMetaData_Key] RString
        [Static QMediaMetaData]
  ].

Definition methods_qtmultimedia_0_s100 : list signature_row :=
  [
    Sig [] "minimumExposureTime" [] RDouble [On QCamera];
    Sig [] "minimumIsoSensitivity" [] RDouble [On QCamera];
    Sig [] "minimumZoomFactor" [] RDouble [On QCamera];
    Sig [TYPE_QTCORE_QIODEVICE] "outputDevice" [] RObject [On QMediaRecorder];
    Sig [VALUE_TYPE_QTCORE_QURL] "outputLocation" [] (RValue QUrl) [On QMediaRecorder];
    Sig [] "pause" [] RVoid [On QMediaPlayer; On QMediaRecorder];
    Sig [] "pitchCompensation" [] RBool [On QMediaPlayer];
    Sig [TYPE_QTMULTIMEDIA_QMEDIAPLAYER] "pitchCompensationAvailability" [] (RMeta
        QMediaPlayer_PitchCompensationAvailability) [On QMediaPlayer];
    Sig [TYPE_QTGUI_QIMAGE; TYPE_QTMULTIMEDIA_QVIDEOFRAMEFORMAT] "pixelFormatFromImageFormat" [PValue
        QImage_Format] (RMeta QVideoFrameFormat_PixelFormat) [Static QVideoFrameFormat];
    Sig [TYPE_QTMULTIMEDIA_QVIDEOFRAMEFORMAT] "pixelFormatToString" [PValue QVideoFrameFormat_PixelFormat]
        RString [Static QVideoFrameFormat];
    Sig [] "play" [] RVoid [On QMediaPlayer; On QSoundEffect]
  ].

Definition methods_qtmultimedia_0_s111 : list signature_row :=
  [
    Sig [VALUE_TYPE_QTMULTIMEDIA_QPLAYBACKOPTIONS] "playbackOptions" [] (RValue QPlaybackOptions) [On
        QMediaPlayer];
    Sig [] "playbackRate" [] RDouble [On QMediaPlayer];
    Sig [TYPE_QTMULTIMEDIA_QMEDIAPLAYER] "playbackState" [] (RMeta QMediaPlayer_PlaybackState) [On
        QMediaPlayer];
    Sig [] "position" [] (RMeta cxx_qint64) [On QAudioDecoder; On QMediaPlayer];
    Sig [] "processedUSecs" [] (RMeta cxx_qint64) [On QAudioSink; On QAudioSource];
    Sig [TYPE_QTMULTIMEDIA_QIMAGECAPTURE] "quality" [] (RMeta QImageCapture_Quality) [On QImageCapture];
    Sig [TYPE_QTMULTIMEDIA_QMEDIARECORDER] "quality" [] (RMeta QMediaRecorder_Quality) [On QMediaRecorder];
    Sig [VALUE_TYPE_QTMULTIMEDIA_QAUDIOBUFFER] "read" [] (RValue QAudioBuffer) [On QAudioDecoder];
    Sig [] "record" [] RVoid [On QMediaRecorder];
    Sig [TYPE_QTMULTIMEDIA_QMEDIARECORDER] "recorder" [] RObject [On QMediaCaptureSession];
    Sig [TYPE_QTMULTIMEDIA_QMEDIARECORDER] "recorderState" [] (RMeta QMediaRecorder_RecorderState) [On
        QMediaRecorder]
  ].

Definition methods_qtmultimedia_0_s122 : list signature_row :=
  [
    Sig [] "reset" [] RVoid [On QAudioSink; On QAudioSource];
    Sig [] "resetPlaybackOptions" [] RVoid [On QMediaPlayer];
    Sig [VALUE_TYPE_QTCORE_QSIZE] "resolution" [] (RValue QSize) [On QImageCapture];
    Sig [] "resume" [] RVoid [On QAudioSink; On QAudioSource];
    Sig [TYPE_QTGUI_QSCREEN] "screen" [] RObject [On QScreenCapture];
    Sig [TYPE_QTMULTIMEDIA_QSCREENCAPTURE] "screenCapture" [] RObject [On QMediaCaptureSession];
    Sig [VALUE_TYPE_QTMULTIMEDIA_QAUDIOBUFFER] "sendAudioBuffer" [PValue QAudioBuffer] RBool [On
        QAudioBufferInput];
    Sig [VALUE_TYPE_QTMULTIMEDIA_QVIDEOFRAME] "sendVideoFrame" [PValue QVideoFrame] RBool [On
        QVideoFrameInput];
    Sig [] "setActive" [PBool] RVoid [On QCamera; On QScreenCapture; On QWindowCapture]
  ].

Definition methods_qtmultimedia_0_s131 : list signature_row :=
  [
    Sig [] "setActiveAudioTrack" [PInt] RVoid [On QMediaPlayer];
    Sig [] "setActiveSubtitleTrack" [PInt] RVoid [On QMediaPlayer];
    Sig [] "setActiveVideoTrack" [PInt] RVoid [On QMediaPlayer];
    Sig [] "setAudioBitRate" [PInt] RVoid [On QMediaRecorder];
    Sig [TYPE_QTMULTIMEDIA_QAUDIOBUFFERINPUT] "setAudioBufferInput" [PObject QAudioBufferInput false] RVoid
        [On QMediaCaptureSession];
    Sig [TYPE_QTMULTIMEDIA_QAUDIOBUFFEROUTPUT] "setAudioBufferOutput" [PObject QAudioBufferOutput false]
        RVoid [On QMediaPlayer];
    Sig [] "setAudioChannelCount" [PInt] RVoid [On QMediaRecorder];
    Sig [VALUE_TYPE_QTMULTIMEDIA_QAUDIODEVICE] "setAudioDevice" [PValue QAudioDevice] RVoid [On
        QSoundEffect];
    Sig [VALUE_TYPE_QTMULTIMEDIA_QAUDIOFORMAT] "setAudioFormat" [PValue QAudioFormat] RVoid [On
        QAudioDecoder]
  ].

Definition methods_qtmultimedia_0_s140 : list signature_row :=
  [
    Sig [TYPE_QTMULTIMEDIA_QAUDIOINPUT] "setAudioInput" [PObject QAudioInput false] RVoid [On
        QMediaCaptureSession];
    Sig [TYPE_QTMULTIMEDIA_QAUDIOOUTPUT] "setAudioOutput" [PObject QAudioOutput false] RVoid [On
        QMediaCaptureSession; On QMediaPlayer];
    Sig [] "setAudioSampleRate" [PInt] RVoid [On QMediaRecorder];
    Sig [] "setAutoExposureTime" [] RVoid [On QCamera];
    Sig [] "setAutoIsoSensitivity" [] RVoid [On QCamera];
    Sig [] "setAutoStop" [PBool] RVoid [On QMediaRecorder];
    Sig [] "setBufferFrameCount" [PMeta cxx_qsizetype] RVoid [On QAudioSink; On QAudioSource];
    Sig [] "setBufferSize" [PMeta cxx_qsizetype] RVoid [On QAudioSink; On QAudioSource];
    Sig [TYPE_QTMULTIMEDIA_QCAMERA] "setCamera" [PObject QCamera false] RVoid [On QMediaCaptureSession]
  ].

Definition methods_qtmultimedia_0_s149 : list signature_row :=
  [
    Sig [VALUE_TYPE_QTMULTIMEDIA_QCAMERADEVICE] "setCameraDevice" [PValue QCameraDevice] RVoid [On QCamera];
    Sig [VALUE_TYPE_QTMULTIMEDIA_QCAMERAFORMAT] "setCameraFormat" [PValue QCameraFormat] RVoid [On QCamera];
    Sig [] "setColorTemperature" [PInt] RVoid [On QCamera];
    Sig [VALUE_TYPE_QTCORE_QPOINTF] "setCustomFocusPoint" [PValue QPointF] RVoid [On QCamera];
    Sig [VALUE_TYPE_QTMULTIMEDIA_QAUDIODEVICE] "setDevice" [PValue QAudioDevice] RVoid [On QAudioInput; On
        QAudioOutput];
    Sig [TYPE_QTMULTIMEDIA_QMEDIARECORDER] "setEncodingMode" [PValue QMediaRecorder_EncodingMode] RVoid [On
        QMediaRecorder];
    Sig [] "setExposureCompensation" [PNumber cxx_float] RVoid [On QCamera];
    Sig [TYPE_QTMULTIMEDIA_QCAMERA] "setExposureMode" [PValue QCamera_ExposureMode] RVoid [On QCamera];
    Sig [TYPE_QTMULTIMEDIA_QIMAGECAPTURE] "setFileFormat" [PValue QImageCapture_FileFormat] RVoid [On
        QImageCapture]
  ].

Definition methods_qtmultimedia_0_s158 : list signature_row :=
  [
    Sig [TYPE_QTMULTIMEDIA_QCAMERA] "setFlashMode" [PValue QCamera_FlashMode] RVoid [On QCamera];
    Sig [] "setFocusDistance" [PNumber cxx_float] RVoid [On QCamera];
    Sig [TYPE_QTMULTIMEDIA_QCAMERA] "setFocusMode" [PValue QCamera_FocusMode] RVoid [On QCamera];
    Sig [TYPE_QTMULTIMEDIA_QIMAGECAPTURE] "setImageCapture" [PObject QImageCapture false] RVoid [On
        QMediaCaptureSession];
    Sig [] "setLoopCount" [PInt] RVoid [On QSoundEffect];
    Sig [] "setLoops" [PInt] RVoid [On QMediaPlayer];
    Sig [] "setManualExposureTime" [PNumber cxx_float] RVoid [On QCamera];
    Sig [] "setManualIsoSensitivity" [PInt] RVoid [On QCamera];
    Sig [VALUE_TYPE_QTMULTIMEDIA_QMEDIAFORMAT] "setMediaFormat" [PValue QMediaFormat] RVoid [On
        QMediaRecorder]
  ].

Definition methods_qtmultimedia_0_s167 : list signature_row :=
  [
    Sig [VALUE_TYPE_QTMULTIMEDIA_QMEDIAMETADATA] "setMetaData" [PValue QMediaMetaData] RVoid [On
        QImageCapture; On QMediaRecorder];
    Sig [] "setMuted" [PBool] RVoid [On QAudioInput; On QAudioOutput; On QSoundEffect];
    Sig [TYPE_QTCORE_QIODEVICE] "setOutputDevice" [PObject QIODevice false] RVoid [On QMediaRecorder];
    Sig [VALUE_TYPE_QTCORE_QURL] "setOutputLocation" [PValue QUrl] RVoid [On QMediaRecorder];
    Sig [] "setPitchCompensation" [PBool] RVoid [On QMediaPlayer];
    Sig [VALUE_TYPE_QTMULTIMEDIA_QPLAYBACKOPTIONS] "setPlaybackOptions" [PValue QPlaybackOptions] RVoid [On
        QMediaPlayer];
    Sig [] "setPlaybackRate" [PNumber cxx_qreal] RVoid [On QMediaPlayer];
    Sig [] "setPosition" [PMeta cxx_qint64] RVoid [On QMediaPlayer];
    Sig [TYPE_QTMULTIMEDIA_QIMAGECAPTURE] "setQuality" [PValue QImageCapture_Quality] RVoid [On
        QImageCapture]
  ].

Definition methods_qtmultimedia_0_s176 : list signature_row :=
  [
    Sig [TYPE_QTMULTIMEDIA_QMEDIARECORDER] "setQuality" [PValue QMediaRecorder_Quality] RVoid [On
        QMediaRecorder];
    Sig [TYPE_QTMULTIMEDIA_QMEDIARECORDER] "setRecorder" [PObject QMediaRecorder false] RVoid [On
        QMediaCaptureSession];
    Sig [VALUE_TYPE_QTCORE_QSIZE] "setResolution" [PValue QSize] RVoid [On QImageCapture];
    Sig [] "setResolution" [PInt; PInt] RVoid [On QImageCapture];
    Sig [TYPE_QTGUI_QSCREEN] "setScreen" [PObject QScreen false] RVoid [On QScreenCapture];
    Sig [TYPE_QTMULTIMEDIA_QSCREENCAPTURE] "setScreenCapture" [PObject QScreenCapture false] RVoid [On
        QMediaCaptureSession];
    Sig [VALUE_TYPE_QTCORE_QURL] "setSource" [PValue QUrl] RVoid [On QAudioDecoder; On QMediaPlayer; On
        QSoundEffect];
    Sig [TYPE_QTCORE_QIODEVICE] "setSourceDevice" [PObject QIODevice false] RVoid [On QAudioDecoder]
  ].

Definition methods_qtmultimedia_0_s184 : list signature_row :=
  [
    Sig [TYPE_QTCORE_QIODEVICE; VALUE_TYPE_QTCORE_QURL] "setSourceDevice" [PObject QIODevice false; PValue
        QUrl] RVoid [On QMediaPlayer];
    Sig [] "setSubtitleText" [PString true] RVoid [On QVideoSink];
    Sig [TYPE_QTMULTIMEDIA_QCAMERA] "setTorchMode" [PValue QCamera_TorchMode] RVoid [On QCamera];
    Sig [] "setVideoBitRate" [PInt] RVoid [On QMediaRecorder];
    Sig [VALUE_TYPE_QTMULTIMEDIA_QVIDEOFRAME] "setVideoFrame" [PValue QVideoFrame] RVoid [On QVideoSink];
    Sig [TYPE_QTMULTIMEDIA_QVIDEOFRAMEINPUT] "setVideoFrameInput" [PObject QVideoFrameInput false] RVoid
        [On QMediaCaptureSession];
    Sig [] "setVideoFrameRate" [PNumber cxx_qreal] RVoid [On QMediaRecorder];
    Sig [TYPE_QTCORE_QOBJECT] "setVideoOutput" [PObject QObject false] RVoid [On QMediaCaptureSession; On
        QMediaPlayer];
    Sig [VALUE_TYPE_QTCORE_QSIZE] "setVideoResolution" [PValue QSize] RVoid [On QMediaRecorder]
  ].

Definition methods_qtmultimedia_0_s193 : list signature_row :=
  [
    Sig [] "setVideoResolution" [PInt; PInt] RVoid [On QMediaRecorder];
    Sig [TYPE_QTMULTIMEDIA_QVIDEOSINK] "setVideoSink" [PObject QVideoSink false] RVoid [On
        QMediaCaptureSession; On QMediaPlayer];
    Sig [] "setVolume" [PNumber cxx_float] RVoid [On QAudioInput; On QAudioOutput; On QSoundEffect];
    Sig [] "setVolume" [PNumber cxx_qreal] RVoid [On QAudioSink; On QAudioSource];
    Sig [TYPE_QTMULTIMEDIA_QCAMERA] "setWhiteBalanceMode" [PValue QCamera_WhiteBalanceMode] RVoid [On
        QCamera];
    Sig [VALUE_TYPE_QTMULTIMEDIA_QCAPTURABLEWINDOW] "setWindow" [PValue QCapturableWindow] RVoid [On
        QWindowCapture];
    Sig [TYPE_QTMULTIMEDIA_QWINDOWCAPTURE] "setWindowCapture" [PObject QWindowCapture false] RVoid [On
        QMediaCaptureSession];
    Sig [] "setZoomFactor" [PNumber cxx_float] RVoid [On QCamera]
  ].

Definition methods_qtmultimedia_0_s201 : list signature_row :=
  [
    Sig [VALUE_TYPE_QTCORE_QURL] "source" [] (RValue QUrl) [On QAudioDecoder; On QMediaPlayer; On
        QSoundEffect];
    Sig [TYPE_QTCORE_QIODEVICE] "sourceDevice" [] RObject [On QAudioDecoder; On QMediaPlayer];
    Sig [TYPE_QTCORE_QIODEVICE] "start" [] RObject [On QAudioSink; On QAudioSource];
    Sig [] "start" [] RVoid [On QAudioDecoder; On QCamera; On QScreenCapture; On QWindowCapture];
    Sig [TYPE_QTCORE_QIODEVICE] "start" [PObject QIODevice false] RVoid [On QAudioSink; On QAudioSource];
    Sig [TYPE_QTMULTIMEDIA_QSOUNDEFFECT] "status" [] (RMeta QSoundEffect_Status) [On QSoundEffect]
  ].

Definition methods_qtmultimedia_0_s207 : list signature_row :=
  [
    Sig [] "stop" [] RVoid [On QAudioDecoder; On QAudioSink; On QAudioSource; On QCamera; On QMediaPlayer;
        On QMediaRecorder; On QScreenCapture; On QSoundEffect; On QWindowCapture];
    Sig [] "subtitleText" [] RString [On QVideoSink];
    Sig [VALUE_TYPE_QTMULTIMEDIA_QMEDIAMETADATA] "subtitleTracks" [] (RList (IValue QMediaMetaData)) [On
        QMediaPlayer];
    Sig [TYPE_QTMULTIMEDIA_QCAMERA] "supportedFeatures" [] (RMeta QCamera_Features) [On QCamera];
    Sig [TYPE_QTMULTIMEDIA_QIMAGECAPTURE] "supportedFormats" [] (RList (IMeta QImageCapture_FileFormat))
        [Static QImageCapture];
    Sig [] "supportedMimeTypes" [] (RList (IMeta QString)) [Static QSoundEffect];
    Sig [] "suspend" [] RVoid [On QAudioSink; On QAudioSource]
  ].

Definition methods_qtmultimedia_0_s214 : list signature_row :=
  [
    Sig [TYPE_QTMULTIMEDIA_QCAMERA] "torchMode" [] (RMeta QCamera_TorchMode) [On QCamera];
    Sig [] "videoBitRate" [] RDouble [On QMediaRecorder];
    Sig [TYPE_QTMULTIMEDIA_QMEDIAFORMAT] "videoCodecDescription" [PValue QMediaFormat_VideoCodec] RString
        [Static QMediaFormat];
    Sig [TYPE_QTMULTIMEDIA_QMEDIAFORMAT] "videoCodecName" [PValue QMediaFormat_VideoCodec] RString [Static
        QMediaFormat];
    Sig [VALUE_TYPE_QTMULTIMEDIA_QVIDEOFRAME] "videoFrame" [] (RValue QVideoFrame) [On QVideoSink];
    Sig [TYPE_QTMULTIMEDIA_QVIDEOFRAMEINPUT] "videoFrameInput" [] RObject [On QMediaCaptureSession];
    Sig [] "videoFrameRate" [] RDouble [On QMediaRecorder];
    Sig [VALUE_TYPE_QTMULTIMEDIA_QCAMERADEVICE] "videoInputs" [] (RList (IValue QCameraDevice)) [Static
        QMediaDevices];
    Sig [TYPE_QTCORE_QOBJECT] "videoOutput" [] RObject [On QMediaCaptureSession; On QMediaPlayer];
    Sig [VALUE_TYPE_QTCORE_QSIZE] "videoResolution" [] (RValue QSize) [On QMediaRecorder]
  ].

Definition methods_qtmultimedia_0_s224 : list signature_row :=
  [
    Sig [TYPE_QTMULTIMEDIA_QVIDEOSINK] "videoSink" [] RObject [On QMediaCaptureSession; On QMediaPlayer];
    Sig [VALUE_TYPE_QTCORE_QSIZE] "videoSize" [] (RValue QSize) [On QVideoSink];
    Sig [VALUE_TYPE_QTMULTIMEDIA_QMEDIAMETADATA] "videoTracks" [] (RList (IValue QMediaMetaData)) [On
        QMediaPlayer];
    Sig [] "volume" [] RDouble [On QAudioInput; On QAudioOutput; On QSoundEffect];
    Sig [] "volume" [] RDouble [On QAudioSink; On QAudioSource];
    Sig [TYPE_QTMULTIMEDIA_QCAMERA] "whiteBalanceMode" [] (RMeta QCamera_WhiteBalanceMode) [On QCamera];
    Sig [VALUE_TYPE_QTMULTIMEDIA_QCAPTURABLEWINDOW] "window" [] (RValue QCapturableWindow) [On
        QWindowCapture];
    Sig [TYPE_QTMULTIMEDIA_QWINDOWCAPTURE] "windowCapture" [] RObject [On QMediaCaptureSession];
    Sig [] "zoomFactor" [] RDouble [On QCamera]
  ].

Definition methods_qtmultimedia_0_s233 : list signature_row :=
  [
    Sig [] "zoomTo" [PNumber cxx_float; PNumber cxx_float] RVoid [On QCamera]
  ].

Definition methods_qtmultimedia_0 : method_shard :=
  MethodShard QtMultimedia "KRY_QT6_NATIVE_METHODS_QTMULTIMEDIA_"
    (methods_qtmultimedia_0_i0 ++ methods_qtmultimedia_0_i1)
    (methods_qtmultimedia_0_s0 ++ methods_qtmultimedia_0_s11 ++ methods_qtmultimedia_0_s21 ++
        methods_qtmultimedia_0_s32 ++ methods_qtmultimedia_0_s40 ++ methods_qtmultimedia_0_s50 ++
        methods_qtmultimedia_0_s59 ++ methods_qtmultimedia_0_s69 ++ methods_qtmultimedia_0_s78 ++
        methods_qtmultimedia_0_s89 ++ methods_qtmultimedia_0_s100 ++ methods_qtmultimedia_0_s111 ++
        methods_qtmultimedia_0_s122 ++ methods_qtmultimedia_0_s131 ++ methods_qtmultimedia_0_s140 ++
        methods_qtmultimedia_0_s149 ++ methods_qtmultimedia_0_s158 ++ methods_qtmultimedia_0_s167 ++
        methods_qtmultimedia_0_s176 ++ methods_qtmultimedia_0_s184 ++ methods_qtmultimedia_0_s193 ++
        methods_qtmultimedia_0_s201 ++ methods_qtmultimedia_0_s207 ++ methods_qtmultimedia_0_s214 ++
        methods_qtmultimedia_0_s224 ++ methods_qtmultimedia_0_s233)
    [].

Definition methods_qtmultimediawidgets_0_i0 : list include :=
  [
    ClassInclude QtMultimediaWidgets QGraphicsVideoItem QGraphicsVideoItem;
    ClassInclude QtMultimediaWidgets QVideoWidget QVideoWidget;
    TypeInclude QtMultimedia QVideoSink TYPE_QTMULTIMEDIA_QVIDEOSINK;
    EnumDefine ENUM_QT_ASPECTRATIOMODE;
    TypeInclude QtCore QPointF VALUE_TYPE_QTCORE_QPOINTF;
    TypeInclude QtCore QRectF VALUE_TYPE_QTCORE_QRECTF;
    TypeInclude QtCore QSize VALUE_TYPE_QTCORE_QSIZE;
    TypeInclude QtCore QSizeF VALUE_TYPE_QTCORE_QSIZEF
  ].

Definition methods_qtmultimediawidgets_0_s0 : list signature_row :=
  [
    Sig [ENUM_QT_ASPECTRATIOMODE] "aspectRatioMode" [] (RMeta Qt_AspectRatioMode) [On QGraphicsVideoItem;
        On QVideoWidget];
    Sig [VALUE_TYPE_QTCORE_QRECTF] "boundingRect" [] (RValue QRectF) [On QGraphicsVideoItem];
    Sig [] "isFullScreen" [] RBool [On QVideoWidget];
    Sig [VALUE_TYPE_QTCORE_QSIZEF] "nativeSize" [] (RValue QSizeF) [On QGraphicsVideoItem];
    Sig [VALUE_TYPE_QTCORE_QPOINTF] "offset" [] (RValue QPointF) [On QGraphicsVideoItem];
    Sig [ENUM_QT_ASPECTRATIOMODE] "setAspectRatioMode" [PValue Qt_AspectRatioMode] RVoid [On
        QGraphicsVideoItem; On QVideoWidget];
    Sig [] "setFullScreen" [PBool] RVoid [On QVideoWidget];
    Sig [VALUE_TYPE_QTCORE_QPOINTF] "setOffset" [PValue QPointF] RVoid [On QGraphicsVideoItem];
    Sig [VALUE_TYPE_QTCORE_QSIZEF] "setSize" [PValue QSizeF] RVoid [On QGraphicsVideoItem]
  ].

Definition methods_qtmultimediawidgets_0_s9 : list signature_row :=
  [
    Sig [VALUE_TYPE_QTCORE_QSIZEF] "size" [] (RValue QSizeF) [On QGraphicsVideoItem];
    Sig [VALUE_TYPE_QTCORE_QSIZE] "sizeHint" [] (RValue QSize) [On QVideoWidget];
    Sig [] "type" [] RDouble [On QGraphicsVideoItem];
    Sig [TYPE_QTMULTIMEDIA_QVIDEOSINK] "videoSink" [] RObject [On QGraphicsVideoItem; On QVideoWidget]
  ].

Definition methods_qtmultimediawidgets_0 : method_shard :=
  MethodShard QtMultimediaWidgets "KRY_QT6_NATIVE_METHODS_QTMULTIMEDIAWIDGETS_"
    (methods_qtmultimediawidgets_0_i0)
    (methods_qtmultimediawidgets_0_s0 ++ methods_qtmultimediawidgets_0_s9)
    [].

Definition methods_qtopengl_0_i0 : list include :=
  [
    ClassInclude QtOpenGL QOpenGLBuffer QOpenGLBuffer;
    ClassInclude QtOpenGL QOpenGLDebugLogger QOpenGLDebugLogger;
    ClassInclude QtOpenGL QOpenGLFramebufferObject QOpenGLFramebufferObject;
    ClassInclude QtOpenGL QOpenGLShader QOpenGLShader;
    ClassInclude QtOpenGL QOpenGLShaderProgram QOpenGLShaderProgram;
    ClassInclude QtOpenGL QOpenGLTexture QOpenGLTexture;
    ClassInclude QtOpenGL QOpenGLTextureBlitter QOpenGLTextureBlitter;
    ClassInclude QtOpenGL QOpenGLTimeMonitor QOpenGLTimeMonitor;
    ClassInclude QtOpenGL QOpenGLTimerQuery QOpenGLTimerQuery;
    ClassInclude QtOpenGL QOpenGLVertexArrayObject QOpenGLVertexArrayObject;
    ClassInclude QtOpenGL QOpenGLWindow QOpenGLWindow;
    TypeInclude QtGui QOpenGLContext TYPE_QTGUI_QOPENGLCONTEXT;
    TypeInclude QtOpenGL QOpenGLShader TYPE_QTOPENGL_QOPENGLSHADER;
    TypeInclude QtOpenGL QOpenGLBuffer TYPE_QTOPENGL_QOPENGLBUFFER;
    TypeInclude QtOpenGL QOpenGLDebugLogger TYPE_QTOPENGL_QOPENGLDEBUGLOGGER;
    TypeInclude QtOpenGL QOpenGLDebugMessage TYPE_QTOPENGL_QOPENGLDEBUGMESSAGE;
    TypeInclude QtOpenGL QOpenGLTexture TYPE_QTOPENGL_QOPENGLTEXTURE;
    TypeInclude QtOpenGL QOpenGLTextureBlitter TYPE_QTOPENGL_QOPENGLTEXTUREBLITTER;
    TypeInclude QtOpenGL QOpenGLWindow TYPE_QTOPENGL_QOPENGLWINDOW;
    TypeInclude QtCore QByteArray VALUE_TYPE_QTCORE_QBYTEARRAY;
    TypeInclude QtCore QPoint VALUE_TYPE_QTCORE_QPOINT;
    TypeInclude QtCore QPointF VALUE_TYPE_QTCORE_QPOINTF;
    TypeInclude QtCore QRect VALUE_TYPE_QTCORE_QRECT;
    TypeInclude QtCore QRectF VALUE_TYPE_QTCORE_QRECTF;
    TypeInclude QtCore QSize VALUE_TYPE_QTCORE_QSIZE;
    TypeInclude QtCore QSizeF VALUE_TYPE_QTCORE_QSIZEF;
    TypeInclude QtGui QColor VALUE_TYPE_QTGUI_QCOLOR;
    TypeInclude QtGui QImage VALUE_TYPE_QTGUI_QIMAGE;
    TypeInclude QtGui QMatrix2x2 VALUE_TYPE_QTGUI_QMATRIX2X2;
    TypeInclude QtGui QMatrix2x3 VALUE_TYPE_QTGUI_QMATRIX2X3;
    TypeInclude QtGui QMatrix2x4 VALUE_TYPE_QTGUI_QMATRIX2X4;
    TypeInclude QtGui QMatrix3x2 VALUE_TYPE_QTGUI_QMATRIX3X2;
    TypeInclude QtGui QMatrix3x3 VALUE_TYPE_QTGUI_QMATRIX3X3;
    TypeInclude QtGui QMatrix3x4 VALUE_TYPE_QTGUI_QMATRIX3X4;
    TypeInclude QtGui QMatrix4x2 VALUE_TYPE_QTGUI_QMATRIX4X2;
    TypeInclude QtGui QMatrix4x3 VALUE_TYPE_QTGUI_QMATRIX4X3;
    TypeInclude QtGui QMatrix4x4 VALUE_TYPE_QTGUI_QMATRIX4X4;
    TypeInclude QtGui QTransform VALUE_TYPE_QTGUI_QTRANSFORM;
    TypeInclude QtGui QVector2D VALUE_TYPE_QTGUI_QVECTOR2D;
    TypeInclude QtGui QVector3D VALUE_TYPE_QTGUI_QVECTOR3D;
    TypeInclude QtGui QVector4D VALUE_TYPE_QTGUI_QVECTOR4D;
    TypeInclude QtOpenGL QOpenGLDebugMessage VALUE_TYPE_QTOPENGL_QOPENGLDEBUGMESSAGE
  ].

Definition methods_qtopengl_0_s0 : list signature_row :=
  [
    Sig [TYPE_QTOPENGL_QOPENGLSHADER] "addShader" [PObject QOpenGLShader false] RBool [On
        QOpenGLShaderProgram];
    Sig [VALUE_TYPE_QTCORE_QBYTEARRAY] "attributeLocation" [PValue QByteArray] RDouble [On
        QOpenGLShaderProgram];
    Sig [] "attributeLocation" [PString true] RDouble [On QOpenGLShaderProgram];
    Sig [] "begin" [] RVoid [On QOpenGLTimerQuery];
    Sig [] "bind" [] RBool [On QOpenGLShaderProgram];
    Sig [] "bind" [] RVoid [On QOpenGLVertexArrayObject];
    Sig [VALUE_TYPE_QTCORE_QBYTEARRAY] "bindAttributeLocation" [PValue QByteArray; PInt] RVoid [On
        QOpenGLShaderProgram];
    Sig [] "bindAttributeLocation" [PString true; PInt] RVoid [On QOpenGLShaderProgram];
    Sig [] "bindDefault" [] RBool [Static QOpenGLFramebufferObject];
    Sig [VALUE_TYPE_QTCORE_QBYTEARRAY] "compileSourceCode" [PValue QByteArray] RBool [On QOpenGLShader]
  ].

Definition methods_qtopengl_0_s10 : list signature_row :=
  [
    Sig [] "compileSourceCode" [PString true] RBool [On QOpenGLShader];
    Sig [] "compileSourceFile" [PString true] RBool [On QOpenGLShader];
    Sig [TYPE_QTGUI_QOPENGLCONTEXT] "context" [] RObject [On QOpenGLWindow];
    Sig [] "create" [] RBool [On QOpenGLShaderProgram; On QOpenGLTimeMonitor; On QOpenGLTimerQuery; On
        QOpenGLVertexArrayObject];
    Sig [] "defaultInnerTessellationLevels" [] (RList (IMeta cxx_float)) [On QOpenGLShaderProgram];
    Sig [] "defaultOuterTessellationLevels" [] (RList (IMeta cxx_float)) [On QOpenGLShaderProgram];
    Sig [] "destroy" [] RVoid [On QOpenGLTimeMonitor; On QOpenGLTimerQuery; On QOpenGLVertexArrayObject];
    Sig [] "disableAttributeArray" [PInt] RVoid [On QOpenGLShaderProgram]
  ].

Definition methods_qtopengl_0_s18 : list signature_row :=
  [
    Sig [TYPE_QTOPENGL_QOPENGLDEBUGMESSAGE] "disableMessages" [PList (IMeta cxx_unsigned_int); PValue
        QOpenGLDebugMessage_Sources; PValue QOpenGLDebugMessage_Types] RVoid [On QOpenGLDebugLogger];
    Sig [TYPE_QTOPENGL_QOPENGLDEBUGMESSAGE] "disableMessages" [PValue QOpenGLDebugMessage_Sources; PValue
        QOpenGLDebugMessage_Types; PValue QOpenGLDebugMessage_Severities] RVoid [On QOpenGLDebugLogger];
    Sig [] "doneCurrent" [] RVoid [On QOpenGLWindow];
    Sig [] "enableAttributeArray" [PInt] RVoid [On QOpenGLShaderProgram];
    Sig [TYPE_QTOPENGL_QOPENGLDEBUGMESSAGE] "enableMessages" [PList (IMeta cxx_unsigned_int); PValue
        QOpenGLDebugMessage_Sources; PValue QOpenGLDebugMessage_Types] RVoid [On QOpenGLDebugLogger];
    Sig [TYPE_QTOPENGL_QOPENGLDEBUGMESSAGE] "enableMessages" [PValue QOpenGLDebugMessage_Sources; PValue
        QOpenGLDebugMessage_Types; PValue QOpenGLDebugMessage_Severities] RVoid [On QOpenGLDebugLogger];
    Sig [] "end" [] RVoid [On QOpenGLTimerQuery];
    Sig [VALUE_TYPE_QTGUI_QIMAGE] "grabFramebuffer" [] (RValue QImage) [On QOpenGLWindow]
  ].

Definition methods_qtopengl_0_s26 : list signature_row :=
  [
    Sig [TYPE_QTOPENGL_QOPENGLTEXTURE] "hasFeature" [PValue QOpenGLTexture_Feature] RBool [Static
        QOpenGLTexture];
    Sig [] "hasOpenGLFramebufferBlit" [] RBool [Static QOpenGLFramebufferObject];
    Sig [] "hasOpenGLFramebufferObjects" [] RBool [Static QOpenGLFramebufferObject];
    Sig [TYPE_QTGUI_QOPENGLCONTEXT] "hasOpenGLShaderPrograms" [PObject QOpenGLContext false] RBool [Static
        QOpenGLShaderProgram];
    Sig [] "initialize" [] RBool [On QOpenGLDebugLogger];
    Sig [] "isCompiled" [] RBool [On QOpenGLShader];
    Sig [] "isCreated" [] RBool [On QOpenGLTimeMonitor; On QOpenGLTimerQuery; On QOpenGLVertexArrayObject];
    Sig [] "isLinked" [] RBool [On QOpenGLShaderProgram];
    Sig [] "isLogging" [] RBool [On QOpenGLDebugLogger];
    Sig [] "isResultAvailable" [] RBool [On QOpenGLTimeMonitor; On QOpenGLTimerQuery];
    Sig [] "isValid" [] RBool [On QOpenGLWindow]
  ].

Definition methods_qtopengl_0_s37 : list signature_row :=
  [
    Sig [] "link" [] RBool [On QOpenGLShaderProgram];
    Sig [] "log" [] RString [On QOpenGLShader; On QOpenGLShaderProgram];
    Sig [VALUE_TYPE_QTOPENGL_QOPENGLDEBUGMESSAGE] "logMessage" [PValue QOpenGLDebugMessage] RVoid [On
        QOpenGLDebugLogger];
    Sig [VALUE_TYPE_QTOPENGL_QOPENGLDEBUGMESSAGE] "loggedMessages" [] (RList (IValue QOpenGLDebugMessage))
        [On QOpenGLDebugLogger];
    Sig [TYPE_QTOPENGL_QOPENGLDEBUGLOGGER] "loggingMode" [] (RMeta QOpenGLDebugLogger_LoggingMode) [On
        QOpenGLDebugLogger];
    Sig [] "makeCurrent" [] RVoid [On QOpenGLWindow];
    Sig [] "maxGeometryOutputVertices" [] RDouble [On QOpenGLShaderProgram];
    Sig [] "maximumMessageLength" [] (RMeta cxx_qint64) [On QOpenGLDebugLogger];
    Sig [] "objectIds" [] (RList (IMeta cxx_unsigned_int)) [On QOpenGLTimeMonitor];
    Sig [] "patchVertexCount" [] RDouble [On QOpenGLShaderProgram];
    Sig [] "popGroup" [] RVoid [On QOpenGLDebugLogger]
  ].

Definition methods_qtopengl_0_s48 : list signature_row :=
  [
    Sig [] "recordSample" [] RDouble [On QOpenGLTimeMonitor];
    Sig [] "recordTimestamp" [] RVoid [On QOpenGLTimerQuery];
    Sig [] "release" [] RVoid [On QOpenGLShaderProgram; On QOpenGLVertexArrayObject; On
        QOpenGLVertexArrayObject];
    Sig [TYPE_QTOPENGL_QOPENGLBUFFER] "release" [PValue QOpenGLBuffer_Type] RVoid [Static QOpenGLBuffer];
    Sig [] "removeAllShaders" [] RVoid [On QOpenGLShaderProgram];
    Sig [TYPE_QTOPENGL_QOPENGLSHADER] "removeShader" [PObject QOpenGLShader false] RVoid [On
        QOpenGLShaderProgram];
    Sig [] "reset" [] RVoid [On QOpenGLTimeMonitor];
    Sig [] "sampleCount" [] RDouble [On QOpenGLTimeMonitor];
    Sig [VALUE_TYPE_QTGUI_QCOLOR] "setAttributeValue" [PInt; PValue QColor] RVoid [On QOpenGLShaderProgram];
    Sig [VALUE_TYPE_QTGUI_QVECTOR2D] "setAttributeValue" [PInt; PValue QVector2D] RVoid [On
        QOpenGLShaderProgram]
  ].

Definition methods_qtopengl_0_s58 : list signature_row :=
  [
    Sig [VALUE_TYPE_QTGUI_QVECTOR3D] "setAttributeValue" [PInt; PValue QVector3D] RVoid [On
        QOpenGLShaderProgram];
    Sig [VALUE_TYPE_QTGUI_QVECTOR4D] "setAttributeValue" [PInt; PValue QVector4D] RVoid [On
        QOpenGLShaderProgram];
    Sig [] "setDefaultInnerTessellationLevels" [PList (IMeta cxx_float)] RVoid [On QOpenGLShaderProgram];
    Sig [] "setDefaultOuterTessellationLevels" [PList (IMeta cxx_float)] RVoid [On QOpenGLShaderProgram];
    Sig [] "setPatchVertexCount" [PInt] RVoid [On QOpenGLShaderProgram];
    Sig [] "setSampleCount" [PInt] RVoid [On QOpenGLTimeMonitor];
    Sig [VALUE_TYPE_QTGUI_QCOLOR] "setUniformValue" [PInt; PValue QColor] RVoid [On QOpenGLShaderProgram];
    Sig [VALUE_TYPE_QTGUI_QMATRIX2X2] "setUniformValue" [PInt; PValue QMatrix2x2] RVoid [On
        QOpenGLShaderProgram]
  ].

Definition methods_qtopengl_0_s66 : list signature_row :=
  [
    Sig [VALUE_TYPE_QTGUI_QMATRIX2X3] "setUniformValue" [PInt; PValue QMatrix2x3] RVoid [On
        QOpenGLShaderProgram];
    Sig [VALUE_TYPE_QTGUI_QMATRIX2X4] "setUniformValue" [PInt; PValue QMatrix2x4] RVoid [On
        QOpenGLShaderProgram];
    Sig [VALUE_TYPE_QTGUI_QMATRIX3X2] "setUniformValue" [PInt; PValue QMatrix3x2] RVoid [On
        QOpenGLShaderProgram];
    Sig [VALUE_TYPE_QTGUI_QMATRIX3X3] "setUniformValue" [PInt; PValue QMatrix3x3] RVoid [On
        QOpenGLShaderProgram];
    Sig [VALUE_TYPE_QTGUI_QMATRIX3X4] "setUniformValue" [PInt; PValue QMatrix3x4] RVoid [On
        QOpenGLShaderProgram];
    Sig [VALUE_TYPE_QTGUI_QMATRIX4X2] "setUniformValue" [PInt; PValue QMatrix4x2] RVoid [On
        QOpenGLShaderProgram];
    Sig [VALUE_TYPE_QTGUI_QMATRIX4X3] "setUniformValue" [PInt; PValue QMatrix4x3] RVoid [On
        QOpenGLShaderProgram];
    Sig [VALUE_TYPE_QTGUI_QMATRIX4X4] "setUniformValue" [PInt; PValue QMatrix4x4] RVoid [On
        QOpenGLShaderProgram]
  ].

Definition methods_qtopengl_0_s74 : list signature_row :=
  [
    Sig [VALUE_TYPE_QTCORE_QPOINT] "setUniformValue" [PInt; PValue QPoint] RVoid [On QOpenGLShaderProgram];
    Sig [VALUE_TYPE_QTCORE_QPOINTF] "setUniformValue" [PInt; PValue QPointF] RVoid [On
        QOpenGLShaderProgram];
    Sig [VALUE_TYPE_QTCORE_QSIZE] "setUniformValue" [PInt; PValue QSize] RVoid [On QOpenGLShaderProgram];
    Sig [VALUE_TYPE_QTCORE_QSIZEF] "setUniformValue" [PInt; PValue QSizeF] RVoid [On QOpenGLShaderProgram];
    Sig [VALUE_TYPE_QTGUI_QTRANSFORM] "setUniformValue" [PInt; PValue QTransform] RVoid [On
        QOpenGLShaderProgram];
    Sig [VALUE_TYPE_QTGUI_QVECTOR2D] "setUniformValue" [PInt; PValue QVector2D] RVoid [On
        QOpenGLShaderProgram];
    Sig [VALUE_TYPE_QTGUI_QVECTOR3D] "setUniformValue" [PInt; PValue QVector3D] RVoid [On
        QOpenGLShaderProgram];
    Sig [VALUE_TYPE_QTGUI_QVECTOR4D] "setUniformValue" [PInt; PValue QVector4D] RVoid [On
        QOpenGLShaderProgram]
  ].

Definition methods_qtopengl_0_s82 : list signature_row :=
  [
    Sig [TYPE_QTOPENGL_QOPENGLSHADER] "shaders" [] (RList (IObject QObject)) [On QOpenGLShaderProgram];
    Sig [TYPE_QTGUI_QOPENGLCONTEXT] "shareContext" [] RObject [On QOpenGLWindow];
    Sig [VALUE_TYPE_QTCORE_QBYTEARRAY] "sourceCode" [] (RValue QByteArray) [On QOpenGLShader];
    Sig [TYPE_QTOPENGL_QOPENGLTEXTUREBLITTER; VALUE_TYPE_QTCORE_QRECTF; VALUE_TYPE_QTCORE_QSIZE;
        VALUE_TYPE_QTGUI_QMATRIX3X3] "sourceTransform" [PValue QRectF; PValue QSize; PValue
        QOpenGLTextureBlitter_Origin] (RValue QMatrix3x3) [Static QOpenGLTextureBlitter];
    Sig [TYPE_QTOPENGL_QOPENGLDEBUGLOGGER] "startLogging" [PValue QOpenGLDebugLogger_LoggingMode] RVoid [On
        QOpenGLDebugLogger];
    Sig [] "stopLogging" [] RVoid [On QOpenGLDebugLogger];
    Sig [VALUE_TYPE_QTCORE_QRECT; VALUE_TYPE_QTCORE_QRECTF; VALUE_TYPE_QTGUI_QMATRIX4X4] "targetTransform"
        [PValue QRectF; PValue QRect] (RValue QMatrix4x4) [Static QOpenGLTextureBlitter];
    Sig [VALUE_TYPE_QTCORE_QBYTEARRAY] "uniformLocation" [PValue QByteArray] RDouble [On
        QOpenGLShaderProgram];
    Sig [] "uniformLocation" [PString true] RDouble [On QOpenGLShaderProgram]
  ].

Definition methods_qtopengl_0_s91 : list signature_row :=
  [
    Sig [TYPE_QTOPENGL_QOPENGLWINDOW] "updateBehavior" [] (RMeta QOpenGLWindow_UpdateBehavior) [On
        QOpenGLWindow]
  ].

Definition methods_qtopengl_0 : method_shard :=
  MethodShard QtOpenGL "KRY_QT6_NATIVE_METHODS_QTOPENGL_"
    (methods_qtopengl_0_i0)
    (methods_qtopengl_0_s0 ++ methods_qtopengl_0_s10 ++ methods_qtopengl_0_s18 ++ methods_qtopengl_0_s26 ++
        methods_qtopengl_0_s37 ++ methods_qtopengl_0_s48 ++ methods_qtopengl_0_s58 ++
        methods_qtopengl_0_s66 ++ methods_qtopengl_0_s74 ++ methods_qtopengl_0_s82 ++
        methods_qtopengl_0_s91)
    [].

Definition methods_qtopenglwidgets_0_i0 : list include :=
  [
    ClassInclude QtOpenGLWidgets QOpenGLWidget QOpenGLWidget;
    TypeInclude QtGui QOpenGLContext TYPE_QTGUI_QOPENGLCONTEXT;
    TypeInclude QtOpenGLWidgets QOpenGLWidget TYPE_QTOPENGLWIDGETS_QOPENGLWIDGET;
    TypeInclude QtGui QImage VALUE_TYPE_QTGUI_QIMAGE;
    TypeInclude QtGui QSurfaceFormat VALUE_TYPE_QTGUI_QSURFACEFORMAT
  ].

Definition methods_qtopenglwidgets_0_s0 : list signature_row :=
  [
    Sig [TYPE_QTGUI_QOPENGLCONTEXT] "context" [] RObject [On QOpenGLWidget];
    Sig [TYPE_QTOPENGLWIDGETS_QOPENGLWIDGET] "currentTargetBuffer" [] (RMeta QOpenGLWidget_TargetBuffer)
        [On QOpenGLWidget];
    Sig [] "doneCurrent" [] RVoid [On QOpenGLWidget];
    Sig [VALUE_TYPE_QTGUI_QSURFACEFORMAT] "format" [] (RValue QSurfaceFormat) [On QOpenGLWidget];
    Sig [VALUE_TYPE_QTGUI_QIMAGE] "grabFramebuffer" [] (RValue QImage) [On QOpenGLWidget];
    Sig [TYPE_QTOPENGLWIDGETS_QOPENGLWIDGET; VALUE_TYPE_QTGUI_QIMAGE] "grabFramebuffer" [PValue
        QOpenGLWidget_TargetBuffer] (RValue QImage) [On QOpenGLWidget];
    Sig [] "isValid" [] RBool [On QOpenGLWidget];
    Sig [] "makeCurrent" [] RVoid [On QOpenGLWidget];
    Sig [TYPE_QTOPENGLWIDGETS_QOPENGLWIDGET] "makeCurrent" [PValue QOpenGLWidget_TargetBuffer] RVoid [On
        QOpenGLWidget];
    Sig [VALUE_TYPE_QTGUI_QSURFACEFORMAT] "setFormat" [PValue QSurfaceFormat] RVoid [On QOpenGLWidget]
  ].

Definition methods_qtopenglwidgets_0_s10 : list signature_row :=
  [
    Sig [TYPE_QTOPENGLWIDGETS_QOPENGLWIDGET] "setUpdateBehavior" [PValue QOpenGLWidget_UpdateBehavior]
        RVoid [On QOpenGLWidget];
    Sig [TYPE_QTOPENGLWIDGETS_QOPENGLWIDGET] "updateBehavior" [] (RMeta QOpenGLWidget_UpdateBehavior) [On
        QOpenGLWidget]
  ].

Definition methods_qtopenglwidgets_0 : method_shard :=
  MethodShard QtOpenGLWidgets "KRY_QT6_NATIVE_METHODS_QTOPENGLWIDGETS_"
    (methods_qtopenglwidgets_0_i0)
    (methods_qtopenglwidgets_0_s0 ++ methods_qtopenglwidgets_0_s10)
    [].

Definition methods_qtpdf_0_i0 : list include :=
  [
    ClassInclude QtPdf QPdfBookmarkModel QPdfBookmarkModel;
    ClassInclude QtPdf QPdfDocument QPdfDocument;
    ClassInclude QtPdf QPdfLinkModel QPdfLinkModel;
    ClassInclude QtPdf QPdfPageNavigator QPdfPageNavigator;
    ClassInclude QtPdf QPdfPageRenderer QPdfPageRenderer;
    ClassInclude QtPdf QPdfSearchModel QPdfSearchModel;
    TypeInclude QtCore QAbstractListModel TYPE_QTCORE_QABSTRACTLISTMODEL;
    TypeInclude QtCore QIODevice TYPE_QTCORE_QIODEVICE;
    TypeInclude QtPdf QPdfDocument TYPE_QTPDF_QPDFDOCUMENT;
    TypeInclude QtPdf QPdfDocument TYPE_QTPDF_QPDFDOCUMENT;
    TypeInclude QtPdf QPdfPageRenderer TYPE_QTPDF_QPDFPAGERENDERER;
    TypeInclude QtCore QModelIndex VALUE_TYPE_QTCORE_QMODELINDEX;
    TypeInclude QtCore QPointF VALUE_TYPE_QTCORE_QPOINTF;
    TypeInclude QtCore QSize VALUE_TYPE_QTCORE_QSIZE;
    TypeInclude QtCore QSizeF VALUE_TYPE_QTCORE_QSIZEF;
    TypeInclude QtGui QImage VALUE_TYPE_QTGUI_QIMAGE;
    TypeInclude QtPdf QPdfDocumentRenderOptions VALUE_TYPE_QTPDF_QPDFDOCUMENTRENDEROPTIONS;
    TypeInclude QtPdf QPdfLink VALUE_TYPE_QTPDF_QPDFLINK;
    TypeInclude QtPdf QPdfSelection VALUE_TYPE_QTPDF_QPDFSELECTION
  ].

Definition methods_qtpdf_0_s0 : list signature_row :=
  [
    Sig [] "back" [] RVoid [On QPdfPageNavigator];
    Sig [] "backAvailable" [] RBool [On QPdfPageNavigator];
    Sig [] "clear" [] RVoid [On QPdfPageNavigator];
    Sig [] "close" [] RVoid [On QPdfDocument];
    Sig [VALUE_TYPE_QTCORE_QMODELINDEX] "columnCount" [PValue QModelIndex] RDouble [On QPdfBookmarkModel];
    Sig [] "count" [] RDouble [On QPdfSearchModel];
    Sig [VALUE_TYPE_QTCORE_QPOINTF] "currentLocation" [] (RValue QPointF) [On QPdfPageNavigator];
    Sig [] "currentPage" [] RDouble [On QPdfPageNavigator];
    Sig [] "currentZoom" [] RDouble [On QPdfPageNavigator];
    Sig [VALUE_TYPE_QTCORE_QMODELINDEX] "data" [PValue QModelIndex; PInt] RVariant [On QPdfBookmarkModel;
        On QPdfLinkModel; On QPdfSearchModel]
  ].

Definition methods_qtpdf_0_s10 : list signature_row :=
  [
    Sig [TYPE_QTPDF_QPDFDOCUMENT] "document" [] RObject [On QPdfBookmarkModel; On QPdfLinkModel; On
        QPdfPageRenderer; On QPdfSearchModel];
    Sig [TYPE_QTPDF_QPDFDOCUMENT] "error" [] (RMeta QPdfDocument_Error) [On QPdfDocument];
    Sig [] "forward" [] RVoid [On QPdfPageNavigator];
    Sig [] "forwardAvailable" [] RBool [On QPdfPageNavigator];
    Sig [VALUE_TYPE_QTPDF_QPDFSELECTION] "getAllText" [PInt] (RValue QPdfSelection) [On QPdfDocument];
    Sig [VALUE_TYPE_QTCORE_QPOINTF; VALUE_TYPE_QTPDF_QPDFSELECTION] "getSelection" [PInt; PValue QPointF;
        PValue QPointF] (RValue QPdfSelection) [On QPdfDocument];
    Sig [VALUE_TYPE_QTPDF_QPDFSELECTION] "getSelectionAtIndex" [PInt; PInt; PInt] (RValue QPdfSelection)
        [On QPdfDocument];
    Sig [VALUE_TYPE_QTCORE_QMODELINDEX] "index" [PInt; PInt; PValue QModelIndex] (RValue QModelIndex) [On
        QPdfBookmarkModel]
  ].

Definition methods_qtpdf_0_s18 : list signature_row :=
  [
    Sig [VALUE_TYPE_QTPDF_QPDFLINK] "jump" [PValue QPdfLink] RVoid [On QPdfPageNavigator];
    Sig [VALUE_TYPE_QTCORE_QPOINTF] "jump" [PInt; PValue QPointF; PNumber cxx_qreal] RVoid [On
        QPdfPageNavigator];
    Sig [VALUE_TYPE_QTCORE_QPOINTF; VALUE_TYPE_QTPDF_QPDFLINK] "linkAt" [PValue QPointF] (RValue QPdfLink)
        [On QPdfLinkModel];
    Sig [TYPE_QTCORE_QIODEVICE] "load" [PObject QIODevice false] RVoid [On QPdfDocument];
    Sig [TYPE_QTPDF_QPDFDOCUMENT] "load" [PString true] (RMeta QPdfDocument_Error) [On QPdfDocument];
    Sig [TYPE_QTPDF_QPDFDOCUMENT] "metaData" [PValue QPdfDocument_MetaDataField] RVariant [On QPdfDocument];
    Sig [] "page" [] RDouble [On QPdfLinkModel];
    Sig [] "pageCount" [] RDouble [On QPdfDocument];
    Sig [] "pageIndexForLabel" [PString true] RDouble [On QPdfDocument];
    Sig [] "pageLabel" [PInt] RString [On QPdfDocument]
  ].

Definition methods_qtpdf_0_s28 : list signature_row :=
  [
    Sig [TYPE_QTCORE_QABSTRACTLISTMODEL] "pageModel" [] RObject [On QPdfDocument];
    Sig [VALUE_TYPE_QTCORE_QSIZEF] "pagePointSize" [PInt] (RValue QSizeF) [On QPdfDocument];
    Sig [VALUE_TYPE_QTCORE_QMODELINDEX] "parent" [PValue QModelIndex] (RValue QModelIndex) [On
        QPdfBookmarkModel];
    Sig [] "password" [] RString [On QPdfDocument];
    Sig [VALUE_TYPE_QTCORE_QSIZE; VALUE_TYPE_QTGUI_QIMAGE; VALUE_TYPE_QTPDF_QPDFDOCUMENTRENDEROPTIONS]
        "render" [PInt; PValue QSize; PValue QPdfDocumentRenderOptions] (RValue QImage) [On QPdfDocument];
    Sig [TYPE_QTPDF_QPDFPAGERENDERER] "renderMode" [] (RMeta QPdfPageRenderer_RenderMode) [On
        QPdfPageRenderer];
    Sig [VALUE_TYPE_QTCORE_QSIZE; VALUE_TYPE_QTPDF_QPDFDOCUMENTRENDEROPTIONS] "requestPage" [PInt; PValue
        QSize; PValue QPdfDocumentRenderOptions] (RMeta cxx_quint64) [On QPdfPageRenderer];
    Sig [VALUE_TYPE_QTPDF_QPDFLINK] "resultAtIndex" [PInt] (RValue QPdfLink) [On QPdfSearchModel];
    Sig [VALUE_TYPE_QTPDF_QPDFLINK] "resultsOnPage" [PInt] (RList (IValue QPdfLink)) [On QPdfSearchModel]
  ].

Definition methods_qtpdf_0_s37 : list signature_row :=
  [
    Sig [VALUE_TYPE_QTCORE_QMODELINDEX] "rowCount" [PValue QModelIndex] RDouble [On QPdfBookmarkModel; On
        QPdfLinkModel; On QPdfSearchModel];
    Sig [] "searchString" [] RString [On QPdfSearchModel];
    Sig [TYPE_QTPDF_QPDFDOCUMENT] "setDocument" [PObject QPdfDocument false] RVoid [On QPdfBookmarkModel;
        On QPdfLinkModel; On QPdfPageRenderer; On QPdfSearchModel];
    Sig [] "setPage" [PInt] RVoid [On QPdfLinkModel];
    Sig [] "setPassword" [PString true] RVoid [On QPdfDocument];
    Sig [TYPE_QTPDF_QPDFPAGERENDERER] "setRenderMode" [PValue QPdfPageRenderer_RenderMode] RVoid [On
        QPdfPageRenderer];
    Sig [] "setSearchString" [PString true] RVoid [On QPdfSearchModel];
    Sig [TYPE_QTPDF_QPDFDOCUMENT] "status" [] (RMeta QPdfDocument_Status) [On QPdfDocument]
  ].

Definition methods_qtpdf_0_s45 : list signature_row :=
  [
    Sig [VALUE_TYPE_QTCORE_QPOINTF] "update" [PInt; PValue QPointF; PNumber cxx_qreal] RVoid [On
        QPdfPageNavigator]
  ].

Definition methods_qtpdf_0 : method_shard :=
  MethodShard QtPdf "KRY_QT6_NATIVE_METHODS_QTPDF_"
    (methods_qtpdf_0_i0)
    (methods_qtpdf_0_s0 ++ methods_qtpdf_0_s10 ++ methods_qtpdf_0_s18 ++ methods_qtpdf_0_s28 ++
        methods_qtpdf_0_s37 ++ methods_qtpdf_0_s45)
    [].

Definition methods_qtpdfwidgets_0_i0 : list include :=
  [
    ClassInclude QtPdfWidgets QPdfPageSelector QPdfPageSelector;
    ClassInclude QtPdfWidgets QPdfView QPdfView;
    TypeInclude QtPdf QPdfDocument TYPE_QTPDF_QPDFDOCUMENT;
    TypeInclude QtPdf QPdfPageNavigator TYPE_QTPDF_QPDFPAGENAVIGATOR;
    TypeInclude QtPdf QPdfSearchModel TYPE_QTPDF_QPDFSEARCHMODEL;
    TypeInclude QtPdfWidgets QPdfView TYPE_QTPDFWIDGETS_QPDFVIEW;
    TypeInclude QtCore QMargins VALUE_TYPE_QTCORE_QMARGINS
  ].

Definition methods_qtpdfwidgets_0_s0 : list signature_row :=
  [
    Sig [] "currentPage" [] RDouble [On QPdfPageSelector];
    Sig [] "currentPageLabel" [] RString [On QPdfPageSelector];
    Sig [] "currentSearchResultIndex" [] RDouble [On QPdfView];
    Sig [TYPE_QTPDF_QPDFDOCUMENT] "document" [] RObject [On QPdfPageSelector; On QPdfView];
    Sig [VALUE_TYPE_QTCORE_QMARGINS] "documentMargins" [] (RValue QMargins) [On QPdfView];
    Sig [TYPE_QTPDFWIDGETS_QPDFVIEW] "pageMode" [] (RMeta QPdfView_PageMode) [On QPdfView];
    Sig [TYPE_QTPDF_QPDFPAGENAVIGATOR] "pageNavigator" [] RObject [On QPdfView];
    Sig [] "pageSpacing" [] RDouble [On QPdfView];
    Sig [TYPE_QTPDF_QPDFSEARCHMODEL] "searchModel" [] RObject [On QPdfView];
    Sig [] "setCurrentPage" [PInt] RVoid [On QPdfPageSelector];
    Sig [] "setCurrentSearchResultIndex" [PInt] RVoid [On QPdfView]
  ].

Definition methods_qtpdfwidgets_0_s11 : list signature_row :=
  [
    Sig [TYPE_QTPDF_QPDFDOCUMENT] "setDocument" [PObject QPdfDocument false] RVoid [On QPdfPageSelector; On
        QPdfView];
    Sig [VALUE_TYPE_QTCORE_QMARGINS] "setDocumentMargins" [PValue QMargins] RVoid [On QPdfView];
    Sig [TYPE_QTPDFWIDGETS_QPDFVIEW] "setPageMode" [PValue QPdfView_PageMode] RVoid [On QPdfView];
    Sig [] "setPageSpacing" [PInt] RVoid [On QPdfView];
    Sig [TYPE_QTPDF_QPDFSEARCHMODEL] "setSearchModel" [PObject QPdfSearchModel false] RVoid [On QPdfView];
    Sig [] "setZoomFactor" [PNumber cxx_qreal] RVoid [On QPdfView];
    Sig [TYPE_QTPDFWIDGETS_QPDFVIEW] "setZoomMode" [PValue QPdfView_ZoomMode] RVoid [On QPdfView];
    Sig [] "zoomFactor" [] RDouble [On QPdfView];
    Sig [TYPE_QTPDFWIDGETS_QPDFVIEW] "zoomMode" [] (RMeta QPdfView_ZoomMode) [On QPdfView]
  ].

Definition methods_qtpdfwidgets_0 : method_shard :=
  MethodShard QtPdfWidgets "KRY_QT6_NATIVE_METHODS_QTPDFWIDGETS_"
    (methods_qtpdfwidgets_0_i0)
    (methods_qtpdfwidgets_0_s0 ++ methods_qtpdfwidgets_0_s11)
    [].

Definition methods_qtprintsupport_0_i0 : list include :=
  [
    ClassInclude QtPrintSupport QAbstractPrintDialog QAbstractPrintDialog;
    ClassInclude QtPrintSupport QPageSetupDialog QPageSetupDialog;
    ClassInclude QtPrintSupport QPrintDialog QPrintDialog;
    ClassInclude QtPrintSupport QPrintPreviewDialog QPrintPreviewDialog;
    ClassInclude QtPrintSupport QPrintPreviewWidget QPrintPreviewWidget;
    ClassInclude QtPrintSupport QPrinterInfo QPrinterInfo;
    TypeInclude QtWidgets QWidget TYPE_QTWIDGETS_QWIDGET;
    TypeInclude QtGui QPageLayout TYPE_QTGUI_QPAGELAYOUT;
    TypeInclude QtPrintSupport QAbstractPrintDialog TYPE_QTPRINTSUPPORT_QABSTRACTPRINTDIALOG;
    TypeInclude QtPrintSupport QPrintPreviewWidget TYPE_QTPRINTSUPPORT_QPRINTPREVIEWWIDGET;
    TypeInclude QtPrintSupport QPrinterInfo VALUE_TYPE_QTPRINTSUPPORT_QPRINTERINFO
  ].

Definition methods_qtprintsupport_0_s0 : list signature_row :=
  [
    Sig [] "availablePrinterNames" [] (RList (IMeta QString)) [Static QPrinterInfo];
    Sig [VALUE_TYPE_QTPRINTSUPPORT_QPRINTERINFO] "availablePrinters" [] (RList (IValue QPrinterInfo))
        [Static QPrinterInfo];
    Sig [] "currentPage" [] RDouble [On QPrintPreviewWidget];
    Sig [VALUE_TYPE_QTPRINTSUPPORT_QPRINTERINFO] "defaultPrinter" [] (RValue QPrinterInfo) [Static
        QPrinterInfo];
    Sig [] "defaultPrinterName" [] RString [Static QPrinterInfo];
    Sig [] "done" [PInt] RVoid [On QPageSetupDialog; On QPrintDialog; On QPrintPreviewDialog];
    Sig [] "fitInView" [] RVoid [On QPrintPreviewWidget];
    Sig [] "fitToWidth" [] RVoid [On QPrintPreviewWidget];
    Sig [] "fromPage" [] RDouble [On QAbstractPrintDialog];
    Sig [] "maxPage" [] RDouble [On QAbstractPrintDialog]
  ].

Definition methods_qtprintsupport_0_s10 : list signature_row :=
  [
    Sig [] "minPage" [] RDouble [On QAbstractPrintDialog];
    Sig [] "open" [] RVoid [On QPageSetupDialog; On QPrintDialog; On QPrintPreviewDialog];
    Sig [TYPE_QTPRINTSUPPORT_QABSTRACTPRINTDIALOG] "options" [] (RMeta
        QAbstractPrintDialog_PrintDialogOptions) [On QPrintDialog];
    Sig [TYPE_QTGUI_QPAGELAYOUT] "orientation" [] (RMeta QPageLayout_Orientation) [On QPrintPreviewWidget];
    Sig [] "pageCount" [] RDouble [On QPrintPreviewWidget];
    Sig [] "print" [] RVoid [On QPrintPreviewWidget];
    Sig [TYPE_QTPRINTSUPPORT_QABSTRACTPRINTDIALOG] "printRange" [] (RMeta QAbstractPrintDialog_PrintRange)
        [On QAbstractPrintDialog];
    Sig [VALUE_TYPE_QTPRINTSUPPORT_QPRINTERINFO] "printerInfo" [PString true] (RValue QPrinterInfo) [Static
        QPrinterInfo];
    Sig [] "setAllPagesViewMode" [] RVoid [On QPrintPreviewWidget];
    Sig [] "setCurrentPage" [PInt] RVoid [On QPrintPreviewWidget];
    Sig [] "setFacingPagesViewMode" [] RVoid [On QPrintPreviewWidget]
  ].

Definition methods_qtprintsupport_0_s21 : list signature_row :=
  [
    Sig [] "setFromTo" [PInt; PInt] RVoid [On QAbstractPrintDialog];
    Sig [] "setLandscapeOrientation" [] RVoid [On QPrintPreviewWidget];
    Sig [] "setMinMax" [PInt; PInt] RVoid [On QAbstractPrintDialog];
    Sig [TYPE_QTPRINTSUPPORT_QABSTRACTPRINTDIALOG] "setOption" [PValue
        QAbstractPrintDialog_PrintDialogOption; PBool] RVoid [On QPrintDialog];
    Sig [TYPE_QTWIDGETS_QWIDGET] "setOptionTabs" [PList (IObject QWidget)] RVoid [On QAbstractPrintDialog];
    Sig [TYPE_QTPRINTSUPPORT_QABSTRACTPRINTDIALOG] "setOptions" [PValue
        QAbstractPrintDialog_PrintDialogOptions] RVoid [On QPrintDialog];
    Sig [TYPE_QTGUI_QPAGELAYOUT] "setOrientation" [PValue QPageLayout_Orientation] RVoid [On
        QPrintPreviewWidget];
    Sig [] "setPortraitOrientation" [] RVoid [On QPrintPreviewWidget];
    Sig [TYPE_QTPRINTSUPPORT_QABSTRACTPRINTDIALOG] "setPrintRange" [PValue QAbstractPrintDialog_PrintRange]
        RVoid [On QAbstractPrintDialog]
  ].

Definition methods_qtprintsupport_0_s30 : list signature_row :=
  [
    Sig [] "setSinglePageViewMode" [] RVoid [On QPrintPreviewWidget];
    Sig [TYPE_QTPRINTSUPPORT_QPRINTPREVIEWWIDGET] "setViewMode" [PValue QPrintPreviewWidget_ViewMode] RVoid
        [On QPrintPreviewWidget];
    Sig [] "setVisible" [PBool] RVoid [On QPageSetupDialog; On QPrintDialog; On QPrintPreviewDialog; On
        QPrintPreviewWidget];
    Sig [] "setZoomFactor" [PNumber cxx_qreal] RVoid [On QPrintPreviewWidget];
    Sig [TYPE_QTPRINTSUPPORT_QPRINTPREVIEWWIDGET] "setZoomMode" [PValue QPrintPreviewWidget_ZoomMode] RVoid
        [On QPrintPreviewWidget];
    Sig [TYPE_QTPRINTSUPPORT_QABSTRACTPRINTDIALOG] "testOption" [PValue
        QAbstractPrintDialog_PrintDialogOption] RBool [On QPrintDialog];
    Sig [] "toPage" [] RDouble [On QAbstractPrintDialog];
    Sig [] "updatePreview" [] RVoid [On QPrintPreviewWidget];
    Sig [TYPE_QTPRINTSUPPORT_QPRINTPREVIEWWIDGET] "viewMode" [] (RMeta QPrintPreviewWidget_ViewMode) [On
        QPrintPreviewWidget];
    Sig [] "zoomFactor" [] RDouble [On QPrintPreviewWidget]
  ].

Definition methods_qtprintsupport_0_s40 : list signature_row :=
  [
    Sig [] "zoomIn" [PNumber cxx_qreal] RVoid [On QPrintPreviewWidget];
    Sig [TYPE_QTPRINTSUPPORT_QPRINTPREVIEWWIDGET] "zoomMode" [] (RMeta QPrintPreviewWidget_ZoomMode) [On
        QPrintPreviewWidget];
    Sig [] "zoomOut" [PNumber cxx_qreal] RVoid [On QPrintPreviewWidget]
  ].

Definition methods_qtprintsupport_0 : method_shard :=
  MethodShard QtPrintSupport "KRY_QT6_NATIVE_METHODS_QTPRINTSUPPORT_"
    (methods_qtprintsupport_0_i0)
    (methods_qtprintsupport_0_s0 ++ methods_qtprintsupport_0_s10 ++ methods_qtprintsupport_0_s21 ++
        methods_qtprintsupport_0_s30 ++ methods_qtprintsupport_0_s40)
    [].

Definition methods_qtqml_0_i0 : list include :=
  [
    ClassInclude QtQml QJSEngine QJSEngine;
    ClassInclude QtQml QQmlApplicationEngine QQmlApplicationEngine;
    ClassInclude QtQml QQmlComponent QQmlComponent;
    ClassInclude QtQml QQmlContext QQmlContext;
    ClassInclude QtQml QQmlEngine QQmlEngine;
    ClassInclude QtQml QQmlExpression QQmlExpression;
    ClassInclude QtQml QQmlExtensionPlugin QQmlExtensionPlugin;
    ClassInclude QtQml QQmlFileSelector QQmlFileSelector;
    ClassInclude QtQml QQmlProperty QQmlProperty;
    ClassInclude QtQml QQmlPropertyMap QQmlPropertyMap;
    TypeInclude QtCore QFileSelector TYPE_QTCORE_QFILESELECTOR;
    TypeInclude QtCore QObject TYPE_QTCORE_QOBJECT;
    TypeInclude QtNetwork QNetworkAccessManager TYPE_QTNETWORK_QNETWORKACCESSMANAGER;
    TypeInclude QtQml QQmlContext TYPE_QTQML_QQMLCONTEXT;
    TypeInclude QtQml QQmlEngine TYPE_QTQML_QQMLENGINE;
    TypeInclude QtQml QQmlImageProviderBase TYPE_QTQML_QQMLIMAGEPROVIDERBASE;
    TypeInclude QtQml QJSEngine TYPE_QTQML_QJSENGINE;
    TypeInclude QtQml QJSValue TYPE_QTQML_QJSVALUE;
    TypeInclude QtQml QQmlAbstractUrlInterceptor TYPE_QTQML_QQMLABSTRACTURLINTERCEPTOR;
    TypeInclude QtQml QQmlComponent TYPE_QTQML_QQMLCOMPONENT;
    TypeInclude QtCore QByteArray VALUE_TYPE_QTCORE_QBYTEARRAY;
    TypeInclude QtCore QUrl VALUE_TYPE_QTCORE_QURL;
    TypeInclude QtQml QJSManagedValue VALUE_TYPE_QTQML_QJSMANAGEDVALUE;
    TypeInclude QtQml QJSPrimitiveValue VALUE_TYPE_QTQML_QJSPRIMITIVEVALUE;
    TypeInclude QtQml QJSValue VALUE_TYPE_QTQML_QJSVALUE;
    TypeInclude QtQml QQmlError VALUE_TYPE_QTQML_QQMLERROR;
    TypeInclude QtQml QQmlIncubator VALUE_TYPE_QTQML_QQMLINCUBATOR
  ].

Definition methods_qtqml_0_s0 : list signature_row :=
  [
    Sig [TYPE_QTQML_QQMLIMAGEPROVIDERBASE] "addImageProvider" [PString true; PObject QQmlImageProviderBase
        false] RVoid [On QQmlEngine];
    Sig [] "addImportPath" [PString true] RVoid [On QQmlEngine];
    Sig [] "addPluginPath" [PString true] RVoid [On QQmlEngine];
    Sig [VALUE_TYPE_QTCORE_QURL] "baseUrl" [] (RValue QUrl) [On QQmlContext; On QQmlEngine; On
        QQmlExtensionPlugin];
    Sig [TYPE_QTCORE_QOBJECT; TYPE_QTQML_QQMLCONTEXT] "beginCreate" [PObject QQmlContext false] RObject [On
        QQmlComponent];
    Sig [VALUE_TYPE_QTQML_QJSVALUE] "catchError" [] (RValue QJSValue) [On QJSEngine];
    Sig [TYPE_QTQML_QQMLCONTEXT] "childContexts" [] (RList (IObject QObject)) [On QQmlContext];
    Sig [] "clear" [PString true] RVoid [On QQmlPropertyMap];
    Sig [] "clearComponentCache" [] RVoid [On QQmlEngine]
  ].

Definition methods_qtqml_0_s9 : list signature_row :=
  [
    Sig [] "clearError" [] RVoid [On QQmlExpression];
    Sig [] "clearSingletons" [] RVoid [On QQmlEngine];
    Sig [] "collectGarbage" [] RVoid [On QJSEngine];
    Sig [] "columnNumber" [] RDouble [On QQmlExpression];
    Sig [] "completeCreate" [] RVoid [On QQmlComponent];
    Sig [] "contains" [PString true] RBool [On QQmlPropertyMap];
    Sig [TYPE_QTQML_QQMLCONTEXT] "context" [] RObject [On QQmlExpression];
    Sig [TYPE_QTCORE_QOBJECT; TYPE_QTQML_QQMLCONTEXT] "contextForObject" [PObject QObject false] RObject
        [Static QQmlEngine];
    Sig [TYPE_QTCORE_QOBJECT] "contextObject" [] RObject [On QQmlContext];
    Sig [] "contextProperty" [PString true] RVariant [On QQmlContext];
    Sig [] "count" [] RDouble [On QQmlPropertyMap]
  ].

Definition methods_qtqml_0_s20 : list signature_row :=
  [
    Sig [TYPE_QTCORE_QOBJECT; TYPE_QTQML_QQMLCONTEXT] "create" [PObject QQmlContext false] RObject [On
        QQmlComponent];
    Sig [TYPE_QTQML_QQMLCONTEXT; VALUE_TYPE_QTQML_QQMLINCUBATOR] "create" [PValue QQmlIncubator; PObject
        QQmlContext false; PObject QQmlContext false] RVoid [On QQmlComponent];
    Sig [TYPE_QTQML_QQMLCONTEXT] "creationContext" [] RObject [On QQmlComponent];
    Sig [TYPE_QTQML_QQMLENGINE] "engine" [] RObject [On QQmlComponent; On QQmlContext; On QQmlExpression];
    Sig [VALUE_TYPE_QTQML_QQMLERROR] "error" [] (RValue QQmlError) [On QQmlExpression];
    Sig [VALUE_TYPE_QTQML_QQMLERROR] "errors" [] (RList (IValue QQmlError)) [On QQmlComponent];
    Sig [] "expression" [] RString [On QQmlExpression];
    Sig [TYPE_QTCORE_QOBJECT] "findObjectRecursively" [PString true] RObject [On QQmlContext];
    Sig [TYPE_QTCORE_QOBJECT] "findObjectsRecursively" [PString true] (RList (IObject QObject)) [On
        QQmlContext]
  ].

Definition methods_qtqml_0_s29 : list signature_row :=
  [
    Sig [] "freeze" [] RVoid [On QQmlPropertyMap];
    Sig [VALUE_TYPE_QTQML_QJSVALUE] "globalObject" [] (RValue QJSValue) [On QJSEngine];
    Sig [] "hasError" [] RBool [On QJSEngine; On QQmlExpression];
    Sig [TYPE_QTQML_QQMLIMAGEPROVIDERBASE] "imageProvider" [PString true] RObject [On QQmlEngine];
    Sig [VALUE_TYPE_QTQML_QJSVALUE] "importModule" [PString true] (RValue QJSValue) [On QJSEngine];
    Sig [] "importPathList" [] (RList (IMeta QString)) [On QQmlEngine];
    Sig [] "insert" [PString true; PVariant] RVoid [On QQmlPropertyMap];
    Sig [TYPE_QTQML_QQMLABSTRACTURLINTERCEPTOR; VALUE_TYPE_QTCORE_QURL] "interceptUrl" [PValue QUrl; PValue
        QQmlAbstractUrlInterceptor_DataType] (RValue QUrl) [On QQmlEngine];
    Sig [] "isBound" [] RBool [On QQmlComponent];
    Sig [] "isEmpty" [] RBool [On QQmlPropertyMap]
  ].

Definition methods_qtqml_0_s39 : list signature_row :=
  [
    Sig [] "isError" [] RBool [On QQmlComponent];
    Sig [] "isInterrupted" [] RBool [On QJSEngine];
    Sig [] "isLoading" [] RBool [On QQmlComponent];
    Sig [] "isNull" [] RBool [On QQmlComponent];
    Sig [] "isReady" [] RBool [On QQmlComponent];
    Sig [] "isValid" [] RBool [On QQmlContext];
    Sig [] "keys" [] (RList (IMeta QString)) [On QQmlPropertyMap];
    Sig [] "lineNumber" [] RDouble [On QQmlExpression];
    Sig [] "load" [PString true] RVoid [On QQmlApplicationEngine];
    Sig [VALUE_TYPE_QTCORE_QURL] "load" [PValue QUrl] RVoid [On QQmlApplicationEngine];
    Sig [VALUE_TYPE_QTCORE_QBYTEARRAY; VALUE_TYPE_QTCORE_QURL] "loadData" [PValue QByteArray; PValue QUrl]
        RVoid [On QQmlApplicationEngine]
  ].

Definition methods_qtqml_0_s50 : list signature_row :=
  [
    Sig [VALUE_TYPE_QTCORE_QURL] "loadUrl" [PValue QUrl] RVoid [On QQmlComponent];
    Sig [TYPE_QTQML_QQMLCOMPONENT; VALUE_TYPE_QTCORE_QURL] "loadUrl" [PValue QUrl; PValue
        QQmlComponent_CompilationMode] RVoid [On QQmlComponent];
    Sig [] "markCurrentFunctionAsTranslationBinding" [] RVoid [On QQmlEngine];
    Sig [TYPE_QTCORE_QOBJECT] "nameForObject" [PObject QObject false] RString [On QQmlContext];
    Sig [TYPE_QTNETWORK_QNETWORKACCESSMANAGER] "networkAccessManager" [] RObject [On QQmlEngine];
    Sig [VALUE_TYPE_QTQML_QJSVALUE] "newArray" [PUInt] (RValue QJSValue) [On QJSEngine];
    Sig [TYPE_QTQML_QJSVALUE; VALUE_TYPE_QTQML_QJSVALUE] "newErrorObject" [PValue QJSValue_ErrorType;
        PString true] (RValue QJSValue) [On QJSEngine];
    Sig [VALUE_TYPE_QTQML_QJSVALUE] "newObject" [] (RValue QJSValue) [On QJSEngine];
    Sig [TYPE_QTCORE_QOBJECT; VALUE_TYPE_QTQML_QJSVALUE] "newQObject" [PObject QObject false] (RValue
        QJSValue) [On QJSEngine]
  ].

Definition methods_qtqml_0_s59 : list signature_row :=
  [
    Sig [VALUE_TYPE_QTQML_QJSVALUE] "newSymbol" [PString true] (RValue QJSValue) [On QJSEngine];
    Sig [] "notifyOnValueChanged" [] RBool [On QQmlExpression];
    Sig [TYPE_QTCORE_QOBJECT] "objectForName" [PString true] RObject [On QQmlContext];
    Sig [TYPE_QTCORE_QOBJECT; TYPE_QTQML_QJSENGINE] "objectOwnership" [PObject QObject false] (RMeta
        QJSEngine_ObjectOwnership) [Static QJSEngine];
    Sig [] "offlineStorageDatabaseFilePath" [PString true] RString [On QQmlEngine];
    Sig [] "offlineStoragePath" [] RString [On QQmlEngine];
    Sig [] "outputWarningsToStandardError" [] RBool [On QQmlEngine];
    Sig [TYPE_QTQML_QQMLCONTEXT] "parentContext" [] RObject [On QQmlContext];
    Sig [] "pluginPathList" [] (RList (IMeta QString)) [On QQmlEngine];
    Sig [] "progress" [] RDouble [On QQmlComponent];
    Sig [TYPE_QTCORE_QOBJECT] "read" [PObject QObject false; PString true] RVariant [Static QQmlProperty]
  ].

Definition methods_qtqml_0_s70 : list signature_row :=
  [
    Sig [TYPE_QTCORE_QOBJECT; TYPE_QTQML_QQMLCONTEXT] "read" [PObject QObject false; PString true; PObject
        QQmlContext false] RVariant [Static QQmlProperty];
    Sig [TYPE_QTCORE_QOBJECT; TYPE_QTQML_QQMLENGINE] "read" [PObject QObject false; PString true; PObject
        QQmlEngine false] RVariant [Static QQmlProperty];
    Sig [VALUE_TYPE_QTQML_QJSVALUE] "registerModule" [PString true; PValue QJSValue] RBool [On QJSEngine];
    Sig [] "removeImageProvider" [PString true] RVoid [On QQmlEngine];
    Sig [VALUE_TYPE_QTCORE_QURL] "resolvedUrl" [PValue QUrl] (RValue QUrl) [On QQmlContext];
    Sig [] "retranslate" [] RVoid [On QQmlEngine];
    Sig [TYPE_QTQML_QQMLCONTEXT] "rootContext" [] RObject [On QQmlEngine];
    Sig [TYPE_QTCORE_QOBJECT] "rootObjects" [] (RList (IObject QObject)) [On QQmlApplicationEngine];
    Sig [TYPE_QTCORE_QOBJECT] "scopeObject" [] RObject [On QQmlExpression]
  ].

Definition methods_qtqml_0_s79 : list signature_row :=
  [
    Sig [TYPE_QTCORE_QFILESELECTOR] "selector" [] RObject [On QQmlFileSelector];
    Sig [VALUE_TYPE_QTCORE_QURL] "setBaseUrl" [PValue QUrl] RVoid [On QQmlContext; On QQmlEngine];
    Sig [TYPE_QTCORE_QOBJECT; TYPE_QTQML_QQMLCONTEXT] "setContextForObject" [PObject QObject false; PObject
        QQmlContext false] RVoid [Static QQmlEngine];
    Sig [TYPE_QTCORE_QOBJECT] "setContextObject" [PObject QObject false] RVoid [On QQmlContext];
    Sig [TYPE_QTCORE_QOBJECT] "setContextProperty" [PString true; PObject QObject false] RVoid [On
        QQmlContext];
    Sig [] "setContextProperty" [PString true; PVariant] RVoid [On QQmlContext];
    Sig [VALUE_TYPE_QTCORE_QBYTEARRAY; VALUE_TYPE_QTCORE_QURL] "setData" [PValue QByteArray; PValue QUrl]
        RVoid [On QQmlComponent];
    Sig [] "setExpression" [PString true] RVoid [On QQmlExpression]
  ].

Definition methods_qtqml_0_s87 : list signature_row :=
  [
    Sig [] "setExtraFileSelectors" [PStringList] RVoid [On QQmlApplicationEngine];
    Sig [] "setExtraSelectors" [PStringList] RVoid [On QQmlFileSelector];
    Sig [] "setImportPathList" [PStringList] RVoid [On QQmlEngine];
    Sig [] "setInterrupted" [PBool] RVoid [On QJSEngine];
    Sig [] "setNotifyOnValueChanged" [PBool] RVoid [On QQmlExpression];
    Sig [] "setOfflineStoragePath" [PString true] RVoid [On QQmlEngine];
    Sig [] "setOutputWarningsToStandardError" [PBool] RVoid [On QQmlEngine];
    Sig [] "setPluginPathList" [PStringList] RVoid [On QQmlEngine];
    Sig [TYPE_QTCORE_QFILESELECTOR] "setSelector" [PObject QFileSelector false] RVoid [On QQmlFileSelector]
  ].

Definition methods_qtqml_0_s96 : list signature_row :=
  [
    Sig [] "setSourceLocation" [PString true; PInt; PInt] RVoid [On QQmlExpression];
    Sig [] "setUiLanguage" [PString true] RVoid [On QJSEngine];
    Sig [] "size" [] RDouble [On QQmlPropertyMap];
    Sig [] "sourceFile" [] RString [On QQmlExpression];
    Sig [TYPE_QTQML_QQMLCOMPONENT] "status" [] (RMeta QQmlComponent_Status) [On QQmlComponent];
    Sig [VALUE_TYPE_QTQML_QJSVALUE] "throwError" [PValue QJSValue] RVoid [On QJSEngine];
    Sig [TYPE_QTQML_QJSVALUE] "throwError" [PValue QJSValue_ErrorType; PString true] RVoid [On QJSEngine];
    Sig [] "throwError" [PString true] RVoid [On QJSEngine; On QJSEngine];
    Sig [VALUE_TYPE_QTQML_QJSMANAGEDVALUE] "toManagedValue" [PVariant] (RValue QJSManagedValue) [On
        QJSEngine];
    Sig [VALUE_TYPE_QTQML_QJSPRIMITIVEVALUE] "toPrimitiveValue" [PVariant] (RValue QJSPrimitiveValue) [On
        QJSEngine]
  ].

Definition methods_qtqml_0_s106 : list signature_row :=
  [
    Sig [VALUE_TYPE_QTQML_QJSVALUE] "toScriptValue" [PVariant] (RValue QJSValue) [On QJSEngine];
    Sig [] "trimComponentCache" [] RVoid [On QQmlEngine];
    Sig [] "uiLanguage" [] RString [On QJSEngine];
    Sig [] "unregisterTypes" [] RVoid [On QQmlExtensionPlugin];
    Sig [VALUE_TYPE_QTCORE_QURL] "url" [] (RValue QUrl) [On QQmlComponent];
    Sig [] "value" [PString true] RVariant [On QQmlPropertyMap];
    Sig [TYPE_QTCORE_QOBJECT] "write" [PObject QObject false; PString true; PVariant] RBool [Static
        QQmlProperty];
    Sig [TYPE_QTCORE_QOBJECT; TYPE_QTQML_QQMLCONTEXT] "write" [PObject QObject false; PString true;
        PVariant; PObject QQmlContext false] RBool [Static QQmlProperty];
    Sig [TYPE_QTCORE_QOBJECT; TYPE_QTQML_QQMLENGINE] "write" [PObject QObject false; PString true;
        PVariant; PObject QQmlEngine false] RBool [Static QQmlProperty]
  ].

Definition methods_qtqml_0 : method_shard :=
  MethodShard QtQml "KRY_QT6_NATIVE_METHODS_QTQML_"
    (methods_qtqml_0_i0)
    (methods_qtqml_0_s0 ++ methods_qtqml_0_s9 ++ methods_qtqml_0_s20 ++ methods_qtqml_0_s29 ++
        methods_qtqml_0_s39 ++ methods_qtqml_0_s50 ++ methods_qtqml_0_s59 ++ methods_qtqml_0_s70 ++
        methods_qtqml_0_s79 ++ methods_qtqml_0_s87 ++ methods_qtqml_0_s96 ++ methods_qtqml_0_s106)
    [].

Definition methods_qtquick3d_0_i0 : list include :=
  [
    ClassInclude QtQuick3D QQuick3D QQuick3D;
    ClassInclude QtQuick3D QQuick3DGeometry QQuick3DGeometry;
    ClassInclude QtQuick3D QQuick3DObject QQuick3DObject;
    ClassInclude QtQuick3D QQuick3DTextureData QQuick3DTextureData;
    TypeInclude QtQuick3D QQuick3DObject TYPE_QTQUICK3D_QQUICK3DOBJECT;
    TypeInclude QtQuick3D QQuick3DGeometry TYPE_QTQUICK3D_QQUICK3DGEOMETRY;
    TypeInclude QtQuick3D QQuick3DTextureData TYPE_QTQUICK3D_QQUICK3DTEXTUREDATA;
    TypeInclude QtCore QByteArray VALUE_TYPE_QTCORE_QBYTEARRAY;
    TypeInclude QtCore QSize VALUE_TYPE_QTCORE_QSIZE;
    TypeInclude QtGui QSurfaceFormat VALUE_TYPE_QTGUI_QSURFACEFORMAT;
    TypeInclude QtGui QVector3D VALUE_TYPE_QTGUI_QVECTOR3D
  ].

Definition methods_qtquick3d_0_s0 : list signature_row :=
  [
    Sig [TYPE_QTQUICK3D_QQUICK3DGEOMETRY] "addAttribute" [PValue QQuick3DGeometry_Attribute] RVoid [On
        QQuick3DGeometry];
    Sig [VALUE_TYPE_QTGUI_QVECTOR3D] "addSubset" [PInt; PInt; PValue QVector3D; PValue QVector3D; PString
        true] RVoid [On QQuick3DGeometry];
    Sig [TYPE_QTQUICK3D_QQUICK3DGEOMETRY] "addTargetAttribute" [PValue QQuick3DGeometry_TargetAttribute]
        RVoid [On QQuick3DGeometry];
    Sig [TYPE_QTQUICK3D_QQUICK3DGEOMETRY] "attribute" [PInt] (RMeta QQuick3DGeometry_Attribute) [On
        QQuick3DGeometry];
    Sig [] "attributeCount" [] RDouble [On QQuick3DGeometry];
    Sig [VALUE_TYPE_QTGUI_QVECTOR3D] "boundsMax" [] (RValue QVector3D) [On QQuick3DGeometry];
    Sig [VALUE_TYPE_QTGUI_QVECTOR3D] "boundsMin" [] (RValue QVector3D) [On QQuick3DGeometry];
    Sig [] "clear" [] RVoid [On QQuick3DGeometry];
    Sig [] "depth" [] RDouble [On QQuick3DTextureData];
    Sig [TYPE_QTQUICK3D_QQUICK3DTEXTUREDATA] "format" [] (RMeta QQuick3DTextureData_Format) [On
        QQuick3DTextureData]
  ].

Definition methods_qtquick3d_0_s10 : list signature_row :=
  [
    Sig [] "hasTransparency" [] RBool [On QQuick3DTextureData];
    Sig [VALUE_TYPE_QTGUI_QSURFACEFORMAT] "idealSurfaceFormat" [PInt] (RValue QSurfaceFormat) [Static
        QQuick3D];
    Sig [VALUE_TYPE_QTCORE_QBYTEARRAY] "indexData" [] (RValue QByteArray) [On QQuick3DGeometry];
    Sig [TYPE_QTQUICK3D_QQUICK3DOBJECT] "parentItem" [] RObject [On QQuick3DObject];
    Sig [TYPE_QTQUICK3D_QQUICK3DGEOMETRY] "primitiveType" [] (RMeta QQuick3DGeometry_PrimitiveType) [On
        QQuick3DGeometry];
    Sig [VALUE_TYPE_QTGUI_QVECTOR3D] "setBounds" [PValue QVector3D; PValue QVector3D] RVoid [On
        QQuick3DGeometry];
    Sig [] "setDepth" [PInt] RVoid [On QQuick3DTextureData];
    Sig [TYPE_QTQUICK3D_QQUICK3DTEXTUREDATA] "setFormat" [PValue QQuick3DTextureData_Format] RVoid [On
        QQuick3DTextureData];
    Sig [] "setHasTransparency" [PBool] RVoid [On QQuick3DTextureData];
    Sig [VALUE_TYPE_QTCORE_QBYTEARRAY] "setIndexData" [PValue QByteArray] RVoid [On QQuick3DGeometry]
  ].

Definition methods_qtquick3d_0_s20 : list signature_row :=
  [
    Sig [VALUE_TYPE_QTCORE_QBYTEARRAY] "setIndexData" [PInt; PValue QByteArray] RVoid [On QQuick3DGeometry];
    Sig [TYPE_QTQUICK3D_QQUICK3DOBJECT] "setParentItem" [PObject QQuick3DObject false] RVoid [On
        QQuick3DObject];
    Sig [TYPE_QTQUICK3D_QQUICK3DGEOMETRY] "setPrimitiveType" [PValue QQuick3DGeometry_PrimitiveType] RVoid
        [On QQuick3DGeometry];
    Sig [VALUE_TYPE_QTCORE_QSIZE] "setSize" [PValue QSize] RVoid [On QQuick3DTextureData];
    Sig [] "setState" [PString true] RVoid [On QQuick3DObject];
    Sig [] "setStride" [PInt] RVoid [On QQuick3DGeometry];
    Sig [VALUE_TYPE_QTCORE_QBYTEARRAY] "setTargetData" [PValue QByteArray] RVoid [On QQuick3DGeometry];
    Sig [VALUE_TYPE_QTCORE_QBYTEARRAY] "setTargetData" [PInt; PValue QByteArray] RVoid [On
        QQuick3DGeometry];
    Sig [VALUE_TYPE_QTCORE_QBYTEARRAY] "setTextureData" [PValue QByteArray] RVoid [On QQuick3DTextureData]
  ].

Definition methods_qtquick3d_0_s29 : list signature_row :=
  [
    Sig [VALUE_TYPE_QTCORE_QBYTEARRAY] "setVertexData" [PValue QByteArray] RVoid [On QQuick3DGeometry];
    Sig [VALUE_TYPE_QTCORE_QBYTEARRAY] "setVertexData" [PInt; PValue QByteArray] RVoid [On
        QQuick3DGeometry];
    Sig [VALUE_TYPE_QTCORE_QSIZE] "size" [] (RValue QSize) [On QQuick3DTextureData];
    Sig [] "state" [] RString [On QQuick3DObject];
    Sig [] "stride" [] RDouble [On QQuick3DGeometry];
    Sig [VALUE_TYPE_QTGUI_QVECTOR3D] "subsetBoundsMax" [PInt] (RValue QVector3D) [On QQuick3DGeometry];
    Sig [VALUE_TYPE_QTGUI_QVECTOR3D] "subsetBoundsMin" [PInt] (RValue QVector3D) [On QQuick3DGeometry];
    Sig [] "subsetCount" [] RDouble [On QQuick3DGeometry];
    Sig [] "subsetCount" [PInt] RDouble [On QQuick3DGeometry];
    Sig [] "subsetName" [PInt] RString [On QQuick3DGeometry]
  ].

Definition methods_qtquick3d_0_s39 : list signature_row :=
  [
    Sig [] "subsetOffset" [PInt] RDouble [On QQuick3DGeometry];
    Sig [TYPE_QTQUICK3D_QQUICK3DGEOMETRY] "targetAttribute" [PInt] (RMeta QQuick3DGeometry_TargetAttribute)
        [On QQuick3DGeometry];
    Sig [] "targetAttributeCount" [] RDouble [On QQuick3DGeometry];
    Sig [VALUE_TYPE_QTCORE_QBYTEARRAY] "targetData" [] (RValue QByteArray) [On QQuick3DGeometry];
    Sig [VALUE_TYPE_QTCORE_QBYTEARRAY] "textureData" [] (RValue QByteArray) [On QQuick3DTextureData];
    Sig [VALUE_TYPE_QTCORE_QBYTEARRAY] "vertexData" [] (RValue QByteArray) [On QQuick3DGeometry]
  ].

Definition methods_qtquick3d_0 : method_shard :=
  MethodShard QtQuick3D "KRY_QT6_NATIVE_METHODS_QTQUICK3D_"
    (methods_qtquick3d_0_i0)
    (methods_qtquick3d_0_s0 ++ methods_qtquick3d_0_s10 ++ methods_qtquick3d_0_s20 ++
        methods_qtquick3d_0_s29 ++ methods_qtquick3d_0_s39)
    [].

Definition methods_qtquick_0_i0 : list include :=
  [
    ClassInclude QtQuick QQuickFramebufferObject QQuickFramebufferObject;
    ClassInclude QtQuick QQuickGraphicsDevice QQuickGraphicsDevice;
    ClassInclude QtQuick QQuickImageProvider QQuickImageProvider;
    ClassInclude QtQuick QQuickImageResponse QQuickImageResponse;
    ClassInclude QtQuick QQuickItem QQuickItem;
    ClassInclude QtQuick QQuickItemGrabResult QQuickItemGrabResult;
    ClassInclude QtQuick QQuickPaintedItem QQuickPaintedItem;
    ClassInclude QtQuick QQuickRenderControl QQuickRenderControl;
    ClassInclude QtQuick QQuickRenderTarget QQuickRenderTarget;
    ClassInclude QtQuick QQuickTextDocument QQuickTextDocument;
    ClassInclude QtQuick QQuickTextureFactory QQuickTextureFactory;
    ClassInclude QtQuick QQuickView QQuickView;
    ClassInclude QtQuick QQuickWindow QQuickWindow;
    ClassInclude QtQuick QSGGeometry QSGGeometry;
    ClassInclude QtQuick QSGRendererInterface QSGRendererInterface;
    ClassInclude QtQuick QSGTexture QSGTexture;
    TypeInclude QtCore QObject TYPE_QTCORE_QOBJECT;
    TypeInclude QtCore QThread TYPE_QTCORE_QTHREAD;
    TypeInclude QtGui QOpenGLContext TYPE_QTGUI_QOPENGLCONTEXT;
    TypeInclude QtGui QTextDocument TYPE_QTGUI_QTEXTDOCUMENT;
    TypeInclude QtQml QQmlContext TYPE_QTQML_QQMLCONTEXT;
    TypeInclude QtQml QQmlEngine TYPE_QTQML_QQMLENGINE;
    TypeInclude QtQuick QQuickItem TYPE_QTQUICK_QQUICKITEM;
    TypeInclude QtQuick QQuickTextureFactory TYPE_QTQUICK_QQUICKTEXTUREFACTORY;
    TypeInclude QtQuick QQuickWindow TYPE_QTQUICK_QQUICKWINDOW;
    TypeInclude QtQuick QSGTexture TYPE_QTQUICK_QSGTEXTURE;
    TypeInclude QtQuick QSGTextureProvider TYPE_QTQUICK_QSGTEXTUREPROVIDER;
    EnumDefine ENUM_QT_FOCUSPOLICY;
    EnumDefine ENUM_QT_FOCUSREASON;
    EnumDefine ENUM_QT_INPUTMETHODQUERY;
    EnumDefine ENUM_QT_MOUSEBUTTONS;
    TypeInclude QtQml QQmlImageProviderBase TYPE_QTQML_QQMLIMAGEPROVIDERBASE;
    TypeInclude QtQuick QQuickItem TYPE_QTQUICK_QQUICKITEM;
    TypeInclude QtQuick QQuickPaintedItem TYPE_QTQUICK_QQUICKPAINTEDITEM;
    TypeInclude QtQuick QQuickRenderTarget TYPE_QTQUICK_QQUICKRENDERTARGET;
    TypeInclude QtQuick QQuickTextDocument TYPE_QTQUICK_QQUICKTEXTDOCUMENT;
    TypeInclude QtQuick QQuickView TYPE_QTQUICK_QQUICKVIEW;
    TypeInclude QtQuick QQuickWindow TYPE_QTQUICK_QQUICKWINDOW;
    TypeInclude QtQuick QSGGeometry TYPE_QTQUICK_QSGGEOMETRY;
    TypeInclude QtQuick QSGRendererInterface TYPE_QTQUICK_QSGRENDERERINTERFACE;
    TypeInclude QtQuick QSGTexture TYPE_QTQUICK_QSGTEXTURE;
    TypeInclude QtCore QPointF VALUE_TYPE_QTCORE_QPOINTF;
    TypeInclude QtCore QRect VALUE_TYPE_QTCORE_QRECT;
    TypeInclude QtCore QRectF VALUE_TYPE_QTCORE_QRECTF;
    TypeInclude QtCore QSize VALUE_TYPE_QTCORE_QSIZE;
    TypeInclude QtCore QSizeF VALUE_TYPE_QTCORE_QSIZEF;
    TypeInclude QtCore QUrl VALUE_TYPE_QTCORE_QURL;
    TypeInclude QtGui QColor VALUE_TYPE_QTGUI_QCOLOR;
    TypeInclude QtGui QCursor VALUE_TYPE_QTGUI_QCURSOR;
    TypeInclude QtGui QImage VALUE_TYPE_QTGUI_QIMAGE;
    TypeInclude QtQml QQmlError VALUE_TYPE_QTQML_QQMLERROR;
    TypeInclude QtQuick QQuickGraphicsConfiguration VALUE_TYPE_QTQUICK_QQUICKGRAPHICSCONFIGURATION;
    TypeInclude QtQuick QQuickGraphicsDevice VALUE_TYPE_QTQUICK_QQUICKGRAPHICSDEVICE;
    TypeInclude QtQuick QQuickRenderTarget VALUE_TYPE_QTQUICK_QQUICKRENDERTARGET
  ].

Definition methods_qtquick_0_s0 : list signature_row :=
  [
    Sig [] "acceptHoverEvents" [] RBool [On QQuickItem];
    Sig [] "acceptTouchEvents" [] RBool [On QQuickItem];
    Sig [ENUM_QT_MOUSEBUTTONS] "acceptedMouseButtons" [] (RMeta Qt_MouseButtons) [On QQuickItem];
    Sig [TYPE_QTQUICK_QQUICKITEM] "activeFocusItem" [] RObject [On QQuickWindow];
    Sig [] "activeFocusOnTab" [] RBool [On QQuickItem];
    Sig [TYPE_QTQUICK_QSGTEXTURE] "anisotropyLevel" [] (RMeta QSGTexture_AnisotropyLevel) [On QSGTexture];
    Sig [] "antialiasing" [] RBool [On QQuickItem; On QQuickPaintedItem];
    Sig [] "baselineOffset" [] RDouble [On QQuickItem];
    Sig [] "beginExternalCommands" [] RVoid [On QQuickWindow];
    Sig [] "beginFrame" [] RVoid [On QQuickRenderControl];
    Sig [] "cancel" [] RVoid [On QQuickImageResponse]
  ].

Definition methods_qtquick_0_s11 : list signature_row :=
  [
    Sig [TYPE_QTQUICK_QQUICKITEM] "childAt" [PNumber cxx_qreal; PNumber cxx_qreal] RObject [On QQuickItem];
    Sig [TYPE_QTQUICK_QQUICKITEM] "childItems" [] (RList (IObject QObject)) [On QQuickItem];
    Sig [VALUE_TYPE_QTCORE_QRECTF] "childrenRect" [] (RValue QRectF) [On QQuickItem];
    Sig [] "clip" [] RBool [On QQuickItem];
    Sig [VALUE_TYPE_QTGUI_QCOLOR] "color" [] (RValue QColor) [On QQuickWindow];
    Sig [TYPE_QTCORE_QOBJECT] "containmentMask" [] RObject [On QQuickItem];
    Sig [VALUE_TYPE_QTCORE_QPOINTF] "contains" [PValue QPointF] RBool [On QQuickItem];
    Sig [TYPE_QTQUICK_QQUICKITEM] "contentItem" [] RObject [On QQuickWindow];
    Sig [VALUE_TYPE_QTCORE_QRECTF] "contentsBoundingRect" [] (RValue QRectF) [On QQuickPaintedItem];
    Sig [] "contentsScale" [] RDouble [On QQuickPaintedItem]
  ].

Definition methods_qtquick_0_s21 : list signature_row :=
  [
    Sig [VALUE_TYPE_QTCORE_QSIZE] "contentsSize" [] (RValue QSize) [On QQuickPaintedItem];
    Sig [VALUE_TYPE_QTCORE_QRECTF] "convertToNormalizedSourceRect" [PValue QRectF] (RValue QRectF) [On
        QSGTexture];
    Sig [TYPE_QTQUICK_QSGTEXTURE; VALUE_TYPE_QTGUI_QIMAGE] "createTextureFromImage" [PValue QImage] RObject
        [On QQuickWindow];
    Sig [VALUE_TYPE_QTGUI_QCURSOR] "cursor" [] (RValue QCursor) [On QQuickItem];
    Sig [TYPE_QTQUICK_QSGGEOMETRY] "defaultAttributes_ColoredPoint2D" [] (RMeta QSGGeometry_AttributeSet)
        [Static QSGGeometry];
    Sig [TYPE_QTQUICK_QSGGEOMETRY] "defaultAttributes_Point2D" [] (RMeta QSGGeometry_AttributeSet) [Static
        QSGGeometry];
    Sig [TYPE_QTQUICK_QSGGEOMETRY] "defaultAttributes_TexturedPoint2D" [] (RMeta QSGGeometry_AttributeSet)
        [Static QSGGeometry];
    Sig [] "dumpItemTree" [] RVoid [On QQuickItem];
    Sig [] "effectiveDevicePixelRatio" [] RDouble [On QQuickWindow];
    Sig [] "endExternalCommands" [] RVoid [On QQuickWindow];
    Sig [] "endFrame" [] RVoid [On QQuickRenderControl]
  ].

Definition methods_qtquick_0_s32 : list signature_row :=
  [
    Sig [TYPE_QTQML_QQMLENGINE] "engine" [] RObject [On QQuickView];
    Sig [] "ensurePolished" [] RVoid [On QQuickItem];
    Sig [] "errorString" [] RString [On QQuickImageResponse; On QQuickTextDocument];
    Sig [VALUE_TYPE_QTQML_QQMLERROR] "errors" [] (RList (IValue QQmlError)) [On QQuickView];
    Sig [VALUE_TYPE_QTGUI_QCOLOR] "fillColor" [] (RValue QColor) [On QQuickPaintedItem];
    Sig [TYPE_QTQUICK_QSGTEXTURE] "filtering" [] (RMeta QSGTexture_Filtering) [On QSGTexture];
    Sig [] "filtersChildMouseEvents" [] RBool [On QQuickItem];
    Sig [TYPE_QTQML_QQMLIMAGEPROVIDERBASE] "flags" [] (RMeta QQmlImageProviderBase_Flags) [On
        QQuickImageProvider];
    Sig [TYPE_QTQUICK_QQUICKITEM] "flags" [] (RMeta QQuickItem_Flags) [On QQuickItem];
    Sig [TYPE_QTCORE_QOBJECT] "focusObject" [] RObject [On QQuickWindow];
    Sig [ENUM_QT_FOCUSPOLICY] "focusPolicy" [] (RMeta Qt_FocusPolicy) [On QQuickItem]
  ].

Definition methods_qtquick_0_s43 : list signature_row :=
  [
    Sig [] "forceActiveFocus" [] RVoid [On QQuickItem];
    Sig [ENUM_QT_FOCUSREASON] "forceActiveFocus" [PValue Qt_FocusReason] RVoid [On QQuickItem];
    Sig [TYPE_QTGUI_QOPENGLCONTEXT; VALUE_TYPE_QTQUICK_QQUICKGRAPHICSDEVICE] "fromOpenGLContext" [PObject
        QOpenGLContext false] (RValue QQuickGraphicsDevice) [Static QQuickGraphicsDevice];
    Sig [VALUE_TYPE_QTCORE_QSIZE; VALUE_TYPE_QTQUICK_QQUICKRENDERTARGET] "fromOpenGLRenderBuffer" [PUInt;
        PValue QSize; PInt] (RValue QQuickRenderTarget) [Static QQuickRenderTarget];
    Sig [VALUE_TYPE_QTCORE_QSIZE; VALUE_TYPE_QTQUICK_QQUICKRENDERTARGET] "fromOpenGLTexture" [PUInt; PValue
        QSize; PInt] (RValue QQuickRenderTarget) [Static QQuickRenderTarget];
    Sig [VALUE_TYPE_QTCORE_QSIZE; VALUE_TYPE_QTQUICK_QQUICKRENDERTARGET] "fromOpenGLTexture" [PUInt; PUInt;
        PValue QSize; PInt] (RValue QQuickRenderTarget) [Static QQuickRenderTarget];
    Sig [TYPE_QTQUICK_QQUICKRENDERTARGET; VALUE_TYPE_QTCORE_QSIZE; VALUE_TYPE_QTQUICK_QQUICKRENDERTARGET]
        "fromOpenGLTexture" [PUInt; PUInt; PValue QSize; PInt; PInt; PValue QQuickRenderTarget_Flags]
        (RValue QQuickRenderTarget) [Static QQuickRenderTarget];
    Sig [] "grabMouse" [] RVoid [On QQuickItem]
  ].

Definition methods_qtquick_0_s51 : list signature_row :=
  [
    Sig [] "grabTouchPoints" [PList (IMeta cxx_int)] RVoid [On QQuickItem];
    Sig [VALUE_TYPE_QTGUI_QIMAGE] "grabWindow" [] (RValue QImage) [On QQuickWindow];
    Sig [TYPE_QTQUICK_QSGRENDERERINTERFACE] "graphicsApi" [] (RMeta QSGRendererInterface_GraphicsApi)
        [Static QQuickWindow];
    Sig [VALUE_TYPE_QTQUICK_QQUICKGRAPHICSCONFIGURATION] "graphicsConfiguration" [] (RValue
        QQuickGraphicsConfiguration) [On QQuickWindow];
    Sig [VALUE_TYPE_QTQUICK_QQUICKGRAPHICSDEVICE] "graphicsDevice" [] (RValue QQuickGraphicsDevice) [On
        QQuickWindow];
    Sig [] "hasActiveFocus" [] RBool [On QQuickItem];
    Sig [] "hasDefaultAlphaBuffer" [] RBool [Static QQuickWindow];
    Sig [] "hasFocus" [] RBool [On QQuickItem];
    Sig [] "height" [] RDouble [On QQuickItem];
    Sig [TYPE_QTQUICK_QSGTEXTURE] "horizontalWrapMode" [] (RMeta QSGTexture_WrapMode) [On QSGTexture]
  ].

Definition methods_qtquick_0_s61 : list signature_row :=
  [
    Sig [VALUE_TYPE_QTGUI_QIMAGE] "image" [] (RValue QImage) [On QQuickItemGrabResult; On
        QQuickTextureFactory];
    Sig [TYPE_QTQML_QQMLIMAGEPROVIDERBASE] "imageType" [] (RMeta QQmlImageProviderBase_ImageType) [On
        QQuickImageProvider];
    Sig [] "implicitHeight" [] RDouble [On QQuickItem];
    Sig [] "implicitWidth" [] RDouble [On QQuickItem];
    Sig [VALUE_TYPE_QTCORE_QSIZE] "initialSize" [] (RValue QSize) [On QQuickView];
    Sig [] "initialize" [] RBool [On QQuickRenderControl];
    Sig [ENUM_QT_INPUTMETHODQUERY] "inputMethodQuery" [PValue Qt_InputMethodQuery] RVariant [On QQuickItem];
    Sig [] "invalidate" [] RVoid [On QQuickRenderControl];
    Sig [TYPE_QTQUICK_QQUICKITEM] "isAncestorOf" [PObject QQuickItem false] RBool [On QQuickItem];
    Sig [TYPE_QTQUICK_QSGRENDERERINTERFACE] "isApiRhiBased" [PValue QSGRendererInterface_GraphicsApi] RBool
        [Static QSGRendererInterface]
  ].

Definition methods_qtquick_0_s71 : list signature_row :=
  [
    Sig [] "isAtlasTexture" [] RBool [On QSGTexture];
    Sig [] "isEnabled" [] RBool [On QQuickItem];
    Sig [] "isFocusScope" [] RBool [On QQuickItem];
    Sig [] "isModified" [] RBool [On QQuickTextDocument];
    Sig [] "isPersistentGraphics" [] RBool [On QQuickWindow];
    Sig [] "isPersistentSceneGraph" [] RBool [On QQuickWindow];
    Sig [] "isSceneGraphInitialized" [] RBool [On QQuickWindow];
    Sig [] "isTextureProvider" [] RBool [On QQuickFramebufferObject; On QQuickPaintedItem];
    Sig [] "isVisible" [] RBool [On QQuickItem];
    Sig [] "keepMouseGrab" [] RBool [On QQuickItem];
    Sig [] "keepTouchGrab" [] RBool [On QQuickItem];
    Sig [VALUE_TYPE_QTCORE_QPOINTF] "mapFromGlobal" [PValue QPointF] (RValue QPointF) [On QQuickItem]
  ].

Definition methods_qtquick_0_s83 : list signature_row :=
  [
    Sig [TYPE_QTQUICK_QQUICKITEM; VALUE_TYPE_QTCORE_QPOINTF] "mapFromItem" [PObject QQuickItem false;
        PValue QPointF] (RValue QPointF) [On QQuickItem];
    Sig [VALUE_TYPE_QTCORE_QPOINTF] "mapFromScene" [PValue QPointF] (RValue QPointF) [On QQuickItem];
    Sig [TYPE_QTQUICK_QQUICKITEM; VALUE_TYPE_QTCORE_QRECTF] "mapRectFromItem" [PObject QQuickItem false;
        PValue QRectF] (RValue QRectF) [On QQuickItem];
    Sig [VALUE_TYPE_QTCORE_QRECTF] "mapRectFromScene" [PValue QRectF] (RValue QRectF) [On QQuickItem];
    Sig [TYPE_QTQUICK_QQUICKITEM; VALUE_TYPE_QTCORE_QRECTF] "mapRectToItem" [PObject QQuickItem false;
        PValue QRectF] (RValue QRectF) [On QQuickItem];
    Sig [VALUE_TYPE_QTCORE_QRECTF] "mapRectToScene" [PValue QRectF] (RValue QRectF) [On QQuickItem];
    Sig [VALUE_TYPE_QTCORE_QPOINTF] "mapToGlobal" [PValue QPointF] (RValue QPointF) [On QQuickItem];
    Sig [TYPE_QTQUICK_QQUICKITEM; VALUE_TYPE_QTCORE_QPOINTF] "mapToItem" [PObject QQuickItem false; PValue
        QPointF] (RValue QPointF) [On QQuickItem]
  ].

Definition methods_qtquick_0_s91 : list signature_row :=
  [
    Sig [VALUE_TYPE_QTCORE_QPOINTF] "mapToScene" [PValue QPointF] (RValue QPointF) [On QQuickItem];
    Sig [] "mipmap" [] RBool [On QQuickPaintedItem];
    Sig [TYPE_QTQUICK_QSGTEXTURE] "mipmapFiltering" [] (RMeta QSGTexture_Filtering) [On QSGTexture];
    Sig [] "mirrorVertically" [] RBool [On QQuickFramebufferObject];
    Sig [TYPE_QTQUICK_QQUICKITEM] "mouseGrabberItem" [] RObject [On QQuickWindow];
    Sig [TYPE_QTQUICK_QQUICKITEM] "nextItemInFocusChain" [PBool] RObject [On QQuickItem];
    Sig [VALUE_TYPE_QTCORE_QRECTF] "normalizedTextureSubRect" [] (RValue QRectF) [On QSGTexture];
    Sig [] "opacity" [] RDouble [On QQuickItem];
    Sig [] "opaquePainting" [] RBool [On QQuickPaintedItem];
    Sig [TYPE_QTQUICK_QQUICKITEM] "parentItem" [] RObject [On QQuickItem];
    Sig [TYPE_QTQUICK_QQUICKPAINTEDITEM] "performanceHints" [] (RMeta QQuickPaintedItem_PerformanceHints)
        [On QQuickPaintedItem]
  ].

Definition methods_qtquick_0_s102 : list signature_row :=
  [
    Sig [] "polish" [] RVoid [On QQuickItem];
    Sig [] "polishItems" [] RVoid [On QQuickRenderControl];
    Sig [TYPE_QTCORE_QTHREAD] "prepareThread" [PObject QThread false] RVoid [On QQuickRenderControl];
    Sig [] "releaseResources" [] RVoid [On QQuickFramebufferObject; On QQuickWindow];
    Sig [] "render" [] RVoid [On QQuickRenderControl];
    Sig [TYPE_QTQUICK_QQUICKPAINTEDITEM] "renderTarget" [] (RMeta QQuickPaintedItem_RenderTarget) [On
        QQuickPaintedItem];
    Sig [VALUE_TYPE_QTQUICK_QQUICKRENDERTARGET] "renderTarget" [] (RValue QQuickRenderTarget) [On
        QQuickWindow];
    Sig [] "resetAntialiasing" [] RVoid [On QQuickItem];
    Sig [] "resetContentsSize" [] RVoid [On QQuickPaintedItem];
    Sig [] "resetHeight" [] RVoid [On QQuickItem];
    Sig [] "resetWidth" [] RVoid [On QQuickItem]
  ].

Definition methods_qtquick_0_s113 : list signature_row :=
  [
    Sig [TYPE_QTQUICK_QQUICKVIEW] "resizeMode" [] (RMeta QQuickView_ResizeMode) [On QQuickView];
    Sig [TYPE_QTQML_QQMLCONTEXT] "rootContext" [] RObject [On QQuickView];
    Sig [TYPE_QTQUICK_QQUICKITEM] "rootObject" [] RObject [On QQuickView];
    Sig [] "rotation" [] RDouble [On QQuickItem];
    Sig [] "samples" [] RDouble [On QQuickRenderControl];
    Sig [] "save" [] RVoid [On QQuickTextDocument];
    Sig [VALUE_TYPE_QTCORE_QURL] "saveAs" [PValue QUrl] RVoid [On QQuickTextDocument];
    Sig [] "saveToFile" [PString true] RBool [On QQuickItemGrabResult];
    Sig [VALUE_TYPE_QTCORE_QURL] "saveToFile" [PValue QUrl] RBool [On QQuickItemGrabResult];
    Sig [] "scale" [] RDouble [On QQuickItem];
    Sig [] "sceneGraphBackend" [] RString [Static QQuickWindow]
  ].

Definition methods_qtquick_0_s124 : list signature_row :=
  [
    Sig [TYPE_QTQUICK_QQUICKITEM] "scopedFocusItem" [] RObject [On QQuickItem];
    Sig [] "setAcceptHoverEvents" [PBool] RVoid [On QQuickItem];
    Sig [] "setAcceptTouchEvents" [PBool] RVoid [On QQuickItem];
    Sig [ENUM_QT_MOUSEBUTTONS] "setAcceptedMouseButtons" [PValue Qt_MouseButtons] RVoid [On QQuickItem];
    Sig [] "setActiveFocusOnTab" [PBool] RVoid [On QQuickItem];
    Sig [TYPE_QTQUICK_QSGTEXTURE] "setAnisotropyLevel" [PValue QSGTexture_AnisotropyLevel] RVoid [On
        QSGTexture];
    Sig [] "setAntialiasing" [PBool] RVoid [On QQuickItem; On QQuickPaintedItem];
    Sig [] "setBaselineOffset" [PNumber cxx_qreal] RVoid [On QQuickItem];
    Sig [] "setClip" [PBool] RVoid [On QQuickItem];
    Sig [VALUE_TYPE_QTGUI_QCOLOR] "setColor" [PValue QColor] RVoid [On QQuickWindow]
  ].

Definition methods_qtquick_0_s134 : list signature_row :=
  [
    Sig [TYPE_QTCORE_QOBJECT] "setContainmentMask" [PObject QObject false] RVoid [On QQuickItem];
    Sig [] "setContentsScale" [PNumber cxx_qreal] RVoid [On QQuickPaintedItem];
    Sig [VALUE_TYPE_QTCORE_QSIZE] "setContentsSize" [PValue QSize] RVoid [On QQuickPaintedItem];
    Sig [VALUE_TYPE_QTGUI_QCURSOR] "setCursor" [PValue QCursor] RVoid [On QQuickItem];
    Sig [] "setDefaultAlphaBuffer" [PBool] RVoid [Static QQuickWindow];
    Sig [] "setEnabled" [PBool] RVoid [On QQuickItem];
    Sig [VALUE_TYPE_QTGUI_QCOLOR] "setFillColor" [PValue QColor] RVoid [On QQuickPaintedItem];
    Sig [TYPE_QTQUICK_QSGTEXTURE] "setFiltering" [PValue QSGTexture_Filtering] RVoid [On QSGTexture];
    Sig [] "setFiltersChildMouseEvents" [PBool] RVoid [On QQuickItem]
  ].

Definition methods_qtquick_0_s143 : list signature_row :=
  [
    Sig [TYPE_QTQUICK_QQUICKITEM] "setFlag" [PValue QQuickItem_Flag; PBool] RVoid [On QQuickItem];
    Sig [TYPE_QTQUICK_QQUICKITEM] "setFlags" [PValue QQuickItem_Flags] RVoid [On QQuickItem];
    Sig [] "setFocus" [PBool] RVoid [On QQuickItem];
    Sig [ENUM_QT_FOCUSREASON] "setFocus" [PBool; PValue Qt_FocusReason] RVoid [On QQuickItem];
    Sig [ENUM_QT_FOCUSPOLICY] "setFocusPolicy" [PValue Qt_FocusPolicy] RVoid [On QQuickItem];
    Sig [TYPE_QTQUICK_QSGRENDERERINTERFACE] "setGraphicsApi" [PValue QSGRendererInterface_GraphicsApi]
        RVoid [Static QQuickWindow];
    Sig [VALUE_TYPE_QTQUICK_QQUICKGRAPHICSCONFIGURATION] "setGraphicsConfiguration" [PValue
        QQuickGraphicsConfiguration] RVoid [On QQuickWindow];
    Sig [VALUE_TYPE_QTQUICK_QQUICKGRAPHICSDEVICE] "setGraphicsDevice" [PValue QQuickGraphicsDevice] RVoid
        [On QQuickWindow];
    Sig [] "setHeight" [PNumber cxx_qreal] RVoid [On QQuickItem]
  ].

Definition methods_qtquick_0_s152 : list signature_row :=
  [
    Sig [TYPE_QTQUICK_QSGTEXTURE] "setHorizontalWrapMode" [PValue QSGTexture_WrapMode] RVoid [On
        QSGTexture];
    Sig [] "setImplicitHeight" [PNumber cxx_qreal] RVoid [On QQuickItem];
    Sig [] "setImplicitWidth" [PNumber cxx_qreal] RVoid [On QQuickItem];
    Sig [] "setKeepMouseGrab" [PBool] RVoid [On QQuickItem];
    Sig [] "setKeepTouchGrab" [PBool] RVoid [On QQuickItem];
    Sig [] "setMipmap" [PBool] RVoid [On QQuickPaintedItem];
    Sig [TYPE_QTQUICK_QSGTEXTURE] "setMipmapFiltering" [PValue QSGTexture_Filtering] RVoid [On QSGTexture];
    Sig [] "setMirrorVertically" [PBool] RVoid [On QQuickFramebufferObject];
    Sig [] "setModified" [PBool] RVoid [On QQuickTextDocument];
    Sig [] "setOpacity" [PNumber cxx_qreal] RVoid [On QQuickItem]
  ].

Definition methods_qtquick_0_s162 : list signature_row :=
  [
    Sig [] "setOpaquePainting" [PBool] RVoid [On QQuickPaintedItem];
    Sig [TYPE_QTQUICK_QQUICKITEM] "setParentItem" [PObject QQuickItem false] RVoid [On QQuickItem];
    Sig [TYPE_QTQUICK_QQUICKPAINTEDITEM] "setPerformanceHint" [PValue QQuickPaintedItem_PerformanceHint;
        PBool] RVoid [On QQuickPaintedItem];
    Sig [TYPE_QTQUICK_QQUICKPAINTEDITEM] "setPerformanceHints" [PValue QQuickPaintedItem_PerformanceHints]
        RVoid [On QQuickPaintedItem];
    Sig [] "setPersistentGraphics" [PBool] RVoid [On QQuickWindow];
    Sig [] "setPersistentSceneGraph" [PBool] RVoid [On QQuickWindow];
    Sig [TYPE_QTQUICK_QQUICKPAINTEDITEM] "setRenderTarget" [PValue QQuickPaintedItem_RenderTarget] RVoid
        [On QQuickPaintedItem];
    Sig [VALUE_TYPE_QTQUICK_QQUICKRENDERTARGET] "setRenderTarget" [PValue QQuickRenderTarget] RVoid [On
        QQuickWindow];
    Sig [TYPE_QTQUICK_QQUICKVIEW] "setResizeMode" [PValue QQuickView_ResizeMode] RVoid [On QQuickView]
  ].

Definition methods_qtquick_0_s171 : list signature_row :=
  [
    Sig [] "setRotation" [PNumber cxx_qreal] RVoid [On QQuickItem];
    Sig [] "setSamples" [PInt] RVoid [On QQuickRenderControl];
    Sig [] "setScale" [PNumber cxx_qreal] RVoid [On QQuickItem];
    Sig [] "setSceneGraphBackend" [PString true] RVoid [Static QQuickWindow];
    Sig [VALUE_TYPE_QTCORE_QSIZEF] "setSize" [PValue QSizeF] RVoid [On QQuickItem];
    Sig [] "setSmooth" [PBool] RVoid [On QQuickItem];
    Sig [VALUE_TYPE_QTCORE_QURL] "setSource" [PValue QUrl] RVoid [On QQuickTextDocument; On QQuickView];
    Sig [] "setState" [PString true] RVoid [On QQuickItem];
    Sig [TYPE_QTGUI_QTEXTDOCUMENT] "setTextDocument" [PObject QTextDocument false] RVoid [On
        QQuickTextDocument]
  ].

Definition methods_qtquick_0_s180 : list signature_row :=
  [
    Sig [TYPE_QTQUICK_QQUICKWINDOW] "setTextRenderType" [PValue QQuickWindow_TextRenderType] RVoid [Static
        QQuickWindow];
    Sig [VALUE_TYPE_QTCORE_QSIZE] "setTextureSize" [PValue QSize] RVoid [On QQuickPaintedItem];
    Sig [TYPE_QTQUICK_QQUICKITEM] "setTransformOrigin" [PValue QQuickItem_TransformOrigin] RVoid [On
        QQuickItem];
    Sig [TYPE_QTQUICK_QSGTEXTURE] "setVerticalWrapMode" [PValue QSGTexture_WrapMode] RVoid [On QSGTexture];
    Sig [] "setVisible" [PBool] RVoid [On QQuickItem];
    Sig [] "setWidth" [PNumber cxx_qreal] RVoid [On QQuickItem];
    Sig [] "setX" [PNumber cxx_qreal] RVoid [On QQuickItem];
    Sig [] "setY" [PNumber cxx_qreal] RVoid [On QQuickItem];
    Sig [] "setZ" [PNumber cxx_qreal] RVoid [On QQuickItem];
    Sig [VALUE_TYPE_QTCORE_QSIZEF] "size" [] (RValue QSizeF) [On QQuickItem]
  ].

Definition methods_qtquick_0_s190 : list signature_row :=
  [
    Sig [] "smooth" [] RBool [On QQuickItem];
    Sig [VALUE_TYPE_QTCORE_QURL] "source" [] (RValue QUrl) [On QQuickTextDocument; On QQuickView];
    Sig [TYPE_QTQUICK_QQUICKITEM] "stackAfter" [PObject QQuickItem false] RVoid [On QQuickItem];
    Sig [TYPE_QTQUICK_QQUICKITEM] "stackBefore" [PObject QQuickItem false] RVoid [On QQuickItem];
    Sig [] "state" [] RString [On QQuickItem];
    Sig [TYPE_QTQUICK_QQUICKTEXTDOCUMENT] "status" [] (RMeta QQuickTextDocument_Status) [On
        QQuickTextDocument];
    Sig [TYPE_QTQUICK_QQUICKVIEW] "status" [] (RMeta QQuickView_Status) [On QQuickView];
    Sig [] "sync" [] RBool [On QQuickRenderControl];
    Sig [TYPE_QTGUI_QTEXTDOCUMENT] "textDocument" [] RObject [On QQuickTextDocument];
    Sig [TYPE_QTQUICK_QQUICKWINDOW] "textRenderType" [] (RMeta QQuickWindow_TextRenderType) [Static
        QQuickWindow]
  ].

Definition methods_qtquick_0_s200 : list signature_row :=
  [
    Sig [TYPE_QTQUICK_QQUICKTEXTUREFACTORY; VALUE_TYPE_QTGUI_QIMAGE] "textureFactoryForImage" [PValue
        QImage] RObject [Static QQuickTextureFactory];
    Sig [TYPE_QTQUICK_QSGTEXTUREPROVIDER] "textureProvider" [] RObject [On QQuickFramebufferObject; On
        QQuickPaintedItem];
    Sig [VALUE_TYPE_QTCORE_QSIZE] "textureSize" [] (RValue QSize) [On QQuickPaintedItem];
    Sig [TYPE_QTQUICK_QQUICKITEM] "transformOrigin" [] (RMeta QQuickItem_TransformOrigin) [On QQuickItem];
    Sig [] "ungrabMouse" [] RVoid [On QQuickItem];
    Sig [] "ungrabTouchPoints" [] RVoid [On QQuickItem];
    Sig [] "unsetCursor" [] RVoid [On QQuickItem];
    Sig [] "update" [] RVoid [On QQuickItem; On QQuickWindow];
    Sig [VALUE_TYPE_QTCORE_QRECT] "update" [PValue QRect] RVoid [On QQuickPaintedItem];
    Sig [VALUE_TYPE_QTCORE_QURL] "url" [] (RValue QUrl) [On QQuickItemGrabResult]
  ].

Definition methods_qtquick_0_s210 : list signature_row :=
  [
    Sig [TYPE_QTQUICK_QSGTEXTURE] "verticalWrapMode" [] (RMeta QSGTexture_WrapMode) [On QSGTexture];
    Sig [TYPE_QTQUICK_QQUICKITEM] "viewportItem" [] RObject [On QQuickItem];
    Sig [] "width" [] RDouble [On QQuickItem];
    Sig [TYPE_QTQUICK_QQUICKWINDOW] "window" [] RObject [On QQuickItem; On QQuickRenderControl];
    Sig [] "x" [] RDouble [On QQuickItem];
    Sig [] "y" [] RDouble [On QQuickItem];
    Sig [] "z" [] RDouble [On QQuickItem]
  ].

Definition methods_qtquick_0 : method_shard :=
  MethodShard QtQuick "KRY_QT6_NATIVE_METHODS_QTQUICK_"
    (methods_qtquick_0_i0)
    (methods_qtquick_0_s0 ++ methods_qtquick_0_s11 ++ methods_qtquick_0_s21 ++ methods_qtquick_0_s32 ++
        methods_qtquick_0_s43 ++ methods_qtquick_0_s51 ++ methods_qtquick_0_s61 ++ methods_qtquick_0_s71 ++
        methods_qtquick_0_s83 ++ methods_qtquick_0_s91 ++ methods_qtquick_0_s102 ++ methods_qtquick_0_s113
        ++ methods_qtquick_0_s124 ++ methods_qtquick_0_s134 ++ methods_qtquick_0_s143 ++
        methods_qtquick_0_s152 ++ methods_qtquick_0_s162 ++ methods_qtquick_0_s171 ++
        methods_qtquick_0_s180 ++ methods_qtquick_0_s190 ++ methods_qtquick_0_s200 ++
        methods_qtquick_0_s210)
    [].

Definition methods_qtquickwidgets_0_i0 : list include :=
  [
    ClassInclude QtQuickWidgets QQuickWidget QQuickWidget;
    TypeInclude QtQml QQmlContext TYPE_QTQML_QQMLCONTEXT;
    TypeInclude QtQml QQmlEngine TYPE_QTQML_QQMLENGINE;
    TypeInclude QtQuick QQuickItem TYPE_QTQUICK_QQUICKITEM;
    TypeInclude QtQuick QQuickWindow TYPE_QTQUICK_QQUICKWINDOW;
    TypeInclude QtQuickWidgets QQuickWidget TYPE_QTQUICKWIDGETS_QQUICKWIDGET;
    TypeInclude QtCore QSize VALUE_TYPE_QTCORE_QSIZE;
    TypeInclude QtCore QUrl VALUE_TYPE_QTCORE_QURL;
    TypeInclude QtGui QColor VALUE_TYPE_QTGUI_QCOLOR;
    TypeInclude QtGui QImage VALUE_TYPE_QTGUI_QIMAGE;
    TypeInclude QtGui QSurfaceFormat VALUE_TYPE_QTGUI_QSURFACEFORMAT;
    TypeInclude QtQml QQmlError VALUE_TYPE_QTQML_QQMLERROR
  ].

Definition methods_qtquickwidgets_0_s0 : list signature_row :=
  [
    Sig [TYPE_QTQML_QQMLENGINE] "engine" [] RObject [On QQuickWidget];
    Sig [VALUE_TYPE_QTQML_QQMLERROR] "errors" [] (RList (IValue QQmlError)) [On QQuickWidget];
    Sig [VALUE_TYPE_QTGUI_QSURFACEFORMAT] "format" [] (RValue QSurfaceFormat) [On QQuickWidget];
    Sig [VALUE_TYPE_QTGUI_QIMAGE] "grabFramebuffer" [] (RValue QImage) [On QQuickWidget];
    Sig [VALUE_TYPE_QTCORE_QSIZE] "initialSize" [] (RValue QSize) [On QQuickWidget];
    Sig [TYPE_QTQUICK_QQUICKWINDOW] "quickWindow" [] RObject [On QQuickWidget];
    Sig [TYPE_QTQUICKWIDGETS_QQUICKWIDGET] "resizeMode" [] (RMeta QQuickWidget_ResizeMode) [On
        QQuickWidget];
    Sig [TYPE_QTQML_QQMLCONTEXT] "rootContext" [] RObject [On QQuickWidget];
    Sig [TYPE_QTQUICK_QQUICKITEM] "rootObject" [] RObject [On QQuickWidget];
    Sig [VALUE_TYPE_QTGUI_QCOLOR] "setClearColor" [PValue QColor] RVoid [On QQuickWidget]
  ].

Definition methods_qtquickwidgets_0_s10 : list signature_row :=
  [
    Sig [VALUE_TYPE_QTGUI_QSURFACEFORMAT] "setFormat" [PValue QSurfaceFormat] RVoid [On QQuickWidget];
    Sig [TYPE_QTQUICKWIDGETS_QQUICKWIDGET] "setResizeMode" [PValue QQuickWidget_ResizeMode] RVoid [On
        QQuickWidget];
    Sig [VALUE_TYPE_QTCORE_QURL] "setSource" [PValue QUrl] RVoid [On QQuickWidget];
    Sig [VALUE_TYPE_QTCORE_QSIZE] "sizeHint" [] (RValue QSize) [On QQuickWidget];
    Sig [VALUE_TYPE_QTCORE_QURL] "source" [] (RValue QUrl) [On QQuickWidget];
    Sig [TYPE_QTQUICKWIDGETS_QQUICKWIDGET] "status" [] (RMeta QQuickWidget_Status) [On QQuickWidget]
  ].

Definition methods_qtquickwidgets_0 : method_shard :=
  MethodShard QtQuickWidgets "KRY_QT6_NATIVE_METHODS_QTQUICKWIDGETS_"
    (methods_qtquickwidgets_0_i0)
    (methods_qtquickwidgets_0_s0 ++ methods_qtquickwidgets_0_s10)
    [].

Definition methods_qtspatialaudio_0_i0 : list include :=
  [
    ClassInclude QtSpatialAudio QAmbientSound QAmbientSound;
    ClassInclude QtSpatialAudio QAudioEngine QAudioEngine;
    ClassInclude QtSpatialAudio QAudioListener QAudioListener;
    ClassInclude QtSpatialAudio QAudioRoom QAudioRoom;
    ClassInclude QtSpatialAudio QSpatialSound QSpatialSound;
    TypeInclude QtSpatialAudio QAudioEngine TYPE_QTSPATIALAUDIO_QAUDIOENGINE;
    TypeInclude QtSpatialAudio QAudioEngine TYPE_QTSPATIALAUDIO_QAUDIOENGINE;
    TypeInclude QtSpatialAudio QAudioRoom TYPE_QTSPATIALAUDIO_QAUDIOROOM;
    TypeInclude QtSpatialAudio QSpatialSound TYPE_QTSPATIALAUDIO_QSPATIALSOUND;
    TypeInclude QtCore QUrl VALUE_TYPE_QTCORE_QURL;
    TypeInclude QtGui QQuaternion VALUE_TYPE_QTGUI_QQUATERNION;
    TypeInclude QtGui QVector3D VALUE_TYPE_QTGUI_QVECTOR3D;
    TypeInclude QtMultimedia QAudioDevice VALUE_TYPE_QTMULTIMEDIA_QAUDIODEVICE
  ].

Definition methods_qtspatialaudio_0_s0 : list signature_row :=
  [
    Sig [] "autoPlay" [] RBool [On QAmbientSound; On QSpatialSound];
    Sig [VALUE_TYPE_QTGUI_QVECTOR3D] "dimensions" [] (RValue QVector3D) [On QAudioRoom];
    Sig [] "directivity" [] RDouble [On QSpatialSound];
    Sig [] "directivityOrder" [] RDouble [On QSpatialSound];
    Sig [] "distanceCutoff" [] RDouble [On QSpatialSound];
    Sig [TYPE_QTSPATIALAUDIO_QSPATIALSOUND] "distanceModel" [] (RMeta QSpatialSound_DistanceModel) [On
        QSpatialSound];
    Sig [] "distanceScale" [] RDouble [On QAudioEngine];
    Sig [TYPE_QTSPATIALAUDIO_QAUDIOENGINE] "engine" [] RObject [On QAmbientSound; On QAudioListener; On
        QSpatialSound];
    Sig [] "loops" [] RDouble [On QAmbientSound; On QSpatialSound];
    Sig [] "manualAttenuation" [] RDouble [On QSpatialSound];
    Sig [] "masterVolume" [] RDouble [On QAudioEngine]
  ].

Definition methods_qtspatialaudio_0_s11 : list signature_row :=
  [
    Sig [] "nearFieldGain" [] RDouble [On QSpatialSound];
    Sig [] "occlusionIntensity" [] RDouble [On QSpatialSound];
    Sig [VALUE_TYPE_QTMULTIMEDIA_QAUDIODEVICE] "outputDevice" [] (RValue QAudioDevice) [On QAudioEngine];
    Sig [TYPE_QTSPATIALAUDIO_QAUDIOENGINE] "outputMode" [] (RMeta QAudioEngine_OutputMode) [On
        QAudioEngine];
    Sig [] "pause" [] RVoid [On QAmbientSound; On QAudioEngine; On QSpatialSound];
    Sig [] "paused" [] RBool [On QAudioEngine];
    Sig [] "play" [] RVoid [On QAmbientSound; On QSpatialSound];
    Sig [VALUE_TYPE_QTGUI_QVECTOR3D] "position" [] (RValue QVector3D) [On QAudioListener; On QAudioRoom; On
        QSpatialSound];
    Sig [] "reflectionGain" [] RDouble [On QAudioRoom];
    Sig [] "resume" [] RVoid [On QAudioEngine]
  ].

Definition methods_qtspatialaudio_0_s21 : list signature_row :=
  [
    Sig [] "reverbBrightness" [] RDouble [On QAudioRoom];
    Sig [] "reverbGain" [] RDouble [On QAudioRoom];
    Sig [] "reverbTime" [] RDouble [On QAudioRoom];
    Sig [] "roomEffectsEnabled" [] RBool [On QAudioEngine];
    Sig [VALUE_TYPE_QTGUI_QQUATERNION] "rotation" [] (RValue QQuaternion) [On QAudioListener; On
        QAudioRoom; On QSpatialSound];
    Sig [] "sampleRate" [] RDouble [On QAudioEngine];
    Sig [] "setAutoPlay" [PBool] RVoid [On QAmbientSound; On QSpatialSound];
    Sig [VALUE_TYPE_QTGUI_QVECTOR3D] "setDimensions" [PValue QVector3D] RVoid [On QAudioRoom];
    Sig [] "setDirectivity" [PNumber cxx_float] RVoid [On QSpatialSound];
    Sig [] "setDirectivityOrder" [PNumber cxx_float] RVoid [On QSpatialSound]
  ].

Definition methods_qtspatialaudio_0_s31 : list signature_row :=
  [
    Sig [] "setDistanceCutoff" [PNumber cxx_float] RVoid [On QSpatialSound];
    Sig [TYPE_QTSPATIALAUDIO_QSPATIALSOUND] "setDistanceModel" [PValue QSpatialSound_DistanceModel] RVoid
        [On QSpatialSound];
    Sig [] "setDistanceScale" [PNumber cxx_float] RVoid [On QAudioEngine];
    Sig [] "setLoops" [PInt] RVoid [On QAmbientSound; On QSpatialSound];
    Sig [] "setManualAttenuation" [PNumber cxx_float] RVoid [On QSpatialSound];
    Sig [] "setMasterVolume" [PNumber cxx_float] RVoid [On QAudioEngine];
    Sig [] "setNearFieldGain" [PNumber cxx_float] RVoid [On QSpatialSound];
    Sig [] "setOcclusionIntensity" [PNumber cxx_float] RVoid [On QSpatialSound];
    Sig [VALUE_TYPE_QTMULTIMEDIA_QAUDIODEVICE] "setOutputDevice" [PValue QAudioDevice] RVoid [On
        QAudioEngine];
    Sig [TYPE_QTSPATIALAUDIO_QAUDIOENGINE] "setOutputMode" [PValue QAudioEngine_OutputMode] RVoid [On
        QAudioEngine]
  ].

Definition methods_qtspatialaudio_0_s41 : list signature_row :=
  [
    Sig [] "setPaused" [PBool] RVoid [On QAudioEngine];
    Sig [VALUE_TYPE_QTGUI_QVECTOR3D] "setPosition" [PValue QVector3D] RVoid [On QAudioListener; On
        QAudioRoom; On QSpatialSound];
    Sig [] "setReflectionGain" [PNumber cxx_float] RVoid [On QAudioRoom];
    Sig [] "setReverbBrightness" [PNumber cxx_float] RVoid [On QAudioRoom];
    Sig [] "setReverbGain" [PNumber cxx_float] RVoid [On QAudioRoom];
    Sig [] "setReverbTime" [PNumber cxx_float] RVoid [On QAudioRoom];
    Sig [] "setRoomEffectsEnabled" [PBool] RVoid [On QAudioEngine];
    Sig [VALUE_TYPE_QTGUI_QQUATERNION] "setRotation" [PValue QQuaternion] RVoid [On QAudioListener; On
        QAudioRoom; On QSpatialSound];
    Sig [] "setSize" [PNumber cxx_float] RVoid [On QSpatialSound]
  ].

Definition methods_qtspatialaudio_0_s50 : list signature_row :=
  [
    Sig [VALUE_TYPE_QTCORE_QURL] "setSource" [PValue QUrl] RVoid [On QAmbientSound; On QSpatialSound];
    Sig [] "setVolume" [PNumber cxx_float] RVoid [On QAmbientSound; On QSpatialSound];
    Sig [TYPE_QTSPATIALAUDIO_QAUDIOROOM] "setWallMaterial" [PValue QAudioRoom_Wall; PValue
        QAudioRoom_Material] RVoid [On QAudioRoom];
    Sig [] "size" [] RDouble [On QSpatialSound];
    Sig [VALUE_TYPE_QTCORE_QURL] "source" [] (RValue QUrl) [On QAmbientSound; On QSpatialSound];
    Sig [] "start" [] RVoid [On QAudioEngine];
    Sig [] "stop" [] RVoid [On QAmbientSound; On QAudioEngine; On QSpatialSound];
    Sig [] "volume" [] RDouble [On QAmbientSound; On QSpatialSound]
  ].

Definition methods_qtspatialaudio_0_s58 : list signature_row :=
  [
    Sig [TYPE_QTSPATIALAUDIO_QAUDIOROOM] "wallMaterial" [PValue QAudioRoom_Wall] (RMeta
        QAudioRoom_Material) [On QAudioRoom]
  ].

Definition methods_qtspatialaudio_0 : method_shard :=
  MethodShard QtSpatialAudio "KRY_QT6_NATIVE_METHODS_QTSPATIALAUDIO_"
    (methods_qtspatialaudio_0_i0)
    (methods_qtspatialaudio_0_s0 ++ methods_qtspatialaudio_0_s11 ++ methods_qtspatialaudio_0_s21 ++
        methods_qtspatialaudio_0_s31 ++ methods_qtspatialaudio_0_s41 ++ methods_qtspatialaudio_0_s50 ++
        methods_qtspatialaudio_0_s58)
    [].

Definition methods_qtsql_0_i0 : list include :=
  [
    ClassInclude QtSql QSqlDatabase QSqlDatabase;
    ClassInclude QtSql QSqlDriver QSqlDriver;
    ClassInclude QtSql QSqlQueryModel QSqlQueryModel;
    ClassInclude QtSql QSqlRelationalDelegate QSqlRelationalDelegate;
    ClassInclude QtSql QSqlRelationalTableModel QSqlRelationalTableModel;
    ClassInclude QtSql QSqlTableModel QSqlTableModel;
    TypeInclude QtCore QAbstractItemModel TYPE_QTCORE_QABSTRACTITEMMODEL;
    TypeInclude QtSql QSqlDriver TYPE_QTSQL_QSQLDRIVER;
    TypeInclude QtSql QSqlTableModel TYPE_QTSQL_QSQLTABLEMODEL;
    TypeInclude QtWidgets QWidget TYPE_QTWIDGETS_QWIDGET;
    EnumDefine ENUM_QT_ORIENTATION;
    EnumDefine ENUM_QT_SORTORDER;
    TypeInclude QtSql QSqlDriver TYPE_QTSQL_QSQLDRIVER;
    TypeInclude QtSql QSqlRelationalTableModel TYPE_QTSQL_QSQLRELATIONALTABLEMODEL;
    TypeInclude QtSql QSqlTableModel TYPE_QTSQL_QSQLTABLEMODEL;
    TypeInclude QtCore QModelIndex VALUE_TYPE_QTCORE_QMODELINDEX;
    TypeInclude QtSql QSqlDatabase VALUE_TYPE_QTSQL_QSQLDATABASE;
    TypeInclude QtSql QSqlError VALUE_TYPE_QTSQL_QSQLERROR;
    TypeInclude QtSql QSqlField VALUE_TYPE_QTSQL_QSQLFIELD;
    TypeInclude QtSql QSqlIndex VALUE_TYPE_QTSQL_QSQLINDEX;
    TypeInclude QtSql QSqlQuery VALUE_TYPE_QTSQL_QSQLQUERY;
    TypeInclude QtSql QSqlRecord VALUE_TYPE_QTSQL_QSQLRECORD;
    TypeInclude QtSql QSqlRelation VALUE_TYPE_QTSQL_QSQLRELATION;
    TypeInclude QtWidgets QStyleOptionViewItem VALUE_TYPE_QTWIDGETS_QSTYLEOPTIONVIEWITEM
  ].

Definition methods_qtsql_0_s0 : list signature_row :=
  [
    Sig [TYPE_QTSQL_QSQLDRIVER; VALUE_TYPE_QTSQL_QSQLDATABASE] "addDatabase" [PObject QSqlDriver false;
        PString true] (RValue QSqlDatabase) [Static QSqlDatabase];
    Sig [VALUE_TYPE_QTSQL_QSQLDATABASE] "addDatabase" [PString true; PString true] (RValue QSqlDatabase)
        [Static QSqlDatabase];
    Sig [] "beginTransaction" [] RBool [On QSqlDriver];
    Sig [VALUE_TYPE_QTCORE_QMODELINDEX] "canFetchMore" [PValue QModelIndex] RBool [On QSqlQueryModel];
    Sig [] "clear" [] RVoid [On QSqlQueryModel; On QSqlRelationalTableModel; On QSqlTableModel];
    Sig [VALUE_TYPE_QTCORE_QMODELINDEX] "clearItemData" [PValue QModelIndex] RBool [On QSqlTableModel];
    Sig [VALUE_TYPE_QTSQL_QSQLDATABASE] "cloneDatabase" [PValue QSqlDatabase; PString true] (RValue
        QSqlDatabase) [Static QSqlDatabase];
    Sig [VALUE_TYPE_QTSQL_QSQLDATABASE] "cloneDatabase" [PString true; PString true] (RValue QSqlDatabase)
        [Static QSqlDatabase];
    Sig [VALUE_TYPE_QTCORE_QMODELINDEX] "columnCount" [PValue QModelIndex] RDouble [On QSqlQueryModel]
  ].

Definition methods_qtsql_0_s9 : list signature_row :=
  [
    Sig [] "commitTransaction" [] RBool [On QSqlDriver];
    Sig [] "connectionName" [] RString [On QSqlDriver];
    Sig [] "connectionNames" [] (RList (IMeta QString)) [Static QSqlDatabase];
    Sig [] "contains" [PString true] RBool [Static QSqlDatabase];
    Sig [TYPE_QTWIDGETS_QWIDGET; VALUE_TYPE_QTCORE_QMODELINDEX; VALUE_TYPE_QTWIDGETS_QSTYLEOPTIONVIEWITEM]
        "createEditor" [PObject QWidget false; PValue QStyleOptionViewItem; PValue QModelIndex] RObject [On
        QSqlRelationalDelegate];
    Sig [VALUE_TYPE_QTCORE_QMODELINDEX] "data" [PValue QModelIndex; PInt] RVariant [On QSqlQueryModel; On
        QSqlRelationalTableModel; On QSqlTableModel];
    Sig [VALUE_TYPE_QTSQL_QSQLDATABASE] "database" [] (RValue QSqlDatabase) [On QSqlTableModel];
    Sig [VALUE_TYPE_QTSQL_QSQLDATABASE] "database" [PString true; PBool] (RValue QSqlDatabase) [Static
        QSqlDatabase];
    Sig [TYPE_QTSQL_QSQLDRIVER] "dbmsType" [] (RMeta QSqlDriver_DbmsType) [On QSqlDriver]
  ].

Definition methods_qtsql_0_s18 : list signature_row :=
  [
    Sig [] "drivers" [] (RList (IMeta QString)) [Static QSqlDatabase];
    Sig [TYPE_QTSQL_QSQLTABLEMODEL] "editStrategy" [] (RMeta QSqlTableModel_EditStrategy) [On
        QSqlTableModel];
    Sig [TYPE_QTSQL_QSQLDRIVER] "escapeIdentifier" [PString true; PValue QSqlDriver_IdentifierType] RString
        [On QSqlDriver];
    Sig [VALUE_TYPE_QTCORE_QMODELINDEX] "fetchMore" [PValue QModelIndex] RVoid [On QSqlQueryModel];
    Sig [] "fieldIndex" [PString true] RDouble [On QSqlTableModel];
    Sig [] "filter" [] RString [On QSqlTableModel];
    Sig [VALUE_TYPE_QTSQL_QSQLFIELD] "formatValue" [PValue QSqlField; PBool] RString [On QSqlDriver];
    Sig [] "handle" [] RVariant [On QSqlDriver];
    Sig [ENUM_QT_ORIENTATION] "headerData" [PInt; PValue Qt_Orientation; PInt] RVariant [On QSqlQueryModel;
        On QSqlTableModel]
  ].

Definition methods_qtsql_0_s27 : list signature_row :=
  [
    Sig [VALUE_TYPE_QTCORE_QMODELINDEX] "insertColumns" [PInt; PInt; PValue QModelIndex] RBool [On
        QSqlQueryModel];
    Sig [VALUE_TYPE_QTSQL_QSQLRECORD] "insertRecord" [PInt; PValue QSqlRecord] RBool [On QSqlTableModel];
    Sig [VALUE_TYPE_QTCORE_QMODELINDEX] "insertRows" [PInt; PInt; PValue QModelIndex] RBool [On
        QSqlTableModel];
    Sig [] "isDirty" [] RBool [On QSqlTableModel];
    Sig [VALUE_TYPE_QTCORE_QMODELINDEX] "isDirty" [PValue QModelIndex] RBool [On QSqlTableModel];
    Sig [] "isDriverAvailable" [PString true] RBool [Static QSqlDatabase];
    Sig [TYPE_QTSQL_QSQLDRIVER] "isIdentifierEscaped" [PString true; PValue QSqlDriver_IdentifierType]
        RBool [On QSqlDriver];
    Sig [] "isOpen" [] RBool [On QSqlDriver];
    Sig [] "isOpenError" [] RBool [On QSqlDriver]
  ].

Definition methods_qtsql_0_s36 : list signature_row :=
  [
    Sig [VALUE_TYPE_QTSQL_QSQLERROR] "lastError" [] (RValue QSqlError) [On QSqlDriver; On QSqlQueryModel];
    Sig [TYPE_QTSQL_QSQLDRIVER] "maximumIdentifierLength" [PValue QSqlDriver_IdentifierType] RDouble [On
        QSqlDriver];
    Sig [VALUE_TYPE_QTSQL_QSQLINDEX] "primaryIndex" [PString true] (RValue QSqlIndex) [On QSqlDriver];
    Sig [VALUE_TYPE_QTSQL_QSQLINDEX] "primaryKey" [] (RValue QSqlIndex) [On QSqlTableModel];
    Sig [VALUE_TYPE_QTSQL_QSQLRECORD] "record" [] (RValue QSqlRecord) [On QSqlQueryModel; On
        QSqlTableModel];
    Sig [VALUE_TYPE_QTSQL_QSQLRECORD] "record" [PString true] (RValue QSqlRecord) [On QSqlDriver];
    Sig [VALUE_TYPE_QTSQL_QSQLRECORD] "record" [PInt] (RValue QSqlRecord) [On QSqlQueryModel; On
        QSqlTableModel];
    Sig [] "refresh" [] RVoid [On QSqlQueryModel]
  ].

Definition methods_qtsql_0_s44 : list signature_row :=
  [
    Sig [VALUE_TYPE_QTSQL_QSQLRELATION] "relation" [PInt] (RValue QSqlRelation) [On
        QSqlRelationalTableModel];
    Sig [TYPE_QTSQL_QSQLTABLEMODEL] "relationModel" [PInt] RObject [On QSqlRelationalTableModel];
    Sig [VALUE_TYPE_QTCORE_QMODELINDEX] "removeColumns" [PInt; PInt; PValue QModelIndex] RBool [On
        QSqlQueryModel; On QSqlRelationalTableModel; On QSqlTableModel];
    Sig [] "removeDatabase" [PString true] RVoid [Static QSqlDatabase];
    Sig [VALUE_TYPE_QTCORE_QMODELINDEX] "removeRows" [PInt; PInt; PValue QModelIndex] RBool [On
        QSqlTableModel];
    Sig [] "revert" [] RVoid [On QSqlTableModel];
    Sig [] "revertAll" [] RVoid [On QSqlTableModel];
    Sig [] "revertRow" [PInt] RVoid [On QSqlRelationalTableModel; On QSqlTableModel];
    Sig [] "rollbackTransaction" [] RBool [On QSqlDriver]
  ].

Definition methods_qtsql_0_s53 : list signature_row :=
  [
    Sig [VALUE_TYPE_QTCORE_QMODELINDEX] "rowCount" [PValue QModelIndex] RDouble [On QSqlQueryModel; On
        QSqlTableModel];
    Sig [] "select" [] RBool [On QSqlRelationalTableModel; On QSqlTableModel];
    Sig [] "selectRow" [PInt] RBool [On QSqlTableModel];
    Sig [VALUE_TYPE_QTCORE_QMODELINDEX] "setData" [PValue QModelIndex; PVariant; PInt] RBool [On
        QSqlRelationalTableModel; On QSqlTableModel];
    Sig [TYPE_QTSQL_QSQLTABLEMODEL] "setEditStrategy" [PValue QSqlTableModel_EditStrategy] RVoid [On
        QSqlTableModel];
    Sig [TYPE_QTWIDGETS_QWIDGET; VALUE_TYPE_QTCORE_QMODELINDEX] "setEditorData" [PObject QWidget false;
        PValue QModelIndex] RVoid [On QSqlRelationalDelegate];
    Sig [] "setFilter" [PString true] RVoid [On QSqlTableModel];
    Sig [ENUM_QT_ORIENTATION] "setHeaderData" [PInt; PValue Qt_Orientation; PVariant; PInt] RBool [On
        QSqlQueryModel]
  ].

Definition methods_qtsql_0_s61 : list signature_row :=
  [
    Sig [TYPE_QTSQL_QSQLRELATIONALTABLEMODEL] "setJoinMode" [PValue QSqlRelationalTableModel_JoinMode]
        RVoid [On QSqlRelationalTableModel];
    Sig [TYPE_QTCORE_QABSTRACTITEMMODEL; TYPE_QTWIDGETS_QWIDGET; VALUE_TYPE_QTCORE_QMODELINDEX]
        "setModelData" [PObject QWidget false; PObject QAbstractItemModel false; PValue QModelIndex] RVoid
        [On QSqlRelationalDelegate];
    Sig [VALUE_TYPE_QTSQL_QSQLQUERY] "setQuery" [PValue QSqlQuery] RVoid [On QSqlQueryModel];
    Sig [VALUE_TYPE_QTSQL_QSQLDATABASE] "setQuery" [PString true; PValue QSqlDatabase] RVoid [On
        QSqlQueryModel];
    Sig [VALUE_TYPE_QTSQL_QSQLRECORD] "setRecord" [PInt; PValue QSqlRecord] RBool [On QSqlTableModel];
    Sig [VALUE_TYPE_QTSQL_QSQLRELATION] "setRelation" [PInt; PValue QSqlRelation] RVoid [On
        QSqlRelationalTableModel];
    Sig [ENUM_QT_SORTORDER] "setSort" [PInt; PValue Qt_SortOrder] RVoid [On QSqlTableModel];
    Sig [] "setTable" [PString true] RVoid [On QSqlRelationalTableModel; On QSqlTableModel]
  ].

Definition methods_qtsql_0_s69 : list signature_row :=
  [
    Sig [ENUM_QT_SORTORDER] "sort" [PInt; PValue Qt_SortOrder] RVoid [On QSqlTableModel];
    Sig [TYPE_QTSQL_QSQLDRIVER; VALUE_TYPE_QTSQL_QSQLRECORD] "sqlStatement" [PValue
        QSqlDriver_StatementType; PString true; PValue QSqlRecord; PBool] RString [On QSqlDriver];
    Sig [TYPE_QTSQL_QSQLDRIVER] "stripDelimiters" [PString true; PValue QSqlDriver_IdentifierType] RString
        [On QSqlDriver];
    Sig [] "submit" [] RBool [On QSqlTableModel];
    Sig [] "submitAll" [] RBool [On QSqlTableModel];
    Sig [] "subscribeToNotification" [PString true] RBool [On QSqlDriver];
    Sig [] "subscribedToNotifications" [] (RList (IMeta QString)) [On QSqlDriver];
    Sig [] "tableName" [] RString [On QSqlTableModel];
    Sig [] "unsubscribeFromNotification" [PString true] RBool [On QSqlDriver]
  ].

Definition methods_qtsql_0 : method_shard :=
  MethodShard QtSql "KRY_QT6_NATIVE_METHODS_QTSQL_"
    (methods_qtsql_0_i0)
    (methods_qtsql_0_s0 ++ methods_qtsql_0_s9 ++ methods_qtsql_0_s18 ++ methods_qtsql_0_s27 ++
        methods_qtsql_0_s36 ++ methods_qtsql_0_s44 ++ methods_qtsql_0_s53 ++ methods_qtsql_0_s61 ++
        methods_qtsql_0_s69)
    [].

Definition methods_qtstatemachine_0_i0 : list include :=
  [
    ClassInclude QtStateMachine QAbstractState QAbstractState;
    ClassInclude QtStateMachine QAbstractTransition QAbstractTransition;
    ClassInclude QtStateMachine QEventTransition QEventTransition;
    ClassInclude QtStateMachine QHistoryState QHistoryState;
    ClassInclude QtStateMachine QKeyEventTransition QKeyEventTransition;
    ClassInclude QtStateMachine QMouseEventTransition QMouseEventTransition;
    ClassInclude QtStateMachine QSignalTransition QSignalTransition;
    ClassInclude QtStateMachine QState QState;
    ClassInclude QtStateMachine QStateMachine QStateMachine;
    TypeInclude QtCore QObject TYPE_QTCORE_QOBJECT;
    TypeInclude QtStateMachine QAbstractState TYPE_QTSTATEMACHINE_QABSTRACTSTATE;
    TypeInclude QtStateMachine QAbstractTransition TYPE_QTSTATEMACHINE_QABSTRACTTRANSITION;
    TypeInclude QtStateMachine QState TYPE_QTSTATEMACHINE_QSTATE;
    TypeInclude QtStateMachine QStateMachine TYPE_QTSTATEMACHINE_QSTATEMACHINE;
    EnumDefine ENUM_QT_MOUSEBUTTON;
    TypeInclude QtCore QEvent TYPE_QTCORE_QEVENT;
    TypeInclude QtStateMachine QAbstractTransition TYPE_QTSTATEMACHINE_QABSTRACTTRANSITION;
    TypeInclude QtStateMachine QHistoryState TYPE_QTSTATEMACHINE_QHISTORYSTATE;
    TypeInclude QtStateMachine QState TYPE_QTSTATEMACHINE_QSTATE;
    TypeInclude QtStateMachine QStateMachine TYPE_QTSTATEMACHINE_QSTATEMACHINE;
    TypeInclude QtCore QByteArray VALUE_TYPE_QTCORE_QBYTEARRAY;
    TypeInclude QtGui QPainterPath VALUE_TYPE_QTGUI_QPAINTERPATH
  ].

Definition methods_qtstatemachine_0_s0 : list signature_row :=
  [
    Sig [] "active" [] RBool [On QAbstractState];
    Sig [TYPE_QTSTATEMACHINE_QABSTRACTSTATE] "addState" [PObject QAbstractState false] RVoid [On
        QStateMachine];
    Sig [TYPE_QTSTATEMACHINE_QABSTRACTSTATE; TYPE_QTSTATEMACHINE_QABSTRACTTRANSITION] "addTransition"
        [PObject QAbstractState false] RObject [On QState];
    Sig [TYPE_QTSTATEMACHINE_QABSTRACTTRANSITION] "addTransition" [PObject QAbstractTransition false] RVoid
        [On QState];
    Sig [ENUM_QT_MOUSEBUTTON] "button" [] (RMeta Qt_MouseButton) [On QMouseEventTransition];
    Sig [] "cancelDelayedEvent" [PInt] RBool [On QStateMachine];
    Sig [TYPE_QTSTATEMACHINE_QSTATE] "childMode" [] (RMeta QState_ChildMode) [On QState];
    Sig [] "clearError" [] RVoid [On QStateMachine];
    Sig [TYPE_QTSTATEMACHINE_QABSTRACTSTATE] "defaultState" [] RObject [On QHistoryState];
    Sig [TYPE_QTSTATEMACHINE_QABSTRACTTRANSITION] "defaultTransition" [] RObject [On QHistoryState];
    Sig [TYPE_QTSTATEMACHINE_QSTATEMACHINE] "error" [] (RMeta QStateMachine_Error) [On QStateMachine]
  ].

Definition methods_qtstatemachine_0_s11 : list signature_row :=
  [
    Sig [TYPE_QTSTATEMACHINE_QABSTRACTSTATE] "errorState" [] RObject [On QState];
    Sig [] "errorString" [] RString [On QStateMachine];
    Sig [TYPE_QTCORE_QOBJECT] "eventSource" [] RObject [On QEventTransition];
    Sig [TYPE_QTCORE_QEVENT] "eventType" [] (RMeta QEvent_Type) [On QEventTransition];
    Sig [TYPE_QTSTATEMACHINE_QSTATE] "globalRestorePolicy" [] (RMeta QState_RestorePolicy) [On
        QStateMachine];
    Sig [TYPE_QTSTATEMACHINE_QHISTORYSTATE] "historyType" [] (RMeta QHistoryState_HistoryType) [On
        QHistoryState];
    Sig [VALUE_TYPE_QTGUI_QPAINTERPATH] "hitTestPath" [] (RValue QPainterPath) [On QMouseEventTransition];
    Sig [TYPE_QTSTATEMACHINE_QABSTRACTSTATE] "initialState" [] RObject [On QState];
    Sig [] "isAnimated" [] RBool [On QStateMachine];
    Sig [] "isRunning" [] RBool [On QStateMachine];
    Sig [] "key" [] RDouble [On QKeyEventTransition]
  ].

Definition methods_qtstatemachine_0_s22 : list signature_row :=
  [
    Sig [TYPE_QTSTATEMACHINE_QSTATEMACHINE] "machine" [] RObject [On QAbstractState; On
        QAbstractTransition];
    Sig [TYPE_QTSTATEMACHINE_QSTATE] "parentState" [] RObject [On QAbstractState];
    Sig [TYPE_QTSTATEMACHINE_QABSTRACTSTATE] "removeState" [PObject QAbstractState false] RVoid [On
        QStateMachine];
    Sig [TYPE_QTSTATEMACHINE_QABSTRACTTRANSITION] "removeTransition" [PObject QAbstractTransition false]
        RVoid [On QState];
    Sig [TYPE_QTCORE_QOBJECT] "senderObject" [] RObject [On QSignalTransition];
    Sig [] "setAnimated" [PBool] RVoid [On QStateMachine];
    Sig [ENUM_QT_MOUSEBUTTON] "setButton" [PValue Qt_MouseButton] RVoid [On QMouseEventTransition];
    Sig [TYPE_QTSTATEMACHINE_QSTATE] "setChildMode" [PValue QState_ChildMode] RVoid [On QState];
    Sig [TYPE_QTSTATEMACHINE_QABSTRACTSTATE] "setDefaultState" [PObject QAbstractState false] RVoid [On
        QHistoryState]
  ].

Definition methods_qtstatemachine_0_s31 : list signature_row :=
  [
    Sig [TYPE_QTSTATEMACHINE_QABSTRACTTRANSITION] "setDefaultTransition" [PObject QAbstractTransition
        false] RVoid [On QHistoryState];
    Sig [TYPE_QTSTATEMACHINE_QABSTRACTSTATE] "setErrorState" [PObject QAbstractState false] RVoid [On
        QState];
    Sig [TYPE_QTCORE_QOBJECT] "setEventSource" [PObject QObject false] RVoid [On QEventTransition];
    Sig [TYPE_QTCORE_QEVENT] "setEventType" [PValue QEvent_Type] RVoid [On QEventTransition];
    Sig [TYPE_QTSTATEMACHINE_QSTATE] "setGlobalRestorePolicy" [PValue QState_RestorePolicy] RVoid [On
        QStateMachine];
    Sig [TYPE_QTSTATEMACHINE_QHISTORYSTATE] "setHistoryType" [PValue QHistoryState_HistoryType] RVoid [On
        QHistoryState];
    Sig [VALUE_TYPE_QTGUI_QPAINTERPATH] "setHitTestPath" [PValue QPainterPath] RVoid [On
        QMouseEventTransition];
    Sig [TYPE_QTSTATEMACHINE_QABSTRACTSTATE] "setInitialState" [PObject QAbstractState false] RVoid [On
        QState];
    Sig [] "setKey" [PInt] RVoid [On QKeyEventTransition]
  ].

Definition methods_qtstatemachine_0_s40 : list signature_row :=
  [
    Sig [] "setRunning" [PBool] RVoid [On QStateMachine];
    Sig [TYPE_QTCORE_QOBJECT] "setSenderObject" [PObject QObject false] RVoid [On QSignalTransition];
    Sig [VALUE_TYPE_QTCORE_QBYTEARRAY] "setSignal" [PValue QByteArray] RVoid [On QSignalTransition];
    Sig [TYPE_QTSTATEMACHINE_QABSTRACTSTATE] "setTargetState" [PObject QAbstractState false] RVoid [On
        QAbstractTransition];
    Sig [TYPE_QTSTATEMACHINE_QABSTRACTSTATE] "setTargetStates" [PList (IObject QAbstractState)] RVoid [On
        QAbstractTransition];
    Sig [TYPE_QTSTATEMACHINE_QABSTRACTTRANSITION] "setTransitionType" [PValue
        QAbstractTransition_TransitionType] RVoid [On QAbstractTransition];
    Sig [VALUE_TYPE_QTCORE_QBYTEARRAY] "signal" [] (RValue QByteArray) [On QSignalTransition];
    Sig [TYPE_QTSTATEMACHINE_QSTATE] "sourceState" [] RObject [On QAbstractTransition];
    Sig [] "start" [] RVoid [On QStateMachine];
    Sig [] "stop" [] RVoid [On QStateMachine]
  ].

Definition methods_qtstatemachine_0_s50 : list signature_row :=
  [
    Sig [TYPE_QTSTATEMACHINE_QABSTRACTSTATE] "targetState" [] RObject [On QAbstractTransition];
    Sig [TYPE_QTSTATEMACHINE_QABSTRACTSTATE] "targetStates" [] (RList (IObject QObject)) [On
        QAbstractTransition];
    Sig [TYPE_QTSTATEMACHINE_QABSTRACTTRANSITION] "transitionType" [] (RMeta
        QAbstractTransition_TransitionType) [On QAbstractTransition];
    Sig [TYPE_QTSTATEMACHINE_QABSTRACTTRANSITION] "transitions" [] (RList (IObject QObject)) [On QState]
  ].

Definition methods_qtstatemachine_0 : method_shard :=
  MethodShard QtStateMachine "KRY_QT6_NATIVE_METHODS_QTSTATEMACHINE_"
    (methods_qtstatemachine_0_i0)
    (methods_qtstatemachine_0_s0 ++ methods_qtstatemachine_0_s11 ++ methods_qtstatemachine_0_s22 ++
        methods_qtstatemachine_0_s31 ++ methods_qtstatemachine_0_s40 ++ methods_qtstatemachine_0_s50)
    [].

Definition methods_qtsvg_0_i0 : list include :=
  [
    ClassInclude QtSvg QSvgRenderer QSvgRenderer;
    EnumDefine ENUM_QT_ASPECTRATIOMODE;
    TypeInclude QtCore QByteArray VALUE_TYPE_QTCORE_QBYTEARRAY;
    TypeInclude QtCore QRect VALUE_TYPE_QTCORE_QRECT;
    TypeInclude QtCore QRectF VALUE_TYPE_QTCORE_QRECTF;
    TypeInclude QtCore QSize VALUE_TYPE_QTCORE_QSIZE;
    TypeInclude QtGui QTransform VALUE_TYPE_QTGUI_QTRANSFORM
  ].

Definition methods_qtsvg_0_s0 : list signature_row :=
  [
    Sig [] "animated" [] RBool [On QSvgRenderer];
    Sig [] "animationDuration" [] RDouble [On QSvgRenderer];
    Sig [ENUM_QT_ASPECTRATIOMODE] "aspectRatioMode" [] (RMeta Qt_AspectRatioMode) [On QSvgRenderer];
    Sig [VALUE_TYPE_QTCORE_QRECTF] "boundsOnElement" [PString true] (RValue QRectF) [On QSvgRenderer];
    Sig [] "currentFrame" [] RDouble [On QSvgRenderer];
    Sig [VALUE_TYPE_QTCORE_QSIZE] "defaultSize" [] (RValue QSize) [On QSvgRenderer];
    Sig [] "elementExists" [PString true] RBool [On QSvgRenderer];
    Sig [] "framesPerSecond" [] RDouble [On QSvgRenderer];
    Sig [] "isAnimationEnabled" [] RBool [On QSvgRenderer];
    Sig [] "isValid" [] RBool [On QSvgRenderer];
    Sig [VALUE_TYPE_QTCORE_QBYTEARRAY] "load" [PValue QByteArray] RBool [On QSvgRenderer]
  ].

Definition methods_qtsvg_0_s11 : list signature_row :=
  [
    Sig [] "load" [PString true] RBool [On QSvgRenderer];
    Sig [] "setAnimationEnabled" [PBool] RVoid [On QSvgRenderer];
    Sig [ENUM_QT_ASPECTRATIOMODE] "setAspectRatioMode" [PValue Qt_AspectRatioMode] RVoid [On QSvgRenderer];
    Sig [] "setCurrentFrame" [PInt] RVoid [On QSvgRenderer];
    Sig [] "setFramesPerSecond" [PInt] RVoid [On QSvgRenderer];
    Sig [VALUE_TYPE_QTCORE_QRECT] "setViewBox" [PValue QRect] RVoid [On QSvgRenderer];
    Sig [VALUE_TYPE_QTCORE_QRECTF] "setViewBox" [PValue QRectF] RVoid [On QSvgRenderer];
    Sig [VALUE_TYPE_QTGUI_QTRANSFORM] "transformForElement" [PString true] (RValue QTransform) [On
        QSvgRenderer];
    Sig [VALUE_TYPE_QTCORE_QRECT] "viewBox" [] (RValue QRect) [On QSvgRenderer];
    Sig [VALUE_TYPE_QTCORE_QRECTF] "viewBoxF" [] (RValue QRectF) [On QSvgRenderer]
  ].

Definition methods_qtsvg_0 : method_shard :=
  MethodShard QtSvg "KRY_QT6_NATIVE_METHODS_QTSVG_"
    (methods_qtsvg_0_i0)
    (methods_qtsvg_0_s0 ++ methods_qtsvg_0_s11)
    [].

Definition methods_qtsvgwidgets_0_i0 : list include :=
  [
    ClassInclude QtSvgWidgets QGraphicsSvgItem QGraphicsSvgItem;
    ClassInclude QtSvgWidgets QSvgWidget QSvgWidget;
    TypeInclude QtSvg QSvgRenderer TYPE_QTSVG_QSVGRENDERER;
    TypeInclude QtCore QByteArray VALUE_TYPE_QTCORE_QBYTEARRAY;
    TypeInclude QtCore QRectF VALUE_TYPE_QTCORE_QRECTF;
    TypeInclude QtCore QSize VALUE_TYPE_QTCORE_QSIZE
  ].

Definition methods_qtsvgwidgets_0_s0 : list signature_row :=
  [
    Sig [VALUE_TYPE_QTCORE_QRECTF] "boundingRect" [] (RValue QRectF) [On QGraphicsSvgItem];
    Sig [] "elementId" [] RString [On QGraphicsSvgItem];
    Sig [VALUE_TYPE_QTCORE_QBYTEARRAY] "load" [PValue QByteArray] RVoid [On QSvgWidget];
    Sig [] "load" [PString true] RVoid [On QSvgWidget];
    Sig [VALUE_TYPE_QTCORE_QSIZE] "maximumCacheSize" [] (RValue QSize) [On QGraphicsSvgItem];
    Sig [TYPE_QTSVG_QSVGRENDERER] "renderer" [] RObject [On QGraphicsSvgItem; On QSvgWidget];
    Sig [] "setElementId" [PString true] RVoid [On QGraphicsSvgItem];
    Sig [VALUE_TYPE_QTCORE_QSIZE] "setMaximumCacheSize" [PValue QSize] RVoid [On QGraphicsSvgItem];
    Sig [TYPE_QTSVG_QSVGRENDERER] "setSharedRenderer" [PObject QSvgRenderer false] RVoid [On
        QGraphicsSvgItem];
    Sig [VALUE_TYPE_QTCORE_QSIZE] "sizeHint" [] (RValue QSize) [On QSvgWidget]
  ].

Definition methods_qtsvgwidgets_0_s10 : list signature_row :=
  [
    Sig [] "type" [] RDouble [On QGraphicsSvgItem]
  ].

Definition methods_qtsvgwidgets_0 : method_shard :=
  MethodShard QtSvgWidgets "KRY_QT6_NATIVE_METHODS_QTSVGWIDGETS_"
    (methods_qtsvgwidgets_0_i0)
    (methods_qtsvgwidgets_0_s0 ++ methods_qtsvgwidgets_0_s10)
    [].

Definition methods_qttest_0_i0 : list include :=
  [
    ClassInclude QtTest QAbstractItemModelTester QAbstractItemModelTester;
    TypeInclude QtCore QAbstractItemModel TYPE_QTCORE_QABSTRACTITEMMODEL;
    TypeInclude QtTest QAbstractItemModelTester TYPE_QTTEST_QABSTRACTITEMMODELTESTER
  ].

Definition methods_qttest_0_s0 : list signature_row :=
  [
    Sig [TYPE_QTTEST_QABSTRACTITEMMODELTESTER] "failureReportingMode" [] (RMeta
        QAbstractItemModelTester_FailureReportingMode) [On QAbstractItemModelTester];
    Sig [TYPE_QTCORE_QABSTRACTITEMMODEL] "model" [] RObject [On QAbstractItemModelTester];
    Sig [] "setUseFetchMore" [PBool] RVoid [On QAbstractItemModelTester]
  ].

Definition methods_qttest_0 : method_shard :=
  MethodShard QtTest "KRY_QT6_NATIVE_METHODS_QTTEST_"
    (methods_qttest_0_i0)
    (methods_qttest_0_s0)
    [].

Definition methods_qttexttospeech_0_i0 : list include :=
  [
    ClassInclude QtTextToSpeech QTextToSpeech QTextToSpeech;
    ClassInclude QtTextToSpeech QVoice QVoice;
    TypeInclude QtTextToSpeech QTextToSpeech TYPE_QTTEXTTOSPEECH_QTEXTTOSPEECH;
    TypeInclude QtTextToSpeech QVoice TYPE_QTTEXTTOSPEECH_QVOICE;
    TypeInclude QtCore QLocale VALUE_TYPE_QTCORE_QLOCALE;
    TypeInclude QtTextToSpeech QVoice VALUE_TYPE_QTTEXTTOSPEECH_QVOICE
  ].

Definition methods_qttexttospeech_0_s0 : list signature_row :=
  [
    Sig [TYPE_QTTEXTTOSPEECH_QVOICE] "ageName" [PValue QVoice_Age] RString [Static QVoice];
    Sig [] "availableEngines" [] (RList (IMeta QString)) [Static QTextToSpeech];
    Sig [VALUE_TYPE_QTCORE_QLOCALE] "availableLocales" [] (RList (IValue QLocale)) [On QTextToSpeech];
    Sig [VALUE_TYPE_QTTEXTTOSPEECH_QVOICE] "availableVoices" [] (RList (IValue QVoice)) [On QTextToSpeech];
    Sig [] "engine" [] RString [On QTextToSpeech];
    Sig [TYPE_QTTEXTTOSPEECH_QTEXTTOSPEECH] "engineCapabilities" [] (RMeta QTextToSpeech_Capabilities) [On
        QTextToSpeech];
    Sig [] "enqueue" [PString true] (RMeta cxx_qsizetype) [On QTextToSpeech];
    Sig [TYPE_QTTEXTTOSPEECH_QTEXTTOSPEECH] "errorReason" [] (RMeta QTextToSpeech_ErrorReason) [On
        QTextToSpeech];
    Sig [] "errorString" [] RString [On QTextToSpeech];
    Sig [TYPE_QTTEXTTOSPEECH_QVOICE] "genderName" [PValue QVoice_Gender] RString [Static QVoice]
  ].

Definition methods_qttexttospeech_0_s10 : list signature_row :=
  [
    Sig [VALUE_TYPE_QTCORE_QLOCALE] "locale" [] (RValue QLocale) [On QTextToSpeech];
    Sig [TYPE_QTTEXTTOSPEECH_QTEXTTOSPEECH] "pause" [PValue QTextToSpeech_BoundaryHint] RVoid [On
        QTextToSpeech];
    Sig [] "pitch" [] RDouble [On QTextToSpeech];
    Sig [] "rate" [] RDouble [On QTextToSpeech];
    Sig [] "resume" [] RVoid [On QTextToSpeech];
    Sig [] "say" [PString true] RVoid [On QTextToSpeech];
    Sig [VALUE_TYPE_QTCORE_QLOCALE] "setLocale" [PValue QLocale] RVoid [On QTextToSpeech];
    Sig [] "setPitch" [PNumber cxx_double] RVoid [On QTextToSpeech];
    Sig [] "setRate" [PNumber cxx_double] RVoid [On QTextToSpeech];
    Sig [VALUE_TYPE_QTTEXTTOSPEECH_QVOICE] "setVoice" [PValue QVoice] RVoid [On QTextToSpeech]
  ].

Definition methods_qttexttospeech_0_s20 : list signature_row :=
  [
    Sig [] "setVolume" [PNumber cxx_double] RVoid [On QTextToSpeech];
    Sig [TYPE_QTTEXTTOSPEECH_QTEXTTOSPEECH] "state" [] (RMeta QTextToSpeech_State) [On QTextToSpeech];
    Sig [TYPE_QTTEXTTOSPEECH_QTEXTTOSPEECH] "stop" [PValue QTextToSpeech_BoundaryHint] RVoid [On
        QTextToSpeech];
    Sig [VALUE_TYPE_QTTEXTTOSPEECH_QVOICE] "voice" [] (RValue QVoice) [On QTextToSpeech];
    Sig [] "volume" [] RDouble [On QTextToSpeech]
  ].

Definition methods_qttexttospeech_0 : method_shard :=
  MethodShard QtTextToSpeech "KRY_QT6_NATIVE_METHODS_QTTEXTTOSPEECH_"
    (methods_qttexttospeech_0_i0)
    (methods_qttexttospeech_0_s0 ++ methods_qttexttospeech_0_s10 ++ methods_qttexttospeech_0_s20)
    [].

Definition methods_qtxml_0_i0 : list include :=
  [
    ClassInclude QtXml QDomImplementation QDomImplementation;
    TypeInclude QtXml QDomImplementation TYPE_QTXML_QDOMIMPLEMENTATION
  ].

Definition methods_qtxml_0_s0 : list signature_row :=
  [
    Sig [TYPE_QTXML_QDOMIMPLEMENTATION] "invalidDataPolicy" [] (RMeta QDomImplementation_InvalidDataPolicy)
        [Static QDomImplementation];
    Sig [TYPE_QTXML_QDOMIMPLEMENTATION] "setInvalidDataPolicy" [PValue
        QDomImplementation_InvalidDataPolicy] RVoid [Static QDomImplementation]
  ].

Definition methods_qtxml_0 : method_shard :=
  MethodShard QtXml "KRY_QT6_NATIVE_METHODS_QTXML_"
    (methods_qtxml_0_i0)
    (methods_qtxml_0_s0)
    [].
