(* ===== verification/MethodsQt3D.v ===== *)
(** Rows of the shards of generated_methods: qt3danimation_0, qt3dcore_0, qt3dextras_0,
    qt3dextras_1, qt3dinput_0, qt3dlogic_0, qt3drender_0, qt3drender_1, qt3drender_2,
    qt3drender_3. *)
From S2P Require Import Names.

(** * Definitions *)

Definition methods_qt3danimation_0_i0 : list include :=
  [
    ClassInclude Qt3DAnimation QAbstractAnimation QAbstractAnimation;
    ClassInclude Qt3DAnimation QAbstractAnimationClip QAbstractAnimationClip;
    ClassInclude Qt3DAnimation QAbstractClipAnimator QAbstractClipAnimator;
    ClassInclude Qt3DAnimation QAdditiveClipBlend QAdditiveClipBlend;
    ClassInclude Qt3DAnimation QAnimationClipLoader QAnimationClipLoader;
    ClassInclude Qt3DAnimation QAnimationController QAnimationController;
    ClassInclude Qt3DAnimation QAnimationGroup QAnimationGroup;
    ClassInclude Qt3DAnimation QBlendedClipAnimator QBlendedClipAnimator;
    ClassInclude Qt3DAnimation QChannelMapper QChannelMapper;
    ClassInclude Qt3DAnimation QChannelMapping QChannelMapping;
    ClassInclude Qt3DAnimation QClipAnimator QClipAnimator;
    ClassInclude Qt3DAnimation QClipBlendValue QClipBlendValue;
    ClassInclude Qt3DAnimation QClock QClock;
    ClassInclude Qt3DAnimation QKeyframeAnimation QKeyframeAnimation;
    ClassInclude Qt3DAnimation QLerpClipBlend QLerpClipBlend;
    ClassInclude Qt3DAnimation QMorphTarget QMorphTarget;
    ClassInclude Qt3DAnimation QMorphingAnimation QMorphingAnimation;
    ClassInclude Qt3DAnimation QSkeletonMapping QSkeletonMapping;
    ClassInclude Qt3DAnimation QVertexBlendAnimation QVertexBlendAnimation;
    TypeInclude Qt3DAnimation QAbstractAnimation TYPE_QT3DANIMATION_QABSTRACTANIMATION;
    TypeInclude Qt3DAnimation QAbstractAnimationClip TYPE_QT3DANIMATION_QABSTRACTANIMATIONCLIP;
    TypeInclude Qt3DAnimation QAbstractChannelMapping TYPE_QT3DANIMATION_QABSTRACTCHANNELMAPPING;
    TypeInclude Qt3DAnimation QAbstractClipBlendNode TYPE_QT3DANIMATION_QABSTRACTCLIPBLENDNODE;
    TypeInclude Qt3DAnimation QAnimationGroup TYPE_QT3DANIMATION_QANIMATIONGROUP;
    TypeInclude Qt3DAnimation QChannelMapper TYPE_QT3DANIMATION_QCHANNELMAPPER;
    TypeInclude Qt3DAnimation QClock TYPE_QT3DANIMATION_QCLOCK;
    TypeInclude Qt3DAnimation QMorphTarget TYPE_QT3DANIMATION_QMORPHTARGET;
    TypeInclude Qt3DCore QAbstractSkeleton TYPE_QT3DCORE_QABSTRACTSKELETON;
    TypeInclude Qt3DCore QAttribute TYPE_QT3DCORE_QATTRIBUTE;
    TypeInclude Qt3DCore QEntity TYPE_QT3DCORE_QENTITY;
    TypeInclude Qt3DCore QGeometry TYPE_QT3DCORE_QGEOMETRY;
    TypeInclude Qt3DCore QNode TYPE_QT3DCORE_QNODE;
    TypeInclude Qt3DRender QGeometryRenderer TYPE_QT3DRENDER_QGEOMETRYRENDERER;
    TypeInclude Qt3DAnimation QAbstractAnimation TYPE_QT3DANIMATION_QABSTRACTANIMATION;
    TypeInclude Qt3DAnimation QAnimationClipLoader TYPE_QT3DANIMATION_QANIMATIONCLIPLOADER;
    TypeInclude Qt3DAnimation QKeyframeAnimation TYPE_QT3DANIMATION_QKEYFRAMEANIMATION;
    TypeInclude Qt3DAnimation QMorphingAnimation TYPE_QT3DANIMATION_QMORPHINGANIMATION;
    TypeInclude QtCore QEasingCurve VALUE_TYPE_QTCORE_QEASINGCURVE;
    TypeInclude QtCore QUrl VALUE_TYPE_QTCORE_QURL
  ].

Definition methods_qt3danimation_0_s0 : list signature_row :=
  [
    Sig [] "activeAnimationGroup" [] RDouble [On QAnimationController];
    Sig [TYPE_QT3DANIMATION_QABSTRACTANIMATION] "addAnimation" [PObject Qt3DAnimation_QAbstractAnimation
        false] RVoid [On QAnimationGroup];
    Sig [TYPE_QT3DANIMATION_QANIMATIONGROUP] "addAnimationGroup" [PObject Qt3DAnimation_QAnimationGroup
        false] RVoid [On QAnimationController];
    Sig [TYPE_QT3DCORE_QATTRIBUTE] "addAttribute" [PObject Qt3DCore_QAttribute false] RVoid [On
        QMorphTarget];
    Sig [TYPE_QT3DANIMATION_QABSTRACTCHANNELMAPPING] "addMapping" [PObject
        Qt3DAnimation_QAbstractChannelMapping false] RVoid [On QChannelMapper];
    Sig [TYPE_QT3DANIMATION_QMORPHTARGET] "addMorphTarget" [PObject Qt3DAnimation_QMorphTarget false] RVoid
        [On QMorphingAnimation; On QVertexBlendAnimation];
    Sig [TYPE_QT3DANIMATION_QABSTRACTCLIPBLENDNODE] "additiveClip" [] RObject [On QAdditiveClipBlend];
    Sig [] "additiveFactor" [] RDouble [On QAdditiveClipBlend];
    Sig [TYPE_QT3DANIMATION_QANIMATIONGROUP] "animationGroupList" [] (RList (IObject QObject)) [On
        QAnimationController]
  ].

Definition methods_qt3danimation_0_s9 : list signature_row :=
  [
    Sig [TYPE_QT3DANIMATION_QABSTRACTANIMATION] "animationList" [] (RList (IObject QObject)) [On
        QAnimationGroup];
    Sig [] "animationName" [] RString [On QAbstractAnimation];
    Sig [TYPE_QT3DANIMATION_QABSTRACTANIMATION] "animationType" [] (RMeta
        Qt3DAnimation_QAbstractAnimation_AnimationType) [On QAbstractAnimation];
    Sig [TYPE_QT3DCORE_QATTRIBUTE] "attributeList" [] (RList (IObject QObject)) [On QMorphTarget];
    Sig [] "attributeNames" [] (RList (IMeta QString)) [On QMorphTarget];
    Sig [TYPE_QT3DANIMATION_QABSTRACTCLIPBLENDNODE] "baseClip" [] RObject [On QAdditiveClipBlend];
    Sig [] "blendFactor" [] RDouble [On QLerpClipBlend];
    Sig [TYPE_QT3DANIMATION_QABSTRACTCLIPBLENDNODE] "blendTree" [] RObject [On QBlendedClipAnimator];
    Sig [TYPE_QT3DANIMATION_QCHANNELMAPPER] "channelMapper" [] RObject [On QAbstractClipAnimator];
    Sig [] "channelName" [] RString [On QChannelMapping];
    Sig [TYPE_QT3DANIMATION_QABSTRACTANIMATIONCLIP] "clip" [] RObject [On QClipAnimator; On QClipBlendValue]
  ].

Definition methods_qt3danimation_0_s20 : list signature_row :=
  [
    Sig [TYPE_QT3DANIMATION_QCLOCK] "clock" [] RObject [On QAbstractClipAnimator];
    Sig [] "duration" [] RDouble [On QAbstractAnimation; On QAbstractAnimationClip; On QAnimationGroup];
    Sig [VALUE_TYPE_QTCORE_QEASINGCURVE] "easing" [] (RValue QEasingCurve) [On QKeyframeAnimation; On
        QMorphingAnimation];
    Sig [TYPE_QT3DANIMATION_QABSTRACTCLIPBLENDNODE] "endClip" [] RObject [On QLerpClipBlend];
    Sig [TYPE_QT3DANIMATION_QKEYFRAMEANIMATION] "endMode" [] (RMeta
        Qt3DAnimation_QKeyframeAnimation_RepeatMode) [On QKeyframeAnimation];
    Sig [TYPE_QT3DCORE_QENTITY] "entity" [] RObject [On QAnimationController];
    Sig [] "framePositions" [] (RList (IMeta cxx_float)) [On QKeyframeAnimation];
    Sig [TYPE_QT3DANIMATION_QMORPHTARGET; TYPE_QT3DCORE_QGEOMETRY] "fromGeometry" [PObject
        Qt3DCore_QGeometry false; PStringList] RObject [Static QMorphTarget];
    Sig [] "getAnimationIndex" [PString true] RDouble [On QAnimationController]
  ].

Definition methods_qt3danimation_0_s29 : list signature_row :=
  [
    Sig [TYPE_QT3DANIMATION_QANIMATIONGROUP] "getGroup" [PInt] RObject [On QAnimationController];
    Sig [] "getWeights" [PInt] (RList (IMeta cxx_float)) [On QMorphingAnimation];
    Sig [] "interpolator" [] RDouble [On QMorphingAnimation; On QVertexBlendAnimation];
    Sig [] "isRunning" [] RBool [On QAbstractClipAnimator];
    Sig [] "loopCount" [] RDouble [On QAbstractClipAnimator];
    Sig [TYPE_QT3DANIMATION_QABSTRACTCHANNELMAPPING] "mappings" [] (RList (IObject QObject)) [On
        QChannelMapper];
    Sig [TYPE_QT3DANIMATION_QMORPHINGANIMATION] "method" [] (RMeta Qt3DAnimation_QMorphingAnimation_Method)
        [On QMorphingAnimation];
    Sig [TYPE_QT3DANIMATION_QMORPHTARGET] "morphTargetList" [] (RList (IObject QObject)) [On
        QMorphingAnimation; On QVertexBlendAnimation];
    Sig [] "name" [] RString [On QAnimationGroup];
    Sig [] "normalizedTime" [] RDouble [On QAbstractClipAnimator]
  ].

Definition methods_qt3danimation_0_s39 : list signature_row :=
  [
    Sig [] "playbackRate" [] RDouble [On QClock];
    Sig [] "position" [] RDouble [On QAbstractAnimation; On QAnimationController; On QAnimationGroup];
    Sig [] "positionOffset" [] RDouble [On QAnimationController];
    Sig [] "positionScale" [] RDouble [On QAnimationController];
    Sig [] "property" [] RString [On QChannelMapping];
    Sig [] "recursive" [] RBool [On QAnimationController];
    Sig [TYPE_QT3DANIMATION_QABSTRACTANIMATION] "removeAnimation" [PObject Qt3DAnimation_QAbstractAnimation
        false] RVoid [On QAnimationGroup];
    Sig [TYPE_QT3DANIMATION_QANIMATIONGROUP] "removeAnimationGroup" [PObject Qt3DAnimation_QAnimationGroup
        false] RVoid [On QAnimationController];
    Sig [TYPE_QT3DCORE_QATTRIBUTE] "removeAttribute" [PObject Qt3DCore_QAttribute false] RVoid [On
        QMorphTarget];
    Sig [TYPE_QT3DANIMATION_QABSTRACTCHANNELMAPPING] "removeMapping" [PObject
        Qt3DAnimation_QAbstractChannelMapping false] RVoid [On QChannelMapper]
  ].

Definition methods_qt3danimation_0_s49 : list signature_row :=
  [
    Sig [TYPE_QT3DANIMATION_QMORPHTARGET] "removeMorphTarget" [PObject Qt3DAnimation_QMorphTarget false]
        RVoid [On QMorphingAnimation; On QVertexBlendAnimation];
    Sig [] "setActiveAnimationGroup" [PInt] RVoid [On QAnimationController];
    Sig [TYPE_QT3DANIMATION_QABSTRACTCLIPBLENDNODE] "setAdditiveClip" [PObject
        Qt3DAnimation_QAbstractClipBlendNode false] RVoid [On QAdditiveClipBlend];
    Sig [] "setAdditiveFactor" [PNumber cxx_float] RVoid [On QAdditiveClipBlend];
    Sig [TYPE_QT3DANIMATION_QANIMATIONGROUP] "setAnimationGroups" [PList (IObject
        Qt3DAnimation_QAnimationGroup)] RVoid [On QAnimationController];
    Sig [] "setAnimationName" [PString true] RVoid [On QAbstractAnimation];
    Sig [TYPE_QT3DANIMATION_QABSTRACTANIMATION] "setAnimations" [PList (IObject
        Qt3DAnimation_QAbstractAnimation)] RVoid [On QAnimationGroup];
    Sig [TYPE_QT3DCORE_QATTRIBUTE] "setAttributes" [PList (IObject Qt3DCore_QAttribute)] RVoid [On
        QMorphTarget]
  ].

Definition methods_qt3danimation_0_s57 : list signature_row :=
  [
    Sig [TYPE_QT3DANIMATION_QABSTRACTCLIPBLENDNODE] "setBaseClip" [PObject
        Qt3DAnimation_QAbstractClipBlendNode false] RVoid [On QAdditiveClipBlend];
    Sig [] "setBlendFactor" [PNumber cxx_float] RVoid [On QLerpClipBlend];
    Sig [TYPE_QT3DANIMATION_QABSTRACTCLIPBLENDNODE] "setBlendTree" [PObject
        Qt3DAnimation_QAbstractClipBlendNode false] RVoid [On QBlendedClipAnimator];
    Sig [TYPE_QT3DANIMATION_QCHANNELMAPPER] "setChannelMapper" [PObject Qt3DAnimation_QChannelMapper false]
        RVoid [On QAbstractClipAnimator];
    Sig [] "setChannelName" [PString true] RVoid [On QChannelMapping];
    Sig [TYPE_QT3DANIMATION_QABSTRACTANIMATIONCLIP] "setClip" [PObject Qt3DAnimation_QAbstractAnimationClip
        false] RVoid [On QClipAnimator; On QClipBlendValue];
    Sig [TYPE_QT3DANIMATION_QCLOCK] "setClock" [PObject Qt3DAnimation_QClock false] RVoid [On
        QAbstractClipAnimator];
    Sig [VALUE_TYPE_QTCORE_QEASINGCURVE] "setEasing" [PValue QEasingCurve] RVoid [On QKeyframeAnimation; On
        QMorphingAnimation]
  ].

Definition methods_qt3danimation_0_s65 : list signature_row :=
  [
    Sig [TYPE_QT3DANIMATION_QABSTRACTCLIPBLENDNODE] "setEndClip" [PObject
        Qt3DAnimation_QAbstractClipBlendNode false] RVoid [On QLerpClipBlend];
    Sig [TYPE_QT3DANIMATION_QKEYFRAMEANIMATION] "setEndMode" [PValue
        Qt3DAnimation_QKeyframeAnimation_RepeatMode] RVoid [On QKeyframeAnimation];
    Sig [TYPE_QT3DCORE_QENTITY] "setEntity" [PObject Qt3DCore_QEntity false] RVoid [On
        QAnimationController];
    Sig [] "setFramePositions" [PList (IMeta cxx_float)] RVoid [On QKeyframeAnimation];
    Sig [] "setLoopCount" [PInt] RVoid [On QAbstractClipAnimator];
    Sig [TYPE_QT3DANIMATION_QMORPHINGANIMATION] "setMethod" [PValue
        Qt3DAnimation_QMorphingAnimation_Method] RVoid [On QMorphingAnimation];
    Sig [TYPE_QT3DANIMATION_QMORPHTARGET] "setMorphTargets" [PList (IObject Qt3DAnimation_QMorphTarget)]
        RVoid [On QMorphingAnimation; On QVertexBlendAnimation];
    Sig [] "setName" [PString true] RVoid [On QAnimationGroup];
    Sig [] "setNormalizedTime" [PNumber cxx_float] RVoid [On QAbstractClipAnimator]
  ].

Definition methods_qt3danimation_0_s74 : list signature_row :=
  [
    Sig [] "setPlaybackRate" [PNumber cxx_double] RVoid [On QClock];
    Sig [] "setPosition" [PNumber cxx_float] RVoid [On QAbstractAnimation; On QAnimationController; On
        QAnimationGroup];
    Sig [] "setPositionOffset" [PNumber cxx_float] RVoid [On QAnimationController];
    Sig [] "setPositionScale" [PNumber cxx_float] RVoid [On QAnimationController];
    Sig [] "setProperty" [PString true] RVoid [On QChannelMapping];
    Sig [] "setRecursive" [PBool] RVoid [On QAnimationController];
    Sig [] "setRunning" [PBool] RVoid [On QAbstractClipAnimator];
    Sig [TYPE_QT3DCORE_QABSTRACTSKELETON] "setSkeleton" [PObject Qt3DCore_QAbstractSkeleton false] RVoid
        [On QSkeletonMapping];
    Sig [VALUE_TYPE_QTCORE_QURL] "setSource" [PValue QUrl] RVoid [On QAnimationClipLoader]
  ].

Definition methods_qt3danimation_0_s83 : list signature_row :=
  [
    Sig [TYPE_QT3DANIMATION_QABSTRACTCLIPBLENDNODE] "setStartClip" [PObject
        Qt3DAnimation_QAbstractClipBlendNode false] RVoid [On QLerpClipBlend];
    Sig [TYPE_QT3DANIMATION_QKEYFRAMEANIMATION] "setStartMode" [PValue
        Qt3DAnimation_QKeyframeAnimation_RepeatMode] RVoid [On QKeyframeAnimation];
    Sig [TYPE_QT3DCORE_QNODE] "setTarget" [PObject Qt3DCore_QNode false] RVoid [On QChannelMapping];
    Sig [TYPE_QT3DRENDER_QGEOMETRYRENDERER] "setTarget" [PObject Qt3DRender_QGeometryRenderer false] RVoid
        [On QMorphingAnimation; On QVertexBlendAnimation];
    Sig [] "setTargetName" [PString true] RVoid [On QKeyframeAnimation; On QMorphingAnimation; On
        QVertexBlendAnimation];
    Sig [] "setTargetPositions" [PList (IMeta cxx_float)] RVoid [On QMorphingAnimation; On
        QVertexBlendAnimation];
    Sig [] "setWeights" [PInt; PList (IMeta cxx_float)] RVoid [On QMorphingAnimation];
    Sig [TYPE_QT3DCORE_QABSTRACTSKELETON] "skeleton" [] RObject [On QSkeletonMapping]
  ].

Definition methods_qt3danimation_0_s91 : list signature_row :=
  [
    Sig [VALUE_TYPE_QTCORE_QURL] "source" [] (RValue QUrl) [On QAnimationClipLoader];
    Sig [] "start" [] RVoid [On QAbstractClipAnimator];
    Sig [TYPE_QT3DANIMATION_QABSTRACTCLIPBLENDNODE] "startClip" [] RObject [On QLerpClipBlend];
    Sig [TYPE_QT3DANIMATION_QKEYFRAMEANIMATION] "startMode" [] (RMeta
        Qt3DAnimation_QKeyframeAnimation_RepeatMode) [On QKeyframeAnimation];
    Sig [TYPE_QT3DANIMATION_QANIMATIONCLIPLOADER] "status" [] (RMeta
        Qt3DAnimation_QAnimationClipLoader_Status) [On QAnimationClipLoader];
    Sig [] "stop" [] RVoid [On QAbstractClipAnimator];
    Sig [TYPE_QT3DCORE_QNODE] "target" [] RObject [On QChannelMapping];
    Sig [TYPE_QT3DRENDER_QGEOMETRYRENDERER] "target" [] RObject [On QMorphingAnimation; On
        QVertexBlendAnimation];
    Sig [] "targetName" [] RString [On QKeyframeAnimation; On QMorphingAnimation; On QVertexBlendAnimation];
    Sig [] "targetPositions" [] (RList (IMeta cxx_float)) [On QMorphingAnimation; On QVertexBlendAnimation]
  ].

Definition methods_qt3danimation_0 : method_shard :=
  MethodShard Qt3DAnimation "KRY_QT6_NATIVE_METHODS_QT3DANIMATION_"
    (methods_qt3danimation_0_i0)
    (methods_qt3danimation_0_s0 ++ methods_qt3danimation_0_s9 ++ methods_qt3danimation_0_s20 ++
        methods_qt3danimation_0_s29 ++ methods_qt3danimation_0_s39 ++ methods_qt3danimation_0_s49 ++
        methods_qt3danimation_0_s57 ++ methods_qt3danimation_0_s65 ++ methods_qt3danimation_0_s74 ++
        methods_qt3danimation_0_s83 ++ methods_qt3danimation_0_s91)
    [].

Definition methods_qt3dcore_0_i0 : list include :=
  [
    ClassInclude Qt3DCore QAbstractSkeleton QAbstractSkeleton;
    ClassInclude Qt3DCore QArmature QArmature;
    ClassInclude Qt3DCore QAspectEngine QAspectEngine;
    ClassInclude Qt3DCore QAttribute QAttribute;
    ClassInclude Qt3DCore QBoundingVolume QBoundingVolume;
    ClassInclude Qt3DCore QBuffer QBuffer;
    ClassInclude Qt3DCore QComponent QComponent;
    ClassInclude Qt3DCore QCoreSettings QCoreSettings;
    ClassInclude Qt3DCore QEntity QEntity;
    ClassInclude Qt3DCore QGeometry QGeometry;
    ClassInclude Qt3DCore QGeometryView QGeometryView;
    ClassInclude Qt3DCore QJoint QJoint;
    ClassInclude Qt3DCore QNode QNode;
    ClassInclude Qt3DCore QSkeleton QSkeleton;
    ClassInclude Qt3DCore QSkeletonLoader QSkeletonLoader;
    ClassInclude Qt3DCore QTransform QTransform;
    TypeInclude Qt3DCore QAbstractAspect TYPE_QT3DCORE_QABSTRACTASPECT;
    TypeInclude Qt3DCore QAbstractSkeleton TYPE_QT3DCORE_QABSTRACTSKELETON;
    TypeInclude Qt3DCore QAttribute TYPE_QT3DCORE_QATTRIBUTE;
    TypeInclude Qt3DCore QBuffer TYPE_QT3DCORE_QBUFFER;
    TypeInclude Qt3DCore QComponent TYPE_QT3DCORE_QCOMPONENT;
    TypeInclude Qt3DCore QEntity TYPE_QT3DCORE_QENTITY;
    TypeInclude Qt3DCore QGeometry TYPE_QT3DCORE_QGEOMETRY;
    TypeInclude Qt3DCore QGeometryView TYPE_QT3DCORE_QGEOMETRYVIEW;
    TypeInclude Qt3DCore QJoint TYPE_QT3DCORE_QJOINT;
    TypeInclude Qt3DCore QNode TYPE_QT3DCORE_QNODE;
    TypeInclude Qt3DCore QAspectEngine TYPE_QT3DCORE_QASPECTENGINE;
    TypeInclude Qt3DCore QAttribute TYPE_QT3DCORE_QATTRIBUTE;
    TypeInclude Qt3DCore QBuffer TYPE_QT3DCORE_QBUFFER;
    TypeInclude Qt3DCore QGeometryView TYPE_QT3DCORE_QGEOMETRYVIEW;
    TypeInclude Qt3DCore QSkeletonLoader TYPE_QT3DCORE_QSKELETONLOADER;
    TypeInclude QtCore QByteArray VALUE_TYPE_QTCORE_QBYTEARRAY;
    TypeInclude QtCore QUrl VALUE_TYPE_QTCORE_QURL;
    TypeInclude QtGui QMatrix4x4 VALUE_TYPE_QTGUI_QMATRIX4X4;
    TypeInclude QtGui QQuaternion VALUE_TYPE_QTGUI_QQUATERNION;
    TypeInclude QtGui QVector3D VALUE_TYPE_QTGUI_QVECTOR3D
  ].

Definition methods_qt3dcore_0_s0 : list signature_row :=
  [
    Sig [TYPE_QT3DCORE_QBUFFER] "accessType" [] (RMeta Qt3DCore_QBuffer_AccessType) [On QBuffer];
    Sig [TYPE_QT3DCORE_QJOINT] "addChildJoint" [PObject Qt3DCore_QJoint false] RVoid [On QJoint];
    Sig [] "areImplicitPointsValid" [] RBool [On QBoundingVolume];
    Sig [TYPE_QT3DCORE_QABSTRACTASPECT] "aspect" [PString true] RObject [On QAspectEngine];
    Sig [TYPE_QT3DCORE_QABSTRACTASPECT] "aspects" [] (RList (IObject QObject)) [On QAspectEngine];
    Sig [TYPE_QT3DCORE_QATTRIBUTE] "attributeType" [] (RMeta Qt3DCore_QAttribute_AttributeType) [On
        QAttribute];
    Sig [TYPE_QT3DCORE_QATTRIBUTE] "attributes" [] (RList (IObject QObject)) [On QGeometry];
    Sig [] "blockNotifications" [PBool] RBool [On QNode];
    Sig [TYPE_QT3DCORE_QATTRIBUTE] "boundingVolumePositionAttribute" [] RObject [On QGeometry];
    Sig [] "boundingVolumesEnabled" [] RBool [On QCoreSettings];
    Sig [TYPE_QT3DCORE_QBUFFER] "buffer" [] RObject [On QAttribute]
  ].

Definition methods_qt3dcore_0_s11 : list signature_row :=
  [
    Sig [] "byteOffset" [] RDouble [On QAttribute];
    Sig [] "byteStride" [] RDouble [On QAttribute];
    Sig [TYPE_QT3DCORE_QJOINT] "childJoints" [] (RList (IObject QObject)) [On QJoint];
    Sig [] "count" [] RDouble [On QAttribute];
    Sig [VALUE_TYPE_QTCORE_QBYTEARRAY] "data" [] (RValue QByteArray) [On QBuffer];
    Sig [] "defaultColorAttributeName" [] RString [Static QAttribute];
    Sig [] "defaultJointIndicesAttributeName" [] RString [Static QAttribute];
    Sig [] "defaultJointWeightsAttributeName" [] RString [Static QAttribute];
    Sig [] "defaultNormalAttributeName" [] RString [Static QAttribute];
    Sig [] "defaultPositionAttributeName" [] RString [Static QAttribute];
    Sig [] "defaultTangentAttributeName" [] RString [Static QAttribute];
    Sig [] "defaultTextureCoordinate1AttributeName" [] RString [Static QAttribute]
  ].

Definition methods_qt3dcore_0_s23 : list signature_row :=
  [
    Sig [] "defaultTextureCoordinate2AttributeName" [] RString [Static QAttribute];
    Sig [] "defaultTextureCoordinateAttributeName" [] RString [Static QAttribute];
    Sig [] "divisor" [] RDouble [On QAttribute];
    Sig [TYPE_QT3DCORE_QENTITY] "entities" [] (RList (IObject QObject)) [On QComponent];
    Sig [] "executeCommand" [PString true] RVariant [On QAspectEngine];
    Sig [] "firstInstance" [] RDouble [On QGeometryView];
    Sig [] "firstVertex" [] RDouble [On QGeometryView];
    Sig [VALUE_TYPE_QTGUI_QQUATERNION; VALUE_TYPE_QTGUI_QVECTOR3D] "fromAxes" [PValue QVector3D; PValue
        QVector3D; PValue QVector3D] (RValue QQuaternion) [Static QTransform];
    Sig [VALUE_TYPE_QTGUI_QQUATERNION; VALUE_TYPE_QTGUI_QVECTOR3D] "fromAxesAndAngles" [PValue QVector3D;
        PNumber cxx_float; PValue QVector3D; PNumber cxx_float] (RValue QQuaternion) [Static QTransform]
  ].

Definition methods_qt3dcore_0_s32 : list signature_row :=
  [
    Sig [VALUE_TYPE_QTGUI_QQUATERNION; VALUE_TYPE_QTGUI_QVECTOR3D] "fromAxesAndAngles" [PValue QVector3D;
        PNumber cxx_float; PValue QVector3D; PNumber cxx_float; PValue QVector3D; PNumber cxx_float]
        (RValue QQuaternion) [Static QTransform];
    Sig [VALUE_TYPE_QTGUI_QQUATERNION; VALUE_TYPE_QTGUI_QVECTOR3D] "fromAxisAndAngle" [PValue QVector3D;
        PNumber cxx_float] (RValue QQuaternion) [Static QTransform];
    Sig [VALUE_TYPE_QTGUI_QQUATERNION] "fromAxisAndAngle" [PNumber cxx_float; PNumber cxx_float; PNumber
        cxx_float; PNumber cxx_float] (RValue QQuaternion) [Static QTransform];
    Sig [VALUE_TYPE_QTGUI_QQUATERNION; VALUE_TYPE_QTGUI_QVECTOR3D] "fromEulerAngles" [PValue QVector3D]
        (RValue QQuaternion) [Static QTransform];
    Sig [VALUE_TYPE_QTGUI_QQUATERNION] "fromEulerAngles" [PNumber cxx_float; PNumber cxx_float; PNumber
        cxx_float] (RValue QQuaternion) [Static QTransform];
    Sig [TYPE_QT3DCORE_QGEOMETRY] "geometry" [] RObject [On QGeometryView];
    Sig [VALUE_TYPE_QTGUI_QVECTOR3D] "implicitMaxPoint" [] (RValue QVector3D) [On QBoundingVolume];
    Sig [VALUE_TYPE_QTGUI_QVECTOR3D] "implicitMinPoint" [] (RValue QVector3D) [On QBoundingVolume]
  ].

Definition methods_qt3dcore_0_s40 : list signature_row :=
  [
    Sig [] "indexBufferByteOffset" [] RDouble [On QGeometryView];
    Sig [] "indexOffset" [] RDouble [On QGeometryView];
    Sig [] "instanceCount" [] RDouble [On QGeometryView];
    Sig [VALUE_TYPE_QTGUI_QMATRIX4X4] "inverseBindMatrix" [] (RValue QMatrix4x4) [On QJoint];
    Sig [] "isCreateJointsEnabled" [] RBool [On QSkeletonLoader];
    Sig [] "isEnabled" [] RBool [On QNode];
    Sig [] "isShareable" [] RBool [On QComponent];
    Sig [] "jointCount" [] RDouble [On QAbstractSkeleton];
    Sig [VALUE_TYPE_QTGUI_QMATRIX4X4] "matrix" [] (RValue QMatrix4x4) [On QTransform];
    Sig [VALUE_TYPE_QTGUI_QVECTOR3D] "maxExtent" [] (RValue QVector3D) [On QGeometry];
    Sig [VALUE_TYPE_QTGUI_QVECTOR3D] "maxPoint" [] (RValue QVector3D) [On QBoundingVolume]
  ].

Definition methods_qt3dcore_0_s51 : list signature_row :=
  [
    Sig [VALUE_TYPE_QTGUI_QVECTOR3D] "minExtent" [] (RValue QVector3D) [On QGeometry];
    Sig [VALUE_TYPE_QTGUI_QVECTOR3D] "minPoint" [] (RValue QVector3D) [On QBoundingVolume];
    Sig [] "name" [] RString [On QAttribute; On QJoint];
    Sig [] "notificationsBlocked" [] RBool [On QNode];
    Sig [TYPE_QT3DCORE_QENTITY] "parentEntity" [] RObject [On QEntity];
    Sig [TYPE_QT3DCORE_QNODE] "parentNode" [] RObject [On QNode];
    Sig [] "primitiveRestartEnabled" [] RBool [On QGeometryView];
    Sig [TYPE_QT3DCORE_QGEOMETRYVIEW] "primitiveType" [] (RMeta Qt3DCore_QGeometryView_PrimitiveType) [On
        QGeometryView];
    Sig [] "processFrame" [] RVoid [On QAspectEngine];
    Sig [] "registerAspect" [PString true] RVoid [On QAspectEngine];
    Sig [TYPE_QT3DCORE_QABSTRACTASPECT] "registerAspect" [PObject Qt3DCore_QAbstractAspect false] RVoid [On
        QAspectEngine]
  ].

Definition methods_qt3dcore_0_s62 : list signature_row :=
  [
    Sig [TYPE_QT3DCORE_QATTRIBUTE] "removeAttribute" [PObject Qt3DCore_QAttribute false] RVoid [On
        QGeometry];
    Sig [TYPE_QT3DCORE_QJOINT] "removeChildJoint" [PObject Qt3DCore_QJoint false] RVoid [On QJoint];
    Sig [TYPE_QT3DCORE_QCOMPONENT] "removeComponent" [PObject Qt3DCore_QComponent false] RVoid [On QEntity];
    Sig [] "restartIndexValue" [] RDouble [On QGeometryView];
    Sig [TYPE_QT3DCORE_QJOINT] "rootJoint" [] RObject [On QSkeleton; On QSkeletonLoader];
    Sig [VALUE_TYPE_QTGUI_QMATRIX4X4; VALUE_TYPE_QTGUI_QVECTOR3D] "rotateAround" [PValue QVector3D; PNumber
        cxx_float; PValue QVector3D] (RValue QMatrix4x4) [Static QTransform];
    Sig [VALUE_TYPE_QTGUI_QMATRIX4X4; VALUE_TYPE_QTGUI_QVECTOR3D] "rotateFromAxes" [PValue QVector3D;
        PValue QVector3D; PValue QVector3D] (RValue QMatrix4x4) [Static QTransform];
    Sig [VALUE_TYPE_QTGUI_QQUATERNION] "rotation" [] (RValue QQuaternion) [On QJoint; On QTransform]
  ].

Definition methods_qt3dcore_0_s70 : list signature_row :=
  [
    Sig [] "rotationX" [] RDouble [On QJoint; On QTransform];
    Sig [] "rotationY" [] RDouble [On QJoint; On QTransform];
    Sig [] "rotationZ" [] RDouble [On QJoint; On QTransform];
    Sig [TYPE_QT3DCORE_QASPECTENGINE] "runMode" [] (RMeta Qt3DCore_QAspectEngine_RunMode) [On
        QAspectEngine];
    Sig [VALUE_TYPE_QTGUI_QVECTOR3D] "scale" [] (RValue QVector3D) [On QJoint];
    Sig [] "scale" [] RDouble [On QTransform];
    Sig [VALUE_TYPE_QTGUI_QVECTOR3D] "scale3D" [] (RValue QVector3D) [On QTransform];
    Sig [TYPE_QT3DCORE_QBUFFER] "setAccessType" [PValue Qt3DCore_QBuffer_AccessType] RVoid [On QBuffer];
    Sig [TYPE_QT3DCORE_QATTRIBUTE] "setAttributeType" [PValue Qt3DCore_QAttribute_AttributeType] RVoid [On
        QAttribute];
    Sig [TYPE_QT3DCORE_QATTRIBUTE] "setBoundingVolumePositionAttribute" [PObject Qt3DCore_QAttribute false]
        RVoid [On QGeometry]
  ].

Definition methods_qt3dcore_0_s80 : list signature_row :=
  [
    Sig [] "setBoundingVolumesEnabled" [PBool] RVoid [On QCoreSettings];
    Sig [TYPE_QT3DCORE_QBUFFER] "setBuffer" [PObject Qt3DCore_QBuffer false] RVoid [On QAttribute];
    Sig [] "setByteOffset" [PUInt] RVoid [On QAttribute];
    Sig [] "setByteStride" [PUInt] RVoid [On QAttribute];
    Sig [] "setCount" [PUInt] RVoid [On QAttribute];
    Sig [] "setCreateJointsEnabled" [PBool] RVoid [On QSkeletonLoader];
    Sig [VALUE_TYPE_QTCORE_QBYTEARRAY] "setData" [PValue QByteArray] RVoid [On QBuffer];
    Sig [] "setDivisor" [PUInt] RVoid [On QAttribute];
    Sig [] "setEnabled" [PBool] RVoid [On QNode];
    Sig [] "setFirstInstance" [PInt] RVoid [On QGeometryView]
  ].

Definition methods_qt3dcore_0_s90 : list signature_row :=
  [
    Sig [] "setFirstVertex" [PInt] RVoid [On QGeometryView];
    Sig [TYPE_QT3DCORE_QGEOMETRY] "setGeometry" [PObject Qt3DCore_QGeometry false] RVoid [On QGeometryView];
    Sig [] "setIndexBufferByteOffset" [PInt] RVoid [On QGeometryView];
    Sig [] "setIndexOffset" [PInt] RVoid [On QGeometryView];
    Sig [] "setInstanceCount" [PInt] RVoid [On QGeometryView];
    Sig [VALUE_TYPE_QTGUI_QMATRIX4X4] "setInverseBindMatrix" [PValue QMatrix4x4] RVoid [On QJoint];
    Sig [VALUE_TYPE_QTGUI_QMATRIX4X4] "setMatrix" [PValue QMatrix4x4] RVoid [On QTransform];
    Sig [VALUE_TYPE_QTGUI_QVECTOR3D] "setMaxPoint" [PValue QVector3D] RVoid [On QBoundingVolume];
    Sig [VALUE_TYPE_QTGUI_QVECTOR3D] "setMinPoint" [PValue QVector3D] RVoid [On QBoundingVolume]
  ].

Definition methods_qt3dcore_0_s99 : list signature_row :=
  [
    Sig [] "setName" [PString true] RVoid [On QAttribute; On QJoint];
    Sig [TYPE_QT3DCORE_QNODE] "setParent" [PObject Qt3DCore_QNode false] RVoid [On QNode];
    Sig [] "setPrimitiveRestartEnabled" [PBool] RVoid [On QGeometryView];
    Sig [TYPE_QT3DCORE_QGEOMETRYVIEW] "setPrimitiveType" [PValue Qt3DCore_QGeometryView_PrimitiveType]
        RVoid [On QGeometryView];
    Sig [] "setRestartIndexValue" [PInt] RVoid [On QGeometryView];
    Sig [TYPE_QT3DCORE_QJOINT] "setRootJoint" [PObject Qt3DCore_QJoint false] RVoid [On QSkeleton];
    Sig [VALUE_TYPE_QTGUI_QQUATERNION] "setRotation" [PValue QQuaternion] RVoid [On QJoint; On QTransform];
    Sig [] "setRotationX" [PNumber cxx_float] RVoid [On QJoint; On QTransform]
  ].

Definition methods_qt3dcore_0_s107 : list signature_row :=
  [
    Sig [] "setRotationY" [PNumber cxx_float] RVoid [On QJoint; On QTransform];
    Sig [] "setRotationZ" [PNumber cxx_float] RVoid [On QJoint; On QTransform];
    Sig [TYPE_QT3DCORE_QASPECTENGINE] "setRunMode" [PValue Qt3DCore_QAspectEngine_RunMode] RVoid [On
        QAspectEngine];
    Sig [VALUE_TYPE_QTGUI_QVECTOR3D] "setScale" [PValue QVector3D] RVoid [On QJoint];
    Sig [] "setScale" [PNumber cxx_float] RVoid [On QTransform];
    Sig [VALUE_TYPE_QTGUI_QVECTOR3D] "setScale3D" [PValue QVector3D] RVoid [On QTransform];
    Sig [] "setShareable" [PBool] RVoid [On QComponent];
    Sig [TYPE_QT3DCORE_QABSTRACTSKELETON] "setSkeleton" [PObject Qt3DCore_QAbstractSkeleton false] RVoid
        [On QArmature];
    Sig [VALUE_TYPE_QTCORE_QURL] "setSource" [PValue QUrl] RVoid [On QSkeletonLoader]
  ].

Definition methods_qt3dcore_0_s116 : list signature_row :=
  [
    Sig [] "setToIdentity" [] RVoid [On QJoint];
    Sig [VALUE_TYPE_QTGUI_QVECTOR3D] "setTranslation" [PValue QVector3D] RVoid [On QJoint; On QTransform];
    Sig [TYPE_QT3DCORE_QBUFFER] "setUsage" [PValue Qt3DCore_QBuffer_UsageType] RVoid [On QBuffer];
    Sig [TYPE_QT3DCORE_QATTRIBUTE] "setVertexBaseType" [PValue Qt3DCore_QAttribute_VertexBaseType] RVoid
        [On QAttribute];
    Sig [] "setVertexCount" [PInt] RVoid [On QGeometryView];
    Sig [] "setVertexSize" [PUInt] RVoid [On QAttribute];
    Sig [] "setVerticesPerPatch" [PInt] RVoid [On QGeometryView];
    Sig [TYPE_QT3DCORE_QGEOMETRYVIEW] "setView" [PObject Qt3DCore_QGeometryView false] RVoid [On
        QBoundingVolume];
    Sig [TYPE_QT3DCORE_QABSTRACTSKELETON] "skeleton" [] RObject [On QArmature];
    Sig [VALUE_TYPE_QTCORE_QURL] "source" [] (RValue QUrl) [On QSkeletonLoader]
  ].

Definition methods_qt3dcore_0_s126 : list signature_row :=
  [
    Sig [TYPE_QT3DCORE_QSKELETONLOADER] "status" [] (RMeta Qt3DCore_QSkeletonLoader_Status) [On
        QSkeletonLoader];
    Sig [VALUE_TYPE_QTGUI_QVECTOR3D] "translation" [] (RValue QVector3D) [On QJoint; On QTransform];
    Sig [] "unregisterAspect" [PString true] RVoid [On QAspectEngine];
    Sig [TYPE_QT3DCORE_QABSTRACTASPECT] "unregisterAspect" [PObject Qt3DCore_QAbstractAspect false] RVoid
        [On QAspectEngine];
    Sig [VALUE_TYPE_QTCORE_QBYTEARRAY] "updateData" [PInt; PValue QByteArray] RVoid [On QBuffer];
    Sig [] "updateImplicitBounds" [] RBool [On QBoundingVolume];
    Sig [TYPE_QT3DCORE_QBUFFER] "usage" [] (RMeta Qt3DCore_QBuffer_UsageType) [On QBuffer];
    Sig [TYPE_QT3DCORE_QATTRIBUTE] "vertexBaseType" [] (RMeta Qt3DCore_QAttribute_VertexBaseType) [On
        QAttribute];
    Sig [] "vertexCount" [] RDouble [On QGeometryView];
    Sig [] "vertexSize" [] RDouble [On QAttribute]
  ].

Definition methods_qt3dcore_0_s136 : list signature_row :=
  [
    Sig [] "verticesPerPatch" [] RDouble [On QGeometryView];
    Sig [TYPE_QT3DCORE_QGEOMETRYVIEW] "view" [] RObject [On QBoundingVolume];
    Sig [VALUE_TYPE_QTGUI_QMATRIX4X4] "worldMatrix" [] (RValue QMatrix4x4) [On QTransform]
  ].

Definition methods_qt3dcore_0 : method_shard :=
  MethodShard Qt3DCore "KRY_QT6_NATIVE_METHODS_QT3DCORE_"
    (methods_qt3dcore_0_i0)
    (methods_qt3dcore_0_s0 ++ methods_qt3dcore_0_s11 ++ methods_qt3dcore_0_s23 ++ methods_qt3dcore_0_s32 ++
        methods_qt3dcore_0_s40 ++ methods_qt3dcore_0_s51 ++ methods_qt3dcore_0_s62 ++
        methods_qt3dcore_0_s70 ++ methods_qt3dcore_0_s80 ++ methods_qt3dcore_0_s90 ++
        methods_qt3dcore_0_s99 ++ methods_qt3dcore_0_s107 ++ methods_qt3dcore_0_s116 ++
        methods_qt3dcore_0_s126 ++ methods_qt3dcore_0_s136)
    [].

Definition methods_qt3dextras_0_i0 : list include :=
  [
    ClassInclude Qt3DExtras QAbstractCameraController QAbstractCameraController;
    ClassInclude Qt3DExtras QAbstractSpriteSheet QAbstractSpriteSheet;
    ClassInclude Qt3DExtras QConeGeometry QConeGeometry;
    ClassInclude Qt3DExtras QConeGeometryView QConeGeometryView;
    ClassInclude Qt3DExtras QConeMesh QConeMesh;
    ClassInclude Qt3DExtras QCuboidGeometry QCuboidGeometry;
    ClassInclude Qt3DExtras QCuboidGeometryView QCuboidGeometryView;
    ClassInclude Qt3DExtras QCuboidMesh QCuboidMesh;
    ClassInclude Qt3DExtras QCylinderGeometry QCylinderGeometry;
    ClassInclude Qt3DExtras QCylinderGeometryView QCylinderGeometryView;
    ClassInclude Qt3DExtras QCylinderMesh QCylinderMesh;
    ClassInclude Qt3DExtras QDiffuseMapMaterial QDiffuseMapMaterial;
    ClassInclude Qt3DExtras QDiffuseSpecularMapMaterial QDiffuseSpecularMapMaterial;
    ClassInclude Qt3DExtras QDiffuseSpecularMaterial QDiffuseSpecularMaterial;
    ClassInclude Qt3DExtras QExtrudedTextGeometry QExtrudedTextGeometry;
    ClassInclude Qt3DExtras QExtrudedTextMesh QExtrudedTextMesh;
    ClassInclude Qt3DExtras QForwardRenderer QForwardRenderer;
    ClassInclude Qt3DExtras QGoochMaterial QGoochMaterial;
    ClassInclude Qt3DExtras QMetalRoughMaterial QMetalRoughMaterial;
    ClassInclude Qt3DExtras QMorphPhongMaterial QMorphPhongMaterial;
    ClassInclude Qt3DExtras QNormalDiffuseMapMaterial QNormalDiffuseMapMaterial;
    ClassInclude Qt3DExtras QNormalDiffuseSpecularMapMaterial QNormalDiffuseSpecularMapMaterial;
    ClassInclude Qt3DExtras QOrbitCameraController QOrbitCameraController;
    ClassInclude Qt3DExtras QPhongAlphaMaterial QPhongAlphaMaterial;
    TypeInclude Qt3DCore QAttribute TYPE_QT3DCORE_QATTRIBUTE;
    TypeInclude Qt3DCore QEntity TYPE_QT3DCORE_QENTITY;
    TypeInclude Qt3DRender QAbstractTexture TYPE_QT3DRENDER_QABSTRACTTEXTURE;
    TypeInclude QtCore QObject TYPE_QTCORE_QOBJECT;
    TypeInclude Qt3DRender QBlendEquation TYPE_QT3DRENDER_QBLENDEQUATION;
    TypeInclude Qt3DRender QBlendEquationArguments TYPE_QT3DRENDER_QBLENDEQUATIONARGUMENTS;
    TypeInclude Qt3DRender QClearBuffers TYPE_QT3DRENDER_QCLEARBUFFERS;
    TypeInclude QtCore QRectF VALUE_TYPE_QTCORE_QRECTF;
    TypeInclude QtCore QSize VALUE_TYPE_QTCORE_QSIZE;
    TypeInclude QtGui QColor VALUE_TYPE_QTGUI_QCOLOR;
    TypeInclude QtGui QFont VALUE_TYPE_QTGUI_QFONT;
    TypeInclude QtGui QMatrix3x3 VALUE_TYPE_QTGUI_QMATRIX3X3
  ].

Definition methods_qt3dextras_0_s0 : list signature_row :=
  [
    Sig [] "acceleration" [] RDouble [On QAbstractCameraController];
    Sig [] "alpha" [] RDouble [On QGoochMaterial; On QPhongAlphaMaterial];
    Sig [VALUE_TYPE_QTGUI_QCOLOR] "ambient" [] (RValue QColor) [On QDiffuseMapMaterial; On
        QDiffuseSpecularMapMaterial; On QDiffuseSpecularMaterial; On QMorphPhongMaterial; On
        QNormalDiffuseMapMaterial; On QNormalDiffuseSpecularMapMaterial; On QPhongAlphaMaterial];
    Sig [] "ambientOcclusion" [] RVariant [On QMetalRoughMaterial];
    Sig [] "baseColor" [] RVariant [On QMetalRoughMaterial];
    Sig [] "beta" [] RDouble [On QGoochMaterial];
    Sig [TYPE_QT3DRENDER_QBLENDEQUATION] "blendFunctionArg" [] (RMeta
        Qt3DRender_QBlendEquation_BlendFunction) [On QPhongAlphaMaterial];
    Sig [] "bottomRadius" [] RDouble [On QConeGeometry; On QConeGeometryView; On QConeMesh]
  ].

Definition methods_qt3dextras_0_s8 : list signature_row :=
  [
    Sig [TYPE_QT3DRENDER_QCLEARBUFFERS] "buffersToClear" [] (RMeta Qt3DRender_QClearBuffers_BufferType) [On
        QForwardRenderer];
    Sig [TYPE_QT3DCORE_QENTITY] "camera" [] RObject [On QForwardRenderer];
    Sig [VALUE_TYPE_QTGUI_QCOLOR] "clearColor" [] (RValue QColor) [On QForwardRenderer];
    Sig [VALUE_TYPE_QTGUI_QCOLOR] "cool" [] (RValue QColor) [On QGoochMaterial];
    Sig [] "currentIndex" [] RDouble [On QAbstractSpriteSheet];
    Sig [] "deceleration" [] RDouble [On QAbstractCameraController];
    Sig [] "depth" [] RDouble [On QExtrudedTextMesh];
    Sig [TYPE_QT3DRENDER_QBLENDEQUATIONARGUMENTS] "destinationAlphaArg" [] (RMeta
        Qt3DRender_QBlendEquationArguments_Blending) [On QPhongAlphaMaterial];
    Sig [TYPE_QT3DRENDER_QBLENDEQUATIONARGUMENTS] "destinationRgbArg" [] (RMeta
        Qt3DRender_QBlendEquationArguments_Blending) [On QPhongAlphaMaterial];
    Sig [VALUE_TYPE_QTGUI_QCOLOR] "diffuse" [] (RValue QColor) [On QGoochMaterial; On QMorphPhongMaterial;
        On QPhongAlphaMaterial]
  ].

Definition methods_qt3dextras_0_s18 : list signature_row :=
  [
    Sig [] "diffuse" [] RVariant [On QDiffuseSpecularMaterial];
    Sig [TYPE_QT3DRENDER_QABSTRACTTEXTURE] "diffuse" [] RObject [On QDiffuseMapMaterial; On
        QDiffuseSpecularMapMaterial; On QNormalDiffuseMapMaterial; On QNormalDiffuseSpecularMapMaterial];
    Sig [VALUE_TYPE_QTCORE_QSIZE] "externalRenderTargetSize" [] (RValue QSize) [On QForwardRenderer];
    Sig [] "extrusionLength" [] RDouble [On QExtrudedTextGeometry];
    Sig [VALUE_TYPE_QTGUI_QFONT] "font" [] (RValue QFont) [On QExtrudedTextGeometry; On QExtrudedTextMesh];
    Sig [] "gamma" [] RDouble [On QForwardRenderer];
    Sig [] "hasBottomEndcap" [] RBool [On QConeGeometry; On QConeGeometryView; On QConeMesh];
    Sig [] "hasTopEndcap" [] RBool [On QConeGeometry; On QConeGeometryView; On QConeMesh]
  ].

Definition methods_qt3dextras_0_s26 : list signature_row :=
  [
    Sig [TYPE_QT3DCORE_QATTRIBUTE] "indexAttribute" [] RObject [On QConeGeometry; On QCuboidGeometry; On
        QCylinderGeometry; On QExtrudedTextGeometry];
    Sig [] "interpolator" [] RDouble [On QMorphPhongMaterial];
    Sig [] "isAlphaBlendingEnabled" [] RBool [On QDiffuseSpecularMaterial];
    Sig [] "isFrustumCullingEnabled" [] RBool [On QForwardRenderer];
    Sig [] "length" [] RDouble [On QConeGeometry; On QConeGeometryView; On QConeMesh; On QCylinderGeometry;
        On QCylinderGeometryView; On QCylinderMesh];
    Sig [] "linearSpeed" [] RDouble [On QAbstractCameraController];
    Sig [] "lookSpeed" [] RDouble [On QAbstractCameraController];
    Sig [] "metalness" [] RVariant [On QMetalRoughMaterial];
    Sig [] "normal" [] RVariant [On QDiffuseSpecularMaterial; On QMetalRoughMaterial]
  ].

Definition methods_qt3dextras_0_s35 : list signature_row :=
  [
    Sig [TYPE_QT3DRENDER_QABSTRACTTEXTURE] "normal" [] RObject [On QNormalDiffuseMapMaterial; On
        QNormalDiffuseSpecularMapMaterial];
    Sig [TYPE_QT3DCORE_QATTRIBUTE] "normalAttribute" [] RObject [On QConeGeometry; On QCuboidGeometry; On
        QCylinderGeometry; On QExtrudedTextGeometry];
    Sig [TYPE_QT3DCORE_QATTRIBUTE] "positionAttribute" [] RObject [On QConeGeometry; On QCuboidGeometry; On
        QCylinderGeometry; On QExtrudedTextGeometry];
    Sig [] "radius" [] RDouble [On QCylinderGeometry; On QCylinderGeometryView; On QCylinderMesh];
    Sig [] "rings" [] RDouble [On QConeGeometry; On QConeGeometryView; On QConeMesh; On QCylinderGeometry;
        On QCylinderGeometryView; On QCylinderMesh];
    Sig [] "roughness" [] RVariant [On QMetalRoughMaterial];
    Sig [] "setAcceleration" [PNumber cxx_float] RVoid [On QAbstractCameraController]
  ].

Definition methods_qt3dextras_0_s42 : list signature_row :=
  [
    Sig [] "setAlpha" [PNumber cxx_float] RVoid [On QGoochMaterial; On QPhongAlphaMaterial];
    Sig [] "setAlphaBlendingEnabled" [PBool] RVoid [On QDiffuseSpecularMaterial];
    Sig [VALUE_TYPE_QTGUI_QCOLOR] "setAmbient" [PValue QColor] RVoid [On QDiffuseMapMaterial; On
        QDiffuseSpecularMapMaterial; On QDiffuseSpecularMaterial; On QMorphPhongMaterial; On
        QNormalDiffuseMapMaterial; On QNormalDiffuseSpecularMapMaterial; On QPhongAlphaMaterial];
    Sig [] "setAmbientOcclusion" [PVariant] RVoid [On QMetalRoughMaterial];
    Sig [] "setBaseColor" [PVariant] RVoid [On QMetalRoughMaterial];
    Sig [] "setBeta" [PNumber cxx_float] RVoid [On QGoochMaterial];
    Sig [TYPE_QT3DRENDER_QBLENDEQUATION] "setBlendFunctionArg" [PValue
        Qt3DRender_QBlendEquation_BlendFunction] RVoid [On QPhongAlphaMaterial]
  ].

Definition methods_qt3dextras_0_s49 : list signature_row :=
  [
    Sig [] "setBottomRadius" [PNumber cxx_float] RVoid [On QConeGeometry; On QConeGeometryView; On
        QConeMesh];
    Sig [TYPE_QT3DRENDER_QCLEARBUFFERS] "setBuffersToClear" [PValue Qt3DRender_QClearBuffers_BufferType]
        RVoid [On QForwardRenderer];
    Sig [TYPE_QT3DCORE_QENTITY] "setCamera" [PObject Qt3DCore_QEntity false] RVoid [On QForwardRenderer];
    Sig [VALUE_TYPE_QTGUI_QCOLOR] "setClearColor" [PValue QColor] RVoid [On QForwardRenderer];
    Sig [VALUE_TYPE_QTGUI_QCOLOR] "setCool" [PValue QColor] RVoid [On QGoochMaterial];
    Sig [] "setCurrentIndex" [PInt] RVoid [On QAbstractSpriteSheet];
    Sig [] "setDeceleration" [PNumber cxx_float] RVoid [On QAbstractCameraController];
    Sig [] "setDepth" [PNumber cxx_float] RVoid [On QExtrudedTextGeometry; On QExtrudedTextMesh];
    Sig [TYPE_QT3DRENDER_QBLENDEQUATIONARGUMENTS] "setDestinationAlphaArg" [PValue
        Qt3DRender_QBlendEquationArguments_Blending] RVoid [On QPhongAlphaMaterial]
  ].

Definition methods_qt3dextras_0_s58 : list signature_row :=
  [
    Sig [TYPE_QT3DRENDER_QBLENDEQUATIONARGUMENTS] "setDestinationRgbArg" [PValue
        Qt3DRender_QBlendEquationArguments_Blending] RVoid [On QPhongAlphaMaterial];
    Sig [VALUE_TYPE_QTGUI_QCOLOR] "setDiffuse" [PValue QColor] RVoid [On QGoochMaterial; On
        QMorphPhongMaterial; On QPhongAlphaMaterial];
    Sig [] "setDiffuse" [PVariant] RVoid [On QDiffuseSpecularMaterial];
    Sig [TYPE_QT3DRENDER_QABSTRACTTEXTURE] "setDiffuse" [PObject Qt3DRender_QAbstractTexture false] RVoid
        [On QDiffuseMapMaterial; On QDiffuseSpecularMapMaterial; On QNormalDiffuseMapMaterial; On
        QNormalDiffuseSpecularMapMaterial];
    Sig [VALUE_TYPE_QTCORE_QSIZE] "setExternalRenderTargetSize" [PValue QSize] RVoid [On QForwardRenderer];
    Sig [VALUE_TYPE_QTGUI_QFONT] "setFont" [PValue QFont] RVoid [On QExtrudedTextGeometry; On
        QExtrudedTextMesh];
    Sig [] "setFrustumCullingEnabled" [PBool] RVoid [On QForwardRenderer];
    Sig [] "setGamma" [PNumber cxx_float] RVoid [On QForwardRenderer]
  ].

Definition methods_qt3dextras_0_s66 : list signature_row :=
  [
    Sig [] "setHasBottomEndcap" [PBool] RVoid [On QConeGeometry; On QConeGeometryView; On QConeMesh];
    Sig [] "setHasTopEndcap" [PBool] RVoid [On QConeGeometry; On QConeGeometryView; On QConeMesh];
    Sig [] "setInterpolator" [PNumber cxx_float] RVoid [On QMorphPhongMaterial];
    Sig [] "setLength" [PNumber cxx_float] RVoid [On QConeGeometry; On QConeGeometryView; On QConeMesh; On
        QCylinderGeometry; On QCylinderGeometryView; On QCylinderMesh];
    Sig [] "setLinearSpeed" [PNumber cxx_float] RVoid [On QAbstractCameraController];
    Sig [] "setLookSpeed" [PNumber cxx_float] RVoid [On QAbstractCameraController];
    Sig [] "setMetalness" [PVariant] RVoid [On QMetalRoughMaterial]
  ].

Definition methods_qt3dextras_0_s73 : list signature_row :=
  [
    Sig [] "setNormal" [PVariant] RVoid [On QDiffuseSpecularMaterial; On QMetalRoughMaterial];
    Sig [TYPE_QT3DRENDER_QABSTRACTTEXTURE] "setNormal" [PObject Qt3DRender_QAbstractTexture false] RVoid
        [On QNormalDiffuseMapMaterial; On QNormalDiffuseSpecularMapMaterial];
    Sig [] "setRadius" [PNumber cxx_float] RVoid [On QCylinderGeometry; On QCylinderGeometryView; On
        QCylinderMesh];
    Sig [] "setRings" [PInt] RVoid [On QConeGeometry; On QConeGeometryView; On QConeMesh; On
        QCylinderGeometry; On QCylinderGeometryView; On QCylinderMesh];
    Sig [] "setRoughness" [PVariant] RVoid [On QMetalRoughMaterial]
  ].

Definition methods_qt3dextras_0_s78 : list signature_row :=
  [
    Sig [] "setShininess" [PNumber cxx_float] RVoid [On QDiffuseMapMaterial; On
        QDiffuseSpecularMapMaterial; On QDiffuseSpecularMaterial; On QGoochMaterial; On
        QMorphPhongMaterial; On QNormalDiffuseMapMaterial; On QNormalDiffuseSpecularMapMaterial; On
        QPhongAlphaMaterial];
    Sig [] "setShowDebugOverlay" [PBool] RVoid [On QForwardRenderer];
    Sig [] "setSlices" [PInt] RVoid [On QConeGeometry; On QConeGeometryView; On QConeMesh; On
        QCylinderGeometry; On QCylinderGeometryView; On QCylinderMesh];
    Sig [TYPE_QT3DRENDER_QBLENDEQUATIONARGUMENTS] "setSourceAlphaArg" [PValue
        Qt3DRender_QBlendEquationArguments_Blending] RVoid [On QPhongAlphaMaterial];
    Sig [TYPE_QT3DRENDER_QBLENDEQUATIONARGUMENTS] "setSourceRgbArg" [PValue
        Qt3DRender_QBlendEquationArguments_Blending] RVoid [On QPhongAlphaMaterial]
  ].

Definition methods_qt3dextras_0_s83 : list signature_row :=
  [
    Sig [VALUE_TYPE_QTGUI_QCOLOR] "setSpecular" [PValue QColor] RVoid [On QDiffuseMapMaterial; On
        QGoochMaterial; On QMorphPhongMaterial; On QNormalDiffuseMapMaterial; On QPhongAlphaMaterial];
    Sig [] "setSpecular" [PVariant] RVoid [On QDiffuseSpecularMaterial];
    Sig [TYPE_QT3DRENDER_QABSTRACTTEXTURE] "setSpecular" [PObject Qt3DRender_QAbstractTexture false] RVoid
        [On QDiffuseSpecularMapMaterial; On QNormalDiffuseSpecularMapMaterial];
    Sig [TYPE_QTCORE_QOBJECT] "setSurface" [PObject QObject false] RVoid [On QForwardRenderer];
    Sig [] "setText" [PString true] RVoid [On QExtrudedTextGeometry; On QExtrudedTextMesh];
    Sig [TYPE_QT3DRENDER_QABSTRACTTEXTURE] "setTexture" [PObject Qt3DRender_QAbstractTexture false] RVoid
        [On QAbstractSpriteSheet]
  ].

Definition methods_qt3dextras_0_s89 : list signature_row :=
  [
    Sig [] "setTextureScale" [PNumber cxx_float] RVoid [On QDiffuseMapMaterial; On
        QDiffuseSpecularMapMaterial; On QDiffuseSpecularMaterial; On QMetalRoughMaterial; On
        QNormalDiffuseMapMaterial; On QNormalDiffuseSpecularMapMaterial];
    Sig [] "setTopRadius" [PNumber cxx_float] RVoid [On QConeGeometry; On QConeGeometryView; On QConeMesh];
    Sig [VALUE_TYPE_QTCORE_QRECTF] "setViewportRect" [PValue QRectF] RVoid [On QForwardRenderer];
    Sig [VALUE_TYPE_QTGUI_QCOLOR] "setWarm" [PValue QColor] RVoid [On QGoochMaterial];
    Sig [] "setXExtent" [PNumber cxx_float] RVoid [On QCuboidGeometry; On QCuboidGeometryView; On
        QCuboidMesh];
    Sig [VALUE_TYPE_QTCORE_QSIZE] "setXYMeshResolution" [PValue QSize] RVoid [On QCuboidGeometry; On
        QCuboidGeometryView; On QCuboidMesh]
  ].

Definition methods_qt3dextras_0_s95 : list signature_row :=
  [
    Sig [VALUE_TYPE_QTCORE_QSIZE] "setXZMeshResolution" [PValue QSize] RVoid [On QCuboidGeometry; On
        QCuboidGeometryView; On QCuboidMesh];
    Sig [] "setYExtent" [PNumber cxx_float] RVoid [On QCuboidGeometry; On QCuboidGeometryView; On
        QCuboidMesh];
    Sig [VALUE_TYPE_QTCORE_QSIZE] "setYZMeshResolution" [PValue QSize] RVoid [On QCuboidGeometry; On
        QCuboidGeometryView; On QCuboidMesh];
    Sig [] "setZExtent" [PNumber cxx_float] RVoid [On QCuboidGeometry; On QCuboidGeometryView; On
        QCuboidMesh];
    Sig [] "setZoomInLimit" [PNumber cxx_float] RVoid [On QOrbitCameraController]
  ].

Definition methods_qt3dextras_0_s100 : list signature_row :=
  [
    Sig [] "shininess" [] RDouble [On QDiffuseMapMaterial; On QDiffuseSpecularMapMaterial; On
        QDiffuseSpecularMaterial; On QGoochMaterial; On QMorphPhongMaterial; On QNormalDiffuseMapMaterial;
        On QNormalDiffuseSpecularMapMaterial; On QPhongAlphaMaterial];
    Sig [] "showDebugOverlay" [] RBool [On QForwardRenderer];
    Sig [] "slices" [] RDouble [On QConeGeometry; On QConeGeometryView; On QConeMesh; On QCylinderGeometry;
        On QCylinderGeometryView; On QCylinderMesh];
    Sig [TYPE_QT3DRENDER_QBLENDEQUATIONARGUMENTS] "sourceAlphaArg" [] (RMeta
        Qt3DRender_QBlendEquationArguments_Blending) [On QPhongAlphaMaterial];
    Sig [TYPE_QT3DRENDER_QBLENDEQUATIONARGUMENTS] "sourceRgbArg" [] (RMeta
        Qt3DRender_QBlendEquationArguments_Blending) [On QPhongAlphaMaterial];
    Sig [VALUE_TYPE_QTGUI_QCOLOR] "specular" [] (RValue QColor) [On QDiffuseMapMaterial; On QGoochMaterial;
        On QMorphPhongMaterial; On QNormalDiffuseMapMaterial; On QPhongAlphaMaterial]
  ].

Definition methods_qt3dextras_0_s106 : list signature_row :=
  [
    Sig [] "specular" [] RVariant [On QDiffuseSpecularMaterial];
    Sig [TYPE_QT3DRENDER_QABSTRACTTEXTURE] "specular" [] RObject [On QDiffuseSpecularMapMaterial; On
        QNormalDiffuseSpecularMapMaterial];
    Sig [TYPE_QTCORE_QOBJECT] "surface" [] RObject [On QForwardRenderer];
    Sig [TYPE_QT3DCORE_QATTRIBUTE] "tangentAttribute" [] RObject [On QCuboidGeometry];
    Sig [TYPE_QT3DCORE_QATTRIBUTE] "texCoordAttribute" [] RObject [On QConeGeometry; On QCuboidGeometry; On
        QCylinderGeometry];
    Sig [] "text" [] RString [On QExtrudedTextGeometry; On QExtrudedTextMesh];
    Sig [TYPE_QT3DRENDER_QABSTRACTTEXTURE] "texture" [] RObject [On QAbstractSpriteSheet];
    Sig [] "textureScale" [] RDouble [On QDiffuseMapMaterial; On QDiffuseSpecularMapMaterial; On
        QDiffuseSpecularMaterial; On QMetalRoughMaterial; On QNormalDiffuseMapMaterial; On
        QNormalDiffuseSpecularMapMaterial]
  ].

Definition methods_qt3dextras_0_s114 : list signature_row :=
  [
    Sig [VALUE_TYPE_QTGUI_QMATRIX3X3] "textureTransform" [] (RValue QMatrix3x3) [On QAbstractSpriteSheet];
    Sig [] "topRadius" [] RDouble [On QConeGeometry; On QConeGeometryView; On QConeMesh];
    Sig [] "updateIndices" [] RVoid [On QConeGeometry; On QCuboidGeometry; On QCylinderGeometry];
    Sig [] "updateVertices" [] RVoid [On QConeGeometry; On QCuboidGeometry; On QCylinderGeometry];
    Sig [VALUE_TYPE_QTCORE_QRECTF] "viewportRect" [] (RValue QRectF) [On QForwardRenderer];
    Sig [VALUE_TYPE_QTGUI_QCOLOR] "warm" [] (RValue QColor) [On QGoochMaterial];
    Sig [] "xExtent" [] RDouble [On QCuboidGeometry; On QCuboidGeometryView; On QCuboidMesh]
  ].

Definition methods_qt3dextras_0_s121 : list signature_row :=
  [
    Sig [VALUE_TYPE_QTCORE_QSIZE] "xyMeshResolution" [] (RValue QSize) [On QCuboidGeometry; On
        QCuboidGeometryView; On QCuboidMesh];
    Sig [VALUE_TYPE_QTCORE_QSIZE] "xzMeshResolution" [] (RValue QSize) [On QCuboidGeometry; On
        QCuboidGeometryView; On QCuboidMesh];
    Sig [] "yExtent" [] RDouble [On QCuboidGeometry; On QCuboidGeometryView; On QCuboidMesh];
    Sig [VALUE_TYPE_QTCORE_QSIZE] "yzMeshResolution" [] (RValue QSize) [On QCuboidGeometry; On
        QCuboidGeometryView; On QCuboidMesh];
    Sig [] "zExtent" [] RDouble [On QCuboidGeometry; On QCuboidGeometryView; On QCuboidMesh];
    Sig [] "zoomInLimit" [] RDouble [On QOrbitCameraController]
  ].

Definition methods_qt3dextras_0 : method_shard :=
  MethodShard Qt3DExtras "KRY_QT6_NATIVE_METHODS_QT3DEXTRAS_"
    (methods_qt3dextras_0_i0)
    (methods_qt3dextras_0_s0 ++ methods_qt3dextras_0_s8 ++ methods_qt3dextras_0_s18 ++
        methods_qt3dextras_0_s26 ++ methods_qt3dextras_0_s35 ++ methods_qt3dextras_0_s42 ++
        methods_qt3dextras_0_s49 ++ methods_qt3dextras_0_s58 ++ methods_qt3dextras_0_s66 ++
        methods_qt3dextras_0_s73 ++ methods_qt3dextras_0_s78 ++ methods_qt3dextras_0_s83 ++
        methods_qt3dextras_0_s89 ++ methods_qt3dextras_0_s95 ++ methods_qt3dextras_0_s100 ++
        methods_qt3dextras_0_s106 ++ methods_qt3dextras_0_s114 ++ methods_qt3dextras_0_s121)
    [].

Definition methods_qt3dextras_1_i0 : list include :=
  [
    ClassInclude Qt3DExtras QPhongMaterial QPhongMaterial;
    ClassInclude Qt3DExtras QPlaneGeometry QPlaneGeometry;
    ClassInclude Qt3DExtras QPlaneGeometryView QPlaneGeometryView;
    ClassInclude Qt3DExtras QPlaneMesh QPlaneMesh;
    ClassInclude Qt3DExtras QSkyboxEntity QSkyboxEntity;
    ClassInclude Qt3DExtras QSphereGeometry QSphereGeometry;
    ClassInclude Qt3DExtras QSphereGeometryView QSphereGeometryView;
    ClassInclude Qt3DExtras QSphereMesh QSphereMesh;
    ClassInclude Qt3DExtras QSpriteGrid QSpriteGrid;
    ClassInclude Qt3DExtras QSpriteSheet QSpriteSheet;
    ClassInclude Qt3DExtras QSpriteSheetItem QSpriteSheetItem;
    ClassInclude Qt3DExtras QText2DEntity QText2DEntity;
    ClassInclude Qt3DExtras QTextureMaterial QTextureMaterial;
    ClassInclude Qt3DExtras QTorusGeometry QTorusGeometry;
    ClassInclude Qt3DExtras QTorusGeometryView QTorusGeometryView;
    ClassInclude Qt3DExtras QTorusMesh QTorusMesh;
    ClassInclude Qt3DExtras Qt3DWindow Qt3DWindow;
    TypeInclude Qt3DCore QAbstractAspect TYPE_QT3DCORE_QABSTRACTASPECT;
    TypeInclude Qt3DCore QAttribute TYPE_QT3DCORE_QATTRIBUTE;
    TypeInclude Qt3DCore QEntity TYPE_QT3DCORE_QENTITY;
    TypeInclude Qt3DExtras QForwardRenderer TYPE_QT3DEXTRAS_QFORWARDRENDERER;
    TypeInclude Qt3DExtras QSpriteSheetItem TYPE_QT3DEXTRAS_QSPRITESHEETITEM;
    TypeInclude Qt3DRender QAbstractTexture TYPE_QT3DRENDER_QABSTRACTTEXTURE;
    TypeInclude Qt3DRender QFrameGraphNode TYPE_QT3DRENDER_QFRAMEGRAPHNODE;
    TypeInclude Qt3DRender QRenderSettings TYPE_QT3DRENDER_QRENDERSETTINGS;
    TypeInclude QtCore QSize VALUE_TYPE_QTCORE_QSIZE;
    TypeInclude QtGui QColor VALUE_TYPE_QTGUI_QCOLOR;
    TypeInclude QtGui QFont VALUE_TYPE_QTGUI_QFONT;
    TypeInclude QtGui QMatrix3x3 VALUE_TYPE_QTGUI_QMATRIX3X3;
    TypeInclude QtGui QVector2D VALUE_TYPE_QTGUI_QVECTOR2D
  ].

Definition methods_qt3dextras_1_s0 : list signature_row :=
  [
    Sig [TYPE_QT3DRENDER_QFRAMEGRAPHNODE] "activeFrameGraph" [] RObject [On Qt3DWindow];
    Sig [TYPE_QT3DEXTRAS_QSPRITESHEETITEM] "addSprite" [PObject Qt3DExtras_QSpriteSheetItem false] RVoid
        [On QSpriteSheet];
    Sig [TYPE_QT3DEXTRAS_QSPRITESHEETITEM] "addSprite" [PInt; PInt; PInt; PInt] RObject [On QSpriteSheet];
    Sig [VALUE_TYPE_QTGUI_QCOLOR] "ambient" [] (RValue QColor) [On QPhongMaterial];
    Sig [] "baseName" [] RString [On QSkyboxEntity];
    Sig [VALUE_TYPE_QTGUI_QCOLOR] "color" [] (RValue QColor) [On QText2DEntity];
    Sig [] "columns" [] RDouble [On QSpriteGrid];
    Sig [TYPE_QT3DEXTRAS_QFORWARDRENDERER] "defaultFrameGraph" [] RObject [On Qt3DWindow];
    Sig [VALUE_TYPE_QTGUI_QCOLOR] "diffuse" [] (RValue QColor) [On QPhongMaterial];
    Sig [] "extension" [] RString [On QSkyboxEntity]
  ].

Definition methods_qt3dextras_1_s10 : list signature_row :=
  [
    Sig [VALUE_TYPE_QTGUI_QFONT] "font" [] (RValue QFont) [On QText2DEntity];
    Sig [] "generateTangents" [] RBool [On QSphereGeometry; On QSphereGeometryView; On QSphereMesh];
    Sig [] "height" [] RDouble [On QPlaneGeometry; On QPlaneGeometryView; On QPlaneMesh; On QText2DEntity];
    Sig [] "height" [] RDouble [On QSpriteSheetItem];
    Sig [TYPE_QT3DCORE_QATTRIBUTE] "indexAttribute" [] RObject [On QPlaneGeometry; On QSphereGeometry; On
        QTorusGeometry];
    Sig [] "isAlphaBlendingEnabled" [] RBool [On QTextureMaterial];
    Sig [] "isGammaCorrectEnabled" [] RBool [On QSkyboxEntity];
    Sig [VALUE_TYPE_QTCORE_QSIZE] "meshResolution" [] (RValue QSize) [On QPlaneGeometryView; On QPlaneMesh]
  ].

Definition methods_qt3dextras_1_s18 : list signature_row :=
  [
    Sig [] "minorRadius" [] RDouble [On QTorusGeometry; On QTorusGeometryView; On QTorusMesh];
    Sig [] "mirrored" [] RBool [On QPlaneGeometry; On QPlaneGeometryView; On QPlaneMesh];
    Sig [TYPE_QT3DCORE_QATTRIBUTE] "normalAttribute" [] RObject [On QPlaneGeometry; On QSphereGeometry; On
        QTorusGeometry];
    Sig [TYPE_QT3DCORE_QATTRIBUTE] "positionAttribute" [] RObject [On QPlaneGeometry; On QSphereGeometry;
        On QTorusGeometry];
    Sig [] "radius" [] RDouble [On QSphereGeometry; On QSphereGeometryView; On QSphereMesh; On
        QTorusGeometry; On QTorusGeometryView; On QTorusMesh];
    Sig [] "registerAspect" [PString true] RVoid [On Qt3DWindow];
    Sig [TYPE_QT3DCORE_QABSTRACTASPECT] "registerAspect" [PObject Qt3DCore_QAbstractAspect false] RVoid [On
        Qt3DWindow]
  ].

Definition methods_qt3dextras_1_s25 : list signature_row :=
  [
    Sig [TYPE_QT3DEXTRAS_QSPRITESHEETITEM] "removeSprite" [PObject Qt3DExtras_QSpriteSheetItem false] RVoid
        [On QSpriteSheet];
    Sig [TYPE_QT3DRENDER_QRENDERSETTINGS] "renderSettings" [] RObject [On Qt3DWindow];
    Sig [VALUE_TYPE_QTCORE_QSIZE] "resolution" [] (RValue QSize) [On QPlaneGeometry];
    Sig [] "rings" [] RDouble [On QSphereGeometry; On QSphereGeometryView; On QSphereMesh; On
        QTorusGeometry; On QTorusGeometryView; On QTorusMesh];
    Sig [] "rows" [] RDouble [On QSpriteGrid];
    Sig [TYPE_QT3DRENDER_QFRAMEGRAPHNODE] "setActiveFrameGraph" [PObject Qt3DRender_QFrameGraphNode false]
        RVoid [On Qt3DWindow];
    Sig [] "setAlphaBlendingEnabled" [PBool] RVoid [On QTextureMaterial];
    Sig [VALUE_TYPE_QTGUI_QCOLOR] "setAmbient" [PValue QColor] RVoid [On QPhongMaterial];
    Sig [] "setBaseName" [PString true] RVoid [On QSkyboxEntity]
  ].

Definition methods_qt3dextras_1_s34 : list signature_row :=
  [
    Sig [VALUE_TYPE_QTGUI_QCOLOR] "setColor" [PValue QColor] RVoid [On QText2DEntity];
    Sig [] "setColumns" [PInt] RVoid [On QSpriteGrid];
    Sig [VALUE_TYPE_QTGUI_QCOLOR] "setDiffuse" [PValue QColor] RVoid [On QPhongMaterial];
    Sig [] "setExtension" [PString true] RVoid [On QSkyboxEntity];
    Sig [VALUE_TYPE_QTGUI_QFONT] "setFont" [PValue QFont] RVoid [On QText2DEntity];
    Sig [] "setGammaCorrectEnabled" [PBool] RVoid [On QSkyboxEntity];
    Sig [] "setGenerateTangents" [PBool] RVoid [On QSphereGeometry; On QSphereGeometryView; On QSphereMesh];
    Sig [] "setHeight" [PNumber cxx_float] RVoid [On QPlaneGeometry; On QPlaneGeometryView; On QPlaneMesh;
        On QText2DEntity]
  ].

Definition methods_qt3dextras_1_s42 : list signature_row :=
  [
    Sig [] "setHeight" [PInt] RVoid [On QSpriteSheetItem];
    Sig [VALUE_TYPE_QTCORE_QSIZE] "setMeshResolution" [PValue QSize] RVoid [On QPlaneGeometryView; On
        QPlaneMesh];
    Sig [] "setMinorRadius" [PNumber cxx_float] RVoid [On QTorusGeometry; On QTorusGeometryView; On
        QTorusMesh];
    Sig [] "setMirrored" [PBool] RVoid [On QPlaneGeometry; On QPlaneGeometryView; On QPlaneMesh];
    Sig [] "setRadius" [PNumber cxx_float] RVoid [On QSphereGeometry; On QSphereGeometryView; On
        QSphereMesh; On QTorusGeometry; On QTorusGeometryView; On QTorusMesh];
    Sig [VALUE_TYPE_QTCORE_QSIZE] "setResolution" [PValue QSize] RVoid [On QPlaneGeometry]
  ].

Definition methods_qt3dextras_1_s48 : list signature_row :=
  [
    Sig [] "setRings" [PInt] RVoid [On QSphereGeometry; On QSphereGeometryView; On QSphereMesh; On
        QTorusGeometry; On QTorusGeometryView; On QTorusMesh];
    Sig [TYPE_QT3DCORE_QENTITY] "setRootEntity" [PObject Qt3DCore_QEntity false] RVoid [On Qt3DWindow];
    Sig [] "setRows" [PInt] RVoid [On QSpriteGrid];
    Sig [] "setShininess" [PNumber cxx_float] RVoid [On QPhongMaterial];
    Sig [] "setSlices" [PInt] RVoid [On QSphereGeometry; On QSphereGeometryView; On QSphereMesh; On
        QTorusGeometry; On QTorusGeometryView; On QTorusMesh];
    Sig [VALUE_TYPE_QTGUI_QCOLOR] "setSpecular" [PValue QColor] RVoid [On QPhongMaterial]
  ].

Definition methods_qt3dextras_1_s54 : list signature_row :=
  [
    Sig [TYPE_QT3DEXTRAS_QSPRITESHEETITEM] "setSprites" [PList (IObject Qt3DExtras_QSpriteSheetItem)] RVoid
        [On QSpriteSheet];
    Sig [] "setText" [PString true] RVoid [On QText2DEntity];
    Sig [TYPE_QT3DRENDER_QABSTRACTTEXTURE] "setTexture" [PObject Qt3DRender_QAbstractTexture false] RVoid
        [On QTextureMaterial];
    Sig [VALUE_TYPE_QTGUI_QVECTOR2D] "setTextureOffset" [PValue QVector2D] RVoid [On QTextureMaterial];
    Sig [VALUE_TYPE_QTGUI_QMATRIX3X3] "setTextureTransform" [PValue QMatrix3x3] RVoid [On QTextureMaterial];
    Sig [] "setWidth" [PNumber cxx_float] RVoid [On QPlaneGeometry; On QPlaneGeometryView; On QPlaneMesh;
        On QText2DEntity];
    Sig [] "setWidth" [PInt] RVoid [On QSpriteSheetItem];
    Sig [] "setX" [PInt] RVoid [On QSpriteSheetItem]
  ].

Definition methods_qt3dextras_1_s62 : list signature_row :=
  [
    Sig [] "setY" [PInt] RVoid [On QSpriteSheetItem];
    Sig [] "shininess" [] RDouble [On QPhongMaterial];
    Sig [] "slices" [] RDouble [On QSphereGeometry; On QSphereGeometryView; On QSphereMesh; On
        QTorusGeometry; On QTorusGeometryView; On QTorusMesh];
    Sig [VALUE_TYPE_QTGUI_QCOLOR] "specular" [] (RValue QColor) [On QPhongMaterial];
    Sig [TYPE_QT3DEXTRAS_QSPRITESHEETITEM] "sprites" [] (RList (IObject QObject)) [On QSpriteSheet];
    Sig [TYPE_QT3DCORE_QATTRIBUTE] "tangentAttribute" [] RObject [On QPlaneGeometry; On QSphereGeometry];
    Sig [TYPE_QT3DCORE_QATTRIBUTE] "texCoordAttribute" [] RObject [On QPlaneGeometry; On QSphereGeometry;
        On QTorusGeometry];
    Sig [] "text" [] RString [On QText2DEntity]
  ].

Definition methods_qt3dextras_1_s70 : list signature_row :=
  [
    Sig [TYPE_QT3DRENDER_QABSTRACTTEXTURE] "texture" [] RObject [On QTextureMaterial];
    Sig [VALUE_TYPE_QTGUI_QVECTOR2D] "textureOffset" [] (RValue QVector2D) [On QTextureMaterial];
    Sig [VALUE_TYPE_QTGUI_QMATRIX3X3] "textureTransform" [] (RValue QMatrix3x3) [On QTextureMaterial];
    Sig [] "updateIndices" [] RVoid [On QPlaneGeometry; On QSphereGeometry; On QTorusGeometry];
    Sig [] "updateVertices" [] RVoid [On QPlaneGeometry; On QSphereGeometry; On QTorusGeometry];
    Sig [] "width" [] RDouble [On QPlaneGeometry; On QPlaneGeometryView; On QPlaneMesh; On QText2DEntity];
    Sig [] "width" [] RDouble [On QSpriteSheetItem];
    Sig [] "x" [] RDouble [On QSpriteSheetItem];
    Sig [] "y" [] RDouble [On QSpriteSheetItem]
  ].

Definition methods_qt3dextras_1 : method_shard :=
  MethodShard Qt3DExtras "KRY_QT6_NATIVE_METHODS_QT3DEXTRAS_"
    (methods_qt3dextras_1_i0)
    (methods_qt3dextras_1_s0 ++ methods_qt3dextras_1_s10 ++ methods_qt3dextras_1_s18 ++
        methods_qt3dextras_1_s25 ++ methods_qt3dextras_1_s34 ++ methods_qt3dextras_1_s42 ++
        methods_qt3dextras_1_s48 ++ methods_qt3dextras_1_s54 ++ methods_qt3dextras_1_s62 ++
        methods_qt3dextras_1_s70)
    [].

Definition methods_qt3dinput_0_i0 : list include :=
  [
    ClassInclude Qt3DInput QAbstractAxisInput QAbstractAxisInput;
    ClassInclude Qt3DInput QAbstractPhysicalDevice QAbstractPhysicalDevice;
    ClassInclude Qt3DInput QAction QAction;
    ClassInclude Qt3DInput QActionInput QActionInput;
    ClassInclude Qt3DInput QAnalogAxisInput QAnalogAxisInput;
    ClassInclude Qt3DInput QAxis QAxis;
    ClassInclude Qt3DInput QAxisAccumulator QAxisAccumulator;
    ClassInclude Qt3DInput QAxisSetting QAxisSetting;
    ClassInclude Qt3DInput QButtonAxisInput QButtonAxisInput;
    ClassInclude Qt3DInput QInputAspect QInputAspect;
    ClassInclude Qt3DInput QInputChord QInputChord;
    ClassInclude Qt3DInput QInputSequence QInputSequence;
    ClassInclude Qt3DInput QInputSettings QInputSettings;
    ClassInclude Qt3DInput QKeyEvent QKeyEvent;
    ClassInclude Qt3DInput QKeyboardDevice QKeyboardDevice;
    ClassInclude Qt3DInput QKeyboardHandler QKeyboardHandler;
    ClassInclude Qt3DInput QLogicalDevice QLogicalDevice;
    ClassInclude Qt3DInput QMouseDevice QMouseDevice;
    ClassInclude Qt3DInput QMouseEvent QMouseEvent;
    ClassInclude Qt3DInput QMouseHandler QMouseHandler;
    ClassInclude Qt3DInput QWheelEvent QWheelEvent;
    TypeInclude Qt3DInput QAbstractActionInput TYPE_QT3DINPUT_QABSTRACTACTIONINPUT;
    TypeInclude Qt3DInput QAbstractAxisInput TYPE_QT3DINPUT_QABSTRACTAXISINPUT;
    TypeInclude Qt3DInput QAbstractPhysicalDevice TYPE_QT3DINPUT_QABSTRACTPHYSICALDEVICE;
    TypeInclude Qt3DInput QAction TYPE_QT3DINPUT_QACTION;
    TypeInclude Qt3DInput QAxis TYPE_QT3DINPUT_QAXIS;
    TypeInclude Qt3DInput QAxisSetting TYPE_QT3DINPUT_QAXISSETTING;
    TypeInclude Qt3DInput QKeyboardDevice TYPE_QT3DINPUT_QKEYBOARDDEVICE;
    TypeInclude Qt3DInput QKeyboardHandler TYPE_QT3DINPUT_QKEYBOARDHANDLER;
    TypeInclude Qt3DInput QMouseDevice TYPE_QT3DINPUT_QMOUSEDEVICE;
    TypeInclude QtCore QObject TYPE_QTCORE_QOBJECT;
    TypeInclude Qt3DInput QAxisAccumulator TYPE_QT3DINPUT_QAXISACCUMULATOR;
    TypeInclude Qt3DInput QMouseEvent TYPE_QT3DINPUT_QMOUSEEVENT;
    TypeInclude Qt3DInput QWheelEvent TYPE_QT3DINPUT_QWHEELEVENT;
    TypeInclude QtCore QEvent TYPE_QTCORE_QEVENT;
    TypeInclude QtGui QKeySequence TYPE_QTGUI_QKEYSEQUENCE;
    TypeInclude QtCore QPoint VALUE_TYPE_QTCORE_QPOINT
  ].

Definition methods_qt3dinput_0_s0 : list signature_row :=
  [
    Sig [] "acceleration" [] RDouble [On QButtonAxisInput];
    Sig [TYPE_QT3DINPUT_QACTION] "actions" [] (RList (IObject QObject)) [On QLogicalDevice];
    Sig [TYPE_QT3DINPUT_QKEYBOARDHANDLER] "activeInput" [] RObject [On QKeyboardDevice];
    Sig [TYPE_QT3DINPUT_QAXISSETTING] "addAxisSetting" [PObject Qt3DInput_QAxisSetting false] RVoid [On
        QAbstractPhysicalDevice];
    Sig [VALUE_TYPE_QTCORE_QPOINT] "angleDelta" [] (RValue QPoint) [On QWheelEvent];
    Sig [] "availablePhysicalDevices" [] (RList (IMeta QString)) [On QInputAspect];
    Sig [TYPE_QT3DINPUT_QAXIS] "axes" [] (RList (IObject QObject)) [On QLogicalDevice];
    Sig [] "axes" [] (RList (IMeta cxx_int)) [On QAxisSetting];
    Sig [] "axis" [] RDouble [On QAnalogAxisInput];
    Sig [] "axisCount" [] RDouble [On QAbstractPhysicalDevice]
  ].

Definition methods_qt3dinput_0_s10 : list signature_row :=
  [
    Sig [] "axisIdentifier" [PString true] RDouble [On QAbstractPhysicalDevice];
    Sig [] "axisNames" [] (RList (IMeta QString)) [On QAbstractPhysicalDevice];
    Sig [TYPE_QT3DINPUT_QAXISSETTING] "axisSettings" [] (RList (IObject QObject)) [On
        QAbstractPhysicalDevice];
    Sig [TYPE_QT3DINPUT_QMOUSEEVENT] "button" [] (RMeta Qt3DInput_QMouseEvent_Buttons) [On QMouseEvent];
    Sig [] "buttonCount" [] RDouble [On QAbstractPhysicalDevice];
    Sig [] "buttonIdentifier" [PString true] RDouble [On QAbstractPhysicalDevice];
    Sig [] "buttonInterval" [] RDouble [On QInputSequence];
    Sig [] "buttonNames" [] (RList (IMeta QString)) [On QAbstractPhysicalDevice];
    Sig [] "buttons" [] (RList (IMeta cxx_int)) [On QActionInput; On QButtonAxisInput];
    Sig [] "buttons" [] RDouble [On QMouseEvent; On QWheelEvent]
  ].

Definition methods_qt3dinput_0_s20 : list signature_row :=
  [
    Sig [TYPE_QT3DINPUT_QABSTRACTACTIONINPUT] "chords" [] (RList (IObject QObject)) [On QInputChord];
    Sig [] "containsMouse" [] RBool [On QMouseHandler];
    Sig [] "count" [] RDouble [On QKeyEvent];
    Sig [TYPE_QT3DINPUT_QABSTRACTPHYSICALDEVICE] "createPhysicalDevice" [PString true] RObject [On
        QInputAspect];
    Sig [] "deadZoneRadius" [] RDouble [On QAxisSetting];
    Sig [] "deceleration" [] RDouble [On QButtonAxisInput];
    Sig [TYPE_QTCORE_QOBJECT] "eventSource" [] RObject [On QInputSettings];
    Sig [] "focus" [] RBool [On QKeyboardHandler];
    Sig [TYPE_QT3DINPUT_QABSTRACTACTIONINPUT] "inputs" [] (RList (IObject QObject)) [On QAction];
    Sig [TYPE_QT3DINPUT_QABSTRACTAXISINPUT] "inputs" [] (RList (IObject QObject)) [On QAxis]
  ].

Definition methods_qt3dinput_0_s30 : list signature_row :=
  [
    Sig [] "isAccepted" [] RBool [On QKeyEvent; On QMouseEvent; On QWheelEvent];
    Sig [] "isActive" [] RBool [On QAction];
    Sig [] "isAutoRepeat" [] RBool [On QKeyEvent];
    Sig [] "isSmoothEnabled" [] RBool [On QAxisSetting];
    Sig [] "key" [] RDouble [On QKeyEvent];
    Sig [TYPE_QTGUI_QKEYSEQUENCE] "matches" [PValue QKeySequence_StandardKey] RBool [On QKeyEvent];
    Sig [TYPE_QT3DINPUT_QMOUSEEVENT] "modifiers" [] (RMeta Qt3DInput_QMouseEvent_Modifiers) [On
        QMouseEvent];
    Sig [TYPE_QT3DINPUT_QWHEELEVENT] "modifiers" [] (RMeta Qt3DInput_QWheelEvent_Modifiers) [On
        QWheelEvent];
    Sig [] "modifiers" [] RDouble [On QKeyEvent];
    Sig [TYPE_QT3DINPUT_QACTION] "removeAction" [PObject Qt3DInput_QAction false] RVoid [On QLogicalDevice]
  ].

Definition methods_qt3dinput_0_s40 : list signature_row :=
  [
    Sig [TYPE_QT3DINPUT_QAXIS] "removeAxis" [PObject Qt3DInput_QAxis false] RVoid [On QLogicalDevice];
    Sig [TYPE_QT3DINPUT_QAXISSETTING] "removeAxisSetting" [PObject Qt3DInput_QAxisSetting false] RVoid [On
        QAbstractPhysicalDevice];
    Sig [TYPE_QT3DINPUT_QABSTRACTACTIONINPUT] "removeChord" [PObject Qt3DInput_QAbstractActionInput false]
        RVoid [On QInputChord];
    Sig [TYPE_QT3DINPUT_QABSTRACTACTIONINPUT] "removeInput" [PObject Qt3DInput_QAbstractActionInput false]
        RVoid [On QAction];
    Sig [TYPE_QT3DINPUT_QABSTRACTAXISINPUT] "removeInput" [PObject Qt3DInput_QAbstractAxisInput false]
        RVoid [On QAxis];
    Sig [TYPE_QT3DINPUT_QABSTRACTACTIONINPUT] "removeSequence" [PObject Qt3DInput_QAbstractActionInput
        false] RVoid [On QInputSequence];
    Sig [] "scale" [] RDouble [On QAxisAccumulator; On QButtonAxisInput];
    Sig [] "sensitivity" [] RDouble [On QMouseDevice];
    Sig [TYPE_QT3DINPUT_QABSTRACTACTIONINPUT] "sequences" [] (RList (IObject QObject)) [On QInputSequence]
  ].

Definition methods_qt3dinput_0_s49 : list signature_row :=
  [
    Sig [] "setAcceleration" [PNumber cxx_float] RVoid [On QButtonAxisInput];
    Sig [] "setAccepted" [PBool] RVoid [On QKeyEvent; On QMouseEvent; On QWheelEvent];
    Sig [] "setAxes" [PList (IMeta cxx_int)] RVoid [On QAxisSetting];
    Sig [] "setAxis" [PInt] RVoid [On QAnalogAxisInput];
    Sig [] "setButtonInterval" [PInt] RVoid [On QInputSequence];
    Sig [] "setButtons" [PList (IMeta cxx_int)] RVoid [On QActionInput; On QButtonAxisInput];
    Sig [] "setDeadZoneRadius" [PNumber cxx_float] RVoid [On QAxisSetting];
    Sig [] "setDeceleration" [PNumber cxx_float] RVoid [On QButtonAxisInput];
    Sig [TYPE_QTCORE_QOBJECT] "setEventSource" [PObject QObject false] RVoid [On QInputSettings]
  ].

Definition methods_qt3dinput_0_s58 : list signature_row :=
  [
    Sig [] "setFocus" [PBool] RVoid [On QKeyboardHandler];
    Sig [] "setScale" [PNumber cxx_float] RVoid [On QAxisAccumulator; On QButtonAxisInput];
    Sig [] "setSensitivity" [PNumber cxx_float] RVoid [On QMouseDevice];
    Sig [] "setSmoothEnabled" [PBool] RVoid [On QAxisSetting];
    Sig [TYPE_QT3DINPUT_QAXIS] "setSourceAxis" [PObject Qt3DInput_QAxis false] RVoid [On QAxisAccumulator];
    Sig [TYPE_QT3DINPUT_QAXISACCUMULATOR] "setSourceAxisType" [PValue
        Qt3DInput_QAxisAccumulator_SourceAxisType] RVoid [On QAxisAccumulator];
    Sig [TYPE_QT3DINPUT_QABSTRACTPHYSICALDEVICE] "setSourceDevice" [PObject
        Qt3DInput_QAbstractPhysicalDevice false] RVoid [On QAbstractAxisInput; On QActionInput];
    Sig [TYPE_QT3DINPUT_QKEYBOARDDEVICE] "setSourceDevice" [PObject Qt3DInput_QKeyboardDevice false] RVoid
        [On QKeyboardHandler];
    Sig [TYPE_QT3DINPUT_QMOUSEDEVICE] "setSourceDevice" [PObject Qt3DInput_QMouseDevice false] RVoid [On
        QMouseHandler]
  ].

Definition methods_qt3dinput_0_s67 : list signature_row :=
  [
    Sig [] "setTimeout" [PInt] RVoid [On QInputChord; On QInputSequence];
    Sig [] "setUpdateAxesContinuously" [PBool] RVoid [On QMouseDevice];
    Sig [TYPE_QT3DINPUT_QAXIS] "sourceAxis" [] RObject [On QAxisAccumulator];
    Sig [TYPE_QT3DINPUT_QAXISACCUMULATOR] "sourceAxisType" [] (RMeta
        Qt3DInput_QAxisAccumulator_SourceAxisType) [On QAxisAccumulator];
    Sig [TYPE_QT3DINPUT_QABSTRACTPHYSICALDEVICE] "sourceDevice" [] RObject [On QAbstractAxisInput; On
        QActionInput];
    Sig [TYPE_QT3DINPUT_QKEYBOARDDEVICE] "sourceDevice" [] RObject [On QKeyboardHandler];
    Sig [TYPE_QT3DINPUT_QMOUSEDEVICE] "sourceDevice" [] RObject [On QMouseHandler];
    Sig [] "text" [] RString [On QKeyEvent];
    Sig [] "timeout" [] RDouble [On QInputChord; On QInputSequence];
    Sig [TYPE_QTCORE_QEVENT] "type" [] (RMeta QEvent_Type) [On QKeyEvent; On QMouseEvent; On QWheelEvent]
  ].

Definition methods_qt3dinput_0_s77 : list signature_row :=
  [
    Sig [] "updateAxesContinuously" [] RBool [On QMouseDevice];
    Sig [] "value" [] RDouble [On QAxis; On QAxisAccumulator];
    Sig [] "velocity" [] RDouble [On QAxisAccumulator];
    Sig [] "wasHeld" [] RBool [On QMouseEvent];
    Sig [] "x" [] RDouble [On QMouseEvent; On QWheelEvent];
    Sig [] "y" [] RDouble [On QMouseEvent; On QWheelEvent]
  ].

Definition methods_qt3dinput_0 : method_shard :=
  MethodShard Qt3DInput "KRY_QT6_NATIVE_METHODS_QT3DINPUT_"
    (methods_qt3dinput_0_i0)
    (methods_qt3dinput_0_s0 ++ methods_qt3dinput_0_s10 ++ methods_qt3dinput_0_s20 ++
        methods_qt3dinput_0_s30 ++ methods_qt3dinput_0_s40 ++ methods_qt3dinput_0_s49 ++
        methods_qt3dinput_0_s58 ++ methods_qt3dinput_0_s67 ++ methods_qt3dinput_0_s77)
    [].

Definition methods_qt3dlogic_0 : method_shard :=
  MethodShard Qt3DLogic "KRY_QT6_NATIVE_METHODS_QT3DLOGIC_"
    ([])
    ([])
    [].

Definition methods_qt3drender_0_i0 : list include :=
  [
    ClassInclude Qt3DRender QAbstractLight QAbstractLight;
    ClassInclude Qt3DRender QAbstractRayCaster QAbstractRayCaster;
    ClassInclude Qt3DRender QAbstractTexture QAbstractTexture;
    ClassInclude Qt3DRender QAbstractTextureImage QAbstractTextureImage;
    ClassInclude Qt3DRender QAlphaTest QAlphaTest;
    ClassInclude Qt3DRender QBlendEquation QBlendEquation;
    ClassInclude Qt3DRender QBlendEquationArguments QBlendEquationArguments;
    ClassInclude Qt3DRender QBlitFramebuffer QBlitFramebuffer;
    ClassInclude Qt3DRender QCamera QCamera;
    ClassInclude Qt3DRender QCameraLens QCameraLens;
    ClassInclude Qt3DRender QCameraSelector QCameraSelector;
    ClassInclude Qt3DRender QClearBuffers QClearBuffers;
    ClassInclude Qt3DRender QClipPlane QClipPlane;
    ClassInclude Qt3DRender QColorMask QColorMask;
    ClassInclude Qt3DRender QComputeCommand QComputeCommand;
    ClassInclude Qt3DRender QCullFace QCullFace;
    ClassInclude Qt3DRender QDepthRange QDepthRange;
    ClassInclude Qt3DRender QDepthTest QDepthTest;
    ClassInclude Qt3DRender QDirectionalLight QDirectionalLight;
    ClassInclude Qt3DRender QDispatchCompute QDispatchCompute;
    ClassInclude Qt3DRender QEffect QEffect;
    ClassInclude Qt3DRender QEnvironmentLight QEnvironmentLight;
    ClassInclude Qt3DRender QFilterKey QFilterKey;
    ClassInclude Qt3DRender QFrameGraphNode QFrameGraphNode;
    TypeInclude Qt3DCore QEntity TYPE_QT3DCORE_QENTITY;
    TypeInclude Qt3DRender QAbstractTexture TYPE_QT3DRENDER_QABSTRACTTEXTURE;
    TypeInclude Qt3DRender QAbstractTextureImage TYPE_QT3DRENDER_QABSTRACTTEXTUREIMAGE;
    TypeInclude Qt3DRender QCameraLens TYPE_QT3DRENDER_QCAMERALENS;
    TypeInclude Qt3DRender QFrameGraphNode TYPE_QT3DRENDER_QFRAMEGRAPHNODE;
    TypeInclude Qt3DRender QLayer TYPE_QT3DRENDER_QLAYER;
    TypeInclude Qt3DRender QParameter TYPE_QT3DRENDER_QPARAMETER;
    TypeInclude Qt3DRender QRenderTarget TYPE_QT3DRENDER_QRENDERTARGET;
    TypeInclude Qt3DRender QRenderTargetOutput TYPE_QT3DRENDER_QRENDERTARGETOUTPUT;
    TypeInclude Qt3DRender QTechnique TYPE_QT3DRENDER_QTECHNIQUE;
    TypeInclude Qt3DRender QTextureWrapMode TYPE_QT3DRENDER_QTEXTUREWRAPMODE;
    TypeInclude Qt3DRender QAbstractLight TYPE_QT3DRENDER_QABSTRACTLIGHT;
    TypeInclude Qt3DRender QAbstractRayCaster TYPE_QT3DRENDER_QABSTRACTRAYCASTER;
    TypeInclude Qt3DRender QAbstractTexture TYPE_QT3DRENDER_QABSTRACTTEXTURE;
    TypeInclude Qt3DRender QAlphaTest TYPE_QT3DRENDER_QALPHATEST;
    TypeInclude Qt3DRender QBlendEquation TYPE_QT3DRENDER_QBLENDEQUATION;
    TypeInclude Qt3DRender QBlendEquationArguments TYPE_QT3DRENDER_QBLENDEQUATIONARGUMENTS;
    TypeInclude Qt3DRender QBlitFramebuffer TYPE_QT3DRENDER_QBLITFRAMEBUFFER;
    TypeInclude Qt3DRender QCamera TYPE_QT3DRENDER_QCAMERA;
    TypeInclude Qt3DRender QCameraLens TYPE_QT3DRENDER_QCAMERALENS;
    TypeInclude Qt3DRender QClearBuffers TYPE_QT3DRENDER_QCLEARBUFFERS;
    TypeInclude Qt3DRender QComputeCommand TYPE_QT3DRENDER_QCOMPUTECOMMAND;
    TypeInclude Qt3DRender QCullFace TYPE_QT3DRENDER_QCULLFACE;
    TypeInclude Qt3DRender QDepthTest TYPE_QT3DRENDER_QDEPTHTEST;
    TypeInclude Qt3DRender QRenderTargetOutput TYPE_QT3DRENDER_QRENDERTARGETOUTPUT;
    TypeInclude QtCore QRectF VALUE_TYPE_QTCORE_QRECTF;
    TypeInclude QtGui QColor VALUE_TYPE_QTGUI_QCOLOR;
    TypeInclude QtGui QMatrix4x4 VALUE_TYPE_QTGUI_QMATRIX4X4
  ].

Definition methods_qt3drender_0_i1 : list include :=
  [
    TypeInclude QtGui QQuaternion VALUE_TYPE_QTGUI_QQUATERNION;
    TypeInclude QtGui QVector3D VALUE_TYPE_QTGUI_QVECTOR3D
  ].

Definition methods_qt3drender_0_s0 : list signature_row :=
  [
    Sig [TYPE_QT3DRENDER_QALPHATEST] "alphaFunction" [] (RMeta Qt3DRender_QAlphaTest_AlphaFunction) [On
        QAlphaTest];
    Sig [] "aspectRatio" [] RDouble [On QCamera; On QCameraLens];
    Sig [TYPE_QT3DRENDER_QBLENDEQUATION] "blendFunction" [] (RMeta Qt3DRender_QBlendEquation_BlendFunction)
        [On QBlendEquation];
    Sig [] "bottom" [] RDouble [On QCamera; On QCameraLens];
    Sig [] "bufferIndex" [] RDouble [On QBlendEquationArguments];
    Sig [TYPE_QT3DRENDER_QCLEARBUFFERS] "buffers" [] (RMeta Qt3DRender_QClearBuffers_BufferType) [On
        QClearBuffers];
    Sig [TYPE_QT3DCORE_QENTITY] "camera" [] RObject [On QCameraSelector];
    Sig [VALUE_TYPE_QTGUI_QCOLOR] "clearColor" [] (RValue QColor) [On QClearBuffers];
    Sig [] "clearDepthValue" [] RDouble [On QClearBuffers];
    Sig [] "clearStencilValue" [] RDouble [On QClearBuffers];
    Sig [VALUE_TYPE_QTGUI_QCOLOR] "color" [] (RValue QColor) [On QAbstractLight]
  ].

Definition methods_qt3drender_0_s11 : list signature_row :=
  [
    Sig [TYPE_QT3DRENDER_QRENDERTARGETOUTPUT] "colorBuffer" [] RObject [On QClearBuffers];
    Sig [TYPE_QT3DRENDER_QABSTRACTTEXTURE] "comparisonFunction" [] (RMeta
        Qt3DRender_QAbstractTexture_ComparisonFunction) [On QAbstractTexture];
    Sig [TYPE_QT3DRENDER_QABSTRACTTEXTURE] "comparisonMode" [] (RMeta
        Qt3DRender_QAbstractTexture_ComparisonMode) [On QAbstractTexture];
    Sig [] "depth" [] RDouble [On QAbstractTexture];
    Sig [TYPE_QT3DRENDER_QDEPTHTEST] "depthFunction" [] (RMeta Qt3DRender_QDepthTest_DepthFunction) [On
        QDepthTest];
    Sig [TYPE_QT3DRENDER_QRENDERTARGET] "destination" [] RObject [On QBlitFramebuffer];
    Sig [TYPE_QT3DRENDER_QBLENDEQUATIONARGUMENTS] "destinationAlpha" [] (RMeta
        Qt3DRender_QBlendEquationArguments_Blending) [On QBlendEquationArguments];
    Sig [TYPE_QT3DRENDER_QRENDERTARGETOUTPUT] "destinationAttachmentPoint" [] (RMeta
        Qt3DRender_QRenderTargetOutput_AttachmentPoint) [On QBlitFramebuffer];
    Sig [VALUE_TYPE_QTCORE_QRECTF] "destinationRect" [] (RValue QRectF) [On QBlitFramebuffer];
    Sig [TYPE_QT3DRENDER_QBLENDEQUATIONARGUMENTS] "destinationRgb" [] (RMeta
        Qt3DRender_QBlendEquationArguments_Blending) [On QBlendEquationArguments];
    Sig [] "distance" [] RDouble [On QClipPlane]
  ].

Definition methods_qt3drender_0_s22 : list signature_row :=
  [
    Sig [] "exposure" [] RDouble [On QCamera; On QCameraLens];
    Sig [TYPE_QT3DRENDER_QABSTRACTTEXTURE] "face" [] (RMeta Qt3DRender_QAbstractTexture_CubeMapFace) [On
        QAbstractTextureImage];
    Sig [] "farPlane" [] RDouble [On QCamera; On QCameraLens];
    Sig [] "farValue" [] RDouble [On QDepthRange];
    Sig [] "fieldOfView" [] RDouble [On QCamera; On QCameraLens];
    Sig [TYPE_QT3DRENDER_QABSTRACTRAYCASTER] "filterMode" [] (RMeta
        Qt3DRender_QAbstractRayCaster_FilterMode) [On QAbstractRayCaster];
    Sig [TYPE_QT3DRENDER_QABSTRACTTEXTURE] "format" [] (RMeta Qt3DRender_QAbstractTexture_TextureFormat)
        [On QAbstractTexture];
    Sig [] "generateMipMaps" [] RBool [On QAbstractTexture];
    Sig [] "handle" [] RVariant [On QAbstractTexture];
    Sig [TYPE_QT3DRENDER_QABSTRACTTEXTURE] "handleType" [] (RMeta Qt3DRender_QAbstractTexture_HandleType)
        [On QAbstractTexture];
    Sig [] "height" [] RDouble [On QAbstractTexture]
  ].

Definition methods_qt3drender_0_s33 : list signature_row :=
  [
    Sig [] "intensity" [] RDouble [On QAbstractLight];
    Sig [TYPE_QT3DRENDER_QBLITFRAMEBUFFER] "interpolationMethod" [] (RMeta
        Qt3DRender_QBlitFramebuffer_InterpolationMethod) [On QBlitFramebuffer];
    Sig [TYPE_QT3DRENDER_QABSTRACTTEXTURE] "irradiance" [] RObject [On QEnvironmentLight];
    Sig [] "isAlphaMasked" [] RBool [On QColorMask];
    Sig [] "isBlueMasked" [] RBool [On QColorMask];
    Sig [] "isGreenMasked" [] RBool [On QColorMask];
    Sig [] "isRedMasked" [] RBool [On QColorMask];
    Sig [] "layer" [] RDouble [On QAbstractTextureImage];
    Sig [TYPE_QT3DRENDER_QLAYER] "layers" [] (RList (IObject QObject)) [On QAbstractRayCaster];
    Sig [] "layers" [] RDouble [On QAbstractTexture];
    Sig [] "left" [] RDouble [On QCamera; On QCameraLens];
    Sig [TYPE_QT3DRENDER_QCAMERALENS] "lens" [] RObject [On QCamera]
  ].

Definition methods_qt3drender_0_s45 : list signature_row :=
  [
    Sig [TYPE_QT3DRENDER_QABSTRACTTEXTURE] "magnificationFilter" [] (RMeta
        Qt3DRender_QAbstractTexture_Filter) [On QAbstractTexture];
    Sig [] "maximumAnisotropy" [] RDouble [On QAbstractTexture];
    Sig [TYPE_QT3DRENDER_QABSTRACTTEXTURE] "minificationFilter" [] (RMeta
        Qt3DRender_QAbstractTexture_Filter) [On QAbstractTexture];
    Sig [] "mipLevel" [] RDouble [On QAbstractTextureImage];
    Sig [] "mipLevels" [] RDouble [On QAbstractTexture];
    Sig [TYPE_QT3DRENDER_QCULLFACE] "mode" [] (RMeta Qt3DRender_QCullFace_CullingMode) [On QCullFace];
    Sig [] "name" [] RString [On QFilterKey];
    Sig [] "nearPlane" [] RDouble [On QCamera; On QCameraLens];
    Sig [] "nearValue" [] RDouble [On QDepthRange];
    Sig [VALUE_TYPE_QTGUI_QVECTOR3D] "normal" [] (RValue QVector3D) [On QClipPlane];
    Sig [] "pan" [PNumber cxx_float] RVoid [On QCamera]
  ].

Definition methods_qt3drender_0_s56 : list signature_row :=
  [
    Sig [VALUE_TYPE_QTGUI_QVECTOR3D] "pan" [PNumber cxx_float; PValue QVector3D] RVoid [On QCamera];
    Sig [] "panAboutViewCenter" [PNumber cxx_float] RVoid [On QCamera];
    Sig [VALUE_TYPE_QTGUI_QVECTOR3D] "panAboutViewCenter" [PNumber cxx_float; PValue QVector3D] RVoid [On
        QCamera];
    Sig [VALUE_TYPE_QTGUI_QQUATERNION] "panRotation" [PNumber cxx_float] (RValue QQuaternion) [On QCamera];
    Sig [TYPE_QT3DRENDER_QPARAMETER] "parameters" [] (RList (IObject QObject)) [On QEffect];
    Sig [TYPE_QT3DRENDER_QFRAMEGRAPHNODE] "parentFrameGraphNode" [] RObject [On QFrameGraphNode];
    Sig [] "planeIndex" [] RDouble [On QClipPlane];
    Sig [VALUE_TYPE_QTGUI_QVECTOR3D] "position" [] (RValue QVector3D) [On QCamera];
    Sig [VALUE_TYPE_QTGUI_QMATRIX4X4] "projectionMatrix" [] (RValue QMatrix4x4) [On QCamera; On QCameraLens]
  ].

Definition methods_qt3drender_0_s65 : list signature_row :=
  [
    Sig [TYPE_QT3DRENDER_QCAMERALENS] "projectionType" [] (RMeta Qt3DRender_QCameraLens_ProjectionType) [On
        QCamera; On QCameraLens];
    Sig [] "referenceValue" [] RDouble [On QAlphaTest];
    Sig [TYPE_QT3DRENDER_QLAYER] "removeLayer" [PObject Qt3DRender_QLayer false] RVoid [On
        QAbstractRayCaster];
    Sig [TYPE_QT3DRENDER_QPARAMETER] "removeParameter" [PObject Qt3DRender_QParameter false] RVoid [On
        QEffect];
    Sig [TYPE_QT3DRENDER_QTECHNIQUE] "removeTechnique" [PObject Qt3DRender_QTechnique false] RVoid [On
        QEffect];
    Sig [TYPE_QT3DRENDER_QABSTRACTTEXTUREIMAGE] "removeTextureImage" [PObject
        Qt3DRender_QAbstractTextureImage false] RVoid [On QAbstractTexture];
    Sig [] "right" [] RDouble [On QCamera; On QCameraLens];
    Sig [] "roll" [PNumber cxx_float] RVoid [On QCamera];
    Sig [] "rollAboutViewCenter" [PNumber cxx_float] RVoid [On QCamera]
  ].

Definition methods_qt3drender_0_s74 : list signature_row :=
  [
    Sig [VALUE_TYPE_QTGUI_QQUATERNION] "rollRotation" [PNumber cxx_float] (RValue QQuaternion) [On QCamera];
    Sig [VALUE_TYPE_QTGUI_QQUATERNION] "rotate" [PValue QQuaternion] RVoid [On QCamera];
    Sig [VALUE_TYPE_QTGUI_QQUATERNION] "rotateAboutViewCenter" [PValue QQuaternion] RVoid [On QCamera];
    Sig [VALUE_TYPE_QTGUI_QQUATERNION; VALUE_TYPE_QTGUI_QVECTOR3D] "rotation" [PNumber cxx_float; PValue
        QVector3D] (RValue QQuaternion) [On QCamera];
    Sig [TYPE_QT3DRENDER_QABSTRACTRAYCASTER] "runMode" [] (RMeta Qt3DRender_QAbstractRayCaster_RunMode) [On
        QAbstractRayCaster];
    Sig [TYPE_QT3DRENDER_QCOMPUTECOMMAND] "runType" [] (RMeta Qt3DRender_QComputeCommand_RunType) [On
        QComputeCommand];
    Sig [] "samples" [] RDouble [On QAbstractTexture];
    Sig [TYPE_QT3DRENDER_QALPHATEST] "setAlphaFunction" [PValue Qt3DRender_QAlphaTest_AlphaFunction] RVoid
        [On QAlphaTest];
    Sig [] "setAlphaMasked" [PBool] RVoid [On QColorMask];
    Sig [] "setAspectRatio" [PNumber cxx_float] RVoid [On QCamera; On QCameraLens]
  ].

Definition methods_qt3drender_0_s84 : list signature_row :=
  [
    Sig [TYPE_QT3DRENDER_QBLENDEQUATION] "setBlendFunction" [PValue
        Qt3DRender_QBlendEquation_BlendFunction] RVoid [On QBlendEquation];
    Sig [] "setBlueMasked" [PBool] RVoid [On QColorMask];
    Sig [] "setBottom" [PNumber cxx_float] RVoid [On QCamera; On QCameraLens];
    Sig [] "setBufferIndex" [PInt] RVoid [On QBlendEquationArguments];
    Sig [TYPE_QT3DRENDER_QCLEARBUFFERS] "setBuffers" [PValue Qt3DRender_QClearBuffers_BufferType] RVoid [On
        QClearBuffers];
    Sig [TYPE_QT3DCORE_QENTITY] "setCamera" [PObject Qt3DCore_QEntity false] RVoid [On QCameraSelector];
    Sig [VALUE_TYPE_QTGUI_QCOLOR] "setClearColor" [PValue QColor] RVoid [On QClearBuffers];
    Sig [] "setClearDepthValue" [PNumber cxx_float] RVoid [On QClearBuffers];
    Sig [] "setClearStencilValue" [PInt] RVoid [On QClearBuffers]
  ].

Definition methods_qt3drender_0_s93 : list signature_row :=
  [
    Sig [VALUE_TYPE_QTGUI_QCOLOR] "setColor" [PValue QColor] RVoid [On QAbstractLight];
    Sig [TYPE_QT3DRENDER_QRENDERTARGETOUTPUT] "setColorBuffer" [PObject Qt3DRender_QRenderTargetOutput
        false] RVoid [On QClearBuffers];
    Sig [TYPE_QT3DRENDER_QABSTRACTTEXTURE] "setComparisonFunction" [PValue
        Qt3DRender_QAbstractTexture_ComparisonFunction] RVoid [On QAbstractTexture];
    Sig [TYPE_QT3DRENDER_QABSTRACTTEXTURE] "setComparisonMode" [PValue
        Qt3DRender_QAbstractTexture_ComparisonMode] RVoid [On QAbstractTexture];
    Sig [] "setDepth" [PInt] RVoid [On QAbstractTexture];
    Sig [TYPE_QT3DRENDER_QDEPTHTEST] "setDepthFunction" [PValue Qt3DRender_QDepthTest_DepthFunction] RVoid
        [On QDepthTest];
    Sig [TYPE_QT3DRENDER_QRENDERTARGET] "setDestination" [PObject Qt3DRender_QRenderTarget false] RVoid [On
        QBlitFramebuffer];
    Sig [TYPE_QT3DRENDER_QBLENDEQUATIONARGUMENTS] "setDestinationAlpha" [PValue
        Qt3DRender_QBlendEquationArguments_Blending] RVoid [On QBlendEquationArguments];
    Sig [TYPE_QT3DRENDER_QRENDERTARGETOUTPUT] "setDestinationAttachmentPoint" [PValue
        Qt3DRender_QRenderTargetOutput_AttachmentPoint] RVoid [On QBlitFramebuffer]
  ].

Definition methods_qt3drender_0_s102 : list signature_row :=
  [
    Sig [VALUE_TYPE_QTCORE_QRECTF] "setDestinationRect" [PValue QRectF] RVoid [On QBlitFramebuffer];
    Sig [TYPE_QT3DRENDER_QBLENDEQUATIONARGUMENTS] "setDestinationRgb" [PValue
        Qt3DRender_QBlendEquationArguments_Blending] RVoid [On QBlendEquationArguments];
    Sig [TYPE_QT3DRENDER_QBLENDEQUATIONARGUMENTS] "setDestinationRgba" [PValue
        Qt3DRender_QBlendEquationArguments_Blending] RVoid [On QBlendEquationArguments];
    Sig [] "setDistance" [PNumber cxx_float] RVoid [On QClipPlane];
    Sig [] "setExposure" [PNumber cxx_float] RVoid [On QCamera; On QCameraLens];
    Sig [TYPE_QT3DRENDER_QABSTRACTTEXTURE] "setFace" [PValue Qt3DRender_QAbstractTexture_CubeMapFace] RVoid
        [On QAbstractTextureImage];
    Sig [] "setFarPlane" [PNumber cxx_float] RVoid [On QCamera; On QCameraLens];
    Sig [] "setFarValue" [PNumber cxx_double] RVoid [On QDepthRange];
    Sig [] "setFieldOfView" [PNumber cxx_float] RVoid [On QCamera; On QCameraLens]
  ].

Definition methods_qt3drender_0_s111 : list signature_row :=
  [
    Sig [TYPE_QT3DRENDER_QABSTRACTRAYCASTER] "setFilterMode" [PValue
        Qt3DRender_QAbstractRayCaster_FilterMode] RVoid [On QAbstractRayCaster];
    Sig [TYPE_QT3DRENDER_QABSTRACTTEXTURE] "setFormat" [PValue Qt3DRender_QAbstractTexture_TextureFormat]
        RVoid [On QAbstractTexture];
    Sig [] "setFrustumProjection" [PNumber cxx_float; PNumber cxx_float; PNumber cxx_float; PNumber
        cxx_float; PNumber cxx_float; PNumber cxx_float] RVoid [On QCameraLens];
    Sig [] "setGenerateMipMaps" [PBool] RVoid [On QAbstractTexture];
    Sig [] "setGreenMasked" [PBool] RVoid [On QColorMask];
    Sig [] "setHeight" [PInt] RVoid [On QAbstractTexture];
    Sig [] "setIntensity" [PNumber cxx_float] RVoid [On QAbstractLight];
    Sig [TYPE_QT3DRENDER_QBLITFRAMEBUFFER] "setInterpolationMethod" [PValue
        Qt3DRender_QBlitFramebuffer_InterpolationMethod] RVoid [On QBlitFramebuffer];
    Sig [TYPE_QT3DRENDER_QABSTRACTTEXTURE] "setIrradiance" [PObject Qt3DRender_QAbstractTexture false]
        RVoid [On QEnvironmentLight]
  ].

Definition methods_qt3drender_0_s120 : list signature_row :=
  [
    Sig [] "setLayer" [PInt] RVoid [On QAbstractTextureImage];
    Sig [] "setLayers" [PInt] RVoid [On QAbstractTexture];
    Sig [] "setLeft" [PNumber cxx_float] RVoid [On QCamera; On QCameraLens];
    Sig [TYPE_QT3DRENDER_QABSTRACTTEXTURE] "setMagnificationFilter" [PValue
        Qt3DRender_QAbstractTexture_Filter] RVoid [On QAbstractTexture];
    Sig [] "setMaximumAnisotropy" [PNumber cxx_float] RVoid [On QAbstractTexture];
    Sig [TYPE_QT3DRENDER_QABSTRACTTEXTURE] "setMinificationFilter" [PValue
        Qt3DRender_QAbstractTexture_Filter] RVoid [On QAbstractTexture];
    Sig [] "setMipLevel" [PInt] RVoid [On QAbstractTextureImage];
    Sig [] "setMipLevels" [PInt] RVoid [On QAbstractTexture];
    Sig [TYPE_QT3DRENDER_QCULLFACE] "setMode" [PValue Qt3DRender_QCullFace_CullingMode] RVoid [On
        QCullFace];
    Sig [] "setName" [PString true] RVoid [On QFilterKey]
  ].

Definition methods_qt3drender_0_s130 : list signature_row :=
  [
    Sig [] "setNearPlane" [PNumber cxx_float] RVoid [On QCamera; On QCameraLens];
    Sig [] "setNearValue" [PNumber cxx_double] RVoid [On QDepthRange];
    Sig [VALUE_TYPE_QTGUI_QVECTOR3D] "setNormal" [PValue QVector3D] RVoid [On QClipPlane];
    Sig [] "setOrthographicProjection" [PNumber cxx_float; PNumber cxx_float; PNumber cxx_float; PNumber
        cxx_float; PNumber cxx_float; PNumber cxx_float] RVoid [On QCameraLens];
    Sig [] "setPerspectiveProjection" [PNumber cxx_float; PNumber cxx_float; PNumber cxx_float; PNumber
        cxx_float] RVoid [On QCameraLens];
    Sig [] "setPlaneIndex" [PInt] RVoid [On QClipPlane];
    Sig [VALUE_TYPE_QTGUI_QVECTOR3D] "setPosition" [PValue QVector3D] RVoid [On QCamera];
    Sig [VALUE_TYPE_QTGUI_QMATRIX4X4] "setProjectionMatrix" [PValue QMatrix4x4] RVoid [On QCamera; On
        QCameraLens]
  ].

Definition methods_qt3drender_0_s138 : list signature_row :=
  [
    Sig [TYPE_QT3DRENDER_QCAMERALENS] "setProjectionType" [PValue Qt3DRender_QCameraLens_ProjectionType]
        RVoid [On QCamera; On QCameraLens];
    Sig [] "setRedMasked" [PBool] RVoid [On QColorMask];
    Sig [] "setReferenceValue" [PNumber cxx_float] RVoid [On QAlphaTest];
    Sig [] "setRight" [PNumber cxx_float] RVoid [On QCamera; On QCameraLens];
    Sig [TYPE_QT3DRENDER_QABSTRACTRAYCASTER] "setRunMode" [PValue Qt3DRender_QAbstractRayCaster_RunMode]
        RVoid [On QAbstractRayCaster];
    Sig [TYPE_QT3DRENDER_QCOMPUTECOMMAND] "setRunType" [PValue Qt3DRender_QComputeCommand_RunType] RVoid
        [On QComputeCommand];
    Sig [] "setSamples" [PInt] RVoid [On QAbstractTexture];
    Sig [] "setSize" [PInt; PInt; PInt] RVoid [On QAbstractTexture];
    Sig [TYPE_QT3DRENDER_QRENDERTARGET] "setSource" [PObject Qt3DRender_QRenderTarget false] RVoid [On
        QBlitFramebuffer]
  ].

Definition methods_qt3drender_0_s147 : list signature_row :=
  [
    Sig [TYPE_QT3DRENDER_QBLENDEQUATIONARGUMENTS] "setSourceAlpha" [PValue
        Qt3DRender_QBlendEquationArguments_Blending] RVoid [On QBlendEquationArguments];
    Sig [TYPE_QT3DRENDER_QRENDERTARGETOUTPUT] "setSourceAttachmentPoint" [PValue
        Qt3DRender_QRenderTargetOutput_AttachmentPoint] RVoid [On QBlitFramebuffer];
    Sig [VALUE_TYPE_QTCORE_QRECTF] "setSourceRect" [PValue QRectF] RVoid [On QBlitFramebuffer];
    Sig [TYPE_QT3DRENDER_QBLENDEQUATIONARGUMENTS] "setSourceRgb" [PValue
        Qt3DRender_QBlendEquationArguments_Blending] RVoid [On QBlendEquationArguments];
    Sig [TYPE_QT3DRENDER_QBLENDEQUATIONARGUMENTS] "setSourceRgba" [PValue
        Qt3DRender_QBlendEquationArguments_Blending] RVoid [On QBlendEquationArguments];
    Sig [TYPE_QT3DRENDER_QABSTRACTTEXTURE] "setSpecular" [PObject Qt3DRender_QAbstractTexture false] RVoid
        [On QEnvironmentLight];
    Sig [] "setTop" [PNumber cxx_float] RVoid [On QCamera; On QCameraLens];
    Sig [VALUE_TYPE_QTGUI_QVECTOR3D] "setUpVector" [PValue QVector3D] RVoid [On QCamera];
    Sig [] "setValue" [PVariant] RVoid [On QFilterKey]
  ].

Definition methods_qt3drender_0_s156 : list signature_row :=
  [
    Sig [VALUE_TYPE_QTGUI_QVECTOR3D] "setViewCenter" [PValue QVector3D] RVoid [On QCamera];
    Sig [] "setWidth" [PInt] RVoid [On QAbstractTexture];
    Sig [] "setWorkGroupX" [PInt] RVoid [On QComputeCommand; On QDispatchCompute];
    Sig [] "setWorkGroupY" [PInt] RVoid [On QComputeCommand; On QDispatchCompute];
    Sig [] "setWorkGroupZ" [PInt] RVoid [On QComputeCommand; On QDispatchCompute];
    Sig [VALUE_TYPE_QTGUI_QVECTOR3D] "setWorldDirection" [PValue QVector3D] RVoid [On QDirectionalLight];
    Sig [TYPE_QT3DRENDER_QRENDERTARGET] "source" [] RObject [On QBlitFramebuffer];
    Sig [TYPE_QT3DRENDER_QBLENDEQUATIONARGUMENTS] "sourceAlpha" [] (RMeta
        Qt3DRender_QBlendEquationArguments_Blending) [On QBlendEquationArguments];
    Sig [TYPE_QT3DRENDER_QRENDERTARGETOUTPUT] "sourceAttachmentPoint" [] (RMeta
        Qt3DRender_QRenderTargetOutput_AttachmentPoint) [On QBlitFramebuffer]
  ].

Definition methods_qt3drender_0_s165 : list signature_row :=
  [
    Sig [VALUE_TYPE_QTCORE_QRECTF] "sourceRect" [] (RValue QRectF) [On QBlitFramebuffer];
    Sig [TYPE_QT3DRENDER_QBLENDEQUATIONARGUMENTS] "sourceRgb" [] (RMeta
        Qt3DRender_QBlendEquationArguments_Blending) [On QBlendEquationArguments];
    Sig [TYPE_QT3DRENDER_QABSTRACTTEXTURE] "specular" [] RObject [On QEnvironmentLight];
    Sig [TYPE_QT3DRENDER_QABSTRACTTEXTURE] "status" [] (RMeta Qt3DRender_QAbstractTexture_Status) [On
        QAbstractTexture];
    Sig [TYPE_QT3DRENDER_QABSTRACTTEXTURE] "target" [] (RMeta Qt3DRender_QAbstractTexture_Target) [On
        QAbstractTexture];
    Sig [TYPE_QT3DRENDER_QTECHNIQUE] "techniques" [] (RList (IObject QObject)) [On QEffect];
    Sig [TYPE_QT3DRENDER_QABSTRACTTEXTUREIMAGE] "textureImages" [] (RList (IObject QObject)) [On
        QAbstractTexture];
    Sig [] "tilt" [PNumber cxx_float] RVoid [On QCamera];
    Sig [] "tiltAboutViewCenter" [PNumber cxx_float] RVoid [On QCamera];
    Sig [VALUE_TYPE_QTGUI_QQUATERNION] "tiltRotation" [PNumber cxx_float] (RValue QQuaternion) [On QCamera]
  ].

Definition methods_qt3drender_0_s175 : list signature_row :=
  [
    Sig [] "top" [] RDouble [On QCamera; On QCameraLens];
    Sig [TYPE_QT3DRENDER_QCAMERA; VALUE_TYPE_QTGUI_QVECTOR3D] "translate" [PValue QVector3D; PValue
        Qt3DRender_QCamera_CameraTranslationOption] RVoid [On QCamera];
    Sig [TYPE_QT3DRENDER_QCAMERA; VALUE_TYPE_QTGUI_QVECTOR3D] "translateWorld" [PValue QVector3D; PValue
        Qt3DRender_QCamera_CameraTranslationOption] RVoid [On QCamera];
    Sig [] "trigger" [PInt] RVoid [On QComputeCommand];
    Sig [] "trigger" [PInt; PInt; PInt; PInt] RVoid [On QComputeCommand];
    Sig [TYPE_QT3DRENDER_QABSTRACTLIGHT] "type" [] (RMeta Qt3DRender_QAbstractLight_Type) [On
        QAbstractLight];
    Sig [VALUE_TYPE_QTGUI_QVECTOR3D] "upVector" [] (RValue QVector3D) [On QCamera];
    Sig [] "value" [] RVariant [On QFilterKey];
    Sig [] "viewAll" [] RVoid [On QCamera]
  ].

Definition methods_qt3drender_0_s184 : list signature_row :=
  [
    Sig [VALUE_TYPE_QTGUI_QVECTOR3D] "viewCenter" [] (RValue QVector3D) [On QCamera];
    Sig [TYPE_QT3DCORE_QENTITY] "viewEntity" [PObject Qt3DCore_QEntity false] RVoid [On QCamera];
    Sig [VALUE_TYPE_QTGUI_QMATRIX4X4] "viewMatrix" [] (RValue QMatrix4x4) [On QCamera];
    Sig [VALUE_TYPE_QTGUI_QVECTOR3D] "viewSphere" [PValue QVector3D; PNumber cxx_float] RVoid [On QCamera];
    Sig [VALUE_TYPE_QTGUI_QVECTOR3D] "viewVector" [] (RValue QVector3D) [On QCamera];
    Sig [] "width" [] RDouble [On QAbstractTexture];
    Sig [] "workGroupX" [] RDouble [On QComputeCommand; On QDispatchCompute];
    Sig [] "workGroupY" [] RDouble [On QComputeCommand; On QDispatchCompute];
    Sig [] "workGroupZ" [] RDouble [On QComputeCommand; On QDispatchCompute];
    Sig [VALUE_TYPE_QTGUI_QVECTOR3D] "worldDirection" [] (RValue QVector3D) [On QDirectionalLight]
  ].

Definition methods_qt3drender_0_s194 : list signature_row :=
  [
    Sig [TYPE_QT3DRENDER_QTEXTUREWRAPMODE] "wrapMode" [] RObject [On QAbstractTexture]
  ].

Definition methods_qt3drender_0 : method_shard :=
  MethodShard Qt3DRender "KRY_QT6_NATIVE_METHODS_QT3DRENDER_"
    (methods_qt3drender_0_i0 ++ methods_qt3drender_0_i1)
    (methods_qt3drender_0_s0 ++ methods_qt3drender_0_s11 ++ methods_qt3drender_0_s22 ++
        methods_qt3drender_0_s33 ++ methods_qt3drender_0_s45 ++ methods_qt3drender_0_s56 ++
        methods_qt3drender_0_s65 ++ methods_qt3drender_0_s74 ++ methods_qt3drender_0_s84 ++
        methods_qt3drender_0_s93 ++ methods_qt3drender_0_s102 ++ methods_qt3drender_0_s111 ++
        methods_qt3drender_0_s120 ++ methods_qt3drender_0_s130 ++ methods_qt3drender_0_s138 ++
        methods_qt3drender_0_s147 ++ methods_qt3drender_0_s156 ++ methods_qt3drender_0_s165 ++
        methods_qt3drender_0_s175 ++ methods_qt3drender_0_s184 ++ methods_qt3drender_0_s194)
    [].

Definition methods_qt3drender_1_i0 : list include :=
  [
    ClassInclude Qt3DRender QFrontFace QFrontFace;
    ClassInclude Qt3DRender QGeometryRenderer QGeometryRenderer;
    ClassInclude Qt3DRender QGraphicsApiFilter QGraphicsApiFilter;
    ClassInclude Qt3DRender QLayer QLayer;
    ClassInclude Qt3DRender QLayerFilter QLayerFilter;
    ClassInclude Qt3DRender QLevelOfDetail QLevelOfDetail;
    ClassInclude Qt3DRender QLineWidth QLineWidth;
    ClassInclude Qt3DRender QMaterial QMaterial;
    ClassInclude Qt3DRender QMemoryBarrier QMemoryBarrier;
    ClassInclude Qt3DRender QMesh QMesh;
    ClassInclude Qt3DRender QObjectPicker QObjectPicker;
    ClassInclude Qt3DRender QPaintedTextureImage QPaintedTextureImage;
    ClassInclude Qt3DRender QParameter QParameter;
    ClassInclude Qt3DRender QPickEvent QPickEvent;
    ClassInclude Qt3DRender QPickLineEvent QPickLineEvent;
    ClassInclude Qt3DRender QPickPointEvent QPickPointEvent;
    ClassInclude Qt3DRender QPickTriangleEvent QPickTriangleEvent;
    ClassInclude Qt3DRender QPickingSettings QPickingSettings;
    ClassInclude Qt3DRender QPointLight QPointLight;
    ClassInclude Qt3DRender QPointSize QPointSize;
    ClassInclude Qt3DRender QPolygonOffset QPolygonOffset;
    ClassInclude Qt3DRender QProximityFilter QProximityFilter;
    ClassInclude Qt3DRender QRasterMode QRasterMode;
    ClassInclude Qt3DRender QRayCaster QRayCaster;
    TypeInclude Qt3DCore QEntity TYPE_QT3DCORE_QENTITY;
    TypeInclude Qt3DCore QGeometry TYPE_QT3DCORE_QGEOMETRY;
    TypeInclude Qt3DRender QCamera TYPE_QT3DRENDER_QCAMERA;
    TypeInclude Qt3DRender QEffect TYPE_QT3DRENDER_QEFFECT;
    TypeInclude Qt3DRender QLayer TYPE_QT3DRENDER_QLAYER;
    TypeInclude Qt3DRender QParameter TYPE_QT3DRENDER_QPARAMETER;
    TypeInclude Qt3DRender QViewport TYPE_QT3DRENDER_QVIEWPORT;
    TypeInclude Qt3DRender QFrontFace TYPE_QT3DRENDER_QFRONTFACE;
    TypeInclude Qt3DRender QGeometryRenderer TYPE_QT3DRENDER_QGEOMETRYRENDERER;
    TypeInclude Qt3DRender QGraphicsApiFilter TYPE_QT3DRENDER_QGRAPHICSAPIFILTER;
    TypeInclude Qt3DRender QLayerFilter TYPE_QT3DRENDER_QLAYERFILTER;
    TypeInclude Qt3DRender QLevelOfDetail TYPE_QT3DRENDER_QLEVELOFDETAIL;
    TypeInclude Qt3DRender QMemoryBarrier TYPE_QT3DRENDER_QMEMORYBARRIER;
    TypeInclude Qt3DRender QMesh TYPE_QT3DRENDER_QMESH;
    TypeInclude Qt3DRender QPickEvent TYPE_QT3DRENDER_QPICKEVENT;
    TypeInclude Qt3DRender QPickingSettings TYPE_QT3DRENDER_QPICKINGSETTINGS;
    TypeInclude Qt3DRender QPointSize TYPE_QT3DRENDER_QPOINTSIZE;
    TypeInclude Qt3DRender QRasterMode TYPE_QT3DRENDER_QRASTERMODE;
    TypeInclude QtCore QPointF VALUE_TYPE_QTCORE_QPOINTF;
    TypeInclude QtCore QRect VALUE_TYPE_QTCORE_QRECT;
    TypeInclude QtCore QSize VALUE_TYPE_QTCORE_QSIZE;
    TypeInclude QtCore QUrl VALUE_TYPE_QTCORE_QURL;
    TypeInclude QtGui QVector3D VALUE_TYPE_QTGUI_QVECTOR3D
  ].

Definition methods_qt3drender_1_s0 : list signature_row :=
  [
    Sig [TYPE_QT3DRENDER_QPARAMETER] "addParameter" [PObject Qt3DRender_QParameter false] RVoid [On
        QMaterial];
    Sig [TYPE_QT3DRENDER_QGRAPHICSAPIFILTER] "api" [] (RMeta Qt3DRender_QGraphicsApiFilter_Api) [On
        QGraphicsApiFilter];
    Sig [TYPE_QT3DRENDER_QPICKEVENT] "button" [] (RMeta Qt3DRender_QPickEvent_Buttons) [On QPickEvent];
    Sig [] "buttons" [] RDouble [On QPickEvent];
    Sig [TYPE_QT3DRENDER_QCAMERA] "camera" [] RObject [On QLevelOfDetail];
    Sig [] "constantAttenuation" [] RDouble [On QPointLight];
    Sig [] "containsMouse" [] RBool [On QObjectPicker];
    Sig [] "currentIndex" [] RDouble [On QLevelOfDetail];
    Sig [] "depthSteps" [] RDouble [On QPolygonOffset];
    Sig [VALUE_TYPE_QTGUI_QVECTOR3D] "direction" [] (RValue QVector3D) [On QRayCaster];
    Sig [TYPE_QT3DRENDER_QFRONTFACE] "direction" [] (RMeta Qt3DRender_QFrontFace_WindingDirection) [On
        QFrontFace]
  ].

Definition methods_qt3drender_1_s11 : list signature_row :=
  [
    Sig [] "distance" [] RDouble [On QPickEvent];
    Sig [] "distanceThreshold" [] RDouble [On QProximityFilter];
    Sig [] "edgeIndex" [] RDouble [On QPickLineEvent];
    Sig [TYPE_QT3DRENDER_QEFFECT] "effect" [] RObject [On QMaterial];
    Sig [TYPE_QT3DCORE_QENTITY] "entity" [] RObject [On QPickEvent; On QProximityFilter];
    Sig [] "extensions" [] (RList (IMeta QString)) [On QGraphicsApiFilter];
    Sig [TYPE_QT3DRENDER_QRASTERMODE] "faceMode" [] (RMeta Qt3DRender_QRasterMode_FaceMode) [On
        QRasterMode];
    Sig [TYPE_QT3DRENDER_QPICKINGSETTINGS] "faceOrientationPickingMode" [] (RMeta
        Qt3DRender_QPickingSettings_FaceOrientationPickingMode) [On QPickingSettings];
    Sig [TYPE_QT3DRENDER_QLAYERFILTER] "filterMode" [] (RMeta Qt3DRender_QLayerFilter_FilterMode) [On
        QLayerFilter];
    Sig [] "firstInstance" [] RDouble [On QGeometryRenderer];
    Sig [] "firstVertex" [] RDouble [On QGeometryRenderer]
  ].

Definition methods_qt3drender_1_s22 : list signature_row :=
  [
    Sig [TYPE_QT3DCORE_QGEOMETRY] "geometry" [] RObject [On QGeometryRenderer];
    Sig [] "height" [] RDouble [On QPaintedTextureImage];
    Sig [] "indexBufferByteOffset" [] RDouble [On QGeometryRenderer];
    Sig [] "indexOffset" [] RDouble [On QGeometryRenderer];
    Sig [] "instanceCount" [] RDouble [On QGeometryRenderer];
    Sig [] "isAccepted" [] RBool [On QPickEvent];
    Sig [] "isDragEnabled" [] RBool [On QObjectPicker];
    Sig [] "isHoverEnabled" [] RBool [On QObjectPicker];
    Sig [] "isPressed" [] RBool [On QObjectPicker];
    Sig [TYPE_QT3DRENDER_QLAYER] "layers" [] (RList (IObject QObject)) [On QLayerFilter];
    Sig [] "length" [] RDouble [On QRayCaster];
    Sig [] "linearAttenuation" [] RDouble [On QPointLight]
  ].

Definition methods_qt3drender_1_s34 : list signature_row :=
  [
    Sig [VALUE_TYPE_QTGUI_QVECTOR3D] "localIntersection" [] (RValue QVector3D) [On QPickEvent];
    Sig [] "majorVersion" [] RDouble [On QGraphicsApiFilter];
    Sig [] "meshName" [] RString [On QMesh];
    Sig [] "minorVersion" [] RDouble [On QGraphicsApiFilter];
    Sig [] "modifiers" [] RDouble [On QPickEvent];
    Sig [] "name" [] RString [On QParameter];
    Sig [VALUE_TYPE_QTGUI_QVECTOR3D] "origin" [] (RValue QVector3D) [On QRayCaster];
    Sig [TYPE_QT3DRENDER_QPARAMETER] "parameters" [] (RList (IObject QObject)) [On QMaterial];
    Sig [TYPE_QT3DRENDER_QPICKINGSETTINGS] "pickMethod" [] (RMeta Qt3DRender_QPickingSettings_PickMethod)
        [On QPickingSettings];
    Sig [TYPE_QT3DRENDER_QPICKINGSETTINGS] "pickResultMode" [] (RMeta
        Qt3DRender_QPickingSettings_PickResultMode) [On QPickingSettings];
    Sig [] "pointIndex" [] RDouble [On QPickPointEvent]
  ].

Definition methods_qt3drender_1_s45 : list signature_row :=
  [
    Sig [VALUE_TYPE_QTCORE_QPOINTF] "position" [] (RValue QPointF) [On QPickEvent];
    Sig [] "primitiveRestartEnabled" [] RBool [On QGeometryRenderer];
    Sig [TYPE_QT3DRENDER_QGEOMETRYRENDERER] "primitiveType" [] (RMeta
        Qt3DRender_QGeometryRenderer_PrimitiveType) [On QGeometryRenderer];
    Sig [] "priority" [] RDouble [On QObjectPicker];
    Sig [TYPE_QT3DRENDER_QGRAPHICSAPIFILTER] "profile" [] (RMeta
        Qt3DRender_QGraphicsApiFilter_OpenGLProfile) [On QGraphicsApiFilter];
    Sig [] "quadraticAttenuation" [] RDouble [On QPointLight];
    Sig [TYPE_QT3DRENDER_QRASTERMODE] "rasterMode" [] (RMeta Qt3DRender_QRasterMode_RasterMode) [On
        QRasterMode];
    Sig [] "recursive" [] RBool [On QLayer];
    Sig [TYPE_QT3DRENDER_QLAYER] "removeLayer" [PObject Qt3DRender_QLayer false] RVoid [On QLayerFilter];
    Sig [TYPE_QT3DRENDER_QPARAMETER] "removeParameter" [PObject Qt3DRender_QParameter false] RVoid [On
        QMaterial];
    Sig [] "restartIndexValue" [] RDouble [On QGeometryRenderer]
  ].

Definition methods_qt3drender_1_s56 : list signature_row :=
  [
    Sig [] "scaleFactor" [] RDouble [On QPolygonOffset];
    Sig [] "setAccepted" [PBool] RVoid [On QPickEvent];
    Sig [TYPE_QT3DRENDER_QGRAPHICSAPIFILTER] "setApi" [PValue Qt3DRender_QGraphicsApiFilter_Api] RVoid [On
        QGraphicsApiFilter];
    Sig [TYPE_QT3DRENDER_QCAMERA] "setCamera" [PObject Qt3DRender_QCamera false] RVoid [On QLevelOfDetail];
    Sig [] "setConstantAttenuation" [PNumber cxx_float] RVoid [On QPointLight];
    Sig [] "setCurrentIndex" [PInt] RVoid [On QLevelOfDetail];
    Sig [] "setDepthSteps" [PNumber cxx_float] RVoid [On QPolygonOffset];
    Sig [VALUE_TYPE_QTGUI_QVECTOR3D] "setDirection" [PValue QVector3D] RVoid [On QRayCaster];
    Sig [TYPE_QT3DRENDER_QFRONTFACE] "setDirection" [PValue Qt3DRender_QFrontFace_WindingDirection] RVoid
        [On QFrontFace];
    Sig [] "setDistanceThreshold" [PNumber cxx_float] RVoid [On QProximityFilter]
  ].

Definition methods_qt3drender_1_s66 : list signature_row :=
  [
    Sig [] "setDragEnabled" [PBool] RVoid [On QObjectPicker];
    Sig [TYPE_QT3DRENDER_QEFFECT] "setEffect" [PObject Qt3DRender_QEffect false] RVoid [On QMaterial];
    Sig [TYPE_QT3DCORE_QENTITY] "setEntity" [PObject Qt3DCore_QEntity false] RVoid [On QProximityFilter];
    Sig [] "setExtensions" [PStringList] RVoid [On QGraphicsApiFilter];
    Sig [TYPE_QT3DRENDER_QRASTERMODE] "setFaceMode" [PValue Qt3DRender_QRasterMode_FaceMode] RVoid [On
        QRasterMode];
    Sig [TYPE_QT3DRENDER_QPICKINGSETTINGS] "setFaceOrientationPickingMode" [PValue
        Qt3DRender_QPickingSettings_FaceOrientationPickingMode] RVoid [On QPickingSettings];
    Sig [TYPE_QT3DRENDER_QLAYERFILTER] "setFilterMode" [PValue Qt3DRender_QLayerFilter_FilterMode] RVoid
        [On QLayerFilter];
    Sig [] "setFirstInstance" [PInt] RVoid [On QGeometryRenderer];
    Sig [] "setFirstVertex" [PInt] RVoid [On QGeometryRenderer]
  ].

Definition methods_qt3drender_1_s75 : list signature_row :=
  [
    Sig [TYPE_QT3DCORE_QGEOMETRY] "setGeometry" [PObject Qt3DCore_QGeometry false] RVoid [On
        QGeometryRenderer];
    Sig [] "setHeight" [PInt] RVoid [On QPaintedTextureImage];
    Sig [] "setHoverEnabled" [PBool] RVoid [On QObjectPicker];
    Sig [] "setIndexBufferByteOffset" [PInt] RVoid [On QGeometryRenderer];
    Sig [] "setIndexOffset" [PInt] RVoid [On QGeometryRenderer];
    Sig [] "setInstanceCount" [PInt] RVoid [On QGeometryRenderer];
    Sig [] "setLength" [PNumber cxx_float] RVoid [On QRayCaster];
    Sig [] "setLinearAttenuation" [PNumber cxx_float] RVoid [On QPointLight];
    Sig [] "setMajorVersion" [PInt] RVoid [On QGraphicsApiFilter];
    Sig [] "setMeshName" [PString true] RVoid [On QMesh]
  ].

Definition methods_qt3drender_1_s85 : list signature_row :=
  [
    Sig [] "setMinorVersion" [PInt] RVoid [On QGraphicsApiFilter];
    Sig [] "setName" [PString true] RVoid [On QParameter];
    Sig [VALUE_TYPE_QTGUI_QVECTOR3D] "setOrigin" [PValue QVector3D] RVoid [On QRayCaster];
    Sig [TYPE_QT3DRENDER_QPICKINGSETTINGS] "setPickMethod" [PValue Qt3DRender_QPickingSettings_PickMethod]
        RVoid [On QPickingSettings];
    Sig [TYPE_QT3DRENDER_QPICKINGSETTINGS] "setPickResultMode" [PValue
        Qt3DRender_QPickingSettings_PickResultMode] RVoid [On QPickingSettings];
    Sig [] "setPrimitiveRestartEnabled" [PBool] RVoid [On QGeometryRenderer];
    Sig [TYPE_QT3DRENDER_QGEOMETRYRENDERER] "setPrimitiveType" [PValue
        Qt3DRender_QGeometryRenderer_PrimitiveType] RVoid [On QGeometryRenderer];
    Sig [] "setPriority" [PInt] RVoid [On QObjectPicker];
    Sig [TYPE_QT3DRENDER_QGRAPHICSAPIFILTER] "setProfile" [PValue
        Qt3DRender_QGraphicsApiFilter_OpenGLProfile] RVoid [On QGraphicsApiFilter];
    Sig [] "setQuadraticAttenuation" [PNumber cxx_float] RVoid [On QPointLight]
  ].

Definition methods_qt3drender_1_s95 : list signature_row :=
  [
    Sig [TYPE_QT3DRENDER_QRASTERMODE] "setRasterMode" [PValue Qt3DRender_QRasterMode_RasterMode] RVoid [On
        QRasterMode];
    Sig [] "setRecursive" [PBool] RVoid [On QLayer];
    Sig [] "setRestartIndexValue" [PInt] RVoid [On QGeometryRenderer];
    Sig [] "setScaleFactor" [PNumber cxx_float] RVoid [On QPolygonOffset];
    Sig [VALUE_TYPE_QTCORE_QSIZE] "setSize" [PValue QSize] RVoid [On QPaintedTextureImage];
    Sig [TYPE_QT3DRENDER_QPOINTSIZE] "setSizeMode" [PValue Qt3DRender_QPointSize_SizeMode] RVoid [On
        QPointSize];
    Sig [] "setSmooth" [PBool] RVoid [On QLineWidth];
    Sig [VALUE_TYPE_QTCORE_QURL] "setSource" [PValue QUrl] RVoid [On QMesh];
    Sig [TYPE_QT3DRENDER_QLEVELOFDETAIL] "setThresholdType" [PValue
        Qt3DRender_QLevelOfDetail_ThresholdType] RVoid [On QLevelOfDetail]
  ].

Definition methods_qt3drender_1_s104 : list signature_row :=
  [
    Sig [] "setThresholds" [PList (IMeta cxx_qreal)] RVoid [On QLevelOfDetail];
    Sig [] "setValue" [PVariant] RVoid [On QParameter];
    Sig [] "setValue" [PNumber cxx_float] RVoid [On QLineWidth; On QPointSize];
    Sig [] "setVendor" [PString true] RVoid [On QGraphicsApiFilter];
    Sig [] "setVertexCount" [PInt] RVoid [On QGeometryRenderer];
    Sig [] "setVerticesPerPatch" [PInt] RVoid [On QGeometryRenderer];
    Sig [TYPE_QT3DRENDER_QMEMORYBARRIER] "setWaitOperations" [PValue Qt3DRender_QMemoryBarrier_Operations]
        RVoid [On QMemoryBarrier];
    Sig [] "setWidth" [PInt] RVoid [On QPaintedTextureImage];
    Sig [] "setWorldSpaceTolerance" [PNumber cxx_float] RVoid [On QPickingSettings];
    Sig [VALUE_TYPE_QTCORE_QSIZE] "size" [] (RValue QSize) [On QPaintedTextureImage]
  ].

Definition methods_qt3drender_1_s114 : list signature_row :=
  [
    Sig [TYPE_QT3DRENDER_QPOINTSIZE] "sizeMode" [] (RMeta Qt3DRender_QPointSize_SizeMode) [On QPointSize];
    Sig [] "smooth" [] RBool [On QLineWidth];
    Sig [VALUE_TYPE_QTCORE_QURL] "source" [] (RValue QUrl) [On QMesh];
    Sig [TYPE_QT3DRENDER_QMESH] "status" [] (RMeta Qt3DRender_QMesh_Status) [On QMesh];
    Sig [TYPE_QT3DRENDER_QLEVELOFDETAIL] "thresholdType" [] (RMeta Qt3DRender_QLevelOfDetail_ThresholdType)
        [On QLevelOfDetail];
    Sig [] "thresholds" [] (RList (IMeta cxx_qreal)) [On QLevelOfDetail];
    Sig [] "triangleIndex" [] RDouble [On QPickTriangleEvent];
    Sig [] "trigger" [] RVoid [On QRayCaster];
    Sig [VALUE_TYPE_QTGUI_QVECTOR3D] "trigger" [PValue QVector3D; PValue QVector3D; PNumber cxx_float]
        RVoid [On QRayCaster];
    Sig [VALUE_TYPE_QTCORE_QRECT] "update" [PValue QRect] RVoid [On QPaintedTextureImage]
  ].

Definition methods_qt3drender_1_s124 : list signature_row :=
  [
    Sig [VALUE_TYPE_QTGUI_QVECTOR3D] "uvw" [] (RValue QVector3D) [On QPickTriangleEvent];
    Sig [] "value" [] RVariant [On QParameter];
    Sig [] "value" [] RDouble [On QLineWidth; On QPointSize];
    Sig [] "vendor" [] RString [On QGraphicsApiFilter];
    Sig [] "vertex1Index" [] RDouble [On QPickLineEvent; On QPickTriangleEvent];
    Sig [] "vertex2Index" [] RDouble [On QPickLineEvent; On QPickTriangleEvent];
    Sig [] "vertex3Index" [] RDouble [On QPickTriangleEvent];
    Sig [] "vertexCount" [] RDouble [On QGeometryRenderer];
    Sig [] "verticesPerPatch" [] RDouble [On QGeometryRenderer];
    Sig [TYPE_QT3DRENDER_QVIEWPORT] "viewport" [] RObject [On QPickEvent];
    Sig [TYPE_QT3DRENDER_QMEMORYBARRIER] "waitOperations" [] (RMeta Qt3DRender_QMemoryBarrier_Operations)
        [On QMemoryBarrier]
  ].

Definition methods_qt3drender_1_s135 : list signature_row :=
  [
    Sig [] "width" [] RDouble [On QPaintedTextureImage];
    Sig [VALUE_TYPE_QTGUI_QVECTOR3D] "worldIntersection" [] (RValue QVector3D) [On QPickEvent];
    Sig [] "worldSpaceTolerance" [] RDouble [On QPickingSettings]
  ].

Definition methods_qt3drender_1 : method_shard :=
  MethodShard Qt3DRender "KRY_QT6_NATIVE_METHODS_QT3DRENDER_"
    (methods_qt3drender_1_i0)
    (methods_qt3drender_1_s0 ++ methods_qt3drender_1_s11 ++ methods_qt3drender_1_s22 ++
        methods_qt3drender_1_s34 ++ methods_qt3drender_1_s45 ++ methods_qt3drender_1_s56 ++
        methods_qt3drender_1_s66 ++ methods_qt3drender_1_s75 ++ methods_qt3drender_1_s85 ++
        methods_qt3drender_1_s95 ++ methods_qt3drender_1_s104 ++ methods_qt3drender_1_s114 ++
        methods_qt3drender_1_s124 ++ methods_qt3drender_1_s135)
    [].

Definition methods_qt3drender_2_i0 : list include :=
  [
    ClassInclude Qt3DRender QRenderCapabilities QRenderCapabilities;
    ClassInclude Qt3DRender QRenderCapture QRenderCapture;
    ClassInclude Qt3DRender QRenderCaptureReply QRenderCaptureReply;
    ClassInclude Qt3DRender QRenderPass QRenderPass;
    ClassInclude Qt3DRender QRenderPassFilter QRenderPassFilter;
    ClassInclude Qt3DRender QRenderSettings QRenderSettings;
    ClassInclude Qt3DRender QRenderStateSet QRenderStateSet;
    ClassInclude Qt3DRender QRenderSurfaceSelector QRenderSurfaceSelector;
    ClassInclude Qt3DRender QRenderTarget QRenderTarget;
    ClassInclude Qt3DRender QRenderTargetOutput QRenderTargetOutput;
    ClassInclude Qt3DRender QRenderTargetSelector QRenderTargetSelector;
    ClassInclude Qt3DRender QSceneLoader QSceneLoader;
    ClassInclude Qt3DRender QScissorTest QScissorTest;
    ClassInclude Qt3DRender QScreenRayCaster QScreenRayCaster;
    ClassInclude Qt3DRender QSetFence QSetFence;
    ClassInclude Qt3DRender QShaderImage QShaderImage;
    ClassInclude Qt3DRender QShaderProgram QShaderProgram;
    ClassInclude Qt3DRender QShaderProgramBuilder QShaderProgramBuilder;
    ClassInclude Qt3DRender QSharedGLTexture QSharedGLTexture;
    ClassInclude Qt3DRender QSortPolicy QSortPolicy;
    ClassInclude Qt3DRender QSpotLight QSpotLight;
    ClassInclude Qt3DRender QStencilMask QStencilMask;
    ClassInclude Qt3DRender QStencilOperation QStencilOperation;
    ClassInclude Qt3DRender QStencilOperationArguments QStencilOperationArguments;
    TypeInclude Qt3DCore QComponent TYPE_QT3DCORE_QCOMPONENT;
    TypeInclude Qt3DCore QEntity TYPE_QT3DCORE_QENTITY;
    TypeInclude Qt3DRender QAbstractTexture TYPE_QT3DRENDER_QABSTRACTTEXTURE;
    TypeInclude Qt3DRender QFilterKey TYPE_QT3DRENDER_QFILTERKEY;
    TypeInclude Qt3DRender QFrameGraphNode TYPE_QT3DRENDER_QFRAMEGRAPHNODE;
    TypeInclude Qt3DRender QParameter TYPE_QT3DRENDER_QPARAMETER;
    TypeInclude Qt3DRender QPickingSettings TYPE_QT3DRENDER_QPICKINGSETTINGS;
    TypeInclude Qt3DRender QRenderCapabilities TYPE_QT3DRENDER_QRENDERCAPABILITIES;
    TypeInclude Qt3DRender QRenderCaptureReply TYPE_QT3DRENDER_QRENDERCAPTUREREPLY;
    TypeInclude Qt3DRender QRenderState TYPE_QT3DRENDER_QRENDERSTATE;
    TypeInclude Qt3DRender QRenderTarget TYPE_QT3DRENDER_QRENDERTARGET;
    TypeInclude Qt3DRender QRenderTargetOutput TYPE_QT3DRENDER_QRENDERTARGETOUTPUT;
    TypeInclude Qt3DRender QShaderProgram TYPE_QT3DRENDER_QSHADERPROGRAM;
    TypeInclude Qt3DRender QStencilOperationArguments TYPE_QT3DRENDER_QSTENCILOPERATIONARGUMENTS;
    TypeInclude QtCore QObject TYPE_QTCORE_QOBJECT;
    TypeInclude Qt3DRender QAbstractTexture TYPE_QT3DRENDER_QABSTRACTTEXTURE;
    TypeInclude Qt3DRender QRenderCapabilities TYPE_QT3DRENDER_QRENDERCAPABILITIES;
    TypeInclude Qt3DRender QRenderSettings TYPE_QT3DRENDER_QRENDERSETTINGS;
    TypeInclude Qt3DRender QRenderTargetOutput TYPE_QT3DRENDER_QRENDERTARGETOUTPUT;
    TypeInclude Qt3DRender QSceneLoader TYPE_QT3DRENDER_QSCENELOADER;
    TypeInclude Qt3DRender QSetFence TYPE_QT3DRENDER_QSETFENCE;
    TypeInclude Qt3DRender QShaderImage TYPE_QT3DRENDER_QSHADERIMAGE;
    TypeInclude Qt3DRender QShaderProgram TYPE_QT3DRENDER_QSHADERPROGRAM;
    TypeInclude Qt3DRender QSortPolicy TYPE_QT3DRENDER_QSORTPOLICY;
    TypeInclude Qt3DRender QStencilOperationArguments TYPE_QT3DRENDER_QSTENCILOPERATIONARGUMENTS;
    TypeInclude QtCore QByteArray VALUE_TYPE_QTCORE_QBYTEARRAY;
    TypeInclude QtCore QPoint VALUE_TYPE_QTCORE_QPOINT;
    TypeInclude QtCore QRect VALUE_TYPE_QTCORE_QRECT
  ].

Definition methods_qt3drender_2_i1 : list include :=
  [
    TypeInclude QtCore QSize VALUE_TYPE_QTCORE_QSIZE;
    TypeInclude QtCore QUrl VALUE_TYPE_QTCORE_QURL;
    TypeInclude QtGui QImage VALUE_TYPE_QTGUI_QIMAGE;
    TypeInclude QtGui QVector3D VALUE_TYPE_QTGUI_QVECTOR3D
  ].

Definition methods_qt3drender_2_s0 : list signature_row :=
  [
    Sig [TYPE_QT3DRENDER_QSHADERIMAGE] "access" [] (RMeta Qt3DRender_QShaderImage_Access) [On QShaderImage];
    Sig [TYPE_QT3DRENDER_QFRAMEGRAPHNODE] "activeFrameGraph" [] RObject [On QRenderSettings];
    Sig [TYPE_QT3DRENDER_QSTENCILOPERATIONARGUMENTS] "allTestsPassOperation" [] (RMeta
        Qt3DRender_QStencilOperationArguments_Operation) [On QStencilOperationArguments];
    Sig [TYPE_QT3DRENDER_QRENDERCAPABILITIES] "api" [] (RMeta Qt3DRender_QRenderCapabilities_API) [On
        QRenderCapabilities];
    Sig [TYPE_QT3DRENDER_QRENDERTARGETOUTPUT] "attachmentPoint" [] (RMeta
        Qt3DRender_QRenderTargetOutput_AttachmentPoint) [On QRenderTargetOutput];
    Sig [TYPE_QT3DRENDER_QSTENCILOPERATIONARGUMENTS] "back" [] RObject [On QStencilOperation];
    Sig [] "backOutputMask" [] RDouble [On QStencilMask];
    Sig [] "bottom" [] RDouble [On QScissorTest];
    Sig [TYPE_QT3DCORE_QCOMPONENT; TYPE_QT3DRENDER_QSCENELOADER] "component" [PString true; PValue
        Qt3DRender_QSceneLoader_ComponentType] RObject [On QSceneLoader];
    Sig [VALUE_TYPE_QTCORE_QBYTEARRAY] "computeShaderCode" [] (RValue QByteArray) [On QShaderProgram; On
        QShaderProgramBuilder]
  ].

Definition methods_qt3drender_2_s10 : list signature_row :=
  [
    Sig [VALUE_TYPE_QTCORE_QURL] "computeShaderGraph" [] (RValue QUrl) [On QShaderProgramBuilder];
    Sig [] "constantAttenuation" [] RDouble [On QSpotLight];
    Sig [] "cutOffAngle" [] RDouble [On QSpotLight];
    Sig [TYPE_QT3DRENDER_QSTENCILOPERATIONARGUMENTS] "depthTestFailureOperation" [] (RMeta
        Qt3DRender_QStencilOperationArguments_Operation) [On QStencilOperationArguments];
    Sig [] "driverVersion" [] RString [On QRenderCapabilities];
    Sig [] "enabledLayers" [] (RList (IMeta QString)) [On QShaderProgramBuilder];
    Sig [TYPE_QT3DCORE_QENTITY] "entity" [PString true] RObject [On QSceneLoader];
    Sig [] "entityNames" [] (RList (IMeta QString)) [On QSceneLoader];
    Sig [] "extensions" [] (RList (IMeta QString)) [On QRenderCapabilities];
    Sig [VALUE_TYPE_QTCORE_QSIZE] "externalRenderTargetSize" [] (RValue QSize) [On QRenderSurfaceSelector];
    Sig [TYPE_QT3DRENDER_QABSTRACTTEXTURE] "face" [] (RMeta Qt3DRender_QAbstractTexture_CubeMapFace) [On
        QRenderTargetOutput]
  ].

Definition methods_qt3drender_2_s21 : list signature_row :=
  [
    Sig [TYPE_QT3DRENDER_QSTENCILOPERATIONARGUMENTS] "faceMode" [] (RMeta
        Qt3DRender_QStencilOperationArguments_FaceMode) [On QStencilOperationArguments];
    Sig [TYPE_QT3DRENDER_QFILTERKEY] "filterKeys" [] (RList (IObject QObject)) [On QRenderPass];
    Sig [TYPE_QT3DRENDER_QSHADERIMAGE] "format" [] (RMeta Qt3DRender_QShaderImage_ImageFormat) [On
        QShaderImage];
    Sig [TYPE_QT3DRENDER_QSHADERPROGRAM] "format" [] (RMeta Qt3DRender_QShaderProgram_Format) [On
        QShaderProgram];
    Sig [VALUE_TYPE_QTCORE_QBYTEARRAY] "fragmentShaderCode" [] (RValue QByteArray) [On QShaderProgram; On
        QShaderProgramBuilder];
    Sig [VALUE_TYPE_QTCORE_QURL] "fragmentShaderGraph" [] (RValue QUrl) [On QShaderProgramBuilder];
    Sig [TYPE_QT3DRENDER_QSTENCILOPERATIONARGUMENTS] "front" [] RObject [On QStencilOperation];
    Sig [] "frontOutputMask" [] RDouble [On QStencilMask];
    Sig [VALUE_TYPE_QTCORE_QBYTEARRAY] "geometryShaderCode" [] (RValue QByteArray) [On QShaderProgram; On
        QShaderProgramBuilder];
    Sig [VALUE_TYPE_QTCORE_QURL] "geometryShaderGraph" [] (RValue QUrl) [On QShaderProgramBuilder]
  ].

Definition methods_qt3drender_2_s31 : list signature_row :=
  [
    Sig [] "glslVersion" [] RString [On QRenderCapabilities];
    Sig [] "handle" [] RVariant [On QSetFence];
    Sig [TYPE_QT3DRENDER_QSETFENCE] "handleType" [] (RMeta Qt3DRender_QSetFence_HandleType) [On QSetFence];
    Sig [] "height" [] RDouble [On QScissorTest];
    Sig [VALUE_TYPE_QTGUI_QIMAGE] "image" [] (RValue QImage) [On QRenderCaptureReply];
    Sig [] "isComplete" [] RBool [On QRenderCaptureReply];
    Sig [] "isValid" [] RBool [On QRenderCapabilities];
    Sig [] "layer" [] RDouble [On QRenderTargetOutput; On QShaderImage];
    Sig [] "layered" [] RBool [On QShaderImage];
    Sig [] "left" [] RDouble [On QScissorTest];
    Sig [] "linearAttenuation" [] RDouble [On QSpotLight]
  ].

Definition methods_qt3drender_2_s42 : list signature_row :=
  [
    Sig [VALUE_TYPE_QTCORE_QBYTEARRAY; VALUE_TYPE_QTCORE_QURL] "loadSource" [PValue QUrl] (RValue
        QByteArray) [Static QShaderProgram];
    Sig [VALUE_TYPE_QTGUI_QVECTOR3D] "localDirection" [] (RValue QVector3D) [On QSpotLight];
    Sig [] "log" [] RString [On QShaderProgram];
    Sig [] "majorVersion" [] RDouble [On QRenderCapabilities];
    Sig [TYPE_QT3DRENDER_QFILTERKEY] "matchAny" [] (RList (IObject QObject)) [On QRenderPassFilter];
    Sig [] "maxComputeInvocations" [] RDouble [On QRenderCapabilities];
    Sig [] "maxComputeSharedMemorySize" [] RDouble [On QRenderCapabilities];
    Sig [] "maxImageUnits" [] RDouble [On QRenderCapabilities];
    Sig [] "maxSSBOBindings" [] RDouble [On QRenderCapabilities];
    Sig [] "maxSSBOSize" [] RDouble [On QRenderCapabilities];
    Sig [] "maxSamples" [] RDouble [On QRenderCapabilities];
    Sig [] "maxTextureLayers" [] RDouble [On QRenderCapabilities]
  ].

Definition methods_qt3drender_2_s54 : list signature_row :=
  [
    Sig [] "maxTextureSize" [] RDouble [On QRenderCapabilities];
    Sig [] "maxTextureUnits" [] RDouble [On QRenderCapabilities];
    Sig [] "maxUBOBindings" [] RDouble [On QRenderCapabilities];
    Sig [] "maxUBOSize" [] RDouble [On QRenderCapabilities];
    Sig [] "maxWorkGroupCountX" [] RDouble [On QRenderCapabilities];
    Sig [] "maxWorkGroupCountY" [] RDouble [On QRenderCapabilities];
    Sig [] "maxWorkGroupCountZ" [] RDouble [On QRenderCapabilities];
    Sig [] "maxWorkGroupSizeX" [] RDouble [On QRenderCapabilities];
    Sig [] "maxWorkGroupSizeY" [] RDouble [On QRenderCapabilities];
    Sig [] "maxWorkGroupSizeZ" [] RDouble [On QRenderCapabilities];
    Sig [] "minorVersion" [] RDouble [On QRenderCapabilities];
    Sig [] "mipLevel" [] RDouble [On QRenderTargetOutput; On QShaderImage]
  ].

Definition methods_qt3drender_2_s66 : list signature_row :=
  [
    Sig [TYPE_QT3DRENDER_QRENDERTARGETOUTPUT] "outputs" [] (RList (IObject QObject)) [On QRenderTarget];
    Sig [TYPE_QT3DRENDER_QPARAMETER] "parameters" [] (RList (IObject QObject)) [On QRenderPass; On
        QRenderPassFilter];
    Sig [TYPE_QT3DRENDER_QPICKINGSETTINGS] "pickingSettings" [] RObject [On QRenderSettings];
    Sig [VALUE_TYPE_QTCORE_QPOINT] "position" [] (RValue QPoint) [On QScreenRayCaster];
    Sig [TYPE_QT3DRENDER_QRENDERCAPABILITIES] "profile" [] (RMeta Qt3DRender_QRenderCapabilities_Profile)
        [On QRenderCapabilities];
    Sig [] "quadraticAttenuation" [] RDouble [On QSpotLight];
    Sig [TYPE_QT3DRENDER_QFILTERKEY] "removeFilterKey" [PObject Qt3DRender_QFilterKey false] RVoid [On
        QRenderPass];
    Sig [TYPE_QT3DRENDER_QFILTERKEY] "removeMatch" [PObject Qt3DRender_QFilterKey false] RVoid [On
        QRenderPassFilter];
    Sig [TYPE_QT3DRENDER_QRENDERTARGETOUTPUT] "removeOutput" [PObject Qt3DRender_QRenderTargetOutput false]
        RVoid [On QRenderTarget]
  ].

Definition methods_qt3drender_2_s75 : list signature_row :=
  [
    Sig [TYPE_QT3DRENDER_QPARAMETER] "removeParameter" [PObject Qt3DRender_QParameter false] RVoid [On
        QRenderPass; On QRenderPassFilter];
    Sig [TYPE_QT3DRENDER_QRENDERSTATE] "removeRenderState" [PObject Qt3DRender_QRenderState false] RVoid
        [On QRenderPass; On QRenderStateSet];
    Sig [TYPE_QT3DRENDER_QRENDERCAPABILITIES] "renderCapabilities" [] RObject [On QRenderSettings];
    Sig [TYPE_QT3DRENDER_QRENDERSETTINGS] "renderPolicy" [] (RMeta Qt3DRender_QRenderSettings_RenderPolicy)
        [On QRenderSettings];
    Sig [TYPE_QT3DRENDER_QRENDERSTATE] "renderStates" [] (RList (IObject QObject)) [On QRenderPass; On
        QRenderStateSet];
    Sig [] "renderer" [] RString [On QRenderCapabilities];
    Sig [TYPE_QT3DRENDER_QRENDERCAPTUREREPLY] "requestCapture" [] RObject [On QRenderCapture];
    Sig [TYPE_QT3DRENDER_QRENDERCAPTUREREPLY; VALUE_TYPE_QTCORE_QRECT] "requestCapture" [PValue QRect]
        RObject [On QRenderCapture];
    Sig [TYPE_QT3DRENDER_QRENDERCAPTUREREPLY] "requestCapture" [PInt] RObject [On QRenderCapture]
  ].

Definition methods_qt3drender_2_s84 : list signature_row :=
  [
    Sig [] "saveImage" [PString true] RBool [On QRenderCaptureReply];
    Sig [TYPE_QT3DRENDER_QSHADERIMAGE] "setAccess" [PValue Qt3DRender_QShaderImage_Access] RVoid [On
        QShaderImage];
    Sig [TYPE_QT3DRENDER_QFRAMEGRAPHNODE] "setActiveFrameGraph" [PObject Qt3DRender_QFrameGraphNode false]
        RVoid [On QRenderSettings];
    Sig [TYPE_QT3DRENDER_QSTENCILOPERATIONARGUMENTS] "setAllTestsPassOperation" [PValue
        Qt3DRender_QStencilOperationArguments_Operation] RVoid [On QStencilOperationArguments];
    Sig [TYPE_QT3DRENDER_QRENDERTARGETOUTPUT] "setAttachmentPoint" [PValue
        Qt3DRender_QRenderTargetOutput_AttachmentPoint] RVoid [On QRenderTargetOutput];
    Sig [] "setBackOutputMask" [PUInt] RVoid [On QStencilMask];
    Sig [] "setBottom" [PInt] RVoid [On QScissorTest];
    Sig [VALUE_TYPE_QTCORE_QBYTEARRAY] "setComputeShaderCode" [PValue QByteArray] RVoid [On QShaderProgram];
    Sig [VALUE_TYPE_QTCORE_QURL] "setComputeShaderGraph" [PValue QUrl] RVoid [On QShaderProgramBuilder];
    Sig [] "setConstantAttenuation" [PNumber cxx_float] RVoid [On QSpotLight]
  ].

Definition methods_qt3drender_2_s94 : list signature_row :=
  [
    Sig [] "setCutOffAngle" [PNumber cxx_float] RVoid [On QSpotLight];
    Sig [TYPE_QT3DRENDER_QSTENCILOPERATIONARGUMENTS] "setDepthTestFailureOperation" [PValue
        Qt3DRender_QStencilOperationArguments_Operation] RVoid [On QStencilOperationArguments];
    Sig [] "setEnabledLayers" [PStringList] RVoid [On QShaderProgramBuilder];
    Sig [VALUE_TYPE_QTCORE_QSIZE] "setExternalRenderTargetSize" [PValue QSize] RVoid [On
        QRenderSurfaceSelector];
    Sig [TYPE_QT3DRENDER_QABSTRACTTEXTURE] "setFace" [PValue Qt3DRender_QAbstractTexture_CubeMapFace] RVoid
        [On QRenderTargetOutput];
    Sig [TYPE_QT3DRENDER_QSHADERIMAGE] "setFormat" [PValue Qt3DRender_QShaderImage_ImageFormat] RVoid [On
        QShaderImage];
    Sig [TYPE_QT3DRENDER_QSHADERPROGRAM] "setFormat" [PValue Qt3DRender_QShaderProgram_Format] RVoid [On
        QShaderProgram];
    Sig [VALUE_TYPE_QTCORE_QBYTEARRAY] "setFragmentShaderCode" [PValue QByteArray] RVoid [On
        QShaderProgram];
    Sig [VALUE_TYPE_QTCORE_QURL] "setFragmentShaderGraph" [PValue QUrl] RVoid [On QShaderProgramBuilder]
  ].

Definition methods_qt3drender_2_s103 : list signature_row :=
  [
    Sig [] "setFrontOutputMask" [PUInt] RVoid [On QStencilMask];
    Sig [VALUE_TYPE_QTCORE_QBYTEARRAY] "setGeometryShaderCode" [PValue QByteArray] RVoid [On
        QShaderProgram];
    Sig [VALUE_TYPE_QTCORE_QURL] "setGeometryShaderGraph" [PValue QUrl] RVoid [On QShaderProgramBuilder];
    Sig [] "setHeight" [PInt] RVoid [On QScissorTest];
    Sig [] "setLayer" [PInt] RVoid [On QRenderTargetOutput; On QShaderImage];
    Sig [] "setLayered" [PBool] RVoid [On QShaderImage];
    Sig [] "setLeft" [PInt] RVoid [On QScissorTest];
    Sig [] "setLinearAttenuation" [PNumber cxx_float] RVoid [On QSpotLight];
    Sig [VALUE_TYPE_QTGUI_QVECTOR3D] "setLocalDirection" [PValue QVector3D] RVoid [On QSpotLight]
  ].

Definition methods_qt3drender_2_s112 : list signature_row :=
  [
    Sig [] "setMipLevel" [PInt] RVoid [On QRenderTargetOutput; On QShaderImage];
    Sig [VALUE_TYPE_QTCORE_QPOINT] "setPosition" [PValue QPoint] RVoid [On QScreenRayCaster];
    Sig [] "setQuadraticAttenuation" [PNumber cxx_float] RVoid [On QSpotLight];
    Sig [TYPE_QT3DRENDER_QRENDERSETTINGS] "setRenderPolicy" [PValue
        Qt3DRender_QRenderSettings_RenderPolicy] RVoid [On QRenderSettings];
    Sig [TYPE_QT3DRENDER_QSHADERPROGRAM; VALUE_TYPE_QTCORE_QBYTEARRAY] "setShaderCode" [PValue
        Qt3DRender_QShaderProgram_ShaderType; PValue QByteArray] RVoid [On QShaderProgram];
    Sig [TYPE_QT3DRENDER_QSHADERPROGRAM] "setShaderProgram" [PObject Qt3DRender_QShaderProgram false] RVoid
        [On QRenderPass; On QShaderProgramBuilder];
    Sig [TYPE_QT3DRENDER_QSORTPOLICY] "setSortTypes" [PList (IValue Qt3DRender_QSortPolicy_SortType)] RVoid
        [On QSortPolicy];
    Sig [] "setSortTypes" [PList (IMeta cxx_int)] RVoid [On QSortPolicy]
  ].

Definition methods_qt3drender_2_s120 : list signature_row :=
  [
    Sig [VALUE_TYPE_QTCORE_QURL] "setSource" [PValue QUrl] RVoid [On QSceneLoader];
    Sig [TYPE_QT3DRENDER_QSTENCILOPERATIONARGUMENTS] "setStencilTestFailureOperation" [PValue
        Qt3DRender_QStencilOperationArguments_Operation] RVoid [On QStencilOperationArguments];
    Sig [TYPE_QTCORE_QOBJECT] "setSurface" [PObject QObject false] RVoid [On QRenderSurfaceSelector];
    Sig [] "setSurfacePixelRatio" [PNumber cxx_float] RVoid [On QRenderSurfaceSelector];
    Sig [TYPE_QT3DRENDER_QRENDERTARGET] "setTarget" [PObject Qt3DRender_QRenderTarget false] RVoid [On
        QRenderTargetSelector];
    Sig [VALUE_TYPE_QTCORE_QBYTEARRAY] "setTessellationControlShaderCode" [PValue QByteArray] RVoid [On
        QShaderProgram];
    Sig [VALUE_TYPE_QTCORE_QURL] "setTessellationControlShaderGraph" [PValue QUrl] RVoid [On
        QShaderProgramBuilder];
    Sig [VALUE_TYPE_QTCORE_QBYTEARRAY] "setTessellationEvaluationShaderCode" [PValue QByteArray] RVoid [On
        QShaderProgram];
    Sig [VALUE_TYPE_QTCORE_QURL] "setTessellationEvaluationShaderGraph" [PValue QUrl] RVoid [On
        QShaderProgramBuilder]
  ].

Definition methods_qt3drender_2_s129 : list signature_row :=
  [
    Sig [TYPE_QT3DRENDER_QABSTRACTTEXTURE] "setTexture" [PObject Qt3DRender_QAbstractTexture false] RVoid
        [On QRenderTargetOutput; On QShaderImage];
    Sig [] "setTextureId" [PInt] RVoid [On QSharedGLTexture];
    Sig [VALUE_TYPE_QTCORE_QBYTEARRAY] "setVertexShaderCode" [PValue QByteArray] RVoid [On QShaderProgram];
    Sig [VALUE_TYPE_QTCORE_QURL] "setVertexShaderGraph" [PValue QUrl] RVoid [On QShaderProgramBuilder];
    Sig [] "setWidth" [PInt] RVoid [On QScissorTest];
    Sig [TYPE_QT3DRENDER_QSHADERPROGRAM; VALUE_TYPE_QTCORE_QBYTEARRAY] "shaderCode" [PValue
        Qt3DRender_QShaderProgram_ShaderType] (RValue QByteArray) [On QShaderProgram];
    Sig [TYPE_QT3DRENDER_QSHADERPROGRAM] "shaderProgram" [] RObject [On QRenderPass; On
        QShaderProgramBuilder];
    Sig [TYPE_QT3DRENDER_QSORTPOLICY] "sortTypes" [] (RList (IMeta Qt3DRender_QSortPolicy_SortType)) [On
        QSortPolicy];
    Sig [] "sortTypesInt" [] (RList (IMeta cxx_int)) [On QSortPolicy]
  ].

Definition methods_qt3drender_2_s138 : list signature_row :=
  [
    Sig [VALUE_TYPE_QTCORE_QURL] "source" [] (RValue QUrl) [On QSceneLoader];
    Sig [TYPE_QT3DRENDER_QSCENELOADER] "status" [] (RMeta Qt3DRender_QSceneLoader_Status) [On QSceneLoader];
    Sig [TYPE_QT3DRENDER_QSHADERPROGRAM] "status" [] (RMeta Qt3DRender_QShaderProgram_Status) [On
        QShaderProgram];
    Sig [TYPE_QT3DRENDER_QSTENCILOPERATIONARGUMENTS] "stencilTestFailureOperation" [] (RMeta
        Qt3DRender_QStencilOperationArguments_Operation) [On QStencilOperationArguments];
    Sig [] "supportsCompute" [] RBool [On QRenderCapabilities];
    Sig [] "supportsImageStore" [] RBool [On QRenderCapabilities];
    Sig [] "supportsSSBO" [] RBool [On QRenderCapabilities];
    Sig [] "supportsUBO" [] RBool [On QRenderCapabilities];
    Sig [TYPE_QTCORE_QOBJECT] "surface" [] RObject [On QRenderSurfaceSelector];
    Sig [] "surfacePixelRatio" [] RDouble [On QRenderSurfaceSelector];
    Sig [TYPE_QT3DRENDER_QRENDERTARGET] "target" [] RObject [On QRenderTargetSelector]
  ].

Definition methods_qt3drender_2_s149 : list signature_row :=
  [
    Sig [VALUE_TYPE_QTCORE_QBYTEARRAY] "tessellationControlShaderCode" [] (RValue QByteArray) [On
        QShaderProgram; On QShaderProgramBuilder];
    Sig [VALUE_TYPE_QTCORE_QURL] "tessellationControlShaderGraph" [] (RValue QUrl) [On
        QShaderProgramBuilder];
    Sig [VALUE_TYPE_QTCORE_QBYTEARRAY] "tessellationEvaluationShaderCode" [] (RValue QByteArray) [On
        QShaderProgram; On QShaderProgramBuilder];
    Sig [VALUE_TYPE_QTCORE_QURL] "tessellationEvaluationShaderGraph" [] (RValue QUrl) [On
        QShaderProgramBuilder];
    Sig [TYPE_QT3DRENDER_QABSTRACTTEXTURE] "texture" [] RObject [On QRenderTargetOutput; On QShaderImage];
    Sig [] "textureId" [] RDouble [On QSharedGLTexture];
    Sig [] "trigger" [] RVoid [On QScreenRayCaster];
    Sig [VALUE_TYPE_QTCORE_QPOINT] "trigger" [PValue QPoint] RVoid [On QScreenRayCaster];
    Sig [] "vendor" [] RString [On QRenderCapabilities]
  ].

Definition methods_qt3drender_2_s158 : list signature_row :=
  [
    Sig [VALUE_TYPE_QTCORE_QBYTEARRAY] "vertexShaderCode" [] (RValue QByteArray) [On QShaderProgram; On
        QShaderProgramBuilder];
    Sig [VALUE_TYPE_QTCORE_QURL] "vertexShaderGraph" [] (RValue QUrl) [On QShaderProgramBuilder];
    Sig [] "width" [] RDouble [On QScissorTest]
  ].

Definition methods_qt3drender_2 : method_shard :=
  MethodShard Qt3DRender "KRY_QT6_NATIVE_METHODS_QT3DRENDER_"
    (methods_qt3drender_2_i0 ++ methods_qt3drender_2_i1)
    (methods_qt3drender_2_s0 ++ methods_qt3drender_2_s10 ++ methods_qt3drender_2_s21 ++
        methods_qt3drender_2_s31 ++ methods_qt3drender_2_s42 ++ methods_qt3drender_2_s54 ++
        methods_qt3drender_2_s66 ++ methods_qt3drender_2_s75 ++ methods_qt3drender_2_s84 ++
        methods_qt3drender_2_s94 ++ methods_qt3drender_2_s103 ++ methods_qt3drender_2_s112 ++
        methods_qt3drender_2_s120 ++ methods_qt3drender_2_s129 ++ methods_qt3drender_2_s138 ++
        methods_qt3drender_2_s149 ++ methods_qt3drender_2_s158)
    [].

Definition methods_qt3drender_3_i0 : list include :=
  [
    ClassInclude Qt3DRender QStencilTest QStencilTest;
    ClassInclude Qt3DRender QStencilTestArguments QStencilTestArguments;
    ClassInclude Qt3DRender QSubtreeEnabler QSubtreeEnabler;
    ClassInclude Qt3DRender QTechnique QTechnique;
    ClassInclude Qt3DRender QTechniqueFilter QTechniqueFilter;
    ClassInclude Qt3DRender QTextureImage QTextureImage;
    ClassInclude Qt3DRender QTextureLoader QTextureLoader;
    ClassInclude Qt3DRender QTextureWrapMode QTextureWrapMode;
    ClassInclude Qt3DRender QViewport QViewport;
    ClassInclude Qt3DRender QWaitFence QWaitFence;
    TypeInclude Qt3DRender QFilterKey TYPE_QT3DRENDER_QFILTERKEY;
    TypeInclude Qt3DRender QGraphicsApiFilter TYPE_QT3DRENDER_QGRAPHICSAPIFILTER;
    TypeInclude Qt3DRender QParameter TYPE_QT3DRENDER_QPARAMETER;
    TypeInclude Qt3DRender QRenderPass TYPE_QT3DRENDER_QRENDERPASS;
    TypeInclude Qt3DRender QStencilTestArguments TYPE_QT3DRENDER_QSTENCILTESTARGUMENTS;
    TypeInclude Qt3DRender QStencilTestArguments TYPE_QT3DRENDER_QSTENCILTESTARGUMENTS;
    TypeInclude Qt3DRender QSubtreeEnabler TYPE_QT3DRENDER_QSUBTREEENABLER;
    TypeInclude Qt3DRender QTextureImage TYPE_QT3DRENDER_QTEXTUREIMAGE;
    TypeInclude Qt3DRender QTextureWrapMode TYPE_QT3DRENDER_QTEXTUREWRAPMODE;
    TypeInclude Qt3DRender QWaitFence TYPE_QT3DRENDER_QWAITFENCE;
    TypeInclude QtCore QRectF VALUE_TYPE_QTCORE_QRECTF;
    TypeInclude QtCore QUrl VALUE_TYPE_QTCORE_QURL
  ].

Definition methods_qt3drender_3_s0 : list signature_row :=
  [
    Sig [TYPE_QT3DRENDER_QSTENCILTESTARGUMENTS] "back" [] RObject [On QStencilTest];
    Sig [] "comparisonMask" [] RDouble [On QStencilTestArguments];
    Sig [TYPE_QT3DRENDER_QSUBTREEENABLER] "enablement" [] (RMeta Qt3DRender_QSubtreeEnabler_Enablement) [On
        QSubtreeEnabler];
    Sig [TYPE_QT3DRENDER_QSTENCILTESTARGUMENTS] "faceMode" [] (RMeta
        Qt3DRender_QStencilTestArguments_StencilFaceMode) [On QStencilTestArguments];
    Sig [TYPE_QT3DRENDER_QFILTERKEY] "filterKeys" [] (RList (IObject QObject)) [On QTechnique];
    Sig [TYPE_QT3DRENDER_QSTENCILTESTARGUMENTS] "front" [] RObject [On QStencilTest];
    Sig [] "gamma" [] RDouble [On QViewport];
    Sig [TYPE_QT3DRENDER_QGRAPHICSAPIFILTER] "graphicsApiFilter" [] RObject [On QTechnique];
    Sig [] "handle" [] RVariant [On QWaitFence];
    Sig [TYPE_QT3DRENDER_QWAITFENCE] "handleType" [] (RMeta Qt3DRender_QWaitFence_HandleType) [On
        QWaitFence];
    Sig [] "isMirrored" [] RBool [On QTextureImage; On QTextureLoader]
  ].

Definition methods_qt3drender_3_s11 : list signature_row :=
  [
    Sig [TYPE_QT3DRENDER_QFILTERKEY] "matchAll" [] (RList (IObject QObject)) [On QTechniqueFilter];
    Sig [VALUE_TYPE_QTCORE_QRECTF] "normalizedRect" [] (RValue QRectF) [On QViewport];
    Sig [TYPE_QT3DRENDER_QPARAMETER] "parameters" [] (RList (IObject QObject)) [On QTechnique; On
        QTechniqueFilter];
    Sig [] "referenceValue" [] RDouble [On QStencilTestArguments];
    Sig [TYPE_QT3DRENDER_QFILTERKEY] "removeFilterKey" [PObject Qt3DRender_QFilterKey false] RVoid [On
        QTechnique];
    Sig [TYPE_QT3DRENDER_QFILTERKEY] "removeMatch" [PObject Qt3DRender_QFilterKey false] RVoid [On
        QTechniqueFilter];
    Sig [TYPE_QT3DRENDER_QPARAMETER] "removeParameter" [PObject Qt3DRender_QParameter false] RVoid [On
        QTechnique; On QTechniqueFilter];
    Sig [TYPE_QT3DRENDER_QRENDERPASS] "removeRenderPass" [PObject Qt3DRender_QRenderPass false] RVoid [On
        QTechnique]
  ].

Definition methods_qt3drender_3_s19 : list signature_row :=
  [
    Sig [TYPE_QT3DRENDER_QRENDERPASS] "renderPasses" [] (RList (IObject QObject)) [On QTechnique];
    Sig [] "requestUpdate" [] RVoid [On QSubtreeEnabler];
    Sig [] "setComparisonMask" [PUInt] RVoid [On QStencilTestArguments];
    Sig [TYPE_QT3DRENDER_QSUBTREEENABLER] "setEnablement" [PValue Qt3DRender_QSubtreeEnabler_Enablement]
        RVoid [On QSubtreeEnabler];
    Sig [] "setGamma" [PNumber cxx_float] RVoid [On QViewport];
    Sig [] "setHandle" [PVariant] RVoid [On QWaitFence];
    Sig [TYPE_QT3DRENDER_QWAITFENCE] "setHandleType" [PValue Qt3DRender_QWaitFence_HandleType] RVoid [On
        QWaitFence];
    Sig [] "setMirrored" [PBool] RVoid [On QTextureImage; On QTextureLoader];
    Sig [VALUE_TYPE_QTCORE_QRECTF] "setNormalizedRect" [PValue QRectF] RVoid [On QViewport];
    Sig [] "setReferenceValue" [PInt] RVoid [On QStencilTestArguments]
  ].

Definition methods_qt3drender_3_s29 : list signature_row :=
  [
    Sig [VALUE_TYPE_QTCORE_QURL] "setSource" [PValue QUrl] RVoid [On QTextureImage; On QTextureLoader];
    Sig [TYPE_QT3DRENDER_QSTENCILTESTARGUMENTS] "setStencilFunction" [PValue
        Qt3DRender_QStencilTestArguments_StencilFunction] RVoid [On QStencilTestArguments];
    Sig [] "setTimeout" [PMeta cxx_quint64] RVoid [On QWaitFence];
    Sig [] "setWaitOnCPU" [PBool] RVoid [On QWaitFence];
    Sig [TYPE_QT3DRENDER_QTEXTUREWRAPMODE] "setX" [PValue Qt3DRender_QTextureWrapMode_WrapMode] RVoid [On
        QTextureWrapMode];
    Sig [TYPE_QT3DRENDER_QTEXTUREWRAPMODE] "setY" [PValue Qt3DRender_QTextureWrapMode_WrapMode] RVoid [On
        QTextureWrapMode];
    Sig [TYPE_QT3DRENDER_QTEXTUREWRAPMODE] "setZ" [PValue Qt3DRender_QTextureWrapMode_WrapMode] RVoid [On
        QTextureWrapMode];
    Sig [VALUE_TYPE_QTCORE_QURL] "source" [] (RValue QUrl) [On QTextureImage; On QTextureLoader];
    Sig [TYPE_QT3DRENDER_QTEXTUREIMAGE] "status" [] (RMeta Qt3DRender_QTextureImage_Status) [On
        QTextureImage]
  ].

Definition methods_qt3drender_3_s38 : list signature_row :=
  [
    Sig [TYPE_QT3DRENDER_QSTENCILTESTARGUMENTS] "stencilFunction" [] (RMeta
        Qt3DRender_QStencilTestArguments_StencilFunction) [On QStencilTestArguments];
    Sig [] "timeout" [] (RMeta cxx_quint64) [On QWaitFence];
    Sig [] "waitOnCPU" [] RBool [On QWaitFence];
    Sig [TYPE_QT3DRENDER_QTEXTUREWRAPMODE] "x" [] (RMeta Qt3DRender_QTextureWrapMode_WrapMode) [On
        QTextureWrapMode];
    Sig [TYPE_QT3DRENDER_QTEXTUREWRAPMODE] "y" [] (RMeta Qt3DRender_QTextureWrapMode_WrapMode) [On
        QTextureWrapMode];
    Sig [TYPE_QT3DRENDER_QTEXTUREWRAPMODE] "z" [] (RMeta Qt3DRender_QTextureWrapMode_WrapMode) [On
        QTextureWrapMode]
  ].

Definition methods_qt3drender_3 : method_shard :=
  MethodShard Qt3DRender "KRY_QT6_NATIVE_METHODS_QT3DRENDER_"
    (methods_qt3drender_3_i0)
    (methods_qt3drender_3_s0 ++ methods_qt3drender_3_s11 ++ methods_qt3drender_3_s19 ++
        methods_qt3drender_3_s29 ++ methods_qt3drender_3_s38)
    [].
