(* ===== verification/MethodsNetwork.v ===== *)
(** Rows of the shards of generated_methods: qtbluetooth_0, qtdbus_0, qtnetwork_0,
    qtnetworkauth_0, qtnfc_0, qtpositioning_0, qtremoteobjects_0, qtsensors_0, qtsensors_1,
    qtserialport_0, qtwebchannel_0, qtwebenginecore_0, qtwebenginequick_0, qtwebenginewidgets_0,
    qtwebsockets_0. *)
From S2P Require Import Names.

(** * Definitions *)

Definition methods_qtbluetooth_0_i0 : list include :=
  [
    ClassInclude QtBluetooth QBluetoothDeviceDiscoveryAgent QBluetoothDeviceDiscoveryAgent;
    ClassInclude QtBluetooth QBluetoothLocalDevice QBluetoothLocalDevice;
    ClassInclude QtBluetooth QBluetoothServer QBluetoothServer;
    ClassInclude QtBluetooth QBluetoothServiceDiscoveryAgent QBluetoothServiceDiscoveryAgent;
    ClassInclude QtBluetooth QBluetoothSocket QBluetoothSocket;
    ClassInclude QtBluetooth QBluetoothUuid QBluetoothUuid;
    ClassInclude QtBluetooth QLowEnergyController QLowEnergyController;
    ClassInclude QtBluetooth QLowEnergyService QLowEnergyService;
    TypeInclude QtBluetooth QBluetoothSocket TYPE_QTBLUETOOTH_QBLUETOOTHSOCKET;
    TypeInclude QtBluetooth QLowEnergyController TYPE_QTBLUETOOTH_QLOWENERGYCONTROLLER;
    TypeInclude QtBluetooth QLowEnergyService TYPE_QTBLUETOOTH_QLOWENERGYSERVICE;
    TypeInclude QtCore QObject TYPE_QTCORE_QOBJECT;
    TypeInclude QtBluetooth QBluetoothDeviceDiscoveryAgent TYPE_QTBLUETOOTH_QBLUETOOTHDEVICEDISCOVERYAGENT;
    TypeInclude QtBluetooth QBluetoothLocalDevice TYPE_QTBLUETOOTH_QBLUETOOTHLOCALDEVICE;
    TypeInclude QtBluetooth QBluetoothServer TYPE_QTBLUETOOTH_QBLUETOOTHSERVER;
    TypeInclude QtBluetooth QBluetoothServiceDiscoveryAgent
        TYPE_QTBLUETOOTH_QBLUETOOTHSERVICEDISCOVERYAGENT;
    TypeInclude QtBluetooth QBluetoothServiceInfo TYPE_QTBLUETOOTH_QBLUETOOTHSERVICEINFO;
    TypeInclude QtBluetooth QBluetoothSocket TYPE_QTBLUETOOTH_QBLUETOOTHSOCKET;
    TypeInclude QtBluetooth QBluetoothUuid TYPE_QTBLUETOOTH_QBLUETOOTHUUID;
    TypeInclude QtBluetooth QLowEnergyController TYPE_QTBLUETOOTH_QLOWENERGYCONTROLLER;
    TypeInclude QtBluetooth QLowEnergyService TYPE_QTBLUETOOTH_QLOWENERGYSERVICE;
    TypeInclude QtBluetooth QBluetoothAddress VALUE_TYPE_QTBLUETOOTH_QBLUETOOTHADDRESS;
    TypeInclude QtBluetooth QBluetoothDeviceInfo VALUE_TYPE_QTBLUETOOTH_QBLUETOOTHDEVICEINFO;
    TypeInclude QtBluetooth QBluetoothHostInfo VALUE_TYPE_QTBLUETOOTH_QBLUETOOTHHOSTINFO;
    TypeInclude QtBluetooth QBluetoothServiceInfo VALUE_TYPE_QTBLUETOOTH_QBLUETOOTHSERVICEINFO;
    TypeInclude QtBluetooth QBluetoothUuid VALUE_TYPE_QTBLUETOOTH_QBLUETOOTHUUID;
    TypeInclude QtBluetooth QLowEnergyAdvertisingData VALUE_TYPE_QTBLUETOOTH_QLOWENERGYADVERTISINGDATA;
    TypeInclude QtBluetooth QLowEnergyAdvertisingParameters
        VALUE_TYPE_QTBLUETOOTH_QLOWENERGYADVERTISINGPARAMETERS;
    TypeInclude QtBluetooth QLowEnergyCharacteristic VALUE_TYPE_QTBLUETOOTH_QLOWENERGYCHARACTERISTIC;
    TypeInclude QtBluetooth QLowEnergyConnectionParameters
        VALUE_TYPE_QTBLUETOOTH_QLOWENERGYCONNECTIONPARAMETERS;
    TypeInclude QtBluetooth QLowEnergyDescriptor VALUE_TYPE_QTBLUETOOTH_QLOWENERGYDESCRIPTOR;
    TypeInclude QtBluetooth QLowEnergyServiceData VALUE_TYPE_QTBLUETOOTH_QLOWENERGYSERVICEDATA;
    TypeInclude QtCore QByteArray VALUE_TYPE_QTCORE_QBYTEARRAY
  ].

Definition methods_qtbluetooth_0_s0 : list signature_row :=
  [
    Sig [] "abort" [] RVoid [On QBluetoothSocket];
    Sig [TYPE_QTBLUETOOTH_QLOWENERGYSERVICE; TYPE_QTCORE_QOBJECT;
        VALUE_TYPE_QTBLUETOOTH_QLOWENERGYSERVICEDATA] "addService" [PValue QLowEnergyServiceData; PObject
        QObject false] RObject [On QLowEnergyController];
    Sig [VALUE_TYPE_QTBLUETOOTH_QBLUETOOTHADDRESS] "address" [] (RValue QBluetoothAddress) [On
        QBluetoothLocalDevice];
    Sig [VALUE_TYPE_QTBLUETOOTH_QBLUETOOTHHOSTINFO] "allDevices" [] (RList (IValue QBluetoothHostInfo))
        [Static QBluetoothLocalDevice];
    Sig [] "bytesAvailable" [] (RMeta cxx_qint64) [On QBluetoothSocket];
    Sig [] "bytesToWrite" [] (RMeta cxx_qint64) [On QBluetoothSocket];
    Sig [] "canReadLine" [] RBool [On QBluetoothSocket];
    Sig [VALUE_TYPE_QTBLUETOOTH_QBLUETOOTHUUID; VALUE_TYPE_QTBLUETOOTH_QLOWENERGYCHARACTERISTIC]
        "characteristic" [PValue QBluetoothUuid] (RValue QLowEnergyCharacteristic) [On QLowEnergyService];
    Sig [TYPE_QTBLUETOOTH_QBLUETOOTHUUID] "characteristicToString" [PValue
        QBluetoothUuid_CharacteristicType] RString [Static QBluetoothUuid];
    Sig [VALUE_TYPE_QTBLUETOOTH_QLOWENERGYCHARACTERISTIC] "characteristics" [] (RList (IValue
        QLowEnergyCharacteristic)) [On QLowEnergyService]
  ].

Definition methods_qtbluetooth_0_s10 : list signature_row :=
  [
    Sig [] "clear" [] RVoid [On QBluetoothServiceDiscoveryAgent];
    Sig [] "close" [] RVoid [On QBluetoothServer; On QBluetoothSocket];
    Sig [] "connectToDevice" [] RVoid [On QLowEnergyController];
    Sig [VALUE_TYPE_QTBLUETOOTH_QBLUETOOTHADDRESS] "connectedDevices" [] (RList (IValue QBluetoothAddress))
        [On QBluetoothLocalDevice];
    Sig [VALUE_TYPE_QTBLUETOOTH_QLOWENERGYCHARACTERISTIC] "contains" [PValue QLowEnergyCharacteristic]
        RBool [On QLowEnergyService];
    Sig [VALUE_TYPE_QTBLUETOOTH_QLOWENERGYDESCRIPTOR] "contains" [PValue QLowEnergyDescriptor] RBool [On
        QLowEnergyService];
    Sig [TYPE_QTBLUETOOTH_QLOWENERGYCONTROLLER; TYPE_QTCORE_QOBJECT;
        VALUE_TYPE_QTBLUETOOTH_QBLUETOOTHADDRESS; VALUE_TYPE_QTBLUETOOTH_QBLUETOOTHDEVICEINFO]
        "createCentral" [PValue QBluetoothDeviceInfo; PValue QBluetoothAddress; PObject QObject false]
        RObject [Static QLowEnergyController];
    Sig [TYPE_QTBLUETOOTH_QLOWENERGYCONTROLLER; TYPE_QTCORE_QOBJECT;
        VALUE_TYPE_QTBLUETOOTH_QBLUETOOTHDEVICEINFO] "createCentral" [PValue QBluetoothDeviceInfo; PObject
        QObject false] RObject [Static QLowEnergyController];
    Sig [TYPE_QTBLUETOOTH_QLOWENERGYCONTROLLER; TYPE_QTCORE_QOBJECT;
        VALUE_TYPE_QTBLUETOOTH_QBLUETOOTHADDRESS] "createPeripheral" [PValue QBluetoothAddress; PObject
        QObject false] RObject [Static QLowEnergyController]
  ].

Definition methods_qtbluetooth_0_s19 : list signature_row :=
  [
    Sig [TYPE_QTBLUETOOTH_QLOWENERGYCONTROLLER; TYPE_QTCORE_QOBJECT] "createPeripheral" [PObject QObject
        false] RObject [Static QLowEnergyController];
    Sig [TYPE_QTBLUETOOTH_QLOWENERGYSERVICE; TYPE_QTCORE_QOBJECT; VALUE_TYPE_QTBLUETOOTH_QBLUETOOTHUUID]
        "createServiceObject" [PValue QBluetoothUuid; PObject QObject false] RObject [On
        QLowEnergyController];
    Sig [TYPE_QTBLUETOOTH_QBLUETOOTHUUID] "descriptorToString" [PValue QBluetoothUuid_DescriptorType]
        RString [Static QBluetoothUuid];
    Sig [] "disconnectFromDevice" [] RVoid [On QLowEnergyController];
    Sig [] "disconnectFromService" [] RVoid [On QBluetoothSocket];
    Sig [TYPE_QTBLUETOOTH_QLOWENERGYSERVICE] "discoverDetails" [PValue QLowEnergyService_DiscoveryMode]
        RVoid [On QLowEnergyService];
    Sig [] "discoverServices" [] RVoid [On QLowEnergyController];
    Sig [VALUE_TYPE_QTBLUETOOTH_QBLUETOOTHDEVICEINFO] "discoveredDevices" [] (RList (IValue
        QBluetoothDeviceInfo)) [On QBluetoothDeviceDiscoveryAgent];
    Sig [VALUE_TYPE_QTBLUETOOTH_QBLUETOOTHSERVICEINFO] "discoveredServices" [] (RList (IValue
        QBluetoothServiceInfo)) [On QBluetoothServiceDiscoveryAgent];
    Sig [TYPE_QTBLUETOOTH_QBLUETOOTHDEVICEDISCOVERYAGENT] "error" [] (RMeta
        QBluetoothDeviceDiscoveryAgent_Error) [On QBluetoothDeviceDiscoveryAgent]
  ].

Definition methods_qtbluetooth_0_s29 : list signature_row :=
  [
    Sig [TYPE_QTBLUETOOTH_QBLUETOOTHSERVER] "error" [] (RMeta QBluetoothServer_Error) [On QBluetoothServer];
    Sig [TYPE_QTBLUETOOTH_QBLUETOOTHSERVICEDISCOVERYAGENT] "error" [] (RMeta
        QBluetoothServiceDiscoveryAgent_Error) [On QBluetoothServiceDiscoveryAgent];
    Sig [TYPE_QTBLUETOOTH_QBLUETOOTHSOCKET] "error" [] (RMeta QBluetoothSocket_SocketError) [On
        QBluetoothSocket];
    Sig [TYPE_QTBLUETOOTH_QLOWENERGYCONTROLLER] "error" [] (RMeta QLowEnergyController_Error) [On
        QLowEnergyController];
    Sig [TYPE_QTBLUETOOTH_QLOWENERGYSERVICE] "error" [] (RMeta QLowEnergyService_ServiceError) [On
        QLowEnergyService];
    Sig [] "errorString" [] RString [On QBluetoothDeviceDiscoveryAgent; On QBluetoothServiceDiscoveryAgent;
        On QBluetoothSocket; On QLowEnergyController];
    Sig [] "hasPendingConnections" [] RBool [On QBluetoothServer];
    Sig [TYPE_QTBLUETOOTH_QBLUETOOTHLOCALDEVICE] "hostMode" [] (RMeta QBluetoothLocalDevice_HostMode) [On
        QBluetoothLocalDevice];
    Sig [VALUE_TYPE_QTBLUETOOTH_QBLUETOOTHUUID] "includedServices" [] (RList (IValue QBluetoothUuid)) [On
        QLowEnergyService];
    Sig [] "isActive" [] RBool [On QBluetoothDeviceDiscoveryAgent; On QBluetoothServiceDiscoveryAgent]
  ].

Definition methods_qtbluetooth_0_s39 : list signature_row :=
  [
    Sig [] "isListening" [] RBool [On QBluetoothServer];
    Sig [] "isSequential" [] RBool [On QBluetoothSocket];
    Sig [] "isValid" [] RBool [On QBluetoothLocalDevice];
    Sig [VALUE_TYPE_QTBLUETOOTH_QBLUETOOTHSERVICEINFO; VALUE_TYPE_QTBLUETOOTH_QBLUETOOTHUUID] "listen"
        [PValue QBluetoothUuid; PString true] (RValue QBluetoothServiceInfo) [On QBluetoothServer];
    Sig [VALUE_TYPE_QTBLUETOOTH_QBLUETOOTHADDRESS] "localAddress" [] (RValue QBluetoothAddress) [On
        QBluetoothSocket; On QLowEnergyController];
    Sig [] "localName" [] RString [On QBluetoothSocket];
    Sig [] "lowEnergyDiscoveryTimeout" [] RDouble [On QBluetoothDeviceDiscoveryAgent];
    Sig [] "maxPendingConnections" [] RDouble [On QBluetoothServer];
    Sig [] "mtu" [] RDouble [On QLowEnergyController];
    Sig [] "name" [] RString [On QBluetoothLocalDevice];
    Sig [TYPE_QTBLUETOOTH_QBLUETOOTHSOCKET] "nextPendingConnection" [] RObject [On QBluetoothServer]
  ].

Definition methods_qtbluetooth_0_s50 : list signature_row :=
  [
    Sig [TYPE_QTBLUETOOTH_QBLUETOOTHLOCALDEVICE; VALUE_TYPE_QTBLUETOOTH_QBLUETOOTHADDRESS] "pairingStatus"
        [PValue QBluetoothAddress] (RMeta QBluetoothLocalDevice_Pairing) [On QBluetoothLocalDevice];
    Sig [VALUE_TYPE_QTBLUETOOTH_QBLUETOOTHADDRESS] "peerAddress" [] (RValue QBluetoothAddress) [On
        QBluetoothSocket];
    Sig [] "peerName" [] RString [On QBluetoothSocket];
    Sig [] "powerOn" [] RVoid [On QBluetoothLocalDevice];
    Sig [TYPE_QTBLUETOOTH_QBLUETOOTHUUID] "protocolToString" [PValue QBluetoothUuid_ProtocolUuid] RString
        [Static QBluetoothUuid];
    Sig [VALUE_TYPE_QTBLUETOOTH_QLOWENERGYCHARACTERISTIC] "readCharacteristic" [PValue
        QLowEnergyCharacteristic] RVoid [On QLowEnergyService];
    Sig [VALUE_TYPE_QTBLUETOOTH_QLOWENERGYDESCRIPTOR] "readDescriptor" [PValue QLowEnergyDescriptor] RVoid
        [On QLowEnergyService];
    Sig [] "readRssi" [] RVoid [On QLowEnergyController];
    Sig [VALUE_TYPE_QTBLUETOOTH_QBLUETOOTHADDRESS] "remoteAddress" [] (RValue QBluetoothAddress) [On
        QBluetoothServiceDiscoveryAgent; On QLowEnergyController];
    Sig [TYPE_QTBLUETOOTH_QLOWENERGYCONTROLLER] "remoteAddressType" [] (RMeta
        QLowEnergyController_RemoteAddressType) [On QLowEnergyController]
  ].

Definition methods_qtbluetooth_0_s60 : list signature_row :=
  [
    Sig [VALUE_TYPE_QTBLUETOOTH_QBLUETOOTHUUID] "remoteDeviceUuid" [] (RValue QBluetoothUuid) [On
        QLowEnergyController];
    Sig [] "remoteName" [] RString [On QLowEnergyController];
    Sig [VALUE_TYPE_QTBLUETOOTH_QLOWENERGYCONNECTIONPARAMETERS] "requestConnectionUpdate" [PValue
        QLowEnergyConnectionParameters] RVoid [On QLowEnergyController];
    Sig [TYPE_QTBLUETOOTH_QBLUETOOTHLOCALDEVICE; VALUE_TYPE_QTBLUETOOTH_QBLUETOOTHADDRESS] "requestPairing"
        [PValue QBluetoothAddress; PValue QBluetoothLocalDevice_Pairing] RVoid [On QBluetoothLocalDevice];
    Sig [TYPE_QTBLUETOOTH_QLOWENERGYCONTROLLER] "role" [] (RMeta QLowEnergyController_Role) [On
        QLowEnergyController];
    Sig [VALUE_TYPE_QTBLUETOOTH_QBLUETOOTHADDRESS] "serverAddress" [] (RValue QBluetoothAddress) [On
        QBluetoothServer];
    Sig [TYPE_QTBLUETOOTH_QBLUETOOTHSERVICEINFO] "serverType" [] (RMeta QBluetoothServiceInfo_Protocol) [On
        QBluetoothServer];
    Sig [TYPE_QTBLUETOOTH_QBLUETOOTHUUID] "serviceClassToString" [PValue QBluetoothUuid_ServiceClassUuid]
        RString [Static QBluetoothUuid];
    Sig [] "serviceName" [] RString [On QLowEnergyService];
    Sig [VALUE_TYPE_QTBLUETOOTH_QBLUETOOTHUUID] "serviceUuid" [] (RValue QBluetoothUuid) [On
        QLowEnergyService]
  ].

Definition methods_qtbluetooth_0_s70 : list signature_row :=
  [
    Sig [VALUE_TYPE_QTBLUETOOTH_QBLUETOOTHUUID] "services" [] (RList (IValue QBluetoothUuid)) [On
        QLowEnergyController];
    Sig [TYPE_QTBLUETOOTH_QBLUETOOTHLOCALDEVICE] "setHostMode" [PValue QBluetoothLocalDevice_HostMode]
        RVoid [On QBluetoothLocalDevice];
    Sig [] "setLowEnergyDiscoveryTimeout" [PInt] RVoid [On QBluetoothDeviceDiscoveryAgent];
    Sig [] "setMaxPendingConnections" [PInt] RVoid [On QBluetoothServer];
    Sig [VALUE_TYPE_QTBLUETOOTH_QBLUETOOTHADDRESS] "setRemoteAddress" [PValue QBluetoothAddress] RBool [On
        QBluetoothServiceDiscoveryAgent];
    Sig [TYPE_QTBLUETOOTH_QLOWENERGYCONTROLLER] "setRemoteAddressType" [PValue
        QLowEnergyController_RemoteAddressType] RVoid [On QLowEnergyController];
    Sig [VALUE_TYPE_QTBLUETOOTH_QBLUETOOTHUUID] "setUuidFilter" [PValue QBluetoothUuid] RVoid [On
        QBluetoothServiceDiscoveryAgent];
    Sig [VALUE_TYPE_QTBLUETOOTH_QBLUETOOTHUUID] "setUuidFilter" [PList (IValue QBluetoothUuid)] RVoid [On
        QBluetoothServiceDiscoveryAgent];
    Sig [] "socketDescriptor" [] RDouble [On QBluetoothSocket]
  ].

Definition methods_qtbluetooth_0_s79 : list signature_row :=
  [
    Sig [TYPE_QTBLUETOOTH_QBLUETOOTHSERVICEINFO] "socketType" [] (RMeta QBluetoothServiceInfo_Protocol) [On
        QBluetoothSocket];
    Sig [] "start" [] RVoid [On QBluetoothDeviceDiscoveryAgent];
    Sig [TYPE_QTBLUETOOTH_QBLUETOOTHSERVICEDISCOVERYAGENT] "start" [PValue
        QBluetoothServiceDiscoveryAgent_DiscoveryMode] RVoid [On QBluetoothServiceDiscoveryAgent];
    Sig [VALUE_TYPE_QTBLUETOOTH_QLOWENERGYADVERTISINGDATA;
        VALUE_TYPE_QTBLUETOOTH_QLOWENERGYADVERTISINGPARAMETERS] "startAdvertising" [PValue
        QLowEnergyAdvertisingParameters; PValue QLowEnergyAdvertisingData; PValue
        QLowEnergyAdvertisingData] RVoid [On QLowEnergyController];
    Sig [TYPE_QTBLUETOOTH_QBLUETOOTHSOCKET] "state" [] (RMeta QBluetoothSocket_SocketState) [On
        QBluetoothSocket];
    Sig [TYPE_QTBLUETOOTH_QLOWENERGYCONTROLLER] "state" [] (RMeta QLowEnergyController_ControllerState) [On
        QLowEnergyController];
    Sig [TYPE_QTBLUETOOTH_QLOWENERGYSERVICE] "state" [] (RMeta QLowEnergyService_ServiceState) [On
        QLowEnergyService];
    Sig [] "stop" [] RVoid [On QBluetoothDeviceDiscoveryAgent; On QBluetoothServiceDiscoveryAgent];
    Sig [] "stopAdvertising" [] RVoid [On QLowEnergyController];
    Sig [TYPE_QTBLUETOOTH_QLOWENERGYSERVICE] "type" [] (RMeta QLowEnergyService_ServiceTypes) [On
        QLowEnergyService]
  ].

Definition methods_qtbluetooth_0_s89 : list signature_row :=
  [
    Sig [VALUE_TYPE_QTBLUETOOTH_QBLUETOOTHUUID] "uuidFilter" [] (RList (IValue QBluetoothUuid)) [On
        QBluetoothServiceDiscoveryAgent];
    Sig [TYPE_QTBLUETOOTH_QLOWENERGYSERVICE; VALUE_TYPE_QTBLUETOOTH_QLOWENERGYCHARACTERISTIC;
        VALUE_TYPE_QTCORE_QBYTEARRAY] "writeCharacteristic" [PValue QLowEnergyCharacteristic; PValue
        QByteArray; PValue QLowEnergyService_WriteMode] RVoid [On QLowEnergyService];
    Sig [VALUE_TYPE_QTBLUETOOTH_QLOWENERGYDESCRIPTOR; VALUE_TYPE_QTCORE_QBYTEARRAY] "writeDescriptor"
        [PValue QLowEnergyDescriptor; PValue QByteArray] RVoid [On QLowEnergyService]
  ].

Definition methods_qtbluetooth_0 : method_shard :=
  MethodShard QtBluetooth "KRY_QT6_NATIVE_METHODS_QTBLUETOOTH_"
    (methods_qtbluetooth_0_i0)
    (methods_qtbluetooth_0_s0 ++ methods_qtbluetooth_0_s10 ++ methods_qtbluetooth_0_s19 ++
        methods_qtbluetooth_0_s29 ++ methods_qtbluetooth_0_s39 ++ methods_qtbluetooth_0_s50 ++
        methods_qtbluetooth_0_s60 ++ methods_qtbluetooth_0_s70 ++ methods_qtbluetooth_0_s79 ++
        methods_qtbluetooth_0_s89)
    [].

Definition methods_qtdbus_0_i0 : list include :=
  [
    ClassInclude QtDBus QDBusAbstractInterface QDBusAbstractInterface;
    ClassInclude QtDBus QDBusConnection QDBusConnection;
    ClassInclude QtDBus QDBusError QDBusError;
    ClassInclude QtDBus QDBusMessage QDBusMessage;
    ClassInclude QtDBus QDBusPendingCall QDBusPendingCall;
    ClassInclude QtDBus QDBusPendingCallWatcher QDBusPendingCallWatcher;
    ClassInclude QtDBus QDBusServiceWatcher QDBusServiceWatcher;
    ClassInclude QtDBus QDBusUnixFileDescriptor QDBusUnixFileDescriptor;
    TypeInclude QtDBus QDBusConnection TYPE_QTDBUS_QDBUSCONNECTION;
    TypeInclude QtDBus QDBusError TYPE_QTDBUS_QDBUSERROR;
    TypeInclude QtCore QByteArray VALUE_TYPE_QTCORE_QBYTEARRAY;
    TypeInclude QtDBus QDBusConnection VALUE_TYPE_QTDBUS_QDBUSCONNECTION;
    TypeInclude QtDBus QDBusError VALUE_TYPE_QTDBUS_QDBUSERROR;
    TypeInclude QtDBus QDBusMessage VALUE_TYPE_QTDBUS_QDBUSMESSAGE;
    TypeInclude QtDBus QDBusPendingCall VALUE_TYPE_QTDBUS_QDBUSPENDINGCALL
  ].

Definition methods_qtdbus_0_s0 : list signature_row :=
  [
    Sig [] "addWatchedService" [PString true] RVoid [On QDBusServiceWatcher];
    Sig [VALUE_TYPE_QTDBUS_QDBUSPENDINGCALL] "asyncCallWithArgumentList" [PString true; PList IVariant]
        (RValue QDBusPendingCall) [On QDBusAbstractInterface];
    Sig [TYPE_QTDBUS_QDBUSCONNECTION; VALUE_TYPE_QTDBUS_QDBUSCONNECTION] "connectToBus" [PValue
        QDBusConnection_BusType; PString true] (RValue QDBusConnection) [Static QDBusConnection];
    Sig [VALUE_TYPE_QTDBUS_QDBUSCONNECTION] "connectToBus" [PString true; PString true] (RValue
        QDBusConnection) [Static QDBusConnection];
    Sig [VALUE_TYPE_QTDBUS_QDBUSCONNECTION] "connectToPeer" [PString true; PString true] (RValue
        QDBusConnection) [Static QDBusConnection];
    Sig [VALUE_TYPE_QTDBUS_QDBUSCONNECTION] "connection" [] (RValue QDBusConnection) [On
        QDBusAbstractInterface; On QDBusServiceWatcher];
    Sig [VALUE_TYPE_QTDBUS_QDBUSERROR; VALUE_TYPE_QTDBUS_QDBUSMESSAGE] "createError" [PValue QDBusError]
        (RValue QDBusMessage) [Static QDBusMessage];
    Sig [TYPE_QTDBUS_QDBUSERROR; VALUE_TYPE_QTDBUS_QDBUSMESSAGE] "createError" [PValue
        QDBusError_ErrorType; PString true] (RValue QDBusMessage) [Static QDBusMessage]
  ].

Definition methods_qtdbus_0_s8 : list signature_row :=
  [
    Sig [VALUE_TYPE_QTDBUS_QDBUSMESSAGE] "createError" [PString true; PString true] (RValue QDBusMessage)
        [Static QDBusMessage];
    Sig [VALUE_TYPE_QTDBUS_QDBUSMESSAGE] "createMethodCall" [PString true; PString true; PString true;
        PString true] (RValue QDBusMessage) [Static QDBusMessage];
    Sig [VALUE_TYPE_QTDBUS_QDBUSMESSAGE] "createSignal" [PString true; PString true; PString true] (RValue
        QDBusMessage) [Static QDBusMessage];
    Sig [VALUE_TYPE_QTDBUS_QDBUSMESSAGE] "createTargetedSignal" [PString true; PString true; PString true;
        PString true] (RValue QDBusMessage) [Static QDBusMessage];
    Sig [] "disconnectFromBus" [PString true] RVoid [Static QDBusConnection];
    Sig [] "disconnectFromPeer" [PString true] RVoid [Static QDBusConnection];
    Sig [TYPE_QTDBUS_QDBUSERROR] "errorString" [PValue QDBusError_ErrorType] RString [Static QDBusError];
    Sig [VALUE_TYPE_QTDBUS_QDBUSMESSAGE; VALUE_TYPE_QTDBUS_QDBUSPENDINGCALL] "fromCompletedCall" [PValue
        QDBusMessage] (RValue QDBusPendingCall) [Static QDBusPendingCall]
  ].

Definition methods_qtdbus_0_s16 : list signature_row :=
  [
    Sig [VALUE_TYPE_QTDBUS_QDBUSERROR; VALUE_TYPE_QTDBUS_QDBUSPENDINGCALL] "fromError" [PValue QDBusError]
        (RValue QDBusPendingCall) [Static QDBusPendingCall];
    Sig [] "interface" [] RString [On QDBusAbstractInterface];
    Sig [] "isFinished" [] RBool [On QDBusPendingCallWatcher];
    Sig [] "isInteractiveAuthorizationAllowed" [] RBool [On QDBusAbstractInterface];
    Sig [] "isSupported" [] RBool [Static QDBusUnixFileDescriptor];
    Sig [] "isValid" [] RBool [On QDBusAbstractInterface];
    Sig [VALUE_TYPE_QTDBUS_QDBUSERROR] "lastError" [] (RValue QDBusError) [On QDBusAbstractInterface];
    Sig [VALUE_TYPE_QTCORE_QBYTEARRAY] "localMachineId" [] (RValue QByteArray) [Static QDBusConnection];
    Sig [] "path" [] RString [On QDBusAbstractInterface];
    Sig [] "removeWatchedService" [PString true] RBool [On QDBusServiceWatcher];
    Sig [] "service" [] RString [On QDBusAbstractInterface]
  ].

Definition methods_qtdbus_0_s27 : list signature_row :=
  [
    Sig [VALUE_TYPE_QTDBUS_QDBUSCONNECTION] "sessionBus" [] (RValue QDBusConnection) [Static
        QDBusConnection];
    Sig [VALUE_TYPE_QTDBUS_QDBUSCONNECTION] "setConnection" [PValue QDBusConnection] RVoid [On
        QDBusServiceWatcher];
    Sig [] "setInteractiveAuthorizationAllowed" [PBool] RVoid [On QDBusAbstractInterface];
    Sig [] "setTimeout" [PInt] RVoid [On QDBusAbstractInterface];
    Sig [] "setWatchedServices" [PStringList] RVoid [On QDBusServiceWatcher];
    Sig [VALUE_TYPE_QTDBUS_QDBUSCONNECTION] "systemBus" [] (RValue QDBusConnection) [Static
        QDBusConnection];
    Sig [] "timeout" [] RDouble [On QDBusAbstractInterface];
    Sig [] "waitForFinished" [] RVoid [On QDBusPendingCallWatcher];
    Sig [] "watchedServices" [] (RList (IMeta QString)) [On QDBusServiceWatcher]
  ].

Definition methods_qtdbus_0 : method_shard :=
  MethodShard QtDBus "KRY_QT6_NATIVE_METHODS_QTDBUS_"
    (methods_qtdbus_0_i0)
    (methods_qtdbus_0_s0 ++ methods_qtdbus_0_s8 ++ methods_qtdbus_0_s16 ++ methods_qtdbus_0_s27)
    [].

Definition methods_qtnetwork_0_i0 : list include :=
  [
    ClassInclude QtNetwork QAbstractSocket QAbstractSocket;
    ClassInclude QtNetwork QDnsLookup QDnsLookup;
    ClassInclude QtNetwork QHostInfo QHostInfo;
    ClassInclude QtNetwork QHttpMultiPart QHttpMultiPart;
    ClassInclude QtNetwork QLocalServer QLocalServer;
    ClassInclude QtNetwork QLocalSocket QLocalSocket;
    ClassInclude QtNetwork QNetworkAccessManager QNetworkAccessManager;
    ClassInclude QtNetwork QNetworkCookieJar QNetworkCookieJar;
    ClassInclude QtNetwork QNetworkDiskCache QNetworkDiskCache;
    ClassInclude QtNetwork QNetworkInformation QNetworkInformation;
    ClassInclude QtNetwork QNetworkInterface QNetworkInterface;
    ClassInclude QtNetwork QNetworkProxy QNetworkProxy;
    ClassInclude QtNetwork QNetworkProxyFactory QNetworkProxyFactory;
    ClassInclude QtNetwork QNetworkReply QNetworkReply;
    ClassInclude QtNetwork QRestAccessManager QRestAccessManager;
    ClassInclude QtNetwork QSslCertificate QSslCertificate;
    ClassInclude QtNetwork QSslConfiguration QSslConfiguration;
    ClassInclude QtNetwork QSslDiffieHellmanParameters QSslDiffieHellmanParameters;
    ClassInclude QtNetwork QSslEllipticCurve QSslEllipticCurve;
    ClassInclude QtNetwork QSslServer QSslServer;
    ClassInclude QtNetwork QSslSocket QSslSocket;
    ClassInclude QtNetwork QTcpServer QTcpServer;
    ClassInclude QtNetwork QUdpSocket QUdpSocket;
    TypeInclude QtCore QIODevice TYPE_QTCORE_QIODEVICE;
    TypeInclude QtNetwork QAbstractNetworkCache TYPE_QTNETWORK_QABSTRACTNETWORKCACHE;
    TypeInclude QtNetwork QHttpMultiPart TYPE_QTNETWORK_QHTTPMULTIPART;
    TypeInclude QtNetwork QLocalSocket TYPE_QTNETWORK_QLOCALSOCKET;
    TypeInclude QtNetwork QNetworkAccessManager TYPE_QTNETWORK_QNETWORKACCESSMANAGER;
    TypeInclude QtNetwork QNetworkCookieJar TYPE_QTNETWORK_QNETWORKCOOKIEJAR;
    TypeInclude QtNetwork QNetworkInformation TYPE_QTNETWORK_QNETWORKINFORMATION;
    TypeInclude QtNetwork QNetworkReply TYPE_QTNETWORK_QNETWORKREPLY;
    TypeInclude QtNetwork QTcpSocket TYPE_QTNETWORK_QTCPSOCKET;
    TypeInclude QtNetwork QAbstractSocket TYPE_QTNETWORK_QABSTRACTSOCKET;
    TypeInclude QtNetwork QDnsLookup TYPE_QTNETWORK_QDNSLOOKUP;
    TypeInclude QtNetwork QHttpMultiPart TYPE_QTNETWORK_QHTTPMULTIPART;
    TypeInclude QtNetwork QLocalServer TYPE_QTNETWORK_QLOCALSERVER;
    TypeInclude QtNetwork QLocalSocket TYPE_QTNETWORK_QLOCALSOCKET;
    TypeInclude QtNetwork QNetworkAccessManager TYPE_QTNETWORK_QNETWORKACCESSMANAGER;
    TypeInclude QtNetwork QNetworkInformation TYPE_QTNETWORK_QNETWORKINFORMATION;
    TypeInclude QtNetwork QNetworkReply TYPE_QTNETWORK_QNETWORKREPLY;
    TypeInclude QtNetwork QNetworkRequest TYPE_QTNETWORK_QNETWORKREQUEST;
    TypeInclude QtNetwork QSslSocket TYPE_QTNETWORK_QSSLSOCKET;
    TypeInclude QtCore QByteArray VALUE_TYPE_QTCORE_QBYTEARRAY;
    TypeInclude QtCore QJsonDocument VALUE_TYPE_QTCORE_QJSONDOCUMENT;
    TypeInclude QtCore QUrl VALUE_TYPE_QTCORE_QURL;
    TypeInclude QtNetwork QDnsDomainNameRecord VALUE_TYPE_QTNETWORK_QDNSDOMAINNAMERECORD;
    TypeInclude QtNetwork QDnsHostAddressRecord VALUE_TYPE_QTNETWORK_QDNSHOSTADDRESSRECORD;
    TypeInclude QtNetwork QDnsMailExchangeRecord VALUE_TYPE_QTNETWORK_QDNSMAILEXCHANGERECORD;
    TypeInclude QtNetwork QDnsServiceRecord VALUE_TYPE_QTNETWORK_QDNSSERVICERECORD;
    TypeInclude QtNetwork QDnsTextRecord VALUE_TYPE_QTNETWORK_QDNSTEXTRECORD;
    TypeInclude QtNetwork QDnsTlsAssociationRecord VALUE_TYPE_QTNETWORK_QDNSTLSASSOCIATIONRECORD;
    TypeInclude QtNetwork QHostAddress VALUE_TYPE_QTNETWORK_QHOSTADDRESS
  ].

Definition methods_qtnetwork_0_i1 : list include :=
  [
    TypeInclude QtNetwork QHostInfo VALUE_TYPE_QTNETWORK_QHOSTINFO;
    TypeInclude QtNetwork QHstsPolicy VALUE_TYPE_QTNETWORK_QHSTSPOLICY;
    TypeInclude QtNetwork QHttpHeaders VALUE_TYPE_QTNETWORK_QHTTPHEADERS;
    TypeInclude QtNetwork QHttpPart VALUE_TYPE_QTNETWORK_QHTTPPART;
    TypeInclude QtNetwork QNetworkCacheMetaData VALUE_TYPE_QTNETWORK_QNETWORKCACHEMETADATA;
    TypeInclude QtNetwork QNetworkCookie VALUE_TYPE_QTNETWORK_QNETWORKCOOKIE;
    TypeInclude QtNetwork QNetworkDatagram VALUE_TYPE_QTNETWORK_QNETWORKDATAGRAM;
    TypeInclude QtNetwork QNetworkInterface VALUE_TYPE_QTNETWORK_QNETWORKINTERFACE;
    TypeInclude QtNetwork QNetworkProxy VALUE_TYPE_QTNETWORK_QNETWORKPROXY;
    TypeInclude QtNetwork QNetworkProxyQuery VALUE_TYPE_QTNETWORK_QNETWORKPROXYQUERY;
    TypeInclude QtNetwork QNetworkRequest VALUE_TYPE_QTNETWORK_QNETWORKREQUEST;
    TypeInclude QtNetwork QOcspResponse VALUE_TYPE_QTNETWORK_QOCSPRESPONSE;
    TypeInclude QtNetwork QSslCertificate VALUE_TYPE_QTNETWORK_QSSLCERTIFICATE;
    TypeInclude QtNetwork QSslCipher VALUE_TYPE_QTNETWORK_QSSLCIPHER;
    TypeInclude QtNetwork QSslConfiguration VALUE_TYPE_QTNETWORK_QSSLCONFIGURATION;
    TypeInclude QtNetwork QSslDiffieHellmanParameters VALUE_TYPE_QTNETWORK_QSSLDIFFIEHELLMANPARAMETERS;
    TypeInclude QtNetwork QSslEllipticCurve VALUE_TYPE_QTNETWORK_QSSLELLIPTICCURVE;
    TypeInclude QtNetwork QSslError VALUE_TYPE_QTNETWORK_QSSLERROR;
    TypeInclude QtNetwork QSslKey VALUE_TYPE_QTNETWORK_QSSLKEY
  ].

Definition methods_qtnetwork_0_s0 : list signature_row :=
  [
    Sig [] "abort" [] RVoid [On QAbstractSocket; On QDnsLookup; On QLocalSocket];
    Sig [] "abortHostLookup" [PInt] RVoid [Static QHostInfo];
    Sig [] "activeBackend" [] RString [Static QSslSocket];
    Sig [VALUE_TYPE_QTNETWORK_QHSTSPOLICY] "addStrictTransportSecurityHosts" [PList (IValue QHstsPolicy)]
        RVoid [On QNetworkAccessManager];
    Sig [VALUE_TYPE_QTNETWORK_QHOSTADDRESS] "allAddresses" [] (RList (IValue QHostAddress)) [Static
        QNetworkInterface];
    Sig [VALUE_TYPE_QTNETWORK_QNETWORKINTERFACE] "allInterfaces" [] (RList (IValue QNetworkInterface))
        [Static QNetworkInterface];
    Sig [VALUE_TYPE_QTNETWORK_QHTTPPART] "append" [PValue QHttpPart] RVoid [On QHttpMultiPart];
    Sig [VALUE_TYPE_QTNETWORK_QNETWORKPROXY] "applicationProxy" [] (RValue QNetworkProxy) [Static
        QNetworkProxy];
    Sig [] "atEnd" [] RBool [On QSslSocket]
  ].

Definition methods_qtnetwork_0_s9 : list signature_row :=
  [
    Sig [TYPE_QTNETWORK_QNETWORKREQUEST] "attribute" [PValue QNetworkRequest_Attribute] RVariant [On
        QNetworkReply];
    Sig [] "autoDeleteReplies" [] RBool [On QNetworkAccessManager];
    Sig [] "availableBackends" [] (RList (IMeta QString)) [Static QSslSocket];
    Sig [] "availableBackends" [] (RList (IMeta QString)) [Static QNetworkInformation];
    Sig [] "backendName" [] RString [On QNetworkInformation];
    Sig [VALUE_TYPE_QTCORE_QBYTEARRAY] "boundary" [] (RValue QByteArray) [On QHttpMultiPart];
    Sig [] "bytesAvailable" [] (RMeta cxx_qint64) [On QAbstractSocket; On QLocalSocket; On QSslSocket];
    Sig [] "bytesToWrite" [] (RMeta cxx_qint64) [On QAbstractSocket; On QLocalSocket; On QSslSocket];
    Sig [TYPE_QTNETWORK_QABSTRACTNETWORKCACHE] "cache" [] RObject [On QNetworkAccessManager];
    Sig [] "cacheDirectory" [] RString [On QNetworkDiskCache]
  ].

Definition methods_qtnetwork_0_s19 : list signature_row :=
  [
    Sig [] "cacheSize" [] (RMeta cxx_qint64) [On QNetworkDiskCache];
    Sig [] "canReadLine" [] RBool [On QLocalSocket; On QSslSocket];
    Sig [VALUE_TYPE_QTNETWORK_QDNSDOMAINNAMERECORD] "canonicalNameRecords" [] (RList (IValue
        QDnsDomainNameRecord)) [On QDnsLookup];
    Sig [] "clear" [] RVoid [On QNetworkDiskCache];
    Sig [] "clearAccessCache" [] RVoid [On QNetworkAccessManager];
    Sig [] "clearConnectionCache" [] RVoid [On QNetworkAccessManager];
    Sig [] "close" [] RVoid [On QAbstractSocket; On QLocalServer; On QLocalSocket; On QNetworkReply; On
        QSslSocket; On QTcpServer];
    Sig [] "continueInterruptedHandshake" [] RVoid [On QSslSocket];
    Sig [TYPE_QTNETWORK_QNETWORKCOOKIEJAR] "cookieJar" [] RObject [On QNetworkAccessManager]
  ].

Definition methods_qtnetwork_0_s28 : list signature_row :=
  [
    Sig [VALUE_TYPE_QTCORE_QURL; VALUE_TYPE_QTNETWORK_QNETWORKCOOKIE] "cookiesForUrl" [PValue QUrl] (RList
        (IValue QNetworkCookie)) [On QNetworkCookieJar];
    Sig [TYPE_QTCORE_QIODEVICE; VALUE_TYPE_QTCORE_QURL] "data" [PValue QUrl] RObject [On QNetworkDiskCache];
    Sig [VALUE_TYPE_QTNETWORK_QSSLCONFIGURATION] "defaultConfiguration" [] (RValue QSslConfiguration)
        [Static QSslConfiguration];
    Sig [VALUE_TYPE_QTNETWORK_QSSLCONFIGURATION] "defaultDtlsConfiguration" [] (RValue QSslConfiguration)
        [Static QSslConfiguration];
    Sig [VALUE_TYPE_QTNETWORK_QSSLDIFFIEHELLMANPARAMETERS] "defaultParameters" [] (RValue
        QSslDiffieHellmanParameters) [Static QSslDiffieHellmanParameters];
    Sig [VALUE_TYPE_QTNETWORK_QNETWORKCOOKIE] "deleteCookie" [PValue QNetworkCookie] RBool [On
        QNetworkCookieJar];
    Sig [TYPE_QTNETWORK_QNETWORKREPLY; VALUE_TYPE_QTNETWORK_QNETWORKREQUEST] "deleteResource" [PValue
        QNetworkRequest] RObject [On QNetworkAccessManager; On QRestAccessManager];
    Sig [] "disconnectFromHost" [] RVoid [On QAbstractSocket; On QSslSocket];
    Sig [] "disconnectFromServer" [] RVoid [On QLocalSocket]
  ].

Definition methods_qtnetwork_0_s37 : list signature_row :=
  [
    Sig [] "enableStrictTransportSecurityStore" [PBool; PString true] RVoid [On QNetworkAccessManager];
    Sig [] "encryptedBytesAvailable" [] (RMeta cxx_qint64) [On QSslSocket];
    Sig [] "encryptedBytesToWrite" [] (RMeta cxx_qint64) [On QSslSocket];
    Sig [TYPE_QTNETWORK_QABSTRACTSOCKET] "error" [] (RMeta QAbstractSocket_SocketError) [On
        QAbstractSocket];
    Sig [TYPE_QTNETWORK_QDNSLOOKUP] "error" [] (RMeta QDnsLookup_Error) [On QDnsLookup];
    Sig [TYPE_QTNETWORK_QLOCALSOCKET] "error" [] (RMeta QLocalSocket_LocalSocketError) [On QLocalSocket];
    Sig [TYPE_QTNETWORK_QNETWORKREPLY] "error" [] (RMeta QNetworkReply_NetworkError) [On QNetworkReply];
    Sig [] "errorString" [] RString [On QDnsLookup; On QLocalServer; On QTcpServer];
    Sig [VALUE_TYPE_QTNETWORK_QNETWORKCACHEMETADATA] "fileMetaData" [PString true] (RValue
        QNetworkCacheMetaData) [On QNetworkDiskCache];
    Sig [] "flush" [] RBool [On QAbstractSocket; On QLocalSocket]
  ].

Definition methods_qtnetwork_0_s47 : list signature_row :=
  [
    Sig [VALUE_TYPE_QTNETWORK_QSSLELLIPTICCURVE] "fromLongName" [PString true] (RValue QSslEllipticCurve)
        [Static QSslEllipticCurve];
    Sig [VALUE_TYPE_QTNETWORK_QHOSTINFO] "fromName" [PString true] (RValue QHostInfo) [Static QHostInfo];
    Sig [VALUE_TYPE_QTNETWORK_QSSLELLIPTICCURVE] "fromShortName" [PString true] (RValue QSslEllipticCurve)
        [Static QSslEllipticCurve];
    Sig [] "fullServerName" [] RString [On QLocalServer; On QLocalSocket];
    Sig [TYPE_QTNETWORK_QNETWORKREPLY; VALUE_TYPE_QTNETWORK_QNETWORKREQUEST] "get" [PValue QNetworkRequest]
        RObject [On QNetworkAccessManager; On QRestAccessManager];
    Sig [TYPE_QTNETWORK_QNETWORKREPLY; VALUE_TYPE_QTCORE_QBYTEARRAY; VALUE_TYPE_QTNETWORK_QNETWORKREQUEST]
        "get" [PValue QNetworkRequest; PValue QByteArray] RObject [On QNetworkAccessManager; On
        QRestAccessManager];
    Sig [TYPE_QTCORE_QIODEVICE; TYPE_QTNETWORK_QNETWORKREPLY; VALUE_TYPE_QTNETWORK_QNETWORKREQUEST] "get"
        [PValue QNetworkRequest; PObject QIODevice false] RObject [On QNetworkAccessManager; On
        QRestAccessManager];
    Sig [TYPE_QTNETWORK_QNETWORKREPLY; VALUE_TYPE_QTCORE_QJSONDOCUMENT;
        VALUE_TYPE_QTNETWORK_QNETWORKREQUEST] "get" [PValue QNetworkRequest; PValue QJsonDocument] RObject
        [On QRestAccessManager]
  ].

Definition methods_qtnetwork_0_s55 : list signature_row :=
  [
    Sig [] "handshakeTimeout" [] RDouble [On QSslServer];
    Sig [] "hasPendingConnections" [] RBool [On QLocalServer; On QTcpServer];
    Sig [] "hasPendingDatagrams" [] RBool [On QUdpSocket];
    Sig [TYPE_QTNETWORK_QNETWORKREPLY; VALUE_TYPE_QTNETWORK_QNETWORKREQUEST] "head" [PValue
        QNetworkRequest] RObject [On QNetworkAccessManager; On QRestAccessManager];
    Sig [TYPE_QTNETWORK_QNETWORKREQUEST] "header" [PValue QNetworkRequest_KnownHeaders] RVariant [On
        QNetworkReply];
    Sig [VALUE_TYPE_QTNETWORK_QHTTPHEADERS] "headers" [] (RValue QHttpHeaders) [On QNetworkReply];
    Sig [VALUE_TYPE_QTNETWORK_QDNSHOSTADDRESSRECORD] "hostAddressRecords" [] (RList (IValue
        QDnsHostAddressRecord)) [On QDnsLookup];
    Sig [] "ignoreSslErrors" [] RVoid [On QNetworkReply; On QSslSocket];
    Sig [VALUE_TYPE_QTNETWORK_QSSLERROR] "ignoreSslErrors" [PList (IValue QSslError)] RVoid [On
        QNetworkReply; On QSslSocket]
  ].

Definition methods_qtnetwork_0_s64 : list signature_row :=
  [
    Sig [TYPE_QTCORE_QIODEVICE] "insert" [PObject QIODevice false] RVoid [On QNetworkDiskCache];
    Sig [VALUE_TYPE_QTNETWORK_QNETWORKCOOKIE] "insertCookie" [PValue QNetworkCookie] RBool [On
        QNetworkCookieJar];
    Sig [TYPE_QTNETWORK_QNETWORKINFORMATION] "instance" [] RObject [Static QNetworkInformation];
    Sig [VALUE_TYPE_QTNETWORK_QNETWORKINTERFACE] "interfaceFromIndex" [PInt] (RValue QNetworkInterface)
        [Static QNetworkInterface];
    Sig [VALUE_TYPE_QTNETWORK_QNETWORKINTERFACE] "interfaceFromName" [PString true] (RValue
        QNetworkInterface) [Static QNetworkInterface];
    Sig [] "interfaceIndexFromName" [PString true] RDouble [Static QNetworkInterface];
    Sig [] "interfaceNameFromIndex" [PInt] RString [Static QNetworkInterface];
    Sig [] "isAuthenticData" [] RBool [On QDnsLookup];
    Sig [] "isBehindCaptivePortal" [] RBool [On QNetworkInformation];
    Sig [] "isEncrypted" [] RBool [On QSslSocket]
  ].

Definition methods_qtnetwork_0_s74 : list signature_row :=
  [
    Sig [] "isFinished" [] RBool [On QDnsLookup; On QNetworkReply];
    Sig [] "isListening" [] RBool [On QLocalServer; On QTcpServer];
    Sig [] "isMetered" [] RBool [On QNetworkInformation];
    Sig [TYPE_QTNETWORK_QDNSLOOKUP] "isProtocolSupported" [PValue QDnsLookup_Protocol] RBool [Static
        QDnsLookup];
    Sig [] "isRunning" [] RBool [On QNetworkReply];
    Sig [] "isSequential" [] RBool [On QAbstractSocket; On QLocalSocket; On QNetworkReply];
    Sig [] "isStrictTransportSecurityEnabled" [] RBool [On QNetworkAccessManager];
    Sig [] "isStrictTransportSecurityStoreEnabled" [] RBool [On QNetworkAccessManager];
    Sig [] "isValid" [] RBool [On QAbstractSocket; On QLocalSocket];
    Sig [VALUE_TYPE_QTNETWORK_QHOSTADDRESS] "joinMulticastGroup" [PValue QHostAddress] RBool [On QUdpSocket]
  ].

Definition methods_qtnetwork_0_s84 : list signature_row :=
  [
    Sig [VALUE_TYPE_QTNETWORK_QHOSTADDRESS; VALUE_TYPE_QTNETWORK_QNETWORKINTERFACE] "joinMulticastGroup"
        [PValue QHostAddress; PValue QNetworkInterface] RBool [On QUdpSocket];
    Sig [VALUE_TYPE_QTNETWORK_QHOSTADDRESS] "leaveMulticastGroup" [PValue QHostAddress] RBool [On
        QUdpSocket];
    Sig [VALUE_TYPE_QTNETWORK_QHOSTADDRESS; VALUE_TYPE_QTNETWORK_QNETWORKINTERFACE] "leaveMulticastGroup"
        [PValue QHostAddress; PValue QNetworkInterface] RBool [On QUdpSocket];
    Sig [] "listen" [PString true] RBool [On QLocalServer];
    Sig [] "listenBacklogSize" [] RDouble [On QLocalServer; On QTcpServer];
    Sig [TYPE_QTNETWORK_QNETWORKINFORMATION] "load" [PValue QNetworkInformation_Features] RBool [Static
        QNetworkInformation];
    Sig [TYPE_QTNETWORK_QNETWORKINFORMATION] "loadBackendByFeatures" [PValue QNetworkInformation_Features]
        RBool [Static QNetworkInformation];
    Sig [] "loadDefaultBackend" [] RBool [Static QNetworkInformation];
    Sig [VALUE_TYPE_QTNETWORK_QHOSTADDRESS] "localAddress" [] (RValue QHostAddress) [On QAbstractSocket];
    Sig [VALUE_TYPE_QTNETWORK_QSSLCERTIFICATE] "localCertificate" [] (RValue QSslCertificate) [On
        QSslSocket]
  ].

Definition methods_qtnetwork_0_s94 : list signature_row :=
  [
    Sig [VALUE_TYPE_QTNETWORK_QSSLCERTIFICATE] "localCertificateChain" [] (RList (IValue QSslCertificate))
        [On QSslSocket];
    Sig [] "localDomainName" [] RString [Static QHostInfo];
    Sig [] "localHostName" [] RString [Static QHostInfo];
    Sig [] "lookup" [] RVoid [On QDnsLookup];
    Sig [VALUE_TYPE_QTNETWORK_QDNSMAILEXCHANGERECORD] "mailExchangeRecords" [] (RList (IValue
        QDnsMailExchangeRecord)) [On QDnsLookup];
    Sig [TYPE_QTNETWORK_QNETWORKACCESSMANAGER] "manager" [] RObject [On QNetworkReply];
    Sig [] "maxPendingConnections" [] RDouble [On QLocalServer; On QTcpServer];
    Sig [] "maximumCacheSize" [] (RMeta cxx_qint64) [On QNetworkDiskCache];
    Sig [VALUE_TYPE_QTCORE_QURL; VALUE_TYPE_QTNETWORK_QNETWORKCACHEMETADATA] "metaData" [PValue QUrl]
        (RValue QNetworkCacheMetaData) [On QNetworkDiskCache];
    Sig [TYPE_QTNETWORK_QSSLSOCKET] "mode" [] (RMeta QSslSocket_SslMode) [On QSslSocket]
  ].

Definition methods_qtnetwork_0_s104 : list signature_row :=
  [
    Sig [VALUE_TYPE_QTNETWORK_QNETWORKINTERFACE] "multicastInterface" [] (RValue QNetworkInterface) [On
        QUdpSocket];
    Sig [] "name" [] RString [On QDnsLookup];
    Sig [VALUE_TYPE_QTNETWORK_QDNSDOMAINNAMERECORD] "nameServerRecords" [] (RList (IValue
        QDnsDomainNameRecord)) [On QDnsLookup];
    Sig [VALUE_TYPE_QTNETWORK_QHOSTADDRESS] "nameserver" [] (RValue QHostAddress) [On QDnsLookup];
    Sig [TYPE_QTNETWORK_QDNSLOOKUP] "nameserverProtocol" [] (RMeta QDnsLookup_Protocol) [On QDnsLookup];
    Sig [TYPE_QTNETWORK_QNETWORKACCESSMANAGER] "networkAccessManager" [] RObject [On QRestAccessManager];
    Sig [TYPE_QTNETWORK_QLOCALSOCKET] "nextPendingConnection" [] RObject [On QLocalServer];
    Sig [TYPE_QTNETWORK_QTCPSOCKET] "nextPendingConnection" [] RObject [On QTcpServer];
    Sig [VALUE_TYPE_QTNETWORK_QOCSPRESPONSE] "ocspResponses" [] (RList (IValue QOcspResponse)) [On
        QSslSocket];
    Sig [TYPE_QTNETWORK_QNETWORKACCESSMANAGER] "operation" [] (RMeta QNetworkAccessManager_Operation) [On
        QNetworkReply]
  ].

Definition methods_qtnetwork_0_s114 : list signature_row :=
  [
    Sig [TYPE_QTNETWORK_QNETWORKREPLY; VALUE_TYPE_QTCORE_QBYTEARRAY; VALUE_TYPE_QTNETWORK_QNETWORKREQUEST]
        "patch" [PValue QNetworkRequest; PValue QByteArray] RObject [On QRestAccessManager];
    Sig [TYPE_QTCORE_QIODEVICE; TYPE_QTNETWORK_QNETWORKREPLY; VALUE_TYPE_QTNETWORK_QNETWORKREQUEST] "patch"
        [PValue QNetworkRequest; PObject QIODevice false] RObject [On QRestAccessManager];
    Sig [TYPE_QTNETWORK_QNETWORKREPLY; VALUE_TYPE_QTCORE_QJSONDOCUMENT;
        VALUE_TYPE_QTNETWORK_QNETWORKREQUEST] "patch" [PValue QNetworkRequest; PValue QJsonDocument]
        RObject [On QRestAccessManager];
    Sig [] "pauseAccepting" [] RVoid [On QTcpServer];
    Sig [VALUE_TYPE_QTNETWORK_QHOSTADDRESS] "peerAddress" [] (RValue QHostAddress) [On QAbstractSocket];
    Sig [VALUE_TYPE_QTNETWORK_QSSLCERTIFICATE] "peerCertificate" [] (RValue QSslCertificate) [On
        QSslSocket];
    Sig [VALUE_TYPE_QTNETWORK_QSSLCERTIFICATE] "peerCertificateChain" [] (RList (IValue QSslCertificate))
        [On QSslSocket];
    Sig [] "peerName" [] RString [On QAbstractSocket];
    Sig [] "peerVerifyDepth" [] RDouble [On QSslSocket];
    Sig [TYPE_QTNETWORK_QSSLSOCKET] "peerVerifyMode" [] (RMeta QSslSocket_PeerVerifyMode) [On QSslSocket]
  ].

Definition methods_qtnetwork_0_s124 : list signature_row :=
  [
    Sig [] "peerVerifyName" [] RString [On QSslSocket];
    Sig [] "pendingDatagramSize" [] (RMeta cxx_qint64) [On QUdpSocket];
    Sig [VALUE_TYPE_QTNETWORK_QDNSDOMAINNAMERECORD] "pointerRecords" [] (RList (IValue
        QDnsDomainNameRecord)) [On QDnsLookup];
    Sig [TYPE_QTNETWORK_QNETWORKREPLY; VALUE_TYPE_QTCORE_QBYTEARRAY; VALUE_TYPE_QTNETWORK_QNETWORKREQUEST]
        "post" [PValue QNetworkRequest; PValue QByteArray] RObject [On QNetworkAccessManager; On
        QRestAccessManager];
    Sig [TYPE_QTNETWORK_QHTTPMULTIPART; TYPE_QTNETWORK_QNETWORKREPLY; VALUE_TYPE_QTNETWORK_QNETWORKREQUEST]
        "post" [PValue QNetworkRequest; PObject QHttpMultiPart false] RObject [On QNetworkAccessManager; On
        QRestAccessManager];
    Sig [TYPE_QTCORE_QIODEVICE; TYPE_QTNETWORK_QNETWORKREPLY; VALUE_TYPE_QTNETWORK_QNETWORKREQUEST] "post"
        [PValue QNetworkRequest; PObject QIODevice false] RObject [On QNetworkAccessManager; On
        QRestAccessManager];
    Sig [TYPE_QTNETWORK_QNETWORKREPLY; VALUE_TYPE_QTCORE_QJSONDOCUMENT;
        VALUE_TYPE_QTNETWORK_QNETWORKREQUEST] "post" [PValue QNetworkRequest; PValue QJsonDocument] RObject
        [On QRestAccessManager];
    Sig [TYPE_QTCORE_QIODEVICE; VALUE_TYPE_QTNETWORK_QNETWORKCACHEMETADATA] "prepare" [PValue
        QNetworkCacheMetaData] RObject [On QNetworkDiskCache]
  ].

Definition methods_qtnetwork_0_s132 : list signature_row :=
  [
    Sig [VALUE_TYPE_QTNETWORK_QSSLKEY] "privateKey" [] (RValue QSslKey) [On QSslSocket];
    Sig [] "protocolTag" [] RString [On QAbstractSocket];
    Sig [VALUE_TYPE_QTNETWORK_QNETWORKPROXY] "proxy" [] (RValue QNetworkProxy) [On QAbstractSocket; On
        QNetworkAccessManager; On QTcpServer];
    Sig [VALUE_TYPE_QTNETWORK_QNETWORKPROXY; VALUE_TYPE_QTNETWORK_QNETWORKPROXYQUERY] "proxyForQuery"
        [PValue QNetworkProxyQuery] (RList (IValue QNetworkProxy)) [Static QNetworkProxyFactory];
    Sig [TYPE_QTNETWORK_QNETWORKREPLY; VALUE_TYPE_QTCORE_QBYTEARRAY; VALUE_TYPE_QTNETWORK_QNETWORKREQUEST]
        "put" [PValue QNetworkRequest; PValue QByteArray] RObject [On QNetworkAccessManager; On
        QRestAccessManager];
    Sig [TYPE_QTNETWORK_QHTTPMULTIPART; TYPE_QTNETWORK_QNETWORKREPLY; VALUE_TYPE_QTNETWORK_QNETWORKREQUEST]
        "put" [PValue QNetworkRequest; PObject QHttpMultiPart false] RObject [On QNetworkAccessManager; On
        QRestAccessManager];
    Sig [TYPE_QTCORE_QIODEVICE; TYPE_QTNETWORK_QNETWORKREPLY; VALUE_TYPE_QTNETWORK_QNETWORKREQUEST] "put"
        [PValue QNetworkRequest; PObject QIODevice false] RObject [On QNetworkAccessManager; On
        QRestAccessManager]
  ].

Definition methods_qtnetwork_0_s139 : list signature_row :=
  [
    Sig [TYPE_QTNETWORK_QNETWORKREPLY; VALUE_TYPE_QTCORE_QJSONDOCUMENT;
        VALUE_TYPE_QTNETWORK_QNETWORKREQUEST] "put" [PValue QNetworkRequest; PValue QJsonDocument] RObject
        [On QRestAccessManager];
    Sig [VALUE_TYPE_QTCORE_QBYTEARRAY] "rawHeaderList" [] (RList (IValue QByteArray)) [On QNetworkReply];
    Sig [TYPE_QTNETWORK_QNETWORKINFORMATION] "reachability" [] (RMeta QNetworkInformation_Reachability) [On
        QNetworkInformation];
    Sig [] "readBufferSize" [] (RMeta cxx_qint64) [On QAbstractSocket; On QLocalSocket; On QNetworkReply];
    Sig [VALUE_TYPE_QTNETWORK_QNETWORKDATAGRAM] "receiveDatagram" [PMeta cxx_qint64] (RValue
        QNetworkDatagram) [On QUdpSocket];
    Sig [TYPE_QTNETWORK_QNETWORKREQUEST] "redirectPolicy" [] (RMeta QNetworkRequest_RedirectPolicy) [On
        QNetworkAccessManager];
    Sig [VALUE_TYPE_QTCORE_QURL] "remove" [PValue QUrl] RBool [On QNetworkDiskCache];
    Sig [] "removeServer" [PString true] RBool [Static QLocalServer];
    Sig [VALUE_TYPE_QTNETWORK_QNETWORKREQUEST] "request" [] (RValue QNetworkRequest) [On QNetworkReply]
  ].

Definition methods_qtnetwork_0_s148 : list signature_row :=
  [
    Sig [] "resume" [] RVoid [On QAbstractSocket; On QSslSocket];
    Sig [] "resumeAccepting" [] RVoid [On QTcpServer];
    Sig [TYPE_QTNETWORK_QNETWORKREPLY; VALUE_TYPE_QTCORE_QBYTEARRAY; VALUE_TYPE_QTNETWORK_QNETWORKREQUEST]
        "sendCustomRequest" [PValue QNetworkRequest; PValue QByteArray; PValue QByteArray] RObject [On
        QNetworkAccessManager; On QRestAccessManager];
    Sig [TYPE_QTNETWORK_QHTTPMULTIPART; TYPE_QTNETWORK_QNETWORKREPLY; VALUE_TYPE_QTCORE_QBYTEARRAY;
        VALUE_TYPE_QTNETWORK_QNETWORKREQUEST] "sendCustomRequest" [PValue QNetworkRequest; PValue
        QByteArray; PObject QHttpMultiPart false] RObject [On QNetworkAccessManager; On QRestAccessManager];
    Sig [TYPE_QTCORE_QIODEVICE; TYPE_QTNETWORK_QNETWORKREPLY; VALUE_TYPE_QTCORE_QBYTEARRAY;
        VALUE_TYPE_QTNETWORK_QNETWORKREQUEST] "sendCustomRequest" [PValue QNetworkRequest; PValue
        QByteArray; PObject QIODevice false] RObject [On QNetworkAccessManager; On QRestAccessManager];
    Sig [VALUE_TYPE_QTNETWORK_QHOSTADDRESS] "serverAddress" [] (RValue QHostAddress) [On QTcpServer];
    Sig [TYPE_QTNETWORK_QABSTRACTSOCKET] "serverError" [] (RMeta QAbstractSocket_SocketError) [On
        QLocalServer; On QTcpServer];
    Sig [] "serverName" [] RString [On QLocalServer; On QLocalSocket]
  ].

Definition methods_qtnetwork_0_s156 : list signature_row :=
  [
    Sig [VALUE_TYPE_QTNETWORK_QDNSSERVICERECORD] "serviceRecords" [] (RList (IValue QDnsServiceRecord)) [On
        QDnsLookup];
    Sig [VALUE_TYPE_QTNETWORK_QSSLCIPHER] "sessionCipher" [] (RValue QSslCipher) [On QSslSocket];
    Sig [] "setActiveBackend" [PString true] RBool [Static QSslSocket];
    Sig [VALUE_TYPE_QTNETWORK_QNETWORKPROXY] "setApplicationProxy" [PValue QNetworkProxy] RVoid [Static
        QNetworkProxy];
    Sig [] "setAutoDeleteReplies" [PBool] RVoid [On QNetworkAccessManager];
    Sig [VALUE_TYPE_QTCORE_QBYTEARRAY] "setBoundary" [PValue QByteArray] RVoid [On QHttpMultiPart];
    Sig [TYPE_QTNETWORK_QABSTRACTNETWORKCACHE] "setCache" [PObject QAbstractNetworkCache false] RVoid [On
        QNetworkAccessManager];
    Sig [] "setCacheDirectory" [PString true] RVoid [On QNetworkDiskCache];
    Sig [TYPE_QTNETWORK_QHTTPMULTIPART] "setContentType" [PValue QHttpMultiPart_ContentType] RVoid [On
        QHttpMultiPart]
  ].

Definition methods_qtnetwork_0_s165 : list signature_row :=
  [
    Sig [TYPE_QTNETWORK_QNETWORKCOOKIEJAR] "setCookieJar" [PObject QNetworkCookieJar false] RVoid [On
        QNetworkAccessManager];
    Sig [VALUE_TYPE_QTCORE_QURL; VALUE_TYPE_QTNETWORK_QNETWORKCOOKIE] "setCookiesFromUrl" [PList (IValue
        QNetworkCookie); PValue QUrl] RBool [On QNetworkCookieJar];
    Sig [VALUE_TYPE_QTNETWORK_QSSLCONFIGURATION] "setDefaultConfiguration" [PValue QSslConfiguration] RVoid
        [Static QSslConfiguration];
    Sig [VALUE_TYPE_QTNETWORK_QSSLCONFIGURATION] "setDefaultDtlsConfiguration" [PValue QSslConfiguration]
        RVoid [Static QSslConfiguration];
    Sig [] "setHandshakeTimeout" [PInt] RVoid [On QSslServer];
    Sig [] "setListenBacklogSize" [PInt] RVoid [On QLocalServer; On QTcpServer];
    Sig [VALUE_TYPE_QTNETWORK_QSSLCERTIFICATE] "setLocalCertificate" [PValue QSslCertificate] RVoid [On
        QSslSocket];
    Sig [VALUE_TYPE_QTNETWORK_QSSLCERTIFICATE] "setLocalCertificateChain" [PList (IValue QSslCertificate)]
        RVoid [On QSslSocket]
  ].

Definition methods_qtnetwork_0_s173 : list signature_row :=
  [
    Sig [] "setMaxPendingConnections" [PInt] RVoid [On QLocalServer; On QTcpServer];
    Sig [] "setMaximumCacheSize" [PMeta cxx_qint64] RVoid [On QNetworkDiskCache];
    Sig [VALUE_TYPE_QTNETWORK_QNETWORKINTERFACE] "setMulticastInterface" [PValue QNetworkInterface] RVoid
        [On QUdpSocket];
    Sig [] "setName" [PString true] RVoid [On QDnsLookup];
    Sig [VALUE_TYPE_QTNETWORK_QHOSTADDRESS] "setNameserver" [PValue QHostAddress] RVoid [On QDnsLookup];
    Sig [TYPE_QTNETWORK_QDNSLOOKUP] "setNameserverProtocol" [PValue QDnsLookup_Protocol] RVoid [On
        QDnsLookup];
    Sig [] "setPeerVerifyDepth" [PInt] RVoid [On QSslSocket];
    Sig [TYPE_QTNETWORK_QSSLSOCKET] "setPeerVerifyMode" [PValue QSslSocket_PeerVerifyMode] RVoid [On
        QSslSocket];
    Sig [] "setPeerVerifyName" [PString true] RVoid [On QSslSocket]
  ].

Definition methods_qtnetwork_0_s182 : list signature_row :=
  [
    Sig [VALUE_TYPE_QTNETWORK_QSSLKEY] "setPrivateKey" [PValue QSslKey] RVoid [On QSslSocket];
    Sig [] "setProtocolTag" [PString true] RVoid [On QAbstractSocket];
    Sig [VALUE_TYPE_QTNETWORK_QNETWORKPROXY] "setProxy" [PValue QNetworkProxy] RVoid [On QAbstractSocket;
        On QNetworkAccessManager; On QTcpServer];
    Sig [] "setReadBufferSize" [PMeta cxx_qint64] RVoid [On QAbstractSocket; On QLocalSocket; On
        QNetworkReply; On QSslSocket];
    Sig [TYPE_QTNETWORK_QNETWORKREQUEST] "setRedirectPolicy" [PValue QNetworkRequest_RedirectPolicy] RVoid
        [On QNetworkAccessManager];
    Sig [] "setServerName" [PString true] RVoid [On QLocalSocket];
    Sig [TYPE_QTNETWORK_QABSTRACTSOCKET] "setSocketOption" [PValue QAbstractSocket_SocketOption; PVariant]
        RVoid [On QAbstractSocket; On QSslSocket]
  ].

Definition methods_qtnetwork_0_s189 : list signature_row :=
  [
    Sig [TYPE_QTNETWORK_QLOCALSERVER] "setSocketOptions" [PValue QLocalServer_SocketOptions] RVoid [On
        QLocalServer];
    Sig [TYPE_QTNETWORK_QLOCALSOCKET] "setSocketOptions" [PValue QLocalSocket_SocketOptions] RVoid [On
        QLocalSocket];
    Sig [VALUE_TYPE_QTNETWORK_QSSLCONFIGURATION] "setSslConfiguration" [PValue QSslConfiguration] RVoid [On
        QDnsLookup; On QNetworkReply; On QSslServer; On QSslSocket];
    Sig [] "setStrictTransportSecurityEnabled" [PBool] RVoid [On QNetworkAccessManager];
    Sig [] "setTransferTimeout" [PInt] RVoid [On QNetworkAccessManager];
    Sig [TYPE_QTNETWORK_QDNSLOOKUP] "setType" [PValue QDnsLookup_Type] RVoid [On QDnsLookup];
    Sig [] "setUseSystemConfiguration" [PBool] RVoid [Static QNetworkProxyFactory];
    Sig [TYPE_QTNETWORK_QABSTRACTSOCKET] "socketOption" [PValue QAbstractSocket_SocketOption] RVariant [On
        QAbstractSocket; On QSslSocket]
  ].

Definition methods_qtnetwork_0_s197 : list signature_row :=
  [
    Sig [TYPE_QTNETWORK_QLOCALSERVER] "socketOptions" [] (RMeta QLocalServer_SocketOptions) [On
        QLocalServer];
    Sig [TYPE_QTNETWORK_QLOCALSOCKET] "socketOptions" [] (RMeta QLocalSocket_SocketOptions) [On
        QLocalSocket];
    Sig [TYPE_QTNETWORK_QABSTRACTSOCKET] "socketType" [] (RMeta QAbstractSocket_SocketType) [On
        QAbstractSocket];
    Sig [VALUE_TYPE_QTNETWORK_QSSLCONFIGURATION] "sslConfiguration" [] (RValue QSslConfiguration) [On
        QDnsLookup; On QNetworkReply; On QSslServer; On QSslSocket];
    Sig [VALUE_TYPE_QTNETWORK_QSSLERROR] "sslHandshakeErrors" [] (RList (IValue QSslError)) [On QSslSocket];
    Sig [] "sslLibraryBuildVersionString" [] RString [Static QSslSocket];
    Sig [] "sslLibraryVersionString" [] RString [Static QSslSocket];
    Sig [] "startClientEncryption" [] RVoid [On QSslSocket];
    Sig [] "startServerEncryption" [] RVoid [On QSslSocket];
    Sig [TYPE_QTNETWORK_QABSTRACTSOCKET] "state" [] (RMeta QAbstractSocket_SocketState) [On QAbstractSocket]
  ].

Definition methods_qtnetwork_0_s207 : list signature_row :=
  [
    Sig [TYPE_QTNETWORK_QLOCALSOCKET] "state" [] (RMeta QLocalSocket_LocalSocketState) [On QLocalSocket];
    Sig [VALUE_TYPE_QTNETWORK_QHSTSPOLICY] "strictTransportSecurityHosts" [] (RList (IValue QHstsPolicy))
        [On QNetworkAccessManager];
    Sig [VALUE_TYPE_QTNETWORK_QSSLCIPHER] "supportedCiphers" [] (RList (IValue QSslCipher)) [Static
        QSslConfiguration];
    Sig [VALUE_TYPE_QTNETWORK_QSSLELLIPTICCURVE] "supportedEllipticCurves" [] (RList (IValue
        QSslEllipticCurve)) [Static QSslConfiguration];
    Sig [TYPE_QTNETWORK_QNETWORKINFORMATION] "supportedFeatures" [] (RMeta QNetworkInformation_Features)
        [On QNetworkInformation];
    Sig [] "supportedSchemes" [] (RList (IMeta QString)) [On QNetworkAccessManager];
    Sig [TYPE_QTNETWORK_QNETWORKINFORMATION] "supports" [PValue QNetworkInformation_Features] RBool [On
        QNetworkInformation];
    Sig [] "supportsSsl" [] RBool [Static QSslSocket];
    Sig [VALUE_TYPE_QTNETWORK_QSSLCERTIFICATE] "systemCaCertificates" [] (RList (IValue QSslCertificate))
        [Static QSslConfiguration]
  ].

Definition methods_qtnetwork_0_s216 : list signature_row :=
  [
    Sig [VALUE_TYPE_QTNETWORK_QNETWORKPROXY; VALUE_TYPE_QTNETWORK_QNETWORKPROXYQUERY] "systemProxyForQuery"
        [PValue QNetworkProxyQuery] (RList (IValue QNetworkProxy)) [Static QNetworkProxyFactory];
    Sig [VALUE_TYPE_QTNETWORK_QDNSTEXTRECORD] "textRecords" [] (RList (IValue QDnsTextRecord)) [On
        QDnsLookup];
    Sig [VALUE_TYPE_QTNETWORK_QDNSTLSASSOCIATIONRECORD] "tlsAssociationRecords" [] (RList (IValue
        QDnsTlsAssociationRecord)) [On QDnsLookup];
    Sig [] "transferTimeout" [] RDouble [On QNetworkAccessManager];
    Sig [TYPE_QTNETWORK_QNETWORKINFORMATION] "transportMedium" [] (RMeta
        QNetworkInformation_TransportMedium) [On QNetworkInformation];
    Sig [TYPE_QTNETWORK_QDNSLOOKUP] "type" [] (RMeta QDnsLookup_Type) [On QDnsLookup];
    Sig [VALUE_TYPE_QTNETWORK_QNETWORKCOOKIE] "updateCookie" [PValue QNetworkCookie] RBool [On
        QNetworkCookieJar];
    Sig [VALUE_TYPE_QTNETWORK_QNETWORKCACHEMETADATA] "updateMetaData" [PValue QNetworkCacheMetaData] RVoid
        [On QNetworkDiskCache];
    Sig [VALUE_TYPE_QTCORE_QURL] "url" [] (RValue QUrl) [On QNetworkReply];
    Sig [] "usesSystemConfiguration" [] RBool [Static QNetworkProxyFactory]
  ].

Definition methods_qtnetwork_0_s226 : list signature_row :=
  [
    Sig [VALUE_TYPE_QTNETWORK_QSSLCERTIFICATE; VALUE_TYPE_QTNETWORK_QSSLERROR] "verify" [PList (IValue
        QSslCertificate); PString true] (RList (IValue QSslError)) [Static QSslCertificate];
    Sig [] "waitForBytesWritten" [PInt] RBool [On QAbstractSocket; On QLocalSocket; On QSslSocket];
    Sig [] "waitForConnected" [PInt] RBool [On QAbstractSocket; On QLocalSocket; On QSslSocket];
    Sig [] "waitForDisconnected" [PInt] RBool [On QAbstractSocket; On QLocalSocket; On QSslSocket];
    Sig [] "waitForEncrypted" [PInt] RBool [On QSslSocket];
    Sig [] "waitForReadyRead" [PInt] RBool [On QAbstractSocket; On QLocalSocket; On QSslSocket];
    Sig [VALUE_TYPE_QTNETWORK_QNETWORKDATAGRAM] "writeDatagram" [PValue QNetworkDatagram] (RMeta
        cxx_qint64) [On QUdpSocket]
  ].

Definition methods_qtnetwork_0 : method_shard :=
  MethodShard QtNetwork "KRY_QT6_NATIVE_METHODS_QTNETWORK_"
    (methods_qtnetwork_0_i0 ++ methods_qtnetwork_0_i1)
    (methods_qtnetwork_0_s0 ++ methods_qtnetwork_0_s9 ++ methods_qtnetwork_0_s19 ++ methods_qtnetwork_0_s28
        ++ methods_qtnetwork_0_s37 ++ methods_qtnetwork_0_s47 ++ methods_qtnetwork_0_s55 ++
        methods_qtnetwork_0_s64 ++ methods_qtnetwork_0_s74 ++ methods_qtnetwork_0_s84 ++
        methods_qtnetwork_0_s94 ++ methods_qtnetwork_0_s104 ++ methods_qtnetwork_0_s114 ++
        methods_qtnetwork_0_s124 ++ methods_qtnetwork_0_s132 ++ methods_qtnetwork_0_s139 ++
        methods_qtnetwork_0_s148 ++ methods_qtnetwork_0_s156 ++ methods_qtnetwork_0_s165 ++
        methods_qtnetwork_0_s173 ++ methods_qtnetwork_0_s182 ++ methods_qtnetwork_0_s189 ++
        methods_qtnetwork_0_s197 ++ methods_qtnetwork_0_s207 ++ methods_qtnetwork_0_s216 ++
        methods_qtnetwork_0_s226)
    [].

Definition methods_qtnetworkauth_0_i0 : list include :=
  [
    ClassInclude QtNetworkAuth QAbstractOAuth QAbstractOAuth;
    ClassInclude QtNetworkAuth QAbstractOAuth2 QAbstractOAuth2;
    ClassInclude QtNetworkAuth QOAuth1 QOAuth1;
    ClassInclude QtNetworkAuth QOAuth1Signature QOAuth1Signature;
    ClassInclude QtNetworkAuth QOAuth2AuthorizationCodeFlow QOAuth2AuthorizationCodeFlow;
    ClassInclude QtNetworkAuth QOAuthHttpServerReplyHandler QOAuthHttpServerReplyHandler;
    ClassInclude QtNetworkAuth QOAuthOobReplyHandler QOAuthOobReplyHandler;
    TypeInclude QtNetwork QHttpMultiPart TYPE_QTNETWORK_QHTTPMULTIPART;
    TypeInclude QtNetwork QNetworkAccessManager TYPE_QTNETWORK_QNETWORKACCESSMANAGER;
    TypeInclude QtNetwork QNetworkReply TYPE_QTNETWORK_QNETWORKREPLY;
    TypeInclude QtNetworkAuth QAbstractOAuthReplyHandler TYPE_QTNETWORKAUTH_QABSTRACTOAUTHREPLYHANDLER;
    TypeInclude QtNetworkAuth QAbstractOAuth TYPE_QTNETWORKAUTH_QABSTRACTOAUTH;
    TypeInclude QtNetworkAuth QOAuth1 TYPE_QTNETWORKAUTH_QOAUTH1;
    TypeInclude QtCore QByteArray VALUE_TYPE_QTCORE_QBYTEARRAY;
    TypeInclude QtCore QDateTime VALUE_TYPE_QTCORE_QDATETIME;
    TypeInclude QtCore QUrl VALUE_TYPE_QTCORE_QURL
  ].

Definition methods_qtnetworkauth_0_s0 : list signature_row :=
  [
    Sig [VALUE_TYPE_QTCORE_QURL] "accessTokenUrl" [] (RValue QUrl) [On QOAuth2AuthorizationCodeFlow];
    Sig [VALUE_TYPE_QTCORE_QURL] "authorizationUrl" [] (RValue QUrl) [On QAbstractOAuth];
    Sig [] "callback" [] RString [On QOAuthHttpServerReplyHandler; On QOAuthOobReplyHandler];
    Sig [] "callbackPath" [] RString [On QOAuthHttpServerReplyHandler];
    Sig [] "callbackText" [] RString [On QOAuthHttpServerReplyHandler];
    Sig [] "clientIdentifier" [] RString [On QAbstractOAuth];
    Sig [] "clientIdentifierSharedKey" [] RString [On QAbstractOAuth2];
    Sig [] "clientSharedSecret" [] RString [On QOAuth1];
    Sig [] "close" [] RVoid [On QOAuthHttpServerReplyHandler];
    Sig [TYPE_QTNETWORKAUTH_QABSTRACTOAUTH] "contentType" [] (RMeta QAbstractOAuth_ContentType) [On
        QAbstractOAuth];
    Sig [] "continueGrantWithVerifier" [PString true] RVoid [On QOAuth1]
  ].

Definition methods_qtnetworkauth_0_s11 : list signature_row :=
  [
    Sig [VALUE_TYPE_QTCORE_QDATETIME] "expirationAt" [] (RValue QDateTime) [On QAbstractOAuth2];
    Sig [] "extraTokens" [] (RMap QVariantMap IVariant) [On QAbstractOAuth];
    Sig [] "grant" [] RVoid [On QOAuth1; On QOAuth2AuthorizationCodeFlow];
    Sig [] "isListening" [] RBool [On QOAuthHttpServerReplyHandler];
    Sig [TYPE_QTNETWORK_QNETWORKACCESSMANAGER] "networkAccessManager" [] RObject [On QAbstractOAuth];
    Sig [VALUE_TYPE_QTCORE_QBYTEARRAY] "plainText" [PString true; PString true] (RValue QByteArray) [Static
        QOAuth1Signature];
    Sig [TYPE_QTNETWORK_QNETWORKREPLY; VALUE_TYPE_QTCORE_QBYTEARRAY; VALUE_TYPE_QTCORE_QURL] "post" [PValue
        QUrl; PValue QByteArray] RObject [On QAbstractOAuth2];
    Sig [TYPE_QTNETWORK_QHTTPMULTIPART; TYPE_QTNETWORK_QNETWORKREPLY; VALUE_TYPE_QTCORE_QURL] "post"
        [PValue QUrl; PObject QHttpMultiPart false] RObject [On QAbstractOAuth2];
    Sig [TYPE_QTNETWORK_QNETWORKREPLY; VALUE_TYPE_QTCORE_QBYTEARRAY; VALUE_TYPE_QTCORE_QURL] "put" [PValue
        QUrl; PValue QByteArray] RObject [On QAbstractOAuth2]
  ].

Definition methods_qtnetworkauth_0_s20 : list signature_row :=
  [
    Sig [TYPE_QTNETWORK_QHTTPMULTIPART; TYPE_QTNETWORK_QNETWORKREPLY; VALUE_TYPE_QTCORE_QURL] "put" [PValue
        QUrl; PObject QHttpMultiPart false] RObject [On QAbstractOAuth2];
    Sig [] "refreshAccessToken" [] RVoid [On QOAuth2AuthorizationCodeFlow];
    Sig [] "refreshToken" [] RString [On QAbstractOAuth2];
    Sig [TYPE_QTNETWORKAUTH_QABSTRACTOAUTHREPLYHANDLER] "replyHandler" [] RObject [On QAbstractOAuth];
    Sig [] "responseType" [] RString [On QAbstractOAuth2];
    Sig [] "scope" [] RString [On QAbstractOAuth2];
    Sig [VALUE_TYPE_QTCORE_QURL] "setAccessTokenUrl" [PValue QUrl] RVoid [On QOAuth2AuthorizationCodeFlow];
    Sig [VALUE_TYPE_QTCORE_QURL] "setAuthorizationUrl" [PValue QUrl] RVoid [On QAbstractOAuth];
    Sig [] "setCallbackPath" [PString true] RVoid [On QOAuthHttpServerReplyHandler];
    Sig [] "setCallbackText" [PString true] RVoid [On QOAuthHttpServerReplyHandler]
  ].

Definition methods_qtnetworkauth_0_s30 : list signature_row :=
  [
    Sig [] "setClientCredentials" [PString true; PString true] RVoid [On QOAuth1];
    Sig [] "setClientIdentifier" [PString true] RVoid [On QAbstractOAuth];
    Sig [] "setClientIdentifierSharedKey" [PString true] RVoid [On QAbstractOAuth2];
    Sig [] "setClientSharedSecret" [PString true] RVoid [On QOAuth1];
    Sig [TYPE_QTNETWORKAUTH_QABSTRACTOAUTH] "setContentType" [PValue QAbstractOAuth_ContentType] RVoid [On
        QAbstractOAuth];
    Sig [TYPE_QTNETWORK_QNETWORKACCESSMANAGER] "setNetworkAccessManager" [PObject QNetworkAccessManager
        false] RVoid [On QAbstractOAuth];
    Sig [] "setRefreshToken" [PString true] RVoid [On QAbstractOAuth2];
    Sig [TYPE_QTNETWORKAUTH_QABSTRACTOAUTHREPLYHANDLER] "setReplyHandler" [PObject
        QAbstractOAuthReplyHandler false] RVoid [On QAbstractOAuth];
    Sig [] "setScope" [PString true] RVoid [On QAbstractOAuth2];
    Sig [TYPE_QTNETWORKAUTH_QOAUTH1] "setSignatureMethod" [PValue QOAuth1_SignatureMethod] RVoid [On
        QOAuth1]
  ].

Definition methods_qtnetworkauth_0_s40 : list signature_row :=
  [
    Sig [] "setState" [PString true] RVoid [On QAbstractOAuth2];
    Sig [VALUE_TYPE_QTCORE_QURL] "setTemporaryCredentialsUrl" [PValue QUrl] RVoid [On QOAuth1];
    Sig [] "setToken" [PString true] RVoid [On QAbstractOAuth];
    Sig [] "setTokenCredentials" [PString true; PString true] RVoid [On QOAuth1];
    Sig [VALUE_TYPE_QTCORE_QURL] "setTokenCredentialsUrl" [PValue QUrl] RVoid [On QOAuth1];
    Sig [] "setTokenSecret" [PString true] RVoid [On QOAuth1];
    Sig [] "setUserAgent" [PString true] RVoid [On QAbstractOAuth2];
    Sig [TYPE_QTNETWORKAUTH_QOAUTH1] "signatureMethod" [] (RMeta QOAuth1_SignatureMethod) [On QOAuth1];
    Sig [] "state" [] RString [On QAbstractOAuth2];
    Sig [TYPE_QTNETWORKAUTH_QABSTRACTOAUTH] "status" [] (RMeta QAbstractOAuth_Status) [On QAbstractOAuth]
  ].

Definition methods_qtnetworkauth_0_s50 : list signature_row :=
  [
    Sig [VALUE_TYPE_QTCORE_QURL] "temporaryCredentialsUrl" [] (RValue QUrl) [On QOAuth1];
    Sig [] "token" [] RString [On QAbstractOAuth];
    Sig [VALUE_TYPE_QTCORE_QURL] "tokenCredentialsUrl" [] (RValue QUrl) [On QOAuth1];
    Sig [] "tokenSecret" [] RString [On QOAuth1];
    Sig [] "userAgent" [] RString [On QAbstractOAuth2]
  ].

Definition methods_qtnetworkauth_0 : method_shard :=
  MethodShard QtNetworkAuth "KRY_QT6_NATIVE_METHODS_QTNETWORKAUTH_"
    (methods_qtnetworkauth_0_i0)
    (methods_qtnetworkauth_0_s0 ++ methods_qtnetworkauth_0_s11 ++ methods_qtnetworkauth_0_s20 ++
        methods_qtnetworkauth_0_s30 ++ methods_qtnetworkauth_0_s40 ++ methods_qtnetworkauth_0_s50)
    [].

Definition methods_qtnfc_0_i0 : list include :=
  [
    ClassInclude QtNfc QNdefMessage QNdefMessage;
    ClassInclude QtNfc QNearFieldManager QNearFieldManager;
    ClassInclude QtNfc QNearFieldTarget QNearFieldTarget;
    TypeInclude QtNfc QNearFieldTarget TYPE_QTNFC_QNEARFIELDTARGET;
    TypeInclude QtCore QByteArray VALUE_TYPE_QTCORE_QBYTEARRAY;
    TypeInclude QtNfc QNdefMessage VALUE_TYPE_QTNFC_QNDEFMESSAGE
  ].

Definition methods_qtnfc_0_s0 : list signature_row :=
  [
    Sig [TYPE_QTNFC_QNEARFIELDTARGET] "accessMethods" [] (RMeta QNearFieldTarget_AccessMethods) [On
        QNearFieldTarget];
    Sig [] "disconnect" [] RBool [On QNearFieldTarget];
    Sig [VALUE_TYPE_QTCORE_QBYTEARRAY; VALUE_TYPE_QTNFC_QNDEFMESSAGE] "fromByteArray" [PValue QByteArray]
        (RValue QNdefMessage) [Static QNdefMessage];
    Sig [] "hasNdefMessage" [] RBool [On QNearFieldTarget];
    Sig [] "isEnabled" [] RBool [On QNearFieldManager];
    Sig [TYPE_QTNFC_QNEARFIELDTARGET] "isSupported" [PValue QNearFieldTarget_AccessMethod] RBool [On
        QNearFieldManager];
    Sig [] "maxCommandLength" [] RDouble [On QNearFieldTarget];
    Sig [TYPE_QTNFC_QNEARFIELDTARGET] "readNdefMessages" [] (RMeta QNearFieldTarget_RequestId) [On
        QNearFieldTarget];
    Sig [TYPE_QTNFC_QNEARFIELDTARGET] "requestResponse" [PValue QNearFieldTarget_RequestId] RVariant [On
        QNearFieldTarget];
    Sig [TYPE_QTNFC_QNEARFIELDTARGET; VALUE_TYPE_QTCORE_QBYTEARRAY] "sendCommand" [PValue QByteArray]
        (RMeta QNearFieldTarget_RequestId) [On QNearFieldTarget];
    Sig [] "setUserInformation" [PString true] RVoid [On QNearFieldManager]
  ].

Definition methods_qtnfc_0_s11 : list signature_row :=
  [
    Sig [TYPE_QTNFC_QNEARFIELDTARGET] "startTargetDetection" [PValue QNearFieldTarget_AccessMethod] RBool
        [On QNearFieldManager];
    Sig [] "stopTargetDetection" [PString true] RVoid [On QNearFieldManager];
    Sig [TYPE_QTNFC_QNEARFIELDTARGET] "type" [] (RMeta QNearFieldTarget_Type) [On QNearFieldTarget];
    Sig [VALUE_TYPE_QTCORE_QBYTEARRAY] "uid" [] (RValue QByteArray) [On QNearFieldTarget];
    Sig [TYPE_QTNFC_QNEARFIELDTARGET] "waitForRequestCompleted" [PValue QNearFieldTarget_RequestId; PInt]
        RBool [On QNearFieldTarget];
    Sig [TYPE_QTNFC_QNEARFIELDTARGET; VALUE_TYPE_QTNFC_QNDEFMESSAGE] "writeNdefMessages" [PList (IValue
        QNdefMessage)] (RMeta QNearFieldTarget_RequestId) [On QNearFieldTarget]
  ].

Definition methods_qtnfc_0 : method_shard :=
  MethodShard QtNfc "KRY_QT6_NATIVE_METHODS_QTNFC_"
    (methods_qtnfc_0_i0)
    (methods_qtnfc_0_s0 ++ methods_qtnfc_0_s11)
    [].

Definition methods_qtpositioning_0_i0 : list include :=
  [
    ClassInclude QtPositioning QGeoAreaMonitorSource QGeoAreaMonitorSource;
    ClassInclude QtPositioning QGeoPositionInfoSource QGeoPositionInfoSource;
    ClassInclude QtPositioning QGeoSatelliteInfoSource QGeoSatelliteInfoSource;
    ClassInclude QtPositioning QNmeaPositionInfoSource QNmeaPositionInfoSource;
    ClassInclude QtPositioning QNmeaSatelliteInfoSource QNmeaSatelliteInfoSource;
    TypeInclude QtCore QIODevice TYPE_QTCORE_QIODEVICE;
    TypeInclude QtCore QObject TYPE_QTCORE_QOBJECT;
    TypeInclude QtPositioning QGeoAreaMonitorSource TYPE_QTPOSITIONING_QGEOAREAMONITORSOURCE;
    TypeInclude QtPositioning QGeoPositionInfoSource TYPE_QTPOSITIONING_QGEOPOSITIONINFOSOURCE;
    TypeInclude QtPositioning QGeoSatelliteInfoSource TYPE_QTPOSITIONING_QGEOSATELLITEINFOSOURCE;
    TypeInclude QtPositioning QGeoPositionInfoSource TYPE_QTPOSITIONING_QGEOPOSITIONINFOSOURCE;
    TypeInclude QtPositioning QGeoSatelliteInfoSource TYPE_QTPOSITIONING_QGEOSATELLITEINFOSOURCE;
    TypeInclude QtPositioning QNmeaPositionInfoSource TYPE_QTPOSITIONING_QNMEAPOSITIONINFOSOURCE;
    TypeInclude QtPositioning QNmeaSatelliteInfoSource TYPE_QTPOSITIONING_QNMEASATELLITEINFOSOURCE;
    TypeInclude QtPositioning QGeoPositionInfo VALUE_TYPE_QTPOSITIONING_QGEOPOSITIONINFO
  ].

Definition methods_qtpositioning_0_s0 : list signature_row :=
  [
    Sig [] "availableSources" [] (RList (IMeta QString)) [Static QGeoAreaMonitorSource; Static
        QGeoPositionInfoSource; Static QGeoSatelliteInfoSource];
    Sig [] "backendProperty" [PString true] RVariant [On QGeoAreaMonitorSource; On QGeoPositionInfoSource;
        On QGeoSatelliteInfoSource; On QNmeaSatelliteInfoSource];
    Sig [TYPE_QTCORE_QOBJECT; TYPE_QTPOSITIONING_QGEOAREAMONITORSOURCE] "createDefaultSource" [PObject
        QObject false] RObject [Static QGeoAreaMonitorSource];
    Sig [TYPE_QTCORE_QOBJECT; TYPE_QTPOSITIONING_QGEOPOSITIONINFOSOURCE] "createDefaultSource" [PObject
        QObject false] RObject [Static QGeoPositionInfoSource];
    Sig [TYPE_QTCORE_QOBJECT; TYPE_QTPOSITIONING_QGEOSATELLITEINFOSOURCE] "createDefaultSource" [PObject
        QObject false] RObject [Static QGeoSatelliteInfoSource];
    Sig [TYPE_QTCORE_QOBJECT; TYPE_QTPOSITIONING_QGEOAREAMONITORSOURCE] "createSource" [PString true;
        PObject QObject false] RObject [Static QGeoAreaMonitorSource];
    Sig [TYPE_QTCORE_QOBJECT; TYPE_QTPOSITIONING_QGEOPOSITIONINFOSOURCE] "createSource" [PString true;
        PObject QObject false] RObject [Static QGeoPositionInfoSource]
  ].

Definition methods_qtpositioning_0_s7 : list signature_row :=
  [
    Sig [TYPE_QTCORE_QOBJECT; TYPE_QTPOSITIONING_QGEOSATELLITEINFOSOURCE] "createSource" [PString true;
        PObject QObject false] RObject [Static QGeoSatelliteInfoSource];
    Sig [TYPE_QTCORE_QIODEVICE] "device" [] RObject [On QNmeaPositionInfoSource; On
        QNmeaSatelliteInfoSource];
    Sig [TYPE_QTPOSITIONING_QGEOPOSITIONINFOSOURCE] "error" [] (RMeta QGeoPositionInfoSource_Error) [On
        QNmeaPositionInfoSource];
    Sig [TYPE_QTPOSITIONING_QGEOSATELLITEINFOSOURCE] "error" [] (RMeta QGeoSatelliteInfoSource_Error) [On
        QNmeaSatelliteInfoSource];
    Sig [VALUE_TYPE_QTPOSITIONING_QGEOPOSITIONINFO] "lastKnownPosition" [PBool] (RValue QGeoPositionInfo)
        [On QNmeaPositionInfoSource];
    Sig [] "minimumUpdateInterval" [] RDouble [On QNmeaPositionInfoSource; On QNmeaSatelliteInfoSource];
    Sig [TYPE_QTPOSITIONING_QGEOPOSITIONINFOSOURCE] "positionInfoSource" [] RObject [On
        QGeoAreaMonitorSource];
    Sig [] "requestUpdate" [PInt] RVoid [On QNmeaPositionInfoSource; On QNmeaSatelliteInfoSource]
  ].

Definition methods_qtpositioning_0_s15 : list signature_row :=
  [
    Sig [] "setBackendProperty" [PString true; PVariant] RBool [On QGeoAreaMonitorSource; On
        QGeoPositionInfoSource; On QGeoSatelliteInfoSource; On QNmeaSatelliteInfoSource];
    Sig [TYPE_QTCORE_QIODEVICE] "setDevice" [PObject QIODevice false] RVoid [On QNmeaPositionInfoSource; On
        QNmeaSatelliteInfoSource];
    Sig [TYPE_QTPOSITIONING_QGEOPOSITIONINFOSOURCE] "setPositionInfoSource" [PObject QGeoPositionInfoSource
        false] RVoid [On QGeoAreaMonitorSource];
    Sig [] "setUpdateInterval" [PInt] RVoid [On QGeoPositionInfoSource; On QGeoSatelliteInfoSource; On
        QNmeaPositionInfoSource; On QNmeaSatelliteInfoSource];
    Sig [] "setUserEquivalentRangeError" [PNumber cxx_double] RVoid [On QNmeaPositionInfoSource];
    Sig [] "sourceName" [] RString [On QGeoAreaMonitorSource; On QGeoPositionInfoSource; On
        QGeoSatelliteInfoSource];
    Sig [] "startUpdates" [] RVoid [On QNmeaPositionInfoSource; On QNmeaSatelliteInfoSource]
  ].

Definition methods_qtpositioning_0_s22 : list signature_row :=
  [
    Sig [] "stopUpdates" [] RVoid [On QNmeaPositionInfoSource; On QNmeaSatelliteInfoSource];
    Sig [] "updateInterval" [] RDouble [On QGeoPositionInfoSource; On QGeoSatelliteInfoSource];
    Sig [TYPE_QTPOSITIONING_QNMEAPOSITIONINFOSOURCE] "updateMode" [] (RMeta
        QNmeaPositionInfoSource_UpdateMode) [On QNmeaPositionInfoSource];
    Sig [TYPE_QTPOSITIONING_QNMEASATELLITEINFOSOURCE] "updateMode" [] (RMeta
        QNmeaSatelliteInfoSource_UpdateMode) [On QNmeaSatelliteInfoSource];
    Sig [] "userEquivalentRangeError" [] RDouble [On QNmeaPositionInfoSource]
  ].

Definition methods_qtpositioning_0 : method_shard :=
  MethodShard QtPositioning "KRY_QT6_NATIVE_METHODS_QTPOSITIONING_"
    (methods_qtpositioning_0_i0)
    (methods_qtpositioning_0_s0 ++ methods_qtpositioning_0_s7 ++ methods_qtpositioning_0_s15 ++
        methods_qtpositioning_0_s22)
    [].

Definition methods_qtremoteobjects_0_i0 : list include :=
  [
    ClassInclude QtRemoteObjects QAbstractItemModelReplica QAbstractItemModelReplica;
    ClassInclude QtRemoteObjects QRemoteObjectHost QRemoteObjectHost;
    ClassInclude QtRemoteObjects QRemoteObjectHostBase QRemoteObjectHostBase;
    ClassInclude QtRemoteObjects QRemoteObjectNode QRemoteObjectNode;
    ClassInclude QtRemoteObjects QRemoteObjectRegistryHost QRemoteObjectRegistryHost;
    ClassInclude QtRemoteObjects QRemoteObjectReplica QRemoteObjectReplica;
    TypeInclude QtCore QAbstractItemModel TYPE_QTCORE_QABSTRACTITEMMODEL;
    TypeInclude QtCore QIODevice TYPE_QTCORE_QIODEVICE;
    TypeInclude QtCore QItemSelectionModel TYPE_QTCORE_QITEMSELECTIONMODEL;
    TypeInclude QtCore QObject TYPE_QTCORE_QOBJECT;
    TypeInclude QtRemoteObjects QRemoteObjectAbstractPersistedStore
        TYPE_QTREMOTEOBJECTS_QREMOTEOBJECTABSTRACTPERSISTEDSTORE;
    TypeInclude QtRemoteObjects QRemoteObjectDynamicReplica
        TYPE_QTREMOTEOBJECTS_QREMOTEOBJECTDYNAMICREPLICA;
    TypeInclude QtRemoteObjects QRemoteObjectNode TYPE_QTREMOTEOBJECTS_QREMOTEOBJECTNODE;
    TypeInclude QtRemoteObjects QRemoteObjectRegistry TYPE_QTREMOTEOBJECTS_QREMOTEOBJECTREGISTRY;
    EnumDefine ENUM_QT_ORIENTATION;
    TypeInclude QtNetwork QLocalServer TYPE_QTNETWORK_QLOCALSERVER;
    TypeInclude QtRemoteObjects QRemoteObjectHostBase TYPE_QTREMOTEOBJECTS_QREMOTEOBJECTHOSTBASE;
    TypeInclude QtRemoteObjects QRemoteObjectNode TYPE_QTREMOTEOBJECTS_QREMOTEOBJECTNODE;
    TypeInclude QtRemoteObjects QRemoteObjectReplica TYPE_QTREMOTEOBJECTS_QREMOTEOBJECTREPLICA;
    TypeInclude QtCore QModelIndex VALUE_TYPE_QTCORE_QMODELINDEX;
    TypeInclude QtCore QUrl VALUE_TYPE_QTCORE_QURL
  ].

Definition methods_qtremoteobjects_0_s0 : list signature_row :=
  [
    Sig [TYPE_QTREMOTEOBJECTS_QREMOTEOBJECTDYNAMICREPLICA] "acquireDynamic" [PString true] RObject [On
        QRemoteObjectNode];
    Sig [TYPE_QTCORE_QIODEVICE] "addClientSideConnection" [PObject QIODevice false] RVoid [On
        QRemoteObjectNode];
    Sig [TYPE_QTCORE_QIODEVICE] "addHostSideConnection" [PObject QIODevice false] RVoid [On
        QRemoteObjectHostBase];
    Sig [] "availableRoles" [] (RList (IMeta cxx_int)) [On QAbstractItemModelReplica];
    Sig [VALUE_TYPE_QTCORE_QMODELINDEX] "columnCount" [PValue QModelIndex] RDouble [On
        QAbstractItemModelReplica];
    Sig [VALUE_TYPE_QTCORE_QURL] "connectToNode" [PValue QUrl] RBool [On QRemoteObjectNode];
    Sig [VALUE_TYPE_QTCORE_QMODELINDEX] "data" [PValue QModelIndex; PInt] RVariant [On
        QAbstractItemModelReplica];
    Sig [TYPE_QTCORE_QOBJECT] "disableRemoting" [PObject QObject false] RBool [On QRemoteObjectHostBase];
    Sig [TYPE_QTCORE_QABSTRACTITEMMODEL; TYPE_QTCORE_QITEMSELECTIONMODEL] "enableRemoting" [PObject
        QAbstractItemModel false; PString true; PList (IMeta cxx_int); PObject QItemSelectionModel false]
        RBool [On QRemoteObjectHostBase]
  ].

Definition methods_qtremoteobjects_0_s9 : list signature_row :=
  [
    Sig [TYPE_QTCORE_QOBJECT] "enableRemoting" [PObject QObject false; PString true] RBool [On
        QRemoteObjectHostBase];
    Sig [VALUE_TYPE_QTCORE_QMODELINDEX] "hasChildren" [PValue QModelIndex] RBool [On
        QAbstractItemModelReplica];
    Sig [VALUE_TYPE_QTCORE_QMODELINDEX] "hasData" [PValue QModelIndex; PInt] RBool [On
        QAbstractItemModelReplica];
    Sig [ENUM_QT_ORIENTATION] "headerData" [PInt; PValue Qt_Orientation; PInt] RVariant [On
        QAbstractItemModelReplica];
    Sig [] "heartbeatInterval" [] RDouble [On QRemoteObjectNode];
    Sig [VALUE_TYPE_QTCORE_QURL] "hostUrl" [] (RValue QUrl) [On QRemoteObjectHost];
    Sig [VALUE_TYPE_QTCORE_QMODELINDEX] "index" [PInt; PInt; PValue QModelIndex] (RValue QModelIndex) [On
        QAbstractItemModelReplica];
    Sig [] "isInitialized" [] RBool [On QAbstractItemModelReplica; On QRemoteObjectReplica];
    Sig [] "isReplicaValid" [] RBool [On QRemoteObjectReplica]
  ].

Definition methods_qtremoteobjects_0_s18 : list signature_row :=
  [
    Sig [TYPE_QTREMOTEOBJECTS_QREMOTEOBJECTNODE] "lastError" [] (RMeta QRemoteObjectNode_ErrorCode) [On
        QRemoteObjectNode];
    Sig [TYPE_QTREMOTEOBJECTS_QREMOTEOBJECTNODE] "node" [] RObject [On QRemoteObjectReplica];
    Sig [VALUE_TYPE_QTCORE_QMODELINDEX] "parent" [PValue QModelIndex] (RValue QModelIndex) [On
        QAbstractItemModelReplica];
    Sig [TYPE_QTREMOTEOBJECTS_QREMOTEOBJECTABSTRACTPERSISTEDSTORE] "persistedStore" [] RObject [On
        QRemoteObjectNode];
    Sig [VALUE_TYPE_QTCORE_QURL] "proxy" [PValue QUrl; PValue QUrl] RBool [On QRemoteObjectHostBase];
    Sig [TYPE_QTREMOTEOBJECTS_QREMOTEOBJECTREGISTRY] "registry" [] RObject [On QRemoteObjectNode];
    Sig [VALUE_TYPE_QTCORE_QURL] "registryUrl" [] (RValue QUrl) [On QRemoteObjectNode];
    Sig [] "reverseProxy" [] RBool [On QRemoteObjectHostBase];
    Sig [VALUE_TYPE_QTCORE_QMODELINDEX] "rowCount" [PValue QModelIndex] RDouble [On
        QAbstractItemModelReplica];
    Sig [TYPE_QTCORE_QITEMSELECTIONMODEL] "selectionModel" [] RObject [On QAbstractItemModelReplica]
  ].

Definition methods_qtremoteobjects_0_s28 : list signature_row :=
  [
    Sig [VALUE_TYPE_QTCORE_QMODELINDEX] "setData" [PValue QModelIndex; PVariant; PInt] RBool [On
        QAbstractItemModelReplica];
    Sig [] "setHeartbeatInterval" [PInt] RVoid [On QRemoteObjectNode];
    Sig [TYPE_QTREMOTEOBJECTS_QREMOTEOBJECTHOSTBASE; VALUE_TYPE_QTCORE_QURL] "setHostUrl" [PValue QUrl;
        PValue QRemoteObjectHostBase_AllowedSchemas] RBool [On QRemoteObjectHost];
    Sig [TYPE_QTNETWORK_QLOCALSERVER] "setLocalServerOptions" [PValue QLocalServer_SocketOptions] RVoid
        [Static QRemoteObjectHost];
    Sig [] "setName" [PString true] RVoid [On QRemoteObjectHostBase; On QRemoteObjectNode];
    Sig [TYPE_QTREMOTEOBJECTS_QREMOTEOBJECTNODE] "setNode" [PObject QRemoteObjectNode false] RVoid [On
        QRemoteObjectReplica];
    Sig [TYPE_QTREMOTEOBJECTS_QREMOTEOBJECTABSTRACTPERSISTEDSTORE] "setPersistedStore" [PObject
        QRemoteObjectAbstractPersistedStore false] RVoid [On QRemoteObjectNode];
    Sig [VALUE_TYPE_QTCORE_QURL] "setRegistryUrl" [PValue QUrl] RBool [On QRemoteObjectNode; On
        QRemoteObjectRegistryHost];
    Sig [TYPE_QTREMOTEOBJECTS_QREMOTEOBJECTREPLICA] "state" [] (RMeta QRemoteObjectReplica_State) [On
        QRemoteObjectReplica]
  ].

Definition methods_qtremoteobjects_0_s37 : list signature_row :=
  [
    Sig [] "waitForRegistry" [PInt] RBool [On QRemoteObjectNode];
    Sig [] "waitForSource" [PInt] RBool [On QRemoteObjectReplica]
  ].

Definition methods_qtremoteobjects_0 : method_shard :=
  MethodShard QtRemoteObjects "KRY_QT6_NATIVE_METHODS_QTREMOTEOBJECTS_"
    (methods_qtremoteobjects_0_i0)
    (methods_qtremoteobjects_0_s0 ++ methods_qtremoteobjects_0_s9 ++ methods_qtremoteobjects_0_s18 ++
        methods_qtremoteobjects_0_s28 ++ methods_qtremoteobjects_0_s37)
    [].

Definition methods_qtsensors_0_i0 : list include :=
  [
    ClassInclude QtSensors QAccelerometer QAccelerometer;
    ClassInclude QtSensors QAccelerometerReading QAccelerometerReading;
    ClassInclude QtSensors QAmbientLightReading QAmbientLightReading;
    ClassInclude QtSensors QAmbientLightSensor QAmbientLightSensor;
    ClassInclude QtSensors QAmbientTemperatureReading QAmbientTemperatureReading;
    ClassInclude QtSensors QAmbientTemperatureSensor QAmbientTemperatureSensor;
    ClassInclude QtSensors QCompass QCompass;
    ClassInclude QtSensors QCompassReading QCompassReading;
    ClassInclude QtSensors QGyroscope QGyroscope;
    ClassInclude QtSensors QGyroscopeReading QGyroscopeReading;
    ClassInclude QtSensors QHumidityReading QHumidityReading;
    ClassInclude QtSensors QHumiditySensor QHumiditySensor;
    ClassInclude QtSensors QIRProximityReading QIRProximityReading;
    ClassInclude QtSensors QIRProximitySensor QIRProximitySensor;
    ClassInclude QtSensors QLidReading QLidReading;
    ClassInclude QtSensors QLidSensor QLidSensor;
    ClassInclude QtSensors QLightReading QLightReading;
    ClassInclude QtSensors QLightSensor QLightSensor;
    ClassInclude QtSensors QMagnetometer QMagnetometer;
    ClassInclude QtSensors QMagnetometerReading QMagnetometerReading;
    ClassInclude QtSensors QOrientationReading QOrientationReading;
    ClassInclude QtSensors QOrientationSensor QOrientationSensor;
    ClassInclude QtSensors QPressureReading QPressureReading;
    ClassInclude QtSensors QPressureSensor QPressureSensor;
    TypeInclude QtSensors QAccelerometerReading TYPE_QTSENSORS_QACCELEROMETERREADING;
    TypeInclude QtSensors QAmbientLightReading TYPE_QTSENSORS_QAMBIENTLIGHTREADING;
    TypeInclude QtSensors QAmbientTemperatureReading TYPE_QTSENSORS_QAMBIENTTEMPERATUREREADING;
    TypeInclude QtSensors QCompassReading TYPE_QTSENSORS_QCOMPASSREADING;
    TypeInclude QtSensors QGyroscopeReading TYPE_QTSENSORS_QGYROSCOPEREADING;
    TypeInclude QtSensors QHumidityReading TYPE_QTSENSORS_QHUMIDITYREADING;
    TypeInclude QtSensors QIRProximityReading TYPE_QTSENSORS_QIRPROXIMITYREADING;
    TypeInclude QtSensors QLidReading TYPE_QTSENSORS_QLIDREADING;
    TypeInclude QtSensors QLightReading TYPE_QTSENSORS_QLIGHTREADING;
    TypeInclude QtSensors QMagnetometerReading TYPE_QTSENSORS_QMAGNETOMETERREADING;
    TypeInclude QtSensors QOrientationReading TYPE_QTSENSORS_QORIENTATIONREADING;
    TypeInclude QtSensors QPressureReading TYPE_QTSENSORS_QPRESSUREREADING;
    TypeInclude QtSensors QAccelerometer TYPE_QTSENSORS_QACCELEROMETER;
    TypeInclude QtSensors QAmbientLightReading TYPE_QTSENSORS_QAMBIENTLIGHTREADING;
    TypeInclude QtSensors QOrientationReading TYPE_QTSENSORS_QORIENTATIONREADING
  ].

Definition methods_qtsensors_0_s0 : list signature_row :=
  [
    Sig [] "absoluteHumidity" [] RDouble [On QHumidityReading];
    Sig [TYPE_QTSENSORS_QACCELEROMETER] "accelerationMode" [] (RMeta QAccelerometer_AccelerationMode) [On
        QAccelerometer];
    Sig [] "azimuth" [] RDouble [On QCompassReading];
    Sig [] "backLidClosed" [] RBool [On QLidReading];
    Sig [] "calibrationLevel" [] RDouble [On QCompassReading; On QMagnetometerReading];
    Sig [] "fieldOfView" [] RDouble [On QLightSensor];
    Sig [] "frontLidClosed" [] RBool [On QLidReading];
    Sig [TYPE_QTSENSORS_QAMBIENTLIGHTREADING] "lightLevel" [] (RMeta QAmbientLightReading_LightLevel) [On
        QAmbientLightReading];
    Sig [] "lux" [] RDouble [On QLightReading];
    Sig [TYPE_QTSENSORS_QORIENTATIONREADING] "orientation" [] (RMeta QOrientationReading_Orientation) [On
        QOrientationReading];
    Sig [] "pressure" [] RDouble [On QPressureReading];
    Sig [TYPE_QTSENSORS_QACCELEROMETERREADING] "reading" [] RObject [On QAccelerometer]
  ].

Definition methods_qtsensors_0_s12 : list signature_row :=
  [
    Sig [TYPE_QTSENSORS_QAMBIENTLIGHTREADING] "reading" [] RObject [On QAmbientLightSensor];
    Sig [TYPE_QTSENSORS_QAMBIENTTEMPERATUREREADING] "reading" [] RObject [On QAmbientTemperatureSensor];
    Sig [TYPE_QTSENSORS_QCOMPASSREADING] "reading" [] RObject [On QCompass];
    Sig [TYPE_QTSENSORS_QGYROSCOPEREADING] "reading" [] RObject [On QGyroscope];
    Sig [TYPE_QTSENSORS_QHUMIDITYREADING] "reading" [] RObject [On QHumiditySensor];
    Sig [TYPE_QTSENSORS_QIRPROXIMITYREADING] "reading" [] RObject [On QIRProximitySensor];
    Sig [TYPE_QTSENSORS_QLIDREADING] "reading" [] RObject [On QLidSensor];
    Sig [TYPE_QTSENSORS_QLIGHTREADING] "reading" [] RObject [On QLightSensor];
    Sig [TYPE_QTSENSORS_QMAGNETOMETERREADING] "reading" [] RObject [On QMagnetometer];
    Sig [TYPE_QTSENSORS_QORIENTATIONREADING] "reading" [] RObject [On QOrientationSensor];
    Sig [TYPE_QTSENSORS_QPRESSUREREADING] "reading" [] RObject [On QPressureSensor]
  ].

Definition methods_qtsensors_0_s23 : list signature_row :=
  [
    Sig [] "reflectance" [] RDouble [On QIRProximityReading];
    Sig [] "relativeHumidity" [] RDouble [On QHumidityReading];
    Sig [] "returnGeoValues" [] RBool [On QMagnetometer];
    Sig [] "setAbsoluteHumidity" [PNumber cxx_qreal] RVoid [On QHumidityReading];
    Sig [TYPE_QTSENSORS_QACCELEROMETER] "setAccelerationMode" [PValue QAccelerometer_AccelerationMode]
        RVoid [On QAccelerometer];
    Sig [] "setAzimuth" [PNumber cxx_qreal] RVoid [On QCompassReading];
    Sig [] "setBackLidClosed" [PBool] RVoid [On QLidReading];
    Sig [] "setCalibrationLevel" [PNumber cxx_qreal] RVoid [On QCompassReading; On QMagnetometerReading];
    Sig [] "setFieldOfView" [PNumber cxx_qreal] RVoid [On QLightSensor];
    Sig [] "setFrontLidClosed" [PBool] RVoid [On QLidReading]
  ].

Definition methods_qtsensors_0_s33 : list signature_row :=
  [
    Sig [TYPE_QTSENSORS_QAMBIENTLIGHTREADING] "setLightLevel" [PValue QAmbientLightReading_LightLevel]
        RVoid [On QAmbientLightReading];
    Sig [] "setLux" [PNumber cxx_qreal] RVoid [On QLightReading];
    Sig [TYPE_QTSENSORS_QORIENTATIONREADING] "setOrientation" [PValue QOrientationReading_Orientation]
        RVoid [On QOrientationReading];
    Sig [] "setPressure" [PNumber cxx_qreal] RVoid [On QPressureReading];
    Sig [] "setReflectance" [PNumber cxx_qreal] RVoid [On QIRProximityReading];
    Sig [] "setRelativeHumidity" [PNumber cxx_qreal] RVoid [On QHumidityReading];
    Sig [] "setReturnGeoValues" [PBool] RVoid [On QMagnetometer];
    Sig [] "setTemperature" [PNumber cxx_qreal] RVoid [On QAmbientTemperatureReading; On QPressureReading];
    Sig [] "setX" [PNumber cxx_qreal] RVoid [On QAccelerometerReading; On QGyroscopeReading; On
        QMagnetometerReading]
  ].

Definition methods_qtsensors_0_s42 : list signature_row :=
  [
    Sig [] "setY" [PNumber cxx_qreal] RVoid [On QAccelerometerReading; On QGyroscopeReading; On
        QMagnetometerReading];
    Sig [] "setZ" [PNumber cxx_qreal] RVoid [On QAccelerometerReading; On QGyroscopeReading; On
        QMagnetometerReading];
    Sig [] "temperature" [] RDouble [On QAmbientTemperatureReading; On QPressureReading];
    Sig [] "x" [] RDouble [On QAccelerometerReading; On QGyroscopeReading; On QMagnetometerReading];
    Sig [] "y" [] RDouble [On QAccelerometerReading; On QGyroscopeReading; On QMagnetometerReading];
    Sig [] "z" [] RDouble [On QAccelerometerReading; On QGyroscopeReading; On QMagnetometerReading]
  ].

Definition methods_qtsensors_0 : method_shard :=
  MethodShard QtSensors "KRY_QT6_NATIVE_METHODS_QTSENSORS_"
    (methods_qtsensors_0_i0)
    (methods_qtsensors_0_s0 ++ methods_qtsensors_0_s12 ++ methods_qtsensors_0_s23 ++
        methods_qtsensors_0_s33 ++ methods_qtsensors_0_s42)
    [].

Definition methods_qtsensors_1_i0 : list include :=
  [
    ClassInclude QtSensors QProximityReading QProximityReading;
    ClassInclude QtSensors QProximitySensor QProximitySensor;
    ClassInclude QtSensors QRotationReading QRotationReading;
    ClassInclude QtSensors QRotationSensor QRotationSensor;
    ClassInclude QtSensors QSensor QSensor;
    ClassInclude QtSensors QSensorReading QSensorReading;
    ClassInclude QtSensors QTapReading QTapReading;
    ClassInclude QtSensors QTapSensor QTapSensor;
    ClassInclude QtSensors QTiltReading QTiltReading;
    ClassInclude QtSensors QTiltSensor QTiltSensor;
    TypeInclude QtSensors QProximityReading TYPE_QTSENSORS_QPROXIMITYREADING;
    TypeInclude QtSensors QRotationReading TYPE_QTSENSORS_QROTATIONREADING;
    TypeInclude QtSensors QSensorReading TYPE_QTSENSORS_QSENSORREADING;
    TypeInclude QtSensors QTapReading TYPE_QTSENSORS_QTAPREADING;
    TypeInclude QtSensors QTiltReading TYPE_QTSENSORS_QTILTREADING;
    TypeInclude QtSensors QSensor TYPE_QTSENSORS_QSENSOR;
    TypeInclude QtSensors QTapReading TYPE_QTSENSORS_QTAPREADING;
    TypeInclude QtCore QByteArray VALUE_TYPE_QTCORE_QBYTEARRAY
  ].

Definition methods_qtsensors_1_s0 : list signature_row :=
  [
    Sig [TYPE_QTSENSORS_QSENSOR] "axesOrientationMode" [] (RMeta QSensor_AxesOrientationMode) [On QSensor];
    Sig [] "bufferSize" [] RDouble [On QSensor];
    Sig [] "calibrate" [] RVoid [On QTiltSensor];
    Sig [] "close" [] RBool [On QProximityReading];
    Sig [] "connectToBackend" [] RBool [On QSensor];
    Sig [] "currentOrientation" [] RDouble [On QSensor];
    Sig [] "dataRate" [] RDouble [On QSensor];
    Sig [VALUE_TYPE_QTCORE_QBYTEARRAY] "defaultSensorForType" [PValue QByteArray] (RValue QByteArray)
        [Static QSensor];
    Sig [] "description" [] RString [On QSensor];
    Sig [] "efficientBufferSize" [] RDouble [On QSensor];
    Sig [] "error" [] RDouble [On QSensor];
    Sig [] "hasZ" [] RBool [On QRotationSensor]
  ].

Definition methods_qtsensors_1_s12 : list signature_row :=
  [
    Sig [VALUE_TYPE_QTCORE_QBYTEARRAY] "identifier" [] (RValue QByteArray) [On QSensor];
    Sig [] "isActive" [] RBool [On QSensor];
    Sig [] "isAlwaysOn" [] RBool [On QSensor];
    Sig [] "isBusy" [] RBool [On QSensor];
    Sig [] "isConnectedToBackend" [] RBool [On QSensor];
    Sig [] "isDoubleTap" [] RBool [On QTapReading];
    Sig [TYPE_QTSENSORS_QSENSOR] "isFeatureSupported" [PValue QSensor_Feature] RBool [On QSensor];
    Sig [] "maxBufferSize" [] RDouble [On QSensor];
    Sig [] "outputRange" [] RDouble [On QSensor];
    Sig [TYPE_QTSENSORS_QPROXIMITYREADING] "reading" [] RObject [On QProximitySensor];
    Sig [TYPE_QTSENSORS_QROTATIONREADING] "reading" [] RObject [On QRotationSensor];
    Sig [TYPE_QTSENSORS_QSENSORREADING] "reading" [] RObject [On QSensor]
  ].

Definition methods_qtsensors_1_s24 : list signature_row :=
  [
    Sig [TYPE_QTSENSORS_QTAPREADING] "reading" [] RObject [On QTapSensor];
    Sig [TYPE_QTSENSORS_QTILTREADING] "reading" [] RObject [On QTiltSensor];
    Sig [] "returnDoubleTapEvents" [] RBool [On QTapSensor];
    Sig [VALUE_TYPE_QTCORE_QBYTEARRAY] "sensorTypes" [] (RList (IValue QByteArray)) [Static QSensor];
    Sig [VALUE_TYPE_QTCORE_QBYTEARRAY] "sensorsForType" [PValue QByteArray] (RList (IValue QByteArray))
        [Static QSensor];
    Sig [] "setActive" [PBool] RVoid [On QSensor];
    Sig [] "setAlwaysOn" [PBool] RVoid [On QSensor];
    Sig [TYPE_QTSENSORS_QSENSOR] "setAxesOrientationMode" [PValue QSensor_AxesOrientationMode] RVoid [On
        QSensor];
    Sig [] "setBufferSize" [PInt] RVoid [On QSensor];
    Sig [] "setClose" [PBool] RVoid [On QProximityReading]
  ].

Definition methods_qtsensors_1_s34 : list signature_row :=
  [
    Sig [] "setCurrentOrientation" [PInt] RVoid [On QSensor];
    Sig [] "setDataRate" [PInt] RVoid [On QSensor];
    Sig [] "setDoubleTap" [PBool] RVoid [On QTapReading];
    Sig [] "setEfficientBufferSize" [PInt] RVoid [On QSensor];
    Sig [] "setFromEuler" [PNumber cxx_qreal; PNumber cxx_qreal; PNumber cxx_qreal] RVoid [On
        QRotationReading];
    Sig [] "setHasZ" [PBool] RVoid [On QRotationSensor];
    Sig [VALUE_TYPE_QTCORE_QBYTEARRAY] "setIdentifier" [PValue QByteArray] RVoid [On QSensor];
    Sig [] "setMaxBufferSize" [PInt] RVoid [On QSensor];
    Sig [] "setOutputRange" [PInt] RVoid [On QSensor];
    Sig [] "setReturnDoubleTapEvents" [PBool] RVoid [On QTapSensor]
  ].

Definition methods_qtsensors_1_s44 : list signature_row :=
  [
    Sig [] "setSkipDuplicates" [PBool] RVoid [On QSensor];
    Sig [TYPE_QTSENSORS_QTAPREADING] "setTapDirection" [PValue QTapReading_TapDirection] RVoid [On
        QTapReading];
    Sig [] "setTimestamp" [PMeta cxx_quint64] RVoid [On QSensorReading];
    Sig [] "setUserOrientation" [PInt] RVoid [On QSensor];
    Sig [] "setXRotation" [PNumber cxx_qreal] RVoid [On QTiltReading];
    Sig [] "setYRotation" [PNumber cxx_qreal] RVoid [On QTiltReading];
    Sig [] "skipDuplicates" [] RBool [On QSensor];
    Sig [] "start" [] RBool [On QSensor];
    Sig [] "stop" [] RVoid [On QSensor];
    Sig [TYPE_QTSENSORS_QTAPREADING] "tapDirection" [] (RMeta QTapReading_TapDirection) [On QTapReading];
    Sig [] "timestamp" [] (RMeta cxx_quint64) [On QSensorReading]
  ].

Definition methods_qtsensors_1_s55 : list signature_row :=
  [
    Sig [VALUE_TYPE_QTCORE_QBYTEARRAY] "type" [] (RValue QByteArray) [On QSensor];
    Sig [] "userOrientation" [] RDouble [On QSensor];
    Sig [] "value" [PInt] RVariant [On QSensorReading];
    Sig [] "valueCount" [] RDouble [On QSensorReading];
    Sig [] "x" [] RDouble [On QRotationReading];
    Sig [] "xRotation" [] RDouble [On QTiltReading];
    Sig [] "y" [] RDouble [On QRotationReading];
    Sig [] "yRotation" [] RDouble [On QTiltReading];
    Sig [] "z" [] RDouble [On QRotationReading]
  ].

Definition methods_qtsensors_1 : method_shard :=
  MethodShard QtSensors "KRY_QT6_NATIVE_METHODS_QTSENSORS_"
    (methods_qtsensors_1_i0)
    (methods_qtsensors_1_s0 ++ methods_qtsensors_1_s12 ++ methods_qtsensors_1_s24 ++
        methods_qtsensors_1_s34 ++ methods_qtsensors_1_s44 ++ methods_qtsensors_1_s55)
    [].

Definition methods_qtserialport_0_i0 : list include :=
  [
    ClassInclude QtSerialPort QSerialPort QSerialPort;
    ClassInclude QtSerialPort QSerialPortInfo QSerialPortInfo;
    TypeInclude QtSerialPort QSerialPort TYPE_QTSERIALPORT_QSERIALPORT;
    TypeInclude QtSerialPort QSerialPortInfo VALUE_TYPE_QTSERIALPORT_QSERIALPORTINFO
  ].

Definition methods_qtserialport_0_s0 : list signature_row :=
  [
    Sig [VALUE_TYPE_QTSERIALPORT_QSERIALPORTINFO] "availablePorts" [] (RList (IValue QSerialPortInfo))
        [Static QSerialPortInfo];
    Sig [] "bytesAvailable" [] (RMeta cxx_qint64) [On QSerialPort];
    Sig [] "bytesToWrite" [] (RMeta cxx_qint64) [On QSerialPort];
    Sig [] "canReadLine" [] RBool [On QSerialPort];
    Sig [TYPE_QTSERIALPORT_QSERIALPORT] "clear" [PValue QSerialPort_Directions] RBool [On QSerialPort];
    Sig [] "clearError" [] RVoid [On QSerialPort];
    Sig [] "close" [] RVoid [On QSerialPort];
    Sig [TYPE_QTSERIALPORT_QSERIALPORT] "dataBits" [] (RMeta QSerialPort_DataBits) [On QSerialPort];
    Sig [TYPE_QTSERIALPORT_QSERIALPORT] "error" [] (RMeta QSerialPort_SerialPortError) [On QSerialPort];
    Sig [TYPE_QTSERIALPORT_QSERIALPORT] "flowControl" [] (RMeta QSerialPort_FlowControl) [On QSerialPort];
    Sig [] "flush" [] RBool [On QSerialPort]
  ].

Definition methods_qtserialport_0_s11 : list signature_row :=
  [
    Sig [] "isBreakEnabled" [] RBool [On QSerialPort];
    Sig [] "isDataTerminalReady" [] RBool [On QSerialPort];
    Sig [] "isRequestToSend" [] RBool [On QSerialPort];
    Sig [] "isSequential" [] RBool [On QSerialPort];
    Sig [TYPE_QTSERIALPORT_QSERIALPORT] "parity" [] (RMeta QSerialPort_Parity) [On QSerialPort];
    Sig [] "portName" [] RString [On QSerialPort];
    Sig [] "readBufferSize" [] (RMeta cxx_qint64) [On QSerialPort];
    Sig [] "setBreakEnabled" [PBool] RBool [On QSerialPort];
    Sig [TYPE_QTSERIALPORT_QSERIALPORT] "setDataBits" [PValue QSerialPort_DataBits] RBool [On QSerialPort];
    Sig [] "setDataTerminalReady" [PBool] RBool [On QSerialPort];
    Sig [TYPE_QTSERIALPORT_QSERIALPORT] "setFlowControl" [PValue QSerialPort_FlowControl] RBool [On
        QSerialPort]
  ].

Definition methods_qtserialport_0_s22 : list signature_row :=
  [
    Sig [TYPE_QTSERIALPORT_QSERIALPORT] "setParity" [PValue QSerialPort_Parity] RBool [On QSerialPort];
    Sig [VALUE_TYPE_QTSERIALPORT_QSERIALPORTINFO] "setPort" [PValue QSerialPortInfo] RVoid [On QSerialPort];
    Sig [] "setPortName" [PString true] RVoid [On QSerialPort];
    Sig [] "setReadBufferSize" [PMeta cxx_qint64] RVoid [On QSerialPort];
    Sig [] "setRequestToSend" [PBool] RBool [On QSerialPort];
    Sig [] "setSettingsRestoredOnClose" [PBool] RVoid [On QSerialPort];
    Sig [TYPE_QTSERIALPORT_QSERIALPORT] "setStopBits" [PValue QSerialPort_StopBits] RBool [On QSerialPort];
    Sig [] "setWriteBufferSize" [PMeta cxx_qint64] RVoid [On QSerialPort];
    Sig [] "settingsRestoredOnClose" [] RBool [On QSerialPort];
    Sig [] "standardBaudRates" [] (RList (IMeta cxx_int)) [Static QSerialPortInfo]
  ].

Definition methods_qtserialport_0_s32 : list signature_row :=
  [
    Sig [TYPE_QTSERIALPORT_QSERIALPORT] "stopBits" [] (RMeta QSerialPort_StopBits) [On QSerialPort];
    Sig [] "waitForBytesWritten" [PInt] RBool [On QSerialPort];
    Sig [] "waitForReadyRead" [PInt] RBool [On QSerialPort];
    Sig [] "writeBufferSize" [] (RMeta cxx_qint64) [On QSerialPort]
  ].

Definition methods_qtserialport_0 : method_shard :=
  MethodShard QtSerialPort "KRY_QT6_NATIVE_METHODS_QTSERIALPORT_"
    (methods_qtserialport_0_i0)
    (methods_qtserialport_0_s0 ++ methods_qtserialport_0_s11 ++ methods_qtserialport_0_s22 ++
        methods_qtserialport_0_s32)
    [].

Definition methods_qtwebchannel_0_i0 : list include :=
  [
    ClassInclude QtWebChannel QWebChannel QWebChannel;
    TypeInclude QtCore QObject TYPE_QTCORE_QOBJECT;
    TypeInclude QtWebChannel QWebChannelAbstractTransport TYPE_QTWEBCHANNEL_QWEBCHANNELABSTRACTTRANSPORT
  ].

Definition methods_qtwebchannel_0_s0 : list signature_row :=
  [
    Sig [] "blockUpdates" [] RBool [On QWebChannel];
    Sig [TYPE_QTWEBCHANNEL_QWEBCHANNELABSTRACTTRANSPORT] "connectTo" [PObject QWebChannelAbstractTransport
        false] RVoid [On QWebChannel];
    Sig [TYPE_QTCORE_QOBJECT] "deregisterObject" [PObject QObject false] RVoid [On QWebChannel];
    Sig [TYPE_QTWEBCHANNEL_QWEBCHANNELABSTRACTTRANSPORT] "disconnectFrom" [PObject
        QWebChannelAbstractTransport false] RVoid [On QWebChannel];
    Sig [] "propertyUpdateInterval" [] RDouble [On QWebChannel];
    Sig [TYPE_QTCORE_QOBJECT] "registerObject" [PString true; PObject QObject false] RVoid [On QWebChannel];
    Sig [] "setBlockUpdates" [PBool] RVoid [On QWebChannel];
    Sig [] "setPropertyUpdateInterval" [PInt] RVoid [On QWebChannel]
  ].

Definition methods_qtwebchannel_0 : method_shard :=
  MethodShard QtWebChannel "KRY_QT6_NATIVE_METHODS_QTWEBCHANNEL_"
    (methods_qtwebchannel_0_i0)
    (methods_qtwebchannel_0_s0)
    [].

Definition methods_qtwebenginecore_0_i0 : list include :=
  [
    ClassInclude QtWebEngineCore QWebEngineContextMenuRequest QWebEngineContextMenuRequest;
    ClassInclude QtWebEngineCore QWebEngineCookieStore QWebEngineCookieStore;
    ClassInclude QtWebEngineCore QWebEngineDownloadRequest QWebEngineDownloadRequest;
    ClassInclude QtWebEngineCore QWebEngineHistory QWebEngineHistory;
    ClassInclude QtWebEngineCore QWebEngineHistoryModel QWebEngineHistoryModel;
    ClassInclude QtWebEngineCore QWebEngineNavigationRequest QWebEngineNavigationRequest;
    ClassInclude QtWebEngineCore QWebEngineNewWindowRequest QWebEngineNewWindowRequest;
    ClassInclude QtWebEngineCore QWebEngineNotification QWebEngineNotification;
    ClassInclude QtWebEngineCore QWebEnginePage QWebEnginePage;
    ClassInclude QtWebEngineCore QWebEngineProfile QWebEngineProfile;
    ClassInclude QtWebEngineCore QWebEngineUrlRequestJob QWebEngineUrlRequestJob;
    ClassInclude QtWebEngineCore QWebEngineUrlScheme QWebEngineUrlScheme;
    TypeInclude QtCore QIODevice TYPE_QTCORE_QIODEVICE;
    TypeInclude QtWebChannel QWebChannel TYPE_QTWEBCHANNEL_QWEBCHANNEL;
    TypeInclude QtWebEngineCore QWebEngineCookieStore TYPE_QTWEBENGINECORE_QWEBENGINECOOKIESTORE;
    TypeInclude QtWebEngineCore QWebEngineHistory TYPE_QTWEBENGINECORE_QWEBENGINEHISTORY;
    TypeInclude QtWebEngineCore QWebEngineHistoryModel TYPE_QTWEBENGINECORE_QWEBENGINEHISTORYMODEL;
    TypeInclude QtWebEngineCore QWebEngineNotification TYPE_QTWEBENGINECORE_QWEBENGINENOTIFICATION;
    TypeInclude QtWebEngineCore QWebEnginePage TYPE_QTWEBENGINECORE_QWEBENGINEPAGE;
    TypeInclude QtWebEngineCore QWebEngineProfile TYPE_QTWEBENGINECORE_QWEBENGINEPROFILE;
    TypeInclude QtWebEngineCore QWebEngineUrlRequestInterceptor
        TYPE_QTWEBENGINECORE_QWEBENGINEURLREQUESTINTERCEPTOR;
    TypeInclude QtWebEngineCore QWebEngineUrlSchemeHandler TYPE_QTWEBENGINECORE_QWEBENGINEURLSCHEMEHANDLER;
    EnumDefine ENUM_QT_LAYOUTDIRECTION;
    TypeInclude QtWebEngineCore QWebEngineContextMenuRequest
        TYPE_QTWEBENGINECORE_QWEBENGINECONTEXTMENUREQUEST;
    TypeInclude QtWebEngineCore QWebEngineDownloadRequest TYPE_QTWEBENGINECORE_QWEBENGINEDOWNLOADREQUEST;
    TypeInclude QtWebEngineCore QWebEngineNavigationRequest
        TYPE_QTWEBENGINECORE_QWEBENGINENAVIGATIONREQUEST;
    TypeInclude QtWebEngineCore QWebEngineNewWindowRequest TYPE_QTWEBENGINECORE_QWEBENGINENEWWINDOWREQUEST;
    TypeInclude QtWebEngineCore QWebEnginePage TYPE_QTWEBENGINECORE_QWEBENGINEPAGE;
    TypeInclude QtWebEngineCore QWebEngineProfile TYPE_QTWEBENGINECORE_QWEBENGINEPROFILE;
    TypeInclude QtWebEngineCore QWebEngineUrlRequestJob TYPE_QTWEBENGINECORE_QWEBENGINEURLREQUESTJOB;
    TypeInclude QtCore QByteArray VALUE_TYPE_QTCORE_QBYTEARRAY;
    TypeInclude QtCore QModelIndex VALUE_TYPE_QTCORE_QMODELINDEX;
    TypeInclude QtCore QPoint VALUE_TYPE_QTCORE_QPOINT;
    TypeInclude QtCore QPointF VALUE_TYPE_QTCORE_QPOINTF;
    TypeInclude QtCore QRect VALUE_TYPE_QTCORE_QRECT;
    TypeInclude QtCore QSizeF VALUE_TYPE_QTCORE_QSIZEF;
    TypeInclude QtCore QUrl VALUE_TYPE_QTCORE_QURL;
    TypeInclude QtGui QColor VALUE_TYPE_QTGUI_QCOLOR;
    TypeInclude QtGui QIcon VALUE_TYPE_QTGUI_QICON;
    TypeInclude QtGui QImage VALUE_TYPE_QTGUI_QIMAGE;
    TypeInclude QtGui QPageLayout VALUE_TYPE_QTGUI_QPAGELAYOUT;
    TypeInclude QtGui QPageRanges VALUE_TYPE_QTGUI_QPAGERANGES;
    TypeInclude QtNetwork QNetworkCookie VALUE_TYPE_QTNETWORK_QNETWORKCOOKIE;
    TypeInclude QtWebEngineCore QWebEngineHistoryItem VALUE_TYPE_QTWEBENGINECORE_QWEBENGINEHISTORYITEM;
    TypeInclude QtWebEngineCore QWebEngineHttpRequest VALUE_TYPE_QTWEBENGINECORE_QWEBENGINEHTTPREQUEST;
    TypeInclude QtWebEngineCore QWebEngineScriptCollection
        VALUE_TYPE_QTWEBENGINECORE_QWEBENGINESCRIPTCOLLECTION;
    TypeInclude QtWebEngineCore QWebEngineUrlScheme VALUE_TYPE_QTWEBENGINECORE_QWEBENGINEURLSCHEME
  ].

Definition methods_qtwebenginecore_0_s0 : list signature_row :=
  [
    Sig [] "accept" [] RVoid [On QWebEngineDownloadRequest; On QWebEngineNavigationRequest];
    Sig [] "back" [] RVoid [On QWebEngineHistory];
    Sig [VALUE_TYPE_QTWEBENGINECORE_QWEBENGINEHISTORYITEM] "backItem" [] (RValue QWebEngineHistoryItem) [On
        QWebEngineHistory];
    Sig [VALUE_TYPE_QTWEBENGINECORE_QWEBENGINEHISTORYITEM] "backItems" [PInt] (RList (IValue
        QWebEngineHistoryItem)) [On QWebEngineHistory];
    Sig [TYPE_QTWEBENGINECORE_QWEBENGINEHISTORYMODEL] "backItemsModel" [] RObject [On QWebEngineHistory];
    Sig [VALUE_TYPE_QTGUI_QCOLOR] "backgroundColor" [] (RValue QColor) [On QWebEnginePage];
    Sig [] "cachePath" [] RString [On QWebEngineProfile];
    Sig [] "canGoBack" [] RBool [On QWebEngineHistory];
    Sig [] "canGoForward" [] RBool [On QWebEngineHistory];
    Sig [] "cancel" [] RVoid [On QWebEngineDownloadRequest];
    Sig [] "clear" [] RVoid [On QWebEngineHistory]
  ].

Definition methods_qtwebenginecore_0_s11 : list signature_row :=
  [
    Sig [] "clearAllVisitedLinks" [] RVoid [On QWebEngineProfile];
    Sig [] "clearHttpCache" [] RVoid [On QWebEngineProfile];
    Sig [VALUE_TYPE_QTCORE_QURL] "clearVisitedLinks" [PList (IValue QUrl)] RVoid [On QWebEngineProfile];
    Sig [] "click" [] RVoid [On QWebEngineNotification];
    Sig [] "close" [] RVoid [On QWebEngineNotification];
    Sig [VALUE_TYPE_QTCORE_QSIZEF] "contentsSize" [] (RValue QSizeF) [On QWebEnginePage];
    Sig [TYPE_QTWEBENGINECORE_QWEBENGINECOOKIESTORE] "cookieStore" [] RObject [On QWebEngineProfile];
    Sig [] "count" [] RDouble [On QWebEngineHistory];
    Sig [VALUE_TYPE_QTWEBENGINECORE_QWEBENGINEHISTORYITEM] "currentItem" [] (RValue QWebEngineHistoryItem)
        [On QWebEngineHistory];
    Sig [] "currentItemIndex" [] RDouble [On QWebEngineHistory];
    Sig [VALUE_TYPE_QTCORE_QMODELINDEX] "data" [PValue QModelIndex; PInt] RVariant [On
        QWebEngineHistoryModel]
  ].

Definition methods_qtwebenginecore_0_s22 : list signature_row :=
  [
    Sig [TYPE_QTWEBENGINECORE_QWEBENGINEPROFILE] "defaultProfile" [] RObject [Static QWebEngineProfile];
    Sig [] "deleteAllCookies" [] RVoid [On QWebEngineCookieStore];
    Sig [VALUE_TYPE_QTCORE_QURL; VALUE_TYPE_QTNETWORK_QNETWORKCOOKIE] "deleteCookie" [PValue
        QNetworkCookie; PValue QUrl] RVoid [On QWebEngineCookieStore];
    Sig [] "deleteSessionCookies" [] RVoid [On QWebEngineCookieStore];
    Sig [TYPE_QTWEBENGINECORE_QWEBENGINENEWWINDOWREQUEST] "destination" [] (RMeta
        QWebEngineNewWindowRequest_DestinationType) [On QWebEngineNewWindowRequest];
    Sig [TYPE_QTWEBENGINECORE_QWEBENGINEPAGE] "devToolsPage" [] RObject [On QWebEnginePage];
    Sig [ENUM_QT_LAYOUTDIRECTION] "direction" [] (RMeta Qt_LayoutDirection) [On QWebEngineNotification];
    Sig [VALUE_TYPE_QTCORE_QURL] "download" [PValue QUrl; PString true] RVoid [On QWebEnginePage];
    Sig [] "downloadDirectory" [] RString [On QWebEngineDownloadRequest];
    Sig [] "downloadFileName" [] RString [On QWebEngineDownloadRequest];
    Sig [] "downloadPath" [] RString [On QWebEngineProfile]
  ].

Definition methods_qtwebenginecore_0_s33 : list signature_row :=
  [
    Sig [TYPE_QTWEBENGINECORE_QWEBENGINEURLREQUESTJOB] "fail" [PValue QWebEngineUrlRequestJob_Error] RVoid
        [On QWebEngineUrlRequestJob];
    Sig [] "forward" [] RVoid [On QWebEngineHistory];
    Sig [VALUE_TYPE_QTWEBENGINECORE_QWEBENGINEHISTORYITEM] "forwardItem" [] (RValue QWebEngineHistoryItem)
        [On QWebEngineHistory];
    Sig [VALUE_TYPE_QTWEBENGINECORE_QWEBENGINEHISTORYITEM] "forwardItems" [PInt] (RList (IValue
        QWebEngineHistoryItem)) [On QWebEngineHistory];
    Sig [TYPE_QTWEBENGINECORE_QWEBENGINEHISTORYMODEL] "forwardItemsModel" [] RObject [On QWebEngineHistory];
    Sig [VALUE_TYPE_QTWEBENGINECORE_QWEBENGINEHISTORYITEM] "goToItem" [PValue QWebEngineHistoryItem] RVoid
        [On QWebEngineHistory];
    Sig [] "hasSelection" [] RBool [On QWebEnginePage];
    Sig [TYPE_QTWEBENGINECORE_QWEBENGINEHISTORY] "history" [] RObject [On QWebEnginePage];
    Sig [] "httpAcceptLanguage" [] RString [On QWebEngineProfile];
    Sig [] "httpCacheMaximumSize" [] RDouble [On QWebEngineProfile];
    Sig [TYPE_QTWEBENGINECORE_QWEBENGINEPROFILE] "httpCacheType" [] (RMeta QWebEngineProfile_HttpCacheType)
        [On QWebEngineProfile]
  ].

Definition methods_qtwebenginecore_0_s44 : list signature_row :=
  [
    Sig [] "httpUserAgent" [] RString [On QWebEngineProfile];
    Sig [VALUE_TYPE_QTGUI_QICON] "icon" [] (RValue QIcon) [On QWebEnginePage];
    Sig [VALUE_TYPE_QTGUI_QIMAGE] "icon" [] (RValue QImage) [On QWebEngineNotification];
    Sig [VALUE_TYPE_QTCORE_QURL] "iconUrl" [] (RValue QUrl) [On QWebEnginePage];
    Sig [VALUE_TYPE_QTCORE_QURL] "initiator" [] (RValue QUrl) [On QWebEngineUrlRequestJob];
    Sig [TYPE_QTWEBENGINECORE_QWEBENGINEPAGE] "inspectedPage" [] RObject [On QWebEnginePage];
    Sig [TYPE_QTWEBENGINECORE_QWEBENGINEURLSCHEMEHANDLER; VALUE_TYPE_QTCORE_QBYTEARRAY]
        "installUrlSchemeHandler" [PValue QByteArray; PObject QWebEngineUrlSchemeHandler false] RVoid [On
        QWebEngineProfile];
    Sig [TYPE_QTWEBENGINECORE_QWEBENGINEDOWNLOADREQUEST] "interruptReason" [] (RMeta
        QWebEngineDownloadRequest_DownloadInterruptReason) [On QWebEngineDownloadRequest];
    Sig [] "interruptReasonString" [] RString [On QWebEngineDownloadRequest];
    Sig [] "isAccepted" [] RBool [On QWebEngineContextMenuRequest];
    Sig [] "isAudioMuted" [] RBool [On QWebEnginePage]
  ].

Definition methods_qtwebenginecore_0_s55 : list signature_row :=
  [
    Sig [] "isContentEditable" [] RBool [On QWebEngineContextMenuRequest];
    Sig [] "isFinished" [] RBool [On QWebEngineDownloadRequest];
    Sig [] "isLoading" [] RBool [On QWebEnginePage];
    Sig [] "isMainFrame" [] RBool [On QWebEngineNavigationRequest];
    Sig [] "isOffTheRecord" [] RBool [On QWebEngineProfile];
    Sig [] "isPaused" [] RBool [On QWebEngineDownloadRequest];
    Sig [] "isSavePageDownload" [] RBool [On QWebEngineDownloadRequest];
    Sig [] "isSpellCheckEnabled" [] RBool [On QWebEngineProfile];
    Sig [] "isUserInitiated" [] RBool [On QWebEngineNewWindowRequest];
    Sig [] "isVisible" [] RBool [On QWebEnginePage];
    Sig [VALUE_TYPE_QTWEBENGINECORE_QWEBENGINEHISTORYITEM] "itemAt" [PInt] (RValue QWebEngineHistoryItem)
        [On QWebEngineHistory];
    Sig [VALUE_TYPE_QTWEBENGINECORE_QWEBENGINEHISTORYITEM] "items" [] (RList (IValue
        QWebEngineHistoryItem)) [On QWebEngineHistory]
  ].

Definition methods_qtwebenginecore_0_s67 : list signature_row :=
  [
    Sig [TYPE_QTWEBENGINECORE_QWEBENGINEHISTORYMODEL] "itemsModel" [] RObject [On QWebEngineHistory];
    Sig [] "language" [] RString [On QWebEngineNotification];
    Sig [TYPE_QTWEBENGINECORE_QWEBENGINEPAGE] "lifecycleState" [] (RMeta QWebEnginePage_LifecycleState) [On
        QWebEnginePage];
    Sig [] "linkText" [] RString [On QWebEngineContextMenuRequest];
    Sig [VALUE_TYPE_QTCORE_QURL] "linkUrl" [] (RValue QUrl) [On QWebEngineContextMenuRequest];
    Sig [VALUE_TYPE_QTCORE_QURL] "load" [PValue QUrl] RVoid [On QWebEnginePage];
    Sig [VALUE_TYPE_QTWEBENGINECORE_QWEBENGINEHTTPREQUEST] "load" [PValue QWebEngineHttpRequest] RVoid [On
        QWebEnginePage];
    Sig [] "loadAllCookies" [] RVoid [On QWebEngineCookieStore];
    Sig [TYPE_QTWEBENGINECORE_QWEBENGINENOTIFICATION] "matches" [PObject QWebEngineNotification false]
        RBool [On QWebEngineNotification];
    Sig [TYPE_QTWEBENGINECORE_QWEBENGINECONTEXTMENUREQUEST] "mediaType" [] (RMeta
        QWebEngineContextMenuRequest_MediaType) [On QWebEngineContextMenuRequest];
    Sig [VALUE_TYPE_QTCORE_QURL] "mediaUrl" [] (RValue QUrl) [On QWebEngineContextMenuRequest]
  ].

Definition methods_qtwebenginecore_0_s78 : list signature_row :=
  [
    Sig [] "message" [] RString [On QWebEngineNotification];
    Sig [] "mimeType" [] RString [On QWebEngineDownloadRequest];
    Sig [] "misspelledWord" [] RString [On QWebEngineContextMenuRequest];
    Sig [TYPE_QTWEBENGINECORE_QWEBENGINENAVIGATIONREQUEST] "navigationType" [] (RMeta
        QWebEngineNavigationRequest_NavigationType) [On QWebEngineNavigationRequest];
    Sig [TYPE_QTWEBENGINECORE_QWEBENGINEPAGE] "openIn" [PObject QWebEnginePage false] RVoid [On
        QWebEngineNewWindowRequest];
    Sig [VALUE_TYPE_QTCORE_QURL] "origin" [] (RValue QUrl) [On QWebEngineNotification];
    Sig [TYPE_QTWEBENGINECORE_QWEBENGINEPAGE] "page" [] RObject [On QWebEngineDownloadRequest];
    Sig [] "pause" [] RVoid [On QWebEngineDownloadRequest];
    Sig [TYPE_QTWEBENGINECORE_QWEBENGINEPROFILE] "persistentCookiesPolicy" [] (RMeta
        QWebEngineProfile_PersistentCookiesPolicy) [On QWebEngineProfile];
    Sig [] "persistentStoragePath" [] RString [On QWebEngineProfile];
    Sig [VALUE_TYPE_QTCORE_QPOINT] "position" [] (RValue QPoint) [On QWebEngineContextMenuRequest]
  ].

Definition methods_qtwebenginecore_0_s89 : list signature_row :=
  [
    Sig [VALUE_TYPE_QTGUI_QPAGELAYOUT; VALUE_TYPE_QTGUI_QPAGERANGES] "printToPdf" [PString true; PValue
        QPageLayout; PValue QPageRanges] RVoid [On QWebEnginePage];
    Sig [TYPE_QTWEBENGINECORE_QWEBENGINEPROFILE] "profile" [] RObject [On QWebEnginePage];
    Sig [] "receivedBytes" [] (RMeta cxx_qint64) [On QWebEngineDownloadRequest];
    Sig [] "recentlyAudible" [] RBool [On QWebEnginePage];
    Sig [TYPE_QTWEBENGINECORE_QWEBENGINEPAGE] "recommendedState" [] (RMeta QWebEnginePage_LifecycleState)
        [On QWebEnginePage];
    Sig [VALUE_TYPE_QTCORE_QURL] "redirect" [PValue QUrl] RVoid [On QWebEngineUrlRequestJob];
    Sig [VALUE_TYPE_QTWEBENGINECORE_QWEBENGINEURLSCHEME] "registerScheme" [PValue QWebEngineUrlScheme]
        RVoid [Static QWebEngineUrlScheme];
    Sig [] "reject" [] RVoid [On QWebEngineNavigationRequest];
    Sig [] "removeAllUrlSchemeHandlers" [] RVoid [On QWebEngineProfile];
    Sig [VALUE_TYPE_QTCORE_QBYTEARRAY] "removeUrlScheme" [PValue QByteArray] RVoid [On QWebEngineProfile]
  ].

Definition methods_qtwebenginecore_0_s99 : list signature_row :=
  [
    Sig [TYPE_QTWEBENGINECORE_QWEBENGINEURLSCHEMEHANDLER] "removeUrlSchemeHandler" [PObject
        QWebEngineUrlSchemeHandler false] RVoid [On QWebEngineProfile];
    Sig [] "renderProcessPid" [] (RMeta cxx_qint64) [On QWebEnginePage];
    Sig [] "replaceMisspelledWord" [PString true] RVoid [On QWebEnginePage];
    Sig [TYPE_QTCORE_QIODEVICE; VALUE_TYPE_QTCORE_QBYTEARRAY] "reply" [PValue QByteArray; PObject QIODevice
        false] RVoid [On QWebEngineUrlRequestJob];
    Sig [VALUE_TYPE_QTCORE_QBYTEARRAY] "requestMethod" [] (RValue QByteArray) [On QWebEngineUrlRequestJob];
    Sig [VALUE_TYPE_QTCORE_QURL] "requestUrl" [] (RValue QUrl) [On QWebEngineUrlRequestJob];
    Sig [VALUE_TYPE_QTCORE_QRECT] "requestedGeometry" [] (RValue QRect) [On QWebEngineNewWindowRequest];
    Sig [VALUE_TYPE_QTCORE_QURL] "requestedUrl" [] (RValue QUrl) [On QWebEngineNewWindowRequest; On
        QWebEnginePage];
    Sig [] "reset" [] RVoid [On QWebEngineHistoryModel];
    Sig [] "resume" [] RVoid [On QWebEngineDownloadRequest]
  ].

Definition methods_qtwebenginecore_0_s109 : list signature_row :=
  [
    Sig [VALUE_TYPE_QTCORE_QMODELINDEX] "rowCount" [PValue QModelIndex] RDouble [On QWebEngineHistoryModel];
    Sig [TYPE_QTWEBENGINECORE_QWEBENGINEDOWNLOADREQUEST] "save" [PString true; PValue
        QWebEngineDownloadRequest_SavePageFormat] RVoid [On QWebEnginePage];
    Sig [TYPE_QTWEBENGINECORE_QWEBENGINEDOWNLOADREQUEST] "savePageFormat" [] (RMeta
        QWebEngineDownloadRequest_SavePageFormat) [On QWebEngineDownloadRequest];
    Sig [VALUE_TYPE_QTCORE_QBYTEARRAY; VALUE_TYPE_QTWEBENGINECORE_QWEBENGINEURLSCHEME] "schemeByName"
        [PValue QByteArray] (RValue QWebEngineUrlScheme) [Static QWebEngineUrlScheme];
    Sig [VALUE_TYPE_QTWEBENGINECORE_QWEBENGINESCRIPTCOLLECTION] "scripts" [] (RValue
        QWebEngineScriptCollection) [On QWebEnginePage];
    Sig [VALUE_TYPE_QTCORE_QPOINTF] "scrollPosition" [] (RValue QPointF) [On QWebEnginePage];
    Sig [] "selectedText" [] RString [On QWebEngineContextMenuRequest; On QWebEnginePage];
    Sig [] "setAccepted" [PBool] RVoid [On QWebEngineContextMenuRequest];
    Sig [] "setAudioMuted" [PBool] RVoid [On QWebEnginePage];
    Sig [VALUE_TYPE_QTGUI_QCOLOR] "setBackgroundColor" [PValue QColor] RVoid [On QWebEnginePage]
  ].

Definition methods_qtwebenginecore_0_s119 : list signature_row :=
  [
    Sig [] "setCachePath" [PString true] RVoid [On QWebEngineProfile];
    Sig [VALUE_TYPE_QTCORE_QBYTEARRAY; VALUE_TYPE_QTCORE_QURL] "setContent" [PValue QByteArray; PString
        true; PValue QUrl] RVoid [On QWebEnginePage];
    Sig [VALUE_TYPE_QTCORE_QURL; VALUE_TYPE_QTNETWORK_QNETWORKCOOKIE] "setCookie" [PValue QNetworkCookie;
        PValue QUrl] RVoid [On QWebEngineCookieStore];
    Sig [TYPE_QTWEBENGINECORE_QWEBENGINEPAGE] "setDevToolsPage" [PObject QWebEnginePage false] RVoid [On
        QWebEnginePage];
    Sig [] "setDownloadDirectory" [PString true] RVoid [On QWebEngineDownloadRequest];
    Sig [] "setDownloadFileName" [PString true] RVoid [On QWebEngineDownloadRequest];
    Sig [] "setDownloadPath" [PString true] RVoid [On QWebEngineProfile];
    Sig [TYPE_QTWEBENGINECORE_QWEBENGINEPAGE; VALUE_TYPE_QTCORE_QURL] "setFeaturePermission" [PValue QUrl;
        PValue QWebEnginePage_Feature; PValue QWebEnginePage_PermissionPolicy] RVoid [On QWebEnginePage];
    Sig [VALUE_TYPE_QTCORE_QURL] "setHtml" [PString true; PValue QUrl] RVoid [On QWebEnginePage]
  ].

Definition methods_qtwebenginecore_0_s128 : list signature_row :=
  [
    Sig [] "setHttpAcceptLanguage" [PString true] RVoid [On QWebEngineProfile];
    Sig [] "setHttpCacheMaximumSize" [PInt] RVoid [On QWebEngineProfile];
    Sig [TYPE_QTWEBENGINECORE_QWEBENGINEPROFILE] "setHttpCacheType" [PValue
        QWebEngineProfile_HttpCacheType] RVoid [On QWebEngineProfile];
    Sig [] "setHttpUserAgent" [PString true] RVoid [On QWebEngineProfile];
    Sig [TYPE_QTWEBENGINECORE_QWEBENGINEPAGE] "setInspectedPage" [PObject QWebEnginePage false] RVoid [On
        QWebEnginePage];
    Sig [TYPE_QTWEBENGINECORE_QWEBENGINEPAGE] "setLifecycleState" [PValue QWebEnginePage_LifecycleState]
        RVoid [On QWebEnginePage];
    Sig [TYPE_QTWEBENGINECORE_QWEBENGINEPROFILE] "setPersistentCookiesPolicy" [PValue
        QWebEngineProfile_PersistentCookiesPolicy] RVoid [On QWebEngineProfile];
    Sig [] "setPersistentStoragePath" [PString true] RVoid [On QWebEngineProfile];
    Sig [TYPE_QTWEBENGINECORE_QWEBENGINEDOWNLOADREQUEST] "setSavePageFormat" [PValue
        QWebEngineDownloadRequest_SavePageFormat] RVoid [On QWebEngineDownloadRequest];
    Sig [] "setSpellCheckEnabled" [PBool] RVoid [On QWebEngineProfile]
  ].

Definition methods_qtwebenginecore_0_s138 : list signature_row :=
  [
    Sig [] "setSpellCheckLanguages" [PStringList] RVoid [On QWebEngineProfile];
    Sig [VALUE_TYPE_QTCORE_QURL] "setUrl" [PValue QUrl] RVoid [On QWebEnginePage];
    Sig [TYPE_QTWEBENGINECORE_QWEBENGINEURLREQUESTINTERCEPTOR] "setUrlRequestInterceptor" [PObject
        QWebEngineUrlRequestInterceptor false] RVoid [On QWebEnginePage; On QWebEngineProfile];
    Sig [] "setVisible" [PBool] RVoid [On QWebEnginePage];
    Sig [] "setZoomFactor" [PNumber cxx_qreal] RVoid [On QWebEnginePage];
    Sig [] "show" [] RVoid [On QWebEngineNotification];
    Sig [] "spellCheckLanguages" [] (RList (IMeta QString)) [On QWebEngineProfile];
    Sig [] "spellCheckerSuggestions" [] (RList (IMeta QString)) [On QWebEngineContextMenuRequest];
    Sig [TYPE_QTWEBENGINECORE_QWEBENGINEDOWNLOADREQUEST] "state" [] (RMeta
        QWebEngineDownloadRequest_DownloadState) [On QWebEngineDownloadRequest];
    Sig [] "storageName" [] RString [On QWebEngineProfile]
  ].

Definition methods_qtwebenginecore_0_s148 : list signature_row :=
  [
    Sig [] "suggestedFileName" [] RString [On QWebEngineDownloadRequest];
    Sig [] "tag" [] RString [On QWebEngineNotification];
    Sig [] "title" [] RString [On QWebEngineNotification; On QWebEnginePage];
    Sig [] "totalBytes" [] (RMeta cxx_qint64) [On QWebEngineDownloadRequest];
    Sig [TYPE_QTWEBENGINECORE_QWEBENGINEPAGE] "triggerAction" [PValue QWebEnginePage_WebAction; PBool]
        RVoid [On QWebEnginePage];
    Sig [VALUE_TYPE_QTCORE_QURL] "url" [] (RValue QUrl) [On QWebEngineDownloadRequest; On
        QWebEngineNavigationRequest; On QWebEnginePage];
    Sig [TYPE_QTWEBENGINECORE_QWEBENGINEURLSCHEMEHANDLER; VALUE_TYPE_QTCORE_QBYTEARRAY] "urlSchemeHandler"
        [PValue QByteArray] RObject [On QWebEngineProfile];
    Sig [VALUE_TYPE_QTCORE_QURL] "visitedLinksContainsUrl" [PValue QUrl] RBool [On QWebEngineProfile];
    Sig [TYPE_QTWEBCHANNEL_QWEBCHANNEL] "webChannel" [] RObject [On QWebEnginePage];
    Sig [] "zoomFactor" [] RDouble [On QWebEnginePage]
  ].

Definition methods_qtwebenginecore_0 : method_shard :=
  MethodShard QtWebEngineCore "KRY_QT6_NATIVE_METHODS_QTWEBENGINECORE_"
    (methods_qtwebenginecore_0_i0)
    (methods_qtwebenginecore_0_s0 ++ methods_qtwebenginecore_0_s11 ++ methods_qtwebenginecore_0_s22 ++
        methods_qtwebenginecore_0_s33 ++ methods_qtwebenginecore_0_s44 ++ methods_qtwebenginecore_0_s55 ++
        methods_qtwebenginecore_0_s67 ++ methods_qtwebenginecore_0_s78 ++ methods_qtwebenginecore_0_s89 ++
        methods_qtwebenginecore_0_s99 ++ methods_qtwebenginecore_0_s109 ++ methods_qtwebenginecore_0_s119
        ++ methods_qtwebenginecore_0_s128 ++ methods_qtwebenginecore_0_s138 ++
        methods_qtwebenginecore_0_s148)
    [].

Definition methods_qtwebenginequick_0_i0 : list include :=
  [
    ClassInclude QtWebEngineQuick QQuickWebEngineProfile QQuickWebEngineProfile;
    TypeInclude QtWebEngineCore QWebEngineCookieStore TYPE_QTWEBENGINECORE_QWEBENGINECOOKIESTORE;
    TypeInclude QtWebEngineCore QWebEngineUrlRequestInterceptor
        TYPE_QTWEBENGINECORE_QWEBENGINEURLREQUESTINTERCEPTOR;
    TypeInclude QtWebEngineCore QWebEngineUrlSchemeHandler TYPE_QTWEBENGINECORE_QWEBENGINEURLSCHEMEHANDLER;
    TypeInclude QtWebEngineQuick QQuickWebEngineProfile TYPE_QTWEBENGINEQUICK_QQUICKWEBENGINEPROFILE;
    TypeInclude QtWebEngineQuick QQuickWebEngineProfile TYPE_QTWEBENGINEQUICK_QQUICKWEBENGINEPROFILE;
    TypeInclude QtCore QByteArray VALUE_TYPE_QTCORE_QBYTEARRAY
  ].

Definition methods_qtwebenginequick_0_s0 : list signature_row :=
  [
    Sig [] "cachePath" [] RString [On QQuickWebEngineProfile];
    Sig [] "clearHttpCache" [] RVoid [On QQuickWebEngineProfile];
    Sig [TYPE_QTWEBENGINECORE_QWEBENGINECOOKIESTORE] "cookieStore" [] RObject [On QQuickWebEngineProfile];
    Sig [TYPE_QTWEBENGINEQUICK_QQUICKWEBENGINEPROFILE] "defaultProfile" [] RObject [Static
        QQuickWebEngineProfile];
    Sig [] "downloadPath" [] RString [On QQuickWebEngineProfile];
    Sig [] "httpAcceptLanguage" [] RString [On QQuickWebEngineProfile];
    Sig [] "httpCacheMaximumSize" [] RDouble [On QQuickWebEngineProfile];
    Sig [TYPE_QTWEBENGINEQUICK_QQUICKWEBENGINEPROFILE] "httpCacheType" [] (RMeta
        QQuickWebEngineProfile_HttpCacheType) [On QQuickWebEngineProfile];
    Sig [] "httpUserAgent" [] RString [On QQuickWebEngineProfile];
    Sig [TYPE_QTWEBENGINECORE_QWEBENGINEURLSCHEMEHANDLER; VALUE_TYPE_QTCORE_QBYTEARRAY]
        "installUrlSchemeHandler" [PValue QByteArray; PObject QWebEngineUrlSchemeHandler false] RVoid [On
        QQuickWebEngineProfile];
    Sig [] "isOffTheRecord" [] RBool [On QQuickWebEngineProfile];
    Sig [] "isSpellCheckEnabled" [] RBool [On QQuickWebEngineProfile]
  ].

Definition methods_qtwebenginequick_0_s12 : list signature_row :=
  [
    Sig [TYPE_QTWEBENGINEQUICK_QQUICKWEBENGINEPROFILE] "persistentCookiesPolicy" [] (RMeta
        QQuickWebEngineProfile_PersistentCookiesPolicy) [On QQuickWebEngineProfile];
    Sig [] "persistentStoragePath" [] RString [On QQuickWebEngineProfile];
    Sig [] "removeAllUrlSchemeHandlers" [] RVoid [On QQuickWebEngineProfile];
    Sig [VALUE_TYPE_QTCORE_QBYTEARRAY] "removeUrlScheme" [PValue QByteArray] RVoid [On
        QQuickWebEngineProfile];
    Sig [TYPE_QTWEBENGINECORE_QWEBENGINEURLSCHEMEHANDLER] "removeUrlSchemeHandler" [PObject
        QWebEngineUrlSchemeHandler false] RVoid [On QQuickWebEngineProfile];
    Sig [] "setCachePath" [PString true] RVoid [On QQuickWebEngineProfile];
    Sig [] "setDownloadPath" [PString true] RVoid [On QQuickWebEngineProfile];
    Sig [] "setHttpAcceptLanguage" [PString true] RVoid [On QQuickWebEngineProfile];
    Sig [] "setHttpCacheMaximumSize" [PInt] RVoid [On QQuickWebEngineProfile];
    Sig [TYPE_QTWEBENGINEQUICK_QQUICKWEBENGINEPROFILE] "setHttpCacheType" [PValue
        QQuickWebEngineProfile_HttpCacheType] RVoid [On QQuickWebEngineProfile]
  ].

Definition methods_qtwebenginequick_0_s22 : list signature_row :=
  [
    Sig [] "setHttpUserAgent" [PString true] RVoid [On QQuickWebEngineProfile];
    Sig [] "setOffTheRecord" [PBool] RVoid [On QQuickWebEngineProfile];
    Sig [TYPE_QTWEBENGINEQUICK_QQUICKWEBENGINEPROFILE] "setPersistentCookiesPolicy" [PValue
        QQuickWebEngineProfile_PersistentCookiesPolicy] RVoid [On QQuickWebEngineProfile];
    Sig [] "setPersistentStoragePath" [PString true] RVoid [On QQuickWebEngineProfile];
    Sig [] "setSpellCheckEnabled" [PBool] RVoid [On QQuickWebEngineProfile];
    Sig [] "setSpellCheckLanguages" [PStringList] RVoid [On QQuickWebEngineProfile];
    Sig [] "setStorageName" [PString true] RVoid [On QQuickWebEngineProfile];
    Sig [TYPE_QTWEBENGINECORE_QWEBENGINEURLREQUESTINTERCEPTOR] "setUrlRequestInterceptor" [PObject
        QWebEngineUrlRequestInterceptor false] RVoid [On QQuickWebEngineProfile];
    Sig [] "spellCheckLanguages" [] (RList (IMeta QString)) [On QQuickWebEngineProfile];
    Sig [] "storageName" [] RString [On QQuickWebEngineProfile]
  ].

Definition methods_qtwebenginequick_0_s32 : list signature_row :=
  [
    Sig [TYPE_QTWEBENGINECORE_QWEBENGINEURLSCHEMEHANDLER; VALUE_TYPE_QTCORE_QBYTEARRAY] "urlSchemeHandler"
        [PValue QByteArray] RObject [On QQuickWebEngineProfile]
  ].

Definition methods_qtwebenginequick_0 : method_shard :=
  MethodShard QtWebEngineQuick "KRY_QT6_NATIVE_METHODS_QTWEBENGINEQUICK_"
    (methods_qtwebenginequick_0_i0)
    (methods_qtwebenginequick_0_s0 ++ methods_qtwebenginequick_0_s12 ++ methods_qtwebenginequick_0_s22 ++
        methods_qtwebenginequick_0_s32)
    [].

Definition methods_qtwebenginewidgets_0_i0 : list include :=
  [
    ClassInclude QtWebEngineWidgets QWebEngineView QWebEngineView;
    TypeInclude QtWebEngineCore QWebEngineContextMenuRequest
        TYPE_QTWEBENGINECORE_QWEBENGINECONTEXTMENUREQUEST;
    TypeInclude QtWebEngineCore QWebEngineHistory TYPE_QTWEBENGINECORE_QWEBENGINEHISTORY;
    TypeInclude QtWebEngineCore QWebEnginePage TYPE_QTWEBENGINECORE_QWEBENGINEPAGE;
    TypeInclude QtWebEngineWidgets QWebEngineView TYPE_QTWEBENGINEWIDGETS_QWEBENGINEVIEW;
    TypeInclude QtWidgets QMenu TYPE_QTWIDGETS_QMENU;
    TypeInclude QtWebEngineCore QWebEnginePage TYPE_QTWEBENGINECORE_QWEBENGINEPAGE;
    TypeInclude QtCore QByteArray VALUE_TYPE_QTCORE_QBYTEARRAY;
    TypeInclude QtCore QSize VALUE_TYPE_QTCORE_QSIZE;
    TypeInclude QtCore QUrl VALUE_TYPE_QTCORE_QURL;
    TypeInclude QtGui QIcon VALUE_TYPE_QTGUI_QICON;
    TypeInclude QtGui QPageLayout VALUE_TYPE_QTGUI_QPAGELAYOUT;
    TypeInclude QtGui QPageRanges VALUE_TYPE_QTGUI_QPAGERANGES;
    TypeInclude QtWebEngineCore QWebEngineHttpRequest VALUE_TYPE_QTWEBENGINECORE_QWEBENGINEHTTPREQUEST
  ].

Definition methods_qtwebenginewidgets_0_s0 : list signature_row :=
  [
    Sig [] "back" [] RVoid [On QWebEngineView];
    Sig [TYPE_QTWIDGETS_QMENU] "createStandardContextMenu" [] RObject [On QWebEngineView];
    Sig [TYPE_QTWEBENGINECORE_QWEBENGINEPAGE; TYPE_QTWEBENGINEWIDGETS_QWEBENGINEVIEW] "forPage" [PObject
        QWebEnginePage false] RObject [Static QWebEngineView];
    Sig [] "forward" [] RVoid [On QWebEngineView];
    Sig [] "hasSelection" [] RBool [On QWebEngineView];
    Sig [TYPE_QTWEBENGINECORE_QWEBENGINEHISTORY] "history" [] RObject [On QWebEngineView];
    Sig [VALUE_TYPE_QTGUI_QICON] "icon" [] (RValue QIcon) [On QWebEngineView];
    Sig [VALUE_TYPE_QTCORE_QURL] "iconUrl" [] (RValue QUrl) [On QWebEngineView];
    Sig [TYPE_QTWEBENGINECORE_QWEBENGINECONTEXTMENUREQUEST] "lastContextMenuRequest" [] RObject [On
        QWebEngineView];
    Sig [VALUE_TYPE_QTCORE_QURL] "load" [PValue QUrl] RVoid [On QWebEngineView];
    Sig [VALUE_TYPE_QTWEBENGINECORE_QWEBENGINEHTTPREQUEST] "load" [PValue QWebEngineHttpRequest] RVoid [On
        QWebEngineView]
  ].

Definition methods_qtwebenginewidgets_0_s11 : list signature_row :=
  [
    Sig [TYPE_QTWEBENGINECORE_QWEBENGINEPAGE] "page" [] RObject [On QWebEngineView];
    Sig [VALUE_TYPE_QTGUI_QPAGELAYOUT; VALUE_TYPE_QTGUI_QPAGERANGES] "printToPdf" [PString true; PValue
        QPageLayout; PValue QPageRanges] RVoid [On QWebEngineView];
    Sig [] "reload" [] RVoid [On QWebEngineView];
    Sig [] "selectedText" [] RString [On QWebEngineView];
    Sig [VALUE_TYPE_QTCORE_QBYTEARRAY; VALUE_TYPE_QTCORE_QURL] "setContent" [PValue QByteArray; PString
        true; PValue QUrl] RVoid [On QWebEngineView];
    Sig [VALUE_TYPE_QTCORE_QURL] "setHtml" [PString true; PValue QUrl] RVoid [On QWebEngineView];
    Sig [TYPE_QTWEBENGINECORE_QWEBENGINEPAGE] "setPage" [PObject QWebEnginePage false] RVoid [On
        QWebEngineView];
    Sig [VALUE_TYPE_QTCORE_QURL] "setUrl" [PValue QUrl] RVoid [On QWebEngineView];
    Sig [] "setZoomFactor" [PNumber cxx_qreal] RVoid [On QWebEngineView]
  ].

Definition methods_qtwebenginewidgets_0_s20 : list signature_row :=
  [
    Sig [VALUE_TYPE_QTCORE_QSIZE] "sizeHint" [] (RValue QSize) [On QWebEngineView];
    Sig [] "stop" [] RVoid [On QWebEngineView];
    Sig [] "title" [] RString [On QWebEngineView];
    Sig [TYPE_QTWEBENGINECORE_QWEBENGINEPAGE] "triggerPageAction" [PValue QWebEnginePage_WebAction; PBool]
        RVoid [On QWebEngineView];
    Sig [VALUE_TYPE_QTCORE_QURL] "url" [] (RValue QUrl) [On QWebEngineView];
    Sig [] "zoomFactor" [] RDouble [On QWebEngineView]
  ].

Definition methods_qtwebenginewidgets_0 : method_shard :=
  MethodShard QtWebEngineWidgets "KRY_QT6_NATIVE_METHODS_QTWEBENGINEWIDGETS_"
    (methods_qtwebenginewidgets_0_i0)
    (methods_qtwebenginewidgets_0_s0 ++ methods_qtwebenginewidgets_0_s11 ++
        methods_qtwebenginewidgets_0_s20)
    [].

Definition methods_qtwebsockets_0_i0 : list include :=
  [
    ClassInclude QtWebSockets QWebSocket QWebSocket;
    ClassInclude QtWebSockets QWebSocketServer QWebSocketServer;
    TypeInclude QtNetwork QTcpSocket TYPE_QTNETWORK_QTCPSOCKET;
    TypeInclude QtWebSockets QMaskGenerator TYPE_QTWEBSOCKETS_QMASKGENERATOR;
    TypeInclude QtWebSockets QWebSocket TYPE_QTWEBSOCKETS_QWEBSOCKET;
    TypeInclude QtNetwork QAbstractSocket TYPE_QTNETWORK_QABSTRACTSOCKET;
    TypeInclude QtWebSockets QWebSocketServer TYPE_QTWEBSOCKETS_QWEBSOCKETSERVER;
    TypeInclude QtCore QByteArray VALUE_TYPE_QTCORE_QBYTEARRAY;
    TypeInclude QtCore QUrl VALUE_TYPE_QTCORE_QURL;
    TypeInclude QtNetwork QHostAddress VALUE_TYPE_QTNETWORK_QHOSTADDRESS;
    TypeInclude QtNetwork QNetworkProxy VALUE_TYPE_QTNETWORK_QNETWORKPROXY;
    TypeInclude QtNetwork QNetworkRequest VALUE_TYPE_QTNETWORK_QNETWORKREQUEST;
    TypeInclude QtNetwork QSslConfiguration VALUE_TYPE_QTNETWORK_QSSLCONFIGURATION;
    TypeInclude QtNetwork QSslError VALUE_TYPE_QTNETWORK_QSSLERROR;
    TypeInclude QtWebSockets QWebSocketHandshakeOptions VALUE_TYPE_QTWEBSOCKETS_QWEBSOCKETHANDSHAKEOPTIONS
  ].

Definition methods_qtwebsockets_0_s0 : list signature_row :=
  [
    Sig [] "abort" [] RVoid [On QWebSocket];
    Sig [] "bytesToWrite" [] (RMeta cxx_qint64) [On QWebSocket];
    Sig [] "close" [] RVoid [On QWebSocketServer];
    Sig [] "closeReason" [] RString [On QWebSocket];
    Sig [] "continueInterruptedHandshake" [] RVoid [On QWebSocket];
    Sig [TYPE_QTNETWORK_QABSTRACTSOCKET] "error" [] (RMeta QAbstractSocket_SocketError) [On QWebSocket];
    Sig [] "errorString" [] RString [On QWebSocket; On QWebSocketServer];
    Sig [] "flush" [] RBool [On QWebSocket];
    Sig [TYPE_QTNETWORK_QTCPSOCKET] "handleConnection" [PObject QTcpSocket false] RVoid [On
        QWebSocketServer];
    Sig [VALUE_TYPE_QTWEBSOCKETS_QWEBSOCKETHANDSHAKEOPTIONS] "handshakeOptions" [] (RValue
        QWebSocketHandshakeOptions) [On QWebSocket];
    Sig [] "handshakeTimeoutMS" [] RDouble [On QWebSocketServer]
  ].

Definition methods_qtwebsockets_0_s11 : list signature_row :=
  [
    Sig [] "hasPendingConnections" [] RBool [On QWebSocketServer];
    Sig [] "ignoreSslErrors" [] RVoid [On QWebSocket];
    Sig [VALUE_TYPE_QTNETWORK_QSSLERROR] "ignoreSslErrors" [PList (IValue QSslError)] RVoid [On QWebSocket];
    Sig [] "isListening" [] RBool [On QWebSocketServer];
    Sig [] "isValid" [] RBool [On QWebSocket];
    Sig [VALUE_TYPE_QTNETWORK_QHOSTADDRESS] "localAddress" [] (RValue QHostAddress) [On QWebSocket];
    Sig [TYPE_QTWEBSOCKETS_QMASKGENERATOR] "maskGenerator" [] RObject [On QWebSocket];
    Sig [] "maxAllowedIncomingFrameSize" [] (RMeta cxx_quint64) [On QWebSocket];
    Sig [] "maxAllowedIncomingMessageSize" [] (RMeta cxx_quint64) [On QWebSocket];
    Sig [] "maxIncomingFrameSize" [] (RMeta cxx_quint64) [Static QWebSocket];
    Sig [] "maxIncomingMessageSize" [] (RMeta cxx_quint64) [Static QWebSocket];
    Sig [] "maxOutgoingFrameSize" [] (RMeta cxx_quint64) [Static QWebSocket]
  ].

Definition methods_qtwebsockets_0_s23 : list signature_row :=
  [
    Sig [] "maxPendingConnections" [] RDouble [On QWebSocketServer];
    Sig [TYPE_QTWEBSOCKETS_QWEBSOCKET] "nextPendingConnection" [] RObject [On QWebSocketServer];
    Sig [VALUE_TYPE_QTNETWORK_QNETWORKREQUEST] "open" [PValue QNetworkRequest] RVoid [On QWebSocket];
    Sig [VALUE_TYPE_QTNETWORK_QNETWORKREQUEST; VALUE_TYPE_QTWEBSOCKETS_QWEBSOCKETHANDSHAKEOPTIONS] "open"
        [PValue QNetworkRequest; PValue QWebSocketHandshakeOptions] RVoid [On QWebSocket];
    Sig [VALUE_TYPE_QTCORE_QURL] "open" [PValue QUrl] RVoid [On QWebSocket];
    Sig [VALUE_TYPE_QTCORE_QURL; VALUE_TYPE_QTWEBSOCKETS_QWEBSOCKETHANDSHAKEOPTIONS] "open" [PValue QUrl;
        PValue QWebSocketHandshakeOptions] RVoid [On QWebSocket];
    Sig [] "origin" [] RString [On QWebSocket];
    Sig [] "outgoingFrameSize" [] (RMeta cxx_quint64) [On QWebSocket];
    Sig [] "pauseAccepting" [] RVoid [On QWebSocketServer];
    Sig [VALUE_TYPE_QTNETWORK_QHOSTADDRESS] "peerAddress" [] (RValue QHostAddress) [On QWebSocket]
  ].

Definition methods_qtwebsockets_0_s33 : list signature_row :=
  [
    Sig [] "peerName" [] RString [On QWebSocket];
    Sig [VALUE_TYPE_QTCORE_QBYTEARRAY] "ping" [PValue QByteArray] RVoid [On QWebSocket];
    Sig [VALUE_TYPE_QTNETWORK_QNETWORKPROXY] "proxy" [] (RValue QNetworkProxy) [On QWebSocket; On
        QWebSocketServer];
    Sig [] "readBufferSize" [] (RMeta cxx_qint64) [On QWebSocket];
    Sig [VALUE_TYPE_QTNETWORK_QNETWORKREQUEST] "request" [] (RValue QNetworkRequest) [On QWebSocket];
    Sig [VALUE_TYPE_QTCORE_QURL] "requestUrl" [] (RValue QUrl) [On QWebSocket];
    Sig [] "resourceName" [] RString [On QWebSocket];
    Sig [] "resume" [] RVoid [On QWebSocket];
    Sig [] "resumeAccepting" [] RVoid [On QWebSocketServer];
    Sig [TYPE_QTWEBSOCKETS_QWEBSOCKETSERVER] "secureMode" [] (RMeta QWebSocketServer_SslMode) [On
        QWebSocketServer]
  ].

Definition methods_qtwebsockets_0_s43 : list signature_row :=
  [
    Sig [VALUE_TYPE_QTCORE_QBYTEARRAY] "sendBinaryMessage" [PValue QByteArray] (RMeta cxx_qint64) [On
        QWebSocket];
    Sig [] "sendTextMessage" [PString true] (RMeta cxx_qint64) [On QWebSocket];
    Sig [VALUE_TYPE_QTNETWORK_QHOSTADDRESS] "serverAddress" [] (RValue QHostAddress) [On QWebSocketServer];
    Sig [] "serverName" [] RString [On QWebSocketServer];
    Sig [VALUE_TYPE_QTCORE_QURL] "serverUrl" [] (RValue QUrl) [On QWebSocketServer];
    Sig [] "setHandshakeTimeout" [PInt] RVoid [On QWebSocketServer];
    Sig [TYPE_QTWEBSOCKETS_QMASKGENERATOR] "setMaskGenerator" [PObject QMaskGenerator false] RVoid [On
        QWebSocket];
    Sig [] "setMaxAllowedIncomingFrameSize" [PMeta cxx_quint64] RVoid [On QWebSocket];
    Sig [] "setMaxAllowedIncomingMessageSize" [PMeta cxx_quint64] RVoid [On QWebSocket];
    Sig [] "setMaxPendingConnections" [PInt] RVoid [On QWebSocketServer]
  ].

Definition methods_qtwebsockets_0_s53 : list signature_row :=
  [
    Sig [] "setOutgoingFrameSize" [PMeta cxx_quint64] RVoid [On QWebSocket];
    Sig [VALUE_TYPE_QTNETWORK_QNETWORKPROXY] "setProxy" [PValue QNetworkProxy] RVoid [On QWebSocket; On
        QWebSocketServer];
    Sig [] "setReadBufferSize" [PMeta cxx_qint64] RVoid [On QWebSocket];
    Sig [] "setServerName" [PString true] RVoid [On QWebSocketServer];
    Sig [VALUE_TYPE_QTNETWORK_QSSLCONFIGURATION] "setSslConfiguration" [PValue QSslConfiguration] RVoid [On
        QWebSocket; On QWebSocketServer];
    Sig [] "setSupportedSubprotocols" [PStringList] RVoid [On QWebSocketServer];
    Sig [VALUE_TYPE_QTNETWORK_QSSLCONFIGURATION] "sslConfiguration" [] (RValue QSslConfiguration) [On
        QWebSocket; On QWebSocketServer];
    Sig [TYPE_QTNETWORK_QABSTRACTSOCKET] "state" [] (RMeta QAbstractSocket_SocketState) [On QWebSocket];
    Sig [] "subprotocol" [] RString [On QWebSocket]
  ].

Definition methods_qtwebsockets_0_s62 : list signature_row :=
  [
    Sig [] "supportedSubprotocols" [] (RList (IMeta QString)) [On QWebSocketServer]
  ].

Definition methods_qtwebsockets_0 : method_shard :=
  MethodShard QtWebSockets "KRY_QT6_NATIVE_METHODS_QTWEBSOCKETS_"
    (methods_qtwebsockets_0_i0)
    (methods_qtwebsockets_0_s0 ++ methods_qtwebsockets_0_s11 ++ methods_qtwebsockets_0_s23 ++
        methods_qtwebsockets_0_s33 ++ methods_qtwebsockets_0_s43 ++ methods_qtwebsockets_0_s53 ++
        methods_qtwebsockets_0_s62)
    [].
