(* ===== verification/MethodsGraphsB.v ===== *)
(** Rows of the shards of generated_methods: qtcharts_0, qtcharts_1, qtdatavisualization_0,
    qtdatavisualization_1. *)
From S2P Require Import Names.

(** * Definitions *)

Definition methods_qtcharts_0_i0 : list include :=
  [
    ClassInclude QtCharts QAbstractAxis QAbstractAxis;
    ClassInclude QtCharts QAbstractBarSeries QAbstractBarSeries;
    ClassInclude QtCharts QAbstractSeries QAbstractSeries;
    ClassInclude QtCharts QAreaLegendMarker QAreaLegendMarker;
    ClassInclude QtCharts QAreaSeries QAreaSeries;
    ClassInclude QtCharts QBarCategoryAxis QBarCategoryAxis;
    ClassInclude QtCharts QBarLegendMarker QBarLegendMarker;
    ClassInclude QtCharts QBarSeries QBarSeries;
    ClassInclude QtCharts QBarSet QBarSet;
    ClassInclude QtCharts QBoxPlotLegendMarker QBoxPlotLegendMarker;
    ClassInclude QtCharts QBoxPlotSeries QBoxPlotSeries;
    ClassInclude QtCharts QBoxSet QBoxSet;
    ClassInclude QtCharts QCandlestickLegendMarker QCandlestickLegendMarker;
    ClassInclude QtCharts QCandlestickModelMapper QCandlestickModelMapper;
    ClassInclude QtCharts QCandlestickSeries QCandlestickSeries;
    ClassInclude QtCharts QCandlestickSet QCandlestickSet;
    ClassInclude QtCharts QCategoryAxis QCategoryAxis;
    ClassInclude QtCharts QChart QChart;
    ClassInclude QtCharts QChartView QChartView;
    ClassInclude QtCharts QDateTimeAxis QDateTimeAxis;
    ClassInclude QtCharts QHBarModelMapper QHBarModelMapper;
    ClassInclude QtCharts QHBoxPlotModelMapper QHBoxPlotModelMapper;
    ClassInclude QtCharts QHCandlestickModelMapper QHCandlestickModelMapper;
    ClassInclude QtCharts QHPieModelMapper QHPieModelMapper;
    TypeInclude QtCharts QAbstractAxis TYPE_QTCHARTS_QABSTRACTAXIS;
    TypeInclude QtCharts QAbstractBarSeries TYPE_QTCHARTS_QABSTRACTBARSERIES;
    TypeInclude QtCharts QAbstractSeries TYPE_QTCHARTS_QABSTRACTSERIES;
    TypeInclude QtCharts QAreaSeries TYPE_QTCHARTS_QAREASERIES;
    TypeInclude QtCharts QBarSet TYPE_QTCHARTS_QBARSET;
    TypeInclude QtCharts QBoxPlotSeries TYPE_QTCHARTS_QBOXPLOTSERIES;
    TypeInclude QtCharts QBoxSet TYPE_QTCHARTS_QBOXSET;
    TypeInclude QtCharts QCandlestickSeries TYPE_QTCHARTS_QCANDLESTICKSERIES;
    TypeInclude QtCharts QCandlestickSet TYPE_QTCHARTS_QCANDLESTICKSET;
    TypeInclude QtCharts QChart TYPE_QTCHARTS_QCHART;
    TypeInclude QtCharts QLegend TYPE_QTCHARTS_QLEGEND;
    TypeInclude QtCharts QLineSeries TYPE_QTCHARTS_QLINESERIES;
    TypeInclude QtCharts QPieSeries TYPE_QTCHARTS_QPIESERIES;
    TypeInclude QtCore QAbstractItemModel TYPE_QTCORE_QABSTRACTITEMMODEL;
    EnumDefine ENUM_QT_ORIENTATION;
    EnumDefine ENUM_QT_ORIENTATIONS;
    TypeInclude QtCharts QAbstractAxis TYPE_QTCHARTS_QABSTRACTAXIS;
    TypeInclude QtCharts QAbstractBarSeries TYPE_QTCHARTS_QABSTRACTBARSERIES;
    TypeInclude QtCharts QAbstractSeries TYPE_QTCHARTS_QABSTRACTSERIES;
    TypeInclude QtCharts QCategoryAxis TYPE_QTCHARTS_QCATEGORYAXIS;
    TypeInclude QtCharts QChart TYPE_QTCHARTS_QCHART;
    TypeInclude QtCharts QLegendMarker TYPE_QTCHARTS_QLEGENDMARKER;
    TypeInclude QtCore QDateTime VALUE_TYPE_QTCORE_QDATETIME;
    TypeInclude QtCore QEasingCurve VALUE_TYPE_QTCORE_QEASINGCURVE;
    TypeInclude QtCore QLocale VALUE_TYPE_QTCORE_QLOCALE;
    TypeInclude QtCore QMargins VALUE_TYPE_QTCORE_QMARGINS;
    TypeInclude QtCore QPointF VALUE_TYPE_QTCORE_QPOINTF;
    TypeInclude QtCore QRectF VALUE_TYPE_QTCORE_QRECTF;
    TypeInclude QtGui QBrush VALUE_TYPE_QTGUI_QBRUSH
  ].

Definition methods_qtcharts_0_i1 : list include :=
  [
    TypeInclude QtGui QColor VALUE_TYPE_QTGUI_QCOLOR;
    TypeInclude QtGui QFont VALUE_TYPE_QTGUI_QFONT;
    TypeInclude QtGui QPen VALUE_TYPE_QTGUI_QPEN
  ].

Definition methods_qtcharts_0_s0 : list signature_row :=
  [
    Sig [TYPE_QTCHARTS_QABSTRACTSERIES] "addSeries" [PObject QAbstractSeries false] RVoid [On QChart];
    Sig [] "animationDuration" [] RDouble [On QChart];
    Sig [VALUE_TYPE_QTCORE_QEASINGCURVE] "animationEasingCurve" [] (RValue QEasingCurve) [On QChart];
    Sig [TYPE_QTCHARTS_QBARSET] "append" [PObject QBarSet false] RBool [On QAbstractBarSeries];
    Sig [TYPE_QTCHARTS_QBOXSET] "append" [PObject QBoxSet false] RBool [On QBoxPlotSeries];
    Sig [TYPE_QTCHARTS_QCANDLESTICKSET] "append" [PObject QCandlestickSet false] RBool [On
        QCandlestickSeries];
    Sig [TYPE_QTCHARTS_QBARSET] "append" [PList (IObject QBarSet)] RBool [On QAbstractBarSeries];
    Sig [TYPE_QTCHARTS_QBOXSET] "append" [PList (IObject QBoxSet)] RBool [On QBoxPlotSeries];
    Sig [TYPE_QTCHARTS_QCANDLESTICKSET] "append" [PList (IObject QCandlestickSet)] RBool [On
        QCandlestickSeries]
  ].

Definition methods_qtcharts_0_s9 : list signature_row :=
  [
    Sig [] "append" [PList (IMeta cxx_qreal)] RVoid [On QBarSet; On QBoxSet];
    Sig [] "append" [PString true] RVoid [On QBarCategoryAxis];
    Sig [] "append" [PString true; PNumber cxx_qreal] RVoid [On QCategoryAxis];
    Sig [] "append" [PStringList] RVoid [On QBarCategoryAxis];
    Sig [] "append" [PNumber cxx_qreal] RVoid [On QBarSet; On QBoxSet];
    Sig [] "at" [PInt] RString [On QBarCategoryAxis];
    Sig [] "at" [PInt] RDouble [On QBarSet; On QBoxSet];
    Sig [TYPE_QTCHARTS_QABSTRACTAXIS] "attachAxis" [PObject QAbstractAxis false] RBool [On QAbstractSeries];
    Sig [TYPE_QTCHARTS_QABSTRACTAXIS] "attachedAxes" [] (RList (IObject QObject)) [On QAbstractSeries]
  ].

Definition methods_qtcharts_0_s18 : list signature_row :=
  [
    Sig [ENUM_QT_ORIENTATIONS; TYPE_QTCHARTS_QABSTRACTAXIS; TYPE_QTCHARTS_QABSTRACTSERIES] "axes" [PValue
        Qt_Orientations; PObject QAbstractSeries false] (RList (IObject QObject)) [On QChart];
    Sig [VALUE_TYPE_QTGUI_QBRUSH] "backgroundBrush" [] (RValue QBrush) [On QChart];
    Sig [VALUE_TYPE_QTGUI_QPEN] "backgroundPen" [] (RValue QPen) [On QChart];
    Sig [] "backgroundRoundness" [] RDouble [On QChart];
    Sig [TYPE_QTCHARTS_QBARSET] "barSets" [] (RList (IObject QObject)) [On QAbstractBarSeries];
    Sig [] "barWidth" [] RDouble [On QAbstractBarSeries];
    Sig [TYPE_QTCHARTS_QBARSET] "barset" [] RObject [On QBarLegendMarker];
    Sig [] "bodyOutlineVisible" [] RBool [On QCandlestickSeries];
    Sig [] "bodyWidth" [] RDouble [On QCandlestickSeries];
    Sig [VALUE_TYPE_QTGUI_QCOLOR] "borderColor" [] (RValue QColor) [On QAreaSeries; On QBarSet]
  ].

Definition methods_qtcharts_0_s28 : list signature_row :=
  [
    Sig [] "boxOutlineVisible" [] RBool [On QBoxPlotSeries];
    Sig [TYPE_QTCHARTS_QBOXSET] "boxSets" [] (RList (IObject QObject)) [On QBoxPlotSeries];
    Sig [] "boxWidth" [] RDouble [On QBoxPlotSeries];
    Sig [VALUE_TYPE_QTGUI_QBRUSH] "brush" [] (RValue QBrush) [On QAreaSeries; On QBarSet; On
        QBoxPlotSeries; On QBoxSet; On QCandlestickSeries; On QCandlestickSet];
    Sig [] "capsVisible" [] RBool [On QCandlestickSeries];
    Sig [] "capsWidth" [] RDouble [On QCandlestickSeries];
    Sig [] "categories" [] (RList (IMeta QString)) [On QBarCategoryAxis];
    Sig [] "categoriesLabels" [] (RList (IMeta QString)) [On QCategoryAxis];
    Sig [TYPE_QTCHARTS_QCHART] "chart" [] RObject [On QAbstractSeries; On QChartView]
  ].

Definition methods_qtcharts_0_s37 : list signature_row :=
  [
    Sig [TYPE_QTCHARTS_QCHART] "chartType" [] (RMeta QChart_ChartType) [On QChart];
    Sig [] "clear" [] RVoid [On QAbstractBarSeries; On QBarCategoryAxis; On QBoxPlotSeries; On QBoxSet; On
        QCandlestickSeries];
    Sig [] "close" [] RDouble [On QCandlestickSet];
    Sig [] "closeColumn" [] RDouble [On QHCandlestickModelMapper];
    Sig [VALUE_TYPE_QTGUI_QCOLOR] "color" [] (RValue QColor) [On QAreaSeries; On QBarSet];
    Sig [] "columnCount" [] RDouble [On QHBarModelMapper; On QHBoxPlotModelMapper; On QHPieModelMapper];
    Sig [] "count" [] RDouble [On QAbstractBarSeries; On QBarCategoryAxis; On QBarSet; On QBoxPlotSeries;
        On QBoxSet; On QCandlestickSeries; On QCategoryAxis]
  ].

Definition methods_qtcharts_0_s44 : list signature_row :=
  [
    Sig [] "createDefaultAxes" [] RVoid [On QChart];
    Sig [VALUE_TYPE_QTGUI_QCOLOR] "decreasingColor" [] (RValue QColor) [On QCandlestickSeries];
    Sig [TYPE_QTCHARTS_QABSTRACTAXIS] "detachAxis" [PObject QAbstractAxis false] RBool [On QAbstractSeries];
    Sig [] "endValue" [PString true] RDouble [On QCategoryAxis];
    Sig [] "firstBarSetRow" [] RDouble [On QHBarModelMapper];
    Sig [] "firstBoxSetRow" [] RDouble [On QHBoxPlotModelMapper];
    Sig [] "firstColumn" [] RDouble [On QHBarModelMapper; On QHBoxPlotModelMapper; On QHPieModelMapper];
    Sig [] "firstSetRow" [] RDouble [On QHCandlestickModelMapper];
    Sig [] "format" [] RString [On QDateTimeAxis];
    Sig [VALUE_TYPE_QTGUI_QCOLOR] "gridLineColor" [] (RValue QColor) [On QAbstractAxis];
    Sig [VALUE_TYPE_QTGUI_QPEN] "gridLinePen" [] (RValue QPen) [On QAbstractAxis]
  ].

Definition methods_qtcharts_0_s55 : list signature_row :=
  [
    Sig [] "hide" [] RVoid [On QAbstractAxis; On QAbstractSeries];
    Sig [] "high" [] RDouble [On QCandlestickSet];
    Sig [] "highColumn" [] RDouble [On QHCandlestickModelMapper];
    Sig [VALUE_TYPE_QTGUI_QCOLOR] "increasingColor" [] (RValue QColor) [On QCandlestickSeries];
    Sig [TYPE_QTCHARTS_QBARSET] "insert" [PInt; PObject QBarSet false] RBool [On QAbstractBarSeries];
    Sig [TYPE_QTCHARTS_QBOXSET] "insert" [PInt; PObject QBoxSet false] RBool [On QBoxPlotSeries];
    Sig [TYPE_QTCHARTS_QCANDLESTICKSET] "insert" [PInt; PObject QCandlestickSet false] RBool [On
        QCandlestickSeries];
    Sig [] "insert" [PInt; PString true] RVoid [On QBarCategoryAxis];
    Sig [] "insert" [PInt; PNumber cxx_qreal] RVoid [On QBarSet]
  ].

Definition methods_qtcharts_0_s64 : list signature_row :=
  [
    Sig [] "isBackgroundVisible" [] RBool [On QChart];
    Sig [] "isDropShadowEnabled" [] RBool [On QChart];
    Sig [] "isGridLineVisible" [] RBool [On QAbstractAxis];
    Sig [] "isLabelsVisible" [] RBool [On QAbstractBarSeries];
    Sig [] "isLineVisible" [] RBool [On QAbstractAxis];
    Sig [] "isMinorGridLineVisible" [] RBool [On QAbstractAxis];
    Sig [] "isPlotAreaBackgroundVisible" [] RBool [On QChart];
    Sig [] "isReverse" [] RBool [On QAbstractAxis];
    Sig [] "isTitleVisible" [] RBool [On QAbstractAxis];
    Sig [] "isVisible" [] RBool [On QAbstractAxis; On QAbstractSeries];
    Sig [] "isZoomed" [] RBool [On QChart];
    Sig [] "label" [] RString [On QBarSet; On QBoxSet]
  ].

Definition methods_qtcharts_0_s76 : list signature_row :=
  [
    Sig [VALUE_TYPE_QTGUI_QBRUSH] "labelBrush" [] (RValue QBrush) [On QBarSet];
    Sig [VALUE_TYPE_QTGUI_QCOLOR] "labelColor" [] (RValue QColor) [On QBarSet];
    Sig [VALUE_TYPE_QTGUI_QFONT] "labelFont" [] (RValue QFont) [On QBarSet];
    Sig [] "labelsAngle" [] RDouble [On QAbstractAxis];
    Sig [] "labelsAngle" [] RDouble [On QAbstractBarSeries];
    Sig [VALUE_TYPE_QTGUI_QBRUSH] "labelsBrush" [] (RValue QBrush) [On QAbstractAxis];
    Sig [VALUE_TYPE_QTGUI_QCOLOR] "labelsColor" [] (RValue QColor) [On QAbstractAxis];
    Sig [] "labelsEditable" [] RBool [On QAbstractAxis];
    Sig [VALUE_TYPE_QTGUI_QFONT] "labelsFont" [] (RValue QFont) [On QAbstractAxis];
    Sig [] "labelsFormat" [] RString [On QAbstractBarSeries];
    Sig [TYPE_QTCHARTS_QABSTRACTBARSERIES] "labelsPosition" [] (RMeta QAbstractBarSeries_LabelsPosition)
        [On QAbstractBarSeries]
  ].

Definition methods_qtcharts_0_s87 : list signature_row :=
  [
    Sig [TYPE_QTCHARTS_QCATEGORYAXIS] "labelsPosition" [] (RMeta QCategoryAxis_AxisLabelsPosition) [On
        QCategoryAxis];
    Sig [] "labelsPrecision" [] RDouble [On QAbstractBarSeries];
    Sig [] "labelsRow" [] RDouble [On QHPieModelMapper];
    Sig [] "labelsVisible" [] RBool [On QAbstractAxis];
    Sig [] "lastBarSetRow" [] RDouble [On QHBarModelMapper];
    Sig [] "lastBoxSetRow" [] RDouble [On QHBoxPlotModelMapper];
    Sig [] "lastSetRow" [] RDouble [On QHCandlestickModelMapper];
    Sig [TYPE_QTCHARTS_QLEGEND] "legend" [] RObject [On QChart];
    Sig [VALUE_TYPE_QTGUI_QPEN] "linePen" [] (RValue QPen) [On QAbstractAxis];
    Sig [VALUE_TYPE_QTGUI_QCOLOR] "linePenColor" [] (RValue QColor) [On QAbstractAxis];
    Sig [VALUE_TYPE_QTCORE_QLOCALE] "locale" [] (RValue QLocale) [On QChart];
    Sig [] "localizeNumbers" [] RBool [On QChart]
  ].

Definition methods_qtcharts_0_s99 : list signature_row :=
  [
    Sig [] "low" [] RDouble [On QCandlestickSet];
    Sig [] "lowColumn" [] RDouble [On QHCandlestickModelMapper];
    Sig [TYPE_QTCHARTS_QLINESERIES] "lowerSeries" [] RObject [On QAreaSeries];
    Sig [TYPE_QTCHARTS_QABSTRACTSERIES; VALUE_TYPE_QTCORE_QPOINTF] "mapToPosition" [PValue QPointF; PObject
        QAbstractSeries false] (RValue QPointF) [On QChart];
    Sig [TYPE_QTCHARTS_QABSTRACTSERIES; VALUE_TYPE_QTCORE_QPOINTF] "mapToValue" [PValue QPointF; PObject
        QAbstractSeries false] (RValue QPointF) [On QChart];
    Sig [VALUE_TYPE_QTCORE_QMARGINS] "margins" [] (RValue QMargins) [On QChart];
    Sig [VALUE_TYPE_QTCORE_QDATETIME] "max" [] (RValue QDateTime) [On QDateTimeAxis];
    Sig [] "max" [] RString [On QBarCategoryAxis];
    Sig [] "maximumColumnWidth" [] RDouble [On QCandlestickSeries];
    Sig [VALUE_TYPE_QTCORE_QDATETIME] "min" [] (RValue QDateTime) [On QDateTimeAxis]
  ].

Definition methods_qtcharts_0_s109 : list signature_row :=
  [
    Sig [] "min" [] RString [On QBarCategoryAxis];
    Sig [] "minimumColumnWidth" [] RDouble [On QCandlestickSeries];
    Sig [VALUE_TYPE_QTGUI_QCOLOR] "minorGridLineColor" [] (RValue QColor) [On QAbstractAxis];
    Sig [VALUE_TYPE_QTGUI_QPEN] "minorGridLinePen" [] (RValue QPen) [On QAbstractAxis];
    Sig [TYPE_QTCORE_QABSTRACTITEMMODEL] "model" [] RObject [On QCandlestickModelMapper; On
        QHBarModelMapper; On QHBoxPlotModelMapper; On QHPieModelMapper];
    Sig [] "name" [] RString [On QAbstractSeries];
    Sig [] "opacity" [] RDouble [On QAbstractSeries];
    Sig [] "open" [] RDouble [On QCandlestickSet];
    Sig [] "openColumn" [] RDouble [On QHCandlestickModelMapper];
    Sig [ENUM_QT_ORIENTATION] "orientation" [] (RMeta Qt_Orientation) [On QAbstractAxis; On
        QHCandlestickModelMapper]
  ].

Definition methods_qtcharts_0_s119 : list signature_row :=
  [
    Sig [VALUE_TYPE_QTGUI_QPEN] "pen" [] (RValue QPen) [On QAreaSeries; On QBarSet; On QBoxPlotSeries; On
        QBoxSet; On QCandlestickSeries; On QCandlestickSet];
    Sig [VALUE_TYPE_QTCORE_QRECTF] "plotArea" [] (RValue QRectF) [On QChart];
    Sig [VALUE_TYPE_QTGUI_QBRUSH] "plotAreaBackgroundBrush" [] (RValue QBrush) [On QChart];
    Sig [VALUE_TYPE_QTGUI_QPEN] "plotAreaBackgroundPen" [] (RValue QPen) [On QChart];
    Sig [] "pointLabelsClipping" [] RBool [On QAreaSeries];
    Sig [VALUE_TYPE_QTGUI_QCOLOR] "pointLabelsColor" [] (RValue QColor) [On QAreaSeries];
    Sig [VALUE_TYPE_QTGUI_QFONT] "pointLabelsFont" [] (RValue QFont) [On QAreaSeries];
    Sig [] "pointLabelsFormat" [] RString [On QAreaSeries];
    Sig [] "pointLabelsVisible" [] RBool [On QAreaSeries]
  ].

Definition methods_qtcharts_0_s128 : list signature_row :=
  [
    Sig [] "pointsVisible" [] RBool [On QAreaSeries];
    Sig [TYPE_QTCHARTS_QBARSET] "remove" [PObject QBarSet false] RBool [On QAbstractBarSeries];
    Sig [TYPE_QTCHARTS_QBOXSET] "remove" [PObject QBoxSet false] RBool [On QBoxPlotSeries];
    Sig [TYPE_QTCHARTS_QCANDLESTICKSET] "remove" [PObject QCandlestickSet false] RBool [On
        QCandlestickSeries];
    Sig [TYPE_QTCHARTS_QCANDLESTICKSET] "remove" [PList (IObject QCandlestickSet)] RBool [On
        QCandlestickSeries];
    Sig [] "remove" [PString true] RVoid [On QBarCategoryAxis; On QCategoryAxis];
    Sig [] "remove" [PInt; PInt] RVoid [On QBarSet];
    Sig [] "removeAllSeries" [] RVoid [On QChart];
    Sig [TYPE_QTCHARTS_QABSTRACTAXIS] "removeAxis" [PObject QAbstractAxis false] RVoid [On QChart]
  ].

Definition methods_qtcharts_0_s137 : list signature_row :=
  [
    Sig [TYPE_QTCHARTS_QABSTRACTSERIES] "removeSeries" [PObject QAbstractSeries false] RVoid [On QChart];
    Sig [] "replace" [PString true; PString true] RVoid [On QBarCategoryAxis];
    Sig [] "replace" [PInt; PNumber cxx_qreal] RVoid [On QBarSet];
    Sig [] "replaceLabel" [PString true; PString true] RVoid [On QCategoryAxis];
    Sig [] "scroll" [PNumber cxx_qreal; PNumber cxx_qreal] RVoid [On QChart];
    Sig [TYPE_QTCHARTS_QABSTRACTBARSERIES] "series" [] RObject [On QBarLegendMarker; On QHBarModelMapper];
    Sig [TYPE_QTCHARTS_QAREASERIES] "series" [] RObject [On QAreaLegendMarker];
    Sig [TYPE_QTCHARTS_QBOXPLOTSERIES] "series" [] RObject [On QBoxPlotLegendMarker; On
        QHBoxPlotModelMapper];
    Sig [TYPE_QTCHARTS_QCANDLESTICKSERIES] "series" [] RObject [On QCandlestickLegendMarker; On
        QCandlestickModelMapper]
  ].

Definition methods_qtcharts_0_s146 : list signature_row :=
  [
    Sig [TYPE_QTCHARTS_QABSTRACTSERIES] "series" [] (RList (IObject QObject)) [On QChart];
    Sig [TYPE_QTCHARTS_QPIESERIES] "series" [] RObject [On QHPieModelMapper];
    Sig [] "setAnimationDuration" [PInt] RVoid [On QChart];
    Sig [VALUE_TYPE_QTCORE_QEASINGCURVE] "setAnimationEasingCurve" [PValue QEasingCurve] RVoid [On QChart];
    Sig [VALUE_TYPE_QTGUI_QBRUSH] "setBackgroundBrush" [PValue QBrush] RVoid [On QChart];
    Sig [VALUE_TYPE_QTGUI_QPEN] "setBackgroundPen" [PValue QPen] RVoid [On QChart];
    Sig [] "setBackgroundRoundness" [PNumber cxx_qreal] RVoid [On QChart];
    Sig [] "setBackgroundVisible" [PBool] RVoid [On QChart];
    Sig [] "setBarWidth" [PNumber cxx_qreal] RVoid [On QAbstractBarSeries];
    Sig [] "setBodyOutlineVisible" [PBool] RVoid [On QCandlestickSeries]
  ].

Definition methods_qtcharts_0_s156 : list signature_row :=
  [
    Sig [] "setBodyWidth" [PNumber cxx_qreal] RVoid [On QCandlestickSeries];
    Sig [VALUE_TYPE_QTGUI_QCOLOR] "setBorderColor" [PValue QColor] RVoid [On QAreaSeries; On QBarSet];
    Sig [] "setBoxOutlineVisible" [PBool] RVoid [On QBoxPlotSeries];
    Sig [] "setBoxWidth" [PNumber cxx_qreal] RVoid [On QBoxPlotSeries];
    Sig [VALUE_TYPE_QTGUI_QBRUSH] "setBrush" [PValue QBrush] RVoid [On QAreaSeries; On QBarSet; On
        QBoxPlotSeries; On QBoxSet; On QCandlestickSeries; On QCandlestickSet];
    Sig [] "setCapsVisible" [PBool] RVoid [On QCandlestickSeries];
    Sig [] "setCapsWidth" [PNumber cxx_qreal] RVoid [On QCandlestickSeries];
    Sig [] "setCategories" [PStringList] RVoid [On QBarCategoryAxis]
  ].

Definition methods_qtcharts_0_s164 : list signature_row :=
  [
    Sig [] "setClose" [PNumber cxx_qreal] RVoid [On QCandlestickSet];
    Sig [] "setCloseColumn" [PInt] RVoid [On QHCandlestickModelMapper];
    Sig [VALUE_TYPE_QTGUI_QCOLOR] "setColor" [PValue QColor] RVoid [On QAreaSeries; On QBarSet];
    Sig [] "setColumnCount" [PInt] RVoid [On QHBarModelMapper; On QHBoxPlotModelMapper; On
        QHPieModelMapper];
    Sig [VALUE_TYPE_QTGUI_QCOLOR] "setDecreasingColor" [PValue QColor] RVoid [On QCandlestickSeries];
    Sig [] "setDropShadowEnabled" [PBool] RVoid [On QChart];
    Sig [] "setFirstBarSetRow" [PInt] RVoid [On QHBarModelMapper];
    Sig [] "setFirstBoxSetRow" [PInt] RVoid [On QHBoxPlotModelMapper]
  ].

Definition methods_qtcharts_0_s172 : list signature_row :=
  [
    Sig [] "setFirstColumn" [PInt] RVoid [On QHBarModelMapper; On QHBoxPlotModelMapper; On
        QHPieModelMapper];
    Sig [] "setFirstSetRow" [PInt] RVoid [On QHCandlestickModelMapper];
    Sig [] "setFormat" [PString true] RVoid [On QDateTimeAxis];
    Sig [VALUE_TYPE_QTGUI_QCOLOR] "setGridLineColor" [PValue QColor] RVoid [On QAbstractAxis];
    Sig [VALUE_TYPE_QTGUI_QPEN] "setGridLinePen" [PValue QPen] RVoid [On QAbstractAxis];
    Sig [] "setGridLineVisible" [PBool] RVoid [On QAbstractAxis];
    Sig [] "setHigh" [PNumber cxx_qreal] RVoid [On QCandlestickSet];
    Sig [] "setHighColumn" [PInt] RVoid [On QHCandlestickModelMapper];
    Sig [VALUE_TYPE_QTGUI_QCOLOR] "setIncreasingColor" [PValue QColor] RVoid [On QCandlestickSeries]
  ].

Definition methods_qtcharts_0_s181 : list signature_row :=
  [
    Sig [] "setLabel" [PString true] RVoid [On QBarSet; On QBoxSet];
    Sig [VALUE_TYPE_QTGUI_QBRUSH] "setLabelBrush" [PValue QBrush] RVoid [On QBarSet];
    Sig [VALUE_TYPE_QTGUI_QCOLOR] "setLabelColor" [PValue QColor] RVoid [On QBarSet];
    Sig [VALUE_TYPE_QTGUI_QFONT] "setLabelFont" [PValue QFont] RVoid [On QBarSet];
    Sig [] "setLabelsAngle" [PInt] RVoid [On QAbstractAxis];
    Sig [] "setLabelsAngle" [PNumber cxx_qreal] RVoid [On QAbstractBarSeries];
    Sig [VALUE_TYPE_QTGUI_QBRUSH] "setLabelsBrush" [PValue QBrush] RVoid [On QAbstractAxis];
    Sig [VALUE_TYPE_QTGUI_QCOLOR] "setLabelsColor" [PValue QColor] RVoid [On QAbstractAxis];
    Sig [] "setLabelsEditable" [PBool] RVoid [On QAbstractAxis]
  ].

Definition methods_qtcharts_0_s190 : list signature_row :=
  [
    Sig [VALUE_TYPE_QTGUI_QFONT] "setLabelsFont" [PValue QFont] RVoid [On QAbstractAxis];
    Sig [] "setLabelsFormat" [PString true] RVoid [On QAbstractBarSeries];
    Sig [TYPE_QTCHARTS_QABSTRACTBARSERIES] "setLabelsPosition" [PValue QAbstractBarSeries_LabelsPosition]
        RVoid [On QAbstractBarSeries];
    Sig [TYPE_QTCHARTS_QCATEGORYAXIS] "setLabelsPosition" [PValue QCategoryAxis_AxisLabelsPosition] RVoid
        [On QCategoryAxis];
    Sig [] "setLabelsPrecision" [PInt] RVoid [On QAbstractBarSeries];
    Sig [] "setLabelsRow" [PInt] RVoid [On QHPieModelMapper];
    Sig [] "setLabelsVisible" [PBool] RVoid [On QAbstractAxis; On QAbstractBarSeries];
    Sig [] "setLastBarSetRow" [PInt] RVoid [On QHBarModelMapper];
    Sig [] "setLastBoxSetRow" [PInt] RVoid [On QHBoxPlotModelMapper]
  ].

Definition methods_qtcharts_0_s199 : list signature_row :=
  [
    Sig [] "setLastSetRow" [PInt] RVoid [On QHCandlestickModelMapper];
    Sig [VALUE_TYPE_QTGUI_QPEN] "setLinePen" [PValue QPen] RVoid [On QAbstractAxis];
    Sig [VALUE_TYPE_QTGUI_QCOLOR] "setLinePenColor" [PValue QColor] RVoid [On QAbstractAxis];
    Sig [] "setLineVisible" [PBool] RVoid [On QAbstractAxis];
    Sig [VALUE_TYPE_QTCORE_QLOCALE] "setLocale" [PValue QLocale] RVoid [On QChart];
    Sig [] "setLocalizeNumbers" [PBool] RVoid [On QChart];
    Sig [] "setLow" [PNumber cxx_qreal] RVoid [On QCandlestickSet];
    Sig [] "setLowColumn" [PInt] RVoid [On QHCandlestickModelMapper];
    Sig [TYPE_QTCHARTS_QLINESERIES] "setLowerSeries" [PObject QLineSeries false] RVoid [On QAreaSeries];
    Sig [VALUE_TYPE_QTCORE_QMARGINS] "setMargins" [PValue QMargins] RVoid [On QChart]
  ].

Definition methods_qtcharts_0_s209 : list signature_row :=
  [
    Sig [VALUE_TYPE_QTCORE_QDATETIME] "setMax" [PValue QDateTime] RVoid [On QDateTimeAxis];
    Sig [] "setMax" [PString true] RVoid [On QBarCategoryAxis];
    Sig [] "setMax" [PVariant] RVoid [On QAbstractAxis];
    Sig [] "setMaximumColumnWidth" [PNumber cxx_qreal] RVoid [On QCandlestickSeries];
    Sig [VALUE_TYPE_QTCORE_QDATETIME] "setMin" [PValue QDateTime] RVoid [On QDateTimeAxis];
    Sig [] "setMin" [PString true] RVoid [On QBarCategoryAxis];
    Sig [] "setMin" [PVariant] RVoid [On QAbstractAxis];
    Sig [] "setMinimumColumnWidth" [PNumber cxx_qreal] RVoid [On QCandlestickSeries];
    Sig [VALUE_TYPE_QTGUI_QCOLOR] "setMinorGridLineColor" [PValue QColor] RVoid [On QAbstractAxis];
    Sig [VALUE_TYPE_QTGUI_QPEN] "setMinorGridLinePen" [PValue QPen] RVoid [On QAbstractAxis]
  ].

Definition methods_qtcharts_0_s219 : list signature_row :=
  [
    Sig [] "setMinorGridLineVisible" [PBool] RVoid [On QAbstractAxis];
    Sig [TYPE_QTCORE_QABSTRACTITEMMODEL] "setModel" [PObject QAbstractItemModel false] RVoid [On
        QCandlestickModelMapper; On QHBarModelMapper; On QHBoxPlotModelMapper; On QHPieModelMapper];
    Sig [] "setName" [PString true] RVoid [On QAbstractSeries];
    Sig [] "setOpacity" [PNumber cxx_qreal] RVoid [On QAbstractSeries];
    Sig [] "setOpen" [PNumber cxx_qreal] RVoid [On QCandlestickSet];
    Sig [] "setOpenColumn" [PInt] RVoid [On QHCandlestickModelMapper];
    Sig [VALUE_TYPE_QTGUI_QPEN] "setPen" [PValue QPen] RVoid [On QAreaSeries; On QBarSet; On
        QBoxPlotSeries; On QBoxSet; On QCandlestickSeries; On QCandlestickSet]
  ].

Definition methods_qtcharts_0_s226 : list signature_row :=
  [
    Sig [VALUE_TYPE_QTCORE_QRECTF] "setPlotArea" [PValue QRectF] RVoid [On QChart];
    Sig [VALUE_TYPE_QTGUI_QBRUSH] "setPlotAreaBackgroundBrush" [PValue QBrush] RVoid [On QChart];
    Sig [VALUE_TYPE_QTGUI_QPEN] "setPlotAreaBackgroundPen" [PValue QPen] RVoid [On QChart];
    Sig [] "setPlotAreaBackgroundVisible" [PBool] RVoid [On QChart];
    Sig [] "setPointLabelsClipping" [PBool] RVoid [On QAreaSeries];
    Sig [VALUE_TYPE_QTGUI_QCOLOR] "setPointLabelsColor" [PValue QColor] RVoid [On QAreaSeries];
    Sig [VALUE_TYPE_QTGUI_QFONT] "setPointLabelsFont" [PValue QFont] RVoid [On QAreaSeries];
    Sig [] "setPointLabelsFormat" [PString true] RVoid [On QAreaSeries];
    Sig [] "setPointLabelsVisible" [PBool] RVoid [On QAreaSeries];
    Sig [] "setPointsVisible" [PBool] RVoid [On QAreaSeries]
  ].

Definition methods_qtcharts_0_s236 : list signature_row :=
  [
    Sig [VALUE_TYPE_QTCORE_QDATETIME] "setRange" [PValue QDateTime; PValue QDateTime] RVoid [On
        QDateTimeAxis];
    Sig [] "setRange" [PString true; PString true] RVoid [On QBarCategoryAxis];
    Sig [] "setRange" [PVariant; PVariant] RVoid [On QAbstractAxis];
    Sig [] "setReverse" [PBool] RVoid [On QAbstractAxis];
    Sig [TYPE_QTCHARTS_QABSTRACTBARSERIES] "setSeries" [PObject QAbstractBarSeries false] RVoid [On
        QHBarModelMapper];
    Sig [TYPE_QTCHARTS_QBOXPLOTSERIES] "setSeries" [PObject QBoxPlotSeries false] RVoid [On
        QHBoxPlotModelMapper];
    Sig [TYPE_QTCHARTS_QCANDLESTICKSERIES] "setSeries" [PObject QCandlestickSeries false] RVoid [On
        QCandlestickModelMapper];
    Sig [TYPE_QTCHARTS_QPIESERIES] "setSeries" [PObject QPieSeries false] RVoid [On QHPieModelMapper];
    Sig [VALUE_TYPE_QTGUI_QCOLOR] "setShadesBorderColor" [PValue QColor] RVoid [On QAbstractAxis]
  ].

Definition methods_qtcharts_0_s245 : list signature_row :=
  [
    Sig [VALUE_TYPE_QTGUI_QBRUSH] "setShadesBrush" [PValue QBrush] RVoid [On QAbstractAxis];
    Sig [VALUE_TYPE_QTGUI_QCOLOR] "setShadesColor" [PValue QColor] RVoid [On QAbstractAxis];
    Sig [VALUE_TYPE_QTGUI_QPEN] "setShadesPen" [PValue QPen] RVoid [On QAbstractAxis];
    Sig [] "setShadesVisible" [PBool] RVoid [On QAbstractAxis];
    Sig [] "setStartValue" [PNumber cxx_qreal] RVoid [On QCategoryAxis];
    Sig [TYPE_QTCHARTS_QCHART] "setTheme" [PValue QChart_ChartTheme] RVoid [On QChart];
    Sig [] "setTickCount" [PInt] RVoid [On QDateTimeAxis];
    Sig [] "setTimestamp" [PNumber cxx_qreal] RVoid [On QCandlestickSet];
    Sig [] "setTimestampColumn" [PInt] RVoid [On QHCandlestickModelMapper];
    Sig [] "setTitle" [PString true] RVoid [On QChart]
  ].

Definition methods_qtcharts_0_s255 : list signature_row :=
  [
    Sig [VALUE_TYPE_QTGUI_QBRUSH] "setTitleBrush" [PValue QBrush] RVoid [On QAbstractAxis; On QChart];
    Sig [VALUE_TYPE_QTGUI_QFONT] "setTitleFont" [PValue QFont] RVoid [On QAbstractAxis; On QChart];
    Sig [] "setTitleText" [PString true] RVoid [On QAbstractAxis];
    Sig [] "setTitleVisible" [PBool] RVoid [On QAbstractAxis];
    Sig [TYPE_QTCHARTS_QLINESERIES] "setUpperSeries" [PObject QLineSeries false] RVoid [On QAreaSeries];
    Sig [] "setUseOpenGL" [PBool] RVoid [On QAbstractSeries];
    Sig [] "setValue" [PInt; PNumber cxx_qreal] RVoid [On QBoxSet];
    Sig [] "setValuesRow" [PInt] RVoid [On QHPieModelMapper];
    Sig [] "setVisible" [PBool] RVoid [On QAbstractAxis; On QAbstractSeries]
  ].

Definition methods_qtcharts_0_s264 : list signature_row :=
  [
    Sig [TYPE_QTCHARTS_QCANDLESTICKSET] "sets" [] (RList (IObject QObject)) [On QCandlestickSeries];
    Sig [VALUE_TYPE_QTGUI_QCOLOR] "shadesBorderColor" [] (RValue QColor) [On QAbstractAxis];
    Sig [VALUE_TYPE_QTGUI_QBRUSH] "shadesBrush" [] (RValue QBrush) [On QAbstractAxis];
    Sig [VALUE_TYPE_QTGUI_QCOLOR] "shadesColor" [] (RValue QColor) [On QAbstractAxis];
    Sig [VALUE_TYPE_QTGUI_QPEN] "shadesPen" [] (RValue QPen) [On QAbstractAxis];
    Sig [] "shadesVisible" [] RBool [On QAbstractAxis];
    Sig [] "show" [] RVoid [On QAbstractAxis; On QAbstractSeries];
    Sig [] "startValue" [PString true] RDouble [On QCategoryAxis];
    Sig [] "sum" [] RDouble [On QBarSet];
    Sig [TYPE_QTCHARTS_QBARSET] "take" [PObject QBarSet false] RBool [On QAbstractBarSeries]
  ].

Definition methods_qtcharts_0_s274 : list signature_row :=
  [
    Sig [TYPE_QTCHARTS_QBOXSET] "take" [PObject QBoxSet false] RBool [On QBoxPlotSeries];
    Sig [TYPE_QTCHARTS_QCANDLESTICKSET] "take" [PObject QCandlestickSet false] RBool [On
        QCandlestickSeries];
    Sig [TYPE_QTCHARTS_QCHART] "theme" [] (RMeta QChart_ChartTheme) [On QChart];
    Sig [] "tickCount" [] RDouble [On QDateTimeAxis];
    Sig [] "timestamp" [] RDouble [On QCandlestickSet];
    Sig [] "timestampColumn" [] RDouble [On QHCandlestickModelMapper];
    Sig [] "title" [] RString [On QChart];
    Sig [VALUE_TYPE_QTGUI_QBRUSH] "titleBrush" [] (RValue QBrush) [On QAbstractAxis; On QChart];
    Sig [VALUE_TYPE_QTGUI_QFONT] "titleFont" [] (RValue QFont) [On QAbstractAxis; On QChart];
    Sig [] "titleText" [] RString [On QAbstractAxis]
  ].

Definition methods_qtcharts_0_s284 : list signature_row :=
  [
    Sig [TYPE_QTCHARTS_QABSTRACTAXIS] "type" [] (RMeta QAbstractAxis_AxisType) [On QBarCategoryAxis; On
        QCategoryAxis; On QDateTimeAxis];
    Sig [TYPE_QTCHARTS_QABSTRACTSERIES] "type" [] (RMeta QAbstractSeries_SeriesType) [On QAreaSeries; On
        QBarSeries; On QBoxPlotSeries; On QCandlestickSeries];
    Sig [TYPE_QTCHARTS_QLEGENDMARKER] "type" [] (RMeta QLegendMarker_LegendMarkerType) [On
        QAreaLegendMarker; On QBarLegendMarker; On QBoxPlotLegendMarker; On QCandlestickLegendMarker];
    Sig [TYPE_QTCHARTS_QLINESERIES] "upperSeries" [] RObject [On QAreaSeries];
    Sig [] "useOpenGL" [] RBool [On QAbstractSeries];
    Sig [] "valuesRow" [] RDouble [On QHPieModelMapper];
    Sig [] "zoom" [PNumber cxx_qreal] RVoid [On QChart];
    Sig [] "zoomIn" [] RVoid [On QChart];
    Sig [VALUE_TYPE_QTCORE_QRECTF] "zoomIn" [PValue QRectF] RVoid [On QChart]
  ].

Definition methods_qtcharts_0_s293 : list signature_row :=
  [
    Sig [] "zoomOut" [] RVoid [On QChart];
    Sig [] "zoomReset" [] RVoid [On QChart]
  ].

Definition methods_qtcharts_0 : method_shard :=
  MethodShard QtCharts "KRY_QT6_NATIVE_METHODS_QTCHARTS_"
    (methods_qtcharts_0_i0 ++ methods_qtcharts_0_i1)
    (methods_qtcharts_0_s0 ++ methods_qtcharts_0_s9 ++ methods_qtcharts_0_s18 ++ methods_qtcharts_0_s28 ++
        methods_qtcharts_0_s37 ++ methods_qtcharts_0_s44 ++ methods_qtcharts_0_s55 ++
        methods_qtcharts_0_s64 ++ methods_qtcharts_0_s76 ++ methods_qtcharts_0_s87 ++
        methods_qtcharts_0_s99 ++ methods_qtcharts_0_s109 ++ methods_qtcharts_0_s119 ++
        methods_qtcharts_0_s128 ++ methods_qtcharts_0_s137 ++ methods_qtcharts_0_s146 ++
        methods_qtcharts_0_s156 ++ methods_qtcharts_0_s164 ++ methods_qtcharts_0_s172 ++
        methods_qtcharts_0_s181 ++ methods_qtcharts_0_s190 ++ methods_qtcharts_0_s199 ++
        methods_qtcharts_0_s209 ++ methods_qtcharts_0_s219 ++ methods_qtcharts_0_s226 ++
        methods_qtcharts_0_s236 ++ methods_qtcharts_0_s245 ++ methods_qtcharts_0_s255 ++
        methods_qtcharts_0_s264 ++ methods_qtcharts_0_s274 ++ methods_qtcharts_0_s284 ++
        methods_qtcharts_0_s293)
    [].

Definition methods_qtcharts_1_i0 : list include :=
  [
    ClassInclude QtCharts QHXYModelMapper QHXYModelMapper;
    ClassInclude QtCharts QHorizontalBarSeries QHorizontalBarSeries;
    ClassInclude QtCharts QHorizontalPercentBarSeries QHorizontalPercentBarSeries;
    ClassInclude QtCharts QHorizontalStackedBarSeries QHorizontalStackedBarSeries;
    ClassInclude QtCharts QLegend QLegend;
    ClassInclude QtCharts QLegendMarker QLegendMarker;
    ClassInclude QtCharts QLineSeries QLineSeries;
    ClassInclude QtCharts QLogValueAxis QLogValueAxis;
    ClassInclude QtCharts QPercentBarSeries QPercentBarSeries;
    ClassInclude QtCharts QPieLegendMarker QPieLegendMarker;
    ClassInclude QtCharts QPieSeries QPieSeries;
    ClassInclude QtCharts QPieSlice QPieSlice;
    ClassInclude QtCharts QPolarChart QPolarChart;
    ClassInclude QtCharts QScatterSeries QScatterSeries;
    ClassInclude QtCharts QSplineSeries QSplineSeries;
    ClassInclude QtCharts QStackedBarSeries QStackedBarSeries;
    ClassInclude QtCharts QVBarModelMapper QVBarModelMapper;
    ClassInclude QtCharts QVBoxPlotModelMapper QVBoxPlotModelMapper;
    ClassInclude QtCharts QVCandlestickModelMapper QVCandlestickModelMapper;
    ClassInclude QtCharts QVPieModelMapper QVPieModelMapper;
    ClassInclude QtCharts QVXYModelMapper QVXYModelMapper;
    ClassInclude QtCharts QValueAxis QValueAxis;
    ClassInclude QtCharts QXYLegendMarker QXYLegendMarker;
    ClassInclude QtCharts QXYSeries QXYSeries;
    TypeInclude QtCharts QAbstractAxis TYPE_QTCHARTS_QABSTRACTAXIS;
    TypeInclude QtCharts QAbstractBarSeries TYPE_QTCHARTS_QABSTRACTBARSERIES;
    TypeInclude QtCharts QAbstractSeries TYPE_QTCHARTS_QABSTRACTSERIES;
    TypeInclude QtCharts QBoxPlotSeries TYPE_QTCHARTS_QBOXPLOTSERIES;
    TypeInclude QtCharts QLegendMarker TYPE_QTCHARTS_QLEGENDMARKER;
    TypeInclude QtCharts QPieSeries TYPE_QTCHARTS_QPIESERIES;
    TypeInclude QtCharts QPieSlice TYPE_QTCHARTS_QPIESLICE;
    TypeInclude QtCharts QXYSeries TYPE_QTCHARTS_QXYSERIES;
    TypeInclude QtCore QAbstractItemModel TYPE_QTCORE_QABSTRACTITEMMODEL;
    EnumDefine ENUM_QT_ORIENTATION;
    TypeInclude QtCharts QAbstractAxis TYPE_QTCHARTS_QABSTRACTAXIS;
    TypeInclude QtCharts QAbstractSeries TYPE_QTCHARTS_QABSTRACTSERIES;
    TypeInclude QtCharts QLegend TYPE_QTCHARTS_QLEGEND;
    TypeInclude QtCharts QLegendMarker TYPE_QTCHARTS_QLEGENDMARKER;
    TypeInclude QtCharts QPieSlice TYPE_QTCHARTS_QPIESLICE;
    TypeInclude QtCharts QPolarChart TYPE_QTCHARTS_QPOLARCHART;
    TypeInclude QtCharts QScatterSeries TYPE_QTCHARTS_QSCATTERSERIES;
    TypeInclude QtCharts QValueAxis TYPE_QTCHARTS_QVALUEAXIS;
    TypeInclude QtCore QPointF VALUE_TYPE_QTCORE_QPOINTF;
    TypeInclude QtGui QBrush VALUE_TYPE_QTGUI_QBRUSH;
    TypeInclude QtGui QColor VALUE_TYPE_QTGUI_QCOLOR;
    TypeInclude QtGui QFont VALUE_TYPE_QTGUI_QFONT;
    TypeInclude QtGui QPen VALUE_TYPE_QTGUI_QPEN
  ].

Definition methods_qtcharts_1_s0 : list signature_row :=
  [
    Sig [TYPE_QTCHARTS_QABSTRACTAXIS; TYPE_QTCHARTS_QPOLARCHART] "addAxis" [PObject QAbstractAxis false;
        PValue QPolarChart_PolarOrientation] RVoid [On QPolarChart];
    Sig [] "angleSpan" [] RDouble [On QPieSlice];
    Sig [TYPE_QTCHARTS_QPIESLICE] "append" [PList (IObject QPieSlice)] RBool [On QPieSeries];
    Sig [VALUE_TYPE_QTCORE_QPOINTF] "append" [PList (IValue QPointF)] RVoid [On QXYSeries];
    Sig [TYPE_QTCHARTS_QPIESLICE] "append" [PObject QPieSlice false] RBool [On QPieSeries];
    Sig [VALUE_TYPE_QTCORE_QPOINTF] "append" [PValue QPointF] RVoid [On QXYSeries];
    Sig [TYPE_QTCHARTS_QPIESLICE] "append" [PString true; PNumber cxx_qreal] RObject [On QPieSeries];
    Sig [] "append" [PNumber cxx_qreal; PNumber cxx_qreal] RVoid [On QXYSeries];
    Sig [] "applyNiceNumbers" [] RVoid [On QValueAxis]
  ].

Definition methods_qtcharts_1_s9 : list signature_row :=
  [
    Sig [VALUE_TYPE_QTCORE_QPOINTF] "at" [PInt] (RValue QPointF) [On QXYSeries];
    Sig [] "attachToChart" [] RVoid [On QLegend];
    Sig [TYPE_QTCHARTS_QABSTRACTAXIS; TYPE_QTCHARTS_QABSTRACTSERIES; TYPE_QTCHARTS_QPOLARCHART] "axes"
        [PValue QPolarChart_PolarOrientations; PObject QAbstractSeries false] (RList (IObject QObject)) [On
        QPolarChart];
    Sig [TYPE_QTCHARTS_QABSTRACTAXIS; TYPE_QTCHARTS_QPOLARCHART] "axisPolarOrientation" [PObject
        QAbstractAxis false] (RMeta QPolarChart_PolarOrientation) [Static QPolarChart];
    Sig [] "base" [] RDouble [On QLogValueAxis];
    Sig [VALUE_TYPE_QTGUI_QCOLOR] "borderColor" [] (RValue QColor) [On QLegend; On QPieSlice; On
        QScatterSeries];
    Sig [] "borderWidth" [] RDouble [On QPieSlice]
  ].

Definition methods_qtcharts_1_s16 : list signature_row :=
  [
    Sig [VALUE_TYPE_QTGUI_QBRUSH] "brush" [] (RValue QBrush) [On QLegend; On QLegendMarker; On QPieSlice;
        On QScatterSeries; On QXYSeries];
    Sig [] "clear" [] RVoid [On QPieSeries; On QXYSeries];
    Sig [] "closeRow" [] RDouble [On QVCandlestickModelMapper];
    Sig [VALUE_TYPE_QTGUI_QCOLOR] "color" [] (RValue QColor) [On QLegend; On QPieSlice; On QScatterSeries;
        On QXYSeries];
    Sig [] "columnCount" [] RDouble [On QHXYModelMapper];
    Sig [] "count" [] RDouble [On QPieSeries; On QXYSeries];
    Sig [] "detachFromChart" [] RVoid [On QLegend];
    Sig [] "explodeDistanceFactor" [] RDouble [On QPieSlice]
  ].

Definition methods_qtcharts_1_s24 : list signature_row :=
  [
    Sig [] "firstBarSetColumn" [] RDouble [On QVBarModelMapper];
    Sig [] "firstBoxSetColumn" [] RDouble [On QVBoxPlotModelMapper];
    Sig [] "firstColumn" [] RDouble [On QHXYModelMapper];
    Sig [] "firstRow" [] RDouble [On QVBarModelMapper; On QVBoxPlotModelMapper; On QVPieModelMapper; On
        QVXYModelMapper];
    Sig [] "firstSetColumn" [] RDouble [On QVCandlestickModelMapper];
    Sig [VALUE_TYPE_QTGUI_QFONT] "font" [] (RValue QFont) [On QLegend; On QLegendMarker];
    Sig [] "highRow" [] RDouble [On QVCandlestickModelMapper];
    Sig [] "holeSize" [] RDouble [On QPieSeries];
    Sig [] "horizontalPosition" [] RDouble [On QPieSeries];
    Sig [TYPE_QTCHARTS_QPIESLICE] "insert" [PInt; PObject QPieSlice false] RBool [On QPieSeries]
  ].

Definition methods_qtcharts_1_s34 : list signature_row :=
  [
    Sig [VALUE_TYPE_QTCORE_QPOINTF] "insert" [PInt; PValue QPointF] RVoid [On QXYSeries];
    Sig [] "isAttachedToChart" [] RBool [On QLegend];
    Sig [] "isBackgroundVisible" [] RBool [On QLegend];
    Sig [] "isEmpty" [] RBool [On QPieSeries];
    Sig [] "isExploded" [] RBool [On QPieSlice];
    Sig [] "isLabelVisible" [] RBool [On QPieSlice];
    Sig [] "isVisible" [] RBool [On QLegendMarker];
    Sig [] "label" [] RString [On QLegendMarker; On QPieSlice];
    Sig [] "labelArmLengthFactor" [] RDouble [On QPieSlice];
    Sig [VALUE_TYPE_QTGUI_QBRUSH] "labelBrush" [] (RValue QBrush) [On QLegend; On QLegendMarker; On
        QPieSlice]
  ].

Definition methods_qtcharts_1_s44 : list signature_row :=
  [
    Sig [VALUE_TYPE_QTGUI_QCOLOR] "labelColor" [] (RValue QColor) [On QLegend; On QPieSlice];
    Sig [VALUE_TYPE_QTGUI_QFONT] "labelFont" [] (RValue QFont) [On QPieSlice];
    Sig [] "labelFormat" [] RString [On QLogValueAxis; On QValueAxis];
    Sig [TYPE_QTCHARTS_QPIESLICE] "labelPosition" [] (RMeta QPieSlice_LabelPosition) [On QPieSlice];
    Sig [] "labelsColumn" [] RDouble [On QVPieModelMapper];
    Sig [] "lastBarSetColumn" [] RDouble [On QVBarModelMapper];
    Sig [] "lastBoxSetColumn" [] RDouble [On QVBoxPlotModelMapper];
    Sig [] "lastSetColumn" [] RDouble [On QVCandlestickModelMapper];
    Sig [] "lowRow" [] RDouble [On QVCandlestickModelMapper];
    Sig [TYPE_QTCHARTS_QLEGEND] "markerShape" [] (RMeta QLegend_MarkerShape) [On QLegend];
    Sig [TYPE_QTCHARTS_QSCATTERSERIES] "markerShape" [] (RMeta QScatterSeries_MarkerShape) [On
        QScatterSeries]
  ].

Definition methods_qtcharts_1_s55 : list signature_row :=
  [
    Sig [] "markerSize" [] RDouble [On QScatterSeries];
    Sig [TYPE_QTCHARTS_QABSTRACTSERIES; TYPE_QTCHARTS_QLEGENDMARKER] "markers" [PObject QAbstractSeries
        false] (RList (IObject QObject)) [On QLegend];
    Sig [] "max" [] RDouble [On QLogValueAxis; On QValueAxis];
    Sig [] "min" [] RDouble [On QLogValueAxis; On QValueAxis];
    Sig [] "minorTickCount" [] RDouble [On QLogValueAxis; On QValueAxis];
    Sig [TYPE_QTCORE_QABSTRACTITEMMODEL] "model" [] RObject [On QHXYModelMapper; On QVBarModelMapper; On
        QVBoxPlotModelMapper; On QVPieModelMapper; On QVXYModelMapper];
    Sig [] "openRow" [] RDouble [On QVCandlestickModelMapper];
    Sig [ENUM_QT_ORIENTATION] "orientation" [] (RMeta Qt_Orientation) [On QVCandlestickModelMapper]
  ].

Definition methods_qtcharts_1_s63 : list signature_row :=
  [
    Sig [VALUE_TYPE_QTGUI_QPEN] "pen" [] (RValue QPen) [On QLegend; On QLegendMarker; On QPieSlice; On
        QXYSeries];
    Sig [] "percentage" [] RDouble [On QPieSlice];
    Sig [] "pieEndAngle" [] RDouble [On QPieSeries];
    Sig [] "pieSize" [] RDouble [On QPieSeries];
    Sig [] "pieStartAngle" [] RDouble [On QPieSeries];
    Sig [] "pointLabelsClipping" [] RBool [On QXYSeries];
    Sig [VALUE_TYPE_QTGUI_QCOLOR] "pointLabelsColor" [] (RValue QColor) [On QXYSeries];
    Sig [VALUE_TYPE_QTGUI_QFONT] "pointLabelsFont" [] (RValue QFont) [On QXYSeries];
    Sig [] "pointLabelsFormat" [] RString [On QXYSeries];
    Sig [] "pointLabelsVisible" [] RBool [On QXYSeries]
  ].

Definition methods_qtcharts_1_s73 : list signature_row :=
  [
    Sig [VALUE_TYPE_QTCORE_QPOINTF] "points" [] (RList (IValue QPointF)) [On QXYSeries];
    Sig [] "pointsVisible" [] RBool [On QXYSeries];
    Sig [TYPE_QTCHARTS_QPIESLICE] "remove" [PObject QPieSlice false] RBool [On QPieSeries];
    Sig [VALUE_TYPE_QTCORE_QPOINTF] "remove" [PValue QPointF] RVoid [On QXYSeries];
    Sig [] "remove" [PInt] RVoid [On QXYSeries];
    Sig [] "remove" [PNumber cxx_qreal; PNumber cxx_qreal] RVoid [On QXYSeries];
    Sig [] "removePoints" [PInt; PInt] RVoid [On QXYSeries];
    Sig [VALUE_TYPE_QTCORE_QPOINTF] "replace" [PList (IValue QPointF)] RVoid [On QXYSeries];
    Sig [VALUE_TYPE_QTCORE_QPOINTF] "replace" [PValue QPointF; PValue QPointF] RVoid [On QXYSeries]
  ].

Definition methods_qtcharts_1_s82 : list signature_row :=
  [
    Sig [VALUE_TYPE_QTCORE_QPOINTF] "replace" [PInt; PValue QPointF] RVoid [On QXYSeries];
    Sig [] "replace" [PInt; PNumber cxx_qreal; PNumber cxx_qreal] RVoid [On QXYSeries];
    Sig [] "replace" [PNumber cxx_qreal; PNumber cxx_qreal; PNumber cxx_qreal; PNumber cxx_qreal] RVoid [On
        QXYSeries];
    Sig [] "reverseMarkers" [] RBool [On QLegend];
    Sig [] "rowCount" [] RDouble [On QVBarModelMapper; On QVBoxPlotModelMapper; On QVPieModelMapper; On
        QVXYModelMapper];
    Sig [TYPE_QTCHARTS_QABSTRACTBARSERIES] "series" [] RObject [On QVBarModelMapper];
    Sig [TYPE_QTCHARTS_QBOXPLOTSERIES] "series" [] RObject [On QVBoxPlotModelMapper];
    Sig [TYPE_QTCHARTS_QPIESERIES] "series" [] RObject [On QPieLegendMarker; On QPieSlice; On
        QVPieModelMapper]
  ].

Definition methods_qtcharts_1_s90 : list signature_row :=
  [
    Sig [TYPE_QTCHARTS_QXYSERIES] "series" [] RObject [On QHXYModelMapper; On QVXYModelMapper; On
        QXYLegendMarker];
    Sig [] "setBackgroundVisible" [PBool] RVoid [On QLegend];
    Sig [] "setBase" [PNumber cxx_qreal] RVoid [On QLogValueAxis];
    Sig [VALUE_TYPE_QTGUI_QCOLOR] "setBorderColor" [PValue QColor] RVoid [On QLegend; On QPieSlice; On
        QScatterSeries];
    Sig [] "setBorderWidth" [PInt] RVoid [On QPieSlice];
    Sig [VALUE_TYPE_QTGUI_QBRUSH] "setBrush" [PValue QBrush] RVoid [On QLegend; On QLegendMarker; On
        QPieSlice; On QScatterSeries; On QXYSeries];
    Sig [] "setCloseRow" [PInt] RVoid [On QVCandlestickModelMapper]
  ].

Definition methods_qtcharts_1_s97 : list signature_row :=
  [
    Sig [VALUE_TYPE_QTGUI_QCOLOR] "setColor" [PValue QColor] RVoid [On QLegend; On QPieSlice; On
        QScatterSeries; On QXYSeries];
    Sig [] "setColumnCount" [PInt] RVoid [On QHXYModelMapper];
    Sig [] "setExplodeDistanceFactor" [PNumber cxx_qreal] RVoid [On QPieSlice];
    Sig [] "setExploded" [PBool] RVoid [On QPieSlice];
    Sig [] "setFirstBarSetColumn" [PInt] RVoid [On QVBarModelMapper];
    Sig [] "setFirstBoxSetColumn" [PInt] RVoid [On QVBoxPlotModelMapper];
    Sig [] "setFirstColumn" [PInt] RVoid [On QHXYModelMapper];
    Sig [] "setFirstRow" [PInt] RVoid [On QVBarModelMapper; On QVBoxPlotModelMapper; On QVPieModelMapper;
        On QVXYModelMapper]
  ].

Definition methods_qtcharts_1_s105 : list signature_row :=
  [
    Sig [] "setFirstSetColumn" [PInt] RVoid [On QVCandlestickModelMapper];
    Sig [VALUE_TYPE_QTGUI_QFONT] "setFont" [PValue QFont] RVoid [On QLegend; On QLegendMarker];
    Sig [] "setHighRow" [PInt] RVoid [On QVCandlestickModelMapper];
    Sig [] "setHoleSize" [PNumber cxx_qreal] RVoid [On QPieSeries];
    Sig [] "setHorizontalPosition" [PNumber cxx_qreal] RVoid [On QPieSeries];
    Sig [] "setLabel" [PString true] RVoid [On QLegendMarker; On QPieSlice];
    Sig [] "setLabelArmLengthFactor" [PNumber cxx_qreal] RVoid [On QPieSlice];
    Sig [VALUE_TYPE_QTGUI_QBRUSH] "setLabelBrush" [PValue QBrush] RVoid [On QLegend; On QLegendMarker; On
        QPieSlice]
  ].

Definition methods_qtcharts_1_s113 : list signature_row :=
  [
    Sig [VALUE_TYPE_QTGUI_QCOLOR] "setLabelColor" [PValue QColor] RVoid [On QLegend; On QPieSlice];
    Sig [VALUE_TYPE_QTGUI_QFONT] "setLabelFont" [PValue QFont] RVoid [On QPieSlice];
    Sig [] "setLabelFormat" [PString true] RVoid [On QLogValueAxis; On QValueAxis];
    Sig [TYPE_QTCHARTS_QPIESLICE] "setLabelPosition" [PValue QPieSlice_LabelPosition] RVoid [On QPieSlice];
    Sig [] "setLabelVisible" [PBool] RVoid [On QPieSlice];
    Sig [] "setLabelsColumn" [PInt] RVoid [On QVPieModelMapper];
    Sig [TYPE_QTCHARTS_QPIESLICE] "setLabelsPosition" [PValue QPieSlice_LabelPosition] RVoid [On
        QPieSeries];
    Sig [] "setLabelsVisible" [PBool] RVoid [On QPieSeries];
    Sig [] "setLastBarSetColumn" [PInt] RVoid [On QVBarModelMapper]
  ].

Definition methods_qtcharts_1_s122 : list signature_row :=
  [
    Sig [] "setLastBoxSetColumn" [PInt] RVoid [On QVBoxPlotModelMapper];
    Sig [] "setLastSetColumn" [PInt] RVoid [On QVCandlestickModelMapper];
    Sig [] "setLowRow" [PInt] RVoid [On QVCandlestickModelMapper];
    Sig [TYPE_QTCHARTS_QLEGEND] "setMarkerShape" [PValue QLegend_MarkerShape] RVoid [On QLegend];
    Sig [TYPE_QTCHARTS_QSCATTERSERIES] "setMarkerShape" [PValue QScatterSeries_MarkerShape] RVoid [On
        QScatterSeries];
    Sig [] "setMarkerSize" [PNumber cxx_qreal] RVoid [On QScatterSeries];
    Sig [] "setMax" [PNumber cxx_qreal] RVoid [On QLogValueAxis; On QValueAxis];
    Sig [] "setMin" [PNumber cxx_qreal] RVoid [On QLogValueAxis; On QValueAxis];
    Sig [] "setMinorTickCount" [PInt] RVoid [On QLogValueAxis; On QValueAxis]
  ].

Definition methods_qtcharts_1_s131 : list signature_row :=
  [
    Sig [TYPE_QTCORE_QABSTRACTITEMMODEL] "setModel" [PObject QAbstractItemModel false] RVoid [On
        QHXYModelMapper; On QVBarModelMapper; On QVBoxPlotModelMapper; On QVPieModelMapper; On
        QVXYModelMapper];
    Sig [] "setOpenRow" [PInt] RVoid [On QVCandlestickModelMapper];
    Sig [VALUE_TYPE_QTGUI_QPEN] "setPen" [PValue QPen] RVoid [On QLegend; On QLegendMarker; On QPieSlice;
        On QScatterSeries; On QXYSeries];
    Sig [] "setPieEndAngle" [PNumber cxx_qreal] RVoid [On QPieSeries];
    Sig [] "setPieSize" [PNumber cxx_qreal] RVoid [On QPieSeries];
    Sig [] "setPieStartAngle" [PNumber cxx_qreal] RVoid [On QPieSeries];
    Sig [] "setPointLabelsClipping" [PBool] RVoid [On QXYSeries]
  ].

Definition methods_qtcharts_1_s138 : list signature_row :=
  [
    Sig [VALUE_TYPE_QTGUI_QCOLOR] "setPointLabelsColor" [PValue QColor] RVoid [On QXYSeries];
    Sig [VALUE_TYPE_QTGUI_QFONT] "setPointLabelsFont" [PValue QFont] RVoid [On QXYSeries];
    Sig [] "setPointLabelsFormat" [PString true] RVoid [On QXYSeries];
    Sig [] "setPointLabelsVisible" [PBool] RVoid [On QXYSeries];
    Sig [] "setPointsVisible" [PBool] RVoid [On QXYSeries];
    Sig [] "setRange" [PNumber cxx_qreal; PNumber cxx_qreal] RVoid [On QLogValueAxis; On QValueAxis];
    Sig [] "setReverseMarkers" [PBool] RVoid [On QLegend];
    Sig [] "setRowCount" [PInt] RVoid [On QVBarModelMapper; On QVBoxPlotModelMapper; On QVPieModelMapper;
        On QVXYModelMapper]
  ].

Definition methods_qtcharts_1_s146 : list signature_row :=
  [
    Sig [TYPE_QTCHARTS_QABSTRACTBARSERIES] "setSeries" [PObject QAbstractBarSeries false] RVoid [On
        QVBarModelMapper];
    Sig [TYPE_QTCHARTS_QBOXPLOTSERIES] "setSeries" [PObject QBoxPlotSeries false] RVoid [On
        QVBoxPlotModelMapper];
    Sig [TYPE_QTCHARTS_QPIESERIES] "setSeries" [PObject QPieSeries false] RVoid [On QVPieModelMapper];
    Sig [TYPE_QTCHARTS_QXYSERIES] "setSeries" [PObject QXYSeries false] RVoid [On QHXYModelMapper; On
        QVXYModelMapper];
    Sig [TYPE_QTCHARTS_QLEGEND] "setShape" [PValue QLegend_MarkerShape] RVoid [On QLegendMarker];
    Sig [] "setShowToolTips" [PBool] RVoid [On QLegend];
    Sig [] "setTickAnchor" [PNumber cxx_qreal] RVoid [On QValueAxis];
    Sig [] "setTickCount" [PInt] RVoid [On QValueAxis];
    Sig [] "setTickInterval" [PNumber cxx_qreal] RVoid [On QValueAxis]
  ].

Definition methods_qtcharts_1_s155 : list signature_row :=
  [
    Sig [TYPE_QTCHARTS_QVALUEAXIS] "setTickType" [PValue QValueAxis_TickType] RVoid [On QValueAxis];
    Sig [] "setTimestampRow" [PInt] RVoid [On QVCandlestickModelMapper];
    Sig [] "setValue" [PNumber cxx_qreal] RVoid [On QPieSlice];
    Sig [] "setValuesColumn" [PInt] RVoid [On QVPieModelMapper];
    Sig [] "setVerticalPosition" [PNumber cxx_qreal] RVoid [On QPieSeries];
    Sig [] "setVisible" [PBool] RVoid [On QLegendMarker];
    Sig [] "setXColumn" [PInt] RVoid [On QVXYModelMapper];
    Sig [] "setXRow" [PInt] RVoid [On QHXYModelMapper];
    Sig [] "setYColumn" [PInt] RVoid [On QVXYModelMapper];
    Sig [] "setYRow" [PInt] RVoid [On QHXYModelMapper]
  ].

Definition methods_qtcharts_1_s165 : list signature_row :=
  [
    Sig [TYPE_QTCHARTS_QLEGEND] "shape" [] (RMeta QLegend_MarkerShape) [On QLegendMarker];
    Sig [] "showToolTips" [] RBool [On QLegend];
    Sig [TYPE_QTCHARTS_QPIESLICE] "slice" [] RObject [On QPieLegendMarker];
    Sig [TYPE_QTCHARTS_QPIESLICE] "slices" [] (RList (IObject QObject)) [On QPieSeries];
    Sig [] "startAngle" [] RDouble [On QPieSlice];
    Sig [] "sum" [] RDouble [On QPieSeries];
    Sig [TYPE_QTCHARTS_QPIESLICE] "take" [PObject QPieSlice false] RBool [On QPieSeries];
    Sig [] "tickAnchor" [] RDouble [On QValueAxis];
    Sig [] "tickCount" [] RDouble [On QLogValueAxis; On QValueAxis];
    Sig [] "tickInterval" [] RDouble [On QValueAxis];
    Sig [TYPE_QTCHARTS_QVALUEAXIS] "tickType" [] (RMeta QValueAxis_TickType) [On QValueAxis]
  ].

Definition methods_qtcharts_1_s176 : list signature_row :=
  [
    Sig [] "timestampRow" [] RDouble [On QVCandlestickModelMapper];
    Sig [TYPE_QTCHARTS_QABSTRACTAXIS] "type" [] (RMeta QAbstractAxis_AxisType) [On QLogValueAxis; On
        QValueAxis];
    Sig [TYPE_QTCHARTS_QABSTRACTSERIES] "type" [] (RMeta QAbstractSeries_SeriesType) [On
        QHorizontalBarSeries; On QHorizontalPercentBarSeries; On QHorizontalStackedBarSeries; On
        QLineSeries; On QPercentBarSeries; On QPieSeries; On QScatterSeries; On QSplineSeries; On
        QStackedBarSeries];
    Sig [TYPE_QTCHARTS_QLEGENDMARKER] "type" [] (RMeta QLegendMarker_LegendMarkerType) [On
        QPieLegendMarker; On QXYLegendMarker];
    Sig [] "value" [] RDouble [On QPieSlice];
    Sig [] "valuesColumn" [] RDouble [On QVPieModelMapper];
    Sig [] "verticalPosition" [] RDouble [On QPieSeries];
    Sig [] "xColumn" [] RDouble [On QVXYModelMapper];
    Sig [] "xRow" [] RDouble [On QHXYModelMapper]
  ].

Definition methods_qtcharts_1_s185 : list signature_row :=
  [
    Sig [] "yColumn" [] RDouble [On QVXYModelMapper];
    Sig [] "yRow" [] RDouble [On QHXYModelMapper]
  ].

Definition methods_qtcharts_1 : method_shard :=
  MethodShard QtCharts "KRY_QT6_NATIVE_METHODS_QTCHARTS_"
    (methods_qtcharts_1_i0)
    (methods_qtcharts_1_s0 ++ methods_qtcharts_1_s9 ++ methods_qtcharts_1_s16 ++ methods_qtcharts_1_s24 ++
        methods_qtcharts_1_s34 ++ methods_qtcharts_1_s44 ++ methods_qtcharts_1_s55 ++
        methods_qtcharts_1_s63 ++ methods_qtcharts_1_s73 ++ methods_qtcharts_1_s82 ++
        methods_qtcharts_1_s90 ++ methods_qtcharts_1_s97 ++ methods_qtcharts_1_s105 ++
        methods_qtcharts_1_s113 ++ methods_qtcharts_1_s122 ++ methods_qtcharts_1_s131 ++
        methods_qtcharts_1_s138 ++ methods_qtcharts_1_s146 ++ methods_qtcharts_1_s155 ++
        methods_qtcharts_1_s165 ++ methods_qtcharts_1_s176 ++ methods_qtcharts_1_s185)
    [].

Definition methods_qtdatavisualization_0_i0 : list include :=
  [
    ClassInclude QtDataVisualization Q3DBars Q3DBars;
    ClassInclude QtDataVisualization Q3DCamera Q3DCamera;
    ClassInclude QtDataVisualization Q3DInputHandler Q3DInputHandler;
    ClassInclude QtDataVisualization Q3DLight Q3DLight;
    ClassInclude QtDataVisualization Q3DObject Q3DObject;
    ClassInclude QtDataVisualization Q3DScatter Q3DScatter;
    ClassInclude QtDataVisualization Q3DScene Q3DScene;
    ClassInclude QtDataVisualization Q3DSurface Q3DSurface;
    ClassInclude QtDataVisualization Q3DTheme Q3DTheme;
    ClassInclude QtDataVisualization QAbstract3DAxis QAbstract3DAxis;
    ClassInclude QtDataVisualization QAbstract3DGraph QAbstract3DGraph;
    ClassInclude QtDataVisualization QAbstract3DInputHandler QAbstract3DInputHandler;
    ClassInclude QtDataVisualization QAbstract3DSeries QAbstract3DSeries;
    ClassInclude QtDataVisualization QAbstractDataProxy QAbstractDataProxy;
    ClassInclude QtDataVisualization QBar3DSeries QBar3DSeries;
    ClassInclude QtDataVisualization QBarDataProxy QBarDataProxy;
    ClassInclude QtDataVisualization QCategory3DAxis QCategory3DAxis;
    ClassInclude QtDataVisualization QCustom3DItem QCustom3DItem;
    ClassInclude QtDataVisualization QCustom3DLabel QCustom3DLabel;
    ClassInclude QtDataVisualization QCustom3DVolume QCustom3DVolume;
    ClassInclude QtDataVisualization QHeightMapSurfaceDataProxy QHeightMapSurfaceDataProxy;
    ClassInclude QtDataVisualization QItemModelBarDataProxy QItemModelBarDataProxy;
    ClassInclude QtDataVisualization QItemModelScatterDataProxy QItemModelScatterDataProxy;
    ClassInclude QtDataVisualization QItemModelSurfaceDataProxy QItemModelSurfaceDataProxy;
    TypeInclude QtCore QAbstractItemModel TYPE_QTCORE_QABSTRACTITEMMODEL;
    TypeInclude QtDataVisualization Q3DCamera TYPE_QTDATAVISUALIZATION_Q3DCAMERA;
    TypeInclude QtDataVisualization Q3DLight TYPE_QTDATAVISUALIZATION_Q3DLIGHT;
    TypeInclude QtDataVisualization Q3DScene TYPE_QTDATAVISUALIZATION_Q3DSCENE;
    TypeInclude QtDataVisualization Q3DTheme TYPE_QTDATAVISUALIZATION_Q3DTHEME;
    TypeInclude QtDataVisualization QAbstract3DAxis TYPE_QTDATAVISUALIZATION_QABSTRACT3DAXIS;
    TypeInclude QtDataVisualization QAbstract3DInputHandler
        TYPE_QTDATAVISUALIZATION_QABSTRACT3DINPUTHANDLER;
    TypeInclude QtDataVisualization QBar3DSeries TYPE_QTDATAVISUALIZATION_QBAR3DSERIES;
    TypeInclude QtDataVisualization QBarDataProxy TYPE_QTDATAVISUALIZATION_QBARDATAPROXY;
    TypeInclude QtDataVisualization QCategory3DAxis TYPE_QTDATAVISUALIZATION_QCATEGORY3DAXIS;
    TypeInclude QtDataVisualization QCustom3DItem TYPE_QTDATAVISUALIZATION_QCUSTOM3DITEM;
    TypeInclude QtDataVisualization QScatter3DSeries TYPE_QTDATAVISUALIZATION_QSCATTER3DSERIES;
    TypeInclude QtDataVisualization QSurface3DSeries TYPE_QTDATAVISUALIZATION_QSURFACE3DSERIES;
    TypeInclude QtDataVisualization QValue3DAxis TYPE_QTDATAVISUALIZATION_QVALUE3DAXIS;
    EnumDefine ENUM_QT_AXIS;
    TypeInclude QtDataVisualization Q3DCamera TYPE_QTDATAVISUALIZATION_Q3DCAMERA;
    TypeInclude QtDataVisualization Q3DTheme TYPE_QTDATAVISUALIZATION_Q3DTHEME;
    TypeInclude QtDataVisualization QAbstract3DAxis TYPE_QTDATAVISUALIZATION_QABSTRACT3DAXIS;
    TypeInclude QtDataVisualization QAbstract3DGraph TYPE_QTDATAVISUALIZATION_QABSTRACT3DGRAPH;
    TypeInclude QtDataVisualization QAbstract3DInputHandler
        TYPE_QTDATAVISUALIZATION_QABSTRACT3DINPUTHANDLER;
    TypeInclude QtDataVisualization QAbstract3DSeries TYPE_QTDATAVISUALIZATION_QABSTRACT3DSERIES;
    TypeInclude QtDataVisualization QAbstractDataProxy TYPE_QTDATAVISUALIZATION_QABSTRACTDATAPROXY;
    TypeInclude QtDataVisualization QItemModelBarDataProxy TYPE_QTDATAVISUALIZATION_QITEMMODELBARDATAPROXY;
    TypeInclude QtDataVisualization QItemModelSurfaceDataProxy
        TYPE_QTDATAVISUALIZATION_QITEMMODELSURFACEDATAPROXY;
    TypeInclude QtGui QImage TYPE_QTGUI_QIMAGE;
    TypeInclude QtCore QLocale VALUE_TYPE_QTCORE_QLOCALE;
    TypeInclude QtCore QPoint VALUE_TYPE_QTCORE_QPOINT;
    TypeInclude QtCore QRect VALUE_TYPE_QTCORE_QRECT;
    TypeInclude QtCore QRegularExpression VALUE_TYPE_QTCORE_QREGULAREXPRESSION
  ].

Definition methods_qtdatavisualization_0_i1 : list include :=
  [
    TypeInclude QtCore QSize VALUE_TYPE_QTCORE_QSIZE;
    TypeInclude QtCore QSizeF VALUE_TYPE_QTCORE_QSIZEF;
    TypeInclude QtGui QColor VALUE_TYPE_QTGUI_QCOLOR;
    TypeInclude QtGui QFont VALUE_TYPE_QTGUI_QFONT;
    TypeInclude QtGui QImage VALUE_TYPE_QTGUI_QIMAGE;
    TypeInclude QtGui QLinearGradient VALUE_TYPE_QTGUI_QLINEARGRADIENT;
    TypeInclude QtGui QQuaternion VALUE_TYPE_QTGUI_QQUATERNION;
    TypeInclude QtGui QVector3D VALUE_TYPE_QTGUI_QVECTOR3D
  ].

Definition methods_qtdatavisualization_0_s0 : list signature_row :=
  [
    Sig [TYPE_QTDATAVISUALIZATION_Q3DCAMERA] "activeCamera" [] RObject [On Q3DScene];
    Sig [TYPE_QTDATAVISUALIZATION_QABSTRACT3DINPUTHANDLER] "activeInputHandler" [] RObject [On
        QAbstract3DGraph];
    Sig [TYPE_QTDATAVISUALIZATION_Q3DLIGHT] "activeLight" [] RObject [On Q3DScene];
    Sig [TYPE_QTDATAVISUALIZATION_Q3DTHEME] "activeTheme" [] RObject [On QAbstract3DGraph];
    Sig [TYPE_QTDATAVISUALIZATION_QABSTRACT3DAXIS] "addAxis" [PObject QAbstract3DAxis false] RVoid [On
        Q3DBars];
    Sig [TYPE_QTDATAVISUALIZATION_QVALUE3DAXIS] "addAxis" [PObject QValue3DAxis false] RVoid [On
        Q3DScatter; On Q3DSurface];
    Sig [TYPE_QTDATAVISUALIZATION_QCUSTOM3DITEM] "addCustomItem" [PObject QCustom3DItem false] RDouble [On
        QAbstract3DGraph];
    Sig [TYPE_QTDATAVISUALIZATION_QABSTRACT3DINPUTHANDLER] "addInputHandler" [PObject
        QAbstract3DInputHandler false] RVoid [On QAbstract3DGraph];
    Sig [TYPE_QTDATAVISUALIZATION_QBAR3DSERIES] "addSeries" [PObject QBar3DSeries false] RVoid [On Q3DBars]
  ].

Definition methods_qtdatavisualization_0_s9 : list signature_row :=
  [
    Sig [TYPE_QTDATAVISUALIZATION_QSCATTER3DSERIES] "addSeries" [PObject QScatter3DSeries false] RVoid [On
        Q3DScatter];
    Sig [TYPE_QTDATAVISUALIZATION_QSURFACE3DSERIES] "addSeries" [PObject QSurface3DSeries false] RVoid [On
        Q3DSurface];
    Sig [TYPE_QTDATAVISUALIZATION_Q3DTHEME] "addTheme" [PObject Q3DTheme false] RVoid [On QAbstract3DGraph];
    Sig [] "alphaMultiplier" [] RDouble [On QCustom3DVolume];
    Sig [] "ambientLightStrength" [] RDouble [On Q3DTheme];
    Sig [] "aspectRatio" [] RDouble [On QAbstract3DGraph];
    Sig [] "autoColumnCategories" [] RBool [On QItemModelBarDataProxy; On QItemModelSurfaceDataProxy];
    Sig [] "autoRowCategories" [] RBool [On QItemModelBarDataProxy; On QItemModelSurfaceDataProxy];
    Sig [TYPE_QTDATAVISUALIZATION_QABSTRACT3DAXIS] "axes" [] (RList (IObject QObject)) [On Q3DBars]
  ].

Definition methods_qtdatavisualization_0_s18 : list signature_row :=
  [
    Sig [TYPE_QTDATAVISUALIZATION_QVALUE3DAXIS] "axes" [] (RList (IObject QObject)) [On Q3DScatter; On
        Q3DSurface];
    Sig [TYPE_QTDATAVISUALIZATION_QVALUE3DAXIS] "axisX" [] RObject [On Q3DScatter; On Q3DSurface];
    Sig [TYPE_QTDATAVISUALIZATION_QVALUE3DAXIS] "axisY" [] RObject [On Q3DScatter; On Q3DSurface];
    Sig [TYPE_QTDATAVISUALIZATION_QVALUE3DAXIS] "axisZ" [] RObject [On Q3DScatter; On Q3DSurface];
    Sig [VALUE_TYPE_QTGUI_QCOLOR] "backgroundColor" [] (RValue QColor) [On Q3DTheme; On QCustom3DLabel];
    Sig [VALUE_TYPE_QTCORE_QSIZEF] "barSpacing" [] (RValue QSizeF) [On Q3DBars];
    Sig [] "barThickness" [] RDouble [On Q3DBars];
    Sig [VALUE_TYPE_QTGUI_QCOLOR] "baseColor" [] (RValue QColor) [On QAbstract3DSeries]
  ].

Definition methods_qtdatavisualization_0_s26 : list signature_row :=
  [
    Sig [VALUE_TYPE_QTGUI_QCOLOR] "baseColors" [] (RList (IValue QColor)) [On Q3DTheme];
    Sig [VALUE_TYPE_QTGUI_QLINEARGRADIENT] "baseGradient" [] (RValue QLinearGradient) [On
        QAbstract3DSeries];
    Sig [VALUE_TYPE_QTGUI_QLINEARGRADIENT] "baseGradients" [] (RList (IValue QLinearGradient)) [On
        Q3DTheme];
    Sig [TYPE_QTDATAVISUALIZATION_Q3DCAMERA] "cameraPreset" [] (RMeta Q3DCamera_CameraPreset) [On
        Q3DCamera];
    Sig [] "clearSelection" [] RVoid [On QAbstract3DGraph];
    Sig [TYPE_QTDATAVISUALIZATION_Q3DTHEME] "colorStyle" [] (RMeta Q3DTheme_ColorStyle) [On Q3DTheme; On
        QAbstract3DSeries];
    Sig [] "colorTable" [] (RList (IMeta cxx_unsigned_int)) [On QCustom3DVolume];
    Sig [TYPE_QTDATAVISUALIZATION_QCATEGORY3DAXIS] "columnAxis" [] RObject [On Q3DBars];
    Sig [] "columnCategories" [] (RList (IMeta QString)) [On QItemModelBarDataProxy; On
        QItemModelSurfaceDataProxy]
  ].

Definition methods_qtdatavisualization_0_s35 : list signature_row :=
  [
    Sig [] "columnCategoryIndex" [PString true] RDouble [On QItemModelBarDataProxy; On
        QItemModelSurfaceDataProxy];
    Sig [] "columnLabels" [] (RList (IMeta QString)) [On QBarDataProxy];
    Sig [] "columnRole" [] RString [On QItemModelBarDataProxy; On QItemModelSurfaceDataProxy];
    Sig [VALUE_TYPE_QTCORE_QREGULAREXPRESSION] "columnRolePattern" [] (RValue QRegularExpression) [On
        QItemModelBarDataProxy; On QItemModelSurfaceDataProxy];
    Sig [] "columnRoleReplace" [] RString [On QItemModelBarDataProxy; On QItemModelSurfaceDataProxy];
    Sig [] "currentFps" [] RDouble [On QAbstract3DGraph];
    Sig [TYPE_QTDATAVISUALIZATION_QCUSTOM3DITEM] "customItems" [] (RList (IObject QObject)) [On
        QAbstract3DGraph];
    Sig [TYPE_QTDATAVISUALIZATION_QBARDATAPROXY] "dataProxy" [] RObject [On QBar3DSeries];
    Sig [] "devicePixelRatio" [] RDouble [On Q3DScene];
    Sig [] "drawSliceFrames" [] RBool [On QCustom3DVolume]
  ].

Definition methods_qtdatavisualization_0_s45 : list signature_row :=
  [
    Sig [] "drawSlices" [] RBool [On QCustom3DVolume];
    Sig [] "flipHorizontalGrid" [] RBool [On Q3DSurface];
    Sig [] "floorLevel" [] RDouble [On Q3DBars];
    Sig [VALUE_TYPE_QTGUI_QFONT] "font" [] (RValue QFont) [On Q3DTheme; On QCustom3DLabel];
    Sig [VALUE_TYPE_QTCORE_QPOINT] "graphPositionQuery" [] (RValue QPoint) [On Q3DScene];
    Sig [VALUE_TYPE_QTGUI_QCOLOR] "gridLineColor" [] (RValue QColor) [On Q3DTheme];
    Sig [] "hasContext" [] RBool [On QAbstract3DGraph];
    Sig [VALUE_TYPE_QTGUI_QIMAGE] "heightMap" [] (RValue QImage) [On QHeightMapSurfaceDataProxy];
    Sig [] "heightMapFile" [] RString [On QHeightMapSurfaceDataProxy];
    Sig [] "highlightLightStrength" [] RDouble [On Q3DTheme];
    Sig [] "horizontalAspectRatio" [] RDouble [On QAbstract3DGraph]
  ].

Definition methods_qtdatavisualization_0_s56 : list signature_row :=
  [
    Sig [TYPE_QTDATAVISUALIZATION_QABSTRACT3DINPUTHANDLER] "inputHandlers" [] (RList (IObject QObject)) [On
        QAbstract3DGraph];
    Sig [VALUE_TYPE_QTCORE_QPOINT] "inputPosition" [] (RValue QPoint) [On QAbstract3DInputHandler];
    Sig [TYPE_QTDATAVISUALIZATION_QABSTRACT3DINPUTHANDLER] "inputView" [] (RMeta
        QAbstract3DInputHandler_InputView) [On QAbstract3DInputHandler];
    Sig [TYPE_QTDATAVISUALIZATION_QBAR3DSERIES] "insertSeries" [PInt; PObject QBar3DSeries false] RVoid [On
        Q3DBars];
    Sig [VALUE_TYPE_QTCORE_QPOINT] "invalidSelectionPoint" [] (RValue QPoint) [Static Q3DScene];
    Sig [VALUE_TYPE_QTCORE_QPOINT] "invalidSelectionPosition" [] (RValue QPoint) [Static QBar3DSeries];
    Sig [] "isAutoAdjustRange" [] RBool [On QAbstract3DAxis];
    Sig [] "isAutoPosition" [] RBool [On Q3DLight];
    Sig [] "isBackgroundEnabled" [] RBool [On Q3DTheme; On QCustom3DLabel];
    Sig [] "isBarSpacingRelative" [] RBool [On Q3DBars]
  ].

Definition methods_qtdatavisualization_0_s66 : list signature_row :=
  [
    Sig [] "isBorderEnabled" [] RBool [On QCustom3DLabel];
    Sig [] "isFacingCamera" [] RBool [On QCustom3DLabel];
    Sig [] "isGridEnabled" [] RBool [On Q3DTheme];
    Sig [] "isItemLabelVisible" [] RBool [On QAbstract3DSeries];
    Sig [] "isLabelBackgroundEnabled" [] RBool [On Q3DTheme];
    Sig [] "isLabelBorderEnabled" [] RBool [On Q3DTheme];
    Sig [] "isMeshSmooth" [] RBool [On QAbstract3DSeries];
    Sig [] "isMultiSeriesUniform" [] RBool [On Q3DBars];
    Sig [] "isOrthoProjection" [] RBool [On QAbstract3DGraph];
    Sig [VALUE_TYPE_QTCORE_QPOINT] "isPointInPrimarySubView" [PValue QPoint] RBool [On Q3DScene];
    Sig [VALUE_TYPE_QTCORE_QPOINT] "isPointInSecondarySubView" [PValue QPoint] RBool [On Q3DScene];
    Sig [] "isPolar" [] RBool [On QAbstract3DGraph]
  ].

Definition methods_qtdatavisualization_0_s78 : list signature_row :=
  [
    Sig [] "isPositionAbsolute" [] RBool [On QCustom3DItem];
    Sig [] "isReflection" [] RBool [On QAbstract3DGraph];
    Sig [] "isRotationEnabled" [] RBool [On Q3DInputHandler];
    Sig [] "isScalingAbsolute" [] RBool [On QCustom3DItem];
    Sig [] "isSecondarySubviewOnTop" [] RBool [On Q3DScene];
    Sig [] "isSelectionEnabled" [] RBool [On Q3DInputHandler];
    Sig [] "isShadowCasting" [] RBool [On QCustom3DItem];
    Sig [] "isSlicingActive" [] RBool [On Q3DScene];
    Sig [] "isTitleFixed" [] RBool [On QAbstract3DAxis];
    Sig [] "isTitleVisible" [] RBool [On QAbstract3DAxis];
    Sig [] "isVisible" [] RBool [On QAbstract3DSeries; On QCustom3DItem];
    Sig [] "isZoomAtTargetEnabled" [] RBool [On Q3DInputHandler]
  ].

Definition methods_qtdatavisualization_0_s90 : list signature_row :=
  [
    Sig [] "isZoomEnabled" [] RBool [On Q3DInputHandler];
    Sig [] "itemLabel" [] RString [On QAbstract3DSeries];
    Sig [] "itemLabelFormat" [] RString [On QAbstract3DSeries];
    Sig [TYPE_QTCORE_QABSTRACTITEMMODEL] "itemModel" [] RObject [On QItemModelBarDataProxy; On
        QItemModelScatterDataProxy; On QItemModelSurfaceDataProxy];
    Sig [] "labelAutoRotation" [] RDouble [On QAbstract3DAxis];
    Sig [VALUE_TYPE_QTGUI_QCOLOR] "labelBackgroundColor" [] (RValue QColor) [On Q3DTheme];
    Sig [VALUE_TYPE_QTGUI_QCOLOR] "labelTextColor" [] (RValue QColor) [On Q3DTheme];
    Sig [] "labels" [] (RList (IMeta QString)) [On QAbstract3DAxis; On QCategory3DAxis];
    Sig [VALUE_TYPE_QTGUI_QCOLOR] "lightColor" [] (RValue QColor) [On Q3DTheme];
    Sig [] "lightStrength" [] RDouble [On Q3DTheme]
  ].

Definition methods_qtdatavisualization_0_s100 : list signature_row :=
  [
    Sig [VALUE_TYPE_QTCORE_QLOCALE] "locale" [] (RValue QLocale) [On QAbstract3DGraph];
    Sig [] "margin" [] RDouble [On QAbstract3DGraph];
    Sig [] "max" [] RDouble [On QAbstract3DAxis];
    Sig [] "maxXValue" [] RDouble [On QHeightMapSurfaceDataProxy];
    Sig [] "maxZValue" [] RDouble [On QHeightMapSurfaceDataProxy];
    Sig [] "maxZoomLevel" [] RDouble [On Q3DCamera];
    Sig [] "measureFps" [] RBool [On QAbstract3DGraph];
    Sig [TYPE_QTDATAVISUALIZATION_QABSTRACT3DSERIES] "mesh" [] (RMeta QAbstract3DSeries_Mesh) [On
        QAbstract3DSeries];
    Sig [] "meshAngle" [] RDouble [On QBar3DSeries];
    Sig [] "meshFile" [] RString [On QCustom3DItem];
    Sig [VALUE_TYPE_QTGUI_QQUATERNION] "meshRotation" [] (RValue QQuaternion) [On QAbstract3DSeries];
    Sig [] "min" [] RDouble [On QAbstract3DAxis]
  ].

Definition methods_qtdatavisualization_0_s112 : list signature_row :=
  [
    Sig [] "minXValue" [] RDouble [On QHeightMapSurfaceDataProxy];
    Sig [] "minZValue" [] RDouble [On QHeightMapSurfaceDataProxy];
    Sig [] "minZoomLevel" [] RDouble [On Q3DCamera];
    Sig [VALUE_TYPE_QTGUI_QCOLOR] "multiHighlightColor" [] (RValue QColor) [On Q3DTheme; On
        QAbstract3DSeries];
    Sig [VALUE_TYPE_QTGUI_QLINEARGRADIENT] "multiHighlightGradient" [] (RValue QLinearGradient) [On
        Q3DTheme; On QAbstract3DSeries];
    Sig [TYPE_QTDATAVISUALIZATION_QITEMMODELBARDATAPROXY] "multiMatchBehavior" [] (RMeta
        QItemModelBarDataProxy_MultiMatchBehavior) [On QItemModelBarDataProxy];
    Sig [TYPE_QTDATAVISUALIZATION_QITEMMODELSURFACEDATAPROXY] "multiMatchBehavior" [] (RMeta
        QItemModelSurfaceDataProxy_MultiMatchBehavior) [On QItemModelSurfaceDataProxy];
    Sig [] "name" [] RString [On QAbstract3DSeries];
    Sig [TYPE_QTDATAVISUALIZATION_QABSTRACT3DGRAPH] "optimizationHints" [] (RMeta
        QAbstract3DGraph_OptimizationHints) [On QAbstract3DGraph];
    Sig [TYPE_QTDATAVISUALIZATION_QABSTRACT3DAXIS] "orientation" [] (RMeta QAbstract3DAxis_AxisOrientation)
        [On QAbstract3DAxis];
    Sig [TYPE_QTDATAVISUALIZATION_Q3DSCENE] "parentScene" [] RObject [On Q3DObject]
  ].

Definition methods_qtdatavisualization_0_s123 : list signature_row :=
  [
    Sig [VALUE_TYPE_QTGUI_QVECTOR3D] "position" [] (RValue QVector3D) [On Q3DObject; On QCustom3DItem];
    Sig [] "preserveOpacity" [] RBool [On QCustom3DVolume];
    Sig [TYPE_QTDATAVISUALIZATION_QBAR3DSERIES] "primarySeries" [] RObject [On Q3DBars];
    Sig [VALUE_TYPE_QTCORE_QRECT] "primarySubViewport" [] (RValue QRect) [On Q3DScene];
    Sig [VALUE_TYPE_QTGUI_QVECTOR3D] "queriedGraphPosition" [] (RValue QVector3D) [On QAbstract3DGraph];
    Sig [] "radialLabelOffset" [] RDouble [On QAbstract3DGraph];
    Sig [] "reflectivity" [] RDouble [On QAbstract3DGraph];
    Sig [TYPE_QTDATAVISUALIZATION_QABSTRACT3DAXIS] "releaseAxis" [PObject QAbstract3DAxis false] RVoid [On
        Q3DBars];
    Sig [TYPE_QTDATAVISUALIZATION_QVALUE3DAXIS] "releaseAxis" [PObject QValue3DAxis false] RVoid [On
        Q3DScatter; On Q3DSurface];
    Sig [TYPE_QTDATAVISUALIZATION_QCUSTOM3DITEM] "releaseCustomItem" [PObject QCustom3DItem false] RVoid
        [On QAbstract3DGraph]
  ].

Definition methods_qtdatavisualization_0_s133 : list signature_row :=
  [
    Sig [TYPE_QTDATAVISUALIZATION_QABSTRACT3DINPUTHANDLER] "releaseInputHandler" [PObject
        QAbstract3DInputHandler false] RVoid [On QAbstract3DGraph];
    Sig [TYPE_QTDATAVISUALIZATION_Q3DTHEME] "releaseTheme" [PObject Q3DTheme false] RVoid [On
        QAbstract3DGraph];
    Sig [] "remap" [PString true; PString true; PString true; PString true] RVoid [On
        QItemModelScatterDataProxy];
    Sig [] "remap" [PString true; PString true; PString true; PString true; PString true; PStringList;
        PStringList] RVoid [On QItemModelSurfaceDataProxy];
    Sig [] "remap" [PString true; PString true; PString true; PString true; PStringList; PStringList] RVoid
        [On QItemModelBarDataProxy];
    Sig [TYPE_QTDATAVISUALIZATION_QCUSTOM3DITEM] "removeCustomItem" [PObject QCustom3DItem false] RVoid [On
        QAbstract3DGraph];
    Sig [VALUE_TYPE_QTGUI_QVECTOR3D] "removeCustomItemAt" [PValue QVector3D] RVoid [On QAbstract3DGraph]
  ].

Definition methods_qtdatavisualization_0_s140 : list signature_row :=
  [
    Sig [] "removeCustomItems" [] RVoid [On QAbstract3DGraph];
    Sig [] "removeRows" [PInt; PInt; PBool] RVoid [On QBarDataProxy];
    Sig [TYPE_QTDATAVISUALIZATION_QBAR3DSERIES] "removeSeries" [PObject QBar3DSeries false] RVoid [On
        Q3DBars];
    Sig [TYPE_QTDATAVISUALIZATION_QSCATTER3DSERIES] "removeSeries" [PObject QScatter3DSeries false] RVoid
        [On Q3DScatter];
    Sig [TYPE_QTDATAVISUALIZATION_QSURFACE3DSERIES] "removeSeries" [PObject QSurface3DSeries false] RVoid
        [On Q3DSurface];
    Sig [ENUM_QT_AXIS; VALUE_TYPE_QTGUI_QIMAGE] "renderSlice" [PValue Qt_Axis; PInt] (RValue QImage) [On
        QCustom3DVolume];
    Sig [VALUE_TYPE_QTCORE_QSIZE; VALUE_TYPE_QTGUI_QIMAGE] "renderToImage" [PInt; PValue QSize] (RValue
        QImage) [On QAbstract3DGraph];
    Sig [] "resetArray" [] RVoid [On QBarDataProxy];
    Sig [VALUE_TYPE_QTGUI_QQUATERNION] "rotation" [] (RValue QQuaternion) [On QCustom3DItem]
  ].

Definition methods_qtdatavisualization_0_s149 : list signature_row :=
  [
    Sig [] "rotationRole" [] RString [On QItemModelBarDataProxy; On QItemModelScatterDataProxy];
    Sig [VALUE_TYPE_QTCORE_QREGULAREXPRESSION] "rotationRolePattern" [] (RValue QRegularExpression) [On
        QItemModelBarDataProxy; On QItemModelScatterDataProxy];
    Sig [] "rotationRoleReplace" [] RString [On QItemModelBarDataProxy; On QItemModelScatterDataProxy];
    Sig [TYPE_QTDATAVISUALIZATION_QCATEGORY3DAXIS] "rowAxis" [] RObject [On Q3DBars];
    Sig [] "rowCategories" [] (RList (IMeta QString)) [On QItemModelBarDataProxy; On
        QItemModelSurfaceDataProxy];
    Sig [] "rowCategoryIndex" [PString true] RDouble [On QItemModelBarDataProxy; On
        QItemModelSurfaceDataProxy];
    Sig [] "rowCount" [] RDouble [On QBarDataProxy];
    Sig [] "rowLabels" [] (RList (IMeta QString)) [On QBarDataProxy];
    Sig [] "rowRole" [] RString [On QItemModelBarDataProxy; On QItemModelSurfaceDataProxy]
  ].

Definition methods_qtdatavisualization_0_s158 : list signature_row :=
  [
    Sig [VALUE_TYPE_QTCORE_QREGULAREXPRESSION] "rowRolePattern" [] (RValue QRegularExpression) [On
        QItemModelBarDataProxy; On QItemModelSurfaceDataProxy];
    Sig [] "rowRoleReplace" [] RString [On QItemModelBarDataProxy; On QItemModelSurfaceDataProxy];
    Sig [VALUE_TYPE_QTGUI_QVECTOR3D] "scaling" [] (RValue QVector3D) [On QCustom3DItem];
    Sig [TYPE_QTDATAVISUALIZATION_Q3DSCENE] "scene" [] RObject [On QAbstract3DGraph; On
        QAbstract3DInputHandler];
    Sig [VALUE_TYPE_QTCORE_QRECT] "secondarySubViewport" [] (RValue QRect) [On Q3DScene];
    Sig [TYPE_QTDATAVISUALIZATION_QABSTRACT3DAXIS] "selectedAxis" [] RObject [On QAbstract3DGraph];
    Sig [VALUE_TYPE_QTCORE_QPOINT] "selectedBar" [] (RValue QPoint) [On QBar3DSeries];
    Sig [TYPE_QTDATAVISUALIZATION_QCUSTOM3DITEM] "selectedCustomItem" [] RObject [On QAbstract3DGraph];
    Sig [] "selectedCustomItemIndex" [] RDouble [On QAbstract3DGraph];
    Sig [TYPE_QTDATAVISUALIZATION_QABSTRACT3DGRAPH] "selectedElement" [] (RMeta
        QAbstract3DGraph_ElementType) [On QAbstract3DGraph]
  ].

Definition methods_qtdatavisualization_0_s168 : list signature_row :=
  [
    Sig [] "selectedLabelIndex" [] RDouble [On QAbstract3DGraph];
    Sig [TYPE_QTDATAVISUALIZATION_QBAR3DSERIES] "selectedSeries" [] RObject [On Q3DBars];
    Sig [TYPE_QTDATAVISUALIZATION_QSCATTER3DSERIES] "selectedSeries" [] RObject [On Q3DScatter];
    Sig [TYPE_QTDATAVISUALIZATION_QSURFACE3DSERIES] "selectedSeries" [] RObject [On Q3DSurface];
    Sig [VALUE_TYPE_QTCORE_QPOINT] "selectionQueryPosition" [] (RValue QPoint) [On Q3DScene];
    Sig [TYPE_QTDATAVISUALIZATION_QBAR3DSERIES] "series" [] RObject [On QBarDataProxy];
    Sig [TYPE_QTDATAVISUALIZATION_QBAR3DSERIES] "seriesList" [] (RList (IObject QObject)) [On Q3DBars];
    Sig [TYPE_QTDATAVISUALIZATION_QSCATTER3DSERIES] "seriesList" [] (RList (IObject QObject)) [On
        Q3DScatter];
    Sig [TYPE_QTDATAVISUALIZATION_QSURFACE3DSERIES] "seriesList" [] (RList (IObject QObject)) [On
        Q3DSurface];
    Sig [TYPE_QTDATAVISUALIZATION_Q3DCAMERA] "setActiveCamera" [PObject Q3DCamera false] RVoid [On Q3DScene]
  ].

Definition methods_qtdatavisualization_0_s178 : list signature_row :=
  [
    Sig [TYPE_QTDATAVISUALIZATION_QABSTRACT3DINPUTHANDLER] "setActiveInputHandler" [PObject
        QAbstract3DInputHandler false] RVoid [On QAbstract3DGraph];
    Sig [TYPE_QTDATAVISUALIZATION_Q3DLIGHT] "setActiveLight" [PObject Q3DLight false] RVoid [On Q3DScene];
    Sig [TYPE_QTDATAVISUALIZATION_Q3DTHEME] "setActiveTheme" [PObject Q3DTheme false] RVoid [On
        QAbstract3DGraph];
    Sig [] "setAlphaMultiplier" [PNumber cxx_float] RVoid [On QCustom3DVolume];
    Sig [] "setAmbientLightStrength" [PNumber cxx_float] RVoid [On Q3DTheme];
    Sig [] "setAspectRatio" [PNumber cxx_qreal] RVoid [On QAbstract3DGraph];
    Sig [] "setAutoAdjustRange" [PBool] RVoid [On QAbstract3DAxis];
    Sig [] "setAutoColumnCategories" [PBool] RVoid [On QItemModelBarDataProxy; On
        QItemModelSurfaceDataProxy];
    Sig [] "setAutoPosition" [PBool] RVoid [On Q3DLight]
  ].

Definition methods_qtdatavisualization_0_s187 : list signature_row :=
  [
    Sig [] "setAutoRowCategories" [PBool] RVoid [On QItemModelBarDataProxy; On QItemModelSurfaceDataProxy];
    Sig [TYPE_QTDATAVISUALIZATION_QVALUE3DAXIS] "setAxisX" [PObject QValue3DAxis false] RVoid [On
        Q3DScatter; On Q3DSurface];
    Sig [TYPE_QTDATAVISUALIZATION_QVALUE3DAXIS] "setAxisY" [PObject QValue3DAxis false] RVoid [On
        Q3DScatter; On Q3DSurface];
    Sig [TYPE_QTDATAVISUALIZATION_QVALUE3DAXIS] "setAxisZ" [PObject QValue3DAxis false] RVoid [On
        Q3DScatter; On Q3DSurface];
    Sig [VALUE_TYPE_QTGUI_QCOLOR] "setBackgroundColor" [PValue QColor] RVoid [On Q3DTheme; On
        QCustom3DLabel];
    Sig [] "setBackgroundEnabled" [PBool] RVoid [On Q3DTheme; On QCustom3DLabel];
    Sig [VALUE_TYPE_QTCORE_QSIZEF] "setBarSpacing" [PValue QSizeF] RVoid [On Q3DBars]
  ].

Definition methods_qtdatavisualization_0_s194 : list signature_row :=
  [
    Sig [] "setBarSpacingRelative" [PBool] RVoid [On Q3DBars];
    Sig [] "setBarThickness" [PNumber cxx_float] RVoid [On Q3DBars];
    Sig [VALUE_TYPE_QTGUI_QCOLOR] "setBaseColor" [PValue QColor] RVoid [On QAbstract3DSeries];
    Sig [VALUE_TYPE_QTGUI_QCOLOR] "setBaseColors" [PList (IValue QColor)] RVoid [On Q3DTheme];
    Sig [VALUE_TYPE_QTGUI_QLINEARGRADIENT] "setBaseGradient" [PValue QLinearGradient] RVoid [On
        QAbstract3DSeries];
    Sig [VALUE_TYPE_QTGUI_QLINEARGRADIENT] "setBaseGradients" [PList (IValue QLinearGradient)] RVoid [On
        Q3DTheme];
    Sig [] "setBorderEnabled" [PBool] RVoid [On QCustom3DLabel];
    Sig [] "setCameraPosition" [PNumber cxx_float; PNumber cxx_float; PNumber cxx_float] RVoid [On
        Q3DCamera];
    Sig [TYPE_QTDATAVISUALIZATION_Q3DCAMERA] "setCameraPreset" [PValue Q3DCamera_CameraPreset] RVoid [On
        Q3DCamera]
  ].

Definition methods_qtdatavisualization_0_s203 : list signature_row :=
  [
    Sig [TYPE_QTDATAVISUALIZATION_Q3DTHEME] "setColorStyle" [PValue Q3DTheme_ColorStyle] RVoid [On
        Q3DTheme; On QAbstract3DSeries];
    Sig [] "setColorTable" [PList (IMeta cxx_unsigned_int)] RVoid [On QCustom3DVolume];
    Sig [TYPE_QTDATAVISUALIZATION_QCATEGORY3DAXIS] "setColumnAxis" [PObject QCategory3DAxis false] RVoid
        [On Q3DBars];
    Sig [] "setColumnCategories" [PStringList] RVoid [On QItemModelBarDataProxy; On
        QItemModelSurfaceDataProxy];
    Sig [] "setColumnLabels" [PStringList] RVoid [On QBarDataProxy];
    Sig [] "setColumnRole" [PString true] RVoid [On QItemModelBarDataProxy; On QItemModelSurfaceDataProxy];
    Sig [VALUE_TYPE_QTCORE_QREGULAREXPRESSION] "setColumnRolePattern" [PValue QRegularExpression] RVoid [On
        QItemModelBarDataProxy; On QItemModelSurfaceDataProxy]
  ].

Definition methods_qtdatavisualization_0_s210 : list signature_row :=
  [
    Sig [] "setColumnRoleReplace" [PString true] RVoid [On QItemModelBarDataProxy; On
        QItemModelSurfaceDataProxy];
    Sig [TYPE_QTDATAVISUALIZATION_QBARDATAPROXY] "setDataProxy" [PObject QBarDataProxy false] RVoid [On
        QBar3DSeries];
    Sig [] "setDevicePixelRatio" [PNumber cxx_float] RVoid [On Q3DScene];
    Sig [] "setDrawSliceFrames" [PBool] RVoid [On QCustom3DVolume];
    Sig [] "setDrawSlices" [PBool] RVoid [On QCustom3DVolume];
    Sig [] "setFacingCamera" [PBool] RVoid [On QCustom3DLabel];
    Sig [] "setFlipHorizontalGrid" [PBool] RVoid [On Q3DSurface];
    Sig [] "setFloorLevel" [PNumber cxx_float] RVoid [On Q3DBars];
    Sig [VALUE_TYPE_QTGUI_QFONT] "setFont" [PValue QFont] RVoid [On Q3DTheme; On QCustom3DLabel]
  ].

Definition methods_qtdatavisualization_0_s219 : list signature_row :=
  [
    Sig [VALUE_TYPE_QTCORE_QPOINT] "setGraphPositionQuery" [PValue QPoint] RVoid [On Q3DScene];
    Sig [] "setGridEnabled" [PBool] RVoid [On Q3DTheme];
    Sig [VALUE_TYPE_QTGUI_QCOLOR] "setGridLineColor" [PValue QColor] RVoid [On Q3DTheme];
    Sig [VALUE_TYPE_QTGUI_QIMAGE] "setHeightMap" [PValue QImage] RVoid [On QHeightMapSurfaceDataProxy];
    Sig [] "setHeightMapFile" [PString true] RVoid [On QHeightMapSurfaceDataProxy];
    Sig [] "setHighlightLightStrength" [PNumber cxx_float] RVoid [On Q3DTheme];
    Sig [] "setHorizontalAspectRatio" [PNumber cxx_qreal] RVoid [On QAbstract3DGraph];
    Sig [VALUE_TYPE_QTCORE_QPOINT] "setInputPosition" [PValue QPoint] RVoid [On QAbstract3DInputHandler];
    Sig [TYPE_QTDATAVISUALIZATION_QABSTRACT3DINPUTHANDLER] "setInputView" [PValue
        QAbstract3DInputHandler_InputView] RVoid [On QAbstract3DInputHandler];
    Sig [] "setItemLabelFormat" [PString true] RVoid [On QAbstract3DSeries]
  ].

Definition methods_qtdatavisualization_0_s229 : list signature_row :=
  [
    Sig [] "setItemLabelVisible" [PBool] RVoid [On QAbstract3DSeries];
    Sig [TYPE_QTCORE_QABSTRACTITEMMODEL] "setItemModel" [PObject QAbstractItemModel false] RVoid [On
        QItemModelBarDataProxy; On QItemModelScatterDataProxy; On QItemModelSurfaceDataProxy];
    Sig [] "setLabelAutoRotation" [PNumber cxx_float] RVoid [On QAbstract3DAxis];
    Sig [VALUE_TYPE_QTGUI_QCOLOR] "setLabelBackgroundColor" [PValue QColor] RVoid [On Q3DTheme];
    Sig [] "setLabelBackgroundEnabled" [PBool] RVoid [On Q3DTheme];
    Sig [] "setLabelBorderEnabled" [PBool] RVoid [On Q3DTheme];
    Sig [VALUE_TYPE_QTGUI_QCOLOR] "setLabelTextColor" [PValue QColor] RVoid [On Q3DTheme];
    Sig [] "setLabels" [PStringList] RVoid [On QAbstract3DAxis; On QCategory3DAxis];
    Sig [VALUE_TYPE_QTGUI_QCOLOR] "setLightColor" [PValue QColor] RVoid [On Q3DTheme]
  ].

Definition methods_qtdatavisualization_0_s238 : list signature_row :=
  [
    Sig [] "setLightStrength" [PNumber cxx_float] RVoid [On Q3DTheme];
    Sig [VALUE_TYPE_QTCORE_QLOCALE] "setLocale" [PValue QLocale] RVoid [On QAbstract3DGraph];
    Sig [] "setMargin" [PNumber cxx_qreal] RVoid [On QAbstract3DGraph];
    Sig [] "setMax" [PNumber cxx_float] RVoid [On QAbstract3DAxis];
    Sig [] "setMaxXValue" [PNumber cxx_float] RVoid [On QHeightMapSurfaceDataProxy];
    Sig [] "setMaxZValue" [PNumber cxx_float] RVoid [On QHeightMapSurfaceDataProxy];
    Sig [] "setMaxZoomLevel" [PNumber cxx_float] RVoid [On Q3DCamera];
    Sig [] "setMeasureFps" [PBool] RVoid [On QAbstract3DGraph];
    Sig [TYPE_QTDATAVISUALIZATION_QABSTRACT3DSERIES] "setMesh" [PValue QAbstract3DSeries_Mesh] RVoid [On
        QAbstract3DSeries];
    Sig [] "setMeshAngle" [PNumber cxx_float] RVoid [On QBar3DSeries]
  ].

Definition methods_qtdatavisualization_0_s248 : list signature_row :=
  [
    Sig [VALUE_TYPE_QTGUI_QVECTOR3D] "setMeshAxisAndAngle" [PValue QVector3D; PNumber cxx_float] RVoid [On
        QAbstract3DSeries];
    Sig [] "setMeshFile" [PString true] RVoid [On QCustom3DItem];
    Sig [VALUE_TYPE_QTGUI_QQUATERNION] "setMeshRotation" [PValue QQuaternion] RVoid [On QAbstract3DSeries];
    Sig [] "setMeshSmooth" [PBool] RVoid [On QAbstract3DSeries];
    Sig [] "setMin" [PNumber cxx_float] RVoid [On QAbstract3DAxis];
    Sig [] "setMinXValue" [PNumber cxx_float] RVoid [On QHeightMapSurfaceDataProxy];
    Sig [] "setMinZValue" [PNumber cxx_float] RVoid [On QHeightMapSurfaceDataProxy];
    Sig [] "setMinZoomLevel" [PNumber cxx_float] RVoid [On Q3DCamera];
    Sig [VALUE_TYPE_QTGUI_QCOLOR] "setMultiHighlightColor" [PValue QColor] RVoid [On Q3DTheme; On
        QAbstract3DSeries]
  ].

Definition methods_qtdatavisualization_0_s257 : list signature_row :=
  [
    Sig [VALUE_TYPE_QTGUI_QLINEARGRADIENT] "setMultiHighlightGradient" [PValue QLinearGradient] RVoid [On
        Q3DTheme; On QAbstract3DSeries];
    Sig [TYPE_QTDATAVISUALIZATION_QITEMMODELBARDATAPROXY] "setMultiMatchBehavior" [PValue
        QItemModelBarDataProxy_MultiMatchBehavior] RVoid [On QItemModelBarDataProxy];
    Sig [TYPE_QTDATAVISUALIZATION_QITEMMODELSURFACEDATAPROXY] "setMultiMatchBehavior" [PValue
        QItemModelSurfaceDataProxy_MultiMatchBehavior] RVoid [On QItemModelSurfaceDataProxy];
    Sig [] "setMultiSeriesUniform" [PBool] RVoid [On Q3DBars];
    Sig [] "setName" [PString true] RVoid [On QAbstract3DSeries];
    Sig [TYPE_QTDATAVISUALIZATION_QABSTRACT3DGRAPH] "setOptimizationHints" [PValue
        QAbstract3DGraph_OptimizationHints] RVoid [On QAbstract3DGraph];
    Sig [] "setOrthoProjection" [PBool] RVoid [On QAbstract3DGraph];
    Sig [] "setPolar" [PBool] RVoid [On QAbstract3DGraph];
    Sig [VALUE_TYPE_QTGUI_QVECTOR3D] "setPosition" [PValue QVector3D] RVoid [On Q3DObject; On QCustom3DItem]
  ].

Definition methods_qtdatavisualization_0_s266 : list signature_row :=
  [
    Sig [] "setPositionAbsolute" [PBool] RVoid [On QCustom3DItem];
    Sig [] "setPreserveOpacity" [PBool] RVoid [On QCustom3DVolume];
    Sig [TYPE_QTDATAVISUALIZATION_QBAR3DSERIES] "setPrimarySeries" [PObject QBar3DSeries false] RVoid [On
        Q3DBars];
    Sig [VALUE_TYPE_QTCORE_QRECT] "setPrimarySubViewport" [PValue QRect] RVoid [On Q3DScene];
    Sig [] "setRadialLabelOffset" [PNumber cxx_float] RVoid [On QAbstract3DGraph];
    Sig [] "setRange" [PNumber cxx_float; PNumber cxx_float] RVoid [On QAbstract3DAxis];
    Sig [] "setReflection" [PBool] RVoid [On QAbstract3DGraph];
    Sig [] "setReflectivity" [PNumber cxx_qreal] RVoid [On QAbstract3DGraph];
    Sig [VALUE_TYPE_QTGUI_QQUATERNION] "setRotation" [PValue QQuaternion] RVoid [On QCustom3DItem];
    Sig [VALUE_TYPE_QTGUI_QVECTOR3D] "setRotationAxisAndAngle" [PValue QVector3D; PNumber cxx_float] RVoid
        [On QCustom3DItem]
  ].

Definition methods_qtdatavisualization_0_s276 : list signature_row :=
  [
    Sig [] "setRotationEnabled" [PBool] RVoid [On Q3DInputHandler];
    Sig [] "setRotationRole" [PString true] RVoid [On QItemModelBarDataProxy; On
        QItemModelScatterDataProxy];
    Sig [VALUE_TYPE_QTCORE_QREGULAREXPRESSION] "setRotationRolePattern" [PValue QRegularExpression] RVoid
        [On QItemModelBarDataProxy; On QItemModelScatterDataProxy];
    Sig [] "setRotationRoleReplace" [PString true] RVoid [On QItemModelBarDataProxy; On
        QItemModelScatterDataProxy];
    Sig [TYPE_QTDATAVISUALIZATION_QCATEGORY3DAXIS] "setRowAxis" [PObject QCategory3DAxis false] RVoid [On
        Q3DBars];
    Sig [] "setRowCategories" [PStringList] RVoid [On QItemModelBarDataProxy; On
        QItemModelSurfaceDataProxy];
    Sig [] "setRowLabels" [PStringList] RVoid [On QBarDataProxy];
    Sig [] "setRowRole" [PString true] RVoid [On QItemModelBarDataProxy; On QItemModelSurfaceDataProxy]
  ].

Definition methods_qtdatavisualization_0_s284 : list signature_row :=
  [
    Sig [VALUE_TYPE_QTCORE_QREGULAREXPRESSION] "setRowRolePattern" [PValue QRegularExpression] RVoid [On
        QItemModelBarDataProxy; On QItemModelSurfaceDataProxy];
    Sig [] "setRowRoleReplace" [PString true] RVoid [On QItemModelBarDataProxy; On
        QItemModelSurfaceDataProxy];
    Sig [VALUE_TYPE_QTGUI_QVECTOR3D] "setScaling" [PValue QVector3D] RVoid [On QCustom3DItem];
    Sig [] "setScalingAbsolute" [PBool] RVoid [On QCustom3DItem];
    Sig [TYPE_QTDATAVISUALIZATION_Q3DSCENE] "setScene" [PObject Q3DScene false] RVoid [On
        QAbstract3DInputHandler];
    Sig [VALUE_TYPE_QTCORE_QRECT] "setSecondarySubViewport" [PValue QRect] RVoid [On Q3DScene];
    Sig [] "setSecondarySubviewOnTop" [PBool] RVoid [On Q3DScene];
    Sig [VALUE_TYPE_QTCORE_QPOINT] "setSelectedBar" [PValue QPoint] RVoid [On QBar3DSeries];
    Sig [] "setSelectionEnabled" [PBool] RVoid [On Q3DInputHandler]
  ].

Definition methods_qtdatavisualization_0_s293 : list signature_row :=
  [
    Sig [VALUE_TYPE_QTCORE_QPOINT] "setSelectionQueryPosition" [PValue QPoint] RVoid [On Q3DScene];
    Sig [] "setShadowCasting" [PBool] RVoid [On QCustom3DItem];
    Sig [TYPE_QTDATAVISUALIZATION_QABSTRACT3DGRAPH] "setShadowQuality" [PValue
        QAbstract3DGraph_ShadowQuality] RVoid [On QAbstract3DGraph];
    Sig [VALUE_TYPE_QTGUI_QCOLOR] "setSingleHighlightColor" [PValue QColor] RVoid [On Q3DTheme; On
        QAbstract3DSeries];
    Sig [VALUE_TYPE_QTGUI_QLINEARGRADIENT] "setSingleHighlightGradient" [PValue QLinearGradient] RVoid [On
        Q3DTheme; On QAbstract3DSeries];
    Sig [VALUE_TYPE_QTGUI_QCOLOR] "setSliceFrameColor" [PValue QColor] RVoid [On QCustom3DVolume];
    Sig [VALUE_TYPE_QTGUI_QVECTOR3D] "setSliceFrameGaps" [PValue QVector3D] RVoid [On QCustom3DVolume];
    Sig [VALUE_TYPE_QTGUI_QVECTOR3D] "setSliceFrameThicknesses" [PValue QVector3D] RVoid [On
        QCustom3DVolume];
    Sig [VALUE_TYPE_QTGUI_QVECTOR3D] "setSliceFrameWidths" [PValue QVector3D] RVoid [On QCustom3DVolume]
  ].

Definition methods_qtdatavisualization_0_s302 : list signature_row :=
  [
    Sig [] "setSliceIndexX" [PInt] RVoid [On QCustom3DVolume];
    Sig [] "setSliceIndexY" [PInt] RVoid [On QCustom3DVolume];
    Sig [] "setSliceIndexZ" [PInt] RVoid [On QCustom3DVolume];
    Sig [] "setSliceIndices" [PInt; PInt; PInt] RVoid [On QCustom3DVolume];
    Sig [] "setSlicingActive" [PBool] RVoid [On Q3DScene];
    Sig [ENUM_QT_AXIS; VALUE_TYPE_QTGUI_QIMAGE] "setSubTextureData" [PValue Qt_Axis; PInt; PValue QImage]
        RVoid [On QCustom3DVolume];
    Sig [VALUE_TYPE_QTGUI_QVECTOR3D] "setTarget" [PValue QVector3D] RVoid [On Q3DCamera];
    Sig [] "setText" [PString true] RVoid [On QCustom3DLabel];
    Sig [VALUE_TYPE_QTGUI_QCOLOR] "setTextColor" [PValue QColor] RVoid [On QCustom3DLabel]
  ].

Definition methods_qtdatavisualization_0_s311 : list signature_row :=
  [
    Sig [] "setTextureDepth" [PInt] RVoid [On QCustom3DVolume];
    Sig [] "setTextureDimensions" [PInt; PInt; PInt] RVoid [On QCustom3DVolume];
    Sig [] "setTextureFile" [PString true] RVoid [On QCustom3DItem];
    Sig [TYPE_QTGUI_QIMAGE] "setTextureFormat" [PValue QImage_Format] RVoid [On QCustom3DVolume];
    Sig [] "setTextureHeight" [PInt] RVoid [On QCustom3DVolume];
    Sig [VALUE_TYPE_QTGUI_QIMAGE] "setTextureImage" [PValue QImage] RVoid [On QCustom3DItem];
    Sig [] "setTextureWidth" [PInt] RVoid [On QCustom3DVolume];
    Sig [] "setTitle" [PString true] RVoid [On QAbstract3DAxis];
    Sig [] "setTitleFixed" [PBool] RVoid [On QAbstract3DAxis];
    Sig [] "setTitleVisible" [PBool] RVoid [On QAbstract3DAxis]
  ].

Definition methods_qtdatavisualization_0_s321 : list signature_row :=
  [
    Sig [TYPE_QTDATAVISUALIZATION_Q3DTHEME] "setType" [PValue Q3DTheme_Theme] RVoid [On Q3DTheme];
    Sig [] "setUseHighDefShader" [PBool] RVoid [On QCustom3DVolume];
    Sig [] "setUseModelCategories" [PBool] RVoid [On QItemModelBarDataProxy; On QItemModelSurfaceDataProxy];
    Sig [] "setUserDefinedMesh" [PString true] RVoid [On QAbstract3DSeries];
    Sig [TYPE_QTDATAVISUALIZATION_QVALUE3DAXIS] "setValueAxis" [PObject QValue3DAxis false] RVoid [On
        Q3DBars];
    Sig [] "setValueRanges" [PNumber cxx_float; PNumber cxx_float; PNumber cxx_float; PNumber cxx_float]
        RVoid [On QHeightMapSurfaceDataProxy];
    Sig [] "setValueRole" [PString true] RVoid [On QItemModelBarDataProxy];
    Sig [VALUE_TYPE_QTCORE_QREGULAREXPRESSION] "setValueRolePattern" [PValue QRegularExpression] RVoid [On
        QItemModelBarDataProxy];
    Sig [] "setValueRoleReplace" [PString true] RVoid [On QItemModelBarDataProxy]
  ].

Definition methods_qtdatavisualization_0_s330 : list signature_row :=
  [
    Sig [] "setVisible" [PBool] RVoid [On QAbstract3DSeries; On QCustom3DItem];
    Sig [VALUE_TYPE_QTGUI_QCOLOR] "setWindowColor" [PValue QColor] RVoid [On Q3DTheme];
    Sig [] "setWrapXRotation" [PBool] RVoid [On Q3DCamera];
    Sig [] "setWrapYRotation" [PBool] RVoid [On Q3DCamera];
    Sig [] "setXPosRole" [PString true] RVoid [On QItemModelScatterDataProxy; On
        QItemModelSurfaceDataProxy];
    Sig [VALUE_TYPE_QTCORE_QREGULAREXPRESSION] "setXPosRolePattern" [PValue QRegularExpression] RVoid [On
        QItemModelScatterDataProxy; On QItemModelSurfaceDataProxy];
    Sig [] "setXPosRoleReplace" [PString true] RVoid [On QItemModelScatterDataProxy; On
        QItemModelSurfaceDataProxy];
    Sig [] "setXRotation" [PNumber cxx_float] RVoid [On Q3DCamera]
  ].

Definition methods_qtdatavisualization_0_s338 : list signature_row :=
  [
    Sig [] "setYPosRole" [PString true] RVoid [On QItemModelScatterDataProxy; On
        QItemModelSurfaceDataProxy];
    Sig [VALUE_TYPE_QTCORE_QREGULAREXPRESSION] "setYPosRolePattern" [PValue QRegularExpression] RVoid [On
        QItemModelScatterDataProxy; On QItemModelSurfaceDataProxy];
    Sig [] "setYPosRoleReplace" [PString true] RVoid [On QItemModelScatterDataProxy; On
        QItemModelSurfaceDataProxy];
    Sig [] "setYRotation" [PNumber cxx_float] RVoid [On Q3DCamera];
    Sig [] "setZPosRole" [PString true] RVoid [On QItemModelScatterDataProxy; On
        QItemModelSurfaceDataProxy];
    Sig [VALUE_TYPE_QTCORE_QREGULAREXPRESSION] "setZPosRolePattern" [PValue QRegularExpression] RVoid [On
        QItemModelScatterDataProxy; On QItemModelSurfaceDataProxy];
    Sig [] "setZPosRoleReplace" [PString true] RVoid [On QItemModelScatterDataProxy; On
        QItemModelSurfaceDataProxy];
    Sig [] "setZoomAtTargetEnabled" [PBool] RVoid [On Q3DInputHandler]
  ].

Definition methods_qtdatavisualization_0_s346 : list signature_row :=
  [
    Sig [] "setZoomEnabled" [PBool] RVoid [On Q3DInputHandler];
    Sig [] "setZoomLevel" [PNumber cxx_float] RVoid [On Q3DCamera];
    Sig [TYPE_QTDATAVISUALIZATION_QABSTRACT3DGRAPH] "shadowQuality" [] (RMeta
        QAbstract3DGraph_ShadowQuality) [On QAbstract3DGraph];
    Sig [] "shadowsSupported" [] RBool [On QAbstract3DGraph];
    Sig [VALUE_TYPE_QTGUI_QCOLOR] "singleHighlightColor" [] (RValue QColor) [On Q3DTheme; On
        QAbstract3DSeries];
    Sig [VALUE_TYPE_QTGUI_QLINEARGRADIENT] "singleHighlightGradient" [] (RValue QLinearGradient) [On
        Q3DTheme; On QAbstract3DSeries];
    Sig [VALUE_TYPE_QTGUI_QCOLOR] "sliceFrameColor" [] (RValue QColor) [On QCustom3DVolume];
    Sig [VALUE_TYPE_QTGUI_QVECTOR3D] "sliceFrameGaps" [] (RValue QVector3D) [On QCustom3DVolume];
    Sig [VALUE_TYPE_QTGUI_QVECTOR3D] "sliceFrameThicknesses" [] (RValue QVector3D) [On QCustom3DVolume];
    Sig [VALUE_TYPE_QTGUI_QVECTOR3D] "sliceFrameWidths" [] (RValue QVector3D) [On QCustom3DVolume]
  ].

Definition methods_qtdatavisualization_0_s356 : list signature_row :=
  [
    Sig [] "sliceIndexX" [] RDouble [On QCustom3DVolume];
    Sig [] "sliceIndexY" [] RDouble [On QCustom3DVolume];
    Sig [] "sliceIndexZ" [] RDouble [On QCustom3DVolume];
    Sig [VALUE_TYPE_QTGUI_QVECTOR3D] "target" [] (RValue QVector3D) [On Q3DCamera];
    Sig [] "text" [] RString [On QCustom3DLabel];
    Sig [VALUE_TYPE_QTGUI_QCOLOR] "textColor" [] (RValue QColor) [On QCustom3DLabel];
    Sig [] "textureDataWidth" [] RDouble [On QCustom3DVolume];
    Sig [] "textureDepth" [] RDouble [On QCustom3DVolume];
    Sig [] "textureFile" [] RString [On QCustom3DItem];
    Sig [TYPE_QTGUI_QIMAGE] "textureFormat" [] (RMeta QImage_Format) [On QCustom3DVolume];
    Sig [] "textureHeight" [] RDouble [On QCustom3DVolume];
    Sig [] "textureWidth" [] RDouble [On QCustom3DVolume]
  ].

Definition methods_qtdatavisualization_0_s368 : list signature_row :=
  [
    Sig [TYPE_QTDATAVISUALIZATION_Q3DTHEME] "themes" [] (RList (IObject QObject)) [On QAbstract3DGraph];
    Sig [] "title" [] RString [On QAbstract3DAxis];
    Sig [TYPE_QTDATAVISUALIZATION_Q3DTHEME] "type" [] (RMeta Q3DTheme_Theme) [On Q3DTheme];
    Sig [TYPE_QTDATAVISUALIZATION_QABSTRACT3DAXIS] "type" [] (RMeta QAbstract3DAxis_AxisType) [On
        QAbstract3DAxis];
    Sig [TYPE_QTDATAVISUALIZATION_QABSTRACT3DSERIES] "type" [] (RMeta QAbstract3DSeries_SeriesType) [On
        QAbstract3DSeries];
    Sig [TYPE_QTDATAVISUALIZATION_QABSTRACTDATAPROXY] "type" [] (RMeta QAbstractDataProxy_DataType) [On
        QAbstractDataProxy];
    Sig [] "useHighDefShader" [] RBool [On QCustom3DVolume];
    Sig [] "useModelCategories" [] RBool [On QItemModelBarDataProxy; On QItemModelSurfaceDataProxy];
    Sig [] "userDefinedMesh" [] RString [On QAbstract3DSeries];
    Sig [TYPE_QTDATAVISUALIZATION_QVALUE3DAXIS] "valueAxis" [] RObject [On Q3DBars];
    Sig [] "valueRole" [] RString [On QItemModelBarDataProxy]
  ].

Definition methods_qtdatavisualization_0_s379 : list signature_row :=
  [
    Sig [VALUE_TYPE_QTCORE_QREGULAREXPRESSION] "valueRolePattern" [] (RValue QRegularExpression) [On
        QItemModelBarDataProxy];
    Sig [] "valueRoleReplace" [] RString [On QItemModelBarDataProxy];
    Sig [VALUE_TYPE_QTCORE_QRECT] "viewport" [] (RValue QRect) [On Q3DScene];
    Sig [VALUE_TYPE_QTGUI_QCOLOR] "windowColor" [] (RValue QColor) [On Q3DTheme];
    Sig [] "wrapXRotation" [] RBool [On Q3DCamera];
    Sig [] "wrapYRotation" [] RBool [On Q3DCamera];
    Sig [] "xPosRole" [] RString [On QItemModelScatterDataProxy; On QItemModelSurfaceDataProxy];
    Sig [VALUE_TYPE_QTCORE_QREGULAREXPRESSION] "xPosRolePattern" [] (RValue QRegularExpression) [On
        QItemModelScatterDataProxy; On QItemModelSurfaceDataProxy];
    Sig [] "xPosRoleReplace" [] RString [On QItemModelScatterDataProxy; On QItemModelSurfaceDataProxy];
    Sig [] "xRotation" [] RDouble [On Q3DCamera]
  ].

Definition methods_qtdatavisualization_0_s389 : list signature_row :=
  [
    Sig [] "yPosRole" [] RString [On QItemModelScatterDataProxy; On QItemModelSurfaceDataProxy];
    Sig [VALUE_TYPE_QTCORE_QREGULAREXPRESSION] "yPosRolePattern" [] (RValue QRegularExpression) [On
        QItemModelScatterDataProxy; On QItemModelSurfaceDataProxy];
    Sig [] "yPosRoleReplace" [] RString [On QItemModelScatterDataProxy; On QItemModelSurfaceDataProxy];
    Sig [] "yRotation" [] RDouble [On Q3DCamera];
    Sig [] "zPosRole" [] RString [On QItemModelScatterDataProxy; On QItemModelSurfaceDataProxy];
    Sig [VALUE_TYPE_QTCORE_QREGULAREXPRESSION] "zPosRolePattern" [] (RValue QRegularExpression) [On
        QItemModelScatterDataProxy; On QItemModelSurfaceDataProxy];
    Sig [] "zPosRoleReplace" [] RString [On QItemModelScatterDataProxy; On QItemModelSurfaceDataProxy];
    Sig [] "zoomLevel" [] RDouble [On Q3DCamera]
  ].

Definition methods_qtdatavisualization_0 : method_shard :=
  MethodShard QtDataVisualization "KRY_QT6_NATIVE_METHODS_QTDATAVISUALIZATION_"
    (methods_qtdatavisualization_0_i0 ++ methods_qtdatavisualization_0_i1)
    (methods_qtdatavisualization_0_s0 ++ methods_qtdatavisualization_0_s9 ++
        methods_qtdatavisualization_0_s18 ++ methods_qtdatavisualization_0_s26 ++
        methods_qtdatavisualization_0_s35 ++ methods_qtdatavisualization_0_s45 ++
        methods_qtdatavisualization_0_s56 ++ methods_qtdatavisualization_0_s66 ++
        methods_qtdatavisualization_0_s78 ++ methods_qtdatavisualization_0_s90 ++
        methods_qtdatavisualization_0_s100 ++ methods_qtdatavisualization_0_s112 ++
        methods_qtdatavisualization_0_s123 ++ methods_qtdatavisualization_0_s133 ++
        methods_qtdatavisualization_0_s140 ++ methods_qtdatavisualization_0_s149 ++
        methods_qtdatavisualization_0_s158 ++ methods_qtdatavisualization_0_s168 ++
        methods_qtdatavisualization_0_s178 ++ methods_qtdatavisualization_0_s187 ++
        methods_qtdatavisualization_0_s194 ++ methods_qtdatavisualization_0_s203 ++
        methods_qtdatavisualization_0_s210 ++ methods_qtdatavisualization_0_s219 ++
        methods_qtdatavisualization_0_s229 ++ methods_qtdatavisualization_0_s238 ++
        methods_qtdatavisualization_0_s248 ++ methods_qtdatavisualization_0_s257 ++
        methods_qtdatavisualization_0_s266 ++ methods_qtdatavisualization_0_s276 ++
        methods_qtdatavisualization_0_s284 ++ methods_qtdatavisualization_0_s293 ++
        methods_qtdatavisualization_0_s302 ++ methods_qtdatavisualization_0_s311 ++
        methods_qtdatavisualization_0_s321 ++ methods_qtdatavisualization_0_s330 ++
        methods_qtdatavisualization_0_s338 ++ methods_qtdatavisualization_0_s346 ++
        methods_qtdatavisualization_0_s356 ++ methods_qtdatavisualization_0_s368 ++
        methods_qtdatavisualization_0_s379 ++ methods_qtdatavisualization_0_s389)
    [].

Definition methods_qtdatavisualization_1_i0 : list include :=
  [
    ClassInclude QtDataVisualization QLogValue3DAxisFormatter QLogValue3DAxisFormatter;
    ClassInclude QtDataVisualization QScatter3DSeries QScatter3DSeries;
    ClassInclude QtDataVisualization QScatterDataProxy QScatterDataProxy;
    ClassInclude QtDataVisualization QSurface3DSeries QSurface3DSeries;
    ClassInclude QtDataVisualization QSurfaceDataProxy QSurfaceDataProxy;
    ClassInclude QtDataVisualization QValue3DAxis QValue3DAxis;
    TypeInclude QtDataVisualization QScatter3DSeries TYPE_QTDATAVISUALIZATION_QSCATTER3DSERIES;
    TypeInclude QtDataVisualization QScatterDataProxy TYPE_QTDATAVISUALIZATION_QSCATTERDATAPROXY;
    TypeInclude QtDataVisualization QSurface3DSeries TYPE_QTDATAVISUALIZATION_QSURFACE3DSERIES;
    TypeInclude QtDataVisualization QSurfaceDataProxy TYPE_QTDATAVISUALIZATION_QSURFACEDATAPROXY;
    TypeInclude QtDataVisualization QValue3DAxisFormatter TYPE_QTDATAVISUALIZATION_QVALUE3DAXISFORMATTER;
    TypeInclude QtCore QPoint VALUE_TYPE_QTCORE_QPOINT;
    TypeInclude QtGui QImage VALUE_TYPE_QTGUI_QIMAGE
  ].

Definition methods_qtdatavisualization_1_s0 : list signature_row :=
  [
    Sig [] "autoSubGrid" [] RBool [On QLogValue3DAxisFormatter];
    Sig [] "base" [] RDouble [On QLogValue3DAxisFormatter];
    Sig [] "columnCount" [] RDouble [On QSurfaceDataProxy];
    Sig [TYPE_QTDATAVISUALIZATION_QSCATTERDATAPROXY] "dataProxy" [] RObject [On QScatter3DSeries];
    Sig [TYPE_QTDATAVISUALIZATION_QSURFACEDATAPROXY] "dataProxy" [] RObject [On QSurface3DSeries];
    Sig [TYPE_QTDATAVISUALIZATION_QVALUE3DAXISFORMATTER] "formatter" [] RObject [On QValue3DAxis];
    Sig [] "invalidSelectionIndex" [] RDouble [Static QScatter3DSeries];
    Sig [VALUE_TYPE_QTCORE_QPOINT] "invalidSelectionPosition" [] (RValue QPoint) [Static QSurface3DSeries];
    Sig [] "isFlatShadingEnabled" [] RBool [On QSurface3DSeries];
    Sig [] "isFlatShadingSupported" [] RBool [On QSurface3DSeries];
    Sig [] "itemCount" [] RDouble [On QScatterDataProxy];
    Sig [] "itemSize" [] RDouble [On QScatter3DSeries]
  ].

Definition methods_qtdatavisualization_1_s12 : list signature_row :=
  [
    Sig [] "labelFormat" [] RString [On QValue3DAxis];
    Sig [] "removeItems" [PInt; PInt] RVoid [On QScatterDataProxy];
    Sig [] "removeRows" [PInt; PInt] RVoid [On QSurfaceDataProxy];
    Sig [] "reversed" [] RBool [On QValue3DAxis];
    Sig [] "rowCount" [] RDouble [On QSurfaceDataProxy];
    Sig [] "segmentCount" [] RDouble [On QValue3DAxis];
    Sig [] "selectedItem" [] RDouble [On QScatter3DSeries];
    Sig [VALUE_TYPE_QTCORE_QPOINT] "selectedPoint" [] (RValue QPoint) [On QSurface3DSeries];
    Sig [TYPE_QTDATAVISUALIZATION_QSCATTER3DSERIES] "series" [] RObject [On QScatterDataProxy];
    Sig [TYPE_QTDATAVISUALIZATION_QSURFACE3DSERIES] "series" [] RObject [On QSurfaceDataProxy];
    Sig [] "setAutoSubGrid" [PBool] RVoid [On QLogValue3DAxisFormatter]
  ].

Definition methods_qtdatavisualization_1_s23 : list signature_row :=
  [
    Sig [] "setBase" [PNumber cxx_qreal] RVoid [On QLogValue3DAxisFormatter];
    Sig [TYPE_QTDATAVISUALIZATION_QSCATTERDATAPROXY] "setDataProxy" [PObject QScatterDataProxy false] RVoid
        [On QScatter3DSeries];
    Sig [TYPE_QTDATAVISUALIZATION_QSURFACEDATAPROXY] "setDataProxy" [PObject QSurfaceDataProxy false] RVoid
        [On QSurface3DSeries];
    Sig [] "setFlatShadingEnabled" [PBool] RVoid [On QSurface3DSeries];
    Sig [TYPE_QTDATAVISUALIZATION_QVALUE3DAXISFORMATTER] "setFormatter" [PObject QValue3DAxisFormatter
        false] RVoid [On QValue3DAxis];
    Sig [] "setItemSize" [PNumber cxx_float] RVoid [On QScatter3DSeries];
    Sig [] "setLabelFormat" [PString true] RVoid [On QValue3DAxis];
    Sig [] "setReversed" [PBool] RVoid [On QValue3DAxis];
    Sig [] "setSegmentCount" [PInt] RVoid [On QValue3DAxis];
    Sig [] "setSelectedItem" [PInt] RVoid [On QScatter3DSeries]
  ].

Definition methods_qtdatavisualization_1_s33 : list signature_row :=
  [
    Sig [VALUE_TYPE_QTCORE_QPOINT] "setSelectedPoint" [PValue QPoint] RVoid [On QSurface3DSeries];
    Sig [] "setShowEdgeLabels" [PBool] RVoid [On QLogValue3DAxisFormatter];
    Sig [] "setSubSegmentCount" [PInt] RVoid [On QValue3DAxis];
    Sig [VALUE_TYPE_QTGUI_QIMAGE] "setTexture" [PValue QImage] RVoid [On QSurface3DSeries];
    Sig [] "setTextureFile" [PString true] RVoid [On QSurface3DSeries];
    Sig [] "showEdgeLabels" [] RBool [On QLogValue3DAxisFormatter];
    Sig [] "subSegmentCount" [] RDouble [On QValue3DAxis];
    Sig [VALUE_TYPE_QTGUI_QIMAGE] "texture" [] (RValue QImage) [On QSurface3DSeries];
    Sig [] "textureFile" [] RString [On QSurface3DSeries]
  ].

Definition methods_qtdatavisualization_1 : method_shard :=
  MethodShard QtDataVisualization "KRY_QT6_NATIVE_METHODS_QTDATAVISUALIZATION_"
    (methods_qtdatavisualization_1_i0)
    (methods_qtdatavisualization_1_s0 ++ methods_qtdatavisualization_1_s12 ++
        methods_qtdatavisualization_1_s23 ++ methods_qtdatavisualization_1_s33)
    [].
