(* ===== verification/MethodsCore.v ===== *)
(** Rows of the shards of generated_methods: qtcore_0, qtcore_1, qtcore_2, qtcore_3. *)
From S2P Require Import Names.

(** * Definitions *)

Definition methods_qtcore_0_i0 : list include :=
  [
    ClassInclude QtCore QAbstractAnimation QAbstractAnimation;
    ClassInclude QtCore QAbstractEventDispatcher QAbstractEventDispatcher;
    ClassInclude QtCore QAbstractItemModel QAbstractItemModel;
    ClassInclude QtCore QAbstractListModel QAbstractListModel;
    ClassInclude QtCore QAbstractProxyModel QAbstractProxyModel;
    ClassInclude QtCore QAbstractTableModel QAbstractTableModel;
    ClassInclude QtCore QAnimationGroup QAnimationGroup;
    ClassInclude QtCore QBuffer QBuffer;
    ClassInclude QtCore QByteArray QByteArray;
    ClassInclude QtCore QCalendar QCalendar;
    ClassInclude QtCore QCommandLineParser QCommandLineParser;
    ClassInclude QtCore QConcatenateTablesProxyModel QConcatenateTablesProxyModel;
    ClassInclude QtCore QCoreApplication QCoreApplication;
    ClassInclude QtCore QCryptographicHash QCryptographicHash;
    ClassInclude QtCore QDate QDate;
    ClassInclude QtCore QDateTime QDateTime;
    ClassInclude QtCore QDeadlineTimer QDeadlineTimer;
    ClassInclude QtCore QDir QDir;
    ClassInclude QtCore QElapsedTimer QElapsedTimer;
    ClassInclude QtCore QEvent QEvent;
    ClassInclude QtCore QEventLoop QEventLoop;
    ClassInclude QtCore QFile QFile;
    ClassInclude QtCore QFileDevice QFileDevice;
    ClassInclude QtCore QFileInfo QFileInfo;
    TypeInclude QtCore QAbstractAnimation TYPE_QTCORE_QABSTRACTANIMATION;
    TypeInclude QtCore QAbstractEventDispatcher TYPE_QTCORE_QABSTRACTEVENTDISPATCHER;
    TypeInclude QtCore QAbstractItemModel TYPE_QTCORE_QABSTRACTITEMMODEL;
    TypeInclude QtCore QAnimationGroup TYPE_QTCORE_QANIMATIONGROUP;
    TypeInclude QtCore QCoreApplication TYPE_QTCORE_QCOREAPPLICATION;
    TypeInclude QtCore QMimeData TYPE_QTCORE_QMIMEDATA;
    TypeInclude QtCore QObject TYPE_QTCORE_QOBJECT;
    TypeInclude QtCore QThread TYPE_QTCORE_QTHREAD;
    TypeInclude QtCore QTranslator TYPE_QTCORE_QTRANSLATOR;
    EnumDefine ENUM_QT_APPLICATIONATTRIBUTE;
    EnumDefine ENUM_QT_DATEFORMAT;
    EnumDefine ENUM_QT_DROPACTION;
    EnumDefine ENUM_QT_DROPACTIONS;
    EnumDefine ENUM_QT_ORIENTATION;
    EnumDefine ENUM_QT_SORTORDER;
    EnumDefine ENUM_QT_TIMESPEC;
    EnumDefine ENUM_QT_TIMERTYPE;
    TypeInclude QtCore QAbstractAnimation TYPE_QTCORE_QABSTRACTANIMATION;
    TypeInclude QtCore QCommandLineParser TYPE_QTCORE_QCOMMANDLINEPARSER;
    TypeInclude QtCore QCryptographicHash TYPE_QTCORE_QCRYPTOGRAPHICHASH;
    TypeInclude QtCore QElapsedTimer TYPE_QTCORE_QELAPSEDTIMER;
    TypeInclude QtCore QFileDevice TYPE_QTCORE_QFILEDEVICE;
    TypeInclude QtCore QByteArray VALUE_TYPE_QTCORE_QBYTEARRAY;
    TypeInclude QtCore QCalendar VALUE_TYPE_QTCORE_QCALENDAR;
    TypeInclude QtCore QDate VALUE_TYPE_QTCORE_QDATE;
    TypeInclude QtCore QDateTime VALUE_TYPE_QTCORE_QDATETIME;
    TypeInclude QtCore QDeadlineTimer VALUE_TYPE_QTCORE_QDEADLINETIMER;
    TypeInclude QtCore QDir VALUE_TYPE_QTCORE_QDIR;
    TypeInclude QtCore QItemSelection VALUE_TYPE_QTCORE_QITEMSELECTION;
    TypeInclude QtCore QModelIndex VALUE_TYPE_QTCORE_QMODELINDEX;
    TypeInclude QtCore QModelRoleDataSpan VALUE_TYPE_QTCORE_QMODELROLEDATASPAN;
    TypeInclude QtCore QSize VALUE_TYPE_QTCORE_QSIZE
  ].

Definition methods_qtcore_0_i1 : list include :=
  [
    TypeInclude QtCore QTimeZone VALUE_TYPE_QTCORE_QTIMEZONE
  ].

Definition methods_qtcore_0_s0 : list signature_row :=
  [
    Sig [TYPE_QTCORE_QABSTRACTANIMATION] "addAnimation" [PObject QAbstractAnimation false] RVoid [On
        QAnimationGroup];
    Sig [] "addLibraryPath" [PString true] RVoid [Static QCoreApplication];
    Sig [VALUE_TYPE_QTCORE_QDEADLINETIMER] "addNSecs" [PValue QDeadlineTimer; PMeta cxx_qint64] (RValue
        QDeadlineTimer) [Static QDeadlineTimer];
    Sig [] "addSearchPath" [PString true; PString true] RVoid [Static QDir];
    Sig [TYPE_QTCORE_QABSTRACTANIMATION] "animationAt" [PInt] RObject [On QAnimationGroup];
    Sig [] "animationCount" [] RDouble [On QAnimationGroup];
    Sig [] "applicationDirPath" [] RString [Static QCoreApplication];
    Sig [] "applicationFilePath" [] RString [Static QCoreApplication];
    Sig [] "applicationName" [] RString [Static QCoreApplication];
    Sig [] "applicationPid" [] (RMeta cxx_qint64) [Static QCoreApplication];
    Sig [] "applicationVersion" [] RString [Static QCoreApplication]
  ].

Definition methods_qtcore_0_s11 : list signature_row :=
  [
    Sig [] "arguments" [] (RList (IMeta QString)) [Static QCoreApplication];
    Sig [] "atEnd" [] RBool [On QBuffer; On QFileDevice];
    Sig [] "availableCalendars" [] (RList (IMeta QString)) [Static QCalendar];
    Sig [VALUE_TYPE_QTCORE_QMODELINDEX] "buddy" [PValue QModelIndex] (RValue QModelIndex) [On
        QAbstractItemModel; On QAbstractProxyModel];
    Sig [VALUE_TYPE_QTCORE_QBYTEARRAY] "buffer" [] (RValue QByteArray) [On QBuffer];
    Sig [ENUM_QT_DROPACTION; TYPE_QTCORE_QMIMEDATA; VALUE_TYPE_QTCORE_QMODELINDEX] "canDropMimeData"
        [PObject QMimeData false; PValue Qt_DropAction; PInt; PInt; PValue QModelIndex] RBool [On
        QAbstractItemModel; On QAbstractProxyModel; On QConcatenateTablesProxyModel];
    Sig [VALUE_TYPE_QTCORE_QMODELINDEX] "canFetchMore" [PValue QModelIndex] RBool [On QAbstractItemModel;
        On QAbstractProxyModel];
    Sig [] "canReadLine" [] RBool [On QBuffer]
  ].

Definition methods_qtcore_0_s19 : list signature_row :=
  [
    Sig [] "cleanPath" [PString true] RString [Static QDir];
    Sig [] "clear" [] RVoid [On QAnimationGroup];
    Sig [VALUE_TYPE_QTCORE_QMODELINDEX] "clearItemData" [PValue QModelIndex] RBool [On QAbstractItemModel;
        On QAbstractProxyModel];
    Sig [TYPE_QTCORE_QELAPSEDTIMER] "clockType" [] (RMeta QElapsedTimer_ClockType) [Static QElapsedTimer];
    Sig [] "close" [] RVoid [On QBuffer; On QFileDevice];
    Sig [] "closingDown" [] RBool [Static QCoreApplication];
    Sig [] "closingDown" [] RVoid [On QAbstractEventDispatcher];
    Sig [VALUE_TYPE_QTCORE_QMODELINDEX] "columnCount" [PValue QModelIndex] RDouble [On
        QConcatenateTablesProxyModel];
    Sig [] "copy" [PString true] RBool [On QFile];
    Sig [] "copy" [PString true; PString true] RBool [Static QFile]
  ].

Definition methods_qtcore_0_s29 : list signature_row :=
  [
    Sig [VALUE_TYPE_QTCORE_QDIR] "current" [] (RValue QDir) [Static QDir];
    Sig [ENUM_QT_TIMERTYPE; VALUE_TYPE_QTCORE_QDEADLINETIMER] "current" [PValue Qt_TimerType] (RValue
        QDeadlineTimer) [Static QDeadlineTimer];
    Sig [VALUE_TYPE_QTCORE_QDATE] "currentDate" [] (RValue QDate) [Static QDate];
    Sig [VALUE_TYPE_QTCORE_QDATETIME] "currentDateTime" [] (RValue QDateTime) [Static QDateTime];
    Sig [VALUE_TYPE_QTCORE_QDATETIME; VALUE_TYPE_QTCORE_QTIMEZONE] "currentDateTime" [PValue QTimeZone]
        (RValue QDateTime) [Static QDateTime];
    Sig [VALUE_TYPE_QTCORE_QDATETIME] "currentDateTimeUtc" [] (RValue QDateTime) [Static QDateTime];
    Sig [] "currentLoop" [] RDouble [On QAbstractAnimation];
    Sig [] "currentLoopTime" [] RDouble [On QAbstractAnimation];
    Sig [] "currentMSecsSinceEpoch" [] (RMeta cxx_qint64) [Static QDateTime];
    Sig [] "currentPath" [] RString [Static QDir];
    Sig [] "currentSecsSinceEpoch" [] (RMeta cxx_qint64) [Static QDateTime]
  ].

Definition methods_qtcore_0_s40 : list signature_row :=
  [
    Sig [] "currentTime" [] RDouble [On QAbstractAnimation];
    Sig [VALUE_TYPE_QTCORE_QBYTEARRAY] "data" [] (RValue QByteArray) [On QBuffer];
    Sig [VALUE_TYPE_QTCORE_QMODELINDEX] "data" [PValue QModelIndex; PInt] RVariant [On QAbstractProxyModel;
        On QConcatenateTablesProxyModel];
    Sig [VALUE_TYPE_QTCORE_QBYTEARRAY] "decodeName" [PValue QByteArray] RString [Static QFile];
    Sig [TYPE_QTCORE_QABSTRACTANIMATION] "direction" [] (RMeta QAbstractAnimation_Direction) [On
        QAbstractAnimation];
    Sig [ENUM_QT_DROPACTION; TYPE_QTCORE_QMIMEDATA; VALUE_TYPE_QTCORE_QMODELINDEX] "dropMimeData" [PObject
        QMimeData false; PValue Qt_DropAction; PInt; PInt; PValue QModelIndex] RBool [On
        QAbstractItemModel; On QAbstractListModel; On QAbstractProxyModel; On QAbstractTableModel; On
        QConcatenateTablesProxyModel];
    Sig [VALUE_TYPE_QTCORE_QBYTEARRAY] "encodeName" [PString true] (RValue QByteArray) [Static QFile];
    Sig [TYPE_QTCORE_QFILEDEVICE] "error" [] (RMeta QFileDevice_FileError) [On QFileDevice]
  ].

Definition methods_qtcore_0_s48 : list signature_row :=
  [
    Sig [TYPE_QTCORE_QABSTRACTEVENTDISPATCHER] "eventDispatcher" [] RObject [Static QCoreApplication];
    Sig [] "exec" [] RDouble [Static QCoreApplication];
    Sig [] "exists" [] RBool [On QFile];
    Sig [] "exists" [PString true] RBool [Static QFile; Static QFileInfo];
    Sig [] "exit" [PInt] RVoid [On QEventLoop];
    Sig [] "exit" [PInt] RVoid [Static QCoreApplication];
    Sig [VALUE_TYPE_QTCORE_QMODELINDEX] "fetchMore" [PValue QModelIndex] RVoid [On QAbstractItemModel; On
        QAbstractProxyModel];
    Sig [] "fileName" [] RString [On QFile; On QFileDevice];
    Sig [TYPE_QTCORE_QFILEDEVICE; VALUE_TYPE_QTCORE_QDATETIME] "fileTime" [PValue QFileDevice_FileTime]
        (RValue QDateTime) [On QFileDevice];
    Sig [] "flush" [] RBool [On QFileDevice]
  ].

Definition methods_qtcore_0_s58 : list signature_row :=
  [
    Sig [VALUE_TYPE_QTCORE_QBYTEARRAY] "fromHex" [PValue QByteArray] (RValue QByteArray) [Static
        QByteArray];
    Sig [VALUE_TYPE_QTCORE_QDATE] "fromJulianDay" [PMeta cxx_qint64] (RValue QDate) [Static QDate];
    Sig [VALUE_TYPE_QTCORE_QDATETIME; VALUE_TYPE_QTCORE_QTIMEZONE] "fromMSecsSinceEpoch" [PMeta cxx_qint64;
        PValue QTimeZone] (RValue QDateTime) [Static QDateTime];
    Sig [ENUM_QT_TIMESPEC; VALUE_TYPE_QTCORE_QDATETIME] "fromMSecsSinceEpoch" [PMeta cxx_qint64; PValue
        Qt_TimeSpec; PInt] (RValue QDateTime) [Static QDateTime];
    Sig [] "fromNativeSeparators" [PString true] RString [Static QDir];
    Sig [VALUE_TYPE_QTCORE_QDATETIME; VALUE_TYPE_QTCORE_QTIMEZONE] "fromSecsSinceEpoch" [PMeta cxx_qint64;
        PValue QTimeZone] (RValue QDateTime) [Static QDateTime];
    Sig [ENUM_QT_TIMESPEC; VALUE_TYPE_QTCORE_QDATETIME] "fromSecsSinceEpoch" [PMeta cxx_qint64; PValue
        Qt_TimeSpec; PInt] (RValue QDateTime) [Static QDateTime];
    Sig [VALUE_TYPE_QTCORE_QCALENDAR; VALUE_TYPE_QTCORE_QDATE] "fromString" [PString true; PString true;
        PValue QCalendar] (RValue QDate) [Static QDate]
  ].

Definition methods_qtcore_0_s66 : list signature_row :=
  [
    Sig [VALUE_TYPE_QTCORE_QCALENDAR; VALUE_TYPE_QTCORE_QDATETIME] "fromString" [PString true; PString
        true; PValue QCalendar] (RValue QDateTime) [Static QDateTime];
    Sig [VALUE_TYPE_QTCORE_QCALENDAR; VALUE_TYPE_QTCORE_QDATE] "fromString" [PString true; PString true;
        PInt; PValue QCalendar] (RValue QDate) [Static QDate];
    Sig [VALUE_TYPE_QTCORE_QCALENDAR; VALUE_TYPE_QTCORE_QDATETIME] "fromString" [PString true; PString
        true; PInt; PValue QCalendar] (RValue QDateTime) [Static QDateTime];
    Sig [ENUM_QT_DATEFORMAT; VALUE_TYPE_QTCORE_QDATE] "fromString" [PString true; PValue Qt_DateFormat]
        (RValue QDate) [Static QDate];
    Sig [ENUM_QT_DATEFORMAT; VALUE_TYPE_QTCORE_QDATETIME] "fromString" [PString true; PValue Qt_DateFormat]
        (RValue QDateTime) [Static QDateTime];
    Sig [TYPE_QTCORE_QANIMATIONGROUP] "group" [] RObject [On QAbstractAnimation];
    Sig [] "handle" [] RDouble [On QFileDevice];
    Sig [VALUE_TYPE_QTCORE_QMODELINDEX] "hasChildren" [PValue QModelIndex] RBool [On QAbstractItemModel; On
        QAbstractProxyModel]
  ].

Definition methods_qtcore_0_s74 : list signature_row :=
  [
    Sig [VALUE_TYPE_QTCORE_QMODELINDEX] "hasIndex" [PInt; PInt; PValue QModelIndex] RBool [On
        QAbstractItemModel];
    Sig [TYPE_QTCORE_QCRYPTOGRAPHICHASH] "hashLength" [PValue QCryptographicHash_Algorithm] RDouble [Static
        QCryptographicHash];
    Sig [ENUM_QT_ORIENTATION] "headerData" [PInt; PValue Qt_Orientation; PInt] RVariant [On
        QAbstractItemModel; On QAbstractProxyModel; On QConcatenateTablesProxyModel];
    Sig [VALUE_TYPE_QTCORE_QDIR] "home" [] (RValue QDir) [Static QDir];
    Sig [] "homePath" [] RString [Static QDir];
    Sig [VALUE_TYPE_QTCORE_QMODELINDEX] "index" [PInt; PInt; PValue QModelIndex] (RValue QModelIndex) [On
        QAbstractListModel; On QAbstractTableModel; On QConcatenateTablesProxyModel];
    Sig [TYPE_QTCORE_QABSTRACTANIMATION] "indexOfAnimation" [PObject QAbstractAnimation false] RDouble [On
        QAnimationGroup]
  ].

Definition methods_qtcore_0_s81 : list signature_row :=
  [
    Sig [TYPE_QTCORE_QABSTRACTANIMATION] "insertAnimation" [PInt; PObject QAbstractAnimation false] RVoid
        [On QAnimationGroup];
    Sig [VALUE_TYPE_QTCORE_QMODELINDEX] "insertColumn" [PInt; PValue QModelIndex] RBool [On
        QAbstractItemModel];
    Sig [VALUE_TYPE_QTCORE_QMODELINDEX] "insertColumns" [PInt; PInt; PValue QModelIndex] RBool [On
        QAbstractItemModel];
    Sig [VALUE_TYPE_QTCORE_QMODELINDEX] "insertRow" [PInt; PValue QModelIndex] RBool [On
        QAbstractItemModel];
    Sig [VALUE_TYPE_QTCORE_QMODELINDEX] "insertRows" [PInt; PInt; PValue QModelIndex] RBool [On
        QAbstractItemModel];
    Sig [TYPE_QTCORE_QTRANSLATOR] "installTranslator" [PObject QTranslator false] RBool [Static
        QCoreApplication];
    Sig [TYPE_QTCORE_QCOREAPPLICATION] "instance" [] RObject [Static QCoreApplication];
    Sig [TYPE_QTCORE_QABSTRACTEVENTDISPATCHER; TYPE_QTCORE_QTHREAD] "instance" [PObject QThread false]
        RObject [Static QAbstractEventDispatcher];
    Sig [] "isAbsolutePath" [PString true] RBool [Static QDir]
  ].

Definition methods_qtcore_0_s90 : list signature_row :=
  [
    Sig [] "isLeapYear" [PInt] RBool [Static QDate];
    Sig [] "isMonotonic" [] RBool [Static QElapsedTimer];
    Sig [] "isQuitLockEnabled" [] RBool [Static QCoreApplication];
    Sig [] "isRelativePath" [PString true] RBool [Static QDir];
    Sig [] "isRunning" [] RBool [On QEventLoop];
    Sig [] "isSequential" [] RBool [On QFileDevice];
    Sig [] "isSetuidAllowed" [] RBool [Static QCoreApplication];
    Sig [] "isValid" [PInt; PInt; PInt] RBool [Static QDate];
    Sig [] "libraryPaths" [] (RList (IMeta QString)) [Static QCoreApplication];
    Sig [] "link" [PString true] RBool [On QFile];
    Sig [] "link" [PString true; PString true] RBool [Static QFile]
  ].

Definition methods_qtcore_0_s101 : list signature_row :=
  [
    Sig [] "loopCount" [] RDouble [On QAbstractAnimation];
    Sig [VALUE_TYPE_QTCORE_QMODELINDEX] "mapFromSource" [PValue QModelIndex] (RValue QModelIndex) [On
        QConcatenateTablesProxyModel];
    Sig [VALUE_TYPE_QTCORE_QITEMSELECTION] "mapSelectionFromSource" [PValue QItemSelection] (RValue
        QItemSelection) [On QAbstractProxyModel];
    Sig [VALUE_TYPE_QTCORE_QITEMSELECTION] "mapSelectionToSource" [PValue QItemSelection] (RValue
        QItemSelection) [On QAbstractProxyModel];
    Sig [VALUE_TYPE_QTCORE_QMODELINDEX] "mapToSource" [PValue QModelIndex] (RValue QModelIndex) [On
        QConcatenateTablesProxyModel];
    Sig [] "match" [PString true; PString true] RBool [Static QDir];
    Sig [] "match" [PStringList; PString true] RBool [Static QDir];
    Sig [] "maxSize" [] (RMeta cxx_qsizetype) [Static QByteArray];
    Sig [] "mimeTypes" [] (RList (IMeta QString)) [On QAbstractItemModel; On QAbstractProxyModel; On
        QConcatenateTablesProxyModel]
  ].

Definition methods_qtcore_0_s110 : list signature_row :=
  [
    Sig [VALUE_TYPE_QTCORE_QMODELINDEX] "moveColumn" [PValue QModelIndex; PInt; PValue QModelIndex; PInt]
        RBool [On QAbstractItemModel];
    Sig [VALUE_TYPE_QTCORE_QMODELINDEX] "moveColumns" [PValue QModelIndex; PInt; PInt; PValue QModelIndex;
        PInt] RBool [On QAbstractItemModel];
    Sig [VALUE_TYPE_QTCORE_QMODELINDEX] "moveRow" [PValue QModelIndex; PInt; PValue QModelIndex; PInt]
        RBool [On QAbstractItemModel];
    Sig [VALUE_TYPE_QTCORE_QMODELINDEX] "moveRows" [PValue QModelIndex; PInt; PInt; PValue QModelIndex;
        PInt] RBool [On QAbstractItemModel];
    Sig [] "moveToTrash" [] RBool [On QFile];
    Sig [VALUE_TYPE_QTCORE_QMODELINDEX; VALUE_TYPE_QTCORE_QMODELROLEDATASPAN] "multiData" [PValue
        QModelIndex; PValue QModelRoleDataSpan] RVoid [On QAbstractItemModel];
    Sig [] "organizationDomain" [] RString [Static QCoreApplication];
    Sig [] "organizationName" [] RString [Static QCoreApplication]
  ].

Definition methods_qtcore_0_s118 : list signature_row :=
  [
    Sig [TYPE_QTCORE_QOBJECT] "parent" [] RObject [On QAbstractItemModel; On QAbstractListModel; On
        QAbstractTableModel];
    Sig [VALUE_TYPE_QTCORE_QMODELINDEX] "parent" [PValue QModelIndex] (RValue QModelIndex) [On
        QConcatenateTablesProxyModel];
    Sig [] "pause" [] RVoid [On QAbstractAnimation];
    Sig [] "pos" [] (RMeta cxx_qint64) [On QBuffer; On QFileDevice];
    Sig [] "quit" [] RVoid [On QEventLoop];
    Sig [] "quit" [] RVoid [Static QCoreApplication];
    Sig [] "registerEventType" [PInt] RDouble [Static QEvent];
    Sig [ENUM_QT_TIMERTYPE; TYPE_QTCORE_QOBJECT] "registerTimer" [PMeta cxx_qint64; PValue Qt_TimerType;
        PObject QObject false] RDouble [On QAbstractEventDispatcher];
    Sig [] "remove" [] RBool [On QFile];
    Sig [] "remove" [PString true] RBool [Static QFile]
  ].

Definition methods_qtcore_0_s128 : list signature_row :=
  [
    Sig [TYPE_QTCORE_QABSTRACTANIMATION] "removeAnimation" [PObject QAbstractAnimation false] RVoid [On
        QAnimationGroup];
    Sig [VALUE_TYPE_QTCORE_QMODELINDEX] "removeColumn" [PInt; PValue QModelIndex] RBool [On
        QAbstractItemModel];
    Sig [VALUE_TYPE_QTCORE_QMODELINDEX] "removeColumns" [PInt; PInt; PValue QModelIndex] RBool [On
        QAbstractItemModel];
    Sig [] "removeLibraryPath" [PString true] RVoid [Static QCoreApplication];
    Sig [TYPE_QTCORE_QOBJECT] "removePostedEvents" [PObject QObject false; PInt] RVoid [Static
        QCoreApplication];
    Sig [VALUE_TYPE_QTCORE_QMODELINDEX] "removeRow" [PInt; PValue QModelIndex] RBool [On
        QAbstractItemModel];
    Sig [VALUE_TYPE_QTCORE_QMODELINDEX] "removeRows" [PInt; PInt; PValue QModelIndex] RBool [On
        QAbstractItemModel];
    Sig [TYPE_QTCORE_QTRANSLATOR] "removeTranslator" [PObject QTranslator false] RBool [Static
        QCoreApplication];
    Sig [] "rename" [PString true] RBool [On QFile]
  ].

Definition methods_qtcore_0_s137 : list signature_row :=
  [
    Sig [] "rename" [PString true; PString true] RBool [Static QFile];
    Sig [] "resize" [PString true; PMeta cxx_qint64] RBool [Static QFile];
    Sig [] "resize" [PMeta cxx_qint64] RBool [On QFile; On QFileDevice];
    Sig [] "resume" [] RVoid [On QAbstractAnimation];
    Sig [] "revert" [] RVoid [On QAbstractItemModel; On QAbstractProxyModel];
    Sig [VALUE_TYPE_QTCORE_QDIR] "root" [] (RValue QDir) [Static QDir];
    Sig [] "rootPath" [] RString [Static QDir];
    Sig [VALUE_TYPE_QTCORE_QMODELINDEX] "rowCount" [PValue QModelIndex] RDouble [On
        QConcatenateTablesProxyModel];
    Sig [] "searchPaths" [PString true] (RList (IMeta QString)) [Static QDir]
  ].

Definition methods_qtcore_0_s146 : list signature_row :=
  [
    Sig [] "seek" [PMeta cxx_qint64] RBool [On QBuffer; On QFileDevice];
    Sig [TYPE_QTCORE_QOBJECT] "sendPostedEvents" [PObject QObject false; PInt] RVoid [Static
        QCoreApplication];
    Sig [] "setApplicationName" [PString true] RVoid [Static QCoreApplication];
    Sig [] "setApplicationVersion" [PString true] RVoid [Static QCoreApplication];
    Sig [ENUM_QT_APPLICATIONATTRIBUTE] "setAttribute" [PValue Qt_ApplicationAttribute; PBool] RVoid [Static
        QCoreApplication];
    Sig [] "setCurrent" [PString true] RBool [Static QDir];
    Sig [] "setCurrentTime" [PInt] RVoid [On QAbstractAnimation];
    Sig [VALUE_TYPE_QTCORE_QBYTEARRAY] "setData" [PValue QByteArray] RVoid [On QBuffer; On QBuffer]
  ].

Definition methods_qtcore_0_s154 : list signature_row :=
  [
    Sig [VALUE_TYPE_QTCORE_QMODELINDEX] "setData" [PValue QModelIndex; PVariant; PInt] RBool [On
        QAbstractItemModel; On QAbstractProxyModel; On QConcatenateTablesProxyModel];
    Sig [TYPE_QTCORE_QABSTRACTANIMATION] "setDirection" [PValue QAbstractAnimation_Direction] RVoid [On
        QAbstractAnimation];
    Sig [TYPE_QTCORE_QABSTRACTEVENTDISPATCHER] "setEventDispatcher" [PObject QAbstractEventDispatcher
        false] RVoid [Static QCoreApplication];
    Sig [] "setFileName" [PString true] RVoid [On QFile];
    Sig [TYPE_QTCORE_QFILEDEVICE; VALUE_TYPE_QTCORE_QDATETIME] "setFileTime" [PValue QDateTime; PValue
        QFileDevice_FileTime] RBool [On QFileDevice];
    Sig [ENUM_QT_ORIENTATION] "setHeaderData" [PInt; PValue Qt_Orientation; PVariant; PInt] RBool [On
        QAbstractItemModel; On QAbstractProxyModel];
    Sig [] "setLibraryPaths" [PStringList] RVoid [Static QCoreApplication];
    Sig [] "setLoopCount" [PInt] RVoid [On QAbstractAnimation]
  ].

Definition methods_qtcore_0_s162 : list signature_row :=
  [
    Sig [] "setOrganizationDomain" [PString true] RVoid [Static QCoreApplication];
    Sig [] "setOrganizationName" [PString true] RVoid [Static QCoreApplication];
    Sig [] "setPaused" [PBool] RVoid [On QAbstractAnimation];
    Sig [] "setQuitLockEnabled" [PBool] RVoid [Static QCoreApplication];
    Sig [] "setSearchPaths" [PString true; PStringList] RVoid [Static QDir];
    Sig [] "setSetuidAllowed" [PBool] RVoid [Static QCoreApplication];
    Sig [TYPE_QTCORE_QABSTRACTITEMMODEL] "setSourceModel" [PObject QAbstractItemModel false] RVoid [On
        QAbstractProxyModel];
    Sig [TYPE_QTCORE_QCOMMANDLINEPARSER] "showMessageAndExit" [PValue QCommandLineParser_MessageType;
        PString true; PInt] RVoid [Static QCommandLineParser]
  ].

Definition methods_qtcore_0_s170 : list signature_row :=
  [
    Sig [VALUE_TYPE_QTCORE_QMODELINDEX] "sibling" [PInt; PInt; PValue QModelIndex] (RValue QModelIndex) [On
        QAbstractItemModel; On QAbstractListModel; On QAbstractProxyModel; On QAbstractTableModel];
    Sig [] "size" [] (RMeta cxx_qint64) [On QBuffer; On QFile; On QFileDevice];
    Sig [ENUM_QT_SORTORDER] "sort" [PInt; PValue Qt_SortOrder] RVoid [On QAbstractItemModel; On
        QAbstractProxyModel];
    Sig [TYPE_QTCORE_QABSTRACTITEMMODEL] "sourceModel" [] RObject [On QAbstractProxyModel];
    Sig [TYPE_QTCORE_QABSTRACTITEMMODEL] "sourceModels" [] (RList (IObject QObject)) [On
        QConcatenateTablesProxyModel];
    Sig [VALUE_TYPE_QTCORE_QMODELINDEX; VALUE_TYPE_QTCORE_QSIZE] "span" [PValue QModelIndex] (RValue QSize)
        [On QAbstractItemModel; On QAbstractProxyModel; On QConcatenateTablesProxyModel]
  ].

Definition methods_qtcore_0_s176 : list signature_row :=
  [
    Sig [TYPE_QTCORE_QABSTRACTANIMATION] "start" [PValue QAbstractAnimation_DeletionPolicy] RVoid [On
        QAbstractAnimation];
    Sig [] "startingUp" [] RBool [Static QCoreApplication];
    Sig [] "startingUp" [] RVoid [On QAbstractEventDispatcher];
    Sig [TYPE_QTCORE_QABSTRACTANIMATION] "state" [] (RMeta QAbstractAnimation_State) [On
        QAbstractAnimation];
    Sig [] "stop" [] RVoid [On QAbstractAnimation];
    Sig [] "submit" [] RBool [On QAbstractItemModel; On QAbstractProxyModel];
    Sig [ENUM_QT_DROPACTIONS] "supportedDragActions" [] (RMeta Qt_DropActions) [On QAbstractItemModel; On
        QAbstractProxyModel];
    Sig [ENUM_QT_DROPACTIONS] "supportedDropActions" [] (RMeta Qt_DropActions) [On QAbstractItemModel; On
        QAbstractProxyModel];
    Sig [TYPE_QTCORE_QCRYPTOGRAPHICHASH] "supportsAlgorithm" [PValue QCryptographicHash_Algorithm] RBool
        [Static QCryptographicHash];
    Sig [] "supportsMoveToTrash" [] RBool [Static QFile]
  ].

Definition methods_qtcore_0_s186 : list signature_row :=
  [
    Sig [] "symLinkTarget" [] RString [On QFile];
    Sig [] "symLinkTarget" [PString true] RString [Static QFile];
    Sig [TYPE_QTCORE_QABSTRACTANIMATION] "takeAnimation" [PInt] RObject [On QAnimationGroup];
    Sig [VALUE_TYPE_QTCORE_QDIR] "temp" [] (RValue QDir) [Static QDir];
    Sig [] "tempPath" [] RString [Static QDir];
    Sig [ENUM_QT_APPLICATIONATTRIBUTE] "testAttribute" [PValue Qt_ApplicationAttribute] RBool [Static
        QCoreApplication];
    Sig [] "toNativeSeparators" [PString true] RString [Static QDir];
    Sig [] "totalDuration" [] RDouble [On QAbstractAnimation];
    Sig [] "unsetError" [] RVoid [On QFileDevice];
    Sig [] "wakeUp" [] RVoid [On QEventLoop]
  ].

Definition methods_qtcore_0 : method_shard :=
  MethodShard QtCore "KRY_QT6_NATIVE_METHODS_QTCORE_"
    (methods_qtcore_0_i0 ++ methods_qtcore_0_i1)
    (methods_qtcore_0_s0 ++ methods_qtcore_0_s11 ++ methods_qtcore_0_s19 ++ methods_qtcore_0_s29 ++
        methods_qtcore_0_s40 ++ methods_qtcore_0_s48 ++ methods_qtcore_0_s58 ++ methods_qtcore_0_s66 ++
        methods_qtcore_0_s74 ++ methods_qtcore_0_s81 ++ methods_qtcore_0_s90 ++ methods_qtcore_0_s101 ++
        methods_qtcore_0_s110 ++ methods_qtcore_0_s118 ++ methods_qtcore_0_s128 ++ methods_qtcore_0_s137 ++
        methods_qtcore_0_s146 ++ methods_qtcore_0_s154 ++ methods_qtcore_0_s162 ++ methods_qtcore_0_s170 ++
        methods_qtcore_0_s176 ++ methods_qtcore_0_s186)
    [].

Definition methods_qtcore_1_i0 : list include :=
  [
    ClassInclude QtCore QFileSelector QFileSelector;
    ClassInclude QtCore QFileSystemWatcher QFileSystemWatcher;
    ClassInclude QtCore QIODevice QIODevice;
    ClassInclude QtCore QIdentityProxyModel QIdentityProxyModel;
    ClassInclude QtCore QItemSelectionModel QItemSelectionModel;
    ClassInclude QtCore QJsonDocument QJsonDocument;
    ClassInclude QtCore QJsonValue QJsonValue;
    ClassInclude QtCore QKeyCombination QKeyCombination;
    ClassInclude QtCore QLibrary QLibrary;
    ClassInclude QtCore QLibraryInfo QLibraryInfo;
    ClassInclude QtCore QLineF QLineF;
    ClassInclude QtCore QLocale QLocale;
    ClassInclude QtCore QLoggingCategory QLoggingCategory;
    ClassInclude QtCore QMetaType QMetaType;
    ClassInclude QtCore QMimeData QMimeData;
    ClassInclude QtCore QNativeIpcKey QNativeIpcKey;
    ClassInclude QtCore QObject QObject;
    ClassInclude QtCore QObjectCleanupHandler QObjectCleanupHandler;
    ClassInclude QtCore QOperatingSystemVersion QOperatingSystemVersion;
    ClassInclude QtCore QParallelAnimationGroup QParallelAnimationGroup;
    ClassInclude QtCore QPauseAnimation QPauseAnimation;
    ClassInclude QtCore QPluginLoader QPluginLoader;
    ClassInclude QtCore QPoint QPoint;
    ClassInclude QtCore QPointF QPointF;
    TypeInclude QtCore QAbstractItemModel TYPE_QTCORE_QABSTRACTITEMMODEL;
    TypeInclude QtCore QMimeData TYPE_QTCORE_QMIMEDATA;
    TypeInclude QtCore QObject TYPE_QTCORE_QOBJECT;
    TypeInclude QtCore QThread TYPE_QTCORE_QTHREAD;
    EnumDefine ENUM_QT_DROPACTION;
    EnumDefine ENUM_QT_ORIENTATION;
    EnumDefine ENUM_QT_TIMERTYPE;
    TypeInclude QtCore QLibraryInfo TYPE_QTCORE_QLIBRARYINFO;
    TypeInclude QtCore QLocale TYPE_QTCORE_QLOCALE;
    TypeInclude QtCore QNativeIpcKey TYPE_QTCORE_QNATIVEIPCKEY;
    TypeInclude QtCore QOperatingSystemVersion TYPE_QTCORE_QOPERATINGSYSTEMVERSION;
    TypeInclude QtCore QByteArray VALUE_TYPE_QTCORE_QBYTEARRAY;
    TypeInclude QtCore QItemSelection VALUE_TYPE_QTCORE_QITEMSELECTION;
    TypeInclude QtCore QJsonDocument VALUE_TYPE_QTCORE_QJSONDOCUMENT;
    TypeInclude QtCore QJsonValue VALUE_TYPE_QTCORE_QJSONVALUE;
    TypeInclude QtCore QKeyCombination VALUE_TYPE_QTCORE_QKEYCOMBINATION;
    TypeInclude QtCore QLineF VALUE_TYPE_QTCORE_QLINEF;
    TypeInclude QtCore QLocale VALUE_TYPE_QTCORE_QLOCALE;
    TypeInclude QtCore QMetaType VALUE_TYPE_QTCORE_QMETATYPE;
    TypeInclude QtCore QModelIndex VALUE_TYPE_QTCORE_QMODELINDEX;
    TypeInclude QtCore QNativeIpcKey VALUE_TYPE_QTCORE_QNATIVEIPCKEY;
    TypeInclude QtCore QOperatingSystemVersion VALUE_TYPE_QTCORE_QOPERATINGSYSTEMVERSION;
    TypeInclude QtCore QPoint VALUE_TYPE_QTCORE_QPOINT;
    TypeInclude QtCore QPointF VALUE_TYPE_QTCORE_QPOINTF;
    TypeInclude QtCore QUrl VALUE_TYPE_QTCORE_QURL;
    TypeInclude QtCore QVersionNumber VALUE_TYPE_QTCORE_QVERSIONNUMBER
  ].

Definition methods_qtcore_1_s0 : list signature_row :=
  [
    Sig [TYPE_QTCORE_QOBJECT] "add" [PObject QObject false] RObject [On QObjectCleanupHandler];
    Sig [] "addPath" [PString true] RBool [On QFileSystemWatcher];
    Sig [] "addPaths" [PStringList] (RList (IMeta QString)) [On QFileSystemWatcher];
    Sig [] "allSelectors" [] (RList (IMeta QString)) [On QFileSelector];
    Sig [] "atEnd" [] RBool [On QIODevice];
    Sig [] "blockSignals" [PBool] RBool [On QObject];
    Sig [] "bytesAvailable" [] (RMeta cxx_qint64) [On QIODevice];
    Sig [] "bytesToWrite" [] (RMeta cxx_qint64) [On QIODevice];
    Sig [VALUE_TYPE_QTCORE_QLOCALE] "c" [] (RValue QLocale) [Static QLocale];
    Sig [VALUE_TYPE_QTCORE_QMETATYPE] "canConvert" [PValue QMetaType; PValue QMetaType] RBool [Static
        QMetaType]
  ].

Definition methods_qtcore_1_s10 : list signature_row :=
  [
    Sig [] "canReadLine" [] RBool [On QIODevice];
    Sig [VALUE_TYPE_QTCORE_QMETATYPE] "canView" [PValue QMetaType; PValue QMetaType] RBool [Static
        QMetaType];
    Sig [TYPE_QTCORE_QOBJECT] "children" [] (RList (IObject QObject)) [On QObject];
    Sig [] "clear" [] RVoid [On QItemSelectionModel; On QMimeData; On QObjectCleanupHandler];
    Sig [] "clearCurrentIndex" [] RVoid [On QItemSelectionModel];
    Sig [] "clearSelection" [] RVoid [On QItemSelectionModel];
    Sig [] "close" [] RVoid [On QIODevice];
    Sig [] "colorData" [] RVariant [On QMimeData];
    Sig [VALUE_TYPE_QTCORE_QMODELINDEX] "columnCount" [PValue QModelIndex] RDouble [On QIdentityProxyModel];
    Sig [VALUE_TYPE_QTCORE_QMODELINDEX] "columnIntersectsSelection" [PInt; PValue QModelIndex] RBool [On
        QItemSelectionModel]
  ].

Definition methods_qtcore_1_s20 : list signature_row :=
  [
    Sig [] "commitTransaction" [] RVoid [On QIODevice];
    Sig [TYPE_QTCORE_QLOCALE] "countryToCode" [PValue QLocale_Country] RString [Static QLocale];
    Sig [TYPE_QTCORE_QLOCALE] "countryToString" [PValue QLocale_Country] RString [Static QLocale];
    Sig [VALUE_TYPE_QTCORE_QOPERATINGSYSTEMVERSION] "current" [] (RValue QOperatingSystemVersion) [Static
        QOperatingSystemVersion];
    Sig [VALUE_TYPE_QTCORE_QMODELINDEX] "currentIndex" [] (RValue QModelIndex) [On QItemSelectionModel];
    Sig [] "currentReadChannel" [] RDouble [On QIODevice];
    Sig [TYPE_QTCORE_QOPERATINGSYSTEMVERSION] "currentType" [] (RMeta QOperatingSystemVersion_OSType)
        [Static QOperatingSystemVersion];
    Sig [] "currentWriteChannel" [] RDouble [On QIODevice];
    Sig [VALUE_TYPE_QTCORE_QBYTEARRAY] "data" [PString true] (RValue QByteArray) [On QMimeData];
    Sig [] "deleteLater" [] RVoid [On QObject];
    Sig [] "directories" [] (RList (IMeta QString)) [On QFileSystemWatcher]
  ].

Definition methods_qtcore_1_s31 : list signature_row :=
  [
    Sig [VALUE_TYPE_QTCORE_QPOINT] "dotProduct" [PValue QPoint; PValue QPoint] RDouble [Static QPoint];
    Sig [VALUE_TYPE_QTCORE_QPOINTF] "dotProduct" [PValue QPointF; PValue QPointF] RDouble [Static QPointF];
    Sig [ENUM_QT_DROPACTION; TYPE_QTCORE_QMIMEDATA; VALUE_TYPE_QTCORE_QMODELINDEX] "dropMimeData" [PObject
        QMimeData false; PValue Qt_DropAction; PInt; PInt; PValue QModelIndex] RBool [On
        QIdentityProxyModel];
    Sig [] "dumpObjectInfo" [] RVoid [On QObject];
    Sig [] "dumpObjectTree" [] RVoid [On QObject];
    Sig [] "duration" [] RDouble [On QParallelAnimationGroup; On QPauseAnimation];
    Sig [VALUE_TYPE_QTCORE_QBYTEARRAY] "dynamicPropertyNames" [] (RList (IValue QByteArray)) [On QObject];
    Sig [] "errorString" [] RString [On QIODevice; On QLibrary; On QPluginLoader];
    Sig [] "extraSelectors" [] (RList (IMeta QString)) [On QFileSelector]
  ].

Definition methods_qtcore_1_s40 : list signature_row :=
  [
    Sig [] "fileName" [] RString [On QLibrary; On QPluginLoader];
    Sig [] "files" [] (RList (IMeta QString)) [On QFileSystemWatcher];
    Sig [] "formats" [] (RList (IMeta QString)) [On QMimeData];
    Sig [VALUE_TYPE_QTCORE_QKEYCOMBINATION] "fromCombined" [PInt] (RValue QKeyCombination) [Static
        QKeyCombination];
    Sig [VALUE_TYPE_QTCORE_QLINEF] "fromPolar" [PNumber cxx_qreal; PNumber cxx_qreal] (RValue QLineF)
        [Static QLineF];
    Sig [VALUE_TYPE_QTCORE_QNATIVEIPCKEY] "fromString" [PString true] (RValue QNativeIpcKey) [Static
        QNativeIpcKey];
    Sig [VALUE_TYPE_QTCORE_QJSONDOCUMENT] "fromVariant" [PVariant] (RValue QJsonDocument) [Static
        QJsonDocument];
    Sig [VALUE_TYPE_QTCORE_QJSONVALUE] "fromVariant" [PVariant] (RValue QJsonValue) [Static QJsonValue];
    Sig [] "handleSourceDataChanges" [] RBool [On QIdentityProxyModel];
    Sig [] "handleSourceLayoutChanges" [] RBool [On QIdentityProxyModel]
  ].

Definition methods_qtcore_1_s50 : list signature_row :=
  [
    Sig [] "hasColor" [] RBool [On QMimeData];
    Sig [] "hasFormat" [PString true] RBool [On QMimeData];
    Sig [] "hasHtml" [] RBool [On QMimeData];
    Sig [] "hasImage" [] RBool [On QMimeData];
    Sig [] "hasSelection" [] RBool [On QItemSelectionModel];
    Sig [] "hasText" [] RBool [On QMimeData];
    Sig [] "hasUrls" [] RBool [On QMimeData];
    Sig [ENUM_QT_ORIENTATION] "headerData" [PInt; PValue Qt_Orientation; PInt] RVariant [On
        QIdentityProxyModel];
    Sig [] "html" [] RString [On QMimeData];
    Sig [] "imageData" [] RVariant [On QMimeData];
    Sig [VALUE_TYPE_QTCORE_QMODELINDEX] "index" [PInt; PInt; PValue QModelIndex] (RValue QModelIndex) [On
        QIdentityProxyModel]
  ].

Definition methods_qtcore_1_s61 : list signature_row :=
  [
    Sig [VALUE_TYPE_QTCORE_QMODELINDEX] "insertColumns" [PInt; PInt; PValue QModelIndex] RBool [On
        QIdentityProxyModel];
    Sig [VALUE_TYPE_QTCORE_QMODELINDEX] "insertRows" [PInt; PInt; PValue QModelIndex] RBool [On
        QIdentityProxyModel];
    Sig [TYPE_QTCORE_QOBJECT] "installEventFilter" [PObject QObject false] RVoid [On QObject];
    Sig [TYPE_QTCORE_QOBJECT] "instance" [] RObject [On QPluginLoader];
    Sig [VALUE_TYPE_QTCORE_QMODELINDEX] "isColumnSelected" [PInt; PValue QModelIndex] RBool [On
        QItemSelectionModel];
    Sig [] "isDebugBuild" [] RBool [Static QLibraryInfo];
    Sig [] "isEmpty" [] RBool [On QObjectCleanupHandler];
    Sig [] "isLibrary" [PString true] RBool [Static QLibrary];
    Sig [] "isLoaded" [] RBool [On QLibrary; On QPluginLoader];
    Sig [] "isOpen" [] RBool [On QIODevice]
  ].

Definition methods_qtcore_1_s71 : list signature_row :=
  [
    Sig [] "isQmlExposed" [] RBool [On QObject];
    Sig [] "isQuickItemType" [] RBool [On QObject];
    Sig [] "isReadable" [] RBool [On QIODevice];
    Sig [] "isRegistered" [PInt] RBool [Static QMetaType];
    Sig [VALUE_TYPE_QTCORE_QMODELINDEX] "isRowSelected" [PInt; PValue QModelIndex] RBool [On
        QItemSelectionModel];
    Sig [VALUE_TYPE_QTCORE_QMODELINDEX] "isSelected" [PValue QModelIndex] RBool [On QItemSelectionModel];
    Sig [] "isSequential" [] RBool [On QIODevice];
    Sig [] "isSharedBuild" [] RBool [Static QLibraryInfo];
    Sig [] "isTextModeEnabled" [] RBool [On QIODevice];
    Sig [] "isTransactionStarted" [] RBool [On QIODevice];
    Sig [] "isWidgetType" [] RBool [On QObject];
    Sig [] "isWindowType" [] RBool [On QObject]
  ].

Definition methods_qtcore_1_s83 : list signature_row :=
  [
    Sig [] "isWritable" [] RBool [On QIODevice];
    Sig [] "killTimer" [PInt] RVoid [On QObject];
    Sig [TYPE_QTCORE_QLOCALE] "languageToString" [PValue QLocale_Language] RString [Static QLocale];
    Sig [TYPE_QTCORE_QNATIVEIPCKEY] "legacyDefaultTypeForOs" [] (RMeta QNativeIpcKey_Type) [Static
        QNativeIpcKey];
    Sig [] "load" [] RBool [On QLibrary; On QPluginLoader];
    Sig [VALUE_TYPE_QTCORE_QMODELINDEX] "mapFromSource" [PValue QModelIndex] (RValue QModelIndex) [On
        QIdentityProxyModel];
    Sig [VALUE_TYPE_QTCORE_QITEMSELECTION] "mapSelectionFromSource" [PValue QItemSelection] (RValue
        QItemSelection) [On QIdentityProxyModel];
    Sig [VALUE_TYPE_QTCORE_QITEMSELECTION] "mapSelectionToSource" [PValue QItemSelection] (RValue
        QItemSelection) [On QIdentityProxyModel];
    Sig [VALUE_TYPE_QTCORE_QMODELINDEX] "mapToSource" [PValue QModelIndex] (RValue QModelIndex) [On
        QIdentityProxyModel]
  ].

Definition methods_qtcore_1_s92 : list signature_row :=
  [
    Sig [TYPE_QTCORE_QLOCALE; VALUE_TYPE_QTCORE_QLOCALE] "matchingLocales" [PValue QLocale_Language; PValue
        QLocale_Script; PValue QLocale_Territory] (RList (IValue QLocale)) [Static QLocale];
    Sig [TYPE_QTCORE_QABSTRACTITEMMODEL] "model" [] RObject [On QItemSelectionModel];
    Sig [VALUE_TYPE_QTCORE_QMODELINDEX] "moveColumns" [PValue QModelIndex; PInt; PInt; PValue QModelIndex;
        PInt] RBool [On QIdentityProxyModel];
    Sig [VALUE_TYPE_QTCORE_QMODELINDEX] "moveRows" [PValue QModelIndex; PInt; PInt; PValue QModelIndex;
        PInt] RBool [On QIdentityProxyModel];
    Sig [TYPE_QTCORE_QTHREAD] "moveToThread" [PObject QThread false] RVoid [On QObject];
    Sig [] "objectName" [] RString [On QObject];
    Sig [TYPE_QTCORE_QOBJECT] "parent" [] RObject [On QObject];
    Sig [VALUE_TYPE_QTCORE_QMODELINDEX] "parent" [PValue QModelIndex] (RValue QModelIndex) [On
        QIdentityProxyModel]
  ].

Definition methods_qtcore_1_s100 : list signature_row :=
  [
    Sig [TYPE_QTCORE_QLIBRARYINFO] "path" [PValue QLibraryInfo_LibraryPath] RString [Static QLibraryInfo];
    Sig [TYPE_QTCORE_QLIBRARYINFO] "paths" [PValue QLibraryInfo_LibraryPath] (RList (IMeta QString))
        [Static QLibraryInfo];
    Sig [] "pos" [] (RMeta cxx_qint64) [On QIODevice];
    Sig [VALUE_TYPE_QTCORE_QBYTEARRAY] "readAll" [] (RValue QByteArray) [On QIODevice];
    Sig [] "readChannelCount" [] RDouble [On QIODevice];
    Sig [TYPE_QTCORE_QOBJECT] "remove" [PObject QObject false] RVoid [On QObjectCleanupHandler];
    Sig [VALUE_TYPE_QTCORE_QMODELINDEX] "removeColumns" [PInt; PInt; PValue QModelIndex] RBool [On
        QIdentityProxyModel];
    Sig [TYPE_QTCORE_QOBJECT] "removeEventFilter" [PObject QObject false] RVoid [On QObject];
    Sig [] "removeFormat" [PString true] RVoid [On QMimeData];
    Sig [] "removePath" [PString true] RBool [On QFileSystemWatcher]
  ].

Definition methods_qtcore_1_s110 : list signature_row :=
  [
    Sig [] "removePaths" [PStringList] (RList (IMeta QString)) [On QFileSystemWatcher];
    Sig [VALUE_TYPE_QTCORE_QMODELINDEX] "removeRows" [PInt; PInt; PValue QModelIndex] RBool [On
        QIdentityProxyModel];
    Sig [] "reset" [] RBool [On QIODevice];
    Sig [] "reset" [] RVoid [On QItemSelectionModel];
    Sig [] "rollbackTransaction" [] RVoid [On QIODevice];
    Sig [VALUE_TYPE_QTCORE_QMODELINDEX] "rowCount" [PValue QModelIndex] RDouble [On QIdentityProxyModel];
    Sig [VALUE_TYPE_QTCORE_QMODELINDEX] "rowIntersectsSelection" [PInt; PValue QModelIndex] RBool [On
        QItemSelectionModel];
    Sig [TYPE_QTCORE_QLOCALE] "scriptToCode" [PValue QLocale_Script] RString [Static QLocale];
    Sig [TYPE_QTCORE_QLOCALE] "scriptToString" [PValue QLocale_Script] RString [Static QLocale];
    Sig [] "seek" [PMeta cxx_qint64] RBool [On QIODevice]
  ].

Definition methods_qtcore_1_s120 : list signature_row :=
  [
    Sig [] "select" [PString true] RString [On QFileSelector];
    Sig [VALUE_TYPE_QTCORE_QURL] "select" [PValue QUrl] (RValue QUrl) [On QFileSelector];
    Sig [VALUE_TYPE_QTCORE_QITEMSELECTION] "selection" [] (RValue QItemSelection) [On QItemSelectionModel];
    Sig [] "setColorData" [PVariant] RVoid [On QMimeData];
    Sig [] "setCurrentReadChannel" [PInt] RVoid [On QIODevice];
    Sig [] "setCurrentWriteChannel" [PInt] RVoid [On QIODevice];
    Sig [VALUE_TYPE_QTCORE_QBYTEARRAY] "setData" [PString true; PValue QByteArray] RVoid [On QMimeData];
    Sig [VALUE_TYPE_QTCORE_QLOCALE] "setDefault" [PValue QLocale] RVoid [Static QLocale];
    Sig [] "setDuration" [PInt] RVoid [On QPauseAnimation];
    Sig [] "setExtraSelectors" [PStringList] RVoid [On QFileSelector]
  ].

Definition methods_qtcore_1_s130 : list signature_row :=
  [
    Sig [] "setFileName" [PString true] RVoid [On QLibrary; On QPluginLoader];
    Sig [] "setFileNameAndVersion" [PString true; PString true] RVoid [On QLibrary];
    Sig [] "setFileNameAndVersion" [PString true; PInt] RVoid [On QLibrary];
    Sig [] "setFilterRules" [PString true] RVoid [Static QLoggingCategory];
    Sig [] "setHtml" [PString true] RVoid [On QMimeData];
    Sig [] "setImageData" [PVariant] RVoid [On QMimeData];
    Sig [TYPE_QTCORE_QABSTRACTITEMMODEL] "setModel" [PObject QAbstractItemModel false] RVoid [On
        QItemSelectionModel];
    Sig [TYPE_QTCORE_QOBJECT] "setParent" [PObject QObject false] RVoid [On QObject];
    Sig [TYPE_QTCORE_QABSTRACTITEMMODEL] "setSourceModel" [PObject QAbstractItemModel false] RVoid [On
        QIdentityProxyModel]
  ].

Definition methods_qtcore_1_s139 : list signature_row :=
  [
    Sig [] "setText" [PString true] RVoid [On QMimeData];
    Sig [] "setTextModeEnabled" [PBool] RVoid [On QIODevice];
    Sig [VALUE_TYPE_QTCORE_QURL] "setUrls" [PList (IValue QUrl)] RVoid [On QMimeData];
    Sig [VALUE_TYPE_QTCORE_QMODELINDEX] "sibling" [PInt; PInt; PValue QModelIndex] (RValue QModelIndex) [On
        QIdentityProxyModel];
    Sig [] "signalsBlocked" [] RBool [On QObject];
    Sig [] "size" [] (RMeta cxx_qint64) [On QIODevice];
    Sig [] "skip" [PMeta cxx_qint64] (RMeta cxx_qint64) [On QIODevice];
    Sig [ENUM_QT_TIMERTYPE] "startTimer" [PInt; PValue Qt_TimerType] RDouble [On QObject];
    Sig [] "startTransaction" [] RVoid [On QIODevice];
    Sig [TYPE_QTCORE_QOBJECT] "staticInstances" [] (RList (IObject QObject)) [Static QPluginLoader]
  ].

Definition methods_qtcore_1_s149 : list signature_row :=
  [
    Sig [VALUE_TYPE_QTCORE_QLOCALE] "system" [] (RValue QLocale) [Static QLocale];
    Sig [TYPE_QTCORE_QLOCALE] "territoryToCode" [PValue QLocale_Territory] RString [Static QLocale];
    Sig [TYPE_QTCORE_QLOCALE] "territoryToString" [PValue QLocale_Territory] RString [Static QLocale];
    Sig [] "text" [] RString [On QMimeData];
    Sig [TYPE_QTCORE_QTHREAD] "thread" [] RObject [On QObject];
    Sig [] "unload" [] RBool [On QLibrary; On QPluginLoader];
    Sig [VALUE_TYPE_QTCORE_QURL] "urls" [] (RList (IValue QUrl)) [On QMimeData];
    Sig [VALUE_TYPE_QTCORE_QVERSIONNUMBER] "version" [] (RValue QVersionNumber) [Static QLibraryInfo];
    Sig [] "waitForBytesWritten" [PInt] RBool [On QIODevice];
    Sig [] "waitForReadyRead" [PInt] RBool [On QIODevice]
  ].

Definition methods_qtcore_1_s159 : list signature_row :=
  [
    Sig [] "writeChannelCount" [] RDouble [On QIODevice]
  ].

Definition methods_qtcore_1 : method_shard :=
  MethodShard QtCore "KRY_QT6_NATIVE_METHODS_QTCORE_"
    (methods_qtcore_1_i0)
    (methods_qtcore_1_s0 ++ methods_qtcore_1_s10 ++ methods_qtcore_1_s20 ++ methods_qtcore_1_s31 ++
        methods_qtcore_1_s40 ++ methods_qtcore_1_s50 ++ methods_qtcore_1_s61 ++ methods_qtcore_1_s71 ++
        methods_qtcore_1_s83 ++ methods_qtcore_1_s92 ++ methods_qtcore_1_s100 ++ methods_qtcore_1_s110 ++
        methods_qtcore_1_s120 ++ methods_qtcore_1_s130 ++ methods_qtcore_1_s139 ++ methods_qtcore_1_s149 ++
        methods_qtcore_1_s159)
    [].

Definition methods_qtcore_2_i0 : list include :=
  [
    ClassInclude QtCore QProcess QProcess;
    ClassInclude QtCore QProcessEnvironment QProcessEnvironment;
    ClassInclude QtCore QPropertyAnimation QPropertyAnimation;
    ClassInclude QtCore QRandomGenerator QRandomGenerator;
    ClassInclude QtCore QRangeModel QRangeModel;
    ClassInclude QtCore QRect QRect;
    ClassInclude QtCore QRegularExpression QRegularExpression;
    ClassInclude QtCore QResource QResource;
    ClassInclude QtCore QSaveFile QSaveFile;
    ClassInclude QtCore QSequentialAnimationGroup QSequentialAnimationGroup;
    ClassInclude QtCore QSettings QSettings;
    ClassInclude QtCore QSharedMemory QSharedMemory;
    ClassInclude QtCore QSignalMapper QSignalMapper;
    ClassInclude QtCore QSocketNotifier QSocketNotifier;
    ClassInclude QtCore QSortFilterProxyModel QSortFilterProxyModel;
    ClassInclude QtCore QStandardPaths QStandardPaths;
    ClassInclude QtCore QStorageInfo QStorageInfo;
    ClassInclude QtCore QStringConverter QStringConverter;
    ClassInclude QtCore QStringListModel QStringListModel;
    ClassInclude QtCore QSysInfo QSysInfo;
    ClassInclude QtCore QSystemSemaphore QSystemSemaphore;
    ClassInclude QtCore QTemporaryFile QTemporaryFile;
    ClassInclude QtCore QThread QThread;
    ClassInclude QtCore QThreadPool QThreadPool;
    TypeInclude QtCore QAbstractAnimation TYPE_QTCORE_QABSTRACTANIMATION;
    TypeInclude QtCore QAbstractEventDispatcher TYPE_QTCORE_QABSTRACTEVENTDISPATCHER;
    TypeInclude QtCore QAbstractItemModel TYPE_QTCORE_QABSTRACTITEMMODEL;
    TypeInclude QtCore QMimeData TYPE_QTCORE_QMIMEDATA;
    TypeInclude QtCore QObject TYPE_QTCORE_QOBJECT;
    TypeInclude QtCore QPauseAnimation TYPE_QTCORE_QPAUSEANIMATION;
    TypeInclude QtCore QProcess TYPE_QTCORE_QPROCESS;
    TypeInclude QtCore QTemporaryFile TYPE_QTCORE_QTEMPORARYFILE;
    TypeInclude QtCore QThread TYPE_QTCORE_QTHREAD;
    TypeInclude QtCore QThreadPool TYPE_QTCORE_QTHREADPOOL;
    EnumDefine ENUM_QT_CASESENSITIVITY;
    EnumDefine ENUM_QT_DROPACTION;
    EnumDefine ENUM_QT_DROPACTIONS;
    EnumDefine ENUM_QT_ORIENTATION;
    EnumDefine ENUM_QT_SORTORDER;
    TypeInclude QtCore QNativeIpcKey TYPE_QTCORE_QNATIVEIPCKEY;
    TypeInclude QtCore QProcess TYPE_QTCORE_QPROCESS;
    TypeInclude QtCore QRangeModel TYPE_QTCORE_QRANGEMODEL;
    TypeInclude QtCore QSettings TYPE_QTCORE_QSETTINGS;
    TypeInclude QtCore QSharedMemory TYPE_QTCORE_QSHAREDMEMORY;
    TypeInclude QtCore QSocketNotifier TYPE_QTCORE_QSOCKETNOTIFIER;
    TypeInclude QtCore QStandardPaths TYPE_QTCORE_QSTANDARDPATHS;
    TypeInclude QtCore QThread TYPE_QTCORE_QTHREAD;
    TypeInclude QtCore QByteArray VALUE_TYPE_QTCORE_QBYTEARRAY;
    TypeInclude QtCore QDeadlineTimer VALUE_TYPE_QTCORE_QDEADLINETIMER;
    TypeInclude QtCore QItemSelection VALUE_TYPE_QTCORE_QITEMSELECTION;
    TypeInclude QtCore QModelIndex VALUE_TYPE_QTCORE_QMODELINDEX;
    TypeInclude QtCore QModelRoleDataSpan VALUE_TYPE_QTCORE_QMODELROLEDATASPAN;
    TypeInclude QtCore QNativeIpcKey VALUE_TYPE_QTCORE_QNATIVEIPCKEY;
    TypeInclude QtCore QPoint VALUE_TYPE_QTCORE_QPOINT;
    TypeInclude QtCore QProcessEnvironment VALUE_TYPE_QTCORE_QPROCESSENVIRONMENT
  ].

Definition methods_qtcore_2_i1 : list include :=
  [
    TypeInclude QtCore QRandomGenerator VALUE_TYPE_QTCORE_QRANDOMGENERATOR;
    TypeInclude QtCore QRect VALUE_TYPE_QTCORE_QRECT;
    TypeInclude QtCore QRegularExpression VALUE_TYPE_QTCORE_QREGULAREXPRESSION;
    TypeInclude QtCore QSize VALUE_TYPE_QTCORE_QSIZE;
    TypeInclude QtCore QStorageInfo VALUE_TYPE_QTCORE_QSTORAGEINFO
  ].

Definition methods_qtcore_2_s0 : list signature_row :=
  [
    Sig [] "activeThreadCount" [] RDouble [On QThreadPool];
    Sig [TYPE_QTCORE_QPAUSEANIMATION] "addPause" [PInt] RObject [On QSequentialAnimationGroup];
    Sig [] "allKeys" [] (RList (IMeta QString)) [On QSettings];
    Sig [] "anchoredPattern" [PString true] RString [Static QRegularExpression];
    Sig [] "applicationName" [] RString [On QSettings];
    Sig [] "arguments" [] (RList (IMeta QString)) [On QProcess];
    Sig [TYPE_QTCORE_QSHAREDMEMORY] "attach" [PValue QSharedMemory_AccessMode] RBool [On QSharedMemory];
    Sig [] "autoAcceptChildRows" [] RBool [On QSortFilterProxyModel];
    Sig [TYPE_QTCORE_QRANGEMODEL] "autoConnectPolicy" [] (RMeta QRangeModel_AutoConnectPolicy) [On
        QRangeModel];
    Sig [] "autoRemove" [] RBool [On QTemporaryFile];
    Sig [] "availableCodecs" [] (RList (IMeta QString)) [Static QStringConverter]
  ].

Definition methods_qtcore_2_s11 : list signature_row :=
  [
    Sig [VALUE_TYPE_QTCORE_QBYTEARRAY] "bootUniqueId" [] (RValue QByteArray) [Static QSysInfo];
    Sig [VALUE_TYPE_QTCORE_QMODELINDEX] "buddy" [PValue QModelIndex] (RValue QModelIndex) [On QRangeModel;
        On QSortFilterProxyModel];
    Sig [] "buildAbi" [] RString [Static QSysInfo];
    Sig [] "buildCpuArchitecture" [] RString [Static QSysInfo];
    Sig [] "bytesToWrite" [] (RMeta cxx_qint64) [On QProcess];
    Sig [ENUM_QT_DROPACTION; TYPE_QTCORE_QMIMEDATA; VALUE_TYPE_QTCORE_QMODELINDEX] "canDropMimeData"
        [PObject QMimeData false; PValue Qt_DropAction; PInt; PInt; PValue QModelIndex] RBool [On
        QRangeModel];
    Sig [VALUE_TYPE_QTCORE_QMODELINDEX] "canFetchMore" [PValue QModelIndex] RBool [On QRangeModel; On
        QSortFilterProxyModel];
    Sig [] "cancelWriting" [] RVoid [On QSaveFile];
    Sig [] "childGroups" [] (RList (IMeta QString)) [On QSettings]
  ].

Definition methods_qtcore_2_s20 : list signature_row :=
  [
    Sig [] "childKeys" [] (RList (IMeta QString)) [On QSettings];
    Sig [] "clear" [] RVoid [On QSettings; On QThreadPool];
    Sig [VALUE_TYPE_QTCORE_QMODELINDEX] "clearItemData" [PValue QModelIndex] RBool [On QRangeModel; On
        QStringListModel];
    Sig [] "close" [] RVoid [On QProcess];
    Sig [TYPE_QTCORE_QPROCESS] "closeReadChannel" [PValue QProcess_ProcessChannel] RVoid [On QProcess];
    Sig [] "closeWriteChannel" [] RVoid [On QProcess];
    Sig [VALUE_TYPE_QTCORE_QMODELINDEX] "columnCount" [PValue QModelIndex] RDouble [On
        QSortFilterProxyModel];
    Sig [] "commit" [] RBool [On QSaveFile];
    Sig [TYPE_QTCORE_QTHREAD] "contains" [PObject QThread false] RBool [On QThreadPool];
    Sig [TYPE_QTCORE_QSHAREDMEMORY] "create" [PMeta cxx_qsizetype; PValue QSharedMemory_AccessMode] RBool
        [On QSharedMemory]
  ].

Definition methods_qtcore_2_s30 : list signature_row :=
  [
    Sig [TYPE_QTCORE_QTEMPORARYFILE] "createNativeFile" [PString true] RObject [Static QTemporaryFile];
    Sig [TYPE_QTCORE_QABSTRACTANIMATION] "currentAnimation" [] RObject [On QSequentialAnimationGroup];
    Sig [] "currentCpuArchitecture" [] RString [Static QSysInfo];
    Sig [TYPE_QTCORE_QTHREAD] "currentThread" [] RObject [Static QThread];
    Sig [VALUE_TYPE_QTCORE_QMODELINDEX] "data" [PValue QModelIndex; PInt] RVariant [On QRangeModel; On
        QSortFilterProxyModel; On QStringListModel];
    Sig [TYPE_QTCORE_QSETTINGS] "defaultFormat" [] (RMeta QSettings_Format) [Static QSettings];
    Sig [] "detach" [] RBool [On QSharedMemory];
    Sig [] "directWriteFallback" [] RBool [On QSaveFile];
    Sig [TYPE_QTCORE_QSTANDARDPATHS] "displayName" [PValue QStandardPaths_StandardLocation] RString [Static
        QStandardPaths]
  ].

Definition methods_qtcore_2_s39 : list signature_row :=
  [
    Sig [ENUM_QT_DROPACTION; TYPE_QTCORE_QMIMEDATA; VALUE_TYPE_QTCORE_QMODELINDEX] "dropMimeData" [PObject
        QMimeData false; PValue Qt_DropAction; PInt; PInt; PValue QModelIndex] RBool [On QRangeModel; On
        QSortFilterProxyModel];
    Sig [] "duration" [] RDouble [On QSequentialAnimationGroup];
    Sig [] "dynamicSortFilter" [] RBool [On QSortFilterProxyModel];
    Sig [] "endArray" [] RVoid [On QSettings];
    Sig [] "endGroup" [] RVoid [On QSettings];
    Sig [TYPE_QTCORE_QPROCESS] "error" [] (RMeta QProcess_ProcessError) [On QProcess];
    Sig [TYPE_QTCORE_QSHAREDMEMORY] "error" [] (RMeta QSharedMemory_SharedMemoryError) [On QSharedMemory];
    Sig [] "errorString" [] RString [On QSharedMemory];
    Sig [] "escape" [PString true] RString [Static QRegularExpression];
    Sig [TYPE_QTCORE_QABSTRACTEVENTDISPATCHER] "eventDispatcher" [] RObject [On QThread]
  ].

Definition methods_qtcore_2_s49 : list signature_row :=
  [
    Sig [] "execute" [PString true; PStringList] RDouble [Static QProcess];
    Sig [] "exit" [PInt] RVoid [On QThread];
    Sig [] "exitCode" [] RDouble [On QProcess];
    Sig [TYPE_QTCORE_QPROCESS] "exitStatus" [] (RMeta QProcess_ExitStatus) [On QProcess];
    Sig [] "expiryTimeout" [] RDouble [On QThreadPool];
    Sig [] "fallbacksEnabled" [] RBool [On QSettings];
    Sig [VALUE_TYPE_QTCORE_QMODELINDEX] "fetchMore" [PValue QModelIndex] RVoid [On QRangeModel; On
        QSortFilterProxyModel];
    Sig [] "fileName" [] RString [On QSaveFile; On QSettings; On QTemporaryFile];
    Sig [] "fileTemplate" [] RString [On QTemporaryFile];
    Sig [ENUM_QT_CASESENSITIVITY] "filterCaseSensitivity" [] (RMeta Qt_CaseSensitivity) [On
        QSortFilterProxyModel]
  ].

Definition methods_qtcore_2_s59 : list signature_row :=
  [
    Sig [] "filterKeyColumn" [] RDouble [On QSortFilterProxyModel];
    Sig [VALUE_TYPE_QTCORE_QREGULAREXPRESSION] "filterRegularExpression" [] (RValue QRegularExpression) [On
        QSortFilterProxyModel];
    Sig [] "filterRole" [] RDouble [On QSortFilterProxyModel];
    Sig [] "findExecutable" [PString true; PStringList] RString [Static QStandardPaths];
    Sig [TYPE_QTCORE_QSETTINGS] "format" [] (RMeta QSettings_Format) [On QSettings];
    Sig [TYPE_QTCORE_QTHREADPOOL] "globalInstance" [] RObject [Static QThreadPool];
    Sig [] "group" [] RString [On QSettings];
    Sig [VALUE_TYPE_QTCORE_QMODELINDEX] "hasChildren" [PValue QModelIndex] RBool [On QSortFilterProxyModel];
    Sig [ENUM_QT_ORIENTATION] "headerData" [PInt; PValue Qt_Orientation; PInt] RVariant [On QRangeModel; On
        QSortFilterProxyModel];
    Sig [] "idealThreadCount" [] RDouble [Static QThread]
  ].

Definition methods_qtcore_2_s69 : list signature_row :=
  [
    Sig [VALUE_TYPE_QTCORE_QMODELINDEX] "index" [PInt; PInt; PValue QModelIndex] (RValue QModelIndex) [On
        QSortFilterProxyModel];
    Sig [TYPE_QTCORE_QPROCESS] "inputChannelMode" [] (RMeta QProcess_InputChannelMode) [On QProcess];
    Sig [VALUE_TYPE_QTCORE_QMODELINDEX] "insertColumns" [PInt; PInt; PValue QModelIndex] RBool [On
        QSortFilterProxyModel];
    Sig [TYPE_QTCORE_QPAUSEANIMATION] "insertPause" [PInt; PInt] RObject [On QSequentialAnimationGroup];
    Sig [VALUE_TYPE_QTCORE_QMODELINDEX] "insertRows" [PInt; PInt; PValue QModelIndex] RBool [On
        QSortFilterProxyModel; On QStringListModel];
    Sig [] "invalidate" [] RVoid [On QSortFilterProxyModel];
    Sig [] "isAtomicSyncRequired" [] RBool [On QSettings];
    Sig [] "isAttached" [] RBool [On QSharedMemory];
    Sig [] "isCurrentThread" [] RBool [On QThread]
  ].

Definition methods_qtcore_2_s78 : list signature_row :=
  [
    Sig [] "isEnabled" [] RBool [On QSocketNotifier];
    Sig [] "isFinished" [] RBool [On QThread];
    Sig [] "isInterruptionRequested" [] RBool [On QThread];
    Sig [TYPE_QTCORE_QNATIVEIPCKEY] "isKeyTypeSupported" [PValue QNativeIpcKey_Type] RBool [Static
        QSharedMemory; Static QSystemSemaphore];
    Sig [] "isMainThread" [] RBool [Static QThread];
    Sig [] "isRecursiveFilteringEnabled" [] RBool [On QSortFilterProxyModel];
    Sig [] "isRunning" [] RBool [On QThread];
    Sig [] "isSequential" [] RBool [On QProcess];
    Sig [] "isSortLocaleAware" [] RBool [On QSortFilterProxyModel];
    Sig [] "isValid" [] RBool [On QSocketNotifier];
    Sig [] "isWritable" [] RBool [On QSettings];
    Sig [] "kernelType" [] RString [Static QSysInfo]
  ].

Definition methods_qtcore_2_s90 : list signature_row :=
  [
    Sig [] "kernelVersion" [] RString [Static QSysInfo];
    Sig [] "key" [] RString [On QSharedMemory];
    Sig [] "kill" [] RVoid [On QProcess];
    Sig [TYPE_QTCORE_QNATIVEIPCKEY; VALUE_TYPE_QTCORE_QNATIVEIPCKEY] "legacyNativeKey" [PString true;
        PValue QNativeIpcKey_Type] (RValue QNativeIpcKey) [Static QSharedMemory; Static QSystemSemaphore];
    Sig [] "lock" [] RBool [On QSharedMemory];
    Sig [] "loopLevel" [] RDouble [On QThread];
    Sig [] "machineHostName" [] RString [Static QSysInfo];
    Sig [VALUE_TYPE_QTCORE_QBYTEARRAY] "machineUniqueId" [] (RValue QByteArray) [Static QSysInfo];
    Sig [] "map" [] RVoid [On QSignalMapper];
    Sig [TYPE_QTCORE_QOBJECT] "map" [PObject QObject false] RVoid [On QSignalMapper]
  ].

Definition methods_qtcore_2_s100 : list signature_row :=
  [
    Sig [VALUE_TYPE_QTCORE_QMODELINDEX] "mapFromSource" [PValue QModelIndex] (RValue QModelIndex) [On
        QSortFilterProxyModel];
    Sig [VALUE_TYPE_QTCORE_QITEMSELECTION] "mapSelectionFromSource" [PValue QItemSelection] (RValue
        QItemSelection) [On QSortFilterProxyModel];
    Sig [VALUE_TYPE_QTCORE_QITEMSELECTION] "mapSelectionToSource" [PValue QItemSelection] (RValue
        QItemSelection) [On QSortFilterProxyModel];
    Sig [VALUE_TYPE_QTCORE_QMODELINDEX] "mapToSource" [PValue QModelIndex] (RValue QModelIndex) [On
        QSortFilterProxyModel];
    Sig [TYPE_QTCORE_QOBJECT] "mapping" [PObject QObject false] RObject [On QSignalMapper];
    Sig [TYPE_QTCORE_QOBJECT] "mapping" [PString true] RObject [On QSignalMapper];
    Sig [TYPE_QTCORE_QOBJECT] "mapping" [PInt] RObject [On QSignalMapper];
    Sig [] "maxThreadCount" [] RDouble [On QThreadPool];
    Sig [] "mimeTypes" [] (RList (IMeta QString)) [On QRangeModel; On QSortFilterProxyModel]
  ].

Definition methods_qtcore_2_s109 : list signature_row :=
  [
    Sig [VALUE_TYPE_QTCORE_QSTORAGEINFO] "mountedVolumes" [] (RList (IValue QStorageInfo)) [Static
        QStorageInfo];
    Sig [VALUE_TYPE_QTCORE_QMODELINDEX] "moveRows" [PValue QModelIndex; PInt; PInt; PValue QModelIndex;
        PInt] RBool [On QStringListModel];
    Sig [VALUE_TYPE_QTCORE_QMODELINDEX; VALUE_TYPE_QTCORE_QMODELROLEDATASPAN] "multiData" [PValue
        QModelIndex; PValue QModelRoleDataSpan] RVoid [On QRangeModel];
    Sig [] "nativeArguments" [] RString [On QProcess];
    Sig [VALUE_TYPE_QTCORE_QNATIVEIPCKEY] "nativeIpcKey" [] (RValue QNativeIpcKey) [On QSharedMemory];
    Sig [] "nativeKey" [] RString [On QSharedMemory];
    Sig [] "nullDevice" [] RString [Static QProcess];
    Sig [] "open" [] RBool [On QTemporaryFile];
    Sig [] "organizationName" [] RString [On QSettings];
    Sig [TYPE_QTCORE_QOBJECT] "parent" [] RObject [On QSortFilterProxyModel]
  ].

Definition methods_qtcore_2_s119 : list signature_row :=
  [
    Sig [VALUE_TYPE_QTCORE_QMODELINDEX] "parent" [PValue QModelIndex] (RValue QModelIndex) [On
        QSortFilterProxyModel];
    Sig [TYPE_QTCORE_QNATIVEIPCKEY; VALUE_TYPE_QTCORE_QNATIVEIPCKEY] "platformSafeKey" [PString true;
        PValue QNativeIpcKey_Type] (RValue QNativeIpcKey) [Static QSharedMemory; Static QSystemSemaphore];
    Sig [] "prettyProductName" [] RString [Static QSysInfo];
    Sig [TYPE_QTCORE_QTHREAD] "priority" [] (RMeta QThread_Priority) [On QThread];
    Sig [TYPE_QTCORE_QPROCESS] "processChannelMode" [] (RMeta QProcess_ProcessChannelMode) [On QProcess];
    Sig [VALUE_TYPE_QTCORE_QPROCESSENVIRONMENT] "processEnvironment" [] (RValue QProcessEnvironment) [On
        QProcess];
    Sig [] "processId" [] (RMeta cxx_qint64) [On QProcess];
    Sig [] "productType" [] RString [Static QSysInfo];
    Sig [] "productVersion" [] RString [Static QSysInfo];
    Sig [] "program" [] RString [On QProcess]
  ].

Definition methods_qtcore_2_s129 : list signature_row :=
  [
    Sig [VALUE_TYPE_QTCORE_QBYTEARRAY] "propertyName" [] (RValue QByteArray) [On QPropertyAnimation];
    Sig [] "quit" [] RVoid [On QThread];
    Sig [VALUE_TYPE_QTCORE_QBYTEARRAY] "readAllStandardError" [] (RValue QByteArray) [On QProcess];
    Sig [VALUE_TYPE_QTCORE_QBYTEARRAY] "readAllStandardOutput" [] (RValue QByteArray) [On QProcess];
    Sig [TYPE_QTCORE_QPROCESS] "readChannel" [] (RMeta QProcess_ProcessChannel) [On QProcess];
    Sig [] "registerResource" [PString true; PString true] RBool [Static QResource];
    Sig [] "releaseThread" [] RVoid [On QThreadPool];
    Sig [VALUE_TYPE_QTCORE_QMODELINDEX] "removeColumns" [PInt; PInt; PValue QModelIndex] RBool [On
        QSortFilterProxyModel];
    Sig [TYPE_QTCORE_QOBJECT] "removeMappings" [PObject QObject false] RVoid [On QSignalMapper]
  ].

Definition methods_qtcore_2_s138 : list signature_row :=
  [
    Sig [VALUE_TYPE_QTCORE_QMODELINDEX] "removeRows" [PInt; PInt; PValue QModelIndex] RBool [On
        QSortFilterProxyModel; On QStringListModel];
    Sig [] "rename" [PString true] RBool [On QTemporaryFile];
    Sig [] "renameOverwrite" [PString true] RBool [On QTemporaryFile];
    Sig [] "requestInterruption" [] RVoid [On QThread];
    Sig [] "reserveThread" [] RVoid [On QThreadPool];
    Sig [] "resetRoleNames" [] RVoid [On QRangeModel];
    Sig [VALUE_TYPE_QTCORE_QSTORAGEINFO] "root" [] (RValue QStorageInfo) [Static QStorageInfo];
    Sig [VALUE_TYPE_QTCORE_QMODELINDEX] "rowCount" [PValue QModelIndex] RDouble [On QSortFilterProxyModel;
        On QStringListModel];
    Sig [TYPE_QTCORE_QSETTINGS] "scope" [] (RMeta QSettings_Scope) [On QSettings];
    Sig [VALUE_TYPE_QTCORE_QRANDOMGENERATOR] "securelySeeded" [] (RValue QRandomGenerator) [Static
        QRandomGenerator]
  ].

Definition methods_qtcore_2_s148 : list signature_row :=
  [
    Sig [TYPE_QTCORE_QTHREAD] "serviceLevel" [] (RMeta QThread_QualityOfService) [On QThread; On
        QThreadPool];
    Sig [] "setArguments" [PStringList] RVoid [On QProcess];
    Sig [] "setArrayIndex" [PInt] RVoid [On QSettings];
    Sig [] "setAtomicSyncRequired" [PBool] RVoid [On QSettings];
    Sig [] "setAutoAcceptChildRows" [PBool] RVoid [On QSortFilterProxyModel];
    Sig [TYPE_QTCORE_QRANGEMODEL] "setAutoConnectPolicy" [PValue QRangeModel_AutoConnectPolicy] RVoid [On
        QRangeModel];
    Sig [] "setAutoRemove" [PBool] RVoid [On QTemporaryFile];
    Sig [VALUE_TYPE_QTCORE_QMODELINDEX] "setData" [PValue QModelIndex; PVariant; PInt] RBool [On
        QRangeModel; On QSortFilterProxyModel; On QStringListModel];
    Sig [TYPE_QTCORE_QSETTINGS] "setDefaultFormat" [PValue QSettings_Format] RVoid [Static QSettings]
  ].

Definition methods_qtcore_2_s157 : list signature_row :=
  [
    Sig [] "setDirectWriteFallback" [PBool] RVoid [On QSaveFile];
    Sig [] "setDynamicSortFilter" [PBool] RVoid [On QSortFilterProxyModel];
    Sig [] "setEnabled" [PBool] RVoid [On QSocketNotifier];
    Sig [TYPE_QTCORE_QABSTRACTEVENTDISPATCHER] "setEventDispatcher" [PObject QAbstractEventDispatcher
        false] RVoid [On QThread];
    Sig [] "setExpiryTimeout" [PInt] RVoid [On QThreadPool];
    Sig [] "setFallbacksEnabled" [PBool] RVoid [On QSettings];
    Sig [] "setFileName" [PString true] RVoid [On QSaveFile];
    Sig [] "setFileTemplate" [PString true] RVoid [On QTemporaryFile];
    Sig [ENUM_QT_CASESENSITIVITY] "setFilterCaseSensitivity" [PValue Qt_CaseSensitivity] RVoid [On
        QSortFilterProxyModel];
    Sig [] "setFilterFixedString" [PString true] RVoid [On QSortFilterProxyModel]
  ].

Definition methods_qtcore_2_s167 : list signature_row :=
  [
    Sig [] "setFilterKeyColumn" [PInt] RVoid [On QSortFilterProxyModel];
    Sig [VALUE_TYPE_QTCORE_QREGULAREXPRESSION] "setFilterRegularExpression" [PValue QRegularExpression]
        RVoid [On QSortFilterProxyModel];
    Sig [] "setFilterRegularExpression" [PString true] RVoid [On QSortFilterProxyModel];
    Sig [] "setFilterRole" [PInt] RVoid [On QSortFilterProxyModel];
    Sig [] "setFilterWildcard" [PString true] RVoid [On QSortFilterProxyModel];
    Sig [ENUM_QT_ORIENTATION] "setHeaderData" [PInt; PValue Qt_Orientation; PVariant; PInt] RBool [On
        QRangeModel; On QSortFilterProxyModel];
    Sig [TYPE_QTCORE_QPROCESS] "setInputChannelMode" [PValue QProcess_InputChannelMode] RVoid [On QProcess];
    Sig [] "setKey" [PString true] RVoid [On QSharedMemory];
    Sig [TYPE_QTCORE_QOBJECT] "setMapping" [PObject QObject false; PObject QObject false] RVoid [On
        QSignalMapper]
  ].

Definition methods_qtcore_2_s176 : list signature_row :=
  [
    Sig [TYPE_QTCORE_QOBJECT] "setMapping" [PObject QObject false; PString true] RVoid [On QSignalMapper];
    Sig [TYPE_QTCORE_QOBJECT] "setMapping" [PObject QObject false; PInt] RVoid [On QSignalMapper];
    Sig [] "setMaxThreadCount" [PInt] RVoid [On QThreadPool];
    Sig [] "setNativeArguments" [PString true] RVoid [On QProcess];
    Sig [VALUE_TYPE_QTCORE_QNATIVEIPCKEY] "setNativeKey" [PValue QNativeIpcKey] RVoid [On QSharedMemory];
    Sig [TYPE_QTCORE_QNATIVEIPCKEY] "setNativeKey" [PString true; PValue QNativeIpcKey_Type] RVoid [On
        QSharedMemory];
    Sig [TYPE_QTCORE_QSETTINGS] "setPath" [PValue QSettings_Format; PValue QSettings_Scope; PString true]
        RVoid [Static QSettings];
    Sig [TYPE_QTCORE_QTHREAD] "setPriority" [PValue QThread_Priority] RVoid [On QThread];
    Sig [TYPE_QTCORE_QPROCESS] "setProcessChannelMode" [PValue QProcess_ProcessChannelMode] RVoid [On
        QProcess]
  ].

Definition methods_qtcore_2_s185 : list signature_row :=
  [
    Sig [VALUE_TYPE_QTCORE_QPROCESSENVIRONMENT] "setProcessEnvironment" [PValue QProcessEnvironment] RVoid
        [On QProcess];
    Sig [] "setProgram" [PString true] RVoid [On QProcess];
    Sig [VALUE_TYPE_QTCORE_QBYTEARRAY] "setPropertyName" [PValue QByteArray] RVoid [On QPropertyAnimation];
    Sig [TYPE_QTCORE_QPROCESS] "setReadChannel" [PValue QProcess_ProcessChannel] RVoid [On QProcess];
    Sig [] "setRecursiveFilteringEnabled" [PBool] RVoid [On QSortFilterProxyModel];
    Sig [TYPE_QTCORE_QTHREAD] "setServiceLevel" [PValue QThread_QualityOfService] RVoid [On QThread; On
        QThreadPool];
    Sig [ENUM_QT_CASESENSITIVITY] "setSortCaseSensitivity" [PValue Qt_CaseSensitivity] RVoid [On
        QSortFilterProxyModel];
    Sig [] "setSortLocaleAware" [PBool] RVoid [On QSortFilterProxyModel];
    Sig [] "setSortRole" [PInt] RVoid [On QSortFilterProxyModel]
  ].

Definition methods_qtcore_2_s194 : list signature_row :=
  [
    Sig [TYPE_QTCORE_QABSTRACTITEMMODEL] "setSourceModel" [PObject QAbstractItemModel false] RVoid [On
        QSortFilterProxyModel];
    Sig [] "setStackSize" [PUInt] RVoid [On QThread; On QThreadPool];
    Sig [] "setStandardInputFile" [PString true] RVoid [On QProcess];
    Sig [TYPE_QTCORE_QPROCESS] "setStandardOutputProcess" [PObject QProcess false] RVoid [On QProcess];
    Sig [] "setStringList" [PStringList] RVoid [On QStringListModel];
    Sig [TYPE_QTCORE_QOBJECT] "setTargetObject" [PObject QObject false] RVoid [On QPropertyAnimation];
    Sig [] "setTestModeEnabled" [PBool] RVoid [Static QStandardPaths];
    Sig [TYPE_QTCORE_QTHREAD] "setThreadPriority" [PValue QThread_Priority] RVoid [On QThreadPool];
    Sig [] "setWorkingDirectory" [PString true] RVoid [On QProcess]
  ].

Definition methods_qtcore_2_s203 : list signature_row :=
  [
    Sig [VALUE_TYPE_QTCORE_QMODELINDEX] "sibling" [PInt; PInt; PValue QModelIndex] (RValue QModelIndex) [On
        QSortFilterProxyModel; On QStringListModel];
    Sig [] "size" [] (RMeta cxx_qsizetype) [On QSharedMemory];
    Sig [ENUM_QT_SORTORDER] "sort" [PInt; PValue Qt_SortOrder] RVoid [On QRangeModel; On
        QSortFilterProxyModel; On QStringListModel];
    Sig [ENUM_QT_CASESENSITIVITY] "sortCaseSensitivity" [] (RMeta Qt_CaseSensitivity) [On
        QSortFilterProxyModel];
    Sig [] "sortColumn" [] RDouble [On QSortFilterProxyModel];
    Sig [ENUM_QT_SORTORDER] "sortOrder" [] (RMeta Qt_SortOrder) [On QSortFilterProxyModel];
    Sig [] "sortRole" [] RDouble [On QSortFilterProxyModel];
    Sig [VALUE_TYPE_QTCORE_QMODELINDEX; VALUE_TYPE_QTCORE_QSIZE] "span" [PValue QModelIndex] (RValue QSize)
        [On QRangeModel; On QSortFilterProxyModel]
  ].

Definition methods_qtcore_2_s211 : list signature_row :=
  [
    Sig [VALUE_TYPE_QTCORE_QPOINT; VALUE_TYPE_QTCORE_QRECT] "span" [PValue QPoint; PValue QPoint] (RValue
        QRect) [Static QRect];
    Sig [] "stackSize" [] RDouble [On QThread; On QThreadPool];
    Sig [TYPE_QTCORE_QSTANDARDPATHS] "standardLocations" [PValue QStandardPaths_StandardLocation] (RList
        (IMeta QString)) [Static QStandardPaths];
    Sig [TYPE_QTCORE_QTHREAD] "start" [PValue QThread_Priority] RVoid [On QThread];
    Sig [TYPE_QTCORE_QPROCESS] "state" [] (RMeta QProcess_ProcessState) [On QProcess];
    Sig [TYPE_QTCORE_QSETTINGS] "status" [] (RMeta QSettings_Status) [On QSettings];
    Sig [] "stringList" [] (RList (IMeta QString)) [On QStringListModel];
    Sig [ENUM_QT_DROPACTIONS] "supportedDragActions" [] (RMeta Qt_DropActions) [On QRangeModel];
    Sig [ENUM_QT_DROPACTIONS] "supportedDropActions" [] (RMeta Qt_DropActions) [On QRangeModel; On
        QSortFilterProxyModel; On QStringListModel]
  ].

Definition methods_qtcore_2_s220 : list signature_row :=
  [
    Sig [] "sync" [] RVoid [On QSettings];
    Sig [VALUE_TYPE_QTCORE_QPROCESSENVIRONMENT] "systemEnvironment" [] (RValue QProcessEnvironment) [Static
        QProcessEnvironment];
    Sig [] "systemEnvironment" [] (RList (IMeta QString)) [Static QProcess];
    Sig [TYPE_QTCORE_QOBJECT] "targetObject" [] RObject [On QPropertyAnimation];
    Sig [] "terminate" [] RVoid [On QProcess; On QThread];
    Sig [TYPE_QTCORE_QTHREAD] "threadPriority" [] (RMeta QThread_Priority) [On QThreadPool];
    Sig [TYPE_QTCORE_QSOCKETNOTIFIER] "type" [] (RMeta QSocketNotifier_Type) [On QSocketNotifier];
    Sig [] "unlock" [] RBool [On QSharedMemory];
    Sig [] "unregisterResource" [PString true; PString true] RBool [Static QResource];
    Sig [VALUE_TYPE_QTCORE_QDEADLINETIMER] "wait" [PValue QDeadlineTimer] RBool [On QThread]
  ].

Definition methods_qtcore_2_s230 : list signature_row :=
  [
    Sig [] "waitForBytesWritten" [PInt] RBool [On QProcess];
    Sig [] "waitForDone" [PInt] RBool [On QThreadPool];
    Sig [] "waitForFinished" [PInt] RBool [On QProcess];
    Sig [] "waitForReadyRead" [PInt] RBool [On QProcess];
    Sig [] "waitForStarted" [PInt] RBool [On QProcess];
    Sig [] "workingDirectory" [] RString [On QProcess];
    Sig [TYPE_QTCORE_QSTANDARDPATHS] "writableLocation" [PValue QStandardPaths_StandardLocation] RString
        [Static QStandardPaths];
    Sig [] "yieldCurrentThread" [] RVoid [Static QThread]
  ].

Definition methods_qtcore_2 : method_shard :=
  MethodShard QtCore "KRY_QT6_NATIVE_METHODS_QTCORE_"
    (methods_qtcore_2_i0 ++ methods_qtcore_2_i1)
    (methods_qtcore_2_s0 ++ methods_qtcore_2_s11 ++ methods_qtcore_2_s20 ++ methods_qtcore_2_s30 ++
        methods_qtcore_2_s39 ++ methods_qtcore_2_s49 ++ methods_qtcore_2_s59 ++ methods_qtcore_2_s69 ++
        methods_qtcore_2_s78 ++ methods_qtcore_2_s90 ++ methods_qtcore_2_s100 ++ methods_qtcore_2_s109 ++
        methods_qtcore_2_s119 ++ methods_qtcore_2_s129 ++ methods_qtcore_2_s138 ++ methods_qtcore_2_s148 ++
        methods_qtcore_2_s157 ++ methods_qtcore_2_s167 ++ methods_qtcore_2_s176 ++ methods_qtcore_2_s185 ++
        methods_qtcore_2_s194 ++ methods_qtcore_2_s203 ++ methods_qtcore_2_s211 ++ methods_qtcore_2_s220 ++
        methods_qtcore_2_s230)
    [].

Definition methods_qtcore_3_i0 : list include :=
  [
    ClassInclude QtCore QTime QTime;
    ClassInclude QtCore QTimeLine QTimeLine;
    ClassInclude QtCore QTimeZone QTimeZone;
    ClassInclude QtCore QTimer QTimer;
    ClassInclude QtCore QTranslator QTranslator;
    ClassInclude QtCore QTransposeProxyModel QTransposeProxyModel;
    ClassInclude QtCore QTypeRevision QTypeRevision;
    ClassInclude QtCore QUrl QUrl;
    ClassInclude QtCore QUuid QUuid;
    ClassInclude QtCore QVariantAnimation QVariantAnimation;
    ClassInclude QtCore QVersionNumber QVersionNumber;
    ClassInclude QtCore QWinEventNotifier QWinEventNotifier;
    TypeInclude QtCore QAbstractItemModel TYPE_QTCORE_QABSTRACTITEMMODEL;
    EnumDefine ENUM_QT_DATEFORMAT;
    EnumDefine ENUM_QT_ORIENTATION;
    EnumDefine ENUM_QT_SORTORDER;
    EnumDefine ENUM_QT_TIMESPEC;
    EnumDefine ENUM_QT_TIMERTYPE;
    TypeInclude QtCore QLocale TYPE_QTCORE_QLOCALE;
    TypeInclude QtCore QTimeLine TYPE_QTCORE_QTIMELINE;
    TypeInclude QtCore QUrl TYPE_QTCORE_QURL;
    TypeInclude QtCore QByteArray VALUE_TYPE_QTCORE_QBYTEARRAY;
    TypeInclude QtCore QEasingCurve VALUE_TYPE_QTCORE_QEASINGCURVE;
    TypeInclude QtCore QLocale VALUE_TYPE_QTCORE_QLOCALE;
    TypeInclude QtCore QModelIndex VALUE_TYPE_QTCORE_QMODELINDEX;
    TypeInclude QtCore QSize VALUE_TYPE_QTCORE_QSIZE;
    TypeInclude QtCore QTime VALUE_TYPE_QTCORE_QTIME;
    TypeInclude QtCore QTimeZone VALUE_TYPE_QTCORE_QTIMEZONE;
    TypeInclude QtCore QTypeRevision VALUE_TYPE_QTCORE_QTYPEREVISION;
    TypeInclude QtCore QUrl VALUE_TYPE_QTCORE_QURL;
    TypeInclude QtCore QUuid VALUE_TYPE_QTCORE_QUUID;
    TypeInclude QtCore QVersionNumber VALUE_TYPE_QTCORE_QVERSIONNUMBER
  ].

Definition methods_qtcore_3_s0 : list signature_row :=
  [
    Sig [VALUE_TYPE_QTCORE_QBYTEARRAY] "availableTimeZoneIds" [] (RList (IValue QByteArray)) [Static
        QTimeZone];
    Sig [TYPE_QTCORE_QLOCALE; VALUE_TYPE_QTCORE_QBYTEARRAY] "availableTimeZoneIds" [PValue
        QLocale_Territory] (RList (IValue QByteArray)) [Static QTimeZone];
    Sig [VALUE_TYPE_QTCORE_QBYTEARRAY] "availableTimeZoneIds" [PInt] (RList (IValue QByteArray)) [Static
        QTimeZone];
    Sig [VALUE_TYPE_QTCORE_QMODELINDEX] "columnCount" [PValue QModelIndex] RDouble [On
        QTransposeProxyModel];
    Sig [VALUE_TYPE_QTCORE_QVERSIONNUMBER] "commonPrefix" [PValue QVersionNumber; PValue QVersionNumber]
        (RValue QVersionNumber) [Static QVersionNumber];
    Sig [VALUE_TYPE_QTCORE_QVERSIONNUMBER] "compare" [PValue QVersionNumber; PValue QVersionNumber] RDouble
        [Static QVersionNumber];
    Sig [VALUE_TYPE_QTCORE_QUUID] "createUuid" [] (RValue QUuid) [Static QUuid];
    Sig [VALUE_TYPE_QTCORE_QUUID] "createUuidV3" [PValue QUuid; PString true] (RValue QUuid) [Static QUuid]
  ].

Definition methods_qtcore_3_s8 : list signature_row :=
  [
    Sig [VALUE_TYPE_QTCORE_QUUID] "createUuidV5" [PValue QUuid; PString true] (RValue QUuid) [Static QUuid];
    Sig [VALUE_TYPE_QTCORE_QUUID] "createUuidV7" [] (RValue QUuid) [Static QUuid];
    Sig [] "currentFrame" [] RDouble [On QTimeLine];
    Sig [VALUE_TYPE_QTCORE_QTIME] "currentTime" [] (RValue QTime) [Static QTime];
    Sig [] "currentTime" [] RDouble [On QTimeLine];
    Sig [] "currentValue" [] RVariant [On QVariantAnimation];
    Sig [] "currentValue" [] RDouble [On QTimeLine];
    Sig [TYPE_QTCORE_QTIMELINE] "direction" [] (RMeta QTimeLine_Direction) [On QTimeLine];
    Sig [] "duration" [] RDouble [On QTimeLine; On QVariantAnimation];
    Sig [VALUE_TYPE_QTCORE_QEASINGCURVE] "easingCurve" [] (RValue QEasingCurve) [On QTimeLine; On
        QVariantAnimation]
  ].

Definition methods_qtcore_3_s18 : list signature_row :=
  [
    Sig [] "endFrame" [] RDouble [On QTimeLine];
    Sig [] "endValue" [] RVariant [On QVariantAnimation];
    Sig [] "filePath" [] RString [On QTranslator];
    Sig [] "frameForTime" [PInt] RDouble [On QTimeLine];
    Sig [VALUE_TYPE_QTCORE_QTYPEREVISION] "fromEncodedVersion" [PInt] (RValue QTypeRevision) [Static
        QTypeRevision];
    Sig [VALUE_TYPE_QTCORE_QURL] "fromLocalFile" [PString true] (RValue QUrl) [Static QUrl];
    Sig [VALUE_TYPE_QTCORE_QTIME] "fromMSecsSinceStartOfDay" [PInt] (RValue QTime) [Static QTime];
    Sig [VALUE_TYPE_QTCORE_QBYTEARRAY] "fromPercentEncoding" [PValue QByteArray] RString [Static QUrl];
    Sig [VALUE_TYPE_QTCORE_QTIMEZONE] "fromSecondsAheadOfUtc" [PInt] (RValue QTimeZone) [Static QTimeZone];
    Sig [VALUE_TYPE_QTCORE_QTIME] "fromString" [PString true; PString true] (RValue QTime) [Static QTime]
  ].

Definition methods_qtcore_3_s28 : list signature_row :=
  [
    Sig [ENUM_QT_DATEFORMAT; VALUE_TYPE_QTCORE_QTIME] "fromString" [PString true; PValue Qt_DateFormat]
        (RValue QTime) [Static QTime];
    Sig [TYPE_QTCORE_QURL; VALUE_TYPE_QTCORE_QURL] "fromStringList" [PStringList; PValue QUrl_ParsingMode]
        (RList (IValue QUrl)) [Static QUrl];
    Sig [ENUM_QT_ORIENTATION] "headerData" [PInt; PValue Qt_Orientation; PInt] RVariant [On
        QTransposeProxyModel];
    Sig [VALUE_TYPE_QTCORE_QBYTEARRAY] "ianaIdToWindowsId" [PValue QByteArray] (RValue QByteArray) [Static
        QTimeZone];
    Sig [] "idnWhitelist" [] (RList (IMeta QString)) [Static QUrl];
    Sig [VALUE_TYPE_QTCORE_QMODELINDEX] "index" [PInt; PInt; PValue QModelIndex] (RValue QModelIndex) [On
        QTransposeProxyModel];
    Sig [VALUE_TYPE_QTCORE_QMODELINDEX] "insertColumns" [PInt; PInt; PValue QModelIndex] RBool [On
        QTransposeProxyModel]
  ].

Definition methods_qtcore_3_s35 : list signature_row :=
  [
    Sig [VALUE_TYPE_QTCORE_QMODELINDEX] "insertRows" [PInt; PInt; PValue QModelIndex] RBool [On
        QTransposeProxyModel];
    Sig [] "interval" [] RDouble [On QTimer];
    Sig [] "isActive" [] RBool [On QTimer];
    Sig [] "isEmpty" [] RBool [On QTranslator];
    Sig [] "isEnabled" [] RBool [On QWinEventNotifier];
    Sig [] "isSingleShot" [] RBool [On QTimer];
    Sig [VALUE_TYPE_QTCORE_QBYTEARRAY] "isTimeZoneIdAvailable" [PValue QByteArray] RBool [Static QTimeZone];
    Sig [ENUM_QT_TIMESPEC] "isUtcOrFixedOffset" [PValue Qt_TimeSpec] RBool [Static QTimeZone];
    Sig [] "isValid" [PInt; PInt; PInt; PInt] RBool [Static QTime];
    Sig [] "keyValueAt" [PNumber cxx_qreal] RVariant [On QVariantAnimation]
  ].

Definition methods_qtcore_3_s45 : list signature_row :=
  [
    Sig [] "language" [] RString [On QTranslator];
    Sig [VALUE_TYPE_QTCORE_QLOCALE] "load" [PValue QLocale; PString true; PString true; PString true;
        PString true] RBool [On QTranslator];
    Sig [] "load" [PString true; PString true; PString true; PString true] RBool [On QTranslator];
    Sig [] "loopCount" [] RDouble [On QTimeLine];
    Sig [VALUE_TYPE_QTCORE_QMODELINDEX] "mapFromSource" [PValue QModelIndex] (RValue QModelIndex) [On
        QTransposeProxyModel];
    Sig [VALUE_TYPE_QTCORE_QMODELINDEX] "mapToSource" [PValue QModelIndex] (RValue QModelIndex) [On
        QTransposeProxyModel];
    Sig [VALUE_TYPE_QTCORE_QMODELINDEX] "moveColumns" [PValue QModelIndex; PInt; PInt; PValue QModelIndex;
        PInt] RBool [On QTransposeProxyModel];
    Sig [VALUE_TYPE_QTCORE_QMODELINDEX] "moveRows" [PValue QModelIndex; PInt; PInt; PValue QModelIndex;
        PInt] RBool [On QTransposeProxyModel]
  ].

Definition methods_qtcore_3_s53 : list signature_row :=
  [
    Sig [VALUE_TYPE_QTCORE_QMODELINDEX] "parent" [PValue QModelIndex] (RValue QModelIndex) [On
        QTransposeProxyModel];
    Sig [] "remainingTime" [] RDouble [On QTimer];
    Sig [VALUE_TYPE_QTCORE_QMODELINDEX] "removeColumns" [PInt; PInt; PValue QModelIndex] RBool [On
        QTransposeProxyModel];
    Sig [VALUE_TYPE_QTCORE_QMODELINDEX] "removeRows" [PInt; PInt; PValue QModelIndex] RBool [On
        QTransposeProxyModel];
    Sig [] "resume" [] RVoid [On QTimeLine];
    Sig [VALUE_TYPE_QTCORE_QMODELINDEX] "rowCount" [PValue QModelIndex] RDouble [On QTransposeProxyModel];
    Sig [] "setCurrentTime" [PInt] RVoid [On QTimeLine];
    Sig [TYPE_QTCORE_QTIMELINE] "setDirection" [PValue QTimeLine_Direction] RVoid [On QTimeLine];
    Sig [] "setDuration" [PInt] RVoid [On QTimeLine; On QVariantAnimation]
  ].

Definition methods_qtcore_3_s62 : list signature_row :=
  [
    Sig [VALUE_TYPE_QTCORE_QEASINGCURVE] "setEasingCurve" [PValue QEasingCurve] RVoid [On QTimeLine; On
        QVariantAnimation];
    Sig [] "setEnabled" [PBool] RVoid [On QWinEventNotifier];
    Sig [] "setEndFrame" [PInt] RVoid [On QTimeLine];
    Sig [] "setEndValue" [PVariant] RVoid [On QVariantAnimation];
    Sig [] "setFrameRange" [PInt; PInt] RVoid [On QTimeLine];
    Sig [ENUM_QT_ORIENTATION] "setHeaderData" [PInt; PValue Qt_Orientation; PVariant; PInt] RBool [On
        QTransposeProxyModel];
    Sig [] "setIdnWhitelist" [PStringList] RVoid [Static QUrl];
    Sig [] "setInterval" [PInt] RVoid [On QTimer];
    Sig [] "setKeyValueAt" [PNumber cxx_qreal; PVariant] RVoid [On QVariantAnimation]
  ].

Definition methods_qtcore_3_s71 : list signature_row :=
  [
    Sig [] "setLoopCount" [PInt] RVoid [On QTimeLine];
    Sig [] "setPaused" [PBool] RVoid [On QTimeLine];
    Sig [] "setSingleShot" [PBool] RVoid [On QTimer];
    Sig [TYPE_QTCORE_QABSTRACTITEMMODEL] "setSourceModel" [PObject QAbstractItemModel false] RVoid [On
        QTransposeProxyModel];
    Sig [] "setStartFrame" [PInt] RVoid [On QTimeLine];
    Sig [] "setStartValue" [PVariant] RVoid [On QVariantAnimation];
    Sig [ENUM_QT_TIMERTYPE] "setTimerType" [PValue Qt_TimerType] RVoid [On QTimer];
    Sig [] "setUpdateInterval" [PInt] RVoid [On QTimeLine];
    Sig [ENUM_QT_SORTORDER] "sort" [PInt; PValue Qt_SortOrder] RVoid [On QTransposeProxyModel];
    Sig [VALUE_TYPE_QTCORE_QMODELINDEX; VALUE_TYPE_QTCORE_QSIZE] "span" [PValue QModelIndex] (RValue QSize)
        [On QTransposeProxyModel]
  ].

Definition methods_qtcore_3_s81 : list signature_row :=
  [
    Sig [] "start" [] RVoid [On QTimeLine; On QTimer];
    Sig [] "start" [PInt] RVoid [On QTimer];
    Sig [] "startFrame" [] RDouble [On QTimeLine];
    Sig [] "startValue" [] RVariant [On QVariantAnimation];
    Sig [TYPE_QTCORE_QTIMELINE] "state" [] (RMeta QTimeLine_State) [On QTimeLine];
    Sig [] "stop" [] RVoid [On QTimeLine; On QTimer];
    Sig [VALUE_TYPE_QTCORE_QTIMEZONE] "systemTimeZone" [] (RValue QTimeZone) [Static QTimeZone];
    Sig [VALUE_TYPE_QTCORE_QBYTEARRAY] "systemTimeZoneId" [] (RValue QByteArray) [Static QTimeZone];
    Sig [] "timerId" [] RDouble [On QTimer];
    Sig [ENUM_QT_TIMERTYPE] "timerType" [] (RMeta Qt_TimerType) [On QTimer]
  ].

Definition methods_qtcore_3_s91 : list signature_row :=
  [
    Sig [VALUE_TYPE_QTCORE_QBYTEARRAY] "toPercentEncoding" [PString true; PValue QByteArray; PValue
        QByteArray] (RValue QByteArray) [Static QUrl];
    Sig [] "toggleDirection" [] RVoid [On QTimeLine];
    Sig [] "updateInterval" [] RDouble [On QTimeLine];
    Sig [VALUE_TYPE_QTCORE_QTIMEZONE] "utc" [] (RValue QTimeZone) [Static QTimeZone];
    Sig [] "valueForTime" [PInt] RDouble [On QTimeLine];
    Sig [VALUE_TYPE_QTCORE_QBYTEARRAY] "windowsIdToDefaultIanaId" [PValue QByteArray] (RValue QByteArray)
        [Static QTimeZone];
    Sig [TYPE_QTCORE_QLOCALE; VALUE_TYPE_QTCORE_QBYTEARRAY] "windowsIdToDefaultIanaId" [PValue QByteArray;
        PValue QLocale_Territory] (RValue QByteArray) [Static QTimeZone];
    Sig [VALUE_TYPE_QTCORE_QBYTEARRAY] "windowsIdToIanaIds" [PValue QByteArray] (RList (IValue QByteArray))
        [Static QTimeZone];
    Sig [TYPE_QTCORE_QLOCALE; VALUE_TYPE_QTCORE_QBYTEARRAY] "windowsIdToIanaIds" [PValue QByteArray; PValue
        QLocale_Territory] (RList (IValue QByteArray)) [Static QTimeZone]
  ].

Definition methods_qtcore_3_s100 : list signature_row :=
  [
    Sig [VALUE_TYPE_QTCORE_QTYPEREVISION] "zero" [] (RValue QTypeRevision) [Static QTypeRevision]
  ].

Definition methods_qtcore_3 : method_shard :=
  MethodShard QtCore "KRY_QT6_NATIVE_METHODS_QTCORE_"
    (methods_qtcore_3_i0)
    (methods_qtcore_3_s0 ++ methods_qtcore_3_s8 ++ methods_qtcore_3_s18 ++ methods_qtcore_3_s28 ++
        methods_qtcore_3_s35 ++ methods_qtcore_3_s45 ++ methods_qtcore_3_s53 ++ methods_qtcore_3_s62 ++
        methods_qtcore_3_s71 ++ methods_qtcore_3_s81 ++ methods_qtcore_3_s91 ++ methods_qtcore_3_s100)
    [].
