(* ===== verification/MethodsGraphsA.v ===== *)
(** Rows of the shards of generated_methods: qtgraphs_0, qtgraphs_1, qtgraphswidgets_0. *)
From S2P Require Import Names.

(** * Definitions *)

Definition methods_qtgraphs_0_i0 : list include :=
  [
    ClassInclude QtGraphs Q3DScene Q3DScene;
    ClassInclude QtGraphs QAbstract3DAxis QAbstract3DAxis;
    ClassInclude QtGraphs QAbstract3DSeries QAbstract3DSeries;
    ClassInclude QtGraphs QAbstractAxis QAbstractAxis;
    ClassInclude QtGraphs QAbstractDataProxy QAbstractDataProxy;
    ClassInclude QtGraphs QAbstractSeries QAbstractSeries;
    ClassInclude QtGraphs QAreaSeries QAreaSeries;
    ClassInclude QtGraphs QBar3DSeries QBar3DSeries;
    ClassInclude QtGraphs QBarCategoryAxis QBarCategoryAxis;
    ClassInclude QtGraphs QBarDataProxy QBarDataProxy;
    ClassInclude QtGraphs QBarModelMapper QBarModelMapper;
    ClassInclude QtGraphs QBarSeries QBarSeries;
    ClassInclude QtGraphs QBarSet QBarSet;
    ClassInclude QtGraphs QCategory3DAxis QCategory3DAxis;
    ClassInclude QtGraphs QCustom3DItem QCustom3DItem;
    ClassInclude QtGraphs QCustom3DLabel QCustom3DLabel;
    ClassInclude QtGraphs QCustom3DVolume QCustom3DVolume;
    ClassInclude QtGraphs QDateTimeAxis QDateTimeAxis;
    ClassInclude QtGraphs QGraphsTheme QGraphsTheme;
    ClassInclude QtGraphs QHeightMapSurfaceDataProxy QHeightMapSurfaceDataProxy;
    ClassInclude QtGraphs QItemModelBarDataProxy QItemModelBarDataProxy;
    ClassInclude QtGraphs QItemModelScatterDataProxy QItemModelScatterDataProxy;
    ClassInclude QtGraphs QItemModelSurfaceDataProxy QItemModelSurfaceDataProxy;
    ClassInclude QtGraphs QLineSeries QLineSeries;
    TypeInclude QtCore QAbstractItemModel TYPE_QTCORE_QABSTRACTITEMMODEL;
    TypeInclude QtGraphs QBar3DSeries TYPE_QTGRAPHS_QBAR3DSERIES;
    TypeInclude QtGraphs QBarDataProxy TYPE_QTGRAPHS_QBARDATAPROXY;
    TypeInclude QtGraphs QBarSeries TYPE_QTGRAPHS_QBARSERIES;
    TypeInclude QtGraphs QBarSet TYPE_QTGRAPHS_QBARSET;
    TypeInclude QtGraphs QXYSeries TYPE_QTGRAPHS_QXYSERIES;
    TypeInclude QtQml QQmlComponent TYPE_QTQML_QQMLCOMPONENT;
    EnumDefine ENUM_QT_AXIS;
    EnumDefine ENUM_QT_ORIENTATION;
    EnumDefine ENUM_QT_PENCAPSTYLE;
    TypeInclude QtGraphs QAbstract3DAxis TYPE_QTGRAPHS_QABSTRACT3DAXIS;
    TypeInclude QtGraphs QAbstract3DSeries TYPE_QTGRAPHS_QABSTRACT3DSERIES;
    TypeInclude QtGraphs QAbstractAxis TYPE_QTGRAPHS_QABSTRACTAXIS;
    TypeInclude QtGraphs QAbstractDataProxy TYPE_QTGRAPHS_QABSTRACTDATAPROXY;
    TypeInclude QtGraphs QAbstractSeries TYPE_QTGRAPHS_QABSTRACTSERIES;
    TypeInclude QtGraphs QBarSeries TYPE_QTGRAPHS_QBARSERIES;
    TypeInclude QtGraphs QGraphsTheme TYPE_QTGRAPHS_QGRAPHSTHEME;
    TypeInclude QtGraphs QItemModelBarDataProxy TYPE_QTGRAPHS_QITEMMODELBARDATAPROXY;
    TypeInclude QtGraphs QItemModelSurfaceDataProxy TYPE_QTGRAPHS_QITEMMODELSURFACEDATAPROXY;
    TypeInclude QtGui QImage TYPE_QTGUI_QIMAGE;
    TypeInclude QtCore QDateTime VALUE_TYPE_QTCORE_QDATETIME;
    TypeInclude QtCore QPoint VALUE_TYPE_QTCORE_QPOINT;
    TypeInclude QtCore QRect VALUE_TYPE_QTCORE_QRECT;
    TypeInclude QtCore QRegularExpression VALUE_TYPE_QTCORE_QREGULAREXPRESSION;
    TypeInclude QtGraphs QGraphsLine VALUE_TYPE_QTGRAPHS_QGRAPHSLINE;
    TypeInclude QtGui QColor VALUE_TYPE_QTGUI_QCOLOR;
    TypeInclude QtGui QFont VALUE_TYPE_QTGUI_QFONT;
    TypeInclude QtGui QImage VALUE_TYPE_QTGUI_QIMAGE;
    TypeInclude QtGui QLinearGradient VALUE_TYPE_QTGUI_QLINEARGRADIENT;
    TypeInclude QtGui QQuaternion VALUE_TYPE_QTGUI_QQUATERNION
  ].

Definition methods_qtgraphs_0_i1 : list include :=
  [
    TypeInclude QtGui QVector3D VALUE_TYPE_QTGUI_QVECTOR3D
  ].

Definition methods_qtgraphs_0_s0 : list signature_row :=
  [
    Sig [] "alphaMultiplier" [] RDouble [On QCustom3DVolume];
    Sig [TYPE_QTGRAPHS_QBARSET] "append" [PObject QBarSet false] RBool [On QBarSeries];
    Sig [TYPE_QTGRAPHS_QBARSET] "append" [PList (IObject QBarSet)] RBool [On QBarSeries];
    Sig [] "append" [PList (IMeta cxx_qreal)] RVoid [On QBarSet];
    Sig [] "append" [PString true] RVoid [On QBarCategoryAxis];
    Sig [] "append" [PStringList] RVoid [On QBarCategoryAxis];
    Sig [] "append" [PNumber cxx_qreal] RVoid [On QBarSet];
    Sig [TYPE_QTGRAPHS_QBARSET] "at" [PMeta cxx_qsizetype] RObject [On QBarSeries];
    Sig [] "at" [PMeta cxx_qsizetype] RString [On QBarCategoryAxis];
    Sig [] "at" [PMeta cxx_qsizetype] RDouble [On QBarSet]
  ].

Definition methods_qtgraphs_0_s10 : list signature_row :=
  [
    Sig [] "autoColumnCategories" [] RBool [On QItemModelBarDataProxy; On QItemModelSurfaceDataProxy];
    Sig [] "autoRowCategories" [] RBool [On QItemModelBarDataProxy; On QItemModelSurfaceDataProxy];
    Sig [] "autoScaleY" [] RBool [On QHeightMapSurfaceDataProxy];
    Sig [VALUE_TYPE_QTGRAPHS_QGRAPHSLINE] "axisX" [] (RValue QGraphsLine) [On QGraphsTheme];
    Sig [VALUE_TYPE_QTGUI_QFONT] "axisXLabelFont" [] (RValue QFont) [On QGraphsTheme];
    Sig [VALUE_TYPE_QTGRAPHS_QGRAPHSLINE] "axisY" [] (RValue QGraphsLine) [On QGraphsTheme];
    Sig [VALUE_TYPE_QTGUI_QFONT] "axisYLabelFont" [] (RValue QFont) [On QGraphsTheme];
    Sig [VALUE_TYPE_QTGRAPHS_QGRAPHSLINE] "axisZ" [] (RValue QGraphsLine) [On QGraphsTheme];
    Sig [VALUE_TYPE_QTGUI_QFONT] "axisZLabelFont" [] (RValue QFont) [On QGraphsTheme];
    Sig [VALUE_TYPE_QTGUI_QCOLOR] "backgroundColor" [] (RValue QColor) [On QCustom3DLabel; On QGraphsTheme]
  ].

Definition methods_qtgraphs_0_s20 : list signature_row :=
  [
    Sig [TYPE_QTQML_QQMLCOMPONENT] "barDelegate" [] RObject [On QBarSeries];
    Sig [TYPE_QTGRAPHS_QBARSET] "barSets" [] (RList (IObject QObject)) [On QBarSeries];
    Sig [] "barWidth" [] RDouble [On QBarSeries];
    Sig [TYPE_QTGRAPHS_QBARSERIES] "barsType" [] (RMeta QBarSeries_BarsType) [On QBarSeries];
    Sig [VALUE_TYPE_QTGUI_QCOLOR] "baseColor" [] (RValue QColor) [On QAbstract3DSeries];
    Sig [VALUE_TYPE_QTGUI_QLINEARGRADIENT] "baseGradient" [] (RValue QLinearGradient) [On
        QAbstract3DSeries];
    Sig [VALUE_TYPE_QTGUI_QCOLOR] "borderColor" [] (RValue QColor) [On QAreaSeries; On QBarSet];
    Sig [VALUE_TYPE_QTGUI_QCOLOR] "borderColors" [] (RList (IValue QColor)) [On QBarSeries; On
        QGraphsTheme];
    Sig [] "borderWidth" [] RDouble [On QAreaSeries; On QBarSet; On QGraphsTheme]
  ].

Definition methods_qtgraphs_0_s29 : list signature_row :=
  [
    Sig [ENUM_QT_PENCAPSTYLE] "capStyle" [] (RMeta Qt_PenCapStyle) [On QLineSeries];
    Sig [] "categories" [] (RList (IMeta QString)) [On QBarCategoryAxis];
    Sig [] "clear" [] RVoid [On QBarCategoryAxis; On QBarSeries; On QBarSet];
    Sig [] "clearArray" [] RVoid [On QBar3DSeries];
    Sig [] "clearRow" [PMeta cxx_qsizetype] RVoid [On QBar3DSeries];
    Sig [] "colCount" [] (RMeta cxx_qsizetype) [On QBarDataProxy];
    Sig [VALUE_TYPE_QTGUI_QCOLOR] "color" [] (RValue QColor) [On QAreaSeries; On QBarSet];
    Sig [TYPE_QTGRAPHS_QGRAPHSTHEME] "colorScheme" [] (RMeta QGraphsTheme_ColorScheme) [On QGraphsTheme];
    Sig [TYPE_QTGRAPHS_QGRAPHSTHEME] "colorStyle" [] (RMeta QGraphsTheme_ColorStyle) [On QAbstract3DSeries;
        On QGraphsTheme]
  ].

Definition methods_qtgraphs_0_s38 : list signature_row :=
  [
    Sig [] "colorTable" [] (RList (IMeta cxx_unsigned_int)) [On QCustom3DVolume];
    Sig [] "columnCategories" [] (RList (IMeta QString)) [On QItemModelBarDataProxy; On
        QItemModelSurfaceDataProxy];
    Sig [] "columnCategoryIndex" [PString true] (RMeta cxx_qsizetype) [On QItemModelBarDataProxy; On
        QItemModelSurfaceDataProxy];
    Sig [] "columnLabels" [] (RList (IMeta QString)) [On QBar3DSeries];
    Sig [] "columnRole" [] RString [On QItemModelBarDataProxy; On QItemModelSurfaceDataProxy];
    Sig [VALUE_TYPE_QTCORE_QREGULAREXPRESSION] "columnRolePattern" [] (RValue QRegularExpression) [On
        QItemModelBarDataProxy; On QItemModelSurfaceDataProxy];
    Sig [] "columnRoleReplace" [] RString [On QItemModelBarDataProxy; On QItemModelSurfaceDataProxy];
    Sig [] "count" [] (RMeta cxx_qsizetype) [On QBarCategoryAxis; On QBarModelMapper; On QBarSeries; On
        QBarSet]
  ].

Definition methods_qtgraphs_0_s46 : list signature_row :=
  [
    Sig [TYPE_QTGRAPHS_QBARDATAPROXY] "dataProxy" [] RObject [On QBar3DSeries];
    Sig [] "deselectAllBars" [] RVoid [On QBarSet];
    Sig [] "deselectBar" [PMeta cxx_qsizetype] RVoid [On QBarSet];
    Sig [] "deselectBars" [PList (IMeta cxx_qsizetype)] RVoid [On QBarSet];
    Sig [] "devicePixelRatio" [] RDouble [On Q3DScene];
    Sig [] "drawSliceFrames" [] RBool [On QCustom3DVolume];
    Sig [] "drawSlices" [] RBool [On QCustom3DVolume];
    Sig [TYPE_QTGRAPHS_QBARSET] "find" [PObject QBarSet false] (RMeta cxx_qsizetype) [On QBarSeries];
    Sig [] "first" [] (RMeta cxx_qsizetype) [On QBarModelMapper];
    Sig [] "firstBarSetSection" [] (RMeta cxx_qsizetype) [On QBarModelMapper];
    Sig [VALUE_TYPE_QTGUI_QFONT] "font" [] (RValue QFont) [On QCustom3DLabel]
  ].

Definition methods_qtgraphs_0_s57 : list signature_row :=
  [
    Sig [VALUE_TYPE_QTCORE_QPOINT] "graphPositionQuery" [] (RValue QPoint) [On Q3DScene];
    Sig [VALUE_TYPE_QTGRAPHS_QGRAPHSLINE] "grid" [] (RValue QGraphsLine) [On QGraphsTheme];
    Sig [VALUE_TYPE_QTGUI_QIMAGE] "heightMap" [] (RValue QImage) [On QHeightMapSurfaceDataProxy];
    Sig [] "heightMapFile" [] RString [On QHeightMapSurfaceDataProxy];
    Sig [] "hide" [] RVoid [On QAbstractAxis; On QAbstractSeries];
    Sig [TYPE_QTGRAPHS_QBARSET] "insert" [PMeta cxx_qsizetype; PObject QBarSet false] RBool [On QBarSeries];
    Sig [] "insert" [PMeta cxx_qsizetype; PString true] RVoid [On QBarCategoryAxis];
    Sig [] "insert" [PMeta cxx_qsizetype; PNumber cxx_qreal] RVoid [On QBarSet];
    Sig [VALUE_TYPE_QTCORE_QPOINT] "invalidSelectionPoint" [] (RValue QPoint) [On Q3DScene];
    Sig [VALUE_TYPE_QTCORE_QPOINT] "invalidSelectionPosition" [] (RValue QPoint) [Static QBar3DSeries]
  ].

Definition methods_qtgraphs_0_s67 : list signature_row :=
  [
    Sig [] "isAutoAdjustRange" [] RBool [On QAbstract3DAxis];
    Sig [] "isBackgroundVisible" [] RBool [On QCustom3DLabel; On QGraphsTheme];
    Sig [] "isBarSelected" [PMeta cxx_qsizetype] RBool [On QBarSet];
    Sig [] "isBorderVisible" [] RBool [On QCustom3DLabel];
    Sig [] "isFacingCamera" [] RBool [On QCustom3DLabel];
    Sig [] "isGridVisible" [] RBool [On QAbstractAxis; On QGraphsTheme];
    Sig [] "isHoverable" [] RBool [On QAbstractSeries];
    Sig [] "isItemLabelVisible" [] RBool [On QAbstract3DSeries];
    Sig [] "isLabelBackgroundVisible" [] RBool [On QGraphsTheme];
    Sig [] "isLabelBorderVisible" [] RBool [On QGraphsTheme];
    Sig [] "isLineVisible" [] RBool [On QAbstractAxis];
    Sig [] "isMeshSmooth" [] RBool [On QAbstract3DSeries]
  ].

Definition methods_qtgraphs_0_s79 : list signature_row :=
  [
    Sig [] "isPlotAreaBackgroundVisible" [] RBool [On QGraphsTheme];
    Sig [VALUE_TYPE_QTCORE_QPOINT] "isPointInPrimarySubView" [PValue QPoint] RBool [On Q3DScene];
    Sig [VALUE_TYPE_QTCORE_QPOINT] "isPointInSecondarySubView" [PValue QPoint] RBool [On Q3DScene];
    Sig [] "isPositionAbsolute" [] RBool [On QCustom3DItem];
    Sig [] "isScalingAbsolute" [] RBool [On QCustom3DItem];
    Sig [] "isSecondarySubviewOnTop" [] RBool [On Q3DScene];
    Sig [] "isSelectable" [] RBool [On QAbstractSeries];
    Sig [] "isSelected" [] RBool [On QAreaSeries];
    Sig [] "isShadowCasting" [] RBool [On QCustom3DItem];
    Sig [] "isSlicingActive" [] RBool [On Q3DScene];
    Sig [] "isSubGridVisible" [] RBool [On QAbstractAxis];
    Sig [] "isTitleFixed" [] RBool [On QAbstract3DAxis]
  ].

Definition methods_qtgraphs_0_s91 : list signature_row :=
  [
    Sig [] "isTitleVisible" [] RBool [On QAbstract3DAxis; On QAbstractAxis];
    Sig [] "isVisible" [] RBool [On QAbstract3DSeries; On QAbstractAxis; On QAbstractSeries; On
        QCustom3DItem];
    Sig [] "itemLabel" [] RString [On QAbstract3DSeries];
    Sig [] "itemLabelFormat" [] RString [On QAbstract3DSeries];
    Sig [TYPE_QTCORE_QABSTRACTITEMMODEL] "itemModel" [] RObject [On QItemModelBarDataProxy; On
        QItemModelScatterDataProxy; On QItemModelSurfaceDataProxy];
    Sig [] "label" [] RString [On QBarSet];
    Sig [] "labelAutoAngle" [] RDouble [On QAbstract3DAxis];
    Sig [VALUE_TYPE_QTGUI_QCOLOR] "labelBackgroundColor" [] (RValue QColor) [On QGraphsTheme];
    Sig [VALUE_TYPE_QTGUI_QCOLOR] "labelColor" [] (RValue QColor) [On QBarSet];
    Sig [TYPE_QTQML_QQMLCOMPONENT] "labelDelegate" [] RObject [On QAbstractAxis]
  ].

Definition methods_qtgraphs_0_s101 : list signature_row :=
  [
    Sig [VALUE_TYPE_QTGUI_QFONT] "labelFont" [] (RValue QFont) [On QGraphsTheme];
    Sig [] "labelFormat" [] RString [On QDateTimeAxis];
    Sig [VALUE_TYPE_QTGUI_QCOLOR] "labelTextColor" [] (RValue QColor) [On QGraphsTheme];
    Sig [] "labels" [] (RList (IMeta QString)) [On QAbstract3DAxis; On QCategory3DAxis];
    Sig [] "labelsAngle" [] RDouble [On QAbstractAxis; On QBarSeries];
    Sig [] "labelsFormat" [] RString [On QBarSeries];
    Sig [] "labelsMargin" [] RDouble [On QBarSeries];
    Sig [TYPE_QTGRAPHS_QBARSERIES] "labelsPosition" [] (RMeta QBarSeries_LabelsPosition) [On QBarSeries];
    Sig [] "labelsPrecision" [] RDouble [On QBarSeries];
    Sig [] "labelsVisible" [] RBool [On QAbstract3DAxis; On QAbstractAxis; On QBarSeries; On QGraphsTheme]
  ].

Definition methods_qtgraphs_0_s111 : list signature_row :=
  [
    Sig [] "lastBarSetSection" [] (RMeta cxx_qsizetype) [On QBarModelMapper];
    Sig [TYPE_QTGRAPHS_QXYSERIES] "lowerSeries" [] RObject [On QAreaSeries];
    Sig [VALUE_TYPE_QTCORE_QDATETIME] "max" [] (RValue QDateTime) [On QDateTimeAxis];
    Sig [] "max" [] RString [On QBarCategoryAxis];
    Sig [] "max" [] RDouble [On QAbstract3DAxis];
    Sig [] "maxXValue" [] RDouble [On QHeightMapSurfaceDataProxy];
    Sig [] "maxYValue" [] RDouble [On QHeightMapSurfaceDataProxy];
    Sig [] "maxZValue" [] RDouble [On QHeightMapSurfaceDataProxy];
    Sig [TYPE_QTGRAPHS_QABSTRACT3DSERIES] "mesh" [] (RMeta QAbstract3DSeries_Mesh) [On QAbstract3DSeries];
    Sig [] "meshAngle" [] RDouble [On QBar3DSeries];
    Sig [] "meshFile" [] RString [On QCustom3DItem];
    Sig [VALUE_TYPE_QTGUI_QQUATERNION] "meshRotation" [] (RValue QQuaternion) [On QAbstract3DSeries]
  ].

Definition methods_qtgraphs_0_s123 : list signature_row :=
  [
    Sig [VALUE_TYPE_QTCORE_QDATETIME] "min" [] (RValue QDateTime) [On QDateTimeAxis];
    Sig [] "min" [] RString [On QBarCategoryAxis];
    Sig [] "min" [] RDouble [On QAbstract3DAxis];
    Sig [] "minXValue" [] RDouble [On QHeightMapSurfaceDataProxy];
    Sig [] "minYValue" [] RDouble [On QHeightMapSurfaceDataProxy];
    Sig [] "minZValue" [] RDouble [On QHeightMapSurfaceDataProxy];
    Sig [TYPE_QTCORE_QABSTRACTITEMMODEL] "model" [] RObject [On QBarModelMapper];
    Sig [VALUE_TYPE_QTGUI_QCOLOR] "multiHighlightColor" [] (RValue QColor) [On QAbstract3DSeries; On
        QGraphsTheme];
    Sig [VALUE_TYPE_QTGUI_QLINEARGRADIENT] "multiHighlightGradient" [] (RValue QLinearGradient) [On
        QAbstract3DSeries; On QGraphsTheme];
    Sig [TYPE_QTGRAPHS_QITEMMODELBARDATAPROXY] "multiMatchBehavior" [] (RMeta
        QItemModelBarDataProxy_MultiMatchBehavior) [On QItemModelBarDataProxy];
    Sig [TYPE_QTGRAPHS_QITEMMODELSURFACEDATAPROXY] "multiMatchBehavior" [] (RMeta
        QItemModelSurfaceDataProxy_MultiMatchBehavior) [On QItemModelSurfaceDataProxy]
  ].

Definition methods_qtgraphs_0_s134 : list signature_row :=
  [
    Sig [] "name" [] RString [On QAbstract3DSeries; On QAbstractSeries];
    Sig [] "opacity" [] RDouble [On QAbstractSeries];
    Sig [TYPE_QTGRAPHS_QABSTRACT3DAXIS] "orientation" [] (RMeta QAbstract3DAxis_AxisOrientation) [On
        QAbstract3DAxis];
    Sig [ENUM_QT_ORIENTATION] "orientation" [] (RMeta Qt_Orientation) [On QBarModelMapper];
    Sig [VALUE_TYPE_QTGUI_QCOLOR] "plotAreaBackgroundColor" [] (RValue QColor) [On QGraphsTheme];
    Sig [VALUE_TYPE_QTGUI_QVECTOR3D] "position" [] (RValue QVector3D) [On QCustom3DItem];
    Sig [] "preserveOpacity" [] RBool [On QCustom3DVolume];
    Sig [VALUE_TYPE_QTCORE_QRECT] "primarySubViewport" [] (RValue QRect) [On Q3DScene];
    Sig [] "remap" [PString true; PString true; PString true; PString true] RVoid [On
        QItemModelScatterDataProxy]
  ].

Definition methods_qtgraphs_0_s143 : list signature_row :=
  [
    Sig [] "remap" [PString true; PString true; PString true; PString true; PString true; PStringList;
        PStringList] RVoid [On QItemModelSurfaceDataProxy];
    Sig [] "remap" [PString true; PString true; PString true; PString true; PStringList; PStringList] RVoid
        [On QItemModelBarDataProxy];
    Sig [TYPE_QTGRAPHS_QBARSET] "remove" [PObject QBarSet false] RBool [On QBarSeries];
    Sig [] "remove" [PString true] RVoid [On QBarCategoryAxis];
    Sig [] "remove" [PMeta cxx_qsizetype] RBool [On QBarSeries];
    Sig [] "remove" [PMeta cxx_qsizetype] RVoid [On QBarCategoryAxis];
    Sig [] "remove" [PMeta cxx_qsizetype; PMeta cxx_qsizetype] RVoid [On QBarSet];
    Sig [] "removeMultiple" [PMeta cxx_qsizetype; PMeta cxx_qsizetype] RVoid [On QBarSeries]
  ].

Definition methods_qtgraphs_0_s151 : list signature_row :=
  [
    Sig [ENUM_QT_AXIS; VALUE_TYPE_QTGUI_QIMAGE] "renderSlice" [PValue Qt_Axis; PInt] (RValue QImage) [On
        QCustom3DVolume];
    Sig [TYPE_QTGRAPHS_QBARSET] "replace" [PObject QBarSet false; PObject QBarSet false] RBool [On
        QBarSeries];
    Sig [TYPE_QTGRAPHS_QBARSET] "replace" [PList (IObject QBarSet)] RBool [On QBarSeries];
    Sig [] "replace" [PString true; PString true] RVoid [On QBarCategoryAxis];
    Sig [TYPE_QTGRAPHS_QBARSET] "replace" [PMeta cxx_qsizetype; PObject QBarSet false] RVoid [On
        QBarSeries];
    Sig [] "replace" [PMeta cxx_qsizetype; PNumber cxx_qreal] RVoid [On QBarSet];
    Sig [] "resetArray" [] RVoid [On QBarDataProxy];
    Sig [VALUE_TYPE_QTGUI_QQUATERNION] "rotation" [] (RValue QQuaternion) [On QCustom3DItem];
    Sig [] "rotationRole" [] RString [On QItemModelBarDataProxy; On QItemModelScatterDataProxy]
  ].

Definition methods_qtgraphs_0_s160 : list signature_row :=
  [
    Sig [VALUE_TYPE_QTCORE_QREGULAREXPRESSION] "rotationRolePattern" [] (RValue QRegularExpression) [On
        QItemModelBarDataProxy; On QItemModelScatterDataProxy];
    Sig [] "rotationRoleReplace" [] RString [On QItemModelBarDataProxy; On QItemModelScatterDataProxy];
    Sig [] "rowCategories" [] (RList (IMeta QString)) [On QItemModelBarDataProxy; On
        QItemModelSurfaceDataProxy];
    Sig [] "rowCategoryIndex" [PString true] (RMeta cxx_qsizetype) [On QItemModelBarDataProxy; On
        QItemModelSurfaceDataProxy];
    Sig [VALUE_TYPE_QTGUI_QCOLOR] "rowColors" [] (RList (IValue QColor)) [On QBar3DSeries];
    Sig [] "rowCount" [] (RMeta cxx_qsizetype) [On QBarDataProxy];
    Sig [] "rowLabels" [] (RList (IMeta QString)) [On QBar3DSeries];
    Sig [] "rowRole" [] RString [On QItemModelBarDataProxy; On QItemModelSurfaceDataProxy]
  ].

Definition methods_qtgraphs_0_s168 : list signature_row :=
  [
    Sig [VALUE_TYPE_QTCORE_QREGULAREXPRESSION] "rowRolePattern" [] (RValue QRegularExpression) [On
        QItemModelBarDataProxy; On QItemModelSurfaceDataProxy];
    Sig [] "rowRoleReplace" [] RString [On QItemModelBarDataProxy; On QItemModelSurfaceDataProxy];
    Sig [VALUE_TYPE_QTGUI_QVECTOR3D] "scaling" [] (RValue QVector3D) [On QCustom3DItem];
    Sig [VALUE_TYPE_QTCORE_QRECT] "secondarySubViewport" [] (RValue QRect) [On Q3DScene];
    Sig [] "selectAllBars" [] RVoid [On QBarSet];
    Sig [] "selectBar" [PMeta cxx_qsizetype] RVoid [On QBarSet];
    Sig [] "selectBars" [PList (IMeta cxx_qsizetype)] RVoid [On QBarSet];
    Sig [VALUE_TYPE_QTCORE_QPOINT] "selectedBar" [] (RValue QPoint) [On QBar3DSeries];
    Sig [] "selectedBars" [] (RList (IMeta cxx_qsizetype)) [On QBarSet]
  ].

Definition methods_qtgraphs_0_s177 : list signature_row :=
  [
    Sig [VALUE_TYPE_QTGUI_QCOLOR] "selectedBorderColor" [] (RValue QColor) [On QAreaSeries];
    Sig [VALUE_TYPE_QTGUI_QCOLOR] "selectedColor" [] (RValue QColor) [On QAreaSeries; On QBarSet];
    Sig [VALUE_TYPE_QTCORE_QPOINT] "selectionQueryPosition" [] (RValue QPoint) [On Q3DScene];
    Sig [TYPE_QTGRAPHS_QBAR3DSERIES] "series" [] RObject [On QBarDataProxy];
    Sig [TYPE_QTGRAPHS_QBARSERIES] "series" [] RObject [On QBarModelMapper];
    Sig [VALUE_TYPE_QTGUI_QCOLOR] "seriesColors" [] (RList (IValue QColor)) [On QBarSeries; On
        QGraphsTheme];
    Sig [VALUE_TYPE_QTGUI_QLINEARGRADIENT] "seriesGradients" [] (RList (IValue QLinearGradient)) [On
        QGraphsTheme];
    Sig [] "setAlphaMultiplier" [PNumber cxx_float] RVoid [On QCustom3DVolume];
    Sig [] "setAutoAdjustRange" [PBool] RVoid [On QAbstract3DAxis]
  ].

Definition methods_qtgraphs_0_s186 : list signature_row :=
  [
    Sig [] "setAutoColumnCategories" [PBool] RVoid [On QItemModelBarDataProxy; On
        QItemModelSurfaceDataProxy];
    Sig [] "setAutoRowCategories" [PBool] RVoid [On QItemModelBarDataProxy; On QItemModelSurfaceDataProxy];
    Sig [] "setAutoScaleY" [PBool] RVoid [On QHeightMapSurfaceDataProxy];
    Sig [VALUE_TYPE_QTGRAPHS_QGRAPHSLINE] "setAxisX" [PValue QGraphsLine] RVoid [On QGraphsTheme];
    Sig [VALUE_TYPE_QTGUI_QFONT] "setAxisXLabelFont" [PValue QFont] RVoid [On QGraphsTheme];
    Sig [VALUE_TYPE_QTGRAPHS_QGRAPHSLINE] "setAxisY" [PValue QGraphsLine] RVoid [On QGraphsTheme];
    Sig [VALUE_TYPE_QTGUI_QFONT] "setAxisYLabelFont" [PValue QFont] RVoid [On QGraphsTheme];
    Sig [VALUE_TYPE_QTGRAPHS_QGRAPHSLINE] "setAxisZ" [PValue QGraphsLine] RVoid [On QGraphsTheme];
    Sig [VALUE_TYPE_QTGUI_QFONT] "setAxisZLabelFont" [PValue QFont] RVoid [On QGraphsTheme]
  ].

Definition methods_qtgraphs_0_s195 : list signature_row :=
  [
    Sig [VALUE_TYPE_QTGUI_QCOLOR] "setBackgroundColor" [PValue QColor] RVoid [On QCustom3DLabel; On
        QGraphsTheme];
    Sig [] "setBackgroundVisible" [PBool] RVoid [On QCustom3DLabel; On QGraphsTheme];
    Sig [TYPE_QTQML_QQMLCOMPONENT] "setBarDelegate" [PObject QQmlComponent false] RVoid [On QBarSeries];
    Sig [] "setBarSelected" [PMeta cxx_qsizetype; PBool] RVoid [On QBarSet];
    Sig [] "setBarWidth" [PNumber cxx_qreal] RVoid [On QBarSeries];
    Sig [TYPE_QTGRAPHS_QBARSERIES] "setBarsType" [PValue QBarSeries_BarsType] RVoid [On QBarSeries];
    Sig [VALUE_TYPE_QTGUI_QCOLOR] "setBaseColor" [PValue QColor] RVoid [On QAbstract3DSeries];
    Sig [VALUE_TYPE_QTGUI_QLINEARGRADIENT] "setBaseGradient" [PValue QLinearGradient] RVoid [On
        QAbstract3DSeries]
  ].

Definition methods_qtgraphs_0_s203 : list signature_row :=
  [
    Sig [VALUE_TYPE_QTGUI_QCOLOR] "setBorderColor" [PValue QColor] RVoid [On QAreaSeries; On QBarSet];
    Sig [VALUE_TYPE_QTGUI_QCOLOR] "setBorderColors" [PList (IValue QColor)] RVoid [On QBarSeries; On
        QGraphsTheme];
    Sig [] "setBorderVisible" [PBool] RVoid [On QCustom3DLabel];
    Sig [] "setBorderWidth" [PNumber cxx_qreal] RVoid [On QAreaSeries; On QBarSet; On QGraphsTheme];
    Sig [ENUM_QT_PENCAPSTYLE] "setCapStyle" [PValue Qt_PenCapStyle] RVoid [On QLineSeries];
    Sig [] "setCategories" [PStringList] RVoid [On QBarCategoryAxis];
    Sig [VALUE_TYPE_QTGUI_QCOLOR] "setColor" [PValue QColor] RVoid [On QAreaSeries; On QBarSet]
  ].

Definition methods_qtgraphs_0_s210 : list signature_row :=
  [
    Sig [TYPE_QTGRAPHS_QGRAPHSTHEME] "setColorScheme" [PValue QGraphsTheme_ColorScheme] RVoid [On
        QGraphsTheme];
    Sig [TYPE_QTGRAPHS_QGRAPHSTHEME] "setColorStyle" [PValue QGraphsTheme_ColorStyle] RVoid [On
        QAbstract3DSeries; On QGraphsTheme];
    Sig [] "setColorTable" [PList (IMeta cxx_unsigned_int)] RVoid [On QCustom3DVolume];
    Sig [] "setColumnCategories" [PStringList] RVoid [On QItemModelBarDataProxy; On
        QItemModelSurfaceDataProxy];
    Sig [] "setColumnLabels" [PStringList] RVoid [On QBar3DSeries];
    Sig [] "setColumnRole" [PString true] RVoid [On QItemModelBarDataProxy; On QItemModelSurfaceDataProxy];
    Sig [VALUE_TYPE_QTCORE_QREGULAREXPRESSION] "setColumnRolePattern" [PValue QRegularExpression] RVoid [On
        QItemModelBarDataProxy; On QItemModelSurfaceDataProxy]
  ].

Definition methods_qtgraphs_0_s217 : list signature_row :=
  [
    Sig [] "setColumnRoleReplace" [PString true] RVoid [On QItemModelBarDataProxy; On
        QItemModelSurfaceDataProxy];
    Sig [] "setCount" [PMeta cxx_qsizetype] RVoid [On QBarModelMapper];
    Sig [TYPE_QTGRAPHS_QBARDATAPROXY] "setDataProxy" [PObject QBarDataProxy false] RVoid [On QBar3DSeries];
    Sig [] "setDevicePixelRatio" [PNumber cxx_qreal] RVoid [On Q3DScene];
    Sig [] "setDrawSliceFrames" [PBool] RVoid [On QCustom3DVolume];
    Sig [] "setDrawSlices" [PBool] RVoid [On QCustom3DVolume];
    Sig [] "setFacingCamera" [PBool] RVoid [On QCustom3DLabel];
    Sig [] "setFirst" [PMeta cxx_qsizetype] RVoid [On QBarModelMapper];
    Sig [] "setFirstBarSetSection" [PMeta cxx_qsizetype] RVoid [On QBarModelMapper];
    Sig [VALUE_TYPE_QTGUI_QFONT] "setFont" [PValue QFont] RVoid [On QCustom3DLabel]
  ].

Definition methods_qtgraphs_0_s227 : list signature_row :=
  [
    Sig [VALUE_TYPE_QTCORE_QPOINT] "setGraphPositionQuery" [PValue QPoint] RVoid [On Q3DScene];
    Sig [VALUE_TYPE_QTGRAPHS_QGRAPHSLINE] "setGrid" [PValue QGraphsLine] RVoid [On QGraphsTheme];
    Sig [] "setGridVisible" [PBool] RVoid [On QAbstractAxis; On QGraphsTheme];
    Sig [VALUE_TYPE_QTGUI_QIMAGE] "setHeightMap" [PValue QImage] RVoid [On QHeightMapSurfaceDataProxy];
    Sig [] "setHeightMapFile" [PString true] RVoid [On QHeightMapSurfaceDataProxy];
    Sig [] "setHoverable" [PBool] RVoid [On QAbstractSeries];
    Sig [] "setItemLabelFormat" [PString true] RVoid [On QAbstract3DSeries];
    Sig [] "setItemLabelVisible" [PBool] RVoid [On QAbstract3DSeries];
    Sig [TYPE_QTCORE_QABSTRACTITEMMODEL] "setItemModel" [PObject QAbstractItemModel false] RVoid [On
        QItemModelBarDataProxy; On QItemModelScatterDataProxy; On QItemModelSurfaceDataProxy]
  ].

Definition methods_qtgraphs_0_s236 : list signature_row :=
  [
    Sig [] "setLabel" [PString true] RVoid [On QBarSet];
    Sig [] "setLabelAutoAngle" [PNumber cxx_float] RVoid [On QAbstract3DAxis];
    Sig [VALUE_TYPE_QTGUI_QCOLOR] "setLabelBackgroundColor" [PValue QColor] RVoid [On QGraphsTheme];
    Sig [] "setLabelBackgroundVisible" [PBool] RVoid [On QGraphsTheme];
    Sig [] "setLabelBorderVisible" [PBool] RVoid [On QGraphsTheme];
    Sig [VALUE_TYPE_QTGUI_QCOLOR] "setLabelColor" [PValue QColor] RVoid [On QBarSet];
    Sig [TYPE_QTQML_QQMLCOMPONENT] "setLabelDelegate" [PObject QQmlComponent false] RVoid [On
        QAbstractAxis];
    Sig [VALUE_TYPE_QTGUI_QFONT] "setLabelFont" [PValue QFont] RVoid [On QGraphsTheme];
    Sig [] "setLabelFormat" [PString true] RVoid [On QDateTimeAxis];
    Sig [VALUE_TYPE_QTGUI_QCOLOR] "setLabelTextColor" [PValue QColor] RVoid [On QGraphsTheme]
  ].

Definition methods_qtgraphs_0_s246 : list signature_row :=
  [
    Sig [] "setLabels" [PStringList] RVoid [On QAbstract3DAxis; On QCategory3DAxis];
    Sig [] "setLabelsAngle" [PNumber cxx_qreal] RVoid [On QAbstractAxis; On QBarSeries];
    Sig [] "setLabelsFormat" [PString true] RVoid [On QBarSeries];
    Sig [] "setLabelsMargin" [PNumber cxx_qreal] RVoid [On QBarSeries];
    Sig [TYPE_QTGRAPHS_QBARSERIES] "setLabelsPosition" [PValue QBarSeries_LabelsPosition] RVoid [On
        QBarSeries];
    Sig [] "setLabelsPrecision" [PInt] RVoid [On QBarSeries];
    Sig [] "setLabelsVisible" [PBool] RVoid [On QAbstract3DAxis; On QAbstractAxis; On QBarSeries; On
        QGraphsTheme];
    Sig [] "setLastBarSetSection" [PMeta cxx_qsizetype] RVoid [On QBarModelMapper]
  ].

Definition methods_qtgraphs_0_s254 : list signature_row :=
  [
    Sig [] "setLineVisible" [PBool] RVoid [On QAbstractAxis];
    Sig [TYPE_QTGRAPHS_QXYSERIES] "setLowerSeries" [PObject QXYSeries false] RVoid [On QAreaSeries];
    Sig [VALUE_TYPE_QTCORE_QDATETIME] "setMax" [PValue QDateTime] RVoid [On QDateTimeAxis];
    Sig [] "setMax" [PString true] RVoid [On QBarCategoryAxis];
    Sig [] "setMax" [PVariant] RVoid [On QAbstractAxis];
    Sig [] "setMax" [PNumber cxx_float] RVoid [On QAbstract3DAxis];
    Sig [] "setMaxXValue" [PNumber cxx_float] RVoid [On QHeightMapSurfaceDataProxy];
    Sig [] "setMaxYValue" [PNumber cxx_float] RVoid [On QHeightMapSurfaceDataProxy];
    Sig [] "setMaxZValue" [PNumber cxx_float] RVoid [On QHeightMapSurfaceDataProxy];
    Sig [TYPE_QTGRAPHS_QABSTRACT3DSERIES] "setMesh" [PValue QAbstract3DSeries_Mesh] RVoid [On
        QAbstract3DSeries]
  ].

Definition methods_qtgraphs_0_s264 : list signature_row :=
  [
    Sig [] "setMeshAngle" [PNumber cxx_float] RVoid [On QBar3DSeries];
    Sig [VALUE_TYPE_QTGUI_QVECTOR3D] "setMeshAxisAndAngle" [PValue QVector3D; PNumber cxx_float] RVoid [On
        QAbstract3DSeries];
    Sig [] "setMeshFile" [PString true] RVoid [On QCustom3DItem];
    Sig [VALUE_TYPE_QTGUI_QQUATERNION] "setMeshRotation" [PValue QQuaternion] RVoid [On QAbstract3DSeries];
    Sig [] "setMeshSmooth" [PBool] RVoid [On QAbstract3DSeries];
    Sig [VALUE_TYPE_QTCORE_QDATETIME] "setMin" [PValue QDateTime] RVoid [On QDateTimeAxis];
    Sig [] "setMin" [PString true] RVoid [On QBarCategoryAxis];
    Sig [] "setMin" [PVariant] RVoid [On QAbstractAxis];
    Sig [] "setMin" [PNumber cxx_float] RVoid [On QAbstract3DAxis];
    Sig [] "setMinXValue" [PNumber cxx_float] RVoid [On QHeightMapSurfaceDataProxy]
  ].

Definition methods_qtgraphs_0_s274 : list signature_row :=
  [
    Sig [] "setMinYValue" [PNumber cxx_float] RVoid [On QHeightMapSurfaceDataProxy];
    Sig [] "setMinZValue" [PNumber cxx_float] RVoid [On QHeightMapSurfaceDataProxy];
    Sig [TYPE_QTCORE_QABSTRACTITEMMODEL] "setModel" [PObject QAbstractItemModel false] RVoid [On
        QBarModelMapper];
    Sig [VALUE_TYPE_QTGUI_QCOLOR] "setMultiHighlightColor" [PValue QColor] RVoid [On QAbstract3DSeries; On
        QGraphsTheme];
    Sig [VALUE_TYPE_QTGUI_QLINEARGRADIENT] "setMultiHighlightGradient" [PValue QLinearGradient] RVoid [On
        QAbstract3DSeries; On QGraphsTheme];
    Sig [TYPE_QTGRAPHS_QITEMMODELBARDATAPROXY] "setMultiMatchBehavior" [PValue
        QItemModelBarDataProxy_MultiMatchBehavior] RVoid [On QItemModelBarDataProxy];
    Sig [TYPE_QTGRAPHS_QITEMMODELSURFACEDATAPROXY] "setMultiMatchBehavior" [PValue
        QItemModelSurfaceDataProxy_MultiMatchBehavior] RVoid [On QItemModelSurfaceDataProxy];
    Sig [] "setName" [PString true] RVoid [On QAbstract3DSeries; On QAbstractSeries];
    Sig [] "setOpacity" [PNumber cxx_qreal] RVoid [On QAbstractSeries]
  ].

Definition methods_qtgraphs_0_s283 : list signature_row :=
  [
    Sig [ENUM_QT_ORIENTATION] "setOrientation" [PValue Qt_Orientation] RVoid [On QBarModelMapper];
    Sig [VALUE_TYPE_QTGUI_QCOLOR] "setPlotAreaBackgroundColor" [PValue QColor] RVoid [On QGraphsTheme];
    Sig [] "setPlotAreaBackgroundVisible" [PBool] RVoid [On QGraphsTheme];
    Sig [VALUE_TYPE_QTGUI_QVECTOR3D] "setPosition" [PValue QVector3D] RVoid [On QCustom3DItem];
    Sig [] "setPositionAbsolute" [PBool] RVoid [On QCustom3DItem];
    Sig [] "setPreserveOpacity" [PBool] RVoid [On QCustom3DVolume];
    Sig [VALUE_TYPE_QTCORE_QRECT] "setPrimarySubViewport" [PValue QRect] RVoid [On Q3DScene];
    Sig [] "setRange" [PString true; PString true] RVoid [On QBarCategoryAxis];
    Sig [] "setRange" [PVariant; PVariant] RVoid [On QAbstractAxis];
    Sig [] "setRange" [PNumber cxx_float; PNumber cxx_float] RVoid [On QAbstract3DAxis]
  ].

Definition methods_qtgraphs_0_s293 : list signature_row :=
  [
    Sig [VALUE_TYPE_QTGUI_QQUATERNION] "setRotation" [PValue QQuaternion] RVoid [On QCustom3DItem];
    Sig [VALUE_TYPE_QTGUI_QVECTOR3D] "setRotationAxisAndAngle" [PValue QVector3D; PNumber cxx_float] RVoid
        [On QCustom3DItem];
    Sig [] "setRotationRole" [PString true] RVoid [On QItemModelBarDataProxy; On
        QItemModelScatterDataProxy];
    Sig [VALUE_TYPE_QTCORE_QREGULAREXPRESSION] "setRotationRolePattern" [PValue QRegularExpression] RVoid
        [On QItemModelBarDataProxy; On QItemModelScatterDataProxy];
    Sig [] "setRotationRoleReplace" [PString true] RVoid [On QItemModelBarDataProxy; On
        QItemModelScatterDataProxy];
    Sig [] "setRowCategories" [PStringList] RVoid [On QItemModelBarDataProxy; On
        QItemModelSurfaceDataProxy];
    Sig [VALUE_TYPE_QTGUI_QCOLOR] "setRowColors" [PList (IValue QColor)] RVoid [On QBar3DSeries];
    Sig [] "setRowLabels" [PStringList] RVoid [On QBar3DSeries]
  ].

Definition methods_qtgraphs_0_s301 : list signature_row :=
  [
    Sig [] "setRowRole" [PString true] RVoid [On QItemModelBarDataProxy; On QItemModelSurfaceDataProxy];
    Sig [VALUE_TYPE_QTCORE_QREGULAREXPRESSION] "setRowRolePattern" [PValue QRegularExpression] RVoid [On
        QItemModelBarDataProxy; On QItemModelSurfaceDataProxy];
    Sig [] "setRowRoleReplace" [PString true] RVoid [On QItemModelBarDataProxy; On
        QItemModelSurfaceDataProxy];
    Sig [VALUE_TYPE_QTGUI_QVECTOR3D] "setScaling" [PValue QVector3D] RVoid [On QCustom3DItem];
    Sig [] "setScalingAbsolute" [PBool] RVoid [On QCustom3DItem];
    Sig [VALUE_TYPE_QTCORE_QRECT] "setSecondarySubViewport" [PValue QRect] RVoid [On Q3DScene];
    Sig [] "setSecondarySubviewOnTop" [PBool] RVoid [On Q3DScene];
    Sig [] "setSelectable" [PBool] RVoid [On QAbstractSeries];
    Sig [] "setSelected" [PBool] RVoid [On QAreaSeries]
  ].

Definition methods_qtgraphs_0_s310 : list signature_row :=
  [
    Sig [VALUE_TYPE_QTCORE_QPOINT] "setSelectedBar" [PValue QPoint] RVoid [On QBar3DSeries];
    Sig [VALUE_TYPE_QTGUI_QCOLOR] "setSelectedBorderColor" [PValue QColor] RVoid [On QAreaSeries];
    Sig [VALUE_TYPE_QTGUI_QCOLOR] "setSelectedColor" [PValue QColor] RVoid [On QAreaSeries; On QBarSet];
    Sig [VALUE_TYPE_QTCORE_QPOINT] "setSelectionQueryPosition" [PValue QPoint] RVoid [On Q3DScene];
    Sig [TYPE_QTGRAPHS_QBARSERIES] "setSeries" [PObject QBarSeries false] RVoid [On QBarModelMapper];
    Sig [VALUE_TYPE_QTGUI_QCOLOR] "setSeriesColors" [PList (IValue QColor)] RVoid [On QBarSeries; On
        QGraphsTheme];
    Sig [VALUE_TYPE_QTGUI_QLINEARGRADIENT] "setSeriesGradients" [PList (IValue QLinearGradient)] RVoid [On
        QGraphsTheme];
    Sig [] "setShadowCasting" [PBool] RVoid [On QCustom3DItem]
  ].

Definition methods_qtgraphs_0_s318 : list signature_row :=
  [
    Sig [VALUE_TYPE_QTGUI_QCOLOR] "setSingleHighlightColor" [PValue QColor] RVoid [On QAbstract3DSeries; On
        QGraphsTheme];
    Sig [VALUE_TYPE_QTGUI_QLINEARGRADIENT] "setSingleHighlightGradient" [PValue QLinearGradient] RVoid [On
        QAbstract3DSeries; On QGraphsTheme];
    Sig [VALUE_TYPE_QTGUI_QCOLOR] "setSliceFrameColor" [PValue QColor] RVoid [On QCustom3DVolume];
    Sig [VALUE_TYPE_QTGUI_QVECTOR3D] "setSliceFrameGaps" [PValue QVector3D] RVoid [On QCustom3DVolume];
    Sig [VALUE_TYPE_QTGUI_QVECTOR3D] "setSliceFrameThicknesses" [PValue QVector3D] RVoid [On
        QCustom3DVolume];
    Sig [VALUE_TYPE_QTGUI_QVECTOR3D] "setSliceFrameWidths" [PValue QVector3D] RVoid [On QCustom3DVolume];
    Sig [] "setSliceIndexX" [PInt] RVoid [On QCustom3DVolume];
    Sig [] "setSliceIndexY" [PInt] RVoid [On QCustom3DVolume];
    Sig [] "setSliceIndexZ" [PInt] RVoid [On QCustom3DVolume]
  ].

Definition methods_qtgraphs_0_s327 : list signature_row :=
  [
    Sig [] "setSliceIndices" [PInt; PInt; PInt] RVoid [On QCustom3DVolume];
    Sig [] "setSlicingActive" [PBool] RVoid [On Q3DScene];
    Sig [] "setSubGridVisible" [PBool] RVoid [On QAbstractAxis];
    Sig [ENUM_QT_AXIS; VALUE_TYPE_QTGUI_QIMAGE] "setSubTextureData" [PValue Qt_Axis; PInt; PValue QImage]
        RVoid [On QCustom3DVolume];
    Sig [] "setSubTickCount" [PInt] RVoid [On QDateTimeAxis];
    Sig [] "setText" [PString true] RVoid [On QCustom3DLabel];
    Sig [VALUE_TYPE_QTGUI_QCOLOR] "setTextColor" [PValue QColor] RVoid [On QCustom3DLabel];
    Sig [] "setTextureDepth" [PInt] RVoid [On QCustom3DVolume];
    Sig [] "setTextureDimensions" [PInt; PInt; PInt] RVoid [On QCustom3DVolume]
  ].

Definition methods_qtgraphs_0_s336 : list signature_row :=
  [
    Sig [] "setTextureFile" [PString true] RVoid [On QCustom3DItem];
    Sig [TYPE_QTGUI_QIMAGE] "setTextureFormat" [PValue QImage_Format] RVoid [On QCustom3DVolume];
    Sig [] "setTextureHeight" [PInt] RVoid [On QCustom3DVolume];
    Sig [VALUE_TYPE_QTGUI_QIMAGE] "setTextureImage" [PValue QImage] RVoid [On QCustom3DItem];
    Sig [] "setTextureWidth" [PInt] RVoid [On QCustom3DVolume];
    Sig [] "setTickInterval" [PNumber cxx_qreal] RVoid [On QDateTimeAxis];
    Sig [] "setTitle" [PString true] RVoid [On QAbstract3DAxis];
    Sig [VALUE_TYPE_QTGUI_QCOLOR] "setTitleColor" [PValue QColor] RVoid [On QAbstractAxis];
    Sig [] "setTitleFixed" [PBool] RVoid [On QAbstract3DAxis];
    Sig [VALUE_TYPE_QTGUI_QFONT] "setTitleFont" [PValue QFont] RVoid [On QAbstractAxis]
  ].

Definition methods_qtgraphs_0_s346 : list signature_row :=
  [
    Sig [] "setTitleOffset" [PNumber cxx_float] RVoid [On QAbstract3DAxis];
    Sig [] "setTitleText" [PString true] RVoid [On QAbstractAxis];
    Sig [] "setTitleVisible" [PBool] RVoid [On QAbstract3DAxis; On QAbstractAxis];
    Sig [TYPE_QTGRAPHS_QXYSERIES] "setUpperSeries" [PObject QXYSeries false] RVoid [On QAreaSeries];
    Sig [] "setUseHighDefShader" [PBool] RVoid [On QCustom3DVolume];
    Sig [] "setUseModelCategories" [PBool] RVoid [On QItemModelBarDataProxy; On QItemModelSurfaceDataProxy];
    Sig [] "setUserDefinedMesh" [PString true] RVoid [On QAbstract3DSeries];
    Sig [] "setValueRanges" [PNumber cxx_float; PNumber cxx_float; PNumber cxx_float; PNumber cxx_float]
        RVoid [On QHeightMapSurfaceDataProxy];
    Sig [] "setValueRole" [PString true] RVoid [On QItemModelBarDataProxy]
  ].

Definition methods_qtgraphs_0_s355 : list signature_row :=
  [
    Sig [VALUE_TYPE_QTCORE_QREGULAREXPRESSION] "setValueRolePattern" [PValue QRegularExpression] RVoid [On
        QItemModelBarDataProxy];
    Sig [] "setValueRoleReplace" [PString true] RVoid [On QItemModelBarDataProxy];
    Sig [] "setValuesMultiplier" [PNumber cxx_qreal] RVoid [On QAbstractSeries];
    Sig [] "setVisible" [PBool] RVoid [On QAbstract3DSeries; On QAbstractAxis; On QAbstractSeries; On
        QCustom3DItem];
    Sig [] "setWidth" [PNumber cxx_qreal] RVoid [On QLineSeries];
    Sig [] "setXPosRole" [PString true] RVoid [On QItemModelScatterDataProxy; On
        QItemModelSurfaceDataProxy];
    Sig [VALUE_TYPE_QTCORE_QREGULAREXPRESSION] "setXPosRolePattern" [PValue QRegularExpression] RVoid [On
        QItemModelScatterDataProxy; On QItemModelSurfaceDataProxy];
    Sig [] "setXPosRoleReplace" [PString true] RVoid [On QItemModelScatterDataProxy; On
        QItemModelSurfaceDataProxy]
  ].

Definition methods_qtgraphs_0_s363 : list signature_row :=
  [
    Sig [] "setYPosRole" [PString true] RVoid [On QItemModelScatterDataProxy; On
        QItemModelSurfaceDataProxy];
    Sig [VALUE_TYPE_QTCORE_QREGULAREXPRESSION] "setYPosRolePattern" [PValue QRegularExpression] RVoid [On
        QItemModelScatterDataProxy; On QItemModelSurfaceDataProxy];
    Sig [] "setYPosRoleReplace" [PString true] RVoid [On QItemModelScatterDataProxy; On
        QItemModelSurfaceDataProxy];
    Sig [] "setZPosRole" [PString true] RVoid [On QItemModelScatterDataProxy; On
        QItemModelSurfaceDataProxy];
    Sig [VALUE_TYPE_QTCORE_QREGULAREXPRESSION] "setZPosRolePattern" [PValue QRegularExpression] RVoid [On
        QItemModelScatterDataProxy; On QItemModelSurfaceDataProxy];
    Sig [] "setZPosRoleReplace" [PString true] RVoid [On QItemModelScatterDataProxy; On
        QItemModelSurfaceDataProxy];
    Sig [] "show" [] RVoid [On QAbstractAxis; On QAbstractSeries]
  ].

Definition methods_qtgraphs_0_s370 : list signature_row :=
  [
    Sig [VALUE_TYPE_QTGUI_QCOLOR] "singleHighlightColor" [] (RValue QColor) [On QAbstract3DSeries; On
        QGraphsTheme];
    Sig [VALUE_TYPE_QTGUI_QLINEARGRADIENT] "singleHighlightGradient" [] (RValue QLinearGradient) [On
        QAbstract3DSeries; On QGraphsTheme];
    Sig [VALUE_TYPE_QTGUI_QCOLOR] "sliceFrameColor" [] (RValue QColor) [On QCustom3DVolume];
    Sig [VALUE_TYPE_QTGUI_QVECTOR3D] "sliceFrameGaps" [] (RValue QVector3D) [On QCustom3DVolume];
    Sig [VALUE_TYPE_QTGUI_QVECTOR3D] "sliceFrameThicknesses" [] (RValue QVector3D) [On QCustom3DVolume];
    Sig [VALUE_TYPE_QTGUI_QVECTOR3D] "sliceFrameWidths" [] (RValue QVector3D) [On QCustom3DVolume];
    Sig [] "sliceIndexX" [] RDouble [On QCustom3DVolume];
    Sig [] "sliceIndexY" [] RDouble [On QCustom3DVolume];
    Sig [] "sliceIndexZ" [] RDouble [On QCustom3DVolume];
    Sig [] "subTickCount" [] RDouble [On QDateTimeAxis]
  ].

Definition methods_qtgraphs_0_s380 : list signature_row :=
  [
    Sig [] "sum" [] RDouble [On QBarSet];
    Sig [TYPE_QTGRAPHS_QBARSET] "take" [PObject QBarSet false] RBool [On QBarSeries];
    Sig [] "text" [] RString [On QCustom3DLabel];
    Sig [VALUE_TYPE_QTGUI_QCOLOR] "textColor" [] (RValue QColor) [On QCustom3DLabel];
    Sig [] "textureDataWidth" [] RDouble [On QCustom3DVolume];
    Sig [] "textureDepth" [] RDouble [On QCustom3DVolume];
    Sig [] "textureFile" [] RString [On QCustom3DItem];
    Sig [TYPE_QTGUI_QIMAGE] "textureFormat" [] (RMeta QImage_Format) [On QCustom3DVolume];
    Sig [] "textureHeight" [] RDouble [On QCustom3DVolume];
    Sig [] "textureWidth" [] RDouble [On QCustom3DVolume];
    Sig [TYPE_QTGRAPHS_QGRAPHSTHEME] "theme" [] (RMeta QGraphsTheme_Theme) [On QGraphsTheme];
    Sig [] "tickInterval" [] RDouble [On QDateTimeAxis]
  ].

Definition methods_qtgraphs_0_s392 : list signature_row :=
  [
    Sig [] "title" [] RString [On QAbstract3DAxis];
    Sig [VALUE_TYPE_QTGUI_QCOLOR] "titleColor" [] (RValue QColor) [On QAbstractAxis];
    Sig [VALUE_TYPE_QTGUI_QFONT] "titleFont" [] (RValue QFont) [On QAbstractAxis];
    Sig [] "titleOffset" [] RDouble [On QAbstract3DAxis];
    Sig [] "titleText" [] RString [On QAbstractAxis];
    Sig [] "toggleSelection" [PList (IMeta cxx_qsizetype)] RVoid [On QBarSet];
    Sig [TYPE_QTGRAPHS_QABSTRACT3DAXIS] "type" [] (RMeta QAbstract3DAxis_AxisType) [On QAbstract3DAxis];
    Sig [TYPE_QTGRAPHS_QABSTRACT3DSERIES] "type" [] (RMeta QAbstract3DSeries_SeriesType) [On
        QAbstract3DSeries];
    Sig [TYPE_QTGRAPHS_QABSTRACTAXIS] "type" [] (RMeta QAbstractAxis_AxisType) [On QBarCategoryAxis; On
        QDateTimeAxis];
    Sig [TYPE_QTGRAPHS_QABSTRACTDATAPROXY] "type" [] (RMeta QAbstractDataProxy_DataType) [On
        QAbstractDataProxy]
  ].

Definition methods_qtgraphs_0_s402 : list signature_row :=
  [
    Sig [TYPE_QTGRAPHS_QABSTRACTSERIES] "type" [] (RMeta QAbstractSeries_SeriesType) [On QAreaSeries; On
        QBarSeries; On QLineSeries];
    Sig [TYPE_QTGRAPHS_QXYSERIES] "upperSeries" [] RObject [On QAreaSeries];
    Sig [] "useHighDefShader" [] RBool [On QCustom3DVolume];
    Sig [] "useModelCategories" [] RBool [On QItemModelBarDataProxy; On QItemModelSurfaceDataProxy];
    Sig [] "userDefinedMesh" [] RString [On QAbstract3DSeries];
    Sig [] "valueRole" [] RString [On QItemModelBarDataProxy];
    Sig [VALUE_TYPE_QTCORE_QREGULAREXPRESSION] "valueRolePattern" [] (RValue QRegularExpression) [On
        QItemModelBarDataProxy];
    Sig [] "valueRoleReplace" [] RString [On QItemModelBarDataProxy];
    Sig [] "valuesMultiplier" [] RDouble [On QAbstractSeries];
    Sig [VALUE_TYPE_QTCORE_QRECT] "viewport" [] (RValue QRect) [On Q3DScene];
    Sig [] "width" [] RDouble [On QLineSeries]
  ].

Definition methods_qtgraphs_0_s413 : list signature_row :=
  [
    Sig [] "xPosRole" [] RString [On QItemModelScatterDataProxy; On QItemModelSurfaceDataProxy];
    Sig [VALUE_TYPE_QTCORE_QREGULAREXPRESSION] "xPosRolePattern" [] (RValue QRegularExpression) [On
        QItemModelScatterDataProxy; On QItemModelSurfaceDataProxy];
    Sig [] "xPosRoleReplace" [] RString [On QItemModelScatterDataProxy; On QItemModelSurfaceDataProxy];
    Sig [] "yPosRole" [] RString [On QItemModelScatterDataProxy; On QItemModelSurfaceDataProxy];
    Sig [VALUE_TYPE_QTCORE_QREGULAREXPRESSION] "yPosRolePattern" [] (RValue QRegularExpression) [On
        QItemModelScatterDataProxy; On QItemModelSurfaceDataProxy];
    Sig [] "yPosRoleReplace" [] RString [On QItemModelScatterDataProxy; On QItemModelSurfaceDataProxy];
    Sig [] "zPosRole" [] RString [On QItemModelScatterDataProxy; On QItemModelSurfaceDataProxy];
    Sig [VALUE_TYPE_QTCORE_QREGULAREXPRESSION] "zPosRolePattern" [] (RValue QRegularExpression) [On
        QItemModelScatterDataProxy; On QItemModelSurfaceDataProxy]
  ].

Definition methods_qtgraphs_0_s421 : list signature_row :=
  [
    Sig [] "zPosRoleReplace" [] RString [On QItemModelScatterDataProxy; On QItemModelSurfaceDataProxy]
  ].

Definition methods_qtgraphs_0 : method_shard :=
  MethodShard QtGraphs "KRY_QT6_NATIVE_METHODS_QTGRAPHS_"
    (methods_qtgraphs_0_i0 ++ methods_qtgraphs_0_i1)
    (methods_qtgraphs_0_s0 ++ methods_qtgraphs_0_s10 ++ methods_qtgraphs_0_s20 ++ methods_qtgraphs_0_s29 ++
        methods_qtgraphs_0_s38 ++ methods_qtgraphs_0_s46 ++ methods_qtgraphs_0_s57 ++
        methods_qtgraphs_0_s67 ++ methods_qtgraphs_0_s79 ++ methods_qtgraphs_0_s91 ++
        methods_qtgraphs_0_s101 ++ methods_qtgraphs_0_s111 ++ methods_qtgraphs_0_s123 ++
        methods_qtgraphs_0_s134 ++ methods_qtgraphs_0_s143 ++ methods_qtgraphs_0_s151 ++
        methods_qtgraphs_0_s160 ++ methods_qtgraphs_0_s168 ++ methods_qtgraphs_0_s177 ++
        methods_qtgraphs_0_s186 ++ methods_qtgraphs_0_s195 ++ methods_qtgraphs_0_s203 ++
        methods_qtgraphs_0_s210 ++ methods_qtgraphs_0_s217 ++ methods_qtgraphs_0_s227 ++
        methods_qtgraphs_0_s236 ++ methods_qtgraphs_0_s246 ++ methods_qtgraphs_0_s254 ++
        methods_qtgraphs_0_s264 ++ methods_qtgraphs_0_s274 ++ methods_qtgraphs_0_s283 ++
        methods_qtgraphs_0_s293 ++ methods_qtgraphs_0_s301 ++ methods_qtgraphs_0_s310 ++
        methods_qtgraphs_0_s318 ++ methods_qtgraphs_0_s327 ++ methods_qtgraphs_0_s336 ++
        methods_qtgraphs_0_s346 ++ methods_qtgraphs_0_s355 ++ methods_qtgraphs_0_s363 ++
        methods_qtgraphs_0_s370 ++ methods_qtgraphs_0_s380 ++ methods_qtgraphs_0_s392 ++
        methods_qtgraphs_0_s402 ++ methods_qtgraphs_0_s413 ++ methods_qtgraphs_0_s421)
    [].

Definition methods_qtgraphs_1_i0 : list include :=
  [
    ClassInclude QtGraphs QLogValue3DAxisFormatter QLogValue3DAxisFormatter;
    ClassInclude QtGraphs QPieModelMapper QPieModelMapper;
    ClassInclude QtGraphs QPieSeries QPieSeries;
    ClassInclude QtGraphs QPieSlice QPieSlice;
    ClassInclude QtGraphs QScatter3DSeries QScatter3DSeries;
    ClassInclude QtGraphs QScatterDataProxy QScatterDataProxy;
    ClassInclude QtGraphs QScatterSeries QScatterSeries;
    ClassInclude QtGraphs QSplineSeries QSplineSeries;
    ClassInclude QtGraphs QSurface3DSeries QSurface3DSeries;
    ClassInclude QtGraphs QSurfaceDataProxy QSurfaceDataProxy;
    ClassInclude QtGraphs QValue3DAxis QValue3DAxis;
    ClassInclude QtGraphs QValueAxis QValueAxis;
    ClassInclude QtGraphs QXYModelMapper QXYModelMapper;
    ClassInclude QtGraphs QXYSeries QXYSeries;
    TypeInclude QtCore QAbstractItemModel TYPE_QTCORE_QABSTRACTITEMMODEL;
    TypeInclude QtGraphs QPieSeries TYPE_QTGRAPHS_QPIESERIES;
    TypeInclude QtGraphs QPieSlice TYPE_QTGRAPHS_QPIESLICE;
    TypeInclude QtGraphs QScatter3DSeries TYPE_QTGRAPHS_QSCATTER3DSERIES;
    TypeInclude QtGraphs QScatterDataProxy TYPE_QTGRAPHS_QSCATTERDATAPROXY;
    TypeInclude QtGraphs QSurface3DSeries TYPE_QTGRAPHS_QSURFACE3DSERIES;
    TypeInclude QtGraphs QSurfaceDataProxy TYPE_QTGRAPHS_QSURFACEDATAPROXY;
    TypeInclude QtGraphs QValue3DAxisFormatter TYPE_QTGRAPHS_QVALUE3DAXISFORMATTER;
    TypeInclude QtGraphs QXYSeries TYPE_QTGRAPHS_QXYSERIES;
    TypeInclude QtQml QQmlComponent TYPE_QTQML_QQMLCOMPONENT;
    EnumDefine ENUM_QT_ORIENTATION;
    EnumDefine ENUM_QT_PENCAPSTYLE;
    TypeInclude QtGraphs QAbstractAxis TYPE_QTGRAPHS_QABSTRACTAXIS;
    TypeInclude QtGraphs QAbstractSeries TYPE_QTGRAPHS_QABSTRACTSERIES;
    TypeInclude QtGraphs QPieSlice TYPE_QTGRAPHS_QPIESLICE;
    TypeInclude QtGraphs QSurface3DSeries TYPE_QTGRAPHS_QSURFACE3DSERIES;
    TypeInclude QtCore QPoint VALUE_TYPE_QTCORE_QPOINT;
    TypeInclude QtCore QPointF VALUE_TYPE_QTCORE_QPOINTF;
    TypeInclude QtGui QColor VALUE_TYPE_QTGUI_QCOLOR;
    TypeInclude QtGui QFont VALUE_TYPE_QTGUI_QFONT;
    TypeInclude QtGui QImage VALUE_TYPE_QTGUI_QIMAGE
  ].

Definition methods_qtgraphs_1_s0 : list signature_row :=
  [
    Sig [] "angleSpan" [] RDouble [On QPieSlice];
    Sig [TYPE_QTGRAPHS_QPIESLICE] "append" [PList (IObject QPieSlice)] RBool [On QPieSeries];
    Sig [VALUE_TYPE_QTCORE_QPOINTF] "append" [PList (IValue QPointF)] RVoid [On QXYSeries];
    Sig [TYPE_QTGRAPHS_QPIESLICE] "append" [PObject QPieSlice false] RBool [On QPieSeries];
    Sig [VALUE_TYPE_QTCORE_QPOINTF] "append" [PValue QPointF] RVoid [On QXYSeries];
    Sig [TYPE_QTGRAPHS_QPIESLICE] "append" [PString true; PNumber cxx_qreal] RObject [On QPieSeries];
    Sig [] "append" [PNumber cxx_qreal; PNumber cxx_qreal] RVoid [On QXYSeries];
    Sig [TYPE_QTGRAPHS_QPIESLICE] "at" [PMeta cxx_qsizetype] RObject [On QPieSeries];
    Sig [VALUE_TYPE_QTCORE_QPOINTF] "at" [PMeta cxx_qsizetype] (RValue QPointF) [On QXYSeries]
  ].

Definition methods_qtgraphs_1_s9 : list signature_row :=
  [
    Sig [] "autoSubGrid" [] RBool [On QLogValue3DAxisFormatter];
    Sig [] "base" [] RDouble [On QLogValue3DAxisFormatter];
    Sig [VALUE_TYPE_QTGUI_QCOLOR] "borderColor" [] (RValue QColor) [On QPieSlice];
    Sig [] "borderWidth" [] RDouble [On QPieSlice];
    Sig [ENUM_QT_PENCAPSTYLE] "capStyle" [] (RMeta Qt_PenCapStyle) [On QSplineSeries];
    Sig [] "clear" [] RVoid [On QPieSeries; On QXYSeries];
    Sig [] "clearArray" [] RVoid [On QScatter3DSeries; On QSurface3DSeries];
    Sig [] "clearRow" [PMeta cxx_qsizetype] RVoid [On QSurface3DSeries];
    Sig [VALUE_TYPE_QTGUI_QCOLOR] "color" [] (RValue QColor) [On QPieSlice; On QXYSeries];
    Sig [] "columnCount" [] (RMeta cxx_qsizetype) [On QSurfaceDataProxy]
  ].

Definition methods_qtgraphs_1_s19 : list signature_row :=
  [
    Sig [] "count" [] (RMeta cxx_qsizetype) [On QPieModelMapper; On QPieSeries; On QXYModelMapper; On
        QXYSeries];
    Sig [TYPE_QTGRAPHS_QSCATTERDATAPROXY] "dataProxy" [] RObject [On QScatter3DSeries];
    Sig [TYPE_QTGRAPHS_QSURFACEDATAPROXY] "dataProxy" [] RObject [On QSurface3DSeries];
    Sig [] "deselectAllPoints" [] RVoid [On QXYSeries];
    Sig [] "deselectPoint" [PMeta cxx_qsizetype] RVoid [On QXYSeries];
    Sig [] "deselectPoints" [PList (IMeta cxx_qsizetype)] RVoid [On QXYSeries];
    Sig [] "edgeLabelsVisible" [] RBool [On QLogValue3DAxisFormatter];
    Sig [] "endAngle" [] RDouble [On QPieSeries];
    Sig [] "explodeDistanceFactor" [] RDouble [On QPieSlice];
    Sig [VALUE_TYPE_QTCORE_QPOINTF] "find" [PValue QPointF] (RMeta cxx_qsizetype) [On QXYSeries]
  ].

Definition methods_qtgraphs_1_s29 : list signature_row :=
  [
    Sig [TYPE_QTGRAPHS_QPIESLICE] "find" [PString true] RObject [On QPieSeries];
    Sig [] "first" [] (RMeta cxx_qsizetype) [On QPieModelMapper; On QXYModelMapper];
    Sig [TYPE_QTGRAPHS_QVALUE3DAXISFORMATTER] "formatter" [] RObject [On QValue3DAxis];
    Sig [] "holeSize" [] RDouble [On QPieSeries];
    Sig [] "horizontalPosition" [] RDouble [On QPieSeries];
    Sig [TYPE_QTGRAPHS_QPIESLICE] "insert" [PMeta cxx_qsizetype; PObject QPieSlice false] RBool [On
        QPieSeries];
    Sig [VALUE_TYPE_QTCORE_QPOINTF] "insert" [PMeta cxx_qsizetype; PValue QPointF] RVoid [On QXYSeries];
    Sig [] "invalidSelectionIndex" [] (RMeta cxx_qsizetype) [Static QScatter3DSeries];
    Sig [VALUE_TYPE_QTCORE_QPOINT] "invalidSelectionPosition" [] (RValue QPoint) [Static QSurface3DSeries];
    Sig [] "isDraggable" [] RBool [On QXYSeries];
    Sig [] "isEmpty" [] RBool [On QPieSeries]
  ].

Definition methods_qtgraphs_1_s40 : list signature_row :=
  [
    Sig [] "isExploded" [] RBool [On QPieSlice];
    Sig [] "isFlatShadingSupported" [] RBool [On QSurface3DSeries];
    Sig [] "isLabelVisible" [] RBool [On QPieSlice];
    Sig [] "isPointSelected" [PMeta cxx_qsizetype] RBool [On QXYSeries];
    Sig [] "itemCount" [] (RMeta cxx_qsizetype) [On QScatterDataProxy];
    Sig [] "itemSize" [] RDouble [On QScatter3DSeries];
    Sig [] "label" [] RString [On QPieSlice];
    Sig [] "labelArmLengthFactor" [] RDouble [On QPieSlice];
    Sig [VALUE_TYPE_QTGUI_QCOLOR] "labelColor" [] (RValue QColor) [On QPieSlice];
    Sig [] "labelDecimals" [] RDouble [On QValueAxis];
    Sig [VALUE_TYPE_QTGUI_QFONT] "labelFont" [] (RValue QFont) [On QPieSlice];
    Sig [] "labelFormat" [] RString [On QValue3DAxis; On QValueAxis]
  ].

Definition methods_qtgraphs_1_s52 : list signature_row :=
  [
    Sig [TYPE_QTGRAPHS_QPIESLICE] "labelPosition" [] (RMeta QPieSlice_LabelPosition) [On QPieSlice];
    Sig [] "labelsSection" [] (RMeta cxx_qsizetype) [On QPieModelMapper];
    Sig [] "max" [] RDouble [On QValueAxis];
    Sig [] "min" [] RDouble [On QValueAxis];
    Sig [TYPE_QTCORE_QABSTRACTITEMMODEL] "model" [] RObject [On QPieModelMapper; On QXYModelMapper];
    Sig [ENUM_QT_ORIENTATION] "orientation" [] (RMeta Qt_Orientation) [On QPieModelMapper; On
        QXYModelMapper];
    Sig [] "percentage" [] RDouble [On QPieSlice];
    Sig [] "pieSize" [] RDouble [On QPieSeries];
    Sig [TYPE_QTQML_QQMLCOMPONENT] "pointDelegate" [] RObject [On QXYSeries];
    Sig [VALUE_TYPE_QTCORE_QPOINTF] "points" [] (RList (IValue QPointF)) [On QXYSeries];
    Sig [TYPE_QTGRAPHS_QPIESLICE] "remove" [PObject QPieSlice false] RBool [On QPieSeries]
  ].

Definition methods_qtgraphs_1_s63 : list signature_row :=
  [
    Sig [VALUE_TYPE_QTCORE_QPOINTF] "remove" [PValue QPointF] RVoid [On QXYSeries];
    Sig [] "remove" [PNumber cxx_qreal; PNumber cxx_qreal] RVoid [On QXYSeries];
    Sig [] "remove" [PMeta cxx_qsizetype] RBool [On QPieSeries];
    Sig [] "remove" [PMeta cxx_qsizetype] RVoid [On QXYSeries];
    Sig [] "removeItems" [PMeta cxx_qsizetype; PMeta cxx_qsizetype] RVoid [On QScatterDataProxy];
    Sig [] "removeMultiple" [PMeta cxx_qsizetype; PInt] RVoid [On QPieSeries];
    Sig [] "removeMultiple" [PMeta cxx_qsizetype; PMeta cxx_qsizetype] RVoid [On QXYSeries];
    Sig [] "removeRows" [PMeta cxx_qsizetype; PMeta cxx_qsizetype] RVoid [On QSurfaceDataProxy];
    Sig [TYPE_QTGRAPHS_QPIESLICE] "replace" [PList (IObject QPieSlice)] RBool [On QPieSeries]
  ].

Definition methods_qtgraphs_1_s72 : list signature_row :=
  [
    Sig [VALUE_TYPE_QTCORE_QPOINTF] "replace" [PList (IValue QPointF)] RVoid [On QXYSeries];
    Sig [TYPE_QTGRAPHS_QPIESLICE] "replace" [PObject QPieSlice false; PObject QPieSlice false] RBool [On
        QPieSeries];
    Sig [VALUE_TYPE_QTCORE_QPOINTF] "replace" [PValue QPointF; PValue QPointF] RVoid [On QXYSeries];
    Sig [] "replace" [PNumber cxx_qreal; PNumber cxx_qreal; PNumber cxx_qreal; PNumber cxx_qreal] RVoid [On
        QXYSeries];
    Sig [TYPE_QTGRAPHS_QPIESLICE] "replace" [PMeta cxx_qsizetype; PObject QPieSlice false] RBool [On
        QPieSeries];
    Sig [VALUE_TYPE_QTCORE_QPOINTF] "replace" [PMeta cxx_qsizetype; PValue QPointF] RVoid [On QXYSeries];
    Sig [] "replace" [PMeta cxx_qsizetype; PNumber cxx_qreal; PNumber cxx_qreal] RVoid [On QXYSeries];
    Sig [] "resetArray" [] RVoid [On QScatterDataProxy; On QSurfaceDataProxy]
  ].

Definition methods_qtgraphs_1_s80 : list signature_row :=
  [
    Sig [] "reversed" [] RBool [On QValue3DAxis];
    Sig [] "rowCount" [] (RMeta cxx_qsizetype) [On QSurfaceDataProxy];
    Sig [] "segmentCount" [] (RMeta cxx_qsizetype) [On QValue3DAxis];
    Sig [] "selectAllPoints" [] RVoid [On QXYSeries];
    Sig [] "selectPoint" [PMeta cxx_qsizetype] RVoid [On QXYSeries];
    Sig [] "selectPoints" [PList (IMeta cxx_qsizetype)] RVoid [On QXYSeries];
    Sig [VALUE_TYPE_QTGUI_QCOLOR] "selectedColor" [] (RValue QColor) [On QXYSeries];
    Sig [] "selectedItem" [] (RMeta cxx_qsizetype) [On QScatter3DSeries];
    Sig [VALUE_TYPE_QTCORE_QPOINT] "selectedPoint" [] (RValue QPoint) [On QSurface3DSeries];
    Sig [] "selectedPoints" [] (RList (IMeta cxx_qsizetype)) [On QXYSeries];
    Sig [TYPE_QTGRAPHS_QPIESERIES] "series" [] RObject [On QPieModelMapper; On QPieSlice]
  ].

Definition methods_qtgraphs_1_s91 : list signature_row :=
  [
    Sig [TYPE_QTGRAPHS_QSCATTER3DSERIES] "series" [] RObject [On QScatterDataProxy];
    Sig [TYPE_QTGRAPHS_QSURFACE3DSERIES] "series" [] RObject [On QSurfaceDataProxy];
    Sig [TYPE_QTGRAPHS_QXYSERIES] "series" [] RObject [On QXYModelMapper];
    Sig [] "setAutoSubGrid" [PBool] RVoid [On QLogValue3DAxisFormatter];
    Sig [] "setBase" [PNumber cxx_qreal] RVoid [On QLogValue3DAxisFormatter];
    Sig [VALUE_TYPE_QTGUI_QCOLOR] "setBorderColor" [PValue QColor] RVoid [On QPieSlice];
    Sig [] "setBorderWidth" [PNumber cxx_qreal] RVoid [On QPieSlice];
    Sig [ENUM_QT_PENCAPSTYLE] "setCapStyle" [PValue Qt_PenCapStyle] RVoid [On QSplineSeries];
    Sig [VALUE_TYPE_QTGUI_QCOLOR] "setColor" [PValue QColor] RVoid [On QPieSlice; On QXYSeries]
  ].

Definition methods_qtgraphs_1_s100 : list signature_row :=
  [
    Sig [] "setCount" [PMeta cxx_qsizetype] RVoid [On QPieModelMapper; On QXYModelMapper];
    Sig [TYPE_QTGRAPHS_QSCATTERDATAPROXY] "setDataProxy" [PObject QScatterDataProxy false] RVoid [On
        QScatter3DSeries];
    Sig [TYPE_QTGRAPHS_QSURFACEDATAPROXY] "setDataProxy" [PObject QSurfaceDataProxy false] RVoid [On
        QSurface3DSeries];
    Sig [] "setDraggable" [PBool] RVoid [On QXYSeries];
    Sig [] "setEdgeLabelsVisible" [PBool] RVoid [On QLogValue3DAxisFormatter];
    Sig [] "setEndAngle" [PNumber cxx_qreal] RVoid [On QPieSeries];
    Sig [] "setExplodeDistanceFactor" [PNumber cxx_qreal] RVoid [On QPieSlice];
    Sig [] "setExploded" [PBool] RVoid [On QPieSlice];
    Sig [] "setFirst" [PMeta cxx_qsizetype] RVoid [On QPieModelMapper; On QXYModelMapper]
  ].

Definition methods_qtgraphs_1_s109 : list signature_row :=
  [
    Sig [TYPE_QTGRAPHS_QVALUE3DAXISFORMATTER] "setFormatter" [PObject QValue3DAxisFormatter false] RVoid
        [On QValue3DAxis];
    Sig [] "setHoleSize" [PNumber cxx_qreal] RVoid [On QPieSeries];
    Sig [] "setHorizontalPosition" [PNumber cxx_qreal] RVoid [On QPieSeries];
    Sig [] "setItemSize" [PNumber cxx_float] RVoid [On QScatter3DSeries];
    Sig [] "setLabel" [PString true] RVoid [On QPieSlice];
    Sig [] "setLabelArmLengthFactor" [PNumber cxx_qreal] RVoid [On QPieSlice];
    Sig [VALUE_TYPE_QTGUI_QCOLOR] "setLabelColor" [PValue QColor] RVoid [On QPieSlice];
    Sig [] "setLabelDecimals" [PInt] RVoid [On QValueAxis];
    Sig [VALUE_TYPE_QTGUI_QFONT] "setLabelFont" [PValue QFont] RVoid [On QPieSlice];
    Sig [] "setLabelFormat" [PString true] RVoid [On QValue3DAxis; On QValueAxis]
  ].

Definition methods_qtgraphs_1_s119 : list signature_row :=
  [
    Sig [TYPE_QTGRAPHS_QPIESLICE] "setLabelPosition" [PValue QPieSlice_LabelPosition] RVoid [On QPieSlice];
    Sig [] "setLabelVisible" [PBool] RVoid [On QPieSlice];
    Sig [TYPE_QTGRAPHS_QPIESLICE] "setLabelsPosition" [PValue QPieSlice_LabelPosition] RVoid [On
        QPieSeries];
    Sig [] "setLabelsSection" [PMeta cxx_qsizetype] RVoid [On QPieModelMapper];
    Sig [] "setLabelsVisible" [PBool] RVoid [On QPieSeries];
    Sig [] "setMax" [PNumber cxx_qreal] RVoid [On QValueAxis];
    Sig [] "setMin" [PNumber cxx_qreal] RVoid [On QValueAxis];
    Sig [TYPE_QTCORE_QABSTRACTITEMMODEL] "setModel" [PObject QAbstractItemModel false] RVoid [On
        QPieModelMapper; On QXYModelMapper];
    Sig [ENUM_QT_ORIENTATION] "setOrientation" [PValue Qt_Orientation] RVoid [On QPieModelMapper; On
        QXYModelMapper]
  ].

Definition methods_qtgraphs_1_s128 : list signature_row :=
  [
    Sig [] "setPieSize" [PNumber cxx_qreal] RVoid [On QPieSeries];
    Sig [TYPE_QTQML_QQMLCOMPONENT] "setPointDelegate" [PObject QQmlComponent false] RVoid [On QXYSeries];
    Sig [] "setPointSelected" [PMeta cxx_qsizetype; PBool] RVoid [On QXYSeries];
    Sig [] "setRange" [PNumber cxx_qreal; PNumber cxx_qreal] RVoid [On QValueAxis];
    Sig [] "setReversed" [PBool] RVoid [On QValue3DAxis];
    Sig [] "setSegmentCount" [PMeta cxx_qsizetype] RVoid [On QValue3DAxis];
    Sig [VALUE_TYPE_QTGUI_QCOLOR] "setSelectedColor" [PValue QColor] RVoid [On QXYSeries];
    Sig [] "setSelectedItem" [PMeta cxx_qsizetype] RVoid [On QScatter3DSeries];
    Sig [VALUE_TYPE_QTCORE_QPOINT] "setSelectedPoint" [PValue QPoint] RVoid [On QSurface3DSeries]
  ].

Definition methods_qtgraphs_1_s137 : list signature_row :=
  [
    Sig [TYPE_QTGRAPHS_QPIESERIES] "setSeries" [PObject QPieSeries false] RVoid [On QPieModelMapper];
    Sig [TYPE_QTGRAPHS_QXYSERIES] "setSeries" [PObject QXYSeries false] RVoid [On QXYModelMapper];
    Sig [TYPE_QTGRAPHS_QSURFACE3DSERIES] "setShading" [PValue QSurface3DSeries_Shading] RVoid [On
        QSurface3DSeries];
    Sig [] "setStartAngle" [PNumber cxx_qreal] RVoid [On QPieSeries];
    Sig [] "setSubSegmentCount" [PMeta cxx_qsizetype] RVoid [On QValue3DAxis];
    Sig [] "setSubTickCount" [PMeta cxx_qsizetype] RVoid [On QValueAxis];
    Sig [VALUE_TYPE_QTGUI_QIMAGE] "setTexture" [PValue QImage] RVoid [On QSurface3DSeries];
    Sig [] "setTextureFile" [PString true] RVoid [On QSurface3DSeries];
    Sig [] "setTickAnchor" [PNumber cxx_qreal] RVoid [On QValueAxis];
    Sig [] "setTickInterval" [PNumber cxx_qreal] RVoid [On QValueAxis]
  ].

Definition methods_qtgraphs_1_s147 : list signature_row :=
  [
    Sig [] "setValue" [PNumber cxx_qreal] RVoid [On QPieSlice];
    Sig [] "setValuesSection" [PMeta cxx_qsizetype] RVoid [On QPieModelMapper];
    Sig [] "setVerticalPosition" [PNumber cxx_qreal] RVoid [On QPieSeries];
    Sig [] "setWidth" [PNumber cxx_qreal] RVoid [On QSplineSeries];
    Sig [VALUE_TYPE_QTGUI_QCOLOR] "setWireframeColor" [PValue QColor] RVoid [On QSurface3DSeries];
    Sig [] "setXSection" [PMeta cxx_qsizetype] RVoid [On QXYModelMapper];
    Sig [] "setYSection" [PMeta cxx_qsizetype] RVoid [On QXYModelMapper];
    Sig [TYPE_QTGRAPHS_QSURFACE3DSERIES] "shading" [] (RMeta QSurface3DSeries_Shading) [On
        QSurface3DSeries];
    Sig [TYPE_QTGRAPHS_QPIESLICE] "slices" [] (RList (IObject QObject)) [On QPieSeries];
    Sig [] "startAngle" [] RDouble [On QPieSeries; On QPieSlice]
  ].

Definition methods_qtgraphs_1_s157 : list signature_row :=
  [
    Sig [] "subSegmentCount" [] (RMeta cxx_qsizetype) [On QValue3DAxis];
    Sig [] "subTickCount" [] (RMeta cxx_qsizetype) [On QValueAxis];
    Sig [] "sum" [] RDouble [On QPieSeries];
    Sig [TYPE_QTGRAPHS_QPIESLICE] "take" [PObject QPieSlice false] RBool [On QPieSeries];
    Sig [VALUE_TYPE_QTCORE_QPOINTF] "take" [PValue QPointF] RBool [On QXYSeries];
    Sig [VALUE_TYPE_QTGUI_QIMAGE] "texture" [] (RValue QImage) [On QSurface3DSeries];
    Sig [] "textureFile" [] RString [On QSurface3DSeries];
    Sig [] "tickAnchor" [] RDouble [On QValueAxis];
    Sig [] "tickInterval" [] RDouble [On QValueAxis];
    Sig [] "toggleSelection" [PList (IMeta cxx_qsizetype)] RVoid [On QXYSeries];
    Sig [TYPE_QTGRAPHS_QABSTRACTAXIS] "type" [] (RMeta QAbstractAxis_AxisType) [On QValueAxis]
  ].

Definition methods_qtgraphs_1_s168 : list signature_row :=
  [
    Sig [TYPE_QTGRAPHS_QABSTRACTSERIES] "type" [] (RMeta QAbstractSeries_SeriesType) [On QPieSeries; On
        QScatterSeries; On QSplineSeries];
    Sig [] "value" [] RDouble [On QPieSlice];
    Sig [] "valuesSection" [] (RMeta cxx_qsizetype) [On QPieModelMapper];
    Sig [] "verticalPosition" [] RDouble [On QPieSeries];
    Sig [] "width" [] RDouble [On QSplineSeries];
    Sig [VALUE_TYPE_QTGUI_QCOLOR] "wireframeColor" [] (RValue QColor) [On QSurface3DSeries];
    Sig [] "xSection" [] (RMeta cxx_qsizetype) [On QXYModelMapper];
    Sig [] "ySection" [] (RMeta cxx_qsizetype) [On QXYModelMapper]
  ].

Definition methods_qtgraphs_1 : method_shard :=
  MethodShard QtGraphs "KRY_QT6_NATIVE_METHODS_QTGRAPHS_"
    (methods_qtgraphs_1_i0)
    (methods_qtgraphs_1_s0 ++ methods_qtgraphs_1_s9 ++ methods_qtgraphs_1_s19 ++ methods_qtgraphs_1_s29 ++
        methods_qtgraphs_1_s40 ++ methods_qtgraphs_1_s52 ++ methods_qtgraphs_1_s63 ++
        methods_qtgraphs_1_s72 ++ methods_qtgraphs_1_s80 ++ methods_qtgraphs_1_s91 ++
        methods_qtgraphs_1_s100 ++ methods_qtgraphs_1_s109 ++ methods_qtgraphs_1_s119 ++
        methods_qtgraphs_1_s128 ++ methods_qtgraphs_1_s137 ++ methods_qtgraphs_1_s147 ++
        methods_qtgraphs_1_s157 ++ methods_qtgraphs_1_s168)
    [].

Definition methods_qtgraphswidgets_0_i0 : list include :=
  [
    ClassInclude QtGraphsWidgets Q3DBarsWidgetItem Q3DBarsWidgetItem;
    ClassInclude QtGraphsWidgets Q3DGraphsWidgetItem Q3DGraphsWidgetItem;
    ClassInclude QtGraphsWidgets Q3DSurfaceWidgetItem Q3DSurfaceWidgetItem;
    TypeInclude QtGraphs QGraphsTheme TYPE_QTGRAPHS_QGRAPHSTHEME;
    TypeInclude QtQuickWidgets QQuickWidget TYPE_QTQUICKWIDGETS_QQUICKWIDGET;
    TypeInclude QtCore QLocale VALUE_TYPE_QTCORE_QLOCALE;
    TypeInclude QtCore QSizeF VALUE_TYPE_QTCORE_QSIZEF;
    TypeInclude QtGui QColor VALUE_TYPE_QTGUI_QCOLOR;
    TypeInclude QtGui QVector3D VALUE_TYPE_QTGUI_QVECTOR3D
  ].

Definition methods_qtgraphswidgets_0_s0 : list signature_row :=
  [
    Sig [TYPE_QTGRAPHS_QGRAPHSTHEME] "activeTheme" [] RObject [On Q3DGraphsWidgetItem];
    Sig [TYPE_QTGRAPHS_QGRAPHSTHEME] "addTheme" [PObject QGraphsTheme false] RVoid [On Q3DGraphsWidgetItem];
    Sig [] "ambientLightStrength" [] RDouble [On Q3DGraphsWidgetItem];
    Sig [] "aspectRatio" [] RDouble [On Q3DGraphsWidgetItem];
    Sig [VALUE_TYPE_QTCORE_QSIZEF] "barSeriesMargin" [] (RValue QSizeF) [On Q3DBarsWidgetItem];
    Sig [VALUE_TYPE_QTCORE_QSIZEF] "barSpacing" [] (RValue QSizeF) [On Q3DBarsWidgetItem];
    Sig [] "barThickness" [] RDouble [On Q3DBarsWidgetItem];
    Sig [VALUE_TYPE_QTGUI_QVECTOR3D] "cameraTargetPosition" [] (RValue QVector3D) [On Q3DGraphsWidgetItem];
    Sig [] "cameraXRotation" [] RDouble [On Q3DGraphsWidgetItem];
    Sig [] "cameraYRotation" [] RDouble [On Q3DGraphsWidgetItem];
    Sig [] "cameraZoomLevel" [] RDouble [On Q3DGraphsWidgetItem]
  ].

Definition methods_qtgraphswidgets_0_s11 : list signature_row :=
  [
    Sig [] "clearSelection" [] RVoid [On Q3DGraphsWidgetItem];
    Sig [] "currentFps" [] RDouble [On Q3DGraphsWidgetItem];
    Sig [] "flipHorizontalGrid" [] RBool [On Q3DSurfaceWidgetItem];
    Sig [] "floorLevel" [] RDouble [On Q3DBarsWidgetItem];
    Sig [] "horizontalAspectRatio" [] RDouble [On Q3DGraphsWidgetItem];
    Sig [] "isBarSpacingRelative" [] RBool [On Q3DBarsWidgetItem];
    Sig [] "isMultiSeriesUniform" [] RBool [On Q3DBarsWidgetItem];
    Sig [] "isOrthoProjection" [] RBool [On Q3DGraphsWidgetItem];
    Sig [] "isPolar" [] RBool [On Q3DGraphsWidgetItem];
    Sig [] "isRotationEnabled" [] RBool [On Q3DGraphsWidgetItem];
    Sig [] "isSelectionEnabled" [] RBool [On Q3DGraphsWidgetItem];
    Sig [] "isZoomAtTargetEnabled" [] RBool [On Q3DGraphsWidgetItem];
    Sig [] "isZoomEnabled" [] RBool [On Q3DGraphsWidgetItem]
  ].

Definition methods_qtgraphswidgets_0_s24 : list signature_row :=
  [
    Sig [] "labelMargin" [] RDouble [On Q3DGraphsWidgetItem];
    Sig [VALUE_TYPE_QTGUI_QCOLOR] "lightColor" [] (RValue QColor) [On Q3DGraphsWidgetItem];
    Sig [] "lightStrength" [] RDouble [On Q3DGraphsWidgetItem];
    Sig [VALUE_TYPE_QTCORE_QLOCALE] "locale" [] (RValue QLocale) [On Q3DGraphsWidgetItem];
    Sig [] "margin" [] RDouble [On Q3DGraphsWidgetItem];
    Sig [] "maxCameraXRotation" [] RDouble [On Q3DGraphsWidgetItem];
    Sig [] "maxCameraYRotation" [] RDouble [On Q3DGraphsWidgetItem];
    Sig [] "maxCameraZoomLevel" [] RDouble [On Q3DGraphsWidgetItem];
    Sig [] "measureFps" [] RBool [On Q3DGraphsWidgetItem];
    Sig [] "minCameraXRotation" [] RDouble [On Q3DGraphsWidgetItem];
    Sig [] "minCameraYRotation" [] RDouble [On Q3DGraphsWidgetItem];
    Sig [] "minCameraZoomLevel" [] RDouble [On Q3DGraphsWidgetItem]
  ].

Definition methods_qtgraphswidgets_0_s36 : list signature_row :=
  [
    Sig [] "msaaSamples" [] RDouble [On Q3DGraphsWidgetItem];
    Sig [VALUE_TYPE_QTGUI_QVECTOR3D] "queriedGraphPosition" [] (RValue QVector3D) [On Q3DGraphsWidgetItem];
    Sig [] "radialLabelOffset" [] RDouble [On Q3DGraphsWidgetItem];
    Sig [TYPE_QTGRAPHS_QGRAPHSTHEME] "releaseTheme" [PObject QGraphsTheme false] RVoid [On
        Q3DGraphsWidgetItem];
    Sig [VALUE_TYPE_QTGUI_QVECTOR3D] "removeCustomItemAt" [PValue QVector3D] RVoid [On Q3DGraphsWidgetItem];
    Sig [] "removeCustomItems" [] RVoid [On Q3DGraphsWidgetItem];
    Sig [] "selectedCustomItemIndex" [] (RMeta cxx_qsizetype) [On Q3DGraphsWidgetItem];
    Sig [] "selectedLabelIndex" [] RDouble [On Q3DGraphsWidgetItem];
    Sig [TYPE_QTGRAPHS_QGRAPHSTHEME] "setActiveTheme" [PObject QGraphsTheme false] RVoid [On
        Q3DGraphsWidgetItem];
    Sig [] "setAmbientLightStrength" [PNumber cxx_float] RVoid [On Q3DGraphsWidgetItem];
    Sig [] "setAspectRatio" [PNumber cxx_qreal] RVoid [On Q3DGraphsWidgetItem]
  ].

Definition methods_qtgraphswidgets_0_s47 : list signature_row :=
  [
    Sig [VALUE_TYPE_QTCORE_QSIZEF] "setBarSeriesMargin" [PValue QSizeF] RVoid [On Q3DBarsWidgetItem];
    Sig [VALUE_TYPE_QTCORE_QSIZEF] "setBarSpacing" [PValue QSizeF] RVoid [On Q3DBarsWidgetItem];
    Sig [] "setBarSpacingRelative" [PBool] RVoid [On Q3DBarsWidgetItem];
    Sig [] "setBarThickness" [PNumber cxx_float] RVoid [On Q3DBarsWidgetItem];
    Sig [] "setCameraPosition" [PNumber cxx_float; PNumber cxx_float; PNumber cxx_float] RVoid [On
        Q3DGraphsWidgetItem];
    Sig [VALUE_TYPE_QTGUI_QVECTOR3D] "setCameraTargetPosition" [PValue QVector3D] RVoid [On
        Q3DGraphsWidgetItem];
    Sig [] "setCameraXRotation" [PNumber cxx_float] RVoid [On Q3DGraphsWidgetItem];
    Sig [] "setCameraYRotation" [PNumber cxx_float] RVoid [On Q3DGraphsWidgetItem];
    Sig [] "setCameraZoomLevel" [PNumber cxx_float] RVoid [On Q3DGraphsWidgetItem];
    Sig [] "setFlipHorizontalGrid" [PBool] RVoid [On Q3DSurfaceWidgetItem]
  ].

Definition methods_qtgraphswidgets_0_s57 : list signature_row :=
  [
    Sig [] "setFloorLevel" [PNumber cxx_float] RVoid [On Q3DBarsWidgetItem];
    Sig [] "setHorizontalAspectRatio" [PNumber cxx_qreal] RVoid [On Q3DGraphsWidgetItem];
    Sig [] "setLabelMargin" [PNumber cxx_float] RVoid [On Q3DGraphsWidgetItem];
    Sig [VALUE_TYPE_QTGUI_QCOLOR] "setLightColor" [PValue QColor] RVoid [On Q3DGraphsWidgetItem];
    Sig [] "setLightStrength" [PNumber cxx_float] RVoid [On Q3DGraphsWidgetItem];
    Sig [VALUE_TYPE_QTCORE_QLOCALE] "setLocale" [PValue QLocale] RVoid [On Q3DGraphsWidgetItem];
    Sig [] "setMargin" [PNumber cxx_qreal] RVoid [On Q3DGraphsWidgetItem];
    Sig [] "setMaxCameraXRotation" [PNumber cxx_float] RVoid [On Q3DGraphsWidgetItem];
    Sig [] "setMaxCameraYRotation" [PNumber cxx_float] RVoid [On Q3DGraphsWidgetItem];
    Sig [] "setMaxCameraZoomLevel" [PNumber cxx_float] RVoid [On Q3DGraphsWidgetItem]
  ].

Definition methods_qtgraphswidgets_0_s67 : list signature_row :=
  [
    Sig [] "setMeasureFps" [PBool] RVoid [On Q3DGraphsWidgetItem];
    Sig [] "setMinCameraXRotation" [PNumber cxx_float] RVoid [On Q3DGraphsWidgetItem];
    Sig [] "setMinCameraYRotation" [PNumber cxx_float] RVoid [On Q3DGraphsWidgetItem];
    Sig [] "setMinCameraZoomLevel" [PNumber cxx_float] RVoid [On Q3DGraphsWidgetItem];
    Sig [] "setMsaaSamples" [PInt] RVoid [On Q3DGraphsWidgetItem];
    Sig [] "setMultiSeriesUniform" [PBool] RVoid [On Q3DBarsWidgetItem];
    Sig [] "setOrthoProjection" [PBool] RVoid [On Q3DGraphsWidgetItem];
    Sig [] "setPolar" [PBool] RVoid [On Q3DGraphsWidgetItem];
    Sig [] "setRadialLabelOffset" [PNumber cxx_float] RVoid [On Q3DGraphsWidgetItem];
    Sig [] "setRotationEnabled" [PBool] RVoid [On Q3DGraphsWidgetItem];
    Sig [] "setSelectionEnabled" [PBool] RVoid [On Q3DGraphsWidgetItem]
  ].

Definition methods_qtgraphswidgets_0_s78 : list signature_row :=
  [
    Sig [] "setShadowStrength" [PNumber cxx_float] RVoid [On Q3DGraphsWidgetItem];
    Sig [TYPE_QTQUICKWIDGETS_QQUICKWIDGET] "setWidget" [PObject QQuickWidget false] RVoid [On
        Q3DGraphsWidgetItem];
    Sig [] "setWrapCameraXRotation" [PBool] RVoid [On Q3DGraphsWidgetItem];
    Sig [] "setWrapCameraYRotation" [PBool] RVoid [On Q3DGraphsWidgetItem];
    Sig [] "setZoomAtTargetEnabled" [PBool] RVoid [On Q3DGraphsWidgetItem];
    Sig [] "setZoomEnabled" [PBool] RVoid [On Q3DGraphsWidgetItem];
    Sig [] "shadowStrength" [] RDouble [On Q3DGraphsWidgetItem];
    Sig [TYPE_QTGRAPHS_QGRAPHSTHEME] "themes" [] (RList (IObject QObject)) [On Q3DGraphsWidgetItem];
    Sig [TYPE_QTQUICKWIDGETS_QQUICKWIDGET] "widget" [] RObject [On Q3DGraphsWidgetItem];
    Sig [] "wrapCameraXRotation" [] RBool [On Q3DGraphsWidgetItem];
    Sig [] "wrapCameraYRotation" [] RBool [On Q3DGraphsWidgetItem]
  ].

Definition methods_qtgraphswidgets_0 : method_shard :=
  MethodShard QtGraphsWidgets "KRY_QT6_NATIVE_METHODS_QTGRAPHSWIDGETS_"
    (methods_qtgraphswidgets_0_i0)
    (methods_qtgraphswidgets_0_s0 ++ methods_qtgraphswidgets_0_s11 ++ methods_qtgraphswidgets_0_s24 ++
        methods_qtgraphswidgets_0_s36 ++ methods_qtgraphswidgets_0_s47 ++ methods_qtgraphswidgets_0_s57 ++
        methods_qtgraphswidgets_0_s67 ++ methods_qtgraphswidgets_0_s78)
    [].
