(* ===== verification/MethodsGui.v ===== *)
(** Rows of the shards of generated_methods: qtgui_0, qtgui_1, qtgui_2. *)
From S2P Require Import Names.

(** * Definitions *)

Definition methods_qtgui_0_i0 : list include :=
  [
    ClassInclude QtGui QAbstractTextDocumentLayout QAbstractTextDocumentLayout;
    ClassInclude QtGui QAccessibilityHints QAccessibilityHints;
    ClassInclude QtGui QAction QAction;
    ClassInclude QtGui QActionGroup QActionGroup;
    ClassInclude QtGui QBitmap QBitmap;
    ClassInclude QtGui QClipboard QClipboard;
    ClassInclude QtGui QColor QColor;
    ClassInclude QtGui QColorSpace QColorSpace;
    ClassInclude QtGui QCursor QCursor;
    ClassInclude QtGui QDesktopServices QDesktopServices;
    ClassInclude QtGui QDoubleValidator QDoubleValidator;
    ClassInclude QtGui QDrag QDrag;
    ClassInclude QtGui QFileSystemModel QFileSystemModel;
    ClassInclude QtGui QFont QFont;
    ClassInclude QtGui QFontDatabase QFontDatabase;
    ClassInclude QtGui QGuiApplication QGuiApplication;
    ClassInclude QtGui QIcon QIcon;
    ClassInclude QtGui QImage QImage;
    ClassInclude QtGui QImageReader QImageReader;
    ClassInclude QtGui QImageWriter QImageWriter;
    ClassInclude QtGui QInputDevice QInputDevice;
    ClassInclude QtGui QInputMethod QInputMethod;
    ClassInclude QtGui QIntValidator QIntValidator;
    ClassInclude QtGui QKeySequence QKeySequence;
    TypeInclude QtCore QIODevice TYPE_QTCORE_QIODEVICE;
    TypeInclude QtCore QMimeData TYPE_QTCORE_QMIMEDATA;
    TypeInclude QtCore QObject TYPE_QTCORE_QOBJECT;
    TypeInclude QtGui QAction TYPE_QTGUI_QACTION;
    TypeInclude QtGui QActionGroup TYPE_QTGUI_QACTIONGROUP;
    TypeInclude QtGui QClipboard TYPE_QTGUI_QCLIPBOARD;
    TypeInclude QtGui QInputDevice TYPE_QTGUI_QINPUTDEVICE;
    TypeInclude QtGui QInputMethod TYPE_QTGUI_QINPUTMETHOD;
    TypeInclude QtGui QScreen TYPE_QTGUI_QSCREEN;
    TypeInclude QtGui QStyleHints TYPE_QTGUI_QSTYLEHINTS;
    TypeInclude QtGui QTextDocument TYPE_QTGUI_QTEXTDOCUMENT;
    TypeInclude QtGui QWindow TYPE_QTGUI_QWINDOW;
    EnumDefine ENUM_QT_APPLICATIONSTATE;
    EnumDefine ENUM_QT_CONTRASTPREFERENCE;
    EnumDefine ENUM_QT_DROPACTION;
    EnumDefine ENUM_QT_DROPACTIONS;
    EnumDefine ENUM_QT_HIGHDPISCALEFACTORROUNDINGPOLICY;
    EnumDefine ENUM_QT_INPUTMETHODQUERIES;
    EnumDefine ENUM_QT_INPUTMETHODQUERY;
    EnumDefine ENUM_QT_LAYOUTDIRECTION;
    EnumDefine ENUM_QT_MOUSEBUTTONS;
    EnumDefine ENUM_QT_ORIENTATION;
    EnumDefine ENUM_QT_SHORTCUTCONTEXT;
    EnumDefine ENUM_QT_SORTORDER;
    TypeInclude QtCore QChar TYPE_QTCORE_QCHAR;
    TypeInclude QtCore QDir TYPE_QTCORE_QDIR;
    TypeInclude QtGui QAction TYPE_QTGUI_QACTION;
    TypeInclude QtGui QActionGroup TYPE_QTGUI_QACTIONGROUP;
    TypeInclude QtGui QClipboard TYPE_QTGUI_QCLIPBOARD;
    TypeInclude QtGui QDoubleValidator TYPE_QTGUI_QDOUBLEVALIDATOR;
    TypeInclude QtGui QFileSystemModel TYPE_QTGUI_QFILESYSTEMMODEL;
    TypeInclude QtGui QFontDatabase TYPE_QTGUI_QFONTDATABASE;
    TypeInclude QtGui QIcon TYPE_QTGUI_QICON;
    TypeInclude QtGui QImage TYPE_QTGUI_QIMAGE
  ].

Definition methods_qtgui_0_i1 : list include :=
  [
    TypeInclude QtGui QInputDevice TYPE_QTGUI_QINPUTDEVICE;
    TypeInclude QtGui QInputMethod TYPE_QTGUI_QINPUTMETHOD;
    TypeInclude QtGui QKeySequence TYPE_QTGUI_QKEYSEQUENCE;
    TypeInclude QtCore QByteArray VALUE_TYPE_QTCORE_QBYTEARRAY;
    TypeInclude QtCore QDateTime VALUE_TYPE_QTCORE_QDATETIME;
    TypeInclude QtCore QDir VALUE_TYPE_QTCORE_QDIR;
    TypeInclude QtCore QFileInfo VALUE_TYPE_QTCORE_QFILEINFO;
    TypeInclude QtCore QLocale VALUE_TYPE_QTCORE_QLOCALE;
    TypeInclude QtCore QModelIndex VALUE_TYPE_QTCORE_QMODELINDEX;
    TypeInclude QtCore QPoint VALUE_TYPE_QTCORE_QPOINT;
    TypeInclude QtCore QPointF VALUE_TYPE_QTCORE_QPOINTF;
    TypeInclude QtCore QRect VALUE_TYPE_QTCORE_QRECT;
    TypeInclude QtCore QRectF VALUE_TYPE_QTCORE_QRECTF;
    TypeInclude QtCore QTimeZone VALUE_TYPE_QTCORE_QTIMEZONE;
    TypeInclude QtCore QUrl VALUE_TYPE_QTCORE_QURL;
    TypeInclude QtGui QBitmap VALUE_TYPE_QTGUI_QBITMAP;
    TypeInclude QtGui QColor VALUE_TYPE_QTGUI_QCOLOR;
    TypeInclude QtGui QColorSpace VALUE_TYPE_QTGUI_QCOLORSPACE;
    TypeInclude QtGui QCursor VALUE_TYPE_QTGUI_QCURSOR;
    TypeInclude QtGui QFont VALUE_TYPE_QTGUI_QFONT;
    TypeInclude QtGui QFontInfo VALUE_TYPE_QTGUI_QFONTINFO;
    TypeInclude QtGui QIcon VALUE_TYPE_QTGUI_QICON;
    TypeInclude QtGui QImage VALUE_TYPE_QTGUI_QIMAGE;
    TypeInclude QtGui QKeySequence VALUE_TYPE_QTGUI_QKEYSEQUENCE;
    TypeInclude QtGui QPalette VALUE_TYPE_QTGUI_QPALETTE;
    TypeInclude QtGui QPixelFormat VALUE_TYPE_QTGUI_QPIXELFORMAT;
    TypeInclude QtGui QPixmap VALUE_TYPE_QTGUI_QPIXMAP;
    TypeInclude QtGui QRgba64 VALUE_TYPE_QTGUI_QRGBA64;
    TypeInclude QtGui QTextBlock VALUE_TYPE_QTGUI_QTEXTBLOCK;
    TypeInclude QtGui QTextFormat VALUE_TYPE_QTGUI_QTEXTFORMAT;
    TypeInclude QtGui QTransform VALUE_TYPE_QTGUI_QTRANSFORM
  ].

Definition methods_qtgui_0_s0 : list signature_row :=
  [
    Sig [TYPE_QTGUI_QACTIONGROUP] "actionGroup" [] RObject [On QAction];
    Sig [TYPE_QTGUI_QACTION] "actions" [] (RList (IObject QObject)) [On QActionGroup];
    Sig [TYPE_QTGUI_QACTION] "activate" [PValue QAction_ActionEvent] RVoid [On QAction];
    Sig [TYPE_QTGUI_QACTION] "addAction" [PObject QAction false] RObject [On QActionGroup];
    Sig [TYPE_QTGUI_QACTION; VALUE_TYPE_QTGUI_QICON] "addAction" [PValue QIcon; PString true] RObject [On
        QActionGroup];
    Sig [TYPE_QTGUI_QACTION] "addAction" [PString true] RObject [On QActionGroup];
    Sig [] "addApplicationEmojiFontFamily" [PString true] RVoid [Static QFontDatabase];
    Sig [TYPE_QTCORE_QCHAR] "addApplicationFallbackFontFamily" [PValue QChar_Script; PString true] RVoid
        [Static QFontDatabase];
    Sig [] "addApplicationFont" [PString true] RDouble [Static QFontDatabase];
    Sig [VALUE_TYPE_QTCORE_QBYTEARRAY] "addApplicationFontFromData" [PValue QByteArray] RDouble [Static
        QFontDatabase]
  ].

Definition methods_qtgui_0_s10 : list signature_row :=
  [
    Sig [] "allocationLimit" [] RDouble [Static QImageReader];
    Sig [VALUE_TYPE_QTCORE_QPOINTF] "anchorAt" [PValue QPointF] RString [On QAbstractTextDocumentLayout];
    Sig [VALUE_TYPE_QTCORE_QRECTF] "anchorRectangle" [] (RValue QRectF) [On QInputMethod];
    Sig [] "applicationDisplayName" [] RString [Static QGuiApplication];
    Sig [] "applicationEmojiFontFamilies" [] (RList (IMeta QString)) [Static QFontDatabase];
    Sig [TYPE_QTCORE_QCHAR] "applicationFallbackFontFamilies" [PValue QChar_Script] (RList (IMeta QString))
        [Static QFontDatabase];
    Sig [] "applicationFontFamilies" [PInt] (RList (IMeta QString)) [Static QFontDatabase];
    Sig [ENUM_QT_APPLICATIONSTATE] "applicationState" [] (RMeta Qt_ApplicationState) [Static
        QGuiApplication];
    Sig [TYPE_QTCORE_QOBJECT] "associatedObjects" [] (RList (IObject QObject)) [On QAction];
    Sig [] "autoRepeat" [] RBool [On QAction]
  ].

Definition methods_qtgui_0_s20 : list signature_row :=
  [
    Sig [VALUE_TYPE_QTCORE_QRECT] "availableVirtualGeometry" [] (RValue QRect) [On QInputDevice];
    Sig [VALUE_TYPE_QTCORE_QPOINTF; VALUE_TYPE_QTGUI_QTEXTBLOCK] "blockWithMarkerAt" [PValue QPointF]
        (RValue QTextBlock) [On QAbstractTextDocumentLayout];
    Sig [] "bold" [PString true; PString true] RBool [Static QFontDatabase];
    Sig [] "bottom" [] RDouble [On QDoubleValidator];
    Sig [] "bottom" [] RDouble [On QIntValidator];
    Sig [] "cacheStatistics" [] RVoid [Static QFont];
    Sig [VALUE_TYPE_QTCORE_QMODELINDEX] "canFetchMore" [PValue QModelIndex] RBool [On QFileSystemModel];
    Sig [] "cancel" [] RVoid [Static QDrag];
    Sig [TYPE_QTGUI_QINPUTDEVICE] "capabilities" [] (RMeta QInputDevice_Capabilities) [On QInputDevice];
    Sig [VALUE_TYPE_QTGUI_QCURSOR] "changeOverrideCursor" [PValue QCursor] RVoid [Static QGuiApplication];
    Sig [TYPE_QTGUI_QACTION] "checkedAction" [] RObject [On QActionGroup]
  ].

Definition methods_qtgui_0_s31 : list signature_row :=
  [
    Sig [] "cleanup" [] RVoid [Static QFont];
    Sig [TYPE_QTGUI_QCLIPBOARD] "clear" [PValue QClipboard_Mode] RVoid [On QClipboard];
    Sig [TYPE_QTGUI_QCLIPBOARD] "clipboard" [] RObject [Static QGuiApplication];
    Sig [] "colorNames" [] (RList (IMeta QString)) [Static QColor];
    Sig [VALUE_TYPE_QTCORE_QMODELINDEX] "columnCount" [PValue QModelIndex] RDouble [On QFileSystemModel];
    Sig [] "commit" [] RVoid [On QInputMethod];
    Sig [ENUM_QT_CONTRASTPREFERENCE] "contrastPreference" [] (RMeta Qt_ContrastPreference) [On
        QAccessibilityHints];
    Sig [ENUM_QT_CONTRASTPREFERENCE] "contrastPreferenceChanged" [PValue Qt_ContrastPreference] RVoid [On
        QAccessibilityHints];
    Sig [VALUE_TYPE_QTCORE_QRECTF] "cursorRectangle" [] (RValue QRectF) [On QInputMethod];
    Sig [] "data" [] RVariant [On QAction]
  ].

Definition methods_qtgui_0_s41 : list signature_row :=
  [
    Sig [VALUE_TYPE_QTCORE_QMODELINDEX] "data" [PValue QModelIndex; PInt] RVariant [On QFileSystemModel];
    Sig [] "decimals" [] RDouble [On QDoubleValidator];
    Sig [ENUM_QT_DROPACTION] "defaultAction" [] (RMeta Qt_DropAction) [On QDrag];
    Sig [] "desktopFileName" [] RString [Static QGuiApplication];
    Sig [] "desktopSettingsAware" [] RBool [Static QGuiApplication];
    Sig [] "devicePixelRatio" [] RDouble [On QGuiApplication];
    Sig [TYPE_QTGUI_QINPUTDEVICE] "devices" [] (RList (IObject QObject)) [Static QInputDevice];
    Sig [TYPE_QTGUI_QTEXTDOCUMENT] "document" [] RObject [On QAbstractTextDocumentLayout];
    Sig [ENUM_QT_DROPACTION; VALUE_TYPE_QTGUI_QPIXMAP] "dragCursor" [PValue Qt_DropAction] (RValue QPixmap)
        [On QDrag];
    Sig [ENUM_QT_DROPACTION; TYPE_QTCORE_QMIMEDATA; VALUE_TYPE_QTCORE_QMODELINDEX] "dropMimeData" [PObject
        QMimeData false; PValue Qt_DropAction; PInt; PInt; PValue QModelIndex] RBool [On QFileSystemModel]
  ].

Definition methods_qtgui_0_s51 : list signature_row :=
  [
    Sig [TYPE_QTGUI_QACTIONGROUP] "exclusionPolicy" [] (RMeta QActionGroup_ExclusionPolicy) [On
        QActionGroup];
    Sig [] "exec" [] RDouble [Static QGuiApplication];
    Sig [ENUM_QT_DROPACTION; ENUM_QT_DROPACTIONS] "exec" [PValue Qt_DropActions] (RMeta Qt_DropAction) [On
        QDrag];
    Sig [ENUM_QT_DROPACTION; ENUM_QT_DROPACTIONS] "exec" [PValue Qt_DropActions; PValue Qt_DropAction]
        (RMeta Qt_DropAction) [On QDrag];
    Sig [] "fallbackSearchPaths" [] (RList (IMeta QString)) [Static QIcon];
    Sig [] "fallbackThemeName" [] RString [Static QIcon];
    Sig [TYPE_QTGUI_QFONTDATABASE] "families" [PValue QFontDatabase_WritingSystem] (RList (IMeta QString))
        [Static QFontDatabase];
    Sig [VALUE_TYPE_QTCORE_QMODELINDEX] "fetchMore" [PValue QModelIndex] RVoid [On QFileSystemModel];
    Sig [VALUE_TYPE_QTCORE_QMODELINDEX; VALUE_TYPE_QTGUI_QICON] "fileIcon" [PValue QModelIndex] (RValue
        QIcon) [On QFileSystemModel];
    Sig [VALUE_TYPE_QTCORE_QFILEINFO; VALUE_TYPE_QTCORE_QMODELINDEX] "fileInfo" [PValue QModelIndex]
        (RValue QFileInfo) [On QFileSystemModel]
  ].

Definition methods_qtgui_0_s61 : list signature_row :=
  [
    Sig [VALUE_TYPE_QTCORE_QMODELINDEX] "fileName" [PValue QModelIndex] RString [On QFileSystemModel];
    Sig [VALUE_TYPE_QTCORE_QMODELINDEX] "filePath" [PValue QModelIndex] RString [On QFileSystemModel];
    Sig [TYPE_QTCORE_QDIR] "filter" [] (RMeta QDir_Filters) [On QFileSystemModel];
    Sig [] "fixup" [PString true] RVoid [On QDoubleValidator];
    Sig [TYPE_QTCORE_QOBJECT] "focusObject" [] RObject [Static QGuiApplication];
    Sig [TYPE_QTGUI_QWINDOW] "focusWindow" [] RObject [Static QGuiApplication];
    Sig [VALUE_TYPE_QTGUI_QFONT] "font" [] (RValue QFont) [On QAction];
    Sig [VALUE_TYPE_QTGUI_QFONT] "font" [] (RValue QFont) [Static QGuiApplication];
    Sig [VALUE_TYPE_QTGUI_QFONT] "font" [PString true; PString true; PInt] (RValue QFont) [Static
        QFontDatabase];
    Sig [VALUE_TYPE_QTCORE_QPOINTF; VALUE_TYPE_QTGUI_QTEXTFORMAT] "formatAt" [PValue QPointF] (RValue
        QTextFormat) [On QAbstractTextDocumentLayout]
  ].

Definition methods_qtgui_0_s71 : list signature_row :=
  [
    Sig [VALUE_TYPE_QTGUI_QCOLOR] "fromCmyk" [PInt; PInt; PInt; PInt; PInt] (RValue QColor) [Static QColor];
    Sig [VALUE_TYPE_QTGUI_QCOLOR] "fromCmykF" [PNumber cxx_float; PNumber cxx_float; PNumber cxx_float;
        PNumber cxx_float; PNumber cxx_float] (RValue QColor) [Static QColor];
    Sig [VALUE_TYPE_QTGUI_QCOLOR] "fromHsl" [PInt; PInt; PInt; PInt] (RValue QColor) [Static QColor];
    Sig [VALUE_TYPE_QTGUI_QCOLOR] "fromHslF" [PNumber cxx_float; PNumber cxx_float; PNumber cxx_float;
        PNumber cxx_float] (RValue QColor) [Static QColor];
    Sig [VALUE_TYPE_QTGUI_QCOLOR] "fromHsv" [PInt; PInt; PInt; PInt] (RValue QColor) [Static QColor];
    Sig [VALUE_TYPE_QTGUI_QCOLOR] "fromHsvF" [PNumber cxx_float; PNumber cxx_float; PNumber cxx_float;
        PNumber cxx_float] (RValue QColor) [Static QColor];
    Sig [VALUE_TYPE_QTCORE_QBYTEARRAY; VALUE_TYPE_QTGUI_QCOLORSPACE] "fromIccProfile" [PValue QByteArray]
        (RValue QColorSpace) [Static QColorSpace]
  ].

Definition methods_qtgui_0_s78 : list signature_row :=
  [
    Sig [VALUE_TYPE_QTGUI_QBITMAP; VALUE_TYPE_QTGUI_QPIXMAP] "fromPixmap" [PValue QPixmap] (RValue QBitmap)
        [Static QBitmap];
    Sig [VALUE_TYPE_QTGUI_QCOLOR] "fromRgb" [PInt; PInt; PInt; PInt] (RValue QColor) [Static QColor];
    Sig [VALUE_TYPE_QTGUI_QCOLOR] "fromRgbF" [PNumber cxx_float; PNumber cxx_float; PNumber cxx_float;
        PNumber cxx_float] (RValue QColor) [Static QColor];
    Sig [VALUE_TYPE_QTGUI_QCOLOR; VALUE_TYPE_QTGUI_QRGBA64] "fromRgba64" [PValue QRgba64] (RValue QColor)
        [Static QColor];
    Sig [TYPE_QTGUI_QKEYSEQUENCE; VALUE_TYPE_QTGUI_QKEYSEQUENCE] "fromString" [PString true; PValue
        QKeySequence_SequenceFormat] (RValue QKeySequence) [Static QKeySequence];
    Sig [TYPE_QTGUI_QICON; VALUE_TYPE_QTGUI_QICON] "fromTheme" [PValue QIcon_ThemeIcon] (RValue QIcon)
        [Static QIcon];
    Sig [TYPE_QTGUI_QICON; VALUE_TYPE_QTGUI_QICON] "fromTheme" [PValue QIcon_ThemeIcon; PValue QIcon]
        (RValue QIcon) [Static QIcon];
    Sig [VALUE_TYPE_QTGUI_QICON] "fromTheme" [PString true] (RValue QIcon) [Static QIcon]
  ].

Definition methods_qtgui_0_s86 : list signature_row :=
  [
    Sig [VALUE_TYPE_QTGUI_QICON] "fromTheme" [PString true; PValue QIcon] (RValue QIcon) [Static QIcon];
    Sig [TYPE_QTGUI_QINPUTDEVICE] "hasCapability" [PValue QInputDevice_Capability] RBool [On QInputDevice];
    Sig [VALUE_TYPE_QTCORE_QMODELINDEX] "hasChildren" [PValue QModelIndex] RBool [On QFileSystemModel];
    Sig [TYPE_QTGUI_QICON] "hasThemeIcon" [PValue QIcon_ThemeIcon] RBool [Static QIcon];
    Sig [] "hasThemeIcon" [PString true] RBool [Static QIcon];
    Sig [ENUM_QT_ORIENTATION] "headerData" [PInt; PValue Qt_Orientation; PInt] RVariant [On
        QFileSystemModel];
    Sig [] "hide" [] RVoid [On QInputMethod];
    Sig [ENUM_QT_HIGHDPISCALEFACTORROUNDINGPOLICY] "highDpiScaleFactorRoundingPolicy" [] (RMeta
        Qt_HighDpiScaleFactorRoundingPolicy) [Static QGuiApplication];
    Sig [VALUE_TYPE_QTCORE_QPOINT] "hotSpot" [] (RValue QPoint) [On QDrag];
    Sig [] "hover" [] RVoid [On QAction]
  ].

Definition methods_qtgui_0_s96 : list signature_row :=
  [
    Sig [VALUE_TYPE_QTGUI_QICON] "icon" [] (RValue QIcon) [On QAction];
    Sig [] "iconText" [] RString [On QAction];
    Sig [TYPE_QTGUI_QCLIPBOARD; VALUE_TYPE_QTGUI_QIMAGE] "image" [PValue QClipboard_Mode] (RValue QImage)
        [On QClipboard];
    Sig [VALUE_TYPE_QTCORE_QPOINTF] "imageAt" [PValue QPointF] RString [On QAbstractTextDocumentLayout];
    Sig [TYPE_QTCORE_QIODEVICE; VALUE_TYPE_QTCORE_QBYTEARRAY] "imageFormat" [PObject QIODevice false]
        (RValue QByteArray) [Static QImageReader];
    Sig [VALUE_TYPE_QTCORE_QBYTEARRAY] "imageFormat" [PString true] (RValue QByteArray) [Static
        QImageReader];
    Sig [VALUE_TYPE_QTCORE_QBYTEARRAY] "imageFormatsForMimeType" [PValue QByteArray] (RList (IValue
        QByteArray)) [Static QImageReader; Static QImageWriter];
    Sig [VALUE_TYPE_QTCORE_QMODELINDEX] "index" [PString true; PInt] (RValue QModelIndex) [On
        QFileSystemModel]
  ].

Definition methods_qtgui_0_s104 : list signature_row :=
  [
    Sig [VALUE_TYPE_QTCORE_QMODELINDEX] "index" [PInt; PInt; PValue QModelIndex] (RValue QModelIndex) [On
        QFileSystemModel];
    Sig [] "initialize" [] RVoid [Static QFont];
    Sig [ENUM_QT_LAYOUTDIRECTION] "inputDirection" [] (RMeta Qt_LayoutDirection) [On QInputMethod];
    Sig [VALUE_TYPE_QTCORE_QRECTF] "inputItemClipRectangle" [] (RValue QRectF) [On QInputMethod];
    Sig [VALUE_TYPE_QTCORE_QRECTF] "inputItemRectangle" [] (RValue QRectF) [On QInputMethod];
    Sig [VALUE_TYPE_QTGUI_QTRANSFORM] "inputItemTransform" [] (RValue QTransform) [On QInputMethod];
    Sig [TYPE_QTGUI_QINPUTMETHOD] "inputMethod" [] RObject [Static QGuiApplication];
    Sig [] "insertSubstitution" [PString true; PString true] RVoid [Static QFont];
    Sig [] "insertSubstitutions" [PString true; PStringList] RVoid [Static QFont]
  ].

Definition methods_qtgui_0_s113 : list signature_row :=
  [
    Sig [TYPE_QTGUI_QINPUTMETHOD] "invokeAction" [PValue QInputMethod_Action; PInt] RVoid [On QInputMethod];
    Sig [] "isAnimating" [] RBool [On QInputMethod];
    Sig [] "isBitmapScalable" [PString true; PString true] RBool [Static QFontDatabase];
    Sig [] "isCheckable" [] RBool [On QAction];
    Sig [] "isChecked" [] RBool [On QAction];
    Sig [VALUE_TYPE_QTCORE_QMODELINDEX] "isDir" [PValue QModelIndex] RBool [On QFileSystemModel];
    Sig [] "isEnabled" [] RBool [On QAction; On QActionGroup];
    Sig [] "isExclusive" [] RBool [On QActionGroup];
    Sig [] "isFixedPitch" [PString true; PString true] RBool [Static QFontDatabase];
    Sig [] "isIconVisibleInMenu" [] RBool [On QAction];
    Sig [] "isLeftToRight" [] RBool [Static QGuiApplication]
  ].

Definition methods_qtgui_0_s124 : list signature_row :=
  [
    Sig [] "isPrivateFamily" [PString true] RBool [Static QFontDatabase];
    Sig [] "isReadOnly" [] RBool [On QFileSystemModel];
    Sig [] "isRightToLeft" [] RBool [Static QGuiApplication];
    Sig [] "isSavingSession" [] RBool [On QGuiApplication];
    Sig [] "isScalable" [PString true; PString true] RBool [Static QFontDatabase];
    Sig [] "isSeparator" [] RBool [On QAction];
    Sig [] "isSessionRestored" [] RBool [On QGuiApplication];
    Sig [] "isShortcutVisibleInContextMenu" [] RBool [On QAction];
    Sig [] "isSmoothlyScalable" [PString true; PString true] RBool [Static QFontDatabase];
    Sig [] "isValidColor" [PString true] RBool [Static QColor];
    Sig [] "isVisible" [] RBool [On QAction; On QActionGroup; On QInputMethod]
  ].

Definition methods_qtgui_0_s135 : list signature_row :=
  [
    Sig [] "italic" [PString true; PString true] RBool [Static QFontDatabase];
    Sig [TYPE_QTGUI_QKEYSEQUENCE; VALUE_TYPE_QTGUI_QKEYSEQUENCE] "keyBindings" [PValue
        QKeySequence_StandardKey] (RList (IValue QKeySequence)) [Static QKeySequence];
    Sig [VALUE_TYPE_QTCORE_QRECTF] "keyboardRectangle" [] (RValue QRectF) [On QInputMethod];
    Sig [VALUE_TYPE_QTCORE_QDATETIME; VALUE_TYPE_QTCORE_QMODELINDEX] "lastModified" [PValue QModelIndex]
        (RValue QDateTime) [On QFileSystemModel];
    Sig [VALUE_TYPE_QTCORE_QDATETIME; VALUE_TYPE_QTCORE_QMODELINDEX; VALUE_TYPE_QTCORE_QTIMEZONE]
        "lastModified" [PValue QModelIndex; PValue QTimeZone] (RValue QDateTime) [On QFileSystemModel];
    Sig [ENUM_QT_LAYOUTDIRECTION] "layoutDirection" [] (RMeta Qt_LayoutDirection) [Static QGuiApplication];
    Sig [TYPE_QTGUI_QKEYSEQUENCE; VALUE_TYPE_QTGUI_QKEYSEQUENCE] "listFromString" [PString true; PValue
        QKeySequence_SequenceFormat] (RList (IValue QKeySequence)) [Static QKeySequence];
    Sig [TYPE_QTGUI_QKEYSEQUENCE; VALUE_TYPE_QTGUI_QKEYSEQUENCE] "listToString" [PList (IValue
        QKeySequence); PValue QKeySequence_SequenceFormat] RString [Static QKeySequence]
  ].

Definition methods_qtgui_0_s143 : list signature_row :=
  [
    Sig [VALUE_TYPE_QTCORE_QLOCALE] "locale" [] (RValue QLocale) [On QInputMethod];
    Sig [TYPE_QTGUI_QACTION] "menuRole" [] (RMeta QAction_MenuRole) [On QAction];
    Sig [TYPE_QTCORE_QMIMEDATA] "mimeData" [] RObject [On QDrag];
    Sig [TYPE_QTCORE_QMIMEDATA; TYPE_QTGUI_QCLIPBOARD] "mimeData" [PValue QClipboard_Mode] RObject [On
        QClipboard];
    Sig [] "mimeTypes" [] (RList (IMeta QString)) [On QFileSystemModel];
    Sig [VALUE_TYPE_QTCORE_QMODELINDEX] "mkdir" [PValue QModelIndex; PString true] (RValue QModelIndex) [On
        QFileSystemModel];
    Sig [VALUE_TYPE_QTGUI_QKEYSEQUENCE] "mnemonic" [PString true] (RValue QKeySequence) [Static
        QKeySequence];
    Sig [TYPE_QTGUI_QWINDOW] "modalWindow" [] RObject [Static QGuiApplication];
    Sig [ENUM_QT_MOUSEBUTTONS] "mouseButtons" [] (RMeta Qt_MouseButtons) [Static QGuiApplication];
    Sig [] "myComputer" [PInt] RVariant [On QFileSystemModel]
  ].

Definition methods_qtgui_0_s153 : list signature_row :=
  [
    Sig [] "name" [] RString [On QInputDevice];
    Sig [] "nameFilterDisables" [] RBool [On QFileSystemModel];
    Sig [] "nameFilters" [] (RList (IMeta QString)) [On QFileSystemModel];
    Sig [TYPE_QTGUI_QDOUBLEVALIDATOR] "notation" [] (RMeta QDoubleValidator_Notation) [On QDoubleValidator];
    Sig [VALUE_TYPE_QTCORE_QURL] "openUrl" [PValue QUrl] RBool [Static QDesktopServices];
    Sig [TYPE_QTGUI_QFILESYSTEMMODEL] "options" [] (RMeta QFileSystemModel_Options) [On QFileSystemModel];
    Sig [] "ownsClipboard" [] RBool [On QClipboard];
    Sig [] "ownsFindBuffer" [] RBool [On QClipboard];
    Sig [] "ownsSelection" [] RBool [On QClipboard];
    Sig [VALUE_TYPE_QTGUI_QPALETTE] "palette" [] (RValue QPalette) [Static QGuiApplication];
    Sig [VALUE_TYPE_QTCORE_QMODELINDEX] "parent" [PValue QModelIndex] (RValue QModelIndex) [On
        QFileSystemModel]
  ].

Definition methods_qtgui_0_s164 : list signature_row :=
  [
    Sig [VALUE_TYPE_QTGUI_QPIXMAP] "pixmap" [] (RValue QPixmap) [On QDrag];
    Sig [TYPE_QTGUI_QCLIPBOARD; VALUE_TYPE_QTGUI_QPIXMAP] "pixmap" [PValue QClipboard_Mode] (RValue
        QPixmap) [On QClipboard];
    Sig [] "platformName" [] RString [Static QGuiApplication];
    Sig [] "pointSizes" [PString true; PString true] (RList (IMeta cxx_int)) [Static QFontDatabase];
    Sig [VALUE_TYPE_QTCORE_QPOINT] "pos" [] (RValue QPoint) [Static QCursor];
    Sig [TYPE_QTGUI_QSCREEN; VALUE_TYPE_QTCORE_QPOINT] "pos" [PObject QScreen false] (RValue QPoint)
        [Static QCursor];
    Sig [TYPE_QTGUI_QINPUTDEVICE] "primaryKeyboard" [PString true] RObject [Static QInputDevice];
    Sig [TYPE_QTGUI_QSCREEN] "primaryScreen" [] RObject [Static QGuiApplication];
    Sig [TYPE_QTGUI_QACTION] "priority" [] (RMeta QAction_Priority) [On QAction];
    Sig [ENUM_QT_INPUTMETHODQUERY] "queryFocusObject" [PValue Qt_InputMethodQuery; PVariant] RVariant
        [Static QInputMethod]
  ].

Definition methods_qtgui_0_s174 : list signature_row :=
  [
    Sig [] "quitOnLastWindowClosed" [] RBool [Static QGuiApplication];
    Sig [TYPE_QTCORE_QOBJECT] "registerHandler" [PInt; PObject QObject false] RVoid [On
        QAbstractTextDocumentLayout];
    Sig [VALUE_TYPE_QTCORE_QMODELINDEX] "remove" [PValue QModelIndex] RBool [On QFileSystemModel];
    Sig [TYPE_QTGUI_QACTION] "removeAction" [PObject QAction false] RVoid [On QActionGroup];
    Sig [] "removeAllApplicationFonts" [] RBool [Static QFontDatabase];
    Sig [] "removeApplicationEmojiFontFamily" [PString true] RBool [Static QFontDatabase];
    Sig [TYPE_QTCORE_QCHAR] "removeApplicationFallbackFontFamily" [PValue QChar_Script; PString true] RBool
        [Static QFontDatabase];
    Sig [] "removeApplicationFont" [PInt] RBool [Static QFontDatabase];
    Sig [] "removeSubstitutions" [PString true] RVoid [Static QFont];
    Sig [] "reset" [] RVoid [On QInputMethod]
  ].

Definition methods_qtgui_0_s184 : list signature_row :=
  [
    Sig [] "resetEnabled" [] RVoid [On QAction];
    Sig [] "resolveSymlinks" [] RBool [On QFileSystemModel];
    Sig [] "restoreOverrideCursor" [] RVoid [Static QGuiApplication];
    Sig [VALUE_TYPE_QTCORE_QMODELINDEX] "rmdir" [PValue QModelIndex] RBool [On QFileSystemModel];
    Sig [VALUE_TYPE_QTCORE_QDIR] "rootDirectory" [] (RValue QDir) [On QFileSystemModel];
    Sig [] "rootPath" [] RString [On QFileSystemModel];
    Sig [VALUE_TYPE_QTCORE_QMODELINDEX] "rowCount" [PValue QModelIndex] RDouble [On QFileSystemModel];
    Sig [TYPE_QTGUI_QSCREEN; VALUE_TYPE_QTCORE_QPOINT] "screenAt" [PValue QPoint] RObject [Static
        QGuiApplication];
    Sig [TYPE_QTGUI_QSCREEN] "screens" [] (RList (IObject QObject)) [Static QGuiApplication];
    Sig [] "seatName" [] RString [On QInputDevice];
    Sig [] "seatNames" [] (RList (IMeta QString)) [Static QInputDevice]
  ].

Definition methods_qtgui_0_s195 : list signature_row :=
  [
    Sig [] "sessionId" [] RString [On QGuiApplication];
    Sig [] "sessionKey" [] RString [On QGuiApplication];
    Sig [TYPE_QTGUI_QACTIONGROUP] "setActionGroup" [PObject QActionGroup false] RVoid [On QAction];
    Sig [] "setAllocationLimit" [PInt] RVoid [Static QImageReader];
    Sig [] "setApplicationDisplayName" [PString true] RVoid [Static QGuiApplication];
    Sig [] "setApplicationEmojiFontFamilies" [PStringList] RVoid [Static QFontDatabase];
    Sig [TYPE_QTCORE_QCHAR] "setApplicationFallbackFontFamilies" [PValue QChar_Script; PStringList] RVoid
        [Static QFontDatabase];
    Sig [] "setAutoRepeat" [PBool] RVoid [On QAction];
    Sig [] "setBadgeNumber" [PMeta cxx_qint64] RVoid [On QGuiApplication];
    Sig [] "setBottom" [PNumber cxx_double] RVoid [On QDoubleValidator]
  ].

Definition methods_qtgui_0_s205 : list signature_row :=
  [
    Sig [] "setBottom" [PInt] RVoid [On QIntValidator];
    Sig [] "setCheckable" [PBool] RVoid [On QAction];
    Sig [] "setChecked" [PBool] RVoid [On QAction];
    Sig [VALUE_TYPE_QTCORE_QMODELINDEX] "setData" [PValue QModelIndex; PVariant; PInt] RBool [On
        QFileSystemModel];
    Sig [] "setData" [PVariant] RVoid [On QAction];
    Sig [] "setDecimals" [PInt] RVoid [On QDoubleValidator];
    Sig [] "setDesktopFileName" [PString true] RVoid [Static QGuiApplication];
    Sig [] "setDesktopSettingsAware" [PBool] RVoid [Static QGuiApplication];
    Sig [] "setDisabled" [PBool] RVoid [On QAction; On QActionGroup]
  ].

Definition methods_qtgui_0_s214 : list signature_row :=
  [
    Sig [ENUM_QT_DROPACTION; VALUE_TYPE_QTGUI_QPIXMAP] "setDragCursor" [PValue QPixmap; PValue
        Qt_DropAction] RVoid [On QDrag];
    Sig [] "setEnabled" [PBool] RVoid [On QAction; On QActionGroup];
    Sig [TYPE_QTGUI_QACTIONGROUP] "setExclusionPolicy" [PValue QActionGroup_ExclusionPolicy] RVoid [On
        QActionGroup];
    Sig [] "setExclusive" [PBool] RVoid [On QActionGroup];
    Sig [] "setFallbackSearchPaths" [PStringList] RVoid [Static QIcon];
    Sig [] "setFallbackThemeName" [PString true] RVoid [Static QIcon];
    Sig [TYPE_QTCORE_QDIR] "setFilter" [PValue QDir_Filters] RVoid [On QFileSystemModel];
    Sig [VALUE_TYPE_QTGUI_QFONT] "setFont" [PValue QFont] RVoid [On QAction];
    Sig [VALUE_TYPE_QTGUI_QFONT] "setFont" [PValue QFont] RVoid [Static QGuiApplication]
  ].

Definition methods_qtgui_0_s223 : list signature_row :=
  [
    Sig [ENUM_QT_HIGHDPISCALEFACTORROUNDINGPOLICY] "setHighDpiScaleFactorRoundingPolicy" [PValue
        Qt_HighDpiScaleFactorRoundingPolicy] RVoid [Static QGuiApplication];
    Sig [VALUE_TYPE_QTCORE_QPOINT] "setHotSpot" [PValue QPoint] RVoid [On QDrag];
    Sig [VALUE_TYPE_QTGUI_QICON] "setIcon" [PValue QIcon] RVoid [On QAction];
    Sig [] "setIconText" [PString true] RVoid [On QAction];
    Sig [] "setIconVisibleInMenu" [PBool] RVoid [On QAction];
    Sig [TYPE_QTGUI_QCLIPBOARD; VALUE_TYPE_QTGUI_QIMAGE] "setImage" [PValue QImage; PValue QClipboard_Mode]
        RVoid [On QClipboard];
    Sig [VALUE_TYPE_QTCORE_QRECTF] "setInputItemRectangle" [PValue QRectF] RVoid [On QInputMethod];
    Sig [VALUE_TYPE_QTGUI_QTRANSFORM] "setInputItemTransform" [PValue QTransform] RVoid [On QInputMethod];
    Sig [ENUM_QT_LAYOUTDIRECTION] "setLayoutDirection" [PValue Qt_LayoutDirection] RVoid [Static
        QGuiApplication]
  ].

Definition methods_qtgui_0_s232 : list signature_row :=
  [
    Sig [TYPE_QTGUI_QACTION] "setMenuRole" [PValue QAction_MenuRole] RVoid [On QAction];
    Sig [TYPE_QTCORE_QMIMEDATA] "setMimeData" [PObject QMimeData false] RVoid [On QDrag];
    Sig [] "setNameFilterDisables" [PBool] RVoid [On QFileSystemModel];
    Sig [] "setNameFilters" [PStringList] RVoid [On QFileSystemModel];
    Sig [TYPE_QTGUI_QDOUBLEVALIDATOR] "setNotation" [PValue QDoubleValidator_Notation] RVoid [On
        QDoubleValidator];
    Sig [TYPE_QTGUI_QFILESYSTEMMODEL] "setOption" [PValue QFileSystemModel_Option; PBool] RVoid [On
        QFileSystemModel];
    Sig [TYPE_QTGUI_QFILESYSTEMMODEL] "setOptions" [PValue QFileSystemModel_Options] RVoid [On
        QFileSystemModel];
    Sig [VALUE_TYPE_QTGUI_QCURSOR] "setOverrideCursor" [PValue QCursor] RVoid [Static QGuiApplication];
    Sig [VALUE_TYPE_QTGUI_QPALETTE] "setPalette" [PValue QPalette] RVoid [Static QGuiApplication]
  ].

Definition methods_qtgui_0_s241 : list signature_row :=
  [
    Sig [VALUE_TYPE_QTGUI_QPIXMAP] "setPixmap" [PValue QPixmap] RVoid [On QDrag];
    Sig [TYPE_QTGUI_QCLIPBOARD; VALUE_TYPE_QTGUI_QPIXMAP] "setPixmap" [PValue QPixmap; PValue
        QClipboard_Mode] RVoid [On QClipboard];
    Sig [VALUE_TYPE_QTCORE_QPOINT] "setPos" [PValue QPoint] RVoid [Static QCursor];
    Sig [TYPE_QTGUI_QSCREEN; VALUE_TYPE_QTCORE_QPOINT] "setPos" [PObject QScreen false; PValue QPoint]
        RVoid [Static QCursor];
    Sig [TYPE_QTGUI_QSCREEN] "setPos" [PObject QScreen false; PInt; PInt] RVoid [Static QCursor];
    Sig [] "setPos" [PInt; PInt] RVoid [Static QCursor];
    Sig [TYPE_QTGUI_QACTION] "setPriority" [PValue QAction_Priority] RVoid [On QAction];
    Sig [] "setQuitOnLastWindowClosed" [PBool] RVoid [Static QGuiApplication]
  ].

Definition methods_qtgui_0_s249 : list signature_row :=
  [
    Sig [] "setRange" [PNumber cxx_double; PNumber cxx_double; PInt] RVoid [On QDoubleValidator];
    Sig [] "setRange" [PInt; PInt] RVoid [On QIntValidator];
    Sig [] "setReadOnly" [PBool] RVoid [On QFileSystemModel];
    Sig [] "setResolveSymlinks" [PBool] RVoid [On QFileSystemModel];
    Sig [VALUE_TYPE_QTCORE_QMODELINDEX] "setRootPath" [PString true] (RValue QModelIndex) [On
        QFileSystemModel];
    Sig [] "setSeparator" [PBool] RVoid [On QAction];
    Sig [VALUE_TYPE_QTGUI_QKEYSEQUENCE] "setShortcut" [PValue QKeySequence] RVoid [On QAction];
    Sig [ENUM_QT_SHORTCUTCONTEXT] "setShortcutContext" [PValue Qt_ShortcutContext] RVoid [On QAction];
    Sig [] "setShortcutVisibleInContextMenu" [PBool] RVoid [On QAction]
  ].

Definition methods_qtgui_0_s258 : list signature_row :=
  [
    Sig [TYPE_QTGUI_QKEYSEQUENCE] "setShortcuts" [PValue QKeySequence_StandardKey] RVoid [On QAction];
    Sig [VALUE_TYPE_QTGUI_QKEYSEQUENCE] "setShortcuts" [PList (IValue QKeySequence)] RVoid [On QAction];
    Sig [] "setStatusTip" [PString true] RVoid [On QAction];
    Sig [] "setText" [PString true] RVoid [On QAction];
    Sig [TYPE_QTGUI_QCLIPBOARD] "setText" [PString true; PValue QClipboard_Mode] RVoid [On QClipboard];
    Sig [] "setThemeName" [PString true] RVoid [Static QIcon];
    Sig [] "setThemeSearchPaths" [PStringList] RVoid [Static QIcon];
    Sig [] "setToolTip" [PString true] RVoid [On QAction];
    Sig [] "setTop" [PNumber cxx_double] RVoid [On QDoubleValidator]
  ].

Definition methods_qtgui_0_s267 : list signature_row :=
  [
    Sig [] "setTop" [PInt] RVoid [On QIntValidator];
    Sig [] "setVisible" [PBool] RVoid [On QAction; On QActionGroup; On QInputMethod];
    Sig [] "setWhatsThis" [PString true] RVoid [On QAction];
    Sig [VALUE_TYPE_QTGUI_QICON] "setWindowIcon" [PValue QIcon] RVoid [Static QGuiApplication];
    Sig [VALUE_TYPE_QTGUI_QKEYSEQUENCE] "shortcut" [] (RValue QKeySequence) [On QAction];
    Sig [ENUM_QT_SHORTCUTCONTEXT] "shortcutContext" [] (RMeta Qt_ShortcutContext) [On QAction];
    Sig [VALUE_TYPE_QTGUI_QKEYSEQUENCE] "shortcuts" [] (RList (IValue QKeySequence)) [On QAction];
    Sig [] "show" [] RVoid [On QInputMethod];
    Sig [TYPE_QTCORE_QOBJECT] "showStatusText" [PObject QObject false] RBool [On QAction]
  ].

Definition methods_qtgui_0_s276 : list signature_row :=
  [
    Sig [VALUE_TYPE_QTCORE_QMODELINDEX] "sibling" [PInt; PInt; PValue QModelIndex] (RValue QModelIndex) [On
        QFileSystemModel];
    Sig [VALUE_TYPE_QTCORE_QMODELINDEX] "size" [PValue QModelIndex] (RMeta cxx_qint64) [On
        QFileSystemModel];
    Sig [] "smoothSizes" [PString true; PString true] (RList (IMeta cxx_int)) [Static QFontDatabase];
    Sig [ENUM_QT_SORTORDER] "sort" [PInt; PValue Qt_SortOrder] RVoid [On QFileSystemModel];
    Sig [TYPE_QTCORE_QOBJECT] "source" [] RObject [On QDrag];
    Sig [] "standardSizes" [] (RList (IMeta cxx_int)) [Static QFontDatabase];
    Sig [] "statusTip" [] RString [On QAction];
    Sig [TYPE_QTGUI_QSTYLEHINTS] "styleHints" [] RObject [Static QGuiApplication];
    Sig [VALUE_TYPE_QTGUI_QFONT] "styleString" [PValue QFont] RString [Static QFontDatabase]
  ].

Definition methods_qtgui_0_s285 : list signature_row :=
  [
    Sig [VALUE_TYPE_QTGUI_QFONTINFO] "styleString" [PValue QFontInfo] RString [Static QFontDatabase];
    Sig [] "styles" [PString true] (RList (IMeta QString)) [Static QFontDatabase];
    Sig [] "substitute" [PString true] RString [Static QFont];
    Sig [] "substitutes" [PString true] (RList (IMeta QString)) [Static QFont];
    Sig [] "substitutions" [] (RList (IMeta QString)) [Static QFont];
    Sig [ENUM_QT_DROPACTIONS] "supportedActions" [] (RMeta Qt_DropActions) [On QDrag];
    Sig [ENUM_QT_DROPACTIONS] "supportedDropActions" [] (RMeta Qt_DropActions) [On QFileSystemModel];
    Sig [VALUE_TYPE_QTCORE_QBYTEARRAY] "supportedImageFormats" [] (RList (IValue QByteArray)) [Static
        QImageReader; Static QImageWriter]
  ].

Definition methods_qtgui_0_s293 : list signature_row :=
  [
    Sig [VALUE_TYPE_QTCORE_QBYTEARRAY] "supportedMimeTypes" [] (RList (IValue QByteArray)) [Static
        QImageReader; Static QImageWriter];
    Sig [] "supportsFindBuffer" [] RBool [On QClipboard];
    Sig [] "supportsSelection" [] RBool [On QClipboard];
    Sig [] "sync" [] RVoid [Static QGuiApplication];
    Sig [TYPE_QTGUI_QFONTDATABASE; VALUE_TYPE_QTGUI_QFONT] "systemFont" [PValue QFontDatabase_SystemFont]
        (RValue QFont) [Static QFontDatabase];
    Sig [] "systemId" [] (RMeta cxx_qint64) [On QInputDevice];
    Sig [TYPE_QTCORE_QOBJECT] "target" [] RObject [On QDrag];
    Sig [TYPE_QTGUI_QFILESYSTEMMODEL] "testOption" [PValue QFileSystemModel_Option] RBool [On
        QFileSystemModel];
    Sig [] "text" [] RString [On QAction];
    Sig [TYPE_QTGUI_QCLIPBOARD] "text" [PValue QClipboard_Mode] RString [On QClipboard]
  ].

Definition methods_qtgui_0_s303 : list signature_row :=
  [
    Sig [] "themeName" [] RString [Static QIcon];
    Sig [] "themeSearchPaths" [] (RList (IMeta QString)) [Static QIcon];
    Sig [TYPE_QTGUI_QIMAGE; VALUE_TYPE_QTGUI_QPIXELFORMAT] "toImageFormat" [PValue QPixelFormat] (RMeta
        QImage_Format) [Static QImage];
    Sig [TYPE_QTGUI_QIMAGE; VALUE_TYPE_QTGUI_QPIXELFORMAT] "toPixelFormat" [PValue QImage_Format] (RValue
        QPixelFormat) [Static QImage];
    Sig [] "toggle" [] RVoid [On QAction];
    Sig [] "toolTip" [] RString [On QAction];
    Sig [] "top" [] RDouble [On QDoubleValidator];
    Sig [] "top" [] RDouble [On QIntValidator];
    Sig [TYPE_QTGUI_QWINDOW; VALUE_TYPE_QTCORE_QPOINT] "topLevelAt" [PValue QPoint] RObject [Static
        QGuiApplication];
    Sig [] "trigger" [] RVoid [On QAction]
  ].

Definition methods_qtgui_0_s313 : list signature_row :=
  [
    Sig [VALUE_TYPE_QTGUI_QTRANSFORM] "trueMatrix" [PValue QTransform; PInt; PInt] (RValue QTransform)
        [Static QImage];
    Sig [TYPE_QTGUI_QINPUTDEVICE] "type" [] (RMeta QInputDevice_DeviceType) [On QInputDevice];
    Sig [VALUE_TYPE_QTCORE_QMODELINDEX] "type" [PValue QModelIndex] RString [On QFileSystemModel];
    Sig [TYPE_QTCORE_QOBJECT] "unregisterHandler" [PInt; PObject QObject false] RVoid [On
        QAbstractTextDocumentLayout];
    Sig [] "unsetUrlHandler" [PString true] RVoid [Static QDesktopServices];
    Sig [ENUM_QT_INPUTMETHODQUERIES] "update" [PValue Qt_InputMethodQueries] RVoid [On QInputMethod];
    Sig [] "weight" [PString true; PString true] RDouble [Static QFontDatabase];
    Sig [] "whatsThis" [] RString [On QAction];
    Sig [VALUE_TYPE_QTGUI_QICON] "windowIcon" [] (RValue QIcon) [Static QGuiApplication]
  ].

Definition methods_qtgui_0_s322 : list signature_row :=
  [
    Sig [TYPE_QTGUI_QFONTDATABASE] "writingSystemName" [PValue QFontDatabase_WritingSystem] RString [Static
        QFontDatabase];
    Sig [TYPE_QTGUI_QFONTDATABASE] "writingSystemSample" [PValue QFontDatabase_WritingSystem] RString
        [Static QFontDatabase];
    Sig [TYPE_QTGUI_QFONTDATABASE] "writingSystems" [] (RList (IMeta QFontDatabase_WritingSystem)) [Static
        QFontDatabase];
    Sig [TYPE_QTGUI_QFONTDATABASE] "writingSystems" [PString true] (RList (IMeta
        QFontDatabase_WritingSystem)) [Static QFontDatabase]
  ].

Definition methods_qtgui_0 : method_shard :=
  MethodShard QtGui "KRY_QT6_NATIVE_METHODS_QTGUI_"
    (methods_qtgui_0_i0 ++ methods_qtgui_0_i1)
    (methods_qtgui_0_s0 ++ methods_qtgui_0_s10 ++ methods_qtgui_0_s20 ++ methods_qtgui_0_s31 ++
        methods_qtgui_0_s41 ++ methods_qtgui_0_s51 ++ methods_qtgui_0_s61 ++ methods_qtgui_0_s71 ++
        methods_qtgui_0_s78 ++ methods_qtgui_0_s86 ++ methods_qtgui_0_s96 ++ methods_qtgui_0_s104 ++
        methods_qtgui_0_s113 ++ methods_qtgui_0_s124 ++ methods_qtgui_0_s135 ++ methods_qtgui_0_s143 ++
        methods_qtgui_0_s153 ++ methods_qtgui_0_s164 ++ methods_qtgui_0_s174 ++ methods_qtgui_0_s184 ++
        methods_qtgui_0_s195 ++ methods_qtgui_0_s205 ++ methods_qtgui_0_s214 ++ methods_qtgui_0_s223 ++
        methods_qtgui_0_s232 ++ methods_qtgui_0_s241 ++ methods_qtgui_0_s249 ++ methods_qtgui_0_s258 ++
        methods_qtgui_0_s267 ++ methods_qtgui_0_s276 ++ methods_qtgui_0_s285 ++ methods_qtgui_0_s293 ++
        methods_qtgui_0_s303 ++ methods_qtgui_0_s313 ++ methods_qtgui_0_s322)
    [].

Definition methods_qtgui_1_i0 : list include :=
  [
    ClassInclude QtGui QMovie QMovie;
    ClassInclude QtGui QOffscreenSurface QOffscreenSurface;
    ClassInclude QtGui QOpenGLContext QOpenGLContext;
    ClassInclude QtGui QOpenGLContextGroup QOpenGLContextGroup;
    ClassInclude QtGui QPageRanges QPageRanges;
    ClassInclude QtGui QPageSize QPageSize;
    ClassInclude QtGui QPaintDevice QPaintDevice;
    ClassInclude QtGui QPaintDeviceWindow QPaintDeviceWindow;
    ClassInclude QtGui QPdfWriter QPdfWriter;
    ClassInclude QtGui QPixmap QPixmap;
    ClassInclude QtGui QPixmapCache QPixmapCache;
    ClassInclude QtGui QPointingDevice QPointingDevice;
    ClassInclude QtGui QPointingDeviceUniqueId QPointingDeviceUniqueId;
    ClassInclude QtGui QQuaternion QQuaternion;
    ClassInclude QtGui QRawFont QRawFont;
    ClassInclude QtGui QRegularExpressionValidator QRegularExpressionValidator;
    ClassInclude QtGui QRgba64 QRgba64;
    ClassInclude QtGui QScreen QScreen;
    ClassInclude QtGui QSessionManager QSessionManager;
    ClassInclude QtGui QShortcut QShortcut;
    ClassInclude QtGui QStandardItemModel QStandardItemModel;
    ClassInclude QtGui QStyleHints QStyleHints;
    ClassInclude QtGui QSurfaceFormat QSurfaceFormat;
    ClassInclude QtGui QSyntaxHighlighter QSyntaxHighlighter;
    TypeInclude QtCore QIODevice TYPE_QTCORE_QIODEVICE;
    TypeInclude QtCore QMimeData TYPE_QTCORE_QMIMEDATA;
    TypeInclude QtCore QObject TYPE_QTCORE_QOBJECT;
    TypeInclude QtGui QAccessibilityHints TYPE_QTGUI_QACCESSIBILITYHINTS;
    TypeInclude QtGui QOpenGLContext TYPE_QTGUI_QOPENGLCONTEXT;
    TypeInclude QtGui QOpenGLContextGroup TYPE_QTGUI_QOPENGLCONTEXTGROUP;
    TypeInclude QtGui QPointingDevice TYPE_QTGUI_QPOINTINGDEVICE;
    TypeInclude QtGui QScreen TYPE_QTGUI_QSCREEN;
    TypeInclude QtGui QTextDocument TYPE_QTGUI_QTEXTDOCUMENT;
    EnumDefine ENUM_QT_COLORSCHEME;
    EnumDefine ENUM_QT_CONTEXTMENUTRIGGER;
    EnumDefine ENUM_QT_DROPACTION;
    EnumDefine ENUM_QT_DROPACTIONS;
    EnumDefine ENUM_QT_ORIENTATION;
    EnumDefine ENUM_QT_SCREENORIENTATION;
    EnumDefine ENUM_QT_SHORTCUTCONTEXT;
    EnumDefine ENUM_QT_SORTORDER;
    EnumDefine ENUM_QT_TABFOCUSBEHAVIOR;
    TypeInclude QtGui QFontDatabase TYPE_QTGUI_QFONTDATABASE;
    TypeInclude QtGui QImageReader TYPE_QTGUI_QIMAGEREADER;
    TypeInclude QtGui QKeySequence TYPE_QTGUI_QKEYSEQUENCE;
    TypeInclude QtGui QMovie TYPE_QTGUI_QMOVIE;
    TypeInclude QtGui QOpenGLContext TYPE_QTGUI_QOPENGLCONTEXT;
    TypeInclude QtGui QPageSize TYPE_QTGUI_QPAGESIZE;
    TypeInclude QtGui QPagedPaintDevice TYPE_QTGUI_QPAGEDPAINTDEVICE;
    TypeInclude QtGui QPdfWriter TYPE_QTGUI_QPDFWRITER;
    TypeInclude QtGui QPixmapCache TYPE_QTGUI_QPIXMAPCACHE;
    TypeInclude QtGui QPointingDevice TYPE_QTGUI_QPOINTINGDEVICE;
    TypeInclude QtGui QQuaternion TYPE_QTGUI_QQUATERNION;
    TypeInclude QtGui QSessionManager TYPE_QTGUI_QSESSIONMANAGER;
    TypeInclude QtGui QSurface TYPE_QTGUI_QSURFACE;
    TypeInclude QtCore QByteArray VALUE_TYPE_QTCORE_QBYTEARRAY;
    TypeInclude QtCore QModelIndex VALUE_TYPE_QTCORE_QMODELINDEX
  ].

Definition methods_qtgui_1_i1 : list include :=
  [
    TypeInclude QtCore QPoint VALUE_TYPE_QTCORE_QPOINT;
    TypeInclude QtCore QRect VALUE_TYPE_QTCORE_QRECT;
    TypeInclude QtCore QRegularExpression VALUE_TYPE_QTCORE_QREGULAREXPRESSION;
    TypeInclude QtCore QSize VALUE_TYPE_QTCORE_QSIZE;
    TypeInclude QtCore QSizeF VALUE_TYPE_QTCORE_QSIZEF;
    TypeInclude QtCore QUuid VALUE_TYPE_QTCORE_QUUID;
    TypeInclude QtGui QColor VALUE_TYPE_QTGUI_QCOLOR;
    TypeInclude QtGui QFont VALUE_TYPE_QTGUI_QFONT;
    TypeInclude QtGui QImage VALUE_TYPE_QTGUI_QIMAGE;
    TypeInclude QtGui QKeySequence VALUE_TYPE_QTGUI_QKEYSEQUENCE;
    TypeInclude QtGui QMatrix3x3 VALUE_TYPE_QTGUI_QMATRIX3X3;
    TypeInclude QtGui QPageRanges VALUE_TYPE_QTGUI_QPAGERANGES;
    TypeInclude QtGui QPdfOutputIntent VALUE_TYPE_QTGUI_QPDFOUTPUTINTENT;
    TypeInclude QtGui QPixmap VALUE_TYPE_QTGUI_QPIXMAP;
    TypeInclude QtGui QPointingDeviceUniqueId VALUE_TYPE_QTGUI_QPOINTINGDEVICEUNIQUEID;
    TypeInclude QtGui QQuaternion VALUE_TYPE_QTGUI_QQUATERNION;
    TypeInclude QtGui QRawFont VALUE_TYPE_QTGUI_QRAWFONT;
    TypeInclude QtGui QRegion VALUE_TYPE_QTGUI_QREGION;
    TypeInclude QtGui QRgba64 VALUE_TYPE_QTGUI_QRGBA64;
    TypeInclude QtGui QSurfaceFormat VALUE_TYPE_QTGUI_QSURFACEFORMAT;
    TypeInclude QtGui QTextBlock VALUE_TYPE_QTGUI_QTEXTBLOCK;
    TypeInclude QtGui QTransform VALUE_TYPE_QTGUI_QTRANSFORM;
    TypeInclude QtGui QVector3D VALUE_TYPE_QTGUI_QVECTOR3D
  ].

Definition methods_qtgui_1_s0 : list signature_row :=
  [
    Sig [TYPE_QTGUI_QACCESSIBILITYHINTS] "accessibility" [] RObject [On QStyleHints];
    Sig [VALUE_TYPE_QTCORE_QBYTEARRAY] "addFileAttachment" [PString true; PValue QByteArray; PString true]
        RVoid [On QPdfWriter];
    Sig [] "allowsErrorInteraction" [] RBool [On QSessionManager];
    Sig [] "allowsInteraction" [] RBool [On QSessionManager];
    Sig [ENUM_QT_SCREENORIENTATION] "angleBetween" [PValue Qt_ScreenOrientation; PValue
        Qt_ScreenOrientation] RDouble [On QScreen];
    Sig [TYPE_QTGUI_QOPENGLCONTEXT] "areSharing" [PObject QOpenGLContext false; PObject QOpenGLContext
        false] RBool [Static QOpenGLContext];
    Sig [] "author" [] RString [On QPdfWriter];
    Sig [] "autoRepeat" [] RBool [On QShortcut];
    Sig [VALUE_TYPE_QTCORE_QRECT] "availableGeometry" [] (RValue QRect) [On QScreen];
    Sig [VALUE_TYPE_QTCORE_QSIZE] "availableSize" [] (RValue QSize) [On QScreen]
  ].

Definition methods_qtgui_1_s10 : list signature_row :=
  [
    Sig [VALUE_TYPE_QTCORE_QRECT] "availableVirtualGeometry" [] (RValue QRect) [On QScreen];
    Sig [VALUE_TYPE_QTCORE_QSIZE] "availableVirtualSize" [] (RValue QSize) [On QScreen];
    Sig [VALUE_TYPE_QTGUI_QCOLOR] "backgroundColor" [] (RValue QColor) [On QMovie];
    Sig [] "buttonCount" [] RDouble [On QPointingDevice];
    Sig [] "cacheLimit" [] RDouble [Static QPixmapCache];
    Sig [TYPE_QTGUI_QMOVIE] "cacheMode" [] (RMeta QMovie_CacheMode) [On QMovie];
    Sig [] "cancel" [] RVoid [On QSessionManager];
    Sig [] "clear" [] RVoid [On QStandardItemModel];
    Sig [] "clear" [] RVoid [Static QPixmapCache];
    Sig [VALUE_TYPE_QTCORE_QMODELINDEX] "clearItemData" [PValue QModelIndex] RBool [On QStandardItemModel];
    Sig [TYPE_QTGUI_QPDFWRITER] "colorModel" [] (RMeta QPdfWriter_ColorModel) [On QPdfWriter]
  ].

Definition methods_qtgui_1_s21 : list signature_row :=
  [
    Sig [ENUM_QT_COLORSCHEME] "colorScheme" [] (RMeta Qt_ColorScheme) [On QStyleHints];
    Sig [VALUE_TYPE_QTCORE_QMODELINDEX] "columnCount" [PValue QModelIndex] RDouble [On QStandardItemModel];
    Sig [ENUM_QT_SHORTCUTCONTEXT] "context" [] (RMeta Qt_ShortcutContext) [On QShortcut];
    Sig [ENUM_QT_CONTEXTMENUTRIGGER] "contextMenuTrigger" [] (RMeta Qt_ContextMenuTrigger) [On QStyleHints];
    Sig [] "create" [] RBool [On QOpenGLContext];
    Sig [] "create" [] RVoid [On QOffscreenSurface];
    Sig [] "creator" [] RString [On QPdfWriter];
    Sig [TYPE_QTGUI_QOPENGLCONTEXT] "currentContext" [] RObject [Static QOpenGLContext];
    Sig [TYPE_QTGUI_QOPENGLCONTEXTGROUP] "currentContextGroup" [] RObject [Static QOpenGLContextGroup];
    Sig [] "currentFrameNumber" [] RDouble [On QMovie];
    Sig [VALUE_TYPE_QTGUI_QIMAGE] "currentImage" [] (RValue QImage) [On QMovie]
  ].

Definition methods_qtgui_1_s32 : list signature_row :=
  [
    Sig [VALUE_TYPE_QTGUI_QPIXMAP] "currentPixmap" [] (RValue QPixmap) [On QMovie];
    Sig [] "cursorFlashTime" [] RDouble [On QStyleHints];
    Sig [VALUE_TYPE_QTCORE_QMODELINDEX] "data" [PValue QModelIndex; PInt] RVariant [On QStandardItemModel];
    Sig [] "defaultDepth" [] RDouble [Static QPixmap];
    Sig [VALUE_TYPE_QTGUI_QSURFACEFORMAT] "defaultFormat" [] (RValue QSurfaceFormat) [Static
        QSurfaceFormat];
    Sig [TYPE_QTGUI_QPAGESIZE; VALUE_TYPE_QTCORE_QSIZEF] "definitionSize" [PValue QPageSize_PageSizeId]
        (RValue QSizeF) [Static QPageSize];
    Sig [TYPE_QTGUI_QPAGESIZE] "definitionUnits" [PValue QPageSize_PageSizeId] (RMeta QPageSize_Unit)
        [Static QPageSize];
    Sig [] "depth" [] RDouble [On QScreen];
    Sig [] "destroy" [] RVoid [On QOffscreenSurface];
    Sig [TYPE_QTCORE_QIODEVICE] "device" [] RObject [On QMovie];
    Sig [] "devicePixelRatio" [] RDouble [On QScreen]
  ].

Definition methods_qtgui_1_s43 : list signature_row :=
  [
    Sig [] "devicePixelRatioFScale" [] RDouble [Static QPaintDevice];
    Sig [] "discardCommand" [] (RList (IMeta QString)) [On QSessionManager];
    Sig [TYPE_QTGUI_QTEXTDOCUMENT] "document" [] RObject [On QSyntaxHighlighter];
    Sig [VALUE_TYPE_QTCORE_QUUID] "documentId" [] (RValue QUuid) [On QPdfWriter];
    Sig [VALUE_TYPE_QTCORE_QBYTEARRAY] "documentXmpMetadata" [] (RValue QByteArray) [On QPdfWriter];
    Sig [] "doneCurrent" [] RVoid [On QOpenGLContext];
    Sig [VALUE_TYPE_QTGUI_QQUATERNION] "dotProduct" [PValue QQuaternion; PValue QQuaternion] RDouble
        [Static QQuaternion];
    Sig [ENUM_QT_DROPACTION; TYPE_QTCORE_QMIMEDATA; VALUE_TYPE_QTCORE_QMODELINDEX] "dropMimeData" [PObject
        QMimeData false; PValue Qt_DropAction; PInt; PInt; PValue QModelIndex] RBool [On
        QStandardItemModel];
    Sig [] "fileName" [] RString [On QMovie];
    Sig [] "fontSmoothingGamma" [] RDouble [On QStyleHints]
  ].

Definition methods_qtgui_1_s53 : list signature_row :=
  [
    Sig [VALUE_TYPE_QTCORE_QBYTEARRAY] "format" [] (RValue QByteArray) [On QMovie];
    Sig [VALUE_TYPE_QTGUI_QSURFACEFORMAT] "format" [] (RValue QSurfaceFormat) [On QOffscreenSurface; On
        QOpenGLContext];
    Sig [] "frameCount" [] RDouble [On QMovie];
    Sig [VALUE_TYPE_QTCORE_QRECT] "frameRect" [] (RValue QRect) [On QMovie];
    Sig [VALUE_TYPE_QTGUI_QRGBA64] "fromArgb32" [PUInt] (RValue QRgba64) [Static QRgba64];
    Sig [TYPE_QTGUI_QQUATERNION; VALUE_TYPE_QTGUI_QQUATERNION] "fromAxes" [PValue QQuaternion_Axes] (RValue
        QQuaternion) [Static QQuaternion];
    Sig [VALUE_TYPE_QTGUI_QQUATERNION; VALUE_TYPE_QTGUI_QVECTOR3D] "fromAxes" [PValue QVector3D; PValue
        QVector3D; PValue QVector3D] (RValue QQuaternion) [Static QQuaternion];
    Sig [VALUE_TYPE_QTGUI_QQUATERNION; VALUE_TYPE_QTGUI_QVECTOR3D] "fromAxisAndAngle" [PValue QVector3D;
        PNumber cxx_float] (RValue QQuaternion) [Static QQuaternion]
  ].

Definition methods_qtgui_1_s61 : list signature_row :=
  [
    Sig [VALUE_TYPE_QTGUI_QQUATERNION] "fromAxisAndAngle" [PNumber cxx_float; PNumber cxx_float; PNumber
        cxx_float; PNumber cxx_float] (RValue QQuaternion) [Static QQuaternion];
    Sig [VALUE_TYPE_QTGUI_QQUATERNION; VALUE_TYPE_QTGUI_QVECTOR3D] "fromDirection" [PValue QVector3D;
        PValue QVector3D] (RValue QQuaternion) [Static QQuaternion];
    Sig [VALUE_TYPE_QTGUI_QQUATERNION; VALUE_TYPE_QTGUI_QVECTOR3D] "fromEulerAngles" [PValue QVector3D]
        (RValue QQuaternion) [Static QQuaternion];
    Sig [VALUE_TYPE_QTGUI_QQUATERNION] "fromEulerAngles" [PNumber cxx_float; PNumber cxx_float; PNumber
        cxx_float] (RValue QQuaternion) [Static QQuaternion];
    Sig [TYPE_QTGUI_QFONTDATABASE; VALUE_TYPE_QTGUI_QFONT; VALUE_TYPE_QTGUI_QRAWFONT] "fromFont" [PValue
        QFont; PValue QFontDatabase_WritingSystem] (RValue QRawFont) [Static QRawFont];
    Sig [VALUE_TYPE_QTGUI_QPOINTINGDEVICEUNIQUEID] "fromNumericId" [PMeta cxx_qint64] (RValue
        QPointingDeviceUniqueId) [Static QPointingDeviceUniqueId];
    Sig [VALUE_TYPE_QTGUI_QRGBA64] "fromRgba64" [PMeta cxx_quint64] (RValue QRgba64) [Static QRgba64];
    Sig [VALUE_TYPE_QTGUI_QMATRIX3X3; VALUE_TYPE_QTGUI_QQUATERNION] "fromRotationMatrix" [PValue
        QMatrix3x3] (RValue QQuaternion) [Static QQuaternion]
  ].

Definition methods_qtgui_1_s69 : list signature_row :=
  [
    Sig [VALUE_TYPE_QTGUI_QPAGERANGES] "fromString" [PString true] (RValue QPageRanges) [Static
        QPageRanges];
    Sig [VALUE_TYPE_QTCORE_QRECT] "geometry" [] (RValue QRect) [On QScreen];
    Sig [TYPE_QTGUI_QOPENGLCONTEXT] "globalShareContext" [] RObject [Static QOpenGLContext];
    Sig [VALUE_TYPE_QTCORE_QMODELINDEX] "hasChildren" [PValue QModelIndex] RBool [On QStandardItemModel];
    Sig [VALUE_TYPE_QTCORE_QBYTEARRAY] "hasExtension" [PValue QByteArray] RBool [On QOpenGLContext];
    Sig [ENUM_QT_ORIENTATION] "headerData" [PInt; PValue Qt_Orientation; PInt] RVariant [On
        QStandardItemModel];
    Sig [TYPE_QTGUI_QPAGESIZE; VALUE_TYPE_QTCORE_QSIZE] "id" [PValue QSize; PValue
        QPageSize_SizeMatchPolicy] (RMeta QPageSize_PageSizeId) [Static QPageSize];
    Sig [TYPE_QTGUI_QPAGESIZE; VALUE_TYPE_QTCORE_QSIZEF] "id" [PValue QSizeF; PValue QPageSize_Unit; PValue
        QPageSize_SizeMatchPolicy] (RMeta QPageSize_PageSizeId) [Static QPageSize];
    Sig [TYPE_QTGUI_QPAGESIZE] "id" [PInt] (RMeta QPageSize_PageSizeId) [Static QPageSize]
  ].

Definition methods_qtgui_1_s78 : list signature_row :=
  [
    Sig [VALUE_TYPE_QTCORE_QMODELINDEX] "index" [PInt; PInt; PValue QModelIndex] (RValue QModelIndex) [On
        QStandardItemModel];
    Sig [TYPE_QTGUI_QPIXMAPCACHE; VALUE_TYPE_QTGUI_QPIXMAP] "insert" [PValue QPixmap] (RMeta
        QPixmapCache_Key) [Static QPixmapCache];
    Sig [VALUE_TYPE_QTGUI_QPIXMAP] "insert" [PString true; PValue QPixmap] RBool [Static QPixmapCache];
    Sig [VALUE_TYPE_QTCORE_QMODELINDEX] "insertColumn" [PInt; PValue QModelIndex] RBool [On
        QStandardItemModel];
    Sig [VALUE_TYPE_QTCORE_QMODELINDEX] "insertColumns" [PInt; PInt; PValue QModelIndex] RBool [On
        QStandardItemModel];
    Sig [VALUE_TYPE_QTCORE_QMODELINDEX] "insertRow" [PInt; PValue QModelIndex] RBool [On
        QStandardItemModel];
    Sig [VALUE_TYPE_QTCORE_QMODELINDEX] "insertRows" [PInt; PInt; PValue QModelIndex] RBool [On
        QStandardItemModel];
    Sig [] "isEnabled" [] RBool [On QShortcut]
  ].

Definition methods_qtgui_1_s86 : list signature_row :=
  [
    Sig [ENUM_QT_SCREENORIENTATION] "isLandscape" [PValue Qt_ScreenOrientation] RBool [On QScreen];
    Sig [] "isOpenGLES" [] RBool [On QOpenGLContext];
    Sig [] "isPhase2" [] RBool [On QSessionManager];
    Sig [ENUM_QT_SCREENORIENTATION] "isPortrait" [PValue Qt_ScreenOrientation] RBool [On QScreen];
    Sig [] "isValid" [] RBool [On QMovie; On QOffscreenSurface; On QOpenGLContext];
    Sig [] "jumpToFrame" [PInt] RBool [On QMovie];
    Sig [] "jumpToNextFrame" [] RBool [On QMovie];
    Sig [VALUE_TYPE_QTGUI_QKEYSEQUENCE] "key" [] (RValue QKeySequence) [On QShortcut];
    Sig [TYPE_QTGUI_QPAGESIZE] "key" [PValue QPageSize_PageSizeId] RString [Static QPageSize];
    Sig [] "keyboardAutoRepeatRate" [] RDouble [On QStyleHints];
    Sig [] "keyboardAutoRepeatRateF" [] RDouble [On QStyleHints]
  ].

Definition methods_qtgui_1_s97 : list signature_row :=
  [
    Sig [] "keyboardInputInterval" [] RDouble [On QStyleHints];
    Sig [VALUE_TYPE_QTGUI_QKEYSEQUENCE] "keys" [] (RList (IValue QKeySequence)) [On QShortcut];
    Sig [TYPE_QTGUI_QIMAGEREADER] "lastError" [] (RMeta QImageReader_ImageReaderError) [On QMovie];
    Sig [] "lastErrorString" [] RString [On QMovie];
    Sig [] "logicalDotsPerInch" [] RDouble [On QScreen];
    Sig [] "logicalDotsPerInchX" [] RDouble [On QScreen];
    Sig [] "logicalDotsPerInchY" [] RDouble [On QScreen];
    Sig [] "loopCount" [] RDouble [On QMovie];
    Sig [] "manufacturer" [] RString [On QScreen];
    Sig [ENUM_QT_SCREENORIENTATION; VALUE_TYPE_QTCORE_QRECT] "mapBetween" [PValue Qt_ScreenOrientation;
        PValue Qt_ScreenOrientation; PValue QRect] (RValue QRect) [On QScreen];
    Sig [] "maximumPoints" [] RDouble [On QPointingDevice]
  ].

Definition methods_qtgui_1_s108 : list signature_row :=
  [
    Sig [] "menuSelectionWraps" [] RBool [On QStyleHints];
    Sig [] "mimeTypes" [] (RList (IMeta QString)) [On QStandardItemModel];
    Sig [] "model" [] RString [On QScreen];
    Sig [] "mouseDoubleClickDistance" [] RDouble [On QStyleHints];
    Sig [] "mouseDoubleClickInterval" [] RDouble [On QStyleHints];
    Sig [] "mousePressAndHoldInterval" [] RDouble [On QStyleHints];
    Sig [] "mouseQuickSelectionThreshold" [] RDouble [On QStyleHints];
    Sig [] "name" [] RString [On QScreen];
    Sig [TYPE_QTGUI_QPAGESIZE] "name" [PValue QPageSize_PageSizeId] RString [Static QPageSize];
    Sig [ENUM_QT_SCREENORIENTATION] "nativeOrientation" [] (RMeta Qt_ScreenOrientation) [On QScreen];
    Sig [] "newPage" [] RBool [On QPdfWriter];
    Sig [] "nextFrameDelay" [] RDouble [On QMovie]
  ].

Definition methods_qtgui_1_s120 : list signature_row :=
  [
    Sig [VALUE_TYPE_QTGUI_QQUATERNION] "nlerp" [PValue QQuaternion; PValue QQuaternion; PNumber cxx_float]
        (RValue QQuaternion) [Static QQuaternion];
    Sig [TYPE_QTGUI_QOPENGLCONTEXT] "openGLModuleType" [] (RMeta QOpenGLContext_OpenGLModuleType) [Static
        QOpenGLContext];
    Sig [ENUM_QT_SCREENORIENTATION] "orientation" [] (RMeta Qt_ScreenOrientation) [On QScreen];
    Sig [VALUE_TYPE_QTGUI_QPDFOUTPUTINTENT] "outputIntent" [] (RValue QPdfOutputIntent) [On QPdfWriter];
    Sig [TYPE_QTCORE_QOBJECT] "parent" [] RObject [On QStandardItemModel];
    Sig [VALUE_TYPE_QTCORE_QMODELINDEX] "parent" [PValue QModelIndex] (RValue QModelIndex) [On
        QStandardItemModel];
    Sig [] "passwordMaskDelay" [] RDouble [On QStyleHints];
    Sig [TYPE_QTGUI_QPAGEDPAINTDEVICE] "pdfVersion" [] (RMeta QPagedPaintDevice_PdfVersion) [On QPdfWriter];
    Sig [] "physicalDotsPerInch" [] RDouble [On QScreen];
    Sig [] "physicalDotsPerInchX" [] RDouble [On QScreen];
    Sig [] "physicalDotsPerInchY" [] RDouble [On QScreen]
  ].

Definition methods_qtgui_1_s131 : list signature_row :=
  [
    Sig [VALUE_TYPE_QTCORE_QSIZEF] "physicalSize" [] (RValue QSizeF) [On QScreen];
    Sig [TYPE_QTGUI_QPOINTINGDEVICE] "pointerType" [] (RMeta QPointingDevice_PointerType) [On
        QPointingDevice];
    Sig [ENUM_QT_SCREENORIENTATION] "primaryOrientation" [] (RMeta Qt_ScreenOrientation) [On QScreen];
    Sig [TYPE_QTGUI_QPOINTINGDEVICE] "primaryPointingDevice" [PString true] RObject [Static
        QPointingDevice];
    Sig [] "refreshRate" [] RDouble [On QScreen];
    Sig [VALUE_TYPE_QTCORE_QREGULAREXPRESSION] "regularExpression" [] (RValue QRegularExpression) [On
        QRegularExpressionValidator];
    Sig [] "rehighlight" [] RVoid [On QSyntaxHighlighter];
    Sig [VALUE_TYPE_QTGUI_QTEXTBLOCK] "rehighlightBlock" [PValue QTextBlock] RVoid [On QSyntaxHighlighter];
    Sig [] "release" [] RVoid [On QSessionManager];
    Sig [TYPE_QTGUI_QPIXMAPCACHE] "remove" [PValue QPixmapCache_Key] RVoid [Static QPixmapCache];
    Sig [] "remove" [PString true] RVoid [Static QPixmapCache]
  ].

Definition methods_qtgui_1_s142 : list signature_row :=
  [
    Sig [VALUE_TYPE_QTCORE_QMODELINDEX] "removeColumns" [PInt; PInt; PValue QModelIndex] RBool [On
        QStandardItemModel];
    Sig [VALUE_TYPE_QTCORE_QMODELINDEX] "removeRows" [PInt; PInt; PValue QModelIndex] RBool [On
        QStandardItemModel];
    Sig [TYPE_QTGUI_QPIXMAPCACHE; VALUE_TYPE_QTGUI_QPIXMAP] "replace" [PValue QPixmapCache_Key; PValue
        QPixmap] RBool [Static QPixmapCache];
    Sig [] "requestPhase2" [] RVoid [On QSessionManager];
    Sig [VALUE_TYPE_QTGUI_QSURFACEFORMAT] "requestedFormat" [] (RValue QSurfaceFormat) [On
        QOffscreenSurface];
    Sig [] "resolution" [] RDouble [On QPdfWriter];
    Sig [] "restartCommand" [] (RList (IMeta QString)) [On QSessionManager];
    Sig [TYPE_QTGUI_QSESSIONMANAGER] "restartHint" [] (RMeta QSessionManager_RestartHint) [On
        QSessionManager];
    Sig [VALUE_TYPE_QTGUI_QQUATERNION; VALUE_TYPE_QTGUI_QVECTOR3D] "rotationTo" [PValue QVector3D; PValue
        QVector3D] (RValue QQuaternion) [Static QQuaternion]
  ].

Definition methods_qtgui_1_s151 : list signature_row :=
  [
    Sig [VALUE_TYPE_QTCORE_QMODELINDEX] "rowCount" [PValue QModelIndex] RDouble [On QStandardItemModel];
    Sig [VALUE_TYPE_QTCORE_QSIZE] "scaledSize" [] (RValue QSize) [On QMovie];
    Sig [TYPE_QTGUI_QSCREEN] "screen" [] RObject [On QOffscreenSurface; On QOpenGLContext];
    Sig [] "serialNumber" [] RString [On QScreen];
    Sig [] "sessionId" [] RString [On QSessionManager];
    Sig [] "sessionKey" [] RString [On QSessionManager];
    Sig [] "setAuthor" [PString true] RVoid [On QPdfWriter];
    Sig [] "setAutoRepeat" [PBool] RVoid [On QShortcut];
    Sig [VALUE_TYPE_QTGUI_QCOLOR] "setBackgroundColor" [PValue QColor] RVoid [On QMovie];
    Sig [] "setCacheLimit" [PInt] RVoid [Static QPixmapCache]
  ].

Definition methods_qtgui_1_s161 : list signature_row :=
  [
    Sig [TYPE_QTGUI_QMOVIE] "setCacheMode" [PValue QMovie_CacheMode] RVoid [On QMovie];
    Sig [TYPE_QTGUI_QPDFWRITER] "setColorModel" [PValue QPdfWriter_ColorModel] RVoid [On QPdfWriter];
    Sig [ENUM_QT_COLORSCHEME] "setColorScheme" [PValue Qt_ColorScheme] RVoid [On QStyleHints];
    Sig [] "setColumnCount" [PInt] RVoid [On QStandardItemModel];
    Sig [ENUM_QT_SHORTCUTCONTEXT] "setContext" [PValue Qt_ShortcutContext] RVoid [On QShortcut];
    Sig [ENUM_QT_CONTEXTMENUTRIGGER] "setContextMenuTrigger" [PValue Qt_ContextMenuTrigger] RVoid [On
        QStyleHints];
    Sig [] "setCreator" [PString true] RVoid [On QPdfWriter];
    Sig [VALUE_TYPE_QTCORE_QMODELINDEX] "setData" [PValue QModelIndex; PVariant; PInt] RBool [On
        QStandardItemModel];
    Sig [VALUE_TYPE_QTGUI_QSURFACEFORMAT] "setDefaultFormat" [PValue QSurfaceFormat] RVoid [Static
        QSurfaceFormat]
  ].

Definition methods_qtgui_1_s170 : list signature_row :=
  [
    Sig [TYPE_QTCORE_QIODEVICE] "setDevice" [PObject QIODevice false] RVoid [On QMovie];
    Sig [] "setDiscardCommand" [PStringList] RVoid [On QSessionManager];
    Sig [TYPE_QTGUI_QTEXTDOCUMENT] "setDocument" [PObject QTextDocument false] RVoid [On
        QSyntaxHighlighter];
    Sig [VALUE_TYPE_QTCORE_QUUID] "setDocumentId" [PValue QUuid] RVoid [On QPdfWriter];
    Sig [VALUE_TYPE_QTCORE_QBYTEARRAY] "setDocumentXmpMetadata" [PValue QByteArray] RVoid [On QPdfWriter];
    Sig [] "setEnabled" [PBool] RVoid [On QShortcut];
    Sig [] "setFileName" [PString true] RVoid [On QMovie];
    Sig [] "setFocusOnTouchRelease" [] RBool [On QStyleHints];
    Sig [VALUE_TYPE_QTCORE_QBYTEARRAY] "setFormat" [PValue QByteArray] RVoid [On QMovie]
  ].

Definition methods_qtgui_1_s179 : list signature_row :=
  [
    Sig [VALUE_TYPE_QTGUI_QSURFACEFORMAT] "setFormat" [PValue QSurfaceFormat] RVoid [On QOffscreenSurface;
        On QOpenGLContext];
    Sig [ENUM_QT_ORIENTATION] "setHeaderData" [PInt; PValue Qt_Orientation; PVariant; PInt] RBool [On
        QStandardItemModel];
    Sig [] "setHorizontalHeaderLabels" [PStringList] RVoid [On QStandardItemModel];
    Sig [VALUE_TYPE_QTGUI_QKEYSEQUENCE] "setKey" [PValue QKeySequence] RVoid [On QShortcut];
    Sig [TYPE_QTGUI_QKEYSEQUENCE] "setKeys" [PValue QKeySequence_StandardKey] RVoid [On QShortcut];
    Sig [VALUE_TYPE_QTGUI_QKEYSEQUENCE] "setKeys" [PList (IValue QKeySequence)] RVoid [On QShortcut];
    Sig [] "setManagerProperty" [PString true; PString true] RVoid [On QSessionManager];
    Sig [] "setManagerProperty" [PString true; PStringList] RVoid [On QSessionManager]
  ].

Definition methods_qtgui_1_s187 : list signature_row :=
  [
    Sig [VALUE_TYPE_QTGUI_QPDFOUTPUTINTENT] "setOutputIntent" [PValue QPdfOutputIntent] RVoid [On
        QPdfWriter];
    Sig [] "setPaused" [PBool] RVoid [On QMovie];
    Sig [TYPE_QTGUI_QPAGEDPAINTDEVICE] "setPdfVersion" [PValue QPagedPaintDevice_PdfVersion] RVoid [On
        QPdfWriter];
    Sig [VALUE_TYPE_QTCORE_QREGULAREXPRESSION] "setRegularExpression" [PValue QRegularExpression] RVoid [On
        QRegularExpressionValidator];
    Sig [] "setResolution" [PInt] RVoid [On QPdfWriter];
    Sig [] "setRestartCommand" [PStringList] RVoid [On QSessionManager];
    Sig [TYPE_QTGUI_QSESSIONMANAGER] "setRestartHint" [PValue QSessionManager_RestartHint] RVoid [On
        QSessionManager];
    Sig [] "setRowCount" [PInt] RVoid [On QStandardItemModel];
    Sig [VALUE_TYPE_QTCORE_QSIZE] "setScaledSize" [PValue QSize] RVoid [On QMovie]
  ].

Definition methods_qtgui_1_s196 : list signature_row :=
  [
    Sig [TYPE_QTGUI_QSCREEN] "setScreen" [PObject QScreen false] RVoid [On QOffscreenSurface; On
        QOpenGLContext];
    Sig [TYPE_QTGUI_QOPENGLCONTEXT] "setShareContext" [PObject QOpenGLContext false] RVoid [On
        QOpenGLContext];
    Sig [] "setShowShortcutsInContextMenus" [PBool] RVoid [On QStyleHints];
    Sig [] "setSortRole" [PInt] RVoid [On QStandardItemModel];
    Sig [] "setSpeed" [PInt] RVoid [On QMovie];
    Sig [] "setTitle" [PString true] RVoid [On QPdfWriter];
    Sig [] "setUseHoverEffects" [PBool] RVoid [On QStyleHints];
    Sig [] "setVerticalHeaderLabels" [PStringList] RVoid [On QStandardItemModel];
    Sig [] "setWhatsThis" [PString true] RVoid [On QShortcut]
  ].

Definition methods_qtgui_1_s205 : list signature_row :=
  [
    Sig [TYPE_QTGUI_QOPENGLCONTEXT] "shareContext" [] RObject [On QOpenGLContext];
    Sig [TYPE_QTGUI_QOPENGLCONTEXTGROUP] "shareGroup" [] RObject [On QOpenGLContext];
    Sig [TYPE_QTGUI_QOPENGLCONTEXT] "shares" [] (RList (IObject QObject)) [On QOpenGLContextGroup];
    Sig [] "showIsFullScreen" [] RBool [On QStyleHints];
    Sig [] "showIsMaximized" [] RBool [On QStyleHints];
    Sig [] "showShortcutsInContextMenus" [] RBool [On QStyleHints];
    Sig [] "singleClickActivation" [] RBool [On QStyleHints];
    Sig [VALUE_TYPE_QTCORE_QSIZE] "size" [] (RValue QSize) [On QOffscreenSurface; On QScreen];
    Sig [TYPE_QTGUI_QPAGESIZE; VALUE_TYPE_QTCORE_QSIZEF] "size" [PValue QPageSize_PageSizeId; PValue
        QPageSize_Unit] (RValue QSizeF) [Static QPageSize];
    Sig [TYPE_QTGUI_QPAGESIZE; VALUE_TYPE_QTCORE_QSIZE] "sizePixels" [PValue QPageSize_PageSizeId; PInt]
        (RValue QSize) [Static QPageSize]
  ].

Definition methods_qtgui_1_s215 : list signature_row :=
  [
    Sig [TYPE_QTGUI_QPAGESIZE; VALUE_TYPE_QTCORE_QSIZE] "sizePoints" [PValue QPageSize_PageSizeId] (RValue
        QSize) [Static QPageSize];
    Sig [VALUE_TYPE_QTGUI_QQUATERNION] "slerp" [PValue QQuaternion; PValue QQuaternion; PNumber cxx_float]
        (RValue QQuaternion) [Static QQuaternion];
    Sig [ENUM_QT_SORTORDER] "sort" [PInt; PValue Qt_SortOrder] RVoid [On QStandardItemModel];
    Sig [] "sortRole" [] RDouble [On QStandardItemModel];
    Sig [] "speed" [] RDouble [On QMovie];
    Sig [] "start" [] RVoid [On QMovie];
    Sig [] "startDragDistance" [] RDouble [On QStyleHints];
    Sig [] "startDragTime" [] RDouble [On QStyleHints];
    Sig [] "startDragVelocity" [] RDouble [On QStyleHints];
    Sig [TYPE_QTGUI_QMOVIE] "state" [] (RMeta QMovie_MovieState) [On QMovie];
    Sig [] "stop" [] RVoid [On QMovie]
  ].

Definition methods_qtgui_1_s226 : list signature_row :=
  [
    Sig [ENUM_QT_DROPACTIONS] "supportedDropActions" [] (RMeta Qt_DropActions) [On QStandardItemModel];
    Sig [VALUE_TYPE_QTCORE_QBYTEARRAY] "supportedFormats" [] (RList (IValue QByteArray)) [Static QMovie];
    Sig [] "supportsThreadedOpenGL" [] RBool [Static QOpenGLContext];
    Sig [TYPE_QTGUI_QSURFACE] "surfaceType" [] (RMeta QSurface_SurfaceType) [On QOffscreenSurface];
    Sig [ENUM_QT_TABFOCUSBEHAVIOR] "tabFocusBehavior" [] (RMeta Qt_TabFocusBehavior) [On QStyleHints];
    Sig [] "title" [] RString [On QPdfWriter];
    Sig [] "touchDoubleTapDistance" [] RDouble [On QStyleHints];
    Sig [ENUM_QT_SCREENORIENTATION; VALUE_TYPE_QTCORE_QRECT; VALUE_TYPE_QTGUI_QTRANSFORM]
        "transformBetween" [PValue Qt_ScreenOrientation; PValue Qt_ScreenOrientation; PValue QRect] (RValue
        QTransform) [On QScreen];
    Sig [VALUE_TYPE_QTGUI_QTRANSFORM] "trueMatrix" [PValue QTransform; PInt; PInt] (RValue QTransform)
        [Static QPixmap];
    Sig [VALUE_TYPE_QTGUI_QPOINTINGDEVICEUNIQUEID] "uniqueId" [] (RValue QPointingDeviceUniqueId) [On
        QPointingDevice]
  ].

Definition methods_qtgui_1_s236 : list signature_row :=
  [
    Sig [] "unsetColorScheme" [] RVoid [On QStyleHints];
    Sig [] "update" [] RVoid [On QPaintDeviceWindow];
    Sig [VALUE_TYPE_QTCORE_QRECT] "update" [PValue QRect] RVoid [On QPaintDeviceWindow];
    Sig [VALUE_TYPE_QTGUI_QREGION] "update" [PValue QRegion] RVoid [On QPaintDeviceWindow];
    Sig [] "useHoverEffects" [] RBool [On QStyleHints];
    Sig [] "useRtlExtensions" [] RBool [On QStyleHints];
    Sig [VALUE_TYPE_QTCORE_QRECT] "virtualGeometry" [] (RValue QRect) [On QScreen];
    Sig [TYPE_QTGUI_QSCREEN; VALUE_TYPE_QTCORE_QPOINT] "virtualSiblingAt" [PValue QPoint] RObject [On
        QScreen];
    Sig [TYPE_QTGUI_QSCREEN] "virtualSiblings" [] (RList (IObject QObject)) [On QScreen];
    Sig [VALUE_TYPE_QTCORE_QSIZE] "virtualSize" [] (RValue QSize) [On QScreen];
    Sig [] "whatsThis" [] RString [On QShortcut]
  ].

Definition methods_qtgui_1_s247 : list signature_row :=
  [
    Sig [] "wheelScrollLines" [] RDouble [On QStyleHints];
    Sig [TYPE_QTGUI_QPAGESIZE] "windowsId" [PValue QPageSize_PageSizeId] RDouble [Static QPageSize]
  ].

Definition methods_qtgui_1 : method_shard :=
  MethodShard QtGui "KRY_QT6_NATIVE_METHODS_QTGUI_"
    (methods_qtgui_1_i0 ++ methods_qtgui_1_i1)
    (methods_qtgui_1_s0 ++ methods_qtgui_1_s10 ++ methods_qtgui_1_s21 ++ methods_qtgui_1_s32 ++
        methods_qtgui_1_s43 ++ methods_qtgui_1_s53 ++ methods_qtgui_1_s61 ++ methods_qtgui_1_s69 ++
        methods_qtgui_1_s78 ++ methods_qtgui_1_s86 ++ methods_qtgui_1_s97 ++ methods_qtgui_1_s108 ++
        methods_qtgui_1_s120 ++ methods_qtgui_1_s131 ++ methods_qtgui_1_s142 ++ methods_qtgui_1_s151 ++
        methods_qtgui_1_s161 ++ methods_qtgui_1_s170 ++ methods_qtgui_1_s179 ++ methods_qtgui_1_s187 ++
        methods_qtgui_1_s196 ++ methods_qtgui_1_s205 ++ methods_qtgui_1_s215 ++ methods_qtgui_1_s226 ++
        methods_qtgui_1_s236 ++ methods_qtgui_1_s247)
    [].

Definition methods_qtgui_2_i0 : list include :=
  [
    ClassInclude QtGui QTextDocument QTextDocument;
    ClassInclude QtGui QTextDocumentFragment QTextDocumentFragment;
    ClassInclude QtGui QTextDocumentWriter QTextDocumentWriter;
    ClassInclude QtGui QTextFrame QTextFrame;
    ClassInclude QtGui QTextList QTextList;
    ClassInclude QtGui QTextObject QTextObject;
    ClassInclude QtGui QTextTable QTextTable;
    ClassInclude QtGui QTransform QTransform;
    ClassInclude QtGui QUndoGroup QUndoGroup;
    ClassInclude QtGui QUndoStack QUndoStack;
    ClassInclude QtGui QValidator QValidator;
    ClassInclude QtGui QVector2D QVector2D;
    ClassInclude QtGui QVector3D QVector3D;
    ClassInclude QtGui QVector4D QVector4D;
    ClassInclude QtGui QWindow QWindow;
    TypeInclude QtCore QObject TYPE_QTCORE_QOBJECT;
    TypeInclude QtGui QAbstractTextDocumentLayout TYPE_QTGUI_QABSTRACTTEXTDOCUMENTLAYOUT;
    TypeInclude QtGui QAction TYPE_QTGUI_QACTION;
    TypeInclude QtGui QScreen TYPE_QTGUI_QSCREEN;
    TypeInclude QtGui QTextDocument TYPE_QTGUI_QTEXTDOCUMENT;
    TypeInclude QtGui QTextFrame TYPE_QTGUI_QTEXTFRAME;
    TypeInclude QtGui QTextObject TYPE_QTGUI_QTEXTOBJECT;
    TypeInclude QtGui QUndoStack TYPE_QTGUI_QUNDOSTACK;
    TypeInclude QtGui QWindow TYPE_QTGUI_QWINDOW;
    EnumDefine ENUM_QT_CURSORMOVESTYLE;
    EnumDefine ENUM_QT_EDGES;
    EnumDefine ENUM_QT_SCREENORIENTATION;
    EnumDefine ENUM_QT_WINDOWFLAGS;
    EnumDefine ENUM_QT_WINDOWMODALITY;
    EnumDefine ENUM_QT_WINDOWSTATE;
    EnumDefine ENUM_QT_WINDOWSTATES;
    EnumDefine ENUM_QT_WINDOWTYPE;
    TypeInclude QtGui QSurface TYPE_QTGUI_QSURFACE;
    TypeInclude QtGui QTextDocument TYPE_QTGUI_QTEXTDOCUMENT;
    TypeInclude QtGui QTextFrame TYPE_QTGUI_QTEXTFRAME;
    TypeInclude QtGui QWindow TYPE_QTGUI_QWINDOW;
    TypeInclude QtCore QByteArray VALUE_TYPE_QTCORE_QBYTEARRAY;
    TypeInclude QtCore QLocale VALUE_TYPE_QTCORE_QLOCALE;
    TypeInclude QtCore QMargins VALUE_TYPE_QTCORE_QMARGINS;
    TypeInclude QtCore QPoint VALUE_TYPE_QTCORE_QPOINT;
    TypeInclude QtCore QPointF VALUE_TYPE_QTCORE_QPOINTF;
    TypeInclude QtCore QRect VALUE_TYPE_QTCORE_QRECT;
    TypeInclude QtCore QSize VALUE_TYPE_QTCORE_QSIZE;
    TypeInclude QtCore QSizeF VALUE_TYPE_QTCORE_QSIZEF;
    TypeInclude QtCore QUrl VALUE_TYPE_QTCORE_QURL;
    TypeInclude QtGui QCursor VALUE_TYPE_QTGUI_QCURSOR;
    TypeInclude QtGui QFont VALUE_TYPE_QTGUI_QFONT;
    TypeInclude QtGui QIcon VALUE_TYPE_QTGUI_QICON;
    TypeInclude QtGui QPolygonF VALUE_TYPE_QTGUI_QPOLYGONF;
    TypeInclude QtGui QRegion VALUE_TYPE_QTGUI_QREGION;
    TypeInclude QtGui QSurfaceFormat VALUE_TYPE_QTGUI_QSURFACEFORMAT;
    TypeInclude QtGui QTextBlock VALUE_TYPE_QTGUI_QTEXTBLOCK;
    TypeInclude QtGui QTextCursor VALUE_TYPE_QTGUI_QTEXTCURSOR;
    TypeInclude QtGui QTextDocumentFragment VALUE_TYPE_QTGUI_QTEXTDOCUMENTFRAGMENT;
    TypeInclude QtGui QTextFormat VALUE_TYPE_QTGUI_QTEXTFORMAT;
    TypeInclude QtGui QTextFrameFormat VALUE_TYPE_QTGUI_QTEXTFRAMEFORMAT
  ].

Definition methods_qtgui_2_i1 : list include :=
  [
    TypeInclude QtGui QTextListFormat VALUE_TYPE_QTGUI_QTEXTLISTFORMAT;
    TypeInclude QtGui QTextOption VALUE_TYPE_QTGUI_QTEXTOPTION;
    TypeInclude QtGui QTextTableCell VALUE_TYPE_QTGUI_QTEXTTABLECELL;
    TypeInclude QtGui QTextTableFormat VALUE_TYPE_QTGUI_QTEXTTABLEFORMAT;
    TypeInclude QtGui QTransform VALUE_TYPE_QTGUI_QTRANSFORM;
    TypeInclude QtGui QVector2D VALUE_TYPE_QTGUI_QVECTOR2D;
    TypeInclude QtGui QVector3D VALUE_TYPE_QTGUI_QVECTOR3D;
    TypeInclude QtGui QVector4D VALUE_TYPE_QTGUI_QVECTOR4D
  ].

Definition methods_qtgui_2_s0 : list signature_row :=
  [
    Sig [TYPE_QTGUI_QUNDOSTACK] "activeStack" [] RObject [On QUndoGroup];
    Sig [VALUE_TYPE_QTGUI_QTEXTBLOCK] "add" [PValue QTextBlock] RVoid [On QTextList];
    Sig [VALUE_TYPE_QTCORE_QURL] "addResource" [PInt; PValue QUrl; PVariant] RVoid [On QTextDocument];
    Sig [TYPE_QTGUI_QUNDOSTACK] "addStack" [PObject QUndoStack false] RVoid [On QUndoGroup];
    Sig [] "adjustSize" [] RVoid [On QTextDocument];
    Sig [] "alert" [PInt] RVoid [On QWindow];
    Sig [VALUE_TYPE_QTGUI_QTEXTFORMAT] "allFormats" [] (RList (IValue QTextFormat)) [On QTextDocument];
    Sig [] "appendColumns" [PInt] RVoid [On QTextTable];
    Sig [] "appendRows" [PInt] RVoid [On QTextTable];
    Sig [] "availableRedoSteps" [] RDouble [On QTextDocument]
  ].

Definition methods_qtgui_2_s10 : list signature_row :=
  [
    Sig [] "availableUndoSteps" [] RDouble [On QTextDocument];
    Sig [VALUE_TYPE_QTCORE_QSIZE] "baseSize" [] (RValue QSize) [On QWindow];
    Sig [VALUE_TYPE_QTCORE_QURL] "baseUrl" [] (RValue QUrl) [On QTextDocument];
    Sig [] "baselineOffset" [] RDouble [On QTextDocument];
    Sig [VALUE_TYPE_QTGUI_QTEXTBLOCK] "begin" [] (RValue QTextBlock) [On QTextDocument];
    Sig [TYPE_QTGUI_QTEXTFRAME] "begin" [] (RMeta QTextFrame_iterator) [On QTextFrame];
    Sig [] "beginMacro" [PString true] RVoid [On QUndoStack];
    Sig [] "blockCount" [] RDouble [On QTextDocument];
    Sig [] "canRedo" [] RBool [On QUndoGroup; On QUndoStack];
    Sig [] "canUndo" [] RBool [On QUndoGroup; On QUndoStack]
  ].

Definition methods_qtgui_2_s20 : list signature_row :=
  [
    Sig [VALUE_TYPE_QTGUI_QTEXTCURSOR; VALUE_TYPE_QTGUI_QTEXTTABLECELL] "cellAt" [PValue QTextCursor]
        (RValue QTextTableCell) [On QTextTable];
    Sig [VALUE_TYPE_QTGUI_QTEXTTABLECELL] "cellAt" [PInt] (RValue QTextTableCell) [On QTextTable];
    Sig [VALUE_TYPE_QTGUI_QTEXTTABLECELL] "cellAt" [PInt; PInt] (RValue QTextTableCell) [On QTextTable];
    Sig [] "characterCount" [] RDouble [On QTextDocument];
    Sig [TYPE_QTGUI_QTEXTFRAME] "childFrames" [] (RList (IObject QObject)) [On QTextFrame];
    Sig [] "cleanIndex" [] RDouble [On QUndoStack];
    Sig [] "clear" [] RVoid [On QTextDocument; On QUndoStack];
    Sig [TYPE_QTGUI_QTEXTDOCUMENT] "clearUndoRedoStacks" [PValue QTextDocument_Stacks] RVoid [On
        QTextDocument];
    Sig [TYPE_QTCORE_QOBJECT; TYPE_QTGUI_QTEXTDOCUMENT] "clone" [PObject QObject false] RObject [On
        QTextDocument];
    Sig [] "close" [] RBool [On QWindow]
  ].

Definition methods_qtgui_2_s30 : list signature_row :=
  [
    Sig [] "columns" [] RDouble [On QTextTable];
    Sig [ENUM_QT_SCREENORIENTATION] "contentOrientation" [] (RMeta Qt_ScreenOrientation) [On QWindow];
    Sig [] "count" [] RDouble [On QTextList; On QUndoStack];
    Sig [] "create" [] RVoid [On QWindow];
    Sig [TYPE_QTCORE_QOBJECT; TYPE_QTGUI_QACTION] "createRedoAction" [PObject QObject false; PString true]
        RObject [On QUndoGroup; On QUndoStack];
    Sig [TYPE_QTCORE_QOBJECT; TYPE_QTGUI_QACTION] "createUndoAction" [PObject QObject false; PString true]
        RObject [On QUndoGroup; On QUndoStack];
    Sig [VALUE_TYPE_QTGUI_QVECTOR3D] "crossProduct" [PValue QVector3D; PValue QVector3D] (RValue QVector3D)
        [Static QVector3D];
    Sig [VALUE_TYPE_QTGUI_QCURSOR] "cursor" [] (RValue QCursor) [On QWindow];
    Sig [ENUM_QT_CURSORMOVESTYLE] "defaultCursorMoveStyle" [] (RMeta Qt_CursorMoveStyle) [On QTextDocument]
  ].

Definition methods_qtgui_2_s39 : list signature_row :=
  [
    Sig [VALUE_TYPE_QTGUI_QFONT] "defaultFont" [] (RValue QFont) [On QTextDocument];
    Sig [] "defaultStyleSheet" [] RString [On QTextDocument];
    Sig [VALUE_TYPE_QTGUI_QTEXTOPTION] "defaultTextOption" [] (RValue QTextOption) [On QTextDocument];
    Sig [] "destroy" [] RVoid [On QWindow];
    Sig [] "devicePixelRatio" [] RDouble [On QWindow];
    Sig [TYPE_QTGUI_QTEXTDOCUMENT] "document" [] RObject [On QTextObject];
    Sig [TYPE_QTGUI_QABSTRACTTEXTDOCUMENTLAYOUT] "documentLayout" [] RObject [On QTextDocument];
    Sig [] "documentMargin" [] RDouble [On QTextDocument];
    Sig [VALUE_TYPE_QTGUI_QVECTOR2D] "dotProduct" [PValue QVector2D; PValue QVector2D] RDouble [Static
        QVector2D];
    Sig [VALUE_TYPE_QTGUI_QVECTOR3D] "dotProduct" [PValue QVector3D; PValue QVector3D] RDouble [Static
        QVector3D]
  ].

Definition methods_qtgui_2_s49 : list signature_row :=
  [
    Sig [VALUE_TYPE_QTGUI_QVECTOR4D] "dotProduct" [PValue QVector4D; PValue QVector4D] RDouble [Static
        QVector4D];
    Sig [VALUE_TYPE_QTGUI_QTEXTBLOCK] "end" [] (RValue QTextBlock) [On QTextDocument];
    Sig [TYPE_QTGUI_QTEXTFRAME] "end" [] (RMeta QTextFrame_iterator) [On QTextFrame];
    Sig [] "endMacro" [] RVoid [On QUndoStack];
    Sig [] "filePath" [] RString [On QWindow];
    Sig [VALUE_TYPE_QTGUI_QTEXTBLOCK] "findBlock" [PInt] (RValue QTextBlock) [On QTextDocument];
    Sig [VALUE_TYPE_QTGUI_QTEXTBLOCK] "findBlockByLineNumber" [PInt] (RValue QTextBlock) [On QTextDocument];
    Sig [VALUE_TYPE_QTGUI_QTEXTBLOCK] "findBlockByNumber" [PInt] (RValue QTextBlock) [On QTextDocument];
    Sig [VALUE_TYPE_QTGUI_QTEXTBLOCK] "firstBlock" [] (RValue QTextBlock) [On QTextDocument];
    Sig [VALUE_TYPE_QTGUI_QTEXTCURSOR] "firstCursorPosition" [] (RValue QTextCursor) [On QTextFrame]
  ].

Definition methods_qtgui_2_s59 : list signature_row :=
  [
    Sig [] "firstPosition" [] RDouble [On QTextFrame];
    Sig [ENUM_QT_WINDOWFLAGS] "flags" [] (RMeta Qt_WindowFlags) [On QWindow];
    Sig [TYPE_QTCORE_QOBJECT] "focusObject" [] RObject [On QWindow];
    Sig [VALUE_TYPE_QTGUI_QSURFACEFORMAT] "format" [] (RValue QSurfaceFormat) [On QWindow];
    Sig [VALUE_TYPE_QTGUI_QTEXTFORMAT] "format" [] (RValue QTextFormat) [On QTextObject];
    Sig [VALUE_TYPE_QTGUI_QTEXTLISTFORMAT] "format" [] (RValue QTextListFormat) [On QTextList];
    Sig [VALUE_TYPE_QTGUI_QTEXTTABLEFORMAT] "format" [] (RValue QTextTableFormat) [On QTextTable];
    Sig [] "formatIndex" [] RDouble [On QTextObject];
    Sig [VALUE_TYPE_QTGUI_QTEXTFRAMEFORMAT] "frameFormat" [] (RValue QTextFrameFormat) [On QTextFrame];
    Sig [VALUE_TYPE_QTCORE_QRECT] "frameGeometry" [] (RValue QRect) [On QWindow];
    Sig [VALUE_TYPE_QTCORE_QMARGINS] "frameMargins" [] (RValue QMargins) [On QWindow]
  ].

Definition methods_qtgui_2_s70 : list signature_row :=
  [
    Sig [VALUE_TYPE_QTCORE_QPOINT] "framePosition" [] (RValue QPoint) [On QWindow];
    Sig [TYPE_QTGUI_QTEXTDOCUMENT; VALUE_TYPE_QTGUI_QTEXTDOCUMENTFRAGMENT] "fromHtml" [PString true;
        PObject QTextDocument false] (RValue QTextDocumentFragment) [Static QTextDocumentFragment];
    Sig [VALUE_TYPE_QTGUI_QTEXTDOCUMENTFRAGMENT] "fromPlainText" [PString true] (RValue
        QTextDocumentFragment) [Static QTextDocumentFragment];
    Sig [VALUE_TYPE_QTGUI_QTRANSFORM] "fromScale" [PNumber cxx_qreal; PNumber cxx_qreal] (RValue
        QTransform) [Static QTransform];
    Sig [VALUE_TYPE_QTGUI_QTRANSFORM] "fromTranslate" [PNumber cxx_qreal; PNumber cxx_qreal] (RValue
        QTransform) [Static QTransform];
    Sig [VALUE_TYPE_QTCORE_QRECT] "geometry" [] (RValue QRect) [On QWindow];
    Sig [] "height" [] RDouble [On QWindow];
    Sig [] "hide" [] RVoid [On QWindow];
    Sig [VALUE_TYPE_QTGUI_QICON] "icon" [] (RValue QIcon) [On QWindow];
    Sig [] "idealWidth" [] RDouble [On QTextDocument]
  ].

Definition methods_qtgui_2_s80 : list signature_row :=
  [
    Sig [] "indentWidth" [] RDouble [On QTextDocument];
    Sig [] "index" [] RDouble [On QUndoStack];
    Sig [] "insertColumns" [PInt; PInt] RVoid [On QTextTable];
    Sig [] "insertRows" [PInt; PInt] RVoid [On QTextTable];
    Sig [] "isActive" [] RBool [On QUndoStack; On QWindow];
    Sig [TYPE_QTGUI_QWINDOW] "isAncestorOf" [PObject QWindow false; PValue QWindow_AncestorMode] RBool [On
        QWindow];
    Sig [] "isClean" [] RBool [On QUndoGroup; On QUndoStack];
    Sig [] "isEmpty" [] RBool [On QTextDocument];
    Sig [] "isExposed" [] RBool [On QWindow];
    Sig [] "isLayoutEnabled" [] RBool [On QTextDocument]
  ].

Definition methods_qtgui_2_s90 : list signature_row :=
  [
    Sig [] "isModal" [] RBool [On QWindow];
    Sig [] "isModified" [] RBool [On QTextDocument];
    Sig [] "isRedoAvailable" [] RBool [On QTextDocument];
    Sig [] "isTopLevel" [] RBool [On QWindow];
    Sig [] "isUndoAvailable" [] RBool [On QTextDocument];
    Sig [] "isUndoRedoEnabled" [] RBool [On QTextDocument];
    Sig [] "isVisible" [] RBool [On QWindow];
    Sig [VALUE_TYPE_QTGUI_QTEXTBLOCK] "item" [PInt] (RValue QTextBlock) [On QTextList];
    Sig [VALUE_TYPE_QTGUI_QTEXTBLOCK] "itemNumber" [PValue QTextBlock] RDouble [On QTextList];
    Sig [VALUE_TYPE_QTGUI_QTEXTBLOCK] "itemText" [PValue QTextBlock] RString [On QTextList];
    Sig [VALUE_TYPE_QTGUI_QTEXTBLOCK] "lastBlock" [] (RValue QTextBlock) [On QTextDocument]
  ].

Definition methods_qtgui_2_s101 : list signature_row :=
  [
    Sig [VALUE_TYPE_QTGUI_QTEXTCURSOR] "lastCursorPosition" [] (RValue QTextCursor) [On QTextFrame];
    Sig [] "lastPosition" [] RDouble [On QTextFrame];
    Sig [] "lineCount" [] RDouble [On QTextDocument];
    Sig [VALUE_TYPE_QTCORE_QLOCALE] "locale" [] (RValue QLocale) [On QValidator];
    Sig [] "lower" [] RVoid [On QWindow];
    Sig [VALUE_TYPE_QTCORE_QPOINT] "mapFromGlobal" [PValue QPoint] (RValue QPoint) [On QWindow];
    Sig [VALUE_TYPE_QTCORE_QPOINTF] "mapFromGlobal" [PValue QPointF] (RValue QPointF) [On QWindow];
    Sig [VALUE_TYPE_QTCORE_QPOINT] "mapToGlobal" [PValue QPoint] (RValue QPoint) [On QWindow];
    Sig [VALUE_TYPE_QTCORE_QPOINTF] "mapToGlobal" [PValue QPointF] (RValue QPointF) [On QWindow];
    Sig [] "markContentsDirty" [PInt; PInt] RVoid [On QTextDocument]
  ].

Definition methods_qtgui_2_s111 : list signature_row :=
  [
    Sig [VALUE_TYPE_QTGUI_QREGION] "mask" [] (RValue QRegion) [On QWindow];
    Sig [] "maximumBlockCount" [] RDouble [On QTextDocument];
    Sig [] "maximumHeight" [] RDouble [On QWindow];
    Sig [VALUE_TYPE_QTCORE_QSIZE] "maximumSize" [] (RValue QSize) [On QWindow];
    Sig [] "maximumWidth" [] RDouble [On QWindow];
    Sig [VALUE_TYPE_QTGUI_QTEXTCURSOR] "mergeCells" [PValue QTextCursor] RVoid [On QTextTable];
    Sig [] "mergeCells" [PInt; PInt; PInt; PInt] RVoid [On QTextTable];
    Sig [TYPE_QTGUI_QTEXTDOCUMENT] "metaInformation" [PValue QTextDocument_MetaInformation] RString [On
        QTextDocument];
    Sig [] "minimumHeight" [] RDouble [On QWindow];
    Sig [VALUE_TYPE_QTCORE_QSIZE] "minimumSize" [] (RValue QSize) [On QWindow]
  ].

Definition methods_qtgui_2_s121 : list signature_row :=
  [
    Sig [] "minimumWidth" [] RDouble [On QWindow];
    Sig [ENUM_QT_WINDOWMODALITY] "modality" [] (RMeta Qt_WindowModality) [On QWindow];
    Sig [VALUE_TYPE_QTGUI_QVECTOR3D] "normal" [PValue QVector3D; PValue QVector3D] (RValue QVector3D)
        [Static QVector3D];
    Sig [VALUE_TYPE_QTGUI_QVECTOR3D] "normal" [PValue QVector3D; PValue QVector3D; PValue QVector3D]
        (RValue QVector3D) [Static QVector3D];
    Sig [TYPE_QTGUI_QTEXTOBJECT] "object" [PInt] RObject [On QTextDocument];
    Sig [TYPE_QTGUI_QTEXTOBJECT; VALUE_TYPE_QTGUI_QTEXTFORMAT] "objectForFormat" [PValue QTextFormat]
        RObject [On QTextDocument];
    Sig [] "objectIndex" [] RDouble [On QTextObject];
    Sig [] "opacity" [] RDouble [On QWindow];
    Sig [] "pageCount" [] RDouble [On QTextDocument];
    Sig [VALUE_TYPE_QTCORE_QSIZEF] "pageSize" [] (RValue QSizeF) [On QTextDocument]
  ].

Definition methods_qtgui_2_s131 : list signature_row :=
  [
    Sig [TYPE_QTGUI_QWINDOW] "parent" [PValue QWindow_AncestorMode] RObject [On QWindow];
    Sig [TYPE_QTGUI_QTEXTFRAME] "parentFrame" [] RObject [On QTextFrame; On QTextFrame];
    Sig [VALUE_TYPE_QTCORE_QPOINT] "position" [] (RValue QPoint) [On QWindow];
    Sig [VALUE_TYPE_QTGUI_QPOLYGONF; VALUE_TYPE_QTGUI_QTRANSFORM] "quadToQuad" [PValue QPolygonF; PValue
        QPolygonF; PValue QTransform] RBool [Static QTransform];
    Sig [VALUE_TYPE_QTGUI_QPOLYGONF; VALUE_TYPE_QTGUI_QTRANSFORM] "quadToSquare" [PValue QPolygonF; PValue
        QTransform] RBool [Static QTransform];
    Sig [] "redo" [] RVoid [On QTextDocument; On QUndoGroup; On QUndoStack];
    Sig [] "redoText" [] RString [On QUndoGroup; On QUndoStack];
    Sig [VALUE_TYPE_QTGUI_QTEXTBLOCK] "remove" [PValue QTextBlock] RVoid [On QTextList]
  ].

Definition methods_qtgui_2_s139 : list signature_row :=
  [
    Sig [] "removeColumns" [PInt; PInt] RVoid [On QTextTable];
    Sig [] "removeItem" [PInt] RVoid [On QTextList];
    Sig [] "removeRows" [PInt; PInt] RVoid [On QTextTable];
    Sig [TYPE_QTGUI_QUNDOSTACK] "removeStack" [PObject QUndoStack false] RVoid [On QUndoGroup];
    Sig [ENUM_QT_SCREENORIENTATION] "reportContentOrientationChange" [PValue Qt_ScreenOrientation] RVoid
        [On QWindow];
    Sig [] "requestActivate" [] RVoid [On QWindow];
    Sig [] "requestUpdate" [] RVoid [On QWindow];
    Sig [VALUE_TYPE_QTGUI_QSURFACEFORMAT] "requestedFormat" [] (RValue QSurfaceFormat) [On QWindow];
    Sig [] "resetClean" [] RVoid [On QUndoStack];
    Sig [VALUE_TYPE_QTCORE_QSIZE] "resize" [PValue QSize] RVoid [On QWindow]
  ].

Definition methods_qtgui_2_s149 : list signature_row :=
  [
    Sig [] "resize" [PInt; PInt] RVoid [On QTextTable; On QWindow];
    Sig [VALUE_TYPE_QTCORE_QURL] "resource" [PInt; PValue QUrl] RVariant [On QTextDocument];
    Sig [] "revision" [] RDouble [On QTextDocument];
    Sig [TYPE_QTGUI_QTEXTFRAME] "rootFrame" [] RObject [On QTextDocument];
    Sig [VALUE_TYPE_QTGUI_QTEXTCURSOR] "rowEnd" [PValue QTextCursor] (RValue QTextCursor) [On QTextTable];
    Sig [VALUE_TYPE_QTGUI_QTEXTCURSOR] "rowStart" [PValue QTextCursor] (RValue QTextCursor) [On QTextTable];
    Sig [] "rows" [] RDouble [On QTextTable];
    Sig [VALUE_TYPE_QTCORE_QMARGINS] "safeAreaMargins" [] (RValue QMargins) [On QWindow];
    Sig [TYPE_QTGUI_QSCREEN] "screen" [] RObject [On QWindow];
    Sig [] "setActive" [PBool] RVoid [On QUndoStack]
  ].

Definition methods_qtgui_2_s159 : list signature_row :=
  [
    Sig [TYPE_QTGUI_QUNDOSTACK] "setActiveStack" [PObject QUndoStack false] RVoid [On QUndoGroup];
    Sig [VALUE_TYPE_QTCORE_QSIZE] "setBaseSize" [PValue QSize] RVoid [On QWindow];
    Sig [VALUE_TYPE_QTCORE_QURL] "setBaseUrl" [PValue QUrl] RVoid [On QTextDocument];
    Sig [] "setBaselineOffset" [PNumber cxx_qreal] RVoid [On QTextDocument];
    Sig [] "setClean" [] RVoid [On QUndoStack];
    Sig [VALUE_TYPE_QTGUI_QCURSOR] "setCursor" [PValue QCursor] RVoid [On QWindow];
    Sig [ENUM_QT_CURSORMOVESTYLE] "setDefaultCursorMoveStyle" [PValue Qt_CursorMoveStyle] RVoid [On
        QTextDocument];
    Sig [VALUE_TYPE_QTGUI_QFONT] "setDefaultFont" [PValue QFont] RVoid [On QTextDocument];
    Sig [] "setDefaultStyleSheet" [PString true] RVoid [On QTextDocument];
    Sig [VALUE_TYPE_QTGUI_QTEXTOPTION] "setDefaultTextOption" [PValue QTextOption] RVoid [On QTextDocument]
  ].

Definition methods_qtgui_2_s169 : list signature_row :=
  [
    Sig [TYPE_QTGUI_QABSTRACTTEXTDOCUMENTLAYOUT] "setDocumentLayout" [PObject QAbstractTextDocumentLayout
        false] RVoid [On QTextDocument];
    Sig [] "setDocumentMargin" [PNumber cxx_qreal] RVoid [On QTextDocument];
    Sig [] "setFilePath" [PString true] RVoid [On QWindow];
    Sig [ENUM_QT_WINDOWTYPE] "setFlag" [PValue Qt_WindowType; PBool] RVoid [On QWindow];
    Sig [ENUM_QT_WINDOWFLAGS] "setFlags" [PValue Qt_WindowFlags] RVoid [On QWindow];
    Sig [VALUE_TYPE_QTGUI_QSURFACEFORMAT] "setFormat" [PValue QSurfaceFormat] RVoid [On QWindow];
    Sig [VALUE_TYPE_QTGUI_QTEXTLISTFORMAT] "setFormat" [PValue QTextListFormat] RVoid [On QTextList];
    Sig [VALUE_TYPE_QTGUI_QTEXTTABLEFORMAT] "setFormat" [PValue QTextTableFormat] RVoid [On QTextTable];
    Sig [VALUE_TYPE_QTGUI_QTEXTFRAMEFORMAT] "setFrameFormat" [PValue QTextFrameFormat] RVoid [On QTextFrame]
  ].

Definition methods_qtgui_2_s178 : list signature_row :=
  [
    Sig [VALUE_TYPE_QTCORE_QPOINT] "setFramePosition" [PValue QPoint] RVoid [On QWindow];
    Sig [VALUE_TYPE_QTCORE_QRECT] "setGeometry" [PValue QRect] RVoid [On QWindow];
    Sig [] "setGeometry" [PInt; PInt; PInt; PInt] RVoid [On QWindow];
    Sig [] "setHeight" [PInt] RVoid [On QWindow];
    Sig [] "setHtml" [PString true] RVoid [On QTextDocument];
    Sig [VALUE_TYPE_QTGUI_QICON] "setIcon" [PValue QIcon] RVoid [On QWindow];
    Sig [] "setIndentWidth" [PNumber cxx_qreal] RVoid [On QTextDocument];
    Sig [] "setIndex" [PInt] RVoid [On QUndoStack];
    Sig [] "setKeyboardGrabEnabled" [PBool] RBool [On QWindow];
    Sig [] "setLayoutEnabled" [PBool] RVoid [On QTextDocument]
  ].

Definition methods_qtgui_2_s188 : list signature_row :=
  [
    Sig [VALUE_TYPE_QTCORE_QLOCALE] "setLocale" [PValue QLocale] RVoid [On QValidator];
    Sig [VALUE_TYPE_QTGUI_QREGION] "setMask" [PValue QRegion] RVoid [On QWindow];
    Sig [] "setMaximumBlockCount" [PInt] RVoid [On QTextDocument];
    Sig [] "setMaximumHeight" [PInt] RVoid [On QWindow];
    Sig [VALUE_TYPE_QTCORE_QSIZE] "setMaximumSize" [PValue QSize] RVoid [On QWindow];
    Sig [] "setMaximumWidth" [PInt] RVoid [On QWindow];
    Sig [TYPE_QTGUI_QTEXTDOCUMENT] "setMetaInformation" [PValue QTextDocument_MetaInformation; PString
        true] RVoid [On QTextDocument];
    Sig [] "setMinimumHeight" [PInt] RVoid [On QWindow];
    Sig [VALUE_TYPE_QTCORE_QSIZE] "setMinimumSize" [PValue QSize] RVoid [On QWindow]
  ].

Definition methods_qtgui_2_s197 : list signature_row :=
  [
    Sig [] "setMinimumWidth" [PInt] RVoid [On QWindow];
    Sig [ENUM_QT_WINDOWMODALITY] "setModality" [PValue Qt_WindowModality] RVoid [On QWindow];
    Sig [] "setModified" [PBool] RVoid [On QTextDocument];
    Sig [] "setMouseGrabEnabled" [PBool] RBool [On QWindow];
    Sig [] "setOpacity" [PNumber cxx_qreal] RVoid [On QWindow];
    Sig [VALUE_TYPE_QTCORE_QSIZEF] "setPageSize" [PValue QSizeF] RVoid [On QTextDocument];
    Sig [TYPE_QTGUI_QWINDOW] "setParent" [PObject QWindow false] RVoid [On QWindow];
    Sig [] "setPlainText" [PString true] RVoid [On QTextDocument];
    Sig [VALUE_TYPE_QTCORE_QPOINT] "setPosition" [PValue QPoint] RVoid [On QWindow];
    Sig [] "setPosition" [PInt; PInt] RVoid [On QWindow]
  ].

Definition methods_qtgui_2_s207 : list signature_row :=
  [
    Sig [TYPE_QTGUI_QSCREEN] "setScreen" [PObject QScreen false] RVoid [On QWindow];
    Sig [VALUE_TYPE_QTCORE_QSIZE] "setSizeIncrement" [PValue QSize] RVoid [On QWindow];
    Sig [] "setSubScriptBaseline" [PNumber cxx_qreal] RVoid [On QTextDocument];
    Sig [] "setSuperScriptBaseline" [PNumber cxx_qreal] RVoid [On QTextDocument];
    Sig [TYPE_QTGUI_QSURFACE] "setSurfaceType" [PValue QSurface_SurfaceType] RVoid [On QWindow];
    Sig [] "setTextWidth" [PNumber cxx_qreal] RVoid [On QTextDocument];
    Sig [] "setTitle" [PString true] RVoid [On QWindow];
    Sig [TYPE_QTGUI_QWINDOW] "setTransientParent" [PObject QWindow false] RVoid [On QWindow];
    Sig [] "setUndoLimit" [PInt] RVoid [On QUndoStack];
    Sig [] "setUndoRedoEnabled" [PBool] RVoid [On QTextDocument]
  ].

Definition methods_qtgui_2_s217 : list signature_row :=
  [
    Sig [] "setUseDesignMetrics" [PBool] RVoid [On QTextDocument];
    Sig [TYPE_QTGUI_QWINDOW] "setVisibility" [PValue QWindow_Visibility] RVoid [On QWindow];
    Sig [] "setVisible" [PBool] RVoid [On QWindow];
    Sig [] "setWidth" [PInt] RVoid [On QWindow];
    Sig [ENUM_QT_WINDOWSTATE] "setWindowState" [PValue Qt_WindowState] RVoid [On QWindow];
    Sig [ENUM_QT_WINDOWSTATES] "setWindowStates" [PValue Qt_WindowStates] RVoid [On QWindow];
    Sig [] "setX" [PInt] RVoid [On QWindow];
    Sig [] "setY" [PInt] RVoid [On QWindow];
    Sig [] "show" [] RVoid [On QWindow];
    Sig [] "showFullScreen" [] RVoid [On QWindow]
  ].

Definition methods_qtgui_2_s227 : list signature_row :=
  [
    Sig [] "showMaximized" [] RVoid [On QWindow];
    Sig [] "showMinimized" [] RVoid [On QWindow];
    Sig [] "showNormal" [] RVoid [On QWindow];
    Sig [VALUE_TYPE_QTCORE_QSIZE] "size" [] (RValue QSize) [On QWindow];
    Sig [VALUE_TYPE_QTCORE_QSIZEF] "size" [] (RValue QSizeF) [On QTextDocument];
    Sig [VALUE_TYPE_QTCORE_QSIZE] "sizeIncrement" [] (RValue QSize) [On QWindow];
    Sig [] "splitCell" [PInt; PInt; PInt; PInt] RVoid [On QTextTable];
    Sig [VALUE_TYPE_QTGUI_QPOLYGONF; VALUE_TYPE_QTGUI_QTRANSFORM] "squareToQuad" [PValue QPolygonF; PValue
        QTransform] RBool [Static QTransform];
    Sig [TYPE_QTGUI_QUNDOSTACK] "stacks" [] (RList (IObject QObject)) [On QUndoGroup];
    Sig [] "startSystemMove" [] RBool [On QWindow]
  ].

Definition methods_qtgui_2_s237 : list signature_row :=
  [
    Sig [ENUM_QT_EDGES] "startSystemResize" [PValue Qt_Edges] RBool [On QWindow];
    Sig [] "subScriptBaseline" [] RDouble [On QTextDocument];
    Sig [] "superScriptBaseline" [] RDouble [On QTextDocument];
    Sig [VALUE_TYPE_QTCORE_QBYTEARRAY] "supportedDocumentFormats" [] (RList (IValue QByteArray)) [Static
        QTextDocumentWriter];
    Sig [TYPE_QTGUI_QSURFACE] "surfaceType" [] (RMeta QSurface_SurfaceType) [On QWindow];
    Sig [] "text" [PInt] RString [On QUndoStack];
    Sig [] "textWidth" [] RDouble [On QTextDocument];
    Sig [] "title" [] RString [On QWindow];
    Sig [] "toHtml" [] RString [On QTextDocument];
    Sig [] "toPlainText" [] RString [On QTextDocument];
    Sig [] "toRawText" [] RString [On QTextDocument]
  ].

Definition methods_qtgui_2_s248 : list signature_row :=
  [
    Sig [TYPE_QTGUI_QWINDOW] "transientParent" [] RObject [On QWindow];
    Sig [ENUM_QT_WINDOWTYPE] "type" [] (RMeta Qt_WindowType) [On QWindow];
    Sig [] "undo" [] RVoid [On QTextDocument; On QUndoGroup; On QUndoStack];
    Sig [] "undoLimit" [] RDouble [On QUndoStack];
    Sig [] "undoText" [] RString [On QUndoGroup; On QUndoStack];
    Sig [] "unsetCursor" [] RVoid [On QWindow];
    Sig [] "useDesignMetrics" [] RBool [On QTextDocument];
    Sig [TYPE_QTGUI_QWINDOW] "visibility" [] (RMeta QWindow_Visibility) [On QWindow];
    Sig [] "width" [] RDouble [On QWindow];
    Sig [ENUM_QT_WINDOWSTATE] "windowState" [] (RMeta Qt_WindowState) [On QWindow];
    Sig [ENUM_QT_WINDOWSTATES] "windowStates" [] (RMeta Qt_WindowStates) [On QWindow]
  ].

Definition methods_qtgui_2_s259 : list signature_row :=
  [
    Sig [] "x" [] RDouble [On QWindow];
    Sig [] "y" [] RDouble [On QWindow]
  ].

Definition methods_qtgui_2 : method_shard :=
  MethodShard QtGui "KRY_QT6_NATIVE_METHODS_QTGUI_"
    (methods_qtgui_2_i0 ++ methods_qtgui_2_i1)
    (methods_qtgui_2_s0 ++ methods_qtgui_2_s10 ++ methods_qtgui_2_s20 ++ methods_qtgui_2_s30 ++
        methods_qtgui_2_s39 ++ methods_qtgui_2_s49 ++ methods_qtgui_2_s59 ++ methods_qtgui_2_s70 ++
        methods_qtgui_2_s80 ++ methods_qtgui_2_s90 ++ methods_qtgui_2_s101 ++ methods_qtgui_2_s111 ++
        methods_qtgui_2_s121 ++ methods_qtgui_2_s131 ++ methods_qtgui_2_s139 ++ methods_qtgui_2_s149 ++
        methods_qtgui_2_s159 ++ methods_qtgui_2_s169 ++ methods_qtgui_2_s178 ++ methods_qtgui_2_s188 ++
        methods_qtgui_2_s197 ++ methods_qtgui_2_s207 ++ methods_qtgui_2_s217 ++ methods_qtgui_2_s227 ++
        methods_qtgui_2_s237 ++ methods_qtgui_2_s248 ++ methods_qtgui_2_s259)
    [].
