(* ===== verification/MethodsWidgetsA.v ===== *)
(** Rows of the shards of generated_methods: qtwidgets_0, qtwidgets_1, qtwidgets_2. *)
From S2P Require Import Names.

(** * Definitions *)

Definition methods_qtwidgets_0_i0 : list include :=
  [
    ClassInclude QtWidgets QAbstractButton QAbstractButton;
    ClassInclude QtWidgets QAbstractItemDelegate QAbstractItemDelegate;
    ClassInclude QtWidgets QAbstractItemView QAbstractItemView;
    ClassInclude QtWidgets QAbstractScrollArea QAbstractScrollArea;
    ClassInclude QtWidgets QAbstractSlider QAbstractSlider;
    ClassInclude QtWidgets QAbstractSpinBox QAbstractSpinBox;
    ClassInclude QtWidgets QApplication QApplication;
    ClassInclude QtWidgets QBoxLayout QBoxLayout;
    ClassInclude QtWidgets QButtonGroup QButtonGroup;
    ClassInclude QtWidgets QCalendarWidget QCalendarWidget;
    ClassInclude QtWidgets QCheckBox QCheckBox;
    ClassInclude QtWidgets QColorDialog QColorDialog;
    ClassInclude QtWidgets QColumnView QColumnView;
    ClassInclude QtWidgets QComboBox QComboBox;
    ClassInclude QtWidgets QCommandLinkButton QCommandLinkButton;
    ClassInclude QtWidgets QCommonStyle QCommonStyle;
    ClassInclude QtWidgets QCompleter QCompleter;
    ClassInclude QtWidgets QDataWidgetMapper QDataWidgetMapper;
    ClassInclude QtWidgets QDateTimeEdit QDateTimeEdit;
    ClassInclude QtWidgets QDial QDial;
    ClassInclude QtWidgets QDialog QDialog;
    ClassInclude QtWidgets QDialogButtonBox QDialogButtonBox;
    ClassInclude QtWidgets QDockWidget QDockWidget;
    ClassInclude QtWidgets QDoubleSpinBox QDoubleSpinBox;
    TypeInclude QtCore QAbstractItemModel TYPE_QTCORE_QABSTRACTITEMMODEL;
    TypeInclude QtCore QItemSelectionModel TYPE_QTCORE_QITEMSELECTIONMODEL;
    TypeInclude QtGui QValidator TYPE_QTGUI_QVALIDATOR;
    TypeInclude QtWidgets QAbstractButton TYPE_QTWIDGETS_QABSTRACTBUTTON;
    TypeInclude QtWidgets QAbstractItemDelegate TYPE_QTWIDGETS_QABSTRACTITEMDELEGATE;
    TypeInclude QtWidgets QAbstractItemView TYPE_QTWIDGETS_QABSTRACTITEMVIEW;
    TypeInclude QtWidgets QApplication TYPE_QTWIDGETS_QAPPLICATION;
    TypeInclude QtWidgets QButtonGroup TYPE_QTWIDGETS_QBUTTONGROUP;
    TypeInclude QtWidgets QCalendarWidget TYPE_QTWIDGETS_QCALENDARWIDGET;
    TypeInclude QtWidgets QCompleter TYPE_QTWIDGETS_QCOMPLETER;
    TypeInclude QtWidgets QLayout TYPE_QTWIDGETS_QLAYOUT;
    TypeInclude QtWidgets QLineEdit TYPE_QTWIDGETS_QLINEEDIT;
    TypeInclude QtWidgets QPushButton TYPE_QTWIDGETS_QPUSHBUTTON;
    TypeInclude QtWidgets QScrollBar TYPE_QTWIDGETS_QSCROLLBAR;
    TypeInclude QtWidgets QStyle TYPE_QTWIDGETS_QSTYLE;
    TypeInclude QtWidgets QWidget TYPE_QTWIDGETS_QWIDGET;
    EnumDefine ENUM_QT_CASESENSITIVITY;
    EnumDefine ENUM_QT_CHECKSTATE;
    EnumDefine ENUM_QT_DAYOFWEEK;
    EnumDefine ENUM_QT_DOCKWIDGETAREA;
    EnumDefine ENUM_QT_DOCKWIDGETAREAS;
    EnumDefine ENUM_QT_DROPACTION;
    EnumDefine ENUM_QT_INPUTMETHODQUERY;
    EnumDefine ENUM_QT_ORIENTATION;
    EnumDefine ENUM_QT_ORIENTATIONS;
    EnumDefine ENUM_QT_SCROLLBARPOLICY;
    EnumDefine ENUM_QT_TEXTELIDEMODE;
    EnumDefine ENUM_QT_TIMESPEC;
    EnumDefine ENUM_QT_UIEFFECT;
    TypeInclude QtWidgets QAbstractItemView TYPE_QTWIDGETS_QABSTRACTITEMVIEW;
    TypeInclude QtWidgets QAbstractScrollArea TYPE_QTWIDGETS_QABSTRACTSCROLLAREA;
    TypeInclude QtWidgets QAbstractSlider TYPE_QTWIDGETS_QABSTRACTSLIDER;
    TypeInclude QtWidgets QAbstractSpinBox TYPE_QTWIDGETS_QABSTRACTSPINBOX;
    TypeInclude QtWidgets QBoxLayout TYPE_QTWIDGETS_QBOXLAYOUT;
    TypeInclude QtWidgets QCalendarWidget TYPE_QTWIDGETS_QCALENDARWIDGET
  ].

Definition methods_qtwidgets_0_i1 : list include :=
  [
    TypeInclude QtWidgets QColorDialog TYPE_QTWIDGETS_QCOLORDIALOG;
    TypeInclude QtWidgets QComboBox TYPE_QTWIDGETS_QCOMBOBOX;
    TypeInclude QtWidgets QCompleter TYPE_QTWIDGETS_QCOMPLETER;
    TypeInclude QtWidgets QDataWidgetMapper TYPE_QTWIDGETS_QDATAWIDGETMAPPER;
    TypeInclude QtWidgets QDateTimeEdit TYPE_QTWIDGETS_QDATETIMEEDIT;
    TypeInclude QtWidgets QDialogButtonBox TYPE_QTWIDGETS_QDIALOGBUTTONBOX;
    TypeInclude QtCore QByteArray VALUE_TYPE_QTCORE_QBYTEARRAY;
    TypeInclude QtCore QCalendar VALUE_TYPE_QTCORE_QCALENDAR;
    TypeInclude QtCore QDate VALUE_TYPE_QTCORE_QDATE;
    TypeInclude QtCore QDateTime VALUE_TYPE_QTCORE_QDATETIME;
    TypeInclude QtCore QModelIndex VALUE_TYPE_QTCORE_QMODELINDEX;
    TypeInclude QtCore QPoint VALUE_TYPE_QTCORE_QPOINT;
    TypeInclude QtCore QRect VALUE_TYPE_QTCORE_QRECT;
    TypeInclude QtCore QSize VALUE_TYPE_QTCORE_QSIZE;
    TypeInclude QtCore QTime VALUE_TYPE_QTCORE_QTIME;
    TypeInclude QtCore QTimeZone VALUE_TYPE_QTCORE_QTIMEZONE;
    TypeInclude QtGui QColor VALUE_TYPE_QTGUI_QCOLOR;
    TypeInclude QtGui QFont VALUE_TYPE_QTGUI_QFONT;
    TypeInclude QtGui QIcon VALUE_TYPE_QTGUI_QICON;
    TypeInclude QtGui QKeySequence VALUE_TYPE_QTGUI_QKEYSEQUENCE;
    TypeInclude QtGui QPalette VALUE_TYPE_QTGUI_QPALETTE;
    TypeInclude QtGui QTextCharFormat VALUE_TYPE_QTGUI_QTEXTCHARFORMAT;
    TypeInclude QtWidgets QStyleOptionViewItem VALUE_TYPE_QTWIDGETS_QSTYLEOPTIONVIEWITEM
  ].

Definition methods_qtwidgets_0_s0 : list signature_row :=
  [
    Sig [] "aboutQt" [] RVoid [Static QApplication];
    Sig [] "accept" [] RVoid [On QDialog];
    Sig [TYPE_QTWIDGETS_QWIDGET] "activeModalWidget" [] RObject [Static QApplication];
    Sig [TYPE_QTWIDGETS_QWIDGET] "activePopupWidget" [] RObject [Static QApplication];
    Sig [TYPE_QTWIDGETS_QWIDGET] "activeWindow" [] RObject [Static QApplication];
    Sig [TYPE_QTWIDGETS_QABSTRACTBUTTON; TYPE_QTWIDGETS_QDIALOGBUTTONBOX] "addButton" [PObject
        QAbstractButton false; PValue QDialogButtonBox_ButtonRole] RVoid [On QDialogButtonBox];
    Sig [TYPE_QTWIDGETS_QABSTRACTBUTTON] "addButton" [PObject QAbstractButton false; PInt] RVoid [On
        QButtonGroup];
    Sig [TYPE_QTWIDGETS_QDIALOGBUTTONBOX; TYPE_QTWIDGETS_QPUSHBUTTON] "addButton" [PValue
        QDialogButtonBox_StandardButton] RObject [On QDialogButtonBox];
    Sig [TYPE_QTWIDGETS_QDIALOGBUTTONBOX; TYPE_QTWIDGETS_QPUSHBUTTON] "addButton" [PString true; PValue
        QDialogButtonBox_ButtonRole] RObject [On QDialogButtonBox];
    Sig [VALUE_TYPE_QTGUI_QICON] "addItem" [PValue QIcon; PString true; PVariant] RVoid [On QComboBox]
  ].

Definition methods_qtwidgets_0_s10 : list signature_row :=
  [
    Sig [] "addItem" [PString true; PVariant] RVoid [On QComboBox];
    Sig [] "addItems" [PStringList] RVoid [On QComboBox];
    Sig [TYPE_QTWIDGETS_QLAYOUT] "addLayout" [PObject QLayout false; PInt] RVoid [On QBoxLayout];
    Sig [TYPE_QTWIDGETS_QWIDGET] "addMapping" [PObject QWidget false; PInt] RVoid [On QDataWidgetMapper];
    Sig [TYPE_QTWIDGETS_QWIDGET; VALUE_TYPE_QTCORE_QBYTEARRAY] "addMapping" [PObject QWidget false; PInt;
        PValue QByteArray] RVoid [On QDataWidgetMapper];
    Sig [] "addSpacing" [PInt] RVoid [On QBoxLayout];
    Sig [] "addStretch" [PInt] RVoid [On QBoxLayout];
    Sig [] "addStrut" [PInt] RVoid [On QBoxLayout]
  ].

Definition methods_qtwidgets_0_s18 : list signature_row :=
  [
    Sig [TYPE_QTWIDGETS_QWIDGET] "alert" [PObject QWidget false; PInt] RVoid [Static QApplication];
    Sig [ENUM_QT_DOCKWIDGETAREAS] "allowedAreas" [] (RMeta Qt_DockWidgetAreas) [On QDockWidget];
    Sig [] "alternatingRowColors" [] RBool [On QAbstractItemView];
    Sig [] "animateClick" [] RVoid [On QAbstractButton];
    Sig [] "autoExclusive" [] RBool [On QAbstractButton];
    Sig [] "autoRepeat" [] RBool [On QAbstractButton];
    Sig [] "autoRepeatDelay" [] RDouble [On QAbstractButton];
    Sig [] "autoRepeatInterval" [] RDouble [On QAbstractButton];
    Sig [] "autoScrollMargin" [] RDouble [On QAbstractItemView];
    Sig [] "autoSipEnabled" [] RBool [On QApplication];
    Sig [] "beep" [] RVoid [Static QApplication]
  ].

Definition methods_qtwidgets_0_s29 : list signature_row :=
  [
    Sig [TYPE_QTWIDGETS_QDIALOGBUTTONBOX; TYPE_QTWIDGETS_QPUSHBUTTON] "button" [PValue
        QDialogButtonBox_StandardButton] RObject [On QDialogButtonBox];
    Sig [TYPE_QTWIDGETS_QABSTRACTBUTTON] "button" [PInt] RObject [On QButtonGroup];
    Sig [TYPE_QTWIDGETS_QABSTRACTBUTTON; TYPE_QTWIDGETS_QDIALOGBUTTONBOX] "buttonRole" [PObject
        QAbstractButton false] (RMeta QDialogButtonBox_ButtonRole) [On QDialogButtonBox];
    Sig [TYPE_QTWIDGETS_QABSTRACTSPINBOX] "buttonSymbols" [] (RMeta QAbstractSpinBox_ButtonSymbols) [On
        QAbstractSpinBox];
    Sig [TYPE_QTWIDGETS_QABSTRACTBUTTON] "buttons" [] (RList (IObject QObject)) [On QButtonGroup; On
        QDialogButtonBox];
    Sig [VALUE_TYPE_QTCORE_QCALENDAR] "calendar" [] (RValue QCalendar) [On QCalendarWidget; On
        QDateTimeEdit];
    Sig [] "calendarPopup" [] RBool [On QDateTimeEdit];
    Sig [TYPE_QTWIDGETS_QCALENDARWIDGET] "calendarWidget" [] RObject [On QDateTimeEdit];
    Sig [ENUM_QT_CASESENSITIVITY] "caseSensitivity" [] (RMeta Qt_CaseSensitivity) [On QCompleter];
    Sig [] "centerButtons" [] RBool [On QDialogButtonBox]
  ].

Definition methods_qtwidgets_0_s39 : list signature_row :=
  [
    Sig [ENUM_QT_CHECKSTATE] "checkState" [] (RMeta Qt_CheckState) [On QCheckBox];
    Sig [TYPE_QTWIDGETS_QABSTRACTBUTTON] "checkedButton" [] RObject [On QButtonGroup];
    Sig [] "checkedId" [] RDouble [On QButtonGroup];
    Sig [] "cleanText" [] RString [On QDoubleSpinBox];
    Sig [] "clear" [] RVoid [On QAbstractSpinBox; On QComboBox; On QDateTimeEdit; On QDialogButtonBox];
    Sig [] "clearEditText" [] RVoid [On QComboBox];
    Sig [] "clearMapping" [] RVoid [On QDataWidgetMapper];
    Sig [] "clearMaximumDate" [] RVoid [On QCalendarWidget; On QDateTimeEdit];
    Sig [] "clearMaximumDateTime" [] RVoid [On QDateTimeEdit];
    Sig [] "clearMaximumTime" [] RVoid [On QDateTimeEdit]
  ].

Definition methods_qtwidgets_0_s49 : list signature_row :=
  [
    Sig [] "clearMinimumDate" [] RVoid [On QCalendarWidget; On QDateTimeEdit];
    Sig [] "clearMinimumDateTime" [] RVoid [On QDateTimeEdit];
    Sig [] "clearMinimumTime" [] RVoid [On QDateTimeEdit];
    Sig [] "clearSelection" [] RVoid [On QAbstractItemView];
    Sig [] "click" [] RVoid [On QAbstractButton];
    Sig [] "closeAllWindows" [] RVoid [Static QApplication];
    Sig [VALUE_TYPE_QTCORE_QMODELINDEX] "closePersistentEditor" [PValue QModelIndex] RVoid [On
        QAbstractItemView];
    Sig [] "columnWidths" [] (RList (IMeta cxx_int)) [On QColumnView];
    Sig [VALUE_TYPE_QTCORE_QRECT] "complete" [PValue QRect] RVoid [On QCompleter];
    Sig [TYPE_QTWIDGETS_QCOMPLETER] "completer" [] RObject [On QComboBox];
    Sig [] "completionColumn" [] RDouble [On QCompleter]
  ].

Definition methods_qtwidgets_0_s60 : list signature_row :=
  [
    Sig [] "completionCount" [] RDouble [On QCompleter];
    Sig [TYPE_QTWIDGETS_QCOMPLETER] "completionMode" [] (RMeta QCompleter_CompletionMode) [On QCompleter];
    Sig [TYPE_QTCORE_QABSTRACTITEMMODEL] "completionModel" [] RObject [On QCompleter];
    Sig [] "completionPrefix" [] RString [On QCompleter];
    Sig [] "completionRole" [] RDouble [On QCompleter];
    Sig [TYPE_QTWIDGETS_QWIDGET] "cornerWidget" [] RObject [On QAbstractScrollArea];
    Sig [TYPE_QTWIDGETS_QABSTRACTSPINBOX] "correctionMode" [] (RMeta QAbstractSpinBox_CorrectionMode) [On
        QAbstractSpinBox];
    Sig [] "count" [] RDouble [On QBoxLayout; On QComboBox];
    Sig [TYPE_QTWIDGETS_QWIDGET; VALUE_TYPE_QTCORE_QMODELINDEX; VALUE_TYPE_QTWIDGETS_QSTYLEOPTIONVIEWITEM]
        "createEditor" [PObject QWidget false; PValue QStyleOptionViewItem; PValue QModelIndex] RObject [On
        QAbstractItemDelegate];
    Sig [VALUE_TYPE_QTGUI_QCOLOR] "currentColor" [] (RValue QColor) [On QColorDialog];
    Sig [] "currentCompletion" [] RString [On QCompleter]
  ].

Definition methods_qtwidgets_0_s71 : list signature_row :=
  [
    Sig [] "currentData" [PInt] RVariant [On QComboBox];
    Sig [VALUE_TYPE_QTCORE_QMODELINDEX] "currentIndex" [] (RValue QModelIndex) [On QAbstractItemView; On
        QCompleter];
    Sig [] "currentIndex" [] RDouble [On QComboBox; On QDataWidgetMapper];
    Sig [] "currentRow" [] RDouble [On QCompleter];
    Sig [TYPE_QTWIDGETS_QDATETIMEEDIT] "currentSection" [] (RMeta QDateTimeEdit_Section) [On QDateTimeEdit];
    Sig [] "currentSectionIndex" [] RDouble [On QDateTimeEdit];
    Sig [] "currentText" [] RString [On QComboBox];
    Sig [] "cursorFlashTime" [] RDouble [Static QApplication];
    Sig [VALUE_TYPE_QTGUI_QCOLOR] "customColor" [PInt] (RValue QColor) [Static QColorDialog];
    Sig [] "customCount" [] RDouble [Static QColorDialog];
    Sig [VALUE_TYPE_QTCORE_QDATE] "date" [] (RValue QDate) [On QDateTimeEdit]
  ].

Definition methods_qtwidgets_0_s82 : list signature_row :=
  [
    Sig [] "dateEditAcceptDelay" [] RDouble [On QCalendarWidget];
    Sig [VALUE_TYPE_QTCORE_QDATE; VALUE_TYPE_QTGUI_QTEXTCHARFORMAT] "dateTextFormat" [PValue QDate] (RValue
        QTextCharFormat) [On QCalendarWidget];
    Sig [VALUE_TYPE_QTCORE_QDATETIME] "dateTime" [] (RValue QDateTime) [On QDateTimeEdit];
    Sig [] "decimals" [] RDouble [On QDoubleSpinBox];
    Sig [ENUM_QT_DROPACTION] "defaultDropAction" [] (RMeta Qt_DropAction) [On QAbstractItemView];
    Sig [] "description" [] RString [On QCommandLinkButton];
    Sig [TYPE_QTWIDGETS_QWIDGET; VALUE_TYPE_QTCORE_QMODELINDEX] "destroyEditor" [PObject QWidget false;
        PValue QModelIndex] RVoid [On QAbstractItemDelegate];
    Sig [TYPE_QTWIDGETS_QBOXLAYOUT] "direction" [] (RMeta QBoxLayout_Direction) [On QBoxLayout];
    Sig [] "displayFormat" [] RString [On QDateTimeEdit];
    Sig [TYPE_QTWIDGETS_QDATETIMEEDIT] "displayedSections" [] (RMeta QDateTimeEdit_Sections) [On
        QDateTimeEdit];
    Sig [ENUM_QT_DOCKWIDGETAREA] "dockLocation" [] (RMeta Qt_DockWidgetArea) [On QDockWidget]
  ].

Definition methods_qtwidgets_0_s93 : list signature_row :=
  [
    Sig [] "done" [PInt] RVoid [On QDialog];
    Sig [] "doubleClickInterval" [] RDouble [Static QApplication];
    Sig [TYPE_QTWIDGETS_QABSTRACTITEMVIEW] "dragDropMode" [] (RMeta QAbstractItemView_DragDropMode) [On
        QAbstractItemView];
    Sig [] "dragDropOverwriteMode" [] RBool [On QAbstractItemView];
    Sig [] "dragEnabled" [] RBool [On QAbstractItemView];
    Sig [] "duplicatesEnabled" [] RBool [On QComboBox];
    Sig [VALUE_TYPE_QTCORE_QMODELINDEX] "edit" [PValue QModelIndex] RVoid [On QAbstractItemView];
    Sig [] "exclusive" [] RBool [On QButtonGroup];
    Sig [] "exec" [] RDouble [Static QApplication];
    Sig [ENUM_QT_ORIENTATIONS] "expandingDirections" [] (RMeta Qt_Orientations) [On QBoxLayout];
    Sig [ENUM_QT_DAYOFWEEK] "firstDayOfWeek" [] (RMeta Qt_DayOfWeek) [On QCalendarWidget];
    Sig [TYPE_QTWIDGETS_QWIDGET] "focusWidget" [] RObject [Static QApplication]
  ].

Definition methods_qtwidgets_0_s105 : list signature_row :=
  [
    Sig [VALUE_TYPE_QTGUI_QFONT] "font" [] (RValue QFont) [Static QApplication];
    Sig [TYPE_QTWIDGETS_QWIDGET; VALUE_TYPE_QTGUI_QFONT] "font" [PObject QWidget false] (RValue QFont)
        [Static QApplication];
    Sig [TYPE_QTWIDGETS_QCOLORDIALOG; TYPE_QTWIDGETS_QWIDGET; VALUE_TYPE_QTGUI_QCOLOR] "getColor" [PValue
        QColor; PObject QWidget false; PString true; PValue QColorDialog_ColorDialogOptions] (RValue
        QColor) [Static QColorDialog];
    Sig [TYPE_QTWIDGETS_QBUTTONGROUP] "group" [] RObject [On QAbstractButton];
    Sig [] "hasAcceptableInput" [] RBool [On QAbstractSpinBox];
    Sig [] "hasAutoScroll" [] RBool [On QAbstractItemView];
    Sig [] "hasFrame" [] RBool [On QAbstractSpinBox; On QComboBox];
    Sig [] "hasHeightForWidth" [] RBool [On QBoxLayout];
    Sig [] "hasTracking" [] RBool [On QAbstractSlider];
    Sig [VALUE_TYPE_QTGUI_QTEXTCHARFORMAT] "headerTextFormat" [] (RValue QTextCharFormat) [On
        QCalendarWidget]
  ].

Definition methods_qtwidgets_0_s115 : list signature_row :=
  [
    Sig [] "heightForWidth" [PInt] RDouble [On QBoxLayout; On QCommandLinkButton];
    Sig [] "hidePopup" [] RVoid [On QComboBox];
    Sig [TYPE_QTWIDGETS_QCALENDARWIDGET] "horizontalHeaderFormat" [] (RMeta
        QCalendarWidget_HorizontalHeaderFormat) [On QCalendarWidget];
    Sig [TYPE_QTWIDGETS_QSCROLLBAR] "horizontalScrollBar" [] RObject [On QAbstractScrollArea];
    Sig [ENUM_QT_SCROLLBARPOLICY] "horizontalScrollBarPolicy" [] (RMeta Qt_ScrollBarPolicy) [On
        QAbstractScrollArea];
    Sig [TYPE_QTWIDGETS_QABSTRACTITEMVIEW] "horizontalScrollMode" [] (RMeta QAbstractItemView_ScrollMode)
        [On QAbstractItemView];
    Sig [VALUE_TYPE_QTGUI_QICON] "icon" [] (RValue QIcon) [On QAbstractButton];
    Sig [VALUE_TYPE_QTCORE_QSIZE] "iconSize" [] (RValue QSize) [On QAbstractButton; On QAbstractItemView;
        On QComboBox];
    Sig [TYPE_QTWIDGETS_QABSTRACTBUTTON] "id" [PObject QAbstractButton false] RDouble [On QButtonGroup]
  ].

Definition methods_qtwidgets_0_s124 : list signature_row :=
  [
    Sig [VALUE_TYPE_QTCORE_QMODELINDEX; VALUE_TYPE_QTCORE_QPOINT] "indexAt" [PValue QPoint] (RValue
        QModelIndex) [On QColumnView];
    Sig [TYPE_QTWIDGETS_QWIDGET; VALUE_TYPE_QTCORE_QMODELINDEX] "indexWidget" [PValue QModelIndex] RObject
        [On QAbstractItemView];
    Sig [ENUM_QT_INPUTMETHODQUERY] "inputMethodQuery" [PValue Qt_InputMethodQuery] RVariant [On
        QAbstractItemView; On QAbstractSpinBox; On QComboBox];
    Sig [ENUM_QT_INPUTMETHODQUERY] "inputMethodQuery" [PValue Qt_InputMethodQuery; PVariant] RVariant [On
        QComboBox];
    Sig [VALUE_TYPE_QTGUI_QICON] "insertItem" [PInt; PValue QIcon; PString true; PVariant] RVoid [On
        QComboBox];
    Sig [] "insertItem" [PInt; PString true; PVariant] RVoid [On QComboBox];
    Sig [] "insertItems" [PInt; PStringList] RVoid [On QComboBox];
    Sig [TYPE_QTWIDGETS_QLAYOUT] "insertLayout" [PInt; PObject QLayout false; PInt] RVoid [On QBoxLayout]
  ].

Definition methods_qtwidgets_0_s132 : list signature_row :=
  [
    Sig [TYPE_QTWIDGETS_QCOMBOBOX] "insertPolicy" [] (RMeta QComboBox_InsertPolicy) [On QComboBox];
    Sig [] "insertSeparator" [PInt] RVoid [On QComboBox];
    Sig [] "insertSpacing" [PInt; PInt] RVoid [On QBoxLayout];
    Sig [] "insertStretch" [PInt; PInt] RVoid [On QBoxLayout];
    Sig [] "interpretText" [] RVoid [On QAbstractSpinBox];
    Sig [] "invalidate" [] RVoid [On QBoxLayout];
    Sig [] "invertedAppearance" [] RBool [On QAbstractSlider];
    Sig [] "invertedControls" [] RBool [On QAbstractSlider];
    Sig [] "isAccelerated" [] RBool [On QAbstractSpinBox];
    Sig [ENUM_QT_DOCKWIDGETAREA] "isAreaAllowed" [PValue Qt_DockWidgetArea] RBool [On QDockWidget];
    Sig [] "isCheckable" [] RBool [On QAbstractButton]
  ].

Definition methods_qtwidgets_0_s143 : list signature_row :=
  [
    Sig [] "isChecked" [] RBool [On QAbstractButton];
    Sig [] "isDateEditEnabled" [] RBool [On QCalendarWidget];
    Sig [] "isDown" [] RBool [On QAbstractButton];
    Sig [] "isEditable" [] RBool [On QComboBox];
    Sig [ENUM_QT_UIEFFECT] "isEffectEnabled" [PValue Qt_UIEffect] RBool [Static QApplication];
    Sig [] "isFloating" [] RBool [On QDockWidget];
    Sig [] "isGridVisible" [] RBool [On QCalendarWidget];
    Sig [] "isGroupSeparatorShown" [] RBool [On QAbstractSpinBox];
    Sig [] "isNavigationBarVisible" [] RBool [On QCalendarWidget];
    Sig [VALUE_TYPE_QTCORE_QMODELINDEX] "isPersistentEditorOpen" [PValue QModelIndex] RBool [On
        QAbstractItemView];
    Sig [] "isPreviewColumnVisible" [] RBool [On QColumnView];
    Sig [] "isReadOnly" [] RBool [On QAbstractSpinBox]
  ].

Definition methods_qtwidgets_0_s155 : list signature_row :=
  [
    Sig [] "isSizeGripEnabled" [] RBool [On QDialog];
    Sig [] "isSliderDown" [] RBool [On QAbstractSlider];
    Sig [] "isTristate" [] RBool [On QCheckBox];
    Sig [] "itemData" [PInt; PInt] RVariant [On QComboBox];
    Sig [TYPE_QTWIDGETS_QABSTRACTITEMDELEGATE] "itemDelegate" [] RObject [On QAbstractItemView; On
        QComboBox; On QDataWidgetMapper];
    Sig [TYPE_QTWIDGETS_QABSTRACTITEMDELEGATE] "itemDelegateForColumn" [PInt] RObject [On
        QAbstractItemView];
    Sig [TYPE_QTWIDGETS_QABSTRACTITEMDELEGATE; VALUE_TYPE_QTCORE_QMODELINDEX] "itemDelegateForIndex"
        [PValue QModelIndex] RObject [On QAbstractItemView];
    Sig [TYPE_QTWIDGETS_QABSTRACTITEMDELEGATE] "itemDelegateForRow" [PInt] RObject [On QAbstractItemView];
    Sig [VALUE_TYPE_QTGUI_QICON] "itemIcon" [PInt] (RValue QIcon) [On QComboBox];
    Sig [] "itemText" [PInt] RString [On QComboBox]
  ].

Definition methods_qtwidgets_0_s165 : list signature_row :=
  [
    Sig [] "keyboardInputInterval" [] RDouble [Static QApplication];
    Sig [] "keyboardSearch" [PString true] RVoid [On QAbstractItemView];
    Sig [] "keyboardTracking" [] RBool [On QAbstractSpinBox];
    Sig [TYPE_QTWIDGETS_QCOMBOBOX] "labelDrawingMode" [] (RMeta QComboBox_LabelDrawingMode) [On QComboBox];
    Sig [TYPE_QTWIDGETS_QLINEEDIT] "lineEdit" [] RObject [On QComboBox];
    Sig [TYPE_QTWIDGETS_QWIDGET; VALUE_TYPE_QTCORE_QBYTEARRAY] "mappedPropertyName" [PObject QWidget false]
        (RValue QByteArray) [On QDataWidgetMapper];
    Sig [TYPE_QTWIDGETS_QWIDGET] "mappedSection" [PObject QWidget false] RDouble [On QDataWidgetMapper];
    Sig [TYPE_QTWIDGETS_QWIDGET] "mappedWidgetAt" [PInt] RObject [On QDataWidgetMapper];
    Sig [] "maxCount" [] RDouble [On QComboBox];
    Sig [] "maxVisibleItems" [] RDouble [On QComboBox; On QCompleter];
    Sig [] "maximum" [] RDouble [On QDoubleSpinBox]
  ].

Definition methods_qtwidgets_0_s176 : list signature_row :=
  [
    Sig [] "maximum" [] RDouble [On QAbstractSlider];
    Sig [VALUE_TYPE_QTCORE_QDATE] "maximumDate" [] (RValue QDate) [On QCalendarWidget; On QDateTimeEdit];
    Sig [VALUE_TYPE_QTCORE_QDATETIME] "maximumDateTime" [] (RValue QDateTime) [On QDateTimeEdit];
    Sig [VALUE_TYPE_QTCORE_QSIZE] "maximumSize" [] (RValue QSize) [On QBoxLayout];
    Sig [VALUE_TYPE_QTCORE_QTIME] "maximumTime" [] (RValue QTime) [On QDateTimeEdit];
    Sig [VALUE_TYPE_QTCORE_QSIZE] "maximumViewportSize" [] (RValue QSize) [On QAbstractScrollArea];
    Sig [] "minimum" [] RDouble [On QDoubleSpinBox];
    Sig [] "minimum" [] RDouble [On QAbstractSlider];
    Sig [] "minimumContentsLength" [] RDouble [On QComboBox];
    Sig [VALUE_TYPE_QTCORE_QDATE] "minimumDate" [] (RValue QDate) [On QCalendarWidget; On QDateTimeEdit]
  ].

Definition methods_qtwidgets_0_s186 : list signature_row :=
  [
    Sig [VALUE_TYPE_QTCORE_QDATETIME] "minimumDateTime" [] (RValue QDateTime) [On QDateTimeEdit];
    Sig [] "minimumHeightForWidth" [PInt] RDouble [On QBoxLayout];
    Sig [VALUE_TYPE_QTCORE_QSIZE] "minimumSize" [] (RValue QSize) [On QBoxLayout];
    Sig [VALUE_TYPE_QTCORE_QSIZE] "minimumSizeHint" [] (RValue QSize) [On QAbstractScrollArea; On
        QAbstractSpinBox; On QCalendarWidget; On QCheckBox; On QComboBox; On QCommandLinkButton; On QDial;
        On QDialog];
    Sig [VALUE_TYPE_QTCORE_QTIME] "minimumTime" [] (RValue QTime) [On QDateTimeEdit];
    Sig [TYPE_QTCORE_QABSTRACTITEMMODEL] "model" [] RObject [On QAbstractItemView; On QComboBox; On
        QCompleter; On QDataWidgetMapper];
    Sig [] "modelColumn" [] RDouble [On QComboBox]
  ].

Definition methods_qtwidgets_0_s193 : list signature_row :=
  [
    Sig [TYPE_QTWIDGETS_QCOMPLETER] "modelSorting" [] (RMeta QCompleter_ModelSorting) [On QCompleter];
    Sig [] "monthShown" [] RDouble [On QCalendarWidget];
    Sig [] "notchSize" [] RDouble [On QDial];
    Sig [] "notchTarget" [] RDouble [On QDial];
    Sig [] "notchesVisible" [] RBool [On QDial];
    Sig [] "open" [] RVoid [On QColorDialog; On QDialog];
    Sig [VALUE_TYPE_QTCORE_QMODELINDEX] "openPersistentEditor" [PValue QModelIndex] RVoid [On
        QAbstractItemView];
    Sig [TYPE_QTWIDGETS_QCOLORDIALOG] "options" [] (RMeta QColorDialog_ColorDialogOptions) [On
        QColorDialog];
    Sig [ENUM_QT_ORIENTATION] "orientation" [] (RMeta Qt_Orientation) [On QAbstractSlider; On
        QDataWidgetMapper; On QDialogButtonBox];
    Sig [] "pageStep" [] RDouble [On QAbstractSlider]
  ].

Definition methods_qtwidgets_0_s203 : list signature_row :=
  [
    Sig [VALUE_TYPE_QTGUI_QPALETTE] "palette" [] (RValue QPalette) [Static QApplication];
    Sig [TYPE_QTWIDGETS_QWIDGET; VALUE_TYPE_QTGUI_QPALETTE] "palette" [PObject QWidget false] (RValue
        QPalette) [Static QApplication];
    Sig [VALUE_TYPE_QTCORE_QMODELINDEX] "pathFromIndex" [PValue QModelIndex] RString [On QCompleter];
    Sig [] "placeholderText" [] RString [On QComboBox];
    Sig [TYPE_QTWIDGETS_QAPPLICATION] "polish" [PObject QApplication false] RVoid [On QCommonStyle];
    Sig [TYPE_QTWIDGETS_QWIDGET] "polish" [PObject QWidget false] RVoid [On QCommonStyle];
    Sig [TYPE_QTWIDGETS_QABSTRACTITEMVIEW] "popup" [] RObject [On QCompleter];
    Sig [] "prefix" [] RString [On QDoubleSpinBox];
    Sig [TYPE_QTWIDGETS_QWIDGET] "previewWidget" [] RObject [On QColumnView];
    Sig [] "reject" [] RVoid [On QDialog]
  ].

Definition methods_qtwidgets_0_s213 : list signature_row :=
  [
    Sig [TYPE_QTWIDGETS_QABSTRACTBUTTON] "removeButton" [PObject QAbstractButton false] RVoid [On
        QButtonGroup; On QDialogButtonBox];
    Sig [] "removeItem" [PInt] RVoid [On QComboBox];
    Sig [TYPE_QTWIDGETS_QWIDGET] "removeMapping" [PObject QWidget false] RVoid [On QDataWidgetMapper];
    Sig [] "reset" [] RVoid [On QAbstractItemView];
    Sig [] "resetHorizontalScrollMode" [] RVoid [On QAbstractItemView];
    Sig [] "resetVerticalScrollMode" [] RVoid [On QAbstractItemView];
    Sig [] "resizeGripsVisible" [] RBool [On QColumnView];
    Sig [] "result" [] RDouble [On QDialog];
    Sig [] "revert" [] RVoid [On QDataWidgetMapper];
    Sig [VALUE_TYPE_QTCORE_QMODELINDEX] "rootIndex" [] (RValue QModelIndex) [On QAbstractItemView; On
        QDataWidgetMapper]
  ].

Definition methods_qtwidgets_0_s223 : list signature_row :=
  [
    Sig [VALUE_TYPE_QTCORE_QMODELINDEX] "rootModelIndex" [] (RValue QModelIndex) [On QComboBox];
    Sig [TYPE_QTWIDGETS_QABSTRACTITEMVIEW; VALUE_TYPE_QTCORE_QMODELINDEX] "scrollTo" [PValue QModelIndex;
        PValue QAbstractItemView_ScrollHint] RVoid [On QColumnView];
    Sig [] "scrollToBottom" [] RVoid [On QAbstractItemView];
    Sig [] "scrollToTop" [] RVoid [On QAbstractItemView];
    Sig [TYPE_QTWIDGETS_QDATETIMEEDIT] "sectionAt" [PInt] (RMeta QDateTimeEdit_Section) [On QDateTimeEdit];
    Sig [] "sectionCount" [] RDouble [On QDateTimeEdit];
    Sig [TYPE_QTWIDGETS_QDATETIMEEDIT] "sectionText" [PValue QDateTimeEdit_Section] RString [On
        QDateTimeEdit];
    Sig [] "selectAll" [] RVoid [On QAbstractItemView; On QAbstractSpinBox; On QColumnView];
    Sig [VALUE_TYPE_QTGUI_QCOLOR] "selectedColor" [] (RValue QColor) [On QColorDialog];
    Sig [VALUE_TYPE_QTCORE_QDATE] "selectedDate" [] (RValue QDate) [On QCalendarWidget]
  ].

Definition methods_qtwidgets_0_s233 : list signature_row :=
  [
    Sig [TYPE_QTWIDGETS_QABSTRACTITEMVIEW] "selectionBehavior" [] (RMeta
        QAbstractItemView_SelectionBehavior) [On QAbstractItemView];
    Sig [TYPE_QTWIDGETS_QABSTRACTITEMVIEW] "selectionMode" [] (RMeta QAbstractItemView_SelectionMode) [On
        QAbstractItemView];
    Sig [TYPE_QTWIDGETS_QCALENDARWIDGET] "selectionMode" [] (RMeta QCalendarWidget_SelectionMode) [On
        QCalendarWidget];
    Sig [TYPE_QTCORE_QITEMSELECTIONMODEL] "selectionModel" [] RObject [On QAbstractItemView];
    Sig [] "setAccelerated" [PBool] RVoid [On QAbstractSpinBox];
    Sig [TYPE_QTWIDGETS_QWIDGET] "setActiveWindow" [PObject QWidget false] RVoid [Static QApplication];
    Sig [ENUM_QT_DOCKWIDGETAREAS] "setAllowedAreas" [PValue Qt_DockWidgetAreas] RVoid [On QDockWidget];
    Sig [] "setAlternatingRowColors" [PBool] RVoid [On QAbstractItemView];
    Sig [] "setAutoExclusive" [PBool] RVoid [On QAbstractButton];
    Sig [] "setAutoRepeat" [PBool] RVoid [On QAbstractButton]
  ].

Definition methods_qtwidgets_0_s243 : list signature_row :=
  [
    Sig [] "setAutoRepeatDelay" [PInt] RVoid [On QAbstractButton];
    Sig [] "setAutoRepeatInterval" [PInt] RVoid [On QAbstractButton];
    Sig [] "setAutoScroll" [PBool] RVoid [On QAbstractItemView];
    Sig [] "setAutoScrollMargin" [PInt] RVoid [On QAbstractItemView];
    Sig [] "setAutoSipEnabled" [PBool] RVoid [On QApplication];
    Sig [TYPE_QTWIDGETS_QABSTRACTSPINBOX] "setButtonSymbols" [PValue QAbstractSpinBox_ButtonSymbols] RVoid
        [On QAbstractSpinBox];
    Sig [VALUE_TYPE_QTCORE_QCALENDAR] "setCalendar" [PValue QCalendar] RVoid [On QCalendarWidget; On
        QDateTimeEdit];
    Sig [] "setCalendarPopup" [PBool] RVoid [On QDateTimeEdit];
    Sig [TYPE_QTWIDGETS_QCALENDARWIDGET] "setCalendarWidget" [PObject QCalendarWidget false] RVoid [On
        QDateTimeEdit]
  ].

Definition methods_qtwidgets_0_s252 : list signature_row :=
  [
    Sig [ENUM_QT_CASESENSITIVITY] "setCaseSensitivity" [PValue Qt_CaseSensitivity] RVoid [On QCompleter];
    Sig [] "setCenterButtons" [PBool] RVoid [On QDialogButtonBox];
    Sig [ENUM_QT_CHECKSTATE] "setCheckState" [PValue Qt_CheckState] RVoid [On QCheckBox];
    Sig [] "setCheckable" [PBool] RVoid [On QAbstractButton];
    Sig [] "setChecked" [PBool] RVoid [On QAbstractButton];
    Sig [] "setColumnWidths" [PList (IMeta cxx_int)] RVoid [On QColumnView];
    Sig [TYPE_QTWIDGETS_QCOMPLETER] "setCompleter" [PObject QCompleter false] RVoid [On QComboBox];
    Sig [] "setCompletionColumn" [PInt] RVoid [On QCompleter];
    Sig [TYPE_QTWIDGETS_QCOMPLETER] "setCompletionMode" [PValue QCompleter_CompletionMode] RVoid [On
        QCompleter];
    Sig [] "setCompletionPrefix" [PString true] RVoid [On QCompleter]
  ].

Definition methods_qtwidgets_0_s262 : list signature_row :=
  [
    Sig [] "setCompletionRole" [PInt] RVoid [On QCompleter];
    Sig [TYPE_QTWIDGETS_QWIDGET] "setCornerWidget" [PObject QWidget false] RVoid [On QAbstractScrollArea];
    Sig [TYPE_QTWIDGETS_QABSTRACTSPINBOX] "setCorrectionMode" [PValue QAbstractSpinBox_CorrectionMode]
        RVoid [On QAbstractSpinBox];
    Sig [VALUE_TYPE_QTGUI_QCOLOR] "setCurrentColor" [PValue QColor] RVoid [On QColorDialog];
    Sig [VALUE_TYPE_QTCORE_QMODELINDEX] "setCurrentIndex" [PValue QModelIndex] RVoid [On QAbstractItemView];
    Sig [] "setCurrentIndex" [PInt] RVoid [On QComboBox; On QDataWidgetMapper];
    Sig [VALUE_TYPE_QTCORE_QMODELINDEX] "setCurrentModelIndex" [PValue QModelIndex] RVoid [On
        QDataWidgetMapper];
    Sig [] "setCurrentPage" [PInt; PInt] RVoid [On QCalendarWidget];
    Sig [] "setCurrentRow" [PInt] RBool [On QCompleter]
  ].

Definition methods_qtwidgets_0_s271 : list signature_row :=
  [
    Sig [TYPE_QTWIDGETS_QDATETIMEEDIT] "setCurrentSection" [PValue QDateTimeEdit_Section] RVoid [On
        QDateTimeEdit];
    Sig [] "setCurrentSectionIndex" [PInt] RVoid [On QDateTimeEdit];
    Sig [] "setCurrentText" [PString true] RVoid [On QComboBox];
    Sig [] "setCursorFlashTime" [PInt] RVoid [Static QApplication];
    Sig [VALUE_TYPE_QTGUI_QCOLOR] "setCustomColor" [PInt; PValue QColor] RVoid [Static QColorDialog];
    Sig [VALUE_TYPE_QTCORE_QDATE] "setDate" [PValue QDate] RVoid [On QDateTimeEdit];
    Sig [] "setDateEditAcceptDelay" [PInt] RVoid [On QCalendarWidget];
    Sig [] "setDateEditEnabled" [PBool] RVoid [On QCalendarWidget];
    Sig [VALUE_TYPE_QTCORE_QDATE] "setDateRange" [PValue QDate; PValue QDate] RVoid [On QCalendarWidget; On
        QDateTimeEdit]
  ].

Definition methods_qtwidgets_0_s280 : list signature_row :=
  [
    Sig [VALUE_TYPE_QTCORE_QDATE; VALUE_TYPE_QTGUI_QTEXTCHARFORMAT] "setDateTextFormat" [PValue QDate;
        PValue QTextCharFormat] RVoid [On QCalendarWidget];
    Sig [VALUE_TYPE_QTCORE_QDATETIME] "setDateTime" [PValue QDateTime] RVoid [On QDateTimeEdit];
    Sig [VALUE_TYPE_QTCORE_QDATETIME] "setDateTimeRange" [PValue QDateTime; PValue QDateTime] RVoid [On
        QDateTimeEdit];
    Sig [] "setDecimals" [PInt] RVoid [On QDoubleSpinBox];
    Sig [ENUM_QT_DROPACTION] "setDefaultDropAction" [PValue Qt_DropAction] RVoid [On QAbstractItemView];
    Sig [] "setDescription" [PString true] RVoid [On QCommandLinkButton];
    Sig [TYPE_QTWIDGETS_QBOXLAYOUT] "setDirection" [PValue QBoxLayout_Direction] RVoid [On QBoxLayout];
    Sig [] "setDisplayFormat" [PString true] RVoid [On QDateTimeEdit];
    Sig [ENUM_QT_DOCKWIDGETAREA] "setDockLocation" [PValue Qt_DockWidgetArea] RVoid [On QDockWidget]
  ].

Definition methods_qtwidgets_0_s289 : list signature_row :=
  [
    Sig [] "setDoubleClickInterval" [PInt] RVoid [Static QApplication];
    Sig [] "setDown" [PBool] RVoid [On QAbstractButton];
    Sig [TYPE_QTWIDGETS_QABSTRACTITEMVIEW] "setDragDropMode" [PValue QAbstractItemView_DragDropMode] RVoid
        [On QAbstractItemView];
    Sig [] "setDragDropOverwriteMode" [PBool] RVoid [On QAbstractItemView];
    Sig [] "setDragEnabled" [PBool] RVoid [On QAbstractItemView];
    Sig [] "setDropIndicatorShown" [PBool] RVoid [On QAbstractItemView];
    Sig [] "setDuplicatesEnabled" [PBool] RVoid [On QComboBox];
    Sig [] "setEditText" [PString true] RVoid [On QComboBox];
    Sig [] "setEditable" [PBool] RVoid [On QComboBox];
    Sig [TYPE_QTWIDGETS_QWIDGET; VALUE_TYPE_QTCORE_QMODELINDEX] "setEditorData" [PObject QWidget false;
        PValue QModelIndex] RVoid [On QAbstractItemDelegate]
  ].

Definition methods_qtwidgets_0_s299 : list signature_row :=
  [
    Sig [ENUM_QT_UIEFFECT] "setEffectEnabled" [PValue Qt_UIEffect; PBool] RVoid [Static QApplication];
    Sig [] "setExclusive" [PBool] RVoid [On QButtonGroup];
    Sig [ENUM_QT_DAYOFWEEK] "setFirstDayOfWeek" [PValue Qt_DayOfWeek] RVoid [On QCalendarWidget];
    Sig [] "setFloating" [PBool] RVoid [On QDockWidget];
    Sig [] "setFrame" [PBool] RVoid [On QAbstractSpinBox; On QComboBox];
    Sig [VALUE_TYPE_QTCORE_QRECT] "setGeometry" [PValue QRect] RVoid [On QBoxLayout];
    Sig [] "setGridVisible" [PBool] RVoid [On QCalendarWidget];
    Sig [] "setGroupSeparatorShown" [PBool] RVoid [On QAbstractSpinBox];
    Sig [VALUE_TYPE_QTGUI_QTEXTCHARFORMAT] "setHeaderTextFormat" [PValue QTextCharFormat] RVoid [On
        QCalendarWidget]
  ].

Definition methods_qtwidgets_0_s308 : list signature_row :=
  [
    Sig [TYPE_QTWIDGETS_QCALENDARWIDGET] "setHorizontalHeaderFormat" [PValue
        QCalendarWidget_HorizontalHeaderFormat] RVoid [On QCalendarWidget];
    Sig [TYPE_QTWIDGETS_QSCROLLBAR] "setHorizontalScrollBar" [PObject QScrollBar false] RVoid [On
        QAbstractScrollArea];
    Sig [ENUM_QT_SCROLLBARPOLICY] "setHorizontalScrollBarPolicy" [PValue Qt_ScrollBarPolicy] RVoid [On
        QAbstractScrollArea];
    Sig [TYPE_QTWIDGETS_QABSTRACTITEMVIEW] "setHorizontalScrollMode" [PValue QAbstractItemView_ScrollMode]
        RVoid [On QAbstractItemView];
    Sig [VALUE_TYPE_QTGUI_QICON] "setIcon" [PValue QIcon] RVoid [On QAbstractButton];
    Sig [VALUE_TYPE_QTCORE_QSIZE] "setIconSize" [PValue QSize] RVoid [On QAbstractButton; On
        QAbstractItemView; On QComboBox];
    Sig [TYPE_QTWIDGETS_QABSTRACTBUTTON] "setId" [PObject QAbstractButton false; PInt] RVoid [On
        QButtonGroup];
    Sig [TYPE_QTWIDGETS_QCOMBOBOX] "setInsertPolicy" [PValue QComboBox_InsertPolicy] RVoid [On QComboBox]
  ].

Definition methods_qtwidgets_0_s316 : list signature_row :=
  [
    Sig [] "setInvertedAppearance" [PBool] RVoid [On QAbstractSlider];
    Sig [] "setInvertedControls" [PBool] RVoid [On QAbstractSlider];
    Sig [] "setItemData" [PInt; PVariant; PInt] RVoid [On QComboBox];
    Sig [TYPE_QTWIDGETS_QABSTRACTITEMDELEGATE] "setItemDelegate" [PObject QAbstractItemDelegate false]
        RVoid [On QAbstractItemView; On QComboBox; On QDataWidgetMapper];
    Sig [TYPE_QTWIDGETS_QABSTRACTITEMDELEGATE] "setItemDelegateForColumn" [PInt; PObject
        QAbstractItemDelegate false] RVoid [On QAbstractItemView];
    Sig [TYPE_QTWIDGETS_QABSTRACTITEMDELEGATE] "setItemDelegateForRow" [PInt; PObject QAbstractItemDelegate
        false] RVoid [On QAbstractItemView];
    Sig [VALUE_TYPE_QTGUI_QICON] "setItemIcon" [PInt; PValue QIcon] RVoid [On QComboBox];
    Sig [] "setItemText" [PInt; PString true] RVoid [On QComboBox]
  ].

Definition methods_qtwidgets_0_s324 : list signature_row :=
  [
    Sig [] "setKeyboardInputInterval" [PInt] RVoid [Static QApplication];
    Sig [] "setKeyboardTracking" [PBool] RVoid [On QAbstractSpinBox];
    Sig [TYPE_QTWIDGETS_QCOMBOBOX] "setLabelDrawingMode" [PValue QComboBox_LabelDrawingMode] RVoid [On
        QComboBox];
    Sig [TYPE_QTWIDGETS_QLINEEDIT] "setLineEdit" [PObject QLineEdit false] RVoid [On QComboBox];
    Sig [] "setMaxCount" [PInt] RVoid [On QComboBox];
    Sig [] "setMaxVisibleItems" [PInt] RVoid [On QComboBox; On QCompleter];
    Sig [] "setMaximum" [PNumber cxx_double] RVoid [On QDoubleSpinBox];
    Sig [] "setMaximum" [PInt] RVoid [On QAbstractSlider];
    Sig [VALUE_TYPE_QTCORE_QDATE] "setMaximumDate" [PValue QDate] RVoid [On QCalendarWidget; On
        QDateTimeEdit]
  ].

Definition methods_qtwidgets_0_s333 : list signature_row :=
  [
    Sig [VALUE_TYPE_QTCORE_QDATETIME] "setMaximumDateTime" [PValue QDateTime] RVoid [On QDateTimeEdit];
    Sig [VALUE_TYPE_QTCORE_QTIME] "setMaximumTime" [PValue QTime] RVoid [On QDateTimeEdit];
    Sig [] "setMinimum" [PNumber cxx_double] RVoid [On QDoubleSpinBox];
    Sig [] "setMinimum" [PInt] RVoid [On QAbstractSlider];
    Sig [] "setMinimumContentsLength" [PInt] RVoid [On QComboBox];
    Sig [VALUE_TYPE_QTCORE_QDATE] "setMinimumDate" [PValue QDate] RVoid [On QCalendarWidget; On
        QDateTimeEdit];
    Sig [VALUE_TYPE_QTCORE_QDATETIME] "setMinimumDateTime" [PValue QDateTime] RVoid [On QDateTimeEdit];
    Sig [VALUE_TYPE_QTCORE_QTIME] "setMinimumTime" [PValue QTime] RVoid [On QDateTimeEdit];
    Sig [] "setModal" [PBool] RVoid [On QDialog]
  ].

Definition methods_qtwidgets_0_s342 : list signature_row :=
  [
    Sig [TYPE_QTCORE_QABSTRACTITEMMODEL] "setModel" [PObject QAbstractItemModel false] RVoid [On
        QAbstractItemView; On QColumnView; On QComboBox; On QCompleter; On QDataWidgetMapper];
    Sig [] "setModelColumn" [PInt] RVoid [On QComboBox];
    Sig [TYPE_QTCORE_QABSTRACTITEMMODEL; TYPE_QTWIDGETS_QWIDGET; VALUE_TYPE_QTCORE_QMODELINDEX]
        "setModelData" [PObject QWidget false; PObject QAbstractItemModel false; PValue QModelIndex] RVoid
        [On QAbstractItemDelegate];
    Sig [TYPE_QTWIDGETS_QCOMPLETER] "setModelSorting" [PValue QCompleter_ModelSorting] RVoid [On
        QCompleter];
    Sig [] "setNavigationBarVisible" [PBool] RVoid [On QCalendarWidget];
    Sig [] "setNotchTarget" [PNumber cxx_double] RVoid [On QDial];
    Sig [] "setNotchesVisible" [PBool] RVoid [On QDial];
    Sig [TYPE_QTWIDGETS_QCOLORDIALOG] "setOption" [PValue QColorDialog_ColorDialogOption; PBool] RVoid [On
        QColorDialog]
  ].

Definition methods_qtwidgets_0_s350 : list signature_row :=
  [
    Sig [TYPE_QTWIDGETS_QCOLORDIALOG] "setOptions" [PValue QColorDialog_ColorDialogOptions] RVoid [On
        QColorDialog];
    Sig [ENUM_QT_ORIENTATION] "setOrientation" [PValue Qt_Orientation] RVoid [On QAbstractSlider; On
        QDataWidgetMapper; On QDialogButtonBox];
    Sig [] "setPageStep" [PInt] RVoid [On QAbstractSlider];
    Sig [] "setPlaceholderText" [PString true] RVoid [On QComboBox];
    Sig [TYPE_QTWIDGETS_QABSTRACTITEMVIEW] "setPopup" [PObject QAbstractItemView false] RVoid [On
        QCompleter];
    Sig [] "setPrefix" [PString true] RVoid [On QDoubleSpinBox];
    Sig [] "setPreviewColumnVisible" [PBool] RVoid [On QColumnView];
    Sig [TYPE_QTWIDGETS_QWIDGET] "setPreviewWidget" [PObject QWidget false] RVoid [On QColumnView];
    Sig [] "setRange" [PNumber cxx_double; PNumber cxx_double] RVoid [On QDoubleSpinBox]
  ].

Definition methods_qtwidgets_0_s359 : list signature_row :=
  [
    Sig [] "setRange" [PInt; PInt] RVoid [On QAbstractSlider];
    Sig [] "setReadOnly" [PBool] RVoid [On QAbstractSpinBox];
    Sig [] "setResizeGripsVisible" [PBool] RVoid [On QColumnView];
    Sig [] "setResult" [PInt] RVoid [On QDialog];
    Sig [VALUE_TYPE_QTCORE_QMODELINDEX] "setRootIndex" [PValue QModelIndex] RVoid [On QAbstractItemView; On
        QColumnView; On QDataWidgetMapper];
    Sig [VALUE_TYPE_QTCORE_QMODELINDEX] "setRootModelIndex" [PValue QModelIndex] RVoid [On QComboBox];
    Sig [VALUE_TYPE_QTCORE_QDATE] "setSelectedDate" [PValue QDate] RVoid [On QCalendarWidget];
    Sig [TYPE_QTWIDGETS_QDATETIMEEDIT] "setSelectedSection" [PValue QDateTimeEdit_Section] RVoid [On
        QDateTimeEdit];
    Sig [TYPE_QTWIDGETS_QABSTRACTITEMVIEW] "setSelectionBehavior" [PValue
        QAbstractItemView_SelectionBehavior] RVoid [On QAbstractItemView]
  ].

Definition methods_qtwidgets_0_s368 : list signature_row :=
  [
    Sig [TYPE_QTWIDGETS_QABSTRACTITEMVIEW] "setSelectionMode" [PValue QAbstractItemView_SelectionMode]
        RVoid [On QAbstractItemView];
    Sig [TYPE_QTWIDGETS_QCALENDARWIDGET] "setSelectionMode" [PValue QCalendarWidget_SelectionMode] RVoid
        [On QCalendarWidget];
    Sig [TYPE_QTCORE_QITEMSELECTIONMODEL] "setSelectionModel" [PObject QItemSelectionModel false] RVoid [On
        QAbstractItemView; On QColumnView];
    Sig [VALUE_TYPE_QTGUI_QKEYSEQUENCE] "setShortcut" [PValue QKeySequence] RVoid [On QAbstractButton];
    Sig [] "setSingleStep" [PNumber cxx_double] RVoid [On QDoubleSpinBox];
    Sig [] "setSingleStep" [PInt] RVoid [On QAbstractSlider];
    Sig [TYPE_QTWIDGETS_QABSTRACTSCROLLAREA] "setSizeAdjustPolicy" [PValue
        QAbstractScrollArea_SizeAdjustPolicy] RVoid [On QAbstractScrollArea];
    Sig [TYPE_QTWIDGETS_QCOMBOBOX] "setSizeAdjustPolicy" [PValue QComboBox_SizeAdjustPolicy] RVoid [On
        QComboBox];
    Sig [] "setSizeGripEnabled" [PBool] RVoid [On QDialog]
  ].

Definition methods_qtwidgets_0_s377 : list signature_row :=
  [
    Sig [] "setSliderDown" [PBool] RVoid [On QAbstractSlider];
    Sig [] "setSliderPosition" [PInt] RVoid [On QAbstractSlider];
    Sig [] "setSpacing" [PInt] RVoid [On QBoxLayout];
    Sig [] "setSpecialValueText" [PString true] RVoid [On QAbstractSpinBox];
    Sig [TYPE_QTWIDGETS_QDIALOGBUTTONBOX] "setStandardButtons" [PValue QDialogButtonBox_StandardButtons]
        RVoid [On QDialogButtonBox];
    Sig [VALUE_TYPE_QTGUI_QCOLOR] "setStandardColor" [PInt; PValue QColor] RVoid [Static QColorDialog];
    Sig [] "setStartDragDistance" [PInt] RVoid [Static QApplication];
    Sig [] "setStartDragTime" [PInt] RVoid [Static QApplication];
    Sig [TYPE_QTWIDGETS_QABSTRACTSPINBOX] "setStepType" [PValue QAbstractSpinBox_StepType] RVoid [On
        QDoubleSpinBox];
    Sig [] "setStretch" [PInt; PInt] RVoid [On QBoxLayout]
  ].

Definition methods_qtwidgets_0_s387 : list signature_row :=
  [
    Sig [TYPE_QTWIDGETS_QLAYOUT] "setStretchFactor" [PObject QLayout false; PInt] RBool [On QBoxLayout];
    Sig [TYPE_QTWIDGETS_QWIDGET] "setStretchFactor" [PObject QWidget false; PInt] RBool [On QBoxLayout];
    Sig [TYPE_QTWIDGETS_QSTYLE] "setStyle" [PString true] RObject [Static QApplication];
    Sig [TYPE_QTWIDGETS_QSTYLE] "setStyle" [PObject QStyle false] RVoid [Static QApplication];
    Sig [] "setStyleSheet" [PString true] RVoid [On QApplication];
    Sig [TYPE_QTWIDGETS_QDATAWIDGETMAPPER] "setSubmitPolicy" [PValue QDataWidgetMapper_SubmitPolicy] RVoid
        [On QDataWidgetMapper];
    Sig [] "setSuffix" [PString true] RVoid [On QDoubleSpinBox];
    Sig [] "setTabKeyNavigation" [PBool] RVoid [On QAbstractItemView];
    Sig [] "setText" [PString true] RVoid [On QAbstractButton]
  ].

Definition methods_qtwidgets_0_s396 : list signature_row :=
  [
    Sig [ENUM_QT_TEXTELIDEMODE] "setTextElideMode" [PValue Qt_TextElideMode] RVoid [On QAbstractItemView];
    Sig [VALUE_TYPE_QTCORE_QTIME] "setTime" [PValue QTime] RVoid [On QDateTimeEdit];
    Sig [VALUE_TYPE_QTCORE_QTIME] "setTimeRange" [PValue QTime; PValue QTime] RVoid [On QDateTimeEdit];
    Sig [ENUM_QT_TIMESPEC] "setTimeSpec" [PValue Qt_TimeSpec] RVoid [On QDateTimeEdit];
    Sig [VALUE_TYPE_QTCORE_QTIMEZONE] "setTimeZone" [PValue QTimeZone] RVoid [On QDateTimeEdit];
    Sig [TYPE_QTWIDGETS_QWIDGET] "setTitleBarWidget" [PObject QWidget false] RVoid [On QDockWidget];
    Sig [] "setTracking" [PBool] RVoid [On QAbstractSlider];
    Sig [] "setTristate" [PBool] RVoid [On QCheckBox];
    Sig [] "setUpdateThreshold" [PInt] RVoid [On QAbstractItemView]
  ].

Definition methods_qtwidgets_0_s405 : list signature_row :=
  [
    Sig [TYPE_QTGUI_QVALIDATOR] "setValidator" [PObject QValidator false] RVoid [On QComboBox];
    Sig [] "setValue" [PNumber cxx_double] RVoid [On QDoubleSpinBox];
    Sig [] "setValue" [PInt] RVoid [On QAbstractSlider];
    Sig [TYPE_QTWIDGETS_QCALENDARWIDGET] "setVerticalHeaderFormat" [PValue
        QCalendarWidget_VerticalHeaderFormat] RVoid [On QCalendarWidget];
    Sig [TYPE_QTWIDGETS_QSCROLLBAR] "setVerticalScrollBar" [PObject QScrollBar false] RVoid [On
        QAbstractScrollArea];
    Sig [ENUM_QT_SCROLLBARPOLICY] "setVerticalScrollBarPolicy" [PValue Qt_ScrollBarPolicy] RVoid [On
        QAbstractScrollArea];
    Sig [TYPE_QTWIDGETS_QABSTRACTITEMVIEW] "setVerticalScrollMode" [PValue QAbstractItemView_ScrollMode]
        RVoid [On QAbstractItemView];
    Sig [TYPE_QTWIDGETS_QABSTRACTITEMVIEW] "setView" [PObject QAbstractItemView false] RVoid [On QComboBox];
    Sig [TYPE_QTWIDGETS_QWIDGET] "setViewport" [PObject QWidget false] RVoid [On QAbstractScrollArea]
  ].

Definition methods_qtwidgets_0_s414 : list signature_row :=
  [
    Sig [] "setVisible" [PBool] RVoid [On QColorDialog; On QDialog];
    Sig [ENUM_QT_DAYOFWEEK; VALUE_TYPE_QTGUI_QTEXTCHARFORMAT] "setWeekdayTextFormat" [PValue Qt_DayOfWeek;
        PValue QTextCharFormat] RVoid [On QCalendarWidget];
    Sig [] "setWheelScrollLines" [PInt] RVoid [Static QApplication];
    Sig [TYPE_QTWIDGETS_QWIDGET] "setWidget" [PObject QWidget false] RVoid [On QCompleter; On QDockWidget];
    Sig [] "setWrapAround" [PBool] RVoid [On QCompleter];
    Sig [] "setWrapping" [PBool] RVoid [On QAbstractSpinBox; On QDial];
    Sig [TYPE_QTWIDGETS_QWIDGET] "setupViewport" [PObject QWidget false] RVoid [On QAbstractScrollArea];
    Sig [VALUE_TYPE_QTGUI_QKEYSEQUENCE] "shortcut" [] (RValue QKeySequence) [On QAbstractButton];
    Sig [] "showDropIndicator" [] RBool [On QAbstractItemView]
  ].

Definition methods_qtwidgets_0_s423 : list signature_row :=
  [
    Sig [] "showNextMonth" [] RVoid [On QCalendarWidget];
    Sig [] "showNextYear" [] RVoid [On QCalendarWidget];
    Sig [] "showPopup" [] RVoid [On QComboBox];
    Sig [] "showPreviousMonth" [] RVoid [On QCalendarWidget];
    Sig [] "showPreviousYear" [] RVoid [On QCalendarWidget];
    Sig [] "showSelectedDate" [] RVoid [On QCalendarWidget];
    Sig [] "showToday" [] RVoid [On QCalendarWidget];
    Sig [] "singleStep" [] RDouble [On QDoubleSpinBox];
    Sig [] "singleStep" [] RDouble [On QAbstractSlider];
    Sig [TYPE_QTWIDGETS_QABSTRACTSCROLLAREA] "sizeAdjustPolicy" [] (RMeta
        QAbstractScrollArea_SizeAdjustPolicy) [On QAbstractScrollArea];
    Sig [TYPE_QTWIDGETS_QCOMBOBOX] "sizeAdjustPolicy" [] (RMeta QComboBox_SizeAdjustPolicy) [On QComboBox]
  ].

Definition methods_qtwidgets_0_s434 : list signature_row :=
  [
    Sig [VALUE_TYPE_QTCORE_QSIZE] "sizeHint" [] (RValue QSize) [On QAbstractScrollArea; On
        QAbstractSpinBox; On QBoxLayout; On QCalendarWidget; On QCheckBox; On QColumnView; On QComboBox; On
        QCommandLinkButton; On QDateTimeEdit; On QDial; On QDialog];
    Sig [] "sizeHintForColumn" [PInt] RDouble [On QAbstractItemView];
    Sig [VALUE_TYPE_QTCORE_QMODELINDEX; VALUE_TYPE_QTCORE_QSIZE] "sizeHintForIndex" [PValue QModelIndex]
        (RValue QSize) [On QAbstractItemView];
    Sig [] "sizeHintForRow" [PInt] RDouble [On QAbstractItemView];
    Sig [] "sliderPosition" [] RDouble [On QAbstractSlider];
    Sig [] "spacing" [] RDouble [On QBoxLayout];
    Sig [] "specialValueText" [] RString [On QAbstractSpinBox]
  ].

Definition methods_qtwidgets_0_s441 : list signature_row :=
  [
    Sig [] "splitPath" [PString true] (RList (IMeta QString)) [On QCompleter];
    Sig [TYPE_QTWIDGETS_QABSTRACTBUTTON; TYPE_QTWIDGETS_QDIALOGBUTTONBOX] "standardButton" [PObject
        QAbstractButton false] (RMeta QDialogButtonBox_StandardButton) [On QDialogButtonBox];
    Sig [TYPE_QTWIDGETS_QDIALOGBUTTONBOX] "standardButtons" [] (RMeta QDialogButtonBox_StandardButtons) [On
        QDialogButtonBox];
    Sig [VALUE_TYPE_QTGUI_QCOLOR] "standardColor" [PInt] (RValue QColor) [Static QColorDialog];
    Sig [] "startDragDistance" [] RDouble [Static QApplication];
    Sig [] "startDragTime" [] RDouble [Static QApplication];
    Sig [] "stepBy" [PInt] RVoid [On QAbstractSpinBox; On QDateTimeEdit];
    Sig [] "stepDown" [] RVoid [On QAbstractSpinBox];
    Sig [TYPE_QTWIDGETS_QABSTRACTSPINBOX] "stepType" [] (RMeta QAbstractSpinBox_StepType) [On
        QDoubleSpinBox];
    Sig [] "stepUp" [] RVoid [On QAbstractSpinBox]
  ].

Definition methods_qtwidgets_0_s451 : list signature_row :=
  [
    Sig [] "stretch" [PInt] RDouble [On QBoxLayout];
    Sig [TYPE_QTWIDGETS_QSTYLE] "style" [] RObject [Static QApplication];
    Sig [] "styleSheet" [] RString [On QApplication];
    Sig [] "submit" [] RBool [On QDataWidgetMapper];
    Sig [TYPE_QTWIDGETS_QDATAWIDGETMAPPER] "submitPolicy" [] (RMeta QDataWidgetMapper_SubmitPolicy) [On
        QDataWidgetMapper];
    Sig [] "suffix" [] RString [On QDoubleSpinBox];
    Sig [] "tabKeyNavigation" [] RBool [On QAbstractItemView];
    Sig [TYPE_QTWIDGETS_QCOLORDIALOG] "testOption" [PValue QColorDialog_ColorDialogOption] RBool [On
        QColorDialog];
    Sig [] "text" [] RString [On QAbstractButton; On QAbstractSpinBox];
    Sig [ENUM_QT_TEXTELIDEMODE] "textElideMode" [] (RMeta Qt_TextElideMode) [On QAbstractItemView];
    Sig [] "textFromValue" [PNumber cxx_double] RString [On QDoubleSpinBox]
  ].

Definition methods_qtwidgets_0_s462 : list signature_row :=
  [
    Sig [VALUE_TYPE_QTCORE_QTIME] "time" [] (RValue QTime) [On QDateTimeEdit];
    Sig [ENUM_QT_TIMESPEC] "timeSpec" [] (RMeta Qt_TimeSpec) [On QDateTimeEdit];
    Sig [VALUE_TYPE_QTCORE_QTIMEZONE] "timeZone" [] (RValue QTimeZone) [On QDateTimeEdit];
    Sig [TYPE_QTWIDGETS_QWIDGET] "titleBarWidget" [] RObject [On QDockWidget];
    Sig [] "toFirst" [] RVoid [On QDataWidgetMapper];
    Sig [] "toLast" [] RVoid [On QDataWidgetMapper];
    Sig [] "toNext" [] RVoid [On QDataWidgetMapper];
    Sig [] "toPrevious" [] RVoid [On QDataWidgetMapper];
    Sig [] "toggle" [] RVoid [On QAbstractButton];
    Sig [TYPE_QTWIDGETS_QWIDGET; VALUE_TYPE_QTCORE_QPOINT] "topLevelAt" [PValue QPoint] RObject [Static
        QApplication];
    Sig [TYPE_QTWIDGETS_QWIDGET] "topLevelAt" [PInt; PInt] RObject [Static QApplication]
  ].

Definition methods_qtwidgets_0_s473 : list signature_row :=
  [
    Sig [TYPE_QTWIDGETS_QABSTRACTSLIDER] "triggerAction" [PValue QAbstractSlider_SliderAction] RVoid [On
        QAbstractSlider];
    Sig [TYPE_QTWIDGETS_QAPPLICATION] "unpolish" [PObject QApplication false] RVoid [On QCommonStyle];
    Sig [TYPE_QTWIDGETS_QWIDGET] "unpolish" [PObject QWidget false] RVoid [On QCommonStyle];
    Sig [] "update" [] RVoid [On QAbstractItemView];
    Sig [VALUE_TYPE_QTCORE_QMODELINDEX] "update" [PValue QModelIndex] RVoid [On QAbstractItemView];
    Sig [TYPE_QTWIDGETS_QWIDGET; VALUE_TYPE_QTCORE_QMODELINDEX; VALUE_TYPE_QTWIDGETS_QSTYLEOPTIONVIEWITEM]
        "updateEditorGeometry" [PObject QWidget false; PValue QStyleOptionViewItem; PValue QModelIndex]
        RVoid [On QAbstractItemDelegate];
    Sig [] "updateThreshold" [] RDouble [On QAbstractItemView];
    Sig [TYPE_QTGUI_QVALIDATOR] "validator" [] RObject [On QComboBox];
    Sig [] "value" [] RDouble [On QDoubleSpinBox];
    Sig [] "value" [] RDouble [On QAbstractSlider]
  ].

Definition methods_qtwidgets_0_s483 : list signature_row :=
  [
    Sig [] "valueFromText" [PString true] RDouble [On QDoubleSpinBox];
    Sig [TYPE_QTWIDGETS_QCALENDARWIDGET] "verticalHeaderFormat" [] (RMeta
        QCalendarWidget_VerticalHeaderFormat) [On QCalendarWidget];
    Sig [TYPE_QTWIDGETS_QSCROLLBAR] "verticalScrollBar" [] RObject [On QAbstractScrollArea];
    Sig [ENUM_QT_SCROLLBARPOLICY] "verticalScrollBarPolicy" [] (RMeta Qt_ScrollBarPolicy) [On
        QAbstractScrollArea];
    Sig [TYPE_QTWIDGETS_QABSTRACTITEMVIEW] "verticalScrollMode" [] (RMeta QAbstractItemView_ScrollMode) [On
        QAbstractItemView];
    Sig [TYPE_QTWIDGETS_QABSTRACTITEMVIEW] "view" [] RObject [On QComboBox];
    Sig [TYPE_QTWIDGETS_QWIDGET] "viewport" [] RObject [On QAbstractScrollArea];
    Sig [VALUE_TYPE_QTCORE_QMODELINDEX; VALUE_TYPE_QTCORE_QRECT] "visualRect" [PValue QModelIndex] (RValue
        QRect) [On QColumnView];
    Sig [ENUM_QT_DAYOFWEEK; VALUE_TYPE_QTGUI_QTEXTCHARFORMAT] "weekdayTextFormat" [PValue Qt_DayOfWeek]
        (RValue QTextCharFormat) [On QCalendarWidget];
    Sig [] "wheelScrollLines" [] RDouble [Static QApplication]
  ].

Definition methods_qtwidgets_0_s493 : list signature_row :=
  [
    Sig [TYPE_QTWIDGETS_QWIDGET] "widget" [] RObject [On QCompleter; On QDockWidget];
    Sig [TYPE_QTWIDGETS_QWIDGET; VALUE_TYPE_QTCORE_QPOINT] "widgetAt" [PValue QPoint] RObject [Static
        QApplication];
    Sig [TYPE_QTWIDGETS_QWIDGET] "widgetAt" [PInt; PInt] RObject [Static QApplication];
    Sig [] "wrapAround" [] RBool [On QCompleter];
    Sig [] "wrapping" [] RBool [On QAbstractSpinBox; On QDial];
    Sig [] "yearShown" [] RDouble [On QCalendarWidget]
  ].

Definition methods_qtwidgets_0 : method_shard :=
  MethodShard QtWidgets "KRY_QT6_NATIVE_METHODS_QTWIDGETS_"
    (methods_qtwidgets_0_i0 ++ methods_qtwidgets_0_i1)
    (methods_qtwidgets_0_s0 ++ methods_qtwidgets_0_s10 ++ methods_qtwidgets_0_s18 ++
        methods_qtwidgets_0_s29 ++ methods_qtwidgets_0_s39 ++ methods_qtwidgets_0_s49 ++
        methods_qtwidgets_0_s60 ++ methods_qtwidgets_0_s71 ++ methods_qtwidgets_0_s82 ++
        methods_qtwidgets_0_s93 ++ methods_qtwidgets_0_s105 ++ methods_qtwidgets_0_s115 ++
        methods_qtwidgets_0_s124 ++ methods_qtwidgets_0_s132 ++ methods_qtwidgets_0_s143 ++
        methods_qtwidgets_0_s155 ++ methods_qtwidgets_0_s165 ++ methods_qtwidgets_0_s176 ++
        methods_qtwidgets_0_s186 ++ methods_qtwidgets_0_s193 ++ methods_qtwidgets_0_s203 ++
        methods_qtwidgets_0_s213 ++ methods_qtwidgets_0_s223 ++ methods_qtwidgets_0_s233 ++
        methods_qtwidgets_0_s243 ++ methods_qtwidgets_0_s252 ++ methods_qtwidgets_0_s262 ++
        methods_qtwidgets_0_s271 ++ methods_qtwidgets_0_s280 ++ methods_qtwidgets_0_s289 ++
        methods_qtwidgets_0_s299 ++ methods_qtwidgets_0_s308 ++ methods_qtwidgets_0_s316 ++
        methods_qtwidgets_0_s324 ++ methods_qtwidgets_0_s333 ++ methods_qtwidgets_0_s342 ++
        methods_qtwidgets_0_s350 ++ methods_qtwidgets_0_s359 ++ methods_qtwidgets_0_s368 ++
        methods_qtwidgets_0_s377 ++ methods_qtwidgets_0_s387 ++ methods_qtwidgets_0_s396 ++
        methods_qtwidgets_0_s405 ++ methods_qtwidgets_0_s414 ++ methods_qtwidgets_0_s423 ++
        methods_qtwidgets_0_s434 ++ methods_qtwidgets_0_s441 ++ methods_qtwidgets_0_s451 ++
        methods_qtwidgets_0_s462 ++ methods_qtwidgets_0_s473 ++ methods_qtwidgets_0_s483 ++
        methods_qtwidgets_0_s493)
    [].

Definition methods_qtwidgets_1_i0 : list include :=
  [
    ClassInclude QtWidgets QErrorMessage QErrorMessage;
    ClassInclude QtWidgets QFileDialog QFileDialog;
    ClassInclude QtWidgets QFocusFrame QFocusFrame;
    ClassInclude QtWidgets QFontComboBox QFontComboBox;
    ClassInclude QtWidgets QFontDialog QFontDialog;
    ClassInclude QtWidgets QFormLayout QFormLayout;
    ClassInclude QtWidgets QFrame QFrame;
    ClassInclude QtWidgets QGesture QGesture;
    ClassInclude QtWidgets QGestureRecognizer QGestureRecognizer;
    ClassInclude QtWidgets QGraphicsAnchor QGraphicsAnchor;
    ClassInclude QtWidgets QGraphicsBlurEffect QGraphicsBlurEffect;
    ClassInclude QtWidgets QGraphicsColorizeEffect QGraphicsColorizeEffect;
    ClassInclude QtWidgets QGraphicsDropShadowEffect QGraphicsDropShadowEffect;
    ClassInclude QtWidgets QGraphicsEffect QGraphicsEffect;
    ClassInclude QtWidgets QGraphicsObject QGraphicsObject;
    ClassInclude QtWidgets QGraphicsOpacityEffect QGraphicsOpacityEffect;
    ClassInclude QtWidgets QGraphicsProxyWidget QGraphicsProxyWidget;
    ClassInclude QtWidgets QGraphicsRotation QGraphicsRotation;
    ClassInclude QtWidgets QGraphicsScale QGraphicsScale;
    ClassInclude QtWidgets QGraphicsScene QGraphicsScene;
    ClassInclude QtWidgets QGraphicsTextItem QGraphicsTextItem;
    ClassInclude QtWidgets QGraphicsView QGraphicsView;
    ClassInclude QtWidgets QGraphicsWidget QGraphicsWidget;
    ClassInclude QtWidgets QGridLayout QGridLayout;
    TypeInclude QtCore QAbstractProxyModel TYPE_QTCORE_QABSTRACTPROXYMODEL;
    TypeInclude QtGui QTextDocument TYPE_QTGUI_QTEXTDOCUMENT;
    TypeInclude QtWidgets QAbstractItemDelegate TYPE_QTWIDGETS_QABSTRACTITEMDELEGATE;
    TypeInclude QtWidgets QErrorMessage TYPE_QTWIDGETS_QERRORMESSAGE;
    TypeInclude QtWidgets QGraphicsProxyWidget TYPE_QTWIDGETS_QGRAPHICSPROXYWIDGET;
    TypeInclude QtWidgets QGraphicsScene TYPE_QTWIDGETS_QGRAPHICSSCENE;
    TypeInclude QtWidgets QGraphicsTextItem TYPE_QTWIDGETS_QGRAPHICSTEXTITEM;
    TypeInclude QtWidgets QGraphicsView TYPE_QTWIDGETS_QGRAPHICSVIEW;
    TypeInclude QtWidgets QGraphicsWidget TYPE_QTWIDGETS_QGRAPHICSWIDGET;
    TypeInclude QtWidgets QLayout TYPE_QTWIDGETS_QLAYOUT;
    TypeInclude QtWidgets QStyle TYPE_QTWIDGETS_QSTYLE;
    TypeInclude QtWidgets QWidget TYPE_QTWIDGETS_QWIDGET;
    EnumDefine ENUM_QT_ASPECTRATIOMODE;
    EnumDefine ENUM_QT_AXIS;
    EnumDefine ENUM_QT_CORNER;
    EnumDefine ENUM_QT_FOCUSPOLICY;
    EnumDefine ENUM_QT_FOCUSREASON;
    EnumDefine ENUM_QT_GESTURESTATE;
    EnumDefine ENUM_QT_GESTURETYPE;
    EnumDefine ENUM_QT_INPUTMETHODQUERY;
    EnumDefine ENUM_QT_ITEMSELECTIONMODE;
    EnumDefine ENUM_QT_ITEMSELECTIONOPERATION;
    EnumDefine ENUM_QT_LAYOUTDIRECTION;
    EnumDefine ENUM_QT_ORIENTATION;
    EnumDefine ENUM_QT_ORIENTATIONS;
    EnumDefine ENUM_QT_SHORTCUTCONTEXT;
    EnumDefine ENUM_QT_WIDGETATTRIBUTE;
    EnumDefine ENUM_QT_WINDOWFLAGS;
    EnumDefine ENUM_QT_WINDOWTYPE;
    TypeInclude QtCore QDir TYPE_QTCORE_QDIR;
    TypeInclude QtGui QFontDatabase TYPE_QTGUI_QFONTDATABASE;
    TypeInclude QtGui QPainter TYPE_QTGUI_QPAINTER;
    TypeInclude QtWidgets QFileDialog TYPE_QTWIDGETS_QFILEDIALOG;
    TypeInclude QtWidgets QFontDialog TYPE_QTWIDGETS_QFONTDIALOG;
    TypeInclude QtWidgets QFormLayout TYPE_QTWIDGETS_QFORMLAYOUT;
    TypeInclude QtWidgets QFrame TYPE_QTWIDGETS_QFRAME;
    TypeInclude QtWidgets QGesture TYPE_QTWIDGETS_QGESTURE
  ].

Definition methods_qtwidgets_1_i1 : list include :=
  [
    TypeInclude QtWidgets QGraphicsScene TYPE_QTWIDGETS_QGRAPHICSSCENE;
    TypeInclude QtWidgets QGraphicsView TYPE_QTWIDGETS_QGRAPHICSVIEW;
    TypeInclude QtWidgets QSizePolicy TYPE_QTWIDGETS_QSIZEPOLICY;
    TypeInclude QtCore QByteArray VALUE_TYPE_QTCORE_QBYTEARRAY;
    TypeInclude QtCore QDir VALUE_TYPE_QTCORE_QDIR;
    TypeInclude QtCore QMarginsF VALUE_TYPE_QTCORE_QMARGINSF;
    TypeInclude QtCore QPoint VALUE_TYPE_QTCORE_QPOINT;
    TypeInclude QtCore QPointF VALUE_TYPE_QTCORE_QPOINTF;
    TypeInclude QtCore QRect VALUE_TYPE_QTCORE_QRECT;
    TypeInclude QtCore QRectF VALUE_TYPE_QTCORE_QRECTF;
    TypeInclude QtCore QSize VALUE_TYPE_QTCORE_QSIZE;
    TypeInclude QtCore QSizeF VALUE_TYPE_QTCORE_QSIZEF;
    TypeInclude QtCore QUrl VALUE_TYPE_QTCORE_QURL;
    TypeInclude QtGui QBrush VALUE_TYPE_QTGUI_QBRUSH;
    TypeInclude QtGui QColor VALUE_TYPE_QTGUI_QCOLOR;
    TypeInclude QtGui QFont VALUE_TYPE_QTGUI_QFONT;
    TypeInclude QtGui QKeySequence VALUE_TYPE_QTGUI_QKEYSEQUENCE;
    TypeInclude QtGui QPainterPath VALUE_TYPE_QTGUI_QPAINTERPATH;
    TypeInclude QtGui QPalette VALUE_TYPE_QTGUI_QPALETTE;
    TypeInclude QtGui QPolygon VALUE_TYPE_QTGUI_QPOLYGON;
    TypeInclude QtGui QPolygonF VALUE_TYPE_QTGUI_QPOLYGONF;
    TypeInclude QtGui QTextCursor VALUE_TYPE_QTGUI_QTEXTCURSOR;
    TypeInclude QtGui QTransform VALUE_TYPE_QTGUI_QTRANSFORM;
    TypeInclude QtGui QVector3D VALUE_TYPE_QTGUI_QVECTOR3D
  ].

Definition methods_qtwidgets_1_s0 : list signature_row :=
  [
    Sig [TYPE_QTWIDGETS_QFILEDIALOG] "acceptMode" [] (RMeta QFileDialog_AcceptMode) [On QFileDialog];
    Sig [TYPE_QTWIDGETS_QGRAPHICSWIDGET] "activeWindow" [] RObject [On QGraphicsScene];
    Sig [TYPE_QTWIDGETS_QLAYOUT] "addRow" [PObject QLayout false] RVoid [On QFormLayout];
    Sig [TYPE_QTWIDGETS_QLAYOUT] "addRow" [PString true; PObject QLayout false] RVoid [On QFormLayout];
    Sig [TYPE_QTWIDGETS_QWIDGET] "addRow" [PString true; PObject QWidget false] RVoid [On QFormLayout];
    Sig [TYPE_QTWIDGETS_QWIDGET] "addRow" [PObject QWidget false] RVoid [On QFormLayout];
    Sig [TYPE_QTWIDGETS_QLAYOUT; TYPE_QTWIDGETS_QWIDGET] "addRow" [PObject QWidget false; PObject QLayout
        false] RVoid [On QFormLayout];
    Sig [TYPE_QTWIDGETS_QWIDGET] "addRow" [PObject QWidget false; PObject QWidget false] RVoid [On
        QFormLayout];
    Sig [TYPE_QTWIDGETS_QGRAPHICSTEXTITEM; VALUE_TYPE_QTGUI_QFONT] "addText" [PString true; PValue QFont]
        RObject [On QGraphicsScene]
  ].

Definition methods_qtwidgets_1_s9 : list signature_row :=
  [
    Sig [ENUM_QT_WINDOWFLAGS; TYPE_QTWIDGETS_QGRAPHICSPROXYWIDGET; TYPE_QTWIDGETS_QWIDGET] "addWidget"
        [PObject QWidget false; PValue Qt_WindowFlags] RObject [On QGraphicsScene];
    Sig [] "adjustSize" [] RVoid [On QGraphicsTextItem; On QGraphicsWidget];
    Sig [] "advance" [] RVoid [On QGraphicsScene];
    Sig [] "angle" [] RDouble [On QGraphicsRotation];
    Sig [] "autoFillBackground" [] RBool [On QGraphicsWidget];
    Sig [VALUE_TYPE_QTGUI_QVECTOR3D] "axis" [] (RValue QVector3D) [On QGraphicsRotation];
    Sig [VALUE_TYPE_QTGUI_QBRUSH] "backgroundBrush" [] (RValue QBrush) [On QGraphicsScene; On
        QGraphicsView];
    Sig [] "blurRadius" [] RDouble [On QGraphicsBlurEffect; On QGraphicsDropShadowEffect];
    Sig [VALUE_TYPE_QTCORE_QRECTF] "boundingRect" [] (RValue QRectF) [On QGraphicsEffect; On
        QGraphicsTextItem; On QGraphicsWidget]
  ].

Definition methods_qtwidgets_1_s18 : list signature_row :=
  [
    Sig [VALUE_TYPE_QTCORE_QRECTF] "boundingRectFor" [PValue QRectF] (RValue QRectF) [On
        QGraphicsBlurEffect; On QGraphicsDropShadowEffect; On QGraphicsEffect];
    Sig [] "bspTreeDepth" [] RDouble [On QGraphicsScene];
    Sig [VALUE_TYPE_QTCORE_QRECT] "cellRect" [PInt; PInt] (RValue QRect) [On QGridLayout];
    Sig [VALUE_TYPE_QTCORE_QPOINTF] "centerOn" [PValue QPointF] RVoid [On QGraphicsView];
    Sig [] "centerOn" [PNumber cxx_qreal; PNumber cxx_qreal] RVoid [On QGraphicsView];
    Sig [] "clear" [] RVoid [On QGraphicsScene];
    Sig [] "clearFocus" [] RVoid [On QGraphicsScene];
    Sig [] "clearSelection" [] RVoid [On QGraphicsScene];
    Sig [] "close" [] RBool [On QGraphicsWidget]
  ].

Definition methods_qtwidgets_1_s27 : list signature_row :=
  [
    Sig [VALUE_TYPE_QTGUI_QCOLOR] "color" [] (RValue QColor) [On QGraphicsColorizeEffect; On
        QGraphicsDropShadowEffect];
    Sig [] "columnCount" [] RDouble [On QGridLayout];
    Sig [] "columnMinimumWidth" [PInt] RDouble [On QGridLayout];
    Sig [] "columnStretch" [PInt] RDouble [On QGridLayout];
    Sig [VALUE_TYPE_QTCORE_QPOINTF] "contains" [PValue QPointF] RBool [On QGraphicsTextItem];
    Sig [] "count" [] RDouble [On QFormLayout; On QGridLayout];
    Sig [TYPE_QTWIDGETS_QGRAPHICSPROXYWIDGET; TYPE_QTWIDGETS_QWIDGET] "createProxyForChildWidget" [PObject
        QWidget false] RObject [On QGraphicsProxyWidget];
    Sig [VALUE_TYPE_QTGUI_QFONT] "currentFont" [] (RValue QFont) [On QFontComboBox; On QFontDialog];
    Sig [] "defaultSuffix" [] RString [On QFileDialog]
  ].

Definition methods_qtwidgets_1_s36 : list signature_row :=
  [
    Sig [VALUE_TYPE_QTGUI_QCOLOR] "defaultTextColor" [] (RValue QColor) [On QGraphicsTextItem];
    Sig [VALUE_TYPE_QTCORE_QDIR] "directory" [] (RValue QDir) [On QFileDialog];
    Sig [VALUE_TYPE_QTCORE_QURL] "directoryUrl" [] (RValue QUrl) [On QFileDialog];
    Sig [TYPE_QTGUI_QTEXTDOCUMENT] "document" [] RObject [On QGraphicsTextItem];
    Sig [TYPE_QTWIDGETS_QGRAPHICSVIEW] "dragMode" [] (RMeta QGraphicsView_DragMode) [On QGraphicsView];
    Sig [VALUE_TYPE_QTCORE_QRECTF] "ensureVisible" [PValue QRectF; PInt; PInt] RVoid [On QGraphicsView];
    Sig [] "ensureVisible" [PNumber cxx_qreal; PNumber cxx_qreal; PNumber cxx_qreal; PNumber cxx_qreal;
        PInt; PInt] RVoid [On QGraphicsView];
    Sig [ENUM_QT_ORIENTATIONS] "expandingDirections" [] (RMeta Qt_Orientations) [On QFormLayout; On
        QGridLayout];
    Sig [TYPE_QTWIDGETS_QFORMLAYOUT] "fieldGrowthPolicy" [] (RMeta QFormLayout_FieldGrowthPolicy) [On
        QFormLayout]
  ].

Definition methods_qtwidgets_1_s45 : list signature_row :=
  [
    Sig [TYPE_QTWIDGETS_QFILEDIALOG] "fileMode" [] (RMeta QFileDialog_FileMode) [On QFileDialog];
    Sig [TYPE_QTCORE_QDIR] "filter" [] (RMeta QDir_Filters) [On QFileDialog];
    Sig [ENUM_QT_ASPECTRATIOMODE; VALUE_TYPE_QTCORE_QRECTF] "fitInView" [PValue QRectF; PValue
        Qt_AspectRatioMode] RVoid [On QGraphicsView];
    Sig [ENUM_QT_ASPECTRATIOMODE] "fitInView" [PNumber cxx_qreal; PNumber cxx_qreal; PNumber cxx_qreal;
        PNumber cxx_qreal; PValue Qt_AspectRatioMode] RVoid [On QGraphicsView];
    Sig [] "focusOnTouch" [] RBool [On QGraphicsScene];
    Sig [ENUM_QT_FOCUSPOLICY] "focusPolicy" [] (RMeta Qt_FocusPolicy) [On QGraphicsWidget];
    Sig [TYPE_QTWIDGETS_QGRAPHICSWIDGET] "focusWidget" [] RObject [On QGraphicsWidget];
    Sig [VALUE_TYPE_QTGUI_QFONT] "font" [] (RValue QFont) [On QGraphicsScene; On QGraphicsTextItem; On
        QGraphicsWidget];
    Sig [VALUE_TYPE_QTGUI_QBRUSH] "foregroundBrush" [] (RValue QBrush) [On QGraphicsScene; On QGraphicsView]
  ].

Definition methods_qtwidgets_1_s54 : list signature_row :=
  [
    Sig [VALUE_TYPE_QTCORE_QRECT] "frameRect" [] (RValue QRect) [On QFrame];
    Sig [TYPE_QTWIDGETS_QFRAME] "frameShadow" [] (RMeta QFrame_Shadow) [On QFrame];
    Sig [TYPE_QTWIDGETS_QFRAME] "frameShape" [] (RMeta QFrame_Shape) [On QFrame];
    Sig [] "frameStyle" [] RDouble [On QFrame];
    Sig [] "frameWidth" [] RDouble [On QFrame];
    Sig [TYPE_QTWIDGETS_QGESTURE] "gestureCancelPolicy" [] (RMeta QGesture_GestureCancelPolicy) [On
        QGesture];
    Sig [ENUM_QT_GESTURETYPE] "gestureType" [] (RMeta Qt_GestureType) [On QGesture];
    Sig [TYPE_QTWIDGETS_QFILEDIALOG; TYPE_QTWIDGETS_QWIDGET] "getExistingDirectory" [PObject QWidget false;
        PString true; PString true; PValue QFileDialog_Options] RString [Static QFileDialog];
    Sig [TYPE_QTWIDGETS_QFILEDIALOG; TYPE_QTWIDGETS_QWIDGET; VALUE_TYPE_QTCORE_QURL]
        "getExistingDirectoryUrl" [PObject QWidget false; PString true; PValue QUrl; PValue
        QFileDialog_Options; PStringList] (RValue QUrl) [Static QFileDialog]
  ].

Definition methods_qtwidgets_1_s63 : list signature_row :=
  [
    Sig [ENUM_QT_SHORTCUTCONTEXT; VALUE_TYPE_QTGUI_QKEYSEQUENCE] "grabShortcut" [PValue QKeySequence;
        PValue Qt_ShortcutContext] RDouble [On QGraphicsWidget];
    Sig [] "hasFocus" [] RBool [On QGraphicsScene];
    Sig [] "hasHeightForWidth" [] RBool [On QFormLayout; On QGridLayout];
    Sig [] "hasHotSpot" [] RBool [On QGesture];
    Sig [] "height" [] RDouble [On QGraphicsScene];
    Sig [] "heightForWidth" [PInt] RDouble [On QFormLayout; On QGridLayout];
    Sig [] "history" [] (RList (IMeta QString)) [On QFileDialog];
    Sig [] "horizontalSpacing" [] RDouble [On QFormLayout; On QGridLayout];
    Sig [VALUE_TYPE_QTCORE_QPOINTF] "hotSpot" [] (RValue QPointF) [On QGesture];
    Sig [ENUM_QT_INPUTMETHODQUERY] "inputMethodQuery" [PValue Qt_InputMethodQuery] RVariant [On
        QGraphicsScene; On QGraphicsView]
  ].

Definition methods_qtwidgets_1_s73 : list signature_row :=
  [
    Sig [TYPE_QTWIDGETS_QLAYOUT] "insertRow" [PInt; PObject QLayout false] RVoid [On QFormLayout];
    Sig [TYPE_QTWIDGETS_QLAYOUT] "insertRow" [PInt; PString true; PObject QLayout false] RVoid [On
        QFormLayout];
    Sig [TYPE_QTWIDGETS_QWIDGET] "insertRow" [PInt; PString true; PObject QWidget false] RVoid [On
        QFormLayout];
    Sig [TYPE_QTWIDGETS_QWIDGET] "insertRow" [PInt; PObject QWidget false] RVoid [On QFormLayout];
    Sig [TYPE_QTWIDGETS_QLAYOUT; TYPE_QTWIDGETS_QWIDGET] "insertRow" [PInt; PObject QWidget false; PObject
        QLayout false] RVoid [On QFormLayout];
    Sig [TYPE_QTWIDGETS_QWIDGET] "insertRow" [PInt; PObject QWidget false; PObject QWidget false] RVoid [On
        QFormLayout];
    Sig [] "invalidate" [] RVoid [On QFormLayout; On QGridLayout];
    Sig [] "isActive" [] RBool [On QGraphicsScene]
  ].

Definition methods_qtwidgets_1_s81 : list signature_row :=
  [
    Sig [] "isActiveWindow" [] RBool [On QGraphicsWidget];
    Sig [] "isEnabled" [] RBool [On QGraphicsEffect];
    Sig [] "isInteractive" [] RBool [On QGraphicsView];
    Sig [TYPE_QTWIDGETS_QLAYOUT] "isRowVisible" [PObject QLayout false] RBool [On QFormLayout];
    Sig [TYPE_QTWIDGETS_QWIDGET] "isRowVisible" [PObject QWidget false] RBool [On QFormLayout];
    Sig [] "isRowVisible" [PInt] RBool [On QFormLayout];
    Sig [] "isTransformed" [] RBool [On QGraphicsView];
    Sig [TYPE_QTWIDGETS_QABSTRACTITEMDELEGATE] "itemDelegate" [] RObject [On QFileDialog];
    Sig [TYPE_QTWIDGETS_QGRAPHICSSCENE] "itemIndexMethod" [] (RMeta QGraphicsScene_ItemIndexMethod) [On
        QGraphicsScene];
    Sig [VALUE_TYPE_QTCORE_QRECTF] "itemsBoundingRect" [] (RValue QRectF) [On QGraphicsScene];
    Sig [TYPE_QTWIDGETS_QLAYOUT; TYPE_QTWIDGETS_QWIDGET] "labelForField" [PObject QLayout false] RObject
        [On QFormLayout]
  ].

Definition methods_qtwidgets_1_s92 : list signature_row :=
  [
    Sig [TYPE_QTWIDGETS_QWIDGET] "labelForField" [PObject QWidget false] RObject [On QFormLayout];
    Sig [TYPE_QTWIDGETS_QFILEDIALOG] "labelText" [PValue QFileDialog_DialogLabel] RString [On QFileDialog];
    Sig [ENUM_QT_LAYOUTDIRECTION] "layoutDirection" [] (RMeta Qt_LayoutDirection) [On QGraphicsWidget];
    Sig [] "lineWidth" [] RDouble [On QFrame];
    Sig [VALUE_TYPE_QTGUI_QPAINTERPATH] "mapFromScene" [PValue QPainterPath] (RValue QPainterPath) [On
        QGraphicsView];
    Sig [VALUE_TYPE_QTCORE_QPOINT; VALUE_TYPE_QTCORE_QPOINTF] "mapFromScene" [PValue QPointF] (RValue
        QPoint) [On QGraphicsView];
    Sig [VALUE_TYPE_QTGUI_QPOLYGON; VALUE_TYPE_QTGUI_QPOLYGONF] "mapFromScene" [PValue QPolygonF] (RValue
        QPolygon) [On QGraphicsView];
    Sig [VALUE_TYPE_QTCORE_QRECTF; VALUE_TYPE_QTGUI_QPOLYGON] "mapFromScene" [PValue QRectF] (RValue
        QPolygon) [On QGraphicsView];
    Sig [VALUE_TYPE_QTCORE_QPOINT] "mapFromScene" [PNumber cxx_qreal; PNumber cxx_qreal] (RValue QPoint)
        [On QGraphicsView]
  ].

Definition methods_qtwidgets_1_s101 : list signature_row :=
  [
    Sig [VALUE_TYPE_QTGUI_QPOLYGON] "mapFromScene" [PNumber cxx_qreal; PNumber cxx_qreal; PNumber
        cxx_qreal; PNumber cxx_qreal] (RValue QPolygon) [On QGraphicsView];
    Sig [VALUE_TYPE_QTGUI_QPAINTERPATH] "mapToScene" [PValue QPainterPath] (RValue QPainterPath) [On
        QGraphicsView];
    Sig [VALUE_TYPE_QTCORE_QPOINT; VALUE_TYPE_QTCORE_QPOINTF] "mapToScene" [PValue QPoint] (RValue QPointF)
        [On QGraphicsView];
    Sig [VALUE_TYPE_QTGUI_QPOLYGON; VALUE_TYPE_QTGUI_QPOLYGONF] "mapToScene" [PValue QPolygon] (RValue
        QPolygonF) [On QGraphicsView];
    Sig [VALUE_TYPE_QTCORE_QRECT; VALUE_TYPE_QTGUI_QPOLYGONF] "mapToScene" [PValue QRect] (RValue
        QPolygonF) [On QGraphicsView];
    Sig [VALUE_TYPE_QTCORE_QPOINTF] "mapToScene" [PInt; PInt] (RValue QPointF) [On QGraphicsView];
    Sig [VALUE_TYPE_QTGUI_QPOLYGONF] "mapToScene" [PInt; PInt; PInt; PInt] (RValue QPolygonF) [On
        QGraphicsView];
    Sig [VALUE_TYPE_QTCORE_QSIZE] "maximumSize" [] (RValue QSize) [On QGridLayout]
  ].

Definition methods_qtwidgets_1_s109 : list signature_row :=
  [
    Sig [] "midLineWidth" [] RDouble [On QFrame];
    Sig [] "mimeTypeFilters" [] (RList (IMeta QString)) [On QFileDialog];
    Sig [] "minimumHeightForWidth" [PInt] RDouble [On QGridLayout];
    Sig [] "minimumRenderSize" [] RDouble [On QGraphicsScene];
    Sig [VALUE_TYPE_QTCORE_QSIZE] "minimumSize" [] (RValue QSize) [On QFormLayout; On QGridLayout];
    Sig [] "nameFilters" [] (RList (IMeta QString)) [On QFileDialog];
    Sig [VALUE_TYPE_QTCORE_QPOINTF] "offset" [] (RValue QPointF) [On QGraphicsDropShadowEffect];
    Sig [] "opacity" [] RDouble [On QGraphicsOpacityEffect];
    Sig [VALUE_TYPE_QTGUI_QBRUSH] "opacityMask" [] (RValue QBrush) [On QGraphicsOpacityEffect];
    Sig [VALUE_TYPE_QTGUI_QPAINTERPATH] "opaqueArea" [] (RValue QPainterPath) [On QGraphicsTextItem]
  ].

Definition methods_qtwidgets_1_s119 : list signature_row :=
  [
    Sig [] "open" [] RVoid [On QFileDialog; On QFontDialog];
    Sig [] "openExternalLinks" [] RBool [On QGraphicsTextItem];
    Sig [TYPE_QTWIDGETS_QGRAPHICSVIEW] "optimizationFlags" [] (RMeta QGraphicsView_OptimizationFlags) [On
        QGraphicsView];
    Sig [TYPE_QTWIDGETS_QFILEDIALOG] "options" [] (RMeta QFileDialog_Options) [On QFileDialog];
    Sig [TYPE_QTWIDGETS_QFONTDIALOG] "options" [] (RMeta QFontDialog_FontDialogOptions) [On QFontDialog];
    Sig [VALUE_TYPE_QTGUI_QVECTOR3D] "origin" [] (RValue QVector3D) [On QGraphicsRotation; On
        QGraphicsScale];
    Sig [ENUM_QT_CORNER] "originCorner" [] (RMeta Qt_Corner) [On QGridLayout];
    Sig [VALUE_TYPE_QTGUI_QPALETTE] "palette" [] (RValue QPalette) [On QGraphicsScene; On QGraphicsWidget];
    Sig [TYPE_QTCORE_QABSTRACTPROXYMODEL] "proxyModel" [] RObject [On QFileDialog];
    Sig [TYPE_QTWIDGETS_QERRORMESSAGE] "qtHandler" [] RObject [Static QErrorMessage]
  ].

Definition methods_qtwidgets_1_s129 : list signature_row :=
  [
    Sig [VALUE_TYPE_QTCORE_QRECTF] "rect" [] (RValue QRectF) [On QGraphicsWidget];
    Sig [] "releaseShortcut" [PInt] RVoid [On QGraphicsWidget];
    Sig [TYPE_QTWIDGETS_QLAYOUT] "removeRow" [PObject QLayout false] RVoid [On QFormLayout];
    Sig [TYPE_QTWIDGETS_QWIDGET] "removeRow" [PObject QWidget false] RVoid [On QFormLayout];
    Sig [] "removeRow" [PInt] RVoid [On QFormLayout];
    Sig [TYPE_QTGUI_QPAINTER] "renderHints" [] (RMeta QPainter_RenderHints) [On QGraphicsView];
    Sig [] "resetCachedContent" [] RVoid [On QGraphicsView];
    Sig [] "resetTransform" [] RVoid [On QGraphicsView];
    Sig [VALUE_TYPE_QTCORE_QSIZEF] "resize" [PValue QSizeF] RVoid [On QGraphicsWidget];
    Sig [] "resize" [PNumber cxx_qreal; PNumber cxx_qreal] RVoid [On QGraphicsWidget]
  ].

Definition methods_qtwidgets_1_s139 : list signature_row :=
  [
    Sig [TYPE_QTWIDGETS_QGRAPHICSVIEW] "resizeAnchor" [] (RMeta QGraphicsView_ViewportAnchor) [On
        QGraphicsView];
    Sig [VALUE_TYPE_QTCORE_QBYTEARRAY] "restoreState" [PValue QByteArray] RBool [On QFileDialog];
    Sig [] "rotate" [PNumber cxx_qreal] RVoid [On QGraphicsView];
    Sig [] "rowCount" [] RDouble [On QFormLayout; On QGridLayout];
    Sig [] "rowMinimumHeight" [PInt] RDouble [On QGridLayout];
    Sig [] "rowStretch" [PInt] RDouble [On QGridLayout];
    Sig [TYPE_QTWIDGETS_QFORMLAYOUT] "rowWrapPolicy" [] (RMeta QFormLayout_RowWrapPolicy) [On QFormLayout];
    Sig [VALUE_TYPE_QTCORE_QRECT] "rubberBandRect" [] (RValue QRect) [On QGraphicsView];
    Sig [ENUM_QT_ITEMSELECTIONMODE] "rubberBandSelectionMode" [] (RMeta Qt_ItemSelectionMode) [On
        QGraphicsView];
    Sig [] "sampleTextForFont" [PString true] RString [On QFontComboBox]
  ].

Definition methods_qtwidgets_1_s149 : list signature_row :=
  [
    Sig [TYPE_QTGUI_QFONTDATABASE] "sampleTextForSystem" [PValue QFontDatabase_WritingSystem] RString [On
        QFontComboBox];
    Sig [VALUE_TYPE_QTCORE_QBYTEARRAY] "saveFileContent" [PValue QByteArray; PString true] RVoid [Static
        QFileDialog];
    Sig [TYPE_QTWIDGETS_QWIDGET; VALUE_TYPE_QTCORE_QBYTEARRAY] "saveFileContent" [PValue QByteArray;
        PString true; PObject QWidget false] RVoid [Static QFileDialog];
    Sig [VALUE_TYPE_QTCORE_QBYTEARRAY] "saveState" [] (RValue QByteArray) [On QFileDialog];
    Sig [] "scale" [PNumber cxx_qreal; PNumber cxx_qreal] RVoid [On QGraphicsView];
    Sig [TYPE_QTWIDGETS_QGRAPHICSSCENE] "scene" [] RObject [On QGraphicsView];
    Sig [VALUE_TYPE_QTCORE_QRECTF] "sceneRect" [] (RValue QRectF) [On QGraphicsScene; On QGraphicsView];
    Sig [] "selectFile" [PString true] RVoid [On QFileDialog];
    Sig [] "selectMimeTypeFilter" [PString true] RVoid [On QFileDialog]
  ].

Definition methods_qtwidgets_1_s158 : list signature_row :=
  [
    Sig [] "selectNameFilter" [PString true] RVoid [On QFileDialog];
    Sig [VALUE_TYPE_QTCORE_QURL] "selectUrl" [PValue QUrl] RVoid [On QFileDialog];
    Sig [] "selectedFiles" [] (RList (IMeta QString)) [On QFileDialog];
    Sig [VALUE_TYPE_QTGUI_QFONT] "selectedFont" [] (RValue QFont) [On QFontDialog];
    Sig [] "selectedMimeTypeFilter" [] RString [On QFileDialog];
    Sig [] "selectedNameFilter" [] RString [On QFileDialog];
    Sig [VALUE_TYPE_QTCORE_QURL] "selectedUrls" [] (RList (IValue QUrl)) [On QFileDialog];
    Sig [VALUE_TYPE_QTGUI_QPAINTERPATH] "selectionArea" [] (RValue QPainterPath) [On QGraphicsScene];
    Sig [TYPE_QTWIDGETS_QFILEDIALOG] "setAcceptMode" [PValue QFileDialog_AcceptMode] RVoid [On QFileDialog];
    Sig [TYPE_QTWIDGETS_QGRAPHICSWIDGET] "setActiveWindow" [PObject QGraphicsWidget false] RVoid [On
        QGraphicsScene]
  ].

Definition methods_qtwidgets_1_s168 : list signature_row :=
  [
    Sig [] "setAngle" [PNumber cxx_qreal] RVoid [On QGraphicsRotation];
    Sig [ENUM_QT_WIDGETATTRIBUTE] "setAttribute" [PValue Qt_WidgetAttribute; PBool] RVoid [On
        QGraphicsWidget];
    Sig [] "setAutoFillBackground" [PBool] RVoid [On QGraphicsWidget];
    Sig [VALUE_TYPE_QTGUI_QVECTOR3D] "setAxis" [PValue QVector3D] RVoid [On QGraphicsRotation];
    Sig [ENUM_QT_AXIS] "setAxis" [PValue Qt_Axis] RVoid [On QGraphicsRotation];
    Sig [VALUE_TYPE_QTGUI_QBRUSH] "setBackgroundBrush" [PValue QBrush] RVoid [On QGraphicsScene; On
        QGraphicsView];
    Sig [] "setBlurRadius" [PNumber cxx_qreal] RVoid [On QGraphicsBlurEffect; On QGraphicsDropShadowEffect];
    Sig [] "setBspTreeDepth" [PInt] RVoid [On QGraphicsScene];
    Sig [VALUE_TYPE_QTGUI_QCOLOR] "setColor" [PValue QColor] RVoid [On QGraphicsColorizeEffect; On
        QGraphicsDropShadowEffect]
  ].

Definition methods_qtwidgets_1_s177 : list signature_row :=
  [
    Sig [] "setColumnMinimumWidth" [PInt; PInt] RVoid [On QGridLayout];
    Sig [] "setColumnStretch" [PInt; PInt] RVoid [On QGridLayout];
    Sig [VALUE_TYPE_QTCORE_QMARGINSF] "setContentsMargins" [PValue QMarginsF] RVoid [On QGraphicsWidget];
    Sig [] "setContentsMargins" [PNumber cxx_qreal; PNumber cxx_qreal; PNumber cxx_qreal; PNumber
        cxx_qreal] RVoid [On QGraphicsWidget];
    Sig [VALUE_TYPE_QTGUI_QFONT] "setCurrentFont" [PValue QFont] RVoid [On QFontComboBox; On QFontDialog];
    Sig [ENUM_QT_ORIENTATION] "setDefaultPositioning" [PInt; PValue Qt_Orientation] RVoid [On QGridLayout];
    Sig [] "setDefaultSuffix" [PString true] RVoid [On QFileDialog];
    Sig [VALUE_TYPE_QTGUI_QCOLOR] "setDefaultTextColor" [PValue QColor] RVoid [On QGraphicsTextItem];
    Sig [VALUE_TYPE_QTCORE_QDIR] "setDirectory" [PValue QDir] RVoid [On QFileDialog]
  ].

Definition methods_qtwidgets_1_s186 : list signature_row :=
  [
    Sig [] "setDirectory" [PString true] RVoid [On QFileDialog];
    Sig [VALUE_TYPE_QTCORE_QURL] "setDirectoryUrl" [PValue QUrl] RVoid [On QFileDialog];
    Sig [VALUE_TYPE_QTGUI_QFONT] "setDisplayFont" [PString true; PValue QFont] RVoid [On QFontComboBox];
    Sig [TYPE_QTGUI_QTEXTDOCUMENT] "setDocument" [PObject QTextDocument false] RVoid [On QGraphicsTextItem];
    Sig [TYPE_QTWIDGETS_QGRAPHICSVIEW] "setDragMode" [PValue QGraphicsView_DragMode] RVoid [On
        QGraphicsView];
    Sig [] "setEnabled" [PBool] RVoid [On QGraphicsEffect];
    Sig [TYPE_QTWIDGETS_QFORMLAYOUT] "setFieldGrowthPolicy" [PValue QFormLayout_FieldGrowthPolicy] RVoid
        [On QFormLayout];
    Sig [TYPE_QTWIDGETS_QFILEDIALOG] "setFileMode" [PValue QFileDialog_FileMode] RVoid [On QFileDialog];
    Sig [TYPE_QTCORE_QDIR] "setFilter" [PValue QDir_Filters] RVoid [On QFileDialog]
  ].

Definition methods_qtwidgets_1_s195 : list signature_row :=
  [
    Sig [ENUM_QT_FOCUSREASON] "setFocus" [PValue Qt_FocusReason] RVoid [On QGraphicsScene];
    Sig [] "setFocusOnTouch" [PBool] RVoid [On QGraphicsScene];
    Sig [ENUM_QT_FOCUSPOLICY] "setFocusPolicy" [PValue Qt_FocusPolicy] RVoid [On QGraphicsWidget];
    Sig [VALUE_TYPE_QTGUI_QFONT] "setFont" [PValue QFont] RVoid [On QGraphicsScene; On QGraphicsTextItem;
        On QGraphicsWidget];
    Sig [VALUE_TYPE_QTGUI_QBRUSH] "setForegroundBrush" [PValue QBrush] RVoid [On QGraphicsScene; On
        QGraphicsView];
    Sig [VALUE_TYPE_QTCORE_QRECT] "setFrameRect" [PValue QRect] RVoid [On QFrame];
    Sig [TYPE_QTWIDGETS_QFRAME] "setFrameShadow" [PValue QFrame_Shadow] RVoid [On QFrame];
    Sig [TYPE_QTWIDGETS_QFRAME] "setFrameShape" [PValue QFrame_Shape] RVoid [On QFrame]
  ].

Definition methods_qtwidgets_1_s203 : list signature_row :=
  [
    Sig [] "setFrameStyle" [PInt] RVoid [On QFrame];
    Sig [VALUE_TYPE_QTCORE_QRECT] "setGeometry" [PValue QRect] RVoid [On QFormLayout; On QGridLayout];
    Sig [VALUE_TYPE_QTCORE_QRECTF] "setGeometry" [PValue QRectF] RVoid [On QGraphicsProxyWidget; On
        QGraphicsWidget];
    Sig [] "setGeometry" [PNumber cxx_qreal; PNumber cxx_qreal; PNumber cxx_qreal; PNumber cxx_qreal] RVoid
        [On QGraphicsWidget];
    Sig [TYPE_QTWIDGETS_QGESTURE] "setGestureCancelPolicy" [PValue QGesture_GestureCancelPolicy] RVoid [On
        QGesture];
    Sig [] "setHistory" [PStringList] RVoid [On QFileDialog];
    Sig [] "setHorizontalSpacing" [PInt] RVoid [On QFormLayout; On QGridLayout];
    Sig [VALUE_TYPE_QTCORE_QPOINTF] "setHotSpot" [PValue QPointF] RVoid [On QGesture]
  ].

Definition methods_qtwidgets_1_s211 : list signature_row :=
  [
    Sig [] "setHtml" [PString true] RVoid [On QGraphicsTextItem];
    Sig [] "setInteractive" [PBool] RVoid [On QGraphicsView];
    Sig [TYPE_QTWIDGETS_QABSTRACTITEMDELEGATE] "setItemDelegate" [PObject QAbstractItemDelegate false]
        RVoid [On QFileDialog];
    Sig [TYPE_QTWIDGETS_QGRAPHICSSCENE] "setItemIndexMethod" [PValue QGraphicsScene_ItemIndexMethod] RVoid
        [On QGraphicsScene];
    Sig [TYPE_QTWIDGETS_QFILEDIALOG] "setLabelText" [PValue QFileDialog_DialogLabel; PString true] RVoid
        [On QFileDialog];
    Sig [TYPE_QTWIDGETS_QFORMLAYOUT; TYPE_QTWIDGETS_QLAYOUT] "setLayout" [PInt; PValue
        QFormLayout_ItemRole; PObject QLayout false] RVoid [On QFormLayout];
    Sig [ENUM_QT_LAYOUTDIRECTION] "setLayoutDirection" [PValue Qt_LayoutDirection] RVoid [On
        QGraphicsWidget];
    Sig [] "setLineWidth" [PInt] RVoid [On QFrame];
    Sig [] "setMidLineWidth" [PInt] RVoid [On QFrame]
  ].

Definition methods_qtwidgets_1_s220 : list signature_row :=
  [
    Sig [] "setMimeTypeFilters" [PStringList] RVoid [On QFileDialog];
    Sig [] "setMinimumRenderSize" [PNumber cxx_qreal] RVoid [On QGraphicsScene];
    Sig [] "setNameFilter" [PString true] RVoid [On QFileDialog];
    Sig [] "setNameFilters" [PStringList] RVoid [On QFileDialog];
    Sig [VALUE_TYPE_QTCORE_QPOINTF] "setOffset" [PValue QPointF] RVoid [On QGraphicsDropShadowEffect];
    Sig [] "setOffset" [PNumber cxx_qreal] RVoid [On QGraphicsDropShadowEffect];
    Sig [] "setOffset" [PNumber cxx_qreal; PNumber cxx_qreal] RVoid [On QGraphicsDropShadowEffect];
    Sig [] "setOpacity" [PNumber cxx_qreal] RVoid [On QGraphicsOpacityEffect];
    Sig [VALUE_TYPE_QTGUI_QBRUSH] "setOpacityMask" [PValue QBrush] RVoid [On QGraphicsOpacityEffect];
    Sig [] "setOpenExternalLinks" [PBool] RVoid [On QGraphicsTextItem]
  ].

Definition methods_qtwidgets_1_s230 : list signature_row :=
  [
    Sig [TYPE_QTWIDGETS_QGRAPHICSVIEW] "setOptimizationFlag" [PValue QGraphicsView_OptimizationFlag; PBool]
        RVoid [On QGraphicsView];
    Sig [TYPE_QTWIDGETS_QGRAPHICSVIEW] "setOptimizationFlags" [PValue QGraphicsView_OptimizationFlags]
        RVoid [On QGraphicsView];
    Sig [TYPE_QTWIDGETS_QFILEDIALOG] "setOption" [PValue QFileDialog_Option; PBool] RVoid [On QFileDialog];
    Sig [TYPE_QTWIDGETS_QFONTDIALOG] "setOption" [PValue QFontDialog_FontDialogOption; PBool] RVoid [On
        QFontDialog];
    Sig [TYPE_QTWIDGETS_QFILEDIALOG] "setOptions" [PValue QFileDialog_Options] RVoid [On QFileDialog];
    Sig [TYPE_QTWIDGETS_QFONTDIALOG] "setOptions" [PValue QFontDialog_FontDialogOptions] RVoid [On
        QFontDialog];
    Sig [VALUE_TYPE_QTGUI_QVECTOR3D] "setOrigin" [PValue QVector3D] RVoid [On QGraphicsRotation; On
        QGraphicsScale];
    Sig [ENUM_QT_CORNER] "setOriginCorner" [PValue Qt_Corner] RVoid [On QGridLayout]
  ].

Definition methods_qtwidgets_1_s238 : list signature_row :=
  [
    Sig [VALUE_TYPE_QTGUI_QPALETTE] "setPalette" [PValue QPalette] RVoid [On QGraphicsScene; On
        QGraphicsWidget];
    Sig [] "setPlainText" [PString true] RVoid [On QGraphicsTextItem];
    Sig [TYPE_QTCORE_QABSTRACTPROXYMODEL] "setProxyModel" [PObject QAbstractProxyModel false] RVoid [On
        QFileDialog];
    Sig [TYPE_QTGUI_QPAINTER] "setRenderHint" [PValue QPainter_RenderHint; PBool] RVoid [On QGraphicsView];
    Sig [TYPE_QTGUI_QPAINTER] "setRenderHints" [PValue QPainter_RenderHints] RVoid [On QGraphicsView];
    Sig [TYPE_QTWIDGETS_QGRAPHICSVIEW] "setResizeAnchor" [PValue QGraphicsView_ViewportAnchor] RVoid [On
        QGraphicsView];
    Sig [] "setRowMinimumHeight" [PInt; PInt] RVoid [On QGridLayout];
    Sig [] "setRowStretch" [PInt; PInt] RVoid [On QGridLayout];
    Sig [TYPE_QTWIDGETS_QLAYOUT] "setRowVisible" [PObject QLayout false; PBool] RVoid [On QFormLayout]
  ].

Definition methods_qtwidgets_1_s247 : list signature_row :=
  [
    Sig [TYPE_QTWIDGETS_QWIDGET] "setRowVisible" [PObject QWidget false; PBool] RVoid [On QFormLayout];
    Sig [] "setRowVisible" [PInt; PBool] RVoid [On QFormLayout];
    Sig [TYPE_QTWIDGETS_QFORMLAYOUT] "setRowWrapPolicy" [PValue QFormLayout_RowWrapPolicy] RVoid [On
        QFormLayout];
    Sig [ENUM_QT_ITEMSELECTIONMODE] "setRubberBandSelectionMode" [PValue Qt_ItemSelectionMode] RVoid [On
        QGraphicsView];
    Sig [] "setSampleTextForFont" [PString true; PString true] RVoid [On QFontComboBox];
    Sig [TYPE_QTGUI_QFONTDATABASE] "setSampleTextForSystem" [PValue QFontDatabase_WritingSystem; PString
        true] RVoid [On QFontComboBox];
    Sig [TYPE_QTWIDGETS_QGRAPHICSSCENE] "setScene" [PObject QGraphicsScene false] RVoid [On QGraphicsView];
    Sig [VALUE_TYPE_QTCORE_QRECTF] "setSceneRect" [PValue QRectF] RVoid [On QGraphicsScene; On
        QGraphicsView]
  ].

Definition methods_qtwidgets_1_s255 : list signature_row :=
  [
    Sig [] "setSceneRect" [PNumber cxx_qreal; PNumber cxx_qreal; PNumber cxx_qreal; PNumber cxx_qreal]
        RVoid [On QGraphicsScene; On QGraphicsView];
    Sig [VALUE_TYPE_QTGUI_QPAINTERPATH; VALUE_TYPE_QTGUI_QTRANSFORM] "setSelectionArea" [PValue
        QPainterPath; PValue QTransform] RVoid [On QGraphicsScene];
    Sig [ENUM_QT_ITEMSELECTIONMODE; ENUM_QT_ITEMSELECTIONOPERATION; VALUE_TYPE_QTGUI_QPAINTERPATH;
        VALUE_TYPE_QTGUI_QTRANSFORM] "setSelectionArea" [PValue QPainterPath; PValue
        Qt_ItemSelectionOperation; PValue Qt_ItemSelectionMode; PValue QTransform] RVoid [On
        QGraphicsScene];
    Sig [] "setShortcutAutoRepeat" [PInt; PBool] RVoid [On QGraphicsWidget];
    Sig [] "setShortcutEnabled" [PInt; PBool] RVoid [On QGraphicsWidget];
    Sig [VALUE_TYPE_QTCORE_QURL] "setSidebarUrls" [PList (IValue QUrl)] RVoid [On QFileDialog];
    Sig [TYPE_QTWIDGETS_QSIZEPOLICY] "setSizePolicy" [PValue QSizePolicy_Policy] RVoid [On QGraphicsAnchor];
    Sig [] "setSpacing" [PInt] RVoid [On QFormLayout; On QGridLayout]
  ].

Definition methods_qtwidgets_1_s263 : list signature_row :=
  [
    Sig [] "setSpacing" [PNumber cxx_qreal] RVoid [On QGraphicsAnchor];
    Sig [] "setStickyFocus" [PBool] RVoid [On QGraphicsScene];
    Sig [] "setStrength" [PNumber cxx_qreal] RVoid [On QGraphicsColorizeEffect];
    Sig [TYPE_QTWIDGETS_QSTYLE] "setStyle" [PObject QStyle false] RVoid [On QGraphicsScene; On
        QGraphicsWidget];
    Sig [] "setSupportedSchemes" [PStringList] RVoid [On QFileDialog];
    Sig [] "setTabChangesFocus" [PBool] RVoid [On QGraphicsTextItem];
    Sig [TYPE_QTWIDGETS_QGRAPHICSWIDGET] "setTabOrder" [PObject QGraphicsWidget false; PObject
        QGraphicsWidget false] RVoid [Static QGraphicsWidget];
    Sig [VALUE_TYPE_QTGUI_QTEXTCURSOR] "setTextCursor" [PValue QTextCursor] RVoid [On QGraphicsTextItem];
    Sig [] "setTextWidth" [PNumber cxx_qreal] RVoid [On QGraphicsTextItem]
  ].

Definition methods_qtwidgets_1_s272 : list signature_row :=
  [
    Sig [VALUE_TYPE_QTGUI_QTRANSFORM] "setTransform" [PValue QTransform; PBool] RVoid [On QGraphicsView];
    Sig [TYPE_QTWIDGETS_QGRAPHICSVIEW] "setTransformationAnchor" [PValue QGraphicsView_ViewportAnchor]
        RVoid [On QGraphicsView];
    Sig [] "setVerticalSpacing" [PInt] RVoid [On QFormLayout; On QGridLayout];
    Sig [TYPE_QTWIDGETS_QFILEDIALOG] "setViewMode" [PValue QFileDialog_ViewMode] RVoid [On QFileDialog];
    Sig [TYPE_QTWIDGETS_QGRAPHICSVIEW] "setViewportUpdateMode" [PValue QGraphicsView_ViewportUpdateMode]
        RVoid [On QGraphicsView];
    Sig [] "setVisible" [PBool] RVoid [On QFileDialog; On QFontDialog];
    Sig [TYPE_QTWIDGETS_QWIDGET] "setWidget" [PObject QWidget false] RVoid [On QFocusFrame];
    Sig [TYPE_QTWIDGETS_QFORMLAYOUT; TYPE_QTWIDGETS_QWIDGET] "setWidget" [PInt; PValue
        QFormLayout_ItemRole; PObject QWidget false] RVoid [On QFormLayout]
  ].

Definition methods_qtwidgets_1_s280 : list signature_row :=
  [
    Sig [ENUM_QT_WINDOWFLAGS] "setWindowFlags" [PValue Qt_WindowFlags] RVoid [On QGraphicsWidget];
    Sig [VALUE_TYPE_QTCORE_QMARGINSF] "setWindowFrameMargins" [PValue QMarginsF] RVoid [On QGraphicsWidget];
    Sig [] "setWindowFrameMargins" [PNumber cxx_qreal; PNumber cxx_qreal; PNumber cxx_qreal; PNumber
        cxx_qreal] RVoid [On QGraphicsWidget];
    Sig [] "setWindowTitle" [PString true] RVoid [On QGraphicsWidget];
    Sig [TYPE_QTGUI_QFONTDATABASE] "setWritingSystem" [PValue QFontDatabase_WritingSystem] RVoid [On
        QFontComboBox];
    Sig [] "setXOffset" [PNumber cxx_qreal] RVoid [On QGraphicsDropShadowEffect];
    Sig [] "setXScale" [PNumber cxx_qreal] RVoid [On QGraphicsScale];
    Sig [] "setYOffset" [PNumber cxx_qreal] RVoid [On QGraphicsDropShadowEffect];
    Sig [] "setYScale" [PNumber cxx_qreal] RVoid [On QGraphicsScale];
    Sig [] "setZScale" [PNumber cxx_qreal] RVoid [On QGraphicsScale]
  ].

Definition methods_qtwidgets_1_s290 : list signature_row :=
  [
    Sig [VALUE_TYPE_QTGUI_QPAINTERPATH] "shape" [] (RValue QPainterPath) [On QGraphicsTextItem; On
        QGraphicsWidget];
    Sig [] "shear" [PNumber cxx_qreal; PNumber cxx_qreal] RVoid [On QGraphicsView];
    Sig [] "showMessage" [PString true] RVoid [On QErrorMessage];
    Sig [] "showMessage" [PString true; PString true] RVoid [On QErrorMessage];
    Sig [VALUE_TYPE_QTCORE_QURL] "sidebarUrls" [] (RList (IValue QUrl)) [On QFileDialog];
    Sig [VALUE_TYPE_QTCORE_QSIZEF] "size" [] (RValue QSizeF) [On QGraphicsWidget];
    Sig [VALUE_TYPE_QTCORE_QSIZE] "sizeHint" [] (RValue QSize) [On QFontComboBox; On QFormLayout; On
        QFrame; On QGraphicsView; On QGridLayout];
    Sig [TYPE_QTWIDGETS_QSIZEPOLICY] "sizePolicy" [] (RMeta QSizePolicy_Policy) [On QGraphicsAnchor]
  ].

Definition methods_qtwidgets_1_s298 : list signature_row :=
  [
    Sig [] "spacing" [] RDouble [On QFormLayout; On QGridLayout];
    Sig [] "spacing" [] RDouble [On QGraphicsAnchor];
    Sig [ENUM_QT_GESTURESTATE] "state" [] (RMeta Qt_GestureState) [On QGesture];
    Sig [] "stickyFocus" [] RBool [On QGraphicsScene];
    Sig [] "strength" [] RDouble [On QGraphicsColorizeEffect];
    Sig [TYPE_QTWIDGETS_QSTYLE] "style" [] RObject [On QGraphicsScene; On QGraphicsWidget];
    Sig [TYPE_QTWIDGETS_QWIDGET; VALUE_TYPE_QTCORE_QRECTF] "subWidgetRect" [PObject QWidget false] (RValue
        QRectF) [On QGraphicsProxyWidget];
    Sig [] "supportedSchemes" [] (RList (IMeta QString)) [On QFileDialog];
    Sig [] "tabChangesFocus" [] RBool [On QGraphicsTextItem];
    Sig [TYPE_QTWIDGETS_QFORMLAYOUT; TYPE_QTWIDGETS_QLAYOUT] "takeRow" [PObject QLayout false] (RMeta
        QFormLayout_TakeRowResult) [On QFormLayout]
  ].

Definition methods_qtwidgets_1_s308 : list signature_row :=
  [
    Sig [TYPE_QTWIDGETS_QFORMLAYOUT; TYPE_QTWIDGETS_QWIDGET] "takeRow" [PObject QWidget false] (RMeta
        QFormLayout_TakeRowResult) [On QFormLayout];
    Sig [TYPE_QTWIDGETS_QFORMLAYOUT] "takeRow" [PInt] (RMeta QFormLayout_TakeRowResult) [On QFormLayout];
    Sig [ENUM_QT_WIDGETATTRIBUTE] "testAttribute" [PValue Qt_WidgetAttribute] RBool [On QGraphicsWidget];
    Sig [TYPE_QTWIDGETS_QFILEDIALOG] "testOption" [PValue QFileDialog_Option] RBool [On QFileDialog];
    Sig [TYPE_QTWIDGETS_QFONTDIALOG] "testOption" [PValue QFontDialog_FontDialogOption] RBool [On
        QFontDialog];
    Sig [VALUE_TYPE_QTGUI_QTEXTCURSOR] "textCursor" [] (RValue QTextCursor) [On QGraphicsTextItem];
    Sig [] "textWidth" [] RDouble [On QGraphicsTextItem];
    Sig [] "toHtml" [] RString [On QGraphicsTextItem];
    Sig [] "toPlainText" [] RString [On QGraphicsTextItem];
    Sig [VALUE_TYPE_QTGUI_QTRANSFORM] "transform" [] (RValue QTransform) [On QGraphicsView]
  ].

Definition methods_qtwidgets_1_s318 : list signature_row :=
  [
    Sig [TYPE_QTWIDGETS_QGRAPHICSVIEW] "transformationAnchor" [] (RMeta QGraphicsView_ViewportAnchor) [On
        QGraphicsView];
    Sig [] "translate" [PNumber cxx_qreal; PNumber cxx_qreal] RVoid [On QGraphicsView];
    Sig [] "type" [] RDouble [On QGraphicsProxyWidget; On QGraphicsTextItem; On QGraphicsWidget];
    Sig [ENUM_QT_GESTURETYPE] "ungrabGesture" [PValue Qt_GestureType] RVoid [On QGraphicsObject];
    Sig [ENUM_QT_GESTURETYPE] "unregisterRecognizer" [PValue Qt_GestureType] RVoid [Static
        QGestureRecognizer];
    Sig [] "unsetHotSpot" [] RVoid [On QGesture];
    Sig [] "unsetLayoutDirection" [] RVoid [On QGraphicsWidget];
    Sig [] "unsetSpacing" [] RVoid [On QGraphicsAnchor];
    Sig [] "unsetWindowFrameMargins" [] RVoid [On QGraphicsWidget];
    Sig [] "update" [] RVoid [On QGraphicsEffect]
  ].

Definition methods_qtwidgets_1_s328 : list signature_row :=
  [
    Sig [VALUE_TYPE_QTCORE_QRECTF] "update" [PValue QRectF] RVoid [On QGraphicsScene];
    Sig [] "update" [PNumber cxx_qreal; PNumber cxx_qreal; PNumber cxx_qreal; PNumber cxx_qreal] RVoid [On
        QGraphicsScene];
    Sig [VALUE_TYPE_QTCORE_QRECTF] "updateScene" [PList (IValue QRectF)] RVoid [On QGraphicsView];
    Sig [VALUE_TYPE_QTCORE_QRECTF] "updateSceneRect" [PValue QRectF] RVoid [On QGraphicsView];
    Sig [] "verticalSpacing" [] RDouble [On QFormLayout; On QGridLayout];
    Sig [TYPE_QTWIDGETS_QFILEDIALOG] "viewMode" [] (RMeta QFileDialog_ViewMode) [On QFileDialog];
    Sig [VALUE_TYPE_QTGUI_QTRANSFORM] "viewportTransform" [] (RValue QTransform) [On QGraphicsView];
    Sig [TYPE_QTWIDGETS_QGRAPHICSVIEW] "viewportUpdateMode" [] (RMeta QGraphicsView_ViewportUpdateMode) [On
        QGraphicsView];
    Sig [TYPE_QTWIDGETS_QGRAPHICSVIEW] "views" [] (RList (IObject QObject)) [On QGraphicsScene]
  ].

Definition methods_qtwidgets_1_s337 : list signature_row :=
  [
    Sig [TYPE_QTWIDGETS_QWIDGET] "widget" [] RObject [On QFocusFrame; On QGraphicsProxyWidget];
    Sig [] "width" [] RDouble [On QGraphicsScene];
    Sig [ENUM_QT_WINDOWFLAGS] "windowFlags" [] (RMeta Qt_WindowFlags) [On QGraphicsWidget];
    Sig [VALUE_TYPE_QTCORE_QRECTF] "windowFrameGeometry" [] (RValue QRectF) [On QGraphicsWidget];
    Sig [VALUE_TYPE_QTCORE_QRECTF] "windowFrameRect" [] (RValue QRectF) [On QGraphicsWidget];
    Sig [] "windowTitle" [] RString [On QGraphicsWidget];
    Sig [ENUM_QT_WINDOWTYPE] "windowType" [] (RMeta Qt_WindowType) [On QGraphicsWidget];
    Sig [TYPE_QTGUI_QFONTDATABASE] "writingSystem" [] (RMeta QFontDatabase_WritingSystem) [On
        QFontComboBox];
    Sig [] "xOffset" [] RDouble [On QGraphicsDropShadowEffect];
    Sig [] "xScale" [] RDouble [On QGraphicsScale];
    Sig [] "yOffset" [] RDouble [On QGraphicsDropShadowEffect]
  ].

Definition methods_qtwidgets_1_s348 : list signature_row :=
  [
    Sig [] "yScale" [] RDouble [On QGraphicsScale];
    Sig [] "zScale" [] RDouble [On QGraphicsScale]
  ].

Definition methods_qtwidgets_1 : method_shard :=
  MethodShard QtWidgets "KRY_QT6_NATIVE_METHODS_QTWIDGETS_"
    (methods_qtwidgets_1_i0 ++ methods_qtwidgets_1_i1)
    (methods_qtwidgets_1_s0 ++ methods_qtwidgets_1_s9 ++ methods_qtwidgets_1_s18 ++ methods_qtwidgets_1_s27
        ++ methods_qtwidgets_1_s36 ++ methods_qtwidgets_1_s45 ++ methods_qtwidgets_1_s54 ++
        methods_qtwidgets_1_s63 ++ methods_qtwidgets_1_s73 ++ methods_qtwidgets_1_s81 ++
        methods_qtwidgets_1_s92 ++ methods_qtwidgets_1_s101 ++ methods_qtwidgets_1_s109 ++
        methods_qtwidgets_1_s119 ++ methods_qtwidgets_1_s129 ++ methods_qtwidgets_1_s139 ++
        methods_qtwidgets_1_s149 ++ methods_qtwidgets_1_s158 ++ methods_qtwidgets_1_s168 ++
        methods_qtwidgets_1_s177 ++ methods_qtwidgets_1_s186 ++ methods_qtwidgets_1_s195 ++
        methods_qtwidgets_1_s203 ++ methods_qtwidgets_1_s211 ++ methods_qtwidgets_1_s220 ++
        methods_qtwidgets_1_s230 ++ methods_qtwidgets_1_s238 ++ methods_qtwidgets_1_s247 ++
        methods_qtwidgets_1_s255 ++ methods_qtwidgets_1_s263 ++ methods_qtwidgets_1_s272 ++
        methods_qtwidgets_1_s280 ++ methods_qtwidgets_1_s290 ++ methods_qtwidgets_1_s298 ++
        methods_qtwidgets_1_s308 ++ methods_qtwidgets_1_s318 ++ methods_qtwidgets_1_s328 ++
        methods_qtwidgets_1_s337 ++ methods_qtwidgets_1_s348)
    [].

Definition methods_qtwidgets_2_i0 : list include :=
  [
    ClassInclude QtWidgets QGroupBox QGroupBox;
    ClassInclude QtWidgets QHeaderView QHeaderView;
    ClassInclude QtWidgets QInputDialog QInputDialog;
    ClassInclude QtWidgets QItemDelegate QItemDelegate;
    ClassInclude QtWidgets QKeySequenceEdit QKeySequenceEdit;
    ClassInclude QtWidgets QLCDNumber QLCDNumber;
    ClassInclude QtWidgets QLabel QLabel;
    ClassInclude QtWidgets QLayout QLayout;
    ClassInclude QtWidgets QLineEdit QLineEdit;
    ClassInclude QtWidgets QListView QListView;
    ClassInclude QtWidgets QListWidget QListWidget;
    ClassInclude QtWidgets QMainWindow QMainWindow;
    ClassInclude QtWidgets QMdiArea QMdiArea;
    ClassInclude QtWidgets QMdiSubWindow QMdiSubWindow;
    ClassInclude QtWidgets QMenu QMenu;
    ClassInclude QtWidgets QMenuBar QMenuBar;
    ClassInclude QtWidgets QMessageBox QMessageBox;
    ClassInclude QtWidgets QPanGesture QPanGesture;
    ClassInclude QtWidgets QPinchGesture QPinchGesture;
    ClassInclude QtWidgets QPlainTextDocumentLayout QPlainTextDocumentLayout;
    ClassInclude QtWidgets QPlainTextEdit QPlainTextEdit;
    ClassInclude QtWidgets QProgressBar QProgressBar;
    ClassInclude QtWidgets QProgressDialog QProgressDialog;
    ClassInclude QtWidgets QProxyStyle QProxyStyle;
    TypeInclude QtCore QAbstractItemModel TYPE_QTCORE_QABSTRACTITEMMODEL;
    TypeInclude QtCore QItemSelectionModel TYPE_QTCORE_QITEMSELECTIONMODEL;
    TypeInclude QtGui QMovie TYPE_QTGUI_QMOVIE;
    TypeInclude QtGui QTextDocument TYPE_QTGUI_QTEXTDOCUMENT;
    TypeInclude QtGui QTextFrame TYPE_QTGUI_QTEXTFRAME;
    TypeInclude QtGui QValidator TYPE_QTGUI_QVALIDATOR;
    TypeInclude QtWidgets QAbstractButton TYPE_QTWIDGETS_QABSTRACTBUTTON;
    TypeInclude QtWidgets QApplication TYPE_QTWIDGETS_QAPPLICATION;
    TypeInclude QtWidgets QCheckBox TYPE_QTWIDGETS_QCHECKBOX;
    TypeInclude QtWidgets QCompleter TYPE_QTWIDGETS_QCOMPLETER;
    TypeInclude QtWidgets QDockWidget TYPE_QTWIDGETS_QDOCKWIDGET;
    TypeInclude QtWidgets QLabel TYPE_QTWIDGETS_QLABEL;
    TypeInclude QtWidgets QLayout TYPE_QTWIDGETS_QLAYOUT;
    TypeInclude QtWidgets QMdiArea TYPE_QTWIDGETS_QMDIAREA;
    TypeInclude QtWidgets QMdiSubWindow TYPE_QTWIDGETS_QMDISUBWINDOW;
    TypeInclude QtWidgets QMenu TYPE_QTWIDGETS_QMENU;
    TypeInclude QtWidgets QMenuBar TYPE_QTWIDGETS_QMENUBAR;
    TypeInclude QtWidgets QProgressBar TYPE_QTWIDGETS_QPROGRESSBAR;
    TypeInclude QtWidgets QPushButton TYPE_QTWIDGETS_QPUSHBUTTON;
    TypeInclude QtWidgets QStatusBar TYPE_QTWIDGETS_QSTATUSBAR;
    TypeInclude QtWidgets QStyle TYPE_QTWIDGETS_QSTYLE;
    TypeInclude QtWidgets QToolBar TYPE_QTWIDGETS_QTOOLBAR;
    TypeInclude QtWidgets QWidget TYPE_QTWIDGETS_QWIDGET;
    EnumDefine ENUM_QT_CORNER;
    EnumDefine ENUM_QT_CURSORMOVESTYLE;
    EnumDefine ENUM_QT_DOCKWIDGETAREA;
    EnumDefine ENUM_QT_DOCKWIDGETAREAS;
    EnumDefine ENUM_QT_DROPACTIONS;
    EnumDefine ENUM_QT_HITTESTACCURACY;
    EnumDefine ENUM_QT_INPUTMETHODQUERY;
    EnumDefine ENUM_QT_ORIENTATION;
    EnumDefine ENUM_QT_ORIENTATIONS;
    EnumDefine ENUM_QT_SORTORDER;
    EnumDefine ENUM_QT_TEXTFORMAT
  ].

Definition methods_qtwidgets_2_i1 : list include :=
  [
    EnumDefine ENUM_QT_TOOLBARAREA;
    EnumDefine ENUM_QT_TOOLBUTTONSTYLE;
    EnumDefine ENUM_QT_WINDOWFLAGS;
    EnumDefine ENUM_QT_WINDOWMODALITY;
    TypeInclude QtGui QTextCursor TYPE_QTGUI_QTEXTCURSOR;
    TypeInclude QtGui QTextOption TYPE_QTGUI_QTEXTOPTION;
    TypeInclude QtWidgets QAbstractItemView TYPE_QTWIDGETS_QABSTRACTITEMVIEW;
    TypeInclude QtWidgets QHeaderView TYPE_QTWIDGETS_QHEADERVIEW;
    TypeInclude QtWidgets QInputDialog TYPE_QTWIDGETS_QINPUTDIALOG;
    TypeInclude QtWidgets QLCDNumber TYPE_QTWIDGETS_QLCDNUMBER;
    TypeInclude QtWidgets QLayout TYPE_QTWIDGETS_QLAYOUT;
    TypeInclude QtWidgets QLineEdit TYPE_QTWIDGETS_QLINEEDIT;
    TypeInclude QtWidgets QListView TYPE_QTWIDGETS_QLISTVIEW;
    TypeInclude QtWidgets QMdiArea TYPE_QTWIDGETS_QMDIAREA;
    TypeInclude QtWidgets QMdiSubWindow TYPE_QTWIDGETS_QMDISUBWINDOW;
    TypeInclude QtWidgets QMessageBox TYPE_QTWIDGETS_QMESSAGEBOX;
    TypeInclude QtWidgets QPlainTextEdit TYPE_QTWIDGETS_QPLAINTEXTEDIT;
    TypeInclude QtWidgets QProgressBar TYPE_QTWIDGETS_QPROGRESSBAR;
    TypeInclude QtWidgets QSizePolicy TYPE_QTWIDGETS_QSIZEPOLICY;
    TypeInclude QtWidgets QTabWidget TYPE_QTWIDGETS_QTABWIDGET;
    TypeInclude QtCore QByteArray VALUE_TYPE_QTCORE_QBYTEARRAY;
    TypeInclude QtCore QKeyCombination VALUE_TYPE_QTCORE_QKEYCOMBINATION;
    TypeInclude QtCore QMargins VALUE_TYPE_QTCORE_QMARGINS;
    TypeInclude QtCore QModelIndex VALUE_TYPE_QTCORE_QMODELINDEX;
    TypeInclude QtCore QPoint VALUE_TYPE_QTCORE_QPOINT;
    TypeInclude QtCore QPointF VALUE_TYPE_QTCORE_QPOINTF;
    TypeInclude QtCore QRect VALUE_TYPE_QTCORE_QRECT;
    TypeInclude QtCore QRectF VALUE_TYPE_QTCORE_QRECTF;
    TypeInclude QtCore QSize VALUE_TYPE_QTCORE_QSIZE;
    TypeInclude QtCore QSizeF VALUE_TYPE_QTCORE_QSIZEF;
    TypeInclude QtCore QUrl VALUE_TYPE_QTCORE_QURL;
    TypeInclude QtGui QBrush VALUE_TYPE_QTGUI_QBRUSH;
    TypeInclude QtGui QFontMetrics VALUE_TYPE_QTGUI_QFONTMETRICS;
    TypeInclude QtGui QIcon VALUE_TYPE_QTGUI_QICON;
    TypeInclude QtGui QKeySequence VALUE_TYPE_QTGUI_QKEYSEQUENCE;
    TypeInclude QtGui QPalette VALUE_TYPE_QTGUI_QPALETTE;
    TypeInclude QtGui QPicture VALUE_TYPE_QTGUI_QPICTURE;
    TypeInclude QtGui QPixmap VALUE_TYPE_QTGUI_QPIXMAP;
    TypeInclude QtGui QTextBlock VALUE_TYPE_QTGUI_QTEXTBLOCK;
    TypeInclude QtGui QTextCharFormat VALUE_TYPE_QTGUI_QTEXTCHARFORMAT;
    TypeInclude QtGui QTextCursor VALUE_TYPE_QTGUI_QTEXTCURSOR;
    TypeInclude QtWidgets QStyleOptionViewItem VALUE_TYPE_QTWIDGETS_QSTYLEOPTIONVIEWITEM
  ].

Definition methods_qtwidgets_2_s0 : list signature_row :=
  [
    Sig [TYPE_QTWIDGETS_QWIDGET] "about" [PObject QWidget false; PString true; PString true] RVoid [Static
        QMessageBox];
    Sig [TYPE_QTWIDGETS_QWIDGET] "aboutQt" [PObject QWidget false; PString true] RVoid [Static QMessageBox];
    Sig [] "acceleration" [] RDouble [On QPanGesture];
    Sig [] "activate" [] RBool [On QLayout];
    Sig [] "activateNextSubWindow" [] RVoid [On QMdiArea];
    Sig [] "activatePreviousSubWindow" [] RVoid [On QMdiArea];
    Sig [TYPE_QTWIDGETS_QMDIAREA] "activationOrder" [] (RMeta QMdiArea_WindowOrder) [On QMdiArea];
    Sig [TYPE_QTWIDGETS_QMDISUBWINDOW] "activeSubWindow" [] RObject [On QMdiArea];
    Sig [TYPE_QTWIDGETS_QABSTRACTBUTTON; TYPE_QTWIDGETS_QMESSAGEBOX] "addButton" [PObject QAbstractButton
        false; PValue QMessageBox_ButtonRole] RVoid [On QMessageBox];
    Sig [TYPE_QTWIDGETS_QMESSAGEBOX; TYPE_QTWIDGETS_QPUSHBUTTON] "addButton" [PValue
        QMessageBox_StandardButton] RObject [On QMessageBox]
  ].

Definition methods_qtwidgets_2_s10 : list signature_row :=
  [
    Sig [TYPE_QTWIDGETS_QMESSAGEBOX; TYPE_QTWIDGETS_QPUSHBUTTON] "addButton" [PString true; PValue
        QMessageBox_ButtonRole] RObject [On QMessageBox];
    Sig [ENUM_QT_DOCKWIDGETAREA; TYPE_QTWIDGETS_QDOCKWIDGET] "addDockWidget" [PValue Qt_DockWidgetArea;
        PObject QDockWidget false] RVoid [On QMainWindow];
    Sig [ENUM_QT_DOCKWIDGETAREA; ENUM_QT_ORIENTATION; TYPE_QTWIDGETS_QDOCKWIDGET] "addDockWidget" [PValue
        Qt_DockWidgetArea; PObject QDockWidget false; PValue Qt_Orientation] RVoid [On QMainWindow];
    Sig [] "addItem" [PString true] RVoid [On QListWidget];
    Sig [] "addItems" [PStringList] RVoid [On QListWidget];
    Sig [TYPE_QTWIDGETS_QMENU; VALUE_TYPE_QTGUI_QICON] "addMenu" [PValue QIcon; PString true] RObject [On
        QMenu; On QMenuBar];
    Sig [TYPE_QTWIDGETS_QMENU] "addMenu" [PString true] RObject [On QMenu; On QMenuBar];
    Sig [ENUM_QT_WINDOWFLAGS; TYPE_QTWIDGETS_QMDISUBWINDOW; TYPE_QTWIDGETS_QWIDGET] "addSubWindow" [PObject
        QWidget false; PValue Qt_WindowFlags] RObject [On QMdiArea]
  ].

Definition methods_qtwidgets_2_s18 : list signature_row :=
  [
    Sig [TYPE_QTWIDGETS_QTOOLBAR] "addToolBar" [PString true] RObject [On QMainWindow];
    Sig [TYPE_QTWIDGETS_QTOOLBAR] "addToolBar" [PObject QToolBar false] RVoid [On QMainWindow];
    Sig [ENUM_QT_TOOLBARAREA; TYPE_QTWIDGETS_QTOOLBAR] "addToolBar" [PValue Qt_ToolBarArea; PObject
        QToolBar false] RVoid [On QMainWindow];
    Sig [ENUM_QT_TOOLBARAREA] "addToolBarBreak" [PValue Qt_ToolBarArea] RVoid [On QMainWindow];
    Sig [VALUE_TYPE_QTCORE_QPOINT] "anchorAt" [PValue QPoint] RString [On QPlainTextEdit];
    Sig [] "appendHtml" [PString true] RVoid [On QPlainTextEdit];
    Sig [] "appendPlainText" [PString true] RVoid [On QPlainTextEdit];
    Sig [] "autoClose" [] RBool [On QProgressDialog];
    Sig [] "autoReset" [] RBool [On QProgressDialog];
    Sig [VALUE_TYPE_QTGUI_QBRUSH] "background" [] (RValue QBrush) [On QMdiArea]
  ].

Definition methods_qtwidgets_2_s28 : list signature_row :=
  [
    Sig [] "backgroundVisible" [] RBool [On QPlainTextEdit];
    Sig [] "backspace" [] RVoid [On QLineEdit];
    Sig [TYPE_QTWIDGETS_QSTYLE] "baseStyle" [] RObject [On QProxyStyle];
    Sig [] "batchSize" [] RDouble [On QListView];
    Sig [VALUE_TYPE_QTCORE_QRECTF; VALUE_TYPE_QTGUI_QTEXTBLOCK] "blockBoundingRect" [PValue QTextBlock]
        (RValue QRectF) [On QPlainTextDocumentLayout];
    Sig [] "blockCount" [] RDouble [On QPlainTextEdit];
    Sig [TYPE_QTWIDGETS_QWIDGET] "buddy" [] RObject [On QLabel];
    Sig [TYPE_QTWIDGETS_QABSTRACTBUTTON; TYPE_QTWIDGETS_QMESSAGEBOX] "button" [PValue
        QMessageBox_StandardButton] RObject [On QMessageBox];
    Sig [TYPE_QTWIDGETS_QABSTRACTBUTTON; TYPE_QTWIDGETS_QMESSAGEBOX] "buttonRole" [PObject QAbstractButton
        false] (RMeta QMessageBox_ButtonRole) [On QMessageBox];
    Sig [TYPE_QTWIDGETS_QABSTRACTBUTTON] "buttons" [] (RList (IObject QObject)) [On QMessageBox];
    Sig [] "canPaste" [] RBool [On QPlainTextEdit]
  ].

Definition methods_qtwidgets_2_s39 : list signature_row :=
  [
    Sig [] "cancel" [] RVoid [On QProgressDialog];
    Sig [] "cancelButtonText" [] RString [On QInputDialog];
    Sig [] "cascadeSubWindows" [] RVoid [On QMdiArea];
    Sig [] "cascadingSectionResizes" [] RBool [On QHeaderView];
    Sig [] "centerCursor" [] RVoid [On QPlainTextEdit];
    Sig [] "centerOnScroll" [] RBool [On QPlainTextEdit];
    Sig [VALUE_TYPE_QTCORE_QPOINTF] "centerPoint" [] (RValue QPointF) [On QPinchGesture];
    Sig [TYPE_QTWIDGETS_QWIDGET] "centralWidget" [] RObject [On QMainWindow];
    Sig [TYPE_QTWIDGETS_QCHECKBOX] "checkBox" [] RObject [On QMessageBox];
    Sig [] "checkOverflow" [PNumber cxx_double] RBool [On QLCDNumber];
    Sig [] "checkOverflow" [PInt] RBool [On QLCDNumber]
  ].

Definition methods_qtwidgets_2_s50 : list signature_row :=
  [
    Sig [] "clear" [] RVoid [On QKeySequenceEdit; On QLabel; On QLineEdit; On QListWidget; On QMenu; On
        QMenuBar; On QPlainTextEdit];
    Sig [] "clearPropertyFlags" [] RVoid [On QListView];
    Sig [TYPE_QTWIDGETS_QABSTRACTBUTTON] "clickedButton" [] RObject [On QMessageBox];
    Sig [] "closeActiveSubWindow" [] RVoid [On QMdiArea];
    Sig [] "closeAllSubWindows" [] RVoid [On QMdiArea];
    Sig [TYPE_QTWIDGETS_QWIDGET; VALUE_TYPE_QTCORE_QSIZE] "closestAcceptableSize" [PObject QWidget false;
        PValue QSize] (RValue QSize) [Static QLayout];
    Sig [] "comboBoxItems" [] (RList (IMeta QString)) [On QInputDialog];
    Sig [TYPE_QTWIDGETS_QCOMPLETER] "completer" [] RObject [On QLineEdit]
  ].

Definition methods_qtwidgets_2_s58 : list signature_row :=
  [
    Sig [VALUE_TYPE_QTCORE_QMARGINS] "contentsMargins" [] (RValue QMargins) [On QLayout];
    Sig [VALUE_TYPE_QTCORE_QRECT] "contentsRect" [] (RValue QRect) [On QLayout];
    Sig [TYPE_QTWIDGETS_QSIZEPOLICY] "controlTypes" [] (RMeta QSizePolicy_ControlTypes) [On QLayout];
    Sig [] "copy" [] RVoid [On QLineEdit; On QPlainTextEdit];
    Sig [ENUM_QT_CORNER; ENUM_QT_DOCKWIDGETAREA] "corner" [PValue Qt_Corner] (RMeta Qt_DockWidgetArea) [On
        QMainWindow];
    Sig [ENUM_QT_CORNER; TYPE_QTWIDGETS_QWIDGET] "cornerWidget" [PValue Qt_Corner] RObject [On QMenuBar];
    Sig [] "count" [] RDouble [On QHeaderView; On QListWidget];
    Sig [TYPE_QTWIDGETS_QWIDGET; VALUE_TYPE_QTCORE_QMODELINDEX; VALUE_TYPE_QTWIDGETS_QSTYLEOPTIONVIEWITEM]
        "createEditor" [PObject QWidget false; PValue QStyleOptionViewItem; PValue QModelIndex] RObject [On
        QItemDelegate];
    Sig [TYPE_QTWIDGETS_QMENU] "createPopupMenu" [] RObject [On QMainWindow]
  ].

Definition methods_qtwidgets_2_s67 : list signature_row :=
  [
    Sig [TYPE_QTWIDGETS_QMENU] "createStandardContextMenu" [] RObject [On QLineEdit; On QPlainTextEdit];
    Sig [TYPE_QTWIDGETS_QMENU; VALUE_TYPE_QTCORE_QPOINT] "createStandardContextMenu" [PValue QPoint]
        RObject [On QPlainTextEdit];
    Sig [TYPE_QTWIDGETS_QMESSAGEBOX; TYPE_QTWIDGETS_QWIDGET] "critical" [PObject QWidget false; PString
        true; PString true; PValue QMessageBox_StandardButtons; PValue QMessageBox_StandardButton] (RMeta
        QMessageBox_StandardButton) [Static QMessageBox];
    Sig [VALUE_TYPE_QTGUI_QTEXTCHARFORMAT] "currentCharFormat" [] (RValue QTextCharFormat) [On
        QPlainTextEdit];
    Sig [] "currentRow" [] RDouble [On QListWidget];
    Sig [TYPE_QTWIDGETS_QMDISUBWINDOW] "currentSubWindow" [] RObject [On QMdiArea];
    Sig [] "cursorBackward" [PBool; PInt] RVoid [On QLineEdit];
    Sig [VALUE_TYPE_QTCORE_QPOINT; VALUE_TYPE_QTGUI_QTEXTCURSOR] "cursorForPosition" [PValue QPoint]
        (RValue QTextCursor) [On QPlainTextEdit];
    Sig [] "cursorForward" [PBool; PInt] RVoid [On QLineEdit]
  ].

Definition methods_qtwidgets_2_s76 : list signature_row :=
  [
    Sig [ENUM_QT_CURSORMOVESTYLE] "cursorMoveStyle" [] (RMeta Qt_CursorMoveStyle) [On QLineEdit];
    Sig [] "cursorPosition" [] RDouble [On QLineEdit];
    Sig [VALUE_TYPE_QTCORE_QPOINT] "cursorPositionAt" [PValue QPoint] RDouble [On QLineEdit];
    Sig [VALUE_TYPE_QTCORE_QRECT] "cursorRect" [] (RValue QRect) [On QPlainTextEdit];
    Sig [VALUE_TYPE_QTCORE_QRECT; VALUE_TYPE_QTGUI_QTEXTCURSOR] "cursorRect" [PValue QTextCursor] (RValue
        QRect) [On QPlainTextEdit];
    Sig [] "cursorWidth" [] RDouble [On QPlainTextDocumentLayout; On QPlainTextEdit];
    Sig [] "cursorWordBackward" [PBool] RVoid [On QLineEdit];
    Sig [] "cursorWordForward" [PBool] RVoid [On QLineEdit];
    Sig [] "cut" [] RVoid [On QLineEdit; On QPlainTextEdit];
    Sig [TYPE_QTWIDGETS_QPUSHBUTTON] "defaultButton" [] RObject [On QMessageBox]
  ].

Definition methods_qtwidgets_2_s86 : list signature_row :=
  [
    Sig [] "defaultSectionSize" [] RDouble [On QHeaderView];
    Sig [VALUE_TYPE_QTCORE_QPOINTF] "delta" [] (RValue QPointF) [On QPanGesture];
    Sig [] "deselect" [] RVoid [On QLineEdit];
    Sig [] "detailedText" [] RString [On QMessageBox];
    Sig [] "digitCount" [] RDouble [On QLCDNumber];
    Sig [] "display" [PString true] RVoid [On QLCDNumber];
    Sig [] "display" [PNumber cxx_double] RVoid [On QLCDNumber];
    Sig [] "display" [PInt] RVoid [On QLCDNumber];
    Sig [] "displayText" [] RString [On QLineEdit];
    Sig [ENUM_QT_DOCKWIDGETAREA; TYPE_QTWIDGETS_QDOCKWIDGET] "dockWidgetArea" [PObject QDockWidget false]
        (RMeta Qt_DockWidgetArea) [On QMainWindow];
    Sig [TYPE_QTGUI_QTEXTDOCUMENT] "document" [] RObject [On QPlainTextEdit]
  ].

Definition methods_qtwidgets_2_s97 : list signature_row :=
  [
    Sig [] "documentMode" [] RBool [On QMainWindow; On QMdiArea];
    Sig [VALUE_TYPE_QTCORE_QSIZEF] "documentSize" [] (RValue QSizeF) [On QPlainTextDocumentLayout];
    Sig [] "documentTitle" [] RString [On QPlainTextEdit];
    Sig [] "done" [PInt] RVoid [On QInputDialog];
    Sig [] "doubleDecimals" [] RDouble [On QInputDialog];
    Sig [] "doubleMaximum" [] RDouble [On QInputDialog];
    Sig [] "doubleMinimum" [] RDouble [On QInputDialog];
    Sig [] "doubleStep" [] RDouble [On QInputDialog];
    Sig [] "doubleValue" [] RDouble [On QInputDialog];
    Sig [] "dragEnabled" [] RBool [On QLineEdit];
    Sig [TYPE_QTWIDGETS_QLINEEDIT] "echoMode" [] (RMeta QLineEdit_EchoMode) [On QLineEdit]
  ].

Definition methods_qtwidgets_2_s108 : list signature_row :=
  [
    Sig [] "end" [PBool] RVoid [On QLineEdit];
    Sig [VALUE_TYPE_QTGUI_QTEXTBLOCK] "ensureBlockLayout" [PValue QTextBlock] RVoid [On
        QPlainTextDocumentLayout];
    Sig [] "ensureCursorVisible" [] RVoid [On QPlainTextEdit];
    Sig [TYPE_QTWIDGETS_QABSTRACTBUTTON] "escapeButton" [] RObject [On QMessageBox];
    Sig [ENUM_QT_ORIENTATIONS] "expandingDirections" [] (RMeta Qt_Orientations) [On QLayout];
    Sig [VALUE_TYPE_QTCORE_QKEYCOMBINATION] "finishingKeyCombinations" [] (RList (IValue QKeyCombination))
        [On QKeySequenceEdit];
    Sig [TYPE_QTWIDGETS_QLISTVIEW] "flow" [] (RMeta QListView_Flow) [On QListView];
    Sig [] "format" [] RString [On QProgressBar];
    Sig [TYPE_QTGUI_QTEXTFRAME; VALUE_TYPE_QTCORE_QRECTF] "frameBoundingRect" [PObject QTextFrame false]
        (RValue QRectF) [On QPlainTextDocumentLayout];
    Sig [VALUE_TYPE_QTCORE_QRECT] "geometry" [] (RValue QRect) [On QLayout]
  ].

Definition methods_qtwidgets_2_s118 : list signature_row :=
  [
    Sig [VALUE_TYPE_QTCORE_QSIZE] "gridSize" [] (RValue QSize) [On QListView];
    Sig [] "hasAcceptableInput" [] RBool [On QLineEdit];
    Sig [] "hasClipping" [] RBool [On QItemDelegate];
    Sig [] "hasFrame" [] RBool [On QLineEdit];
    Sig [] "hasScaledContents" [] RBool [On QLabel];
    Sig [] "hasSelectedText" [] RBool [On QLabel; On QLineEdit];
    Sig [ENUM_QT_ORIENTATION] "headerDataChanged" [PValue Qt_Orientation; PInt; PInt] RVoid [On
        QHeaderView];
    Sig [] "heightForWidth" [PInt] RDouble [On QLabel; On QMenuBar];
    Sig [] "hiddenSectionCount" [] RDouble [On QHeaderView];
    Sig [] "hideSection" [PInt] RVoid [On QHeaderView]
  ].

Definition methods_qtwidgets_2_s128 : list signature_row :=
  [
    Sig [] "hideTearOffMenu" [] RVoid [On QMenu];
    Sig [] "highlightSections" [] RBool [On QHeaderView];
    Sig [ENUM_QT_HITTESTACCURACY; VALUE_TYPE_QTCORE_QPOINTF] "hitTest" [PValue QPointF; PValue
        Qt_HitTestAccuracy] RDouble [On QPlainTextDocumentLayout];
    Sig [] "home" [PBool] RVoid [On QLineEdit];
    Sig [TYPE_QTWIDGETS_QLAYOUT] "horizontalSizeConstraint" [] (RMeta QLayout_SizeConstraint) [On QLayout];
    Sig [VALUE_TYPE_QTGUI_QICON] "icon" [] (RValue QIcon) [On QMenu];
    Sig [TYPE_QTWIDGETS_QMESSAGEBOX] "icon" [] (RMeta QMessageBox_Icon) [On QMessageBox];
    Sig [VALUE_TYPE_QTGUI_QPIXMAP] "iconPixmap" [] (RValue QPixmap) [On QMessageBox];
    Sig [VALUE_TYPE_QTCORE_QSIZE] "iconSize" [] (RValue QSize) [On QMainWindow];
    Sig [] "indent" [] RDouble [On QLabel]
  ].

Definition methods_qtwidgets_2_s138 : list signature_row :=
  [
    Sig [VALUE_TYPE_QTCORE_QMODELINDEX; VALUE_TYPE_QTCORE_QPOINT] "indexAt" [PValue QPoint] (RValue
        QModelIndex) [On QListView];
    Sig [TYPE_QTWIDGETS_QWIDGET] "indexOf" [PObject QWidget false] RDouble [On QLayout];
    Sig [TYPE_QTWIDGETS_QMESSAGEBOX; TYPE_QTWIDGETS_QWIDGET] "information" [PObject QWidget false; PString
        true; PString true; PValue QMessageBox_StandardButtons; PValue QMessageBox_StandardButton] (RMeta
        QMessageBox_StandardButton) [Static QMessageBox];
    Sig [] "informativeText" [] RString [On QMessageBox];
    Sig [] "inputMask" [] RString [On QLineEdit];
    Sig [ENUM_QT_INPUTMETHODQUERY] "inputMethodQuery" [PValue Qt_InputMethodQuery] RVariant [On QLineEdit;
        On QPlainTextEdit];
    Sig [ENUM_QT_INPUTMETHODQUERY] "inputMethodQuery" [PValue Qt_InputMethodQuery; PVariant] RVariant [On
        QLineEdit; On QPlainTextEdit];
    Sig [TYPE_QTWIDGETS_QINPUTDIALOG] "inputMode" [] (RMeta QInputDialog_InputMode) [On QInputDialog];
    Sig [] "insert" [PString true] RVoid [On QLineEdit]
  ].

Definition methods_qtwidgets_2_s147 : list signature_row :=
  [
    Sig [] "insertItem" [PInt; PString true] RVoid [On QListWidget];
    Sig [] "insertItems" [PInt; PStringList] RVoid [On QListWidget];
    Sig [] "insertPlainText" [PString true] RVoid [On QPlainTextEdit];
    Sig [TYPE_QTWIDGETS_QTOOLBAR] "insertToolBar" [PObject QToolBar false; PObject QToolBar false] RVoid
        [On QMainWindow];
    Sig [TYPE_QTWIDGETS_QTOOLBAR] "insertToolBarBreak" [PObject QToolBar false] RVoid [On QMainWindow];
    Sig [] "intMaximum" [] RDouble [On QInputDialog];
    Sig [] "intMinimum" [] RDouble [On QInputDialog];
    Sig [] "intStep" [] RDouble [On QInputDialog];
    Sig [] "intValue" [] RDouble [On QInputDialog; On QLCDNumber];
    Sig [] "invalidate" [] RVoid [On QLayout]
  ].

Definition methods_qtwidgets_2_s157 : list signature_row :=
  [
    Sig [] "isAnimated" [] RBool [On QMainWindow];
    Sig [] "isCheckable" [] RBool [On QGroupBox];
    Sig [] "isChecked" [] RBool [On QGroupBox];
    Sig [] "isClearButtonEnabled" [] RBool [On QKeySequenceEdit; On QLineEdit];
    Sig [] "isComboBoxEditable" [] RBool [On QInputDialog];
    Sig [] "isDefaultUp" [] RBool [On QMenuBar];
    Sig [] "isDockNestingEnabled" [] RBool [On QMainWindow];
    Sig [] "isEmpty" [] RBool [On QLayout; On QMenu];
    Sig [] "isEnabled" [] RBool [On QLayout];
    Sig [] "isFirstSectionMovable" [] RBool [On QHeaderView];
    Sig [] "isFlat" [] RBool [On QGroupBox];
    Sig [] "isModified" [] RBool [On QLineEdit]
  ].

Definition methods_qtwidgets_2_s169 : list signature_row :=
  [
    Sig [] "isNativeMenuBar" [] RBool [On QMenuBar];
    Sig [] "isReadOnly" [] RBool [On QLineEdit; On QPlainTextEdit];
    Sig [] "isRedoAvailable" [] RBool [On QLineEdit];
    Sig [] "isRowHidden" [PInt] RBool [On QListView];
    Sig [] "isSectionHidden" [PInt] RBool [On QHeaderView];
    Sig [] "isSelectionRectVisible" [] RBool [On QListView];
    Sig [VALUE_TYPE_QTCORE_QPOINT] "isSeparator" [PValue QPoint] RBool [On QMainWindow];
    Sig [] "isShaded" [] RBool [On QMdiSubWindow];
    Sig [] "isSortIndicatorClearable" [] RBool [On QHeaderView];
    Sig [] "isSortIndicatorShown" [] RBool [On QHeaderView];
    Sig [] "isSortingEnabled" [] RBool [On QListWidget];
    Sig [] "isTearOffEnabled" [] RBool [On QMenu]
  ].

Definition methods_qtwidgets_2_s181 : list signature_row :=
  [
    Sig [] "isTearOffMenuVisible" [] RBool [On QMenu];
    Sig [] "isTextVisible" [] RBool [On QProgressBar];
    Sig [] "isUndoAvailable" [] RBool [On QLineEdit];
    Sig [] "isUndoRedoEnabled" [] RBool [On QPlainTextEdit];
    Sig [] "isWrapping" [] RBool [On QListView];
    Sig [VALUE_TYPE_QTCORE_QRECT; VALUE_TYPE_QTGUI_QPIXMAP] "itemPixmapRect" [PValue QRect; PInt; PValue
        QPixmap] (RValue QRect) [On QProxyStyle];
    Sig [VALUE_TYPE_QTCORE_QRECT; VALUE_TYPE_QTGUI_QFONTMETRICS] "itemTextRect" [PValue QFontMetrics;
        PValue QRect; PInt; PBool; PString true] (RValue QRect) [On QProxyStyle];
    Sig [VALUE_TYPE_QTGUI_QKEYSEQUENCE] "keySequence" [] (RValue QKeySequence) [On QKeySequenceEdit];
    Sig [] "keyboardPageStep" [] RDouble [On QMdiSubWindow];
    Sig [] "keyboardSingleStep" [] RDouble [On QMdiSubWindow]
  ].

Definition methods_qtwidgets_2_s191 : list signature_row :=
  [
    Sig [] "labelText" [] RString [On QInputDialog; On QProgressDialog];
    Sig [VALUE_TYPE_QTCORE_QPOINTF] "lastCenterPoint" [] (RValue QPointF) [On QPinchGesture];
    Sig [VALUE_TYPE_QTCORE_QPOINTF] "lastOffset" [] (RValue QPointF) [On QPanGesture];
    Sig [] "lastRotationAngle" [] RDouble [On QPinchGesture];
    Sig [] "lastScaleFactor" [] RDouble [On QPinchGesture];
    Sig [TYPE_QTWIDGETS_QLAYOUT] "layout" [] RObject [On QLayout];
    Sig [TYPE_QTWIDGETS_QLISTVIEW] "layoutMode" [] (RMeta QListView_LayoutMode) [On QListView];
    Sig [] "length" [] RDouble [On QHeaderView];
    Sig [TYPE_QTWIDGETS_QPLAINTEXTEDIT] "lineWrapMode" [] (RMeta QPlainTextEdit_LineWrapMode) [On
        QPlainTextEdit];
    Sig [VALUE_TYPE_QTCORE_QURL] "loadResource" [PInt; PValue QUrl] RVariant [On QPlainTextEdit];
    Sig [] "logicalIndex" [PInt] RDouble [On QHeaderView]
  ].

Definition methods_qtwidgets_2_s202 : list signature_row :=
  [
    Sig [VALUE_TYPE_QTCORE_QPOINT] "logicalIndexAt" [PValue QPoint] RDouble [On QHeaderView];
    Sig [] "logicalIndexAt" [PInt] RDouble [On QHeaderView];
    Sig [] "logicalIndexAt" [PInt; PInt] RDouble [On QHeaderView];
    Sig [] "margin" [] RDouble [On QLabel];
    Sig [] "maxLength" [] RDouble [On QLineEdit];
    Sig [] "maximum" [] RDouble [On QProgressBar; On QProgressDialog];
    Sig [] "maximumBlockCount" [] RDouble [On QPlainTextEdit];
    Sig [] "maximumSectionSize" [] RDouble [On QHeaderView];
    Sig [] "maximumSequenceLength" [] (RMeta cxx_qsizetype) [On QKeySequenceEdit];
    Sig [VALUE_TYPE_QTCORE_QSIZE] "maximumSize" [] (RValue QSize) [On QLayout];
    Sig [TYPE_QTWIDGETS_QMDIAREA] "mdiArea" [] RObject [On QMdiSubWindow]
  ].

Definition methods_qtwidgets_2_s213 : list signature_row :=
  [
    Sig [TYPE_QTWIDGETS_QMENUBAR] "menuBar" [] RObject [On QMainWindow];
    Sig [TYPE_QTWIDGETS_QWIDGET] "menuBar" [] RObject [On QLayout];
    Sig [TYPE_QTWIDGETS_QWIDGET] "menuWidget" [] RObject [On QMainWindow];
    Sig [VALUE_TYPE_QTGUI_QTEXTCHARFORMAT] "mergeCurrentCharFormat" [PValue QTextCharFormat] RVoid [On
        QPlainTextEdit];
    Sig [] "minimum" [] RDouble [On QProgressBar; On QProgressDialog];
    Sig [] "minimumDuration" [] RDouble [On QProgressDialog];
    Sig [] "minimumSectionSize" [] RDouble [On QHeaderView];
    Sig [VALUE_TYPE_QTCORE_QSIZE] "minimumSize" [] (RValue QSize) [On QLayout]
  ].

Definition methods_qtwidgets_2_s221 : list signature_row :=
  [
    Sig [VALUE_TYPE_QTCORE_QSIZE] "minimumSizeHint" [] (RValue QSize) [On QGroupBox; On QInputDialog; On
        QLabel; On QLineEdit; On QMdiArea; On QMdiSubWindow; On QMenuBar; On QProgressBar];
    Sig [TYPE_QTWIDGETS_QLCDNUMBER] "mode" [] (RMeta QLCDNumber_Mode) [On QLCDNumber];
    Sig [] "modelColumn" [] RDouble [On QListView];
    Sig [TYPE_QTGUI_QTEXTCURSOR] "moveCursor" [PValue QTextCursor_MoveOperation; PValue
        QTextCursor_MoveMode] RVoid [On QPlainTextEdit];
    Sig [] "moveSection" [PInt; PInt] RVoid [On QHeaderView];
    Sig [TYPE_QTWIDGETS_QLISTVIEW] "movement" [] (RMeta QListView_Movement) [On QListView];
    Sig [TYPE_QTGUI_QMOVIE] "movie" [] RObject [On QLabel]
  ].

Definition methods_qtwidgets_2_s228 : list signature_row :=
  [
    Sig [VALUE_TYPE_QTCORE_QPOINTF] "offset" [] (RValue QPointF) [On QPanGesture];
    Sig [] "offset" [] RDouble [On QHeaderView];
    Sig [] "okButtonText" [] RString [On QInputDialog];
    Sig [] "open" [] RVoid [On QInputDialog; On QMessageBox; On QProgressDialog];
    Sig [] "openExternalLinks" [] RBool [On QLabel];
    Sig [TYPE_QTWIDGETS_QINPUTDIALOG] "options" [] (RMeta QInputDialog_InputDialogOptions) [On
        QInputDialog];
    Sig [TYPE_QTWIDGETS_QMESSAGEBOX] "options" [] (RMeta QMessageBox_Options) [On QMessageBox];
    Sig [ENUM_QT_ORIENTATION] "orientation" [] (RMeta Qt_Orientation) [On QHeaderView; On QProgressBar];
    Sig [] "overwriteMode" [] RBool [On QPlainTextEdit];
    Sig [] "pageCount" [] RDouble [On QPlainTextDocumentLayout];
    Sig [TYPE_QTWIDGETS_QWIDGET] "parentWidget" [] RObject [On QLayout]
  ].

Definition methods_qtwidgets_2_s239 : list signature_row :=
  [
    Sig [] "paste" [] RVoid [On QLineEdit; On QPlainTextEdit];
    Sig [VALUE_TYPE_QTGUI_QPICTURE] "picture" [] (RValue QPicture) [On QLabel];
    Sig [VALUE_TYPE_QTGUI_QPIXMAP] "pixmap" [] (RValue QPixmap) [On QLabel];
    Sig [] "placeholderText" [] RString [On QLineEdit; On QPlainTextEdit];
    Sig [TYPE_QTWIDGETS_QAPPLICATION] "polish" [PObject QApplication false] RVoid [On QProxyStyle];
    Sig [TYPE_QTWIDGETS_QWIDGET] "polish" [PObject QWidget false] RVoid [On QProxyStyle];
    Sig [TYPE_QTWIDGETS_QMESSAGEBOX; TYPE_QTWIDGETS_QWIDGET] "question" [PObject QWidget false; PString
        true; PString true; PValue QMessageBox_StandardButtons; PValue QMessageBox_StandardButton] (RMeta
        QMessageBox_StandardButton) [Static QMessageBox];
    Sig [] "redo" [] RVoid [On QLineEdit; On QPlainTextEdit]
  ].

Definition methods_qtwidgets_2_s247 : list signature_row :=
  [
    Sig [TYPE_QTWIDGETS_QABSTRACTBUTTON] "removeButton" [PObject QAbstractButton false] RVoid [On
        QMessageBox];
    Sig [TYPE_QTWIDGETS_QDOCKWIDGET] "removeDockWidget" [PObject QDockWidget false] RVoid [On QMainWindow];
    Sig [TYPE_QTWIDGETS_QTOOLBAR] "removeToolBar" [PObject QToolBar false] RVoid [On QMainWindow];
    Sig [TYPE_QTWIDGETS_QTOOLBAR] "removeToolBarBreak" [PObject QToolBar false] RVoid [On QMainWindow];
    Sig [TYPE_QTWIDGETS_QWIDGET] "removeWidget" [PObject QWidget false] RVoid [On QLayout];
    Sig [] "requestUpdate" [] RVoid [On QPlainTextDocumentLayout];
    Sig [] "reset" [] RVoid [On QHeaderView; On QListView; On QProgressBar; On QProgressDialog];
    Sig [] "resetDefaultSectionSize" [] RVoid [On QHeaderView];
    Sig [] "resetFormat" [] RVoid [On QProgressBar]
  ].

Definition methods_qtwidgets_2_s256 : list signature_row :=
  [
    Sig [] "resizeContentsPrecision" [] RDouble [On QHeaderView];
    Sig [ENUM_QT_ORIENTATION; TYPE_QTWIDGETS_QDOCKWIDGET] "resizeDocks" [PList (IObject QDockWidget); PList
        (IMeta cxx_int); PValue Qt_Orientation] RVoid [On QMainWindow];
    Sig [TYPE_QTWIDGETS_QLISTVIEW] "resizeMode" [] (RMeta QListView_ResizeMode) [On QListView];
    Sig [] "resizeSection" [PInt; PInt] RVoid [On QHeaderView];
    Sig [TYPE_QTWIDGETS_QHEADERVIEW] "resizeSections" [PValue QHeaderView_ResizeMode] RVoid [On
        QHeaderView];
    Sig [TYPE_QTWIDGETS_QDOCKWIDGET] "restoreDockWidget" [PObject QDockWidget false] RBool [On QMainWindow];
    Sig [VALUE_TYPE_QTCORE_QBYTEARRAY] "restoreState" [PValue QByteArray] RBool [On QHeaderView];
    Sig [VALUE_TYPE_QTCORE_QBYTEARRAY] "restoreState" [PValue QByteArray; PInt] RBool [On QMainWindow];
    Sig [] "rotationAngle" [] RDouble [On QPinchGesture]
  ].

Definition methods_qtwidgets_2_s265 : list signature_row :=
  [
    Sig [VALUE_TYPE_QTCORE_QBYTEARRAY] "saveState" [] (RValue QByteArray) [On QHeaderView];
    Sig [VALUE_TYPE_QTCORE_QBYTEARRAY] "saveState" [PInt] (RValue QByteArray) [On QMainWindow];
    Sig [] "scaleFactor" [] RDouble [On QPinchGesture];
    Sig [TYPE_QTWIDGETS_QABSTRACTITEMVIEW; VALUE_TYPE_QTCORE_QMODELINDEX] "scrollTo" [PValue QModelIndex;
        PValue QAbstractItemView_ScrollHint] RVoid [On QListView];
    Sig [] "sectionPosition" [PInt] RDouble [On QHeaderView];
    Sig [TYPE_QTWIDGETS_QHEADERVIEW] "sectionResizeMode" [PInt] (RMeta QHeaderView_ResizeMode) [On
        QHeaderView];
    Sig [] "sectionSize" [PInt] RDouble [On QHeaderView];
    Sig [] "sectionSizeHint" [PInt] RDouble [On QHeaderView];
    Sig [] "sectionViewportPosition" [PInt] RDouble [On QHeaderView];
    Sig [] "sectionsClickable" [] RBool [On QHeaderView]
  ].

Definition methods_qtwidgets_2_s275 : list signature_row :=
  [
    Sig [] "sectionsHidden" [] RBool [On QHeaderView];
    Sig [] "sectionsMovable" [] RBool [On QHeaderView];
    Sig [] "sectionsMoved" [] RBool [On QHeaderView];
    Sig [TYPE_QTWIDGETS_QLCDNUMBER] "segmentStyle" [] (RMeta QLCDNumber_SegmentStyle) [On QLCDNumber];
    Sig [] "selectAll" [] RVoid [On QLineEdit; On QPlainTextEdit];
    Sig [] "selectedText" [] RString [On QLabel; On QLineEdit];
    Sig [] "selectionEnd" [] RDouble [On QLineEdit];
    Sig [] "selectionLength" [] RDouble [On QLineEdit];
    Sig [] "selectionStart" [] RDouble [On QLabel; On QLineEdit];
    Sig [] "separatorsCollapsible" [] RBool [On QMenu];
    Sig [] "setAcceleration" [PNumber cxx_qreal] RVoid [On QPanGesture]
  ].

Definition methods_qtwidgets_2_s286 : list signature_row :=
  [
    Sig [TYPE_QTWIDGETS_QMDIAREA] "setActivationOrder" [PValue QMdiArea_WindowOrder] RVoid [On QMdiArea];
    Sig [TYPE_QTWIDGETS_QMDISUBWINDOW] "setActiveSubWindow" [PObject QMdiSubWindow false] RVoid [On
        QMdiArea];
    Sig [] "setAlignment" [PInt] RVoid [On QGroupBox];
    Sig [] "setAnimated" [PBool] RVoid [On QMainWindow];
    Sig [] "setAutoClose" [PBool] RVoid [On QProgressDialog];
    Sig [] "setAutoReset" [PBool] RVoid [On QProgressDialog];
    Sig [VALUE_TYPE_QTGUI_QBRUSH] "setBackground" [PValue QBrush] RVoid [On QMdiArea];
    Sig [] "setBackgroundVisible" [PBool] RVoid [On QPlainTextEdit];
    Sig [TYPE_QTWIDGETS_QPROGRESSBAR] "setBar" [PObject QProgressBar false] RVoid [On QProgressDialog];
    Sig [TYPE_QTWIDGETS_QSTYLE] "setBaseStyle" [PObject QStyle false] RVoid [On QProxyStyle]
  ].

Definition methods_qtwidgets_2_s296 : list signature_row :=
  [
    Sig [] "setBatchSize" [PInt] RVoid [On QListView];
    Sig [] "setBinMode" [] RVoid [On QLCDNumber];
    Sig [TYPE_QTWIDGETS_QWIDGET] "setBuddy" [PObject QWidget false] RVoid [On QLabel];
    Sig [TYPE_QTWIDGETS_QPUSHBUTTON] "setCancelButton" [PObject QPushButton false] RVoid [On
        QProgressDialog];
    Sig [] "setCancelButtonText" [PString true] RVoid [On QInputDialog; On QProgressDialog];
    Sig [] "setCascadingSectionResizes" [PBool] RVoid [On QHeaderView];
    Sig [] "setCenterOnScroll" [PBool] RVoid [On QPlainTextEdit];
    Sig [VALUE_TYPE_QTCORE_QPOINTF] "setCenterPoint" [PValue QPointF] RVoid [On QPinchGesture];
    Sig [TYPE_QTWIDGETS_QWIDGET] "setCentralWidget" [PObject QWidget false] RVoid [On QMainWindow]
  ].

Definition methods_qtwidgets_2_s305 : list signature_row :=
  [
    Sig [TYPE_QTWIDGETS_QCHECKBOX] "setCheckBox" [PObject QCheckBox false] RVoid [On QMessageBox];
    Sig [] "setCheckable" [PBool] RVoid [On QGroupBox];
    Sig [] "setChecked" [PBool] RVoid [On QGroupBox];
    Sig [] "setClearButtonEnabled" [PBool] RVoid [On QKeySequenceEdit; On QLineEdit];
    Sig [] "setClipping" [PBool] RVoid [On QItemDelegate];
    Sig [] "setComboBoxEditable" [PBool] RVoid [On QInputDialog];
    Sig [] "setComboBoxItems" [PStringList] RVoid [On QInputDialog];
    Sig [TYPE_QTWIDGETS_QCOMPLETER] "setCompleter" [PObject QCompleter false] RVoid [On QLineEdit];
    Sig [VALUE_TYPE_QTCORE_QMARGINS] "setContentsMargins" [PValue QMargins] RVoid [On QLayout]
  ].

Definition methods_qtwidgets_2_s314 : list signature_row :=
  [
    Sig [] "setContentsMargins" [PInt; PInt; PInt; PInt] RVoid [On QLayout];
    Sig [ENUM_QT_CORNER; ENUM_QT_DOCKWIDGETAREA] "setCorner" [PValue Qt_Corner; PValue Qt_DockWidgetArea]
        RVoid [On QMainWindow];
    Sig [ENUM_QT_CORNER; TYPE_QTWIDGETS_QWIDGET] "setCornerWidget" [PObject QWidget false; PValue
        Qt_Corner] RVoid [On QMenuBar];
    Sig [VALUE_TYPE_QTGUI_QTEXTCHARFORMAT] "setCurrentCharFormat" [PValue QTextCharFormat] RVoid [On
        QPlainTextEdit];
    Sig [] "setCurrentRow" [PInt] RVoid [On QListWidget];
    Sig [ENUM_QT_CURSORMOVESTYLE] "setCursorMoveStyle" [PValue Qt_CursorMoveStyle] RVoid [On QLineEdit];
    Sig [] "setCursorPosition" [PInt] RVoid [On QLineEdit];
    Sig [] "setCursorWidth" [PInt] RVoid [On QPlainTextDocumentLayout; On QPlainTextEdit];
    Sig [] "setDecMode" [] RVoid [On QLCDNumber]
  ].

Definition methods_qtwidgets_2_s323 : list signature_row :=
  [
    Sig [TYPE_QTWIDGETS_QMESSAGEBOX] "setDefaultButton" [PValue QMessageBox_StandardButton] RVoid [On
        QMessageBox];
    Sig [TYPE_QTWIDGETS_QPUSHBUTTON] "setDefaultButton" [PObject QPushButton false] RVoid [On QMessageBox];
    Sig [] "setDefaultSectionSize" [PInt] RVoid [On QHeaderView];
    Sig [] "setDefaultUp" [PBool] RVoid [On QMenuBar];
    Sig [] "setDetailedText" [PString true] RVoid [On QMessageBox];
    Sig [] "setDigitCount" [PInt] RVoid [On QLCDNumber];
    Sig [] "setDockNestingEnabled" [PBool] RVoid [On QMainWindow];
    Sig [TYPE_QTGUI_QTEXTDOCUMENT] "setDocument" [PObject QTextDocument false] RVoid [On QPlainTextEdit];
    Sig [] "setDocumentMode" [PBool] RVoid [On QMainWindow; On QMdiArea];
    Sig [] "setDocumentTitle" [PString true] RVoid [On QPlainTextEdit]
  ].

Definition methods_qtwidgets_2_s333 : list signature_row :=
  [
    Sig [] "setDoubleDecimals" [PInt] RVoid [On QInputDialog];
    Sig [] "setDoubleMaximum" [PNumber cxx_double] RVoid [On QInputDialog];
    Sig [] "setDoubleMinimum" [PNumber cxx_double] RVoid [On QInputDialog];
    Sig [] "setDoubleRange" [PNumber cxx_double; PNumber cxx_double] RVoid [On QInputDialog];
    Sig [] "setDoubleStep" [PNumber cxx_double] RVoid [On QInputDialog];
    Sig [] "setDoubleValue" [PNumber cxx_double] RVoid [On QInputDialog];
    Sig [] "setDragEnabled" [PBool] RVoid [On QLineEdit];
    Sig [TYPE_QTWIDGETS_QLINEEDIT] "setEchoMode" [PValue QLineEdit_EchoMode] RVoid [On QLineEdit];
    Sig [TYPE_QTWIDGETS_QWIDGET; VALUE_TYPE_QTCORE_QMODELINDEX] "setEditorData" [PObject QWidget false;
        PValue QModelIndex] RVoid [On QItemDelegate];
    Sig [] "setEnabled" [PBool] RVoid [On QLayout]
  ].

Definition methods_qtwidgets_2_s343 : list signature_row :=
  [
    Sig [TYPE_QTWIDGETS_QABSTRACTBUTTON] "setEscapeButton" [PObject QAbstractButton false] RVoid [On
        QMessageBox];
    Sig [TYPE_QTWIDGETS_QMESSAGEBOX] "setEscapeButton" [PValue QMessageBox_StandardButton] RVoid [On
        QMessageBox];
    Sig [VALUE_TYPE_QTCORE_QKEYCOMBINATION] "setFinishingKeyCombinations" [PList (IValue QKeyCombination)]
        RVoid [On QKeySequenceEdit];
    Sig [] "setFirstSectionMovable" [PBool] RVoid [On QHeaderView];
    Sig [] "setFlat" [PBool] RVoid [On QGroupBox];
    Sig [TYPE_QTWIDGETS_QLISTVIEW] "setFlow" [PValue QListView_Flow] RVoid [On QListView];
    Sig [] "setFormat" [PString true] RVoid [On QProgressBar];
    Sig [] "setFrame" [PBool] RVoid [On QLineEdit];
    Sig [VALUE_TYPE_QTCORE_QRECT] "setGeometry" [PValue QRect] RVoid [On QLayout]
  ].

Definition methods_qtwidgets_2_s352 : list signature_row :=
  [
    Sig [VALUE_TYPE_QTCORE_QSIZE] "setGridSize" [PValue QSize] RVoid [On QListView];
    Sig [] "setHexMode" [] RVoid [On QLCDNumber];
    Sig [] "setHighlightSections" [PBool] RVoid [On QHeaderView];
    Sig [TYPE_QTWIDGETS_QLAYOUT] "setHorizontalSizeConstraint" [PValue QLayout_SizeConstraint] RVoid [On
        QLayout];
    Sig [VALUE_TYPE_QTGUI_QICON] "setIcon" [PValue QIcon] RVoid [On QMenu];
    Sig [TYPE_QTWIDGETS_QMESSAGEBOX] "setIcon" [PValue QMessageBox_Icon] RVoid [On QMessageBox];
    Sig [VALUE_TYPE_QTGUI_QPIXMAP] "setIconPixmap" [PValue QPixmap] RVoid [On QMessageBox];
    Sig [VALUE_TYPE_QTCORE_QSIZE] "setIconSize" [PValue QSize] RVoid [On QMainWindow];
    Sig [] "setIndent" [PInt] RVoid [On QLabel];
    Sig [] "setInformativeText" [PString true] RVoid [On QMessageBox]
  ].

Definition methods_qtwidgets_2_s362 : list signature_row :=
  [
    Sig [] "setInputMask" [PString true] RVoid [On QLineEdit];
    Sig [TYPE_QTWIDGETS_QINPUTDIALOG] "setInputMode" [PValue QInputDialog_InputMode] RVoid [On
        QInputDialog];
    Sig [] "setIntMaximum" [PInt] RVoid [On QInputDialog];
    Sig [] "setIntMinimum" [PInt] RVoid [On QInputDialog];
    Sig [] "setIntRange" [PInt; PInt] RVoid [On QInputDialog];
    Sig [] "setIntStep" [PInt] RVoid [On QInputDialog];
    Sig [] "setIntValue" [PInt] RVoid [On QInputDialog];
    Sig [] "setInvertedAppearance" [PBool] RVoid [On QProgressBar];
    Sig [VALUE_TYPE_QTGUI_QKEYSEQUENCE] "setKeySequence" [PValue QKeySequence] RVoid [On QKeySequenceEdit];
    Sig [] "setKeyboardPageStep" [PInt] RVoid [On QMdiSubWindow]
  ].

Definition methods_qtwidgets_2_s372 : list signature_row :=
  [
    Sig [] "setKeyboardSingleStep" [PInt] RVoid [On QMdiSubWindow];
    Sig [TYPE_QTWIDGETS_QLABEL] "setLabel" [PObject QLabel false] RVoid [On QProgressDialog];
    Sig [] "setLabelText" [PString true] RVoid [On QInputDialog; On QProgressDialog];
    Sig [VALUE_TYPE_QTCORE_QPOINTF] "setLastCenterPoint" [PValue QPointF] RVoid [On QPinchGesture];
    Sig [VALUE_TYPE_QTCORE_QPOINTF] "setLastOffset" [PValue QPointF] RVoid [On QPanGesture];
    Sig [] "setLastRotationAngle" [PNumber cxx_qreal] RVoid [On QPinchGesture];
    Sig [] "setLastScaleFactor" [PNumber cxx_qreal] RVoid [On QPinchGesture];
    Sig [TYPE_QTWIDGETS_QLISTVIEW] "setLayoutMode" [PValue QListView_LayoutMode] RVoid [On QListView];
    Sig [TYPE_QTWIDGETS_QPLAINTEXTEDIT] "setLineWrapMode" [PValue QPlainTextEdit_LineWrapMode] RVoid [On
        QPlainTextEdit]
  ].

Definition methods_qtwidgets_2_s381 : list signature_row :=
  [
    Sig [] "setMargin" [PInt] RVoid [On QLabel];
    Sig [] "setMaxLength" [PInt] RVoid [On QLineEdit];
    Sig [] "setMaximum" [PInt] RVoid [On QProgressBar; On QProgressDialog];
    Sig [] "setMaximumBlockCount" [PInt] RVoid [On QPlainTextEdit];
    Sig [] "setMaximumSectionSize" [PInt] RVoid [On QHeaderView];
    Sig [] "setMaximumSequenceLength" [PMeta cxx_qsizetype] RVoid [On QKeySequenceEdit];
    Sig [TYPE_QTWIDGETS_QMENUBAR] "setMenuBar" [PObject QMenuBar false] RVoid [On QMainWindow];
    Sig [TYPE_QTWIDGETS_QWIDGET] "setMenuWidget" [PObject QWidget false] RVoid [On QMainWindow];
    Sig [] "setMinimum" [PInt] RVoid [On QProgressBar; On QProgressDialog]
  ].

Definition methods_qtwidgets_2_s390 : list signature_row :=
  [
    Sig [] "setMinimumDuration" [PInt] RVoid [On QProgressDialog];
    Sig [] "setMinimumSectionSize" [PInt] RVoid [On QHeaderView];
    Sig [TYPE_QTWIDGETS_QLCDNUMBER] "setMode" [PValue QLCDNumber_Mode] RVoid [On QLCDNumber];
    Sig [TYPE_QTCORE_QABSTRACTITEMMODEL] "setModel" [PObject QAbstractItemModel false] RVoid [On
        QHeaderView];
    Sig [] "setModelColumn" [PInt] RVoid [On QListView];
    Sig [TYPE_QTCORE_QABSTRACTITEMMODEL; TYPE_QTWIDGETS_QWIDGET; VALUE_TYPE_QTCORE_QMODELINDEX]
        "setModelData" [PObject QWidget false; PObject QAbstractItemModel false; PValue QModelIndex] RVoid
        [On QItemDelegate];
    Sig [] "setModified" [PBool] RVoid [On QLineEdit];
    Sig [TYPE_QTWIDGETS_QLISTVIEW] "setMovement" [PValue QListView_Movement] RVoid [On QListView];
    Sig [TYPE_QTGUI_QMOVIE] "setMovie" [PObject QMovie false] RVoid [On QLabel]
  ].

Definition methods_qtwidgets_2_s399 : list signature_row :=
  [
    Sig [] "setNativeMenuBar" [PBool] RVoid [On QMenuBar];
    Sig [TYPE_QTWIDGETS_QWIDGET] "setNoReplayFor" [PObject QWidget false] RVoid [On QMenu];
    Sig [] "setNum" [PNumber cxx_double] RVoid [On QLabel];
    Sig [] "setNum" [PInt] RVoid [On QLabel];
    Sig [] "setOctMode" [] RVoid [On QLCDNumber];
    Sig [VALUE_TYPE_QTCORE_QPOINTF] "setOffset" [PValue QPointF] RVoid [On QPanGesture];
    Sig [] "setOffset" [PInt] RVoid [On QHeaderView];
    Sig [] "setOffsetToLastSection" [] RVoid [On QHeaderView];
    Sig [] "setOffsetToSectionPosition" [PInt] RVoid [On QHeaderView];
    Sig [] "setOkButtonText" [PString true] RVoid [On QInputDialog]
  ].

Definition methods_qtwidgets_2_s409 : list signature_row :=
  [
    Sig [] "setOpenExternalLinks" [PBool] RVoid [On QLabel];
    Sig [TYPE_QTWIDGETS_QINPUTDIALOG] "setOption" [PValue QInputDialog_InputDialogOption; PBool] RVoid [On
        QInputDialog];
    Sig [TYPE_QTWIDGETS_QMDIAREA] "setOption" [PValue QMdiArea_AreaOption; PBool] RVoid [On QMdiArea];
    Sig [TYPE_QTWIDGETS_QMDISUBWINDOW] "setOption" [PValue QMdiSubWindow_SubWindowOption; PBool] RVoid [On
        QMdiSubWindow];
    Sig [TYPE_QTWIDGETS_QMESSAGEBOX] "setOption" [PValue QMessageBox_Option; PBool] RVoid [On QMessageBox];
    Sig [TYPE_QTWIDGETS_QINPUTDIALOG] "setOptions" [PValue QInputDialog_InputDialogOptions] RVoid [On
        QInputDialog];
    Sig [TYPE_QTWIDGETS_QMESSAGEBOX] "setOptions" [PValue QMessageBox_Options] RVoid [On QMessageBox];
    Sig [ENUM_QT_ORIENTATION] "setOrientation" [PValue Qt_Orientation] RVoid [On QProgressBar];
    Sig [] "setOverwriteMode" [PBool] RVoid [On QPlainTextEdit]
  ].

Definition methods_qtwidgets_2_s418 : list signature_row :=
  [
    Sig [VALUE_TYPE_QTGUI_QPICTURE] "setPicture" [PValue QPicture] RVoid [On QLabel];
    Sig [VALUE_TYPE_QTGUI_QPIXMAP] "setPixmap" [PValue QPixmap] RVoid [On QLabel];
    Sig [] "setPlaceholderText" [PString true] RVoid [On QLineEdit; On QPlainTextEdit];
    Sig [] "setPlainText" [PString true] RVoid [On QPlainTextEdit];
    Sig [] "setRange" [PInt; PInt] RVoid [On QProgressBar; On QProgressDialog];
    Sig [] "setReadOnly" [PBool] RVoid [On QLineEdit; On QPlainTextEdit];
    Sig [] "setResizeContentsPrecision" [PInt] RVoid [On QHeaderView];
    Sig [TYPE_QTWIDGETS_QLISTVIEW] "setResizeMode" [PValue QListView_ResizeMode] RVoid [On QListView];
    Sig [VALUE_TYPE_QTCORE_QMODELINDEX] "setRootIndex" [PValue QModelIndex] RVoid [On QListView]
  ].

Definition methods_qtwidgets_2_s427 : list signature_row :=
  [
    Sig [] "setRotationAngle" [PNumber cxx_qreal] RVoid [On QPinchGesture];
    Sig [] "setRowHidden" [PInt; PBool] RVoid [On QListView];
    Sig [] "setScaleFactor" [PNumber cxx_qreal] RVoid [On QPinchGesture];
    Sig [] "setScaledContents" [PBool] RVoid [On QLabel];
    Sig [] "setSectionHidden" [PInt; PBool] RVoid [On QHeaderView];
    Sig [TYPE_QTWIDGETS_QHEADERVIEW] "setSectionResizeMode" [PValue QHeaderView_ResizeMode] RVoid [On
        QHeaderView];
    Sig [TYPE_QTWIDGETS_QHEADERVIEW] "setSectionResizeMode" [PInt; PValue QHeaderView_ResizeMode] RVoid [On
        QHeaderView];
    Sig [] "setSectionsClickable" [PBool] RVoid [On QHeaderView];
    Sig [] "setSectionsMovable" [PBool] RVoid [On QHeaderView];
    Sig [TYPE_QTWIDGETS_QLCDNUMBER] "setSegmentStyle" [PValue QLCDNumber_SegmentStyle] RVoid [On QLCDNumber]
  ].

Definition methods_qtwidgets_2_s437 : list signature_row :=
  [
    Sig [] "setSelection" [PInt; PInt] RVoid [On QLabel; On QLineEdit];
    Sig [TYPE_QTCORE_QITEMSELECTIONMODEL] "setSelectionModel" [PObject QItemSelectionModel false] RVoid [On
        QListWidget];
    Sig [] "setSelectionRectVisible" [PBool] RVoid [On QListView];
    Sig [] "setSeparatorsCollapsible" [PBool] RVoid [On QMenu];
    Sig [TYPE_QTWIDGETS_QLAYOUT] "setSizeConstraint" [PValue QLayout_SizeConstraint] RVoid [On QLayout];
    Sig [TYPE_QTWIDGETS_QLAYOUT] "setSizeConstraints" [PValue QLayout_SizeConstraint; PValue
        QLayout_SizeConstraint] RVoid [On QLayout];
    Sig [] "setSmallDecimalPoint" [PBool] RVoid [On QLCDNumber];
    Sig [ENUM_QT_SORTORDER] "setSortIndicator" [PInt; PValue Qt_SortOrder] RVoid [On QHeaderView];
    Sig [] "setSortIndicatorClearable" [PBool] RVoid [On QHeaderView]
  ].

Definition methods_qtwidgets_2_s446 : list signature_row :=
  [
    Sig [] "setSortIndicatorShown" [PBool] RVoid [On QHeaderView];
    Sig [] "setSortingEnabled" [PBool] RVoid [On QListWidget];
    Sig [] "setSpacing" [PInt] RVoid [On QLayout; On QListView];
    Sig [TYPE_QTWIDGETS_QMESSAGEBOX] "setStandardButtons" [PValue QMessageBox_StandardButtons] RVoid [On
        QMessageBox];
    Sig [VALUE_TYPE_QTCORE_QPOINTF] "setStartCenterPoint" [PValue QPointF] RVoid [On QPinchGesture];
    Sig [TYPE_QTWIDGETS_QSTATUSBAR] "setStatusBar" [PObject QStatusBar false] RVoid [On QMainWindow];
    Sig [] "setStretchLastSection" [PBool] RVoid [On QHeaderView];
    Sig [ENUM_QT_DROPACTIONS] "setSupportedDragActions" [PValue Qt_DropActions] RVoid [On QListWidget];
    Sig [] "setTabChangesFocus" [PBool] RVoid [On QPlainTextEdit]
  ].

Definition methods_qtwidgets_2_s455 : list signature_row :=
  [
    Sig [TYPE_QTWIDGETS_QTABWIDGET] "setTabPosition" [PValue QTabWidget_TabPosition] RVoid [On QMdiArea];
    Sig [ENUM_QT_DOCKWIDGETAREAS; TYPE_QTWIDGETS_QTABWIDGET] "setTabPosition" [PValue Qt_DockWidgetAreas;
        PValue QTabWidget_TabPosition] RVoid [On QMainWindow];
    Sig [TYPE_QTWIDGETS_QTABWIDGET] "setTabShape" [PValue QTabWidget_TabShape] RVoid [On QMainWindow; On
        QMdiArea];
    Sig [] "setTabStopDistance" [PNumber cxx_qreal] RVoid [On QPlainTextEdit];
    Sig [] "setTabsClosable" [PBool] RVoid [On QMdiArea];
    Sig [] "setTabsMovable" [PBool] RVoid [On QMdiArea];
    Sig [] "setTearOffEnabled" [PBool] RVoid [On QMenu];
    Sig [] "setText" [PString true] RVoid [On QLabel; On QLineEdit; On QMessageBox];
    Sig [VALUE_TYPE_QTGUI_QTEXTCURSOR] "setTextCursor" [PValue QTextCursor] RVoid [On QPlainTextEdit]
  ].

Definition methods_qtwidgets_2_s464 : list signature_row :=
  [
    Sig [TYPE_QTWIDGETS_QPROGRESSBAR] "setTextDirection" [PValue QProgressBar_Direction] RVoid [On
        QProgressBar];
    Sig [TYPE_QTWIDGETS_QLINEEDIT] "setTextEchoMode" [PValue QLineEdit_EchoMode] RVoid [On QInputDialog];
    Sig [ENUM_QT_TEXTFORMAT] "setTextFormat" [PValue Qt_TextFormat] RVoid [On QLabel; On QMessageBox];
    Sig [VALUE_TYPE_QTCORE_QMARGINS] "setTextMargins" [PValue QMargins] RVoid [On QLineEdit];
    Sig [] "setTextMargins" [PInt; PInt; PInt; PInt] RVoid [On QLineEdit];
    Sig [] "setTextValue" [PString true] RVoid [On QInputDialog];
    Sig [] "setTextVisible" [PBool] RVoid [On QProgressBar];
    Sig [] "setTitle" [PString true] RVoid [On QGroupBox; On QMenu];
    Sig [ENUM_QT_TOOLBUTTONSTYLE] "setToolButtonStyle" [PValue Qt_ToolButtonStyle] RVoid [On QMainWindow]
  ].

Definition methods_qtwidgets_2_s473 : list signature_row :=
  [
    Sig [] "setToolTipsVisible" [PBool] RVoid [On QMenu];
    Sig [] "setTotalRotationAngle" [PNumber cxx_qreal] RVoid [On QPinchGesture];
    Sig [] "setTotalScaleFactor" [PNumber cxx_qreal] RVoid [On QPinchGesture];
    Sig [] "setUndoRedoEnabled" [PBool] RVoid [On QPlainTextEdit];
    Sig [] "setUnifiedTitleAndToolBarOnMac" [PBool] RVoid [On QMainWindow];
    Sig [] "setUniformItemSizes" [PBool] RVoid [On QListView];
    Sig [TYPE_QTGUI_QVALIDATOR] "setValidator" [PObject QValidator false] RVoid [On QLineEdit];
    Sig [] "setValue" [PInt] RVoid [On QProgressBar; On QProgressDialog];
    Sig [TYPE_QTWIDGETS_QLAYOUT] "setVerticalSizeConstraint" [PValue QLayout_SizeConstraint] RVoid [On
        QLayout];
    Sig [TYPE_QTWIDGETS_QLISTVIEW] "setViewMode" [PValue QListView_ViewMode] RVoid [On QListView]
  ].

Definition methods_qtwidgets_2_s483 : list signature_row :=
  [
    Sig [TYPE_QTWIDGETS_QMDIAREA] "setViewMode" [PValue QMdiArea_ViewMode] RVoid [On QMdiArea];
    Sig [] "setVisible" [PBool] RVoid [On QHeaderView; On QInputDialog; On QMenuBar];
    Sig [ENUM_QT_WINDOWMODALITY] "setWindowModality" [PValue Qt_WindowModality] RVoid [On QMessageBox];
    Sig [] "setWindowTitle" [PString true] RVoid [On QMessageBox];
    Sig [] "setWordWrap" [PBool] RVoid [On QLabel; On QListView];
    Sig [TYPE_QTGUI_QTEXTOPTION] "setWordWrapMode" [PValue QTextOption_WrapMode] RVoid [On QPlainTextEdit];
    Sig [] "setWrapping" [PBool] RVoid [On QListView];
    Sig [] "showSection" [PInt] RVoid [On QHeaderView];
    Sig [] "showShaded" [] RVoid [On QMdiSubWindow]
  ].

Definition methods_qtwidgets_2_s492 : list signature_row :=
  [
    Sig [] "showSystemMenu" [] RVoid [On QMdiSubWindow];
    Sig [] "showTearOffMenu" [] RVoid [On QMenu];
    Sig [VALUE_TYPE_QTCORE_QPOINT] "showTearOffMenu" [PValue QPoint] RVoid [On QMenu];
    Sig [TYPE_QTWIDGETS_QLAYOUT] "sizeConstraint" [] (RMeta QLayout_SizeConstraint) [On QLayout];
    Sig [VALUE_TYPE_QTCORE_QSIZE] "sizeHint" [] (RValue QSize) [On QHeaderView; On QInputDialog; On
        QLCDNumber; On QLabel; On QLineEdit; On QMdiArea; On QMdiSubWindow; On QMenu; On QMenuBar; On
        QProgressBar; On QProgressDialog];
    Sig [VALUE_TYPE_QTCORE_QMODELINDEX; VALUE_TYPE_QTCORE_QSIZE; VALUE_TYPE_QTWIDGETS_QSTYLEOPTIONVIEWITEM]
        "sizeHint" [PValue QStyleOptionViewItem; PValue QModelIndex] (RValue QSize) [On QItemDelegate]
  ].

Definition methods_qtwidgets_2_s498 : list signature_row :=
  [
    Sig [] "smallDecimalPoint" [] RBool [On QLCDNumber];
    Sig [ENUM_QT_SORTORDER] "sortIndicatorOrder" [] (RMeta Qt_SortOrder) [On QHeaderView];
    Sig [] "sortIndicatorSection" [] RDouble [On QHeaderView];
    Sig [ENUM_QT_SORTORDER] "sortItems" [PValue Qt_SortOrder] RVoid [On QListWidget];
    Sig [] "spacing" [] RDouble [On QLayout; On QListView];
    Sig [ENUM_QT_ORIENTATION; TYPE_QTWIDGETS_QDOCKWIDGET] "splitDockWidget" [PObject QDockWidget false;
        PObject QDockWidget false; PValue Qt_Orientation] RVoid [On QMainWindow];
    Sig [TYPE_QTWIDGETS_QABSTRACTBUTTON; TYPE_QTWIDGETS_QMESSAGEBOX] "standardButton" [PObject
        QAbstractButton false] (RMeta QMessageBox_StandardButton) [On QMessageBox];
    Sig [TYPE_QTWIDGETS_QMESSAGEBOX] "standardButtons" [] (RMeta QMessageBox_StandardButtons) [On
        QMessageBox];
    Sig [TYPE_QTWIDGETS_QMESSAGEBOX; VALUE_TYPE_QTGUI_QPIXMAP] "standardIcon" [PValue QMessageBox_Icon]
        (RValue QPixmap) [Static QMessageBox];
    Sig [VALUE_TYPE_QTGUI_QPALETTE] "standardPalette" [] (RValue QPalette) [On QProxyStyle]
  ].

Definition methods_qtwidgets_2_s508 : list signature_row :=
  [
    Sig [VALUE_TYPE_QTCORE_QPOINTF] "startCenterPoint" [] (RValue QPointF) [On QPinchGesture];
    Sig [TYPE_QTWIDGETS_QSTATUSBAR] "statusBar" [] RObject [On QMainWindow];
    Sig [] "stretchLastSection" [] RBool [On QHeaderView];
    Sig [] "stretchSectionCount" [] RDouble [On QHeaderView];
    Sig [TYPE_QTWIDGETS_QMDIAREA; TYPE_QTWIDGETS_QMDISUBWINDOW] "subWindowList" [PValue
        QMdiArea_WindowOrder] (RList (IObject QObject)) [On QMdiArea];
    Sig [ENUM_QT_DROPACTIONS] "supportedDragActions" [] (RMeta Qt_DropActions) [On QListWidget];
    Sig [] "swapSections" [PInt; PInt] RVoid [On QHeaderView];
    Sig [TYPE_QTWIDGETS_QMENU] "systemMenu" [] RObject [On QMdiSubWindow];
    Sig [] "tabChangesFocus" [] RBool [On QPlainTextEdit];
    Sig [TYPE_QTWIDGETS_QTABWIDGET] "tabPosition" [] (RMeta QTabWidget_TabPosition) [On QMdiArea];
    Sig [ENUM_QT_DOCKWIDGETAREA; TYPE_QTWIDGETS_QTABWIDGET] "tabPosition" [PValue Qt_DockWidgetArea] (RMeta
        QTabWidget_TabPosition) [On QMainWindow]
  ].

Definition methods_qtwidgets_2_s519 : list signature_row :=
  [
    Sig [TYPE_QTWIDGETS_QTABWIDGET] "tabShape" [] (RMeta QTabWidget_TabShape) [On QMainWindow; On QMdiArea];
    Sig [] "tabStopDistance" [] RDouble [On QPlainTextEdit];
    Sig [TYPE_QTWIDGETS_QDOCKWIDGET] "tabifiedDockWidgets" [PObject QDockWidget false] (RList (IObject
        QObject)) [On QMainWindow];
    Sig [TYPE_QTWIDGETS_QDOCKWIDGET] "tabifyDockWidget" [PObject QDockWidget false; PObject QDockWidget
        false] RVoid [On QMainWindow];
    Sig [] "tabsClosable" [] RBool [On QMdiArea];
    Sig [] "tabsMovable" [] RBool [On QMdiArea];
    Sig [TYPE_QTWIDGETS_QWIDGET] "takeCentralWidget" [] RObject [On QMainWindow];
    Sig [TYPE_QTWIDGETS_QINPUTDIALOG] "testOption" [PValue QInputDialog_InputDialogOption] RBool [On
        QInputDialog];
    Sig [TYPE_QTWIDGETS_QMDIAREA] "testOption" [PValue QMdiArea_AreaOption] RBool [On QMdiArea];
    Sig [TYPE_QTWIDGETS_QMDISUBWINDOW] "testOption" [PValue QMdiSubWindow_SubWindowOption] RBool [On
        QMdiSubWindow]
  ].

Definition methods_qtwidgets_2_s529 : list signature_row :=
  [
    Sig [TYPE_QTWIDGETS_QMESSAGEBOX] "testOption" [PValue QMessageBox_Option] RBool [On QMessageBox];
    Sig [] "text" [] RString [On QLabel; On QLineEdit; On QMessageBox; On QProgressBar];
    Sig [VALUE_TYPE_QTGUI_QTEXTCURSOR] "textCursor" [] (RValue QTextCursor) [On QPlainTextEdit];
    Sig [TYPE_QTWIDGETS_QLINEEDIT] "textEchoMode" [] (RMeta QLineEdit_EchoMode) [On QInputDialog];
    Sig [ENUM_QT_TEXTFORMAT] "textFormat" [] (RMeta Qt_TextFormat) [On QLabel; On QMessageBox];
    Sig [VALUE_TYPE_QTCORE_QMARGINS] "textMargins" [] (RValue QMargins) [On QLineEdit];
    Sig [] "textValue" [] RString [On QInputDialog];
    Sig [] "tileSubWindows" [] RVoid [On QMdiArea];
    Sig [] "title" [] RString [On QGroupBox; On QMenu];
    Sig [] "toPlainText" [] RString [On QPlainTextEdit]
  ].

Definition methods_qtwidgets_2_s539 : list signature_row :=
  [
    Sig [ENUM_QT_TOOLBARAREA; TYPE_QTWIDGETS_QTOOLBAR] "toolBarArea" [PObject QToolBar false] (RMeta
        Qt_ToolBarArea) [On QMainWindow];
    Sig [TYPE_QTWIDGETS_QTOOLBAR] "toolBarBreak" [PObject QToolBar false] RBool [On QMainWindow];
    Sig [ENUM_QT_TOOLBUTTONSTYLE] "toolButtonStyle" [] (RMeta Qt_ToolButtonStyle) [On QMainWindow];
    Sig [] "toolTipsVisible" [] RBool [On QMenu];
    Sig [] "totalHeightForWidth" [PInt] RDouble [On QLayout];
    Sig [VALUE_TYPE_QTCORE_QSIZE] "totalMaximumSize" [] (RValue QSize) [On QLayout];
    Sig [VALUE_TYPE_QTCORE_QSIZE] "totalMinimumSize" [] (RValue QSize) [On QLayout];
    Sig [] "totalRotationAngle" [] RDouble [On QPinchGesture];
    Sig [] "totalScaleFactor" [] RDouble [On QPinchGesture];
    Sig [VALUE_TYPE_QTCORE_QSIZE] "totalSizeHint" [] (RValue QSize) [On QLayout]
  ].

Definition methods_qtwidgets_2_s549 : list signature_row :=
  [
    Sig [] "undo" [] RVoid [On QLineEdit; On QPlainTextEdit];
    Sig [] "unifiedTitleAndToolBarOnMac" [] RBool [On QMainWindow];
    Sig [] "uniformItemSizes" [] RBool [On QListView];
    Sig [TYPE_QTWIDGETS_QAPPLICATION] "unpolish" [PObject QApplication false] RVoid [On QProxyStyle];
    Sig [TYPE_QTWIDGETS_QWIDGET] "unpolish" [PObject QWidget false] RVoid [On QProxyStyle];
    Sig [] "unsetContentsMargins" [] RVoid [On QLayout];
    Sig [] "update" [] RVoid [On QLayout];
    Sig [TYPE_QTWIDGETS_QWIDGET; VALUE_TYPE_QTCORE_QMODELINDEX; VALUE_TYPE_QTWIDGETS_QSTYLEOPTIONVIEWITEM]
        "updateEditorGeometry" [PObject QWidget false; PValue QStyleOptionViewItem; PValue QModelIndex]
        RVoid [On QItemDelegate];
    Sig [TYPE_QTGUI_QVALIDATOR] "validator" [] RObject [On QLineEdit];
    Sig [] "value" [] RDouble [On QLCDNumber]
  ].

Definition methods_qtwidgets_2_s559 : list signature_row :=
  [
    Sig [] "value" [] RDouble [On QProgressBar; On QProgressDialog];
    Sig [TYPE_QTWIDGETS_QLAYOUT] "verticalSizeConstraint" [] (RMeta QLayout_SizeConstraint) [On QLayout];
    Sig [TYPE_QTWIDGETS_QLISTVIEW] "viewMode" [] (RMeta QListView_ViewMode) [On QListView];
    Sig [TYPE_QTWIDGETS_QMDIAREA] "viewMode" [] (RMeta QMdiArea_ViewMode) [On QMdiArea];
    Sig [] "visualIndex" [PInt] RDouble [On QHeaderView];
    Sig [] "visualIndexAt" [PInt] RDouble [On QHeaderView];
    Sig [VALUE_TYPE_QTCORE_QMODELINDEX; VALUE_TYPE_QTCORE_QRECT] "visualRect" [PValue QModelIndex] (RValue
        QRect) [On QListView];
    Sig [TYPE_QTWIDGETS_QMESSAGEBOX; TYPE_QTWIDGETS_QWIDGET] "warning" [PObject QWidget false; PString
        true; PString true; PValue QMessageBox_StandardButtons; PValue QMessageBox_StandardButton] (RMeta
        QMessageBox_StandardButton) [Static QMessageBox];
    Sig [] "wasCanceled" [] RBool [On QProgressDialog];
    Sig [TYPE_QTWIDGETS_QWIDGET] "widget" [] RObject [On QMdiSubWindow]
  ].

Definition methods_qtwidgets_2_s569 : list signature_row :=
  [
    Sig [] "wordWrap" [] RBool [On QLabel; On QListView];
    Sig [TYPE_QTGUI_QTEXTOPTION] "wordWrapMode" [] (RMeta QTextOption_WrapMode) [On QPlainTextEdit];
    Sig [] "zoomIn" [PInt] RVoid [On QPlainTextEdit];
    Sig [] "zoomOut" [PInt] RVoid [On QPlainTextEdit]
  ].

Definition methods_qtwidgets_2 : method_shard :=
  MethodShard QtWidgets "KRY_QT6_NATIVE_METHODS_QTWIDGETS_"
    (methods_qtwidgets_2_i0 ++ methods_qtwidgets_2_i1)
    (methods_qtwidgets_2_s0 ++ methods_qtwidgets_2_s10 ++ methods_qtwidgets_2_s18 ++
        methods_qtwidgets_2_s28 ++ methods_qtwidgets_2_s39 ++ methods_qtwidgets_2_s50 ++
        methods_qtwidgets_2_s58 ++ methods_qtwidgets_2_s67 ++ methods_qtwidgets_2_s76 ++
        methods_qtwidgets_2_s86 ++ methods_qtwidgets_2_s97 ++ methods_qtwidgets_2_s108 ++
        methods_qtwidgets_2_s118 ++ methods_qtwidgets_2_s128 ++ methods_qtwidgets_2_s138 ++
        methods_qtwidgets_2_s147 ++ methods_qtwidgets_2_s157 ++ methods_qtwidgets_2_s169 ++
        methods_qtwidgets_2_s181 ++ methods_qtwidgets_2_s191 ++ methods_qtwidgets_2_s202 ++
        methods_qtwidgets_2_s213 ++ methods_qtwidgets_2_s221 ++ methods_qtwidgets_2_s228 ++
        methods_qtwidgets_2_s239 ++ methods_qtwidgets_2_s247 ++ methods_qtwidgets_2_s256 ++
        methods_qtwidgets_2_s265 ++ methods_qtwidgets_2_s275 ++ methods_qtwidgets_2_s286 ++
        methods_qtwidgets_2_s296 ++ methods_qtwidgets_2_s305 ++ methods_qtwidgets_2_s314 ++
        methods_qtwidgets_2_s323 ++ methods_qtwidgets_2_s333 ++ methods_qtwidgets_2_s343 ++
        methods_qtwidgets_2_s352 ++ methods_qtwidgets_2_s362 ++ methods_qtwidgets_2_s372 ++
        methods_qtwidgets_2_s381 ++ methods_qtwidgets_2_s390 ++ methods_qtwidgets_2_s399 ++
        methods_qtwidgets_2_s409 ++ methods_qtwidgets_2_s418 ++ methods_qtwidgets_2_s427 ++
        methods_qtwidgets_2_s437 ++ methods_qtwidgets_2_s446 ++ methods_qtwidgets_2_s455 ++
        methods_qtwidgets_2_s464 ++ methods_qtwidgets_2_s473 ++ methods_qtwidgets_2_s483 ++
        methods_qtwidgets_2_s492 ++ methods_qtwidgets_2_s498 ++ methods_qtwidgets_2_s508 ++
        methods_qtwidgets_2_s519 ++ methods_qtwidgets_2_s529 ++ methods_qtwidgets_2_s539 ++
        methods_qtwidgets_2_s549 ++ methods_qtwidgets_2_s559 ++ methods_qtwidgets_2_s569)
    [].
