(* ===== verification/MethodsWidgetsB.v ===== *)
(** Rows of the shards of generated_methods: qtwidgets_3, qtwidgets_4. *)
From S2P Require Import Names.

(** * Definitions *)

Definition methods_qtwidgets_3_i0 : list include :=
  [
    ClassInclude QtWidgets QPushButton QPushButton;
    ClassInclude QtWidgets QRadioButton QRadioButton;
    ClassInclude QtWidgets QRubberBand QRubberBand;
    ClassInclude QtWidgets QScrollArea QScrollArea;
    ClassInclude QtWidgets QScrollBar QScrollBar;
    ClassInclude QtWidgets QScroller QScroller;
    ClassInclude QtWidgets QScrollerProperties QScrollerProperties;
    ClassInclude QtWidgets QSizeGrip QSizeGrip;
    ClassInclude QtWidgets QSlider QSlider;
    ClassInclude QtWidgets QSpinBox QSpinBox;
    ClassInclude QtWidgets QSplashScreen QSplashScreen;
    ClassInclude QtWidgets QSplitter QSplitter;
    ClassInclude QtWidgets QSplitterHandle QSplitterHandle;
    ClassInclude QtWidgets QStackedLayout QStackedLayout;
    ClassInclude QtWidgets QStackedWidget QStackedWidget;
    ClassInclude QtWidgets QStatusBar QStatusBar;
    ClassInclude QtWidgets QStyle QStyle;
    ClassInclude QtWidgets QStyleFactory QStyleFactory;
    ClassInclude QtWidgets QStyleOptionGraphicsItem QStyleOptionGraphicsItem;
    ClassInclude QtWidgets QStyledItemDelegate QStyledItemDelegate;
    ClassInclude QtWidgets QSwipeGesture QSwipeGesture;
    ClassInclude QtWidgets QSystemTrayIcon QSystemTrayIcon;
    ClassInclude QtWidgets QTabBar QTabBar;
    ClassInclude QtWidgets QTabWidget QTabWidget;
    TypeInclude QtCore QAbstractItemModel TYPE_QTCORE_QABSTRACTITEMMODEL;
    TypeInclude QtCore QObject TYPE_QTCORE_QOBJECT;
    TypeInclude QtWidgets QApplication TYPE_QTWIDGETS_QAPPLICATION;
    TypeInclude QtWidgets QMenu TYPE_QTWIDGETS_QMENU;
    TypeInclude QtWidgets QScroller TYPE_QTWIDGETS_QSCROLLER;
    TypeInclude QtWidgets QSplitter TYPE_QTWIDGETS_QSPLITTER;
    TypeInclude QtWidgets QSplitterHandle TYPE_QTWIDGETS_QSPLITTERHANDLE;
    TypeInclude QtWidgets QStyle TYPE_QTWIDGETS_QSTYLE;
    TypeInclude QtWidgets QTabBar TYPE_QTWIDGETS_QTABBAR;
    TypeInclude QtWidgets QWidget TYPE_QTWIDGETS_QWIDGET;
    EnumDefine ENUM_QT_CORNER;
    EnumDefine ENUM_QT_GESTURETYPE;
    EnumDefine ENUM_QT_LAYOUTDIRECTION;
    EnumDefine ENUM_QT_ORIENTATION;
    EnumDefine ENUM_QT_TEXTELIDEMODE;
    TypeInclude QtWidgets QAbstractSpinBox TYPE_QTWIDGETS_QABSTRACTSPINBOX;
    TypeInclude QtWidgets QRubberBand TYPE_QTWIDGETS_QRUBBERBAND;
    TypeInclude QtWidgets QScroller TYPE_QTWIDGETS_QSCROLLER;
    TypeInclude QtWidgets QSlider TYPE_QTWIDGETS_QSLIDER;
    TypeInclude QtWidgets QStackedLayout TYPE_QTWIDGETS_QSTACKEDLAYOUT;
    TypeInclude QtWidgets QSwipeGesture TYPE_QTWIDGETS_QSWIPEGESTURE;
    TypeInclude QtWidgets QSystemTrayIcon TYPE_QTWIDGETS_QSYSTEMTRAYICON;
    TypeInclude QtWidgets QTabBar TYPE_QTWIDGETS_QTABBAR;
    TypeInclude QtWidgets QTabWidget TYPE_QTWIDGETS_QTABWIDGET;
    TypeInclude QtCore QByteArray VALUE_TYPE_QTCORE_QBYTEARRAY;
    TypeInclude QtCore QLocale VALUE_TYPE_QTCORE_QLOCALE;
    TypeInclude QtCore QModelIndex VALUE_TYPE_QTCORE_QMODELINDEX;
    TypeInclude QtCore QPoint VALUE_TYPE_QTCORE_QPOINT;
    TypeInclude QtCore QPointF VALUE_TYPE_QTCORE_QPOINTF;
    TypeInclude QtCore QRect VALUE_TYPE_QTCORE_QRECT;
    TypeInclude QtCore QRectF VALUE_TYPE_QTCORE_QRECTF
  ].

Definition methods_qtwidgets_3_i1 : list include :=
  [
    TypeInclude QtCore QSize VALUE_TYPE_QTCORE_QSIZE;
    TypeInclude QtGui QColor VALUE_TYPE_QTGUI_QCOLOR;
    TypeInclude QtGui QFontMetrics VALUE_TYPE_QTGUI_QFONTMETRICS;
    TypeInclude QtGui QIcon VALUE_TYPE_QTGUI_QICON;
    TypeInclude QtGui QPalette VALUE_TYPE_QTGUI_QPALETTE;
    TypeInclude QtGui QPixmap VALUE_TYPE_QTGUI_QPIXMAP;
    TypeInclude QtGui QTransform VALUE_TYPE_QTGUI_QTRANSFORM;
    TypeInclude QtWidgets QScrollerProperties VALUE_TYPE_QTWIDGETS_QSCROLLERPROPERTIES;
    TypeInclude QtWidgets QStyleOptionViewItem VALUE_TYPE_QTWIDGETS_QSTYLEOPTIONVIEWITEM
  ].

Definition methods_qtwidgets_3_s0 : list signature_row :=
  [
    Sig [] "accessibleTabName" [PInt] RString [On QTabBar];
    Sig [TYPE_QTWIDGETS_QSCROLLER] "activeScrollers" [] (RList (IObject QObject)) [Static QScroller];
    Sig [TYPE_QTWIDGETS_QWIDGET] "addPermanentWidget" [PObject QWidget false; PInt] RVoid [On QStatusBar];
    Sig [VALUE_TYPE_QTGUI_QICON] "addTab" [PValue QIcon; PString true] RDouble [On QTabBar];
    Sig [] "addTab" [PString true] RDouble [On QTabBar];
    Sig [TYPE_QTWIDGETS_QWIDGET; VALUE_TYPE_QTGUI_QICON] "addTab" [PObject QWidget false; PValue QIcon;
        PString true] RDouble [On QTabWidget];
    Sig [TYPE_QTWIDGETS_QWIDGET] "addTab" [PObject QWidget false; PString true] RDouble [On QTabWidget];
    Sig [TYPE_QTWIDGETS_QWIDGET] "addWidget" [PObject QWidget false] RDouble [On QStackedWidget];
    Sig [TYPE_QTWIDGETS_QWIDGET] "addWidget" [PObject QWidget false] RVoid [On QSplitter]
  ].

Definition methods_qtwidgets_3_s9 : list signature_row :=
  [
    Sig [TYPE_QTWIDGETS_QWIDGET] "addWidget" [PObject QWidget false; PInt] RVoid [On QStatusBar];
    Sig [] "autoDefault" [] RBool [On QPushButton];
    Sig [] "autoHide" [] RBool [On QTabBar];
    Sig [] "changeCurrentOnDrag" [] RBool [On QTabBar];
    Sig [] "childrenCollapsible" [] RBool [On QSplitter];
    Sig [] "cleanText" [] RString [On QSpinBox];
    Sig [] "clear" [] RVoid [On QTabWidget];
    Sig [] "clearMessage" [] RVoid [On QSplashScreen; On QStatusBar];
    Sig [TYPE_QTWIDGETS_QMENU] "contextMenu" [] RObject [On QSystemTrayIcon];
    Sig [ENUM_QT_CORNER; TYPE_QTWIDGETS_QWIDGET] "cornerWidget" [PValue Qt_Corner] RObject [On QTabWidget]
  ].

Definition methods_qtwidgets_3_s19 : list signature_row :=
  [
    Sig [] "count" [] RDouble [On QSplitter; On QStackedLayout; On QStackedWidget; On QTabBar; On
        QTabWidget];
    Sig [TYPE_QTWIDGETS_QSTYLE] "create" [PString true] RObject [Static QStyleFactory];
    Sig [TYPE_QTWIDGETS_QWIDGET; VALUE_TYPE_QTCORE_QMODELINDEX; VALUE_TYPE_QTWIDGETS_QSTYLEOPTIONVIEWITEM]
        "createEditor" [PObject QWidget false; PValue QStyleOptionViewItem; PValue QModelIndex] RObject [On
        QStyledItemDelegate];
    Sig [TYPE_QTWIDGETS_QMENU; VALUE_TYPE_QTCORE_QPOINT] "createStandardContextMenu" [PValue QPoint]
        RObject [On QScrollBar];
    Sig [] "currentIndex" [] RDouble [On QStackedLayout; On QStackedWidget; On QTabBar; On QTabWidget];
    Sig [] "currentMessage" [] RString [On QStatusBar];
    Sig [TYPE_QTWIDGETS_QWIDGET] "currentWidget" [] RObject [On QStackedLayout; On QStackedWidget; On
        QTabWidget];
    Sig [] "displayIntegerBase" [] RDouble [On QSpinBox]
  ].

Definition methods_qtwidgets_3_s27 : list signature_row :=
  [
    Sig [VALUE_TYPE_QTCORE_QLOCALE] "displayText" [PVariant; PValue QLocale] RString [On
        QStyledItemDelegate];
    Sig [] "documentMode" [] RBool [On QTabBar; On QTabWidget];
    Sig [] "drawBase" [] RBool [On QTabBar];
    Sig [ENUM_QT_TEXTELIDEMODE] "elideMode" [] (RMeta Qt_TextElideMode) [On QTabBar; On QTabWidget];
    Sig [VALUE_TYPE_QTCORE_QRECTF] "ensureVisible" [PValue QRectF; PNumber cxx_qreal; PNumber cxx_qreal]
        RVoid [On QScroller];
    Sig [VALUE_TYPE_QTCORE_QRECTF] "ensureVisible" [PValue QRectF; PNumber cxx_qreal; PNumber cxx_qreal;
        PInt] RVoid [On QScroller];
    Sig [] "ensureVisible" [PInt; PInt; PInt; PInt] RVoid [On QScrollArea];
    Sig [TYPE_QTWIDGETS_QWIDGET] "ensureWidgetVisible" [PObject QWidget false; PInt; PInt] RVoid [On
        QScrollArea]
  ].

Definition methods_qtwidgets_3_s35 : list signature_row :=
  [
    Sig [] "expanding" [] RBool [On QTabBar];
    Sig [VALUE_TYPE_QTCORE_QPOINTF] "finalPosition" [] (RValue QPointF) [On QScroller];
    Sig [TYPE_QTWIDGETS_QWIDGET] "finish" [PObject QWidget false] RVoid [On QSplashScreen];
    Sig [] "focusNextPrevChild" [PBool] RBool [On QScrollArea];
    Sig [VALUE_TYPE_QTCORE_QRECT] "geometry" [] (RValue QRect) [On QSystemTrayIcon];
    Sig [ENUM_QT_GESTURETYPE; TYPE_QTCORE_QOBJECT; TYPE_QTWIDGETS_QSCROLLER] "grabGesture" [PObject QObject
        false; PValue QScroller_ScrollerGestureType] (RMeta Qt_GestureType) [Static QScroller];
    Sig [ENUM_QT_GESTURETYPE; TYPE_QTCORE_QOBJECT] "grabbedGesture" [PObject QObject false] (RMeta
        Qt_GestureType) [Static QScroller];
    Sig [TYPE_QTWIDGETS_QSPLITTERHANDLE] "handle" [PInt] RObject [On QSplitter];
    Sig [TYPE_QTWIDGETS_QSCROLLER; VALUE_TYPE_QTCORE_QPOINTF] "handleInput" [PValue QScroller_Input; PValue
        QPointF; PMeta cxx_qint64] RBool [On QScroller];
    Sig [] "handleWidth" [] RDouble [On QSplitter]
  ].

Definition methods_qtwidgets_3_s45 : list signature_row :=
  [
    Sig [] "hasHeightForWidth" [] RBool [On QStackedLayout; On QTabWidget];
    Sig [TYPE_QTCORE_QOBJECT] "hasScroller" [PObject QObject false] RBool [Static QScroller];
    Sig [] "heightForWidth" [PInt] RDouble [On QStackedLayout; On QTabWidget];
    Sig [] "hide" [] RVoid [On QSystemTrayIcon];
    Sig [TYPE_QTWIDGETS_QSWIPEGESTURE] "horizontalDirection" [] (RMeta QSwipeGesture_SwipeDirection) [On
        QSwipeGesture];
    Sig [VALUE_TYPE_QTGUI_QICON] "icon" [] (RValue QIcon) [On QSystemTrayIcon];
    Sig [VALUE_TYPE_QTCORE_QSIZE] "iconSize" [] (RValue QSize) [On QTabBar; On QTabWidget];
    Sig [TYPE_QTWIDGETS_QWIDGET] "indexOf" [PObject QWidget false] RDouble [On QSplitter; On
        QStackedWidget; On QTabWidget]
  ].

Definition methods_qtwidgets_3_s53 : list signature_row :=
  [
    Sig [TYPE_QTWIDGETS_QWIDGET] "insertPermanentWidget" [PInt; PObject QWidget false; PInt] RDouble [On
        QStatusBar];
    Sig [VALUE_TYPE_QTGUI_QICON] "insertTab" [PInt; PValue QIcon; PString true] RDouble [On QTabBar];
    Sig [] "insertTab" [PInt; PString true] RDouble [On QTabBar];
    Sig [TYPE_QTWIDGETS_QWIDGET; VALUE_TYPE_QTGUI_QICON] "insertTab" [PInt; PObject QWidget false; PValue
        QIcon; PString true] RDouble [On QTabWidget];
    Sig [TYPE_QTWIDGETS_QWIDGET] "insertTab" [PInt; PObject QWidget false; PString true] RDouble [On
        QTabWidget];
    Sig [TYPE_QTWIDGETS_QWIDGET] "insertWidget" [PInt; PObject QWidget false] RDouble [On QStackedWidget];
    Sig [TYPE_QTWIDGETS_QWIDGET] "insertWidget" [PInt; PObject QWidget false] RVoid [On QSplitter]
  ].

Definition methods_qtwidgets_3_s60 : list signature_row :=
  [
    Sig [TYPE_QTWIDGETS_QWIDGET] "insertWidget" [PInt; PObject QWidget false; PInt] RDouble [On QStatusBar];
    Sig [] "isCollapsible" [PInt] RBool [On QSplitter];
    Sig [] "isDefault" [] RBool [On QPushButton];
    Sig [] "isFlat" [] RBool [On QPushButton];
    Sig [] "isMovable" [] RBool [On QTabBar; On QTabWidget];
    Sig [] "isSizeGripEnabled" [] RBool [On QStatusBar];
    Sig [] "isSystemTrayAvailable" [] RBool [Static QSystemTrayIcon];
    Sig [] "isTabEnabled" [PInt] RBool [On QTabBar; On QTabWidget];
    Sig [] "isTabVisible" [PInt] RBool [On QTabBar; On QTabWidget];
    Sig [] "isVisible" [] RBool [On QSystemTrayIcon]
  ].

Definition methods_qtwidgets_3_s70 : list signature_row :=
  [
    Sig [VALUE_TYPE_QTCORE_QRECT; VALUE_TYPE_QTGUI_QPIXMAP] "itemPixmapRect" [PValue QRect; PInt; PValue
        QPixmap] (RValue QRect) [On QStyle];
    Sig [VALUE_TYPE_QTCORE_QRECT; VALUE_TYPE_QTGUI_QFONTMETRICS] "itemTextRect" [PValue QFontMetrics;
        PValue QRect; PInt; PBool; PString true] (RValue QRect) [On QStyle];
    Sig [] "keys" [] (RList (IMeta QString)) [Static QStyleFactory];
    Sig [VALUE_TYPE_QTGUI_QTRANSFORM] "levelOfDetailFromTransform" [PValue QTransform] RDouble [Static
        QStyleOptionGraphicsItem];
    Sig [] "maximum" [] RDouble [On QSpinBox];
    Sig [TYPE_QTWIDGETS_QMENU] "menu" [] RObject [On QPushButton];
    Sig [] "message" [] RString [On QSplashScreen];
    Sig [] "minimum" [] RDouble [On QSpinBox];
    Sig [VALUE_TYPE_QTCORE_QSIZE] "minimumSize" [] (RValue QSize) [On QStackedLayout]
  ].

Definition methods_qtwidgets_3_s79 : list signature_row :=
  [
    Sig [VALUE_TYPE_QTCORE_QSIZE] "minimumSizeHint" [] (RValue QSize) [On QPushButton; On QRadioButton; On
        QSlider; On QSplitter; On QTabBar; On QTabWidget];
    Sig [VALUE_TYPE_QTCORE_QPOINT] "move" [PValue QPoint] RVoid [On QRubberBand];
    Sig [] "move" [PInt; PInt] RVoid [On QRubberBand];
    Sig [] "moveTab" [PInt; PInt] RVoid [On QTabBar];
    Sig [] "name" [] RString [On QStyle];
    Sig [] "opaqueResize" [] RBool [On QSplitter; On QSplitterHandle];
    Sig [ENUM_QT_ORIENTATION] "orientation" [] (RMeta Qt_Orientation) [On QSplitter; On QSplitterHandle];
    Sig [VALUE_TYPE_QTCORE_QPOINTF] "pixelPerMeter" [] (RValue QPointF) [On QScroller]
  ].

Definition methods_qtwidgets_3_s87 : list signature_row :=
  [
    Sig [VALUE_TYPE_QTGUI_QPIXMAP] "pixmap" [] (RValue QPixmap) [On QSplashScreen];
    Sig [TYPE_QTWIDGETS_QAPPLICATION] "polish" [PObject QApplication false] RVoid [On QStyle];
    Sig [TYPE_QTWIDGETS_QWIDGET] "polish" [PObject QWidget false] RVoid [On QStyle];
    Sig [] "prefix" [] RString [On QSpinBox];
    Sig [TYPE_QTWIDGETS_QSTYLE] "proxy" [] RObject [On QStyle];
    Sig [] "refresh" [] RVoid [On QSplitter];
    Sig [] "removeTab" [PInt] RVoid [On QTabBar; On QTabWidget];
    Sig [TYPE_QTWIDGETS_QWIDGET] "removeWidget" [PObject QWidget false] RVoid [On QStackedWidget; On
        QStatusBar];
    Sig [] "repaint" [] RVoid [On QSplashScreen]
  ].

Definition methods_qtwidgets_3_s96 : list signature_row :=
  [
    Sig [TYPE_QTWIDGETS_QWIDGET] "replaceWidget" [PInt; PObject QWidget false] RObject [On QSplitter];
    Sig [] "resendPrepareEvent" [] RVoid [On QScroller];
    Sig [VALUE_TYPE_QTCORE_QSIZE] "resize" [PValue QSize] RVoid [On QRubberBand];
    Sig [] "resize" [PInt; PInt] RVoid [On QRubberBand];
    Sig [VALUE_TYPE_QTCORE_QBYTEARRAY] "restoreState" [PValue QByteArray] RBool [On QSplitter];
    Sig [VALUE_TYPE_QTCORE_QBYTEARRAY] "saveState" [] (RValue QByteArray) [On QSplitter];
    Sig [VALUE_TYPE_QTCORE_QPOINTF] "scrollTo" [PValue QPointF] RVoid [On QScroller];
    Sig [VALUE_TYPE_QTCORE_QPOINTF] "scrollTo" [PValue QPointF; PInt] RVoid [On QScroller];
    Sig [TYPE_QTCORE_QOBJECT; TYPE_QTWIDGETS_QSCROLLER] "scroller" [PObject QObject false] RObject [Static
        QScroller]
  ].

Definition methods_qtwidgets_3_s105 : list signature_row :=
  [
    Sig [VALUE_TYPE_QTWIDGETS_QSCROLLERPROPERTIES] "scrollerProperties" [] (RValue QScrollerProperties) [On
        QScroller];
    Sig [TYPE_QTWIDGETS_QTABBAR] "selectionBehaviorOnRemove" [] (RMeta QTabBar_SelectionBehavior) [On
        QTabBar];
    Sig [] "setAccessibleTabName" [PInt; PString true] RVoid [On QTabBar];
    Sig [] "setAutoDefault" [PBool] RVoid [On QPushButton];
    Sig [] "setAutoHide" [PBool] RVoid [On QTabBar];
    Sig [] "setChangeCurrentOnDrag" [PBool] RVoid [On QTabBar];
    Sig [] "setChildrenCollapsible" [PBool] RVoid [On QSplitter];
    Sig [] "setCollapsible" [PInt; PBool] RVoid [On QSplitter];
    Sig [TYPE_QTWIDGETS_QMENU] "setContextMenu" [PObject QMenu false] RVoid [On QSystemTrayIcon];
    Sig [ENUM_QT_CORNER; TYPE_QTWIDGETS_QWIDGET] "setCornerWidget" [PObject QWidget false; PValue
        Qt_Corner] RVoid [On QTabWidget]
  ].

Definition methods_qtwidgets_3_s115 : list signature_row :=
  [
    Sig [] "setCurrentIndex" [PInt] RVoid [On QStackedLayout; On QStackedWidget; On QTabBar; On QTabWidget];
    Sig [TYPE_QTWIDGETS_QWIDGET] "setCurrentWidget" [PObject QWidget false] RVoid [On QStackedLayout; On
        QStackedWidget; On QTabWidget];
    Sig [] "setDefault" [PBool] RVoid [On QPushButton];
    Sig [VALUE_TYPE_QTWIDGETS_QSCROLLERPROPERTIES] "setDefaultScrollerProperties" [PValue
        QScrollerProperties] RVoid [Static QScrollerProperties];
    Sig [] "setDisplayIntegerBase" [PInt] RVoid [On QSpinBox];
    Sig [] "setDocumentMode" [PBool] RVoid [On QTabBar; On QTabWidget];
    Sig [] "setDrawBase" [PBool] RVoid [On QTabBar];
    Sig [TYPE_QTWIDGETS_QWIDGET; VALUE_TYPE_QTCORE_QMODELINDEX] "setEditorData" [PObject QWidget false;
        PValue QModelIndex] RVoid [On QStyledItemDelegate]
  ].

Definition methods_qtwidgets_3_s123 : list signature_row :=
  [
    Sig [ENUM_QT_TEXTELIDEMODE] "setElideMode" [PValue Qt_TextElideMode] RVoid [On QTabBar; On QTabWidget];
    Sig [] "setExpanding" [PBool] RVoid [On QTabBar];
    Sig [] "setFlat" [PBool] RVoid [On QPushButton];
    Sig [VALUE_TYPE_QTCORE_QRECT] "setGeometry" [PValue QRect] RVoid [On QRubberBand; On QStackedLayout];
    Sig [] "setGeometry" [PInt; PInt; PInt; PInt] RVoid [On QRubberBand];
    Sig [] "setHandleWidth" [PInt] RVoid [On QSplitter];
    Sig [VALUE_TYPE_QTGUI_QICON] "setIcon" [PValue QIcon] RVoid [On QSystemTrayIcon];
    Sig [VALUE_TYPE_QTCORE_QSIZE] "setIconSize" [PValue QSize] RVoid [On QTabBar; On QTabWidget]
  ].

Definition methods_qtwidgets_3_s131 : list signature_row :=
  [
    Sig [] "setMaximum" [PInt] RVoid [On QSpinBox];
    Sig [TYPE_QTWIDGETS_QMENU] "setMenu" [PObject QMenu false] RVoid [On QPushButton];
    Sig [] "setMinimum" [PInt] RVoid [On QSpinBox];
    Sig [TYPE_QTCORE_QABSTRACTITEMMODEL; TYPE_QTWIDGETS_QWIDGET; VALUE_TYPE_QTCORE_QMODELINDEX]
        "setModelData" [PObject QWidget false; PObject QAbstractItemModel false; PValue QModelIndex] RVoid
        [On QStyledItemDelegate];
    Sig [] "setMovable" [PBool] RVoid [On QTabBar; On QTabWidget];
    Sig [] "setOpaqueResize" [PBool] RVoid [On QSplitter];
    Sig [ENUM_QT_ORIENTATION] "setOrientation" [PValue Qt_Orientation] RVoid [On QSplitter; On
        QSplitterHandle];
    Sig [VALUE_TYPE_QTGUI_QPIXMAP] "setPixmap" [PValue QPixmap] RVoid [On QSplashScreen];
    Sig [] "setPrefix" [PString true] RVoid [On QSpinBox]
  ].

Definition methods_qtwidgets_3_s140 : list signature_row :=
  [
    Sig [] "setRange" [PInt; PInt] RVoid [On QSpinBox];
    Sig [VALUE_TYPE_QTWIDGETS_QSCROLLERPROPERTIES] "setScrollerProperties" [PValue QScrollerProperties]
        RVoid [On QScroller];
    Sig [TYPE_QTWIDGETS_QTABBAR] "setSelectionBehaviorOnRemove" [PValue QTabBar_SelectionBehavior] RVoid
        [On QTabBar];
    Sig [TYPE_QTWIDGETS_QTABBAR] "setShape" [PValue QTabBar_Shape] RVoid [On QTabBar];
    Sig [] "setSingleStep" [PInt] RVoid [On QSpinBox];
    Sig [] "setSizeGripEnabled" [PBool] RVoid [On QStatusBar];
    Sig [] "setSizes" [PList (IMeta cxx_int)] RVoid [On QSplitter];
    Sig [] "setSnapPositionsX" [PList (IMeta cxx_qreal)] RVoid [On QScroller];
    Sig [] "setSnapPositionsX" [PNumber cxx_qreal; PNumber cxx_qreal] RVoid [On QScroller]
  ].

Definition methods_qtwidgets_3_s149 : list signature_row :=
  [
    Sig [] "setSnapPositionsY" [PList (IMeta cxx_qreal)] RVoid [On QScroller];
    Sig [] "setSnapPositionsY" [PNumber cxx_qreal; PNumber cxx_qreal] RVoid [On QScroller];
    Sig [TYPE_QTWIDGETS_QSTACKEDLAYOUT] "setStackingMode" [PValue QStackedLayout_StackingMode] RVoid [On
        QStackedLayout];
    Sig [TYPE_QTWIDGETS_QABSTRACTSPINBOX] "setStepType" [PValue QAbstractSpinBox_StepType] RVoid [On
        QSpinBox];
    Sig [] "setStretchFactor" [PInt; PInt] RVoid [On QSplitter];
    Sig [] "setSuffix" [PString true] RVoid [On QSpinBox];
    Sig [] "setSwipeAngle" [PNumber cxx_qreal] RVoid [On QSwipeGesture];
    Sig [] "setTabBarAutoHide" [PBool] RVoid [On QTabWidget];
    Sig [TYPE_QTWIDGETS_QTABBAR; TYPE_QTWIDGETS_QWIDGET] "setTabButton" [PInt; PValue
        QTabBar_ButtonPosition; PObject QWidget false] RVoid [On QTabBar]
  ].

Definition methods_qtwidgets_3_s158 : list signature_row :=
  [
    Sig [] "setTabData" [PInt; PVariant] RVoid [On QTabBar];
    Sig [] "setTabEnabled" [PInt; PBool] RVoid [On QTabBar; On QTabWidget];
    Sig [VALUE_TYPE_QTGUI_QICON] "setTabIcon" [PInt; PValue QIcon] RVoid [On QTabBar; On QTabWidget];
    Sig [TYPE_QTWIDGETS_QTABWIDGET] "setTabPosition" [PValue QTabWidget_TabPosition] RVoid [On QTabWidget];
    Sig [TYPE_QTWIDGETS_QTABWIDGET] "setTabShape" [PValue QTabWidget_TabShape] RVoid [On QTabWidget];
    Sig [] "setTabText" [PInt; PString true] RVoid [On QTabBar; On QTabWidget];
    Sig [VALUE_TYPE_QTGUI_QCOLOR] "setTabTextColor" [PInt; PValue QColor] RVoid [On QTabBar];
    Sig [] "setTabToolTip" [PInt; PString true] RVoid [On QTabBar; On QTabWidget]
  ].

Definition methods_qtwidgets_3_s166 : list signature_row :=
  [
    Sig [] "setTabVisible" [PInt; PBool] RVoid [On QTabBar; On QTabWidget];
    Sig [] "setTabWhatsThis" [PInt; PString true] RVoid [On QTabBar; On QTabWidget];
    Sig [] "setTabsClosable" [PBool] RVoid [On QTabBar; On QTabWidget];
    Sig [] "setTickInterval" [PInt] RVoid [On QSlider];
    Sig [TYPE_QTWIDGETS_QSLIDER] "setTickPosition" [PValue QSlider_TickPosition] RVoid [On QSlider];
    Sig [] "setToolTip" [PString true] RVoid [On QSystemTrayIcon];
    Sig [] "setUsesScrollButtons" [PBool] RVoid [On QTabBar; On QTabWidget];
    Sig [] "setValue" [PInt] RVoid [On QSpinBox]
  ].

Definition methods_qtwidgets_3_s174 : list signature_row :=
  [
    Sig [] "setVisible" [PBool] RVoid [On QSizeGrip; On QSystemTrayIcon];
    Sig [TYPE_QTWIDGETS_QWIDGET] "setWidget" [PObject QWidget false] RVoid [On QScrollArea];
    Sig [] "setWidgetResizable" [PBool] RVoid [On QScrollArea];
    Sig [TYPE_QTWIDGETS_QRUBBERBAND] "shape" [] (RMeta QRubberBand_Shape) [On QRubberBand];
    Sig [TYPE_QTWIDGETS_QTABBAR] "shape" [] (RMeta QTabBar_Shape) [On QTabBar];
    Sig [] "show" [] RVoid [On QSystemTrayIcon];
    Sig [] "showMenu" [] RVoid [On QPushButton];
    Sig [VALUE_TYPE_QTGUI_QICON] "showMessage" [PString true; PString true; PValue QIcon; PInt] RVoid [On
        QSystemTrayIcon];
    Sig [TYPE_QTWIDGETS_QSYSTEMTRAYICON] "showMessage" [PString true; PString true; PValue
        QSystemTrayIcon_MessageIcon; PInt] RVoid [On QSystemTrayIcon]
  ].

Definition methods_qtwidgets_3_s183 : list signature_row :=
  [
    Sig [] "showMessage" [PString true; PInt] RVoid [On QStatusBar];
    Sig [VALUE_TYPE_QTGUI_QCOLOR] "showMessage" [PString true; PInt; PValue QColor] RVoid [On
        QSplashScreen];
    Sig [] "singleStep" [] RDouble [On QSpinBox];
    Sig [VALUE_TYPE_QTCORE_QSIZE] "sizeHint" [] (RValue QSize) [On QPushButton; On QRadioButton; On
        QScrollArea; On QScrollBar; On QSizeGrip; On QSlider; On QSplitter; On QSplitterHandle; On
        QStackedLayout; On QTabBar; On QTabWidget];
    Sig [VALUE_TYPE_QTCORE_QMODELINDEX; VALUE_TYPE_QTCORE_QSIZE; VALUE_TYPE_QTWIDGETS_QSTYLEOPTIONVIEWITEM]
        "sizeHint" [PValue QStyleOptionViewItem; PValue QModelIndex] (RValue QSize) [On QStyledItemDelegate]
  ].

Definition methods_qtwidgets_3_s188 : list signature_row :=
  [
    Sig [] "sizes" [] (RList (IMeta cxx_int)) [On QSplitter];
    Sig [] "sliderPositionFromValue" [PInt; PInt; PInt; PInt; PBool] RDouble [Static QStyle];
    Sig [] "sliderValueFromPosition" [PInt; PInt; PInt; PInt; PBool] RDouble [Static QStyle];
    Sig [TYPE_QTWIDGETS_QSPLITTER] "splitter" [] RObject [On QSplitterHandle];
    Sig [TYPE_QTWIDGETS_QSTACKEDLAYOUT] "stackingMode" [] (RMeta QStackedLayout_StackingMode) [On
        QStackedLayout];
    Sig [VALUE_TYPE_QTGUI_QPALETTE] "standardPalette" [] (RValue QPalette) [On QStyle];
    Sig [TYPE_QTWIDGETS_QSCROLLER] "state" [] (RMeta QScroller_State) [On QScroller];
    Sig [TYPE_QTWIDGETS_QABSTRACTSPINBOX] "stepType" [] (RMeta QAbstractSpinBox_StepType) [On QSpinBox];
    Sig [] "stop" [] RVoid [On QScroller];
    Sig [] "suffix" [] RString [On QSpinBox]
  ].

Definition methods_qtwidgets_3_s198 : list signature_row :=
  [
    Sig [] "supportsMessages" [] RBool [Static QSystemTrayIcon];
    Sig [] "swipeAngle" [] RDouble [On QSwipeGesture];
    Sig [VALUE_TYPE_QTCORE_QPOINT] "tabAt" [PValue QPoint] RDouble [On QTabBar];
    Sig [TYPE_QTWIDGETS_QTABBAR] "tabBar" [] RObject [On QTabWidget];
    Sig [] "tabBarAutoHide" [] RBool [On QTabWidget];
    Sig [TYPE_QTWIDGETS_QTABBAR; TYPE_QTWIDGETS_QWIDGET] "tabButton" [PInt; PValue QTabBar_ButtonPosition]
        RObject [On QTabBar];
    Sig [] "tabData" [PInt] RVariant [On QTabBar];
    Sig [VALUE_TYPE_QTGUI_QICON] "tabIcon" [PInt] (RValue QIcon) [On QTabBar; On QTabWidget];
    Sig [TYPE_QTWIDGETS_QTABWIDGET] "tabPosition" [] (RMeta QTabWidget_TabPosition) [On QTabWidget];
    Sig [VALUE_TYPE_QTCORE_QRECT] "tabRect" [PInt] (RValue QRect) [On QTabBar]
  ].

Definition methods_qtwidgets_3_s208 : list signature_row :=
  [
    Sig [TYPE_QTWIDGETS_QTABWIDGET] "tabShape" [] (RMeta QTabWidget_TabShape) [On QTabWidget];
    Sig [] "tabText" [PInt] RString [On QTabBar; On QTabWidget];
    Sig [VALUE_TYPE_QTGUI_QCOLOR] "tabTextColor" [PInt] (RValue QColor) [On QTabBar];
    Sig [] "tabToolTip" [PInt] RString [On QTabBar; On QTabWidget];
    Sig [] "tabWhatsThis" [PInt] RString [On QTabBar; On QTabWidget];
    Sig [] "tabsClosable" [] RBool [On QTabBar; On QTabWidget];
    Sig [TYPE_QTWIDGETS_QWIDGET] "takeWidget" [] RObject [On QScrollArea];
    Sig [TYPE_QTCORE_QOBJECT] "target" [] RObject [On QScroller];
    Sig [] "tickInterval" [] RDouble [On QSlider];
    Sig [TYPE_QTWIDGETS_QSLIDER] "tickPosition" [] (RMeta QSlider_TickPosition) [On QSlider]
  ].

Definition methods_qtwidgets_3_s218 : list signature_row :=
  [
    Sig [] "toolTip" [] RString [On QSystemTrayIcon];
    Sig [TYPE_QTCORE_QOBJECT] "ungrabGesture" [PObject QObject false] RVoid [Static QScroller];
    Sig [TYPE_QTWIDGETS_QAPPLICATION] "unpolish" [PObject QApplication false] RVoid [On QStyle];
    Sig [TYPE_QTWIDGETS_QWIDGET] "unpolish" [PObject QWidget false] RVoid [On QStyle];
    Sig [] "unsetDefaultScrollerProperties" [] RVoid [Static QScrollerProperties];
    Sig [TYPE_QTWIDGETS_QWIDGET; VALUE_TYPE_QTCORE_QMODELINDEX; VALUE_TYPE_QTWIDGETS_QSTYLEOPTIONVIEWITEM]
        "updateEditorGeometry" [PObject QWidget false; PValue QStyleOptionViewItem; PValue QModelIndex]
        RVoid [On QStyledItemDelegate];
    Sig [] "usesScrollButtons" [] RBool [On QTabBar; On QTabWidget];
    Sig [] "value" [] RDouble [On QSpinBox];
    Sig [VALUE_TYPE_QTCORE_QPOINTF] "velocity" [] (RValue QPointF) [On QScroller];
    Sig [TYPE_QTWIDGETS_QSWIPEGESTURE] "verticalDirection" [] (RMeta QSwipeGesture_SwipeDirection) [On
        QSwipeGesture]
  ].

Definition methods_qtwidgets_3_s228 : list signature_row :=
  [
    Sig [ENUM_QT_LAYOUTDIRECTION; VALUE_TYPE_QTCORE_QPOINT; VALUE_TYPE_QTCORE_QRECT] "visualPos" [PValue
        Qt_LayoutDirection; PValue QRect; PValue QPoint] (RValue QPoint) [Static QStyle];
    Sig [ENUM_QT_LAYOUTDIRECTION; VALUE_TYPE_QTCORE_QRECT] "visualRect" [PValue Qt_LayoutDirection; PValue
        QRect; PValue QRect] (RValue QRect) [Static QStyle];
    Sig [TYPE_QTWIDGETS_QWIDGET] "widget" [] RObject [On QScrollArea];
    Sig [TYPE_QTWIDGETS_QWIDGET] "widget" [PInt] RObject [On QSplitter; On QStackedLayout; On
        QStackedWidget; On QTabWidget];
    Sig [] "widgetResizable" [] RBool [On QScrollArea]
  ].

Definition methods_qtwidgets_3 : method_shard :=
  MethodShard QtWidgets "KRY_QT6_NATIVE_METHODS_QTWIDGETS_"
    (methods_qtwidgets_3_i0 ++ methods_qtwidgets_3_i1)
    (methods_qtwidgets_3_s0 ++ methods_qtwidgets_3_s9 ++ methods_qtwidgets_3_s19 ++ methods_qtwidgets_3_s27
        ++ methods_qtwidgets_3_s35 ++ methods_qtwidgets_3_s45 ++ methods_qtwidgets_3_s53 ++
        methods_qtwidgets_3_s60 ++ methods_qtwidgets_3_s70 ++ methods_qtwidgets_3_s79 ++
        methods_qtwidgets_3_s87 ++ methods_qtwidgets_3_s96 ++ methods_qtwidgets_3_s105 ++
        methods_qtwidgets_3_s115 ++ methods_qtwidgets_3_s123 ++ methods_qtwidgets_3_s131 ++
        methods_qtwidgets_3_s140 ++ methods_qtwidgets_3_s149 ++ methods_qtwidgets_3_s158 ++
        methods_qtwidgets_3_s166 ++ methods_qtwidgets_3_s174 ++ methods_qtwidgets_3_s183 ++
        methods_qtwidgets_3_s188 ++ methods_qtwidgets_3_s198 ++ methods_qtwidgets_3_s208 ++
        methods_qtwidgets_3_s218 ++ methods_qtwidgets_3_s228)
    [].

Definition methods_qtwidgets_4_i0 : list include :=
  [
    ClassInclude QtWidgets QTableView QTableView;
    ClassInclude QtWidgets QTableWidget QTableWidget;
    ClassInclude QtWidgets QTapAndHoldGesture QTapAndHoldGesture;
    ClassInclude QtWidgets QTapGesture QTapGesture;
    ClassInclude QtWidgets QTextBrowser QTextBrowser;
    ClassInclude QtWidgets QTextEdit QTextEdit;
    ClassInclude QtWidgets QToolBar QToolBar;
    ClassInclude QtWidgets QToolBox QToolBox;
    ClassInclude QtWidgets QToolButton QToolButton;
    ClassInclude QtWidgets QToolTip QToolTip;
    ClassInclude QtWidgets QTreeView QTreeView;
    ClassInclude QtWidgets QTreeWidget QTreeWidget;
    ClassInclude QtWidgets QUndoView QUndoView;
    ClassInclude QtWidgets QWhatsThis QWhatsThis;
    ClassInclude QtWidgets QWidget QWidget;
    ClassInclude QtWidgets QWidgetAction QWidgetAction;
    ClassInclude QtWidgets QWizard QWizard;
    ClassInclude QtWidgets QWizardPage QWizardPage;
    TypeInclude QtCore QAbstractItemModel TYPE_QTCORE_QABSTRACTITEMMODEL;
    TypeInclude QtCore QItemSelectionModel TYPE_QTCORE_QITEMSELECTIONMODEL;
    TypeInclude QtGui QScreen TYPE_QTGUI_QSCREEN;
    TypeInclude QtGui QTextDocument TYPE_QTGUI_QTEXTDOCUMENT;
    TypeInclude QtGui QUndoGroup TYPE_QTGUI_QUNDOGROUP;
    TypeInclude QtGui QUndoStack TYPE_QTGUI_QUNDOSTACK;
    TypeInclude QtGui QWindow TYPE_QTGUI_QWINDOW;
    TypeInclude QtWidgets QAbstractButton TYPE_QTWIDGETS_QABSTRACTBUTTON;
    TypeInclude QtWidgets QGraphicsEffect TYPE_QTWIDGETS_QGRAPHICSEFFECT;
    TypeInclude QtWidgets QGraphicsProxyWidget TYPE_QTWIDGETS_QGRAPHICSPROXYWIDGET;
    TypeInclude QtWidgets QHeaderView TYPE_QTWIDGETS_QHEADERVIEW;
    TypeInclude QtWidgets QLayout TYPE_QTWIDGETS_QLAYOUT;
    TypeInclude QtWidgets QMenu TYPE_QTWIDGETS_QMENU;
    TypeInclude QtWidgets QStyle TYPE_QTWIDGETS_QSTYLE;
    TypeInclude QtWidgets QWidget TYPE_QTWIDGETS_QWIDGET;
    TypeInclude QtWidgets QWizardPage TYPE_QTWIDGETS_QWIZARDPAGE;
    EnumDefine ENUM_QT_ARROWTYPE;
    EnumDefine ENUM_QT_CONTEXTMENUPOLICY;
    EnumDefine ENUM_QT_DROPACTIONS;
    EnumDefine ENUM_QT_FOCUSPOLICY;
    EnumDefine ENUM_QT_FOCUSREASON;
    EnumDefine ENUM_QT_GESTURETYPE;
    EnumDefine ENUM_QT_INPUTMETHODQUERY;
    EnumDefine ENUM_QT_LAYOUTDIRECTION;
    EnumDefine ENUM_QT_ORIENTATION;
    EnumDefine ENUM_QT_PENSTYLE;
    EnumDefine ENUM_QT_SHORTCUTCONTEXT;
    EnumDefine ENUM_QT_SORTORDER;
    EnumDefine ENUM_QT_TEXTFORMAT;
    EnumDefine ENUM_QT_TOOLBARAREA;
    EnumDefine ENUM_QT_TOOLBARAREAS;
    EnumDefine ENUM_QT_TOOLBUTTONSTYLE;
    EnumDefine ENUM_QT_WIDGETATTRIBUTE;
    EnumDefine ENUM_QT_WINDOWFLAGS;
    EnumDefine ENUM_QT_WINDOWMODALITY;
    EnumDefine ENUM_QT_WINDOWSTATES;
    EnumDefine ENUM_QT_WINDOWTYPE;
    TypeInclude QtGui QPalette TYPE_QTGUI_QPALETTE;
    TypeInclude QtGui QTextCursor TYPE_QTGUI_QTEXTCURSOR;
    TypeInclude QtGui QTextDocument TYPE_QTGUI_QTEXTDOCUMENT;
    TypeInclude QtGui QTextOption TYPE_QTGUI_QTEXTOPTION;
    TypeInclude QtWidgets QAbstractItemView TYPE_QTWIDGETS_QABSTRACTITEMVIEW;
    TypeInclude QtWidgets QSizePolicy TYPE_QTWIDGETS_QSIZEPOLICY;
    TypeInclude QtWidgets QTextEdit TYPE_QTWIDGETS_QTEXTEDIT;
    TypeInclude QtWidgets QToolButton TYPE_QTWIDGETS_QTOOLBUTTON
  ].

Definition methods_qtwidgets_4_i1 : list include :=
  [
    TypeInclude QtWidgets QWizard TYPE_QTWIDGETS_QWIZARD;
    TypeInclude QtCore QByteArray VALUE_TYPE_QTCORE_QBYTEARRAY;
    TypeInclude QtCore QLocale VALUE_TYPE_QTCORE_QLOCALE;
    TypeInclude QtCore QMargins VALUE_TYPE_QTCORE_QMARGINS;
    TypeInclude QtCore QModelIndex VALUE_TYPE_QTCORE_QMODELINDEX;
    TypeInclude QtCore QPoint VALUE_TYPE_QTCORE_QPOINT;
    TypeInclude QtCore QPointF VALUE_TYPE_QTCORE_QPOINTF;
    TypeInclude QtCore QRect VALUE_TYPE_QTCORE_QRECT;
    TypeInclude QtCore QSize VALUE_TYPE_QTCORE_QSIZE;
    TypeInclude QtCore QUrl VALUE_TYPE_QTCORE_QURL;
    TypeInclude QtGui QBitmap VALUE_TYPE_QTGUI_QBITMAP;
    TypeInclude QtGui QColor VALUE_TYPE_QTGUI_QCOLOR;
    TypeInclude QtGui QCursor VALUE_TYPE_QTGUI_QCURSOR;
    TypeInclude QtGui QFont VALUE_TYPE_QTGUI_QFONT;
    TypeInclude QtGui QFontInfo VALUE_TYPE_QTGUI_QFONTINFO;
    TypeInclude QtGui QFontMetrics VALUE_TYPE_QTGUI_QFONTMETRICS;
    TypeInclude QtGui QIcon VALUE_TYPE_QTGUI_QICON;
    TypeInclude QtGui QKeySequence VALUE_TYPE_QTGUI_QKEYSEQUENCE;
    TypeInclude QtGui QPalette VALUE_TYPE_QTGUI_QPALETTE;
    TypeInclude QtGui QPixmap VALUE_TYPE_QTGUI_QPIXMAP;
    TypeInclude QtGui QRegion VALUE_TYPE_QTGUI_QREGION;
    TypeInclude QtGui QTextCharFormat VALUE_TYPE_QTGUI_QTEXTCHARFORMAT;
    TypeInclude QtGui QTextCursor VALUE_TYPE_QTGUI_QTEXTCURSOR;
    TypeInclude QtWidgets QSizePolicy VALUE_TYPE_QTWIDGETS_QSIZEPOLICY;
    TypeInclude QtWidgets QTableWidgetSelectionRange VALUE_TYPE_QTWIDGETS_QTABLEWIDGETSELECTIONRANGE
  ].

Definition methods_qtwidgets_4_s0 : list signature_row :=
  [
    Sig [] "acceptDrops" [] RBool [On QWidget];
    Sig [] "acceptRichText" [] RBool [On QTextEdit];
    Sig [] "accessibleDescription" [] RString [On QWidget];
    Sig [] "accessibleIdentifier" [] RString [On QWidget];
    Sig [] "accessibleName" [] RString [On QWidget];
    Sig [] "activateWindow" [] RVoid [On QWidget];
    Sig [TYPE_QTWIDGETS_QWIDGET; VALUE_TYPE_QTGUI_QICON] "addItem" [PObject QWidget false; PValue QIcon;
        PString true] RDouble [On QToolBox];
    Sig [TYPE_QTWIDGETS_QWIDGET] "addItem" [PObject QWidget false; PString true] RDouble [On QToolBox];
    Sig [TYPE_QTWIDGETS_QWIZARDPAGE] "addPage" [PObject QWizardPage false] RDouble [On QWizard];
    Sig [] "adjustSize" [] RVoid [On QWidget];
    Sig [] "allColumnsShowFocus" [] RBool [On QTreeView]
  ].

Definition methods_qtwidgets_4_s11 : list signature_row :=
  [
    Sig [ENUM_QT_TOOLBARAREAS] "allowedAreas" [] (RMeta Qt_ToolBarAreas) [On QToolBar];
    Sig [VALUE_TYPE_QTCORE_QPOINT] "anchorAt" [PValue QPoint] RString [On QTextEdit];
    Sig [] "append" [PString true] RVoid [On QTextEdit];
    Sig [ENUM_QT_ARROWTYPE] "arrowType" [] (RMeta Qt_ArrowType) [On QToolButton];
    Sig [] "autoExpandDelay" [] RDouble [On QTreeView];
    Sig [] "autoFillBackground" [] RBool [On QWidget];
    Sig [] "autoRaise" [] RBool [On QToolButton];
    Sig [] "back" [] RVoid [On QWizard];
    Sig [TYPE_QTGUI_QPALETTE] "backgroundRole" [] (RMeta QPalette_ColorRole) [On QWidget];
    Sig [] "backward" [] RVoid [On QTextBrowser];
    Sig [] "backwardHistoryCount" [] RDouble [On QTextBrowser]
  ].

Definition methods_qtwidgets_4_s22 : list signature_row :=
  [
    Sig [VALUE_TYPE_QTCORE_QSIZE] "baseSize" [] (RValue QSize) [On QWidget];
    Sig [TYPE_QTWIDGETS_QABSTRACTBUTTON; TYPE_QTWIDGETS_QWIZARD] "button" [PValue QWizard_WizardButton]
        RObject [On QWizard];
    Sig [TYPE_QTWIDGETS_QWIZARD] "buttonText" [PValue QWizard_WizardButton] RString [On QWizard; On
        QWizardPage];
    Sig [] "canPaste" [] RBool [On QTextEdit];
    Sig [TYPE_QTWIDGETS_QWIDGET] "cellWidget" [PInt; PInt] RObject [On QTableWidget];
    Sig [TYPE_QTWIDGETS_QWIDGET; VALUE_TYPE_QTCORE_QPOINT] "childAt" [PValue QPoint] RObject [On QWidget];
    Sig [TYPE_QTWIDGETS_QWIDGET; VALUE_TYPE_QTCORE_QPOINTF] "childAt" [PValue QPointF] RObject [On QWidget];
    Sig [TYPE_QTWIDGETS_QWIDGET] "childAt" [PInt; PInt] RObject [On QWidget];
    Sig [VALUE_TYPE_QTCORE_QRECT] "childrenRect" [] (RValue QRect) [On QWidget]
  ].

Definition methods_qtwidgets_4_s31 : list signature_row :=
  [
    Sig [VALUE_TYPE_QTGUI_QREGION] "childrenRegion" [] (RValue QRegion) [On QWidget];
    Sig [VALUE_TYPE_QTGUI_QICON] "cleanIcon" [] (RValue QIcon) [On QUndoView];
    Sig [] "cleanupPage" [] RVoid [On QWizardPage];
    Sig [] "clear" [] RVoid [On QTableWidget; On QTextEdit; On QToolBar; On QTreeWidget];
    Sig [] "clearContents" [] RVoid [On QTableWidget];
    Sig [] "clearFocus" [] RVoid [On QWidget];
    Sig [] "clearHistory" [] RVoid [On QTextBrowser];
    Sig [] "clearMask" [] RVoid [On QWidget];
    Sig [] "clearSpans" [] RVoid [On QTableView];
    Sig [] "close" [] RBool [On QWidget]
  ].

Definition methods_qtwidgets_4_s41 : list signature_row :=
  [
    Sig [VALUE_TYPE_QTCORE_QMODELINDEX] "collapse" [PValue QModelIndex] RVoid [On QTreeView];
    Sig [] "collapseAll" [] RVoid [On QTreeView];
    Sig [] "columnAt" [PInt] RDouble [On QTableView; On QTreeView];
    Sig [] "columnCount" [] RDouble [On QTableWidget; On QTreeWidget];
    Sig [] "columnSpan" [PInt; PInt] RDouble [On QTableView];
    Sig [] "columnViewportPosition" [PInt] RDouble [On QTableView; On QTreeView];
    Sig [] "columnWidth" [PInt] RDouble [On QTableView; On QTreeView];
    Sig [VALUE_TYPE_QTCORE_QMARGINS] "contentsMargins" [] (RValue QMargins) [On QWidget];
    Sig [VALUE_TYPE_QTCORE_QRECT] "contentsRect" [] (RValue QRect) [On QWidget]
  ].

Definition methods_qtwidgets_4_s50 : list signature_row :=
  [
    Sig [ENUM_QT_CONTEXTMENUPOLICY] "contextMenuPolicy" [] (RMeta Qt_ContextMenuPolicy) [On QWidget];
    Sig [] "copy" [] RVoid [On QTextEdit];
    Sig [] "count" [] RDouble [On QToolBox];
    Sig [TYPE_QTWIDGETS_QMENU] "createStandardContextMenu" [] RObject [On QTextEdit];
    Sig [TYPE_QTWIDGETS_QMENU; VALUE_TYPE_QTCORE_QPOINT] "createStandardContextMenu" [PValue QPoint]
        RObject [On QTextEdit];
    Sig [VALUE_TYPE_QTGUI_QTEXTCHARFORMAT] "currentCharFormat" [] (RValue QTextCharFormat) [On QTextEdit];
    Sig [] "currentColumn" [] RDouble [On QTableWidget; On QTreeWidget];
    Sig [VALUE_TYPE_QTGUI_QFONT] "currentFont" [] (RValue QFont) [On QTextEdit];
    Sig [] "currentId" [] RDouble [On QWizard];
    Sig [] "currentIndex" [] RDouble [On QToolBox];
    Sig [TYPE_QTWIDGETS_QWIZARDPAGE] "currentPage" [] RObject [On QWizard]
  ].

Definition methods_qtwidgets_4_s61 : list signature_row :=
  [
    Sig [] "currentRow" [] RDouble [On QTableWidget];
    Sig [TYPE_QTWIDGETS_QWIDGET] "currentWidget" [] RObject [On QToolBox];
    Sig [VALUE_TYPE_QTGUI_QCURSOR] "cursor" [] (RValue QCursor) [On QWidget];
    Sig [VALUE_TYPE_QTCORE_QPOINT; VALUE_TYPE_QTGUI_QTEXTCURSOR] "cursorForPosition" [PValue QPoint]
        (RValue QTextCursor) [On QTextEdit];
    Sig [VALUE_TYPE_QTCORE_QRECT] "cursorRect" [] (RValue QRect) [On QTextEdit];
    Sig [VALUE_TYPE_QTCORE_QRECT; VALUE_TYPE_QTGUI_QTEXTCURSOR] "cursorRect" [PValue QTextCursor] (RValue
        QRect) [On QTextEdit];
    Sig [] "cursorWidth" [] RDouble [On QTextEdit];
    Sig [] "cut" [] RVoid [On QTextEdit];
    Sig [VALUE_TYPE_QTCORE_QMODELINDEX] "dataChanged" [PValue QModelIndex; PValue QModelIndex; PList (IMeta
        cxx_int)] RVoid [On QTreeView];
    Sig [TYPE_QTWIDGETS_QWIDGET] "defaultWidget" [] RObject [On QWidgetAction]
  ].

Definition methods_qtwidgets_4_s71 : list signature_row :=
  [
    Sig [] "devType" [] RDouble [On QWidget];
    Sig [TYPE_QTGUI_QTEXTDOCUMENT] "document" [] RObject [On QTextEdit];
    Sig [] "documentTitle" [] RString [On QTextEdit];
    Sig [] "emptyLabel" [] RString [On QUndoView];
    Sig [] "ensureCursorVisible" [] RVoid [On QTextEdit];
    Sig [] "ensurePolished" [] RVoid [On QWidget];
    Sig [] "enterWhatsThisMode" [] RVoid [Static QWhatsThis];
    Sig [VALUE_TYPE_QTCORE_QMODELINDEX] "expand" [PValue QModelIndex] RVoid [On QTreeView];
    Sig [] "expandAll" [] RVoid [On QTreeView];
    Sig [VALUE_TYPE_QTCORE_QMODELINDEX] "expandRecursively" [PValue QModelIndex; PInt] RVoid [On QTreeView];
    Sig [] "expandToDepth" [PInt] RVoid [On QTreeView]
  ].

Definition methods_qtwidgets_4_s82 : list signature_row :=
  [
    Sig [] "expandsOnDoubleClick" [] RBool [On QTreeView];
    Sig [] "field" [PString true] RVariant [On QWizard];
    Sig [ENUM_QT_FOCUSPOLICY] "focusPolicy" [] (RMeta Qt_FocusPolicy) [On QWidget];
    Sig [TYPE_QTWIDGETS_QWIDGET] "focusProxy" [] RObject [On QWidget];
    Sig [TYPE_QTWIDGETS_QWIDGET] "focusWidget" [] RObject [On QWidget];
    Sig [VALUE_TYPE_QTGUI_QFONT] "font" [] (RValue QFont) [On QWidget];
    Sig [VALUE_TYPE_QTGUI_QFONT] "font" [] (RValue QFont) [Static QToolTip];
    Sig [] "fontFamily" [] RString [On QTextEdit];
    Sig [VALUE_TYPE_QTGUI_QFONTINFO] "fontInfo" [] (RValue QFontInfo) [On QWidget];
    Sig [] "fontItalic" [] RBool [On QTextEdit];
    Sig [VALUE_TYPE_QTGUI_QFONTMETRICS] "fontMetrics" [] (RValue QFontMetrics) [On QWidget]
  ].

Definition methods_qtwidgets_4_s93 : list signature_row :=
  [
    Sig [] "fontPointSize" [] RDouble [On QTextEdit];
    Sig [] "fontUnderline" [] RBool [On QTextEdit];
    Sig [] "fontWeight" [] RDouble [On QTextEdit];
    Sig [TYPE_QTGUI_QPALETTE] "foregroundRole" [] (RMeta QPalette_ColorRole) [On QWidget];
    Sig [] "forward" [] RVoid [On QTextBrowser];
    Sig [] "forwardHistoryCount" [] RDouble [On QTextBrowser];
    Sig [VALUE_TYPE_QTCORE_QRECT] "frameGeometry" [] (RValue QRect) [On QWidget];
    Sig [VALUE_TYPE_QTCORE_QSIZE] "frameSize" [] (RValue QSize) [On QWidget];
    Sig [VALUE_TYPE_QTCORE_QRECT] "geometry" [] (RValue QRect) [On QWidget];
    Sig [VALUE_TYPE_QTCORE_QRECT; VALUE_TYPE_QTGUI_QPIXMAP] "grab" [PValue QRect] (RValue QPixmap) [On
        QWidget];
    Sig [] "grabKeyboard" [] RVoid [On QWidget]
  ].

Definition methods_qtwidgets_4_s104 : list signature_row :=
  [
    Sig [] "grabMouse" [] RVoid [On QWidget];
    Sig [VALUE_TYPE_QTGUI_QCURSOR] "grabMouse" [PValue QCursor] RVoid [On QWidget];
    Sig [ENUM_QT_SHORTCUTCONTEXT; VALUE_TYPE_QTGUI_QKEYSEQUENCE] "grabShortcut" [PValue QKeySequence;
        PValue Qt_ShortcutContext] RDouble [On QWidget];
    Sig [TYPE_QTWIDGETS_QGRAPHICSEFFECT] "graphicsEffect" [] RObject [On QWidget];
    Sig [TYPE_QTWIDGETS_QGRAPHICSPROXYWIDGET] "graphicsProxyWidget" [] RObject [On QWidget];
    Sig [ENUM_QT_PENSTYLE] "gridStyle" [] (RMeta Qt_PenStyle) [On QTableView];
    Sig [TYPE_QTGUI_QUNDOGROUP] "group" [] RObject [On QUndoView];
    Sig [] "hasFocus" [] RBool [On QWidget];
    Sig [] "hasHeightForWidth" [] RBool [On QWidget];
    Sig [] "hasMouseTracking" [] RBool [On QWidget];
    Sig [] "hasTabletTracking" [] RBool [On QWidget]
  ].

Definition methods_qtwidgets_4_s115 : list signature_row :=
  [
    Sig [] "hasVisitedPage" [PInt] RBool [On QWizard];
    Sig [TYPE_QTWIDGETS_QHEADERVIEW] "header" [] RObject [On QTreeView];
    Sig [] "height" [] RDouble [On QWidget];
    Sig [] "heightForWidth" [PInt] RDouble [On QWidget];
    Sig [] "hide" [] RVoid [On QWidget];
    Sig [] "hideColumn" [PInt] RVoid [On QTableView; On QTreeView];
    Sig [] "hideRow" [PInt] RVoid [On QTableView];
    Sig [] "hideText" [] RVoid [Static QToolTip; Static QWhatsThis];
    Sig [] "historyTitle" [PInt] RString [On QTextBrowser];
    Sig [VALUE_TYPE_QTCORE_QURL] "historyUrl" [PInt] (RValue QUrl) [On QTextBrowser]
  ].

Definition methods_qtwidgets_4_s125 : list signature_row :=
  [
    Sig [] "home" [] RVoid [On QTextBrowser];
    Sig [TYPE_QTWIDGETS_QHEADERVIEW] "horizontalHeader" [] RObject [On QTableView];
    Sig [VALUE_TYPE_QTCORE_QSIZE] "iconSize" [] (RValue QSize) [On QToolBar];
    Sig [] "inWhatsThisMode" [] RBool [Static QWhatsThis];
    Sig [] "indentation" [] RDouble [On QTreeView];
    Sig [VALUE_TYPE_QTCORE_QMODELINDEX] "indexAbove" [PValue QModelIndex] (RValue QModelIndex) [On
        QTreeView];
    Sig [VALUE_TYPE_QTCORE_QMODELINDEX; VALUE_TYPE_QTCORE_QPOINT] "indexAt" [PValue QPoint] (RValue
        QModelIndex) [On QTableView; On QTreeView];
    Sig [VALUE_TYPE_QTCORE_QMODELINDEX] "indexBelow" [PValue QModelIndex] (RValue QModelIndex) [On
        QTreeView];
    Sig [TYPE_QTWIDGETS_QWIDGET] "indexOf" [PObject QWidget false] RDouble [On QToolBox];
    Sig [] "initializePage" [] RVoid [On QWizardPage]
  ].

Definition methods_qtwidgets_4_s135 : list signature_row :=
  [
    Sig [ENUM_QT_INPUTMETHODQUERY] "inputMethodQuery" [PValue Qt_InputMethodQuery] RVariant [On QTextEdit;
        On QWidget];
    Sig [ENUM_QT_INPUTMETHODQUERY] "inputMethodQuery" [PValue Qt_InputMethodQuery; PVariant] RVariant [On
        QTextEdit];
    Sig [] "insertColumn" [PInt] RVoid [On QTableWidget];
    Sig [] "insertHtml" [PString true] RVoid [On QTextEdit];
    Sig [TYPE_QTWIDGETS_QWIDGET; VALUE_TYPE_QTGUI_QICON] "insertItem" [PInt; PObject QWidget false; PValue
        QIcon; PString true] RDouble [On QToolBox];
    Sig [TYPE_QTWIDGETS_QWIDGET] "insertItem" [PInt; PObject QWidget false; PString true] RDouble [On
        QToolBox];
    Sig [] "insertPlainText" [PString true] RVoid [On QTextEdit];
    Sig [] "insertRow" [PInt] RVoid [On QTableWidget];
    Sig [] "isActiveWindow" [] RBool [On QWidget]
  ].

Definition methods_qtwidgets_4_s144 : list signature_row :=
  [
    Sig [TYPE_QTWIDGETS_QWIDGET] "isAncestorOf" [PObject QWidget false] RBool [On QWidget];
    Sig [] "isAnimated" [] RBool [On QTreeView];
    Sig [ENUM_QT_TOOLBARAREA] "isAreaAllowed" [PValue Qt_ToolBarArea] RBool [On QToolBar];
    Sig [] "isBackwardAvailable" [] RBool [On QTextBrowser];
    Sig [] "isColumnHidden" [PInt] RBool [On QTableView; On QTreeView];
    Sig [] "isCommitPage" [] RBool [On QWizardPage];
    Sig [] "isComplete" [] RBool [On QWizardPage];
    Sig [] "isCornerButtonEnabled" [] RBool [On QTableView];
    Sig [] "isEnabled" [] RBool [On QWidget];
    Sig [TYPE_QTWIDGETS_QWIDGET] "isEnabledTo" [PObject QWidget false] RBool [On QWidget];
    Sig [VALUE_TYPE_QTCORE_QMODELINDEX] "isExpanded" [PValue QModelIndex] RBool [On QTreeView]
  ].

Definition methods_qtwidgets_4_s155 : list signature_row :=
  [
    Sig [] "isFinalPage" [] RBool [On QWizardPage];
    Sig [VALUE_TYPE_QTCORE_QMODELINDEX] "isFirstColumnSpanned" [PInt; PValue QModelIndex] RBool [On
        QTreeView];
    Sig [] "isFloatable" [] RBool [On QToolBar];
    Sig [] "isFloating" [] RBool [On QToolBar];
    Sig [] "isForwardAvailable" [] RBool [On QTextBrowser];
    Sig [] "isFullScreen" [] RBool [On QWidget];
    Sig [] "isHeaderHidden" [] RBool [On QTreeView];
    Sig [] "isHidden" [] RBool [On QWidget];
    Sig [] "isItemEnabled" [PInt] RBool [On QToolBox];
    Sig [] "isLeftToRight" [] RBool [On QWidget];
    Sig [] "isMaximized" [] RBool [On QWidget];
    Sig [] "isMinimized" [] RBool [On QWidget]
  ].

Definition methods_qtwidgets_4_s167 : list signature_row :=
  [
    Sig [] "isModal" [] RBool [On QWidget];
    Sig [] "isMovable" [] RBool [On QToolBar];
    Sig [] "isReadOnly" [] RBool [On QTextEdit];
    Sig [] "isRightToLeft" [] RBool [On QWidget];
    Sig [] "isRowHidden" [PInt] RBool [On QTableView];
    Sig [VALUE_TYPE_QTCORE_QMODELINDEX] "isRowHidden" [PInt; PValue QModelIndex] RBool [On QTreeView];
    Sig [] "isSortingEnabled" [] RBool [On QTableView; On QTableWidget; On QTreeView];
    Sig [] "isUndoRedoEnabled" [] RBool [On QTextEdit];
    Sig [] "isVisible" [] RBool [On QWidget];
    Sig [] "isVisible" [] RBool [Static QToolTip];
    Sig [TYPE_QTWIDGETS_QWIDGET] "isVisibleTo" [PObject QWidget false] RBool [On QWidget]
  ].

Definition methods_qtwidgets_4_s178 : list signature_row :=
  [
    Sig [] "isWindow" [] RBool [On QWidget];
    Sig [] "isWindowModified" [] RBool [On QWidget];
    Sig [VALUE_TYPE_QTGUI_QICON] "itemIcon" [PInt] (RValue QIcon) [On QToolBox];
    Sig [] "itemText" [PInt] RString [On QToolBox];
    Sig [] "itemToolTip" [PInt] RString [On QToolBox];
    Sig [] "itemsExpandable" [] RBool [On QTreeView];
    Sig [TYPE_QTWIDGETS_QWIDGET] "keyboardGrabber" [] RObject [Static QWidget];
    Sig [] "keyboardSearch" [PString true] RVoid [On QTreeView];
    Sig [TYPE_QTWIDGETS_QLAYOUT] "layout" [] RObject [On QWidget];
    Sig [ENUM_QT_LAYOUTDIRECTION] "layoutDirection" [] (RMeta Qt_LayoutDirection) [On QWidget];
    Sig [] "leaveWhatsThisMode" [] RVoid [Static QWhatsThis]
  ].

Definition methods_qtwidgets_4_s189 : list signature_row :=
  [
    Sig [] "lineWrapColumnOrWidth" [] RDouble [On QTextEdit];
    Sig [TYPE_QTWIDGETS_QTEXTEDIT] "lineWrapMode" [] (RMeta QTextEdit_LineWrapMode) [On QTextEdit];
    Sig [VALUE_TYPE_QTCORE_QURL] "loadResource" [PInt; PValue QUrl] RVariant [On QTextBrowser; On
        QTextEdit];
    Sig [VALUE_TYPE_QTCORE_QLOCALE] "locale" [] (RValue QLocale) [On QWidget];
    Sig [] "lower" [] RVoid [On QWidget];
    Sig [TYPE_QTWIDGETS_QWIDGET; VALUE_TYPE_QTCORE_QPOINT] "mapFrom" [PObject QWidget false; PValue QPoint]
        (RValue QPoint) [On QWidget];
    Sig [TYPE_QTWIDGETS_QWIDGET; VALUE_TYPE_QTCORE_QPOINTF] "mapFrom" [PObject QWidget false; PValue
        QPointF] (RValue QPointF) [On QWidget];
    Sig [VALUE_TYPE_QTCORE_QPOINT] "mapFromGlobal" [PValue QPoint] (RValue QPoint) [On QWidget];
    Sig [VALUE_TYPE_QTCORE_QPOINTF] "mapFromGlobal" [PValue QPointF] (RValue QPointF) [On QWidget]
  ].

Definition methods_qtwidgets_4_s198 : list signature_row :=
  [
    Sig [VALUE_TYPE_QTCORE_QPOINT] "mapFromParent" [PValue QPoint] (RValue QPoint) [On QWidget];
    Sig [VALUE_TYPE_QTCORE_QPOINTF] "mapFromParent" [PValue QPointF] (RValue QPointF) [On QWidget];
    Sig [TYPE_QTWIDGETS_QWIDGET; VALUE_TYPE_QTCORE_QPOINT] "mapTo" [PObject QWidget false; PValue QPoint]
        (RValue QPoint) [On QWidget];
    Sig [TYPE_QTWIDGETS_QWIDGET; VALUE_TYPE_QTCORE_QPOINTF] "mapTo" [PObject QWidget false; PValue QPointF]
        (RValue QPointF) [On QWidget];
    Sig [VALUE_TYPE_QTCORE_QPOINT] "mapToGlobal" [PValue QPoint] (RValue QPoint) [On QWidget];
    Sig [VALUE_TYPE_QTCORE_QPOINTF] "mapToGlobal" [PValue QPointF] (RValue QPointF) [On QWidget];
    Sig [VALUE_TYPE_QTCORE_QPOINT] "mapToParent" [PValue QPoint] (RValue QPoint) [On QWidget];
    Sig [VALUE_TYPE_QTCORE_QPOINTF] "mapToParent" [PValue QPointF] (RValue QPointF) [On QWidget]
  ].

Definition methods_qtwidgets_4_s206 : list signature_row :=
  [
    Sig [VALUE_TYPE_QTGUI_QREGION] "mask" [] (RValue QRegion) [On QWidget];
    Sig [] "maximumHeight" [] RDouble [On QWidget];
    Sig [VALUE_TYPE_QTCORE_QSIZE] "maximumSize" [] (RValue QSize) [On QWidget];
    Sig [] "maximumWidth" [] RDouble [On QWidget];
    Sig [TYPE_QTWIDGETS_QMENU] "menu" [] RObject [On QToolButton];
    Sig [VALUE_TYPE_QTGUI_QTEXTCHARFORMAT] "mergeCurrentCharFormat" [PValue QTextCharFormat] RVoid [On
        QTextEdit];
    Sig [] "minimumHeight" [] RDouble [On QWidget];
    Sig [VALUE_TYPE_QTCORE_QSIZE] "minimumSize" [] (RValue QSize) [On QWidget];
    Sig [VALUE_TYPE_QTCORE_QSIZE] "minimumSizeHint" [] (RValue QSize) [On QToolButton; On QWidget];
    Sig [] "minimumWidth" [] RDouble [On QWidget];
    Sig [TYPE_QTWIDGETS_QWIDGET] "mouseGrabber" [] RObject [Static QWidget]
  ].

Definition methods_qtwidgets_4_s217 : list signature_row :=
  [
    Sig [VALUE_TYPE_QTCORE_QPOINT] "move" [PValue QPoint] RVoid [On QWidget];
    Sig [] "move" [PInt; PInt] RVoid [On QWidget];
    Sig [TYPE_QTGUI_QTEXTCURSOR] "moveCursor" [PValue QTextCursor_MoveOperation; PValue
        QTextCursor_MoveMode] RVoid [On QTextEdit];
    Sig [TYPE_QTWIDGETS_QWIDGET] "nativeParentWidget" [] RObject [On QWidget];
    Sig [] "next" [] RVoid [On QWizard];
    Sig [] "nextId" [] RDouble [On QWizard; On QWizardPage];
    Sig [TYPE_QTWIDGETS_QWIDGET] "nextInFocusChain" [] RObject [On QWidget];
    Sig [VALUE_TYPE_QTCORE_QRECT] "normalGeometry" [] (RValue QRect) [On QWidget];
    Sig [] "openExternalLinks" [] RBool [On QTextBrowser];
    Sig [] "openLinks" [] RBool [On QTextBrowser]
  ].

Definition methods_qtwidgets_4_s227 : list signature_row :=
  [
    Sig [TYPE_QTWIDGETS_QWIZARD] "options" [] (RMeta QWizard_WizardOptions) [On QWizard];
    Sig [ENUM_QT_ORIENTATION] "orientation" [] (RMeta Qt_Orientation) [On QToolBar];
    Sig [ENUM_QT_WINDOWFLAGS] "overrideWindowFlags" [PValue Qt_WindowFlags] RVoid [On QWidget];
    Sig [ENUM_QT_WINDOWSTATES] "overrideWindowState" [PValue Qt_WindowStates] RVoid [On QWidget];
    Sig [] "overwriteMode" [] RBool [On QTextEdit];
    Sig [TYPE_QTWIDGETS_QWIZARDPAGE] "page" [PInt] RObject [On QWizard];
    Sig [] "pageIds" [] (RList (IMeta cxx_int)) [On QWizard];
    Sig [VALUE_TYPE_QTGUI_QPALETTE] "palette" [] (RValue QPalette) [On QWidget];
    Sig [VALUE_TYPE_QTGUI_QPALETTE] "palette" [] (RValue QPalette) [Static QToolTip];
    Sig [TYPE_QTWIDGETS_QWIDGET] "parentWidget" [] RObject [On QWidget]
  ].

Definition methods_qtwidgets_4_s237 : list signature_row :=
  [
    Sig [] "paste" [] RVoid [On QTextEdit];
    Sig [TYPE_QTWIDGETS_QWIZARD; VALUE_TYPE_QTGUI_QPIXMAP] "pixmap" [PValue QWizard_WizardPixmap] (RValue
        QPixmap) [On QWizard; On QWizardPage];
    Sig [] "placeholderText" [] RString [On QTextEdit];
    Sig [TYPE_QTWIDGETS_QTOOLBUTTON] "popupMode" [] (RMeta QToolButton_ToolButtonPopupMode) [On
        QToolButton];
    Sig [VALUE_TYPE_QTCORE_QPOINT] "pos" [] (RValue QPoint) [On QWidget];
    Sig [VALUE_TYPE_QTCORE_QPOINTF] "position" [] (RValue QPointF) [On QTapAndHoldGesture; On QTapGesture];
    Sig [TYPE_QTWIDGETS_QWIDGET] "previousInFocusChain" [] RObject [On QWidget];
    Sig [VALUE_TYPE_QTCORE_QRECT] "rect" [] (RValue QRect) [On QWidget];
    Sig [] "redo" [] RVoid [On QTextEdit];
    Sig [] "releaseKeyboard" [] RVoid [On QWidget]
  ].

Definition methods_qtwidgets_4_s247 : list signature_row :=
  [
    Sig [] "releaseMouse" [] RVoid [On QWidget];
    Sig [] "releaseShortcut" [PInt] RVoid [On QWidget];
    Sig [TYPE_QTWIDGETS_QWIDGET] "releaseWidget" [PObject QWidget false] RVoid [On QWidgetAction];
    Sig [] "reload" [] RVoid [On QTextBrowser];
    Sig [] "removeColumn" [PInt] RVoid [On QTableWidget];
    Sig [] "removeItem" [PInt] RVoid [On QToolBox];
    Sig [] "removePage" [PInt] RVoid [On QWizard];
    Sig [] "removeRow" [PInt] RVoid [On QTableWidget];
    Sig [] "repaint" [] RVoid [On QWidget];
    Sig [VALUE_TYPE_QTCORE_QRECT] "repaint" [PValue QRect] RVoid [On QWidget]
  ].

Definition methods_qtwidgets_4_s257 : list signature_row :=
  [
    Sig [VALUE_TYPE_QTGUI_QREGION] "repaint" [PValue QRegion] RVoid [On QWidget];
    Sig [] "repaint" [PInt; PInt; PInt; PInt] RVoid [On QWidget];
    Sig [TYPE_QTWIDGETS_QWIDGET] "requestWidget" [PObject QWidget false] RObject [On QWidgetAction];
    Sig [] "reset" [] RVoid [On QTreeView];
    Sig [] "resetIndentation" [] RVoid [On QTreeView];
    Sig [VALUE_TYPE_QTCORE_QSIZE] "resize" [PValue QSize] RVoid [On QWidget];
    Sig [] "resize" [PInt; PInt] RVoid [On QWidget];
    Sig [] "resizeColumnToContents" [PInt] RVoid [On QTableView; On QTreeView];
    Sig [] "resizeColumnsToContents" [] RVoid [On QTableView]
  ].

Definition methods_qtwidgets_4_s266 : list signature_row :=
  [
    Sig [] "resizeRowToContents" [PInt] RVoid [On QTableView];
    Sig [] "resizeRowsToContents" [] RVoid [On QTableView];
    Sig [] "restart" [] RVoid [On QWizard];
    Sig [VALUE_TYPE_QTCORE_QBYTEARRAY] "restoreGeometry" [PValue QByteArray] RBool [On QWidget];
    Sig [] "rootIsDecorated" [] RBool [On QTreeView];
    Sig [] "rowAt" [PInt] RDouble [On QTableView];
    Sig [] "rowCount" [] RDouble [On QTableWidget];
    Sig [] "rowHeight" [PInt] RDouble [On QTableView];
    Sig [] "rowSpan" [PInt; PInt] RDouble [On QTableView];
    Sig [] "rowViewportPosition" [PInt] RDouble [On QTableView];
    Sig [VALUE_TYPE_QTCORE_QBYTEARRAY] "saveGeometry" [] (RValue QByteArray) [On QWidget]
  ].

Definition methods_qtwidgets_4_s277 : list signature_row :=
  [
    Sig [TYPE_QTGUI_QSCREEN] "screen" [] RObject [On QWidget];
    Sig [] "scroll" [PInt; PInt] RVoid [On QWidget];
    Sig [VALUE_TYPE_QTCORE_QRECT] "scroll" [PInt; PInt; PValue QRect] RVoid [On QWidget];
    Sig [TYPE_QTWIDGETS_QABSTRACTITEMVIEW; VALUE_TYPE_QTCORE_QMODELINDEX] "scrollTo" [PValue QModelIndex;
        PValue QAbstractItemView_ScrollHint] RVoid [On QTableView; On QTreeView];
    Sig [] "scrollToAnchor" [PString true] RVoid [On QTextEdit];
    Sig [] "searchPaths" [] (RList (IMeta QString)) [On QTextBrowser];
    Sig [] "selectAll" [] RVoid [On QTextEdit; On QTreeView];
    Sig [] "selectColumn" [PInt] RVoid [On QTableView];
    Sig [] "selectRow" [PInt] RVoid [On QTableView]
  ].

Definition methods_qtwidgets_4_s286 : list signature_row :=
  [
    Sig [VALUE_TYPE_QTWIDGETS_QTABLEWIDGETSELECTIONRANGE] "selectedRanges" [] (RList (IValue
        QTableWidgetSelectionRange)) [On QTableWidget];
    Sig [] "setAcceptDrops" [PBool] RVoid [On QWidget];
    Sig [] "setAcceptRichText" [PBool] RVoid [On QTextEdit];
    Sig [] "setAccessibleDescription" [PString true] RVoid [On QWidget];
    Sig [] "setAccessibleIdentifier" [PString true] RVoid [On QWidget];
    Sig [] "setAccessibleName" [PString true] RVoid [On QWidget];
    Sig [] "setAllColumnsShowFocus" [PBool] RVoid [On QTreeView];
    Sig [ENUM_QT_TOOLBARAREAS] "setAllowedAreas" [PValue Qt_ToolBarAreas] RVoid [On QToolBar];
    Sig [] "setAnimated" [PBool] RVoid [On QTreeView];
    Sig [ENUM_QT_ARROWTYPE] "setArrowType" [PValue Qt_ArrowType] RVoid [On QToolButton]
  ].

Definition methods_qtwidgets_4_s296 : list signature_row :=
  [
    Sig [ENUM_QT_WIDGETATTRIBUTE] "setAttribute" [PValue Qt_WidgetAttribute; PBool] RVoid [On QWidget];
    Sig [] "setAutoExpandDelay" [PInt] RVoid [On QTreeView];
    Sig [] "setAutoFillBackground" [PBool] RVoid [On QWidget];
    Sig [] "setAutoRaise" [PBool] RVoid [On QToolButton];
    Sig [TYPE_QTGUI_QPALETTE] "setBackgroundRole" [PValue QPalette_ColorRole] RVoid [On QWidget];
    Sig [VALUE_TYPE_QTCORE_QSIZE] "setBaseSize" [PValue QSize] RVoid [On QWidget];
    Sig [] "setBaseSize" [PInt; PInt] RVoid [On QWidget];
    Sig [TYPE_QTWIDGETS_QABSTRACTBUTTON; TYPE_QTWIDGETS_QWIZARD] "setButton" [PValue QWizard_WizardButton;
        PObject QAbstractButton false] RVoid [On QWizard];
    Sig [TYPE_QTWIDGETS_QWIZARD] "setButtonLayout" [PList (IValue QWizard_WizardButton)] RVoid [On QWizard]
  ].

Definition methods_qtwidgets_4_s305 : list signature_row :=
  [
    Sig [TYPE_QTWIDGETS_QWIZARD] "setButtonText" [PValue QWizard_WizardButton; PString true] RVoid [On
        QWizard; On QWizardPage];
    Sig [VALUE_TYPE_QTGUI_QICON] "setCleanIcon" [PValue QIcon] RVoid [On QUndoView];
    Sig [] "setColumnCount" [PInt] RVoid [On QTableWidget; On QTreeWidget];
    Sig [] "setColumnHidden" [PInt; PBool] RVoid [On QTableView; On QTreeView];
    Sig [] "setColumnWidth" [PInt; PInt] RVoid [On QTableView; On QTreeView];
    Sig [] "setCommitPage" [PBool] RVoid [On QWizardPage];
    Sig [VALUE_TYPE_QTCORE_QMARGINS] "setContentsMargins" [PValue QMargins] RVoid [On QWidget];
    Sig [] "setContentsMargins" [PInt; PInt; PInt; PInt] RVoid [On QWidget]
  ].

Definition methods_qtwidgets_4_s313 : list signature_row :=
  [
    Sig [ENUM_QT_CONTEXTMENUPOLICY] "setContextMenuPolicy" [PValue Qt_ContextMenuPolicy] RVoid [On QWidget];
    Sig [] "setCornerButtonEnabled" [PBool] RVoid [On QTableView];
    Sig [] "setCurrentCell" [PInt; PInt] RVoid [On QTableWidget];
    Sig [VALUE_TYPE_QTGUI_QTEXTCHARFORMAT] "setCurrentCharFormat" [PValue QTextCharFormat] RVoid [On
        QTextEdit];
    Sig [VALUE_TYPE_QTGUI_QFONT] "setCurrentFont" [PValue QFont] RVoid [On QTextEdit];
    Sig [] "setCurrentId" [PInt] RVoid [On QWizard];
    Sig [] "setCurrentIndex" [PInt] RVoid [On QToolBox];
    Sig [TYPE_QTWIDGETS_QWIDGET] "setCurrentWidget" [PObject QWidget false] RVoid [On QToolBox];
    Sig [VALUE_TYPE_QTGUI_QCURSOR] "setCursor" [PValue QCursor] RVoid [On QWidget]
  ].

Definition methods_qtwidgets_4_s322 : list signature_row :=
  [
    Sig [] "setCursorWidth" [PInt] RVoid [On QTextEdit];
    Sig [TYPE_QTWIDGETS_QWIDGET] "setDefaultWidget" [PObject QWidget false] RVoid [On QWidgetAction];
    Sig [] "setDisabled" [PBool] RVoid [On QWidget];
    Sig [TYPE_QTGUI_QTEXTDOCUMENT] "setDocument" [PObject QTextDocument false] RVoid [On QTextEdit];
    Sig [] "setDocumentTitle" [PString true] RVoid [On QTextEdit];
    Sig [] "setEmptyLabel" [PString true] RVoid [On QUndoView];
    Sig [] "setEnabled" [PBool] RVoid [On QWidget];
    Sig [VALUE_TYPE_QTCORE_QMODELINDEX] "setExpanded" [PValue QModelIndex; PBool] RVoid [On QTreeView];
    Sig [] "setExpandsOnDoubleClick" [PBool] RVoid [On QTreeView];
    Sig [] "setField" [PString true; PVariant] RVoid [On QWizard]
  ].

Definition methods_qtwidgets_4_s332 : list signature_row :=
  [
    Sig [] "setFinalPage" [PBool] RVoid [On QWizardPage];
    Sig [VALUE_TYPE_QTCORE_QMODELINDEX] "setFirstColumnSpanned" [PInt; PValue QModelIndex; PBool] RVoid [On
        QTreeView];
    Sig [] "setFixedHeight" [PInt] RVoid [On QWidget];
    Sig [VALUE_TYPE_QTCORE_QSIZE] "setFixedSize" [PValue QSize] RVoid [On QWidget];
    Sig [] "setFixedSize" [PInt; PInt] RVoid [On QWidget];
    Sig [] "setFixedWidth" [PInt] RVoid [On QWidget];
    Sig [] "setFloatable" [PBool] RVoid [On QToolBar];
    Sig [] "setFocus" [] RVoid [On QWidget];
    Sig [ENUM_QT_FOCUSREASON] "setFocus" [PValue Qt_FocusReason] RVoid [On QWidget]
  ].

Definition methods_qtwidgets_4_s341 : list signature_row :=
  [
    Sig [ENUM_QT_FOCUSPOLICY] "setFocusPolicy" [PValue Qt_FocusPolicy] RVoid [On QWidget];
    Sig [TYPE_QTWIDGETS_QWIDGET] "setFocusProxy" [PObject QWidget false] RVoid [On QWidget];
    Sig [VALUE_TYPE_QTGUI_QFONT] "setFont" [PValue QFont] RVoid [On QWidget];
    Sig [VALUE_TYPE_QTGUI_QFONT] "setFont" [PValue QFont] RVoid [Static QToolTip];
    Sig [] "setFontFamily" [PString true] RVoid [On QTextEdit];
    Sig [] "setFontItalic" [PBool] RVoid [On QTextEdit];
    Sig [] "setFontPointSize" [PNumber cxx_qreal] RVoid [On QTextEdit];
    Sig [] "setFontUnderline" [PBool] RVoid [On QTextEdit];
    Sig [] "setFontWeight" [PInt] RVoid [On QTextEdit];
    Sig [TYPE_QTGUI_QPALETTE] "setForegroundRole" [PValue QPalette_ColorRole] RVoid [On QWidget]
  ].

Definition methods_qtwidgets_4_s351 : list signature_row :=
  [
    Sig [VALUE_TYPE_QTCORE_QRECT] "setGeometry" [PValue QRect] RVoid [On QWidget];
    Sig [] "setGeometry" [PInt; PInt; PInt; PInt] RVoid [On QWidget];
    Sig [TYPE_QTWIDGETS_QGRAPHICSEFFECT] "setGraphicsEffect" [PObject QGraphicsEffect false] RVoid [On
        QWidget];
    Sig [ENUM_QT_PENSTYLE] "setGridStyle" [PValue Qt_PenStyle] RVoid [On QTableView];
    Sig [TYPE_QTGUI_QUNDOGROUP] "setGroup" [PObject QUndoGroup false] RVoid [On QUndoView];
    Sig [TYPE_QTWIDGETS_QHEADERVIEW] "setHeader" [PObject QHeaderView false] RVoid [On QTreeView];
    Sig [] "setHeaderHidden" [PBool] RVoid [On QTreeView];
    Sig [] "setHeaderLabel" [PString true] RVoid [On QTreeWidget];
    Sig [] "setHeaderLabels" [PStringList] RVoid [On QTreeWidget]
  ].

Definition methods_qtwidgets_4_s360 : list signature_row :=
  [
    Sig [] "setHidden" [PBool] RVoid [On QWidget];
    Sig [TYPE_QTWIDGETS_QHEADERVIEW] "setHorizontalHeader" [PObject QHeaderView false] RVoid [On
        QTableView];
    Sig [] "setHorizontalHeaderLabels" [PStringList] RVoid [On QTableWidget];
    Sig [] "setHtml" [PString true] RVoid [On QTextEdit];
    Sig [VALUE_TYPE_QTCORE_QSIZE] "setIconSize" [PValue QSize] RVoid [On QToolBar];
    Sig [] "setIndentation" [PInt] RVoid [On QTreeView];
    Sig [] "setItemEnabled" [PInt; PBool] RVoid [On QToolBox];
    Sig [VALUE_TYPE_QTGUI_QICON] "setItemIcon" [PInt; PValue QIcon] RVoid [On QToolBox];
    Sig [] "setItemText" [PInt; PString true] RVoid [On QToolBox]
  ].

Definition methods_qtwidgets_4_s369 : list signature_row :=
  [
    Sig [] "setItemToolTip" [PInt; PString true] RVoid [On QToolBox];
    Sig [] "setItemsExpandable" [PBool] RVoid [On QTreeView];
    Sig [ENUM_QT_LAYOUTDIRECTION] "setLayoutDirection" [PValue Qt_LayoutDirection] RVoid [On QWidget];
    Sig [] "setLineWrapColumnOrWidth" [PInt] RVoid [On QTextEdit];
    Sig [TYPE_QTWIDGETS_QTEXTEDIT] "setLineWrapMode" [PValue QTextEdit_LineWrapMode] RVoid [On QTextEdit];
    Sig [VALUE_TYPE_QTCORE_QLOCALE] "setLocale" [PValue QLocale] RVoid [On QWidget];
    Sig [] "setMarkdown" [PString true] RVoid [On QTextEdit];
    Sig [VALUE_TYPE_QTGUI_QBITMAP] "setMask" [PValue QBitmap] RVoid [On QWidget];
    Sig [VALUE_TYPE_QTGUI_QREGION] "setMask" [PValue QRegion] RVoid [On QWidget];
    Sig [] "setMaximumHeight" [PInt] RVoid [On QWidget]
  ].

Definition methods_qtwidgets_4_s379 : list signature_row :=
  [
    Sig [VALUE_TYPE_QTCORE_QSIZE] "setMaximumSize" [PValue QSize] RVoid [On QWidget];
    Sig [] "setMaximumSize" [PInt; PInt] RVoid [On QWidget];
    Sig [] "setMaximumWidth" [PInt] RVoid [On QWidget];
    Sig [TYPE_QTWIDGETS_QMENU] "setMenu" [PObject QMenu false] RVoid [On QToolButton];
    Sig [] "setMinimumHeight" [PInt] RVoid [On QWidget];
    Sig [VALUE_TYPE_QTCORE_QSIZE] "setMinimumSize" [PValue QSize] RVoid [On QWidget];
    Sig [] "setMinimumSize" [PInt; PInt] RVoid [On QWidget];
    Sig [] "setMinimumWidth" [PInt] RVoid [On QWidget];
    Sig [TYPE_QTCORE_QABSTRACTITEMMODEL] "setModel" [PObject QAbstractItemModel false] RVoid [On
        QTableView; On QTreeView]
  ].

Definition methods_qtwidgets_4_s388 : list signature_row :=
  [
    Sig [] "setMouseTracking" [PBool] RVoid [On QWidget];
    Sig [] "setMovable" [PBool] RVoid [On QToolBar];
    Sig [] "setOpenExternalLinks" [PBool] RVoid [On QTextBrowser];
    Sig [] "setOpenLinks" [PBool] RVoid [On QTextBrowser];
    Sig [TYPE_QTWIDGETS_QWIZARD] "setOption" [PValue QWizard_WizardOption; PBool] RVoid [On QWizard];
    Sig [TYPE_QTWIDGETS_QWIZARD] "setOptions" [PValue QWizard_WizardOptions] RVoid [On QWizard];
    Sig [ENUM_QT_ORIENTATION] "setOrientation" [PValue Qt_Orientation] RVoid [On QToolBar];
    Sig [] "setOverwriteMode" [PBool] RVoid [On QTextEdit];
    Sig [TYPE_QTWIDGETS_QWIZARDPAGE] "setPage" [PInt; PObject QWizardPage false] RVoid [On QWizard]
  ].

Definition methods_qtwidgets_4_s397 : list signature_row :=
  [
    Sig [VALUE_TYPE_QTGUI_QPALETTE] "setPalette" [PValue QPalette] RVoid [On QWidget];
    Sig [VALUE_TYPE_QTGUI_QPALETTE] "setPalette" [PValue QPalette] RVoid [Static QToolTip];
    Sig [TYPE_QTWIDGETS_QWIDGET] "setParent" [PObject QWidget false] RVoid [On QWidget];
    Sig [ENUM_QT_WINDOWFLAGS; TYPE_QTWIDGETS_QWIDGET] "setParent" [PObject QWidget false; PValue
        Qt_WindowFlags] RVoid [On QWidget];
    Sig [TYPE_QTWIDGETS_QWIZARD; VALUE_TYPE_QTGUI_QPIXMAP] "setPixmap" [PValue QWizard_WizardPixmap; PValue
        QPixmap] RVoid [On QWizard; On QWizardPage];
    Sig [] "setPlaceholderText" [PString true] RVoid [On QTextEdit];
    Sig [] "setPlainText" [PString true] RVoid [On QTextEdit];
    Sig [TYPE_QTWIDGETS_QTOOLBUTTON] "setPopupMode" [PValue QToolButton_ToolButtonPopupMode] RVoid [On
        QToolButton]
  ].

Definition methods_qtwidgets_4_s405 : list signature_row :=
  [
    Sig [VALUE_TYPE_QTCORE_QPOINTF] "setPosition" [PValue QPointF] RVoid [On QTapAndHoldGesture; On
        QTapGesture];
    Sig [VALUE_TYPE_QTWIDGETS_QTABLEWIDGETSELECTIONRANGE] "setRangeSelected" [PValue
        QTableWidgetSelectionRange; PBool] RVoid [On QTableWidget];
    Sig [] "setReadOnly" [PBool] RVoid [On QTextEdit];
    Sig [VALUE_TYPE_QTCORE_QMODELINDEX] "setRootIndex" [PValue QModelIndex] RVoid [On QTableView; On
        QTreeView];
    Sig [] "setRootIsDecorated" [PBool] RVoid [On QTreeView];
    Sig [] "setRowCount" [PInt] RVoid [On QTableWidget];
    Sig [] "setRowHeight" [PInt; PInt] RVoid [On QTableView];
    Sig [VALUE_TYPE_QTCORE_QMODELINDEX] "setRowHidden" [PInt; PValue QModelIndex; PBool] RVoid [On
        QTreeView]
  ].

Definition methods_qtwidgets_4_s413 : list signature_row :=
  [
    Sig [] "setRowHidden" [PInt; PBool] RVoid [On QTableView];
    Sig [TYPE_QTGUI_QSCREEN] "setScreen" [PObject QScreen false] RVoid [On QWidget];
    Sig [] "setSearchPaths" [PStringList] RVoid [On QTextBrowser];
    Sig [TYPE_QTCORE_QITEMSELECTIONMODEL] "setSelectionModel" [PObject QItemSelectionModel false] RVoid [On
        QTableView; On QTreeView; On QTreeWidget];
    Sig [] "setShortcutAutoRepeat" [PInt; PBool] RVoid [On QWidget];
    Sig [] "setShortcutEnabled" [PInt; PBool] RVoid [On QWidget];
    Sig [] "setShowGrid" [PBool] RVoid [On QTableView];
    Sig [TYPE_QTWIDGETS_QWIDGET] "setSideWidget" [PObject QWidget false] RVoid [On QWizard]
  ].

Definition methods_qtwidgets_4_s421 : list signature_row :=
  [
    Sig [VALUE_TYPE_QTCORE_QSIZE] "setSizeIncrement" [PValue QSize] RVoid [On QWidget];
    Sig [] "setSizeIncrement" [PInt; PInt] RVoid [On QWidget];
    Sig [VALUE_TYPE_QTWIDGETS_QSIZEPOLICY] "setSizePolicy" [PValue QSizePolicy] RVoid [On QWidget];
    Sig [TYPE_QTWIDGETS_QSIZEPOLICY] "setSizePolicy" [PValue QSizePolicy_Policy; PValue QSizePolicy_Policy]
        RVoid [On QWidget];
    Sig [] "setSortingEnabled" [PBool] RVoid [On QTableView; On QTableWidget; On QTreeView];
    Sig [TYPE_QTGUI_QTEXTDOCUMENT; VALUE_TYPE_QTCORE_QURL] "setSource" [PValue QUrl; PValue
        QTextDocument_ResourceType] RVoid [On QTextBrowser];
    Sig [] "setSpan" [PInt; PInt; PInt; PInt] RVoid [On QTableView];
    Sig [TYPE_QTGUI_QUNDOSTACK] "setStack" [PObject QUndoStack false] RVoid [On QUndoView]
  ].

Definition methods_qtwidgets_4_s429 : list signature_row :=
  [
    Sig [] "setStartId" [PInt] RVoid [On QWizard];
    Sig [] "setStatusTip" [PString true] RVoid [On QWidget];
    Sig [TYPE_QTWIDGETS_QSTYLE] "setStyle" [PObject QStyle false] RVoid [On QWidget];
    Sig [] "setStyleSheet" [PString true] RVoid [On QWidget];
    Sig [] "setSubTitle" [PString true] RVoid [On QWizardPage];
    Sig [ENUM_QT_TEXTFORMAT] "setSubTitleFormat" [PValue Qt_TextFormat] RVoid [On QWizard];
    Sig [ENUM_QT_DROPACTIONS] "setSupportedDragActions" [PValue Qt_DropActions] RVoid [On QTableWidget; On
        QTreeWidget];
    Sig [] "setTabChangesFocus" [PBool] RVoid [On QTextEdit];
    Sig [TYPE_QTWIDGETS_QWIDGET] "setTabOrder" [PObject QWidget false; PObject QWidget false] RVoid [Static
        QWidget]
  ].

Definition methods_qtwidgets_4_s438 : list signature_row :=
  [
    Sig [] "setTabStopDistance" [PNumber cxx_qreal] RVoid [On QTextEdit];
    Sig [] "setTabletTracking" [PBool] RVoid [On QWidget];
    Sig [] "setText" [PString true] RVoid [On QTextEdit];
    Sig [VALUE_TYPE_QTGUI_QCOLOR] "setTextBackgroundColor" [PValue QColor] RVoid [On QTextEdit];
    Sig [VALUE_TYPE_QTGUI_QCOLOR] "setTextColor" [PValue QColor] RVoid [On QTextEdit];
    Sig [VALUE_TYPE_QTGUI_QTEXTCURSOR] "setTextCursor" [PValue QTextCursor] RVoid [On QTextEdit];
    Sig [] "setTimeout" [PInt] RVoid [Static QTapAndHoldGesture];
    Sig [] "setTitle" [PString true] RVoid [On QWizardPage];
    Sig [ENUM_QT_TEXTFORMAT] "setTitleFormat" [PValue Qt_TextFormat] RVoid [On QWizard]
  ].

Definition methods_qtwidgets_4_s447 : list signature_row :=
  [
    Sig [ENUM_QT_TOOLBUTTONSTYLE] "setToolButtonStyle" [PValue Qt_ToolButtonStyle] RVoid [On QToolBar; On
        QToolButton];
    Sig [] "setToolTip" [PString true] RVoid [On QWidget];
    Sig [] "setToolTipDuration" [PInt] RVoid [On QWidget];
    Sig [] "setTreePosition" [PInt] RVoid [On QTreeView];
    Sig [] "setUndoRedoEnabled" [PBool] RVoid [On QTextEdit];
    Sig [] "setUniformRowHeights" [PBool] RVoid [On QTreeView];
    Sig [] "setUpdatesEnabled" [PBool] RVoid [On QWidget];
    Sig [TYPE_QTWIDGETS_QHEADERVIEW] "setVerticalHeader" [PObject QHeaderView false] RVoid [On QTableView];
    Sig [] "setVerticalHeaderLabels" [PStringList] RVoid [On QTableWidget]
  ].

Definition methods_qtwidgets_4_s456 : list signature_row :=
  [
    Sig [] "setVisible" [PBool] RVoid [On QWidget; On QWizard];
    Sig [] "setWhatsThis" [PString true] RVoid [On QWidget];
    Sig [] "setWindowFilePath" [PString true] RVoid [On QWidget];
    Sig [ENUM_QT_WINDOWTYPE] "setWindowFlag" [PValue Qt_WindowType; PBool] RVoid [On QWidget];
    Sig [ENUM_QT_WINDOWFLAGS] "setWindowFlags" [PValue Qt_WindowFlags] RVoid [On QWidget];
    Sig [VALUE_TYPE_QTGUI_QICON] "setWindowIcon" [PValue QIcon] RVoid [On QWidget];
    Sig [] "setWindowIconText" [PString true] RVoid [On QWidget];
    Sig [ENUM_QT_WINDOWMODALITY] "setWindowModality" [PValue Qt_WindowModality] RVoid [On QWidget];
    Sig [] "setWindowModified" [PBool] RVoid [On QWidget]
  ].

Definition methods_qtwidgets_4_s465 : list signature_row :=
  [
    Sig [] "setWindowOpacity" [PNumber cxx_qreal] RVoid [On QWidget];
    Sig [] "setWindowRole" [PString true] RVoid [On QWidget];
    Sig [ENUM_QT_WINDOWSTATES] "setWindowState" [PValue Qt_WindowStates] RVoid [On QWidget];
    Sig [] "setWindowTitle" [PString true] RVoid [On QWidget];
    Sig [TYPE_QTWIDGETS_QWIZARD] "setWizardStyle" [PValue QWizard_WizardStyle] RVoid [On QWizard];
    Sig [] "setWordWrap" [PBool] RVoid [On QTableView; On QTreeView];
    Sig [TYPE_QTGUI_QTEXTOPTION] "setWordWrapMode" [PValue QTextOption_WrapMode] RVoid [On QTextEdit];
    Sig [] "show" [] RVoid [On QWidget];
    Sig [] "showColumn" [PInt] RVoid [On QTableView; On QTreeView];
    Sig [] "showFullScreen" [] RVoid [On QWidget]
  ].

Definition methods_qtwidgets_4_s475 : list signature_row :=
  [
    Sig [] "showGrid" [] RBool [On QTableView];
    Sig [] "showMaximized" [] RVoid [On QWidget];
    Sig [] "showMenu" [] RVoid [On QToolButton];
    Sig [] "showMinimized" [] RVoid [On QWidget];
    Sig [] "showNormal" [] RVoid [On QWidget];
    Sig [] "showRow" [PInt] RVoid [On QTableView];
    Sig [TYPE_QTWIDGETS_QWIDGET; VALUE_TYPE_QTCORE_QPOINT] "showText" [PValue QPoint; PString true; PObject
        QWidget false] RVoid [Static QWhatsThis];
    Sig [TYPE_QTWIDGETS_QWIDGET; VALUE_TYPE_QTCORE_QPOINT; VALUE_TYPE_QTCORE_QRECT] "showText" [PValue
        QPoint; PString true; PObject QWidget false; PValue QRect; PInt] RVoid [Static QToolTip];
    Sig [TYPE_QTWIDGETS_QWIDGET] "sideWidget" [] RObject [On QWizard];
    Sig [VALUE_TYPE_QTCORE_QSIZE] "size" [] (RValue QSize) [On QWidget]
  ].

Definition methods_qtwidgets_4_s485 : list signature_row :=
  [
    Sig [VALUE_TYPE_QTCORE_QSIZE] "sizeHint" [] (RValue QSize) [On QToolButton; On QWidget; On QWizard];
    Sig [VALUE_TYPE_QTCORE_QSIZE] "sizeIncrement" [] (RValue QSize) [On QWidget];
    Sig [VALUE_TYPE_QTWIDGETS_QSIZEPOLICY] "sizePolicy" [] (RValue QSizePolicy) [On QWidget];
    Sig [ENUM_QT_SORTORDER] "sortByColumn" [PInt; PValue Qt_SortOrder] RVoid [On QTableView; On QTreeView];
    Sig [] "sortColumn" [] RDouble [On QTreeWidget];
    Sig [ENUM_QT_SORTORDER] "sortItems" [PInt; PValue Qt_SortOrder] RVoid [On QTableWidget; On QTreeWidget];
    Sig [VALUE_TYPE_QTCORE_QURL] "source" [] (RValue QUrl) [On QTextBrowser];
    Sig [TYPE_QTGUI_QTEXTDOCUMENT] "sourceType" [] (RMeta QTextDocument_ResourceType) [On QTextBrowser]
  ].

Definition methods_qtwidgets_4_s493 : list signature_row :=
  [
    Sig [TYPE_QTGUI_QUNDOSTACK] "stack" [] RObject [On QUndoView];
    Sig [TYPE_QTWIDGETS_QWIDGET] "stackUnder" [PObject QWidget false] RVoid [On QWidget];
    Sig [] "startId" [] RDouble [On QWizard];
    Sig [] "statusTip" [] RString [On QWidget];
    Sig [TYPE_QTWIDGETS_QSTYLE] "style" [] RObject [On QWidget];
    Sig [] "styleSheet" [] RString [On QWidget];
    Sig [] "subTitle" [] RString [On QWizardPage];
    Sig [ENUM_QT_TEXTFORMAT] "subTitleFormat" [] (RMeta Qt_TextFormat) [On QWizard];
    Sig [ENUM_QT_DROPACTIONS] "supportedDragActions" [] (RMeta Qt_DropActions) [On QTableWidget; On
        QTreeWidget];
    Sig [] "tabChangesFocus" [] RBool [On QTextEdit];
    Sig [] "tabStopDistance" [] RDouble [On QTextEdit]
  ].

Definition methods_qtwidgets_4_s504 : list signature_row :=
  [
    Sig [ENUM_QT_WIDGETATTRIBUTE] "testAttribute" [PValue Qt_WidgetAttribute] RBool [On QWidget];
    Sig [TYPE_QTWIDGETS_QWIZARD] "testOption" [PValue QWizard_WizardOption] RBool [On QWizard];
    Sig [] "text" [] RString [Static QToolTip];
    Sig [VALUE_TYPE_QTGUI_QCOLOR] "textBackgroundColor" [] (RValue QColor) [On QTextEdit];
    Sig [VALUE_TYPE_QTGUI_QCOLOR] "textColor" [] (RValue QColor) [On QTextEdit];
    Sig [VALUE_TYPE_QTGUI_QTEXTCURSOR] "textCursor" [] (RValue QTextCursor) [On QTextEdit];
    Sig [] "timeout" [] RDouble [Static QTapAndHoldGesture];
    Sig [] "title" [] RString [On QWizardPage];
    Sig [ENUM_QT_TEXTFORMAT] "titleFormat" [] (RMeta Qt_TextFormat) [On QWizard];
    Sig [] "toHtml" [] RString [On QTextEdit];
    Sig [] "toPlainText" [] RString [On QTextEdit]
  ].

Definition methods_qtwidgets_4_s515 : list signature_row :=
  [
    Sig [ENUM_QT_TOOLBUTTONSTYLE] "toolButtonStyle" [] (RMeta Qt_ToolButtonStyle) [On QToolBar; On
        QToolButton];
    Sig [] "toolTip" [] RString [On QWidget];
    Sig [] "toolTipDuration" [] RDouble [On QWidget];
    Sig [] "topLevelItemCount" [] RDouble [On QTreeWidget];
    Sig [] "treePosition" [] RDouble [On QTreeView];
    Sig [] "underMouse" [] RBool [On QWidget];
    Sig [] "undo" [] RVoid [On QTextEdit];
    Sig [ENUM_QT_GESTURETYPE] "ungrabGesture" [PValue Qt_GestureType] RVoid [On QWidget];
    Sig [] "uniformRowHeights" [] RBool [On QTreeView];
    Sig [] "unsetCursor" [] RVoid [On QWidget];
    Sig [] "unsetLayoutDirection" [] RVoid [On QWidget];
    Sig [] "unsetLocale" [] RVoid [On QWidget]
  ].

Definition methods_qtwidgets_4_s527 : list signature_row :=
  [
    Sig [] "update" [] RVoid [On QWidget];
    Sig [VALUE_TYPE_QTCORE_QRECT] "update" [PValue QRect] RVoid [On QWidget];
    Sig [VALUE_TYPE_QTGUI_QREGION] "update" [PValue QRegion] RVoid [On QWidget];
    Sig [] "update" [PInt; PInt; PInt; PInt] RVoid [On QWidget];
    Sig [] "updateGeometry" [] RVoid [On QWidget];
    Sig [] "updatesEnabled" [] RBool [On QWidget];
    Sig [] "validateCurrentPage" [] RBool [On QWizard];
    Sig [] "validatePage" [] RBool [On QWizardPage];
    Sig [TYPE_QTWIDGETS_QHEADERVIEW] "verticalHeader" [] RObject [On QTableView];
    Sig [VALUE_TYPE_QTGUI_QREGION] "visibleRegion" [] (RValue QRegion) [On QWidget]
  ].

Definition methods_qtwidgets_4_s537 : list signature_row :=
  [
    Sig [] "visitedIds" [] (RList (IMeta cxx_int)) [On QWizard];
    Sig [] "visualColumn" [PInt] RDouble [On QTableWidget];
    Sig [VALUE_TYPE_QTCORE_QMODELINDEX; VALUE_TYPE_QTCORE_QRECT] "visualRect" [PValue QModelIndex] (RValue
        QRect) [On QTableView; On QTreeView];
    Sig [] "visualRow" [PInt] RDouble [On QTableWidget];
    Sig [] "whatsThis" [] RString [On QWidget];
    Sig [TYPE_QTWIDGETS_QWIDGET] "widget" [PInt] RObject [On QToolBox];
    Sig [] "width" [] RDouble [On QWidget];
    Sig [TYPE_QTWIDGETS_QWIDGET] "window" [] RObject [On QWidget];
    Sig [] "windowFilePath" [] RString [On QWidget];
    Sig [ENUM_QT_WINDOWFLAGS] "windowFlags" [] (RMeta Qt_WindowFlags) [On QWidget]
  ].

Definition methods_qtwidgets_4_s547 : list signature_row :=
  [
    Sig [TYPE_QTGUI_QWINDOW] "windowHandle" [] RObject [On QWidget];
    Sig [VALUE_TYPE_QTGUI_QICON] "windowIcon" [] (RValue QIcon) [On QWidget];
    Sig [] "windowIconText" [] RString [On QWidget];
    Sig [ENUM_QT_WINDOWMODALITY] "windowModality" [] (RMeta Qt_WindowModality) [On QWidget];
    Sig [] "windowOpacity" [] RDouble [On QWidget];
    Sig [] "windowRole" [] RString [On QWidget];
    Sig [ENUM_QT_WINDOWSTATES] "windowState" [] (RMeta Qt_WindowStates) [On QWidget];
    Sig [] "windowTitle" [] RString [On QWidget];
    Sig [ENUM_QT_WINDOWTYPE] "windowType" [] (RMeta Qt_WindowType) [On QWidget];
    Sig [TYPE_QTWIDGETS_QWIZARD] "wizardStyle" [] (RMeta QWizard_WizardStyle) [On QWizard];
    Sig [] "wordWrap" [] RBool [On QTableView; On QTreeView]
  ].

Definition methods_qtwidgets_4_s558 : list signature_row :=
  [
    Sig [TYPE_QTGUI_QTEXTOPTION] "wordWrapMode" [] (RMeta QTextOption_WrapMode) [On QTextEdit];
    Sig [] "x" [] RDouble [On QWidget];
    Sig [] "y" [] RDouble [On QWidget];
    Sig [] "zoomIn" [PInt] RVoid [On QTextEdit];
    Sig [] "zoomOut" [PInt] RVoid [On QTextEdit]
  ].

Definition methods_qtwidgets_4 : method_shard :=
  MethodShard QtWidgets "KRY_QT6_NATIVE_METHODS_QTWIDGETS_"
    (methods_qtwidgets_4_i0 ++ methods_qtwidgets_4_i1)
    (methods_qtwidgets_4_s0 ++ methods_qtwidgets_4_s11 ++ methods_qtwidgets_4_s22 ++
        methods_qtwidgets_4_s31 ++ methods_qtwidgets_4_s41 ++ methods_qtwidgets_4_s50 ++
        methods_qtwidgets_4_s61 ++ methods_qtwidgets_4_s71 ++ methods_qtwidgets_4_s82 ++
        methods_qtwidgets_4_s93 ++ methods_qtwidgets_4_s104 ++ methods_qtwidgets_4_s115 ++
        methods_qtwidgets_4_s125 ++ methods_qtwidgets_4_s135 ++ methods_qtwidgets_4_s144 ++
        methods_qtwidgets_4_s155 ++ methods_qtwidgets_4_s167 ++ methods_qtwidgets_4_s178 ++
        methods_qtwidgets_4_s189 ++ methods_qtwidgets_4_s198 ++ methods_qtwidgets_4_s206 ++
        methods_qtwidgets_4_s217 ++ methods_qtwidgets_4_s227 ++ methods_qtwidgets_4_s237 ++
        methods_qtwidgets_4_s247 ++ methods_qtwidgets_4_s257 ++ methods_qtwidgets_4_s266 ++
        methods_qtwidgets_4_s277 ++ methods_qtwidgets_4_s286 ++ methods_qtwidgets_4_s296 ++
        methods_qtwidgets_4_s305 ++ methods_qtwidgets_4_s313 ++ methods_qtwidgets_4_s322 ++
        methods_qtwidgets_4_s332 ++ methods_qtwidgets_4_s341 ++ methods_qtwidgets_4_s351 ++
        methods_qtwidgets_4_s360 ++ methods_qtwidgets_4_s369 ++ methods_qtwidgets_4_s379 ++
        methods_qtwidgets_4_s388 ++ methods_qtwidgets_4_s397 ++ methods_qtwidgets_4_s405 ++
        methods_qtwidgets_4_s413 ++ methods_qtwidgets_4_s421 ++ methods_qtwidgets_4_s429 ++
        methods_qtwidgets_4_s438 ++ methods_qtwidgets_4_s447 ++ methods_qtwidgets_4_s456 ++
        methods_qtwidgets_4_s465 ++ methods_qtwidgets_4_s475 ++ methods_qtwidgets_4_s485 ++
        methods_qtwidgets_4_s493 ++ methods_qtwidgets_4_s504 ++ methods_qtwidgets_4_s515 ++
        methods_qtwidgets_4_s527 ++ methods_qtwidgets_4_s537 ++ methods_qtwidgets_4_s547 ++
        methods_qtwidgets_4_s558)
    [].
