(* ===== verification/ValueMethodsOther.v ===== *)
(** Rows of the shards of generated_value_methods: qaxcontainer_0, qt3danimation_0,
    qt3dcore_0, qt3drender_0, qtdesigner_0, qtgraphs_0, qthelp_0, qtmultimedia_0,
    qtmultimedia_1, qtopengl_0, qtopengl_1, qtpdf_0, qtprintsupport_0, qtqml_0, qtqml_1,
    qtquick_0, qtquick_1, qtquick_2, qtsql_0, qtsvg_0, qttest_0, qttexttospeech_0, qtxml_0,
    qtxml_1, qtxml_2. *)
From S2P Require Import Names.

(** * Definitions *)

Definition value_methods_qaxcontainer_0_i0 : list include :=
  [
    ClassInclude QtAxContainer QAxBase QAxBase
  ].

Definition value_methods_qaxcontainer_0_s0 : list signature_row :=
  [
    Sig [] "asVariant" [] RVariant [On QAxBase];
    Sig [] "clear" [] RVoid [On QAxBase];
    Sig [] "control" [] RString [On QAxBase];
    Sig [] "disableClassInfo" [] RVoid [On QAxBase];
    Sig [] "disableEventSink" [] RVoid [On QAxBase];
    Sig [] "disableMetaObject" [] RVoid [On QAxBase];
    Sig [] "generateDocumentation" [] RString [On QAxBase];
    Sig [] "isNull" [] RBool [On QAxBase];
    Sig [] "propertyBag" [] (RMap QVariantMap IVariant) [On QAxBase];
    Sig [] "setControl" [PString true] RBool [On QAxBase];
    Sig [] "verbs" [] (RList (IMeta QString)) [On QAxBase]
  ].

Definition value_methods_qaxcontainer_0_types : list string :=
  [
    QAxBase
  ].

Definition value_methods_qaxcontainer_0 : method_shard :=
  MethodShard QAxContainer "KRY_QT6_NATIVE_METHODS_QAXCONTAINER_"
    (value_methods_qaxcontainer_0_i0)
    (value_methods_qaxcontainer_0_s0)
    value_methods_qaxcontainer_0_types.

Definition value_methods_qt3danimation_0_i0 : list include :=
  [
    ClassInclude Qt3DAnimation QAnimationClipData QAnimationClipData;
    ClassInclude Qt3DAnimation QChannel QChannel;
    ClassInclude Qt3DAnimation QChannelComponent QChannelComponent;
    ClassInclude Qt3DAnimation QKeyFrame QKeyFrame;
    TypeInclude Qt3DAnimation QKeyFrame TYPE_QT3DANIMATION_QKEYFRAME;
    TypeInclude QtGui QVector2D VALUE_TYPE_QTGUI_QVECTOR2D
  ].

Definition value_methods_qt3danimation_0_s0 : list signature_row :=
  [
    Sig [] "channelComponentCount" [] RDouble [On QChannel];
    Sig [] "channelCount" [] RDouble [On QAnimationClipData];
    Sig [] "clearChannelComponents" [] RVoid [On QChannel];
    Sig [] "clearChannels" [] RVoid [On QAnimationClipData];
    Sig [] "clearKeyFrames" [] RVoid [On QChannelComponent];
    Sig [VALUE_TYPE_QTGUI_QVECTOR2D] "coordinates" [] (RValue QVector2D) [On QKeyFrame];
    Sig [TYPE_QT3DANIMATION_QKEYFRAME] "interpolationType" [] (RMeta
        Qt3DAnimation_QKeyFrame_InterpolationType) [On QKeyFrame];
    Sig [] "isValid" [] RBool [On QAnimationClipData];
    Sig [] "jointIndex" [] RDouble [On QChannel];
    Sig [] "keyFrameCount" [] RDouble [On QChannelComponent];
    Sig [VALUE_TYPE_QTGUI_QVECTOR2D] "leftControlPoint" [] (RValue QVector2D) [On QKeyFrame]
  ].

Definition value_methods_qt3danimation_0_s11 : list signature_row :=
  [
    Sig [] "name" [] RString [On QAnimationClipData; On QChannel; On QChannelComponent];
    Sig [] "removeChannel" [PInt] RVoid [On QAnimationClipData];
    Sig [] "removeChannelComponent" [PInt] RVoid [On QChannel];
    Sig [] "removeKeyFrame" [PInt] RVoid [On QChannelComponent];
    Sig [VALUE_TYPE_QTGUI_QVECTOR2D] "rightControlPoint" [] (RValue QVector2D) [On QKeyFrame];
    Sig [VALUE_TYPE_QTGUI_QVECTOR2D] "setCoordinates" [PValue QVector2D] RVoid [On QKeyFrame];
    Sig [TYPE_QT3DANIMATION_QKEYFRAME] "setInterpolationType" [PValue
        Qt3DAnimation_QKeyFrame_InterpolationType] RVoid [On QKeyFrame];
    Sig [] "setJointIndex" [PInt] RVoid [On QChannel];
    Sig [VALUE_TYPE_QTGUI_QVECTOR2D] "setLeftControlPoint" [PValue QVector2D] RVoid [On QKeyFrame]
  ].

Definition value_methods_qt3danimation_0_s20 : list signature_row :=
  [
    Sig [] "setName" [PString true] RVoid [On QAnimationClipData; On QChannel; On QChannelComponent];
    Sig [VALUE_TYPE_QTGUI_QVECTOR2D] "setRightControlPoint" [PValue QVector2D] RVoid [On QKeyFrame]
  ].

Definition value_methods_qt3danimation_0_types : list string :=
  [
    QAnimationClipData;
    QChannel;
    QChannelComponent;
    QKeyFrame
  ].

Definition value_methods_qt3danimation_0 : method_shard :=
  MethodShard Qt3DAnimation "KRY_QT6_NATIVE_METHODS_QT3DANIMATION_"
    (value_methods_qt3danimation_0_i0)
    (value_methods_qt3danimation_0_s0 ++ value_methods_qt3danimation_0_s11 ++
        value_methods_qt3danimation_0_s20)
    value_methods_qt3danimation_0_types.

Definition value_methods_qt3dcore_0_i0 : list include :=
  [
    ClassInclude Qt3DCore QBackendNode QBackendNode;
    ClassInclude Qt3DCore QNodeId QNodeId;
    TypeInclude Qt3DCore QNode TYPE_QT3DCORE_QNODE;
    TypeInclude Qt3DCore QBackendNode TYPE_QT3DCORE_QBACKENDNODE
  ].

Definition value_methods_qt3dcore_0_s0 : list signature_row :=
  [
    Sig [] "id" [] (RMeta cxx_quint64) [On QNodeId];
    Sig [] "isEnabled" [] RBool [On QBackendNode];
    Sig [] "isNull" [] RBool [On QNodeId];
    Sig [TYPE_QT3DCORE_QBACKENDNODE] "mode" [] (RMeta Qt3DCore_QBackendNode_Mode) [On QBackendNode];
    Sig [] "setEnabled" [PBool] RVoid [On QBackendNode];
    Sig [TYPE_QT3DCORE_QNODE] "syncFromFrontEnd" [PObject Qt3DCore_QNode false; PBool] RVoid [On
        QBackendNode]
  ].

Definition value_methods_qt3dcore_0_types : list string :=
  [
    QBackendNode;
    QNodeId
  ].

Definition value_methods_qt3dcore_0 : method_shard :=
  MethodShard Qt3DCore "KRY_QT6_NATIVE_METHODS_QT3DCORE_"
    (value_methods_qt3dcore_0_i0)
    (value_methods_qt3dcore_0_s0)
    value_methods_qt3dcore_0_types.

Definition value_methods_qt3drender_0_i0 : list include :=
  [
    ClassInclude Qt3DRender QLevelOfDetailBoundingSphere QLevelOfDetailBoundingSphere;
    ClassInclude Qt3DRender QRayCasterHit QRayCasterHit;
    ClassInclude Qt3DRender QTextureData QTextureData;
    ClassInclude Qt3DRender QTextureDataUpdate QTextureDataUpdate;
    ClassInclude Qt3DRender QTextureImageData QTextureImageData;
    TypeInclude Qt3DCore QEntity TYPE_QT3DCORE_QENTITY;
    TypeInclude Qt3DRender QAbstractTexture TYPE_QT3DRENDER_QABSTRACTTEXTURE;
    TypeInclude Qt3DRender QRayCasterHit TYPE_QT3DRENDER_QRAYCASTERHIT;
    TypeInclude Qt3DRender QTextureWrapMode TYPE_QT3DRENDER_QTEXTUREWRAPMODE;
    TypeInclude QtOpenGL QOpenGLTexture TYPE_QTOPENGL_QOPENGLTEXTURE;
    TypeInclude QtCore QByteArray VALUE_TYPE_QTCORE_QBYTEARRAY;
    TypeInclude QtGui QImage VALUE_TYPE_QTGUI_QIMAGE;
    TypeInclude QtGui QVector3D VALUE_TYPE_QTGUI_QVECTOR3D
  ].

Definition value_methods_qt3drender_0_s0 : list signature_row :=
  [
    Sig [] "alignment" [] RDouble [On QTextureImageData];
    Sig [VALUE_TYPE_QTGUI_QVECTOR3D] "center" [] (RValue QVector3D) [On QLevelOfDetailBoundingSphere];
    Sig [] "cleanup" [] RVoid [On QTextureImageData];
    Sig [TYPE_QT3DRENDER_QABSTRACTTEXTURE] "comparisonFunction" [] (RMeta
        Qt3DRender_QAbstractTexture_ComparisonFunction) [On QTextureData];
    Sig [TYPE_QT3DRENDER_QABSTRACTTEXTURE] "comparisonMode" [] (RMeta
        Qt3DRender_QAbstractTexture_ComparisonMode) [On QTextureData];
    Sig [VALUE_TYPE_QTCORE_QBYTEARRAY] "data" [PInt; PInt; PInt] (RValue QByteArray) [On QTextureImageData];
    Sig [] "depth" [] RDouble [On QTextureData; On QTextureImageData];
    Sig [] "distance" [] RDouble [On QRayCasterHit];
    Sig [TYPE_QT3DCORE_QENTITY] "entity" [] RObject [On QRayCasterHit];
    Sig [TYPE_QT3DRENDER_QABSTRACTTEXTURE] "face" [] (RMeta Qt3DRender_QAbstractTexture_CubeMapFace) [On
        QTextureDataUpdate]
  ].

Definition value_methods_qt3drender_0_s10 : list signature_row :=
  [
    Sig [] "faces" [] RDouble [On QTextureImageData];
    Sig [TYPE_QTOPENGL_QOPENGLTEXTURE] "format" [] (RMeta QOpenGLTexture_TextureFormat) [On
        QTextureImageData];
    Sig [TYPE_QT3DRENDER_QABSTRACTTEXTURE] "format" [] (RMeta Qt3DRender_QAbstractTexture_TextureFormat)
        [On QTextureData];
    Sig [] "height" [] RDouble [On QTextureData; On QTextureImageData];
    Sig [] "isAutoMipMapGenerationEnabled" [] RBool [On QTextureData];
    Sig [] "isCompressed" [] RBool [On QTextureImageData];
    Sig [] "isEmpty" [] RBool [On QLevelOfDetailBoundingSphere];
    Sig [] "layer" [] RDouble [On QTextureDataUpdate];
    Sig [] "layers" [] RDouble [On QTextureData; On QTextureImageData];
    Sig [VALUE_TYPE_QTGUI_QVECTOR3D] "localIntersection" [] (RValue QVector3D) [On QRayCasterHit]
  ].

Definition value_methods_qt3drender_0_s20 : list signature_row :=
  [
    Sig [TYPE_QT3DRENDER_QABSTRACTTEXTURE] "magnificationFilter" [] (RMeta
        Qt3DRender_QAbstractTexture_Filter) [On QTextureData];
    Sig [] "maximumAnisotropy" [] RDouble [On QTextureData];
    Sig [TYPE_QT3DRENDER_QABSTRACTTEXTURE] "minificationFilter" [] (RMeta
        Qt3DRender_QAbstractTexture_Filter) [On QTextureData];
    Sig [] "mipLevel" [] RDouble [On QTextureDataUpdate];
    Sig [] "mipLevels" [] RDouble [On QTextureImageData];
    Sig [TYPE_QTOPENGL_QOPENGLTEXTURE] "pixelFormat" [] (RMeta QOpenGLTexture_PixelFormat) [On
        QTextureImageData];
    Sig [TYPE_QTOPENGL_QOPENGLTEXTURE] "pixelType" [] (RMeta QOpenGLTexture_PixelType) [On
        QTextureImageData];
    Sig [] "primitiveIndex" [] RDouble [On QRayCasterHit];
    Sig [] "radius" [] RDouble [On QLevelOfDetailBoundingSphere];
    Sig [] "setAlignment" [PInt] RVoid [On QTextureImageData];
    Sig [] "setAutoMipMapGenerationEnabled" [PBool] RVoid [On QTextureData]
  ].

Definition value_methods_qt3drender_0_s31 : list signature_row :=
  [
    Sig [TYPE_QT3DRENDER_QABSTRACTTEXTURE] "setComparisonFunction" [PValue
        Qt3DRender_QAbstractTexture_ComparisonFunction] RVoid [On QTextureData];
    Sig [TYPE_QT3DRENDER_QABSTRACTTEXTURE] "setComparisonMode" [PValue
        Qt3DRender_QAbstractTexture_ComparisonMode] RVoid [On QTextureData];
    Sig [VALUE_TYPE_QTCORE_QBYTEARRAY] "setData" [PValue QByteArray; PInt; PBool] RVoid [On
        QTextureImageData];
    Sig [] "setDepth" [PInt] RVoid [On QTextureData; On QTextureImageData];
    Sig [TYPE_QT3DRENDER_QABSTRACTTEXTURE] "setFace" [PValue Qt3DRender_QAbstractTexture_CubeMapFace] RVoid
        [On QTextureDataUpdate];
    Sig [] "setFaces" [PInt] RVoid [On QTextureImageData];
    Sig [TYPE_QTOPENGL_QOPENGLTEXTURE] "setFormat" [PValue QOpenGLTexture_TextureFormat] RVoid [On
        QTextureImageData];
    Sig [TYPE_QT3DRENDER_QABSTRACTTEXTURE] "setFormat" [PValue Qt3DRender_QAbstractTexture_TextureFormat]
        RVoid [On QTextureData]
  ].

Definition value_methods_qt3drender_0_s39 : list signature_row :=
  [
    Sig [] "setHeight" [PInt] RVoid [On QTextureData; On QTextureImageData];
    Sig [VALUE_TYPE_QTGUI_QIMAGE] "setImage" [PValue QImage] RVoid [On QTextureImageData];
    Sig [] "setLayer" [PInt] RVoid [On QTextureDataUpdate];
    Sig [] "setLayers" [PInt] RVoid [On QTextureData; On QTextureImageData];
    Sig [TYPE_QT3DRENDER_QABSTRACTTEXTURE] "setMagnificationFilter" [PValue
        Qt3DRender_QAbstractTexture_Filter] RVoid [On QTextureData];
    Sig [] "setMaximumAnisotropy" [PNumber cxx_float] RVoid [On QTextureData];
    Sig [TYPE_QT3DRENDER_QABSTRACTTEXTURE] "setMinificationFilter" [PValue
        Qt3DRender_QAbstractTexture_Filter] RVoid [On QTextureData];
    Sig [] "setMipLevel" [PInt] RVoid [On QTextureDataUpdate];
    Sig [] "setMipLevels" [PInt] RVoid [On QTextureImageData]
  ].

Definition value_methods_qt3drender_0_s48 : list signature_row :=
  [
    Sig [TYPE_QTOPENGL_QOPENGLTEXTURE] "setPixelFormat" [PValue QOpenGLTexture_PixelFormat] RVoid [On
        QTextureImageData];
    Sig [TYPE_QTOPENGL_QOPENGLTEXTURE] "setPixelType" [PValue QOpenGLTexture_PixelType] RVoid [On
        QTextureImageData];
    Sig [TYPE_QTOPENGL_QOPENGLTEXTURE] "setTarget" [PValue QOpenGLTexture_Target] RVoid [On
        QTextureImageData];
    Sig [TYPE_QT3DRENDER_QABSTRACTTEXTURE] "setTarget" [PValue Qt3DRender_QAbstractTexture_Target] RVoid
        [On QTextureData];
    Sig [] "setWidth" [PInt] RVoid [On QTextureData; On QTextureImageData];
    Sig [TYPE_QT3DRENDER_QTEXTUREWRAPMODE] "setWrapModeX" [PValue Qt3DRender_QTextureWrapMode_WrapMode]
        RVoid [On QTextureData];
    Sig [TYPE_QT3DRENDER_QTEXTUREWRAPMODE] "setWrapModeY" [PValue Qt3DRender_QTextureWrapMode_WrapMode]
        RVoid [On QTextureData];
    Sig [TYPE_QT3DRENDER_QTEXTUREWRAPMODE] "setWrapModeZ" [PValue Qt3DRender_QTextureWrapMode_WrapMode]
        RVoid [On QTextureData]
  ].

Definition value_methods_qt3drender_0_s56 : list signature_row :=
  [
    Sig [] "setX" [PInt] RVoid [On QTextureDataUpdate];
    Sig [] "setY" [PInt] RVoid [On QTextureDataUpdate];
    Sig [] "setZ" [PInt] RVoid [On QTextureDataUpdate];
    Sig [TYPE_QTOPENGL_QOPENGLTEXTURE] "target" [] (RMeta QOpenGLTexture_Target) [On QTextureImageData];
    Sig [TYPE_QT3DRENDER_QABSTRACTTEXTURE] "target" [] (RMeta Qt3DRender_QAbstractTexture_Target) [On
        QTextureData];
    Sig [TYPE_QT3DRENDER_QRAYCASTERHIT] "type" [] (RMeta Qt3DRender_QRayCasterHit_HitType) [On
        QRayCasterHit];
    Sig [] "vertex1Index" [] RDouble [On QRayCasterHit];
    Sig [] "vertex2Index" [] RDouble [On QRayCasterHit];
    Sig [] "vertex3Index" [] RDouble [On QRayCasterHit];
    Sig [] "width" [] RDouble [On QTextureData; On QTextureImageData]
  ].

Definition value_methods_qt3drender_0_s66 : list signature_row :=
  [
    Sig [VALUE_TYPE_QTGUI_QVECTOR3D] "worldIntersection" [] (RValue QVector3D) [On QRayCasterHit];
    Sig [TYPE_QT3DRENDER_QTEXTUREWRAPMODE] "wrapModeX" [] (RMeta Qt3DRender_QTextureWrapMode_WrapMode) [On
        QTextureData];
    Sig [TYPE_QT3DRENDER_QTEXTUREWRAPMODE] "wrapModeY" [] (RMeta Qt3DRender_QTextureWrapMode_WrapMode) [On
        QTextureData];
    Sig [TYPE_QT3DRENDER_QTEXTUREWRAPMODE] "wrapModeZ" [] (RMeta Qt3DRender_QTextureWrapMode_WrapMode) [On
        QTextureData];
    Sig [] "x" [] RDouble [On QTextureDataUpdate];
    Sig [] "y" [] RDouble [On QTextureDataUpdate];
    Sig [] "z" [] RDouble [On QTextureDataUpdate]
  ].

Definition value_methods_qt3drender_0_types : list string :=
  [
    QLevelOfDetailBoundingSphere;
    QRayCasterHit;
    QTextureData;
    QTextureDataUpdate;
    QTextureImageData
  ].

Definition value_methods_qt3drender_0 : method_shard :=
  MethodShard Qt3DRender "KRY_QT6_NATIVE_METHODS_QT3DRENDER_"
    (value_methods_qt3drender_0_i0)
    (value_methods_qt3drender_0_s0 ++ value_methods_qt3drender_0_s10 ++ value_methods_qt3drender_0_s20 ++
        value_methods_qt3drender_0_s31 ++ value_methods_qt3drender_0_s39 ++ value_methods_qt3drender_0_s48
        ++ value_methods_qt3drender_0_s56 ++ value_methods_qt3drender_0_s66)
    value_methods_qt3drender_0_types.

Definition value_methods_qtdesigner_0_i0 : list include :=
  [
    ClassInclude QtDesigner QAbstractFormBuilder QAbstractFormBuilder;
    ClassInclude QtDesigner QDesignerCustomWidgetInterface QDesignerCustomWidgetInterface;
    ClassInclude QtDesigner QDesignerFormWindowCursorInterface QDesignerFormWindowCursorInterface;
    ClassInclude QtDesigner QFormBuilder QFormBuilder;
    TypeInclude QtCore QIODevice TYPE_QTCORE_QIODEVICE;
    TypeInclude QtDesigner QDesignerFormEditorInterface TYPE_QTDESIGNER_QDESIGNERFORMEDITORINTERFACE;
    TypeInclude QtWidgets QWidget TYPE_QTWIDGETS_QWIDGET;
    TypeInclude QtCore QDir VALUE_TYPE_QTCORE_QDIR
  ].

Definition value_methods_qtdesigner_0_s0 : list signature_row :=
  [
    Sig [] "addPluginPath" [PString true] RVoid [On QFormBuilder];
    Sig [] "clearPluginPaths" [] RVoid [On QFormBuilder];
    Sig [] "codeTemplate" [] RString [On QDesignerCustomWidgetInterface];
    Sig [] "domXml" [] RString [On QDesignerCustomWidgetInterface];
    Sig [] "errorString" [] RString [On QAbstractFormBuilder];
    Sig [TYPE_QTDESIGNER_QDESIGNERFORMEDITORINTERFACE] "initialize" [PObject QDesignerFormEditorInterface
        false] RVoid [On QDesignerCustomWidgetInterface];
    Sig [] "isInitialized" [] RBool [On QDesignerCustomWidgetInterface];
    Sig [TYPE_QTWIDGETS_QWIDGET] "isWidgetSelected" [PObject QWidget false] RBool [On
        QDesignerFormWindowCursorInterface];
    Sig [TYPE_QTCORE_QIODEVICE; TYPE_QTWIDGETS_QWIDGET] "load" [PObject QIODevice false; PObject QWidget
        false] RObject [On QAbstractFormBuilder];
    Sig [] "pluginPaths" [] (RList (IMeta QString)) [On QFormBuilder]
  ].

Definition value_methods_qtdesigner_0_s10 : list signature_row :=
  [
    Sig [TYPE_QTCORE_QIODEVICE; TYPE_QTWIDGETS_QWIDGET] "save" [PObject QIODevice false; PObject QWidget
        false] RVoid [On QAbstractFormBuilder];
    Sig [] "setPluginPath" [PStringList] RVoid [On QFormBuilder];
    Sig [VALUE_TYPE_QTCORE_QDIR] "setWorkingDirectory" [PValue QDir] RVoid [On QAbstractFormBuilder];
    Sig [VALUE_TYPE_QTCORE_QDIR] "workingDirectory" [] (RValue QDir) [On QAbstractFormBuilder]
  ].

Definition value_methods_qtdesigner_0_types : list string :=
  [
    QAbstractFormBuilder;
    QDesignerCustomWidgetInterface;
    QDesignerFormWindowCursorInterface;
    QFormBuilder
  ].

Definition value_methods_qtdesigner_0 : method_shard :=
  MethodShard QtDesigner "KRY_QT6_NATIVE_METHODS_QTDESIGNER_"
    (value_methods_qtdesigner_0_i0)
    (value_methods_qtdesigner_0_s0 ++ value_methods_qtdesigner_0_s10)
    value_methods_qtdesigner_0_types.

Definition value_methods_qtgraphs_0_i0 : list include :=
  [
    ClassInclude QtGraphs QGraphsLine QGraphsLine;
    TypeInclude QtGraphs QGraphsLine VALUE_TYPE_QTGRAPHS_QGRAPHSLINE;
    TypeInclude QtGui QColor VALUE_TYPE_QTGUI_QCOLOR
  ].

Definition value_methods_qtgraphs_0_s0 : list signature_row :=
  [
    Sig [VALUE_TYPE_QTGUI_QCOLOR] "labelTextColor" [] (RValue QColor) [On QGraphsLine];
    Sig [VALUE_TYPE_QTGUI_QCOLOR] "mainColor" [] (RValue QColor) [On QGraphsLine];
    Sig [] "mainWidth" [] RDouble [On QGraphsLine];
    Sig [VALUE_TYPE_QTGUI_QCOLOR] "setLabelTextColor" [PValue QColor] RVoid [On QGraphsLine];
    Sig [VALUE_TYPE_QTGUI_QCOLOR] "setMainColor" [PValue QColor] RVoid [On QGraphsLine];
    Sig [] "setMainWidth" [PNumber cxx_qreal] RVoid [On QGraphsLine];
    Sig [VALUE_TYPE_QTGUI_QCOLOR] "setSubColor" [PValue QColor] RVoid [On QGraphsLine];
    Sig [] "setSubWidth" [PNumber cxx_qreal] RVoid [On QGraphsLine];
    Sig [VALUE_TYPE_QTGUI_QCOLOR] "subColor" [] (RValue QColor) [On QGraphsLine];
    Sig [] "subWidth" [] RDouble [On QGraphsLine]
  ].

Definition value_methods_qtgraphs_0_s10 : list signature_row :=
  [
    Sig [VALUE_TYPE_QTGRAPHS_QGRAPHSLINE] "swap" [PValue QGraphsLine] RVoid [On QGraphsLine]
  ].

Definition value_methods_qtgraphs_0_types : list string :=
  [
    QGraphsLine
  ].

Definition value_methods_qtgraphs_0 : method_shard :=
  MethodShard QtGraphs "KRY_QT6_NATIVE_METHODS_QTGRAPHS_"
    (value_methods_qtgraphs_0_i0)
    (value_methods_qtgraphs_0_s0 ++ value_methods_qtgraphs_0_s10)
    value_methods_qtgraphs_0_types.

Definition value_methods_qthelp_0_i0 : list include :=
  [
    ClassInclude QtHelp QCompressedHelpInfo QCompressedHelpInfo;
    ClassInclude QtHelp QHelpContentItem QHelpContentItem;
    ClassInclude QtHelp QHelpFilterData QHelpFilterData;
    ClassInclude QtHelp QHelpSearchResult QHelpSearchResult;
    TypeInclude QtCore QUrl VALUE_TYPE_QTCORE_QURL;
    TypeInclude QtCore QVersionNumber VALUE_TYPE_QTCORE_QVERSIONNUMBER;
    TypeInclude QtHelp QCompressedHelpInfo VALUE_TYPE_QTHELP_QCOMPRESSEDHELPINFO;
    TypeInclude QtHelp QHelpFilterData VALUE_TYPE_QTHELP_QHELPFILTERDATA
  ].

Definition value_methods_qthelp_0_s0 : list signature_row :=
  [
    Sig [] "childCount" [] RDouble [On QHelpContentItem];
    Sig [] "component" [] RString [On QCompressedHelpInfo];
    Sig [] "components" [] (RList (IMeta QString)) [On QHelpFilterData];
    Sig [] "isNull" [] RBool [On QCompressedHelpInfo];
    Sig [] "namespaceName" [] RString [On QCompressedHelpInfo];
    Sig [] "row" [] RDouble [On QHelpContentItem];
    Sig [] "setComponents" [PStringList] RVoid [On QHelpFilterData];
    Sig [VALUE_TYPE_QTCORE_QVERSIONNUMBER] "setVersions" [PList (IValue QVersionNumber)] RVoid [On
        QHelpFilterData];
    Sig [] "snippet" [] RString [On QHelpSearchResult];
    Sig [VALUE_TYPE_QTHELP_QCOMPRESSEDHELPINFO] "swap" [PValue QCompressedHelpInfo] RVoid [On
        QCompressedHelpInfo]
  ].

Definition value_methods_qthelp_0_s10 : list signature_row :=
  [
    Sig [VALUE_TYPE_QTHELP_QHELPFILTERDATA] "swap" [PValue QHelpFilterData] RVoid [On QHelpFilterData];
    Sig [] "title" [] RString [On QHelpContentItem; On QHelpSearchResult];
    Sig [VALUE_TYPE_QTCORE_QURL] "url" [] (RValue QUrl) [On QHelpContentItem; On QHelpSearchResult];
    Sig [VALUE_TYPE_QTCORE_QVERSIONNUMBER] "version" [] (RValue QVersionNumber) [On QCompressedHelpInfo];
    Sig [VALUE_TYPE_QTCORE_QVERSIONNUMBER] "versions" [] (RList (IValue QVersionNumber)) [On
        QHelpFilterData]
  ].

Definition value_methods_qthelp_0_types : list string :=
  [
    QCompressedHelpInfo;
    QHelpContentItem;
    QHelpFilterData;
    QHelpSearchResult
  ].

Definition value_methods_qthelp_0 : method_shard :=
  MethodShard QtHelp "KRY_QT6_NATIVE_METHODS_QTHELP_"
    (value_methods_qthelp_0_i0)
    (value_methods_qthelp_0_s0 ++ value_methods_qthelp_0_s10)
    value_methods_qthelp_0_types.

Definition value_methods_qtmultimedia_0_i0 : list include :=
  [
    ClassInclude QtMultimedia QAudioBuffer QAudioBuffer;
    ClassInclude QtMultimedia QAudioDevice QAudioDevice;
    ClassInclude QtMultimedia QAudioFormat QAudioFormat;
    ClassInclude QtMultimedia QCameraDevice QCameraDevice;
    ClassInclude QtMultimedia QCameraFormat QCameraFormat;
    ClassInclude QtMultimedia QCapturableWindow QCapturableWindow;
    ClassInclude QtMultimedia QMediaFormat QMediaFormat;
    ClassInclude QtMultimedia QMediaMetaData QMediaMetaData;
    TypeInclude QtMultimedia QAudioDevice TYPE_QTMULTIMEDIA_QAUDIODEVICE;
    TypeInclude QtMultimedia QAudioFormat TYPE_QTMULTIMEDIA_QAUDIOFORMAT;
    TypeInclude QtMultimedia QCameraDevice TYPE_QTMULTIMEDIA_QCAMERADEVICE;
    TypeInclude QtMultimedia QMediaFormat TYPE_QTMULTIMEDIA_QMEDIAFORMAT;
    TypeInclude QtMultimedia QMediaMetaData TYPE_QTMULTIMEDIA_QMEDIAMETADATA;
    TypeInclude QtMultimedia QVideoFrameFormat TYPE_QTMULTIMEDIA_QVIDEOFRAMEFORMAT;
    TypeInclude QtCore QByteArray VALUE_TYPE_QTCORE_QBYTEARRAY;
    TypeInclude QtCore QMimeType VALUE_TYPE_QTCORE_QMIMETYPE;
    TypeInclude QtCore QSize VALUE_TYPE_QTCORE_QSIZE;
    TypeInclude QtMultimedia QAudioBuffer VALUE_TYPE_QTMULTIMEDIA_QAUDIOBUFFER;
    TypeInclude QtMultimedia QAudioDevice VALUE_TYPE_QTMULTIMEDIA_QAUDIODEVICE;
    TypeInclude QtMultimedia QAudioFormat VALUE_TYPE_QTMULTIMEDIA_QAUDIOFORMAT;
    TypeInclude QtMultimedia QCameraFormat VALUE_TYPE_QTMULTIMEDIA_QCAMERAFORMAT;
    TypeInclude QtMultimedia QCapturableWindow VALUE_TYPE_QTMULTIMEDIA_QCAPTURABLEWINDOW;
    TypeInclude QtMultimedia QMediaFormat VALUE_TYPE_QTMULTIMEDIA_QMEDIAFORMAT
  ].

Definition value_methods_qtmultimedia_0_s0 : list signature_row :=
  [
    Sig [TYPE_QTMULTIMEDIA_QMEDIAFORMAT] "audioCodec" [] (RMeta QMediaFormat_AudioCodec) [On QMediaFormat];
    Sig [] "byteCount" [] (RMeta cxx_qsizetype) [On QAudioBuffer];
    Sig [] "bytesPerFrame" [] RDouble [On QAudioFormat];
    Sig [] "bytesPerSample" [] RDouble [On QAudioFormat];
    Sig [TYPE_QTMULTIMEDIA_QAUDIOFORMAT] "channelConfig" [] (RMeta QAudioFormat_ChannelConfig) [On
        QAudioFormat];
    Sig [TYPE_QTMULTIMEDIA_QAUDIOFORMAT] "channelConfiguration" [] (RMeta QAudioFormat_ChannelConfig) [On
        QAudioDevice];
    Sig [] "channelCount" [] RDouble [On QAudioFormat];
    Sig [TYPE_QTMULTIMEDIA_QAUDIOFORMAT] "channelOffset" [PValue QAudioFormat_AudioChannelPosition] RDouble
        [On QAudioFormat];
    Sig [] "description" [] RString [On QAudioDevice; On QCameraDevice; On QCapturableWindow];
    Sig [] "detach" [] RVoid [On QAudioBuffer]
  ].

Definition value_methods_qtmultimedia_0_s10 : list signature_row :=
  [
    Sig [] "duration" [] (RMeta cxx_qint64) [On QAudioBuffer];
    Sig [TYPE_QTMULTIMEDIA_QMEDIAFORMAT] "fileFormat" [] (RMeta QMediaFormat_FileFormat) [On QMediaFormat];
    Sig [VALUE_TYPE_QTMULTIMEDIA_QAUDIOFORMAT] "format" [] (RValue QAudioFormat) [On QAudioBuffer];
    Sig [] "frameCount" [] (RMeta cxx_qsizetype) [On QAudioBuffer];
    Sig [VALUE_TYPE_QTCORE_QBYTEARRAY] "id" [] (RValue QByteArray) [On QAudioDevice; On QCameraDevice];
    Sig [TYPE_QTMULTIMEDIA_QMEDIAMETADATA] "insert" [PValue QMediaMetaData_Key; PVariant] RVoid [On
        QMediaMetaData];
    Sig [] "isDefault" [] RBool [On QAudioDevice; On QCameraDevice];
    Sig [VALUE_TYPE_QTMULTIMEDIA_QAUDIOFORMAT] "isFormatSupported" [PValue QAudioFormat] RBool [On
        QAudioDevice];
    Sig [] "isNull" [] RBool [On QAudioDevice; On QCameraDevice; On QCameraFormat]
  ].

Definition value_methods_qtmultimedia_0_s19 : list signature_row :=
  [
    Sig [TYPE_QTMULTIMEDIA_QMEDIAFORMAT] "isSupported" [PValue QMediaFormat_ConversionMode] RBool [On
        QMediaFormat];
    Sig [] "isValid" [] RBool [On QAudioBuffer; On QAudioFormat; On QCapturableWindow];
    Sig [TYPE_QTMULTIMEDIA_QMEDIAMETADATA] "keys" [] (RList (IMeta QMediaMetaData_Key)) [On QMediaMetaData];
    Sig [] "maxFrameRate" [] RDouble [On QCameraFormat];
    Sig [] "maximumChannelCount" [] RDouble [On QAudioDevice];
    Sig [] "maximumSampleRate" [] RDouble [On QAudioDevice];
    Sig [VALUE_TYPE_QTCORE_QMIMETYPE] "mimeType" [] (RValue QMimeType) [On QMediaFormat];
    Sig [] "minFrameRate" [] RDouble [On QCameraFormat];
    Sig [] "minimumChannelCount" [] RDouble [On QAudioDevice];
    Sig [] "minimumSampleRate" [] RDouble [On QAudioDevice]
  ].

Definition value_methods_qtmultimedia_0_s29 : list signature_row :=
  [
    Sig [TYPE_QTMULTIMEDIA_QAUDIODEVICE] "mode" [] (RMeta QAudioDevice_Mode) [On QAudioDevice];
    Sig [VALUE_TYPE_QTCORE_QSIZE] "photoResolutions" [] (RList (IValue QSize)) [On QCameraDevice];
    Sig [TYPE_QTMULTIMEDIA_QVIDEOFRAMEFORMAT] "pixelFormat" [] (RMeta QVideoFrameFormat_PixelFormat) [On
        QCameraFormat];
    Sig [TYPE_QTMULTIMEDIA_QCAMERADEVICE] "position" [] (RMeta QCameraDevice_Position) [On QCameraDevice];
    Sig [VALUE_TYPE_QTMULTIMEDIA_QAUDIOFORMAT] "preferredFormat" [] (RValue QAudioFormat) [On QAudioDevice];
    Sig [VALUE_TYPE_QTCORE_QSIZE] "resolution" [] (RValue QSize) [On QCameraFormat];
    Sig [TYPE_QTMULTIMEDIA_QMEDIAFORMAT] "resolveForEncoding" [PValue QMediaFormat_ResolveFlags] RVoid [On
        QMediaFormat];
    Sig [] "sampleCount" [] (RMeta cxx_qsizetype) [On QAudioBuffer];
    Sig [TYPE_QTMULTIMEDIA_QAUDIOFORMAT] "sampleFormat" [] (RMeta QAudioFormat_SampleFormat) [On
        QAudioFormat];
    Sig [] "sampleRate" [] RDouble [On QAudioFormat]
  ].

Definition value_methods_qtmultimedia_0_s39 : list signature_row :=
  [
    Sig [TYPE_QTMULTIMEDIA_QMEDIAFORMAT] "setAudioCodec" [PValue QMediaFormat_AudioCodec] RVoid [On
        QMediaFormat];
    Sig [TYPE_QTMULTIMEDIA_QAUDIOFORMAT] "setChannelConfig" [PValue QAudioFormat_ChannelConfig] RVoid [On
        QAudioFormat];
    Sig [] "setChannelCount" [PInt] RVoid [On QAudioFormat];
    Sig [TYPE_QTMULTIMEDIA_QMEDIAFORMAT] "setFileFormat" [PValue QMediaFormat_FileFormat] RVoid [On
        QMediaFormat];
    Sig [TYPE_QTMULTIMEDIA_QAUDIOFORMAT] "setSampleFormat" [PValue QAudioFormat_SampleFormat] RVoid [On
        QAudioFormat];
    Sig [] "setSampleRate" [PInt] RVoid [On QAudioFormat];
    Sig [TYPE_QTMULTIMEDIA_QMEDIAFORMAT] "setVideoCodec" [PValue QMediaFormat_VideoCodec] RVoid [On
        QMediaFormat];
    Sig [] "startTime" [] (RMeta cxx_qint64) [On QAudioBuffer];
    Sig [TYPE_QTMULTIMEDIA_QMEDIAMETADATA] "stringValue" [PValue QMediaMetaData_Key] RString [On
        QMediaMetaData]
  ].

Definition value_methods_qtmultimedia_0_s48 : list signature_row :=
  [
    Sig [TYPE_QTMULTIMEDIA_QMEDIAFORMAT] "supportedAudioCodecs" [PValue QMediaFormat_ConversionMode] (RList
        (IMeta QMediaFormat_AudioCodec)) [On QMediaFormat];
    Sig [TYPE_QTMULTIMEDIA_QMEDIAFORMAT] "supportedFileFormats" [PValue QMediaFormat_ConversionMode] (RList
        (IMeta QMediaFormat_FileFormat)) [On QMediaFormat];
    Sig [TYPE_QTMULTIMEDIA_QAUDIOFORMAT] "supportedSampleFormats" [] (RList (IMeta
        QAudioFormat_SampleFormat)) [On QAudioDevice];
    Sig [TYPE_QTMULTIMEDIA_QMEDIAFORMAT] "supportedVideoCodecs" [PValue QMediaFormat_ConversionMode] (RList
        (IMeta QMediaFormat_VideoCodec)) [On QMediaFormat];
    Sig [VALUE_TYPE_QTMULTIMEDIA_QAUDIOBUFFER] "swap" [PValue QAudioBuffer] RVoid [On QAudioBuffer];
    Sig [VALUE_TYPE_QTMULTIMEDIA_QAUDIODEVICE] "swap" [PValue QAudioDevice] RVoid [On QAudioDevice];
    Sig [VALUE_TYPE_QTMULTIMEDIA_QCAPTURABLEWINDOW] "swap" [PValue QCapturableWindow] RVoid [On
        QCapturableWindow];
    Sig [VALUE_TYPE_QTMULTIMEDIA_QMEDIAFORMAT] "swap" [PValue QMediaFormat] RVoid [On QMediaFormat]
  ].

Definition value_methods_qtmultimedia_0_s56 : list signature_row :=
  [
    Sig [TYPE_QTMULTIMEDIA_QMEDIAMETADATA] "value" [PValue QMediaMetaData_Key] RVariant [On QMediaMetaData];
    Sig [TYPE_QTMULTIMEDIA_QMEDIAFORMAT] "videoCodec" [] (RMeta QMediaFormat_VideoCodec) [On QMediaFormat];
    Sig [VALUE_TYPE_QTMULTIMEDIA_QCAMERAFORMAT] "videoFormats" [] (RList (IValue QCameraFormat)) [On
        QCameraDevice]
  ].

Definition value_methods_qtmultimedia_0_types : list string :=
  [
    QAudioBuffer;
    QAudioDevice;
    QAudioFormat;
    QCameraDevice;
    QCameraFormat;
    QCapturableWindow;
    QMediaFormat;
    QMediaMetaData
  ].

Definition value_methods_qtmultimedia_0 : method_shard :=
  MethodShard QtMultimedia "KRY_QT6_NATIVE_METHODS_QTMULTIMEDIA_"
    (value_methods_qtmultimedia_0_i0)
    (value_methods_qtmultimedia_0_s0 ++ value_methods_qtmultimedia_0_s10 ++
        value_methods_qtmultimedia_0_s19 ++ value_methods_qtmultimedia_0_s29 ++
        value_methods_qtmultimedia_0_s39 ++ value_methods_qtmultimedia_0_s48 ++
        value_methods_qtmultimedia_0_s56)
    value_methods_qtmultimedia_0_types.

Definition value_methods_qtmultimedia_1_i0 : list include :=
  [
    ClassInclude QtMultimedia QMediaTimeRange QMediaTimeRange;
    ClassInclude QtMultimedia QPlaybackOptions QPlaybackOptions;
    ClassInclude QtMultimedia QVideoFrame QVideoFrame;
    ClassInclude QtMultimedia QVideoFrameFormat QVideoFrameFormat;
    TypeInclude QtMultimedia QMediaTimeRange TYPE_QTMULTIMEDIA_QMEDIATIMERANGE;
    TypeInclude QtMultimedia QPlaybackOptions TYPE_QTMULTIMEDIA_QPLAYBACKOPTIONS;
    TypeInclude QtMultimedia QVideoFrame TYPE_QTMULTIMEDIA_QVIDEOFRAME;
    TypeInclude QtMultimedia QVideoFrameFormat TYPE_QTMULTIMEDIA_QVIDEOFRAMEFORMAT;
    TypeInclude QtCore QRect VALUE_TYPE_QTCORE_QRECT;
    TypeInclude QtCore QSize VALUE_TYPE_QTCORE_QSIZE;
    TypeInclude QtGui QImage VALUE_TYPE_QTGUI_QIMAGE;
    TypeInclude QtMultimedia QMediaTimeRange VALUE_TYPE_QTMULTIMEDIA_QMEDIATIMERANGE;
    TypeInclude QtMultimedia QPlaybackOptions VALUE_TYPE_QTMULTIMEDIA_QPLAYBACKOPTIONS;
    TypeInclude QtMultimedia QVideoFrameFormat VALUE_TYPE_QTMULTIMEDIA_QVIDEOFRAMEFORMAT
  ].

Definition value_methods_qtmultimedia_1_s0 : list signature_row :=
  [
    Sig [TYPE_QTMULTIMEDIA_QMEDIATIMERANGE] "addInterval" [PValue QMediaTimeRange_Interval] RVoid [On
        QMediaTimeRange];
    Sig [] "addInterval" [PMeta cxx_qint64; PMeta cxx_qint64] RVoid [On QMediaTimeRange];
    Sig [VALUE_TYPE_QTMULTIMEDIA_QMEDIATIMERANGE] "addTimeRange" [PValue QMediaTimeRange] RVoid [On
        QMediaTimeRange];
    Sig [] "bytesPerLine" [PInt] RDouble [On QVideoFrame];
    Sig [] "clear" [] RVoid [On QMediaTimeRange];
    Sig [TYPE_QTMULTIMEDIA_QVIDEOFRAMEFORMAT] "colorRange" [] (RMeta QVideoFrameFormat_ColorRange) [On
        QVideoFrameFormat];
    Sig [TYPE_QTMULTIMEDIA_QVIDEOFRAMEFORMAT] "colorSpace" [] (RMeta QVideoFrameFormat_ColorSpace) [On
        QVideoFrameFormat];
    Sig [TYPE_QTMULTIMEDIA_QVIDEOFRAMEFORMAT] "colorTransfer" [] (RMeta QVideoFrameFormat_ColorTransfer)
        [On QVideoFrameFormat];
    Sig [] "contains" [PMeta cxx_qint64] RBool [On QMediaTimeRange; On QMediaTimeRange];
    Sig [] "earliestTime" [] (RMeta cxx_qint64) [On QMediaTimeRange]
  ].

Definition value_methods_qtmultimedia_1_s10 : list signature_row :=
  [
    Sig [] "endTime" [] (RMeta cxx_qint64) [On QVideoFrame];
    Sig [] "frameHeight" [] RDouble [On QVideoFrameFormat];
    Sig [] "frameRate" [] RDouble [On QVideoFrameFormat];
    Sig [VALUE_TYPE_QTCORE_QSIZE] "frameSize" [] (RValue QSize) [On QVideoFrameFormat];
    Sig [] "frameWidth" [] RDouble [On QVideoFrameFormat];
    Sig [TYPE_QTMULTIMEDIA_QVIDEOFRAME] "handleType" [] (RMeta QVideoFrame_HandleType) [On QVideoFrame];
    Sig [] "height" [] RDouble [On QVideoFrame];
    Sig [TYPE_QTMULTIMEDIA_QMEDIATIMERANGE] "intervals" [] (RList (IMeta QMediaTimeRange_Interval)) [On
        QMediaTimeRange];
    Sig [] "isContinuous" [] RBool [On QMediaTimeRange];
    Sig [] "isEmpty" [] RBool [On QMediaTimeRange];
    Sig [] "isMapped" [] RBool [On QVideoFrame]
  ].

Definition value_methods_qtmultimedia_1_s21 : list signature_row :=
  [
    Sig [] "isMirrored" [] RBool [On QVideoFrameFormat];
    Sig [] "isReadable" [] RBool [On QVideoFrame];
    Sig [] "isValid" [] RBool [On QVideoFrame; On QVideoFrameFormat];
    Sig [] "isWritable" [] RBool [On QVideoFrame];
    Sig [] "latestTime" [] (RMeta cxx_qint64) [On QMediaTimeRange];
    Sig [TYPE_QTMULTIMEDIA_QVIDEOFRAME] "map" [PValue QVideoFrame_MapMode] RBool [On QVideoFrame];
    Sig [TYPE_QTMULTIMEDIA_QVIDEOFRAME] "mapMode" [] (RMeta QVideoFrame_MapMode) [On QVideoFrame];
    Sig [] "mappedBytes" [PInt] RDouble [On QVideoFrame];
    Sig [] "mirrored" [] RBool [On QVideoFrame];
    Sig [TYPE_QTMULTIMEDIA_QVIDEOFRAMEFORMAT] "pixelFormat" [] (RMeta QVideoFrameFormat_PixelFormat) [On
        QVideoFrame; On QVideoFrameFormat]
  ].

Definition value_methods_qtmultimedia_1_s31 : list signature_row :=
  [
    Sig [] "planeCount" [] RDouble [On QVideoFrame; On QVideoFrameFormat];
    Sig [TYPE_QTMULTIMEDIA_QPLAYBACKOPTIONS] "playbackIntent" [] (RMeta QPlaybackOptions_PlaybackIntent)
        [On QPlaybackOptions];
    Sig [] "probeSize" [] (RMeta cxx_qsizetype) [On QPlaybackOptions];
    Sig [TYPE_QTMULTIMEDIA_QMEDIATIMERANGE] "removeInterval" [PValue QMediaTimeRange_Interval] RVoid [On
        QMediaTimeRange];
    Sig [] "removeInterval" [PMeta cxx_qint64; PMeta cxx_qint64] RVoid [On QMediaTimeRange];
    Sig [VALUE_TYPE_QTMULTIMEDIA_QMEDIATIMERANGE] "removeTimeRange" [PValue QMediaTimeRange] RVoid [On
        QMediaTimeRange];
    Sig [] "resetNetworkTimeout" [] RVoid [On QPlaybackOptions];
    Sig [] "resetPlaybackIntent" [] RVoid [On QPlaybackOptions];
    Sig [] "resetProbeSize" [] RVoid [On QPlaybackOptions];
    Sig [TYPE_QTMULTIMEDIA_QVIDEOFRAME] "rotationAngle" [] (RMeta QVideoFrame_RotationAngle) [On
        QVideoFrame]
  ].

Definition value_methods_qtmultimedia_1_s41 : list signature_row :=
  [
    Sig [TYPE_QTMULTIMEDIA_QVIDEOFRAMEFORMAT] "scanLineDirection" [] (RMeta QVideoFrameFormat_Direction)
        [On QVideoFrameFormat];
    Sig [TYPE_QTMULTIMEDIA_QVIDEOFRAMEFORMAT] "setColorRange" [PValue QVideoFrameFormat_ColorRange] RVoid
        [On QVideoFrameFormat];
    Sig [TYPE_QTMULTIMEDIA_QVIDEOFRAMEFORMAT] "setColorSpace" [PValue QVideoFrameFormat_ColorSpace] RVoid
        [On QVideoFrameFormat];
    Sig [TYPE_QTMULTIMEDIA_QVIDEOFRAMEFORMAT] "setColorTransfer" [PValue QVideoFrameFormat_ColorTransfer]
        RVoid [On QVideoFrameFormat];
    Sig [] "setEndTime" [PMeta cxx_qint64] RVoid [On QVideoFrame];
    Sig [] "setFrameRate" [PNumber cxx_qreal] RVoid [On QVideoFrameFormat];
    Sig [VALUE_TYPE_QTCORE_QSIZE] "setFrameSize" [PValue QSize] RVoid [On QVideoFrameFormat];
    Sig [] "setFrameSize" [PInt; PInt] RVoid [On QVideoFrameFormat];
    Sig [] "setMirrored" [PBool] RVoid [On QVideoFrame; On QVideoFrameFormat]
  ].

Definition value_methods_qtmultimedia_1_s50 : list signature_row :=
  [
    Sig [TYPE_QTMULTIMEDIA_QPLAYBACKOPTIONS] "setPlaybackIntent" [PValue QPlaybackOptions_PlaybackIntent]
        RVoid [On QPlaybackOptions];
    Sig [] "setProbeSize" [PMeta cxx_qsizetype] RVoid [On QPlaybackOptions];
    Sig [TYPE_QTMULTIMEDIA_QVIDEOFRAME] "setRotationAngle" [PValue QVideoFrame_RotationAngle] RVoid [On
        QVideoFrame];
    Sig [TYPE_QTMULTIMEDIA_QVIDEOFRAMEFORMAT] "setScanLineDirection" [PValue QVideoFrameFormat_Direction]
        RVoid [On QVideoFrameFormat];
    Sig [] "setStartTime" [PMeta cxx_qint64] RVoid [On QVideoFrame];
    Sig [] "setStreamFrameRate" [PNumber cxx_qreal] RVoid [On QVideoFrame; On QVideoFrameFormat];
    Sig [] "setSubtitleText" [PString true] RVoid [On QVideoFrame];
    Sig [VALUE_TYPE_QTCORE_QRECT] "setViewport" [PValue QRect] RVoid [On QVideoFrameFormat];
    Sig [TYPE_QTMULTIMEDIA_QVIDEOFRAMEFORMAT] "setYCbCrColorSpace" [PValue
        QVideoFrameFormat_YCbCrColorSpace] RVoid [On QVideoFrameFormat]
  ].

Definition value_methods_qtmultimedia_1_s59 : list signature_row :=
  [
    Sig [VALUE_TYPE_QTCORE_QSIZE] "size" [] (RValue QSize) [On QVideoFrame];
    Sig [] "startTime" [] (RMeta cxx_qint64) [On QVideoFrame];
    Sig [] "streamFrameRate" [] RDouble [On QVideoFrame; On QVideoFrameFormat];
    Sig [] "subtitleText" [] RString [On QVideoFrame];
    Sig [VALUE_TYPE_QTMULTIMEDIA_QVIDEOFRAMEFORMAT] "surfaceFormat" [] (RValue QVideoFrameFormat) [On
        QVideoFrame];
    Sig [VALUE_TYPE_QTMULTIMEDIA_QPLAYBACKOPTIONS] "swap" [PValue QPlaybackOptions] RVoid [On
        QPlaybackOptions];
    Sig [VALUE_TYPE_QTGUI_QIMAGE] "toImage" [] (RValue QImage) [On QVideoFrame];
    Sig [] "unmap" [] RVoid [On QVideoFrame];
    Sig [VALUE_TYPE_QTCORE_QRECT] "viewport" [] (RValue QRect) [On QVideoFrameFormat];
    Sig [] "width" [] RDouble [On QVideoFrame]
  ].

Definition value_methods_qtmultimedia_1_s69 : list signature_row :=
  [
    Sig [TYPE_QTMULTIMEDIA_QVIDEOFRAMEFORMAT] "yCbCrColorSpace" [] (RMeta
        QVideoFrameFormat_YCbCrColorSpace) [On QVideoFrameFormat]
  ].

Definition value_methods_qtmultimedia_1_types : list string :=
  [
    QMediaTimeRange;
    QPlaybackOptions;
    QVideoFrame;
    QVideoFrameFormat
  ].

Definition value_methods_qtmultimedia_1 : method_shard :=
  MethodShard QtMultimedia "KRY_QT6_NATIVE_METHODS_QTMULTIMEDIA_"
    (value_methods_qtmultimedia_1_i0)
    (value_methods_qtmultimedia_1_s0 ++ value_methods_qtmultimedia_1_s10 ++
        value_methods_qtmultimedia_1_s21 ++ value_methods_qtmultimedia_1_s31 ++
        value_methods_qtmultimedia_1_s41 ++ value_methods_qtmultimedia_1_s50 ++
        value_methods_qtmultimedia_1_s59 ++ value_methods_qtmultimedia_1_s69)
    value_methods_qtmultimedia_1_types.

Definition value_methods_qtopengl_0_i0 : list include :=
  [
    ClassInclude QtOpenGL QOpenGLBuffer QOpenGLBuffer;
    ClassInclude QtOpenGL QOpenGLDebugMessage QOpenGLDebugMessage;
    ClassInclude QtOpenGL QOpenGLFramebufferObject QOpenGLFramebufferObject;
    ClassInclude QtOpenGL QOpenGLFramebufferObjectFormat QOpenGLFramebufferObjectFormat;
    ClassInclude QtOpenGL QOpenGLFunctions_2_0 QOpenGLFunctions_2_0;
    ClassInclude QtOpenGL QOpenGLFunctions_2_1 QOpenGLFunctions_2_1;
    ClassInclude QtOpenGL QOpenGLFunctions_4_1_Core QOpenGLFunctions_4_1_Core;
    ClassInclude QtOpenGL QOpenGLPaintDevice QOpenGLPaintDevice;
    TypeInclude QtGui QOpenGLContext TYPE_QTGUI_QOPENGLCONTEXT;
    TypeInclude QtOpenGL QOpenGLBuffer TYPE_QTOPENGL_QOPENGLBUFFER;
    TypeInclude QtOpenGL QOpenGLDebugMessage TYPE_QTOPENGL_QOPENGLDEBUGMESSAGE;
    TypeInclude QtOpenGL QOpenGLFramebufferObject TYPE_QTOPENGL_QOPENGLFRAMEBUFFEROBJECT;
    TypeInclude QtCore QSize VALUE_TYPE_QTCORE_QSIZE;
    TypeInclude QtGui QImage VALUE_TYPE_QTGUI_QIMAGE;
    TypeInclude QtOpenGL QOpenGLBuffer VALUE_TYPE_QTOPENGL_QOPENGLBUFFER;
    TypeInclude QtOpenGL QOpenGLDebugMessage VALUE_TYPE_QTOPENGL_QOPENGLDEBUGMESSAGE;
    TypeInclude QtOpenGL QOpenGLFramebufferObjectFormat VALUE_TYPE_QTOPENGL_QOPENGLFRAMEBUFFEROBJECTFORMAT
  ].

Definition value_methods_qtopengl_0_s0 : list signature_row :=
  [
    Sig [] "allocate" [PInt] RVoid [On QOpenGLBuffer];
    Sig [TYPE_QTOPENGL_QOPENGLFRAMEBUFFEROBJECT] "attachment" [] (RMeta
        QOpenGLFramebufferObject_Attachment) [On QOpenGLFramebufferObject; On
        QOpenGLFramebufferObjectFormat];
    Sig [] "bind" [] RBool [On QOpenGLBuffer; On QOpenGLFramebufferObject];
    Sig [TYPE_QTGUI_QOPENGLCONTEXT] "context" [] RObject [On QOpenGLPaintDevice];
    Sig [] "create" [] RBool [On QOpenGLBuffer];
    Sig [] "destroy" [] RVoid [On QOpenGLBuffer];
    Sig [] "dotsPerMeterX" [] RDouble [On QOpenGLPaintDevice];
    Sig [] "dotsPerMeterY" [] RDouble [On QOpenGLPaintDevice];
    Sig [] "ensureActiveTarget" [] RVoid [On QOpenGLPaintDevice];
    Sig [VALUE_TYPE_QTOPENGL_QOPENGLFRAMEBUFFEROBJECTFORMAT] "format" [] (RValue
        QOpenGLFramebufferObjectFormat) [On QOpenGLFramebufferObject]
  ].

Definition value_methods_qtopengl_0_s10 : list signature_row :=
  [
    Sig [] "glEnd" [] RVoid [On QOpenGLFunctions_2_0; On QOpenGLFunctions_2_1];
    Sig [] "glEndConditionalRender" [] RVoid [On QOpenGLFunctions_4_1_Core];
    Sig [] "glEndList" [] RVoid [On QOpenGLFunctions_2_0; On QOpenGLFunctions_2_1];
    Sig [] "glEndTransformFeedback" [] RVoid [On QOpenGLFunctions_4_1_Core];
    Sig [] "glFinish" [] RVoid [On QOpenGLFunctions_2_0; On QOpenGLFunctions_2_1; On
        QOpenGLFunctions_4_1_Core];
    Sig [] "glFlush" [] RVoid [On QOpenGLFunctions_2_0; On QOpenGLFunctions_2_1; On
        QOpenGLFunctions_4_1_Core];
    Sig [] "glInitNames" [] RVoid [On QOpenGLFunctions_2_0; On QOpenGLFunctions_2_1];
    Sig [] "glLoadIdentity" [] RVoid [On QOpenGLFunctions_2_0; On QOpenGLFunctions_2_1]
  ].

Definition value_methods_qtopengl_0_s18 : list signature_row :=
  [
    Sig [] "glPauseTransformFeedback" [] RVoid [On QOpenGLFunctions_4_1_Core];
    Sig [] "glPopAttrib" [] RVoid [On QOpenGLFunctions_2_0; On QOpenGLFunctions_2_1];
    Sig [] "glPopClientAttrib" [] RVoid [On QOpenGLFunctions_2_0; On QOpenGLFunctions_2_1];
    Sig [] "glPopMatrix" [] RVoid [On QOpenGLFunctions_2_0; On QOpenGLFunctions_2_1];
    Sig [] "glPopName" [] RVoid [On QOpenGLFunctions_2_0; On QOpenGLFunctions_2_1];
    Sig [] "glPushMatrix" [] RVoid [On QOpenGLFunctions_2_0; On QOpenGLFunctions_2_1];
    Sig [] "glReleaseShaderCompiler" [] RVoid [On QOpenGLFunctions_4_1_Core];
    Sig [] "glResumeTransformFeedback" [] RVoid [On QOpenGLFunctions_4_1_Core];
    Sig [] "height" [] RDouble [On QOpenGLFramebufferObject]
  ].

Definition value_methods_qtopengl_0_s27 : list signature_row :=
  [
    Sig [] "initializeOpenGLFunctions" [] RBool [On QOpenGLFunctions_2_0; On QOpenGLFunctions_2_1; On
        QOpenGLFunctions_4_1_Core];
    Sig [] "isBound" [] RBool [On QOpenGLFramebufferObject];
    Sig [] "isCreated" [] RBool [On QOpenGLBuffer];
    Sig [] "isValid" [] RBool [On QOpenGLFramebufferObject];
    Sig [] "message" [] RString [On QOpenGLDebugMessage];
    Sig [] "mipmap" [] RBool [On QOpenGLFramebufferObjectFormat];
    Sig [] "paintFlipped" [] RBool [On QOpenGLPaintDevice];
    Sig [] "release" [] RBool [On QOpenGLFramebufferObject];
    Sig [] "release" [] RVoid [On QOpenGLBuffer];
    Sig [] "samples" [] RDouble [On QOpenGLFramebufferObjectFormat]
  ].

Definition value_methods_qtopengl_0_s37 : list signature_row :=
  [
    Sig [TYPE_QTOPENGL_QOPENGLFRAMEBUFFEROBJECT] "setAttachment" [PValue
        QOpenGLFramebufferObject_Attachment] RVoid [On QOpenGLFramebufferObject; On
        QOpenGLFramebufferObjectFormat];
    Sig [] "setDevicePixelRatio" [PNumber cxx_qreal] RVoid [On QOpenGLPaintDevice];
    Sig [] "setDotsPerMeterX" [PNumber cxx_qreal] RVoid [On QOpenGLPaintDevice];
    Sig [] "setDotsPerMeterY" [PNumber cxx_qreal] RVoid [On QOpenGLPaintDevice];
    Sig [] "setMipmap" [PBool] RVoid [On QOpenGLFramebufferObjectFormat];
    Sig [] "setPaintFlipped" [PBool] RVoid [On QOpenGLPaintDevice];
    Sig [] "setSamples" [PInt] RVoid [On QOpenGLFramebufferObjectFormat];
    Sig [VALUE_TYPE_QTCORE_QSIZE] "setSize" [PValue QSize] RVoid [On QOpenGLPaintDevice];
    Sig [TYPE_QTOPENGL_QOPENGLBUFFER] "setUsagePattern" [PValue QOpenGLBuffer_UsagePattern] RVoid [On
        QOpenGLBuffer]
  ].

Definition value_methods_qtopengl_0_s46 : list signature_row :=
  [
    Sig [TYPE_QTOPENGL_QOPENGLDEBUGMESSAGE] "severity" [] (RMeta QOpenGLDebugMessage_Severity) [On
        QOpenGLDebugMessage];
    Sig [VALUE_TYPE_QTCORE_QSIZE] "size" [] (RValue QSize) [On QOpenGLFramebufferObject; On
        QOpenGLPaintDevice];
    Sig [] "size" [] RDouble [On QOpenGLBuffer];
    Sig [VALUE_TYPE_QTCORE_QSIZE] "sizes" [] (RList (IValue QSize)) [On QOpenGLFramebufferObject];
    Sig [TYPE_QTOPENGL_QOPENGLDEBUGMESSAGE] "source" [] (RMeta QOpenGLDebugMessage_Source) [On
        QOpenGLDebugMessage];
    Sig [VALUE_TYPE_QTOPENGL_QOPENGLBUFFER] "swap" [PValue QOpenGLBuffer] RVoid [On QOpenGLBuffer];
    Sig [VALUE_TYPE_QTOPENGL_QOPENGLDEBUGMESSAGE] "swap" [PValue QOpenGLDebugMessage] RVoid [On
        QOpenGLDebugMessage];
    Sig [] "textures" [] (RList (IMeta cxx_unsigned_int)) [On QOpenGLFramebufferObject];
    Sig [VALUE_TYPE_QTGUI_QIMAGE] "toImage" [PBool] (RValue QImage) [On QOpenGLFramebufferObject]
  ].

Definition value_methods_qtopengl_0_s55 : list signature_row :=
  [
    Sig [VALUE_TYPE_QTGUI_QIMAGE] "toImage" [PBool; PInt] (RValue QImage) [On QOpenGLFramebufferObject];
    Sig [TYPE_QTOPENGL_QOPENGLBUFFER] "type" [] (RMeta QOpenGLBuffer_Type) [On QOpenGLBuffer];
    Sig [TYPE_QTOPENGL_QOPENGLDEBUGMESSAGE] "type" [] (RMeta QOpenGLDebugMessage_Type) [On
        QOpenGLDebugMessage];
    Sig [] "unmap" [] RBool [On QOpenGLBuffer];
    Sig [TYPE_QTOPENGL_QOPENGLBUFFER] "usagePattern" [] (RMeta QOpenGLBuffer_UsagePattern) [On
        QOpenGLBuffer];
    Sig [] "width" [] RDouble [On QOpenGLFramebufferObject]
  ].

Definition value_methods_qtopengl_0_types : list string :=
  [
    QOpenGLBuffer;
    QOpenGLDebugMessage;
    QOpenGLFramebufferObject;
    QOpenGLFramebufferObjectFormat;
    QOpenGLFunctions_2_0;
    QOpenGLFunctions_2_1;
    QOpenGLFunctions_4_1_Core;
    QOpenGLPaintDevice
  ].

Definition value_methods_qtopengl_0 : method_shard :=
  MethodShard QtOpenGL "KRY_QT6_NATIVE_METHODS_QTOPENGL_"
    (value_methods_qtopengl_0_i0)
    (value_methods_qtopengl_0_s0 ++ value_methods_qtopengl_0_s10 ++ value_methods_qtopengl_0_s18 ++
        value_methods_qtopengl_0_s27 ++ value_methods_qtopengl_0_s37 ++ value_methods_qtopengl_0_s46 ++
        value_methods_qtopengl_0_s55)
    value_methods_qtopengl_0_types.

Definition value_methods_qtopengl_1_i0 : list include :=
  [
    ClassInclude QtOpenGL QOpenGLPixelTransferOptions QOpenGLPixelTransferOptions;
    ClassInclude QtOpenGL QOpenGLTexture QOpenGLTexture;
    ClassInclude QtOpenGL QOpenGLTextureBlitter QOpenGLTextureBlitter;
    ClassInclude QtOpenGL QOpenGLVersionProfile QOpenGLVersionProfile;
    TypeInclude QtGui QSurfaceFormat TYPE_QTGUI_QSURFACEFORMAT;
    TypeInclude QtOpenGL QOpenGLTexture TYPE_QTOPENGL_QOPENGLTEXTURE;
    TypeInclude QtGui QColor VALUE_TYPE_QTGUI_QCOLOR;
    TypeInclude QtGui QImage VALUE_TYPE_QTGUI_QIMAGE;
    TypeInclude QtOpenGL QOpenGLPixelTransferOptions VALUE_TYPE_QTOPENGL_QOPENGLPIXELTRANSFEROPTIONS
  ].

Definition value_methods_qtopengl_1_s0 : list signature_row :=
  [
    Sig [] "alignment" [] RDouble [On QOpenGLPixelTransferOptions];
    Sig [] "allocateStorage" [] RVoid [On QOpenGLTexture];
    Sig [TYPE_QTOPENGL_QOPENGLTEXTURE] "allocateStorage" [PValue QOpenGLTexture_PixelFormat; PValue
        QOpenGLTexture_PixelType] RVoid [On QOpenGLTexture];
    Sig [] "bind" [] RVoid [On QOpenGLTexture];
    Sig [TYPE_QTOPENGL_QOPENGLTEXTURE] "bind" [PUInt; PValue QOpenGLTexture_TextureUnitReset] RVoid [On
        QOpenGLTexture];
    Sig [VALUE_TYPE_QTGUI_QCOLOR] "borderColor" [] (RValue QColor) [On QOpenGLTexture];
    Sig [TYPE_QTOPENGL_QOPENGLTEXTURE] "comparisonFunction" [] (RMeta QOpenGLTexture_ComparisonFunction)
        [On QOpenGLTexture];
    Sig [TYPE_QTOPENGL_QOPENGLTEXTURE] "comparisonMode" [] (RMeta QOpenGLTexture_ComparisonMode) [On
        QOpenGLTexture];
    Sig [] "create" [] RBool [On QOpenGLTexture; On QOpenGLTextureBlitter];
    Sig [] "depth" [] RDouble [On QOpenGLTexture]
  ].

Definition value_methods_qtopengl_1_s10 : list signature_row :=
  [
    Sig [TYPE_QTOPENGL_QOPENGLTEXTURE] "depthStencilMode" [] (RMeta QOpenGLTexture_DepthStencilMode) [On
        QOpenGLTexture];
    Sig [] "destroy" [] RVoid [On QOpenGLTexture; On QOpenGLTextureBlitter];
    Sig [] "faces" [] RDouble [On QOpenGLTexture];
    Sig [TYPE_QTOPENGL_QOPENGLTEXTURE] "format" [] (RMeta QOpenGLTexture_TextureFormat) [On QOpenGLTexture];
    Sig [] "generateMipMaps" [] RVoid [On QOpenGLTexture];
    Sig [] "generateMipMaps" [PInt; PBool] RVoid [On QOpenGLTexture];
    Sig [] "hasProfiles" [] RBool [On QOpenGLVersionProfile];
    Sig [] "height" [] RDouble [On QOpenGLTexture];
    Sig [] "imageHeight" [] RDouble [On QOpenGLPixelTransferOptions];
    Sig [] "isAutoMipMapGenerationEnabled" [] RBool [On QOpenGLTexture];
    Sig [] "isBound" [] RBool [On QOpenGLTexture]
  ].

Definition value_methods_qtopengl_1_s21 : list signature_row :=
  [
    Sig [] "isBound" [PUInt] RBool [On QOpenGLTexture];
    Sig [] "isCreated" [] RBool [On QOpenGLTexture; On QOpenGLTextureBlitter];
    Sig [] "isFixedSamplePositions" [] RBool [On QOpenGLTexture];
    Sig [] "isLeastSignificantBitFirst" [] RBool [On QOpenGLPixelTransferOptions];
    Sig [] "isLegacyVersion" [] RBool [On QOpenGLVersionProfile];
    Sig [] "isStorageAllocated" [] RBool [On QOpenGLTexture];
    Sig [] "isSwapBytesEnabled" [] RBool [On QOpenGLPixelTransferOptions];
    Sig [] "isTextureView" [] RBool [On QOpenGLTexture];
    Sig [] "isValid" [] RBool [On QOpenGLVersionProfile];
    Sig [] "layers" [] RDouble [On QOpenGLTexture];
    Sig [] "levelofDetailBias" [] RDouble [On QOpenGLTexture]
  ].

Definition value_methods_qtopengl_1_s32 : list signature_row :=
  [
    Sig [TYPE_QTOPENGL_QOPENGLTEXTURE] "magnificationFilter" [] (RMeta QOpenGLTexture_Filter) [On
        QOpenGLTexture];
    Sig [] "maximumAnisotropy" [] RDouble [On QOpenGLTexture];
    Sig [] "maximumLevelOfDetail" [] RDouble [On QOpenGLTexture];
    Sig [] "maximumMipLevels" [] RDouble [On QOpenGLTexture];
    Sig [TYPE_QTOPENGL_QOPENGLTEXTURE] "minificationFilter" [] (RMeta QOpenGLTexture_Filter) [On
        QOpenGLTexture];
    Sig [] "minimumLevelOfDetail" [] RDouble [On QOpenGLTexture];
    Sig [] "mipBaseLevel" [] RDouble [On QOpenGLTexture];
    Sig [] "mipLevels" [] RDouble [On QOpenGLTexture];
    Sig [] "mipMaxLevel" [] RDouble [On QOpenGLTexture];
    Sig [TYPE_QTGUI_QSURFACEFORMAT] "profile" [] (RMeta QSurfaceFormat_OpenGLContextProfile) [On
        QOpenGLVersionProfile];
    Sig [] "release" [] RVoid [On QOpenGLTexture; On QOpenGLTextureBlitter]
  ].

Definition value_methods_qtopengl_1_s43 : list signature_row :=
  [
    Sig [TYPE_QTOPENGL_QOPENGLTEXTURE] "release" [PUInt; PValue QOpenGLTexture_TextureUnitReset] RVoid [On
        QOpenGLTexture];
    Sig [] "rowLength" [] RDouble [On QOpenGLPixelTransferOptions];
    Sig [] "samples" [] RDouble [On QOpenGLTexture];
    Sig [] "setAlignment" [PInt] RVoid [On QOpenGLPixelTransferOptions];
    Sig [] "setAutoMipMapGenerationEnabled" [PBool] RVoid [On QOpenGLTexture];
    Sig [VALUE_TYPE_QTGUI_QCOLOR] "setBorderColor" [PValue QColor] RVoid [On QOpenGLTexture];
    Sig [TYPE_QTOPENGL_QOPENGLTEXTURE] "setComparisonFunction" [PValue QOpenGLTexture_ComparisonFunction]
        RVoid [On QOpenGLTexture];
    Sig [TYPE_QTOPENGL_QOPENGLTEXTURE] "setComparisonMode" [PValue QOpenGLTexture_ComparisonMode] RVoid [On
        QOpenGLTexture];
    Sig [TYPE_QTOPENGL_QOPENGLTEXTURE; VALUE_TYPE_QTGUI_QIMAGE] "setData" [PValue QImage; PValue
        QOpenGLTexture_MipMapGeneration] RVoid [On QOpenGLTexture]
  ].

Definition value_methods_qtopengl_1_s52 : list signature_row :=
  [
    Sig [TYPE_QTOPENGL_QOPENGLTEXTURE] "setDepthStencilMode" [PValue QOpenGLTexture_DepthStencilMode] RVoid
        [On QOpenGLTexture];
    Sig [] "setFixedSamplePositions" [PBool] RVoid [On QOpenGLTexture];
    Sig [TYPE_QTOPENGL_QOPENGLTEXTURE] "setFormat" [PValue QOpenGLTexture_TextureFormat] RVoid [On
        QOpenGLTexture];
    Sig [] "setImageHeight" [PInt] RVoid [On QOpenGLPixelTransferOptions];
    Sig [] "setLayers" [PInt] RVoid [On QOpenGLTexture];
    Sig [] "setLeastSignificantByteFirst" [PBool] RVoid [On QOpenGLPixelTransferOptions];
    Sig [] "setLevelOfDetailRange" [PNumber cxx_float; PNumber cxx_float] RVoid [On QOpenGLTexture];
    Sig [] "setLevelofDetailBias" [PNumber cxx_float] RVoid [On QOpenGLTexture];
    Sig [TYPE_QTOPENGL_QOPENGLTEXTURE] "setMagnificationFilter" [PValue QOpenGLTexture_Filter] RVoid [On
        QOpenGLTexture]
  ].

Definition value_methods_qtopengl_1_s61 : list signature_row :=
  [
    Sig [] "setMaximumAnisotropy" [PNumber cxx_float] RVoid [On QOpenGLTexture];
    Sig [] "setMaximumLevelOfDetail" [PNumber cxx_float] RVoid [On QOpenGLTexture];
    Sig [TYPE_QTOPENGL_QOPENGLTEXTURE] "setMinMagFilters" [PValue QOpenGLTexture_Filter; PValue
        QOpenGLTexture_Filter] RVoid [On QOpenGLTexture];
    Sig [TYPE_QTOPENGL_QOPENGLTEXTURE] "setMinificationFilter" [PValue QOpenGLTexture_Filter] RVoid [On
        QOpenGLTexture];
    Sig [] "setMinimumLevelOfDetail" [PNumber cxx_float] RVoid [On QOpenGLTexture];
    Sig [] "setMipBaseLevel" [PInt] RVoid [On QOpenGLTexture];
    Sig [] "setMipLevelRange" [PInt; PInt] RVoid [On QOpenGLTexture];
    Sig [] "setMipLevels" [PInt] RVoid [On QOpenGLTexture];
    Sig [] "setMipMaxLevel" [PInt] RVoid [On QOpenGLTexture]
  ].

Definition value_methods_qtopengl_1_s70 : list signature_row :=
  [
    Sig [] "setOpacity" [PNumber cxx_float] RVoid [On QOpenGLTextureBlitter];
    Sig [TYPE_QTGUI_QSURFACEFORMAT] "setProfile" [PValue QSurfaceFormat_OpenGLContextProfile] RVoid [On
        QOpenGLVersionProfile];
    Sig [] "setRedBlueSwizzle" [PBool] RVoid [On QOpenGLTextureBlitter];
    Sig [] "setRowLength" [PInt] RVoid [On QOpenGLPixelTransferOptions];
    Sig [] "setSamples" [PInt] RVoid [On QOpenGLTexture];
    Sig [] "setSize" [PInt; PInt; PInt] RVoid [On QOpenGLTexture];
    Sig [] "setSkipImages" [PInt] RVoid [On QOpenGLPixelTransferOptions];
    Sig [] "setSkipPixels" [PInt] RVoid [On QOpenGLPixelTransferOptions];
    Sig [] "setSkipRows" [PInt] RVoid [On QOpenGLPixelTransferOptions]
  ].

Definition value_methods_qtopengl_1_s79 : list signature_row :=
  [
    Sig [] "setSwapBytesEnabled" [PBool] RVoid [On QOpenGLPixelTransferOptions];
    Sig [TYPE_QTOPENGL_QOPENGLTEXTURE] "setSwizzleMask" [PValue QOpenGLTexture_SwizzleComponent; PValue
        QOpenGLTexture_SwizzleValue] RVoid [On QOpenGLTexture];
    Sig [TYPE_QTOPENGL_QOPENGLTEXTURE] "setSwizzleMask" [PValue QOpenGLTexture_SwizzleValue; PValue
        QOpenGLTexture_SwizzleValue; PValue QOpenGLTexture_SwizzleValue; PValue
        QOpenGLTexture_SwizzleValue] RVoid [On QOpenGLTexture];
    Sig [] "setVersion" [PInt; PInt] RVoid [On QOpenGLVersionProfile];
    Sig [TYPE_QTOPENGL_QOPENGLTEXTURE] "setWrapMode" [PValue QOpenGLTexture_CoordinateDirection; PValue
        QOpenGLTexture_WrapMode] RVoid [On QOpenGLTexture];
    Sig [TYPE_QTOPENGL_QOPENGLTEXTURE] "setWrapMode" [PValue QOpenGLTexture_WrapMode] RVoid [On
        QOpenGLTexture];
    Sig [] "skipImages" [] RDouble [On QOpenGLPixelTransferOptions];
    Sig [] "skipPixels" [] RDouble [On QOpenGLPixelTransferOptions];
    Sig [] "skipRows" [] RDouble [On QOpenGLPixelTransferOptions]
  ].

Definition value_methods_qtopengl_1_s88 : list signature_row :=
  [
    Sig [] "supportsExternalOESTarget" [] RBool [On QOpenGLTextureBlitter];
    Sig [] "supportsRectangleTarget" [] RBool [On QOpenGLTextureBlitter];
    Sig [VALUE_TYPE_QTOPENGL_QOPENGLPIXELTRANSFEROPTIONS] "swap" [PValue QOpenGLPixelTransferOptions] RVoid
        [On QOpenGLPixelTransferOptions];
    Sig [TYPE_QTOPENGL_QOPENGLTEXTURE] "swizzleMask" [PValue QOpenGLTexture_SwizzleComponent] (RMeta
        QOpenGLTexture_SwizzleValue) [On QOpenGLTexture];
    Sig [TYPE_QTOPENGL_QOPENGLTEXTURE] "target" [] (RMeta QOpenGLTexture_Target) [On QOpenGLTexture];
    Sig [] "width" [] RDouble [On QOpenGLTexture];
    Sig [TYPE_QTOPENGL_QOPENGLTEXTURE] "wrapMode" [PValue QOpenGLTexture_CoordinateDirection] (RMeta
        QOpenGLTexture_WrapMode) [On QOpenGLTexture]
  ].

Definition value_methods_qtopengl_1_types : list string :=
  [
    QOpenGLPixelTransferOptions;
    QOpenGLTexture;
    QOpenGLTextureBlitter;
    QOpenGLVersionProfile
  ].

Definition value_methods_qtopengl_1 : method_shard :=
  MethodShard QtOpenGL "KRY_QT6_NATIVE_METHODS_QTOPENGL_"
    (value_methods_qtopengl_1_i0)
    (value_methods_qtopengl_1_s0 ++ value_methods_qtopengl_1_s10 ++ value_methods_qtopengl_1_s21 ++
        value_methods_qtopengl_1_s32 ++ value_methods_qtopengl_1_s43 ++ value_methods_qtopengl_1_s52 ++
        value_methods_qtopengl_1_s61 ++ value_methods_qtopengl_1_s70 ++ value_methods_qtopengl_1_s79 ++
        value_methods_qtopengl_1_s88)
    value_methods_qtopengl_1_types.

Definition value_methods_qtpdf_0_i0 : list include :=
  [
    ClassInclude QtPdf QPdfDocumentRenderOptions QPdfDocumentRenderOptions;
    ClassInclude QtPdf QPdfLink QPdfLink;
    ClassInclude QtPdf QPdfSelection QPdfSelection;
    TypeInclude QtGui QClipboard TYPE_QTGUI_QCLIPBOARD;
    TypeInclude QtPdf QPdfDocumentRenderOptions TYPE_QTPDF_QPDFDOCUMENTRENDEROPTIONS;
    TypeInclude QtCore QPointF VALUE_TYPE_QTCORE_QPOINTF;
    TypeInclude QtCore QRect VALUE_TYPE_QTCORE_QRECT;
    TypeInclude QtCore QRectF VALUE_TYPE_QTCORE_QRECTF;
    TypeInclude QtCore QSize VALUE_TYPE_QTCORE_QSIZE;
    TypeInclude QtCore QUrl VALUE_TYPE_QTCORE_QURL;
    TypeInclude QtGui QPolygonF VALUE_TYPE_QTGUI_QPOLYGONF;
    TypeInclude QtPdf QPdfLink VALUE_TYPE_QTPDF_QPDFLINK;
    TypeInclude QtPdf QPdfSelection VALUE_TYPE_QTPDF_QPDFSELECTION
  ].

Definition value_methods_qtpdf_0_s0 : list signature_row :=
  [
    Sig [VALUE_TYPE_QTCORE_QRECTF] "boundingRectangle" [] (RValue QRectF) [On QPdfSelection];
    Sig [VALUE_TYPE_QTGUI_QPOLYGONF] "bounds" [] (RList (IValue QPolygonF)) [On QPdfSelection];
    Sig [] "contextAfter" [] RString [On QPdfLink];
    Sig [] "contextBefore" [] RString [On QPdfLink];
    Sig [TYPE_QTGUI_QCLIPBOARD] "copyToClipboard" [PValue QClipboard_Mode] RVoid [On QPdfLink; On
        QPdfSelection];
    Sig [] "endIndex" [] RDouble [On QPdfSelection];
    Sig [] "isValid" [] RBool [On QPdfLink; On QPdfSelection];
    Sig [VALUE_TYPE_QTCORE_QPOINTF] "location" [] (RValue QPointF) [On QPdfLink];
    Sig [] "page" [] RDouble [On QPdfLink]
  ].

Definition value_methods_qtpdf_0_s9 : list signature_row :=
  [
    Sig [VALUE_TYPE_QTCORE_QRECTF] "rectangles" [] (RList (IValue QRectF)) [On QPdfLink];
    Sig [TYPE_QTPDF_QPDFDOCUMENTRENDEROPTIONS] "rotation" [] (RMeta QPdfDocumentRenderOptions_Rotation) [On
        QPdfDocumentRenderOptions];
    Sig [VALUE_TYPE_QTCORE_QRECT] "scaledClipRect" [] (RValue QRect) [On QPdfDocumentRenderOptions];
    Sig [VALUE_TYPE_QTCORE_QSIZE] "scaledSize" [] (RValue QSize) [On QPdfDocumentRenderOptions];
    Sig [TYPE_QTPDF_QPDFDOCUMENTRENDEROPTIONS] "setRotation" [PValue QPdfDocumentRenderOptions_Rotation]
        RVoid [On QPdfDocumentRenderOptions];
    Sig [VALUE_TYPE_QTCORE_QRECT] "setScaledClipRect" [PValue QRect] RVoid [On QPdfDocumentRenderOptions];
    Sig [VALUE_TYPE_QTCORE_QSIZE] "setScaledSize" [PValue QSize] RVoid [On QPdfDocumentRenderOptions];
    Sig [] "startIndex" [] RDouble [On QPdfSelection];
    Sig [VALUE_TYPE_QTPDF_QPDFLINK] "swap" [PValue QPdfLink] RVoid [On QPdfLink]
  ].

Definition value_methods_qtpdf_0_s18 : list signature_row :=
  [
    Sig [VALUE_TYPE_QTPDF_QPDFSELECTION] "swap" [PValue QPdfSelection] RVoid [On QPdfSelection];
    Sig [] "text" [] RString [On QPdfSelection];
    Sig [] "toString" [] RString [On QPdfLink];
    Sig [VALUE_TYPE_QTCORE_QURL] "url" [] (RValue QUrl) [On QPdfLink];
    Sig [] "zoom" [] RDouble [On QPdfLink]
  ].

Definition value_methods_qtpdf_0_types : list string :=
  [
    QPdfDocumentRenderOptions;
    QPdfLink;
    QPdfSelection
  ].

Definition value_methods_qtpdf_0 : method_shard :=
  MethodShard QtPdf "KRY_QT6_NATIVE_METHODS_QTPDF_"
    (value_methods_qtpdf_0_i0)
    (value_methods_qtpdf_0_s0 ++ value_methods_qtpdf_0_s9 ++ value_methods_qtpdf_0_s18)
    value_methods_qtpdf_0_types.

Definition value_methods_qtprintsupport_0_i0 : list include :=
  [
    ClassInclude QtPrintSupport QPrinter QPrinter;
    ClassInclude QtPrintSupport QPrinterInfo QPrinterInfo;
    TypeInclude QtGui QPagedPaintDevice TYPE_QTGUI_QPAGEDPAINTDEVICE;
    TypeInclude QtPrintSupport QPrinter TYPE_QTPRINTSUPPORT_QPRINTER;
    TypeInclude QtCore QRectF VALUE_TYPE_QTCORE_QRECTF;
    TypeInclude QtGui QPageSize VALUE_TYPE_QTGUI_QPAGESIZE
  ].

Definition value_methods_qtprintsupport_0_s0 : list signature_row :=
  [
    Sig [] "abort" [] RBool [On QPrinter];
    Sig [] "collateCopies" [] RBool [On QPrinter];
    Sig [TYPE_QTPRINTSUPPORT_QPRINTER] "colorMode" [] (RMeta QPrinter_ColorMode) [On QPrinter];
    Sig [] "copyCount" [] RDouble [On QPrinter];
    Sig [] "creator" [] RString [On QPrinter];
    Sig [TYPE_QTPRINTSUPPORT_QPRINTER] "defaultColorMode" [] (RMeta QPrinter_ColorMode) [On QPrinterInfo];
    Sig [TYPE_QTPRINTSUPPORT_QPRINTER] "defaultDuplexMode" [] (RMeta QPrinter_DuplexMode) [On QPrinterInfo];
    Sig [VALUE_TYPE_QTGUI_QPAGESIZE] "defaultPageSize" [] (RValue QPageSize) [On QPrinterInfo];
    Sig [] "description" [] RString [On QPrinterInfo];
    Sig [] "docName" [] RString [On QPrinter];
    Sig [TYPE_QTPRINTSUPPORT_QPRINTER] "duplex" [] (RMeta QPrinter_DuplexMode) [On QPrinter]
  ].

Definition value_methods_qtprintsupport_0_s11 : list signature_row :=
  [
    Sig [] "fontEmbeddingEnabled" [] RBool [On QPrinter];
    Sig [] "fromPage" [] RDouble [On QPrinter];
    Sig [] "fullPage" [] RBool [On QPrinter];
    Sig [] "isDefault" [] RBool [On QPrinterInfo];
    Sig [] "isNull" [] RBool [On QPrinterInfo];
    Sig [] "isRemote" [] RBool [On QPrinterInfo];
    Sig [] "isValid" [] RBool [On QPrinter];
    Sig [] "location" [] RString [On QPrinterInfo];
    Sig [] "makeAndModel" [] RString [On QPrinterInfo];
    Sig [VALUE_TYPE_QTGUI_QPAGESIZE] "maximumPhysicalPageSize" [] (RValue QPageSize) [On QPrinterInfo];
    Sig [VALUE_TYPE_QTGUI_QPAGESIZE] "minimumPhysicalPageSize" [] (RValue QPageSize) [On QPrinterInfo]
  ].

Definition value_methods_qtprintsupport_0_s22 : list signature_row :=
  [
    Sig [] "newPage" [] RBool [On QPrinter];
    Sig [] "outputFileName" [] RString [On QPrinter];
    Sig [TYPE_QTPRINTSUPPORT_QPRINTER] "outputFormat" [] (RMeta QPrinter_OutputFormat) [On QPrinter];
    Sig [TYPE_QTPRINTSUPPORT_QPRINTER] "pageOrder" [] (RMeta QPrinter_PageOrder) [On QPrinter];
    Sig [TYPE_QTPRINTSUPPORT_QPRINTER; VALUE_TYPE_QTCORE_QRECTF] "pageRect" [PValue QPrinter_Unit] (RValue
        QRectF) [On QPrinter];
    Sig [TYPE_QTPRINTSUPPORT_QPRINTER; VALUE_TYPE_QTCORE_QRECTF] "paperRect" [PValue QPrinter_Unit] (RValue
        QRectF) [On QPrinter];
    Sig [TYPE_QTPRINTSUPPORT_QPRINTER] "paperSource" [] (RMeta QPrinter_PaperSource) [On QPrinter];
    Sig [TYPE_QTGUI_QPAGEDPAINTDEVICE] "pdfVersion" [] (RMeta QPagedPaintDevice_PdfVersion) [On QPrinter];
    Sig [] "printProgram" [] RString [On QPrinter];
    Sig [TYPE_QTPRINTSUPPORT_QPRINTER] "printRange" [] (RMeta QPrinter_PrintRange) [On QPrinter]
  ].

Definition value_methods_qtprintsupport_0_s32 : list signature_row :=
  [
    Sig [] "printerName" [] RString [On QPrinter; On QPrinterInfo];
    Sig [TYPE_QTPRINTSUPPORT_QPRINTER] "printerState" [] (RMeta QPrinter_PrinterState) [On QPrinter];
    Sig [] "resolution" [] RDouble [On QPrinter];
    Sig [] "setCollateCopies" [PBool] RVoid [On QPrinter];
    Sig [TYPE_QTPRINTSUPPORT_QPRINTER] "setColorMode" [PValue QPrinter_ColorMode] RVoid [On QPrinter];
    Sig [] "setCopyCount" [PInt] RVoid [On QPrinter];
    Sig [] "setCreator" [PString true] RVoid [On QPrinter];
    Sig [] "setDocName" [PString true] RVoid [On QPrinter];
    Sig [TYPE_QTPRINTSUPPORT_QPRINTER] "setDuplex" [PValue QPrinter_DuplexMode] RVoid [On QPrinter];
    Sig [] "setFontEmbeddingEnabled" [PBool] RVoid [On QPrinter]
  ].

Definition value_methods_qtprintsupport_0_s42 : list signature_row :=
  [
    Sig [] "setFromTo" [PInt; PInt] RVoid [On QPrinter];
    Sig [] "setFullPage" [PBool] RVoid [On QPrinter];
    Sig [] "setOutputFileName" [PString true] RVoid [On QPrinter];
    Sig [TYPE_QTPRINTSUPPORT_QPRINTER] "setOutputFormat" [PValue QPrinter_OutputFormat] RVoid [On QPrinter];
    Sig [TYPE_QTPRINTSUPPORT_QPRINTER] "setPageOrder" [PValue QPrinter_PageOrder] RVoid [On QPrinter];
    Sig [TYPE_QTPRINTSUPPORT_QPRINTER] "setPaperSource" [PValue QPrinter_PaperSource] RVoid [On QPrinter];
    Sig [TYPE_QTGUI_QPAGEDPAINTDEVICE] "setPdfVersion" [PValue QPagedPaintDevice_PdfVersion] RVoid [On
        QPrinter];
    Sig [] "setPrintProgram" [PString true] RVoid [On QPrinter];
    Sig [TYPE_QTPRINTSUPPORT_QPRINTER] "setPrintRange" [PValue QPrinter_PrintRange] RVoid [On QPrinter]
  ].

Definition value_methods_qtprintsupport_0_s51 : list signature_row :=
  [
    Sig [] "setPrinterName" [PString true] RVoid [On QPrinter];
    Sig [] "setResolution" [PInt] RVoid [On QPrinter];
    Sig [TYPE_QTPRINTSUPPORT_QPRINTER] "state" [] (RMeta QPrinter_PrinterState) [On QPrinterInfo];
    Sig [TYPE_QTPRINTSUPPORT_QPRINTER] "supportedColorModes" [] (RList (IMeta QPrinter_ColorMode)) [On
        QPrinterInfo];
    Sig [TYPE_QTPRINTSUPPORT_QPRINTER] "supportedDuplexModes" [] (RList (IMeta QPrinter_DuplexMode)) [On
        QPrinterInfo];
    Sig [VALUE_TYPE_QTGUI_QPAGESIZE] "supportedPageSizes" [] (RList (IValue QPageSize)) [On QPrinterInfo];
    Sig [] "supportedResolutions" [] (RList (IMeta cxx_int)) [On QPrinter; On QPrinterInfo];
    Sig [] "supportsCustomPageSizes" [] RBool [On QPrinterInfo];
    Sig [] "supportsMultipleCopies" [] RBool [On QPrinter]
  ].

Definition value_methods_qtprintsupport_0_s60 : list signature_row :=
  [
    Sig [] "toPage" [] RDouble [On QPrinter]
  ].

Definition value_methods_qtprintsupport_0_types : list string :=
  [
    QPrinter;
    QPrinterInfo
  ].

Definition value_methods_qtprintsupport_0 : method_shard :=
  MethodShard QtPrintSupport "KRY_QT6_NATIVE_METHODS_QTPRINTSUPPORT_"
    (value_methods_qtprintsupport_0_i0)
    (value_methods_qtprintsupport_0_s0 ++ value_methods_qtprintsupport_0_s11 ++
        value_methods_qtprintsupport_0_s22 ++ value_methods_qtprintsupport_0_s32 ++
        value_methods_qtprintsupport_0_s42 ++ value_methods_qtprintsupport_0_s51 ++
        value_methods_qtprintsupport_0_s60)
    value_methods_qtprintsupport_0_types.

Definition value_methods_qtqml_0_i0 : list include :=
  [
    ClassInclude QtQml QJSManagedValue QJSManagedValue;
    ClassInclude QtQml QJSPrimitiveValue QJSPrimitiveValue;
    ClassInclude QtQml QJSValue QJSValue;
    ClassInclude QtQml QJSValueIterator QJSValueIterator;
    ClassInclude QtQml QQmlError QQmlError;
    ClassInclude QtQml QQmlIncubationController QQmlIncubationController;
    ClassInclude QtQml QQmlIncubator QQmlIncubator;
    ClassInclude QtQml QQmlListReference QQmlListReference;
    TypeInclude QtCore QObject TYPE_QTCORE_QOBJECT;
    TypeInclude QtQml QJSEngine TYPE_QTQML_QJSENGINE;
    TypeInclude QtQml QQmlEngine TYPE_QTQML_QQMLENGINE;
    TypeInclude QtQml QJSManagedValue TYPE_QTQML_QJSMANAGEDVALUE;
    TypeInclude QtQml QJSPrimitiveValue TYPE_QTQML_QJSPRIMITIVEVALUE;
    TypeInclude QtQml QJSValue TYPE_QTQML_QJSVALUE;
    TypeInclude QtQml QQmlIncubator TYPE_QTQML_QQMLINCUBATOR;
    TypeInclude QtCore QDateTime VALUE_TYPE_QTCORE_QDATETIME;
    TypeInclude QtCore QMetaType VALUE_TYPE_QTCORE_QMETATYPE;
    TypeInclude QtCore QRegularExpression VALUE_TYPE_QTCORE_QREGULAREXPRESSION;
    TypeInclude QtCore QUrl VALUE_TYPE_QTCORE_QURL;
    TypeInclude QtQml QJSManagedValue VALUE_TYPE_QTQML_QJSMANAGEDVALUE;
    TypeInclude QtQml QJSPrimitiveValue VALUE_TYPE_QTQML_QJSPRIMITIVEVALUE;
    TypeInclude QtQml QJSValue VALUE_TYPE_QTQML_QJSVALUE;
    TypeInclude QtQml QQmlError VALUE_TYPE_QTQML_QQMLERROR
  ].

Definition value_methods_qtqml_0_s0 : list signature_row :=
  [
    Sig [TYPE_QTCORE_QOBJECT] "append" [PObject QObject false] RBool [On QQmlListReference];
    Sig [TYPE_QTCORE_QOBJECT] "at" [PMeta cxx_qsizetype] RObject [On QQmlListReference];
    Sig [] "canAppend" [] RBool [On QQmlListReference];
    Sig [] "canAt" [] RBool [On QQmlListReference];
    Sig [] "canClear" [] RBool [On QQmlListReference];
    Sig [] "canCount" [] RBool [On QQmlListReference];
    Sig [] "canRemoveLast" [] RBool [On QQmlListReference];
    Sig [] "canReplace" [] RBool [On QQmlListReference];
    Sig [] "clear" [] RBool [On QQmlListReference];
    Sig [] "clear" [] RVoid [On QQmlIncubator];
    Sig [] "column" [] RDouble [On QQmlError]
  ].

Definition value_methods_qtqml_0_s11 : list signature_row :=
  [
    Sig [] "count" [] (RMeta cxx_qsizetype) [On QQmlListReference];
    Sig [] "deleteProperty" [PString true] RBool [On QJSManagedValue; On QJSValue];
    Sig [] "description" [] RString [On QQmlError];
    Sig [TYPE_QTQML_QJSENGINE] "engine" [] RObject [On QJSManagedValue];
    Sig [TYPE_QTQML_QQMLENGINE] "engine" [] RObject [On QQmlIncubationController];
    Sig [VALUE_TYPE_QTQML_QJSMANAGEDVALUE] "equals" [PValue QJSManagedValue] RBool [On QJSManagedValue];
    Sig [VALUE_TYPE_QTQML_QJSPRIMITIVEVALUE] "equals" [PValue QJSPrimitiveValue] RBool [On
        QJSPrimitiveValue];
    Sig [VALUE_TYPE_QTQML_QJSVALUE] "equals" [PValue QJSValue] RBool [On QJSValue];
    Sig [TYPE_QTQML_QJSVALUE] "errorType" [] (RMeta QJSValue_ErrorType) [On QJSValue];
    Sig [VALUE_TYPE_QTQML_QQMLERROR] "errors" [] (RList (IValue QQmlError)) [On QQmlIncubator]
  ].

Definition value_methods_qtqml_0_s21 : list signature_row :=
  [
    Sig [] "forceCompletion" [] RVoid [On QQmlIncubator];
    Sig [] "hasNext" [] RBool [On QJSValueIterator];
    Sig [] "hasOwnProperty" [PString true] RBool [On QJSManagedValue; On QJSValue];
    Sig [] "hasProperty" [PString true] RBool [On QJSManagedValue; On QJSValue];
    Sig [] "incubateFor" [PInt] RVoid [On QQmlIncubationController];
    Sig [] "incubatingObjectCount" [] RDouble [On QQmlIncubationController];
    Sig [TYPE_QTQML_QQMLINCUBATOR] "incubationMode" [] (RMeta QQmlIncubator_IncubationMode) [On
        QQmlIncubator];
    Sig [] "isArray" [] RBool [On QJSManagedValue; On QJSValue];
    Sig [] "isBool" [] RBool [On QJSValue];
    Sig [] "isBoolean" [] RBool [On QJSManagedValue]
  ].

Definition value_methods_qtqml_0_s31 : list signature_row :=
  [
    Sig [] "isCallable" [] RBool [On QJSValue];
    Sig [] "isDate" [] RBool [On QJSManagedValue; On QJSValue];
    Sig [] "isError" [] RBool [On QJSManagedValue; On QJSValue; On QQmlIncubator];
    Sig [] "isFunction" [] RBool [On QJSManagedValue];
    Sig [] "isInteger" [] RBool [On QJSManagedValue];
    Sig [] "isLoading" [] RBool [On QQmlIncubator];
    Sig [] "isManipulable" [] RBool [On QQmlListReference];
    Sig [] "isNull" [] RBool [On QJSManagedValue; On QJSValue; On QQmlIncubator];
    Sig [] "isNumber" [] RBool [On QJSManagedValue; On QJSValue]
  ].

Definition value_methods_qtqml_0_s40 : list signature_row :=
  [
    Sig [] "isObject" [] RBool [On QJSManagedValue; On QJSValue];
    Sig [] "isQMetaObject" [] RBool [On QJSManagedValue];
    Sig [] "isQObject" [] RBool [On QJSManagedValue; On QJSValue];
    Sig [] "isReadable" [] RBool [On QQmlListReference];
    Sig [] "isReady" [] RBool [On QQmlIncubator];
    Sig [] "isRegExp" [] RBool [On QJSValue];
    Sig [] "isRegularExpression" [] RBool [On QJSManagedValue];
    Sig [] "isString" [] RBool [On QJSManagedValue; On QJSValue];
    Sig [] "isSymbol" [] RBool [On QJSManagedValue];
    Sig [] "isUndefined" [] RBool [On QJSManagedValue; On QJSValue]
  ].

Definition value_methods_qtqml_0_s50 : list signature_row :=
  [
    Sig [] "isUrl" [] RBool [On QJSManagedValue; On QJSValue];
    Sig [] "isValid" [] RBool [On QQmlError; On QQmlListReference];
    Sig [] "isVariant" [] RBool [On QJSManagedValue; On QJSValue];
    Sig [] "line" [] RDouble [On QQmlError];
    Sig [VALUE_TYPE_QTCORE_QMETATYPE] "metaType" [] (RValue QMetaType) [On QJSPrimitiveValue];
    Sig [] "name" [] RString [On QJSValueIterator];
    Sig [] "next" [] RBool [On QJSValueIterator];
    Sig [TYPE_QTCORE_QOBJECT] "object" [] RObject [On QQmlError; On QQmlIncubator; On QQmlListReference];
    Sig [VALUE_TYPE_QTQML_QJSVALUE] "property" [PString true] (RValue QJSValue) [On QJSManagedValue; On
        QJSValue]
  ].

Definition value_methods_qtqml_0_s59 : list signature_row :=
  [
    Sig [VALUE_TYPE_QTQML_QJSMANAGEDVALUE] "prototype" [] (RValue QJSManagedValue) [On QJSManagedValue];
    Sig [VALUE_TYPE_QTQML_QJSVALUE] "prototype" [] (RValue QJSValue) [On QJSValue];
    Sig [] "removeLast" [] RBool [On QQmlListReference];
    Sig [TYPE_QTCORE_QOBJECT] "replace" [PMeta cxx_qsizetype; PObject QObject false] RBool [On
        QQmlListReference];
    Sig [] "setColumn" [PInt] RVoid [On QQmlError];
    Sig [] "setDescription" [PString true] RVoid [On QQmlError];
    Sig [] "setLine" [PInt] RVoid [On QQmlError];
    Sig [TYPE_QTCORE_QOBJECT] "setObject" [PObject QObject false] RVoid [On QQmlError];
    Sig [VALUE_TYPE_QTQML_QJSVALUE] "setProperty" [PString true; PValue QJSValue] RVoid [On
        QJSManagedValue; On QJSValue]
  ].

Definition value_methods_qtqml_0_s68 : list signature_row :=
  [
    Sig [VALUE_TYPE_QTQML_QJSMANAGEDVALUE] "setPrototype" [PValue QJSManagedValue] RVoid [On
        QJSManagedValue];
    Sig [VALUE_TYPE_QTQML_QJSVALUE] "setPrototype" [PValue QJSValue] RVoid [On QJSValue];
    Sig [VALUE_TYPE_QTCORE_QURL] "setUrl" [PValue QUrl] RVoid [On QQmlError];
    Sig [TYPE_QTQML_QQMLINCUBATOR] "status" [] (RMeta QQmlIncubator_Status) [On QQmlIncubator];
    Sig [VALUE_TYPE_QTQML_QJSMANAGEDVALUE] "strictlyEquals" [PValue QJSManagedValue] RBool [On
        QJSManagedValue];
    Sig [VALUE_TYPE_QTQML_QJSPRIMITIVEVALUE] "strictlyEquals" [PValue QJSPrimitiveValue] RBool [On
        QJSPrimitiveValue];
    Sig [VALUE_TYPE_QTQML_QJSVALUE] "strictlyEquals" [PValue QJSValue] RBool [On QJSValue];
    Sig [VALUE_TYPE_QTQML_QQMLERROR] "swap" [PValue QQmlError] RVoid [On QQmlError];
    Sig [] "toBool" [] RBool [On QJSValue]
  ].

Definition value_methods_qtqml_0_s77 : list signature_row :=
  [
    Sig [] "toBoolean" [] RBool [On QJSManagedValue; On QJSPrimitiveValue];
    Sig [VALUE_TYPE_QTCORE_QDATETIME] "toDateTime" [] (RValue QDateTime) [On QJSManagedValue; On QJSValue];
    Sig [] "toDouble" [] RDouble [On QJSPrimitiveValue];
    Sig [] "toInteger" [] RDouble [On QJSManagedValue; On QJSPrimitiveValue];
    Sig [VALUE_TYPE_QTQML_QJSVALUE] "toJSValue" [] (RValue QJSValue) [On QJSManagedValue];
    Sig [] "toNumber" [] RDouble [On QJSManagedValue; On QJSValue];
    Sig [VALUE_TYPE_QTQML_QJSPRIMITIVEVALUE] "toPrimitive" [] (RValue QJSPrimitiveValue) [On
        QJSManagedValue; On QJSValue];
    Sig [TYPE_QTCORE_QOBJECT] "toQObject" [] RObject [On QJSManagedValue; On QJSValue]
  ].

Definition value_methods_qtqml_0_s85 : list signature_row :=
  [
    Sig [VALUE_TYPE_QTCORE_QREGULAREXPRESSION] "toRegularExpression" [] (RValue QRegularExpression) [On
        QJSManagedValue];
    Sig [] "toString" [] RString [On QJSManagedValue; On QJSPrimitiveValue; On QJSValue; On QQmlError];
    Sig [VALUE_TYPE_QTCORE_QURL] "toUrl" [] (RValue QUrl) [On QJSManagedValue];
    Sig [] "toVariant" [] RVariant [On QJSManagedValue; On QJSValue];
    Sig [TYPE_QTQML_QJSVALUE] "toVariant" [PValue QJSValue_ObjectConversionBehavior] RVariant [On QJSValue];
    Sig [TYPE_QTQML_QJSMANAGEDVALUE] "type" [] (RMeta QJSManagedValue_Type) [On QJSManagedValue];
    Sig [TYPE_QTQML_QJSPRIMITIVEVALUE] "type" [] (RMeta QJSPrimitiveValue_Type) [On QJSPrimitiveValue];
    Sig [VALUE_TYPE_QTCORE_QURL] "url" [] (RValue QUrl) [On QQmlError];
    Sig [VALUE_TYPE_QTQML_QJSVALUE] "value" [] (RValue QJSValue) [On QJSValueIterator]
  ].

Definition value_methods_qtqml_0_types : list string :=
  [
    QJSManagedValue;
    QJSPrimitiveValue;
    QJSValue;
    QJSValueIterator;
    QQmlError;
    QQmlIncubationController;
    QQmlIncubator;
    QQmlListReference
  ].

Definition value_methods_qtqml_0 : method_shard :=
  MethodShard QtQml "KRY_QT6_NATIVE_METHODS_QTQML_"
    (value_methods_qtqml_0_i0)
    (value_methods_qtqml_0_s0 ++ value_methods_qtqml_0_s11 ++ value_methods_qtqml_0_s21 ++
        value_methods_qtqml_0_s31 ++ value_methods_qtqml_0_s40 ++ value_methods_qtqml_0_s50 ++
        value_methods_qtqml_0_s59 ++ value_methods_qtqml_0_s68 ++ value_methods_qtqml_0_s77 ++
        value_methods_qtqml_0_s85)
    value_methods_qtqml_0_types.

Definition value_methods_qtqml_1_i0 : list include :=
  [
    ClassInclude QtQml QQmlProperty QQmlProperty;
    ClassInclude QtQml QQmlScriptString QQmlScriptString;
    TypeInclude QtCore QObject TYPE_QTCORE_QOBJECT;
    TypeInclude QtQml QQmlProperty TYPE_QTQML_QQMLPROPERTY;
    TypeInclude QtCore QMetaMethod VALUE_TYPE_QTCORE_QMETAMETHOD;
    TypeInclude QtCore QMetaProperty VALUE_TYPE_QTCORE_QMETAPROPERTY;
    TypeInclude QtCore QMetaType VALUE_TYPE_QTCORE_QMETATYPE;
    TypeInclude QtQml QQmlProperty VALUE_TYPE_QTQML_QQMLPROPERTY
  ].

Definition value_methods_qtqml_1_s0 : list signature_row :=
  [
    Sig [TYPE_QTCORE_QOBJECT] "connectNotifySignal" [PObject QObject false; PInt] RBool [On QQmlProperty];
    Sig [] "hasNotifySignal" [] RBool [On QQmlProperty];
    Sig [] "index" [] RDouble [On QQmlProperty];
    Sig [] "isBindable" [] RBool [On QQmlProperty];
    Sig [] "isDesignable" [] RBool [On QQmlProperty];
    Sig [] "isEmpty" [] RBool [On QQmlScriptString];
    Sig [] "isNullLiteral" [] RBool [On QQmlScriptString];
    Sig [] "isProperty" [] RBool [On QQmlProperty];
    Sig [] "isResettable" [] RBool [On QQmlProperty];
    Sig [] "isSignalProperty" [] RBool [On QQmlProperty];
    Sig [] "isUndefinedLiteral" [] RBool [On QQmlScriptString]
  ].

Definition value_methods_qtqml_1_s11 : list signature_row :=
  [
    Sig [] "isValid" [] RBool [On QQmlProperty];
    Sig [] "isWritable" [] RBool [On QQmlProperty];
    Sig [VALUE_TYPE_QTCORE_QMETAMETHOD] "method" [] (RValue QMetaMethod) [On QQmlProperty];
    Sig [] "name" [] RString [On QQmlProperty];
    Sig [] "needsNotifySignal" [] RBool [On QQmlProperty];
    Sig [TYPE_QTCORE_QOBJECT] "object" [] RObject [On QQmlProperty];
    Sig [VALUE_TYPE_QTCORE_QMETAPROPERTY] "property" [] (RValue QMetaProperty) [On QQmlProperty];
    Sig [VALUE_TYPE_QTCORE_QMETATYPE] "propertyMetaType" [] (RValue QMetaType) [On QQmlProperty];
    Sig [] "propertyType" [] RDouble [On QQmlProperty];
    Sig [TYPE_QTQML_QQMLPROPERTY] "propertyTypeCategory" [] (RMeta QQmlProperty_PropertyTypeCategory) [On
        QQmlProperty];
    Sig [] "read" [] RVariant [On QQmlProperty]
  ].

Definition value_methods_qtqml_1_s22 : list signature_row :=
  [
    Sig [] "reset" [] RBool [On QQmlProperty];
    Sig [] "stringLiteral" [] RString [On QQmlScriptString];
    Sig [VALUE_TYPE_QTQML_QQMLPROPERTY] "swap" [PValue QQmlProperty] RVoid [On QQmlProperty];
    Sig [TYPE_QTQML_QQMLPROPERTY] "type" [] (RMeta QQmlProperty_Type) [On QQmlProperty];
    Sig [] "write" [PVariant] RBool [On QQmlProperty]
  ].

Definition value_methods_qtqml_1_types : list string :=
  [
    QQmlProperty;
    QQmlScriptString
  ].

Definition value_methods_qtqml_1 : method_shard :=
  MethodShard QtQml "KRY_QT6_NATIVE_METHODS_QTQML_"
    (value_methods_qtqml_1_i0)
    (value_methods_qtqml_1_s0 ++ value_methods_qtqml_1_s11 ++ value_methods_qtqml_1_s22)
    value_methods_qtqml_1_types.

Definition value_methods_qtquick_0_i0 : list include :=
  [
    ClassInclude QtQuick QQuickGraphicsConfiguration QQuickGraphicsConfiguration;
    ClassInclude QtQuick QQuickGraphicsDevice QQuickGraphicsDevice;
    ClassInclude QtQuick QQuickRenderTarget QQuickRenderTarget;
    ClassInclude QtQuick QSGClipNode QSGClipNode;
    ClassInclude QtQuick QSGFlatColorMaterial QSGFlatColorMaterial;
    ClassInclude QtQuick QSGGeometry QSGGeometry;
    ClassInclude QtQuick QSGImageNode QSGImageNode;
    ClassInclude QtQuick QSGMaterial QSGMaterial;
    TypeInclude QtQuick QSGGeometry TYPE_QTQUICK_QSGGEOMETRY;
    TypeInclude QtQuick QSGMaterial TYPE_QTQUICK_QSGMATERIAL;
    TypeInclude QtCore QRectF VALUE_TYPE_QTCORE_QRECTF;
    TypeInclude QtGui QColor VALUE_TYPE_QTGUI_QCOLOR
  ].

Definition value_methods_qtquick_0_s0 : list signature_row :=
  [
    Sig [] "allocate" [PInt; PInt] RVoid [On QSGGeometry];
    Sig [] "attributeCount" [] RDouble [On QSGGeometry];
    Sig [VALUE_TYPE_QTCORE_QRECTF] "clipRect" [] (RValue QRectF) [On QSGClipNode];
    Sig [VALUE_TYPE_QTGUI_QCOLOR] "color" [] (RValue QColor) [On QSGFlatColorMaterial];
    Sig [] "devicePixelRatio" [] RDouble [On QQuickRenderTarget];
    Sig [] "drawingMode" [] RDouble [On QSGGeometry];
    Sig [TYPE_QTQUICK_QSGMATERIAL] "flags" [] (RMeta QSGMaterial_Flags) [On QSGMaterial];
    Sig [] "indexCount" [] RDouble [On QSGGeometry];
    Sig [TYPE_QTQUICK_QSGGEOMETRY] "indexDataPattern" [] (RMeta QSGGeometry_DataPattern) [On QSGGeometry];
    Sig [] "indexType" [] RDouble [On QSGGeometry];
    Sig [] "isAutomaticPipelineCacheEnabled" [] RBool [On QQuickGraphicsConfiguration]
  ].

Definition value_methods_qtquick_0_s11 : list signature_row :=
  [
    Sig [] "isDebugLayerEnabled" [] RBool [On QQuickGraphicsConfiguration];
    Sig [] "isDebugMarkersEnabled" [] RBool [On QQuickGraphicsConfiguration];
    Sig [] "isDepthBufferEnabledFor2D" [] RBool [On QQuickGraphicsConfiguration];
    Sig [] "isNull" [] RBool [On QQuickGraphicsDevice; On QQuickRenderTarget];
    Sig [] "isRectangular" [] RBool [On QSGClipNode];
    Sig [] "lineWidth" [] RDouble [On QSGGeometry];
    Sig [] "markIndexDataDirty" [] RVoid [On QSGGeometry];
    Sig [] "markVertexDataDirty" [] RVoid [On QSGGeometry];
    Sig [] "mirrorVertically" [] RBool [On QQuickRenderTarget];
    Sig [] "pipelineCacheLoadFile" [] RString [On QQuickGraphicsConfiguration];
    Sig [] "pipelineCacheSaveFile" [] RString [On QQuickGraphicsConfiguration]
  ].

Definition value_methods_qtquick_0_s22 : list signature_row :=
  [
    Sig [] "prefersSoftwareDevice" [] RBool [On QQuickGraphicsConfiguration];
    Sig [] "setAutomaticPipelineCache" [PBool] RVoid [On QQuickGraphicsConfiguration];
    Sig [VALUE_TYPE_QTCORE_QRECTF] "setClipRect" [PValue QRectF] RVoid [On QSGClipNode];
    Sig [VALUE_TYPE_QTGUI_QCOLOR] "setColor" [PValue QColor] RVoid [On QSGFlatColorMaterial];
    Sig [] "setDebugLayer" [PBool] RVoid [On QQuickGraphicsConfiguration];
    Sig [] "setDebugMarkers" [PBool] RVoid [On QQuickGraphicsConfiguration];
    Sig [] "setDepthBufferFor2D" [PBool] RVoid [On QQuickGraphicsConfiguration];
    Sig [] "setDevicePixelRatio" [PNumber cxx_qreal] RVoid [On QQuickRenderTarget];
    Sig [] "setDrawingMode" [PUInt] RVoid [On QSGGeometry];
    Sig [TYPE_QTQUICK_QSGMATERIAL] "setFlag" [PValue QSGMaterial_Flags; PBool] RVoid [On QSGMaterial]
  ].

Definition value_methods_qtquick_0_s32 : list signature_row :=
  [
    Sig [] "setIndexCount" [PInt] RVoid [On QSGGeometry];
    Sig [TYPE_QTQUICK_QSGGEOMETRY] "setIndexDataPattern" [PValue QSGGeometry_DataPattern] RVoid [On
        QSGGeometry];
    Sig [] "setIsRectangular" [PBool] RVoid [On QSGClipNode];
    Sig [] "setLineWidth" [PNumber cxx_float] RVoid [On QSGGeometry];
    Sig [] "setMirrorVertically" [PBool] RVoid [On QQuickRenderTarget];
    Sig [] "setPipelineCacheLoadFile" [PString true] RVoid [On QQuickGraphicsConfiguration];
    Sig [] "setPipelineCacheSaveFile" [PString true] RVoid [On QQuickGraphicsConfiguration];
    Sig [] "setPreferSoftwareDevice" [PBool] RVoid [On QQuickGraphicsConfiguration];
    Sig [] "setRect" [PNumber cxx_qreal; PNumber cxx_qreal; PNumber cxx_qreal; PNumber cxx_qreal] RVoid [On
        QSGImageNode]
  ].

Definition value_methods_qtquick_0_s41 : list signature_row :=
  [
    Sig [] "setSourceRect" [PNumber cxx_qreal; PNumber cxx_qreal; PNumber cxx_qreal; PNumber cxx_qreal]
        RVoid [On QSGImageNode];
    Sig [] "setTimestamps" [PBool] RVoid [On QQuickGraphicsConfiguration];
    Sig [] "setVertexCount" [PInt] RVoid [On QSGGeometry];
    Sig [TYPE_QTQUICK_QSGGEOMETRY] "setVertexDataPattern" [PValue QSGGeometry_DataPattern] RVoid [On
        QSGGeometry];
    Sig [] "sizeOfIndex" [] RDouble [On QSGGeometry];
    Sig [] "sizeOfVertex" [] RDouble [On QSGGeometry];
    Sig [] "timestampsEnabled" [] RBool [On QQuickGraphicsConfiguration];
    Sig [] "vertexCount" [] RDouble [On QSGGeometry];
    Sig [TYPE_QTQUICK_QSGGEOMETRY] "vertexDataPattern" [] (RMeta QSGGeometry_DataPattern) [On QSGGeometry];
    Sig [] "viewCount" [] RDouble [On QSGMaterial]
  ].

Definition value_methods_qtquick_0_types : list string :=
  [
    QQuickGraphicsConfiguration;
    QQuickGraphicsDevice;
    QQuickRenderTarget;
    QSGClipNode;
    QSGFlatColorMaterial;
    QSGGeometry;
    QSGImageNode;
    QSGMaterial
  ].

Definition value_methods_qtquick_0 : method_shard :=
  MethodShard QtQuick "KRY_QT6_NATIVE_METHODS_QTQUICK_"
    (value_methods_qtquick_0_i0)
    (value_methods_qtquick_0_s0 ++ value_methods_qtquick_0_s11 ++ value_methods_qtquick_0_s22 ++
        value_methods_qtquick_0_s32 ++ value_methods_qtquick_0_s41)
    value_methods_qtquick_0_types.

Definition value_methods_qtquick_1_i0 : list include :=
  [
    ClassInclude QtQuick QSGMaterialShader QSGMaterialShader;
    ClassInclude QtQuick QSGNode QSGNode;
    ClassInclude QtQuick QSGOpacityNode QSGOpacityNode;
    ClassInclude QtQuick QSGOpaqueTextureMaterial QSGOpaqueTextureMaterial;
    ClassInclude QtQuick QSGRectangleNode QSGRectangleNode;
    ClassInclude QtQuick QSGRenderNode QSGRenderNode;
    ClassInclude QtQuick QSGSimpleRectNode QSGSimpleRectNode;
    ClassInclude QtQuick QSGSimpleTextureNode QSGSimpleTextureNode;
    TypeInclude QtQuick QSGTexture TYPE_QTQUICK_QSGTEXTURE;
    TypeInclude QtQuick QSGMaterialShader TYPE_QTQUICK_QSGMATERIALSHADER;
    TypeInclude QtQuick QSGNode TYPE_QTQUICK_QSGNODE;
    TypeInclude QtQuick QSGTexture TYPE_QTQUICK_QSGTEXTURE;
    TypeInclude QtCore QRectF VALUE_TYPE_QTCORE_QRECTF;
    TypeInclude QtGui QColor VALUE_TYPE_QTGUI_QCOLOR
  ].

Definition value_methods_qtquick_1_s0 : list signature_row :=
  [
    Sig [TYPE_QTQUICK_QSGTEXTURE] "anisotropyLevel" [] (RMeta QSGTexture_AnisotropyLevel) [On
        QSGOpaqueTextureMaterial];
    Sig [] "childCount" [] RDouble [On QSGNode];
    Sig [VALUE_TYPE_QTGUI_QCOLOR] "color" [] (RValue QColor) [On QSGSimpleRectNode];
    Sig [] "combinedImageSamplerCount" [PInt] RDouble [On QSGMaterialShader];
    Sig [TYPE_QTQUICK_QSGTEXTURE] "filtering" [] (RMeta QSGTexture_Filtering) [On QSGOpaqueTextureMaterial;
        On QSGSimpleTextureNode];
    Sig [TYPE_QTQUICK_QSGMATERIALSHADER] "flags" [] (RMeta QSGMaterialShader_Flags) [On QSGMaterialShader];
    Sig [TYPE_QTQUICK_QSGNODE] "flags" [] (RMeta QSGNode_Flags) [On QSGNode];
    Sig [TYPE_QTQUICK_QSGTEXTURE] "horizontalWrapMode" [] (RMeta QSGTexture_WrapMode) [On
        QSGOpaqueTextureMaterial];
    Sig [] "inheritedOpacity" [] RDouble [On QSGRenderNode];
    Sig [] "isSubtreeBlocked" [] RBool [On QSGNode]
  ].

Definition value_methods_qtquick_1_s10 : list signature_row :=
  [
    Sig [TYPE_QTQUICK_QSGTEXTURE] "mipmapFiltering" [] (RMeta QSGTexture_Filtering) [On
        QSGOpaqueTextureMaterial];
    Sig [] "opacity" [] RDouble [On QSGOpacityNode];
    Sig [] "ownsTexture" [] RBool [On QSGSimpleTextureNode];
    Sig [] "prepare" [] RVoid [On QSGRenderNode];
    Sig [] "preprocess" [] RVoid [On QSGNode];
    Sig [VALUE_TYPE_QTCORE_QRECTF] "rect" [] (RValue QRectF) [On QSGRenderNode; On QSGSimpleRectNode; On
        QSGSimpleTextureNode];
    Sig [] "releaseResources" [] RVoid [On QSGRenderNode];
    Sig [] "removeAllChildNodes" [] RVoid [On QSGNode];
    Sig [TYPE_QTQUICK_QSGTEXTURE] "setAnisotropyLevel" [PValue QSGTexture_AnisotropyLevel] RVoid [On
        QSGOpaqueTextureMaterial];
    Sig [VALUE_TYPE_QTGUI_QCOLOR] "setColor" [PValue QColor] RVoid [On QSGSimpleRectNode]
  ].

Definition value_methods_qtquick_1_s20 : list signature_row :=
  [
    Sig [TYPE_QTQUICK_QSGTEXTURE] "setFiltering" [PValue QSGTexture_Filtering] RVoid [On
        QSGOpaqueTextureMaterial; On QSGSimpleTextureNode];
    Sig [TYPE_QTQUICK_QSGMATERIALSHADER] "setFlag" [PValue QSGMaterialShader_Flags; PBool] RVoid [On
        QSGMaterialShader];
    Sig [TYPE_QTQUICK_QSGMATERIALSHADER] "setFlags" [PValue QSGMaterialShader_Flags] RVoid [On
        QSGMaterialShader];
    Sig [TYPE_QTQUICK_QSGNODE] "setFlags" [PValue QSGNode_Flags; PBool] RVoid [On QSGNode];
    Sig [TYPE_QTQUICK_QSGTEXTURE] "setHorizontalWrapMode" [PValue QSGTexture_WrapMode] RVoid [On
        QSGOpaqueTextureMaterial];
    Sig [TYPE_QTQUICK_QSGTEXTURE] "setMipmapFiltering" [PValue QSGTexture_Filtering] RVoid [On
        QSGOpaqueTextureMaterial];
    Sig [] "setOpacity" [PNumber cxx_qreal] RVoid [On QSGOpacityNode];
    Sig [] "setOwnsTexture" [PBool] RVoid [On QSGSimpleTextureNode]
  ].

Definition value_methods_qtquick_1_s28 : list signature_row :=
  [
    Sig [VALUE_TYPE_QTCORE_QRECTF] "setRect" [PValue QRectF] RVoid [On QSGSimpleRectNode; On
        QSGSimpleTextureNode];
    Sig [] "setRect" [PNumber cxx_qreal; PNumber cxx_qreal; PNumber cxx_qreal; PNumber cxx_qreal] RVoid [On
        QSGRectangleNode; On QSGSimpleRectNode; On QSGSimpleTextureNode];
    Sig [VALUE_TYPE_QTCORE_QRECTF] "setSourceRect" [PValue QRectF] RVoid [On QSGSimpleTextureNode];
    Sig [] "setSourceRect" [PNumber cxx_qreal; PNumber cxx_qreal; PNumber cxx_qreal; PNumber cxx_qreal]
        RVoid [On QSGSimpleTextureNode];
    Sig [TYPE_QTQUICK_QSGTEXTURE] "setTexture" [PObject QSGTexture false] RVoid [On
        QSGOpaqueTextureMaterial; On QSGSimpleTextureNode];
    Sig [TYPE_QTQUICK_QSGTEXTURE] "setVerticalWrapMode" [PValue QSGTexture_WrapMode] RVoid [On
        QSGOpaqueTextureMaterial];
    Sig [VALUE_TYPE_QTCORE_QRECTF] "sourceRect" [] (RValue QRectF) [On QSGSimpleTextureNode]
  ].

Definition value_methods_qtquick_1_s35 : list signature_row :=
  [
    Sig [TYPE_QTQUICK_QSGTEXTURE] "texture" [] RObject [On QSGOpaqueTextureMaterial; On
        QSGSimpleTextureNode];
    Sig [TYPE_QTQUICK_QSGNODE] "type" [] (RMeta QSGNode_NodeType) [On QSGNode];
    Sig [TYPE_QTQUICK_QSGTEXTURE] "verticalWrapMode" [] (RMeta QSGTexture_WrapMode) [On
        QSGOpaqueTextureMaterial]
  ].

Definition value_methods_qtquick_1_types : list string :=
  [
    QSGMaterialShader;
    QSGNode;
    QSGOpacityNode;
    QSGOpaqueTextureMaterial;
    QSGRectangleNode;
    QSGRenderNode;
    QSGSimpleRectNode;
    QSGSimpleTextureNode
  ].

Definition value_methods_qtquick_1 : method_shard :=
  MethodShard QtQuick "KRY_QT6_NATIVE_METHODS_QTQUICK_"
    (value_methods_qtquick_1_i0)
    (value_methods_qtquick_1_s0 ++ value_methods_qtquick_1_s10 ++ value_methods_qtquick_1_s20 ++
        value_methods_qtquick_1_s28 ++ value_methods_qtquick_1_s35)
    value_methods_qtquick_1_types.

Definition value_methods_qtquick_2_i0 : list include :=
  [
    ClassInclude QtQuick QSGTextNode QSGTextNode;
    ClassInclude QtQuick QSGTransformNode QSGTransformNode;
    TypeInclude QtGui QTextDocument TYPE_QTGUI_QTEXTDOCUMENT;
    TypeInclude QtCore QPointF VALUE_TYPE_QTCORE_QPOINTF;
    TypeInclude QtGui QMatrix4x4 VALUE_TYPE_QTGUI_QMATRIX4X4
  ].

Definition value_methods_qtquick_2_s0 : list signature_row :=
  [
    Sig [TYPE_QTGUI_QTEXTDOCUMENT; VALUE_TYPE_QTCORE_QPOINTF] "addTextDocument" [PValue QPointF; PObject
        QTextDocument false; PInt; PInt] RVoid [On QSGTextNode];
    Sig [VALUE_TYPE_QTGUI_QMATRIX4X4] "matrix" [] (RValue QMatrix4x4) [On QSGTransformNode];
    Sig [VALUE_TYPE_QTGUI_QMATRIX4X4] "setMatrix" [PValue QMatrix4x4] RVoid [On QSGTransformNode]
  ].

Definition value_methods_qtquick_2_types : list string :=
  [
    QSGTextNode;
    QSGTransformNode
  ].

Definition value_methods_qtquick_2 : method_shard :=
  MethodShard QtQuick "KRY_QT6_NATIVE_METHODS_QTQUICK_"
    (value_methods_qtquick_2_i0)
    (value_methods_qtquick_2_s0)
    value_methods_qtquick_2_types.

Definition value_methods_qtsql_0_i0 : list include :=
  [
    ClassInclude QtSql QSqlDatabase QSqlDatabase;
    ClassInclude QtSql QSqlError QSqlError;
    ClassInclude QtSql QSqlField QSqlField;
    ClassInclude QtSql QSqlIndex QSqlIndex;
    ClassInclude QtSql QSqlQuery QSqlQuery;
    ClassInclude QtSql QSqlRecord QSqlRecord;
    ClassInclude QtSql QSqlRelation QSqlRelation;
    ClassInclude QtSql QSqlResult QSqlResult;
    TypeInclude QtCore QThread TYPE_QTCORE_QTHREAD;
    TypeInclude QtSql QSqlDriver TYPE_QTSQL_QSQLDRIVER;
    TypeInclude QtSql QSqlError TYPE_QTSQL_QSQLERROR;
    TypeInclude QtSql QSqlField TYPE_QTSQL_QSQLFIELD;
    TypeInclude QtSql QSqlQuery TYPE_QTSQL_QSQLQUERY;
    TypeInclude QtCore QMetaType VALUE_TYPE_QTCORE_QMETATYPE;
    TypeInclude QtSql QSqlError VALUE_TYPE_QTSQL_QSQLERROR;
    TypeInclude QtSql QSqlField VALUE_TYPE_QTSQL_QSQLFIELD;
    TypeInclude QtSql QSqlIndex VALUE_TYPE_QTSQL_QSQLINDEX;
    TypeInclude QtSql QSqlQuery VALUE_TYPE_QTSQL_QSQLQUERY;
    TypeInclude QtSql QSqlRecord VALUE_TYPE_QTSQL_QSQLRECORD;
    TypeInclude QtSql QSqlRelation VALUE_TYPE_QTSQL_QSQLRELATION
  ].

Definition value_methods_qtsql_0_s0 : list signature_row :=
  [
    Sig [VALUE_TYPE_QTSQL_QSQLFIELD] "append" [PValue QSqlField] RVoid [On QSqlIndex; On QSqlRecord];
    Sig [VALUE_TYPE_QTSQL_QSQLFIELD] "append" [PValue QSqlField; PBool] RVoid [On QSqlIndex];
    Sig [] "at" [] RDouble [On QSqlQuery];
    Sig [] "boundValue" [PString true] RVariant [On QSqlQuery];
    Sig [] "boundValue" [PInt] RVariant [On QSqlQuery];
    Sig [] "boundValueName" [PInt] RString [On QSqlQuery];
    Sig [] "boundValueNames" [] (RList (IMeta QString)) [On QSqlQuery];
    Sig [] "clear" [] RVoid [On QSqlField; On QSqlQuery; On QSqlRecord];
    Sig [] "clearValues" [] RVoid [On QSqlRecord]
  ].

Definition value_methods_qtsql_0_s9 : list signature_row :=
  [
    Sig [] "close" [] RVoid [On QSqlDatabase];
    Sig [] "commit" [] RBool [On QSqlDatabase];
    Sig [] "connectOptions" [] RString [On QSqlDatabase];
    Sig [] "connectionName" [] RString [On QSqlDatabase];
    Sig [] "count" [] RDouble [On QSqlRecord];
    Sig [] "cursorName" [] RString [On QSqlIndex];
    Sig [] "databaseName" [] RString [On QSqlDatabase];
    Sig [] "databaseText" [] RString [On QSqlError];
    Sig [] "defaultValue" [] RVariant [On QSqlField];
    Sig [] "displayColumn" [] RString [On QSqlRelation];
    Sig [TYPE_QTSQL_QSQLDRIVER] "driver" [] RObject [On QSqlDatabase; On QSqlQuery]
  ].

Definition value_methods_qtsql_0_s20 : list signature_row :=
  [
    Sig [] "driverName" [] RString [On QSqlDatabase];
    Sig [] "driverText" [] RString [On QSqlError];
    Sig [] "exec" [] RBool [On QSqlQuery];
    Sig [VALUE_TYPE_QTSQL_QSQLQUERY] "exec" [PString true] (RValue QSqlQuery) [On QSqlDatabase];
    Sig [] "exec" [PString true] RBool [On QSqlQuery];
    Sig [TYPE_QTSQL_QSQLQUERY] "execBatch" [PValue QSqlQuery_BatchExecutionMode] RBool [On QSqlQuery];
    Sig [] "executedQuery" [] RString [On QSqlQuery];
    Sig [VALUE_TYPE_QTSQL_QSQLFIELD] "field" [PInt] (RValue QSqlField) [On QSqlRecord];
    Sig [] "fieldName" [PInt] RString [On QSqlRecord];
    Sig [] "finish" [] RVoid [On QSqlQuery]
  ].

Definition value_methods_qtsql_0_s30 : list signature_row :=
  [
    Sig [] "first" [] RBool [On QSqlQuery];
    Sig [] "handle" [] RVariant [On QSqlResult];
    Sig [] "hostName" [] RString [On QSqlDatabase];
    Sig [] "indexColumn" [] RString [On QSqlRelation];
    Sig [VALUE_TYPE_QTSQL_QSQLFIELD] "insert" [PInt; PValue QSqlField] RVoid [On QSqlRecord];
    Sig [] "isActive" [] RBool [On QSqlQuery];
    Sig [] "isAutoValue" [] RBool [On QSqlField];
    Sig [] "isDescending" [PInt] RBool [On QSqlIndex];
    Sig [] "isEmpty" [] RBool [On QSqlRecord];
    Sig [] "isForwardOnly" [] RBool [On QSqlQuery];
    Sig [] "isGenerated" [] RBool [On QSqlField]
  ].

Definition value_methods_qtsql_0_s41 : list signature_row :=
  [
    Sig [] "isGenerated" [PInt] RBool [On QSqlRecord];
    Sig [] "isNull" [] RBool [On QSqlField];
    Sig [] "isNull" [PInt] RBool [On QSqlQuery; On QSqlRecord];
    Sig [] "isOpen" [] RBool [On QSqlDatabase];
    Sig [] "isOpenError" [] RBool [On QSqlDatabase];
    Sig [] "isPositionalBindingEnabled" [] RBool [On QSqlQuery];
    Sig [] "isReadOnly" [] RBool [On QSqlField];
    Sig [] "isSelect" [] RBool [On QSqlQuery];
    Sig [] "isValid" [] RBool [On QSqlDatabase; On QSqlError; On QSqlField; On QSqlQuery; On QSqlRelation]
  ].

Definition value_methods_qtsql_0_s50 : list signature_row :=
  [
    Sig [VALUE_TYPE_QTSQL_QSQLRECORD] "keyValues" [PValue QSqlRecord] (RValue QSqlRecord) [On QSqlRecord];
    Sig [] "last" [] RBool [On QSqlQuery];
    Sig [VALUE_TYPE_QTSQL_QSQLERROR] "lastError" [] (RValue QSqlError) [On QSqlDatabase; On QSqlQuery];
    Sig [] "lastInsertId" [] RVariant [On QSqlQuery];
    Sig [] "lastQuery" [] RString [On QSqlQuery];
    Sig [] "length" [] RDouble [On QSqlField];
    Sig [VALUE_TYPE_QTCORE_QMETATYPE] "metaType" [] (RValue QMetaType) [On QSqlField];
    Sig [TYPE_QTCORE_QTHREAD] "moveToThread" [PObject QThread false] RBool [On QSqlDatabase];
    Sig [] "name" [] RString [On QSqlField; On QSqlIndex];
    Sig [] "nativeErrorCode" [] RString [On QSqlError]
  ].

Definition value_methods_qtsql_0_s60 : list signature_row :=
  [
    Sig [] "next" [] RBool [On QSqlQuery];
    Sig [] "nextResult" [] RBool [On QSqlQuery];
    Sig [] "numRowsAffected" [] RDouble [On QSqlQuery];
    Sig [] "open" [] RBool [On QSqlDatabase];
    Sig [] "open" [PString true; PString true] RBool [On QSqlDatabase];
    Sig [] "password" [] RString [On QSqlDatabase];
    Sig [] "port" [] RDouble [On QSqlDatabase];
    Sig [] "precision" [] RDouble [On QSqlField];
    Sig [] "prepare" [PString true] RBool [On QSqlQuery];
    Sig [] "previous" [] RBool [On QSqlQuery];
    Sig [VALUE_TYPE_QTSQL_QSQLINDEX] "primaryIndex" [PString true] (RValue QSqlIndex) [On QSqlDatabase]
  ].

Definition value_methods_qtsql_0_s71 : list signature_row :=
  [
    Sig [VALUE_TYPE_QTSQL_QSQLRECORD] "record" [] (RValue QSqlRecord) [On QSqlQuery];
    Sig [VALUE_TYPE_QTSQL_QSQLRECORD] "record" [PString true] (RValue QSqlRecord) [On QSqlDatabase];
    Sig [] "remove" [PInt] RVoid [On QSqlRecord];
    Sig [VALUE_TYPE_QTSQL_QSQLFIELD] "replace" [PInt; PValue QSqlField] RVoid [On QSqlRecord];
    Sig [TYPE_QTSQL_QSQLFIELD] "requiredStatus" [] (RMeta QSqlField_RequiredStatus) [On QSqlField];
    Sig [] "rollback" [] RBool [On QSqlDatabase];
    Sig [] "seek" [PInt; PBool] RBool [On QSqlQuery];
    Sig [] "setAutoValue" [PBool] RVoid [On QSqlField];
    Sig [] "setConnectOptions" [PString true] RVoid [On QSqlDatabase];
    Sig [] "setCursorName" [PString true] RVoid [On QSqlIndex]
  ].

Definition value_methods_qtsql_0_s81 : list signature_row :=
  [
    Sig [] "setDatabaseName" [PString true] RVoid [On QSqlDatabase];
    Sig [] "setDefaultValue" [PVariant] RVoid [On QSqlField];
    Sig [] "setDescending" [PInt; PBool] RVoid [On QSqlIndex];
    Sig [] "setForwardOnly" [PBool] RVoid [On QSqlQuery];
    Sig [] "setGenerated" [PBool] RVoid [On QSqlField];
    Sig [] "setGenerated" [PInt; PBool] RVoid [On QSqlRecord];
    Sig [] "setHostName" [PString true] RVoid [On QSqlDatabase];
    Sig [] "setLength" [PInt] RVoid [On QSqlField];
    Sig [VALUE_TYPE_QTCORE_QMETATYPE] "setMetaType" [PValue QMetaType] RVoid [On QSqlField]
  ].

Definition value_methods_qtsql_0_s90 : list signature_row :=
  [
    Sig [] "setName" [PString true] RVoid [On QSqlField; On QSqlIndex];
    Sig [] "setNull" [PInt] RVoid [On QSqlRecord];
    Sig [] "setPassword" [PString true] RVoid [On QSqlDatabase];
    Sig [] "setPort" [PInt] RVoid [On QSqlDatabase];
    Sig [] "setPositionalBindingEnabled" [PBool] RVoid [On QSqlQuery];
    Sig [] "setPrecision" [PInt] RVoid [On QSqlField];
    Sig [] "setReadOnly" [PBool] RVoid [On QSqlField];
    Sig [] "setRequired" [PBool] RVoid [On QSqlField];
    Sig [TYPE_QTSQL_QSQLFIELD] "setRequiredStatus" [PValue QSqlField_RequiredStatus] RVoid [On QSqlField]
  ].

Definition value_methods_qtsql_0_s99 : list signature_row :=
  [
    Sig [] "setSqlType" [PInt] RVoid [On QSqlField];
    Sig [] "setTableName" [PString true] RVoid [On QSqlField];
    Sig [] "setUserName" [PString true] RVoid [On QSqlDatabase];
    Sig [] "setValue" [PVariant] RVoid [On QSqlField];
    Sig [] "setValue" [PInt; PVariant] RVoid [On QSqlRecord];
    Sig [] "size" [] RDouble [On QSqlQuery];
    Sig [VALUE_TYPE_QTSQL_QSQLERROR] "swap" [PValue QSqlError] RVoid [On QSqlError];
    Sig [VALUE_TYPE_QTSQL_QSQLFIELD] "swap" [PValue QSqlField] RVoid [On QSqlField];
    Sig [VALUE_TYPE_QTSQL_QSQLINDEX] "swap" [PValue QSqlIndex] RVoid [On QSqlIndex]
  ].

Definition value_methods_qtsql_0_s108 : list signature_row :=
  [
    Sig [VALUE_TYPE_QTSQL_QSQLQUERY] "swap" [PValue QSqlQuery] RVoid [On QSqlQuery];
    Sig [VALUE_TYPE_QTSQL_QSQLRECORD] "swap" [PValue QSqlRecord] RVoid [On QSqlRecord];
    Sig [VALUE_TYPE_QTSQL_QSQLRELATION] "swap" [PValue QSqlRelation] RVoid [On QSqlRelation];
    Sig [] "tableName" [] RString [On QSqlField; On QSqlRelation];
    Sig [] "text" [] RString [On QSqlError];
    Sig [TYPE_QTCORE_QTHREAD] "thread" [] RObject [On QSqlDatabase];
    Sig [] "transaction" [] RBool [On QSqlDatabase];
    Sig [TYPE_QTSQL_QSQLERROR] "type" [] (RMeta QSqlError_ErrorType) [On QSqlError];
    Sig [] "typeID" [] RDouble [On QSqlField];
    Sig [] "userName" [] RString [On QSqlDatabase]
  ].

Definition value_methods_qtsql_0_s118 : list signature_row :=
  [
    Sig [] "value" [] RVariant [On QSqlField];
    Sig [] "value" [PInt] RVariant [On QSqlQuery; On QSqlRecord]
  ].

Definition value_methods_qtsql_0_types : list string :=
  [
    QSqlDatabase;
    QSqlError;
    QSqlField;
    QSqlIndex;
    QSqlQuery;
    QSqlRecord;
    QSqlRelation;
    QSqlResult
  ].

Definition value_methods_qtsql_0 : method_shard :=
  MethodShard QtSql "KRY_QT6_NATIVE_METHODS_QTSQL_"
    (value_methods_qtsql_0_i0)
    (value_methods_qtsql_0_s0 ++ value_methods_qtsql_0_s9 ++ value_methods_qtsql_0_s20 ++
        value_methods_qtsql_0_s30 ++ value_methods_qtsql_0_s41 ++ value_methods_qtsql_0_s50 ++
        value_methods_qtsql_0_s60 ++ value_methods_qtsql_0_s71 ++ value_methods_qtsql_0_s81 ++
        value_methods_qtsql_0_s90 ++ value_methods_qtsql_0_s99 ++ value_methods_qtsql_0_s108 ++
        value_methods_qtsql_0_s118)
    value_methods_qtsql_0_types.

Definition value_methods_qtsvg_0_i0 : list include :=
  [
    ClassInclude QtSvg QSvgGenerator QSvgGenerator;
    TypeInclude QtCore QIODevice TYPE_QTCORE_QIODEVICE;
    TypeInclude QtSvg QSvgGenerator TYPE_QTSVG_QSVGGENERATOR;
    TypeInclude QtCore QRect VALUE_TYPE_QTCORE_QRECT;
    TypeInclude QtCore QRectF VALUE_TYPE_QTCORE_QRECTF;
    TypeInclude QtCore QSize VALUE_TYPE_QTCORE_QSIZE
  ].

Definition value_methods_qtsvg_0_s0 : list signature_row :=
  [
    Sig [] "description" [] RString [On QSvgGenerator];
    Sig [] "fileName" [] RString [On QSvgGenerator];
    Sig [TYPE_QTCORE_QIODEVICE] "outputDevice" [] RObject [On QSvgGenerator];
    Sig [] "resolution" [] RDouble [On QSvgGenerator];
    Sig [] "setDescription" [PString true] RVoid [On QSvgGenerator];
    Sig [] "setFileName" [PString true] RVoid [On QSvgGenerator];
    Sig [TYPE_QTCORE_QIODEVICE] "setOutputDevice" [PObject QIODevice false] RVoid [On QSvgGenerator];
    Sig [] "setResolution" [PInt] RVoid [On QSvgGenerator];
    Sig [VALUE_TYPE_QTCORE_QSIZE] "setSize" [PValue QSize] RVoid [On QSvgGenerator];
    Sig [] "setTitle" [PString true] RVoid [On QSvgGenerator]
  ].

Definition value_methods_qtsvg_0_s10 : list signature_row :=
  [
    Sig [VALUE_TYPE_QTCORE_QRECT] "setViewBox" [PValue QRect] RVoid [On QSvgGenerator];
    Sig [VALUE_TYPE_QTCORE_QRECTF] "setViewBox" [PValue QRectF] RVoid [On QSvgGenerator];
    Sig [VALUE_TYPE_QTCORE_QSIZE] "size" [] (RValue QSize) [On QSvgGenerator];
    Sig [TYPE_QTSVG_QSVGGENERATOR] "svgVersion" [] (RMeta QSvgGenerator_SvgVersion) [On QSvgGenerator];
    Sig [] "title" [] RString [On QSvgGenerator];
    Sig [VALUE_TYPE_QTCORE_QRECT] "viewBox" [] (RValue QRect) [On QSvgGenerator];
    Sig [VALUE_TYPE_QTCORE_QRECTF] "viewBoxF" [] (RValue QRectF) [On QSvgGenerator]
  ].

Definition value_methods_qtsvg_0_types : list string :=
  [
    QSvgGenerator
  ].

Definition value_methods_qtsvg_0 : method_shard :=
  MethodShard QtSvg "KRY_QT6_NATIVE_METHODS_QTSVG_"
    (value_methods_qtsvg_0_i0)
    (value_methods_qtsvg_0_s0 ++ value_methods_qtsvg_0_s10)
    value_methods_qtsvg_0_types.

Definition value_methods_qttest_0_i0 : list include :=
  [
    ClassInclude QtTest QSignalSpy QSignalSpy;
    TypeInclude QtCore QByteArray VALUE_TYPE_QTCORE_QBYTEARRAY
  ].

Definition value_methods_qttest_0_s0 : list signature_row :=
  [
    Sig [] "isValid" [] RBool [On QSignalSpy];
    Sig [VALUE_TYPE_QTCORE_QBYTEARRAY] "signal" [] (RValue QByteArray) [On QSignalSpy];
    Sig [] "wait" [PInt] RBool [On QSignalSpy]
  ].

Definition value_methods_qttest_0_types : list string :=
  [
    QSignalSpy
  ].

Definition value_methods_qttest_0 : method_shard :=
  MethodShard QtTest "KRY_QT6_NATIVE_METHODS_QTTEST_"
    (value_methods_qttest_0_i0)
    (value_methods_qttest_0_s0)
    value_methods_qttest_0_types.

Definition value_methods_qttexttospeech_0_i0 : list include :=
  [
    ClassInclude QtTextToSpeech QVoice QVoice;
    TypeInclude QtCore QLocale TYPE_QTCORE_QLOCALE;
    TypeInclude QtTextToSpeech QVoice TYPE_QTTEXTTOSPEECH_QVOICE;
    TypeInclude QtCore QLocale VALUE_TYPE_QTCORE_QLOCALE;
    TypeInclude QtTextToSpeech QVoice VALUE_TYPE_QTTEXTTOSPEECH_QVOICE
  ].

Definition value_methods_qttexttospeech_0_s0 : list signature_row :=
  [
    Sig [TYPE_QTTEXTTOSPEECH_QVOICE] "age" [] (RMeta QVoice_Age) [On QVoice];
    Sig [TYPE_QTTEXTTOSPEECH_QVOICE] "gender" [] (RMeta QVoice_Gender) [On QVoice];
    Sig [TYPE_QTCORE_QLOCALE] "language" [] (RMeta QLocale_Language) [On QVoice];
    Sig [VALUE_TYPE_QTCORE_QLOCALE] "locale" [] (RValue QLocale) [On QVoice];
    Sig [] "name" [] RString [On QVoice];
    Sig [VALUE_TYPE_QTTEXTTOSPEECH_QVOICE] "swap" [PValue QVoice] RVoid [On QVoice]
  ].

Definition value_methods_qttexttospeech_0_types : list string :=
  [
    QVoice
  ].

Definition value_methods_qttexttospeech_0 : method_shard :=
  MethodShard QtTextToSpeech "KRY_QT6_NATIVE_METHODS_QTTEXTTOSPEECH_"
    (value_methods_qttexttospeech_0_i0)
    (value_methods_qttexttospeech_0_s0)
    value_methods_qttexttospeech_0_types.

Definition value_methods_qtxml_0_i0 : list include :=
  [
    ClassInclude QtXml QDomAttr QDomAttr;
    ClassInclude QtXml QDomCDATASection QDomCDATASection;
    ClassInclude QtXml QDomCharacterData QDomCharacterData;
    ClassInclude QtXml QDomComment QDomComment;
    ClassInclude QtXml QDomDocument QDomDocument;
    ClassInclude QtXml QDomDocumentFragment QDomDocumentFragment;
    ClassInclude QtXml QDomDocumentType QDomDocumentType;
    ClassInclude QtXml QDomElement QDomElement;
    TypeInclude QtXml QDomNode TYPE_QTXML_QDOMNODE;
    TypeInclude QtCore QByteArray VALUE_TYPE_QTCORE_QBYTEARRAY;
    TypeInclude QtXml QDomAttr VALUE_TYPE_QTXML_QDOMATTR;
    TypeInclude QtXml QDomCDATASection VALUE_TYPE_QTXML_QDOMCDATASECTION;
    TypeInclude QtXml QDomComment VALUE_TYPE_QTXML_QDOMCOMMENT;
    TypeInclude QtXml QDomDocumentFragment VALUE_TYPE_QTXML_QDOMDOCUMENTFRAGMENT;
    TypeInclude QtXml QDomDocumentType VALUE_TYPE_QTXML_QDOMDOCUMENTTYPE;
    TypeInclude QtXml QDomElement VALUE_TYPE_QTXML_QDOMELEMENT;
    TypeInclude QtXml QDomEntityReference VALUE_TYPE_QTXML_QDOMENTITYREFERENCE;
    TypeInclude QtXml QDomImplementation VALUE_TYPE_QTXML_QDOMIMPLEMENTATION;
    TypeInclude QtXml QDomNamedNodeMap VALUE_TYPE_QTXML_QDOMNAMEDNODEMAP;
    TypeInclude QtXml QDomNode VALUE_TYPE_QTXML_QDOMNODE;
    TypeInclude QtXml QDomNodeList VALUE_TYPE_QTXML_QDOMNODELIST;
    TypeInclude QtXml QDomProcessingInstruction VALUE_TYPE_QTXML_QDOMPROCESSINGINSTRUCTION;
    TypeInclude QtXml QDomText VALUE_TYPE_QTXML_QDOMTEXT
  ].

Definition value_methods_qtxml_0_s0 : list signature_row :=
  [
    Sig [] "appendData" [PString true] RVoid [On QDomCharacterData];
    Sig [] "attribute" [PString true; PString true] RString [On QDomElement];
    Sig [] "attributeNS" [PString true; PString true; PString true] RString [On QDomElement];
    Sig [VALUE_TYPE_QTXML_QDOMATTR] "attributeNode" [PString true] (RValue QDomAttr) [On QDomElement];
    Sig [VALUE_TYPE_QTXML_QDOMATTR] "attributeNodeNS" [PString true; PString true] (RValue QDomAttr) [On
        QDomElement];
    Sig [VALUE_TYPE_QTXML_QDOMNAMEDNODEMAP] "attributes" [] (RValue QDomNamedNodeMap) [On QDomElement];
    Sig [VALUE_TYPE_QTXML_QDOMATTR] "createAttribute" [PString true] (RValue QDomAttr) [On QDomDocument];
    Sig [VALUE_TYPE_QTXML_QDOMATTR] "createAttributeNS" [PString true; PString true] (RValue QDomAttr) [On
        QDomDocument];
    Sig [VALUE_TYPE_QTXML_QDOMCDATASECTION] "createCDATASection" [PString true] (RValue QDomCDATASection)
        [On QDomDocument]
  ].

Definition value_methods_qtxml_0_s9 : list signature_row :=
  [
    Sig [VALUE_TYPE_QTXML_QDOMCOMMENT] "createComment" [PString true] (RValue QDomComment) [On
        QDomDocument];
    Sig [VALUE_TYPE_QTXML_QDOMDOCUMENTFRAGMENT] "createDocumentFragment" [] (RValue QDomDocumentFragment)
        [On QDomDocument];
    Sig [VALUE_TYPE_QTXML_QDOMELEMENT] "createElement" [PString true] (RValue QDomElement) [On
        QDomDocument];
    Sig [VALUE_TYPE_QTXML_QDOMELEMENT] "createElementNS" [PString true; PString true] (RValue QDomElement)
        [On QDomDocument];
    Sig [VALUE_TYPE_QTXML_QDOMENTITYREFERENCE] "createEntityReference" [PString true] (RValue
        QDomEntityReference) [On QDomDocument];
    Sig [VALUE_TYPE_QTXML_QDOMPROCESSINGINSTRUCTION] "createProcessingInstruction" [PString true; PString
        true] (RValue QDomProcessingInstruction) [On QDomDocument];
    Sig [VALUE_TYPE_QTXML_QDOMTEXT] "createTextNode" [PString true] (RValue QDomText) [On QDomDocument];
    Sig [] "data" [] RString [On QDomCharacterData];
    Sig [VALUE_TYPE_QTXML_QDOMDOCUMENTTYPE] "doctype" [] (RValue QDomDocumentType) [On QDomDocument]
  ].

Definition value_methods_qtxml_0_s18 : list signature_row :=
  [
    Sig [VALUE_TYPE_QTXML_QDOMELEMENT] "documentElement" [] (RValue QDomElement) [On QDomDocument];
    Sig [VALUE_TYPE_QTXML_QDOMELEMENT] "elementById" [PString true] (RValue QDomElement) [On QDomDocument];
    Sig [VALUE_TYPE_QTXML_QDOMNODELIST] "elementsByTagName" [PString true] (RValue QDomNodeList) [On
        QDomDocument; On QDomElement];
    Sig [VALUE_TYPE_QTXML_QDOMNODELIST] "elementsByTagNameNS" [PString true; PString true] (RValue
        QDomNodeList) [On QDomDocument; On QDomElement];
    Sig [VALUE_TYPE_QTXML_QDOMNAMEDNODEMAP] "entities" [] (RValue QDomNamedNodeMap) [On QDomDocumentType];
    Sig [] "hasAttribute" [PString true] RBool [On QDomElement];
    Sig [] "hasAttributeNS" [PString true; PString true] RBool [On QDomElement];
    Sig [VALUE_TYPE_QTXML_QDOMIMPLEMENTATION] "implementation" [] (RValue QDomImplementation) [On
        QDomDocument]
  ].

Definition value_methods_qtxml_0_s26 : list signature_row :=
  [
    Sig [VALUE_TYPE_QTXML_QDOMNODE] "importNode" [PValue QDomNode; PBool] (RValue QDomNode) [On
        QDomDocument];
    Sig [] "internalSubset" [] RString [On QDomDocumentType];
    Sig [] "length" [] RDouble [On QDomCharacterData];
    Sig [] "name" [] RString [On QDomAttr; On QDomDocumentType];
    Sig [TYPE_QTXML_QDOMNODE] "nodeType" [] (RMeta QDomNode_NodeType) [On QDomAttr; On QDomCDATASection; On
        QDomCharacterData; On QDomComment; On QDomDocument; On QDomDocumentFragment; On QDomDocumentType;
        On QDomElement];
    Sig [VALUE_TYPE_QTXML_QDOMNAMEDNODEMAP] "notations" [] (RValue QDomNamedNodeMap) [On QDomDocumentType];
    Sig [VALUE_TYPE_QTXML_QDOMELEMENT] "ownerElement" [] (RValue QDomElement) [On QDomAttr]
  ].

Definition value_methods_qtxml_0_s33 : list signature_row :=
  [
    Sig [] "publicId" [] RString [On QDomDocumentType];
    Sig [] "removeAttribute" [PString true] RVoid [On QDomElement];
    Sig [] "removeAttributeNS" [PString true; PString true] RVoid [On QDomElement];
    Sig [VALUE_TYPE_QTXML_QDOMATTR] "removeAttributeNode" [PValue QDomAttr] (RValue QDomAttr) [On
        QDomElement];
    Sig [] "setAttribute" [PString true; PString true] RVoid [On QDomElement];
    Sig [] "setAttribute" [PString true; PNumber cxx_double] RVoid [On QDomElement];
    Sig [] "setAttribute" [PString true; PInt] RVoid [On QDomElement; On QDomElement; On QDomElement];
    Sig [] "setAttribute" [PString true; PMeta cxx_qint64] RVoid [On QDomElement; On QDomElement; On
        QDomElement]
  ].

Definition value_methods_qtxml_0_s41 : list signature_row :=
  [
    Sig [] "setAttribute" [PString true; PMeta cxx_quint64] RVoid [On QDomElement; On QDomElement; On
        QDomElement];
    Sig [] "setAttributeNS" [PString true; PString true; PString true] RVoid [On QDomElement];
    Sig [] "setAttributeNS" [PString true; PString true; PNumber cxx_double] RVoid [On QDomElement];
    Sig [VALUE_TYPE_QTXML_QDOMATTR] "setAttributeNode" [PValue QDomAttr] (RValue QDomAttr) [On QDomElement];
    Sig [VALUE_TYPE_QTXML_QDOMATTR] "setAttributeNodeNS" [PValue QDomAttr] (RValue QDomAttr) [On
        QDomElement];
    Sig [] "setData" [PString true] RVoid [On QDomCharacterData];
    Sig [] "setTagName" [PString true] RVoid [On QDomElement];
    Sig [] "setValue" [PString true] RVoid [On QDomAttr]
  ].

Definition value_methods_qtxml_0_s49 : list signature_row :=
  [
    Sig [] "specified" [] RBool [On QDomAttr];
    Sig [] "systemId" [] RString [On QDomDocumentType];
    Sig [] "tagName" [] RString [On QDomElement];
    Sig [] "text" [] RString [On QDomElement];
    Sig [VALUE_TYPE_QTCORE_QBYTEARRAY] "toByteArray" [PInt] (RValue QByteArray) [On QDomDocument];
    Sig [] "toString" [PInt] RString [On QDomDocument];
    Sig [] "value" [] RString [On QDomAttr]
  ].

Definition value_methods_qtxml_0_types : list string :=
  [
    QDomAttr;
    QDomCDATASection;
    QDomCharacterData;
    QDomComment;
    QDomDocument;
    QDomDocumentFragment;
    QDomDocumentType;
    QDomElement
  ].

Definition value_methods_qtxml_0 : method_shard :=
  MethodShard QtXml "KRY_QT6_NATIVE_METHODS_QTXML_"
    (value_methods_qtxml_0_i0)
    (value_methods_qtxml_0_s0 ++ value_methods_qtxml_0_s9 ++ value_methods_qtxml_0_s18 ++
        value_methods_qtxml_0_s26 ++ value_methods_qtxml_0_s33 ++ value_methods_qtxml_0_s41 ++
        value_methods_qtxml_0_s49)
    value_methods_qtxml_0_types.

Definition value_methods_qtxml_1_i0 : list include :=
  [
    ClassInclude QtXml QDomEntity QDomEntity;
    ClassInclude QtXml QDomEntityReference QDomEntityReference;
    ClassInclude QtXml QDomImplementation QDomImplementation;
    ClassInclude QtXml QDomNamedNodeMap QDomNamedNodeMap;
    ClassInclude QtXml QDomNode QDomNode;
    ClassInclude QtXml QDomNodeList QDomNodeList;
    ClassInclude QtXml QDomNotation QDomNotation;
    ClassInclude QtXml QDomProcessingInstruction QDomProcessingInstruction;
    TypeInclude QtXml QDomNode TYPE_QTXML_QDOMNODE;
    TypeInclude QtCore QTextStream VALUE_TYPE_QTCORE_QTEXTSTREAM;
    TypeInclude QtXml QDomAttr VALUE_TYPE_QTXML_QDOMATTR;
    TypeInclude QtXml QDomCDATASection VALUE_TYPE_QTXML_QDOMCDATASECTION;
    TypeInclude QtXml QDomCharacterData VALUE_TYPE_QTXML_QDOMCHARACTERDATA;
    TypeInclude QtXml QDomComment VALUE_TYPE_QTXML_QDOMCOMMENT;
    TypeInclude QtXml QDomDocument VALUE_TYPE_QTXML_QDOMDOCUMENT;
    TypeInclude QtXml QDomDocumentFragment VALUE_TYPE_QTXML_QDOMDOCUMENTFRAGMENT;
    TypeInclude QtXml QDomDocumentType VALUE_TYPE_QTXML_QDOMDOCUMENTTYPE;
    TypeInclude QtXml QDomElement VALUE_TYPE_QTXML_QDOMELEMENT;
    TypeInclude QtXml QDomEntity VALUE_TYPE_QTXML_QDOMENTITY;
    TypeInclude QtXml QDomEntityReference VALUE_TYPE_QTXML_QDOMENTITYREFERENCE;
    TypeInclude QtXml QDomNamedNodeMap VALUE_TYPE_QTXML_QDOMNAMEDNODEMAP;
    TypeInclude QtXml QDomNode VALUE_TYPE_QTXML_QDOMNODE;
    TypeInclude QtXml QDomNodeList VALUE_TYPE_QTXML_QDOMNODELIST;
    TypeInclude QtXml QDomNotation VALUE_TYPE_QTXML_QDOMNOTATION;
    TypeInclude QtXml QDomProcessingInstruction VALUE_TYPE_QTXML_QDOMPROCESSINGINSTRUCTION;
    TypeInclude QtXml QDomText VALUE_TYPE_QTXML_QDOMTEXT
  ].

Definition value_methods_qtxml_1_s0 : list signature_row :=
  [
    Sig [VALUE_TYPE_QTXML_QDOMNODE] "appendChild" [PValue QDomNode] (RValue QDomNode) [On QDomNode];
    Sig [VALUE_TYPE_QTXML_QDOMNODE] "at" [PInt] (RValue QDomNode) [On QDomNodeList];
    Sig [VALUE_TYPE_QTXML_QDOMNAMEDNODEMAP] "attributes" [] (RValue QDomNamedNodeMap) [On QDomNode];
    Sig [VALUE_TYPE_QTXML_QDOMNODELIST] "childNodes" [] (RValue QDomNodeList) [On QDomNode];
    Sig [] "clear" [] RVoid [On QDomNode];
    Sig [VALUE_TYPE_QTXML_QDOMNODE] "cloneNode" [PBool] (RValue QDomNode) [On QDomNode];
    Sig [] "columnNumber" [] RDouble [On QDomNode];
    Sig [] "contains" [PString true] RBool [On QDomNamedNodeMap];
    Sig [] "count" [] RDouble [On QDomNamedNodeMap; On QDomNodeList]
  ].

Definition value_methods_qtxml_1_s9 : list signature_row :=
  [
    Sig [VALUE_TYPE_QTXML_QDOMDOCUMENT; VALUE_TYPE_QTXML_QDOMDOCUMENTTYPE] "createDocument" [PString true;
        PString true; PValue QDomDocumentType] (RValue QDomDocument) [On QDomImplementation];
    Sig [VALUE_TYPE_QTXML_QDOMDOCUMENTTYPE] "createDocumentType" [PString true; PString true; PString true]
        (RValue QDomDocumentType) [On QDomImplementation];
    Sig [] "data" [] RString [On QDomProcessingInstruction];
    Sig [VALUE_TYPE_QTXML_QDOMNODE] "firstChild" [] (RValue QDomNode) [On QDomNode];
    Sig [VALUE_TYPE_QTXML_QDOMELEMENT] "firstChildElement" [PString true; PString true] (RValue
        QDomElement) [On QDomNode];
    Sig [] "hasAttributes" [] RBool [On QDomNode];
    Sig [] "hasChildNodes" [] RBool [On QDomNode];
    Sig [] "hasFeature" [PString true; PString true] RBool [On QDomImplementation];
    Sig [VALUE_TYPE_QTXML_QDOMNODE] "insertAfter" [PValue QDomNode; PValue QDomNode] (RValue QDomNode) [On
        QDomNode]
  ].

Definition value_methods_qtxml_1_s18 : list signature_row :=
  [
    Sig [VALUE_TYPE_QTXML_QDOMNODE] "insertBefore" [PValue QDomNode; PValue QDomNode] (RValue QDomNode) [On
        QDomNode];
    Sig [] "isAttr" [] RBool [On QDomNode];
    Sig [] "isCDATASection" [] RBool [On QDomNode];
    Sig [] "isCharacterData" [] RBool [On QDomNode];
    Sig [] "isComment" [] RBool [On QDomNode];
    Sig [] "isDocument" [] RBool [On QDomNode];
    Sig [] "isDocumentFragment" [] RBool [On QDomNode];
    Sig [] "isDocumentType" [] RBool [On QDomNode];
    Sig [] "isElement" [] RBool [On QDomNode];
    Sig [] "isEmpty" [] RBool [On QDomNamedNodeMap; On QDomNodeList];
    Sig [] "isEntity" [] RBool [On QDomNode]
  ].

Definition value_methods_qtxml_1_s29 : list signature_row :=
  [
    Sig [] "isEntityReference" [] RBool [On QDomNode];
    Sig [] "isNotation" [] RBool [On QDomNode];
    Sig [] "isNull" [] RBool [On QDomImplementation; On QDomNode];
    Sig [] "isProcessingInstruction" [] RBool [On QDomNode];
    Sig [] "isSupported" [PString true; PString true] RBool [On QDomNode];
    Sig [] "isText" [] RBool [On QDomNode];
    Sig [VALUE_TYPE_QTXML_QDOMNODE] "item" [PInt] (RValue QDomNode) [On QDomNamedNodeMap; On QDomNodeList];
    Sig [VALUE_TYPE_QTXML_QDOMNODE] "lastChild" [] (RValue QDomNode) [On QDomNode];
    Sig [VALUE_TYPE_QTXML_QDOMELEMENT] "lastChildElement" [PString true; PString true] (RValue QDomElement)
        [On QDomNode]
  ].

Definition value_methods_qtxml_1_s38 : list signature_row :=
  [
    Sig [] "length" [] RDouble [On QDomNamedNodeMap; On QDomNodeList];
    Sig [] "lineNumber" [] RDouble [On QDomNode];
    Sig [] "localName" [] RString [On QDomNode];
    Sig [VALUE_TYPE_QTXML_QDOMNODE] "namedItem" [PString true] (RValue QDomNode) [On QDomNamedNodeMap; On
        QDomNode];
    Sig [VALUE_TYPE_QTXML_QDOMNODE] "namedItemNS" [PString true; PString true] (RValue QDomNode) [On
        QDomNamedNodeMap];
    Sig [] "namespaceURI" [] RString [On QDomNode];
    Sig [VALUE_TYPE_QTXML_QDOMNODE] "nextSibling" [] (RValue QDomNode) [On QDomNode];
    Sig [VALUE_TYPE_QTXML_QDOMELEMENT] "nextSiblingElement" [PString true; PString true] (RValue
        QDomElement) [On QDomNode];
    Sig [] "nodeName" [] RString [On QDomNode]
  ].

Definition value_methods_qtxml_1_s47 : list signature_row :=
  [
    Sig [TYPE_QTXML_QDOMNODE] "nodeType" [] (RMeta QDomNode_NodeType) [On QDomEntity; On
        QDomEntityReference; On QDomNode; On QDomNotation; On QDomProcessingInstruction];
    Sig [] "nodeValue" [] RString [On QDomNode];
    Sig [] "normalize" [] RVoid [On QDomNode];
    Sig [] "notationName" [] RString [On QDomEntity];
    Sig [VALUE_TYPE_QTXML_QDOMDOCUMENT] "ownerDocument" [] (RValue QDomDocument) [On QDomNode];
    Sig [VALUE_TYPE_QTXML_QDOMNODE] "parentNode" [] (RValue QDomNode) [On QDomNode];
    Sig [] "prefix" [] RString [On QDomNode];
    Sig [VALUE_TYPE_QTXML_QDOMNODE] "previousSibling" [] (RValue QDomNode) [On QDomNode];
    Sig [VALUE_TYPE_QTXML_QDOMELEMENT] "previousSiblingElement" [PString true; PString true] (RValue
        QDomElement) [On QDomNode]
  ].

Definition value_methods_qtxml_1_s56 : list signature_row :=
  [
    Sig [] "publicId" [] RString [On QDomEntity; On QDomNotation];
    Sig [VALUE_TYPE_QTXML_QDOMNODE] "removeChild" [PValue QDomNode] (RValue QDomNode) [On QDomNode];
    Sig [VALUE_TYPE_QTXML_QDOMNODE] "removeNamedItem" [PString true] (RValue QDomNode) [On
        QDomNamedNodeMap];
    Sig [VALUE_TYPE_QTXML_QDOMNODE] "removeNamedItemNS" [PString true; PString true] (RValue QDomNode) [On
        QDomNamedNodeMap];
    Sig [VALUE_TYPE_QTXML_QDOMNODE] "replaceChild" [PValue QDomNode; PValue QDomNode] (RValue QDomNode) [On
        QDomNode];
    Sig [TYPE_QTXML_QDOMNODE; VALUE_TYPE_QTCORE_QTEXTSTREAM] "save" [PValue QTextStream; PInt; PValue
        QDomNode_EncodingPolicy] RVoid [On QDomNode];
    Sig [] "setData" [PString true] RVoid [On QDomProcessingInstruction];
    Sig [VALUE_TYPE_QTXML_QDOMNODE] "setNamedItem" [PValue QDomNode] (RValue QDomNode) [On QDomNamedNodeMap]
  ].

Definition value_methods_qtxml_1_s64 : list signature_row :=
  [
    Sig [VALUE_TYPE_QTXML_QDOMNODE] "setNamedItemNS" [PValue QDomNode] (RValue QDomNode) [On
        QDomNamedNodeMap];
    Sig [] "setNodeValue" [PString true] RVoid [On QDomNode];
    Sig [] "setPrefix" [PString true] RVoid [On QDomNode];
    Sig [] "size" [] RDouble [On QDomNamedNodeMap; On QDomNodeList];
    Sig [] "systemId" [] RString [On QDomEntity; On QDomNotation];
    Sig [] "target" [] RString [On QDomProcessingInstruction];
    Sig [VALUE_TYPE_QTXML_QDOMATTR] "toAttr" [] (RValue QDomAttr) [On QDomNode];
    Sig [VALUE_TYPE_QTXML_QDOMCDATASECTION] "toCDATASection" [] (RValue QDomCDATASection) [On QDomNode];
    Sig [VALUE_TYPE_QTXML_QDOMCHARACTERDATA] "toCharacterData" [] (RValue QDomCharacterData) [On QDomNode]
  ].

Definition value_methods_qtxml_1_s73 : list signature_row :=
  [
    Sig [VALUE_TYPE_QTXML_QDOMCOMMENT] "toComment" [] (RValue QDomComment) [On QDomNode];
    Sig [VALUE_TYPE_QTXML_QDOMDOCUMENT] "toDocument" [] (RValue QDomDocument) [On QDomNode];
    Sig [VALUE_TYPE_QTXML_QDOMDOCUMENTFRAGMENT] "toDocumentFragment" [] (RValue QDomDocumentFragment) [On
        QDomNode];
    Sig [VALUE_TYPE_QTXML_QDOMDOCUMENTTYPE] "toDocumentType" [] (RValue QDomDocumentType) [On QDomNode];
    Sig [VALUE_TYPE_QTXML_QDOMELEMENT] "toElement" [] (RValue QDomElement) [On QDomNode];
    Sig [VALUE_TYPE_QTXML_QDOMENTITY] "toEntity" [] (RValue QDomEntity) [On QDomNode];
    Sig [VALUE_TYPE_QTXML_QDOMENTITYREFERENCE] "toEntityReference" [] (RValue QDomEntityReference) [On
        QDomNode];
    Sig [VALUE_TYPE_QTXML_QDOMNOTATION] "toNotation" [] (RValue QDomNotation) [On QDomNode];
    Sig [VALUE_TYPE_QTXML_QDOMPROCESSINGINSTRUCTION] "toProcessingInstruction" [] (RValue
        QDomProcessingInstruction) [On QDomNode];
    Sig [VALUE_TYPE_QTXML_QDOMTEXT] "toText" [] (RValue QDomText) [On QDomNode]
  ].

Definition value_methods_qtxml_1_types : list string :=
  [
    QDomEntity;
    QDomEntityReference;
    QDomImplementation;
    QDomNamedNodeMap;
    QDomNode;
    QDomNodeList;
    QDomNotation;
    QDomProcessingInstruction
  ].

Definition value_methods_qtxml_1 : method_shard :=
  MethodShard QtXml "KRY_QT6_NATIVE_METHODS_QTXML_"
    (value_methods_qtxml_1_i0)
    (value_methods_qtxml_1_s0 ++ value_methods_qtxml_1_s9 ++ value_methods_qtxml_1_s18 ++
        value_methods_qtxml_1_s29 ++ value_methods_qtxml_1_s38 ++ value_methods_qtxml_1_s47 ++
        value_methods_qtxml_1_s56 ++ value_methods_qtxml_1_s64 ++ value_methods_qtxml_1_s73)
    value_methods_qtxml_1_types.

Definition value_methods_qtxml_2_i0 : list include :=
  [
    ClassInclude QtXml QDomText QDomText;
    TypeInclude QtXml QDomNode TYPE_QTXML_QDOMNODE;
    TypeInclude QtXml QDomText VALUE_TYPE_QTXML_QDOMTEXT
  ].

Definition value_methods_qtxml_2_s0 : list signature_row :=
  [
    Sig [TYPE_QTXML_QDOMNODE] "nodeType" [] (RMeta QDomNode_NodeType) [On QDomText];
    Sig [VALUE_TYPE_QTXML_QDOMTEXT] "splitText" [PInt] (RValue QDomText) [On QDomText]
  ].

Definition value_methods_qtxml_2_types : list string :=
  [
    QDomText
  ].

Definition value_methods_qtxml_2 : method_shard :=
  MethodShard QtXml "KRY_QT6_NATIVE_METHODS_QTXML_"
    (value_methods_qtxml_2_i0)
    (value_methods_qtxml_2_s0)
    value_methods_qtxml_2_types.
