(* ===== verification/ValueMethodsNetwork.v ===== *)
(** Rows of the shards of generated_value_methods: qtbluetooth_0, qtbluetooth_1, qtdbus_0,
    qtdbus_1, qtnetwork_0, qtnetwork_1, qtnetwork_2, qtnetwork_3, qtnetwork_4, qtnetworkauth_0,
    qtnfc_0, qtpositioning_0, qtpositioning_1, qtserialport_0, qtwebenginecore_0,
    qtwebenginecore_1, qtwebsockets_0. *)
From S2P Require Import Names.

(** * Definitions *)

Definition value_methods_qtbluetooth_0_i0 : list include :=
  [
    ClassInclude QtBluetooth QBluetoothAddress QBluetoothAddress;
    ClassInclude QtBluetooth QBluetoothDeviceInfo QBluetoothDeviceInfo;
    ClassInclude QtBluetooth QBluetoothHostInfo QBluetoothHostInfo;
    ClassInclude QtBluetooth QBluetoothServiceInfo QBluetoothServiceInfo;
    ClassInclude QtBluetooth QBluetoothUuid QBluetoothUuid;
    ClassInclude QtBluetooth QLowEnergyAdvertisingData QLowEnergyAdvertisingData;
    ClassInclude QtBluetooth QLowEnergyAdvertisingParameters QLowEnergyAdvertisingParameters;
    ClassInclude QtBluetooth QLowEnergyCharacteristic QLowEnergyCharacteristic;
    TypeInclude QtBluetooth QBluetoothDeviceInfo TYPE_QTBLUETOOTH_QBLUETOOTHDEVICEINFO;
    TypeInclude QtBluetooth QBluetoothServiceInfo TYPE_QTBLUETOOTH_QBLUETOOTHSERVICEINFO;
    TypeInclude QtBluetooth QLowEnergyAdvertisingData TYPE_QTBLUETOOTH_QLOWENERGYADVERTISINGDATA;
    TypeInclude QtBluetooth QLowEnergyAdvertisingParameters
        TYPE_QTBLUETOOTH_QLOWENERGYADVERTISINGPARAMETERS;
    TypeInclude QtBluetooth QBluetoothAddress VALUE_TYPE_QTBLUETOOTH_QBLUETOOTHADDRESS;
    TypeInclude QtBluetooth QBluetoothDeviceInfo VALUE_TYPE_QTBLUETOOTH_QBLUETOOTHDEVICEINFO;
    TypeInclude QtBluetooth QBluetoothUuid VALUE_TYPE_QTBLUETOOTH_QBLUETOOTHUUID;
    TypeInclude QtBluetooth QLowEnergyAdvertisingData VALUE_TYPE_QTBLUETOOTH_QLOWENERGYADVERTISINGDATA;
    TypeInclude QtBluetooth QLowEnergyAdvertisingParameters
        VALUE_TYPE_QTBLUETOOTH_QLOWENERGYADVERTISINGPARAMETERS;
    TypeInclude QtBluetooth QLowEnergyDescriptor VALUE_TYPE_QTBLUETOOTH_QLOWENERGYDESCRIPTOR;
    TypeInclude QtCore QByteArray VALUE_TYPE_QTCORE_QBYTEARRAY
  ].

Definition value_methods_qtbluetooth_0_s0 : list signature_row :=
  [
    Sig [VALUE_TYPE_QTBLUETOOTH_QBLUETOOTHADDRESS] "address" [] (RValue QBluetoothAddress) [On
        QBluetoothDeviceInfo; On QBluetoothHostInfo];
    Sig [] "clear" [] RVoid [On QBluetoothAddress];
    Sig [VALUE_TYPE_QTBLUETOOTH_QLOWENERGYDESCRIPTOR] "clientCharacteristicConfiguration" [] (RValue
        QLowEnergyDescriptor) [On QLowEnergyCharacteristic];
    Sig [VALUE_TYPE_QTBLUETOOTH_QBLUETOOTHUUID; VALUE_TYPE_QTBLUETOOTH_QLOWENERGYDESCRIPTOR] "descriptor"
        [PValue QBluetoothUuid] (RValue QLowEnergyDescriptor) [On QLowEnergyCharacteristic];
    Sig [VALUE_TYPE_QTBLUETOOTH_QLOWENERGYDESCRIPTOR] "descriptors" [] (RList (IValue
        QLowEnergyDescriptor)) [On QLowEnergyCharacteristic];
    Sig [VALUE_TYPE_QTBLUETOOTH_QBLUETOOTHDEVICEINFO] "device" [] (RValue QBluetoothDeviceInfo) [On
        QBluetoothServiceInfo];
    Sig [VALUE_TYPE_QTBLUETOOTH_QBLUETOOTHUUID] "deviceUuid" [] (RValue QBluetoothUuid) [On
        QBluetoothDeviceInfo];
    Sig [TYPE_QTBLUETOOTH_QLOWENERGYADVERTISINGDATA] "discoverability" [] (RMeta
        QLowEnergyAdvertisingData_Discoverability) [On QLowEnergyAdvertisingData];
    Sig [TYPE_QTBLUETOOTH_QLOWENERGYADVERTISINGPARAMETERS] "filterPolicy" [] (RMeta
        QLowEnergyAdvertisingParameters_FilterPolicy) [On QLowEnergyAdvertisingParameters]
  ].

Definition value_methods_qtbluetooth_0_s9 : list signature_row :=
  [
    Sig [] "includePowerLevel" [] RBool [On QLowEnergyAdvertisingData];
    Sig [] "isCached" [] RBool [On QBluetoothDeviceInfo];
    Sig [] "isComplete" [] RBool [On QBluetoothServiceInfo];
    Sig [] "isNull" [] RBool [On QBluetoothAddress];
    Sig [] "isRegistered" [] RBool [On QBluetoothServiceInfo];
    Sig [] "isValid" [] RBool [On QBluetoothDeviceInfo; On QBluetoothServiceInfo; On
        QLowEnergyCharacteristic];
    Sig [] "localName" [] RString [On QLowEnergyAdvertisingData];
    Sig [TYPE_QTBLUETOOTH_QBLUETOOTHDEVICEINFO] "majorDeviceClass" [] (RMeta
        QBluetoothDeviceInfo_MajorDeviceClass) [On QBluetoothDeviceInfo];
    Sig [VALUE_TYPE_QTCORE_QBYTEARRAY] "manufacturerData" [] (RValue QByteArray) [On
        QLowEnergyAdvertisingData];
    Sig [] "maximumInterval" [] RDouble [On QLowEnergyAdvertisingParameters];
    Sig [] "minimumInterval" [] RDouble [On QLowEnergyAdvertisingParameters]
  ].

Definition value_methods_qtbluetooth_0_s20 : list signature_row :=
  [
    Sig [] "minimumSize" [] RDouble [On QBluetoothUuid];
    Sig [TYPE_QTBLUETOOTH_QLOWENERGYADVERTISINGPARAMETERS] "mode" [] (RMeta
        QLowEnergyAdvertisingParameters_Mode) [On QLowEnergyAdvertisingParameters];
    Sig [] "name" [] RString [On QBluetoothDeviceInfo; On QBluetoothHostInfo; On QLowEnergyCharacteristic];
    Sig [] "protocolServiceMultiplexer" [] RDouble [On QBluetoothServiceInfo];
    Sig [VALUE_TYPE_QTCORE_QBYTEARRAY] "rawData" [] (RValue QByteArray) [On QLowEnergyAdvertisingData];
    Sig [VALUE_TYPE_QTBLUETOOTH_QBLUETOOTHADDRESS] "registerService" [PValue QBluetoothAddress] RBool [On
        QBluetoothServiceInfo];
    Sig [] "serverChannel" [] RDouble [On QBluetoothServiceInfo];
    Sig [VALUE_TYPE_QTBLUETOOTH_QBLUETOOTHUUID] "serviceClassUuids" [] (RList (IValue QBluetoothUuid)) [On
        QBluetoothServiceInfo];
    Sig [VALUE_TYPE_QTBLUETOOTH_QBLUETOOTHUUID; VALUE_TYPE_QTCORE_QBYTEARRAY] "serviceData" [PValue
        QBluetoothUuid] (RValue QByteArray) [On QBluetoothDeviceInfo];
    Sig [] "serviceDescription" [] RString [On QBluetoothServiceInfo]
  ].

Definition value_methods_qtbluetooth_0_s30 : list signature_row :=
  [
    Sig [VALUE_TYPE_QTBLUETOOTH_QBLUETOOTHUUID] "serviceIds" [] (RList (IValue QBluetoothUuid)) [On
        QBluetoothDeviceInfo];
    Sig [] "serviceName" [] RString [On QBluetoothServiceInfo];
    Sig [] "serviceProvider" [] RString [On QBluetoothServiceInfo];
    Sig [VALUE_TYPE_QTBLUETOOTH_QBLUETOOTHUUID] "serviceUuid" [] (RValue QBluetoothUuid) [On
        QBluetoothServiceInfo];
    Sig [VALUE_TYPE_QTBLUETOOTH_QBLUETOOTHUUID] "serviceUuids" [] (RList (IValue QBluetoothUuid)) [On
        QBluetoothDeviceInfo];
    Sig [VALUE_TYPE_QTBLUETOOTH_QBLUETOOTHUUID] "services" [] (RList (IValue QBluetoothUuid)) [On
        QLowEnergyAdvertisingData];
    Sig [VALUE_TYPE_QTBLUETOOTH_QBLUETOOTHADDRESS] "setAddress" [PValue QBluetoothAddress] RVoid [On
        QBluetoothHostInfo];
    Sig [] "setCached" [PBool] RVoid [On QBluetoothDeviceInfo];
    Sig [VALUE_TYPE_QTBLUETOOTH_QBLUETOOTHDEVICEINFO] "setDevice" [PValue QBluetoothDeviceInfo] RVoid [On
        QBluetoothServiceInfo]
  ].

Definition value_methods_qtbluetooth_0_s39 : list signature_row :=
  [
    Sig [VALUE_TYPE_QTBLUETOOTH_QBLUETOOTHUUID] "setDeviceUuid" [PValue QBluetoothUuid] RVoid [On
        QBluetoothDeviceInfo];
    Sig [TYPE_QTBLUETOOTH_QLOWENERGYADVERTISINGDATA] "setDiscoverability" [PValue
        QLowEnergyAdvertisingData_Discoverability] RVoid [On QLowEnergyAdvertisingData];
    Sig [] "setIncludePowerLevel" [PBool] RVoid [On QLowEnergyAdvertisingData];
    Sig [] "setLocalName" [PString true] RVoid [On QLowEnergyAdvertisingData];
    Sig [TYPE_QTBLUETOOTH_QLOWENERGYADVERTISINGPARAMETERS] "setMode" [PValue
        QLowEnergyAdvertisingParameters_Mode] RVoid [On QLowEnergyAdvertisingParameters];
    Sig [] "setName" [PString true] RVoid [On QBluetoothDeviceInfo; On QBluetoothHostInfo];
    Sig [VALUE_TYPE_QTCORE_QBYTEARRAY] "setRawData" [PValue QByteArray] RVoid [On
        QLowEnergyAdvertisingData];
    Sig [VALUE_TYPE_QTBLUETOOTH_QBLUETOOTHUUID; VALUE_TYPE_QTCORE_QBYTEARRAY] "setServiceData" [PValue
        QBluetoothUuid; PValue QByteArray] RBool [On QBluetoothDeviceInfo];
    Sig [] "setServiceDescription" [PString true] RVoid [On QBluetoothServiceInfo]
  ].

Definition value_methods_qtbluetooth_0_s48 : list signature_row :=
  [
    Sig [] "setServiceName" [PString true] RVoid [On QBluetoothServiceInfo];
    Sig [] "setServiceProvider" [PString true] RVoid [On QBluetoothServiceInfo];
    Sig [VALUE_TYPE_QTBLUETOOTH_QBLUETOOTHUUID] "setServiceUuid" [PValue QBluetoothUuid] RVoid [On
        QBluetoothServiceInfo];
    Sig [VALUE_TYPE_QTBLUETOOTH_QBLUETOOTHUUID] "setServiceUuids" [PList (IValue QBluetoothUuid)] RVoid [On
        QBluetoothDeviceInfo];
    Sig [VALUE_TYPE_QTBLUETOOTH_QBLUETOOTHUUID] "setServices" [PList (IValue QBluetoothUuid)] RVoid [On
        QLowEnergyAdvertisingData];
    Sig [TYPE_QTBLUETOOTH_QBLUETOOTHSERVICEINFO] "socketProtocol" [] (RMeta QBluetoothServiceInfo_Protocol)
        [On QBluetoothServiceInfo];
    Sig [VALUE_TYPE_QTBLUETOOTH_QLOWENERGYADVERTISINGDATA] "swap" [PValue QLowEnergyAdvertisingData] RVoid
        [On QLowEnergyAdvertisingData];
    Sig [VALUE_TYPE_QTBLUETOOTH_QLOWENERGYADVERTISINGPARAMETERS] "swap" [PValue
        QLowEnergyAdvertisingParameters] RVoid [On QLowEnergyAdvertisingParameters];
    Sig [] "toString" [] RString [On QBluetoothAddress]
  ].

Definition value_methods_qtbluetooth_0_s57 : list signature_row :=
  [
    Sig [] "toUInt64" [] (RMeta cxx_quint64) [On QBluetoothAddress];
    Sig [] "unregisterService" [] RBool [On QBluetoothServiceInfo];
    Sig [VALUE_TYPE_QTBLUETOOTH_QBLUETOOTHUUID] "uuid" [] (RValue QBluetoothUuid) [On
        QLowEnergyCharacteristic];
    Sig [VALUE_TYPE_QTCORE_QBYTEARRAY] "value" [] (RValue QByteArray) [On QLowEnergyCharacteristic]
  ].

Definition value_methods_qtbluetooth_0_types : list string :=
  [
    QBluetoothAddress;
    QBluetoothDeviceInfo;
    QBluetoothHostInfo;
    QBluetoothServiceInfo;
    QBluetoothUuid;
    QLowEnergyAdvertisingData;
    QLowEnergyAdvertisingParameters;
    QLowEnergyCharacteristic
  ].

Definition value_methods_qtbluetooth_0 : method_shard :=
  MethodShard QtBluetooth "KRY_QT6_NATIVE_METHODS_QTBLUETOOTH_"
    (value_methods_qtbluetooth_0_i0)
    (value_methods_qtbluetooth_0_s0 ++ value_methods_qtbluetooth_0_s9 ++ value_methods_qtbluetooth_0_s20 ++
        value_methods_qtbluetooth_0_s30 ++ value_methods_qtbluetooth_0_s39 ++
        value_methods_qtbluetooth_0_s48 ++ value_methods_qtbluetooth_0_s57)
    value_methods_qtbluetooth_0_types.

Definition value_methods_qtbluetooth_1_i0 : list include :=
  [
    ClassInclude QtBluetooth QLowEnergyCharacteristicData QLowEnergyCharacteristicData;
    ClassInclude QtBluetooth QLowEnergyConnectionParameters QLowEnergyConnectionParameters;
    ClassInclude QtBluetooth QLowEnergyDescriptor QLowEnergyDescriptor;
    ClassInclude QtBluetooth QLowEnergyDescriptorData QLowEnergyDescriptorData;
    ClassInclude QtBluetooth QLowEnergyServiceData QLowEnergyServiceData;
    TypeInclude QtBluetooth QLowEnergyService TYPE_QTBLUETOOTH_QLOWENERGYSERVICE;
    TypeInclude QtBluetooth QBluetoothUuid TYPE_QTBLUETOOTH_QBLUETOOTHUUID;
    TypeInclude QtBluetooth QLowEnergyServiceData TYPE_QTBLUETOOTH_QLOWENERGYSERVICEDATA;
    TypeInclude QtBluetooth QBluetoothUuid VALUE_TYPE_QTBLUETOOTH_QBLUETOOTHUUID;
    TypeInclude QtBluetooth QLowEnergyCharacteristicData
        VALUE_TYPE_QTBLUETOOTH_QLOWENERGYCHARACTERISTICDATA;
    TypeInclude QtBluetooth QLowEnergyConnectionParameters
        VALUE_TYPE_QTBLUETOOTH_QLOWENERGYCONNECTIONPARAMETERS;
    TypeInclude QtBluetooth QLowEnergyDescriptorData VALUE_TYPE_QTBLUETOOTH_QLOWENERGYDESCRIPTORDATA;
    TypeInclude QtBluetooth QLowEnergyServiceData VALUE_TYPE_QTBLUETOOTH_QLOWENERGYSERVICEDATA;
    TypeInclude QtCore QByteArray VALUE_TYPE_QTCORE_QBYTEARRAY
  ].

Definition value_methods_qtbluetooth_1_s0 : list signature_row :=
  [
    Sig [VALUE_TYPE_QTBLUETOOTH_QLOWENERGYCHARACTERISTICDATA] "addCharacteristic" [PValue
        QLowEnergyCharacteristicData] RVoid [On QLowEnergyServiceData];
    Sig [VALUE_TYPE_QTBLUETOOTH_QLOWENERGYDESCRIPTORDATA] "addDescriptor" [PValue QLowEnergyDescriptorData]
        RVoid [On QLowEnergyCharacteristicData];
    Sig [TYPE_QTBLUETOOTH_QLOWENERGYSERVICE] "addIncludedService" [PObject QLowEnergyService false] RVoid
        [On QLowEnergyServiceData];
    Sig [VALUE_TYPE_QTBLUETOOTH_QLOWENERGYCHARACTERISTICDATA] "characteristics" [] (RList (IValue
        QLowEnergyCharacteristicData)) [On QLowEnergyServiceData];
    Sig [VALUE_TYPE_QTBLUETOOTH_QLOWENERGYDESCRIPTORDATA] "descriptors" [] (RList (IValue
        QLowEnergyDescriptorData)) [On QLowEnergyCharacteristicData];
    Sig [TYPE_QTBLUETOOTH_QLOWENERGYSERVICE] "includedServices" [] (RList (IObject QObject)) [On
        QLowEnergyServiceData];
    Sig [] "isReadable" [] RBool [On QLowEnergyDescriptorData];
    Sig [] "isValid" [] RBool [On QLowEnergyCharacteristicData; On QLowEnergyDescriptor; On
        QLowEnergyDescriptorData; On QLowEnergyServiceData]
  ].

Definition value_methods_qtbluetooth_1_s8 : list signature_row :=
  [
    Sig [] "isWritable" [] RBool [On QLowEnergyDescriptorData];
    Sig [] "latency" [] RDouble [On QLowEnergyConnectionParameters];
    Sig [] "maximumInterval" [] RDouble [On QLowEnergyConnectionParameters];
    Sig [] "maximumValueLength" [] RDouble [On QLowEnergyCharacteristicData];
    Sig [] "minimumInterval" [] RDouble [On QLowEnergyConnectionParameters];
    Sig [] "minimumValueLength" [] RDouble [On QLowEnergyCharacteristicData];
    Sig [] "name" [] RString [On QLowEnergyDescriptor];
    Sig [VALUE_TYPE_QTBLUETOOTH_QLOWENERGYCHARACTERISTICDATA] "setCharacteristics" [PList (IValue
        QLowEnergyCharacteristicData)] RVoid [On QLowEnergyServiceData];
    Sig [VALUE_TYPE_QTBLUETOOTH_QLOWENERGYDESCRIPTORDATA] "setDescriptors" [PList (IValue
        QLowEnergyDescriptorData)] RVoid [On QLowEnergyCharacteristicData];
    Sig [TYPE_QTBLUETOOTH_QLOWENERGYSERVICE] "setIncludedServices" [PList (IObject QLowEnergyService)]
        RVoid [On QLowEnergyServiceData]
  ].

Definition value_methods_qtbluetooth_1_s18 : list signature_row :=
  [
    Sig [] "setIntervalRange" [PNumber cxx_double; PNumber cxx_double] RVoid [On
        QLowEnergyConnectionParameters];
    Sig [] "setLatency" [PInt] RVoid [On QLowEnergyConnectionParameters];
    Sig [] "setSupervisionTimeout" [PInt] RVoid [On QLowEnergyConnectionParameters];
    Sig [TYPE_QTBLUETOOTH_QLOWENERGYSERVICEDATA] "setType" [PValue QLowEnergyServiceData_ServiceType] RVoid
        [On QLowEnergyServiceData];
    Sig [VALUE_TYPE_QTBLUETOOTH_QBLUETOOTHUUID] "setUuid" [PValue QBluetoothUuid] RVoid [On
        QLowEnergyCharacteristicData; On QLowEnergyDescriptorData; On QLowEnergyServiceData];
    Sig [VALUE_TYPE_QTCORE_QBYTEARRAY] "setValue" [PValue QByteArray] RVoid [On
        QLowEnergyCharacteristicData; On QLowEnergyDescriptorData];
    Sig [] "setValueLength" [PInt; PInt] RVoid [On QLowEnergyCharacteristicData];
    Sig [] "supervisionTimeout" [] RDouble [On QLowEnergyConnectionParameters]
  ].

Definition value_methods_qtbluetooth_1_s26 : list signature_row :=
  [
    Sig [VALUE_TYPE_QTBLUETOOTH_QLOWENERGYCHARACTERISTICDATA] "swap" [PValue QLowEnergyCharacteristicData]
        RVoid [On QLowEnergyCharacteristicData];
    Sig [VALUE_TYPE_QTBLUETOOTH_QLOWENERGYCONNECTIONPARAMETERS] "swap" [PValue
        QLowEnergyConnectionParameters] RVoid [On QLowEnergyConnectionParameters];
    Sig [VALUE_TYPE_QTBLUETOOTH_QLOWENERGYDESCRIPTORDATA] "swap" [PValue QLowEnergyDescriptorData] RVoid
        [On QLowEnergyDescriptorData];
    Sig [VALUE_TYPE_QTBLUETOOTH_QLOWENERGYSERVICEDATA] "swap" [PValue QLowEnergyServiceData] RVoid [On
        QLowEnergyServiceData];
    Sig [TYPE_QTBLUETOOTH_QBLUETOOTHUUID] "type" [] (RMeta QBluetoothUuid_DescriptorType) [On
        QLowEnergyDescriptor];
    Sig [TYPE_QTBLUETOOTH_QLOWENERGYSERVICEDATA] "type" [] (RMeta QLowEnergyServiceData_ServiceType) [On
        QLowEnergyServiceData];
    Sig [VALUE_TYPE_QTBLUETOOTH_QBLUETOOTHUUID] "uuid" [] (RValue QBluetoothUuid) [On
        QLowEnergyCharacteristicData; On QLowEnergyDescriptor; On QLowEnergyDescriptorData; On
        QLowEnergyServiceData]
  ].

Definition value_methods_qtbluetooth_1_s33 : list signature_row :=
  [
    Sig [VALUE_TYPE_QTCORE_QBYTEARRAY] "value" [] (RValue QByteArray) [On QLowEnergyCharacteristicData; On
        QLowEnergyDescriptor; On QLowEnergyDescriptorData]
  ].

Definition value_methods_qtbluetooth_1_types : list string :=
  [
    QLowEnergyCharacteristicData;
    QLowEnergyConnectionParameters;
    QLowEnergyDescriptor;
    QLowEnergyDescriptorData;
    QLowEnergyServiceData
  ].

Definition value_methods_qtbluetooth_1 : method_shard :=
  MethodShard QtBluetooth "KRY_QT6_NATIVE_METHODS_QTBLUETOOTH_"
    (value_methods_qtbluetooth_1_i0)
    (value_methods_qtbluetooth_1_s0 ++ value_methods_qtbluetooth_1_s8 ++ value_methods_qtbluetooth_1_s18 ++
        value_methods_qtbluetooth_1_s26 ++ value_methods_qtbluetooth_1_s33)
    value_methods_qtbluetooth_1_types.

Definition value_methods_qtdbus_0_i0 : list include :=
  [
    ClassInclude QtDBus QDBusArgument QDBusArgument;
    ClassInclude QtDBus QDBusConnection QDBusConnection;
    ClassInclude QtDBus QDBusError QDBusError;
    ClassInclude QtDBus QDBusMessage QDBusMessage;
    ClassInclude QtDBus QDBusObjectPath QDBusObjectPath;
    ClassInclude QtDBus QDBusPendingCall QDBusPendingCall;
    ClassInclude QtDBus QDBusSignature QDBusSignature;
    ClassInclude QtDBus QDBusUnixFileDescriptor QDBusUnixFileDescriptor;
    TypeInclude QtCore QObject TYPE_QTCORE_QOBJECT;
    TypeInclude QtDBus QDBusConnectionInterface TYPE_QTDBUS_QDBUSCONNECTIONINTERFACE;
    TypeInclude QtDBus QDBusConnection TYPE_QTDBUS_QDBUSCONNECTION;
    TypeInclude QtDBus QDBusError TYPE_QTDBUS_QDBUSERROR;
    TypeInclude QtDBus QDBusMessage TYPE_QTDBUS_QDBUSMESSAGE;
    TypeInclude QtCore QMetaType VALUE_TYPE_QTCORE_QMETATYPE;
    TypeInclude QtDBus QDBusArgument VALUE_TYPE_QTDBUS_QDBUSARGUMENT;
    TypeInclude QtDBus QDBusConnection VALUE_TYPE_QTDBUS_QDBUSCONNECTION;
    TypeInclude QtDBus QDBusError VALUE_TYPE_QTDBUS_QDBUSERROR;
    TypeInclude QtDBus QDBusMessage VALUE_TYPE_QTDBUS_QDBUSMESSAGE;
    TypeInclude QtDBus QDBusObjectPath VALUE_TYPE_QTDBUS_QDBUSOBJECTPATH;
    TypeInclude QtDBus QDBusPendingCall VALUE_TYPE_QTDBUS_QDBUSPENDINGCALL;
    TypeInclude QtDBus QDBusSignature VALUE_TYPE_QTDBUS_QDBUSSIGNATURE;
    TypeInclude QtDBus QDBusUnixFileDescriptor VALUE_TYPE_QTDBUS_QDBUSUNIXFILEDESCRIPTOR
  ].

Definition value_methods_qtdbus_0_s0 : list signature_row :=
  [
    Sig [] "arguments" [] (RList IVariant) [On QDBusMessage];
    Sig [VALUE_TYPE_QTDBUS_QDBUSMESSAGE; VALUE_TYPE_QTDBUS_QDBUSPENDINGCALL] "asyncCall" [PValue
        QDBusMessage; PInt] (RValue QDBusPendingCall) [On QDBusConnection];
    Sig [] "autoStartService" [] RBool [On QDBusMessage];
    Sig [] "baseService" [] RString [On QDBusConnection];
    Sig [VALUE_TYPE_QTCORE_QMETATYPE] "beginArray" [PValue QMetaType] RVoid [On QDBusArgument];
    Sig [] "beginArray" [PInt] RVoid [On QDBusArgument];
    Sig [VALUE_TYPE_QTCORE_QMETATYPE] "beginMap" [PValue QMetaType; PValue QMetaType] RVoid [On
        QDBusArgument];
    Sig [] "beginMap" [PInt; PInt] RVoid [On QDBusArgument];
    Sig [] "beginMapEntry" [] RVoid [On QDBusArgument]
  ].

Definition value_methods_qtdbus_0_s9 : list signature_row :=
  [
    Sig [] "beginStructure" [] RVoid [On QDBusArgument];
    Sig [VALUE_TYPE_QTDBUS_QDBUSERROR; VALUE_TYPE_QTDBUS_QDBUSMESSAGE] "createErrorReply" [PValue
        QDBusError] (RValue QDBusMessage) [On QDBusMessage];
    Sig [TYPE_QTDBUS_QDBUSERROR; VALUE_TYPE_QTDBUS_QDBUSMESSAGE] "createErrorReply" [PValue
        QDBusError_ErrorType; PString true] (RValue QDBusMessage) [On QDBusMessage];
    Sig [VALUE_TYPE_QTDBUS_QDBUSMESSAGE] "createErrorReply" [PString true; PString true] (RValue
        QDBusMessage) [On QDBusMessage];
    Sig [VALUE_TYPE_QTDBUS_QDBUSMESSAGE] "createReply" [PList IVariant] (RValue QDBusMessage) [On
        QDBusMessage];
    Sig [VALUE_TYPE_QTDBUS_QDBUSMESSAGE] "createReply" [PVariant] (RValue QDBusMessage) [On QDBusMessage];
    Sig [] "endArray" [] RVoid [On QDBusArgument];
    Sig [] "endMap" [] RVoid [On QDBusArgument];
    Sig [] "endMapEntry" [] RVoid [On QDBusArgument]
  ].

Definition value_methods_qtdbus_0_s18 : list signature_row :=
  [
    Sig [] "endStructure" [] RVoid [On QDBusArgument];
    Sig [] "errorMessage" [] RString [On QDBusMessage];
    Sig [] "errorName" [] RString [On QDBusMessage];
    Sig [] "fileDescriptor" [] RDouble [On QDBusUnixFileDescriptor];
    Sig [TYPE_QTDBUS_QDBUSCONNECTIONINTERFACE] "interface" [] RObject [On QDBusConnection];
    Sig [] "interface" [] RString [On QDBusMessage];
    Sig [] "isConnected" [] RBool [On QDBusConnection];
    Sig [] "isDelayedReply" [] RBool [On QDBusMessage];
    Sig [] "isInteractiveAuthorizationAllowed" [] RBool [On QDBusMessage];
    Sig [] "isReplyRequired" [] RBool [On QDBusMessage];
    Sig [] "isValid" [] RBool [On QDBusError; On QDBusUnixFileDescriptor]
  ].

Definition value_methods_qtdbus_0_s29 : list signature_row :=
  [
    Sig [VALUE_TYPE_QTDBUS_QDBUSERROR] "lastError" [] (RValue QDBusError) [On QDBusConnection];
    Sig [] "member" [] RString [On QDBusMessage];
    Sig [] "message" [] RString [On QDBusError];
    Sig [] "name" [] RString [On QDBusConnection; On QDBusError];
    Sig [TYPE_QTCORE_QOBJECT] "objectRegisteredAt" [PString true] RObject [On QDBusConnection];
    Sig [] "path" [] RString [On QDBusMessage; On QDBusObjectPath];
    Sig [] "registerService" [PString true] RBool [On QDBusConnection];
    Sig [VALUE_TYPE_QTDBUS_QDBUSMESSAGE] "send" [PValue QDBusMessage] RBool [On QDBusConnection];
    Sig [] "service" [] RString [On QDBusMessage];
    Sig [] "setArguments" [PList IVariant] RVoid [On QDBusMessage]
  ].

Definition value_methods_qtdbus_0_s39 : list signature_row :=
  [
    Sig [] "setAutoStartService" [PBool] RVoid [On QDBusMessage];
    Sig [] "setDelayedReply" [PBool] RVoid [On QDBusMessage];
    Sig [] "setFileDescriptor" [PInt] RVoid [On QDBusUnixFileDescriptor];
    Sig [] "setInteractiveAuthorizationAllowed" [PBool] RVoid [On QDBusMessage];
    Sig [] "setPath" [PString true] RVoid [On QDBusObjectPath];
    Sig [] "setSignature" [PString true] RVoid [On QDBusSignature];
    Sig [] "signature" [] RString [On QDBusMessage; On QDBusSignature];
    Sig [VALUE_TYPE_QTDBUS_QDBUSARGUMENT] "swap" [PValue QDBusArgument] RVoid [On QDBusArgument];
    Sig [VALUE_TYPE_QTDBUS_QDBUSCONNECTION] "swap" [PValue QDBusConnection] RVoid [On QDBusConnection]
  ].

Definition value_methods_qtdbus_0_s48 : list signature_row :=
  [
    Sig [VALUE_TYPE_QTDBUS_QDBUSERROR] "swap" [PValue QDBusError] RVoid [On QDBusError];
    Sig [VALUE_TYPE_QTDBUS_QDBUSMESSAGE] "swap" [PValue QDBusMessage] RVoid [On QDBusMessage];
    Sig [VALUE_TYPE_QTDBUS_QDBUSOBJECTPATH] "swap" [PValue QDBusObjectPath] RVoid [On QDBusObjectPath];
    Sig [VALUE_TYPE_QTDBUS_QDBUSPENDINGCALL] "swap" [PValue QDBusPendingCall] RVoid [On QDBusPendingCall];
    Sig [VALUE_TYPE_QTDBUS_QDBUSSIGNATURE] "swap" [PValue QDBusSignature] RVoid [On QDBusSignature];
    Sig [VALUE_TYPE_QTDBUS_QDBUSUNIXFILEDESCRIPTOR] "swap" [PValue QDBusUnixFileDescriptor] RVoid [On
        QDBusUnixFileDescriptor];
    Sig [TYPE_QTDBUS_QDBUSERROR] "type" [] (RMeta QDBusError_ErrorType) [On QDBusError];
    Sig [TYPE_QTDBUS_QDBUSMESSAGE] "type" [] (RMeta QDBusMessage_MessageType) [On QDBusMessage];
    Sig [TYPE_QTDBUS_QDBUSCONNECTION] "unregisterObject" [PString true; PValue
        QDBusConnection_UnregisterMode] RVoid [On QDBusConnection]
  ].

Definition value_methods_qtdbus_0_s57 : list signature_row :=
  [
    Sig [] "unregisterService" [PString true] RBool [On QDBusConnection]
  ].

Definition value_methods_qtdbus_0_types : list string :=
  [
    QDBusArgument;
    QDBusConnection;
    QDBusError;
    QDBusMessage;
    QDBusObjectPath;
    QDBusPendingCall;
    QDBusSignature;
    QDBusUnixFileDescriptor
  ].

Definition value_methods_qtdbus_0 : method_shard :=
  MethodShard QtDBus "KRY_QT6_NATIVE_METHODS_QTDBUS_"
    (value_methods_qtdbus_0_i0)
    (value_methods_qtdbus_0_s0 ++ value_methods_qtdbus_0_s9 ++ value_methods_qtdbus_0_s18 ++
        value_methods_qtdbus_0_s29 ++ value_methods_qtdbus_0_s39 ++ value_methods_qtdbus_0_s48 ++
        value_methods_qtdbus_0_s57)
    value_methods_qtdbus_0_types.

Definition value_methods_qtdbus_1_i0 : list include :=
  [
    ClassInclude QtDBus QDBusVariant QDBusVariant;
    TypeInclude QtDBus QDBusVariant VALUE_TYPE_QTDBUS_QDBUSVARIANT
  ].

Definition value_methods_qtdbus_1_s0 : list signature_row :=
  [
    Sig [] "setVariant" [PVariant] RVoid [On QDBusVariant];
    Sig [VALUE_TYPE_QTDBUS_QDBUSVARIANT] "swap" [PValue QDBusVariant] RVoid [On QDBusVariant];
    Sig [] "variant" [] RVariant [On QDBusVariant]
  ].

Definition value_methods_qtdbus_1_types : list string :=
  [
    QDBusVariant
  ].

Definition value_methods_qtdbus_1 : method_shard :=
  MethodShard QtDBus "KRY_QT6_NATIVE_METHODS_QTDBUS_"
    (value_methods_qtdbus_1_i0)
    (value_methods_qtdbus_1_s0)
    value_methods_qtdbus_1_types.

Definition value_methods_qtnetwork_0_i0 : list include :=
  [
    ClassInclude QtNetwork QAuthenticator QAuthenticator;
    ClassInclude QtNetwork QDnsDomainNameRecord QDnsDomainNameRecord;
    ClassInclude QtNetwork QDnsHostAddressRecord QDnsHostAddressRecord;
    ClassInclude QtNetwork QDnsMailExchangeRecord QDnsMailExchangeRecord;
    ClassInclude QtNetwork QDnsServiceRecord QDnsServiceRecord;
    ClassInclude QtNetwork QDnsTextRecord QDnsTextRecord;
    ClassInclude QtNetwork QDnsTlsAssociationRecord QDnsTlsAssociationRecord;
    ClassInclude QtNetwork QFormDataBuilder QFormDataBuilder;
    TypeInclude QtNetwork QDnsTlsAssociationRecord TYPE_QTNETWORK_QDNSTLSASSOCIATIONRECORD;
    TypeInclude QtCore QByteArray VALUE_TYPE_QTCORE_QBYTEARRAY;
    TypeInclude QtNetwork QDnsDomainNameRecord VALUE_TYPE_QTNETWORK_QDNSDOMAINNAMERECORD;
    TypeInclude QtNetwork QDnsHostAddressRecord VALUE_TYPE_QTNETWORK_QDNSHOSTADDRESSRECORD;
    TypeInclude QtNetwork QDnsMailExchangeRecord VALUE_TYPE_QTNETWORK_QDNSMAILEXCHANGERECORD;
    TypeInclude QtNetwork QDnsServiceRecord VALUE_TYPE_QTNETWORK_QDNSSERVICERECORD;
    TypeInclude QtNetwork QDnsTextRecord VALUE_TYPE_QTNETWORK_QDNSTEXTRECORD;
    TypeInclude QtNetwork QDnsTlsAssociationRecord VALUE_TYPE_QTNETWORK_QDNSTLSASSOCIATIONRECORD;
    TypeInclude QtNetwork QFormDataBuilder VALUE_TYPE_QTNETWORK_QFORMDATABUILDER;
    TypeInclude QtNetwork QHostAddress VALUE_TYPE_QTNETWORK_QHOSTADDRESS
  ].

Definition value_methods_qtnetwork_0_s0 : list signature_row :=
  [
    Sig [] "clear" [] RVoid [On QAuthenticator];
    Sig [] "exchange" [] RString [On QDnsMailExchangeRecord];
    Sig [] "isNull" [] RBool [On QAuthenticator];
    Sig [TYPE_QTNETWORK_QDNSTLSASSOCIATIONRECORD] "matchType" [] (RMeta
        QDnsTlsAssociationRecord_MatchingType) [On QDnsTlsAssociationRecord];
    Sig [] "name" [] RString [On QDnsDomainNameRecord; On QDnsHostAddressRecord; On QDnsMailExchangeRecord;
        On QDnsServiceRecord; On QDnsTextRecord; On QDnsTlsAssociationRecord];
    Sig [] "option" [PString true] RVariant [On QAuthenticator];
    Sig [] "options" [] (RMap QVariantHash IVariant) [On QAuthenticator];
    Sig [] "password" [] RString [On QAuthenticator];
    Sig [] "realm" [] RString [On QAuthenticator]
  ].

Definition value_methods_qtnetwork_0_s9 : list signature_row :=
  [
    Sig [TYPE_QTNETWORK_QDNSTLSASSOCIATIONRECORD] "selector" [] (RMeta QDnsTlsAssociationRecord_Selector)
        [On QDnsTlsAssociationRecord];
    Sig [] "setOption" [PString true; PVariant] RVoid [On QAuthenticator];
    Sig [] "setPassword" [PString true] RVoid [On QAuthenticator];
    Sig [] "setUser" [PString true] RVoid [On QAuthenticator];
    Sig [VALUE_TYPE_QTNETWORK_QDNSDOMAINNAMERECORD] "swap" [PValue QDnsDomainNameRecord] RVoid [On
        QDnsDomainNameRecord];
    Sig [VALUE_TYPE_QTNETWORK_QDNSHOSTADDRESSRECORD] "swap" [PValue QDnsHostAddressRecord] RVoid [On
        QDnsHostAddressRecord];
    Sig [VALUE_TYPE_QTNETWORK_QDNSMAILEXCHANGERECORD] "swap" [PValue QDnsMailExchangeRecord] RVoid [On
        QDnsMailExchangeRecord];
    Sig [VALUE_TYPE_QTNETWORK_QDNSSERVICERECORD] "swap" [PValue QDnsServiceRecord] RVoid [On
        QDnsServiceRecord];
    Sig [VALUE_TYPE_QTNETWORK_QDNSTEXTRECORD] "swap" [PValue QDnsTextRecord] RVoid [On QDnsTextRecord]
  ].

Definition value_methods_qtnetwork_0_s18 : list signature_row :=
  [
    Sig [VALUE_TYPE_QTNETWORK_QDNSTLSASSOCIATIONRECORD] "swap" [PValue QDnsTlsAssociationRecord] RVoid [On
        QDnsTlsAssociationRecord];
    Sig [VALUE_TYPE_QTNETWORK_QFORMDATABUILDER] "swap" [PValue QFormDataBuilder] RVoid [On
        QFormDataBuilder];
    Sig [] "target" [] RString [On QDnsServiceRecord];
    Sig [TYPE_QTNETWORK_QDNSTLSASSOCIATIONRECORD] "usage" [] (RMeta
        QDnsTlsAssociationRecord_CertificateUsage) [On QDnsTlsAssociationRecord];
    Sig [] "user" [] RString [On QAuthenticator];
    Sig [VALUE_TYPE_QTCORE_QBYTEARRAY] "value" [] (RValue QByteArray) [On QDnsTlsAssociationRecord];
    Sig [VALUE_TYPE_QTNETWORK_QHOSTADDRESS] "value" [] (RValue QHostAddress) [On QDnsHostAddressRecord];
    Sig [] "value" [] RString [On QDnsDomainNameRecord];
    Sig [VALUE_TYPE_QTCORE_QBYTEARRAY] "values" [] (RList (IValue QByteArray)) [On QDnsTextRecord]
  ].

Definition value_methods_qtnetwork_0_types : list string :=
  [
    QAuthenticator;
    QDnsDomainNameRecord;
    QDnsHostAddressRecord;
    QDnsMailExchangeRecord;
    QDnsServiceRecord;
    QDnsTextRecord;
    QDnsTlsAssociationRecord;
    QFormDataBuilder
  ].

Definition value_methods_qtnetwork_0 : method_shard :=
  MethodShard QtNetwork "KRY_QT6_NATIVE_METHODS_QTNETWORK_"
    (value_methods_qtnetwork_0_i0)
    (value_methods_qtnetwork_0_s0 ++ value_methods_qtnetwork_0_s9 ++ value_methods_qtnetwork_0_s18)
    value_methods_qtnetwork_0_types.

Definition value_methods_qtnetwork_1_i0 : list include :=
  [
    ClassInclude QtNetwork QFormDataPartBuilder QFormDataPartBuilder;
    ClassInclude QtNetwork QHostAddress QHostAddress;
    ClassInclude QtNetwork QHostInfo QHostInfo;
    ClassInclude QtNetwork QHstsPolicy QHstsPolicy;
    ClassInclude QtNetwork QHttp1Configuration QHttp1Configuration;
    ClassInclude QtNetwork QHttp2Configuration QHttp2Configuration;
    ClassInclude QtNetwork QHttpHeaders QHttpHeaders;
    ClassInclude QtNetwork QHttpPart QHttpPart;
    TypeInclude QtCore QIODevice TYPE_QTCORE_QIODEVICE;
    TypeInclude QtCore QUrl TYPE_QTCORE_QURL;
    TypeInclude QtNetwork QAbstractSocket TYPE_QTNETWORK_QABSTRACTSOCKET;
    TypeInclude QtNetwork QHostAddress TYPE_QTNETWORK_QHOSTADDRESS;
    TypeInclude QtNetwork QHostInfo TYPE_QTNETWORK_QHOSTINFO;
    TypeInclude QtNetwork QHttpHeaders TYPE_QTNETWORK_QHTTPHEADERS;
    TypeInclude QtNetwork QNetworkRequest TYPE_QTNETWORK_QNETWORKREQUEST;
    TypeInclude QtCore QByteArray VALUE_TYPE_QTCORE_QBYTEARRAY;
    TypeInclude QtCore QDateTime VALUE_TYPE_QTCORE_QDATETIME;
    TypeInclude QtNetwork QFormDataPartBuilder VALUE_TYPE_QTNETWORK_QFORMDATAPARTBUILDER;
    TypeInclude QtNetwork QHostAddress VALUE_TYPE_QTNETWORK_QHOSTADDRESS;
    TypeInclude QtNetwork QHostInfo VALUE_TYPE_QTNETWORK_QHOSTINFO;
    TypeInclude QtNetwork QHstsPolicy VALUE_TYPE_QTNETWORK_QHSTSPOLICY;
    TypeInclude QtNetwork QHttp1Configuration VALUE_TYPE_QTNETWORK_QHTTP1CONFIGURATION;
    TypeInclude QtNetwork QHttp2Configuration VALUE_TYPE_QTNETWORK_QHTTP2CONFIGURATION;
    TypeInclude QtNetwork QHttpHeaders VALUE_TYPE_QTNETWORK_QHTTPHEADERS;
    TypeInclude QtNetwork QHttpPart VALUE_TYPE_QTNETWORK_QHTTPPART
  ].

Definition value_methods_qtnetwork_1_s0 : list signature_row :=
  [
    Sig [VALUE_TYPE_QTNETWORK_QHOSTADDRESS] "addresses" [] (RList (IValue QHostAddress)) [On QHostInfo];
    Sig [] "clear" [] RVoid [On QHostAddress; On QHttpHeaders];
    Sig [TYPE_QTNETWORK_QHTTPHEADERS; VALUE_TYPE_QTCORE_QBYTEARRAY] "combinedValue" [PValue
        QHttpHeaders_WellKnownHeader] (RValue QByteArray) [On QHttpHeaders];
    Sig [TYPE_QTNETWORK_QHTTPHEADERS] "contains" [PValue QHttpHeaders_WellKnownHeader] RBool [On
        QHttpHeaders];
    Sig [TYPE_QTNETWORK_QHOSTINFO] "error" [] (RMeta QHostInfo_HostInfoError) [On QHostInfo];
    Sig [] "errorString" [] RString [On QHostInfo];
    Sig [VALUE_TYPE_QTCORE_QDATETIME] "expiry" [] (RValue QDateTime) [On QHstsPolicy];
    Sig [] "hostName" [] RString [On QHostInfo];
    Sig [] "huffmanCompressionEnabled" [] RBool [On QHttp2Configuration];
    Sig [] "includesSubDomains" [] RBool [On QHstsPolicy]
  ].

Definition value_methods_qtnetwork_1_s10 : list signature_row :=
  [
    Sig [] "isBroadcast" [] RBool [On QHostAddress];
    Sig [] "isEmpty" [] RBool [On QHttpHeaders];
    Sig [] "isExpired" [] RBool [On QHstsPolicy];
    Sig [] "isGlobal" [] RBool [On QHostAddress];
    Sig [VALUE_TYPE_QTNETWORK_QHOSTADDRESS] "isInSubnet" [PValue QHostAddress; PInt] RBool [On
        QHostAddress];
    Sig [] "isLinkLocal" [] RBool [On QHostAddress];
    Sig [] "isLoopback" [] RBool [On QHostAddress];
    Sig [] "isMulticast" [] RBool [On QHostAddress];
    Sig [] "isNull" [] RBool [On QHostAddress];
    Sig [] "isPrivateUse" [] RBool [On QHostAddress];
    Sig [] "isSiteLocal" [] RBool [On QHostAddress]
  ].

Definition value_methods_qtnetwork_1_s21 : list signature_row :=
  [
    Sig [] "isUniqueLocalUnicast" [] RBool [On QHostAddress];
    Sig [] "lookupId" [] RDouble [On QHostInfo];
    Sig [] "maxConcurrentStreams" [] RDouble [On QHttp2Configuration];
    Sig [] "maxFrameSize" [] RDouble [On QHttp2Configuration];
    Sig [] "numberOfConnectionsPerHost" [] (RMeta cxx_qsizetype) [On QHttp1Configuration];
    Sig [TYPE_QTNETWORK_QABSTRACTSOCKET] "protocol" [] (RMeta QAbstractSocket_NetworkLayerProtocol) [On
        QHostAddress];
    Sig [TYPE_QTNETWORK_QHTTPHEADERS] "removeAll" [PValue QHttpHeaders_WellKnownHeader] RVoid [On
        QHttpHeaders];
    Sig [] "removeAt" [PMeta cxx_qsizetype] RVoid [On QHttpHeaders];
    Sig [] "reserve" [PMeta cxx_qsizetype] RVoid [On QHttpHeaders];
    Sig [] "scopeId" [] RString [On QHostAddress];
    Sig [] "serverPushEnabled" [] RBool [On QHttp2Configuration]
  ].

Definition value_methods_qtnetwork_1_s32 : list signature_row :=
  [
    Sig [] "sessionReceiveWindowSize" [] RDouble [On QHttp2Configuration];
    Sig [TYPE_QTNETWORK_QHOSTADDRESS] "setAddress" [PValue QHostAddress_SpecialAddress] RVoid [On
        QHostAddress];
    Sig [] "setAddress" [PString true] RBool [On QHostAddress];
    Sig [VALUE_TYPE_QTNETWORK_QHOSTADDRESS] "setAddresses" [PList (IValue QHostAddress)] RVoid [On
        QHostInfo];
    Sig [VALUE_TYPE_QTCORE_QBYTEARRAY] "setBody" [PValue QByteArray] RVoid [On QHttpPart];
    Sig [TYPE_QTCORE_QIODEVICE] "setBodyDevice" [PObject QIODevice false] RVoid [On QHttpPart];
    Sig [TYPE_QTNETWORK_QHTTPHEADERS; VALUE_TYPE_QTCORE_QDATETIME] "setDateTimeValue" [PValue
        QHttpHeaders_WellKnownHeader; PValue QDateTime] RVoid [On QHttpHeaders];
    Sig [TYPE_QTNETWORK_QHOSTINFO] "setError" [PValue QHostInfo_HostInfoError] RVoid [On QHostInfo];
    Sig [] "setErrorString" [PString true] RVoid [On QHostInfo]
  ].

Definition value_methods_qtnetwork_1_s41 : list signature_row :=
  [
    Sig [VALUE_TYPE_QTCORE_QDATETIME] "setExpiry" [PValue QDateTime] RVoid [On QHstsPolicy];
    Sig [TYPE_QTNETWORK_QNETWORKREQUEST] "setHeader" [PValue QNetworkRequest_KnownHeaders; PVariant] RVoid
        [On QHttpPart];
    Sig [VALUE_TYPE_QTNETWORK_QFORMDATAPARTBUILDER; VALUE_TYPE_QTNETWORK_QHTTPHEADERS] "setHeaders" [PValue
        QHttpHeaders] (RValue QFormDataPartBuilder) [On QFormDataPartBuilder];
    Sig [TYPE_QTCORE_QURL] "setHost" [PString true; PValue QUrl_ParsingMode] RVoid [On QHstsPolicy];
    Sig [] "setHostName" [PString true] RVoid [On QHostInfo];
    Sig [] "setHuffmanCompressionEnabled" [PBool] RVoid [On QHttp2Configuration];
    Sig [] "setIncludesSubDomains" [PBool] RVoid [On QHstsPolicy];
    Sig [] "setLookupId" [PInt] RVoid [On QHostInfo];
    Sig [] "setMaxConcurrentStreams" [PUInt] RVoid [On QHttp2Configuration]
  ].

Definition value_methods_qtnetwork_1_s50 : list signature_row :=
  [
    Sig [] "setMaxFrameSize" [PUInt] RBool [On QHttp2Configuration];
    Sig [] "setNumberOfConnectionsPerHost" [PMeta cxx_qsizetype] RVoid [On QHttp1Configuration];
    Sig [VALUE_TYPE_QTCORE_QBYTEARRAY] "setRawHeader" [PValue QByteArray; PValue QByteArray] RVoid [On
        QHttpPart];
    Sig [] "setScopeId" [PString true] RVoid [On QHostAddress];
    Sig [] "setServerPushEnabled" [PBool] RVoid [On QHttp2Configuration];
    Sig [] "setSessionReceiveWindowSize" [PUInt] RBool [On QHttp2Configuration];
    Sig [] "setStreamReceiveWindowSize" [PUInt] RBool [On QHttp2Configuration];
    Sig [] "size" [] (RMeta cxx_qsizetype) [On QHttpHeaders];
    Sig [] "streamReceiveWindowSize" [] RDouble [On QHttp2Configuration];
    Sig [VALUE_TYPE_QTNETWORK_QFORMDATAPARTBUILDER] "swap" [PValue QFormDataPartBuilder] RVoid [On
        QFormDataPartBuilder]
  ].

Definition value_methods_qtnetwork_1_s60 : list signature_row :=
  [
    Sig [VALUE_TYPE_QTNETWORK_QHOSTADDRESS] "swap" [PValue QHostAddress] RVoid [On QHostAddress];
    Sig [VALUE_TYPE_QTNETWORK_QHOSTINFO] "swap" [PValue QHostInfo] RVoid [On QHostInfo];
    Sig [VALUE_TYPE_QTNETWORK_QHSTSPOLICY] "swap" [PValue QHstsPolicy] RVoid [On QHstsPolicy];
    Sig [VALUE_TYPE_QTNETWORK_QHTTP1CONFIGURATION] "swap" [PValue QHttp1Configuration] RVoid [On
        QHttp1Configuration];
    Sig [VALUE_TYPE_QTNETWORK_QHTTP2CONFIGURATION] "swap" [PValue QHttp2Configuration] RVoid [On
        QHttp2Configuration];
    Sig [VALUE_TYPE_QTNETWORK_QHTTPHEADERS] "swap" [PValue QHttpHeaders] RVoid [On QHttpHeaders];
    Sig [VALUE_TYPE_QTNETWORK_QHTTPPART] "swap" [PValue QHttpPart] RVoid [On QHttpPart];
    Sig [] "toString" [] RString [On QHostAddress];
    Sig [TYPE_QTNETWORK_QHTTPHEADERS; VALUE_TYPE_QTCORE_QBYTEARRAY] "values" [PValue
        QHttpHeaders_WellKnownHeader] (RList (IValue QByteArray)) [On QHttpHeaders]
  ].

Definition value_methods_qtnetwork_1_types : list string :=
  [
    QFormDataPartBuilder;
    QHostAddress;
    QHostInfo;
    QHstsPolicy;
    QHttp1Configuration;
    QHttp2Configuration;
    QHttpHeaders;
    QHttpPart
  ].

Definition value_methods_qtnetwork_1 : method_shard :=
  MethodShard QtNetwork "KRY_QT6_NATIVE_METHODS_QTNETWORK_"
    (value_methods_qtnetwork_1_i0)
    (value_methods_qtnetwork_1_s0 ++ value_methods_qtnetwork_1_s10 ++ value_methods_qtnetwork_1_s21 ++
        value_methods_qtnetwork_1_s32 ++ value_methods_qtnetwork_1_s41 ++ value_methods_qtnetwork_1_s50 ++
        value_methods_qtnetwork_1_s60)
    value_methods_qtnetwork_1_types.

Definition value_methods_qtnetwork_2_i0 : list include :=
  [
    ClassInclude QtNetwork QNetworkAddressEntry QNetworkAddressEntry;
    ClassInclude QtNetwork QNetworkCacheMetaData QNetworkCacheMetaData;
    ClassInclude QtNetwork QNetworkCookie QNetworkCookie;
    ClassInclude QtNetwork QNetworkDatagram QNetworkDatagram;
    ClassInclude QtNetwork QNetworkInterface QNetworkInterface;
    ClassInclude QtNetwork QNetworkProxy QNetworkProxy;
    ClassInclude QtNetwork QNetworkProxyQuery QNetworkProxyQuery;
    ClassInclude QtNetwork QNetworkRequest QNetworkRequest;
    TypeInclude QtCore QObject TYPE_QTCORE_QOBJECT;
    TypeInclude QtNetwork QNetworkAddressEntry TYPE_QTNETWORK_QNETWORKADDRESSENTRY;
    TypeInclude QtNetwork QNetworkCookie TYPE_QTNETWORK_QNETWORKCOOKIE;
    TypeInclude QtNetwork QNetworkInterface TYPE_QTNETWORK_QNETWORKINTERFACE;
    TypeInclude QtNetwork QNetworkProxy TYPE_QTNETWORK_QNETWORKPROXY;
    TypeInclude QtNetwork QNetworkProxyQuery TYPE_QTNETWORK_QNETWORKPROXYQUERY;
    TypeInclude QtNetwork QNetworkRequest TYPE_QTNETWORK_QNETWORKREQUEST;
    TypeInclude QtCore QByteArray VALUE_TYPE_QTCORE_QBYTEARRAY;
    TypeInclude QtCore QDateTime VALUE_TYPE_QTCORE_QDATETIME;
    TypeInclude QtCore QDeadlineTimer VALUE_TYPE_QTCORE_QDEADLINETIMER;
    TypeInclude QtCore QUrl VALUE_TYPE_QTCORE_QURL;
    TypeInclude QtNetwork QHostAddress VALUE_TYPE_QTNETWORK_QHOSTADDRESS;
    TypeInclude QtNetwork QHttp1Configuration VALUE_TYPE_QTNETWORK_QHTTP1CONFIGURATION;
    TypeInclude QtNetwork QHttp2Configuration VALUE_TYPE_QTNETWORK_QHTTP2CONFIGURATION;
    TypeInclude QtNetwork QHttpHeaders VALUE_TYPE_QTNETWORK_QHTTPHEADERS;
    TypeInclude QtNetwork QNetworkAddressEntry VALUE_TYPE_QTNETWORK_QNETWORKADDRESSENTRY;
    TypeInclude QtNetwork QNetworkCacheMetaData VALUE_TYPE_QTNETWORK_QNETWORKCACHEMETADATA;
    TypeInclude QtNetwork QNetworkCookie VALUE_TYPE_QTNETWORK_QNETWORKCOOKIE;
    TypeInclude QtNetwork QNetworkDatagram VALUE_TYPE_QTNETWORK_QNETWORKDATAGRAM;
    TypeInclude QtNetwork QNetworkInterface VALUE_TYPE_QTNETWORK_QNETWORKINTERFACE;
    TypeInclude QtNetwork QNetworkProxy VALUE_TYPE_QTNETWORK_QNETWORKPROXY;
    TypeInclude QtNetwork QNetworkProxyQuery VALUE_TYPE_QTNETWORK_QNETWORKPROXYQUERY;
    TypeInclude QtNetwork QNetworkRequest VALUE_TYPE_QTNETWORK_QNETWORKREQUEST;
    TypeInclude QtNetwork QSslConfiguration VALUE_TYPE_QTNETWORK_QSSLCONFIGURATION
  ].

Definition value_methods_qtnetwork_2_s0 : list signature_row :=
  [
    Sig [VALUE_TYPE_QTNETWORK_QNETWORKADDRESSENTRY] "addressEntries" [] (RList (IValue
        QNetworkAddressEntry)) [On QNetworkInterface];
    Sig [TYPE_QTNETWORK_QNETWORKREQUEST] "attribute" [PValue QNetworkRequest_Attribute; PVariant] RVariant
        [On QNetworkRequest];
    Sig [VALUE_TYPE_QTNETWORK_QHOSTADDRESS] "broadcast" [] (RValue QHostAddress) [On QNetworkAddressEntry];
    Sig [TYPE_QTNETWORK_QNETWORKPROXY] "capabilities" [] (RMeta QNetworkProxy_Capabilities) [On
        QNetworkProxy];
    Sig [] "clear" [] RVoid [On QNetworkDatagram];
    Sig [] "clearAddressLifetime" [] RVoid [On QNetworkAddressEntry];
    Sig [VALUE_TYPE_QTCORE_QBYTEARRAY] "data" [] (RValue QByteArray) [On QNetworkDatagram];
    Sig [] "decompressedSafetyCheckThreshold" [] (RMeta cxx_qint64) [On QNetworkRequest];
    Sig [VALUE_TYPE_QTNETWORK_QHOSTADDRESS] "destinationAddress" [] (RValue QHostAddress) [On
        QNetworkDatagram];
    Sig [] "destinationPort" [] RDouble [On QNetworkDatagram]
  ].

Definition value_methods_qtnetwork_2_s10 : list signature_row :=
  [
    Sig [TYPE_QTNETWORK_QNETWORKADDRESSENTRY] "dnsEligibility" [] (RMeta
        QNetworkAddressEntry_DnsEligibilityStatus) [On QNetworkAddressEntry];
    Sig [] "domain" [] RString [On QNetworkCookie];
    Sig [VALUE_TYPE_QTCORE_QDATETIME] "expirationDate" [] (RValue QDateTime) [On QNetworkCacheMetaData; On
        QNetworkCookie];
    Sig [] "hardwareAddress" [] RString [On QNetworkInterface];
    Sig [VALUE_TYPE_QTCORE_QBYTEARRAY] "hasRawHeader" [PValue QByteArray] RBool [On QNetworkProxy];
    Sig [VALUE_TYPE_QTNETWORK_QNETWORKCOOKIE] "hasSameIdentifier" [PValue QNetworkCookie] RBool [On
        QNetworkCookie];
    Sig [TYPE_QTNETWORK_QNETWORKREQUEST] "header" [PValue QNetworkRequest_KnownHeaders] RVariant [On
        QNetworkProxy; On QNetworkRequest];
    Sig [VALUE_TYPE_QTNETWORK_QHTTPHEADERS] "headers" [] (RValue QHttpHeaders) [On QNetworkCacheMetaData;
        On QNetworkProxy; On QNetworkRequest]
  ].

Definition value_methods_qtnetwork_2_s18 : list signature_row :=
  [
    Sig [] "hopLimit" [] RDouble [On QNetworkDatagram];
    Sig [] "hostName" [] RString [On QNetworkProxy];
    Sig [VALUE_TYPE_QTNETWORK_QHTTP1CONFIGURATION] "http1Configuration" [] (RValue QHttp1Configuration) [On
        QNetworkRequest];
    Sig [VALUE_TYPE_QTNETWORK_QHTTP2CONFIGURATION] "http2Configuration" [] (RValue QHttp2Configuration) [On
        QNetworkRequest];
    Sig [] "humanReadableName" [] RString [On QNetworkInterface];
    Sig [] "index" [] RDouble [On QNetworkInterface];
    Sig [] "interfaceIndex" [] RDouble [On QNetworkDatagram];
    Sig [VALUE_TYPE_QTNETWORK_QHOSTADDRESS] "ip" [] (RValue QHostAddress) [On QNetworkAddressEntry];
    Sig [] "isCachingProxy" [] RBool [On QNetworkProxy];
    Sig [] "isHttpOnly" [] RBool [On QNetworkCookie];
    Sig [] "isLifetimeKnown" [] RBool [On QNetworkAddressEntry]
  ].

Definition value_methods_qtnetwork_2_s29 : list signature_row :=
  [
    Sig [] "isNull" [] RBool [On QNetworkDatagram];
    Sig [] "isPermanent" [] RBool [On QNetworkAddressEntry];
    Sig [] "isSecure" [] RBool [On QNetworkCookie];
    Sig [] "isSessionCookie" [] RBool [On QNetworkCookie];
    Sig [] "isTemporary" [] RBool [On QNetworkAddressEntry];
    Sig [] "isTransparentProxy" [] RBool [On QNetworkProxy];
    Sig [] "isValid" [] RBool [On QNetworkCacheMetaData; On QNetworkDatagram; On QNetworkInterface];
    Sig [VALUE_TYPE_QTCORE_QDATETIME] "lastModified" [] (RValue QDateTime) [On QNetworkCacheMetaData];
    Sig [] "localPort" [] RDouble [On QNetworkProxyQuery];
    Sig [VALUE_TYPE_QTCORE_QBYTEARRAY; VALUE_TYPE_QTNETWORK_QNETWORKDATAGRAM] "makeReply" [PValue
        QByteArray] (RValue QNetworkDatagram) [On QNetworkDatagram]
  ].

Definition value_methods_qtnetwork_2_s39 : list signature_row :=
  [
    Sig [] "maximumRedirectsAllowed" [] RDouble [On QNetworkRequest];
    Sig [] "maximumTransmissionUnit" [] RDouble [On QNetworkInterface];
    Sig [VALUE_TYPE_QTCORE_QBYTEARRAY] "name" [] (RValue QByteArray) [On QNetworkCookie];
    Sig [] "name" [] RString [On QNetworkInterface];
    Sig [VALUE_TYPE_QTNETWORK_QHOSTADDRESS] "netmask" [] (RValue QHostAddress) [On QNetworkAddressEntry];
    Sig [VALUE_TYPE_QTCORE_QURL] "normalize" [PValue QUrl] RVoid [On QNetworkCookie];
    Sig [TYPE_QTCORE_QOBJECT] "originatingObject" [] RObject [On QNetworkRequest];
    Sig [] "password" [] RString [On QNetworkProxy];
    Sig [] "path" [] RString [On QNetworkCookie];
    Sig [] "peerHostName" [] RString [On QNetworkProxyQuery];
    Sig [] "peerPort" [] RDouble [On QNetworkProxyQuery]
  ].

Definition value_methods_qtnetwork_2_s50 : list signature_row :=
  [
    Sig [] "peerVerifyName" [] RString [On QNetworkRequest];
    Sig [VALUE_TYPE_QTCORE_QDEADLINETIMER] "preferredLifetime" [] (RValue QDeadlineTimer) [On
        QNetworkAddressEntry];
    Sig [] "prefixLength" [] RDouble [On QNetworkAddressEntry];
    Sig [TYPE_QTNETWORK_QNETWORKREQUEST] "priority" [] (RMeta QNetworkRequest_Priority) [On
        QNetworkRequest];
    Sig [] "protocolTag" [] RString [On QNetworkProxyQuery];
    Sig [TYPE_QTNETWORK_QNETWORKPROXYQUERY] "queryType" [] (RMeta QNetworkProxyQuery_QueryType) [On
        QNetworkProxyQuery];
    Sig [VALUE_TYPE_QTCORE_QBYTEARRAY] "rawHeader" [PValue QByteArray] (RValue QByteArray) [On
        QNetworkProxy];
    Sig [VALUE_TYPE_QTCORE_QBYTEARRAY] "rawHeaderList" [] (RList (IValue QByteArray)) [On QNetworkProxy; On
        QNetworkRequest];
    Sig [TYPE_QTNETWORK_QNETWORKCOOKIE] "sameSitePolicy" [] (RMeta QNetworkCookie_SameSite) [On
        QNetworkCookie];
    Sig [] "saveToDisk" [] RBool [On QNetworkCacheMetaData]
  ].

Definition value_methods_qtnetwork_2_s60 : list signature_row :=
  [
    Sig [VALUE_TYPE_QTNETWORK_QHOSTADDRESS] "senderAddress" [] (RValue QHostAddress) [On QNetworkDatagram];
    Sig [] "senderPort" [] RDouble [On QNetworkDatagram];
    Sig [VALUE_TYPE_QTCORE_QDEADLINETIMER] "setAddressLifetime" [PValue QDeadlineTimer; PValue
        QDeadlineTimer] RVoid [On QNetworkAddressEntry];
    Sig [TYPE_QTNETWORK_QNETWORKREQUEST] "setAttribute" [PValue QNetworkRequest_Attribute; PVariant] RVoid
        [On QNetworkRequest];
    Sig [VALUE_TYPE_QTNETWORK_QHOSTADDRESS] "setBroadcast" [PValue QHostAddress] RVoid [On
        QNetworkAddressEntry];
    Sig [TYPE_QTNETWORK_QNETWORKPROXY] "setCapabilities" [PValue QNetworkProxy_Capabilities] RVoid [On
        QNetworkProxy];
    Sig [VALUE_TYPE_QTCORE_QBYTEARRAY] "setData" [PValue QByteArray] RVoid [On QNetworkDatagram];
    Sig [] "setDecompressedSafetyCheckThreshold" [PMeta cxx_qint64] RVoid [On QNetworkRequest];
    Sig [TYPE_QTNETWORK_QNETWORKADDRESSENTRY] "setDnsEligibility" [PValue
        QNetworkAddressEntry_DnsEligibilityStatus] RVoid [On QNetworkAddressEntry]
  ].

Definition value_methods_qtnetwork_2_s69 : list signature_row :=
  [
    Sig [] "setDomain" [PString true] RVoid [On QNetworkCookie];
    Sig [VALUE_TYPE_QTCORE_QDATETIME] "setExpirationDate" [PValue QDateTime] RVoid [On
        QNetworkCacheMetaData; On QNetworkCookie];
    Sig [TYPE_QTNETWORK_QNETWORKREQUEST] "setHeader" [PValue QNetworkRequest_KnownHeaders; PVariant] RVoid
        [On QNetworkProxy; On QNetworkRequest];
    Sig [VALUE_TYPE_QTNETWORK_QHTTPHEADERS] "setHeaders" [PValue QHttpHeaders] RVoid [On
        QNetworkCacheMetaData; On QNetworkProxy; On QNetworkRequest];
    Sig [] "setHopLimit" [PInt] RVoid [On QNetworkDatagram];
    Sig [] "setHostName" [PString true] RVoid [On QNetworkProxy];
    Sig [VALUE_TYPE_QTNETWORK_QHTTP1CONFIGURATION] "setHttp1Configuration" [PValue QHttp1Configuration]
        RVoid [On QNetworkRequest];
    Sig [VALUE_TYPE_QTNETWORK_QHTTP2CONFIGURATION] "setHttp2Configuration" [PValue QHttp2Configuration]
        RVoid [On QNetworkRequest]
  ].

Definition value_methods_qtnetwork_2_s77 : list signature_row :=
  [
    Sig [] "setHttpOnly" [PBool] RVoid [On QNetworkCookie];
    Sig [] "setInterfaceIndex" [PUInt] RVoid [On QNetworkDatagram];
    Sig [VALUE_TYPE_QTNETWORK_QHOSTADDRESS] "setIp" [PValue QHostAddress] RVoid [On QNetworkAddressEntry];
    Sig [VALUE_TYPE_QTCORE_QDATETIME] "setLastModified" [PValue QDateTime] RVoid [On QNetworkCacheMetaData];
    Sig [] "setLocalPort" [PInt] RVoid [On QNetworkProxyQuery];
    Sig [] "setMaximumRedirectsAllowed" [PInt] RVoid [On QNetworkRequest];
    Sig [VALUE_TYPE_QTCORE_QBYTEARRAY] "setName" [PValue QByteArray] RVoid [On QNetworkCookie];
    Sig [VALUE_TYPE_QTNETWORK_QHOSTADDRESS] "setNetmask" [PValue QHostAddress] RVoid [On
        QNetworkAddressEntry];
    Sig [TYPE_QTCORE_QOBJECT] "setOriginatingObject" [PObject QObject false] RVoid [On QNetworkRequest]
  ].

Definition value_methods_qtnetwork_2_s86 : list signature_row :=
  [
    Sig [] "setPassword" [PString true] RVoid [On QNetworkProxy];
    Sig [] "setPath" [PString true] RVoid [On QNetworkCookie];
    Sig [] "setPeerHostName" [PString true] RVoid [On QNetworkProxyQuery];
    Sig [] "setPeerPort" [PInt] RVoid [On QNetworkProxyQuery];
    Sig [] "setPeerVerifyName" [PString true] RVoid [On QNetworkRequest];
    Sig [] "setPrefixLength" [PInt] RVoid [On QNetworkAddressEntry];
    Sig [TYPE_QTNETWORK_QNETWORKREQUEST] "setPriority" [PValue QNetworkRequest_Priority] RVoid [On
        QNetworkRequest];
    Sig [] "setProtocolTag" [PString true] RVoid [On QNetworkProxyQuery];
    Sig [TYPE_QTNETWORK_QNETWORKPROXYQUERY] "setQueryType" [PValue QNetworkProxyQuery_QueryType] RVoid [On
        QNetworkProxyQuery]
  ].

Definition value_methods_qtnetwork_2_s95 : list signature_row :=
  [
    Sig [VALUE_TYPE_QTCORE_QBYTEARRAY] "setRawHeader" [PValue QByteArray; PValue QByteArray] RVoid [On
        QNetworkProxy; On QNetworkRequest];
    Sig [TYPE_QTNETWORK_QNETWORKCOOKIE] "setSameSitePolicy" [PValue QNetworkCookie_SameSite] RVoid [On
        QNetworkCookie];
    Sig [] "setSaveToDisk" [PBool] RVoid [On QNetworkCacheMetaData];
    Sig [] "setSecure" [PBool] RVoid [On QNetworkCookie];
    Sig [VALUE_TYPE_QTNETWORK_QSSLCONFIGURATION] "setSslConfiguration" [PValue QSslConfiguration] RVoid [On
        QNetworkRequest];
    Sig [] "setTcpKeepAliveProbeCount" [PInt] RVoid [On QNetworkRequest];
    Sig [] "setTransferTimeout" [PInt] RVoid [On QNetworkRequest];
    Sig [TYPE_QTNETWORK_QNETWORKPROXY] "setType" [PValue QNetworkProxy_ProxyType] RVoid [On QNetworkProxy]
  ].

Definition value_methods_qtnetwork_2_s103 : list signature_row :=
  [
    Sig [VALUE_TYPE_QTCORE_QURL] "setUrl" [PValue QUrl] RVoid [On QNetworkCacheMetaData; On
        QNetworkProxyQuery; On QNetworkRequest];
    Sig [] "setUser" [PString true] RVoid [On QNetworkProxy];
    Sig [VALUE_TYPE_QTCORE_QBYTEARRAY] "setValue" [PValue QByteArray] RVoid [On QNetworkCookie];
    Sig [VALUE_TYPE_QTNETWORK_QSSLCONFIGURATION] "sslConfiguration" [] (RValue QSslConfiguration) [On
        QNetworkRequest];
    Sig [VALUE_TYPE_QTNETWORK_QNETWORKADDRESSENTRY] "swap" [PValue QNetworkAddressEntry] RVoid [On
        QNetworkAddressEntry];
    Sig [VALUE_TYPE_QTNETWORK_QNETWORKCACHEMETADATA] "swap" [PValue QNetworkCacheMetaData] RVoid [On
        QNetworkCacheMetaData];
    Sig [VALUE_TYPE_QTNETWORK_QNETWORKCOOKIE] "swap" [PValue QNetworkCookie] RVoid [On QNetworkCookie];
    Sig [VALUE_TYPE_QTNETWORK_QNETWORKDATAGRAM] "swap" [PValue QNetworkDatagram] RVoid [On QNetworkDatagram]
  ].

Definition value_methods_qtnetwork_2_s111 : list signature_row :=
  [
    Sig [VALUE_TYPE_QTNETWORK_QNETWORKINTERFACE] "swap" [PValue QNetworkInterface] RVoid [On
        QNetworkInterface];
    Sig [VALUE_TYPE_QTNETWORK_QNETWORKPROXY] "swap" [PValue QNetworkProxy] RVoid [On QNetworkProxy];
    Sig [VALUE_TYPE_QTNETWORK_QNETWORKPROXYQUERY] "swap" [PValue QNetworkProxyQuery] RVoid [On
        QNetworkProxyQuery];
    Sig [VALUE_TYPE_QTNETWORK_QNETWORKREQUEST] "swap" [PValue QNetworkRequest] RVoid [On QNetworkRequest];
    Sig [] "tcpKeepAliveProbeCount" [] RDouble [On QNetworkRequest];
    Sig [TYPE_QTNETWORK_QNETWORKCOOKIE; VALUE_TYPE_QTCORE_QBYTEARRAY] "toRawForm" [PValue
        QNetworkCookie_RawForm] (RValue QByteArray) [On QNetworkCookie];
    Sig [] "transferTimeout" [] RDouble [On QNetworkRequest];
    Sig [TYPE_QTNETWORK_QNETWORKINTERFACE] "type" [] (RMeta QNetworkInterface_InterfaceType) [On
        QNetworkInterface];
    Sig [TYPE_QTNETWORK_QNETWORKPROXY] "type" [] (RMeta QNetworkProxy_ProxyType) [On QNetworkProxy]
  ].

Definition value_methods_qtnetwork_2_s120 : list signature_row :=
  [
    Sig [VALUE_TYPE_QTCORE_QURL] "url" [] (RValue QUrl) [On QNetworkCacheMetaData; On QNetworkProxyQuery;
        On QNetworkRequest];
    Sig [] "user" [] RString [On QNetworkProxy];
    Sig [VALUE_TYPE_QTCORE_QDEADLINETIMER] "validityLifetime" [] (RValue QDeadlineTimer) [On
        QNetworkAddressEntry];
    Sig [VALUE_TYPE_QTCORE_QBYTEARRAY] "value" [] (RValue QByteArray) [On QNetworkCookie]
  ].

Definition value_methods_qtnetwork_2_types : list string :=
  [
    QNetworkAddressEntry;
    QNetworkCacheMetaData;
    QNetworkCookie;
    QNetworkDatagram;
    QNetworkInterface;
    QNetworkProxy;
    QNetworkProxyQuery;
    QNetworkRequest
  ].

Definition value_methods_qtnetwork_2 : method_shard :=
  MethodShard QtNetwork "KRY_QT6_NATIVE_METHODS_QTNETWORK_"
    (value_methods_qtnetwork_2_i0)
    (value_methods_qtnetwork_2_s0 ++ value_methods_qtnetwork_2_s10 ++ value_methods_qtnetwork_2_s18 ++
        value_methods_qtnetwork_2_s29 ++ value_methods_qtnetwork_2_s39 ++ value_methods_qtnetwork_2_s50 ++
        value_methods_qtnetwork_2_s60 ++ value_methods_qtnetwork_2_s69 ++ value_methods_qtnetwork_2_s77 ++
        value_methods_qtnetwork_2_s86 ++ value_methods_qtnetwork_2_s95 ++ value_methods_qtnetwork_2_s103 ++
        value_methods_qtnetwork_2_s111 ++ value_methods_qtnetwork_2_s120)
    value_methods_qtnetwork_2_types.

Definition value_methods_qtnetwork_3_i0 : list include :=
  [
    ClassInclude QtNetwork QNetworkRequestFactory QNetworkRequestFactory;
    ClassInclude QtNetwork QOcspResponse QOcspResponse;
    ClassInclude QtNetwork QRestReply QRestReply;
    ClassInclude QtNetwork QSslCertificate QSslCertificate;
    ClassInclude QtNetwork QSslCertificateExtension QSslCertificateExtension;
    ClassInclude QtNetwork QSslCipher QSslCipher;
    ClassInclude QtNetwork QSslConfiguration QSslConfiguration;
    ClassInclude QtNetwork QSslDiffieHellmanParameters QSslDiffieHellmanParameters;
    TypeInclude QtNetwork QNetworkReply TYPE_QTNETWORK_QNETWORKREPLY;
    TypeInclude QtCore QCryptographicHash TYPE_QTCORE_QCRYPTOGRAPHICHASH;
    TypeInclude QtNetwork QNetworkReply TYPE_QTNETWORK_QNETWORKREPLY;
    TypeInclude QtNetwork QNetworkRequest TYPE_QTNETWORK_QNETWORKREQUEST;
    TypeInclude QtNetwork QSslCertificate TYPE_QTNETWORK_QSSLCERTIFICATE;
    TypeInclude QtNetwork QSslConfiguration TYPE_QTNETWORK_QSSLCONFIGURATION;
    TypeInclude QtNetwork QSslDiffieHellmanParameters TYPE_QTNETWORK_QSSLDIFFIEHELLMANPARAMETERS;
    TypeInclude QtNetwork QSslSocket TYPE_QTNETWORK_QSSLSOCKET;
    TypeInclude QtCore QByteArray VALUE_TYPE_QTCORE_QBYTEARRAY;
    TypeInclude QtCore QDateTime VALUE_TYPE_QTCORE_QDATETIME;
    TypeInclude QtCore QUrl VALUE_TYPE_QTCORE_QURL;
    TypeInclude QtCore QUrlQuery VALUE_TYPE_QTCORE_QURLQUERY;
    TypeInclude QtNetwork QHttpHeaders VALUE_TYPE_QTNETWORK_QHTTPHEADERS;
    TypeInclude QtNetwork QNetworkRequest VALUE_TYPE_QTNETWORK_QNETWORKREQUEST;
    TypeInclude QtNetwork QNetworkRequestFactory VALUE_TYPE_QTNETWORK_QNETWORKREQUESTFACTORY;
    TypeInclude QtNetwork QOcspResponse VALUE_TYPE_QTNETWORK_QOCSPRESPONSE;
    TypeInclude QtNetwork QRestReply VALUE_TYPE_QTNETWORK_QRESTREPLY;
    TypeInclude QtNetwork QSslCertificate VALUE_TYPE_QTNETWORK_QSSLCERTIFICATE;
    TypeInclude QtNetwork QSslCertificateExtension VALUE_TYPE_QTNETWORK_QSSLCERTIFICATEEXTENSION;
    TypeInclude QtNetwork QSslCipher VALUE_TYPE_QTNETWORK_QSSLCIPHER;
    TypeInclude QtNetwork QSslConfiguration VALUE_TYPE_QTNETWORK_QSSLCONFIGURATION;
    TypeInclude QtNetwork QSslDiffieHellmanParameters VALUE_TYPE_QTNETWORK_QSSLDIFFIEHELLMANPARAMETERS;
    TypeInclude QtNetwork QSslEllipticCurve VALUE_TYPE_QTNETWORK_QSSLELLIPTICCURVE;
    TypeInclude QtNetwork QSslKey VALUE_TYPE_QTNETWORK_QSSLKEY
  ].

Definition value_methods_qtnetwork_3_s0 : list signature_row :=
  [
    Sig [VALUE_TYPE_QTNETWORK_QSSLCERTIFICATE] "addCaCertificate" [PValue QSslCertificate] RVoid [On
        QSslConfiguration];
    Sig [VALUE_TYPE_QTNETWORK_QSSLCERTIFICATE] "addCaCertificates" [PList (IValue QSslCertificate)] RVoid
        [On QSslConfiguration];
    Sig [VALUE_TYPE_QTCORE_QBYTEARRAY] "allowedNextProtocols" [] (RList (IValue QByteArray)) [On
        QSslConfiguration];
    Sig [TYPE_QTNETWORK_QNETWORKREQUEST] "attribute" [PValue QNetworkRequest_Attribute] RVariant [On
        QNetworkRequestFactory];
    Sig [TYPE_QTNETWORK_QNETWORKREQUEST] "attribute" [PValue QNetworkRequest_Attribute; PVariant] RVariant
        [On QNetworkRequestFactory];
    Sig [] "authenticationMethod" [] RString [On QSslCipher];
    Sig [VALUE_TYPE_QTCORE_QURL] "baseUrl" [] (RValue QUrl) [On QNetworkRequestFactory];
    Sig [VALUE_TYPE_QTCORE_QBYTEARRAY] "bearerToken" [] (RValue QByteArray) [On QNetworkRequestFactory];
    Sig [VALUE_TYPE_QTNETWORK_QSSLCERTIFICATE] "caCertificates" [] (RList (IValue QSslCertificate)) [On
        QSslConfiguration]
  ].

Definition value_methods_qtnetwork_3_s9 : list signature_row :=
  [
    Sig [VALUE_TYPE_QTNETWORK_QSSLCIPHER] "ciphers" [] (RList (IValue QSslCipher)) [On QSslConfiguration];
    Sig [] "clear" [] RVoid [On QSslCertificate];
    Sig [TYPE_QTNETWORK_QNETWORKREQUEST] "clearAttribute" [PValue QNetworkRequest_Attribute] RVoid [On
        QNetworkRequestFactory];
    Sig [] "clearAttributes" [] RVoid [On QNetworkRequestFactory];
    Sig [] "clearBearerToken" [] RVoid [On QNetworkRequestFactory];
    Sig [] "clearCommonHeaders" [] RVoid [On QNetworkRequestFactory];
    Sig [] "clearPassword" [] RVoid [On QNetworkRequestFactory];
    Sig [] "clearQueryParameters" [] RVoid [On QNetworkRequestFactory];
    Sig [] "clearUserName" [] RVoid [On QNetworkRequestFactory];
    Sig [VALUE_TYPE_QTNETWORK_QHTTPHEADERS] "commonHeaders" [] (RValue QHttpHeaders) [On
        QNetworkRequestFactory]
  ].

Definition value_methods_qtnetwork_3_s19 : list signature_row :=
  [
    Sig [VALUE_TYPE_QTNETWORK_QNETWORKREQUEST] "createRequest" [] (RValue QNetworkRequest) [On
        QNetworkRequestFactory];
    Sig [VALUE_TYPE_QTNETWORK_QNETWORKREQUEST] "createRequest" [PString true] (RValue QNetworkRequest) [On
        QNetworkRequestFactory];
    Sig [VALUE_TYPE_QTCORE_QURLQUERY; VALUE_TYPE_QTNETWORK_QNETWORKREQUEST] "createRequest" [PString true;
        PValue QUrlQuery] (RValue QNetworkRequest) [On QNetworkRequestFactory];
    Sig [VALUE_TYPE_QTCORE_QURLQUERY; VALUE_TYPE_QTNETWORK_QNETWORKREQUEST] "createRequest" [PValue
        QUrlQuery] (RValue QNetworkRequest) [On QNetworkRequestFactory];
    Sig [VALUE_TYPE_QTNETWORK_QSSLDIFFIEHELLMANPARAMETERS] "diffieHellmanParameters" [] (RValue
        QSslDiffieHellmanParameters) [On QSslConfiguration];
    Sig [TYPE_QTCORE_QCRYPTOGRAPHICHASH; VALUE_TYPE_QTCORE_QBYTEARRAY] "digest" [PValue
        QCryptographicHash_Algorithm] (RValue QByteArray) [On QSslCertificate];
    Sig [] "dtlsCookieVerificationEnabled" [] RBool [On QSslConfiguration];
    Sig [VALUE_TYPE_QTCORE_QDATETIME] "effectiveDate" [] (RValue QDateTime) [On QSslCertificate];
    Sig [VALUE_TYPE_QTNETWORK_QSSLELLIPTICCURVE] "ellipticCurves" [] (RList (IValue QSslEllipticCurve)) [On
        QSslConfiguration]
  ].

Definition value_methods_qtnetwork_3_s28 : list signature_row :=
  [
    Sig [] "encryptionMethod" [] RString [On QSslCipher];
    Sig [VALUE_TYPE_QTNETWORK_QSSLKEY] "ephemeralServerKey" [] (RValue QSslKey) [On QSslConfiguration];
    Sig [TYPE_QTNETWORK_QNETWORKREPLY] "error" [] (RMeta QNetworkReply_NetworkError) [On QRestReply];
    Sig [TYPE_QTNETWORK_QSSLDIFFIEHELLMANPARAMETERS] "error" [] (RMeta QSslDiffieHellmanParameters_Error)
        [On QSslDiffieHellmanParameters];
    Sig [] "errorString" [] RString [On QRestReply; On QSslDiffieHellmanParameters];
    Sig [VALUE_TYPE_QTCORE_QDATETIME] "expiryDate" [] (RValue QDateTime) [On QSslCertificate];
    Sig [VALUE_TYPE_QTNETWORK_QSSLCERTIFICATEEXTENSION] "extensions" [] (RList (IValue
        QSslCertificateExtension)) [On QSslCertificate];
    Sig [] "handshakeMustInterruptOnError" [] RBool [On QSslConfiguration];
    Sig [] "hasError" [] RBool [On QRestReply];
    Sig [] "httpStatus" [] RDouble [On QRestReply]
  ].

Definition value_methods_qtnetwork_3_s38 : list signature_row :=
  [
    Sig [] "isBlacklisted" [] RBool [On QSslCertificate];
    Sig [] "isCritical" [] RBool [On QSslCertificateExtension];
    Sig [] "isEmpty" [] RBool [On QSslDiffieHellmanParameters];
    Sig [] "isHttpStatusSuccess" [] RBool [On QRestReply];
    Sig [] "isNull" [] RBool [On QSslCertificate; On QSslCipher; On QSslConfiguration];
    Sig [] "isSelfSigned" [] RBool [On QSslCertificate];
    Sig [] "isSuccess" [] RBool [On QRestReply];
    Sig [] "isSupported" [] RBool [On QSslCertificateExtension];
    Sig [] "isValid" [] RBool [On QSslDiffieHellmanParameters];
    Sig [] "issuerDisplayName" [] RString [On QSslCertificate];
    Sig [VALUE_TYPE_QTCORE_QBYTEARRAY] "issuerInfo" [PValue QByteArray] (RList (IMeta QString)) [On
        QSslCertificate]
  ].

Definition value_methods_qtnetwork_3_s49 : list signature_row :=
  [
    Sig [TYPE_QTNETWORK_QSSLCERTIFICATE] "issuerInfo" [PValue QSslCertificate_SubjectInfo] (RList (IMeta
        QString)) [On QSslCertificate];
    Sig [VALUE_TYPE_QTCORE_QBYTEARRAY] "issuerInfoAttributes" [] (RList (IValue QByteArray)) [On
        QSslCertificate];
    Sig [] "keyExchangeMethod" [] RString [On QSslCipher];
    Sig [VALUE_TYPE_QTNETWORK_QSSLCERTIFICATE] "localCertificate" [] (RValue QSslCertificate) [On
        QSslConfiguration];
    Sig [VALUE_TYPE_QTNETWORK_QSSLCERTIFICATE] "localCertificateChain" [] (RList (IValue QSslCertificate))
        [On QSslConfiguration];
    Sig [] "missingCertificateIsFatal" [] RBool [On QSslConfiguration];
    Sig [] "name" [] RString [On QSslCertificateExtension; On QSslCipher];
    Sig [TYPE_QTNETWORK_QNETWORKREPLY] "networkReply" [] RObject [On QRestReply];
    Sig [VALUE_TYPE_QTCORE_QBYTEARRAY] "nextNegotiatedProtocol" [] (RValue QByteArray) [On
        QSslConfiguration]
  ].

Definition value_methods_qtnetwork_3_s58 : list signature_row :=
  [
    Sig [TYPE_QTNETWORK_QSSLCONFIGURATION] "nextProtocolNegotiationStatus" [] (RMeta
        QSslConfiguration_NextProtocolNegotiationStatus) [On QSslConfiguration];
    Sig [] "ocspStaplingEnabled" [] RBool [On QSslConfiguration];
    Sig [] "oid" [] RString [On QSslCertificateExtension];
    Sig [] "password" [] RString [On QNetworkRequestFactory];
    Sig [VALUE_TYPE_QTNETWORK_QSSLCERTIFICATE] "peerCertificate" [] (RValue QSslCertificate) [On
        QSslConfiguration];
    Sig [VALUE_TYPE_QTNETWORK_QSSLCERTIFICATE] "peerCertificateChain" [] (RList (IValue QSslCertificate))
        [On QSslConfiguration];
    Sig [] "peerVerifyDepth" [] RDouble [On QSslConfiguration];
    Sig [TYPE_QTNETWORK_QSSLSOCKET] "peerVerifyMode" [] (RMeta QSslSocket_PeerVerifyMode) [On
        QSslConfiguration];
    Sig [VALUE_TYPE_QTCORE_QBYTEARRAY] "preSharedKeyIdentityHint" [] (RValue QByteArray) [On
        QSslConfiguration];
    Sig [TYPE_QTNETWORK_QNETWORKREQUEST] "priority" [] (RMeta QNetworkRequest_Priority) [On
        QNetworkRequestFactory]
  ].

Definition value_methods_qtnetwork_3_s68 : list signature_row :=
  [
    Sig [VALUE_TYPE_QTNETWORK_QSSLKEY] "privateKey" [] (RValue QSslKey) [On QSslConfiguration];
    Sig [] "protocolString" [] RString [On QSslCipher];
    Sig [VALUE_TYPE_QTNETWORK_QSSLKEY] "publicKey" [] (RValue QSslKey) [On QSslCertificate];
    Sig [VALUE_TYPE_QTCORE_QURLQUERY] "queryParameters" [] (RValue QUrlQuery) [On QNetworkRequestFactory];
    Sig [VALUE_TYPE_QTCORE_QBYTEARRAY] "readBody" [] (RValue QByteArray) [On QRestReply];
    Sig [] "readText" [] RString [On QRestReply];
    Sig [VALUE_TYPE_QTNETWORK_QSSLCERTIFICATE] "responder" [] (RValue QSslCertificate) [On QOcspResponse];
    Sig [VALUE_TYPE_QTCORE_QBYTEARRAY] "serialNumber" [] (RValue QByteArray) [On QSslCertificate];
    Sig [VALUE_TYPE_QTNETWORK_QSSLCIPHER] "sessionCipher" [] (RValue QSslCipher) [On QSslConfiguration];
    Sig [VALUE_TYPE_QTCORE_QBYTEARRAY] "sessionTicket" [] (RValue QByteArray) [On QSslConfiguration]
  ].

Definition value_methods_qtnetwork_3_s78 : list signature_row :=
  [
    Sig [] "sessionTicketLifeTimeHint" [] RDouble [On QSslConfiguration];
    Sig [VALUE_TYPE_QTCORE_QBYTEARRAY] "setAllowedNextProtocols" [PList (IValue QByteArray)] RVoid [On
        QSslConfiguration];
    Sig [TYPE_QTNETWORK_QNETWORKREQUEST] "setAttribute" [PValue QNetworkRequest_Attribute; PVariant] RVoid
        [On QNetworkRequestFactory];
    Sig [VALUE_TYPE_QTCORE_QBYTEARRAY] "setBackendConfigurationOption" [PValue QByteArray; PVariant] RVoid
        [On QSslConfiguration];
    Sig [VALUE_TYPE_QTCORE_QURL] "setBaseUrl" [PValue QUrl] RVoid [On QNetworkRequestFactory];
    Sig [VALUE_TYPE_QTCORE_QBYTEARRAY] "setBearerToken" [PValue QByteArray] RVoid [On
        QNetworkRequestFactory];
    Sig [VALUE_TYPE_QTNETWORK_QSSLCERTIFICATE] "setCaCertificates" [PList (IValue QSslCertificate)] RVoid
        [On QSslConfiguration];
    Sig [VALUE_TYPE_QTNETWORK_QSSLCIPHER] "setCiphers" [PList (IValue QSslCipher)] RVoid [On
        QSslConfiguration]
  ].

Definition value_methods_qtnetwork_3_s86 : list signature_row :=
  [
    Sig [] "setCiphers" [PString true] RVoid [On QSslConfiguration];
    Sig [VALUE_TYPE_QTNETWORK_QHTTPHEADERS] "setCommonHeaders" [PValue QHttpHeaders] RVoid [On
        QNetworkRequestFactory];
    Sig [VALUE_TYPE_QTNETWORK_QSSLDIFFIEHELLMANPARAMETERS] "setDiffieHellmanParameters" [PValue
        QSslDiffieHellmanParameters] RVoid [On QSslConfiguration];
    Sig [] "setDtlsCookieVerificationEnabled" [PBool] RVoid [On QSslConfiguration];
    Sig [VALUE_TYPE_QTNETWORK_QSSLELLIPTICCURVE] "setEllipticCurves" [PList (IValue QSslEllipticCurve)]
        RVoid [On QSslConfiguration];
    Sig [] "setHandshakeMustInterruptOnError" [PBool] RVoid [On QSslConfiguration];
    Sig [VALUE_TYPE_QTNETWORK_QSSLCERTIFICATE] "setLocalCertificate" [PValue QSslCertificate] RVoid [On
        QSslConfiguration];
    Sig [VALUE_TYPE_QTNETWORK_QSSLCERTIFICATE] "setLocalCertificateChain" [PList (IValue QSslCertificate)]
        RVoid [On QSslConfiguration];
    Sig [] "setMissingCertificateIsFatal" [PBool] RVoid [On QSslConfiguration]
  ].

Definition value_methods_qtnetwork_3_s95 : list signature_row :=
  [
    Sig [] "setOcspStaplingEnabled" [PBool] RVoid [On QSslConfiguration];
    Sig [] "setPassword" [PString true] RVoid [On QNetworkRequestFactory];
    Sig [] "setPeerVerifyDepth" [PInt] RVoid [On QSslConfiguration];
    Sig [TYPE_QTNETWORK_QSSLSOCKET] "setPeerVerifyMode" [PValue QSslSocket_PeerVerifyMode] RVoid [On
        QSslConfiguration];
    Sig [VALUE_TYPE_QTCORE_QBYTEARRAY] "setPreSharedKeyIdentityHint" [PValue QByteArray] RVoid [On
        QSslConfiguration];
    Sig [TYPE_QTNETWORK_QNETWORKREQUEST] "setPriority" [PValue QNetworkRequest_Priority] RVoid [On
        QNetworkRequestFactory];
    Sig [VALUE_TYPE_QTNETWORK_QSSLKEY] "setPrivateKey" [PValue QSslKey] RVoid [On QSslConfiguration];
    Sig [VALUE_TYPE_QTCORE_QURLQUERY] "setQueryParameters" [PValue QUrlQuery] RVoid [On
        QNetworkRequestFactory];
    Sig [VALUE_TYPE_QTCORE_QBYTEARRAY] "setSessionTicket" [PValue QByteArray] RVoid [On QSslConfiguration]
  ].

Definition value_methods_qtnetwork_3_s104 : list signature_row :=
  [
    Sig [VALUE_TYPE_QTNETWORK_QSSLCONFIGURATION] "setSslConfiguration" [PValue QSslConfiguration] RVoid [On
        QNetworkRequestFactory];
    Sig [] "setUserName" [PString true] RVoid [On QNetworkRequestFactory];
    Sig [VALUE_TYPE_QTNETWORK_QSSLCONFIGURATION] "sslConfiguration" [] (RValue QSslConfiguration) [On
        QNetworkRequestFactory];
    Sig [VALUE_TYPE_QTNETWORK_QSSLCERTIFICATE] "subject" [] (RValue QSslCertificate) [On QOcspResponse];
    Sig [] "subjectDisplayName" [] RString [On QSslCertificate];
    Sig [VALUE_TYPE_QTCORE_QBYTEARRAY] "subjectInfo" [PValue QByteArray] (RList (IMeta QString)) [On
        QSslCertificate];
    Sig [TYPE_QTNETWORK_QSSLCERTIFICATE] "subjectInfo" [PValue QSslCertificate_SubjectInfo] (RList (IMeta
        QString)) [On QSslCertificate];
    Sig [VALUE_TYPE_QTCORE_QBYTEARRAY] "subjectInfoAttributes" [] (RList (IValue QByteArray)) [On
        QSslCertificate];
    Sig [] "supportedBits" [] RDouble [On QSslCipher]
  ].

Definition value_methods_qtnetwork_3_s113 : list signature_row :=
  [
    Sig [VALUE_TYPE_QTNETWORK_QNETWORKREQUESTFACTORY] "swap" [PValue QNetworkRequestFactory] RVoid [On
        QNetworkRequestFactory];
    Sig [VALUE_TYPE_QTNETWORK_QOCSPRESPONSE] "swap" [PValue QOcspResponse] RVoid [On QOcspResponse];
    Sig [VALUE_TYPE_QTNETWORK_QRESTREPLY] "swap" [PValue QRestReply] RVoid [On QRestReply];
    Sig [VALUE_TYPE_QTNETWORK_QSSLCERTIFICATE] "swap" [PValue QSslCertificate] RVoid [On QSslCertificate];
    Sig [VALUE_TYPE_QTNETWORK_QSSLCERTIFICATEEXTENSION] "swap" [PValue QSslCertificateExtension] RVoid [On
        QSslCertificateExtension];
    Sig [VALUE_TYPE_QTNETWORK_QSSLCIPHER] "swap" [PValue QSslCipher] RVoid [On QSslCipher];
    Sig [VALUE_TYPE_QTNETWORK_QSSLCONFIGURATION] "swap" [PValue QSslConfiguration] RVoid [On
        QSslConfiguration];
    Sig [VALUE_TYPE_QTNETWORK_QSSLDIFFIEHELLMANPARAMETERS] "swap" [PValue QSslDiffieHellmanParameters]
        RVoid [On QSslDiffieHellmanParameters];
    Sig [VALUE_TYPE_QTCORE_QBYTEARRAY] "toDer" [] (RValue QByteArray) [On QSslCertificate]
  ].

Definition value_methods_qtnetwork_3_s122 : list signature_row :=
  [
    Sig [VALUE_TYPE_QTCORE_QBYTEARRAY] "toPem" [] (RValue QByteArray) [On QSslCertificate];
    Sig [] "toText" [] RString [On QSslCertificate];
    Sig [] "usedBits" [] RDouble [On QSslCipher];
    Sig [] "userName" [] RString [On QNetworkRequestFactory];
    Sig [] "value" [] RVariant [On QSslCertificateExtension];
    Sig [VALUE_TYPE_QTCORE_QBYTEARRAY] "version" [] (RValue QByteArray) [On QSslCertificate]
  ].

Definition value_methods_qtnetwork_3_types : list string :=
  [
    QNetworkRequestFactory;
    QOcspResponse;
    QRestReply;
    QSslCertificate;
    QSslCertificateExtension;
    QSslCipher;
    QSslConfiguration;
    QSslDiffieHellmanParameters
  ].

Definition value_methods_qtnetwork_3 : method_shard :=
  MethodShard QtNetwork "KRY_QT6_NATIVE_METHODS_QTNETWORK_"
    (value_methods_qtnetwork_3_i0)
    (value_methods_qtnetwork_3_s0 ++ value_methods_qtnetwork_3_s9 ++ value_methods_qtnetwork_3_s19 ++
        value_methods_qtnetwork_3_s28 ++ value_methods_qtnetwork_3_s38 ++ value_methods_qtnetwork_3_s49 ++
        value_methods_qtnetwork_3_s58 ++ value_methods_qtnetwork_3_s68 ++ value_methods_qtnetwork_3_s78 ++
        value_methods_qtnetwork_3_s86 ++ value_methods_qtnetwork_3_s95 ++ value_methods_qtnetwork_3_s104 ++
        value_methods_qtnetwork_3_s113 ++ value_methods_qtnetwork_3_s122)
    value_methods_qtnetwork_3_types.

Definition value_methods_qtnetwork_4_i0 : list include :=
  [
    ClassInclude QtNetwork QSslEllipticCurve QSslEllipticCurve;
    ClassInclude QtNetwork QSslError QSslError;
    ClassInclude QtNetwork QSslKey QSslKey;
    ClassInclude QtNetwork QSslPreSharedKeyAuthenticator QSslPreSharedKeyAuthenticator;
    TypeInclude QtNetwork QSslError TYPE_QTNETWORK_QSSLERROR;
    TypeInclude QtCore QByteArray VALUE_TYPE_QTCORE_QBYTEARRAY;
    TypeInclude QtNetwork QSslCertificate VALUE_TYPE_QTNETWORK_QSSLCERTIFICATE;
    TypeInclude QtNetwork QSslError VALUE_TYPE_QTNETWORK_QSSLERROR;
    TypeInclude QtNetwork QSslKey VALUE_TYPE_QTNETWORK_QSSLKEY;
    TypeInclude QtNetwork QSslPreSharedKeyAuthenticator VALUE_TYPE_QTNETWORK_QSSLPRESHAREDKEYAUTHENTICATOR
  ].

Definition value_methods_qtnetwork_4_s0 : list signature_row :=
  [
    Sig [VALUE_TYPE_QTNETWORK_QSSLCERTIFICATE] "certificate" [] (RValue QSslCertificate) [On QSslError];
    Sig [] "clear" [] RVoid [On QSslKey];
    Sig [TYPE_QTNETWORK_QSSLERROR] "error" [] (RMeta QSslError_SslError) [On QSslError];
    Sig [] "errorString" [] RString [On QSslError];
    Sig [VALUE_TYPE_QTCORE_QBYTEARRAY] "identity" [] (RValue QByteArray) [On QSslPreSharedKeyAuthenticator];
    Sig [VALUE_TYPE_QTCORE_QBYTEARRAY] "identityHint" [] (RValue QByteArray) [On
        QSslPreSharedKeyAuthenticator];
    Sig [] "isNull" [] RBool [On QSslKey];
    Sig [] "isTlsNamedCurve" [] RBool [On QSslEllipticCurve];
    Sig [] "isValid" [] RBool [On QSslEllipticCurve];
    Sig [] "length" [] RDouble [On QSslKey];
    Sig [] "longName" [] RString [On QSslEllipticCurve]
  ].

Definition value_methods_qtnetwork_4_s11 : list signature_row :=
  [
    Sig [] "maximumIdentityLength" [] RDouble [On QSslPreSharedKeyAuthenticator];
    Sig [] "maximumPreSharedKeyLength" [] RDouble [On QSslPreSharedKeyAuthenticator];
    Sig [VALUE_TYPE_QTCORE_QBYTEARRAY] "preSharedKey" [] (RValue QByteArray) [On
        QSslPreSharedKeyAuthenticator];
    Sig [VALUE_TYPE_QTCORE_QBYTEARRAY] "setIdentity" [PValue QByteArray] RVoid [On
        QSslPreSharedKeyAuthenticator];
    Sig [VALUE_TYPE_QTCORE_QBYTEARRAY] "setPreSharedKey" [PValue QByteArray] RVoid [On
        QSslPreSharedKeyAuthenticator];
    Sig [] "shortName" [] RString [On QSslEllipticCurve];
    Sig [VALUE_TYPE_QTNETWORK_QSSLERROR] "swap" [PValue QSslError] RVoid [On QSslError];
    Sig [VALUE_TYPE_QTNETWORK_QSSLKEY] "swap" [PValue QSslKey] RVoid [On QSslKey];
    Sig [VALUE_TYPE_QTNETWORK_QSSLPRESHAREDKEYAUTHENTICATOR] "swap" [PValue QSslPreSharedKeyAuthenticator]
        RVoid [On QSslPreSharedKeyAuthenticator]
  ].

Definition value_methods_qtnetwork_4_s20 : list signature_row :=
  [
    Sig [VALUE_TYPE_QTCORE_QBYTEARRAY] "toDer" [PValue QByteArray] (RValue QByteArray) [On QSslKey];
    Sig [VALUE_TYPE_QTCORE_QBYTEARRAY] "toPem" [PValue QByteArray] (RValue QByteArray) [On QSslKey]
  ].

Definition value_methods_qtnetwork_4_types : list string :=
  [
    QSslEllipticCurve;
    QSslError;
    QSslKey;
    QSslPreSharedKeyAuthenticator
  ].

Definition value_methods_qtnetwork_4 : method_shard :=
  MethodShard QtNetwork "KRY_QT6_NATIVE_METHODS_QTNETWORK_"
    (value_methods_qtnetwork_4_i0)
    (value_methods_qtnetwork_4_s0 ++ value_methods_qtnetwork_4_s11 ++ value_methods_qtnetwork_4_s20)
    value_methods_qtnetwork_4_types.

Definition value_methods_qtnetworkauth_0_i0 : list include :=
  [
    ClassInclude QtNetworkAuth QOAuth1Signature QOAuth1Signature;
    TypeInclude QtNetworkAuth QOAuth1Signature TYPE_QTNETWORKAUTH_QOAUTH1SIGNATURE;
    TypeInclude QtCore QByteArray VALUE_TYPE_QTCORE_QBYTEARRAY;
    TypeInclude QtCore QUrl VALUE_TYPE_QTCORE_QURL;
    TypeInclude QtCore QUrlQuery VALUE_TYPE_QTCORE_QURLQUERY;
    TypeInclude QtNetworkAuth QOAuth1Signature VALUE_TYPE_QTNETWORKAUTH_QOAUTH1SIGNATURE
  ].

Definition value_methods_qtnetworkauth_0_s0 : list signature_row :=
  [
    Sig [VALUE_TYPE_QTCORE_QURLQUERY] "addRequestBody" [PValue QUrlQuery] RVoid [On QOAuth1Signature];
    Sig [] "clientSharedKey" [] RString [On QOAuth1Signature];
    Sig [VALUE_TYPE_QTCORE_QBYTEARRAY] "customMethodString" [] (RValue QByteArray) [On QOAuth1Signature];
    Sig [VALUE_TYPE_QTCORE_QBYTEARRAY] "hmacSha1" [] (RValue QByteArray) [On QOAuth1Signature];
    Sig [TYPE_QTNETWORKAUTH_QOAUTH1SIGNATURE] "httpRequestMethod" [] (RMeta
        QOAuth1Signature_HttpRequestMethod) [On QOAuth1Signature];
    Sig [] "insert" [PString true; PVariant] RVoid [On QOAuth1Signature];
    Sig [] "keys" [] (RList (IMeta QString)) [On QOAuth1Signature];
    Sig [VALUE_TYPE_QTCORE_QBYTEARRAY] "plainText" [] (RValue QByteArray) [On QOAuth1Signature];
    Sig [VALUE_TYPE_QTCORE_QBYTEARRAY] "rsaSha1" [] (RValue QByteArray) [On QOAuth1Signature];
    Sig [] "setClientSharedKey" [PString true] RVoid [On QOAuth1Signature]
  ].

Definition value_methods_qtnetworkauth_0_s10 : list signature_row :=
  [
    Sig [VALUE_TYPE_QTCORE_QBYTEARRAY] "setCustomMethodString" [PValue QByteArray] RVoid [On
        QOAuth1Signature];
    Sig [TYPE_QTNETWORKAUTH_QOAUTH1SIGNATURE] "setHttpRequestMethod" [PValue
        QOAuth1Signature_HttpRequestMethod] RVoid [On QOAuth1Signature];
    Sig [] "setTokenSecret" [PString true] RVoid [On QOAuth1Signature];
    Sig [VALUE_TYPE_QTCORE_QURL] "setUrl" [PValue QUrl] RVoid [On QOAuth1Signature];
    Sig [VALUE_TYPE_QTNETWORKAUTH_QOAUTH1SIGNATURE] "swap" [PValue QOAuth1Signature] RVoid [On
        QOAuth1Signature];
    Sig [] "take" [PString true] RVariant [On QOAuth1Signature];
    Sig [] "tokenSecret" [] RString [On QOAuth1Signature];
    Sig [VALUE_TYPE_QTCORE_QURL] "url" [] (RValue QUrl) [On QOAuth1Signature];
    Sig [] "value" [PString true; PVariant] RVariant [On QOAuth1Signature]
  ].

Definition value_methods_qtnetworkauth_0_types : list string :=
  [
    QOAuth1Signature
  ].

Definition value_methods_qtnetworkauth_0 : method_shard :=
  MethodShard QtNetworkAuth "KRY_QT6_NATIVE_METHODS_QTNETWORKAUTH_"
    (value_methods_qtnetworkauth_0_i0)
    (value_methods_qtnetworkauth_0_s0 ++ value_methods_qtnetworkauth_0_s10)
    value_methods_qtnetworkauth_0_types.

Definition value_methods_qtnfc_0_i0 : list include :=
  [
    ClassInclude QtNfc QNdefFilter QNdefFilter;
    ClassInclude QtNfc QNdefMessage QNdefMessage;
    ClassInclude QtNfc QNdefNfcIconRecord QNdefNfcIconRecord;
    ClassInclude QtNfc QNdefNfcSmartPosterRecord QNdefNfcSmartPosterRecord;
    ClassInclude QtNfc QNdefNfcTextRecord QNdefNfcTextRecord;
    ClassInclude QtNfc QNdefNfcUriRecord QNdefNfcUriRecord;
    ClassInclude QtNfc QNdefRecord QNdefRecord;
    TypeInclude QtNfc QNdefFilter TYPE_QTNFC_QNDEFFILTER;
    TypeInclude QtNfc QNdefNfcSmartPosterRecord TYPE_QTNFC_QNDEFNFCSMARTPOSTERRECORD;
    TypeInclude QtNfc QNdefNfcTextRecord TYPE_QTNFC_QNDEFNFCTEXTRECORD;
    TypeInclude QtNfc QNdefRecord TYPE_QTNFC_QNDEFRECORD;
    TypeInclude QtCore QByteArray VALUE_TYPE_QTCORE_QBYTEARRAY;
    TypeInclude QtCore QUrl VALUE_TYPE_QTCORE_QURL;
    TypeInclude QtNfc QNdefMessage VALUE_TYPE_QTNFC_QNDEFMESSAGE;
    TypeInclude QtNfc QNdefNfcIconRecord VALUE_TYPE_QTNFC_QNDEFNFCICONRECORD;
    TypeInclude QtNfc QNdefNfcTextRecord VALUE_TYPE_QTNFC_QNDEFNFCTEXTRECORD;
    TypeInclude QtNfc QNdefNfcUriRecord VALUE_TYPE_QTNFC_QNDEFNFCURIRECORD
  ].

Definition value_methods_qtnfc_0_s0 : list signature_row :=
  [
    Sig [TYPE_QTNFC_QNDEFNFCSMARTPOSTERRECORD] "action" [] (RMeta QNdefNfcSmartPosterRecord_Action) [On
        QNdefNfcSmartPosterRecord];
    Sig [VALUE_TYPE_QTCORE_QBYTEARRAY] "addIcon" [PValue QByteArray; PValue QByteArray] RVoid [On
        QNdefNfcSmartPosterRecord];
    Sig [VALUE_TYPE_QTNFC_QNDEFNFCICONRECORD] "addIcon" [PValue QNdefNfcIconRecord] RVoid [On
        QNdefNfcSmartPosterRecord];
    Sig [VALUE_TYPE_QTNFC_QNDEFNFCTEXTRECORD] "addTitle" [PValue QNdefNfcTextRecord] RBool [On
        QNdefNfcSmartPosterRecord];
    Sig [TYPE_QTNFC_QNDEFNFCTEXTRECORD] "addTitle" [PString true; PString true; PValue
        QNdefNfcTextRecord_Encoding] RBool [On QNdefNfcSmartPosterRecord];
    Sig [TYPE_QTNFC_QNDEFFILTER] "appendRecord" [PValue QNdefFilter_Record] RBool [On QNdefFilter];
    Sig [TYPE_QTNFC_QNDEFRECORD; VALUE_TYPE_QTCORE_QBYTEARRAY] "appendRecord" [PValue
        QNdefRecord_TypeNameFormat; PValue QByteArray; PUInt; PUInt] RBool [On QNdefFilter];
    Sig [] "clear" [] RVoid [On QNdefFilter; On QNdefRecord]
  ].

Definition value_methods_qtnfc_0_s8 : list signature_row :=
  [
    Sig [VALUE_TYPE_QTCORE_QBYTEARRAY] "data" [] (RValue QByteArray) [On QNdefNfcIconRecord];
    Sig [TYPE_QTNFC_QNDEFNFCTEXTRECORD] "encoding" [] (RMeta QNdefNfcTextRecord_Encoding) [On
        QNdefNfcTextRecord];
    Sig [] "hasAction" [] RBool [On QNdefNfcSmartPosterRecord];
    Sig [VALUE_TYPE_QTCORE_QBYTEARRAY] "hasIcon" [PValue QByteArray] RBool [On QNdefNfcSmartPosterRecord];
    Sig [] "hasSize" [] RBool [On QNdefNfcSmartPosterRecord];
    Sig [] "hasTitle" [PString true] RBool [On QNdefNfcSmartPosterRecord];
    Sig [] "hasTypeInfo" [] RBool [On QNdefNfcSmartPosterRecord];
    Sig [VALUE_TYPE_QTCORE_QBYTEARRAY] "icon" [PValue QByteArray] (RValue QByteArray) [On
        QNdefNfcSmartPosterRecord];
    Sig [] "iconCount" [] (RMeta cxx_qsizetype) [On QNdefNfcSmartPosterRecord];
    Sig [VALUE_TYPE_QTNFC_QNDEFNFCICONRECORD] "iconRecord" [PMeta cxx_qsizetype] (RValue
        QNdefNfcIconRecord) [On QNdefNfcSmartPosterRecord]
  ].

Definition value_methods_qtnfc_0_s18 : list signature_row :=
  [
    Sig [VALUE_TYPE_QTNFC_QNDEFNFCICONRECORD] "iconRecords" [] (RList (IValue QNdefNfcIconRecord)) [On
        QNdefNfcSmartPosterRecord];
    Sig [VALUE_TYPE_QTCORE_QBYTEARRAY] "id" [] (RValue QByteArray) [On QNdefRecord];
    Sig [] "isEmpty" [] RBool [On QNdefRecord];
    Sig [] "locale" [] RString [On QNdefNfcTextRecord];
    Sig [VALUE_TYPE_QTNFC_QNDEFMESSAGE] "match" [PValue QNdefMessage] RBool [On QNdefFilter];
    Sig [] "orderMatch" [] RBool [On QNdefFilter];
    Sig [VALUE_TYPE_QTCORE_QBYTEARRAY] "payload" [] (RValue QByteArray) [On QNdefRecord];
    Sig [TYPE_QTNFC_QNDEFFILTER] "recordAt" [PMeta cxx_qsizetype] (RMeta QNdefFilter_Record) [On
        QNdefFilter];
    Sig [] "recordCount" [] (RMeta cxx_qsizetype) [On QNdefFilter];
    Sig [VALUE_TYPE_QTCORE_QBYTEARRAY] "removeIcon" [PValue QByteArray] RBool [On QNdefNfcSmartPosterRecord]
  ].

Definition value_methods_qtnfc_0_s28 : list signature_row :=
  [
    Sig [VALUE_TYPE_QTNFC_QNDEFNFCICONRECORD] "removeIcon" [PValue QNdefNfcIconRecord] RBool [On
        QNdefNfcSmartPosterRecord];
    Sig [VALUE_TYPE_QTNFC_QNDEFNFCTEXTRECORD] "removeTitle" [PValue QNdefNfcTextRecord] RBool [On
        QNdefNfcSmartPosterRecord];
    Sig [] "removeTitle" [PString true] RBool [On QNdefNfcSmartPosterRecord];
    Sig [TYPE_QTNFC_QNDEFNFCSMARTPOSTERRECORD] "setAction" [PValue QNdefNfcSmartPosterRecord_Action] RVoid
        [On QNdefNfcSmartPosterRecord];
    Sig [VALUE_TYPE_QTCORE_QBYTEARRAY] "setData" [PValue QByteArray] RVoid [On QNdefNfcIconRecord];
    Sig [TYPE_QTNFC_QNDEFNFCTEXTRECORD] "setEncoding" [PValue QNdefNfcTextRecord_Encoding] RVoid [On
        QNdefNfcTextRecord];
    Sig [VALUE_TYPE_QTNFC_QNDEFNFCICONRECORD] "setIcons" [PList (IValue QNdefNfcIconRecord)] RVoid [On
        QNdefNfcSmartPosterRecord];
    Sig [VALUE_TYPE_QTCORE_QBYTEARRAY] "setId" [PValue QByteArray] RVoid [On QNdefRecord];
    Sig [] "setLocale" [PString true] RVoid [On QNdefNfcTextRecord]
  ].

Definition value_methods_qtnfc_0_s37 : list signature_row :=
  [
    Sig [] "setOrderMatch" [PBool] RVoid [On QNdefFilter];
    Sig [VALUE_TYPE_QTCORE_QBYTEARRAY] "setPayload" [PValue QByteArray] RVoid [On
        QNdefNfcSmartPosterRecord; On QNdefRecord];
    Sig [] "setText" [PString true] RVoid [On QNdefNfcTextRecord];
    Sig [VALUE_TYPE_QTNFC_QNDEFNFCTEXTRECORD] "setTitles" [PList (IValue QNdefNfcTextRecord)] RVoid [On
        QNdefNfcSmartPosterRecord];
    Sig [VALUE_TYPE_QTCORE_QBYTEARRAY] "setType" [PValue QByteArray] RVoid [On QNdefRecord];
    Sig [] "setTypeInfo" [PString true] RVoid [On QNdefNfcSmartPosterRecord];
    Sig [TYPE_QTNFC_QNDEFRECORD] "setTypeNameFormat" [PValue QNdefRecord_TypeNameFormat] RVoid [On
        QNdefRecord];
    Sig [VALUE_TYPE_QTNFC_QNDEFNFCURIRECORD] "setUri" [PValue QNdefNfcUriRecord] RVoid [On
        QNdefNfcSmartPosterRecord]
  ].

Definition value_methods_qtnfc_0_s45 : list signature_row :=
  [
    Sig [VALUE_TYPE_QTCORE_QURL] "setUri" [PValue QUrl] RVoid [On QNdefNfcSmartPosterRecord; On
        QNdefNfcUriRecord];
    Sig [] "text" [] RString [On QNdefNfcTextRecord];
    Sig [] "title" [PString true] RString [On QNdefNfcSmartPosterRecord];
    Sig [] "titleCount" [] (RMeta cxx_qsizetype) [On QNdefNfcSmartPosterRecord];
    Sig [VALUE_TYPE_QTNFC_QNDEFNFCTEXTRECORD] "titleRecord" [PMeta cxx_qsizetype] (RValue
        QNdefNfcTextRecord) [On QNdefNfcSmartPosterRecord];
    Sig [VALUE_TYPE_QTNFC_QNDEFNFCTEXTRECORD] "titleRecords" [] (RList (IValue QNdefNfcTextRecord)) [On
        QNdefNfcSmartPosterRecord];
    Sig [VALUE_TYPE_QTCORE_QBYTEARRAY] "toByteArray" [] (RValue QByteArray) [On QNdefMessage];
    Sig [VALUE_TYPE_QTCORE_QBYTEARRAY] "type" [] (RValue QByteArray) [On QNdefRecord];
    Sig [] "typeInfo" [] RString [On QNdefNfcSmartPosterRecord]
  ].

Definition value_methods_qtnfc_0_s54 : list signature_row :=
  [
    Sig [TYPE_QTNFC_QNDEFRECORD] "typeNameFormat" [] (RMeta QNdefRecord_TypeNameFormat) [On QNdefRecord];
    Sig [VALUE_TYPE_QTCORE_QURL] "uri" [] (RValue QUrl) [On QNdefNfcSmartPosterRecord; On
        QNdefNfcUriRecord];
    Sig [VALUE_TYPE_QTNFC_QNDEFNFCURIRECORD] "uriRecord" [] (RValue QNdefNfcUriRecord) [On
        QNdefNfcSmartPosterRecord]
  ].

Definition value_methods_qtnfc_0_types : list string :=
  [
    QNdefFilter;
    QNdefMessage;
    QNdefNfcIconRecord;
    QNdefNfcSmartPosterRecord;
    QNdefNfcTextRecord;
    QNdefNfcUriRecord;
    QNdefRecord
  ].

Definition value_methods_qtnfc_0 : method_shard :=
  MethodShard QtNfc "KRY_QT6_NATIVE_METHODS_QTNFC_"
    (value_methods_qtnfc_0_i0)
    (value_methods_qtnfc_0_s0 ++ value_methods_qtnfc_0_s8 ++ value_methods_qtnfc_0_s18 ++
        value_methods_qtnfc_0_s28 ++ value_methods_qtnfc_0_s37 ++ value_methods_qtnfc_0_s45 ++
        value_methods_qtnfc_0_s54)
    value_methods_qtnfc_0_types.

Definition value_methods_qtpositioning_0_i0 : list include :=
  [
    ClassInclude QtPositioning QGeoAddress QGeoAddress;
    ClassInclude QtPositioning QGeoAreaMonitorInfo QGeoAreaMonitorInfo;
    ClassInclude QtPositioning QGeoCircle QGeoCircle;
    ClassInclude QtPositioning QGeoCoordinate QGeoCoordinate;
    ClassInclude QtPositioning QGeoLocation QGeoLocation;
    ClassInclude QtPositioning QGeoPath QGeoPath;
    ClassInclude QtPositioning QGeoPolygon QGeoPolygon;
    ClassInclude QtPositioning QGeoPositionInfo QGeoPositionInfo;
    TypeInclude QtPositioning QGeoCoordinate TYPE_QTPOSITIONING_QGEOCOORDINATE;
    TypeInclude QtPositioning QGeoPositionInfo TYPE_QTPOSITIONING_QGEOPOSITIONINFO;
    TypeInclude QtCore QDateTime VALUE_TYPE_QTCORE_QDATETIME;
    TypeInclude QtPositioning QGeoAddress VALUE_TYPE_QTPOSITIONING_QGEOADDRESS;
    TypeInclude QtPositioning QGeoAreaMonitorInfo VALUE_TYPE_QTPOSITIONING_QGEOAREAMONITORINFO;
    TypeInclude QtPositioning QGeoCircle VALUE_TYPE_QTPOSITIONING_QGEOCIRCLE;
    TypeInclude QtPositioning QGeoCoordinate VALUE_TYPE_QTPOSITIONING_QGEOCOORDINATE;
    TypeInclude QtPositioning QGeoLocation VALUE_TYPE_QTPOSITIONING_QGEOLOCATION;
    TypeInclude QtPositioning QGeoPath VALUE_TYPE_QTPOSITIONING_QGEOPATH;
    TypeInclude QtPositioning QGeoPolygon VALUE_TYPE_QTPOSITIONING_QGEOPOLYGON;
    TypeInclude QtPositioning QGeoPositionInfo VALUE_TYPE_QTPOSITIONING_QGEOPOSITIONINFO;
    TypeInclude QtPositioning QGeoShape VALUE_TYPE_QTPOSITIONING_QGEOSHAPE
  ].

Definition value_methods_qtpositioning_0_s0 : list signature_row :=
  [
    Sig [VALUE_TYPE_QTPOSITIONING_QGEOCOORDINATE] "addCoordinate" [PValue QGeoCoordinate] RVoid [On
        QGeoPath; On QGeoPolygon];
    Sig [VALUE_TYPE_QTPOSITIONING_QGEOCOORDINATE] "addHole" [PList (IValue QGeoCoordinate)] RVoid [On
        QGeoPolygon];
    Sig [] "addHole" [PVariant] RVoid [On QGeoPolygon];
    Sig [VALUE_TYPE_QTPOSITIONING_QGEOADDRESS] "address" [] (RValue QGeoAddress) [On QGeoLocation];
    Sig [] "altitude" [] RDouble [On QGeoCoordinate];
    Sig [VALUE_TYPE_QTPOSITIONING_QGEOSHAPE] "area" [] (RValue QGeoShape) [On QGeoAreaMonitorInfo];
    Sig [VALUE_TYPE_QTPOSITIONING_QGEOCOORDINATE] "atDistanceAndAzimuth" [PNumber cxx_qreal; PNumber
        cxx_qreal; PNumber cxx_qreal] (RValue QGeoCoordinate) [On QGeoCoordinate];
    Sig [TYPE_QTPOSITIONING_QGEOPOSITIONINFO] "attribute" [PValue QGeoPositionInfo_Attribute] RDouble [On
        QGeoPositionInfo];
    Sig [VALUE_TYPE_QTPOSITIONING_QGEOCOORDINATE] "azimuthTo" [PValue QGeoCoordinate] RDouble [On
        QGeoCoordinate]
  ].

Definition value_methods_qtpositioning_0_s9 : list signature_row :=
  [
    Sig [VALUE_TYPE_QTPOSITIONING_QGEOSHAPE] "boundingShape" [] (RValue QGeoShape) [On QGeoLocation];
    Sig [VALUE_TYPE_QTPOSITIONING_QGEOCOORDINATE] "center" [] (RValue QGeoCoordinate) [On QGeoCircle];
    Sig [] "city" [] RString [On QGeoAddress];
    Sig [] "clear" [] RVoid [On QGeoAddress];
    Sig [] "clearPath" [] RVoid [On QGeoPath];
    Sig [VALUE_TYPE_QTPOSITIONING_QGEOCOORDINATE] "containsCoordinate" [PValue QGeoCoordinate] RBool [On
        QGeoPath; On QGeoPolygon];
    Sig [VALUE_TYPE_QTPOSITIONING_QGEOCOORDINATE] "coordinate" [] (RValue QGeoCoordinate) [On QGeoLocation;
        On QGeoPositionInfo];
    Sig [VALUE_TYPE_QTPOSITIONING_QGEOCOORDINATE] "coordinateAt" [PMeta cxx_qsizetype] (RValue
        QGeoCoordinate) [On QGeoPath; On QGeoPolygon];
    Sig [] "country" [] RString [On QGeoAddress]
  ].

Definition value_methods_qtpositioning_0_s18 : list signature_row :=
  [
    Sig [] "countryCode" [] RString [On QGeoAddress];
    Sig [] "county" [] RString [On QGeoAddress];
    Sig [VALUE_TYPE_QTPOSITIONING_QGEOCOORDINATE] "distanceTo" [PValue QGeoCoordinate] RDouble [On
        QGeoCoordinate];
    Sig [] "district" [] RString [On QGeoAddress];
    Sig [VALUE_TYPE_QTCORE_QDATETIME] "expiration" [] (RValue QDateTime) [On QGeoAreaMonitorInfo];
    Sig [VALUE_TYPE_QTPOSITIONING_QGEOCOORDINATE] "extendCircle" [PValue QGeoCoordinate] RVoid [On
        QGeoCircle];
    Sig [] "extendedAttributes" [] (RMap QVariantMap IVariant) [On QGeoLocation];
    Sig [TYPE_QTPOSITIONING_QGEOPOSITIONINFO] "hasAttribute" [PValue QGeoPositionInfo_Attribute] RBool [On
        QGeoPositionInfo];
    Sig [VALUE_TYPE_QTPOSITIONING_QGEOCOORDINATE] "holePath" [PMeta cxx_qsizetype] (RList (IValue
        QGeoCoordinate)) [On QGeoPolygon];
    Sig [] "holesCount" [] (RMeta cxx_qsizetype) [On QGeoPolygon]
  ].

Definition value_methods_qtpositioning_0_s28 : list signature_row :=
  [
    Sig [] "identifier" [] RString [On QGeoAreaMonitorInfo];
    Sig [VALUE_TYPE_QTPOSITIONING_QGEOCOORDINATE] "insertCoordinate" [PMeta cxx_qsizetype; PValue
        QGeoCoordinate] RVoid [On QGeoPath; On QGeoPolygon];
    Sig [] "isEmpty" [] RBool [On QGeoAddress; On QGeoLocation];
    Sig [] "isPersistent" [] RBool [On QGeoAreaMonitorInfo];
    Sig [] "isTextGenerated" [] RBool [On QGeoAddress];
    Sig [] "isValid" [] RBool [On QGeoAreaMonitorInfo; On QGeoCoordinate; On QGeoPositionInfo];
    Sig [] "latitude" [] RDouble [On QGeoCoordinate];
    Sig [] "length" [PMeta cxx_qsizetype; PMeta cxx_qsizetype] RDouble [On QGeoPath; On QGeoPolygon];
    Sig [] "longitude" [] RDouble [On QGeoCoordinate]
  ].

Definition value_methods_qtpositioning_0_s37 : list signature_row :=
  [
    Sig [] "name" [] RString [On QGeoAreaMonitorInfo];
    Sig [] "notificationParameters" [] (RMap QVariantMap IVariant) [On QGeoAreaMonitorInfo];
    Sig [VALUE_TYPE_QTPOSITIONING_QGEOCOORDINATE] "path" [] (RList (IValue QGeoCoordinate)) [On QGeoPath];
    Sig [VALUE_TYPE_QTPOSITIONING_QGEOCOORDINATE] "perimeter" [] (RList (IValue QGeoCoordinate)) [On
        QGeoPolygon];
    Sig [] "postalCode" [] RString [On QGeoAddress];
    Sig [] "radius" [] RDouble [On QGeoCircle];
    Sig [TYPE_QTPOSITIONING_QGEOPOSITIONINFO] "removeAttribute" [PValue QGeoPositionInfo_Attribute] RVoid
        [On QGeoPositionInfo];
    Sig [VALUE_TYPE_QTPOSITIONING_QGEOCOORDINATE] "removeCoordinate" [PValue QGeoCoordinate] RVoid [On
        QGeoPath; On QGeoPolygon];
    Sig [] "removeCoordinate" [PMeta cxx_qsizetype] RVoid [On QGeoPath; On QGeoPolygon]
  ].

Definition value_methods_qtpositioning_0_s46 : list signature_row :=
  [
    Sig [] "removeHole" [PMeta cxx_qsizetype] RVoid [On QGeoPolygon];
    Sig [VALUE_TYPE_QTPOSITIONING_QGEOCOORDINATE] "replaceCoordinate" [PMeta cxx_qsizetype; PValue
        QGeoCoordinate] RVoid [On QGeoPath; On QGeoPolygon];
    Sig [VALUE_TYPE_QTPOSITIONING_QGEOADDRESS] "setAddress" [PValue QGeoAddress] RVoid [On QGeoLocation];
    Sig [] "setAltitude" [PNumber cxx_double] RVoid [On QGeoCoordinate];
    Sig [VALUE_TYPE_QTPOSITIONING_QGEOSHAPE] "setArea" [PValue QGeoShape] RVoid [On QGeoAreaMonitorInfo];
    Sig [TYPE_QTPOSITIONING_QGEOPOSITIONINFO] "setAttribute" [PValue QGeoPositionInfo_Attribute; PNumber
        cxx_qreal] RVoid [On QGeoPositionInfo];
    Sig [VALUE_TYPE_QTPOSITIONING_QGEOSHAPE] "setBoundingShape" [PValue QGeoShape] RVoid [On QGeoLocation];
    Sig [VALUE_TYPE_QTPOSITIONING_QGEOCOORDINATE] "setCenter" [PValue QGeoCoordinate] RVoid [On QGeoCircle]
  ].

Definition value_methods_qtpositioning_0_s54 : list signature_row :=
  [
    Sig [] "setCity" [PString true] RVoid [On QGeoAddress];
    Sig [VALUE_TYPE_QTPOSITIONING_QGEOCOORDINATE] "setCoordinate" [PValue QGeoCoordinate] RVoid [On
        QGeoLocation; On QGeoPositionInfo];
    Sig [] "setCountry" [PString true] RVoid [On QGeoAddress];
    Sig [] "setCountryCode" [PString true] RVoid [On QGeoAddress];
    Sig [] "setCounty" [PString true] RVoid [On QGeoAddress];
    Sig [] "setDistrict" [PString true] RVoid [On QGeoAddress];
    Sig [VALUE_TYPE_QTCORE_QDATETIME] "setExpiration" [PValue QDateTime] RVoid [On QGeoAreaMonitorInfo];
    Sig [] "setLatitude" [PNumber cxx_double] RVoid [On QGeoCoordinate];
    Sig [] "setLongitude" [PNumber cxx_double] RVoid [On QGeoCoordinate]
  ].

Definition value_methods_qtpositioning_0_s63 : list signature_row :=
  [
    Sig [] "setName" [PString true] RVoid [On QGeoAreaMonitorInfo];
    Sig [VALUE_TYPE_QTPOSITIONING_QGEOCOORDINATE] "setPath" [PList (IValue QGeoCoordinate)] RVoid [On
        QGeoPath];
    Sig [VALUE_TYPE_QTPOSITIONING_QGEOCOORDINATE] "setPerimeter" [PList (IValue QGeoCoordinate)] RVoid [On
        QGeoPolygon];
    Sig [] "setPersistent" [PBool] RVoid [On QGeoAreaMonitorInfo];
    Sig [] "setPostalCode" [PString true] RVoid [On QGeoAddress];
    Sig [] "setRadius" [PNumber cxx_qreal] RVoid [On QGeoCircle];
    Sig [] "setState" [PString true] RVoid [On QGeoAddress];
    Sig [] "setStreet" [PString true] RVoid [On QGeoAddress];
    Sig [] "setStreetNumber" [PString true] RVoid [On QGeoAddress]
  ].

Definition value_methods_qtpositioning_0_s72 : list signature_row :=
  [
    Sig [] "setText" [PString true] RVoid [On QGeoAddress];
    Sig [VALUE_TYPE_QTCORE_QDATETIME] "setTimestamp" [PValue QDateTime] RVoid [On QGeoPositionInfo];
    Sig [] "setWidth" [PNumber cxx_qreal] RVoid [On QGeoPath];
    Sig [] "size" [] (RMeta cxx_qsizetype) [On QGeoPath; On QGeoPolygon];
    Sig [] "state" [] RString [On QGeoAddress];
    Sig [] "street" [] RString [On QGeoAddress];
    Sig [] "streetNumber" [] RString [On QGeoAddress];
    Sig [VALUE_TYPE_QTPOSITIONING_QGEOADDRESS] "swap" [PValue QGeoAddress] RVoid [On QGeoAddress];
    Sig [VALUE_TYPE_QTPOSITIONING_QGEOAREAMONITORINFO] "swap" [PValue QGeoAreaMonitorInfo] RVoid [On
        QGeoAreaMonitorInfo];
    Sig [VALUE_TYPE_QTPOSITIONING_QGEOCOORDINATE] "swap" [PValue QGeoCoordinate] RVoid [On QGeoCoordinate]
  ].

Definition value_methods_qtpositioning_0_s82 : list signature_row :=
  [
    Sig [VALUE_TYPE_QTPOSITIONING_QGEOLOCATION] "swap" [PValue QGeoLocation] RVoid [On QGeoLocation];
    Sig [VALUE_TYPE_QTPOSITIONING_QGEOPOSITIONINFO] "swap" [PValue QGeoPositionInfo] RVoid [On
        QGeoPositionInfo];
    Sig [] "text" [] RString [On QGeoAddress];
    Sig [VALUE_TYPE_QTCORE_QDATETIME] "timestamp" [] (RValue QDateTime) [On QGeoPositionInfo];
    Sig [] "toString" [] RString [On QGeoCircle; On QGeoPath; On QGeoPolygon];
    Sig [TYPE_QTPOSITIONING_QGEOCOORDINATE] "toString" [PValue QGeoCoordinate_CoordinateFormat] RString [On
        QGeoCoordinate];
    Sig [] "translate" [PNumber cxx_double; PNumber cxx_double] RVoid [On QGeoCircle; On QGeoPath; On
        QGeoPolygon];
    Sig [VALUE_TYPE_QTPOSITIONING_QGEOCIRCLE] "translated" [PNumber cxx_double; PNumber cxx_double] (RValue
        QGeoCircle) [On QGeoCircle]
  ].

Definition value_methods_qtpositioning_0_s90 : list signature_row :=
  [
    Sig [VALUE_TYPE_QTPOSITIONING_QGEOPATH] "translated" [PNumber cxx_double; PNumber cxx_double] (RValue
        QGeoPath) [On QGeoPath];
    Sig [VALUE_TYPE_QTPOSITIONING_QGEOPOLYGON] "translated" [PNumber cxx_double; PNumber cxx_double]
        (RValue QGeoPolygon) [On QGeoPolygon];
    Sig [TYPE_QTPOSITIONING_QGEOCOORDINATE] "type" [] (RMeta QGeoCoordinate_CoordinateType) [On
        QGeoCoordinate];
    Sig [] "width" [] RDouble [On QGeoPath]
  ].

Definition value_methods_qtpositioning_0_types : list string :=
  [
    QGeoAddress;
    QGeoAreaMonitorInfo;
    QGeoCircle;
    QGeoCoordinate;
    QGeoLocation;
    QGeoPath;
    QGeoPolygon;
    QGeoPositionInfo
  ].

Definition value_methods_qtpositioning_0 : method_shard :=
  MethodShard QtPositioning "KRY_QT6_NATIVE_METHODS_QTPOSITIONING_"
    (value_methods_qtpositioning_0_i0)
    (value_methods_qtpositioning_0_s0 ++ value_methods_qtpositioning_0_s9 ++
        value_methods_qtpositioning_0_s18 ++ value_methods_qtpositioning_0_s28 ++
        value_methods_qtpositioning_0_s37 ++ value_methods_qtpositioning_0_s46 ++
        value_methods_qtpositioning_0_s54 ++ value_methods_qtpositioning_0_s63 ++
        value_methods_qtpositioning_0_s72 ++ value_methods_qtpositioning_0_s82 ++
        value_methods_qtpositioning_0_s90)
    value_methods_qtpositioning_0_types.

Definition value_methods_qtpositioning_1_i0 : list include :=
  [
    ClassInclude QtPositioning QGeoRectangle QGeoRectangle;
    ClassInclude QtPositioning QGeoSatelliteInfo QGeoSatelliteInfo;
    ClassInclude QtPositioning QGeoShape QGeoShape;
    TypeInclude QtPositioning QGeoSatelliteInfo TYPE_QTPOSITIONING_QGEOSATELLITEINFO;
    TypeInclude QtPositioning QGeoShape TYPE_QTPOSITIONING_QGEOSHAPE;
    TypeInclude QtPositioning QGeoCoordinate VALUE_TYPE_QTPOSITIONING_QGEOCOORDINATE;
    TypeInclude QtPositioning QGeoRectangle VALUE_TYPE_QTPOSITIONING_QGEORECTANGLE;
    TypeInclude QtPositioning QGeoSatelliteInfo VALUE_TYPE_QTPOSITIONING_QGEOSATELLITEINFO
  ].

Definition value_methods_qtpositioning_1_s0 : list signature_row :=
  [
    Sig [TYPE_QTPOSITIONING_QGEOSATELLITEINFO] "attribute" [PValue QGeoSatelliteInfo_Attribute] RDouble [On
        QGeoSatelliteInfo];
    Sig [VALUE_TYPE_QTPOSITIONING_QGEOCOORDINATE] "bottomLeft" [] (RValue QGeoCoordinate) [On
        QGeoRectangle];
    Sig [VALUE_TYPE_QTPOSITIONING_QGEOCOORDINATE] "bottomRight" [] (RValue QGeoCoordinate) [On
        QGeoRectangle];
    Sig [VALUE_TYPE_QTPOSITIONING_QGEORECTANGLE] "boundingGeoRectangle" [] (RValue QGeoRectangle) [On
        QGeoShape];
    Sig [VALUE_TYPE_QTPOSITIONING_QGEOCOORDINATE] "center" [] (RValue QGeoCoordinate) [On QGeoRectangle; On
        QGeoShape];
    Sig [VALUE_TYPE_QTPOSITIONING_QGEOCOORDINATE] "contains" [PValue QGeoCoordinate] RBool [On QGeoShape];
    Sig [VALUE_TYPE_QTPOSITIONING_QGEORECTANGLE] "contains" [PValue QGeoRectangle] RBool [On QGeoRectangle];
    Sig [VALUE_TYPE_QTPOSITIONING_QGEOCOORDINATE] "extendRectangle" [PValue QGeoCoordinate] RVoid [On
        QGeoRectangle];
    Sig [TYPE_QTPOSITIONING_QGEOSATELLITEINFO] "hasAttribute" [PValue QGeoSatelliteInfo_Attribute] RBool
        [On QGeoSatelliteInfo]
  ].

Definition value_methods_qtpositioning_1_s9 : list signature_row :=
  [
    Sig [] "height" [] RDouble [On QGeoRectangle];
    Sig [VALUE_TYPE_QTPOSITIONING_QGEORECTANGLE] "intersects" [PValue QGeoRectangle] RBool [On
        QGeoRectangle];
    Sig [] "isEmpty" [] RBool [On QGeoShape];
    Sig [] "isValid" [] RBool [On QGeoShape];
    Sig [TYPE_QTPOSITIONING_QGEOSATELLITEINFO] "removeAttribute" [PValue QGeoSatelliteInfo_Attribute] RVoid
        [On QGeoSatelliteInfo];
    Sig [] "satelliteIdentifier" [] RDouble [On QGeoSatelliteInfo];
    Sig [TYPE_QTPOSITIONING_QGEOSATELLITEINFO] "satelliteSystem" [] (RMeta
        QGeoSatelliteInfo_SatelliteSystem) [On QGeoSatelliteInfo];
    Sig [TYPE_QTPOSITIONING_QGEOSATELLITEINFO] "setAttribute" [PValue QGeoSatelliteInfo_Attribute; PNumber
        cxx_qreal] RVoid [On QGeoSatelliteInfo];
    Sig [VALUE_TYPE_QTPOSITIONING_QGEOCOORDINATE] "setBottomLeft" [PValue QGeoCoordinate] RVoid [On
        QGeoRectangle];
    Sig [VALUE_TYPE_QTPOSITIONING_QGEOCOORDINATE] "setBottomRight" [PValue QGeoCoordinate] RVoid [On
        QGeoRectangle]
  ].

Definition value_methods_qtpositioning_1_s19 : list signature_row :=
  [
    Sig [VALUE_TYPE_QTPOSITIONING_QGEOCOORDINATE] "setCenter" [PValue QGeoCoordinate] RVoid [On
        QGeoRectangle];
    Sig [] "setHeight" [PNumber cxx_double] RVoid [On QGeoRectangle];
    Sig [] "setSatelliteIdentifier" [PInt] RVoid [On QGeoSatelliteInfo];
    Sig [TYPE_QTPOSITIONING_QGEOSATELLITEINFO] "setSatelliteSystem" [PValue
        QGeoSatelliteInfo_SatelliteSystem] RVoid [On QGeoSatelliteInfo];
    Sig [] "setSignalStrength" [PInt] RVoid [On QGeoSatelliteInfo];
    Sig [VALUE_TYPE_QTPOSITIONING_QGEOCOORDINATE] "setTopLeft" [PValue QGeoCoordinate] RVoid [On
        QGeoRectangle];
    Sig [VALUE_TYPE_QTPOSITIONING_QGEOCOORDINATE] "setTopRight" [PValue QGeoCoordinate] RVoid [On
        QGeoRectangle];
    Sig [] "setWidth" [PNumber cxx_double] RVoid [On QGeoRectangle];
    Sig [] "signalStrength" [] RDouble [On QGeoSatelliteInfo]
  ].

Definition value_methods_qtpositioning_1_s28 : list signature_row :=
  [
    Sig [VALUE_TYPE_QTPOSITIONING_QGEOSATELLITEINFO] "swap" [PValue QGeoSatelliteInfo] RVoid [On
        QGeoSatelliteInfo];
    Sig [] "toString" [] RString [On QGeoRectangle; On QGeoShape];
    Sig [VALUE_TYPE_QTPOSITIONING_QGEOCOORDINATE] "topLeft" [] (RValue QGeoCoordinate) [On QGeoRectangle];
    Sig [VALUE_TYPE_QTPOSITIONING_QGEOCOORDINATE] "topRight" [] (RValue QGeoCoordinate) [On QGeoRectangle];
    Sig [] "translate" [PNumber cxx_double; PNumber cxx_double] RVoid [On QGeoRectangle];
    Sig [VALUE_TYPE_QTPOSITIONING_QGEORECTANGLE] "translated" [PNumber cxx_double; PNumber cxx_double]
        (RValue QGeoRectangle) [On QGeoRectangle];
    Sig [TYPE_QTPOSITIONING_QGEOSHAPE] "type" [] (RMeta QGeoShape_ShapeType) [On QGeoShape];
    Sig [VALUE_TYPE_QTPOSITIONING_QGEORECTANGLE] "united" [PValue QGeoRectangle] (RValue QGeoRectangle) [On
        QGeoRectangle];
    Sig [] "width" [] RDouble [On QGeoRectangle]
  ].

Definition value_methods_qtpositioning_1_types : list string :=
  [
    QGeoRectangle;
    QGeoSatelliteInfo;
    QGeoShape
  ].

Definition value_methods_qtpositioning_1 : method_shard :=
  MethodShard QtPositioning "KRY_QT6_NATIVE_METHODS_QTPOSITIONING_"
    (value_methods_qtpositioning_1_i0)
    (value_methods_qtpositioning_1_s0 ++ value_methods_qtpositioning_1_s9 ++
        value_methods_qtpositioning_1_s19 ++ value_methods_qtpositioning_1_s28)
    value_methods_qtpositioning_1_types.

Definition value_methods_qtserialport_0_i0 : list include :=
  [
    ClassInclude QtSerialPort QSerialPortInfo QSerialPortInfo;
    TypeInclude QtSerialPort QSerialPortInfo VALUE_TYPE_QTSERIALPORT_QSERIALPORTINFO
  ].

Definition value_methods_qtserialport_0_s0 : list signature_row :=
  [
    Sig [] "description" [] RString [On QSerialPortInfo];
    Sig [] "hasProductIdentifier" [] RBool [On QSerialPortInfo];
    Sig [] "hasVendorIdentifier" [] RBool [On QSerialPortInfo];
    Sig [] "isNull" [] RBool [On QSerialPortInfo];
    Sig [] "manufacturer" [] RString [On QSerialPortInfo];
    Sig [] "portName" [] RString [On QSerialPortInfo];
    Sig [] "serialNumber" [] RString [On QSerialPortInfo];
    Sig [VALUE_TYPE_QTSERIALPORT_QSERIALPORTINFO] "swap" [PValue QSerialPortInfo] RVoid [On
        QSerialPortInfo];
    Sig [] "systemLocation" [] RString [On QSerialPortInfo]
  ].

Definition value_methods_qtserialport_0_types : list string :=
  [
    QSerialPortInfo
  ].

Definition value_methods_qtserialport_0 : method_shard :=
  MethodShard QtSerialPort "KRY_QT6_NATIVE_METHODS_QTSERIALPORT_"
    (value_methods_qtserialport_0_i0)
    (value_methods_qtserialport_0_s0)
    value_methods_qtserialport_0_types.

Definition value_methods_qtwebenginecore_0_i0 : list include :=
  [
    ClassInclude QtWebEngineCore QWebEngineCertificateError QWebEngineCertificateError;
    ClassInclude QtWebEngineCore QWebEngineClientCertificateSelection QWebEngineClientCertificateSelection;
    ClassInclude QtWebEngineCore QWebEngineClientCertificateStore QWebEngineClientCertificateStore;
    ClassInclude QtWebEngineCore QWebEngineFindTextResult QWebEngineFindTextResult;
    ClassInclude QtWebEngineCore QWebEngineFullScreenRequest QWebEngineFullScreenRequest;
    ClassInclude QtWebEngineCore QWebEngineHistoryItem QWebEngineHistoryItem;
    ClassInclude QtWebEngineCore QWebEngineHttpRequest QWebEngineHttpRequest;
    ClassInclude QtWebEngineCore QWebEngineLoadingInfo QWebEngineLoadingInfo;
    TypeInclude QtWebEngineCore QWebEngineCertificateError TYPE_QTWEBENGINECORE_QWEBENGINECERTIFICATEERROR;
    TypeInclude QtWebEngineCore QWebEngineHttpRequest TYPE_QTWEBENGINECORE_QWEBENGINEHTTPREQUEST;
    TypeInclude QtWebEngineCore QWebEngineLoadingInfo TYPE_QTWEBENGINECORE_QWEBENGINELOADINGINFO;
    TypeInclude QtCore QByteArray VALUE_TYPE_QTCORE_QBYTEARRAY;
    TypeInclude QtCore QDateTime VALUE_TYPE_QTCORE_QDATETIME;
    TypeInclude QtCore QUrl VALUE_TYPE_QTCORE_QURL;
    TypeInclude QtNetwork QSslCertificate VALUE_TYPE_QTNETWORK_QSSLCERTIFICATE;
    TypeInclude QtNetwork QSslKey VALUE_TYPE_QTNETWORK_QSSLKEY;
    TypeInclude QtWebEngineCore QWebEngineHistoryItem VALUE_TYPE_QTWEBENGINECORE_QWEBENGINEHISTORYITEM;
    TypeInclude QtWebEngineCore QWebEngineHttpRequest VALUE_TYPE_QTWEBENGINECORE_QWEBENGINEHTTPREQUEST
  ].

Definition value_methods_qtwebenginecore_0_s0 : list signature_row :=
  [
    Sig [] "accept" [] RVoid [On QWebEngineFullScreenRequest];
    Sig [] "acceptCertificate" [] RVoid [On QWebEngineCertificateError];
    Sig [] "activeMatch" [] RDouble [On QWebEngineFindTextResult];
    Sig [VALUE_TYPE_QTNETWORK_QSSLCERTIFICATE; VALUE_TYPE_QTNETWORK_QSSLKEY] "add" [PValue QSslCertificate;
        PValue QSslKey] RVoid [On QWebEngineClientCertificateStore];
    Sig [VALUE_TYPE_QTNETWORK_QSSLCERTIFICATE] "certificateChain" [] (RList (IValue QSslCertificate)) [On
        QWebEngineCertificateError];
    Sig [VALUE_TYPE_QTNETWORK_QSSLCERTIFICATE] "certificates" [] (RList (IValue QSslCertificate)) [On
        QWebEngineClientCertificateSelection; On QWebEngineClientCertificateStore];
    Sig [] "clear" [] RVoid [On QWebEngineClientCertificateStore];
    Sig [] "defer" [] RVoid [On QWebEngineCertificateError];
    Sig [] "description" [] RString [On QWebEngineCertificateError]
  ].

Definition value_methods_qtwebenginecore_0_s9 : list signature_row :=
  [
    Sig [] "errorCode" [] RDouble [On QWebEngineLoadingInfo];
    Sig [TYPE_QTWEBENGINECORE_QWEBENGINELOADINGINFO] "errorDomain" [] (RMeta
        QWebEngineLoadingInfo_ErrorDomain) [On QWebEngineLoadingInfo];
    Sig [] "errorString" [] RString [On QWebEngineLoadingInfo];
    Sig [VALUE_TYPE_QTCORE_QBYTEARRAY] "hasHeader" [PValue QByteArray] RBool [On QWebEngineHttpRequest];
    Sig [VALUE_TYPE_QTCORE_QBYTEARRAY] "header" [PValue QByteArray] (RValue QByteArray) [On
        QWebEngineHttpRequest];
    Sig [VALUE_TYPE_QTCORE_QBYTEARRAY] "headers" [] (RList (IValue QByteArray)) [On QWebEngineHttpRequest];
    Sig [VALUE_TYPE_QTCORE_QURL] "host" [] (RValue QUrl) [On QWebEngineClientCertificateSelection];
    Sig [VALUE_TYPE_QTCORE_QURL] "iconUrl" [] (RValue QUrl) [On QWebEngineHistoryItem];
    Sig [] "isErrorPage" [] RBool [On QWebEngineLoadingInfo];
    Sig [] "isOverridable" [] RBool [On QWebEngineCertificateError]
  ].

Definition value_methods_qtwebenginecore_0_s19 : list signature_row :=
  [
    Sig [] "isValid" [] RBool [On QWebEngineHistoryItem];
    Sig [VALUE_TYPE_QTCORE_QDATETIME] "lastVisited" [] (RValue QDateTime) [On QWebEngineHistoryItem];
    Sig [TYPE_QTWEBENGINECORE_QWEBENGINEHTTPREQUEST] "method" [] (RMeta QWebEngineHttpRequest_Method) [On
        QWebEngineHttpRequest];
    Sig [] "numberOfMatches" [] RDouble [On QWebEngineFindTextResult];
    Sig [VALUE_TYPE_QTCORE_QURL] "origin" [] (RValue QUrl) [On QWebEngineFullScreenRequest];
    Sig [VALUE_TYPE_QTCORE_QURL] "originalUrl" [] (RValue QUrl) [On QWebEngineHistoryItem];
    Sig [VALUE_TYPE_QTCORE_QBYTEARRAY] "postData" [] (RValue QByteArray) [On QWebEngineHttpRequest];
    Sig [] "reject" [] RVoid [On QWebEngineFullScreenRequest];
    Sig [] "rejectCertificate" [] RVoid [On QWebEngineCertificateError];
    Sig [VALUE_TYPE_QTNETWORK_QSSLCERTIFICATE] "remove" [PValue QSslCertificate] RVoid [On
        QWebEngineClientCertificateStore]
  ].

Definition value_methods_qtwebenginecore_0_s29 : list signature_row :=
  [
    Sig [VALUE_TYPE_QTNETWORK_QSSLCERTIFICATE] "select" [PValue QSslCertificate] RVoid [On
        QWebEngineClientCertificateSelection];
    Sig [] "selectNone" [] RVoid [On QWebEngineClientCertificateSelection];
    Sig [VALUE_TYPE_QTCORE_QBYTEARRAY] "setHeader" [PValue QByteArray; PValue QByteArray] RVoid [On
        QWebEngineHttpRequest];
    Sig [TYPE_QTWEBENGINECORE_QWEBENGINEHTTPREQUEST] "setMethod" [PValue QWebEngineHttpRequest_Method]
        RVoid [On QWebEngineHttpRequest];
    Sig [VALUE_TYPE_QTCORE_QBYTEARRAY] "setPostData" [PValue QByteArray] RVoid [On QWebEngineHttpRequest];
    Sig [VALUE_TYPE_QTCORE_QURL] "setUrl" [PValue QUrl] RVoid [On QWebEngineHttpRequest];
    Sig [TYPE_QTWEBENGINECORE_QWEBENGINELOADINGINFO] "status" [] (RMeta QWebEngineLoadingInfo_LoadStatus)
        [On QWebEngineLoadingInfo];
    Sig [VALUE_TYPE_QTWEBENGINECORE_QWEBENGINEHISTORYITEM] "swap" [PValue QWebEngineHistoryItem] RVoid [On
        QWebEngineHistoryItem];
    Sig [VALUE_TYPE_QTWEBENGINECORE_QWEBENGINEHTTPREQUEST] "swap" [PValue QWebEngineHttpRequest] RVoid [On
        QWebEngineHttpRequest]
  ].

Definition value_methods_qtwebenginecore_0_s38 : list signature_row :=
  [
    Sig [] "title" [] RString [On QWebEngineHistoryItem];
    Sig [] "toggleOn" [] RBool [On QWebEngineFullScreenRequest];
    Sig [TYPE_QTWEBENGINECORE_QWEBENGINECERTIFICATEERROR] "type" [] (RMeta QWebEngineCertificateError_Type)
        [On QWebEngineCertificateError];
    Sig [VALUE_TYPE_QTCORE_QBYTEARRAY] "unsetHeader" [PValue QByteArray] RVoid [On QWebEngineHttpRequest];
    Sig [VALUE_TYPE_QTCORE_QURL] "url" [] (RValue QUrl) [On QWebEngineCertificateError; On
        QWebEngineHistoryItem; On QWebEngineHttpRequest; On QWebEngineLoadingInfo]
  ].

Definition value_methods_qtwebenginecore_0_types : list string :=
  [
    QWebEngineCertificateError;
    QWebEngineClientCertificateSelection;
    QWebEngineClientCertificateStore;
    QWebEngineFindTextResult;
    QWebEngineFullScreenRequest;
    QWebEngineHistoryItem;
    QWebEngineHttpRequest;
    QWebEngineLoadingInfo
  ].

Definition value_methods_qtwebenginecore_0 : method_shard :=
  MethodShard QtWebEngineCore "KRY_QT6_NATIVE_METHODS_QTWEBENGINECORE_"
    (value_methods_qtwebenginecore_0_i0)
    (value_methods_qtwebenginecore_0_s0 ++ value_methods_qtwebenginecore_0_s9 ++
        value_methods_qtwebenginecore_0_s19 ++ value_methods_qtwebenginecore_0_s29 ++
        value_methods_qtwebenginecore_0_s38)
    value_methods_qtwebenginecore_0_types.

Definition value_methods_qtwebenginecore_1_i0 : list include :=
  [
    ClassInclude QtWebEngineCore QWebEngineQuotaRequest QWebEngineQuotaRequest;
    ClassInclude QtWebEngineCore QWebEngineRegisterProtocolHandlerRequest
        QWebEngineRegisterProtocolHandlerRequest;
    ClassInclude QtWebEngineCore QWebEngineScript QWebEngineScript;
    ClassInclude QtWebEngineCore QWebEngineScriptCollection QWebEngineScriptCollection;
    ClassInclude QtWebEngineCore QWebEngineSettings QWebEngineSettings;
    ClassInclude QtWebEngineCore QWebEngineUrlRequestInfo QWebEngineUrlRequestInfo;
    ClassInclude QtWebEngineCore QWebEngineUrlScheme QWebEngineUrlScheme;
    TypeInclude QtWebEngineCore QWebEngineScript TYPE_QTWEBENGINECORE_QWEBENGINESCRIPT;
    TypeInclude QtWebEngineCore QWebEngineSettings TYPE_QTWEBENGINECORE_QWEBENGINESETTINGS;
    TypeInclude QtWebEngineCore QWebEngineUrlRequestInfo TYPE_QTWEBENGINECORE_QWEBENGINEURLREQUESTINFO;
    TypeInclude QtWebEngineCore QWebEngineUrlScheme TYPE_QTWEBENGINECORE_QWEBENGINEURLSCHEME;
    TypeInclude QtCore QByteArray VALUE_TYPE_QTCORE_QBYTEARRAY;
    TypeInclude QtCore QUrl VALUE_TYPE_QTCORE_QURL;
    TypeInclude QtWebEngineCore QWebEngineScript VALUE_TYPE_QTWEBENGINECORE_QWEBENGINESCRIPT
  ].

Definition value_methods_qtwebenginecore_1_s0 : list signature_row :=
  [
    Sig [] "accept" [] RVoid [On QWebEngineQuotaRequest; On QWebEngineRegisterProtocolHandlerRequest];
    Sig [] "block" [PBool] RVoid [On QWebEngineUrlRequestInfo];
    Sig [] "clear" [] RVoid [On QWebEngineScriptCollection];
    Sig [VALUE_TYPE_QTWEBENGINECORE_QWEBENGINESCRIPT] "contains" [PValue QWebEngineScript] RBool [On
        QWebEngineScriptCollection];
    Sig [] "count" [] RDouble [On QWebEngineScriptCollection];
    Sig [] "defaultPort" [] RDouble [On QWebEngineUrlScheme];
    Sig [] "defaultTextEncoding" [] RString [On QWebEngineSettings];
    Sig [VALUE_TYPE_QTWEBENGINECORE_QWEBENGINESCRIPT] "find" [PString true] (RList (IValue
        QWebEngineScript)) [On QWebEngineScriptCollection];
    Sig [VALUE_TYPE_QTCORE_QURL] "firstPartyUrl" [] (RValue QUrl) [On QWebEngineUrlRequestInfo];
    Sig [TYPE_QTWEBENGINECORE_QWEBENGINEURLSCHEME] "flags" [] (RMeta QWebEngineUrlScheme_Flags) [On
        QWebEngineUrlScheme]
  ].

Definition value_methods_qtwebenginecore_1_s10 : list signature_row :=
  [
    Sig [TYPE_QTWEBENGINECORE_QWEBENGINESETTINGS] "fontFamily" [PValue QWebEngineSettings_FontFamily]
        RString [On QWebEngineSettings];
    Sig [TYPE_QTWEBENGINECORE_QWEBENGINESETTINGS] "fontSize" [PValue QWebEngineSettings_FontSize] RDouble
        [On QWebEngineSettings];
    Sig [VALUE_TYPE_QTCORE_QURL] "initiator" [] (RValue QUrl) [On QWebEngineUrlRequestInfo];
    Sig [TYPE_QTWEBENGINECORE_QWEBENGINESCRIPT] "injectionPoint" [] (RMeta QWebEngineScript_InjectionPoint)
        [On QWebEngineScript];
    Sig [VALUE_TYPE_QTWEBENGINECORE_QWEBENGINESCRIPT] "insert" [PList (IValue QWebEngineScript)] RVoid [On
        QWebEngineScriptCollection];
    Sig [VALUE_TYPE_QTWEBENGINECORE_QWEBENGINESCRIPT] "insert" [PValue QWebEngineScript] RVoid [On
        QWebEngineScriptCollection];
    Sig [] "isEmpty" [] RBool [On QWebEngineScriptCollection];
    Sig [VALUE_TYPE_QTCORE_QBYTEARRAY] "name" [] (RValue QByteArray) [On QWebEngineUrlScheme];
    Sig [] "name" [] RString [On QWebEngineScript];
    Sig [TYPE_QTWEBENGINECORE_QWEBENGINEURLREQUESTINFO] "navigationType" [] (RMeta
        QWebEngineUrlRequestInfo_NavigationType) [On QWebEngineUrlRequestInfo]
  ].

Definition value_methods_qtwebenginecore_1_s20 : list signature_row :=
  [
    Sig [VALUE_TYPE_QTCORE_QURL] "origin" [] (RValue QUrl) [On QWebEngineQuotaRequest; On
        QWebEngineRegisterProtocolHandlerRequest];
    Sig [VALUE_TYPE_QTCORE_QURL] "redirect" [PValue QUrl] RVoid [On QWebEngineUrlRequestInfo];
    Sig [] "reject" [] RVoid [On QWebEngineQuotaRequest; On QWebEngineRegisterProtocolHandlerRequest];
    Sig [VALUE_TYPE_QTWEBENGINECORE_QWEBENGINESCRIPT] "remove" [PValue QWebEngineScript] RBool [On
        QWebEngineScriptCollection];
    Sig [VALUE_TYPE_QTCORE_QBYTEARRAY] "requestMethod" [] (RValue QByteArray) [On QWebEngineUrlRequestInfo];
    Sig [VALUE_TYPE_QTCORE_QURL] "requestUrl" [] (RValue QUrl) [On QWebEngineUrlRequestInfo];
    Sig [] "requestedSize" [] (RMeta cxx_qint64) [On QWebEngineQuotaRequest];
    Sig [TYPE_QTWEBENGINECORE_QWEBENGINESETTINGS] "resetAttribute" [PValue QWebEngineSettings_WebAttribute]
        RVoid [On QWebEngineSettings];
    Sig [TYPE_QTWEBENGINECORE_QWEBENGINESETTINGS] "resetFontFamily" [PValue QWebEngineSettings_FontFamily]
        RVoid [On QWebEngineSettings]
  ].

Definition value_methods_qtwebenginecore_1_s29 : list signature_row :=
  [
    Sig [TYPE_QTWEBENGINECORE_QWEBENGINESETTINGS] "resetFontSize" [PValue QWebEngineSettings_FontSize]
        RVoid [On QWebEngineSettings];
    Sig [] "resetUnknownUrlSchemePolicy" [] RVoid [On QWebEngineSettings];
    Sig [TYPE_QTWEBENGINECORE_QWEBENGINEURLREQUESTINFO] "resourceType" [] (RMeta
        QWebEngineUrlRequestInfo_ResourceType) [On QWebEngineUrlRequestInfo];
    Sig [] "runsOnSubFrames" [] RBool [On QWebEngineScript];
    Sig [] "scheme" [] RString [On QWebEngineRegisterProtocolHandlerRequest];
    Sig [TYPE_QTWEBENGINECORE_QWEBENGINESETTINGS] "setAttribute" [PValue QWebEngineSettings_WebAttribute;
        PBool] RVoid [On QWebEngineSettings];
    Sig [] "setDefaultPort" [PInt] RVoid [On QWebEngineUrlScheme];
    Sig [] "setDefaultTextEncoding" [PString true] RVoid [On QWebEngineSettings];
    Sig [TYPE_QTWEBENGINECORE_QWEBENGINEURLSCHEME] "setFlags" [PValue QWebEngineUrlScheme_Flags] RVoid [On
        QWebEngineUrlScheme];
    Sig [TYPE_QTWEBENGINECORE_QWEBENGINESETTINGS] "setFontFamily" [PValue QWebEngineSettings_FontFamily;
        PString true] RVoid [On QWebEngineSettings]
  ].

Definition value_methods_qtwebenginecore_1_s39 : list signature_row :=
  [
    Sig [TYPE_QTWEBENGINECORE_QWEBENGINESETTINGS] "setFontSize" [PValue QWebEngineSettings_FontSize; PInt]
        RVoid [On QWebEngineSettings];
    Sig [VALUE_TYPE_QTCORE_QBYTEARRAY] "setHttpHeader" [PValue QByteArray; PValue QByteArray] RVoid [On
        QWebEngineUrlRequestInfo];
    Sig [TYPE_QTWEBENGINECORE_QWEBENGINESCRIPT] "setInjectionPoint" [PValue
        QWebEngineScript_InjectionPoint] RVoid [On QWebEngineScript];
    Sig [VALUE_TYPE_QTCORE_QBYTEARRAY] "setName" [PValue QByteArray] RVoid [On QWebEngineUrlScheme];
    Sig [] "setName" [PString true] RVoid [On QWebEngineScript];
    Sig [] "setRunsOnSubFrames" [PBool] RVoid [On QWebEngineScript];
    Sig [] "setSourceCode" [PString true] RVoid [On QWebEngineScript];
    Sig [VALUE_TYPE_QTCORE_QURL] "setSourceUrl" [PValue QUrl] RVoid [On QWebEngineScript];
    Sig [TYPE_QTWEBENGINECORE_QWEBENGINEURLSCHEME] "setSyntax" [PValue QWebEngineUrlScheme_Syntax] RVoid
        [On QWebEngineUrlScheme]
  ].

Definition value_methods_qtwebenginecore_1_s48 : list signature_row :=
  [
    Sig [TYPE_QTWEBENGINECORE_QWEBENGINESETTINGS] "setUnknownUrlSchemePolicy" [PValue
        QWebEngineSettings_UnknownUrlSchemePolicy] RVoid [On QWebEngineSettings];
    Sig [] "sourceCode" [] RString [On QWebEngineScript];
    Sig [VALUE_TYPE_QTCORE_QURL] "sourceUrl" [] (RValue QUrl) [On QWebEngineScript];
    Sig [VALUE_TYPE_QTWEBENGINECORE_QWEBENGINESCRIPT] "swap" [PValue QWebEngineScript] RVoid [On
        QWebEngineScript];
    Sig [TYPE_QTWEBENGINECORE_QWEBENGINEURLSCHEME] "syntax" [] (RMeta QWebEngineUrlScheme_Syntax) [On
        QWebEngineUrlScheme];
    Sig [TYPE_QTWEBENGINECORE_QWEBENGINESETTINGS] "testAttribute" [PValue QWebEngineSettings_WebAttribute]
        RBool [On QWebEngineSettings];
    Sig [VALUE_TYPE_QTWEBENGINECORE_QWEBENGINESCRIPT] "toList" [] (RList (IValue QWebEngineScript)) [On
        QWebEngineScriptCollection];
    Sig [TYPE_QTWEBENGINECORE_QWEBENGINESETTINGS] "unknownUrlSchemePolicy" [] (RMeta
        QWebEngineSettings_UnknownUrlSchemePolicy) [On QWebEngineSettings]
  ].

Definition value_methods_qtwebenginecore_1_types : list string :=
  [
    QWebEngineQuotaRequest;
    QWebEngineRegisterProtocolHandlerRequest;
    QWebEngineScript;
    QWebEngineScriptCollection;
    QWebEngineSettings;
    QWebEngineUrlRequestInfo;
    QWebEngineUrlScheme
  ].

Definition value_methods_qtwebenginecore_1 : method_shard :=
  MethodShard QtWebEngineCore "KRY_QT6_NATIVE_METHODS_QTWEBENGINECORE_"
    (value_methods_qtwebenginecore_1_i0)
    (value_methods_qtwebenginecore_1_s0 ++ value_methods_qtwebenginecore_1_s10 ++
        value_methods_qtwebenginecore_1_s20 ++ value_methods_qtwebenginecore_1_s29 ++
        value_methods_qtwebenginecore_1_s39 ++ value_methods_qtwebenginecore_1_s48)
    value_methods_qtwebenginecore_1_types.

Definition value_methods_qtwebsockets_0_i0 : list include :=
  [
    ClassInclude QtWebSockets QWebSocketCorsAuthenticator QWebSocketCorsAuthenticator;
    ClassInclude QtWebSockets QWebSocketHandshakeOptions QWebSocketHandshakeOptions;
    TypeInclude QtWebSockets QWebSocketCorsAuthenticator
        VALUE_TYPE_QTWEBSOCKETS_QWEBSOCKETCORSAUTHENTICATOR;
    TypeInclude QtWebSockets QWebSocketHandshakeOptions VALUE_TYPE_QTWEBSOCKETS_QWEBSOCKETHANDSHAKEOPTIONS
  ].

Definition value_methods_qtwebsockets_0_s0 : list signature_row :=
  [
    Sig [] "allowed" [] RBool [On QWebSocketCorsAuthenticator];
    Sig [] "origin" [] RString [On QWebSocketCorsAuthenticator];
    Sig [] "setAllowed" [PBool] RVoid [On QWebSocketCorsAuthenticator];
    Sig [] "setSubprotocols" [PStringList] RVoid [On QWebSocketHandshakeOptions];
    Sig [] "subprotocols" [] (RList (IMeta QString)) [On QWebSocketHandshakeOptions];
    Sig [VALUE_TYPE_QTWEBSOCKETS_QWEBSOCKETCORSAUTHENTICATOR] "swap" [PValue QWebSocketCorsAuthenticator]
        RVoid [On QWebSocketCorsAuthenticator];
    Sig [VALUE_TYPE_QTWEBSOCKETS_QWEBSOCKETHANDSHAKEOPTIONS] "swap" [PValue QWebSocketHandshakeOptions]
        RVoid [On QWebSocketHandshakeOptions]
  ].

Definition value_methods_qtwebsockets_0_types : list string :=
  [
    QWebSocketCorsAuthenticator;
    QWebSocketHandshakeOptions
  ].

Definition value_methods_qtwebsockets_0 : method_shard :=
  MethodShard QtWebSockets "KRY_QT6_NATIVE_METHODS_QTWEBSOCKETS_"
    (value_methods_qtwebsockets_0_i0)
    (value_methods_qtwebsockets_0_s0)
    value_methods_qtwebsockets_0_types.
