(* ===== verification/ValueMethodsCore.v ===== *)
(** Rows of the shards of generated_value_methods: qtcore_0, qtcore_1, qtcore_10, qtcore_11,
    qtcore_12, qtcore_2, qtcore_3, qtcore_4, qtcore_5, qtcore_6, qtcore_7, qtcore_8, qtcore_9.
    *)
From S2P Require Import Names.

(** * Definitions *)

Definition value_methods_qtcore_0_i0 : list include :=
  [
    ClassInclude QtCore QBasicTimer QBasicTimer;
    ClassInclude QtCore QBitArray QBitArray;
    ClassInclude QtCore QByteArray QByteArray;
    ClassInclude QtCore QByteArrayMatcher QByteArrayMatcher;
    ClassInclude QtCore QCalendar QCalendar;
    ClassInclude QtCore QCalendarPermission QCalendarPermission;
    ClassInclude QtCore QCborStreamReader QCborStreamReader;
    ClassInclude QtCore QCborStreamWriter QCborStreamWriter;
    TypeInclude QtCore QIODevice TYPE_QTCORE_QIODEVICE;
    TypeInclude QtCore QObject TYPE_QTCORE_QOBJECT;
    EnumDefine ENUM_QT_TIMERTYPE;
    TypeInclude QtCore QCalendar TYPE_QTCORE_QCALENDAR;
    TypeInclude QtCore QCalendarPermission TYPE_QTCORE_QCALENDARPERMISSION;
    TypeInclude QtCore QCborStreamReader TYPE_QTCORE_QCBORSTREAMREADER;
    TypeInclude QtCore QLocale TYPE_QTCORE_QLOCALE;
    TypeInclude QtCore QBasicTimer VALUE_TYPE_QTCORE_QBASICTIMER;
    TypeInclude QtCore QBitArray VALUE_TYPE_QTCORE_QBITARRAY;
    TypeInclude QtCore QByteArray VALUE_TYPE_QTCORE_QBYTEARRAY;
    TypeInclude QtCore QDate VALUE_TYPE_QTCORE_QDATE;
    TypeInclude QtCore QLocale VALUE_TYPE_QTCORE_QLOCALE
  ].

Definition value_methods_qtcore_0_s0 : list signature_row :=
  [
    Sig [TYPE_QTCORE_QCALENDARPERMISSION] "accessMode" [] (RMeta QCalendarPermission_AccessMode) [On
        QCalendarPermission];
    Sig [VALUE_TYPE_QTCORE_QBYTEARRAY] "addData" [PValue QByteArray] RVoid [On QCborStreamReader];
    Sig [] "append" [PBool] RVoid [On QCborStreamWriter];
    Sig [] "append" [PNumber cxx_double] RVoid [On QCborStreamWriter];
    Sig [] "appendNull" [] RVoid [On QCborStreamWriter];
    Sig [] "appendUndefined" [] RVoid [On QCborStreamWriter];
    Sig [] "at" [PMeta cxx_qsizetype] RBool [On QBitArray];
    Sig [] "capacity" [] (RMeta cxx_qsizetype) [On QByteArray];
    Sig [] "chop" [PMeta cxx_qsizetype] RVoid [On QByteArray];
    Sig [VALUE_TYPE_QTCORE_QBYTEARRAY] "chopped" [PMeta cxx_qsizetype] (RValue QByteArray) [On QByteArray]
  ].

Definition value_methods_qtcore_0_s10 : list signature_row :=
  [
    Sig [] "clear" [] RVoid [On QBitArray; On QByteArray; On QCborStreamReader];
    Sig [] "clearBit" [PMeta cxx_qsizetype] RVoid [On QBitArray];
    Sig [] "containerDepth" [] RDouble [On QCborStreamReader];
    Sig [] "count" [] (RMeta cxx_qsizetype) [On QBitArray; On QByteArray];
    Sig [] "count" [PBool] (RMeta cxx_qsizetype) [On QBitArray];
    Sig [] "currentOffset" [] (RMeta cxx_qint64) [On QCborStreamReader];
    Sig [TYPE_QTCORE_QCALENDAR; VALUE_TYPE_QTCORE_QDATE] "dateFromParts" [PValue QCalendar_YearMonthDay]
        (RValue QDate) [On QCalendar];
    Sig [VALUE_TYPE_QTCORE_QDATE] "dateFromParts" [PInt; PInt; PInt] (RValue QDate) [On QCalendar];
    Sig [VALUE_TYPE_QTCORE_QDATE] "dayOfWeek" [PValue QDate] RDouble [On QCalendar]
  ].

Definition value_methods_qtcore_0_s19 : list signature_row :=
  [
    Sig [] "daysInYear" [PInt] RDouble [On QCalendar];
    Sig [] "detach" [] RVoid [On QBitArray];
    Sig [TYPE_QTCORE_QIODEVICE] "device" [] RObject [On QCborStreamReader; On QCborStreamWriter];
    Sig [] "endArray" [] RBool [On QCborStreamWriter];
    Sig [] "endMap" [] RBool [On QCborStreamWriter];
    Sig [] "enterContainer" [] RBool [On QCborStreamReader];
    Sig [] "fill" [PBool; PMeta cxx_qsizetype] RBool [On QBitArray];
    Sig [] "fill" [PBool; PMeta cxx_qsizetype; PMeta cxx_qsizetype] RVoid [On QBitArray];
    Sig [VALUE_TYPE_QTCORE_QBYTEARRAY] "first" [PMeta cxx_qsizetype] (RValue QByteArray) [On QByteArray];
    Sig [] "hasNext" [] RBool [On QCborStreamReader]
  ].

Definition value_methods_qtcore_0_s29 : list signature_row :=
  [
    Sig [] "hasYearZero" [] RBool [On QCalendar];
    Sig [] "isActive" [] RBool [On QBasicTimer];
    Sig [] "isArray" [] RBool [On QCborStreamReader];
    Sig [] "isBool" [] RBool [On QCborStreamReader];
    Sig [] "isByteArray" [] RBool [On QCborStreamReader];
    Sig [] "isContainer" [] RBool [On QCborStreamReader];
    Sig [] "isDateValid" [PInt; PInt; PInt] RBool [On QCalendar];
    Sig [] "isDetached" [] RBool [On QBitArray];
    Sig [] "isDouble" [] RBool [On QCborStreamReader];
    Sig [] "isEmpty" [] RBool [On QBitArray; On QByteArray];
    Sig [] "isFalse" [] RBool [On QCborStreamReader]
  ].

Definition value_methods_qtcore_0_s40 : list signature_row :=
  [
    Sig [] "isFloat" [] RBool [On QCborStreamReader];
    Sig [] "isFloat16" [] RBool [On QCborStreamReader];
    Sig [] "isGregorian" [] RBool [On QCalendar];
    Sig [] "isInteger" [] RBool [On QCborStreamReader];
    Sig [] "isInvalid" [] RBool [On QCborStreamReader];
    Sig [] "isLeapYear" [PInt] RBool [On QCalendar];
    Sig [] "isLengthKnown" [] RBool [On QCborStreamReader];
    Sig [] "isLower" [] RBool [On QByteArray];
    Sig [] "isLunar" [] RBool [On QCalendar];
    Sig [] "isLuniSolar" [] RBool [On QCalendar];
    Sig [] "isMap" [] RBool [On QCborStreamReader];
    Sig [] "isNegativeInteger" [] RBool [On QCborStreamReader]
  ].

Definition value_methods_qtcore_0_s52 : list signature_row :=
  [
    Sig [] "isNull" [] RBool [On QBitArray; On QByteArray; On QCborStreamReader];
    Sig [] "isProleptic" [] RBool [On QCalendar];
    Sig [] "isSimpleType" [] RBool [On QCborStreamReader];
    Sig [] "isSolar" [] RBool [On QCalendar];
    Sig [] "isString" [] RBool [On QCborStreamReader];
    Sig [] "isTag" [] RBool [On QCborStreamReader];
    Sig [] "isTrue" [] RBool [On QCborStreamReader];
    Sig [] "isUndefined" [] RBool [On QCborStreamReader];
    Sig [] "isUnsignedInteger" [] RBool [On QCborStreamReader];
    Sig [] "isUpper" [] RBool [On QByteArray];
    Sig [] "isValid" [] RBool [On QCborStreamReader]
  ].

Definition value_methods_qtcore_0_s63 : list signature_row :=
  [
    Sig [] "isValidUtf8" [] RBool [On QByteArray];
    Sig [VALUE_TYPE_QTCORE_QBYTEARRAY] "last" [PMeta cxx_qsizetype] (RValue QByteArray) [On QByteArray];
    Sig [] "leaveContainer" [] RBool [On QCborStreamReader];
    Sig [VALUE_TYPE_QTCORE_QBYTEARRAY] "left" [PMeta cxx_qsizetype] (RValue QByteArray) [On QByteArray];
    Sig [] "length" [] (RMeta cxx_qsizetype) [On QByteArray];
    Sig [] "length" [] (RMeta cxx_quint64) [On QCborStreamReader];
    Sig [TYPE_QTCORE_QCALENDAR; VALUE_TYPE_QTCORE_QDATE] "matchCenturyToWeekday" [PValue
        QCalendar_YearMonthDay; PInt] (RValue QDate) [On QCalendar];
    Sig [] "max_size" [] (RMeta cxx_qsizetype) [On QByteArray];
    Sig [] "maximumDaysInMonth" [] RDouble [On QCalendar];
    Sig [] "maximumMonthsInYear" [] RDouble [On QCalendar]
  ].

Definition value_methods_qtcore_0_s73 : list signature_row :=
  [
    Sig [VALUE_TYPE_QTCORE_QBYTEARRAY] "mid" [PMeta cxx_qsizetype; PMeta cxx_qsizetype] (RValue QByteArray)
        [On QByteArray];
    Sig [] "minimumDaysInMonth" [] RDouble [On QCalendar];
    Sig [TYPE_QTCORE_QLOCALE; VALUE_TYPE_QTCORE_QLOCALE] "monthName" [PValue QLocale; PInt; PInt; PValue
        QLocale_FormatType] RString [On QCalendar];
    Sig [] "monthsInYear" [PInt] RDouble [On QCalendar];
    Sig [] "name" [] RString [On QCalendar];
    Sig [] "next" [PInt] RBool [On QCborStreamReader];
    Sig [VALUE_TYPE_QTCORE_QBYTEARRAY] "nullTerminate" [] (RValue QByteArray) [On QByteArray];
    Sig [VALUE_TYPE_QTCORE_QBYTEARRAY] "nullTerminated" [] (RValue QByteArray) [On QByteArray];
    Sig [TYPE_QTCORE_QCBORSTREAMREADER] "parentContainerType" [] (RMeta QCborStreamReader_Type) [On
        QCborStreamReader]
  ].

Definition value_methods_qtcore_0_s82 : list signature_row :=
  [
    Sig [TYPE_QTCORE_QCALENDAR; VALUE_TYPE_QTCORE_QDATE] "partsFromDate" [PValue QDate] (RMeta
        QCalendar_YearMonthDay) [On QCalendar];
    Sig [VALUE_TYPE_QTCORE_QBYTEARRAY] "pattern" [] (RValue QByteArray) [On QByteArrayMatcher];
    Sig [VALUE_TYPE_QTCORE_QBYTEARRAY] "readAllByteArray" [] (RValue QByteArray) [On QCborStreamReader];
    Sig [] "readAllString" [] RString [On QCborStreamReader];
    Sig [VALUE_TYPE_QTCORE_QBYTEARRAY] "readAllUtf8String" [] (RValue QByteArray) [On QCborStreamReader];
    Sig [VALUE_TYPE_QTCORE_QBYTEARRAY] "readAndAppendToByteArray" [PValue QByteArray] RBool [On
        QCborStreamReader];
    Sig [] "readAndAppendToString" [PString true] RBool [On QCborStreamReader];
    Sig [VALUE_TYPE_QTCORE_QBYTEARRAY] "readAndAppendToUtf8String" [PValue QByteArray] RBool [On
        QCborStreamReader];
    Sig [VALUE_TYPE_QTCORE_QBYTEARRAY] "remove" [PMeta cxx_qsizetype; PMeta cxx_qsizetype] (RValue
        QByteArray) [On QByteArray]
  ].

Definition value_methods_qtcore_0_s91 : list signature_row :=
  [
    Sig [VALUE_TYPE_QTCORE_QBYTEARRAY] "removeAt" [PMeta cxx_qsizetype] (RValue QByteArray) [On QByteArray];
    Sig [VALUE_TYPE_QTCORE_QBYTEARRAY] "removeFirst" [] (RValue QByteArray) [On QByteArray];
    Sig [VALUE_TYPE_QTCORE_QBYTEARRAY] "removeLast" [] (RValue QByteArray) [On QByteArray];
    Sig [] "reparse" [] RVoid [On QCborStreamReader];
    Sig [VALUE_TYPE_QTCORE_QBYTEARRAY] "repeated" [PMeta cxx_qsizetype] (RValue QByteArray) [On QByteArray];
    Sig [] "reserve" [PMeta cxx_qsizetype] RVoid [On QByteArray];
    Sig [] "reset" [] RVoid [On QCborStreamReader];
    Sig [] "resize" [PMeta cxx_qsizetype] RVoid [On QBitArray; On QByteArray];
    Sig [VALUE_TYPE_QTCORE_QBYTEARRAY] "right" [PMeta cxx_qsizetype] (RValue QByteArray) [On QByteArray]
  ].

Definition value_methods_qtcore_0_s100 : list signature_row :=
  [
    Sig [TYPE_QTCORE_QCALENDARPERMISSION] "setAccessMode" [PValue QCalendarPermission_AccessMode] RVoid [On
        QCalendarPermission];
    Sig [] "setBit" [PMeta cxx_qsizetype] RVoid [On QBitArray];
    Sig [] "setBit" [PMeta cxx_qsizetype; PBool] RVoid [On QBitArray];
    Sig [TYPE_QTCORE_QIODEVICE] "setDevice" [PObject QIODevice false] RVoid [On QCborStreamReader; On
        QCborStreamWriter];
    Sig [VALUE_TYPE_QTCORE_QBYTEARRAY] "setPattern" [PValue QByteArray] RVoid [On QByteArrayMatcher];
    Sig [VALUE_TYPE_QTCORE_QBYTEARRAY] "simplified" [] (RValue QByteArray) [On QByteArray];
    Sig [] "size" [] (RMeta cxx_qsizetype) [On QBitArray; On QByteArray];
    Sig [VALUE_TYPE_QTCORE_QBYTEARRAY] "slice" [PMeta cxx_qsizetype] (RValue QByteArray) [On QByteArray]
  ].

Definition value_methods_qtcore_0_s108 : list signature_row :=
  [
    Sig [VALUE_TYPE_QTCORE_QBYTEARRAY] "slice" [PMeta cxx_qsizetype; PMeta cxx_qsizetype] (RValue
        QByteArray) [On QByteArray];
    Sig [VALUE_TYPE_QTCORE_QBYTEARRAY] "sliced" [PMeta cxx_qsizetype] (RValue QByteArray) [On QByteArray];
    Sig [VALUE_TYPE_QTCORE_QBYTEARRAY] "sliced" [PMeta cxx_qsizetype; PMeta cxx_qsizetype] (RValue
        QByteArray) [On QByteArray];
    Sig [] "squeeze" [] RVoid [On QByteArray];
    Sig [TYPE_QTCORE_QLOCALE; VALUE_TYPE_QTCORE_QLOCALE] "standaloneMonthName" [PValue QLocale; PInt; PInt;
        PValue QLocale_FormatType] RString [On QCalendar];
    Sig [TYPE_QTCORE_QLOCALE; VALUE_TYPE_QTCORE_QLOCALE] "standaloneWeekDayName" [PValue QLocale; PInt;
        PValue QLocale_FormatType] RString [On QCalendar];
    Sig [TYPE_QTCORE_QOBJECT] "start" [PInt; PObject QObject false] RVoid [On QBasicTimer]
  ].

Definition value_methods_qtcore_0_s115 : list signature_row :=
  [
    Sig [ENUM_QT_TIMERTYPE; TYPE_QTCORE_QOBJECT] "start" [PInt; PValue Qt_TimerType; PObject QObject false]
        RVoid [On QBasicTimer];
    Sig [] "startArray" [] RVoid [On QCborStreamWriter];
    Sig [] "startArray" [PMeta cxx_quint64] RVoid [On QCborStreamWriter];
    Sig [] "startMap" [] RVoid [On QCborStreamWriter];
    Sig [] "startMap" [PMeta cxx_quint64] RVoid [On QCborStreamWriter];
    Sig [] "stop" [] RVoid [On QBasicTimer];
    Sig [VALUE_TYPE_QTCORE_QBASICTIMER] "swap" [PValue QBasicTimer] RVoid [On QBasicTimer];
    Sig [VALUE_TYPE_QTCORE_QBITARRAY] "swap" [PValue QBitArray] RVoid [On QBitArray];
    Sig [VALUE_TYPE_QTCORE_QBYTEARRAY] "swap" [PValue QByteArray] RVoid [On QByteArray]
  ].

Definition value_methods_qtcore_0_s124 : list signature_row :=
  [
    Sig [] "testBit" [PMeta cxx_qsizetype] RBool [On QBitArray];
    Sig [] "timerId" [] RDouble [On QBasicTimer];
    Sig [] "toBool" [] RBool [On QCborStreamReader];
    Sig [] "toDouble" [] RDouble [On QCborStreamReader];
    Sig [] "toInteger" [] (RMeta cxx_qint64) [On QCborStreamReader];
    Sig [VALUE_TYPE_QTCORE_QBYTEARRAY] "toLower" [] (RValue QByteArray) [On QByteArray];
    Sig [] "toUnsignedInteger" [] (RMeta cxx_quint64) [On QCborStreamReader];
    Sig [VALUE_TYPE_QTCORE_QBYTEARRAY] "toUpper" [] (RValue QByteArray) [On QByteArray];
    Sig [] "toggleBit" [PMeta cxx_qsizetype] RBool [On QBitArray];
    Sig [VALUE_TYPE_QTCORE_QBYTEARRAY] "trimmed" [] (RValue QByteArray) [On QByteArray]
  ].

Definition value_methods_qtcore_0_s134 : list signature_row :=
  [
    Sig [] "truncate" [PMeta cxx_qsizetype] RVoid [On QBitArray; On QByteArray];
    Sig [TYPE_QTCORE_QCBORSTREAMREADER] "type" [] (RMeta QCborStreamReader_Type) [On QCborStreamReader];
    Sig [TYPE_QTCORE_QLOCALE; VALUE_TYPE_QTCORE_QLOCALE] "weekDayName" [PValue QLocale; PInt; PValue
        QLocale_FormatType] RString [On QCalendar]
  ].

Definition value_methods_qtcore_0_types : list string :=
  [
    QBasicTimer;
    QBitArray;
    QByteArray;
    QByteArrayMatcher;
    QCalendar;
    QCalendarPermission;
    QCborStreamReader;
    QCborStreamWriter
  ].

Definition value_methods_qtcore_0 : method_shard :=
  MethodShard QtCore "KRY_QT6_NATIVE_METHODS_QTCORE_"
    (value_methods_qtcore_0_i0)
    (value_methods_qtcore_0_s0 ++ value_methods_qtcore_0_s10 ++ value_methods_qtcore_0_s19 ++
        value_methods_qtcore_0_s29 ++ value_methods_qtcore_0_s40 ++ value_methods_qtcore_0_s52 ++
        value_methods_qtcore_0_s63 ++ value_methods_qtcore_0_s73 ++ value_methods_qtcore_0_s82 ++
        value_methods_qtcore_0_s91 ++ value_methods_qtcore_0_s100 ++ value_methods_qtcore_0_s108 ++
        value_methods_qtcore_0_s115 ++ value_methods_qtcore_0_s124 ++ value_methods_qtcore_0_s134)
    value_methods_qtcore_0_types.

Definition value_methods_qtcore_1_i0 : list include :=
  [
    ClassInclude QtCore QChildEvent QChildEvent;
    ClassInclude QtCore QCollator QCollator;
    ClassInclude QtCore QCollatorSortKey QCollatorSortKey;
    ClassInclude QtCore QCommandLineOption QCommandLineOption;
    ClassInclude QtCore QCommandLineParser QCommandLineParser;
    ClassInclude QtCore QContactsPermission QContactsPermission;
    ClassInclude QtCore QCryptographicHash QCryptographicHash;
    ClassInclude QtCore QDataStream QDataStream;
    TypeInclude QtCore QIODevice TYPE_QTCORE_QIODEVICE;
    TypeInclude QtCore QObject TYPE_QTCORE_QOBJECT;
    EnumDefine ENUM_QT_CASESENSITIVITY;
    TypeInclude QtCore QCommandLineOption TYPE_QTCORE_QCOMMANDLINEOPTION;
    TypeInclude QtCore QCommandLineParser TYPE_QTCORE_QCOMMANDLINEPARSER;
    TypeInclude QtCore QContactsPermission TYPE_QTCORE_QCONTACTSPERMISSION;
    TypeInclude QtCore QCryptographicHash TYPE_QTCORE_QCRYPTOGRAPHICHASH;
    TypeInclude QtCore QDataStream TYPE_QTCORE_QDATASTREAM;
    TypeInclude QtCore QByteArray VALUE_TYPE_QTCORE_QBYTEARRAY;
    TypeInclude QtCore QCollator VALUE_TYPE_QTCORE_QCOLLATOR;
    TypeInclude QtCore QCollatorSortKey VALUE_TYPE_QTCORE_QCOLLATORSORTKEY;
    TypeInclude QtCore QCommandLineOption VALUE_TYPE_QTCORE_QCOMMANDLINEOPTION;
    TypeInclude QtCore QCryptographicHash VALUE_TYPE_QTCORE_QCRYPTOGRAPHICHASH;
    TypeInclude QtCore QLocale VALUE_TYPE_QTCORE_QLOCALE
  ].

Definition value_methods_qtcore_1_s0 : list signature_row :=
  [
    Sig [] "abortTransaction" [] RVoid [On QDataStream];
    Sig [TYPE_QTCORE_QCONTACTSPERMISSION] "accessMode" [] (RMeta QContactsPermission_AccessMode) [On
        QContactsPermission];
    Sig [TYPE_QTCORE_QIODEVICE] "addData" [PObject QIODevice false] RBool [On QCryptographicHash];
    Sig [VALUE_TYPE_QTCORE_QCOMMANDLINEOPTION] "addHelpOption" [] (RValue QCommandLineOption) [On
        QCommandLineParser];
    Sig [VALUE_TYPE_QTCORE_QCOMMANDLINEOPTION] "addOption" [PValue QCommandLineOption] RBool [On
        QCommandLineParser];
    Sig [VALUE_TYPE_QTCORE_QCOMMANDLINEOPTION] "addOptions" [PList (IValue QCommandLineOption)] RBool [On
        QCommandLineParser];
    Sig [] "addPositionalArgument" [PString true; PString true; PString true] RVoid [On QCommandLineParser];
    Sig [VALUE_TYPE_QTCORE_QCOMMANDLINEOPTION] "addVersionOption" [] (RValue QCommandLineOption) [On
        QCommandLineParser];
    Sig [] "added" [] RBool [On QChildEvent];
    Sig [TYPE_QTCORE_QCRYPTOGRAPHICHASH] "algorithm" [] (RMeta QCryptographicHash_Algorithm) [On
        QCryptographicHash]
  ].

Definition value_methods_qtcore_1_s10 : list signature_row :=
  [
    Sig [] "applicationDescription" [] RString [On QCommandLineParser];
    Sig [] "atEnd" [] RBool [On QDataStream];
    Sig [TYPE_QTCORE_QDATASTREAM] "byteOrder" [] (RMeta QDataStream_ByteOrder) [On QDataStream];
    Sig [ENUM_QT_CASESENSITIVITY] "caseSensitivity" [] (RMeta Qt_CaseSensitivity) [On QCollator];
    Sig [TYPE_QTCORE_QOBJECT] "child" [] RObject [On QChildEvent];
    Sig [] "clearPositionalArguments" [] RVoid [On QCommandLineParser];
    Sig [] "commitTransaction" [] RBool [On QDataStream];
    Sig [VALUE_TYPE_QTCORE_QCOLLATORSORTKEY] "compare" [PValue QCollatorSortKey] RDouble [On
        QCollatorSortKey];
    Sig [] "compare" [PString true; PString true] RDouble [On QCollator];
    Sig [] "defaultValues" [] (RList (IMeta QString)) [On QCommandLineOption];
    Sig [] "description" [] RString [On QCommandLineOption]
  ].

Definition value_methods_qtcore_1_s21 : list signature_row :=
  [
    Sig [TYPE_QTCORE_QIODEVICE] "device" [] RObject [On QDataStream];
    Sig [] "errorText" [] RString [On QCommandLineParser];
    Sig [TYPE_QTCORE_QCOMMANDLINEOPTION] "flags" [] (RMeta QCommandLineOption_Flags) [On
        QCommandLineOption];
    Sig [TYPE_QTCORE_QDATASTREAM] "floatingPointPrecision" [] (RMeta QDataStream_FloatingPointPrecision)
        [On QDataStream];
    Sig [] "helpText" [] RString [On QCommandLineParser];
    Sig [] "ignorePunctuation" [] RBool [On QCollator];
    Sig [VALUE_TYPE_QTCORE_QCOMMANDLINEOPTION] "isSet" [PValue QCommandLineOption] RBool [On
        QCommandLineParser];
    Sig [] "isSet" [PString true] RBool [On QCommandLineParser];
    Sig [VALUE_TYPE_QTCORE_QLOCALE] "locale" [] (RValue QLocale) [On QCollator];
    Sig [] "names" [] (RList (IMeta QString)) [On QCommandLineOption];
    Sig [] "numericMode" [] RBool [On QCollator]
  ].

Definition value_methods_qtcore_1_s32 : list signature_row :=
  [
    Sig [] "optionNames" [] (RList (IMeta QString)) [On QCommandLineParser];
    Sig [] "parse" [PStringList] RBool [On QCommandLineParser];
    Sig [] "polished" [] RBool [On QChildEvent];
    Sig [] "positionalArguments" [] (RList (IMeta QString)) [On QCommandLineParser];
    Sig [] "process" [PStringList] RVoid [On QCommandLineParser];
    Sig [] "removed" [] RBool [On QChildEvent];
    Sig [] "reset" [] RVoid [On QCryptographicHash];
    Sig [] "resetStatus" [] RVoid [On QDataStream];
    Sig [VALUE_TYPE_QTCORE_QBYTEARRAY] "result" [] (RValue QByteArray) [On QCryptographicHash];
    Sig [] "rollbackTransaction" [] RVoid [On QDataStream]
  ].

Definition value_methods_qtcore_1_s42 : list signature_row :=
  [
    Sig [TYPE_QTCORE_QCONTACTSPERMISSION] "setAccessMode" [PValue QContactsPermission_AccessMode] RVoid [On
        QContactsPermission];
    Sig [] "setApplicationDescription" [PString true] RVoid [On QCommandLineParser];
    Sig [TYPE_QTCORE_QDATASTREAM] "setByteOrder" [PValue QDataStream_ByteOrder] RVoid [On QDataStream];
    Sig [ENUM_QT_CASESENSITIVITY] "setCaseSensitivity" [PValue Qt_CaseSensitivity] RVoid [On QCollator];
    Sig [] "setDefaultValue" [PString true] RVoid [On QCommandLineOption];
    Sig [] "setDefaultValues" [PStringList] RVoid [On QCommandLineOption];
    Sig [] "setDescription" [PString true] RVoid [On QCommandLineOption];
    Sig [TYPE_QTCORE_QIODEVICE] "setDevice" [PObject QIODevice false] RVoid [On QDataStream];
    Sig [TYPE_QTCORE_QCOMMANDLINEOPTION] "setFlags" [PValue QCommandLineOption_Flags] RVoid [On
        QCommandLineOption]
  ].

Definition value_methods_qtcore_1_s51 : list signature_row :=
  [
    Sig [TYPE_QTCORE_QDATASTREAM] "setFloatingPointPrecision" [PValue QDataStream_FloatingPointPrecision]
        RVoid [On QDataStream];
    Sig [] "setIgnorePunctuation" [PBool] RVoid [On QCollator];
    Sig [VALUE_TYPE_QTCORE_QLOCALE] "setLocale" [PValue QLocale] RVoid [On QCollator];
    Sig [] "setNumericMode" [PBool] RVoid [On QCollator];
    Sig [TYPE_QTCORE_QCOMMANDLINEPARSER] "setOptionsAfterPositionalArgumentsMode" [PValue
        QCommandLineParser_OptionsAfterPositionalArgumentsMode] RVoid [On QCommandLineParser];
    Sig [TYPE_QTCORE_QCOMMANDLINEPARSER] "setSingleDashWordOptionMode" [PValue
        QCommandLineParser_SingleDashWordOptionMode] RVoid [On QCommandLineParser];
    Sig [TYPE_QTCORE_QDATASTREAM] "setStatus" [PValue QDataStream_Status] RVoid [On QDataStream];
    Sig [] "setValueName" [PString true] RVoid [On QCommandLineOption];
    Sig [] "setVersion" [PInt] RVoid [On QDataStream]
  ].

Definition value_methods_qtcore_1_s60 : list signature_row :=
  [
    Sig [] "showHelp" [PInt] RVoid [On QCommandLineParser];
    Sig [] "showVersion" [] RVoid [On QCommandLineParser];
    Sig [VALUE_TYPE_QTCORE_QCOLLATORSORTKEY] "sortKey" [PString true] (RValue QCollatorSortKey) [On
        QCollator];
    Sig [] "startTransaction" [] RVoid [On QDataStream];
    Sig [TYPE_QTCORE_QDATASTREAM] "status" [] (RMeta QDataStream_Status) [On QDataStream];
    Sig [VALUE_TYPE_QTCORE_QCOLLATOR] "swap" [PValue QCollator] RVoid [On QCollator];
    Sig [VALUE_TYPE_QTCORE_QCOLLATORSORTKEY] "swap" [PValue QCollatorSortKey] RVoid [On QCollatorSortKey];
    Sig [VALUE_TYPE_QTCORE_QCOMMANDLINEOPTION] "swap" [PValue QCommandLineOption] RVoid [On
        QCommandLineOption];
    Sig [VALUE_TYPE_QTCORE_QCRYPTOGRAPHICHASH] "swap" [PValue QCryptographicHash] RVoid [On
        QCryptographicHash]
  ].

Definition value_methods_qtcore_1_s69 : list signature_row :=
  [
    Sig [] "unknownOptionNames" [] (RList (IMeta QString)) [On QCommandLineParser];
    Sig [VALUE_TYPE_QTCORE_QCOMMANDLINEOPTION] "value" [PValue QCommandLineOption] RString [On
        QCommandLineParser];
    Sig [] "value" [PString true] RString [On QCommandLineParser];
    Sig [] "valueName" [] RString [On QCommandLineOption];
    Sig [VALUE_TYPE_QTCORE_QCOMMANDLINEOPTION] "values" [PValue QCommandLineOption] (RList (IMeta QString))
        [On QCommandLineParser];
    Sig [] "values" [PString true] (RList (IMeta QString)) [On QCommandLineParser];
    Sig [] "version" [] RDouble [On QDataStream]
  ].

Definition value_methods_qtcore_1_types : list string :=
  [
    QChildEvent;
    QCollator;
    QCollatorSortKey;
    QCommandLineOption;
    QCommandLineParser;
    QContactsPermission;
    QCryptographicHash;
    QDataStream
  ].

Definition value_methods_qtcore_1 : method_shard :=
  MethodShard QtCore "KRY_QT6_NATIVE_METHODS_QTCORE_"
    (value_methods_qtcore_1_i0)
    (value_methods_qtcore_1_s0 ++ value_methods_qtcore_1_s10 ++ value_methods_qtcore_1_s21 ++
        value_methods_qtcore_1_s32 ++ value_methods_qtcore_1_s42 ++ value_methods_qtcore_1_s51 ++
        value_methods_qtcore_1_s60 ++ value_methods_qtcore_1_s69)
    value_methods_qtcore_1_types.

Definition value_methods_qtcore_10_i0 : list include :=
  [
    ClassInclude QtCore QTextStream QTextStream;
    ClassInclude QtCore QTime QTime;
    ClassInclude QtCore QTimeZone QTimeZone;
    ClassInclude QtCore QTimerEvent QTimerEvent;
    ClassInclude QtCore QTypeRevision QTypeRevision;
    ClassInclude QtCore QUrl QUrl;
    ClassInclude QtCore QUrlQuery QUrlQuery;
    ClassInclude QtCore QUuid QUuid;
    TypeInclude QtCore QIODevice TYPE_QTCORE_QIODEVICE;
    EnumDefine ENUM_QT_DATEFORMAT;
    EnumDefine ENUM_QT_TIMESPEC;
    TypeInclude QtCore QLocale TYPE_QTCORE_QLOCALE;
    TypeInclude QtCore QStringConverter TYPE_QTCORE_QSTRINGCONVERTER;
    TypeInclude QtCore QTextStream TYPE_QTCORE_QTEXTSTREAM;
    TypeInclude QtCore QTimeZone TYPE_QTCORE_QTIMEZONE;
    TypeInclude QtCore QUrl TYPE_QTCORE_QURL;
    TypeInclude QtCore QUuid TYPE_QTCORE_QUUID;
    TypeInclude QtCore QBasicTimer VALUE_TYPE_QTCORE_QBASICTIMER;
    TypeInclude QtCore QByteArray VALUE_TYPE_QTCORE_QBYTEARRAY;
    TypeInclude QtCore QDateTime VALUE_TYPE_QTCORE_QDATETIME;
    TypeInclude QtCore QLocale VALUE_TYPE_QTCORE_QLOCALE;
    TypeInclude QtCore QTime VALUE_TYPE_QTCORE_QTIME;
    TypeInclude QtCore QTimeZone VALUE_TYPE_QTCORE_QTIMEZONE;
    TypeInclude QtCore QUrl VALUE_TYPE_QTCORE_QURL;
    TypeInclude QtCore QUrlQuery VALUE_TYPE_QTCORE_QURLQUERY
  ].

Definition value_methods_qtcore_10_s0 : list signature_row :=
  [
    Sig [VALUE_TYPE_QTCORE_QDATETIME] "abbreviation" [PValue QDateTime] RString [On QTimeZone];
    Sig [VALUE_TYPE_QTCORE_QTIME] "addMSecs" [PInt] (RValue QTime) [On QTime];
    Sig [] "addQueryItem" [PString true; PString true] RVoid [On QUrlQuery];
    Sig [VALUE_TYPE_QTCORE_QTIME] "addSecs" [PInt] (RValue QTime) [On QTime];
    Sig [VALUE_TYPE_QTCORE_QTIMEZONE] "asBackendZone" [] (RValue QTimeZone) [On QTimeZone];
    Sig [] "atEnd" [] RBool [On QTextStream];
    Sig [] "autoDetectUnicode" [] RBool [On QTextStream];
    Sig [] "clear" [] RVoid [On QUrl; On QUrlQuery];
    Sig [] "comment" [] RString [On QTimeZone];
    Sig [TYPE_QTCORE_QLOCALE] "country" [] (RMeta QLocale_Country) [On QTimeZone]
  ].

Definition value_methods_qtcore_10_s10 : list signature_row :=
  [
    Sig [VALUE_TYPE_QTCORE_QDATETIME] "daylightTimeOffset" [PValue QDateTime] RDouble [On QTimeZone];
    Sig [] "detach" [] RVoid [On QUrl];
    Sig [TYPE_QTCORE_QIODEVICE] "device" [] RObject [On QTextStream];
    Sig [TYPE_QTCORE_QTIMEZONE; VALUE_TYPE_QTCORE_QDATETIME; VALUE_TYPE_QTCORE_QLOCALE] "displayName"
        [PValue QDateTime; PValue QTimeZone_NameType; PValue QLocale] RString [On QTimeZone];
    Sig [TYPE_QTCORE_QTIMEZONE; VALUE_TYPE_QTCORE_QLOCALE] "displayName" [PValue QTimeZone_TimeType; PValue
        QTimeZone_NameType; PValue QLocale] RString [On QTimeZone];
    Sig [TYPE_QTCORE_QSTRINGCONVERTER] "encoding" [] (RMeta QStringConverter_Encoding) [On QTextStream];
    Sig [] "errorString" [] RString [On QUrl];
    Sig [TYPE_QTCORE_QTEXTSTREAM] "fieldAlignment" [] (RMeta QTextStream_FieldAlignment) [On QTextStream];
    Sig [] "fieldWidth" [] RDouble [On QTextStream];
    Sig [] "fixedSecondsAheadOfUtc" [] RDouble [On QTimeZone]
  ].

Definition value_methods_qtcore_10_s20 : list signature_row :=
  [
    Sig [] "flush" [] RVoid [On QTextStream];
    Sig [] "generateByteOrderMark" [] RBool [On QTextStream];
    Sig [] "hasDaylightTime" [] RBool [On QTimeZone];
    Sig [] "hasFragment" [] RBool [On QUrl];
    Sig [] "hasMajorVersion" [] RBool [On QTypeRevision];
    Sig [] "hasMinorVersion" [] RBool [On QTypeRevision];
    Sig [] "hasQuery" [] RBool [On QUrl];
    Sig [] "hasQueryItem" [PString true] RBool [On QUrlQuery];
    Sig [] "hasTransitions" [] RBool [On QTimeZone];
    Sig [] "hour" [] RDouble [On QTime];
    Sig [VALUE_TYPE_QTCORE_QBYTEARRAY] "id" [] (RValue QByteArray) [On QTimeZone]
  ].

Definition value_methods_qtcore_10_s31 : list signature_row :=
  [
    Sig [] "integerBase" [] RDouble [On QTextStream];
    Sig [VALUE_TYPE_QTCORE_QDATETIME] "isDaylightTime" [PValue QDateTime] RBool [On QTimeZone];
    Sig [] "isDetached" [] RBool [On QUrl; On QUrlQuery];
    Sig [] "isEmpty" [] RBool [On QUrl; On QUrlQuery];
    Sig [] "isLocalFile" [] RBool [On QUrl];
    Sig [] "isNull" [] RBool [On QTime; On QUuid];
    Sig [VALUE_TYPE_QTCORE_QURL] "isParentOf" [PValue QUrl] RBool [On QUrl];
    Sig [] "isRelative" [] RBool [On QUrl];
    Sig [] "isUtcOrFixedOffset" [] RBool [On QTimeZone]
  ].

Definition value_methods_qtcore_10_s40 : list signature_row :=
  [
    Sig [] "isValid" [] RBool [On QTime; On QTimeZone; On QTypeRevision; On QUrl];
    Sig [VALUE_TYPE_QTCORE_QLOCALE] "locale" [] (RValue QLocale) [On QTextStream];
    Sig [VALUE_TYPE_QTCORE_QBASICTIMER] "matches" [PValue QBasicTimer] RBool [On QTimerEvent];
    Sig [] "minute" [] RDouble [On QTime];
    Sig [] "msec" [] RDouble [On QTime];
    Sig [] "msecsSinceStartOfDay" [] RDouble [On QTime];
    Sig [VALUE_TYPE_QTCORE_QTIME] "msecsTo" [PValue QTime] RDouble [On QTime];
    Sig [TYPE_QTCORE_QTIMEZONE; VALUE_TYPE_QTCORE_QDATETIME] "nextTransition" [PValue QDateTime] (RMeta
        QTimeZone_OffsetData) [On QTimeZone];
    Sig [TYPE_QTCORE_QTIMEZONE; VALUE_TYPE_QTCORE_QDATETIME] "offsetData" [PValue QDateTime] (RMeta
        QTimeZone_OffsetData) [On QTimeZone]
  ].

Definition value_methods_qtcore_10_s49 : list signature_row :=
  [
    Sig [VALUE_TYPE_QTCORE_QDATETIME] "offsetFromUtc" [PValue QDateTime] RDouble [On QTimeZone];
    Sig [] "port" [PInt] RDouble [On QUrl];
    Sig [] "pos" [] (RMeta cxx_qint64) [On QTextStream];
    Sig [TYPE_QTCORE_QTIMEZONE; VALUE_TYPE_QTCORE_QDATETIME] "previousTransition" [PValue QDateTime] (RMeta
        QTimeZone_OffsetData) [On QTimeZone];
    Sig [] "read" [PMeta cxx_qint64] RString [On QTextStream];
    Sig [] "readAll" [] RString [On QTextStream];
    Sig [] "readLine" [PMeta cxx_qint64] RString [On QTextStream];
    Sig [TYPE_QTCORE_QTEXTSTREAM] "realNumberNotation" [] (RMeta QTextStream_RealNumberNotation) [On
        QTextStream];
    Sig [] "realNumberPrecision" [] RDouble [On QTextStream];
    Sig [] "removeAllQueryItems" [PString true] RVoid [On QUrlQuery]
  ].

Definition value_methods_qtcore_10_s59 : list signature_row :=
  [
    Sig [] "removeQueryItem" [PString true] RVoid [On QUrlQuery];
    Sig [] "reset" [] RVoid [On QTextStream];
    Sig [] "resetStatus" [] RVoid [On QTextStream];
    Sig [VALUE_TYPE_QTCORE_QURL] "resolved" [PValue QUrl] (RValue QUrl) [On QUrl];
    Sig [] "scheme" [] RString [On QUrl];
    Sig [] "second" [] RDouble [On QTime];
    Sig [VALUE_TYPE_QTCORE_QTIME] "secsTo" [PValue QTime] RDouble [On QTime];
    Sig [] "seek" [PMeta cxx_qint64] RBool [On QTextStream];
    Sig [TYPE_QTCORE_QURL] "setAuthority" [PString true; PValue QUrl_ParsingMode] RVoid [On QUrl];
    Sig [] "setAutoDetectUnicode" [PBool] RVoid [On QTextStream]
  ].

Definition value_methods_qtcore_10_s69 : list signature_row :=
  [
    Sig [TYPE_QTCORE_QIODEVICE] "setDevice" [PObject QIODevice false] RVoid [On QTextStream];
    Sig [TYPE_QTCORE_QSTRINGCONVERTER] "setEncoding" [PValue QStringConverter_Encoding] RVoid [On
        QTextStream];
    Sig [TYPE_QTCORE_QTEXTSTREAM] "setFieldAlignment" [PValue QTextStream_FieldAlignment] RVoid [On
        QTextStream];
    Sig [] "setFieldWidth" [PInt] RVoid [On QTextStream];
    Sig [TYPE_QTCORE_QURL] "setFragment" [PString true; PValue QUrl_ParsingMode] RVoid [On QUrl];
    Sig [] "setGenerateByteOrderMark" [PBool] RVoid [On QTextStream];
    Sig [] "setHMS" [PInt; PInt; PInt; PInt] RBool [On QTime];
    Sig [TYPE_QTCORE_QURL] "setHost" [PString true; PValue QUrl_ParsingMode] RVoid [On QUrl]
  ].

Definition value_methods_qtcore_10_s77 : list signature_row :=
  [
    Sig [] "setIntegerBase" [PInt] RVoid [On QTextStream];
    Sig [VALUE_TYPE_QTCORE_QLOCALE] "setLocale" [PValue QLocale] RVoid [On QTextStream];
    Sig [TYPE_QTCORE_QURL] "setPassword" [PString true; PValue QUrl_ParsingMode] RVoid [On QUrl];
    Sig [TYPE_QTCORE_QURL] "setPath" [PString true; PValue QUrl_ParsingMode] RVoid [On QUrl];
    Sig [] "setPort" [PInt] RVoid [On QUrl];
    Sig [] "setQuery" [PString true] RVoid [On QUrlQuery];
    Sig [TYPE_QTCORE_QURL] "setQuery" [PString true; PValue QUrl_ParsingMode] RVoid [On QUrl];
    Sig [VALUE_TYPE_QTCORE_QURLQUERY] "setQuery" [PValue QUrlQuery] RVoid [On QUrl];
    Sig [TYPE_QTCORE_QTEXTSTREAM] "setRealNumberNotation" [PValue QTextStream_RealNumberNotation] RVoid [On
        QTextStream]
  ].

Definition value_methods_qtcore_10_s86 : list signature_row :=
  [
    Sig [] "setRealNumberPrecision" [PInt] RVoid [On QTextStream];
    Sig [] "setScheme" [PString true] RVoid [On QUrl];
    Sig [TYPE_QTCORE_QTEXTSTREAM] "setStatus" [PValue QTextStream_Status] RVoid [On QTextStream];
    Sig [TYPE_QTCORE_QURL] "setUrl" [PString true; PValue QUrl_ParsingMode] RVoid [On QUrl];
    Sig [TYPE_QTCORE_QURL] "setUserInfo" [PString true; PValue QUrl_ParsingMode] RVoid [On QUrl];
    Sig [TYPE_QTCORE_QURL] "setUserName" [PString true; PValue QUrl_ParsingMode] RVoid [On QUrl];
    Sig [] "skipWhiteSpace" [] RVoid [On QTextStream];
    Sig [VALUE_TYPE_QTCORE_QDATETIME] "standardTimeOffset" [PValue QDateTime] RDouble [On QTimeZone];
    Sig [TYPE_QTCORE_QTEXTSTREAM] "status" [] (RMeta QTextStream_Status) [On QTextStream]
  ].

Definition value_methods_qtcore_10_s95 : list signature_row :=
  [
    Sig [VALUE_TYPE_QTCORE_QTIMEZONE] "swap" [PValue QTimeZone] RVoid [On QTimeZone];
    Sig [VALUE_TYPE_QTCORE_QURL] "swap" [PValue QUrl] RVoid [On QUrl];
    Sig [VALUE_TYPE_QTCORE_QURLQUERY] "swap" [PValue QUrlQuery] RVoid [On QUrlQuery];
    Sig [TYPE_QTCORE_QLOCALE] "territory" [] (RMeta QLocale_Territory) [On QTimeZone];
    Sig [ENUM_QT_TIMESPEC] "timeSpec" [] (RMeta Qt_TimeSpec) [On QTimeZone];
    Sig [] "timerId" [] RDouble [On QTimerEvent];
    Sig [TYPE_QTCORE_QUUID; VALUE_TYPE_QTCORE_QBYTEARRAY] "toByteArray" [PValue QUuid_StringFormat] (RValue
        QByteArray) [On QUuid];
    Sig [] "toLocalFile" [] RString [On QUrl];
    Sig [VALUE_TYPE_QTCORE_QBYTEARRAY] "toRfc4122" [] (RValue QByteArray) [On QUuid];
    Sig [] "toString" [PString true] RString [On QTime]
  ].

Definition value_methods_qtcore_10_s105 : list signature_row :=
  [
    Sig [TYPE_QTCORE_QUUID] "toString" [PValue QUuid_StringFormat] RString [On QUuid];
    Sig [ENUM_QT_DATEFORMAT] "toString" [PValue Qt_DateFormat] RString [On QTime];
    Sig [TYPE_QTCORE_QUUID] "variant" [] (RMeta QUuid_Variant) [On QUuid];
    Sig [TYPE_QTCORE_QUUID] "version" [] (RMeta QUuid_Version) [On QUuid]
  ].

Definition value_methods_qtcore_10_types : list string :=
  [
    QTextStream;
    QTime;
    QTimeZone;
    QTimerEvent;
    QTypeRevision;
    QUrl;
    QUrlQuery;
    QUuid
  ].

Definition value_methods_qtcore_10 : method_shard :=
  MethodShard QtCore "KRY_QT6_NATIVE_METHODS_QTCORE_"
    (value_methods_qtcore_10_i0)
    (value_methods_qtcore_10_s0 ++ value_methods_qtcore_10_s10 ++ value_methods_qtcore_10_s20 ++
        value_methods_qtcore_10_s31 ++ value_methods_qtcore_10_s40 ++ value_methods_qtcore_10_s49 ++
        value_methods_qtcore_10_s59 ++ value_methods_qtcore_10_s69 ++ value_methods_qtcore_10_s77 ++
        value_methods_qtcore_10_s86 ++ value_methods_qtcore_10_s95 ++ value_methods_qtcore_10_s105)
    value_methods_qtcore_10_types.

Definition value_methods_qtcore_11_i0 : list include :=
  [
    ClassInclude QtCore QVariant QVariant;
    ClassInclude QtCore QVersionNumber QVersionNumber;
    ClassInclude QtCore QWaitCondition QWaitCondition;
    ClassInclude QtCore QWriteLocker QWriteLocker;
    ClassInclude QtCore QXmlStreamAttribute QXmlStreamAttribute;
    ClassInclude QtCore QXmlStreamAttributes QXmlStreamAttributes;
    ClassInclude QtCore QXmlStreamEntityResolver QXmlStreamEntityResolver;
    ClassInclude QtCore QXmlStreamReader QXmlStreamReader;
    TypeInclude QtCore QIODevice TYPE_QTCORE_QIODEVICE;
    TypeInclude QtCore QXmlStreamReader TYPE_QTCORE_QXMLSTREAMREADER;
    TypeInclude QtCore QDataStream VALUE_TYPE_QTCORE_QDATASTREAM;
    TypeInclude QtCore QMetaType VALUE_TYPE_QTCORE_QMETATYPE;
    TypeInclude QtCore QVersionNumber VALUE_TYPE_QTCORE_QVERSIONNUMBER;
    TypeInclude QtCore QXmlStreamAttribute VALUE_TYPE_QTCORE_QXMLSTREAMATTRIBUTE;
    TypeInclude QtCore QXmlStreamAttributes VALUE_TYPE_QTCORE_QXMLSTREAMATTRIBUTES;
    TypeInclude QtCore QXmlStreamNamespaceDeclaration VALUE_TYPE_QTCORE_QXMLSTREAMNAMESPACEDECLARATION
  ].

Definition value_methods_qtcore_11_s0 : list signature_row :=
  [
    Sig [VALUE_TYPE_QTCORE_QXMLSTREAMNAMESPACEDECLARATION] "addExtraNamespaceDeclaration" [PValue
        QXmlStreamNamespaceDeclaration] RVoid [On QXmlStreamReader];
    Sig [] "append" [PString true; PString true] RVoid [On QXmlStreamAttributes];
    Sig [] "append" [PString true; PString true; PString true] RVoid [On QXmlStreamAttributes];
    Sig [VALUE_TYPE_QTCORE_QXMLSTREAMATTRIBUTE] "append" [PValue QXmlStreamAttribute] RVoid [On
        QXmlStreamAttributes];
    Sig [VALUE_TYPE_QTCORE_QXMLSTREAMATTRIBUTE] "at" [PInt] (RValue QXmlStreamAttribute) [On
        QXmlStreamAttributes];
    Sig [] "atEnd" [] RBool [On QXmlStreamReader];
    Sig [VALUE_TYPE_QTCORE_QXMLSTREAMATTRIBUTES] "attributes" [] (RValue QXmlStreamAttributes) [On
        QXmlStreamReader];
    Sig [VALUE_TYPE_QTCORE_QMETATYPE] "canConvert" [PValue QMetaType] RBool [On QVariant];
    Sig [VALUE_TYPE_QTCORE_QMETATYPE] "canView" [PValue QMetaType] RBool [On QVariant]
  ].

Definition value_methods_qtcore_11_s9 : list signature_row :=
  [
    Sig [] "characterOffset" [] (RMeta cxx_qint64) [On QXmlStreamReader];
    Sig [] "clear" [] RVoid [On QVariant; On QXmlStreamAttributes; On QXmlStreamReader];
    Sig [] "columnNumber" [] (RMeta cxx_qint64) [On QXmlStreamReader];
    Sig [VALUE_TYPE_QTCORE_QXMLSTREAMATTRIBUTE] "contains" [PValue QXmlStreamAttribute] RBool [On
        QXmlStreamAttributes];
    Sig [VALUE_TYPE_QTCORE_QMETATYPE] "convert" [PValue QMetaType] RBool [On QVariant];
    Sig [] "count" [] RDouble [On QXmlStreamAttributes];
    Sig [VALUE_TYPE_QTCORE_QXMLSTREAMATTRIBUTE] "count" [PValue QXmlStreamAttribute] RDouble [On
        QXmlStreamAttributes];
    Sig [TYPE_QTCORE_QIODEVICE] "device" [] RObject [On QXmlStreamReader];
    Sig [] "entityExpansionLimit" [] RDouble [On QXmlStreamReader];
    Sig [TYPE_QTCORE_QXMLSTREAMREADER] "error" [] (RMeta QXmlStreamReader_Error) [On QXmlStreamReader]
  ].

Definition value_methods_qtcore_11_s19 : list signature_row :=
  [
    Sig [] "errorString" [] RString [On QXmlStreamReader];
    Sig [VALUE_TYPE_QTCORE_QXMLSTREAMATTRIBUTE] "fill" [PValue QXmlStreamAttribute; PInt] RVoid [On
        QXmlStreamAttributes];
    Sig [VALUE_TYPE_QTCORE_QXMLSTREAMATTRIBUTE] "first" [] (RValue QXmlStreamAttribute) [On
        QXmlStreamAttributes];
    Sig [] "hasError" [] RBool [On QXmlStreamReader];
    Sig [] "hasStandaloneDeclaration" [] RBool [On QXmlStreamReader];
    Sig [VALUE_TYPE_QTCORE_QXMLSTREAMATTRIBUTE] "indexOf" [PValue QXmlStreamAttribute; PInt] RDouble [On
        QXmlStreamAttributes];
    Sig [VALUE_TYPE_QTCORE_QXMLSTREAMATTRIBUTE] "insert" [PInt; PValue QXmlStreamAttribute] RVoid [On
        QXmlStreamAttributes];
    Sig [] "isCDATA" [] RBool [On QXmlStreamReader];
    Sig [] "isCharacters" [] RBool [On QXmlStreamReader];
    Sig [] "isComment" [] RBool [On QXmlStreamReader]
  ].

Definition value_methods_qtcore_11_s29 : list signature_row :=
  [
    Sig [] "isDTD" [] RBool [On QXmlStreamReader];
    Sig [] "isDefault" [] RBool [On QXmlStreamAttribute];
    Sig [] "isEmpty" [] RBool [On QXmlStreamAttributes];
    Sig [] "isEndDocument" [] RBool [On QXmlStreamReader];
    Sig [] "isEndElement" [] RBool [On QXmlStreamReader];
    Sig [] "isEntityReference" [] RBool [On QXmlStreamReader];
    Sig [] "isNormalized" [] RBool [On QVersionNumber];
    Sig [] "isNull" [] RBool [On QVariant; On QVersionNumber];
    Sig [VALUE_TYPE_QTCORE_QVERSIONNUMBER] "isPrefixOf" [PValue QVersionNumber] RBool [On QVersionNumber];
    Sig [] "isProcessingInstruction" [] RBool [On QXmlStreamReader];
    Sig [] "isStandaloneDocument" [] RBool [On QXmlStreamReader]
  ].

Definition value_methods_qtcore_11_s40 : list signature_row :=
  [
    Sig [] "isStartDocument" [] RBool [On QXmlStreamReader];
    Sig [] "isStartElement" [] RBool [On QXmlStreamReader];
    Sig [] "isValid" [] RBool [On QVariant];
    Sig [] "isWhitespace" [] RBool [On QXmlStreamReader];
    Sig [VALUE_TYPE_QTCORE_QXMLSTREAMATTRIBUTE] "last" [] (RValue QXmlStreamAttribute) [On
        QXmlStreamAttributes];
    Sig [VALUE_TYPE_QTCORE_QXMLSTREAMATTRIBUTE] "lastIndexOf" [PValue QXmlStreamAttribute; PInt] RDouble
        [On QXmlStreamAttributes];
    Sig [] "lineNumber" [] (RMeta cxx_qint64) [On QXmlStreamReader];
    Sig [VALUE_TYPE_QTCORE_QDATASTREAM] "load" [PValue QDataStream] RVoid [On QVariant];
    Sig [] "majorVersion" [] RDouble [On QVersionNumber];
    Sig [VALUE_TYPE_QTCORE_QMETATYPE] "metaType" [] (RValue QMetaType) [On QVariant];
    Sig [] "microVersion" [] RDouble [On QVersionNumber]
  ].

Definition value_methods_qtcore_11_s51 : list signature_row :=
  [
    Sig [] "minorVersion" [] RDouble [On QVersionNumber];
    Sig [] "namespaceProcessing" [] RBool [On QXmlStreamReader];
    Sig [VALUE_TYPE_QTCORE_QVERSIONNUMBER] "normalized" [] (RValue QVersionNumber) [On QVersionNumber];
    Sig [VALUE_TYPE_QTCORE_QXMLSTREAMATTRIBUTE] "prepend" [PValue QXmlStreamAttribute] RVoid [On
        QXmlStreamAttributes];
    Sig [] "raiseError" [PString true] RVoid [On QXmlStreamReader];
    Sig [TYPE_QTCORE_QXMLSTREAMREADER] "readElementText" [PValue QXmlStreamReader_ReadElementTextBehaviour]
        RString [On QXmlStreamReader];
    Sig [TYPE_QTCORE_QXMLSTREAMREADER] "readNext" [] (RMeta QXmlStreamReader_TokenType) [On
        QXmlStreamReader];
    Sig [] "readNextStartElement" [] RBool [On QXmlStreamReader];
    Sig [] "readRawInnerData" [] RString [On QXmlStreamReader];
    Sig [] "relock" [] RVoid [On QWriteLocker]
  ].

Definition value_methods_qtcore_11_s61 : list signature_row :=
  [
    Sig [] "remove" [PInt] RVoid [On QXmlStreamAttributes];
    Sig [] "remove" [PInt; PInt] RVoid [On QXmlStreamAttributes];
    Sig [VALUE_TYPE_QTCORE_QXMLSTREAMATTRIBUTE] "replace" [PInt; PValue QXmlStreamAttribute] RVoid [On
        QXmlStreamAttributes];
    Sig [] "resize" [PMeta cxx_qsizetype] RVoid [On QXmlStreamAttributes];
    Sig [] "resolveUndeclaredEntity" [PString true] RString [On QXmlStreamEntityResolver];
    Sig [VALUE_TYPE_QTCORE_QDATASTREAM] "save" [PValue QDataStream] RVoid [On QVariant];
    Sig [] "segmentAt" [PMeta cxx_qsizetype] RDouble [On QVersionNumber];
    Sig [] "segmentCount" [] (RMeta cxx_qsizetype) [On QVersionNumber];
    Sig [] "segments" [] (RList (IMeta cxx_int)) [On QVersionNumber]
  ].

Definition value_methods_qtcore_11_s70 : list signature_row :=
  [
    Sig [TYPE_QTCORE_QIODEVICE] "setDevice" [PObject QIODevice false] RVoid [On QXmlStreamReader];
    Sig [] "setEntityExpansionLimit" [PInt] RVoid [On QXmlStreamReader];
    Sig [] "setNamespaceProcessing" [PBool] RVoid [On QXmlStreamReader];
    Sig [] "size" [] RDouble [On QXmlStreamAttributes];
    Sig [] "skipCurrentElement" [] RVoid [On QXmlStreamReader];
    Sig [] "swap" [PVariant] RVoid [On QVariant];
    Sig [] "toString" [] RString [On QVersionNumber];
    Sig [] "tokenString" [] RString [On QXmlStreamReader];
    Sig [TYPE_QTCORE_QXMLSTREAMREADER] "tokenType" [] (RMeta QXmlStreamReader_TokenType) [On
        QXmlStreamReader];
    Sig [] "typeId" [] RDouble [On QVariant];
    Sig [] "unlock" [] RVoid [On QWriteLocker]
  ].

Definition value_methods_qtcore_11_s81 : list signature_row :=
  [
    Sig [] "userType" [] RDouble [On QVariant];
    Sig [] "wakeAll" [] RVoid [On QWaitCondition];
    Sig [] "wakeOne" [] RVoid [On QWaitCondition]
  ].

Definition value_methods_qtcore_11_types : list string :=
  [
    QVariant;
    QVersionNumber;
    QWaitCondition;
    QWriteLocker;
    QXmlStreamAttribute;
    QXmlStreamAttributes;
    QXmlStreamEntityResolver;
    QXmlStreamReader
  ].

Definition value_methods_qtcore_11 : method_shard :=
  MethodShard QtCore "KRY_QT6_NATIVE_METHODS_QTCORE_"
    (value_methods_qtcore_11_i0)
    (value_methods_qtcore_11_s0 ++ value_methods_qtcore_11_s9 ++ value_methods_qtcore_11_s19 ++
        value_methods_qtcore_11_s29 ++ value_methods_qtcore_11_s40 ++ value_methods_qtcore_11_s51 ++
        value_methods_qtcore_11_s61 ++ value_methods_qtcore_11_s70 ++ value_methods_qtcore_11_s81)
    value_methods_qtcore_11_types.

Definition value_methods_qtcore_12_i0 : list include :=
  [
    ClassInclude QtCore QXmlStreamWriter QXmlStreamWriter;
    TypeInclude QtCore QIODevice TYPE_QTCORE_QIODEVICE;
    TypeInclude QtCore QXmlStreamWriter TYPE_QTCORE_QXMLSTREAMWRITER;
    TypeInclude QtCore QXmlStreamAttribute VALUE_TYPE_QTCORE_QXMLSTREAMATTRIBUTE;
    TypeInclude QtCore QXmlStreamAttributes VALUE_TYPE_QTCORE_QXMLSTREAMATTRIBUTES;
    TypeInclude QtCore QXmlStreamReader VALUE_TYPE_QTCORE_QXMLSTREAMREADER
  ].

Definition value_methods_qtcore_12_s0 : list signature_row :=
  [
    Sig [] "autoFormatting" [] RBool [On QXmlStreamWriter];
    Sig [] "autoFormattingIndent" [] RDouble [On QXmlStreamWriter];
    Sig [TYPE_QTCORE_QIODEVICE] "device" [] RObject [On QXmlStreamWriter];
    Sig [TYPE_QTCORE_QXMLSTREAMWRITER] "error" [] (RMeta QXmlStreamWriter_Error) [On QXmlStreamWriter];
    Sig [] "errorString" [] RString [On QXmlStreamWriter];
    Sig [] "hasError" [] RBool [On QXmlStreamWriter];
    Sig [] "setAutoFormatting" [PBool] RVoid [On QXmlStreamWriter];
    Sig [] "setAutoFormattingIndent" [PInt] RVoid [On QXmlStreamWriter];
    Sig [TYPE_QTCORE_QIODEVICE] "setDevice" [PObject QIODevice false] RVoid [On QXmlStreamWriter];
    Sig [] "setStopWritingOnError" [PBool] RVoid [On QXmlStreamWriter];
    Sig [] "stopWritingOnError" [] RBool [On QXmlStreamWriter]
  ].

Definition value_methods_qtcore_12_s11 : list signature_row :=
  [
    Sig [VALUE_TYPE_QTCORE_QXMLSTREAMATTRIBUTE] "writeAttribute" [PValue QXmlStreamAttribute] RVoid [On
        QXmlStreamWriter];
    Sig [VALUE_TYPE_QTCORE_QXMLSTREAMATTRIBUTES] "writeAttributes" [PValue QXmlStreamAttributes] RVoid [On
        QXmlStreamWriter];
    Sig [VALUE_TYPE_QTCORE_QXMLSTREAMREADER] "writeCurrentToken" [PValue QXmlStreamReader] RVoid [On
        QXmlStreamWriter];
    Sig [] "writeEndDocument" [] RVoid [On QXmlStreamWriter];
    Sig [] "writeEndElement" [] RVoid [On QXmlStreamWriter];
    Sig [] "writeStartDocument" [] RVoid [On QXmlStreamWriter]
  ].

Definition value_methods_qtcore_12_types : list string :=
  [
    QXmlStreamWriter
  ].

Definition value_methods_qtcore_12 : method_shard :=
  MethodShard QtCore "KRY_QT6_NATIVE_METHODS_QTCORE_"
    (value_methods_qtcore_12_i0)
    (value_methods_qtcore_12_s0 ++ value_methods_qtcore_12_s11)
    value_methods_qtcore_12_types.

Definition value_methods_qtcore_2_i0 : list include :=
  [
    ClassInclude QtCore QDate QDate;
    ClassInclude QtCore QDateTime QDateTime;
    ClassInclude QtCore QDeadlineTimer QDeadlineTimer;
    ClassInclude QtCore QDir QDir;
    ClassInclude QtCore QDirIterator QDirIterator;
    ClassInclude QtCore QDynamicPropertyChangeEvent QDynamicPropertyChangeEvent;
    ClassInclude QtCore QEasingCurve QEasingCurve;
    ClassInclude QtCore QElapsedTimer QElapsedTimer;
    EnumDefine ENUM_QT_DATEFORMAT;
    EnumDefine ENUM_QT_TIMESPEC;
    EnumDefine ENUM_QT_TIMERTYPE;
    TypeInclude QtCore QDateTime TYPE_QTCORE_QDATETIME;
    TypeInclude QtCore QDir TYPE_QTCORE_QDIR;
    TypeInclude QtCore QEasingCurve TYPE_QTCORE_QEASINGCURVE;
    TypeInclude QtCore QByteArray VALUE_TYPE_QTCORE_QBYTEARRAY;
    TypeInclude QtCore QCalendar VALUE_TYPE_QTCORE_QCALENDAR;
    TypeInclude QtCore QDate VALUE_TYPE_QTCORE_QDATE;
    TypeInclude QtCore QDateTime VALUE_TYPE_QTCORE_QDATETIME;
    TypeInclude QtCore QDeadlineTimer VALUE_TYPE_QTCORE_QDEADLINETIMER;
    TypeInclude QtCore QDir VALUE_TYPE_QTCORE_QDIR;
    TypeInclude QtCore QEasingCurve VALUE_TYPE_QTCORE_QEASINGCURVE;
    TypeInclude QtCore QElapsedTimer VALUE_TYPE_QTCORE_QELAPSEDTIMER;
    TypeInclude QtCore QFileInfo VALUE_TYPE_QTCORE_QFILEINFO;
    TypeInclude QtCore QPointF VALUE_TYPE_QTCORE_QPOINTF;
    TypeInclude QtCore QTime VALUE_TYPE_QTCORE_QTIME;
    TypeInclude QtCore QTimeZone VALUE_TYPE_QTCORE_QTIMEZONE
  ].

Definition value_methods_qtcore_2_s0 : list signature_row :=
  [
    Sig [] "absoluteFilePath" [PString true] RString [On QDir];
    Sig [] "absolutePath" [] RString [On QDir];
    Sig [VALUE_TYPE_QTCORE_QPOINTF] "addCubicBezierSegment" [PValue QPointF; PValue QPointF; PValue
        QPointF] RVoid [On QEasingCurve];
    Sig [VALUE_TYPE_QTCORE_QDATE] "addDays" [PMeta cxx_qint64] (RValue QDate) [On QDate];
    Sig [VALUE_TYPE_QTCORE_QDATETIME] "addDays" [PMeta cxx_qint64] (RValue QDateTime) [On QDateTime];
    Sig [VALUE_TYPE_QTCORE_QDATETIME] "addMSecs" [PMeta cxx_qint64] (RValue QDateTime) [On QDateTime];
    Sig [VALUE_TYPE_QTCORE_QDATE] "addMonths" [PInt] (RValue QDate) [On QDate];
    Sig [VALUE_TYPE_QTCORE_QDATETIME] "addMonths" [PInt] (RValue QDateTime) [On QDateTime]
  ].

Definition value_methods_qtcore_2_s8 : list signature_row :=
  [
    Sig [VALUE_TYPE_QTCORE_QCALENDAR; VALUE_TYPE_QTCORE_QDATE] "addMonths" [PInt; PValue QCalendar] (RValue
        QDate) [On QDate];
    Sig [VALUE_TYPE_QTCORE_QDATETIME] "addSecs" [PMeta cxx_qint64] (RValue QDateTime) [On QDateTime];
    Sig [VALUE_TYPE_QTCORE_QPOINTF] "addTCBSegment" [PValue QPointF; PNumber cxx_qreal; PNumber cxx_qreal;
        PNumber cxx_qreal] RVoid [On QEasingCurve];
    Sig [VALUE_TYPE_QTCORE_QDATE] "addYears" [PInt] (RValue QDate) [On QDate];
    Sig [VALUE_TYPE_QTCORE_QDATETIME] "addYears" [PInt] (RValue QDateTime) [On QDateTime];
    Sig [VALUE_TYPE_QTCORE_QCALENDAR; VALUE_TYPE_QTCORE_QDATE] "addYears" [PInt; PValue QCalendar] (RValue
        QDate) [On QDate];
    Sig [] "amplitude" [] RDouble [On QEasingCurve];
    Sig [] "canonicalPath" [] RString [On QDir];
    Sig [] "cd" [PString true] RBool [On QDir]
  ].

Definition value_methods_qtcore_2_s17 : list signature_row :=
  [
    Sig [] "cdUp" [] RBool [On QDir];
    Sig [VALUE_TYPE_QTCORE_QDATE] "date" [] (RValue QDate) [On QDateTime];
    Sig [] "day" [] RDouble [On QDate];
    Sig [VALUE_TYPE_QTCORE_QCALENDAR] "day" [PValue QCalendar] RDouble [On QDate];
    Sig [] "dayOfWeek" [] RDouble [On QDate];
    Sig [VALUE_TYPE_QTCORE_QCALENDAR] "dayOfWeek" [PValue QCalendar] RDouble [On QDate];
    Sig [] "dayOfYear" [] RDouble [On QDate];
    Sig [VALUE_TYPE_QTCORE_QCALENDAR] "dayOfYear" [PValue QCalendar] RDouble [On QDate];
    Sig [] "daysInMonth" [] RDouble [On QDate];
    Sig [VALUE_TYPE_QTCORE_QCALENDAR] "daysInMonth" [PValue QCalendar] RDouble [On QDate]
  ].

Definition value_methods_qtcore_2_s27 : list signature_row :=
  [
    Sig [] "daysInYear" [] RDouble [On QDate];
    Sig [VALUE_TYPE_QTCORE_QCALENDAR] "daysInYear" [PValue QCalendar] RDouble [On QDate];
    Sig [VALUE_TYPE_QTCORE_QDATE] "daysTo" [PValue QDate] (RMeta cxx_qint64) [On QDate];
    Sig [VALUE_TYPE_QTCORE_QDATETIME] "daysTo" [PValue QDateTime] (RMeta cxx_qint64) [On QDateTime];
    Sig [] "deadline" [] (RMeta cxx_qint64) [On QDeadlineTimer];
    Sig [] "deadlineNSecs" [] (RMeta cxx_qint64) [On QDeadlineTimer];
    Sig [] "dirName" [] RString [On QDir];
    Sig [] "elapsed" [] (RMeta cxx_qint64) [On QElapsedTimer];
    Sig [VALUE_TYPE_QTCORE_QDATETIME; VALUE_TYPE_QTCORE_QTIMEZONE] "endOfDay" [PValue QTimeZone] (RValue
        QDateTime) [On QDate];
    Sig [ENUM_QT_TIMESPEC; VALUE_TYPE_QTCORE_QDATETIME] "endOfDay" [PValue Qt_TimeSpec; PInt] (RValue
        QDateTime) [On QDate]
  ].

Definition value_methods_qtcore_2_s37 : list signature_row :=
  [
    Sig [] "exists" [] RBool [On QDir];
    Sig [] "exists" [PString true] RBool [On QDir];
    Sig [VALUE_TYPE_QTCORE_QFILEINFO] "fileInfo" [] (RValue QFileInfo) [On QDirIterator];
    Sig [] "fileName" [] RString [On QDirIterator];
    Sig [] "filePath" [] RString [On QDirIterator];
    Sig [] "filePath" [PString true] RString [On QDir];
    Sig [TYPE_QTCORE_QDIR] "filter" [] (RMeta QDir_Filters) [On QDir];
    Sig [] "hasExpired" [] RBool [On QDeadlineTimer];
    Sig [] "hasExpired" [PMeta cxx_qint64] RBool [On QElapsedTimer];
    Sig [] "hasNext" [] RBool [On QDirIterator];
    Sig [] "invalidate" [] RVoid [On QElapsedTimer]
  ].

Definition value_methods_qtcore_2_s48 : list signature_row :=
  [
    Sig [] "isAbsolute" [] RBool [On QDir];
    Sig [] "isDaylightTime" [] RBool [On QDateTime];
    Sig [TYPE_QTCORE_QDIR] "isEmpty" [PValue QDir_Filters] RBool [On QDir];
    Sig [] "isForever" [] RBool [On QDeadlineTimer];
    Sig [] "isNull" [] RBool [On QDate; On QDateTime];
    Sig [] "isReadable" [] RBool [On QDir];
    Sig [] "isRelative" [] RBool [On QDir];
    Sig [] "isRoot" [] RBool [On QDir];
    Sig [] "isValid" [] RBool [On QDate; On QDateTime; On QElapsedTimer];
    Sig [] "makeAbsolute" [] RBool [On QDir]
  ].

Definition value_methods_qtcore_2_s58 : list signature_row :=
  [
    Sig [] "mkdir" [PString true] RBool [On QDir];
    Sig [] "mkpath" [PString true] RBool [On QDir];
    Sig [] "month" [] RDouble [On QDate];
    Sig [VALUE_TYPE_QTCORE_QCALENDAR] "month" [PValue QCalendar] RDouble [On QDate];
    Sig [] "msecsSinceReference" [] (RMeta cxx_qint64) [On QElapsedTimer];
    Sig [VALUE_TYPE_QTCORE_QDATETIME] "msecsTo" [PValue QDateTime] (RMeta cxx_qint64) [On QDateTime];
    Sig [VALUE_TYPE_QTCORE_QELAPSEDTIMER] "msecsTo" [PValue QElapsedTimer] (RMeta cxx_qint64) [On
        QElapsedTimer];
    Sig [] "nameFilters" [] (RList (IMeta QString)) [On QDir];
    Sig [] "next" [] RString [On QDirIterator];
    Sig [VALUE_TYPE_QTCORE_QFILEINFO] "nextFileInfo" [] (RValue QFileInfo) [On QDirIterator]
  ].

Definition value_methods_qtcore_2_s68 : list signature_row :=
  [
    Sig [] "nsecsElapsed" [] (RMeta cxx_qint64) [On QElapsedTimer];
    Sig [] "offsetFromUtc" [] RDouble [On QDateTime];
    Sig [] "overshoot" [] RDouble [On QEasingCurve];
    Sig [] "path" [] RString [On QDir; On QDirIterator];
    Sig [] "period" [] RDouble [On QEasingCurve];
    Sig [VALUE_TYPE_QTCORE_QBYTEARRAY] "propertyName" [] (RValue QByteArray) [On
        QDynamicPropertyChangeEvent];
    Sig [] "refresh" [] RVoid [On QDir];
    Sig [] "relativeFilePath" [PString true] RString [On QDir];
    Sig [] "remainingTime" [] (RMeta cxx_qint64) [On QDeadlineTimer];
    Sig [] "remainingTimeNSecs" [] (RMeta cxx_qint64) [On QDeadlineTimer];
    Sig [] "remove" [PString true] RBool [On QDir]
  ].

Definition value_methods_qtcore_2_s79 : list signature_row :=
  [
    Sig [] "removeRecursively" [] RBool [On QDir];
    Sig [] "rename" [PString true; PString true] RBool [On QDir];
    Sig [] "restart" [] (RMeta cxx_qint64) [On QElapsedTimer];
    Sig [] "rmdir" [PString true] RBool [On QDir];
    Sig [] "rmpath" [PString true] RBool [On QDir];
    Sig [VALUE_TYPE_QTCORE_QDATETIME] "secsTo" [PValue QDateTime] (RMeta cxx_qint64) [On QDateTime];
    Sig [VALUE_TYPE_QTCORE_QELAPSEDTIMER] "secsTo" [PValue QElapsedTimer] (RMeta cxx_qint64) [On
        QElapsedTimer];
    Sig [] "setAmplitude" [PNumber cxx_qreal] RVoid [On QEasingCurve];
    Sig [TYPE_QTCORE_QDATETIME; VALUE_TYPE_QTCORE_QDATE] "setDate" [PValue QDate; PValue
        QDateTime_TransitionResolution] RVoid [On QDateTime];
    Sig [] "setDate" [PInt; PInt; PInt] RBool [On QDate]
  ].

Definition value_methods_qtcore_2_s89 : list signature_row :=
  [
    Sig [VALUE_TYPE_QTCORE_QCALENDAR] "setDate" [PInt; PInt; PInt; PValue QCalendar] RBool [On QDate];
    Sig [ENUM_QT_TIMERTYPE] "setDeadline" [PMeta cxx_qint64; PValue Qt_TimerType] RVoid [On QDeadlineTimer];
    Sig [TYPE_QTCORE_QDIR] "setFilter" [PValue QDir_Filters] RVoid [On QDir];
    Sig [] "setMSecsSinceEpoch" [PMeta cxx_qint64] RVoid [On QDateTime];
    Sig [] "setNameFilters" [PStringList] RVoid [On QDir];
    Sig [] "setOffsetFromUtc" [PInt] RVoid [On QDateTime];
    Sig [] "setOvershoot" [PNumber cxx_qreal] RVoid [On QEasingCurve];
    Sig [] "setPath" [PString true] RVoid [On QDir];
    Sig [] "setPeriod" [PNumber cxx_qreal] RVoid [On QEasingCurve]
  ].

Definition value_methods_qtcore_2_s98 : list signature_row :=
  [
    Sig [ENUM_QT_TIMERTYPE] "setPreciseDeadline" [PMeta cxx_qint64; PMeta cxx_qint64; PValue Qt_TimerType]
        RVoid [On QDeadlineTimer];
    Sig [ENUM_QT_TIMERTYPE] "setPreciseRemainingTime" [PMeta cxx_qint64; PMeta cxx_qint64; PValue
        Qt_TimerType] RVoid [On QDeadlineTimer];
    Sig [ENUM_QT_TIMERTYPE] "setRemainingTime" [PMeta cxx_qint64; PValue Qt_TimerType] RVoid [On
        QDeadlineTimer];
    Sig [] "setSecsSinceEpoch" [PMeta cxx_qint64] RVoid [On QDateTime];
    Sig [TYPE_QTCORE_QDATETIME; VALUE_TYPE_QTCORE_QTIME] "setTime" [PValue QTime; PValue
        QDateTime_TransitionResolution] RVoid [On QDateTime];
    Sig [ENUM_QT_TIMESPEC] "setTimeSpec" [PValue Qt_TimeSpec] RVoid [On QDateTime];
    Sig [TYPE_QTCORE_QDATETIME; VALUE_TYPE_QTCORE_QTIMEZONE] "setTimeZone" [PValue QTimeZone; PValue
        QDateTime_TransitionResolution] RVoid [On QDateTime];
    Sig [ENUM_QT_TIMERTYPE] "setTimerType" [PValue Qt_TimerType] RVoid [On QDeadlineTimer]
  ].

Definition value_methods_qtcore_2_s106 : list signature_row :=
  [
    Sig [TYPE_QTCORE_QEASINGCURVE] "setType" [PValue QEasingCurve_Type] RVoid [On QEasingCurve];
    Sig [] "start" [] RVoid [On QElapsedTimer];
    Sig [VALUE_TYPE_QTCORE_QDATETIME; VALUE_TYPE_QTCORE_QTIMEZONE] "startOfDay" [PValue QTimeZone] (RValue
        QDateTime) [On QDate];
    Sig [ENUM_QT_TIMESPEC; VALUE_TYPE_QTCORE_QDATETIME] "startOfDay" [PValue Qt_TimeSpec; PInt] (RValue
        QDateTime) [On QDate];
    Sig [VALUE_TYPE_QTCORE_QDATETIME] "swap" [PValue QDateTime] RVoid [On QDateTime];
    Sig [VALUE_TYPE_QTCORE_QDEADLINETIMER] "swap" [PValue QDeadlineTimer] RVoid [On QDeadlineTimer];
    Sig [VALUE_TYPE_QTCORE_QDIR] "swap" [PValue QDir] RVoid [On QDir];
    Sig [VALUE_TYPE_QTCORE_QEASINGCURVE] "swap" [PValue QEasingCurve] RVoid [On QEasingCurve];
    Sig [VALUE_TYPE_QTCORE_QTIME] "time" [] (RValue QTime) [On QDateTime]
  ].

Definition value_methods_qtcore_2_s115 : list signature_row :=
  [
    Sig [VALUE_TYPE_QTCORE_QTIMEZONE] "timeRepresentation" [] (RValue QTimeZone) [On QDateTime];
    Sig [ENUM_QT_TIMESPEC] "timeSpec" [] (RMeta Qt_TimeSpec) [On QDateTime];
    Sig [VALUE_TYPE_QTCORE_QTIMEZONE] "timeZone" [] (RValue QTimeZone) [On QDateTime];
    Sig [] "timeZoneAbbreviation" [] RString [On QDateTime];
    Sig [ENUM_QT_TIMERTYPE] "timerType" [] (RMeta Qt_TimerType) [On QDeadlineTimer];
    Sig [VALUE_TYPE_QTCORE_QPOINTF] "toCubicSpline" [] (RList (IValue QPointF)) [On QEasingCurve];
    Sig [] "toJulianDay" [] (RMeta cxx_qint64) [On QDate];
    Sig [VALUE_TYPE_QTCORE_QDATETIME] "toLocalTime" [] (RValue QDateTime) [On QDateTime];
    Sig [] "toMSecsSinceEpoch" [] (RMeta cxx_qint64) [On QDateTime];
    Sig [VALUE_TYPE_QTCORE_QDATETIME] "toOffsetFromUtc" [PInt] (RValue QDateTime) [On QDateTime]
  ].

Definition value_methods_qtcore_2_s125 : list signature_row :=
  [
    Sig [] "toSecsSinceEpoch" [] (RMeta cxx_qint64) [On QDateTime];
    Sig [VALUE_TYPE_QTCORE_QCALENDAR] "toString" [PString true; PValue QCalendar] RString [On QDate; On
        QDateTime];
    Sig [ENUM_QT_DATEFORMAT] "toString" [PValue Qt_DateFormat] RString [On QDate; On QDateTime];
    Sig [ENUM_QT_TIMESPEC; VALUE_TYPE_QTCORE_QDATETIME] "toTimeSpec" [PValue Qt_TimeSpec] (RValue
        QDateTime) [On QDateTime];
    Sig [VALUE_TYPE_QTCORE_QDATETIME; VALUE_TYPE_QTCORE_QTIMEZONE] "toTimeZone" [PValue QTimeZone] (RValue
        QDateTime) [On QDateTime];
    Sig [VALUE_TYPE_QTCORE_QDATETIME] "toUTC" [] (RValue QDateTime) [On QDateTime];
    Sig [TYPE_QTCORE_QEASINGCURVE] "type" [] (RMeta QEasingCurve_Type) [On QEasingCurve];
    Sig [] "valueForProgress" [PNumber cxx_qreal] RDouble [On QEasingCurve];
    Sig [] "year" [] RDouble [On QDate]
  ].

Definition value_methods_qtcore_2_s134 : list signature_row :=
  [
    Sig [VALUE_TYPE_QTCORE_QCALENDAR] "year" [PValue QCalendar] RDouble [On QDate]
  ].

Definition value_methods_qtcore_2_types : list string :=
  [
    QDate;
    QDateTime;
    QDeadlineTimer;
    QDir;
    QDirIterator;
    QDynamicPropertyChangeEvent;
    QEasingCurve;
    QElapsedTimer
  ].

Definition value_methods_qtcore_2 : method_shard :=
  MethodShard QtCore "KRY_QT6_NATIVE_METHODS_QTCORE_"
    (value_methods_qtcore_2_i0)
    (value_methods_qtcore_2_s0 ++ value_methods_qtcore_2_s8 ++ value_methods_qtcore_2_s17 ++
        value_methods_qtcore_2_s27 ++ value_methods_qtcore_2_s37 ++ value_methods_qtcore_2_s48 ++
        value_methods_qtcore_2_s58 ++ value_methods_qtcore_2_s68 ++ value_methods_qtcore_2_s79 ++
        value_methods_qtcore_2_s89 ++ value_methods_qtcore_2_s98 ++ value_methods_qtcore_2_s106 ++
        value_methods_qtcore_2_s115 ++ value_methods_qtcore_2_s125 ++ value_methods_qtcore_2_s134)
    value_methods_qtcore_2_types.

Definition value_methods_qtcore_3_i0 : list include :=
  [
    ClassInclude QtCore QEvent QEvent;
    ClassInclude QtCore QEventLoopLocker QEventLoopLocker;
    ClassInclude QtCore QFileInfo QFileInfo;
    ClassInclude QtCore QItemSelection QItemSelection;
    ClassInclude QtCore QItemSelectionRange QItemSelectionRange;
    ClassInclude QtCore QJsonDocument QJsonDocument;
    ClassInclude QtCore QJsonValue QJsonValue;
    ClassInclude QtCore QKeyCombination QKeyCombination;
    TypeInclude QtCore QAbstractItemModel TYPE_QTCORE_QABSTRACTITEMMODEL;
    EnumDefine ENUM_QT_KEY;
    TypeInclude QtCore QEvent TYPE_QTCORE_QEVENT;
    TypeInclude QtCore QFileDevice TYPE_QTCORE_QFILEDEVICE;
    TypeInclude QtCore QJsonDocument TYPE_QTCORE_QJSONDOCUMENT;
    TypeInclude QtCore QJsonValue TYPE_QTCORE_QJSONVALUE;
    TypeInclude QtCore QByteArray VALUE_TYPE_QTCORE_QBYTEARRAY;
    TypeInclude QtCore QDateTime VALUE_TYPE_QTCORE_QDATETIME;
    TypeInclude QtCore QDir VALUE_TYPE_QTCORE_QDIR;
    TypeInclude QtCore QEventLoopLocker VALUE_TYPE_QTCORE_QEVENTLOOPLOCKER;
    TypeInclude QtCore QFileInfo VALUE_TYPE_QTCORE_QFILEINFO;
    TypeInclude QtCore QItemSelectionRange VALUE_TYPE_QTCORE_QITEMSELECTIONRANGE;
    TypeInclude QtCore QJsonDocument VALUE_TYPE_QTCORE_QJSONDOCUMENT;
    TypeInclude QtCore QJsonValue VALUE_TYPE_QTCORE_QJSONVALUE;
    TypeInclude QtCore QModelIndex VALUE_TYPE_QTCORE_QMODELINDEX;
    TypeInclude QtCore QPersistentModelIndex VALUE_TYPE_QTCORE_QPERSISTENTMODELINDEX;
    TypeInclude QtCore QTimeZone VALUE_TYPE_QTCORE_QTIMEZONE
  ].

Definition value_methods_qtcore_3_s0 : list signature_row :=
  [
    Sig [VALUE_TYPE_QTCORE_QDIR] "absoluteDir" [] (RValue QDir) [On QFileInfo];
    Sig [] "absoluteFilePath" [] RString [On QFileInfo];
    Sig [] "absolutePath" [] RString [On QFileInfo];
    Sig [] "accept" [] RVoid [On QEvent];
    Sig [VALUE_TYPE_QTCORE_QITEMSELECTIONRANGE] "append" [PValue QItemSelectionRange] RVoid [On
        QItemSelection];
    Sig [] "baseName" [] RString [On QFileInfo];
    Sig [VALUE_TYPE_QTCORE_QDATETIME] "birthTime" [] (RValue QDateTime) [On QFileInfo];
    Sig [VALUE_TYPE_QTCORE_QDATETIME; VALUE_TYPE_QTCORE_QTIMEZONE] "birthTime" [PValue QTimeZone] (RValue
        QDateTime) [On QFileInfo];
    Sig [] "bottom" [] RDouble [On QItemSelectionRange];
    Sig [VALUE_TYPE_QTCORE_QPERSISTENTMODELINDEX] "bottomRight" [] (RValue QPersistentModelIndex) [On
        QItemSelectionRange]
  ].

Definition value_methods_qtcore_3_s10 : list signature_row :=
  [
    Sig [] "bundleName" [] RString [On QFileInfo];
    Sig [] "caching" [] RBool [On QFileInfo];
    Sig [] "canonicalFilePath" [] RString [On QFileInfo];
    Sig [] "canonicalPath" [] RString [On QFileInfo];
    Sig [] "clear" [] RVoid [On QItemSelection];
    Sig [] "completeBaseName" [] RString [On QFileInfo];
    Sig [] "completeSuffix" [] RString [On QFileInfo];
    Sig [VALUE_TYPE_QTCORE_QMODELINDEX] "contains" [PValue QModelIndex] RBool [On QItemSelection; On
        QItemSelectionRange];
    Sig [VALUE_TYPE_QTCORE_QMODELINDEX] "contains" [PInt; PInt; PValue QModelIndex] RBool [On
        QItemSelectionRange];
    Sig [] "count" [] RDouble [On QItemSelection]
  ].

Definition value_methods_qtcore_3_s20 : list signature_row :=
  [
    Sig [VALUE_TYPE_QTCORE_QITEMSELECTIONRANGE] "count" [PValue QItemSelectionRange] RDouble [On
        QItemSelection];
    Sig [VALUE_TYPE_QTCORE_QDIR] "dir" [] (RValue QDir) [On QFileInfo];
    Sig [] "exists" [] RBool [On QFileInfo];
    Sig [] "fileName" [] RString [On QFileInfo];
    Sig [] "filePath" [] RString [On QFileInfo];
    Sig [TYPE_QTCORE_QFILEDEVICE; VALUE_TYPE_QTCORE_QDATETIME] "fileTime" [PValue QFileDevice_FileTime]
        (RValue QDateTime) [On QFileInfo];
    Sig [TYPE_QTCORE_QFILEDEVICE; VALUE_TYPE_QTCORE_QDATETIME; VALUE_TYPE_QTCORE_QTIMEZONE] "fileTime"
        [PValue QFileDevice_FileTime; PValue QTimeZone] (RValue QDateTime) [On QFileInfo];
    Sig [VALUE_TYPE_QTCORE_QITEMSELECTIONRANGE] "first" [] (RValue QItemSelectionRange) [On QItemSelection];
    Sig [] "group" [] RString [On QFileInfo];
    Sig [] "groupId" [] RDouble [On QFileInfo]
  ].

Definition value_methods_qtcore_3_s30 : list signature_row :=
  [
    Sig [] "height" [] RDouble [On QItemSelectionRange];
    Sig [] "ignore" [] RVoid [On QEvent];
    Sig [VALUE_TYPE_QTCORE_QITEMSELECTIONRANGE] "indexOf" [PValue QItemSelectionRange; PInt] RDouble [On
        QItemSelection];
    Sig [VALUE_TYPE_QTCORE_QITEMSELECTIONRANGE] "insert" [PInt; PValue QItemSelectionRange] RVoid [On
        QItemSelection];
    Sig [VALUE_TYPE_QTCORE_QITEMSELECTIONRANGE] "intersected" [PValue QItemSelectionRange] (RValue
        QItemSelectionRange) [On QItemSelectionRange];
    Sig [VALUE_TYPE_QTCORE_QITEMSELECTIONRANGE] "intersects" [PValue QItemSelectionRange] RBool [On
        QItemSelectionRange];
    Sig [] "isAbsolute" [] RBool [On QFileInfo];
    Sig [] "isAccepted" [] RBool [On QEvent];
    Sig [] "isAlias" [] RBool [On QFileInfo];
    Sig [] "isArray" [] RBool [On QJsonDocument; On QJsonValue]
  ].

Definition value_methods_qtcore_3_s40 : list signature_row :=
  [
    Sig [] "isBool" [] RBool [On QJsonValue];
    Sig [] "isBundle" [] RBool [On QFileInfo];
    Sig [] "isDir" [] RBool [On QFileInfo];
    Sig [] "isDouble" [] RBool [On QJsonValue];
    Sig [] "isEmpty" [] RBool [On QItemSelection; On QItemSelectionRange; On QJsonDocument];
    Sig [] "isExecutable" [] RBool [On QFileInfo];
    Sig [] "isFile" [] RBool [On QFileInfo];
    Sig [] "isHidden" [] RBool [On QFileInfo];
    Sig [] "isInputEvent" [] RBool [On QEvent];
    Sig [] "isJunction" [] RBool [On QFileInfo];
    Sig [] "isNativePath" [] RBool [On QFileInfo]
  ].

Definition value_methods_qtcore_3_s51 : list signature_row :=
  [
    Sig [] "isNull" [] RBool [On QJsonDocument; On QJsonValue];
    Sig [] "isObject" [] RBool [On QJsonDocument; On QJsonValue];
    Sig [] "isOther" [] RBool [On QFileInfo];
    Sig [] "isPointerEvent" [] RBool [On QEvent];
    Sig [] "isReadable" [] RBool [On QFileInfo];
    Sig [] "isRelative" [] RBool [On QFileInfo];
    Sig [] "isRoot" [] RBool [On QFileInfo];
    Sig [] "isShortcut" [] RBool [On QFileInfo];
    Sig [] "isSinglePointEvent" [] RBool [On QEvent];
    Sig [] "isString" [] RBool [On QJsonValue];
    Sig [] "isSymLink" [] RBool [On QFileInfo]
  ].

Definition value_methods_qtcore_3_s62 : list signature_row :=
  [
    Sig [] "isSymbolicLink" [] RBool [On QFileInfo];
    Sig [] "isUndefined" [] RBool [On QJsonValue];
    Sig [] "isValid" [] RBool [On QItemSelectionRange];
    Sig [] "isWritable" [] RBool [On QFileInfo];
    Sig [] "junctionTarget" [] RString [On QFileInfo];
    Sig [ENUM_QT_KEY] "key" [] (RMeta Qt_Key) [On QKeyCombination];
    Sig [VALUE_TYPE_QTCORE_QITEMSELECTIONRANGE] "last" [] (RValue QItemSelectionRange) [On QItemSelection];
    Sig [VALUE_TYPE_QTCORE_QITEMSELECTIONRANGE] "lastIndexOf" [PValue QItemSelectionRange; PInt] RDouble
        [On QItemSelection];
    Sig [VALUE_TYPE_QTCORE_QDATETIME] "lastModified" [] (RValue QDateTime) [On QFileInfo];
    Sig [VALUE_TYPE_QTCORE_QDATETIME; VALUE_TYPE_QTCORE_QTIMEZONE] "lastModified" [PValue QTimeZone]
        (RValue QDateTime) [On QFileInfo]
  ].

Definition value_methods_qtcore_3_s72 : list signature_row :=
  [
    Sig [VALUE_TYPE_QTCORE_QDATETIME] "lastRead" [] (RValue QDateTime) [On QFileInfo];
    Sig [VALUE_TYPE_QTCORE_QDATETIME; VALUE_TYPE_QTCORE_QTIMEZONE] "lastRead" [PValue QTimeZone] (RValue
        QDateTime) [On QFileInfo];
    Sig [] "left" [] RDouble [On QItemSelectionRange];
    Sig [] "makeAbsolute" [] RBool [On QFileInfo];
    Sig [VALUE_TYPE_QTCORE_QDATETIME] "metadataChangeTime" [] (RValue QDateTime) [On QFileInfo];
    Sig [VALUE_TYPE_QTCORE_QDATETIME; VALUE_TYPE_QTCORE_QTIMEZONE] "metadataChangeTime" [PValue QTimeZone]
        (RValue QDateTime) [On QFileInfo];
    Sig [TYPE_QTCORE_QABSTRACTITEMMODEL] "model" [] RObject [On QItemSelectionRange];
    Sig [] "move" [PInt; PInt] RVoid [On QItemSelection];
    Sig [] "owner" [] RString [On QFileInfo];
    Sig [] "ownerId" [] RDouble [On QFileInfo]
  ].

Definition value_methods_qtcore_3_s82 : list signature_row :=
  [
    Sig [VALUE_TYPE_QTCORE_QMODELINDEX] "parent" [] (RValue QModelIndex) [On QItemSelectionRange];
    Sig [] "path" [] RString [On QFileInfo];
    Sig [VALUE_TYPE_QTCORE_QITEMSELECTIONRANGE] "prepend" [PValue QItemSelectionRange] RVoid [On
        QItemSelection];
    Sig [] "readSymLink" [] RString [On QFileInfo];
    Sig [] "refresh" [] RVoid [On QFileInfo];
    Sig [VALUE_TYPE_QTCORE_QITEMSELECTIONRANGE] "removeAll" [PValue QItemSelectionRange] RDouble [On
        QItemSelection];
    Sig [] "removeAt" [PInt] RVoid [On QItemSelection];
    Sig [VALUE_TYPE_QTCORE_QITEMSELECTIONRANGE] "replace" [PInt; PValue QItemSelectionRange] RVoid [On
        QItemSelection];
    Sig [] "right" [] RDouble [On QItemSelectionRange];
    Sig [VALUE_TYPE_QTCORE_QMODELINDEX] "select" [PValue QModelIndex; PValue QModelIndex] RVoid [On
        QItemSelection]
  ].

Definition value_methods_qtcore_3_s92 : list signature_row :=
  [
    Sig [] "setAccepted" [PBool] RVoid [On QEvent];
    Sig [] "setCaching" [PBool] RVoid [On QFileInfo];
    Sig [VALUE_TYPE_QTCORE_QDIR] "setFile" [PValue QDir; PString true] RVoid [On QFileInfo];
    Sig [] "setFile" [PString true] RVoid [On QFileInfo];
    Sig [] "size" [] (RMeta cxx_qint64) [On QFileInfo];
    Sig [] "spontaneous" [] RBool [On QEvent];
    Sig [] "stat" [] RVoid [On QFileInfo];
    Sig [] "suffix" [] RString [On QFileInfo];
    Sig [VALUE_TYPE_QTCORE_QEVENTLOOPLOCKER] "swap" [PValue QEventLoopLocker] RVoid [On QEventLoopLocker];
    Sig [VALUE_TYPE_QTCORE_QFILEINFO] "swap" [PValue QFileInfo] RVoid [On QFileInfo]
  ].

Definition value_methods_qtcore_3_s102 : list signature_row :=
  [
    Sig [VALUE_TYPE_QTCORE_QITEMSELECTIONRANGE] "swap" [PValue QItemSelectionRange] RVoid [On
        QItemSelectionRange];
    Sig [VALUE_TYPE_QTCORE_QJSONDOCUMENT] "swap" [PValue QJsonDocument] RVoid [On QJsonDocument];
    Sig [VALUE_TYPE_QTCORE_QJSONVALUE] "swap" [PValue QJsonValue] RVoid [On QJsonValue];
    Sig [] "symLinkTarget" [] RString [On QFileInfo];
    Sig [VALUE_TYPE_QTCORE_QITEMSELECTIONRANGE] "takeAt" [PInt] (RValue QItemSelectionRange) [On
        QItemSelection];
    Sig [VALUE_TYPE_QTCORE_QITEMSELECTIONRANGE] "takeFirst" [] (RValue QItemSelectionRange) [On
        QItemSelection];
    Sig [VALUE_TYPE_QTCORE_QITEMSELECTIONRANGE] "takeLast" [] (RValue QItemSelectionRange) [On
        QItemSelection];
    Sig [] "toBool" [PBool] RBool [On QJsonValue];
    Sig [] "toCombined" [] RDouble [On QKeyCombination];
    Sig [] "toDouble" [PNumber cxx_double] RDouble [On QJsonValue]
  ].

Definition value_methods_qtcore_3_s112 : list signature_row :=
  [
    Sig [] "toInt" [PInt] RDouble [On QJsonValue];
    Sig [] "toInteger" [PMeta cxx_qint64] (RMeta cxx_qint64) [On QJsonValue];
    Sig [TYPE_QTCORE_QJSONDOCUMENT; VALUE_TYPE_QTCORE_QBYTEARRAY] "toJson" [PValue
        QJsonDocument_JsonFormat] (RValue QByteArray) [On QJsonDocument];
    Sig [TYPE_QTCORE_QJSONVALUE; VALUE_TYPE_QTCORE_QBYTEARRAY] "toJson" [PValue QJsonValue_JsonFormat]
        (RValue QByteArray) [On QJsonValue];
    Sig [] "toString" [] RString [On QJsonValue];
    Sig [] "toString" [PString true] RString [On QJsonValue];
    Sig [] "toVariant" [] RVariant [On QJsonDocument; On QJsonValue];
    Sig [] "top" [] RDouble [On QItemSelectionRange];
    Sig [VALUE_TYPE_QTCORE_QPERSISTENTMODELINDEX] "topLeft" [] (RValue QPersistentModelIndex) [On
        QItemSelectionRange];
    Sig [TYPE_QTCORE_QEVENT] "type" [] (RMeta QEvent_Type) [On QEvent]
  ].

Definition value_methods_qtcore_3_s122 : list signature_row :=
  [
    Sig [TYPE_QTCORE_QJSONVALUE] "type" [] (RMeta QJsonValue_Type) [On QJsonValue];
    Sig [] "width" [] RDouble [On QItemSelectionRange]
  ].

Definition value_methods_qtcore_3_types : list string :=
  [
    QEvent;
    QEventLoopLocker;
    QFileInfo;
    QItemSelection;
    QItemSelectionRange;
    QJsonDocument;
    QJsonValue;
    QKeyCombination
  ].

Definition value_methods_qtcore_3 : method_shard :=
  MethodShard QtCore "KRY_QT6_NATIVE_METHODS_QTCORE_"
    (value_methods_qtcore_3_i0)
    (value_methods_qtcore_3_s0 ++ value_methods_qtcore_3_s10 ++ value_methods_qtcore_3_s20 ++
        value_methods_qtcore_3_s30 ++ value_methods_qtcore_3_s40 ++ value_methods_qtcore_3_s51 ++
        value_methods_qtcore_3_s62 ++ value_methods_qtcore_3_s72 ++ value_methods_qtcore_3_s82 ++
        value_methods_qtcore_3_s92 ++ value_methods_qtcore_3_s102 ++ value_methods_qtcore_3_s112 ++
        value_methods_qtcore_3_s122)
    value_methods_qtcore_3_types.

Definition value_methods_qtcore_4_i0 : list include :=
  [
    ClassInclude QtCore QLine QLine;
    ClassInclude QtCore QLineF QLineF;
    ClassInclude QtCore QLocale QLocale;
    ClassInclude QtCore QLocationPermission QLocationPermission;
    ClassInclude QtCore QLockFile QLockFile;
    ClassInclude QtCore QLoggingCategory QLoggingCategory;
    ClassInclude QtCore QMargins QMargins;
    ClassInclude QtCore QMarginsF QMarginsF;
    EnumDefine ENUM_QT_DAYOFWEEK;
    EnumDefine ENUM_QT_LAYOUTDIRECTION;
    TypeInclude QtCore QLocale TYPE_QTCORE_QLOCALE;
    TypeInclude QtCore QLocationPermission TYPE_QTCORE_QLOCATIONPERMISSION;
    TypeInclude QtCore QLockFile TYPE_QTCORE_QLOCKFILE;
    TypeInclude QtCore QCalendar VALUE_TYPE_QTCORE_QCALENDAR;
    TypeInclude QtCore QDate VALUE_TYPE_QTCORE_QDATE;
    TypeInclude QtCore QDateTime VALUE_TYPE_QTCORE_QDATETIME;
    TypeInclude QtCore QLine VALUE_TYPE_QTCORE_QLINE;
    TypeInclude QtCore QLineF VALUE_TYPE_QTCORE_QLINEF;
    TypeInclude QtCore QLocale VALUE_TYPE_QTCORE_QLOCALE;
    TypeInclude QtCore QMargins VALUE_TYPE_QTCORE_QMARGINS;
    TypeInclude QtCore QMarginsF VALUE_TYPE_QTCORE_QMARGINSF;
    TypeInclude QtCore QPoint VALUE_TYPE_QTCORE_QPOINT;
    TypeInclude QtCore QPointF VALUE_TYPE_QTCORE_QPOINTF;
    TypeInclude QtCore QTime VALUE_TYPE_QTCORE_QTIME
  ].

Definition value_methods_qtcore_4_s0 : list signature_row :=
  [
    Sig [TYPE_QTCORE_QLOCATIONPERMISSION] "accuracy" [] (RMeta QLocationPermission_Accuracy) [On
        QLocationPermission];
    Sig [] "amText" [] RString [On QLocale];
    Sig [] "angle" [] RDouble [On QLineF];
    Sig [VALUE_TYPE_QTCORE_QLINEF] "angleTo" [PValue QLineF] RDouble [On QLineF];
    Sig [TYPE_QTCORE_QLOCATIONPERMISSION] "availability" [] (RMeta QLocationPermission_Availability) [On
        QLocationPermission];
    Sig [TYPE_QTCORE_QLOCALE] "bcp47Name" [PValue QLocale_TagSeparator] RString [On QLocale];
    Sig [] "bottom" [] RDouble [On QMargins];
    Sig [] "bottom" [] RDouble [On QMarginsF];
    Sig [VALUE_TYPE_QTCORE_QPOINT] "center" [] (RValue QPoint) [On QLine];
    Sig [VALUE_TYPE_QTCORE_QPOINTF] "center" [] (RValue QPointF) [On QLineF]
  ].

Definition value_methods_qtcore_4_s10 : list signature_row :=
  [
    Sig [VALUE_TYPE_QTCORE_QLOCALE] "collation" [] (RValue QLocale) [On QLocale];
    Sig [TYPE_QTCORE_QLOCALE] "country" [] (RMeta QLocale_Country) [On QLocale];
    Sig [] "createSeparatedList" [PStringList] RString [On QLocale];
    Sig [TYPE_QTCORE_QLOCALE] "currencySymbol" [PValue QLocale_CurrencySymbolFormat] RString [On QLocale];
    Sig [TYPE_QTCORE_QLOCALE] "dateFormat" [PValue QLocale_FormatType] RString [On QLocale];
    Sig [TYPE_QTCORE_QLOCALE] "dateTimeFormat" [PValue QLocale_FormatType] RString [On QLocale];
    Sig [TYPE_QTCORE_QLOCALE] "dayName" [PInt; PValue QLocale_FormatType] RString [On QLocale];
    Sig [] "decimalPoint" [] RString [On QLocale];
    Sig [] "dx" [] RDouble [On QLine];
    Sig [] "dx" [] RDouble [On QLineF]
  ].

Definition value_methods_qtcore_4_s20 : list signature_row :=
  [
    Sig [] "dy" [] RDouble [On QLine];
    Sig [] "dy" [] RDouble [On QLineF];
    Sig [TYPE_QTCORE_QLOCKFILE] "error" [] (RMeta QLockFile_LockError) [On QLockFile];
    Sig [] "exponential" [] RString [On QLocale];
    Sig [] "fileName" [] RString [On QLockFile];
    Sig [ENUM_QT_DAYOFWEEK] "firstDayOfWeek" [] (RMeta Qt_DayOfWeek) [On QLocale];
    Sig [] "groupSeparator" [] RString [On QLocale];
    Sig [] "isCriticalEnabled" [] RBool [On QLoggingCategory];
    Sig [] "isDebugEnabled" [] RBool [On QLoggingCategory];
    Sig [] "isInfoEnabled" [] RBool [On QLoggingCategory];
    Sig [] "isLocked" [] RBool [On QLockFile]
  ].

Definition value_methods_qtcore_4_s31 : list signature_row :=
  [
    Sig [] "isNull" [] RBool [On QLine; On QLineF; On QMargins; On QMarginsF];
    Sig [] "isWarningEnabled" [] RBool [On QLoggingCategory];
    Sig [TYPE_QTCORE_QLOCALE] "language" [] (RMeta QLocale_Language) [On QLocale];
    Sig [] "left" [] RDouble [On QMargins];
    Sig [] "left" [] RDouble [On QMarginsF];
    Sig [] "length" [] RDouble [On QLineF];
    Sig [] "lock" [] RBool [On QLockFile];
    Sig [TYPE_QTCORE_QLOCALE] "measurementSystem" [] (RMeta QLocale_MeasurementSystem) [On QLocale];
    Sig [TYPE_QTCORE_QLOCALE] "monthName" [PInt; PValue QLocale_FormatType] RString [On QLocale];
    Sig [TYPE_QTCORE_QLOCALE] "name" [PValue QLocale_TagSeparator] RString [On QLocale]
  ].

Definition value_methods_qtcore_4_s41 : list signature_row :=
  [
    Sig [] "nativeCountryName" [] RString [On QLocale];
    Sig [] "nativeLanguageName" [] RString [On QLocale];
    Sig [] "nativeTerritoryName" [] RString [On QLocale];
    Sig [] "negativeSign" [] RString [On QLocale];
    Sig [VALUE_TYPE_QTCORE_QLINEF] "normalVector" [] (RValue QLineF) [On QLineF];
    Sig [VALUE_TYPE_QTCORE_QPOINT] "p1" [] (RValue QPoint) [On QLine];
    Sig [VALUE_TYPE_QTCORE_QPOINTF] "p1" [] (RValue QPointF) [On QLineF];
    Sig [VALUE_TYPE_QTCORE_QPOINT] "p2" [] (RValue QPoint) [On QLine];
    Sig [VALUE_TYPE_QTCORE_QPOINTF] "p2" [] (RValue QPointF) [On QLineF];
    Sig [] "percent" [] RString [On QLocale];
    Sig [] "pmText" [] RString [On QLocale]
  ].

Definition value_methods_qtcore_4_s52 : list signature_row :=
  [
    Sig [VALUE_TYPE_QTCORE_QPOINTF] "pointAt" [PNumber cxx_qreal] (RValue QPointF) [On QLineF];
    Sig [] "positiveSign" [] RString [On QLocale];
    Sig [] "removeStaleLockFile" [] RBool [On QLockFile];
    Sig [] "right" [] RDouble [On QMargins];
    Sig [] "right" [] RDouble [On QMarginsF];
    Sig [TYPE_QTCORE_QLOCALE] "script" [] (RMeta QLocale_Script) [On QLocale];
    Sig [TYPE_QTCORE_QLOCATIONPERMISSION] "setAccuracy" [PValue QLocationPermission_Accuracy] RVoid [On
        QLocationPermission];
    Sig [] "setAngle" [PNumber cxx_qreal] RVoid [On QLineF];
    Sig [TYPE_QTCORE_QLOCATIONPERMISSION] "setAvailability" [PValue QLocationPermission_Availability] RVoid
        [On QLocationPermission];
    Sig [] "setBottom" [PInt] RVoid [On QMargins]
  ].

Definition value_methods_qtcore_4_s62 : list signature_row :=
  [
    Sig [] "setBottom" [PNumber cxx_qreal] RVoid [On QMarginsF];
    Sig [] "setLeft" [PInt] RVoid [On QMargins];
    Sig [] "setLeft" [PNumber cxx_qreal] RVoid [On QMarginsF];
    Sig [] "setLength" [PNumber cxx_qreal] RVoid [On QLineF];
    Sig [] "setLine" [PInt; PInt; PInt; PInt] RVoid [On QLine];
    Sig [] "setLine" [PNumber cxx_qreal; PNumber cxx_qreal; PNumber cxx_qreal; PNumber cxx_qreal] RVoid [On
        QLineF];
    Sig [VALUE_TYPE_QTCORE_QPOINT] "setP1" [PValue QPoint] RVoid [On QLine];
    Sig [VALUE_TYPE_QTCORE_QPOINTF] "setP1" [PValue QPointF] RVoid [On QLineF];
    Sig [VALUE_TYPE_QTCORE_QPOINT] "setP2" [PValue QPoint] RVoid [On QLine]
  ].

Definition value_methods_qtcore_4_s71 : list signature_row :=
  [
    Sig [VALUE_TYPE_QTCORE_QPOINTF] "setP2" [PValue QPointF] RVoid [On QLineF];
    Sig [VALUE_TYPE_QTCORE_QPOINT] "setPoints" [PValue QPoint; PValue QPoint] RVoid [On QLine];
    Sig [VALUE_TYPE_QTCORE_QPOINTF] "setPoints" [PValue QPointF; PValue QPointF] RVoid [On QLineF];
    Sig [] "setRight" [PInt] RVoid [On QMargins];
    Sig [] "setRight" [PNumber cxx_qreal] RVoid [On QMarginsF];
    Sig [] "setStaleLockTime" [PInt] RVoid [On QLockFile];
    Sig [] "setTop" [PInt] RVoid [On QMargins];
    Sig [] "setTop" [PNumber cxx_qreal] RVoid [On QMarginsF];
    Sig [] "staleLockTime" [] RDouble [On QLockFile]
  ].

Definition value_methods_qtcore_4_s80 : list signature_row :=
  [
    Sig [TYPE_QTCORE_QLOCALE] "standaloneDayName" [PInt; PValue QLocale_FormatType] RString [On QLocale];
    Sig [TYPE_QTCORE_QLOCALE] "standaloneMonthName" [PInt; PValue QLocale_FormatType] RString [On QLocale];
    Sig [VALUE_TYPE_QTCORE_QLOCALE] "swap" [PValue QLocale] RVoid [On QLocale];
    Sig [TYPE_QTCORE_QLOCALE] "territory" [] (RMeta QLocale_Territory) [On QLocale];
    Sig [ENUM_QT_LAYOUTDIRECTION] "textDirection" [] (RMeta Qt_LayoutDirection) [On QLocale];
    Sig [TYPE_QTCORE_QLOCALE] "timeFormat" [PValue QLocale_FormatType] RString [On QLocale];
    Sig [] "toCurrencyString" [PNumber cxx_double; PString true; PInt] RString [On QLocale];
    Sig [TYPE_QTCORE_QLOCALE; VALUE_TYPE_QTCORE_QCALENDAR; VALUE_TYPE_QTCORE_QDATE] "toDate" [PString true;
        PValue QLocale_FormatType; PValue QCalendar; PInt] (RValue QDate) [On QLocale]
  ].

Definition value_methods_qtcore_4_s88 : list signature_row :=
  [
    Sig [TYPE_QTCORE_QLOCALE; VALUE_TYPE_QTCORE_QDATE] "toDate" [PString true; PValue QLocale_FormatType;
        PInt] (RValue QDate) [On QLocale];
    Sig [VALUE_TYPE_QTCORE_QCALENDAR; VALUE_TYPE_QTCORE_QDATE] "toDate" [PString true; PString true; PValue
        QCalendar; PInt] (RValue QDate) [On QLocale];
    Sig [VALUE_TYPE_QTCORE_QDATE] "toDate" [PString true; PString true; PInt] (RValue QDate) [On QLocale];
    Sig [TYPE_QTCORE_QLOCALE; VALUE_TYPE_QTCORE_QCALENDAR; VALUE_TYPE_QTCORE_QDATETIME] "toDateTime"
        [PString true; PValue QLocale_FormatType; PValue QCalendar; PInt] (RValue QDateTime) [On QLocale];
    Sig [TYPE_QTCORE_QLOCALE; VALUE_TYPE_QTCORE_QDATETIME] "toDateTime" [PString true; PValue
        QLocale_FormatType; PInt] (RValue QDateTime) [On QLocale];
    Sig [VALUE_TYPE_QTCORE_QCALENDAR; VALUE_TYPE_QTCORE_QDATETIME] "toDateTime" [PString true; PString
        true; PValue QCalendar; PInt] (RValue QDateTime) [On QLocale];
    Sig [VALUE_TYPE_QTCORE_QDATETIME] "toDateTime" [PString true; PString true; PInt] (RValue QDateTime)
        [On QLocale]
  ].

Definition value_methods_qtcore_4_s95 : list signature_row :=
  [
    Sig [VALUE_TYPE_QTCORE_QLINE] "toLine" [] (RValue QLine) [On QLineF];
    Sig [VALUE_TYPE_QTCORE_QLINEF] "toLineF" [] (RValue QLineF) [On QLine];
    Sig [] "toLower" [PString true] RString [On QLocale];
    Sig [VALUE_TYPE_QTCORE_QMARGINS] "toMargins" [] (RValue QMargins) [On QMarginsF];
    Sig [VALUE_TYPE_QTCORE_QMARGINSF] "toMarginsF" [] (RValue QMarginsF) [On QMargins];
    Sig [TYPE_QTCORE_QLOCALE; VALUE_TYPE_QTCORE_QDATE] "toString" [PValue QDate; PValue QLocale_FormatType]
        RString [On QLocale];
    Sig [TYPE_QTCORE_QLOCALE; VALUE_TYPE_QTCORE_QCALENDAR; VALUE_TYPE_QTCORE_QDATE] "toString" [PValue
        QDate; PValue QLocale_FormatType; PValue QCalendar] RString [On QLocale];
    Sig [TYPE_QTCORE_QLOCALE; VALUE_TYPE_QTCORE_QDATETIME] "toString" [PValue QDateTime; PValue
        QLocale_FormatType] RString [On QLocale];
    Sig [TYPE_QTCORE_QLOCALE; VALUE_TYPE_QTCORE_QCALENDAR; VALUE_TYPE_QTCORE_QDATETIME] "toString" [PValue
        QDateTime; PValue QLocale_FormatType; PValue QCalendar] RString [On QLocale]
  ].

Definition value_methods_qtcore_4_s104 : list signature_row :=
  [
    Sig [VALUE_TYPE_QTCORE_QDATETIME] "toString" [PValue QDateTime; PString true] RString [On QLocale];
    Sig [TYPE_QTCORE_QLOCALE; VALUE_TYPE_QTCORE_QTIME] "toString" [PValue QTime; PValue QLocale_FormatType]
        RString [On QLocale];
    Sig [TYPE_QTCORE_QLOCALE; VALUE_TYPE_QTCORE_QTIME] "toTime" [PString true; PValue QLocale_FormatType]
        (RValue QTime) [On QLocale];
    Sig [VALUE_TYPE_QTCORE_QTIME] "toTime" [PString true; PString true] (RValue QTime) [On QLocale];
    Sig [] "toUpper" [PString true] RString [On QLocale];
    Sig [] "top" [] RDouble [On QMargins];
    Sig [] "top" [] RDouble [On QMarginsF];
    Sig [VALUE_TYPE_QTCORE_QPOINT] "translate" [PValue QPoint] RVoid [On QLine];
    Sig [VALUE_TYPE_QTCORE_QPOINTF] "translate" [PValue QPointF] RVoid [On QLineF]
  ].

Definition value_methods_qtcore_4_s113 : list signature_row :=
  [
    Sig [] "translate" [PInt; PInt] RVoid [On QLine];
    Sig [] "translate" [PNumber cxx_qreal; PNumber cxx_qreal] RVoid [On QLineF];
    Sig [VALUE_TYPE_QTCORE_QLINE; VALUE_TYPE_QTCORE_QPOINT] "translated" [PValue QPoint] (RValue QLine) [On
        QLine];
    Sig [VALUE_TYPE_QTCORE_QLINEF; VALUE_TYPE_QTCORE_QPOINTF] "translated" [PValue QPointF] (RValue QLineF)
        [On QLineF];
    Sig [VALUE_TYPE_QTCORE_QLINE] "translated" [PInt; PInt] (RValue QLine) [On QLine];
    Sig [VALUE_TYPE_QTCORE_QLINEF] "translated" [PNumber cxx_qreal; PNumber cxx_qreal] (RValue QLineF) [On
        QLineF];
    Sig [] "tryLock" [PInt] RBool [On QLockFile];
    Sig [TYPE_QTCORE_QLOCALE] "uiLanguages" [PValue QLocale_TagSeparator] (RList (IMeta QString)) [On
        QLocale]
  ].

Definition value_methods_qtcore_4_s121 : list signature_row :=
  [
    Sig [VALUE_TYPE_QTCORE_QLINEF] "unitVector" [] (RValue QLineF) [On QLineF];
    Sig [] "unlock" [] RVoid [On QLockFile];
    Sig [ENUM_QT_DAYOFWEEK] "weekdays" [] (RList (IMeta Qt_DayOfWeek)) [On QLocale];
    Sig [] "x1" [] RDouble [On QLine];
    Sig [] "x1" [] RDouble [On QLineF];
    Sig [] "x2" [] RDouble [On QLine];
    Sig [] "x2" [] RDouble [On QLineF];
    Sig [] "y1" [] RDouble [On QLine];
    Sig [] "y1" [] RDouble [On QLineF];
    Sig [] "y2" [] RDouble [On QLine];
    Sig [] "y2" [] RDouble [On QLineF]
  ].

Definition value_methods_qtcore_4_s132 : list signature_row :=
  [
    Sig [] "zeroDigit" [] RString [On QLocale]
  ].

Definition value_methods_qtcore_4_types : list string :=
  [
    QLine;
    QLineF;
    QLocale;
    QLocationPermission;
    QLockFile;
    QLoggingCategory;
    QMargins;
    QMarginsF
  ].

Definition value_methods_qtcore_4 : method_shard :=
  MethodShard QtCore "KRY_QT6_NATIVE_METHODS_QTCORE_"
    (value_methods_qtcore_4_i0)
    (value_methods_qtcore_4_s0 ++ value_methods_qtcore_4_s10 ++ value_methods_qtcore_4_s20 ++
        value_methods_qtcore_4_s31 ++ value_methods_qtcore_4_s41 ++ value_methods_qtcore_4_s52 ++
        value_methods_qtcore_4_s62 ++ value_methods_qtcore_4_s71 ++ value_methods_qtcore_4_s80 ++
        value_methods_qtcore_4_s88 ++ value_methods_qtcore_4_s95 ++ value_methods_qtcore_4_s104 ++
        value_methods_qtcore_4_s113 ++ value_methods_qtcore_4_s121 ++ value_methods_qtcore_4_s132)
    value_methods_qtcore_4_types.

Definition value_methods_qtcore_5_i0 : list include :=
  [
    ClassInclude QtCore QMessageAuthenticationCode QMessageAuthenticationCode;
    ClassInclude QtCore QMetaEnum QMetaEnum;
    ClassInclude QtCore QMetaMethod QMetaMethod;
    ClassInclude QtCore QMetaProperty QMetaProperty;
    ClassInclude QtCore QMetaType QMetaType;
    ClassInclude QtCore QMimeDatabase QMimeDatabase;
    ClassInclude QtCore QMimeType QMimeType;
    ClassInclude QtCore QModelIndex QModelIndex;
    TypeInclude QtCore QAbstractItemModel TYPE_QTCORE_QABSTRACTITEMMODEL;
    TypeInclude QtCore QIODevice TYPE_QTCORE_QIODEVICE;
    TypeInclude QtCore QObject TYPE_QTCORE_QOBJECT;
    TypeInclude QtCore QMetaMethod TYPE_QTCORE_QMETAMETHOD;
    TypeInclude QtCore QMimeDatabase TYPE_QTCORE_QMIMEDATABASE;
    TypeInclude QtCore QByteArray VALUE_TYPE_QTCORE_QBYTEARRAY;
    TypeInclude QtCore QFileInfo VALUE_TYPE_QTCORE_QFILEINFO;
    TypeInclude QtCore QMessageAuthenticationCode VALUE_TYPE_QTCORE_QMESSAGEAUTHENTICATIONCODE;
    TypeInclude QtCore QMetaEnum VALUE_TYPE_QTCORE_QMETAENUM;
    TypeInclude QtCore QMetaMethod VALUE_TYPE_QTCORE_QMETAMETHOD;
    TypeInclude QtCore QMetaType VALUE_TYPE_QTCORE_QMETATYPE;
    TypeInclude QtCore QMimeType VALUE_TYPE_QTCORE_QMIMETYPE;
    TypeInclude QtCore QModelIndex VALUE_TYPE_QTCORE_QMODELINDEX;
    TypeInclude QtCore QUrl VALUE_TYPE_QTCORE_QURL
  ].

Definition value_methods_qtcore_5_s0 : list signature_row :=
  [
    Sig [TYPE_QTCORE_QMETAMETHOD] "access" [] (RMeta QMetaMethod_Access) [On QMetaMethod];
    Sig [] "aliases" [] (RList (IMeta QString)) [On QMimeType];
    Sig [] "alignOf" [] (RMeta cxx_qsizetype) [On QMetaType];
    Sig [] "allAncestors" [] (RList (IMeta QString)) [On QMimeType];
    Sig [VALUE_TYPE_QTCORE_QMIMETYPE] "allMimeTypes" [] (RList (IValue QMimeType)) [On QMimeDatabase];
    Sig [] "column" [] RDouble [On QModelIndex];
    Sig [] "comment" [] RString [On QMimeType];
    Sig [] "data" [PInt] RVariant [On QModelIndex];
    Sig [VALUE_TYPE_QTCORE_QMETAENUM] "enumerator" [] (RValue QMetaEnum) [On QMetaProperty];
    Sig [] "filterString" [] RString [On QMimeType]
  ].

Definition value_methods_qtcore_5_s10 : list signature_row :=
  [
    Sig [] "genericIconName" [] RString [On QMimeType];
    Sig [] "globPatterns" [] (RList (IMeta QString)) [On QMimeType];
    Sig [] "hasNotifySignal" [] RBool [On QMetaProperty];
    Sig [] "hasRegisteredDataStreamOperators" [] RBool [On QMetaType];
    Sig [] "hasRegisteredDebugStreamOperator" [] RBool [On QMetaType];
    Sig [] "hasStdCppSet" [] RBool [On QMetaProperty];
    Sig [] "iconName" [] RString [On QMimeType];
    Sig [] "id" [] RDouble [On QMetaType];
    Sig [] "inherits" [PString true] RBool [On QMimeType];
    Sig [] "is64Bit" [] RBool [On QMetaEnum];
    Sig [] "isBindable" [] RBool [On QMetaProperty];
    Sig [] "isConst" [] RBool [On QMetaMethod]
  ].

Definition value_methods_qtcore_5_s22 : list signature_row :=
  [
    Sig [] "isConstant" [] RBool [On QMetaProperty];
    Sig [] "isCopyConstructible" [] RBool [On QMetaType];
    Sig [] "isDefault" [] RBool [On QMimeType];
    Sig [] "isDefaultConstructible" [] RBool [On QMetaType];
    Sig [] "isDesignable" [] RBool [On QMetaProperty];
    Sig [] "isDestructible" [] RBool [On QMetaType];
    Sig [] "isEnumType" [] RBool [On QMetaProperty];
    Sig [] "isEqualityComparable" [] RBool [On QMetaType];
    Sig [] "isFinal" [] RBool [On QMetaProperty];
    Sig [] "isFlag" [] RBool [On QMetaEnum];
    Sig [] "isFlagType" [] RBool [On QMetaProperty];
    Sig [] "isMoveConstructible" [] RBool [On QMetaType]
  ].

Definition value_methods_qtcore_5_s34 : list signature_row :=
  [
    Sig [] "isOrdered" [] RBool [On QMetaType];
    Sig [] "isOverride" [] RBool [On QMetaProperty];
    Sig [] "isReadable" [] RBool [On QMetaProperty];
    Sig [] "isRegistered" [] RBool [On QMetaType];
    Sig [] "isRequired" [] RBool [On QMetaProperty];
    Sig [] "isResettable" [] RBool [On QMetaProperty];
    Sig [] "isScoped" [] RBool [On QMetaEnum];
    Sig [] "isScriptable" [] RBool [On QMetaProperty];
    Sig [] "isStored" [] RBool [On QMetaProperty];
    Sig [] "isUser" [] RBool [On QMetaProperty]
  ].

Definition value_methods_qtcore_5_s44 : list signature_row :=
  [
    Sig [] "isValid" [] RBool [On QMetaEnum; On QMetaMethod; On QMetaProperty; On QMetaType; On QMimeType;
        On QModelIndex];
    Sig [] "isVirtual" [] RBool [On QMetaProperty];
    Sig [] "isWritable" [] RBool [On QMetaProperty];
    Sig [] "keyCount" [] RDouble [On QMetaEnum];
    Sig [VALUE_TYPE_QTCORE_QMETATYPE] "metaType" [] (RValue QMetaType) [On QMetaEnum; On QMetaProperty];
    Sig [] "methodIndex" [] RDouble [On QMetaMethod];
    Sig [VALUE_TYPE_QTCORE_QBYTEARRAY] "methodSignature" [] (RValue QByteArray) [On QMetaMethod];
    Sig [TYPE_QTCORE_QMETAMETHOD] "methodType" [] (RMeta QMetaMethod_MethodType) [On QMetaMethod]
  ].

Definition value_methods_qtcore_5_s52 : list signature_row :=
  [
    Sig [VALUE_TYPE_QTCORE_QBYTEARRAY; VALUE_TYPE_QTCORE_QMIMETYPE] "mimeTypeForData" [PValue QByteArray]
        (RValue QMimeType) [On QMimeDatabase];
    Sig [TYPE_QTCORE_QIODEVICE; VALUE_TYPE_QTCORE_QMIMETYPE] "mimeTypeForData" [PObject QIODevice false]
        (RValue QMimeType) [On QMimeDatabase];
    Sig [TYPE_QTCORE_QMIMEDATABASE; VALUE_TYPE_QTCORE_QFILEINFO; VALUE_TYPE_QTCORE_QMIMETYPE]
        "mimeTypeForFile" [PValue QFileInfo; PValue QMimeDatabase_MatchMode] (RValue QMimeType) [On
        QMimeDatabase];
    Sig [TYPE_QTCORE_QMIMEDATABASE; VALUE_TYPE_QTCORE_QMIMETYPE] "mimeTypeForFile" [PString true; PValue
        QMimeDatabase_MatchMode] (RValue QMimeType) [On QMimeDatabase];
    Sig [VALUE_TYPE_QTCORE_QBYTEARRAY; VALUE_TYPE_QTCORE_QMIMETYPE] "mimeTypeForFileNameAndData" [PString
        true; PValue QByteArray] (RValue QMimeType) [On QMimeDatabase];
    Sig [TYPE_QTCORE_QIODEVICE; VALUE_TYPE_QTCORE_QMIMETYPE] "mimeTypeForFileNameAndData" [PString true;
        PObject QIODevice false] (RValue QMimeType) [On QMimeDatabase];
    Sig [VALUE_TYPE_QTCORE_QMIMETYPE] "mimeTypeForName" [PString true] (RValue QMimeType) [On
        QMimeDatabase];
    Sig [VALUE_TYPE_QTCORE_QMIMETYPE; VALUE_TYPE_QTCORE_QURL] "mimeTypeForUrl" [PValue QUrl] (RValue
        QMimeType) [On QMimeDatabase]
  ].

Definition value_methods_qtcore_5_s60 : list signature_row :=
  [
    Sig [VALUE_TYPE_QTCORE_QMIMETYPE] "mimeTypesForFileName" [PString true] (RList (IValue QMimeType)) [On
        QMimeDatabase];
    Sig [TYPE_QTCORE_QABSTRACTITEMMODEL] "model" [] RObject [On QModelIndex];
    Sig [VALUE_TYPE_QTCORE_QBYTEARRAY] "name" [] (RValue QByteArray) [On QMetaMethod];
    Sig [] "name" [] RString [On QMimeType];
    Sig [VALUE_TYPE_QTCORE_QMETAMETHOD] "notifySignal" [] (RValue QMetaMethod) [On QMetaProperty];
    Sig [] "notifySignalIndex" [] RDouble [On QMetaProperty];
    Sig [] "parameterCount" [] RDouble [On QMetaMethod];
    Sig [VALUE_TYPE_QTCORE_QMETATYPE] "parameterMetaType" [PInt] (RValue QMetaType) [On QMetaMethod];
    Sig [VALUE_TYPE_QTCORE_QBYTEARRAY] "parameterNames" [] (RList (IValue QByteArray)) [On QMetaMethod];
    Sig [] "parameterType" [PInt] RDouble [On QMetaMethod]
  ].

Definition value_methods_qtcore_5_s70 : list signature_row :=
  [
    Sig [VALUE_TYPE_QTCORE_QBYTEARRAY] "parameterTypeName" [PInt] (RValue QByteArray) [On QMetaMethod];
    Sig [VALUE_TYPE_QTCORE_QBYTEARRAY] "parameterTypes" [] (RList (IValue QByteArray)) [On QMetaMethod];
    Sig [VALUE_TYPE_QTCORE_QMODELINDEX] "parent" [] (RValue QModelIndex) [On QModelIndex];
    Sig [] "parentMimeTypes" [] (RList (IMeta QString)) [On QMimeType];
    Sig [] "preferredSuffix" [] RString [On QMimeType];
    Sig [] "propertyIndex" [] RDouble [On QMetaProperty];
    Sig [] "registerType" [] RVoid [On QMetaType];
    Sig [] "relativeMethodIndex" [] RDouble [On QMetaMethod];
    Sig [] "relativePropertyIndex" [] RDouble [On QMetaProperty];
    Sig [] "reset" [] RVoid [On QMessageAuthenticationCode]
  ].

Definition value_methods_qtcore_5_s80 : list signature_row :=
  [
    Sig [TYPE_QTCORE_QOBJECT] "reset" [PObject QObject false] RBool [On QMetaProperty];
    Sig [VALUE_TYPE_QTCORE_QBYTEARRAY] "result" [] (RValue QByteArray) [On QMessageAuthenticationCode];
    Sig [VALUE_TYPE_QTCORE_QMETATYPE] "returnMetaType" [] (RValue QMetaType) [On QMetaMethod];
    Sig [] "returnType" [] RDouble [On QMetaMethod];
    Sig [] "revision" [] RDouble [On QMetaMethod; On QMetaProperty];
    Sig [] "row" [] RDouble [On QModelIndex];
    Sig [VALUE_TYPE_QTCORE_QMODELINDEX] "sibling" [PInt; PInt] (RValue QModelIndex) [On QModelIndex];
    Sig [VALUE_TYPE_QTCORE_QMODELINDEX] "siblingAtColumn" [PInt] (RValue QModelIndex) [On QModelIndex];
    Sig [VALUE_TYPE_QTCORE_QMODELINDEX] "siblingAtRow" [PInt] (RValue QModelIndex) [On QModelIndex]
  ].

Definition value_methods_qtcore_5_s89 : list signature_row :=
  [
    Sig [] "sizeOf" [] (RMeta cxx_qsizetype) [On QMetaType];
    Sig [] "suffixForFileName" [PString true] RString [On QMimeDatabase];
    Sig [] "suffixes" [] (RList (IMeta QString)) [On QMimeType];
    Sig [VALUE_TYPE_QTCORE_QMESSAGEAUTHENTICATIONCODE] "swap" [PValue QMessageAuthenticationCode] RVoid [On
        QMessageAuthenticationCode];
    Sig [VALUE_TYPE_QTCORE_QMIMETYPE] "swap" [PValue QMimeType] RVoid [On QMimeType];
    Sig [] "typeId" [] RDouble [On QMetaProperty];
    Sig [VALUE_TYPE_QTCORE_QMETATYPE] "underlyingType" [] (RValue QMetaType) [On QMetaType];
    Sig [] "userType" [] RDouble [On QMetaProperty];
    Sig [] "value" [PInt] RDouble [On QMetaEnum];
    Sig [VALUE_TYPE_QTCORE_QBYTEARRAY] "valueToKeys" [PMeta cxx_quint64] (RValue QByteArray) [On QMetaEnum]
  ].

Definition value_methods_qtcore_5_types : list string :=
  [
    QMessageAuthenticationCode;
    QMetaEnum;
    QMetaMethod;
    QMetaProperty;
    QMetaType;
    QMimeDatabase;
    QMimeType;
    QModelIndex
  ].

Definition value_methods_qtcore_5 : method_shard :=
  MethodShard QtCore "KRY_QT6_NATIVE_METHODS_QTCORE_"
    (value_methods_qtcore_5_i0)
    (value_methods_qtcore_5_s0 ++ value_methods_qtcore_5_s10 ++ value_methods_qtcore_5_s22 ++
        value_methods_qtcore_5_s34 ++ value_methods_qtcore_5_s44 ++ value_methods_qtcore_5_s52 ++
        value_methods_qtcore_5_s60 ++ value_methods_qtcore_5_s70 ++ value_methods_qtcore_5_s80 ++
        value_methods_qtcore_5_s89)
    value_methods_qtcore_5_types.

Definition value_methods_qtcore_6_i0 : list include :=
  [
    ClassInclude QtCore QModelRoleData QModelRoleData;
    ClassInclude QtCore QModelRoleDataSpan QModelRoleDataSpan;
    ClassInclude QtCore QMutex QMutex;
    ClassInclude QtCore QNativeIpcKey QNativeIpcKey;
    ClassInclude QtCore QOperatingSystemVersion QOperatingSystemVersion;
    ClassInclude QtCore QOperatingSystemVersionBase QOperatingSystemVersionBase;
    ClassInclude QtCore QPermission QPermission;
    ClassInclude QtCore QPersistentModelIndex QPersistentModelIndex;
    TypeInclude QtCore QAbstractItemModel TYPE_QTCORE_QABSTRACTITEMMODEL;
    EnumDefine ENUM_QT_PERMISSIONSTATUS;
    TypeInclude QtCore QNativeIpcKey TYPE_QTCORE_QNATIVEIPCKEY;
    TypeInclude QtCore QOperatingSystemVersion TYPE_QTCORE_QOPERATINGSYSTEMVERSION;
    TypeInclude QtCore QDeadlineTimer VALUE_TYPE_QTCORE_QDEADLINETIMER;
    TypeInclude QtCore QMetaType VALUE_TYPE_QTCORE_QMETATYPE;
    TypeInclude QtCore QModelIndex VALUE_TYPE_QTCORE_QMODELINDEX;
    TypeInclude QtCore QNativeIpcKey VALUE_TYPE_QTCORE_QNATIVEIPCKEY;
    TypeInclude QtCore QPersistentModelIndex VALUE_TYPE_QTCORE_QPERSISTENTMODELINDEX;
    TypeInclude QtCore QVersionNumber VALUE_TYPE_QTCORE_QVERSIONNUMBER
  ].

Definition value_methods_qtcore_6_s0 : list signature_row :=
  [
    Sig [] "clearData" [] RVoid [On QModelRoleData];
    Sig [] "column" [] RDouble [On QPersistentModelIndex];
    Sig [] "data" [] RVariant [On QModelRoleData];
    Sig [] "data" [PInt] RVariant [On QPersistentModelIndex];
    Sig [] "isEmpty" [] RBool [On QNativeIpcKey];
    Sig [] "isValid" [] RBool [On QNativeIpcKey; On QPersistentModelIndex];
    Sig [] "length" [] (RMeta cxx_qsizetype) [On QModelRoleDataSpan];
    Sig [] "lock" [] RVoid [On QMutex];
    Sig [] "majorVersion" [] RDouble [On QOperatingSystemVersionBase];
    Sig [] "microVersion" [] RDouble [On QOperatingSystemVersionBase];
    Sig [] "minorVersion" [] RDouble [On QOperatingSystemVersionBase]
  ].

Definition value_methods_qtcore_6_s11 : list signature_row :=
  [
    Sig [TYPE_QTCORE_QABSTRACTITEMMODEL] "model" [] RObject [On QPersistentModelIndex];
    Sig [] "name" [] RString [On QOperatingSystemVersionBase];
    Sig [] "nativeKey" [] RString [On QNativeIpcKey];
    Sig [VALUE_TYPE_QTCORE_QMODELINDEX] "parent" [] (RValue QModelIndex) [On QPersistentModelIndex];
    Sig [] "role" [] RDouble [On QModelRoleData];
    Sig [] "row" [] RDouble [On QPersistentModelIndex];
    Sig [] "segmentCount" [] RDouble [On QOperatingSystemVersionBase];
    Sig [] "setData" [PVariant] RVoid [On QModelRoleData];
    Sig [] "setNativeKey" [PString true] RVoid [On QNativeIpcKey];
    Sig [TYPE_QTCORE_QNATIVEIPCKEY] "setType" [PValue QNativeIpcKey_Type] RVoid [On QNativeIpcKey]
  ].

Definition value_methods_qtcore_6_s21 : list signature_row :=
  [
    Sig [VALUE_TYPE_QTCORE_QMODELINDEX] "sibling" [PInt; PInt] (RValue QModelIndex) [On
        QPersistentModelIndex];
    Sig [] "size" [] (RMeta cxx_qsizetype) [On QModelRoleDataSpan];
    Sig [ENUM_QT_PERMISSIONSTATUS] "status" [] (RMeta Qt_PermissionStatus) [On QPermission];
    Sig [VALUE_TYPE_QTCORE_QNATIVEIPCKEY] "swap" [PValue QNativeIpcKey] RVoid [On QNativeIpcKey];
    Sig [VALUE_TYPE_QTCORE_QPERSISTENTMODELINDEX] "swap" [PValue QPersistentModelIndex] RVoid [On
        QPersistentModelIndex];
    Sig [] "toString" [] RString [On QNativeIpcKey];
    Sig [] "tryLock" [] RBool [On QMutex];
    Sig [VALUE_TYPE_QTCORE_QDEADLINETIMER] "tryLock" [PValue QDeadlineTimer] RBool [On QMutex];
    Sig [] "tryLock" [PInt] RBool [On QMutex];
    Sig [VALUE_TYPE_QTCORE_QMETATYPE] "type" [] (RValue QMetaType) [On QPermission]
  ].

Definition value_methods_qtcore_6_s31 : list signature_row :=
  [
    Sig [TYPE_QTCORE_QNATIVEIPCKEY] "type" [] (RMeta QNativeIpcKey_Type) [On QNativeIpcKey];
    Sig [TYPE_QTCORE_QOPERATINGSYSTEMVERSION] "type" [] (RMeta QOperatingSystemVersion_OSType) [On
        QOperatingSystemVersion];
    Sig [] "unlock" [] RVoid [On QMutex];
    Sig [VALUE_TYPE_QTCORE_QVERSIONNUMBER] "version" [] (RValue QVersionNumber) [On
        QOperatingSystemVersionBase]
  ].

Definition value_methods_qtcore_6_types : list string :=
  [
    QModelRoleData;
    QModelRoleDataSpan;
    QMutex;
    QNativeIpcKey;
    QOperatingSystemVersion;
    QOperatingSystemVersionBase;
    QPermission;
    QPersistentModelIndex
  ].

Definition value_methods_qtcore_6 : method_shard :=
  MethodShard QtCore "KRY_QT6_NATIVE_METHODS_QTCORE_"
    (value_methods_qtcore_6_i0)
    (value_methods_qtcore_6_s0 ++ value_methods_qtcore_6_s11 ++ value_methods_qtcore_6_s21 ++
        value_methods_qtcore_6_s31)
    value_methods_qtcore_6_types.

Definition value_methods_qtcore_7_i0 : list include :=
  [
    ClassInclude QtCore QPoint QPoint;
    ClassInclude QtCore QPointF QPointF;
    ClassInclude QtCore QProcessEnvironment QProcessEnvironment;
    ClassInclude QtCore QRandomGenerator QRandomGenerator;
    ClassInclude QtCore QReadLocker QReadLocker;
    ClassInclude QtCore QReadWriteLock QReadWriteLock;
    ClassInclude QtCore QRect QRect;
    ClassInclude QtCore QRectF QRectF;
    TypeInclude QtCore QDeadlineTimer VALUE_TYPE_QTCORE_QDEADLINETIMER;
    TypeInclude QtCore QMargins VALUE_TYPE_QTCORE_QMARGINS;
    TypeInclude QtCore QMarginsF VALUE_TYPE_QTCORE_QMARGINSF;
    TypeInclude QtCore QPoint VALUE_TYPE_QTCORE_QPOINT;
    TypeInclude QtCore QPointF VALUE_TYPE_QTCORE_QPOINTF;
    TypeInclude QtCore QProcessEnvironment VALUE_TYPE_QTCORE_QPROCESSENVIRONMENT;
    TypeInclude QtCore QRect VALUE_TYPE_QTCORE_QRECT;
    TypeInclude QtCore QRectF VALUE_TYPE_QTCORE_QRECTF;
    TypeInclude QtCore QSize VALUE_TYPE_QTCORE_QSIZE;
    TypeInclude QtCore QSizeF VALUE_TYPE_QTCORE_QSIZEF
  ].

Definition value_methods_qtcore_7_s0 : list signature_row :=
  [
    Sig [] "adjust" [PInt; PInt; PInt; PInt] RVoid [On QRect];
    Sig [] "adjust" [PNumber cxx_qreal; PNumber cxx_qreal; PNumber cxx_qreal; PNumber cxx_qreal] RVoid [On
        QRectF];
    Sig [VALUE_TYPE_QTCORE_QRECT] "adjusted" [PInt; PInt; PInt; PInt] (RValue QRect) [On QRect];
    Sig [VALUE_TYPE_QTCORE_QRECTF] "adjusted" [PNumber cxx_qreal; PNumber cxx_qreal; PNumber cxx_qreal;
        PNumber cxx_qreal] (RValue QRectF) [On QRectF];
    Sig [] "bottom" [] RDouble [On QRect];
    Sig [] "bottom" [] RDouble [On QRectF];
    Sig [VALUE_TYPE_QTCORE_QPOINT] "bottomLeft" [] (RValue QPoint) [On QRect];
    Sig [VALUE_TYPE_QTCORE_QPOINTF] "bottomLeft" [] (RValue QPointF) [On QRectF]
  ].

Definition value_methods_qtcore_7_s8 : list signature_row :=
  [
    Sig [VALUE_TYPE_QTCORE_QPOINT] "bottomRight" [] (RValue QPoint) [On QRect];
    Sig [VALUE_TYPE_QTCORE_QPOINTF] "bottomRight" [] (RValue QPointF) [On QRectF];
    Sig [] "bounded" [PNumber cxx_double] RDouble [On QRandomGenerator];
    Sig [] "bounded" [PMeta cxx_qint64] (RMeta cxx_qint64) [On QRandomGenerator];
    Sig [] "bounded" [PMeta cxx_qint64; PMeta cxx_qint64] (RMeta cxx_qint64) [On QRandomGenerator];
    Sig [VALUE_TYPE_QTCORE_QPOINT] "center" [] (RValue QPoint) [On QRect];
    Sig [VALUE_TYPE_QTCORE_QPOINTF] "center" [] (RValue QPointF) [On QRectF];
    Sig [] "clear" [] RVoid [On QProcessEnvironment];
    Sig [VALUE_TYPE_QTCORE_QPOINT] "contains" [PValue QPoint; PBool] RBool [On QRect];
    Sig [VALUE_TYPE_QTCORE_QPOINTF] "contains" [PValue QPointF] RBool [On QRectF]
  ].

Definition value_methods_qtcore_7_s18 : list signature_row :=
  [
    Sig [VALUE_TYPE_QTCORE_QRECT] "contains" [PValue QRect; PBool] RBool [On QRect];
    Sig [VALUE_TYPE_QTCORE_QRECTF] "contains" [PValue QRectF] RBool [On QRectF];
    Sig [] "contains" [PString true] RBool [On QProcessEnvironment];
    Sig [] "contains" [PInt; PInt] RBool [On QRect];
    Sig [] "contains" [PInt; PInt; PBool] RBool [On QRect];
    Sig [] "contains" [PNumber cxx_qreal; PNumber cxx_qreal] RBool [On QRectF];
    Sig [] "discard" [PMeta cxx_quint64] RVoid [On QRandomGenerator];
    Sig [] "generate64" [] (RMeta cxx_quint64) [On QRandomGenerator];
    Sig [] "generateDouble" [] RDouble [On QRandomGenerator];
    Sig [] "height" [] RDouble [On QRect]
  ].

Definition value_methods_qtcore_7_s28 : list signature_row :=
  [
    Sig [] "height" [] RDouble [On QRectF];
    Sig [] "inheritsFromParent" [] RBool [On QProcessEnvironment];
    Sig [VALUE_TYPE_QTCORE_QPROCESSENVIRONMENT] "insert" [PValue QProcessEnvironment] RVoid [On
        QProcessEnvironment];
    Sig [] "insert" [PString true; PString true] RVoid [On QProcessEnvironment];
    Sig [VALUE_TYPE_QTCORE_QRECT] "intersected" [PValue QRect] (RValue QRect) [On QRect];
    Sig [VALUE_TYPE_QTCORE_QRECTF] "intersected" [PValue QRectF] (RValue QRectF) [On QRectF];
    Sig [VALUE_TYPE_QTCORE_QRECT] "intersects" [PValue QRect] RBool [On QRect];
    Sig [VALUE_TYPE_QTCORE_QRECTF] "intersects" [PValue QRectF] RBool [On QRectF];
    Sig [] "isEmpty" [] RBool [On QProcessEnvironment; On QRect; On QRectF]
  ].

Definition value_methods_qtcore_7_s37 : list signature_row :=
  [
    Sig [] "isNull" [] RBool [On QPoint; On QPointF; On QRect; On QRectF];
    Sig [] "isValid" [] RBool [On QRect; On QRectF];
    Sig [] "keys" [] (RList (IMeta QString)) [On QProcessEnvironment];
    Sig [] "left" [] RDouble [On QRect];
    Sig [] "left" [] RDouble [On QRectF];
    Sig [] "lockForRead" [] RVoid [On QReadWriteLock];
    Sig [] "lockForWrite" [] RVoid [On QReadWriteLock];
    Sig [] "manhattanLength" [] RDouble [On QPoint];
    Sig [] "manhattanLength" [] RDouble [On QPointF]
  ].

Definition value_methods_qtcore_7_s46 : list signature_row :=
  [
    Sig [VALUE_TYPE_QTCORE_QMARGINS; VALUE_TYPE_QTCORE_QRECT] "marginsAdded" [PValue QMargins] (RValue
        QRect) [On QRect];
    Sig [VALUE_TYPE_QTCORE_QMARGINSF; VALUE_TYPE_QTCORE_QRECTF] "marginsAdded" [PValue QMarginsF] (RValue
        QRectF) [On QRectF];
    Sig [VALUE_TYPE_QTCORE_QMARGINS; VALUE_TYPE_QTCORE_QRECT] "marginsRemoved" [PValue QMargins] (RValue
        QRect) [On QRect];
    Sig [VALUE_TYPE_QTCORE_QMARGINSF; VALUE_TYPE_QTCORE_QRECTF] "marginsRemoved" [PValue QMarginsF] (RValue
        QRectF) [On QRectF];
    Sig [] "moveBottom" [PInt] RVoid [On QRect];
    Sig [] "moveBottom" [PNumber cxx_qreal] RVoid [On QRectF];
    Sig [VALUE_TYPE_QTCORE_QPOINT] "moveBottomLeft" [PValue QPoint] RVoid [On QRect];
    Sig [VALUE_TYPE_QTCORE_QPOINTF] "moveBottomLeft" [PValue QPointF] RVoid [On QRectF];
    Sig [VALUE_TYPE_QTCORE_QPOINT] "moveBottomRight" [PValue QPoint] RVoid [On QRect]
  ].

Definition value_methods_qtcore_7_s55 : list signature_row :=
  [
    Sig [VALUE_TYPE_QTCORE_QPOINTF] "moveBottomRight" [PValue QPointF] RVoid [On QRectF];
    Sig [VALUE_TYPE_QTCORE_QPOINT] "moveCenter" [PValue QPoint] RVoid [On QRect];
    Sig [VALUE_TYPE_QTCORE_QPOINTF] "moveCenter" [PValue QPointF] RVoid [On QRectF];
    Sig [] "moveLeft" [PInt] RVoid [On QRect];
    Sig [] "moveLeft" [PNumber cxx_qreal] RVoid [On QRectF];
    Sig [] "moveRight" [PInt] RVoid [On QRect];
    Sig [] "moveRight" [PNumber cxx_qreal] RVoid [On QRectF];
    Sig [VALUE_TYPE_QTCORE_QPOINT] "moveTo" [PValue QPoint] RVoid [On QRect];
    Sig [VALUE_TYPE_QTCORE_QPOINTF] "moveTo" [PValue QPointF] RVoid [On QRectF]
  ].

Definition value_methods_qtcore_7_s64 : list signature_row :=
  [
    Sig [] "moveTo" [PInt; PInt] RVoid [On QRect];
    Sig [] "moveTo" [PNumber cxx_qreal; PNumber cxx_qreal] RVoid [On QRectF];
    Sig [] "moveTop" [PInt] RVoid [On QRect];
    Sig [] "moveTop" [PNumber cxx_qreal] RVoid [On QRectF];
    Sig [VALUE_TYPE_QTCORE_QPOINT] "moveTopLeft" [PValue QPoint] RVoid [On QRect];
    Sig [VALUE_TYPE_QTCORE_QPOINTF] "moveTopLeft" [PValue QPointF] RVoid [On QRectF];
    Sig [VALUE_TYPE_QTCORE_QPOINT] "moveTopRight" [PValue QPoint] RVoid [On QRect];
    Sig [VALUE_TYPE_QTCORE_QPOINTF] "moveTopRight" [PValue QPointF] RVoid [On QRectF];
    Sig [VALUE_TYPE_QTCORE_QRECT] "normalized" [] (RValue QRect) [On QRect]
  ].

Definition value_methods_qtcore_7_s73 : list signature_row :=
  [
    Sig [VALUE_TYPE_QTCORE_QRECTF] "normalized" [] (RValue QRectF) [On QRectF];
    Sig [] "relock" [] RVoid [On QReadLocker];
    Sig [] "remove" [PString true] RVoid [On QProcessEnvironment];
    Sig [] "right" [] RDouble [On QRect];
    Sig [] "right" [] RDouble [On QRectF];
    Sig [] "setBottom" [PInt] RVoid [On QRect];
    Sig [] "setBottom" [PNumber cxx_qreal] RVoid [On QRectF];
    Sig [VALUE_TYPE_QTCORE_QPOINT] "setBottomLeft" [PValue QPoint] RVoid [On QRect];
    Sig [VALUE_TYPE_QTCORE_QPOINTF] "setBottomLeft" [PValue QPointF] RVoid [On QRectF];
    Sig [VALUE_TYPE_QTCORE_QPOINT] "setBottomRight" [PValue QPoint] RVoid [On QRect]
  ].

Definition value_methods_qtcore_7_s83 : list signature_row :=
  [
    Sig [VALUE_TYPE_QTCORE_QPOINTF] "setBottomRight" [PValue QPointF] RVoid [On QRectF];
    Sig [] "setCoords" [PInt; PInt; PInt; PInt] RVoid [On QRect];
    Sig [] "setCoords" [PNumber cxx_qreal; PNumber cxx_qreal; PNumber cxx_qreal; PNumber cxx_qreal] RVoid
        [On QRectF];
    Sig [] "setHeight" [PInt] RVoid [On QRect];
    Sig [] "setHeight" [PNumber cxx_qreal] RVoid [On QRectF];
    Sig [] "setLeft" [PInt] RVoid [On QRect];
    Sig [] "setLeft" [PNumber cxx_qreal] RVoid [On QRectF];
    Sig [] "setRect" [PInt; PInt; PInt; PInt] RVoid [On QRect]
  ].

Definition value_methods_qtcore_7_s91 : list signature_row :=
  [
    Sig [] "setRect" [PNumber cxx_qreal; PNumber cxx_qreal; PNumber cxx_qreal; PNumber cxx_qreal] RVoid [On
        QRectF];
    Sig [] "setRight" [PInt] RVoid [On QRect];
    Sig [] "setRight" [PNumber cxx_qreal] RVoid [On QRectF];
    Sig [VALUE_TYPE_QTCORE_QSIZE] "setSize" [PValue QSize] RVoid [On QRect];
    Sig [VALUE_TYPE_QTCORE_QSIZEF] "setSize" [PValue QSizeF] RVoid [On QRectF];
    Sig [] "setTop" [PInt] RVoid [On QRect];
    Sig [] "setTop" [PNumber cxx_qreal] RVoid [On QRectF];
    Sig [VALUE_TYPE_QTCORE_QPOINT] "setTopLeft" [PValue QPoint] RVoid [On QRect];
    Sig [VALUE_TYPE_QTCORE_QPOINTF] "setTopLeft" [PValue QPointF] RVoid [On QRectF]
  ].

Definition value_methods_qtcore_7_s100 : list signature_row :=
  [
    Sig [VALUE_TYPE_QTCORE_QPOINT] "setTopRight" [PValue QPoint] RVoid [On QRect];
    Sig [VALUE_TYPE_QTCORE_QPOINTF] "setTopRight" [PValue QPointF] RVoid [On QRectF];
    Sig [] "setWidth" [PInt] RVoid [On QRect];
    Sig [] "setWidth" [PNumber cxx_qreal] RVoid [On QRectF];
    Sig [] "setX" [PInt] RVoid [On QPoint; On QRect];
    Sig [] "setX" [PNumber cxx_qreal] RVoid [On QPointF; On QRectF];
    Sig [] "setY" [PInt] RVoid [On QPoint; On QRect];
    Sig [] "setY" [PNumber cxx_qreal] RVoid [On QPointF; On QRectF]
  ].

Definition value_methods_qtcore_7_s108 : list signature_row :=
  [
    Sig [VALUE_TYPE_QTCORE_QSIZE] "size" [] (RValue QSize) [On QRect];
    Sig [VALUE_TYPE_QTCORE_QSIZEF] "size" [] (RValue QSizeF) [On QRectF];
    Sig [VALUE_TYPE_QTCORE_QPROCESSENVIRONMENT] "swap" [PValue QProcessEnvironment] RVoid [On
        QProcessEnvironment];
    Sig [VALUE_TYPE_QTCORE_QRECT] "toAlignedRect" [] (RValue QRect) [On QRectF];
    Sig [VALUE_TYPE_QTCORE_QPOINT] "toPoint" [] (RValue QPoint) [On QPointF];
    Sig [VALUE_TYPE_QTCORE_QPOINTF] "toPointF" [] (RValue QPointF) [On QPoint];
    Sig [VALUE_TYPE_QTCORE_QRECT] "toRect" [] (RValue QRect) [On QRectF];
    Sig [VALUE_TYPE_QTCORE_QRECTF] "toRectF" [] (RValue QRectF) [On QRect];
    Sig [] "toStringList" [] (RList (IMeta QString)) [On QProcessEnvironment];
    Sig [] "top" [] RDouble [On QRect]
  ].

Definition value_methods_qtcore_7_s118 : list signature_row :=
  [
    Sig [] "top" [] RDouble [On QRectF];
    Sig [VALUE_TYPE_QTCORE_QPOINT] "topLeft" [] (RValue QPoint) [On QRect];
    Sig [VALUE_TYPE_QTCORE_QPOINTF] "topLeft" [] (RValue QPointF) [On QRectF];
    Sig [VALUE_TYPE_QTCORE_QPOINT] "topRight" [] (RValue QPoint) [On QRect];
    Sig [VALUE_TYPE_QTCORE_QPOINTF] "topRight" [] (RValue QPointF) [On QRectF];
    Sig [VALUE_TYPE_QTCORE_QPOINT] "translate" [PValue QPoint] RVoid [On QRect];
    Sig [VALUE_TYPE_QTCORE_QPOINTF] "translate" [PValue QPointF] RVoid [On QRectF];
    Sig [] "translate" [PInt; PInt] RVoid [On QRect];
    Sig [] "translate" [PNumber cxx_qreal; PNumber cxx_qreal] RVoid [On QRectF]
  ].

Definition value_methods_qtcore_7_s127 : list signature_row :=
  [
    Sig [VALUE_TYPE_QTCORE_QPOINT; VALUE_TYPE_QTCORE_QRECT] "translated" [PValue QPoint] (RValue QRect) [On
        QRect];
    Sig [VALUE_TYPE_QTCORE_QPOINTF; VALUE_TYPE_QTCORE_QRECTF] "translated" [PValue QPointF] (RValue QRectF)
        [On QRectF];
    Sig [VALUE_TYPE_QTCORE_QRECT] "translated" [PInt; PInt] (RValue QRect) [On QRect];
    Sig [VALUE_TYPE_QTCORE_QRECTF] "translated" [PNumber cxx_qreal; PNumber cxx_qreal] (RValue QRectF) [On
        QRectF];
    Sig [VALUE_TYPE_QTCORE_QPOINT] "transposed" [] (RValue QPoint) [On QPoint];
    Sig [VALUE_TYPE_QTCORE_QPOINTF] "transposed" [] (RValue QPointF) [On QPointF];
    Sig [VALUE_TYPE_QTCORE_QRECT] "transposed" [] (RValue QRect) [On QRect];
    Sig [VALUE_TYPE_QTCORE_QRECTF] "transposed" [] (RValue QRectF) [On QRectF];
    Sig [VALUE_TYPE_QTCORE_QDEADLINETIMER] "tryLockForRead" [PValue QDeadlineTimer] RBool [On
        QReadWriteLock]
  ].

Definition value_methods_qtcore_7_s136 : list signature_row :=
  [
    Sig [] "tryLockForRead" [PInt] RBool [On QReadWriteLock];
    Sig [VALUE_TYPE_QTCORE_QDEADLINETIMER] "tryLockForWrite" [PValue QDeadlineTimer] RBool [On
        QReadWriteLock];
    Sig [] "tryLockForWrite" [PInt] RBool [On QReadWriteLock];
    Sig [VALUE_TYPE_QTCORE_QRECT] "united" [PValue QRect] (RValue QRect) [On QRect];
    Sig [VALUE_TYPE_QTCORE_QRECTF] "united" [PValue QRectF] (RValue QRectF) [On QRectF];
    Sig [] "unlock" [] RVoid [On QReadLocker; On QReadWriteLock];
    Sig [] "value" [PString true; PString true] RString [On QProcessEnvironment];
    Sig [] "width" [] RDouble [On QRect];
    Sig [] "width" [] RDouble [On QRectF]
  ].

Definition value_methods_qtcore_7_s145 : list signature_row :=
  [
    Sig [] "x" [] RDouble [On QPoint; On QRect];
    Sig [] "x" [] RDouble [On QPointF; On QRectF];
    Sig [] "y" [] RDouble [On QPoint; On QRect];
    Sig [] "y" [] RDouble [On QPointF; On QRectF]
  ].

Definition value_methods_qtcore_7_types : list string :=
  [
    QPoint;
    QPointF;
    QProcessEnvironment;
    QRandomGenerator;
    QReadLocker;
    QReadWriteLock;
    QRect;
    QRectF
  ].

Definition value_methods_qtcore_7 : method_shard :=
  MethodShard QtCore "KRY_QT6_NATIVE_METHODS_QTCORE_"
    (value_methods_qtcore_7_i0)
    (value_methods_qtcore_7_s0 ++ value_methods_qtcore_7_s8 ++ value_methods_qtcore_7_s18 ++
        value_methods_qtcore_7_s28 ++ value_methods_qtcore_7_s37 ++ value_methods_qtcore_7_s46 ++
        value_methods_qtcore_7_s55 ++ value_methods_qtcore_7_s64 ++ value_methods_qtcore_7_s73 ++
        value_methods_qtcore_7_s83 ++ value_methods_qtcore_7_s91 ++ value_methods_qtcore_7_s100 ++
        value_methods_qtcore_7_s108 ++ value_methods_qtcore_7_s118 ++ value_methods_qtcore_7_s127 ++
        value_methods_qtcore_7_s136 ++ value_methods_qtcore_7_s145)
    value_methods_qtcore_7_types.

Definition value_methods_qtcore_8_i0 : list include :=
  [
    ClassInclude QtCore QRecursiveMutex QRecursiveMutex;
    ClassInclude QtCore QRegularExpression QRegularExpression;
    ClassInclude QtCore QRegularExpressionMatch QRegularExpressionMatch;
    ClassInclude QtCore QRegularExpressionMatchIterator QRegularExpressionMatchIterator;
    ClassInclude QtCore QResource QResource;
    ClassInclude QtCore QRunnable QRunnable;
    ClassInclude QtCore QSemaphore QSemaphore;
    ClassInclude QtCore QSemaphoreReleaser QSemaphoreReleaser;
    TypeInclude QtCore QRegularExpression TYPE_QTCORE_QREGULAREXPRESSION;
    TypeInclude QtCore QResource TYPE_QTCORE_QRESOURCE;
    TypeInclude QtCore QByteArray VALUE_TYPE_QTCORE_QBYTEARRAY;
    TypeInclude QtCore QDateTime VALUE_TYPE_QTCORE_QDATETIME;
    TypeInclude QtCore QDeadlineTimer VALUE_TYPE_QTCORE_QDEADLINETIMER;
    TypeInclude QtCore QLocale VALUE_TYPE_QTCORE_QLOCALE;
    TypeInclude QtCore QRegularExpression VALUE_TYPE_QTCORE_QREGULAREXPRESSION;
    TypeInclude QtCore QRegularExpressionMatch VALUE_TYPE_QTCORE_QREGULAREXPRESSIONMATCH;
    TypeInclude QtCore QRegularExpressionMatchIterator VALUE_TYPE_QTCORE_QREGULAREXPRESSIONMATCHITERATOR;
    TypeInclude QtCore QSemaphoreReleaser VALUE_TYPE_QTCORE_QSEMAPHORERELEASER
  ].

Definition value_methods_qtcore_8_s0 : list signature_row :=
  [
    Sig [] "absoluteFilePath" [] RString [On QResource];
    Sig [] "acquire" [PInt] RVoid [On QSemaphore];
    Sig [] "autoDelete" [] RBool [On QRunnable];
    Sig [] "available" [] RDouble [On QSemaphore];
    Sig [] "captureCount" [] RDouble [On QRegularExpression];
    Sig [] "captured" [PInt] RString [On QRegularExpressionMatch];
    Sig [] "capturedEnd" [PInt] (RMeta cxx_qsizetype) [On QRegularExpressionMatch];
    Sig [] "capturedLength" [PInt] (RMeta cxx_qsizetype) [On QRegularExpressionMatch];
    Sig [] "capturedStart" [PInt] (RMeta cxx_qsizetype) [On QRegularExpressionMatch];
    Sig [] "capturedTexts" [] (RList (IMeta QString)) [On QRegularExpressionMatch];
    Sig [TYPE_QTCORE_QRESOURCE] "compressionAlgorithm" [] (RMeta QResource_Compression) [On QResource]
  ].

Definition value_methods_qtcore_8_s11 : list signature_row :=
  [
    Sig [] "errorString" [] RString [On QRegularExpression];
    Sig [] "fileName" [] RString [On QResource];
    Sig [] "hasCaptured" [PInt] RBool [On QRegularExpressionMatch];
    Sig [] "hasMatch" [] RBool [On QRegularExpressionMatch];
    Sig [] "hasNext" [] RBool [On QRegularExpressionMatchIterator];
    Sig [] "hasPartialMatch" [] RBool [On QRegularExpressionMatch];
    Sig [] "isValid" [] RBool [On QRegularExpression; On QRegularExpressionMatch; On
        QRegularExpressionMatchIterator; On QResource];
    Sig [] "lastCapturedIndex" [] RDouble [On QRegularExpressionMatch];
    Sig [VALUE_TYPE_QTCORE_QDATETIME] "lastModified" [] (RValue QDateTime) [On QResource];
    Sig [VALUE_TYPE_QTCORE_QLOCALE] "locale" [] (RValue QLocale) [On QResource]
  ].

Definition value_methods_qtcore_8_s21 : list signature_row :=
  [
    Sig [] "lock" [] RVoid [On QRecursiveMutex];
    Sig [TYPE_QTCORE_QREGULAREXPRESSION] "matchType" [] (RMeta QRegularExpression_MatchType) [On
        QRegularExpressionMatch; On QRegularExpressionMatchIterator];
    Sig [] "namedCaptureGroups" [] (RList (IMeta QString)) [On QRegularExpression];
    Sig [VALUE_TYPE_QTCORE_QREGULAREXPRESSIONMATCH] "next" [] (RValue QRegularExpressionMatch) [On
        QRegularExpressionMatchIterator];
    Sig [] "optimize" [] RVoid [On QRegularExpression];
    Sig [] "pattern" [] RString [On QRegularExpression];
    Sig [] "patternErrorOffset" [] (RMeta cxx_qsizetype) [On QRegularExpression];
    Sig [VALUE_TYPE_QTCORE_QREGULAREXPRESSIONMATCH] "peekNext" [] (RValue QRegularExpressionMatch) [On
        QRegularExpressionMatchIterator];
    Sig [VALUE_TYPE_QTCORE_QREGULAREXPRESSION] "regularExpression" [] (RValue QRegularExpression) [On
        QRegularExpressionMatch; On QRegularExpressionMatchIterator];
    Sig [] "release" [PInt] RVoid [On QSemaphore]
  ].

Definition value_methods_qtcore_8_s31 : list signature_row :=
  [
    Sig [] "setAutoDelete" [PBool] RVoid [On QRunnable];
    Sig [] "setFileName" [PString true] RVoid [On QResource];
    Sig [VALUE_TYPE_QTCORE_QLOCALE] "setLocale" [PValue QLocale] RVoid [On QResource];
    Sig [] "setPattern" [PString true] RVoid [On QRegularExpression];
    Sig [] "size" [] (RMeta cxx_qint64) [On QResource];
    Sig [VALUE_TYPE_QTCORE_QREGULAREXPRESSION] "swap" [PValue QRegularExpression] RVoid [On
        QRegularExpression];
    Sig [VALUE_TYPE_QTCORE_QREGULAREXPRESSIONMATCH] "swap" [PValue QRegularExpressionMatch] RVoid [On
        QRegularExpressionMatch];
    Sig [VALUE_TYPE_QTCORE_QREGULAREXPRESSIONMATCHITERATOR] "swap" [PValue QRegularExpressionMatchIterator]
        RVoid [On QRegularExpressionMatchIterator];
    Sig [VALUE_TYPE_QTCORE_QSEMAPHORERELEASER] "swap" [PValue QSemaphoreReleaser] RVoid [On
        QSemaphoreReleaser]
  ].

Definition value_methods_qtcore_8_s40 : list signature_row :=
  [
    Sig [] "tryAcquire" [PInt] RBool [On QSemaphore];
    Sig [VALUE_TYPE_QTCORE_QDEADLINETIMER] "tryAcquire" [PInt; PValue QDeadlineTimer] RBool [On QSemaphore];
    Sig [] "tryAcquire" [PInt; PInt] RBool [On QSemaphore];
    Sig [] "tryLock" [PInt] RBool [On QRecursiveMutex];
    Sig [VALUE_TYPE_QTCORE_QBYTEARRAY] "uncompressedData" [] (RValue QByteArray) [On QResource];
    Sig [] "uncompressedSize" [] (RMeta cxx_qint64) [On QResource];
    Sig [] "unlock" [] RVoid [On QRecursiveMutex]
  ].

Definition value_methods_qtcore_8_types : list string :=
  [
    QRecursiveMutex;
    QRegularExpression;
    QRegularExpressionMatch;
    QRegularExpressionMatchIterator;
    QResource;
    QRunnable;
    QSemaphore;
    QSemaphoreReleaser
  ].

Definition value_methods_qtcore_8 : method_shard :=
  MethodShard QtCore "KRY_QT6_NATIVE_METHODS_QTCORE_"
    (value_methods_qtcore_8_i0)
    (value_methods_qtcore_8_s0 ++ value_methods_qtcore_8_s11 ++ value_methods_qtcore_8_s21 ++
        value_methods_qtcore_8_s31 ++ value_methods_qtcore_8_s40)
    value_methods_qtcore_8_types.

Definition value_methods_qtcore_9_i0 : list include :=
  [
    ClassInclude QtCore QSignalBlocker QSignalBlocker;
    ClassInclude QtCore QSize QSize;
    ClassInclude QtCore QSizeF QSizeF;
    ClassInclude QtCore QStorageInfo QStorageInfo;
    ClassInclude QtCore QStringConverter QStringConverter;
    ClassInclude QtCore QSystemSemaphore QSystemSemaphore;
    ClassInclude QtCore QTemporaryDir QTemporaryDir;
    ClassInclude QtCore QTextBoundaryFinder QTextBoundaryFinder;
    EnumDefine ENUM_QT_ASPECTRATIOMODE;
    TypeInclude QtCore QNativeIpcKey TYPE_QTCORE_QNATIVEIPCKEY;
    TypeInclude QtCore QSystemSemaphore TYPE_QTCORE_QSYSTEMSEMAPHORE;
    TypeInclude QtCore QTextBoundaryFinder TYPE_QTCORE_QTEXTBOUNDARYFINDER;
    TypeInclude QtCore QByteArray VALUE_TYPE_QTCORE_QBYTEARRAY;
    TypeInclude QtCore QMargins VALUE_TYPE_QTCORE_QMARGINS;
    TypeInclude QtCore QMarginsF VALUE_TYPE_QTCORE_QMARGINSF;
    TypeInclude QtCore QNativeIpcKey VALUE_TYPE_QTCORE_QNATIVEIPCKEY;
    TypeInclude QtCore QSize VALUE_TYPE_QTCORE_QSIZE;
    TypeInclude QtCore QSizeF VALUE_TYPE_QTCORE_QSIZEF;
    TypeInclude QtCore QStorageInfo VALUE_TYPE_QTCORE_QSTORAGEINFO;
    TypeInclude QtCore QTemporaryDir VALUE_TYPE_QTCORE_QTEMPORARYDIR;
    TypeInclude QtCore QTextBoundaryFinder VALUE_TYPE_QTCORE_QTEXTBOUNDARYFINDER
  ].

Definition value_methods_qtcore_9_s0 : list signature_row :=
  [
    Sig [] "acquire" [] RBool [On QSystemSemaphore];
    Sig [] "autoRemove" [] RBool [On QTemporaryDir];
    Sig [] "blockSize" [] RDouble [On QStorageInfo];
    Sig [VALUE_TYPE_QTCORE_QSIZE] "boundedTo" [PValue QSize] (RValue QSize) [On QSize];
    Sig [VALUE_TYPE_QTCORE_QSIZEF] "boundedTo" [PValue QSizeF] (RValue QSizeF) [On QSizeF];
    Sig [] "bytesAvailable" [] (RMeta cxx_qint64) [On QStorageInfo];
    Sig [] "bytesFree" [] (RMeta cxx_qint64) [On QStorageInfo];
    Sig [] "bytesTotal" [] (RMeta cxx_qint64) [On QStorageInfo];
    Sig [VALUE_TYPE_QTCORE_QBYTEARRAY] "device" [] (RValue QByteArray) [On QStorageInfo];
    Sig [] "dismiss" [] RVoid [On QSignalBlocker];
    Sig [] "displayName" [] RString [On QStorageInfo]
  ].

Definition value_methods_qtcore_9_s11 : list signature_row :=
  [
    Sig [TYPE_QTCORE_QSYSTEMSEMAPHORE] "error" [] (RMeta QSystemSemaphore_SystemSemaphoreError) [On
        QSystemSemaphore];
    Sig [] "errorString" [] RString [On QSystemSemaphore; On QTemporaryDir];
    Sig [VALUE_TYPE_QTCORE_QSIZE] "expandedTo" [PValue QSize] (RValue QSize) [On QSize];
    Sig [VALUE_TYPE_QTCORE_QSIZEF] "expandedTo" [PValue QSizeF] (RValue QSizeF) [On QSizeF];
    Sig [] "filePath" [PString true] RString [On QTemporaryDir];
    Sig [VALUE_TYPE_QTCORE_QBYTEARRAY] "fileSystemType" [] (RValue QByteArray) [On QStorageInfo];
    Sig [VALUE_TYPE_QTCORE_QMARGINS; VALUE_TYPE_QTCORE_QSIZE] "grownBy" [PValue QMargins] (RValue QSize)
        [On QSize];
    Sig [VALUE_TYPE_QTCORE_QMARGINSF; VALUE_TYPE_QTCORE_QSIZEF] "grownBy" [PValue QMarginsF] (RValue
        QSizeF) [On QSizeF];
    Sig [] "hasError" [] RBool [On QStringConverter]
  ].

Definition value_methods_qtcore_9_s20 : list signature_row :=
  [
    Sig [] "height" [] RDouble [On QSize];
    Sig [] "height" [] RDouble [On QSizeF];
    Sig [] "isAtBoundary" [] RBool [On QTextBoundaryFinder];
    Sig [] "isEmpty" [] RBool [On QSize; On QSizeF];
    Sig [] "isNull" [] RBool [On QSize; On QSizeF];
    Sig [] "isReadOnly" [] RBool [On QStorageInfo];
    Sig [] "isReady" [] RBool [On QStorageInfo];
    Sig [] "isRoot" [] RBool [On QStorageInfo];
    Sig [] "isValid" [] RBool [On QSize; On QSizeF; On QStorageInfo; On QStringConverter; On QTemporaryDir;
        On QTextBoundaryFinder]
  ].

Definition value_methods_qtcore_9_s29 : list signature_row :=
  [
    Sig [] "key" [] RString [On QSystemSemaphore];
    Sig [] "name" [] RString [On QStorageInfo];
    Sig [VALUE_TYPE_QTCORE_QNATIVEIPCKEY] "nativeIpcKey" [] (RValue QNativeIpcKey) [On QSystemSemaphore];
    Sig [] "path" [] RString [On QTemporaryDir];
    Sig [] "position" [] (RMeta cxx_qsizetype) [On QTextBoundaryFinder];
    Sig [] "reblock" [] RVoid [On QSignalBlocker];
    Sig [] "refresh" [] RVoid [On QStorageInfo];
    Sig [] "release" [PInt] RBool [On QSystemSemaphore];
    Sig [] "remove" [] RBool [On QTemporaryDir];
    Sig [] "resetState" [] RVoid [On QStringConverter];
    Sig [] "rootPath" [] RString [On QStorageInfo]
  ].

Definition value_methods_qtcore_9_s40 : list signature_row :=
  [
    Sig [ENUM_QT_ASPECTRATIOMODE; VALUE_TYPE_QTCORE_QSIZE] "scale" [PValue QSize; PValue
        Qt_AspectRatioMode] RVoid [On QSize];
    Sig [ENUM_QT_ASPECTRATIOMODE; VALUE_TYPE_QTCORE_QSIZEF] "scale" [PValue QSizeF; PValue
        Qt_AspectRatioMode] RVoid [On QSizeF];
    Sig [ENUM_QT_ASPECTRATIOMODE] "scale" [PInt; PInt; PValue Qt_AspectRatioMode] RVoid [On QSize];
    Sig [ENUM_QT_ASPECTRATIOMODE] "scale" [PNumber cxx_qreal; PNumber cxx_qreal; PValue Qt_AspectRatioMode]
        RVoid [On QSizeF];
    Sig [ENUM_QT_ASPECTRATIOMODE; VALUE_TYPE_QTCORE_QSIZE] "scaled" [PValue QSize; PValue
        Qt_AspectRatioMode] (RValue QSize) [On QSize];
    Sig [ENUM_QT_ASPECTRATIOMODE; VALUE_TYPE_QTCORE_QSIZEF] "scaled" [PValue QSizeF; PValue
        Qt_AspectRatioMode] (RValue QSizeF) [On QSizeF];
    Sig [ENUM_QT_ASPECTRATIOMODE; VALUE_TYPE_QTCORE_QSIZE] "scaled" [PInt; PInt; PValue Qt_AspectRatioMode]
        (RValue QSize) [On QSize]
  ].

Definition value_methods_qtcore_9_s47 : list signature_row :=
  [
    Sig [ENUM_QT_ASPECTRATIOMODE; VALUE_TYPE_QTCORE_QSIZEF] "scaled" [PNumber cxx_qreal; PNumber cxx_qreal;
        PValue Qt_AspectRatioMode] (RValue QSizeF) [On QSizeF];
    Sig [] "setAutoRemove" [PBool] RVoid [On QTemporaryDir];
    Sig [] "setHeight" [PInt] RVoid [On QSize];
    Sig [] "setHeight" [PNumber cxx_qreal] RVoid [On QSizeF];
    Sig [TYPE_QTCORE_QSYSTEMSEMAPHORE] "setKey" [PString true; PInt; PValue QSystemSemaphore_AccessMode]
        RVoid [On QSystemSemaphore];
    Sig [TYPE_QTCORE_QSYSTEMSEMAPHORE; VALUE_TYPE_QTCORE_QNATIVEIPCKEY] "setNativeKey" [PValue
        QNativeIpcKey; PInt; PValue QSystemSemaphore_AccessMode] RVoid [On QSystemSemaphore];
    Sig [TYPE_QTCORE_QNATIVEIPCKEY; TYPE_QTCORE_QSYSTEMSEMAPHORE] "setNativeKey" [PString true; PInt;
        PValue QSystemSemaphore_AccessMode; PValue QNativeIpcKey_Type] RVoid [On QSystemSemaphore];
    Sig [] "setPath" [PString true] RVoid [On QStorageInfo]
  ].

Definition value_methods_qtcore_9_s55 : list signature_row :=
  [
    Sig [] "setPosition" [PMeta cxx_qsizetype] RVoid [On QTextBoundaryFinder];
    Sig [] "setWidth" [PInt] RVoid [On QSize];
    Sig [] "setWidth" [PNumber cxx_qreal] RVoid [On QSizeF];
    Sig [VALUE_TYPE_QTCORE_QMARGINS; VALUE_TYPE_QTCORE_QSIZE] "shrunkBy" [PValue QMargins] (RValue QSize)
        [On QSize];
    Sig [VALUE_TYPE_QTCORE_QMARGINSF; VALUE_TYPE_QTCORE_QSIZEF] "shrunkBy" [PValue QMarginsF] (RValue
        QSizeF) [On QSizeF];
    Sig [] "string" [] RString [On QTextBoundaryFinder];
    Sig [VALUE_TYPE_QTCORE_QBYTEARRAY] "subvolume" [] (RValue QByteArray) [On QStorageInfo];
    Sig [VALUE_TYPE_QTCORE_QSTORAGEINFO] "swap" [PValue QStorageInfo] RVoid [On QStorageInfo];
    Sig [VALUE_TYPE_QTCORE_QTEMPORARYDIR] "swap" [PValue QTemporaryDir] RVoid [On QTemporaryDir]
  ].

Definition value_methods_qtcore_9_s64 : list signature_row :=
  [
    Sig [VALUE_TYPE_QTCORE_QTEXTBOUNDARYFINDER] "swap" [PValue QTextBoundaryFinder] RVoid [On
        QTextBoundaryFinder];
    Sig [] "toEnd" [] RVoid [On QTextBoundaryFinder];
    Sig [] "toNextBoundary" [] (RMeta cxx_qsizetype) [On QTextBoundaryFinder];
    Sig [] "toPreviousBoundary" [] (RMeta cxx_qsizetype) [On QTextBoundaryFinder];
    Sig [VALUE_TYPE_QTCORE_QSIZE] "toSize" [] (RValue QSize) [On QSizeF];
    Sig [VALUE_TYPE_QTCORE_QSIZEF] "toSizeF" [] (RValue QSizeF) [On QSize];
    Sig [] "toStart" [] RVoid [On QTextBoundaryFinder];
    Sig [] "transpose" [] RVoid [On QSize; On QSizeF];
    Sig [VALUE_TYPE_QTCORE_QSIZE] "transposed" [] (RValue QSize) [On QSize];
    Sig [VALUE_TYPE_QTCORE_QSIZEF] "transposed" [] (RValue QSizeF) [On QSizeF]
  ].

Definition value_methods_qtcore_9_s74 : list signature_row :=
  [
    Sig [TYPE_QTCORE_QTEXTBOUNDARYFINDER] "type" [] (RMeta QTextBoundaryFinder_BoundaryType) [On
        QTextBoundaryFinder];
    Sig [] "unblock" [] RVoid [On QSignalBlocker];
    Sig [] "width" [] RDouble [On QSize];
    Sig [] "width" [] RDouble [On QSizeF]
  ].

Definition value_methods_qtcore_9_types : list string :=
  [
    QSignalBlocker;
    QSize;
    QSizeF;
    QStorageInfo;
    QStringConverter;
    QSystemSemaphore;
    QTemporaryDir;
    QTextBoundaryFinder
  ].

Definition value_methods_qtcore_9 : method_shard :=
  MethodShard QtCore "KRY_QT6_NATIVE_METHODS_QTCORE_"
    (value_methods_qtcore_9_i0)
    (value_methods_qtcore_9_s0 ++ value_methods_qtcore_9_s11 ++ value_methods_qtcore_9_s20 ++
        value_methods_qtcore_9_s29 ++ value_methods_qtcore_9_s40 ++ value_methods_qtcore_9_s47 ++
        value_methods_qtcore_9_s55 ++ value_methods_qtcore_9_s64 ++ value_methods_qtcore_9_s74)
    value_methods_qtcore_9_types.
