(* ===== verification/ValueMethodsGui.v ===== *)
(** Rows of the shards of generated_value_methods: qtgui_0, qtgui_1, qtgui_10, qtgui_11,
    qtgui_12, qtgui_13, qtgui_14, qtgui_2, qtgui_3, qtgui_4, qtgui_5, qtgui_6, qtgui_7, qtgui_8,
    qtgui_9. *)
From S2P Require Import Names.

(** * Definitions *)

Definition value_methods_qtgui_0_i0 : list include :=
  [
    ClassInclude QtGui QAbstractFileIconProvider QAbstractFileIconProvider;
    ClassInclude QtGui QActionEvent QActionEvent;
    ClassInclude QtGui QBackingStore QBackingStore;
    ClassInclude QtGui QBitmap QBitmap;
    ClassInclude QtGui QBrush QBrush;
    ClassInclude QtGui QChildWindowEvent QChildWindowEvent;
    ClassInclude QtGui QColor QColor;
    ClassInclude QtGui QColorSpace QColorSpace;
    TypeInclude QtGui QAction TYPE_QTGUI_QACTION;
    TypeInclude QtGui QWindow TYPE_QTGUI_QWINDOW;
    EnumDefine ENUM_QT_BRUSHSTYLE;
    EnumDefine ENUM_QT_GLOBALCOLOR;
    TypeInclude QtGui QAbstractFileIconProvider TYPE_QTGUI_QABSTRACTFILEICONPROVIDER;
    TypeInclude QtGui QColor TYPE_QTGUI_QCOLOR;
    TypeInclude QtGui QColorSpace TYPE_QTGUI_QCOLORSPACE;
    TypeInclude QtCore QByteArray VALUE_TYPE_QTCORE_QBYTEARRAY;
    TypeInclude QtCore QFileInfo VALUE_TYPE_QTCORE_QFILEINFO;
    TypeInclude QtCore QPoint VALUE_TYPE_QTCORE_QPOINT;
    TypeInclude QtCore QPointF VALUE_TYPE_QTCORE_QPOINTF;
    TypeInclude QtCore QSize VALUE_TYPE_QTCORE_QSIZE;
    TypeInclude QtGui QBitmap VALUE_TYPE_QTGUI_QBITMAP;
    TypeInclude QtGui QBrush VALUE_TYPE_QTGUI_QBRUSH;
    TypeInclude QtGui QColor VALUE_TYPE_QTGUI_QCOLOR;
    TypeInclude QtGui QColorSpace VALUE_TYPE_QTGUI_QCOLORSPACE;
    TypeInclude QtGui QColorTransform VALUE_TYPE_QTGUI_QCOLORTRANSFORM;
    TypeInclude QtGui QIcon VALUE_TYPE_QTGUI_QICON;
    TypeInclude QtGui QImage VALUE_TYPE_QTGUI_QIMAGE;
    TypeInclude QtGui QPixmap VALUE_TYPE_QTGUI_QPIXMAP;
    TypeInclude QtGui QRegion VALUE_TYPE_QTGUI_QREGION;
    TypeInclude QtGui QRgba64 VALUE_TYPE_QTGUI_QRGBA64;
    TypeInclude QtGui QTransform VALUE_TYPE_QTGUI_QTRANSFORM
  ].

Definition value_methods_qtgui_0_s0 : list signature_row :=
  [
    Sig [TYPE_QTGUI_QACTION] "action" [] RObject [On QActionEvent];
    Sig [] "alpha" [] RDouble [On QColor];
    Sig [] "alphaF" [] RDouble [On QColor];
    Sig [TYPE_QTGUI_QACTION] "before" [] RObject [On QActionEvent];
    Sig [VALUE_TYPE_QTGUI_QREGION] "beginPaint" [PValue QRegion] RVoid [On QBackingStore];
    Sig [] "black" [] RDouble [On QColor];
    Sig [] "blackF" [] RDouble [On QColor];
    Sig [] "blue" [] RDouble [On QColor];
    Sig [] "blueF" [] RDouble [On QColor];
    Sig [TYPE_QTGUI_QWINDOW] "child" [] RObject [On QChildWindowEvent];
    Sig [] "clear" [] RVoid [On QBitmap]
  ].

Definition value_methods_qtgui_0_s11 : list signature_row :=
  [
    Sig [VALUE_TYPE_QTGUI_QCOLOR] "color" [] (RValue QColor) [On QBrush];
    Sig [TYPE_QTGUI_QCOLORSPACE] "colorModel" [] (RMeta QColorSpace_ColorModel) [On QColorSpace];
    Sig [TYPE_QTGUI_QCOLOR; VALUE_TYPE_QTGUI_QCOLOR] "convertTo" [PValue QColor_Spec] (RValue QColor) [On
        QColor];
    Sig [] "cyan" [] RDouble [On QColor];
    Sig [] "cyanF" [] RDouble [On QColor];
    Sig [VALUE_TYPE_QTGUI_QCOLOR] "darker" [PInt] (RValue QColor) [On QColor];
    Sig [] "description" [] RString [On QColorSpace];
    Sig [] "endPaint" [] RVoid [On QBackingStore];
    Sig [TYPE_QTGUI_QWINDOW; VALUE_TYPE_QTCORE_QPOINT; VALUE_TYPE_QTGUI_QREGION] "flush" [PValue QRegion;
        PObject QWindow false; PValue QPoint] RVoid [On QBackingStore];
    Sig [] "gamma" [] RDouble [On QColorSpace]
  ].

Definition value_methods_qtgui_0_s21 : list signature_row :=
  [
    Sig [] "green" [] RDouble [On QColor];
    Sig [] "greenF" [] RDouble [On QColor];
    Sig [] "hasStaticContents" [] RBool [On QBackingStore];
    Sig [] "hslHue" [] RDouble [On QColor];
    Sig [] "hslHueF" [] RDouble [On QColor];
    Sig [] "hslSaturation" [] RDouble [On QColor];
    Sig [] "hslSaturationF" [] RDouble [On QColor];
    Sig [] "hsvHue" [] RDouble [On QColor];
    Sig [] "hsvHueF" [] RDouble [On QColor];
    Sig [] "hsvSaturation" [] RDouble [On QColor];
    Sig [] "hsvSaturationF" [] RDouble [On QColor];
    Sig [] "hue" [] RDouble [On QColor]
  ].

Definition value_methods_qtgui_0_s33 : list signature_row :=
  [
    Sig [] "hueF" [] RDouble [On QColor];
    Sig [VALUE_TYPE_QTCORE_QBYTEARRAY] "iccProfile" [] (RValue QByteArray) [On QColorSpace];
    Sig [TYPE_QTGUI_QABSTRACTFILEICONPROVIDER; VALUE_TYPE_QTGUI_QICON] "icon" [PValue
        QAbstractFileIconProvider_IconType] (RValue QIcon) [On QAbstractFileIconProvider];
    Sig [VALUE_TYPE_QTCORE_QFILEINFO; VALUE_TYPE_QTGUI_QICON] "icon" [PValue QFileInfo] (RValue QIcon) [On
        QAbstractFileIconProvider];
    Sig [] "isOpaque" [] RBool [On QBrush];
    Sig [] "isValid" [] RBool [On QColor; On QColorSpace; On QColorSpace];
    Sig [] "isValidTarget" [] RBool [On QColorSpace];
    Sig [VALUE_TYPE_QTGUI_QCOLOR] "lighter" [PInt] (RValue QColor) [On QColor];
    Sig [] "lightness" [] RDouble [On QColor];
    Sig [] "lightnessF" [] RDouble [On QColor]
  ].

Definition value_methods_qtgui_0_s43 : list signature_row :=
  [
    Sig [] "magenta" [] RDouble [On QColor];
    Sig [] "magentaF" [] RDouble [On QColor];
    Sig [TYPE_QTGUI_QCOLOR] "name" [PValue QColor_NameFormat] RString [On QColor];
    Sig [TYPE_QTGUI_QABSTRACTFILEICONPROVIDER] "options" [] (RMeta QAbstractFileIconProvider_Options) [On
        QAbstractFileIconProvider];
    Sig [TYPE_QTGUI_QCOLORSPACE] "primaries" [] (RMeta QColorSpace_Primaries) [On QColorSpace];
    Sig [TYPE_QTGUI_QCOLORSPACE] "primaryPoints" [] (RMeta QColorSpace_PrimaryPoints) [On QColorSpace];
    Sig [] "red" [] RDouble [On QColor];
    Sig [] "redF" [] RDouble [On QColor];
    Sig [VALUE_TYPE_QTCORE_QSIZE] "resize" [PValue QSize] RVoid [On QBackingStore];
    Sig [VALUE_TYPE_QTGUI_QRGBA64] "rgba64" [] (RValue QRgba64) [On QColor];
    Sig [] "saturation" [] RDouble [On QColor]
  ].

Definition value_methods_qtgui_0_s54 : list signature_row :=
  [
    Sig [] "saturationF" [] RDouble [On QColor];
    Sig [VALUE_TYPE_QTGUI_QREGION] "scroll" [PValue QRegion; PInt; PInt] RBool [On QBackingStore];
    Sig [] "setAlpha" [PInt] RVoid [On QColor];
    Sig [] "setAlphaF" [PNumber cxx_float] RVoid [On QColor];
    Sig [] "setBlue" [PInt] RVoid [On QColor];
    Sig [] "setBlueF" [PNumber cxx_float] RVoid [On QColor];
    Sig [] "setCmyk" [PInt; PInt; PInt; PInt; PInt] RVoid [On QColor];
    Sig [] "setCmykF" [PNumber cxx_float; PNumber cxx_float; PNumber cxx_float; PNumber cxx_float; PNumber
        cxx_float] RVoid [On QColor]
  ].

Definition value_methods_qtgui_0_s62 : list signature_row :=
  [
    Sig [VALUE_TYPE_QTGUI_QCOLOR] "setColor" [PValue QColor] RVoid [On QBrush];
    Sig [ENUM_QT_GLOBALCOLOR] "setColor" [PValue Qt_GlobalColor] RVoid [On QBrush; On QBrush];
    Sig [] "setDescription" [PString true] RVoid [On QColorSpace];
    Sig [] "setGreen" [PInt] RVoid [On QColor];
    Sig [] "setGreenF" [PNumber cxx_float] RVoid [On QColor];
    Sig [] "setHsl" [PInt; PInt; PInt; PInt] RVoid [On QColor];
    Sig [] "setHslF" [PNumber cxx_float; PNumber cxx_float; PNumber cxx_float; PNumber cxx_float] RVoid [On
        QColor];
    Sig [] "setHsv" [PInt; PInt; PInt; PInt] RVoid [On QColor]
  ].

Definition value_methods_qtgui_0_s70 : list signature_row :=
  [
    Sig [] "setHsvF" [PNumber cxx_float; PNumber cxx_float; PNumber cxx_float; PNumber cxx_float] RVoid [On
        QColor];
    Sig [TYPE_QTGUI_QABSTRACTFILEICONPROVIDER] "setOptions" [PValue QAbstractFileIconProvider_Options]
        RVoid [On QAbstractFileIconProvider];
    Sig [TYPE_QTGUI_QCOLORSPACE] "setPrimaries" [PValue QColorSpace_Primaries] RVoid [On QColorSpace];
    Sig [VALUE_TYPE_QTCORE_QPOINTF] "setPrimaries" [PValue QPointF; PValue QPointF; PValue QPointF; PValue
        QPointF] RVoid [On QColorSpace];
    Sig [TYPE_QTGUI_QCOLORSPACE] "setPrimaryPoints" [PValue QColorSpace_PrimaryPoints] RVoid [On
        QColorSpace];
    Sig [] "setRed" [PInt] RVoid [On QColor];
    Sig [] "setRedF" [PNumber cxx_float] RVoid [On QColor];
    Sig [] "setRgb" [PInt; PInt; PInt; PInt] RVoid [On QColor]
  ].

Definition value_methods_qtgui_0_s78 : list signature_row :=
  [
    Sig [] "setRgbF" [PNumber cxx_float; PNumber cxx_float; PNumber cxx_float; PNumber cxx_float] RVoid [On
        QColor];
    Sig [VALUE_TYPE_QTGUI_QRGBA64] "setRgba64" [PValue QRgba64] RVoid [On QColor];
    Sig [VALUE_TYPE_QTGUI_QREGION] "setStaticContents" [PValue QRegion] RVoid [On QBackingStore];
    Sig [ENUM_QT_BRUSHSTYLE] "setStyle" [PValue Qt_BrushStyle] RVoid [On QBrush];
    Sig [VALUE_TYPE_QTGUI_QPIXMAP] "setTexture" [PValue QPixmap] RVoid [On QBrush];
    Sig [VALUE_TYPE_QTGUI_QIMAGE] "setTextureImage" [PValue QImage] RVoid [On QBrush];
    Sig [TYPE_QTGUI_QCOLORSPACE] "setTransferFunction" [PValue QColorSpace_TransferFunction; PNumber
        cxx_float] RVoid [On QColorSpace];
    Sig [VALUE_TYPE_QTGUI_QTRANSFORM] "setTransform" [PValue QTransform] RVoid [On QBrush]
  ].

Definition value_methods_qtgui_0_s86 : list signature_row :=
  [
    Sig [VALUE_TYPE_QTCORE_QPOINTF] "setWhitePoint" [PValue QPointF] RVoid [On QColorSpace];
    Sig [VALUE_TYPE_QTCORE_QSIZE] "size" [] (RValue QSize) [On QBackingStore];
    Sig [TYPE_QTGUI_QCOLOR] "spec" [] (RMeta QColor_Spec) [On QColor];
    Sig [VALUE_TYPE_QTGUI_QREGION] "staticContents" [] (RValue QRegion) [On QBackingStore];
    Sig [ENUM_QT_BRUSHSTYLE] "style" [] (RMeta Qt_BrushStyle) [On QBrush];
    Sig [VALUE_TYPE_QTGUI_QBITMAP] "swap" [PValue QBitmap] RVoid [On QBitmap];
    Sig [VALUE_TYPE_QTGUI_QBRUSH] "swap" [PValue QBrush] RVoid [On QBrush];
    Sig [VALUE_TYPE_QTGUI_QCOLORSPACE] "swap" [PValue QColorSpace] RVoid [On QColorSpace];
    Sig [VALUE_TYPE_QTGUI_QPIXMAP] "texture" [] (RValue QPixmap) [On QBrush]
  ].

Definition value_methods_qtgui_0_s95 : list signature_row :=
  [
    Sig [VALUE_TYPE_QTGUI_QIMAGE] "textureImage" [] (RValue QImage) [On QBrush];
    Sig [VALUE_TYPE_QTGUI_QCOLOR] "toCmyk" [] (RValue QColor) [On QColor];
    Sig [VALUE_TYPE_QTGUI_QCOLOR] "toExtendedRgb" [] (RValue QColor) [On QColor];
    Sig [VALUE_TYPE_QTGUI_QCOLOR] "toHsl" [] (RValue QColor) [On QColor];
    Sig [VALUE_TYPE_QTGUI_QCOLOR] "toHsv" [] (RValue QColor) [On QColor];
    Sig [VALUE_TYPE_QTGUI_QCOLOR] "toRgb" [] (RValue QColor) [On QColor];
    Sig [TYPE_QTGUI_QCOLORSPACE] "transferFunction" [] (RMeta QColorSpace_TransferFunction) [On
        QColorSpace];
    Sig [VALUE_TYPE_QTGUI_QTRANSFORM] "transform" [] (RValue QTransform) [On QBrush];
    Sig [TYPE_QTGUI_QCOLORSPACE] "transformModel" [] (RMeta QColorSpace_TransformModel) [On QColorSpace];
    Sig [VALUE_TYPE_QTGUI_QCOLORSPACE; VALUE_TYPE_QTGUI_QCOLORTRANSFORM] "transformationToColorSpace"
        [PValue QColorSpace] (RValue QColorTransform) [On QColorSpace]
  ].

Definition value_methods_qtgui_0_s105 : list signature_row :=
  [
    Sig [VALUE_TYPE_QTGUI_QBITMAP; VALUE_TYPE_QTGUI_QTRANSFORM] "transformed" [PValue QTransform] (RValue
        QBitmap) [On QBitmap];
    Sig [VALUE_TYPE_QTCORE_QFILEINFO] "type" [PValue QFileInfo] RString [On QAbstractFileIconProvider];
    Sig [] "value" [] RDouble [On QColor];
    Sig [] "valueF" [] RDouble [On QColor];
    Sig [VALUE_TYPE_QTCORE_QPOINTF] "whitePoint" [] (RValue QPointF) [On QColorSpace];
    Sig [TYPE_QTGUI_QWINDOW] "window" [] RObject [On QBackingStore];
    Sig [TYPE_QTGUI_QCOLORSPACE; VALUE_TYPE_QTGUI_QCOLORSPACE] "withTransferFunction" [PValue
        QColorSpace_TransferFunction; PNumber cxx_float] (RValue QColorSpace) [On QColorSpace];
    Sig [] "yellow" [] RDouble [On QColor];
    Sig [] "yellowF" [] RDouble [On QColor]
  ].

Definition value_methods_qtgui_0_types : list string :=
  [
    QAbstractFileIconProvider;
    QActionEvent;
    QBackingStore;
    QBitmap;
    QBrush;
    QChildWindowEvent;
    QColor;
    QColorSpace
  ].

Definition value_methods_qtgui_0 : method_shard :=
  MethodShard QtGui "KRY_QT6_NATIVE_METHODS_QTGUI_"
    (value_methods_qtgui_0_i0)
    (value_methods_qtgui_0_s0 ++ value_methods_qtgui_0_s11 ++ value_methods_qtgui_0_s21 ++
        value_methods_qtgui_0_s33 ++ value_methods_qtgui_0_s43 ++ value_methods_qtgui_0_s54 ++
        value_methods_qtgui_0_s62 ++ value_methods_qtgui_0_s70 ++ value_methods_qtgui_0_s78 ++
        value_methods_qtgui_0_s86 ++ value_methods_qtgui_0_s95 ++ value_methods_qtgui_0_s105)
    value_methods_qtgui_0_types.

Definition value_methods_qtgui_1_i0 : list include :=
  [
    ClassInclude QtGui QColorTransform QColorTransform;
    ClassInclude QtGui QConicalGradient QConicalGradient;
    ClassInclude QtGui QContextMenuEvent QContextMenuEvent;
    ClassInclude QtGui QCursor QCursor;
    ClassInclude QtGui QDragMoveEvent QDragMoveEvent;
    ClassInclude QtGui QDropEvent QDropEvent;
    ClassInclude QtGui QEventPoint QEventPoint;
    ClassInclude QtGui QFileOpenEvent QFileOpenEvent;
    TypeInclude QtCore QMimeData TYPE_QTCORE_QMIMEDATA;
    TypeInclude QtCore QObject TYPE_QTCORE_QOBJECT;
    TypeInclude QtGui QPointingDevice TYPE_QTGUI_QPOINTINGDEVICE;
    EnumDefine ENUM_QT_CURSORSHAPE;
    EnumDefine ENUM_QT_DROPACTION;
    EnumDefine ENUM_QT_DROPACTIONS;
    EnumDefine ENUM_QT_MOUSEBUTTONS;
    TypeInclude QtGui QContextMenuEvent TYPE_QTGUI_QCONTEXTMENUEVENT;
    TypeInclude QtGui QEventPoint TYPE_QTGUI_QEVENTPOINT;
    TypeInclude QtCore QPoint VALUE_TYPE_QTCORE_QPOINT;
    TypeInclude QtCore QPointF VALUE_TYPE_QTCORE_QPOINTF;
    TypeInclude QtCore QRect VALUE_TYPE_QTCORE_QRECT;
    TypeInclude QtCore QSizeF VALUE_TYPE_QTCORE_QSIZEF;
    TypeInclude QtCore QUrl VALUE_TYPE_QTCORE_QURL;
    TypeInclude QtGui QBitmap VALUE_TYPE_QTGUI_QBITMAP;
    TypeInclude QtGui QColor VALUE_TYPE_QTGUI_QCOLOR;
    TypeInclude QtGui QColorTransform VALUE_TYPE_QTGUI_QCOLORTRANSFORM;
    TypeInclude QtGui QCursor VALUE_TYPE_QTGUI_QCURSOR;
    TypeInclude QtGui QEventPoint VALUE_TYPE_QTGUI_QEVENTPOINT;
    TypeInclude QtGui QPixmap VALUE_TYPE_QTGUI_QPIXMAP;
    TypeInclude QtGui QPointingDeviceUniqueId VALUE_TYPE_QTGUI_QPOINTINGDEVICEUNIQUEID;
    TypeInclude QtGui QRgba64 VALUE_TYPE_QTGUI_QRGBA64;
    TypeInclude QtGui QVector2D VALUE_TYPE_QTGUI_QVECTOR2D
  ].

Definition value_methods_qtgui_1_s0 : list signature_row :=
  [
    Sig [] "accept" [] RVoid [On QDragMoveEvent];
    Sig [VALUE_TYPE_QTCORE_QRECT] "accept" [PValue QRect] RVoid [On QDragMoveEvent];
    Sig [] "acceptProposedAction" [] RVoid [On QDropEvent];
    Sig [] "angle" [] RDouble [On QConicalGradient];
    Sig [VALUE_TYPE_QTCORE_QRECT] "answerRect" [] (RValue QRect) [On QDragMoveEvent];
    Sig [VALUE_TYPE_QTGUI_QBITMAP] "bitmap" [] (RValue QBitmap) [On QCursor];
    Sig [ENUM_QT_MOUSEBUTTONS] "buttons" [] (RMeta Qt_MouseButtons) [On QDropEvent];
    Sig [VALUE_TYPE_QTCORE_QPOINTF] "center" [] (RValue QPointF) [On QConicalGradient];
    Sig [TYPE_QTGUI_QPOINTINGDEVICE] "device" [] RObject [On QEventPoint];
    Sig [ENUM_QT_DROPACTION] "dropAction" [] (RMeta Qt_DropAction) [On QDropEvent]
  ].

Definition value_methods_qtgui_1_s10 : list signature_row :=
  [
    Sig [VALUE_TYPE_QTCORE_QSIZEF] "ellipseDiameters" [] (RValue QSizeF) [On QEventPoint];
    Sig [] "file" [] RString [On QFileOpenEvent];
    Sig [VALUE_TYPE_QTCORE_QPOINTF] "globalGrabPosition" [] (RValue QPointF) [On QEventPoint];
    Sig [VALUE_TYPE_QTCORE_QPOINTF] "globalLastPosition" [] (RValue QPointF) [On QEventPoint];
    Sig [VALUE_TYPE_QTCORE_QPOINT] "globalPos" [] (RValue QPoint) [On QContextMenuEvent];
    Sig [VALUE_TYPE_QTCORE_QPOINTF] "globalPosition" [] (RValue QPointF) [On QEventPoint];
    Sig [VALUE_TYPE_QTCORE_QPOINTF] "globalPressPosition" [] (RValue QPointF) [On QEventPoint];
    Sig [] "globalX" [] RDouble [On QContextMenuEvent];
    Sig [] "globalY" [] RDouble [On QContextMenuEvent];
    Sig [VALUE_TYPE_QTCORE_QPOINTF] "grabPosition" [] (RValue QPointF) [On QEventPoint]
  ].

Definition value_methods_qtgui_1_s20 : list signature_row :=
  [
    Sig [VALUE_TYPE_QTCORE_QPOINT] "hotSpot" [] (RValue QPoint) [On QCursor];
    Sig [] "id" [] RDouble [On QEventPoint];
    Sig [] "ignore" [] RVoid [On QDragMoveEvent];
    Sig [VALUE_TYPE_QTCORE_QRECT] "ignore" [PValue QRect] RVoid [On QDragMoveEvent];
    Sig [] "isAccepted" [] RBool [On QEventPoint];
    Sig [] "isIdentity" [] RBool [On QColorTransform];
    Sig [VALUE_TYPE_QTCORE_QPOINTF] "lastPosition" [] (RValue QPointF) [On QEventPoint];
    Sig [VALUE_TYPE_QTGUI_QCOLOR] "map" [PValue QColor] (RValue QColor) [On QColorTransform];
    Sig [VALUE_TYPE_QTGUI_QRGBA64] "map" [PValue QRgba64] (RValue QRgba64) [On QColorTransform];
    Sig [VALUE_TYPE_QTGUI_QBITMAP] "mask" [] (RValue QBitmap) [On QCursor]
  ].

Definition value_methods_qtgui_1_s30 : list signature_row :=
  [
    Sig [TYPE_QTCORE_QMIMEDATA] "mimeData" [] RObject [On QDropEvent];
    Sig [VALUE_TYPE_QTCORE_QPOINTF] "normalizedPosition" [] (RValue QPointF) [On QEventPoint];
    Sig [VALUE_TYPE_QTGUI_QPIXMAP] "pixmap" [] (RValue QPixmap) [On QCursor];
    Sig [VALUE_TYPE_QTCORE_QPOINT] "pos" [] (RValue QPoint) [On QContextMenuEvent];
    Sig [VALUE_TYPE_QTCORE_QPOINTF] "position" [] (RValue QPointF) [On QDropEvent; On QEventPoint];
    Sig [ENUM_QT_DROPACTIONS] "possibleActions" [] (RMeta Qt_DropActions) [On QDropEvent];
    Sig [VALUE_TYPE_QTCORE_QPOINTF] "pressPosition" [] (RValue QPointF) [On QEventPoint];
    Sig [] "pressure" [] RDouble [On QEventPoint];
    Sig [ENUM_QT_DROPACTION] "proposedAction" [] (RMeta Qt_DropAction) [On QDropEvent];
    Sig [TYPE_QTGUI_QCONTEXTMENUEVENT] "reason" [] (RMeta QContextMenuEvent_Reason) [On QContextMenuEvent]
  ].

Definition value_methods_qtgui_1_s40 : list signature_row :=
  [
    Sig [] "rotation" [] RDouble [On QEventPoint];
    Sig [VALUE_TYPE_QTCORE_QPOINTF] "sceneGrabPosition" [] (RValue QPointF) [On QEventPoint];
    Sig [VALUE_TYPE_QTCORE_QPOINTF] "sceneLastPosition" [] (RValue QPointF) [On QEventPoint];
    Sig [VALUE_TYPE_QTCORE_QPOINTF] "scenePosition" [] (RValue QPointF) [On QEventPoint];
    Sig [VALUE_TYPE_QTCORE_QPOINTF] "scenePressPosition" [] (RValue QPointF) [On QEventPoint];
    Sig [] "setAccepted" [PBool] RVoid [On QEventPoint];
    Sig [] "setAngle" [PNumber cxx_qreal] RVoid [On QConicalGradient];
    Sig [VALUE_TYPE_QTCORE_QPOINTF] "setCenter" [PValue QPointF] RVoid [On QConicalGradient];
    Sig [] "setCenter" [PNumber cxx_qreal; PNumber cxx_qreal] RVoid [On QConicalGradient];
    Sig [ENUM_QT_DROPACTION] "setDropAction" [PValue Qt_DropAction] RVoid [On QDropEvent]
  ].

Definition value_methods_qtgui_1_s50 : list signature_row :=
  [
    Sig [ENUM_QT_CURSORSHAPE] "setShape" [PValue Qt_CursorShape] RVoid [On QCursor];
    Sig [ENUM_QT_CURSORSHAPE] "shape" [] (RMeta Qt_CursorShape) [On QCursor];
    Sig [TYPE_QTCORE_QOBJECT] "source" [] RObject [On QDropEvent];
    Sig [TYPE_QTGUI_QEVENTPOINT] "state" [] (RMeta QEventPoint_State) [On QEventPoint];
    Sig [VALUE_TYPE_QTGUI_QCOLORTRANSFORM] "swap" [PValue QColorTransform] RVoid [On QColorTransform];
    Sig [VALUE_TYPE_QTGUI_QCURSOR] "swap" [PValue QCursor] RVoid [On QCursor];
    Sig [VALUE_TYPE_QTGUI_QEVENTPOINT] "swap" [PValue QEventPoint] RVoid [On QEventPoint];
    Sig [] "timeHeld" [] RDouble [On QEventPoint];
    Sig [VALUE_TYPE_QTGUI_QPOINTINGDEVICEUNIQUEID] "uniqueId" [] (RValue QPointingDeviceUniqueId) [On
        QEventPoint];
    Sig [VALUE_TYPE_QTCORE_QURL] "url" [] (RValue QUrl) [On QFileOpenEvent]
  ].

Definition value_methods_qtgui_1_s60 : list signature_row :=
  [
    Sig [VALUE_TYPE_QTGUI_QVECTOR2D] "velocity" [] (RValue QVector2D) [On QEventPoint];
    Sig [] "x" [] RDouble [On QContextMenuEvent];
    Sig [] "y" [] RDouble [On QContextMenuEvent]
  ].

Definition value_methods_qtgui_1_types : list string :=
  [
    QColorTransform;
    QConicalGradient;
    QContextMenuEvent;
    QCursor;
    QDragMoveEvent;
    QDropEvent;
    QEventPoint;
    QFileOpenEvent
  ].

Definition value_methods_qtgui_1 : method_shard :=
  MethodShard QtGui "KRY_QT6_NATIVE_METHODS_QTGUI_"
    (value_methods_qtgui_1_i0)
    (value_methods_qtgui_1_s0 ++ value_methods_qtgui_1_s10 ++ value_methods_qtgui_1_s20 ++
        value_methods_qtgui_1_s30 ++ value_methods_qtgui_1_s40 ++ value_methods_qtgui_1_s50 ++
        value_methods_qtgui_1_s60)
    value_methods_qtgui_1_types.

Definition value_methods_qtgui_10_i0 : list include :=
  [
    ClassInclude QtGui QScrollPrepareEvent QScrollPrepareEvent;
    ClassInclude QtGui QShortcutEvent QShortcutEvent;
    ClassInclude QtGui QSinglePointEvent QSinglePointEvent;
    ClassInclude QtGui QStandardItem QStandardItem;
    ClassInclude QtGui QStaticText QStaticText;
    ClassInclude QtGui QStatusTipEvent QStatusTipEvent;
    ClassInclude QtGui QSurface QSurface;
    ClassInclude QtGui QSurfaceFormat QSurfaceFormat;
    TypeInclude QtCore QObject TYPE_QTCORE_QOBJECT;
    TypeInclude QtGui QStandardItemModel TYPE_QTGUI_QSTANDARDITEMMODEL;
    EnumDefine ENUM_QT_CHECKSTATE;
    EnumDefine ENUM_QT_MOUSEBUTTON;
    EnumDefine ENUM_QT_MOUSEBUTTONS;
    EnumDefine ENUM_QT_SORTORDER;
    EnumDefine ENUM_QT_TEXTFORMAT;
    TypeInclude QtGui QStaticText TYPE_QTGUI_QSTATICTEXT;
    TypeInclude QtGui QSurface TYPE_QTGUI_QSURFACE;
    TypeInclude QtGui QSurfaceFormat TYPE_QTGUI_QSURFACEFORMAT;
    TypeInclude QtCore QDataStream VALUE_TYPE_QTCORE_QDATASTREAM;
    TypeInclude QtCore QModelIndex VALUE_TYPE_QTCORE_QMODELINDEX;
    TypeInclude QtCore QPointF VALUE_TYPE_QTCORE_QPOINTF;
    TypeInclude QtCore QRectF VALUE_TYPE_QTCORE_QRECTF;
    TypeInclude QtCore QSize VALUE_TYPE_QTCORE_QSIZE;
    TypeInclude QtCore QSizeF VALUE_TYPE_QTCORE_QSIZEF;
    TypeInclude QtGui QBrush VALUE_TYPE_QTGUI_QBRUSH;
    TypeInclude QtGui QColorSpace VALUE_TYPE_QTGUI_QCOLORSPACE;
    TypeInclude QtGui QFont VALUE_TYPE_QTGUI_QFONT;
    TypeInclude QtGui QIcon VALUE_TYPE_QTGUI_QICON;
    TypeInclude QtGui QKeySequence VALUE_TYPE_QTGUI_QKEYSEQUENCE;
    TypeInclude QtGui QStaticText VALUE_TYPE_QTGUI_QSTATICTEXT;
    TypeInclude QtGui QTextOption VALUE_TYPE_QTGUI_QTEXTOPTION;
    TypeInclude QtGui QTransform VALUE_TYPE_QTGUI_QTRANSFORM
  ].

Definition value_methods_qtgui_10_s0 : list signature_row :=
  [
    Sig [] "accessibleDescription" [] RString [On QStandardItem];
    Sig [] "accessibleText" [] RString [On QStandardItem];
    Sig [] "alphaBufferSize" [] RDouble [On QSurfaceFormat];
    Sig [VALUE_TYPE_QTGUI_QBRUSH] "background" [] (RValue QBrush) [On QStandardItem];
    Sig [] "blueBufferSize" [] RDouble [On QSurfaceFormat];
    Sig [ENUM_QT_MOUSEBUTTON] "button" [] (RMeta Qt_MouseButton) [On QSinglePointEvent];
    Sig [ENUM_QT_MOUSEBUTTONS] "buttons" [] (RMeta Qt_MouseButtons) [On QSinglePointEvent];
    Sig [ENUM_QT_CHECKSTATE] "checkState" [] (RMeta Qt_CheckState) [On QStandardItem];
    Sig [] "clearData" [] RVoid [On QStandardItem];
    Sig [VALUE_TYPE_QTGUI_QCOLORSPACE] "colorSpace" [] (RValue QColorSpace) [On QSurfaceFormat];
    Sig [] "column" [] RDouble [On QStandardItem]
  ].

Definition value_methods_qtgui_10_s11 : list signature_row :=
  [
    Sig [] "columnCount" [] RDouble [On QStandardItem];
    Sig [VALUE_TYPE_QTCORE_QPOINTF] "contentPos" [] (RValue QPointF) [On QScrollPrepareEvent];
    Sig [VALUE_TYPE_QTCORE_QRECTF] "contentPosRange" [] (RValue QRectF) [On QScrollPrepareEvent];
    Sig [] "data" [PInt] RVariant [On QStandardItem];
    Sig [] "depthBufferSize" [] RDouble [On QSurfaceFormat];
    Sig [TYPE_QTCORE_QOBJECT] "exclusivePointGrabber" [] RObject [On QSinglePointEvent];
    Sig [VALUE_TYPE_QTGUI_QFONT] "font" [] (RValue QFont) [On QStandardItem];
    Sig [VALUE_TYPE_QTGUI_QBRUSH] "foreground" [] (RValue QBrush) [On QStandardItem];
    Sig [VALUE_TYPE_QTCORE_QPOINTF] "globalPosition" [] (RValue QPointF) [On QSinglePointEvent];
    Sig [] "greenBufferSize" [] RDouble [On QSurfaceFormat]
  ].

Definition value_methods_qtgui_10_s21 : list signature_row :=
  [
    Sig [] "hasAlpha" [] RBool [On QSurfaceFormat];
    Sig [] "hasChildren" [] RBool [On QStandardItem];
    Sig [VALUE_TYPE_QTGUI_QICON] "icon" [] (RValue QIcon) [On QStandardItem];
    Sig [VALUE_TYPE_QTCORE_QMODELINDEX] "index" [] (RValue QModelIndex) [On QStandardItem];
    Sig [] "insertColumns" [PInt; PInt] RVoid [On QStandardItem];
    Sig [] "insertRows" [PInt; PInt] RVoid [On QStandardItem];
    Sig [] "isAmbiguous" [] RBool [On QShortcutEvent];
    Sig [] "isAutoTristate" [] RBool [On QStandardItem];
    Sig [] "isBeginEvent" [] RBool [On QSinglePointEvent];
    Sig [] "isCheckable" [] RBool [On QStandardItem];
    Sig [] "isDragEnabled" [] RBool [On QStandardItem]
  ].

Definition value_methods_qtgui_10_s32 : list signature_row :=
  [
    Sig [] "isDropEnabled" [] RBool [On QStandardItem];
    Sig [] "isEditable" [] RBool [On QStandardItem];
    Sig [] "isEnabled" [] RBool [On QStandardItem];
    Sig [] "isEndEvent" [] RBool [On QSinglePointEvent];
    Sig [] "isSelectable" [] RBool [On QStandardItem];
    Sig [] "isUpdateEvent" [] RBool [On QSinglePointEvent];
    Sig [] "isUserTristate" [] RBool [On QStandardItem];
    Sig [VALUE_TYPE_QTGUI_QKEYSEQUENCE] "key" [] (RValue QKeySequence) [On QShortcutEvent];
    Sig [] "majorVersion" [] RDouble [On QSurfaceFormat];
    Sig [] "minorVersion" [] RDouble [On QSurfaceFormat];
    Sig [TYPE_QTGUI_QSTANDARDITEMMODEL] "model" [] RObject [On QStandardItem]
  ].

Definition value_methods_qtgui_10_s43 : list signature_row :=
  [
    Sig [TYPE_QTGUI_QSURFACEFORMAT] "options" [] (RMeta QSurfaceFormat_FormatOptions) [On QSurfaceFormat];
    Sig [TYPE_QTGUI_QSTATICTEXT] "performanceHint" [] (RMeta QStaticText_PerformanceHint) [On QStaticText];
    Sig [VALUE_TYPE_QTCORE_QPOINTF] "position" [] (RValue QPointF) [On QSinglePointEvent];
    Sig [VALUE_TYPE_QTGUI_QFONT; VALUE_TYPE_QTGUI_QTRANSFORM] "prepare" [PValue QTransform; PValue QFont]
        RVoid [On QStaticText];
    Sig [TYPE_QTGUI_QSURFACEFORMAT] "profile" [] (RMeta QSurfaceFormat_OpenGLContextProfile) [On
        QSurfaceFormat];
    Sig [VALUE_TYPE_QTCORE_QDATASTREAM] "read" [PValue QDataStream] RVoid [On QStandardItem];
    Sig [] "redBufferSize" [] RDouble [On QSurfaceFormat];
    Sig [] "removeColumn" [PInt] RVoid [On QStandardItem];
    Sig [] "removeColumns" [PInt; PInt] RVoid [On QStandardItem];
    Sig [] "removeRow" [PInt] RVoid [On QStandardItem]
  ].

Definition value_methods_qtgui_10_s53 : list signature_row :=
  [
    Sig [] "removeRows" [PInt; PInt] RVoid [On QStandardItem];
    Sig [TYPE_QTGUI_QSURFACEFORMAT] "renderableType" [] (RMeta QSurfaceFormat_RenderableType) [On
        QSurfaceFormat];
    Sig [] "row" [] RDouble [On QStandardItem];
    Sig [] "rowCount" [] RDouble [On QStandardItem];
    Sig [] "samples" [] RDouble [On QSurfaceFormat];
    Sig [VALUE_TYPE_QTCORE_QPOINTF] "scenePosition" [] (RValue QPointF) [On QSinglePointEvent];
    Sig [] "setAccessibleDescription" [PString true] RVoid [On QStandardItem];
    Sig [] "setAccessibleText" [PString true] RVoid [On QStandardItem];
    Sig [] "setAlphaBufferSize" [PInt] RVoid [On QSurfaceFormat];
    Sig [] "setAutoTristate" [PBool] RVoid [On QStandardItem]
  ].

Definition value_methods_qtgui_10_s63 : list signature_row :=
  [
    Sig [VALUE_TYPE_QTGUI_QBRUSH] "setBackground" [PValue QBrush] RVoid [On QStandardItem];
    Sig [] "setBlueBufferSize" [PInt] RVoid [On QSurfaceFormat];
    Sig [ENUM_QT_CHECKSTATE] "setCheckState" [PValue Qt_CheckState] RVoid [On QStandardItem];
    Sig [] "setCheckable" [PBool] RVoid [On QStandardItem];
    Sig [VALUE_TYPE_QTGUI_QCOLORSPACE] "setColorSpace" [PValue QColorSpace] RVoid [On QSurfaceFormat];
    Sig [] "setColumnCount" [PInt] RVoid [On QStandardItem];
    Sig [VALUE_TYPE_QTCORE_QPOINTF] "setContentPos" [PValue QPointF] RVoid [On QScrollPrepareEvent];
    Sig [VALUE_TYPE_QTCORE_QRECTF] "setContentPosRange" [PValue QRectF] RVoid [On QScrollPrepareEvent];
    Sig [] "setData" [PVariant; PInt] RVoid [On QStandardItem]
  ].

Definition value_methods_qtgui_10_s72 : list signature_row :=
  [
    Sig [] "setDepthBufferSize" [PInt] RVoid [On QSurfaceFormat];
    Sig [] "setDragEnabled" [PBool] RVoid [On QStandardItem];
    Sig [] "setDropEnabled" [PBool] RVoid [On QStandardItem];
    Sig [] "setEditable" [PBool] RVoid [On QStandardItem];
    Sig [] "setEnabled" [PBool] RVoid [On QStandardItem];
    Sig [TYPE_QTCORE_QOBJECT] "setExclusivePointGrabber" [PObject QObject false] RVoid [On
        QSinglePointEvent];
    Sig [VALUE_TYPE_QTGUI_QFONT] "setFont" [PValue QFont] RVoid [On QStandardItem];
    Sig [VALUE_TYPE_QTGUI_QBRUSH] "setForeground" [PValue QBrush] RVoid [On QStandardItem];
    Sig [] "setGreenBufferSize" [PInt] RVoid [On QSurfaceFormat]
  ].

Definition value_methods_qtgui_10_s81 : list signature_row :=
  [
    Sig [VALUE_TYPE_QTGUI_QICON] "setIcon" [PValue QIcon] RVoid [On QStandardItem];
    Sig [] "setMajorVersion" [PInt] RVoid [On QSurfaceFormat];
    Sig [] "setMinorVersion" [PInt] RVoid [On QSurfaceFormat];
    Sig [TYPE_QTGUI_QSURFACEFORMAT] "setOption" [PValue QSurfaceFormat_FormatOption; PBool] RVoid [On
        QSurfaceFormat];
    Sig [TYPE_QTGUI_QSURFACEFORMAT] "setOptions" [PValue QSurfaceFormat_FormatOptions] RVoid [On
        QSurfaceFormat];
    Sig [TYPE_QTGUI_QSTATICTEXT] "setPerformanceHint" [PValue QStaticText_PerformanceHint] RVoid [On
        QStaticText];
    Sig [TYPE_QTGUI_QSURFACEFORMAT] "setProfile" [PValue QSurfaceFormat_OpenGLContextProfile] RVoid [On
        QSurfaceFormat];
    Sig [] "setRedBufferSize" [PInt] RVoid [On QSurfaceFormat];
    Sig [TYPE_QTGUI_QSURFACEFORMAT] "setRenderableType" [PValue QSurfaceFormat_RenderableType] RVoid [On
        QSurfaceFormat]
  ].

Definition value_methods_qtgui_10_s90 : list signature_row :=
  [
    Sig [] "setRowCount" [PInt] RVoid [On QStandardItem];
    Sig [] "setSamples" [PInt] RVoid [On QSurfaceFormat];
    Sig [] "setSelectable" [PBool] RVoid [On QStandardItem];
    Sig [VALUE_TYPE_QTCORE_QSIZE] "setSizeHint" [PValue QSize] RVoid [On QStandardItem];
    Sig [] "setStatusTip" [PString true] RVoid [On QStandardItem];
    Sig [] "setStencilBufferSize" [PInt] RVoid [On QSurfaceFormat];
    Sig [] "setStereo" [PBool] RVoid [On QSurfaceFormat];
    Sig [TYPE_QTGUI_QSURFACEFORMAT] "setSwapBehavior" [PValue QSurfaceFormat_SwapBehavior] RVoid [On
        QSurfaceFormat];
    Sig [] "setSwapInterval" [PInt] RVoid [On QSurfaceFormat]
  ].

Definition value_methods_qtgui_10_s99 : list signature_row :=
  [
    Sig [] "setText" [PString true] RVoid [On QStandardItem; On QStaticText];
    Sig [ENUM_QT_TEXTFORMAT] "setTextFormat" [PValue Qt_TextFormat] RVoid [On QStaticText];
    Sig [VALUE_TYPE_QTGUI_QTEXTOPTION] "setTextOption" [PValue QTextOption] RVoid [On QStaticText];
    Sig [] "setTextWidth" [PNumber cxx_qreal] RVoid [On QStaticText];
    Sig [] "setToolTip" [PString true] RVoid [On QStandardItem];
    Sig [] "setUserTristate" [PBool] RVoid [On QStandardItem];
    Sig [] "setVersion" [PInt; PInt] RVoid [On QSurfaceFormat];
    Sig [VALUE_TYPE_QTCORE_QSIZEF] "setViewportSize" [PValue QSizeF] RVoid [On QScrollPrepareEvent];
    Sig [] "setWhatsThis" [PString true] RVoid [On QStandardItem]
  ].

Definition value_methods_qtgui_10_s108 : list signature_row :=
  [
    Sig [] "shortcutId" [] RDouble [On QShortcutEvent];
    Sig [VALUE_TYPE_QTCORE_QSIZEF] "size" [] (RValue QSizeF) [On QStaticText];
    Sig [VALUE_TYPE_QTCORE_QSIZE] "sizeHint" [] (RValue QSize) [On QStandardItem];
    Sig [ENUM_QT_SORTORDER] "sortChildren" [PInt; PValue Qt_SortOrder] RVoid [On QStandardItem];
    Sig [VALUE_TYPE_QTCORE_QPOINTF] "startPos" [] (RValue QPointF) [On QScrollPrepareEvent];
    Sig [] "statusTip" [] RString [On QStandardItem];
    Sig [] "stencilBufferSize" [] RDouble [On QSurfaceFormat];
    Sig [] "stereo" [] RBool [On QSurfaceFormat];
    Sig [] "supportsOpenGL" [] RBool [On QSurface];
    Sig [TYPE_QTGUI_QSURFACE] "surfaceClass" [] (RMeta QSurface_SurfaceClass) [On QSurface]
  ].

Definition value_methods_qtgui_10_s118 : list signature_row :=
  [
    Sig [VALUE_TYPE_QTGUI_QSTATICTEXT] "swap" [PValue QStaticText] RVoid [On QStaticText];
    Sig [TYPE_QTGUI_QSURFACEFORMAT] "swapBehavior" [] (RMeta QSurfaceFormat_SwapBehavior) [On
        QSurfaceFormat];
    Sig [] "swapInterval" [] RDouble [On QSurfaceFormat];
    Sig [TYPE_QTGUI_QSURFACEFORMAT] "testOption" [PValue QSurfaceFormat_FormatOption] RBool [On
        QSurfaceFormat];
    Sig [] "text" [] RString [On QStandardItem; On QStaticText];
    Sig [ENUM_QT_TEXTFORMAT] "textFormat" [] (RMeta Qt_TextFormat) [On QStaticText];
    Sig [VALUE_TYPE_QTGUI_QTEXTOPTION] "textOption" [] (RValue QTextOption) [On QStaticText];
    Sig [] "textWidth" [] RDouble [On QStaticText];
    Sig [] "tip" [] RString [On QStatusTipEvent];
    Sig [] "toolTip" [] RString [On QStandardItem]
  ].

Definition value_methods_qtgui_10_s128 : list signature_row :=
  [
    Sig [] "type" [] RDouble [On QStandardItem];
    Sig [VALUE_TYPE_QTCORE_QSIZEF] "viewportSize" [] (RValue QSizeF) [On QScrollPrepareEvent];
    Sig [] "whatsThis" [] RString [On QStandardItem];
    Sig [VALUE_TYPE_QTCORE_QDATASTREAM] "write" [PValue QDataStream] RVoid [On QStandardItem]
  ].

Definition value_methods_qtgui_10_types : list string :=
  [
    QScrollPrepareEvent;
    QShortcutEvent;
    QSinglePointEvent;
    QStandardItem;
    QStaticText;
    QStatusTipEvent;
    QSurface;
    QSurfaceFormat
  ].

Definition value_methods_qtgui_10 : method_shard :=
  MethodShard QtGui "KRY_QT6_NATIVE_METHODS_QTGUI_"
    (value_methods_qtgui_10_i0)
    (value_methods_qtgui_10_s0 ++ value_methods_qtgui_10_s11 ++ value_methods_qtgui_10_s21 ++
        value_methods_qtgui_10_s32 ++ value_methods_qtgui_10_s43 ++ value_methods_qtgui_10_s53 ++
        value_methods_qtgui_10_s63 ++ value_methods_qtgui_10_s72 ++ value_methods_qtgui_10_s81 ++
        value_methods_qtgui_10_s90 ++ value_methods_qtgui_10_s99 ++ value_methods_qtgui_10_s108 ++
        value_methods_qtgui_10_s118 ++ value_methods_qtgui_10_s128)
    value_methods_qtgui_10_types.

Definition value_methods_qtgui_11_i0 : list include :=
  [
    ClassInclude QtGui QTabletEvent QTabletEvent;
    ClassInclude QtGui QTextBlock QTextBlock;
    ClassInclude QtGui QTextBlockFormat QTextBlockFormat;
    ClassInclude QtGui QTextCharFormat QTextCharFormat;
    ClassInclude QtGui QTextCursor QTextCursor;
    ClassInclude QtGui QTextDocumentFragment QTextDocumentFragment;
    ClassInclude QtGui QTextDocumentWriter QTextDocumentWriter;
    ClassInclude QtGui QTextFormat QTextFormat;
    TypeInclude QtCore QIODevice TYPE_QTCORE_QIODEVICE;
    TypeInclude QtGui QTextDocument TYPE_QTGUI_QTEXTDOCUMENT;
    TypeInclude QtGui QTextFrame TYPE_QTGUI_QTEXTFRAME;
    TypeInclude QtGui QTextList TYPE_QTGUI_QTEXTLIST;
    TypeInclude QtGui QTextTable TYPE_QTGUI_QTEXTTABLE;
    EnumDefine ENUM_QT_LAYOUTDIRECTION;
    TypeInclude QtGui QFont TYPE_QTGUI_QFONT;
    TypeInclude QtGui QTextBlock TYPE_QTGUI_QTEXTBLOCK;
    TypeInclude QtGui QTextBlockFormat TYPE_QTGUI_QTEXTBLOCKFORMAT;
    TypeInclude QtGui QTextCharFormat TYPE_QTGUI_QTEXTCHARFORMAT;
    TypeInclude QtGui QTextCursor TYPE_QTGUI_QTEXTCURSOR;
    TypeInclude QtGui QTextFrameFormat TYPE_QTGUI_QTEXTFRAMEFORMAT;
    TypeInclude QtGui QTextListFormat TYPE_QTGUI_QTEXTLISTFORMAT;
    TypeInclude QtCore QByteArray VALUE_TYPE_QTCORE_QBYTEARRAY;
    TypeInclude QtGui QBrush VALUE_TYPE_QTGUI_QBRUSH;
    TypeInclude QtGui QColor VALUE_TYPE_QTGUI_QCOLOR;
    TypeInclude QtGui QFont VALUE_TYPE_QTGUI_QFONT;
    TypeInclude QtGui QImage VALUE_TYPE_QTGUI_QIMAGE;
    TypeInclude QtGui QPen VALUE_TYPE_QTGUI_QPEN;
    TypeInclude QtGui QTextBlock VALUE_TYPE_QTGUI_QTEXTBLOCK;
    TypeInclude QtGui QTextBlockFormat VALUE_TYPE_QTGUI_QTEXTBLOCKFORMAT;
    TypeInclude QtGui QTextCharFormat VALUE_TYPE_QTGUI_QTEXTCHARFORMAT;
    TypeInclude QtGui QTextCursor VALUE_TYPE_QTGUI_QTEXTCURSOR;
    TypeInclude QtGui QTextDocumentFragment VALUE_TYPE_QTGUI_QTEXTDOCUMENTFRAGMENT;
    TypeInclude QtGui QTextFormat VALUE_TYPE_QTGUI_QTEXTFORMAT;
    TypeInclude QtGui QTextFrameFormat VALUE_TYPE_QTGUI_QTEXTFRAMEFORMAT;
    TypeInclude QtGui QTextImageFormat VALUE_TYPE_QTGUI_QTEXTIMAGEFORMAT;
    TypeInclude QtGui QTextLength VALUE_TYPE_QTGUI_QTEXTLENGTH;
    TypeInclude QtGui QTextListFormat VALUE_TYPE_QTGUI_QTEXTLISTFORMAT;
    TypeInclude QtGui QTextTableCellFormat VALUE_TYPE_QTGUI_QTEXTTABLECELLFORMAT;
    TypeInclude QtGui QTextTableFormat VALUE_TYPE_QTGUI_QTEXTTABLEFORMAT
  ].

Definition value_methods_qtgui_11_s0 : list signature_row :=
  [
    Sig [] "anchor" [] RDouble [On QTextCursor];
    Sig [] "anchorHref" [] RString [On QTextCharFormat];
    Sig [] "anchorNames" [] (RList (IMeta QString)) [On QTextCharFormat];
    Sig [] "atBlockEnd" [] RBool [On QTextCursor];
    Sig [] "atBlockStart" [] RBool [On QTextCursor];
    Sig [] "atEnd" [] RBool [On QTextCursor];
    Sig [] "atStart" [] RBool [On QTextCursor];
    Sig [VALUE_TYPE_QTGUI_QBRUSH] "background" [] (RValue QBrush) [On QTextFormat];
    Sig [] "baselineOffset" [] RDouble [On QTextCharFormat];
    Sig [TYPE_QTGUI_QTEXTBLOCK] "begin" [] (RMeta QTextBlock_iterator) [On QTextBlock];
    Sig [] "beginEditBlock" [] RVoid [On QTextCursor]
  ].

Definition value_methods_qtgui_11_s11 : list signature_row :=
  [
    Sig [VALUE_TYPE_QTGUI_QTEXTBLOCK] "block" [] (RValue QTextBlock) [On QTextCursor];
    Sig [VALUE_TYPE_QTGUI_QTEXTCHARFORMAT] "blockCharFormat" [] (RValue QTextCharFormat) [On QTextCursor];
    Sig [VALUE_TYPE_QTGUI_QTEXTBLOCKFORMAT] "blockFormat" [] (RValue QTextBlockFormat) [On QTextBlock; On
        QTextCursor];
    Sig [] "blockFormatIndex" [] RDouble [On QTextBlock];
    Sig [] "blockNumber" [] RDouble [On QTextBlock; On QTextCursor];
    Sig [] "boolProperty" [PInt] RBool [On QTextFormat];
    Sig [] "bottomMargin" [] RDouble [On QTextBlockFormat];
    Sig [VALUE_TYPE_QTGUI_QBRUSH] "brushProperty" [PInt] (RValue QBrush) [On QTextFormat];
    Sig [VALUE_TYPE_QTGUI_QTEXTCHARFORMAT] "charFormat" [] (RValue QTextCharFormat) [On QTextBlock; On
        QTextCursor]
  ].

Definition value_methods_qtgui_11_s20 : list signature_row :=
  [
    Sig [] "charFormatIndex" [] RDouble [On QTextBlock];
    Sig [] "clearBackground" [] RVoid [On QTextFormat];
    Sig [] "clearForeground" [] RVoid [On QTextFormat];
    Sig [] "clearLayout" [] RVoid [On QTextBlock];
    Sig [] "clearProperty" [PInt] RVoid [On QTextFormat];
    Sig [] "clearSelection" [] RVoid [On QTextCursor];
    Sig [VALUE_TYPE_QTGUI_QCOLOR] "colorProperty" [PInt] (RValue QColor) [On QTextFormat];
    Sig [] "columnNumber" [] RDouble [On QTextCursor];
    Sig [] "contains" [PInt] RBool [On QTextBlock];
    Sig [TYPE_QTGUI_QTEXTLIST; VALUE_TYPE_QTGUI_QTEXTLISTFORMAT] "createList" [PValue QTextListFormat]
        RObject [On QTextCursor]
  ].

Definition value_methods_qtgui_11_s30 : list signature_row :=
  [
    Sig [TYPE_QTGUI_QTEXTLIST; TYPE_QTGUI_QTEXTLISTFORMAT] "createList" [PValue QTextListFormat_Style]
        RObject [On QTextCursor];
    Sig [TYPE_QTGUI_QTEXTFRAME] "currentFrame" [] RObject [On QTextCursor];
    Sig [TYPE_QTGUI_QTEXTLIST] "currentList" [] RObject [On QTextCursor];
    Sig [TYPE_QTGUI_QTEXTTABLE] "currentTable" [] RObject [On QTextCursor];
    Sig [] "deleteChar" [] RVoid [On QTextCursor];
    Sig [] "deletePreviousChar" [] RVoid [On QTextCursor];
    Sig [TYPE_QTCORE_QIODEVICE] "device" [] RObject [On QTextDocumentWriter];
    Sig [TYPE_QTGUI_QTEXTDOCUMENT] "document" [] RObject [On QTextBlock; On QTextCursor];
    Sig [] "doubleProperty" [PInt] RDouble [On QTextFormat];
    Sig [TYPE_QTGUI_QTEXTBLOCK] "end" [] (RMeta QTextBlock_iterator) [On QTextBlock]
  ].

Definition value_methods_qtgui_11_s40 : list signature_row :=
  [
    Sig [] "endEditBlock" [] RVoid [On QTextCursor];
    Sig [] "fileName" [] RString [On QTextDocumentWriter];
    Sig [] "firstLineNumber" [] RDouble [On QTextBlock];
    Sig [VALUE_TYPE_QTGUI_QFONT] "font" [] (RValue QFont) [On QTextCharFormat];
    Sig [TYPE_QTGUI_QFONT] "fontCapitalization" [] (RMeta QFont_Capitalization) [On QTextCharFormat];
    Sig [] "fontFamilies" [] RVariant [On QTextCharFormat];
    Sig [] "fontFamily" [] RString [On QTextCharFormat];
    Sig [] "fontFixedPitch" [] RBool [On QTextCharFormat];
    Sig [TYPE_QTGUI_QFONT] "fontHintingPreference" [] (RMeta QFont_HintingPreference) [On QTextCharFormat];
    Sig [] "fontItalic" [] RBool [On QTextCharFormat];
    Sig [] "fontKerning" [] RBool [On QTextCharFormat]
  ].

Definition value_methods_qtgui_11_s51 : list signature_row :=
  [
    Sig [] "fontLetterSpacing" [] RDouble [On QTextCharFormat];
    Sig [TYPE_QTGUI_QFONT] "fontLetterSpacingType" [] (RMeta QFont_SpacingType) [On QTextCharFormat];
    Sig [] "fontOverline" [] RBool [On QTextCharFormat];
    Sig [] "fontPointSize" [] RDouble [On QTextCharFormat];
    Sig [] "fontStretch" [] RDouble [On QTextCharFormat];
    Sig [] "fontStrikeOut" [] RBool [On QTextCharFormat];
    Sig [TYPE_QTGUI_QFONT] "fontStyleHint" [] (RMeta QFont_StyleHint) [On QTextCharFormat];
    Sig [] "fontStyleName" [] RVariant [On QTextCharFormat];
    Sig [TYPE_QTGUI_QFONT] "fontStyleStrategy" [] (RMeta QFont_StyleStrategy) [On QTextCharFormat];
    Sig [] "fontUnderline" [] RBool [On QTextCharFormat];
    Sig [] "fontWeight" [] RDouble [On QTextCharFormat];
    Sig [] "fontWordSpacing" [] RDouble [On QTextCharFormat]
  ].

Definition value_methods_qtgui_11_s63 : list signature_row :=
  [
    Sig [VALUE_TYPE_QTGUI_QBRUSH] "foreground" [] (RValue QBrush) [On QTextFormat];
    Sig [VALUE_TYPE_QTCORE_QBYTEARRAY] "format" [] (RValue QByteArray) [On QTextDocumentWriter];
    Sig [] "hasComplexSelection" [] RBool [On QTextCursor];
    Sig [] "hasProperty" [PInt] RBool [On QTextFormat];
    Sig [] "hasSelection" [] RBool [On QTextCursor];
    Sig [] "headingLevel" [] RDouble [On QTextBlockFormat];
    Sig [] "indent" [] RDouble [On QTextBlockFormat];
    Sig [] "insertBlock" [] RVoid [On QTextCursor];
    Sig [VALUE_TYPE_QTGUI_QTEXTBLOCKFORMAT] "insertBlock" [PValue QTextBlockFormat] RVoid [On QTextCursor];
    Sig [VALUE_TYPE_QTGUI_QTEXTBLOCKFORMAT; VALUE_TYPE_QTGUI_QTEXTCHARFORMAT] "insertBlock" [PValue
        QTextBlockFormat; PValue QTextCharFormat] RVoid [On QTextCursor]
  ].

Definition value_methods_qtgui_11_s73 : list signature_row :=
  [
    Sig [VALUE_TYPE_QTGUI_QTEXTDOCUMENTFRAGMENT] "insertFragment" [PValue QTextDocumentFragment] RVoid [On
        QTextCursor];
    Sig [TYPE_QTGUI_QTEXTFRAME; VALUE_TYPE_QTGUI_QTEXTFRAMEFORMAT] "insertFrame" [PValue QTextFrameFormat]
        RObject [On QTextCursor];
    Sig [] "insertHtml" [PString true] RVoid [On QTextCursor];
    Sig [VALUE_TYPE_QTGUI_QIMAGE] "insertImage" [PValue QImage; PString true] RVoid [On QTextCursor];
    Sig [] "insertImage" [PString true] RVoid [On QTextCursor];
    Sig [VALUE_TYPE_QTGUI_QTEXTIMAGEFORMAT] "insertImage" [PValue QTextImageFormat] RVoid [On QTextCursor];
    Sig [TYPE_QTGUI_QTEXTFRAMEFORMAT; VALUE_TYPE_QTGUI_QTEXTIMAGEFORMAT] "insertImage" [PValue
        QTextImageFormat; PValue QTextFrameFormat_Position] RVoid [On QTextCursor];
    Sig [TYPE_QTGUI_QTEXTLIST; VALUE_TYPE_QTGUI_QTEXTLISTFORMAT] "insertList" [PValue QTextListFormat]
        RObject [On QTextCursor];
    Sig [TYPE_QTGUI_QTEXTLIST; TYPE_QTGUI_QTEXTLISTFORMAT] "insertList" [PValue QTextListFormat_Style]
        RObject [On QTextCursor]
  ].

Definition value_methods_qtgui_11_s82 : list signature_row :=
  [
    Sig [TYPE_QTGUI_QTEXTTABLE] "insertTable" [PInt; PInt] RObject [On QTextCursor];
    Sig [TYPE_QTGUI_QTEXTTABLE; VALUE_TYPE_QTGUI_QTEXTTABLEFORMAT] "insertTable" [PInt; PInt; PValue
        QTextTableFormat] RObject [On QTextCursor];
    Sig [] "insertText" [PString true] RVoid [On QTextCursor];
    Sig [VALUE_TYPE_QTGUI_QTEXTCHARFORMAT] "insertText" [PString true; PValue QTextCharFormat] RVoid [On
        QTextCursor];
    Sig [] "intProperty" [PInt] RDouble [On QTextFormat];
    Sig [] "isAnchor" [] RBool [On QTextCharFormat];
    Sig [] "isBlockFormat" [] RBool [On QTextFormat];
    Sig [] "isCharFormat" [] RBool [On QTextFormat];
    Sig [VALUE_TYPE_QTGUI_QTEXTCURSOR] "isCopyOf" [PValue QTextCursor] RBool [On QTextCursor]
  ].

Definition value_methods_qtgui_11_s91 : list signature_row :=
  [
    Sig [] "isEmpty" [] RBool [On QTextDocumentFragment; On QTextFormat];
    Sig [] "isFrameFormat" [] RBool [On QTextFormat];
    Sig [] "isImageFormat" [] RBool [On QTextFormat];
    Sig [] "isListFormat" [] RBool [On QTextFormat];
    Sig [] "isNull" [] RBool [On QTextCursor];
    Sig [] "isTableCellFormat" [] RBool [On QTextFormat];
    Sig [] "isTableFormat" [] RBool [On QTextFormat];
    Sig [] "isValid" [] RBool [On QTextBlock; On QTextBlockFormat; On QTextCharFormat; On QTextFormat];
    Sig [] "isVisible" [] RBool [On QTextBlock];
    Sig [] "joinPreviousEditBlock" [] RVoid [On QTextCursor]
  ].

Definition value_methods_qtgui_11_s101 : list signature_row :=
  [
    Sig [] "keepPositionOnInsert" [] RBool [On QTextCursor];
    Sig [ENUM_QT_LAYOUTDIRECTION] "layoutDirection" [] (RMeta Qt_LayoutDirection) [On QTextFormat];
    Sig [] "leftMargin" [] RDouble [On QTextBlockFormat];
    Sig [] "length" [] RDouble [On QTextBlock];
    Sig [VALUE_TYPE_QTGUI_QTEXTLENGTH] "lengthProperty" [PInt] (RValue QTextLength) [On QTextFormat];
    Sig [VALUE_TYPE_QTGUI_QTEXTLENGTH] "lengthVectorProperty" [PInt] (RList (IValue QTextLength)) [On
        QTextFormat];
    Sig [] "lineCount" [] RDouble [On QTextBlock];
    Sig [] "lineHeight" [] RDouble [On QTextBlockFormat];
    Sig [] "lineHeight" [PNumber cxx_qreal; PNumber cxx_qreal] RDouble [On QTextBlockFormat];
    Sig [] "lineHeightType" [] RDouble [On QTextBlockFormat]
  ].

Definition value_methods_qtgui_11_s111 : list signature_row :=
  [
    Sig [TYPE_QTGUI_QTEXTBLOCKFORMAT] "marker" [] (RMeta QTextBlockFormat_MarkerType) [On QTextBlockFormat];
    Sig [VALUE_TYPE_QTGUI_QTEXTFORMAT] "merge" [PValue QTextFormat] RVoid [On QTextFormat];
    Sig [VALUE_TYPE_QTGUI_QTEXTCHARFORMAT] "mergeBlockCharFormat" [PValue QTextCharFormat] RVoid [On
        QTextCursor];
    Sig [VALUE_TYPE_QTGUI_QTEXTBLOCKFORMAT] "mergeBlockFormat" [PValue QTextBlockFormat] RVoid [On
        QTextCursor];
    Sig [VALUE_TYPE_QTGUI_QTEXTCHARFORMAT] "mergeCharFormat" [PValue QTextCharFormat] RVoid [On
        QTextCursor];
    Sig [TYPE_QTGUI_QTEXTCURSOR] "movePosition" [PValue QTextCursor_MoveOperation; PValue
        QTextCursor_MoveMode; PInt] RBool [On QTextCursor];
    Sig [VALUE_TYPE_QTGUI_QTEXTBLOCK] "next" [] (RValue QTextBlock) [On QTextBlock];
    Sig [] "nonBreakableLines" [] RBool [On QTextBlockFormat];
    Sig [] "objectIndex" [] RDouble [On QTextFormat]
  ].

Definition value_methods_qtgui_11_s120 : list signature_row :=
  [
    Sig [] "objectType" [] RDouble [On QTextFormat];
    Sig [VALUE_TYPE_QTGUI_QPEN] "penProperty" [PInt] (RValue QPen) [On QTextFormat];
    Sig [] "position" [] RDouble [On QTextBlock; On QTextCursor];
    Sig [] "positionInBlock" [] RDouble [On QTextCursor];
    Sig [] "pressure" [] RDouble [On QTabletEvent];
    Sig [VALUE_TYPE_QTGUI_QTEXTBLOCK] "previous" [] (RValue QTextBlock) [On QTextBlock];
    Sig [] "property" [PInt] RVariant [On QTextFormat];
    Sig [] "propertyCount" [] RDouble [On QTextFormat];
    Sig [] "removeSelectedText" [] RVoid [On QTextCursor];
    Sig [] "revision" [] RDouble [On QTextBlock];
    Sig [] "rightMargin" [] RDouble [On QTextBlockFormat]
  ].

Definition value_methods_qtgui_11_s131 : list signature_row :=
  [
    Sig [] "rotation" [] RDouble [On QTabletEvent];
    Sig [TYPE_QTGUI_QTEXTCURSOR] "select" [PValue QTextCursor_SelectionType] RVoid [On QTextCursor];
    Sig [] "selectedText" [] RString [On QTextCursor];
    Sig [VALUE_TYPE_QTGUI_QTEXTDOCUMENTFRAGMENT] "selection" [] (RValue QTextDocumentFragment) [On
        QTextCursor];
    Sig [] "selectionEnd" [] RDouble [On QTextCursor];
    Sig [] "selectionStart" [] RDouble [On QTextCursor];
    Sig [] "setAnchor" [PBool] RVoid [On QTextCharFormat];
    Sig [] "setAnchorHref" [PString true] RVoid [On QTextCharFormat];
    Sig [] "setAnchorNames" [PStringList] RVoid [On QTextCharFormat];
    Sig [VALUE_TYPE_QTGUI_QBRUSH] "setBackground" [PValue QBrush] RVoid [On QTextFormat]
  ].

Definition value_methods_qtgui_11_s141 : list signature_row :=
  [
    Sig [] "setBaselineOffset" [PNumber cxx_qreal] RVoid [On QTextCharFormat];
    Sig [VALUE_TYPE_QTGUI_QTEXTCHARFORMAT] "setBlockCharFormat" [PValue QTextCharFormat] RVoid [On
        QTextCursor];
    Sig [VALUE_TYPE_QTGUI_QTEXTBLOCKFORMAT] "setBlockFormat" [PValue QTextBlockFormat] RVoid [On
        QTextCursor];
    Sig [] "setBottomMargin" [PNumber cxx_qreal] RVoid [On QTextBlockFormat];
    Sig [VALUE_TYPE_QTGUI_QTEXTCHARFORMAT] "setCharFormat" [PValue QTextCharFormat] RVoid [On QTextCursor];
    Sig [TYPE_QTCORE_QIODEVICE] "setDevice" [PObject QIODevice false] RVoid [On QTextDocumentWriter];
    Sig [] "setFileName" [PString true] RVoid [On QTextDocumentWriter];
    Sig [TYPE_QTGUI_QTEXTCHARFORMAT; VALUE_TYPE_QTGUI_QFONT] "setFont" [PValue QFont; PValue
        QTextCharFormat_FontPropertiesInheritanceBehavior] RVoid [On QTextCharFormat];
    Sig [TYPE_QTGUI_QFONT] "setFontCapitalization" [PValue QFont_Capitalization] RVoid [On QTextCharFormat]
  ].

Definition value_methods_qtgui_11_s150 : list signature_row :=
  [
    Sig [] "setFontFamilies" [PStringList] RVoid [On QTextCharFormat];
    Sig [] "setFontFamily" [PString true] RVoid [On QTextCharFormat];
    Sig [] "setFontFixedPitch" [PBool] RVoid [On QTextCharFormat];
    Sig [TYPE_QTGUI_QFONT] "setFontHintingPreference" [PValue QFont_HintingPreference] RVoid [On
        QTextCharFormat];
    Sig [] "setFontItalic" [PBool] RVoid [On QTextCharFormat];
    Sig [] "setFontKerning" [PBool] RVoid [On QTextCharFormat];
    Sig [] "setFontLetterSpacing" [PNumber cxx_qreal] RVoid [On QTextCharFormat];
    Sig [TYPE_QTGUI_QFONT] "setFontLetterSpacingType" [PValue QFont_SpacingType] RVoid [On QTextCharFormat];
    Sig [] "setFontOverline" [PBool] RVoid [On QTextCharFormat]
  ].

Definition value_methods_qtgui_11_s159 : list signature_row :=
  [
    Sig [] "setFontPointSize" [PNumber cxx_qreal] RVoid [On QTextCharFormat];
    Sig [] "setFontStretch" [PInt] RVoid [On QTextCharFormat];
    Sig [] "setFontStrikeOut" [PBool] RVoid [On QTextCharFormat];
    Sig [TYPE_QTGUI_QFONT] "setFontStyleHint" [PValue QFont_StyleHint; PValue QFont_StyleStrategy] RVoid
        [On QTextCharFormat];
    Sig [] "setFontStyleName" [PString true] RVoid [On QTextCharFormat];
    Sig [TYPE_QTGUI_QFONT] "setFontStyleStrategy" [PValue QFont_StyleStrategy] RVoid [On QTextCharFormat];
    Sig [] "setFontUnderline" [PBool] RVoid [On QTextCharFormat];
    Sig [] "setFontWeight" [PInt] RVoid [On QTextCharFormat];
    Sig [] "setFontWordSpacing" [PNumber cxx_qreal] RVoid [On QTextCharFormat]
  ].

Definition value_methods_qtgui_11_s168 : list signature_row :=
  [
    Sig [VALUE_TYPE_QTGUI_QBRUSH] "setForeground" [PValue QBrush] RVoid [On QTextFormat];
    Sig [VALUE_TYPE_QTCORE_QBYTEARRAY] "setFormat" [PValue QByteArray] RVoid [On QTextDocumentWriter];
    Sig [] "setHeadingLevel" [PInt] RVoid [On QTextBlockFormat];
    Sig [] "setIndent" [PInt] RVoid [On QTextBlockFormat];
    Sig [] "setKeepPositionOnInsert" [PBool] RVoid [On QTextCursor];
    Sig [ENUM_QT_LAYOUTDIRECTION] "setLayoutDirection" [PValue Qt_LayoutDirection] RVoid [On QTextFormat];
    Sig [] "setLeftMargin" [PNumber cxx_qreal] RVoid [On QTextBlockFormat];
    Sig [] "setLineCount" [PInt] RVoid [On QTextBlock];
    Sig [] "setLineHeight" [PNumber cxx_qreal; PInt] RVoid [On QTextBlockFormat]
  ].

Definition value_methods_qtgui_11_s177 : list signature_row :=
  [
    Sig [TYPE_QTGUI_QTEXTBLOCKFORMAT] "setMarker" [PValue QTextBlockFormat_MarkerType] RVoid [On
        QTextBlockFormat];
    Sig [] "setNonBreakableLines" [PBool] RVoid [On QTextBlockFormat];
    Sig [] "setObjectIndex" [PInt] RVoid [On QTextFormat];
    Sig [] "setObjectType" [PInt] RVoid [On QTextFormat];
    Sig [TYPE_QTGUI_QTEXTCURSOR] "setPosition" [PInt; PValue QTextCursor_MoveMode] RVoid [On QTextCursor];
    Sig [VALUE_TYPE_QTGUI_QTEXTLENGTH] "setProperty" [PInt; PList (IValue QTextLength)] RVoid [On
        QTextFormat];
    Sig [] "setProperty" [PInt; PVariant] RVoid [On QTextFormat];
    Sig [] "setRevision" [PInt] RVoid [On QTextBlock];
    Sig [] "setRightMargin" [PNumber cxx_qreal] RVoid [On QTextBlockFormat]
  ].

Definition value_methods_qtgui_11_s186 : list signature_row :=
  [
    Sig [] "setSubScriptBaseline" [PNumber cxx_qreal] RVoid [On QTextCharFormat];
    Sig [] "setSuperScriptBaseline" [PNumber cxx_qreal] RVoid [On QTextCharFormat];
    Sig [] "setTableCellColumnSpan" [PInt] RVoid [On QTextCharFormat];
    Sig [] "setTableCellRowSpan" [PInt] RVoid [On QTextCharFormat];
    Sig [] "setTextIndent" [PNumber cxx_qreal] RVoid [On QTextBlockFormat];
    Sig [VALUE_TYPE_QTGUI_QPEN] "setTextOutline" [PValue QPen] RVoid [On QTextCharFormat];
    Sig [] "setToolTip" [PString true] RVoid [On QTextCharFormat];
    Sig [] "setTopMargin" [PNumber cxx_qreal] RVoid [On QTextBlockFormat];
    Sig [VALUE_TYPE_QTGUI_QCOLOR] "setUnderlineColor" [PValue QColor] RVoid [On QTextCharFormat]
  ].

Definition value_methods_qtgui_11_s195 : list signature_row :=
  [
    Sig [TYPE_QTGUI_QTEXTCHARFORMAT] "setUnderlineStyle" [PValue QTextCharFormat_UnderlineStyle] RVoid [On
        QTextCharFormat];
    Sig [] "setUserState" [PInt] RVoid [On QTextBlock];
    Sig [TYPE_QTGUI_QTEXTCHARFORMAT] "setVerticalAlignment" [PValue QTextCharFormat_VerticalAlignment]
        RVoid [On QTextCharFormat];
    Sig [] "setVerticalMovementX" [PInt] RVoid [On QTextCursor];
    Sig [] "setVisible" [PBool] RVoid [On QTextBlock];
    Sig [] "setVisualNavigation" [PBool] RVoid [On QTextCursor];
    Sig [] "stringProperty" [PInt] RString [On QTextFormat];
    Sig [] "subScriptBaseline" [] RDouble [On QTextCharFormat];
    Sig [] "superScriptBaseline" [] RDouble [On QTextCharFormat];
    Sig [VALUE_TYPE_QTGUI_QTEXTCURSOR] "swap" [PValue QTextCursor] RVoid [On QTextCursor]
  ].

Definition value_methods_qtgui_11_s205 : list signature_row :=
  [
    Sig [VALUE_TYPE_QTGUI_QTEXTFORMAT] "swap" [PValue QTextFormat] RVoid [On QTextFormat];
    Sig [] "tableCellColumnSpan" [] RDouble [On QTextCharFormat];
    Sig [] "tableCellRowSpan" [] RDouble [On QTextCharFormat];
    Sig [] "tangentialPressure" [] RDouble [On QTabletEvent];
    Sig [] "text" [] RString [On QTextBlock];
    Sig [ENUM_QT_LAYOUTDIRECTION] "textDirection" [] (RMeta Qt_LayoutDirection) [On QTextBlock];
    Sig [] "textIndent" [] RDouble [On QTextBlockFormat];
    Sig [TYPE_QTGUI_QTEXTLIST] "textList" [] RObject [On QTextBlock];
    Sig [VALUE_TYPE_QTGUI_QPEN] "textOutline" [] (RValue QPen) [On QTextCharFormat];
    Sig [VALUE_TYPE_QTGUI_QTEXTBLOCKFORMAT] "toBlockFormat" [] (RValue QTextBlockFormat) [On QTextFormat];
    Sig [VALUE_TYPE_QTGUI_QTEXTCHARFORMAT] "toCharFormat" [] (RValue QTextCharFormat) [On QTextFormat]
  ].

Definition value_methods_qtgui_11_s216 : list signature_row :=
  [
    Sig [VALUE_TYPE_QTGUI_QTEXTFRAMEFORMAT] "toFrameFormat" [] (RValue QTextFrameFormat) [On QTextFormat];
    Sig [] "toHtml" [] RString [On QTextDocumentFragment];
    Sig [VALUE_TYPE_QTGUI_QTEXTIMAGEFORMAT] "toImageFormat" [] (RValue QTextImageFormat) [On QTextFormat];
    Sig [VALUE_TYPE_QTGUI_QTEXTLISTFORMAT] "toListFormat" [] (RValue QTextListFormat) [On QTextFormat];
    Sig [] "toPlainText" [] RString [On QTextDocumentFragment];
    Sig [] "toRawText" [] RString [On QTextDocumentFragment];
    Sig [VALUE_TYPE_QTGUI_QTEXTTABLECELLFORMAT] "toTableCellFormat" [] (RValue QTextTableCellFormat) [On
        QTextFormat];
    Sig [VALUE_TYPE_QTGUI_QTEXTTABLEFORMAT] "toTableFormat" [] (RValue QTextTableFormat) [On QTextFormat];
    Sig [] "toolTip" [] RString [On QTextCharFormat];
    Sig [] "topMargin" [] RDouble [On QTextBlockFormat];
    Sig [] "type" [] RDouble [On QTextFormat]
  ].

Definition value_methods_qtgui_11_s227 : list signature_row :=
  [
    Sig [VALUE_TYPE_QTGUI_QCOLOR] "underlineColor" [] (RValue QColor) [On QTextCharFormat];
    Sig [TYPE_QTGUI_QTEXTCHARFORMAT] "underlineStyle" [] (RMeta QTextCharFormat_UnderlineStyle) [On
        QTextCharFormat];
    Sig [] "userState" [] RDouble [On QTextBlock];
    Sig [TYPE_QTGUI_QTEXTCHARFORMAT] "verticalAlignment" [] (RMeta QTextCharFormat_VerticalAlignment) [On
        QTextCharFormat];
    Sig [] "verticalMovementX" [] RDouble [On QTextCursor];
    Sig [] "visualNavigation" [] RBool [On QTextCursor];
    Sig [TYPE_QTGUI_QTEXTDOCUMENT] "write" [PObject QTextDocument false] RBool [On QTextDocumentWriter];
    Sig [VALUE_TYPE_QTGUI_QTEXTDOCUMENTFRAGMENT] "write" [PValue QTextDocumentFragment] RBool [On
        QTextDocumentWriter];
    Sig [] "xTilt" [] RDouble [On QTabletEvent];
    Sig [] "yTilt" [] RDouble [On QTabletEvent];
    Sig [] "z" [] RDouble [On QTabletEvent]
  ].

Definition value_methods_qtgui_11_types : list string :=
  [
    QTabletEvent;
    QTextBlock;
    QTextBlockFormat;
    QTextCharFormat;
    QTextCursor;
    QTextDocumentFragment;
    QTextDocumentWriter;
    QTextFormat
  ].

Definition value_methods_qtgui_11 : method_shard :=
  MethodShard QtGui "KRY_QT6_NATIVE_METHODS_QTGUI_"
    (value_methods_qtgui_11_i0)
    (value_methods_qtgui_11_s0 ++ value_methods_qtgui_11_s11 ++ value_methods_qtgui_11_s20 ++
        value_methods_qtgui_11_s30 ++ value_methods_qtgui_11_s40 ++ value_methods_qtgui_11_s51 ++
        value_methods_qtgui_11_s63 ++ value_methods_qtgui_11_s73 ++ value_methods_qtgui_11_s82 ++
        value_methods_qtgui_11_s91 ++ value_methods_qtgui_11_s101 ++ value_methods_qtgui_11_s111 ++
        value_methods_qtgui_11_s120 ++ value_methods_qtgui_11_s131 ++ value_methods_qtgui_11_s141 ++
        value_methods_qtgui_11_s150 ++ value_methods_qtgui_11_s159 ++ value_methods_qtgui_11_s168 ++
        value_methods_qtgui_11_s177 ++ value_methods_qtgui_11_s186 ++ value_methods_qtgui_11_s195 ++
        value_methods_qtgui_11_s205 ++ value_methods_qtgui_11_s216 ++ value_methods_qtgui_11_s227)
    value_methods_qtgui_11_types.

Definition value_methods_qtgui_12_i0 : list include :=
  [
    ClassInclude QtGui QTextFragment QTextFragment;
    ClassInclude QtGui QTextFrameFormat QTextFrameFormat;
    ClassInclude QtGui QTextImageFormat QTextImageFormat;
    ClassInclude QtGui QTextInlineObject QTextInlineObject;
    ClassInclude QtGui QTextItem QTextItem;
    ClassInclude QtGui QTextLayout QTextLayout;
    ClassInclude QtGui QTextLength QTextLength;
    ClassInclude QtGui QTextLine QTextLine;
    EnumDefine ENUM_QT_CURSORMOVESTYLE;
    EnumDefine ENUM_QT_LAYOUTDIRECTION;
    TypeInclude QtGui QTextFrameFormat TYPE_QTGUI_QTEXTFRAMEFORMAT;
    TypeInclude QtGui QTextLayout TYPE_QTGUI_QTEXTLAYOUT;
    TypeInclude QtGui QTextLength TYPE_QTGUI_QTEXTLENGTH;
    TypeInclude QtGui QTextLine TYPE_QTGUI_QTEXTLINE;
    TypeInclude QtCore QPointF VALUE_TYPE_QTCORE_QPOINTF;
    TypeInclude QtCore QRectF VALUE_TYPE_QTCORE_QRECTF;
    TypeInclude QtGui QBrush VALUE_TYPE_QTGUI_QBRUSH;
    TypeInclude QtGui QFont VALUE_TYPE_QTGUI_QFONT;
    TypeInclude QtGui QGlyphRun VALUE_TYPE_QTGUI_QGLYPHRUN;
    TypeInclude QtGui QTextCharFormat VALUE_TYPE_QTGUI_QTEXTCHARFORMAT;
    TypeInclude QtGui QTextFormat VALUE_TYPE_QTGUI_QTEXTFORMAT;
    TypeInclude QtGui QTextLength VALUE_TYPE_QTGUI_QTEXTLENGTH;
    TypeInclude QtGui QTextLine VALUE_TYPE_QTGUI_QTEXTLINE;
    TypeInclude QtGui QTextOption VALUE_TYPE_QTGUI_QTEXTOPTION
  ].

Definition value_methods_qtgui_12_s0 : list signature_row :=
  [
    Sig [] "ascent" [] RDouble [On QTextInlineObject; On QTextItem; On QTextLine];
    Sig [] "beginLayout" [] RVoid [On QTextLayout];
    Sig [] "border" [] RDouble [On QTextFrameFormat];
    Sig [VALUE_TYPE_QTGUI_QBRUSH] "borderBrush" [] (RValue QBrush) [On QTextFrameFormat];
    Sig [TYPE_QTGUI_QTEXTFRAMEFORMAT] "borderStyle" [] (RMeta QTextFrameFormat_BorderStyle) [On
        QTextFrameFormat];
    Sig [] "bottomMargin" [] RDouble [On QTextFrameFormat];
    Sig [VALUE_TYPE_QTCORE_QRECTF] "boundingRect" [] (RValue QRectF) [On QTextLayout];
    Sig [] "cacheEnabled" [] RBool [On QTextLayout];
    Sig [VALUE_TYPE_QTGUI_QTEXTCHARFORMAT] "charFormat" [] (RValue QTextCharFormat) [On QTextFragment];
    Sig [] "charFormatIndex" [] RDouble [On QTextFragment]
  ].

Definition value_methods_qtgui_12_s10 : list signature_row :=
  [
    Sig [] "clearFormats" [] RVoid [On QTextLayout];
    Sig [] "clearLayout" [] RVoid [On QTextLayout];
    Sig [] "contains" [PInt] RBool [On QTextFragment];
    Sig [VALUE_TYPE_QTGUI_QTEXTLINE] "createLine" [] (RValue QTextLine) [On QTextLayout];
    Sig [ENUM_QT_CURSORMOVESTYLE] "cursorMoveStyle" [] (RMeta Qt_CursorMoveStyle) [On QTextLayout];
    Sig [] "descent" [] RDouble [On QTextInlineObject; On QTextItem; On QTextLine];
    Sig [] "endLayout" [] RVoid [On QTextLayout];
    Sig [VALUE_TYPE_QTGUI_QFONT] "font" [] (RValue QFont) [On QTextItem; On QTextLayout];
    Sig [VALUE_TYPE_QTGUI_QTEXTFORMAT] "format" [] (RValue QTextFormat) [On QTextInlineObject]
  ].

Definition value_methods_qtgui_12_s19 : list signature_row :=
  [
    Sig [] "formatIndex" [] RDouble [On QTextInlineObject];
    Sig [VALUE_TYPE_QTGUI_QGLYPHRUN] "glyphRuns" [PInt; PInt] (RList (IValue QGlyphRun)) [On QTextFragment;
        On QTextLayout; On QTextLine];
    Sig [VALUE_TYPE_QTGUI_QTEXTLENGTH] "height" [] (RValue QTextLength) [On QTextFrameFormat];
    Sig [] "height" [] RDouble [On QTextImageFormat; On QTextInlineObject; On QTextLine];
    Sig [] "horizontalAdvance" [] RDouble [On QTextLine];
    Sig [] "isValid" [] RBool [On QTextFragment; On QTextFrameFormat; On QTextImageFormat; On
        QTextInlineObject; On QTextLine];
    Sig [] "isValidCursorPosition" [PInt] RBool [On QTextLayout]
  ].

Definition value_methods_qtgui_12_s26 : list signature_row :=
  [
    Sig [] "leading" [] RDouble [On QTextLine];
    Sig [] "leadingIncluded" [] RBool [On QTextLine];
    Sig [] "leftCursorPosition" [PInt] RDouble [On QTextLayout];
    Sig [] "leftMargin" [] RDouble [On QTextFrameFormat];
    Sig [] "length" [] RDouble [On QTextFragment];
    Sig [VALUE_TYPE_QTGUI_QTEXTLINE] "lineAt" [PInt] (RValue QTextLine) [On QTextLayout];
    Sig [] "lineCount" [] RDouble [On QTextLayout];
    Sig [VALUE_TYPE_QTGUI_QTEXTLINE] "lineForTextPosition" [PInt] (RValue QTextLine) [On QTextLayout];
    Sig [] "lineNumber" [] RDouble [On QTextLine];
    Sig [] "margin" [] RDouble [On QTextFrameFormat];
    Sig [VALUE_TYPE_QTGUI_QTEXTLENGTH] "maximumWidth" [] (RValue QTextLength) [On QTextImageFormat]
  ].

Definition value_methods_qtgui_12_s37 : list signature_row :=
  [
    Sig [] "maximumWidth" [] RDouble [On QTextLayout];
    Sig [] "minimumWidth" [] RDouble [On QTextLayout];
    Sig [] "name" [] RString [On QTextImageFormat];
    Sig [VALUE_TYPE_QTCORE_QRECTF] "naturalTextRect" [] (RValue QRectF) [On QTextLine];
    Sig [] "naturalTextWidth" [] RDouble [On QTextLine];
    Sig [TYPE_QTGUI_QTEXTLAYOUT] "nextCursorPosition" [PInt; PValue QTextLayout_CursorMode] RDouble [On
        QTextLayout];
    Sig [] "padding" [] RDouble [On QTextFrameFormat];
    Sig [VALUE_TYPE_QTCORE_QPOINTF] "position" [] (RValue QPointF) [On QTextLayout; On QTextLine];
    Sig [TYPE_QTGUI_QTEXTFRAMEFORMAT] "position" [] (RMeta QTextFrameFormat_Position) [On QTextFrameFormat];
    Sig [] "position" [] RDouble [On QTextFragment]
  ].

Definition value_methods_qtgui_12_s47 : list signature_row :=
  [
    Sig [] "preeditAreaPosition" [] RDouble [On QTextLayout];
    Sig [] "preeditAreaText" [] RString [On QTextLayout];
    Sig [TYPE_QTGUI_QTEXTLAYOUT] "previousCursorPosition" [PInt; PValue QTextLayout_CursorMode] RDouble [On
        QTextLayout];
    Sig [] "quality" [] RDouble [On QTextImageFormat];
    Sig [] "rawValue" [] RDouble [On QTextLength];
    Sig [VALUE_TYPE_QTCORE_QRECTF] "rect" [] (RValue QRectF) [On QTextInlineObject; On QTextLine];
    Sig [] "rightCursorPosition" [PInt] RDouble [On QTextLayout];
    Sig [] "rightMargin" [] RDouble [On QTextFrameFormat];
    Sig [] "setAscent" [PNumber cxx_qreal] RVoid [On QTextInlineObject];
    Sig [] "setBorder" [PNumber cxx_qreal] RVoid [On QTextFrameFormat]
  ].

Definition value_methods_qtgui_12_s57 : list signature_row :=
  [
    Sig [VALUE_TYPE_QTGUI_QBRUSH] "setBorderBrush" [PValue QBrush] RVoid [On QTextFrameFormat];
    Sig [TYPE_QTGUI_QTEXTFRAMEFORMAT] "setBorderStyle" [PValue QTextFrameFormat_BorderStyle] RVoid [On
        QTextFrameFormat];
    Sig [] "setBottomMargin" [PNumber cxx_qreal] RVoid [On QTextFrameFormat];
    Sig [] "setCacheEnabled" [PBool] RVoid [On QTextLayout];
    Sig [ENUM_QT_CURSORMOVESTYLE] "setCursorMoveStyle" [PValue Qt_CursorMoveStyle] RVoid [On QTextLayout];
    Sig [] "setDescent" [PNumber cxx_qreal] RVoid [On QTextInlineObject];
    Sig [VALUE_TYPE_QTGUI_QFONT] "setFont" [PValue QFont] RVoid [On QTextLayout];
    Sig [VALUE_TYPE_QTGUI_QTEXTLENGTH] "setHeight" [PValue QTextLength] RVoid [On QTextFrameFormat];
    Sig [] "setHeight" [PNumber cxx_qreal] RVoid [On QTextFrameFormat; On QTextImageFormat]
  ].

Definition value_methods_qtgui_12_s66 : list signature_row :=
  [
    Sig [] "setLeadingIncluded" [PBool] RVoid [On QTextLine];
    Sig [] "setLeftMargin" [PNumber cxx_qreal] RVoid [On QTextFrameFormat];
    Sig [] "setLineWidth" [PNumber cxx_qreal] RVoid [On QTextLine];
    Sig [] "setMargin" [PNumber cxx_qreal] RVoid [On QTextFrameFormat];
    Sig [VALUE_TYPE_QTGUI_QTEXTLENGTH] "setMaximumWidth" [PValue QTextLength] RVoid [On QTextImageFormat];
    Sig [] "setName" [PString true] RVoid [On QTextImageFormat];
    Sig [] "setNumColumns" [PInt] RVoid [On QTextLine];
    Sig [] "setNumColumns" [PInt; PNumber cxx_qreal] RVoid [On QTextLine];
    Sig [] "setPadding" [PNumber cxx_qreal] RVoid [On QTextFrameFormat]
  ].

Definition value_methods_qtgui_12_s75 : list signature_row :=
  [
    Sig [VALUE_TYPE_QTCORE_QPOINTF] "setPosition" [PValue QPointF] RVoid [On QTextLayout; On QTextLine];
    Sig [TYPE_QTGUI_QTEXTFRAMEFORMAT] "setPosition" [PValue QTextFrameFormat_Position] RVoid [On
        QTextFrameFormat];
    Sig [] "setPreeditArea" [PInt; PString true] RVoid [On QTextLayout];
    Sig [] "setQuality" [PInt] RVoid [On QTextImageFormat];
    Sig [] "setRightMargin" [PNumber cxx_qreal] RVoid [On QTextFrameFormat];
    Sig [] "setText" [PString true] RVoid [On QTextLayout];
    Sig [VALUE_TYPE_QTGUI_QTEXTOPTION] "setTextOption" [PValue QTextOption] RVoid [On QTextLayout];
    Sig [] "setTopMargin" [PNumber cxx_qreal] RVoid [On QTextFrameFormat];
    Sig [VALUE_TYPE_QTGUI_QTEXTLENGTH] "setWidth" [PValue QTextLength] RVoid [On QTextFrameFormat]
  ].

Definition value_methods_qtgui_12_s84 : list signature_row :=
  [
    Sig [] "setWidth" [PNumber cxx_qreal] RVoid [On QTextFrameFormat; On QTextImageFormat; On
        QTextInlineObject];
    Sig [] "text" [] RString [On QTextFragment; On QTextItem; On QTextLayout];
    Sig [ENUM_QT_LAYOUTDIRECTION] "textDirection" [] (RMeta Qt_LayoutDirection) [On QTextInlineObject];
    Sig [] "textLength" [] RDouble [On QTextLine];
    Sig [VALUE_TYPE_QTGUI_QTEXTOPTION] "textOption" [] (RValue QTextOption) [On QTextLayout];
    Sig [] "textPosition" [] RDouble [On QTextInlineObject];
    Sig [] "textStart" [] RDouble [On QTextLine];
    Sig [] "topMargin" [] RDouble [On QTextFrameFormat];
    Sig [TYPE_QTGUI_QTEXTLENGTH] "type" [] (RMeta QTextLength_Type) [On QTextLength]
  ].

Definition value_methods_qtgui_12_s93 : list signature_row :=
  [
    Sig [] "value" [PNumber cxx_qreal] RDouble [On QTextLength];
    Sig [VALUE_TYPE_QTGUI_QTEXTLENGTH] "width" [] (RValue QTextLength) [On QTextFrameFormat];
    Sig [] "width" [] RDouble [On QTextImageFormat; On QTextInlineObject; On QTextItem; On QTextLine];
    Sig [] "x" [] RDouble [On QTextLine];
    Sig [TYPE_QTGUI_QTEXTLINE] "xToCursor" [PNumber cxx_qreal; PValue QTextLine_CursorPosition] RDouble [On
        QTextLine];
    Sig [] "y" [] RDouble [On QTextLine]
  ].

Definition value_methods_qtgui_12_types : list string :=
  [
    QTextFragment;
    QTextFrameFormat;
    QTextImageFormat;
    QTextInlineObject;
    QTextItem;
    QTextLayout;
    QTextLength;
    QTextLine
  ].

Definition value_methods_qtgui_12 : method_shard :=
  MethodShard QtGui "KRY_QT6_NATIVE_METHODS_QTGUI_"
    (value_methods_qtgui_12_i0)
    (value_methods_qtgui_12_s0 ++ value_methods_qtgui_12_s10 ++ value_methods_qtgui_12_s19 ++
        value_methods_qtgui_12_s26 ++ value_methods_qtgui_12_s37 ++ value_methods_qtgui_12_s47 ++
        value_methods_qtgui_12_s57 ++ value_methods_qtgui_12_s66 ++ value_methods_qtgui_12_s75 ++
        value_methods_qtgui_12_s84 ++ value_methods_qtgui_12_s93)
    value_methods_qtgui_12_types.

Definition value_methods_qtgui_13_i0 : list include :=
  [
    ClassInclude QtGui QTextListFormat QTextListFormat;
    ClassInclude QtGui QTextOption QTextOption;
    ClassInclude QtGui QTextTableCell QTextTableCell;
    ClassInclude QtGui QTextTableCellFormat QTextTableCellFormat;
    ClassInclude QtGui QTextTableFormat QTextTableFormat;
    ClassInclude QtGui QTouchEvent QTouchEvent;
    ClassInclude QtGui QTransform QTransform;
    ClassInclude QtGui QUndoCommand QUndoCommand;
    TypeInclude QtCore QObject TYPE_QTCORE_QOBJECT;
    EnumDefine ENUM_QT_AXIS;
    EnumDefine ENUM_QT_LAYOUTDIRECTION;
    TypeInclude QtGui QEventPoint TYPE_QTGUI_QEVENTPOINT;
    TypeInclude QtGui QTextFrameFormat TYPE_QTGUI_QTEXTFRAMEFORMAT;
    TypeInclude QtGui QTextListFormat TYPE_QTGUI_QTEXTLISTFORMAT;
    TypeInclude QtGui QTextOption TYPE_QTGUI_QTEXTOPTION;
    TypeInclude QtGui QTransform TYPE_QTGUI_QTRANSFORM;
    TypeInclude QtCore QLine VALUE_TYPE_QTCORE_QLINE;
    TypeInclude QtCore QLineF VALUE_TYPE_QTCORE_QLINEF;
    TypeInclude QtCore QPoint VALUE_TYPE_QTCORE_QPOINT;
    TypeInclude QtCore QPointF VALUE_TYPE_QTCORE_QPOINTF;
    TypeInclude QtCore QRect VALUE_TYPE_QTCORE_QRECT;
    TypeInclude QtCore QRectF VALUE_TYPE_QTCORE_QRECTF;
    TypeInclude QtGui QBrush VALUE_TYPE_QTGUI_QBRUSH;
    TypeInclude QtGui QPainterPath VALUE_TYPE_QTGUI_QPAINTERPATH;
    TypeInclude QtGui QPolygon VALUE_TYPE_QTGUI_QPOLYGON;
    TypeInclude QtGui QPolygonF VALUE_TYPE_QTGUI_QPOLYGONF;
    TypeInclude QtGui QRegion VALUE_TYPE_QTGUI_QREGION;
    TypeInclude QtGui QTextCharFormat VALUE_TYPE_QTGUI_QTEXTCHARFORMAT;
    TypeInclude QtGui QTextCursor VALUE_TYPE_QTGUI_QTEXTCURSOR;
    TypeInclude QtGui QTextLength VALUE_TYPE_QTGUI_QTEXTLENGTH;
    TypeInclude QtGui QTransform VALUE_TYPE_QTGUI_QTRANSFORM
  ].

Definition value_methods_qtgui_13_s0 : list signature_row :=
  [
    Sig [] "actionText" [] RString [On QUndoCommand];
    Sig [VALUE_TYPE_QTGUI_QTRANSFORM] "adjoint" [] (RValue QTransform) [On QTransform];
    Sig [] "borderCollapse" [] RBool [On QTextTableFormat];
    Sig [] "bottomBorder" [] RDouble [On QTextTableCellFormat];
    Sig [VALUE_TYPE_QTGUI_QBRUSH] "bottomBorderBrush" [] (RValue QBrush) [On QTextTableCellFormat];
    Sig [TYPE_QTGUI_QTEXTFRAMEFORMAT] "bottomBorderStyle" [] (RMeta QTextFrameFormat_BorderStyle) [On
        QTextTableCellFormat];
    Sig [] "bottomPadding" [] RDouble [On QTextTableCellFormat];
    Sig [] "cellPadding" [] RDouble [On QTextTableFormat];
    Sig [] "cellSpacing" [] RDouble [On QTextTableFormat];
    Sig [] "childCount" [] RDouble [On QUndoCommand];
    Sig [] "clearColumnWidthConstraints" [] RVoid [On QTextTableFormat]
  ].

Definition value_methods_qtgui_13_s11 : list signature_row :=
  [
    Sig [] "column" [] RDouble [On QTextTableCell];
    Sig [] "columnSpan" [] RDouble [On QTextTableCell];
    Sig [VALUE_TYPE_QTGUI_QTEXTLENGTH] "columnWidthConstraints" [] (RList (IValue QTextLength)) [On
        QTextTableFormat];
    Sig [] "columns" [] RDouble [On QTextTableFormat];
    Sig [] "determinant" [] RDouble [On QTransform];
    Sig [] "dx" [] RDouble [On QTransform];
    Sig [] "dy" [] RDouble [On QTransform];
    Sig [VALUE_TYPE_QTGUI_QTEXTCURSOR] "firstCursorPosition" [] (RValue QTextCursor) [On QTextTableCell];
    Sig [TYPE_QTGUI_QTEXTOPTION] "flags" [] (RMeta QTextOption_Flags) [On QTextOption];
    Sig [VALUE_TYPE_QTGUI_QTEXTCHARFORMAT] "format" [] (RValue QTextCharFormat) [On QTextTableCell];
    Sig [] "headerRowCount" [] RDouble [On QTextTableFormat]
  ].

Definition value_methods_qtgui_13_s22 : list signature_row :=
  [
    Sig [] "id" [] RDouble [On QUndoCommand];
    Sig [] "indent" [] RDouble [On QTextListFormat];
    Sig [] "isAffine" [] RBool [On QTransform];
    Sig [] "isBeginEvent" [] RBool [On QTouchEvent];
    Sig [] "isEndEvent" [] RBool [On QTouchEvent];
    Sig [] "isIdentity" [] RBool [On QTransform];
    Sig [] "isInvertible" [] RBool [On QTransform];
    Sig [] "isObsolete" [] RBool [On QUndoCommand];
    Sig [] "isRotating" [] RBool [On QTransform];
    Sig [] "isScaling" [] RBool [On QTransform];
    Sig [] "isTranslating" [] RBool [On QTransform];
    Sig [] "isUpdateEvent" [] RBool [On QTouchEvent]
  ].

Definition value_methods_qtgui_13_s34 : list signature_row :=
  [
    Sig [] "isValid" [] RBool [On QTextListFormat; On QTextTableCell; On QTextTableCellFormat; On
        QTextTableFormat];
    Sig [VALUE_TYPE_QTGUI_QTEXTCURSOR] "lastCursorPosition" [] (RValue QTextCursor) [On QTextTableCell];
    Sig [] "leftBorder" [] RDouble [On QTextTableCellFormat];
    Sig [VALUE_TYPE_QTGUI_QBRUSH] "leftBorderBrush" [] (RValue QBrush) [On QTextTableCellFormat];
    Sig [TYPE_QTGUI_QTEXTFRAMEFORMAT] "leftBorderStyle" [] (RMeta QTextFrameFormat_BorderStyle) [On
        QTextTableCellFormat];
    Sig [] "leftPadding" [] RDouble [On QTextTableCellFormat];
    Sig [] "m11" [] RDouble [On QTransform];
    Sig [] "m12" [] RDouble [On QTransform];
    Sig [] "m13" [] RDouble [On QTransform];
    Sig [] "m21" [] RDouble [On QTransform]
  ].

Definition value_methods_qtgui_13_s44 : list signature_row :=
  [
    Sig [] "m22" [] RDouble [On QTransform];
    Sig [] "m23" [] RDouble [On QTransform];
    Sig [] "m31" [] RDouble [On QTransform];
    Sig [] "m32" [] RDouble [On QTransform];
    Sig [] "m33" [] RDouble [On QTransform];
    Sig [VALUE_TYPE_QTCORE_QLINE] "map" [PValue QLine] (RValue QLine) [On QTransform];
    Sig [VALUE_TYPE_QTCORE_QLINEF] "map" [PValue QLineF] (RValue QLineF) [On QTransform];
    Sig [VALUE_TYPE_QTGUI_QPAINTERPATH] "map" [PValue QPainterPath] (RValue QPainterPath) [On QTransform];
    Sig [VALUE_TYPE_QTCORE_QPOINT] "map" [PValue QPoint] (RValue QPoint) [On QTransform];
    Sig [VALUE_TYPE_QTCORE_QPOINTF] "map" [PValue QPointF] (RValue QPointF) [On QTransform]
  ].

Definition value_methods_qtgui_13_s54 : list signature_row :=
  [
    Sig [VALUE_TYPE_QTGUI_QPOLYGON] "map" [PValue QPolygon] (RValue QPolygon) [On QTransform];
    Sig [VALUE_TYPE_QTGUI_QPOLYGONF] "map" [PValue QPolygonF] (RValue QPolygonF) [On QTransform];
    Sig [VALUE_TYPE_QTGUI_QREGION] "map" [PValue QRegion] (RValue QRegion) [On QTransform];
    Sig [VALUE_TYPE_QTCORE_QRECT] "mapRect" [PValue QRect] (RValue QRect) [On QTransform];
    Sig [VALUE_TYPE_QTCORE_QRECTF] "mapRect" [PValue QRectF] (RValue QRectF) [On QTransform];
    Sig [VALUE_TYPE_QTCORE_QRECT; VALUE_TYPE_QTGUI_QPOLYGON] "mapToPolygon" [PValue QRect] (RValue
        QPolygon) [On QTransform];
    Sig [] "numberPrefix" [] RString [On QTextListFormat];
    Sig [] "numberSuffix" [] RString [On QTextListFormat];
    Sig [] "redo" [] RVoid [On QUndoCommand]
  ].

Definition value_methods_qtgui_13_s63 : list signature_row :=
  [
    Sig [] "reset" [] RVoid [On QTransform];
    Sig [] "rightBorder" [] RDouble [On QTextTableCellFormat];
    Sig [VALUE_TYPE_QTGUI_QBRUSH] "rightBorderBrush" [] (RValue QBrush) [On QTextTableCellFormat];
    Sig [TYPE_QTGUI_QTEXTFRAMEFORMAT] "rightBorderStyle" [] (RMeta QTextFrameFormat_BorderStyle) [On
        QTextTableCellFormat];
    Sig [] "rightPadding" [] RDouble [On QTextTableCellFormat];
    Sig [ENUM_QT_AXIS; VALUE_TYPE_QTGUI_QTRANSFORM] "rotate" [PNumber cxx_qreal; PValue Qt_Axis] (RValue
        QTransform) [On QTransform];
    Sig [ENUM_QT_AXIS; VALUE_TYPE_QTGUI_QTRANSFORM] "rotate" [PNumber cxx_qreal; PValue Qt_Axis; PNumber
        cxx_qreal] (RValue QTransform) [On QTransform];
    Sig [ENUM_QT_AXIS; VALUE_TYPE_QTGUI_QTRANSFORM] "rotateRadians" [PNumber cxx_qreal; PValue Qt_Axis]
        (RValue QTransform) [On QTransform];
    Sig [ENUM_QT_AXIS; VALUE_TYPE_QTGUI_QTRANSFORM] "rotateRadians" [PNumber cxx_qreal; PValue Qt_Axis;
        PNumber cxx_qreal] (RValue QTransform) [On QTransform]
  ].

Definition value_methods_qtgui_13_s72 : list signature_row :=
  [
    Sig [] "row" [] RDouble [On QTextTableCell];
    Sig [] "rowSpan" [] RDouble [On QTextTableCell];
    Sig [VALUE_TYPE_QTGUI_QTRANSFORM] "scale" [PNumber cxx_qreal; PNumber cxx_qreal] (RValue QTransform)
        [On QTransform];
    Sig [] "setBorder" [PNumber cxx_qreal] RVoid [On QTextTableCellFormat];
    Sig [VALUE_TYPE_QTGUI_QBRUSH] "setBorderBrush" [PValue QBrush] RVoid [On QTextTableCellFormat];
    Sig [] "setBorderCollapse" [PBool] RVoid [On QTextTableFormat];
    Sig [TYPE_QTGUI_QTEXTFRAMEFORMAT] "setBorderStyle" [PValue QTextFrameFormat_BorderStyle] RVoid [On
        QTextTableCellFormat];
    Sig [] "setBottomBorder" [PNumber cxx_qreal] RVoid [On QTextTableCellFormat];
    Sig [VALUE_TYPE_QTGUI_QBRUSH] "setBottomBorderBrush" [PValue QBrush] RVoid [On QTextTableCellFormat]
  ].

Definition value_methods_qtgui_13_s81 : list signature_row :=
  [
    Sig [TYPE_QTGUI_QTEXTFRAMEFORMAT] "setBottomBorderStyle" [PValue QTextFrameFormat_BorderStyle] RVoid
        [On QTextTableCellFormat];
    Sig [] "setBottomPadding" [PNumber cxx_qreal] RVoid [On QTextTableCellFormat];
    Sig [] "setCellPadding" [PNumber cxx_qreal] RVoid [On QTextTableFormat];
    Sig [] "setCellSpacing" [PNumber cxx_qreal] RVoid [On QTextTableFormat];
    Sig [VALUE_TYPE_QTGUI_QTEXTLENGTH] "setColumnWidthConstraints" [PList (IValue QTextLength)] RVoid [On
        QTextTableFormat];
    Sig [] "setColumns" [PInt] RVoid [On QTextTableFormat];
    Sig [TYPE_QTGUI_QTEXTOPTION] "setFlags" [PValue QTextOption_Flags] RVoid [On QTextOption];
    Sig [VALUE_TYPE_QTGUI_QTEXTCHARFORMAT] "setFormat" [PValue QTextCharFormat] RVoid [On QTextTableCell];
    Sig [] "setHeaderRowCount" [PInt] RVoid [On QTextTableFormat]
  ].

Definition value_methods_qtgui_13_s90 : list signature_row :=
  [
    Sig [] "setIndent" [PInt] RVoid [On QTextListFormat];
    Sig [] "setLeftBorder" [PNumber cxx_qreal] RVoid [On QTextTableCellFormat];
    Sig [VALUE_TYPE_QTGUI_QBRUSH] "setLeftBorderBrush" [PValue QBrush] RVoid [On QTextTableCellFormat];
    Sig [TYPE_QTGUI_QTEXTFRAMEFORMAT] "setLeftBorderStyle" [PValue QTextFrameFormat_BorderStyle] RVoid [On
        QTextTableCellFormat];
    Sig [] "setLeftPadding" [PNumber cxx_qreal] RVoid [On QTextTableCellFormat];
    Sig [] "setMatrix" [PNumber cxx_qreal; PNumber cxx_qreal; PNumber cxx_qreal; PNumber cxx_qreal; PNumber
        cxx_qreal; PNumber cxx_qreal; PNumber cxx_qreal; PNumber cxx_qreal; PNumber cxx_qreal] RVoid [On
        QTransform];
    Sig [] "setNumberPrefix" [PString true] RVoid [On QTextListFormat];
    Sig [] "setNumberSuffix" [PString true] RVoid [On QTextListFormat];
    Sig [] "setObsolete" [PBool] RVoid [On QUndoCommand]
  ].

Definition value_methods_qtgui_13_s99 : list signature_row :=
  [
    Sig [] "setPadding" [PNumber cxx_qreal] RVoid [On QTextTableCellFormat];
    Sig [] "setRightBorder" [PNumber cxx_qreal] RVoid [On QTextTableCellFormat];
    Sig [VALUE_TYPE_QTGUI_QBRUSH] "setRightBorderBrush" [PValue QBrush] RVoid [On QTextTableCellFormat];
    Sig [TYPE_QTGUI_QTEXTFRAMEFORMAT] "setRightBorderStyle" [PValue QTextFrameFormat_BorderStyle] RVoid [On
        QTextTableCellFormat];
    Sig [] "setRightPadding" [PNumber cxx_qreal] RVoid [On QTextTableCellFormat];
    Sig [] "setStart" [PInt] RVoid [On QTextListFormat];
    Sig [TYPE_QTGUI_QTEXTLISTFORMAT] "setStyle" [PValue QTextListFormat_Style] RVoid [On QTextListFormat];
    Sig [] "setTabArray" [PList (IMeta cxx_qreal)] RVoid [On QTextOption];
    Sig [] "setTabStopDistance" [PNumber cxx_qreal] RVoid [On QTextOption]
  ].

Definition value_methods_qtgui_13_s108 : list signature_row :=
  [
    Sig [] "setText" [PString true] RVoid [On QUndoCommand];
    Sig [ENUM_QT_LAYOUTDIRECTION] "setTextDirection" [PValue Qt_LayoutDirection] RVoid [On QTextOption];
    Sig [] "setTopBorder" [PNumber cxx_qreal] RVoid [On QTextTableCellFormat];
    Sig [VALUE_TYPE_QTGUI_QBRUSH] "setTopBorderBrush" [PValue QBrush] RVoid [On QTextTableCellFormat];
    Sig [TYPE_QTGUI_QTEXTFRAMEFORMAT] "setTopBorderStyle" [PValue QTextFrameFormat_BorderStyle] RVoid [On
        QTextTableCellFormat];
    Sig [] "setTopPadding" [PNumber cxx_qreal] RVoid [On QTextTableCellFormat];
    Sig [] "setUseDesignMetrics" [PBool] RVoid [On QTextOption];
    Sig [TYPE_QTGUI_QTEXTOPTION] "setWrapMode" [PValue QTextOption_WrapMode] RVoid [On QTextOption];
    Sig [VALUE_TYPE_QTGUI_QTRANSFORM] "shear" [PNumber cxx_qreal; PNumber cxx_qreal] (RValue QTransform)
        [On QTransform]
  ].

Definition value_methods_qtgui_13_s117 : list signature_row :=
  [
    Sig [] "start" [] RDouble [On QTextListFormat];
    Sig [TYPE_QTGUI_QTEXTLISTFORMAT] "style" [] (RMeta QTextListFormat_Style) [On QTextListFormat];
    Sig [] "tabArray" [] (RList (IMeta cxx_qreal)) [On QTextOption];
    Sig [] "tabStopDistance" [] RDouble [On QTextOption];
    Sig [] "tableCellFormatIndex" [] RDouble [On QTextTableCell];
    Sig [TYPE_QTCORE_QOBJECT] "target" [] RObject [On QTouchEvent];
    Sig [] "text" [] RString [On QUndoCommand];
    Sig [ENUM_QT_LAYOUTDIRECTION] "textDirection" [] (RMeta Qt_LayoutDirection) [On QTextOption];
    Sig [] "topBorder" [] RDouble [On QTextTableCellFormat];
    Sig [VALUE_TYPE_QTGUI_QBRUSH] "topBorderBrush" [] (RValue QBrush) [On QTextTableCellFormat];
    Sig [TYPE_QTGUI_QTEXTFRAMEFORMAT] "topBorderStyle" [] (RMeta QTextFrameFormat_BorderStyle) [On
        QTextTableCellFormat]
  ].

Definition value_methods_qtgui_13_s128 : list signature_row :=
  [
    Sig [] "topPadding" [] RDouble [On QTextTableCellFormat];
    Sig [TYPE_QTGUI_QEVENTPOINT] "touchPointStates" [] (RMeta QEventPoint_States) [On QTouchEvent];
    Sig [VALUE_TYPE_QTGUI_QTRANSFORM] "translate" [PNumber cxx_qreal; PNumber cxx_qreal] (RValue
        QTransform) [On QTransform];
    Sig [VALUE_TYPE_QTGUI_QTRANSFORM] "transposed" [] (RValue QTransform) [On QTransform];
    Sig [TYPE_QTGUI_QTRANSFORM] "type" [] (RMeta QTransform_TransformationType) [On QTransform];
    Sig [] "undo" [] RVoid [On QUndoCommand];
    Sig [] "useDesignMetrics" [] RBool [On QTextOption];
    Sig [TYPE_QTGUI_QTEXTOPTION] "wrapMode" [] (RMeta QTextOption_WrapMode) [On QTextOption]
  ].

Definition value_methods_qtgui_13_types : list string :=
  [
    QTextListFormat;
    QTextOption;
    QTextTableCell;
    QTextTableCellFormat;
    QTextTableFormat;
    QTouchEvent;
    QTransform;
    QUndoCommand
  ].

Definition value_methods_qtgui_13 : method_shard :=
  MethodShard QtGui "KRY_QT6_NATIVE_METHODS_QTGUI_"
    (value_methods_qtgui_13_i0)
    (value_methods_qtgui_13_s0 ++ value_methods_qtgui_13_s11 ++ value_methods_qtgui_13_s22 ++
        value_methods_qtgui_13_s34 ++ value_methods_qtgui_13_s44 ++ value_methods_qtgui_13_s54 ++
        value_methods_qtgui_13_s63 ++ value_methods_qtgui_13_s72 ++ value_methods_qtgui_13_s81 ++
        value_methods_qtgui_13_s90 ++ value_methods_qtgui_13_s99 ++ value_methods_qtgui_13_s108 ++
        value_methods_qtgui_13_s117 ++ value_methods_qtgui_13_s128)
    value_methods_qtgui_13_types.

Definition value_methods_qtgui_14_i0 : list include :=
  [
    ClassInclude QtGui QVector2D QVector2D;
    ClassInclude QtGui QVector3D QVector3D;
    ClassInclude QtGui QVector4D QVector4D;
    ClassInclude QtGui QWhatsThisClickedEvent QWhatsThisClickedEvent;
    ClassInclude QtGui QWheelEvent QWheelEvent;
    ClassInclude QtGui QWindowStateChangeEvent QWindowStateChangeEvent;
    EnumDefine ENUM_QT_SCROLLPHASE;
    EnumDefine ENUM_QT_WINDOWSTATES;
    TypeInclude QtCore QPoint VALUE_TYPE_QTCORE_QPOINT;
    TypeInclude QtCore QPointF VALUE_TYPE_QTCORE_QPOINTF;
    TypeInclude QtCore QRect VALUE_TYPE_QTCORE_QRECT;
    TypeInclude QtGui QMatrix4x4 VALUE_TYPE_QTGUI_QMATRIX4X4;
    TypeInclude QtGui QVector2D VALUE_TYPE_QTGUI_QVECTOR2D;
    TypeInclude QtGui QVector3D VALUE_TYPE_QTGUI_QVECTOR3D;
    TypeInclude QtGui QVector4D VALUE_TYPE_QTGUI_QVECTOR4D
  ].

Definition value_methods_qtgui_14_s0 : list signature_row :=
  [
    Sig [VALUE_TYPE_QTCORE_QPOINT] "angleDelta" [] (RValue QPoint) [On QWheelEvent];
    Sig [VALUE_TYPE_QTGUI_QVECTOR2D] "distanceToLine" [PValue QVector2D; PValue QVector2D] RDouble [On
        QVector2D];
    Sig [VALUE_TYPE_QTGUI_QVECTOR3D] "distanceToLine" [PValue QVector3D; PValue QVector3D] RDouble [On
        QVector3D];
    Sig [VALUE_TYPE_QTGUI_QVECTOR3D] "distanceToPlane" [PValue QVector3D; PValue QVector3D] RDouble [On
        QVector3D];
    Sig [VALUE_TYPE_QTGUI_QVECTOR3D] "distanceToPlane" [PValue QVector3D; PValue QVector3D; PValue
        QVector3D] RDouble [On QVector3D];
    Sig [VALUE_TYPE_QTGUI_QVECTOR2D] "distanceToPoint" [PValue QVector2D] RDouble [On QVector2D];
    Sig [VALUE_TYPE_QTGUI_QVECTOR3D] "distanceToPoint" [PValue QVector3D] RDouble [On QVector3D];
    Sig [] "href" [] RString [On QWhatsThisClickedEvent];
    Sig [] "inverted" [] RBool [On QWheelEvent]
  ].

Definition value_methods_qtgui_14_s9 : list signature_row :=
  [
    Sig [] "isBeginEvent" [] RBool [On QWheelEvent];
    Sig [] "isEndEvent" [] RBool [On QWheelEvent];
    Sig [] "isNull" [] RBool [On QVector2D; On QVector3D; On QVector4D];
    Sig [] "isUpdateEvent" [] RBool [On QWheelEvent];
    Sig [] "length" [] RDouble [On QVector2D; On QVector3D; On QVector4D];
    Sig [] "lengthSquared" [] RDouble [On QVector2D; On QVector3D; On QVector4D];
    Sig [] "normalize" [] RVoid [On QVector2D; On QVector3D; On QVector4D];
    Sig [VALUE_TYPE_QTGUI_QVECTOR2D] "normalized" [] (RValue QVector2D) [On QVector2D]
  ].

Definition value_methods_qtgui_14_s17 : list signature_row :=
  [
    Sig [VALUE_TYPE_QTGUI_QVECTOR3D] "normalized" [] (RValue QVector3D) [On QVector3D];
    Sig [VALUE_TYPE_QTGUI_QVECTOR4D] "normalized" [] (RValue QVector4D) [On QVector4D];
    Sig [ENUM_QT_WINDOWSTATES] "oldState" [] (RMeta Qt_WindowStates) [On QWindowStateChangeEvent];
    Sig [ENUM_QT_SCROLLPHASE] "phase" [] (RMeta Qt_ScrollPhase) [On QWheelEvent];
    Sig [VALUE_TYPE_QTCORE_QPOINT] "pixelDelta" [] (RValue QPoint) [On QWheelEvent];
    Sig [VALUE_TYPE_QTCORE_QRECT; VALUE_TYPE_QTGUI_QMATRIX4X4; VALUE_TYPE_QTGUI_QVECTOR3D] "project"
        [PValue QMatrix4x4; PValue QMatrix4x4; PValue QRect] (RValue QVector3D) [On QVector3D];
    Sig [] "setW" [PNumber cxx_float] RVoid [On QVector4D];
    Sig [] "setX" [PNumber cxx_float] RVoid [On QVector2D; On QVector3D; On QVector4D]
  ].

Definition value_methods_qtgui_14_s25 : list signature_row :=
  [
    Sig [] "setY" [PNumber cxx_float] RVoid [On QVector2D; On QVector3D; On QVector4D];
    Sig [] "setZ" [PNumber cxx_float] RVoid [On QVector3D; On QVector4D];
    Sig [VALUE_TYPE_QTCORE_QPOINT] "toPoint" [] (RValue QPoint) [On QVector2D; On QVector3D; On QVector4D];
    Sig [VALUE_TYPE_QTCORE_QPOINTF] "toPointF" [] (RValue QPointF) [On QVector2D; On QVector3D; On
        QVector4D];
    Sig [VALUE_TYPE_QTGUI_QVECTOR2D] "toVector2D" [] (RValue QVector2D) [On QVector3D; On QVector4D];
    Sig [VALUE_TYPE_QTGUI_QVECTOR2D] "toVector2DAffine" [] (RValue QVector2D) [On QVector4D]
  ].

Definition value_methods_qtgui_14_s31 : list signature_row :=
  [
    Sig [VALUE_TYPE_QTGUI_QVECTOR3D] "toVector3D" [] (RValue QVector3D) [On QVector2D; On QVector4D];
    Sig [VALUE_TYPE_QTGUI_QVECTOR3D] "toVector3DAffine" [] (RValue QVector3D) [On QVector4D];
    Sig [VALUE_TYPE_QTGUI_QVECTOR4D] "toVector4D" [] (RValue QVector4D) [On QVector2D; On QVector3D];
    Sig [VALUE_TYPE_QTCORE_QRECT; VALUE_TYPE_QTGUI_QMATRIX4X4; VALUE_TYPE_QTGUI_QVECTOR3D] "unproject"
        [PValue QMatrix4x4; PValue QMatrix4x4; PValue QRect] (RValue QVector3D) [On QVector3D];
    Sig [] "w" [] RDouble [On QVector4D];
    Sig [] "x" [] RDouble [On QVector2D; On QVector3D; On QVector4D];
    Sig [] "y" [] RDouble [On QVector2D; On QVector3D; On QVector4D]
  ].

Definition value_methods_qtgui_14_s38 : list signature_row :=
  [
    Sig [] "z" [] RDouble [On QVector3D; On QVector4D]
  ].

Definition value_methods_qtgui_14_types : list string :=
  [
    QVector2D;
    QVector3D;
    QVector4D;
    QWhatsThisClickedEvent;
    QWheelEvent;
    QWindowStateChangeEvent
  ].

Definition value_methods_qtgui_14 : method_shard :=
  MethodShard QtGui "KRY_QT6_NATIVE_METHODS_QTGUI_"
    (value_methods_qtgui_14_i0)
    (value_methods_qtgui_14_s0 ++ value_methods_qtgui_14_s9 ++ value_methods_qtgui_14_s17 ++
        value_methods_qtgui_14_s25 ++ value_methods_qtgui_14_s31 ++ value_methods_qtgui_14_s38)
    value_methods_qtgui_14_types.

Definition value_methods_qtgui_2_i0 : list include :=
  [
    ClassInclude QtGui QFocusEvent QFocusEvent;
    ClassInclude QtGui QFont QFont;
    ClassInclude QtGui QFontInfo QFontInfo;
    ClassInclude QtGui QFontMetrics QFontMetrics;
    ClassInclude QtGui QFontMetricsF QFontMetricsF;
    ClassInclude QtGui QFontVariableAxis QFontVariableAxis;
    ClassInclude QtGui QGlyphRun QGlyphRun;
    ClassInclude QtGui QGradient QGradient;
    EnumDefine ENUM_QT_FOCUSREASON;
    EnumDefine ENUM_QT_TEXTELIDEMODE;
    TypeInclude QtGui QFont TYPE_QTGUI_QFONT;
    TypeInclude QtGui QGlyphRun TYPE_QTGUI_QGLYPHRUN;
    TypeInclude QtGui QGradient TYPE_QTGUI_QGRADIENT;
    TypeInclude QtCore QPointF VALUE_TYPE_QTCORE_QPOINTF;
    TypeInclude QtCore QRect VALUE_TYPE_QTCORE_QRECT;
    TypeInclude QtCore QRectF VALUE_TYPE_QTCORE_QRECTF;
    TypeInclude QtGui QColor VALUE_TYPE_QTGUI_QCOLOR;
    TypeInclude QtGui QFont VALUE_TYPE_QTGUI_QFONT;
    TypeInclude QtGui QFontInfo VALUE_TYPE_QTGUI_QFONTINFO;
    TypeInclude QtGui QFontMetrics VALUE_TYPE_QTGUI_QFONTMETRICS;
    TypeInclude QtGui QFontMetricsF VALUE_TYPE_QTGUI_QFONTMETRICSF;
    TypeInclude QtGui QFontVariableAxis VALUE_TYPE_QTGUI_QFONTVARIABLEAXIS;
    TypeInclude QtGui QGlyphRun VALUE_TYPE_QTGUI_QGLYPHRUN;
    TypeInclude QtGui QRawFont VALUE_TYPE_QTGUI_QRAWFONT;
    TypeInclude QtGui QTextOption VALUE_TYPE_QTGUI_QTEXTOPTION
  ].

Definition value_methods_qtgui_2_s0 : list signature_row :=
  [
    Sig [] "ascent" [] RDouble [On QFontMetrics];
    Sig [] "ascent" [] RDouble [On QFontMetricsF];
    Sig [] "averageCharWidth" [] RDouble [On QFontMetrics];
    Sig [] "averageCharWidth" [] RDouble [On QFontMetricsF];
    Sig [] "bold" [] RBool [On QFont; On QFontInfo];
    Sig [VALUE_TYPE_QTCORE_QRECTF] "boundingRect" [] (RValue QRectF) [On QGlyphRun];
    Sig [VALUE_TYPE_QTCORE_QRECT] "boundingRect" [PString true] (RValue QRect) [On QFontMetrics];
    Sig [VALUE_TYPE_QTCORE_QRECTF] "boundingRect" [PString true] (RValue QRectF) [On QFontMetricsF];
    Sig [VALUE_TYPE_QTCORE_QRECT; VALUE_TYPE_QTGUI_QTEXTOPTION] "boundingRect" [PString true; PValue
        QTextOption] (RValue QRect) [On QFontMetrics]
  ].

Definition value_methods_qtgui_2_s9 : list signature_row :=
  [
    Sig [VALUE_TYPE_QTCORE_QRECTF; VALUE_TYPE_QTGUI_QTEXTOPTION] "boundingRect" [PString true; PValue
        QTextOption] (RValue QRectF) [On QFontMetricsF];
    Sig [] "capHeight" [] RDouble [On QFontMetrics];
    Sig [] "capHeight" [] RDouble [On QFontMetricsF];
    Sig [TYPE_QTGUI_QFONT] "capitalization" [] (RMeta QFont_Capitalization) [On QFont];
    Sig [] "clear" [] RVoid [On QGlyphRun];
    Sig [] "clearFeatures" [] RVoid [On QFont];
    Sig [] "clearVariableAxes" [] RVoid [On QFont];
    Sig [TYPE_QTGUI_QGRADIENT] "coordinateMode" [] (RMeta QGradient_CoordinateMode) [On QGradient];
    Sig [] "defaultFamily" [] RString [On QFont];
    Sig [] "defaultValue" [] RDouble [On QFontVariableAxis];
    Sig [] "descent" [] RDouble [On QFontMetrics]
  ].

Definition value_methods_qtgui_2_s20 : list signature_row :=
  [
    Sig [] "descent" [] RDouble [On QFontMetricsF];
    Sig [ENUM_QT_TEXTELIDEMODE] "elidedText" [PString true; PValue Qt_TextElideMode; PInt; PInt] RString
        [On QFontMetrics];
    Sig [ENUM_QT_TEXTELIDEMODE] "elidedText" [PString true; PValue Qt_TextElideMode; PNumber cxx_qreal;
        PInt] RString [On QFontMetricsF];
    Sig [] "exactMatch" [] RBool [On QFont; On QFontInfo];
    Sig [] "families" [] (RList (IMeta QString)) [On QFont];
    Sig [] "family" [] RString [On QFont; On QFontInfo];
    Sig [TYPE_QTGUI_QFONT] "featureTags" [] (RList (IMeta QFont_Tag)) [On QFont];
    Sig [] "fixedPitch" [] RBool [On QFont; On QFontInfo]
  ].

Definition value_methods_qtgui_2_s28 : list signature_row :=
  [
    Sig [TYPE_QTGUI_QGLYPHRUN] "flags" [] (RMeta QGlyphRun_GlyphRunFlags) [On QGlyphRun];
    Sig [] "fontDpi" [] RDouble [On QFontMetrics; On QFontMetricsF];
    Sig [] "fromString" [PString true] RBool [On QFont];
    Sig [] "glyphIndexes" [] (RList (IMeta cxx_unsigned_int)) [On QGlyphRun];
    Sig [] "gotFocus" [] RBool [On QFocusEvent];
    Sig [] "height" [] RDouble [On QFontMetrics];
    Sig [] "height" [] RDouble [On QFontMetricsF];
    Sig [TYPE_QTGUI_QFONT] "hintingPreference" [] (RMeta QFont_HintingPreference) [On QFont];
    Sig [VALUE_TYPE_QTGUI_QTEXTOPTION] "horizontalAdvance" [PString true; PValue QTextOption] RDouble [On
        QFontMetrics];
    Sig [VALUE_TYPE_QTGUI_QTEXTOPTION] "horizontalAdvance" [PString true; PValue QTextOption] RDouble [On
        QFontMetricsF]
  ].

Definition value_methods_qtgui_2_s38 : list signature_row :=
  [
    Sig [] "horizontalAdvance" [PString true; PInt] RDouble [On QFontMetrics];
    Sig [] "horizontalAdvance" [PString true; PInt] RDouble [On QFontMetricsF];
    Sig [] "inFontUcs4" [PUInt] RBool [On QFontMetrics; On QFontMetricsF];
    Sig [VALUE_TYPE_QTGUI_QFONT] "isCopyOf" [PValue QFont] RBool [On QFont];
    Sig [] "isEmpty" [] RBool [On QGlyphRun];
    Sig [TYPE_QTGUI_QFONT] "isFeatureSet" [PValue QFont_Tag] RBool [On QFont];
    Sig [] "isRightToLeft" [] RBool [On QGlyphRun];
    Sig [TYPE_QTGUI_QFONT] "isVariableAxisSet" [PValue QFont_Tag] RBool [On QFont];
    Sig [] "italic" [] RBool [On QFont; On QFontInfo]
  ].

Definition value_methods_qtgui_2_s47 : list signature_row :=
  [
    Sig [] "kerning" [] RBool [On QFont];
    Sig [] "key" [] RString [On QFont];
    Sig [] "leading" [] RDouble [On QFontMetrics];
    Sig [] "leading" [] RDouble [On QFontMetricsF];
    Sig [] "letterSpacing" [] RDouble [On QFont];
    Sig [TYPE_QTGUI_QFONT] "letterSpacingType" [] (RMeta QFont_SpacingType) [On QFont];
    Sig [] "lineSpacing" [] RDouble [On QFontMetrics];
    Sig [] "lineSpacing" [] RDouble [On QFontMetricsF];
    Sig [] "lineWidth" [] RDouble [On QFontMetrics];
    Sig [] "lineWidth" [] RDouble [On QFontMetricsF];
    Sig [] "lostFocus" [] RBool [On QFocusEvent];
    Sig [] "maxWidth" [] RDouble [On QFontMetrics]
  ].

Definition value_methods_qtgui_2_s59 : list signature_row :=
  [
    Sig [] "maxWidth" [] RDouble [On QFontMetricsF];
    Sig [] "maximumValue" [] RDouble [On QFontVariableAxis];
    Sig [] "minLeftBearing" [] RDouble [On QFontMetrics];
    Sig [] "minLeftBearing" [] RDouble [On QFontMetricsF];
    Sig [] "minRightBearing" [] RDouble [On QFontMetrics];
    Sig [] "minRightBearing" [] RDouble [On QFontMetricsF];
    Sig [] "minimumValue" [] RDouble [On QFontVariableAxis];
    Sig [] "name" [] RString [On QFontVariableAxis];
    Sig [] "overline" [] RBool [On QFont; On QGlyphRun];
    Sig [] "overlinePos" [] RDouble [On QFontMetrics];
    Sig [] "overlinePos" [] RDouble [On QFontMetricsF]
  ].

Definition value_methods_qtgui_2_s70 : list signature_row :=
  [
    Sig [] "pixelSize" [] RDouble [On QFont; On QFontInfo];
    Sig [] "pointSize" [] RDouble [On QFont; On QFontInfo];
    Sig [] "pointSizeF" [] RDouble [On QFont; On QFontInfo];
    Sig [VALUE_TYPE_QTCORE_QPOINTF] "positions" [] (RList (IValue QPointF)) [On QGlyphRun];
    Sig [VALUE_TYPE_QTGUI_QRAWFONT] "rawFont" [] (RValue QRawFont) [On QGlyphRun];
    Sig [ENUM_QT_FOCUSREASON] "reason" [] (RMeta Qt_FocusReason) [On QFocusEvent];
    Sig [VALUE_TYPE_QTGUI_QFONT] "resolve" [PValue QFont] (RValue QFont) [On QFont];
    Sig [] "setBold" [PBool] RVoid [On QFont];
    Sig [VALUE_TYPE_QTCORE_QRECTF] "setBoundingRect" [PValue QRectF] RVoid [On QGlyphRun]
  ].

Definition value_methods_qtgui_2_s79 : list signature_row :=
  [
    Sig [TYPE_QTGUI_QFONT] "setCapitalization" [PValue QFont_Capitalization] RVoid [On QFont];
    Sig [VALUE_TYPE_QTGUI_QCOLOR] "setColorAt" [PNumber cxx_qreal; PValue QColor] RVoid [On QGradient];
    Sig [TYPE_QTGUI_QGRADIENT] "setCoordinateMode" [PValue QGradient_CoordinateMode] RVoid [On QGradient];
    Sig [] "setDefaultValue" [PNumber cxx_qreal] RVoid [On QFontVariableAxis];
    Sig [] "setFamilies" [PStringList] RVoid [On QFont];
    Sig [] "setFamily" [PString true] RVoid [On QFont];
    Sig [] "setFixedPitch" [PBool] RVoid [On QFont];
    Sig [TYPE_QTGUI_QGLYPHRUN] "setFlag" [PValue QGlyphRun_GlyphRunFlag; PBool] RVoid [On QGlyphRun];
    Sig [TYPE_QTGUI_QGLYPHRUN] "setFlags" [PValue QGlyphRun_GlyphRunFlags] RVoid [On QGlyphRun]
  ].

Definition value_methods_qtgui_2_s88 : list signature_row :=
  [
    Sig [] "setGlyphIndexes" [PList (IMeta cxx_unsigned_int)] RVoid [On QGlyphRun];
    Sig [TYPE_QTGUI_QFONT] "setHintingPreference" [PValue QFont_HintingPreference] RVoid [On QFont];
    Sig [] "setItalic" [PBool] RVoid [On QFont];
    Sig [] "setKerning" [PBool] RVoid [On QFont];
    Sig [TYPE_QTGUI_QFONT] "setLetterSpacing" [PValue QFont_SpacingType; PNumber cxx_qreal] RVoid [On
        QFont];
    Sig [] "setMaximumValue" [PNumber cxx_qreal] RVoid [On QFontVariableAxis];
    Sig [] "setMinimumValue" [PNumber cxx_qreal] RVoid [On QFontVariableAxis];
    Sig [] "setName" [PString true] RVoid [On QFontVariableAxis];
    Sig [] "setOverline" [PBool] RVoid [On QFont; On QGlyphRun]
  ].

Definition value_methods_qtgui_2_s97 : list signature_row :=
  [
    Sig [] "setPixelSize" [PInt] RVoid [On QFont];
    Sig [] "setPointSize" [PInt] RVoid [On QFont];
    Sig [] "setPointSizeF" [PNumber cxx_qreal] RVoid [On QFont];
    Sig [VALUE_TYPE_QTCORE_QPOINTF] "setPositions" [PList (IValue QPointF)] RVoid [On QGlyphRun];
    Sig [VALUE_TYPE_QTGUI_QRAWFONT] "setRawFont" [PValue QRawFont] RVoid [On QGlyphRun];
    Sig [] "setRightToLeft" [PBool] RVoid [On QGlyphRun];
    Sig [] "setSourceString" [PString true] RVoid [On QGlyphRun];
    Sig [TYPE_QTGUI_QGRADIENT] "setSpread" [PValue QGradient_Spread] RVoid [On QGradient];
    Sig [] "setStretch" [PInt] RVoid [On QFont]
  ].

Definition value_methods_qtgui_2_s106 : list signature_row :=
  [
    Sig [] "setStrikeOut" [PBool] RVoid [On QFont; On QGlyphRun];
    Sig [] "setStringIndexes" [PList (IMeta cxx_qsizetype)] RVoid [On QGlyphRun];
    Sig [TYPE_QTGUI_QFONT] "setStyle" [PValue QFont_Style] RVoid [On QFont];
    Sig [TYPE_QTGUI_QFONT] "setStyleHint" [PValue QFont_StyleHint; PValue QFont_StyleStrategy] RVoid [On
        QFont];
    Sig [] "setStyleName" [PString true] RVoid [On QFont];
    Sig [TYPE_QTGUI_QFONT] "setStyleStrategy" [PValue QFont_StyleStrategy] RVoid [On QFont];
    Sig [TYPE_QTGUI_QFONT] "setTag" [PValue QFont_Tag] RVoid [On QFontVariableAxis];
    Sig [] "setUnderline" [PBool] RVoid [On QFont; On QGlyphRun]
  ].

Definition value_methods_qtgui_2_s114 : list signature_row :=
  [
    Sig [TYPE_QTGUI_QFONT] "setVariableAxis" [PValue QFont_Tag; PNumber cxx_float] RVoid [On QFont];
    Sig [] "setWordSpacing" [PNumber cxx_qreal] RVoid [On QFont];
    Sig [] "sourceString" [] RString [On QGlyphRun];
    Sig [TYPE_QTGUI_QGRADIENT] "spread" [] (RMeta QGradient_Spread) [On QGradient];
    Sig [] "stretch" [] RDouble [On QFont];
    Sig [] "strikeOut" [] RBool [On QFont; On QGlyphRun];
    Sig [] "strikeOutPos" [] RDouble [On QFontMetrics];
    Sig [] "strikeOutPos" [] RDouble [On QFontMetricsF];
    Sig [] "stringIndexes" [] (RList (IMeta cxx_qsizetype)) [On QGlyphRun];
    Sig [TYPE_QTGUI_QFONT] "style" [] (RMeta QFont_Style) [On QFont; On QFontInfo]
  ].

Definition value_methods_qtgui_2_s124 : list signature_row :=
  [
    Sig [TYPE_QTGUI_QFONT] "styleHint" [] (RMeta QFont_StyleHint) [On QFont; On QFontInfo];
    Sig [] "styleName" [] RString [On QFont; On QFontInfo];
    Sig [TYPE_QTGUI_QFONT] "styleStrategy" [] (RMeta QFont_StyleStrategy) [On QFont];
    Sig [VALUE_TYPE_QTGUI_QFONT] "swap" [PValue QFont] RVoid [On QFont];
    Sig [VALUE_TYPE_QTGUI_QFONTINFO] "swap" [PValue QFontInfo] RVoid [On QFontInfo];
    Sig [VALUE_TYPE_QTGUI_QFONTMETRICS] "swap" [PValue QFontMetrics] RVoid [On QFontMetrics];
    Sig [VALUE_TYPE_QTGUI_QFONTMETRICSF] "swap" [PValue QFontMetricsF] RVoid [On QFontMetricsF];
    Sig [VALUE_TYPE_QTGUI_QFONTVARIABLEAXIS] "swap" [PValue QFontVariableAxis] RVoid [On QFontVariableAxis];
    Sig [VALUE_TYPE_QTGUI_QGLYPHRUN] "swap" [PValue QGlyphRun] RVoid [On QGlyphRun]
  ].

Definition value_methods_qtgui_2_s133 : list signature_row :=
  [
    Sig [TYPE_QTGUI_QFONT] "tag" [] (RMeta QFont_Tag) [On QFontVariableAxis];
    Sig [VALUE_TYPE_QTCORE_QRECT] "tightBoundingRect" [PString true] (RValue QRect) [On QFontMetrics];
    Sig [VALUE_TYPE_QTCORE_QRECTF] "tightBoundingRect" [PString true] (RValue QRectF) [On QFontMetricsF];
    Sig [VALUE_TYPE_QTCORE_QRECT; VALUE_TYPE_QTGUI_QTEXTOPTION] "tightBoundingRect" [PString true; PValue
        QTextOption] (RValue QRect) [On QFontMetrics];
    Sig [VALUE_TYPE_QTCORE_QRECTF; VALUE_TYPE_QTGUI_QTEXTOPTION] "tightBoundingRect" [PString true; PValue
        QTextOption] (RValue QRectF) [On QFontMetricsF];
    Sig [] "toString" [] RString [On QFont];
    Sig [TYPE_QTGUI_QGRADIENT] "type" [] (RMeta QGradient_Type) [On QGradient];
    Sig [] "underline" [] RBool [On QFont; On QGlyphRun];
    Sig [] "underlinePos" [] RDouble [On QFontMetrics]
  ].

Definition value_methods_qtgui_2_s142 : list signature_row :=
  [
    Sig [] "underlinePos" [] RDouble [On QFontMetricsF];
    Sig [TYPE_QTGUI_QFONT] "unsetFeature" [PValue QFont_Tag] RVoid [On QFont];
    Sig [TYPE_QTGUI_QFONT] "unsetVariableAxis" [PValue QFont_Tag] RVoid [On QFont];
    Sig [VALUE_TYPE_QTGUI_QFONTVARIABLEAXIS] "variableAxes" [] (RList (IValue QFontVariableAxis)) [On
        QFontInfo];
    Sig [TYPE_QTGUI_QFONT] "variableAxisTags" [] (RList (IMeta QFont_Tag)) [On QFont];
    Sig [TYPE_QTGUI_QFONT] "variableAxisValue" [PValue QFont_Tag] RDouble [On QFont];
    Sig [] "weight" [] RDouble [On QFontInfo];
    Sig [] "wordSpacing" [] RDouble [On QFont];
    Sig [] "xHeight" [] RDouble [On QFontMetrics];
    Sig [] "xHeight" [] RDouble [On QFontMetricsF]
  ].

Definition value_methods_qtgui_2_types : list string :=
  [
    QFocusEvent;
    QFont;
    QFontInfo;
    QFontMetrics;
    QFontMetricsF;
    QFontVariableAxis;
    QGlyphRun;
    QGradient
  ].

Definition value_methods_qtgui_2 : method_shard :=
  MethodShard QtGui "KRY_QT6_NATIVE_METHODS_QTGUI_"
    (value_methods_qtgui_2_i0)
    (value_methods_qtgui_2_s0 ++ value_methods_qtgui_2_s9 ++ value_methods_qtgui_2_s20 ++
        value_methods_qtgui_2_s28 ++ value_methods_qtgui_2_s38 ++ value_methods_qtgui_2_s47 ++
        value_methods_qtgui_2_s59 ++ value_methods_qtgui_2_s70 ++ value_methods_qtgui_2_s79 ++
        value_methods_qtgui_2_s88 ++ value_methods_qtgui_2_s97 ++ value_methods_qtgui_2_s106 ++
        value_methods_qtgui_2_s114 ++ value_methods_qtgui_2_s124 ++ value_methods_qtgui_2_s133 ++
        value_methods_qtgui_2_s142)
    value_methods_qtgui_2_types.

Definition value_methods_qtgui_3_i0 : list include :=
  [
    ClassInclude QtGui QHelpEvent QHelpEvent;
    ClassInclude QtGui QHoverEvent QHoverEvent;
    ClassInclude QtGui QIcon QIcon;
    ClassInclude QtGui QIconEngine QIconEngine;
    ClassInclude QtGui QImage QImage;
    ClassInclude QtGui QImageIOHandler QImageIOHandler;
    ClassInclude QtGui QImageReader QImageReader;
    ClassInclude QtGui QImageWriter QImageWriter;
    TypeInclude QtCore QIODevice TYPE_QTCORE_QIODEVICE;
    EnumDefine ENUM_QT_ASPECTRATIOMODE;
    EnumDefine ENUM_QT_GLOBALCOLOR;
    EnumDefine ENUM_QT_ORIENTATIONS;
    EnumDefine ENUM_QT_TRANSFORMATIONMODE;
    TypeInclude QtGui QIcon TYPE_QTGUI_QICON;
    TypeInclude QtGui QImage TYPE_QTGUI_QIMAGE;
    TypeInclude QtGui QImageIOHandler TYPE_QTGUI_QIMAGEIOHANDLER;
    TypeInclude QtGui QImageReader TYPE_QTGUI_QIMAGEREADER;
    TypeInclude QtGui QImageWriter TYPE_QTGUI_QIMAGEWRITER;
    TypeInclude QtCore QByteArray VALUE_TYPE_QTCORE_QBYTEARRAY;
    TypeInclude QtCore QDataStream VALUE_TYPE_QTCORE_QDATASTREAM;
    TypeInclude QtCore QPoint VALUE_TYPE_QTCORE_QPOINT;
    TypeInclude QtCore QPointF VALUE_TYPE_QTCORE_QPOINTF;
    TypeInclude QtCore QRect VALUE_TYPE_QTCORE_QRECT;
    TypeInclude QtCore QSize VALUE_TYPE_QTCORE_QSIZE;
    TypeInclude QtCore QSizeF VALUE_TYPE_QTCORE_QSIZEF;
    TypeInclude QtGui QColor VALUE_TYPE_QTGUI_QCOLOR;
    TypeInclude QtGui QColorSpace VALUE_TYPE_QTGUI_QCOLORSPACE;
    TypeInclude QtGui QColorTransform VALUE_TYPE_QTGUI_QCOLORTRANSFORM;
    TypeInclude QtGui QIcon VALUE_TYPE_QTGUI_QICON;
    TypeInclude QtGui QImage VALUE_TYPE_QTGUI_QIMAGE;
    TypeInclude QtGui QPixelFormat VALUE_TYPE_QTGUI_QPIXELFORMAT;
    TypeInclude QtGui QPixmap VALUE_TYPE_QTGUI_QPIXMAP;
    TypeInclude QtGui QTransform VALUE_TYPE_QTGUI_QTRANSFORM
  ].

Definition value_methods_qtgui_3_s0 : list signature_row :=
  [
    Sig [TYPE_QTGUI_QICON; VALUE_TYPE_QTCORE_QSIZE] "actualSize" [PValue QSize; PValue QIcon_Mode; PValue
        QIcon_State] (RValue QSize) [On QIcon; On QIconEngine];
    Sig [TYPE_QTGUI_QICON; VALUE_TYPE_QTCORE_QSIZE] "addFile" [PString true; PValue QSize; PValue
        QIcon_Mode; PValue QIcon_State] RVoid [On QIcon; On QIconEngine];
    Sig [TYPE_QTGUI_QICON; VALUE_TYPE_QTGUI_QPIXMAP] "addPixmap" [PValue QPixmap; PValue QIcon_Mode; PValue
        QIcon_State] RVoid [On QIcon; On QIconEngine];
    Sig [] "allGray" [] RBool [On QImage];
    Sig [VALUE_TYPE_QTGUI_QCOLORTRANSFORM] "applyColorTransform" [PValue QColorTransform] RVoid [On QImage];
    Sig [] "autoDetectImageFormat" [] RBool [On QImageReader];
    Sig [] "autoTransform" [] RBool [On QImageReader]
  ].

Definition value_methods_qtgui_3_s7 : list signature_row :=
  [
    Sig [TYPE_QTGUI_QICON; VALUE_TYPE_QTCORE_QSIZE] "availableSizes" [PValue QIcon_Mode; PValue
        QIcon_State] (RList (IValue QSize)) [On QIcon; On QIconEngine];
    Sig [VALUE_TYPE_QTGUI_QCOLOR] "backgroundColor" [] (RValue QColor) [On QImageReader];
    Sig [] "bitPlaneCount" [] RDouble [On QImage];
    Sig [] "bytesPerLine" [] (RMeta cxx_qsizetype) [On QImage];
    Sig [] "cacheKey" [] (RMeta cxx_qint64) [On QIcon; On QImage];
    Sig [] "canRead" [] RBool [On QImageReader];
    Sig [] "canWrite" [] RBool [On QImageWriter];
    Sig [VALUE_TYPE_QTCORE_QRECT] "clipRect" [] (RValue QRect) [On QImageReader];
    Sig [] "colorCount" [] RDouble [On QImage]
  ].

Definition value_methods_qtgui_3_s16 : list signature_row :=
  [
    Sig [VALUE_TYPE_QTGUI_QCOLORSPACE] "colorSpace" [] (RValue QColorSpace) [On QImage];
    Sig [] "colorTable" [] (RList (IMeta cxx_unsigned_int)) [On QImage];
    Sig [VALUE_TYPE_QTGUI_QCOLORTRANSFORM; VALUE_TYPE_QTGUI_QIMAGE] "colorTransformed" [PValue
        QColorTransform] (RValue QImage) [On QImage];
    Sig [] "compression" [] RDouble [On QImageWriter];
    Sig [VALUE_TYPE_QTGUI_QCOLORSPACE] "convertToColorSpace" [PValue QColorSpace] RVoid [On QImage];
    Sig [VALUE_TYPE_QTGUI_QCOLORSPACE; VALUE_TYPE_QTGUI_QIMAGE] "convertedToColorSpace" [PValue
        QColorSpace] (RValue QImage) [On QImage];
    Sig [VALUE_TYPE_QTCORE_QRECT; VALUE_TYPE_QTGUI_QIMAGE] "copy" [PValue QRect] (RValue QImage) [On
        QImage];
    Sig [VALUE_TYPE_QTGUI_QIMAGE] "copy" [PInt; PInt; PInt; PInt] (RValue QImage) [On QImage];
    Sig [VALUE_TYPE_QTGUI_QIMAGE] "createHeuristicMask" [PBool] (RValue QImage) [On QImage]
  ].

Definition value_methods_qtgui_3_s25 : list signature_row :=
  [
    Sig [] "currentImageNumber" [] RDouble [On QImageIOHandler; On QImageReader];
    Sig [VALUE_TYPE_QTCORE_QRECT] "currentImageRect" [] (RValue QRect) [On QImageIOHandler; On
        QImageReader];
    Sig [] "decideFormatFromContent" [] RBool [On QImageReader];
    Sig [] "depth" [] RDouble [On QImage];
    Sig [TYPE_QTCORE_QIODEVICE] "device" [] RObject [On QImageIOHandler; On QImageReader; On QImageWriter];
    Sig [VALUE_TYPE_QTCORE_QSIZEF] "deviceIndependentSize" [] (RValue QSizeF) [On QImage];
    Sig [] "devicePixelRatio" [] RDouble [On QImage];
    Sig [] "dotsPerMeterX" [] RDouble [On QImage];
    Sig [] "dotsPerMeterY" [] RDouble [On QImage]
  ].

Definition value_methods_qtgui_3_s34 : list signature_row :=
  [
    Sig [TYPE_QTGUI_QIMAGEREADER] "error" [] (RMeta QImageReader_ImageReaderError) [On QImageReader];
    Sig [TYPE_QTGUI_QIMAGEWRITER] "error" [] (RMeta QImageWriter_ImageWriterError) [On QImageWriter];
    Sig [] "errorString" [] RString [On QImageReader; On QImageWriter];
    Sig [] "fileName" [] RString [On QImageReader; On QImageWriter];
    Sig [VALUE_TYPE_QTGUI_QCOLOR] "fill" [PValue QColor] RVoid [On QImage];
    Sig [ENUM_QT_GLOBALCOLOR] "fill" [PValue Qt_GlobalColor] RVoid [On QImage; On QImage];
    Sig [] "fill" [PUInt] RVoid [On QImage; On QImage];
    Sig [ENUM_QT_ORIENTATIONS] "flip" [PValue Qt_Orientations] RVoid [On QImage]
  ].

Definition value_methods_qtgui_3_s42 : list signature_row :=
  [
    Sig [ENUM_QT_ORIENTATIONS; VALUE_TYPE_QTGUI_QIMAGE] "flipped" [PValue Qt_Orientations] (RValue QImage)
        [On QImage];
    Sig [VALUE_TYPE_QTCORE_QBYTEARRAY] "format" [] (RValue QByteArray) [On QImageIOHandler; On
        QImageReader; On QImageWriter];
    Sig [TYPE_QTGUI_QIMAGE] "format" [] (RMeta QImage_Format) [On QImage];
    Sig [VALUE_TYPE_QTCORE_QPOINT] "globalPos" [] (RValue QPoint) [On QHelpEvent];
    Sig [] "globalX" [] RDouble [On QHelpEvent];
    Sig [] "globalY" [] RDouble [On QHelpEvent];
    Sig [] "hasAlphaChannel" [] RBool [On QImage];
    Sig [] "height" [] RDouble [On QImage];
    Sig [] "iconName" [] RString [On QIconEngine]
  ].

Definition value_methods_qtgui_3_s51 : list signature_row :=
  [
    Sig [] "imageCount" [] RDouble [On QImageIOHandler; On QImageReader];
    Sig [TYPE_QTGUI_QIMAGE] "imageFormat" [] (RMeta QImage_Format) [On QImageReader];
    Sig [TYPE_QTGUI_QIMAGE] "invertPixels" [PValue QImage_InvertMode] RVoid [On QImage];
    Sig [] "isDetached" [] RBool [On QIcon];
    Sig [] "isGrayscale" [] RBool [On QImage];
    Sig [] "isMask" [] RBool [On QIcon];
    Sig [] "isNull" [] RBool [On QIcon; On QIconEngine; On QImage];
    Sig [] "isUpdateEvent" [] RBool [On QHoverEvent];
    Sig [] "jumpToImage" [PInt] RBool [On QImageIOHandler; On QImageReader]
  ].

Definition value_methods_qtgui_3_s60 : list signature_row :=
  [
    Sig [] "jumpToNextImage" [] RBool [On QImageIOHandler; On QImageReader];
    Sig [] "key" [] RString [On QIconEngine];
    Sig [] "loopCount" [] RDouble [On QImageIOHandler; On QImageReader];
    Sig [] "mirror" [PBool; PBool] RVoid [On QImage];
    Sig [VALUE_TYPE_QTGUI_QIMAGE] "mirrored" [PBool; PBool] (RValue QImage) [On QImage];
    Sig [] "name" [] RString [On QIcon];
    Sig [] "nextImageDelay" [] RDouble [On QImageIOHandler; On QImageReader];
    Sig [VALUE_TYPE_QTCORE_QPOINT] "offset" [] (RValue QPoint) [On QImage];
    Sig [VALUE_TYPE_QTCORE_QPOINT] "oldPos" [] (RValue QPoint) [On QHoverEvent]
  ].

Definition value_methods_qtgui_3_s69 : list signature_row :=
  [
    Sig [VALUE_TYPE_QTCORE_QPOINTF] "oldPosF" [] (RValue QPointF) [On QHoverEvent];
    Sig [] "optimizedWrite" [] RBool [On QImageWriter];
    Sig [TYPE_QTGUI_QIMAGEIOHANDLER] "option" [PValue QImageIOHandler_ImageOption] RVariant [On
        QImageIOHandler];
    Sig [VALUE_TYPE_QTCORE_QPOINT; VALUE_TYPE_QTGUI_QCOLOR] "pixelColor" [PValue QPoint] (RValue QColor)
        [On QImage];
    Sig [VALUE_TYPE_QTGUI_QCOLOR] "pixelColor" [PInt; PInt] (RValue QColor) [On QImage];
    Sig [VALUE_TYPE_QTGUI_QPIXELFORMAT] "pixelFormat" [] (RValue QPixelFormat) [On QImage];
    Sig [VALUE_TYPE_QTCORE_QPOINT] "pixelIndex" [PValue QPoint] RDouble [On QImage];
    Sig [] "pixelIndex" [PInt; PInt] RDouble [On QImage]
  ].

Definition value_methods_qtgui_3_s77 : list signature_row :=
  [
    Sig [TYPE_QTGUI_QICON; VALUE_TYPE_QTCORE_QSIZE; VALUE_TYPE_QTGUI_QPIXMAP] "pixmap" [PValue QSize;
        PValue QIcon_Mode; PValue QIcon_State] (RValue QPixmap) [On QIcon; On QIconEngine];
    Sig [TYPE_QTGUI_QICON; VALUE_TYPE_QTCORE_QSIZE; VALUE_TYPE_QTGUI_QPIXMAP] "pixmap" [PValue QSize;
        PNumber cxx_qreal; PValue QIcon_Mode; PValue QIcon_State] (RValue QPixmap) [On QIcon];
    Sig [TYPE_QTGUI_QICON; VALUE_TYPE_QTGUI_QPIXMAP] "pixmap" [PInt; PValue QIcon_Mode; PValue QIcon_State]
        (RValue QPixmap) [On QIcon];
    Sig [TYPE_QTGUI_QICON; VALUE_TYPE_QTGUI_QPIXMAP] "pixmap" [PInt; PInt; PValue QIcon_Mode; PValue
        QIcon_State] (RValue QPixmap) [On QIcon];
    Sig [VALUE_TYPE_QTCORE_QPOINT] "pos" [] (RValue QPoint) [On QHelpEvent];
    Sig [] "progressiveScanWrite" [] RBool [On QImageWriter];
    Sig [] "quality" [] RDouble [On QImageReader; On QImageWriter]
  ].

Definition value_methods_qtgui_3_s84 : list signature_row :=
  [
    Sig [VALUE_TYPE_QTGUI_QIMAGE] "read" [] (RValue QImage) [On QImageReader];
    Sig [VALUE_TYPE_QTCORE_QDATASTREAM] "read" [PValue QDataStream] RBool [On QIconEngine];
    Sig [VALUE_TYPE_QTCORE_QRECT] "rect" [] (RValue QRect) [On QImage];
    Sig [TYPE_QTGUI_QIMAGE] "reinterpretAsFormat" [PValue QImage_Format] RBool [On QImage];
    Sig [] "rgbSwap" [] RVoid [On QImage];
    Sig [VALUE_TYPE_QTGUI_QIMAGE] "rgbSwapped" [] (RValue QImage) [On QImage];
    Sig [ENUM_QT_ASPECTRATIOMODE; ENUM_QT_TRANSFORMATIONMODE; VALUE_TYPE_QTCORE_QSIZE;
        VALUE_TYPE_QTGUI_QIMAGE] "scaled" [PValue QSize; PValue Qt_AspectRatioMode; PValue
        Qt_TransformationMode] (RValue QImage) [On QImage];
    Sig [ENUM_QT_ASPECTRATIOMODE; ENUM_QT_TRANSFORMATIONMODE; VALUE_TYPE_QTGUI_QIMAGE] "scaled" [PInt;
        PInt; PValue Qt_AspectRatioMode; PValue Qt_TransformationMode] (RValue QImage) [On QImage];
    Sig [VALUE_TYPE_QTCORE_QRECT] "scaledClipRect" [] (RValue QRect) [On QImageReader]
  ].

Definition value_methods_qtgui_3_s93 : list signature_row :=
  [
    Sig [TYPE_QTGUI_QICON; VALUE_TYPE_QTCORE_QSIZE; VALUE_TYPE_QTGUI_QPIXMAP] "scaledPixmap" [PValue QSize;
        PValue QIcon_Mode; PValue QIcon_State; PNumber cxx_qreal] (RValue QPixmap) [On QIconEngine];
    Sig [VALUE_TYPE_QTCORE_QSIZE] "scaledSize" [] (RValue QSize) [On QImageReader];
    Sig [ENUM_QT_TRANSFORMATIONMODE; VALUE_TYPE_QTGUI_QIMAGE] "scaledToHeight" [PInt; PValue
        Qt_TransformationMode] (RValue QImage) [On QImage];
    Sig [ENUM_QT_TRANSFORMATIONMODE; VALUE_TYPE_QTGUI_QIMAGE] "scaledToWidth" [PInt; PValue
        Qt_TransformationMode] (RValue QImage) [On QImage];
    Sig [VALUE_TYPE_QTGUI_QIMAGE] "setAlphaChannel" [PValue QImage] RVoid [On QImage];
    Sig [] "setAutoDetectImageFormat" [PBool] RVoid [On QImageReader];
    Sig [] "setAutoTransform" [PBool] RVoid [On QImageReader];
    Sig [VALUE_TYPE_QTGUI_QCOLOR] "setBackgroundColor" [PValue QColor] RVoid [On QImageReader]
  ].

Definition value_methods_qtgui_3_s101 : list signature_row :=
  [
    Sig [VALUE_TYPE_QTCORE_QRECT] "setClipRect" [PValue QRect] RVoid [On QImageReader];
    Sig [] "setColorCount" [PInt] RVoid [On QImage];
    Sig [VALUE_TYPE_QTGUI_QCOLORSPACE] "setColorSpace" [PValue QColorSpace] RVoid [On QImage];
    Sig [] "setColorTable" [PList (IMeta cxx_unsigned_int)] RVoid [On QImage];
    Sig [] "setCompression" [PInt] RVoid [On QImageWriter];
    Sig [] "setDecideFormatFromContent" [PBool] RVoid [On QImageReader];
    Sig [TYPE_QTCORE_QIODEVICE] "setDevice" [PObject QIODevice false] RVoid [On QImageIOHandler; On
        QImageReader; On QImageWriter];
    Sig [] "setDevicePixelRatio" [PNumber cxx_qreal] RVoid [On QImage]
  ].

Definition value_methods_qtgui_3_s109 : list signature_row :=
  [
    Sig [] "setDotsPerMeterX" [PInt] RVoid [On QImage];
    Sig [] "setDotsPerMeterY" [PInt] RVoid [On QImage];
    Sig [] "setFileName" [PString true] RVoid [On QImageReader; On QImageWriter];
    Sig [VALUE_TYPE_QTCORE_QBYTEARRAY] "setFormat" [PValue QByteArray] RVoid [On QImageIOHandler; On
        QImageReader; On QImageWriter];
    Sig [] "setIsMask" [PBool] RVoid [On QIcon];
    Sig [VALUE_TYPE_QTCORE_QPOINT] "setOffset" [PValue QPoint] RVoid [On QImage];
    Sig [] "setOptimizedWrite" [PBool] RVoid [On QImageWriter];
    Sig [TYPE_QTGUI_QIMAGEIOHANDLER] "setOption" [PValue QImageIOHandler_ImageOption; PVariant] RVoid [On
        QImageIOHandler]
  ].

Definition value_methods_qtgui_3_s117 : list signature_row :=
  [
    Sig [VALUE_TYPE_QTCORE_QPOINT] "setPixel" [PValue QPoint; PUInt] RVoid [On QImage];
    Sig [] "setPixel" [PInt; PInt; PUInt] RVoid [On QImage];
    Sig [VALUE_TYPE_QTCORE_QPOINT; VALUE_TYPE_QTGUI_QCOLOR] "setPixelColor" [PValue QPoint; PValue QColor]
        RVoid [On QImage];
    Sig [VALUE_TYPE_QTGUI_QCOLOR] "setPixelColor" [PInt; PInt; PValue QColor] RVoid [On QImage];
    Sig [] "setProgressiveScanWrite" [PBool] RVoid [On QImageWriter];
    Sig [] "setQuality" [PInt] RVoid [On QImageReader; On QImageWriter];
    Sig [VALUE_TYPE_QTCORE_QRECT] "setScaledClipRect" [PValue QRect] RVoid [On QImageReader];
    Sig [VALUE_TYPE_QTCORE_QSIZE] "setScaledSize" [PValue QSize] RVoid [On QImageReader]
  ].

Definition value_methods_qtgui_3_s125 : list signature_row :=
  [
    Sig [VALUE_TYPE_QTCORE_QBYTEARRAY] "setSubType" [PValue QByteArray] RVoid [On QImageWriter];
    Sig [] "setText" [PString true; PString true] RVoid [On QImage; On QImageWriter];
    Sig [VALUE_TYPE_QTCORE_QSIZE] "size" [] (RValue QSize) [On QImage; On QImageReader];
    Sig [] "sizeInBytes" [] (RMeta cxx_qsizetype) [On QImage];
    Sig [VALUE_TYPE_QTCORE_QBYTEARRAY] "subType" [] (RValue QByteArray) [On QImageReader; On QImageWriter];
    Sig [VALUE_TYPE_QTCORE_QBYTEARRAY] "supportedSubTypes" [] (RList (IValue QByteArray)) [On QImageReader;
        On QImageWriter];
    Sig [] "supportsAnimation" [] RBool [On QImageReader]
  ].

Definition value_methods_qtgui_3_s132 : list signature_row :=
  [
    Sig [TYPE_QTGUI_QIMAGEIOHANDLER] "supportsOption" [PValue QImageIOHandler_ImageOption] RBool [On
        QImageIOHandler; On QImageReader; On QImageWriter];
    Sig [VALUE_TYPE_QTGUI_QICON] "swap" [PValue QIcon] RVoid [On QIcon];
    Sig [VALUE_TYPE_QTGUI_QIMAGE] "swap" [PValue QImage] RVoid [On QImage];
    Sig [] "text" [PString true] RString [On QImage; On QImageReader];
    Sig [] "textKeys" [] (RList (IMeta QString)) [On QImage; On QImageReader];
    Sig [ENUM_QT_TRANSFORMATIONMODE; VALUE_TYPE_QTGUI_QIMAGE; VALUE_TYPE_QTGUI_QTRANSFORM] "transformed"
        [PValue QTransform; PValue Qt_TransformationMode] (RValue QImage) [On QImage];
    Sig [VALUE_TYPE_QTCORE_QPOINT] "valid" [PValue QPoint] RBool [On QImage]
  ].

Definition value_methods_qtgui_3_s139 : list signature_row :=
  [
    Sig [] "valid" [PInt; PInt] RBool [On QImage];
    Sig [] "width" [] RDouble [On QImage];
    Sig [VALUE_TYPE_QTCORE_QDATASTREAM] "write" [PValue QDataStream] RBool [On QIconEngine];
    Sig [VALUE_TYPE_QTGUI_QIMAGE] "write" [PValue QImage] RBool [On QImageIOHandler; On QImageWriter];
    Sig [] "x" [] RDouble [On QHelpEvent];
    Sig [] "y" [] RDouble [On QHelpEvent]
  ].

Definition value_methods_qtgui_3_types : list string :=
  [
    QHelpEvent;
    QHoverEvent;
    QIcon;
    QIconEngine;
    QImage;
    QImageIOHandler;
    QImageReader;
    QImageWriter
  ].

Definition value_methods_qtgui_3 : method_shard :=
  MethodShard QtGui "KRY_QT6_NATIVE_METHODS_QTGUI_"
    (value_methods_qtgui_3_i0)
    (value_methods_qtgui_3_s0 ++ value_methods_qtgui_3_s7 ++ value_methods_qtgui_3_s16 ++
        value_methods_qtgui_3_s25 ++ value_methods_qtgui_3_s34 ++ value_methods_qtgui_3_s42 ++
        value_methods_qtgui_3_s51 ++ value_methods_qtgui_3_s60 ++ value_methods_qtgui_3_s69 ++
        value_methods_qtgui_3_s77 ++ value_methods_qtgui_3_s84 ++ value_methods_qtgui_3_s93 ++
        value_methods_qtgui_3_s101 ++ value_methods_qtgui_3_s109 ++ value_methods_qtgui_3_s117 ++
        value_methods_qtgui_3_s125 ++ value_methods_qtgui_3_s132 ++ value_methods_qtgui_3_s139)
    value_methods_qtgui_3_types.

Definition value_methods_qtgui_4_i0 : list include :=
  [
    ClassInclude QtGui QInputEvent QInputEvent;
    ClassInclude QtGui QInputMethodEvent QInputMethodEvent;
    ClassInclude QtGui QInputMethodQueryEvent QInputMethodQueryEvent;
    ClassInclude QtGui QKeyEvent QKeyEvent;
    ClassInclude QtGui QKeySequence QKeySequence;
    ClassInclude QtGui QLinearGradient QLinearGradient;
    ClassInclude QtGui QMatrix2x2 QMatrix2x2;
    ClassInclude QtGui QMatrix2x3 QMatrix2x3;
    TypeInclude QtGui QInputDevice TYPE_QTGUI_QINPUTDEVICE;
    EnumDefine ENUM_QT_INPUTMETHODQUERIES;
    EnumDefine ENUM_QT_INPUTMETHODQUERY;
    TypeInclude QtGui QInputDevice TYPE_QTGUI_QINPUTDEVICE;
    TypeInclude QtGui QInputMethodEvent TYPE_QTGUI_QINPUTMETHODEVENT;
    TypeInclude QtGui QKeySequence TYPE_QTGUI_QKEYSEQUENCE;
    TypeInclude QtCore QKeyCombination VALUE_TYPE_QTCORE_QKEYCOMBINATION;
    TypeInclude QtCore QPointF VALUE_TYPE_QTCORE_QPOINTF;
    TypeInclude QtGui QKeySequence VALUE_TYPE_QTGUI_QKEYSEQUENCE;
    TypeInclude QtGui QMatrix2x2 VALUE_TYPE_QTGUI_QMATRIX2X2;
    TypeInclude QtGui QMatrix3x2 VALUE_TYPE_QTGUI_QMATRIX3X2
  ].

Definition value_methods_qtgui_4_s0 : list signature_row :=
  [
    Sig [TYPE_QTGUI_QINPUTMETHODEVENT] "attributes" [] (RList (IMeta QInputMethodEvent_Attribute)) [On
        QInputMethodEvent];
    Sig [] "commitString" [] RString [On QInputMethodEvent];
    Sig [] "count" [] RDouble [On QKeyEvent; On QKeySequence];
    Sig [TYPE_QTGUI_QINPUTDEVICE] "device" [] RObject [On QInputEvent];
    Sig [TYPE_QTGUI_QINPUTDEVICE] "deviceType" [] (RMeta QInputDevice_DeviceType) [On QInputEvent];
    Sig [] "fill" [PNumber cxx_float] RVoid [On QMatrix2x2; On QMatrix2x3];
    Sig [VALUE_TYPE_QTCORE_QPOINTF] "finalStop" [] (RValue QPointF) [On QLinearGradient];
    Sig [] "isAutoRepeat" [] RBool [On QKeyEvent];
    Sig [] "isDetached" [] RBool [On QKeySequence];
    Sig [] "isEmpty" [] RBool [On QKeySequence]
  ].

Definition value_methods_qtgui_4_s10 : list signature_row :=
  [
    Sig [] "isIdentity" [] RBool [On QMatrix2x2; On QMatrix2x3];
    Sig [] "key" [] RDouble [On QKeyEvent];
    Sig [VALUE_TYPE_QTCORE_QKEYCOMBINATION] "keyCombination" [] (RValue QKeyCombination) [On QKeyEvent];
    Sig [TYPE_QTGUI_QKEYSEQUENCE; VALUE_TYPE_QTGUI_QKEYSEQUENCE] "matches" [PValue QKeySequence] (RMeta
        QKeySequence_SequenceMatch) [On QKeySequence];
    Sig [TYPE_QTGUI_QKEYSEQUENCE] "matches" [PValue QKeySequence_StandardKey] RBool [On QKeyEvent];
    Sig [] "preeditString" [] RString [On QInputMethodEvent];
    Sig [ENUM_QT_INPUTMETHODQUERIES] "queries" [] (RMeta Qt_InputMethodQueries) [On QInputMethodQueryEvent];
    Sig [] "replacementLength" [] RDouble [On QInputMethodEvent];
    Sig [] "replacementStart" [] RDouble [On QInputMethodEvent];
    Sig [] "setCommitString" [PString true; PInt; PInt] RVoid [On QInputMethodEvent]
  ].

Definition value_methods_qtgui_4_s20 : list signature_row :=
  [
    Sig [VALUE_TYPE_QTCORE_QPOINTF] "setFinalStop" [PValue QPointF] RVoid [On QLinearGradient];
    Sig [] "setFinalStop" [PNumber cxx_qreal; PNumber cxx_qreal] RVoid [On QLinearGradient];
    Sig [VALUE_TYPE_QTCORE_QPOINTF] "setStart" [PValue QPointF] RVoid [On QLinearGradient];
    Sig [] "setStart" [PNumber cxx_qreal; PNumber cxx_qreal] RVoid [On QLinearGradient];
    Sig [] "setToIdentity" [] RVoid [On QMatrix2x2; On QMatrix2x3];
    Sig [ENUM_QT_INPUTMETHODQUERY] "setValue" [PValue Qt_InputMethodQuery; PVariant] RVoid [On
        QInputMethodQueryEvent];
    Sig [VALUE_TYPE_QTCORE_QPOINTF] "start" [] (RValue QPointF) [On QLinearGradient];
    Sig [VALUE_TYPE_QTGUI_QKEYSEQUENCE] "swap" [PValue QKeySequence] RVoid [On QKeySequence];
    Sig [] "text" [] RString [On QKeyEvent]
  ].

Definition value_methods_qtgui_4_s29 : list signature_row :=
  [
    Sig [] "timestamp" [] (RMeta cxx_quint64) [On QInputEvent];
    Sig [TYPE_QTGUI_QKEYSEQUENCE] "toString" [PValue QKeySequence_SequenceFormat] RString [On QKeySequence];
    Sig [VALUE_TYPE_QTGUI_QMATRIX2X2] "transposed" [] (RValue QMatrix2x2) [On QMatrix2x2];
    Sig [VALUE_TYPE_QTGUI_QMATRIX3X2] "transposed" [] (RValue QMatrix3x2) [On QMatrix2x3];
    Sig [ENUM_QT_INPUTMETHODQUERY] "value" [PValue Qt_InputMethodQuery] RVariant [On QInputMethodQueryEvent]
  ].

Definition value_methods_qtgui_4_types : list string :=
  [
    QInputEvent;
    QInputMethodEvent;
    QInputMethodQueryEvent;
    QKeyEvent;
    QKeySequence;
    QLinearGradient;
    QMatrix2x2;
    QMatrix2x3
  ].

Definition value_methods_qtgui_4 : method_shard :=
  MethodShard QtGui "KRY_QT6_NATIVE_METHODS_QTGUI_"
    (value_methods_qtgui_4_i0)
    (value_methods_qtgui_4_s0 ++ value_methods_qtgui_4_s10 ++ value_methods_qtgui_4_s20 ++
        value_methods_qtgui_4_s29)
    value_methods_qtgui_4_types.

Definition value_methods_qtgui_5_i0 : list include :=
  [
    ClassInclude QtGui QMatrix2x4 QMatrix2x4;
    ClassInclude QtGui QMatrix3x2 QMatrix3x2;
    ClassInclude QtGui QMatrix3x3 QMatrix3x3;
    ClassInclude QtGui QMatrix3x4 QMatrix3x4;
    ClassInclude QtGui QMatrix4x2 QMatrix4x2;
    ClassInclude QtGui QMatrix4x3 QMatrix4x3;
    ClassInclude QtGui QMatrix4x4 QMatrix4x4;
    ClassInclude QtGui QMouseEvent QMouseEvent;
    TypeInclude QtCore QPoint VALUE_TYPE_QTCORE_QPOINT;
    TypeInclude QtCore QPointF VALUE_TYPE_QTCORE_QPOINTF;
    TypeInclude QtCore QRect VALUE_TYPE_QTCORE_QRECT;
    TypeInclude QtCore QRectF VALUE_TYPE_QTCORE_QRECTF;
    TypeInclude QtGui QMatrix2x3 VALUE_TYPE_QTGUI_QMATRIX2X3;
    TypeInclude QtGui QMatrix2x4 VALUE_TYPE_QTGUI_QMATRIX2X4;
    TypeInclude QtGui QMatrix3x3 VALUE_TYPE_QTGUI_QMATRIX3X3;
    TypeInclude QtGui QMatrix3x4 VALUE_TYPE_QTGUI_QMATRIX3X4;
    TypeInclude QtGui QMatrix4x2 VALUE_TYPE_QTGUI_QMATRIX4X2;
    TypeInclude QtGui QMatrix4x3 VALUE_TYPE_QTGUI_QMATRIX4X3;
    TypeInclude QtGui QMatrix4x4 VALUE_TYPE_QTGUI_QMATRIX4X4;
    TypeInclude QtGui QQuaternion VALUE_TYPE_QTGUI_QQUATERNION;
    TypeInclude QtGui QTransform VALUE_TYPE_QTGUI_QTRANSFORM;
    TypeInclude QtGui QVector3D VALUE_TYPE_QTGUI_QVECTOR3D;
    TypeInclude QtGui QVector4D VALUE_TYPE_QTGUI_QVECTOR4D
  ].

Definition value_methods_qtgui_5_s0 : list signature_row :=
  [
    Sig [VALUE_TYPE_QTGUI_QVECTOR4D] "column" [PInt] (RValue QVector4D) [On QMatrix4x4];
    Sig [] "determinant" [] RDouble [On QMatrix4x4];
    Sig [] "fill" [PNumber cxx_float] RVoid [On QMatrix2x4; On QMatrix3x2; On QMatrix3x3; On QMatrix3x4; On
        QMatrix4x2; On QMatrix4x3; On QMatrix4x4];
    Sig [] "frustum" [PNumber cxx_float; PNumber cxx_float; PNumber cxx_float; PNumber cxx_float; PNumber
        cxx_float; PNumber cxx_float] RVoid [On QMatrix4x4];
    Sig [] "isAffine" [] RBool [On QMatrix4x4]
  ].

Definition value_methods_qtgui_5_s5 : list signature_row :=
  [
    Sig [] "isIdentity" [] RBool [On QMatrix2x4; On QMatrix3x2; On QMatrix3x3; On QMatrix3x4; On
        QMatrix4x2; On QMatrix4x3; On QMatrix4x4];
    Sig [VALUE_TYPE_QTGUI_QVECTOR3D] "lookAt" [PValue QVector3D; PValue QVector3D; PValue QVector3D] RVoid
        [On QMatrix4x4];
    Sig [VALUE_TYPE_QTCORE_QPOINT] "map" [PValue QPoint] (RValue QPoint) [On QMatrix4x4];
    Sig [VALUE_TYPE_QTCORE_QPOINTF] "map" [PValue QPointF] (RValue QPointF) [On QMatrix4x4];
    Sig [VALUE_TYPE_QTGUI_QVECTOR3D] "map" [PValue QVector3D] (RValue QVector3D) [On QMatrix4x4];
    Sig [VALUE_TYPE_QTGUI_QVECTOR4D] "map" [PValue QVector4D] (RValue QVector4D) [On QMatrix4x4];
    Sig [VALUE_TYPE_QTCORE_QRECT] "mapRect" [PValue QRect] (RValue QRect) [On QMatrix4x4]
  ].

Definition value_methods_qtgui_5_s12 : list signature_row :=
  [
    Sig [VALUE_TYPE_QTCORE_QRECTF] "mapRect" [PValue QRectF] (RValue QRectF) [On QMatrix4x4];
    Sig [VALUE_TYPE_QTGUI_QVECTOR3D] "mapVector" [PValue QVector3D] (RValue QVector3D) [On QMatrix4x4];
    Sig [VALUE_TYPE_QTGUI_QMATRIX3X3] "normalMatrix" [] (RValue QMatrix3x3) [On QMatrix4x4];
    Sig [] "optimize" [] RVoid [On QMatrix4x4];
    Sig [VALUE_TYPE_QTCORE_QRECT] "ortho" [PValue QRect] RVoid [On QMatrix4x4];
    Sig [VALUE_TYPE_QTCORE_QRECTF] "ortho" [PValue QRectF] RVoid [On QMatrix4x4];
    Sig [] "ortho" [PNumber cxx_float; PNumber cxx_float; PNumber cxx_float; PNumber cxx_float; PNumber
        cxx_float; PNumber cxx_float] RVoid [On QMatrix4x4];
    Sig [] "perspective" [PNumber cxx_float; PNumber cxx_float; PNumber cxx_float; PNumber cxx_float] RVoid
        [On QMatrix4x4];
    Sig [VALUE_TYPE_QTCORE_QPOINT] "pos" [] (RValue QPoint) [On QMouseEvent]
  ].

Definition value_methods_qtgui_5_s21 : list signature_row :=
  [
    Sig [VALUE_TYPE_QTGUI_QQUATERNION] "rotate" [PValue QQuaternion] RVoid [On QMatrix4x4];
    Sig [VALUE_TYPE_QTGUI_QVECTOR3D] "rotate" [PNumber cxx_float; PValue QVector3D] RVoid [On QMatrix4x4];
    Sig [] "rotate" [PNumber cxx_float; PNumber cxx_float; PNumber cxx_float; PNumber cxx_float] RVoid [On
        QMatrix4x4];
    Sig [VALUE_TYPE_QTGUI_QVECTOR4D] "row" [PInt] (RValue QVector4D) [On QMatrix4x4];
    Sig [VALUE_TYPE_QTGUI_QVECTOR3D] "scale" [PValue QVector3D] RVoid [On QMatrix4x4];
    Sig [] "scale" [PNumber cxx_float] RVoid [On QMatrix4x4];
    Sig [] "scale" [PNumber cxx_float; PNumber cxx_float] RVoid [On QMatrix4x4];
    Sig [] "scale" [PNumber cxx_float; PNumber cxx_float; PNumber cxx_float] RVoid [On QMatrix4x4]
  ].

Definition value_methods_qtgui_5_s29 : list signature_row :=
  [
    Sig [VALUE_TYPE_QTGUI_QVECTOR4D] "setColumn" [PInt; PValue QVector4D] RVoid [On QMatrix4x4];
    Sig [VALUE_TYPE_QTGUI_QVECTOR4D] "setRow" [PInt; PValue QVector4D] RVoid [On QMatrix4x4];
    Sig [] "setToIdentity" [] RVoid [On QMatrix2x4; On QMatrix3x2; On QMatrix3x3; On QMatrix3x4; On
        QMatrix4x2; On QMatrix4x3; On QMatrix4x4];
    Sig [VALUE_TYPE_QTGUI_QTRANSFORM] "toTransform" [] (RValue QTransform) [On QMatrix4x4];
    Sig [VALUE_TYPE_QTGUI_QTRANSFORM] "toTransform" [PNumber cxx_float] (RValue QTransform) [On QMatrix4x4];
    Sig [VALUE_TYPE_QTGUI_QVECTOR3D] "translate" [PValue QVector3D] RVoid [On QMatrix4x4];
    Sig [] "translate" [PNumber cxx_float; PNumber cxx_float] RVoid [On QMatrix4x4]
  ].

Definition value_methods_qtgui_5_s36 : list signature_row :=
  [
    Sig [] "translate" [PNumber cxx_float; PNumber cxx_float; PNumber cxx_float] RVoid [On QMatrix4x4];
    Sig [VALUE_TYPE_QTGUI_QMATRIX2X3] "transposed" [] (RValue QMatrix2x3) [On QMatrix3x2];
    Sig [VALUE_TYPE_QTGUI_QMATRIX2X4] "transposed" [] (RValue QMatrix2x4) [On QMatrix4x2];
    Sig [VALUE_TYPE_QTGUI_QMATRIX3X3] "transposed" [] (RValue QMatrix3x3) [On QMatrix3x3];
    Sig [VALUE_TYPE_QTGUI_QMATRIX3X4] "transposed" [] (RValue QMatrix3x4) [On QMatrix4x3];
    Sig [VALUE_TYPE_QTGUI_QMATRIX4X2] "transposed" [] (RValue QMatrix4x2) [On QMatrix2x4];
    Sig [VALUE_TYPE_QTGUI_QMATRIX4X3] "transposed" [] (RValue QMatrix4x3) [On QMatrix3x4];
    Sig [VALUE_TYPE_QTGUI_QMATRIX4X4] "transposed" [] (RValue QMatrix4x4) [On QMatrix4x4];
    Sig [VALUE_TYPE_QTCORE_QRECTF] "viewport" [PValue QRectF] RVoid [On QMatrix4x4]
  ].

Definition value_methods_qtgui_5_s45 : list signature_row :=
  [
    Sig [] "viewport" [PNumber cxx_float; PNumber cxx_float; PNumber cxx_float; PNumber cxx_float; PNumber
        cxx_float; PNumber cxx_float] RVoid [On QMatrix4x4]
  ].

Definition value_methods_qtgui_5_types : list string :=
  [
    QMatrix2x4;
    QMatrix3x2;
    QMatrix3x3;
    QMatrix3x4;
    QMatrix4x2;
    QMatrix4x3;
    QMatrix4x4;
    QMouseEvent
  ].

Definition value_methods_qtgui_5 : method_shard :=
  MethodShard QtGui "KRY_QT6_NATIVE_METHODS_QTGUI_"
    (value_methods_qtgui_5_i0)
    (value_methods_qtgui_5_s0 ++ value_methods_qtgui_5_s5 ++ value_methods_qtgui_5_s12 ++
        value_methods_qtgui_5_s21 ++ value_methods_qtgui_5_s29 ++ value_methods_qtgui_5_s36 ++
        value_methods_qtgui_5_s45)
    value_methods_qtgui_5_types.

Definition value_methods_qtgui_6_i0 : list include :=
  [
    ClassInclude QtGui QMoveEvent QMoveEvent;
    ClassInclude QtGui QNativeGestureEvent QNativeGestureEvent;
    ClassInclude QtGui QPageLayout QPageLayout;
    ClassInclude QtGui QPageRanges QPageRanges;
    ClassInclude QtGui QPageSize QPageSize;
    ClassInclude QtGui QPagedPaintDevice QPagedPaintDevice;
    ClassInclude QtGui QPaintDevice QPaintDevice;
    ClassInclude QtGui QPaintEngine QPaintEngine;
    EnumDefine ENUM_QT_NATIVEGESTURETYPE;
    TypeInclude QtGui QPageLayout TYPE_QTGUI_QPAGELAYOUT;
    TypeInclude QtGui QPageSize TYPE_QTGUI_QPAGESIZE;
    TypeInclude QtCore QMargins VALUE_TYPE_QTCORE_QMARGINS;
    TypeInclude QtCore QMarginsF VALUE_TYPE_QTCORE_QMARGINSF;
    TypeInclude QtCore QPoint VALUE_TYPE_QTCORE_QPOINT;
    TypeInclude QtCore QPointF VALUE_TYPE_QTCORE_QPOINTF;
    TypeInclude QtCore QRect VALUE_TYPE_QTCORE_QRECT;
    TypeInclude QtCore QRectF VALUE_TYPE_QTCORE_QRECTF;
    TypeInclude QtCore QSize VALUE_TYPE_QTCORE_QSIZE;
    TypeInclude QtCore QSizeF VALUE_TYPE_QTCORE_QSIZEF;
    TypeInclude QtGui QPageLayout VALUE_TYPE_QTGUI_QPAGELAYOUT;
    TypeInclude QtGui QPageRanges VALUE_TYPE_QTGUI_QPAGERANGES;
    TypeInclude QtGui QPageSize VALUE_TYPE_QTGUI_QPAGESIZE;
    TypeInclude QtGui QPainterPath VALUE_TYPE_QTGUI_QPAINTERPATH;
    TypeInclude QtGui QPixmap VALUE_TYPE_QTGUI_QPIXMAP;
    TypeInclude QtGui QTextItem VALUE_TYPE_QTGUI_QTEXTITEM
  ].

Definition value_methods_qtgui_6_s0 : list signature_row :=
  [
    Sig [] "addPage" [PInt] RVoid [On QPageRanges];
    Sig [] "addRange" [PInt; PInt] RVoid [On QPageRanges];
    Sig [] "clear" [] RVoid [On QPageRanges];
    Sig [] "colorCount" [] RDouble [On QPaintDevice];
    Sig [] "contains" [PInt] RBool [On QPageRanges; On QPageRanges];
    Sig [VALUE_TYPE_QTCORE_QSIZEF] "definitionSize" [] (RValue QSizeF) [On QPageSize];
    Sig [TYPE_QTGUI_QPAGESIZE] "definitionUnits" [] (RMeta QPageSize_Unit) [On QPageSize];
    Sig [VALUE_TYPE_QTCORE_QPOINTF] "delta" [] (RValue QPointF) [On QNativeGestureEvent];
    Sig [] "depth" [] RDouble [On QPaintDevice];
    Sig [] "devicePixelRatio" [] RDouble [On QPaintDevice]
  ].

Definition value_methods_qtgui_6_s10 : list signature_row :=
  [
    Sig [] "devicePixelRatioF" [] RDouble [On QPaintDevice];
    Sig [VALUE_TYPE_QTCORE_QRECT] "drawEllipse" [PValue QRect] RVoid [On QPaintEngine];
    Sig [VALUE_TYPE_QTCORE_QRECTF] "drawEllipse" [PValue QRectF] RVoid [On QPaintEngine];
    Sig [VALUE_TYPE_QTGUI_QPAINTERPATH] "drawPath" [PValue QPainterPath] RVoid [On QPaintEngine];
    Sig [VALUE_TYPE_QTCORE_QPOINTF; VALUE_TYPE_QTGUI_QTEXTITEM] "drawTextItem" [PValue QPointF; PValue
        QTextItem] RVoid [On QPaintEngine];
    Sig [VALUE_TYPE_QTCORE_QPOINTF; VALUE_TYPE_QTCORE_QRECTF; VALUE_TYPE_QTGUI_QPIXMAP] "drawTiledPixmap"
        [PValue QRectF; PValue QPixmap; PValue QPointF] RVoid [On QPaintEngine];
    Sig [] "fingerCount" [] RDouble [On QNativeGestureEvent];
    Sig [] "firstPage" [] RDouble [On QPageRanges];
    Sig [VALUE_TYPE_QTCORE_QRECTF] "fullRect" [] (RValue QRectF) [On QPageLayout]
  ].

Definition value_methods_qtgui_6_s19 : list signature_row :=
  [
    Sig [TYPE_QTGUI_QPAGELAYOUT; VALUE_TYPE_QTCORE_QRECTF] "fullRect" [PValue QPageLayout_Unit] (RValue
        QRectF) [On QPageLayout];
    Sig [VALUE_TYPE_QTCORE_QRECT] "fullRectPixels" [PInt] (RValue QRect) [On QPageLayout];
    Sig [VALUE_TYPE_QTCORE_QRECT] "fullRectPoints" [] (RValue QRect) [On QPageLayout];
    Sig [ENUM_QT_NATIVEGESTURETYPE] "gestureType" [] (RMeta Qt_NativeGestureType) [On QNativeGestureEvent];
    Sig [] "height" [] RDouble [On QPaintDevice];
    Sig [] "heightMM" [] RDouble [On QPaintDevice];
    Sig [TYPE_QTGUI_QPAGESIZE] "id" [] (RMeta QPageSize_PageSizeId) [On QPageSize];
    Sig [] "isActive" [] RBool [On QPaintEngine];
    Sig [] "isEmpty" [] RBool [On QPageRanges];
    Sig [VALUE_TYPE_QTGUI_QPAGELAYOUT] "isEquivalentTo" [PValue QPageLayout] RBool [On QPageLayout]
  ].

Definition value_methods_qtgui_6_s29 : list signature_row :=
  [
    Sig [VALUE_TYPE_QTGUI_QPAGESIZE] "isEquivalentTo" [PValue QPageSize] RBool [On QPageSize];
    Sig [] "isValid" [] RBool [On QPageLayout; On QPageSize];
    Sig [] "key" [] RString [On QPageSize];
    Sig [] "lastPage" [] RDouble [On QPageRanges];
    Sig [] "logicalDpiX" [] RDouble [On QPaintDevice];
    Sig [] "logicalDpiY" [] RDouble [On QPaintDevice];
    Sig [VALUE_TYPE_QTCORE_QMARGINSF] "margins" [] (RValue QMarginsF) [On QPageLayout];
    Sig [TYPE_QTGUI_QPAGELAYOUT; VALUE_TYPE_QTCORE_QMARGINSF] "margins" [PValue QPageLayout_Unit] (RValue
        QMarginsF) [On QPageLayout];
    Sig [VALUE_TYPE_QTCORE_QMARGINS] "marginsPixels" [PInt] (RValue QMargins) [On QPageLayout];
    Sig [VALUE_TYPE_QTCORE_QMARGINS] "marginsPoints" [] (RValue QMargins) [On QPageLayout]
  ].

Definition value_methods_qtgui_6_s39 : list signature_row :=
  [
    Sig [VALUE_TYPE_QTCORE_QMARGINSF] "maximumMargins" [] (RValue QMarginsF) [On QPageLayout];
    Sig [VALUE_TYPE_QTCORE_QMARGINSF] "minimumMargins" [] (RValue QMarginsF) [On QPageLayout];
    Sig [TYPE_QTGUI_QPAGELAYOUT] "mode" [] (RMeta QPageLayout_Mode) [On QPageLayout];
    Sig [] "name" [] RString [On QPageSize];
    Sig [VALUE_TYPE_QTCORE_QPOINT] "oldPos" [] (RValue QPoint) [On QMoveEvent];
    Sig [TYPE_QTGUI_QPAGELAYOUT] "orientation" [] (RMeta QPageLayout_Orientation) [On QPageLayout];
    Sig [VALUE_TYPE_QTGUI_QPAGELAYOUT] "pageLayout" [] (RValue QPageLayout) [On QPagedPaintDevice];
    Sig [VALUE_TYPE_QTGUI_QPAGERANGES] "pageRanges" [] (RValue QPageRanges) [On QPagedPaintDevice];
    Sig [VALUE_TYPE_QTGUI_QPAGESIZE] "pageSize" [] (RValue QPageSize) [On QPageLayout];
    Sig [VALUE_TYPE_QTCORE_QRECTF] "paintRect" [] (RValue QRectF) [On QPageLayout]
  ].

Definition value_methods_qtgui_6_s49 : list signature_row :=
  [
    Sig [TYPE_QTGUI_QPAGELAYOUT; VALUE_TYPE_QTCORE_QRECTF] "paintRect" [PValue QPageLayout_Unit] (RValue
        QRectF) [On QPageLayout];
    Sig [VALUE_TYPE_QTCORE_QRECT] "paintRectPixels" [PInt] (RValue QRect) [On QPageLayout];
    Sig [VALUE_TYPE_QTCORE_QRECT] "paintRectPoints" [] (RValue QRect) [On QPageLayout];
    Sig [] "paintingActive" [] RBool [On QPaintDevice];
    Sig [] "physicalDpiX" [] RDouble [On QPaintDevice];
    Sig [] "physicalDpiY" [] RDouble [On QPaintDevice];
    Sig [VALUE_TYPE_QTCORE_QPOINT] "pos" [] (RValue QPoint) [On QMoveEvent];
    Sig [TYPE_QTGUI_QPAGESIZE; VALUE_TYPE_QTCORE_QRECTF] "rect" [PValue QPageSize_Unit] (RValue QRectF) [On
        QPageSize];
    Sig [VALUE_TYPE_QTCORE_QRECT] "rectPixels" [PInt] (RValue QRect) [On QPageSize];
    Sig [VALUE_TYPE_QTCORE_QRECT] "rectPoints" [] (RValue QRect) [On QPageSize]
  ].

Definition value_methods_qtgui_6_s59 : list signature_row :=
  [
    Sig [] "setActive" [PBool] RVoid [On QPaintEngine];
    Sig [TYPE_QTGUI_QPAGELAYOUT] "setBottomMargin" [PNumber cxx_qreal; PValue
        QPageLayout_OutOfBoundsPolicy] RBool [On QPageLayout];
    Sig [TYPE_QTGUI_QPAGELAYOUT] "setLeftMargin" [PNumber cxx_qreal; PValue QPageLayout_OutOfBoundsPolicy]
        RBool [On QPageLayout];
    Sig [TYPE_QTGUI_QPAGELAYOUT; VALUE_TYPE_QTCORE_QMARGINSF] "setMargins" [PValue QMarginsF; PValue
        QPageLayout_OutOfBoundsPolicy] RBool [On QPageLayout];
    Sig [VALUE_TYPE_QTCORE_QMARGINSF] "setMinimumMargins" [PValue QMarginsF] RVoid [On QPageLayout];
    Sig [TYPE_QTGUI_QPAGELAYOUT] "setMode" [PValue QPageLayout_Mode] RVoid [On QPageLayout];
    Sig [TYPE_QTGUI_QPAGELAYOUT] "setOrientation" [PValue QPageLayout_Orientation] RVoid [On QPageLayout];
    Sig [VALUE_TYPE_QTGUI_QPAGELAYOUT] "setPageLayout" [PValue QPageLayout] RBool [On QPagedPaintDevice];
    Sig [TYPE_QTGUI_QPAGELAYOUT; VALUE_TYPE_QTCORE_QMARGINSF] "setPageMargins" [PValue QMarginsF; PValue
        QPageLayout_Unit] RBool [On QPagedPaintDevice]
  ].

Definition value_methods_qtgui_6_s68 : list signature_row :=
  [
    Sig [TYPE_QTGUI_QPAGELAYOUT] "setPageOrientation" [PValue QPageLayout_Orientation] RBool [On
        QPagedPaintDevice];
    Sig [VALUE_TYPE_QTGUI_QPAGERANGES] "setPageRanges" [PValue QPageRanges] RVoid [On QPagedPaintDevice];
    Sig [VALUE_TYPE_QTGUI_QPAGESIZE] "setPageSize" [PValue QPageSize] RBool [On QPagedPaintDevice];
    Sig [VALUE_TYPE_QTCORE_QMARGINSF; VALUE_TYPE_QTGUI_QPAGESIZE] "setPageSize" [PValue QPageSize; PValue
        QMarginsF] RVoid [On QPageLayout];
    Sig [TYPE_QTGUI_QPAGELAYOUT] "setRightMargin" [PNumber cxx_qreal; PValue QPageLayout_OutOfBoundsPolicy]
        RBool [On QPageLayout];
    Sig [TYPE_QTGUI_QPAGELAYOUT] "setTopMargin" [PNumber cxx_qreal; PValue QPageLayout_OutOfBoundsPolicy]
        RBool [On QPageLayout];
    Sig [TYPE_QTGUI_QPAGELAYOUT] "setUnits" [PValue QPageLayout_Unit] RVoid [On QPageLayout];
    Sig [TYPE_QTGUI_QPAGESIZE; VALUE_TYPE_QTCORE_QSIZEF] "size" [PValue QPageSize_Unit] (RValue QSizeF) [On
        QPageSize]
  ].

Definition value_methods_qtgui_6_s76 : list signature_row :=
  [
    Sig [VALUE_TYPE_QTCORE_QSIZE] "sizePixels" [PInt] (RValue QSize) [On QPageSize];
    Sig [VALUE_TYPE_QTCORE_QSIZE] "sizePoints" [] (RValue QSize) [On QPageSize];
    Sig [VALUE_TYPE_QTGUI_QPAGELAYOUT] "swap" [PValue QPageLayout] RVoid [On QPageLayout];
    Sig [VALUE_TYPE_QTGUI_QPAGERANGES] "swap" [PValue QPageRanges] RVoid [On QPageRanges];
    Sig [VALUE_TYPE_QTGUI_QPAGESIZE] "swap" [PValue QPageSize] RVoid [On QPageSize];
    Sig [] "toString" [] RString [On QPageRanges];
    Sig [TYPE_QTGUI_QPAGELAYOUT] "units" [] (RMeta QPageLayout_Unit) [On QPageLayout];
    Sig [] "value" [] RDouble [On QNativeGestureEvent];
    Sig [] "width" [] RDouble [On QPaintDevice];
    Sig [] "widthMM" [] RDouble [On QPaintDevice]
  ].

Definition value_methods_qtgui_6_s86 : list signature_row :=
  [
    Sig [] "windowsId" [] RDouble [On QPageSize]
  ].

Definition value_methods_qtgui_6_types : list string :=
  [
    QMoveEvent;
    QNativeGestureEvent;
    QPageLayout;
    QPageRanges;
    QPageSize;
    QPagedPaintDevice;
    QPaintDevice;
    QPaintEngine
  ].

Definition value_methods_qtgui_6 : method_shard :=
  MethodShard QtGui "KRY_QT6_NATIVE_METHODS_QTGUI_"
    (value_methods_qtgui_6_i0)
    (value_methods_qtgui_6_s0 ++ value_methods_qtgui_6_s10 ++ value_methods_qtgui_6_s19 ++
        value_methods_qtgui_6_s29 ++ value_methods_qtgui_6_s39 ++ value_methods_qtgui_6_s49 ++
        value_methods_qtgui_6_s59 ++ value_methods_qtgui_6_s68 ++ value_methods_qtgui_6_s76 ++
        value_methods_qtgui_6_s86)
    value_methods_qtgui_6_types.

Definition value_methods_qtgui_7_i0 : list include :=
  [
    ClassInclude QtGui QPaintEngineState QPaintEngineState;
    ClassInclude QtGui QPaintEvent QPaintEvent;
    ClassInclude QtGui QPainter QPainter;
    ClassInclude QtGui QPainterPath QPainterPath;
    ClassInclude QtGui QPainterPathStroker QPainterPathStroker;
    ClassInclude QtGui QPainterStateGuard QPainterStateGuard;
    ClassInclude QtGui QPalette QPalette;
    ClassInclude QtGui QPdfOutputIntent QPdfOutputIntent;
    EnumDefine ENUM_QT_BGMODE;
    EnumDefine ENUM_QT_BRUSHSTYLE;
    EnumDefine ENUM_QT_CLIPOPERATION;
    EnumDefine ENUM_QT_FILLRULE;
    EnumDefine ENUM_QT_GLOBALCOLOR;
    EnumDefine ENUM_QT_LAYOUTDIRECTION;
    EnumDefine ENUM_QT_PENCAPSTYLE;
    EnumDefine ENUM_QT_PENJOINSTYLE;
    EnumDefine ENUM_QT_PENSTYLE;
    EnumDefine ENUM_QT_SIZEMODE;
    TypeInclude QtGui QGradient TYPE_QTGUI_QGRADIENT;
    TypeInclude QtGui QPainter TYPE_QTGUI_QPAINTER;
    TypeInclude QtGui QPainterPath TYPE_QTGUI_QPAINTERPATH;
    TypeInclude QtGui QPalette TYPE_QTGUI_QPALETTE;
    TypeInclude QtCore QLine VALUE_TYPE_QTCORE_QLINE;
    TypeInclude QtCore QLineF VALUE_TYPE_QTCORE_QLINEF;
    TypeInclude QtCore QPoint VALUE_TYPE_QTCORE_QPOINT;
    TypeInclude QtCore QPointF VALUE_TYPE_QTCORE_QPOINTF;
    TypeInclude QtCore QRect VALUE_TYPE_QTCORE_QRECT;
    TypeInclude QtCore QRectF VALUE_TYPE_QTCORE_QRECTF;
    TypeInclude QtCore QUrl VALUE_TYPE_QTCORE_QURL;
    TypeInclude QtGui QBrush VALUE_TYPE_QTGUI_QBRUSH;
    TypeInclude QtGui QColor VALUE_TYPE_QTGUI_QCOLOR;
    TypeInclude QtGui QColorSpace VALUE_TYPE_QTGUI_QCOLORSPACE;
    TypeInclude QtGui QFont VALUE_TYPE_QTGUI_QFONT;
    TypeInclude QtGui QFontInfo VALUE_TYPE_QTGUI_QFONTINFO;
    TypeInclude QtGui QFontMetrics VALUE_TYPE_QTGUI_QFONTMETRICS;
    TypeInclude QtGui QGlyphRun VALUE_TYPE_QTGUI_QGLYPHRUN;
    TypeInclude QtGui QImage VALUE_TYPE_QTGUI_QIMAGE;
    TypeInclude QtGui QPainterPath VALUE_TYPE_QTGUI_QPAINTERPATH;
    TypeInclude QtGui QPainterStateGuard VALUE_TYPE_QTGUI_QPAINTERSTATEGUARD;
    TypeInclude QtGui QPalette VALUE_TYPE_QTGUI_QPALETTE;
    TypeInclude QtGui QPdfOutputIntent VALUE_TYPE_QTGUI_QPDFOUTPUTINTENT;
    TypeInclude QtGui QPen VALUE_TYPE_QTGUI_QPEN;
    TypeInclude QtGui QPicture VALUE_TYPE_QTGUI_QPICTURE;
    TypeInclude QtGui QPixmap VALUE_TYPE_QTGUI_QPIXMAP;
    TypeInclude QtGui QPolygon VALUE_TYPE_QTGUI_QPOLYGON;
    TypeInclude QtGui QPolygonF VALUE_TYPE_QTGUI_QPOLYGONF;
    TypeInclude QtGui QRegion VALUE_TYPE_QTGUI_QREGION;
    TypeInclude QtGui QStaticText VALUE_TYPE_QTGUI_QSTATICTEXT;
    TypeInclude QtGui QTextOption VALUE_TYPE_QTGUI_QTEXTOPTION;
    TypeInclude QtGui QTransform VALUE_TYPE_QTGUI_QTRANSFORM
  ].

Definition value_methods_qtgui_7_s0 : list signature_row :=
  [
    Sig [VALUE_TYPE_QTGUI_QBRUSH] "accent" [] (RValue QBrush) [On QPalette];
    Sig [VALUE_TYPE_QTCORE_QPOINTF] "addEllipse" [PValue QPointF; PNumber cxx_qreal; PNumber cxx_qreal]
        RVoid [On QPainterPath];
    Sig [VALUE_TYPE_QTCORE_QRECTF] "addEllipse" [PValue QRectF] RVoid [On QPainterPath];
    Sig [] "addEllipse" [PNumber cxx_qreal; PNumber cxx_qreal; PNumber cxx_qreal; PNumber cxx_qreal] RVoid
        [On QPainterPath];
    Sig [VALUE_TYPE_QTGUI_QPAINTERPATH] "addPath" [PValue QPainterPath] RVoid [On QPainterPath];
    Sig [VALUE_TYPE_QTGUI_QPOLYGONF] "addPolygon" [PValue QPolygonF] RVoid [On QPainterPath];
    Sig [VALUE_TYPE_QTCORE_QRECTF] "addRect" [PValue QRectF] RVoid [On QPainterPath];
    Sig [] "addRect" [PNumber cxx_qreal; PNumber cxx_qreal; PNumber cxx_qreal; PNumber cxx_qreal] RVoid [On
        QPainterPath]
  ].

Definition value_methods_qtgui_7_s8 : list signature_row :=
  [
    Sig [VALUE_TYPE_QTGUI_QREGION] "addRegion" [PValue QRegion] RVoid [On QPainterPath];
    Sig [ENUM_QT_SIZEMODE; VALUE_TYPE_QTCORE_QRECTF] "addRoundedRect" [PValue QRectF; PNumber cxx_qreal;
        PNumber cxx_qreal; PValue Qt_SizeMode] RVoid [On QPainterPath];
    Sig [ENUM_QT_SIZEMODE] "addRoundedRect" [PNumber cxx_qreal; PNumber cxx_qreal; PNumber cxx_qreal;
        PNumber cxx_qreal; PNumber cxx_qreal; PNumber cxx_qreal; PValue Qt_SizeMode] RVoid [On
        QPainterPath];
    Sig [VALUE_TYPE_QTCORE_QPOINTF; VALUE_TYPE_QTGUI_QFONT] "addText" [PValue QPointF; PValue QFont;
        PString true] RVoid [On QPainterPath];
    Sig [VALUE_TYPE_QTGUI_QFONT] "addText" [PNumber cxx_qreal; PNumber cxx_qreal; PValue QFont; PString
        true] RVoid [On QPainterPath];
    Sig [VALUE_TYPE_QTGUI_QBRUSH] "alternateBase" [] (RValue QBrush) [On QPalette];
    Sig [] "angleAtPercent" [PNumber cxx_qreal] RDouble [On QPainterPath];
    Sig [VALUE_TYPE_QTCORE_QRECTF] "arcMoveTo" [PValue QRectF; PNumber cxx_qreal] RVoid [On QPainterPath]
  ].

Definition value_methods_qtgui_7_s16 : list signature_row :=
  [
    Sig [] "arcMoveTo" [PNumber cxx_qreal; PNumber cxx_qreal; PNumber cxx_qreal; PNumber cxx_qreal; PNumber
        cxx_qreal] RVoid [On QPainterPath];
    Sig [VALUE_TYPE_QTCORE_QRECTF] "arcTo" [PValue QRectF; PNumber cxx_qreal; PNumber cxx_qreal] RVoid [On
        QPainterPath];
    Sig [] "arcTo" [PNumber cxx_qreal; PNumber cxx_qreal; PNumber cxx_qreal; PNumber cxx_qreal; PNumber
        cxx_qreal; PNumber cxx_qreal] RVoid [On QPainterPath];
    Sig [VALUE_TYPE_QTGUI_QBRUSH] "background" [] (RValue QBrush) [On QPainter];
    Sig [VALUE_TYPE_QTGUI_QBRUSH] "backgroundBrush" [] (RValue QBrush) [On QPaintEngineState];
    Sig [ENUM_QT_BGMODE] "backgroundMode" [] (RMeta Qt_BGMode) [On QPaintEngineState; On QPainter];
    Sig [VALUE_TYPE_QTGUI_QBRUSH] "base" [] (RValue QBrush) [On QPalette];
    Sig [] "beginNativePainting" [] RVoid [On QPainter]
  ].

Definition value_methods_qtgui_7_s24 : list signature_row :=
  [
    Sig [VALUE_TYPE_QTCORE_QRECTF] "boundingRect" [] (RValue QRectF) [On QPainterPath];
    Sig [VALUE_TYPE_QTCORE_QRECT] "boundingRect" [PValue QRect; PInt; PString true] (RValue QRect) [On
        QPainter];
    Sig [VALUE_TYPE_QTCORE_QRECTF; VALUE_TYPE_QTGUI_QTEXTOPTION] "boundingRect" [PValue QRectF; PString
        true; PValue QTextOption] (RValue QRectF) [On QPainter];
    Sig [VALUE_TYPE_QTCORE_QRECTF] "boundingRect" [PValue QRectF; PInt; PString true] (RValue QRectF) [On
        QPainter];
    Sig [VALUE_TYPE_QTCORE_QRECT] "boundingRect" [PInt; PInt; PInt; PInt; PInt; PString true] (RValue
        QRect) [On QPainter];
    Sig [VALUE_TYPE_QTGUI_QBRUSH] "brightText" [] (RValue QBrush) [On QPalette];
    Sig [VALUE_TYPE_QTGUI_QBRUSH] "brush" [] (RValue QBrush) [On QPaintEngineState; On QPainter]
  ].

Definition value_methods_qtgui_7_s31 : list signature_row :=
  [
    Sig [TYPE_QTGUI_QPALETTE; VALUE_TYPE_QTGUI_QBRUSH] "brush" [PValue QPalette_ColorGroup; PValue
        QPalette_ColorRole] (RValue QBrush) [On QPalette];
    Sig [TYPE_QTGUI_QPALETTE; VALUE_TYPE_QTGUI_QBRUSH] "brush" [PValue QPalette_ColorRole] (RValue QBrush)
        [On QPalette];
    Sig [] "brushNeedsResolving" [] RBool [On QPaintEngineState];
    Sig [VALUE_TYPE_QTCORE_QPOINT] "brushOrigin" [] (RValue QPoint) [On QPainter];
    Sig [VALUE_TYPE_QTCORE_QPOINTF] "brushOrigin" [] (RValue QPointF) [On QPaintEngineState];
    Sig [VALUE_TYPE_QTCORE_QPOINTF] "brushOriginF" [] (RValue QPointF) [On QPainter];
    Sig [VALUE_TYPE_QTGUI_QBRUSH] "button" [] (RValue QBrush) [On QPalette];
    Sig [VALUE_TYPE_QTGUI_QBRUSH] "buttonText" [] (RValue QBrush) [On QPalette];
    Sig [] "cacheKey" [] (RMeta cxx_qint64) [On QPalette];
    Sig [ENUM_QT_PENCAPSTYLE] "capStyle" [] (RMeta Qt_PenCapStyle) [On QPainterPathStroker]
  ].

Definition value_methods_qtgui_7_s41 : list signature_row :=
  [
    Sig [] "capacity" [] RDouble [On QPainterPath];
    Sig [] "clear" [] RVoid [On QPainterPath];
    Sig [VALUE_TYPE_QTCORE_QRECTF] "clipBoundingRect" [] (RValue QRectF) [On QPainter];
    Sig [ENUM_QT_CLIPOPERATION] "clipOperation" [] (RMeta Qt_ClipOperation) [On QPaintEngineState];
    Sig [VALUE_TYPE_QTGUI_QPAINTERPATH] "clipPath" [] (RValue QPainterPath) [On QPaintEngineState; On
        QPainter];
    Sig [VALUE_TYPE_QTGUI_QREGION] "clipRegion" [] (RValue QRegion) [On QPaintEngineState; On QPainter];
    Sig [] "closeSubpath" [] RVoid [On QPainterPath];
    Sig [TYPE_QTGUI_QPALETTE; VALUE_TYPE_QTGUI_QCOLOR] "color" [PValue QPalette_ColorGroup; PValue
        QPalette_ColorRole] (RValue QColor) [On QPalette];
    Sig [TYPE_QTGUI_QPALETTE; VALUE_TYPE_QTGUI_QCOLOR] "color" [PValue QPalette_ColorRole] (RValue QColor)
        [On QPalette]
  ].

Definition value_methods_qtgui_7_s50 : list signature_row :=
  [
    Sig [VALUE_TYPE_QTGUI_QTRANSFORM] "combinedTransform" [] (RValue QTransform) [On QPainter];
    Sig [TYPE_QTGUI_QPAINTER] "compositionMode" [] (RMeta QPainter_CompositionMode) [On QPaintEngineState;
        On QPainter];
    Sig [VALUE_TYPE_QTGUI_QPAINTERPATH] "connectPath" [PValue QPainterPath] RVoid [On QPainterPath];
    Sig [VALUE_TYPE_QTGUI_QPAINTERPATH] "contains" [PValue QPainterPath] RBool [On QPainterPath];
    Sig [VALUE_TYPE_QTCORE_QPOINTF] "contains" [PValue QPointF] RBool [On QPainterPath];
    Sig [VALUE_TYPE_QTCORE_QRECTF] "contains" [PValue QRectF] RBool [On QPainterPath];
    Sig [VALUE_TYPE_QTCORE_QRECTF] "controlPointRect" [] (RValue QRectF) [On QPainterPath];
    Sig [VALUE_TYPE_QTGUI_QPAINTERPATH] "createStroke" [PValue QPainterPath] (RValue QPainterPath) [On
        QPainterPathStroker];
    Sig [VALUE_TYPE_QTCORE_QPOINTF] "cubicTo" [PValue QPointF; PValue QPointF; PValue QPointF] RVoid [On
        QPainterPath]
  ].

Definition value_methods_qtgui_7_s59 : list signature_row :=
  [
    Sig [] "cubicTo" [PNumber cxx_qreal; PNumber cxx_qreal; PNumber cxx_qreal; PNumber cxx_qreal; PNumber
        cxx_qreal; PNumber cxx_qreal] RVoid [On QPainterPath];
    Sig [TYPE_QTGUI_QPALETTE] "currentColorGroup" [] (RMeta QPalette_ColorGroup) [On QPalette];
    Sig [VALUE_TYPE_QTCORE_QPOINTF] "currentPosition" [] (RValue QPointF) [On QPainterPath];
    Sig [] "curveThreshold" [] RDouble [On QPainterPathStroker];
    Sig [VALUE_TYPE_QTGUI_QBRUSH] "dark" [] (RValue QBrush) [On QPalette];
    Sig [] "dashOffset" [] RDouble [On QPainterPathStroker];
    Sig [] "dashPattern" [] (RList (IMeta cxx_qreal)) [On QPainterPathStroker];
    Sig [VALUE_TYPE_QTGUI_QTRANSFORM] "deviceTransform" [] (RValue QTransform) [On QPainter];
    Sig [VALUE_TYPE_QTCORE_QRECT] "drawArc" [PValue QRect; PInt; PInt] RVoid [On QPainter]
  ].

Definition value_methods_qtgui_7_s68 : list signature_row :=
  [
    Sig [VALUE_TYPE_QTCORE_QRECTF] "drawArc" [PValue QRectF; PInt; PInt] RVoid [On QPainter];
    Sig [] "drawArc" [PInt; PInt; PInt; PInt; PInt; PInt] RVoid [On QPainter];
    Sig [VALUE_TYPE_QTCORE_QRECT] "drawChord" [PValue QRect; PInt; PInt] RVoid [On QPainter];
    Sig [VALUE_TYPE_QTCORE_QRECTF] "drawChord" [PValue QRectF; PInt; PInt] RVoid [On QPainter];
    Sig [] "drawChord" [PInt; PInt; PInt; PInt; PInt; PInt] RVoid [On QPainter];
    Sig [VALUE_TYPE_QTGUI_QPOLYGON] "drawConvexPolygon" [PValue QPolygon] RVoid [On QPainter];
    Sig [VALUE_TYPE_QTGUI_QPOLYGONF] "drawConvexPolygon" [PValue QPolygonF] RVoid [On QPainter]
  ].

Definition value_methods_qtgui_7_s75 : list signature_row :=
  [
    Sig [VALUE_TYPE_QTCORE_QPOINT] "drawEllipse" [PValue QPoint; PInt; PInt] RVoid [On QPainter];
    Sig [VALUE_TYPE_QTCORE_QPOINTF] "drawEllipse" [PValue QPointF; PNumber cxx_qreal; PNumber cxx_qreal]
        RVoid [On QPainter];
    Sig [VALUE_TYPE_QTCORE_QRECT] "drawEllipse" [PValue QRect] RVoid [On QPainter];
    Sig [VALUE_TYPE_QTCORE_QRECTF] "drawEllipse" [PValue QRectF] RVoid [On QPainter];
    Sig [] "drawEllipse" [PInt; PInt; PInt; PInt] RVoid [On QPainter];
    Sig [VALUE_TYPE_QTCORE_QPOINTF; VALUE_TYPE_QTGUI_QGLYPHRUN] "drawGlyphRun" [PValue QPointF; PValue
        QGlyphRun] RVoid [On QPainter];
    Sig [VALUE_TYPE_QTCORE_QPOINT; VALUE_TYPE_QTGUI_QIMAGE] "drawImage" [PValue QPoint; PValue QImage]
        RVoid [On QPainter];
    Sig [VALUE_TYPE_QTCORE_QPOINTF; VALUE_TYPE_QTGUI_QIMAGE] "drawImage" [PValue QPointF; PValue QImage]
        RVoid [On QPainter]
  ].

Definition value_methods_qtgui_7_s83 : list signature_row :=
  [
    Sig [VALUE_TYPE_QTCORE_QRECT; VALUE_TYPE_QTGUI_QIMAGE] "drawImage" [PValue QRect; PValue QImage] RVoid
        [On QPainter];
    Sig [VALUE_TYPE_QTCORE_QRECTF; VALUE_TYPE_QTGUI_QIMAGE] "drawImage" [PValue QRectF; PValue QImage]
        RVoid [On QPainter];
    Sig [VALUE_TYPE_QTCORE_QLINE] "drawLine" [PValue QLine] RVoid [On QPainter];
    Sig [VALUE_TYPE_QTCORE_QLINEF] "drawLine" [PValue QLineF] RVoid [On QPainter];
    Sig [VALUE_TYPE_QTCORE_QPOINT] "drawLine" [PValue QPoint; PValue QPoint] RVoid [On QPainter];
    Sig [VALUE_TYPE_QTCORE_QPOINTF] "drawLine" [PValue QPointF; PValue QPointF] RVoid [On QPainter];
    Sig [] "drawLine" [PInt; PInt; PInt; PInt] RVoid [On QPainter];
    Sig [VALUE_TYPE_QTGUI_QPAINTERPATH] "drawPath" [PValue QPainterPath] RVoid [On QPainter]
  ].

Definition value_methods_qtgui_7_s91 : list signature_row :=
  [
    Sig [VALUE_TYPE_QTCORE_QPOINT; VALUE_TYPE_QTGUI_QPICTURE] "drawPicture" [PValue QPoint; PValue
        QPicture] RVoid [On QPainter];
    Sig [VALUE_TYPE_QTCORE_QPOINTF; VALUE_TYPE_QTGUI_QPICTURE] "drawPicture" [PValue QPointF; PValue
        QPicture] RVoid [On QPainter];
    Sig [VALUE_TYPE_QTGUI_QPICTURE] "drawPicture" [PInt; PInt; PValue QPicture] RVoid [On QPainter];
    Sig [VALUE_TYPE_QTCORE_QRECT] "drawPie" [PValue QRect; PInt; PInt] RVoid [On QPainter];
    Sig [VALUE_TYPE_QTCORE_QRECTF] "drawPie" [PValue QRectF; PInt; PInt] RVoid [On QPainter];
    Sig [] "drawPie" [PInt; PInt; PInt; PInt; PInt; PInt] RVoid [On QPainter];
    Sig [VALUE_TYPE_QTCORE_QPOINT; VALUE_TYPE_QTGUI_QPIXMAP] "drawPixmap" [PValue QPoint; PValue QPixmap]
        RVoid [On QPainter]
  ].

Definition value_methods_qtgui_7_s98 : list signature_row :=
  [
    Sig [VALUE_TYPE_QTCORE_QPOINT; VALUE_TYPE_QTCORE_QRECT; VALUE_TYPE_QTGUI_QPIXMAP] "drawPixmap" [PValue
        QPoint; PValue QPixmap; PValue QRect] RVoid [On QPainter];
    Sig [VALUE_TYPE_QTCORE_QPOINTF; VALUE_TYPE_QTGUI_QPIXMAP] "drawPixmap" [PValue QPointF; PValue QPixmap]
        RVoid [On QPainter];
    Sig [VALUE_TYPE_QTCORE_QPOINTF; VALUE_TYPE_QTCORE_QRECTF; VALUE_TYPE_QTGUI_QPIXMAP] "drawPixmap"
        [PValue QPointF; PValue QPixmap; PValue QRectF] RVoid [On QPainter];
    Sig [VALUE_TYPE_QTCORE_QRECT; VALUE_TYPE_QTGUI_QPIXMAP] "drawPixmap" [PValue QRect; PValue QPixmap]
        RVoid [On QPainter];
    Sig [VALUE_TYPE_QTCORE_QRECT; VALUE_TYPE_QTGUI_QPIXMAP] "drawPixmap" [PValue QRect; PValue QPixmap;
        PValue QRect] RVoid [On QPainter];
    Sig [VALUE_TYPE_QTCORE_QRECTF; VALUE_TYPE_QTGUI_QPIXMAP] "drawPixmap" [PValue QRectF; PValue QPixmap;
        PValue QRectF] RVoid [On QPainter];
    Sig [VALUE_TYPE_QTGUI_QPIXMAP] "drawPixmap" [PInt; PInt; PValue QPixmap] RVoid [On QPainter]
  ].

Definition value_methods_qtgui_7_s105 : list signature_row :=
  [
    Sig [VALUE_TYPE_QTGUI_QPIXMAP] "drawPixmap" [PInt; PInt; PValue QPixmap; PInt; PInt; PInt; PInt] RVoid
        [On QPainter];
    Sig [VALUE_TYPE_QTGUI_QPIXMAP] "drawPixmap" [PInt; PInt; PInt; PInt; PValue QPixmap] RVoid [On
        QPainter];
    Sig [VALUE_TYPE_QTGUI_QPIXMAP] "drawPixmap" [PInt; PInt; PInt; PInt; PValue QPixmap; PInt; PInt; PInt;
        PInt] RVoid [On QPainter];
    Sig [VALUE_TYPE_QTCORE_QPOINT] "drawPoint" [PValue QPoint] RVoid [On QPainter];
    Sig [VALUE_TYPE_QTCORE_QPOINTF] "drawPoint" [PValue QPointF] RVoid [On QPainter];
    Sig [] "drawPoint" [PInt; PInt] RVoid [On QPainter]
  ].

Definition value_methods_qtgui_7_s111 : list signature_row :=
  [
    Sig [VALUE_TYPE_QTGUI_QPOLYGON] "drawPoints" [PValue QPolygon] RVoid [On QPainter];
    Sig [VALUE_TYPE_QTGUI_QPOLYGONF] "drawPoints" [PValue QPolygonF] RVoid [On QPainter];
    Sig [ENUM_QT_FILLRULE; VALUE_TYPE_QTGUI_QPOLYGON] "drawPolygon" [PValue QPolygon; PValue Qt_FillRule]
        RVoid [On QPainter];
    Sig [ENUM_QT_FILLRULE; VALUE_TYPE_QTGUI_QPOLYGONF] "drawPolygon" [PValue QPolygonF; PValue Qt_FillRule]
        RVoid [On QPainter];
    Sig [VALUE_TYPE_QTGUI_QPOLYGON] "drawPolyline" [PValue QPolygon] RVoid [On QPainter];
    Sig [VALUE_TYPE_QTGUI_QPOLYGONF] "drawPolyline" [PValue QPolygonF] RVoid [On QPainter];
    Sig [VALUE_TYPE_QTCORE_QRECT] "drawRect" [PValue QRect] RVoid [On QPainter];
    Sig [VALUE_TYPE_QTCORE_QRECTF] "drawRect" [PValue QRectF] RVoid [On QPainter]
  ].

Definition value_methods_qtgui_7_s119 : list signature_row :=
  [
    Sig [] "drawRect" [PInt; PInt; PInt; PInt] RVoid [On QPainter];
    Sig [ENUM_QT_SIZEMODE; VALUE_TYPE_QTCORE_QRECT] "drawRoundedRect" [PValue QRect; PNumber cxx_qreal;
        PNumber cxx_qreal; PValue Qt_SizeMode] RVoid [On QPainter];
    Sig [ENUM_QT_SIZEMODE; VALUE_TYPE_QTCORE_QRECTF] "drawRoundedRect" [PValue QRectF; PNumber cxx_qreal;
        PNumber cxx_qreal; PValue Qt_SizeMode] RVoid [On QPainter];
    Sig [ENUM_QT_SIZEMODE] "drawRoundedRect" [PInt; PInt; PInt; PInt; PNumber cxx_qreal; PNumber cxx_qreal;
        PValue Qt_SizeMode] RVoid [On QPainter];
    Sig [VALUE_TYPE_QTCORE_QPOINT; VALUE_TYPE_QTGUI_QSTATICTEXT] "drawStaticText" [PValue QPoint; PValue
        QStaticText] RVoid [On QPainter];
    Sig [VALUE_TYPE_QTCORE_QPOINTF; VALUE_TYPE_QTGUI_QSTATICTEXT] "drawStaticText" [PValue QPointF; PValue
        QStaticText] RVoid [On QPainter];
    Sig [VALUE_TYPE_QTGUI_QSTATICTEXT] "drawStaticText" [PInt; PInt; PValue QStaticText] RVoid [On QPainter]
  ].

Definition value_methods_qtgui_7_s126 : list signature_row :=
  [
    Sig [VALUE_TYPE_QTCORE_QPOINT] "drawText" [PValue QPoint; PString true] RVoid [On QPainter];
    Sig [VALUE_TYPE_QTCORE_QPOINTF] "drawText" [PValue QPointF; PString true] RVoid [On QPainter];
    Sig [VALUE_TYPE_QTCORE_QRECTF; VALUE_TYPE_QTGUI_QTEXTOPTION] "drawText" [PValue QRectF; PString true;
        PValue QTextOption] RVoid [On QPainter];
    Sig [] "drawText" [PInt; PInt; PString true] RVoid [On QPainter];
    Sig [VALUE_TYPE_QTCORE_QPOINT; VALUE_TYPE_QTCORE_QRECT; VALUE_TYPE_QTGUI_QPIXMAP] "drawTiledPixmap"
        [PValue QRect; PValue QPixmap; PValue QPoint] RVoid [On QPainter];
    Sig [VALUE_TYPE_QTCORE_QPOINTF; VALUE_TYPE_QTCORE_QRECTF; VALUE_TYPE_QTGUI_QPIXMAP] "drawTiledPixmap"
        [PValue QRectF; PValue QPixmap; PValue QPointF] RVoid [On QPainter];
    Sig [VALUE_TYPE_QTGUI_QPIXMAP] "drawTiledPixmap" [PInt; PInt; PInt; PInt; PValue QPixmap; PInt; PInt]
        RVoid [On QPainter]
  ].

Definition value_methods_qtgui_7_s133 : list signature_row :=
  [
    Sig [TYPE_QTGUI_QPAINTERPATH] "elementAt" [PInt] (RMeta QPainterPath_Element) [On QPainterPath];
    Sig [] "elementCount" [] RDouble [On QPainterPath];
    Sig [] "end" [] RBool [On QPainter];
    Sig [] "endNativePainting" [] RVoid [On QPainter];
    Sig [VALUE_TYPE_QTCORE_QRECT] "eraseRect" [PValue QRect] RVoid [On QPainter];
    Sig [VALUE_TYPE_QTCORE_QRECTF] "eraseRect" [PValue QRectF] RVoid [On QPainter];
    Sig [] "eraseRect" [PInt; PInt; PInt; PInt] RVoid [On QPainter];
    Sig [VALUE_TYPE_QTGUI_QBRUSH; VALUE_TYPE_QTGUI_QPAINTERPATH] "fillPath" [PValue QPainterPath; PValue
        QBrush] RVoid [On QPainter];
    Sig [VALUE_TYPE_QTCORE_QRECT; VALUE_TYPE_QTGUI_QBRUSH] "fillRect" [PValue QRect; PValue QBrush] RVoid
        [On QPainter]
  ].

Definition value_methods_qtgui_7_s142 : list signature_row :=
  [
    Sig [VALUE_TYPE_QTCORE_QRECT; VALUE_TYPE_QTGUI_QCOLOR] "fillRect" [PValue QRect; PValue QColor] RVoid
        [On QPainter; On QPainter];
    Sig [TYPE_QTGUI_QGRADIENT; VALUE_TYPE_QTCORE_QRECT] "fillRect" [PValue QRect; PValue QGradient_Preset]
        RVoid [On QPainter; On QPainter; On QPainter; On QPainter; On QPainter];
    Sig [ENUM_QT_BRUSHSTYLE; VALUE_TYPE_QTCORE_QRECT] "fillRect" [PValue QRect; PValue Qt_BrushStyle] RVoid
        [On QPainter; On QPainter; On QPainter; On QPainter; On QPainter];
    Sig [ENUM_QT_GLOBALCOLOR; VALUE_TYPE_QTCORE_QRECT] "fillRect" [PValue QRect; PValue Qt_GlobalColor]
        RVoid [On QPainter; On QPainter; On QPainter; On QPainter; On QPainter]
  ].

Definition value_methods_qtgui_7_s146 : list signature_row :=
  [
    Sig [VALUE_TYPE_QTCORE_QRECTF; VALUE_TYPE_QTGUI_QBRUSH] "fillRect" [PValue QRectF; PValue QBrush] RVoid
        [On QPainter];
    Sig [VALUE_TYPE_QTCORE_QRECTF; VALUE_TYPE_QTGUI_QCOLOR] "fillRect" [PValue QRectF; PValue QColor] RVoid
        [On QPainter; On QPainter];
    Sig [TYPE_QTGUI_QGRADIENT; VALUE_TYPE_QTCORE_QRECTF] "fillRect" [PValue QRectF; PValue
        QGradient_Preset] RVoid [On QPainter; On QPainter; On QPainter; On QPainter; On QPainter];
    Sig [ENUM_QT_BRUSHSTYLE; VALUE_TYPE_QTCORE_QRECTF] "fillRect" [PValue QRectF; PValue Qt_BrushStyle]
        RVoid [On QPainter; On QPainter; On QPainter; On QPainter; On QPainter]
  ].

Definition value_methods_qtgui_7_s150 : list signature_row :=
  [
    Sig [ENUM_QT_GLOBALCOLOR; VALUE_TYPE_QTCORE_QRECTF] "fillRect" [PValue QRectF; PValue Qt_GlobalColor]
        RVoid [On QPainter; On QPainter; On QPainter; On QPainter; On QPainter];
    Sig [VALUE_TYPE_QTGUI_QBRUSH] "fillRect" [PInt; PInt; PInt; PInt; PValue QBrush] RVoid [On QPainter];
    Sig [VALUE_TYPE_QTGUI_QCOLOR] "fillRect" [PInt; PInt; PInt; PInt; PValue QColor] RVoid [On QPainter; On
        QPainter];
    Sig [TYPE_QTGUI_QGRADIENT] "fillRect" [PInt; PInt; PInt; PInt; PValue QGradient_Preset] RVoid [On
        QPainter; On QPainter; On QPainter; On QPainter; On QPainter]
  ].

Definition value_methods_qtgui_7_s154 : list signature_row :=
  [
    Sig [ENUM_QT_BRUSHSTYLE] "fillRect" [PInt; PInt; PInt; PInt; PValue Qt_BrushStyle] RVoid [On QPainter;
        On QPainter; On QPainter; On QPainter; On QPainter];
    Sig [ENUM_QT_GLOBALCOLOR] "fillRect" [PInt; PInt; PInt; PInt; PValue Qt_GlobalColor] RVoid [On
        QPainter; On QPainter; On QPainter; On QPainter; On QPainter];
    Sig [ENUM_QT_FILLRULE] "fillRule" [] (RMeta Qt_FillRule) [On QPainterPath];
    Sig [VALUE_TYPE_QTGUI_QFONT] "font" [] (RValue QFont) [On QPaintEngineState; On QPainter];
    Sig [VALUE_TYPE_QTGUI_QFONTINFO] "fontInfo" [] (RValue QFontInfo) [On QPainter]
  ].

Definition value_methods_qtgui_7_s159 : list signature_row :=
  [
    Sig [VALUE_TYPE_QTGUI_QFONTMETRICS] "fontMetrics" [] (RValue QFontMetrics) [On QPainter];
    Sig [] "hasClipping" [] RBool [On QPainter];
    Sig [VALUE_TYPE_QTGUI_QBRUSH] "highlight" [] (RValue QBrush) [On QPalette];
    Sig [VALUE_TYPE_QTGUI_QBRUSH] "highlightedText" [] (RValue QBrush) [On QPalette];
    Sig [VALUE_TYPE_QTGUI_QPAINTERPATH] "intersected" [PValue QPainterPath] (RValue QPainterPath) [On
        QPainterPath];
    Sig [VALUE_TYPE_QTGUI_QPAINTERPATH] "intersects" [PValue QPainterPath] RBool [On QPainterPath];
    Sig [VALUE_TYPE_QTCORE_QRECTF] "intersects" [PValue QRectF] RBool [On QPainterPath];
    Sig [] "isActive" [] RBool [On QPainter];
    Sig [TYPE_QTGUI_QPALETTE] "isBrushSet" [PValue QPalette_ColorGroup; PValue QPalette_ColorRole] RBool
        [On QPalette];
    Sig [] "isCachingEnabled" [] RBool [On QPainterPath]
  ].

Definition value_methods_qtgui_7_s169 : list signature_row :=
  [
    Sig [] "isClipEnabled" [] RBool [On QPaintEngineState];
    Sig [VALUE_TYPE_QTGUI_QPALETTE] "isCopyOf" [PValue QPalette] RBool [On QPalette];
    Sig [] "isEmpty" [] RBool [On QPainterPath];
    Sig [TYPE_QTGUI_QPALETTE] "isEqual" [PValue QPalette_ColorGroup; PValue QPalette_ColorGroup] RBool [On
        QPalette];
    Sig [ENUM_QT_PENJOINSTYLE] "joinStyle" [] (RMeta Qt_PenJoinStyle) [On QPainterPathStroker];
    Sig [ENUM_QT_LAYOUTDIRECTION] "layoutDirection" [] (RMeta Qt_LayoutDirection) [On QPainter];
    Sig [] "length" [] RDouble [On QPainterPath];
    Sig [VALUE_TYPE_QTGUI_QBRUSH] "light" [] (RValue QBrush) [On QPalette];
    Sig [VALUE_TYPE_QTCORE_QPOINTF] "lineTo" [PValue QPointF] RVoid [On QPainterPath];
    Sig [] "lineTo" [PNumber cxx_qreal; PNumber cxx_qreal] RVoid [On QPainterPath]
  ].

Definition value_methods_qtgui_7_s179 : list signature_row :=
  [
    Sig [VALUE_TYPE_QTGUI_QBRUSH] "link" [] (RValue QBrush) [On QPalette];
    Sig [VALUE_TYPE_QTGUI_QBRUSH] "linkVisited" [] (RValue QBrush) [On QPalette];
    Sig [VALUE_TYPE_QTGUI_QBRUSH] "mid" [] (RValue QBrush) [On QPalette];
    Sig [VALUE_TYPE_QTGUI_QBRUSH] "midlight" [] (RValue QBrush) [On QPalette];
    Sig [] "miterLimit" [] RDouble [On QPainterPathStroker];
    Sig [VALUE_TYPE_QTCORE_QPOINTF] "moveTo" [PValue QPointF] RVoid [On QPainterPath];
    Sig [] "moveTo" [PNumber cxx_qreal; PNumber cxx_qreal] RVoid [On QPainterPath];
    Sig [] "opacity" [] RDouble [On QPaintEngineState; On QPainter];
    Sig [] "outputCondition" [] RString [On QPdfOutputIntent];
    Sig [] "outputConditionIdentifier" [] RString [On QPdfOutputIntent]
  ].

Definition value_methods_qtgui_7_s189 : list signature_row :=
  [
    Sig [VALUE_TYPE_QTGUI_QCOLORSPACE] "outputProfile" [] (RValue QColorSpace) [On QPdfOutputIntent];
    Sig [VALUE_TYPE_QTGUI_QPEN] "pen" [] (RValue QPen) [On QPaintEngineState; On QPainter];
    Sig [] "penNeedsResolving" [] RBool [On QPaintEngineState];
    Sig [] "percentAtLength" [PNumber cxx_qreal] RDouble [On QPainterPath];
    Sig [VALUE_TYPE_QTGUI_QBRUSH] "placeholderText" [] (RValue QBrush) [On QPalette];
    Sig [VALUE_TYPE_QTCORE_QPOINTF] "pointAtPercent" [PNumber cxx_qreal] (RValue QPointF) [On QPainterPath];
    Sig [VALUE_TYPE_QTCORE_QPOINTF] "quadTo" [PValue QPointF; PValue QPointF] RVoid [On QPainterPath];
    Sig [] "quadTo" [PNumber cxx_qreal; PNumber cxx_qreal; PNumber cxx_qreal; PNumber cxx_qreal] RVoid [On
        QPainterPath];
    Sig [VALUE_TYPE_QTCORE_QRECT] "rect" [] (RValue QRect) [On QPaintEvent]
  ].

Definition value_methods_qtgui_7_s198 : list signature_row :=
  [
    Sig [VALUE_TYPE_QTGUI_QREGION] "region" [] (RValue QRegion) [On QPaintEvent];
    Sig [VALUE_TYPE_QTCORE_QURL] "registryName" [] (RValue QUrl) [On QPdfOutputIntent];
    Sig [TYPE_QTGUI_QPAINTER] "renderHints" [] (RMeta QPainter_RenderHints) [On QPaintEngineState; On
        QPainter];
    Sig [] "reserve" [PInt] RVoid [On QPainterPath];
    Sig [] "resetTransform" [] RVoid [On QPainter];
    Sig [VALUE_TYPE_QTGUI_QPALETTE] "resolve" [PValue QPalette] (RValue QPalette) [On QPalette];
    Sig [] "restore" [] RVoid [On QPainter; On QPainterStateGuard];
    Sig [] "rotate" [PNumber cxx_qreal] RVoid [On QPainter];
    Sig [] "save" [] RVoid [On QPainter; On QPainterStateGuard]
  ].

Definition value_methods_qtgui_7_s207 : list signature_row :=
  [
    Sig [] "scale" [PNumber cxx_qreal; PNumber cxx_qreal] RVoid [On QPainter];
    Sig [VALUE_TYPE_QTGUI_QBRUSH] "setBackground" [PValue QBrush] RVoid [On QPainter];
    Sig [ENUM_QT_BGMODE] "setBackgroundMode" [PValue Qt_BGMode] RVoid [On QPainter];
    Sig [VALUE_TYPE_QTGUI_QBRUSH] "setBrush" [PValue QBrush] RVoid [On QPainter];
    Sig [TYPE_QTGUI_QPALETTE; VALUE_TYPE_QTGUI_QBRUSH] "setBrush" [PValue QPalette_ColorGroup; PValue
        QPalette_ColorRole; PValue QBrush] RVoid [On QPalette];
    Sig [TYPE_QTGUI_QPALETTE; VALUE_TYPE_QTGUI_QBRUSH] "setBrush" [PValue QPalette_ColorRole; PValue
        QBrush] RVoid [On QPalette];
    Sig [ENUM_QT_BRUSHSTYLE] "setBrush" [PValue Qt_BrushStyle] RVoid [On QPainter; On QPainter];
    Sig [VALUE_TYPE_QTCORE_QPOINT] "setBrushOrigin" [PValue QPoint] RVoid [On QPainter]
  ].

Definition value_methods_qtgui_7_s215 : list signature_row :=
  [
    Sig [VALUE_TYPE_QTCORE_QPOINTF] "setBrushOrigin" [PValue QPointF] RVoid [On QPainter];
    Sig [] "setBrushOrigin" [PInt; PInt] RVoid [On QPainter];
    Sig [] "setCachingEnabled" [PBool] RVoid [On QPainterPath];
    Sig [ENUM_QT_PENCAPSTYLE] "setCapStyle" [PValue Qt_PenCapStyle] RVoid [On QPainterPathStroker];
    Sig [ENUM_QT_CLIPOPERATION; VALUE_TYPE_QTGUI_QPAINTERPATH] "setClipPath" [PValue QPainterPath; PValue
        Qt_ClipOperation] RVoid [On QPainter];
    Sig [ENUM_QT_CLIPOPERATION; VALUE_TYPE_QTCORE_QRECT] "setClipRect" [PValue QRect; PValue
        Qt_ClipOperation] RVoid [On QPainter];
    Sig [ENUM_QT_CLIPOPERATION; VALUE_TYPE_QTCORE_QRECTF] "setClipRect" [PValue QRectF; PValue
        Qt_ClipOperation] RVoid [On QPainter];
    Sig [ENUM_QT_CLIPOPERATION] "setClipRect" [PInt; PInt; PInt; PInt; PValue Qt_ClipOperation] RVoid [On
        QPainter]
  ].

Definition value_methods_qtgui_7_s223 : list signature_row :=
  [
    Sig [ENUM_QT_CLIPOPERATION; VALUE_TYPE_QTGUI_QREGION] "setClipRegion" [PValue QRegion; PValue
        Qt_ClipOperation] RVoid [On QPainter];
    Sig [] "setClipping" [PBool] RVoid [On QPainter];
    Sig [TYPE_QTGUI_QPALETTE; VALUE_TYPE_QTGUI_QCOLOR] "setColor" [PValue QPalette_ColorGroup; PValue
        QPalette_ColorRole; PValue QColor] RVoid [On QPalette];
    Sig [TYPE_QTGUI_QPALETTE; VALUE_TYPE_QTGUI_QCOLOR] "setColor" [PValue QPalette_ColorRole; PValue
        QColor] RVoid [On QPalette];
    Sig [TYPE_QTGUI_QPALETTE; VALUE_TYPE_QTGUI_QBRUSH] "setColorGroup" [PValue QPalette_ColorGroup; PValue
        QBrush; PValue QBrush; PValue QBrush; PValue QBrush; PValue QBrush; PValue QBrush; PValue QBrush;
        PValue QBrush; PValue QBrush] RVoid [On QPalette];
    Sig [TYPE_QTGUI_QPAINTER] "setCompositionMode" [PValue QPainter_CompositionMode] RVoid [On QPainter];
    Sig [TYPE_QTGUI_QPALETTE] "setCurrentColorGroup" [PValue QPalette_ColorGroup] RVoid [On QPalette]
  ].

Definition value_methods_qtgui_7_s230 : list signature_row :=
  [
    Sig [] "setCurveThreshold" [PNumber cxx_qreal] RVoid [On QPainterPathStroker];
    Sig [] "setDashOffset" [PNumber cxx_qreal] RVoid [On QPainterPathStroker];
    Sig [] "setDashPattern" [PList (IMeta cxx_qreal)] RVoid [On QPainterPathStroker];
    Sig [ENUM_QT_PENSTYLE] "setDashPattern" [PValue Qt_PenStyle] RVoid [On QPainterPathStroker];
    Sig [] "setElementPositionAt" [PInt; PNumber cxx_qreal; PNumber cxx_qreal] RVoid [On QPainterPath];
    Sig [ENUM_QT_FILLRULE] "setFillRule" [PValue Qt_FillRule] RVoid [On QPainterPath];
    Sig [VALUE_TYPE_QTGUI_QFONT] "setFont" [PValue QFont] RVoid [On QPainter];
    Sig [ENUM_QT_PENJOINSTYLE] "setJoinStyle" [PValue Qt_PenJoinStyle] RVoid [On QPainterPathStroker];
    Sig [ENUM_QT_LAYOUTDIRECTION] "setLayoutDirection" [PValue Qt_LayoutDirection] RVoid [On QPainter]
  ].

Definition value_methods_qtgui_7_s239 : list signature_row :=
  [
    Sig [] "setMiterLimit" [PNumber cxx_qreal] RVoid [On QPainterPathStroker];
    Sig [] "setOpacity" [PNumber cxx_qreal] RVoid [On QPainter];
    Sig [] "setOutputCondition" [PString true] RVoid [On QPdfOutputIntent];
    Sig [] "setOutputConditionIdentifier" [PString true] RVoid [On QPdfOutputIntent];
    Sig [VALUE_TYPE_QTGUI_QCOLORSPACE] "setOutputProfile" [PValue QColorSpace] RVoid [On QPdfOutputIntent];
    Sig [VALUE_TYPE_QTGUI_QCOLOR] "setPen" [PValue QColor] RVoid [On QPainter; On QPainter];
    Sig [VALUE_TYPE_QTGUI_QPEN] "setPen" [PValue QPen] RVoid [On QPainter];
    Sig [ENUM_QT_PENSTYLE] "setPen" [PValue Qt_PenStyle] RVoid [On QPainter; On QPainter; On QPainter]
  ].

Definition value_methods_qtgui_7_s247 : list signature_row :=
  [
    Sig [VALUE_TYPE_QTCORE_QURL] "setRegistryName" [PValue QUrl] RVoid [On QPdfOutputIntent];
    Sig [TYPE_QTGUI_QPAINTER] "setRenderHint" [PValue QPainter_RenderHint; PBool] RVoid [On QPainter];
    Sig [TYPE_QTGUI_QPAINTER] "setRenderHints" [PValue QPainter_RenderHints; PBool] RVoid [On QPainter];
    Sig [VALUE_TYPE_QTGUI_QTRANSFORM] "setTransform" [PValue QTransform; PBool] RVoid [On QPainter];
    Sig [] "setViewTransformEnabled" [PBool] RVoid [On QPainter];
    Sig [VALUE_TYPE_QTCORE_QRECT] "setViewport" [PValue QRect] RVoid [On QPainter];
    Sig [] "setViewport" [PInt; PInt; PInt; PInt] RVoid [On QPainter];
    Sig [] "setWidth" [PNumber cxx_qreal] RVoid [On QPainterPathStroker]
  ].

Definition value_methods_qtgui_7_s255 : list signature_row :=
  [
    Sig [VALUE_TYPE_QTCORE_QRECT] "setWindow" [PValue QRect] RVoid [On QPainter];
    Sig [] "setWindow" [PInt; PInt; PInt; PInt] RVoid [On QPainter];
    Sig [] "setWorldMatrixEnabled" [PBool] RVoid [On QPainter];
    Sig [VALUE_TYPE_QTGUI_QTRANSFORM] "setWorldTransform" [PValue QTransform; PBool] RVoid [On QPainter];
    Sig [VALUE_TYPE_QTGUI_QBRUSH] "shadow" [] (RValue QBrush) [On QPalette];
    Sig [] "shear" [PNumber cxx_qreal; PNumber cxx_qreal] RVoid [On QPainter];
    Sig [VALUE_TYPE_QTGUI_QPAINTERPATH] "simplified" [] (RValue QPainterPath) [On QPainterPath];
    Sig [] "slopeAtPercent" [PNumber cxx_qreal] RDouble [On QPainterPath];
    Sig [VALUE_TYPE_QTGUI_QPAINTERPATH; VALUE_TYPE_QTGUI_QPEN] "strokePath" [PValue QPainterPath; PValue
        QPen] RVoid [On QPainter]
  ].

Definition value_methods_qtgui_7_s264 : list signature_row :=
  [
    Sig [VALUE_TYPE_QTGUI_QPAINTERPATH] "subtracted" [PValue QPainterPath] (RValue QPainterPath) [On
        QPainterPath];
    Sig [VALUE_TYPE_QTGUI_QPAINTERPATH] "swap" [PValue QPainterPath] RVoid [On QPainterPath];
    Sig [VALUE_TYPE_QTGUI_QPAINTERSTATEGUARD] "swap" [PValue QPainterStateGuard] RVoid [On
        QPainterStateGuard];
    Sig [VALUE_TYPE_QTGUI_QPALETTE] "swap" [PValue QPalette] RVoid [On QPalette];
    Sig [VALUE_TYPE_QTGUI_QPDFOUTPUTINTENT] "swap" [PValue QPdfOutputIntent] RVoid [On QPdfOutputIntent];
    Sig [TYPE_QTGUI_QPAINTER] "testRenderHint" [PValue QPainter_RenderHint] RBool [On QPainter];
    Sig [VALUE_TYPE_QTGUI_QBRUSH] "text" [] (RValue QBrush) [On QPalette];
    Sig [VALUE_TYPE_QTGUI_QPOLYGONF; VALUE_TYPE_QTGUI_QTRANSFORM] "toFillPolygon" [PValue QTransform]
        (RValue QPolygonF) [On QPainterPath]
  ].

Definition value_methods_qtgui_7_s272 : list signature_row :=
  [
    Sig [VALUE_TYPE_QTGUI_QPOLYGONF; VALUE_TYPE_QTGUI_QTRANSFORM] "toFillPolygons" [PValue QTransform]
        (RList (IValue QPolygonF)) [On QPainterPath];
    Sig [VALUE_TYPE_QTGUI_QPAINTERPATH] "toReversed" [] (RValue QPainterPath) [On QPainterPath];
    Sig [VALUE_TYPE_QTGUI_QPOLYGONF; VALUE_TYPE_QTGUI_QTRANSFORM] "toSubpathPolygons" [PValue QTransform]
        (RList (IValue QPolygonF)) [On QPainterPath];
    Sig [VALUE_TYPE_QTGUI_QBRUSH] "toolTipBase" [] (RValue QBrush) [On QPalette];
    Sig [VALUE_TYPE_QTGUI_QBRUSH] "toolTipText" [] (RValue QBrush) [On QPalette];
    Sig [VALUE_TYPE_QTGUI_QTRANSFORM] "transform" [] (RValue QTransform) [On QPaintEngineState; On
        QPainter];
    Sig [VALUE_TYPE_QTCORE_QPOINT] "translate" [PValue QPoint] RVoid [On QPainter];
    Sig [VALUE_TYPE_QTCORE_QPOINTF] "translate" [PValue QPointF] RVoid [On QPainter; On QPainterPath]
  ].

Definition value_methods_qtgui_7_s280 : list signature_row :=
  [
    Sig [] "translate" [PNumber cxx_qreal; PNumber cxx_qreal] RVoid [On QPainter; On QPainterPath];
    Sig [VALUE_TYPE_QTCORE_QPOINTF; VALUE_TYPE_QTGUI_QPAINTERPATH] "translated" [PValue QPointF] (RValue
        QPainterPath) [On QPainterPath];
    Sig [VALUE_TYPE_QTGUI_QPAINTERPATH] "translated" [PNumber cxx_qreal; PNumber cxx_qreal] (RValue
        QPainterPath) [On QPainterPath];
    Sig [VALUE_TYPE_QTGUI_QPAINTERPATH] "trimmed" [PNumber cxx_qreal; PNumber cxx_qreal; PNumber cxx_qreal]
        (RValue QPainterPath) [On QPainterPath];
    Sig [VALUE_TYPE_QTGUI_QPAINTERPATH] "united" [PValue QPainterPath] (RValue QPainterPath) [On
        QPainterPath];
    Sig [] "viewTransformEnabled" [] RBool [On QPainter];
    Sig [VALUE_TYPE_QTCORE_QRECT] "viewport" [] (RValue QRect) [On QPainter];
    Sig [] "width" [] RDouble [On QPainterPathStroker];
    Sig [VALUE_TYPE_QTGUI_QBRUSH] "window" [] (RValue QBrush) [On QPalette]
  ].

Definition value_methods_qtgui_7_s289 : list signature_row :=
  [
    Sig [VALUE_TYPE_QTCORE_QRECT] "window" [] (RValue QRect) [On QPainter];
    Sig [VALUE_TYPE_QTGUI_QBRUSH] "windowText" [] (RValue QBrush) [On QPalette];
    Sig [] "worldMatrixEnabled" [] RBool [On QPainter];
    Sig [VALUE_TYPE_QTGUI_QTRANSFORM] "worldTransform" [] (RValue QTransform) [On QPainter]
  ].

Definition value_methods_qtgui_7_types : list string :=
  [
    QPaintEngineState;
    QPaintEvent;
    QPainter;
    QPainterPath;
    QPainterPathStroker;
    QPainterStateGuard;
    QPalette;
    QPdfOutputIntent
  ].

Definition value_methods_qtgui_7 : method_shard :=
  MethodShard QtGui "KRY_QT6_NATIVE_METHODS_QTGUI_"
    (value_methods_qtgui_7_i0)
    (value_methods_qtgui_7_s0 ++ value_methods_qtgui_7_s8 ++ value_methods_qtgui_7_s16 ++
        value_methods_qtgui_7_s24 ++ value_methods_qtgui_7_s31 ++ value_methods_qtgui_7_s41 ++
        value_methods_qtgui_7_s50 ++ value_methods_qtgui_7_s59 ++ value_methods_qtgui_7_s68 ++
        value_methods_qtgui_7_s75 ++ value_methods_qtgui_7_s83 ++ value_methods_qtgui_7_s91 ++
        value_methods_qtgui_7_s98 ++ value_methods_qtgui_7_s105 ++ value_methods_qtgui_7_s111 ++
        value_methods_qtgui_7_s119 ++ value_methods_qtgui_7_s126 ++ value_methods_qtgui_7_s133 ++
        value_methods_qtgui_7_s142 ++ value_methods_qtgui_7_s146 ++ value_methods_qtgui_7_s150 ++
        value_methods_qtgui_7_s154 ++ value_methods_qtgui_7_s159 ++ value_methods_qtgui_7_s169 ++
        value_methods_qtgui_7_s179 ++ value_methods_qtgui_7_s189 ++ value_methods_qtgui_7_s198 ++
        value_methods_qtgui_7_s207 ++ value_methods_qtgui_7_s215 ++ value_methods_qtgui_7_s223 ++
        value_methods_qtgui_7_s230 ++ value_methods_qtgui_7_s239 ++ value_methods_qtgui_7_s247 ++
        value_methods_qtgui_7_s255 ++ value_methods_qtgui_7_s264 ++ value_methods_qtgui_7_s272 ++
        value_methods_qtgui_7_s280 ++ value_methods_qtgui_7_s289)
    value_methods_qtgui_7_types.

Definition value_methods_qtgui_8_i0 : list include :=
  [
    ClassInclude QtGui QPen QPen;
    ClassInclude QtGui QPicture QPicture;
    ClassInclude QtGui QPixelFormat QPixelFormat;
    ClassInclude QtGui QPixmap QPixmap;
    ClassInclude QtGui QPlatformSurfaceEvent QPlatformSurfaceEvent;
    ClassInclude QtGui QPointerEvent QPointerEvent;
    ClassInclude QtGui QPointingDeviceUniqueId QPointingDeviceUniqueId;
    ClassInclude QtGui QPolygon QPolygon;
    TypeInclude QtCore QIODevice TYPE_QTCORE_QIODEVICE;
    TypeInclude QtGui QPointingDevice TYPE_QTGUI_QPOINTINGDEVICE;
    EnumDefine ENUM_QT_ASPECTRATIOMODE;
    EnumDefine ENUM_QT_FILLRULE;
    EnumDefine ENUM_QT_MASKMODE;
    EnumDefine ENUM_QT_PENCAPSTYLE;
    EnumDefine ENUM_QT_PENJOINSTYLE;
    EnumDefine ENUM_QT_PENSTYLE;
    EnumDefine ENUM_QT_TRANSFORMATIONMODE;
    TypeInclude QtGui QPixelFormat TYPE_QTGUI_QPIXELFORMAT;
    TypeInclude QtGui QPlatformSurfaceEvent TYPE_QTGUI_QPLATFORMSURFACEEVENT;
    TypeInclude QtGui QPointingDevice TYPE_QTGUI_QPOINTINGDEVICE;
    TypeInclude QtCore QPoint VALUE_TYPE_QTCORE_QPOINT;
    TypeInclude QtCore QRect VALUE_TYPE_QTCORE_QRECT;
    TypeInclude QtCore QSize VALUE_TYPE_QTCORE_QSIZE;
    TypeInclude QtCore QSizeF VALUE_TYPE_QTCORE_QSIZEF;
    TypeInclude QtGui QBitmap VALUE_TYPE_QTGUI_QBITMAP;
    TypeInclude QtGui QBrush VALUE_TYPE_QTGUI_QBRUSH;
    TypeInclude QtGui QColor VALUE_TYPE_QTGUI_QCOLOR;
    TypeInclude QtGui QEventPoint VALUE_TYPE_QTGUI_QEVENTPOINT;
    TypeInclude QtGui QImage VALUE_TYPE_QTGUI_QIMAGE;
    TypeInclude QtGui QPen VALUE_TYPE_QTGUI_QPEN;
    TypeInclude QtGui QPicture VALUE_TYPE_QTGUI_QPICTURE;
    TypeInclude QtGui QPixmap VALUE_TYPE_QTGUI_QPIXMAP;
    TypeInclude QtGui QPolygon VALUE_TYPE_QTGUI_QPOLYGON;
    TypeInclude QtGui QPolygonF VALUE_TYPE_QTGUI_QPOLYGONF;
    TypeInclude QtGui QTransform VALUE_TYPE_QTGUI_QTRANSFORM
  ].

Definition value_methods_qtgui_8_s0 : list signature_row :=
  [
    Sig [] "allPointsAccepted" [] RBool [On QPointerEvent];
    Sig [TYPE_QTGUI_QPIXELFORMAT] "alphaPosition" [] (RMeta QPixelFormat_AlphaPosition) [On QPixelFormat];
    Sig [TYPE_QTGUI_QPIXELFORMAT] "alphaUsage" [] (RMeta QPixelFormat_AlphaUsage) [On QPixelFormat];
    Sig [VALUE_TYPE_QTCORE_QPOINT] "append" [PValue QPoint] RVoid [On QPolygon];
    Sig [VALUE_TYPE_QTCORE_QPOINT] "at" [PInt] (RValue QPoint) [On QPolygon];
    Sig [VALUE_TYPE_QTCORE_QRECT] "boundingRect" [] (RValue QRect) [On QPicture; On QPolygon];
    Sig [VALUE_TYPE_QTGUI_QBRUSH] "brush" [] (RValue QBrush) [On QPen];
    Sig [TYPE_QTGUI_QPIXELFORMAT] "byteOrder" [] (RMeta QPixelFormat_ByteOrder) [On QPixelFormat];
    Sig [] "cacheKey" [] (RMeta cxx_qint64) [On QPixmap];
    Sig [ENUM_QT_PENCAPSTYLE] "capStyle" [] (RMeta Qt_PenCapStyle) [On QPen]
  ].

Definition value_methods_qtgui_8_s10 : list signature_row :=
  [
    Sig [] "clear" [] RVoid [On QPolygon];
    Sig [VALUE_TYPE_QTGUI_QCOLOR] "color" [] (RValue QColor) [On QPen];
    Sig [TYPE_QTGUI_QPIXELFORMAT] "colorModel" [] (RMeta QPixelFormat_ColorModel) [On QPixelFormat];
    Sig [VALUE_TYPE_QTCORE_QPOINT] "contains" [PValue QPoint] RBool [On QPolygon];
    Sig [ENUM_QT_FILLRULE; VALUE_TYPE_QTCORE_QPOINT] "containsPoint" [PValue QPoint; PValue Qt_FillRule]
        RBool [On QPolygon];
    Sig [VALUE_TYPE_QTCORE_QRECT; VALUE_TYPE_QTGUI_QPIXMAP] "copy" [PValue QRect] (RValue QPixmap) [On
        QPixmap];
    Sig [VALUE_TYPE_QTGUI_QPIXMAP] "copy" [PInt; PInt; PInt; PInt] (RValue QPixmap) [On QPixmap];
    Sig [] "count" [] RDouble [On QPolygon];
    Sig [VALUE_TYPE_QTCORE_QPOINT] "count" [PValue QPoint] RDouble [On QPolygon]
  ].

Definition value_methods_qtgui_8_s19 : list signature_row :=
  [
    Sig [VALUE_TYPE_QTGUI_QBITMAP] "createHeuristicMask" [PBool] (RValue QBitmap) [On QPixmap];
    Sig [ENUM_QT_MASKMODE; VALUE_TYPE_QTGUI_QBITMAP; VALUE_TYPE_QTGUI_QCOLOR] "createMaskFromColor" [PValue
        QColor; PValue Qt_MaskMode] (RValue QBitmap) [On QPixmap];
    Sig [] "dashOffset" [] RDouble [On QPen];
    Sig [] "dashPattern" [] (RList (IMeta cxx_qreal)) [On QPen];
    Sig [] "depth" [] RDouble [On QPixmap];
    Sig [] "detach" [] RVoid [On QPicture; On QPixmap];
    Sig [] "devType" [] RDouble [On QPicture; On QPixmap];
    Sig [VALUE_TYPE_QTCORE_QSIZEF] "deviceIndependentSize" [] (RValue QSizeF) [On QPixmap];
    Sig [] "devicePixelRatio" [] RDouble [On QPixmap]
  ].

Definition value_methods_qtgui_8_s28 : list signature_row :=
  [
    Sig [VALUE_TYPE_QTGUI_QCOLOR] "fill" [PValue QColor] RVoid [On QPixmap];
    Sig [VALUE_TYPE_QTCORE_QPOINT] "fill" [PValue QPoint; PInt] RVoid [On QPolygon];
    Sig [VALUE_TYPE_QTCORE_QPOINT] "first" [] (RValue QPoint) [On QPolygon];
    Sig [] "hasAlpha" [] RBool [On QPixmap];
    Sig [] "hasAlphaChannel" [] RBool [On QPixmap];
    Sig [] "height" [] RDouble [On QPixmap];
    Sig [VALUE_TYPE_QTCORE_QPOINT] "indexOf" [PValue QPoint; PInt] RDouble [On QPolygon];
    Sig [VALUE_TYPE_QTCORE_QPOINT] "insert" [PInt; PValue QPoint] RVoid [On QPolygon];
    Sig [VALUE_TYPE_QTGUI_QPOLYGON] "intersected" [PValue QPolygon] (RValue QPolygon) [On QPolygon]
  ].

Definition value_methods_qtgui_8_s37 : list signature_row :=
  [
    Sig [VALUE_TYPE_QTGUI_QPOLYGON] "intersects" [PValue QPolygon] RBool [On QPolygon];
    Sig [] "isBeginEvent" [] RBool [On QPointerEvent];
    Sig [] "isCosmetic" [] RBool [On QPen];
    Sig [] "isDetached" [] RBool [On QPicture];
    Sig [] "isEmpty" [] RBool [On QPolygon];
    Sig [] "isEndEvent" [] RBool [On QPointerEvent];
    Sig [] "isNull" [] RBool [On QPicture; On QPixmap];
    Sig [] "isQBitmap" [] RBool [On QPixmap];
    Sig [] "isSolid" [] RBool [On QPen];
    Sig [] "isUpdateEvent" [] RBool [On QPointerEvent];
    Sig [] "isValid" [] RBool [On QPointingDeviceUniqueId]
  ].

Definition value_methods_qtgui_8_s48 : list signature_row :=
  [
    Sig [ENUM_QT_PENJOINSTYLE] "joinStyle" [] (RMeta Qt_PenJoinStyle) [On QPen];
    Sig [VALUE_TYPE_QTCORE_QPOINT] "last" [] (RValue QPoint) [On QPolygon];
    Sig [VALUE_TYPE_QTCORE_QPOINT] "lastIndexOf" [PValue QPoint; PInt] RDouble [On QPolygon];
    Sig [TYPE_QTCORE_QIODEVICE] "load" [PObject QIODevice false] RBool [On QPicture];
    Sig [] "load" [PString true] RBool [On QPicture];
    Sig [VALUE_TYPE_QTGUI_QBITMAP] "mask" [] (RValue QBitmap) [On QPixmap];
    Sig [VALUE_TYPE_QTGUI_QPOLYGON] "mid" [PInt; PInt] (RValue QPolygon) [On QPolygon];
    Sig [] "miterLimit" [] RDouble [On QPen];
    Sig [] "numericId" [] (RMeta cxx_qint64) [On QPointingDeviceUniqueId]
  ].

Definition value_methods_qtgui_8_s57 : list signature_row :=
  [
    Sig [VALUE_TYPE_QTCORE_QPOINT] "point" [PInt] (RValue QPoint) [On QPolygon];
    Sig [VALUE_TYPE_QTGUI_QEVENTPOINT] "point" [PMeta cxx_qsizetype] (RValue QEventPoint) [On
        QPointerEvent];
    Sig [] "pointCount" [] (RMeta cxx_qsizetype) [On QPointerEvent];
    Sig [TYPE_QTGUI_QPOINTINGDEVICE] "pointerType" [] (RMeta QPointingDevice_PointerType) [On
        QPointerEvent];
    Sig [TYPE_QTGUI_QPOINTINGDEVICE] "pointingDevice" [] RObject [On QPointerEvent];
    Sig [VALUE_TYPE_QTGUI_QEVENTPOINT] "points" [] (RList (IValue QEventPoint)) [On QPointerEvent];
    Sig [TYPE_QTGUI_QPIXELFORMAT] "premultiplied" [] (RMeta QPixelFormat_AlphaPremultiplied) [On
        QPixelFormat];
    Sig [VALUE_TYPE_QTCORE_QPOINT] "prepend" [PValue QPoint] RVoid [On QPolygon];
    Sig [VALUE_TYPE_QTGUI_QPOLYGON] "putPoints" [PInt; PInt; PValue QPolygon; PInt] RVoid [On QPolygon]
  ].

Definition value_methods_qtgui_8_s66 : list signature_row :=
  [
    Sig [VALUE_TYPE_QTCORE_QRECT] "rect" [] (RValue QRect) [On QPixmap];
    Sig [] "remove" [PInt] RVoid [On QPolygon];
    Sig [] "remove" [PInt; PInt] RVoid [On QPolygon];
    Sig [VALUE_TYPE_QTCORE_QPOINT] "replace" [PInt; PValue QPoint] RVoid [On QPolygon];
    Sig [] "resize" [PMeta cxx_qsizetype] RVoid [On QPolygon];
    Sig [TYPE_QTCORE_QIODEVICE] "save" [PObject QIODevice false] RBool [On QPicture];
    Sig [] "save" [PString true] RBool [On QPicture];
    Sig [ENUM_QT_ASPECTRATIOMODE; ENUM_QT_TRANSFORMATIONMODE; VALUE_TYPE_QTCORE_QSIZE;
        VALUE_TYPE_QTGUI_QPIXMAP] "scaled" [PValue QSize; PValue Qt_AspectRatioMode; PValue
        Qt_TransformationMode] (RValue QPixmap) [On QPixmap]
  ].

Definition value_methods_qtgui_8_s74 : list signature_row :=
  [
    Sig [ENUM_QT_ASPECTRATIOMODE; ENUM_QT_TRANSFORMATIONMODE; VALUE_TYPE_QTGUI_QPIXMAP] "scaled" [PInt;
        PInt; PValue Qt_AspectRatioMode; PValue Qt_TransformationMode] (RValue QPixmap) [On QPixmap];
    Sig [ENUM_QT_TRANSFORMATIONMODE; VALUE_TYPE_QTGUI_QPIXMAP] "scaledToHeight" [PInt; PValue
        Qt_TransformationMode] (RValue QPixmap) [On QPixmap];
    Sig [ENUM_QT_TRANSFORMATIONMODE; VALUE_TYPE_QTGUI_QPIXMAP] "scaledToWidth" [PInt; PValue
        Qt_TransformationMode] (RValue QPixmap) [On QPixmap];
    Sig [] "setAccepted" [PBool] RVoid [On QPointerEvent];
    Sig [VALUE_TYPE_QTCORE_QRECT] "setBoundingRect" [PValue QRect] RVoid [On QPicture];
    Sig [VALUE_TYPE_QTGUI_QBRUSH] "setBrush" [PValue QBrush] RVoid [On QPen];
    Sig [ENUM_QT_PENCAPSTYLE] "setCapStyle" [PValue Qt_PenCapStyle] RVoid [On QPen];
    Sig [VALUE_TYPE_QTGUI_QCOLOR] "setColor" [PValue QColor] RVoid [On QPen]
  ].

Definition value_methods_qtgui_8_s82 : list signature_row :=
  [
    Sig [] "setCosmetic" [PBool] RVoid [On QPen];
    Sig [] "setDashOffset" [PNumber cxx_qreal] RVoid [On QPen];
    Sig [] "setDashPattern" [PList (IMeta cxx_qreal)] RVoid [On QPen];
    Sig [] "setDevicePixelRatio" [PNumber cxx_qreal] RVoid [On QPixmap];
    Sig [ENUM_QT_PENJOINSTYLE] "setJoinStyle" [PValue Qt_PenJoinStyle] RVoid [On QPen];
    Sig [VALUE_TYPE_QTGUI_QBITMAP] "setMask" [PValue QBitmap] RVoid [On QPixmap];
    Sig [] "setMiterLimit" [PNumber cxx_qreal] RVoid [On QPen];
    Sig [VALUE_TYPE_QTCORE_QPOINT] "setPoint" [PInt; PValue QPoint] RVoid [On QPolygon];
    Sig [] "setPoint" [PInt; PInt; PInt] RVoid [On QPolygon]
  ].

Definition value_methods_qtgui_8_s91 : list signature_row :=
  [
    Sig [ENUM_QT_PENSTYLE] "setStyle" [PValue Qt_PenStyle] RVoid [On QPen];
    Sig [] "setWidth" [PInt] RVoid [On QPen];
    Sig [] "setWidthF" [PNumber cxx_qreal] RVoid [On QPen];
    Sig [VALUE_TYPE_QTCORE_QSIZE] "size" [] (RValue QSize) [On QPixmap];
    Sig [] "size" [] RDouble [On QPolygon];
    Sig [] "size" [] RDouble [On QPicture];
    Sig [ENUM_QT_PENSTYLE] "style" [] (RMeta Qt_PenStyle) [On QPen];
    Sig [VALUE_TYPE_QTGUI_QPOLYGON] "subtracted" [PValue QPolygon] (RValue QPolygon) [On QPolygon];
    Sig [TYPE_QTGUI_QPLATFORMSURFACEEVENT] "surfaceEventType" [] (RMeta
        QPlatformSurfaceEvent_SurfaceEventType) [On QPlatformSurfaceEvent];
    Sig [VALUE_TYPE_QTGUI_QPEN] "swap" [PValue QPen] RVoid [On QPen]
  ].

Definition value_methods_qtgui_8_s101 : list signature_row :=
  [
    Sig [VALUE_TYPE_QTGUI_QPICTURE] "swap" [PValue QPicture] RVoid [On QPicture];
    Sig [VALUE_TYPE_QTGUI_QPIXMAP] "swap" [PValue QPixmap] RVoid [On QPixmap];
    Sig [VALUE_TYPE_QTGUI_QPOLYGON] "swap" [PValue QPolygon] RVoid [On QPolygon];
    Sig [VALUE_TYPE_QTGUI_QIMAGE] "toImage" [] (RValue QImage) [On QPixmap];
    Sig [VALUE_TYPE_QTGUI_QPOLYGONF] "toPolygonF" [] (RValue QPolygonF) [On QPolygon];
    Sig [ENUM_QT_TRANSFORMATIONMODE; VALUE_TYPE_QTGUI_QPIXMAP; VALUE_TYPE_QTGUI_QTRANSFORM] "transformed"
        [PValue QTransform; PValue Qt_TransformationMode] (RValue QPixmap) [On QPixmap];
    Sig [VALUE_TYPE_QTCORE_QPOINT] "translate" [PValue QPoint] RVoid [On QPolygon];
    Sig [] "translate" [PInt; PInt] RVoid [On QPolygon];
    Sig [VALUE_TYPE_QTCORE_QPOINT; VALUE_TYPE_QTGUI_QPOLYGON] "translated" [PValue QPoint] (RValue
        QPolygon) [On QPolygon]
  ].

Definition value_methods_qtgui_8_s110 : list signature_row :=
  [
    Sig [VALUE_TYPE_QTGUI_QPOLYGON] "translated" [PInt; PInt] (RValue QPolygon) [On QPolygon];
    Sig [TYPE_QTGUI_QPIXELFORMAT] "typeInterpretation" [] (RMeta QPixelFormat_TypeInterpretation) [On
        QPixelFormat];
    Sig [VALUE_TYPE_QTGUI_QPOLYGON] "united" [PValue QPolygon] (RValue QPolygon) [On QPolygon];
    Sig [VALUE_TYPE_QTCORE_QPOINT] "value" [PInt] (RValue QPoint) [On QPolygon];
    Sig [VALUE_TYPE_QTCORE_QPOINT] "value" [PInt; PValue QPoint] (RValue QPoint) [On QPolygon];
    Sig [] "width" [] RDouble [On QPen; On QPixmap];
    Sig [] "widthF" [] RDouble [On QPen];
    Sig [TYPE_QTGUI_QPIXELFORMAT] "yuvLayout" [] (RMeta QPixelFormat_YUVLayout) [On QPixelFormat]
  ].

Definition value_methods_qtgui_8_types : list string :=
  [
    QPen;
    QPicture;
    QPixelFormat;
    QPixmap;
    QPlatformSurfaceEvent;
    QPointerEvent;
    QPointingDeviceUniqueId;
    QPolygon
  ].

Definition value_methods_qtgui_8 : method_shard :=
  MethodShard QtGui "KRY_QT6_NATIVE_METHODS_QTGUI_"
    (value_methods_qtgui_8_i0)
    (value_methods_qtgui_8_s0 ++ value_methods_qtgui_8_s10 ++ value_methods_qtgui_8_s19 ++
        value_methods_qtgui_8_s28 ++ value_methods_qtgui_8_s37 ++ value_methods_qtgui_8_s48 ++
        value_methods_qtgui_8_s57 ++ value_methods_qtgui_8_s66 ++ value_methods_qtgui_8_s74 ++
        value_methods_qtgui_8_s82 ++ value_methods_qtgui_8_s91 ++ value_methods_qtgui_8_s101 ++
        value_methods_qtgui_8_s110)
    value_methods_qtgui_8_types.

Definition value_methods_qtgui_9_i0 : list include :=
  [
    ClassInclude QtGui QPolygonF QPolygonF;
    ClassInclude QtGui QQuaternion QQuaternion;
    ClassInclude QtGui QRadialGradient QRadialGradient;
    ClassInclude QtGui QRawFont QRawFont;
    ClassInclude QtGui QRegion QRegion;
    ClassInclude QtGui QResizeEvent QResizeEvent;
    ClassInclude QtGui QRgba64 QRgba64;
    ClassInclude QtGui QScrollEvent QScrollEvent;
    EnumDefine ENUM_QT_FILLRULE;
    TypeInclude QtGui QFont TYPE_QTGUI_QFONT;
    TypeInclude QtGui QFontDatabase TYPE_QTGUI_QFONTDATABASE;
    TypeInclude QtGui QQuaternion TYPE_QTGUI_QQUATERNION;
    TypeInclude QtGui QScrollEvent TYPE_QTGUI_QSCROLLEVENT;
    TypeInclude QtCore QByteArray VALUE_TYPE_QTCORE_QBYTEARRAY;
    TypeInclude QtCore QPoint VALUE_TYPE_QTCORE_QPOINT;
    TypeInclude QtCore QPointF VALUE_TYPE_QTCORE_QPOINTF;
    TypeInclude QtCore QRect VALUE_TYPE_QTCORE_QRECT;
    TypeInclude QtCore QRectF VALUE_TYPE_QTCORE_QRECTF;
    TypeInclude QtCore QSize VALUE_TYPE_QTCORE_QSIZE;
    TypeInclude QtGui QMatrix3x3 VALUE_TYPE_QTGUI_QMATRIX3X3;
    TypeInclude QtGui QPolygon VALUE_TYPE_QTGUI_QPOLYGON;
    TypeInclude QtGui QPolygonF VALUE_TYPE_QTGUI_QPOLYGONF;
    TypeInclude QtGui QQuaternion VALUE_TYPE_QTGUI_QQUATERNION;
    TypeInclude QtGui QRawFont VALUE_TYPE_QTGUI_QRAWFONT;
    TypeInclude QtGui QRegion VALUE_TYPE_QTGUI_QREGION;
    TypeInclude QtGui QRgba64 VALUE_TYPE_QTGUI_QRGBA64;
    TypeInclude QtGui QVector3D VALUE_TYPE_QTGUI_QVECTOR3D;
    TypeInclude QtGui QVector4D VALUE_TYPE_QTGUI_QVECTOR4D
  ].

Definition value_methods_qtgui_9_s0 : list signature_row :=
  [
    Sig [VALUE_TYPE_QTCORE_QPOINTF] "advancesForGlyphIndexes" [PList (IMeta cxx_unsigned_int)] (RList
        (IValue QPointF)) [On QRawFont];
    Sig [VALUE_TYPE_QTCORE_QPOINTF] "append" [PValue QPointF] RVoid [On QPolygonF];
    Sig [] "ascent" [] RDouble [On QRawFont];
    Sig [VALUE_TYPE_QTCORE_QPOINTF] "at" [PInt] (RValue QPointF) [On QPolygonF];
    Sig [] "averageCharWidth" [] RDouble [On QRawFont];
    Sig [VALUE_TYPE_QTCORE_QRECT] "boundingRect" [] (RValue QRect) [On QRegion];
    Sig [VALUE_TYPE_QTCORE_QRECTF] "boundingRect" [] (RValue QRectF) [On QPolygonF];
    Sig [] "capHeight" [] RDouble [On QRawFont];
    Sig [VALUE_TYPE_QTCORE_QPOINTF] "center" [] (RValue QPointF) [On QRadialGradient];
    Sig [] "centerRadius" [] RDouble [On QRadialGradient]
  ].

Definition value_methods_qtgui_9_s10 : list signature_row :=
  [
    Sig [] "clear" [] RVoid [On QPolygonF];
    Sig [VALUE_TYPE_QTGUI_QQUATERNION] "conjugated" [] (RValue QQuaternion) [On QQuaternion];
    Sig [VALUE_TYPE_QTCORE_QPOINT] "contains" [PValue QPoint] RBool [On QRegion];
    Sig [VALUE_TYPE_QTCORE_QPOINTF] "contains" [PValue QPointF] RBool [On QPolygonF];
    Sig [VALUE_TYPE_QTCORE_QRECT] "contains" [PValue QRect] RBool [On QRegion];
    Sig [ENUM_QT_FILLRULE; VALUE_TYPE_QTCORE_QPOINTF] "containsPoint" [PValue QPointF; PValue Qt_FillRule]
        RBool [On QPolygonF];
    Sig [VALUE_TYPE_QTCORE_QPOINTF] "contentPos" [] (RValue QPointF) [On QScrollEvent];
    Sig [] "count" [] RDouble [On QPolygonF];
    Sig [VALUE_TYPE_QTCORE_QPOINTF] "count" [PValue QPointF] RDouble [On QPolygonF];
    Sig [] "descent" [] RDouble [On QRawFont]
  ].

Definition value_methods_qtgui_9_s20 : list signature_row :=
  [
    Sig [] "familyName" [] RString [On QRawFont];
    Sig [VALUE_TYPE_QTCORE_QPOINTF] "fill" [PValue QPointF; PInt] RVoid [On QPolygonF];
    Sig [VALUE_TYPE_QTCORE_QPOINTF] "first" [] (RValue QPointF) [On QPolygonF];
    Sig [VALUE_TYPE_QTCORE_QPOINTF] "focalPoint" [] (RValue QPointF) [On QRadialGradient];
    Sig [] "focalRadius" [] RDouble [On QRadialGradient];
    Sig [TYPE_QTGUI_QFONT; VALUE_TYPE_QTCORE_QBYTEARRAY] "fontTable" [PValue QFont_Tag] (RValue QByteArray)
        [On QRawFont];
    Sig [] "glyphIndexesForString" [PString true] (RList (IMeta cxx_unsigned_int)) [On QRawFont];
    Sig [TYPE_QTGUI_QFONT] "hintingPreference" [] (RMeta QFont_HintingPreference) [On QRawFont];
    Sig [VALUE_TYPE_QTCORE_QPOINTF] "indexOf" [PValue QPointF; PInt] RDouble [On QPolygonF]
  ].

Definition value_methods_qtgui_9_s29 : list signature_row :=
  [
    Sig [VALUE_TYPE_QTCORE_QPOINTF] "insert" [PInt; PValue QPointF] RVoid [On QPolygonF];
    Sig [VALUE_TYPE_QTGUI_QPOLYGONF] "intersected" [PValue QPolygonF] (RValue QPolygonF) [On QPolygonF];
    Sig [VALUE_TYPE_QTCORE_QRECT; VALUE_TYPE_QTGUI_QREGION] "intersected" [PValue QRect] (RValue QRegion)
        [On QRegion];
    Sig [VALUE_TYPE_QTGUI_QREGION] "intersected" [PValue QRegion] (RValue QRegion) [On QRegion];
    Sig [VALUE_TYPE_QTGUI_QPOLYGONF] "intersects" [PValue QPolygonF] RBool [On QPolygonF];
    Sig [VALUE_TYPE_QTCORE_QRECT] "intersects" [PValue QRect] RBool [On QRegion];
    Sig [VALUE_TYPE_QTGUI_QREGION] "intersects" [PValue QRegion] RBool [On QRegion];
    Sig [VALUE_TYPE_QTGUI_QQUATERNION] "inverted" [] (RValue QQuaternion) [On QQuaternion];
    Sig [] "isClosed" [] RBool [On QPolygonF]
  ].

Definition value_methods_qtgui_9_s38 : list signature_row :=
  [
    Sig [] "isEmpty" [] RBool [On QPolygonF; On QRegion];
    Sig [] "isIdentity" [] RBool [On QQuaternion];
    Sig [] "isNull" [] RBool [On QQuaternion; On QRegion];
    Sig [] "isOpaque" [] RBool [On QRgba64];
    Sig [] "isTransparent" [] RBool [On QRgba64];
    Sig [] "isValid" [] RBool [On QRawFont];
    Sig [VALUE_TYPE_QTCORE_QPOINTF] "last" [] (RValue QPointF) [On QPolygonF];
    Sig [VALUE_TYPE_QTCORE_QPOINTF] "lastIndexOf" [PValue QPointF; PInt] RDouble [On QPolygonF];
    Sig [] "leading" [] RDouble [On QRawFont];
    Sig [] "length" [] RDouble [On QQuaternion]
  ].

Definition value_methods_qtgui_9_s48 : list signature_row :=
  [
    Sig [] "lengthSquared" [] RDouble [On QQuaternion];
    Sig [] "lineThickness" [] RDouble [On QRawFont];
    Sig [TYPE_QTGUI_QFONT; VALUE_TYPE_QTCORE_QBYTEARRAY] "loadFromData" [PValue QByteArray; PNumber
        cxx_qreal; PValue QFont_HintingPreference] RVoid [On QRawFont];
    Sig [TYPE_QTGUI_QFONT] "loadFromFile" [PString true; PNumber cxx_qreal; PValue QFont_HintingPreference]
        RVoid [On QRawFont];
    Sig [] "maxCharWidth" [] RDouble [On QRawFont];
    Sig [VALUE_TYPE_QTGUI_QPOLYGONF] "mid" [PInt; PInt] (RValue QPolygonF) [On QPolygonF];
    Sig [] "normalize" [] RVoid [On QQuaternion];
    Sig [VALUE_TYPE_QTGUI_QQUATERNION] "normalized" [] (RValue QQuaternion) [On QQuaternion];
    Sig [VALUE_TYPE_QTCORE_QSIZE] "oldSize" [] (RValue QSize) [On QResizeEvent]
  ].

Definition value_methods_qtgui_9_s57 : list signature_row :=
  [
    Sig [VALUE_TYPE_QTCORE_QPOINTF] "overshootDistance" [] (RValue QPointF) [On QScrollEvent];
    Sig [] "pixelSize" [] RDouble [On QRawFont];
    Sig [VALUE_TYPE_QTGUI_QRGBA64] "premultiplied" [] (RValue QRgba64) [On QRgba64];
    Sig [VALUE_TYPE_QTCORE_QPOINTF] "prepend" [PValue QPointF] RVoid [On QPolygonF];
    Sig [] "radius" [] RDouble [On QRadialGradient];
    Sig [] "rectCount" [] RDouble [On QRegion];
    Sig [] "remove" [PInt] RVoid [On QPolygonF];
    Sig [] "remove" [PInt; PInt] RVoid [On QPolygonF];
    Sig [VALUE_TYPE_QTCORE_QPOINTF] "replace" [PInt; PValue QPointF] RVoid [On QPolygonF];
    Sig [] "resize" [PMeta cxx_qsizetype] RVoid [On QPolygonF]
  ].

Definition value_methods_qtgui_9_s67 : list signature_row :=
  [
    Sig [VALUE_TYPE_QTGUI_QVECTOR3D] "rotatedVector" [PValue QVector3D] (RValue QVector3D) [On QQuaternion];
    Sig [] "scalar" [] RDouble [On QQuaternion];
    Sig [TYPE_QTGUI_QSCROLLEVENT] "scrollState" [] (RMeta QScrollEvent_ScrollState) [On QScrollEvent];
    Sig [VALUE_TYPE_QTCORE_QPOINTF] "setCenter" [PValue QPointF] RVoid [On QRadialGradient];
    Sig [] "setCenter" [PNumber cxx_qreal; PNumber cxx_qreal] RVoid [On QRadialGradient];
    Sig [] "setCenterRadius" [PNumber cxx_qreal] RVoid [On QRadialGradient];
    Sig [VALUE_TYPE_QTCORE_QPOINTF] "setFocalPoint" [PValue QPointF] RVoid [On QRadialGradient];
    Sig [] "setFocalPoint" [PNumber cxx_qreal; PNumber cxx_qreal] RVoid [On QRadialGradient];
    Sig [] "setFocalRadius" [PNumber cxx_qreal] RVoid [On QRadialGradient];
    Sig [] "setPixelSize" [PNumber cxx_qreal] RVoid [On QRawFont]
  ].

Definition value_methods_qtgui_9_s77 : list signature_row :=
  [
    Sig [] "setRadius" [PNumber cxx_qreal] RVoid [On QRadialGradient];
    Sig [] "setScalar" [PNumber cxx_float] RVoid [On QQuaternion];
    Sig [VALUE_TYPE_QTGUI_QVECTOR3D] "setVector" [PValue QVector3D] RVoid [On QQuaternion];
    Sig [] "setVector" [PNumber cxx_float; PNumber cxx_float; PNumber cxx_float] RVoid [On QQuaternion];
    Sig [] "setX" [PNumber cxx_float] RVoid [On QQuaternion];
    Sig [] "setY" [PNumber cxx_float] RVoid [On QQuaternion];
    Sig [] "setZ" [PNumber cxx_float] RVoid [On QQuaternion];
    Sig [VALUE_TYPE_QTCORE_QSIZE] "size" [] (RValue QSize) [On QResizeEvent];
    Sig [] "size" [] RDouble [On QPolygonF];
    Sig [TYPE_QTGUI_QFONT] "style" [] (RMeta QFont_Style) [On QRawFont]
  ].

Definition value_methods_qtgui_9_s87 : list signature_row :=
  [
    Sig [] "styleName" [] RString [On QRawFont];
    Sig [VALUE_TYPE_QTGUI_QPOLYGONF] "subtracted" [PValue QPolygonF] (RValue QPolygonF) [On QPolygonF];
    Sig [VALUE_TYPE_QTGUI_QREGION] "subtracted" [PValue QRegion] (RValue QRegion) [On QRegion];
    Sig [TYPE_QTGUI_QFONTDATABASE] "supportedWritingSystems" [] (RList (IMeta QFontDatabase_WritingSystem))
        [On QRawFont];
    Sig [] "supportsCharacter" [PUInt] RBool [On QRawFont];
    Sig [VALUE_TYPE_QTGUI_QPOLYGONF] "swap" [PValue QPolygonF] RVoid [On QPolygonF];
    Sig [VALUE_TYPE_QTGUI_QRAWFONT] "swap" [PValue QRawFont] RVoid [On QRawFont];
    Sig [VALUE_TYPE_QTGUI_QREGION] "swap" [PValue QRegion] RVoid [On QRegion];
    Sig [] "toArgb32" [] RDouble [On QRgba64]
  ].

Definition value_methods_qtgui_9_s96 : list signature_row :=
  [
    Sig [TYPE_QTGUI_QQUATERNION] "toAxes" [] (RMeta QQuaternion_Axes) [On QQuaternion];
    Sig [VALUE_TYPE_QTGUI_QVECTOR3D] "toEulerAngles" [] (RValue QVector3D) [On QQuaternion];
    Sig [VALUE_TYPE_QTGUI_QPOLYGON] "toPolygon" [] (RValue QPolygon) [On QPolygonF];
    Sig [VALUE_TYPE_QTGUI_QMATRIX3X3] "toRotationMatrix" [] (RValue QMatrix3x3) [On QQuaternion];
    Sig [VALUE_TYPE_QTGUI_QVECTOR4D] "toVector4D" [] (RValue QVector4D) [On QQuaternion];
    Sig [VALUE_TYPE_QTCORE_QPOINT] "translate" [PValue QPoint] RVoid [On QRegion];
    Sig [VALUE_TYPE_QTCORE_QPOINTF] "translate" [PValue QPointF] RVoid [On QPolygonF];
    Sig [] "translate" [PInt; PInt] RVoid [On QRegion];
    Sig [] "translate" [PNumber cxx_qreal; PNumber cxx_qreal] RVoid [On QPolygonF]
  ].

Definition value_methods_qtgui_9_s105 : list signature_row :=
  [
    Sig [VALUE_TYPE_QTCORE_QPOINT; VALUE_TYPE_QTGUI_QREGION] "translated" [PValue QPoint] (RValue QRegion)
        [On QRegion];
    Sig [VALUE_TYPE_QTCORE_QPOINTF; VALUE_TYPE_QTGUI_QPOLYGONF] "translated" [PValue QPointF] (RValue
        QPolygonF) [On QPolygonF];
    Sig [VALUE_TYPE_QTGUI_QREGION] "translated" [PInt; PInt] (RValue QRegion) [On QRegion];
    Sig [VALUE_TYPE_QTGUI_QPOLYGONF] "translated" [PNumber cxx_qreal; PNumber cxx_qreal] (RValue QPolygonF)
        [On QPolygonF];
    Sig [] "underlinePosition" [] RDouble [On QRawFont];
    Sig [VALUE_TYPE_QTGUI_QPOLYGONF] "united" [PValue QPolygonF] (RValue QPolygonF) [On QPolygonF];
    Sig [VALUE_TYPE_QTCORE_QRECT; VALUE_TYPE_QTGUI_QREGION] "united" [PValue QRect] (RValue QRegion) [On
        QRegion];
    Sig [VALUE_TYPE_QTGUI_QREGION] "united" [PValue QRegion] (RValue QRegion) [On QRegion];
    Sig [] "unitsPerEm" [] RDouble [On QRawFont]
  ].

Definition value_methods_qtgui_9_s114 : list signature_row :=
  [
    Sig [VALUE_TYPE_QTGUI_QRGBA64] "unpremultiplied" [] (RValue QRgba64) [On QRgba64];
    Sig [VALUE_TYPE_QTCORE_QPOINTF] "value" [PInt] (RValue QPointF) [On QPolygonF];
    Sig [VALUE_TYPE_QTCORE_QPOINTF] "value" [PInt; PValue QPointF] (RValue QPointF) [On QPolygonF];
    Sig [VALUE_TYPE_QTGUI_QVECTOR3D] "vector" [] (RValue QVector3D) [On QQuaternion];
    Sig [] "weight" [] RDouble [On QRawFont];
    Sig [] "x" [] RDouble [On QQuaternion];
    Sig [] "xHeight" [] RDouble [On QRawFont];
    Sig [VALUE_TYPE_QTGUI_QREGION] "xored" [PValue QRegion] (RValue QRegion) [On QRegion];
    Sig [] "y" [] RDouble [On QQuaternion];
    Sig [] "z" [] RDouble [On QQuaternion]
  ].

Definition value_methods_qtgui_9_types : list string :=
  [
    QPolygonF;
    QQuaternion;
    QRadialGradient;
    QRawFont;
    QRegion;
    QResizeEvent;
    QRgba64;
    QScrollEvent
  ].

Definition value_methods_qtgui_9 : method_shard :=
  MethodShard QtGui "KRY_QT6_NATIVE_METHODS_QTGUI_"
    (value_methods_qtgui_9_i0)
    (value_methods_qtgui_9_s0 ++ value_methods_qtgui_9_s10 ++ value_methods_qtgui_9_s20 ++
        value_methods_qtgui_9_s29 ++ value_methods_qtgui_9_s38 ++ value_methods_qtgui_9_s48 ++
        value_methods_qtgui_9_s57 ++ value_methods_qtgui_9_s67 ++ value_methods_qtgui_9_s77 ++
        value_methods_qtgui_9_s87 ++ value_methods_qtgui_9_s96 ++ value_methods_qtgui_9_s105 ++
        value_methods_qtgui_9_s114)
    value_methods_qtgui_9_types.
