(* ===== verification/ValueMethodsWidgets.v ===== *)
(** Rows of the shards of generated_value_methods: qtwidgets_0, qtwidgets_1, qtwidgets_2,
    qtwidgets_3, qtwidgets_4. *)
From S2P Require Import Names.

(** * Definitions *)

Definition value_methods_qtwidgets_0_i0 : list include :=
  [
    ClassInclude QtWidgets QAbstractGraphicsShapeItem QAbstractGraphicsShapeItem;
    ClassInclude QtWidgets QFileIconProvider QFileIconProvider;
    ClassInclude QtWidgets QGestureEvent QGestureEvent;
    ClassInclude QtWidgets QGestureRecognizer QGestureRecognizer;
    ClassInclude QtWidgets QGraphicsAnchorLayout QGraphicsAnchorLayout;
    ClassInclude QtWidgets QGraphicsEllipseItem QGraphicsEllipseItem;
    ClassInclude QtWidgets QGraphicsGridLayout QGraphicsGridLayout;
    ClassInclude QtWidgets QGraphicsItem QGraphicsItem;
    TypeInclude QtCore QObject TYPE_QTCORE_QOBJECT;
    TypeInclude QtWidgets QGesture TYPE_QTWIDGETS_QGESTURE;
    TypeInclude QtWidgets QGraphicsEffect TYPE_QTWIDGETS_QGRAPHICSEFFECT;
    TypeInclude QtWidgets QGraphicsObject TYPE_QTWIDGETS_QGRAPHICSOBJECT;
    TypeInclude QtWidgets QGraphicsScene TYPE_QTWIDGETS_QGRAPHICSSCENE;
    TypeInclude QtWidgets QGraphicsTransform TYPE_QTWIDGETS_QGRAPHICSTRANSFORM;
    TypeInclude QtWidgets QGraphicsWidget TYPE_QTWIDGETS_QGRAPHICSWIDGET;
    TypeInclude QtWidgets QWidget TYPE_QTWIDGETS_QWIDGET;
    EnumDefine ENUM_QT_FOCUSREASON;
    EnumDefine ENUM_QT_GESTURETYPE;
    EnumDefine ENUM_QT_ITEMSELECTIONMODE;
    EnumDefine ENUM_QT_MOUSEBUTTONS;
    EnumDefine ENUM_QT_SIZEHINT;
    TypeInclude QtGui QAbstractFileIconProvider TYPE_QTGUI_QABSTRACTFILEICONPROVIDER;
    TypeInclude QtWidgets QGraphicsItem TYPE_QTWIDGETS_QGRAPHICSITEM;
    TypeInclude QtCore QFileInfo VALUE_TYPE_QTCORE_QFILEINFO;
    TypeInclude QtCore QPointF VALUE_TYPE_QTCORE_QPOINTF;
    TypeInclude QtCore QRectF VALUE_TYPE_QTCORE_QRECTF;
    TypeInclude QtCore QSize VALUE_TYPE_QTCORE_QSIZE;
    TypeInclude QtCore QSizeF VALUE_TYPE_QTCORE_QSIZEF;
    TypeInclude QtGui QBrush VALUE_TYPE_QTGUI_QBRUSH;
    TypeInclude QtGui QCursor VALUE_TYPE_QTGUI_QCURSOR;
    TypeInclude QtGui QIcon VALUE_TYPE_QTGUI_QICON;
    TypeInclude QtGui QPainterPath VALUE_TYPE_QTGUI_QPAINTERPATH;
    TypeInclude QtGui QPen VALUE_TYPE_QTGUI_QPEN;
    TypeInclude QtGui QPolygonF VALUE_TYPE_QTGUI_QPOLYGONF;
    TypeInclude QtGui QRegion VALUE_TYPE_QTGUI_QREGION;
    TypeInclude QtGui QTransform VALUE_TYPE_QTGUI_QTRANSFORM
  ].

Definition value_methods_qtwidgets_0_s0 : list signature_row :=
  [
    Sig [] "accept" [] RVoid [On QGestureEvent];
    Sig [TYPE_QTWIDGETS_QGESTURE] "accept" [PObject QGesture false] RVoid [On QGestureEvent];
    Sig [ENUM_QT_GESTURETYPE] "accept" [PValue Qt_GestureType] RVoid [On QGestureEvent];
    Sig [] "acceptDrops" [] RBool [On QGraphicsItem];
    Sig [] "acceptHoverEvents" [] RBool [On QGraphicsItem];
    Sig [] "acceptTouchEvents" [] RBool [On QGraphicsItem];
    Sig [ENUM_QT_MOUSEBUTTONS] "acceptedMouseButtons" [] (RMeta Qt_MouseButtons) [On QGraphicsItem];
    Sig [TYPE_QTWIDGETS_QGESTURE] "activeGestures" [] (RList (IObject QObject)) [On QGestureEvent];
    Sig [] "advance" [PInt] RVoid [On QGraphicsItem];
    Sig [VALUE_TYPE_QTCORE_QRECTF] "boundingRect" [] (RValue QRectF) [On QGraphicsEllipseItem]
  ].

Definition value_methods_qtwidgets_0_s10 : list signature_row :=
  [
    Sig [VALUE_TYPE_QTGUI_QREGION; VALUE_TYPE_QTGUI_QTRANSFORM] "boundingRegion" [PValue QTransform]
        (RValue QRegion) [On QGraphicsItem];
    Sig [] "boundingRegionGranularity" [] RDouble [On QGraphicsItem];
    Sig [VALUE_TYPE_QTGUI_QBRUSH] "brush" [] (RValue QBrush) [On QAbstractGraphicsShapeItem];
    Sig [TYPE_QTWIDGETS_QGRAPHICSITEM] "cacheMode" [] (RMeta QGraphicsItem_CacheMode) [On QGraphicsItem];
    Sig [TYPE_QTWIDGETS_QGESTURE] "canceledGestures" [] (RList (IObject QObject)) [On QGestureEvent];
    Sig [VALUE_TYPE_QTCORE_QRECTF] "childrenBoundingRect" [] (RValue QRectF) [On QGraphicsItem];
    Sig [] "clearFocus" [] RVoid [On QGraphicsItem];
    Sig [VALUE_TYPE_QTGUI_QPAINTERPATH] "clipPath" [] (RValue QPainterPath) [On QGraphicsItem];
    Sig [ENUM_QT_ITEMSELECTIONMODE; VALUE_TYPE_QTGUI_QPAINTERPATH] "collidesWithPath" [PValue QPainterPath;
        PValue Qt_ItemSelectionMode] RBool [On QGraphicsItem];
    Sig [] "columnCount" [] RDouble [On QGraphicsGridLayout]
  ].

Definition value_methods_qtwidgets_0_s20 : list signature_row :=
  [
    Sig [] "columnMaximumWidth" [PInt] RDouble [On QGraphicsGridLayout];
    Sig [] "columnMinimumWidth" [PInt] RDouble [On QGraphicsGridLayout];
    Sig [] "columnPreferredWidth" [PInt] RDouble [On QGraphicsGridLayout];
    Sig [] "columnSpacing" [PInt] RDouble [On QGraphicsGridLayout];
    Sig [] "columnStretchFactor" [PInt] RDouble [On QGraphicsGridLayout];
    Sig [VALUE_TYPE_QTCORE_QPOINTF] "contains" [PValue QPointF] RBool [On QGraphicsEllipseItem; On
        QGraphicsItem];
    Sig [] "count" [] RDouble [On QGraphicsAnchorLayout; On QGraphicsGridLayout];
    Sig [TYPE_QTCORE_QOBJECT; TYPE_QTWIDGETS_QGESTURE] "create" [PObject QObject false] RObject [On
        QGestureRecognizer];
    Sig [VALUE_TYPE_QTGUI_QCURSOR] "cursor" [] (RValue QCursor) [On QGraphicsItem]
  ].

Definition value_methods_qtwidgets_0_s29 : list signature_row :=
  [
    Sig [] "data" [PInt] RVariant [On QGraphicsItem];
    Sig [VALUE_TYPE_QTGUI_QTRANSFORM] "deviceTransform" [PValue QTransform] (RValue QTransform) [On
        QGraphicsItem];
    Sig [] "effectiveOpacity" [] RDouble [On QGraphicsItem];
    Sig [VALUE_TYPE_QTCORE_QRECTF] "ensureVisible" [PValue QRectF; PInt; PInt] RVoid [On QGraphicsItem];
    Sig [] "ensureVisible" [PNumber cxx_qreal; PNumber cxx_qreal; PNumber cxx_qreal; PNumber cxx_qreal;
        PInt; PInt] RVoid [On QGraphicsItem];
    Sig [] "filtersChildEvents" [] RBool [On QGraphicsItem];
    Sig [TYPE_QTWIDGETS_QGRAPHICSITEM] "flags" [] (RMeta QGraphicsItem_GraphicsItemFlags) [On
        QGraphicsItem];
    Sig [ENUM_QT_GESTURETYPE; TYPE_QTWIDGETS_QGESTURE] "gesture" [PValue Qt_GestureType] RObject [On
        QGestureEvent];
    Sig [TYPE_QTWIDGETS_QGESTURE] "gestures" [] (RList (IObject QObject)) [On QGestureEvent]
  ].

Definition value_methods_qtwidgets_0_s38 : list signature_row :=
  [
    Sig [] "grabKeyboard" [] RVoid [On QGraphicsItem];
    Sig [] "grabMouse" [] RVoid [On QGraphicsItem];
    Sig [TYPE_QTWIDGETS_QGRAPHICSEFFECT] "graphicsEffect" [] RObject [On QGraphicsItem];
    Sig [] "hasCursor" [] RBool [On QGraphicsItem];
    Sig [] "hasFocus" [] RBool [On QGraphicsItem];
    Sig [] "hide" [] RVoid [On QGraphicsItem];
    Sig [] "horizontalSpacing" [] RDouble [On QGraphicsAnchorLayout; On QGraphicsGridLayout];
    Sig [TYPE_QTGUI_QABSTRACTFILEICONPROVIDER; VALUE_TYPE_QTGUI_QICON] "icon" [PValue
        QAbstractFileIconProvider_IconType] (RValue QIcon) [On QFileIconProvider];
    Sig [VALUE_TYPE_QTCORE_QFILEINFO; VALUE_TYPE_QTGUI_QICON] "icon" [PValue QFileInfo] (RValue QIcon) [On
        QFileIconProvider];
    Sig [] "ignore" [] RVoid [On QGestureEvent]
  ].

Definition value_methods_qtwidgets_0_s48 : list signature_row :=
  [
    Sig [TYPE_QTWIDGETS_QGESTURE] "ignore" [PObject QGesture false] RVoid [On QGestureEvent];
    Sig [ENUM_QT_GESTURETYPE] "ignore" [PValue Qt_GestureType] RVoid [On QGestureEvent];
    Sig [] "invalidate" [] RVoid [On QGraphicsAnchorLayout; On QGraphicsGridLayout];
    Sig [] "isAccepted" [] RBool [On QGestureEvent];
    Sig [TYPE_QTWIDGETS_QGESTURE] "isAccepted" [PObject QGesture false] RBool [On QGestureEvent];
    Sig [ENUM_QT_GESTURETYPE] "isAccepted" [PValue Qt_GestureType] RBool [On QGestureEvent];
    Sig [] "isActive" [] RBool [On QGraphicsItem];
    Sig [] "isClipped" [] RBool [On QGraphicsItem];
    Sig [] "isEnabled" [] RBool [On QGraphicsItem];
    Sig [VALUE_TYPE_QTCORE_QRECTF] "isObscured" [PValue QRectF] RBool [On QGraphicsItem]
  ].

Definition value_methods_qtwidgets_0_s58 : list signature_row :=
  [
    Sig [] "isObscured" [PNumber cxx_qreal; PNumber cxx_qreal; PNumber cxx_qreal; PNumber cxx_qreal] RBool
        [On QGraphicsItem];
    Sig [] "isPanel" [] RBool [On QGraphicsItem];
    Sig [] "isSelected" [] RBool [On QGraphicsItem];
    Sig [] "isUnderMouse" [] RBool [On QGraphicsItem];
    Sig [] "isVisible" [] RBool [On QGraphicsItem];
    Sig [] "isWidget" [] RBool [On QGraphicsItem];
    Sig [] "isWindow" [] RBool [On QGraphicsItem];
    Sig [VALUE_TYPE_QTGUI_QPAINTERPATH] "mapFromParent" [PValue QPainterPath] (RValue QPainterPath) [On
        QGraphicsItem];
    Sig [VALUE_TYPE_QTCORE_QPOINTF] "mapFromParent" [PValue QPointF] (RValue QPointF) [On QGraphicsItem];
    Sig [VALUE_TYPE_QTGUI_QPOLYGONF] "mapFromParent" [PValue QPolygonF] (RValue QPolygonF) [On
        QGraphicsItem]
  ].

Definition value_methods_qtwidgets_0_s68 : list signature_row :=
  [
    Sig [VALUE_TYPE_QTCORE_QRECTF; VALUE_TYPE_QTGUI_QPOLYGONF] "mapFromParent" [PValue QRectF] (RValue
        QPolygonF) [On QGraphicsItem];
    Sig [VALUE_TYPE_QTCORE_QPOINTF] "mapFromParent" [PNumber cxx_qreal; PNumber cxx_qreal] (RValue QPointF)
        [On QGraphicsItem];
    Sig [VALUE_TYPE_QTGUI_QPOLYGONF] "mapFromParent" [PNumber cxx_qreal; PNumber cxx_qreal; PNumber
        cxx_qreal; PNumber cxx_qreal] (RValue QPolygonF) [On QGraphicsItem];
    Sig [VALUE_TYPE_QTGUI_QPAINTERPATH] "mapFromScene" [PValue QPainterPath] (RValue QPainterPath) [On
        QGraphicsItem];
    Sig [VALUE_TYPE_QTCORE_QPOINTF] "mapFromScene" [PValue QPointF] (RValue QPointF) [On QGraphicsItem];
    Sig [VALUE_TYPE_QTGUI_QPOLYGONF] "mapFromScene" [PValue QPolygonF] (RValue QPolygonF) [On
        QGraphicsItem];
    Sig [VALUE_TYPE_QTCORE_QRECTF; VALUE_TYPE_QTGUI_QPOLYGONF] "mapFromScene" [PValue QRectF] (RValue
        QPolygonF) [On QGraphicsItem];
    Sig [VALUE_TYPE_QTCORE_QPOINTF] "mapFromScene" [PNumber cxx_qreal; PNumber cxx_qreal] (RValue QPointF)
        [On QGraphicsItem]
  ].

Definition value_methods_qtwidgets_0_s76 : list signature_row :=
  [
    Sig [VALUE_TYPE_QTGUI_QPOLYGONF] "mapFromScene" [PNumber cxx_qreal; PNumber cxx_qreal; PNumber
        cxx_qreal; PNumber cxx_qreal] (RValue QPolygonF) [On QGraphicsItem];
    Sig [VALUE_TYPE_QTCORE_QRECTF] "mapRectFromParent" [PValue QRectF] (RValue QRectF) [On QGraphicsItem];
    Sig [VALUE_TYPE_QTCORE_QRECTF] "mapRectFromParent" [PNumber cxx_qreal; PNumber cxx_qreal; PNumber
        cxx_qreal; PNumber cxx_qreal] (RValue QRectF) [On QGraphicsItem];
    Sig [VALUE_TYPE_QTCORE_QRECTF] "mapRectFromScene" [PValue QRectF] (RValue QRectF) [On QGraphicsItem];
    Sig [VALUE_TYPE_QTCORE_QRECTF] "mapRectFromScene" [PNumber cxx_qreal; PNumber cxx_qreal; PNumber
        cxx_qreal; PNumber cxx_qreal] (RValue QRectF) [On QGraphicsItem];
    Sig [VALUE_TYPE_QTCORE_QRECTF] "mapRectToParent" [PValue QRectF] (RValue QRectF) [On QGraphicsItem];
    Sig [VALUE_TYPE_QTCORE_QRECTF] "mapRectToParent" [PNumber cxx_qreal; PNumber cxx_qreal; PNumber
        cxx_qreal; PNumber cxx_qreal] (RValue QRectF) [On QGraphicsItem]
  ].

Definition value_methods_qtwidgets_0_s83 : list signature_row :=
  [
    Sig [VALUE_TYPE_QTCORE_QRECTF] "mapRectToScene" [PValue QRectF] (RValue QRectF) [On QGraphicsItem];
    Sig [VALUE_TYPE_QTCORE_QRECTF] "mapRectToScene" [PNumber cxx_qreal; PNumber cxx_qreal; PNumber
        cxx_qreal; PNumber cxx_qreal] (RValue QRectF) [On QGraphicsItem];
    Sig [VALUE_TYPE_QTCORE_QPOINTF] "mapToGraphicsScene" [PValue QPointF] (RValue QPointF) [On
        QGestureEvent];
    Sig [VALUE_TYPE_QTGUI_QPAINTERPATH] "mapToParent" [PValue QPainterPath] (RValue QPainterPath) [On
        QGraphicsItem];
    Sig [VALUE_TYPE_QTCORE_QPOINTF] "mapToParent" [PValue QPointF] (RValue QPointF) [On QGraphicsItem];
    Sig [VALUE_TYPE_QTGUI_QPOLYGONF] "mapToParent" [PValue QPolygonF] (RValue QPolygonF) [On QGraphicsItem];
    Sig [VALUE_TYPE_QTCORE_QRECTF; VALUE_TYPE_QTGUI_QPOLYGONF] "mapToParent" [PValue QRectF] (RValue
        QPolygonF) [On QGraphicsItem];
    Sig [VALUE_TYPE_QTCORE_QPOINTF] "mapToParent" [PNumber cxx_qreal; PNumber cxx_qreal] (RValue QPointF)
        [On QGraphicsItem]
  ].

Definition value_methods_qtwidgets_0_s91 : list signature_row :=
  [
    Sig [VALUE_TYPE_QTGUI_QPOLYGONF] "mapToParent" [PNumber cxx_qreal; PNumber cxx_qreal; PNumber
        cxx_qreal; PNumber cxx_qreal] (RValue QPolygonF) [On QGraphicsItem];
    Sig [VALUE_TYPE_QTGUI_QPAINTERPATH] "mapToScene" [PValue QPainterPath] (RValue QPainterPath) [On
        QGraphicsItem];
    Sig [VALUE_TYPE_QTCORE_QPOINTF] "mapToScene" [PValue QPointF] (RValue QPointF) [On QGraphicsItem];
    Sig [VALUE_TYPE_QTGUI_QPOLYGONF] "mapToScene" [PValue QPolygonF] (RValue QPolygonF) [On QGraphicsItem];
    Sig [VALUE_TYPE_QTCORE_QRECTF; VALUE_TYPE_QTGUI_QPOLYGONF] "mapToScene" [PValue QRectF] (RValue
        QPolygonF) [On QGraphicsItem];
    Sig [VALUE_TYPE_QTCORE_QPOINTF] "mapToScene" [PNumber cxx_qreal; PNumber cxx_qreal] (RValue QPointF)
        [On QGraphicsItem];
    Sig [VALUE_TYPE_QTGUI_QPOLYGONF] "mapToScene" [PNumber cxx_qreal; PNumber cxx_qreal; PNumber cxx_qreal;
        PNumber cxx_qreal] (RValue QPolygonF) [On QGraphicsItem];
    Sig [] "moveBy" [PNumber cxx_qreal; PNumber cxx_qreal] RVoid [On QGraphicsItem]
  ].

Definition value_methods_qtwidgets_0_s99 : list signature_row :=
  [
    Sig [] "opacity" [] RDouble [On QGraphicsItem];
    Sig [VALUE_TYPE_QTGUI_QPAINTERPATH] "opaqueArea" [] (RValue QPainterPath) [On
        QAbstractGraphicsShapeItem; On QGraphicsEllipseItem; On QGraphicsItem];
    Sig [TYPE_QTWIDGETS_QGRAPHICSITEM] "panelModality" [] (RMeta QGraphicsItem_PanelModality) [On
        QGraphicsItem];
    Sig [TYPE_QTWIDGETS_QGRAPHICSOBJECT] "parentObject" [] RObject [On QGraphicsItem];
    Sig [TYPE_QTWIDGETS_QGRAPHICSWIDGET] "parentWidget" [] RObject [On QGraphicsItem];
    Sig [VALUE_TYPE_QTGUI_QPEN] "pen" [] (RValue QPen) [On QAbstractGraphicsShapeItem];
    Sig [VALUE_TYPE_QTCORE_QPOINTF] "pos" [] (RValue QPointF) [On QGraphicsItem];
    Sig [VALUE_TYPE_QTCORE_QRECTF] "rect" [] (RValue QRectF) [On QGraphicsEllipseItem];
    Sig [] "removeAt" [PInt] RVoid [On QGraphicsAnchorLayout]
  ].

Definition value_methods_qtwidgets_0_s108 : list signature_row :=
  [
    Sig [TYPE_QTWIDGETS_QGESTURE] "reset" [PObject QGesture false] RVoid [On QGestureRecognizer];
    Sig [] "resetTransform" [] RVoid [On QGraphicsItem];
    Sig [] "rotation" [] RDouble [On QGraphicsItem];
    Sig [] "rowCount" [] RDouble [On QGraphicsGridLayout];
    Sig [] "rowMaximumHeight" [PInt] RDouble [On QGraphicsGridLayout];
    Sig [] "rowMinimumHeight" [PInt] RDouble [On QGraphicsGridLayout];
    Sig [] "rowPreferredHeight" [PInt] RDouble [On QGraphicsGridLayout];
    Sig [] "rowSpacing" [PInt] RDouble [On QGraphicsGridLayout];
    Sig [] "rowStretchFactor" [PInt] RDouble [On QGraphicsGridLayout];
    Sig [] "scale" [] RDouble [On QGraphicsItem]
  ].

Definition value_methods_qtwidgets_0_s118 : list signature_row :=
  [
    Sig [TYPE_QTWIDGETS_QGRAPHICSSCENE] "scene" [] RObject [On QGraphicsItem];
    Sig [VALUE_TYPE_QTCORE_QRECTF] "sceneBoundingRect" [] (RValue QRectF) [On QGraphicsItem];
    Sig [VALUE_TYPE_QTCORE_QPOINTF] "scenePos" [] (RValue QPointF) [On QGraphicsItem];
    Sig [VALUE_TYPE_QTGUI_QTRANSFORM] "sceneTransform" [] (RValue QTransform) [On QGraphicsItem];
    Sig [VALUE_TYPE_QTCORE_QRECTF] "scroll" [PNumber cxx_qreal; PNumber cxx_qreal; PValue QRectF] RVoid [On
        QGraphicsItem];
    Sig [] "setAcceptDrops" [PBool] RVoid [On QGraphicsItem];
    Sig [] "setAcceptHoverEvents" [PBool] RVoid [On QGraphicsItem];
    Sig [] "setAcceptTouchEvents" [PBool] RVoid [On QGraphicsItem];
    Sig [TYPE_QTWIDGETS_QGESTURE] "setAccepted" [PObject QGesture false; PBool] RVoid [On QGestureEvent]
  ].

Definition value_methods_qtwidgets_0_s127 : list signature_row :=
  [
    Sig [ENUM_QT_GESTURETYPE] "setAccepted" [PValue Qt_GestureType; PBool] RVoid [On QGestureEvent];
    Sig [] "setAccepted" [PBool] RVoid [On QGestureEvent];
    Sig [ENUM_QT_MOUSEBUTTONS] "setAcceptedMouseButtons" [PValue Qt_MouseButtons] RVoid [On QGraphicsItem];
    Sig [] "setActive" [PBool] RVoid [On QGraphicsItem];
    Sig [] "setBoundingRegionGranularity" [PNumber cxx_qreal] RVoid [On QGraphicsItem];
    Sig [VALUE_TYPE_QTGUI_QBRUSH] "setBrush" [PValue QBrush] RVoid [On QAbstractGraphicsShapeItem];
    Sig [TYPE_QTWIDGETS_QGRAPHICSITEM; VALUE_TYPE_QTCORE_QSIZE] "setCacheMode" [PValue
        QGraphicsItem_CacheMode; PValue QSize] RVoid [On QGraphicsItem];
    Sig [] "setColumnFixedWidth" [PInt; PNumber cxx_qreal] RVoid [On QGraphicsGridLayout];
    Sig [] "setColumnMaximumWidth" [PInt; PNumber cxx_qreal] RVoid [On QGraphicsGridLayout]
  ].

Definition value_methods_qtwidgets_0_s136 : list signature_row :=
  [
    Sig [] "setColumnMinimumWidth" [PInt; PNumber cxx_qreal] RVoid [On QGraphicsGridLayout];
    Sig [] "setColumnPreferredWidth" [PInt; PNumber cxx_qreal] RVoid [On QGraphicsGridLayout];
    Sig [] "setColumnSpacing" [PInt; PNumber cxx_qreal] RVoid [On QGraphicsGridLayout];
    Sig [] "setColumnStretchFactor" [PInt; PInt] RVoid [On QGraphicsGridLayout];
    Sig [VALUE_TYPE_QTGUI_QCURSOR] "setCursor" [PValue QCursor] RVoid [On QGraphicsItem];
    Sig [] "setData" [PInt; PVariant] RVoid [On QGraphicsItem];
    Sig [] "setEnabled" [PBool] RVoid [On QGraphicsItem];
    Sig [] "setFiltersChildEvents" [PBool] RVoid [On QGraphicsItem];
    Sig [TYPE_QTWIDGETS_QGRAPHICSITEM] "setFlag" [PValue QGraphicsItem_GraphicsItemFlag; PBool] RVoid [On
        QGraphicsItem]
  ].

Definition value_methods_qtwidgets_0_s145 : list signature_row :=
  [
    Sig [TYPE_QTWIDGETS_QGRAPHICSITEM] "setFlags" [PValue QGraphicsItem_GraphicsItemFlags] RVoid [On
        QGraphicsItem];
    Sig [ENUM_QT_FOCUSREASON] "setFocus" [PValue Qt_FocusReason] RVoid [On QGraphicsItem];
    Sig [VALUE_TYPE_QTCORE_QRECTF] "setGeometry" [PValue QRectF] RVoid [On QGraphicsAnchorLayout; On
        QGraphicsGridLayout];
    Sig [TYPE_QTWIDGETS_QGRAPHICSEFFECT] "setGraphicsEffect" [PObject QGraphicsEffect false] RVoid [On
        QGraphicsItem];
    Sig [] "setHorizontalSpacing" [PNumber cxx_qreal] RVoid [On QGraphicsAnchorLayout; On
        QGraphicsGridLayout];
    Sig [] "setOpacity" [PNumber cxx_qreal] RVoid [On QGraphicsItem];
    Sig [TYPE_QTWIDGETS_QGRAPHICSITEM] "setPanelModality" [PValue QGraphicsItem_PanelModality] RVoid [On
        QGraphicsItem];
    Sig [VALUE_TYPE_QTGUI_QPEN] "setPen" [PValue QPen] RVoid [On QAbstractGraphicsShapeItem]
  ].

Definition value_methods_qtwidgets_0_s153 : list signature_row :=
  [
    Sig [VALUE_TYPE_QTCORE_QPOINTF] "setPos" [PValue QPointF] RVoid [On QGraphicsItem];
    Sig [] "setPos" [PNumber cxx_qreal; PNumber cxx_qreal] RVoid [On QGraphicsItem];
    Sig [VALUE_TYPE_QTCORE_QRECTF] "setRect" [PValue QRectF] RVoid [On QGraphicsEllipseItem];
    Sig [] "setRect" [PNumber cxx_qreal; PNumber cxx_qreal; PNumber cxx_qreal; PNumber cxx_qreal] RVoid [On
        QGraphicsEllipseItem];
    Sig [] "setRotation" [PNumber cxx_qreal] RVoid [On QGraphicsItem];
    Sig [] "setRowFixedHeight" [PInt; PNumber cxx_qreal] RVoid [On QGraphicsGridLayout];
    Sig [] "setRowMaximumHeight" [PInt; PNumber cxx_qreal] RVoid [On QGraphicsGridLayout];
    Sig [] "setRowMinimumHeight" [PInt; PNumber cxx_qreal] RVoid [On QGraphicsGridLayout];
    Sig [] "setRowPreferredHeight" [PInt; PNumber cxx_qreal] RVoid [On QGraphicsGridLayout]
  ].

Definition value_methods_qtwidgets_0_s162 : list signature_row :=
  [
    Sig [] "setRowSpacing" [PInt; PNumber cxx_qreal] RVoid [On QGraphicsGridLayout];
    Sig [] "setRowStretchFactor" [PInt; PInt] RVoid [On QGraphicsGridLayout];
    Sig [] "setScale" [PNumber cxx_qreal] RVoid [On QGraphicsItem];
    Sig [] "setSelected" [PBool] RVoid [On QGraphicsItem];
    Sig [] "setSpacing" [PNumber cxx_qreal] RVoid [On QGraphicsAnchorLayout; On QGraphicsGridLayout];
    Sig [] "setSpanAngle" [PInt] RVoid [On QGraphicsEllipseItem];
    Sig [] "setStartAngle" [PInt] RVoid [On QGraphicsEllipseItem];
    Sig [] "setToolTip" [PString true] RVoid [On QGraphicsItem];
    Sig [VALUE_TYPE_QTGUI_QTRANSFORM] "setTransform" [PValue QTransform; PBool] RVoid [On QGraphicsItem]
  ].

Definition value_methods_qtwidgets_0_s171 : list signature_row :=
  [
    Sig [VALUE_TYPE_QTCORE_QPOINTF] "setTransformOriginPoint" [PValue QPointF] RVoid [On QGraphicsItem];
    Sig [] "setTransformOriginPoint" [PNumber cxx_qreal; PNumber cxx_qreal] RVoid [On QGraphicsItem];
    Sig [TYPE_QTWIDGETS_QGRAPHICSTRANSFORM] "setTransformations" [PList (IObject QGraphicsTransform)] RVoid
        [On QGraphicsItem];
    Sig [] "setVerticalSpacing" [PNumber cxx_qreal] RVoid [On QGraphicsAnchorLayout; On
        QGraphicsGridLayout];
    Sig [] "setVisible" [PBool] RVoid [On QGraphicsItem];
    Sig [] "setX" [PNumber cxx_qreal] RVoid [On QGraphicsItem];
    Sig [] "setY" [PNumber cxx_qreal] RVoid [On QGraphicsItem];
    Sig [] "setZValue" [PNumber cxx_qreal] RVoid [On QGraphicsItem];
    Sig [VALUE_TYPE_QTGUI_QPAINTERPATH] "shape" [] (RValue QPainterPath) [On QGraphicsEllipseItem; On
        QGraphicsItem]
  ].

Definition value_methods_qtwidgets_0_s180 : list signature_row :=
  [
    Sig [] "show" [] RVoid [On QGraphicsItem];
    Sig [ENUM_QT_SIZEHINT; VALUE_TYPE_QTCORE_QSIZEF] "sizeHint" [PValue Qt_SizeHint; PValue QSizeF] (RValue
        QSizeF) [On QGraphicsGridLayout];
    Sig [] "spanAngle" [] RDouble [On QGraphicsEllipseItem];
    Sig [] "startAngle" [] RDouble [On QGraphicsEllipseItem];
    Sig [TYPE_QTWIDGETS_QGRAPHICSOBJECT] "toGraphicsObject" [] RObject [On QGraphicsItem];
    Sig [] "toolTip" [] RString [On QGraphicsItem];
    Sig [TYPE_QTWIDGETS_QGRAPHICSWIDGET] "topLevelWidget" [] RObject [On QGraphicsItem];
    Sig [VALUE_TYPE_QTGUI_QTRANSFORM] "transform" [] (RValue QTransform) [On QGraphicsItem];
    Sig [VALUE_TYPE_QTCORE_QPOINTF] "transformOriginPoint" [] (RValue QPointF) [On QGraphicsItem];
    Sig [TYPE_QTWIDGETS_QGRAPHICSTRANSFORM] "transformations" [] (RList (IObject QObject)) [On
        QGraphicsItem]
  ].

Definition value_methods_qtwidgets_0_s190 : list signature_row :=
  [
    Sig [] "type" [] RDouble [On QGraphicsEllipseItem; On QGraphicsItem];
    Sig [] "ungrabKeyboard" [] RVoid [On QGraphicsItem];
    Sig [] "ungrabMouse" [] RVoid [On QGraphicsItem];
    Sig [] "unsetCursor" [] RVoid [On QGraphicsItem];
    Sig [VALUE_TYPE_QTCORE_QRECTF] "update" [PValue QRectF] RVoid [On QGraphicsItem];
    Sig [] "update" [PNumber cxx_qreal; PNumber cxx_qreal; PNumber cxx_qreal; PNumber cxx_qreal] RVoid [On
        QGraphicsItem];
    Sig [] "verticalSpacing" [] RDouble [On QGraphicsAnchorLayout; On QGraphicsGridLayout];
    Sig [TYPE_QTWIDGETS_QWIDGET] "widget" [] RObject [On QGestureEvent];
    Sig [TYPE_QTWIDGETS_QGRAPHICSWIDGET] "window" [] RObject [On QGraphicsItem];
    Sig [] "x" [] RDouble [On QGraphicsItem]
  ].

Definition value_methods_qtwidgets_0_s200 : list signature_row :=
  [
    Sig [] "y" [] RDouble [On QGraphicsItem];
    Sig [] "zValue" [] RDouble [On QGraphicsItem]
  ].

Definition value_methods_qtwidgets_0_types : list string :=
  [
    QAbstractGraphicsShapeItem;
    QFileIconProvider;
    QGestureEvent;
    QGestureRecognizer;
    QGraphicsAnchorLayout;
    QGraphicsEllipseItem;
    QGraphicsGridLayout;
    QGraphicsItem
  ].

Definition value_methods_qtwidgets_0 : method_shard :=
  MethodShard QtWidgets "KRY_QT6_NATIVE_METHODS_QTWIDGETS_"
    (value_methods_qtwidgets_0_i0)
    (value_methods_qtwidgets_0_s0 ++ value_methods_qtwidgets_0_s10 ++ value_methods_qtwidgets_0_s20 ++
        value_methods_qtwidgets_0_s29 ++ value_methods_qtwidgets_0_s38 ++ value_methods_qtwidgets_0_s48 ++
        value_methods_qtwidgets_0_s58 ++ value_methods_qtwidgets_0_s68 ++ value_methods_qtwidgets_0_s76 ++
        value_methods_qtwidgets_0_s83 ++ value_methods_qtwidgets_0_s91 ++ value_methods_qtwidgets_0_s99 ++
        value_methods_qtwidgets_0_s108 ++ value_methods_qtwidgets_0_s118 ++ value_methods_qtwidgets_0_s127
        ++ value_methods_qtwidgets_0_s136 ++ value_methods_qtwidgets_0_s145 ++
        value_methods_qtwidgets_0_s153 ++ value_methods_qtwidgets_0_s162 ++ value_methods_qtwidgets_0_s171
        ++ value_methods_qtwidgets_0_s180 ++ value_methods_qtwidgets_0_s190 ++
        value_methods_qtwidgets_0_s200)
    value_methods_qtwidgets_0_types.

Definition value_methods_qtwidgets_1_i0 : list include :=
  [
    ClassInclude QtWidgets QGraphicsItemGroup QGraphicsItemGroup;
    ClassInclude QtWidgets QGraphicsLayout QGraphicsLayout;
    ClassInclude QtWidgets QGraphicsLayoutItem QGraphicsLayoutItem;
    ClassInclude QtWidgets QGraphicsLineItem QGraphicsLineItem;
    ClassInclude QtWidgets QGraphicsLinearLayout QGraphicsLinearLayout;
    ClassInclude QtWidgets QGraphicsPathItem QGraphicsPathItem;
    ClassInclude QtWidgets QGraphicsPixmapItem QGraphicsPixmapItem;
    ClassInclude QtWidgets QGraphicsPolygonItem QGraphicsPolygonItem;
    EnumDefine ENUM_QT_FILLRULE;
    EnumDefine ENUM_QT_ORIENTATION;
    EnumDefine ENUM_QT_SIZEHINT;
    EnumDefine ENUM_QT_TRANSFORMATIONMODE;
    TypeInclude QtWidgets QGraphicsPixmapItem TYPE_QTWIDGETS_QGRAPHICSPIXMAPITEM;
    TypeInclude QtWidgets QSizePolicy TYPE_QTWIDGETS_QSIZEPOLICY;
    TypeInclude QtCore QLineF VALUE_TYPE_QTCORE_QLINEF;
    TypeInclude QtCore QPointF VALUE_TYPE_QTCORE_QPOINTF;
    TypeInclude QtCore QRectF VALUE_TYPE_QTCORE_QRECTF;
    TypeInclude QtCore QSizeF VALUE_TYPE_QTCORE_QSIZEF;
    TypeInclude QtGui QPainterPath VALUE_TYPE_QTGUI_QPAINTERPATH;
    TypeInclude QtGui QPen VALUE_TYPE_QTGUI_QPEN;
    TypeInclude QtGui QPixmap VALUE_TYPE_QTGUI_QPIXMAP;
    TypeInclude QtGui QPolygonF VALUE_TYPE_QTGUI_QPOLYGONF;
    TypeInclude QtWidgets QSizePolicy VALUE_TYPE_QTWIDGETS_QSIZEPOLICY
  ].

Definition value_methods_qtwidgets_1_s0 : list signature_row :=
  [
    Sig [] "activate" [] RVoid [On QGraphicsLayout];
    Sig [] "addStretch" [PInt] RVoid [On QGraphicsLinearLayout];
    Sig [VALUE_TYPE_QTCORE_QRECTF] "boundingRect" [] (RValue QRectF) [On QGraphicsItemGroup; On
        QGraphicsLineItem; On QGraphicsPathItem; On QGraphicsPixmapItem; On QGraphicsPolygonItem];
    Sig [VALUE_TYPE_QTCORE_QPOINTF] "contains" [PValue QPointF] RBool [On QGraphicsLineItem; On
        QGraphicsPathItem; On QGraphicsPixmapItem; On QGraphicsPolygonItem];
    Sig [VALUE_TYPE_QTCORE_QRECTF] "contentsRect" [] (RValue QRectF) [On QGraphicsLayoutItem];
    Sig [] "count" [] RDouble [On QGraphicsLinearLayout];
    Sig [ENUM_QT_SIZEHINT; VALUE_TYPE_QTCORE_QSIZEF] "effectiveSizeHint" [PValue Qt_SizeHint; PValue
        QSizeF] (RValue QSizeF) [On QGraphicsLayoutItem]
  ].

Definition value_methods_qtwidgets_1_s7 : list signature_row :=
  [
    Sig [ENUM_QT_FILLRULE] "fillRule" [] (RMeta Qt_FillRule) [On QGraphicsPolygonItem];
    Sig [VALUE_TYPE_QTCORE_QRECTF] "geometry" [] (RValue QRectF) [On QGraphicsLayoutItem];
    Sig [] "insertStretch" [PInt; PInt] RVoid [On QGraphicsLinearLayout];
    Sig [] "invalidate" [] RVoid [On QGraphicsLayout; On QGraphicsLinearLayout];
    Sig [] "isActivated" [] RBool [On QGraphicsLayout];
    Sig [] "isEmpty" [] RBool [On QGraphicsLayoutItem];
    Sig [] "isLayout" [] RBool [On QGraphicsLayoutItem];
    Sig [] "itemSpacing" [PInt] RDouble [On QGraphicsLinearLayout];
    Sig [VALUE_TYPE_QTCORE_QLINEF] "line" [] (RValue QLineF) [On QGraphicsLineItem];
    Sig [] "maximumHeight" [] RDouble [On QGraphicsLayoutItem]
  ].

Definition value_methods_qtwidgets_1_s17 : list signature_row :=
  [
    Sig [VALUE_TYPE_QTCORE_QSIZEF] "maximumSize" [] (RValue QSizeF) [On QGraphicsLayoutItem];
    Sig [] "maximumWidth" [] RDouble [On QGraphicsLayoutItem];
    Sig [] "minimumHeight" [] RDouble [On QGraphicsLayoutItem];
    Sig [VALUE_TYPE_QTCORE_QSIZEF] "minimumSize" [] (RValue QSizeF) [On QGraphicsLayoutItem];
    Sig [] "minimumWidth" [] RDouble [On QGraphicsLayoutItem];
    Sig [VALUE_TYPE_QTCORE_QPOINTF] "offset" [] (RValue QPointF) [On QGraphicsPixmapItem];
    Sig [VALUE_TYPE_QTGUI_QPAINTERPATH] "opaqueArea" [] (RValue QPainterPath) [On QGraphicsItemGroup; On
        QGraphicsLineItem; On QGraphicsPathItem; On QGraphicsPixmapItem; On QGraphicsPolygonItem];
    Sig [ENUM_QT_ORIENTATION] "orientation" [] (RMeta Qt_Orientation) [On QGraphicsLinearLayout];
    Sig [] "ownedByLayout" [] RBool [On QGraphicsLayoutItem]
  ].

Definition value_methods_qtwidgets_1_s26 : list signature_row :=
  [
    Sig [VALUE_TYPE_QTGUI_QPAINTERPATH] "path" [] (RValue QPainterPath) [On QGraphicsPathItem];
    Sig [VALUE_TYPE_QTGUI_QPEN] "pen" [] (RValue QPen) [On QGraphicsLineItem];
    Sig [VALUE_TYPE_QTGUI_QPIXMAP] "pixmap" [] (RValue QPixmap) [On QGraphicsPixmapItem];
    Sig [VALUE_TYPE_QTGUI_QPOLYGONF] "polygon" [] (RValue QPolygonF) [On QGraphicsPolygonItem];
    Sig [] "preferredHeight" [] RDouble [On QGraphicsLayoutItem];
    Sig [VALUE_TYPE_QTCORE_QSIZEF] "preferredSize" [] (RValue QSizeF) [On QGraphicsLayoutItem];
    Sig [] "preferredWidth" [] RDouble [On QGraphicsLayoutItem];
    Sig [] "setContentsMargins" [PNumber cxx_qreal; PNumber cxx_qreal; PNumber cxx_qreal; PNumber
        cxx_qreal] RVoid [On QGraphicsLayout];
    Sig [ENUM_QT_FILLRULE] "setFillRule" [PValue Qt_FillRule] RVoid [On QGraphicsPolygonItem]
  ].

Definition value_methods_qtwidgets_1_s35 : list signature_row :=
  [
    Sig [VALUE_TYPE_QTCORE_QRECTF] "setGeometry" [PValue QRectF] RVoid [On QGraphicsLayoutItem; On
        QGraphicsLinearLayout];
    Sig [] "setItemSpacing" [PInt; PNumber cxx_qreal] RVoid [On QGraphicsLinearLayout];
    Sig [VALUE_TYPE_QTCORE_QLINEF] "setLine" [PValue QLineF] RVoid [On QGraphicsLineItem];
    Sig [] "setLine" [PNumber cxx_qreal; PNumber cxx_qreal; PNumber cxx_qreal; PNumber cxx_qreal] RVoid [On
        QGraphicsLineItem];
    Sig [] "setMaximumHeight" [PNumber cxx_qreal] RVoid [On QGraphicsLayoutItem];
    Sig [VALUE_TYPE_QTCORE_QSIZEF] "setMaximumSize" [PValue QSizeF] RVoid [On QGraphicsLayoutItem];
    Sig [] "setMaximumSize" [PNumber cxx_qreal; PNumber cxx_qreal] RVoid [On QGraphicsLayoutItem];
    Sig [] "setMaximumWidth" [PNumber cxx_qreal] RVoid [On QGraphicsLayoutItem];
    Sig [] "setMinimumHeight" [PNumber cxx_qreal] RVoid [On QGraphicsLayoutItem]
  ].

Definition value_methods_qtwidgets_1_s44 : list signature_row :=
  [
    Sig [VALUE_TYPE_QTCORE_QSIZEF] "setMinimumSize" [PValue QSizeF] RVoid [On QGraphicsLayoutItem];
    Sig [] "setMinimumSize" [PNumber cxx_qreal; PNumber cxx_qreal] RVoid [On QGraphicsLayoutItem];
    Sig [] "setMinimumWidth" [PNumber cxx_qreal] RVoid [On QGraphicsLayoutItem];
    Sig [VALUE_TYPE_QTCORE_QPOINTF] "setOffset" [PValue QPointF] RVoid [On QGraphicsPixmapItem];
    Sig [] "setOffset" [PNumber cxx_qreal; PNumber cxx_qreal] RVoid [On QGraphicsPixmapItem];
    Sig [ENUM_QT_ORIENTATION] "setOrientation" [PValue Qt_Orientation] RVoid [On QGraphicsLinearLayout];
    Sig [VALUE_TYPE_QTGUI_QPAINTERPATH] "setPath" [PValue QPainterPath] RVoid [On QGraphicsPathItem];
    Sig [VALUE_TYPE_QTGUI_QPEN] "setPen" [PValue QPen] RVoid [On QGraphicsLineItem];
    Sig [VALUE_TYPE_QTGUI_QPIXMAP] "setPixmap" [PValue QPixmap] RVoid [On QGraphicsPixmapItem]
  ].

Definition value_methods_qtwidgets_1_s53 : list signature_row :=
  [
    Sig [VALUE_TYPE_QTGUI_QPOLYGONF] "setPolygon" [PValue QPolygonF] RVoid [On QGraphicsPolygonItem];
    Sig [] "setPreferredHeight" [PNumber cxx_qreal] RVoid [On QGraphicsLayoutItem];
    Sig [VALUE_TYPE_QTCORE_QSIZEF] "setPreferredSize" [PValue QSizeF] RVoid [On QGraphicsLayoutItem];
    Sig [] "setPreferredSize" [PNumber cxx_qreal; PNumber cxx_qreal] RVoid [On QGraphicsLayoutItem];
    Sig [] "setPreferredWidth" [PNumber cxx_qreal] RVoid [On QGraphicsLayoutItem];
    Sig [TYPE_QTWIDGETS_QGRAPHICSPIXMAPITEM] "setShapeMode" [PValue QGraphicsPixmapItem_ShapeMode] RVoid
        [On QGraphicsPixmapItem];
    Sig [VALUE_TYPE_QTWIDGETS_QSIZEPOLICY] "setSizePolicy" [PValue QSizePolicy] RVoid [On
        QGraphicsLayoutItem];
    Sig [TYPE_QTWIDGETS_QSIZEPOLICY] "setSizePolicy" [PValue QSizePolicy_Policy; PValue QSizePolicy_Policy;
        PValue QSizePolicy_ControlType] RVoid [On QGraphicsLayoutItem];
    Sig [] "setSpacing" [PNumber cxx_qreal] RVoid [On QGraphicsLinearLayout]
  ].

Definition value_methods_qtwidgets_1_s62 : list signature_row :=
  [
    Sig [ENUM_QT_TRANSFORMATIONMODE] "setTransformationMode" [PValue Qt_TransformationMode] RVoid [On
        QGraphicsPixmapItem];
    Sig [VALUE_TYPE_QTGUI_QPAINTERPATH] "shape" [] (RValue QPainterPath) [On QGraphicsLineItem; On
        QGraphicsPathItem; On QGraphicsPixmapItem; On QGraphicsPolygonItem];
    Sig [TYPE_QTWIDGETS_QGRAPHICSPIXMAPITEM] "shapeMode" [] (RMeta QGraphicsPixmapItem_ShapeMode) [On
        QGraphicsPixmapItem];
    Sig [ENUM_QT_SIZEHINT; VALUE_TYPE_QTCORE_QSIZEF] "sizeHint" [PValue Qt_SizeHint; PValue QSizeF] (RValue
        QSizeF) [On QGraphicsLinearLayout];
    Sig [VALUE_TYPE_QTWIDGETS_QSIZEPOLICY] "sizePolicy" [] (RValue QSizePolicy) [On QGraphicsLayoutItem];
    Sig [] "spacing" [] RDouble [On QGraphicsLinearLayout];
    Sig [ENUM_QT_TRANSFORMATIONMODE] "transformationMode" [] (RMeta Qt_TransformationMode) [On
        QGraphicsPixmapItem]
  ].

Definition value_methods_qtwidgets_1_s69 : list signature_row :=
  [
    Sig [] "type" [] RDouble [On QGraphicsItemGroup; On QGraphicsLineItem; On QGraphicsPathItem; On
        QGraphicsPixmapItem; On QGraphicsPolygonItem];
    Sig [] "updateGeometry" [] RVoid [On QGraphicsLayout; On QGraphicsLayoutItem]
  ].

Definition value_methods_qtwidgets_1_types : list string :=
  [
    QGraphicsItemGroup;
    QGraphicsLayout;
    QGraphicsLayoutItem;
    QGraphicsLineItem;
    QGraphicsLinearLayout;
    QGraphicsPathItem;
    QGraphicsPixmapItem;
    QGraphicsPolygonItem
  ].

Definition value_methods_qtwidgets_1 : method_shard :=
  MethodShard QtWidgets "KRY_QT6_NATIVE_METHODS_QTWIDGETS_"
    (value_methods_qtwidgets_1_i0)
    (value_methods_qtwidgets_1_s0 ++ value_methods_qtwidgets_1_s7 ++ value_methods_qtwidgets_1_s17 ++
        value_methods_qtwidgets_1_s26 ++ value_methods_qtwidgets_1_s35 ++ value_methods_qtwidgets_1_s44 ++
        value_methods_qtwidgets_1_s53 ++ value_methods_qtwidgets_1_s62 ++ value_methods_qtwidgets_1_s69)
    value_methods_qtwidgets_1_types.

Definition value_methods_qtwidgets_2_i0 : list include :=
  [
    ClassInclude QtWidgets QGraphicsRectItem QGraphicsRectItem;
    ClassInclude QtWidgets QGraphicsSceneContextMenuEvent QGraphicsSceneContextMenuEvent;
    ClassInclude QtWidgets QGraphicsSceneDragDropEvent QGraphicsSceneDragDropEvent;
    ClassInclude QtWidgets QGraphicsSceneEvent QGraphicsSceneEvent;
    ClassInclude QtWidgets QGraphicsSceneHelpEvent QGraphicsSceneHelpEvent;
    ClassInclude QtWidgets QGraphicsSceneHoverEvent QGraphicsSceneHoverEvent;
    ClassInclude QtWidgets QGraphicsSceneMouseEvent QGraphicsSceneMouseEvent;
    ClassInclude QtWidgets QGraphicsSceneMoveEvent QGraphicsSceneMoveEvent;
    TypeInclude QtCore QMimeData TYPE_QTCORE_QMIMEDATA;
    TypeInclude QtWidgets QWidget TYPE_QTWIDGETS_QWIDGET;
    EnumDefine ENUM_QT_DROPACTION;
    EnumDefine ENUM_QT_DROPACTIONS;
    EnumDefine ENUM_QT_MOUSEBUTTON;
    EnumDefine ENUM_QT_MOUSEBUTTONS;
    EnumDefine ENUM_QT_MOUSEEVENTSOURCE;
    TypeInclude QtWidgets QGraphicsSceneContextMenuEvent TYPE_QTWIDGETS_QGRAPHICSSCENECONTEXTMENUEVENT;
    TypeInclude QtCore QPoint VALUE_TYPE_QTCORE_QPOINT;
    TypeInclude QtCore QPointF VALUE_TYPE_QTCORE_QPOINTF;
    TypeInclude QtCore QRectF VALUE_TYPE_QTCORE_QRECTF;
    TypeInclude QtGui QPainterPath VALUE_TYPE_QTGUI_QPAINTERPATH
  ].

Definition value_methods_qtwidgets_2_s0 : list signature_row :=
  [
    Sig [] "acceptProposedAction" [] RVoid [On QGraphicsSceneDragDropEvent];
    Sig [VALUE_TYPE_QTCORE_QRECTF] "boundingRect" [] (RValue QRectF) [On QGraphicsRectItem];
    Sig [ENUM_QT_MOUSEBUTTON] "button" [] (RMeta Qt_MouseButton) [On QGraphicsSceneMouseEvent];
    Sig [ENUM_QT_MOUSEBUTTON; VALUE_TYPE_QTCORE_QPOINTF] "buttonDownPos" [PValue Qt_MouseButton] (RValue
        QPointF) [On QGraphicsSceneMouseEvent];
    Sig [ENUM_QT_MOUSEBUTTON; VALUE_TYPE_QTCORE_QPOINTF] "buttonDownScenePos" [PValue Qt_MouseButton]
        (RValue QPointF) [On QGraphicsSceneMouseEvent];
    Sig [ENUM_QT_MOUSEBUTTON; VALUE_TYPE_QTCORE_QPOINT] "buttonDownScreenPos" [PValue Qt_MouseButton]
        (RValue QPoint) [On QGraphicsSceneMouseEvent];
    Sig [ENUM_QT_MOUSEBUTTONS] "buttons" [] (RMeta Qt_MouseButtons) [On QGraphicsSceneDragDropEvent; On
        QGraphicsSceneMouseEvent];
    Sig [VALUE_TYPE_QTCORE_QPOINTF] "contains" [PValue QPointF] RBool [On QGraphicsRectItem];
    Sig [ENUM_QT_DROPACTION] "dropAction" [] (RMeta Qt_DropAction) [On QGraphicsSceneDragDropEvent]
  ].

Definition value_methods_qtwidgets_2_s9 : list signature_row :=
  [
    Sig [VALUE_TYPE_QTCORE_QPOINTF] "lastPos" [] (RValue QPointF) [On QGraphicsSceneHoverEvent; On
        QGraphicsSceneMouseEvent];
    Sig [VALUE_TYPE_QTCORE_QPOINTF] "lastScenePos" [] (RValue QPointF) [On QGraphicsSceneHoverEvent; On
        QGraphicsSceneMouseEvent];
    Sig [VALUE_TYPE_QTCORE_QPOINT] "lastScreenPos" [] (RValue QPoint) [On QGraphicsSceneHoverEvent; On
        QGraphicsSceneMouseEvent];
    Sig [TYPE_QTCORE_QMIMEDATA] "mimeData" [] RObject [On QGraphicsSceneDragDropEvent];
    Sig [VALUE_TYPE_QTCORE_QPOINTF] "newPos" [] (RValue QPointF) [On QGraphicsSceneMoveEvent];
    Sig [VALUE_TYPE_QTCORE_QPOINTF] "oldPos" [] (RValue QPointF) [On QGraphicsSceneMoveEvent];
    Sig [VALUE_TYPE_QTGUI_QPAINTERPATH] "opaqueArea" [] (RValue QPainterPath) [On QGraphicsRectItem]
  ].

Definition value_methods_qtwidgets_2_s16 : list signature_row :=
  [
    Sig [VALUE_TYPE_QTCORE_QPOINTF] "pos" [] (RValue QPointF) [On QGraphicsSceneContextMenuEvent; On
        QGraphicsSceneDragDropEvent; On QGraphicsSceneHoverEvent; On QGraphicsSceneMouseEvent];
    Sig [ENUM_QT_DROPACTIONS] "possibleActions" [] (RMeta Qt_DropActions) [On QGraphicsSceneDragDropEvent];
    Sig [ENUM_QT_DROPACTION] "proposedAction" [] (RMeta Qt_DropAction) [On QGraphicsSceneDragDropEvent];
    Sig [TYPE_QTWIDGETS_QGRAPHICSSCENECONTEXTMENUEVENT] "reason" [] (RMeta
        QGraphicsSceneContextMenuEvent_Reason) [On QGraphicsSceneContextMenuEvent];
    Sig [VALUE_TYPE_QTCORE_QRECTF] "rect" [] (RValue QRectF) [On QGraphicsRectItem];
    Sig [VALUE_TYPE_QTCORE_QPOINTF] "scenePos" [] (RValue QPointF) [On QGraphicsSceneContextMenuEvent; On
        QGraphicsSceneDragDropEvent; On QGraphicsSceneHelpEvent; On QGraphicsSceneHoverEvent; On
        QGraphicsSceneMouseEvent]
  ].

Definition value_methods_qtwidgets_2_s22 : list signature_row :=
  [
    Sig [VALUE_TYPE_QTCORE_QPOINT] "screenPos" [] (RValue QPoint) [On QGraphicsSceneContextMenuEvent; On
        QGraphicsSceneDragDropEvent; On QGraphicsSceneHelpEvent; On QGraphicsSceneHoverEvent; On
        QGraphicsSceneMouseEvent];
    Sig [ENUM_QT_DROPACTION] "setDropAction" [PValue Qt_DropAction] RVoid [On QGraphicsSceneDragDropEvent];
    Sig [VALUE_TYPE_QTCORE_QRECTF] "setRect" [PValue QRectF] RVoid [On QGraphicsRectItem];
    Sig [] "setRect" [PNumber cxx_qreal; PNumber cxx_qreal; PNumber cxx_qreal; PNumber cxx_qreal] RVoid [On
        QGraphicsRectItem];
    Sig [VALUE_TYPE_QTGUI_QPAINTERPATH] "shape" [] (RValue QPainterPath) [On QGraphicsRectItem];
    Sig [TYPE_QTWIDGETS_QWIDGET] "source" [] RObject [On QGraphicsSceneDragDropEvent];
    Sig [ENUM_QT_MOUSEEVENTSOURCE] "source" [] (RMeta Qt_MouseEventSource) [On QGraphicsSceneMouseEvent];
    Sig [] "timestamp" [] (RMeta cxx_quint64) [On QGraphicsSceneEvent]
  ].

Definition value_methods_qtwidgets_2_s30 : list signature_row :=
  [
    Sig [] "type" [] RDouble [On QGraphicsRectItem];
    Sig [TYPE_QTWIDGETS_QWIDGET] "widget" [] RObject [On QGraphicsSceneEvent]
  ].

Definition value_methods_qtwidgets_2_types : list string :=
  [
    QGraphicsRectItem;
    QGraphicsSceneContextMenuEvent;
    QGraphicsSceneDragDropEvent;
    QGraphicsSceneEvent;
    QGraphicsSceneHelpEvent;
    QGraphicsSceneHoverEvent;
    QGraphicsSceneMouseEvent;
    QGraphicsSceneMoveEvent
  ].

Definition value_methods_qtwidgets_2 : method_shard :=
  MethodShard QtWidgets "KRY_QT6_NATIVE_METHODS_QTWIDGETS_"
    (value_methods_qtwidgets_2_i0)
    (value_methods_qtwidgets_2_s0 ++ value_methods_qtwidgets_2_s9 ++ value_methods_qtwidgets_2_s16 ++
        value_methods_qtwidgets_2_s22 ++ value_methods_qtwidgets_2_s30)
    value_methods_qtwidgets_2_types.

Definition value_methods_qtwidgets_3_i0 : list include :=
  [
    ClassInclude QtWidgets QGraphicsSceneResizeEvent QGraphicsSceneResizeEvent;
    ClassInclude QtWidgets QGraphicsSceneWheelEvent QGraphicsSceneWheelEvent;
    ClassInclude QtWidgets QGraphicsSimpleTextItem QGraphicsSimpleTextItem;
    ClassInclude QtWidgets QItemEditorFactory QItemEditorFactory;
    ClassInclude QtWidgets QLayoutItem QLayoutItem;
    ClassInclude QtWidgets QListWidgetItem QListWidgetItem;
    ClassInclude QtWidgets QScrollerProperties QScrollerProperties;
    ClassInclude QtWidgets QSizePolicy QSizePolicy;
    TypeInclude QtWidgets QLayout TYPE_QTWIDGETS_QLAYOUT;
    TypeInclude QtWidgets QListWidget TYPE_QTWIDGETS_QLISTWIDGET;
    TypeInclude QtWidgets QWidget TYPE_QTWIDGETS_QWIDGET;
    EnumDefine ENUM_QT_CHECKSTATE;
    EnumDefine ENUM_QT_MOUSEBUTTONS;
    EnumDefine ENUM_QT_ORIENTATION;
    EnumDefine ENUM_QT_ORIENTATIONS;
    EnumDefine ENUM_QT_SCROLLPHASE;
    TypeInclude QtWidgets QScrollerProperties TYPE_QTWIDGETS_QSCROLLERPROPERTIES;
    TypeInclude QtWidgets QSizePolicy TYPE_QTWIDGETS_QSIZEPOLICY;
    TypeInclude QtCore QByteArray VALUE_TYPE_QTCORE_QBYTEARRAY;
    TypeInclude QtCore QDataStream VALUE_TYPE_QTCORE_QDATASTREAM;
    TypeInclude QtCore QPoint VALUE_TYPE_QTCORE_QPOINT;
    TypeInclude QtCore QPointF VALUE_TYPE_QTCORE_QPOINTF;
    TypeInclude QtCore QRectF VALUE_TYPE_QTCORE_QRECTF;
    TypeInclude QtCore QSize VALUE_TYPE_QTCORE_QSIZE;
    TypeInclude QtCore QSizeF VALUE_TYPE_QTCORE_QSIZEF;
    TypeInclude QtGui QBrush VALUE_TYPE_QTGUI_QBRUSH;
    TypeInclude QtGui QFont VALUE_TYPE_QTGUI_QFONT;
    TypeInclude QtGui QIcon VALUE_TYPE_QTGUI_QICON;
    TypeInclude QtGui QPainterPath VALUE_TYPE_QTGUI_QPAINTERPATH;
    TypeInclude QtWidgets QSizePolicy VALUE_TYPE_QTWIDGETS_QSIZEPOLICY
  ].

Definition value_methods_qtwidgets_3_s0 : list signature_row :=
  [
    Sig [VALUE_TYPE_QTGUI_QBRUSH] "background" [] (RValue QBrush) [On QListWidgetItem];
    Sig [VALUE_TYPE_QTCORE_QRECTF] "boundingRect" [] (RValue QRectF) [On QGraphicsSimpleTextItem];
    Sig [ENUM_QT_MOUSEBUTTONS] "buttons" [] (RMeta Qt_MouseButtons) [On QGraphicsSceneWheelEvent];
    Sig [ENUM_QT_CHECKSTATE] "checkState" [] (RMeta Qt_CheckState) [On QListWidgetItem];
    Sig [VALUE_TYPE_QTCORE_QPOINTF] "contains" [PValue QPointF] RBool [On QGraphicsSimpleTextItem];
    Sig [TYPE_QTWIDGETS_QSIZEPOLICY] "controlType" [] (RMeta QSizePolicy_ControlType) [On QSizePolicy];
    Sig [TYPE_QTWIDGETS_QSIZEPOLICY] "controlTypes" [] (RMeta QSizePolicy_ControlTypes) [On QLayoutItem];
    Sig [TYPE_QTWIDGETS_QWIDGET] "createEditor" [PInt; PObject QWidget false] RObject [On
        QItemEditorFactory];
    Sig [] "data" [PInt] RVariant [On QListWidgetItem];
    Sig [] "delta" [] RDouble [On QGraphicsSceneWheelEvent]
  ].

Definition value_methods_qtwidgets_3_s10 : list signature_row :=
  [
    Sig [ENUM_QT_ORIENTATIONS] "expandingDirections" [] (RMeta Qt_Orientations) [On QSizePolicy];
    Sig [VALUE_TYPE_QTGUI_QFONT] "font" [] (RValue QFont) [On QGraphicsSimpleTextItem; On QListWidgetItem];
    Sig [VALUE_TYPE_QTGUI_QBRUSH] "foreground" [] (RValue QBrush) [On QListWidgetItem];
    Sig [] "hasHeightForWidth" [] RBool [On QLayoutItem; On QSizePolicy];
    Sig [] "hasWidthForHeight" [] RBool [On QSizePolicy];
    Sig [] "heightForWidth" [PInt] RDouble [On QLayoutItem];
    Sig [TYPE_QTWIDGETS_QSIZEPOLICY] "horizontalPolicy" [] (RMeta QSizePolicy_Policy) [On QSizePolicy];
    Sig [] "horizontalStretch" [] RDouble [On QSizePolicy];
    Sig [VALUE_TYPE_QTGUI_QICON] "icon" [] (RValue QIcon) [On QListWidgetItem];
    Sig [] "invalidate" [] RVoid [On QLayoutItem]
  ].

Definition value_methods_qtwidgets_3_s20 : list signature_row :=
  [
    Sig [] "isHidden" [] RBool [On QListWidgetItem];
    Sig [] "isInverted" [] RBool [On QGraphicsSceneWheelEvent];
    Sig [] "isSelected" [] RBool [On QListWidgetItem];
    Sig [TYPE_QTWIDGETS_QLAYOUT] "layout" [] RObject [On QLayoutItem];
    Sig [TYPE_QTWIDGETS_QLISTWIDGET] "listWidget" [] RObject [On QListWidgetItem];
    Sig [] "minimumHeightForWidth" [PInt] RDouble [On QLayoutItem];
    Sig [VALUE_TYPE_QTCORE_QSIZEF] "newSize" [] (RValue QSizeF) [On QGraphicsSceneResizeEvent];
    Sig [VALUE_TYPE_QTCORE_QSIZEF] "oldSize" [] (RValue QSizeF) [On QGraphicsSceneResizeEvent];
    Sig [VALUE_TYPE_QTGUI_QPAINTERPATH] "opaqueArea" [] (RValue QPainterPath) [On QGraphicsSimpleTextItem];
    Sig [ENUM_QT_ORIENTATION] "orientation" [] (RMeta Qt_Orientation) [On QGraphicsSceneWheelEvent];
    Sig [ENUM_QT_SCROLLPHASE] "phase" [] (RMeta Qt_ScrollPhase) [On QGraphicsSceneWheelEvent]
  ].

Definition value_methods_qtwidgets_3_s31 : list signature_row :=
  [
    Sig [VALUE_TYPE_QTCORE_QPOINT] "pixelDelta" [] (RValue QPoint) [On QGraphicsSceneWheelEvent];
    Sig [VALUE_TYPE_QTCORE_QPOINTF] "pos" [] (RValue QPointF) [On QGraphicsSceneWheelEvent];
    Sig [VALUE_TYPE_QTCORE_QDATASTREAM] "read" [PValue QDataStream] RVoid [On QListWidgetItem];
    Sig [] "retainSizeWhenHidden" [] RBool [On QSizePolicy];
    Sig [VALUE_TYPE_QTCORE_QPOINTF] "scenePos" [] (RValue QPointF) [On QGraphicsSceneWheelEvent];
    Sig [VALUE_TYPE_QTCORE_QPOINT] "screenPos" [] (RValue QPoint) [On QGraphicsSceneWheelEvent];
    Sig [TYPE_QTWIDGETS_QSCROLLERPROPERTIES] "scrollMetric" [PValue QScrollerProperties_ScrollMetric]
        RVariant [On QScrollerProperties];
    Sig [VALUE_TYPE_QTGUI_QBRUSH] "setBackground" [PValue QBrush] RVoid [On QListWidgetItem];
    Sig [ENUM_QT_CHECKSTATE] "setCheckState" [PValue Qt_CheckState] RVoid [On QListWidgetItem]
  ].

Definition value_methods_qtwidgets_3_s40 : list signature_row :=
  [
    Sig [TYPE_QTWIDGETS_QSIZEPOLICY] "setControlType" [PValue QSizePolicy_ControlType] RVoid [On
        QSizePolicy];
    Sig [] "setData" [PInt; PVariant] RVoid [On QListWidgetItem];
    Sig [VALUE_TYPE_QTGUI_QFONT] "setFont" [PValue QFont] RVoid [On QGraphicsSimpleTextItem; On
        QListWidgetItem];
    Sig [VALUE_TYPE_QTGUI_QBRUSH] "setForeground" [PValue QBrush] RVoid [On QListWidgetItem];
    Sig [] "setHeightForWidth" [PBool] RVoid [On QSizePolicy];
    Sig [] "setHidden" [PBool] RVoid [On QListWidgetItem];
    Sig [TYPE_QTWIDGETS_QSIZEPOLICY] "setHorizontalPolicy" [PValue QSizePolicy_Policy] RVoid [On
        QSizePolicy];
    Sig [] "setHorizontalStretch" [PInt] RVoid [On QSizePolicy];
    Sig [VALUE_TYPE_QTGUI_QICON] "setIcon" [PValue QIcon] RVoid [On QListWidgetItem]
  ].

Definition value_methods_qtwidgets_3_s49 : list signature_row :=
  [
    Sig [] "setRetainSizeWhenHidden" [PBool] RVoid [On QSizePolicy];
    Sig [TYPE_QTWIDGETS_QSCROLLERPROPERTIES] "setScrollMetric" [PValue QScrollerProperties_ScrollMetric;
        PVariant] RVoid [On QScrollerProperties];
    Sig [] "setSelected" [PBool] RVoid [On QListWidgetItem];
    Sig [VALUE_TYPE_QTCORE_QSIZE] "setSizeHint" [PValue QSize] RVoid [On QListWidgetItem];
    Sig [] "setStatusTip" [PString true] RVoid [On QListWidgetItem];
    Sig [] "setText" [PString true] RVoid [On QGraphicsSimpleTextItem; On QListWidgetItem];
    Sig [] "setTextAlignment" [PInt] RVoid [On QListWidgetItem];
    Sig [] "setToolTip" [PString true] RVoid [On QListWidgetItem];
    Sig [TYPE_QTWIDGETS_QSIZEPOLICY] "setVerticalPolicy" [PValue QSizePolicy_Policy] RVoid [On QSizePolicy]
  ].

Definition value_methods_qtwidgets_3_s58 : list signature_row :=
  [
    Sig [] "setVerticalStretch" [PInt] RVoid [On QSizePolicy];
    Sig [] "setWhatsThis" [PString true] RVoid [On QListWidgetItem];
    Sig [] "setWidthForHeight" [PBool] RVoid [On QSizePolicy];
    Sig [VALUE_TYPE_QTGUI_QPAINTERPATH] "shape" [] (RValue QPainterPath) [On QGraphicsSimpleTextItem];
    Sig [VALUE_TYPE_QTCORE_QSIZE] "sizeHint" [] (RValue QSize) [On QListWidgetItem];
    Sig [] "statusTip" [] RString [On QListWidgetItem];
    Sig [] "text" [] RString [On QGraphicsSimpleTextItem; On QListWidgetItem];
    Sig [] "textAlignment" [] RDouble [On QListWidgetItem];
    Sig [] "toolTip" [] RString [On QListWidgetItem];
    Sig [] "transpose" [] RVoid [On QSizePolicy]
  ].

Definition value_methods_qtwidgets_3_s68 : list signature_row :=
  [
    Sig [VALUE_TYPE_QTWIDGETS_QSIZEPOLICY] "transposed" [] (RValue QSizePolicy) [On QSizePolicy];
    Sig [] "type" [] RDouble [On QGraphicsSimpleTextItem; On QListWidgetItem];
    Sig [VALUE_TYPE_QTCORE_QBYTEARRAY] "valuePropertyName" [PInt] (RValue QByteArray) [On
        QItemEditorFactory];
    Sig [TYPE_QTWIDGETS_QSIZEPOLICY] "verticalPolicy" [] (RMeta QSizePolicy_Policy) [On QSizePolicy];
    Sig [] "verticalStretch" [] RDouble [On QSizePolicy];
    Sig [] "whatsThis" [] RString [On QListWidgetItem];
    Sig [TYPE_QTWIDGETS_QWIDGET] "widget" [] RObject [On QLayoutItem];
    Sig [VALUE_TYPE_QTCORE_QDATASTREAM] "write" [PValue QDataStream] RVoid [On QListWidgetItem]
  ].

Definition value_methods_qtwidgets_3_types : list string :=
  [
    QGraphicsSceneResizeEvent;
    QGraphicsSceneWheelEvent;
    QGraphicsSimpleTextItem;
    QItemEditorFactory;
    QLayoutItem;
    QListWidgetItem;
    QScrollerProperties;
    QSizePolicy
  ].

Definition value_methods_qtwidgets_3 : method_shard :=
  MethodShard QtWidgets "KRY_QT6_NATIVE_METHODS_QTWIDGETS_"
    (value_methods_qtwidgets_3_i0)
    (value_methods_qtwidgets_3_s0 ++ value_methods_qtwidgets_3_s10 ++ value_methods_qtwidgets_3_s20 ++
        value_methods_qtwidgets_3_s31 ++ value_methods_qtwidgets_3_s40 ++ value_methods_qtwidgets_3_s49 ++
        value_methods_qtwidgets_3_s58 ++ value_methods_qtwidgets_3_s68)
    value_methods_qtwidgets_3_types.

Definition value_methods_qtwidgets_4_i0 : list include :=
  [
    ClassInclude QtWidgets QSpacerItem QSpacerItem;
    ClassInclude QtWidgets QStyleOption QStyleOption;
    ClassInclude QtWidgets QStylePainter QStylePainter;
    ClassInclude QtWidgets QTableWidgetItem QTableWidgetItem;
    ClassInclude QtWidgets QTableWidgetSelectionRange QTableWidgetSelectionRange;
    ClassInclude QtWidgets QTreeWidgetItem QTreeWidgetItem;
    ClassInclude QtWidgets QWidgetItem QWidgetItem;
    TypeInclude QtWidgets QStyle TYPE_QTWIDGETS_QSTYLE;
    TypeInclude QtWidgets QTableWidget TYPE_QTWIDGETS_QTABLEWIDGET;
    TypeInclude QtWidgets QTreeWidget TYPE_QTWIDGETS_QTREEWIDGET;
    TypeInclude QtWidgets QWidget TYPE_QTWIDGETS_QWIDGET;
    EnumDefine ENUM_QT_CHECKSTATE;
    EnumDefine ENUM_QT_ORIENTATIONS;
    EnumDefine ENUM_QT_SORTORDER;
    TypeInclude QtGui QPalette TYPE_QTGUI_QPALETTE;
    TypeInclude QtWidgets QSizePolicy TYPE_QTWIDGETS_QSIZEPOLICY;
    TypeInclude QtWidgets QStyle TYPE_QTWIDGETS_QSTYLE;
    TypeInclude QtWidgets QTreeWidgetItem TYPE_QTWIDGETS_QTREEWIDGETITEM;
    TypeInclude QtCore QDataStream VALUE_TYPE_QTCORE_QDATASTREAM;
    TypeInclude QtCore QRect VALUE_TYPE_QTCORE_QRECT;
    TypeInclude QtCore QSize VALUE_TYPE_QTCORE_QSIZE;
    TypeInclude QtGui QBrush VALUE_TYPE_QTGUI_QBRUSH;
    TypeInclude QtGui QFont VALUE_TYPE_QTGUI_QFONT;
    TypeInclude QtGui QIcon VALUE_TYPE_QTGUI_QICON;
    TypeInclude QtGui QPalette VALUE_TYPE_QTGUI_QPALETTE;
    TypeInclude QtGui QPixmap VALUE_TYPE_QTGUI_QPIXMAP;
    TypeInclude QtWidgets QSizePolicy VALUE_TYPE_QTWIDGETS_QSIZEPOLICY;
    TypeInclude QtWidgets QStyleOption VALUE_TYPE_QTWIDGETS_QSTYLEOPTION;
    TypeInclude QtWidgets QStyleOptionComplex VALUE_TYPE_QTWIDGETS_QSTYLEOPTIONCOMPLEX
  ].

Definition value_methods_qtwidgets_4_s0 : list signature_row :=
  [
    Sig [VALUE_TYPE_QTGUI_QBRUSH] "background" [] (RValue QBrush) [On QTableWidgetItem];
    Sig [VALUE_TYPE_QTGUI_QBRUSH] "background" [PInt] (RValue QBrush) [On QTreeWidgetItem];
    Sig [TYPE_QTWIDGETS_QWIDGET] "begin" [PObject QWidget false] RBool [On QStylePainter];
    Sig [] "bottomRow" [] RDouble [On QTableWidgetSelectionRange];
    Sig [TYPE_QTWIDGETS_QSIZEPOLICY] "changeSize" [PInt; PInt; PValue QSizePolicy_Policy; PValue
        QSizePolicy_Policy] RVoid [On QSpacerItem];
    Sig [ENUM_QT_CHECKSTATE] "checkState" [] (RMeta Qt_CheckState) [On QTableWidgetItem];
    Sig [ENUM_QT_CHECKSTATE] "checkState" [PInt] (RMeta Qt_CheckState) [On QTreeWidgetItem];
    Sig [] "childCount" [] RDouble [On QTreeWidgetItem];
    Sig [TYPE_QTWIDGETS_QTREEWIDGETITEM] "childIndicatorPolicy" [] (RMeta
        QTreeWidgetItem_ChildIndicatorPolicy) [On QTreeWidgetItem]
  ].

Definition value_methods_qtwidgets_4_s9 : list signature_row :=
  [
    Sig [] "column" [] RDouble [On QTableWidgetItem];
    Sig [] "columnCount" [] RDouble [On QTableWidgetSelectionRange; On QTreeWidgetItem];
    Sig [TYPE_QTWIDGETS_QSIZEPOLICY] "controlTypes" [] (RMeta QSizePolicy_ControlTypes) [On QWidgetItem];
    Sig [] "data" [PInt] RVariant [On QTableWidgetItem];
    Sig [] "data" [PInt; PInt] RVariant [On QTreeWidgetItem];
    Sig [TYPE_QTWIDGETS_QSTYLE; VALUE_TYPE_QTWIDGETS_QSTYLEOPTIONCOMPLEX] "drawComplexControl" [PValue
        QStyle_ComplexControl; PValue QStyleOptionComplex] RVoid [On QStylePainter];
    Sig [TYPE_QTWIDGETS_QSTYLE; VALUE_TYPE_QTWIDGETS_QSTYLEOPTION] "drawControl" [PValue
        QStyle_ControlElement; PValue QStyleOption] RVoid [On QStylePainter];
    Sig [VALUE_TYPE_QTCORE_QRECT; VALUE_TYPE_QTGUI_QPIXMAP] "drawItemPixmap" [PValue QRect; PInt; PValue
        QPixmap] RVoid [On QStylePainter]
  ].

Definition value_methods_qtwidgets_4_s17 : list signature_row :=
  [
    Sig [TYPE_QTGUI_QPALETTE; VALUE_TYPE_QTCORE_QRECT; VALUE_TYPE_QTGUI_QPALETTE] "drawItemText" [PValue
        QRect; PInt; PValue QPalette; PBool; PString true; PValue QPalette_ColorRole] RVoid [On
        QStylePainter];
    Sig [TYPE_QTWIDGETS_QSTYLE; VALUE_TYPE_QTWIDGETS_QSTYLEOPTION] "drawPrimitive" [PValue
        QStyle_PrimitiveElement; PValue QStyleOption] RVoid [On QStylePainter];
    Sig [ENUM_QT_ORIENTATIONS] "expandingDirections" [] (RMeta Qt_Orientations) [On QSpacerItem; On
        QWidgetItem];
    Sig [VALUE_TYPE_QTGUI_QFONT] "font" [] (RValue QFont) [On QTableWidgetItem];
    Sig [VALUE_TYPE_QTGUI_QFONT] "font" [PInt] (RValue QFont) [On QTreeWidgetItem];
    Sig [VALUE_TYPE_QTGUI_QBRUSH] "foreground" [] (RValue QBrush) [On QTableWidgetItem];
    Sig [VALUE_TYPE_QTGUI_QBRUSH] "foreground" [PInt] (RValue QBrush) [On QTreeWidgetItem];
    Sig [VALUE_TYPE_QTCORE_QRECT] "geometry" [] (RValue QRect) [On QSpacerItem; On QWidgetItem]
  ].

Definition value_methods_qtwidgets_4_s25 : list signature_row :=
  [
    Sig [] "hasHeightForWidth" [] RBool [On QWidgetItem];
    Sig [] "heightForWidth" [PInt] RDouble [On QWidgetItem];
    Sig [VALUE_TYPE_QTGUI_QICON] "icon" [] (RValue QIcon) [On QTableWidgetItem];
    Sig [VALUE_TYPE_QTGUI_QICON] "icon" [PInt] (RValue QIcon) [On QTreeWidgetItem];
    Sig [TYPE_QTWIDGETS_QWIDGET] "initFrom" [PObject QWidget false] RVoid [On QStyleOption];
    Sig [] "isDisabled" [] RBool [On QTreeWidgetItem];
    Sig [] "isEmpty" [] RBool [On QSpacerItem; On QWidgetItem];
    Sig [] "isExpanded" [] RBool [On QTreeWidgetItem];
    Sig [] "isFirstColumnSpanned" [] RBool [On QTreeWidgetItem];
    Sig [] "isHidden" [] RBool [On QTreeWidgetItem]
  ].

Definition value_methods_qtwidgets_4_s35 : list signature_row :=
  [
    Sig [] "isSelected" [] RBool [On QTableWidgetItem; On QTreeWidgetItem];
    Sig [] "leftColumn" [] RDouble [On QTableWidgetSelectionRange];
    Sig [VALUE_TYPE_QTCORE_QSIZE] "maximumSize" [] (RValue QSize) [On QSpacerItem; On QWidgetItem];
    Sig [] "minimumHeightForWidth" [PInt] RDouble [On QWidgetItem];
    Sig [VALUE_TYPE_QTCORE_QSIZE] "minimumSize" [] (RValue QSize) [On QSpacerItem; On QWidgetItem];
    Sig [VALUE_TYPE_QTCORE_QDATASTREAM] "read" [PValue QDataStream] RVoid [On QTableWidgetItem; On
        QTreeWidgetItem];
    Sig [] "rightColumn" [] RDouble [On QTableWidgetSelectionRange];
    Sig [] "row" [] RDouble [On QTableWidgetItem];
    Sig [] "rowCount" [] RDouble [On QTableWidgetSelectionRange]
  ].

Definition value_methods_qtwidgets_4_s44 : list signature_row :=
  [
    Sig [VALUE_TYPE_QTGUI_QBRUSH] "setBackground" [PValue QBrush] RVoid [On QTableWidgetItem];
    Sig [VALUE_TYPE_QTGUI_QBRUSH] "setBackground" [PInt; PValue QBrush] RVoid [On QTreeWidgetItem];
    Sig [ENUM_QT_CHECKSTATE] "setCheckState" [PValue Qt_CheckState] RVoid [On QTableWidgetItem];
    Sig [ENUM_QT_CHECKSTATE] "setCheckState" [PInt; PValue Qt_CheckState] RVoid [On QTreeWidgetItem];
    Sig [TYPE_QTWIDGETS_QTREEWIDGETITEM] "setChildIndicatorPolicy" [PValue
        QTreeWidgetItem_ChildIndicatorPolicy] RVoid [On QTreeWidgetItem];
    Sig [] "setData" [PInt; PVariant] RVoid [On QTableWidgetItem];
    Sig [] "setData" [PInt; PInt; PVariant] RVoid [On QTreeWidgetItem];
    Sig [] "setDisabled" [PBool] RVoid [On QTreeWidgetItem];
    Sig [] "setExpanded" [PBool] RVoid [On QTreeWidgetItem]
  ].

Definition value_methods_qtwidgets_4_s53 : list signature_row :=
  [
    Sig [] "setFirstColumnSpanned" [PBool] RVoid [On QTreeWidgetItem];
    Sig [VALUE_TYPE_QTGUI_QFONT] "setFont" [PValue QFont] RVoid [On QTableWidgetItem];
    Sig [VALUE_TYPE_QTGUI_QFONT] "setFont" [PInt; PValue QFont] RVoid [On QTreeWidgetItem];
    Sig [VALUE_TYPE_QTGUI_QBRUSH] "setForeground" [PValue QBrush] RVoid [On QTableWidgetItem];
    Sig [VALUE_TYPE_QTGUI_QBRUSH] "setForeground" [PInt; PValue QBrush] RVoid [On QTreeWidgetItem];
    Sig [VALUE_TYPE_QTCORE_QRECT] "setGeometry" [PValue QRect] RVoid [On QSpacerItem; On QWidgetItem];
    Sig [] "setHidden" [PBool] RVoid [On QTreeWidgetItem];
    Sig [VALUE_TYPE_QTGUI_QICON] "setIcon" [PValue QIcon] RVoid [On QTableWidgetItem]
  ].

Definition value_methods_qtwidgets_4_s61 : list signature_row :=
  [
    Sig [VALUE_TYPE_QTGUI_QICON] "setIcon" [PInt; PValue QIcon] RVoid [On QTreeWidgetItem];
    Sig [] "setSelected" [PBool] RVoid [On QTableWidgetItem; On QTreeWidgetItem];
    Sig [VALUE_TYPE_QTCORE_QSIZE] "setSizeHint" [PValue QSize] RVoid [On QTableWidgetItem];
    Sig [VALUE_TYPE_QTCORE_QSIZE] "setSizeHint" [PInt; PValue QSize] RVoid [On QTreeWidgetItem];
    Sig [] "setStatusTip" [PString true] RVoid [On QTableWidgetItem];
    Sig [] "setStatusTip" [PInt; PString true] RVoid [On QTreeWidgetItem];
    Sig [] "setText" [PString true] RVoid [On QTableWidgetItem];
    Sig [] "setText" [PInt; PString true] RVoid [On QTreeWidgetItem];
    Sig [] "setTextAlignment" [PInt] RVoid [On QTableWidgetItem]
  ].

Definition value_methods_qtwidgets_4_s70 : list signature_row :=
  [
    Sig [] "setTextAlignment" [PInt; PInt] RVoid [On QTreeWidgetItem];
    Sig [] "setToolTip" [PString true] RVoid [On QTableWidgetItem];
    Sig [] "setToolTip" [PInt; PString true] RVoid [On QTreeWidgetItem];
    Sig [] "setWhatsThis" [PString true] RVoid [On QTableWidgetItem];
    Sig [] "setWhatsThis" [PInt; PString true] RVoid [On QTreeWidgetItem];
    Sig [VALUE_TYPE_QTCORE_QSIZE] "sizeHint" [] (RValue QSize) [On QSpacerItem; On QTableWidgetItem; On
        QWidgetItem];
    Sig [VALUE_TYPE_QTCORE_QSIZE] "sizeHint" [PInt] (RValue QSize) [On QTreeWidgetItem];
    Sig [VALUE_TYPE_QTWIDGETS_QSIZEPOLICY] "sizePolicy" [] (RValue QSizePolicy) [On QSpacerItem]
  ].

Definition value_methods_qtwidgets_4_s78 : list signature_row :=
  [
    Sig [ENUM_QT_SORTORDER] "sortChildren" [PInt; PValue Qt_SortOrder] RVoid [On QTreeWidgetItem];
    Sig [] "statusTip" [] RString [On QTableWidgetItem];
    Sig [] "statusTip" [PInt] RString [On QTreeWidgetItem];
    Sig [TYPE_QTWIDGETS_QSTYLE] "style" [] RObject [On QStylePainter];
    Sig [TYPE_QTWIDGETS_QTABLEWIDGET] "tableWidget" [] RObject [On QTableWidgetItem];
    Sig [] "text" [] RString [On QTableWidgetItem];
    Sig [] "text" [PInt] RString [On QTreeWidgetItem];
    Sig [] "textAlignment" [] RDouble [On QTableWidgetItem];
    Sig [] "textAlignment" [PInt] RDouble [On QTreeWidgetItem];
    Sig [] "toolTip" [] RString [On QTableWidgetItem]
  ].

Definition value_methods_qtwidgets_4_s88 : list signature_row :=
  [
    Sig [] "toolTip" [PInt] RString [On QTreeWidgetItem];
    Sig [] "topRow" [] RDouble [On QTableWidgetSelectionRange];
    Sig [TYPE_QTWIDGETS_QTREEWIDGET] "treeWidget" [] RObject [On QTreeWidgetItem];
    Sig [] "type" [] RDouble [On QTableWidgetItem; On QTreeWidgetItem];
    Sig [] "whatsThis" [] RString [On QTableWidgetItem];
    Sig [] "whatsThis" [PInt] RString [On QTreeWidgetItem];
    Sig [TYPE_QTWIDGETS_QWIDGET] "widget" [] RObject [On QWidgetItem];
    Sig [VALUE_TYPE_QTCORE_QDATASTREAM] "write" [PValue QDataStream] RVoid [On QTableWidgetItem; On
        QTreeWidgetItem]
  ].

Definition value_methods_qtwidgets_4_types : list string :=
  [
    QSpacerItem;
    QStyleOption;
    QStylePainter;
    QTableWidgetItem;
    QTableWidgetSelectionRange;
    QTreeWidgetItem;
    QWidgetItem
  ].

Definition value_methods_qtwidgets_4 : method_shard :=
  MethodShard QtWidgets "KRY_QT6_NATIVE_METHODS_QTWIDGETS_"
    (value_methods_qtwidgets_4_i0)
    (value_methods_qtwidgets_4_s0 ++ value_methods_qtwidgets_4_s9 ++ value_methods_qtwidgets_4_s17 ++
        value_methods_qtwidgets_4_s25 ++ value_methods_qtwidgets_4_s35 ++ value_methods_qtwidgets_4_s44 ++
        value_methods_qtwidgets_4_s53 ++ value_methods_qtwidgets_4_s61 ++ value_methods_qtwidgets_4_s70 ++
        value_methods_qtwidgets_4_s78 ++ value_methods_qtwidgets_4_s88)
    value_methods_qtwidgets_4_types.
