(* ===== verification/ConstructorTables.v ===== *)
(** Rows of the shards of generated_constructors: qaxcontainer_0, qt3danimation_0,
    qt3dcore_0, qt3dextras_0, qt3dextras_1, qt3dinput_0, qt3dlogic_0, qt3drender_0,
    qt3drender_1, qt3drender_2, qt3drender_3, qt3drender_4, qtbluetooth_0, qtcharts_0,
    qtcharts_1, qtcore_0, qtcore_1, qtdatavisualization_0, qtdbus_0, qtdesigner_0, qtgraphs_0,
    qtgraphs_1, qtgraphswidgets_0, qtgui_0, qtgui_1, qthelp_0, qtmultimedia_0,
    qtmultimediawidgets_0, qtnetwork_0, qtnetworkauth_0, qtnfc_0, qtopengl_0, qtopenglwidgets_0,
    qtpdf_0, qtpdfwidgets_0, qtpositioning_0, qtprintsupport_0, qtqml_0, qtquick3d_0, qtquick_0,
    qtquickwidgets_0, qtremoteobjects_0, qtsensors_0, qtserialport_0, qtspatialaudio_0, qtsql_0,
    qtstatemachine_0, qtsvg_0, qtsvgwidgets_0, qttest_0, qttexttospeech_0, qtwebchannel_0,
    qtwebenginecore_0, qtwebenginequick_0, qtwebenginewidgets_0, qtwebsockets_0, qtwidgets_0,
    qtwidgets_1, qtwidgets_2, qtwidgets_3, qtwidgets_4. *)
From S2P Require Import Names.

(** * Definitions *)

Definition constructors_qaxcontainer_0_i0 : list include :=
  [
    ClassInclude QtAxContainer QAxObject QAxObject;
    ClassInclude QtAxContainer QAxWidget QAxWidget;
    TypeInclude QtCore QObject TYPE_QTCORE_QOBJECT;
    TypeInclude QtWidgets QWidget TYPE_QTWIDGETS_QWIDGET;
    EnumDefine ENUM_QT_WINDOWFLAGS
  ].

Definition constructors_qaxcontainer_0_r0 : list constructor_row :=
  [
    Ctor QAxObject 0 [Cand [TYPE_QTCORE_QOBJECT] [] None];
    Ctor QAxObject 1 [Cand [TYPE_QTCORE_QOBJECT] [PString false] None];
    Ctor QAxWidget 0 [Cand [ENUM_QT_WINDOWFLAGS; TYPE_QTWIDGETS_QWIDGET] [] None];
    Ctor QAxWidget 1 [Cand [ENUM_QT_WINDOWFLAGS; TYPE_QTWIDGETS_QWIDGET] [PValue Qt_WindowFlags] (Some
        (0%nat, QWidget)); Cand [ENUM_QT_WINDOWFLAGS; TYPE_QTWIDGETS_QWIDGET] [PString false] None];
    Ctor QAxWidget 2 [Cand [ENUM_QT_WINDOWFLAGS; TYPE_QTWIDGETS_QWIDGET] [PString false; PValue
        Qt_WindowFlags] (Some (1%nat, QWidget))]
  ].

Definition constructors_qaxcontainer_0_c0 : list class_row :=
  [
    Cls [TYPE_QTCORE_QOBJECT] QAxObject [[QObject_ptr]; [QString; QObject_ptr]];
    Cls [ENUM_QT_WINDOWFLAGS; TYPE_QTWIDGETS_QWIDGET] QAxWidget [[QWidget_ptr; Qt_WindowFlags]; [QString;
        QWidget_ptr; Qt_WindowFlags]]
  ].

Definition constructors_qaxcontainer_0 : constructor_shard :=
  ConstructorShard QAxContainer "KRY_QT6_NATIVE_CONSTRUCTORS_QAXCONTAINER_"
    (constructors_qaxcontainer_0_i0)
    (constructors_qaxcontainer_0_r0)
    (constructors_qaxcontainer_0_c0).

Definition constructors_qt3danimation_0_i0 : list include :=
  [
    ClassInclude Qt3DAnimation QAdditiveClipBlend QAdditiveClipBlend;
    ClassInclude Qt3DAnimation QAnimationAspect QAnimationAspect;
    ClassInclude Qt3DAnimation QAnimationClip QAnimationClip;
    ClassInclude Qt3DAnimation QAnimationClipLoader QAnimationClipLoader;
    ClassInclude Qt3DAnimation QAnimationController QAnimationController;
    ClassInclude Qt3DAnimation QAnimationGroup QAnimationGroup;
    ClassInclude Qt3DAnimation QBlendedClipAnimator QBlendedClipAnimator;
    ClassInclude Qt3DAnimation QChannelMapper QChannelMapper;
    ClassInclude Qt3DAnimation QChannelMapping QChannelMapping;
    ClassInclude Qt3DAnimation QClipAnimator QClipAnimator;
    ClassInclude Qt3DAnimation QClipBlendValue QClipBlendValue;
    ClassInclude Qt3DAnimation QClock QClock;
    ClassInclude Qt3DAnimation QKeyframeAnimation QKeyframeAnimation;
    ClassInclude Qt3DAnimation QLerpClipBlend QLerpClipBlend;
    ClassInclude Qt3DAnimation QMorphTarget QMorphTarget;
    ClassInclude Qt3DAnimation QMorphingAnimation QMorphingAnimation;
    ClassInclude Qt3DAnimation QSkeletonMapping QSkeletonMapping;
    ClassInclude Qt3DAnimation QVertexBlendAnimation QVertexBlendAnimation;
    TypeInclude Qt3DAnimation QAbstractAnimationClip TYPE_QT3DANIMATION_QABSTRACTANIMATIONCLIP;
    TypeInclude Qt3DCore QNode TYPE_QT3DCORE_QNODE;
    TypeInclude QtCore QObject TYPE_QTCORE_QOBJECT;
    TypeInclude QtCore QUrl VALUE_TYPE_QTCORE_QURL
  ].

Definition constructors_qt3danimation_0_r0 : list constructor_row :=
  [
    Ctor QAdditiveClipBlend 0 [Cand [TYPE_QT3DCORE_QNODE] [] None];
    Ctor QAnimationAspect 0 [Cand [TYPE_QTCORE_QOBJECT] [] None];
    Ctor QAnimationClip 0 [Cand [TYPE_QT3DCORE_QNODE] [] None];
    Ctor QAnimationClipLoader 0 [Cand [TYPE_QT3DCORE_QNODE] [] None];
    Ctor QAnimationClipLoader 1 [Cand [TYPE_QT3DCORE_QNODE; VALUE_TYPE_QTCORE_QURL] [PValue QUrl] None];
    Ctor QAnimationController 0 [Cand [TYPE_QTCORE_QOBJECT] [] None];
    Ctor QAnimationGroup 0 [Cand [TYPE_QTCORE_QOBJECT] [] None]
  ].

Definition constructors_qt3danimation_0_r1 : list constructor_row :=
  [
    Ctor QBlendedClipAnimator 0 [Cand [TYPE_QT3DCORE_QNODE] [] None];
    Ctor QChannelMapper 0 [Cand [TYPE_QT3DCORE_QNODE] [] None];
    Ctor QChannelMapping 0 [Cand [TYPE_QT3DCORE_QNODE] [] None];
    Ctor QClipAnimator 0 [Cand [TYPE_QT3DCORE_QNODE] [] None];
    Ctor QClipBlendValue 0 [Cand [TYPE_QT3DCORE_QNODE] [] None];
    Ctor QClipBlendValue 1 [Cand [TYPE_QT3DANIMATION_QABSTRACTANIMATIONCLIP; TYPE_QT3DCORE_QNODE] [PObject
        Qt3DAnimation_QAbstractAnimationClip false] None];
    Ctor QClock 0 [Cand [TYPE_QT3DCORE_QNODE] [] None]
  ].

Definition constructors_qt3danimation_0_r2 : list constructor_row :=
  [
    Ctor QKeyframeAnimation 0 [Cand [TYPE_QTCORE_QOBJECT] [] None];
    Ctor QLerpClipBlend 0 [Cand [TYPE_QT3DCORE_QNODE] [] None];
    Ctor QMorphTarget 0 [Cand [TYPE_QTCORE_QOBJECT] [] None];
    Ctor QMorphingAnimation 0 [Cand [TYPE_QTCORE_QOBJECT] [] None];
    Ctor QSkeletonMapping 0 [Cand [TYPE_QT3DCORE_QNODE] [] None];
    Ctor QVertexBlendAnimation 0 [Cand [TYPE_QTCORE_QOBJECT] [] None]
  ].

Definition constructors_qt3danimation_0_c0 : list class_row :=
  [
    Cls [TYPE_QT3DCORE_QNODE] QAdditiveClipBlend [[Qt3DCore_QNode_ptr]];
    Cls [TYPE_QTCORE_QOBJECT] QAnimationAspect [[QObject_ptr]];
    Cls [TYPE_QT3DCORE_QNODE] QAnimationClip [[Qt3DCore_QNode_ptr]];
    Cls [TYPE_QT3DCORE_QNODE; VALUE_TYPE_QTCORE_QURL] QAnimationClipLoader [[Qt3DCore_QNode_ptr]; [QUrl;
        Qt3DCore_QNode_ptr]];
    Cls [TYPE_QTCORE_QOBJECT] QAnimationController [[QObject_ptr]];
    Cls [TYPE_QTCORE_QOBJECT] QAnimationGroup [[QObject_ptr]];
    Cls [TYPE_QT3DCORE_QNODE] QBlendedClipAnimator [[Qt3DCore_QNode_ptr]];
    Cls [TYPE_QT3DCORE_QNODE] QChannelMapper [[Qt3DCore_QNode_ptr]];
    Cls [TYPE_QT3DCORE_QNODE] QChannelMapping [[Qt3DCore_QNode_ptr]];
    Cls [TYPE_QT3DCORE_QNODE] QClipAnimator [[Qt3DCore_QNode_ptr]];
    Cls [TYPE_QT3DANIMATION_QABSTRACTANIMATIONCLIP; TYPE_QT3DCORE_QNODE] QClipBlendValue
        [[Qt3DCore_QNode_ptr]; [Qt3DAnimation_QAbstractAnimationClip_ptr; Qt3DCore_QNode_ptr]];
    Cls [TYPE_QT3DCORE_QNODE] QClock [[Qt3DCore_QNode_ptr]];
    Cls [TYPE_QTCORE_QOBJECT] QKeyframeAnimation [[QObject_ptr]];
    Cls [TYPE_QT3DCORE_QNODE] QLerpClipBlend [[Qt3DCore_QNode_ptr]];
    Cls [TYPE_QTCORE_QOBJECT] QMorphTarget [[QObject_ptr]];
    Cls [TYPE_QTCORE_QOBJECT] QMorphingAnimation [[QObject_ptr]];
    Cls [TYPE_QT3DCORE_QNODE] QSkeletonMapping [[Qt3DCore_QNode_ptr]];
    Cls [TYPE_QTCORE_QOBJECT] QVertexBlendAnimation [[QObject_ptr]]
  ].

Definition constructors_qt3danimation_0 : constructor_shard :=
  ConstructorShard Qt3DAnimation "KRY_QT6_NATIVE_CONSTRUCTORS_QT3DANIMATION_"
    (constructors_qt3danimation_0_i0)
    (constructors_qt3danimation_0_r0 ++ constructors_qt3danimation_0_r1 ++ constructors_qt3danimation_0_r2)
    (constructors_qt3danimation_0_c0).

Definition constructors_qt3dcore_0_i0 : list include :=
  [
    ClassInclude Qt3DCore QAbstractAspect QAbstractAspect;
    ClassInclude Qt3DCore QArmature QArmature;
    ClassInclude Qt3DCore QAspectEngine QAspectEngine;
    ClassInclude Qt3DCore QAttribute QAttribute;
    ClassInclude Qt3DCore QBoundingVolume QBoundingVolume;
    ClassInclude Qt3DCore QBuffer QBuffer;
    ClassInclude Qt3DCore QComponent QComponent;
    ClassInclude Qt3DCore QCoreSettings QCoreSettings;
    ClassInclude Qt3DCore QEntity QEntity;
    ClassInclude Qt3DCore QGeometry QGeometry;
    ClassInclude Qt3DCore QGeometryView QGeometryView;
    ClassInclude Qt3DCore QJoint QJoint;
    ClassInclude Qt3DCore QNode QNode;
    ClassInclude Qt3DCore QSkeleton QSkeleton;
    ClassInclude Qt3DCore QSkeletonLoader QSkeletonLoader;
    ClassInclude Qt3DCore QTransform QTransform;
    TypeInclude Qt3DCore QBuffer TYPE_QT3DCORE_QBUFFER;
    TypeInclude Qt3DCore QNode TYPE_QT3DCORE_QNODE;
    TypeInclude QtCore QObject TYPE_QTCORE_QOBJECT;
    TypeInclude Qt3DCore QAttribute TYPE_QT3DCORE_QATTRIBUTE;
    TypeInclude QtCore QUrl VALUE_TYPE_QTCORE_QURL
  ].

Definition constructors_qt3dcore_0_r0 : list constructor_row :=
  [
    Ctor QAbstractAspect 0 [Cand [TYPE_QTCORE_QOBJECT] [] None];
    Ctor QArmature 0 [Cand [TYPE_QT3DCORE_QNODE] [] None];
    Ctor QAspectEngine 0 [Cand [TYPE_QTCORE_QOBJECT] [] None];
    Ctor QAttribute 0 [Cand [TYPE_QT3DCORE_QNODE] [] None];
    Ctor QAttribute 4 [Cand [TYPE_QT3DCORE_QATTRIBUTE; TYPE_QT3DCORE_QBUFFER; TYPE_QT3DCORE_QNODE] [PObject
        Qt3DCore_QBuffer false; PValue Qt3DCore_QAttribute_VertexBaseType; PUInt; PUInt] None]
  ].

Definition constructors_qt3dcore_0_r1 : list constructor_row :=
  [
    Ctor QAttribute 5 [Cand [TYPE_QT3DCORE_QATTRIBUTE; TYPE_QT3DCORE_QBUFFER; TYPE_QT3DCORE_QNODE] [PObject
        Qt3DCore_QBuffer false; PValue Qt3DCore_QAttribute_VertexBaseType; PUInt; PUInt; PUInt] None; Cand
        [TYPE_QT3DCORE_QATTRIBUTE; TYPE_QT3DCORE_QBUFFER; TYPE_QT3DCORE_QNODE] [PObject Qt3DCore_QBuffer
        false; PString false; PValue Qt3DCore_QAttribute_VertexBaseType; PUInt; PUInt] None];
    Ctor QAttribute 6 [Cand [TYPE_QT3DCORE_QATTRIBUTE; TYPE_QT3DCORE_QBUFFER; TYPE_QT3DCORE_QNODE] [PObject
        Qt3DCore_QBuffer false; PValue Qt3DCore_QAttribute_VertexBaseType; PUInt; PUInt; PUInt; PUInt]
        None; Cand [TYPE_QT3DCORE_QATTRIBUTE; TYPE_QT3DCORE_QBUFFER; TYPE_QT3DCORE_QNODE] [PObject
        Qt3DCore_QBuffer false; PString false; PValue Qt3DCore_QAttribute_VertexBaseType; PUInt; PUInt;
        PUInt] None];
    Ctor QAttribute 7 [Cand [TYPE_QT3DCORE_QATTRIBUTE; TYPE_QT3DCORE_QBUFFER; TYPE_QT3DCORE_QNODE] [PObject
        Qt3DCore_QBuffer false; PString false; PValue Qt3DCore_QAttribute_VertexBaseType; PUInt; PUInt;
        PUInt; PUInt] None]
  ].

Definition constructors_qt3dcore_0_r2 : list constructor_row :=
  [
    Ctor QBoundingVolume 0 [Cand [TYPE_QT3DCORE_QNODE] [] None];
    Ctor QBuffer 0 [Cand [TYPE_QT3DCORE_QNODE] [] None];
    Ctor QComponent 0 [Cand [TYPE_QT3DCORE_QNODE] [] None];
    Ctor QCoreSettings 0 [Cand [TYPE_QT3DCORE_QNODE] [] None];
    Ctor QEntity 0 [Cand [TYPE_QT3DCORE_QNODE] [] None];
    Ctor QGeometry 0 [Cand [TYPE_QT3DCORE_QNODE] [] None];
    Ctor QGeometryView 0 [Cand [TYPE_QT3DCORE_QNODE] [] None];
    Ctor QJoint 0 [Cand [TYPE_QT3DCORE_QNODE] [] None]
  ].

Definition constructors_qt3dcore_0_r3 : list constructor_row :=
  [
    Ctor QNode 0 [Cand [TYPE_QT3DCORE_QNODE] [] None];
    Ctor QSkeleton 0 [Cand [TYPE_QT3DCORE_QNODE] [] None];
    Ctor QSkeletonLoader 0 [Cand [TYPE_QT3DCORE_QNODE] [] None];
    Ctor QSkeletonLoader 1 [Cand [TYPE_QT3DCORE_QNODE; VALUE_TYPE_QTCORE_QURL] [PValue QUrl] None];
    Ctor QTransform 0 [Cand [TYPE_QT3DCORE_QNODE] [] None]
  ].

Definition constructors_qt3dcore_0_c0 : list class_row :=
  [
    Cls [TYPE_QTCORE_QOBJECT] QAbstractAspect [[QObject_ptr]];
    Cls [TYPE_QT3DCORE_QNODE] QArmature [[Qt3DCore_QNode_ptr]];
    Cls [TYPE_QTCORE_QOBJECT] QAspectEngine [[QObject_ptr]];
    Cls [TYPE_QT3DCORE_QATTRIBUTE; TYPE_QT3DCORE_QBUFFER; TYPE_QT3DCORE_QNODE] QAttribute
        [[Qt3DCore_QNode_ptr]; [Qt3DCore_QBuffer_ptr; Qt3DCore_QAttribute_VertexBaseType; cxx_unsigned_int;
        cxx_unsigned_int; cxx_unsigned_int; cxx_unsigned_int; Qt3DCore_QNode_ptr]; [Qt3DCore_QBuffer_ptr;
        QString; Qt3DCore_QAttribute_VertexBaseType; cxx_unsigned_int; cxx_unsigned_int; cxx_unsigned_int;
        cxx_unsigned_int; Qt3DCore_QNode_ptr]];
    Cls [TYPE_QT3DCORE_QNODE] QBoundingVolume [[Qt3DCore_QNode_ptr]];
    Cls [TYPE_QT3DCORE_QNODE] QBuffer [[Qt3DCore_QNode_ptr]];
    Cls [TYPE_QT3DCORE_QNODE] QComponent [[Qt3DCore_QNode_ptr]];
    Cls [TYPE_QT3DCORE_QNODE] QCoreSettings [[Qt3DCore_QNode_ptr]];
    Cls [TYPE_QT3DCORE_QNODE] QEntity [[Qt3DCore_QNode_ptr]];
    Cls [TYPE_QT3DCORE_QNODE] QGeometry [[Qt3DCore_QNode_ptr]];
    Cls [TYPE_QT3DCORE_QNODE] QGeometryView [[Qt3DCore_QNode_ptr]];
    Cls [TYPE_QT3DCORE_QNODE] QJoint [[Qt3DCore_QNode_ptr]];
    Cls [TYPE_QT3DCORE_QNODE] QNode [[Qt3DCore_QNode_ptr]];
    Cls [TYPE_QT3DCORE_QNODE] QSkeleton [[Qt3DCore_QNode_ptr]];
    Cls [TYPE_QT3DCORE_QNODE; VALUE_TYPE_QTCORE_QURL] QSkeletonLoader [[Qt3DCore_QNode_ptr]; [QUrl;
        Qt3DCore_QNode_ptr]];
    Cls [TYPE_QT3DCORE_QNODE] QTransform [[Qt3DCore_QNode_ptr]]
  ].

Definition constructors_qt3dcore_0 : constructor_shard :=
  ConstructorShard Qt3DCore "KRY_QT6_NATIVE_CONSTRUCTORS_QT3DCORE_"
    (constructors_qt3dcore_0_i0)
    (constructors_qt3dcore_0_r0 ++ constructors_qt3dcore_0_r1 ++ constructors_qt3dcore_0_r2 ++
        constructors_qt3dcore_0_r3)
    (constructors_qt3dcore_0_c0).

Definition constructors_qt3dextras_0_i0 : list include :=
  [
    ClassInclude Qt3DExtras QConeGeometry QConeGeometry;
    ClassInclude Qt3DExtras QConeGeometryView QConeGeometryView;
    ClassInclude Qt3DExtras QConeMesh QConeMesh;
    ClassInclude Qt3DExtras QCuboidGeometry QCuboidGeometry;
    ClassInclude Qt3DExtras QCuboidGeometryView QCuboidGeometryView;
    ClassInclude Qt3DExtras QCuboidMesh QCuboidMesh;
    ClassInclude Qt3DExtras QCylinderGeometry QCylinderGeometry;
    ClassInclude Qt3DExtras QCylinderGeometryView QCylinderGeometryView;
    ClassInclude Qt3DExtras QCylinderMesh QCylinderMesh;
    ClassInclude Qt3DExtras QDiffuseMapMaterial QDiffuseMapMaterial;
    ClassInclude Qt3DExtras QDiffuseSpecularMapMaterial QDiffuseSpecularMapMaterial;
    ClassInclude Qt3DExtras QDiffuseSpecularMaterial QDiffuseSpecularMaterial;
    ClassInclude Qt3DExtras QExtrudedTextGeometry QExtrudedTextGeometry;
    ClassInclude Qt3DExtras QExtrudedTextMesh QExtrudedTextMesh;
    ClassInclude Qt3DExtras QFirstPersonCameraController QFirstPersonCameraController;
    ClassInclude Qt3DExtras QForwardRenderer QForwardRenderer;
    ClassInclude Qt3DExtras QGoochMaterial QGoochMaterial;
    ClassInclude Qt3DExtras QMetalRoughMaterial QMetalRoughMaterial;
    ClassInclude Qt3DExtras QMorphPhongMaterial QMorphPhongMaterial;
    ClassInclude Qt3DExtras QNormalDiffuseMapAlphaMaterial QNormalDiffuseMapAlphaMaterial;
    ClassInclude Qt3DExtras QNormalDiffuseMapMaterial QNormalDiffuseMapMaterial;
    ClassInclude Qt3DExtras QNormalDiffuseSpecularMapMaterial QNormalDiffuseSpecularMapMaterial;
    ClassInclude Qt3DExtras QOrbitCameraController QOrbitCameraController;
    ClassInclude Qt3DExtras QPerVertexColorMaterial QPerVertexColorMaterial;
    TypeInclude Qt3DCore QNode TYPE_QT3DCORE_QNODE
  ].

Definition constructors_qt3dextras_0_r0 : list constructor_row :=
  [
    Ctor QConeGeometry 0 [Cand [TYPE_QT3DCORE_QNODE] [] None];
    Ctor QConeGeometryView 0 [Cand [TYPE_QT3DCORE_QNODE] [] None];
    Ctor QConeMesh 0 [Cand [TYPE_QT3DCORE_QNODE] [] None];
    Ctor QCuboidGeometry 0 [Cand [TYPE_QT3DCORE_QNODE] [] None];
    Ctor QCuboidGeometryView 0 [Cand [TYPE_QT3DCORE_QNODE] [] None];
    Ctor QCuboidMesh 0 [Cand [TYPE_QT3DCORE_QNODE] [] None];
    Ctor QCylinderGeometry 0 [Cand [TYPE_QT3DCORE_QNODE] [] None];
    Ctor QCylinderGeometryView 0 [Cand [TYPE_QT3DCORE_QNODE] [] None]
  ].

Definition constructors_qt3dextras_0_r1 : list constructor_row :=
  [
    Ctor QCylinderMesh 0 [Cand [TYPE_QT3DCORE_QNODE] [] None];
    Ctor QDiffuseMapMaterial 0 [Cand [TYPE_QT3DCORE_QNODE] [] None];
    Ctor QDiffuseSpecularMapMaterial 0 [Cand [TYPE_QT3DCORE_QNODE] [] None];
    Ctor QDiffuseSpecularMaterial 0 [Cand [TYPE_QT3DCORE_QNODE] [] None];
    Ctor QExtrudedTextGeometry 0 [Cand [TYPE_QT3DCORE_QNODE] [] None];
    Ctor QExtrudedTextMesh 0 [Cand [TYPE_QT3DCORE_QNODE] [] None];
    Ctor QFirstPersonCameraController 0 [Cand [TYPE_QT3DCORE_QNODE] [] None];
    Ctor QForwardRenderer 0 [Cand [TYPE_QT3DCORE_QNODE] [] None]
  ].

Definition constructors_qt3dextras_0_r2 : list constructor_row :=
  [
    Ctor QGoochMaterial 0 [Cand [TYPE_QT3DCORE_QNODE] [] None];
    Ctor QMetalRoughMaterial 0 [Cand [TYPE_QT3DCORE_QNODE] [] None];
    Ctor QMorphPhongMaterial 0 [Cand [TYPE_QT3DCORE_QNODE] [] None];
    Ctor QNormalDiffuseMapAlphaMaterial 0 [Cand [TYPE_QT3DCORE_QNODE] [] None];
    Ctor QNormalDiffuseMapMaterial 0 [Cand [TYPE_QT3DCORE_QNODE] [] None];
    Ctor QNormalDiffuseSpecularMapMaterial 0 [Cand [TYPE_QT3DCORE_QNODE] [] None];
    Ctor QOrbitCameraController 0 [Cand [TYPE_QT3DCORE_QNODE] [] None];
    Ctor QPerVertexColorMaterial 0 [Cand [TYPE_QT3DCORE_QNODE] [] None]
  ].

Definition constructors_qt3dextras_0_c0 : list class_row :=
  [
    Cls [TYPE_QT3DCORE_QNODE] QConeGeometry [[Qt3DCore_QNode_ptr]];
    Cls [TYPE_QT3DCORE_QNODE] QConeGeometryView [[Qt3DCore_QNode_ptr]];
    Cls [TYPE_QT3DCORE_QNODE] QConeMesh [[Qt3DCore_QNode_ptr]];
    Cls [TYPE_QT3DCORE_QNODE] QCuboidGeometry [[Qt3DCore_QNode_ptr]];
    Cls [TYPE_QT3DCORE_QNODE] QCuboidGeometryView [[Qt3DCore_QNode_ptr]];
    Cls [TYPE_QT3DCORE_QNODE] QCuboidMesh [[Qt3DCore_QNode_ptr]];
    Cls [TYPE_QT3DCORE_QNODE] QCylinderGeometry [[Qt3DCore_QNode_ptr]];
    Cls [TYPE_QT3DCORE_QNODE] QCylinderGeometryView [[Qt3DCore_QNode_ptr]];
    Cls [TYPE_QT3DCORE_QNODE] QCylinderMesh [[Qt3DCore_QNode_ptr]];
    Cls [TYPE_QT3DCORE_QNODE] QDiffuseMapMaterial [[Qt3DCore_QNode_ptr]];
    Cls [TYPE_QT3DCORE_QNODE] QDiffuseSpecularMapMaterial [[Qt3DCore_QNode_ptr]];
    Cls [TYPE_QT3DCORE_QNODE] QDiffuseSpecularMaterial [[Qt3DCore_QNode_ptr]];
    Cls [TYPE_QT3DCORE_QNODE] QExtrudedTextGeometry [[Qt3DCore_QNode_ptr]];
    Cls [TYPE_QT3DCORE_QNODE] QExtrudedTextMesh [[Qt3DCore_QNode_ptr]];
    Cls [TYPE_QT3DCORE_QNODE] QFirstPersonCameraController [[Qt3DCore_QNode_ptr]];
    Cls [TYPE_QT3DCORE_QNODE] QForwardRenderer [[Qt3DCore_QNode_ptr]];
    Cls [TYPE_QT3DCORE_QNODE] QGoochMaterial [[Qt3DCore_QNode_ptr]];
    Cls [TYPE_QT3DCORE_QNODE] QMetalRoughMaterial [[Qt3DCore_QNode_ptr]];
    Cls [TYPE_QT3DCORE_QNODE] QMorphPhongMaterial [[Qt3DCore_QNode_ptr]];
    Cls [TYPE_QT3DCORE_QNODE] QNormalDiffuseMapAlphaMaterial [[Qt3DCore_QNode_ptr]];
    Cls [TYPE_QT3DCORE_QNODE] QNormalDiffuseMapMaterial [[Qt3DCore_QNode_ptr]];
    Cls [TYPE_QT3DCORE_QNODE] QNormalDiffuseSpecularMapMaterial [[Qt3DCore_QNode_ptr]];
    Cls [TYPE_QT3DCORE_QNODE] QOrbitCameraController [[Qt3DCore_QNode_ptr]];
    Cls [TYPE_QT3DCORE_QNODE] QPerVertexColorMaterial [[Qt3DCore_QNode_ptr]]
  ].

Definition constructors_qt3dextras_0 : constructor_shard :=
  ConstructorShard Qt3DExtras "KRY_QT6_NATIVE_CONSTRUCTORS_QT3DEXTRAS_"
    (constructors_qt3dextras_0_i0)
    (constructors_qt3dextras_0_r0 ++ constructors_qt3dextras_0_r1 ++ constructors_qt3dextras_0_r2)
    (constructors_qt3dextras_0_c0).

Definition constructors_qt3dextras_1_i0 : list include :=
  [
    ClassInclude Qt3DExtras QPhongAlphaMaterial QPhongAlphaMaterial;
    ClassInclude Qt3DExtras QPhongMaterial QPhongMaterial;
    ClassInclude Qt3DExtras QPlaneGeometry QPlaneGeometry;
    ClassInclude Qt3DExtras QPlaneGeometryView QPlaneGeometryView;
    ClassInclude Qt3DExtras QPlaneMesh QPlaneMesh;
    ClassInclude Qt3DExtras QSkyboxEntity QSkyboxEntity;
    ClassInclude Qt3DExtras QSphereGeometry QSphereGeometry;
    ClassInclude Qt3DExtras QSphereGeometryView QSphereGeometryView;
    ClassInclude Qt3DExtras QSphereMesh QSphereMesh;
    ClassInclude Qt3DExtras QSpriteGrid QSpriteGrid;
    ClassInclude Qt3DExtras QSpriteSheet QSpriteSheet;
    ClassInclude Qt3DExtras QSpriteSheetItem QSpriteSheetItem;
    ClassInclude Qt3DExtras QText2DEntity QText2DEntity;
    ClassInclude Qt3DExtras QTextureMaterial QTextureMaterial;
    ClassInclude Qt3DExtras QTorusGeometry QTorusGeometry;
    ClassInclude Qt3DExtras QTorusGeometryView QTorusGeometryView;
    ClassInclude Qt3DExtras QTorusMesh QTorusMesh;
    TypeInclude Qt3DCore QNode TYPE_QT3DCORE_QNODE
  ].

Definition constructors_qt3dextras_1_r0 : list constructor_row :=
  [
    Ctor QPhongAlphaMaterial 0 [Cand [TYPE_QT3DCORE_QNODE] [] None];
    Ctor QPhongMaterial 0 [Cand [TYPE_QT3DCORE_QNODE] [] None];
    Ctor QPlaneGeometry 0 [Cand [TYPE_QT3DCORE_QNODE] [] None];
    Ctor QPlaneGeometryView 0 [Cand [TYPE_QT3DCORE_QNODE] [] None];
    Ctor QPlaneMesh 0 [Cand [TYPE_QT3DCORE_QNODE] [] None];
    Ctor QSkyboxEntity 0 [Cand [TYPE_QT3DCORE_QNODE] [] None];
    Ctor QSphereGeometry 0 [Cand [TYPE_QT3DCORE_QNODE] [] None];
    Ctor QSphereGeometryView 0 [Cand [TYPE_QT3DCORE_QNODE] [] None]
  ].

Definition constructors_qt3dextras_1_r1 : list constructor_row :=
  [
    Ctor QSphereMesh 0 [Cand [TYPE_QT3DCORE_QNODE] [] None];
    Ctor QSpriteGrid 0 [Cand [TYPE_QT3DCORE_QNODE] [] None];
    Ctor QSpriteSheet 0 [Cand [TYPE_QT3DCORE_QNODE] [] None];
    Ctor QSpriteSheetItem 0 [Cand [TYPE_QT3DCORE_QNODE] [] None];
    Ctor QText2DEntity 0 [Cand [TYPE_QT3DCORE_QNODE] [] None];
    Ctor QTextureMaterial 0 [Cand [TYPE_QT3DCORE_QNODE] [] None];
    Ctor QTorusGeometry 0 [Cand [TYPE_QT3DCORE_QNODE] [] None];
    Ctor QTorusGeometryView 0 [Cand [TYPE_QT3DCORE_QNODE] [] None]
  ].

Definition constructors_qt3dextras_1_r2 : list constructor_row :=
  [
    Ctor QTorusMesh 0 [Cand [TYPE_QT3DCORE_QNODE] [] None]
  ].

Definition constructors_qt3dextras_1_c0 : list class_row :=
  [
    Cls [TYPE_QT3DCORE_QNODE] QPhongAlphaMaterial [[Qt3DCore_QNode_ptr]];
    Cls [TYPE_QT3DCORE_QNODE] QPhongMaterial [[Qt3DCore_QNode_ptr]];
    Cls [TYPE_QT3DCORE_QNODE] QPlaneGeometry [[Qt3DCore_QNode_ptr]];
    Cls [TYPE_QT3DCORE_QNODE] QPlaneGeometryView [[Qt3DCore_QNode_ptr]];
    Cls [TYPE_QT3DCORE_QNODE] QPlaneMesh [[Qt3DCore_QNode_ptr]];
    Cls [TYPE_QT3DCORE_QNODE] QSkyboxEntity [[Qt3DCore_QNode_ptr]];
    Cls [TYPE_QT3DCORE_QNODE] QSphereGeometry [[Qt3DCore_QNode_ptr]];
    Cls [TYPE_QT3DCORE_QNODE] QSphereGeometryView [[Qt3DCore_QNode_ptr]];
    Cls [TYPE_QT3DCORE_QNODE] QSphereMesh [[Qt3DCore_QNode_ptr]];
    Cls [TYPE_QT3DCORE_QNODE] QSpriteGrid [[Qt3DCore_QNode_ptr]];
    Cls [TYPE_QT3DCORE_QNODE] QSpriteSheet [[Qt3DCore_QNode_ptr]];
    Cls [TYPE_QT3DCORE_QNODE] QSpriteSheetItem [[Qt3DCore_QNode_ptr]];
    Cls [TYPE_QT3DCORE_QNODE] QText2DEntity [[Qt3DCore_QNode_ptr]];
    Cls [TYPE_QT3DCORE_QNODE] QTextureMaterial [[Qt3DCore_QNode_ptr]];
    Cls [TYPE_QT3DCORE_QNODE] QTorusGeometry [[Qt3DCore_QNode_ptr]];
    Cls [TYPE_QT3DCORE_QNODE] QTorusGeometryView [[Qt3DCore_QNode_ptr]];
    Cls [TYPE_QT3DCORE_QNODE] QTorusMesh [[Qt3DCore_QNode_ptr]]
  ].

Definition constructors_qt3dextras_1 : constructor_shard :=
  ConstructorShard Qt3DExtras "KRY_QT6_NATIVE_CONSTRUCTORS_QT3DEXTRAS_"
    (constructors_qt3dextras_1_i0)
    (constructors_qt3dextras_1_r0 ++ constructors_qt3dextras_1_r1 ++ constructors_qt3dextras_1_r2)
    (constructors_qt3dextras_1_c0).

Definition constructors_qt3dinput_0_i0 : list include :=
  [
    ClassInclude Qt3DInput QAbstractPhysicalDevice QAbstractPhysicalDevice;
    ClassInclude Qt3DInput QAction QAction;
    ClassInclude Qt3DInput QActionInput QActionInput;
    ClassInclude Qt3DInput QAnalogAxisInput QAnalogAxisInput;
    ClassInclude Qt3DInput QAxis QAxis;
    ClassInclude Qt3DInput QAxisAccumulator QAxisAccumulator;
    ClassInclude Qt3DInput QAxisSetting QAxisSetting;
    ClassInclude Qt3DInput QButtonAxisInput QButtonAxisInput;
    ClassInclude Qt3DInput QInputAspect QInputAspect;
    ClassInclude Qt3DInput QInputChord QInputChord;
    ClassInclude Qt3DInput QInputSequence QInputSequence;
    ClassInclude Qt3DInput QInputSettings QInputSettings;
    ClassInclude Qt3DInput QKeyboardDevice QKeyboardDevice;
    ClassInclude Qt3DInput QKeyboardHandler QKeyboardHandler;
    ClassInclude Qt3DInput QLogicalDevice QLogicalDevice;
    ClassInclude Qt3DInput QMouseDevice QMouseDevice;
    ClassInclude Qt3DInput QMouseHandler QMouseHandler;
    TypeInclude Qt3DCore QNode TYPE_QT3DCORE_QNODE;
    TypeInclude QtCore QObject TYPE_QTCORE_QOBJECT
  ].

Definition constructors_qt3dinput_0_r0 : list constructor_row :=
  [
    Ctor QAbstractPhysicalDevice 0 [Cand [TYPE_QT3DCORE_QNODE] [] None];
    Ctor QAction 0 [Cand [TYPE_QT3DCORE_QNODE] [] None];
    Ctor QActionInput 0 [Cand [TYPE_QT3DCORE_QNODE] [] None];
    Ctor QAnalogAxisInput 0 [Cand [TYPE_QT3DCORE_QNODE] [] None];
    Ctor QAxis 0 [Cand [TYPE_QT3DCORE_QNODE] [] None];
    Ctor QAxisAccumulator 0 [Cand [TYPE_QT3DCORE_QNODE] [] None];
    Ctor QAxisSetting 0 [Cand [TYPE_QT3DCORE_QNODE] [] None];
    Ctor QButtonAxisInput 0 [Cand [TYPE_QT3DCORE_QNODE] [] None]
  ].

Definition constructors_qt3dinput_0_r1 : list constructor_row :=
  [
    Ctor QInputAspect 0 [Cand [TYPE_QTCORE_QOBJECT] [] None];
    Ctor QInputChord 0 [Cand [TYPE_QT3DCORE_QNODE] [] None];
    Ctor QInputSequence 0 [Cand [TYPE_QT3DCORE_QNODE] [] None];
    Ctor QInputSettings 0 [Cand [TYPE_QT3DCORE_QNODE] [] None];
    Ctor QKeyboardDevice 0 [Cand [TYPE_QT3DCORE_QNODE] [] None];
    Ctor QKeyboardHandler 0 [Cand [TYPE_QT3DCORE_QNODE] [] None];
    Ctor QLogicalDevice 0 [Cand [TYPE_QT3DCORE_QNODE] [] None];
    Ctor QMouseDevice 0 [Cand [TYPE_QT3DCORE_QNODE] [] None]
  ].

Definition constructors_qt3dinput_0_r2 : list constructor_row :=
  [
    Ctor QMouseHandler 0 [Cand [TYPE_QT3DCORE_QNODE] [] None]
  ].

Definition constructors_qt3dinput_0_c0 : list class_row :=
  [
    Cls [TYPE_QT3DCORE_QNODE] QAbstractPhysicalDevice [[Qt3DCore_QNode_ptr]];
    Cls [TYPE_QT3DCORE_QNODE] QAction [[Qt3DCore_QNode_ptr]];
    Cls [TYPE_QT3DCORE_QNODE] QActionInput [[Qt3DCore_QNode_ptr]];
    Cls [TYPE_QT3DCORE_QNODE] QAnalogAxisInput [[Qt3DCore_QNode_ptr]];
    Cls [TYPE_QT3DCORE_QNODE] QAxis [[Qt3DCore_QNode_ptr]];
    Cls [TYPE_QT3DCORE_QNODE] QAxisAccumulator [[Qt3DCore_QNode_ptr]];
    Cls [TYPE_QT3DCORE_QNODE] QAxisSetting [[Qt3DCore_QNode_ptr]];
    Cls [TYPE_QT3DCORE_QNODE] QButtonAxisInput [[Qt3DCore_QNode_ptr]];
    Cls [TYPE_QTCORE_QOBJECT] QInputAspect [[QObject_ptr]];
    Cls [TYPE_QT3DCORE_QNODE] QInputChord [[Qt3DCore_QNode_ptr]];
    Cls [TYPE_QT3DCORE_QNODE] QInputSequence [[Qt3DCore_QNode_ptr]];
    Cls [TYPE_QT3DCORE_QNODE] QInputSettings [[Qt3DCore_QNode_ptr]];
    Cls [TYPE_QT3DCORE_QNODE] QKeyboardDevice [[Qt3DCore_QNode_ptr]];
    Cls [TYPE_QT3DCORE_QNODE] QKeyboardHandler [[Qt3DCore_QNode_ptr]];
    Cls [TYPE_QT3DCORE_QNODE] QLogicalDevice [[Qt3DCore_QNode_ptr]];
    Cls [TYPE_QT3DCORE_QNODE] QMouseDevice [[Qt3DCore_QNode_ptr]];
    Cls [TYPE_QT3DCORE_QNODE] QMouseHandler [[Qt3DCore_QNode_ptr]]
  ].

Definition constructors_qt3dinput_0 : constructor_shard :=
  ConstructorShard Qt3DInput "KRY_QT6_NATIVE_CONSTRUCTORS_QT3DINPUT_"
    (constructors_qt3dinput_0_i0)
    (constructors_qt3dinput_0_r0 ++ constructors_qt3dinput_0_r1 ++ constructors_qt3dinput_0_r2)
    (constructors_qt3dinput_0_c0).

Definition constructors_qt3dlogic_0_i0 : list include :=
  [
    ClassInclude Qt3DLogic QFrameAction QFrameAction;
    ClassInclude Qt3DLogic QLogicAspect QLogicAspect;
    TypeInclude Qt3DCore QNode TYPE_QT3DCORE_QNODE;
    TypeInclude QtCore QObject TYPE_QTCORE_QOBJECT
  ].

Definition constructors_qt3dlogic_0_r0 : list constructor_row :=
  [
    Ctor QFrameAction 0 [Cand [TYPE_QT3DCORE_QNODE] [] None];
    Ctor QLogicAspect 0 [Cand [TYPE_QTCORE_QOBJECT] [] None]
  ].

Definition constructors_qt3dlogic_0_c0 : list class_row :=
  [
    Cls [TYPE_QT3DCORE_QNODE] QFrameAction [[Qt3DCore_QNode_ptr]];
    Cls [TYPE_QTCORE_QOBJECT] QLogicAspect [[QObject_ptr]]
  ].

Definition constructors_qt3dlogic_0 : constructor_shard :=
  ConstructorShard Qt3DLogic "KRY_QT6_NATIVE_CONSTRUCTORS_QT3DLOGIC_"
    (constructors_qt3dlogic_0_i0)
    (constructors_qt3dlogic_0_r0)
    (constructors_qt3dlogic_0_c0).

Definition constructors_qt3drender_0_i0 : list include :=
  [
    ClassInclude Qt3DRender QAbstractRayCaster QAbstractRayCaster;
    ClassInclude Qt3DRender QAbstractTextureImage QAbstractTextureImage;
    ClassInclude Qt3DRender QAlphaCoverage QAlphaCoverage;
    ClassInclude Qt3DRender QAlphaTest QAlphaTest;
    ClassInclude Qt3DRender QBlendEquation QBlendEquation;
    ClassInclude Qt3DRender QBlendEquationArguments QBlendEquationArguments;
    ClassInclude Qt3DRender QBlitFramebuffer QBlitFramebuffer;
    ClassInclude Qt3DRender QCamera QCamera;
    ClassInclude Qt3DRender QCameraLens QCameraLens;
    ClassInclude Qt3DRender QCameraSelector QCameraSelector;
    ClassInclude Qt3DRender QClearBuffers QClearBuffers;
    ClassInclude Qt3DRender QClipPlane QClipPlane;
    ClassInclude Qt3DRender QColorMask QColorMask;
    ClassInclude Qt3DRender QComputeCommand QComputeCommand;
    ClassInclude Qt3DRender QCullFace QCullFace;
    ClassInclude Qt3DRender QDepthRange QDepthRange;
    ClassInclude Qt3DRender QDepthTest QDepthTest;
    ClassInclude Qt3DRender QDirectionalLight QDirectionalLight;
    ClassInclude Qt3DRender QDispatchCompute QDispatchCompute;
    ClassInclude Qt3DRender QDithering QDithering;
    ClassInclude Qt3DRender QEffect QEffect;
    ClassInclude Qt3DRender QEnvironmentLight QEnvironmentLight;
    ClassInclude Qt3DRender QFilterKey QFilterKey;
    ClassInclude Qt3DRender QFrameGraphNode QFrameGraphNode;
    TypeInclude Qt3DCore QNode TYPE_QT3DCORE_QNODE
  ].

Definition constructors_qt3drender_0_r0 : list constructor_row :=
  [
    Ctor QAbstractRayCaster 0 [Cand [TYPE_QT3DCORE_QNODE] [] None];
    Ctor QAbstractTextureImage 0 [Cand [TYPE_QT3DCORE_QNODE] [] None];
    Ctor QAlphaCoverage 0 [Cand [TYPE_QT3DCORE_QNODE] [] None];
    Ctor QAlphaTest 0 [Cand [TYPE_QT3DCORE_QNODE] [] None];
    Ctor QBlendEquation 0 [Cand [TYPE_QT3DCORE_QNODE] [] None];
    Ctor QBlendEquationArguments 0 [Cand [TYPE_QT3DCORE_QNODE] [] None];
    Ctor QBlitFramebuffer 0 [Cand [TYPE_QT3DCORE_QNODE] [] None];
    Ctor QCamera 0 [Cand [TYPE_QT3DCORE_QNODE] [] None]
  ].

Definition constructors_qt3drender_0_r1 : list constructor_row :=
  [
    Ctor QCameraLens 0 [Cand [TYPE_QT3DCORE_QNODE] [] None];
    Ctor QCameraSelector 0 [Cand [TYPE_QT3DCORE_QNODE] [] None];
    Ctor QClearBuffers 0 [Cand [TYPE_QT3DCORE_QNODE] [] None];
    Ctor QClipPlane 0 [Cand [TYPE_QT3DCORE_QNODE] [] None];
    Ctor QColorMask 0 [Cand [TYPE_QT3DCORE_QNODE] [] None];
    Ctor QComputeCommand 0 [Cand [TYPE_QT3DCORE_QNODE] [] None];
    Ctor QCullFace 0 [Cand [TYPE_QT3DCORE_QNODE] [] None];
    Ctor QDepthRange 0 [Cand [TYPE_QT3DCORE_QNODE] [] None]
  ].

Definition constructors_qt3drender_0_r2 : list constructor_row :=
  [
    Ctor QDepthTest 0 [Cand [TYPE_QT3DCORE_QNODE] [] None];
    Ctor QDirectionalLight 0 [Cand [TYPE_QT3DCORE_QNODE] [] None];
    Ctor QDispatchCompute 0 [Cand [TYPE_QT3DCORE_QNODE] [] None];
    Ctor QDithering 0 [Cand [TYPE_QT3DCORE_QNODE] [] None];
    Ctor QEffect 0 [Cand [TYPE_QT3DCORE_QNODE] [] None];
    Ctor QEnvironmentLight 0 [Cand [TYPE_QT3DCORE_QNODE] [] None];
    Ctor QFilterKey 0 [Cand [TYPE_QT3DCORE_QNODE] [] None];
    Ctor QFrameGraphNode 0 [Cand [TYPE_QT3DCORE_QNODE] [] None]
  ].

Definition constructors_qt3drender_0_c0 : list class_row :=
  [
    Cls [TYPE_QT3DCORE_QNODE] QAbstractRayCaster [[Qt3DCore_QNode_ptr]];
    Cls [TYPE_QT3DCORE_QNODE] QAbstractTextureImage [[Qt3DCore_QNode_ptr]];
    Cls [TYPE_QT3DCORE_QNODE] QAlphaCoverage [[Qt3DCore_QNode_ptr]];
    Cls [TYPE_QT3DCORE_QNODE] QAlphaTest [[Qt3DCore_QNode_ptr]];
    Cls [TYPE_QT3DCORE_QNODE] QBlendEquation [[Qt3DCore_QNode_ptr]];
    Cls [TYPE_QT3DCORE_QNODE] QBlendEquationArguments [[Qt3DCore_QNode_ptr]];
    Cls [TYPE_QT3DCORE_QNODE] QBlitFramebuffer [[Qt3DCore_QNode_ptr]];
    Cls [TYPE_QT3DCORE_QNODE] QCamera [[Qt3DCore_QNode_ptr]];
    Cls [TYPE_QT3DCORE_QNODE] QCameraLens [[Qt3DCore_QNode_ptr]];
    Cls [TYPE_QT3DCORE_QNODE] QCameraSelector [[Qt3DCore_QNode_ptr]];
    Cls [TYPE_QT3DCORE_QNODE] QClearBuffers [[Qt3DCore_QNode_ptr]];
    Cls [TYPE_QT3DCORE_QNODE] QClipPlane [[Qt3DCore_QNode_ptr]];
    Cls [TYPE_QT3DCORE_QNODE] QColorMask [[Qt3DCore_QNode_ptr]];
    Cls [TYPE_QT3DCORE_QNODE] QComputeCommand [[Qt3DCore_QNode_ptr]];
    Cls [TYPE_QT3DCORE_QNODE] QCullFace [[Qt3DCore_QNode_ptr]];
    Cls [TYPE_QT3DCORE_QNODE] QDepthRange [[Qt3DCore_QNode_ptr]];
    Cls [TYPE_QT3DCORE_QNODE] QDepthTest [[Qt3DCore_QNode_ptr]];
    Cls [TYPE_QT3DCORE_QNODE] QDirectionalLight [[Qt3DCore_QNode_ptr]];
    Cls [TYPE_QT3DCORE_QNODE] QDispatchCompute [[Qt3DCore_QNode_ptr]];
    Cls [TYPE_QT3DCORE_QNODE] QDithering [[Qt3DCore_QNode_ptr]];
    Cls [TYPE_QT3DCORE_QNODE] QEffect [[Qt3DCore_QNode_ptr]];
    Cls [TYPE_QT3DCORE_QNODE] QEnvironmentLight [[Qt3DCore_QNode_ptr]];
    Cls [TYPE_QT3DCORE_QNODE] QFilterKey [[Qt3DCore_QNode_ptr]];
    Cls [TYPE_QT3DCORE_QNODE] QFrameGraphNode [[Qt3DCore_QNode_ptr]]
  ].

Definition constructors_qt3drender_0 : constructor_shard :=
  ConstructorShard Qt3DRender "KRY_QT6_NATIVE_CONSTRUCTORS_QT3DRENDER_"
    (constructors_qt3drender_0_i0)
    (constructors_qt3drender_0_r0 ++ constructors_qt3drender_0_r1 ++ constructors_qt3drender_0_r2)
    (constructors_qt3drender_0_c0).

Definition constructors_qt3drender_1_i0 : list include :=
  [
    ClassInclude Qt3DRender QFrontFace QFrontFace;
    ClassInclude Qt3DRender QFrustumCulling QFrustumCulling;
    ClassInclude Qt3DRender QGeometryRenderer QGeometryRenderer;
    ClassInclude Qt3DRender QGraphicsApiFilter QGraphicsApiFilter;
    ClassInclude Qt3DRender QLayer QLayer;
    ClassInclude Qt3DRender QLayerFilter QLayerFilter;
    ClassInclude Qt3DRender QLevelOfDetail QLevelOfDetail;
    ClassInclude Qt3DRender QLevelOfDetailSwitch QLevelOfDetailSwitch;
    ClassInclude Qt3DRender QLineWidth QLineWidth;
    ClassInclude Qt3DRender QMaterial QMaterial;
    ClassInclude Qt3DRender QMemoryBarrier QMemoryBarrier;
    ClassInclude Qt3DRender QMesh QMesh;
    ClassInclude Qt3DRender QMultiSampleAntiAliasing QMultiSampleAntiAliasing;
    ClassInclude Qt3DRender QNoDepthMask QNoDepthMask;
    ClassInclude Qt3DRender QNoDraw QNoDraw;
    ClassInclude Qt3DRender QNoPicking QNoPicking;
    ClassInclude Qt3DRender QObjectPicker QObjectPicker;
    ClassInclude Qt3DRender QPaintedTextureImage QPaintedTextureImage;
    ClassInclude Qt3DRender QParameter QParameter;
    ClassInclude Qt3DRender QPickEvent QPickEvent;
    ClassInclude Qt3DRender QPickLineEvent QPickLineEvent;
    ClassInclude Qt3DRender QPickPointEvent QPickPointEvent;
    ClassInclude Qt3DRender QPickTriangleEvent QPickTriangleEvent;
    ClassInclude Qt3DRender QPickingProxy QPickingProxy;
    TypeInclude Qt3DCore QNode TYPE_QT3DCORE_QNODE;
    TypeInclude Qt3DRender QAbstractTexture TYPE_QT3DRENDER_QABSTRACTTEXTURE;
    TypeInclude QtCore QObject TYPE_QTCORE_QOBJECT;
    TypeInclude Qt3DRender QPickEvent TYPE_QT3DRENDER_QPICKEVENT;
    TypeInclude QtCore QPointF VALUE_TYPE_QTCORE_QPOINTF;
    TypeInclude QtGui QVector3D VALUE_TYPE_QTGUI_QVECTOR3D
  ].

Definition constructors_qt3drender_1_r0 : list constructor_row :=
  [
    Ctor QFrontFace 0 [Cand [TYPE_QT3DCORE_QNODE] [] None];
    Ctor QFrustumCulling 0 [Cand [TYPE_QT3DCORE_QNODE] [] None];
    Ctor QGeometryRenderer 0 [Cand [TYPE_QT3DCORE_QNODE] [] None];
    Ctor QGraphicsApiFilter 0 [Cand [TYPE_QTCORE_QOBJECT] [] None];
    Ctor QLayer 0 [Cand [TYPE_QT3DCORE_QNODE] [] None];
    Ctor QLayerFilter 0 [Cand [TYPE_QT3DCORE_QNODE] [] None];
    Ctor QLevelOfDetail 0 [Cand [TYPE_QT3DCORE_QNODE] [] None];
    Ctor QLevelOfDetailSwitch 0 [Cand [TYPE_QT3DCORE_QNODE] [] None]
  ].

Definition constructors_qt3drender_1_r1 : list constructor_row :=
  [
    Ctor QLineWidth 0 [Cand [TYPE_QT3DCORE_QNODE] [] None];
    Ctor QMaterial 0 [Cand [TYPE_QT3DCORE_QNODE] [] None];
    Ctor QMemoryBarrier 0 [Cand [TYPE_QT3DCORE_QNODE] [] None];
    Ctor QMesh 0 [Cand [TYPE_QT3DCORE_QNODE] [] None];
    Ctor QMultiSampleAntiAliasing 0 [Cand [TYPE_QT3DCORE_QNODE] [] None];
    Ctor QNoDepthMask 0 [Cand [TYPE_QT3DCORE_QNODE] [] None];
    Ctor QNoDraw 0 [Cand [TYPE_QT3DCORE_QNODE] [] None];
    Ctor QNoPicking 0 [Cand [TYPE_QT3DCORE_QNODE] [] None]
  ].

Definition constructors_qt3drender_1_r2 : list constructor_row :=
  [
    Ctor QObjectPicker 0 [Cand [TYPE_QT3DCORE_QNODE] [] None];
    Ctor QPaintedTextureImage 0 [Cand [TYPE_QT3DCORE_QNODE] [] None];
    Ctor QParameter 0 [Cand [TYPE_QT3DCORE_QNODE] [] None];
    Ctor QParameter 2 [Cand [TYPE_QT3DCORE_QNODE] [PString false; PVariant] None; Cand
        [TYPE_QT3DCORE_QNODE; TYPE_QT3DRENDER_QABSTRACTTEXTURE] [PString false; PObject
        Qt3DRender_QAbstractTexture false] None];
    Ctor QPickEvent 0 [Cand [] [] None];
    Ctor QPickEvent 4 [Cand [VALUE_TYPE_QTCORE_QPOINTF; VALUE_TYPE_QTGUI_QVECTOR3D] [PValue QPointF; PValue
        QVector3D; PValue QVector3D; PNumber cxx_float] None]
  ].

Definition constructors_qt3drender_1_r3 : list constructor_row :=
  [
    Ctor QPickEvent 7 [Cand [TYPE_QT3DRENDER_QPICKEVENT; VALUE_TYPE_QTCORE_QPOINTF;
        VALUE_TYPE_QTGUI_QVECTOR3D] [PValue QPointF; PValue QVector3D; PValue QVector3D; PNumber cxx_float;
        PValue Qt3DRender_QPickEvent_Buttons; PInt; PInt] None];
    Ctor QPickLineEvent 0 [Cand [] [] None];
    Ctor QPickLineEvent 10 [Cand [TYPE_QT3DRENDER_QPICKEVENT; VALUE_TYPE_QTCORE_QPOINTF;
        VALUE_TYPE_QTGUI_QVECTOR3D] [PValue QPointF; PValue QVector3D; PValue QVector3D; PNumber cxx_float;
        PUInt; PUInt; PUInt; PValue Qt3DRender_QPickEvent_Buttons; PInt; PInt] None];
    Ctor QPickPointEvent 0 [Cand [] [] None];
    Ctor QPickPointEvent 8 [Cand [TYPE_QT3DRENDER_QPICKEVENT; VALUE_TYPE_QTCORE_QPOINTF;
        VALUE_TYPE_QTGUI_QVECTOR3D] [PValue QPointF; PValue QVector3D; PValue QVector3D; PNumber cxx_float;
        PUInt; PValue Qt3DRender_QPickEvent_Buttons; PInt; PInt] None]
  ].

Definition constructors_qt3drender_1_r4 : list constructor_row :=
  [
    Ctor QPickTriangleEvent 0 [Cand [] [] None];
    Ctor QPickTriangleEvent 8 [Cand [VALUE_TYPE_QTCORE_QPOINTF; VALUE_TYPE_QTGUI_QVECTOR3D] [PValue
        QPointF; PValue QVector3D; PValue QVector3D; PNumber cxx_float; PUInt; PUInt; PUInt; PUInt] None];
    Ctor QPickTriangleEvent 12 [Cand [TYPE_QT3DRENDER_QPICKEVENT; VALUE_TYPE_QTCORE_QPOINTF;
        VALUE_TYPE_QTGUI_QVECTOR3D] [PValue QPointF; PValue QVector3D; PValue QVector3D; PNumber cxx_float;
        PUInt; PUInt; PUInt; PUInt; PValue Qt3DRender_QPickEvent_Buttons; PInt; PInt; PValue QVector3D]
        None];
    Ctor QPickingProxy 0 [Cand [TYPE_QT3DCORE_QNODE] [] None]
  ].

Definition constructors_qt3drender_1_c0 : list class_row :=
  [
    Cls [TYPE_QT3DCORE_QNODE] QFrontFace [[Qt3DCore_QNode_ptr]];
    Cls [TYPE_QT3DCORE_QNODE] QFrustumCulling [[Qt3DCore_QNode_ptr]];
    Cls [TYPE_QT3DCORE_QNODE] QGeometryRenderer [[Qt3DCore_QNode_ptr]];
    Cls [TYPE_QTCORE_QOBJECT] QGraphicsApiFilter [[QObject_ptr]];
    Cls [TYPE_QT3DCORE_QNODE] QLayer [[Qt3DCore_QNode_ptr]];
    Cls [TYPE_QT3DCORE_QNODE] QLayerFilter [[Qt3DCore_QNode_ptr]];
    Cls [TYPE_QT3DCORE_QNODE] QLevelOfDetail [[Qt3DCore_QNode_ptr]];
    Cls [TYPE_QT3DCORE_QNODE] QLevelOfDetailSwitch [[Qt3DCore_QNode_ptr]];
    Cls [TYPE_QT3DCORE_QNODE] QLineWidth [[Qt3DCore_QNode_ptr]];
    Cls [TYPE_QT3DCORE_QNODE] QMaterial [[Qt3DCore_QNode_ptr]];
    Cls [TYPE_QT3DCORE_QNODE] QMemoryBarrier [[Qt3DCore_QNode_ptr]];
    Cls [TYPE_QT3DCORE_QNODE] QMesh [[Qt3DCore_QNode_ptr]];
    Cls [TYPE_QT3DCORE_QNODE] QMultiSampleAntiAliasing [[Qt3DCore_QNode_ptr]];
    Cls [TYPE_QT3DCORE_QNODE] QNoDepthMask [[Qt3DCore_QNode_ptr]];
    Cls [TYPE_QT3DCORE_QNODE] QNoDraw [[Qt3DCore_QNode_ptr]];
    Cls [TYPE_QT3DCORE_QNODE] QNoPicking [[Qt3DCore_QNode_ptr]];
    Cls [TYPE_QT3DCORE_QNODE] QObjectPicker [[Qt3DCore_QNode_ptr]];
    Cls [TYPE_QT3DCORE_QNODE] QPaintedTextureImage [[Qt3DCore_QNode_ptr]];
    Cls [TYPE_QT3DCORE_QNODE; TYPE_QT3DRENDER_QABSTRACTTEXTURE] QParameter [[Qt3DCore_QNode_ptr]; [QString;
        QVariant; Qt3DCore_QNode_ptr]; [QString; Qt3DRender_QAbstractTexture_ptr; Qt3DCore_QNode_ptr]];
    Cls [TYPE_QT3DRENDER_QPICKEVENT; VALUE_TYPE_QTCORE_QPOINTF; VALUE_TYPE_QTGUI_QVECTOR3D] QPickEvent [[];
        [QPointF; QVector3D; QVector3D; cxx_float]; [QPointF; QVector3D; QVector3D; cxx_float;
        Qt3DRender_QPickEvent_Buttons; cxx_int; cxx_int]];
    Cls [TYPE_QT3DRENDER_QPICKEVENT; VALUE_TYPE_QTCORE_QPOINTF; VALUE_TYPE_QTGUI_QVECTOR3D] QPickLineEvent
        [[]; [QPointF; QVector3D; QVector3D; cxx_float; cxx_unsigned_int; cxx_unsigned_int;
        cxx_unsigned_int; Qt3DRender_QPickEvent_Buttons; cxx_int; cxx_int]];
    Cls [TYPE_QT3DRENDER_QPICKEVENT; VALUE_TYPE_QTCORE_QPOINTF; VALUE_TYPE_QTGUI_QVECTOR3D] QPickPointEvent
        [[]; [QPointF; QVector3D; QVector3D; cxx_float; cxx_unsigned_int; Qt3DRender_QPickEvent_Buttons;
        cxx_int; cxx_int]];
    Cls [TYPE_QT3DRENDER_QPICKEVENT; VALUE_TYPE_QTCORE_QPOINTF; VALUE_TYPE_QTGUI_QVECTOR3D]
        QPickTriangleEvent [[]; [QPointF; QVector3D; QVector3D; cxx_float; cxx_unsigned_int;
        cxx_unsigned_int; cxx_unsigned_int; cxx_unsigned_int]; [QPointF; QVector3D; QVector3D; cxx_float;
        cxx_unsigned_int; cxx_unsigned_int; cxx_unsigned_int; cxx_unsigned_int;
        Qt3DRender_QPickEvent_Buttons; cxx_int; cxx_int; QVector3D]];
    Cls [TYPE_QT3DCORE_QNODE] QPickingProxy [[Qt3DCore_QNode_ptr]]
  ].

Definition constructors_qt3drender_1 : constructor_shard :=
  ConstructorShard Qt3DRender "KRY_QT6_NATIVE_CONSTRUCTORS_QT3DRENDER_"
    (constructors_qt3drender_1_i0)
    (constructors_qt3drender_1_r0 ++ constructors_qt3drender_1_r1 ++ constructors_qt3drender_1_r2 ++
        constructors_qt3drender_1_r3 ++ constructors_qt3drender_1_r4)
    (constructors_qt3drender_1_c0).

Definition constructors_qt3drender_2_i0 : list include :=
  [
    ClassInclude Qt3DRender QPickingSettings QPickingSettings;
    ClassInclude Qt3DRender QPointLight QPointLight;
    ClassInclude Qt3DRender QPointSize QPointSize;
    ClassInclude Qt3DRender QPolygonOffset QPolygonOffset;
    ClassInclude Qt3DRender QProximityFilter QProximityFilter;
    ClassInclude Qt3DRender QRasterMode QRasterMode;
    ClassInclude Qt3DRender QRayCaster QRayCaster;
    ClassInclude Qt3DRender QRenderAspect QRenderAspect;
    ClassInclude Qt3DRender QRenderCapabilities QRenderCapabilities;
    ClassInclude Qt3DRender QRenderCapture QRenderCapture;
    ClassInclude Qt3DRender QRenderPass QRenderPass;
    ClassInclude Qt3DRender QRenderPassFilter QRenderPassFilter;
    ClassInclude Qt3DRender QRenderSettings QRenderSettings;
    ClassInclude Qt3DRender QRenderStateSet QRenderStateSet;
    ClassInclude Qt3DRender QRenderSurfaceSelector QRenderSurfaceSelector;
    ClassInclude Qt3DRender QRenderTarget QRenderTarget;
    ClassInclude Qt3DRender QRenderTargetOutput QRenderTargetOutput;
    ClassInclude Qt3DRender QRenderTargetSelector QRenderTargetSelector;
    ClassInclude Qt3DRender QSceneLoader QSceneLoader;
    ClassInclude Qt3DRender QScissorTest QScissorTest;
    ClassInclude Qt3DRender QScreenRayCaster QScreenRayCaster;
    ClassInclude Qt3DRender QSeamlessCubemap QSeamlessCubemap;
    ClassInclude Qt3DRender QSetFence QSetFence;
    ClassInclude Qt3DRender QShaderData QShaderData;
    TypeInclude Qt3DCore QNode TYPE_QT3DCORE_QNODE;
    TypeInclude QtCore QObject TYPE_QTCORE_QOBJECT;
    TypeInclude Qt3DRender QRenderAspect TYPE_QT3DRENDER_QRENDERASPECT
  ].

Definition constructors_qt3drender_2_r0 : list constructor_row :=
  [
    Ctor QPickingSettings 0 [Cand [TYPE_QT3DCORE_QNODE] [] None];
    Ctor QPointLight 0 [Cand [TYPE_QT3DCORE_QNODE] [] None];
    Ctor QPointSize 0 [Cand [TYPE_QT3DCORE_QNODE] [] None];
    Ctor QPolygonOffset 0 [Cand [TYPE_QT3DCORE_QNODE] [] None];
    Ctor QProximityFilter 0 [Cand [TYPE_QT3DCORE_QNODE] [] None];
    Ctor QRasterMode 0 [Cand [TYPE_QT3DCORE_QNODE] [] None];
    Ctor QRayCaster 0 [Cand [TYPE_QT3DCORE_QNODE] [] None];
    Ctor QRenderAspect 0 [Cand [TYPE_QTCORE_QOBJECT] [] None]
  ].

Definition constructors_qt3drender_2_r1 : list constructor_row :=
  [
    Ctor QRenderAspect 1 [Cand [TYPE_QT3DRENDER_QRENDERASPECT; TYPE_QTCORE_QOBJECT] [PValue
        Qt3DRender_QRenderAspect_SubmissionType] None];
    Ctor QRenderCapabilities 0 [Cand [TYPE_QTCORE_QOBJECT] [] None];
    Ctor QRenderCapture 0 [Cand [TYPE_QT3DCORE_QNODE] [] None];
    Ctor QRenderPass 0 [Cand [TYPE_QT3DCORE_QNODE] [] None];
    Ctor QRenderPassFilter 0 [Cand [TYPE_QT3DCORE_QNODE] [] None];
    Ctor QRenderSettings 0 [Cand [TYPE_QT3DCORE_QNODE] [] None];
    Ctor QRenderStateSet 0 [Cand [TYPE_QT3DCORE_QNODE] [] None]
  ].

Definition constructors_qt3drender_2_r2 : list constructor_row :=
  [
    Ctor QRenderSurfaceSelector 0 [Cand [TYPE_QT3DCORE_QNODE] [] None];
    Ctor QRenderTarget 0 [Cand [TYPE_QT3DCORE_QNODE] [] None];
    Ctor QRenderTargetOutput 0 [Cand [TYPE_QT3DCORE_QNODE] [] None];
    Ctor QRenderTargetSelector 0 [Cand [TYPE_QT3DCORE_QNODE] [] None];
    Ctor QSceneLoader 0 [Cand [TYPE_QT3DCORE_QNODE] [] None];
    Ctor QScissorTest 0 [Cand [TYPE_QT3DCORE_QNODE] [] None];
    Ctor QScreenRayCaster 0 [Cand [TYPE_QT3DCORE_QNODE] [] None];
    Ctor QSeamlessCubemap 0 [Cand [TYPE_QT3DCORE_QNODE] [] None]
  ].

Definition constructors_qt3drender_2_r3 : list constructor_row :=
  [
    Ctor QSetFence 0 [Cand [TYPE_QT3DCORE_QNODE] [] None];
    Ctor QShaderData 0 [Cand [TYPE_QT3DCORE_QNODE] [] None]
  ].

Definition constructors_qt3drender_2_c0 : list class_row :=
  [
    Cls [TYPE_QT3DCORE_QNODE] QPickingSettings [[Qt3DCore_QNode_ptr]];
    Cls [TYPE_QT3DCORE_QNODE] QPointLight [[Qt3DCore_QNode_ptr]];
    Cls [TYPE_QT3DCORE_QNODE] QPointSize [[Qt3DCore_QNode_ptr]];
    Cls [TYPE_QT3DCORE_QNODE] QPolygonOffset [[Qt3DCore_QNode_ptr]];
    Cls [TYPE_QT3DCORE_QNODE] QProximityFilter [[Qt3DCore_QNode_ptr]];
    Cls [TYPE_QT3DCORE_QNODE] QRasterMode [[Qt3DCore_QNode_ptr]];
    Cls [TYPE_QT3DCORE_QNODE] QRayCaster [[Qt3DCore_QNode_ptr]];
    Cls [TYPE_QT3DRENDER_QRENDERASPECT; TYPE_QTCORE_QOBJECT] QRenderAspect [[QObject_ptr];
        [Qt3DRender_QRenderAspect_SubmissionType; QObject_ptr]];
    Cls [TYPE_QTCORE_QOBJECT] QRenderCapabilities [[QObject_ptr]];
    Cls [TYPE_QT3DCORE_QNODE] QRenderCapture [[Qt3DCore_QNode_ptr]];
    Cls [TYPE_QT3DCORE_QNODE] QRenderPass [[Qt3DCore_QNode_ptr]];
    Cls [TYPE_QT3DCORE_QNODE] QRenderPassFilter [[Qt3DCore_QNode_ptr]];
    Cls [TYPE_QT3DCORE_QNODE] QRenderSettings [[Qt3DCore_QNode_ptr]];
    Cls [TYPE_QT3DCORE_QNODE] QRenderStateSet [[Qt3DCore_QNode_ptr]];
    Cls [TYPE_QT3DCORE_QNODE] QRenderSurfaceSelector [[Qt3DCore_QNode_ptr]];
    Cls [TYPE_QT3DCORE_QNODE] QRenderTarget [[Qt3DCore_QNode_ptr]];
    Cls [TYPE_QT3DCORE_QNODE] QRenderTargetOutput [[Qt3DCore_QNode_ptr]];
    Cls [TYPE_QT3DCORE_QNODE] QRenderTargetSelector [[Qt3DCore_QNode_ptr]];
    Cls [TYPE_QT3DCORE_QNODE] QSceneLoader [[Qt3DCore_QNode_ptr]];
    Cls [TYPE_QT3DCORE_QNODE] QScissorTest [[Qt3DCore_QNode_ptr]];
    Cls [TYPE_QT3DCORE_QNODE] QScreenRayCaster [[Qt3DCore_QNode_ptr]];
    Cls [TYPE_QT3DCORE_QNODE] QSeamlessCubemap [[Qt3DCore_QNode_ptr]];
    Cls [TYPE_QT3DCORE_QNODE] QSetFence [[Qt3DCore_QNode_ptr]];
    Cls [TYPE_QT3DCORE_QNODE] QShaderData [[Qt3DCore_QNode_ptr]]
  ].

Definition constructors_qt3drender_2 : constructor_shard :=
  ConstructorShard Qt3DRender "KRY_QT6_NATIVE_CONSTRUCTORS_QT3DRENDER_"
    (constructors_qt3drender_2_i0)
    (constructors_qt3drender_2_r0 ++ constructors_qt3drender_2_r1 ++ constructors_qt3drender_2_r2 ++
        constructors_qt3drender_2_r3)
    (constructors_qt3drender_2_c0).

Definition constructors_qt3drender_3_i0 : list include :=
  [
    ClassInclude Qt3DRender QShaderImage QShaderImage;
    ClassInclude Qt3DRender QShaderProgram QShaderProgram;
    ClassInclude Qt3DRender QShaderProgramBuilder QShaderProgramBuilder;
    ClassInclude Qt3DRender QSharedGLTexture QSharedGLTexture;
    ClassInclude Qt3DRender QSortPolicy QSortPolicy;
    ClassInclude Qt3DRender QSpotLight QSpotLight;
    ClassInclude Qt3DRender QStencilMask QStencilMask;
    ClassInclude Qt3DRender QStencilOperation QStencilOperation;
    ClassInclude Qt3DRender QStencilTest QStencilTest;
    ClassInclude Qt3DRender QSubtreeEnabler QSubtreeEnabler;
    ClassInclude Qt3DRender QTechnique QTechnique;
    ClassInclude Qt3DRender QTechniqueFilter QTechniqueFilter;
    ClassInclude Qt3DRender QTexture1D QTexture1D;
    ClassInclude Qt3DRender QTexture1DArray QTexture1DArray;
    ClassInclude Qt3DRender QTexture2D QTexture2D;
    ClassInclude Qt3DRender QTexture2DArray QTexture2DArray;
    ClassInclude Qt3DRender QTexture2DMultisample QTexture2DMultisample;
    ClassInclude Qt3DRender QTexture2DMultisampleArray QTexture2DMultisampleArray;
    ClassInclude Qt3DRender QTexture3D QTexture3D;
    ClassInclude Qt3DRender QTextureBuffer QTextureBuffer;
    ClassInclude Qt3DRender QTextureCubeMap QTextureCubeMap;
    ClassInclude Qt3DRender QTextureCubeMapArray QTextureCubeMapArray;
    ClassInclude Qt3DRender QTextureImage QTextureImage;
    ClassInclude Qt3DRender QTextureLoader QTextureLoader;
    TypeInclude Qt3DCore QNode TYPE_QT3DCORE_QNODE
  ].

Definition constructors_qt3drender_3_r0 : list constructor_row :=
  [
    Ctor QShaderImage 0 [Cand [TYPE_QT3DCORE_QNODE] [] None];
    Ctor QShaderProgram 0 [Cand [TYPE_QT3DCORE_QNODE] [] None];
    Ctor QShaderProgramBuilder 0 [Cand [TYPE_QT3DCORE_QNODE] [] None];
    Ctor QSharedGLTexture 0 [Cand [TYPE_QT3DCORE_QNODE] [] None];
    Ctor QSortPolicy 0 [Cand [TYPE_QT3DCORE_QNODE] [] None];
    Ctor QSpotLight 0 [Cand [TYPE_QT3DCORE_QNODE] [] None];
    Ctor QStencilMask 0 [Cand [TYPE_QT3DCORE_QNODE] [] None];
    Ctor QStencilOperation 0 [Cand [TYPE_QT3DCORE_QNODE] [] None]
  ].

Definition constructors_qt3drender_3_r1 : list constructor_row :=
  [
    Ctor QStencilTest 0 [Cand [TYPE_QT3DCORE_QNODE] [] None];
    Ctor QSubtreeEnabler 0 [Cand [TYPE_QT3DCORE_QNODE] [] None];
    Ctor QTechnique 0 [Cand [TYPE_QT3DCORE_QNODE] [] None];
    Ctor QTechniqueFilter 0 [Cand [TYPE_QT3DCORE_QNODE] [] None];
    Ctor QTexture1D 0 [Cand [TYPE_QT3DCORE_QNODE] [] None];
    Ctor QTexture1DArray 0 [Cand [TYPE_QT3DCORE_QNODE] [] None];
    Ctor QTexture2D 0 [Cand [TYPE_QT3DCORE_QNODE] [] None];
    Ctor QTexture2DArray 0 [Cand [TYPE_QT3DCORE_QNODE] [] None]
  ].

Definition constructors_qt3drender_3_r2 : list constructor_row :=
  [
    Ctor QTexture2DMultisample 0 [Cand [TYPE_QT3DCORE_QNODE] [] None];
    Ctor QTexture2DMultisampleArray 0 [Cand [TYPE_QT3DCORE_QNODE] [] None];
    Ctor QTexture3D 0 [Cand [TYPE_QT3DCORE_QNODE] [] None];
    Ctor QTextureBuffer 0 [Cand [TYPE_QT3DCORE_QNODE] [] None];
    Ctor QTextureCubeMap 0 [Cand [TYPE_QT3DCORE_QNODE] [] None];
    Ctor QTextureCubeMapArray 0 [Cand [TYPE_QT3DCORE_QNODE] [] None];
    Ctor QTextureImage 0 [Cand [TYPE_QT3DCORE_QNODE] [] None];
    Ctor QTextureLoader 0 [Cand [TYPE_QT3DCORE_QNODE] [] None]
  ].

Definition constructors_qt3drender_3_c0 : list class_row :=
  [
    Cls [TYPE_QT3DCORE_QNODE] QShaderImage [[Qt3DCore_QNode_ptr]];
    Cls [TYPE_QT3DCORE_QNODE] QShaderProgram [[Qt3DCore_QNode_ptr]];
    Cls [TYPE_QT3DCORE_QNODE] QShaderProgramBuilder [[Qt3DCore_QNode_ptr]];
    Cls [TYPE_QT3DCORE_QNODE] QSharedGLTexture [[Qt3DCore_QNode_ptr]];
    Cls [TYPE_QT3DCORE_QNODE] QSortPolicy [[Qt3DCore_QNode_ptr]];
    Cls [TYPE_QT3DCORE_QNODE] QSpotLight [[Qt3DCore_QNode_ptr]];
    Cls [TYPE_QT3DCORE_QNODE] QStencilMask [[Qt3DCore_QNode_ptr]];
    Cls [TYPE_QT3DCORE_QNODE] QStencilOperation [[Qt3DCore_QNode_ptr]];
    Cls [TYPE_QT3DCORE_QNODE] QStencilTest [[Qt3DCore_QNode_ptr]];
    Cls [TYPE_QT3DCORE_QNODE] QSubtreeEnabler [[Qt3DCore_QNode_ptr]];
    Cls [TYPE_QT3DCORE_QNODE] QTechnique [[Qt3DCore_QNode_ptr]];
    Cls [TYPE_QT3DCORE_QNODE] QTechniqueFilter [[Qt3DCore_QNode_ptr]];
    Cls [TYPE_QT3DCORE_QNODE] QTexture1D [[Qt3DCore_QNode_ptr]];
    Cls [TYPE_QT3DCORE_QNODE] QTexture1DArray [[Qt3DCore_QNode_ptr]];
    Cls [TYPE_QT3DCORE_QNODE] QTexture2D [[Qt3DCore_QNode_ptr]];
    Cls [TYPE_QT3DCORE_QNODE] QTexture2DArray [[Qt3DCore_QNode_ptr]];
    Cls [TYPE_QT3DCORE_QNODE] QTexture2DMultisample [[Qt3DCore_QNode_ptr]];
    Cls [TYPE_QT3DCORE_QNODE] QTexture2DMultisampleArray [[Qt3DCore_QNode_ptr]];
    Cls [TYPE_QT3DCORE_QNODE] QTexture3D [[Qt3DCore_QNode_ptr]];
    Cls [TYPE_QT3DCORE_QNODE] QTextureBuffer [[Qt3DCore_QNode_ptr]];
    Cls [TYPE_QT3DCORE_QNODE] QTextureCubeMap [[Qt3DCore_QNode_ptr]];
    Cls [TYPE_QT3DCORE_QNODE] QTextureCubeMapArray [[Qt3DCore_QNode_ptr]];
    Cls [TYPE_QT3DCORE_QNODE] QTextureImage [[Qt3DCore_QNode_ptr]];
    Cls [TYPE_QT3DCORE_QNODE] QTextureLoader [[Qt3DCore_QNode_ptr]]
  ].

Definition constructors_qt3drender_3 : constructor_shard :=
  ConstructorShard Qt3DRender "KRY_QT6_NATIVE_CONSTRUCTORS_QT3DRENDER_"
    (constructors_qt3drender_3_i0)
    (constructors_qt3drender_3_r0 ++ constructors_qt3drender_3_r1 ++ constructors_qt3drender_3_r2)
    (constructors_qt3drender_3_c0).

Definition constructors_qt3drender_4_i0 : list include :=
  [
    ClassInclude Qt3DRender QTextureRectangle QTextureRectangle;
    ClassInclude Qt3DRender QTextureWrapMode QTextureWrapMode;
    ClassInclude Qt3DRender QViewport QViewport;
    ClassInclude Qt3DRender QWaitFence QWaitFence;
    TypeInclude Qt3DCore QNode TYPE_QT3DCORE_QNODE;
    TypeInclude QtCore QObject TYPE_QTCORE_QOBJECT;
    TypeInclude Qt3DRender QTextureWrapMode TYPE_QT3DRENDER_QTEXTUREWRAPMODE
  ].

Definition constructors_qt3drender_4_r0 : list constructor_row :=
  [
    Ctor QTextureRectangle 0 [Cand [TYPE_QT3DCORE_QNODE] [] None];
    Ctor QTextureWrapMode 0 [Cand [TYPE_QT3DRENDER_QTEXTUREWRAPMODE; TYPE_QTCORE_QOBJECT] [] None];
    Ctor QTextureWrapMode 1 [Cand [TYPE_QT3DRENDER_QTEXTUREWRAPMODE; TYPE_QTCORE_QOBJECT] [PValue
        Qt3DRender_QTextureWrapMode_WrapMode] None];
    Ctor QTextureWrapMode 3 [Cand [TYPE_QT3DRENDER_QTEXTUREWRAPMODE; TYPE_QTCORE_QOBJECT] [PValue
        Qt3DRender_QTextureWrapMode_WrapMode; PValue Qt3DRender_QTextureWrapMode_WrapMode; PValue
        Qt3DRender_QTextureWrapMode_WrapMode] None];
    Ctor QViewport 0 [Cand [TYPE_QT3DCORE_QNODE] [] None];
    Ctor QWaitFence 0 [Cand [TYPE_QT3DCORE_QNODE] [] None]
  ].

Definition constructors_qt3drender_4_c0 : list class_row :=
  [
    Cls [TYPE_QT3DCORE_QNODE] QTextureRectangle [[Qt3DCore_QNode_ptr]];
    Cls [TYPE_QT3DRENDER_QTEXTUREWRAPMODE; TYPE_QTCORE_QOBJECT] QTextureWrapMode
        [[Qt3DRender_QTextureWrapMode_WrapMode; QObject_ptr]; [Qt3DRender_QTextureWrapMode_WrapMode;
        Qt3DRender_QTextureWrapMode_WrapMode; Qt3DRender_QTextureWrapMode_WrapMode; QObject_ptr]];
    Cls [TYPE_QT3DCORE_QNODE] QViewport [[Qt3DCore_QNode_ptr]];
    Cls [TYPE_QT3DCORE_QNODE] QWaitFence [[Qt3DCore_QNode_ptr]]
  ].

Definition constructors_qt3drender_4 : constructor_shard :=
  ConstructorShard Qt3DRender "KRY_QT6_NATIVE_CONSTRUCTORS_QT3DRENDER_"
    (constructors_qt3drender_4_i0)
    (constructors_qt3drender_4_r0)
    (constructors_qt3drender_4_c0).

Definition constructors_qtbluetooth_0_i0 : list include :=
  [
    ClassInclude QtBluetooth QBluetoothDeviceDiscoveryAgent QBluetoothDeviceDiscoveryAgent;
    ClassInclude QtBluetooth QBluetoothLocalDevice QBluetoothLocalDevice;
    ClassInclude QtBluetooth QBluetoothServer QBluetoothServer;
    ClassInclude QtBluetooth QBluetoothServiceDiscoveryAgent QBluetoothServiceDiscoveryAgent;
    ClassInclude QtBluetooth QBluetoothSocket QBluetoothSocket;
    TypeInclude QtCore QObject TYPE_QTCORE_QOBJECT;
    TypeInclude QtBluetooth QBluetoothServiceInfo TYPE_QTBLUETOOTH_QBLUETOOTHSERVICEINFO;
    TypeInclude QtBluetooth QBluetoothAddress VALUE_TYPE_QTBLUETOOTH_QBLUETOOTHADDRESS
  ].

Definition constructors_qtbluetooth_0_r0 : list constructor_row :=
  [
    Ctor QBluetoothDeviceDiscoveryAgent 0 [Cand [TYPE_QTCORE_QOBJECT] [] None];
    Ctor QBluetoothDeviceDiscoveryAgent 1 [Cand [TYPE_QTCORE_QOBJECT;
        VALUE_TYPE_QTBLUETOOTH_QBLUETOOTHADDRESS] [PValue QBluetoothAddress] None];
    Ctor QBluetoothLocalDevice 0 [Cand [TYPE_QTCORE_QOBJECT] [] None];
    Ctor QBluetoothLocalDevice 1 [Cand [TYPE_QTCORE_QOBJECT; VALUE_TYPE_QTBLUETOOTH_QBLUETOOTHADDRESS]
        [PValue QBluetoothAddress] None];
    Ctor QBluetoothServer 1 [Cand [TYPE_QTBLUETOOTH_QBLUETOOTHSERVICEINFO; TYPE_QTCORE_QOBJECT] [PValue
        QBluetoothServiceInfo_Protocol] None];
    Ctor QBluetoothServiceDiscoveryAgent 0 [Cand [TYPE_QTCORE_QOBJECT] [] None];
    Ctor QBluetoothServiceDiscoveryAgent 1 [Cand [TYPE_QTCORE_QOBJECT;
        VALUE_TYPE_QTBLUETOOTH_QBLUETOOTHADDRESS] [PValue QBluetoothAddress] None]
  ].

Definition constructors_qtbluetooth_0_r1 : list constructor_row :=
  [
    Ctor QBluetoothSocket 0 [Cand [TYPE_QTCORE_QOBJECT] [] None];
    Ctor QBluetoothSocket 1 [Cand [TYPE_QTBLUETOOTH_QBLUETOOTHSERVICEINFO; TYPE_QTCORE_QOBJECT] [PValue
        QBluetoothServiceInfo_Protocol] None]
  ].

Definition constructors_qtbluetooth_0_c0 : list class_row :=
  [
    Cls [TYPE_QTCORE_QOBJECT; VALUE_TYPE_QTBLUETOOTH_QBLUETOOTHADDRESS] QBluetoothDeviceDiscoveryAgent
        [[QObject_ptr]; [QBluetoothAddress; QObject_ptr]];
    Cls [TYPE_QTCORE_QOBJECT; VALUE_TYPE_QTBLUETOOTH_QBLUETOOTHADDRESS] QBluetoothLocalDevice
        [[QObject_ptr]; [QBluetoothAddress; QObject_ptr]];
    Cls [TYPE_QTBLUETOOTH_QBLUETOOTHSERVICEINFO; TYPE_QTCORE_QOBJECT] QBluetoothServer
        [[QBluetoothServiceInfo_Protocol; QObject_ptr]];
    Cls [TYPE_QTCORE_QOBJECT; VALUE_TYPE_QTBLUETOOTH_QBLUETOOTHADDRESS] QBluetoothServiceDiscoveryAgent
        [[QObject_ptr]; [QBluetoothAddress; QObject_ptr]];
    Cls [TYPE_QTBLUETOOTH_QBLUETOOTHSERVICEINFO; TYPE_QTCORE_QOBJECT] QBluetoothSocket
        [[QBluetoothServiceInfo_Protocol; QObject_ptr]; [QObject_ptr]]
  ].

Definition constructors_qtbluetooth_0 : constructor_shard :=
  ConstructorShard QtBluetooth "KRY_QT6_NATIVE_CONSTRUCTORS_QTBLUETOOTH_"
    (constructors_qtbluetooth_0_i0)
    (constructors_qtbluetooth_0_r0 ++ constructors_qtbluetooth_0_r1)
    (constructors_qtbluetooth_0_c0).

Definition constructors_qtcharts_0_i0 : list include :=
  [
    ClassInclude QtCharts QAreaLegendMarker QAreaLegendMarker;
    ClassInclude QtCharts QAreaSeries QAreaSeries;
    ClassInclude QtCharts QBarCategoryAxis QBarCategoryAxis;
    ClassInclude QtCharts QBarLegendMarker QBarLegendMarker;
    ClassInclude QtCharts QBarSeries QBarSeries;
    ClassInclude QtCharts QBarSet QBarSet;
    ClassInclude QtCharts QBoxPlotLegendMarker QBoxPlotLegendMarker;
    ClassInclude QtCharts QBoxPlotSeries QBoxPlotSeries;
    ClassInclude QtCharts QBoxSet QBoxSet;
    ClassInclude QtCharts QCandlestickLegendMarker QCandlestickLegendMarker;
    ClassInclude QtCharts QCandlestickModelMapper QCandlestickModelMapper;
    ClassInclude QtCharts QCandlestickSeries QCandlestickSeries;
    ClassInclude QtCharts QCandlestickSet QCandlestickSet;
    ClassInclude QtCharts QCategoryAxis QCategoryAxis;
    ClassInclude QtCharts QChartView QChartView;
    ClassInclude QtCharts QDateTimeAxis QDateTimeAxis;
    ClassInclude QtCharts QHBarModelMapper QHBarModelMapper;
    ClassInclude QtCharts QHBoxPlotModelMapper QHBoxPlotModelMapper;
    ClassInclude QtCharts QHCandlestickModelMapper QHCandlestickModelMapper;
    ClassInclude QtCharts QHPieModelMapper QHPieModelMapper;
    ClassInclude QtCharts QHXYModelMapper QHXYModelMapper;
    ClassInclude QtCharts QHorizontalBarSeries QHorizontalBarSeries;
    ClassInclude QtCharts QHorizontalPercentBarSeries QHorizontalPercentBarSeries;
    ClassInclude QtCharts QHorizontalStackedBarSeries QHorizontalStackedBarSeries;
    TypeInclude QtCharts QAbstractBarSeries TYPE_QTCHARTS_QABSTRACTBARSERIES;
    TypeInclude QtCharts QAreaSeries TYPE_QTCHARTS_QAREASERIES;
    TypeInclude QtCharts QBarSet TYPE_QTCHARTS_QBARSET;
    TypeInclude QtCharts QBoxPlotSeries TYPE_QTCHARTS_QBOXPLOTSERIES;
    TypeInclude QtCharts QCandlestickSeries TYPE_QTCHARTS_QCANDLESTICKSERIES;
    TypeInclude QtCharts QChart TYPE_QTCHARTS_QCHART;
    TypeInclude QtCharts QLegend TYPE_QTCHARTS_QLEGEND;
    TypeInclude QtCharts QLineSeries TYPE_QTCHARTS_QLINESERIES;
    TypeInclude QtCore QObject TYPE_QTCORE_QOBJECT;
    TypeInclude QtWidgets QWidget TYPE_QTWIDGETS_QWIDGET
  ].

Definition constructors_qtcharts_0_r0 : list constructor_row :=
  [
    Ctor QAreaLegendMarker 2 [Cand [TYPE_QTCHARTS_QAREASERIES; TYPE_QTCHARTS_QLEGEND; TYPE_QTCORE_QOBJECT]
        [PObject QAreaSeries false; PObject QLegend false] None];
    Ctor QAreaSeries 0 [Cand [TYPE_QTCORE_QOBJECT] [] None];
    Ctor QAreaSeries 1 [Cand [TYPE_QTCHARTS_QLINESERIES] [PObject QLineSeries false] None];
    Ctor QAreaSeries 2 [Cand [TYPE_QTCHARTS_QLINESERIES] [PObject QLineSeries false; PObject QLineSeries
        false] None];
    Ctor QBarCategoryAxis 0 [Cand [TYPE_QTCORE_QOBJECT] [] None];
    Ctor QBarLegendMarker 3 [Cand [TYPE_QTCHARTS_QABSTRACTBARSERIES; TYPE_QTCHARTS_QBARSET;
        TYPE_QTCHARTS_QLEGEND; TYPE_QTCORE_QOBJECT] [PObject QAbstractBarSeries false; PObject QBarSet
        false; PObject QLegend false] None]
  ].

Definition constructors_qtcharts_0_r1 : list constructor_row :=
  [
    Ctor QBarSeries 0 [Cand [TYPE_QTCORE_QOBJECT] [] None];
    Ctor QBarSet 1 [Cand [TYPE_QTCORE_QOBJECT] [PString false] None];
    Ctor QBoxPlotLegendMarker 2 [Cand [TYPE_QTCHARTS_QBOXPLOTSERIES; TYPE_QTCHARTS_QLEGEND;
        TYPE_QTCORE_QOBJECT] [PObject QBoxPlotSeries false; PObject QLegend false] None];
    Ctor QBoxPlotSeries 0 [Cand [TYPE_QTCORE_QOBJECT] [] None];
    Ctor QBoxSet 0 [Cand [TYPE_QTCORE_QOBJECT] [] None];
    Ctor QBoxSet 1 [Cand [TYPE_QTCORE_QOBJECT] [PString false] None];
    Ctor QBoxSet 5 [Cand [TYPE_QTCORE_QOBJECT] [PNumber cxx_qreal; PNumber cxx_qreal; PNumber cxx_qreal;
        PNumber cxx_qreal; PNumber cxx_qreal] None]
  ].

Definition constructors_qtcharts_0_r2 : list constructor_row :=
  [
    Ctor QBoxSet 6 [Cand [TYPE_QTCORE_QOBJECT] [PNumber cxx_qreal; PNumber cxx_qreal; PNumber cxx_qreal;
        PNumber cxx_qreal; PNumber cxx_qreal; PString false] None];
    Ctor QCandlestickLegendMarker 2 [Cand [TYPE_QTCHARTS_QCANDLESTICKSERIES; TYPE_QTCHARTS_QLEGEND;
        TYPE_QTCORE_QOBJECT] [PObject QCandlestickSeries false; PObject QLegend false] None];
    Ctor QCandlestickModelMapper 0 [Cand [TYPE_QTCORE_QOBJECT] [] None];
    Ctor QCandlestickSeries 0 [Cand [TYPE_QTCORE_QOBJECT] [] None];
    Ctor QCandlestickSet 0 [Cand [TYPE_QTCORE_QOBJECT] [] None];
    Ctor QCandlestickSet 1 [Cand [TYPE_QTCORE_QOBJECT] [PNumber cxx_qreal] None]
  ].

Definition constructors_qtcharts_0_r3 : list constructor_row :=
  [
    Ctor QCandlestickSet 4 [Cand [TYPE_QTCORE_QOBJECT] [PNumber cxx_qreal; PNumber cxx_qreal; PNumber
        cxx_qreal; PNumber cxx_qreal] None];
    Ctor QCandlestickSet 5 [Cand [TYPE_QTCORE_QOBJECT] [PNumber cxx_qreal; PNumber cxx_qreal; PNumber
        cxx_qreal; PNumber cxx_qreal; PNumber cxx_qreal] None];
    Ctor QCategoryAxis 0 [Cand [TYPE_QTCORE_QOBJECT] [] None];
    Ctor QChartView 0 [Cand [TYPE_QTWIDGETS_QWIDGET] [] None];
    Ctor QChartView 1 [Cand [TYPE_QTCHARTS_QCHART; TYPE_QTWIDGETS_QWIDGET] [PObject QChart false] None];
    Ctor QDateTimeAxis 0 [Cand [TYPE_QTCORE_QOBJECT] [] None];
    Ctor QHBarModelMapper 0 [Cand [TYPE_QTCORE_QOBJECT] [] None]
  ].

Definition constructors_qtcharts_0_r4 : list constructor_row :=
  [
    Ctor QHBoxPlotModelMapper 0 [Cand [TYPE_QTCORE_QOBJECT] [] None];
    Ctor QHCandlestickModelMapper 0 [Cand [TYPE_QTCORE_QOBJECT] [] None];
    Ctor QHPieModelMapper 0 [Cand [TYPE_QTCORE_QOBJECT] [] None];
    Ctor QHXYModelMapper 0 [Cand [TYPE_QTCORE_QOBJECT] [] None];
    Ctor QHorizontalBarSeries 0 [Cand [TYPE_QTCORE_QOBJECT] [] None];
    Ctor QHorizontalPercentBarSeries 0 [Cand [TYPE_QTCORE_QOBJECT] [] None];
    Ctor QHorizontalStackedBarSeries 0 [Cand [TYPE_QTCORE_QOBJECT] [] None]
  ].

Definition constructors_qtcharts_0_c0 : list class_row :=
  [
    Cls [TYPE_QTCHARTS_QAREASERIES; TYPE_QTCHARTS_QLEGEND; TYPE_QTCORE_QOBJECT] QAreaLegendMarker
        [[QAreaSeries_ptr; QLegend_ptr; QObject_ptr]];
    Cls [TYPE_QTCHARTS_QLINESERIES; TYPE_QTCORE_QOBJECT] QAreaSeries [[QObject_ptr]; [QLineSeries_ptr;
        QLineSeries_ptr]];
    Cls [TYPE_QTCORE_QOBJECT] QBarCategoryAxis [[QObject_ptr]];
    Cls [TYPE_QTCHARTS_QABSTRACTBARSERIES; TYPE_QTCHARTS_QBARSET; TYPE_QTCHARTS_QLEGEND;
        TYPE_QTCORE_QOBJECT] QBarLegendMarker [[QAbstractBarSeries_ptr; QBarSet_ptr; QLegend_ptr;
        QObject_ptr]];
    Cls [TYPE_QTCORE_QOBJECT] QBarSeries [[QObject_ptr]];
    Cls [TYPE_QTCORE_QOBJECT] QBarSet [[QString; QObject_ptr]];
    Cls [TYPE_QTCHARTS_QBOXPLOTSERIES; TYPE_QTCHARTS_QLEGEND; TYPE_QTCORE_QOBJECT] QBoxPlotLegendMarker
        [[QBoxPlotSeries_ptr; QLegend_ptr; QObject_ptr]];
    Cls [TYPE_QTCORE_QOBJECT] QBoxPlotSeries [[QObject_ptr]];
    Cls [TYPE_QTCORE_QOBJECT] QBoxSet [[QString; QObject_ptr]; [cxx_qreal; cxx_qreal; cxx_qreal; cxx_qreal;
        cxx_qreal; QString; QObject_ptr]];
    Cls [TYPE_QTCHARTS_QCANDLESTICKSERIES; TYPE_QTCHARTS_QLEGEND; TYPE_QTCORE_QOBJECT]
        QCandlestickLegendMarker [[QCandlestickSeries_ptr; QLegend_ptr; QObject_ptr]];
    Cls [TYPE_QTCORE_QOBJECT] QCandlestickModelMapper [[QObject_ptr]];
    Cls [TYPE_QTCORE_QOBJECT] QCandlestickSeries [[QObject_ptr]];
    Cls [TYPE_QTCORE_QOBJECT] QCandlestickSet [[cxx_qreal; QObject_ptr]; [cxx_qreal; cxx_qreal; cxx_qreal;
        cxx_qreal; cxx_qreal; QObject_ptr]];
    Cls [TYPE_QTCORE_QOBJECT] QCategoryAxis [[QObject_ptr]];
    Cls [TYPE_QTCHARTS_QCHART; TYPE_QTWIDGETS_QWIDGET] QChartView [[QWidget_ptr]; [QChart_ptr;
        QWidget_ptr]];
    Cls [TYPE_QTCORE_QOBJECT] QDateTimeAxis [[QObject_ptr]];
    Cls [TYPE_QTCORE_QOBJECT] QHBarModelMapper [[QObject_ptr]];
    Cls [TYPE_QTCORE_QOBJECT] QHBoxPlotModelMapper [[QObject_ptr]];
    Cls [TYPE_QTCORE_QOBJECT] QHCandlestickModelMapper [[QObject_ptr]];
    Cls [TYPE_QTCORE_QOBJECT] QHPieModelMapper [[QObject_ptr]];
    Cls [TYPE_QTCORE_QOBJECT] QHXYModelMapper [[QObject_ptr]];
    Cls [TYPE_QTCORE_QOBJECT] QHorizontalBarSeries [[QObject_ptr]];
    Cls [TYPE_QTCORE_QOBJECT] QHorizontalPercentBarSeries [[QObject_ptr]];
    Cls [TYPE_QTCORE_QOBJECT] QHorizontalStackedBarSeries [[QObject_ptr]]
  ].

Definition constructors_qtcharts_0 : constructor_shard :=
  ConstructorShard QtCharts "KRY_QT6_NATIVE_CONSTRUCTORS_QTCHARTS_"
    (constructors_qtcharts_0_i0)
    (constructors_qtcharts_0_r0 ++ constructors_qtcharts_0_r1 ++ constructors_qtcharts_0_r2 ++
        constructors_qtcharts_0_r3 ++ constructors_qtcharts_0_r4)
    (constructors_qtcharts_0_c0).

Definition constructors_qtcharts_1_i0 : list include :=
  [
    ClassInclude QtCharts QLineSeries QLineSeries;
    ClassInclude QtCharts QLogValueAxis QLogValueAxis;
    ClassInclude QtCharts QPercentBarSeries QPercentBarSeries;
    ClassInclude QtCharts QPieLegendMarker QPieLegendMarker;
    ClassInclude QtCharts QPieSeries QPieSeries;
    ClassInclude QtCharts QPieSlice QPieSlice;
    ClassInclude QtCharts QScatterSeries QScatterSeries;
    ClassInclude QtCharts QSplineSeries QSplineSeries;
    ClassInclude QtCharts QStackedBarSeries QStackedBarSeries;
    ClassInclude QtCharts QVBarModelMapper QVBarModelMapper;
    ClassInclude QtCharts QVBoxPlotModelMapper QVBoxPlotModelMapper;
    ClassInclude QtCharts QVCandlestickModelMapper QVCandlestickModelMapper;
    ClassInclude QtCharts QVPieModelMapper QVPieModelMapper;
    ClassInclude QtCharts QVXYModelMapper QVXYModelMapper;
    ClassInclude QtCharts QValueAxis QValueAxis;
    ClassInclude QtCharts QXYLegendMarker QXYLegendMarker;
    TypeInclude QtCharts QLegend TYPE_QTCHARTS_QLEGEND;
    TypeInclude QtCharts QPieSeries TYPE_QTCHARTS_QPIESERIES;
    TypeInclude QtCharts QPieSlice TYPE_QTCHARTS_QPIESLICE;
    TypeInclude QtCharts QXYSeries TYPE_QTCHARTS_QXYSERIES;
    TypeInclude QtCore QObject TYPE_QTCORE_QOBJECT
  ].

Definition constructors_qtcharts_1_r0 : list constructor_row :=
  [
    Ctor QLineSeries 0 [Cand [TYPE_QTCORE_QOBJECT] [] None];
    Ctor QLogValueAxis 0 [Cand [TYPE_QTCORE_QOBJECT] [] None];
    Ctor QPercentBarSeries 0 [Cand [TYPE_QTCORE_QOBJECT] [] None];
    Ctor QPieLegendMarker 3 [Cand [TYPE_QTCHARTS_QLEGEND; TYPE_QTCHARTS_QPIESERIES;
        TYPE_QTCHARTS_QPIESLICE; TYPE_QTCORE_QOBJECT] [PObject QPieSeries false; PObject QPieSlice false;
        PObject QLegend false] None];
    Ctor QPieSeries 0 [Cand [TYPE_QTCORE_QOBJECT] [] None];
    Ctor QPieSlice 0 [Cand [TYPE_QTCORE_QOBJECT] [] None];
    Ctor QPieSlice 2 [Cand [TYPE_QTCORE_QOBJECT] [PString false; PNumber cxx_qreal] None]
  ].

Definition constructors_qtcharts_1_r1 : list constructor_row :=
  [
    Ctor QScatterSeries 0 [Cand [TYPE_QTCORE_QOBJECT] [] None];
    Ctor QSplineSeries 0 [Cand [TYPE_QTCORE_QOBJECT] [] None];
    Ctor QStackedBarSeries 0 [Cand [TYPE_QTCORE_QOBJECT] [] None];
    Ctor QVBarModelMapper 0 [Cand [TYPE_QTCORE_QOBJECT] [] None];
    Ctor QVBoxPlotModelMapper 0 [Cand [TYPE_QTCORE_QOBJECT] [] None];
    Ctor QVCandlestickModelMapper 0 [Cand [TYPE_QTCORE_QOBJECT] [] None];
    Ctor QVPieModelMapper 0 [Cand [TYPE_QTCORE_QOBJECT] [] None];
    Ctor QVXYModelMapper 0 [Cand [TYPE_QTCORE_QOBJECT] [] None]
  ].

Definition constructors_qtcharts_1_r2 : list constructor_row :=
  [
    Ctor QValueAxis 0 [Cand [TYPE_QTCORE_QOBJECT] [] None];
    Ctor QXYLegendMarker 2 [Cand [TYPE_QTCHARTS_QLEGEND; TYPE_QTCHARTS_QXYSERIES; TYPE_QTCORE_QOBJECT]
        [PObject QXYSeries false; PObject QLegend false] None]
  ].

Definition constructors_qtcharts_1_c0 : list class_row :=
  [
    Cls [TYPE_QTCORE_QOBJECT] QLineSeries [[QObject_ptr]];
    Cls [TYPE_QTCORE_QOBJECT] QLogValueAxis [[QObject_ptr]];
    Cls [TYPE_QTCORE_QOBJECT] QPercentBarSeries [[QObject_ptr]];
    Cls [TYPE_QTCHARTS_QLEGEND; TYPE_QTCHARTS_QPIESERIES; TYPE_QTCHARTS_QPIESLICE; TYPE_QTCORE_QOBJECT]
        QPieLegendMarker [[QPieSeries_ptr; QPieSlice_ptr; QLegend_ptr; QObject_ptr]];
    Cls [TYPE_QTCORE_QOBJECT] QPieSeries [[QObject_ptr]];
    Cls [TYPE_QTCORE_QOBJECT] QPieSlice [[QObject_ptr]; [QString; cxx_qreal; QObject_ptr]];
    Cls [TYPE_QTCORE_QOBJECT] QScatterSeries [[QObject_ptr]];
    Cls [TYPE_QTCORE_QOBJECT] QSplineSeries [[QObject_ptr]];
    Cls [TYPE_QTCORE_QOBJECT] QStackedBarSeries [[QObject_ptr]];
    Cls [TYPE_QTCORE_QOBJECT] QVBarModelMapper [[QObject_ptr]];
    Cls [TYPE_QTCORE_QOBJECT] QVBoxPlotModelMapper [[QObject_ptr]];
    Cls [TYPE_QTCORE_QOBJECT] QVCandlestickModelMapper [[QObject_ptr]];
    Cls [TYPE_QTCORE_QOBJECT] QVPieModelMapper [[QObject_ptr]];
    Cls [TYPE_QTCORE_QOBJECT] QVXYModelMapper [[QObject_ptr]];
    Cls [TYPE_QTCORE_QOBJECT] QValueAxis [[QObject_ptr]];
    Cls [TYPE_QTCHARTS_QLEGEND; TYPE_QTCHARTS_QXYSERIES; TYPE_QTCORE_QOBJECT] QXYLegendMarker
        [[QXYSeries_ptr; QLegend_ptr; QObject_ptr]]
  ].

Definition constructors_qtcharts_1 : constructor_shard :=
  ConstructorShard QtCharts "KRY_QT6_NATIVE_CONSTRUCTORS_QTCHARTS_"
    (constructors_qtcharts_1_i0)
    (constructors_qtcharts_1_r0 ++ constructors_qtcharts_1_r1 ++ constructors_qtcharts_1_r2)
    (constructors_qtcharts_1_c0).

Definition constructors_qtcore_0_i0 : list include :=
  [
    ClassInclude QtCore QAbstractAnimation QAbstractAnimation;
    ClassInclude QtCore QAbstractEventDispatcher QAbstractEventDispatcher;
    ClassInclude QtCore QAbstractItemModel QAbstractItemModel;
    ClassInclude QtCore QAbstractListModel QAbstractListModel;
    ClassInclude QtCore QAbstractProxyModel QAbstractProxyModel;
    ClassInclude QtCore QAbstractTableModel QAbstractTableModel;
    ClassInclude QtCore QAnimationGroup QAnimationGroup;
    ClassInclude QtCore QBuffer QBuffer;
    ClassInclude QtCore QConcatenateTablesProxyModel QConcatenateTablesProxyModel;
    ClassInclude QtCore QEventLoop QEventLoop;
    ClassInclude QtCore QFile QFile;
    ClassInclude QtCore QFileSelector QFileSelector;
    ClassInclude QtCore QFileSystemWatcher QFileSystemWatcher;
    ClassInclude QtCore QIODevice QIODevice;
    ClassInclude QtCore QIdentityProxyModel QIdentityProxyModel;
    ClassInclude QtCore QItemSelectionModel QItemSelectionModel;
    ClassInclude QtCore QLibrary QLibrary;
    ClassInclude QtCore QMimeData QMimeData;
    ClassInclude QtCore QObject QObject;
    ClassInclude QtCore QObjectCleanupHandler QObjectCleanupHandler;
    ClassInclude QtCore QParallelAnimationGroup QParallelAnimationGroup;
    ClassInclude QtCore QPauseAnimation QPauseAnimation;
    ClassInclude QtCore QPluginLoader QPluginLoader;
    ClassInclude QtCore QProcess QProcess;
    TypeInclude QtCore QAbstractItemModel TYPE_QTCORE_QABSTRACTITEMMODEL;
    TypeInclude QtCore QObject TYPE_QTCORE_QOBJECT
  ].

Definition constructors_qtcore_0_r0 : list constructor_row :=
  [
    Ctor QAbstractAnimation 0 [Cand [TYPE_QTCORE_QOBJECT] [] None];
    Ctor QAbstractEventDispatcher 0 [Cand [TYPE_QTCORE_QOBJECT] [] None];
    Ctor QAbstractItemModel 0 [Cand [TYPE_QTCORE_QOBJECT] [] None];
    Ctor QAbstractListModel 0 [Cand [TYPE_QTCORE_QOBJECT] [] None];
    Ctor QAbstractProxyModel 0 [Cand [TYPE_QTCORE_QOBJECT] [] None];
    Ctor QAbstractTableModel 0 [Cand [TYPE_QTCORE_QOBJECT] [] None];
    Ctor QAnimationGroup 0 [Cand [TYPE_QTCORE_QOBJECT] [] None];
    Ctor QBuffer 0 [Cand [TYPE_QTCORE_QOBJECT] [] None]
  ].

Definition constructors_qtcore_0_r1 : list constructor_row :=
  [
    Ctor QConcatenateTablesProxyModel 0 [Cand [TYPE_QTCORE_QOBJECT] [] None];
    Ctor QEventLoop 0 [Cand [TYPE_QTCORE_QOBJECT] [] None];
    Ctor QFile 0 [Cand [] [] None; Cand [TYPE_QTCORE_QOBJECT] [] (Some (0%nat, QObject))];
    Ctor QFile 1 [Cand [] [PString false] None; Cand [TYPE_QTCORE_QOBJECT] [PString false] (Some (1%nat,
        QObject))];
    Ctor QFileSelector 0 [Cand [TYPE_QTCORE_QOBJECT] [] None];
    Ctor QFileSystemWatcher 0 [Cand [TYPE_QTCORE_QOBJECT] [] None]
  ].

Definition constructors_qtcore_0_r2 : list constructor_row :=
  [
    Ctor QFileSystemWatcher 1 [Cand [TYPE_QTCORE_QOBJECT] [PStringList] None];
    Ctor QIODevice 0 [Cand [] [] None; Cand [TYPE_QTCORE_QOBJECT] [] (Some (0%nat, QObject))];
    Ctor QIdentityProxyModel 0 [Cand [TYPE_QTCORE_QOBJECT] [] None];
    Ctor QItemSelectionModel 0 [Cand [TYPE_QTCORE_QABSTRACTITEMMODEL] [] None];
    Ctor QItemSelectionModel 1 [Cand [TYPE_QTCORE_QABSTRACTITEMMODEL] [PObject QAbstractItemModel false]
        None; Cand [TYPE_QTCORE_QABSTRACTITEMMODEL; TYPE_QTCORE_QOBJECT] [PObject QAbstractItemModel false]
        (Some (1%nat, QObject))]
  ].

Definition constructors_qtcore_0_r3 : list constructor_row :=
  [
    Ctor QLibrary 0 [Cand [TYPE_QTCORE_QOBJECT] [] None];
    Ctor QLibrary 1 [Cand [TYPE_QTCORE_QOBJECT] [PString false] None];
    Ctor QLibrary 2 [Cand [TYPE_QTCORE_QOBJECT] [PString false; PInt] None; Cand [TYPE_QTCORE_QOBJECT]
        [PString false; PString false] None];
    Ctor QMimeData 0 [Cand [] [] None];
    Ctor QObject 0 [Cand [TYPE_QTCORE_QOBJECT] [] None];
    Ctor QObjectCleanupHandler 0 [Cand [] [] None]
  ].

Definition constructors_qtcore_0_r4 : list constructor_row :=
  [
    Ctor QParallelAnimationGroup 0 [Cand [TYPE_QTCORE_QOBJECT] [] None];
    Ctor QPauseAnimation 0 [Cand [TYPE_QTCORE_QOBJECT] [] None];
    Ctor QPauseAnimation 1 [Cand [TYPE_QTCORE_QOBJECT] [PInt] None];
    Ctor QPluginLoader 0 [Cand [TYPE_QTCORE_QOBJECT] [] None];
    Ctor QPluginLoader 1 [Cand [TYPE_QTCORE_QOBJECT] [PString false] None];
    Ctor QProcess 0 [Cand [TYPE_QTCORE_QOBJECT] [] None]
  ].

Definition constructors_qtcore_0_c0 : list class_row :=
  [
    Cls [TYPE_QTCORE_QOBJECT] QAbstractAnimation [[QObject_ptr]];
    Cls [TYPE_QTCORE_QOBJECT] QAbstractEventDispatcher [[QObject_ptr]];
    Cls [TYPE_QTCORE_QOBJECT] QAbstractItemModel [[QObject_ptr]];
    Cls [TYPE_QTCORE_QOBJECT] QAbstractListModel [[QObject_ptr]];
    Cls [TYPE_QTCORE_QOBJECT] QAbstractProxyModel [[QObject_ptr]];
    Cls [TYPE_QTCORE_QOBJECT] QAbstractTableModel [[QObject_ptr]];
    Cls [TYPE_QTCORE_QOBJECT] QAnimationGroup [[QObject_ptr]];
    Cls [TYPE_QTCORE_QOBJECT] QBuffer [[QObject_ptr]];
    Cls [TYPE_QTCORE_QOBJECT] QConcatenateTablesProxyModel [[QObject_ptr]];
    Cls [TYPE_QTCORE_QOBJECT] QEventLoop [[QObject_ptr]];
    Cls [TYPE_QTCORE_QOBJECT] QFile [[]; [QString]; [QObject_ptr]; [QString; QObject_ptr]];
    Cls [TYPE_QTCORE_QOBJECT] QFileSelector [[QObject_ptr]];
    Cls [TYPE_QTCORE_QOBJECT] QFileSystemWatcher [[QObject_ptr]; [QStringList; QObject_ptr]];
    Cls [TYPE_QTCORE_QOBJECT] QIODevice [[]; [QObject_ptr]];
    Cls [TYPE_QTCORE_QOBJECT] QIdentityProxyModel [[QObject_ptr]];
    Cls [TYPE_QTCORE_QABSTRACTITEMMODEL; TYPE_QTCORE_QOBJECT] QItemSelectionModel
        [[QAbstractItemModel_ptr]; [QAbstractItemModel_ptr; QObject_ptr]];
    Cls [TYPE_QTCORE_QOBJECT] QLibrary [[QObject_ptr]; [QString; QObject_ptr]; [QString; cxx_int;
        QObject_ptr]; [QString; QString; QObject_ptr]];
    Cls [] QMimeData [[]];
    Cls [TYPE_QTCORE_QOBJECT] QObject [[QObject_ptr]];
    Cls [] QObjectCleanupHandler [[]];
    Cls [TYPE_QTCORE_QOBJECT] QParallelAnimationGroup [[QObject_ptr]];
    Cls [TYPE_QTCORE_QOBJECT] QPauseAnimation [[QObject_ptr]; [cxx_int; QObject_ptr]];
    Cls [TYPE_QTCORE_QOBJECT] QPluginLoader [[QObject_ptr]; [QString; QObject_ptr]];
    Cls [TYPE_QTCORE_QOBJECT] QProcess [[QObject_ptr]]
  ].

Definition constructors_qtcore_0 : constructor_shard :=
  ConstructorShard QtCore "KRY_QT6_NATIVE_CONSTRUCTORS_QTCORE_"
    (constructors_qtcore_0_i0)
    (constructors_qtcore_0_r0 ++ constructors_qtcore_0_r1 ++ constructors_qtcore_0_r2 ++
        constructors_qtcore_0_r3 ++ constructors_qtcore_0_r4)
    (constructors_qtcore_0_c0).

Definition constructors_qtcore_1_i0 : list include :=
  [
    ClassInclude QtCore QPropertyAnimation QPropertyAnimation;
    ClassInclude QtCore QSaveFile QSaveFile;
    ClassInclude QtCore QSequentialAnimationGroup QSequentialAnimationGroup;
    ClassInclude QtCore QSettings QSettings;
    ClassInclude QtCore QSharedMemory QSharedMemory;
    ClassInclude QtCore QSignalMapper QSignalMapper;
    ClassInclude QtCore QSocketNotifier QSocketNotifier;
    ClassInclude QtCore QSortFilterProxyModel QSortFilterProxyModel;
    ClassInclude QtCore QStringListModel QStringListModel;
    ClassInclude QtCore QTemporaryFile QTemporaryFile;
    ClassInclude QtCore QThread QThread;
    ClassInclude QtCore QThreadPool QThreadPool;
    ClassInclude QtCore QTimeLine QTimeLine;
    ClassInclude QtCore QTimer QTimer;
    ClassInclude QtCore QTranslator QTranslator;
    ClassInclude QtCore QTransposeProxyModel QTransposeProxyModel;
    ClassInclude QtCore QVariantAnimation QVariantAnimation;
    ClassInclude QtCore QWinEventNotifier QWinEventNotifier;
    TypeInclude QtCore QObject TYPE_QTCORE_QOBJECT;
    EnumDefine ENUM_QT_HANDLE;
    TypeInclude QtCore QSettings TYPE_QTCORE_QSETTINGS;
    TypeInclude QtCore QSocketNotifier TYPE_QTCORE_QSOCKETNOTIFIER;
    TypeInclude QtCore QByteArray VALUE_TYPE_QTCORE_QBYTEARRAY;
    TypeInclude QtCore QNativeIpcKey VALUE_TYPE_QTCORE_QNATIVEIPCKEY
  ].

Definition constructors_qtcore_1_r0 : list constructor_row :=
  [
    Ctor QPropertyAnimation 0 [Cand [TYPE_QTCORE_QOBJECT] [] None];
    Ctor QPropertyAnimation 2 [Cand [TYPE_QTCORE_QOBJECT; VALUE_TYPE_QTCORE_QBYTEARRAY] [PObject QObject
        false; PValue QByteArray] None];
    Ctor QSaveFile 0 [Cand [TYPE_QTCORE_QOBJECT] [] None];
    Ctor QSaveFile 1 [Cand [TYPE_QTCORE_QOBJECT] [PString false] None];
    Ctor QSequentialAnimationGroup 0 [Cand [TYPE_QTCORE_QOBJECT] [] None];
    Ctor QSettings 0 [Cand [TYPE_QTCORE_QOBJECT] [] None]
  ].

Definition constructors_qtcore_1_r1 : list constructor_row :=
  [
    Ctor QSettings 1 [Cand [TYPE_QTCORE_QOBJECT] [PString false] None; Cand [TYPE_QTCORE_QOBJECT;
        TYPE_QTCORE_QSETTINGS] [PValue QSettings_Scope] None];
    Ctor QSettings 2 [Cand [TYPE_QTCORE_QOBJECT] [PString false; PString false] None; Cand
        [TYPE_QTCORE_QOBJECT; TYPE_QTCORE_QSETTINGS] [PValue QSettings_Scope; PString false] None; Cand
        [TYPE_QTCORE_QOBJECT; TYPE_QTCORE_QSETTINGS] [PString false; PValue QSettings_Format] None];
    Ctor QSettings 3 [Cand [TYPE_QTCORE_QOBJECT; TYPE_QTCORE_QSETTINGS] [PValue QSettings_Scope; PString
        false; PString false] None; Cand [TYPE_QTCORE_QOBJECT; TYPE_QTCORE_QSETTINGS] [PValue
        QSettings_Format; PValue QSettings_Scope; PString false] None]
  ].

Definition constructors_qtcore_1_r2 : list constructor_row :=
  [
    Ctor QSettings 4 [Cand [TYPE_QTCORE_QOBJECT; TYPE_QTCORE_QSETTINGS] [PValue QSettings_Format; PValue
        QSettings_Scope; PString false; PString false] None];
    Ctor QSharedMemory 0 [Cand [TYPE_QTCORE_QOBJECT] [] None];
    Ctor QSharedMemory 1 [Cand [TYPE_QTCORE_QOBJECT; VALUE_TYPE_QTCORE_QNATIVEIPCKEY] [PValue
        QNativeIpcKey] None; Cand [TYPE_QTCORE_QOBJECT] [PString false] None];
    Ctor QSignalMapper 0 [Cand [TYPE_QTCORE_QOBJECT] [] None];
    Ctor QSocketNotifier 1 [Cand [TYPE_QTCORE_QOBJECT; TYPE_QTCORE_QSOCKETNOTIFIER] [PValue
        QSocketNotifier_Type] None];
    Ctor QSortFilterProxyModel 0 [Cand [TYPE_QTCORE_QOBJECT] [] None]
  ].

Definition constructors_qtcore_1_r3 : list constructor_row :=
  [
    Ctor QStringListModel 0 [Cand [TYPE_QTCORE_QOBJECT] [] None];
    Ctor QStringListModel 1 [Cand [TYPE_QTCORE_QOBJECT] [PStringList] None];
    Ctor QTemporaryFile 0 [Cand [] [] None; Cand [TYPE_QTCORE_QOBJECT] [] (Some (0%nat, QObject))];
    Ctor QTemporaryFile 1 [Cand [] [PString false] None; Cand [TYPE_QTCORE_QOBJECT] [PString false] (Some
        (1%nat, QObject))];
    Ctor QThread 0 [Cand [TYPE_QTCORE_QOBJECT] [] None]
  ].

Definition constructors_qtcore_1_r4 : list constructor_row :=
  [
    Ctor QThreadPool 0 [Cand [TYPE_QTCORE_QOBJECT] [] None];
    Ctor QTimeLine 0 [Cand [TYPE_QTCORE_QOBJECT] [] None];
    Ctor QTimeLine 1 [Cand [TYPE_QTCORE_QOBJECT] [PInt] None];
    Ctor QTimer 0 [Cand [TYPE_QTCORE_QOBJECT] [] None];
    Ctor QTranslator 0 [Cand [TYPE_QTCORE_QOBJECT] [] None];
    Ctor QTransposeProxyModel 0 [Cand [TYPE_QTCORE_QOBJECT] [] None];
    Ctor QVariantAnimation 0 [Cand [TYPE_QTCORE_QOBJECT] [] None]
  ].

Definition constructors_qtcore_1_r5 : list constructor_row :=
  [
    Ctor QWinEventNotifier 0 [Cand [TYPE_QTCORE_QOBJECT] [] None];
    Ctor QWinEventNotifier 1 [Cand [ENUM_QT_HANDLE; TYPE_QTCORE_QOBJECT] [PValue Qt_HANDLE] None]
  ].

Definition constructors_qtcore_1_c0 : list class_row :=
  [
    Cls [TYPE_QTCORE_QOBJECT; VALUE_TYPE_QTCORE_QBYTEARRAY] QPropertyAnimation [[QObject_ptr];
        [QObject_ptr; QByteArray; QObject_ptr]];
    Cls [TYPE_QTCORE_QOBJECT] QSaveFile [[QString; QObject_ptr]; [QObject_ptr]];
    Cls [TYPE_QTCORE_QOBJECT] QSequentialAnimationGroup [[QObject_ptr]];
    Cls [TYPE_QTCORE_QOBJECT; TYPE_QTCORE_QSETTINGS] QSettings [[QString; QString; QObject_ptr];
        [QSettings_Scope; QString; QString; QObject_ptr]; [QSettings_Format; QSettings_Scope; QString;
        QString; QObject_ptr]; [QString; QSettings_Format; QObject_ptr]; [QSettings_Scope; QObject_ptr];
        [QObject_ptr]];
    Cls [TYPE_QTCORE_QOBJECT; VALUE_TYPE_QTCORE_QNATIVEIPCKEY] QSharedMemory [[QObject_ptr];
        [QNativeIpcKey; QObject_ptr]; [QString; QObject_ptr]];
    Cls [TYPE_QTCORE_QOBJECT] QSignalMapper [[QObject_ptr]];
    Cls [TYPE_QTCORE_QOBJECT; TYPE_QTCORE_QSOCKETNOTIFIER] QSocketNotifier [[QSocketNotifier_Type;
        QObject_ptr]];
    Cls [TYPE_QTCORE_QOBJECT] QSortFilterProxyModel [[QObject_ptr]];
    Cls [TYPE_QTCORE_QOBJECT] QStringListModel [[QObject_ptr]; [QStringList; QObject_ptr]];
    Cls [TYPE_QTCORE_QOBJECT] QTemporaryFile [[]; [QString]; [QObject_ptr]; [QString; QObject_ptr]];
    Cls [TYPE_QTCORE_QOBJECT] QThread [[QObject_ptr]];
    Cls [TYPE_QTCORE_QOBJECT] QThreadPool [[QObject_ptr]];
    Cls [TYPE_QTCORE_QOBJECT] QTimeLine [[cxx_int; QObject_ptr]];
    Cls [TYPE_QTCORE_QOBJECT] QTimer [[QObject_ptr]];
    Cls [TYPE_QTCORE_QOBJECT] QTranslator [[QObject_ptr]];
    Cls [TYPE_QTCORE_QOBJECT] QTransposeProxyModel [[QObject_ptr]];
    Cls [TYPE_QTCORE_QOBJECT] QVariantAnimation [[QObject_ptr]];
    Cls [ENUM_QT_HANDLE; TYPE_QTCORE_QOBJECT] QWinEventNotifier [[QObject_ptr]; [Qt_HANDLE; QObject_ptr]]
  ].

Definition constructors_qtcore_1 : constructor_shard :=
  ConstructorShard QtCore "KRY_QT6_NATIVE_CONSTRUCTORS_QTCORE_"
    (constructors_qtcore_1_i0)
    (constructors_qtcore_1_r0 ++ constructors_qtcore_1_r1 ++ constructors_qtcore_1_r2 ++
        constructors_qtcore_1_r3 ++ constructors_qtcore_1_r4 ++ constructors_qtcore_1_r5)
    (constructors_qtcore_1_c0).

Definition constructors_qtdatavisualization_0_i0 : list include :=
  [
    ClassInclude QtDataVisualization Q3DCamera Q3DCamera;
    ClassInclude QtDataVisualization Q3DInputHandler Q3DInputHandler;
    ClassInclude QtDataVisualization Q3DLight Q3DLight;
    ClassInclude QtDataVisualization Q3DObject Q3DObject;
    ClassInclude QtDataVisualization Q3DScene Q3DScene;
    ClassInclude QtDataVisualization Q3DTheme Q3DTheme;
    ClassInclude QtDataVisualization QBar3DSeries QBar3DSeries;
    ClassInclude QtDataVisualization QBarDataProxy QBarDataProxy;
    ClassInclude QtDataVisualization QCategory3DAxis QCategory3DAxis;
    ClassInclude QtDataVisualization QCustom3DItem QCustom3DItem;
    ClassInclude QtDataVisualization QCustom3DLabel QCustom3DLabel;
    ClassInclude QtDataVisualization QCustom3DVolume QCustom3DVolume;
    ClassInclude QtDataVisualization QHeightMapSurfaceDataProxy QHeightMapSurfaceDataProxy;
    ClassInclude QtDataVisualization QItemModelBarDataProxy QItemModelBarDataProxy;
    ClassInclude QtDataVisualization QItemModelScatterDataProxy QItemModelScatterDataProxy;
    ClassInclude QtDataVisualization QItemModelSurfaceDataProxy QItemModelSurfaceDataProxy;
    ClassInclude QtDataVisualization QLogValue3DAxisFormatter QLogValue3DAxisFormatter;
    ClassInclude QtDataVisualization QScatter3DSeries QScatter3DSeries;
    ClassInclude QtDataVisualization QScatterDataProxy QScatterDataProxy;
    ClassInclude QtDataVisualization QSurface3DSeries QSurface3DSeries;
    ClassInclude QtDataVisualization QSurfaceDataProxy QSurfaceDataProxy;
    ClassInclude QtDataVisualization QTouch3DInputHandler QTouch3DInputHandler;
    ClassInclude QtDataVisualization QValue3DAxis QValue3DAxis;
    ClassInclude QtDataVisualization QValue3DAxisFormatter QValue3DAxisFormatter;
    TypeInclude QtCore QAbstractItemModel TYPE_QTCORE_QABSTRACTITEMMODEL;
    TypeInclude QtCore QObject TYPE_QTCORE_QOBJECT;
    TypeInclude QtDataVisualization QBarDataProxy TYPE_QTDATAVISUALIZATION_QBARDATAPROXY;
    TypeInclude QtDataVisualization QScatterDataProxy TYPE_QTDATAVISUALIZATION_QSCATTERDATAPROXY;
    TypeInclude QtDataVisualization QSurfaceDataProxy TYPE_QTDATAVISUALIZATION_QSURFACEDATAPROXY;
    TypeInclude QtDataVisualization Q3DTheme TYPE_QTDATAVISUALIZATION_Q3DTHEME;
    TypeInclude QtGui QFont VALUE_TYPE_QTGUI_QFONT;
    TypeInclude QtGui QImage VALUE_TYPE_QTGUI_QIMAGE;
    TypeInclude QtGui QQuaternion VALUE_TYPE_QTGUI_QQUATERNION;
    TypeInclude QtGui QVector3D VALUE_TYPE_QTGUI_QVECTOR3D
  ].

Definition constructors_qtdatavisualization_0_r0 : list constructor_row :=
  [
    Ctor Q3DCamera 0 [Cand [TYPE_QTCORE_QOBJECT] [] None];
    Ctor Q3DInputHandler 0 [Cand [TYPE_QTCORE_QOBJECT] [] None];
    Ctor Q3DLight 0 [Cand [TYPE_QTCORE_QOBJECT] [] None];
    Ctor Q3DObject 0 [Cand [TYPE_QTCORE_QOBJECT] [] None];
    Ctor Q3DScene 0 [Cand [TYPE_QTCORE_QOBJECT] [] None];
    Ctor Q3DTheme 0 [Cand [TYPE_QTCORE_QOBJECT] [] None];
    Ctor Q3DTheme 1 [Cand [TYPE_QTCORE_QOBJECT; TYPE_QTDATAVISUALIZATION_Q3DTHEME] [PValue Q3DTheme_Theme]
        None]
  ].

Definition constructors_qtdatavisualization_0_r1 : list constructor_row :=
  [
    Ctor QBar3DSeries 0 [Cand [TYPE_QTCORE_QOBJECT] [] None];
    Ctor QBar3DSeries 1 [Cand [TYPE_QTCORE_QOBJECT; TYPE_QTDATAVISUALIZATION_QBARDATAPROXY] [PObject
        QBarDataProxy false] None];
    Ctor QBarDataProxy 0 [Cand [TYPE_QTCORE_QOBJECT] [] None];
    Ctor QCategory3DAxis 0 [Cand [TYPE_QTCORE_QOBJECT] [] None];
    Ctor QCustom3DItem 0 [Cand [TYPE_QTCORE_QOBJECT] [] None];
    Ctor QCustom3DItem 5 [Cand [TYPE_QTCORE_QOBJECT; VALUE_TYPE_QTGUI_QIMAGE; VALUE_TYPE_QTGUI_QQUATERNION;
        VALUE_TYPE_QTGUI_QVECTOR3D] [PString false; PValue QVector3D; PValue QVector3D; PValue QQuaternion;
        PValue QImage] None];
    Ctor QCustom3DLabel 0 [Cand [TYPE_QTCORE_QOBJECT] [] None]
  ].

Definition constructors_qtdatavisualization_0_r2 : list constructor_row :=
  [
    Ctor QCustom3DLabel 5 [Cand [TYPE_QTCORE_QOBJECT; VALUE_TYPE_QTGUI_QFONT; VALUE_TYPE_QTGUI_QQUATERNION;
        VALUE_TYPE_QTGUI_QVECTOR3D] [PString false; PValue QFont; PValue QVector3D; PValue QVector3D;
        PValue QQuaternion] None];
    Ctor QCustom3DVolume 0 [Cand [TYPE_QTCORE_QOBJECT] [] None];
    Ctor QHeightMapSurfaceDataProxy 0 [Cand [TYPE_QTCORE_QOBJECT] [] None];
    Ctor QHeightMapSurfaceDataProxy 1 [Cand [TYPE_QTCORE_QOBJECT; VALUE_TYPE_QTGUI_QIMAGE] [PValue QImage]
        None; Cand [TYPE_QTCORE_QOBJECT] [PString false] None];
    Ctor QItemModelBarDataProxy 0 [Cand [TYPE_QTCORE_QOBJECT] [] None];
    Ctor QItemModelBarDataProxy 1 [Cand [TYPE_QTCORE_QABSTRACTITEMMODEL; TYPE_QTCORE_QOBJECT] [PObject
        QAbstractItemModel false] None]
  ].

Definition constructors_qtdatavisualization_0_r3 : list constructor_row :=
  [
    Ctor QItemModelBarDataProxy 2 [Cand [TYPE_QTCORE_QABSTRACTITEMMODEL; TYPE_QTCORE_QOBJECT] [PObject
        QAbstractItemModel false; PString false] None];
    Ctor QItemModelBarDataProxy 4 [Cand [TYPE_QTCORE_QABSTRACTITEMMODEL; TYPE_QTCORE_QOBJECT] [PObject
        QAbstractItemModel false; PString false; PString false; PString false] None];
    Ctor QItemModelBarDataProxy 5 [Cand [TYPE_QTCORE_QABSTRACTITEMMODEL; TYPE_QTCORE_QOBJECT] [PObject
        QAbstractItemModel false; PString false; PString false; PString false; PString false] None];
    Ctor QItemModelBarDataProxy 6 [Cand [TYPE_QTCORE_QABSTRACTITEMMODEL; TYPE_QTCORE_QOBJECT] [PObject
        QAbstractItemModel false; PString false; PString false; PString false; PStringList; PStringList]
        None];
    Ctor QItemModelBarDataProxy 7 [Cand [TYPE_QTCORE_QABSTRACTITEMMODEL; TYPE_QTCORE_QOBJECT] [PObject
        QAbstractItemModel false; PString false; PString false; PString false; PString false; PStringList;
        PStringList] None]
  ].

Definition constructors_qtdatavisualization_0_r4 : list constructor_row :=
  [
    Ctor QItemModelScatterDataProxy 0 [Cand [TYPE_QTCORE_QOBJECT] [] None];
    Ctor QItemModelScatterDataProxy 1 [Cand [TYPE_QTCORE_QABSTRACTITEMMODEL; TYPE_QTCORE_QOBJECT] [PObject
        QAbstractItemModel false] None];
    Ctor QItemModelScatterDataProxy 4 [Cand [TYPE_QTCORE_QABSTRACTITEMMODEL; TYPE_QTCORE_QOBJECT] [PObject
        QAbstractItemModel false; PString false; PString false; PString false] None];
    Ctor QItemModelScatterDataProxy 5 [Cand [TYPE_QTCORE_QABSTRACTITEMMODEL; TYPE_QTCORE_QOBJECT] [PObject
        QAbstractItemModel false; PString false; PString false; PString false; PString false] None];
    Ctor QItemModelSurfaceDataProxy 0 [Cand [TYPE_QTCORE_QOBJECT] [] None];
    Ctor QItemModelSurfaceDataProxy 1 [Cand [TYPE_QTCORE_QABSTRACTITEMMODEL; TYPE_QTCORE_QOBJECT] [PObject
        QAbstractItemModel false] None]
  ].

Definition constructors_qtdatavisualization_0_r5 : list constructor_row :=
  [
    Ctor QItemModelSurfaceDataProxy 2 [Cand [TYPE_QTCORE_QABSTRACTITEMMODEL; TYPE_QTCORE_QOBJECT] [PObject
        QAbstractItemModel false; PString false] None];
    Ctor QItemModelSurfaceDataProxy 4 [Cand [TYPE_QTCORE_QABSTRACTITEMMODEL; TYPE_QTCORE_QOBJECT] [PObject
        QAbstractItemModel false; PString false; PString false; PString false] None];
    Ctor QItemModelSurfaceDataProxy 6 [Cand [TYPE_QTCORE_QABSTRACTITEMMODEL; TYPE_QTCORE_QOBJECT] [PObject
        QAbstractItemModel false; PString false; PString false; PString false; PStringList; PStringList]
        None; Cand [TYPE_QTCORE_QABSTRACTITEMMODEL; TYPE_QTCORE_QOBJECT] [PObject QAbstractItemModel false;
        PString false; PString false; PString false; PString false; PString false] None];
    Ctor QItemModelSurfaceDataProxy 8 [Cand [TYPE_QTCORE_QABSTRACTITEMMODEL; TYPE_QTCORE_QOBJECT] [PObject
        QAbstractItemModel false; PString false; PString false; PString false; PString false; PString
        false; PStringList; PStringList] None]
  ].

Definition constructors_qtdatavisualization_0_r6 : list constructor_row :=
  [
    Ctor QLogValue3DAxisFormatter 0 [Cand [TYPE_QTCORE_QOBJECT] [] None];
    Ctor QScatter3DSeries 0 [Cand [TYPE_QTCORE_QOBJECT] [] None];
    Ctor QScatter3DSeries 1 [Cand [TYPE_QTCORE_QOBJECT; TYPE_QTDATAVISUALIZATION_QSCATTERDATAPROXY]
        [PObject QScatterDataProxy false] None];
    Ctor QScatterDataProxy 0 [Cand [TYPE_QTCORE_QOBJECT] [] None];
    Ctor QSurface3DSeries 0 [Cand [TYPE_QTCORE_QOBJECT] [] None];
    Ctor QSurface3DSeries 1 [Cand [TYPE_QTCORE_QOBJECT; TYPE_QTDATAVISUALIZATION_QSURFACEDATAPROXY]
        [PObject QSurfaceDataProxy false] None];
    Ctor QSurfaceDataProxy 0 [Cand [TYPE_QTCORE_QOBJECT] [] None]
  ].

Definition constructors_qtdatavisualization_0_r7 : list constructor_row :=
  [
    Ctor QTouch3DInputHandler 0 [Cand [TYPE_QTCORE_QOBJECT] [] None];
    Ctor QValue3DAxis 0 [Cand [TYPE_QTCORE_QOBJECT] [] None];
    Ctor QValue3DAxisFormatter 0 [Cand [TYPE_QTCORE_QOBJECT] [] None]
  ].

Definition constructors_qtdatavisualization_0_c0 : list class_row :=
  [
    Cls [TYPE_QTCORE_QOBJECT] Q3DCamera [[QObject_ptr]];
    Cls [TYPE_QTCORE_QOBJECT] Q3DInputHandler [[QObject_ptr]];
    Cls [TYPE_QTCORE_QOBJECT] Q3DLight [[QObject_ptr]];
    Cls [TYPE_QTCORE_QOBJECT] Q3DObject [[QObject_ptr]];
    Cls [TYPE_QTCORE_QOBJECT] Q3DScene [[QObject_ptr]];
    Cls [TYPE_QTCORE_QOBJECT; TYPE_QTDATAVISUALIZATION_Q3DTHEME] Q3DTheme [[QObject_ptr]; [Q3DTheme_Theme;
        QObject_ptr]];
    Cls [TYPE_QTCORE_QOBJECT; TYPE_QTDATAVISUALIZATION_QBARDATAPROXY] QBar3DSeries [[QBarDataProxy_ptr;
        QObject_ptr]; [QObject_ptr]];
    Cls [TYPE_QTCORE_QOBJECT] QBarDataProxy [[QObject_ptr]];
    Cls [TYPE_QTCORE_QOBJECT] QCategory3DAxis [[QObject_ptr]];
    Cls [TYPE_QTCORE_QOBJECT; VALUE_TYPE_QTGUI_QIMAGE; VALUE_TYPE_QTGUI_QQUATERNION;
        VALUE_TYPE_QTGUI_QVECTOR3D] QCustom3DItem [[QObject_ptr]; [QString; QVector3D; QVector3D;
        QQuaternion; QImage; QObject_ptr]];
    Cls [TYPE_QTCORE_QOBJECT; VALUE_TYPE_QTGUI_QFONT; VALUE_TYPE_QTGUI_QQUATERNION;
        VALUE_TYPE_QTGUI_QVECTOR3D] QCustom3DLabel [[QObject_ptr]; [QString; QFont; QVector3D; QVector3D;
        QQuaternion; QObject_ptr]];
    Cls [TYPE_QTCORE_QOBJECT] QCustom3DVolume [[QObject_ptr]];
    Cls [TYPE_QTCORE_QOBJECT; VALUE_TYPE_QTGUI_QIMAGE] QHeightMapSurfaceDataProxy [[QObject_ptr]; [QImage;
        QObject_ptr]; [QString; QObject_ptr]];
    Cls [TYPE_QTCORE_QABSTRACTITEMMODEL; TYPE_QTCORE_QOBJECT] QItemModelBarDataProxy
        [[QAbstractItemModel_ptr; QObject_ptr]; [QAbstractItemModel_ptr; QString; QObject_ptr];
        [QAbstractItemModel_ptr; QString; QString; QString; QObject_ptr]; [QAbstractItemModel_ptr; QString;
        QString; QString; QString; QObject_ptr]; [QAbstractItemModel_ptr; QString; QString; QString;
        QStringList; QStringList; QObject_ptr]; [QAbstractItemModel_ptr; QString; QString; QString;
        QString; QStringList; QStringList; QObject_ptr]; [QObject_ptr]];
    Cls [TYPE_QTCORE_QABSTRACTITEMMODEL; TYPE_QTCORE_QOBJECT] QItemModelScatterDataProxy
        [[QAbstractItemModel_ptr; QObject_ptr]; [QAbstractItemModel_ptr; QString; QString; QString;
        QObject_ptr]; [QAbstractItemModel_ptr; QString; QString; QString; QString; QObject_ptr];
        [QObject_ptr]];
    Cls [TYPE_QTCORE_QABSTRACTITEMMODEL; TYPE_QTCORE_QOBJECT] QItemModelSurfaceDataProxy
        [[QAbstractItemModel_ptr; QObject_ptr]; [QAbstractItemModel_ptr; QString; QObject_ptr];
        [QAbstractItemModel_ptr; QString; QString; QString; QObject_ptr]; [QAbstractItemModel_ptr; QString;
        QString; QString; QStringList; QStringList; QObject_ptr]; [QAbstractItemModel_ptr; QString;
        QString; QString; QString; QString; QObject_ptr]; [QAbstractItemModel_ptr; QString; QString;
        QString; QString; QString; QStringList; QStringList; QObject_ptr]; [QObject_ptr]];
    Cls [TYPE_QTCORE_QOBJECT] QLogValue3DAxisFormatter [[QObject_ptr]];
    Cls [TYPE_QTCORE_QOBJECT; TYPE_QTDATAVISUALIZATION_QSCATTERDATAPROXY] QScatter3DSeries
        [[QScatterDataProxy_ptr; QObject_ptr]; [QObject_ptr]];
    Cls [TYPE_QTCORE_QOBJECT] QScatterDataProxy [[QObject_ptr]];
    Cls [TYPE_QTCORE_QOBJECT; TYPE_QTDATAVISUALIZATION_QSURFACEDATAPROXY] QSurface3DSeries
        [[QSurfaceDataProxy_ptr; QObject_ptr]; [QObject_ptr]];
    Cls [TYPE_QTCORE_QOBJECT] QSurfaceDataProxy [[QObject_ptr]];
    Cls [TYPE_QTCORE_QOBJECT] QTouch3DInputHandler [[QObject_ptr]];
    Cls [TYPE_QTCORE_QOBJECT] QValue3DAxis [[QObject_ptr]];
    Cls [TYPE_QTCORE_QOBJECT] QValue3DAxisFormatter [[QObject_ptr]]
  ].

Definition constructors_qtdatavisualization_0 : constructor_shard :=
  ConstructorShard QtDataVisualization "KRY_QT6_NATIVE_CONSTRUCTORS_QTDATAVISUALIZATION_"
    (constructors_qtdatavisualization_0_i0)
    (constructors_qtdatavisualization_0_r0 ++ constructors_qtdatavisualization_0_r1 ++
        constructors_qtdatavisualization_0_r2 ++ constructors_qtdatavisualization_0_r3 ++
        constructors_qtdatavisualization_0_r4 ++ constructors_qtdatavisualization_0_r5 ++
        constructors_qtdatavisualization_0_r6 ++ constructors_qtdatavisualization_0_r7)
    (constructors_qtdatavisualization_0_c0).

Definition constructors_qtdbus_0_i0 : list include :=
  [
    ClassInclude QtDBus QDBusInterface QDBusInterface;
    ClassInclude QtDBus QDBusPendingCallWatcher QDBusPendingCallWatcher;
    ClassInclude QtDBus QDBusServiceWatcher QDBusServiceWatcher;
    TypeInclude QtCore QObject TYPE_QTCORE_QOBJECT;
    TypeInclude QtDBus QDBusServiceWatcher TYPE_QTDBUS_QDBUSSERVICEWATCHER;
    TypeInclude QtDBus QDBusConnection VALUE_TYPE_QTDBUS_QDBUSCONNECTION;
    TypeInclude QtDBus QDBusPendingCall VALUE_TYPE_QTDBUS_QDBUSPENDINGCALL
  ].

Definition constructors_qtdbus_0_r0 : list constructor_row :=
  [
    Ctor QDBusInterface 2 [Cand [TYPE_QTCORE_QOBJECT; VALUE_TYPE_QTDBUS_QDBUSCONNECTION] [PString false;
        PString false] None];
    Ctor QDBusInterface 3 [Cand [TYPE_QTCORE_QOBJECT; VALUE_TYPE_QTDBUS_QDBUSCONNECTION] [PString false;
        PString false; PString false] None];
    Ctor QDBusInterface 4 [Cand [TYPE_QTCORE_QOBJECT; VALUE_TYPE_QTDBUS_QDBUSCONNECTION] [PString false;
        PString false; PString false; PValue QDBusConnection] None];
    Ctor QDBusPendingCallWatcher 1 [Cand [TYPE_QTCORE_QOBJECT; VALUE_TYPE_QTDBUS_QDBUSPENDINGCALL] [PValue
        QDBusPendingCall] None];
    Ctor QDBusServiceWatcher 0 [Cand [TYPE_QTCORE_QOBJECT] [] None];
    Ctor QDBusServiceWatcher 2 [Cand [TYPE_QTCORE_QOBJECT; TYPE_QTDBUS_QDBUSSERVICEWATCHER;
        VALUE_TYPE_QTDBUS_QDBUSCONNECTION] [PString false; PValue QDBusConnection] None]
  ].

Definition constructors_qtdbus_0_r1 : list constructor_row :=
  [
    Ctor QDBusServiceWatcher 3 [Cand [TYPE_QTCORE_QOBJECT; TYPE_QTDBUS_QDBUSSERVICEWATCHER;
        VALUE_TYPE_QTDBUS_QDBUSCONNECTION] [PString false; PValue QDBusConnection; PValue
        QDBusServiceWatcher_WatchMode] None]
  ].

Definition constructors_qtdbus_0_c0 : list class_row :=
  [
    Cls [TYPE_QTCORE_QOBJECT; VALUE_TYPE_QTDBUS_QDBUSCONNECTION] QDBusInterface [[QString; QString;
        QString; QDBusConnection; QObject_ptr]];
    Cls [TYPE_QTCORE_QOBJECT; VALUE_TYPE_QTDBUS_QDBUSPENDINGCALL] QDBusPendingCallWatcher
        [[QDBusPendingCall; QObject_ptr]];
    Cls [TYPE_QTCORE_QOBJECT; TYPE_QTDBUS_QDBUSSERVICEWATCHER; VALUE_TYPE_QTDBUS_QDBUSCONNECTION]
        QDBusServiceWatcher [[QObject_ptr]; [QString; QDBusConnection; QDBusServiceWatcher_WatchMode;
        QObject_ptr]]
  ].

Definition constructors_qtdbus_0 : constructor_shard :=
  ConstructorShard QtDBus "KRY_QT6_NATIVE_CONSTRUCTORS_QTDBUS_"
    (constructors_qtdbus_0_i0)
    (constructors_qtdbus_0_r0 ++ constructors_qtdbus_0_r1)
    (constructors_qtdbus_0_c0).

Definition constructors_qtdesigner_0_i0 : list include :=
  [
    ClassInclude QtDesigner QDesignerActionEditorInterface QDesignerActionEditorInterface;
    ClassInclude QtDesigner QDesignerFormEditorInterface QDesignerFormEditorInterface;
    ClassInclude QtDesigner QDesignerFormWindowInterface QDesignerFormWindowInterface;
    ClassInclude QtDesigner QDesignerFormWindowManagerInterface QDesignerFormWindowManagerInterface;
    ClassInclude QtDesigner QDesignerObjectInspectorInterface QDesignerObjectInspectorInterface;
    ClassInclude QtDesigner QDesignerPropertyEditorInterface QDesignerPropertyEditorInterface;
    ClassInclude QtDesigner QDesignerWidgetBoxInterface QDesignerWidgetBoxInterface;
    ClassInclude QtDesigner QExtensionFactory QExtensionFactory;
    ClassInclude QtDesigner QExtensionManager QExtensionManager;
    ClassInclude QtDesigner QPyDesignerContainerExtension QPyDesignerContainerExtension;
    ClassInclude QtDesigner QPyDesignerCustomWidgetCollectionPlugin QPyDesignerCustomWidgetCollectionPlugin;
    ClassInclude QtDesigner QPyDesignerCustomWidgetPlugin QPyDesignerCustomWidgetPlugin;
    ClassInclude QtDesigner QPyDesignerMemberSheetExtension QPyDesignerMemberSheetExtension;
    ClassInclude QtDesigner QPyDesignerPropertySheetExtension QPyDesignerPropertySheetExtension;
    ClassInclude QtDesigner QPyDesignerTaskMenuExtension QPyDesignerTaskMenuExtension;
    TypeInclude QtCore QObject TYPE_QTCORE_QOBJECT;
    TypeInclude QtDesigner QExtensionManager TYPE_QTDESIGNER_QEXTENSIONMANAGER;
    TypeInclude QtWidgets QWidget TYPE_QTWIDGETS_QWIDGET;
    EnumDefine ENUM_QT_WINDOWFLAGS
  ].

Definition constructors_qtdesigner_0_r0 : list constructor_row :=
  [
    Ctor QDesignerActionEditorInterface 0 [Cand [ENUM_QT_WINDOWFLAGS; TYPE_QTWIDGETS_QWIDGET] [] (Some
        (0%nat, QWidget))];
    Ctor QDesignerActionEditorInterface 1 [Cand [ENUM_QT_WINDOWFLAGS; TYPE_QTWIDGETS_QWIDGET] [PValue
        Qt_WindowFlags] (Some (0%nat, QWidget))];
    Ctor QDesignerFormEditorInterface 0 [Cand [TYPE_QTCORE_QOBJECT] [] None];
    Ctor QDesignerFormWindowInterface 0 [Cand [ENUM_QT_WINDOWFLAGS; TYPE_QTWIDGETS_QWIDGET] [] None];
    Ctor QDesignerFormWindowInterface 1 [Cand [ENUM_QT_WINDOWFLAGS; TYPE_QTWIDGETS_QWIDGET] [PValue
        Qt_WindowFlags] (Some (0%nat, QWidget))];
    Ctor QDesignerFormWindowManagerInterface 0 [Cand [TYPE_QTCORE_QOBJECT] [] None];
    Ctor QDesignerObjectInspectorInterface 0 [Cand [ENUM_QT_WINDOWFLAGS; TYPE_QTWIDGETS_QWIDGET] [] (Some
        (0%nat, QWidget))]
  ].

Definition constructors_qtdesigner_0_r1 : list constructor_row :=
  [
    Ctor QDesignerObjectInspectorInterface 1 [Cand [ENUM_QT_WINDOWFLAGS; TYPE_QTWIDGETS_QWIDGET] [PValue
        Qt_WindowFlags] (Some (0%nat, QWidget))];
    Ctor QDesignerPropertyEditorInterface 0 [Cand [ENUM_QT_WINDOWFLAGS; TYPE_QTWIDGETS_QWIDGET] [] (Some
        (0%nat, QWidget))];
    Ctor QDesignerPropertyEditorInterface 1 [Cand [ENUM_QT_WINDOWFLAGS; TYPE_QTWIDGETS_QWIDGET] [PValue
        Qt_WindowFlags] (Some (0%nat, QWidget))];
    Ctor QDesignerWidgetBoxInterface 0 [Cand [ENUM_QT_WINDOWFLAGS; TYPE_QTWIDGETS_QWIDGET] [] None];
    Ctor QDesignerWidgetBoxInterface 1 [Cand [ENUM_QT_WINDOWFLAGS; TYPE_QTWIDGETS_QWIDGET] [PValue
        Qt_WindowFlags] (Some (0%nat, QWidget))];
    Ctor QExtensionFactory 0 [Cand [TYPE_QTDESIGNER_QEXTENSIONMANAGER] [] None];
    Ctor QExtensionManager 0 [Cand [TYPE_QTCORE_QOBJECT] [] None]
  ].

Definition constructors_qtdesigner_0_r2 : list constructor_row :=
  [
    Ctor QPyDesignerContainerExtension 0 [Cand [TYPE_QTCORE_QOBJECT] [] (Some (0%nat, QObject))];
    Ctor QPyDesignerCustomWidgetCollectionPlugin 0 [Cand [TYPE_QTCORE_QOBJECT] [] None];
    Ctor QPyDesignerCustomWidgetPlugin 0 [Cand [TYPE_QTCORE_QOBJECT] [] None];
    Ctor QPyDesignerMemberSheetExtension 0 [Cand [TYPE_QTCORE_QOBJECT] [] (Some (0%nat, QObject))];
    Ctor QPyDesignerPropertySheetExtension 0 [Cand [TYPE_QTCORE_QOBJECT] [] (Some (0%nat, QObject))];
    Ctor QPyDesignerTaskMenuExtension 0 [Cand [TYPE_QTCORE_QOBJECT] [] (Some (0%nat, QObject))]
  ].

Definition constructors_qtdesigner_0_c0 : list class_row :=
  [
    Cls [ENUM_QT_WINDOWFLAGS; TYPE_QTWIDGETS_QWIDGET] QDesignerActionEditorInterface [[QWidget_ptr;
        Qt_WindowFlags]];
    Cls [TYPE_QTCORE_QOBJECT] QDesignerFormEditorInterface [[QObject_ptr]];
    Cls [ENUM_QT_WINDOWFLAGS; TYPE_QTWIDGETS_QWIDGET] QDesignerFormWindowInterface [[QWidget_ptr;
        Qt_WindowFlags]];
    Cls [TYPE_QTCORE_QOBJECT] QDesignerFormWindowManagerInterface [[QObject_ptr]];
    Cls [ENUM_QT_WINDOWFLAGS; TYPE_QTWIDGETS_QWIDGET] QDesignerObjectInspectorInterface [[QWidget_ptr;
        Qt_WindowFlags]];
    Cls [ENUM_QT_WINDOWFLAGS; TYPE_QTWIDGETS_QWIDGET] QDesignerPropertyEditorInterface [[QWidget_ptr;
        Qt_WindowFlags]];
    Cls [ENUM_QT_WINDOWFLAGS; TYPE_QTWIDGETS_QWIDGET] QDesignerWidgetBoxInterface [[QWidget_ptr;
        Qt_WindowFlags]];
    Cls [TYPE_QTDESIGNER_QEXTENSIONMANAGER] QExtensionFactory [[QExtensionManager_ptr]];
    Cls [TYPE_QTCORE_QOBJECT] QExtensionManager [[QObject_ptr]];
    Cls [TYPE_QTCORE_QOBJECT] QPyDesignerContainerExtension [[QObject_ptr]];
    Cls [TYPE_QTCORE_QOBJECT] QPyDesignerCustomWidgetCollectionPlugin [[QObject_ptr]];
    Cls [TYPE_QTCORE_QOBJECT] QPyDesignerCustomWidgetPlugin [[QObject_ptr]];
    Cls [TYPE_QTCORE_QOBJECT] QPyDesignerMemberSheetExtension [[QObject_ptr]];
    Cls [TYPE_QTCORE_QOBJECT] QPyDesignerPropertySheetExtension [[QObject_ptr]];
    Cls [TYPE_QTCORE_QOBJECT] QPyDesignerTaskMenuExtension [[QObject_ptr]]
  ].

Definition constructors_qtdesigner_0 : constructor_shard :=
  ConstructorShard QtDesigner "KRY_QT6_NATIVE_CONSTRUCTORS_QTDESIGNER_"
    (constructors_qtdesigner_0_i0)
    (constructors_qtdesigner_0_r0 ++ constructors_qtdesigner_0_r1 ++ constructors_qtdesigner_0_r2)
    (constructors_qtdesigner_0_c0).

Definition constructors_qtgraphs_0_i0 : list include :=
  [
    ClassInclude QtGraphs Q3DScene Q3DScene;
    ClassInclude QtGraphs QAreaSeries QAreaSeries;
    ClassInclude QtGraphs QBar3DSeries QBar3DSeries;
    ClassInclude QtGraphs QBarCategoryAxis QBarCategoryAxis;
    ClassInclude QtGraphs QBarDataProxy QBarDataProxy;
    ClassInclude QtGraphs QBarModelMapper QBarModelMapper;
    ClassInclude QtGraphs QBarSeries QBarSeries;
    ClassInclude QtGraphs QBarSet QBarSet;
    ClassInclude QtGraphs QCategory3DAxis QCategory3DAxis;
    ClassInclude QtGraphs QCustom3DItem QCustom3DItem;
    ClassInclude QtGraphs QCustom3DLabel QCustom3DLabel;
    ClassInclude QtGraphs QCustom3DVolume QCustom3DVolume;
    ClassInclude QtGraphs QDateTimeAxis QDateTimeAxis;
    ClassInclude QtGraphs QGraphsTheme QGraphsTheme;
    ClassInclude QtGraphs QHeightMapSurfaceDataProxy QHeightMapSurfaceDataProxy;
    ClassInclude QtGraphs QItemModelBarDataProxy QItemModelBarDataProxy;
    ClassInclude QtGraphs QItemModelScatterDataProxy QItemModelScatterDataProxy;
    ClassInclude QtGraphs QItemModelSurfaceDataProxy QItemModelSurfaceDataProxy;
    ClassInclude QtGraphs QLineSeries QLineSeries;
    ClassInclude QtGraphs QLogValue3DAxisFormatter QLogValue3DAxisFormatter;
    ClassInclude QtGraphs QPieModelMapper QPieModelMapper;
    ClassInclude QtGraphs QPieSeries QPieSeries;
    ClassInclude QtGraphs QPieSlice QPieSlice;
    ClassInclude QtGraphs QScatter3DSeries QScatter3DSeries;
    TypeInclude QtCore QAbstractItemModel TYPE_QTCORE_QABSTRACTITEMMODEL;
    TypeInclude QtCore QObject TYPE_QTCORE_QOBJECT;
    TypeInclude QtGraphs QBarDataProxy TYPE_QTGRAPHS_QBARDATAPROXY;
    TypeInclude QtGraphs QScatterDataProxy TYPE_QTGRAPHS_QSCATTERDATAPROXY;
    TypeInclude QtGui QFont VALUE_TYPE_QTGUI_QFONT;
    TypeInclude QtGui QImage VALUE_TYPE_QTGUI_QIMAGE;
    TypeInclude QtGui QQuaternion VALUE_TYPE_QTGUI_QQUATERNION;
    TypeInclude QtGui QVector3D VALUE_TYPE_QTGUI_QVECTOR3D
  ].

Definition constructors_qtgraphs_0_r0 : list constructor_row :=
  [
    Ctor Q3DScene 0 [Cand [TYPE_QTCORE_QOBJECT] [] None];
    Ctor QAreaSeries 0 [Cand [TYPE_QTCORE_QOBJECT] [] None];
    Ctor QBar3DSeries 0 [Cand [TYPE_QTCORE_QOBJECT] [] None];
    Ctor QBar3DSeries 1 [Cand [TYPE_QTCORE_QOBJECT; TYPE_QTGRAPHS_QBARDATAPROXY] [PObject QBarDataProxy
        false] None];
    Ctor QBarCategoryAxis 0 [Cand [TYPE_QTCORE_QOBJECT] [] None];
    Ctor QBarDataProxy 0 [Cand [TYPE_QTCORE_QOBJECT] [] None];
    Ctor QBarModelMapper 0 [Cand [TYPE_QTCORE_QOBJECT] [] None]
  ].

Definition constructors_qtgraphs_0_r1 : list constructor_row :=
  [
    Ctor QBarSeries 0 [Cand [TYPE_QTCORE_QOBJECT] [] None];
    Ctor QBarSet 0 [Cand [TYPE_QTCORE_QOBJECT] [] None];
    Ctor QBarSet 1 [Cand [TYPE_QTCORE_QOBJECT] [PString false] None];
    Ctor QCategory3DAxis 0 [Cand [TYPE_QTCORE_QOBJECT] [] None];
    Ctor QCustom3DItem 0 [Cand [TYPE_QTCORE_QOBJECT] [] None];
    Ctor QCustom3DItem 5 [Cand [TYPE_QTCORE_QOBJECT; VALUE_TYPE_QTGUI_QIMAGE; VALUE_TYPE_QTGUI_QQUATERNION;
        VALUE_TYPE_QTGUI_QVECTOR3D] [PString false; PValue QVector3D; PValue QVector3D; PValue QQuaternion;
        PValue QImage] None];
    Ctor QCustom3DLabel 0 [Cand [TYPE_QTCORE_QOBJECT] [] None]
  ].

Definition constructors_qtgraphs_0_r2 : list constructor_row :=
  [
    Ctor QCustom3DLabel 5 [Cand [TYPE_QTCORE_QOBJECT; VALUE_TYPE_QTGUI_QFONT; VALUE_TYPE_QTGUI_QQUATERNION;
        VALUE_TYPE_QTGUI_QVECTOR3D] [PString false; PValue QFont; PValue QVector3D; PValue QVector3D;
        PValue QQuaternion] None];
    Ctor QCustom3DVolume 0 [Cand [TYPE_QTCORE_QOBJECT] [] None];
    Ctor QDateTimeAxis 0 [Cand [TYPE_QTCORE_QOBJECT] [] None];
    Ctor QGraphsTheme 0 [Cand [TYPE_QTCORE_QOBJECT] [] None];
    Ctor QHeightMapSurfaceDataProxy 0 [Cand [TYPE_QTCORE_QOBJECT] [] None];
    Ctor QHeightMapSurfaceDataProxy 1 [Cand [TYPE_QTCORE_QOBJECT; VALUE_TYPE_QTGUI_QIMAGE] [PValue QImage]
        None; Cand [TYPE_QTCORE_QOBJECT] [PString false] None]
  ].

Definition constructors_qtgraphs_0_r3 : list constructor_row :=
  [
    Ctor QItemModelBarDataProxy 0 [Cand [TYPE_QTCORE_QOBJECT] [] None];
    Ctor QItemModelBarDataProxy 1 [Cand [TYPE_QTCORE_QABSTRACTITEMMODEL; TYPE_QTCORE_QOBJECT] [PObject
        QAbstractItemModel false] None];
    Ctor QItemModelBarDataProxy 2 [Cand [TYPE_QTCORE_QABSTRACTITEMMODEL; TYPE_QTCORE_QOBJECT] [PObject
        QAbstractItemModel false; PString false] None];
    Ctor QItemModelBarDataProxy 4 [Cand [TYPE_QTCORE_QABSTRACTITEMMODEL; TYPE_QTCORE_QOBJECT] [PObject
        QAbstractItemModel false; PString false; PString false; PString false] None];
    Ctor QItemModelBarDataProxy 5 [Cand [TYPE_QTCORE_QABSTRACTITEMMODEL; TYPE_QTCORE_QOBJECT] [PObject
        QAbstractItemModel false; PString false; PString false; PString false; PString false] None]
  ].

Definition constructors_qtgraphs_0_r4 : list constructor_row :=
  [
    Ctor QItemModelBarDataProxy 6 [Cand [TYPE_QTCORE_QABSTRACTITEMMODEL; TYPE_QTCORE_QOBJECT] [PObject
        QAbstractItemModel false; PString false; PString false; PString false; PStringList; PStringList]
        None];
    Ctor QItemModelBarDataProxy 7 [Cand [TYPE_QTCORE_QABSTRACTITEMMODEL; TYPE_QTCORE_QOBJECT] [PObject
        QAbstractItemModel false; PString false; PString false; PString false; PString false; PStringList;
        PStringList] None];
    Ctor QItemModelScatterDataProxy 0 [Cand [TYPE_QTCORE_QOBJECT] [] None];
    Ctor QItemModelScatterDataProxy 1 [Cand [TYPE_QTCORE_QABSTRACTITEMMODEL; TYPE_QTCORE_QOBJECT] [PObject
        QAbstractItemModel false] None];
    Ctor QItemModelScatterDataProxy 4 [Cand [TYPE_QTCORE_QABSTRACTITEMMODEL; TYPE_QTCORE_QOBJECT] [PObject
        QAbstractItemModel false; PString false; PString false; PString false] None]
  ].

Definition constructors_qtgraphs_0_r5 : list constructor_row :=
  [
    Ctor QItemModelScatterDataProxy 5 [Cand [TYPE_QTCORE_QABSTRACTITEMMODEL; TYPE_QTCORE_QOBJECT] [PObject
        QAbstractItemModel false; PString false; PString false; PString false; PString false] None];
    Ctor QItemModelSurfaceDataProxy 0 [Cand [TYPE_QTCORE_QOBJECT] [] None];
    Ctor QItemModelSurfaceDataProxy 1 [Cand [TYPE_QTCORE_QABSTRACTITEMMODEL; TYPE_QTCORE_QOBJECT] [PObject
        QAbstractItemModel false] None];
    Ctor QItemModelSurfaceDataProxy 2 [Cand [TYPE_QTCORE_QABSTRACTITEMMODEL; TYPE_QTCORE_QOBJECT] [PObject
        QAbstractItemModel false; PString false] None];
    Ctor QItemModelSurfaceDataProxy 4 [Cand [TYPE_QTCORE_QABSTRACTITEMMODEL; TYPE_QTCORE_QOBJECT] [PObject
        QAbstractItemModel false; PString false; PString false; PString false] None]
  ].

Definition constructors_qtgraphs_0_r6 : list constructor_row :=
  [
    Ctor QItemModelSurfaceDataProxy 6 [Cand [TYPE_QTCORE_QABSTRACTITEMMODEL; TYPE_QTCORE_QOBJECT] [PObject
        QAbstractItemModel false; PString false; PString false; PString false; PString false; PString
        false] None; Cand [TYPE_QTCORE_QABSTRACTITEMMODEL; TYPE_QTCORE_QOBJECT] [PObject QAbstractItemModel
        false; PString false; PString false; PString false; PStringList; PStringList] None];
    Ctor QItemModelSurfaceDataProxy 8 [Cand [TYPE_QTCORE_QABSTRACTITEMMODEL; TYPE_QTCORE_QOBJECT] [PObject
        QAbstractItemModel false; PString false; PString false; PString false; PString false; PString
        false; PStringList; PStringList] None];
    Ctor QLineSeries 0 [Cand [TYPE_QTCORE_QOBJECT] [] None];
    Ctor QLogValue3DAxisFormatter 0 [Cand [TYPE_QTCORE_QOBJECT] [] None]
  ].

Definition constructors_qtgraphs_0_r7 : list constructor_row :=
  [
    Ctor QPieModelMapper 0 [Cand [TYPE_QTCORE_QOBJECT] [] None];
    Ctor QPieSeries 0 [Cand [TYPE_QTCORE_QOBJECT] [] None];
    Ctor QPieSlice 0 [Cand [TYPE_QTCORE_QOBJECT] [] None];
    Ctor QPieSlice 2 [Cand [TYPE_QTCORE_QOBJECT] [PString false; PNumber cxx_qreal] None];
    Ctor QScatter3DSeries 0 [Cand [TYPE_QTCORE_QOBJECT] [] None];
    Ctor QScatter3DSeries 1 [Cand [TYPE_QTCORE_QOBJECT; TYPE_QTGRAPHS_QSCATTERDATAPROXY] [PObject
        QScatterDataProxy false] None]
  ].

Definition constructors_qtgraphs_0_c0 : list class_row :=
  [
    Cls [TYPE_QTCORE_QOBJECT] Q3DScene [[QObject_ptr]];
    Cls [TYPE_QTCORE_QOBJECT] QAreaSeries [[QObject_ptr]];
    Cls [TYPE_QTCORE_QOBJECT; TYPE_QTGRAPHS_QBARDATAPROXY] QBar3DSeries [[QBarDataProxy_ptr; QObject_ptr];
        [QObject_ptr]];
    Cls [TYPE_QTCORE_QOBJECT] QBarCategoryAxis [[QObject_ptr]];
    Cls [TYPE_QTCORE_QOBJECT] QBarDataProxy [[QObject_ptr]];
    Cls [TYPE_QTCORE_QOBJECT] QBarModelMapper [[QObject_ptr]];
    Cls [TYPE_QTCORE_QOBJECT] QBarSeries [[QObject_ptr]];
    Cls [TYPE_QTCORE_QOBJECT] QBarSet [[QObject_ptr]; [QString; QObject_ptr]];
    Cls [TYPE_QTCORE_QOBJECT] QCategory3DAxis [[QObject_ptr]];
    Cls [TYPE_QTCORE_QOBJECT; VALUE_TYPE_QTGUI_QIMAGE; VALUE_TYPE_QTGUI_QQUATERNION;
        VALUE_TYPE_QTGUI_QVECTOR3D] QCustom3DItem [[QObject_ptr]; [QString; QVector3D; QVector3D;
        QQuaternion; QImage; QObject_ptr]];
    Cls [TYPE_QTCORE_QOBJECT; VALUE_TYPE_QTGUI_QFONT; VALUE_TYPE_QTGUI_QQUATERNION;
        VALUE_TYPE_QTGUI_QVECTOR3D] QCustom3DLabel [[QObject_ptr]; [QString; QFont; QVector3D; QVector3D;
        QQuaternion; QObject_ptr]];
    Cls [TYPE_QTCORE_QOBJECT] QCustom3DVolume [[QObject_ptr]];
    Cls [TYPE_QTCORE_QOBJECT] QDateTimeAxis [[QObject_ptr]];
    Cls [TYPE_QTCORE_QOBJECT] QGraphsTheme [[QObject_ptr]];
    Cls [TYPE_QTCORE_QOBJECT; VALUE_TYPE_QTGUI_QIMAGE] QHeightMapSurfaceDataProxy [[QObject_ptr]; [QImage;
        QObject_ptr]; [QString; QObject_ptr]];
    Cls [TYPE_QTCORE_QABSTRACTITEMMODEL; TYPE_QTCORE_QOBJECT] QItemModelBarDataProxy [[QObject_ptr];
        [QAbstractItemModel_ptr; QObject_ptr]; [QAbstractItemModel_ptr; QString; QObject_ptr];
        [QAbstractItemModel_ptr; QString; QString; QString; QObject_ptr]; [QAbstractItemModel_ptr; QString;
        QString; QString; QString; QObject_ptr]; [QAbstractItemModel_ptr; QString; QString; QString;
        QStringList; QStringList; QObject_ptr]; [QAbstractItemModel_ptr; QString; QString; QString;
        QString; QStringList; QStringList; QObject_ptr]];
    Cls [TYPE_QTCORE_QABSTRACTITEMMODEL; TYPE_QTCORE_QOBJECT] QItemModelScatterDataProxy [[QObject_ptr];
        [QAbstractItemModel_ptr; QObject_ptr]; [QAbstractItemModel_ptr; QString; QString; QString;
        QObject_ptr]; [QAbstractItemModel_ptr; QString; QString; QString; QString; QObject_ptr]];
    Cls [TYPE_QTCORE_QABSTRACTITEMMODEL; TYPE_QTCORE_QOBJECT] QItemModelSurfaceDataProxy [[QObject_ptr];
        [QAbstractItemModel_ptr; QObject_ptr]; [QAbstractItemModel_ptr; QString; QObject_ptr];
        [QAbstractItemModel_ptr; QString; QString; QString; QObject_ptr]; [QAbstractItemModel_ptr; QString;
        QString; QString; QString; QString; QObject_ptr]; [QAbstractItemModel_ptr; QString; QString;
        QString; QStringList; QStringList; QObject_ptr]; [QAbstractItemModel_ptr; QString; QString;
        QString; QString; QString; QStringList; QStringList; QObject_ptr]];
    Cls [TYPE_QTCORE_QOBJECT] QLineSeries [[QObject_ptr]];
    Cls [TYPE_QTCORE_QOBJECT] QLogValue3DAxisFormatter [[QObject_ptr]];
    Cls [TYPE_QTCORE_QOBJECT] QPieModelMapper [[QObject_ptr]];
    Cls [TYPE_QTCORE_QOBJECT] QPieSeries [[QObject_ptr]];
    Cls [TYPE_QTCORE_QOBJECT] QPieSlice [[QObject_ptr]; [QString; cxx_qreal; QObject_ptr]];
    Cls [TYPE_QTCORE_QOBJECT; TYPE_QTGRAPHS_QSCATTERDATAPROXY] QScatter3DSeries [[QObject_ptr];
        [QScatterDataProxy_ptr; QObject_ptr]]
  ].

Definition constructors_qtgraphs_0 : constructor_shard :=
  ConstructorShard QtGraphs "KRY_QT6_NATIVE_CONSTRUCTORS_QTGRAPHS_"
    (constructors_qtgraphs_0_i0)
    (constructors_qtgraphs_0_r0 ++ constructors_qtgraphs_0_r1 ++ constructors_qtgraphs_0_r2 ++
        constructors_qtgraphs_0_r3 ++ constructors_qtgraphs_0_r4 ++ constructors_qtgraphs_0_r5 ++
        constructors_qtgraphs_0_r6 ++ constructors_qtgraphs_0_r7)
    (constructors_qtgraphs_0_c0).

Definition constructors_qtgraphs_1_i0 : list include :=
  [
    ClassInclude QtGraphs QScatterDataProxy QScatterDataProxy;
    ClassInclude QtGraphs QScatterSeries QScatterSeries;
    ClassInclude QtGraphs QSplineSeries QSplineSeries;
    ClassInclude QtGraphs QSurface3DSeries QSurface3DSeries;
    ClassInclude QtGraphs QSurfaceDataProxy QSurfaceDataProxy;
    ClassInclude QtGraphs QValue3DAxis QValue3DAxis;
    ClassInclude QtGraphs QValue3DAxisFormatter QValue3DAxisFormatter;
    ClassInclude QtGraphs QValueAxis QValueAxis;
    ClassInclude QtGraphs QXYModelMapper QXYModelMapper;
    TypeInclude QtCore QObject TYPE_QTCORE_QOBJECT;
    TypeInclude QtGraphs QSurfaceDataProxy TYPE_QTGRAPHS_QSURFACEDATAPROXY
  ].

Definition constructors_qtgraphs_1_r0 : list constructor_row :=
  [
    Ctor QScatterDataProxy 0 [Cand [TYPE_QTCORE_QOBJECT] [] None];
    Ctor QScatterSeries 0 [Cand [TYPE_QTCORE_QOBJECT] [] None];
    Ctor QSplineSeries 0 [Cand [TYPE_QTCORE_QOBJECT] [] None];
    Ctor QSurface3DSeries 0 [Cand [TYPE_QTCORE_QOBJECT] [] None];
    Ctor QSurface3DSeries 1 [Cand [TYPE_QTCORE_QOBJECT; TYPE_QTGRAPHS_QSURFACEDATAPROXY] [PObject
        QSurfaceDataProxy false] None];
    Ctor QSurfaceDataProxy 0 [Cand [TYPE_QTCORE_QOBJECT] [] None];
    Ctor QValue3DAxis 0 [Cand [TYPE_QTCORE_QOBJECT] [] None]
  ].

Definition constructors_qtgraphs_1_r1 : list constructor_row :=
  [
    Ctor QValue3DAxisFormatter 0 [Cand [TYPE_QTCORE_QOBJECT] [] None];
    Ctor QValueAxis 0 [Cand [TYPE_QTCORE_QOBJECT] [] None];
    Ctor QXYModelMapper 0 [Cand [TYPE_QTCORE_QOBJECT] [] None]
  ].

Definition constructors_qtgraphs_1_c0 : list class_row :=
  [
    Cls [TYPE_QTCORE_QOBJECT] QScatterDataProxy [[QObject_ptr]];
    Cls [TYPE_QTCORE_QOBJECT] QScatterSeries [[QObject_ptr]];
    Cls [TYPE_QTCORE_QOBJECT] QSplineSeries [[QObject_ptr]];
    Cls [TYPE_QTCORE_QOBJECT; TYPE_QTGRAPHS_QSURFACEDATAPROXY] QSurface3DSeries [[QObject_ptr];
        [QSurfaceDataProxy_ptr; QObject_ptr]];
    Cls [TYPE_QTCORE_QOBJECT] QSurfaceDataProxy [[QObject_ptr]];
    Cls [TYPE_QTCORE_QOBJECT] QValue3DAxis [[QObject_ptr]];
    Cls [TYPE_QTCORE_QOBJECT] QValue3DAxisFormatter [[QObject_ptr]];
    Cls [TYPE_QTCORE_QOBJECT] QValueAxis [[QObject_ptr]];
    Cls [TYPE_QTCORE_QOBJECT] QXYModelMapper [[QObject_ptr]]
  ].

Definition constructors_qtgraphs_1 : constructor_shard :=
  ConstructorShard QtGraphs "KRY_QT6_NATIVE_CONSTRUCTORS_QTGRAPHS_"
    (constructors_qtgraphs_1_i0)
    (constructors_qtgraphs_1_r0 ++ constructors_qtgraphs_1_r1)
    (constructors_qtgraphs_1_c0).

Definition constructors_qtgraphswidgets_0_i0 : list include :=
  [
    ClassInclude QtGraphsWidgets Q3DBarsWidgetItem Q3DBarsWidgetItem;
    ClassInclude QtGraphsWidgets Q3DScatterWidgetItem Q3DScatterWidgetItem;
    ClassInclude QtGraphsWidgets Q3DSurfaceWidgetItem Q3DSurfaceWidgetItem;
    TypeInclude QtCore QObject TYPE_QTCORE_QOBJECT
  ].

Definition constructors_qtgraphswidgets_0_r0 : list constructor_row :=
  [
    Ctor Q3DBarsWidgetItem 0 [Cand [TYPE_QTCORE_QOBJECT] [] None];
    Ctor Q3DScatterWidgetItem 0 [Cand [TYPE_QTCORE_QOBJECT] [] None];
    Ctor Q3DSurfaceWidgetItem 0 [Cand [TYPE_QTCORE_QOBJECT] [] None]
  ].

Definition constructors_qtgraphswidgets_0_c0 : list class_row :=
  [
    Cls [TYPE_QTCORE_QOBJECT] Q3DBarsWidgetItem [[QObject_ptr]];
    Cls [TYPE_QTCORE_QOBJECT] Q3DScatterWidgetItem [[QObject_ptr]];
    Cls [TYPE_QTCORE_QOBJECT] Q3DSurfaceWidgetItem [[QObject_ptr]]
  ].

Definition constructors_qtgraphswidgets_0 : constructor_shard :=
  ConstructorShard QtGraphsWidgets "KRY_QT6_NATIVE_CONSTRUCTORS_QTGRAPHSWIDGETS_"
    (constructors_qtgraphswidgets_0_i0)
    (constructors_qtgraphswidgets_0_r0)
    (constructors_qtgraphswidgets_0_c0).

Definition constructors_qtgui_0_i0 : list include :=
  [
    ClassInclude QtGui QAbstractTextDocumentLayout QAbstractTextDocumentLayout;
    ClassInclude QtGui QAccessibilityHints QAccessibilityHints;
    ClassInclude QtGui QAction QAction;
    ClassInclude QtGui QActionGroup QActionGroup;
    ClassInclude QtGui QDoubleValidator QDoubleValidator;
    ClassInclude QtGui QDrag QDrag;
    ClassInclude QtGui QFileSystemModel QFileSystemModel;
    ClassInclude QtGui QInputDevice QInputDevice;
    ClassInclude QtGui QIntValidator QIntValidator;
    ClassInclude QtGui QMovie QMovie;
    ClassInclude QtGui QOffscreenSurface QOffscreenSurface;
    ClassInclude QtGui QOpenGLContext QOpenGLContext;
    ClassInclude QtGui QPdfWriter QPdfWriter;
    ClassInclude QtGui QPointingDevice QPointingDevice;
    ClassInclude QtGui QRasterWindow QRasterWindow;
    ClassInclude QtGui QRegularExpressionValidator QRegularExpressionValidator;
    ClassInclude QtGui QShortcut QShortcut;
    ClassInclude QtGui QStandardItemModel QStandardItemModel;
    ClassInclude QtGui QSyntaxHighlighter QSyntaxHighlighter;
    ClassInclude QtGui QTextDocument QTextDocument;
    ClassInclude QtGui QTextFrame QTextFrame;
    ClassInclude QtGui QTextList QTextList;
    ClassInclude QtGui QTextTable QTextTable;
    ClassInclude QtGui QUndoGroup QUndoGroup;
    TypeInclude QtCore QIODevice TYPE_QTCORE_QIODEVICE;
    TypeInclude QtCore QObject TYPE_QTCORE_QOBJECT;
    TypeInclude QtGui QScreen TYPE_QTGUI_QSCREEN;
    TypeInclude QtGui QTextDocument TYPE_QTGUI_QTEXTDOCUMENT;
    TypeInclude QtGui QWindow TYPE_QTGUI_QWINDOW;
    TypeInclude QtGui QInputDevice TYPE_QTGUI_QINPUTDEVICE;
    TypeInclude QtGui QPointingDevice TYPE_QTGUI_QPOINTINGDEVICE;
    TypeInclude QtCore QByteArray VALUE_TYPE_QTCORE_QBYTEARRAY;
    TypeInclude QtCore QRegularExpression VALUE_TYPE_QTCORE_QREGULAREXPRESSION;
    TypeInclude QtGui QIcon VALUE_TYPE_QTGUI_QICON;
    TypeInclude QtGui QPointingDeviceUniqueId VALUE_TYPE_QTGUI_QPOINTINGDEVICEUNIQUEID
  ].

Definition constructors_qtgui_0_r0 : list constructor_row :=
  [
    Ctor QAbstractTextDocumentLayout 1 [Cand [TYPE_QTGUI_QTEXTDOCUMENT] [PObject QTextDocument false] None];
    Ctor QAccessibilityHints 0 [Cand [TYPE_QTCORE_QOBJECT] [] None];
    Ctor QAction 0 [Cand [TYPE_QTCORE_QOBJECT] [] None];
    Ctor QAction 1 [Cand [TYPE_QTCORE_QOBJECT] [PString false] None];
    Ctor QAction 2 [Cand [TYPE_QTCORE_QOBJECT; VALUE_TYPE_QTGUI_QICON] [PValue QIcon; PString false] None];
    Ctor QActionGroup 0 [Cand [TYPE_QTCORE_QOBJECT] [] (Some (0%nat, QObject))];
    Ctor QDoubleValidator 0 [Cand [TYPE_QTCORE_QOBJECT] [] None]
  ].

Definition constructors_qtgui_0_r1 : list constructor_row :=
  [
    Ctor QDoubleValidator 3 [Cand [TYPE_QTCORE_QOBJECT] [PNumber cxx_double; PNumber cxx_double; PInt]
        None];
    Ctor QDrag 1 [Cand [TYPE_QTCORE_QOBJECT] [PObject QObject false] None];
    Ctor QFileSystemModel 0 [Cand [TYPE_QTCORE_QOBJECT] [] None];
    Ctor QInputDevice 0 [Cand [TYPE_QTCORE_QOBJECT] [] None];
    Ctor QInputDevice 3 [Cand [TYPE_QTCORE_QOBJECT; TYPE_QTGUI_QINPUTDEVICE] [PString false; PMeta
        cxx_qint64; PValue QInputDevice_DeviceType] None];
    Ctor QInputDevice 4 [Cand [TYPE_QTCORE_QOBJECT; TYPE_QTGUI_QINPUTDEVICE] [PString false; PMeta
        cxx_qint64; PValue QInputDevice_DeviceType; PString false] None]
  ].

Definition constructors_qtgui_0_r2 : list constructor_row :=
  [
    Ctor QIntValidator 0 [Cand [TYPE_QTCORE_QOBJECT] [] None];
    Ctor QIntValidator 2 [Cand [TYPE_QTCORE_QOBJECT] [PInt; PInt] None];
    Ctor QMovie 0 [Cand [TYPE_QTCORE_QOBJECT] [] None];
    Ctor QMovie 1 [Cand [TYPE_QTCORE_QIODEVICE; TYPE_QTCORE_QOBJECT; VALUE_TYPE_QTCORE_QBYTEARRAY] [PObject
        QIODevice false] None; Cand [TYPE_QTCORE_QOBJECT; VALUE_TYPE_QTCORE_QBYTEARRAY] [PString false]
        None];
    Ctor QMovie 2 [Cand [TYPE_QTCORE_QIODEVICE; TYPE_QTCORE_QOBJECT; VALUE_TYPE_QTCORE_QBYTEARRAY] [PObject
        QIODevice false; PValue QByteArray] None; Cand [TYPE_QTCORE_QOBJECT; VALUE_TYPE_QTCORE_QBYTEARRAY]
        [PString false; PValue QByteArray] None]
  ].

Definition constructors_qtgui_0_r3 : list constructor_row :=
  [
    Ctor QOffscreenSurface 0 [Cand [TYPE_QTCORE_QOBJECT; TYPE_QTGUI_QSCREEN] [] None];
    Ctor QOffscreenSurface 1 [Cand [TYPE_QTCORE_QOBJECT; TYPE_QTGUI_QSCREEN] [PObject QScreen false] None];
    Ctor QOpenGLContext 0 [Cand [TYPE_QTCORE_QOBJECT] [] None];
    Ctor QPdfWriter 1 [Cand [] [PString false] None; Cand [TYPE_QTCORE_QIODEVICE] [PObject QIODevice false]
        None];
    Ctor QPointingDevice 0 [Cand [TYPE_QTCORE_QOBJECT] [] None];
    Ctor QPointingDevice 7 [Cand [TYPE_QTCORE_QOBJECT; TYPE_QTGUI_QINPUTDEVICE; TYPE_QTGUI_QPOINTINGDEVICE;
        VALUE_TYPE_QTGUI_QPOINTINGDEVICEUNIQUEID] [PString false; PMeta cxx_qint64; PValue
        QInputDevice_DeviceType; PValue QPointingDevice_PointerType; PValue QInputDevice_Capabilities;
        PInt; PInt] None]
  ].

Definition constructors_qtgui_0_r4 : list constructor_row :=
  [
    Ctor QPointingDevice 8 [Cand [TYPE_QTCORE_QOBJECT; TYPE_QTGUI_QINPUTDEVICE; TYPE_QTGUI_QPOINTINGDEVICE;
        VALUE_TYPE_QTGUI_QPOINTINGDEVICEUNIQUEID] [PString false; PMeta cxx_qint64; PValue
        QInputDevice_DeviceType; PValue QPointingDevice_PointerType; PValue QInputDevice_Capabilities;
        PInt; PInt; PString false] None];
    Ctor QPointingDevice 9 [Cand [TYPE_QTCORE_QOBJECT; TYPE_QTGUI_QINPUTDEVICE; TYPE_QTGUI_QPOINTINGDEVICE;
        VALUE_TYPE_QTGUI_QPOINTINGDEVICEUNIQUEID] [PString false; PMeta cxx_qint64; PValue
        QInputDevice_DeviceType; PValue QPointingDevice_PointerType; PValue QInputDevice_Capabilities;
        PInt; PInt; PString false; PValue QPointingDeviceUniqueId] None];
    Ctor QRasterWindow 0 [Cand [TYPE_QTGUI_QWINDOW] [] None];
    Ctor QRegularExpressionValidator 0 [Cand [TYPE_QTCORE_QOBJECT] [] None];
    Ctor QRegularExpressionValidator 1 [Cand [TYPE_QTCORE_QOBJECT; VALUE_TYPE_QTCORE_QREGULAREXPRESSION]
        [PValue QRegularExpression] None];
    Ctor QShortcut 0 [Cand [TYPE_QTCORE_QOBJECT] [] (Some (0%nat, QObject))]
  ].

Definition constructors_qtgui_0_r5 : list constructor_row :=
  [
    Ctor QStandardItemModel 0 [Cand [TYPE_QTCORE_QOBJECT] [] None];
    Ctor QStandardItemModel 2 [Cand [TYPE_QTCORE_QOBJECT] [PInt; PInt] None];
    Ctor QSyntaxHighlighter 0 [Cand [TYPE_QTGUI_QTEXTDOCUMENT] [] (Some (0%nat, QTextDocument)); Cand
        [TYPE_QTCORE_QOBJECT] [] (Some (0%nat, QObject))];
    Ctor QTextDocument 0 [Cand [TYPE_QTCORE_QOBJECT] [] None];
    Ctor QTextDocument 1 [Cand [TYPE_QTCORE_QOBJECT] [PString false] None];
    Ctor QTextFrame 1 [Cand [TYPE_QTGUI_QTEXTDOCUMENT] [PObject QTextDocument false] None]
  ].

Definition constructors_qtgui_0_r6 : list constructor_row :=
  [
    Ctor QTextList 1 [Cand [TYPE_QTGUI_QTEXTDOCUMENT] [PObject QTextDocument false] None];
    Ctor QTextTable 1 [Cand [TYPE_QTGUI_QTEXTDOCUMENT] [PObject QTextDocument false] None];
    Ctor QUndoGroup 0 [Cand [TYPE_QTCORE_QOBJECT] [] None]
  ].

Definition constructors_qtgui_0_c0 : list class_row :=
  [
    Cls [TYPE_QTGUI_QTEXTDOCUMENT] QAbstractTextDocumentLayout [[QTextDocument_ptr]];
    Cls [TYPE_QTCORE_QOBJECT] QAccessibilityHints [[QObject_ptr]];
    Cls [TYPE_QTCORE_QOBJECT; VALUE_TYPE_QTGUI_QICON] QAction [[QObject_ptr]; [QString; QObject_ptr];
        [QIcon; QString; QObject_ptr]];
    Cls [TYPE_QTCORE_QOBJECT] QActionGroup [[QObject_ptr]];
    Cls [TYPE_QTCORE_QOBJECT] QDoubleValidator [[QObject_ptr]; [cxx_double; cxx_double; cxx_int;
        QObject_ptr]];
    Cls [TYPE_QTCORE_QOBJECT] QDrag [[QObject_ptr]];
    Cls [TYPE_QTCORE_QOBJECT] QFileSystemModel [[QObject_ptr]];
    Cls [TYPE_QTCORE_QOBJECT; TYPE_QTGUI_QINPUTDEVICE] QInputDevice [[QString; cxx_qint64;
        QInputDevice_DeviceType; QString; QObject_ptr]; [QObject_ptr]];
    Cls [TYPE_QTCORE_QOBJECT] QIntValidator [[QObject_ptr]; [cxx_int; cxx_int; QObject_ptr]];
    Cls [TYPE_QTCORE_QIODEVICE; TYPE_QTCORE_QOBJECT; VALUE_TYPE_QTCORE_QBYTEARRAY] QMovie [[QObject_ptr];
        [QIODevice_ptr; QByteArray; QObject_ptr]; [QString; QByteArray; QObject_ptr]];
    Cls [TYPE_QTCORE_QOBJECT; TYPE_QTGUI_QSCREEN] QOffscreenSurface [[QScreen_ptr; QObject_ptr]];
    Cls [TYPE_QTCORE_QOBJECT] QOpenGLContext [[QObject_ptr]];
    Cls [TYPE_QTCORE_QIODEVICE] QPdfWriter [[QString]; [QIODevice_ptr]];
    Cls [TYPE_QTCORE_QOBJECT; TYPE_QTGUI_QINPUTDEVICE; TYPE_QTGUI_QPOINTINGDEVICE;
        VALUE_TYPE_QTGUI_QPOINTINGDEVICEUNIQUEID] QPointingDevice [[QString; cxx_qint64;
        QInputDevice_DeviceType; QPointingDevice_PointerType; QInputDevice_Capabilities; cxx_int; cxx_int;
        QString; QPointingDeviceUniqueId; QObject_ptr]; [QObject_ptr]];
    Cls [TYPE_QTGUI_QWINDOW] QRasterWindow [[QWindow_ptr]];
    Cls [TYPE_QTCORE_QOBJECT; VALUE_TYPE_QTCORE_QREGULAREXPRESSION] QRegularExpressionValidator
        [[QObject_ptr]; [QRegularExpression; QObject_ptr]];
    Cls [TYPE_QTCORE_QOBJECT] QShortcut [[QObject_ptr]];
    Cls [TYPE_QTCORE_QOBJECT] QStandardItemModel [[QObject_ptr]; [cxx_int; cxx_int; QObject_ptr]];
    Cls [TYPE_QTCORE_QOBJECT; TYPE_QTGUI_QTEXTDOCUMENT] QSyntaxHighlighter [[QTextDocument_ptr];
        [QObject_ptr]];
    Cls [TYPE_QTCORE_QOBJECT] QTextDocument [[QObject_ptr]; [QString; QObject_ptr]];
    Cls [TYPE_QTGUI_QTEXTDOCUMENT] QTextFrame [[QTextDocument_ptr]];
    Cls [TYPE_QTGUI_QTEXTDOCUMENT] QTextList [[QTextDocument_ptr]];
    Cls [TYPE_QTGUI_QTEXTDOCUMENT] QTextTable [[QTextDocument_ptr]];
    Cls [TYPE_QTCORE_QOBJECT] QUndoGroup [[QObject_ptr]]
  ].

Definition constructors_qtgui_0 : constructor_shard :=
  ConstructorShard QtGui "KRY_QT6_NATIVE_CONSTRUCTORS_QTGUI_"
    (constructors_qtgui_0_i0)
    (constructors_qtgui_0_r0 ++ constructors_qtgui_0_r1 ++ constructors_qtgui_0_r2 ++
        constructors_qtgui_0_r3 ++ constructors_qtgui_0_r4 ++ constructors_qtgui_0_r5 ++
        constructors_qtgui_0_r6)
    (constructors_qtgui_0_c0).

Definition constructors_qtgui_1_i0 : list include :=
  [
    ClassInclude QtGui QUndoStack QUndoStack;
    ClassInclude QtGui QValidator QValidator;
    ClassInclude QtGui QWindow QWindow;
    TypeInclude QtCore QObject TYPE_QTCORE_QOBJECT;
    TypeInclude QtGui QScreen TYPE_QTGUI_QSCREEN;
    TypeInclude QtGui QWindow TYPE_QTGUI_QWINDOW
  ].

Definition constructors_qtgui_1_r0 : list constructor_row :=
  [
    Ctor QUndoStack 0 [Cand [TYPE_QTCORE_QOBJECT] [] None];
    Ctor QValidator 0 [Cand [TYPE_QTCORE_QOBJECT] [] None];
    Ctor QWindow 0 [Cand [TYPE_QTGUI_QSCREEN] [] None; Cand [TYPE_QTGUI_QWINDOW] [] (Some (0%nat,
        QWindow))];
    Ctor QWindow 1 [Cand [TYPE_QTGUI_QSCREEN] [PObject QScreen false] None]
  ].

Definition constructors_qtgui_1_c0 : list class_row :=
  [
    Cls [TYPE_QTCORE_QOBJECT] QUndoStack [[QObject_ptr]];
    Cls [TYPE_QTCORE_QOBJECT] QValidator [[QObject_ptr]];
    Cls [TYPE_QTGUI_QSCREEN; TYPE_QTGUI_QWINDOW] QWindow [[QScreen_ptr]; [QWindow_ptr]]
  ].

Definition constructors_qtgui_1 : constructor_shard :=
  ConstructorShard QtGui "KRY_QT6_NATIVE_CONSTRUCTORS_QTGUI_"
    (constructors_qtgui_1_i0)
    (constructors_qtgui_1_r0)
    (constructors_qtgui_1_c0).

Definition constructors_qthelp_0_i0 : list include :=
  [
    ClassInclude QtHelp QHelpEngine QHelpEngine;
    ClassInclude QtHelp QHelpEngineCore QHelpEngineCore;
    ClassInclude QtHelp QHelpFilterSettingsWidget QHelpFilterSettingsWidget;
    ClassInclude QtHelp QHelpSearchEngine QHelpSearchEngine;
    ClassInclude QtHelp QHelpSearchEngineCore QHelpSearchEngineCore;
    ClassInclude QtHelp QHelpSearchQueryWidget QHelpSearchQueryWidget;
    TypeInclude QtCore QObject TYPE_QTCORE_QOBJECT;
    TypeInclude QtHelp QHelpEngineCore TYPE_QTHELP_QHELPENGINECORE;
    TypeInclude QtWidgets QWidget TYPE_QTWIDGETS_QWIDGET
  ].

Definition constructors_qthelp_0_r0 : list constructor_row :=
  [
    Ctor QHelpEngine 1 [Cand [TYPE_QTCORE_QOBJECT] [PString false] None];
    Ctor QHelpEngineCore 1 [Cand [TYPE_QTCORE_QOBJECT] [PString false] None];
    Ctor QHelpFilterSettingsWidget 0 [Cand [TYPE_QTWIDGETS_QWIDGET] [] None];
    Ctor QHelpSearchEngine 1 [Cand [TYPE_QTCORE_QOBJECT; TYPE_QTHELP_QHELPENGINECORE] [PObject
        QHelpEngineCore false] None];
    Ctor QHelpSearchEngineCore 1 [Cand [TYPE_QTCORE_QOBJECT; TYPE_QTHELP_QHELPENGINECORE] [PObject
        QHelpEngineCore false] None];
    Ctor QHelpSearchQueryWidget 0 [Cand [TYPE_QTWIDGETS_QWIDGET] [] None]
  ].

Definition constructors_qthelp_0_c0 : list class_row :=
  [
    Cls [TYPE_QTCORE_QOBJECT] QHelpEngine [[QString; QObject_ptr]];
    Cls [TYPE_QTCORE_QOBJECT] QHelpEngineCore [[QString; QObject_ptr]];
    Cls [TYPE_QTWIDGETS_QWIDGET] QHelpFilterSettingsWidget [[QWidget_ptr]];
    Cls [TYPE_QTCORE_QOBJECT; TYPE_QTHELP_QHELPENGINECORE] QHelpSearchEngine [[QHelpEngineCore_ptr;
        QObject_ptr]];
    Cls [TYPE_QTCORE_QOBJECT; TYPE_QTHELP_QHELPENGINECORE] QHelpSearchEngineCore [[QHelpEngineCore_ptr;
        QObject_ptr]];
    Cls [TYPE_QTWIDGETS_QWIDGET] QHelpSearchQueryWidget [[QWidget_ptr]]
  ].

Definition constructors_qthelp_0 : constructor_shard :=
  ConstructorShard QtHelp "KRY_QT6_NATIVE_CONSTRUCTORS_QTHELP_"
    (constructors_qthelp_0_i0)
    (constructors_qthelp_0_r0)
    (constructors_qthelp_0_c0).

Definition constructors_qtmultimedia_0_i0 : list include :=
  [
    ClassInclude QtMultimedia QAudioBufferInput QAudioBufferInput;
    ClassInclude QtMultimedia QAudioBufferOutput QAudioBufferOutput;
    ClassInclude QtMultimedia QAudioDecoder QAudioDecoder;
    ClassInclude QtMultimedia QAudioInput QAudioInput;
    ClassInclude QtMultimedia QAudioOutput QAudioOutput;
    ClassInclude QtMultimedia QAudioSink QAudioSink;
    ClassInclude QtMultimedia QAudioSource QAudioSource;
    ClassInclude QtMultimedia QCamera QCamera;
    ClassInclude QtMultimedia QImageCapture QImageCapture;
    ClassInclude QtMultimedia QMediaCaptureSession QMediaCaptureSession;
    ClassInclude QtMultimedia QMediaDevices QMediaDevices;
    ClassInclude QtMultimedia QMediaPlayer QMediaPlayer;
    ClassInclude QtMultimedia QMediaRecorder QMediaRecorder;
    ClassInclude QtMultimedia QScreenCapture QScreenCapture;
    ClassInclude QtMultimedia QSoundEffect QSoundEffect;
    ClassInclude QtMultimedia QVideoFrameInput QVideoFrameInput;
    ClassInclude QtMultimedia QVideoSink QVideoSink;
    ClassInclude QtMultimedia QWindowCapture QWindowCapture;
    TypeInclude QtCore QObject TYPE_QTCORE_QOBJECT;
    TypeInclude QtMultimedia QCameraDevice TYPE_QTMULTIMEDIA_QCAMERADEVICE;
    TypeInclude QtMultimedia QAudioDevice VALUE_TYPE_QTMULTIMEDIA_QAUDIODEVICE;
    TypeInclude QtMultimedia QAudioFormat VALUE_TYPE_QTMULTIMEDIA_QAUDIOFORMAT;
    TypeInclude QtMultimedia QCameraDevice VALUE_TYPE_QTMULTIMEDIA_QCAMERADEVICE;
    TypeInclude QtMultimedia QVideoFrameFormat VALUE_TYPE_QTMULTIMEDIA_QVIDEOFRAMEFORMAT
  ].

Definition constructors_qtmultimedia_0_r0 : list constructor_row :=
  [
    Ctor QAudioBufferInput 0 [Cand [TYPE_QTCORE_QOBJECT] [] None];
    Ctor QAudioBufferInput 1 [Cand [TYPE_QTCORE_QOBJECT; VALUE_TYPE_QTMULTIMEDIA_QAUDIOFORMAT] [PValue
        QAudioFormat] None];
    Ctor QAudioBufferOutput 0 [Cand [TYPE_QTCORE_QOBJECT] [] None];
    Ctor QAudioBufferOutput 1 [Cand [TYPE_QTCORE_QOBJECT; VALUE_TYPE_QTMULTIMEDIA_QAUDIOFORMAT] [PValue
        QAudioFormat] None];
    Ctor QAudioDecoder 0 [Cand [TYPE_QTCORE_QOBJECT] [] None];
    Ctor QAudioInput 0 [Cand [TYPE_QTCORE_QOBJECT] [] None];
    Ctor QAudioInput 1 [Cand [TYPE_QTCORE_QOBJECT; VALUE_TYPE_QTMULTIMEDIA_QAUDIODEVICE] [PValue
        QAudioDevice] None]
  ].

Definition constructors_qtmultimedia_0_r1 : list constructor_row :=
  [
    Ctor QAudioOutput 0 [Cand [TYPE_QTCORE_QOBJECT] [] None];
    Ctor QAudioOutput 1 [Cand [TYPE_QTCORE_QOBJECT; VALUE_TYPE_QTMULTIMEDIA_QAUDIODEVICE] [PValue
        QAudioDevice] None];
    Ctor QAudioSink 0 [Cand [TYPE_QTCORE_QOBJECT; VALUE_TYPE_QTMULTIMEDIA_QAUDIOFORMAT] [] None];
    Ctor QAudioSink 1 [Cand [TYPE_QTCORE_QOBJECT; VALUE_TYPE_QTMULTIMEDIA_QAUDIODEVICE;
        VALUE_TYPE_QTMULTIMEDIA_QAUDIOFORMAT] [PValue QAudioDevice] None; Cand [TYPE_QTCORE_QOBJECT;
        VALUE_TYPE_QTMULTIMEDIA_QAUDIOFORMAT] [PValue QAudioFormat] None];
    Ctor QAudioSink 2 [Cand [TYPE_QTCORE_QOBJECT; VALUE_TYPE_QTMULTIMEDIA_QAUDIODEVICE;
        VALUE_TYPE_QTMULTIMEDIA_QAUDIOFORMAT] [PValue QAudioDevice; PValue QAudioFormat] None];
    Ctor QAudioSource 0 [Cand [TYPE_QTCORE_QOBJECT; VALUE_TYPE_QTMULTIMEDIA_QAUDIOFORMAT] [] None]
  ].

Definition constructors_qtmultimedia_0_r2 : list constructor_row :=
  [
    Ctor QAudioSource 1 [Cand [TYPE_QTCORE_QOBJECT; VALUE_TYPE_QTMULTIMEDIA_QAUDIODEVICE;
        VALUE_TYPE_QTMULTIMEDIA_QAUDIOFORMAT] [PValue QAudioDevice] None; Cand [TYPE_QTCORE_QOBJECT;
        VALUE_TYPE_QTMULTIMEDIA_QAUDIOFORMAT] [PValue QAudioFormat] None];
    Ctor QAudioSource 2 [Cand [TYPE_QTCORE_QOBJECT; VALUE_TYPE_QTMULTIMEDIA_QAUDIODEVICE;
        VALUE_TYPE_QTMULTIMEDIA_QAUDIOFORMAT] [PValue QAudioDevice; PValue QAudioFormat] None];
    Ctor QCamera 0 [Cand [TYPE_QTCORE_QOBJECT] [] None];
    Ctor QCamera 1 [Cand [TYPE_QTCORE_QOBJECT; VALUE_TYPE_QTMULTIMEDIA_QCAMERADEVICE] [PValue
        QCameraDevice] None; Cand [TYPE_QTCORE_QOBJECT; TYPE_QTMULTIMEDIA_QCAMERADEVICE] [PValue
        QCameraDevice_Position] None];
    Ctor QImageCapture 0 [Cand [TYPE_QTCORE_QOBJECT] [] None]
  ].

Definition constructors_qtmultimedia_0_r3 : list constructor_row :=
  [
    Ctor QMediaCaptureSession 0 [Cand [TYPE_QTCORE_QOBJECT] [] None];
    Ctor QMediaDevices 0 [Cand [TYPE_QTCORE_QOBJECT] [] None];
    Ctor QMediaPlayer 0 [Cand [TYPE_QTCORE_QOBJECT] [] None];
    Ctor QMediaRecorder 0 [Cand [TYPE_QTCORE_QOBJECT] [] None];
    Ctor QScreenCapture 0 [Cand [TYPE_QTCORE_QOBJECT] [] None];
    Ctor QSoundEffect 0 [Cand [TYPE_QTCORE_QOBJECT] [] None];
    Ctor QSoundEffect 1 [Cand [TYPE_QTCORE_QOBJECT; VALUE_TYPE_QTMULTIMEDIA_QAUDIODEVICE] [PValue
        QAudioDevice] None]
  ].

Definition constructors_qtmultimedia_0_r4 : list constructor_row :=
  [
    Ctor QVideoFrameInput 0 [Cand [TYPE_QTCORE_QOBJECT] [] None];
    Ctor QVideoFrameInput 1 [Cand [TYPE_QTCORE_QOBJECT; VALUE_TYPE_QTMULTIMEDIA_QVIDEOFRAMEFORMAT] [PValue
        QVideoFrameFormat] None];
    Ctor QVideoSink 0 [Cand [TYPE_QTCORE_QOBJECT] [] None];
    Ctor QWindowCapture 0 [Cand [TYPE_QTCORE_QOBJECT] [] None]
  ].

Definition constructors_qtmultimedia_0_c0 : list class_row :=
  [
    Cls [TYPE_QTCORE_QOBJECT; VALUE_TYPE_QTMULTIMEDIA_QAUDIOFORMAT] QAudioBufferInput [[QObject_ptr];
        [QAudioFormat; QObject_ptr]];
    Cls [TYPE_QTCORE_QOBJECT; VALUE_TYPE_QTMULTIMEDIA_QAUDIOFORMAT] QAudioBufferOutput [[QObject_ptr];
        [QAudioFormat; QObject_ptr]];
    Cls [TYPE_QTCORE_QOBJECT] QAudioDecoder [[QObject_ptr]];
    Cls [TYPE_QTCORE_QOBJECT; VALUE_TYPE_QTMULTIMEDIA_QAUDIODEVICE] QAudioInput [[QAudioDevice;
        QObject_ptr]; [QObject_ptr]];
    Cls [TYPE_QTCORE_QOBJECT; VALUE_TYPE_QTMULTIMEDIA_QAUDIODEVICE] QAudioOutput [[QAudioDevice;
        QObject_ptr]; [QObject_ptr]];
    Cls [TYPE_QTCORE_QOBJECT; VALUE_TYPE_QTMULTIMEDIA_QAUDIODEVICE; VALUE_TYPE_QTMULTIMEDIA_QAUDIOFORMAT]
        QAudioSink [[QAudioDevice; QAudioFormat; QObject_ptr]; [QAudioFormat; QObject_ptr]];
    Cls [TYPE_QTCORE_QOBJECT; VALUE_TYPE_QTMULTIMEDIA_QAUDIODEVICE; VALUE_TYPE_QTMULTIMEDIA_QAUDIOFORMAT]
        QAudioSource [[QAudioDevice; QAudioFormat; QObject_ptr]; [QAudioFormat; QObject_ptr]];
    Cls [TYPE_QTCORE_QOBJECT; TYPE_QTMULTIMEDIA_QCAMERADEVICE; VALUE_TYPE_QTMULTIMEDIA_QCAMERADEVICE]
        QCamera [[QCameraDevice; QObject_ptr]; [QCameraDevice_Position; QObject_ptr]; [QObject_ptr]];
    Cls [TYPE_QTCORE_QOBJECT] QImageCapture [[QObject_ptr]];
    Cls [TYPE_QTCORE_QOBJECT] QMediaCaptureSession [[QObject_ptr]];
    Cls [TYPE_QTCORE_QOBJECT] QMediaDevices [[QObject_ptr]];
    Cls [TYPE_QTCORE_QOBJECT] QMediaPlayer [[QObject_ptr]];
    Cls [TYPE_QTCORE_QOBJECT] QMediaRecorder [[QObject_ptr]];
    Cls [TYPE_QTCORE_QOBJECT] QScreenCapture [[QObject_ptr]];
    Cls [TYPE_QTCORE_QOBJECT; VALUE_TYPE_QTMULTIMEDIA_QAUDIODEVICE] QSoundEffect [[QAudioDevice;
        QObject_ptr]; [QObject_ptr]];
    Cls [TYPE_QTCORE_QOBJECT; VALUE_TYPE_QTMULTIMEDIA_QVIDEOFRAMEFORMAT] QVideoFrameInput [[QObject_ptr];
        [QVideoFrameFormat; QObject_ptr]];
    Cls [TYPE_QTCORE_QOBJECT] QVideoSink [[QObject_ptr]];
    Cls [TYPE_QTCORE_QOBJECT] QWindowCapture [[QObject_ptr]]
  ].

Definition constructors_qtmultimedia_0 : constructor_shard :=
  ConstructorShard QtMultimedia "KRY_QT6_NATIVE_CONSTRUCTORS_QTMULTIMEDIA_"
    (constructors_qtmultimedia_0_i0)
    (constructors_qtmultimedia_0_r0 ++ constructors_qtmultimedia_0_r1 ++ constructors_qtmultimedia_0_r2 ++
        constructors_qtmultimedia_0_r3 ++ constructors_qtmultimedia_0_r4)
    (constructors_qtmultimedia_0_c0).

Definition constructors_qtmultimediawidgets_0_i0 : list include :=
  [
    ClassInclude QtMultimediaWidgets QVideoWidget QVideoWidget;
    TypeInclude QtWidgets QWidget TYPE_QTWIDGETS_QWIDGET
  ].

Definition constructors_qtmultimediawidgets_0_r0 : list constructor_row :=
  [
    Ctor QVideoWidget 0 [Cand [TYPE_QTWIDGETS_QWIDGET] [] None]
  ].

Definition constructors_qtmultimediawidgets_0_c0 : list class_row :=
  [
    Cls [TYPE_QTWIDGETS_QWIDGET] QVideoWidget [[QWidget_ptr]]
  ].

Definition constructors_qtmultimediawidgets_0 : constructor_shard :=
  ConstructorShard QtMultimediaWidgets "KRY_QT6_NATIVE_CONSTRUCTORS_QTMULTIMEDIAWIDGETS_"
    (constructors_qtmultimediawidgets_0_i0)
    (constructors_qtmultimediawidgets_0_r0)
    (constructors_qtmultimediawidgets_0_c0).

Definition constructors_qtnetwork_0_i0 : list include :=
  [
    ClassInclude QtNetwork QAbstractSocket QAbstractSocket;
    ClassInclude QtNetwork QDnsLookup QDnsLookup;
    ClassInclude QtNetwork QHttpMultiPart QHttpMultiPart;
    ClassInclude QtNetwork QLocalServer QLocalServer;
    ClassInclude QtNetwork QLocalSocket QLocalSocket;
    ClassInclude QtNetwork QNetworkAccessManager QNetworkAccessManager;
    ClassInclude QtNetwork QNetworkCookieJar QNetworkCookieJar;
    ClassInclude QtNetwork QNetworkDiskCache QNetworkDiskCache;
    ClassInclude QtNetwork QRestAccessManager QRestAccessManager;
    ClassInclude QtNetwork QSslServer QSslServer;
    ClassInclude QtNetwork QSslSocket QSslSocket;
    ClassInclude QtNetwork QTcpServer QTcpServer;
    ClassInclude QtNetwork QTcpSocket QTcpSocket;
    ClassInclude QtNetwork QUdpSocket QUdpSocket;
    TypeInclude QtCore QObject TYPE_QTCORE_QOBJECT;
    TypeInclude QtNetwork QNetworkAccessManager TYPE_QTNETWORK_QNETWORKACCESSMANAGER;
    TypeInclude QtNetwork QAbstractSocket TYPE_QTNETWORK_QABSTRACTSOCKET;
    TypeInclude QtNetwork QDnsLookup TYPE_QTNETWORK_QDNSLOOKUP;
    TypeInclude QtNetwork QHttpMultiPart TYPE_QTNETWORK_QHTTPMULTIPART;
    TypeInclude QtNetwork QHostAddress VALUE_TYPE_QTNETWORK_QHOSTADDRESS
  ].

Definition constructors_qtnetwork_0_r0 : list constructor_row :=
  [
    Ctor QAbstractSocket 1 [Cand [TYPE_QTCORE_QOBJECT; TYPE_QTNETWORK_QABSTRACTSOCKET] [PValue
        QAbstractSocket_SocketType] (Some (1%nat, QObject))];
    Ctor QDnsLookup 0 [Cand [TYPE_QTCORE_QOBJECT] [] None];
    Ctor QDnsLookup 2 [Cand [TYPE_QTCORE_QOBJECT; TYPE_QTNETWORK_QDNSLOOKUP] [PValue QDnsLookup_Type;
        PString false] None];
    Ctor QDnsLookup 3 [Cand [TYPE_QTCORE_QOBJECT; TYPE_QTNETWORK_QDNSLOOKUP;
        VALUE_TYPE_QTNETWORK_QHOSTADDRESS] [PValue QDnsLookup_Type; PString false; PValue QHostAddress]
        None];
    Ctor QHttpMultiPart 0 [Cand [TYPE_QTCORE_QOBJECT] [] None];
    Ctor QHttpMultiPart 1 [Cand [TYPE_QTCORE_QOBJECT; TYPE_QTNETWORK_QHTTPMULTIPART] [PValue
        QHttpMultiPart_ContentType] None];
    Ctor QLocalServer 0 [Cand [TYPE_QTCORE_QOBJECT] [] None]
  ].

Definition constructors_qtnetwork_0_r1 : list constructor_row :=
  [
    Ctor QLocalSocket 0 [Cand [TYPE_QTCORE_QOBJECT] [] None];
    Ctor QNetworkAccessManager 0 [Cand [TYPE_QTCORE_QOBJECT] [] None];
    Ctor QNetworkCookieJar 0 [Cand [TYPE_QTCORE_QOBJECT] [] None];
    Ctor QNetworkDiskCache 0 [Cand [TYPE_QTCORE_QOBJECT] [] None];
    Ctor QRestAccessManager 1 [Cand [TYPE_QTCORE_QOBJECT; TYPE_QTNETWORK_QNETWORKACCESSMANAGER] [PObject
        QNetworkAccessManager false] None];
    Ctor QSslServer 0 [Cand [TYPE_QTCORE_QOBJECT] [] None];
    Ctor QSslSocket 0 [Cand [TYPE_QTCORE_QOBJECT] [] None]
  ].

Definition constructors_qtnetwork_0_r2 : list constructor_row :=
  [
    Ctor QTcpServer 0 [Cand [TYPE_QTCORE_QOBJECT] [] None];
    Ctor QTcpSocket 0 [Cand [TYPE_QTCORE_QOBJECT] [] None];
    Ctor QUdpSocket 0 [Cand [TYPE_QTCORE_QOBJECT] [] None]
  ].

Definition constructors_qtnetwork_0_c0 : list class_row :=
  [
    Cls [TYPE_QTCORE_QOBJECT; TYPE_QTNETWORK_QABSTRACTSOCKET] QAbstractSocket [[QAbstractSocket_SocketType;
        QObject_ptr]];
    Cls [TYPE_QTCORE_QOBJECT; TYPE_QTNETWORK_QDNSLOOKUP; VALUE_TYPE_QTNETWORK_QHOSTADDRESS] QDnsLookup
        [[QObject_ptr]; [QDnsLookup_Type; QString; QObject_ptr]; [QDnsLookup_Type; QString; QHostAddress;
        QObject_ptr]];
    Cls [TYPE_QTCORE_QOBJECT; TYPE_QTNETWORK_QHTTPMULTIPART] QHttpMultiPart [[QObject_ptr];
        [QHttpMultiPart_ContentType; QObject_ptr]];
    Cls [TYPE_QTCORE_QOBJECT] QLocalServer [[QObject_ptr]];
    Cls [TYPE_QTCORE_QOBJECT] QLocalSocket [[QObject_ptr]];
    Cls [TYPE_QTCORE_QOBJECT] QNetworkAccessManager [[QObject_ptr]];
    Cls [TYPE_QTCORE_QOBJECT] QNetworkCookieJar [[QObject_ptr]];
    Cls [TYPE_QTCORE_QOBJECT] QNetworkDiskCache [[QObject_ptr]];
    Cls [TYPE_QTCORE_QOBJECT; TYPE_QTNETWORK_QNETWORKACCESSMANAGER] QRestAccessManager
        [[QNetworkAccessManager_ptr; QObject_ptr]];
    Cls [TYPE_QTCORE_QOBJECT] QSslServer [[QObject_ptr]];
    Cls [TYPE_QTCORE_QOBJECT] QSslSocket [[QObject_ptr]];
    Cls [TYPE_QTCORE_QOBJECT] QTcpServer [[QObject_ptr]];
    Cls [TYPE_QTCORE_QOBJECT] QTcpSocket [[QObject_ptr]];
    Cls [TYPE_QTCORE_QOBJECT] QUdpSocket [[QObject_ptr]]
  ].

Definition constructors_qtnetwork_0 : constructor_shard :=
  ConstructorShard QtNetwork "KRY_QT6_NATIVE_CONSTRUCTORS_QTNETWORK_"
    (constructors_qtnetwork_0_i0)
    (constructors_qtnetwork_0_r0 ++ constructors_qtnetwork_0_r1 ++ constructors_qtnetwork_0_r2)
    (constructors_qtnetwork_0_c0).

Definition constructors_qtnetworkauth_0_i0 : list include :=
  [
    ClassInclude QtNetworkAuth QAbstractOAuth2 QAbstractOAuth2;
    ClassInclude QtNetworkAuth QAbstractOAuthReplyHandler QAbstractOAuthReplyHandler;
    ClassInclude QtNetworkAuth QOAuth1 QOAuth1;
    ClassInclude QtNetworkAuth QOAuth2AuthorizationCodeFlow QOAuth2AuthorizationCodeFlow;
    ClassInclude QtNetworkAuth QOAuthHttpServerReplyHandler QOAuthHttpServerReplyHandler;
    ClassInclude QtNetworkAuth QOAuthOobReplyHandler QOAuthOobReplyHandler;
    TypeInclude QtCore QObject TYPE_QTCORE_QOBJECT;
    TypeInclude QtNetwork QNetworkAccessManager TYPE_QTNETWORK_QNETWORKACCESSMANAGER;
    TypeInclude QtCore QUrl VALUE_TYPE_QTCORE_QURL
  ].

Definition constructors_qtnetworkauth_0_r0 : list constructor_row :=
  [
    Ctor QAbstractOAuth2 0 [Cand [TYPE_QTCORE_QOBJECT] [] None];
    Ctor QAbstractOAuth2 1 [Cand [TYPE_QTCORE_QOBJECT; TYPE_QTNETWORK_QNETWORKACCESSMANAGER] [PObject
        QNetworkAccessManager false] None];
    Ctor QAbstractOAuthReplyHandler 0 [Cand [TYPE_QTCORE_QOBJECT] [] None];
    Ctor QOAuth1 0 [Cand [TYPE_QTCORE_QOBJECT] [] None];
    Ctor QOAuth1 1 [Cand [TYPE_QTCORE_QOBJECT; TYPE_QTNETWORK_QNETWORKACCESSMANAGER] [PObject
        QNetworkAccessManager false] None];
    Ctor QOAuth1 3 [Cand [TYPE_QTCORE_QOBJECT; TYPE_QTNETWORK_QNETWORKACCESSMANAGER] [PString false;
        PString false; PObject QNetworkAccessManager false] None];
    Ctor QOAuth2AuthorizationCodeFlow 0 [Cand [TYPE_QTCORE_QOBJECT] [] None]
  ].

Definition constructors_qtnetworkauth_0_r1 : list constructor_row :=
  [
    Ctor QOAuth2AuthorizationCodeFlow 1 [Cand [TYPE_QTCORE_QOBJECT; TYPE_QTNETWORK_QNETWORKACCESSMANAGER]
        [PObject QNetworkAccessManager false] None];
    Ctor QOAuth2AuthorizationCodeFlow 2 [Cand [TYPE_QTCORE_QOBJECT; TYPE_QTNETWORK_QNETWORKACCESSMANAGER]
        [PString false; PObject QNetworkAccessManager false] None];
    Ctor QOAuth2AuthorizationCodeFlow 3 [Cand [TYPE_QTCORE_QOBJECT; TYPE_QTNETWORK_QNETWORKACCESSMANAGER;
        VALUE_TYPE_QTCORE_QURL] [PValue QUrl; PValue QUrl; PObject QNetworkAccessManager false] None];
    Ctor QOAuth2AuthorizationCodeFlow 4 [Cand [TYPE_QTCORE_QOBJECT; TYPE_QTNETWORK_QNETWORKACCESSMANAGER;
        VALUE_TYPE_QTCORE_QURL] [PString false; PValue QUrl; PValue QUrl; PObject QNetworkAccessManager
        false] None];
    Ctor QOAuthHttpServerReplyHandler 0 [Cand [TYPE_QTCORE_QOBJECT] [] None];
    Ctor QOAuthOobReplyHandler 0 [Cand [TYPE_QTCORE_QOBJECT] [] None]
  ].

Definition constructors_qtnetworkauth_0_c0 : list class_row :=
  [
    Cls [TYPE_QTCORE_QOBJECT; TYPE_QTNETWORK_QNETWORKACCESSMANAGER] QAbstractOAuth2 [[QObject_ptr];
        [QNetworkAccessManager_ptr; QObject_ptr]];
    Cls [TYPE_QTCORE_QOBJECT] QAbstractOAuthReplyHandler [[QObject_ptr]];
    Cls [TYPE_QTCORE_QOBJECT; TYPE_QTNETWORK_QNETWORKACCESSMANAGER] QOAuth1 [[QObject_ptr];
        [QNetworkAccessManager_ptr; QObject_ptr]; [QString; QString; QNetworkAccessManager_ptr;
        QObject_ptr]];
    Cls [TYPE_QTCORE_QOBJECT; TYPE_QTNETWORK_QNETWORKACCESSMANAGER; VALUE_TYPE_QTCORE_QURL]
        QOAuth2AuthorizationCodeFlow [[QObject_ptr]; [QNetworkAccessManager_ptr; QObject_ptr]; [QString;
        QNetworkAccessManager_ptr; QObject_ptr]; [QUrl; QUrl; QNetworkAccessManager_ptr; QObject_ptr];
        [QString; QUrl; QUrl; QNetworkAccessManager_ptr; QObject_ptr]];
    Cls [TYPE_QTCORE_QOBJECT] QOAuthHttpServerReplyHandler [[QObject_ptr]];
    Cls [TYPE_QTCORE_QOBJECT] QOAuthOobReplyHandler [[QObject_ptr]]
  ].

Definition constructors_qtnetworkauth_0 : constructor_shard :=
  ConstructorShard QtNetworkAuth "KRY_QT6_NATIVE_CONSTRUCTORS_QTNETWORKAUTH_"
    (constructors_qtnetworkauth_0_i0)
    (constructors_qtnetworkauth_0_r0 ++ constructors_qtnetworkauth_0_r1)
    (constructors_qtnetworkauth_0_c0).

Definition constructors_qtnfc_0_i0 : list include :=
  [
    ClassInclude QtNfc QNearFieldManager QNearFieldManager;
    ClassInclude QtNfc QNearFieldTarget QNearFieldTarget;
    TypeInclude QtCore QObject TYPE_QTCORE_QOBJECT
  ].

Definition constructors_qtnfc_0_r0 : list constructor_row :=
  [
    Ctor QNearFieldManager 0 [Cand [TYPE_QTCORE_QOBJECT] [] None];
    Ctor QNearFieldTarget 0 [Cand [TYPE_QTCORE_QOBJECT] [] None]
  ].

Definition constructors_qtnfc_0_c0 : list class_row :=
  [
    Cls [TYPE_QTCORE_QOBJECT] QNearFieldManager [[QObject_ptr]];
    Cls [TYPE_QTCORE_QOBJECT] QNearFieldTarget [[QObject_ptr]]
  ].

Definition constructors_qtnfc_0 : constructor_shard :=
  ConstructorShard QtNfc "KRY_QT6_NATIVE_CONSTRUCTORS_QTNFC_"
    (constructors_qtnfc_0_i0)
    (constructors_qtnfc_0_r0)
    (constructors_qtnfc_0_c0).

Definition constructors_qtopengl_0_i0 : list include :=
  [
    ClassInclude QtOpenGL QOpenGLDebugLogger QOpenGLDebugLogger;
    ClassInclude QtOpenGL QOpenGLShader QOpenGLShader;
    ClassInclude QtOpenGL QOpenGLShaderProgram QOpenGLShaderProgram;
    ClassInclude QtOpenGL QOpenGLTimeMonitor QOpenGLTimeMonitor;
    ClassInclude QtOpenGL QOpenGLTimerQuery QOpenGLTimerQuery;
    ClassInclude QtOpenGL QOpenGLVertexArrayObject QOpenGLVertexArrayObject;
    ClassInclude QtOpenGL QOpenGLWindow QOpenGLWindow;
    TypeInclude QtCore QObject TYPE_QTCORE_QOBJECT;
    TypeInclude QtGui QOpenGLContext TYPE_QTGUI_QOPENGLCONTEXT;
    TypeInclude QtGui QWindow TYPE_QTGUI_QWINDOW;
    TypeInclude QtOpenGL QOpenGLShader TYPE_QTOPENGL_QOPENGLSHADER;
    TypeInclude QtOpenGL QOpenGLWindow TYPE_QTOPENGL_QOPENGLWINDOW
  ].

Definition constructors_qtopengl_0_r0 : list constructor_row :=
  [
    Ctor QOpenGLDebugLogger 0 [Cand [TYPE_QTCORE_QOBJECT] [] None];
    Ctor QOpenGLShader 1 [Cand [TYPE_QTCORE_QOBJECT; TYPE_QTOPENGL_QOPENGLSHADER] [PValue
        QOpenGLShader_ShaderType] None];
    Ctor QOpenGLShaderProgram 0 [Cand [TYPE_QTCORE_QOBJECT] [] None];
    Ctor QOpenGLTimeMonitor 0 [Cand [TYPE_QTCORE_QOBJECT] [] None];
    Ctor QOpenGLTimerQuery 0 [Cand [TYPE_QTCORE_QOBJECT] [] None];
    Ctor QOpenGLVertexArrayObject 0 [Cand [TYPE_QTCORE_QOBJECT] [] None];
    Ctor QOpenGLWindow 0 [Cand [TYPE_QTGUI_QWINDOW; TYPE_QTOPENGL_QOPENGLWINDOW] [] None]
  ].

Definition constructors_qtopengl_0_r1 : list constructor_row :=
  [
    Ctor QOpenGLWindow 1 [Cand [TYPE_QTGUI_QWINDOW; TYPE_QTOPENGL_QOPENGLWINDOW] [PValue
        QOpenGLWindow_UpdateBehavior] None; Cand [TYPE_QTGUI_QOPENGLCONTEXT; TYPE_QTGUI_QWINDOW;
        TYPE_QTOPENGL_QOPENGLWINDOW] [PObject QOpenGLContext false] None];
    Ctor QOpenGLWindow 2 [Cand [TYPE_QTGUI_QOPENGLCONTEXT; TYPE_QTGUI_QWINDOW; TYPE_QTOPENGL_QOPENGLWINDOW]
        [PObject QOpenGLContext false; PValue QOpenGLWindow_UpdateBehavior] None]
  ].

Definition constructors_qtopengl_0_c0 : list class_row :=
  [
    Cls [TYPE_QTCORE_QOBJECT] QOpenGLDebugLogger [[QObject_ptr]];
    Cls [TYPE_QTCORE_QOBJECT; TYPE_QTOPENGL_QOPENGLSHADER] QOpenGLShader [[QOpenGLShader_ShaderType;
        QObject_ptr]];
    Cls [TYPE_QTCORE_QOBJECT] QOpenGLShaderProgram [[QObject_ptr]];
    Cls [TYPE_QTCORE_QOBJECT] QOpenGLTimeMonitor [[QObject_ptr]];
    Cls [TYPE_QTCORE_QOBJECT] QOpenGLTimerQuery [[QObject_ptr]];
    Cls [TYPE_QTCORE_QOBJECT] QOpenGLVertexArrayObject [[QObject_ptr]];
    Cls [TYPE_QTGUI_QOPENGLCONTEXT; TYPE_QTGUI_QWINDOW; TYPE_QTOPENGL_QOPENGLWINDOW] QOpenGLWindow
        [[QOpenGLWindow_UpdateBehavior; QWindow_ptr]; [QOpenGLContext_ptr; QOpenGLWindow_UpdateBehavior;
        QWindow_ptr]]
  ].

Definition constructors_qtopengl_0 : constructor_shard :=
  ConstructorShard QtOpenGL "KRY_QT6_NATIVE_CONSTRUCTORS_QTOPENGL_"
    (constructors_qtopengl_0_i0)
    (constructors_qtopengl_0_r0 ++ constructors_qtopengl_0_r1)
    (constructors_qtopengl_0_c0).

Definition constructors_qtopenglwidgets_0_i0 : list include :=
  [
    ClassInclude QtOpenGLWidgets QOpenGLWidget QOpenGLWidget;
    TypeInclude QtWidgets QWidget TYPE_QTWIDGETS_QWIDGET;
    EnumDefine ENUM_QT_WINDOWFLAGS
  ].

Definition constructors_qtopenglwidgets_0_r0 : list constructor_row :=
  [
    Ctor QOpenGLWidget 0 [Cand [ENUM_QT_WINDOWFLAGS; TYPE_QTWIDGETS_QWIDGET] [] None];
    Ctor QOpenGLWidget 1 [Cand [ENUM_QT_WINDOWFLAGS; TYPE_QTWIDGETS_QWIDGET] [PValue Qt_WindowFlags] (Some
        (0%nat, QWidget))]
  ].

Definition constructors_qtopenglwidgets_0_c0 : list class_row :=
  [
    Cls [ENUM_QT_WINDOWFLAGS; TYPE_QTWIDGETS_QWIDGET] QOpenGLWidget [[QWidget_ptr; Qt_WindowFlags]]
  ].

Definition constructors_qtopenglwidgets_0 : constructor_shard :=
  ConstructorShard QtOpenGLWidgets "KRY_QT6_NATIVE_CONSTRUCTORS_QTOPENGLWIDGETS_"
    (constructors_qtopenglwidgets_0_i0)
    (constructors_qtopenglwidgets_0_r0)
    (constructors_qtopenglwidgets_0_c0).

Definition constructors_qtpdf_0_i0 : list include :=
  [
    ClassInclude QtPdf QPdfBookmarkModel QPdfBookmarkModel;
    ClassInclude QtPdf QPdfDocument QPdfDocument;
    ClassInclude QtPdf QPdfLinkModel QPdfLinkModel;
    ClassInclude QtPdf QPdfPageNavigator QPdfPageNavigator;
    ClassInclude QtPdf QPdfPageRenderer QPdfPageRenderer;
    ClassInclude QtPdf QPdfSearchModel QPdfSearchModel;
    TypeInclude QtCore QObject TYPE_QTCORE_QOBJECT
  ].

Definition constructors_qtpdf_0_r0 : list constructor_row :=
  [
    Ctor QPdfBookmarkModel 0 [Cand [TYPE_QTCORE_QOBJECT] [] (Some (0%nat, QObject))];
    Ctor QPdfDocument 0 [Cand [TYPE_QTCORE_QOBJECT] [] (Some (0%nat, QObject))];
    Ctor QPdfLinkModel 0 [Cand [TYPE_QTCORE_QOBJECT] [] None];
    Ctor QPdfPageNavigator 0 [Cand [TYPE_QTCORE_QOBJECT] [] (Some (0%nat, QObject))];
    Ctor QPdfPageRenderer 0 [Cand [TYPE_QTCORE_QOBJECT] [] (Some (0%nat, QObject))];
    Ctor QPdfSearchModel 0 [Cand [TYPE_QTCORE_QOBJECT] [] (Some (0%nat, QObject))]
  ].

Definition constructors_qtpdf_0_c0 : list class_row :=
  [
    Cls [TYPE_QTCORE_QOBJECT] QPdfBookmarkModel [[QObject_ptr]];
    Cls [TYPE_QTCORE_QOBJECT] QPdfDocument [[QObject_ptr]];
    Cls [TYPE_QTCORE_QOBJECT] QPdfLinkModel [[QObject_ptr]];
    Cls [TYPE_QTCORE_QOBJECT] QPdfPageNavigator [[QObject_ptr]];
    Cls [TYPE_QTCORE_QOBJECT] QPdfPageRenderer [[QObject_ptr]];
    Cls [TYPE_QTCORE_QOBJECT] QPdfSearchModel [[QObject_ptr]]
  ].

Definition constructors_qtpdf_0 : constructor_shard :=
  ConstructorShard QtPdf "KRY_QT6_NATIVE_CONSTRUCTORS_QTPDF_"
    (constructors_qtpdf_0_i0)
    (constructors_qtpdf_0_r0)
    (constructors_qtpdf_0_c0).

Definition constructors_qtpdfwidgets_0_i0 : list include :=
  [
    ClassInclude QtPdfWidgets QPdfPageSelector QPdfPageSelector;
    ClassInclude QtPdfWidgets QPdfView QPdfView;
    TypeInclude QtWidgets QWidget TYPE_QTWIDGETS_QWIDGET
  ].

Definition constructors_qtpdfwidgets_0_r0 : list constructor_row :=
  [
    Ctor QPdfPageSelector 0 [Cand [TYPE_QTWIDGETS_QWIDGET] [] (Some (0%nat, QWidget))];
    Ctor QPdfView 0 [Cand [TYPE_QTWIDGETS_QWIDGET] [] (Some (0%nat, QWidget))]
  ].

Definition constructors_qtpdfwidgets_0_c0 : list class_row :=
  [
    Cls [TYPE_QTWIDGETS_QWIDGET] QPdfPageSelector [[QWidget_ptr]];
    Cls [TYPE_QTWIDGETS_QWIDGET] QPdfView [[QWidget_ptr]]
  ].

Definition constructors_qtpdfwidgets_0 : constructor_shard :=
  ConstructorShard QtPdfWidgets "KRY_QT6_NATIVE_CONSTRUCTORS_QTPDFWIDGETS_"
    (constructors_qtpdfwidgets_0_i0)
    (constructors_qtpdfwidgets_0_r0)
    (constructors_qtpdfwidgets_0_c0).

Definition constructors_qtpositioning_0_i0 : list include :=
  [
    ClassInclude QtPositioning QGeoAreaMonitorSource QGeoAreaMonitorSource;
    ClassInclude QtPositioning QGeoPositionInfoSource QGeoPositionInfoSource;
    ClassInclude QtPositioning QGeoSatelliteInfoSource QGeoSatelliteInfoSource;
    ClassInclude QtPositioning QNmeaPositionInfoSource QNmeaPositionInfoSource;
    ClassInclude QtPositioning QNmeaSatelliteInfoSource QNmeaSatelliteInfoSource;
    TypeInclude QtCore QObject TYPE_QTCORE_QOBJECT;
    TypeInclude QtPositioning QNmeaPositionInfoSource TYPE_QTPOSITIONING_QNMEAPOSITIONINFOSOURCE;
    TypeInclude QtPositioning QNmeaSatelliteInfoSource TYPE_QTPOSITIONING_QNMEASATELLITEINFOSOURCE
  ].

Definition constructors_qtpositioning_0_r0 : list constructor_row :=
  [
    Ctor QGeoAreaMonitorSource 0 [Cand [TYPE_QTCORE_QOBJECT] [] (Some (0%nat, QObject))];
    Ctor QGeoPositionInfoSource 0 [Cand [TYPE_QTCORE_QOBJECT] [] (Some (0%nat, QObject))];
    Ctor QGeoSatelliteInfoSource 0 [Cand [TYPE_QTCORE_QOBJECT] [] (Some (0%nat, QObject))];
    Ctor QNmeaPositionInfoSource 1 [Cand [TYPE_QTCORE_QOBJECT; TYPE_QTPOSITIONING_QNMEAPOSITIONINFOSOURCE]
        [PValue QNmeaPositionInfoSource_UpdateMode] None];
    Ctor QNmeaSatelliteInfoSource 1 [Cand [TYPE_QTCORE_QOBJECT;
        TYPE_QTPOSITIONING_QNMEASATELLITEINFOSOURCE] [PValue QNmeaSatelliteInfoSource_UpdateMode] None]
  ].

Definition constructors_qtpositioning_0_c0 : list class_row :=
  [
    Cls [TYPE_QTCORE_QOBJECT] QGeoAreaMonitorSource [[QObject_ptr]];
    Cls [TYPE_QTCORE_QOBJECT] QGeoPositionInfoSource [[QObject_ptr]];
    Cls [TYPE_QTCORE_QOBJECT] QGeoSatelliteInfoSource [[QObject_ptr]];
    Cls [TYPE_QTCORE_QOBJECT; TYPE_QTPOSITIONING_QNMEAPOSITIONINFOSOURCE] QNmeaPositionInfoSource
        [[QNmeaPositionInfoSource_UpdateMode; QObject_ptr]];
    Cls [TYPE_QTCORE_QOBJECT; TYPE_QTPOSITIONING_QNMEASATELLITEINFOSOURCE] QNmeaSatelliteInfoSource
        [[QNmeaSatelliteInfoSource_UpdateMode; QObject_ptr]]
  ].

Definition constructors_qtpositioning_0 : constructor_shard :=
  ConstructorShard QtPositioning "KRY_QT6_NATIVE_CONSTRUCTORS_QTPOSITIONING_"
    (constructors_qtpositioning_0_i0)
    (constructors_qtpositioning_0_r0)
    (constructors_qtpositioning_0_c0).

Definition constructors_qtprintsupport_0_i0 : list include :=
  [
    ClassInclude QtPrintSupport QPageSetupDialog QPageSetupDialog;
    ClassInclude QtPrintSupport QPrintDialog QPrintDialog;
    ClassInclude QtPrintSupport QPrintPreviewDialog QPrintPreviewDialog;
    ClassInclude QtPrintSupport QPrintPreviewWidget QPrintPreviewWidget;
    TypeInclude QtWidgets QWidget TYPE_QTWIDGETS_QWIDGET;
    EnumDefine ENUM_QT_WINDOWFLAGS
  ].

Definition constructors_qtprintsupport_0_r0 : list constructor_row :=
  [
    Ctor QPageSetupDialog 0 [Cand [TYPE_QTWIDGETS_QWIDGET] [] None];
    Ctor QPrintDialog 0 [Cand [TYPE_QTWIDGETS_QWIDGET] [] None];
    Ctor QPrintPreviewDialog 0 [Cand [ENUM_QT_WINDOWFLAGS; TYPE_QTWIDGETS_QWIDGET] [] None];
    Ctor QPrintPreviewDialog 1 [Cand [ENUM_QT_WINDOWFLAGS; TYPE_QTWIDGETS_QWIDGET] [PValue Qt_WindowFlags]
        (Some (0%nat, QWidget))];
    Ctor QPrintPreviewWidget 0 [Cand [ENUM_QT_WINDOWFLAGS; TYPE_QTWIDGETS_QWIDGET] [] None];
    Ctor QPrintPreviewWidget 1 [Cand [ENUM_QT_WINDOWFLAGS; TYPE_QTWIDGETS_QWIDGET] [PValue Qt_WindowFlags]
        (Some (0%nat, QWidget))]
  ].

Definition constructors_qtprintsupport_0_c0 : list class_row :=
  [
    Cls [TYPE_QTWIDGETS_QWIDGET] QPageSetupDialog [[QWidget_ptr]];
    Cls [TYPE_QTWIDGETS_QWIDGET] QPrintDialog [[QWidget_ptr]];
    Cls [ENUM_QT_WINDOWFLAGS; TYPE_QTWIDGETS_QWIDGET] QPrintPreviewDialog [[QWidget_ptr; Qt_WindowFlags]];
    Cls [ENUM_QT_WINDOWFLAGS; TYPE_QTWIDGETS_QWIDGET] QPrintPreviewWidget [[QWidget_ptr; Qt_WindowFlags]]
  ].

Definition constructors_qtprintsupport_0 : constructor_shard :=
  ConstructorShard QtPrintSupport "KRY_QT6_NATIVE_CONSTRUCTORS_QTPRINTSUPPORT_"
    (constructors_qtprintsupport_0_i0)
    (constructors_qtprintsupport_0_r0)
    (constructors_qtprintsupport_0_c0).

Definition constructors_qtqml_0_i0 : list include :=
  [
    ClassInclude QtQml QJSEngine QJSEngine;
    ClassInclude QtQml QQmlApplicationEngine QQmlApplicationEngine;
    ClassInclude QtQml QQmlComponent QQmlComponent;
    ClassInclude QtQml QQmlContext QQmlContext;
    ClassInclude QtQml QQmlEngine QQmlEngine;
    ClassInclude QtQml QQmlEngineExtensionPlugin QQmlEngineExtensionPlugin;
    ClassInclude QtQml QQmlExpression QQmlExpression;
    ClassInclude QtQml QQmlExtensionPlugin QQmlExtensionPlugin;
    ClassInclude QtQml QQmlFileSelector QQmlFileSelector;
    ClassInclude QtQml QQmlPropertyMap QQmlPropertyMap;
    TypeInclude QtCore QObject TYPE_QTCORE_QOBJECT;
    TypeInclude QtQml QQmlContext TYPE_QTQML_QQMLCONTEXT;
    TypeInclude QtQml QQmlEngine TYPE_QTQML_QQMLENGINE;
    TypeInclude QtQml QQmlComponent TYPE_QTQML_QQMLCOMPONENT;
    TypeInclude QtCore QUrl VALUE_TYPE_QTCORE_QURL;
    TypeInclude QtQml QQmlScriptString VALUE_TYPE_QTQML_QQMLSCRIPTSTRING
  ].

Definition constructors_qtqml_0_r0 : list constructor_row :=
  [
    Ctor QJSEngine 0 [Cand [] [] None; Cand [TYPE_QTCORE_QOBJECT] [] (Some (0%nat, QObject))];
    Ctor QQmlApplicationEngine 0 [Cand [TYPE_QTCORE_QOBJECT] [] None];
    Ctor QQmlApplicationEngine 1 [Cand [TYPE_QTCORE_QOBJECT; VALUE_TYPE_QTCORE_QURL] [PValue QUrl] None;
        Cand [TYPE_QTCORE_QOBJECT] [PString false] None];
    Ctor QQmlComponent 0 [Cand [TYPE_QTCORE_QOBJECT] [] None];
    Ctor QQmlComponent 1 [Cand [TYPE_QTCORE_QOBJECT; TYPE_QTQML_QQMLENGINE] [PObject QQmlEngine false] None]
  ].

Definition constructors_qtqml_0_r1 : list constructor_row :=
  [
    Ctor QQmlComponent 2 [Cand [TYPE_QTCORE_QOBJECT; TYPE_QTQML_QQMLENGINE] [PObject QQmlEngine false;
        PString false] None; Cand [TYPE_QTCORE_QOBJECT; TYPE_QTQML_QQMLENGINE; VALUE_TYPE_QTCORE_QURL]
        [PObject QQmlEngine false; PValue QUrl] None];
    Ctor QQmlComponent 3 [Cand [TYPE_QTCORE_QOBJECT; TYPE_QTQML_QQMLCOMPONENT; TYPE_QTQML_QQMLENGINE]
        [PObject QQmlEngine false; PString false; PValue QQmlComponent_CompilationMode] None; Cand
        [TYPE_QTCORE_QOBJECT; TYPE_QTQML_QQMLCOMPONENT; TYPE_QTQML_QQMLENGINE; VALUE_TYPE_QTCORE_QURL]
        [PObject QQmlEngine false; PValue QUrl; PValue QQmlComponent_CompilationMode] None];
    Ctor QQmlContext 1 [Cand [TYPE_QTCORE_QOBJECT; TYPE_QTQML_QQMLENGINE] [PObject QQmlEngine false] None;
        Cand [TYPE_QTCORE_QOBJECT; TYPE_QTQML_QQMLCONTEXT] [PObject QQmlContext false] None];
    Ctor QQmlEngine 0 [Cand [TYPE_QTCORE_QOBJECT] [] None]
  ].

Definition constructors_qtqml_0_r2 : list constructor_row :=
  [
    Ctor QQmlEngineExtensionPlugin 0 [Cand [TYPE_QTCORE_QOBJECT] [] None];
    Ctor QQmlExpression 0 [Cand [] [] None];
    Ctor QQmlExpression 1 [Cand [TYPE_QTCORE_QOBJECT; TYPE_QTQML_QQMLCONTEXT;
        VALUE_TYPE_QTQML_QQMLSCRIPTSTRING] [PValue QQmlScriptString] None];
    Ctor QQmlExpression 2 [Cand [TYPE_QTCORE_QOBJECT; TYPE_QTQML_QQMLCONTEXT;
        VALUE_TYPE_QTQML_QQMLSCRIPTSTRING] [PValue QQmlScriptString; PObject QQmlContext false] None];
    Ctor QQmlExpression 3 [Cand [TYPE_QTCORE_QOBJECT; TYPE_QTQML_QQMLCONTEXT] [PObject QQmlContext false;
        PObject QObject false; PString false] None; Cand [TYPE_QTCORE_QOBJECT; TYPE_QTQML_QQMLCONTEXT;
        VALUE_TYPE_QTQML_QQMLSCRIPTSTRING] [PValue QQmlScriptString; PObject QQmlContext false; PObject
        QObject false] None];
    Ctor QQmlExtensionPlugin 0 [Cand [TYPE_QTCORE_QOBJECT] [] None]
  ].

Definition constructors_qtqml_0_r3 : list constructor_row :=
  [
    Ctor QQmlFileSelector 1 [Cand [TYPE_QTCORE_QOBJECT; TYPE_QTQML_QQMLENGINE] [PObject QQmlEngine false]
        None];
    Ctor QQmlPropertyMap 0 [Cand [TYPE_QTCORE_QOBJECT] [] None]
  ].

Definition constructors_qtqml_0_c0 : list class_row :=
  [
    Cls [TYPE_QTCORE_QOBJECT] QJSEngine [[]; [QObject_ptr]];
    Cls [TYPE_QTCORE_QOBJECT; VALUE_TYPE_QTCORE_QURL] QQmlApplicationEngine [[QObject_ptr]; [QUrl;
        QObject_ptr]; [QString; QObject_ptr]];
    Cls [TYPE_QTCORE_QOBJECT; TYPE_QTQML_QQMLCOMPONENT; TYPE_QTQML_QQMLENGINE; VALUE_TYPE_QTCORE_QURL]
        QQmlComponent [[QQmlEngine_ptr; QObject_ptr]; [QQmlEngine_ptr; QString; QObject_ptr];
        [QQmlEngine_ptr; QString; QQmlComponent_CompilationMode; QObject_ptr]; [QQmlEngine_ptr; QUrl;
        QObject_ptr]; [QQmlEngine_ptr; QUrl; QQmlComponent_CompilationMode; QObject_ptr]; [QObject_ptr]];
    Cls [TYPE_QTCORE_QOBJECT; TYPE_QTQML_QQMLCONTEXT; TYPE_QTQML_QQMLENGINE] QQmlContext [[QQmlEngine_ptr;
        QObject_ptr]; [QQmlContext_ptr; QObject_ptr]];
    Cls [TYPE_QTCORE_QOBJECT] QQmlEngine [[QObject_ptr]];
    Cls [TYPE_QTCORE_QOBJECT] QQmlEngineExtensionPlugin [[QObject_ptr]];
    Cls [TYPE_QTCORE_QOBJECT; TYPE_QTQML_QQMLCONTEXT; VALUE_TYPE_QTQML_QQMLSCRIPTSTRING] QQmlExpression
        [[]; [QQmlContext_ptr; QObject_ptr; QString; QObject_ptr]; [QQmlScriptString; QQmlContext_ptr;
        QObject_ptr; QObject_ptr]];
    Cls [TYPE_QTCORE_QOBJECT] QQmlExtensionPlugin [[QObject_ptr]];
    Cls [TYPE_QTCORE_QOBJECT; TYPE_QTQML_QQMLENGINE] QQmlFileSelector [[QQmlEngine_ptr; QObject_ptr]];
    Cls [TYPE_QTCORE_QOBJECT] QQmlPropertyMap [[QObject_ptr]]
  ].

Definition constructors_qtqml_0 : constructor_shard :=
  ConstructorShard QtQml "KRY_QT6_NATIVE_CONSTRUCTORS_QTQML_"
    (constructors_qtqml_0_i0)
    (constructors_qtqml_0_r0 ++ constructors_qtqml_0_r1 ++ constructors_qtqml_0_r2 ++
        constructors_qtqml_0_r3)
    (constructors_qtqml_0_c0).

Definition constructors_qtquick3d_0_i0 : list include :=
  [
    ClassInclude QtQuick3D QQuick3DGeometry QQuick3DGeometry;
    ClassInclude QtQuick3D QQuick3DObject QQuick3DObject;
    ClassInclude QtQuick3D QQuick3DTextureData QQuick3DTextureData;
    TypeInclude QtQuick3D QQuick3DObject TYPE_QTQUICK3D_QQUICK3DOBJECT
  ].

Definition constructors_qtquick3d_0_r0 : list constructor_row :=
  [
    Ctor QQuick3DGeometry 0 [Cand [TYPE_QTQUICK3D_QQUICK3DOBJECT] [] None];
    Ctor QQuick3DObject 0 [Cand [TYPE_QTQUICK3D_QQUICK3DOBJECT] [] None];
    Ctor QQuick3DTextureData 0 [Cand [TYPE_QTQUICK3D_QQUICK3DOBJECT] [] None]
  ].

Definition constructors_qtquick3d_0_c0 : list class_row :=
  [
    Cls [TYPE_QTQUICK3D_QQUICK3DOBJECT] QQuick3DGeometry [[QQuick3DObject_ptr]];
    Cls [TYPE_QTQUICK3D_QQUICK3DOBJECT] QQuick3DObject [[QQuick3DObject_ptr]];
    Cls [TYPE_QTQUICK3D_QQUICK3DOBJECT] QQuick3DTextureData [[QQuick3DObject_ptr]]
  ].

Definition constructors_qtquick3d_0 : constructor_shard :=
  ConstructorShard QtQuick3D "KRY_QT6_NATIVE_CONSTRUCTORS_QTQUICK3D_"
    (constructors_qtquick3d_0_i0)
    (constructors_qtquick3d_0_r0)
    (constructors_qtquick3d_0_c0).

Definition constructors_qtquick_0_i0 : list include :=
  [
    ClassInclude QtQuick QQuickAsyncImageProvider QQuickAsyncImageProvider;
    ClassInclude QtQuick QQuickImageProvider QQuickImageProvider;
    ClassInclude QtQuick QQuickImageResponse QQuickImageResponse;
    ClassInclude QtQuick QQuickItem QQuickItem;
    ClassInclude QtQuick QQuickPaintedItem QQuickPaintedItem;
    ClassInclude QtQuick QQuickRenderControl QQuickRenderControl;
    ClassInclude QtQuick QQuickTextDocument QQuickTextDocument;
    ClassInclude QtQuick QQuickTextureFactory QQuickTextureFactory;
    ClassInclude QtQuick QQuickView QQuickView;
    ClassInclude QtQuick QQuickWindow QQuickWindow;
    ClassInclude QtQuick QSGDynamicTexture QSGDynamicTexture;
    ClassInclude QtQuick QSGTexture QSGTexture;
    TypeInclude QtCore QObject TYPE_QTCORE_QOBJECT;
    TypeInclude QtGui QWindow TYPE_QTGUI_QWINDOW;
    TypeInclude QtQml QQmlEngine TYPE_QTQML_QQMLENGINE;
    TypeInclude QtQuick QQuickItem TYPE_QTQUICK_QQUICKITEM;
    TypeInclude QtQml QQmlImageProviderBase TYPE_QTQML_QQMLIMAGEPROVIDERBASE;
    TypeInclude QtCore QUrl VALUE_TYPE_QTCORE_QURL
  ].

Definition constructors_qtquick_0_r0 : list constructor_row :=
  [
    Ctor QQuickAsyncImageProvider 0 [Cand [] [] None];
    Ctor QQuickImageProvider 1 [Cand [TYPE_QTQML_QQMLIMAGEPROVIDERBASE] [PValue
        QQmlImageProviderBase_ImageType] None];
    Ctor QQuickImageProvider 2 [Cand [TYPE_QTQML_QQMLIMAGEPROVIDERBASE] [PValue
        QQmlImageProviderBase_ImageType; PValue QQmlImageProviderBase_Flags] None];
    Ctor QQuickImageResponse 0 [Cand [] [] None];
    Ctor QQuickItem 0 [Cand [TYPE_QTQUICK_QQUICKITEM] [] None];
    Ctor QQuickPaintedItem 0 [Cand [TYPE_QTQUICK_QQUICKITEM] [] None];
    Ctor QQuickRenderControl 0 [Cand [TYPE_QTCORE_QOBJECT] [] None]
  ].

Definition constructors_qtquick_0_r1 : list constructor_row :=
  [
    Ctor QQuickTextDocument 0 [Cand [TYPE_QTQUICK_QQUICKITEM] [] (Some (0%nat, QQuickItem))];
    Ctor QQuickTextureFactory 0 [Cand [] [] None];
    Ctor QQuickView 0 [Cand [TYPE_QTGUI_QWINDOW] [] None];
    Ctor QQuickView 1 [Cand [TYPE_QTGUI_QWINDOW; TYPE_QTQML_QQMLENGINE] [PObject QQmlEngine false] (Some
        (1%nat, QWindow)); Cand [TYPE_QTGUI_QWINDOW; VALUE_TYPE_QTCORE_QURL] [PValue QUrl] None];
    Ctor QQuickWindow 0 [Cand [TYPE_QTGUI_QWINDOW] [] None];
    Ctor QSGDynamicTexture 0 [Cand [] [] None]
  ].

Definition constructors_qtquick_0_r2 : list constructor_row :=
  [
    Ctor QSGTexture 0 [Cand [] [] None]
  ].

Definition constructors_qtquick_0_c0 : list class_row :=
  [
    Cls [] QQuickAsyncImageProvider [[]];
    Cls [TYPE_QTQML_QQMLIMAGEPROVIDERBASE] QQuickImageProvider [[QQmlImageProviderBase_ImageType;
        QQmlImageProviderBase_Flags]];
    Cls [] QQuickImageResponse [[]];
    Cls [TYPE_QTQUICK_QQUICKITEM] QQuickItem [[QQuickItem_ptr]];
    Cls [TYPE_QTQUICK_QQUICKITEM] QQuickPaintedItem [[QQuickItem_ptr]];
    Cls [TYPE_QTCORE_QOBJECT] QQuickRenderControl [[QObject_ptr]];
    Cls [TYPE_QTQUICK_QQUICKITEM] QQuickTextDocument [[QQuickItem_ptr]];
    Cls [] QQuickTextureFactory [[]];
    Cls [TYPE_QTGUI_QWINDOW; TYPE_QTQML_QQMLENGINE; VALUE_TYPE_QTCORE_QURL] QQuickView [[QWindow_ptr];
        [QQmlEngine_ptr; QWindow_ptr]; [QUrl; QWindow_ptr]];
    Cls [TYPE_QTGUI_QWINDOW] QQuickWindow [[QWindow_ptr]];
    Cls [] QSGDynamicTexture [[]];
    Cls [] QSGTexture [[]]
  ].

Definition constructors_qtquick_0 : constructor_shard :=
  ConstructorShard QtQuick "KRY_QT6_NATIVE_CONSTRUCTORS_QTQUICK_"
    (constructors_qtquick_0_i0)
    (constructors_qtquick_0_r0 ++ constructors_qtquick_0_r1 ++ constructors_qtquick_0_r2)
    (constructors_qtquick_0_c0).

Definition constructors_qtquickwidgets_0_i0 : list include :=
  [
    ClassInclude QtQuickWidgets QQuickWidget QQuickWidget;
    TypeInclude QtQml QQmlEngine TYPE_QTQML_QQMLENGINE;
    TypeInclude QtWidgets QWidget TYPE_QTWIDGETS_QWIDGET;
    TypeInclude QtCore QUrl VALUE_TYPE_QTCORE_QURL
  ].

Definition constructors_qtquickwidgets_0_r0 : list constructor_row :=
  [
    Ctor QQuickWidget 0 [Cand [TYPE_QTWIDGETS_QWIDGET] [] None];
    Ctor QQuickWidget 1 [Cand [TYPE_QTQML_QQMLENGINE; TYPE_QTWIDGETS_QWIDGET] [PObject QQmlEngine false]
        (Some (1%nat, QWidget)); Cand [TYPE_QTWIDGETS_QWIDGET; VALUE_TYPE_QTCORE_QURL] [PValue QUrl] None]
  ].

Definition constructors_qtquickwidgets_0_c0 : list class_row :=
  [
    Cls [TYPE_QTQML_QQMLENGINE; TYPE_QTWIDGETS_QWIDGET; VALUE_TYPE_QTCORE_QURL] QQuickWidget
        [[QWidget_ptr]; [QQmlEngine_ptr; QWidget_ptr]; [QUrl; QWidget_ptr]]
  ].

Definition constructors_qtquickwidgets_0 : constructor_shard :=
  ConstructorShard QtQuickWidgets "KRY_QT6_NATIVE_CONSTRUCTORS_QTQUICKWIDGETS_"
    (constructors_qtquickwidgets_0_i0)
    (constructors_qtquickwidgets_0_r0)
    (constructors_qtquickwidgets_0_c0).

Definition constructors_qtremoteobjects_0_i0 : list include :=
  [
    ClassInclude QtRemoteObjects QRemoteObjectAbstractPersistedStore QRemoteObjectAbstractPersistedStore;
    ClassInclude QtRemoteObjects QRemoteObjectHost QRemoteObjectHost;
    ClassInclude QtRemoteObjects QRemoteObjectNode QRemoteObjectNode;
    ClassInclude QtRemoteObjects QRemoteObjectRegistryHost QRemoteObjectRegistryHost;
    TypeInclude QtCore QObject TYPE_QTCORE_QOBJECT;
    TypeInclude QtRemoteObjects QRemoteObjectHostBase TYPE_QTREMOTEOBJECTS_QREMOTEOBJECTHOSTBASE;
    TypeInclude QtCore QUrl VALUE_TYPE_QTCORE_QURL
  ].

Definition constructors_qtremoteobjects_0_r0 : list constructor_row :=
  [
    Ctor QRemoteObjectAbstractPersistedStore 0 [Cand [TYPE_QTCORE_QOBJECT] [] None];
    Ctor QRemoteObjectHost 0 [Cand [TYPE_QTCORE_QOBJECT] [] None];
    Ctor QRemoteObjectHost 1 [Cand [TYPE_QTCORE_QOBJECT; TYPE_QTREMOTEOBJECTS_QREMOTEOBJECTHOSTBASE;
        VALUE_TYPE_QTCORE_QURL] [PValue QUrl] None; Cand [TYPE_QTCORE_QOBJECT; VALUE_TYPE_QTCORE_QURL]
        [PValue QUrl] (Some (1%nat, QObject))];
    Ctor QRemoteObjectHost 2 [Cand [TYPE_QTCORE_QOBJECT; TYPE_QTREMOTEOBJECTS_QREMOTEOBJECTHOSTBASE;
        VALUE_TYPE_QTCORE_QURL] [PValue QUrl; PValue QUrl] None];
    Ctor QRemoteObjectHost 3 [Cand [TYPE_QTCORE_QOBJECT; TYPE_QTREMOTEOBJECTS_QREMOTEOBJECTHOSTBASE;
        VALUE_TYPE_QTCORE_QURL] [PValue QUrl; PValue QUrl; PValue QRemoteObjectHostBase_AllowedSchemas]
        None];
    Ctor QRemoteObjectNode 0 [Cand [TYPE_QTCORE_QOBJECT] [] None]
  ].

Definition constructors_qtremoteobjects_0_r1 : list constructor_row :=
  [
    Ctor QRemoteObjectNode 1 [Cand [TYPE_QTCORE_QOBJECT; VALUE_TYPE_QTCORE_QURL] [PValue QUrl] None];
    Ctor QRemoteObjectRegistryHost 0 [Cand [TYPE_QTCORE_QOBJECT; VALUE_TYPE_QTCORE_QURL] [] None];
    Ctor QRemoteObjectRegistryHost 1 [Cand [TYPE_QTCORE_QOBJECT; VALUE_TYPE_QTCORE_QURL] [PValue QUrl] None]
  ].

Definition constructors_qtremoteobjects_0_c0 : list class_row :=
  [
    Cls [TYPE_QTCORE_QOBJECT] QRemoteObjectAbstractPersistedStore [[QObject_ptr]];
    Cls [TYPE_QTCORE_QOBJECT; TYPE_QTREMOTEOBJECTS_QREMOTEOBJECTHOSTBASE; VALUE_TYPE_QTCORE_QURL]
        QRemoteObjectHost [[QObject_ptr]; [QUrl; QUrl; QRemoteObjectHostBase_AllowedSchemas; QObject_ptr];
        [QUrl; QObject_ptr]];
    Cls [TYPE_QTCORE_QOBJECT; VALUE_TYPE_QTCORE_QURL] QRemoteObjectNode [[QObject_ptr]; [QUrl;
        QObject_ptr]];
    Cls [TYPE_QTCORE_QOBJECT; VALUE_TYPE_QTCORE_QURL] QRemoteObjectRegistryHost [[QUrl; QObject_ptr]]
  ].

Definition constructors_qtremoteobjects_0 : constructor_shard :=
  ConstructorShard QtRemoteObjects "KRY_QT6_NATIVE_CONSTRUCTORS_QTREMOTEOBJECTS_"
    (constructors_qtremoteobjects_0_i0)
    (constructors_qtremoteobjects_0_r0 ++ constructors_qtremoteobjects_0_r1)
    (constructors_qtremoteobjects_0_c0).

Definition constructors_qtsensors_0_i0 : list include :=
  [
    ClassInclude QtSensors QAccelerometer QAccelerometer;
    ClassInclude QtSensors QAmbientLightSensor QAmbientLightSensor;
    ClassInclude QtSensors QAmbientTemperatureSensor QAmbientTemperatureSensor;
    ClassInclude QtSensors QCompass QCompass;
    ClassInclude QtSensors QGyroscope QGyroscope;
    ClassInclude QtSensors QHumiditySensor QHumiditySensor;
    ClassInclude QtSensors QIRProximitySensor QIRProximitySensor;
    ClassInclude QtSensors QLidSensor QLidSensor;
    ClassInclude QtSensors QLightSensor QLightSensor;
    ClassInclude QtSensors QMagnetometer QMagnetometer;
    ClassInclude QtSensors QOrientationSensor QOrientationSensor;
    ClassInclude QtSensors QPressureSensor QPressureSensor;
    ClassInclude QtSensors QProximitySensor QProximitySensor;
    ClassInclude QtSensors QRotationSensor QRotationSensor;
    ClassInclude QtSensors QSensor QSensor;
    ClassInclude QtSensors QTapSensor QTapSensor;
    ClassInclude QtSensors QTiltSensor QTiltSensor;
    TypeInclude QtCore QObject TYPE_QTCORE_QOBJECT;
    TypeInclude QtCore QByteArray VALUE_TYPE_QTCORE_QBYTEARRAY
  ].

Definition constructors_qtsensors_0_r0 : list constructor_row :=
  [
    Ctor QAccelerometer 0 [Cand [TYPE_QTCORE_QOBJECT] [] None];
    Ctor QAmbientLightSensor 0 [Cand [TYPE_QTCORE_QOBJECT] [] None];
    Ctor QAmbientTemperatureSensor 0 [Cand [TYPE_QTCORE_QOBJECT] [] None];
    Ctor QCompass 0 [Cand [TYPE_QTCORE_QOBJECT] [] None];
    Ctor QGyroscope 0 [Cand [TYPE_QTCORE_QOBJECT] [] None];
    Ctor QHumiditySensor 0 [Cand [TYPE_QTCORE_QOBJECT] [] None];
    Ctor QIRProximitySensor 0 [Cand [TYPE_QTCORE_QOBJECT] [] None];
    Ctor QLidSensor 0 [Cand [TYPE_QTCORE_QOBJECT] [] None]
  ].

Definition constructors_qtsensors_0_r1 : list constructor_row :=
  [
    Ctor QLightSensor 0 [Cand [TYPE_QTCORE_QOBJECT] [] None];
    Ctor QMagnetometer 0 [Cand [TYPE_QTCORE_QOBJECT] [] None];
    Ctor QOrientationSensor 0 [Cand [TYPE_QTCORE_QOBJECT] [] None];
    Ctor QPressureSensor 0 [Cand [TYPE_QTCORE_QOBJECT] [] None];
    Ctor QProximitySensor 0 [Cand [TYPE_QTCORE_QOBJECT] [] None];
    Ctor QRotationSensor 0 [Cand [TYPE_QTCORE_QOBJECT] [] None];
    Ctor QSensor 1 [Cand [TYPE_QTCORE_QOBJECT; VALUE_TYPE_QTCORE_QBYTEARRAY] [PValue QByteArray] None]
  ].

Definition constructors_qtsensors_0_r2 : list constructor_row :=
  [
    Ctor QTapSensor 0 [Cand [TYPE_QTCORE_QOBJECT] [] None];
    Ctor QTiltSensor 0 [Cand [TYPE_QTCORE_QOBJECT] [] None]
  ].

Definition constructors_qtsensors_0_c0 : list class_row :=
  [
    Cls [TYPE_QTCORE_QOBJECT] QAccelerometer [[QObject_ptr]];
    Cls [TYPE_QTCORE_QOBJECT] QAmbientLightSensor [[QObject_ptr]];
    Cls [TYPE_QTCORE_QOBJECT] QAmbientTemperatureSensor [[QObject_ptr]];
    Cls [TYPE_QTCORE_QOBJECT] QCompass [[QObject_ptr]];
    Cls [TYPE_QTCORE_QOBJECT] QGyroscope [[QObject_ptr]];
    Cls [TYPE_QTCORE_QOBJECT] QHumiditySensor [[QObject_ptr]];
    Cls [TYPE_QTCORE_QOBJECT] QIRProximitySensor [[QObject_ptr]];
    Cls [TYPE_QTCORE_QOBJECT] QLidSensor [[QObject_ptr]];
    Cls [TYPE_QTCORE_QOBJECT] QLightSensor [[QObject_ptr]];
    Cls [TYPE_QTCORE_QOBJECT] QMagnetometer [[QObject_ptr]];
    Cls [TYPE_QTCORE_QOBJECT] QOrientationSensor [[QObject_ptr]];
    Cls [TYPE_QTCORE_QOBJECT] QPressureSensor [[QObject_ptr]];
    Cls [TYPE_QTCORE_QOBJECT] QProximitySensor [[QObject_ptr]];
    Cls [TYPE_QTCORE_QOBJECT] QRotationSensor [[QObject_ptr]];
    Cls [TYPE_QTCORE_QOBJECT; VALUE_TYPE_QTCORE_QBYTEARRAY] QSensor [[QByteArray; QObject_ptr]];
    Cls [TYPE_QTCORE_QOBJECT] QTapSensor [[QObject_ptr]];
    Cls [TYPE_QTCORE_QOBJECT] QTiltSensor [[QObject_ptr]]
  ].

Definition constructors_qtsensors_0 : constructor_shard :=
  ConstructorShard QtSensors "KRY_QT6_NATIVE_CONSTRUCTORS_QTSENSORS_"
    (constructors_qtsensors_0_i0)
    (constructors_qtsensors_0_r0 ++ constructors_qtsensors_0_r1 ++ constructors_qtsensors_0_r2)
    (constructors_qtsensors_0_c0).

Definition constructors_qtserialport_0_i0 : list include :=
  [
    ClassInclude QtSerialPort QSerialPort QSerialPort;
    TypeInclude QtCore QObject TYPE_QTCORE_QOBJECT;
    TypeInclude QtSerialPort QSerialPortInfo VALUE_TYPE_QTSERIALPORT_QSERIALPORTINFO
  ].

Definition constructors_qtserialport_0_r0 : list constructor_row :=
  [
    Ctor QSerialPort 0 [Cand [TYPE_QTCORE_QOBJECT] [] None];
    Ctor QSerialPort 1 [Cand [TYPE_QTCORE_QOBJECT] [PString false] None; Cand [TYPE_QTCORE_QOBJECT;
        VALUE_TYPE_QTSERIALPORT_QSERIALPORTINFO] [PValue QSerialPortInfo] None]
  ].

Definition constructors_qtserialport_0_c0 : list class_row :=
  [
    Cls [TYPE_QTCORE_QOBJECT; VALUE_TYPE_QTSERIALPORT_QSERIALPORTINFO] QSerialPort [[QObject_ptr];
        [QString; QObject_ptr]; [QSerialPortInfo; QObject_ptr]]
  ].

Definition constructors_qtserialport_0 : constructor_shard :=
  ConstructorShard QtSerialPort "KRY_QT6_NATIVE_CONSTRUCTORS_QTSERIALPORT_"
    (constructors_qtserialport_0_i0)
    (constructors_qtserialport_0_r0)
    (constructors_qtserialport_0_c0).

Definition constructors_qtspatialaudio_0_i0 : list include :=
  [
    ClassInclude QtSpatialAudio QAmbientSound QAmbientSound;
    ClassInclude QtSpatialAudio QAudioEngine QAudioEngine;
    ClassInclude QtSpatialAudio QAudioListener QAudioListener;
    ClassInclude QtSpatialAudio QAudioRoom QAudioRoom;
    ClassInclude QtSpatialAudio QSpatialSound QSpatialSound;
    TypeInclude QtCore QObject TYPE_QTCORE_QOBJECT;
    TypeInclude QtSpatialAudio QAudioEngine TYPE_QTSPATIALAUDIO_QAUDIOENGINE
  ].

Definition constructors_qtspatialaudio_0_r0 : list constructor_row :=
  [
    Ctor QAmbientSound 1 [Cand [TYPE_QTSPATIALAUDIO_QAUDIOENGINE] [PObject QAudioEngine false] None];
    Ctor QAudioEngine 0 [Cand [] [] None; Cand [TYPE_QTCORE_QOBJECT] [] (Some (0%nat, QObject))];
    Ctor QAudioEngine 1 [Cand [TYPE_QTCORE_QOBJECT] [PInt] None];
    Ctor QAudioListener 1 [Cand [TYPE_QTSPATIALAUDIO_QAUDIOENGINE] [PObject QAudioEngine false] None];
    Ctor QAudioRoom 1 [Cand [TYPE_QTSPATIALAUDIO_QAUDIOENGINE] [PObject QAudioEngine false] None];
    Ctor QSpatialSound 1 [Cand [TYPE_QTSPATIALAUDIO_QAUDIOENGINE] [PObject QAudioEngine false] None]
  ].

Definition constructors_qtspatialaudio_0_c0 : list class_row :=
  [
    Cls [TYPE_QTSPATIALAUDIO_QAUDIOENGINE] QAmbientSound [[QAudioEngine_ptr]];
    Cls [TYPE_QTCORE_QOBJECT] QAudioEngine [[]; [QObject_ptr]; [cxx_int; QObject_ptr]];
    Cls [TYPE_QTSPATIALAUDIO_QAUDIOENGINE] QAudioListener [[QAudioEngine_ptr]];
    Cls [TYPE_QTSPATIALAUDIO_QAUDIOENGINE] QAudioRoom [[QAudioEngine_ptr]];
    Cls [TYPE_QTSPATIALAUDIO_QAUDIOENGINE] QSpatialSound [[QAudioEngine_ptr]]
  ].

Definition constructors_qtspatialaudio_0 : constructor_shard :=
  ConstructorShard QtSpatialAudio "KRY_QT6_NATIVE_CONSTRUCTORS_QTSPATIALAUDIO_"
    (constructors_qtspatialaudio_0_i0)
    (constructors_qtspatialaudio_0_r0)
    (constructors_qtspatialaudio_0_c0).

Definition constructors_qtsql_0_i0 : list include :=
  [
    ClassInclude QtSql QSqlDriver QSqlDriver;
    ClassInclude QtSql QSqlQueryModel QSqlQueryModel;
    ClassInclude QtSql QSqlRelationalDelegate QSqlRelationalDelegate;
    ClassInclude QtSql QSqlRelationalTableModel QSqlRelationalTableModel;
    ClassInclude QtSql QSqlTableModel QSqlTableModel;
    TypeInclude QtCore QObject TYPE_QTCORE_QOBJECT;
    TypeInclude QtSql QSqlDatabase VALUE_TYPE_QTSQL_QSQLDATABASE
  ].

Definition constructors_qtsql_0_r0 : list constructor_row :=
  [
    Ctor QSqlDriver 0 [Cand [TYPE_QTCORE_QOBJECT] [] None];
    Ctor QSqlQueryModel 0 [Cand [TYPE_QTCORE_QOBJECT] [] None];
    Ctor QSqlRelationalDelegate 0 [Cand [TYPE_QTCORE_QOBJECT] [] None];
    Ctor QSqlRelationalTableModel 0 [Cand [TYPE_QTCORE_QOBJECT; VALUE_TYPE_QTSQL_QSQLDATABASE] [] None];
    Ctor QSqlRelationalTableModel 1 [Cand [TYPE_QTCORE_QOBJECT; VALUE_TYPE_QTSQL_QSQLDATABASE] [PValue
        QSqlDatabase] (Some (0%nat, QObject))];
    Ctor QSqlTableModel 0 [Cand [TYPE_QTCORE_QOBJECT; VALUE_TYPE_QTSQL_QSQLDATABASE] [] None];
    Ctor QSqlTableModel 1 [Cand [TYPE_QTCORE_QOBJECT; VALUE_TYPE_QTSQL_QSQLDATABASE] [PValue QSqlDatabase]
        (Some (0%nat, QObject))]
  ].

Definition constructors_qtsql_0_c0 : list class_row :=
  [
    Cls [TYPE_QTCORE_QOBJECT] QSqlDriver [[QObject_ptr]];
    Cls [TYPE_QTCORE_QOBJECT] QSqlQueryModel [[QObject_ptr]];
    Cls [TYPE_QTCORE_QOBJECT] QSqlRelationalDelegate [[QObject_ptr]];
    Cls [TYPE_QTCORE_QOBJECT; VALUE_TYPE_QTSQL_QSQLDATABASE] QSqlRelationalTableModel [[QObject_ptr;
        QSqlDatabase]];
    Cls [TYPE_QTCORE_QOBJECT; VALUE_TYPE_QTSQL_QSQLDATABASE] QSqlTableModel [[QObject_ptr; QSqlDatabase]]
  ].

Definition constructors_qtsql_0 : constructor_shard :=
  ConstructorShard QtSql "KRY_QT6_NATIVE_CONSTRUCTORS_QTSQL_"
    (constructors_qtsql_0_i0)
    (constructors_qtsql_0_r0)
    (constructors_qtsql_0_c0).

Definition constructors_qtstatemachine_0_i0 : list include :=
  [
    ClassInclude QtStateMachine QAbstractTransition QAbstractTransition;
    ClassInclude QtStateMachine QEventTransition QEventTransition;
    ClassInclude QtStateMachine QFinalState QFinalState;
    ClassInclude QtStateMachine QHistoryState QHistoryState;
    ClassInclude QtStateMachine QKeyEventTransition QKeyEventTransition;
    ClassInclude QtStateMachine QMouseEventTransition QMouseEventTransition;
    ClassInclude QtStateMachine QSignalTransition QSignalTransition;
    ClassInclude QtStateMachine QState QState;
    ClassInclude QtStateMachine QStateMachine QStateMachine;
    TypeInclude QtCore QObject TYPE_QTCORE_QOBJECT;
    TypeInclude QtStateMachine QState TYPE_QTSTATEMACHINE_QSTATE;
    EnumDefine ENUM_QT_MOUSEBUTTON;
    TypeInclude QtCore QEvent TYPE_QTCORE_QEVENT;
    TypeInclude QtStateMachine QHistoryState TYPE_QTSTATEMACHINE_QHISTORYSTATE;
    TypeInclude QtStateMachine QState TYPE_QTSTATEMACHINE_QSTATE
  ].

Definition constructors_qtstatemachine_0_r0 : list constructor_row :=
  [
    Ctor QAbstractTransition 0 [Cand [TYPE_QTSTATEMACHINE_QSTATE] [] None];
    Ctor QAbstractTransition 1 [Cand [TYPE_QTSTATEMACHINE_QSTATE] [PObject QState false] None];
    Ctor QEventTransition 0 [Cand [TYPE_QTSTATEMACHINE_QSTATE] [] None];
    Ctor QEventTransition 1 [Cand [TYPE_QTSTATEMACHINE_QSTATE] [PObject QState false] None];
    Ctor QEventTransition 2 [Cand [TYPE_QTCORE_QEVENT; TYPE_QTCORE_QOBJECT; TYPE_QTSTATEMACHINE_QSTATE]
        [PObject QObject false; PValue QEvent_Type] None];
    Ctor QEventTransition 3 [Cand [TYPE_QTCORE_QEVENT; TYPE_QTCORE_QOBJECT; TYPE_QTSTATEMACHINE_QSTATE]
        [PObject QObject false; PValue QEvent_Type; PObject QState false] None];
    Ctor QFinalState 0 [Cand [TYPE_QTSTATEMACHINE_QSTATE] [] None]
  ].

Definition constructors_qtstatemachine_0_r1 : list constructor_row :=
  [
    Ctor QHistoryState 0 [Cand [TYPE_QTSTATEMACHINE_QSTATE] [] None];
    Ctor QHistoryState 1 [Cand [TYPE_QTSTATEMACHINE_QHISTORYSTATE; TYPE_QTSTATEMACHINE_QSTATE] [PValue
        QHistoryState_HistoryType] None];
    Ctor QKeyEventTransition 0 [Cand [TYPE_QTSTATEMACHINE_QSTATE] [] None];
    Ctor QKeyEventTransition 1 [Cand [TYPE_QTSTATEMACHINE_QSTATE] [PObject QState false] None];
    Ctor QKeyEventTransition 3 [Cand [TYPE_QTCORE_QEVENT; TYPE_QTCORE_QOBJECT; TYPE_QTSTATEMACHINE_QSTATE]
        [PObject QObject false; PValue QEvent_Type; PInt] None];
    Ctor QKeyEventTransition 4 [Cand [TYPE_QTCORE_QEVENT; TYPE_QTCORE_QOBJECT; TYPE_QTSTATEMACHINE_QSTATE]
        [PObject QObject false; PValue QEvent_Type; PInt; PObject QState false] None]
  ].

Definition constructors_qtstatemachine_0_r2 : list constructor_row :=
  [
    Ctor QMouseEventTransition 0 [Cand [TYPE_QTSTATEMACHINE_QSTATE] [] None];
    Ctor QMouseEventTransition 1 [Cand [TYPE_QTSTATEMACHINE_QSTATE] [PObject QState false] None];
    Ctor QMouseEventTransition 3 [Cand [ENUM_QT_MOUSEBUTTON; TYPE_QTCORE_QEVENT; TYPE_QTCORE_QOBJECT;
        TYPE_QTSTATEMACHINE_QSTATE] [PObject QObject false; PValue QEvent_Type; PValue Qt_MouseButton]
        None];
    Ctor QMouseEventTransition 4 [Cand [ENUM_QT_MOUSEBUTTON; TYPE_QTCORE_QEVENT; TYPE_QTCORE_QOBJECT;
        TYPE_QTSTATEMACHINE_QSTATE] [PObject QObject false; PValue QEvent_Type; PValue Qt_MouseButton;
        PObject QState false] None];
    Ctor QSignalTransition 0 [Cand [TYPE_QTSTATEMACHINE_QSTATE] [] None];
    Ctor QSignalTransition 1 [Cand [TYPE_QTSTATEMACHINE_QSTATE] [PObject QState false] None]
  ].

Definition constructors_qtstatemachine_0_r3 : list constructor_row :=
  [
    Ctor QState 0 [Cand [TYPE_QTSTATEMACHINE_QSTATE] [] None];
    Ctor QState 1 [Cand [TYPE_QTSTATEMACHINE_QSTATE] [PValue QState_ChildMode] None];
    Ctor QStateMachine 0 [Cand [TYPE_QTCORE_QOBJECT] [] None];
    Ctor QStateMachine 1 [Cand [TYPE_QTCORE_QOBJECT; TYPE_QTSTATEMACHINE_QSTATE] [PValue QState_ChildMode]
        None]
  ].

Definition constructors_qtstatemachine_0_c0 : list class_row :=
  [
    Cls [TYPE_QTSTATEMACHINE_QSTATE] QAbstractTransition [[QState_ptr]];
    Cls [TYPE_QTCORE_QEVENT; TYPE_QTCORE_QOBJECT; TYPE_QTSTATEMACHINE_QSTATE] QEventTransition
        [[QState_ptr]; [QObject_ptr; QEvent_Type; QState_ptr]];
    Cls [TYPE_QTSTATEMACHINE_QSTATE] QFinalState [[QState_ptr]];
    Cls [TYPE_QTSTATEMACHINE_QHISTORYSTATE; TYPE_QTSTATEMACHINE_QSTATE] QHistoryState [[QState_ptr];
        [QHistoryState_HistoryType; QState_ptr]];
    Cls [TYPE_QTCORE_QEVENT; TYPE_QTCORE_QOBJECT; TYPE_QTSTATEMACHINE_QSTATE] QKeyEventTransition
        [[QState_ptr]; [QObject_ptr; QEvent_Type; cxx_int; QState_ptr]];
    Cls [ENUM_QT_MOUSEBUTTON; TYPE_QTCORE_QEVENT; TYPE_QTCORE_QOBJECT; TYPE_QTSTATEMACHINE_QSTATE]
        QMouseEventTransition [[QState_ptr]; [QObject_ptr; QEvent_Type; Qt_MouseButton; QState_ptr]];
    Cls [TYPE_QTSTATEMACHINE_QSTATE] QSignalTransition [[QState_ptr]];
    Cls [TYPE_QTSTATEMACHINE_QSTATE] QState [[QState_ptr]; [QState_ChildMode; QState_ptr]];
    Cls [TYPE_QTCORE_QOBJECT; TYPE_QTSTATEMACHINE_QSTATE] QStateMachine [[QObject_ptr]; [QState_ChildMode;
        QObject_ptr]]
  ].

Definition constructors_qtstatemachine_0 : constructor_shard :=
  ConstructorShard QtStateMachine "KRY_QT6_NATIVE_CONSTRUCTORS_QTSTATEMACHINE_"
    (constructors_qtstatemachine_0_i0)
    (constructors_qtstatemachine_0_r0 ++ constructors_qtstatemachine_0_r1 ++
        constructors_qtstatemachine_0_r2 ++ constructors_qtstatemachine_0_r3)
    (constructors_qtstatemachine_0_c0).

Definition constructors_qtsvg_0_i0 : list include :=
  [
    ClassInclude QtSvg QSvgRenderer QSvgRenderer;
    TypeInclude QtCore QObject TYPE_QTCORE_QOBJECT;
    TypeInclude QtCore QByteArray VALUE_TYPE_QTCORE_QBYTEARRAY
  ].

Definition constructors_qtsvg_0_r0 : list constructor_row :=
  [
    Ctor QSvgRenderer 0 [Cand [TYPE_QTCORE_QOBJECT] [] None];
    Ctor QSvgRenderer 1 [Cand [TYPE_QTCORE_QOBJECT] [PString false] None; Cand [TYPE_QTCORE_QOBJECT;
        VALUE_TYPE_QTCORE_QBYTEARRAY] [PValue QByteArray] None]
  ].

Definition constructors_qtsvg_0_c0 : list class_row :=
  [
    Cls [TYPE_QTCORE_QOBJECT; VALUE_TYPE_QTCORE_QBYTEARRAY] QSvgRenderer [[QObject_ptr]; [QString;
        QObject_ptr]; [QByteArray; QObject_ptr]]
  ].

Definition constructors_qtsvg_0 : constructor_shard :=
  ConstructorShard QtSvg "KRY_QT6_NATIVE_CONSTRUCTORS_QTSVG_"
    (constructors_qtsvg_0_i0)
    (constructors_qtsvg_0_r0)
    (constructors_qtsvg_0_c0).

Definition constructors_qtsvgwidgets_0_i0 : list include :=
  [
    ClassInclude QtSvgWidgets QSvgWidget QSvgWidget;
    TypeInclude QtWidgets QWidget TYPE_QTWIDGETS_QWIDGET
  ].

Definition constructors_qtsvgwidgets_0_r0 : list constructor_row :=
  [
    Ctor QSvgWidget 0 [Cand [TYPE_QTWIDGETS_QWIDGET] [] None];
    Ctor QSvgWidget 1 [Cand [TYPE_QTWIDGETS_QWIDGET] [PString false] None]
  ].

Definition constructors_qtsvgwidgets_0_c0 : list class_row :=
  [
    Cls [TYPE_QTWIDGETS_QWIDGET] QSvgWidget [[QWidget_ptr]; [QString; QWidget_ptr]]
  ].

Definition constructors_qtsvgwidgets_0 : constructor_shard :=
  ConstructorShard QtSvgWidgets "KRY_QT6_NATIVE_CONSTRUCTORS_QTSVGWIDGETS_"
    (constructors_qtsvgwidgets_0_i0)
    (constructors_qtsvgwidgets_0_r0)
    (constructors_qtsvgwidgets_0_c0).

Definition constructors_qttest_0_i0 : list include :=
  [
    ClassInclude QtTest QAbstractItemModelTester QAbstractItemModelTester;
    TypeInclude QtCore QAbstractItemModel TYPE_QTCORE_QABSTRACTITEMMODEL;
    TypeInclude QtCore QObject TYPE_QTCORE_QOBJECT;
    TypeInclude QtTest QAbstractItemModelTester TYPE_QTTEST_QABSTRACTITEMMODELTESTER
  ].

Definition constructors_qttest_0_r0 : list constructor_row :=
  [
    Ctor QAbstractItemModelTester 1 [Cand [TYPE_QTCORE_QABSTRACTITEMMODEL; TYPE_QTCORE_QOBJECT] [PObject
        QAbstractItemModel false] None];
    Ctor QAbstractItemModelTester 2 [Cand [TYPE_QTCORE_QABSTRACTITEMMODEL; TYPE_QTCORE_QOBJECT;
        TYPE_QTTEST_QABSTRACTITEMMODELTESTER] [PObject QAbstractItemModel false; PValue
        QAbstractItemModelTester_FailureReportingMode] None]
  ].

Definition constructors_qttest_0_c0 : list class_row :=
  [
    Cls [TYPE_QTCORE_QABSTRACTITEMMODEL; TYPE_QTCORE_QOBJECT; TYPE_QTTEST_QABSTRACTITEMMODELTESTER]
        QAbstractItemModelTester [[QAbstractItemModel_ptr; QObject_ptr]; [QAbstractItemModel_ptr;
        QAbstractItemModelTester_FailureReportingMode; QObject_ptr]]
  ].

Definition constructors_qttest_0 : constructor_shard :=
  ConstructorShard QtTest "KRY_QT6_NATIVE_CONSTRUCTORS_QTTEST_"
    (constructors_qttest_0_i0)
    (constructors_qttest_0_r0)
    (constructors_qttest_0_c0).

Definition constructors_qttexttospeech_0_i0 : list include :=
  [
    ClassInclude QtTextToSpeech QTextToSpeech QTextToSpeech;
    TypeInclude QtCore QObject TYPE_QTCORE_QOBJECT
  ].

Definition constructors_qttexttospeech_0_r0 : list constructor_row :=
  [
    Ctor QTextToSpeech 0 [Cand [TYPE_QTCORE_QOBJECT] [] None];
    Ctor QTextToSpeech 1 [Cand [TYPE_QTCORE_QOBJECT] [PString false] None];
    Ctor QTextToSpeech 2 [Cand [TYPE_QTCORE_QOBJECT] [PString false; PVariantMap] None]
  ].

Definition constructors_qttexttospeech_0_c0 : list class_row :=
  [
    Cls [TYPE_QTCORE_QOBJECT] QTextToSpeech [[QString; QVariantMap; QObject_ptr]; [QObject_ptr]; [QString;
        QObject_ptr]]
  ].

Definition constructors_qttexttospeech_0 : constructor_shard :=
  ConstructorShard QtTextToSpeech "KRY_QT6_NATIVE_CONSTRUCTORS_QTTEXTTOSPEECH_"
    (constructors_qttexttospeech_0_i0)
    (constructors_qttexttospeech_0_r0)
    (constructors_qttexttospeech_0_c0).

Definition constructors_qtwebchannel_0_i0 : list include :=
  [
    ClassInclude QtWebChannel QWebChannel QWebChannel;
    ClassInclude QtWebChannel QWebChannelAbstractTransport QWebChannelAbstractTransport;
    TypeInclude QtCore QObject TYPE_QTCORE_QOBJECT
  ].

Definition constructors_qtwebchannel_0_r0 : list constructor_row :=
  [
    Ctor QWebChannel 0 [Cand [TYPE_QTCORE_QOBJECT] [] None];
    Ctor QWebChannelAbstractTransport 0 [Cand [TYPE_QTCORE_QOBJECT] [] None]
  ].

Definition constructors_qtwebchannel_0_c0 : list class_row :=
  [
    Cls [TYPE_QTCORE_QOBJECT] QWebChannel [[QObject_ptr]];
    Cls [TYPE_QTCORE_QOBJECT] QWebChannelAbstractTransport [[QObject_ptr]]
  ].

Definition constructors_qtwebchannel_0 : constructor_shard :=
  ConstructorShard QtWebChannel "KRY_QT6_NATIVE_CONSTRUCTORS_QTWEBCHANNEL_"
    (constructors_qtwebchannel_0_i0)
    (constructors_qtwebchannel_0_r0)
    (constructors_qtwebchannel_0_c0).

Definition constructors_qtwebenginecore_0_i0 : list include :=
  [
    ClassInclude QtWebEngineCore QWebEnginePage QWebEnginePage;
    ClassInclude QtWebEngineCore QWebEngineProfile QWebEngineProfile;
    ClassInclude QtWebEngineCore QWebEngineUrlRequestInterceptor QWebEngineUrlRequestInterceptor;
    ClassInclude QtWebEngineCore QWebEngineUrlSchemeHandler QWebEngineUrlSchemeHandler;
    TypeInclude QtCore QObject TYPE_QTCORE_QOBJECT;
    TypeInclude QtWebEngineCore QWebEngineProfile TYPE_QTWEBENGINECORE_QWEBENGINEPROFILE
  ].

Definition constructors_qtwebenginecore_0_r0 : list constructor_row :=
  [
    Ctor QWebEnginePage 0 [Cand [TYPE_QTCORE_QOBJECT] [] None];
    Ctor QWebEnginePage 1 [Cand [TYPE_QTCORE_QOBJECT; TYPE_QTWEBENGINECORE_QWEBENGINEPROFILE] [PObject
        QWebEngineProfile false] None];
    Ctor QWebEngineProfile 0 [Cand [TYPE_QTCORE_QOBJECT] [] None];
    Ctor QWebEngineProfile 1 [Cand [TYPE_QTCORE_QOBJECT] [PString false] None];
    Ctor QWebEngineUrlRequestInterceptor 0 [Cand [TYPE_QTCORE_QOBJECT] [] None];
    Ctor QWebEngineUrlSchemeHandler 0 [Cand [TYPE_QTCORE_QOBJECT] [] None]
  ].

Definition constructors_qtwebenginecore_0_c0 : list class_row :=
  [
    Cls [TYPE_QTCORE_QOBJECT; TYPE_QTWEBENGINECORE_QWEBENGINEPROFILE] QWebEnginePage
        [[QWebEngineProfile_ptr; QObject_ptr]; [QObject_ptr]];
    Cls [TYPE_QTCORE_QOBJECT] QWebEngineProfile [[QObject_ptr]; [QString; QObject_ptr]];
    Cls [TYPE_QTCORE_QOBJECT] QWebEngineUrlRequestInterceptor [[QObject_ptr]];
    Cls [TYPE_QTCORE_QOBJECT] QWebEngineUrlSchemeHandler [[QObject_ptr]]
  ].

Definition constructors_qtwebenginecore_0 : constructor_shard :=
  ConstructorShard QtWebEngineCore "KRY_QT6_NATIVE_CONSTRUCTORS_QTWEBENGINECORE_"
    (constructors_qtwebenginecore_0_i0)
    (constructors_qtwebenginecore_0_r0)
    (constructors_qtwebenginecore_0_c0).

Definition constructors_qtwebenginequick_0_i0 : list include :=
  [
    ClassInclude QtWebEngineQuick QQuickWebEngineProfile QQuickWebEngineProfile;
    TypeInclude QtCore QObject TYPE_QTCORE_QOBJECT
  ].

Definition constructors_qtwebenginequick_0_r0 : list constructor_row :=
  [
    Ctor QQuickWebEngineProfile 0 [Cand [TYPE_QTCORE_QOBJECT] [] None]
  ].

Definition constructors_qtwebenginequick_0_c0 : list class_row :=
  [
    Cls [TYPE_QTCORE_QOBJECT] QQuickWebEngineProfile [[QObject_ptr]]
  ].

Definition constructors_qtwebenginequick_0 : constructor_shard :=
  ConstructorShard QtWebEngineQuick "KRY_QT6_NATIVE_CONSTRUCTORS_QTWEBENGINEQUICK_"
    (constructors_qtwebenginequick_0_i0)
    (constructors_qtwebenginequick_0_r0)
    (constructors_qtwebenginequick_0_c0).

Definition constructors_qtwebenginewidgets_0_i0 : list include :=
  [
    ClassInclude QtWebEngineWidgets QWebEngineView QWebEngineView;
    TypeInclude QtWidgets QWidget TYPE_QTWIDGETS_QWIDGET
  ].

Definition constructors_qtwebenginewidgets_0_r0 : list constructor_row :=
  [
    Ctor QWebEngineView 0 [Cand [TYPE_QTWIDGETS_QWIDGET] [] None]
  ].

Definition constructors_qtwebenginewidgets_0_c0 : list class_row :=
  [
    Cls [TYPE_QTWIDGETS_QWIDGET] QWebEngineView [[QWidget_ptr]]
  ].

Definition constructors_qtwebenginewidgets_0 : constructor_shard :=
  ConstructorShard QtWebEngineWidgets "KRY_QT6_NATIVE_CONSTRUCTORS_QTWEBENGINEWIDGETS_"
    (constructors_qtwebenginewidgets_0_i0)
    (constructors_qtwebenginewidgets_0_r0)
    (constructors_qtwebenginewidgets_0_c0).

Definition constructors_qtwebsockets_0_i0 : list include :=
  [
    ClassInclude QtWebSockets QMaskGenerator QMaskGenerator;
    ClassInclude QtWebSockets QWebSocketServer QWebSocketServer;
    TypeInclude QtCore QObject TYPE_QTCORE_QOBJECT;
    TypeInclude QtWebSockets QWebSocketServer TYPE_QTWEBSOCKETS_QWEBSOCKETSERVER
  ].

Definition constructors_qtwebsockets_0_r0 : list constructor_row :=
  [
    Ctor QMaskGenerator 0 [Cand [TYPE_QTCORE_QOBJECT] [] None];
    Ctor QWebSocketServer 2 [Cand [TYPE_QTCORE_QOBJECT; TYPE_QTWEBSOCKETS_QWEBSOCKETSERVER] [PString false;
        PValue QWebSocketServer_SslMode] None]
  ].

Definition constructors_qtwebsockets_0_c0 : list class_row :=
  [
    Cls [TYPE_QTCORE_QOBJECT] QMaskGenerator [[QObject_ptr]];
    Cls [TYPE_QTCORE_QOBJECT; TYPE_QTWEBSOCKETS_QWEBSOCKETSERVER] QWebSocketServer [[QString;
        QWebSocketServer_SslMode; QObject_ptr]]
  ].

Definition constructors_qtwebsockets_0 : constructor_shard :=
  ConstructorShard QtWebSockets "KRY_QT6_NATIVE_CONSTRUCTORS_QTWEBSOCKETS_"
    (constructors_qtwebsockets_0_i0)
    (constructors_qtwebsockets_0_r0)
    (constructors_qtwebsockets_0_c0).

Definition constructors_qtwidgets_0_i0 : list include :=
  [
    ClassInclude QtWidgets QAbstractButton QAbstractButton;
    ClassInclude QtWidgets QAbstractItemDelegate QAbstractItemDelegate;
    ClassInclude QtWidgets QAbstractItemView QAbstractItemView;
    ClassInclude QtWidgets QAbstractScrollArea QAbstractScrollArea;
    ClassInclude QtWidgets QAbstractSlider QAbstractSlider;
    ClassInclude QtWidgets QAbstractSpinBox QAbstractSpinBox;
    ClassInclude QtWidgets QBoxLayout QBoxLayout;
    ClassInclude QtWidgets QButtonGroup QButtonGroup;
    ClassInclude QtWidgets QCalendarWidget QCalendarWidget;
    ClassInclude QtWidgets QCheckBox QCheckBox;
    ClassInclude QtWidgets QColorDialog QColorDialog;
    ClassInclude QtWidgets QColumnView QColumnView;
    ClassInclude QtWidgets QComboBox QComboBox;
    ClassInclude QtWidgets QCommandLinkButton QCommandLinkButton;
    ClassInclude QtWidgets QCommonStyle QCommonStyle;
    ClassInclude QtWidgets QCompleter QCompleter;
    ClassInclude QtWidgets QDataWidgetMapper QDataWidgetMapper;
    ClassInclude QtWidgets QDateEdit QDateEdit;
    ClassInclude QtWidgets QDateTimeEdit QDateTimeEdit;
    ClassInclude QtWidgets QDial QDial;
    ClassInclude QtWidgets QDialog QDialog;
    ClassInclude QtWidgets QDialogButtonBox QDialogButtonBox;
    ClassInclude QtWidgets QDockWidget QDockWidget;
    ClassInclude QtWidgets QDoubleSpinBox QDoubleSpinBox;
    TypeInclude QtCore QAbstractItemModel TYPE_QTCORE_QABSTRACTITEMMODEL;
    TypeInclude QtCore QObject TYPE_QTCORE_QOBJECT;
    TypeInclude QtWidgets QWidget TYPE_QTWIDGETS_QWIDGET;
    EnumDefine ENUM_QT_ORIENTATION;
    EnumDefine ENUM_QT_WINDOWFLAGS;
    TypeInclude QtWidgets QBoxLayout TYPE_QTWIDGETS_QBOXLAYOUT;
    TypeInclude QtWidgets QDialogButtonBox TYPE_QTWIDGETS_QDIALOGBUTTONBOX;
    TypeInclude QtCore QDate VALUE_TYPE_QTCORE_QDATE;
    TypeInclude QtCore QDateTime VALUE_TYPE_QTCORE_QDATETIME;
    TypeInclude QtCore QTime VALUE_TYPE_QTCORE_QTIME;
    TypeInclude QtGui QColor VALUE_TYPE_QTGUI_QCOLOR
  ].

Definition constructors_qtwidgets_0_r0 : list constructor_row :=
  [
    Ctor QAbstractButton 0 [Cand [TYPE_QTWIDGETS_QWIDGET] [] None];
    Ctor QAbstractItemDelegate 0 [Cand [TYPE_QTCORE_QOBJECT] [] None];
    Ctor QAbstractItemView 0 [Cand [TYPE_QTWIDGETS_QWIDGET] [] None];
    Ctor QAbstractScrollArea 0 [Cand [TYPE_QTWIDGETS_QWIDGET] [] None];
    Ctor QAbstractSlider 0 [Cand [TYPE_QTWIDGETS_QWIDGET] [] None];
    Ctor QAbstractSpinBox 0 [Cand [TYPE_QTWIDGETS_QWIDGET] [] None];
    Ctor QBoxLayout 1 [Cand [TYPE_QTWIDGETS_QBOXLAYOUT; TYPE_QTWIDGETS_QWIDGET] [PValue
        QBoxLayout_Direction] None]
  ].

Definition constructors_qtwidgets_0_r1 : list constructor_row :=
  [
    Ctor QButtonGroup 0 [Cand [TYPE_QTCORE_QOBJECT] [] None];
    Ctor QCalendarWidget 0 [Cand [TYPE_QTWIDGETS_QWIDGET] [] None];
    Ctor QCheckBox 0 [Cand [TYPE_QTWIDGETS_QWIDGET] [] None];
    Ctor QCheckBox 1 [Cand [TYPE_QTWIDGETS_QWIDGET] [PString false] None];
    Ctor QColorDialog 0 [Cand [TYPE_QTWIDGETS_QWIDGET] [] None];
    Ctor QColorDialog 1 [Cand [TYPE_QTWIDGETS_QWIDGET; VALUE_TYPE_QTGUI_QCOLOR] [PValue QColor] None];
    Ctor QColumnView 0 [Cand [TYPE_QTWIDGETS_QWIDGET] [] None]
  ].

Definition constructors_qtwidgets_0_r2 : list constructor_row :=
  [
    Ctor QComboBox 0 [Cand [TYPE_QTWIDGETS_QWIDGET] [] None];
    Ctor QCommandLinkButton 0 [Cand [TYPE_QTWIDGETS_QWIDGET] [] None];
    Ctor QCommandLinkButton 1 [Cand [TYPE_QTWIDGETS_QWIDGET] [PString false] None];
    Ctor QCommandLinkButton 2 [Cand [TYPE_QTWIDGETS_QWIDGET] [PString false; PString false] None];
    Ctor QCommonStyle 0 [Cand [] [] None];
    Ctor QCompleter 0 [Cand [TYPE_QTCORE_QOBJECT] [] None]
  ].

Definition constructors_qtwidgets_0_r3 : list constructor_row :=
  [
    Ctor QCompleter 1 [Cand [TYPE_QTCORE_QABSTRACTITEMMODEL; TYPE_QTCORE_QOBJECT] [PObject
        QAbstractItemModel false] None; Cand [TYPE_QTCORE_QOBJECT] [PStringList] None];
    Ctor QDataWidgetMapper 0 [Cand [TYPE_QTCORE_QOBJECT] [] None];
    Ctor QDateEdit 0 [Cand [TYPE_QTWIDGETS_QWIDGET] [] None];
    Ctor QDateEdit 1 [Cand [TYPE_QTWIDGETS_QWIDGET; VALUE_TYPE_QTCORE_QDATE] [PValue QDate] None];
    Ctor QDateTimeEdit 0 [Cand [TYPE_QTWIDGETS_QWIDGET] [] None]
  ].

Definition constructors_qtwidgets_0_r4 : list constructor_row :=
  [
    Ctor QDateTimeEdit 1 [Cand [TYPE_QTWIDGETS_QWIDGET; VALUE_TYPE_QTCORE_QDATETIME] [PValue QDateTime]
        None; Cand [TYPE_QTWIDGETS_QWIDGET; VALUE_TYPE_QTCORE_QDATE] [PValue QDate] None; Cand
        [TYPE_QTWIDGETS_QWIDGET; VALUE_TYPE_QTCORE_QTIME] [PValue QTime] None];
    Ctor QDial 0 [Cand [TYPE_QTWIDGETS_QWIDGET] [] None];
    Ctor QDialog 0 [Cand [ENUM_QT_WINDOWFLAGS; TYPE_QTWIDGETS_QWIDGET] [] None];
    Ctor QDialog 1 [Cand [ENUM_QT_WINDOWFLAGS; TYPE_QTWIDGETS_QWIDGET] [PValue Qt_WindowFlags] (Some
        (0%nat, QWidget))];
    Ctor QDialogButtonBox 0 [Cand [TYPE_QTWIDGETS_QWIDGET] [] None]
  ].

Definition constructors_qtwidgets_0_r5 : list constructor_row :=
  [
    Ctor QDialogButtonBox 1 [Cand [ENUM_QT_ORIENTATION; TYPE_QTWIDGETS_QWIDGET] [PValue Qt_Orientation]
        None; Cand [TYPE_QTWIDGETS_QDIALOGBUTTONBOX; TYPE_QTWIDGETS_QWIDGET] [PValue
        QDialogButtonBox_StandardButtons] None];
    Ctor QDialogButtonBox 2 [Cand [ENUM_QT_ORIENTATION; TYPE_QTWIDGETS_QDIALOGBUTTONBOX;
        TYPE_QTWIDGETS_QWIDGET] [PValue QDialogButtonBox_StandardButtons; PValue Qt_Orientation] None];
    Ctor QDockWidget 0 [Cand [ENUM_QT_WINDOWFLAGS; TYPE_QTWIDGETS_QWIDGET] [] None];
    Ctor QDockWidget 1 [Cand [ENUM_QT_WINDOWFLAGS; TYPE_QTWIDGETS_QWIDGET] [PString false] None; Cand
        [ENUM_QT_WINDOWFLAGS; TYPE_QTWIDGETS_QWIDGET] [PValue Qt_WindowFlags] (Some (0%nat, QWidget))];
    Ctor QDockWidget 2 [Cand [ENUM_QT_WINDOWFLAGS; TYPE_QTWIDGETS_QWIDGET] [PString false; PValue
        Qt_WindowFlags] (Some (1%nat, QWidget))]
  ].

Definition constructors_qtwidgets_0_r6 : list constructor_row :=
  [
    Ctor QDoubleSpinBox 0 [Cand [TYPE_QTWIDGETS_QWIDGET] [] None]
  ].

Definition constructors_qtwidgets_0_c0 : list class_row :=
  [
    Cls [TYPE_QTWIDGETS_QWIDGET] QAbstractButton [[QWidget_ptr]];
    Cls [TYPE_QTCORE_QOBJECT] QAbstractItemDelegate [[QObject_ptr]];
    Cls [TYPE_QTWIDGETS_QWIDGET] QAbstractItemView [[QWidget_ptr]];
    Cls [TYPE_QTWIDGETS_QWIDGET] QAbstractScrollArea [[QWidget_ptr]];
    Cls [TYPE_QTWIDGETS_QWIDGET] QAbstractSlider [[QWidget_ptr]];
    Cls [TYPE_QTWIDGETS_QWIDGET] QAbstractSpinBox [[QWidget_ptr]];
    Cls [TYPE_QTWIDGETS_QBOXLAYOUT; TYPE_QTWIDGETS_QWIDGET] QBoxLayout [[QBoxLayout_Direction;
        QWidget_ptr]];
    Cls [TYPE_QTCORE_QOBJECT] QButtonGroup [[QObject_ptr]];
    Cls [TYPE_QTWIDGETS_QWIDGET] QCalendarWidget [[QWidget_ptr]];
    Cls [TYPE_QTWIDGETS_QWIDGET] QCheckBox [[QWidget_ptr]; [QString; QWidget_ptr]];
    Cls [TYPE_QTWIDGETS_QWIDGET; VALUE_TYPE_QTGUI_QCOLOR] QColorDialog [[QWidget_ptr]; [QColor;
        QWidget_ptr]];
    Cls [TYPE_QTWIDGETS_QWIDGET] QColumnView [[QWidget_ptr]];
    Cls [TYPE_QTWIDGETS_QWIDGET] QComboBox [[QWidget_ptr]];
    Cls [TYPE_QTWIDGETS_QWIDGET] QCommandLinkButton [[QWidget_ptr]; [QString; QWidget_ptr]; [QString;
        QString; QWidget_ptr]];
    Cls [] QCommonStyle [[]];
    Cls [TYPE_QTCORE_QABSTRACTITEMMODEL; TYPE_QTCORE_QOBJECT] QCompleter [[QAbstractItemModel_ptr;
        QObject_ptr]; [QStringList; QObject_ptr]; [QObject_ptr]];
    Cls [TYPE_QTCORE_QOBJECT] QDataWidgetMapper [[QObject_ptr]];
    Cls [TYPE_QTWIDGETS_QWIDGET; VALUE_TYPE_QTCORE_QDATE] QDateEdit [[QWidget_ptr]; [QDate; QWidget_ptr]];
    Cls [TYPE_QTWIDGETS_QWIDGET; VALUE_TYPE_QTCORE_QDATE; VALUE_TYPE_QTCORE_QDATETIME;
        VALUE_TYPE_QTCORE_QTIME] QDateTimeEdit [[QWidget_ptr]; [QDateTime; QWidget_ptr]; [QDate;
        QWidget_ptr]; [QTime; QWidget_ptr]];
    Cls [TYPE_QTWIDGETS_QWIDGET] QDial [[QWidget_ptr]];
    Cls [ENUM_QT_WINDOWFLAGS; TYPE_QTWIDGETS_QWIDGET] QDialog [[QWidget_ptr; Qt_WindowFlags]];
    Cls [ENUM_QT_ORIENTATION; TYPE_QTWIDGETS_QDIALOGBUTTONBOX; TYPE_QTWIDGETS_QWIDGET] QDialogButtonBox
        [[QWidget_ptr]; [Qt_Orientation; QWidget_ptr]; [QDialogButtonBox_StandardButtons; QWidget_ptr];
        [QDialogButtonBox_StandardButtons; Qt_Orientation; QWidget_ptr]];
    Cls [ENUM_QT_WINDOWFLAGS; TYPE_QTWIDGETS_QWIDGET] QDockWidget [[QString; QWidget_ptr; Qt_WindowFlags];
        [QWidget_ptr; Qt_WindowFlags]];
    Cls [TYPE_QTWIDGETS_QWIDGET] QDoubleSpinBox [[QWidget_ptr]]
  ].

Definition constructors_qtwidgets_0 : constructor_shard :=
  ConstructorShard QtWidgets "KRY_QT6_NATIVE_CONSTRUCTORS_QTWIDGETS_"
    (constructors_qtwidgets_0_i0)
    (constructors_qtwidgets_0_r0 ++ constructors_qtwidgets_0_r1 ++ constructors_qtwidgets_0_r2 ++
        constructors_qtwidgets_0_r3 ++ constructors_qtwidgets_0_r4 ++ constructors_qtwidgets_0_r5 ++
        constructors_qtwidgets_0_r6)
    (constructors_qtwidgets_0_c0).

Definition constructors_qtwidgets_1_i0 : list include :=
  [
    ClassInclude QtWidgets QErrorMessage QErrorMessage;
    ClassInclude QtWidgets QFileDialog QFileDialog;
    ClassInclude QtWidgets QFocusFrame QFocusFrame;
    ClassInclude QtWidgets QFontComboBox QFontComboBox;
    ClassInclude QtWidgets QFontDialog QFontDialog;
    ClassInclude QtWidgets QFormLayout QFormLayout;
    ClassInclude QtWidgets QFrame QFrame;
    ClassInclude QtWidgets QGesture QGesture;
    ClassInclude QtWidgets QGraphicsBlurEffect QGraphicsBlurEffect;
    ClassInclude QtWidgets QGraphicsColorizeEffect QGraphicsColorizeEffect;
    ClassInclude QtWidgets QGraphicsDropShadowEffect QGraphicsDropShadowEffect;
    ClassInclude QtWidgets QGraphicsEffect QGraphicsEffect;
    ClassInclude QtWidgets QGraphicsOpacityEffect QGraphicsOpacityEffect;
    ClassInclude QtWidgets QGraphicsRotation QGraphicsRotation;
    ClassInclude QtWidgets QGraphicsScale QGraphicsScale;
    ClassInclude QtWidgets QGraphicsScene QGraphicsScene;
    ClassInclude QtWidgets QGraphicsTransform QGraphicsTransform;
    ClassInclude QtWidgets QGraphicsView QGraphicsView;
    ClassInclude QtWidgets QGridLayout QGridLayout;
    ClassInclude QtWidgets QGroupBox QGroupBox;
    ClassInclude QtWidgets QHBoxLayout QHBoxLayout;
    ClassInclude QtWidgets QHeaderView QHeaderView;
    ClassInclude QtWidgets QInputDialog QInputDialog;
    ClassInclude QtWidgets QItemDelegate QItemDelegate;
    TypeInclude QtCore QObject TYPE_QTCORE_QOBJECT;
    TypeInclude QtWidgets QGraphicsScene TYPE_QTWIDGETS_QGRAPHICSSCENE;
    TypeInclude QtWidgets QWidget TYPE_QTWIDGETS_QWIDGET;
    EnumDefine ENUM_QT_ORIENTATION;
    EnumDefine ENUM_QT_WINDOWFLAGS;
    TypeInclude QtCore QRectF VALUE_TYPE_QTCORE_QRECTF;
    TypeInclude QtGui QFont VALUE_TYPE_QTGUI_QFONT
  ].

Definition constructors_qtwidgets_1_r0 : list constructor_row :=
  [
    Ctor QErrorMessage 0 [Cand [TYPE_QTWIDGETS_QWIDGET] [] None];
    Ctor QFileDialog 0 [Cand [TYPE_QTWIDGETS_QWIDGET] [] None];
    Ctor QFileDialog 1 [Cand [TYPE_QTWIDGETS_QWIDGET] [PString false] (Some (0%nat, QWidget))];
    Ctor QFileDialog 2 [Cand [TYPE_QTWIDGETS_QWIDGET] [PString false; PString false] (Some (0%nat,
        QWidget))];
    Ctor QFileDialog 3 [Cand [TYPE_QTWIDGETS_QWIDGET] [PString false; PString false; PString false] (Some
        (0%nat, QWidget))];
    Ctor QFocusFrame 0 [Cand [TYPE_QTWIDGETS_QWIDGET] [] None];
    Ctor QFontComboBox 0 [Cand [TYPE_QTWIDGETS_QWIDGET] [] None]
  ].

Definition constructors_qtwidgets_1_r1 : list constructor_row :=
  [
    Ctor QFontDialog 0 [Cand [TYPE_QTWIDGETS_QWIDGET] [] None];
    Ctor QFontDialog 1 [Cand [TYPE_QTWIDGETS_QWIDGET; VALUE_TYPE_QTGUI_QFONT] [PValue QFont] None];
    Ctor QFormLayout 0 [Cand [TYPE_QTWIDGETS_QWIDGET] [] None];
    Ctor QFrame 0 [Cand [ENUM_QT_WINDOWFLAGS; TYPE_QTWIDGETS_QWIDGET] [] None];
    Ctor QFrame 1 [Cand [ENUM_QT_WINDOWFLAGS; TYPE_QTWIDGETS_QWIDGET] [PValue Qt_WindowFlags] (Some (0%nat,
        QWidget))];
    Ctor QGesture 0 [Cand [TYPE_QTCORE_QOBJECT] [] None];
    Ctor QGraphicsBlurEffect 0 [Cand [TYPE_QTCORE_QOBJECT] [] None]
  ].

Definition constructors_qtwidgets_1_r2 : list constructor_row :=
  [
    Ctor QGraphicsColorizeEffect 0 [Cand [TYPE_QTCORE_QOBJECT] [] None];
    Ctor QGraphicsDropShadowEffect 0 [Cand [TYPE_QTCORE_QOBJECT] [] None];
    Ctor QGraphicsEffect 0 [Cand [TYPE_QTCORE_QOBJECT] [] None];
    Ctor QGraphicsOpacityEffect 0 [Cand [TYPE_QTCORE_QOBJECT] [] None];
    Ctor QGraphicsRotation 0 [Cand [TYPE_QTCORE_QOBJECT] [] None];
    Ctor QGraphicsScale 0 [Cand [TYPE_QTCORE_QOBJECT] [] None];
    Ctor QGraphicsScene 0 [Cand [TYPE_QTCORE_QOBJECT] [] None]
  ].

Definition constructors_qtwidgets_1_r3 : list constructor_row :=
  [
    Ctor QGraphicsScene 1 [Cand [TYPE_QTCORE_QOBJECT; VALUE_TYPE_QTCORE_QRECTF] [PValue QRectF] None];
    Ctor QGraphicsScene 4 [Cand [TYPE_QTCORE_QOBJECT] [PNumber cxx_qreal; PNumber cxx_qreal; PNumber
        cxx_qreal; PNumber cxx_qreal] None];
    Ctor QGraphicsTransform 0 [Cand [TYPE_QTCORE_QOBJECT] [] None];
    Ctor QGraphicsView 0 [Cand [TYPE_QTWIDGETS_QWIDGET] [] None];
    Ctor QGraphicsView 1 [Cand [TYPE_QTWIDGETS_QGRAPHICSSCENE; TYPE_QTWIDGETS_QWIDGET] [PObject
        QGraphicsScene false] None];
    Ctor QGridLayout 0 [Cand [TYPE_QTWIDGETS_QWIDGET] [] None];
    Ctor QGroupBox 0 [Cand [TYPE_QTWIDGETS_QWIDGET] [] None]
  ].

Definition constructors_qtwidgets_1_r4 : list constructor_row :=
  [
    Ctor QGroupBox 1 [Cand [TYPE_QTWIDGETS_QWIDGET] [PString false] None];
    Ctor QHBoxLayout 0 [Cand [] [] None; Cand [TYPE_QTWIDGETS_QWIDGET] [] (Some (0%nat, QWidget))];
    Ctor QHeaderView 1 [Cand [ENUM_QT_ORIENTATION; TYPE_QTWIDGETS_QWIDGET] [PValue Qt_Orientation] None];
    Ctor QInputDialog 0 [Cand [ENUM_QT_WINDOWFLAGS; TYPE_QTWIDGETS_QWIDGET] [] None];
    Ctor QInputDialog 1 [Cand [ENUM_QT_WINDOWFLAGS; TYPE_QTWIDGETS_QWIDGET] [PValue Qt_WindowFlags] (Some
        (0%nat, QWidget))];
    Ctor QItemDelegate 0 [Cand [TYPE_QTCORE_QOBJECT] [] None]
  ].

Definition constructors_qtwidgets_1_c0 : list class_row :=
  [
    Cls [TYPE_QTWIDGETS_QWIDGET] QErrorMessage [[QWidget_ptr]];
    Cls [ENUM_QT_WINDOWFLAGS; TYPE_QTWIDGETS_QWIDGET] QFileDialog [[QWidget_ptr; Qt_WindowFlags];
        [QWidget_ptr; QString; QString; QString]];
    Cls [TYPE_QTWIDGETS_QWIDGET] QFocusFrame [[QWidget_ptr]];
    Cls [TYPE_QTWIDGETS_QWIDGET] QFontComboBox [[QWidget_ptr]];
    Cls [TYPE_QTWIDGETS_QWIDGET; VALUE_TYPE_QTGUI_QFONT] QFontDialog [[QWidget_ptr]; [QFont; QWidget_ptr]];
    Cls [TYPE_QTWIDGETS_QWIDGET] QFormLayout [[QWidget_ptr]];
    Cls [ENUM_QT_WINDOWFLAGS; TYPE_QTWIDGETS_QWIDGET] QFrame [[QWidget_ptr; Qt_WindowFlags]];
    Cls [TYPE_QTCORE_QOBJECT] QGesture [[QObject_ptr]];
    Cls [TYPE_QTCORE_QOBJECT] QGraphicsBlurEffect [[QObject_ptr]];
    Cls [TYPE_QTCORE_QOBJECT] QGraphicsColorizeEffect [[QObject_ptr]];
    Cls [TYPE_QTCORE_QOBJECT] QGraphicsDropShadowEffect [[QObject_ptr]];
    Cls [TYPE_QTCORE_QOBJECT] QGraphicsEffect [[QObject_ptr]];
    Cls [TYPE_QTCORE_QOBJECT] QGraphicsOpacityEffect [[QObject_ptr]];
    Cls [TYPE_QTCORE_QOBJECT] QGraphicsRotation [[QObject_ptr]];
    Cls [TYPE_QTCORE_QOBJECT] QGraphicsScale [[QObject_ptr]];
    Cls [TYPE_QTCORE_QOBJECT; VALUE_TYPE_QTCORE_QRECTF] QGraphicsScene [[QObject_ptr]; [QRectF;
        QObject_ptr]; [cxx_qreal; cxx_qreal; cxx_qreal; cxx_qreal; QObject_ptr]];
    Cls [TYPE_QTCORE_QOBJECT] QGraphicsTransform [[QObject_ptr]];
    Cls [TYPE_QTWIDGETS_QGRAPHICSSCENE; TYPE_QTWIDGETS_QWIDGET] QGraphicsView [[QWidget_ptr];
        [QGraphicsScene_ptr; QWidget_ptr]];
    Cls [TYPE_QTWIDGETS_QWIDGET] QGridLayout [[QWidget_ptr]];
    Cls [TYPE_QTWIDGETS_QWIDGET] QGroupBox [[QWidget_ptr]; [QString; QWidget_ptr]];
    Cls [TYPE_QTWIDGETS_QWIDGET] QHBoxLayout [[]; [QWidget_ptr]];
    Cls [ENUM_QT_ORIENTATION; TYPE_QTWIDGETS_QWIDGET] QHeaderView [[Qt_Orientation; QWidget_ptr]];
    Cls [ENUM_QT_WINDOWFLAGS; TYPE_QTWIDGETS_QWIDGET] QInputDialog [[QWidget_ptr; Qt_WindowFlags]];
    Cls [TYPE_QTCORE_QOBJECT] QItemDelegate [[QObject_ptr]]
  ].

Definition constructors_qtwidgets_1 : constructor_shard :=
  ConstructorShard QtWidgets "KRY_QT6_NATIVE_CONSTRUCTORS_QTWIDGETS_"
    (constructors_qtwidgets_1_i0)
    (constructors_qtwidgets_1_r0 ++ constructors_qtwidgets_1_r1 ++ constructors_qtwidgets_1_r2 ++
        constructors_qtwidgets_1_r3 ++ constructors_qtwidgets_1_r4)
    (constructors_qtwidgets_1_c0).

Definition constructors_qtwidgets_2_i0 : list include :=
  [
    ClassInclude QtWidgets QKeySequenceEdit QKeySequenceEdit;
    ClassInclude QtWidgets QLCDNumber QLCDNumber;
    ClassInclude QtWidgets QLabel QLabel;
    ClassInclude QtWidgets QLayout QLayout;
    ClassInclude QtWidgets QLineEdit QLineEdit;
    ClassInclude QtWidgets QListView QListView;
    ClassInclude QtWidgets QListWidget QListWidget;
    ClassInclude QtWidgets QMainWindow QMainWindow;
    ClassInclude QtWidgets QMdiArea QMdiArea;
    ClassInclude QtWidgets QMdiSubWindow QMdiSubWindow;
    ClassInclude QtWidgets QMenu QMenu;
    ClassInclude QtWidgets QMenuBar QMenuBar;
    ClassInclude QtWidgets QMessageBox QMessageBox;
    ClassInclude QtWidgets QPanGesture QPanGesture;
    ClassInclude QtWidgets QPinchGesture QPinchGesture;
    ClassInclude QtWidgets QPlainTextDocumentLayout QPlainTextDocumentLayout;
    ClassInclude QtWidgets QPlainTextEdit QPlainTextEdit;
    ClassInclude QtWidgets QProgressBar QProgressBar;
    ClassInclude QtWidgets QProgressDialog QProgressDialog;
    ClassInclude QtWidgets QProxyStyle QProxyStyle;
    ClassInclude QtWidgets QPushButton QPushButton;
    ClassInclude QtWidgets QRadioButton QRadioButton;
    ClassInclude QtWidgets QRubberBand QRubberBand;
    ClassInclude QtWidgets QScrollArea QScrollArea;
    TypeInclude QtCore QObject TYPE_QTCORE_QOBJECT;
    TypeInclude QtGui QTextDocument TYPE_QTGUI_QTEXTDOCUMENT;
    TypeInclude QtWidgets QStyle TYPE_QTWIDGETS_QSTYLE;
    TypeInclude QtWidgets QWidget TYPE_QTWIDGETS_QWIDGET;
    EnumDefine ENUM_QT_WINDOWFLAGS;
    TypeInclude QtWidgets QMessageBox TYPE_QTWIDGETS_QMESSAGEBOX;
    TypeInclude QtWidgets QRubberBand TYPE_QTWIDGETS_QRUBBERBAND;
    TypeInclude QtGui QIcon VALUE_TYPE_QTGUI_QICON;
    TypeInclude QtGui QKeySequence VALUE_TYPE_QTGUI_QKEYSEQUENCE
  ].

Definition constructors_qtwidgets_2_r0 : list constructor_row :=
  [
    Ctor QKeySequenceEdit 0 [Cand [TYPE_QTWIDGETS_QWIDGET] [] None];
    Ctor QKeySequenceEdit 1 [Cand [TYPE_QTWIDGETS_QWIDGET; VALUE_TYPE_QTGUI_QKEYSEQUENCE] [PValue
        QKeySequence] None];
    Ctor QLCDNumber 0 [Cand [TYPE_QTWIDGETS_QWIDGET] [] None];
    Ctor QLCDNumber 1 [Cand [TYPE_QTWIDGETS_QWIDGET] [PUInt] None];
    Ctor QLabel 0 [Cand [ENUM_QT_WINDOWFLAGS; TYPE_QTWIDGETS_QWIDGET] [] None];
    Ctor QLabel 1 [Cand [ENUM_QT_WINDOWFLAGS; TYPE_QTWIDGETS_QWIDGET] [PValue Qt_WindowFlags] (Some (0%nat,
        QWidget)); Cand [ENUM_QT_WINDOWFLAGS; TYPE_QTWIDGETS_QWIDGET] [PString false] None]
  ].

Definition constructors_qtwidgets_2_r1 : list constructor_row :=
  [
    Ctor QLabel 2 [Cand [ENUM_QT_WINDOWFLAGS; TYPE_QTWIDGETS_QWIDGET] [PString false; PValue
        Qt_WindowFlags] (Some (1%nat, QWidget))];
    Ctor QLayout 0 [Cand [TYPE_QTWIDGETS_QWIDGET] [] None];
    Ctor QLineEdit 0 [Cand [TYPE_QTWIDGETS_QWIDGET] [] None];
    Ctor QLineEdit 1 [Cand [TYPE_QTWIDGETS_QWIDGET] [PString false] None];
    Ctor QListView 0 [Cand [TYPE_QTWIDGETS_QWIDGET] [] None];
    Ctor QListWidget 0 [Cand [TYPE_QTWIDGETS_QWIDGET] [] None];
    Ctor QMainWindow 0 [Cand [ENUM_QT_WINDOWFLAGS; TYPE_QTWIDGETS_QWIDGET] [] None]
  ].

Definition constructors_qtwidgets_2_r2 : list constructor_row :=
  [
    Ctor QMainWindow 1 [Cand [ENUM_QT_WINDOWFLAGS; TYPE_QTWIDGETS_QWIDGET] [PValue Qt_WindowFlags] (Some
        (0%nat, QWidget))];
    Ctor QMdiArea 0 [Cand [TYPE_QTWIDGETS_QWIDGET] [] None];
    Ctor QMdiSubWindow 0 [Cand [ENUM_QT_WINDOWFLAGS; TYPE_QTWIDGETS_QWIDGET] [] None];
    Ctor QMdiSubWindow 1 [Cand [ENUM_QT_WINDOWFLAGS; TYPE_QTWIDGETS_QWIDGET] [PValue Qt_WindowFlags] (Some
        (0%nat, QWidget))];
    Ctor QMenu 0 [Cand [TYPE_QTWIDGETS_QWIDGET] [] None];
    Ctor QMenu 1 [Cand [TYPE_QTWIDGETS_QWIDGET] [PString false] None];
    Ctor QMenuBar 0 [Cand [TYPE_QTWIDGETS_QWIDGET] [] None]
  ].

Definition constructors_qtwidgets_2_r3 : list constructor_row :=
  [
    Ctor QMessageBox 0 [Cand [TYPE_QTWIDGETS_QWIDGET] [] None];
    Ctor QMessageBox 3 [Cand [ENUM_QT_WINDOWFLAGS; TYPE_QTWIDGETS_QMESSAGEBOX; TYPE_QTWIDGETS_QWIDGET]
        [PValue QMessageBox_Icon; PString false; PString false] None];
    Ctor QMessageBox 4 [Cand [ENUM_QT_WINDOWFLAGS; TYPE_QTWIDGETS_QMESSAGEBOX; TYPE_QTWIDGETS_QWIDGET]
        [PValue QMessageBox_Icon; PString false; PString false; PValue QMessageBox_StandardButtons] None];
    Ctor QMessageBox 5 [Cand [ENUM_QT_WINDOWFLAGS; TYPE_QTWIDGETS_QMESSAGEBOX; TYPE_QTWIDGETS_QWIDGET]
        [PValue QMessageBox_Icon; PString false; PString false; PValue QMessageBox_StandardButtons; PValue
        Qt_WindowFlags] (Some (4%nat, QWidget))];
    Ctor QPanGesture 0 [Cand [TYPE_QTCORE_QOBJECT] [] None];
    Ctor QPinchGesture 0 [Cand [TYPE_QTCORE_QOBJECT] [] None]
  ].

Definition constructors_qtwidgets_2_r4 : list constructor_row :=
  [
    Ctor QPlainTextDocumentLayout 1 [Cand [TYPE_QTGUI_QTEXTDOCUMENT] [PObject QTextDocument false] None];
    Ctor QPlainTextEdit 0 [Cand [TYPE_QTWIDGETS_QWIDGET] [] None];
    Ctor QPlainTextEdit 1 [Cand [TYPE_QTWIDGETS_QWIDGET] [PString false] None];
    Ctor QProgressBar 0 [Cand [TYPE_QTWIDGETS_QWIDGET] [] None];
    Ctor QProgressDialog 0 [Cand [ENUM_QT_WINDOWFLAGS; TYPE_QTWIDGETS_QWIDGET] [] None];
    Ctor QProgressDialog 1 [Cand [ENUM_QT_WINDOWFLAGS; TYPE_QTWIDGETS_QWIDGET] [PValue Qt_WindowFlags]
        (Some (0%nat, QWidget))];
    Ctor QProgressDialog 4 [Cand [ENUM_QT_WINDOWFLAGS; TYPE_QTWIDGETS_QWIDGET] [PString false; PString
        false; PInt; PInt] None]
  ].

Definition constructors_qtwidgets_2_r5 : list constructor_row :=
  [
    Ctor QProgressDialog 5 [Cand [ENUM_QT_WINDOWFLAGS; TYPE_QTWIDGETS_QWIDGET] [PString false; PString
        false; PInt; PInt; PValue Qt_WindowFlags] (Some (4%nat, QWidget))];
    Ctor QProxyStyle 0 [Cand [TYPE_QTWIDGETS_QSTYLE] [] None];
    Ctor QProxyStyle 1 [Cand [TYPE_QTWIDGETS_QSTYLE] [PObject QStyle false] None; Cand [] [PString false]
        None];
    Ctor QPushButton 0 [Cand [TYPE_QTWIDGETS_QWIDGET] [] None];
    Ctor QPushButton 1 [Cand [TYPE_QTWIDGETS_QWIDGET] [PString false] None];
    Ctor QPushButton 2 [Cand [TYPE_QTWIDGETS_QWIDGET; VALUE_TYPE_QTGUI_QICON] [PValue QIcon; PString false]
        None]
  ].

Definition constructors_qtwidgets_2_r6 : list constructor_row :=
  [
    Ctor QRadioButton 0 [Cand [TYPE_QTWIDGETS_QWIDGET] [] None];
    Ctor QRadioButton 1 [Cand [TYPE_QTWIDGETS_QWIDGET] [PString false] None];
    Ctor QRubberBand 1 [Cand [TYPE_QTWIDGETS_QRUBBERBAND; TYPE_QTWIDGETS_QWIDGET] [PValue
        QRubberBand_Shape] None];
    Ctor QScrollArea 0 [Cand [TYPE_QTWIDGETS_QWIDGET] [] None]
  ].

Definition constructors_qtwidgets_2_c0 : list class_row :=
  [
    Cls [TYPE_QTWIDGETS_QWIDGET; VALUE_TYPE_QTGUI_QKEYSEQUENCE] QKeySequenceEdit [[QWidget_ptr];
        [QKeySequence; QWidget_ptr]];
    Cls [TYPE_QTWIDGETS_QWIDGET] QLCDNumber [[QWidget_ptr]; [cxx_unsigned_int; QWidget_ptr]];
    Cls [ENUM_QT_WINDOWFLAGS; TYPE_QTWIDGETS_QWIDGET] QLabel [[QWidget_ptr; Qt_WindowFlags]; [QString;
        QWidget_ptr; Qt_WindowFlags]];
    Cls [TYPE_QTWIDGETS_QWIDGET] QLayout [[QWidget_ptr]];
    Cls [TYPE_QTWIDGETS_QWIDGET] QLineEdit [[QWidget_ptr]; [QString; QWidget_ptr]];
    Cls [TYPE_QTWIDGETS_QWIDGET] QListView [[QWidget_ptr]];
    Cls [TYPE_QTWIDGETS_QWIDGET] QListWidget [[QWidget_ptr]];
    Cls [ENUM_QT_WINDOWFLAGS; TYPE_QTWIDGETS_QWIDGET] QMainWindow [[QWidget_ptr; Qt_WindowFlags]];
    Cls [TYPE_QTWIDGETS_QWIDGET] QMdiArea [[QWidget_ptr]];
    Cls [ENUM_QT_WINDOWFLAGS; TYPE_QTWIDGETS_QWIDGET] QMdiSubWindow [[QWidget_ptr; Qt_WindowFlags]];
    Cls [TYPE_QTWIDGETS_QWIDGET] QMenu [[QWidget_ptr]; [QString; QWidget_ptr]];
    Cls [TYPE_QTWIDGETS_QWIDGET] QMenuBar [[QWidget_ptr]];
    Cls [ENUM_QT_WINDOWFLAGS; TYPE_QTWIDGETS_QMESSAGEBOX; TYPE_QTWIDGETS_QWIDGET] QMessageBox
        [[QWidget_ptr]; [QMessageBox_Icon; QString; QString; QMessageBox_StandardButtons; QWidget_ptr;
        Qt_WindowFlags]];
    Cls [TYPE_QTCORE_QOBJECT] QPanGesture [[QObject_ptr]];
    Cls [TYPE_QTCORE_QOBJECT] QPinchGesture [[QObject_ptr]];
    Cls [TYPE_QTGUI_QTEXTDOCUMENT] QPlainTextDocumentLayout [[QTextDocument_ptr]];
    Cls [TYPE_QTWIDGETS_QWIDGET] QPlainTextEdit [[QWidget_ptr]; [QString; QWidget_ptr]];
    Cls [TYPE_QTWIDGETS_QWIDGET] QProgressBar [[QWidget_ptr]];
    Cls [ENUM_QT_WINDOWFLAGS; TYPE_QTWIDGETS_QWIDGET] QProgressDialog [[QWidget_ptr; Qt_WindowFlags];
        [QString; QString; cxx_int; cxx_int; QWidget_ptr; Qt_WindowFlags]];
    Cls [TYPE_QTWIDGETS_QSTYLE] QProxyStyle [[QStyle_ptr]; [QString]];
    Cls [TYPE_QTWIDGETS_QWIDGET; VALUE_TYPE_QTGUI_QICON] QPushButton [[QWidget_ptr]; [QString;
        QWidget_ptr]; [QIcon; QString; QWidget_ptr]];
    Cls [TYPE_QTWIDGETS_QWIDGET] QRadioButton [[QWidget_ptr]; [QString; QWidget_ptr]];
    Cls [TYPE_QTWIDGETS_QRUBBERBAND; TYPE_QTWIDGETS_QWIDGET] QRubberBand [[QRubberBand_Shape; QWidget_ptr]];
    Cls [TYPE_QTWIDGETS_QWIDGET] QScrollArea [[QWidget_ptr]]
  ].

Definition constructors_qtwidgets_2 : constructor_shard :=
  ConstructorShard QtWidgets "KRY_QT6_NATIVE_CONSTRUCTORS_QTWIDGETS_"
    (constructors_qtwidgets_2_i0)
    (constructors_qtwidgets_2_r0 ++ constructors_qtwidgets_2_r1 ++ constructors_qtwidgets_2_r2 ++
        constructors_qtwidgets_2_r3 ++ constructors_qtwidgets_2_r4 ++ constructors_qtwidgets_2_r5 ++
        constructors_qtwidgets_2_r6)
    (constructors_qtwidgets_2_c0).

Definition constructors_qtwidgets_3_i0 : list include :=
  [
    ClassInclude QtWidgets QScrollBar QScrollBar;
    ClassInclude QtWidgets QSizeGrip QSizeGrip;
    ClassInclude QtWidgets QSlider QSlider;
    ClassInclude QtWidgets QSpinBox QSpinBox;
    ClassInclude QtWidgets QSplashScreen QSplashScreen;
    ClassInclude QtWidgets QSplitter QSplitter;
    ClassInclude QtWidgets QSplitterHandle QSplitterHandle;
    ClassInclude QtWidgets QStackedLayout QStackedLayout;
    ClassInclude QtWidgets QStackedWidget QStackedWidget;
    ClassInclude QtWidgets QStatusBar QStatusBar;
    ClassInclude QtWidgets QStyle QStyle;
    ClassInclude QtWidgets QStyledItemDelegate QStyledItemDelegate;
    ClassInclude QtWidgets QSwipeGesture QSwipeGesture;
    ClassInclude QtWidgets QSystemTrayIcon QSystemTrayIcon;
    ClassInclude QtWidgets QTabBar QTabBar;
    ClassInclude QtWidgets QTabWidget QTabWidget;
    ClassInclude QtWidgets QTableView QTableView;
    ClassInclude QtWidgets QTableWidget QTableWidget;
    ClassInclude QtWidgets QTapAndHoldGesture QTapAndHoldGesture;
    ClassInclude QtWidgets QTapGesture QTapGesture;
    ClassInclude QtWidgets QTextBrowser QTextBrowser;
    ClassInclude QtWidgets QTextEdit QTextEdit;
    ClassInclude QtWidgets QTimeEdit QTimeEdit;
    ClassInclude QtWidgets QToolBar QToolBar;
    TypeInclude QtCore QObject TYPE_QTCORE_QOBJECT;
    TypeInclude QtGui QScreen TYPE_QTGUI_QSCREEN;
    TypeInclude QtWidgets QLayout TYPE_QTWIDGETS_QLAYOUT;
    TypeInclude QtWidgets QSplitter TYPE_QTWIDGETS_QSPLITTER;
    TypeInclude QtWidgets QWidget TYPE_QTWIDGETS_QWIDGET;
    EnumDefine ENUM_QT_ORIENTATION;
    EnumDefine ENUM_QT_WINDOWFLAGS;
    TypeInclude QtCore QTime VALUE_TYPE_QTCORE_QTIME;
    TypeInclude QtGui QIcon VALUE_TYPE_QTGUI_QICON;
    TypeInclude QtGui QPixmap VALUE_TYPE_QTGUI_QPIXMAP
  ].

Definition constructors_qtwidgets_3_r0 : list constructor_row :=
  [
    Ctor QScrollBar 0 [Cand [TYPE_QTWIDGETS_QWIDGET] [] None];
    Ctor QScrollBar 1 [Cand [ENUM_QT_ORIENTATION; TYPE_QTWIDGETS_QWIDGET] [PValue Qt_Orientation] None];
    Ctor QSizeGrip 0 [Cand [TYPE_QTWIDGETS_QWIDGET] [] (Some (0%nat, QWidget))];
    Ctor QSlider 0 [Cand [TYPE_QTWIDGETS_QWIDGET] [] None];
    Ctor QSlider 1 [Cand [ENUM_QT_ORIENTATION; TYPE_QTWIDGETS_QWIDGET] [PValue Qt_Orientation] None];
    Ctor QSpinBox 0 [Cand [TYPE_QTWIDGETS_QWIDGET] [] None];
    Ctor QSplashScreen 0 [Cand [ENUM_QT_WINDOWFLAGS; VALUE_TYPE_QTGUI_QPIXMAP] [] None]
  ].

Definition constructors_qtwidgets_3_r1 : list constructor_row :=
  [
    Ctor QSplashScreen 1 [Cand [ENUM_QT_WINDOWFLAGS; VALUE_TYPE_QTGUI_QPIXMAP] [PValue QPixmap] None; Cand
        [ENUM_QT_WINDOWFLAGS; TYPE_QTGUI_QSCREEN; VALUE_TYPE_QTGUI_QPIXMAP] [PObject QScreen false] None];
    Ctor QSplashScreen 2 [Cand [ENUM_QT_WINDOWFLAGS; VALUE_TYPE_QTGUI_QPIXMAP] [PValue QPixmap; PValue
        Qt_WindowFlags] None; Cand [ENUM_QT_WINDOWFLAGS; TYPE_QTGUI_QSCREEN; VALUE_TYPE_QTGUI_QPIXMAP]
        [PObject QScreen false; PValue QPixmap] None];
    Ctor QSplashScreen 3 [Cand [ENUM_QT_WINDOWFLAGS; TYPE_QTGUI_QSCREEN; VALUE_TYPE_QTGUI_QPIXMAP] [PObject
        QScreen false; PValue QPixmap; PValue Qt_WindowFlags] None];
    Ctor QSplitter 0 [Cand [TYPE_QTWIDGETS_QWIDGET] [] None];
    Ctor QSplitter 1 [Cand [ENUM_QT_ORIENTATION; TYPE_QTWIDGETS_QWIDGET] [PValue Qt_Orientation] None]
  ].

Definition constructors_qtwidgets_3_r2 : list constructor_row :=
  [
    Ctor QSplitterHandle 1 [Cand [ENUM_QT_ORIENTATION; TYPE_QTWIDGETS_QSPLITTER] [PValue Qt_Orientation]
        (Some (1%nat, QSplitter))];
    Ctor QStackedLayout 0 [Cand [] [] None; Cand [TYPE_QTWIDGETS_QWIDGET] [] (Some (0%nat, QWidget))];
    Ctor QStackedLayout 1 [Cand [TYPE_QTWIDGETS_QLAYOUT] [PObject QLayout false] None];
    Ctor QStackedWidget 0 [Cand [TYPE_QTWIDGETS_QWIDGET] [] None];
    Ctor QStatusBar 0 [Cand [TYPE_QTWIDGETS_QWIDGET] [] None];
    Ctor QStyle 0 [Cand [] [] None]
  ].

Definition constructors_qtwidgets_3_r3 : list constructor_row :=
  [
    Ctor QStyledItemDelegate 0 [Cand [TYPE_QTCORE_QOBJECT] [] None];
    Ctor QSwipeGesture 0 [Cand [TYPE_QTCORE_QOBJECT] [] None];
    Ctor QSystemTrayIcon 0 [Cand [TYPE_QTCORE_QOBJECT] [] None];
    Ctor QSystemTrayIcon 1 [Cand [TYPE_QTCORE_QOBJECT; VALUE_TYPE_QTGUI_QICON] [PValue QIcon] None];
    Ctor QTabBar 0 [Cand [TYPE_QTWIDGETS_QWIDGET] [] None];
    Ctor QTabWidget 0 [Cand [TYPE_QTWIDGETS_QWIDGET] [] None];
    Ctor QTableView 0 [Cand [TYPE_QTWIDGETS_QWIDGET] [] None]
  ].

Definition constructors_qtwidgets_3_r4 : list constructor_row :=
  [
    Ctor QTableWidget 0 [Cand [TYPE_QTWIDGETS_QWIDGET] [] None];
    Ctor QTableWidget 2 [Cand [TYPE_QTWIDGETS_QWIDGET] [PInt; PInt] None];
    Ctor QTapAndHoldGesture 0 [Cand [TYPE_QTCORE_QOBJECT] [] None];
    Ctor QTapGesture 0 [Cand [TYPE_QTCORE_QOBJECT] [] None];
    Ctor QTextBrowser 0 [Cand [TYPE_QTWIDGETS_QWIDGET] [] None];
    Ctor QTextEdit 0 [Cand [TYPE_QTWIDGETS_QWIDGET] [] None];
    Ctor QTextEdit 1 [Cand [TYPE_QTWIDGETS_QWIDGET] [PString false] None]
  ].

Definition constructors_qtwidgets_3_r5 : list constructor_row :=
  [
    Ctor QTimeEdit 0 [Cand [TYPE_QTWIDGETS_QWIDGET] [] None];
    Ctor QTimeEdit 1 [Cand [TYPE_QTWIDGETS_QWIDGET; VALUE_TYPE_QTCORE_QTIME] [PValue QTime] None];
    Ctor QToolBar 0 [Cand [TYPE_QTWIDGETS_QWIDGET] [] None];
    Ctor QToolBar 1 [Cand [TYPE_QTWIDGETS_QWIDGET] [PString false] None]
  ].

Definition constructors_qtwidgets_3_c0 : list class_row :=
  [
    Cls [ENUM_QT_ORIENTATION; TYPE_QTWIDGETS_QWIDGET] QScrollBar [[QWidget_ptr]; [Qt_Orientation;
        QWidget_ptr]];
    Cls [TYPE_QTWIDGETS_QWIDGET] QSizeGrip [[QWidget_ptr]];
    Cls [ENUM_QT_ORIENTATION; TYPE_QTWIDGETS_QWIDGET] QSlider [[QWidget_ptr]; [Qt_Orientation;
        QWidget_ptr]];
    Cls [TYPE_QTWIDGETS_QWIDGET] QSpinBox [[QWidget_ptr]];
    Cls [ENUM_QT_WINDOWFLAGS; TYPE_QTGUI_QSCREEN; VALUE_TYPE_QTGUI_QPIXMAP] QSplashScreen [[QPixmap;
        Qt_WindowFlags]; [QScreen_ptr; QPixmap; Qt_WindowFlags]];
    Cls [ENUM_QT_ORIENTATION; TYPE_QTWIDGETS_QWIDGET] QSplitter [[QWidget_ptr]; [Qt_Orientation;
        QWidget_ptr]];
    Cls [ENUM_QT_ORIENTATION; TYPE_QTWIDGETS_QSPLITTER] QSplitterHandle [[Qt_Orientation; QSplitter_ptr]];
    Cls [TYPE_QTWIDGETS_QLAYOUT; TYPE_QTWIDGETS_QWIDGET] QStackedLayout [[]; [QWidget_ptr]; [QLayout_ptr]];
    Cls [TYPE_QTWIDGETS_QWIDGET] QStackedWidget [[QWidget_ptr]];
    Cls [TYPE_QTWIDGETS_QWIDGET] QStatusBar [[QWidget_ptr]];
    Cls [] QStyle [[]];
    Cls [TYPE_QTCORE_QOBJECT] QStyledItemDelegate [[QObject_ptr]];
    Cls [TYPE_QTCORE_QOBJECT] QSwipeGesture [[QObject_ptr]];
    Cls [TYPE_QTCORE_QOBJECT; VALUE_TYPE_QTGUI_QICON] QSystemTrayIcon [[QObject_ptr]; [QIcon; QObject_ptr]];
    Cls [TYPE_QTWIDGETS_QWIDGET] QTabBar [[QWidget_ptr]];
    Cls [TYPE_QTWIDGETS_QWIDGET] QTabWidget [[QWidget_ptr]];
    Cls [TYPE_QTWIDGETS_QWIDGET] QTableView [[QWidget_ptr]];
    Cls [TYPE_QTWIDGETS_QWIDGET] QTableWidget [[QWidget_ptr]; [cxx_int; cxx_int; QWidget_ptr]];
    Cls [TYPE_QTCORE_QOBJECT] QTapAndHoldGesture [[QObject_ptr]];
    Cls [TYPE_QTCORE_QOBJECT] QTapGesture [[QObject_ptr]];
    Cls [TYPE_QTWIDGETS_QWIDGET] QTextBrowser [[QWidget_ptr]];
    Cls [TYPE_QTWIDGETS_QWIDGET] QTextEdit [[QWidget_ptr]; [QString; QWidget_ptr]];
    Cls [TYPE_QTWIDGETS_QWIDGET; VALUE_TYPE_QTCORE_QTIME] QTimeEdit [[QWidget_ptr]; [QTime; QWidget_ptr]];
    Cls [TYPE_QTWIDGETS_QWIDGET] QToolBar [[QString; QWidget_ptr]; [QWidget_ptr]]
  ].

Definition constructors_qtwidgets_3 : constructor_shard :=
  ConstructorShard QtWidgets "KRY_QT6_NATIVE_CONSTRUCTORS_QTWIDGETS_"
    (constructors_qtwidgets_3_i0)
    (constructors_qtwidgets_3_r0 ++ constructors_qtwidgets_3_r1 ++ constructors_qtwidgets_3_r2 ++
        constructors_qtwidgets_3_r3 ++ constructors_qtwidgets_3_r4 ++ constructors_qtwidgets_3_r5)
    (constructors_qtwidgets_3_c0).

Definition constructors_qtwidgets_4_i0 : list include :=
  [
    ClassInclude QtWidgets QToolBox QToolBox;
    ClassInclude QtWidgets QToolButton QToolButton;
    ClassInclude QtWidgets QTreeView QTreeView;
    ClassInclude QtWidgets QTreeWidget QTreeWidget;
    ClassInclude QtWidgets QUndoView QUndoView;
    ClassInclude QtWidgets QVBoxLayout QVBoxLayout;
    ClassInclude QtWidgets QWidget QWidget;
    ClassInclude QtWidgets QWidgetAction QWidgetAction;
    ClassInclude QtWidgets QWizard QWizard;
    ClassInclude QtWidgets QWizardPage QWizardPage;
    TypeInclude QtCore QObject TYPE_QTCORE_QOBJECT;
    TypeInclude QtGui QUndoGroup TYPE_QTGUI_QUNDOGROUP;
    TypeInclude QtGui QUndoStack TYPE_QTGUI_QUNDOSTACK;
    TypeInclude QtWidgets QWidget TYPE_QTWIDGETS_QWIDGET;
    EnumDefine ENUM_QT_WINDOWFLAGS
  ].

Definition constructors_qtwidgets_4_r0 : list constructor_row :=
  [
    Ctor QToolBox 0 [Cand [ENUM_QT_WINDOWFLAGS; TYPE_QTWIDGETS_QWIDGET] [] None];
    Ctor QToolBox 1 [Cand [ENUM_QT_WINDOWFLAGS; TYPE_QTWIDGETS_QWIDGET] [PValue Qt_WindowFlags] (Some
        (0%nat, QWidget))];
    Ctor QToolButton 0 [Cand [TYPE_QTWIDGETS_QWIDGET] [] None];
    Ctor QTreeView 0 [Cand [TYPE_QTWIDGETS_QWIDGET] [] None];
    Ctor QTreeWidget 0 [Cand [TYPE_QTWIDGETS_QWIDGET] [] None];
    Ctor QUndoView 0 [Cand [TYPE_QTWIDGETS_QWIDGET] [] None]
  ].

Definition constructors_qtwidgets_4_r1 : list constructor_row :=
  [
    Ctor QUndoView 1 [Cand [TYPE_QTGUI_QUNDOSTACK; TYPE_QTWIDGETS_QWIDGET] [PObject QUndoStack false] None;
        Cand [TYPE_QTGUI_QUNDOGROUP; TYPE_QTWIDGETS_QWIDGET] [PObject QUndoGroup false] None];
    Ctor QVBoxLayout 0 [Cand [] [] None; Cand [TYPE_QTWIDGETS_QWIDGET] [] (Some (0%nat, QWidget))];
    Ctor QWidget 0 [Cand [ENUM_QT_WINDOWFLAGS; TYPE_QTWIDGETS_QWIDGET] [] None];
    Ctor QWidget 1 [Cand [ENUM_QT_WINDOWFLAGS; TYPE_QTWIDGETS_QWIDGET] [PValue Qt_WindowFlags] (Some
        (0%nat, QWidget))];
    Ctor QWidgetAction 0 [Cand [TYPE_QTCORE_QOBJECT] [] (Some (0%nat, QObject))]
  ].

Definition constructors_qtwidgets_4_r2 : list constructor_row :=
  [
    Ctor QWizard 0 [Cand [ENUM_QT_WINDOWFLAGS; TYPE_QTWIDGETS_QWIDGET] [] None];
    Ctor QWizard 1 [Cand [ENUM_QT_WINDOWFLAGS; TYPE_QTWIDGETS_QWIDGET] [PValue Qt_WindowFlags] (Some
        (0%nat, QWidget))];
    Ctor QWizardPage 0 [Cand [TYPE_QTWIDGETS_QWIDGET] [] None]
  ].

Definition constructors_qtwidgets_4_c0 : list class_row :=
  [
    Cls [ENUM_QT_WINDOWFLAGS; TYPE_QTWIDGETS_QWIDGET] QToolBox [[QWidget_ptr; Qt_WindowFlags]];
    Cls [TYPE_QTWIDGETS_QWIDGET] QToolButton [[QWidget_ptr]];
    Cls [TYPE_QTWIDGETS_QWIDGET] QTreeView [[QWidget_ptr]];
    Cls [TYPE_QTWIDGETS_QWIDGET] QTreeWidget [[QWidget_ptr]];
    Cls [TYPE_QTGUI_QUNDOGROUP; TYPE_QTGUI_QUNDOSTACK; TYPE_QTWIDGETS_QWIDGET] QUndoView [[QWidget_ptr];
        [QUndoStack_ptr; QWidget_ptr]; [QUndoGroup_ptr; QWidget_ptr]];
    Cls [TYPE_QTWIDGETS_QWIDGET] QVBoxLayout [[]; [QWidget_ptr]];
    Cls [ENUM_QT_WINDOWFLAGS; TYPE_QTWIDGETS_QWIDGET] QWidget [[QWidget_ptr; Qt_WindowFlags]];
    Cls [TYPE_QTCORE_QOBJECT] QWidgetAction [[QObject_ptr]];
    Cls [ENUM_QT_WINDOWFLAGS; TYPE_QTWIDGETS_QWIDGET] QWizard [[QWidget_ptr; Qt_WindowFlags]];
    Cls [TYPE_QTWIDGETS_QWIDGET] QWizardPage [[QWidget_ptr]]
  ].

Definition constructors_qtwidgets_4 : constructor_shard :=
  ConstructorShard QtWidgets "KRY_QT6_NATIVE_CONSTRUCTORS_QTWIDGETS_"
    (constructors_qtwidgets_4_i0)
    (constructors_qtwidgets_4_r0 ++ constructors_qtwidgets_4_r1 ++ constructors_qtwidgets_4_r2)
    (constructors_qtwidgets_4_c0).
