(* ===== verification/ValueConstructorTables.v ===== *)
(** Rows of the shards of generated_value_constructors: qt3danimation_0, qt3dcore_0,
    qt3drender_0, qtbluetooth_0, qtbluetooth_1, qtcore_0, qtcore_1, qtcore_10, qtcore_11,
    qtcore_12, qtcore_2, qtcore_3, qtcore_4, qtcore_5, qtcore_6, qtcore_7, qtcore_8, qtcore_9,
    qtdbus_0, qtdbus_1, qtdesigner_0, qtgraphs_0, qtgui_0, qtgui_1, qtgui_10, qtgui_11,
    qtgui_12, qtgui_13, qtgui_2, qtgui_3, qtgui_4, qtgui_5, qtgui_6, qtgui_7, qtgui_8, qtgui_9,
    qthelp_0, qtmultimedia_0, qtmultimedia_1, qtnetwork_0, qtnetwork_1, qtnetwork_2,
    qtnetwork_3, qtnetwork_4, qtnetworkauth_0, qtnfc_0, qtopengl_0, qtopengl_1, qtpdf_0,
    qtpositioning_0, qtpositioning_1, qtprintsupport_0, qtqml_0, qtqml_1, qtquick_0, qtquick_1,
    qtserialport_0, qtsql_0, qtsvg_0, qttest_0, qttexttospeech_0, qtwebenginecore_0,
    qtwebenginecore_1, qtwebsockets_0, qtwidgets_0, qtwidgets_1, qtwidgets_2, qtwidgets_3,
    qtwidgets_4, qtwidgets_5, qtxml_0, qtxml_1, qtxml_2. *)
From S2P Require Import Names.

(** * Definitions *)

Definition value_constructors_qt3danimation_0_i0 : list include :=
  [
    ClassInclude Qt3DAnimation QAnimationClipData QAnimationClipData;
    ClassInclude Qt3DAnimation QChannel QChannel;
    ClassInclude Qt3DAnimation QChannelComponent QChannelComponent;
    ClassInclude Qt3DAnimation QKeyFrame QKeyFrame;
    TypeInclude QtGui QVector2D VALUE_TYPE_QTGUI_QVECTOR2D
  ].

Definition value_constructors_qt3danimation_0_r0 : list constructor_row :=
  [
    Ctor QAnimationClipData 0 [Cand [] [] None];
    Ctor QChannel 0 [Cand [] [] None];
    Ctor QChannel 1 [Cand [] [PString false] None];
    Ctor QChannelComponent 0 [Cand [] [] None];
    Ctor QChannelComponent 1 [Cand [] [PString false] None];
    Ctor QKeyFrame 0 [Cand [] [] None];
    Ctor QKeyFrame 1 [Cand [VALUE_TYPE_QTGUI_QVECTOR2D] [PValue QVector2D] None];
    Ctor QKeyFrame 3 [Cand [VALUE_TYPE_QTGUI_QVECTOR2D] [PValue QVector2D; PValue QVector2D; PValue
        QVector2D] None]
  ].

Definition value_constructors_qt3danimation_0_c0 : list class_row :=
  [
    Cls [] QAnimationClipData [[]];
    Cls [] QChannel [[]; [QString]];
    Cls [] QChannelComponent [[]; [QString]];
    Cls [VALUE_TYPE_QTGUI_QVECTOR2D] QKeyFrame [[]; [QVector2D]; [QVector2D; QVector2D; QVector2D]]
  ].

Definition value_constructors_qt3danimation_0 : constructor_shard :=
  ConstructorShard Qt3DAnimation "KRY_QT6_NATIVE_VALUE_CONSTRUCTORS_QT3DANIMATION_"
    (value_constructors_qt3danimation_0_i0)
    (value_constructors_qt3danimation_0_r0)
    (value_constructors_qt3danimation_0_c0).

Definition value_constructors_qt3dcore_0_i0 : list include :=
  [
    ClassInclude Qt3DCore QAbstractFunctor QAbstractFunctor;
    ClassInclude Qt3DCore QBackendNode QBackendNode;
    ClassInclude Qt3DCore QNodeId QNodeId;
    ClassInclude Qt3DCore QTransform QTransform;
    TypeInclude Qt3DCore QNode TYPE_QT3DCORE_QNODE;
    TypeInclude Qt3DCore QBackendNode TYPE_QT3DCORE_QBACKENDNODE
  ].

Definition value_constructors_qt3dcore_0_r0 : list constructor_row :=
  [
    Ctor QAbstractFunctor 0 [Cand [] [] None];
    Ctor QBackendNode 0 [Cand [TYPE_QT3DCORE_QBACKENDNODE] [] None];
    Ctor QBackendNode 1 [Cand [TYPE_QT3DCORE_QBACKENDNODE] [PValue Qt3DCore_QBackendNode_Mode] None];
    Ctor QNodeId 0 [Cand [] [] None];
    Ctor QTransform 0 [Cand [TYPE_QT3DCORE_QNODE] [] None];
    Ctor QTransform 1 [Cand [TYPE_QT3DCORE_QNODE] [PObject Qt3DCore_QNode false] None]
  ].

Definition value_constructors_qt3dcore_0_c0 : list class_row :=
  [
    Cls [] QAbstractFunctor [[]];
    Cls [TYPE_QT3DCORE_QBACKENDNODE] QBackendNode [[Qt3DCore_QBackendNode_Mode]];
    Cls [] QNodeId [[]];
    Cls [TYPE_QT3DCORE_QNODE] QTransform [[Qt3DCore_QNode_ptr]]
  ].

Definition value_constructors_qt3dcore_0 : constructor_shard :=
  ConstructorShard Qt3DCore "KRY_QT6_NATIVE_VALUE_CONSTRUCTORS_QT3DCORE_"
    (value_constructors_qt3dcore_0_i0)
    (value_constructors_qt3dcore_0_r0)
    (value_constructors_qt3dcore_0_c0).

Definition value_constructors_qt3drender_0_i0 : list include :=
  [
    ClassInclude Qt3DRender QLevelOfDetailBoundingSphere QLevelOfDetailBoundingSphere;
    ClassInclude Qt3DRender QProximityFilter QProximityFilter;
    ClassInclude Qt3DRender QRayCasterHit QRayCasterHit;
    ClassInclude Qt3DRender QTextureData QTextureData;
    ClassInclude Qt3DRender QTextureDataUpdate QTextureDataUpdate;
    ClassInclude Qt3DRender QTextureImageData QTextureImageData;
    TypeInclude Qt3DCore QNode TYPE_QT3DCORE_QNODE;
    TypeInclude QtGui QVector3D VALUE_TYPE_QTGUI_QVECTOR3D
  ].

Definition value_constructors_qt3drender_0_r0 : list constructor_row :=
  [
    Ctor QLevelOfDetailBoundingSphere 0 [Cand [VALUE_TYPE_QTGUI_QVECTOR3D] [] None];
    Ctor QLevelOfDetailBoundingSphere 1 [Cand [VALUE_TYPE_QTGUI_QVECTOR3D] [PValue QVector3D] None];
    Ctor QLevelOfDetailBoundingSphere 2 [Cand [VALUE_TYPE_QTGUI_QVECTOR3D] [PValue QVector3D; PNumber
        cxx_float] None];
    Ctor QProximityFilter 0 [Cand [TYPE_QT3DCORE_QNODE] [] None];
    Ctor QProximityFilter 1 [Cand [TYPE_QT3DCORE_QNODE] [PObject Qt3DCore_QNode false] None];
    Ctor QRayCasterHit 0 [Cand [] [] None];
    Ctor QTextureData 0 [Cand [] [] None];
    Ctor QTextureDataUpdate 0 [Cand [] [] None];
    Ctor QTextureImageData 0 [Cand [] [] None]
  ].

Definition value_constructors_qt3drender_0_c0 : list class_row :=
  [
    Cls [VALUE_TYPE_QTGUI_QVECTOR3D] QLevelOfDetailBoundingSphere [[QVector3D; cxx_float]];
    Cls [TYPE_QT3DCORE_QNODE] QProximityFilter [[Qt3DCore_QNode_ptr]];
    Cls [] QRayCasterHit [[]];
    Cls [] QTextureData [[]];
    Cls [] QTextureDataUpdate [[]];
    Cls [] QTextureImageData [[]]
  ].

Definition value_constructors_qt3drender_0 : constructor_shard :=
  ConstructorShard Qt3DRender "KRY_QT6_NATIVE_VALUE_CONSTRUCTORS_QT3DRENDER_"
    (value_constructors_qt3drender_0_i0)
    (value_constructors_qt3drender_0_r0)
    (value_constructors_qt3drender_0_c0).

Definition value_constructors_qtbluetooth_0_i0 : list include :=
  [
    ClassInclude QtBluetooth QBluetoothAddress QBluetoothAddress;
    ClassInclude QtBluetooth QBluetoothDeviceInfo QBluetoothDeviceInfo;
    ClassInclude QtBluetooth QBluetoothHostInfo QBluetoothHostInfo;
    ClassInclude QtBluetooth QBluetoothServiceInfo QBluetoothServiceInfo;
    ClassInclude QtBluetooth QBluetoothUuid QBluetoothUuid;
    ClassInclude QtBluetooth QLowEnergyAdvertisingData QLowEnergyAdvertisingData;
    ClassInclude QtBluetooth QLowEnergyAdvertisingParameters QLowEnergyAdvertisingParameters;
    ClassInclude QtBluetooth QLowEnergyCharacteristic QLowEnergyCharacteristic;
    TypeInclude QtBluetooth QBluetoothUuid TYPE_QTBLUETOOTH_QBLUETOOTHUUID;
    TypeInclude QtBluetooth QBluetoothAddress VALUE_TYPE_QTBLUETOOTH_QBLUETOOTHADDRESS;
    TypeInclude QtBluetooth QBluetoothDeviceInfo VALUE_TYPE_QTBLUETOOTH_QBLUETOOTHDEVICEINFO;
    TypeInclude QtBluetooth QBluetoothHostInfo VALUE_TYPE_QTBLUETOOTH_QBLUETOOTHHOSTINFO;
    TypeInclude QtBluetooth QBluetoothServiceInfo VALUE_TYPE_QTBLUETOOTH_QBLUETOOTHSERVICEINFO;
    TypeInclude QtBluetooth QBluetoothUuid VALUE_TYPE_QTBLUETOOTH_QBLUETOOTHUUID;
    TypeInclude QtBluetooth QLowEnergyAdvertisingData VALUE_TYPE_QTBLUETOOTH_QLOWENERGYADVERTISINGDATA;
    TypeInclude QtBluetooth QLowEnergyAdvertisingParameters
        VALUE_TYPE_QTBLUETOOTH_QLOWENERGYADVERTISINGPARAMETERS;
    TypeInclude QtBluetooth QLowEnergyCharacteristic VALUE_TYPE_QTBLUETOOTH_QLOWENERGYCHARACTERISTIC;
    TypeInclude QtCore QUuid VALUE_TYPE_QTCORE_QUUID
  ].

Definition value_constructors_qtbluetooth_0_r0 : list constructor_row :=
  [
    Ctor QBluetoothAddress 0 [Cand [] [] None];
    Ctor QBluetoothAddress 1 [Cand [] [PMeta cxx_quint64] None; Cand [] [PString false] None; Cand
        [VALUE_TYPE_QTBLUETOOTH_QBLUETOOTHADDRESS] [PValue QBluetoothAddress] None];
    Ctor QBluetoothDeviceInfo 0 [Cand [] [] None];
    Ctor QBluetoothDeviceInfo 1 [Cand [VALUE_TYPE_QTBLUETOOTH_QBLUETOOTHDEVICEINFO] [PValue
        QBluetoothDeviceInfo] None];
    Ctor QBluetoothHostInfo 0 [Cand [] [] None];
    Ctor QBluetoothHostInfo 1 [Cand [VALUE_TYPE_QTBLUETOOTH_QBLUETOOTHHOSTINFO] [PValue QBluetoothHostInfo]
        None];
    Ctor QBluetoothServiceInfo 0 [Cand [] [] None]
  ].

Definition value_constructors_qtbluetooth_0_r1 : list constructor_row :=
  [
    Ctor QBluetoothServiceInfo 1 [Cand [VALUE_TYPE_QTBLUETOOTH_QBLUETOOTHSERVICEINFO] [PValue
        QBluetoothServiceInfo] None];
    Ctor QBluetoothUuid 0 [Cand [] [] None];
    Ctor QBluetoothUuid 1 [Cand [TYPE_QTBLUETOOTH_QBLUETOOTHUUID] [PValue QBluetoothUuid_ProtocolUuid]
        None; Cand [TYPE_QTBLUETOOTH_QBLUETOOTHUUID] [PValue QBluetoothUuid_ServiceClassUuid] None; Cand
        [TYPE_QTBLUETOOTH_QBLUETOOTHUUID] [PValue QBluetoothUuid_CharacteristicType] None; Cand
        [TYPE_QTBLUETOOTH_QBLUETOOTHUUID] [PValue QBluetoothUuid_DescriptorType] None; Cand [] [PString
        false] None; Cand [VALUE_TYPE_QTBLUETOOTH_QBLUETOOTHUUID] [PValue QBluetoothUuid] None; Cand
        [VALUE_TYPE_QTCORE_QUUID] [PValue QUuid] None];
    Ctor QLowEnergyAdvertisingData 0 [Cand [] [] None]
  ].

Definition value_constructors_qtbluetooth_0_r2 : list constructor_row :=
  [
    Ctor QLowEnergyAdvertisingData 1 [Cand [VALUE_TYPE_QTBLUETOOTH_QLOWENERGYADVERTISINGDATA] [PValue
        QLowEnergyAdvertisingData] None];
    Ctor QLowEnergyAdvertisingParameters 0 [Cand [] [] None];
    Ctor QLowEnergyAdvertisingParameters 1 [Cand [VALUE_TYPE_QTBLUETOOTH_QLOWENERGYADVERTISINGPARAMETERS]
        [PValue QLowEnergyAdvertisingParameters] None];
    Ctor QLowEnergyCharacteristic 0 [Cand [] [] None];
    Ctor QLowEnergyCharacteristic 1 [Cand [VALUE_TYPE_QTBLUETOOTH_QLOWENERGYCHARACTERISTIC] [PValue
        QLowEnergyCharacteristic] None]
  ].

Definition value_constructors_qtbluetooth_0_c0 : list class_row :=
  [
    Cls [VALUE_TYPE_QTBLUETOOTH_QBLUETOOTHADDRESS] QBluetoothAddress [[]; [cxx_quint64]; [QString];
        [QBluetoothAddress]];
    Cls [VALUE_TYPE_QTBLUETOOTH_QBLUETOOTHDEVICEINFO] QBluetoothDeviceInfo [[]; [QBluetoothDeviceInfo]];
    Cls [VALUE_TYPE_QTBLUETOOTH_QBLUETOOTHHOSTINFO] QBluetoothHostInfo [[]; [QBluetoothHostInfo]];
    Cls [VALUE_TYPE_QTBLUETOOTH_QBLUETOOTHSERVICEINFO] QBluetoothServiceInfo [[]; [QBluetoothServiceInfo]];
    Cls [TYPE_QTBLUETOOTH_QBLUETOOTHUUID; VALUE_TYPE_QTBLUETOOTH_QBLUETOOTHUUID; VALUE_TYPE_QTCORE_QUUID]
        QBluetoothUuid [[]; [QBluetoothUuid_ProtocolUuid]; [QBluetoothUuid_ServiceClassUuid];
        [QBluetoothUuid_CharacteristicType]; [QBluetoothUuid_DescriptorType]; [QString]; [QBluetoothUuid];
        [QUuid]];
    Cls [VALUE_TYPE_QTBLUETOOTH_QLOWENERGYADVERTISINGDATA] QLowEnergyAdvertisingData [[];
        [QLowEnergyAdvertisingData]];
    Cls [VALUE_TYPE_QTBLUETOOTH_QLOWENERGYADVERTISINGPARAMETERS] QLowEnergyAdvertisingParameters [[];
        [QLowEnergyAdvertisingParameters]];
    Cls [VALUE_TYPE_QTBLUETOOTH_QLOWENERGYCHARACTERISTIC] QLowEnergyCharacteristic [[];
        [QLowEnergyCharacteristic]]
  ].

Definition value_constructors_qtbluetooth_0 : constructor_shard :=
  ConstructorShard QtBluetooth "KRY_QT6_NATIVE_VALUE_CONSTRUCTORS_QTBLUETOOTH_"
    (value_constructors_qtbluetooth_0_i0)
    (value_constructors_qtbluetooth_0_r0 ++ value_constructors_qtbluetooth_0_r1 ++
        value_constructors_qtbluetooth_0_r2)
    (value_constructors_qtbluetooth_0_c0).

Definition value_constructors_qtbluetooth_1_i0 : list include :=
  [
    ClassInclude QtBluetooth QLowEnergyCharacteristicData QLowEnergyCharacteristicData;
    ClassInclude QtBluetooth QLowEnergyConnectionParameters QLowEnergyConnectionParameters;
    ClassInclude QtBluetooth QLowEnergyDescriptor QLowEnergyDescriptor;
    ClassInclude QtBluetooth QLowEnergyDescriptorData QLowEnergyDescriptorData;
    ClassInclude QtBluetooth QLowEnergyServiceData QLowEnergyServiceData;
    TypeInclude QtBluetooth QBluetoothUuid VALUE_TYPE_QTBLUETOOTH_QBLUETOOTHUUID;
    TypeInclude QtBluetooth QLowEnergyCharacteristicData
        VALUE_TYPE_QTBLUETOOTH_QLOWENERGYCHARACTERISTICDATA;
    TypeInclude QtBluetooth QLowEnergyConnectionParameters
        VALUE_TYPE_QTBLUETOOTH_QLOWENERGYCONNECTIONPARAMETERS;
    TypeInclude QtBluetooth QLowEnergyDescriptor VALUE_TYPE_QTBLUETOOTH_QLOWENERGYDESCRIPTOR;
    TypeInclude QtBluetooth QLowEnergyDescriptorData VALUE_TYPE_QTBLUETOOTH_QLOWENERGYDESCRIPTORDATA;
    TypeInclude QtBluetooth QLowEnergyServiceData VALUE_TYPE_QTBLUETOOTH_QLOWENERGYSERVICEDATA;
    TypeInclude QtCore QByteArray VALUE_TYPE_QTCORE_QBYTEARRAY
  ].

Definition value_constructors_qtbluetooth_1_r0 : list constructor_row :=
  [
    Ctor QLowEnergyCharacteristicData 0 [Cand [] [] None];
    Ctor QLowEnergyCharacteristicData 1 [Cand [VALUE_TYPE_QTBLUETOOTH_QLOWENERGYCHARACTERISTICDATA] [PValue
        QLowEnergyCharacteristicData] None];
    Ctor QLowEnergyConnectionParameters 0 [Cand [] [] None];
    Ctor QLowEnergyConnectionParameters 1 [Cand [VALUE_TYPE_QTBLUETOOTH_QLOWENERGYCONNECTIONPARAMETERS]
        [PValue QLowEnergyConnectionParameters] None];
    Ctor QLowEnergyDescriptor 0 [Cand [] [] None];
    Ctor QLowEnergyDescriptor 1 [Cand [VALUE_TYPE_QTBLUETOOTH_QLOWENERGYDESCRIPTOR] [PValue
        QLowEnergyDescriptor] None];
    Ctor QLowEnergyDescriptorData 0 [Cand [] [] None];
    Ctor QLowEnergyDescriptorData 1 [Cand [VALUE_TYPE_QTBLUETOOTH_QLOWENERGYDESCRIPTORDATA] [PValue
        QLowEnergyDescriptorData] None]
  ].

Definition value_constructors_qtbluetooth_1_r1 : list constructor_row :=
  [
    Ctor QLowEnergyDescriptorData 2 [Cand [VALUE_TYPE_QTBLUETOOTH_QBLUETOOTHUUID;
        VALUE_TYPE_QTCORE_QBYTEARRAY] [PValue QBluetoothUuid; PValue QByteArray] None];
    Ctor QLowEnergyServiceData 0 [Cand [] [] None];
    Ctor QLowEnergyServiceData 1 [Cand [VALUE_TYPE_QTBLUETOOTH_QLOWENERGYSERVICEDATA] [PValue
        QLowEnergyServiceData] None]
  ].

Definition value_constructors_qtbluetooth_1_c0 : list class_row :=
  [
    Cls [VALUE_TYPE_QTBLUETOOTH_QLOWENERGYCHARACTERISTICDATA] QLowEnergyCharacteristicData [[];
        [QLowEnergyCharacteristicData]];
    Cls [VALUE_TYPE_QTBLUETOOTH_QLOWENERGYCONNECTIONPARAMETERS] QLowEnergyConnectionParameters [[];
        [QLowEnergyConnectionParameters]];
    Cls [VALUE_TYPE_QTBLUETOOTH_QLOWENERGYDESCRIPTOR] QLowEnergyDescriptor [[]; [QLowEnergyDescriptor]];
    Cls [VALUE_TYPE_QTBLUETOOTH_QBLUETOOTHUUID; VALUE_TYPE_QTBLUETOOTH_QLOWENERGYDESCRIPTORDATA;
        VALUE_TYPE_QTCORE_QBYTEARRAY] QLowEnergyDescriptorData [[]; [QBluetoothUuid; QByteArray];
        [QLowEnergyDescriptorData]];
    Cls [VALUE_TYPE_QTBLUETOOTH_QLOWENERGYSERVICEDATA] QLowEnergyServiceData [[]; [QLowEnergyServiceData]]
  ].

Definition value_constructors_qtbluetooth_1 : constructor_shard :=
  ConstructorShard QtBluetooth "KRY_QT6_NATIVE_VALUE_CONSTRUCTORS_QTBLUETOOTH_"
    (value_constructors_qtbluetooth_1_i0)
    (value_constructors_qtbluetooth_1_r0 ++ value_constructors_qtbluetooth_1_r1)
    (value_constructors_qtbluetooth_1_c0).

Definition value_constructors_qtcore_0_i0 : list include :=
  [
    ClassInclude QtCore Connection Connection;
    ClassInclude QtCore QAbstractNativeEventFilter QAbstractNativeEventFilter;
    ClassInclude QtCore QBasicTimer QBasicTimer;
    ClassInclude QtCore QBitArray QBitArray;
    ClassInclude QtCore QBluetoothPermission QBluetoothPermission;
    ClassInclude QtCore QByteArray QByteArray;
    ClassInclude QtCore QByteArrayMatcher QByteArrayMatcher;
    ClassInclude QtCore QCalendar QCalendar;
    TypeInclude QtCore QCalendar TYPE_QTCORE_QCALENDAR;
    TypeInclude QtCore QBitArray VALUE_TYPE_QTCORE_QBITARRAY;
    TypeInclude QtCore QBluetoothPermission VALUE_TYPE_QTCORE_QBLUETOOTHPERMISSION;
    TypeInclude QtCore QByteArray VALUE_TYPE_QTCORE_QBYTEARRAY;
    TypeInclude QtCore QByteArrayMatcher VALUE_TYPE_QTCORE_QBYTEARRAYMATCHER
  ].

Definition value_constructors_qtcore_0_r0 : list constructor_row :=
  [
    Ctor Connection 0 [Cand [] [] None];
    Ctor QAbstractNativeEventFilter 0 [Cand [] [] None];
    Ctor QBasicTimer 0 [Cand [] [] None];
    Ctor QBitArray 0 [Cand [] [] None];
    Ctor QBitArray 1 [Cand [] [PMeta cxx_qsizetype] None; Cand [VALUE_TYPE_QTCORE_QBITARRAY] [PValue
        QBitArray] None];
    Ctor QBitArray 2 [Cand [] [PMeta cxx_qsizetype; PBool] None];
    Ctor QBluetoothPermission 0 [Cand [] [] None];
    Ctor QBluetoothPermission 1 [Cand [VALUE_TYPE_QTCORE_QBLUETOOTHPERMISSION] [PValue
        QBluetoothPermission] None]
  ].

Definition value_constructors_qtcore_0_r1 : list constructor_row :=
  [
    Ctor QByteArray 0 [Cand [] [] None];
    Ctor QByteArray 1 [Cand [VALUE_TYPE_QTCORE_QBYTEARRAY] [PValue QByteArray] None];
    Ctor QByteArrayMatcher 0 [Cand [] [] None];
    Ctor QByteArrayMatcher 1 [Cand [VALUE_TYPE_QTCORE_QBYTEARRAYMATCHER] [PValue QByteArrayMatcher] None];
    Ctor QCalendar 0 [Cand [] [] None];
    Ctor QCalendar 1 [Cand [TYPE_QTCORE_QCALENDAR] [PValue QCalendar_System] None]
  ].

Definition value_constructors_qtcore_0_c0 : list class_row :=
  [
    Cls [] Connection [[]];
    Cls [] QAbstractNativeEventFilter [[]];
    Cls [] QBasicTimer [[]];
    Cls [VALUE_TYPE_QTCORE_QBITARRAY] QBitArray [[]; [cxx_qsizetype; cxx_bool]; [QBitArray]];
    Cls [VALUE_TYPE_QTCORE_QBLUETOOTHPERMISSION] QBluetoothPermission [[]; [QBluetoothPermission]];
    Cls [VALUE_TYPE_QTCORE_QBYTEARRAY] QByteArray [[]; [QByteArray]];
    Cls [VALUE_TYPE_QTCORE_QBYTEARRAYMATCHER] QByteArrayMatcher [[]; [QByteArrayMatcher]];
    Cls [TYPE_QTCORE_QCALENDAR] QCalendar [[]; [QCalendar_System]]
  ].

Definition value_constructors_qtcore_0 : constructor_shard :=
  ConstructorShard QtCore "KRY_QT6_NATIVE_VALUE_CONSTRUCTORS_QTCORE_"
    (value_constructors_qtcore_0_i0)
    (value_constructors_qtcore_0_r0 ++ value_constructors_qtcore_0_r1)
    (value_constructors_qtcore_0_c0).

Definition value_constructors_qtcore_1_i0 : list include :=
  [
    ClassInclude QtCore QCalendarPermission QCalendarPermission;
    ClassInclude QtCore QCameraPermission QCameraPermission;
    ClassInclude QtCore QCborStreamReader QCborStreamReader;
    ClassInclude QtCore QCborStreamWriter QCborStreamWriter;
    ClassInclude QtCore QChildEvent QChildEvent;
    ClassInclude QtCore QCollator QCollator;
    ClassInclude QtCore QCollatorSortKey QCollatorSortKey;
    ClassInclude QtCore QCommandLineOption QCommandLineOption;
    TypeInclude QtCore QIODevice TYPE_QTCORE_QIODEVICE;
    TypeInclude QtCore QObject TYPE_QTCORE_QOBJECT;
    TypeInclude QtCore QEvent TYPE_QTCORE_QEVENT;
    TypeInclude QtCore QByteArray VALUE_TYPE_QTCORE_QBYTEARRAY;
    TypeInclude QtCore QCalendarPermission VALUE_TYPE_QTCORE_QCALENDARPERMISSION;
    TypeInclude QtCore QCameraPermission VALUE_TYPE_QTCORE_QCAMERAPERMISSION;
    TypeInclude QtCore QCollator VALUE_TYPE_QTCORE_QCOLLATOR;
    TypeInclude QtCore QCollatorSortKey VALUE_TYPE_QTCORE_QCOLLATORSORTKEY;
    TypeInclude QtCore QCommandLineOption VALUE_TYPE_QTCORE_QCOMMANDLINEOPTION;
    TypeInclude QtCore QLocale VALUE_TYPE_QTCORE_QLOCALE
  ].

Definition value_constructors_qtcore_1_r0 : list constructor_row :=
  [
    Ctor QCalendarPermission 0 [Cand [] [] None];
    Ctor QCalendarPermission 1 [Cand [VALUE_TYPE_QTCORE_QCALENDARPERMISSION] [PValue QCalendarPermission]
        None];
    Ctor QCameraPermission 0 [Cand [] [] None];
    Ctor QCameraPermission 1 [Cand [VALUE_TYPE_QTCORE_QCAMERAPERMISSION] [PValue QCameraPermission] None];
    Ctor QCborStreamReader 0 [Cand [] [] None];
    Ctor QCborStreamReader 1 [Cand [VALUE_TYPE_QTCORE_QBYTEARRAY] [PValue QByteArray] None; Cand
        [TYPE_QTCORE_QIODEVICE] [PObject QIODevice false] None];
    Ctor QCborStreamWriter 1 [Cand [TYPE_QTCORE_QIODEVICE] [PObject QIODevice false] None]
  ].

Definition value_constructors_qtcore_1_r1 : list constructor_row :=
  [
    Ctor QChildEvent 2 [Cand [TYPE_QTCORE_QEVENT; TYPE_QTCORE_QOBJECT] [PValue QEvent_Type; PObject QObject
        false] None];
    Ctor QCollator 0 [Cand [] [] None];
    Ctor QCollator 1 [Cand [VALUE_TYPE_QTCORE_QLOCALE] [PValue QLocale] None; Cand
        [VALUE_TYPE_QTCORE_QCOLLATOR] [PValue QCollator] None];
    Ctor QCollatorSortKey 1 [Cand [VALUE_TYPE_QTCORE_QCOLLATORSORTKEY] [PValue QCollatorSortKey] None];
    Ctor QCommandLineOption 1 [Cand [] [PString false] None; Cand [] [PStringList] None; Cand
        [VALUE_TYPE_QTCORE_QCOMMANDLINEOPTION] [PValue QCommandLineOption] None]
  ].

Definition value_constructors_qtcore_1_r2 : list constructor_row :=
  [
    Ctor QCommandLineOption 2 [Cand [] [PString false; PString false] None; Cand [] [PStringList; PString
        false] None];
    Ctor QCommandLineOption 3 [Cand [] [PString false; PString false; PString false] None; Cand []
        [PStringList; PString false; PString false] None];
    Ctor QCommandLineOption 4 [Cand [] [PString false; PString false; PString false; PString false] None;
        Cand [] [PStringList; PString false; PString false; PString false] None]
  ].

Definition value_constructors_qtcore_1_c0 : list class_row :=
  [
    Cls [VALUE_TYPE_QTCORE_QCALENDARPERMISSION] QCalendarPermission [[]; [QCalendarPermission]];
    Cls [VALUE_TYPE_QTCORE_QCAMERAPERMISSION] QCameraPermission [[]; [QCameraPermission]];
    Cls [TYPE_QTCORE_QIODEVICE; VALUE_TYPE_QTCORE_QBYTEARRAY] QCborStreamReader [[]; [QByteArray];
        [QIODevice_ptr]];
    Cls [TYPE_QTCORE_QIODEVICE] QCborStreamWriter [[QIODevice_ptr]];
    Cls [TYPE_QTCORE_QEVENT; TYPE_QTCORE_QOBJECT] QChildEvent [[QEvent_Type; QObject_ptr]];
    Cls [VALUE_TYPE_QTCORE_QCOLLATOR; VALUE_TYPE_QTCORE_QLOCALE] QCollator [[]; [QLocale]; [QCollator]];
    Cls [VALUE_TYPE_QTCORE_QCOLLATORSORTKEY] QCollatorSortKey [[QCollatorSortKey]];
    Cls [VALUE_TYPE_QTCORE_QCOMMANDLINEOPTION] QCommandLineOption [[QString]; [QStringList]; [QString;
        QString; QString; QString]; [QStringList; QString; QString; QString]; [QCommandLineOption]]
  ].

Definition value_constructors_qtcore_1 : constructor_shard :=
  ConstructorShard QtCore "KRY_QT6_NATIVE_VALUE_CONSTRUCTORS_QTCORE_"
    (value_constructors_qtcore_1_i0)
    (value_constructors_qtcore_1_r0 ++ value_constructors_qtcore_1_r1 ++ value_constructors_qtcore_1_r2)
    (value_constructors_qtcore_1_c0).

Definition value_constructors_qtcore_10_i0 : list include :=
  [
    ClassInclude QtCore QStringEncoder QStringEncoder;
    ClassInclude QtCore QSystemSemaphore QSystemSemaphore;
    ClassInclude QtCore QTemporaryDir QTemporaryDir;
    ClassInclude QtCore QTextBoundaryFinder QTextBoundaryFinder;
    ClassInclude QtCore QTextStream QTextStream;
    ClassInclude QtCore QTime QTime;
    ClassInclude QtCore QTimeZone QTimeZone;
    ClassInclude QtCore QTimerEvent QTimerEvent;
    TypeInclude QtCore QIODevice TYPE_QTCORE_QIODEVICE;
    TypeInclude QtCore QLocale TYPE_QTCORE_QLOCALE;
    TypeInclude QtCore QStringConverter TYPE_QTCORE_QSTRINGCONVERTER;
    TypeInclude QtCore QStringConverterBase TYPE_QTCORE_QSTRINGCONVERTERBASE;
    TypeInclude QtCore QSystemSemaphore TYPE_QTCORE_QSYSTEMSEMAPHORE;
    TypeInclude QtCore QTextBoundaryFinder TYPE_QTCORE_QTEXTBOUNDARYFINDER;
    TypeInclude QtCore QTimeZone TYPE_QTCORE_QTIMEZONE;
    TypeInclude QtCore QByteArray VALUE_TYPE_QTCORE_QBYTEARRAY;
    TypeInclude QtCore QNativeIpcKey VALUE_TYPE_QTCORE_QNATIVEIPCKEY;
    TypeInclude QtCore QTextBoundaryFinder VALUE_TYPE_QTCORE_QTEXTBOUNDARYFINDER;
    TypeInclude QtCore QTimeZone VALUE_TYPE_QTCORE_QTIMEZONE
  ].

Definition value_constructors_qtcore_10_r0 : list constructor_row :=
  [
    Ctor QStringEncoder 0 [Cand [] [] None];
    Ctor QStringEncoder 1 [Cand [TYPE_QTCORE_QSTRINGCONVERTER; TYPE_QTCORE_QSTRINGCONVERTERBASE] [PValue
        QStringConverter_Encoding] None];
    Ctor QStringEncoder 2 [Cand [TYPE_QTCORE_QSTRINGCONVERTER; TYPE_QTCORE_QSTRINGCONVERTERBASE] [PValue
        QStringConverter_Encoding; PValue QStringConverterBase_Flags] None];
    Ctor QSystemSemaphore 1 [Cand [TYPE_QTCORE_QSYSTEMSEMAPHORE; VALUE_TYPE_QTCORE_QNATIVEIPCKEY] [PValue
        QNativeIpcKey] None; Cand [TYPE_QTCORE_QSYSTEMSEMAPHORE] [PString false] None];
    Ctor QSystemSemaphore 2 [Cand [TYPE_QTCORE_QSYSTEMSEMAPHORE; VALUE_TYPE_QTCORE_QNATIVEIPCKEY] [PValue
        QNativeIpcKey; PInt] None; Cand [TYPE_QTCORE_QSYSTEMSEMAPHORE] [PString false; PInt] None]
  ].

Definition value_constructors_qtcore_10_r1 : list constructor_row :=
  [
    Ctor QSystemSemaphore 3 [Cand [TYPE_QTCORE_QSYSTEMSEMAPHORE; VALUE_TYPE_QTCORE_QNATIVEIPCKEY] [PValue
        QNativeIpcKey; PInt; PValue QSystemSemaphore_AccessMode] None; Cand [TYPE_QTCORE_QSYSTEMSEMAPHORE]
        [PString false; PInt; PValue QSystemSemaphore_AccessMode] None];
    Ctor QTemporaryDir 0 [Cand [] [] None];
    Ctor QTemporaryDir 1 [Cand [] [PString false] None];
    Ctor QTextBoundaryFinder 0 [Cand [] [] None];
    Ctor QTextBoundaryFinder 1 [Cand [VALUE_TYPE_QTCORE_QTEXTBOUNDARYFINDER] [PValue QTextBoundaryFinder]
        None];
    Ctor QTextBoundaryFinder 2 [Cand [TYPE_QTCORE_QTEXTBOUNDARYFINDER] [PValue
        QTextBoundaryFinder_BoundaryType; PString false] None];
    Ctor QTextStream 0 [Cand [] [] None]
  ].

Definition value_constructors_qtcore_10_r2 : list constructor_row :=
  [
    Ctor QTextStream 1 [Cand [TYPE_QTCORE_QIODEVICE] [PObject QIODevice false] None];
    Ctor QTime 0 [Cand [] [] None];
    Ctor QTime 2 [Cand [] [PInt; PInt] None];
    Ctor QTime 3 [Cand [] [PInt; PInt; PInt] None];
    Ctor QTime 4 [Cand [] [PInt; PInt; PInt; PInt] None];
    Ctor QTimeZone 0 [Cand [] [] None]
  ].

Definition value_constructors_qtcore_10_r3 : list constructor_row :=
  [
    Ctor QTimeZone 1 [Cand [TYPE_QTCORE_QTIMEZONE] [PValue QTimeZone_Initialization] None; Cand
        [VALUE_TYPE_QTCORE_QBYTEARRAY] [PValue QByteArray] None; Cand [] [PInt] None; Cand
        [VALUE_TYPE_QTCORE_QTIMEZONE] [PValue QTimeZone] None];
    Ctor QTimeZone 4 [Cand [TYPE_QTCORE_QLOCALE; VALUE_TYPE_QTCORE_QBYTEARRAY] [PValue QByteArray; PInt;
        PString false; PString false] None];
    Ctor QTimeZone 5 [Cand [TYPE_QTCORE_QLOCALE; VALUE_TYPE_QTCORE_QBYTEARRAY] [PValue QByteArray; PInt;
        PString false; PString false; PValue QLocale_Territory] None];
    Ctor QTimeZone 6 [Cand [TYPE_QTCORE_QLOCALE; VALUE_TYPE_QTCORE_QBYTEARRAY] [PValue QByteArray; PInt;
        PString false; PString false; PValue QLocale_Territory; PString false] None]
  ].

Definition value_constructors_qtcore_10_r4 : list constructor_row :=
  [
    Ctor QTimerEvent 1 [Cand [] [PInt] None]
  ].

Definition value_constructors_qtcore_10_c0 : list class_row :=
  [
    Cls [TYPE_QTCORE_QSTRINGCONVERTER; TYPE_QTCORE_QSTRINGCONVERTERBASE] QStringEncoder [[];
        [QStringConverter_Encoding; QStringConverterBase_Flags]];
    Cls [TYPE_QTCORE_QSYSTEMSEMAPHORE; VALUE_TYPE_QTCORE_QNATIVEIPCKEY] QSystemSemaphore [[QNativeIpcKey;
        cxx_int; QSystemSemaphore_AccessMode]; [QString; cxx_int; QSystemSemaphore_AccessMode]];
    Cls [] QTemporaryDir [[]; [QString]];
    Cls [TYPE_QTCORE_QTEXTBOUNDARYFINDER; VALUE_TYPE_QTCORE_QTEXTBOUNDARYFINDER] QTextBoundaryFinder [[];
        [QTextBoundaryFinder]; [QTextBoundaryFinder_BoundaryType; QString]];
    Cls [TYPE_QTCORE_QIODEVICE] QTextStream [[]; [QIODevice_ptr]];
    Cls [] QTime [[]; [cxx_int; cxx_int; cxx_int; cxx_int]];
    Cls [TYPE_QTCORE_QLOCALE; TYPE_QTCORE_QTIMEZONE; VALUE_TYPE_QTCORE_QBYTEARRAY;
        VALUE_TYPE_QTCORE_QTIMEZONE] QTimeZone [[QTimeZone_Initialization]; [QByteArray; cxx_int; QString;
        QString; QLocale_Territory; QString]; [QByteArray]; [cxx_int]; [QTimeZone]; []];
    Cls [] QTimerEvent [[cxx_int]]
  ].

Definition value_constructors_qtcore_10 : constructor_shard :=
  ConstructorShard QtCore "KRY_QT6_NATIVE_VALUE_CONSTRUCTORS_QTCORE_"
    (value_constructors_qtcore_10_i0)
    (value_constructors_qtcore_10_r0 ++ value_constructors_qtcore_10_r1 ++ value_constructors_qtcore_10_r2
        ++ value_constructors_qtcore_10_r3 ++ value_constructors_qtcore_10_r4)
    (value_constructors_qtcore_10_c0).

Definition value_constructors_qtcore_11_i0 : list include :=
  [
    ClassInclude QtCore QTypeRevision QTypeRevision;
    ClassInclude QtCore QUrl QUrl;
    ClassInclude QtCore QUrlQuery QUrlQuery;
    ClassInclude QtCore QUuid QUuid;
    ClassInclude QtCore QVariant QVariant;
    ClassInclude QtCore QVersionNumber QVersionNumber;
    ClassInclude QtCore QWaitCondition QWaitCondition;
    ClassInclude QtCore QXmlStreamAttribute QXmlStreamAttribute;
    TypeInclude QtCore QSysInfo TYPE_QTCORE_QSYSINFO;
    TypeInclude QtCore QUrl TYPE_QTCORE_QURL;
    TypeInclude QtCore QUuid TYPE_QTCORE_QUUID;
    TypeInclude QtCore QUrl VALUE_TYPE_QTCORE_QURL;
    TypeInclude QtCore QUrlQuery VALUE_TYPE_QTCORE_QURLQUERY
  ].

Definition value_constructors_qtcore_11_r0 : list constructor_row :=
  [
    Ctor QTypeRevision 0 [Cand [] [] None];
    Ctor QUrl 0 [Cand [] [] None];
    Ctor QUrl 1 [Cand [TYPE_QTCORE_QURL] [PString false] None; Cand [VALUE_TYPE_QTCORE_QURL] [PValue QUrl]
        None];
    Ctor QUrl 2 [Cand [TYPE_QTCORE_QURL] [PString false; PValue QUrl_ParsingMode] None];
    Ctor QUrlQuery 0 [Cand [] [] None];
    Ctor QUrlQuery 1 [Cand [VALUE_TYPE_QTCORE_QURL] [PValue QUrl] None; Cand [] [PString false] None; Cand
        [VALUE_TYPE_QTCORE_QURLQUERY] [PValue QUrlQuery] None]
  ].

Definition value_constructors_qtcore_11_r1 : list constructor_row :=
  [
    Ctor QUuid 0 [Cand [] [] None];
    Ctor QUuid 1 [Cand [TYPE_QTCORE_QSYSINFO; TYPE_QTCORE_QUUID] [PValue QUuid_Id128Bytes] None];
    Ctor QUuid 2 [Cand [TYPE_QTCORE_QSYSINFO; TYPE_QTCORE_QUUID] [PValue QUuid_Id128Bytes; PValue
        QSysInfo_Endian] None];
    Ctor QVariant 0 [Cand [] [] None];
    Ctor QVersionNumber 0 [Cand [] [] None];
    Ctor QVersionNumber 1 [Cand [] [PList (IMeta cxx_int)] None; Cand [] [PInt] None];
    Ctor QVersionNumber 2 [Cand [] [PInt; PInt] None]
  ].

Definition value_constructors_qtcore_11_r2 : list constructor_row :=
  [
    Ctor QVersionNumber 3 [Cand [] [PInt; PInt; PInt] None];
    Ctor QWaitCondition 0 [Cand [] [] None];
    Ctor QXmlStreamAttribute 0 [Cand [] [] None];
    Ctor QXmlStreamAttribute 2 [Cand [] [PString false; PString false] None];
    Ctor QXmlStreamAttribute 3 [Cand [] [PString false; PString false; PString false] None]
  ].

Definition value_constructors_qtcore_11_c0 : list class_row :=
  [
    Cls [] QTypeRevision [[]];
    Cls [TYPE_QTCORE_QURL; VALUE_TYPE_QTCORE_QURL] QUrl [[]; [QString; QUrl_ParsingMode]; [QUrl]];
    Cls [VALUE_TYPE_QTCORE_QURL; VALUE_TYPE_QTCORE_QURLQUERY] QUrlQuery [[]; [QUrl]; [QString];
        [QUrlQuery]];
    Cls [TYPE_QTCORE_QSYSINFO; TYPE_QTCORE_QUUID] QUuid [[]; [QUuid_Id128Bytes; QSysInfo_Endian]];
    Cls [] QVariant [[]];
    Cls [] QVersionNumber [[]; [QList_int]; [cxx_int]; [cxx_int; cxx_int]; [cxx_int; cxx_int; cxx_int]];
    Cls [] QWaitCondition [[]];
    Cls [] QXmlStreamAttribute [[]; [QString; QString]; [QString; QString; QString]]
  ].

Definition value_constructors_qtcore_11 : constructor_shard :=
  ConstructorShard QtCore "KRY_QT6_NATIVE_VALUE_CONSTRUCTORS_QTCORE_"
    (value_constructors_qtcore_11_i0)
    (value_constructors_qtcore_11_r0 ++ value_constructors_qtcore_11_r1 ++ value_constructors_qtcore_11_r2)
    (value_constructors_qtcore_11_c0).

Definition value_constructors_qtcore_12_i0 : list include :=
  [
    ClassInclude QtCore QXmlStreamAttributes QXmlStreamAttributes;
    ClassInclude QtCore QXmlStreamEntityDeclaration QXmlStreamEntityDeclaration;
    ClassInclude QtCore QXmlStreamEntityResolver QXmlStreamEntityResolver;
    ClassInclude QtCore QXmlStreamNamespaceDeclaration QXmlStreamNamespaceDeclaration;
    ClassInclude QtCore QXmlStreamNotationDeclaration QXmlStreamNotationDeclaration;
    ClassInclude QtCore QXmlStreamReader QXmlStreamReader;
    ClassInclude QtCore QXmlStreamWriter QXmlStreamWriter;
    TypeInclude QtCore QIODevice TYPE_QTCORE_QIODEVICE
  ].

Definition value_constructors_qtcore_12_r0 : list constructor_row :=
  [
    Ctor QXmlStreamAttributes 0 [Cand [] [] None];
    Ctor QXmlStreamEntityDeclaration 0 [Cand [] [] None];
    Ctor QXmlStreamEntityResolver 0 [Cand [] [] None];
    Ctor QXmlStreamNamespaceDeclaration 0 [Cand [] [] None];
    Ctor QXmlStreamNamespaceDeclaration 2 [Cand [] [PString false; PString false] None];
    Ctor QXmlStreamNotationDeclaration 0 [Cand [] [] None];
    Ctor QXmlStreamReader 0 [Cand [] [] None];
    Ctor QXmlStreamReader 1 [Cand [TYPE_QTCORE_QIODEVICE] [PObject QIODevice false] None];
    Ctor QXmlStreamWriter 0 [Cand [] [] None]
  ].

Definition value_constructors_qtcore_12_r1 : list constructor_row :=
  [
    Ctor QXmlStreamWriter 1 [Cand [TYPE_QTCORE_QIODEVICE] [PObject QIODevice false] None]
  ].

Definition value_constructors_qtcore_12_c0 : list class_row :=
  [
    Cls [] QXmlStreamAttributes [[]];
    Cls [] QXmlStreamEntityDeclaration [[]];
    Cls [] QXmlStreamEntityResolver [[]];
    Cls [] QXmlStreamNamespaceDeclaration [[]; [QString; QString]];
    Cls [] QXmlStreamNotationDeclaration [[]];
    Cls [TYPE_QTCORE_QIODEVICE] QXmlStreamReader [[]; [QIODevice_ptr]];
    Cls [TYPE_QTCORE_QIODEVICE] QXmlStreamWriter [[]; [QIODevice_ptr]]
  ].

Definition value_constructors_qtcore_12 : constructor_shard :=
  ConstructorShard QtCore "KRY_QT6_NATIVE_VALUE_CONSTRUCTORS_QTCORE_"
    (value_constructors_qtcore_12_i0)
    (value_constructors_qtcore_12_r0 ++ value_constructors_qtcore_12_r1)
    (value_constructors_qtcore_12_c0).

Definition value_constructors_qtcore_2_i0 : list include :=
  [
    ClassInclude QtCore QCommandLineParser QCommandLineParser;
    ClassInclude QtCore QContactsPermission QContactsPermission;
    ClassInclude QtCore QCryptographicHash QCryptographicHash;
    ClassInclude QtCore QDataStream QDataStream;
    ClassInclude QtCore QDate QDate;
    ClassInclude QtCore QDateTime QDateTime;
    ClassInclude QtCore QDeadlineTimer QDeadlineTimer;
    ClassInclude QtCore QDir QDir;
    TypeInclude QtCore QIODevice TYPE_QTCORE_QIODEVICE;
    EnumDefine ENUM_QT_TIMESPEC;
    EnumDefine ENUM_QT_TIMERTYPE;
    TypeInclude QtCore QCryptographicHash TYPE_QTCORE_QCRYPTOGRAPHICHASH;
    TypeInclude QtCore QDateTime TYPE_QTCORE_QDATETIME;
    TypeInclude QtCore QDeadlineTimer TYPE_QTCORE_QDEADLINETIMER;
    TypeInclude QtCore QDir TYPE_QTCORE_QDIR;
    TypeInclude QtCore QByteArray VALUE_TYPE_QTCORE_QBYTEARRAY;
    TypeInclude QtCore QCalendar VALUE_TYPE_QTCORE_QCALENDAR;
    TypeInclude QtCore QContactsPermission VALUE_TYPE_QTCORE_QCONTACTSPERMISSION;
    TypeInclude QtCore QDate VALUE_TYPE_QTCORE_QDATE;
    TypeInclude QtCore QDateTime VALUE_TYPE_QTCORE_QDATETIME;
    TypeInclude QtCore QDir VALUE_TYPE_QTCORE_QDIR;
    TypeInclude QtCore QTime VALUE_TYPE_QTCORE_QTIME;
    TypeInclude QtCore QTimeZone VALUE_TYPE_QTCORE_QTIMEZONE
  ].

Definition value_constructors_qtcore_2_r0 : list constructor_row :=
  [
    Ctor QCommandLineParser 0 [Cand [] [] None];
    Ctor QContactsPermission 0 [Cand [] [] None];
    Ctor QContactsPermission 1 [Cand [VALUE_TYPE_QTCORE_QCONTACTSPERMISSION] [PValue QContactsPermission]
        None];
    Ctor QCryptographicHash 1 [Cand [TYPE_QTCORE_QCRYPTOGRAPHICHASH] [PValue QCryptographicHash_Algorithm]
        None];
    Ctor QDataStream 0 [Cand [] [] None];
    Ctor QDataStream 1 [Cand [TYPE_QTCORE_QIODEVICE] [PObject QIODevice false] None; Cand
        [VALUE_TYPE_QTCORE_QBYTEARRAY] [PValue QByteArray] None];
    Ctor QDate 0 [Cand [] [] None]
  ].

Definition value_constructors_qtcore_2_r1 : list constructor_row :=
  [
    Ctor QDate 3 [Cand [] [PInt; PInt; PInt] None];
    Ctor QDate 4 [Cand [VALUE_TYPE_QTCORE_QCALENDAR] [PInt; PInt; PInt; PValue QCalendar] None];
    Ctor QDateTime 0 [Cand [] [] None];
    Ctor QDateTime 1 [Cand [VALUE_TYPE_QTCORE_QDATETIME] [PValue QDateTime] None];
    Ctor QDateTime 2 [Cand [ENUM_QT_TIMESPEC; VALUE_TYPE_QTCORE_QDATE; VALUE_TYPE_QTCORE_QTIME] [PValue
        QDate; PValue QTime] None];
    Ctor QDateTime 3 [Cand [ENUM_QT_TIMESPEC; VALUE_TYPE_QTCORE_QDATE; VALUE_TYPE_QTCORE_QTIME] [PValue
        QDate; PValue QTime; PValue Qt_TimeSpec] None; Cand [TYPE_QTCORE_QDATETIME;
        VALUE_TYPE_QTCORE_QDATE; VALUE_TYPE_QTCORE_QTIME; VALUE_TYPE_QTCORE_QTIMEZONE] [PValue QDate;
        PValue QTime; PValue QTimeZone] None]
  ].

Definition value_constructors_qtcore_2_r2 : list constructor_row :=
  [
    Ctor QDateTime 4 [Cand [ENUM_QT_TIMESPEC; VALUE_TYPE_QTCORE_QDATE; VALUE_TYPE_QTCORE_QTIME] [PValue
        QDate; PValue QTime; PValue Qt_TimeSpec; PInt] None; Cand [TYPE_QTCORE_QDATETIME;
        VALUE_TYPE_QTCORE_QDATE; VALUE_TYPE_QTCORE_QTIME; VALUE_TYPE_QTCORE_QTIMEZONE] [PValue QDate;
        PValue QTime; PValue QTimeZone; PValue QDateTime_TransitionResolution] None];
    Ctor QDeadlineTimer 0 [Cand [ENUM_QT_TIMERTYPE] [] None];
    Ctor QDeadlineTimer 1 [Cand [ENUM_QT_TIMERTYPE] [PValue Qt_TimerType] None; Cand [ENUM_QT_TIMERTYPE;
        TYPE_QTCORE_QDEADLINETIMER] [PValue QDeadlineTimer_ForeverConstant] None; Cand [ENUM_QT_TIMERTYPE]
        [PMeta cxx_qint64] None];
    Ctor QDeadlineTimer 2 [Cand [ENUM_QT_TIMERTYPE; TYPE_QTCORE_QDEADLINETIMER] [PValue
        QDeadlineTimer_ForeverConstant; PValue Qt_TimerType] None; Cand [ENUM_QT_TIMERTYPE] [PMeta
        cxx_qint64; PValue Qt_TimerType] None]
  ].

Definition value_constructors_qtcore_2_r3 : list constructor_row :=
  [
    Ctor QDir 0 [Cand [] [] None];
    Ctor QDir 1 [Cand [VALUE_TYPE_QTCORE_QDIR] [PValue QDir] None; Cand [] [PString false] None];
    Ctor QDir 2 [Cand [TYPE_QTCORE_QDIR] [PString false; PString false] None];
    Ctor QDir 3 [Cand [TYPE_QTCORE_QDIR] [PString false; PString false; PValue QDir_SortFlags] None];
    Ctor QDir 4 [Cand [TYPE_QTCORE_QDIR] [PString false; PString false; PValue QDir_SortFlags; PValue
        QDir_Filters] None]
  ].

Definition value_constructors_qtcore_2_c0 : list class_row :=
  [
    Cls [] QCommandLineParser [[]];
    Cls [VALUE_TYPE_QTCORE_QCONTACTSPERMISSION] QContactsPermission [[]; [QContactsPermission]];
    Cls [TYPE_QTCORE_QCRYPTOGRAPHICHASH] QCryptographicHash [[QCryptographicHash_Algorithm]];
    Cls [TYPE_QTCORE_QIODEVICE; VALUE_TYPE_QTCORE_QBYTEARRAY] QDataStream [[]; [QIODevice_ptr];
        [QByteArray]];
    Cls [VALUE_TYPE_QTCORE_QCALENDAR] QDate [[]; [cxx_int; cxx_int; cxx_int]; [cxx_int; cxx_int; cxx_int;
        QCalendar]];
    Cls [ENUM_QT_TIMESPEC; TYPE_QTCORE_QDATETIME; VALUE_TYPE_QTCORE_QDATE; VALUE_TYPE_QTCORE_QDATETIME;
        VALUE_TYPE_QTCORE_QTIME; VALUE_TYPE_QTCORE_QTIMEZONE] QDateTime [[]; [QDateTime]; [QDate; QTime;
        Qt_TimeSpec; cxx_int]; [QDate; QTime; QTimeZone; QDateTime_TransitionResolution]];
    Cls [ENUM_QT_TIMERTYPE; TYPE_QTCORE_QDEADLINETIMER] QDeadlineTimer [[Qt_TimerType];
        [QDeadlineTimer_ForeverConstant; Qt_TimerType]; [cxx_qint64; Qt_TimerType]];
    Cls [TYPE_QTCORE_QDIR; VALUE_TYPE_QTCORE_QDIR] QDir [[QString; QString; QDir_SortFlags; QDir_Filters];
        [QDir]; [QString]]
  ].

Definition value_constructors_qtcore_2 : constructor_shard :=
  ConstructorShard QtCore "KRY_QT6_NATIVE_VALUE_CONSTRUCTORS_QTCORE_"
    (value_constructors_qtcore_2_i0)
    (value_constructors_qtcore_2_r0 ++ value_constructors_qtcore_2_r1 ++ value_constructors_qtcore_2_r2 ++
        value_constructors_qtcore_2_r3)
    (value_constructors_qtcore_2_c0).

Definition value_constructors_qtcore_3_i0 : list include :=
  [
    ClassInclude QtCore QDirIterator QDirIterator;
    ClassInclude QtCore QDynamicPropertyChangeEvent QDynamicPropertyChangeEvent;
    ClassInclude QtCore QEasingCurve QEasingCurve;
    ClassInclude QtCore QElapsedTimer QElapsedTimer;
    ClassInclude QtCore QEvent QEvent;
    ClassInclude QtCore QEventLoopLocker QEventLoopLocker;
    ClassInclude QtCore QFileInfo QFileInfo;
    ClassInclude QtCore QItemSelection QItemSelection;
    TypeInclude QtCore QEventLoop TYPE_QTCORE_QEVENTLOOP;
    TypeInclude QtCore QThread TYPE_QTCORE_QTHREAD;
    TypeInclude QtCore QDir TYPE_QTCORE_QDIR;
    TypeInclude QtCore QDirIterator TYPE_QTCORE_QDIRITERATOR;
    TypeInclude QtCore QEasingCurve TYPE_QTCORE_QEASINGCURVE;
    TypeInclude QtCore QEvent TYPE_QTCORE_QEVENT;
    TypeInclude QtCore QByteArray VALUE_TYPE_QTCORE_QBYTEARRAY;
    TypeInclude QtCore QDir VALUE_TYPE_QTCORE_QDIR;
    TypeInclude QtCore QEasingCurve VALUE_TYPE_QTCORE_QEASINGCURVE;
    TypeInclude QtCore QFileInfo VALUE_TYPE_QTCORE_QFILEINFO;
    TypeInclude QtCore QModelIndex VALUE_TYPE_QTCORE_QMODELINDEX
  ].

Definition value_constructors_qtcore_3_r0 : list constructor_row :=
  [
    Ctor QDirIterator 1 [Cand [TYPE_QTCORE_QDIRITERATOR; VALUE_TYPE_QTCORE_QDIR] [PValue QDir] None; Cand
        [TYPE_QTCORE_QDIRITERATOR] [PString false] None];
    Ctor QDirIterator 2 [Cand [TYPE_QTCORE_QDIRITERATOR; VALUE_TYPE_QTCORE_QDIR] [PValue QDir; PValue
        QDirIterator_IteratorFlags] None; Cand [TYPE_QTCORE_QDIRITERATOR] [PString false; PValue
        QDirIterator_IteratorFlags] None; Cand [TYPE_QTCORE_QDIR; TYPE_QTCORE_QDIRITERATOR] [PString false;
        PValue QDir_Filters] None; Cand [TYPE_QTCORE_QDIR; TYPE_QTCORE_QDIRITERATOR] [PString false;
        PStringList] None];
    Ctor QDirIterator 3 [Cand [TYPE_QTCORE_QDIR; TYPE_QTCORE_QDIRITERATOR] [PString false; PValue
        QDir_Filters; PValue QDirIterator_IteratorFlags] None; Cand [TYPE_QTCORE_QDIR;
        TYPE_QTCORE_QDIRITERATOR] [PString false; PStringList; PValue QDir_Filters] None]
  ].

Definition value_constructors_qtcore_3_r1 : list constructor_row :=
  [
    Ctor QDirIterator 4 [Cand [TYPE_QTCORE_QDIR; TYPE_QTCORE_QDIRITERATOR] [PString false; PStringList;
        PValue QDir_Filters; PValue QDirIterator_IteratorFlags] None];
    Ctor QDynamicPropertyChangeEvent 1 [Cand [VALUE_TYPE_QTCORE_QBYTEARRAY] [PValue QByteArray] None];
    Ctor QEasingCurve 0 [Cand [TYPE_QTCORE_QEASINGCURVE] [] None];
    Ctor QEasingCurve 1 [Cand [TYPE_QTCORE_QEASINGCURVE] [PValue QEasingCurve_Type] None; Cand
        [VALUE_TYPE_QTCORE_QEASINGCURVE] [PValue QEasingCurve] None];
    Ctor QElapsedTimer 0 [Cand [] [] None];
    Ctor QEvent 1 [Cand [TYPE_QTCORE_QEVENT] [PValue QEvent_Type] None];
    Ctor QEventLoopLocker 0 [Cand [] [] None]
  ].

Definition value_constructors_qtcore_3_r2 : list constructor_row :=
  [
    Ctor QEventLoopLocker 1 [Cand [TYPE_QTCORE_QEVENTLOOP] [PObject QEventLoop false] None; Cand
        [TYPE_QTCORE_QTHREAD] [PObject QThread false] None];
    Ctor QFileInfo 0 [Cand [] [] None];
    Ctor QFileInfo 1 [Cand [] [PString false] None; Cand [VALUE_TYPE_QTCORE_QFILEINFO] [PValue QFileInfo]
        None];
    Ctor QFileInfo 2 [Cand [VALUE_TYPE_QTCORE_QDIR] [PValue QDir; PString false] None];
    Ctor QItemSelection 0 [Cand [] [] None];
    Ctor QItemSelection 2 [Cand [VALUE_TYPE_QTCORE_QMODELINDEX] [PValue QModelIndex; PValue QModelIndex]
        None]
  ].

Definition value_constructors_qtcore_3_c0 : list class_row :=
  [
    Cls [TYPE_QTCORE_QDIR; TYPE_QTCORE_QDIRITERATOR; VALUE_TYPE_QTCORE_QDIR] QDirIterator [[QDir;
        QDirIterator_IteratorFlags]; [QString; QDirIterator_IteratorFlags]; [QString; QDir_Filters;
        QDirIterator_IteratorFlags]; [QString; QStringList; QDir_Filters; QDirIterator_IteratorFlags]];
    Cls [VALUE_TYPE_QTCORE_QBYTEARRAY] QDynamicPropertyChangeEvent [[QByteArray]];
    Cls [TYPE_QTCORE_QEASINGCURVE; VALUE_TYPE_QTCORE_QEASINGCURVE] QEasingCurve [[QEasingCurve_Type];
        [QEasingCurve]];
    Cls [] QElapsedTimer [[]];
    Cls [TYPE_QTCORE_QEVENT] QEvent [[QEvent_Type]];
    Cls [TYPE_QTCORE_QEVENTLOOP; TYPE_QTCORE_QTHREAD] QEventLoopLocker [[]; [QEventLoop_ptr];
        [QThread_ptr]];
    Cls [VALUE_TYPE_QTCORE_QDIR; VALUE_TYPE_QTCORE_QFILEINFO] QFileInfo [[]; [QString]; [QDir; QString];
        [QFileInfo]];
    Cls [VALUE_TYPE_QTCORE_QMODELINDEX] QItemSelection [[]; [QModelIndex; QModelIndex]]
  ].

Definition value_constructors_qtcore_3 : constructor_shard :=
  ConstructorShard QtCore "KRY_QT6_NATIVE_VALUE_CONSTRUCTORS_QTCORE_"
    (value_constructors_qtcore_3_i0)
    (value_constructors_qtcore_3_r0 ++ value_constructors_qtcore_3_r1 ++ value_constructors_qtcore_3_r2)
    (value_constructors_qtcore_3_c0).

Definition value_constructors_qtcore_4_i0 : list include :=
  [
    ClassInclude QtCore QItemSelectionRange QItemSelectionRange;
    ClassInclude QtCore QJsonDocument QJsonDocument;
    ClassInclude QtCore QJsonValue QJsonValue;
    ClassInclude QtCore QKeyCombination QKeyCombination;
    ClassInclude QtCore QLine QLine;
    ClassInclude QtCore QLineF QLineF;
    ClassInclude QtCore QLocale QLocale;
    ClassInclude QtCore QLocationPermission QLocationPermission;
    EnumDefine ENUM_QT_KEY;
    EnumDefine ENUM_QT_KEYBOARDMODIFIERS;
    EnumDefine ENUM_QT_MODIFIERS;
    TypeInclude QtCore QJsonValue TYPE_QTCORE_QJSONVALUE;
    TypeInclude QtCore QLocale TYPE_QTCORE_QLOCALE;
    TypeInclude QtCore QJsonDocument VALUE_TYPE_QTCORE_QJSONDOCUMENT;
    TypeInclude QtCore QJsonValue VALUE_TYPE_QTCORE_QJSONVALUE;
    TypeInclude QtCore QLine VALUE_TYPE_QTCORE_QLINE;
    TypeInclude QtCore QLocale VALUE_TYPE_QTCORE_QLOCALE;
    TypeInclude QtCore QLocationPermission VALUE_TYPE_QTCORE_QLOCATIONPERMISSION;
    TypeInclude QtCore QModelIndex VALUE_TYPE_QTCORE_QMODELINDEX;
    TypeInclude QtCore QPoint VALUE_TYPE_QTCORE_QPOINT;
    TypeInclude QtCore QPointF VALUE_TYPE_QTCORE_QPOINTF
  ].

Definition value_constructors_qtcore_4_r0 : list constructor_row :=
  [
    Ctor QItemSelectionRange 0 [Cand [] [] None];
    Ctor QItemSelectionRange 1 [Cand [VALUE_TYPE_QTCORE_QMODELINDEX] [PValue QModelIndex] None];
    Ctor QItemSelectionRange 2 [Cand [VALUE_TYPE_QTCORE_QMODELINDEX] [PValue QModelIndex; PValue
        QModelIndex] None];
    Ctor QJsonDocument 0 [Cand [] [] None];
    Ctor QJsonDocument 1 [Cand [] [PValue QJsonObject] None; Cand [] [PValue QJsonArray] None; Cand
        [VALUE_TYPE_QTCORE_QJSONDOCUMENT] [PValue QJsonDocument] None];
    Ctor QJsonValue 0 [Cand [TYPE_QTCORE_QJSONVALUE] [] None]
  ].

Definition value_constructors_qtcore_4_r1 : list constructor_row :=
  [
    Ctor QJsonValue 1 [Cand [TYPE_QTCORE_QJSONVALUE] [PValue QJsonValue_Type] None; Cand
        [VALUE_TYPE_QTCORE_QJSONVALUE] [PValue QJsonValue] None];
    Ctor QKeyCombination 0 [Cand [ENUM_QT_KEY] [] None];
    Ctor QKeyCombination 1 [Cand [ENUM_QT_KEY] [PValue Qt_Key] None; Cand [ENUM_QT_KEY; ENUM_QT_MODIFIERS]
        [PValue Qt_Modifiers] None; Cand [ENUM_QT_KEY; ENUM_QT_KEYBOARDMODIFIERS] [PValue
        Qt_KeyboardModifiers] None];
    Ctor QKeyCombination 2 [Cand [ENUM_QT_KEY; ENUM_QT_MODIFIERS] [PValue Qt_Modifiers; PValue Qt_Key]
        None; Cand [ENUM_QT_KEY; ENUM_QT_KEYBOARDMODIFIERS] [PValue Qt_KeyboardModifiers; PValue Qt_Key]
        None];
    Ctor QLine 0 [Cand [] [] None]
  ].

Definition value_constructors_qtcore_4_r2 : list constructor_row :=
  [
    Ctor QLine 2 [Cand [VALUE_TYPE_QTCORE_QPOINT] [PValue QPoint; PValue QPoint] None];
    Ctor QLine 4 [Cand [] [PInt; PInt; PInt; PInt] None];
    Ctor QLineF 0 [Cand [] [] None];
    Ctor QLineF 1 [Cand [VALUE_TYPE_QTCORE_QLINE] [PValue QLine] None];
    Ctor QLineF 2 [Cand [VALUE_TYPE_QTCORE_QPOINTF] [PValue QPointF; PValue QPointF] None];
    Ctor QLineF 4 [Cand [] [PNumber cxx_qreal; PNumber cxx_qreal; PNumber cxx_qreal; PNumber cxx_qreal]
        None];
    Ctor QLocale 0 [Cand [] [] None]
  ].

Definition value_constructors_qtcore_4_r3 : list constructor_row :=
  [
    Ctor QLocale 1 [Cand [] [PString false] None; Cand [TYPE_QTCORE_QLOCALE] [PValue QLocale_Language]
        None; Cand [VALUE_TYPE_QTCORE_QLOCALE] [PValue QLocale] None];
    Ctor QLocale 2 [Cand [TYPE_QTCORE_QLOCALE] [PValue QLocale_Language; PValue QLocale_Country] None];
    Ctor QLocale 3 [Cand [TYPE_QTCORE_QLOCALE] [PValue QLocale_Language; PValue QLocale_Script; PValue
        QLocale_Country] None];
    Ctor QLocationPermission 0 [Cand [] [] None];
    Ctor QLocationPermission 1 [Cand [VALUE_TYPE_QTCORE_QLOCATIONPERMISSION] [PValue QLocationPermission]
        None]
  ].

Definition value_constructors_qtcore_4_c0 : list class_row :=
  [
    Cls [VALUE_TYPE_QTCORE_QMODELINDEX] QItemSelectionRange [[]; [QModelIndex; QModelIndex]; [QModelIndex]];
    Cls [VALUE_TYPE_QTCORE_QJSONDOCUMENT] QJsonDocument [[]; [QJsonObject]; [QJsonArray]; [QJsonDocument]];
    Cls [TYPE_QTCORE_QJSONVALUE; VALUE_TYPE_QTCORE_QJSONVALUE] QJsonValue [[QJsonValue_Type]; [QJsonValue]];
    Cls [ENUM_QT_KEY; ENUM_QT_KEYBOARDMODIFIERS; ENUM_QT_MODIFIERS] QKeyCombination [[Qt_Key];
        [Qt_Modifiers; Qt_Key]; [Qt_KeyboardModifiers; Qt_Key]];
    Cls [VALUE_TYPE_QTCORE_QPOINT] QLine [[]; [QPoint; QPoint]; [cxx_int; cxx_int; cxx_int; cxx_int]];
    Cls [VALUE_TYPE_QTCORE_QLINE; VALUE_TYPE_QTCORE_QPOINTF] QLineF [[QLine]; []; [QPointF; QPointF];
        [cxx_qreal; cxx_qreal; cxx_qreal; cxx_qreal]];
    Cls [TYPE_QTCORE_QLOCALE; VALUE_TYPE_QTCORE_QLOCALE] QLocale [[]; [QString]; [QLocale_Language;
        QLocale_Country]; [QLocale_Language; QLocale_Script; QLocale_Country]; [QLocale]];
    Cls [VALUE_TYPE_QTCORE_QLOCATIONPERMISSION] QLocationPermission [[]; [QLocationPermission]]
  ].

Definition value_constructors_qtcore_4 : constructor_shard :=
  ConstructorShard QtCore "KRY_QT6_NATIVE_VALUE_CONSTRUCTORS_QTCORE_"
    (value_constructors_qtcore_4_i0)
    (value_constructors_qtcore_4_r0 ++ value_constructors_qtcore_4_r1 ++ value_constructors_qtcore_4_r2 ++
        value_constructors_qtcore_4_r3)
    (value_constructors_qtcore_4_c0).

Definition value_constructors_qtcore_5_i0 : list include :=
  [
    ClassInclude QtCore QLockFile QLockFile;
    ClassInclude QtCore QMargins QMargins;
    ClassInclude QtCore QMarginsF QMarginsF;
    ClassInclude QtCore QMessageLogger QMessageLogger;
    ClassInclude QtCore QMetaClassInfo QMetaClassInfo;
    ClassInclude QtCore QMetaEnum QMetaEnum;
    ClassInclude QtCore QMetaMethod QMetaMethod;
    ClassInclude QtCore QMetaProperty QMetaProperty;
    TypeInclude QtCore QMargins VALUE_TYPE_QTCORE_QMARGINS
  ].

Definition value_constructors_qtcore_5_r0 : list constructor_row :=
  [
    Ctor QLockFile 1 [Cand [] [PString false] None];
    Ctor QMargins 0 [Cand [] [] None];
    Ctor QMargins 4 [Cand [] [PInt; PInt; PInt; PInt] None];
    Ctor QMarginsF 0 [Cand [] [] None];
    Ctor QMarginsF 1 [Cand [VALUE_TYPE_QTCORE_QMARGINS] [PValue QMargins] None];
    Ctor QMarginsF 4 [Cand [] [PNumber cxx_qreal; PNumber cxx_qreal; PNumber cxx_qreal; PNumber cxx_qreal]
        None];
    Ctor QMessageLogger 0 [Cand [] [] None];
    Ctor QMetaClassInfo 0 [Cand [] [] None]
  ].

Definition value_constructors_qtcore_5_r1 : list constructor_row :=
  [
    Ctor QMetaEnum 0 [Cand [] [] None];
    Ctor QMetaMethod 0 [Cand [] [] None];
    Ctor QMetaProperty 0 [Cand [] [] None]
  ].

Definition value_constructors_qtcore_5_c0 : list class_row :=
  [
    Cls [] QLockFile [[QString]];
    Cls [] QMargins [[]; [cxx_int; cxx_int; cxx_int; cxx_int]];
    Cls [VALUE_TYPE_QTCORE_QMARGINS] QMarginsF [[]; [cxx_qreal; cxx_qreal; cxx_qreal; cxx_qreal];
        [QMargins]];
    Cls [] QMessageLogger [[]];
    Cls [] QMetaClassInfo [[]];
    Cls [] QMetaEnum [[]];
    Cls [] QMetaMethod [[]];
    Cls [] QMetaProperty [[]]
  ].

Definition value_constructors_qtcore_5 : constructor_shard :=
  ConstructorShard QtCore "KRY_QT6_NATIVE_VALUE_CONSTRUCTORS_QTCORE_"
    (value_constructors_qtcore_5_i0)
    (value_constructors_qtcore_5_r0 ++ value_constructors_qtcore_5_r1)
    (value_constructors_qtcore_5_c0).

Definition value_constructors_qtcore_6_i0 : list include :=
  [
    ClassInclude QtCore QMetaType QMetaType;
    ClassInclude QtCore QMicrophonePermission QMicrophonePermission;
    ClassInclude QtCore QMimeDatabase QMimeDatabase;
    ClassInclude QtCore QMimeType QMimeType;
    ClassInclude QtCore QModelIndex QModelIndex;
    ClassInclude QtCore QModelRoleData QModelRoleData;
    ClassInclude QtCore QModelRoleDataSpan QModelRoleDataSpan;
    ClassInclude QtCore QMutex QMutex;
    TypeInclude QtCore QMicrophonePermission VALUE_TYPE_QTCORE_QMICROPHONEPERMISSION;
    TypeInclude QtCore QMimeType VALUE_TYPE_QTCORE_QMIMETYPE;
    TypeInclude QtCore QModelRoleData VALUE_TYPE_QTCORE_QMODELROLEDATA
  ].

Definition value_constructors_qtcore_6_r0 : list constructor_row :=
  [
    Ctor QMetaType 0 [Cand [] [] None];
    Ctor QMetaType 1 [Cand [] [PInt] None];
    Ctor QMicrophonePermission 0 [Cand [] [] None];
    Ctor QMicrophonePermission 1 [Cand [VALUE_TYPE_QTCORE_QMICROPHONEPERMISSION] [PValue
        QMicrophonePermission] None];
    Ctor QMimeDatabase 0 [Cand [] [] None];
    Ctor QMimeType 0 [Cand [] [] None];
    Ctor QMimeType 1 [Cand [VALUE_TYPE_QTCORE_QMIMETYPE] [PValue QMimeType] None];
    Ctor QModelIndex 0 [Cand [] [] None];
    Ctor QModelRoleData 1 [Cand [] [PInt] None]
  ].

Definition value_constructors_qtcore_6_r1 : list constructor_row :=
  [
    Ctor QModelRoleDataSpan 0 [Cand [] [] None];
    Ctor QModelRoleDataSpan 1 [Cand [VALUE_TYPE_QTCORE_QMODELROLEDATA] [PValue QModelRoleData] None];
    Ctor QMutex 0 [Cand [] [] None]
  ].

Definition value_constructors_qtcore_6_c0 : list class_row :=
  [
    Cls [] QMetaType [[]; [cxx_int]];
    Cls [VALUE_TYPE_QTCORE_QMICROPHONEPERMISSION] QMicrophonePermission [[]; [QMicrophonePermission]];
    Cls [] QMimeDatabase [[]];
    Cls [VALUE_TYPE_QTCORE_QMIMETYPE] QMimeType [[]; [QMimeType]];
    Cls [] QModelIndex [[]];
    Cls [] QModelRoleData [[cxx_int]];
    Cls [VALUE_TYPE_QTCORE_QMODELROLEDATA] QModelRoleDataSpan [[]; [QModelRoleData]];
    Cls [] QMutex [[]]
  ].

Definition value_constructors_qtcore_6 : constructor_shard :=
  ConstructorShard QtCore "KRY_QT6_NATIVE_VALUE_CONSTRUCTORS_QTCORE_"
    (value_constructors_qtcore_6_i0)
    (value_constructors_qtcore_6_r0 ++ value_constructors_qtcore_6_r1)
    (value_constructors_qtcore_6_c0).

Definition value_constructors_qtcore_7_i0 : list include :=
  [
    ClassInclude QtCore QNativeIpcKey QNativeIpcKey;
    ClassInclude QtCore QOperatingSystemVersion QOperatingSystemVersion;
    ClassInclude QtCore QPermission QPermission;
    ClassInclude QtCore QPersistentModelIndex QPersistentModelIndex;
    ClassInclude QtCore QPoint QPoint;
    ClassInclude QtCore QPointF QPointF;
    ClassInclude QtCore QProcessEnvironment QProcessEnvironment;
    ClassInclude QtCore QRandomGenerator QRandomGenerator;
    TypeInclude QtCore QNativeIpcKey TYPE_QTCORE_QNATIVEIPCKEY;
    TypeInclude QtCore QOperatingSystemVersion TYPE_QTCORE_QOPERATINGSYSTEMVERSION;
    TypeInclude QtCore QProcessEnvironment TYPE_QTCORE_QPROCESSENVIRONMENT;
    TypeInclude QtCore QModelIndex VALUE_TYPE_QTCORE_QMODELINDEX;
    TypeInclude QtCore QNativeIpcKey VALUE_TYPE_QTCORE_QNATIVEIPCKEY;
    TypeInclude QtCore QPersistentModelIndex VALUE_TYPE_QTCORE_QPERSISTENTMODELINDEX;
    TypeInclude QtCore QPoint VALUE_TYPE_QTCORE_QPOINT;
    TypeInclude QtCore QProcessEnvironment VALUE_TYPE_QTCORE_QPROCESSENVIRONMENT;
    TypeInclude QtCore QRandomGenerator VALUE_TYPE_QTCORE_QRANDOMGENERATOR
  ].

Definition value_constructors_qtcore_7_r0 : list constructor_row :=
  [
    Ctor QNativeIpcKey 0 [Cand [] [] None];
    Ctor QNativeIpcKey 1 [Cand [TYPE_QTCORE_QNATIVEIPCKEY] [PValue QNativeIpcKey_Type] None; Cand
        [TYPE_QTCORE_QNATIVEIPCKEY] [PString false] None; Cand [VALUE_TYPE_QTCORE_QNATIVEIPCKEY] [PValue
        QNativeIpcKey] None];
    Ctor QNativeIpcKey 2 [Cand [TYPE_QTCORE_QNATIVEIPCKEY] [PString false; PValue QNativeIpcKey_Type] None];
    Ctor QOperatingSystemVersion 2 [Cand [TYPE_QTCORE_QOPERATINGSYSTEMVERSION] [PValue
        QOperatingSystemVersion_OSType; PInt] None];
    Ctor QOperatingSystemVersion 3 [Cand [TYPE_QTCORE_QOPERATINGSYSTEMVERSION] [PValue
        QOperatingSystemVersion_OSType; PInt; PInt] None];
    Ctor QOperatingSystemVersion 4 [Cand [TYPE_QTCORE_QOPERATINGSYSTEMVERSION] [PValue
        QOperatingSystemVersion_OSType; PInt; PInt; PInt] None]
  ].

Definition value_constructors_qtcore_7_r1 : list constructor_row :=
  [
    Ctor QPermission 0 [Cand [] [] None];
    Ctor QPersistentModelIndex 0 [Cand [] [] None];
    Ctor QPersistentModelIndex 1 [Cand [VALUE_TYPE_QTCORE_QMODELINDEX] [PValue QModelIndex] None; Cand
        [VALUE_TYPE_QTCORE_QPERSISTENTMODELINDEX] [PValue QPersistentModelIndex] None];
    Ctor QPoint 0 [Cand [] [] None];
    Ctor QPoint 2 [Cand [] [PInt; PInt] None];
    Ctor QPointF 0 [Cand [] [] None];
    Ctor QPointF 1 [Cand [VALUE_TYPE_QTCORE_QPOINT] [PValue QPoint] None]
  ].

Definition value_constructors_qtcore_7_r2 : list constructor_row :=
  [
    Ctor QPointF 2 [Cand [] [PNumber cxx_qreal; PNumber cxx_qreal] None];
    Ctor QProcessEnvironment 0 [Cand [] [] None];
    Ctor QProcessEnvironment 1 [Cand [TYPE_QTCORE_QPROCESSENVIRONMENT] [PValue
        QProcessEnvironment_Initialization] None; Cand [VALUE_TYPE_QTCORE_QPROCESSENVIRONMENT] [PValue
        QProcessEnvironment] None];
    Ctor QRandomGenerator 1 [Cand [VALUE_TYPE_QTCORE_QRANDOMGENERATOR] [PValue QRandomGenerator] None]
  ].

Definition value_constructors_qtcore_7_c0 : list class_row :=
  [
    Cls [TYPE_QTCORE_QNATIVEIPCKEY; VALUE_TYPE_QTCORE_QNATIVEIPCKEY] QNativeIpcKey [[];
        [QNativeIpcKey_Type]; [QString; QNativeIpcKey_Type]; [QNativeIpcKey]];
    Cls [TYPE_QTCORE_QOPERATINGSYSTEMVERSION] QOperatingSystemVersion [[QOperatingSystemVersion_OSType;
        cxx_int; cxx_int; cxx_int]];
    Cls [] QPermission [[]];
    Cls [VALUE_TYPE_QTCORE_QMODELINDEX; VALUE_TYPE_QTCORE_QPERSISTENTMODELINDEX] QPersistentModelIndex [[];
        [QModelIndex]; [QPersistentModelIndex]];
    Cls [] QPoint [[]; [cxx_int; cxx_int]];
    Cls [VALUE_TYPE_QTCORE_QPOINT] QPointF [[]; [cxx_qreal; cxx_qreal]; [QPoint]];
    Cls [TYPE_QTCORE_QPROCESSENVIRONMENT; VALUE_TYPE_QTCORE_QPROCESSENVIRONMENT] QProcessEnvironment
        [[QProcessEnvironment_Initialization]; []; [QProcessEnvironment]];
    Cls [VALUE_TYPE_QTCORE_QRANDOMGENERATOR] QRandomGenerator [[QRandomGenerator]]
  ].

Definition value_constructors_qtcore_7 : constructor_shard :=
  ConstructorShard QtCore "KRY_QT6_NATIVE_VALUE_CONSTRUCTORS_QTCORE_"
    (value_constructors_qtcore_7_i0)
    (value_constructors_qtcore_7_r0 ++ value_constructors_qtcore_7_r1 ++ value_constructors_qtcore_7_r2)
    (value_constructors_qtcore_7_c0).

Definition value_constructors_qtcore_8_i0 : list include :=
  [
    ClassInclude QtCore QReadWriteLock QReadWriteLock;
    ClassInclude QtCore QRect QRect;
    ClassInclude QtCore QRectF QRectF;
    ClassInclude QtCore QRecursiveMutex QRecursiveMutex;
    ClassInclude QtCore QRegularExpression QRegularExpression;
    ClassInclude QtCore QRegularExpressionMatch QRegularExpressionMatch;
    ClassInclude QtCore QRegularExpressionMatchIterator QRegularExpressionMatchIterator;
    ClassInclude QtCore QResource QResource;
    TypeInclude QtCore QReadWriteLock TYPE_QTCORE_QREADWRITELOCK;
    TypeInclude QtCore QRegularExpression TYPE_QTCORE_QREGULAREXPRESSION;
    TypeInclude QtCore QLocale VALUE_TYPE_QTCORE_QLOCALE;
    TypeInclude QtCore QPoint VALUE_TYPE_QTCORE_QPOINT;
    TypeInclude QtCore QPointF VALUE_TYPE_QTCORE_QPOINTF;
    TypeInclude QtCore QRect VALUE_TYPE_QTCORE_QRECT;
    TypeInclude QtCore QRegularExpression VALUE_TYPE_QTCORE_QREGULAREXPRESSION;
    TypeInclude QtCore QRegularExpressionMatch VALUE_TYPE_QTCORE_QREGULAREXPRESSIONMATCH;
    TypeInclude QtCore QRegularExpressionMatchIterator VALUE_TYPE_QTCORE_QREGULAREXPRESSIONMATCHITERATOR;
    TypeInclude QtCore QSize VALUE_TYPE_QTCORE_QSIZE;
    TypeInclude QtCore QSizeF VALUE_TYPE_QTCORE_QSIZEF
  ].

Definition value_constructors_qtcore_8_r0 : list constructor_row :=
  [
    Ctor QReadWriteLock 0 [Cand [TYPE_QTCORE_QREADWRITELOCK] [] None];
    Ctor QReadWriteLock 1 [Cand [TYPE_QTCORE_QREADWRITELOCK] [PValue QReadWriteLock_RecursionMode] None];
    Ctor QRect 0 [Cand [] [] None];
    Ctor QRect 2 [Cand [VALUE_TYPE_QTCORE_QPOINT] [PValue QPoint; PValue QPoint] None; Cand
        [VALUE_TYPE_QTCORE_QPOINT; VALUE_TYPE_QTCORE_QSIZE] [PValue QPoint; PValue QSize] None];
    Ctor QRect 4 [Cand [] [PInt; PInt; PInt; PInt] None];
    Ctor QRectF 0 [Cand [] [] None];
    Ctor QRectF 1 [Cand [VALUE_TYPE_QTCORE_QRECT] [PValue QRect] None]
  ].

Definition value_constructors_qtcore_8_r1 : list constructor_row :=
  [
    Ctor QRectF 2 [Cand [VALUE_TYPE_QTCORE_QPOINTF; VALUE_TYPE_QTCORE_QSIZEF] [PValue QPointF; PValue
        QSizeF] None; Cand [VALUE_TYPE_QTCORE_QPOINTF] [PValue QPointF; PValue QPointF] None];
    Ctor QRectF 4 [Cand [] [PNumber cxx_qreal; PNumber cxx_qreal; PNumber cxx_qreal; PNumber cxx_qreal]
        None];
    Ctor QRecursiveMutex 0 [Cand [] [] None];
    Ctor QRegularExpression 0 [Cand [] [] None];
    Ctor QRegularExpression 1 [Cand [TYPE_QTCORE_QREGULAREXPRESSION] [PString false] None; Cand
        [VALUE_TYPE_QTCORE_QREGULAREXPRESSION] [PValue QRegularExpression] None];
    Ctor QRegularExpression 2 [Cand [TYPE_QTCORE_QREGULAREXPRESSION] [PString false; PValue
        QRegularExpression_PatternOptions] None]
  ].

Definition value_constructors_qtcore_8_r2 : list constructor_row :=
  [
    Ctor QRegularExpressionMatch 0 [Cand [] [] None];
    Ctor QRegularExpressionMatch 1 [Cand [VALUE_TYPE_QTCORE_QREGULAREXPRESSIONMATCH] [PValue
        QRegularExpressionMatch] None];
    Ctor QRegularExpressionMatchIterator 0 [Cand [] [] None];
    Ctor QRegularExpressionMatchIterator 1 [Cand [VALUE_TYPE_QTCORE_QREGULAREXPRESSIONMATCHITERATOR]
        [PValue QRegularExpressionMatchIterator] None];
    Ctor QResource 0 [Cand [VALUE_TYPE_QTCORE_QLOCALE] [] None];
    Ctor QResource 1 [Cand [VALUE_TYPE_QTCORE_QLOCALE] [PString false] None];
    Ctor QResource 2 [Cand [VALUE_TYPE_QTCORE_QLOCALE] [PString false; PValue QLocale] None]
  ].

Definition value_constructors_qtcore_8_c0 : list class_row :=
  [
    Cls [TYPE_QTCORE_QREADWRITELOCK] QReadWriteLock [[QReadWriteLock_RecursionMode]];
    Cls [VALUE_TYPE_QTCORE_QPOINT; VALUE_TYPE_QTCORE_QSIZE] QRect [[]; [cxx_int; cxx_int; cxx_int;
        cxx_int]; [QPoint; QPoint]; [QPoint; QSize]];
    Cls [VALUE_TYPE_QTCORE_QPOINTF; VALUE_TYPE_QTCORE_QRECT; VALUE_TYPE_QTCORE_QSIZEF] QRectF [[];
        [QPointF; QSizeF]; [QPointF; QPointF]; [cxx_qreal; cxx_qreal; cxx_qreal; cxx_qreal]; [QRect]];
    Cls [] QRecursiveMutex [[]];
    Cls [TYPE_QTCORE_QREGULAREXPRESSION; VALUE_TYPE_QTCORE_QREGULAREXPRESSION] QRegularExpression [[];
        [QString; QRegularExpression_PatternOptions]; [QRegularExpression]];
    Cls [VALUE_TYPE_QTCORE_QREGULAREXPRESSIONMATCH] QRegularExpressionMatch [[]; [QRegularExpressionMatch]];
    Cls [VALUE_TYPE_QTCORE_QREGULAREXPRESSIONMATCHITERATOR] QRegularExpressionMatchIterator [[];
        [QRegularExpressionMatchIterator]];
    Cls [VALUE_TYPE_QTCORE_QLOCALE] QResource [[QString; QLocale]]
  ].

Definition value_constructors_qtcore_8 : constructor_shard :=
  ConstructorShard QtCore "KRY_QT6_NATIVE_VALUE_CONSTRUCTORS_QTCORE_"
    (value_constructors_qtcore_8_i0)
    (value_constructors_qtcore_8_r0 ++ value_constructors_qtcore_8_r1 ++ value_constructors_qtcore_8_r2)
    (value_constructors_qtcore_8_c0).

Definition value_constructors_qtcore_9_i0 : list include :=
  [
    ClassInclude QtCore QRunnable QRunnable;
    ClassInclude QtCore QSemaphore QSemaphore;
    ClassInclude QtCore QSemaphoreReleaser QSemaphoreReleaser;
    ClassInclude QtCore QSignalBlocker QSignalBlocker;
    ClassInclude QtCore QSize QSize;
    ClassInclude QtCore QSizeF QSizeF;
    ClassInclude QtCore QStorageInfo QStorageInfo;
    ClassInclude QtCore QStringDecoder QStringDecoder;
    TypeInclude QtCore QObject TYPE_QTCORE_QOBJECT;
    TypeInclude QtCore QStringConverter TYPE_QTCORE_QSTRINGCONVERTER;
    TypeInclude QtCore QStringConverterBase TYPE_QTCORE_QSTRINGCONVERTERBASE;
    TypeInclude QtCore QDir VALUE_TYPE_QTCORE_QDIR;
    TypeInclude QtCore QSize VALUE_TYPE_QTCORE_QSIZE;
    TypeInclude QtCore QStorageInfo VALUE_TYPE_QTCORE_QSTORAGEINFO
  ].

Definition value_constructors_qtcore_9_r0 : list constructor_row :=
  [
    Ctor QRunnable 0 [Cand [] [] None];
    Ctor QSemaphore 0 [Cand [] [] None];
    Ctor QSemaphore 1 [Cand [] [PInt] None];
    Ctor QSemaphoreReleaser 0 [Cand [] [] None];
    Ctor QSignalBlocker 1 [Cand [TYPE_QTCORE_QOBJECT] [PObject QObject false] None];
    Ctor QSize 0 [Cand [] [] None];
    Ctor QSize 2 [Cand [] [PInt; PInt] None];
    Ctor QSizeF 0 [Cand [] [] None]
  ].

Definition value_constructors_qtcore_9_r1 : list constructor_row :=
  [
    Ctor QSizeF 1 [Cand [VALUE_TYPE_QTCORE_QSIZE] [PValue QSize] None];
    Ctor QSizeF 2 [Cand [] [PNumber cxx_qreal; PNumber cxx_qreal] None];
    Ctor QStorageInfo 0 [Cand [] [] None];
    Ctor QStorageInfo 1 [Cand [] [PString false] None; Cand [VALUE_TYPE_QTCORE_QDIR] [PValue QDir] None;
        Cand [VALUE_TYPE_QTCORE_QSTORAGEINFO] [PValue QStorageInfo] None];
    Ctor QStringDecoder 0 [Cand [] [] None];
    Ctor QStringDecoder 1 [Cand [TYPE_QTCORE_QSTRINGCONVERTER; TYPE_QTCORE_QSTRINGCONVERTERBASE] [PValue
        QStringConverter_Encoding] None];
    Ctor QStringDecoder 2 [Cand [TYPE_QTCORE_QSTRINGCONVERTER; TYPE_QTCORE_QSTRINGCONVERTERBASE] [PValue
        QStringConverter_Encoding; PValue QStringConverterBase_Flags] None]
  ].

Definition value_constructors_qtcore_9_c0 : list class_row :=
  [
    Cls [] QRunnable [[]];
    Cls [] QSemaphore [[cxx_int]];
    Cls [] QSemaphoreReleaser [[]];
    Cls [TYPE_QTCORE_QOBJECT] QSignalBlocker [[QObject_ptr]];
    Cls [] QSize [[]; [cxx_int; cxx_int]];
    Cls [VALUE_TYPE_QTCORE_QSIZE] QSizeF [[]; [QSize]; [cxx_qreal; cxx_qreal]];
    Cls [VALUE_TYPE_QTCORE_QDIR; VALUE_TYPE_QTCORE_QSTORAGEINFO] QStorageInfo [[]; [QString]; [QDir];
        [QStorageInfo]];
    Cls [TYPE_QTCORE_QSTRINGCONVERTER; TYPE_QTCORE_QSTRINGCONVERTERBASE] QStringDecoder [[];
        [QStringConverter_Encoding; QStringConverterBase_Flags]]
  ].

Definition value_constructors_qtcore_9 : constructor_shard :=
  ConstructorShard QtCore "KRY_QT6_NATIVE_VALUE_CONSTRUCTORS_QTCORE_"
    (value_constructors_qtcore_9_i0)
    (value_constructors_qtcore_9_r0 ++ value_constructors_qtcore_9_r1)
    (value_constructors_qtcore_9_c0).

Definition value_constructors_qtdbus_0_i0 : list include :=
  [
    ClassInclude QtDBus QDBusArgument QDBusArgument;
    ClassInclude QtDBus QDBusConnection QDBusConnection;
    ClassInclude QtDBus QDBusError QDBusError;
    ClassInclude QtDBus QDBusMessage QDBusMessage;
    ClassInclude QtDBus QDBusObjectPath QDBusObjectPath;
    ClassInclude QtDBus QDBusPendingCall QDBusPendingCall;
    ClassInclude QtDBus QDBusSignature QDBusSignature;
    ClassInclude QtDBus QDBusUnixFileDescriptor QDBusUnixFileDescriptor;
    TypeInclude QtDBus QDBusArgument VALUE_TYPE_QTDBUS_QDBUSARGUMENT;
    TypeInclude QtDBus QDBusConnection VALUE_TYPE_QTDBUS_QDBUSCONNECTION;
    TypeInclude QtDBus QDBusError VALUE_TYPE_QTDBUS_QDBUSERROR;
    TypeInclude QtDBus QDBusMessage VALUE_TYPE_QTDBUS_QDBUSMESSAGE;
    TypeInclude QtDBus QDBusPendingCall VALUE_TYPE_QTDBUS_QDBUSPENDINGCALL;
    TypeInclude QtDBus QDBusUnixFileDescriptor VALUE_TYPE_QTDBUS_QDBUSUNIXFILEDESCRIPTOR
  ].

Definition value_constructors_qtdbus_0_r0 : list constructor_row :=
  [
    Ctor QDBusArgument 0 [Cand [] [] None];
    Ctor QDBusArgument 1 [Cand [VALUE_TYPE_QTDBUS_QDBUSARGUMENT] [PValue QDBusArgument] None];
    Ctor QDBusConnection 1 [Cand [] [PString false] None; Cand [VALUE_TYPE_QTDBUS_QDBUSCONNECTION] [PValue
        QDBusConnection] None];
    Ctor QDBusError 1 [Cand [VALUE_TYPE_QTDBUS_QDBUSERROR] [PValue QDBusError] None];
    Ctor QDBusMessage 0 [Cand [] [] None];
    Ctor QDBusMessage 1 [Cand [VALUE_TYPE_QTDBUS_QDBUSMESSAGE] [PValue QDBusMessage] None];
    Ctor QDBusObjectPath 0 [Cand [] [] None];
    Ctor QDBusObjectPath 1 [Cand [] [PString false] None]
  ].

Definition value_constructors_qtdbus_0_r1 : list constructor_row :=
  [
    Ctor QDBusPendingCall 1 [Cand [VALUE_TYPE_QTDBUS_QDBUSPENDINGCALL] [PValue QDBusPendingCall] None];
    Ctor QDBusSignature 0 [Cand [] [] None];
    Ctor QDBusSignature 1 [Cand [] [PString false] None];
    Ctor QDBusUnixFileDescriptor 0 [Cand [] [] None];
    Ctor QDBusUnixFileDescriptor 1 [Cand [] [PInt] None; Cand [VALUE_TYPE_QTDBUS_QDBUSUNIXFILEDESCRIPTOR]
        [PValue QDBusUnixFileDescriptor] None]
  ].

Definition value_constructors_qtdbus_0_c0 : list class_row :=
  [
    Cls [VALUE_TYPE_QTDBUS_QDBUSARGUMENT] QDBusArgument [[]; [QDBusArgument]];
    Cls [VALUE_TYPE_QTDBUS_QDBUSCONNECTION] QDBusConnection [[QString]; [QDBusConnection]];
    Cls [VALUE_TYPE_QTDBUS_QDBUSERROR] QDBusError [[QDBusError]];
    Cls [VALUE_TYPE_QTDBUS_QDBUSMESSAGE] QDBusMessage [[]; [QDBusMessage]];
    Cls [] QDBusObjectPath [[]; [QString]];
    Cls [VALUE_TYPE_QTDBUS_QDBUSPENDINGCALL] QDBusPendingCall [[QDBusPendingCall]];
    Cls [] QDBusSignature [[]; [QString]];
    Cls [VALUE_TYPE_QTDBUS_QDBUSUNIXFILEDESCRIPTOR] QDBusUnixFileDescriptor [[]; [cxx_int];
        [QDBusUnixFileDescriptor]]
  ].

Definition value_constructors_qtdbus_0 : constructor_shard :=
  ConstructorShard QtDBus "KRY_QT6_NATIVE_VALUE_CONSTRUCTORS_QTDBUS_"
    (value_constructors_qtdbus_0_i0)
    (value_constructors_qtdbus_0_r0 ++ value_constructors_qtdbus_0_r1)
    (value_constructors_qtdbus_0_c0).

Definition value_constructors_qtdbus_1_i0 : list include :=
  [
    ClassInclude QtDBus QDBusVariant QDBusVariant
  ].

Definition value_constructors_qtdbus_1_r0 : list constructor_row :=
  [
    Ctor QDBusVariant 0 [Cand [] [] None];
    Ctor QDBusVariant 1 [Cand [] [PVariant] None]
  ].

Definition value_constructors_qtdbus_1_c0 : list class_row :=
  [
    Cls [] QDBusVariant [[]; [QVariant]]
  ].

Definition value_constructors_qtdbus_1 : constructor_shard :=
  ConstructorShard QtDBus "KRY_QT6_NATIVE_VALUE_CONSTRUCTORS_QTDBUS_"
    (value_constructors_qtdbus_1_i0)
    (value_constructors_qtdbus_1_r0)
    (value_constructors_qtdbus_1_c0).

Definition value_constructors_qtdesigner_0_i0 : list include :=
  [
    ClassInclude QtDesigner QAbstractFormBuilder QAbstractFormBuilder;
    ClassInclude QtDesigner QDesignerContainerExtension QDesignerContainerExtension;
    ClassInclude QtDesigner QDesignerFormWindowCursorInterface QDesignerFormWindowCursorInterface;
    ClassInclude QtDesigner QDesignerMemberSheetExtension QDesignerMemberSheetExtension;
    ClassInclude QtDesigner QDesignerPropertySheetExtension QDesignerPropertySheetExtension;
    ClassInclude QtDesigner QDesignerTaskMenuExtension QDesignerTaskMenuExtension;
    ClassInclude QtDesigner QFormBuilder QFormBuilder
  ].

Definition value_constructors_qtdesigner_0_r0 : list constructor_row :=
  [
    Ctor QAbstractFormBuilder 0 [Cand [] [] None];
    Ctor QDesignerContainerExtension 0 [Cand [] [] None];
    Ctor QDesignerFormWindowCursorInterface 0 [Cand [] [] None];
    Ctor QDesignerMemberSheetExtension 0 [Cand [] [] None];
    Ctor QDesignerPropertySheetExtension 0 [Cand [] [] None];
    Ctor QDesignerTaskMenuExtension 0 [Cand [] [] None];
    Ctor QFormBuilder 0 [Cand [] [] None]
  ].

Definition value_constructors_qtdesigner_0_c0 : list class_row :=
  [
    Cls [] QAbstractFormBuilder [[]];
    Cls [] QDesignerContainerExtension [[]];
    Cls [] QDesignerFormWindowCursorInterface [[]];
    Cls [] QDesignerMemberSheetExtension [[]];
    Cls [] QDesignerPropertySheetExtension [[]];
    Cls [] QDesignerTaskMenuExtension [[]];
    Cls [] QFormBuilder [[]]
  ].

Definition value_constructors_qtdesigner_0 : constructor_shard :=
  ConstructorShard QtDesigner "KRY_QT6_NATIVE_VALUE_CONSTRUCTORS_QTDESIGNER_"
    (value_constructors_qtdesigner_0_i0)
    (value_constructors_qtdesigner_0_r0)
    (value_constructors_qtdesigner_0_c0).

Definition value_constructors_qtgraphs_0_i0 : list include :=
  [
    ClassInclude QtGraphs QGraphsLine QGraphsLine;
    TypeInclude QtGraphs QGraphsLine VALUE_TYPE_QTGRAPHS_QGRAPHSLINE
  ].

Definition value_constructors_qtgraphs_0_r0 : list constructor_row :=
  [
    Ctor QGraphsLine 0 [Cand [] [] None];
    Ctor QGraphsLine 1 [Cand [VALUE_TYPE_QTGRAPHS_QGRAPHSLINE] [PValue QGraphsLine] None]
  ].

Definition value_constructors_qtgraphs_0_c0 : list class_row :=
  [
    Cls [VALUE_TYPE_QTGRAPHS_QGRAPHSLINE] QGraphsLine [[]; [QGraphsLine]]
  ].

Definition value_constructors_qtgraphs_0 : constructor_shard :=
  ConstructorShard QtGraphs "KRY_QT6_NATIVE_VALUE_CONSTRUCTORS_QTGRAPHS_"
    (value_constructors_qtgraphs_0_i0)
    (value_constructors_qtgraphs_0_r0)
    (value_constructors_qtgraphs_0_c0).

Definition value_constructors_qtgui_0_i0 : list include :=
  [
    ClassInclude QtGui QAbstractFileIconProvider QAbstractFileIconProvider;
    ClassInclude QtGui QActionEvent QActionEvent;
    ClassInclude QtGui QBackingStore QBackingStore;
    ClassInclude QtGui QBitmap QBitmap;
    ClassInclude QtGui QBrush QBrush;
    ClassInclude QtGui QChildWindowEvent QChildWindowEvent;
    ClassInclude QtGui QCloseEvent QCloseEvent;
    ClassInclude QtGui QColor QColor;
    TypeInclude QtGui QAction TYPE_QTGUI_QACTION;
    TypeInclude QtGui QWindow TYPE_QTGUI_QWINDOW;
    EnumDefine ENUM_QT_BRUSHSTYLE;
    EnumDefine ENUM_QT_GLOBALCOLOR;
    TypeInclude QtCore QEvent TYPE_QTCORE_QEVENT;
    TypeInclude QtCore QSize VALUE_TYPE_QTCORE_QSIZE;
    TypeInclude QtGui QBrush VALUE_TYPE_QTGUI_QBRUSH;
    TypeInclude QtGui QColor VALUE_TYPE_QTGUI_QCOLOR;
    TypeInclude QtGui QImage VALUE_TYPE_QTGUI_QIMAGE;
    TypeInclude QtGui QPixmap VALUE_TYPE_QTGUI_QPIXMAP;
    TypeInclude QtGui QRgba64 VALUE_TYPE_QTGUI_QRGBA64
  ].

Definition value_constructors_qtgui_0_r0 : list constructor_row :=
  [
    Ctor QAbstractFileIconProvider 0 [Cand [] [] None];
    Ctor QActionEvent 2 [Cand [TYPE_QTGUI_QACTION] [PInt; PObject QAction false] None];
    Ctor QActionEvent 3 [Cand [TYPE_QTGUI_QACTION] [PInt; PObject QAction false; PObject QAction false]
        None];
    Ctor QBackingStore 1 [Cand [TYPE_QTGUI_QWINDOW] [PObject QWindow false] None];
    Ctor QBitmap 0 [Cand [] [] None];
    Ctor QBitmap 1 [Cand [VALUE_TYPE_QTCORE_QSIZE] [PValue QSize] None];
    Ctor QBitmap 2 [Cand [] [PInt; PInt] None];
    Ctor QBrush 0 [Cand [] [] None]
  ].

Definition value_constructors_qtgui_0_r1 : list constructor_row :=
  [
    Ctor QBrush 1 [Cand [ENUM_QT_BRUSHSTYLE] [PValue Qt_BrushStyle] None; Cand [ENUM_QT_BRUSHSTYLE;
        VALUE_TYPE_QTGUI_QCOLOR] [PValue QColor] None; Cand [VALUE_TYPE_QTGUI_QPIXMAP] [PValue QPixmap]
        None; Cand [VALUE_TYPE_QTGUI_QIMAGE] [PValue QImage] None; Cand [VALUE_TYPE_QTGUI_QBRUSH] [PValue
        QBrush] None];
    Ctor QBrush 2 [Cand [ENUM_QT_BRUSHSTYLE; VALUE_TYPE_QTGUI_QCOLOR] [PValue QColor; PValue Qt_BrushStyle]
        None; Cand [VALUE_TYPE_QTGUI_QCOLOR; VALUE_TYPE_QTGUI_QPIXMAP] [PValue QColor; PValue QPixmap]
        None];
    Ctor QChildWindowEvent 2 [Cand [TYPE_QTCORE_QEVENT; TYPE_QTGUI_QWINDOW] [PValue QEvent_Type; PObject
        QWindow false] None];
    Ctor QCloseEvent 0 [Cand [] [] None]
  ].

Definition value_constructors_qtgui_0_r2 : list constructor_row :=
  [
    Ctor QColor 0 [Cand [] [] None];
    Ctor QColor 1 [Cand [ENUM_QT_GLOBALCOLOR] [PValue Qt_GlobalColor] None; Cand [VALUE_TYPE_QTGUI_QRGBA64]
        [PValue QRgba64] None];
    Ctor QColor 3 [Cand [] [PInt; PInt; PInt] None];
    Ctor QColor 4 [Cand [] [PInt; PInt; PInt; PInt] None]
  ].

Definition value_constructors_qtgui_0_c0 : list class_row :=
  [
    Cls [] QAbstractFileIconProvider [[]];
    Cls [TYPE_QTGUI_QACTION] QActionEvent [[cxx_int; QAction_ptr; QAction_ptr]];
    Cls [TYPE_QTGUI_QWINDOW] QBackingStore [[QWindow_ptr]];
    Cls [VALUE_TYPE_QTCORE_QSIZE] QBitmap [[]; [cxx_int; cxx_int]; [QSize]];
    Cls [ENUM_QT_BRUSHSTYLE; VALUE_TYPE_QTGUI_QBRUSH; VALUE_TYPE_QTGUI_QCOLOR; VALUE_TYPE_QTGUI_QIMAGE;
        VALUE_TYPE_QTGUI_QPIXMAP] QBrush [[]; [Qt_BrushStyle]; [QColor; Qt_BrushStyle]; [QColor; QPixmap];
        [QPixmap]; [QImage]; [QBrush]];
    Cls [TYPE_QTCORE_QEVENT; TYPE_QTGUI_QWINDOW] QChildWindowEvent [[QEvent_Type; QWindow_ptr]];
    Cls [] QCloseEvent [[]];
    Cls [ENUM_QT_GLOBALCOLOR; VALUE_TYPE_QTGUI_QRGBA64] QColor [[Qt_GlobalColor]; [QRgba64]; []; [cxx_int;
        cxx_int; cxx_int; cxx_int]]
  ].

Definition value_constructors_qtgui_0 : constructor_shard :=
  ConstructorShard QtGui "KRY_QT6_NATIVE_VALUE_CONSTRUCTORS_QTGUI_"
    (value_constructors_qtgui_0_i0)
    (value_constructors_qtgui_0_r0 ++ value_constructors_qtgui_0_r1 ++ value_constructors_qtgui_0_r2)
    (value_constructors_qtgui_0_c0).

Definition value_constructors_qtgui_1_i0 : list include :=
  [
    ClassInclude QtGui QColorSpace QColorSpace;
    ClassInclude QtGui QColorTransform QColorTransform;
    ClassInclude QtGui QConicalGradient QConicalGradient;
    ClassInclude QtGui QContextMenuEvent QContextMenuEvent;
    ClassInclude QtGui QCursor QCursor;
    ClassInclude QtGui QDragEnterEvent QDragEnterEvent;
    ClassInclude QtGui QDragLeaveEvent QDragLeaveEvent;
    ClassInclude QtGui QDragMoveEvent QDragMoveEvent;
    TypeInclude QtCore QMimeData TYPE_QTCORE_QMIMEDATA;
    EnumDefine ENUM_QT_DROPACTIONS;
    EnumDefine ENUM_QT_KEYBOARDMODIFIERS;
    EnumDefine ENUM_QT_MOUSEBUTTONS;
    TypeInclude QtCore QEvent TYPE_QTCORE_QEVENT;
    TypeInclude QtGui QColorSpace TYPE_QTGUI_QCOLORSPACE;
    TypeInclude QtGui QContextMenuEvent TYPE_QTGUI_QCONTEXTMENUEVENT;
    TypeInclude QtCore QPoint VALUE_TYPE_QTCORE_QPOINT;
    TypeInclude QtCore QPointF VALUE_TYPE_QTCORE_QPOINTF;
    TypeInclude QtGui QBitmap VALUE_TYPE_QTGUI_QBITMAP;
    TypeInclude QtGui QColorSpace VALUE_TYPE_QTGUI_QCOLORSPACE;
    TypeInclude QtGui QColorTransform VALUE_TYPE_QTGUI_QCOLORTRANSFORM;
    TypeInclude QtGui QCursor VALUE_TYPE_QTGUI_QCURSOR;
    TypeInclude QtGui QPixmap VALUE_TYPE_QTGUI_QPIXMAP
  ].

Definition value_constructors_qtgui_1_r0 : list constructor_row :=
  [
    Ctor QColorSpace 0 [Cand [] [] None];
    Ctor QColorSpace 1 [Cand [TYPE_QTGUI_QCOLORSPACE] [PValue QColorSpace_NamedColorSpace] None; Cand
        [VALUE_TYPE_QTGUI_QCOLORSPACE] [PValue QColorSpace] None];
    Ctor QColorSpace 2 [Cand [TYPE_QTGUI_QCOLORSPACE] [PValue QColorSpace_Primaries; PValue
        QColorSpace_TransferFunction] None; Cand [TYPE_QTGUI_QCOLORSPACE] [PValue QColorSpace_Primaries;
        PNumber cxx_float] None; Cand [TYPE_QTGUI_QCOLORSPACE; VALUE_TYPE_QTCORE_QPOINTF] [PValue QPointF;
        PValue QColorSpace_TransferFunction] None; Cand [TYPE_QTGUI_QCOLORSPACE] [PValue
        QColorSpace_PrimaryPoints; PValue QColorSpace_TransferFunction] None]
  ].

Definition value_constructors_qtgui_1_r1 : list constructor_row :=
  [
    Ctor QColorSpace 3 [Cand [TYPE_QTGUI_QCOLORSPACE] [PValue QColorSpace_Primaries; PValue
        QColorSpace_TransferFunction; PNumber cxx_float] None; Cand [TYPE_QTGUI_QCOLORSPACE;
        VALUE_TYPE_QTCORE_QPOINTF] [PValue QPointF; PValue QColorSpace_TransferFunction; PNumber cxx_float]
        None; Cand [TYPE_QTGUI_QCOLORSPACE] [PValue QColorSpace_PrimaryPoints; PValue
        QColorSpace_TransferFunction; PNumber cxx_float] None];
    Ctor QColorSpace 5 [Cand [TYPE_QTGUI_QCOLORSPACE; VALUE_TYPE_QTCORE_QPOINTF] [PValue QPointF; PValue
        QPointF; PValue QPointF; PValue QPointF; PValue QColorSpace_TransferFunction] None];
    Ctor QColorSpace 6 [Cand [TYPE_QTGUI_QCOLORSPACE; VALUE_TYPE_QTCORE_QPOINTF] [PValue QPointF; PValue
        QPointF; PValue QPointF; PValue QPointF; PValue QColorSpace_TransferFunction; PNumber cxx_float]
        None];
    Ctor QColorTransform 0 [Cand [] [] None];
    Ctor QColorTransform 1 [Cand [VALUE_TYPE_QTGUI_QCOLORTRANSFORM] [PValue QColorTransform] None]
  ].

Definition value_constructors_qtgui_1_r2 : list constructor_row :=
  [
    Ctor QConicalGradient 0 [Cand [] [] None];
    Ctor QConicalGradient 2 [Cand [VALUE_TYPE_QTCORE_QPOINTF] [PValue QPointF; PNumber cxx_qreal] None];
    Ctor QConicalGradient 3 [Cand [] [PNumber cxx_qreal; PNumber cxx_qreal; PNumber cxx_qreal] None];
    Ctor QContextMenuEvent 2 [Cand [TYPE_QTGUI_QCONTEXTMENUEVENT; VALUE_TYPE_QTCORE_QPOINT] [PValue
        QContextMenuEvent_Reason; PValue QPoint] None];
    Ctor QContextMenuEvent 3 [Cand [ENUM_QT_KEYBOARDMODIFIERS; TYPE_QTGUI_QCONTEXTMENUEVENT;
        VALUE_TYPE_QTCORE_QPOINT] [PValue QContextMenuEvent_Reason; PValue QPoint; PValue QPoint] None];
    Ctor QContextMenuEvent 4 [Cand [ENUM_QT_KEYBOARDMODIFIERS; TYPE_QTGUI_QCONTEXTMENUEVENT;
        VALUE_TYPE_QTCORE_QPOINT] [PValue QContextMenuEvent_Reason; PValue QPoint; PValue QPoint; PValue
        Qt_KeyboardModifiers] None];
    Ctor QCursor 0 [Cand [] [] None]
  ].

Definition value_constructors_qtgui_1_r3 : list constructor_row :=
  [
    Ctor QCursor 1 [Cand [VALUE_TYPE_QTGUI_QPIXMAP] [PValue QPixmap] None; Cand [VALUE_TYPE_QTGUI_QCURSOR]
        [PValue QCursor] None];
    Ctor QCursor 2 [Cand [VALUE_TYPE_QTGUI_QBITMAP] [PValue QBitmap; PValue QBitmap] None; Cand
        [VALUE_TYPE_QTGUI_QPIXMAP] [PValue QPixmap; PInt] None];
    Ctor QCursor 3 [Cand [VALUE_TYPE_QTGUI_QBITMAP] [PValue QBitmap; PValue QBitmap; PInt] None; Cand
        [VALUE_TYPE_QTGUI_QPIXMAP] [PValue QPixmap; PInt; PInt] None];
    Ctor QCursor 4 [Cand [VALUE_TYPE_QTGUI_QBITMAP] [PValue QBitmap; PValue QBitmap; PInt; PInt] None]
  ].

Definition value_constructors_qtgui_1_r4 : list constructor_row :=
  [
    Ctor QDragEnterEvent 5 [Cand [ENUM_QT_DROPACTIONS; ENUM_QT_KEYBOARDMODIFIERS; ENUM_QT_MOUSEBUTTONS;
        TYPE_QTCORE_QMIMEDATA; VALUE_TYPE_QTCORE_QPOINT] [PValue QPoint; PValue Qt_DropActions; PObject
        QMimeData false; PValue Qt_MouseButtons; PValue Qt_KeyboardModifiers] None];
    Ctor QDragLeaveEvent 0 [Cand [] [] None];
    Ctor QDragMoveEvent 5 [Cand [ENUM_QT_DROPACTIONS; ENUM_QT_KEYBOARDMODIFIERS; ENUM_QT_MOUSEBUTTONS;
        TYPE_QTCORE_QEVENT; TYPE_QTCORE_QMIMEDATA; VALUE_TYPE_QTCORE_QPOINT] [PValue QPoint; PValue
        Qt_DropActions; PObject QMimeData false; PValue Qt_MouseButtons; PValue Qt_KeyboardModifiers] None];
    Ctor QDragMoveEvent 6 [Cand [ENUM_QT_DROPACTIONS; ENUM_QT_KEYBOARDMODIFIERS; ENUM_QT_MOUSEBUTTONS;
        TYPE_QTCORE_QEVENT; TYPE_QTCORE_QMIMEDATA; VALUE_TYPE_QTCORE_QPOINT] [PValue QPoint; PValue
        Qt_DropActions; PObject QMimeData false; PValue Qt_MouseButtons; PValue Qt_KeyboardModifiers;
        PValue QEvent_Type] None]
  ].

Definition value_constructors_qtgui_1_c0 : list class_row :=
  [
    Cls [TYPE_QTGUI_QCOLORSPACE; VALUE_TYPE_QTCORE_QPOINTF; VALUE_TYPE_QTGUI_QCOLORSPACE] QColorSpace [[];
        [QColorSpace_NamedColorSpace]; [QColorSpace_Primaries; QColorSpace_TransferFunction; cxx_float];
        [QColorSpace_Primaries; cxx_float]; [QPointF; QPointF; QPointF; QPointF;
        QColorSpace_TransferFunction; cxx_float]; [QPointF; QColorSpace_TransferFunction; cxx_float];
        [QColorSpace]; [QColorSpace_PrimaryPoints; QColorSpace_TransferFunction; cxx_float]];
    Cls [VALUE_TYPE_QTGUI_QCOLORTRANSFORM] QColorTransform [[]; [QColorTransform]];
    Cls [VALUE_TYPE_QTCORE_QPOINTF] QConicalGradient [[]; [QPointF; cxx_qreal]; [cxx_qreal; cxx_qreal;
        cxx_qreal]];
    Cls [ENUM_QT_KEYBOARDMODIFIERS; TYPE_QTGUI_QCONTEXTMENUEVENT; VALUE_TYPE_QTCORE_QPOINT]
        QContextMenuEvent [[QContextMenuEvent_Reason; QPoint; QPoint; Qt_KeyboardModifiers];
        [QContextMenuEvent_Reason; QPoint]];
    Cls [VALUE_TYPE_QTGUI_QBITMAP; VALUE_TYPE_QTGUI_QCURSOR; VALUE_TYPE_QTGUI_QPIXMAP] QCursor [[];
        [QBitmap; QBitmap; cxx_int; cxx_int]; [QPixmap; cxx_int; cxx_int]; [QCursor]];
    Cls [ENUM_QT_DROPACTIONS; ENUM_QT_KEYBOARDMODIFIERS; ENUM_QT_MOUSEBUTTONS; TYPE_QTCORE_QMIMEDATA;
        VALUE_TYPE_QTCORE_QPOINT] QDragEnterEvent [[QPoint; Qt_DropActions; QMimeData_ptr; Qt_MouseButtons;
        Qt_KeyboardModifiers]];
    Cls [] QDragLeaveEvent [[]];
    Cls [ENUM_QT_DROPACTIONS; ENUM_QT_KEYBOARDMODIFIERS; ENUM_QT_MOUSEBUTTONS; TYPE_QTCORE_QEVENT;
        TYPE_QTCORE_QMIMEDATA; VALUE_TYPE_QTCORE_QPOINT] QDragMoveEvent [[QPoint; Qt_DropActions;
        QMimeData_ptr; Qt_MouseButtons; Qt_KeyboardModifiers; QEvent_Type]]
  ].

Definition value_constructors_qtgui_1 : constructor_shard :=
  ConstructorShard QtGui "KRY_QT6_NATIVE_VALUE_CONSTRUCTORS_QTGUI_"
    (value_constructors_qtgui_1_i0)
    (value_constructors_qtgui_1_r0 ++ value_constructors_qtgui_1_r1 ++ value_constructors_qtgui_1_r2 ++
        value_constructors_qtgui_1_r3 ++ value_constructors_qtgui_1_r4)
    (value_constructors_qtgui_1_c0).

Definition value_constructors_qtgui_10_i0 : list include :=
  [
    ClassInclude QtGui QShortcutEvent QShortcutEvent;
    ClassInclude QtGui QShowEvent QShowEvent;
    ClassInclude QtGui QStandardItem QStandardItem;
    ClassInclude QtGui QStaticText QStaticText;
    ClassInclude QtGui QStatusTipEvent QStatusTipEvent;
    ClassInclude QtGui QSurfaceFormat QSurfaceFormat;
    ClassInclude QtGui QTabletEvent QTabletEvent;
    ClassInclude QtGui QTextBlock QTextBlock;
    TypeInclude QtGui QPointingDevice TYPE_QTGUI_QPOINTINGDEVICE;
    TypeInclude QtGui QShortcut TYPE_QTGUI_QSHORTCUT;
    EnumDefine ENUM_QT_KEYBOARDMODIFIERS;
    EnumDefine ENUM_QT_MOUSEBUTTON;
    EnumDefine ENUM_QT_MOUSEBUTTONS;
    TypeInclude QtCore QEvent TYPE_QTCORE_QEVENT;
    TypeInclude QtGui QSurfaceFormat TYPE_QTGUI_QSURFACEFORMAT;
    TypeInclude QtCore QPointF VALUE_TYPE_QTCORE_QPOINTF;
    TypeInclude QtGui QIcon VALUE_TYPE_QTGUI_QICON;
    TypeInclude QtGui QKeySequence VALUE_TYPE_QTGUI_QKEYSEQUENCE;
    TypeInclude QtGui QStaticText VALUE_TYPE_QTGUI_QSTATICTEXT;
    TypeInclude QtGui QSurfaceFormat VALUE_TYPE_QTGUI_QSURFACEFORMAT;
    TypeInclude QtGui QTextBlock VALUE_TYPE_QTGUI_QTEXTBLOCK
  ].

Definition value_constructors_qtgui_10_r0 : list constructor_row :=
  [
    Ctor QShortcutEvent 1 [Cand [TYPE_QTGUI_QSHORTCUT; VALUE_TYPE_QTGUI_QKEYSEQUENCE] [PValue QKeySequence]
        None];
    Ctor QShortcutEvent 2 [Cand [VALUE_TYPE_QTGUI_QKEYSEQUENCE] [PValue QKeySequence; PInt] None; Cand
        [TYPE_QTGUI_QSHORTCUT; VALUE_TYPE_QTGUI_QKEYSEQUENCE] [PValue QKeySequence; PObject QShortcut
        false] None];
    Ctor QShortcutEvent 3 [Cand [VALUE_TYPE_QTGUI_QKEYSEQUENCE] [PValue QKeySequence; PInt; PBool] None;
        Cand [TYPE_QTGUI_QSHORTCUT; VALUE_TYPE_QTGUI_QKEYSEQUENCE] [PValue QKeySequence; PObject QShortcut
        false; PBool] None];
    Ctor QShowEvent 0 [Cand [] [] None];
    Ctor QStandardItem 0 [Cand [] [] None]
  ].

Definition value_constructors_qtgui_10_r1 : list constructor_row :=
  [
    Ctor QStandardItem 1 [Cand [] [PString false] None; Cand [] [PInt] None];
    Ctor QStandardItem 2 [Cand [VALUE_TYPE_QTGUI_QICON] [PValue QIcon; PString false] None; Cand [] [PInt;
        PInt] None];
    Ctor QStaticText 0 [Cand [] [] None];
    Ctor QStaticText 1 [Cand [] [PString false] None; Cand [VALUE_TYPE_QTGUI_QSTATICTEXT] [PValue
        QStaticText] None];
    Ctor QStatusTipEvent 1 [Cand [] [PString false] None];
    Ctor QSurfaceFormat 0 [Cand [] [] None]
  ].

Definition value_constructors_qtgui_10_r2 : list constructor_row :=
  [
    Ctor QSurfaceFormat 1 [Cand [TYPE_QTGUI_QSURFACEFORMAT] [PValue QSurfaceFormat_FormatOptions] None;
        Cand [VALUE_TYPE_QTGUI_QSURFACEFORMAT] [PValue QSurfaceFormat] None];
    Ctor QTabletEvent 13 [Cand [ENUM_QT_KEYBOARDMODIFIERS; ENUM_QT_MOUSEBUTTON; ENUM_QT_MOUSEBUTTONS;
        TYPE_QTCORE_QEVENT; TYPE_QTGUI_QPOINTINGDEVICE; VALUE_TYPE_QTCORE_QPOINTF] [PValue QEvent_Type;
        PObject QPointingDevice false; PValue QPointF; PValue QPointF; PNumber cxx_qreal; PNumber
        cxx_float; PNumber cxx_float; PNumber cxx_float; PNumber cxx_qreal; PNumber cxx_float; PValue
        Qt_KeyboardModifiers; PValue Qt_MouseButton; PValue Qt_MouseButtons] None];
    Ctor QTextBlock 0 [Cand [] [] None];
    Ctor QTextBlock 1 [Cand [VALUE_TYPE_QTGUI_QTEXTBLOCK] [PValue QTextBlock] None]
  ].

Definition value_constructors_qtgui_10_c0 : list class_row :=
  [
    Cls [TYPE_QTGUI_QSHORTCUT; VALUE_TYPE_QTGUI_QKEYSEQUENCE] QShortcutEvent [[QKeySequence; cxx_int;
        cxx_bool]; [QKeySequence; QShortcut_ptr; cxx_bool]];
    Cls [] QShowEvent [[]];
    Cls [VALUE_TYPE_QTGUI_QICON] QStandardItem [[]; [QString]; [QIcon; QString]; [cxx_int; cxx_int]];
    Cls [VALUE_TYPE_QTGUI_QSTATICTEXT] QStaticText [[]; [QString]; [QStaticText]];
    Cls [] QStatusTipEvent [[QString]];
    Cls [TYPE_QTGUI_QSURFACEFORMAT; VALUE_TYPE_QTGUI_QSURFACEFORMAT] QSurfaceFormat [[];
        [QSurfaceFormat_FormatOptions]; [QSurfaceFormat]];
    Cls [ENUM_QT_KEYBOARDMODIFIERS; ENUM_QT_MOUSEBUTTON; ENUM_QT_MOUSEBUTTONS; TYPE_QTCORE_QEVENT;
        TYPE_QTGUI_QPOINTINGDEVICE; VALUE_TYPE_QTCORE_QPOINTF] QTabletEvent [[QEvent_Type;
        QPointingDevice_ptr; QPointF; QPointF; cxx_qreal; cxx_float; cxx_float; cxx_float; cxx_qreal;
        cxx_float; Qt_KeyboardModifiers; Qt_MouseButton; Qt_MouseButtons]];
    Cls [VALUE_TYPE_QTGUI_QTEXTBLOCK] QTextBlock [[]; [QTextBlock]]
  ].

Definition value_constructors_qtgui_10 : constructor_shard :=
  ConstructorShard QtGui "KRY_QT6_NATIVE_VALUE_CONSTRUCTORS_QTGUI_"
    (value_constructors_qtgui_10_i0)
    (value_constructors_qtgui_10_r0 ++ value_constructors_qtgui_10_r1 ++ value_constructors_qtgui_10_r2)
    (value_constructors_qtgui_10_c0).

Definition value_constructors_qtgui_11_i0 : list include :=
  [
    ClassInclude QtGui QTextBlockFormat QTextBlockFormat;
    ClassInclude QtGui QTextCharFormat QTextCharFormat;
    ClassInclude QtGui QTextCursor QTextCursor;
    ClassInclude QtGui QTextDocumentFragment QTextDocumentFragment;
    ClassInclude QtGui QTextDocumentWriter QTextDocumentWriter;
    ClassInclude QtGui QTextFormat QTextFormat;
    ClassInclude QtGui QTextFragment QTextFragment;
    ClassInclude QtGui QTextFrameFormat QTextFrameFormat;
    TypeInclude QtCore QIODevice TYPE_QTCORE_QIODEVICE;
    TypeInclude QtGui QTextDocument TYPE_QTGUI_QTEXTDOCUMENT;
    TypeInclude QtGui QTextFrame TYPE_QTGUI_QTEXTFRAME;
    TypeInclude QtCore QByteArray VALUE_TYPE_QTCORE_QBYTEARRAY;
    TypeInclude QtGui QTextBlock VALUE_TYPE_QTGUI_QTEXTBLOCK;
    TypeInclude QtGui QTextCursor VALUE_TYPE_QTGUI_QTEXTCURSOR;
    TypeInclude QtGui QTextDocumentFragment VALUE_TYPE_QTGUI_QTEXTDOCUMENTFRAGMENT;
    TypeInclude QtGui QTextFormat VALUE_TYPE_QTGUI_QTEXTFORMAT;
    TypeInclude QtGui QTextFragment VALUE_TYPE_QTGUI_QTEXTFRAGMENT
  ].

Definition value_constructors_qtgui_11_r0 : list constructor_row :=
  [
    Ctor QTextBlockFormat 0 [Cand [] [] None];
    Ctor QTextCharFormat 0 [Cand [] [] None];
    Ctor QTextCursor 0 [Cand [] [] None];
    Ctor QTextCursor 1 [Cand [TYPE_QTGUI_QTEXTDOCUMENT] [PObject QTextDocument false] None; Cand
        [TYPE_QTGUI_QTEXTFRAME] [PObject QTextFrame false] None; Cand [VALUE_TYPE_QTGUI_QTEXTBLOCK] [PValue
        QTextBlock] None; Cand [VALUE_TYPE_QTGUI_QTEXTCURSOR] [PValue QTextCursor] None];
    Ctor QTextDocumentFragment 0 [Cand [] [] None]
  ].

Definition value_constructors_qtgui_11_r1 : list constructor_row :=
  [
    Ctor QTextDocumentFragment 1 [Cand [TYPE_QTGUI_QTEXTDOCUMENT] [PObject QTextDocument false] None; Cand
        [VALUE_TYPE_QTGUI_QTEXTCURSOR] [PValue QTextCursor] None; Cand
        [VALUE_TYPE_QTGUI_QTEXTDOCUMENTFRAGMENT] [PValue QTextDocumentFragment] None];
    Ctor QTextDocumentWriter 0 [Cand [] [] None];
    Ctor QTextDocumentWriter 1 [Cand [VALUE_TYPE_QTCORE_QBYTEARRAY] [PString false] None];
    Ctor QTextDocumentWriter 2 [Cand [TYPE_QTCORE_QIODEVICE; VALUE_TYPE_QTCORE_QBYTEARRAY] [PObject
        QIODevice false; PValue QByteArray] None; Cand [VALUE_TYPE_QTCORE_QBYTEARRAY] [PString false;
        PValue QByteArray] None];
    Ctor QTextFormat 0 [Cand [] [] None]
  ].

Definition value_constructors_qtgui_11_r2 : list constructor_row :=
  [
    Ctor QTextFormat 1 [Cand [] [PInt] None; Cand [VALUE_TYPE_QTGUI_QTEXTFORMAT] [PValue QTextFormat] None];
    Ctor QTextFragment 0 [Cand [] [] None];
    Ctor QTextFragment 1 [Cand [VALUE_TYPE_QTGUI_QTEXTFRAGMENT] [PValue QTextFragment] None];
    Ctor QTextFrameFormat 0 [Cand [] [] None]
  ].

Definition value_constructors_qtgui_11_c0 : list class_row :=
  [
    Cls [] QTextBlockFormat [[]];
    Cls [] QTextCharFormat [[]];
    Cls [TYPE_QTGUI_QTEXTDOCUMENT; TYPE_QTGUI_QTEXTFRAME; VALUE_TYPE_QTGUI_QTEXTBLOCK;
        VALUE_TYPE_QTGUI_QTEXTCURSOR] QTextCursor [[]; [QTextDocument_ptr]; [QTextFrame_ptr]; [QTextBlock];
        [QTextCursor]];
    Cls [TYPE_QTGUI_QTEXTDOCUMENT; VALUE_TYPE_QTGUI_QTEXTCURSOR; VALUE_TYPE_QTGUI_QTEXTDOCUMENTFRAGMENT]
        QTextDocumentFragment [[]; [QTextDocument_ptr]; [QTextCursor]; [QTextDocumentFragment]];
    Cls [TYPE_QTCORE_QIODEVICE; VALUE_TYPE_QTCORE_QBYTEARRAY] QTextDocumentWriter [[]; [QIODevice_ptr;
        QByteArray]; [QString; QByteArray]];
    Cls [VALUE_TYPE_QTGUI_QTEXTFORMAT] QTextFormat [[]; [cxx_int]; [QTextFormat]];
    Cls [VALUE_TYPE_QTGUI_QTEXTFRAGMENT] QTextFragment [[]; [QTextFragment]];
    Cls [] QTextFrameFormat [[]]
  ].

Definition value_constructors_qtgui_11 : constructor_shard :=
  ConstructorShard QtGui "KRY_QT6_NATIVE_VALUE_CONSTRUCTORS_QTGUI_"
    (value_constructors_qtgui_11_i0)
    (value_constructors_qtgui_11_r0 ++ value_constructors_qtgui_11_r1 ++ value_constructors_qtgui_11_r2)
    (value_constructors_qtgui_11_c0).

Definition value_constructors_qtgui_12_i0 : list include :=
  [
    ClassInclude QtGui QTextImageFormat QTextImageFormat;
    ClassInclude QtGui QTextLayout QTextLayout;
    ClassInclude QtGui QTextLength QTextLength;
    ClassInclude QtGui QTextLine QTextLine;
    ClassInclude QtGui QTextListFormat QTextListFormat;
    ClassInclude QtGui QTextOption QTextOption;
    ClassInclude QtGui QTextTableCell QTextTableCell;
    ClassInclude QtGui QTextTableCellFormat QTextTableCellFormat;
    EnumDefine ENUM_QT_ALIGNMENT;
    TypeInclude QtGui QTextLength TYPE_QTGUI_QTEXTLENGTH;
    TypeInclude QtGui QTextBlock VALUE_TYPE_QTGUI_QTEXTBLOCK;
    TypeInclude QtGui QTextOption VALUE_TYPE_QTGUI_QTEXTOPTION;
    TypeInclude QtGui QTextTableCell VALUE_TYPE_QTGUI_QTEXTTABLECELL
  ].

Definition value_constructors_qtgui_12_r0 : list constructor_row :=
  [
    Ctor QTextImageFormat 0 [Cand [] [] None];
    Ctor QTextLayout 0 [Cand [] [] None];
    Ctor QTextLayout 1 [Cand [] [PString false] None; Cand [VALUE_TYPE_QTGUI_QTEXTBLOCK] [PValue
        QTextBlock] None];
    Ctor QTextLength 0 [Cand [] [] None];
    Ctor QTextLength 2 [Cand [TYPE_QTGUI_QTEXTLENGTH] [PValue QTextLength_Type; PNumber cxx_qreal] None];
    Ctor QTextLine 0 [Cand [] [] None];
    Ctor QTextListFormat 0 [Cand [] [] None];
    Ctor QTextOption 0 [Cand [] [] None]
  ].

Definition value_constructors_qtgui_12_r1 : list constructor_row :=
  [
    Ctor QTextOption 1 [Cand [ENUM_QT_ALIGNMENT] [PValue Qt_Alignment] None; Cand
        [VALUE_TYPE_QTGUI_QTEXTOPTION] [PValue QTextOption] None];
    Ctor QTextTableCell 0 [Cand [] [] None];
    Ctor QTextTableCell 1 [Cand [VALUE_TYPE_QTGUI_QTEXTTABLECELL] [PValue QTextTableCell] None];
    Ctor QTextTableCellFormat 0 [Cand [] [] None]
  ].

Definition value_constructors_qtgui_12_c0 : list class_row :=
  [
    Cls [] QTextImageFormat [[]];
    Cls [VALUE_TYPE_QTGUI_QTEXTBLOCK] QTextLayout [[]; [QString]; [QTextBlock]];
    Cls [TYPE_QTGUI_QTEXTLENGTH] QTextLength [[]; [QTextLength_Type; cxx_qreal]];
    Cls [] QTextLine [[]];
    Cls [] QTextListFormat [[]];
    Cls [ENUM_QT_ALIGNMENT; VALUE_TYPE_QTGUI_QTEXTOPTION] QTextOption [[]; [Qt_Alignment]; [QTextOption]];
    Cls [VALUE_TYPE_QTGUI_QTEXTTABLECELL] QTextTableCell [[]; [QTextTableCell]];
    Cls [] QTextTableCellFormat [[]]
  ].

Definition value_constructors_qtgui_12 : constructor_shard :=
  ConstructorShard QtGui "KRY_QT6_NATIVE_VALUE_CONSTRUCTORS_QTGUI_"
    (value_constructors_qtgui_12_i0)
    (value_constructors_qtgui_12_r0 ++ value_constructors_qtgui_12_r1)
    (value_constructors_qtgui_12_c0).

Definition value_constructors_qtgui_13_i0 : list include :=
  [
    ClassInclude QtGui QTextTableFormat QTextTableFormat;
    ClassInclude QtGui QTouchEvent QTouchEvent;
    ClassInclude QtGui QTransform QTransform;
    ClassInclude QtGui QVector2D QVector2D;
    ClassInclude QtGui QVector3D QVector3D;
    ClassInclude QtGui QVector4D QVector4D;
    ClassInclude QtGui QWhatsThisClickedEvent QWhatsThisClickedEvent;
    ClassInclude QtGui QWheelEvent QWheelEvent;
    TypeInclude QtGui QPointingDevice TYPE_QTGUI_QPOINTINGDEVICE;
    EnumDefine ENUM_QT_KEYBOARDMODIFIERS;
    EnumDefine ENUM_QT_MOUSEBUTTONS;
    EnumDefine ENUM_QT_MOUSEEVENTSOURCE;
    EnumDefine ENUM_QT_SCROLLPHASE;
    TypeInclude QtCore QEvent TYPE_QTCORE_QEVENT;
    TypeInclude QtCore QPoint VALUE_TYPE_QTCORE_QPOINT;
    TypeInclude QtCore QPointF VALUE_TYPE_QTCORE_QPOINTF;
    TypeInclude QtGui QEventPoint VALUE_TYPE_QTGUI_QEVENTPOINT;
    TypeInclude QtGui QTransform VALUE_TYPE_QTGUI_QTRANSFORM;
    TypeInclude QtGui QVector2D VALUE_TYPE_QTGUI_QVECTOR2D;
    TypeInclude QtGui QVector3D VALUE_TYPE_QTGUI_QVECTOR3D;
    TypeInclude QtGui QVector4D VALUE_TYPE_QTGUI_QVECTOR4D
  ].

Definition value_constructors_qtgui_13_r0 : list constructor_row :=
  [
    Ctor QTextTableFormat 0 [Cand [] [] None];
    Ctor QTouchEvent 1 [Cand [ENUM_QT_KEYBOARDMODIFIERS; TYPE_QTCORE_QEVENT; TYPE_QTGUI_QPOINTINGDEVICE;
        VALUE_TYPE_QTGUI_QEVENTPOINT] [PValue QEvent_Type] None];
    Ctor QTouchEvent 2 [Cand [ENUM_QT_KEYBOARDMODIFIERS; TYPE_QTCORE_QEVENT; TYPE_QTGUI_QPOINTINGDEVICE;
        VALUE_TYPE_QTGUI_QEVENTPOINT] [PValue QEvent_Type; PObject QPointingDevice false] None];
    Ctor QTouchEvent 3 [Cand [ENUM_QT_KEYBOARDMODIFIERS; TYPE_QTCORE_QEVENT; TYPE_QTGUI_QPOINTINGDEVICE;
        VALUE_TYPE_QTGUI_QEVENTPOINT] [PValue QEvent_Type; PObject QPointingDevice false; PValue
        Qt_KeyboardModifiers] None];
    Ctor QTouchEvent 4 [Cand [ENUM_QT_KEYBOARDMODIFIERS; TYPE_QTCORE_QEVENT; TYPE_QTGUI_QPOINTINGDEVICE;
        VALUE_TYPE_QTGUI_QEVENTPOINT] [PValue QEvent_Type; PObject QPointingDevice false; PValue
        Qt_KeyboardModifiers; PList (IValue QEventPoint)] None];
    Ctor QTransform 0 [Cand [] [] None];
    Ctor QTransform 1 [Cand [VALUE_TYPE_QTGUI_QTRANSFORM] [PValue QTransform] None]
  ].

Definition value_constructors_qtgui_13_r1 : list constructor_row :=
  [
    Ctor QTransform 6 [Cand [] [PNumber cxx_qreal; PNumber cxx_qreal; PNumber cxx_qreal; PNumber cxx_qreal;
        PNumber cxx_qreal; PNumber cxx_qreal] None];
    Ctor QTransform 9 [Cand [] [PNumber cxx_qreal; PNumber cxx_qreal; PNumber cxx_qreal; PNumber cxx_qreal;
        PNumber cxx_qreal; PNumber cxx_qreal; PNumber cxx_qreal; PNumber cxx_qreal; PNumber cxx_qreal]
        None];
    Ctor QVector2D 0 [Cand [] [] None];
    Ctor QVector2D 1 [Cand [VALUE_TYPE_QTCORE_QPOINT] [PValue QPoint] None; Cand
        [VALUE_TYPE_QTCORE_QPOINTF] [PValue QPointF] None; Cand [VALUE_TYPE_QTGUI_QVECTOR3D] [PValue
        QVector3D] None; Cand [VALUE_TYPE_QTGUI_QVECTOR4D] [PValue QVector4D] None];
    Ctor QVector2D 2 [Cand [] [PNumber cxx_float; PNumber cxx_float] None]
  ].

Definition value_constructors_qtgui_13_r2 : list constructor_row :=
  [
    Ctor QVector3D 0 [Cand [] [] None];
    Ctor QVector3D 1 [Cand [VALUE_TYPE_QTCORE_QPOINT] [PValue QPoint] None; Cand
        [VALUE_TYPE_QTCORE_QPOINTF] [PValue QPointF] None; Cand [VALUE_TYPE_QTGUI_QVECTOR2D] [PValue
        QVector2D] None; Cand [VALUE_TYPE_QTGUI_QVECTOR4D] [PValue QVector4D] None];
    Ctor QVector3D 2 [Cand [VALUE_TYPE_QTGUI_QVECTOR2D] [PValue QVector2D; PNumber cxx_float] None];
    Ctor QVector3D 3 [Cand [] [PNumber cxx_float; PNumber cxx_float; PNumber cxx_float] None];
    Ctor QVector4D 0 [Cand [] [] None]
  ].

Definition value_constructors_qtgui_13_r3 : list constructor_row :=
  [
    Ctor QVector4D 1 [Cand [VALUE_TYPE_QTCORE_QPOINT] [PValue QPoint] None; Cand
        [VALUE_TYPE_QTCORE_QPOINTF] [PValue QPointF] None; Cand [VALUE_TYPE_QTGUI_QVECTOR2D] [PValue
        QVector2D] None; Cand [VALUE_TYPE_QTGUI_QVECTOR3D] [PValue QVector3D] None];
    Ctor QVector4D 2 [Cand [VALUE_TYPE_QTGUI_QVECTOR3D] [PValue QVector3D; PNumber cxx_float] None];
    Ctor QVector4D 3 [Cand [VALUE_TYPE_QTGUI_QVECTOR2D] [PValue QVector2D; PNumber cxx_float; PNumber
        cxx_float] None];
    Ctor QVector4D 4 [Cand [] [PNumber cxx_float; PNumber cxx_float; PNumber cxx_float; PNumber cxx_float]
        None];
    Ctor QWhatsThisClickedEvent 1 [Cand [] [PString false] None]
  ].

Definition value_constructors_qtgui_13_r4 : list constructor_row :=
  [
    Ctor QWheelEvent 8 [Cand [ENUM_QT_KEYBOARDMODIFIERS; ENUM_QT_MOUSEBUTTONS; ENUM_QT_MOUSEEVENTSOURCE;
        ENUM_QT_SCROLLPHASE; TYPE_QTGUI_QPOINTINGDEVICE; VALUE_TYPE_QTCORE_QPOINT;
        VALUE_TYPE_QTCORE_QPOINTF] [PValue QPointF; PValue QPointF; PValue QPoint; PValue QPoint; PValue
        Qt_MouseButtons; PValue Qt_KeyboardModifiers; PValue Qt_ScrollPhase; PBool] None];
    Ctor QWheelEvent 9 [Cand [ENUM_QT_KEYBOARDMODIFIERS; ENUM_QT_MOUSEBUTTONS; ENUM_QT_MOUSEEVENTSOURCE;
        ENUM_QT_SCROLLPHASE; TYPE_QTGUI_QPOINTINGDEVICE; VALUE_TYPE_QTCORE_QPOINT;
        VALUE_TYPE_QTCORE_QPOINTF] [PValue QPointF; PValue QPointF; PValue QPoint; PValue QPoint; PValue
        Qt_MouseButtons; PValue Qt_KeyboardModifiers; PValue Qt_ScrollPhase; PBool; PValue
        Qt_MouseEventSource] None];
    Ctor QWheelEvent 10 [Cand [ENUM_QT_KEYBOARDMODIFIERS; ENUM_QT_MOUSEBUTTONS; ENUM_QT_MOUSEEVENTSOURCE;
        ENUM_QT_SCROLLPHASE; TYPE_QTGUI_QPOINTINGDEVICE; VALUE_TYPE_QTCORE_QPOINT;
        VALUE_TYPE_QTCORE_QPOINTF] [PValue QPointF; PValue QPointF; PValue QPoint; PValue QPoint; PValue
        Qt_MouseButtons; PValue Qt_KeyboardModifiers; PValue Qt_ScrollPhase; PBool; PValue
        Qt_MouseEventSource; PObject QPointingDevice false] None]
  ].

Definition value_constructors_qtgui_13_c0 : list class_row :=
  [
    Cls [] QTextTableFormat [[]];
    Cls [ENUM_QT_KEYBOARDMODIFIERS; TYPE_QTCORE_QEVENT; TYPE_QTGUI_QPOINTINGDEVICE;
        VALUE_TYPE_QTGUI_QEVENTPOINT] QTouchEvent [[QEvent_Type; QPointingDevice_ptr; Qt_KeyboardModifiers;
        QList_QEventPoint]];
    Cls [VALUE_TYPE_QTGUI_QTRANSFORM] QTransform [[]; [cxx_qreal; cxx_qreal; cxx_qreal; cxx_qreal;
        cxx_qreal; cxx_qreal; cxx_qreal; cxx_qreal; cxx_qreal]; [cxx_qreal; cxx_qreal; cxx_qreal;
        cxx_qreal; cxx_qreal; cxx_qreal]; [QTransform]];
    Cls [VALUE_TYPE_QTCORE_QPOINT; VALUE_TYPE_QTCORE_QPOINTF; VALUE_TYPE_QTGUI_QVECTOR3D;
        VALUE_TYPE_QTGUI_QVECTOR4D] QVector2D [[]; [cxx_float; cxx_float]; [QPoint]; [QPointF];
        [QVector3D]; [QVector4D]];
    Cls [VALUE_TYPE_QTCORE_QPOINT; VALUE_TYPE_QTCORE_QPOINTF; VALUE_TYPE_QTGUI_QVECTOR2D;
        VALUE_TYPE_QTGUI_QVECTOR4D] QVector3D [[]; [cxx_float; cxx_float; cxx_float]; [QPoint]; [QPointF];
        [QVector2D; cxx_float]; [QVector2D]; [QVector4D]];
    Cls [VALUE_TYPE_QTCORE_QPOINT; VALUE_TYPE_QTCORE_QPOINTF; VALUE_TYPE_QTGUI_QVECTOR2D;
        VALUE_TYPE_QTGUI_QVECTOR3D] QVector4D [[]; [cxx_float; cxx_float; cxx_float; cxx_float]; [QPoint];
        [QPointF]; [QVector2D]; [QVector2D; cxx_float; cxx_float]; [QVector3D]; [QVector3D; cxx_float]];
    Cls [] QWhatsThisClickedEvent [[QString]];
    Cls [ENUM_QT_KEYBOARDMODIFIERS; ENUM_QT_MOUSEBUTTONS; ENUM_QT_MOUSEEVENTSOURCE; ENUM_QT_SCROLLPHASE;
        TYPE_QTGUI_QPOINTINGDEVICE; VALUE_TYPE_QTCORE_QPOINT; VALUE_TYPE_QTCORE_QPOINTF] QWheelEvent
        [[QPointF; QPointF; QPoint; QPoint; Qt_MouseButtons; Qt_KeyboardModifiers; Qt_ScrollPhase;
        cxx_bool; Qt_MouseEventSource; QPointingDevice_ptr]]
  ].

Definition value_constructors_qtgui_13 : constructor_shard :=
  ConstructorShard QtGui "KRY_QT6_NATIVE_VALUE_CONSTRUCTORS_QTGUI_"
    (value_constructors_qtgui_13_i0)
    (value_constructors_qtgui_13_r0 ++ value_constructors_qtgui_13_r1 ++ value_constructors_qtgui_13_r2 ++
        value_constructors_qtgui_13_r3 ++ value_constructors_qtgui_13_r4)
    (value_constructors_qtgui_13_c0).

Definition value_constructors_qtgui_2_i0 : list include :=
  [
    ClassInclude QtGui QDropEvent QDropEvent;
    ClassInclude QtGui QEnterEvent QEnterEvent;
    ClassInclude QtGui QEventPoint QEventPoint;
    ClassInclude QtGui QExposeEvent QExposeEvent;
    ClassInclude QtGui QFocusEvent QFocusEvent;
    ClassInclude QtGui QFont QFont;
    ClassInclude QtGui QFontInfo QFontInfo;
    ClassInclude QtGui QFontMetrics QFontMetrics;
    TypeInclude QtCore QMimeData TYPE_QTCORE_QMIMEDATA;
    TypeInclude QtGui QPointingDevice TYPE_QTGUI_QPOINTINGDEVICE;
    EnumDefine ENUM_QT_DROPACTIONS;
    EnumDefine ENUM_QT_FOCUSREASON;
    EnumDefine ENUM_QT_KEYBOARDMODIFIERS;
    EnumDefine ENUM_QT_MOUSEBUTTONS;
    TypeInclude QtCore QEvent TYPE_QTCORE_QEVENT;
    TypeInclude QtGui QEventPoint TYPE_QTGUI_QEVENTPOINT;
    TypeInclude QtCore QPointF VALUE_TYPE_QTCORE_QPOINTF;
    TypeInclude QtGui QEventPoint VALUE_TYPE_QTGUI_QEVENTPOINT;
    TypeInclude QtGui QFont VALUE_TYPE_QTGUI_QFONT;
    TypeInclude QtGui QFontInfo VALUE_TYPE_QTGUI_QFONTINFO;
    TypeInclude QtGui QFontMetrics VALUE_TYPE_QTGUI_QFONTMETRICS;
    TypeInclude QtGui QRegion VALUE_TYPE_QTGUI_QREGION
  ].

Definition value_constructors_qtgui_2_r0 : list constructor_row :=
  [
    Ctor QDropEvent 5 [Cand [ENUM_QT_DROPACTIONS; ENUM_QT_KEYBOARDMODIFIERS; ENUM_QT_MOUSEBUTTONS;
        TYPE_QTCORE_QEVENT; TYPE_QTCORE_QMIMEDATA; VALUE_TYPE_QTCORE_QPOINTF] [PValue QPointF; PValue
        Qt_DropActions; PObject QMimeData false; PValue Qt_MouseButtons; PValue Qt_KeyboardModifiers] None];
    Ctor QDropEvent 6 [Cand [ENUM_QT_DROPACTIONS; ENUM_QT_KEYBOARDMODIFIERS; ENUM_QT_MOUSEBUTTONS;
        TYPE_QTCORE_QEVENT; TYPE_QTCORE_QMIMEDATA; VALUE_TYPE_QTCORE_QPOINTF] [PValue QPointF; PValue
        Qt_DropActions; PObject QMimeData false; PValue Qt_MouseButtons; PValue Qt_KeyboardModifiers;
        PValue QEvent_Type] None];
    Ctor QEnterEvent 3 [Cand [TYPE_QTGUI_QPOINTINGDEVICE; VALUE_TYPE_QTCORE_QPOINTF] [PValue QPointF;
        PValue QPointF; PValue QPointF] None];
    Ctor QEnterEvent 4 [Cand [TYPE_QTGUI_QPOINTINGDEVICE; VALUE_TYPE_QTCORE_QPOINTF] [PValue QPointF;
        PValue QPointF; PValue QPointF; PObject QPointingDevice false] None];
    Ctor QEventPoint 1 [Cand [VALUE_TYPE_QTGUI_QEVENTPOINT] [PValue QEventPoint] None];
    Ctor QEventPoint 4 [Cand [TYPE_QTGUI_QEVENTPOINT; VALUE_TYPE_QTCORE_QPOINTF] [PInt; PValue
        QEventPoint_State; PValue QPointF; PValue QPointF] None]
  ].

Definition value_constructors_qtgui_2_r1 : list constructor_row :=
  [
    Ctor QExposeEvent 1 [Cand [VALUE_TYPE_QTGUI_QREGION] [PValue QRegion] None];
    Ctor QFocusEvent 1 [Cand [ENUM_QT_FOCUSREASON; TYPE_QTCORE_QEVENT] [PValue QEvent_Type] None];
    Ctor QFocusEvent 2 [Cand [ENUM_QT_FOCUSREASON; TYPE_QTCORE_QEVENT] [PValue QEvent_Type; PValue
        Qt_FocusReason] None];
    Ctor QFont 0 [Cand [] [] None];
    Ctor QFont 1 [Cand [] [PStringList] None; Cand [] [PString false] None; Cand [VALUE_TYPE_QTGUI_QFONT]
        [PValue QFont] None]
  ].

Definition value_constructors_qtgui_2_r2 : list constructor_row :=
  [
    Ctor QFont 2 [Cand [] [PStringList; PInt] None; Cand [] [PString false; PInt] None];
    Ctor QFont 3 [Cand [] [PStringList; PInt; PInt] None; Cand [] [PString false; PInt; PInt] None];
    Ctor QFont 4 [Cand [] [PStringList; PInt; PInt; PBool] None; Cand [] [PString false; PInt; PInt; PBool]
        None]
  ].

Definition value_constructors_qtgui_2_r3 : list constructor_row :=
  [
    Ctor QFontInfo 1 [Cand [VALUE_TYPE_QTGUI_QFONT] [PValue QFont] None; Cand [VALUE_TYPE_QTGUI_QFONTINFO]
        [PValue QFontInfo] None];
    Ctor QFontMetrics 1 [Cand [VALUE_TYPE_QTGUI_QFONT] [PValue QFont] None; Cand
        [VALUE_TYPE_QTGUI_QFONTMETRICS] [PValue QFontMetrics] None]
  ].

Definition value_constructors_qtgui_2_c0 : list class_row :=
  [
    Cls [ENUM_QT_DROPACTIONS; ENUM_QT_KEYBOARDMODIFIERS; ENUM_QT_MOUSEBUTTONS; TYPE_QTCORE_QEVENT;
        TYPE_QTCORE_QMIMEDATA; VALUE_TYPE_QTCORE_QPOINTF] QDropEvent [[QPointF; Qt_DropActions;
        QMimeData_ptr; Qt_MouseButtons; Qt_KeyboardModifiers; QEvent_Type]];
    Cls [TYPE_QTGUI_QPOINTINGDEVICE; VALUE_TYPE_QTCORE_QPOINTF] QEnterEvent [[QPointF; QPointF; QPointF;
        QPointingDevice_ptr]];
    Cls [TYPE_QTGUI_QEVENTPOINT; VALUE_TYPE_QTCORE_QPOINTF; VALUE_TYPE_QTGUI_QEVENTPOINT] QEventPoint
        [[cxx_int; QEventPoint_State; QPointF; QPointF]; [QEventPoint]];
    Cls [VALUE_TYPE_QTGUI_QREGION] QExposeEvent [[QRegion]];
    Cls [ENUM_QT_FOCUSREASON; TYPE_QTCORE_QEVENT] QFocusEvent [[QEvent_Type; Qt_FocusReason]];
    Cls [VALUE_TYPE_QTGUI_QFONT] QFont [[]; [QStringList; cxx_int; cxx_int; cxx_bool]; [QString; cxx_int;
        cxx_int; cxx_bool]; [QFont]];
    Cls [VALUE_TYPE_QTGUI_QFONT; VALUE_TYPE_QTGUI_QFONTINFO] QFontInfo [[QFont]; [QFontInfo]];
    Cls [VALUE_TYPE_QTGUI_QFONT; VALUE_TYPE_QTGUI_QFONTMETRICS] QFontMetrics [[QFont]; [QFontMetrics]]
  ].

Definition value_constructors_qtgui_2 : constructor_shard :=
  ConstructorShard QtGui "KRY_QT6_NATIVE_VALUE_CONSTRUCTORS_QTGUI_"
    (value_constructors_qtgui_2_i0)
    (value_constructors_qtgui_2_r0 ++ value_constructors_qtgui_2_r1 ++ value_constructors_qtgui_2_r2 ++
        value_constructors_qtgui_2_r3)
    (value_constructors_qtgui_2_c0).

Definition value_constructors_qtgui_3_i0 : list include :=
  [
    ClassInclude QtGui QFontMetricsF QFontMetricsF;
    ClassInclude QtGui QFontVariableAxis QFontVariableAxis;
    ClassInclude QtGui QGlyphRun QGlyphRun;
    ClassInclude QtGui QGradient QGradient;
    ClassInclude QtGui QHelpEvent QHelpEvent;
    ClassInclude QtGui QHideEvent QHideEvent;
    ClassInclude QtGui QHoverEvent QHoverEvent;
    ClassInclude QtGui QIcon QIcon;
    TypeInclude QtGui QPointingDevice TYPE_QTGUI_QPOINTINGDEVICE;
    EnumDefine ENUM_QT_KEYBOARDMODIFIERS;
    TypeInclude QtCore QEvent TYPE_QTCORE_QEVENT;
    TypeInclude QtGui QGradient TYPE_QTGUI_QGRADIENT;
    TypeInclude QtCore QPoint VALUE_TYPE_QTCORE_QPOINT;
    TypeInclude QtCore QPointF VALUE_TYPE_QTCORE_QPOINTF;
    TypeInclude QtGui QFont VALUE_TYPE_QTGUI_QFONT;
    TypeInclude QtGui QFontMetrics VALUE_TYPE_QTGUI_QFONTMETRICS;
    TypeInclude QtGui QFontMetricsF VALUE_TYPE_QTGUI_QFONTMETRICSF;
    TypeInclude QtGui QFontVariableAxis VALUE_TYPE_QTGUI_QFONTVARIABLEAXIS;
    TypeInclude QtGui QGlyphRun VALUE_TYPE_QTGUI_QGLYPHRUN;
    TypeInclude QtGui QIcon VALUE_TYPE_QTGUI_QICON;
    TypeInclude QtGui QPixmap VALUE_TYPE_QTGUI_QPIXMAP
  ].

Definition value_constructors_qtgui_3_r0 : list constructor_row :=
  [
    Ctor QFontMetricsF 1 [Cand [VALUE_TYPE_QTGUI_QFONT] [PValue QFont] None; Cand
        [VALUE_TYPE_QTGUI_QFONTMETRICS] [PValue QFontMetrics] None; Cand [VALUE_TYPE_QTGUI_QFONTMETRICSF]
        [PValue QFontMetricsF] None];
    Ctor QFontVariableAxis 0 [Cand [] [] None];
    Ctor QFontVariableAxis 1 [Cand [VALUE_TYPE_QTGUI_QFONTVARIABLEAXIS] [PValue QFontVariableAxis] None];
    Ctor QGlyphRun 0 [Cand [] [] None];
    Ctor QGlyphRun 1 [Cand [VALUE_TYPE_QTGUI_QGLYPHRUN] [PValue QGlyphRun] None];
    Ctor QGradient 0 [Cand [] [] None];
    Ctor QGradient 1 [Cand [TYPE_QTGUI_QGRADIENT] [PValue QGradient_Preset] None]
  ].

Definition value_constructors_qtgui_3_r1 : list constructor_row :=
  [
    Ctor QHelpEvent 3 [Cand [TYPE_QTCORE_QEVENT; VALUE_TYPE_QTCORE_QPOINT] [PValue QEvent_Type; PValue
        QPoint; PValue QPoint] None];
    Ctor QHideEvent 0 [Cand [] [] None];
    Ctor QHoverEvent 3 [Cand [ENUM_QT_KEYBOARDMODIFIERS; TYPE_QTCORE_QEVENT; TYPE_QTGUI_QPOINTINGDEVICE;
        VALUE_TYPE_QTCORE_QPOINTF] [PValue QEvent_Type; PValue QPointF; PValue QPointF] None];
    Ctor QHoverEvent 4 [Cand [ENUM_QT_KEYBOARDMODIFIERS; TYPE_QTCORE_QEVENT; TYPE_QTGUI_QPOINTINGDEVICE;
        VALUE_TYPE_QTCORE_QPOINTF] [PValue QEvent_Type; PValue QPointF; PValue QPointF; PValue QPointF]
        None; Cand [ENUM_QT_KEYBOARDMODIFIERS; TYPE_QTCORE_QEVENT; TYPE_QTGUI_QPOINTINGDEVICE;
        VALUE_TYPE_QTCORE_QPOINTF] [PValue QEvent_Type; PValue QPointF; PValue QPointF; PValue
        Qt_KeyboardModifiers] None]
  ].

Definition value_constructors_qtgui_3_r2 : list constructor_row :=
  [
    Ctor QHoverEvent 5 [Cand [ENUM_QT_KEYBOARDMODIFIERS; TYPE_QTCORE_QEVENT; TYPE_QTGUI_QPOINTINGDEVICE;
        VALUE_TYPE_QTCORE_QPOINTF] [PValue QEvent_Type; PValue QPointF; PValue QPointF; PValue QPointF;
        PValue Qt_KeyboardModifiers] None; Cand [ENUM_QT_KEYBOARDMODIFIERS; TYPE_QTCORE_QEVENT;
        TYPE_QTGUI_QPOINTINGDEVICE; VALUE_TYPE_QTCORE_QPOINTF] [PValue QEvent_Type; PValue QPointF; PValue
        QPointF; PValue Qt_KeyboardModifiers; PObject QPointingDevice false] None];
    Ctor QHoverEvent 6 [Cand [ENUM_QT_KEYBOARDMODIFIERS; TYPE_QTCORE_QEVENT; TYPE_QTGUI_QPOINTINGDEVICE;
        VALUE_TYPE_QTCORE_QPOINTF] [PValue QEvent_Type; PValue QPointF; PValue QPointF; PValue QPointF;
        PValue Qt_KeyboardModifiers; PObject QPointingDevice false] None];
    Ctor QIcon 0 [Cand [] [] None];
    Ctor QIcon 1 [Cand [VALUE_TYPE_QTGUI_QPIXMAP] [PValue QPixmap] None; Cand [VALUE_TYPE_QTGUI_QICON]
        [PValue QIcon] None; Cand [] [PString false] None]
  ].

Definition value_constructors_qtgui_3_c0 : list class_row :=
  [
    Cls [VALUE_TYPE_QTGUI_QFONT; VALUE_TYPE_QTGUI_QFONTMETRICS; VALUE_TYPE_QTGUI_QFONTMETRICSF]
        QFontMetricsF [[QFont]; [QFontMetrics]; [QFontMetricsF]];
    Cls [VALUE_TYPE_QTGUI_QFONTVARIABLEAXIS] QFontVariableAxis [[]; [QFontVariableAxis]];
    Cls [VALUE_TYPE_QTGUI_QGLYPHRUN] QGlyphRun [[]; [QGlyphRun]];
    Cls [TYPE_QTGUI_QGRADIENT] QGradient [[]; [QGradient_Preset]];
    Cls [TYPE_QTCORE_QEVENT; VALUE_TYPE_QTCORE_QPOINT] QHelpEvent [[QEvent_Type; QPoint; QPoint]];
    Cls [] QHideEvent [[]];
    Cls [ENUM_QT_KEYBOARDMODIFIERS; TYPE_QTCORE_QEVENT; TYPE_QTGUI_QPOINTINGDEVICE;
        VALUE_TYPE_QTCORE_QPOINTF] QHoverEvent [[QEvent_Type; QPointF; QPointF; QPointF;
        Qt_KeyboardModifiers; QPointingDevice_ptr]; [QEvent_Type; QPointF; QPointF; Qt_KeyboardModifiers;
        QPointingDevice_ptr]];
    Cls [VALUE_TYPE_QTGUI_QICON; VALUE_TYPE_QTGUI_QPIXMAP] QIcon [[]; [QPixmap]; [QIcon]; [QString]]
  ].

Definition value_constructors_qtgui_3 : constructor_shard :=
  ConstructorShard QtGui "KRY_QT6_NATIVE_VALUE_CONSTRUCTORS_QTGUI_"
    (value_constructors_qtgui_3_i0)
    (value_constructors_qtgui_3_r0 ++ value_constructors_qtgui_3_r1 ++ value_constructors_qtgui_3_r2)
    (value_constructors_qtgui_3_c0).

Definition value_constructors_qtgui_4_i0 : list include :=
  [
    ClassInclude QtGui QIconDragEvent QIconDragEvent;
    ClassInclude QtGui QIconEngine QIconEngine;
    ClassInclude QtGui QImage QImage;
    ClassInclude QtGui QImageIOHandler QImageIOHandler;
    ClassInclude QtGui QImageReader QImageReader;
    ClassInclude QtGui QImageWriter QImageWriter;
    ClassInclude QtGui QInputMethodEvent QInputMethodEvent;
    ClassInclude QtGui QInputMethodQueryEvent QInputMethodQueryEvent;
    TypeInclude QtCore QIODevice TYPE_QTCORE_QIODEVICE;
    EnumDefine ENUM_QT_INPUTMETHODQUERIES;
    TypeInclude QtGui QImage TYPE_QTGUI_QIMAGE;
    TypeInclude QtGui QInputMethodEvent TYPE_QTGUI_QINPUTMETHODEVENT;
    TypeInclude QtCore QByteArray VALUE_TYPE_QTCORE_QBYTEARRAY;
    TypeInclude QtCore QSize VALUE_TYPE_QTCORE_QSIZE;
    TypeInclude QtGui QImage VALUE_TYPE_QTGUI_QIMAGE
  ].

Definition value_constructors_qtgui_4_r0 : list constructor_row :=
  [
    Ctor QIconDragEvent 0 [Cand [] [] None];
    Ctor QIconEngine 0 [Cand [] [] None];
    Ctor QImage 0 [Cand [] [] None];
    Ctor QImage 1 [Cand [VALUE_TYPE_QTGUI_QIMAGE] [PValue QImage] None];
    Ctor QImage 2 [Cand [TYPE_QTGUI_QIMAGE; VALUE_TYPE_QTCORE_QSIZE] [PValue QSize; PValue QImage_Format]
        None];
    Ctor QImage 3 [Cand [TYPE_QTGUI_QIMAGE] [PInt; PInt; PValue QImage_Format] None];
    Ctor QImageIOHandler 0 [Cand [] [] None];
    Ctor QImageReader 0 [Cand [] [] None]
  ].

Definition value_constructors_qtgui_4_r1 : list constructor_row :=
  [
    Ctor QImageReader 1 [Cand [TYPE_QTCORE_QIODEVICE; VALUE_TYPE_QTCORE_QBYTEARRAY] [PObject QIODevice
        false] None; Cand [VALUE_TYPE_QTCORE_QBYTEARRAY] [PString false] None];
    Ctor QImageReader 2 [Cand [TYPE_QTCORE_QIODEVICE; VALUE_TYPE_QTCORE_QBYTEARRAY] [PObject QIODevice
        false; PValue QByteArray] None; Cand [VALUE_TYPE_QTCORE_QBYTEARRAY] [PString false; PValue
        QByteArray] None];
    Ctor QImageWriter 0 [Cand [] [] None];
    Ctor QImageWriter 1 [Cand [VALUE_TYPE_QTCORE_QBYTEARRAY] [PString false] None];
    Ctor QImageWriter 2 [Cand [TYPE_QTCORE_QIODEVICE; VALUE_TYPE_QTCORE_QBYTEARRAY] [PObject QIODevice
        false; PValue QByteArray] None; Cand [VALUE_TYPE_QTCORE_QBYTEARRAY] [PString false; PValue
        QByteArray] None]
  ].

Definition value_constructors_qtgui_4_r2 : list constructor_row :=
  [
    Ctor QInputMethodEvent 0 [Cand [] [] None];
    Ctor QInputMethodEvent 2 [Cand [TYPE_QTGUI_QINPUTMETHODEVENT] [PString false; PList (IValue
        QInputMethodEvent_Attribute)] None];
    Ctor QInputMethodQueryEvent 1 [Cand [ENUM_QT_INPUTMETHODQUERIES] [PValue Qt_InputMethodQueries] None]
  ].

Definition value_constructors_qtgui_4_c0 : list class_row :=
  [
    Cls [] QIconDragEvent [[]];
    Cls [] QIconEngine [[]];
    Cls [TYPE_QTGUI_QIMAGE; VALUE_TYPE_QTCORE_QSIZE; VALUE_TYPE_QTGUI_QIMAGE] QImage [[]; [QSize;
        QImage_Format]; [cxx_int; cxx_int; QImage_Format]; [QImage]];
    Cls [] QImageIOHandler [[]];
    Cls [TYPE_QTCORE_QIODEVICE; VALUE_TYPE_QTCORE_QBYTEARRAY] QImageReader [[]; [QIODevice_ptr;
        QByteArray]; [QString; QByteArray]];
    Cls [TYPE_QTCORE_QIODEVICE; VALUE_TYPE_QTCORE_QBYTEARRAY] QImageWriter [[]; [QIODevice_ptr;
        QByteArray]; [QString; QByteArray]];
    Cls [TYPE_QTGUI_QINPUTMETHODEVENT] QInputMethodEvent [[]; [QString; QList_QInputMethodEvent_Attribute]];
    Cls [ENUM_QT_INPUTMETHODQUERIES] QInputMethodQueryEvent [[Qt_InputMethodQueries]]
  ].

Definition value_constructors_qtgui_4 : constructor_shard :=
  ConstructorShard QtGui "KRY_QT6_NATIVE_VALUE_CONSTRUCTORS_QTGUI_"
    (value_constructors_qtgui_4_i0)
    (value_constructors_qtgui_4_r0 ++ value_constructors_qtgui_4_r1 ++ value_constructors_qtgui_4_r2)
    (value_constructors_qtgui_4_c0).

Definition value_constructors_qtgui_5_i0 : list include :=
  [
    ClassInclude QtGui QKeySequence QKeySequence;
    ClassInclude QtGui QLinearGradient QLinearGradient;
    ClassInclude QtGui QMatrix2x2 QMatrix2x2;
    ClassInclude QtGui QMatrix2x3 QMatrix2x3;
    ClassInclude QtGui QMatrix2x4 QMatrix2x4;
    ClassInclude QtGui QMatrix3x2 QMatrix3x2;
    ClassInclude QtGui QMatrix3x3 QMatrix3x3;
    ClassInclude QtGui QMatrix3x4 QMatrix3x4;
    TypeInclude QtGui QKeySequence TYPE_QTGUI_QKEYSEQUENCE;
    TypeInclude QtCore QKeyCombination VALUE_TYPE_QTCORE_QKEYCOMBINATION;
    TypeInclude QtCore QPointF VALUE_TYPE_QTCORE_QPOINTF;
    TypeInclude QtGui QKeySequence VALUE_TYPE_QTGUI_QKEYSEQUENCE;
    TypeInclude QtGui QMatrix2x2 VALUE_TYPE_QTGUI_QMATRIX2X2;
    TypeInclude QtGui QMatrix2x3 VALUE_TYPE_QTGUI_QMATRIX2X3;
    TypeInclude QtGui QMatrix2x4 VALUE_TYPE_QTGUI_QMATRIX2X4;
    TypeInclude QtGui QMatrix3x2 VALUE_TYPE_QTGUI_QMATRIX3X2;
    TypeInclude QtGui QMatrix3x3 VALUE_TYPE_QTGUI_QMATRIX3X3;
    TypeInclude QtGui QMatrix3x4 VALUE_TYPE_QTGUI_QMATRIX3X4
  ].

Definition value_constructors_qtgui_5_r0 : list constructor_row :=
  [
    Ctor QKeySequence 0 [Cand [] [] None];
    Ctor QKeySequence 1 [Cand [VALUE_TYPE_QTGUI_QKEYSEQUENCE] [PValue QKeySequence] None; Cand
        [TYPE_QTGUI_QKEYSEQUENCE] [PValue QKeySequence_StandardKey] None; Cand [TYPE_QTGUI_QKEYSEQUENCE]
        [PString false] None; Cand [] [PInt] None; Cand [VALUE_TYPE_QTCORE_QKEYCOMBINATION] [PValue
        QKeyCombination] None];
    Ctor QKeySequence 2 [Cand [TYPE_QTGUI_QKEYSEQUENCE] [PString false; PValue QKeySequence_SequenceFormat]
        None; Cand [] [PInt; PInt] None; Cand [VALUE_TYPE_QTCORE_QKEYCOMBINATION] [PValue QKeyCombination;
        PValue QKeyCombination] None]
  ].

Definition value_constructors_qtgui_5_r1 : list constructor_row :=
  [
    Ctor QKeySequence 3 [Cand [] [PInt; PInt; PInt] None; Cand [VALUE_TYPE_QTCORE_QKEYCOMBINATION] [PValue
        QKeyCombination; PValue QKeyCombination; PValue QKeyCombination] None];
    Ctor QKeySequence 4 [Cand [] [PInt; PInt; PInt; PInt] None; Cand [VALUE_TYPE_QTCORE_QKEYCOMBINATION]
        [PValue QKeyCombination; PValue QKeyCombination; PValue QKeyCombination; PValue QKeyCombination]
        None];
    Ctor QLinearGradient 0 [Cand [] [] None];
    Ctor QLinearGradient 2 [Cand [VALUE_TYPE_QTCORE_QPOINTF] [PValue QPointF; PValue QPointF] None];
    Ctor QLinearGradient 4 [Cand [] [PNumber cxx_qreal; PNumber cxx_qreal; PNumber cxx_qreal; PNumber
        cxx_qreal] None]
  ].

Definition value_constructors_qtgui_5_r2 : list constructor_row :=
  [
    Ctor QMatrix2x2 0 [Cand [] [] None];
    Ctor QMatrix2x2 1 [Cand [VALUE_TYPE_QTGUI_QMATRIX2X2] [PValue QMatrix2x2] None];
    Ctor QMatrix2x3 0 [Cand [] [] None];
    Ctor QMatrix2x3 1 [Cand [VALUE_TYPE_QTGUI_QMATRIX2X3] [PValue QMatrix2x3] None];
    Ctor QMatrix2x4 0 [Cand [] [] None];
    Ctor QMatrix2x4 1 [Cand [VALUE_TYPE_QTGUI_QMATRIX2X4] [PValue QMatrix2x4] None];
    Ctor QMatrix3x2 0 [Cand [] [] None];
    Ctor QMatrix3x2 1 [Cand [VALUE_TYPE_QTGUI_QMATRIX3X2] [PValue QMatrix3x2] None];
    Ctor QMatrix3x3 0 [Cand [] [] None]
  ].

Definition value_constructors_qtgui_5_r3 : list constructor_row :=
  [
    Ctor QMatrix3x3 1 [Cand [VALUE_TYPE_QTGUI_QMATRIX3X3] [PValue QMatrix3x3] None];
    Ctor QMatrix3x4 0 [Cand [] [] None];
    Ctor QMatrix3x4 1 [Cand [VALUE_TYPE_QTGUI_QMATRIX3X4] [PValue QMatrix3x4] None]
  ].

Definition value_constructors_qtgui_5_c0 : list class_row :=
  [
    Cls [TYPE_QTGUI_QKEYSEQUENCE; VALUE_TYPE_QTCORE_QKEYCOMBINATION; VALUE_TYPE_QTGUI_QKEYSEQUENCE]
        QKeySequence [[]; [QKeySequence]; [QKeySequence_StandardKey]; [QString;
        QKeySequence_SequenceFormat]; [cxx_int; cxx_int; cxx_int; cxx_int]; [QKeyCombination;
        QKeyCombination; QKeyCombination; QKeyCombination]];
    Cls [VALUE_TYPE_QTCORE_QPOINTF] QLinearGradient [[]; [QPointF; QPointF]; [cxx_qreal; cxx_qreal;
        cxx_qreal; cxx_qreal]];
    Cls [VALUE_TYPE_QTGUI_QMATRIX2X2] QMatrix2x2 [[]; [QMatrix2x2]];
    Cls [VALUE_TYPE_QTGUI_QMATRIX2X3] QMatrix2x3 [[]; [QMatrix2x3]];
    Cls [VALUE_TYPE_QTGUI_QMATRIX2X4] QMatrix2x4 [[]; [QMatrix2x4]];
    Cls [VALUE_TYPE_QTGUI_QMATRIX3X2] QMatrix3x2 [[]; [QMatrix3x2]];
    Cls [VALUE_TYPE_QTGUI_QMATRIX3X3] QMatrix3x3 [[]; [QMatrix3x3]];
    Cls [VALUE_TYPE_QTGUI_QMATRIX3X4] QMatrix3x4 [[]; [QMatrix3x4]]
  ].

Definition value_constructors_qtgui_5 : constructor_shard :=
  ConstructorShard QtGui "KRY_QT6_NATIVE_VALUE_CONSTRUCTORS_QTGUI_"
    (value_constructors_qtgui_5_i0)
    (value_constructors_qtgui_5_r0 ++ value_constructors_qtgui_5_r1 ++ value_constructors_qtgui_5_r2 ++
        value_constructors_qtgui_5_r3)
    (value_constructors_qtgui_5_c0).

Definition value_constructors_qtgui_6_i0 : list include :=
  [
    ClassInclude QtGui QMatrix4x2 QMatrix4x2;
    ClassInclude QtGui QMatrix4x3 QMatrix4x3;
    ClassInclude QtGui QMatrix4x4 QMatrix4x4;
    ClassInclude QtGui QMouseEvent QMouseEvent;
    ClassInclude QtGui QMoveEvent QMoveEvent;
    ClassInclude QtGui QNativeGestureEvent QNativeGestureEvent;
    ClassInclude QtGui QPageLayout QPageLayout;
    ClassInclude QtGui QPageRanges QPageRanges;
    TypeInclude QtGui QPointingDevice TYPE_QTGUI_QPOINTINGDEVICE;
    EnumDefine ENUM_QT_KEYBOARDMODIFIERS;
    EnumDefine ENUM_QT_MOUSEBUTTON;
    EnumDefine ENUM_QT_MOUSEBUTTONS;
    EnumDefine ENUM_QT_NATIVEGESTURETYPE;
    TypeInclude QtCore QEvent TYPE_QTCORE_QEVENT;
    TypeInclude QtGui QPageLayout TYPE_QTGUI_QPAGELAYOUT;
    TypeInclude QtCore QMarginsF VALUE_TYPE_QTCORE_QMARGINSF;
    TypeInclude QtCore QPoint VALUE_TYPE_QTCORE_QPOINT;
    TypeInclude QtCore QPointF VALUE_TYPE_QTCORE_QPOINTF;
    TypeInclude QtGui QMatrix4x2 VALUE_TYPE_QTGUI_QMATRIX4X2;
    TypeInclude QtGui QMatrix4x3 VALUE_TYPE_QTGUI_QMATRIX4X3;
    TypeInclude QtGui QPageLayout VALUE_TYPE_QTGUI_QPAGELAYOUT;
    TypeInclude QtGui QPageRanges VALUE_TYPE_QTGUI_QPAGERANGES;
    TypeInclude QtGui QPageSize VALUE_TYPE_QTGUI_QPAGESIZE;
    TypeInclude QtGui QTransform VALUE_TYPE_QTGUI_QTRANSFORM
  ].

Definition value_constructors_qtgui_6_r0 : list constructor_row :=
  [
    Ctor QMatrix4x2 0 [Cand [] [] None];
    Ctor QMatrix4x2 1 [Cand [VALUE_TYPE_QTGUI_QMATRIX4X2] [PValue QMatrix4x2] None];
    Ctor QMatrix4x3 0 [Cand [] [] None];
    Ctor QMatrix4x3 1 [Cand [VALUE_TYPE_QTGUI_QMATRIX4X3] [PValue QMatrix4x3] None];
    Ctor QMatrix4x4 0 [Cand [] [] None];
    Ctor QMatrix4x4 1 [Cand [VALUE_TYPE_QTGUI_QTRANSFORM] [PValue QTransform] None];
    Ctor QMatrix4x4 16 [Cand [] [PNumber cxx_float; PNumber cxx_float; PNumber cxx_float; PNumber
        cxx_float; PNumber cxx_float; PNumber cxx_float; PNumber cxx_float; PNumber cxx_float; PNumber
        cxx_float; PNumber cxx_float; PNumber cxx_float; PNumber cxx_float; PNumber cxx_float; PNumber
        cxx_float; PNumber cxx_float; PNumber cxx_float] None]
  ].

Definition value_constructors_qtgui_6_r1 : list constructor_row :=
  [
    Ctor QMouseEvent 5 [Cand [ENUM_QT_KEYBOARDMODIFIERS; ENUM_QT_MOUSEBUTTON; ENUM_QT_MOUSEBUTTONS;
        TYPE_QTCORE_QEVENT; TYPE_QTGUI_QPOINTINGDEVICE; VALUE_TYPE_QTCORE_QPOINTF] [PValue QEvent_Type;
        PValue QPointF; PValue Qt_MouseButton; PValue Qt_MouseButtons; PValue Qt_KeyboardModifiers] None];
    Ctor QMouseEvent 6 [Cand [ENUM_QT_KEYBOARDMODIFIERS; ENUM_QT_MOUSEBUTTON; ENUM_QT_MOUSEBUTTONS;
        TYPE_QTCORE_QEVENT; TYPE_QTGUI_QPOINTINGDEVICE; VALUE_TYPE_QTCORE_QPOINTF] [PValue QEvent_Type;
        PValue QPointF; PValue Qt_MouseButton; PValue Qt_MouseButtons; PValue Qt_KeyboardModifiers; PObject
        QPointingDevice false] None; Cand [ENUM_QT_KEYBOARDMODIFIERS; ENUM_QT_MOUSEBUTTON;
        ENUM_QT_MOUSEBUTTONS; TYPE_QTCORE_QEVENT; TYPE_QTGUI_QPOINTINGDEVICE; VALUE_TYPE_QTCORE_QPOINTF]
        [PValue QEvent_Type; PValue QPointF; PValue QPointF; PValue Qt_MouseButton; PValue Qt_MouseButtons;
        PValue Qt_KeyboardModifiers] None];
    Ctor QMouseEvent 7 [Cand [ENUM_QT_KEYBOARDMODIFIERS; ENUM_QT_MOUSEBUTTON; ENUM_QT_MOUSEBUTTONS;
        TYPE_QTCORE_QEVENT; TYPE_QTGUI_QPOINTINGDEVICE; VALUE_TYPE_QTCORE_QPOINTF] [PValue QEvent_Type;
        PValue QPointF; PValue QPointF; PValue Qt_MouseButton; PValue Qt_MouseButtons; PValue
        Qt_KeyboardModifiers; PObject QPointingDevice false] None; Cand [ENUM_QT_KEYBOARDMODIFIERS;
        ENUM_QT_MOUSEBUTTON; ENUM_QT_MOUSEBUTTONS; TYPE_QTCORE_QEVENT; TYPE_QTGUI_QPOINTINGDEVICE;
        VALUE_TYPE_QTCORE_QPOINTF] [PValue QEvent_Type; PValue QPointF; PValue QPointF; PValue QPointF;
        PValue Qt_MouseButton; PValue Qt_MouseButtons; PValue Qt_KeyboardModifiers] None]
  ].

Definition value_constructors_qtgui_6_r2 : list constructor_row :=
  [
    Ctor QMouseEvent 8 [Cand [ENUM_QT_KEYBOARDMODIFIERS; ENUM_QT_MOUSEBUTTON; ENUM_QT_MOUSEBUTTONS;
        TYPE_QTCORE_QEVENT; TYPE_QTGUI_QPOINTINGDEVICE; VALUE_TYPE_QTCORE_QPOINTF] [PValue QEvent_Type;
        PValue QPointF; PValue QPointF; PValue QPointF; PValue Qt_MouseButton; PValue Qt_MouseButtons;
        PValue Qt_KeyboardModifiers; PObject QPointingDevice false] None];
    Ctor QMoveEvent 2 [Cand [VALUE_TYPE_QTCORE_QPOINT] [PValue QPoint; PValue QPoint] None];
    Ctor QNativeGestureEvent 8 [Cand [ENUM_QT_NATIVEGESTURETYPE; TYPE_QTGUI_QPOINTINGDEVICE;
        VALUE_TYPE_QTCORE_QPOINTF] [PValue Qt_NativeGestureType; PObject QPointingDevice false; PInt;
        PValue QPointF; PValue QPointF; PValue QPointF; PNumber cxx_qreal; PValue QPointF] None; Cand
        [ENUM_QT_NATIVEGESTURETYPE; TYPE_QTGUI_QPOINTINGDEVICE; VALUE_TYPE_QTCORE_QPOINTF] [PValue
        Qt_NativeGestureType; PObject QPointingDevice false; PValue QPointF; PValue QPointF; PValue
        QPointF; PNumber cxx_qreal; PMeta cxx_quint64; PMeta cxx_quint64] None];
    Ctor QNativeGestureEvent 9 [Cand [ENUM_QT_NATIVEGESTURETYPE; TYPE_QTGUI_QPOINTINGDEVICE;
        VALUE_TYPE_QTCORE_QPOINTF] [PValue Qt_NativeGestureType; PObject QPointingDevice false; PInt;
        PValue QPointF; PValue QPointF; PValue QPointF; PNumber cxx_qreal; PValue QPointF; PMeta
        cxx_quint64] None]
  ].

Definition value_constructors_qtgui_6_r3 : list constructor_row :=
  [
    Ctor QPageLayout 0 [Cand [] [] None];
    Ctor QPageLayout 1 [Cand [VALUE_TYPE_QTGUI_QPAGELAYOUT] [PValue QPageLayout] None];
    Ctor QPageLayout 3 [Cand [TYPE_QTGUI_QPAGELAYOUT; VALUE_TYPE_QTCORE_QMARGINSF;
        VALUE_TYPE_QTGUI_QPAGESIZE] [PValue QPageSize; PValue QPageLayout_Orientation; PValue QMarginsF]
        None];
    Ctor QPageLayout 4 [Cand [TYPE_QTGUI_QPAGELAYOUT; VALUE_TYPE_QTCORE_QMARGINSF;
        VALUE_TYPE_QTGUI_QPAGESIZE] [PValue QPageSize; PValue QPageLayout_Orientation; PValue QMarginsF;
        PValue QPageLayout_Unit] None];
    Ctor QPageLayout 5 [Cand [TYPE_QTGUI_QPAGELAYOUT; VALUE_TYPE_QTCORE_QMARGINSF;
        VALUE_TYPE_QTGUI_QPAGESIZE] [PValue QPageSize; PValue QPageLayout_Orientation; PValue QMarginsF;
        PValue QPageLayout_Unit; PValue QMarginsF] None];
    Ctor QPageRanges 0 [Cand [] [] None];
    Ctor QPageRanges 1 [Cand [VALUE_TYPE_QTGUI_QPAGERANGES] [PValue QPageRanges] None]
  ].

Definition value_constructors_qtgui_6_c0 : list class_row :=
  [
    Cls [VALUE_TYPE_QTGUI_QMATRIX4X2] QMatrix4x2 [[]; [QMatrix4x2]];
    Cls [VALUE_TYPE_QTGUI_QMATRIX4X3] QMatrix4x3 [[]; [QMatrix4x3]];
    Cls [VALUE_TYPE_QTGUI_QTRANSFORM] QMatrix4x4 [[]; [cxx_float; cxx_float; cxx_float; cxx_float;
        cxx_float; cxx_float; cxx_float; cxx_float; cxx_float; cxx_float; cxx_float; cxx_float; cxx_float;
        cxx_float; cxx_float; cxx_float]; [QTransform]];
    Cls [ENUM_QT_KEYBOARDMODIFIERS; ENUM_QT_MOUSEBUTTON; ENUM_QT_MOUSEBUTTONS; TYPE_QTCORE_QEVENT;
        TYPE_QTGUI_QPOINTINGDEVICE; VALUE_TYPE_QTCORE_QPOINTF] QMouseEvent [[QEvent_Type; QPointF;
        Qt_MouseButton; Qt_MouseButtons; Qt_KeyboardModifiers; QPointingDevice_ptr]; [QEvent_Type; QPointF;
        QPointF; Qt_MouseButton; Qt_MouseButtons; Qt_KeyboardModifiers; QPointingDevice_ptr]; [QEvent_Type;
        QPointF; QPointF; QPointF; Qt_MouseButton; Qt_MouseButtons; Qt_KeyboardModifiers;
        QPointingDevice_ptr]];
    Cls [VALUE_TYPE_QTCORE_QPOINT] QMoveEvent [[QPoint; QPoint]];
    Cls [ENUM_QT_NATIVEGESTURETYPE; TYPE_QTGUI_QPOINTINGDEVICE; VALUE_TYPE_QTCORE_QPOINTF]
        QNativeGestureEvent [[Qt_NativeGestureType; QPointingDevice_ptr; cxx_int; QPointF; QPointF;
        QPointF; cxx_qreal; QPointF; cxx_quint64]; [Qt_NativeGestureType; QPointingDevice_ptr; QPointF;
        QPointF; QPointF; cxx_qreal; cxx_quint64; cxx_quint64]];
    Cls [TYPE_QTGUI_QPAGELAYOUT; VALUE_TYPE_QTCORE_QMARGINSF; VALUE_TYPE_QTGUI_QPAGELAYOUT;
        VALUE_TYPE_QTGUI_QPAGESIZE] QPageLayout [[]; [QPageSize; QPageLayout_Orientation; QMarginsF;
        QPageLayout_Unit; QMarginsF]; [QPageLayout]];
    Cls [VALUE_TYPE_QTGUI_QPAGERANGES] QPageRanges [[]; [QPageRanges]]
  ].

Definition value_constructors_qtgui_6 : constructor_shard :=
  ConstructorShard QtGui "KRY_QT6_NATIVE_VALUE_CONSTRUCTORS_QTGUI_"
    (value_constructors_qtgui_6_i0)
    (value_constructors_qtgui_6_r0 ++ value_constructors_qtgui_6_r1 ++ value_constructors_qtgui_6_r2 ++
        value_constructors_qtgui_6_r3)
    (value_constructors_qtgui_6_c0).

Definition value_constructors_qtgui_7_i0 : list include :=
  [
    ClassInclude QtGui QPageSize QPageSize;
    ClassInclude QtGui QPaintEngine QPaintEngine;
    ClassInclude QtGui QPaintEvent QPaintEvent;
    ClassInclude QtGui QPainter QPainter;
    ClassInclude QtGui QPainterPath QPainterPath;
    ClassInclude QtGui QPainterPathStroker QPainterPathStroker;
    ClassInclude QtGui QPalette QPalette;
    ClassInclude QtGui QPdfOutputIntent QPdfOutputIntent;
    EnumDefine ENUM_QT_GLOBALCOLOR;
    TypeInclude QtGui QPageSize TYPE_QTGUI_QPAGESIZE;
    TypeInclude QtGui QPaintEngine TYPE_QTGUI_QPAINTENGINE;
    TypeInclude QtCore QPointF VALUE_TYPE_QTCORE_QPOINTF;
    TypeInclude QtCore QRect VALUE_TYPE_QTCORE_QRECT;
    TypeInclude QtCore QSize VALUE_TYPE_QTCORE_QSIZE;
    TypeInclude QtCore QSizeF VALUE_TYPE_QTCORE_QSIZEF;
    TypeInclude QtGui QBrush VALUE_TYPE_QTGUI_QBRUSH;
    TypeInclude QtGui QColor VALUE_TYPE_QTGUI_QCOLOR;
    TypeInclude QtGui QPageSize VALUE_TYPE_QTGUI_QPAGESIZE;
    TypeInclude QtGui QPainterPath VALUE_TYPE_QTGUI_QPAINTERPATH;
    TypeInclude QtGui QPalette VALUE_TYPE_QTGUI_QPALETTE;
    TypeInclude QtGui QPdfOutputIntent VALUE_TYPE_QTGUI_QPDFOUTPUTINTENT;
    TypeInclude QtGui QPen VALUE_TYPE_QTGUI_QPEN;
    TypeInclude QtGui QRegion VALUE_TYPE_QTGUI_QREGION
  ].

Definition value_constructors_qtgui_7_r0 : list constructor_row :=
  [
    Ctor QPageSize 0 [Cand [] [] None];
    Ctor QPageSize 1 [Cand [TYPE_QTGUI_QPAGESIZE] [PValue QPageSize_PageSizeId] None; Cand
        [TYPE_QTGUI_QPAGESIZE; VALUE_TYPE_QTCORE_QSIZE] [PValue QSize] None; Cand
        [VALUE_TYPE_QTGUI_QPAGESIZE] [PValue QPageSize] None];
    Ctor QPageSize 2 [Cand [TYPE_QTGUI_QPAGESIZE; VALUE_TYPE_QTCORE_QSIZE] [PValue QSize; PString false]
        None; Cand [TYPE_QTGUI_QPAGESIZE; VALUE_TYPE_QTCORE_QSIZEF] [PValue QSizeF; PValue QPageSize_Unit]
        None];
    Ctor QPageSize 3 [Cand [TYPE_QTGUI_QPAGESIZE; VALUE_TYPE_QTCORE_QSIZE] [PValue QSize; PString false;
        PValue QPageSize_SizeMatchPolicy] None; Cand [TYPE_QTGUI_QPAGESIZE; VALUE_TYPE_QTCORE_QSIZEF]
        [PValue QSizeF; PValue QPageSize_Unit; PString false] None]
  ].

Definition value_constructors_qtgui_7_r1 : list constructor_row :=
  [
    Ctor QPageSize 4 [Cand [TYPE_QTGUI_QPAGESIZE; VALUE_TYPE_QTCORE_QSIZEF] [PValue QSizeF; PValue
        QPageSize_Unit; PString false; PValue QPageSize_SizeMatchPolicy] None];
    Ctor QPaintEngine 0 [Cand [TYPE_QTGUI_QPAINTENGINE] [] None];
    Ctor QPaintEngine 1 [Cand [TYPE_QTGUI_QPAINTENGINE] [PValue QPaintEngine_PaintEngineFeatures] None];
    Ctor QPaintEvent 1 [Cand [VALUE_TYPE_QTGUI_QREGION] [PValue QRegion] None; Cand
        [VALUE_TYPE_QTCORE_QRECT] [PValue QRect] None];
    Ctor QPainter 0 [Cand [] [] None];
    Ctor QPainterPath 0 [Cand [] [] None]
  ].

Definition value_constructors_qtgui_7_r2 : list constructor_row :=
  [
    Ctor QPainterPath 1 [Cand [VALUE_TYPE_QTCORE_QPOINTF] [PValue QPointF] None; Cand
        [VALUE_TYPE_QTGUI_QPAINTERPATH] [PValue QPainterPath] None];
    Ctor QPainterPathStroker 0 [Cand [] [] None];
    Ctor QPainterPathStroker 1 [Cand [VALUE_TYPE_QTGUI_QPEN] [PValue QPen] None];
    Ctor QPalette 0 [Cand [] [] None];
    Ctor QPalette 1 [Cand [VALUE_TYPE_QTGUI_QCOLOR] [PValue QColor] None; Cand [ENUM_QT_GLOBALCOLOR]
        [PValue Qt_GlobalColor] None; Cand [VALUE_TYPE_QTGUI_QPALETTE] [PValue QPalette] None];
    Ctor QPalette 2 [Cand [VALUE_TYPE_QTGUI_QCOLOR] [PValue QColor; PValue QColor] None]
  ].

Definition value_constructors_qtgui_7_r3 : list constructor_row :=
  [
    Ctor QPalette 9 [Cand [VALUE_TYPE_QTGUI_QBRUSH] [PValue QBrush; PValue QBrush; PValue QBrush; PValue
        QBrush; PValue QBrush; PValue QBrush; PValue QBrush; PValue QBrush; PValue QBrush] None];
    Ctor QPdfOutputIntent 0 [Cand [] [] None];
    Ctor QPdfOutputIntent 1 [Cand [VALUE_TYPE_QTGUI_QPDFOUTPUTINTENT] [PValue QPdfOutputIntent] None]
  ].

Definition value_constructors_qtgui_7_c0 : list class_row :=
  [
    Cls [TYPE_QTGUI_QPAGESIZE; VALUE_TYPE_QTCORE_QSIZE; VALUE_TYPE_QTCORE_QSIZEF;
        VALUE_TYPE_QTGUI_QPAGESIZE] QPageSize [[]; [QPageSize_PageSizeId]; [QSize; QString;
        QPageSize_SizeMatchPolicy]; [QSizeF; QPageSize_Unit; QString; QPageSize_SizeMatchPolicy];
        [QPageSize]];
    Cls [TYPE_QTGUI_QPAINTENGINE] QPaintEngine [[QPaintEngine_PaintEngineFeatures]];
    Cls [VALUE_TYPE_QTCORE_QRECT; VALUE_TYPE_QTGUI_QREGION] QPaintEvent [[QRegion]; [QRect]];
    Cls [] QPainter [[]];
    Cls [VALUE_TYPE_QTCORE_QPOINTF; VALUE_TYPE_QTGUI_QPAINTERPATH] QPainterPath [[]; [QPointF];
        [QPainterPath]];
    Cls [VALUE_TYPE_QTGUI_QPEN] QPainterPathStroker [[]; [QPen]];
    Cls [ENUM_QT_GLOBALCOLOR; VALUE_TYPE_QTGUI_QBRUSH; VALUE_TYPE_QTGUI_QCOLOR; VALUE_TYPE_QTGUI_QPALETTE]
        QPalette [[]; [QColor]; [Qt_GlobalColor]; [QColor; QColor]; [QBrush; QBrush; QBrush; QBrush;
        QBrush; QBrush; QBrush; QBrush; QBrush]; [QPalette]];
    Cls [VALUE_TYPE_QTGUI_QPDFOUTPUTINTENT] QPdfOutputIntent [[]; [QPdfOutputIntent]]
  ].

Definition value_constructors_qtgui_7 : constructor_shard :=
  ConstructorShard QtGui "KRY_QT6_NATIVE_VALUE_CONSTRUCTORS_QTGUI_"
    (value_constructors_qtgui_7_i0)
    (value_constructors_qtgui_7_r0 ++ value_constructors_qtgui_7_r1 ++ value_constructors_qtgui_7_r2 ++
        value_constructors_qtgui_7_r3)
    (value_constructors_qtgui_7_c0).

Definition value_constructors_qtgui_8_i0 : list include :=
  [
    ClassInclude QtGui QPen QPen;
    ClassInclude QtGui QPicture QPicture;
    ClassInclude QtGui QPixelFormat QPixelFormat;
    ClassInclude QtGui QPixmap QPixmap;
    ClassInclude QtGui QPlatformSurfaceEvent QPlatformSurfaceEvent;
    ClassInclude QtGui QPointingDeviceUniqueId QPointingDeviceUniqueId;
    ClassInclude QtGui QPolygon QPolygon;
    ClassInclude QtGui QPolygonF QPolygonF;
    EnumDefine ENUM_QT_PENCAPSTYLE;
    EnumDefine ENUM_QT_PENJOINSTYLE;
    EnumDefine ENUM_QT_PENSTYLE;
    TypeInclude QtGui QPlatformSurfaceEvent TYPE_QTGUI_QPLATFORMSURFACEEVENT;
    TypeInclude QtCore QPoint VALUE_TYPE_QTCORE_QPOINT;
    TypeInclude QtCore QPointF VALUE_TYPE_QTCORE_QPOINTF;
    TypeInclude QtCore QRect VALUE_TYPE_QTCORE_QRECT;
    TypeInclude QtCore QRectF VALUE_TYPE_QTCORE_QRECTF;
    TypeInclude QtCore QSize VALUE_TYPE_QTCORE_QSIZE;
    TypeInclude QtGui QBrush VALUE_TYPE_QTGUI_QBRUSH;
    TypeInclude QtGui QPen VALUE_TYPE_QTGUI_QPEN;
    TypeInclude QtGui QPicture VALUE_TYPE_QTGUI_QPICTURE;
    TypeInclude QtGui QPixmap VALUE_TYPE_QTGUI_QPIXMAP;
    TypeInclude QtGui QPolygon VALUE_TYPE_QTGUI_QPOLYGON
  ].

Definition value_constructors_qtgui_8_r0 : list constructor_row :=
  [
    Ctor QPen 0 [Cand [] [] None];
    Ctor QPen 1 [Cand [ENUM_QT_PENSTYLE] [PValue Qt_PenStyle] None; Cand [VALUE_TYPE_QTGUI_QPEN] [PValue
        QPen] None];
    Ctor QPen 2 [Cand [ENUM_QT_PENCAPSTYLE; ENUM_QT_PENJOINSTYLE; ENUM_QT_PENSTYLE;
        VALUE_TYPE_QTGUI_QBRUSH] [PValue QBrush; PNumber cxx_qreal] None];
    Ctor QPen 3 [Cand [ENUM_QT_PENCAPSTYLE; ENUM_QT_PENJOINSTYLE; ENUM_QT_PENSTYLE;
        VALUE_TYPE_QTGUI_QBRUSH] [PValue QBrush; PNumber cxx_qreal; PValue Qt_PenStyle] None];
    Ctor QPen 4 [Cand [ENUM_QT_PENCAPSTYLE; ENUM_QT_PENJOINSTYLE; ENUM_QT_PENSTYLE;
        VALUE_TYPE_QTGUI_QBRUSH] [PValue QBrush; PNumber cxx_qreal; PValue Qt_PenStyle; PValue
        Qt_PenCapStyle] None];
    Ctor QPen 5 [Cand [ENUM_QT_PENCAPSTYLE; ENUM_QT_PENJOINSTYLE; ENUM_QT_PENSTYLE;
        VALUE_TYPE_QTGUI_QBRUSH] [PValue QBrush; PNumber cxx_qreal; PValue Qt_PenStyle; PValue
        Qt_PenCapStyle; PValue Qt_PenJoinStyle] None]
  ].

Definition value_constructors_qtgui_8_r1 : list constructor_row :=
  [
    Ctor QPicture 0 [Cand [] [] None];
    Ctor QPicture 1 [Cand [] [PInt] None; Cand [VALUE_TYPE_QTGUI_QPICTURE] [PValue QPicture] None];
    Ctor QPixelFormat 0 [Cand [] [] None];
    Ctor QPixmap 0 [Cand [] [] None];
    Ctor QPixmap 1 [Cand [VALUE_TYPE_QTCORE_QSIZE] [PValue QSize] None; Cand [VALUE_TYPE_QTGUI_QPIXMAP]
        [PValue QPixmap] None];
    Ctor QPixmap 2 [Cand [] [PInt; PInt] None];
    Ctor QPlatformSurfaceEvent 1 [Cand [TYPE_QTGUI_QPLATFORMSURFACEEVENT] [PValue
        QPlatformSurfaceEvent_SurfaceEventType] None]
  ].

Definition value_constructors_qtgui_8_r2 : list constructor_row :=
  [
    Ctor QPointingDeviceUniqueId 0 [Cand [] [] None];
    Ctor QPolygon 0 [Cand [] [] None];
    Ctor QPolygon 1 [Cand [VALUE_TYPE_QTCORE_QRECT] [PValue QRect] None; Cand [VALUE_TYPE_QTCORE_QPOINT]
        [PList (IValue QPoint)] None];
    Ctor QPolygon 2 [Cand [VALUE_TYPE_QTCORE_QRECT] [PValue QRect; PBool] None];
    Ctor QPolygonF 0 [Cand [] [] None];
    Ctor QPolygonF 1 [Cand [VALUE_TYPE_QTCORE_QPOINTF] [PList (IValue QPointF)] None; Cand
        [VALUE_TYPE_QTCORE_QRECTF] [PValue QRectF] None; Cand [VALUE_TYPE_QTGUI_QPOLYGON] [PValue QPolygon]
        None]
  ].

Definition value_constructors_qtgui_8_c0 : list class_row :=
  [
    Cls [ENUM_QT_PENCAPSTYLE; ENUM_QT_PENJOINSTYLE; ENUM_QT_PENSTYLE; VALUE_TYPE_QTGUI_QBRUSH;
        VALUE_TYPE_QTGUI_QPEN] QPen [[]; [Qt_PenStyle]; [QBrush; cxx_qreal; Qt_PenStyle; Qt_PenCapStyle;
        Qt_PenJoinStyle]; [QPen]];
    Cls [VALUE_TYPE_QTGUI_QPICTURE] QPicture [[cxx_int]; [QPicture]];
    Cls [] QPixelFormat [[]];
    Cls [VALUE_TYPE_QTCORE_QSIZE; VALUE_TYPE_QTGUI_QPIXMAP] QPixmap [[]; [cxx_int; cxx_int]; [QSize];
        [QPixmap]];
    Cls [TYPE_QTGUI_QPLATFORMSURFACEEVENT] QPlatformSurfaceEvent [[QPlatformSurfaceEvent_SurfaceEventType]];
    Cls [] QPointingDeviceUniqueId [[]];
    Cls [VALUE_TYPE_QTCORE_QPOINT; VALUE_TYPE_QTCORE_QRECT] QPolygon [[]; [QRect; cxx_bool];
        [QList_QPoint]];
    Cls [VALUE_TYPE_QTCORE_QPOINTF; VALUE_TYPE_QTCORE_QRECTF; VALUE_TYPE_QTGUI_QPOLYGON] QPolygonF [[];
        [QList_QPointF]; [QRectF]; [QPolygon]]
  ].

Definition value_constructors_qtgui_8 : constructor_shard :=
  ConstructorShard QtGui "KRY_QT6_NATIVE_VALUE_CONSTRUCTORS_QTGUI_"
    (value_constructors_qtgui_8_i0)
    (value_constructors_qtgui_8_r0 ++ value_constructors_qtgui_8_r1 ++ value_constructors_qtgui_8_r2)
    (value_constructors_qtgui_8_c0).

Definition value_constructors_qtgui_9_i0 : list include :=
  [
    ClassInclude QtGui QQuaternion QQuaternion;
    ClassInclude QtGui QRadialGradient QRadialGradient;
    ClassInclude QtGui QRawFont QRawFont;
    ClassInclude QtGui QRegion QRegion;
    ClassInclude QtGui QResizeEvent QResizeEvent;
    ClassInclude QtGui QRgba64 QRgba64;
    ClassInclude QtGui QScrollEvent QScrollEvent;
    ClassInclude QtGui QScrollPrepareEvent QScrollPrepareEvent;
    EnumDefine ENUM_QT_FILLRULE;
    TypeInclude QtGui QFont TYPE_QTGUI_QFONT;
    TypeInclude QtGui QRegion TYPE_QTGUI_QREGION;
    TypeInclude QtGui QScrollEvent TYPE_QTGUI_QSCROLLEVENT;
    TypeInclude QtCore QByteArray VALUE_TYPE_QTCORE_QBYTEARRAY;
    TypeInclude QtCore QPointF VALUE_TYPE_QTCORE_QPOINTF;
    TypeInclude QtCore QRect VALUE_TYPE_QTCORE_QRECT;
    TypeInclude QtCore QSize VALUE_TYPE_QTCORE_QSIZE;
    TypeInclude QtGui QBitmap VALUE_TYPE_QTGUI_QBITMAP;
    TypeInclude QtGui QPolygon VALUE_TYPE_QTGUI_QPOLYGON;
    TypeInclude QtGui QRawFont VALUE_TYPE_QTGUI_QRAWFONT;
    TypeInclude QtGui QRegion VALUE_TYPE_QTGUI_QREGION;
    TypeInclude QtGui QVector3D VALUE_TYPE_QTGUI_QVECTOR3D;
    TypeInclude QtGui QVector4D VALUE_TYPE_QTGUI_QVECTOR4D
  ].

Definition value_constructors_qtgui_9_r0 : list constructor_row :=
  [
    Ctor QQuaternion 0 [Cand [] [] None];
    Ctor QQuaternion 1 [Cand [VALUE_TYPE_QTGUI_QVECTOR4D] [PValue QVector4D] None];
    Ctor QQuaternion 2 [Cand [VALUE_TYPE_QTGUI_QVECTOR3D] [PNumber cxx_float; PValue QVector3D] None];
    Ctor QQuaternion 4 [Cand [] [PNumber cxx_float; PNumber cxx_float; PNumber cxx_float; PNumber
        cxx_float] None];
    Ctor QRadialGradient 0 [Cand [] [] None];
    Ctor QRadialGradient 2 [Cand [VALUE_TYPE_QTCORE_QPOINTF] [PValue QPointF; PNumber cxx_qreal] None];
    Ctor QRadialGradient 3 [Cand [VALUE_TYPE_QTCORE_QPOINTF] [PValue QPointF; PNumber cxx_qreal; PValue
        QPointF] None; Cand [] [PNumber cxx_qreal; PNumber cxx_qreal; PNumber cxx_qreal] None]
  ].

Definition value_constructors_qtgui_9_r1 : list constructor_row :=
  [
    Ctor QRadialGradient 4 [Cand [VALUE_TYPE_QTCORE_QPOINTF] [PValue QPointF; PNumber cxx_qreal; PValue
        QPointF; PNumber cxx_qreal] None];
    Ctor QRadialGradient 5 [Cand [] [PNumber cxx_qreal; PNumber cxx_qreal; PNumber cxx_qreal; PNumber
        cxx_qreal; PNumber cxx_qreal] None];
    Ctor QRadialGradient 6 [Cand [] [PNumber cxx_qreal; PNumber cxx_qreal; PNumber cxx_qreal; PNumber
        cxx_qreal; PNumber cxx_qreal; PNumber cxx_qreal] None];
    Ctor QRawFont 0 [Cand [] [] None];
    Ctor QRawFont 1 [Cand [VALUE_TYPE_QTGUI_QRAWFONT] [PValue QRawFont] None];
    Ctor QRawFont 2 [Cand [TYPE_QTGUI_QFONT] [PString false; PNumber cxx_qreal] None; Cand
        [TYPE_QTGUI_QFONT; VALUE_TYPE_QTCORE_QBYTEARRAY] [PValue QByteArray; PNumber cxx_qreal] None]
  ].

Definition value_constructors_qtgui_9_r2 : list constructor_row :=
  [
    Ctor QRawFont 3 [Cand [TYPE_QTGUI_QFONT] [PString false; PNumber cxx_qreal; PValue
        QFont_HintingPreference] None; Cand [TYPE_QTGUI_QFONT; VALUE_TYPE_QTCORE_QBYTEARRAY] [PValue
        QByteArray; PNumber cxx_qreal; PValue QFont_HintingPreference] None];
    Ctor QRegion 0 [Cand [] [] None];
    Ctor QRegion 1 [Cand [TYPE_QTGUI_QREGION; VALUE_TYPE_QTCORE_QRECT] [PValue QRect] None; Cand
        [ENUM_QT_FILLRULE; VALUE_TYPE_QTGUI_QPOLYGON] [PValue QPolygon] None; Cand
        [VALUE_TYPE_QTGUI_QBITMAP] [PValue QBitmap] None; Cand [VALUE_TYPE_QTGUI_QREGION] [PValue QRegion]
        None];
    Ctor QRegion 2 [Cand [TYPE_QTGUI_QREGION; VALUE_TYPE_QTCORE_QRECT] [PValue QRect; PValue
        QRegion_RegionType] None; Cand [ENUM_QT_FILLRULE; VALUE_TYPE_QTGUI_QPOLYGON] [PValue QPolygon;
        PValue Qt_FillRule] None]
  ].

Definition value_constructors_qtgui_9_r3 : list constructor_row :=
  [
    Ctor QRegion 4 [Cand [TYPE_QTGUI_QREGION] [PInt; PInt; PInt; PInt] None];
    Ctor QRegion 5 [Cand [TYPE_QTGUI_QREGION] [PInt; PInt; PInt; PInt; PValue QRegion_RegionType] None];
    Ctor QResizeEvent 2 [Cand [VALUE_TYPE_QTCORE_QSIZE] [PValue QSize; PValue QSize] None];
    Ctor QRgba64 0 [Cand [] [] None];
    Ctor QScrollEvent 3 [Cand [TYPE_QTGUI_QSCROLLEVENT; VALUE_TYPE_QTCORE_QPOINTF] [PValue QPointF; PValue
        QPointF; PValue QScrollEvent_ScrollState] None];
    Ctor QScrollPrepareEvent 1 [Cand [VALUE_TYPE_QTCORE_QPOINTF] [PValue QPointF] None]
  ].

Definition value_constructors_qtgui_9_c0 : list class_row :=
  [
    Cls [VALUE_TYPE_QTGUI_QVECTOR3D; VALUE_TYPE_QTGUI_QVECTOR4D] QQuaternion [[]; [cxx_float; cxx_float;
        cxx_float; cxx_float]; [cxx_float; QVector3D]; [QVector4D]];
    Cls [VALUE_TYPE_QTCORE_QPOINTF] QRadialGradient [[]; [QPointF; cxx_qreal; QPointF]; [QPointF;
        cxx_qreal; QPointF; cxx_qreal]; [QPointF; cxx_qreal]; [cxx_qreal; cxx_qreal; cxx_qreal; cxx_qreal;
        cxx_qreal]; [cxx_qreal; cxx_qreal; cxx_qreal; cxx_qreal; cxx_qreal; cxx_qreal]; [cxx_qreal;
        cxx_qreal; cxx_qreal]];
    Cls [TYPE_QTGUI_QFONT; VALUE_TYPE_QTCORE_QBYTEARRAY; VALUE_TYPE_QTGUI_QRAWFONT] QRawFont [[]; [QString;
        cxx_qreal; QFont_HintingPreference]; [QByteArray; cxx_qreal; QFont_HintingPreference]; [QRawFont]];
    Cls [ENUM_QT_FILLRULE; TYPE_QTGUI_QREGION; VALUE_TYPE_QTCORE_QRECT; VALUE_TYPE_QTGUI_QBITMAP;
        VALUE_TYPE_QTGUI_QPOLYGON; VALUE_TYPE_QTGUI_QREGION] QRegion [[]; [cxx_int; cxx_int; cxx_int;
        cxx_int; QRegion_RegionType]; [QRect; QRegion_RegionType]; [QPolygon; Qt_FillRule]; [QBitmap];
        [QRegion]];
    Cls [VALUE_TYPE_QTCORE_QSIZE] QResizeEvent [[QSize; QSize]];
    Cls [] QRgba64 [[]];
    Cls [TYPE_QTGUI_QSCROLLEVENT; VALUE_TYPE_QTCORE_QPOINTF] QScrollEvent [[QPointF; QPointF;
        QScrollEvent_ScrollState]];
    Cls [VALUE_TYPE_QTCORE_QPOINTF] QScrollPrepareEvent [[QPointF]]
  ].

Definition value_constructors_qtgui_9 : constructor_shard :=
  ConstructorShard QtGui "KRY_QT6_NATIVE_VALUE_CONSTRUCTORS_QTGUI_"
    (value_constructors_qtgui_9_i0)
    (value_constructors_qtgui_9_r0 ++ value_constructors_qtgui_9_r1 ++ value_constructors_qtgui_9_r2 ++
        value_constructors_qtgui_9_r3)
    (value_constructors_qtgui_9_c0).

Definition value_constructors_qthelp_0_i0 : list include :=
  [
    ClassInclude QtHelp QCompressedHelpInfo QCompressedHelpInfo;
    ClassInclude QtHelp QHelpFilterData QHelpFilterData;
    ClassInclude QtHelp QHelpSearchQuery QHelpSearchQuery;
    ClassInclude QtHelp QHelpSearchResult QHelpSearchResult;
    TypeInclude QtHelp QHelpSearchQuery TYPE_QTHELP_QHELPSEARCHQUERY;
    TypeInclude QtCore QUrl VALUE_TYPE_QTCORE_QURL;
    TypeInclude QtHelp QCompressedHelpInfo VALUE_TYPE_QTHELP_QCOMPRESSEDHELPINFO;
    TypeInclude QtHelp QHelpFilterData VALUE_TYPE_QTHELP_QHELPFILTERDATA;
    TypeInclude QtHelp QHelpSearchResult VALUE_TYPE_QTHELP_QHELPSEARCHRESULT
  ].

Definition value_constructors_qthelp_0_r0 : list constructor_row :=
  [
    Ctor QCompressedHelpInfo 0 [Cand [] [] None];
    Ctor QCompressedHelpInfo 1 [Cand [VALUE_TYPE_QTHELP_QCOMPRESSEDHELPINFO] [PValue QCompressedHelpInfo]
        None];
    Ctor QHelpFilterData 0 [Cand [] [] None];
    Ctor QHelpFilterData 1 [Cand [VALUE_TYPE_QTHELP_QHELPFILTERDATA] [PValue QHelpFilterData] None];
    Ctor QHelpSearchQuery 0 [Cand [] [] None];
    Ctor QHelpSearchQuery 2 [Cand [TYPE_QTHELP_QHELPSEARCHQUERY] [PValue QHelpSearchQuery_FieldName;
        PStringList] None];
    Ctor QHelpSearchResult 0 [Cand [] [] None];
    Ctor QHelpSearchResult 1 [Cand [VALUE_TYPE_QTHELP_QHELPSEARCHRESULT] [PValue QHelpSearchResult] None]
  ].

Definition value_constructors_qthelp_0_r1 : list constructor_row :=
  [
    Ctor QHelpSearchResult 3 [Cand [VALUE_TYPE_QTCORE_QURL] [PValue QUrl; PString false; PString false]
        None]
  ].

Definition value_constructors_qthelp_0_c0 : list class_row :=
  [
    Cls [VALUE_TYPE_QTHELP_QCOMPRESSEDHELPINFO] QCompressedHelpInfo [[]; [QCompressedHelpInfo]];
    Cls [VALUE_TYPE_QTHELP_QHELPFILTERDATA] QHelpFilterData [[]; [QHelpFilterData]];
    Cls [TYPE_QTHELP_QHELPSEARCHQUERY] QHelpSearchQuery [[]; [QHelpSearchQuery_FieldName; QStringList]];
    Cls [VALUE_TYPE_QTCORE_QURL; VALUE_TYPE_QTHELP_QHELPSEARCHRESULT] QHelpSearchResult [[];
        [QHelpSearchResult]; [QUrl; QString; QString]]
  ].

Definition value_constructors_qthelp_0 : constructor_shard :=
  ConstructorShard QtHelp "KRY_QT6_NATIVE_VALUE_CONSTRUCTORS_QTHELP_"
    (value_constructors_qthelp_0_i0)
    (value_constructors_qthelp_0_r0 ++ value_constructors_qthelp_0_r1)
    (value_constructors_qthelp_0_c0).

Definition value_constructors_qtmultimedia_0_i0 : list include :=
  [
    ClassInclude QtMultimedia QAudioBuffer QAudioBuffer;
    ClassInclude QtMultimedia QAudioDevice QAudioDevice;
    ClassInclude QtMultimedia QCameraDevice QCameraDevice;
    ClassInclude QtMultimedia QCameraFormat QCameraFormat;
    ClassInclude QtMultimedia QCapturableWindow QCapturableWindow;
    ClassInclude QtMultimedia QMediaFormat QMediaFormat;
    ClassInclude QtMultimedia QMediaTimeRange QMediaTimeRange;
    ClassInclude QtMultimedia QPlaybackOptions QPlaybackOptions;
    TypeInclude QtGui QWindow TYPE_QTGUI_QWINDOW;
    TypeInclude QtMultimedia QMediaFormat TYPE_QTMULTIMEDIA_QMEDIAFORMAT;
    TypeInclude QtMultimedia QMediaTimeRange TYPE_QTMULTIMEDIA_QMEDIATIMERANGE;
    TypeInclude QtCore QByteArray VALUE_TYPE_QTCORE_QBYTEARRAY;
    TypeInclude QtMultimedia QAudioBuffer VALUE_TYPE_QTMULTIMEDIA_QAUDIOBUFFER;
    TypeInclude QtMultimedia QAudioDevice VALUE_TYPE_QTMULTIMEDIA_QAUDIODEVICE;
    TypeInclude QtMultimedia QAudioFormat VALUE_TYPE_QTMULTIMEDIA_QAUDIOFORMAT;
    TypeInclude QtMultimedia QCameraDevice VALUE_TYPE_QTMULTIMEDIA_QCAMERADEVICE;
    TypeInclude QtMultimedia QCameraFormat VALUE_TYPE_QTMULTIMEDIA_QCAMERAFORMAT;
    TypeInclude QtMultimedia QCapturableWindow VALUE_TYPE_QTMULTIMEDIA_QCAPTURABLEWINDOW;
    TypeInclude QtMultimedia QMediaFormat VALUE_TYPE_QTMULTIMEDIA_QMEDIAFORMAT;
    TypeInclude QtMultimedia QMediaTimeRange VALUE_TYPE_QTMULTIMEDIA_QMEDIATIMERANGE;
    TypeInclude QtMultimedia QPlaybackOptions VALUE_TYPE_QTMULTIMEDIA_QPLAYBACKOPTIONS
  ].

Definition value_constructors_qtmultimedia_0_r0 : list constructor_row :=
  [
    Ctor QAudioBuffer 0 [Cand [] [] None];
    Ctor QAudioBuffer 1 [Cand [VALUE_TYPE_QTMULTIMEDIA_QAUDIOBUFFER] [PValue QAudioBuffer] None];
    Ctor QAudioBuffer 2 [Cand [VALUE_TYPE_QTCORE_QBYTEARRAY; VALUE_TYPE_QTMULTIMEDIA_QAUDIOFORMAT] [PValue
        QByteArray; PValue QAudioFormat] None; Cand [VALUE_TYPE_QTMULTIMEDIA_QAUDIOFORMAT] [PInt; PValue
        QAudioFormat] None];
    Ctor QAudioBuffer 3 [Cand [VALUE_TYPE_QTCORE_QBYTEARRAY; VALUE_TYPE_QTMULTIMEDIA_QAUDIOFORMAT] [PValue
        QByteArray; PValue QAudioFormat; PMeta cxx_qint64] None; Cand
        [VALUE_TYPE_QTMULTIMEDIA_QAUDIOFORMAT] [PInt; PValue QAudioFormat; PMeta cxx_qint64] None];
    Ctor QAudioDevice 0 [Cand [] [] None];
    Ctor QAudioDevice 1 [Cand [VALUE_TYPE_QTMULTIMEDIA_QAUDIODEVICE] [PValue QAudioDevice] None]
  ].

Definition value_constructors_qtmultimedia_0_r1 : list constructor_row :=
  [
    Ctor QCameraDevice 0 [Cand [] [] None];
    Ctor QCameraDevice 1 [Cand [VALUE_TYPE_QTMULTIMEDIA_QCAMERADEVICE] [PValue QCameraDevice] None];
    Ctor QCameraFormat 0 [Cand [] [] None];
    Ctor QCameraFormat 1 [Cand [VALUE_TYPE_QTMULTIMEDIA_QCAMERAFORMAT] [PValue QCameraFormat] None];
    Ctor QCapturableWindow 0 [Cand [] [] None];
    Ctor QCapturableWindow 1 [Cand [TYPE_QTGUI_QWINDOW] [PObject QWindow false] None; Cand
        [VALUE_TYPE_QTMULTIMEDIA_QCAPTURABLEWINDOW] [PValue QCapturableWindow] None];
    Ctor QMediaFormat 0 [Cand [TYPE_QTMULTIMEDIA_QMEDIAFORMAT] [] None]
  ].

Definition value_constructors_qtmultimedia_0_r2 : list constructor_row :=
  [
    Ctor QMediaFormat 1 [Cand [TYPE_QTMULTIMEDIA_QMEDIAFORMAT] [PValue QMediaFormat_FileFormat] None; Cand
        [VALUE_TYPE_QTMULTIMEDIA_QMEDIAFORMAT] [PValue QMediaFormat] None];
    Ctor QMediaTimeRange 0 [Cand [] [] None];
    Ctor QMediaTimeRange 1 [Cand [TYPE_QTMULTIMEDIA_QMEDIATIMERANGE] [PValue QMediaTimeRange_Interval]
        None; Cand [VALUE_TYPE_QTMULTIMEDIA_QMEDIATIMERANGE] [PValue QMediaTimeRange] None];
    Ctor QMediaTimeRange 2 [Cand [] [PMeta cxx_qint64; PMeta cxx_qint64] None];
    Ctor QPlaybackOptions 0 [Cand [] [] None];
    Ctor QPlaybackOptions 1 [Cand [VALUE_TYPE_QTMULTIMEDIA_QPLAYBACKOPTIONS] [PValue QPlaybackOptions] None]
  ].

Definition value_constructors_qtmultimedia_0_c0 : list class_row :=
  [
    Cls [VALUE_TYPE_QTCORE_QBYTEARRAY; VALUE_TYPE_QTMULTIMEDIA_QAUDIOBUFFER;
        VALUE_TYPE_QTMULTIMEDIA_QAUDIOFORMAT] QAudioBuffer [[]; [QByteArray; QAudioFormat; cxx_qint64];
        [cxx_int; QAudioFormat; cxx_qint64]; [QAudioBuffer]];
    Cls [VALUE_TYPE_QTMULTIMEDIA_QAUDIODEVICE] QAudioDevice [[]; [QAudioDevice]];
    Cls [VALUE_TYPE_QTMULTIMEDIA_QCAMERADEVICE] QCameraDevice [[]; [QCameraDevice]];
    Cls [VALUE_TYPE_QTMULTIMEDIA_QCAMERAFORMAT] QCameraFormat [[]; [QCameraFormat]];
    Cls [TYPE_QTGUI_QWINDOW; VALUE_TYPE_QTMULTIMEDIA_QCAPTURABLEWINDOW] QCapturableWindow [[];
        [QWindow_ptr]; [QCapturableWindow]];
    Cls [TYPE_QTMULTIMEDIA_QMEDIAFORMAT; VALUE_TYPE_QTMULTIMEDIA_QMEDIAFORMAT] QMediaFormat
        [[QMediaFormat_FileFormat]; [QMediaFormat]];
    Cls [TYPE_QTMULTIMEDIA_QMEDIATIMERANGE; VALUE_TYPE_QTMULTIMEDIA_QMEDIATIMERANGE] QMediaTimeRange [[];
        [QMediaTimeRange_Interval]; [cxx_qint64; cxx_qint64]; [QMediaTimeRange]];
    Cls [VALUE_TYPE_QTMULTIMEDIA_QPLAYBACKOPTIONS] QPlaybackOptions [[]; [QPlaybackOptions]]
  ].

Definition value_constructors_qtmultimedia_0 : constructor_shard :=
  ConstructorShard QtMultimedia "KRY_QT6_NATIVE_VALUE_CONSTRUCTORS_QTMULTIMEDIA_"
    (value_constructors_qtmultimedia_0_i0)
    (value_constructors_qtmultimedia_0_r0 ++ value_constructors_qtmultimedia_0_r1 ++
        value_constructors_qtmultimedia_0_r2)
    (value_constructors_qtmultimedia_0_c0).

Definition value_constructors_qtmultimedia_1_i0 : list include :=
  [
    ClassInclude QtMultimedia QVideoFrame QVideoFrame;
    ClassInclude QtMultimedia QVideoFrameFormat QVideoFrameFormat;
    TypeInclude QtMultimedia QVideoFrameFormat TYPE_QTMULTIMEDIA_QVIDEOFRAMEFORMAT;
    TypeInclude QtCore QSize VALUE_TYPE_QTCORE_QSIZE;
    TypeInclude QtGui QImage VALUE_TYPE_QTGUI_QIMAGE;
    TypeInclude QtMultimedia QVideoFrame VALUE_TYPE_QTMULTIMEDIA_QVIDEOFRAME;
    TypeInclude QtMultimedia QVideoFrameFormat VALUE_TYPE_QTMULTIMEDIA_QVIDEOFRAMEFORMAT
  ].

Definition value_constructors_qtmultimedia_1_r0 : list constructor_row :=
  [
    Ctor QVideoFrame 0 [Cand [] [] None];
    Ctor QVideoFrame 1 [Cand [VALUE_TYPE_QTMULTIMEDIA_QVIDEOFRAMEFORMAT] [PValue QVideoFrameFormat] None;
        Cand [VALUE_TYPE_QTGUI_QIMAGE] [PValue QImage] None; Cand [VALUE_TYPE_QTMULTIMEDIA_QVIDEOFRAME]
        [PValue QVideoFrame] None];
    Ctor QVideoFrameFormat 0 [Cand [] [] None];
    Ctor QVideoFrameFormat 1 [Cand [VALUE_TYPE_QTMULTIMEDIA_QVIDEOFRAMEFORMAT] [PValue QVideoFrameFormat]
        None];
    Ctor QVideoFrameFormat 2 [Cand [TYPE_QTMULTIMEDIA_QVIDEOFRAMEFORMAT; VALUE_TYPE_QTCORE_QSIZE] [PValue
        QSize; PValue QVideoFrameFormat_PixelFormat] None]
  ].

Definition value_constructors_qtmultimedia_1_c0 : list class_row :=
  [
    Cls [VALUE_TYPE_QTGUI_QIMAGE; VALUE_TYPE_QTMULTIMEDIA_QVIDEOFRAME;
        VALUE_TYPE_QTMULTIMEDIA_QVIDEOFRAMEFORMAT] QVideoFrame [[]; [QVideoFrameFormat]; [QImage];
        [QVideoFrame]];
    Cls [TYPE_QTMULTIMEDIA_QVIDEOFRAMEFORMAT; VALUE_TYPE_QTCORE_QSIZE;
        VALUE_TYPE_QTMULTIMEDIA_QVIDEOFRAMEFORMAT] QVideoFrameFormat [[]; [QSize;
        QVideoFrameFormat_PixelFormat]; [QVideoFrameFormat]]
  ].

Definition value_constructors_qtmultimedia_1 : constructor_shard :=
  ConstructorShard QtMultimedia "KRY_QT6_NATIVE_VALUE_CONSTRUCTORS_QTMULTIMEDIA_"
    (value_constructors_qtmultimedia_1_i0)
    (value_constructors_qtmultimedia_1_r0)
    (value_constructors_qtmultimedia_1_c0).

Definition value_constructors_qtnetwork_0_i0 : list include :=
  [
    ClassInclude QtNetwork QAuthenticator QAuthenticator;
    ClassInclude QtNetwork QDnsDomainNameRecord QDnsDomainNameRecord;
    ClassInclude QtNetwork QDnsHostAddressRecord QDnsHostAddressRecord;
    ClassInclude QtNetwork QDnsMailExchangeRecord QDnsMailExchangeRecord;
    ClassInclude QtNetwork QDnsServiceRecord QDnsServiceRecord;
    ClassInclude QtNetwork QDnsTextRecord QDnsTextRecord;
    ClassInclude QtNetwork QDnsTlsAssociationRecord QDnsTlsAssociationRecord;
    ClassInclude QtNetwork QFormDataBuilder QFormDataBuilder;
    TypeInclude QtNetwork QAuthenticator VALUE_TYPE_QTNETWORK_QAUTHENTICATOR;
    TypeInclude QtNetwork QDnsDomainNameRecord VALUE_TYPE_QTNETWORK_QDNSDOMAINNAMERECORD;
    TypeInclude QtNetwork QDnsHostAddressRecord VALUE_TYPE_QTNETWORK_QDNSHOSTADDRESSRECORD;
    TypeInclude QtNetwork QDnsMailExchangeRecord VALUE_TYPE_QTNETWORK_QDNSMAILEXCHANGERECORD;
    TypeInclude QtNetwork QDnsServiceRecord VALUE_TYPE_QTNETWORK_QDNSSERVICERECORD;
    TypeInclude QtNetwork QDnsTextRecord VALUE_TYPE_QTNETWORK_QDNSTEXTRECORD;
    TypeInclude QtNetwork QDnsTlsAssociationRecord VALUE_TYPE_QTNETWORK_QDNSTLSASSOCIATIONRECORD
  ].

Definition value_constructors_qtnetwork_0_r0 : list constructor_row :=
  [
    Ctor QAuthenticator 0 [Cand [] [] None];
    Ctor QAuthenticator 1 [Cand [VALUE_TYPE_QTNETWORK_QAUTHENTICATOR] [PValue QAuthenticator] None];
    Ctor QDnsDomainNameRecord 0 [Cand [] [] None];
    Ctor QDnsDomainNameRecord 1 [Cand [VALUE_TYPE_QTNETWORK_QDNSDOMAINNAMERECORD] [PValue
        QDnsDomainNameRecord] None];
    Ctor QDnsHostAddressRecord 0 [Cand [] [] None];
    Ctor QDnsHostAddressRecord 1 [Cand [VALUE_TYPE_QTNETWORK_QDNSHOSTADDRESSRECORD] [PValue
        QDnsHostAddressRecord] None];
    Ctor QDnsMailExchangeRecord 0 [Cand [] [] None];
    Ctor QDnsMailExchangeRecord 1 [Cand [VALUE_TYPE_QTNETWORK_QDNSMAILEXCHANGERECORD] [PValue
        QDnsMailExchangeRecord] None];
    Ctor QDnsServiceRecord 0 [Cand [] [] None]
  ].

Definition value_constructors_qtnetwork_0_r1 : list constructor_row :=
  [
    Ctor QDnsServiceRecord 1 [Cand [VALUE_TYPE_QTNETWORK_QDNSSERVICERECORD] [PValue QDnsServiceRecord]
        None];
    Ctor QDnsTextRecord 0 [Cand [] [] None];
    Ctor QDnsTextRecord 1 [Cand [VALUE_TYPE_QTNETWORK_QDNSTEXTRECORD] [PValue QDnsTextRecord] None];
    Ctor QDnsTlsAssociationRecord 0 [Cand [] [] None];
    Ctor QDnsTlsAssociationRecord 1 [Cand [VALUE_TYPE_QTNETWORK_QDNSTLSASSOCIATIONRECORD] [PValue
        QDnsTlsAssociationRecord] None];
    Ctor QFormDataBuilder 0 [Cand [] [] None]
  ].

Definition value_constructors_qtnetwork_0_c0 : list class_row :=
  [
    Cls [VALUE_TYPE_QTNETWORK_QAUTHENTICATOR] QAuthenticator [[]; [QAuthenticator]];
    Cls [VALUE_TYPE_QTNETWORK_QDNSDOMAINNAMERECORD] QDnsDomainNameRecord [[]; [QDnsDomainNameRecord]];
    Cls [VALUE_TYPE_QTNETWORK_QDNSHOSTADDRESSRECORD] QDnsHostAddressRecord [[]; [QDnsHostAddressRecord]];
    Cls [VALUE_TYPE_QTNETWORK_QDNSMAILEXCHANGERECORD] QDnsMailExchangeRecord [[]; [QDnsMailExchangeRecord]];
    Cls [VALUE_TYPE_QTNETWORK_QDNSSERVICERECORD] QDnsServiceRecord [[]; [QDnsServiceRecord]];
    Cls [VALUE_TYPE_QTNETWORK_QDNSTEXTRECORD] QDnsTextRecord [[]; [QDnsTextRecord]];
    Cls [VALUE_TYPE_QTNETWORK_QDNSTLSASSOCIATIONRECORD] QDnsTlsAssociationRecord [[];
        [QDnsTlsAssociationRecord]];
    Cls [] QFormDataBuilder [[]]
  ].

Definition value_constructors_qtnetwork_0 : constructor_shard :=
  ConstructorShard QtNetwork "KRY_QT6_NATIVE_VALUE_CONSTRUCTORS_QTNETWORK_"
    (value_constructors_qtnetwork_0_i0)
    (value_constructors_qtnetwork_0_r0 ++ value_constructors_qtnetwork_0_r1)
    (value_constructors_qtnetwork_0_c0).

Definition value_constructors_qtnetwork_1_i0 : list include :=
  [
    ClassInclude QtNetwork QFormDataPartBuilder QFormDataPartBuilder;
    ClassInclude QtNetwork QHostAddress QHostAddress;
    ClassInclude QtNetwork QHostInfo QHostInfo;
    ClassInclude QtNetwork QHstsPolicy QHstsPolicy;
    ClassInclude QtNetwork QHttp1Configuration QHttp1Configuration;
    ClassInclude QtNetwork QHttp2Configuration QHttp2Configuration;
    ClassInclude QtNetwork QHttpHeaders QHttpHeaders;
    ClassInclude QtNetwork QHttpPart QHttpPart;
    TypeInclude QtCore QUrl TYPE_QTCORE_QURL;
    TypeInclude QtNetwork QHostAddress TYPE_QTNETWORK_QHOSTADDRESS;
    TypeInclude QtNetwork QHstsPolicy TYPE_QTNETWORK_QHSTSPOLICY;
    TypeInclude QtCore QDateTime VALUE_TYPE_QTCORE_QDATETIME;
    TypeInclude QtNetwork QHostAddress VALUE_TYPE_QTNETWORK_QHOSTADDRESS;
    TypeInclude QtNetwork QHostInfo VALUE_TYPE_QTNETWORK_QHOSTINFO;
    TypeInclude QtNetwork QHstsPolicy VALUE_TYPE_QTNETWORK_QHSTSPOLICY;
    TypeInclude QtNetwork QHttp1Configuration VALUE_TYPE_QTNETWORK_QHTTP1CONFIGURATION;
    TypeInclude QtNetwork QHttp2Configuration VALUE_TYPE_QTNETWORK_QHTTP2CONFIGURATION;
    TypeInclude QtNetwork QHttpHeaders VALUE_TYPE_QTNETWORK_QHTTPHEADERS;
    TypeInclude QtNetwork QHttpPart VALUE_TYPE_QTNETWORK_QHTTPPART
  ].

Definition value_constructors_qtnetwork_1_r0 : list constructor_row :=
  [
    Ctor QFormDataPartBuilder 0 [Cand [] [] None];
    Ctor QHostAddress 0 [Cand [] [] None];
    Ctor QHostAddress 1 [Cand [TYPE_QTNETWORK_QHOSTADDRESS] [PValue QHostAddress_SpecialAddress] None; Cand
        [] [PString false] None; Cand [VALUE_TYPE_QTNETWORK_QHOSTADDRESS] [PValue QHostAddress] None];
    Ctor QHostInfo 0 [Cand [] [] None];
    Ctor QHostInfo 1 [Cand [] [PInt] None; Cand [VALUE_TYPE_QTNETWORK_QHOSTINFO] [PValue QHostInfo] None];
    Ctor QHstsPolicy 0 [Cand [] [] None]
  ].

Definition value_constructors_qtnetwork_1_r1 : list constructor_row :=
  [
    Ctor QHstsPolicy 1 [Cand [VALUE_TYPE_QTNETWORK_QHSTSPOLICY] [PValue QHstsPolicy] None];
    Ctor QHstsPolicy 3 [Cand [TYPE_QTCORE_QURL; TYPE_QTNETWORK_QHSTSPOLICY; VALUE_TYPE_QTCORE_QDATETIME]
        [PValue QDateTime; PValue QHstsPolicy_PolicyFlags; PString false] None];
    Ctor QHstsPolicy 4 [Cand [TYPE_QTCORE_QURL; TYPE_QTNETWORK_QHSTSPOLICY; VALUE_TYPE_QTCORE_QDATETIME]
        [PValue QDateTime; PValue QHstsPolicy_PolicyFlags; PString false; PValue QUrl_ParsingMode] None];
    Ctor QHttp1Configuration 0 [Cand [] [] None];
    Ctor QHttp1Configuration 1 [Cand [VALUE_TYPE_QTNETWORK_QHTTP1CONFIGURATION] [PValue
        QHttp1Configuration] None];
    Ctor QHttp2Configuration 0 [Cand [] [] None];
    Ctor QHttp2Configuration 1 [Cand [VALUE_TYPE_QTNETWORK_QHTTP2CONFIGURATION] [PValue
        QHttp2Configuration] None];
    Ctor QHttpHeaders 0 [Cand [] [] None]
  ].

Definition value_constructors_qtnetwork_1_r2 : list constructor_row :=
  [
    Ctor QHttpHeaders 1 [Cand [VALUE_TYPE_QTNETWORK_QHTTPHEADERS] [PValue QHttpHeaders] None];
    Ctor QHttpPart 0 [Cand [] [] None];
    Ctor QHttpPart 1 [Cand [VALUE_TYPE_QTNETWORK_QHTTPPART] [PValue QHttpPart] None]
  ].

Definition value_constructors_qtnetwork_1_c0 : list class_row :=
  [
    Cls [] QFormDataPartBuilder [[]];
    Cls [TYPE_QTNETWORK_QHOSTADDRESS; VALUE_TYPE_QTNETWORK_QHOSTADDRESS] QHostAddress [[];
        [QHostAddress_SpecialAddress]; [QString]; [QHostAddress]];
    Cls [VALUE_TYPE_QTNETWORK_QHOSTINFO] QHostInfo [[cxx_int]; [QHostInfo]];
    Cls [TYPE_QTCORE_QURL; TYPE_QTNETWORK_QHSTSPOLICY; VALUE_TYPE_QTCORE_QDATETIME;
        VALUE_TYPE_QTNETWORK_QHSTSPOLICY] QHstsPolicy [[]; [QDateTime; QHstsPolicy_PolicyFlags; QString;
        QUrl_ParsingMode]; [QHstsPolicy]];
    Cls [VALUE_TYPE_QTNETWORK_QHTTP1CONFIGURATION] QHttp1Configuration [[]; [QHttp1Configuration]];
    Cls [VALUE_TYPE_QTNETWORK_QHTTP2CONFIGURATION] QHttp2Configuration [[]; [QHttp2Configuration]];
    Cls [VALUE_TYPE_QTNETWORK_QHTTPHEADERS] QHttpHeaders [[]; [QHttpHeaders]];
    Cls [VALUE_TYPE_QTNETWORK_QHTTPPART] QHttpPart [[]; [QHttpPart]]
  ].

Definition value_constructors_qtnetwork_1 : constructor_shard :=
  ConstructorShard QtNetwork "KRY_QT6_NATIVE_VALUE_CONSTRUCTORS_QTNETWORK_"
    (value_constructors_qtnetwork_1_i0)
    (value_constructors_qtnetwork_1_r0 ++ value_constructors_qtnetwork_1_r1 ++
        value_constructors_qtnetwork_1_r2)
    (value_constructors_qtnetwork_1_c0).

Definition value_constructors_qtnetwork_2_i0 : list include :=
  [
    ClassInclude QtNetwork QNetworkAddressEntry QNetworkAddressEntry;
    ClassInclude QtNetwork QNetworkCacheMetaData QNetworkCacheMetaData;
    ClassInclude QtNetwork QNetworkCookie QNetworkCookie;
    ClassInclude QtNetwork QNetworkDatagram QNetworkDatagram;
    ClassInclude QtNetwork QNetworkInterface QNetworkInterface;
    ClassInclude QtNetwork QNetworkProxy QNetworkProxy;
    ClassInclude QtNetwork QNetworkProxyFactory QNetworkProxyFactory;
    ClassInclude QtNetwork QNetworkProxyQuery QNetworkProxyQuery;
    TypeInclude QtNetwork QNetworkProxyQuery TYPE_QTNETWORK_QNETWORKPROXYQUERY;
    TypeInclude QtCore QByteArray VALUE_TYPE_QTCORE_QBYTEARRAY;
    TypeInclude QtCore QUrl VALUE_TYPE_QTCORE_QURL;
    TypeInclude QtNetwork QNetworkAddressEntry VALUE_TYPE_QTNETWORK_QNETWORKADDRESSENTRY;
    TypeInclude QtNetwork QNetworkCacheMetaData VALUE_TYPE_QTNETWORK_QNETWORKCACHEMETADATA;
    TypeInclude QtNetwork QNetworkCookie VALUE_TYPE_QTNETWORK_QNETWORKCOOKIE;
    TypeInclude QtNetwork QNetworkDatagram VALUE_TYPE_QTNETWORK_QNETWORKDATAGRAM;
    TypeInclude QtNetwork QNetworkInterface VALUE_TYPE_QTNETWORK_QNETWORKINTERFACE;
    TypeInclude QtNetwork QNetworkProxy VALUE_TYPE_QTNETWORK_QNETWORKPROXY;
    TypeInclude QtNetwork QNetworkProxyQuery VALUE_TYPE_QTNETWORK_QNETWORKPROXYQUERY
  ].

Definition value_constructors_qtnetwork_2_r0 : list constructor_row :=
  [
    Ctor QNetworkAddressEntry 0 [Cand [] [] None];
    Ctor QNetworkAddressEntry 1 [Cand [VALUE_TYPE_QTNETWORK_QNETWORKADDRESSENTRY] [PValue
        QNetworkAddressEntry] None];
    Ctor QNetworkCacheMetaData 0 [Cand [] [] None];
    Ctor QNetworkCacheMetaData 1 [Cand [VALUE_TYPE_QTNETWORK_QNETWORKCACHEMETADATA] [PValue
        QNetworkCacheMetaData] None];
    Ctor QNetworkCookie 0 [Cand [VALUE_TYPE_QTCORE_QBYTEARRAY] [] None];
    Ctor QNetworkCookie 1 [Cand [VALUE_TYPE_QTCORE_QBYTEARRAY] [PValue QByteArray] None; Cand
        [VALUE_TYPE_QTNETWORK_QNETWORKCOOKIE] [PValue QNetworkCookie] None];
    Ctor QNetworkCookie 2 [Cand [VALUE_TYPE_QTCORE_QBYTEARRAY] [PValue QByteArray; PValue QByteArray] None];
    Ctor QNetworkDatagram 0 [Cand [] [] None]
  ].

Definition value_constructors_qtnetwork_2_r1 : list constructor_row :=
  [
    Ctor QNetworkDatagram 1 [Cand [VALUE_TYPE_QTNETWORK_QNETWORKDATAGRAM] [PValue QNetworkDatagram] None];
    Ctor QNetworkInterface 0 [Cand [] [] None];
    Ctor QNetworkInterface 1 [Cand [VALUE_TYPE_QTNETWORK_QNETWORKINTERFACE] [PValue QNetworkInterface]
        None];
    Ctor QNetworkProxy 0 [Cand [] [] None];
    Ctor QNetworkProxy 1 [Cand [VALUE_TYPE_QTNETWORK_QNETWORKPROXY] [PValue QNetworkProxy] None];
    Ctor QNetworkProxyFactory 0 [Cand [] [] None];
    Ctor QNetworkProxyQuery 0 [Cand [] [] None];
    Ctor QNetworkProxyQuery 1 [Cand [TYPE_QTNETWORK_QNETWORKPROXYQUERY; VALUE_TYPE_QTCORE_QURL] [PValue
        QUrl] None; Cand [VALUE_TYPE_QTNETWORK_QNETWORKPROXYQUERY] [PValue QNetworkProxyQuery] None]
  ].

Definition value_constructors_qtnetwork_2_r2 : list constructor_row :=
  [
    Ctor QNetworkProxyQuery 2 [Cand [TYPE_QTNETWORK_QNETWORKPROXYQUERY; VALUE_TYPE_QTCORE_QURL] [PValue
        QUrl; PValue QNetworkProxyQuery_QueryType] None; Cand [TYPE_QTNETWORK_QNETWORKPROXYQUERY] [PString
        false; PInt] None];
    Ctor QNetworkProxyQuery 3 [Cand [TYPE_QTNETWORK_QNETWORKPROXYQUERY] [PString false; PInt; PString
        false] None];
    Ctor QNetworkProxyQuery 4 [Cand [TYPE_QTNETWORK_QNETWORKPROXYQUERY] [PString false; PInt; PString
        false; PValue QNetworkProxyQuery_QueryType] None]
  ].

Definition value_constructors_qtnetwork_2_c0 : list class_row :=
  [
    Cls [VALUE_TYPE_QTNETWORK_QNETWORKADDRESSENTRY] QNetworkAddressEntry [[]; [QNetworkAddressEntry]];
    Cls [VALUE_TYPE_QTNETWORK_QNETWORKCACHEMETADATA] QNetworkCacheMetaData [[]; [QNetworkCacheMetaData]];
    Cls [VALUE_TYPE_QTCORE_QBYTEARRAY; VALUE_TYPE_QTNETWORK_QNETWORKCOOKIE] QNetworkCookie [[QByteArray;
        QByteArray]; [QNetworkCookie]];
    Cls [VALUE_TYPE_QTNETWORK_QNETWORKDATAGRAM] QNetworkDatagram [[]; [QNetworkDatagram]];
    Cls [VALUE_TYPE_QTNETWORK_QNETWORKINTERFACE] QNetworkInterface [[]; [QNetworkInterface]];
    Cls [VALUE_TYPE_QTNETWORK_QNETWORKPROXY] QNetworkProxy [[]; [QNetworkProxy]];
    Cls [] QNetworkProxyFactory [[]];
    Cls [TYPE_QTNETWORK_QNETWORKPROXYQUERY; VALUE_TYPE_QTCORE_QURL;
        VALUE_TYPE_QTNETWORK_QNETWORKPROXYQUERY] QNetworkProxyQuery [[]; [QUrl;
        QNetworkProxyQuery_QueryType]; [QString; cxx_int; QString; QNetworkProxyQuery_QueryType];
        [QNetworkProxyQuery]]
  ].

Definition value_constructors_qtnetwork_2 : constructor_shard :=
  ConstructorShard QtNetwork "KRY_QT6_NATIVE_VALUE_CONSTRUCTORS_QTNETWORK_"
    (value_constructors_qtnetwork_2_i0)
    (value_constructors_qtnetwork_2_r0 ++ value_constructors_qtnetwork_2_r1 ++
        value_constructors_qtnetwork_2_r2)
    (value_constructors_qtnetwork_2_c0).

Definition value_constructors_qtnetwork_3_i0 : list include :=
  [
    ClassInclude QtNetwork QNetworkRequest QNetworkRequest;
    ClassInclude QtNetwork QNetworkRequestFactory QNetworkRequestFactory;
    ClassInclude QtNetwork QOcspResponse QOcspResponse;
    ClassInclude QtNetwork QRestReply QRestReply;
    ClassInclude QtNetwork QSslCertificate QSslCertificate;
    ClassInclude QtNetwork QSslCertificateExtension QSslCertificateExtension;
    ClassInclude QtNetwork QSslCipher QSslCipher;
    ClassInclude QtNetwork QSslConfiguration QSslConfiguration;
    TypeInclude QtNetwork QNetworkReply TYPE_QTNETWORK_QNETWORKREPLY;
    TypeInclude QtCore QUrl VALUE_TYPE_QTCORE_QURL;
    TypeInclude QtNetwork QNetworkRequest VALUE_TYPE_QTNETWORK_QNETWORKREQUEST;
    TypeInclude QtNetwork QNetworkRequestFactory VALUE_TYPE_QTNETWORK_QNETWORKREQUESTFACTORY;
    TypeInclude QtNetwork QOcspResponse VALUE_TYPE_QTNETWORK_QOCSPRESPONSE;
    TypeInclude QtNetwork QSslCertificate VALUE_TYPE_QTNETWORK_QSSLCERTIFICATE;
    TypeInclude QtNetwork QSslCertificateExtension VALUE_TYPE_QTNETWORK_QSSLCERTIFICATEEXTENSION;
    TypeInclude QtNetwork QSslCipher VALUE_TYPE_QTNETWORK_QSSLCIPHER;
    TypeInclude QtNetwork QSslConfiguration VALUE_TYPE_QTNETWORK_QSSLCONFIGURATION
  ].

Definition value_constructors_qtnetwork_3_r0 : list constructor_row :=
  [
    Ctor QNetworkRequest 0 [Cand [] [] None];
    Ctor QNetworkRequest 1 [Cand [VALUE_TYPE_QTCORE_QURL] [PValue QUrl] None; Cand
        [VALUE_TYPE_QTNETWORK_QNETWORKREQUEST] [PValue QNetworkRequest] None];
    Ctor QNetworkRequestFactory 0 [Cand [] [] None];
    Ctor QNetworkRequestFactory 1 [Cand [VALUE_TYPE_QTCORE_QURL] [PValue QUrl] None; Cand
        [VALUE_TYPE_QTNETWORK_QNETWORKREQUESTFACTORY] [PValue QNetworkRequestFactory] None];
    Ctor QOcspResponse 0 [Cand [] [] None];
    Ctor QOcspResponse 1 [Cand [VALUE_TYPE_QTNETWORK_QOCSPRESPONSE] [PValue QOcspResponse] None];
    Ctor QRestReply 1 [Cand [TYPE_QTNETWORK_QNETWORKREPLY] [PObject QNetworkReply false] None]
  ].

Definition value_constructors_qtnetwork_3_r1 : list constructor_row :=
  [
    Ctor QSslCertificate 1 [Cand [VALUE_TYPE_QTNETWORK_QSSLCERTIFICATE] [PValue QSslCertificate] None];
    Ctor QSslCertificateExtension 0 [Cand [] [] None];
    Ctor QSslCertificateExtension 1 [Cand [VALUE_TYPE_QTNETWORK_QSSLCERTIFICATEEXTENSION] [PValue
        QSslCertificateExtension] None];
    Ctor QSslCipher 0 [Cand [] [] None];
    Ctor QSslCipher 1 [Cand [] [PString false] None; Cand [VALUE_TYPE_QTNETWORK_QSSLCIPHER] [PValue
        QSslCipher] None];
    Ctor QSslConfiguration 0 [Cand [] [] None];
    Ctor QSslConfiguration 1 [Cand [VALUE_TYPE_QTNETWORK_QSSLCONFIGURATION] [PValue QSslConfiguration] None]
  ].

Definition value_constructors_qtnetwork_3_c0 : list class_row :=
  [
    Cls [VALUE_TYPE_QTCORE_QURL; VALUE_TYPE_QTNETWORK_QNETWORKREQUEST] QNetworkRequest [[QUrl]; [];
        [QNetworkRequest]];
    Cls [VALUE_TYPE_QTCORE_QURL; VALUE_TYPE_QTNETWORK_QNETWORKREQUESTFACTORY] QNetworkRequestFactory [[];
        [QUrl]; [QNetworkRequestFactory]];
    Cls [VALUE_TYPE_QTNETWORK_QOCSPRESPONSE] QOcspResponse [[]; [QOcspResponse]];
    Cls [TYPE_QTNETWORK_QNETWORKREPLY] QRestReply [[QNetworkReply_ptr]];
    Cls [VALUE_TYPE_QTNETWORK_QSSLCERTIFICATE] QSslCertificate [[QSslCertificate]];
    Cls [VALUE_TYPE_QTNETWORK_QSSLCERTIFICATEEXTENSION] QSslCertificateExtension [[];
        [QSslCertificateExtension]];
    Cls [VALUE_TYPE_QTNETWORK_QSSLCIPHER] QSslCipher [[]; [QString]; [QSslCipher]];
    Cls [VALUE_TYPE_QTNETWORK_QSSLCONFIGURATION] QSslConfiguration [[]; [QSslConfiguration]]
  ].

Definition value_constructors_qtnetwork_3 : constructor_shard :=
  ConstructorShard QtNetwork "KRY_QT6_NATIVE_VALUE_CONSTRUCTORS_QTNETWORK_"
    (value_constructors_qtnetwork_3_i0)
    (value_constructors_qtnetwork_3_r0 ++ value_constructors_qtnetwork_3_r1)
    (value_constructors_qtnetwork_3_c0).

Definition value_constructors_qtnetwork_4_i0 : list include :=
  [
    ClassInclude QtNetwork QSslDiffieHellmanParameters QSslDiffieHellmanParameters;
    ClassInclude QtNetwork QSslEllipticCurve QSslEllipticCurve;
    ClassInclude QtNetwork QSslError QSslError;
    ClassInclude QtNetwork QSslKey QSslKey;
    ClassInclude QtNetwork QSslPreSharedKeyAuthenticator QSslPreSharedKeyAuthenticator;
    TypeInclude QtNetwork QSslError TYPE_QTNETWORK_QSSLERROR;
    TypeInclude QtNetwork QSslCertificate VALUE_TYPE_QTNETWORK_QSSLCERTIFICATE;
    TypeInclude QtNetwork QSslDiffieHellmanParameters VALUE_TYPE_QTNETWORK_QSSLDIFFIEHELLMANPARAMETERS;
    TypeInclude QtNetwork QSslError VALUE_TYPE_QTNETWORK_QSSLERROR;
    TypeInclude QtNetwork QSslKey VALUE_TYPE_QTNETWORK_QSSLKEY;
    TypeInclude QtNetwork QSslPreSharedKeyAuthenticator VALUE_TYPE_QTNETWORK_QSSLPRESHAREDKEYAUTHENTICATOR
  ].

Definition value_constructors_qtnetwork_4_r0 : list constructor_row :=
  [
    Ctor QSslDiffieHellmanParameters 0 [Cand [] [] None];
    Ctor QSslDiffieHellmanParameters 1 [Cand [VALUE_TYPE_QTNETWORK_QSSLDIFFIEHELLMANPARAMETERS] [PValue
        QSslDiffieHellmanParameters] None];
    Ctor QSslEllipticCurve 0 [Cand [] [] None];
    Ctor QSslError 0 [Cand [] [] None];
    Ctor QSslError 1 [Cand [TYPE_QTNETWORK_QSSLERROR] [PValue QSslError_SslError] None; Cand
        [VALUE_TYPE_QTNETWORK_QSSLERROR] [PValue QSslError] None];
    Ctor QSslError 2 [Cand [TYPE_QTNETWORK_QSSLERROR; VALUE_TYPE_QTNETWORK_QSSLCERTIFICATE] [PValue
        QSslError_SslError; PValue QSslCertificate] None];
    Ctor QSslKey 0 [Cand [] [] None];
    Ctor QSslKey 1 [Cand [VALUE_TYPE_QTNETWORK_QSSLKEY] [PValue QSslKey] None]
  ].

Definition value_constructors_qtnetwork_4_r1 : list constructor_row :=
  [
    Ctor QSslPreSharedKeyAuthenticator 0 [Cand [] [] None];
    Ctor QSslPreSharedKeyAuthenticator 1 [Cand [VALUE_TYPE_QTNETWORK_QSSLPRESHAREDKEYAUTHENTICATOR] [PValue
        QSslPreSharedKeyAuthenticator] None]
  ].

Definition value_constructors_qtnetwork_4_c0 : list class_row :=
  [
    Cls [VALUE_TYPE_QTNETWORK_QSSLDIFFIEHELLMANPARAMETERS] QSslDiffieHellmanParameters [[];
        [QSslDiffieHellmanParameters]];
    Cls [] QSslEllipticCurve [[]];
    Cls [TYPE_QTNETWORK_QSSLERROR; VALUE_TYPE_QTNETWORK_QSSLCERTIFICATE; VALUE_TYPE_QTNETWORK_QSSLERROR]
        QSslError [[]; [QSslError_SslError]; [QSslError_SslError; QSslCertificate]; [QSslError]];
    Cls [VALUE_TYPE_QTNETWORK_QSSLKEY] QSslKey [[]; [QSslKey]];
    Cls [VALUE_TYPE_QTNETWORK_QSSLPRESHAREDKEYAUTHENTICATOR] QSslPreSharedKeyAuthenticator [[];
        [QSslPreSharedKeyAuthenticator]]
  ].

Definition value_constructors_qtnetwork_4 : constructor_shard :=
  ConstructorShard QtNetwork "KRY_QT6_NATIVE_VALUE_CONSTRUCTORS_QTNETWORK_"
    (value_constructors_qtnetwork_4_i0)
    (value_constructors_qtnetwork_4_r0 ++ value_constructors_qtnetwork_4_r1)
    (value_constructors_qtnetwork_4_c0).

Definition value_constructors_qtnetworkauth_0_i0 : list include :=
  [
    ClassInclude QtNetworkAuth QOAuth1Signature QOAuth1Signature;
    TypeInclude QtNetworkAuth QOAuth1Signature VALUE_TYPE_QTNETWORKAUTH_QOAUTH1SIGNATURE
  ].

Definition value_constructors_qtnetworkauth_0_r0 : list constructor_row :=
  [
    Ctor QOAuth1Signature 1 [Cand [VALUE_TYPE_QTNETWORKAUTH_QOAUTH1SIGNATURE] [PValue QOAuth1Signature]
        None]
  ].

Definition value_constructors_qtnetworkauth_0_c0 : list class_row :=
  [
    Cls [VALUE_TYPE_QTNETWORKAUTH_QOAUTH1SIGNATURE] QOAuth1Signature [[QOAuth1Signature]]
  ].

Definition value_constructors_qtnetworkauth_0 : constructor_shard :=
  ConstructorShard QtNetworkAuth "KRY_QT6_NATIVE_VALUE_CONSTRUCTORS_QTNETWORKAUTH_"
    (value_constructors_qtnetworkauth_0_i0)
    (value_constructors_qtnetworkauth_0_r0)
    (value_constructors_qtnetworkauth_0_c0).

Definition value_constructors_qtnfc_0_i0 : list include :=
  [
    ClassInclude QtNfc QNdefFilter QNdefFilter;
    ClassInclude QtNfc QNdefMessage QNdefMessage;
    ClassInclude QtNfc QNdefNfcIconRecord QNdefNfcIconRecord;
    ClassInclude QtNfc QNdefNfcSmartPosterRecord QNdefNfcSmartPosterRecord;
    ClassInclude QtNfc QNdefNfcTextRecord QNdefNfcTextRecord;
    ClassInclude QtNfc QNdefNfcUriRecord QNdefNfcUriRecord;
    ClassInclude QtNfc QNdefRecord QNdefRecord;
    TypeInclude QtNfc QNdefFilter VALUE_TYPE_QTNFC_QNDEFFILTER;
    TypeInclude QtNfc QNdefMessage VALUE_TYPE_QTNFC_QNDEFMESSAGE;
    TypeInclude QtNfc QNdefNfcSmartPosterRecord VALUE_TYPE_QTNFC_QNDEFNFCSMARTPOSTERRECORD;
    TypeInclude QtNfc QNdefRecord VALUE_TYPE_QTNFC_QNDEFRECORD
  ].

Definition value_constructors_qtnfc_0_r0 : list constructor_row :=
  [
    Ctor QNdefFilter 0 [Cand [] [] None];
    Ctor QNdefFilter 1 [Cand [VALUE_TYPE_QTNFC_QNDEFFILTER] [PValue QNdefFilter] None];
    Ctor QNdefMessage 0 [Cand [] [] None];
    Ctor QNdefMessage 1 [Cand [VALUE_TYPE_QTNFC_QNDEFRECORD] [PValue QNdefRecord] None; Cand
        [VALUE_TYPE_QTNFC_QNDEFMESSAGE] [PValue QNdefMessage] None; Cand [VALUE_TYPE_QTNFC_QNDEFRECORD]
        [PList (IValue QNdefRecord)] None];
    Ctor QNdefNfcIconRecord 0 [Cand [] [] None];
    Ctor QNdefNfcIconRecord 1 [Cand [VALUE_TYPE_QTNFC_QNDEFRECORD] [PValue QNdefRecord] None];
    Ctor QNdefNfcSmartPosterRecord 0 [Cand [] [] None]
  ].

Definition value_constructors_qtnfc_0_r1 : list constructor_row :=
  [
    Ctor QNdefNfcSmartPosterRecord 1 [Cand [VALUE_TYPE_QTNFC_QNDEFNFCSMARTPOSTERRECORD] [PValue
        QNdefNfcSmartPosterRecord] None; Cand [VALUE_TYPE_QTNFC_QNDEFRECORD] [PValue QNdefRecord] None];
    Ctor QNdefNfcTextRecord 0 [Cand [] [] None];
    Ctor QNdefNfcTextRecord 1 [Cand [VALUE_TYPE_QTNFC_QNDEFRECORD] [PValue QNdefRecord] None];
    Ctor QNdefNfcUriRecord 0 [Cand [] [] None];
    Ctor QNdefNfcUriRecord 1 [Cand [VALUE_TYPE_QTNFC_QNDEFRECORD] [PValue QNdefRecord] None];
    Ctor QNdefRecord 0 [Cand [] [] None];
    Ctor QNdefRecord 1 [Cand [VALUE_TYPE_QTNFC_QNDEFRECORD] [PValue QNdefRecord] None]
  ].

Definition value_constructors_qtnfc_0_c0 : list class_row :=
  [
    Cls [VALUE_TYPE_QTNFC_QNDEFFILTER] QNdefFilter [[]; [QNdefFilter]];
    Cls [VALUE_TYPE_QTNFC_QNDEFMESSAGE; VALUE_TYPE_QTNFC_QNDEFRECORD] QNdefMessage [[]; [QNdefRecord];
        [QNdefMessage]; [QList_QNdefRecord]];
    Cls [VALUE_TYPE_QTNFC_QNDEFRECORD] QNdefNfcIconRecord [[]; [QNdefRecord]];
    Cls [VALUE_TYPE_QTNFC_QNDEFNFCSMARTPOSTERRECORD; VALUE_TYPE_QTNFC_QNDEFRECORD]
        QNdefNfcSmartPosterRecord [[]; [QNdefNfcSmartPosterRecord]; [QNdefRecord]];
    Cls [VALUE_TYPE_QTNFC_QNDEFRECORD] QNdefNfcTextRecord [[]; [QNdefRecord]];
    Cls [VALUE_TYPE_QTNFC_QNDEFRECORD] QNdefNfcUriRecord [[]; [QNdefRecord]];
    Cls [VALUE_TYPE_QTNFC_QNDEFRECORD] QNdefRecord [[]; [QNdefRecord]]
  ].

Definition value_constructors_qtnfc_0 : constructor_shard :=
  ConstructorShard QtNfc "KRY_QT6_NATIVE_VALUE_CONSTRUCTORS_QTNFC_"
    (value_constructors_qtnfc_0_i0)
    (value_constructors_qtnfc_0_r0 ++ value_constructors_qtnfc_0_r1)
    (value_constructors_qtnfc_0_c0).

Definition value_constructors_qtopengl_0_i0 : list include :=
  [
    ClassInclude QtOpenGL QOpenGLBuffer QOpenGLBuffer;
    ClassInclude QtOpenGL QOpenGLDebugMessage QOpenGLDebugMessage;
    ClassInclude QtOpenGL QOpenGLFramebufferObject QOpenGLFramebufferObject;
    ClassInclude QtOpenGL QOpenGLFramebufferObjectFormat QOpenGLFramebufferObjectFormat;
    ClassInclude QtOpenGL QOpenGLFunctions_2_0 QOpenGLFunctions_2_0;
    ClassInclude QtOpenGL QOpenGLFunctions_2_1 QOpenGLFunctions_2_1;
    ClassInclude QtOpenGL QOpenGLFunctions_4_1_Core QOpenGLFunctions_4_1_Core;
    ClassInclude QtOpenGL QOpenGLPaintDevice QOpenGLPaintDevice;
    TypeInclude QtOpenGL QOpenGLBuffer TYPE_QTOPENGL_QOPENGLBUFFER;
    TypeInclude QtCore QSize VALUE_TYPE_QTCORE_QSIZE;
    TypeInclude QtOpenGL QOpenGLBuffer VALUE_TYPE_QTOPENGL_QOPENGLBUFFER;
    TypeInclude QtOpenGL QOpenGLDebugMessage VALUE_TYPE_QTOPENGL_QOPENGLDEBUGMESSAGE;
    TypeInclude QtOpenGL QOpenGLFramebufferObjectFormat VALUE_TYPE_QTOPENGL_QOPENGLFRAMEBUFFEROBJECTFORMAT
  ].

Definition value_constructors_qtopengl_0_r0 : list constructor_row :=
  [
    Ctor QOpenGLBuffer 0 [Cand [] [] None];
    Ctor QOpenGLBuffer 1 [Cand [TYPE_QTOPENGL_QOPENGLBUFFER] [PValue QOpenGLBuffer_Type] None; Cand
        [VALUE_TYPE_QTOPENGL_QOPENGLBUFFER] [PValue QOpenGLBuffer] None];
    Ctor QOpenGLDebugMessage 0 [Cand [] [] None];
    Ctor QOpenGLDebugMessage 1 [Cand [VALUE_TYPE_QTOPENGL_QOPENGLDEBUGMESSAGE] [PValue QOpenGLDebugMessage]
        None];
    Ctor QOpenGLFramebufferObject 2 [Cand [VALUE_TYPE_QTCORE_QSIZE;
        VALUE_TYPE_QTOPENGL_QOPENGLFRAMEBUFFEROBJECTFORMAT] [PValue QSize; PValue
        QOpenGLFramebufferObjectFormat] None];
    Ctor QOpenGLFramebufferObject 3 [Cand [VALUE_TYPE_QTOPENGL_QOPENGLFRAMEBUFFEROBJECTFORMAT] [PInt; PInt;
        PValue QOpenGLFramebufferObjectFormat] None];
    Ctor QOpenGLFramebufferObjectFormat 0 [Cand [] [] None]
  ].

Definition value_constructors_qtopengl_0_r1 : list constructor_row :=
  [
    Ctor QOpenGLFramebufferObjectFormat 1 [Cand [VALUE_TYPE_QTOPENGL_QOPENGLFRAMEBUFFEROBJECTFORMAT]
        [PValue QOpenGLFramebufferObjectFormat] None];
    Ctor QOpenGLFunctions_2_0 0 [Cand [] [] None];
    Ctor QOpenGLFunctions_2_1 0 [Cand [] [] None];
    Ctor QOpenGLFunctions_4_1_Core 0 [Cand [] [] None];
    Ctor QOpenGLPaintDevice 0 [Cand [] [] None];
    Ctor QOpenGLPaintDevice 1 [Cand [VALUE_TYPE_QTCORE_QSIZE] [PValue QSize] None];
    Ctor QOpenGLPaintDevice 2 [Cand [] [PInt; PInt] None]
  ].

Definition value_constructors_qtopengl_0_c0 : list class_row :=
  [
    Cls [TYPE_QTOPENGL_QOPENGLBUFFER; VALUE_TYPE_QTOPENGL_QOPENGLBUFFER] QOpenGLBuffer [[];
        [QOpenGLBuffer_Type]; [QOpenGLBuffer]];
    Cls [VALUE_TYPE_QTOPENGL_QOPENGLDEBUGMESSAGE] QOpenGLDebugMessage [[]; [QOpenGLDebugMessage]];
    Cls [VALUE_TYPE_QTCORE_QSIZE; VALUE_TYPE_QTOPENGL_QOPENGLFRAMEBUFFEROBJECTFORMAT]
        QOpenGLFramebufferObject [[QSize; QOpenGLFramebufferObjectFormat]; [cxx_int; cxx_int;
        QOpenGLFramebufferObjectFormat]];
    Cls [VALUE_TYPE_QTOPENGL_QOPENGLFRAMEBUFFEROBJECTFORMAT] QOpenGLFramebufferObjectFormat [[];
        [QOpenGLFramebufferObjectFormat]];
    Cls [] QOpenGLFunctions_2_0 [[]];
    Cls [] QOpenGLFunctions_2_1 [[]];
    Cls [] QOpenGLFunctions_4_1_Core [[]];
    Cls [VALUE_TYPE_QTCORE_QSIZE] QOpenGLPaintDevice [[]; [QSize]; [cxx_int; cxx_int]]
  ].

Definition value_constructors_qtopengl_0 : constructor_shard :=
  ConstructorShard QtOpenGL "KRY_QT6_NATIVE_VALUE_CONSTRUCTORS_QTOPENGL_"
    (value_constructors_qtopengl_0_i0)
    (value_constructors_qtopengl_0_r0 ++ value_constructors_qtopengl_0_r1)
    (value_constructors_qtopengl_0_c0).

Definition value_constructors_qtopengl_1_i0 : list include :=
  [
    ClassInclude QtOpenGL QOpenGLPixelTransferOptions QOpenGLPixelTransferOptions;
    ClassInclude QtOpenGL QOpenGLTexture QOpenGLTexture;
    ClassInclude QtOpenGL QOpenGLTextureBlitter QOpenGLTextureBlitter;
    ClassInclude QtOpenGL QOpenGLVersionProfile QOpenGLVersionProfile;
    TypeInclude QtOpenGL QOpenGLTexture TYPE_QTOPENGL_QOPENGLTEXTURE;
    TypeInclude QtGui QImage VALUE_TYPE_QTGUI_QIMAGE;
    TypeInclude QtGui QSurfaceFormat VALUE_TYPE_QTGUI_QSURFACEFORMAT;
    TypeInclude QtOpenGL QOpenGLPixelTransferOptions VALUE_TYPE_QTOPENGL_QOPENGLPIXELTRANSFEROPTIONS;
    TypeInclude QtOpenGL QOpenGLVersionProfile VALUE_TYPE_QTOPENGL_QOPENGLVERSIONPROFILE
  ].

Definition value_constructors_qtopengl_1_r0 : list constructor_row :=
  [
    Ctor QOpenGLPixelTransferOptions 0 [Cand [] [] None];
    Ctor QOpenGLPixelTransferOptions 1 [Cand [VALUE_TYPE_QTOPENGL_QOPENGLPIXELTRANSFEROPTIONS] [PValue
        QOpenGLPixelTransferOptions] None];
    Ctor QOpenGLTexture 1 [Cand [TYPE_QTOPENGL_QOPENGLTEXTURE] [PValue QOpenGLTexture_Target] None; Cand
        [TYPE_QTOPENGL_QOPENGLTEXTURE; VALUE_TYPE_QTGUI_QIMAGE] [PValue QImage] None];
    Ctor QOpenGLTexture 2 [Cand [TYPE_QTOPENGL_QOPENGLTEXTURE; VALUE_TYPE_QTGUI_QIMAGE] [PValue QImage;
        PValue QOpenGLTexture_MipMapGeneration] None];
    Ctor QOpenGLTextureBlitter 0 [Cand [] [] None];
    Ctor QOpenGLVersionProfile 0 [Cand [] [] None];
    Ctor QOpenGLVersionProfile 1 [Cand [VALUE_TYPE_QTGUI_QSURFACEFORMAT] [PValue QSurfaceFormat] None; Cand
        [VALUE_TYPE_QTOPENGL_QOPENGLVERSIONPROFILE] [PValue QOpenGLVersionProfile] None]
  ].

Definition value_constructors_qtopengl_1_c0 : list class_row :=
  [
    Cls [VALUE_TYPE_QTOPENGL_QOPENGLPIXELTRANSFEROPTIONS] QOpenGLPixelTransferOptions [[];
        [QOpenGLPixelTransferOptions]];
    Cls [TYPE_QTOPENGL_QOPENGLTEXTURE; VALUE_TYPE_QTGUI_QIMAGE] QOpenGLTexture [[QOpenGLTexture_Target];
        [QImage; QOpenGLTexture_MipMapGeneration]];
    Cls [] QOpenGLTextureBlitter [[]];
    Cls [VALUE_TYPE_QTGUI_QSURFACEFORMAT; VALUE_TYPE_QTOPENGL_QOPENGLVERSIONPROFILE] QOpenGLVersionProfile
        [[]; [QSurfaceFormat]; [QOpenGLVersionProfile]]
  ].

Definition value_constructors_qtopengl_1 : constructor_shard :=
  ConstructorShard QtOpenGL "KRY_QT6_NATIVE_VALUE_CONSTRUCTORS_QTOPENGL_"
    (value_constructors_qtopengl_1_i0)
    (value_constructors_qtopengl_1_r0)
    (value_constructors_qtopengl_1_c0).

Definition value_constructors_qtpdf_0_i0 : list include :=
  [
    ClassInclude QtPdf QPdfDocumentRenderOptions QPdfDocumentRenderOptions;
    ClassInclude QtPdf QPdfLink QPdfLink;
    ClassInclude QtPdf QPdfSelection QPdfSelection;
    TypeInclude QtPdf QPdfLink VALUE_TYPE_QTPDF_QPDFLINK;
    TypeInclude QtPdf QPdfSelection VALUE_TYPE_QTPDF_QPDFSELECTION
  ].

Definition value_constructors_qtpdf_0_r0 : list constructor_row :=
  [
    Ctor QPdfDocumentRenderOptions 0 [Cand [] [] None];
    Ctor QPdfLink 0 [Cand [] [] None];
    Ctor QPdfLink 1 [Cand [VALUE_TYPE_QTPDF_QPDFLINK] [PValue QPdfLink] None];
    Ctor QPdfSelection 1 [Cand [VALUE_TYPE_QTPDF_QPDFSELECTION] [PValue QPdfSelection] None]
  ].

Definition value_constructors_qtpdf_0_c0 : list class_row :=
  [
    Cls [] QPdfDocumentRenderOptions [[]];
    Cls [VALUE_TYPE_QTPDF_QPDFLINK] QPdfLink [[]; [QPdfLink]];
    Cls [VALUE_TYPE_QTPDF_QPDFSELECTION] QPdfSelection [[QPdfSelection]]
  ].

Definition value_constructors_qtpdf_0 : constructor_shard :=
  ConstructorShard QtPdf "KRY_QT6_NATIVE_VALUE_CONSTRUCTORS_QTPDF_"
    (value_constructors_qtpdf_0_i0)
    (value_constructors_qtpdf_0_r0)
    (value_constructors_qtpdf_0_c0).

Definition value_constructors_qtpositioning_0_i0 : list include :=
  [
    ClassInclude QtPositioning QGeoAddress QGeoAddress;
    ClassInclude QtPositioning QGeoAreaMonitorInfo QGeoAreaMonitorInfo;
    ClassInclude QtPositioning QGeoCircle QGeoCircle;
    ClassInclude QtPositioning QGeoCoordinate QGeoCoordinate;
    ClassInclude QtPositioning QGeoLocation QGeoLocation;
    ClassInclude QtPositioning QGeoPath QGeoPath;
    ClassInclude QtPositioning QGeoPolygon QGeoPolygon;
    ClassInclude QtPositioning QGeoPositionInfo QGeoPositionInfo;
    TypeInclude QtCore QDateTime VALUE_TYPE_QTCORE_QDATETIME;
    TypeInclude QtPositioning QGeoAddress VALUE_TYPE_QTPOSITIONING_QGEOADDRESS;
    TypeInclude QtPositioning QGeoAreaMonitorInfo VALUE_TYPE_QTPOSITIONING_QGEOAREAMONITORINFO;
    TypeInclude QtPositioning QGeoCircle VALUE_TYPE_QTPOSITIONING_QGEOCIRCLE;
    TypeInclude QtPositioning QGeoCoordinate VALUE_TYPE_QTPOSITIONING_QGEOCOORDINATE;
    TypeInclude QtPositioning QGeoLocation VALUE_TYPE_QTPOSITIONING_QGEOLOCATION;
    TypeInclude QtPositioning QGeoPath VALUE_TYPE_QTPOSITIONING_QGEOPATH;
    TypeInclude QtPositioning QGeoPolygon VALUE_TYPE_QTPOSITIONING_QGEOPOLYGON;
    TypeInclude QtPositioning QGeoPositionInfo VALUE_TYPE_QTPOSITIONING_QGEOPOSITIONINFO;
    TypeInclude QtPositioning QGeoShape VALUE_TYPE_QTPOSITIONING_QGEOSHAPE
  ].

Definition value_constructors_qtpositioning_0_r0 : list constructor_row :=
  [
    Ctor QGeoAddress 0 [Cand [] [] None];
    Ctor QGeoAddress 1 [Cand [VALUE_TYPE_QTPOSITIONING_QGEOADDRESS] [PValue QGeoAddress] None];
    Ctor QGeoAreaMonitorInfo 0 [Cand [] [] None];
    Ctor QGeoAreaMonitorInfo 1 [Cand [] [PString false] None; Cand
        [VALUE_TYPE_QTPOSITIONING_QGEOAREAMONITORINFO] [PValue QGeoAreaMonitorInfo] None];
    Ctor QGeoCircle 0 [Cand [] [] None];
    Ctor QGeoCircle 1 [Cand [VALUE_TYPE_QTPOSITIONING_QGEOCOORDINATE] [PValue QGeoCoordinate] None; Cand
        [VALUE_TYPE_QTPOSITIONING_QGEOCIRCLE] [PValue QGeoCircle] None; Cand
        [VALUE_TYPE_QTPOSITIONING_QGEOSHAPE] [PValue QGeoShape] None]
  ].

Definition value_constructors_qtpositioning_0_r1 : list constructor_row :=
  [
    Ctor QGeoCircle 2 [Cand [VALUE_TYPE_QTPOSITIONING_QGEOCOORDINATE] [PValue QGeoCoordinate; PNumber
        cxx_qreal] None];
    Ctor QGeoCoordinate 0 [Cand [] [] None];
    Ctor QGeoCoordinate 1 [Cand [VALUE_TYPE_QTPOSITIONING_QGEOCOORDINATE] [PValue QGeoCoordinate] None];
    Ctor QGeoCoordinate 2 [Cand [] [PNumber cxx_double; PNumber cxx_double] None];
    Ctor QGeoCoordinate 3 [Cand [] [PNumber cxx_double; PNumber cxx_double; PNumber cxx_double] None];
    Ctor QGeoLocation 0 [Cand [] [] None];
    Ctor QGeoLocation 1 [Cand [VALUE_TYPE_QTPOSITIONING_QGEOLOCATION] [PValue QGeoLocation] None];
    Ctor QGeoPath 0 [Cand [] [] None]
  ].

Definition value_constructors_qtpositioning_0_r2 : list constructor_row :=
  [
    Ctor QGeoPath 1 [Cand [VALUE_TYPE_QTPOSITIONING_QGEOCOORDINATE] [PList (IValue QGeoCoordinate)] None;
        Cand [VALUE_TYPE_QTPOSITIONING_QGEOPATH] [PValue QGeoPath] None; Cand
        [VALUE_TYPE_QTPOSITIONING_QGEOSHAPE] [PValue QGeoShape] None];
    Ctor QGeoPath 2 [Cand [VALUE_TYPE_QTPOSITIONING_QGEOCOORDINATE] [PList (IValue QGeoCoordinate); PNumber
        cxx_qreal] None];
    Ctor QGeoPolygon 0 [Cand [] [] None];
    Ctor QGeoPolygon 1 [Cand [VALUE_TYPE_QTPOSITIONING_QGEOCOORDINATE] [PList (IValue QGeoCoordinate)]
        None; Cand [VALUE_TYPE_QTPOSITIONING_QGEOPOLYGON] [PValue QGeoPolygon] None; Cand
        [VALUE_TYPE_QTPOSITIONING_QGEOSHAPE] [PValue QGeoShape] None];
    Ctor QGeoPositionInfo 0 [Cand [] [] None]
  ].

Definition value_constructors_qtpositioning_0_r3 : list constructor_row :=
  [
    Ctor QGeoPositionInfo 1 [Cand [VALUE_TYPE_QTPOSITIONING_QGEOPOSITIONINFO] [PValue QGeoPositionInfo]
        None];
    Ctor QGeoPositionInfo 2 [Cand [VALUE_TYPE_QTCORE_QDATETIME; VALUE_TYPE_QTPOSITIONING_QGEOCOORDINATE]
        [PValue QGeoCoordinate; PValue QDateTime] None]
  ].

Definition value_constructors_qtpositioning_0_c0 : list class_row :=
  [
    Cls [VALUE_TYPE_QTPOSITIONING_QGEOADDRESS] QGeoAddress [[]; [QGeoAddress]];
    Cls [VALUE_TYPE_QTPOSITIONING_QGEOAREAMONITORINFO] QGeoAreaMonitorInfo [[QString];
        [QGeoAreaMonitorInfo]];
    Cls [VALUE_TYPE_QTPOSITIONING_QGEOCIRCLE; VALUE_TYPE_QTPOSITIONING_QGEOCOORDINATE;
        VALUE_TYPE_QTPOSITIONING_QGEOSHAPE] QGeoCircle [[]; [QGeoCoordinate; cxx_qreal]; [QGeoCircle];
        [QGeoShape]];
    Cls [VALUE_TYPE_QTPOSITIONING_QGEOCOORDINATE] QGeoCoordinate [[]; [cxx_double; cxx_double];
        [cxx_double; cxx_double; cxx_double]; [QGeoCoordinate]];
    Cls [VALUE_TYPE_QTPOSITIONING_QGEOLOCATION] QGeoLocation [[]; [QGeoLocation]];
    Cls [VALUE_TYPE_QTPOSITIONING_QGEOCOORDINATE; VALUE_TYPE_QTPOSITIONING_QGEOPATH;
        VALUE_TYPE_QTPOSITIONING_QGEOSHAPE] QGeoPath [[]; [QList_QGeoCoordinate; cxx_qreal]; [QGeoPath];
        [QGeoShape]];
    Cls [VALUE_TYPE_QTPOSITIONING_QGEOCOORDINATE; VALUE_TYPE_QTPOSITIONING_QGEOPOLYGON;
        VALUE_TYPE_QTPOSITIONING_QGEOSHAPE] QGeoPolygon [[]; [QList_QGeoCoordinate]; [QGeoPolygon];
        [QGeoShape]];
    Cls [VALUE_TYPE_QTCORE_QDATETIME; VALUE_TYPE_QTPOSITIONING_QGEOCOORDINATE;
        VALUE_TYPE_QTPOSITIONING_QGEOPOSITIONINFO] QGeoPositionInfo [[]; [QGeoCoordinate; QDateTime];
        [QGeoPositionInfo]]
  ].

Definition value_constructors_qtpositioning_0 : constructor_shard :=
  ConstructorShard QtPositioning "KRY_QT6_NATIVE_VALUE_CONSTRUCTORS_QTPOSITIONING_"
    (value_constructors_qtpositioning_0_i0)
    (value_constructors_qtpositioning_0_r0 ++ value_constructors_qtpositioning_0_r1 ++
        value_constructors_qtpositioning_0_r2 ++ value_constructors_qtpositioning_0_r3)
    (value_constructors_qtpositioning_0_c0).

Definition value_constructors_qtpositioning_1_i0 : list include :=
  [
    ClassInclude QtPositioning QGeoRectangle QGeoRectangle;
    ClassInclude QtPositioning QGeoSatelliteInfo QGeoSatelliteInfo;
    ClassInclude QtPositioning QGeoShape QGeoShape;
    TypeInclude QtPositioning QGeoCoordinate VALUE_TYPE_QTPOSITIONING_QGEOCOORDINATE;
    TypeInclude QtPositioning QGeoRectangle VALUE_TYPE_QTPOSITIONING_QGEORECTANGLE;
    TypeInclude QtPositioning QGeoSatelliteInfo VALUE_TYPE_QTPOSITIONING_QGEOSATELLITEINFO;
    TypeInclude QtPositioning QGeoShape VALUE_TYPE_QTPOSITIONING_QGEOSHAPE
  ].

Definition value_constructors_qtpositioning_1_r0 : list constructor_row :=
  [
    Ctor QGeoRectangle 0 [Cand [] [] None];
    Ctor QGeoRectangle 1 [Cand [VALUE_TYPE_QTPOSITIONING_QGEOCOORDINATE] [PList (IValue QGeoCoordinate)]
        None; Cand [VALUE_TYPE_QTPOSITIONING_QGEORECTANGLE] [PValue QGeoRectangle] None; Cand
        [VALUE_TYPE_QTPOSITIONING_QGEOSHAPE] [PValue QGeoShape] None];
    Ctor QGeoRectangle 2 [Cand [VALUE_TYPE_QTPOSITIONING_QGEOCOORDINATE] [PValue QGeoCoordinate; PValue
        QGeoCoordinate] None];
    Ctor QGeoRectangle 3 [Cand [VALUE_TYPE_QTPOSITIONING_QGEOCOORDINATE] [PValue QGeoCoordinate; PNumber
        cxx_double; PNumber cxx_double] None];
    Ctor QGeoSatelliteInfo 0 [Cand [] [] None];
    Ctor QGeoSatelliteInfo 1 [Cand [VALUE_TYPE_QTPOSITIONING_QGEOSATELLITEINFO] [PValue QGeoSatelliteInfo]
        None]
  ].

Definition value_constructors_qtpositioning_1_r1 : list constructor_row :=
  [
    Ctor QGeoShape 0 [Cand [] [] None];
    Ctor QGeoShape 1 [Cand [VALUE_TYPE_QTPOSITIONING_QGEOSHAPE] [PValue QGeoShape] None]
  ].

Definition value_constructors_qtpositioning_1_c0 : list class_row :=
  [
    Cls [VALUE_TYPE_QTPOSITIONING_QGEOCOORDINATE; VALUE_TYPE_QTPOSITIONING_QGEORECTANGLE;
        VALUE_TYPE_QTPOSITIONING_QGEOSHAPE] QGeoRectangle [[]; [QGeoCoordinate; cxx_double; cxx_double];
        [QGeoCoordinate; QGeoCoordinate]; [QList_QGeoCoordinate]; [QGeoRectangle]; [QGeoShape]];
    Cls [VALUE_TYPE_QTPOSITIONING_QGEOSATELLITEINFO] QGeoSatelliteInfo [[]; [QGeoSatelliteInfo]];
    Cls [VALUE_TYPE_QTPOSITIONING_QGEOSHAPE] QGeoShape [[]; [QGeoShape]]
  ].

Definition value_constructors_qtpositioning_1 : constructor_shard :=
  ConstructorShard QtPositioning "KRY_QT6_NATIVE_VALUE_CONSTRUCTORS_QTPOSITIONING_"
    (value_constructors_qtpositioning_1_i0)
    (value_constructors_qtpositioning_1_r0 ++ value_constructors_qtpositioning_1_r1)
    (value_constructors_qtpositioning_1_c0).

Definition value_constructors_qtprintsupport_0_i0 : list include :=
  [
    ClassInclude QtPrintSupport QPrinter QPrinter;
    ClassInclude QtPrintSupport QPrinterInfo QPrinterInfo;
    TypeInclude QtPrintSupport QPrinter TYPE_QTPRINTSUPPORT_QPRINTER;
    TypeInclude QtPrintSupport QPrinter VALUE_TYPE_QTPRINTSUPPORT_QPRINTER;
    TypeInclude QtPrintSupport QPrinterInfo VALUE_TYPE_QTPRINTSUPPORT_QPRINTERINFO
  ].

Definition value_constructors_qtprintsupport_0_r0 : list constructor_row :=
  [
    Ctor QPrinter 0 [Cand [TYPE_QTPRINTSUPPORT_QPRINTER] [] None];
    Ctor QPrinter 1 [Cand [TYPE_QTPRINTSUPPORT_QPRINTER] [PValue QPrinter_PrinterMode] None; Cand
        [TYPE_QTPRINTSUPPORT_QPRINTER; VALUE_TYPE_QTPRINTSUPPORT_QPRINTERINFO] [PValue QPrinterInfo] None];
    Ctor QPrinter 2 [Cand [TYPE_QTPRINTSUPPORT_QPRINTER; VALUE_TYPE_QTPRINTSUPPORT_QPRINTERINFO] [PValue
        QPrinterInfo; PValue QPrinter_PrinterMode] None];
    Ctor QPrinterInfo 0 [Cand [] [] None];
    Ctor QPrinterInfo 1 [Cand [VALUE_TYPE_QTPRINTSUPPORT_QPRINTERINFO] [PValue QPrinterInfo] None; Cand
        [VALUE_TYPE_QTPRINTSUPPORT_QPRINTER] [PValue QPrinter] None]
  ].

Definition value_constructors_qtprintsupport_0_c0 : list class_row :=
  [
    Cls [TYPE_QTPRINTSUPPORT_QPRINTER; VALUE_TYPE_QTPRINTSUPPORT_QPRINTERINFO] QPrinter
        [[QPrinter_PrinterMode]; [QPrinterInfo; QPrinter_PrinterMode]];
    Cls [VALUE_TYPE_QTPRINTSUPPORT_QPRINTER; VALUE_TYPE_QTPRINTSUPPORT_QPRINTERINFO] QPrinterInfo [[];
        [QPrinterInfo]; [QPrinter]]
  ].

Definition value_constructors_qtprintsupport_0 : constructor_shard :=
  ConstructorShard QtPrintSupport "KRY_QT6_NATIVE_VALUE_CONSTRUCTORS_QTPRINTSUPPORT_"
    (value_constructors_qtprintsupport_0_i0)
    (value_constructors_qtprintsupport_0_r0)
    (value_constructors_qtprintsupport_0_c0).

Definition value_constructors_qtqml_0_i0 : list include :=
  [
    ClassInclude QtQml QJSManagedValue QJSManagedValue;
    ClassInclude QtQml QJSPrimitiveValue QJSPrimitiveValue;
    ClassInclude QtQml QJSValue QJSValue;
    ClassInclude QtQml QJSValueIterator QJSValueIterator;
    ClassInclude QtQml QQmlAbstractUrlInterceptor QQmlAbstractUrlInterceptor;
    ClassInclude QtQml QQmlError QQmlError;
    ClassInclude QtQml QQmlIncubationController QQmlIncubationController;
    ClassInclude QtQml QQmlIncubator QQmlIncubator;
    TypeInclude QtQml QJSEngine TYPE_QTQML_QJSENGINE;
    TypeInclude QtQml QJSValue TYPE_QTQML_QJSVALUE;
    TypeInclude QtQml QQmlIncubator TYPE_QTQML_QQMLINCUBATOR;
    TypeInclude QtQml QJSPrimitiveValue VALUE_TYPE_QTQML_QJSPRIMITIVEVALUE;
    TypeInclude QtQml QJSValue VALUE_TYPE_QTQML_QJSVALUE;
    TypeInclude QtQml QQmlError VALUE_TYPE_QTQML_QQMLERROR
  ].

Definition value_constructors_qtqml_0_r0 : list constructor_row :=
  [
    Ctor QJSManagedValue 0 [Cand [] [] None];
    Ctor QJSManagedValue 2 [Cand [TYPE_QTQML_QJSENGINE; VALUE_TYPE_QTQML_QJSVALUE] [PValue QJSValue;
        PObject QJSEngine false] None; Cand [TYPE_QTQML_QJSENGINE; VALUE_TYPE_QTQML_QJSPRIMITIVEVALUE]
        [PValue QJSPrimitiveValue; PObject QJSEngine false] None; Cand [TYPE_QTQML_QJSENGINE] [PString
        false; PObject QJSEngine false] None; Cand [TYPE_QTQML_QJSENGINE] [PVariant; PObject QJSEngine
        false] None];
    Ctor QJSPrimitiveValue 0 [Cand [] [] None]
  ].

Definition value_constructors_qtqml_0_r1 : list constructor_row :=
  [
    Ctor QJSPrimitiveValue 1 [Cand [] [PBool] None; Cand [] [PInt] None; Cand [] [PNumber cxx_double] None;
        Cand [] [PString false] None];
    Ctor QJSValue 0 [Cand [TYPE_QTQML_QJSVALUE] [] None];
    Ctor QJSValue 1 [Cand [TYPE_QTQML_QJSVALUE] [PValue QJSValue_SpecialValue] None; Cand
        [VALUE_TYPE_QTQML_QJSVALUE] [PValue QJSValue] None];
    Ctor QJSValueIterator 1 [Cand [VALUE_TYPE_QTQML_QJSVALUE] [PValue QJSValue] None];
    Ctor QQmlAbstractUrlInterceptor 0 [Cand [] [] None]
  ].

Definition value_constructors_qtqml_0_r2 : list constructor_row :=
  [
    Ctor QQmlError 0 [Cand [] [] None];
    Ctor QQmlError 1 [Cand [VALUE_TYPE_QTQML_QQMLERROR] [PValue QQmlError] None];
    Ctor QQmlIncubationController 0 [Cand [] [] None];
    Ctor QQmlIncubator 0 [Cand [TYPE_QTQML_QQMLINCUBATOR] [] None];
    Ctor QQmlIncubator 1 [Cand [TYPE_QTQML_QQMLINCUBATOR] [PValue QQmlIncubator_IncubationMode] None]
  ].

Definition value_constructors_qtqml_0_c0 : list class_row :=
  [
    Cls [TYPE_QTQML_QJSENGINE; VALUE_TYPE_QTQML_QJSPRIMITIVEVALUE; VALUE_TYPE_QTQML_QJSVALUE]
        QJSManagedValue [[]; [QJSValue; QJSEngine_ptr]; [QJSPrimitiveValue; QJSEngine_ptr]; [QString;
        QJSEngine_ptr]; [QVariant; QJSEngine_ptr]];
    Cls [] QJSPrimitiveValue [[]; [cxx_bool]; [cxx_int]; [cxx_double]; [QString]];
    Cls [TYPE_QTQML_QJSVALUE; VALUE_TYPE_QTQML_QJSVALUE] QJSValue [[QJSValue_SpecialValue]; [QJSValue]];
    Cls [VALUE_TYPE_QTQML_QJSVALUE] QJSValueIterator [[QJSValue]];
    Cls [] QQmlAbstractUrlInterceptor [[]];
    Cls [VALUE_TYPE_QTQML_QQMLERROR] QQmlError [[]; [QQmlError]];
    Cls [] QQmlIncubationController [[]];
    Cls [TYPE_QTQML_QQMLINCUBATOR] QQmlIncubator [[QQmlIncubator_IncubationMode]]
  ].

Definition value_constructors_qtqml_0 : constructor_shard :=
  ConstructorShard QtQml "KRY_QT6_NATIVE_VALUE_CONSTRUCTORS_QTQML_"
    (value_constructors_qtqml_0_i0)
    (value_constructors_qtqml_0_r0 ++ value_constructors_qtqml_0_r1 ++ value_constructors_qtqml_0_r2)
    (value_constructors_qtqml_0_c0).

Definition value_constructors_qtqml_1_i0 : list include :=
  [
    ClassInclude QtQml QQmlListReference QQmlListReference;
    ClassInclude QtQml QQmlParserStatus QQmlParserStatus;
    ClassInclude QtQml QQmlProperty QQmlProperty;
    ClassInclude QtQml QQmlPropertyValueSource QQmlPropertyValueSource;
    ClassInclude QtQml QQmlScriptString QQmlScriptString;
    TypeInclude QtCore QObject TYPE_QTCORE_QOBJECT;
    TypeInclude QtQml QQmlContext TYPE_QTQML_QQMLCONTEXT;
    TypeInclude QtQml QQmlEngine TYPE_QTQML_QQMLENGINE;
    TypeInclude QtQml QQmlListReference VALUE_TYPE_QTQML_QQMLLISTREFERENCE;
    TypeInclude QtQml QQmlProperty VALUE_TYPE_QTQML_QQMLPROPERTY;
    TypeInclude QtQml QQmlScriptString VALUE_TYPE_QTQML_QQMLSCRIPTSTRING
  ].

Definition value_constructors_qtqml_1_r0 : list constructor_row :=
  [
    Ctor QQmlListReference 0 [Cand [] [] None];
    Ctor QQmlListReference 1 [Cand [VALUE_TYPE_QTQML_QQMLLISTREFERENCE] [PValue QQmlListReference] None;
        Cand [TYPE_QTQML_QQMLENGINE] [PVariant] None];
    Ctor QQmlListReference 2 [Cand [TYPE_QTQML_QQMLENGINE] [PVariant; PObject QQmlEngine false] None];
    Ctor QQmlParserStatus 0 [Cand [] [] None];
    Ctor QQmlProperty 0 [Cand [] [] None];
    Ctor QQmlProperty 1 [Cand [TYPE_QTCORE_QOBJECT] [PObject QObject false] None; Cand
        [VALUE_TYPE_QTQML_QQMLPROPERTY] [PValue QQmlProperty] None]
  ].

Definition value_constructors_qtqml_1_r1 : list constructor_row :=
  [
    Ctor QQmlProperty 2 [Cand [TYPE_QTCORE_QOBJECT; TYPE_QTQML_QQMLCONTEXT] [PObject QObject false; PObject
        QQmlContext false] None; Cand [TYPE_QTCORE_QOBJECT; TYPE_QTQML_QQMLENGINE] [PObject QObject false;
        PObject QQmlEngine false] None; Cand [TYPE_QTCORE_QOBJECT] [PObject QObject false; PString false]
        None];
    Ctor QQmlProperty 3 [Cand [TYPE_QTCORE_QOBJECT; TYPE_QTQML_QQMLCONTEXT] [PObject QObject false; PString
        false; PObject QQmlContext false] None; Cand [TYPE_QTCORE_QOBJECT; TYPE_QTQML_QQMLENGINE] [PObject
        QObject false; PString false; PObject QQmlEngine false] None];
    Ctor QQmlPropertyValueSource 0 [Cand [] [] None];
    Ctor QQmlScriptString 0 [Cand [] [] None];
    Ctor QQmlScriptString 1 [Cand [VALUE_TYPE_QTQML_QQMLSCRIPTSTRING] [PValue QQmlScriptString] None]
  ].

Definition value_constructors_qtqml_1_c0 : list class_row :=
  [
    Cls [TYPE_QTQML_QQMLENGINE; VALUE_TYPE_QTQML_QQMLLISTREFERENCE] QQmlListReference [[];
        [QQmlListReference]; [QVariant; QQmlEngine_ptr]];
    Cls [] QQmlParserStatus [[]];
    Cls [TYPE_QTCORE_QOBJECT; TYPE_QTQML_QQMLCONTEXT; TYPE_QTQML_QQMLENGINE; VALUE_TYPE_QTQML_QQMLPROPERTY]
        QQmlProperty [[]; [QObject_ptr]; [QObject_ptr; QQmlContext_ptr]; [QObject_ptr; QQmlEngine_ptr];
        [QObject_ptr; QString]; [QObject_ptr; QString; QQmlContext_ptr]; [QObject_ptr; QString;
        QQmlEngine_ptr]; [QQmlProperty]];
    Cls [] QQmlPropertyValueSource [[]];
    Cls [VALUE_TYPE_QTQML_QQMLSCRIPTSTRING] QQmlScriptString [[]; [QQmlScriptString]]
  ].

Definition value_constructors_qtqml_1 : constructor_shard :=
  ConstructorShard QtQml "KRY_QT6_NATIVE_VALUE_CONSTRUCTORS_QTQML_"
    (value_constructors_qtqml_1_i0)
    (value_constructors_qtqml_1_r0 ++ value_constructors_qtqml_1_r1)
    (value_constructors_qtqml_1_c0).

Definition value_constructors_qtquick_0_i0 : list include :=
  [
    ClassInclude QtQuick QQuickGraphicsConfiguration QQuickGraphicsConfiguration;
    ClassInclude QtQuick QQuickGraphicsDevice QQuickGraphicsDevice;
    ClassInclude QtQuick QQuickRenderTarget QQuickRenderTarget;
    ClassInclude QtQuick QSGClipNode QSGClipNode;
    ClassInclude QtQuick QSGFlatColorMaterial QSGFlatColorMaterial;
    ClassInclude QtQuick QSGGeometry QSGGeometry;
    ClassInclude QtQuick QSGGeometryNode QSGGeometryNode;
    ClassInclude QtQuick QSGMaterial QSGMaterial;
    TypeInclude QtQuick QSGGeometry TYPE_QTQUICK_QSGGEOMETRY;
    TypeInclude QtQuick QQuickGraphicsConfiguration VALUE_TYPE_QTQUICK_QQUICKGRAPHICSCONFIGURATION;
    TypeInclude QtQuick QQuickGraphicsDevice VALUE_TYPE_QTQUICK_QQUICKGRAPHICSDEVICE;
    TypeInclude QtQuick QQuickRenderTarget VALUE_TYPE_QTQUICK_QQUICKRENDERTARGET
  ].

Definition value_constructors_qtquick_0_r0 : list constructor_row :=
  [
    Ctor QQuickGraphicsConfiguration 0 [Cand [] [] None];
    Ctor QQuickGraphicsConfiguration 1 [Cand [VALUE_TYPE_QTQUICK_QQUICKGRAPHICSCONFIGURATION] [PValue
        QQuickGraphicsConfiguration] None];
    Ctor QQuickGraphicsDevice 0 [Cand [] [] None];
    Ctor QQuickGraphicsDevice 1 [Cand [VALUE_TYPE_QTQUICK_QQUICKGRAPHICSDEVICE] [PValue
        QQuickGraphicsDevice] None];
    Ctor QQuickRenderTarget 0 [Cand [] [] None];
    Ctor QQuickRenderTarget 1 [Cand [VALUE_TYPE_QTQUICK_QQUICKRENDERTARGET] [PValue QQuickRenderTarget]
        None];
    Ctor QSGClipNode 0 [Cand [] [] None];
    Ctor QSGFlatColorMaterial 0 [Cand [] [] None]
  ].

Definition value_constructors_qtquick_0_r1 : list constructor_row :=
  [
    Ctor QSGGeometry 2 [Cand [TYPE_QTQUICK_QSGGEOMETRY] [PValue QSGGeometry_AttributeSet; PInt] None];
    Ctor QSGGeometry 3 [Cand [TYPE_QTQUICK_QSGGEOMETRY] [PValue QSGGeometry_AttributeSet; PInt; PInt] None];
    Ctor QSGGeometry 4 [Cand [TYPE_QTQUICK_QSGGEOMETRY] [PValue QSGGeometry_AttributeSet; PInt; PInt; PInt]
        None];
    Ctor QSGGeometryNode 0 [Cand [] [] None];
    Ctor QSGMaterial 0 [Cand [] [] None]
  ].

Definition value_constructors_qtquick_0_c0 : list class_row :=
  [
    Cls [VALUE_TYPE_QTQUICK_QQUICKGRAPHICSCONFIGURATION] QQuickGraphicsConfiguration [[];
        [QQuickGraphicsConfiguration]];
    Cls [VALUE_TYPE_QTQUICK_QQUICKGRAPHICSDEVICE] QQuickGraphicsDevice [[]; [QQuickGraphicsDevice]];
    Cls [VALUE_TYPE_QTQUICK_QQUICKRENDERTARGET] QQuickRenderTarget [[]; [QQuickRenderTarget]];
    Cls [] QSGClipNode [[]];
    Cls [] QSGFlatColorMaterial [[]];
    Cls [TYPE_QTQUICK_QSGGEOMETRY] QSGGeometry [[QSGGeometry_AttributeSet; cxx_int; cxx_int; cxx_int]];
    Cls [] QSGGeometryNode [[]];
    Cls [] QSGMaterial [[]]
  ].

Definition value_constructors_qtquick_0 : constructor_shard :=
  ConstructorShard QtQuick "KRY_QT6_NATIVE_VALUE_CONSTRUCTORS_QTQUICK_"
    (value_constructors_qtquick_0_i0)
    (value_constructors_qtquick_0_r0 ++ value_constructors_qtquick_0_r1)
    (value_constructors_qtquick_0_c0).

Definition value_constructors_qtquick_1_i0 : list include :=
  [
    ClassInclude QtQuick QSGMaterialShader QSGMaterialShader;
    ClassInclude QtQuick QSGNode QSGNode;
    ClassInclude QtQuick QSGOpacityNode QSGOpacityNode;
    ClassInclude QtQuick QSGOpaqueTextureMaterial QSGOpaqueTextureMaterial;
    ClassInclude QtQuick QSGSimpleRectNode QSGSimpleRectNode;
    ClassInclude QtQuick QSGSimpleTextureNode QSGSimpleTextureNode;
    ClassInclude QtQuick QSGTransformNode QSGTransformNode;
    ClassInclude QtQuick QSGVertexColorMaterial QSGVertexColorMaterial;
    TypeInclude QtCore QRectF VALUE_TYPE_QTCORE_QRECTF;
    TypeInclude QtGui QColor VALUE_TYPE_QTGUI_QCOLOR
  ].

Definition value_constructors_qtquick_1_r0 : list constructor_row :=
  [
    Ctor QSGMaterialShader 0 [Cand [] [] None];
    Ctor QSGNode 0 [Cand [] [] None];
    Ctor QSGOpacityNode 0 [Cand [] [] None];
    Ctor QSGOpaqueTextureMaterial 0 [Cand [] [] None];
    Ctor QSGSimpleRectNode 0 [Cand [] [] None];
    Ctor QSGSimpleRectNode 2 [Cand [VALUE_TYPE_QTCORE_QRECTF; VALUE_TYPE_QTGUI_QCOLOR] [PValue QRectF;
        PValue QColor] None];
    Ctor QSGSimpleTextureNode 0 [Cand [] [] None];
    Ctor QSGTransformNode 0 [Cand [] [] None];
    Ctor QSGVertexColorMaterial 0 [Cand [] [] None]
  ].

Definition value_constructors_qtquick_1_c0 : list class_row :=
  [
    Cls [] QSGMaterialShader [[]];
    Cls [] QSGNode [[]];
    Cls [] QSGOpacityNode [[]];
    Cls [] QSGOpaqueTextureMaterial [[]];
    Cls [VALUE_TYPE_QTCORE_QRECTF; VALUE_TYPE_QTGUI_QCOLOR] QSGSimpleRectNode [[QRectF; QColor]; []];
    Cls [] QSGSimpleTextureNode [[]];
    Cls [] QSGTransformNode [[]];
    Cls [] QSGVertexColorMaterial [[]]
  ].

Definition value_constructors_qtquick_1 : constructor_shard :=
  ConstructorShard QtQuick "KRY_QT6_NATIVE_VALUE_CONSTRUCTORS_QTQUICK_"
    (value_constructors_qtquick_1_i0)
    (value_constructors_qtquick_1_r0)
    (value_constructors_qtquick_1_c0).

Definition value_constructors_qtserialport_0_i0 : list include :=
  [
    ClassInclude QtSerialPort QSerialPortInfo QSerialPortInfo;
    TypeInclude QtSerialPort QSerialPortInfo VALUE_TYPE_QTSERIALPORT_QSERIALPORTINFO
  ].

Definition value_constructors_qtserialport_0_r0 : list constructor_row :=
  [
    Ctor QSerialPortInfo 0 [Cand [] [] None];
    Ctor QSerialPortInfo 1 [Cand [] [PString false] None; Cand [VALUE_TYPE_QTSERIALPORT_QSERIALPORTINFO]
        [PValue QSerialPortInfo] None]
  ].

Definition value_constructors_qtserialport_0_c0 : list class_row :=
  [
    Cls [VALUE_TYPE_QTSERIALPORT_QSERIALPORTINFO] QSerialPortInfo [[]; [QString]; [QSerialPortInfo]]
  ].

Definition value_constructors_qtserialport_0 : constructor_shard :=
  ConstructorShard QtSerialPort "KRY_QT6_NATIVE_VALUE_CONSTRUCTORS_QTSERIALPORT_"
    (value_constructors_qtserialport_0_i0)
    (value_constructors_qtserialport_0_r0)
    (value_constructors_qtserialport_0_c0).

Definition value_constructors_qtsql_0_i0 : list include :=
  [
    ClassInclude QtSql QSqlDatabase QSqlDatabase;
    ClassInclude QtSql QSqlError QSqlError;
    ClassInclude QtSql QSqlField QSqlField;
    ClassInclude QtSql QSqlIndex QSqlIndex;
    ClassInclude QtSql QSqlQuery QSqlQuery;
    ClassInclude QtSql QSqlRecord QSqlRecord;
    ClassInclude QtSql QSqlRelation QSqlRelation;
    TypeInclude QtSql QSqlError TYPE_QTSQL_QSQLERROR;
    TypeInclude QtCore QMetaType VALUE_TYPE_QTCORE_QMETATYPE;
    TypeInclude QtSql QSqlDatabase VALUE_TYPE_QTSQL_QSQLDATABASE;
    TypeInclude QtSql QSqlError VALUE_TYPE_QTSQL_QSQLERROR;
    TypeInclude QtSql QSqlField VALUE_TYPE_QTSQL_QSQLFIELD;
    TypeInclude QtSql QSqlIndex VALUE_TYPE_QTSQL_QSQLINDEX;
    TypeInclude QtSql QSqlQuery VALUE_TYPE_QTSQL_QSQLQUERY;
    TypeInclude QtSql QSqlRecord VALUE_TYPE_QTSQL_QSQLRECORD
  ].

Definition value_constructors_qtsql_0_r0 : list constructor_row :=
  [
    Ctor QSqlDatabase 0 [Cand [] [] None];
    Ctor QSqlDatabase 1 [Cand [VALUE_TYPE_QTSQL_QSQLDATABASE] [PValue QSqlDatabase] None];
    Ctor QSqlError 0 [Cand [TYPE_QTSQL_QSQLERROR] [] None];
    Ctor QSqlError 1 [Cand [TYPE_QTSQL_QSQLERROR] [PString false] None; Cand [VALUE_TYPE_QTSQL_QSQLERROR]
        [PValue QSqlError] None];
    Ctor QSqlError 2 [Cand [TYPE_QTSQL_QSQLERROR] [PString false; PString false] None];
    Ctor QSqlError 3 [Cand [TYPE_QTSQL_QSQLERROR] [PString false; PString false; PValue
        QSqlError_ErrorType] None];
    Ctor QSqlError 4 [Cand [TYPE_QTSQL_QSQLERROR] [PString false; PString false; PValue
        QSqlError_ErrorType; PString false] None]
  ].

Definition value_constructors_qtsql_0_r1 : list constructor_row :=
  [
    Ctor QSqlField 0 [Cand [VALUE_TYPE_QTCORE_QMETATYPE] [] None];
    Ctor QSqlField 1 [Cand [VALUE_TYPE_QTCORE_QMETATYPE] [PString false] None; Cand
        [VALUE_TYPE_QTSQL_QSQLFIELD] [PValue QSqlField] None];
    Ctor QSqlField 2 [Cand [VALUE_TYPE_QTCORE_QMETATYPE] [PString false; PValue QMetaType] None];
    Ctor QSqlField 3 [Cand [VALUE_TYPE_QTCORE_QMETATYPE] [PString false; PValue QMetaType; PString false]
        None];
    Ctor QSqlIndex 0 [Cand [] [] None];
    Ctor QSqlIndex 1 [Cand [] [PString false] None; Cand [VALUE_TYPE_QTSQL_QSQLINDEX] [PValue QSqlIndex]
        None]
  ].

Definition value_constructors_qtsql_0_r2 : list constructor_row :=
  [
    Ctor QSqlIndex 2 [Cand [] [PString false; PString false] None];
    Ctor QSqlQuery 0 [Cand [VALUE_TYPE_QTSQL_QSQLDATABASE] [] None];
    Ctor QSqlQuery 1 [Cand [VALUE_TYPE_QTSQL_QSQLDATABASE] [PValue QSqlDatabase] None; Cand
        [VALUE_TYPE_QTSQL_QSQLDATABASE] [PString false] None; Cand [VALUE_TYPE_QTSQL_QSQLQUERY] [PValue
        QSqlQuery] None];
    Ctor QSqlQuery 2 [Cand [VALUE_TYPE_QTSQL_QSQLDATABASE] [PString false; PValue QSqlDatabase] None];
    Ctor QSqlRecord 0 [Cand [] [] None];
    Ctor QSqlRecord 1 [Cand [VALUE_TYPE_QTSQL_QSQLRECORD] [PValue QSqlRecord] None];
    Ctor QSqlRelation 0 [Cand [] [] None]
  ].

Definition value_constructors_qtsql_0_r3 : list constructor_row :=
  [
    Ctor QSqlRelation 3 [Cand [] [PString false; PString false; PString false] None]
  ].

Definition value_constructors_qtsql_0_c0 : list class_row :=
  [
    Cls [VALUE_TYPE_QTSQL_QSQLDATABASE] QSqlDatabase [[]; [QSqlDatabase]];
    Cls [TYPE_QTSQL_QSQLERROR; VALUE_TYPE_QTSQL_QSQLERROR] QSqlError [[QString; QString;
        QSqlError_ErrorType; QString]; [QSqlError]];
    Cls [VALUE_TYPE_QTCORE_QMETATYPE; VALUE_TYPE_QTSQL_QSQLFIELD] QSqlField [[QString; QMetaType; QString];
        [QSqlField]];
    Cls [VALUE_TYPE_QTSQL_QSQLINDEX] QSqlIndex [[QString; QString]; [QSqlIndex]];
    Cls [VALUE_TYPE_QTSQL_QSQLDATABASE; VALUE_TYPE_QTSQL_QSQLQUERY] QSqlQuery [[QSqlDatabase]; [QString;
        QSqlDatabase]; [QSqlQuery]];
    Cls [VALUE_TYPE_QTSQL_QSQLRECORD] QSqlRecord [[]; [QSqlRecord]];
    Cls [] QSqlRelation [[]; [QString; QString; QString]]
  ].

Definition value_constructors_qtsql_0 : constructor_shard :=
  ConstructorShard QtSql "KRY_QT6_NATIVE_VALUE_CONSTRUCTORS_QTSQL_"
    (value_constructors_qtsql_0_i0)
    (value_constructors_qtsql_0_r0 ++ value_constructors_qtsql_0_r1 ++ value_constructors_qtsql_0_r2 ++
        value_constructors_qtsql_0_r3)
    (value_constructors_qtsql_0_c0).

Definition value_constructors_qtsvg_0_i0 : list include :=
  [
    ClassInclude QtSvg QSvgGenerator QSvgGenerator;
    TypeInclude QtSvg QSvgGenerator TYPE_QTSVG_QSVGGENERATOR
  ].

Definition value_constructors_qtsvg_0_r0 : list constructor_row :=
  [
    Ctor QSvgGenerator 0 [Cand [] [] None];
    Ctor QSvgGenerator 1 [Cand [TYPE_QTSVG_QSVGGENERATOR] [PValue QSvgGenerator_SvgVersion] None]
  ].

Definition value_constructors_qtsvg_0_c0 : list class_row :=
  [
    Cls [TYPE_QTSVG_QSVGGENERATOR] QSvgGenerator [[]; [QSvgGenerator_SvgVersion]]
  ].

Definition value_constructors_qtsvg_0 : constructor_shard :=
  ConstructorShard QtSvg "KRY_QT6_NATIVE_VALUE_CONSTRUCTORS_QTSVG_"
    (value_constructors_qtsvg_0_i0)
    (value_constructors_qtsvg_0_r0)
    (value_constructors_qtsvg_0_c0).

Definition value_constructors_qttest_0_i0 : list include :=
  [
    ClassInclude QtTest QSignalSpy QSignalSpy;
    TypeInclude QtCore QObject TYPE_QTCORE_QOBJECT;
    TypeInclude QtCore QMetaMethod VALUE_TYPE_QTCORE_QMETAMETHOD
  ].

Definition value_constructors_qttest_0_r0 : list constructor_row :=
  [
    Ctor QSignalSpy 2 [Cand [TYPE_QTCORE_QOBJECT; VALUE_TYPE_QTCORE_QMETAMETHOD] [PObject QObject false;
        PValue QMetaMethod] None]
  ].

Definition value_constructors_qttest_0_c0 : list class_row :=
  [
    Cls [TYPE_QTCORE_QOBJECT; VALUE_TYPE_QTCORE_QMETAMETHOD] QSignalSpy [[QObject_ptr; QMetaMethod]]
  ].

Definition value_constructors_qttest_0 : constructor_shard :=
  ConstructorShard QtTest "KRY_QT6_NATIVE_VALUE_CONSTRUCTORS_QTTEST_"
    (value_constructors_qttest_0_i0)
    (value_constructors_qttest_0_r0)
    (value_constructors_qttest_0_c0).

Definition value_constructors_qttexttospeech_0_i0 : list include :=
  [
    ClassInclude QtTextToSpeech QVoice QVoice;
    TypeInclude QtTextToSpeech QVoice VALUE_TYPE_QTTEXTTOSPEECH_QVOICE
  ].

Definition value_constructors_qttexttospeech_0_r0 : list constructor_row :=
  [
    Ctor QVoice 0 [Cand [] [] None];
    Ctor QVoice 1 [Cand [VALUE_TYPE_QTTEXTTOSPEECH_QVOICE] [PValue QVoice] None]
  ].

Definition value_constructors_qttexttospeech_0_c0 : list class_row :=
  [
    Cls [VALUE_TYPE_QTTEXTTOSPEECH_QVOICE] QVoice [[]; [QVoice]]
  ].

Definition value_constructors_qttexttospeech_0 : constructor_shard :=
  ConstructorShard QtTextToSpeech "KRY_QT6_NATIVE_VALUE_CONSTRUCTORS_QTTEXTTOSPEECH_"
    (value_constructors_qttexttospeech_0_i0)
    (value_constructors_qttexttospeech_0_r0)
    (value_constructors_qttexttospeech_0_c0).

Definition value_constructors_qtwebenginecore_0_i0 : list include :=
  [
    ClassInclude QtWebEngineCore QWebEngineCertificateError QWebEngineCertificateError;
    ClassInclude QtWebEngineCore QWebEngineClientCertificateSelection QWebEngineClientCertificateSelection;
    ClassInclude QtWebEngineCore QWebEngineFindTextResult QWebEngineFindTextResult;
    ClassInclude QtWebEngineCore QWebEngineFullScreenRequest QWebEngineFullScreenRequest;
    ClassInclude QtWebEngineCore QWebEngineHistoryItem QWebEngineHistoryItem;
    ClassInclude QtWebEngineCore QWebEngineHttpRequest QWebEngineHttpRequest;
    ClassInclude QtWebEngineCore QWebEngineLoadingInfo QWebEngineLoadingInfo;
    ClassInclude QtWebEngineCore QWebEngineQuotaRequest QWebEngineQuotaRequest;
    TypeInclude QtWebEngineCore QWebEngineHttpRequest TYPE_QTWEBENGINECORE_QWEBENGINEHTTPREQUEST;
    TypeInclude QtCore QUrl VALUE_TYPE_QTCORE_QURL;
    TypeInclude QtWebEngineCore QWebEngineCertificateError
        VALUE_TYPE_QTWEBENGINECORE_QWEBENGINECERTIFICATEERROR;
    TypeInclude QtWebEngineCore QWebEngineClientCertificateSelection
        VALUE_TYPE_QTWEBENGINECORE_QWEBENGINECLIENTCERTIFICATESELECTION;
    TypeInclude QtWebEngineCore QWebEngineFindTextResult
        VALUE_TYPE_QTWEBENGINECORE_QWEBENGINEFINDTEXTRESULT;
    TypeInclude QtWebEngineCore QWebEngineFullScreenRequest
        VALUE_TYPE_QTWEBENGINECORE_QWEBENGINEFULLSCREENREQUEST;
    TypeInclude QtWebEngineCore QWebEngineHistoryItem VALUE_TYPE_QTWEBENGINECORE_QWEBENGINEHISTORYITEM;
    TypeInclude QtWebEngineCore QWebEngineHttpRequest VALUE_TYPE_QTWEBENGINECORE_QWEBENGINEHTTPREQUEST;
    TypeInclude QtWebEngineCore QWebEngineLoadingInfo VALUE_TYPE_QTWEBENGINECORE_QWEBENGINELOADINGINFO
  ].

Definition value_constructors_qtwebenginecore_0_r0 : list constructor_row :=
  [
    Ctor QWebEngineCertificateError 1 [Cand [VALUE_TYPE_QTWEBENGINECORE_QWEBENGINECERTIFICATEERROR] [PValue
        QWebEngineCertificateError] None];
    Ctor QWebEngineClientCertificateSelection 1 [Cand
        [VALUE_TYPE_QTWEBENGINECORE_QWEBENGINECLIENTCERTIFICATESELECTION] [PValue
        QWebEngineClientCertificateSelection] None];
    Ctor QWebEngineFindTextResult 0 [Cand [] [] None];
    Ctor QWebEngineFindTextResult 1 [Cand [VALUE_TYPE_QTWEBENGINECORE_QWEBENGINEFINDTEXTRESULT] [PValue
        QWebEngineFindTextResult] None];
    Ctor QWebEngineFullScreenRequest 1 [Cand [VALUE_TYPE_QTWEBENGINECORE_QWEBENGINEFULLSCREENREQUEST]
        [PValue QWebEngineFullScreenRequest] None];
    Ctor QWebEngineHistoryItem 1 [Cand [VALUE_TYPE_QTWEBENGINECORE_QWEBENGINEHISTORYITEM] [PValue
        QWebEngineHistoryItem] None];
    Ctor QWebEngineHttpRequest 0 [Cand [TYPE_QTWEBENGINECORE_QWEBENGINEHTTPREQUEST; VALUE_TYPE_QTCORE_QURL]
        [] None]
  ].

Definition value_constructors_qtwebenginecore_0_r1 : list constructor_row :=
  [
    Ctor QWebEngineHttpRequest 1 [Cand [TYPE_QTWEBENGINECORE_QWEBENGINEHTTPREQUEST; VALUE_TYPE_QTCORE_QURL]
        [PValue QUrl] None; Cand [VALUE_TYPE_QTWEBENGINECORE_QWEBENGINEHTTPREQUEST] [PValue
        QWebEngineHttpRequest] None];
    Ctor QWebEngineHttpRequest 2 [Cand [TYPE_QTWEBENGINECORE_QWEBENGINEHTTPREQUEST; VALUE_TYPE_QTCORE_QURL]
        [PValue QUrl; PValue QWebEngineHttpRequest_Method] None];
    Ctor QWebEngineLoadingInfo 1 [Cand [VALUE_TYPE_QTWEBENGINECORE_QWEBENGINELOADINGINFO] [PValue
        QWebEngineLoadingInfo] None];
    Ctor QWebEngineQuotaRequest 0 [Cand [] [] None]
  ].

Definition value_constructors_qtwebenginecore_0_c0 : list class_row :=
  [
    Cls [VALUE_TYPE_QTWEBENGINECORE_QWEBENGINECERTIFICATEERROR] QWebEngineCertificateError
        [[QWebEngineCertificateError]];
    Cls [VALUE_TYPE_QTWEBENGINECORE_QWEBENGINECLIENTCERTIFICATESELECTION]
        QWebEngineClientCertificateSelection [[QWebEngineClientCertificateSelection]];
    Cls [VALUE_TYPE_QTWEBENGINECORE_QWEBENGINEFINDTEXTRESULT] QWebEngineFindTextResult [[];
        [QWebEngineFindTextResult]];
    Cls [VALUE_TYPE_QTWEBENGINECORE_QWEBENGINEFULLSCREENREQUEST] QWebEngineFullScreenRequest
        [[QWebEngineFullScreenRequest]];
    Cls [VALUE_TYPE_QTWEBENGINECORE_QWEBENGINEHISTORYITEM] QWebEngineHistoryItem [[QWebEngineHistoryItem]];
    Cls [TYPE_QTWEBENGINECORE_QWEBENGINEHTTPREQUEST; VALUE_TYPE_QTCORE_QURL;
        VALUE_TYPE_QTWEBENGINECORE_QWEBENGINEHTTPREQUEST] QWebEngineHttpRequest [[QUrl;
        QWebEngineHttpRequest_Method]; [QWebEngineHttpRequest]];
    Cls [VALUE_TYPE_QTWEBENGINECORE_QWEBENGINELOADINGINFO] QWebEngineLoadingInfo [[QWebEngineLoadingInfo]];
    Cls [] QWebEngineQuotaRequest [[]]
  ].

Definition value_constructors_qtwebenginecore_0 : constructor_shard :=
  ConstructorShard QtWebEngineCore "KRY_QT6_NATIVE_VALUE_CONSTRUCTORS_QTWEBENGINECORE_"
    (value_constructors_qtwebenginecore_0_i0)
    (value_constructors_qtwebenginecore_0_r0 ++ value_constructors_qtwebenginecore_0_r1)
    (value_constructors_qtwebenginecore_0_c0).

Definition value_constructors_qtwebenginecore_1_i0 : list include :=
  [
    ClassInclude QtWebEngineCore QWebEngineRegisterProtocolHandlerRequest
        QWebEngineRegisterProtocolHandlerRequest;
    ClassInclude QtWebEngineCore QWebEngineScript QWebEngineScript;
    ClassInclude QtWebEngineCore QWebEngineUrlScheme QWebEngineUrlScheme;
    TypeInclude QtCore QByteArray VALUE_TYPE_QTCORE_QBYTEARRAY;
    TypeInclude QtWebEngineCore QWebEngineScript VALUE_TYPE_QTWEBENGINECORE_QWEBENGINESCRIPT;
    TypeInclude QtWebEngineCore QWebEngineUrlScheme VALUE_TYPE_QTWEBENGINECORE_QWEBENGINEURLSCHEME
  ].

Definition value_constructors_qtwebenginecore_1_r0 : list constructor_row :=
  [
    Ctor QWebEngineRegisterProtocolHandlerRequest 0 [Cand [] [] None];
    Ctor QWebEngineScript 0 [Cand [] [] None];
    Ctor QWebEngineScript 1 [Cand [VALUE_TYPE_QTWEBENGINECORE_QWEBENGINESCRIPT] [PValue QWebEngineScript]
        None];
    Ctor QWebEngineUrlScheme 0 [Cand [] [] None];
    Ctor QWebEngineUrlScheme 1 [Cand [VALUE_TYPE_QTCORE_QBYTEARRAY] [PValue QByteArray] None; Cand
        [VALUE_TYPE_QTWEBENGINECORE_QWEBENGINEURLSCHEME] [PValue QWebEngineUrlScheme] None]
  ].

Definition value_constructors_qtwebenginecore_1_c0 : list class_row :=
  [
    Cls [] QWebEngineRegisterProtocolHandlerRequest [[]];
    Cls [VALUE_TYPE_QTWEBENGINECORE_QWEBENGINESCRIPT] QWebEngineScript [[]; [QWebEngineScript]];
    Cls [VALUE_TYPE_QTCORE_QBYTEARRAY; VALUE_TYPE_QTWEBENGINECORE_QWEBENGINEURLSCHEME] QWebEngineUrlScheme
        [[]; [QByteArray]; [QWebEngineUrlScheme]]
  ].

Definition value_constructors_qtwebenginecore_1 : constructor_shard :=
  ConstructorShard QtWebEngineCore "KRY_QT6_NATIVE_VALUE_CONSTRUCTORS_QTWEBENGINECORE_"
    (value_constructors_qtwebenginecore_1_i0)
    (value_constructors_qtwebenginecore_1_r0)
    (value_constructors_qtwebenginecore_1_c0).

Definition value_constructors_qtwebsockets_0_i0 : list include :=
  [
    ClassInclude QtWebSockets QWebSocketCorsAuthenticator QWebSocketCorsAuthenticator;
    ClassInclude QtWebSockets QWebSocketHandshakeOptions QWebSocketHandshakeOptions;
    TypeInclude QtWebSockets QWebSocketCorsAuthenticator
        VALUE_TYPE_QTWEBSOCKETS_QWEBSOCKETCORSAUTHENTICATOR;
    TypeInclude QtWebSockets QWebSocketHandshakeOptions VALUE_TYPE_QTWEBSOCKETS_QWEBSOCKETHANDSHAKEOPTIONS
  ].

Definition value_constructors_qtwebsockets_0_r0 : list constructor_row :=
  [
    Ctor QWebSocketCorsAuthenticator 1 [Cand [] [PString false] None; Cand
        [VALUE_TYPE_QTWEBSOCKETS_QWEBSOCKETCORSAUTHENTICATOR] [PValue QWebSocketCorsAuthenticator] None];
    Ctor QWebSocketHandshakeOptions 0 [Cand [] [] None];
    Ctor QWebSocketHandshakeOptions 1 [Cand [VALUE_TYPE_QTWEBSOCKETS_QWEBSOCKETHANDSHAKEOPTIONS] [PValue
        QWebSocketHandshakeOptions] None]
  ].

Definition value_constructors_qtwebsockets_0_c0 : list class_row :=
  [
    Cls [VALUE_TYPE_QTWEBSOCKETS_QWEBSOCKETCORSAUTHENTICATOR] QWebSocketCorsAuthenticator [[QString];
        [QWebSocketCorsAuthenticator]];
    Cls [VALUE_TYPE_QTWEBSOCKETS_QWEBSOCKETHANDSHAKEOPTIONS] QWebSocketHandshakeOptions [[];
        [QWebSocketHandshakeOptions]]
  ].

Definition value_constructors_qtwebsockets_0 : constructor_shard :=
  ConstructorShard QtWebSockets "KRY_QT6_NATIVE_VALUE_CONSTRUCTORS_QTWEBSOCKETS_"
    (value_constructors_qtwebsockets_0_i0)
    (value_constructors_qtwebsockets_0_r0)
    (value_constructors_qtwebsockets_0_c0).

Definition value_constructors_qtwidgets_0_i0 : list include :=
  [
    ClassInclude QtWidgets QFileIconProvider QFileIconProvider;
    ClassInclude QtWidgets QGestureEvent QGestureEvent;
    ClassInclude QtWidgets QGestureRecognizer QGestureRecognizer;
    ClassInclude QtWidgets QGraphicsSceneMoveEvent QGraphicsSceneMoveEvent;
    ClassInclude QtWidgets QGraphicsSceneResizeEvent QGraphicsSceneResizeEvent;
    ClassInclude QtWidgets QItemEditorFactory QItemEditorFactory;
    ClassInclude QtWidgets QLayoutItem QLayoutItem;
    ClassInclude QtWidgets QListWidgetItem QListWidgetItem;
    TypeInclude QtWidgets QGesture TYPE_QTWIDGETS_QGESTURE;
    TypeInclude QtWidgets QListWidget TYPE_QTWIDGETS_QLISTWIDGET;
    EnumDefine ENUM_QT_ALIGNMENT;
    TypeInclude QtGui QIcon VALUE_TYPE_QTGUI_QICON;
    TypeInclude QtWidgets QListWidgetItem VALUE_TYPE_QTWIDGETS_QLISTWIDGETITEM
  ].

Definition value_constructors_qtwidgets_0_r0 : list constructor_row :=
  [
    Ctor QFileIconProvider 0 [Cand [] [] None];
    Ctor QGestureEvent 1 [Cand [TYPE_QTWIDGETS_QGESTURE] [PList (IObject QGesture)] None];
    Ctor QGestureRecognizer 0 [Cand [] [] None];
    Ctor QGraphicsSceneMoveEvent 0 [Cand [] [] None];
    Ctor QGraphicsSceneResizeEvent 0 [Cand [] [] None];
    Ctor QItemEditorFactory 0 [Cand [] [] None];
    Ctor QLayoutItem 0 [Cand [ENUM_QT_ALIGNMENT] [] None];
    Ctor QLayoutItem 1 [Cand [ENUM_QT_ALIGNMENT] [PValue Qt_Alignment] None];
    Ctor QListWidgetItem 0 [Cand [TYPE_QTWIDGETS_QLISTWIDGET] [] None]
  ].

Definition value_constructors_qtwidgets_0_r1 : list constructor_row :=
  [
    Ctor QListWidgetItem 1 [Cand [TYPE_QTWIDGETS_QLISTWIDGET] [PObject QListWidget false] None; Cand
        [TYPE_QTWIDGETS_QLISTWIDGET] [PString false] None; Cand [VALUE_TYPE_QTWIDGETS_QLISTWIDGETITEM]
        [PValue QListWidgetItem] None];
    Ctor QListWidgetItem 2 [Cand [TYPE_QTWIDGETS_QLISTWIDGET] [PObject QListWidget false; PInt] None; Cand
        [TYPE_QTWIDGETS_QLISTWIDGET] [PString false; PObject QListWidget false] None; Cand
        [TYPE_QTWIDGETS_QLISTWIDGET; VALUE_TYPE_QTGUI_QICON] [PValue QIcon; PString false] None];
    Ctor QListWidgetItem 3 [Cand [TYPE_QTWIDGETS_QLISTWIDGET] [PString false; PObject QListWidget false;
        PInt] None; Cand [TYPE_QTWIDGETS_QLISTWIDGET; VALUE_TYPE_QTGUI_QICON] [PValue QIcon; PString false;
        PObject QListWidget false] None]
  ].

Definition value_constructors_qtwidgets_0_r2 : list constructor_row :=
  [
    Ctor QListWidgetItem 4 [Cand [TYPE_QTWIDGETS_QLISTWIDGET; VALUE_TYPE_QTGUI_QICON] [PValue QIcon;
        PString false; PObject QListWidget false; PInt] None]
  ].

Definition value_constructors_qtwidgets_0_c0 : list class_row :=
  [
    Cls [] QFileIconProvider [[]];
    Cls [TYPE_QTWIDGETS_QGESTURE] QGestureEvent [[QList_QGesture_ptr]];
    Cls [] QGestureRecognizer [[]];
    Cls [] QGraphicsSceneMoveEvent [[]];
    Cls [] QGraphicsSceneResizeEvent [[]];
    Cls [] QItemEditorFactory [[]];
    Cls [ENUM_QT_ALIGNMENT] QLayoutItem [[Qt_Alignment]];
    Cls [TYPE_QTWIDGETS_QLISTWIDGET; VALUE_TYPE_QTGUI_QICON; VALUE_TYPE_QTWIDGETS_QLISTWIDGETITEM]
        QListWidgetItem [[QListWidget_ptr; cxx_int]; [QString; QListWidget_ptr; cxx_int]; [QIcon; QString;
        QListWidget_ptr; cxx_int]; [QListWidgetItem]]
  ].

Definition value_constructors_qtwidgets_0 : constructor_shard :=
  ConstructorShard QtWidgets "KRY_QT6_NATIVE_VALUE_CONSTRUCTORS_QTWIDGETS_"
    (value_constructors_qtwidgets_0_i0)
    (value_constructors_qtwidgets_0_r0 ++ value_constructors_qtwidgets_0_r1 ++
        value_constructors_qtwidgets_0_r2)
    (value_constructors_qtwidgets_0_c0).

Definition value_constructors_qtwidgets_1_i0 : list include :=
  [
    ClassInclude QtWidgets QScrollerProperties QScrollerProperties;
    ClassInclude QtWidgets QSizePolicy QSizePolicy;
    ClassInclude QtWidgets QSpacerItem QSpacerItem;
    ClassInclude QtWidgets QStyleHintReturn QStyleHintReturn;
    ClassInclude QtWidgets QStyleHintReturnMask QStyleHintReturnMask;
    ClassInclude QtWidgets QStyleHintReturnVariant QStyleHintReturnVariant;
    ClassInclude QtWidgets QStyleOption QStyleOption;
    ClassInclude QtWidgets QStyleOptionButton QStyleOptionButton;
    TypeInclude QtWidgets QSizePolicy TYPE_QTWIDGETS_QSIZEPOLICY;
    TypeInclude QtWidgets QScrollerProperties VALUE_TYPE_QTWIDGETS_QSCROLLERPROPERTIES;
    TypeInclude QtWidgets QStyleOption VALUE_TYPE_QTWIDGETS_QSTYLEOPTION;
    TypeInclude QtWidgets QStyleOptionButton VALUE_TYPE_QTWIDGETS_QSTYLEOPTIONBUTTON
  ].

Definition value_constructors_qtwidgets_1_r0 : list constructor_row :=
  [
    Ctor QScrollerProperties 0 [Cand [] [] None];
    Ctor QScrollerProperties 1 [Cand [VALUE_TYPE_QTWIDGETS_QSCROLLERPROPERTIES] [PValue
        QScrollerProperties] None];
    Ctor QSizePolicy 0 [Cand [] [] None];
    Ctor QSizePolicy 2 [Cand [TYPE_QTWIDGETS_QSIZEPOLICY] [PValue QSizePolicy_Policy; PValue
        QSizePolicy_Policy] None];
    Ctor QSizePolicy 3 [Cand [TYPE_QTWIDGETS_QSIZEPOLICY] [PValue QSizePolicy_Policy; PValue
        QSizePolicy_Policy; PValue QSizePolicy_ControlType] None];
    Ctor QSpacerItem 2 [Cand [TYPE_QTWIDGETS_QSIZEPOLICY] [PInt; PInt] None];
    Ctor QSpacerItem 3 [Cand [TYPE_QTWIDGETS_QSIZEPOLICY] [PInt; PInt; PValue QSizePolicy_Policy] None]
  ].

Definition value_constructors_qtwidgets_1_r1 : list constructor_row :=
  [
    Ctor QSpacerItem 4 [Cand [TYPE_QTWIDGETS_QSIZEPOLICY] [PInt; PInt; PValue QSizePolicy_Policy; PValue
        QSizePolicy_Policy] None];
    Ctor QStyleHintReturn 0 [Cand [] [] None];
    Ctor QStyleHintReturn 1 [Cand [] [PInt] None];
    Ctor QStyleHintReturn 2 [Cand [] [PInt; PInt] None];
    Ctor QStyleHintReturnMask 0 [Cand [] [] None];
    Ctor QStyleHintReturnVariant 0 [Cand [] [] None];
    Ctor QStyleOption 0 [Cand [] [] None]
  ].

Definition value_constructors_qtwidgets_1_r2 : list constructor_row :=
  [
    Ctor QStyleOption 1 [Cand [] [PInt] None; Cand [VALUE_TYPE_QTWIDGETS_QSTYLEOPTION] [PValue
        QStyleOption] None];
    Ctor QStyleOption 2 [Cand [] [PInt; PInt] None];
    Ctor QStyleOptionButton 0 [Cand [] [] None];
    Ctor QStyleOptionButton 1 [Cand [VALUE_TYPE_QTWIDGETS_QSTYLEOPTIONBUTTON] [PValue QStyleOptionButton]
        None]
  ].

Definition value_constructors_qtwidgets_1_c0 : list class_row :=
  [
    Cls [VALUE_TYPE_QTWIDGETS_QSCROLLERPROPERTIES] QScrollerProperties [[]; [QScrollerProperties]];
    Cls [TYPE_QTWIDGETS_QSIZEPOLICY] QSizePolicy [[]; [QSizePolicy_Policy; QSizePolicy_Policy;
        QSizePolicy_ControlType]];
    Cls [TYPE_QTWIDGETS_QSIZEPOLICY] QSpacerItem [[cxx_int; cxx_int; QSizePolicy_Policy;
        QSizePolicy_Policy]];
    Cls [] QStyleHintReturn [[cxx_int; cxx_int]];
    Cls [] QStyleHintReturnMask [[]];
    Cls [] QStyleHintReturnVariant [[]];
    Cls [VALUE_TYPE_QTWIDGETS_QSTYLEOPTION] QStyleOption [[cxx_int; cxx_int]; [QStyleOption]];
    Cls [VALUE_TYPE_QTWIDGETS_QSTYLEOPTIONBUTTON] QStyleOptionButton [[]; [QStyleOptionButton]]
  ].

Definition value_constructors_qtwidgets_1 : constructor_shard :=
  ConstructorShard QtWidgets "KRY_QT6_NATIVE_VALUE_CONSTRUCTORS_QTWIDGETS_"
    (value_constructors_qtwidgets_1_i0)
    (value_constructors_qtwidgets_1_r0 ++ value_constructors_qtwidgets_1_r1 ++
        value_constructors_qtwidgets_1_r2)
    (value_constructors_qtwidgets_1_c0).

Definition value_constructors_qtwidgets_2_i0 : list include :=
  [
    ClassInclude QtWidgets QStyleOptionComboBox QStyleOptionComboBox;
    ClassInclude QtWidgets QStyleOptionComplex QStyleOptionComplex;
    ClassInclude QtWidgets QStyleOptionDockWidget QStyleOptionDockWidget;
    ClassInclude QtWidgets QStyleOptionFocusRect QStyleOptionFocusRect;
    ClassInclude QtWidgets QStyleOptionFrame QStyleOptionFrame;
    ClassInclude QtWidgets QStyleOptionGraphicsItem QStyleOptionGraphicsItem;
    ClassInclude QtWidgets QStyleOptionGroupBox QStyleOptionGroupBox;
    ClassInclude QtWidgets QStyleOptionHeader QStyleOptionHeader;
    TypeInclude QtWidgets QStyleOptionComboBox VALUE_TYPE_QTWIDGETS_QSTYLEOPTIONCOMBOBOX;
    TypeInclude QtWidgets QStyleOptionComplex VALUE_TYPE_QTWIDGETS_QSTYLEOPTIONCOMPLEX;
    TypeInclude QtWidgets QStyleOptionDockWidget VALUE_TYPE_QTWIDGETS_QSTYLEOPTIONDOCKWIDGET;
    TypeInclude QtWidgets QStyleOptionFocusRect VALUE_TYPE_QTWIDGETS_QSTYLEOPTIONFOCUSRECT;
    TypeInclude QtWidgets QStyleOptionFrame VALUE_TYPE_QTWIDGETS_QSTYLEOPTIONFRAME;
    TypeInclude QtWidgets QStyleOptionGraphicsItem VALUE_TYPE_QTWIDGETS_QSTYLEOPTIONGRAPHICSITEM;
    TypeInclude QtWidgets QStyleOptionGroupBox VALUE_TYPE_QTWIDGETS_QSTYLEOPTIONGROUPBOX;
    TypeInclude QtWidgets QStyleOptionHeader VALUE_TYPE_QTWIDGETS_QSTYLEOPTIONHEADER
  ].

Definition value_constructors_qtwidgets_2_r0 : list constructor_row :=
  [
    Ctor QStyleOptionComboBox 0 [Cand [] [] None];
    Ctor QStyleOptionComboBox 1 [Cand [VALUE_TYPE_QTWIDGETS_QSTYLEOPTIONCOMBOBOX] [PValue
        QStyleOptionComboBox] None];
    Ctor QStyleOptionComplex 0 [Cand [] [] None];
    Ctor QStyleOptionComplex 1 [Cand [] [PInt] None; Cand [VALUE_TYPE_QTWIDGETS_QSTYLEOPTIONCOMPLEX]
        [PValue QStyleOptionComplex] None];
    Ctor QStyleOptionComplex 2 [Cand [] [PInt; PInt] None];
    Ctor QStyleOptionDockWidget 0 [Cand [] [] None];
    Ctor QStyleOptionDockWidget 1 [Cand [VALUE_TYPE_QTWIDGETS_QSTYLEOPTIONDOCKWIDGET] [PValue
        QStyleOptionDockWidget] None];
    Ctor QStyleOptionFocusRect 0 [Cand [] [] None]
  ].

Definition value_constructors_qtwidgets_2_r1 : list constructor_row :=
  [
    Ctor QStyleOptionFocusRect 1 [Cand [VALUE_TYPE_QTWIDGETS_QSTYLEOPTIONFOCUSRECT] [PValue
        QStyleOptionFocusRect] None];
    Ctor QStyleOptionFrame 0 [Cand [] [] None];
    Ctor QStyleOptionFrame 1 [Cand [VALUE_TYPE_QTWIDGETS_QSTYLEOPTIONFRAME] [PValue QStyleOptionFrame]
        None];
    Ctor QStyleOptionGraphicsItem 0 [Cand [] [] None];
    Ctor QStyleOptionGraphicsItem 1 [Cand [VALUE_TYPE_QTWIDGETS_QSTYLEOPTIONGRAPHICSITEM] [PValue
        QStyleOptionGraphicsItem] None];
    Ctor QStyleOptionGroupBox 0 [Cand [] [] None];
    Ctor QStyleOptionGroupBox 1 [Cand [VALUE_TYPE_QTWIDGETS_QSTYLEOPTIONGROUPBOX] [PValue
        QStyleOptionGroupBox] None];
    Ctor QStyleOptionHeader 0 [Cand [] [] None]
  ].

Definition value_constructors_qtwidgets_2_r2 : list constructor_row :=
  [
    Ctor QStyleOptionHeader 1 [Cand [VALUE_TYPE_QTWIDGETS_QSTYLEOPTIONHEADER] [PValue QStyleOptionHeader]
        None]
  ].

Definition value_constructors_qtwidgets_2_c0 : list class_row :=
  [
    Cls [VALUE_TYPE_QTWIDGETS_QSTYLEOPTIONCOMBOBOX] QStyleOptionComboBox [[]; [QStyleOptionComboBox]];
    Cls [VALUE_TYPE_QTWIDGETS_QSTYLEOPTIONCOMPLEX] QStyleOptionComplex [[cxx_int; cxx_int];
        [QStyleOptionComplex]];
    Cls [VALUE_TYPE_QTWIDGETS_QSTYLEOPTIONDOCKWIDGET] QStyleOptionDockWidget [[]; [QStyleOptionDockWidget]];
    Cls [VALUE_TYPE_QTWIDGETS_QSTYLEOPTIONFOCUSRECT] QStyleOptionFocusRect [[]; [QStyleOptionFocusRect]];
    Cls [VALUE_TYPE_QTWIDGETS_QSTYLEOPTIONFRAME] QStyleOptionFrame [[]; [QStyleOptionFrame]];
    Cls [VALUE_TYPE_QTWIDGETS_QSTYLEOPTIONGRAPHICSITEM] QStyleOptionGraphicsItem [[];
        [QStyleOptionGraphicsItem]];
    Cls [VALUE_TYPE_QTWIDGETS_QSTYLEOPTIONGROUPBOX] QStyleOptionGroupBox [[]; [QStyleOptionGroupBox]];
    Cls [VALUE_TYPE_QTWIDGETS_QSTYLEOPTIONHEADER] QStyleOptionHeader [[]; [QStyleOptionHeader]]
  ].

Definition value_constructors_qtwidgets_2 : constructor_shard :=
  ConstructorShard QtWidgets "KRY_QT6_NATIVE_VALUE_CONSTRUCTORS_QTWIDGETS_"
    (value_constructors_qtwidgets_2_i0)
    (value_constructors_qtwidgets_2_r0 ++ value_constructors_qtwidgets_2_r1 ++
        value_constructors_qtwidgets_2_r2)
    (value_constructors_qtwidgets_2_c0).

Definition value_constructors_qtwidgets_3_i0 : list include :=
  [
    ClassInclude QtWidgets QStyleOptionHeaderV2 QStyleOptionHeaderV2;
    ClassInclude QtWidgets QStyleOptionMenuItem QStyleOptionMenuItem;
    ClassInclude QtWidgets QStyleOptionMenuItemV2 QStyleOptionMenuItemV2;
    ClassInclude QtWidgets QStyleOptionProgressBar QStyleOptionProgressBar;
    ClassInclude QtWidgets QStyleOptionRubberBand QStyleOptionRubberBand;
    ClassInclude QtWidgets QStyleOptionSizeGrip QStyleOptionSizeGrip;
    ClassInclude QtWidgets QStyleOptionSlider QStyleOptionSlider;
    ClassInclude QtWidgets QStyleOptionSpinBox QStyleOptionSpinBox;
    TypeInclude QtWidgets QStyleOptionHeaderV2 VALUE_TYPE_QTWIDGETS_QSTYLEOPTIONHEADERV2;
    TypeInclude QtWidgets QStyleOptionMenuItem VALUE_TYPE_QTWIDGETS_QSTYLEOPTIONMENUITEM;
    TypeInclude QtWidgets QStyleOptionMenuItemV2 VALUE_TYPE_QTWIDGETS_QSTYLEOPTIONMENUITEMV2;
    TypeInclude QtWidgets QStyleOptionProgressBar VALUE_TYPE_QTWIDGETS_QSTYLEOPTIONPROGRESSBAR;
    TypeInclude QtWidgets QStyleOptionRubberBand VALUE_TYPE_QTWIDGETS_QSTYLEOPTIONRUBBERBAND;
    TypeInclude QtWidgets QStyleOptionSizeGrip VALUE_TYPE_QTWIDGETS_QSTYLEOPTIONSIZEGRIP;
    TypeInclude QtWidgets QStyleOptionSlider VALUE_TYPE_QTWIDGETS_QSTYLEOPTIONSLIDER;
    TypeInclude QtWidgets QStyleOptionSpinBox VALUE_TYPE_QTWIDGETS_QSTYLEOPTIONSPINBOX
  ].

Definition value_constructors_qtwidgets_3_r0 : list constructor_row :=
  [
    Ctor QStyleOptionHeaderV2 0 [Cand [] [] None];
    Ctor QStyleOptionHeaderV2 1 [Cand [VALUE_TYPE_QTWIDGETS_QSTYLEOPTIONHEADERV2] [PValue
        QStyleOptionHeaderV2] None];
    Ctor QStyleOptionMenuItem 0 [Cand [] [] None];
    Ctor QStyleOptionMenuItem 1 [Cand [VALUE_TYPE_QTWIDGETS_QSTYLEOPTIONMENUITEM] [PValue
        QStyleOptionMenuItem] None];
    Ctor QStyleOptionMenuItemV2 0 [Cand [] [] None];
    Ctor QStyleOptionMenuItemV2 1 [Cand [VALUE_TYPE_QTWIDGETS_QSTYLEOPTIONMENUITEMV2] [PValue
        QStyleOptionMenuItemV2] None];
    Ctor QStyleOptionProgressBar 0 [Cand [] [] None];
    Ctor QStyleOptionProgressBar 1 [Cand [VALUE_TYPE_QTWIDGETS_QSTYLEOPTIONPROGRESSBAR] [PValue
        QStyleOptionProgressBar] None];
    Ctor QStyleOptionRubberBand 0 [Cand [] [] None]
  ].

Definition value_constructors_qtwidgets_3_r1 : list constructor_row :=
  [
    Ctor QStyleOptionRubberBand 1 [Cand [VALUE_TYPE_QTWIDGETS_QSTYLEOPTIONRUBBERBAND] [PValue
        QStyleOptionRubberBand] None];
    Ctor QStyleOptionSizeGrip 0 [Cand [] [] None];
    Ctor QStyleOptionSizeGrip 1 [Cand [VALUE_TYPE_QTWIDGETS_QSTYLEOPTIONSIZEGRIP] [PValue
        QStyleOptionSizeGrip] None];
    Ctor QStyleOptionSlider 0 [Cand [] [] None];
    Ctor QStyleOptionSlider 1 [Cand [VALUE_TYPE_QTWIDGETS_QSTYLEOPTIONSLIDER] [PValue QStyleOptionSlider]
        None];
    Ctor QStyleOptionSpinBox 0 [Cand [] [] None];
    Ctor QStyleOptionSpinBox 1 [Cand [VALUE_TYPE_QTWIDGETS_QSTYLEOPTIONSPINBOX] [PValue
        QStyleOptionSpinBox] None]
  ].

Definition value_constructors_qtwidgets_3_c0 : list class_row :=
  [
    Cls [VALUE_TYPE_QTWIDGETS_QSTYLEOPTIONHEADERV2] QStyleOptionHeaderV2 [[]; [QStyleOptionHeaderV2]];
    Cls [VALUE_TYPE_QTWIDGETS_QSTYLEOPTIONMENUITEM] QStyleOptionMenuItem [[]; [QStyleOptionMenuItem]];
    Cls [VALUE_TYPE_QTWIDGETS_QSTYLEOPTIONMENUITEMV2] QStyleOptionMenuItemV2 [[]; [QStyleOptionMenuItemV2]];
    Cls [VALUE_TYPE_QTWIDGETS_QSTYLEOPTIONPROGRESSBAR] QStyleOptionProgressBar [[];
        [QStyleOptionProgressBar]];
    Cls [VALUE_TYPE_QTWIDGETS_QSTYLEOPTIONRUBBERBAND] QStyleOptionRubberBand [[]; [QStyleOptionRubberBand]];
    Cls [VALUE_TYPE_QTWIDGETS_QSTYLEOPTIONSIZEGRIP] QStyleOptionSizeGrip [[]; [QStyleOptionSizeGrip]];
    Cls [VALUE_TYPE_QTWIDGETS_QSTYLEOPTIONSLIDER] QStyleOptionSlider [[]; [QStyleOptionSlider]];
    Cls [VALUE_TYPE_QTWIDGETS_QSTYLEOPTIONSPINBOX] QStyleOptionSpinBox [[]; [QStyleOptionSpinBox]]
  ].

Definition value_constructors_qtwidgets_3 : constructor_shard :=
  ConstructorShard QtWidgets "KRY_QT6_NATIVE_VALUE_CONSTRUCTORS_QTWIDGETS_"
    (value_constructors_qtwidgets_3_i0)
    (value_constructors_qtwidgets_3_r0 ++ value_constructors_qtwidgets_3_r1)
    (value_constructors_qtwidgets_3_c0).

Definition value_constructors_qtwidgets_4_i0 : list include :=
  [
    ClassInclude QtWidgets QStyleOptionTab QStyleOptionTab;
    ClassInclude QtWidgets QStyleOptionTabBarBase QStyleOptionTabBarBase;
    ClassInclude QtWidgets QStyleOptionTabWidgetFrame QStyleOptionTabWidgetFrame;
    ClassInclude QtWidgets QStyleOptionTitleBar QStyleOptionTitleBar;
    ClassInclude QtWidgets QStyleOptionToolBar QStyleOptionToolBar;
    ClassInclude QtWidgets QStyleOptionToolBox QStyleOptionToolBox;
    ClassInclude QtWidgets QStyleOptionToolButton QStyleOptionToolButton;
    ClassInclude QtWidgets QStyleOptionViewItem QStyleOptionViewItem;
    TypeInclude QtWidgets QStyleOptionTab VALUE_TYPE_QTWIDGETS_QSTYLEOPTIONTAB;
    TypeInclude QtWidgets QStyleOptionTabBarBase VALUE_TYPE_QTWIDGETS_QSTYLEOPTIONTABBARBASE;
    TypeInclude QtWidgets QStyleOptionTabWidgetFrame VALUE_TYPE_QTWIDGETS_QSTYLEOPTIONTABWIDGETFRAME;
    TypeInclude QtWidgets QStyleOptionTitleBar VALUE_TYPE_QTWIDGETS_QSTYLEOPTIONTITLEBAR;
    TypeInclude QtWidgets QStyleOptionToolBar VALUE_TYPE_QTWIDGETS_QSTYLEOPTIONTOOLBAR;
    TypeInclude QtWidgets QStyleOptionToolBox VALUE_TYPE_QTWIDGETS_QSTYLEOPTIONTOOLBOX;
    TypeInclude QtWidgets QStyleOptionToolButton VALUE_TYPE_QTWIDGETS_QSTYLEOPTIONTOOLBUTTON;
    TypeInclude QtWidgets QStyleOptionViewItem VALUE_TYPE_QTWIDGETS_QSTYLEOPTIONVIEWITEM
  ].

Definition value_constructors_qtwidgets_4_r0 : list constructor_row :=
  [
    Ctor QStyleOptionTab 0 [Cand [] [] None];
    Ctor QStyleOptionTab 1 [Cand [VALUE_TYPE_QTWIDGETS_QSTYLEOPTIONTAB] [PValue QStyleOptionTab] None];
    Ctor QStyleOptionTabBarBase 0 [Cand [] [] None];
    Ctor QStyleOptionTabBarBase 1 [Cand [VALUE_TYPE_QTWIDGETS_QSTYLEOPTIONTABBARBASE] [PValue
        QStyleOptionTabBarBase] None];
    Ctor QStyleOptionTabWidgetFrame 0 [Cand [] [] None];
    Ctor QStyleOptionTabWidgetFrame 1 [Cand [VALUE_TYPE_QTWIDGETS_QSTYLEOPTIONTABWIDGETFRAME] [PValue
        QStyleOptionTabWidgetFrame] None];
    Ctor QStyleOptionTitleBar 0 [Cand [] [] None];
    Ctor QStyleOptionTitleBar 1 [Cand [VALUE_TYPE_QTWIDGETS_QSTYLEOPTIONTITLEBAR] [PValue
        QStyleOptionTitleBar] None];
    Ctor QStyleOptionToolBar 0 [Cand [] [] None]
  ].

Definition value_constructors_qtwidgets_4_r1 : list constructor_row :=
  [
    Ctor QStyleOptionToolBar 1 [Cand [VALUE_TYPE_QTWIDGETS_QSTYLEOPTIONTOOLBAR] [PValue
        QStyleOptionToolBar] None];
    Ctor QStyleOptionToolBox 0 [Cand [] [] None];
    Ctor QStyleOptionToolBox 1 [Cand [VALUE_TYPE_QTWIDGETS_QSTYLEOPTIONTOOLBOX] [PValue
        QStyleOptionToolBox] None];
    Ctor QStyleOptionToolButton 0 [Cand [] [] None];
    Ctor QStyleOptionToolButton 1 [Cand [VALUE_TYPE_QTWIDGETS_QSTYLEOPTIONTOOLBUTTON] [PValue
        QStyleOptionToolButton] None];
    Ctor QStyleOptionViewItem 0 [Cand [] [] None];
    Ctor QStyleOptionViewItem 1 [Cand [VALUE_TYPE_QTWIDGETS_QSTYLEOPTIONVIEWITEM] [PValue
        QStyleOptionViewItem] None]
  ].

Definition value_constructors_qtwidgets_4_c0 : list class_row :=
  [
    Cls [VALUE_TYPE_QTWIDGETS_QSTYLEOPTIONTAB] QStyleOptionTab [[]; [QStyleOptionTab]];
    Cls [VALUE_TYPE_QTWIDGETS_QSTYLEOPTIONTABBARBASE] QStyleOptionTabBarBase [[]; [QStyleOptionTabBarBase]];
    Cls [VALUE_TYPE_QTWIDGETS_QSTYLEOPTIONTABWIDGETFRAME] QStyleOptionTabWidgetFrame [[];
        [QStyleOptionTabWidgetFrame]];
    Cls [VALUE_TYPE_QTWIDGETS_QSTYLEOPTIONTITLEBAR] QStyleOptionTitleBar [[]; [QStyleOptionTitleBar]];
    Cls [VALUE_TYPE_QTWIDGETS_QSTYLEOPTIONTOOLBAR] QStyleOptionToolBar [[]; [QStyleOptionToolBar]];
    Cls [VALUE_TYPE_QTWIDGETS_QSTYLEOPTIONTOOLBOX] QStyleOptionToolBox [[]; [QStyleOptionToolBox]];
    Cls [VALUE_TYPE_QTWIDGETS_QSTYLEOPTIONTOOLBUTTON] QStyleOptionToolButton [[]; [QStyleOptionToolButton]];
    Cls [VALUE_TYPE_QTWIDGETS_QSTYLEOPTIONVIEWITEM] QStyleOptionViewItem [[]; [QStyleOptionViewItem]]
  ].

Definition value_constructors_qtwidgets_4 : constructor_shard :=
  ConstructorShard QtWidgets "KRY_QT6_NATIVE_VALUE_CONSTRUCTORS_QTWIDGETS_"
    (value_constructors_qtwidgets_4_i0)
    (value_constructors_qtwidgets_4_r0 ++ value_constructors_qtwidgets_4_r1)
    (value_constructors_qtwidgets_4_c0).

Definition value_constructors_qtwidgets_5_i0 : list include :=
  [
    ClassInclude QtWidgets QStylePainter QStylePainter;
    ClassInclude QtWidgets QTableWidgetItem QTableWidgetItem;
    ClassInclude QtWidgets QTableWidgetSelectionRange QTableWidgetSelectionRange;
    ClassInclude QtWidgets QTreeWidgetItem QTreeWidgetItem;
    ClassInclude QtWidgets QTreeWidgetItemIterator QTreeWidgetItemIterator;
    ClassInclude QtWidgets QWidgetItem QWidgetItem;
    TypeInclude QtWidgets QTreeWidget TYPE_QTWIDGETS_QTREEWIDGET;
    TypeInclude QtWidgets QWidget TYPE_QTWIDGETS_QWIDGET;
    TypeInclude QtWidgets QTreeWidgetItemIterator TYPE_QTWIDGETS_QTREEWIDGETITEMITERATOR;
    TypeInclude QtGui QIcon VALUE_TYPE_QTGUI_QICON;
    TypeInclude QtWidgets QTableWidgetItem VALUE_TYPE_QTWIDGETS_QTABLEWIDGETITEM;
    TypeInclude QtWidgets QTreeWidgetItem VALUE_TYPE_QTWIDGETS_QTREEWIDGETITEM;
    TypeInclude QtWidgets QTreeWidgetItemIterator VALUE_TYPE_QTWIDGETS_QTREEWIDGETITEMITERATOR
  ].

Definition value_constructors_qtwidgets_5_r0 : list constructor_row :=
  [
    Ctor QStylePainter 0 [Cand [] [] None];
    Ctor QStylePainter 1 [Cand [TYPE_QTWIDGETS_QWIDGET] [PObject QWidget false] None];
    Ctor QTableWidgetItem 0 [Cand [] [] None];
    Ctor QTableWidgetItem 1 [Cand [] [PInt] None; Cand [] [PString false] None; Cand
        [VALUE_TYPE_QTWIDGETS_QTABLEWIDGETITEM] [PValue QTableWidgetItem] None];
    Ctor QTableWidgetItem 2 [Cand [] [PString false; PInt] None; Cand [VALUE_TYPE_QTGUI_QICON] [PValue
        QIcon; PString false] None];
    Ctor QTableWidgetItem 3 [Cand [VALUE_TYPE_QTGUI_QICON] [PValue QIcon; PString false; PInt] None]
  ].

Definition value_constructors_qtwidgets_5_r1 : list constructor_row :=
  [
    Ctor QTableWidgetSelectionRange 0 [Cand [] [] None];
    Ctor QTableWidgetSelectionRange 4 [Cand [] [PInt; PInt; PInt; PInt] None];
    Ctor QTreeWidgetItem 0 [Cand [] [] None];
    Ctor QTreeWidgetItem 1 [Cand [TYPE_QTWIDGETS_QTREEWIDGET] [PObject QTreeWidget false] None; Cand []
        [PStringList] None; Cand [] [PInt] None; Cand [VALUE_TYPE_QTWIDGETS_QTREEWIDGETITEM] [PValue
        QTreeWidgetItem] None]
  ].

Definition value_constructors_qtwidgets_5_r2 : list constructor_row :=
  [
    Ctor QTreeWidgetItem 2 [Cand [TYPE_QTWIDGETS_QTREEWIDGET] [PObject QTreeWidget false; PStringList]
        None; Cand [TYPE_QTWIDGETS_QTREEWIDGET] [PObject QTreeWidget false; PInt] None; Cand []
        [PStringList; PInt] None];
    Ctor QTreeWidgetItem 3 [Cand [TYPE_QTWIDGETS_QTREEWIDGET] [PObject QTreeWidget false; PStringList;
        PInt] None];
    Ctor QTreeWidgetItemIterator 1 [Cand [TYPE_QTWIDGETS_QTREEWIDGET;
        TYPE_QTWIDGETS_QTREEWIDGETITEMITERATOR] [PObject QTreeWidget false] None; Cand
        [VALUE_TYPE_QTWIDGETS_QTREEWIDGETITEMITERATOR] [PValue QTreeWidgetItemIterator] None];
    Ctor QTreeWidgetItemIterator 2 [Cand [TYPE_QTWIDGETS_QTREEWIDGET;
        TYPE_QTWIDGETS_QTREEWIDGETITEMITERATOR] [PObject QTreeWidget false; PValue
        QTreeWidgetItemIterator_IteratorFlags] None]
  ].

Definition value_constructors_qtwidgets_5_r3 : list constructor_row :=
  [
    Ctor QWidgetItem 1 [Cand [TYPE_QTWIDGETS_QWIDGET] [PObject QWidget false] None]
  ].

Definition value_constructors_qtwidgets_5_c0 : list class_row :=
  [
    Cls [TYPE_QTWIDGETS_QWIDGET] QStylePainter [[]; [QWidget_ptr]];
    Cls [VALUE_TYPE_QTGUI_QICON; VALUE_TYPE_QTWIDGETS_QTABLEWIDGETITEM] QTableWidgetItem [[cxx_int];
        [QString; cxx_int]; [QIcon; QString; cxx_int]; [QTableWidgetItem]];
    Cls [] QTableWidgetSelectionRange [[]; [cxx_int; cxx_int; cxx_int; cxx_int]];
    Cls [TYPE_QTWIDGETS_QTREEWIDGET; VALUE_TYPE_QTWIDGETS_QTREEWIDGETITEM] QTreeWidgetItem
        [[QTreeWidget_ptr; QStringList; cxx_int]; [QTreeWidget_ptr; cxx_int]; [QStringList; cxx_int];
        [cxx_int]; [QTreeWidgetItem]];
    Cls [TYPE_QTWIDGETS_QTREEWIDGET; TYPE_QTWIDGETS_QTREEWIDGETITEMITERATOR;
        VALUE_TYPE_QTWIDGETS_QTREEWIDGETITEMITERATOR] QTreeWidgetItemIterator [[QTreeWidget_ptr;
        QTreeWidgetItemIterator_IteratorFlags]; [QTreeWidgetItemIterator]];
    Cls [TYPE_QTWIDGETS_QWIDGET] QWidgetItem [[QWidget_ptr]]
  ].

Definition value_constructors_qtwidgets_5 : constructor_shard :=
  ConstructorShard QtWidgets "KRY_QT6_NATIVE_VALUE_CONSTRUCTORS_QTWIDGETS_"
    (value_constructors_qtwidgets_5_i0)
    (value_constructors_qtwidgets_5_r0 ++ value_constructors_qtwidgets_5_r1 ++
        value_constructors_qtwidgets_5_r2 ++ value_constructors_qtwidgets_5_r3)
    (value_constructors_qtwidgets_5_c0).

Definition value_constructors_qtxml_0_i0 : list include :=
  [
    ClassInclude QtXml QDomAttr QDomAttr;
    ClassInclude QtXml QDomCDATASection QDomCDATASection;
    ClassInclude QtXml QDomCharacterData QDomCharacterData;
    ClassInclude QtXml QDomComment QDomComment;
    ClassInclude QtXml QDomDocument QDomDocument;
    ClassInclude QtXml QDomDocumentFragment QDomDocumentFragment;
    ClassInclude QtXml QDomDocumentType QDomDocumentType;
    ClassInclude QtXml QDomElement QDomElement;
    TypeInclude QtXml QDomAttr VALUE_TYPE_QTXML_QDOMATTR;
    TypeInclude QtXml QDomCDATASection VALUE_TYPE_QTXML_QDOMCDATASECTION;
    TypeInclude QtXml QDomCharacterData VALUE_TYPE_QTXML_QDOMCHARACTERDATA;
    TypeInclude QtXml QDomComment VALUE_TYPE_QTXML_QDOMCOMMENT;
    TypeInclude QtXml QDomDocument VALUE_TYPE_QTXML_QDOMDOCUMENT;
    TypeInclude QtXml QDomDocumentFragment VALUE_TYPE_QTXML_QDOMDOCUMENTFRAGMENT;
    TypeInclude QtXml QDomDocumentType VALUE_TYPE_QTXML_QDOMDOCUMENTTYPE;
    TypeInclude QtXml QDomElement VALUE_TYPE_QTXML_QDOMELEMENT
  ].

Definition value_constructors_qtxml_0_r0 : list constructor_row :=
  [
    Ctor QDomAttr 0 [Cand [] [] None];
    Ctor QDomAttr 1 [Cand [VALUE_TYPE_QTXML_QDOMATTR] [PValue QDomAttr] None];
    Ctor QDomCDATASection 0 [Cand [] [] None];
    Ctor QDomCDATASection 1 [Cand [VALUE_TYPE_QTXML_QDOMCDATASECTION] [PValue QDomCDATASection] None];
    Ctor QDomCharacterData 0 [Cand [] [] None];
    Ctor QDomCharacterData 1 [Cand [VALUE_TYPE_QTXML_QDOMCHARACTERDATA] [PValue QDomCharacterData] None];
    Ctor QDomComment 0 [Cand [] [] None];
    Ctor QDomComment 1 [Cand [VALUE_TYPE_QTXML_QDOMCOMMENT] [PValue QDomComment] None];
    Ctor QDomDocument 0 [Cand [] [] None]
  ].

Definition value_constructors_qtxml_0_r1 : list constructor_row :=
  [
    Ctor QDomDocument 1 [Cand [] [PString false] None; Cand [VALUE_TYPE_QTXML_QDOMDOCUMENTTYPE] [PValue
        QDomDocumentType] None; Cand [VALUE_TYPE_QTXML_QDOMDOCUMENT] [PValue QDomDocument] None];
    Ctor QDomDocumentFragment 0 [Cand [] [] None];
    Ctor QDomDocumentFragment 1 [Cand [VALUE_TYPE_QTXML_QDOMDOCUMENTFRAGMENT] [PValue QDomDocumentFragment]
        None];
    Ctor QDomDocumentType 0 [Cand [] [] None];
    Ctor QDomDocumentType 1 [Cand [VALUE_TYPE_QTXML_QDOMDOCUMENTTYPE] [PValue QDomDocumentType] None];
    Ctor QDomElement 0 [Cand [] [] None];
    Ctor QDomElement 1 [Cand [VALUE_TYPE_QTXML_QDOMELEMENT] [PValue QDomElement] None]
  ].

Definition value_constructors_qtxml_0_c0 : list class_row :=
  [
    Cls [VALUE_TYPE_QTXML_QDOMATTR] QDomAttr [[]; [QDomAttr]];
    Cls [VALUE_TYPE_QTXML_QDOMCDATASECTION] QDomCDATASection [[]; [QDomCDATASection]];
    Cls [VALUE_TYPE_QTXML_QDOMCHARACTERDATA] QDomCharacterData [[]; [QDomCharacterData]];
    Cls [VALUE_TYPE_QTXML_QDOMCOMMENT] QDomComment [[]; [QDomComment]];
    Cls [VALUE_TYPE_QTXML_QDOMDOCUMENT; VALUE_TYPE_QTXML_QDOMDOCUMENTTYPE] QDomDocument [[]; [QString];
        [QDomDocumentType]; [QDomDocument]];
    Cls [VALUE_TYPE_QTXML_QDOMDOCUMENTFRAGMENT] QDomDocumentFragment [[]; [QDomDocumentFragment]];
    Cls [VALUE_TYPE_QTXML_QDOMDOCUMENTTYPE] QDomDocumentType [[]; [QDomDocumentType]];
    Cls [VALUE_TYPE_QTXML_QDOMELEMENT] QDomElement [[]; [QDomElement]]
  ].

Definition value_constructors_qtxml_0 : constructor_shard :=
  ConstructorShard QtXml "KRY_QT6_NATIVE_VALUE_CONSTRUCTORS_QTXML_"
    (value_constructors_qtxml_0_i0)
    (value_constructors_qtxml_0_r0 ++ value_constructors_qtxml_0_r1)
    (value_constructors_qtxml_0_c0).

Definition value_constructors_qtxml_1_i0 : list include :=
  [
    ClassInclude QtXml QDomEntity QDomEntity;
    ClassInclude QtXml QDomEntityReference QDomEntityReference;
    ClassInclude QtXml QDomImplementation QDomImplementation;
    ClassInclude QtXml QDomNamedNodeMap QDomNamedNodeMap;
    ClassInclude QtXml QDomNode QDomNode;
    ClassInclude QtXml QDomNodeList QDomNodeList;
    ClassInclude QtXml QDomNotation QDomNotation;
    ClassInclude QtXml QDomProcessingInstruction QDomProcessingInstruction;
    TypeInclude QtXml QDomEntity VALUE_TYPE_QTXML_QDOMENTITY;
    TypeInclude QtXml QDomEntityReference VALUE_TYPE_QTXML_QDOMENTITYREFERENCE;
    TypeInclude QtXml QDomImplementation VALUE_TYPE_QTXML_QDOMIMPLEMENTATION;
    TypeInclude QtXml QDomNamedNodeMap VALUE_TYPE_QTXML_QDOMNAMEDNODEMAP;
    TypeInclude QtXml QDomNode VALUE_TYPE_QTXML_QDOMNODE;
    TypeInclude QtXml QDomNodeList VALUE_TYPE_QTXML_QDOMNODELIST;
    TypeInclude QtXml QDomNotation VALUE_TYPE_QTXML_QDOMNOTATION;
    TypeInclude QtXml QDomProcessingInstruction VALUE_TYPE_QTXML_QDOMPROCESSINGINSTRUCTION
  ].

Definition value_constructors_qtxml_1_r0 : list constructor_row :=
  [
    Ctor QDomEntity 0 [Cand [] [] None];
    Ctor QDomEntity 1 [Cand [VALUE_TYPE_QTXML_QDOMENTITY] [PValue QDomEntity] None];
    Ctor QDomEntityReference 0 [Cand [] [] None];
    Ctor QDomEntityReference 1 [Cand [VALUE_TYPE_QTXML_QDOMENTITYREFERENCE] [PValue QDomEntityReference]
        None];
    Ctor QDomImplementation 0 [Cand [] [] None];
    Ctor QDomImplementation 1 [Cand [VALUE_TYPE_QTXML_QDOMIMPLEMENTATION] [PValue QDomImplementation] None];
    Ctor QDomNamedNodeMap 0 [Cand [] [] None];
    Ctor QDomNamedNodeMap 1 [Cand [VALUE_TYPE_QTXML_QDOMNAMEDNODEMAP] [PValue QDomNamedNodeMap] None];
    Ctor QDomNode 0 [Cand [] [] None]
  ].

Definition value_constructors_qtxml_1_r1 : list constructor_row :=
  [
    Ctor QDomNode 1 [Cand [VALUE_TYPE_QTXML_QDOMNODE] [PValue QDomNode] None];
    Ctor QDomNodeList 0 [Cand [] [] None];
    Ctor QDomNodeList 1 [Cand [VALUE_TYPE_QTXML_QDOMNODELIST] [PValue QDomNodeList] None];
    Ctor QDomNotation 0 [Cand [] [] None];
    Ctor QDomNotation 1 [Cand [VALUE_TYPE_QTXML_QDOMNOTATION] [PValue QDomNotation] None];
    Ctor QDomProcessingInstruction 0 [Cand [] [] None];
    Ctor QDomProcessingInstruction 1 [Cand [VALUE_TYPE_QTXML_QDOMPROCESSINGINSTRUCTION] [PValue
        QDomProcessingInstruction] None]
  ].

Definition value_constructors_qtxml_1_c0 : list class_row :=
  [
    Cls [VALUE_TYPE_QTXML_QDOMENTITY] QDomEntity [[]; [QDomEntity]];
    Cls [VALUE_TYPE_QTXML_QDOMENTITYREFERENCE] QDomEntityReference [[]; [QDomEntityReference]];
    Cls [VALUE_TYPE_QTXML_QDOMIMPLEMENTATION] QDomImplementation [[]; [QDomImplementation]];
    Cls [VALUE_TYPE_QTXML_QDOMNAMEDNODEMAP] QDomNamedNodeMap [[]; [QDomNamedNodeMap]];
    Cls [VALUE_TYPE_QTXML_QDOMNODE] QDomNode [[]; [QDomNode]];
    Cls [VALUE_TYPE_QTXML_QDOMNODELIST] QDomNodeList [[]; [QDomNodeList]];
    Cls [VALUE_TYPE_QTXML_QDOMNOTATION] QDomNotation [[]; [QDomNotation]];
    Cls [VALUE_TYPE_QTXML_QDOMPROCESSINGINSTRUCTION] QDomProcessingInstruction [[];
        [QDomProcessingInstruction]]
  ].

Definition value_constructors_qtxml_1 : constructor_shard :=
  ConstructorShard QtXml "KRY_QT6_NATIVE_VALUE_CONSTRUCTORS_QTXML_"
    (value_constructors_qtxml_1_i0)
    (value_constructors_qtxml_1_r0 ++ value_constructors_qtxml_1_r1)
    (value_constructors_qtxml_1_c0).

Definition value_constructors_qtxml_2_i0 : list include :=
  [
    ClassInclude QtXml QDomText QDomText;
    TypeInclude QtXml QDomText VALUE_TYPE_QTXML_QDOMTEXT
  ].

Definition value_constructors_qtxml_2_r0 : list constructor_row :=
  [
    Ctor QDomText 0 [Cand [] [] None];
    Ctor QDomText 1 [Cand [VALUE_TYPE_QTXML_QDOMTEXT] [PValue QDomText] None]
  ].

Definition value_constructors_qtxml_2_c0 : list class_row :=
  [
    Cls [VALUE_TYPE_QTXML_QDOMTEXT] QDomText [[]; [QDomText]]
  ].

Definition value_constructors_qtxml_2 : constructor_shard :=
  ConstructorShard QtXml "KRY_QT6_NATIVE_VALUE_CONSTRUCTORS_QTXML_"
    (value_constructors_qtxml_2_i0)
    (value_constructors_qtxml_2_r0)
    (value_constructors_qtxml_2_c0).
