(* ===== verification/Doubles.v ===== *)
(** IEEE 754 binary64 numbers, the only numbers of a JSON value: the
    operations of the C++ language and of [std] that the bridge applies to
    them, and the lemma that its range checks are checks on integers. *)
From Stdlib Require Export SpecFloat.
From S2P Require Export Prelude.

(** * Definitions *)

Abbreviation double := spec_float (only parsing).

Definition prec : Z := 53.
Definition emax : Z := 1024.

(** The bit patterns of a C++ [double]: mantissa and exponent are canonical. *)
Definition valid_double (x : double) : bool := valid_binary prec emax x.

(** [static_cast<double>(z)] of an integer, rounding to nearest even. *)
Definition double_of_Z (z : Z) : double := binary_normalize prec emax z 0 false.

(** [std::isfinite]. *)
Definition isfinite (x : double) : bool :=
  match x with S754_zero _ | S754_finite _ _ _ => true | _ => false end.

(** [std::isnan]. *)
Definition is_nan (x : double) : bool := match x with S754_nan => true | _ => false end.

(** The value of a finite number rounded towards minus infinity. *)
Definition floor_Z (x : double) : Z :=
  match x with
  | S754_finite s m e =>
      if 0 <=? e then cond_Zopp s (Zpos m) * 2 ^ e
      else cond_Zopp s (Zpos m) / 2 ^ (- e)
  | _ => 0
  end.

(** [std::floor]: the numbers with an exponent [e >= 0] are integers already. *)
Definition std_floor (x : double) : double :=
  match x with
  | S754_finite s m e =>
      if 0 <=? e then x else binary_normalize prec emax (floor_Z x) 0 s
  | _ => x
  end.

(** The truncating conversion [static_cast<int64_t>(x)]. *)
Definition trunc_Z (x : double) : Z :=
  match x with
  | S754_finite s m e =>
      cond_Zopp s (if 0 <=? e then Zpos m * 2 ^ e else Zpos m / 2 ^ (- e))
  | _ => 0
  end.

(** [a == b], [a != b], [a < b], [a > b]. *)
Definition dbl_eq (a b : double) : bool := SFeqb a b.
Definition dbl_lt (a b : double) : bool := SFltb a b.
Definition dbl_gt (a b : double) : bool := SFltb b a.

Definition std_abs (x : double) : double := SFabs x.

(** [std::isfinite(raw) && std::floor(raw) == raw], the test in front of
    every conversion of a JSON number to an integer. *)
Definition is_integral (raw : double) : bool :=
  isfinite raw && dbl_eq (std_floor raw) raw.

(** [static_cast<float>(x)], as the double of the same value. *)
Definition to_float32 (x : double) : double :=
  match x with
  | S754_finite s m e =>
      match binary_round 24 128 s m e with
      | S754_finite s' m' e' => binary_normalize prec emax (cond_Zopp s' (Zpos m')) e' s'
      | y => y
      end
  | _ => x
  end.

(** 9007199254740991.0, the largest integer the wire format treats as exact. *)
Definition maximum_exact : Z := 9007199254740991.

Definition int_min : Z := -2147483648.
Definition int_max : Z := 2147483647.
Definition uint_max : Z := 4294967295.

(** The integer a number stands for, if it is one. *)
Definition integral_value (x : double) : option Z :=
  match x with
  | S754_zero _ => Some 0
  | S754_finite s m e =>
      if 0 <=? e then Some (cond_Zopp s (Zpos m) * 2 ^ e)
      else if (Zpos m mod 2 ^ (- e)) =? 0 then Some (cond_Zopp s (Zpos m / 2 ^ (- e)))
      else None
  | _ => None
  end.

(** [is_integral(raw) && !(raw < lo) && !(raw > hi)]: the shape of the range
    checks, with integer constants converted to double as the language does. *)
Definition int_in_range (lo hi : Z) (raw : double) : bool :=
  is_integral raw && negb (dbl_lt raw (double_of_Z lo)) && negb (dbl_gt raw (double_of_Z hi)).

(** The same with [std::abs(raw) > hi]. *)
Definition int_abs_at_most (hi : Z) (raw : double) : bool :=
  is_integral raw && negb (dbl_gt (std_abs raw) (double_of_Z hi)).

(** The 53-bit mantissa of a positive integer below [2 ^ 53]. *)
Definition mantissa_of (p : positive) : positive :=
  match (53 - Zpos (digits2_pos p))%Z with Zpos d => Pos.iter xO p d | _ => p end.

(** * Lemmas *)

Lemma digits2_pos_bounds (m : positive) :
  2 ^ (Zpos (digits2_pos m) - 1) <= Zpos m < 2 ^ Zpos (digits2_pos m).
Proof.
  induction m as [m IH|m IH|]; simpl digits2_pos; [| |done];
    rewrite Pos2Z.inj_succ;
    replace (Z.succ (Zpos (digits2_pos m)) - 1) with (Z.succ (Zpos (digits2_pos m) - 1)) by lia;
    rewrite !Z.pow_succ_r by lia; lia.
Qed.

Lemma iter_xO_value (m d : positive) : Zpos (Pos.iter xO m d) = Zpos m * 2 ^ Zpos d.
Proof.
  induction d as [|d IH] using Pos.peano_ind; [simpl; lia|].
  rewrite Pos.iter_succ, Pos2Z.inj_succ, Z.pow_succ_r by lia. lia.
Qed.

Lemma digits2_pos_unique (m : positive) (k : Z) :
  0 < k -> 2 ^ (k - 1) <= Zpos m < 2 ^ k -> Zpos (digits2_pos m) = k.
Proof.
  intros Hk [Hlo Hhi]. pose proof (digits2_pos_bounds m) as [Lo Hi].
  assert (2 ^ (Zpos (digits2_pos m) - 1) < 2 ^ k) as H1 by lia.
  assert (2 ^ (k - 1) < 2 ^ Zpos (digits2_pos m)) as H2 by lia.
  apply Z.pow_lt_mono_r_iff in H1; [|lia|lia].
  apply Z.pow_lt_mono_r_iff in H2; [lia|lia|lia].
Qed.

Lemma fexp_eq (e : Z) : fexp prec emax e = Z.max (e - 53) (-1074).
Proof. done. Qed.

Lemma round_aux_canonical s m e :
  bounded prec emax m e = true ->
  binary_round_aux prec emax s (Zpos m) e loc_Exact = S754_finite s m e.
Proof.
  unfold bounded, canonical_mantissa. intros [Hc He]%andb_true_iff.
  apply Z.eqb_eq in Hc. unfold binary_round_aux, shr_fexp. cbn [Zdigits2 shr_record_of_loc].
  rewrite Hc, Z.sub_diag. cbn [shr shr_m loc_of_shr_record round_nearest_even Zdigits2 shr_record_of_loc].
  rewrite Hc, Z.sub_diag. cbn [shr shr_m]. by rewrite He.
Qed.

Lemma mantissa_of_value p :
  Zpos p < 2 ^ 53 -> Zpos (mantissa_of p) = Zpos p * 2 ^ (53 - Zpos (digits2_pos p)).
Proof.
  intros Hp. unfold mantissa_of. pose proof (digits2_pos_bounds p) as [Lo _].
  assert (2 ^ (Zpos (digits2_pos p) - 1) < 2 ^ 53) as H by lia.
  apply Z.pow_lt_mono_r_iff in H; [|lia|lia].
  destruct (53 - Zpos (digits2_pos p)) as [|d|d] eqn:E; [lia|apply iter_xO_value|lia].
Qed.

Lemma digits_le_53 p : Zpos p < 2 ^ 53 -> Zpos (digits2_pos p) <= 53.
Proof.
  intros Hp. pose proof (digits2_pos_bounds p) as [Lo _].
  assert (2 ^ (Zpos (digits2_pos p) - 1) < 2 ^ 53) as H by lia.
  apply Z.pow_lt_mono_r_iff in H; lia.
Qed.

Lemma mantissa_of_digits p : Zpos p < 2 ^ 53 -> Zpos (digits2_pos (mantissa_of p)) = 53.
Proof.
  intros Hp. pose proof (digits_le_53 p Hp). pose proof (digits2_pos_bounds p) as [Lo Hi].
  apply digits2_pos_unique; [lia|]. rewrite (mantissa_of_value p Hp).
  set (d := Zpos (digits2_pos p)) in *.
  replace (2 ^ (53 - 1)) with (2 ^ (d - 1) * 2 ^ (53 - d))
    by (rewrite <- Z.pow_add_r by lia; f_equal; lia).
  replace (2 ^ 53) with (2 ^ d * 2 ^ (53 - d))
    by (rewrite <- Z.pow_add_r by lia; f_equal; lia).
  pose proof (Z.pow_pos_nonneg 2 (53 - d)). nia.
Qed.

Lemma mantissa_of_bounded p :
  Zpos p < 2 ^ 53 -> bounded prec emax (mantissa_of p) (Zpos (digits2_pos p) - 53) = true.
Proof.
  intros Hp. pose proof (digits_le_53 p Hp). unfold bounded, canonical_mantissa.
  rewrite (mantissa_of_digits p Hp), fexp_eq.
  apply andb_true_iff; split; [apply Z.eqb_eq; lia|apply Z.leb_le; unfold emax, prec; lia].
Qed.

Lemma binary_round_small s p :
  Zpos p < 2 ^ 53 ->
  binary_round prec emax s p 0 =
    S754_finite s (mantissa_of p) (Zpos (digits2_pos p) - 53).
Proof.
  intros Hp. pose proof (digits_le_53 p Hp) as Hd. unfold binary_round.
  rewrite fexp_eq, Z.add_0_r, Z.max_l by lia. unfold shl_align. rewrite Z.sub_0_r.
  pose proof (mantissa_of_bounded p Hp) as Hb.
  unfold mantissa_of in *.
  replace (53 - Zpos (digits2_pos p)) with (- (Zpos (digits2_pos p) - 53)) in * by lia.
  destruct (Zpos (digits2_pos p) - 53) as [|d|d] eqn:E; [| lia |]; cbn [Z.opp] in *;
    by apply round_aux_canonical.
Qed.

Lemma double_of_pos p :
  Zpos p < 2 ^ 53 ->
  double_of_Z (Zpos p) = S754_finite false (mantissa_of p) (Zpos (digits2_pos p) - 53).
Proof. intros. by apply binary_round_small. Qed.

Lemma double_of_neg p :
  Zpos p < 2 ^ 53 ->
  double_of_Z (Zneg p) = S754_finite true (mantissa_of p) (Zpos (digits2_pos p) - 53).
Proof. intros. by apply binary_round_small. Qed.

Lemma integral_value_canonical s p :
  Zpos p < 2 ^ 53 ->
  integral_value (S754_finite s (mantissa_of p) (Zpos (digits2_pos p) - 53)) =
    Some (cond_Zopp s (Zpos p)).
Proof.
  intros Hp. pose proof (digits_le_53 p Hp) as Hd. pose proof (mantissa_of_value p Hp) as Hm.
  unfold integral_value. set (d := Zpos (digits2_pos p)) in *.
  assert (0 < 2 ^ (53 - d)) as Hpow by (apply Z.pow_pos_nonneg; lia).
  destruct (Z.leb_spec 0 (d - 53)) as [H|H].
  - replace (d - 53) with 0 by lia. replace (53 - d) with 0 in Hm by lia.
    rewrite Z.pow_0_r, Z.mul_1_r in *. by rewrite Hm.
  - replace (- (d - 53)) with (53 - d) by lia. rewrite Hm.
    rewrite Z.mod_mul by lia. rewrite Z.eqb_refl, Z.div_mul by lia. done.
Qed.

Lemma integral_value_of_Z z : Z.abs z < 2 ^ 53 -> integral_value (double_of_Z z) = Some z.
Proof.
  intros Hz. destruct z as [|p|p]; [done| |].
  - rewrite double_of_pos by lia. by rewrite integral_value_canonical by lia.
  - rewrite double_of_neg by lia. by rewrite integral_value_canonical by lia.
Qed.

(** An integer-valued number in canonical form is either the conversion of an
    integer below [2 ^ 53] or has a positive exponent. *)
Lemma valid_integral_form s m e z :
  bounded prec emax m e = true ->
  integral_value (S754_finite s m e) = Some z ->
  exists p, z = cond_Zopp s (Zpos p) /\
    ((Zpos p < 2 ^ 53 /\ m = mantissa_of p /\ e = Zpos (digits2_pos p) - 53) \/
     (2 ^ 53 <= Zpos p /\ 0 < e)).
Proof.
  unfold bounded, canonical_mantissa. rewrite fexp_eq. intros [Hc _]%andb_true_iff.
  apply Z.eqb_eq in Hc. pose proof (digits2_pos_bounds m) as [Lo Hi].
  unfold integral_value. destruct (Z.leb_spec 0 e) as [He|He].
  - assert (Zpos (digits2_pos m) = 53) as Hd by lia. rewrite Hd in *. intros [= <-].
    assert (0 < 2 ^ e) as Hpow by (apply Z.pow_pos_nonneg; lia).
    exists (Z.to_pos (Zpos m * 2 ^ e)).
    split; [rewrite Z2Pos.id by lia; destruct s; simpl; lia|]. rewrite Z2Pos.id by lia.
    destruct (Z.eq_dec e 0) as [->|Hne].
    + left. rewrite Z.pow_0_r, Z.mul_1_r in *. cbn [Z.to_pos]. rewrite Hd.
      split; [lia|]. split; [|lia]. apply Pos2Z.inj. rewrite mantissa_of_value by lia.
      rewrite Hd. simpl. lia.
    + right. split; [|lia].
      replace (2 ^ 53) with (2 ^ 52 * 2 ^ 1) by done.
      assert (2 ^ 1 <= 2 ^ e) by (apply Z.pow_le_mono_r; lia). nia.
  - destruct (Z.eqb_spec (Zpos m mod 2 ^ (- e)) 0) as [Hmod|]; [|done]. intros [= <-].
    assert (0 < 2 ^ (- e)) as Hpow by (apply Z.pow_pos_nonneg; lia).
    pose proof (Z.div_mod (Zpos m) (2 ^ (- e)) ltac:(lia)) as Hdm. rewrite Hmod, Z.add_0_r in Hdm.
    set (q := Zpos m / 2 ^ (- e)) in *. assert (0 < q) as Hq by nia.
    exists (Z.to_pos q). rewrite Z2Pos.id by lia. split; [done|]. left.
    assert (Zpos (digits2_pos m) <= 53) as Hd53 by lia.
    assert (Zpos m < 2 ^ 53) as Hm53.
    { apply Z.lt_le_trans with (2 ^ Zpos (digits2_pos m)); [lia|]. by apply Z.pow_le_mono_r. }
    assert (2 ^ (- e) < 2 ^ 53) as Hek by nia.
    apply Z.pow_lt_mono_r_iff in Hek; [|lia|lia].
    assert (Zpos (digits2_pos m) = 53) as Hd by lia. rewrite Hd in *.
    assert (Zpos (digits2_pos (Z.to_pos q)) = 53 + e) as Hdq.
    { apply digits2_pos_unique; [lia|]. rewrite Z2Pos.id by lia.
      replace (2 ^ (53 - 1)) with (2 ^ (- e) * 2 ^ (53 + e - 1)) in Lo
        by (rewrite <- Z.pow_add_r by lia; f_equal; lia).
      replace (2 ^ 53) with (2 ^ (- e) * 2 ^ (53 + e)) in Hm53
        by (rewrite <- Z.pow_add_r by lia; f_equal; lia).
      split; nia. }
    split; [nia|]. split; [|lia]. apply Pos2Z.inj.
    rewrite mantissa_of_value; rewrite Z2Pos.id by lia; [|nia].
    rewrite Hdq. replace (53 - (53 + e)) with (- e) by lia. lia.
Qed.

Lemma compare_canonical p q :
  Zpos p < 2 ^ 53 -> Zpos q < 2 ^ 53 ->
  match Z.compare (Zpos (digits2_pos p) - 53) (Zpos (digits2_pos q) - 53) with
  | Lt => Lt
  | Gt => Gt
  | Eq => Pos.compare_cont Eq (mantissa_of p) (mantissa_of q)
  end = (Zpos p ?= Zpos q).
Proof.
  intros Hp Hq. pose proof (digits2_pos_bounds p) as [Lp Up].
  pose proof (digits2_pos_bounds q) as [Lq Uq].
  pose proof (digits_le_53 p Hp). pose proof (digits_le_53 q Hq).
  pose proof (mantissa_of_value p Hp) as Mp. pose proof (mantissa_of_value q Hq) as Mq.
  set (dp := Zpos (digits2_pos p)) in *. set (dq := Zpos (digits2_pos q)) in *.
  destruct (Z.compare_spec (dp - 53) (dq - 53)) as [E|E|E].
  - replace dp with dq in * by lia.
    change (Pos.compare_cont Eq) with Pos.compare.
    change ((Zpos (mantissa_of p) ?= Zpos (mantissa_of q)) = (Zpos p ?= Zpos q)).
    rewrite Mp, Mq. symmetry. apply Zmult_compare_compat_r.
    assert (0 < 2 ^ (53 - dq)) by (apply Z.pow_pos_nonneg; lia). lia.
  - symmetry. apply Z.compare_lt_iff.
    assert (2 ^ dp <= 2 ^ (dq - 1)) by (apply Z.pow_le_mono_r; lia). lia.
  - symmetry. apply Z.compare_gt_iff.
    assert (2 ^ dq <= 2 ^ (dp - 1)) by (apply Z.pow_le_mono_r; lia). lia.
Qed.

Lemma compare_big s m e z c :
  z = cond_Zopp s (Zpos m) -> 2 ^ 53 <= Zpos m -> 0 < e -> Z.abs c < 2 ^ 53 ->
  forall m', SFcompare (S754_finite s m' e) (double_of_Z c) = Some (z ?= c).
Proof.
  intros -> Hm He Hc m'. destruct c as [|q|q].
  - by destruct s.
  - rewrite double_of_pos by lia. pose proof (digits_le_53 q ltac:(lia)). cbn [SFcompare].
    destruct s; cbn [cond_Zopp]; [done|].
    replace (e ?= Zpos (digits2_pos q) - 53) with Gt by (symmetry; apply Z.compare_gt_iff; lia).
    f_equal. symmetry. apply Z.compare_gt_iff. lia.
  - rewrite double_of_neg by lia. pose proof (digits_le_53 q ltac:(lia)). cbn [SFcompare].
    destruct s; cbn [cond_Zopp]; [|done].
    replace (e ?= Zpos (digits2_pos q) - 53) with Gt by (symmetry; apply Z.compare_gt_iff; lia).
    f_equal. symmetry. apply Z.compare_lt_iff. lia.
Qed.

(** Comparing an integer-valued number with an exact constant compares the
    integers. *)
Lemma compare_integral x z c :
  valid_double x = true -> integral_value x = Some z -> Z.abs c < 2 ^ 53 ->
  SFcompare x (double_of_Z c) = Some (z ?= c).
Proof.
  intros Hv Hz Hc. destruct x as [s|s| |s m e]; try done.
  - injection Hz as <-. destruct c as [|q|q]; [done| |].
    + by rewrite double_of_pos by lia.
    + by rewrite double_of_neg by lia.
  - destruct (valid_integral_form s m e z Hv Hz) as (p & -> & [(Hp & -> & ->)|(Hp & He)]).
    + destruct c as [|q|q]; [by destruct s| |].
      * rewrite double_of_pos by lia. simpl. destruct s; simpl; [done|].
        f_equal. apply compare_canonical; lia.
      * rewrite double_of_neg by lia. cbn [SFcompare cond_Zopp]. destruct s; [|done]. f_equal.
        change (cond_Zopp true (Zpos p) ?= Zneg q) with (CompOpp (Zpos p ?= Zpos q)).
        rewrite <- (compare_canonical p q) by lia. by destruct (_ ?= _).
    + by apply compare_big with p.
Qed.

Lemma SFcompare_refl s m e : SFcompare (S754_finite s m e) (S754_finite s m e) = Some Eq.
Proof.
  cbn [SFcompare]. rewrite Z.compare_refl.
  change (Pos.compare_cont Eq m m) with (Pos.compare m m). rewrite Pos.compare_refl. by destruct s.
Qed.

Lemma SFcompare_eq_finite s m e s' m' e' :
  SFcompare (S754_finite s m e) (S754_finite s' m' e') = Some Eq ->
  S754_finite s m e = S754_finite s' m' e'.
Proof.
  cbn [SFcompare]. change (Pos.compare_cont Eq m m') with (Pos.compare m m').
  destruct s, s'; try done; destruct (Z.compare_spec e e') as [->| |]; try done;
    destruct (Pos.compare_spec m m') as [->| |]; done.
Qed.

Lemma valid_digits s m e :
  valid_double (S754_finite s m e) = true -> e < 0 -> Zpos m < 2 ^ 53.
Proof.
  unfold valid_double, valid_binary, bounded, canonical_mantissa. rewrite fexp_eq.
  intros [Hc _]%andb_true_iff He. apply Z.eqb_eq in Hc. pose proof (digits2_pos_bounds m) as [_ Hi].
  apply Z.lt_le_trans with (2 ^ Zpos (digits2_pos m)); [done|]. apply Z.pow_le_mono_r; lia.
Qed.

Lemma normalize_small z s :
  z <> 0 -> binary_normalize prec emax z 0 s = double_of_Z z.
Proof. by destruct z. Qed.

(** The integer test of the bridge holds exactly of the integer-valued numbers. *)
Lemma is_integral_spec x :
  valid_double x = true -> is_integral x = true <-> is_Some (integral_value x).
Proof.
  intros Hv. unfold is_integral, dbl_eq, SFeqb.
  destruct x as [s|s| |s m e]; simpl isfinite; cbn [andb].
  - split; [by eexists|done].
  - split; [done|intros [? ?]; done].
  - split; [done|intros [? ?]; done].
  - unfold std_floor. destruct (Z.leb_spec 0 e) as [He|He].
    { rewrite SFcompare_refl. split; [intros _|done]. unfold integral_value.
      destruct (Z.leb_spec 0 e); [by eexists|lia]. }
    pose proof (valid_digits s m e Hv He) as Hm.
    assert (1 <= 2 ^ (- e)) as Hpow by (pose proof (Z.pow_pos_nonneg 2 (- e)); lia).
    unfold floor_Z. destruct (Z.leb_spec 0 e); [lia|].
    set (f := cond_Zopp s (Zpos m) / 2 ^ (- e)) in *.
    assert (Z.abs f < 2 ^ 53) as Hf.
    { assert (Z.abs (cond_Zopp s (Zpos m)) = Zpos m) by (destruct s; simpl; lia).
      pose proof (Z.div_mod (cond_Zopp s (Zpos m)) (2 ^ (- e)) ltac:(lia)) as Hd. fold f in Hd.
      pose proof (Z.mod_pos_bound (cond_Zopp s (Zpos m)) (2 ^ (- e)) ltac:(lia)). nia. }
    split.
    + intros Hcmp. destruct (decide (f = 0)) as [Hf0|Hf0]; [rewrite Hf0 in Hcmp; by destruct s|].
      rewrite (normalize_small f s Hf0) in Hcmp. pose proof (integral_value_of_Z f Hf) as Hi.
      destruct (double_of_Z f) as [?|?| |s' m' e'] eqn:E; try done.
      * destruct s; done.
      * destruct (SFcompare _ _) as [[]|] eqn:Ec; try done. apply SFcompare_eq_finite in Ec.
        rewrite <- Ec, Hi. by eexists.
    + intros [z Hz]. pose proof Hz as Hz'. unfold integral_value in Hz'.
      destruct (Z.leb_spec 0 e); [lia|].
      destruct (Z.eqb_spec (Zpos m mod 2 ^ (- e)) 0) as [Hmod|]; [|done].
      injection Hz' as Hz'.
      assert (f = z) as ->.
      { subst f z. destruct s; simpl; [|done]. apply Z.div_opp_l_z; lia. }
      assert (z <> 0) as Hz0.
      { subst z. pose proof (Z.div_mod (Zpos m) (2 ^ (- e)) ltac:(lia)).
        destruct s; simpl; nia. }
      rewrite (normalize_small z s Hz0).
      assert (SFcompare (S754_finite s m e) (double_of_Z z) = Some Eq) as Hcmp
        by (rewrite (compare_integral _ z) by done; by rewrite Z.compare_refl).
      destruct (double_of_Z z) as [[]|[]| |s' m' e']; try (destruct s; discriminate Hcmp).
      apply SFcompare_eq_finite in Hcmp. rewrite <- Hcmp, SFcompare_refl. done.
Qed.

Lemma trunc_integral x z : integral_value x = Some z -> trunc_Z x = z.
Proof.
  destruct x as [s|s| |s m e]; try done; simpl.
  - by intros [= <-].
  - destruct (0 <=? e).
    + intros [= <-]. destruct s; simpl; lia.
    + destruct (_ =? 0); [|done]. by intros [= <-].
Qed.

Lemma dbl_lt_integral x z c :
  valid_double x = true -> integral_value x = Some z -> Z.abs c < 2 ^ 53 ->
  dbl_lt x (double_of_Z c) = (z <? c).
Proof.
  intros Hv Hz Hc. unfold dbl_lt, SFltb. rewrite (compare_integral x z c) by done.
  unfold Z.ltb. by destruct (z ?= c).
Qed.

Lemma double_of_Z_valid z : Z.abs z < 2 ^ 53 -> valid_double (double_of_Z z) = true.
Proof.
  intros Hz. destruct z as [|p|p]; [done| |].
  - rewrite double_of_pos by lia. apply mantissa_of_bounded. lia.
  - rewrite double_of_neg by lia. apply mantissa_of_bounded. lia.
Qed.

Lemma SFcompare_antisym x y :
  SFcompare y x = CompOpp <$> SFcompare x y.
Proof.
  destruct x as [[]|[]| |[] m e], y as [[]|[]| |[] m' e']; try done;
    cbn [SFcompare fmap option_fmap option_map]; f_equal;
    rewrite (Z.compare_antisym e e'); destruct (e ?= e'); try done; cbn [CompOpp];
    change (Pos.compare_cont Eq) with Pos.compare; rewrite (Pos.compare_antisym m m'); done.
Qed.

Lemma dbl_gt_integral x z c :
  valid_double x = true -> integral_value x = Some z -> Z.abs c < 2 ^ 53 ->
  dbl_gt x (double_of_Z c) = (c <? z).
Proof.
  intros Hv Hz Hc. unfold dbl_gt, SFltb. rewrite SFcompare_antisym.
  rewrite (compare_integral x z c) by done. simpl.
  unfold Z.ltb. rewrite (Z.compare_antisym z c). by destruct (z ?= c).
Qed.

(** A range check on doubles is a range check on the integer they stand for. *)
Lemma int_in_range_spec lo hi x :
  valid_double x = true -> Z.abs lo < 2 ^ 53 -> Z.abs hi < 2 ^ 53 ->
  int_in_range lo hi x = true <->
    exists z, integral_value x = Some z /\ lo <= z <= hi.
Proof.
  intros Hv Hlo Hhi. unfold int_in_range. rewrite !andb_true_iff, !negb_true_iff.
  rewrite (is_integral_spec x Hv). split.
  - intros [[[z Hz] Hl] Hg]. rewrite (dbl_lt_integral x z) in Hl by done.
    rewrite (dbl_gt_integral x z) in Hg by done. exists z. split; [done|]. lia.
  - intros (z & Hz & Hr). rewrite (dbl_lt_integral x z), (dbl_gt_integral x z) by done.
    repeat split; [by eexists|lia|lia].
Qed.

Lemma integral_value_abs x z :
  integral_value x = Some z -> integral_value (std_abs x) = Some (Z.abs z).
Proof.
  destruct x as [s|s| |s m e]; try done; simpl.
  - by intros [= <-].
  - destruct (Z.leb_spec 0 e).
    + intros [= <-]. f_equal. pose proof (Z.pow_nonneg 2 e).
      destruct s; cbn [cond_Zopp]; nia.
    + destruct (_ =? 0); [|done]. intros [= <-]. f_equal.
      pose proof (Z.div_pos (Zpos m) (2 ^ (- e))). pose proof (Z.pow_pos_nonneg 2 (- e)).
      destruct s; simpl; lia.
Qed.

Lemma valid_double_abs x : valid_double (std_abs x) = valid_double x.
Proof. by destruct x. Qed.

Lemma int_abs_at_most_spec hi x :
  valid_double x = true -> 0 <= hi < 2 ^ 53 ->
  int_abs_at_most hi x = true <->
    exists z, integral_value x = Some z /\ - hi <= z <= hi.
Proof.
  intros Hv Hhi. unfold int_abs_at_most. rewrite andb_true_iff, negb_true_iff.
  rewrite (is_integral_spec x Hv). split.
  - intros [[z Hz] Hg]. exists z. split; [done|].
    rewrite (dbl_gt_integral _ (Z.abs z)) in Hg;
      [lia|by rewrite valid_double_abs|by apply integral_value_abs|lia].
  - intros (z & Hz & Hr). split; [by eexists|].
    rewrite (dbl_gt_integral _ (Z.abs z));
      [lia|by rewrite valid_double_abs|by apply integral_value_abs|lia].
Qed.

Lemma int_in_range_of_Z lo hi z :
  Z.abs lo < 2 ^ 53 -> Z.abs hi < 2 ^ 53 -> Z.abs z < 2 ^ 53 ->
  int_in_range lo hi (double_of_Z z) = ((lo <=? z) && (z <=? hi)).
Proof.
  intros. apply eq_true_iff_eq. rewrite int_in_range_spec by (try done; by apply double_of_Z_valid).
  rewrite integral_value_of_Z by done. rewrite andb_true_iff, !Z.leb_le. naive_solver.
Qed.

Lemma trunc_of_Z z : Z.abs z < 2 ^ 53 -> trunc_Z (double_of_Z z) = z.
Proof. intros. apply trunc_integral. by apply integral_value_of_Z. Qed.

#[export] Hint Resolve double_of_Z_valid integral_value_of_Z trunc_of_Z : kry.

(** ** Conversion to float *)

(** Shifting a mantissa right, and rounding it, does not make it negative. *)
Lemma shr_1_nonneg r : 0 <= shr_m r -> 0 <= shr_m (shr_1 r).
Proof. destruct r as [[|[p|p|]|[p|p|]] r s]; simpl; lia. Qed.

Lemma iter_shr_1_nonneg n r : 0 <= shr_m r -> 0 <= shr_m (SpecFloat.iter_pos shr_1 n r).
Proof. revert r. induction n as [n IH|n IH|]; intros r Hr; simpl; auto using shr_1_nonneg. Qed.

Lemma shr_fexp_nonneg p m m' e l : 0 <= m -> 0 <= shr_m (shr_fexp p m' m e l).1.
Proof.
  intros Hm. unfold shr_fexp, shr. assert (0 <= shr_m (shr_record_of_loc m l)).
  { by destruct l as [|[]]. }
  destruct (_ - _); simpl; auto using iter_shr_1_nonneg.
Qed.

Lemma round_nearest_even_nonneg m l : 0 <= m -> 0 <= round_nearest_even m l.
Proof. intros Hm. destruct l as [|[]]; simpl; [|destruct (Z.even m)|..]; lia. Qed.

(** Rounding gives a number or an infinity. *)
Lemma binary_round_number p m s x e : is_nan (binary_round p m s x e) = false.
Proof.
  unfold binary_round. destruct (shl_align _ _ _) as [mz ez]. unfold binary_round_aux.
  pose proof (shr_fexp_nonneg p (Zpos mz) m ez loc_Exact ltac:(lia)) as H1.
  destruct (shr_fexp _ _ _ _ _) as [r1 e1]. cbn [fst] in H1.
  pose proof (shr_fexp_nonneg p (round_nearest_even (shr_m r1) (loc_of_shr_record r1)) m e1 loc_Exact
    (round_nearest_even_nonneg _ _ H1)) as H2.
  destruct (shr_fexp _ _ _ _ _) as [r2 e2]. cbn [fst] in H2.
  destruct (shr_m r2); [done|by destruct (_ <=? _)|lia].
Qed.

Lemma to_float32_number x : isfinite x = true -> is_nan (to_float32 x) = false.
Proof.
  destruct x as [| | |s m e]; try done. intros _. simpl.
  pose proof (binary_round_number 24 128 s m e) as H.
  destruct (binary_round 24 128 s m e) as [| | |s' m' e']; try done.
  destruct s'; apply binary_round_number.
Qed.

(** Not every finite double is finite as a float: 1e39 is not. *)
Lemma to_float32_overflow :
  let x := binary_normalize prec emax (10 ^ 39) 0 false in
  isfinite x = true /\ to_float32 x = S754_infinity false.
Proof. by vm_compute. Qed.
