(* ===== verification/Json.v ===== *)
(** JSON values as the bridge sees them through QJsonValue, QJsonObject and
    QJsonArray, and the two response envelopes. *)
From S2P Require Export Doubles.

(** * Definitions *)

(** A QJsonValue. An object is the list of its members in key order, without
    duplicate keys; [JUndefined] is what reading a missing member gives. *)
Inductive json : Type :=
  | JUndefined
  | JNull
  | JBool (b : bool)
  | JDouble (d : double)
  | JString (s : string)
  | JArray (items : list json)
  | JObject (members : list (string * json)).

Abbreviation jmembers := (list (string * json)) (only parsing).

Definition is_undefined (v : json) : bool := match v with JUndefined => true | _ => false end.
Definition is_null (v : json) : bool := match v with JNull => true | _ => false end.
Definition is_bool (v : json) : bool := match v with JBool _ => true | _ => false end.
Definition is_double (v : json) : bool := match v with JDouble _ => true | _ => false end.
Definition is_string (v : json) : bool := match v with JString _ => true | _ => false end.
Definition is_array (v : json) : bool := match v with JArray _ => true | _ => false end.
Definition is_object (v : json) : bool := match v with JObject _ => true | _ => false end.

(** The converting accessors return an empty value on another type. *)
Definition to_bool (v : json) : bool := match v with JBool b => b | _ => false end.
Definition to_double (v : json) : double := match v with JDouble d => d | _ => S754_zero false end.
Definition to_string (v : json) : string := match v with JString s => s | _ => estr end.
Definition to_array (v : json) : list json := match v with JArray l => l | _ => [] end.
Definition to_object (v : json) : jmembers := match v with JObject o => o | _ => [] end.

(** [v.toInt(d)]: the number when it is an integer of the [int] range, else [d]. *)
Definition to_int (d : Z) (v : json) : Z :=
  match v with
  | JDouble x => if int_in_range int_min int_max x then trunc_Z x else d
  | _ => d
  end.

(** [o.value(key)] and [o.contains(key)]. *)
Fixpoint obj_value (key : string) (o : jmembers) : json :=
  match o with
  | [] => JUndefined
  | (k, v) :: o' => if bool_decide (k = key) then v else obj_value key o'
  end.

Fixpoint obj_contains (key : string) (o : jmembers) : bool :=
  match o with
  | [] => false
  | (k, _) :: o' => bool_decide (k = key) || obj_contains key o'
  end.

Fixpoint obj_remove (key : string) (o : jmembers) : jmembers :=
  match o with
  | [] => []
  | (k, v) :: o' => if bool_decide (k = key) then obj_remove key o' else (k, v) :: obj_remove key o'
  end.

Fixpoint obj_put (key : string) (v : json) (o : jmembers) : jmembers :=
  match o with
  | [] => [(key, v)]
  | (k, w) :: o' =>
      if bool_decide (k = key) then (key, v) :: o'
      else if str_lt k key then (k, w) :: obj_put key v o'
      else (key, v) :: o
  end.

(** [o.insert(key, v)]: an undefined value removes the member. *)
Definition obj_insert (key : string) (v : json) (o : jmembers) : jmembers :=
  if is_undefined v then obj_remove key o else obj_put key v o.

(** [QJsonObject{{k1, v1}, ...}]. *)
Definition make_members (l : jmembers) : jmembers :=
  fold_left (fun o '(k, v) => obj_insert k v o) l [].

Definition make_object (l : jmembers) : json := JObject (make_members l).

(** [a.at(i)]: undefined outside of the array. *)
Definition arr_at (i : nat) (a : list json) : json := default JUndefined (a !! i).
Definition arr_first (a : list json) : json := arr_at 0 a.
Definition arr_size (a : list json) : Z := Z.of_nat (length a).
Definition arr_empty (a : list json) : bool := match a with [] => true | _ => false end.

(** [QJsonArray::fromStringList]. *)
Definition strings_array (l : list string) : json := JArray (JString <$> l).

(** The response envelopes of qt6_bridge.cpp. *)
Definition success (value : json) : json :=
  make_object [("ok"%string, JBool true); ("value"%string, value)].

Definition failure (message : string) : json :=
  make_object [("ok"%string, JBool false); ("error"%string, JString message)].

(** * Lemmas *)

Lemma obj_value_put_eq key v o : obj_value key (obj_put key v o) = v.
Proof.
  induction o as [|[k w] o IH]; simpl; [by rewrite bool_decide_eq_true_2|].
  case_bool_decide; [by simpl; rewrite bool_decide_eq_true_2|].
  destruct (str_lt k key); simpl.
  - by rewrite bool_decide_eq_false_2.
  - by rewrite bool_decide_eq_true_2.
Qed.

Lemma obj_value_put_ne key key' v o :
  key <> key' -> obj_value key' (obj_put key v o) = obj_value key' o.
Proof.
  intros Hne. induction o as [|[k w] o IH]; simpl; [by rewrite bool_decide_eq_false_2|].
  case_bool_decide as Hk; simpl.
  - subst. by rewrite !bool_decide_eq_false_2.
  - destruct (str_lt k key); simpl; [by rewrite IH|]. by rewrite (bool_decide_eq_false_2 (key = key')).
Qed.

Lemma success_value v : v <> JUndefined -> success v = JObject [("ok"%string, JBool true); ("value"%string, v)].
Proof. by destruct v. Qed.

Lemma failure_value m :
  failure m = JObject [("error"%string, JString m); ("ok"%string, JBool false)].
Proof. done. Qed.

Lemma success_ne_failure v m : success v <> failure m.
Proof. by destruct v. Qed.
