(* ===== verification/Meta.v ===== *)
(** The data of Qt's meta-type and meta-object systems that the bridge
    reads: type descriptors, tagged values and reflected classes. *)
From S2P Require Export Json.

(** * Definitions *)

(** The Qt value types whose contents the bridge never inspects. *)
Class QtTypes := {
  qimage : Type;
  qpixmap : Type;
  qicon : Type;
  qcolor : Type;
  qdate : Type;
  qtime : Type;
  qdatetime : Type;
  qurl : Type;
  qfont : Type;
  qkeysequence : Type;
  quuid : Type;
  qregularexpression : Type;
  qgeocoordinate : Type;
  qhostaddress : Type;
  qnetworkrequest : Type;
  qopaque : Type;
}.

(** Identity of a QObject, never reused for another object of a run. *)
Abbreviation ptr := positive (only parsing).

(** A QMetaType: the types the bridge names, and every other type by its
    registered name. [MT_QObjectPtr] carries [PointerToQObject] and the class
    name, [MT_Enum] carries [IsEnumeration] and the storage size. *)
Inductive metatype : Set :=
  | MT_Invalid | MT_QVariant | MT_Nullptr | MT_Void
  | MT_Bool | MT_Double | MT_QString | MT_Int | MT_UInt | MT_LongLong | MT_ULongLong
  | MT_QByteArray | MT_QStringList
  | MT_QVariantMap | MT_QVariantHash | MT_QStringMap | MT_QStringHash
  | MT_QJsonValue | MT_QJsonObject | MT_QJsonArray
  | MT_QPoint | MT_QPointF | MT_QSize | MT_QSizeF | MT_QRect | MT_QRectF
  | MT_QMargins | MT_QMarginsF | MT_QLine | MT_QLineF
  | MT_QVector2D | MT_QVector3D | MT_QVector4D
  | MT_QUuid | MT_QRegularExpression | MT_QGeoCoordinate | MT_QHostAddress
  | MT_QNetworkRequest | MT_QImage | MT_QPixmap | MT_QIcon | MT_QColor
  | MT_QDate | MT_QTime | MT_QDateTime | MT_QUrl | MT_QFont | MT_QKeySequence
  | MT_QObjectPtr (class_name : string)
  | MT_Enum (name : string) (size : Z)
  | MT_Other (name : string).

#[export] Instance metatype_eq_dec : EqDecision metatype.
Proof. solve_decision. Defined.

Definition mt_valid (t : metatype) : bool := negb (bool_decide (t = MT_Invalid)).

Definition mt_is_qobject_pointer (t : metatype) : bool :=
  match t with MT_QObjectPtr _ => true | _ => false end.

Definition mt_is_enumeration (t : metatype) : bool :=
  match t with MT_Enum _ _ => true | _ => false end.

Definition mt_size_of (t : metatype) : Z :=
  match t with MT_Enum _ size => size | _ => 0 end.

(** [QString::fromLatin1(type.name())]; an invalid type has a null name, which
    reads as the empty string. *)
Definition mt_name (t : metatype) : string :=
  match t with
  | MT_Invalid => estr
  | MT_QVariant => "QVariant" | MT_Nullptr => "std::nullptr_t" | MT_Void => "void"
  | MT_Bool => "bool" | MT_Double => "double" | MT_QString => "QString" | MT_Int => "int"
  | MT_UInt => "uint" | MT_LongLong => "qlonglong" | MT_ULongLong => "qulonglong"
  | MT_QByteArray => "QByteArray" | MT_QStringList => "QStringList"
  | MT_QVariantMap => "QVariantMap" | MT_QVariantHash => "QVariantHash"
  | MT_QStringMap => "QMap<QString,QString>" | MT_QStringHash => "QHash<QString,QString>"
  | MT_QJsonValue => "QJsonValue" | MT_QJsonObject => "QJsonObject" | MT_QJsonArray => "QJsonArray"
  | MT_QPoint => "QPoint" | MT_QPointF => "QPointF" | MT_QSize => "QSize" | MT_QSizeF => "QSizeF"
  | MT_QRect => "QRect" | MT_QRectF => "QRectF" | MT_QMargins => "QMargins"
  | MT_QMarginsF => "QMarginsF" | MT_QLine => "QLine" | MT_QLineF => "QLineF"
  | MT_QVector2D => "QVector2D" | MT_QVector3D => "QVector3D" | MT_QVector4D => "QVector4D"
  | MT_QUuid => "QUuid" | MT_QRegularExpression => "QRegularExpression"
  | MT_QGeoCoordinate => "QGeoCoordinate" | MT_QHostAddress => "QHostAddress"
  | MT_QNetworkRequest => "QNetworkRequest" | MT_QImage => "QImage" | MT_QPixmap => "QPixmap"
  | MT_QIcon => "QIcon" | MT_QColor => "QColor" | MT_QDate => "QDate" | MT_QTime => "QTime"
  | MT_QDateTime => "QDateTime" | MT_QUrl => "QUrl" | MT_QFont => "QFont"
  | MT_QKeySequence => "QKeySequence"
  | MT_QObjectPtr c => c ++ "*"
  | MT_Enum n _ => n
  | MT_Other n => n
  end%string.

(** A QVariant: a value tagged with its type. *)
Inductive qvariant `{QtTypes} : Type :=
  | VInvalid
  | VNullptr
  | VBool (b : bool)
  | VDouble (d : double)
  | VString (s : string)
  | VInt (z : Z)
  | VUInt (z : Z)
  | VLongLong (z : Z)
  | VULongLong (z : Z)
  | VByteArray (bytes : string)
  | VStringList (l : list string)
  | VVariantMap (m : list (string * qvariant))
  | VVariantHash (m : list (string * qvariant))
  | VStringMap (m : list (string * string))
  | VStringHash (m : list (string * string))
  | VJsonValue (v : json)
  | VJsonObject (o : list (string * json))
  | VJsonArray (a : list json)
  | VPoint (x y : Z)
  | VPointF (x y : double)
  | VSize (width height : Z)
  | VSizeF (width height : double)
  | VRect (x y width height : Z)
  | VRectF (x y width height : double)
  | VMargins (left top right bottom : Z)
  | VMarginsF (left top right bottom : double)
  | VLine (x1 y1 x2 y2 : Z)
  | VLineF (x1 y1 x2 y2 : double)
  | VVector2D (x y : double)
  | VVector3D (x y z : double)
  | VVector4D (x y z w : double)
  | VUuid (u : quuid)
  | VRegularExpression (r : qregularexpression)
  | VGeoCoordinate (g : qgeocoordinate)
  | VHostAddress (h : qhostaddress)
  | VNetworkRequest (r : qnetworkrequest)
  | VImage (i : qimage)
  | VPixmap (p : qpixmap)
  | VIcon (i : qicon)
  | VColor (c : qcolor)
  | VDate (d : qdate)
  | VTime (t : qtime)
  | VDateTime (d : qdatetime)
  | VUrl (u : qurl)
  | VFont (f : qfont)
  | VKeySequence (k : qkeysequence)
  | VObject (class_name : string) (object : option ptr)
  | VEnum (name : string) (size : Z) (bits : Z)
  | VOther (name : string) (payload : qopaque).

(** [v.metaType()]. *)
Definition v_type `{QtTypes} (v : qvariant) : metatype :=
  match v with
  | VInvalid => MT_Invalid
  | VNullptr => MT_Nullptr
  | VBool _ => MT_Bool
  | VDouble _ => MT_Double
  | VString _ => MT_QString
  | VInt _ => MT_Int
  | VUInt _ => MT_UInt
  | VLongLong _ => MT_LongLong
  | VULongLong _ => MT_ULongLong
  | VByteArray _ => MT_QByteArray
  | VStringList _ => MT_QStringList
  | VVariantMap _ => MT_QVariantMap
  | VVariantHash _ => MT_QVariantHash
  | VStringMap _ => MT_QStringMap
  | VStringHash _ => MT_QStringHash
  | VJsonValue _ => MT_QJsonValue
  | VJsonObject _ => MT_QJsonObject
  | VJsonArray _ => MT_QJsonArray
  | VPoint _ _ => MT_QPoint
  | VPointF _ _ => MT_QPointF
  | VSize _ _ => MT_QSize
  | VSizeF _ _ => MT_QSizeF
  | VRect _ _ _ _ => MT_QRect
  | VRectF _ _ _ _ => MT_QRectF
  | VMargins _ _ _ _ => MT_QMargins
  | VMarginsF _ _ _ _ => MT_QMarginsF
  | VLine _ _ _ _ => MT_QLine
  | VLineF _ _ _ _ => MT_QLineF
  | VVector2D _ _ => MT_QVector2D
  | VVector3D _ _ _ => MT_QVector3D
  | VVector4D _ _ _ _ => MT_QVector4D
  | VUuid _ => MT_QUuid
  | VRegularExpression _ => MT_QRegularExpression
  | VGeoCoordinate _ => MT_QGeoCoordinate
  | VHostAddress _ => MT_QHostAddress
  | VNetworkRequest _ => MT_QNetworkRequest
  | VImage _ => MT_QImage
  | VPixmap _ => MT_QPixmap
  | VIcon _ => MT_QIcon
  | VColor _ => MT_QColor
  | VDate _ => MT_QDate
  | VTime _ => MT_QTime
  | VDateTime _ => MT_QDateTime
  | VUrl _ => MT_QUrl
  | VFont _ => MT_QFont
  | VKeySequence _ => MT_QKeySequence
  | VObject c _ => MT_QObjectPtr c
  | VEnum n size _ => MT_Enum n size
  | VOther n _ => MT_Other n
  end.

(** [v.isValid()]. *)
Definition v_valid `{QtTypes} (v : qvariant) : bool := mt_valid (v_type v).

(** Reflected classes. *)
Inductive method_type : Set := MSignal | MSlot | MConstructor | MMethod.
Inductive access : Set := APrivate | AProtected | APublic.

#[export] Instance method_type_eq_dec : EqDecision method_type.
Proof. solve_decision. Defined.
#[export] Instance access_eq_dec : EqDecision access.
Proof. solve_decision. Defined.

Record metamethod : Type := MetaMethod {
  mm_signature : string;
  mm_valid : bool;
  mm_type : method_type;
  mm_access : access;
  mm_type_name : option string;
  mm_parameter_names : list string;
  mm_parameter_type_names : list string;
  mm_parameter_types : list metatype;
  mm_return_type : metatype;
}.

Record metaproperty : Type := MetaProperty {
  mp_name : string;
  mp_type : metatype;
  mp_readable : bool;
  mp_writable : bool;
  mp_designable : bool;
  mp_stored : bool;
}.

Record metaenum : Type := MetaEnum {
  me_name : string;
  me_scope : string;
  me_is_flag : bool;
  me_keys : list (string * Z);
}.

Inductive metaobject : Type :=
  | MetaObject (class_name : string) (super : option metaobject)
      (properties : list metaproperty) (methods constructors : list metamethod)
      (enumerators : list metaenum).

Definition mo_class_name (m : metaobject) : string := let '(MetaObject c _ _ _ _ _) := m in c.
Definition mo_super (m : metaobject) : option metaobject := let '(MetaObject _ s _ _ _ _) := m in s.
Definition mo_properties (m : metaobject) : list metaproperty := let '(MetaObject _ _ p _ _ _) := m in p.
Definition mo_methods (m : metaobject) : list metamethod := let '(MetaObject _ _ _ l _ _) := m in l.
Definition mo_constructors (m : metaobject) : list metamethod := let '(MetaObject _ _ _ _ l _) := m in l.
Definition mo_enumerators (m : metaobject) : list metaenum := let '(MetaObject _ _ _ _ _ l) := m in l.
