(* ===== verification/Qt.v ===== *)
(** The interface to Qt and to the operating system: everything here is code
    outside of the repository, so it is a parameter of the development. The
    library functions are in the class [QtLib], the objects that live in a
    running Qt application in the class [QtWorld], and [QtLaws] states the
    documented behaviour that theorems about the object tree rely on. *)
From S2P Require Export Meta Shards.

(** * Definitions *)

(** The outcome of C++ code: a value, an exception with its [what()] (if it is
    a std::exception), or the undefined behaviour it runs into. *)
Inductive ub : Set :=
  | UseAfterFree       (* [delete] of an object that is already destroyed *)
  | DanglingVariant.   (* reading through the pointer of a QVariant to such an object *)

Inductive outcome (A : Type) : Type :=
  | Done (a : A)
  | Threw (what : option string)
  | Crashed (why : ub).
Arguments Done {A} a.
Arguments Threw {A} what.
Arguments Crashed {A} why.

(** The outcome of a call into Qt, whose own undefined behaviour is not modelled. *)
Inductive reply (A : Type) : Type :=
  | Replied (a : A)
  | Raised (what : option string).
Arguments Replied {A} a.
Arguments Raised {A} what.

(** Library functions without side effects. *)
Class QtLib {T : QtTypes} := {
  (* QString and QByteArray *)
  q_arg : string -> string -> string;             (* fmt.arg(a) *)
  q_arg2 : string -> string -> string -> string;  (* fmt.arg(a, b) *)
  q_number : Z -> string;                         (* QString::number *)
  q_to_latin1 : string -> string;
  q_from_latin1 : string -> string;
  q_from_utf8 : string -> string;
  q_section_last : string -> string;              (* s.section('.', -1) *)
  q_to_long_long : string -> option Z;            (* toLongLong(&ok, 10) *)
  q_to_ulong_long : string -> option Z;
  q_from_base64 : string -> option string;        (* QByteArray::fromBase64Encoding *)
  q_to_base64 : string -> string;
  q_normalized_signature : string -> string;
  (* JSON documents *)
  q_parse_document : string -> string * option json; (* error text, document *)
  q_document_compact : json -> string;
  (* meta-enums *)
  q_key_to_value64 : metaenum -> string -> option Z;
  q_keys_to_value64 : metaenum -> string -> option Z;
  (* meta-types and meta-objects *)
  q_meta_object : metatype -> option metaobject;  (* type.metaObject() *)
  q_is_gadget : metatype -> bool;                 (* flag IsGadget *)
  q_index_of_method : metaobject -> string -> option metamethod;
  q_index_of_signal : metaobject -> string -> option metamethod;
  q_index_of_property : metaobject -> string -> option metaproperty;
  (* QVariant *)
  q_to_variant : json -> qvariant;
  q_from_variant : qvariant -> json;
  q_convert : qvariant -> metatype -> bool * qvariant; (* result, converted value *)
  q_default_variant : metatype -> qvariant;       (* QVariant(type) *)
  q_object_of : qvariant -> option ptr;           (* value<QObject *>() *)
  (* value types: parsers give None on an invalid value *)
  q_uuid : string -> quuid;
  q_uuid_text : quuid -> string;
  q_regexp : string -> Z -> qregularexpression;
  q_regexp_error : qregularexpression -> option string; (* errorString() if invalid *)
  q_regexp_pattern : qregularexpression -> string;
  q_regexp_options : qregularexpression -> Z;
  q_geo : double -> double -> qgeocoordinate;
  q_geo_altitude : double -> double -> double -> qgeocoordinate;
  q_geo_valid : qgeocoordinate -> bool;
  q_geo_fields : qgeocoordinate -> double * double * double; (* latitude, longitude, altitude *)
  q_host : string -> option qhostaddress;
  q_host_text : qhostaddress -> string;
  q_url : string -> qurl;
  q_url_error : qurl -> option string;            (* errorString() if invalid *)
  q_url_encoded : qurl -> string;
  q_request : qurl -> qnetworkrequest;
  q_request_set_header : string -> string -> qnetworkrequest -> qnetworkrequest;
  q_request_headers : qnetworkrequest -> list (string * string);
  q_request_url : qnetworkrequest -> qurl;
  q_image_from_data : string -> option qimage;
  q_image_png : qimage -> option string;          (* open a buffer and save as PNG *)
  q_pixmap_of_image : qimage -> qpixmap;
  q_image_of_pixmap : qpixmap -> qimage;
  q_icon_of_pixmap : qpixmap -> qicon;
  q_pixmap_of_icon : qicon -> qpixmap;            (* icon.pixmap(64, 64) *)
  q_color : string -> option qcolor;
  q_color_name : qcolor -> string;
  q_date : string -> option qdate;
  q_date_text : qdate -> string;
  q_time : string -> string -> option qtime;      (* text, format *)
  q_time_text : qtime -> string -> string;
  q_datetime_ms : string -> option qdatetime;     (* Qt::ISODateWithMs *)
  q_datetime_iso : string -> option qdatetime;    (* Qt::ISODate *)
  q_datetime_text : qdatetime -> string;
  q_font : string -> option qfont;
  q_font_text : qfont -> string;
  q_keysequence : string -> qkeysequence;
  q_keysequence_text : qkeysequence -> string;
}.

(** Types of Qt that are declared without Q_GADGET. *)
Definition plain_types : list metatype :=
  [MT_LongLong; MT_ULongLong; MT_QPoint; MT_QPointF; MT_QSize; MT_QSizeF; MT_QRect; MT_QRectF;
   MT_QMargins; MT_QMarginsF; MT_QLine; MT_QLineF; MT_QByteArray].

(** Documented behaviour of the library. A QVariant conversion that succeeds
    gives a value of the requested type, and [QVariant(type)] is of that type or
    invalid; [QString::arg] only replaces place markers; base64 and Latin-1 read
    back what they wrote. *)
Class QtLibLaws {T : QtTypes} (QB : QtLib) := {
  law_convert : forall v t v', q_convert v t = (true, v') -> v_type v' = t;
  law_default : forall t, v_type (q_default_variant t) = t \/ q_default_variant t = VInvalid;
  law_arg_first : forall c fmt a, c <> "%"%char -> exists rest, q_arg (String c fmt) a = String c rest;
  law_arg2 : forall c fmt a b, c <> "%"%char -> q_arg2 (String c fmt) a b <> estr;
  law_latin1 : forall bytes, q_to_latin1 (q_from_latin1 bytes) = bytes;
  law_base64 : forall bytes, q_from_base64 (q_to_base64 bytes) = Some bytes;
  law_plain : forall t, t ∈ plain_types -> q_is_gadget t = false;
}.

Abbreviation thread := Z (only parsing).

(** An argument of a call in a generated shard, by the type of the local
    variable that holds it. [CVariant] is the value of a converted QVariant. *)
Inductive cxx_value `{QtTypes} : Type :=
  | CBool (b : bool)
  | CInt (z : Z)
  | CUInt (z : Z)
  | CDouble (d : double)
  | CFloat (d : double)
  | CString (s : string)
  | CVariant (v : qvariant)
  | CList (l : list qvariant)
  | CMap (m : list (string * qvariant)).

(** What a call in a generated shard returns. *)
Definition item_result `{QtTypes} (i : item) : Type :=
  match i with IObject _ => option ptr | _ => qvariant end.

Definition cxx_result `{QtTypes} (r : result) : Type :=
  match r with
  | RVoid => unit
  | RBool => bool
  | RDouble => double
  | RString => string
  | RVariant | RMeta _ | RValue _ => qvariant
  | RObject => option ptr
  | RList i => list (item_result i)
  | RMap _ _ => list (string * qvariant)
  end.

(** The objects among the results. *)
Definition item_object `{QtTypes} (i : item) : item_result i -> option ptr :=
  match i return item_result i -> option ptr with
  | IObject _ => fun p => p
  | _ => fun _ => None
  end.

Definition result_objects `{QtTypes} (r : result) : cxx_result r -> list ptr :=
  match r return cxx_result r -> list ptr with
  | RObject => fun p => option_list p
  | RList i => fun l => omap (item_object i) l
  | _ => fun _ => []
  end.

(** An argument of a [new] expression. *)
Inductive cxx_arg `{QtTypes} : Type :=
  | AText (s : string)
  | AInt (z : Z)
  | AEnumerator (name : string)
  | AObject (p : option ptr)
  | AByteArray (bytes : string)
  | AValue (v : cxx_value).

(** Calls into Qt that may change its state or raise an exception, indexed by
    the type of their result. *)
Inductive native `{QtTypes} : Type -> Type :=
  (* the application and its event loop *)
  | CreateApplication : native unit
  | ProcessEvents : native unit
  | EventLoopWait (milliseconds : Z) : native unit
  (* construction and ownership *)
  | QNew (class_name : string) (args : list cxx_arg) : native ptr
  | NewInstance (m : metaobject) (args : list qvariant) : native (option ptr)
  | QObject_setParent (object parent : ptr) : native unit
  | QWidget_setParent (widget parent : ptr) : native unit
  | QWindow_setParent (window parent : ptr) : native unit
  | QNode_setParent (node parent : ptr) : native unit
  | QWidget_setLayout (widget layout : ptr) : native unit
  (* reflection *)
  | Invoke (m : metamethod) (object : ptr) (args : list qvariant) : native (bool * qvariant)
  | InvokeOnGadget (m : metamethod) (gadget : qvariant) (args : list qvariant) :
      native (qvariant * reply (bool * qvariant))
  | ReadProperty (object : ptr) (p : metaproperty) : native qvariant
  | WriteProperty (object : ptr) (p : metaproperty) (v : qvariant) : native bool
  | ReadGadget (gadget : qvariant) (p : metaproperty) : native qvariant
  | WriteGadget (gadget : qvariant) (p : metaproperty) (v : qvariant) : native (qvariant * bool)
  | QObject_property (object : ptr) (key : string) : native qvariant
  | QObject_setProperty (object : ptr) (key : string) (v : qvariant) : native unit
  (* signal spies *)
  | NewSpy (object : ptr) (signal : metamethod) : native positive
  | SpyTakeFirst (spy : positive) : native (list qvariant)
  (* QWidget *)
  | QWidget_move (w : ptr) (x y : Z) : native unit
  | QWidget_resize (w : ptr) (width height : Z) : native unit
  | QWidget_setGeometry (w : ptr) (x y width height : Z) : native unit
  | QWidget_setMinimumSize (w : ptr) (width height : Z) : native unit
  | QWidget_setMaximumSize (w : ptr) (width height : Z) : native unit
  | QWidget_setFixedSize (w : ptr) (width height : Z) : native unit
  | QWidget_width (w : ptr) : native Z
  | QWidget_height (w : ptr) : native Z
  | QWidget_size (w : ptr) : native (Z * Z)
  | QWidget_pos (w : ptr) : native (Z * Z)
  | QWidget_geometry (w : ptr) : native (Z * Z * Z * Z)
  | QWidget_frameGeometry (w : ptr) : native (Z * Z * Z * Z)
  | QWidget_frameSize (w : ptr) : native (Z * Z)
  | QWidget_minimumSize (w : ptr) : native (Z * Z)
  | QWidget_maximumSize (w : ptr) : native (Z * Z)
  | QWidget_contentsRect (w : ptr) : native (Z * Z * Z * Z)
  | QWidget_window (w : ptr) : native (option ptr)
  (* QAxBase, QAxObject and QAxWidget *)
  | QAx_control (a : ptr) : native string
  | QAx_isNull (a : ptr) : native bool
  | QAx_setControl (a : ptr) (s : string) : native bool
  | QAx_clear (a : ptr) : native unit
  | QAx_classContext (a : ptr) : native Z
  | QAx_setClassContext (a : ptr) (context : Z) : native unit
  | QAx_verbs (a : ptr) : native (list string)
  | QAx_propertyBag (a : ptr) : native (list (string * qvariant))
  | QAx_setPropertyBag (a : ptr) (bag : list (string * qvariant)) : native unit
  | QAx_dynamicCall (a : ptr) (method : string) (args : option (list qvariant)) : native qvariant
  | QAx_querySubObject (a : ptr) (method : string) (args : option (list qvariant)) : native (option ptr)
  | QAx_propertyWritable (a : ptr) (name : string) : native bool
  | QAx_setPropertyWritable (a : ptr) (name : string) (writable : bool) : native unit
  | QAx_asVariant (a : ptr) : native qvariant
  | QAx_generateDocumentation (a : ptr) : native string
  | QAxObject_doVerb (a : ptr) (verb : string) : native bool
  | QAxObject_resetControl (a : ptr) : native unit
  | QAxWidget_doVerb (a : ptr) (verb : string) : native bool
  | QAxWidget_resetControl (a : ptr) : native unit
  (* network *)
  | QNetworkAccessManager_get (m : ptr) (r : qnetworkrequest) : native (option ptr)
  | QNetworkAccessManager_head (m : ptr) (r : qnetworkrequest) : native (option ptr)
  | QNetworkAccessManager_deleteResource (m : ptr) (r : qnetworkrequest) : native (option ptr)
  | QNetworkAccessManager_post (m : ptr) (r : qnetworkrequest) (data : string) : native (option ptr)
  | QNetworkAccessManager_put (m : ptr) (r : qnetworkrequest) (data : string) : native (option ptr)
  | QNetworkReply_errorString (r : ptr) : native string
  | QNetworkReply_attribute (r : ptr) (attribute : Z) : native qvariant
  | QTcpServer_listen (s : ptr) (address : qhostaddress) (port : Z) : native bool
  | QTcpServer_errorString (s : ptr) : native string
  | QTcpServer_serverPort (s : ptr) : native Z
  | QTcpServer_close (s : ptr) : native unit
  (* QIODevice *)
  | QIODevice_open (d : ptr) (mode : Z) : native bool
  | QIODevice_errorString (d : ptr) : native string
  | QIODevice_close (d : ptr) : native unit
  | QIODevice_isOpen (d : ptr) : native bool
  | QIODevice_isReadable (d : ptr) : native bool
  | QIODevice_isWritable (d : ptr) : native bool
  | QIODevice_atEnd (d : ptr) : native bool
  | QIODevice_readAll (d : ptr) : native string
  | QIODevice_readLine (d : ptr) : native string
  | QIODevice_write (d : ptr) (bytes : string) : native Z
  | QIODevice_pos (d : ptr) : native Z
  | QIODevice_size (d : ptr) : native Z
  | QIODevice_seek (d : ptr) (position : Z) : native bool
  (* QSettings, QFileSystemWatcher, QProcess *)
  | QSettings_value (s : ptr) (key : string) : native qvariant
  | QSettings_setValue (s : ptr) (key : string) (v : qvariant) : native unit
  | QSettings_contains (s : ptr) (key : string) : native bool
  | QSettings_remove (s : ptr) (key : string) : native unit
  | QSettings_allKeys (s : ptr) : native (list string)
  | QSettings_sync (s : ptr) : native unit
  | QSettings_statusNoError (s : ptr) : native bool
  | QFileSystemWatcher_addPath (f : ptr) (path : string) : native bool
  | QFileSystemWatcher_removePath (f : ptr) (path : string) : native bool
  | QFileSystemWatcher_files (f : ptr) : native (list string)
  | QFileSystemWatcher_directories (f : ptr) : native (list string)
  | QProcess_readAllStandardOutput (p : ptr) : native string
  | QProcess_readAllStandardError (p : ptr) : native string
  | QProcess_exitCode (p : ptr) : native Z
  (* windows, layouts and containers *)
  | QMainWindow_setMenuBar (w menu_bar : ptr) : native unit
  | QMainWindow_addToolBar (w toolbar : ptr) : native unit
  | QMainWindow_addDockWidget (w : ptr) (area : Z) (dock : ptr) : native unit
  | QMainWindow_setCentralWidget (w child : ptr) : native unit
  | QLayout_setSpacing (l : ptr) (spacing : Z) : native unit
  | QLayout_setContentsMargins (l : ptr) (left top right bottom : Z) : native unit
  | QLayout_addWidget (l child : ptr) : native unit
  | QBoxLayout_addLayout (l child : ptr) : native unit
  | QGridLayout_addWidget (g child : ptr) (row column : Z) : native unit
  | QGridLayout_addWidgetSpan (g child : ptr) (row column row_span column_span : Z) : native unit
  | QFormLayout_addRowText (f : ptr) (label : string) (field : ptr) : native unit
  | QFormLayout_addRow (f label field : ptr) : native unit
  | QStackedWidget_addWidget (s child : ptr) : native Z
  | QSplitter_addWidget (s child : ptr) : native unit
  | QScrollArea_setWidget (s child : ptr) : native unit
  | QTabWidget_addTab (t child : ptr) (label : string) : native Z
  | QTabBar_addTab (t : ptr) (label : string) : native Z
  | QGraphicsScene_addWidget (s child : ptr) : native (option ptr)
  | QGraphicsView_setScene (v scene : ptr) : native unit
  | QTextEdit_setDocument (e document : ptr) : native unit
  | QUndoView_setStack (v stack : ptr) : native unit
  | QUndoView_setGroup (v group : ptr) : native unit
  | QWizard_addPage (w page : ptr) : native Z
  | QButtonGroup_addButton (g button : ptr) (id : Z) : native unit
  (* item widgets; items are not QObjects *)
  | QComboBox_addItem (c : ptr) (text : string) : native unit
  | QListWidget_addItem (l : ptr) (text : string) : native unit
  | QListWidget_count (l : ptr) : native Z
  | QListWidget_itemText (l : ptr) (row : Z) : native string
  | QTableWidget_rowCount (t : ptr) : native Z
  | QTableWidget_columnCount (t : ptr) : native Z
  | QTableWidget_item (t : ptr) (row column : Z) : native (option string)
  | QTableWidget_setItem (t : ptr) (row column : Z) (text : string) : native unit
  | QTableWidget_setItemText (t : ptr) (row column : Z) (text : string) : native unit
  | QTreeWidget_addTopLevelItem (t : ptr) (text : string) : native Z
  | QTreeWidget_indexOfTopLevelItem (t : ptr) (item : Z) : native Z
  | QTreeWidget_topLevelItemCount (t : ptr) : native Z
  | QTreeWidget_topLevelItemText (t : ptr) (row : Z) : native string
  (* menus and toolbars *)
  | QMenu_addActionText (m : ptr) (text : string) : native (option ptr)
  | QMenu_addAction (m action : ptr) : native unit
  | QMenuBar_addMenu (b menu : ptr) : native (option ptr)
  | QMenuBar_addMenuText (b : ptr) (title : string) : native (option ptr)
  | QToolBar_addActionText (t : ptr) (text : string) : native (option ptr)
  | QToolBar_addAction (t action : ptr) : native unit
  (* the calls of the generated shards, by class and name of the method *)
  | CxxMethod (c f : string) (object : ptr) (args : list cxx_value) (r : result) :
      native (cxx_result r)
  | CxxStatic (c f : string) (args : list cxx_value) (r : result) : native (cxx_result r)
  | CxxValueMethod (c f : string) (v : qvariant) (args : list cxx_value) (r : result) :
      native (qvariant * reply (cxx_result r))
  | CxxValue (c : string) (args : list cxx_value) : native qvariant.

(** The objects a call returns, for the calls whose results the bridge registers. *)
Definition result_ptrs `{QtTypes} {A : Type} (n : native A) : A -> list ptr :=
  match n in native B return B -> list ptr with
  | QWidget_window _ => fun p => option_list p
  | QAx_querySubObject _ _ _ => fun p => option_list p
  | QNetworkAccessManager_get _ _ => fun p => option_list p
  | QNetworkAccessManager_head _ _ => fun p => option_list p
  | QNetworkAccessManager_deleteResource _ _ => fun p => option_list p
  | QNetworkAccessManager_post _ _ _ => fun p => option_list p
  | QNetworkAccessManager_put _ _ _ => fun p => option_list p
  | QGraphicsScene_addWidget _ _ => fun p => option_list p
  | QMenu_addActionText _ _ => fun p => option_list p
  | QMenuBar_addMenu _ _ => fun p => option_list p
  | QMenuBar_addMenuText _ _ => fun p => option_list p
  | QToolBar_addActionText _ _ => fun p => option_list p
  | CxxMethod _ _ _ _ r => fun a => result_objects r a
  | CxxStatic _ _ _ r => fun a => result_objects r a
  | CxxValueMethod _ _ _ _ r => fun a =>
      match a.2 with Replied x => result_objects r x | Raised _ => [] end
  | _ => fun _ => []
  end.

Definition returns_handle `{QtTypes} (n : native (option ptr)) : Prop :=
  forall p, result_ptrs n p = option_list p.

(** A running Qt: the state behind the objects, what the bridge reads of it,
    and what a native call does to it. Destructors do not throw, so deletion
    is a function of the world. *)
Class QtWorld {T : QtTypes} := {
  world : Type;
  w_alive : world -> ptr -> bool;               (* !QPointer::isNull() *)
  w_parent : world -> ptr -> option ptr;
  w_depth : world -> ptr -> nat;                (* number of ancestors *)
  w_is_a : world -> string -> ptr -> bool;      (* dynamic_cast and qobject_cast<C *>(p) != nullptr *)
  w_cast : world -> metaobject -> ptr -> bool;  (* m->cast(p) != nullptr *)
  w_meta : world -> ptr -> metaobject;
  w_object_name : world -> ptr -> string;
  w_layout : world -> ptr -> option ptr;        (* widget->layout() *)
  w_dynamic_property_names : world -> ptr -> list string;
  w_core_application : world -> bool;           (* QCoreApplication::instance() *)
  w_spy_valid : world -> positive -> bool;
  w_spy_queue : world -> positive -> list (list qvariant);
  w_image_load : world -> string -> option qimage;
  w_native : forall {A : Type}, native A -> world -> reply A * world;
  w_delete : ptr -> world -> world;
  w_destroy_application : world -> world;
}.

(** [d] is below [a] in the object tree. *)
Definition w_below `{QtWorld} (w : world) : relation ptr := fun d a => w_parent w d = Some a.

(** Documented behaviour of the object tree and of object lifetimes.
    [w_born] is the set of objects constructed so far. *)
Class QtLaws {T : QtTypes} (QW : QtWorld) := {
  w_born : world -> ptr -> Prop;
  law_depth : forall w p q, w_parent w p = Some q -> (w_depth w q < w_depth w p)%nat;
  law_alive_born : forall w p, w_alive w p = true -> w_born w p;
  law_native_born : forall A (n : native A) w p,
    w_born w p -> w_born (w_native n w).2 p;
  law_native_dead : forall A (n : native A) w p,
    w_born w p -> w_alive w p = false -> w_alive (w_native n w).2 p = false;
  law_new_fresh : forall c args w p,
    (w_native (QNew c args) w).1 = Replied p ->
    ~ w_born w p /\ w_born (w_native (QNew c args) w).2 p /\
    w_alive (w_native (QNew c args) w).2 p = true;
  law_instance_fresh : forall m args w p,
    (w_native (NewInstance m args) w).1 = Replied (Some p) ->
    ~ w_born w p /\ w_born (w_native (NewInstance m args) w).2 p;
  law_result_born : forall A (n : native A) w a p,
    (w_native n w).1 = Replied a -> p ∈ result_ptrs n a -> w_born (w_native n w).2 p;
  law_gadget_invoke : forall m v args w v' r,
    (w_native (InvokeOnGadget m v args) w).1 = Replied (v', r) -> v_type v' = v_type v;
  law_gadget_write : forall v p x w v' ok,
    (w_native (WriteGadget v p x) w).1 = Replied (v', ok) -> v_type v' = v_type v;
  law_value_method : forall c f v args r w v' x,
    (w_native (CxxValueMethod c f v args r) w).1 = Replied (v', x) -> v_type v' = v_type v;
  law_delete_born : forall o w p, w_born w p -> w_born (w_delete o w) p;
  law_delete_dead : forall o w p,
    w_born w p -> w_alive w p = false -> w_alive (w_delete o w) p = false;
  law_delete_self : forall o w, w_alive (w_delete o w) o = false;
  law_delete_descendant : forall o w p,
    tc (w_below w) p o -> w_alive (w_delete o w) p = false;
  law_destroy_born : forall w p, w_born w p -> w_born (w_destroy_application w) p;
  law_destroy_dead : forall w p,
    w_born w p -> w_alive w p = false -> w_alive (w_destroy_application w) p = false;
  law_take_first : forall spy w,
    match w_spy_queue w spy with
    | e :: rest =>
        (w_native (SpyTakeFirst spy) w).1 = Replied e /\
        w_spy_queue (w_native (SpyTakeFirst spy) w).2 spy = rest /\
        (forall other, other <> spy ->
           w_spy_queue (w_native (SpyTakeFirst spy) w).2 other = w_spy_queue w other) /\
        (forall p, w_alive (w_native (SpyTakeFirst spy) w).2 p = w_alive w p) /\
        (forall other, w_spy_valid (w_native (SpyTakeFirst spy) w).2 other = w_spy_valid w other) /\
        w_core_application (w_native (SpyTakeFirst spy) w).2 = w_core_application w
    | [] => True
    end;
}.
