(* ===== verification/State.v ===== *)
(** The state of qt6_bridge.cpp, the monad its functions run in, and the
    handle tables (the functions from [success] to [objectArgument]). *)
From S2P Require Export Qt.

(** * Definitions *)

(** ** Ordered iteration

    [std::map] iterates in the order of its keys. *)
Definition entry_le {A : Type} : relation (Z * A) := fun a b => a.1 <= b.1.

#[export] Instance entry_le_dec {A : Type} : RelDecision (@entry_le A).
Proof. intros a b. unfold entry_le. apply _. Defined.

Definition map_entries {A : Type} (m : gmap Z A) : list (Z * A) :=
  merge_sort entry_le (map_to_list m).

(** ** Limits *)
Definition kMaxRequestBytes : Z := 16 * 1024 * 1024.
Definition kMaxResponseBytes : Z := 16 * 1024 * 1024.
Definition kMaxInvocationArguments : Z := 10.
Definition kMaxEventsPerPoll : Z := 1000.
Definition kMaxWaitMilliseconds : Z := 30000.

(** ** The globals of the bridge *)
Record subscription : Type := Subscription {
  sub_object_id : Z;
  sub_signature : string;
  sub_spy : positive;
}.

(** The counter is a qint64 in the source: it would overflow after 2^63 - 1 handles,
    which no session gives out, and is an unbounded integer here. *)
Record bridge `{QtTypes} : Type := Bridge {
  application : bool;
  application_thread : option thread;
  objects : gmap Z ptr;
  values : gmap Z qvariant;
  subscriptions : gmap Z (list subscription);
  next_object_id : Z;
}.

Definition initial_bridge `{QtTypes} : bridge :=
  {| application := false; application_thread := None; objects := ∅; values := ∅;
     subscriptions := ∅; next_object_id := 1 |}.

Record state `{QtWorld} : Type := State {
  st_bridge : bridge;
  st_world : world;
}.

Section Setters.
Context `{QtTypes}.

Definition set_application (b : bool) (s : bridge) : bridge :=
  {| application := b; application_thread := application_thread s; objects := objects s;
     values := values s; subscriptions := subscriptions s; next_object_id := next_object_id s |}.
Definition set_application_thread (t : option thread) (s : bridge) : bridge :=
  {| application := application s; application_thread := t; objects := objects s;
     values := values s; subscriptions := subscriptions s; next_object_id := next_object_id s |}.
Definition set_objects (m : gmap Z ptr) (s : bridge) : bridge :=
  {| application := application s; application_thread := application_thread s; objects := m;
     values := values s; subscriptions := subscriptions s; next_object_id := next_object_id s |}.
Definition set_values (m : gmap Z qvariant) (s : bridge) : bridge :=
  {| application := application s; application_thread := application_thread s; objects := objects s;
     values := m; subscriptions := subscriptions s; next_object_id := next_object_id s |}.
Definition set_subscriptions (m : gmap Z (list subscription)) (s : bridge) : bridge :=
  {| application := application s; application_thread := application_thread s; objects := objects s;
     values := values s; subscriptions := m; next_object_id := next_object_id s |}.
Definition set_next_object_id (n : Z) (s : bridge) : bridge :=
  {| application := application s; application_thread := application_thread s; objects := objects s;
     values := values s; subscriptions := subscriptions s; next_object_id := n |}.

End Setters.

(** ** The monad: state and exceptions *)
Definition M `{QtWorld} (A : Type) : Type := state -> outcome A * state.

Section Monad.
Context `{QW : QtWorld}.

Definition ret {A : Type} (a : A) : M A := fun s => (Done a, s).

Definition bind {A B : Type} (m : M A) (k : A -> M B) : M B := fun s =>
  match m s with
  | (Done a, s') => k a s'
  | (Threw what, s') => (Threw what, s')
  | (Crashed u, s') => (Crashed u, s')
  end.

Definition crash {A : Type} (u : ub) : M A := fun s => (Crashed u, s).

Definition get_state : M state := fun s => (Done s, s).

Definition update_bridge (f : bridge -> bridge) : M unit := fun s =>
  (Done tt, State _ _ (f (st_bridge s)) (st_world s)).

Definition update_world (f : world -> world) : M unit := fun s =>
  (Done tt, State _ _ (st_bridge s) (f (st_world s))).

(** A call into Qt. *)
Definition call {A : Type} (n : native A) : M A := fun s =>
  let '(r, w) := w_native n (st_world s) in
  let s' := State _ _ (st_bridge s) w in
  match r with
  | Replied a => (Done a, s')
  | Raised what => (Threw what, s')
  end.

(** An outcome obtained earlier. *)
Definition resume {A : Type} (r : reply A) : M A := fun s =>
  match r with
  | Replied a => (Done a, s)
  | Raised what => (Threw what, s)
  end.

End Monad.

Notation "'let!' x ':=' m 'in' k" := (bind m (fun x => k))
  (at level 10, x pattern, m at level 200, k at level 200) : kry_scope.

Section Handles.
Context `{QW : QtWorld}.

(** ** Reading the tables *)

(** [QPointer::data()]: null once the object is destroyed. *)
Definition guarded (w : world) (p : ptr) : option ptr :=
  if w_alive w p then Some p else None.

Definition objectForId (s : state) (id : Z) : option ptr :=
  match objects (st_bridge s) !! id with
  | None => None
  | Some p => guarded (st_world s) p
  end.

Fixpoint find_id (w : world) (object : option ptr) (l : list (Z * ptr)) : Z :=
  match l with
  | [] => 0
  | (id, p) :: l' => if bool_decide (guarded w p = object) then id else find_id w object l'
  end.

Definition idForObject (s : state) (object : option ptr) : Z :=
  find_id (st_world s) object (map_entries (objects (st_bridge s))).

Definition valueForId (s : state) (id : Z) : option qvariant := values (st_bridge s) !! id.

(** ** Registration *)

(** [nextObjectId++]. *)
Definition fresh_id : M Z :=
  let! s := get_state in
  let id := next_object_id (st_bridge s) in
  let! _ := update_bridge (set_next_object_id (id + 1)) in
  ret id.

(** [objects.emplace(id, p)]: an existing entry is kept. *)
Definition emplace_object (id : Z) (p : ptr) : M unit :=
  update_bridge (fun b =>
    match objects b !! id with
    | Some _ => b
    | None => set_objects (<[id := p]> (objects b)) b
    end).

Definition emplace_value (id : Z) (v : qvariant) : M unit :=
  update_bridge (fun b =>
    match values b !! id with
    | Some _ => b
    | None => set_values (<[id := v]> (values b)) b
    end).

Definition registerObject (object : option ptr) : M Z :=
  match object with
  | None => ret 0
  | Some p =>
      let! s := get_state in
      let existing := idForObject s (Some p) in
      if negb (existing =? 0) then ret existing
      else
        let! id := fresh_id in
        let! _ := emplace_object id p in
        ret id
  end.

Definition registerValue (value : qvariant) : M Z :=
  if negb (v_valid value) then ret 0
  else
    let! id := fresh_id in
    let! _ := emplace_value id value in
    ret id.

Definition objectHandleValue (object : option ptr) : M json :=
  let! id := registerObject object in
  ret (make_object [("object_id"%string, JDouble (double_of_Z id))]).

(** ** The object tree *)

(** The loop over the parents of an object, stopped after [fuel] of them. *)
Fixpoint ancestor_walk (fuel : nat) (w : world) (parent : option ptr) (ancestor : ptr) : bool :=
  match parent with
  | None => false
  | Some q =>
      if bool_decide (q = ancestor) then true
      else match fuel with
           | O => false
           | S fuel' => ancestor_walk fuel' w (w_parent w q) ancestor
           end
  end.

Definition isDescendantOf (w : world) (candidate : option ptr) (ancestor : ptr) : bool :=
  match candidate with
  | None => false
  | Some c => ancestor_walk (w_depth w c) w (w_parent w c) ancestor
  end.

(** ** Handles in requests *)

Definition parseObjectId (value : json) : res Z :=
  match value with
  | JDouble raw =>
      if negb (int_in_range 1 maximum_exact raw)
      then Err "object_id is outside the supported range"
      else Ok (trunc_Z raw)
  | _ => Err "object_id must be an integer handle"
  end.

Definition objectArgument (s : state) (arguments : list json) (index : Z) : res ptr :=
  let argument := arr_at (Z.to_nat index) arguments in
  if (index <? 0) || (arr_size arguments <=? index) || negb (is_object argument)
  then Err ("Qt object arguments must be {" ++ dquote ++ "object_id" ++ dquote ++ ": handle}")%string
  else
    let? id := parseObjectId (obj_value "object_id" (to_object argument)) in
    match objectForId s id with
    | None => Err "Qt object handle is closed or unknown"
    | Some p => Ok p
    end.

End Handles.
