(* ===== verification/Invariant.v ===== *)
(** The invariant of the bridge state, a Hoare logic for the monad in which
    every operation is shown to keep it, and the correctness of the handle
    tables. *)
From S2P Require Export State.

(** * Definitions *)

(** What is remembered of the state before a request: the identifiers given out,
    to state that handles are never given out twice, and the entries that the
    request must leave as they are; for the table of subscriptions, also the
    identifiers that must stay without an entry. *)
Record past `{QtTypes} : Type := Past {
  past_next : Z;
  past_objects : gmap Z ptr;
  past_values : gset Z;
  past_thread : thread;
  kept_objects : gmap Z ptr;
  kept_values : gmap Z qvariant;
  kept_subscriptions : Z -> option (option (list subscription));
}.

Section Invariant.
Context {T : QtTypes} {QW : QtWorld} {QL : QtLaws QW}.

(** The tables are well formed, whatever the application does. *)
Record tables_ok (s : state) : Prop := TablesOk {
  ok_next : 1 <= next_object_id (st_bridge s);
  ok_objects : forall id p, objects (st_bridge s) !! id = Some p ->
    1 <= id < next_object_id (st_bridge s);
  ok_values : forall id v, values (st_bridge s) !! id = Some v ->
    1 <= id < next_object_id (st_bridge s);
  ok_disjoint : forall id p, objects (st_bridge s) !! id = Some p -> values (st_bridge s) !! id = None;
  ok_valid : forall id v, values (st_bridge s) !! id = Some v -> v_valid v = true;
  ok_subscribed : forall id l, subscriptions (st_bridge s) !! id = Some l ->
    is_Some (objects (st_bridge s) !! id);
  ok_subscription_id : forall id l, subscriptions (st_bridge s) !! id = Some l ->
    Forall (fun x => sub_object_id x = id) l;
  ok_born : forall id p, objects (st_bridge s) !! id = Some p -> w_born (st_world s) p;
  ok_unique : forall i j p, w_alive (st_world s) p = true ->
    objects (st_bridge s) !! i = Some p -> objects (st_bridge s) !! j = Some p -> i = j;
}.

(** The identifiers below [past_next] still mean what they meant, or nothing;
    the kept entries are there. *)
Record since (g : past) (s : state) : Prop := Since {
  since_next : past_next g <= next_object_id (st_bridge s);
  since_objects : forall id p, id < past_next g -> objects (st_bridge s) !! id = Some p ->
    past_objects g !! id = Some p;
  since_values : forall id v, id < past_next g -> values (st_bridge s) !! id = Some v ->
    id ∈ past_values g;
  since_kept_objects : forall id p, kept_objects g !! id = Some p ->
    objects (st_bridge s) !! id = Some p;
  since_kept_values : forall id v, kept_values g !! id = Some v ->
    values (st_bridge s) !! id = Some v;
  since_kept_subscriptions : forall id entry, kept_subscriptions g id = Some entry ->
    subscriptions (st_bridge s) !! id = entry;
}.

(** The state while a request runs on the application thread. *)
Definition live (g : past) (s : state) : Prop :=
  tables_ok s /\ since g s /\ application (st_bridge s) = true /\
  application_thread (st_bridge s) = Some (past_thread g).

(** The state between requests: before the application starts and after it is
    shut down all tables are empty. *)
Definition idle (s : state) : Prop :=
  objects (st_bridge s) = ∅ /\ values (st_bridge s) = ∅ /\ subscriptions (st_bridge s) = ∅ /\
  application_thread (st_bridge s) = None.

Definition bridge_ok (s : state) : Prop :=
  tables_ok s /\
  if application (st_bridge s) then is_Some (application_thread (st_bridge s)) else idle s.

(** [hoare I P m Q]: from [P], [m] ends in [Q], or raises an exception in a
    state of [I]; its only undefined behaviour is [DanglingVariant]. *)
Definition hoare {A : Type} (I : state -> Prop) (P : state -> Prop) (m : M A)
    (Q : A -> state -> Prop) : Prop :=
  forall s, P s ->
  match m s with
  | (Done a, s') => Q a s'
  | (Threw _, s') => I s'
  | (Crashed u, _) => u = DanglingVariant
  end.

(** [m] keeps the invariant of a running request. *)
Definition keeps {A : Type} (m : M A) : Prop :=
  forall g, hoare (live g) (live g) m (fun _ => live g).

(** [p] was made by this request and has no handle yet. *)
Definition unregistered (p : ptr) (s : state) : Prop :=
  w_born (st_world s) p /\ forall id, objects (st_bridge s) !! id <> Some p.

(** [m] keeps the invariant, and the object it returns is new. *)
Definition keeps_new (m : M (option ptr * string)) : Prop :=
  forall g, hoare (live g) (live g) m (fun r s =>
    live g s /\ forall p, r.1 = Some p -> unregistered p s).

(** ** Rules *)

Lemma hoare_weaken {A} I (P P' : state -> Prop) (m : M A) (Q Q' : A -> state -> Prop) :
  hoare I P' m Q' -> (forall s, P s -> P' s) -> (forall a s, Q' a s -> Q a s) -> hoare I P m Q.
Proof.
  intros H HP HQ s Hs. specialize (H s (HP s Hs)). destruct (m s) as [[a|w|u] s']; auto.
Qed.

Lemma hoare_pre {A} I (P P' : state -> Prop) (m : M A) (Q : A -> state -> Prop) :
  hoare I P' m Q -> (forall s, P s -> P' s) -> hoare I P m Q.
Proof. intros H HP. by eapply hoare_weaken. Qed.

Lemma hoare_ret {A} I (a : A) (Q : A -> state -> Prop) : hoare I (Q a) (ret a) Q.
Proof. by intros s. Qed.

Lemma hoare_bind {A B} I P (m : M A) (k : A -> M B) R Q :
  hoare I P m R -> (forall a, hoare I (R a) (k a) Q) -> hoare I P (bind m k) Q.
Proof.
  intros Hm Hk s Hs. specialize (Hm s Hs). unfold bind.
  destruct (m s) as [[a|w|u] s']; [by apply Hk|done|done].
Qed.

Lemma hoare_get_state I (P : state -> Prop) : hoare I P get_state (fun s' s => s' = s /\ P s).
Proof. by intros s. Qed.

(** Reading the state: the continuation is verified for the state read. *)
Lemma hoare_with_state {B} I (P : state -> Prop) (k : state -> M B) Q :
  (forall s0, P s0 -> hoare I (fun s => s = s0) (k s0) Q) ->
  hoare I P (bind get_state k) Q.
Proof. intros H s Hs. exact (H s Hs s eq_refl). Qed.

Lemma keeps_with_state {B} (k : state -> M B) :
  (forall s, keeps (k s)) -> keeps (bind get_state k).
Proof. intros H g s Hs. exact (H s g s Hs). Qed.

Lemma keeps_ret {A} (a : A) : keeps (ret a).
Proof. by intros g s. Qed.

Lemma keeps_bind {A B} (m : M A) (k : A -> M B) :
  keeps m -> (forall a, keeps (k a)) -> keeps (bind m k).
Proof. intros Hm Hk g. eapply hoare_bind; [apply Hm|intros a; apply Hk]. Qed.

Lemma keeps_resume {A} (r : reply A) : keeps (resume r).
Proof. intros g s Hs. by destruct r. Qed.

(** The invariant depends on the world only through births and deaths. *)
Lemma live_world g b w w' :
  (forall p, w_born w p -> w_born w' p) ->
  (forall p, w_born w p -> w_alive w p = false -> w_alive w' p = false) ->
  live g (State _ _ b w) -> live g (State _ _ b w').
Proof.
  intros Hb Hd ([] & [] & Happ & Hth). split_and!; try done; split; simpl in *; try done.
  - intros id p Hp. eauto.
  - intros i j p Ha Hi Hj. apply (ok_unique0 i j p); [|done|done].
    destruct (w_alive w p) eqn:E; [done|]. rewrite (Hd p) in Ha; eauto.
Qed.

Lemma live_native {A} g (n : native A) b w :
  live g (State _ _ b w) -> live g (State _ _ b (w_native n w).2).
Proof. apply live_world; intros p; [apply law_native_born|apply law_native_dead]. Qed.

Lemma hoare_call {A} (n : native A) g :
  hoare (live g) (live g) (call n) (fun a s =>
    live g s /\ exists w, w_native n w = (Replied a, st_world s) /\
      tables_ok (State _ _ (st_bridge s) w)).
Proof.
  intros [b w] Hs. unfold call. simpl. pose proof (live_native g n b w Hs) as Hl.
  destruct (w_native n w) as [[a|what] w'] eqn:E; [|done].
  split; [done|]. exists w. split; [done|apply Hs].
Qed.

Lemma keeps_call {A} (n : native A) : keeps (call n).
Proof. intros g. eapply hoare_weaken; [apply hoare_call|done|by intros a s [? _]]. Qed.

(** A fresh object has no handle. *)
Lemma hoare_new c args g :
  hoare (live g) (live g) (call (QNew c args)) (fun p s => live g s /\ unregistered p s).
Proof.
  eapply hoare_weaken; [apply hoare_call|done|]. simpl. intros p s [Hl (w & E & Hok)].
  split; [done|]. pose proof (law_new_fresh c args w p) as H. rewrite E in H.
  destruct H as (Hn & Hb & _); [done|]. split; [done|]. intros id Hid.
  apply Hn. exact (ok_born _ Hok id p Hid).
Qed.

Lemma hoare_new_instance m args g :
  hoare (live g) (live g) (call (NewInstance m args)) (fun r s =>
    live g s /\ forall p, r = Some p -> unregistered p s).
Proof.
  eapply hoare_weaken; [apply hoare_call|done|]. simpl. intros r s [Hl (w & E & Hok)].
  split; [done|]. intros p ->. pose proof (law_instance_fresh m args w p) as H. rewrite E in H.
  destruct H as [Hn Hb]; [done|]. split; [done|]. intros id Hid.
  apply Hn. exact (ok_born _ Hok id p Hid).
Qed.

(** Objects stay without a handle while only Qt runs. *)
Lemma hoare_call_frame {A} (n : native A) p g :
  hoare (live g) (fun s => live g s /\ unregistered p s) (call n)
    (fun _ s => live g s /\ unregistered p s).
Proof.
  intros [b w] [Hl [Hb Hu]]. unfold call. simpl in *. pose proof (live_native g n b w Hl) as Hl'.
  pose proof (law_native_born _ n w p Hb) as Hb'.
  by destruct (w_native n w) as [[a|what] w'].
Qed.

Lemma hoare_call_result (n : native (option ptr)) g :
  returns_handle n ->
  hoare (live g) (live g) (call n) (fun r s =>
    live g s /\ forall p, r = Some p -> w_born (st_world s) p).
Proof.
  intros Hn. eapply hoare_weaken; [apply hoare_call|done|]. simpl. intros r s [Hl (w & E & _)].
  split; [done|]. intros p ->. pose proof (law_result_born _ n w (Some p) p) as H. rewrite E in H.
  apply H; [done|]. rewrite Hn. by left.
Qed.

(** ** Registration keeps the invariant *)

Lemma live_fresh_bump g b w :
  live g (State _ _ b w) -> live g (State _ _ (set_next_object_id (next_object_id b + 1) b) w).
Proof.
  intros ([] & [] & Happ & Hth). split_and!; try done; split; simpl in *; try done; try lia.
  - intros id p Hp. specialize (ok_objects0 id p Hp). lia.
  - intros id p Hp. specialize (ok_values0 id p Hp). lia.
Qed.

(** Giving the next identifier to an object without a handle. *)
Lemma live_emplace_object g b w p :
  live g (State _ _ b w) -> w_born w p ->
  (w_alive w p = true -> forall id, objects b !! id <> Some p) ->
  live g (State _ _ (set_objects (<[next_object_id b := p]> (objects b))
                      (set_next_object_id (next_object_id b + 1) b)) w).
Proof.
  intros ([] & [] & Happ & Hth) Hb Hu. split_and!; try done; split; simpl in *; try done; try lia.
  - intros id q [[<- <-]|[Hne Hq]]%lookup_insert_Some; [lia|]. specialize (ok_objects0 id q Hq). lia.
  - intros id v Hv. specialize (ok_values0 id v Hv). lia.
  - intros id q [[<- <-]|[Hne Hq]]%lookup_insert_Some; [|by eapply ok_disjoint0].
    destruct (values b !! next_object_id b) eqn:E; [|done]. specialize (ok_values0 _ _ E). lia.
  - intros id l Hl. rewrite lookup_insert_is_Some. destruct (decide (next_object_id b = id)); eauto.
  - intros id q [[<- <-]|[Hne Hq]]%lookup_insert_Some; eauto.
  - intros i j q Ha [[<- <-]|[Hi Hqi]]%lookup_insert_Some [[<- Hq]|[Hj Hqj]]%lookup_insert_Some; eauto.
    + by destruct (Hu Ha j).
    + subst. by destruct (Hu Ha i).
  - intros id q Hlt [[<- <-]|[Hne Hq]]%lookup_insert_Some; [lia|eauto].
  - intros id q Hq%since_kept_objects0. specialize (ok_objects0 id q Hq).
    by rewrite lookup_insert_ne by lia.
Qed.

Lemma live_emplace_value g b w v :
  live g (State _ _ b w) -> v_valid v = true ->
  live g (State _ _ (set_values (<[next_object_id b := v]> (values b))
                      (set_next_object_id (next_object_id b + 1) b)) w).
Proof.
  intros ([] & [] & Happ & Hth) Hv. split_and!; try done; split; simpl in *; try done; try lia.
  - intros id q Hq. specialize (ok_objects0 id q Hq). lia.
  - intros id u [[<- <-]|[Hne Hu]]%lookup_insert_Some; [lia|]. specialize (ok_values0 id u Hu). lia.
  - intros id q Hq. pose proof (ok_objects0 id q Hq).
    rewrite lookup_insert_ne by lia. by eapply ok_disjoint0.
  - intros id u [[<- <-]|[Hne Hu]]%lookup_insert_Some; eauto.
  - intros id u Hlt [[<- <-]|[Hne Hu]]%lookup_insert_Some; [lia|eauto].
  - intros id u Hu%since_kept_values0. specialize (ok_values0 id u Hu).
    by rewrite lookup_insert_ne by lia.
Qed.

(** ** The ordered entries of a table *)

Lemma elem_of_map_entries {A} (m : gmap Z A) k v : (k, v) ∈ map_entries m <-> m !! k = Some v.
Proof.
  unfold map_entries. rewrite (merge_sort_Permutation entry_le (map_to_list m)).
  apply elem_of_map_to_list.
Qed.

Lemma NoDup_map_entries {A} (m : gmap Z A) : NoDup (map_entries m).*1.
Proof.
  unfold map_entries. rewrite (merge_sort_Permutation entry_le (map_to_list m)).
  apply NoDup_fst_map_to_list.
Qed.

Lemma map_entries_sorted {A} (m : gmap Z A) : Sorted entry_le (map_entries m).
Proof.
  apply Sorted_merge_sort. intros a b. unfold entry_le. lia.
Qed.

(** ** Looking an object up by its address *)

Lemma guarded_Some w p q : guarded w p = Some q <-> p = q /\ w_alive w p = true.
Proof. unfold guarded. destruct (w_alive w p); naive_solver. Qed.

Lemma find_id_found w p l id :
  find_id w (Some p) l = id -> id <> 0 -> (id, p) ∈ l /\ w_alive w p = true.
Proof.
  induction l as [|[k q] l IH]; simpl; [done|]. case_bool_decide as Hg.
  - apply guarded_Some in Hg as [-> Ha]. intros <- Hk. split; [apply list_elem_of_here|done].
  - intros Hf Hid. destruct (IH Hf Hid). split; [by apply list_elem_of_further|done].
Qed.

Lemma find_id_complete w p l id :
  (id, p) ∈ l -> w_alive w p = true -> (forall k q, (k, q) ∈ l -> k <> 0) ->
  find_id w (Some p) l <> 0.
Proof.
  induction l as [|[k q] l IH]; simpl; intros Hin Ha Hk; [by apply not_elem_of_nil in Hin|].
  case_bool_decide as Hg.
  - apply (Hk k q). apply list_elem_of_here.
  - apply elem_of_cons in Hin as [[= -> ->]|Hin].
    + destruct Hg. by apply guarded_Some.
    + apply IH; [done|done|]. intros k' q' H'. eapply Hk. by apply list_elem_of_further.
Qed.

Lemma objectForId_Some s id p :
  objectForId s id = Some p <->
  objects (st_bridge s) !! id = Some p /\ w_alive (st_world s) p = true.
Proof.
  unfold objectForId. destruct (objects (st_bridge s) !! id) as [q|]; [|naive_solver].
  rewrite guarded_Some. naive_solver.
Qed.

Lemma idForObject_found s p :
  idForObject s (Some p) <> 0 -> objectForId s (idForObject s (Some p)) = Some p.
Proof.
  intros H. destruct (find_id_found _ _ _ _ eq_refl H) as [Hin Ha].
  apply elem_of_map_entries in Hin. by apply objectForId_Some.
Qed.

Lemma idForObject_None s p :
  tables_ok s -> idForObject s (Some p) = 0 -> w_alive (st_world s) p = true ->
  forall id, objects (st_bridge s) !! id <> Some p.
Proof.
  intros Hok H0 Ha id Hid. revert H0. unfold idForObject.
  apply (find_id_complete _ _ _ id); [by apply elem_of_map_entries|done|].
  intros k q Hk%elem_of_map_entries. pose proof (ok_objects _ Hok k q Hk). lia.
Qed.

Lemma idForObject_objectForId s id p :
  tables_ok s -> objectForId s id = Some p -> idForObject s (Some p) = id.
Proof.
  intros Hok [Hid Ha]%objectForId_Some.
  assert (idForObject s (Some p) <> 0) as Hne.
  { intros H0. exact (idForObject_None s p Hok H0 Ha id Hid). }
  apply idForObject_found in Hne. apply objectForId_Some in Hne as [H _].
  exact (ok_unique _ Hok _ _ p Ha H Hid).
Qed.

(** ** Registration keeps the invariant *)

Lemma registerObject_Some s p :
  registerObject (Some p) s =
    if negb (idForObject s (Some p) =? 0) then (Done (idForObject s (Some p)), s)
    else let id := next_object_id (st_bridge s) in
         (Done id, State _ _
            (match objects (st_bridge s) !! id with
             | Some _ => set_next_object_id (id + 1) (st_bridge s)
             | None => set_objects (<[id := p]> (objects (st_bridge s)))
                         (set_next_object_id (id + 1) (st_bridge s))
             end) (st_world s)).
Proof.
  unfold registerObject, bind, get_state. destruct (negb _); [done|].
  unfold fresh_id, bind, get_state, update_bridge, ret, emplace_object, update_bridge. simpl.
  by destruct (_ !! _).
Qed.

Lemma next_id_free s : tables_ok s -> objects (st_bridge s) !! next_object_id (st_bridge s) = None.
Proof.
  intros Hok. destruct (_ !! _) eqn:E; [|done]. pose proof (ok_objects _ Hok _ _ E). lia.
Qed.

Lemma next_value_free s : tables_ok s -> values (st_bridge s) !! next_object_id (st_bridge s) = None.
Proof.
  intros Hok. destruct (_ !! _) eqn:E; [|done]. pose proof (ok_values _ Hok _ _ E). lia.
Qed.

Lemma hoare_registerObject p g :
  hoare (live g) (fun s => live g s /\ w_born (st_world s) p) (registerObject (Some p))
    (fun _ => live g).
Proof.
  intros [b w] [Hl Hb]. rewrite registerObject_Some. simpl in *.
  destruct (Z.eqb_spec (idForObject (State _ _ b w) (Some p)) 0) as [H0|]; [|done]. simpl.
  pose proof (next_id_free _ (proj1 Hl)) as Hf. simpl in Hf. rewrite Hf.
  apply live_emplace_object; [done|done|]. intros Ha.
  exact (idForObject_None _ _ (proj1 Hl) H0 Ha).
Qed.

Lemma keeps_registerValue v : keeps (registerValue v).
Proof.
  intros g [b w] Hl. unfold registerValue. destruct (v_valid v) eqn:Hv; [|done]. simpl.
  unfold fresh_id, bind, get_state, update_bridge, ret, emplace_value, update_bridge. simpl.
  pose proof (next_value_free _ (proj1 Hl)) as Hf. simpl in Hf. rewrite Hf. simpl.
  by apply live_emplace_value.
Qed.

Lemma hoare_objectHandleValue r g :
  hoare (live g) (fun s => live g s /\ forall p, r = Some p -> w_born (st_world s) p)
    (objectHandleValue r) (fun _ => live g).
Proof.
  intros s [Hl Hb]. revert s Hl Hb. unfold objectHandleValue. intros s Hl Hb.
  eapply (hoare_bind (live g) (fun s => live g s /\ forall p, r = Some p -> w_born (st_world s) p)
            (registerObject r) _ (fun _ => live g)); [|by intros a s'|done].
  intros s' [Hl' Hb']. destruct r as [p|]; [|done]. apply hoare_registerObject. eauto.
Qed.

(** Returning the handle of the object a native call gave. *)
Lemma keeps_handle_of (n : native (option ptr)) :
  returns_handle n -> keeps (bind (call n) objectHandleValue).
Proof.
  intros Hn g. eapply hoare_bind; [by apply hoare_call_result|]. intros r. apply hoare_objectHandleValue.
Qed.

(** ** The object tree *)

Lemma ancestor_walk_sound w fuel c a :
  ancestor_walk fuel w (w_parent w c) a = true -> tc (w_below w) c a.
Proof.
  revert c. induction fuel as [|fuel IH]; intros c; simpl;
    destruct (w_parent w c) as [q|] eqn:Hq; try done; case_bool_decide; subst; try done; intros Hw.
  - by apply tc_once.
  - by apply tc_once.
  - eapply tc_l; [exact Hq|]. by apply IH.
Qed.

Lemma ancestor_walk_complete w c a :
  tc (w_below w) c a ->
  forall fuel, (w_depth w c <= fuel)%nat -> ancestor_walk fuel w (w_parent w c) a = true.
Proof.
  induction 1 as [c a Hp|c q a Hp _ IH]; intros fuel Hf; unfold w_below in Hp;
    pose proof (law_depth w c _ Hp) as Hd; rewrite Hp.
  - destruct fuel; simpl; by rewrite bool_decide_eq_true_2.
  - destruct fuel as [|fuel]; [lia|]. simpl. case_bool_decide; [done|]. apply IH. lia.
Qed.

End Invariant.

#[export] Hint Resolve keeps_ret keeps_bind keeps_with_state keeps_resume keeps_call
  keeps_registerValue keeps_handle_of : kry.
