(* ===== verification/Modules.v ===== *)
(** The classes of the 49 generated factory files
    (generated_modules/qt6_factory_<module>.cpp): for each Qt module, the headers
    the file includes, the rows of its seven functions, in order, and the classes it
    leaves to createObject. Where a file is long, its includes and each function have
    a definition of their own, or several. *)
From S2P Require Export Prelude.

(** * Definitions *)

Record factory_module : Type := FactoryModule {
  fm_name : string;
  fm_directory : string;                    (* of the headers *)
  fm_includes : list (string * string);     (* a header, and the class whose macro it defines *)
  fm_has : list string;                     (* the rows of has_<module> *)
  fm_construct : list string;
  fm_constructors : list string;
  fm_meta_object : list string;
  fm_meta_object_names : list string;
  fm_value_type : list string;
  fm_value_types : list string;
  fm_explicit : list string;                (* what has_ and constructors_ add *)
}.

(** Classes with a header of their name. *)
Definition own_headers (classes : list string) : list (string * string) := (fun c => (c, c)) <$> classes.

(** A file whose includes and functions are written out for the same classes. *)
Definition same_rows (name directory : string) (classes explicit : list string) : factory_module :=
  FactoryModule name directory (own_headers classes) classes classes classes classes classes classes
    classes explicit.

(** The same with the given headers. *)
Definition with_headers (headers : list (string * string)) (f : factory_module) : factory_module :=
  FactoryModule (fm_name f) (fm_directory f) headers (fm_has f) (fm_construct f) (fm_constructors f)
    (fm_meta_object f) (fm_meta_object_names f) (fm_value_type f) (fm_value_types f) (fm_explicit f).

Definition factory_qaxcontainer : factory_module :=
  with_headers [("QAxBase", "QAxBase"); ("QAxObject", "QAxBaseObject"); ("QAxWidget", "QAxBaseWidget"); ("QAxObject", "QAxObject"); ("QAxObjectInterface", "QAxObjectInterface"); ("QAxWidget", "QAxWidget")]
  (same_rows "QAxContainer" "QtAxContainer"
    [
      "QAxBase"; "QAxBaseObject"; "QAxBaseWidget"; "QAxObject"; "QAxObjectInterface"; "QAxWidget"
    ]
    [
      "QAxObject"; "QAxWidget"
    ]).

Definition factory_qt3danimation : factory_module :=
  same_rows "Qt3DAnimation" "Qt3DAnimation"
    [
      "QAbstractAnimation"; "QAbstractAnimationClip"; "QAbstractChannelMapping"; "QAbstractClipAnimator";
      "QAbstractClipBlendNode"; "QAdditiveClipBlend"; "QAnimationAspect"; "QAnimationClip";
      "QAnimationClipData"; "QAnimationClipLoader"; "QAnimationController"; "QAnimationGroup";
      "QBlendedClipAnimator"; "QChannel"; "QChannelComponent"; "QChannelMapper"; "QChannelMapping";
      "QClipAnimator"; "QClipBlendValue"; "QClock"; "QKeyFrame"; "QKeyframeAnimation"; "QLerpClipBlend";
      "QMorphTarget"; "QMorphingAnimation"; "QSkeletonMapping"; "QVertexBlendAnimation"
    ]
    [].

Definition factory_qt3dcore : factory_module :=
  same_rows "Qt3DCore" "Qt3DCore"
    [
      "QAbstractAspect"; "QAbstractFunctor"; "QAbstractSkeleton"; "QArmature"; "QAspectEngine";
      "QAttribute"; "QBackendNode"; "QBackendNodeMapper"; "QBoundingVolume"; "QBuffer"; "QComponent";
      "QCoreSettings"; "QEntity"; "QGeometry"; "QGeometryView"; "QJoint"; "QNode"; "QNodeId";
      "QNodeIdTypePair"; "QSkeleton"; "QSkeletonLoader"; "QTransform"
    ]
    [].

Definition factory_qt3dextras_includes_1 : list (string * string) :=
  own_headers
    [
      "QAbstractCameraController"; "QAbstractSpriteSheet"; "QConeGeometry"; "QConeGeometryView";
      "QConeMesh"; "QCuboidGeometry"; "QCuboidGeometryView"; "QCuboidMesh"; "QCylinderGeometry";
      "QCylinderGeometryView"; "QCylinderMesh"; "QDiffuseMapMaterial"; "QDiffuseSpecularMapMaterial";
      "QDiffuseSpecularMaterial"; "QExtrudedTextGeometry"; "QExtrudedTextMesh";
      "QFirstPersonCameraController"; "QForwardRenderer"; "QGoochMaterial"; "QMetalRoughMaterial";
      "QMorphPhongMaterial"; "QNormalDiffuseMapAlphaMaterial"
    ].

Definition factory_qt3dextras_includes_2 : list (string * string) :=
  own_headers
    [
      "QNormalDiffuseMapMaterial"; "QNormalDiffuseSpecularMapMaterial"; "QOrbitCameraController";
      "QPerVertexColorMaterial"; "QPhongAlphaMaterial"; "QPhongMaterial"; "QPlaneGeometry";
      "QPlaneGeometryView"; "QPlaneMesh"; "QSkyboxEntity"; "QSphereGeometry"; "QSphereGeometryView";
      "QSphereMesh"; "QSpriteGrid"; "QSpriteSheet"; "QSpriteSheetItem"; "QText2DEntity";
      "QTextureMaterial"; "QTorusGeometry"; "QTorusGeometryView"; "QTorusMesh"
    ].

Definition factory_qt3dextras_has : list string :=
  [
    "QAbstractCameraController"; "QAbstractSpriteSheet"; "QConeGeometry"; "QConeGeometryView"; "QConeMesh";
    "QCuboidGeometry"; "QCuboidGeometryView"; "QCuboidMesh"; "QCylinderGeometry"; "QCylinderGeometryView";
    "QCylinderMesh"; "QDiffuseMapMaterial"; "QDiffuseSpecularMapMaterial"; "QDiffuseSpecularMaterial";
    "QExtrudedTextGeometry"; "QExtrudedTextMesh"; "QFirstPersonCameraController"; "QForwardRenderer";
    "QGoochMaterial"; "QMetalRoughMaterial"; "QMorphPhongMaterial"; "QNormalDiffuseMapAlphaMaterial";
    "QNormalDiffuseMapMaterial"; "QNormalDiffuseSpecularMapMaterial"; "QOrbitCameraController";
    "QPerVertexColorMaterial"; "QPhongAlphaMaterial"; "QPhongMaterial"; "QPlaneGeometry";
    "QPlaneGeometryView"; "QPlaneMesh"; "QSkyboxEntity"; "QSphereGeometry"; "QSphereGeometryView";
    "QSphereMesh"; "QSpriteGrid"; "QSpriteSheet"; "QSpriteSheetItem"; "QText2DEntity"; "QTextureMaterial";
    "QTorusGeometry"; "QTorusGeometryView"; "QTorusMesh"
  ].

Definition factory_qt3dextras_construct : list string :=
  [
    "QAbstractCameraController"; "QAbstractSpriteSheet"; "QConeGeometry"; "QConeGeometryView"; "QConeMesh";
    "QCuboidGeometry"; "QCuboidGeometryView"; "QCuboidMesh"; "QCylinderGeometry"; "QCylinderGeometryView";
    "QCylinderMesh"; "QDiffuseMapMaterial"; "QDiffuseSpecularMapMaterial"; "QDiffuseSpecularMaterial";
    "QExtrudedTextGeometry"; "QExtrudedTextMesh"; "QFirstPersonCameraController"; "QForwardRenderer";
    "QGoochMaterial"; "QMetalRoughMaterial"; "QMorphPhongMaterial"; "QNormalDiffuseMapAlphaMaterial";
    "QNormalDiffuseMapMaterial"; "QNormalDiffuseSpecularMapMaterial"; "QOrbitCameraController";
    "QPerVertexColorMaterial"; "QPhongAlphaMaterial"; "QPhongMaterial"; "QPlaneGeometry";
    "QPlaneGeometryView"; "QPlaneMesh"; "QSkyboxEntity"; "QSphereGeometry"; "QSphereGeometryView";
    "QSphereMesh"; "QSpriteGrid"; "QSpriteSheet"; "QSpriteSheetItem"; "QText2DEntity"; "QTextureMaterial";
    "QTorusGeometry"; "QTorusGeometryView"; "QTorusMesh"
  ].

Definition factory_qt3dextras_constructors : list string :=
  [
    "QAbstractCameraController"; "QAbstractSpriteSheet"; "QConeGeometry"; "QConeGeometryView"; "QConeMesh";
    "QCuboidGeometry"; "QCuboidGeometryView"; "QCuboidMesh"; "QCylinderGeometry"; "QCylinderGeometryView";
    "QCylinderMesh"; "QDiffuseMapMaterial"; "QDiffuseSpecularMapMaterial"; "QDiffuseSpecularMaterial";
    "QExtrudedTextGeometry"; "QExtrudedTextMesh"; "QFirstPersonCameraController"; "QForwardRenderer";
    "QGoochMaterial"; "QMetalRoughMaterial"; "QMorphPhongMaterial"; "QNormalDiffuseMapAlphaMaterial";
    "QNormalDiffuseMapMaterial"; "QNormalDiffuseSpecularMapMaterial"; "QOrbitCameraController";
    "QPerVertexColorMaterial"; "QPhongAlphaMaterial"; "QPhongMaterial"; "QPlaneGeometry";
    "QPlaneGeometryView"; "QPlaneMesh"; "QSkyboxEntity"; "QSphereGeometry"; "QSphereGeometryView";
    "QSphereMesh"; "QSpriteGrid"; "QSpriteSheet"; "QSpriteSheetItem"; "QText2DEntity"; "QTextureMaterial";
    "QTorusGeometry"; "QTorusGeometryView"; "QTorusMesh"
  ].

Definition factory_qt3dextras_meta_object : list string :=
  [
    "QAbstractCameraController"; "QAbstractSpriteSheet"; "QConeGeometry"; "QConeGeometryView"; "QConeMesh";
    "QCuboidGeometry"; "QCuboidGeometryView"; "QCuboidMesh"; "QCylinderGeometry"; "QCylinderGeometryView";
    "QCylinderMesh"; "QDiffuseMapMaterial"; "QDiffuseSpecularMapMaterial"; "QDiffuseSpecularMaterial";
    "QExtrudedTextGeometry"; "QExtrudedTextMesh"; "QFirstPersonCameraController"; "QForwardRenderer";
    "QGoochMaterial"; "QMetalRoughMaterial"; "QMorphPhongMaterial"; "QNormalDiffuseMapAlphaMaterial";
    "QNormalDiffuseMapMaterial"; "QNormalDiffuseSpecularMapMaterial"; "QOrbitCameraController";
    "QPerVertexColorMaterial"; "QPhongAlphaMaterial"; "QPhongMaterial"; "QPlaneGeometry";
    "QPlaneGeometryView"; "QPlaneMesh"; "QSkyboxEntity"; "QSphereGeometry"; "QSphereGeometryView";
    "QSphereMesh"; "QSpriteGrid"; "QSpriteSheet"; "QSpriteSheetItem"; "QText2DEntity"; "QTextureMaterial";
    "QTorusGeometry"; "QTorusGeometryView"; "QTorusMesh"
  ].

Definition factory_qt3dextras_meta_object_names : list string :=
  [
    "QAbstractCameraController"; "QAbstractSpriteSheet"; "QConeGeometry"; "QConeGeometryView"; "QConeMesh";
    "QCuboidGeometry"; "QCuboidGeometryView"; "QCuboidMesh"; "QCylinderGeometry"; "QCylinderGeometryView";
    "QCylinderMesh"; "QDiffuseMapMaterial"; "QDiffuseSpecularMapMaterial"; "QDiffuseSpecularMaterial";
    "QExtrudedTextGeometry"; "QExtrudedTextMesh"; "QFirstPersonCameraController"; "QForwardRenderer";
    "QGoochMaterial"; "QMetalRoughMaterial"; "QMorphPhongMaterial"; "QNormalDiffuseMapAlphaMaterial";
    "QNormalDiffuseMapMaterial"; "QNormalDiffuseSpecularMapMaterial"; "QOrbitCameraController";
    "QPerVertexColorMaterial"; "QPhongAlphaMaterial"; "QPhongMaterial"; "QPlaneGeometry";
    "QPlaneGeometryView"; "QPlaneMesh"; "QSkyboxEntity"; "QSphereGeometry"; "QSphereGeometryView";
    "QSphereMesh"; "QSpriteGrid"; "QSpriteSheet"; "QSpriteSheetItem"; "QText2DEntity"; "QTextureMaterial";
    "QTorusGeometry"; "QTorusGeometryView"; "QTorusMesh"
  ].

Definition factory_qt3dextras_value_type : list string :=
  [
    "QAbstractCameraController"; "QAbstractSpriteSheet"; "QConeGeometry"; "QConeGeometryView"; "QConeMesh";
    "QCuboidGeometry"; "QCuboidGeometryView"; "QCuboidMesh"; "QCylinderGeometry"; "QCylinderGeometryView";
    "QCylinderMesh"; "QDiffuseMapMaterial"; "QDiffuseSpecularMapMaterial"; "QDiffuseSpecularMaterial";
    "QExtrudedTextGeometry"; "QExtrudedTextMesh"; "QFirstPersonCameraController"; "QForwardRenderer";
    "QGoochMaterial"; "QMetalRoughMaterial"; "QMorphPhongMaterial"; "QNormalDiffuseMapAlphaMaterial";
    "QNormalDiffuseMapMaterial"; "QNormalDiffuseSpecularMapMaterial"; "QOrbitCameraController";
    "QPerVertexColorMaterial"; "QPhongAlphaMaterial"; "QPhongMaterial"; "QPlaneGeometry";
    "QPlaneGeometryView"; "QPlaneMesh"; "QSkyboxEntity"; "QSphereGeometry"; "QSphereGeometryView";
    "QSphereMesh"; "QSpriteGrid"; "QSpriteSheet"; "QSpriteSheetItem"; "QText2DEntity"; "QTextureMaterial";
    "QTorusGeometry"; "QTorusGeometryView"; "QTorusMesh"
  ].

Definition factory_qt3dextras : factory_module :=
  FactoryModule "Qt3DExtras" "Qt3DExtras"
    (factory_qt3dextras_includes_1 ++ factory_qt3dextras_includes_2)
    (factory_qt3dextras_has)
    (factory_qt3dextras_construct)
    (factory_qt3dextras_constructors)
    (factory_qt3dextras_meta_object)
    (factory_qt3dextras_meta_object_names)
    (factory_qt3dextras_value_type)
    [
      "QAbstractCameraController"; "QAbstractSpriteSheet"; "QConeGeometry"; "QConeGeometryView";
      "QConeMesh"; "QCuboidGeometry"; "QCuboidGeometryView"; "QCuboidMesh"; "QCylinderGeometry";
      "QCylinderGeometryView"; "QCylinderMesh"; "QDiffuseMapMaterial"; "QDiffuseSpecularMapMaterial";
      "QDiffuseSpecularMaterial"; "QExtrudedTextGeometry"; "QExtrudedTextMesh";
      "QFirstPersonCameraController"; "QForwardRenderer"; "QGoochMaterial"; "QMetalRoughMaterial";
      "QMorphPhongMaterial"; "QNormalDiffuseMapAlphaMaterial"; "QNormalDiffuseMapMaterial";
      "QNormalDiffuseSpecularMapMaterial"; "QOrbitCameraController"; "QPerVertexColorMaterial";
      "QPhongAlphaMaterial"; "QPhongMaterial"; "QPlaneGeometry"; "QPlaneGeometryView"; "QPlaneMesh";
      "QSkyboxEntity"; "QSphereGeometry"; "QSphereGeometryView"; "QSphereMesh"; "QSpriteGrid";
      "QSpriteSheet"; "QSpriteSheetItem"; "QText2DEntity"; "QTextureMaterial"; "QTorusGeometry";
      "QTorusGeometryView"; "QTorusMesh"
    ]
    [].

Definition factory_qt3dinput : factory_module :=
  same_rows "Qt3DInput" "Qt3DInput"
    [
      "QAbstractActionInput"; "QAbstractAxisInput"; "QAbstractPhysicalDevice"; "QAction"; "QActionInput";
      "QAnalogAxisInput"; "QAxis"; "QAxisAccumulator"; "QAxisSetting"; "QButtonAxisInput"; "QInputAspect";
      "QInputChord"; "QInputSequence"; "QInputSettings"; "QKeyEvent"; "QKeyboardDevice";
      "QKeyboardHandler"; "QLogicalDevice"; "QMouseDevice"; "QMouseEvent"; "QMouseHandler"; "QWheelEvent"
    ]
    [].

Definition factory_qt3dlogic : factory_module :=
  same_rows "Qt3DLogic" "Qt3DLogic"
    [
      "QFrameAction"; "QLogicAspect"
    ]
    [].

Definition factory_qt3drender_includes_1 : list (string * string) :=
  own_headers
    [
      "QAbstractLight"; "QAbstractRayCaster"; "QAbstractTexture"; "QAbstractTextureImage";
      "QAlphaCoverage"; "QAlphaTest"; "QBlendEquation"; "QBlendEquationArguments"; "QBlitFramebuffer";
      "QCamera"; "QCameraLens"; "QCameraSelector"; "QClearBuffers"; "QClipPlane"; "QColorMask";
      "QComputeCommand"; "QCullFace"; "QDepthRange"; "QDepthTest"; "QDirectionalLight"; "QDispatchCompute";
      "QDithering"; "QEffect"; "QEnvironmentLight"; "QFilterKey"; "QFrameGraphNode"; "QFrontFace";
      "QFrustumCulling"; "QGeometryRenderer"; "QGraphicsApiFilter"; "QLayer"; "QLayerFilter";
      "QLevelOfDetail"; "QLevelOfDetailBoundingSphere"; "QLevelOfDetailSwitch"; "QLineWidth"; "QMaterial";
      "QMemoryBarrier"
    ].

Definition factory_qt3drender_includes_2 : list (string * string) :=
  own_headers
    [
      "QMesh"; "QMultiSampleAntiAliasing"; "QNoDepthMask"; "QNoDraw"; "QNoPicking"; "QObjectPicker";
      "QPaintedTextureImage"; "QParameter"; "QPickEvent"; "QPickLineEvent"; "QPickPointEvent";
      "QPickTriangleEvent"; "QPickingProxy"; "QPickingSettings"; "QPointLight"; "QPointSize";
      "QPolygonOffset"; "QProximityFilter"; "QRasterMode"; "QRayCaster"; "QRayCasterHit"; "QRenderAspect";
      "QRenderCapabilities"; "QRenderCapture"; "QRenderCaptureReply"; "QRenderPass"; "QRenderPassFilter";
      "QRenderSettings"; "QRenderState"; "QRenderStateSet"; "QRenderSurfaceSelector"; "QRenderTarget";
      "QRenderTargetOutput"; "QRenderTargetSelector"; "QSceneLoader"; "QScissorTest"; "QScreenRayCaster";
      "QSeamlessCubemap"
    ].

Definition factory_qt3drender_includes_3 : list (string * string) :=
  own_headers
    [
      "QSetFence"; "QShaderData"; "QShaderImage"; "QShaderProgram"; "QShaderProgramBuilder";
      "QSharedGLTexture"; "QSortPolicy"; "QSpotLight"; "QStencilMask"; "QStencilOperation";
      "QStencilOperationArguments"; "QStencilTest"; "QStencilTestArguments"; "QSubtreeEnabler";
      "QTechnique"; "QTechniqueFilter"; "QTexture1D"; "QTexture1DArray"; "QTexture2D"; "QTexture2DArray";
      "QTexture2DMultisample"; "QTexture2DMultisampleArray"; "QTexture3D"; "QTextureBuffer";
      "QTextureCubeMap"; "QTextureCubeMapArray"; "QTextureData"; "QTextureDataUpdate"; "QTextureImage";
      "QTextureImageData"; "QTextureImageDataGenerator"; "QTextureLoader"; "QTextureRectangle";
      "QTextureWrapMode"; "QViewport"; "QWaitFence"
    ].

Definition factory_qt3drender_has_1 : list string :=
  [
    "QAbstractLight"; "QAbstractRayCaster"; "QAbstractTexture"; "QAbstractTextureImage"; "QAlphaCoverage";
    "QAlphaTest"; "QBlendEquation"; "QBlendEquationArguments"; "QBlitFramebuffer"; "QCamera";
    "QCameraLens"; "QCameraSelector"; "QClearBuffers"; "QClipPlane"; "QColorMask"; "QComputeCommand";
    "QCullFace"; "QDepthRange"; "QDepthTest"; "QDirectionalLight"; "QDispatchCompute"; "QDithering";
    "QEffect"; "QEnvironmentLight"; "QFilterKey"; "QFrameGraphNode"; "QFrontFace"; "QFrustumCulling";
    "QGeometryRenderer"; "QGraphicsApiFilter"; "QLayer"; "QLayerFilter"; "QLevelOfDetail";
    "QLevelOfDetailBoundingSphere"; "QLevelOfDetailSwitch"; "QLineWidth"; "QMaterial"; "QMemoryBarrier"
  ].

Definition factory_qt3drender_has_2 : list string :=
  [
    "QMesh"; "QMultiSampleAntiAliasing"; "QNoDepthMask"; "QNoDraw"; "QNoPicking"; "QObjectPicker";
    "QPaintedTextureImage"; "QParameter"; "QPickEvent"; "QPickLineEvent"; "QPickPointEvent";
    "QPickTriangleEvent"; "QPickingProxy"; "QPickingSettings"; "QPointLight"; "QPointSize";
    "QPolygonOffset"; "QProximityFilter"; "QRasterMode"; "QRayCaster"; "QRayCasterHit"; "QRenderAspect";
    "QRenderCapabilities"; "QRenderCapture"; "QRenderCaptureReply"; "QRenderPass"; "QRenderPassFilter";
    "QRenderSettings"; "QRenderState"; "QRenderStateSet"; "QRenderSurfaceSelector"; "QRenderTarget";
    "QRenderTargetOutput"; "QRenderTargetSelector"; "QSceneLoader"; "QScissorTest"; "QScreenRayCaster";
    "QSeamlessCubemap"
  ].

Definition factory_qt3drender_has_3 : list string :=
  [
    "QSetFence"; "QShaderData"; "QShaderImage"; "QShaderProgram"; "QShaderProgramBuilder";
    "QSharedGLTexture"; "QSortPolicy"; "QSpotLight"; "QStencilMask"; "QStencilOperation";
    "QStencilOperationArguments"; "QStencilTest"; "QStencilTestArguments"; "QSubtreeEnabler"; "QTechnique";
    "QTechniqueFilter"; "QTexture1D"; "QTexture1DArray"; "QTexture2D"; "QTexture2DArray";
    "QTexture2DMultisample"; "QTexture2DMultisampleArray"; "QTexture3D"; "QTextureBuffer";
    "QTextureCubeMap"; "QTextureCubeMapArray"; "QTextureData"; "QTextureDataUpdate"; "QTextureImage";
    "QTextureImageData"; "QTextureImageDataGenerator"; "QTextureLoader"; "QTextureRectangle";
    "QTextureWrapMode"; "QViewport"; "QWaitFence"
  ].

Definition factory_qt3drender_construct_1 : list string :=
  [
    "QAbstractLight"; "QAbstractRayCaster"; "QAbstractTexture"; "QAbstractTextureImage"; "QAlphaCoverage";
    "QAlphaTest"; "QBlendEquation"; "QBlendEquationArguments"; "QBlitFramebuffer"; "QCamera";
    "QCameraLens"; "QCameraSelector"; "QClearBuffers"; "QClipPlane"; "QColorMask"; "QComputeCommand";
    "QCullFace"; "QDepthRange"; "QDepthTest"; "QDirectionalLight"; "QDispatchCompute"; "QDithering";
    "QEffect"; "QEnvironmentLight"; "QFilterKey"; "QFrameGraphNode"; "QFrontFace"; "QFrustumCulling";
    "QGeometryRenderer"; "QGraphicsApiFilter"; "QLayer"; "QLayerFilter"; "QLevelOfDetail";
    "QLevelOfDetailBoundingSphere"; "QLevelOfDetailSwitch"; "QLineWidth"; "QMaterial"; "QMemoryBarrier"
  ].

Definition factory_qt3drender_construct_2 : list string :=
  [
    "QMesh"; "QMultiSampleAntiAliasing"; "QNoDepthMask"; "QNoDraw"; "QNoPicking"; "QObjectPicker";
    "QPaintedTextureImage"; "QParameter"; "QPickEvent"; "QPickLineEvent"; "QPickPointEvent";
    "QPickTriangleEvent"; "QPickingProxy"; "QPickingSettings"; "QPointLight"; "QPointSize";
    "QPolygonOffset"; "QProximityFilter"; "QRasterMode"; "QRayCaster"; "QRayCasterHit"; "QRenderAspect";
    "QRenderCapabilities"; "QRenderCapture"; "QRenderCaptureReply"; "QRenderPass"; "QRenderPassFilter";
    "QRenderSettings"; "QRenderState"; "QRenderStateSet"; "QRenderSurfaceSelector"; "QRenderTarget";
    "QRenderTargetOutput"; "QRenderTargetSelector"; "QSceneLoader"; "QScissorTest"; "QScreenRayCaster";
    "QSeamlessCubemap"
  ].

Definition factory_qt3drender_construct_3 : list string :=
  [
    "QSetFence"; "QShaderData"; "QShaderImage"; "QShaderProgram"; "QShaderProgramBuilder";
    "QSharedGLTexture"; "QSortPolicy"; "QSpotLight"; "QStencilMask"; "QStencilOperation";
    "QStencilOperationArguments"; "QStencilTest"; "QStencilTestArguments"; "QSubtreeEnabler"; "QTechnique";
    "QTechniqueFilter"; "QTexture1D"; "QTexture1DArray"; "QTexture2D"; "QTexture2DArray";
    "QTexture2DMultisample"; "QTexture2DMultisampleArray"; "QTexture3D"; "QTextureBuffer";
    "QTextureCubeMap"; "QTextureCubeMapArray"; "QTextureData"; "QTextureDataUpdate"; "QTextureImage";
    "QTextureImageData"; "QTextureImageDataGenerator"; "QTextureLoader"; "QTextureRectangle";
    "QTextureWrapMode"; "QViewport"; "QWaitFence"
  ].

Definition factory_qt3drender_constructors_1 : list string :=
  [
    "QAbstractLight"; "QAbstractRayCaster"; "QAbstractTexture"; "QAbstractTextureImage"; "QAlphaCoverage";
    "QAlphaTest"; "QBlendEquation"; "QBlendEquationArguments"; "QBlitFramebuffer"; "QCamera";
    "QCameraLens"; "QCameraSelector"; "QClearBuffers"; "QClipPlane"; "QColorMask"; "QComputeCommand";
    "QCullFace"; "QDepthRange"; "QDepthTest"; "QDirectionalLight"; "QDispatchCompute"; "QDithering";
    "QEffect"; "QEnvironmentLight"; "QFilterKey"; "QFrameGraphNode"; "QFrontFace"; "QFrustumCulling";
    "QGeometryRenderer"; "QGraphicsApiFilter"; "QLayer"; "QLayerFilter"; "QLevelOfDetail";
    "QLevelOfDetailBoundingSphere"; "QLevelOfDetailSwitch"; "QLineWidth"; "QMaterial"; "QMemoryBarrier"
  ].

Definition factory_qt3drender_constructors_2 : list string :=
  [
    "QMesh"; "QMultiSampleAntiAliasing"; "QNoDepthMask"; "QNoDraw"; "QNoPicking"; "QObjectPicker";
    "QPaintedTextureImage"; "QParameter"; "QPickEvent"; "QPickLineEvent"; "QPickPointEvent";
    "QPickTriangleEvent"; "QPickingProxy"; "QPickingSettings"; "QPointLight"; "QPointSize";
    "QPolygonOffset"; "QProximityFilter"; "QRasterMode"; "QRayCaster"; "QRayCasterHit"; "QRenderAspect";
    "QRenderCapabilities"; "QRenderCapture"; "QRenderCaptureReply"; "QRenderPass"; "QRenderPassFilter";
    "QRenderSettings"; "QRenderState"; "QRenderStateSet"; "QRenderSurfaceSelector"; "QRenderTarget";
    "QRenderTargetOutput"; "QRenderTargetSelector"; "QSceneLoader"; "QScissorTest"; "QScreenRayCaster";
    "QSeamlessCubemap"
  ].

Definition factory_qt3drender_constructors_3 : list string :=
  [
    "QSetFence"; "QShaderData"; "QShaderImage"; "QShaderProgram"; "QShaderProgramBuilder";
    "QSharedGLTexture"; "QSortPolicy"; "QSpotLight"; "QStencilMask"; "QStencilOperation";
    "QStencilOperationArguments"; "QStencilTest"; "QStencilTestArguments"; "QSubtreeEnabler"; "QTechnique";
    "QTechniqueFilter"; "QTexture1D"; "QTexture1DArray"; "QTexture2D"; "QTexture2DArray";
    "QTexture2DMultisample"; "QTexture2DMultisampleArray"; "QTexture3D"; "QTextureBuffer";
    "QTextureCubeMap"; "QTextureCubeMapArray"; "QTextureData"; "QTextureDataUpdate"; "QTextureImage";
    "QTextureImageData"; "QTextureImageDataGenerator"; "QTextureLoader"; "QTextureRectangle";
    "QTextureWrapMode"; "QViewport"; "QWaitFence"
  ].

Definition factory_qt3drender_meta_object_1 : list string :=
  [
    "QAbstractLight"; "QAbstractRayCaster"; "QAbstractTexture"; "QAbstractTextureImage"; "QAlphaCoverage";
    "QAlphaTest"; "QBlendEquation"; "QBlendEquationArguments"; "QBlitFramebuffer"; "QCamera";
    "QCameraLens"; "QCameraSelector"; "QClearBuffers"; "QClipPlane"; "QColorMask"; "QComputeCommand";
    "QCullFace"; "QDepthRange"; "QDepthTest"; "QDirectionalLight"; "QDispatchCompute"; "QDithering";
    "QEffect"; "QEnvironmentLight"; "QFilterKey"; "QFrameGraphNode"; "QFrontFace"; "QFrustumCulling";
    "QGeometryRenderer"; "QGraphicsApiFilter"; "QLayer"; "QLayerFilter"; "QLevelOfDetail";
    "QLevelOfDetailBoundingSphere"; "QLevelOfDetailSwitch"; "QLineWidth"; "QMaterial"; "QMemoryBarrier"
  ].

Definition factory_qt3drender_meta_object_2 : list string :=
  [
    "QMesh"; "QMultiSampleAntiAliasing"; "QNoDepthMask"; "QNoDraw"; "QNoPicking"; "QObjectPicker";
    "QPaintedTextureImage"; "QParameter"; "QPickEvent"; "QPickLineEvent"; "QPickPointEvent";
    "QPickTriangleEvent"; "QPickingProxy"; "QPickingSettings"; "QPointLight"; "QPointSize";
    "QPolygonOffset"; "QProximityFilter"; "QRasterMode"; "QRayCaster"; "QRayCasterHit"; "QRenderAspect";
    "QRenderCapabilities"; "QRenderCapture"; "QRenderCaptureReply"; "QRenderPass"; "QRenderPassFilter";
    "QRenderSettings"; "QRenderState"; "QRenderStateSet"; "QRenderSurfaceSelector"; "QRenderTarget";
    "QRenderTargetOutput"; "QRenderTargetSelector"; "QSceneLoader"; "QScissorTest"; "QScreenRayCaster";
    "QSeamlessCubemap"
  ].

Definition factory_qt3drender_meta_object_3 : list string :=
  [
    "QSetFence"; "QShaderData"; "QShaderImage"; "QShaderProgram"; "QShaderProgramBuilder";
    "QSharedGLTexture"; "QSortPolicy"; "QSpotLight"; "QStencilMask"; "QStencilOperation";
    "QStencilOperationArguments"; "QStencilTest"; "QStencilTestArguments"; "QSubtreeEnabler"; "QTechnique";
    "QTechniqueFilter"; "QTexture1D"; "QTexture1DArray"; "QTexture2D"; "QTexture2DArray";
    "QTexture2DMultisample"; "QTexture2DMultisampleArray"; "QTexture3D"; "QTextureBuffer";
    "QTextureCubeMap"; "QTextureCubeMapArray"; "QTextureData"; "QTextureDataUpdate"; "QTextureImage";
    "QTextureImageData"; "QTextureImageDataGenerator"; "QTextureLoader"; "QTextureRectangle";
    "QTextureWrapMode"; "QViewport"; "QWaitFence"
  ].

Definition factory_qt3drender_meta_object_names_1 : list string :=
  [
    "QAbstractLight"; "QAbstractRayCaster"; "QAbstractTexture"; "QAbstractTextureImage"; "QAlphaCoverage";
    "QAlphaTest"; "QBlendEquation"; "QBlendEquationArguments"; "QBlitFramebuffer"; "QCamera";
    "QCameraLens"; "QCameraSelector"; "QClearBuffers"; "QClipPlane"; "QColorMask"; "QComputeCommand";
    "QCullFace"; "QDepthRange"; "QDepthTest"; "QDirectionalLight"; "QDispatchCompute"; "QDithering";
    "QEffect"; "QEnvironmentLight"; "QFilterKey"; "QFrameGraphNode"; "QFrontFace"; "QFrustumCulling";
    "QGeometryRenderer"; "QGraphicsApiFilter"; "QLayer"; "QLayerFilter"; "QLevelOfDetail";
    "QLevelOfDetailBoundingSphere"; "QLevelOfDetailSwitch"; "QLineWidth"; "QMaterial"; "QMemoryBarrier"
  ].

Definition factory_qt3drender_meta_object_names_2 : list string :=
  [
    "QMesh"; "QMultiSampleAntiAliasing"; "QNoDepthMask"; "QNoDraw"; "QNoPicking"; "QObjectPicker";
    "QPaintedTextureImage"; "QParameter"; "QPickEvent"; "QPickLineEvent"; "QPickPointEvent";
    "QPickTriangleEvent"; "QPickingProxy"; "QPickingSettings"; "QPointLight"; "QPointSize";
    "QPolygonOffset"; "QProximityFilter"; "QRasterMode"; "QRayCaster"; "QRayCasterHit"; "QRenderAspect";
    "QRenderCapabilities"; "QRenderCapture"; "QRenderCaptureReply"; "QRenderPass"; "QRenderPassFilter";
    "QRenderSettings"; "QRenderState"; "QRenderStateSet"; "QRenderSurfaceSelector"; "QRenderTarget";
    "QRenderTargetOutput"; "QRenderTargetSelector"; "QSceneLoader"; "QScissorTest"; "QScreenRayCaster";
    "QSeamlessCubemap"
  ].

Definition factory_qt3drender_meta_object_names_3 : list string :=
  [
    "QSetFence"; "QShaderData"; "QShaderImage"; "QShaderProgram"; "QShaderProgramBuilder";
    "QSharedGLTexture"; "QSortPolicy"; "QSpotLight"; "QStencilMask"; "QStencilOperation";
    "QStencilOperationArguments"; "QStencilTest"; "QStencilTestArguments"; "QSubtreeEnabler"; "QTechnique";
    "QTechniqueFilter"; "QTexture1D"; "QTexture1DArray"; "QTexture2D"; "QTexture2DArray";
    "QTexture2DMultisample"; "QTexture2DMultisampleArray"; "QTexture3D"; "QTextureBuffer";
    "QTextureCubeMap"; "QTextureCubeMapArray"; "QTextureData"; "QTextureDataUpdate"; "QTextureImage";
    "QTextureImageData"; "QTextureImageDataGenerator"; "QTextureLoader"; "QTextureRectangle";
    "QTextureWrapMode"; "QViewport"; "QWaitFence"
  ].

Definition factory_qt3drender_value_type_1 : list string :=
  [
    "QAbstractLight"; "QAbstractRayCaster"; "QAbstractTexture"; "QAbstractTextureImage"; "QAlphaCoverage";
    "QAlphaTest"; "QBlendEquation"; "QBlendEquationArguments"; "QBlitFramebuffer"; "QCamera";
    "QCameraLens"; "QCameraSelector"; "QClearBuffers"; "QClipPlane"; "QColorMask"; "QComputeCommand";
    "QCullFace"; "QDepthRange"; "QDepthTest"; "QDirectionalLight"; "QDispatchCompute"; "QDithering";
    "QEffect"; "QEnvironmentLight"; "QFilterKey"; "QFrameGraphNode"; "QFrontFace"; "QFrustumCulling";
    "QGeometryRenderer"; "QGraphicsApiFilter"; "QLayer"; "QLayerFilter"; "QLevelOfDetail";
    "QLevelOfDetailBoundingSphere"; "QLevelOfDetailSwitch"; "QLineWidth"; "QMaterial"; "QMemoryBarrier"
  ].

Definition factory_qt3drender_value_type_2 : list string :=
  [
    "QMesh"; "QMultiSampleAntiAliasing"; "QNoDepthMask"; "QNoDraw"; "QNoPicking"; "QObjectPicker";
    "QPaintedTextureImage"; "QParameter"; "QPickEvent"; "QPickLineEvent"; "QPickPointEvent";
    "QPickTriangleEvent"; "QPickingProxy"; "QPickingSettings"; "QPointLight"; "QPointSize";
    "QPolygonOffset"; "QProximityFilter"; "QRasterMode"; "QRayCaster"; "QRayCasterHit"; "QRenderAspect";
    "QRenderCapabilities"; "QRenderCapture"; "QRenderCaptureReply"; "QRenderPass"; "QRenderPassFilter";
    "QRenderSettings"; "QRenderState"; "QRenderStateSet"; "QRenderSurfaceSelector"; "QRenderTarget";
    "QRenderTargetOutput"; "QRenderTargetSelector"; "QSceneLoader"; "QScissorTest"; "QScreenRayCaster";
    "QSeamlessCubemap"
  ].

Definition factory_qt3drender_value_type_3 : list string :=
  [
    "QSetFence"; "QShaderData"; "QShaderImage"; "QShaderProgram"; "QShaderProgramBuilder";
    "QSharedGLTexture"; "QSortPolicy"; "QSpotLight"; "QStencilMask"; "QStencilOperation";
    "QStencilOperationArguments"; "QStencilTest"; "QStencilTestArguments"; "QSubtreeEnabler"; "QTechnique";
    "QTechniqueFilter"; "QTexture1D"; "QTexture1DArray"; "QTexture2D"; "QTexture2DArray";
    "QTexture2DMultisample"; "QTexture2DMultisampleArray"; "QTexture3D"; "QTextureBuffer";
    "QTextureCubeMap"; "QTextureCubeMapArray"; "QTextureData"; "QTextureDataUpdate"; "QTextureImage";
    "QTextureImageData"; "QTextureImageDataGenerator"; "QTextureLoader"; "QTextureRectangle";
    "QTextureWrapMode"; "QViewport"; "QWaitFence"
  ].

Definition factory_qt3drender : factory_module :=
  FactoryModule "Qt3DRender" "Qt3DRender"
    (factory_qt3drender_includes_1 ++ factory_qt3drender_includes_2 ++
     factory_qt3drender_includes_3)
    (factory_qt3drender_has_1 ++ factory_qt3drender_has_2 ++ factory_qt3drender_has_3)
    (factory_qt3drender_construct_1 ++ factory_qt3drender_construct_2 ++
     factory_qt3drender_construct_3)
    (factory_qt3drender_constructors_1 ++ factory_qt3drender_constructors_2 ++
     factory_qt3drender_constructors_3)
    (factory_qt3drender_meta_object_1 ++ factory_qt3drender_meta_object_2 ++
     factory_qt3drender_meta_object_3)
    (factory_qt3drender_meta_object_names_1 ++ factory_qt3drender_meta_object_names_2 ++
     factory_qt3drender_meta_object_names_3)
    (factory_qt3drender_value_type_1 ++ factory_qt3drender_value_type_2 ++
     factory_qt3drender_value_type_3)
    [
      "QAbstractLight"; "QAbstractRayCaster"; "QAbstractTexture"; "QAbstractTextureImage";
      "QAlphaCoverage"; "QAlphaTest"; "QBlendEquation"; "QBlendEquationArguments"; "QBlitFramebuffer";
      "QCamera"; "QCameraLens"; "QCameraSelector"; "QClearBuffers"; "QClipPlane"; "QColorMask";
      "QComputeCommand"; "QCullFace"; "QDepthRange"; "QDepthTest"; "QDirectionalLight"; "QDispatchCompute";
      "QDithering"; "QEffect"; "QEnvironmentLight"; "QFilterKey"; "QFrameGraphNode"; "QFrontFace";
      "QFrustumCulling"; "QGeometryRenderer"; "QGraphicsApiFilter"; "QLayer"; "QLayerFilter";
      "QLevelOfDetail"; "QLevelOfDetailBoundingSphere"; "QLevelOfDetailSwitch"; "QLineWidth"; "QMaterial";
      "QMemoryBarrier"; "QMesh"; "QMultiSampleAntiAliasing"; "QNoDepthMask"; "QNoDraw"; "QNoPicking";
      "QObjectPicker"; "QPaintedTextureImage"; "QParameter"; "QPickEvent"; "QPickLineEvent";
      "QPickPointEvent"; "QPickTriangleEvent"; "QPickingProxy"; "QPickingSettings"; "QPointLight";
      "QPointSize"; "QPolygonOffset"; "QProximityFilter"; "QRasterMode"; "QRayCaster"; "QRayCasterHit";
      "QRenderAspect"; "QRenderCapabilities"; "QRenderCapture"; "QRenderCaptureReply"; "QRenderPass";
      "QRenderPassFilter"; "QRenderSettings"; "QRenderState"; "QRenderStateSet"; "QRenderSurfaceSelector";
      "QRenderTarget"; "QRenderTargetOutput"; "QRenderTargetSelector"; "QSceneLoader"; "QScissorTest";
      "QScreenRayCaster"; "QSeamlessCubemap"; "QSetFence"; "QShaderData"; "QShaderImage"; "QShaderProgram";
      "QShaderProgramBuilder"; "QSharedGLTexture"; "QSortPolicy"; "QSpotLight"; "QStencilMask";
      "QStencilOperation"; "QStencilOperationArguments"; "QStencilTest"; "QStencilTestArguments";
      "QSubtreeEnabler"; "QTechnique"; "QTechniqueFilter"; "QTexture1D"; "QTexture1DArray"; "QTexture2D";
      "QTexture2DArray"; "QTexture2DMultisample"; "QTexture2DMultisampleArray"; "QTexture3D";
      "QTextureBuffer"; "QTextureCubeMap"; "QTextureCubeMapArray"; "QTextureData"; "QTextureDataUpdate";
      "QTextureImage"; "QTextureImageData"; "QTextureImageDataGenerator"; "QTextureLoader";
      "QTextureRectangle"; "QTextureWrapMode"; "QViewport"; "QWaitFence"
    ]
    [].

Definition factory_qtbluetooth : factory_module :=
  same_rows "QtBluetooth" "QtBluetooth"
    [
      "QBluetooth"; "QBluetoothAddress"; "QBluetoothDeviceDiscoveryAgent"; "QBluetoothDeviceInfo";
      "QBluetoothHostInfo"; "QBluetoothLocalDevice"; "QBluetoothServer"; "QBluetoothServiceDiscoveryAgent";
      "QBluetoothServiceInfo"; "QBluetoothSocket"; "QBluetoothUuid"; "QLowEnergyAdvertisingData";
      "QLowEnergyAdvertisingParameters"; "QLowEnergyCharacteristic"; "QLowEnergyCharacteristicData";
      "QLowEnergyConnectionParameters"; "QLowEnergyController"; "QLowEnergyDescriptor";
      "QLowEnergyDescriptorData"; "QLowEnergyService"; "QLowEnergyServiceData"
    ]
    [].

Definition factory_qtcharts_includes_1 : list (string * string) :=
  own_headers
    [
      "QAbstractAxis"; "QAbstractBarSeries"; "QAbstractSeries"; "QAreaLegendMarker"; "QAreaSeries";
      "QBarCategoryAxis"; "QBarLegendMarker"; "QBarSeries"; "QBarSet"; "QBoxPlotLegendMarker";
      "QBoxPlotSeries"; "QBoxSet"; "QCandlestickLegendMarker"; "QCandlestickModelMapper";
      "QCandlestickSeries"; "QCandlestickSet"; "QCategoryAxis"; "QChart"; "QChartView"; "QColorAxis";
      "QDateTimeAxis"; "QHBarModelMapper"; "QHBoxPlotModelMapper"; "QHCandlestickModelMapper";
      "QHPieModelMapper"
    ].

Definition factory_qtcharts_includes_2 : list (string * string) :=
  own_headers
    [
      "QHXYModelMapper"; "QHorizontalBarSeries"; "QHorizontalPercentBarSeries";
      "QHorizontalStackedBarSeries"; "QLegend"; "QLegendMarker"; "QLineSeries"; "QLogValueAxis";
      "QPercentBarSeries"; "QPieLegendMarker"; "QPieSeries"; "QPieSlice"; "QPolarChart"; "QScatterSeries";
      "QSplineSeries"; "QStackedBarSeries"; "QVBarModelMapper"; "QVBoxPlotModelMapper";
      "QVCandlestickModelMapper"; "QVPieModelMapper"; "QVXYModelMapper"; "QValueAxis"; "QXYLegendMarker";
      "QXYSeries"
    ].

Definition factory_qtcharts_has : list string :=
  [
    "QAbstractAxis"; "QAbstractBarSeries"; "QAbstractSeries"; "QAreaLegendMarker"; "QAreaSeries";
    "QBarCategoryAxis"; "QBarLegendMarker"; "QBarSeries"; "QBarSet"; "QBoxPlotLegendMarker";
    "QBoxPlotSeries"; "QBoxSet"; "QCandlestickLegendMarker"; "QCandlestickModelMapper";
    "QCandlestickSeries"; "QCandlestickSet"; "QCategoryAxis"; "QChart"; "QChartView"; "QColorAxis";
    "QDateTimeAxis"; "QHBarModelMapper"; "QHBoxPlotModelMapper"; "QHCandlestickModelMapper";
    "QHPieModelMapper"; "QHXYModelMapper"; "QHorizontalBarSeries"; "QHorizontalPercentBarSeries";
    "QHorizontalStackedBarSeries"; "QLegend"; "QLegendMarker"; "QLineSeries"; "QLogValueAxis";
    "QPercentBarSeries"; "QPieLegendMarker"; "QPieSeries"; "QPieSlice"; "QPolarChart"; "QScatterSeries";
    "QSplineSeries"; "QStackedBarSeries"; "QVBarModelMapper"; "QVBoxPlotModelMapper";
    "QVCandlestickModelMapper"; "QVPieModelMapper"; "QVXYModelMapper"; "QValueAxis"; "QXYLegendMarker";
    "QXYSeries"
  ].

Definition factory_qtcharts_construct : list string :=
  [
    "QAbstractAxis"; "QAbstractBarSeries"; "QAbstractSeries"; "QAreaLegendMarker"; "QAreaSeries";
    "QBarCategoryAxis"; "QBarLegendMarker"; "QBarSeries"; "QBarSet"; "QBoxPlotLegendMarker";
    "QBoxPlotSeries"; "QBoxSet"; "QCandlestickLegendMarker"; "QCandlestickModelMapper";
    "QCandlestickSeries"; "QCandlestickSet"; "QCategoryAxis"; "QChart"; "QChartView"; "QColorAxis";
    "QDateTimeAxis"; "QHBarModelMapper"; "QHBoxPlotModelMapper"; "QHCandlestickModelMapper";
    "QHPieModelMapper"; "QHXYModelMapper"; "QHorizontalBarSeries"; "QHorizontalPercentBarSeries";
    "QHorizontalStackedBarSeries"; "QLegend"; "QLegendMarker"; "QLineSeries"; "QLogValueAxis";
    "QPercentBarSeries"; "QPieLegendMarker"; "QPieSeries"; "QPieSlice"; "QPolarChart"; "QScatterSeries";
    "QSplineSeries"; "QStackedBarSeries"; "QVBarModelMapper"; "QVBoxPlotModelMapper";
    "QVCandlestickModelMapper"; "QVPieModelMapper"; "QVXYModelMapper"; "QValueAxis"; "QXYLegendMarker";
    "QXYSeries"
  ].

Definition factory_qtcharts_constructors : list string :=
  [
    "QAbstractAxis"; "QAbstractBarSeries"; "QAbstractSeries"; "QAreaLegendMarker"; "QAreaSeries";
    "QBarCategoryAxis"; "QBarLegendMarker"; "QBarSeries"; "QBarSet"; "QBoxPlotLegendMarker";
    "QBoxPlotSeries"; "QBoxSet"; "QCandlestickLegendMarker"; "QCandlestickModelMapper";
    "QCandlestickSeries"; "QCandlestickSet"; "QCategoryAxis"; "QChart"; "QChartView"; "QColorAxis";
    "QDateTimeAxis"; "QHBarModelMapper"; "QHBoxPlotModelMapper"; "QHCandlestickModelMapper";
    "QHPieModelMapper"; "QHXYModelMapper"; "QHorizontalBarSeries"; "QHorizontalPercentBarSeries";
    "QHorizontalStackedBarSeries"; "QLegend"; "QLegendMarker"; "QLineSeries"; "QLogValueAxis";
    "QPercentBarSeries"; "QPieLegendMarker"; "QPieSeries"; "QPieSlice"; "QPolarChart"; "QScatterSeries";
    "QSplineSeries"; "QStackedBarSeries"; "QVBarModelMapper"; "QVBoxPlotModelMapper";
    "QVCandlestickModelMapper"; "QVPieModelMapper"; "QVXYModelMapper"; "QValueAxis"; "QXYLegendMarker";
    "QXYSeries"
  ].

Definition factory_qtcharts_meta_object : list string :=
  [
    "QAbstractAxis"; "QAbstractBarSeries"; "QAbstractSeries"; "QAreaLegendMarker"; "QAreaSeries";
    "QBarCategoryAxis"; "QBarLegendMarker"; "QBarSeries"; "QBarSet"; "QBoxPlotLegendMarker";
    "QBoxPlotSeries"; "QBoxSet"; "QCandlestickLegendMarker"; "QCandlestickModelMapper";
    "QCandlestickSeries"; "QCandlestickSet"; "QCategoryAxis"; "QChart"; "QChartView"; "QColorAxis";
    "QDateTimeAxis"; "QHBarModelMapper"; "QHBoxPlotModelMapper"; "QHCandlestickModelMapper";
    "QHPieModelMapper"; "QHXYModelMapper"; "QHorizontalBarSeries"; "QHorizontalPercentBarSeries";
    "QHorizontalStackedBarSeries"; "QLegend"; "QLegendMarker"; "QLineSeries"; "QLogValueAxis";
    "QPercentBarSeries"; "QPieLegendMarker"; "QPieSeries"; "QPieSlice"; "QPolarChart"; "QScatterSeries";
    "QSplineSeries"; "QStackedBarSeries"; "QVBarModelMapper"; "QVBoxPlotModelMapper";
    "QVCandlestickModelMapper"; "QVPieModelMapper"; "QVXYModelMapper"; "QValueAxis"; "QXYLegendMarker";
    "QXYSeries"
  ].

Definition factory_qtcharts_meta_object_names : list string :=
  [
    "QAbstractAxis"; "QAbstractBarSeries"; "QAbstractSeries"; "QAreaLegendMarker"; "QAreaSeries";
    "QBarCategoryAxis"; "QBarLegendMarker"; "QBarSeries"; "QBarSet"; "QBoxPlotLegendMarker";
    "QBoxPlotSeries"; "QBoxSet"; "QCandlestickLegendMarker"; "QCandlestickModelMapper";
    "QCandlestickSeries"; "QCandlestickSet"; "QCategoryAxis"; "QChart"; "QChartView"; "QColorAxis";
    "QDateTimeAxis"; "QHBarModelMapper"; "QHBoxPlotModelMapper"; "QHCandlestickModelMapper";
    "QHPieModelMapper"; "QHXYModelMapper"; "QHorizontalBarSeries"; "QHorizontalPercentBarSeries";
    "QHorizontalStackedBarSeries"; "QLegend"; "QLegendMarker"; "QLineSeries"; "QLogValueAxis";
    "QPercentBarSeries"; "QPieLegendMarker"; "QPieSeries"; "QPieSlice"; "QPolarChart"; "QScatterSeries";
    "QSplineSeries"; "QStackedBarSeries"; "QVBarModelMapper"; "QVBoxPlotModelMapper";
    "QVCandlestickModelMapper"; "QVPieModelMapper"; "QVXYModelMapper"; "QValueAxis"; "QXYLegendMarker";
    "QXYSeries"
  ].

Definition factory_qtcharts_value_type : list string :=
  [
    "QAbstractAxis"; "QAbstractBarSeries"; "QAbstractSeries"; "QAreaLegendMarker"; "QAreaSeries";
    "QBarCategoryAxis"; "QBarLegendMarker"; "QBarSeries"; "QBarSet"; "QBoxPlotLegendMarker";
    "QBoxPlotSeries"; "QBoxSet"; "QCandlestickLegendMarker"; "QCandlestickModelMapper";
    "QCandlestickSeries"; "QCandlestickSet"; "QCategoryAxis"; "QChart"; "QChartView"; "QColorAxis";
    "QDateTimeAxis"; "QHBarModelMapper"; "QHBoxPlotModelMapper"; "QHCandlestickModelMapper";
    "QHPieModelMapper"; "QHXYModelMapper"; "QHorizontalBarSeries"; "QHorizontalPercentBarSeries";
    "QHorizontalStackedBarSeries"; "QLegend"; "QLegendMarker"; "QLineSeries"; "QLogValueAxis";
    "QPercentBarSeries"; "QPieLegendMarker"; "QPieSeries"; "QPieSlice"; "QPolarChart"; "QScatterSeries";
    "QSplineSeries"; "QStackedBarSeries"; "QVBarModelMapper"; "QVBoxPlotModelMapper";
    "QVCandlestickModelMapper"; "QVPieModelMapper"; "QVXYModelMapper"; "QValueAxis"; "QXYLegendMarker";
    "QXYSeries"
  ].

Definition factory_qtcharts : factory_module :=
  FactoryModule "QtCharts" "QtCharts"
    (factory_qtcharts_includes_1 ++ factory_qtcharts_includes_2)
    (factory_qtcharts_has)
    (factory_qtcharts_construct)
    (factory_qtcharts_constructors)
    (factory_qtcharts_meta_object)
    (factory_qtcharts_meta_object_names)
    (factory_qtcharts_value_type)
    [
      "QAbstractAxis"; "QAbstractBarSeries"; "QAbstractSeries"; "QAreaLegendMarker"; "QAreaSeries";
      "QBarCategoryAxis"; "QBarLegendMarker"; "QBarSeries"; "QBarSet"; "QBoxPlotLegendMarker";
      "QBoxPlotSeries"; "QBoxSet"; "QCandlestickLegendMarker"; "QCandlestickModelMapper";
      "QCandlestickSeries"; "QCandlestickSet"; "QCategoryAxis"; "QChart"; "QChartView"; "QColorAxis";
      "QDateTimeAxis"; "QHBarModelMapper"; "QHBoxPlotModelMapper"; "QHCandlestickModelMapper";
      "QHPieModelMapper"; "QHXYModelMapper"; "QHorizontalBarSeries"; "QHorizontalPercentBarSeries";
      "QHorizontalStackedBarSeries"; "QLegend"; "QLegendMarker"; "QLineSeries"; "QLogValueAxis";
      "QPercentBarSeries"; "QPieLegendMarker"; "QPieSeries"; "QPieSlice"; "QPolarChart"; "QScatterSeries";
      "QSplineSeries"; "QStackedBarSeries"; "QVBarModelMapper"; "QVBoxPlotModelMapper";
      "QVCandlestickModelMapper"; "QVPieModelMapper"; "QVXYModelMapper"; "QValueAxis"; "QXYLegendMarker";
      "QXYSeries"
    ]
    [].

Definition factory_qtcore_includes_1 : list (string * string) :=
  own_headers
    [
      "QAbstractAnimation"; "QAbstractEventDispatcher"; "QAbstractItemModel"; "QAbstractListModel";
      "QAbstractNativeEventFilter"; "QAbstractProxyModel"; "QAbstractTableModel"; "QAnimationGroup";
      "QBasicTimer"; "QBitArray"; "QBluetoothPermission"; "QBuffer"; "QByteArray"; "QByteArrayMatcher";
      "QCalendar"; "QCalendarPermission"; "QCameraPermission"; "QCborError"; "QCborStreamReader";
      "QCborStreamWriter"; "QChar"; "QChildEvent"; "QCollator"; "QCollatorSortKey"; "QCommandLineOption";
      "QCommandLineParser"; "QConcatenateTablesProxyModel"; "QContactsPermission"; "QCoreApplication";
      "QCryptographicHash"; "QDataStream"; "QDate"; "QDateTime"
    ].

Definition factory_qtcore_includes_2 : list (string * string) :=
  own_headers
    [
      "QDeadlineTimer"; "QDir"; "QDirIterator"; "QDynamicPropertyChangeEvent"; "QEasingCurve";
      "QElapsedTimer"; "QEvent"; "QEventLoop"; "QEventLoopLocker"; "QFile"; "QFileDevice"; "QFileInfo";
      "QFileSelector"; "QFileSystemWatcher"; "QGenericArgument"; "QGenericReturnArgument"; "QIODevice";
      "QIODeviceBase"; "QIdentityProxyModel"; "QItemSelection"; "QItemSelectionModel";
      "QItemSelectionRange"; "QJsonDocument"; "QJsonParseError"; "QJsonValue"; "QKeyCombination";
      "QLibrary"; "QLibraryInfo"; "QLine"; "QLineF"; "QLocale"; "QLocationPermission"; "QLockFile"
    ].

Definition factory_qtcore_includes_3 : list (string * string) :=
  own_headers
    [
      "QLoggingCategory"; "QMargins"; "QMarginsF"; "QMessageAuthenticationCode"; "QMessageLogContext";
      "QMessageLogger"; "QMetaClassInfo"; "QMetaEnum"; "QMetaMethod"; "QMetaObject"; "QMetaProperty";
      "QMetaType"; "QMicrophonePermission"; "QMimeData"; "QMimeDatabase"; "QMimeType"; "QModelIndex";
      "QModelRoleData"; "QModelRoleDataSpan"; "QMutex"; "QNativeInterface"; "QNativeIpcKey"; "QObject";
      "QObjectCleanupHandler"; "QOperatingSystemVersion"; "QOperatingSystemVersionBase";
      "QParallelAnimationGroup"; "QPauseAnimation"; "QPermission"; "QPersistentModelIndex";
      "QPluginLoader"; "QPoint"; "QPointF"
    ].

Definition factory_qtcore_includes_4 : list (string * string) :=
  own_headers
    [
      "QProcess"; "QProcessEnvironment"; "QPropertyAnimation"; "QRandomGenerator"; "QRangeModel";
      "QReadLocker"; "QReadWriteLock"; "QRect"; "QRectF"; "QRecursiveMutex"; "QRegularExpression";
      "QRegularExpressionMatch"; "QRegularExpressionMatchIterator"; "QResource"; "QRunnable"; "QSaveFile";
      "QSemaphore"; "QSemaphoreReleaser"; "QSequentialAnimationGroup"; "QSettings"; "QSharedMemory";
      "QSignalBlocker"; "QSignalMapper"; "QSize"; "QSizeF"; "QSocketNotifier"; "QSortFilterProxyModel";
      "QStandardPaths"; "QStorageInfo"; "QStringConverter"; "QStringDecoder"; "QStringEncoder";
      "QStringListModel"
    ].

Definition factory_qtcore_includes_5 : list (string * string) :=
  own_headers
    [
      "QSysInfo"; "QSystemSemaphore"; "QTemporaryDir"; "QTemporaryFile"; "QTextBoundaryFinder";
      "QTextStream"; "QThread"; "QThreadPool"; "QTime"; "QTimeLine"; "QTimeZone"; "QTimer"; "QTimerEvent";
      "QTranslator"; "QTransposeProxyModel"; "QTypeRevision"; "QUrl"; "QUrlQuery"; "QUuid"; "QVariant";
      "QVariantAnimation"; "QVersionNumber"; "QWaitCondition"; "QWinEventNotifier"; "QWriteLocker";
      "QXmlStreamAttribute"; "QXmlStreamAttributes"; "QXmlStreamEntityDeclaration";
      "QXmlStreamEntityResolver"; "QXmlStreamNamespaceDeclaration"; "QXmlStreamNotationDeclaration";
      "QXmlStreamReader"; "QXmlStreamWriter"
    ].

Definition factory_qtcore_has_1 : list string :=
  [
    "QAbstractAnimation"; "QAbstractEventDispatcher"; "QAbstractItemModel"; "QAbstractListModel";
    "QAbstractNativeEventFilter"; "QAbstractProxyModel"; "QAbstractTableModel"; "QAnimationGroup";
    "QBasicTimer"; "QBitArray"; "QBluetoothPermission"; "QBuffer"; "QByteArray"; "QByteArrayMatcher";
    "QCalendar"; "QCalendarPermission"; "QCameraPermission"; "QCborError"; "QCborStreamReader";
    "QCborStreamWriter"; "QChar"; "QChildEvent"; "QCollator"; "QCollatorSortKey"; "QCommandLineOption";
    "QCommandLineParser"; "QConcatenateTablesProxyModel"; "QContactsPermission"; "QCoreApplication";
    "QCryptographicHash"; "QDataStream"; "QDate"; "QDateTime"; "QDeadlineTimer"; "QDir"; "QDirIterator";
    "QDynamicPropertyChangeEvent"; "QEasingCurve"; "QElapsedTimer"; "QEvent"; "QEventLoop";
    "QEventLoopLocker"
  ].

Definition factory_qtcore_has_2 : list string :=
  [
    "QFile"; "QFileDevice"; "QFileInfo"; "QFileSelector"; "QFileSystemWatcher"; "QGenericArgument";
    "QGenericReturnArgument"; "QIODevice"; "QIODeviceBase"; "QIdentityProxyModel"; "QItemSelection";
    "QItemSelectionModel"; "QItemSelectionRange"; "QJsonDocument"; "QJsonParseError"; "QJsonValue";
    "QKeyCombination"; "QLibrary"; "QLibraryInfo"; "QLine"; "QLineF"; "QLocale"; "QLocationPermission";
    "QLockFile"; "QLoggingCategory"; "QMargins"; "QMarginsF"; "QMessageAuthenticationCode";
    "QMessageLogContext"; "QMessageLogger"; "QMetaClassInfo"; "QMetaEnum"; "QMetaMethod"; "QMetaObject";
    "QMetaProperty"; "QMetaType"; "QMicrophonePermission"; "QMimeData"; "QMimeDatabase"; "QMimeType";
    "QModelIndex"; "QModelRoleData"
  ].

Definition factory_qtcore_has_3 : list string :=
  [
    "QModelRoleDataSpan"; "QMutex"; "QNativeInterface"; "QNativeIpcKey"; "QObject";
    "QObjectCleanupHandler"; "QOperatingSystemVersion"; "QOperatingSystemVersionBase";
    "QParallelAnimationGroup"; "QPauseAnimation"; "QPermission"; "QPersistentModelIndex"; "QPluginLoader";
    "QPoint"; "QPointF"; "QProcess"; "QProcessEnvironment"; "QPropertyAnimation"; "QRandomGenerator";
    "QRangeModel"; "QReadLocker"; "QReadWriteLock"; "QRect"; "QRectF"; "QRecursiveMutex";
    "QRegularExpression"; "QRegularExpressionMatch"; "QRegularExpressionMatchIterator"; "QResource";
    "QRunnable"; "QSaveFile"; "QSemaphore"; "QSemaphoreReleaser"; "QSequentialAnimationGroup"; "QSettings";
    "QSharedMemory"; "QSignalBlocker"; "QSignalMapper"; "QSize"; "QSizeF"; "QSocketNotifier";
    "QSortFilterProxyModel"
  ].

Definition factory_qtcore_has_4 : list string :=
  [
    "QStandardPaths"; "QStorageInfo"; "QStringConverter"; "QStringDecoder"; "QStringEncoder";
    "QStringListModel"; "QSysInfo"; "QSystemSemaphore"; "QTemporaryDir"; "QTemporaryFile";
    "QTextBoundaryFinder"; "QTextStream"; "QThread"; "QThreadPool"; "QTime"; "QTimeLine"; "QTimeZone";
    "QTimer"; "QTimerEvent"; "QTranslator"; "QTransposeProxyModel"; "QTypeRevision"; "QUrl"; "QUrlQuery";
    "QUuid"; "QVariant"; "QVariantAnimation"; "QVersionNumber"; "QWaitCondition"; "QWinEventNotifier";
    "QWriteLocker"; "QXmlStreamAttribute"; "QXmlStreamAttributes"; "QXmlStreamEntityDeclaration";
    "QXmlStreamEntityResolver"; "QXmlStreamNamespaceDeclaration"; "QXmlStreamNotationDeclaration";
    "QXmlStreamReader"; "QXmlStreamWriter"
  ].

Definition factory_qtcore_construct_1 : list string :=
  [
    "QAbstractAnimation"; "QAbstractEventDispatcher"; "QAbstractItemModel"; "QAbstractListModel";
    "QAbstractNativeEventFilter"; "QAbstractProxyModel"; "QAbstractTableModel"; "QAnimationGroup";
    "QBasicTimer"; "QBitArray"; "QBluetoothPermission"; "QBuffer"; "QByteArray"; "QByteArrayMatcher";
    "QCalendar"; "QCalendarPermission"; "QCameraPermission"; "QCborError"; "QCborStreamReader";
    "QCborStreamWriter"; "QChar"; "QChildEvent"; "QCollator"; "QCollatorSortKey"; "QCommandLineOption";
    "QCommandLineParser"; "QConcatenateTablesProxyModel"; "QContactsPermission"; "QCoreApplication";
    "QCryptographicHash"; "QDataStream"; "QDate"; "QDateTime"; "QDeadlineTimer"; "QDir"; "QDirIterator";
    "QDynamicPropertyChangeEvent"; "QEasingCurve"; "QElapsedTimer"; "QEvent"; "QEventLoop";
    "QEventLoopLocker"
  ].

Definition factory_qtcore_construct_2 : list string :=
  [
    "QFile"; "QFileDevice"; "QFileInfo"; "QFileSelector"; "QFileSystemWatcher"; "QGenericArgument";
    "QGenericReturnArgument"; "QIODevice"; "QIODeviceBase"; "QIdentityProxyModel"; "QItemSelection";
    "QItemSelectionModel"; "QItemSelectionRange"; "QJsonDocument"; "QJsonParseError"; "QJsonValue";
    "QKeyCombination"; "QLibrary"; "QLibraryInfo"; "QLine"; "QLineF"; "QLocale"; "QLocationPermission";
    "QLockFile"; "QLoggingCategory"; "QMargins"; "QMarginsF"; "QMessageAuthenticationCode";
    "QMessageLogContext"; "QMessageLogger"; "QMetaClassInfo"; "QMetaEnum"; "QMetaMethod"; "QMetaObject";
    "QMetaProperty"; "QMetaType"; "QMicrophonePermission"; "QMimeData"; "QMimeDatabase"; "QMimeType";
    "QModelIndex"; "QModelRoleData"
  ].

Definition factory_qtcore_construct_3 : list string :=
  [
    "QModelRoleDataSpan"; "QMutex"; "QNativeInterface"; "QNativeIpcKey"; "QObject";
    "QObjectCleanupHandler"; "QOperatingSystemVersion"; "QOperatingSystemVersionBase";
    "QParallelAnimationGroup"; "QPauseAnimation"; "QPermission"; "QPersistentModelIndex"; "QPluginLoader";
    "QPoint"; "QPointF"; "QProcess"; "QProcessEnvironment"; "QPropertyAnimation"; "QRandomGenerator";
    "QRangeModel"; "QReadLocker"; "QReadWriteLock"; "QRect"; "QRectF"; "QRecursiveMutex";
    "QRegularExpression"; "QRegularExpressionMatch"; "QRegularExpressionMatchIterator"; "QResource";
    "QRunnable"; "QSaveFile"; "QSemaphore"; "QSemaphoreReleaser"; "QSequentialAnimationGroup"; "QSettings";
    "QSharedMemory"; "QSignalBlocker"; "QSignalMapper"; "QSize"; "QSizeF"; "QSocketNotifier";
    "QSortFilterProxyModel"
  ].

Definition factory_qtcore_construct_4 : list string :=
  [
    "QStandardPaths"; "QStorageInfo"; "QStringConverter"; "QStringDecoder"; "QStringEncoder";
    "QStringListModel"; "QSysInfo"; "QSystemSemaphore"; "QTemporaryDir"; "QTemporaryFile";
    "QTextBoundaryFinder"; "QTextStream"; "QThread"; "QThreadPool"; "QTime"; "QTimeLine"; "QTimeZone";
    "QTimer"; "QTimerEvent"; "QTranslator"; "QTransposeProxyModel"; "QTypeRevision"; "QUrl"; "QUrlQuery";
    "QUuid"; "QVariant"; "QVariantAnimation"; "QVersionNumber"; "QWaitCondition"; "QWinEventNotifier";
    "QWriteLocker"; "QXmlStreamAttribute"; "QXmlStreamAttributes"; "QXmlStreamEntityDeclaration";
    "QXmlStreamEntityResolver"; "QXmlStreamNamespaceDeclaration"; "QXmlStreamNotationDeclaration";
    "QXmlStreamReader"; "QXmlStreamWriter"
  ].

Definition factory_qtcore_constructors_1 : list string :=
  [
    "QAbstractAnimation"; "QAbstractEventDispatcher"; "QAbstractItemModel"; "QAbstractListModel";
    "QAbstractNativeEventFilter"; "QAbstractProxyModel"; "QAbstractTableModel"; "QAnimationGroup";
    "QBasicTimer"; "QBitArray"; "QBluetoothPermission"; "QBuffer"; "QByteArray"; "QByteArrayMatcher";
    "QCalendar"; "QCalendarPermission"; "QCameraPermission"; "QCborError"; "QCborStreamReader";
    "QCborStreamWriter"; "QChar"; "QChildEvent"; "QCollator"; "QCollatorSortKey"; "QCommandLineOption";
    "QCommandLineParser"; "QConcatenateTablesProxyModel"; "QContactsPermission"; "QCoreApplication";
    "QCryptographicHash"; "QDataStream"; "QDate"; "QDateTime"; "QDeadlineTimer"; "QDir"; "QDirIterator";
    "QDynamicPropertyChangeEvent"; "QEasingCurve"; "QElapsedTimer"; "QEvent"; "QEventLoop";
    "QEventLoopLocker"
  ].

Definition factory_qtcore_constructors_2 : list string :=
  [
    "QFile"; "QFileDevice"; "QFileInfo"; "QFileSelector"; "QFileSystemWatcher"; "QGenericArgument";
    "QGenericReturnArgument"; "QIODevice"; "QIODeviceBase"; "QIdentityProxyModel"; "QItemSelection";
    "QItemSelectionModel"; "QItemSelectionRange"; "QJsonDocument"; "QJsonParseError"; "QJsonValue";
    "QKeyCombination"; "QLibrary"; "QLibraryInfo"; "QLine"; "QLineF"; "QLocale"; "QLocationPermission";
    "QLockFile"; "QLoggingCategory"; "QMargins"; "QMarginsF"; "QMessageAuthenticationCode";
    "QMessageLogContext"; "QMessageLogger"; "QMetaClassInfo"; "QMetaEnum"; "QMetaMethod"; "QMetaObject";
    "QMetaProperty"; "QMetaType"; "QMicrophonePermission"; "QMimeData"; "QMimeDatabase"; "QMimeType";
    "QModelIndex"; "QModelRoleData"
  ].

Definition factory_qtcore_constructors_3 : list string :=
  [
    "QModelRoleDataSpan"; "QMutex"; "QNativeInterface"; "QNativeIpcKey"; "QObject";
    "QObjectCleanupHandler"; "QOperatingSystemVersion"; "QOperatingSystemVersionBase";
    "QParallelAnimationGroup"; "QPauseAnimation"; "QPermission"; "QPersistentModelIndex"; "QPluginLoader";
    "QPoint"; "QPointF"; "QProcess"; "QProcessEnvironment"; "QPropertyAnimation"; "QRandomGenerator";
    "QRangeModel"; "QReadLocker"; "QReadWriteLock"; "QRect"; "QRectF"; "QRecursiveMutex";
    "QRegularExpression"; "QRegularExpressionMatch"; "QRegularExpressionMatchIterator"; "QResource";
    "QRunnable"; "QSaveFile"; "QSemaphore"; "QSemaphoreReleaser"; "QSequentialAnimationGroup"; "QSettings";
    "QSharedMemory"; "QSignalBlocker"; "QSignalMapper"; "QSize"; "QSizeF"; "QSocketNotifier";
    "QSortFilterProxyModel"
  ].

Definition factory_qtcore_constructors_4 : list string :=
  [
    "QStandardPaths"; "QStorageInfo"; "QStringConverter"; "QStringDecoder"; "QStringEncoder";
    "QStringListModel"; "QSysInfo"; "QSystemSemaphore"; "QTemporaryDir"; "QTemporaryFile";
    "QTextBoundaryFinder"; "QTextStream"; "QThread"; "QThreadPool"; "QTime"; "QTimeLine"; "QTimeZone";
    "QTimer"; "QTimerEvent"; "QTranslator"; "QTransposeProxyModel"; "QTypeRevision"; "QUrl"; "QUrlQuery";
    "QUuid"; "QVariant"; "QVariantAnimation"; "QVersionNumber"; "QWaitCondition"; "QWinEventNotifier";
    "QWriteLocker"; "QXmlStreamAttribute"; "QXmlStreamAttributes"; "QXmlStreamEntityDeclaration";
    "QXmlStreamEntityResolver"; "QXmlStreamNamespaceDeclaration"; "QXmlStreamNotationDeclaration";
    "QXmlStreamReader"; "QXmlStreamWriter"
  ].

Definition factory_qtcore_meta_object_1 : list string :=
  [
    "QAbstractAnimation"; "QAbstractEventDispatcher"; "QAbstractItemModel"; "QAbstractListModel";
    "QAbstractNativeEventFilter"; "QAbstractProxyModel"; "QAbstractTableModel"; "QAnimationGroup";
    "QBasicTimer"; "QBitArray"; "QBluetoothPermission"; "QBuffer"; "QByteArray"; "QByteArrayMatcher";
    "QCalendar"; "QCalendarPermission"; "QCameraPermission"; "QCborError"; "QCborStreamReader";
    "QCborStreamWriter"; "QChar"; "QChildEvent"; "QCollator"; "QCollatorSortKey"; "QCommandLineOption";
    "QCommandLineParser"; "QConcatenateTablesProxyModel"; "QContactsPermission"; "QCoreApplication";
    "QCryptographicHash"; "QDataStream"; "QDate"; "QDateTime"; "QDeadlineTimer"; "QDir"; "QDirIterator";
    "QDynamicPropertyChangeEvent"; "QEasingCurve"; "QElapsedTimer"; "QEvent"; "QEventLoop";
    "QEventLoopLocker"
  ].

Definition factory_qtcore_meta_object_2 : list string :=
  [
    "QFile"; "QFileDevice"; "QFileInfo"; "QFileSelector"; "QFileSystemWatcher"; "QGenericArgument";
    "QGenericReturnArgument"; "QIODevice"; "QIODeviceBase"; "QIdentityProxyModel"; "QItemSelection";
    "QItemSelectionModel"; "QItemSelectionRange"; "QJsonDocument"; "QJsonParseError"; "QJsonValue";
    "QKeyCombination"; "QLibrary"; "QLibraryInfo"; "QLine"; "QLineF"; "QLocale"; "QLocationPermission";
    "QLockFile"; "QLoggingCategory"; "QMargins"; "QMarginsF"; "QMessageAuthenticationCode";
    "QMessageLogContext"; "QMessageLogger"; "QMetaClassInfo"; "QMetaEnum"; "QMetaMethod"; "QMetaObject";
    "QMetaProperty"; "QMetaType"; "QMicrophonePermission"; "QMimeData"; "QMimeDatabase"; "QMimeType";
    "QModelIndex"; "QModelRoleData"
  ].

Definition factory_qtcore_meta_object_3 : list string :=
  [
    "QModelRoleDataSpan"; "QMutex"; "QNativeInterface"; "QNativeIpcKey"; "QObject";
    "QObjectCleanupHandler"; "QOperatingSystemVersion"; "QOperatingSystemVersionBase";
    "QParallelAnimationGroup"; "QPauseAnimation"; "QPermission"; "QPersistentModelIndex"; "QPluginLoader";
    "QPoint"; "QPointF"; "QProcess"; "QProcessEnvironment"; "QPropertyAnimation"; "QRandomGenerator";
    "QRangeModel"; "QReadLocker"; "QReadWriteLock"; "QRect"; "QRectF"; "QRecursiveMutex";
    "QRegularExpression"; "QRegularExpressionMatch"; "QRegularExpressionMatchIterator"; "QResource";
    "QRunnable"; "QSaveFile"; "QSemaphore"; "QSemaphoreReleaser"; "QSequentialAnimationGroup"; "QSettings";
    "QSharedMemory"; "QSignalBlocker"; "QSignalMapper"; "QSize"; "QSizeF"; "QSocketNotifier";
    "QSortFilterProxyModel"
  ].

Definition factory_qtcore_meta_object_4 : list string :=
  [
    "QStandardPaths"; "QStorageInfo"; "QStringConverter"; "QStringDecoder"; "QStringEncoder";
    "QStringListModel"; "QSysInfo"; "QSystemSemaphore"; "QTemporaryDir"; "QTemporaryFile";
    "QTextBoundaryFinder"; "QTextStream"; "QThread"; "QThreadPool"; "QTime"; "QTimeLine"; "QTimeZone";
    "QTimer"; "QTimerEvent"; "QTranslator"; "QTransposeProxyModel"; "QTypeRevision"; "QUrl"; "QUrlQuery";
    "QUuid"; "QVariant"; "QVariantAnimation"; "QVersionNumber"; "QWaitCondition"; "QWinEventNotifier";
    "QWriteLocker"; "QXmlStreamAttribute"; "QXmlStreamAttributes"; "QXmlStreamEntityDeclaration";
    "QXmlStreamEntityResolver"; "QXmlStreamNamespaceDeclaration"; "QXmlStreamNotationDeclaration";
    "QXmlStreamReader"; "QXmlStreamWriter"
  ].

Definition factory_qtcore_meta_object_names_1 : list string :=
  [
    "QAbstractAnimation"; "QAbstractEventDispatcher"; "QAbstractItemModel"; "QAbstractListModel";
    "QAbstractNativeEventFilter"; "QAbstractProxyModel"; "QAbstractTableModel"; "QAnimationGroup";
    "QBasicTimer"; "QBitArray"; "QBluetoothPermission"; "QBuffer"; "QByteArray"; "QByteArrayMatcher";
    "QCalendar"; "QCalendarPermission"; "QCameraPermission"; "QCborError"; "QCborStreamReader";
    "QCborStreamWriter"; "QChar"; "QChildEvent"; "QCollator"; "QCollatorSortKey"; "QCommandLineOption";
    "QCommandLineParser"; "QConcatenateTablesProxyModel"; "QContactsPermission"; "QCoreApplication";
    "QCryptographicHash"; "QDataStream"; "QDate"; "QDateTime"; "QDeadlineTimer"; "QDir"; "QDirIterator";
    "QDynamicPropertyChangeEvent"; "QEasingCurve"; "QElapsedTimer"; "QEvent"; "QEventLoop";
    "QEventLoopLocker"
  ].

Definition factory_qtcore_meta_object_names_2 : list string :=
  [
    "QFile"; "QFileDevice"; "QFileInfo"; "QFileSelector"; "QFileSystemWatcher"; "QGenericArgument";
    "QGenericReturnArgument"; "QIODevice"; "QIODeviceBase"; "QIdentityProxyModel"; "QItemSelection";
    "QItemSelectionModel"; "QItemSelectionRange"; "QJsonDocument"; "QJsonParseError"; "QJsonValue";
    "QKeyCombination"; "QLibrary"; "QLibraryInfo"; "QLine"; "QLineF"; "QLocale"; "QLocationPermission";
    "QLockFile"; "QLoggingCategory"; "QMargins"; "QMarginsF"; "QMessageAuthenticationCode";
    "QMessageLogContext"; "QMessageLogger"; "QMetaClassInfo"; "QMetaEnum"; "QMetaMethod"; "QMetaObject";
    "QMetaProperty"; "QMetaType"; "QMicrophonePermission"; "QMimeData"; "QMimeDatabase"; "QMimeType";
    "QModelIndex"; "QModelRoleData"
  ].

Definition factory_qtcore_meta_object_names_3 : list string :=
  [
    "QModelRoleDataSpan"; "QMutex"; "QNativeInterface"; "QNativeIpcKey"; "QObject";
    "QObjectCleanupHandler"; "QOperatingSystemVersion"; "QOperatingSystemVersionBase";
    "QParallelAnimationGroup"; "QPauseAnimation"; "QPermission"; "QPersistentModelIndex"; "QPluginLoader";
    "QPoint"; "QPointF"; "QProcess"; "QProcessEnvironment"; "QPropertyAnimation"; "QRandomGenerator";
    "QRangeModel"; "QReadLocker"; "QReadWriteLock"; "QRect"; "QRectF"; "QRecursiveMutex";
    "QRegularExpression"; "QRegularExpressionMatch"; "QRegularExpressionMatchIterator"; "QResource";
    "QRunnable"; "QSaveFile"; "QSemaphore"; "QSemaphoreReleaser"; "QSequentialAnimationGroup"; "QSettings";
    "QSharedMemory"; "QSignalBlocker"; "QSignalMapper"; "QSize"; "QSizeF"; "QSocketNotifier";
    "QSortFilterProxyModel"
  ].

Definition factory_qtcore_meta_object_names_4 : list string :=
  [
    "QStandardPaths"; "QStorageInfo"; "QStringConverter"; "QStringDecoder"; "QStringEncoder";
    "QStringListModel"; "QSysInfo"; "QSystemSemaphore"; "QTemporaryDir"; "QTemporaryFile";
    "QTextBoundaryFinder"; "QTextStream"; "QThread"; "QThreadPool"; "QTime"; "QTimeLine"; "QTimeZone";
    "QTimer"; "QTimerEvent"; "QTranslator"; "QTransposeProxyModel"; "QTypeRevision"; "QUrl"; "QUrlQuery";
    "QUuid"; "QVariant"; "QVariantAnimation"; "QVersionNumber"; "QWaitCondition"; "QWinEventNotifier";
    "QWriteLocker"; "QXmlStreamAttribute"; "QXmlStreamAttributes"; "QXmlStreamEntityDeclaration";
    "QXmlStreamEntityResolver"; "QXmlStreamNamespaceDeclaration"; "QXmlStreamNotationDeclaration";
    "QXmlStreamReader"; "QXmlStreamWriter"
  ].

Definition factory_qtcore_value_type_1 : list string :=
  [
    "QAbstractAnimation"; "QAbstractEventDispatcher"; "QAbstractItemModel"; "QAbstractListModel";
    "QAbstractNativeEventFilter"; "QAbstractProxyModel"; "QAbstractTableModel"; "QAnimationGroup";
    "QBasicTimer"; "QBitArray"; "QBluetoothPermission"; "QBuffer"; "QByteArray"; "QByteArrayMatcher";
    "QCalendar"; "QCalendarPermission"; "QCameraPermission"; "QCborError"; "QCborStreamReader";
    "QCborStreamWriter"; "QChar"; "QChildEvent"; "QCollator"; "QCollatorSortKey"; "QCommandLineOption";
    "QCommandLineParser"; "QConcatenateTablesProxyModel"; "QContactsPermission"; "QCoreApplication";
    "QCryptographicHash"; "QDataStream"; "QDate"; "QDateTime"; "QDeadlineTimer"; "QDir"; "QDirIterator";
    "QDynamicPropertyChangeEvent"; "QEasingCurve"; "QElapsedTimer"; "QEvent"; "QEventLoop";
    "QEventLoopLocker"
  ].

Definition factory_qtcore_value_type_2 : list string :=
  [
    "QFile"; "QFileDevice"; "QFileInfo"; "QFileSelector"; "QFileSystemWatcher"; "QGenericArgument";
    "QGenericReturnArgument"; "QIODevice"; "QIODeviceBase"; "QIdentityProxyModel"; "QItemSelection";
    "QItemSelectionModel"; "QItemSelectionRange"; "QJsonDocument"; "QJsonParseError"; "QJsonValue";
    "QKeyCombination"; "QLibrary"; "QLibraryInfo"; "QLine"; "QLineF"; "QLocale"; "QLocationPermission";
    "QLockFile"; "QLoggingCategory"; "QMargins"; "QMarginsF"; "QMessageAuthenticationCode";
    "QMessageLogContext"; "QMessageLogger"; "QMetaClassInfo"; "QMetaEnum"; "QMetaMethod"; "QMetaObject";
    "QMetaProperty"; "QMetaType"; "QMicrophonePermission"; "QMimeData"; "QMimeDatabase"; "QMimeType";
    "QModelIndex"; "QModelRoleData"
  ].

Definition factory_qtcore_value_type_3 : list string :=
  [
    "QModelRoleDataSpan"; "QMutex"; "QNativeInterface"; "QNativeIpcKey"; "QObject";
    "QObjectCleanupHandler"; "QOperatingSystemVersion"; "QOperatingSystemVersionBase";
    "QParallelAnimationGroup"; "QPauseAnimation"; "QPermission"; "QPersistentModelIndex"; "QPluginLoader";
    "QPoint"; "QPointF"; "QProcess"; "QProcessEnvironment"; "QPropertyAnimation"; "QRandomGenerator";
    "QRangeModel"; "QReadLocker"; "QReadWriteLock"; "QRect"; "QRectF"; "QRecursiveMutex";
    "QRegularExpression"; "QRegularExpressionMatch"; "QRegularExpressionMatchIterator"; "QResource";
    "QRunnable"; "QSaveFile"; "QSemaphore"; "QSemaphoreReleaser"; "QSequentialAnimationGroup"; "QSettings";
    "QSharedMemory"; "QSignalBlocker"; "QSignalMapper"; "QSize"; "QSizeF"; "QSocketNotifier";
    "QSortFilterProxyModel"
  ].

Definition factory_qtcore_value_type_4 : list string :=
  [
    "QStandardPaths"; "QStorageInfo"; "QStringConverter"; "QStringDecoder"; "QStringEncoder";
    "QStringListModel"; "QSysInfo"; "QSystemSemaphore"; "QTemporaryDir"; "QTemporaryFile";
    "QTextBoundaryFinder"; "QTextStream"; "QThread"; "QThreadPool"; "QTime"; "QTimeLine"; "QTimeZone";
    "QTimer"; "QTimerEvent"; "QTranslator"; "QTransposeProxyModel"; "QTypeRevision"; "QUrl"; "QUrlQuery";
    "QUuid"; "QVariant"; "QVariantAnimation"; "QVersionNumber"; "QWaitCondition"; "QWinEventNotifier";
    "QWriteLocker"; "QXmlStreamAttribute"; "QXmlStreamAttributes"; "QXmlStreamEntityDeclaration";
    "QXmlStreamEntityResolver"; "QXmlStreamNamespaceDeclaration"; "QXmlStreamNotationDeclaration";
    "QXmlStreamReader"; "QXmlStreamWriter"
  ].

Definition factory_qtcore : factory_module :=
  FactoryModule "QtCore" "QtCore"
    (factory_qtcore_includes_1 ++ factory_qtcore_includes_2 ++ factory_qtcore_includes_3 ++
     factory_qtcore_includes_4 ++ factory_qtcore_includes_5)
    (factory_qtcore_has_1 ++ factory_qtcore_has_2 ++ factory_qtcore_has_3 ++ factory_qtcore_has_4)
    (factory_qtcore_construct_1 ++ factory_qtcore_construct_2 ++ factory_qtcore_construct_3 ++
     factory_qtcore_construct_4)
    (factory_qtcore_constructors_1 ++ factory_qtcore_constructors_2 ++
     factory_qtcore_constructors_3 ++ factory_qtcore_constructors_4)
    (factory_qtcore_meta_object_1 ++ factory_qtcore_meta_object_2 ++
     factory_qtcore_meta_object_3 ++ factory_qtcore_meta_object_4)
    (factory_qtcore_meta_object_names_1 ++ factory_qtcore_meta_object_names_2 ++
     factory_qtcore_meta_object_names_3 ++ factory_qtcore_meta_object_names_4)
    (factory_qtcore_value_type_1 ++ factory_qtcore_value_type_2 ++ factory_qtcore_value_type_3 ++
     factory_qtcore_value_type_4)
    [
      "QAbstractAnimation"; "QAbstractEventDispatcher"; "QAbstractItemModel"; "QAbstractListModel";
      "QAbstractNativeEventFilter"; "QAbstractProxyModel"; "QAbstractTableModel"; "QAnimationGroup";
      "QBasicTimer"; "QBitArray"; "QBluetoothPermission"; "QBuffer"; "QByteArray"; "QByteArrayMatcher";
      "QCalendar"; "QCalendarPermission"; "QCameraPermission"; "QCborError"; "QCborStreamReader";
      "QCborStreamWriter"; "QChar"; "QChildEvent"; "QCollator"; "QCollatorSortKey"; "QCommandLineOption";
      "QCommandLineParser"; "QConcatenateTablesProxyModel"; "QContactsPermission"; "QCoreApplication";
      "QCryptographicHash"; "QDataStream"; "QDate"; "QDateTime"; "QDeadlineTimer"; "QDir"; "QDirIterator";
      "QDynamicPropertyChangeEvent"; "QEasingCurve"; "QElapsedTimer"; "QEvent"; "QEventLoop";
      "QEventLoopLocker"; "QFile"; "QFileDevice"; "QFileInfo"; "QFileSelector"; "QFileSystemWatcher";
      "QGenericArgument"; "QGenericReturnArgument"; "QIODevice"; "QIODeviceBase"; "QIdentityProxyModel";
      "QItemSelection"; "QItemSelectionModel"; "QItemSelectionRange"; "QJsonDocument"; "QJsonParseError";
      "QJsonValue"; "QKeyCombination"; "QLibrary"; "QLibraryInfo"; "QLine"; "QLineF"; "QLocale";
      "QLocationPermission"; "QLockFile"; "QLoggingCategory"; "QMargins"; "QMarginsF";
      "QMessageAuthenticationCode"; "QMessageLogContext"; "QMessageLogger"; "QMetaClassInfo"; "QMetaEnum";
      "QMetaMethod"; "QMetaObject"; "QMetaProperty"; "QMetaType"; "QMicrophonePermission"; "QMimeData";
      "QMimeDatabase"; "QMimeType"; "QModelIndex"; "QModelRoleData"; "QModelRoleDataSpan"; "QMutex";
      "QNativeInterface"; "QNativeIpcKey"; "QObject"; "QObjectCleanupHandler"; "QOperatingSystemVersion";
      "QOperatingSystemVersionBase"; "QParallelAnimationGroup"; "QPauseAnimation"; "QPermission";
      "QPersistentModelIndex"; "QPluginLoader"; "QPoint"; "QPointF"; "QProcess"; "QProcessEnvironment";
      "QPropertyAnimation"; "QRandomGenerator"; "QRangeModel"; "QReadLocker"; "QReadWriteLock"; "QRect";
      "QRectF"; "QRecursiveMutex"; "QRegularExpression"; "QRegularExpressionMatch";
      "QRegularExpressionMatchIterator"; "QResource"; "QRunnable"; "QSaveFile"; "QSemaphore";
      "QSemaphoreReleaser"; "QSequentialAnimationGroup"; "QSettings"; "QSharedMemory"; "QSignalBlocker";
      "QSignalMapper"; "QSize"; "QSizeF"; "QSocketNotifier"; "QSortFilterProxyModel"; "QStandardPaths";
      "QStorageInfo"; "QStringConverter"; "QStringDecoder"; "QStringEncoder"; "QStringListModel";
      "QSysInfo"; "QSystemSemaphore"; "QTemporaryDir"; "QTemporaryFile"; "QTextBoundaryFinder";
      "QTextStream"; "QThread"; "QThreadPool"; "QTime"; "QTimeLine"; "QTimeZone"; "QTimer"; "QTimerEvent";
      "QTranslator"; "QTransposeProxyModel"; "QTypeRevision"; "QUrl"; "QUrlQuery"; "QUuid"; "QVariant";
      "QVariantAnimation"; "QVersionNumber"; "QWaitCondition"; "QWinEventNotifier"; "QWriteLocker";
      "QXmlStreamAttribute"; "QXmlStreamAttributes"; "QXmlStreamEntityDeclaration";
      "QXmlStreamEntityResolver"; "QXmlStreamNamespaceDeclaration"; "QXmlStreamNotationDeclaration";
      "QXmlStreamReader"; "QXmlStreamWriter"
    ]
    [
      "QBuffer"; "QConcatenateTablesProxyModel"; "QEventLoop"; "QFile"; "QFileSystemWatcher";
      "QIdentityProxyModel"; "QItemSelectionModel"; "QLibrary"; "QObject"; "QPluginLoader"; "QProcess";
      "QSaveFile"; "QSettings"; "QSignalMapper"; "QSortFilterProxyModel"; "QStringListModel";
      "QTemporaryFile"; "QThread"; "QThreadPool"; "QTimer"; "QTranslator"; "QTransposeProxyModel"
    ].

Definition factory_qtdatavisualization : factory_module :=
  same_rows "QtDataVisualization" "QtDataVisualization"
    [
      "QAbstract3DAxis"; "QAbstract3DGraph"; "QAbstract3DInputHandler"; "QAbstract3DSeries";
      "QAbstractDataProxy"; "QBar3DSeries"; "QBarDataItem"; "QBarDataProxy"; "QCategory3DAxis";
      "QCustom3DItem"; "QCustom3DLabel"; "QCustom3DVolume"; "QHeightMapSurfaceDataProxy";
      "QItemModelBarDataProxy"; "QItemModelScatterDataProxy"; "QItemModelSurfaceDataProxy";
      "QLogValue3DAxisFormatter"; "QScatter3DSeries"; "QScatterDataItem"; "QScatterDataProxy";
      "QSurface3DSeries"; "QSurfaceDataItem"; "QSurfaceDataProxy"; "QTouch3DInputHandler"; "QValue3DAxis";
      "QValue3DAxisFormatter"
    ]
    [].

Definition factory_qtdbus : factory_module :=
  same_rows "QtDBus" "QtDBus"
    [
      "QDBus"; "QDBusAbstractAdaptor"; "QDBusAbstractInterface"; "QDBusArgument"; "QDBusConnection";
      "QDBusConnectionInterface"; "QDBusError"; "QDBusInterface"; "QDBusMessage"; "QDBusObjectPath";
      "QDBusPendingCall"; "QDBusPendingCallWatcher"; "QDBusServiceWatcher"; "QDBusSignature";
      "QDBusUnixFileDescriptor"; "QDBusVariant"
    ]
    [].

Definition factory_qtdesigner : factory_module :=
  same_rows "QtDesigner" "QtDesigner"
    [
      "QAbstractExtensionFactory"; "QAbstractExtensionManager"; "QAbstractFormBuilder";
      "QDesignerActionEditorInterface"; "QDesignerContainerExtension";
      "QDesignerCustomWidgetCollectionInterface"; "QDesignerCustomWidgetInterface";
      "QDesignerFormEditorInterface"; "QDesignerFormWindowCursorInterface"; "QDesignerFormWindowInterface";
      "QDesignerFormWindowManagerInterface"; "QDesignerMemberSheetExtension";
      "QDesignerObjectInspectorInterface"; "QDesignerPropertyEditorInterface";
      "QDesignerPropertySheetExtension"; "QDesignerTaskMenuExtension"; "QDesignerWidgetBoxInterface";
      "QExtensionFactory"; "QExtensionManager"; "QFormBuilder"
    ]
    [].

Definition factory_qtgraphs_includes_1 : list (string * string) :=
  own_headers
    [
      "QAbstract3DAxis"; "QAbstract3DSeries"; "QAbstractAxis"; "QAbstractDataProxy"; "QAbstractSeries";
      "QAreaSeries"; "QBar3DSeries"; "QBarCategoryAxis"; "QBarDataItem"; "QBarDataProxy";
      "QBarModelMapper"; "QBarSeries"; "QBarSet"; "QCategory3DAxis"; "QCustom3DItem"; "QCustom3DLabel";
      "QCustom3DVolume"; "QCustomSeries"; "QDateTimeAxis"; "QGraphsLine"; "QGraphsTheme";
      "QHeightMapSurfaceDataProxy"; "QItemModelBarDataProxy"
    ].

Definition factory_qtgraphs_includes_2 : list (string * string) :=
  own_headers
    [
      "QItemModelScatterDataProxy"; "QItemModelSurfaceDataProxy"; "QLegendData"; "QLineSeries";
      "QLogValue3DAxisFormatter"; "QPieModelMapper"; "QPieSeries"; "QPieSlice"; "QScatter3DSeries";
      "QScatterDataItem"; "QScatterDataProxy"; "QScatterSeries"; "QSpline3DSeries"; "QSplineSeries";
      "QSurface3DSeries"; "QSurfaceDataItem"; "QSurfaceDataProxy"; "QValue3DAxis"; "QValue3DAxisFormatter";
      "QValueAxis"; "QXYModelMapper"; "QXYSeries"
    ].

Definition factory_qtgraphs_has : list string :=
  [
    "QAbstract3DAxis"; "QAbstract3DSeries"; "QAbstractAxis"; "QAbstractDataProxy"; "QAbstractSeries";
    "QAreaSeries"; "QBar3DSeries"; "QBarCategoryAxis"; "QBarDataItem"; "QBarDataProxy"; "QBarModelMapper";
    "QBarSeries"; "QBarSet"; "QCategory3DAxis"; "QCustom3DItem"; "QCustom3DLabel"; "QCustom3DVolume";
    "QCustomSeries"; "QDateTimeAxis"; "QGraphsLine"; "QGraphsTheme"; "QHeightMapSurfaceDataProxy";
    "QItemModelBarDataProxy"; "QItemModelScatterDataProxy"; "QItemModelSurfaceDataProxy"; "QLegendData";
    "QLineSeries"; "QLogValue3DAxisFormatter"; "QPieModelMapper"; "QPieSeries"; "QPieSlice";
    "QScatter3DSeries"; "QScatterDataItem"; "QScatterDataProxy"; "QScatterSeries"; "QSpline3DSeries";
    "QSplineSeries"; "QSurface3DSeries"; "QSurfaceDataItem"; "QSurfaceDataProxy"; "QValue3DAxis";
    "QValue3DAxisFormatter"; "QValueAxis"; "QXYModelMapper"; "QXYSeries"
  ].

Definition factory_qtgraphs_construct : list string :=
  [
    "QAbstract3DAxis"; "QAbstract3DSeries"; "QAbstractAxis"; "QAbstractDataProxy"; "QAbstractSeries";
    "QAreaSeries"; "QBar3DSeries"; "QBarCategoryAxis"; "QBarDataItem"; "QBarDataProxy"; "QBarModelMapper";
    "QBarSeries"; "QBarSet"; "QCategory3DAxis"; "QCustom3DItem"; "QCustom3DLabel"; "QCustom3DVolume";
    "QCustomSeries"; "QDateTimeAxis"; "QGraphsLine"; "QGraphsTheme"; "QHeightMapSurfaceDataProxy";
    "QItemModelBarDataProxy"; "QItemModelScatterDataProxy"; "QItemModelSurfaceDataProxy"; "QLegendData";
    "QLineSeries"; "QLogValue3DAxisFormatter"; "QPieModelMapper"; "QPieSeries"; "QPieSlice";
    "QScatter3DSeries"; "QScatterDataItem"; "QScatterDataProxy"; "QScatterSeries"; "QSpline3DSeries";
    "QSplineSeries"; "QSurface3DSeries"; "QSurfaceDataItem"; "QSurfaceDataProxy"; "QValue3DAxis";
    "QValue3DAxisFormatter"; "QValueAxis"; "QXYModelMapper"; "QXYSeries"
  ].

Definition factory_qtgraphs_constructors : list string :=
  [
    "QAbstract3DAxis"; "QAbstract3DSeries"; "QAbstractAxis"; "QAbstractDataProxy"; "QAbstractSeries";
    "QAreaSeries"; "QBar3DSeries"; "QBarCategoryAxis"; "QBarDataItem"; "QBarDataProxy"; "QBarModelMapper";
    "QBarSeries"; "QBarSet"; "QCategory3DAxis"; "QCustom3DItem"; "QCustom3DLabel"; "QCustom3DVolume";
    "QCustomSeries"; "QDateTimeAxis"; "QGraphsLine"; "QGraphsTheme"; "QHeightMapSurfaceDataProxy";
    "QItemModelBarDataProxy"; "QItemModelScatterDataProxy"; "QItemModelSurfaceDataProxy"; "QLegendData";
    "QLineSeries"; "QLogValue3DAxisFormatter"; "QPieModelMapper"; "QPieSeries"; "QPieSlice";
    "QScatter3DSeries"; "QScatterDataItem"; "QScatterDataProxy"; "QScatterSeries"; "QSpline3DSeries";
    "QSplineSeries"; "QSurface3DSeries"; "QSurfaceDataItem"; "QSurfaceDataProxy"; "QValue3DAxis";
    "QValue3DAxisFormatter"; "QValueAxis"; "QXYModelMapper"; "QXYSeries"
  ].

Definition factory_qtgraphs_meta_object : list string :=
  [
    "QAbstract3DAxis"; "QAbstract3DSeries"; "QAbstractAxis"; "QAbstractDataProxy"; "QAbstractSeries";
    "QAreaSeries"; "QBar3DSeries"; "QBarCategoryAxis"; "QBarDataItem"; "QBarDataProxy"; "QBarModelMapper";
    "QBarSeries"; "QBarSet"; "QCategory3DAxis"; "QCustom3DItem"; "QCustom3DLabel"; "QCustom3DVolume";
    "QCustomSeries"; "QDateTimeAxis"; "QGraphsLine"; "QGraphsTheme"; "QHeightMapSurfaceDataProxy";
    "QItemModelBarDataProxy"; "QItemModelScatterDataProxy"; "QItemModelSurfaceDataProxy"; "QLegendData";
    "QLineSeries"; "QLogValue3DAxisFormatter"; "QPieModelMapper"; "QPieSeries"; "QPieSlice";
    "QScatter3DSeries"; "QScatterDataItem"; "QScatterDataProxy"; "QScatterSeries"; "QSpline3DSeries";
    "QSplineSeries"; "QSurface3DSeries"; "QSurfaceDataItem"; "QSurfaceDataProxy"; "QValue3DAxis";
    "QValue3DAxisFormatter"; "QValueAxis"; "QXYModelMapper"; "QXYSeries"
  ].

Definition factory_qtgraphs_meta_object_names : list string :=
  [
    "QAbstract3DAxis"; "QAbstract3DSeries"; "QAbstractAxis"; "QAbstractDataProxy"; "QAbstractSeries";
    "QAreaSeries"; "QBar3DSeries"; "QBarCategoryAxis"; "QBarDataItem"; "QBarDataProxy"; "QBarModelMapper";
    "QBarSeries"; "QBarSet"; "QCategory3DAxis"; "QCustom3DItem"; "QCustom3DLabel"; "QCustom3DVolume";
    "QCustomSeries"; "QDateTimeAxis"; "QGraphsLine"; "QGraphsTheme"; "QHeightMapSurfaceDataProxy";
    "QItemModelBarDataProxy"; "QItemModelScatterDataProxy"; "QItemModelSurfaceDataProxy"; "QLegendData";
    "QLineSeries"; "QLogValue3DAxisFormatter"; "QPieModelMapper"; "QPieSeries"; "QPieSlice";
    "QScatter3DSeries"; "QScatterDataItem"; "QScatterDataProxy"; "QScatterSeries"; "QSpline3DSeries";
    "QSplineSeries"; "QSurface3DSeries"; "QSurfaceDataItem"; "QSurfaceDataProxy"; "QValue3DAxis";
    "QValue3DAxisFormatter"; "QValueAxis"; "QXYModelMapper"; "QXYSeries"
  ].

Definition factory_qtgraphs_value_type : list string :=
  [
    "QAbstract3DAxis"; "QAbstract3DSeries"; "QAbstractAxis"; "QAbstractDataProxy"; "QAbstractSeries";
    "QAreaSeries"; "QBar3DSeries"; "QBarCategoryAxis"; "QBarDataItem"; "QBarDataProxy"; "QBarModelMapper";
    "QBarSeries"; "QBarSet"; "QCategory3DAxis"; "QCustom3DItem"; "QCustom3DLabel"; "QCustom3DVolume";
    "QCustomSeries"; "QDateTimeAxis"; "QGraphsLine"; "QGraphsTheme"; "QHeightMapSurfaceDataProxy";
    "QItemModelBarDataProxy"; "QItemModelScatterDataProxy"; "QItemModelSurfaceDataProxy"; "QLegendData";
    "QLineSeries"; "QLogValue3DAxisFormatter"; "QPieModelMapper"; "QPieSeries"; "QPieSlice";
    "QScatter3DSeries"; "QScatterDataItem"; "QScatterDataProxy"; "QScatterSeries"; "QSpline3DSeries";
    "QSplineSeries"; "QSurface3DSeries"; "QSurfaceDataItem"; "QSurfaceDataProxy"; "QValue3DAxis";
    "QValue3DAxisFormatter"; "QValueAxis"; "QXYModelMapper"; "QXYSeries"
  ].

Definition factory_qtgraphs : factory_module :=
  FactoryModule "QtGraphs" "QtGraphs"
    (factory_qtgraphs_includes_1 ++ factory_qtgraphs_includes_2)
    (factory_qtgraphs_has)
    (factory_qtgraphs_construct)
    (factory_qtgraphs_constructors)
    (factory_qtgraphs_meta_object)
    (factory_qtgraphs_meta_object_names)
    (factory_qtgraphs_value_type)
    [
      "QAbstract3DAxis"; "QAbstract3DSeries"; "QAbstractAxis"; "QAbstractDataProxy"; "QAbstractSeries";
      "QAreaSeries"; "QBar3DSeries"; "QBarCategoryAxis"; "QBarDataItem"; "QBarDataProxy";
      "QBarModelMapper"; "QBarSeries"; "QBarSet"; "QCategory3DAxis"; "QCustom3DItem"; "QCustom3DLabel";
      "QCustom3DVolume"; "QCustomSeries"; "QDateTimeAxis"; "QGraphsLine"; "QGraphsTheme";
      "QHeightMapSurfaceDataProxy"; "QItemModelBarDataProxy"; "QItemModelScatterDataProxy";
      "QItemModelSurfaceDataProxy"; "QLegendData"; "QLineSeries"; "QLogValue3DAxisFormatter";
      "QPieModelMapper"; "QPieSeries"; "QPieSlice"; "QScatter3DSeries"; "QScatterDataItem";
      "QScatterDataProxy"; "QScatterSeries"; "QSpline3DSeries"; "QSplineSeries"; "QSurface3DSeries";
      "QSurfaceDataItem"; "QSurfaceDataProxy"; "QValue3DAxis"; "QValue3DAxisFormatter"; "QValueAxis";
      "QXYModelMapper"; "QXYSeries"
    ]
    [].

Definition factory_qtgraphswidgets : factory_module :=
  same_rows "QtGraphsWidgets" "QtGraphsWidgets"
    []
    [].

Definition factory_qtgui_includes_1 : list (string * string) :=
  own_headers
    [
      "QAbstractFileIconProvider"; "QAbstractTextDocumentLayout"; "QAccessibilityHints"; "QAction";
      "QActionEvent"; "QActionGroup"; "QBackingStore"; "QBitmap"; "QBrush"; "QChildWindowEvent";
      "QClipboard"; "QCloseEvent"; "QColor"; "QColorConstants"; "QColorSpace"; "QColorTransform";
      "QConicalGradient"; "QContextMenuEvent"; "QCursor"; "QDesktopServices"; "QDoubleValidator"; "QDrag";
      "QDragEnterEvent"; "QDragLeaveEvent"; "QDragMoveEvent"; "QDropEvent"; "QEnterEvent"; "QEventPoint";
      "QExposeEvent"; "QFileOpenEvent"; "QFileSystemModel"; "QFocusEvent"; "QFont"; "QFontDatabase";
      "QFontInfo"
    ].

Definition factory_qtgui_includes_2 : list (string * string) :=
  own_headers
    [
      "QFontMetrics"; "QFontMetricsF"; "QFontVariableAxis"; "QGlyphRun"; "QGradient"; "QGuiApplication";
      "QHelpEvent"; "QHideEvent"; "QHoverEvent"; "QIcon"; "QIconDragEvent"; "QIconEngine"; "QImage";
      "QImageIOHandler"; "QImageReader"; "QImageWriter"; "QInputDevice"; "QInputEvent"; "QInputMethod";
      "QInputMethodEvent"; "QInputMethodQueryEvent"; "QIntValidator"; "QKeyEvent"; "QKeySequence";
      "QLinearGradient"; "QMatrix2x2"; "QMatrix2x3"; "QMatrix2x4"; "QMatrix3x2"; "QMatrix3x3";
      "QMatrix3x4"; "QMatrix4x2"; "QMatrix4x3"; "QMatrix4x4"; "QMouseEvent"
    ].

Definition factory_qtgui_includes_3 : list (string * string) :=
  own_headers
    [
      "QMoveEvent"; "QMovie"; "QNativeGestureEvent"; "QOffscreenSurface"; "QOpenGLContext";
      "QOpenGLContextGroup"; "QPageLayout"; "QPageRanges"; "QPageSize"; "QPagedPaintDevice";
      "QPaintDevice"; "QPaintDeviceWindow"; "QPaintEngine"; "QPaintEngineState"; "QPaintEvent"; "QPainter";
      "QPainterPath"; "QPainterPathStroker"; "QPainterStateGuard"; "QPalette"; "QPdfOutputIntent";
      "QPdfWriter"; "QPen"; "QPicture"; "QPixelFormat"; "QPixmap"; "QPixmapCache"; "QPlatformSurfaceEvent";
      "QPointerEvent"; "QPointingDevice"; "QPointingDeviceUniqueId"; "QPolygon"; "QPolygonF";
      "QQuaternion"; "QRadialGradient"
    ].

Definition factory_qtgui_includes_4 : list (string * string) :=
  own_headers
    [
      "QRasterWindow"; "QRawFont"; "QRegion"; "QRegularExpressionValidator"; "QResizeEvent"; "QRgba64";
      "QScreen"; "QScrollEvent"; "QScrollPrepareEvent"; "QSessionManager"; "QShortcut"; "QShortcutEvent";
      "QShowEvent"; "QSinglePointEvent"; "QStandardItem"; "QStandardItemModel"; "QStaticText";
      "QStatusTipEvent"; "QStyleHints"; "QSurface"; "QSurfaceFormat"; "QSyntaxHighlighter"; "QTabletEvent";
      "QTextBlock"; "QTextBlockFormat"; "QTextBlockGroup"; "QTextBlockUserData"; "QTextCharFormat";
      "QTextCursor"; "QTextDocument"; "QTextDocumentFragment"; "QTextDocumentWriter"; "QTextFormat";
      "QTextFragment"; "QTextFrame"
    ].

Definition factory_qtgui_includes_5 : list (string * string) :=
  own_headers
    [
      "QTextFrameFormat"; "QTextImageFormat"; "QTextInlineObject"; "QTextItem"; "QTextLayout";
      "QTextLength"; "QTextLine"; "QTextList"; "QTextListFormat"; "QTextObject"; "QTextObjectInterface";
      "QTextOption"; "QTextTable"; "QTextTableCell"; "QTextTableCellFormat"; "QTextTableFormat";
      "QTouchEvent"; "QTransform"; "QUndoCommand"; "QUndoGroup"; "QUndoStack"; "QUtiMimeConverter";
      "QValidator"; "QVector2D"; "QVector3D"; "QVector4D"; "QWaylandApplication"; "QWhatsThisClickedEvent";
      "QWheelEvent"; "QWindow"; "QWindowStateChangeEvent"; "QX11Application"
    ].

Definition factory_qtgui_has_1 : list string :=
  [
    "QAbstractFileIconProvider"; "QAbstractTextDocumentLayout"; "QAccessibilityHints"; "QAction";
    "QActionEvent"; "QActionGroup"; "QBackingStore"; "QBitmap"; "QBrush"; "QChildWindowEvent";
    "QClipboard"; "QCloseEvent"; "QColor"; "QColorConstants"; "QColorSpace"; "QColorTransform";
    "QConicalGradient"; "QContextMenuEvent"; "QCursor"; "QDesktopServices"; "QDoubleValidator"; "QDrag";
    "QDragEnterEvent"; "QDragLeaveEvent"; "QDragMoveEvent"; "QDropEvent"; "QEnterEvent"; "QEventPoint";
    "QExposeEvent"; "QFileOpenEvent"; "QFileSystemModel"; "QFocusEvent"; "QFont"; "QFontDatabase";
    "QFontInfo"; "QFontMetrics"; "QFontMetricsF"; "QFontVariableAxis"; "QGlyphRun"; "QGradient";
    "QGuiApplication"; "QHelpEvent"; "QHideEvent"
  ].

Definition factory_qtgui_has_2 : list string :=
  [
    "QHoverEvent"; "QIcon"; "QIconDragEvent"; "QIconEngine"; "QImage"; "QImageIOHandler"; "QImageReader";
    "QImageWriter"; "QInputDevice"; "QInputEvent"; "QInputMethod"; "QInputMethodEvent";
    "QInputMethodQueryEvent"; "QIntValidator"; "QKeyEvent"; "QKeySequence"; "QLinearGradient";
    "QMatrix2x2"; "QMatrix2x3"; "QMatrix2x4"; "QMatrix3x2"; "QMatrix3x3"; "QMatrix3x4"; "QMatrix4x2";
    "QMatrix4x3"; "QMatrix4x4"; "QMouseEvent"; "QMoveEvent"; "QMovie"; "QNativeGestureEvent";
    "QOffscreenSurface"; "QOpenGLContext"; "QOpenGLContextGroup"; "QPageLayout"; "QPageRanges";
    "QPageSize"; "QPagedPaintDevice"; "QPaintDevice"; "QPaintDeviceWindow"; "QPaintEngine";
    "QPaintEngineState"; "QPaintEvent"; "QPainter"
  ].

Definition factory_qtgui_has_3 : list string :=
  [
    "QPainterPath"; "QPainterPathStroker"; "QPainterStateGuard"; "QPalette"; "QPdfOutputIntent";
    "QPdfWriter"; "QPen"; "QPicture"; "QPixelFormat"; "QPixmap"; "QPixmapCache"; "QPlatformSurfaceEvent";
    "QPointerEvent"; "QPointingDevice"; "QPointingDeviceUniqueId"; "QPolygon"; "QPolygonF"; "QQuaternion";
    "QRadialGradient"; "QRasterWindow"; "QRawFont"; "QRegion"; "QRegularExpressionValidator";
    "QResizeEvent"; "QRgba64"; "QScreen"; "QScrollEvent"; "QScrollPrepareEvent"; "QSessionManager";
    "QShortcut"; "QShortcutEvent"; "QShowEvent"; "QSinglePointEvent"; "QStandardItem";
    "QStandardItemModel"; "QStaticText"; "QStatusTipEvent"; "QStyleHints"; "QSurface"; "QSurfaceFormat";
    "QSyntaxHighlighter"; "QTabletEvent"; "QTextBlock"
  ].

Definition factory_qtgui_has_4 : list string :=
  [
    "QTextBlockFormat"; "QTextBlockGroup"; "QTextBlockUserData"; "QTextCharFormat"; "QTextCursor";
    "QTextDocument"; "QTextDocumentFragment"; "QTextDocumentWriter"; "QTextFormat"; "QTextFragment";
    "QTextFrame"; "QTextFrameFormat"; "QTextImageFormat"; "QTextInlineObject"; "QTextItem"; "QTextLayout";
    "QTextLength"; "QTextLine"; "QTextList"; "QTextListFormat"; "QTextObject"; "QTextObjectInterface";
    "QTextOption"; "QTextTable"; "QTextTableCell"; "QTextTableCellFormat"; "QTextTableFormat";
    "QTouchEvent"; "QTransform"; "QUndoCommand"; "QUndoGroup"; "QUndoStack"; "QUtiMimeConverter";
    "QValidator"; "QVector2D"; "QVector3D"; "QVector4D"; "QWaylandApplication"; "QWhatsThisClickedEvent";
    "QWheelEvent"; "QWindow"; "QWindowStateChangeEvent"; "QX11Application"
  ].

Definition factory_qtgui_construct_1 : list string :=
  [
    "QAbstractFileIconProvider"; "QAbstractTextDocumentLayout"; "QAccessibilityHints"; "QAction";
    "QActionEvent"; "QActionGroup"; "QBackingStore"; "QBitmap"; "QBrush"; "QChildWindowEvent";
    "QClipboard"; "QCloseEvent"; "QColor"; "QColorConstants"; "QColorSpace"; "QColorTransform";
    "QConicalGradient"; "QContextMenuEvent"; "QCursor"; "QDesktopServices"; "QDoubleValidator"; "QDrag";
    "QDragEnterEvent"; "QDragLeaveEvent"; "QDragMoveEvent"; "QDropEvent"; "QEnterEvent"; "QEventPoint";
    "QExposeEvent"; "QFileOpenEvent"; "QFileSystemModel"; "QFocusEvent"; "QFont"; "QFontDatabase";
    "QFontInfo"; "QFontMetrics"; "QFontMetricsF"; "QFontVariableAxis"; "QGlyphRun"; "QGradient";
    "QGuiApplication"; "QHelpEvent"; "QHideEvent"
  ].

Definition factory_qtgui_construct_2 : list string :=
  [
    "QHoverEvent"; "QIcon"; "QIconDragEvent"; "QIconEngine"; "QImage"; "QImageIOHandler"; "QImageReader";
    "QImageWriter"; "QInputDevice"; "QInputEvent"; "QInputMethod"; "QInputMethodEvent";
    "QInputMethodQueryEvent"; "QIntValidator"; "QKeyEvent"; "QKeySequence"; "QLinearGradient";
    "QMatrix2x2"; "QMatrix2x3"; "QMatrix2x4"; "QMatrix3x2"; "QMatrix3x3"; "QMatrix3x4"; "QMatrix4x2";
    "QMatrix4x3"; "QMatrix4x4"; "QMouseEvent"; "QMoveEvent"; "QMovie"; "QNativeGestureEvent";
    "QOffscreenSurface"; "QOpenGLContext"; "QOpenGLContextGroup"; "QPageLayout"; "QPageRanges";
    "QPageSize"; "QPagedPaintDevice"; "QPaintDevice"; "QPaintDeviceWindow"; "QPaintEngine";
    "QPaintEngineState"; "QPaintEvent"; "QPainter"
  ].

Definition factory_qtgui_construct_3 : list string :=
  [
    "QPainterPath"; "QPainterPathStroker"; "QPainterStateGuard"; "QPalette"; "QPdfOutputIntent";
    "QPdfWriter"; "QPen"; "QPicture"; "QPixelFormat"; "QPixmap"; "QPixmapCache"; "QPlatformSurfaceEvent";
    "QPointerEvent"; "QPointingDevice"; "QPointingDeviceUniqueId"; "QPolygon"; "QPolygonF"; "QQuaternion";
    "QRadialGradient"; "QRasterWindow"; "QRawFont"; "QRegion"; "QRegularExpressionValidator";
    "QResizeEvent"; "QRgba64"; "QScreen"; "QScrollEvent"; "QScrollPrepareEvent"; "QSessionManager";
    "QShortcut"; "QShortcutEvent"; "QShowEvent"; "QSinglePointEvent"; "QStandardItem";
    "QStandardItemModel"; "QStaticText"; "QStatusTipEvent"; "QStyleHints"; "QSurface"; "QSurfaceFormat";
    "QSyntaxHighlighter"; "QTabletEvent"; "QTextBlock"
  ].

Definition factory_qtgui_construct_4 : list string :=
  [
    "QTextBlockFormat"; "QTextBlockGroup"; "QTextBlockUserData"; "QTextCharFormat"; "QTextCursor";
    "QTextDocument"; "QTextDocumentFragment"; "QTextDocumentWriter"; "QTextFormat"; "QTextFragment";
    "QTextFrame"; "QTextFrameFormat"; "QTextImageFormat"; "QTextInlineObject"; "QTextItem"; "QTextLayout";
    "QTextLength"; "QTextLine"; "QTextList"; "QTextListFormat"; "QTextObject"; "QTextObjectInterface";
    "QTextOption"; "QTextTable"; "QTextTableCell"; "QTextTableCellFormat"; "QTextTableFormat";
    "QTouchEvent"; "QTransform"; "QUndoCommand"; "QUndoGroup"; "QUndoStack"; "QUtiMimeConverter";
    "QValidator"; "QVector2D"; "QVector3D"; "QVector4D"; "QWaylandApplication"; "QWhatsThisClickedEvent";
    "QWheelEvent"; "QWindow"; "QWindowStateChangeEvent"; "QX11Application"
  ].

Definition factory_qtgui_constructors_1 : list string :=
  [
    "QAbstractFileIconProvider"; "QAbstractTextDocumentLayout"; "QAccessibilityHints"; "QAction";
    "QActionEvent"; "QActionGroup"; "QBackingStore"; "QBitmap"; "QBrush"; "QChildWindowEvent";
    "QClipboard"; "QCloseEvent"; "QColor"; "QColorConstants"; "QColorSpace"; "QColorTransform";
    "QConicalGradient"; "QContextMenuEvent"; "QCursor"; "QDesktopServices"; "QDoubleValidator"; "QDrag";
    "QDragEnterEvent"; "QDragLeaveEvent"; "QDragMoveEvent"; "QDropEvent"; "QEnterEvent"; "QEventPoint";
    "QExposeEvent"; "QFileOpenEvent"; "QFileSystemModel"; "QFocusEvent"; "QFont"; "QFontDatabase";
    "QFontInfo"; "QFontMetrics"; "QFontMetricsF"; "QFontVariableAxis"; "QGlyphRun"; "QGradient";
    "QGuiApplication"; "QHelpEvent"; "QHideEvent"
  ].

Definition factory_qtgui_constructors_2 : list string :=
  [
    "QHoverEvent"; "QIcon"; "QIconDragEvent"; "QIconEngine"; "QImage"; "QImageIOHandler"; "QImageReader";
    "QImageWriter"; "QInputDevice"; "QInputEvent"; "QInputMethod"; "QInputMethodEvent";
    "QInputMethodQueryEvent"; "QIntValidator"; "QKeyEvent"; "QKeySequence"; "QLinearGradient";
    "QMatrix2x2"; "QMatrix2x3"; "QMatrix2x4"; "QMatrix3x2"; "QMatrix3x3"; "QMatrix3x4"; "QMatrix4x2";
    "QMatrix4x3"; "QMatrix4x4"; "QMouseEvent"; "QMoveEvent"; "QMovie"; "QNativeGestureEvent";
    "QOffscreenSurface"; "QOpenGLContext"; "QOpenGLContextGroup"; "QPageLayout"; "QPageRanges";
    "QPageSize"; "QPagedPaintDevice"; "QPaintDevice"; "QPaintDeviceWindow"; "QPaintEngine";
    "QPaintEngineState"; "QPaintEvent"; "QPainter"
  ].

Definition factory_qtgui_constructors_3 : list string :=
  [
    "QPainterPath"; "QPainterPathStroker"; "QPainterStateGuard"; "QPalette"; "QPdfOutputIntent";
    "QPdfWriter"; "QPen"; "QPicture"; "QPixelFormat"; "QPixmap"; "QPixmapCache"; "QPlatformSurfaceEvent";
    "QPointerEvent"; "QPointingDevice"; "QPointingDeviceUniqueId"; "QPolygon"; "QPolygonF"; "QQuaternion";
    "QRadialGradient"; "QRasterWindow"; "QRawFont"; "QRegion"; "QRegularExpressionValidator";
    "QResizeEvent"; "QRgba64"; "QScreen"; "QScrollEvent"; "QScrollPrepareEvent"; "QSessionManager";
    "QShortcut"; "QShortcutEvent"; "QShowEvent"; "QSinglePointEvent"; "QStandardItem";
    "QStandardItemModel"; "QStaticText"; "QStatusTipEvent"; "QStyleHints"; "QSurface"; "QSurfaceFormat";
    "QSyntaxHighlighter"; "QTabletEvent"; "QTextBlock"
  ].

Definition factory_qtgui_constructors_4 : list string :=
  [
    "QTextBlockFormat"; "QTextBlockGroup"; "QTextBlockUserData"; "QTextCharFormat"; "QTextCursor";
    "QTextDocument"; "QTextDocumentFragment"; "QTextDocumentWriter"; "QTextFormat"; "QTextFragment";
    "QTextFrame"; "QTextFrameFormat"; "QTextImageFormat"; "QTextInlineObject"; "QTextItem"; "QTextLayout";
    "QTextLength"; "QTextLine"; "QTextList"; "QTextListFormat"; "QTextObject"; "QTextObjectInterface";
    "QTextOption"; "QTextTable"; "QTextTableCell"; "QTextTableCellFormat"; "QTextTableFormat";
    "QTouchEvent"; "QTransform"; "QUndoCommand"; "QUndoGroup"; "QUndoStack"; "QUtiMimeConverter";
    "QValidator"; "QVector2D"; "QVector3D"; "QVector4D"; "QWaylandApplication"; "QWhatsThisClickedEvent";
    "QWheelEvent"; "QWindow"; "QWindowStateChangeEvent"; "QX11Application"
  ].

Definition factory_qtgui_meta_object_1 : list string :=
  [
    "QAbstractFileIconProvider"; "QAbstractTextDocumentLayout"; "QAccessibilityHints"; "QAction";
    "QActionEvent"; "QActionGroup"; "QBackingStore"; "QBitmap"; "QBrush"; "QChildWindowEvent";
    "QClipboard"; "QCloseEvent"; "QColor"; "QColorConstants"; "QColorSpace"; "QColorTransform";
    "QConicalGradient"; "QContextMenuEvent"; "QCursor"; "QDesktopServices"; "QDoubleValidator"; "QDrag";
    "QDragEnterEvent"; "QDragLeaveEvent"; "QDragMoveEvent"; "QDropEvent"; "QEnterEvent"; "QEventPoint";
    "QExposeEvent"; "QFileOpenEvent"; "QFileSystemModel"; "QFocusEvent"; "QFont"; "QFontDatabase";
    "QFontInfo"; "QFontMetrics"; "QFontMetricsF"; "QFontVariableAxis"; "QGlyphRun"; "QGradient";
    "QGuiApplication"; "QHelpEvent"; "QHideEvent"
  ].

Definition factory_qtgui_meta_object_2 : list string :=
  [
    "QHoverEvent"; "QIcon"; "QIconDragEvent"; "QIconEngine"; "QImage"; "QImageIOHandler"; "QImageReader";
    "QImageWriter"; "QInputDevice"; "QInputEvent"; "QInputMethod"; "QInputMethodEvent";
    "QInputMethodQueryEvent"; "QIntValidator"; "QKeyEvent"; "QKeySequence"; "QLinearGradient";
    "QMatrix2x2"; "QMatrix2x3"; "QMatrix2x4"; "QMatrix3x2"; "QMatrix3x3"; "QMatrix3x4"; "QMatrix4x2";
    "QMatrix4x3"; "QMatrix4x4"; "QMouseEvent"; "QMoveEvent"; "QMovie"; "QNativeGestureEvent";
    "QOffscreenSurface"; "QOpenGLContext"; "QOpenGLContextGroup"; "QPageLayout"; "QPageRanges";
    "QPageSize"; "QPagedPaintDevice"; "QPaintDevice"; "QPaintDeviceWindow"; "QPaintEngine";
    "QPaintEngineState"; "QPaintEvent"; "QPainter"
  ].

Definition factory_qtgui_meta_object_3 : list string :=
  [
    "QPainterPath"; "QPainterPathStroker"; "QPainterStateGuard"; "QPalette"; "QPdfOutputIntent";
    "QPdfWriter"; "QPen"; "QPicture"; "QPixelFormat"; "QPixmap"; "QPixmapCache"; "QPlatformSurfaceEvent";
    "QPointerEvent"; "QPointingDevice"; "QPointingDeviceUniqueId"; "QPolygon"; "QPolygonF"; "QQuaternion";
    "QRadialGradient"; "QRasterWindow"; "QRawFont"; "QRegion"; "QRegularExpressionValidator";
    "QResizeEvent"; "QRgba64"; "QScreen"; "QScrollEvent"; "QScrollPrepareEvent"; "QSessionManager";
    "QShortcut"; "QShortcutEvent"; "QShowEvent"; "QSinglePointEvent"; "QStandardItem";
    "QStandardItemModel"; "QStaticText"; "QStatusTipEvent"; "QStyleHints"; "QSurface"; "QSurfaceFormat";
    "QSyntaxHighlighter"; "QTabletEvent"; "QTextBlock"
  ].

Definition factory_qtgui_meta_object_4 : list string :=
  [
    "QTextBlockFormat"; "QTextBlockGroup"; "QTextBlockUserData"; "QTextCharFormat"; "QTextCursor";
    "QTextDocument"; "QTextDocumentFragment"; "QTextDocumentWriter"; "QTextFormat"; "QTextFragment";
    "QTextFrame"; "QTextFrameFormat"; "QTextImageFormat"; "QTextInlineObject"; "QTextItem"; "QTextLayout";
    "QTextLength"; "QTextLine"; "QTextList"; "QTextListFormat"; "QTextObject"; "QTextObjectInterface";
    "QTextOption"; "QTextTable"; "QTextTableCell"; "QTextTableCellFormat"; "QTextTableFormat";
    "QTouchEvent"; "QTransform"; "QUndoCommand"; "QUndoGroup"; "QUndoStack"; "QUtiMimeConverter";
    "QValidator"; "QVector2D"; "QVector3D"; "QVector4D"; "QWaylandApplication"; "QWhatsThisClickedEvent";
    "QWheelEvent"; "QWindow"; "QWindowStateChangeEvent"; "QX11Application"
  ].

Definition factory_qtgui_meta_object_names_1 : list string :=
  [
    "QAbstractFileIconProvider"; "QAbstractTextDocumentLayout"; "QAccessibilityHints"; "QAction";
    "QActionEvent"; "QActionGroup"; "QBackingStore"; "QBitmap"; "QBrush"; "QChildWindowEvent";
    "QClipboard"; "QCloseEvent"; "QColor"; "QColorConstants"; "QColorSpace"; "QColorTransform";
    "QConicalGradient"; "QContextMenuEvent"; "QCursor"; "QDesktopServices"; "QDoubleValidator"; "QDrag";
    "QDragEnterEvent"; "QDragLeaveEvent"; "QDragMoveEvent"; "QDropEvent"; "QEnterEvent"; "QEventPoint";
    "QExposeEvent"; "QFileOpenEvent"; "QFileSystemModel"; "QFocusEvent"; "QFont"; "QFontDatabase";
    "QFontInfo"; "QFontMetrics"; "QFontMetricsF"; "QFontVariableAxis"; "QGlyphRun"; "QGradient";
    "QGuiApplication"; "QHelpEvent"; "QHideEvent"
  ].

Definition factory_qtgui_meta_object_names_2 : list string :=
  [
    "QHoverEvent"; "QIcon"; "QIconDragEvent"; "QIconEngine"; "QImage"; "QImageIOHandler"; "QImageReader";
    "QImageWriter"; "QInputDevice"; "QInputEvent"; "QInputMethod"; "QInputMethodEvent";
    "QInputMethodQueryEvent"; "QIntValidator"; "QKeyEvent"; "QKeySequence"; "QLinearGradient";
    "QMatrix2x2"; "QMatrix2x3"; "QMatrix2x4"; "QMatrix3x2"; "QMatrix3x3"; "QMatrix3x4"; "QMatrix4x2";
    "QMatrix4x3"; "QMatrix4x4"; "QMouseEvent"; "QMoveEvent"; "QMovie"; "QNativeGestureEvent";
    "QOffscreenSurface"; "QOpenGLContext"; "QOpenGLContextGroup"; "QPageLayout"; "QPageRanges";
    "QPageSize"; "QPagedPaintDevice"; "QPaintDevice"; "QPaintDeviceWindow"; "QPaintEngine";
    "QPaintEngineState"; "QPaintEvent"; "QPainter"
  ].

Definition factory_qtgui_meta_object_names_3 : list string :=
  [
    "QPainterPath"; "QPainterPathStroker"; "QPainterStateGuard"; "QPalette"; "QPdfOutputIntent";
    "QPdfWriter"; "QPen"; "QPicture"; "QPixelFormat"; "QPixmap"; "QPixmapCache"; "QPlatformSurfaceEvent";
    "QPointerEvent"; "QPointingDevice"; "QPointingDeviceUniqueId"; "QPolygon"; "QPolygonF"; "QQuaternion";
    "QRadialGradient"; "QRasterWindow"; "QRawFont"; "QRegion"; "QRegularExpressionValidator";
    "QResizeEvent"; "QRgba64"; "QScreen"; "QScrollEvent"; "QScrollPrepareEvent"; "QSessionManager";
    "QShortcut"; "QShortcutEvent"; "QShowEvent"; "QSinglePointEvent"; "QStandardItem";
    "QStandardItemModel"; "QStaticText"; "QStatusTipEvent"; "QStyleHints"; "QSurface"; "QSurfaceFormat";
    "QSyntaxHighlighter"; "QTabletEvent"; "QTextBlock"
  ].

Definition factory_qtgui_meta_object_names_4 : list string :=
  [
    "QTextBlockFormat"; "QTextBlockGroup"; "QTextBlockUserData"; "QTextCharFormat"; "QTextCursor";
    "QTextDocument"; "QTextDocumentFragment"; "QTextDocumentWriter"; "QTextFormat"; "QTextFragment";
    "QTextFrame"; "QTextFrameFormat"; "QTextImageFormat"; "QTextInlineObject"; "QTextItem"; "QTextLayout";
    "QTextLength"; "QTextLine"; "QTextList"; "QTextListFormat"; "QTextObject"; "QTextObjectInterface";
    "QTextOption"; "QTextTable"; "QTextTableCell"; "QTextTableCellFormat"; "QTextTableFormat";
    "QTouchEvent"; "QTransform"; "QUndoCommand"; "QUndoGroup"; "QUndoStack"; "QUtiMimeConverter";
    "QValidator"; "QVector2D"; "QVector3D"; "QVector4D"; "QWaylandApplication"; "QWhatsThisClickedEvent";
    "QWheelEvent"; "QWindow"; "QWindowStateChangeEvent"; "QX11Application"
  ].

Definition factory_qtgui_value_type_1 : list string :=
  [
    "QAbstractFileIconProvider"; "QAbstractTextDocumentLayout"; "QAccessibilityHints"; "QAction";
    "QActionEvent"; "QActionGroup"; "QBackingStore"; "QBitmap"; "QBrush"; "QChildWindowEvent";
    "QClipboard"; "QCloseEvent"; "QColor"; "QColorConstants"; "QColorSpace"; "QColorTransform";
    "QConicalGradient"; "QContextMenuEvent"; "QCursor"; "QDesktopServices"; "QDoubleValidator"; "QDrag";
    "QDragEnterEvent"; "QDragLeaveEvent"; "QDragMoveEvent"; "QDropEvent"; "QEnterEvent"; "QEventPoint";
    "QExposeEvent"; "QFileOpenEvent"; "QFileSystemModel"; "QFocusEvent"; "QFont"; "QFontDatabase";
    "QFontInfo"; "QFontMetrics"; "QFontMetricsF"; "QFontVariableAxis"; "QGlyphRun"; "QGradient";
    "QGuiApplication"; "QHelpEvent"; "QHideEvent"
  ].

Definition factory_qtgui_value_type_2 : list string :=
  [
    "QHoverEvent"; "QIcon"; "QIconDragEvent"; "QIconEngine"; "QImage"; "QImageIOHandler"; "QImageReader";
    "QImageWriter"; "QInputDevice"; "QInputEvent"; "QInputMethod"; "QInputMethodEvent";
    "QInputMethodQueryEvent"; "QIntValidator"; "QKeyEvent"; "QKeySequence"; "QLinearGradient";
    "QMatrix2x2"; "QMatrix2x3"; "QMatrix2x4"; "QMatrix3x2"; "QMatrix3x3"; "QMatrix3x4"; "QMatrix4x2";
    "QMatrix4x3"; "QMatrix4x4"; "QMouseEvent"; "QMoveEvent"; "QMovie"; "QNativeGestureEvent";
    "QOffscreenSurface"; "QOpenGLContext"; "QOpenGLContextGroup"; "QPageLayout"; "QPageRanges";
    "QPageSize"; "QPagedPaintDevice"; "QPaintDevice"; "QPaintDeviceWindow"; "QPaintEngine";
    "QPaintEngineState"; "QPaintEvent"; "QPainter"
  ].

Definition factory_qtgui_value_type_3 : list string :=
  [
    "QPainterPath"; "QPainterPathStroker"; "QPainterStateGuard"; "QPalette"; "QPdfOutputIntent";
    "QPdfWriter"; "QPen"; "QPicture"; "QPixelFormat"; "QPixmap"; "QPixmapCache"; "QPlatformSurfaceEvent";
    "QPointerEvent"; "QPointingDevice"; "QPointingDeviceUniqueId"; "QPolygon"; "QPolygonF"; "QQuaternion";
    "QRadialGradient"; "QRasterWindow"; "QRawFont"; "QRegion"; "QRegularExpressionValidator";
    "QResizeEvent"; "QRgba64"; "QScreen"; "QScrollEvent"; "QScrollPrepareEvent"; "QSessionManager";
    "QShortcut"; "QShortcutEvent"; "QShowEvent"; "QSinglePointEvent"; "QStandardItem";
    "QStandardItemModel"; "QStaticText"; "QStatusTipEvent"; "QStyleHints"; "QSurface"; "QSurfaceFormat";
    "QSyntaxHighlighter"; "QTabletEvent"; "QTextBlock"
  ].

Definition factory_qtgui_value_type_4 : list string :=
  [
    "QTextBlockFormat"; "QTextBlockGroup"; "QTextBlockUserData"; "QTextCharFormat"; "QTextCursor";
    "QTextDocument"; "QTextDocumentFragment"; "QTextDocumentWriter"; "QTextFormat"; "QTextFragment";
    "QTextFrame"; "QTextFrameFormat"; "QTextImageFormat"; "QTextInlineObject"; "QTextItem"; "QTextLayout";
    "QTextLength"; "QTextLine"; "QTextList"; "QTextListFormat"; "QTextObject"; "QTextObjectInterface";
    "QTextOption"; "QTextTable"; "QTextTableCell"; "QTextTableCellFormat"; "QTextTableFormat";
    "QTouchEvent"; "QTransform"; "QUndoCommand"; "QUndoGroup"; "QUndoStack"; "QUtiMimeConverter";
    "QValidator"; "QVector2D"; "QVector3D"; "QVector4D"; "QWaylandApplication"; "QWhatsThisClickedEvent";
    "QWheelEvent"; "QWindow"; "QWindowStateChangeEvent"; "QX11Application"
  ].

Definition factory_qtgui : factory_module :=
  FactoryModule "QtGui" "QtGui"
    (factory_qtgui_includes_1 ++ factory_qtgui_includes_2 ++ factory_qtgui_includes_3 ++
     factory_qtgui_includes_4 ++ factory_qtgui_includes_5)
    (factory_qtgui_has_1 ++ factory_qtgui_has_2 ++ factory_qtgui_has_3 ++ factory_qtgui_has_4)
    (factory_qtgui_construct_1 ++ factory_qtgui_construct_2 ++ factory_qtgui_construct_3 ++
     factory_qtgui_construct_4)
    (factory_qtgui_constructors_1 ++ factory_qtgui_constructors_2 ++
     factory_qtgui_constructors_3 ++ factory_qtgui_constructors_4)
    (factory_qtgui_meta_object_1 ++ factory_qtgui_meta_object_2 ++ factory_qtgui_meta_object_3 ++
     factory_qtgui_meta_object_4)
    (factory_qtgui_meta_object_names_1 ++ factory_qtgui_meta_object_names_2 ++
     factory_qtgui_meta_object_names_3 ++ factory_qtgui_meta_object_names_4)
    (factory_qtgui_value_type_1 ++ factory_qtgui_value_type_2 ++ factory_qtgui_value_type_3 ++
     factory_qtgui_value_type_4)
    [
      "QAbstractFileIconProvider"; "QAbstractTextDocumentLayout"; "QAccessibilityHints"; "QAction";
      "QActionEvent"; "QActionGroup"; "QBackingStore"; "QBitmap"; "QBrush"; "QChildWindowEvent";
      "QClipboard"; "QCloseEvent"; "QColor"; "QColorConstants"; "QColorSpace"; "QColorTransform";
      "QConicalGradient"; "QContextMenuEvent"; "QCursor"; "QDesktopServices"; "QDoubleValidator"; "QDrag";
      "QDragEnterEvent"; "QDragLeaveEvent"; "QDragMoveEvent"; "QDropEvent"; "QEnterEvent"; "QEventPoint";
      "QExposeEvent"; "QFileOpenEvent"; "QFileSystemModel"; "QFocusEvent"; "QFont"; "QFontDatabase";
      "QFontInfo"; "QFontMetrics"; "QFontMetricsF"; "QFontVariableAxis"; "QGlyphRun"; "QGradient";
      "QGuiApplication"; "QHelpEvent"; "QHideEvent"; "QHoverEvent"; "QIcon"; "QIconDragEvent";
      "QIconEngine"; "QImage"; "QImageIOHandler"; "QImageReader"; "QImageWriter"; "QInputDevice";
      "QInputEvent"; "QInputMethod"; "QInputMethodEvent"; "QInputMethodQueryEvent"; "QIntValidator";
      "QKeyEvent"; "QKeySequence"; "QLinearGradient"; "QMatrix2x2"; "QMatrix2x3"; "QMatrix2x4";
      "QMatrix3x2"; "QMatrix3x3"; "QMatrix3x4"; "QMatrix4x2"; "QMatrix4x3"; "QMatrix4x4"; "QMouseEvent";
      "QMoveEvent"; "QMovie"; "QNativeGestureEvent"; "QOffscreenSurface"; "QOpenGLContext";
      "QOpenGLContextGroup"; "QPageLayout"; "QPageRanges"; "QPageSize"; "QPagedPaintDevice";
      "QPaintDevice"; "QPaintDeviceWindow"; "QPaintEngine"; "QPaintEngineState"; "QPaintEvent"; "QPainter";
      "QPainterPath"; "QPainterPathStroker"; "QPainterStateGuard"; "QPalette"; "QPdfOutputIntent";
      "QPdfWriter"; "QPen"; "QPicture"; "QPixelFormat"; "QPixmap"; "QPixmapCache"; "QPlatformSurfaceEvent";
      "QPointerEvent"; "QPointingDevice"; "QPointingDeviceUniqueId"; "QPolygon"; "QPolygonF";
      "QQuaternion"; "QRadialGradient"; "QRasterWindow"; "QRawFont"; "QRegion";
      "QRegularExpressionValidator"; "QResizeEvent"; "QRgba64"; "QScreen"; "QScrollEvent";
      "QScrollPrepareEvent"; "QSessionManager"; "QShortcut"; "QShortcutEvent"; "QShowEvent";
      "QSinglePointEvent"; "QStandardItem"; "QStandardItemModel"; "QStaticText"; "QStatusTipEvent";
      "QStyleHints"; "QSurface"; "QSurfaceFormat"; "QSyntaxHighlighter"; "QTabletEvent"; "QTextBlock";
      "QTextBlockFormat"; "QTextBlockGroup"; "QTextBlockUserData"; "QTextCharFormat"; "QTextCursor";
      "QTextDocument"; "QTextDocumentFragment"; "QTextDocumentWriter"; "QTextFormat"; "QTextFragment";
      "QTextFrame"; "QTextFrameFormat"; "QTextImageFormat"; "QTextInlineObject"; "QTextItem";
      "QTextLayout"; "QTextLength"; "QTextLine"; "QTextList"; "QTextListFormat"; "QTextObject";
      "QTextObjectInterface"; "QTextOption"; "QTextTable"; "QTextTableCell"; "QTextTableCellFormat";
      "QTextTableFormat"; "QTouchEvent"; "QTransform"; "QUndoCommand"; "QUndoGroup"; "QUndoStack";
      "QUtiMimeConverter"; "QValidator"; "QVector2D"; "QVector3D"; "QVector4D"; "QWaylandApplication";
      "QWhatsThisClickedEvent"; "QWheelEvent"; "QWindow"; "QWindowStateChangeEvent"; "QX11Application"
    ]
    [
      "QAction"; "QMovie"; "QShortcut"; "QStandardItemModel"; "QTextDocument"; "QUndoGroup"; "QUndoStack"
    ].

Definition factory_qthelp : factory_module :=
  same_rows "QtHelp" "QtHelp"
    [
      "QCompressedHelpInfo"; "QHelpContentItem"; "QHelpContentModel"; "QHelpContentWidget"; "QHelpEngine";
      "QHelpEngineCore"; "QHelpFilterData"; "QHelpFilterEngine"; "QHelpFilterSettingsWidget";
      "QHelpIndexModel"; "QHelpIndexWidget"; "QHelpLink"; "QHelpSearchEngine"; "QHelpSearchEngineCore";
      "QHelpSearchQuery"; "QHelpSearchQueryWidget"; "QHelpSearchResult"; "QHelpSearchResultWidget"
    ]
    [].

Definition factory_qtmultimedia : factory_module :=
  same_rows "QtMultimedia" "QtMultimedia"
    [
      "QAudioBuffer"; "QAudioBufferInput"; "QAudioBufferOutput"; "QAudioDecoder"; "QAudioDevice";
      "QAudioFormat"; "QAudioInput"; "QAudioOutput"; "QAudioSink"; "QAudioSource"; "QCamera";
      "QCameraDevice"; "QCameraFormat"; "QCapturableWindow"; "QImageCapture"; "QMediaCaptureSession";
      "QMediaDevices"; "QMediaFormat"; "QMediaMetaData"; "QMediaPlayer"; "QMediaRecorder";
      "QMediaTimeRange"; "QPlaybackOptions"; "QScreenCapture"; "QSoundEffect"; "QVideoFrame";
      "QVideoFrameFormat"; "QVideoFrameInput"; "QVideoSink"; "QWindowCapture"
    ]
    [].

Definition factory_qtmultimediawidgets : factory_module :=
  same_rows "QtMultimediaWidgets" "QtMultimediaWidgets"
    [
      "QGraphicsVideoItem"; "QVideoWidget"
    ]
    [].

Definition factory_qtnetwork_includes_1 : list (string * string) :=
  own_headers
    [
      "QAbstractNetworkCache"; "QAbstractSocket"; "QAuthenticator"; "QDnsDomainNameRecord";
      "QDnsHostAddressRecord"; "QDnsLookup"; "QDnsMailExchangeRecord"; "QDnsServiceRecord";
      "QDnsTextRecord"; "QDnsTlsAssociationRecord"; "QFormDataBuilder"; "QFormDataPartBuilder";
      "QHostAddress"; "QHostInfo"; "QHstsPolicy"; "QHttp1Configuration"; "QHttp2Configuration";
      "QHttpHeaders"; "QHttpMultiPart"; "QHttpPart"; "QLocalServer"; "QLocalSocket";
      "QNetworkAccessManager"; "QNetworkAddressEntry"; "QNetworkCacheMetaData"; "QNetworkCookie";
      "QNetworkCookieJar"
    ].

Definition factory_qtnetwork_includes_2 : list (string * string) :=
  own_headers
    [
      "QNetworkDatagram"; "QNetworkDiskCache"; "QNetworkInformation"; "QNetworkInterface"; "QNetworkProxy";
      "QNetworkProxyFactory"; "QNetworkProxyQuery"; "QNetworkReply"; "QNetworkRequest";
      "QNetworkRequestFactory"; "QOcspResponse"; "QRestAccessManager"; "QRestReply"; "QSslCertificate";
      "QSslCertificateExtension"; "QSslCipher"; "QSslConfiguration"; "QSslDiffieHellmanParameters";
      "QSslEllipticCurve"; "QSslError"; "QSslKey"; "QSslPreSharedKeyAuthenticator"; "QSslServer";
      "QSslSocket"; "QTcpServer"; "QTcpSocket"; "QUdpSocket"
    ].

Definition factory_qtnetwork_has : list string :=
  [
    "QAbstractNetworkCache"; "QAbstractSocket"; "QAuthenticator"; "QDnsDomainNameRecord";
    "QDnsHostAddressRecord"; "QDnsLookup"; "QDnsMailExchangeRecord"; "QDnsServiceRecord"; "QDnsTextRecord";
    "QDnsTlsAssociationRecord"; "QFormDataBuilder"; "QFormDataPartBuilder"; "QHostAddress"; "QHostInfo";
    "QHstsPolicy"; "QHttp1Configuration"; "QHttp2Configuration"; "QHttpHeaders"; "QHttpMultiPart";
    "QHttpPart"; "QLocalServer"; "QLocalSocket"; "QNetworkAccessManager"; "QNetworkAddressEntry";
    "QNetworkCacheMetaData"; "QNetworkCookie"; "QNetworkCookieJar"; "QNetworkDatagram";
    "QNetworkDiskCache"; "QNetworkInformation"; "QNetworkInterface"; "QNetworkProxy";
    "QNetworkProxyFactory"; "QNetworkProxyQuery"; "QNetworkReply"; "QNetworkRequest";
    "QNetworkRequestFactory"; "QOcspResponse"; "QRestAccessManager"; "QRestReply"; "QSslCertificate";
    "QSslCertificateExtension"; "QSslCipher"; "QSslConfiguration"; "QSslDiffieHellmanParameters";
    "QSslEllipticCurve"; "QSslError"; "QSslKey"; "QSslPreSharedKeyAuthenticator"; "QSslServer";
    "QSslSocket"; "QTcpServer"; "QTcpSocket"; "QUdpSocket"
  ].

Definition factory_qtnetwork_construct : list string :=
  [
    "QAbstractNetworkCache"; "QAbstractSocket"; "QAuthenticator"; "QDnsDomainNameRecord";
    "QDnsHostAddressRecord"; "QDnsLookup"; "QDnsMailExchangeRecord"; "QDnsServiceRecord"; "QDnsTextRecord";
    "QDnsTlsAssociationRecord"; "QFormDataBuilder"; "QFormDataPartBuilder"; "QHostAddress"; "QHostInfo";
    "QHstsPolicy"; "QHttp1Configuration"; "QHttp2Configuration"; "QHttpHeaders"; "QHttpMultiPart";
    "QHttpPart"; "QLocalServer"; "QLocalSocket"; "QNetworkAccessManager"; "QNetworkAddressEntry";
    "QNetworkCacheMetaData"; "QNetworkCookie"; "QNetworkCookieJar"; "QNetworkDatagram";
    "QNetworkDiskCache"; "QNetworkInformation"; "QNetworkInterface"; "QNetworkProxy";
    "QNetworkProxyFactory"; "QNetworkProxyQuery"; "QNetworkReply"; "QNetworkRequest";
    "QNetworkRequestFactory"; "QOcspResponse"; "QRestAccessManager"; "QRestReply"; "QSslCertificate";
    "QSslCertificateExtension"; "QSslCipher"; "QSslConfiguration"; "QSslDiffieHellmanParameters";
    "QSslEllipticCurve"; "QSslError"; "QSslKey"; "QSslPreSharedKeyAuthenticator"; "QSslServer";
    "QSslSocket"; "QTcpServer"; "QTcpSocket"; "QUdpSocket"
  ].

Definition factory_qtnetwork_constructors : list string :=
  [
    "QAbstractNetworkCache"; "QAbstractSocket"; "QAuthenticator"; "QDnsDomainNameRecord";
    "QDnsHostAddressRecord"; "QDnsLookup"; "QDnsMailExchangeRecord"; "QDnsServiceRecord"; "QDnsTextRecord";
    "QDnsTlsAssociationRecord"; "QFormDataBuilder"; "QFormDataPartBuilder"; "QHostAddress"; "QHostInfo";
    "QHstsPolicy"; "QHttp1Configuration"; "QHttp2Configuration"; "QHttpHeaders"; "QHttpMultiPart";
    "QHttpPart"; "QLocalServer"; "QLocalSocket"; "QNetworkAccessManager"; "QNetworkAddressEntry";
    "QNetworkCacheMetaData"; "QNetworkCookie"; "QNetworkCookieJar"; "QNetworkDatagram";
    "QNetworkDiskCache"; "QNetworkInformation"; "QNetworkInterface"; "QNetworkProxy";
    "QNetworkProxyFactory"; "QNetworkProxyQuery"; "QNetworkReply"; "QNetworkRequest";
    "QNetworkRequestFactory"; "QOcspResponse"; "QRestAccessManager"; "QRestReply"; "QSslCertificate";
    "QSslCertificateExtension"; "QSslCipher"; "QSslConfiguration"; "QSslDiffieHellmanParameters";
    "QSslEllipticCurve"; "QSslError"; "QSslKey"; "QSslPreSharedKeyAuthenticator"; "QSslServer";
    "QSslSocket"; "QTcpServer"; "QTcpSocket"; "QUdpSocket"
  ].

Definition factory_qtnetwork_meta_object : list string :=
  [
    "QAbstractNetworkCache"; "QAbstractSocket"; "QAuthenticator"; "QDnsDomainNameRecord";
    "QDnsHostAddressRecord"; "QDnsLookup"; "QDnsMailExchangeRecord"; "QDnsServiceRecord"; "QDnsTextRecord";
    "QDnsTlsAssociationRecord"; "QFormDataBuilder"; "QFormDataPartBuilder"; "QHostAddress"; "QHostInfo";
    "QHstsPolicy"; "QHttp1Configuration"; "QHttp2Configuration"; "QHttpHeaders"; "QHttpMultiPart";
    "QHttpPart"; "QLocalServer"; "QLocalSocket"; "QNetworkAccessManager"; "QNetworkAddressEntry";
    "QNetworkCacheMetaData"; "QNetworkCookie"; "QNetworkCookieJar"; "QNetworkDatagram";
    "QNetworkDiskCache"; "QNetworkInformation"; "QNetworkInterface"; "QNetworkProxy";
    "QNetworkProxyFactory"; "QNetworkProxyQuery"; "QNetworkReply"; "QNetworkRequest";
    "QNetworkRequestFactory"; "QOcspResponse"; "QRestAccessManager"; "QRestReply"; "QSslCertificate";
    "QSslCertificateExtension"; "QSslCipher"; "QSslConfiguration"; "QSslDiffieHellmanParameters";
    "QSslEllipticCurve"; "QSslError"; "QSslKey"; "QSslPreSharedKeyAuthenticator"; "QSslServer";
    "QSslSocket"; "QTcpServer"; "QTcpSocket"; "QUdpSocket"
  ].

Definition factory_qtnetwork_meta_object_names : list string :=
  [
    "QAbstractNetworkCache"; "QAbstractSocket"; "QAuthenticator"; "QDnsDomainNameRecord";
    "QDnsHostAddressRecord"; "QDnsLookup"; "QDnsMailExchangeRecord"; "QDnsServiceRecord"; "QDnsTextRecord";
    "QDnsTlsAssociationRecord"; "QFormDataBuilder"; "QFormDataPartBuilder"; "QHostAddress"; "QHostInfo";
    "QHstsPolicy"; "QHttp1Configuration"; "QHttp2Configuration"; "QHttpHeaders"; "QHttpMultiPart";
    "QHttpPart"; "QLocalServer"; "QLocalSocket"; "QNetworkAccessManager"; "QNetworkAddressEntry";
    "QNetworkCacheMetaData"; "QNetworkCookie"; "QNetworkCookieJar"; "QNetworkDatagram";
    "QNetworkDiskCache"; "QNetworkInformation"; "QNetworkInterface"; "QNetworkProxy";
    "QNetworkProxyFactory"; "QNetworkProxyQuery"; "QNetworkReply"; "QNetworkRequest";
    "QNetworkRequestFactory"; "QOcspResponse"; "QRestAccessManager"; "QRestReply"; "QSslCertificate";
    "QSslCertificateExtension"; "QSslCipher"; "QSslConfiguration"; "QSslDiffieHellmanParameters";
    "QSslEllipticCurve"; "QSslError"; "QSslKey"; "QSslPreSharedKeyAuthenticator"; "QSslServer";
    "QSslSocket"; "QTcpServer"; "QTcpSocket"; "QUdpSocket"
  ].

Definition factory_qtnetwork_value_type : list string :=
  [
    "QAbstractNetworkCache"; "QAbstractSocket"; "QAuthenticator"; "QDnsDomainNameRecord";
    "QDnsHostAddressRecord"; "QDnsLookup"; "QDnsMailExchangeRecord"; "QDnsServiceRecord"; "QDnsTextRecord";
    "QDnsTlsAssociationRecord"; "QFormDataBuilder"; "QFormDataPartBuilder"; "QHostAddress"; "QHostInfo";
    "QHstsPolicy"; "QHttp1Configuration"; "QHttp2Configuration"; "QHttpHeaders"; "QHttpMultiPart";
    "QHttpPart"; "QLocalServer"; "QLocalSocket"; "QNetworkAccessManager"; "QNetworkAddressEntry";
    "QNetworkCacheMetaData"; "QNetworkCookie"; "QNetworkCookieJar"; "QNetworkDatagram";
    "QNetworkDiskCache"; "QNetworkInformation"; "QNetworkInterface"; "QNetworkProxy";
    "QNetworkProxyFactory"; "QNetworkProxyQuery"; "QNetworkReply"; "QNetworkRequest";
    "QNetworkRequestFactory"; "QOcspResponse"; "QRestAccessManager"; "QRestReply"; "QSslCertificate";
    "QSslCertificateExtension"; "QSslCipher"; "QSslConfiguration"; "QSslDiffieHellmanParameters";
    "QSslEllipticCurve"; "QSslError"; "QSslKey"; "QSslPreSharedKeyAuthenticator"; "QSslServer";
    "QSslSocket"; "QTcpServer"; "QTcpSocket"; "QUdpSocket"
  ].

Definition factory_qtnetwork : factory_module :=
  FactoryModule "QtNetwork" "QtNetwork"
    (factory_qtnetwork_includes_1 ++ factory_qtnetwork_includes_2)
    (factory_qtnetwork_has)
    (factory_qtnetwork_construct)
    (factory_qtnetwork_constructors)
    (factory_qtnetwork_meta_object)
    (factory_qtnetwork_meta_object_names)
    (factory_qtnetwork_value_type)
    [
      "QAbstractNetworkCache"; "QAbstractSocket"; "QAuthenticator"; "QDnsDomainNameRecord";
      "QDnsHostAddressRecord"; "QDnsLookup"; "QDnsMailExchangeRecord"; "QDnsServiceRecord";
      "QDnsTextRecord"; "QDnsTlsAssociationRecord"; "QFormDataBuilder"; "QFormDataPartBuilder";
      "QHostAddress"; "QHostInfo"; "QHstsPolicy"; "QHttp1Configuration"; "QHttp2Configuration";
      "QHttpHeaders"; "QHttpMultiPart"; "QHttpPart"; "QLocalServer"; "QLocalSocket";
      "QNetworkAccessManager"; "QNetworkAddressEntry"; "QNetworkCacheMetaData"; "QNetworkCookie";
      "QNetworkCookieJar"; "QNetworkDatagram"; "QNetworkDiskCache"; "QNetworkInformation";
      "QNetworkInterface"; "QNetworkProxy"; "QNetworkProxyFactory"; "QNetworkProxyQuery"; "QNetworkReply";
      "QNetworkRequest"; "QNetworkRequestFactory"; "QOcspResponse"; "QRestAccessManager"; "QRestReply";
      "QSslCertificate"; "QSslCertificateExtension"; "QSslCipher"; "QSslConfiguration";
      "QSslDiffieHellmanParameters"; "QSslEllipticCurve"; "QSslError"; "QSslKey";
      "QSslPreSharedKeyAuthenticator"; "QSslServer"; "QSslSocket"; "QTcpServer"; "QTcpSocket"; "QUdpSocket"
    ]
    [].

Definition factory_qtnetworkauth : factory_module :=
  same_rows "QtNetworkAuth" "QtNetworkAuth"
    [
      "QAbstractOAuth"; "QAbstractOAuth2"; "QAbstractOAuthReplyHandler"; "QOAuth1"; "QOAuth1Signature";
      "QOAuth2AuthorizationCodeFlow"; "QOAuth2DeviceAuthorizationFlow"; "QOAuthHttpServerReplyHandler";
      "QOAuthOobReplyHandler"; "QOAuthUriSchemeReplyHandler"
    ]
    [].

Definition factory_qtnfc : factory_module :=
  same_rows "QtNfc" "QtNfc"
    [
      "QNdefFilter"; "QNdefMessage"; "QNdefNfcIconRecord"; "QNdefNfcSmartPosterRecord";
      "QNdefNfcTextRecord"; "QNdefNfcUriRecord"; "QNdefRecord"; "QNearFieldManager"; "QNearFieldTarget"
    ]
    [].

Definition factory_qtopengl : factory_module :=
  same_rows "QtOpenGL" "QtOpenGL"
    [
      "QAbstractOpenGLFunctions"; "QOpenGLBuffer"; "QOpenGLDebugLogger"; "QOpenGLDebugMessage";
      "QOpenGLFramebufferObject"; "QOpenGLFramebufferObjectFormat"; "QOpenGLFunctions_2_0";
      "QOpenGLFunctions_2_1"; "QOpenGLFunctions_4_1_Core"; "QOpenGLPaintDevice";
      "QOpenGLPixelTransferOptions"; "QOpenGLShader"; "QOpenGLShaderProgram"; "QOpenGLTexture";
      "QOpenGLTextureBlitter"; "QOpenGLTimeMonitor"; "QOpenGLTimerQuery"; "QOpenGLVersionFunctionsFactory";
      "QOpenGLVersionProfile"; "QOpenGLVertexArrayObject"; "QOpenGLWindow"
    ]
    [].

Definition factory_qtopenglwidgets : factory_module :=
  same_rows "QtOpenGLWidgets" "QtOpenGLWidgets"
    [
      "QOpenGLWidget"
    ]
    [].

Definition factory_qtpdf : factory_module :=
  same_rows "QtPdf" "QtPdf"
    [
      "QPdfBookmarkModel"; "QPdfDocument"; "QPdfDocumentRenderOptions"; "QPdfLink"; "QPdfLinkModel";
      "QPdfPageNavigator"; "QPdfPageRenderer"; "QPdfSearchModel"; "QPdfSelection"
    ]
    [].

Definition factory_qtpdfwidgets : factory_module :=
  same_rows "QtPdfWidgets" "QtPdfWidgets"
    [
      "QPdfPageSelector"; "QPdfView"
    ]
    [].

Definition factory_qtpositioning : factory_module :=
  same_rows "QtPositioning" "QtPositioning"
    [
      "QGeoAddress"; "QGeoAreaMonitorInfo"; "QGeoAreaMonitorSource"; "QGeoCircle"; "QGeoCoordinate";
      "QGeoLocation"; "QGeoPath"; "QGeoPolygon"; "QGeoPositionInfo"; "QGeoPositionInfoSource";
      "QGeoRectangle"; "QGeoSatelliteInfo"; "QGeoSatelliteInfoSource"; "QGeoShape";
      "QNmeaPositionInfoSource"; "QNmeaSatelliteInfoSource"
    ]
    [].

Definition factory_qtprintsupport : factory_module :=
  same_rows "QtPrintSupport" "QtPrintSupport"
    [
      "QAbstractPrintDialog"; "QPageSetupDialog"; "QPrintDialog"; "QPrintEngine"; "QPrintPreviewDialog";
      "QPrintPreviewWidget"; "QPrinter"; "QPrinterInfo"
    ]
    [].

Definition factory_qtqml : factory_module :=
  same_rows "QtQml" "QtQml"
    [
      "QJSEngine"; "QJSManagedValue"; "QJSPrimitiveNull"; "QJSPrimitiveUndefined"; "QJSPrimitiveValue";
      "QJSValue"; "QJSValueIterator"; "QQmlAbstractUrlInterceptor"; "QQmlApplicationEngine";
      "QQmlComponent"; "QQmlContext"; "QQmlEngine"; "QQmlEngineExtensionPlugin"; "QQmlError";
      "QQmlExpression"; "QQmlExtensionPlugin"; "QQmlFileSelector"; "QQmlImageProviderBase";
      "QQmlIncubationController"; "QQmlIncubator"; "QQmlListReference"; "QQmlNetworkAccessManagerFactory";
      "QQmlParserStatus"; "QQmlProperty"; "QQmlPropertyMap"; "QQmlPropertyValueSource"; "QQmlScriptString"
    ]
    [].

Definition factory_qtquick_includes : list (string * string) :=
  own_headers
    [
      "QQuickAsyncImageProvider"; "QQuickFramebufferObject"; "QQuickGraphicsConfiguration";
      "QQuickGraphicsDevice"; "QQuickImageProvider"; "QQuickImageResponse"; "QQuickItem";
      "QQuickItemGrabResult"; "QQuickPaintedItem"; "QQuickRenderControl"; "QQuickRenderTarget";
      "QQuickTextDocument"; "QQuickTextureFactory"; "QQuickView"; "QQuickWindow"; "QSGBasicGeometryNode";
      "QSGClipNode"; "QSGDynamicTexture"; "QSGFlatColorMaterial"; "QSGGeometry"; "QSGGeometryNode";
      "QSGImageNode"; "QSGMaterial"; "QSGMaterialShader"; "QSGMaterialType"; "QSGNode"; "QSGOpacityNode";
      "QSGOpaqueTextureMaterial"; "QSGOpenGLTexture"; "QSGRectangleNode"; "QSGRenderNode";
      "QSGRendererInterface"; "QSGSimpleRectNode"; "QSGSimpleTextureNode"; "QSGTextNode"; "QSGTexture";
      "QSGTextureMaterial"; "QSGTextureProvider"; "QSGTransformNode"; "QSGVertexColorMaterial"
    ].

Definition factory_qtquick_has : list string :=
  [
    "QQuickAsyncImageProvider"; "QQuickFramebufferObject"; "QQuickGraphicsConfiguration";
    "QQuickGraphicsDevice"; "QQuickImageProvider"; "QQuickImageResponse"; "QQuickItem";
    "QQuickItemGrabResult"; "QQuickPaintedItem"; "QQuickRenderControl"; "QQuickRenderTarget";
    "QQuickTextDocument"; "QQuickTextureFactory"; "QQuickView"; "QQuickWindow"; "QSGBasicGeometryNode";
    "QSGClipNode"; "QSGDynamicTexture"; "QSGFlatColorMaterial"; "QSGGeometry"; "QSGGeometryNode";
    "QSGImageNode"; "QSGMaterial"; "QSGMaterialShader"; "QSGMaterialType"; "QSGNode"; "QSGOpacityNode";
    "QSGOpaqueTextureMaterial"; "QSGOpenGLTexture"; "QSGRectangleNode"; "QSGRenderNode";
    "QSGRendererInterface"; "QSGSimpleRectNode"; "QSGSimpleTextureNode"; "QSGTextNode"; "QSGTexture";
    "QSGTextureMaterial"; "QSGTextureProvider"; "QSGTransformNode"; "QSGVertexColorMaterial"
  ].

Definition factory_qtquick_construct : list string :=
  [
    "QQuickAsyncImageProvider"; "QQuickFramebufferObject"; "QQuickGraphicsConfiguration";
    "QQuickGraphicsDevice"; "QQuickImageProvider"; "QQuickImageResponse"; "QQuickItem";
    "QQuickItemGrabResult"; "QQuickPaintedItem"; "QQuickRenderControl"; "QQuickRenderTarget";
    "QQuickTextDocument"; "QQuickTextureFactory"; "QQuickView"; "QQuickWindow"; "QSGBasicGeometryNode";
    "QSGClipNode"; "QSGDynamicTexture"; "QSGFlatColorMaterial"; "QSGGeometry"; "QSGGeometryNode";
    "QSGImageNode"; "QSGMaterial"; "QSGMaterialShader"; "QSGMaterialType"; "QSGNode"; "QSGOpacityNode";
    "QSGOpaqueTextureMaterial"; "QSGOpenGLTexture"; "QSGRectangleNode"; "QSGRenderNode";
    "QSGRendererInterface"; "QSGSimpleRectNode"; "QSGSimpleTextureNode"; "QSGTextNode"; "QSGTexture";
    "QSGTextureMaterial"; "QSGTextureProvider"; "QSGTransformNode"; "QSGVertexColorMaterial"
  ].

Definition factory_qtquick_constructors : list string :=
  [
    "QQuickAsyncImageProvider"; "QQuickFramebufferObject"; "QQuickGraphicsConfiguration";
    "QQuickGraphicsDevice"; "QQuickImageProvider"; "QQuickImageResponse"; "QQuickItem";
    "QQuickItemGrabResult"; "QQuickPaintedItem"; "QQuickRenderControl"; "QQuickRenderTarget";
    "QQuickTextDocument"; "QQuickTextureFactory"; "QQuickView"; "QQuickWindow"; "QSGBasicGeometryNode";
    "QSGClipNode"; "QSGDynamicTexture"; "QSGFlatColorMaterial"; "QSGGeometry"; "QSGGeometryNode";
    "QSGImageNode"; "QSGMaterial"; "QSGMaterialShader"; "QSGMaterialType"; "QSGNode"; "QSGOpacityNode";
    "QSGOpaqueTextureMaterial"; "QSGOpenGLTexture"; "QSGRectangleNode"; "QSGRenderNode";
    "QSGRendererInterface"; "QSGSimpleRectNode"; "QSGSimpleTextureNode"; "QSGTextNode"; "QSGTexture";
    "QSGTextureMaterial"; "QSGTextureProvider"; "QSGTransformNode"; "QSGVertexColorMaterial"
  ].

Definition factory_qtquick_meta_object : list string :=
  [
    "QQuickAsyncImageProvider"; "QQuickFramebufferObject"; "QQuickGraphicsConfiguration";
    "QQuickGraphicsDevice"; "QQuickImageProvider"; "QQuickImageResponse"; "QQuickItem";
    "QQuickItemGrabResult"; "QQuickPaintedItem"; "QQuickRenderControl"; "QQuickRenderTarget";
    "QQuickTextDocument"; "QQuickTextureFactory"; "QQuickView"; "QQuickWindow"; "QSGBasicGeometryNode";
    "QSGClipNode"; "QSGDynamicTexture"; "QSGFlatColorMaterial"; "QSGGeometry"; "QSGGeometryNode";
    "QSGImageNode"; "QSGMaterial"; "QSGMaterialShader"; "QSGMaterialType"; "QSGNode"; "QSGOpacityNode";
    "QSGOpaqueTextureMaterial"; "QSGOpenGLTexture"; "QSGRectangleNode"; "QSGRenderNode";
    "QSGRendererInterface"; "QSGSimpleRectNode"; "QSGSimpleTextureNode"; "QSGTextNode"; "QSGTexture";
    "QSGTextureMaterial"; "QSGTextureProvider"; "QSGTransformNode"; "QSGVertexColorMaterial"
  ].

Definition factory_qtquick_meta_object_names : list string :=
  [
    "QQuickAsyncImageProvider"; "QQuickFramebufferObject"; "QQuickGraphicsConfiguration";
    "QQuickGraphicsDevice"; "QQuickImageProvider"; "QQuickImageResponse"; "QQuickItem";
    "QQuickItemGrabResult"; "QQuickPaintedItem"; "QQuickRenderControl"; "QQuickRenderTarget";
    "QQuickTextDocument"; "QQuickTextureFactory"; "QQuickView"; "QQuickWindow"; "QSGBasicGeometryNode";
    "QSGClipNode"; "QSGDynamicTexture"; "QSGFlatColorMaterial"; "QSGGeometry"; "QSGGeometryNode";
    "QSGImageNode"; "QSGMaterial"; "QSGMaterialShader"; "QSGMaterialType"; "QSGNode"; "QSGOpacityNode";
    "QSGOpaqueTextureMaterial"; "QSGOpenGLTexture"; "QSGRectangleNode"; "QSGRenderNode";
    "QSGRendererInterface"; "QSGSimpleRectNode"; "QSGSimpleTextureNode"; "QSGTextNode"; "QSGTexture";
    "QSGTextureMaterial"; "QSGTextureProvider"; "QSGTransformNode"; "QSGVertexColorMaterial"
  ].

Definition factory_qtquick_value_type : list string :=
  [
    "QQuickAsyncImageProvider"; "QQuickFramebufferObject"; "QQuickGraphicsConfiguration";
    "QQuickGraphicsDevice"; "QQuickImageProvider"; "QQuickImageResponse"; "QQuickItem";
    "QQuickItemGrabResult"; "QQuickPaintedItem"; "QQuickRenderControl"; "QQuickRenderTarget";
    "QQuickTextDocument"; "QQuickTextureFactory"; "QQuickView"; "QQuickWindow"; "QSGBasicGeometryNode";
    "QSGClipNode"; "QSGDynamicTexture"; "QSGFlatColorMaterial"; "QSGGeometry"; "QSGGeometryNode";
    "QSGImageNode"; "QSGMaterial"; "QSGMaterialShader"; "QSGMaterialType"; "QSGNode"; "QSGOpacityNode";
    "QSGOpaqueTextureMaterial"; "QSGOpenGLTexture"; "QSGRectangleNode"; "QSGRenderNode";
    "QSGRendererInterface"; "QSGSimpleRectNode"; "QSGSimpleTextureNode"; "QSGTextNode"; "QSGTexture";
    "QSGTextureMaterial"; "QSGTextureProvider"; "QSGTransformNode"; "QSGVertexColorMaterial"
  ].

Definition factory_qtquick : factory_module :=
  FactoryModule "QtQuick" "QtQuick"
    (factory_qtquick_includes)
    (factory_qtquick_has)
    (factory_qtquick_construct)
    (factory_qtquick_constructors)
    (factory_qtquick_meta_object)
    (factory_qtquick_meta_object_names)
    (factory_qtquick_value_type)
    [
      "QQuickAsyncImageProvider"; "QQuickFramebufferObject"; "QQuickGraphicsConfiguration";
      "QQuickGraphicsDevice"; "QQuickImageProvider"; "QQuickImageResponse"; "QQuickItem";
      "QQuickItemGrabResult"; "QQuickPaintedItem"; "QQuickRenderControl"; "QQuickRenderTarget";
      "QQuickTextDocument"; "QQuickTextureFactory"; "QQuickView"; "QQuickWindow"; "QSGBasicGeometryNode";
      "QSGClipNode"; "QSGDynamicTexture"; "QSGFlatColorMaterial"; "QSGGeometry"; "QSGGeometryNode";
      "QSGImageNode"; "QSGMaterial"; "QSGMaterialShader"; "QSGMaterialType"; "QSGNode"; "QSGOpacityNode";
      "QSGOpaqueTextureMaterial"; "QSGOpenGLTexture"; "QSGRectangleNode"; "QSGRenderNode";
      "QSGRendererInterface"; "QSGSimpleRectNode"; "QSGSimpleTextureNode"; "QSGTextNode"; "QSGTexture";
      "QSGTextureMaterial"; "QSGTextureProvider"; "QSGTransformNode"; "QSGVertexColorMaterial"
    ]
    [].

Definition factory_qtquick3d : factory_module :=
  same_rows "QtQuick3D" "QtQuick3D"
    [
      "QQuick3D"; "QQuick3DGeometry"; "QQuick3DObject"; "QQuick3DTextureData"
    ]
    [].

Definition factory_qtquickwidgets : factory_module :=
  same_rows "QtQuickWidgets" "QtQuickWidgets"
    [
      "QQuickWidget"
    ]
    [].

Definition factory_qtremoteobjects : factory_module :=
  same_rows "QtRemoteObjects" "QtRemoteObjects"
    [
      "QAbstractItemModelReplica"; "QRemoteObjectAbstractPersistedStore"; "QRemoteObjectDynamicReplica";
      "QRemoteObjectHost"; "QRemoteObjectHostBase"; "QRemoteObjectNode"; "QRemoteObjectRegistry";
      "QRemoteObjectRegistryHost"; "QRemoteObjectReplica"; "QRemoteObjectSourceLocationInfo"
    ]
    [].

Definition factory_qtsensors_includes_1 : list (string * string) :=
  own_headers
    [
      "QAccelerometer"; "QAccelerometerFilter"; "QAccelerometerReading"; "QAmbientLightFilter";
      "QAmbientLightReading"; "QAmbientLightSensor"; "QAmbientTemperatureFilter";
      "QAmbientTemperatureReading"; "QAmbientTemperatureSensor"; "QCompass"; "QCompassFilter";
      "QCompassReading"; "QGyroscope"; "QGyroscopeFilter"; "QGyroscopeReading"; "QHumidityFilter";
      "QHumidityReading"; "QHumiditySensor"; "QIRProximityFilter"; "QIRProximityReading";
      "QIRProximitySensor"; "QLidFilter"; "QLidReading"; "QLidSensor"; "QLightFilter"; "QLightReading"
    ].

Definition factory_qtsensors_includes_2 : list (string * string) :=
  own_headers
    [
      "QLightSensor"; "QMagnetometer"; "QMagnetometerFilter"; "QMagnetometerReading"; "QOrientationFilter";
      "QOrientationReading"; "QOrientationSensor"; "QPressureFilter"; "QPressureReading";
      "QPressureSensor"; "QProximityFilter"; "QProximityReading"; "QProximitySensor"; "QRotationFilter";
      "QRotationReading"; "QRotationSensor"; "QSensor"; "QSensorFilter"; "QSensorReading"; "QTapFilter";
      "QTapReading"; "QTapSensor"; "QTiltFilter"; "QTiltReading"; "QTiltSensor"
    ].

Definition factory_qtsensors_has : list string :=
  [
    "QAccelerometer"; "QAccelerometerFilter"; "QAccelerometerReading"; "QAmbientLightFilter";
    "QAmbientLightReading"; "QAmbientLightSensor"; "QAmbientTemperatureFilter";
    "QAmbientTemperatureReading"; "QAmbientTemperatureSensor"; "QCompass"; "QCompassFilter";
    "QCompassReading"; "QGyroscope"; "QGyroscopeFilter"; "QGyroscopeReading"; "QHumidityFilter";
    "QHumidityReading"; "QHumiditySensor"; "QIRProximityFilter"; "QIRProximityReading";
    "QIRProximitySensor"; "QLidFilter"; "QLidReading"; "QLidSensor"; "QLightFilter"; "QLightReading";
    "QLightSensor"; "QMagnetometer"; "QMagnetometerFilter"; "QMagnetometerReading"; "QOrientationFilter";
    "QOrientationReading"; "QOrientationSensor"; "QPressureFilter"; "QPressureReading"; "QPressureSensor";
    "QProximityFilter"; "QProximityReading"; "QProximitySensor"; "QRotationFilter"; "QRotationReading";
    "QRotationSensor"; "QSensor"; "QSensorFilter"; "QSensorReading"; "QTapFilter"; "QTapReading";
    "QTapSensor"; "QTiltFilter"; "QTiltReading"; "QTiltSensor"
  ].

Definition factory_qtsensors_construct : list string :=
  [
    "QAccelerometer"; "QAccelerometerFilter"; "QAccelerometerReading"; "QAmbientLightFilter";
    "QAmbientLightReading"; "QAmbientLightSensor"; "QAmbientTemperatureFilter";
    "QAmbientTemperatureReading"; "QAmbientTemperatureSensor"; "QCompass"; "QCompassFilter";
    "QCompassReading"; "QGyroscope"; "QGyroscopeFilter"; "QGyroscopeReading"; "QHumidityFilter";
    "QHumidityReading"; "QHumiditySensor"; "QIRProximityFilter"; "QIRProximityReading";
    "QIRProximitySensor"; "QLidFilter"; "QLidReading"; "QLidSensor"; "QLightFilter"; "QLightReading";
    "QLightSensor"; "QMagnetometer"; "QMagnetometerFilter"; "QMagnetometerReading"; "QOrientationFilter";
    "QOrientationReading"; "QOrientationSensor"; "QPressureFilter"; "QPressureReading"; "QPressureSensor";
    "QProximityFilter"; "QProximityReading"; "QProximitySensor"; "QRotationFilter"; "QRotationReading";
    "QRotationSensor"; "QSensor"; "QSensorFilter"; "QSensorReading"; "QTapFilter"; "QTapReading";
    "QTapSensor"; "QTiltFilter"; "QTiltReading"; "QTiltSensor"
  ].

Definition factory_qtsensors_constructors : list string :=
  [
    "QAccelerometer"; "QAccelerometerFilter"; "QAccelerometerReading"; "QAmbientLightFilter";
    "QAmbientLightReading"; "QAmbientLightSensor"; "QAmbientTemperatureFilter";
    "QAmbientTemperatureReading"; "QAmbientTemperatureSensor"; "QCompass"; "QCompassFilter";
    "QCompassReading"; "QGyroscope"; "QGyroscopeFilter"; "QGyroscopeReading"; "QHumidityFilter";
    "QHumidityReading"; "QHumiditySensor"; "QIRProximityFilter"; "QIRProximityReading";
    "QIRProximitySensor"; "QLidFilter"; "QLidReading"; "QLidSensor"; "QLightFilter"; "QLightReading";
    "QLightSensor"; "QMagnetometer"; "QMagnetometerFilter"; "QMagnetometerReading"; "QOrientationFilter";
    "QOrientationReading"; "QOrientationSensor"; "QPressureFilter"; "QPressureReading"; "QPressureSensor";
    "QProximityFilter"; "QProximityReading"; "QProximitySensor"; "QRotationFilter"; "QRotationReading";
    "QRotationSensor"; "QSensor"; "QSensorFilter"; "QSensorReading"; "QTapFilter"; "QTapReading";
    "QTapSensor"; "QTiltFilter"; "QTiltReading"; "QTiltSensor"
  ].

Definition factory_qtsensors_meta_object : list string :=
  [
    "QAccelerometer"; "QAccelerometerFilter"; "QAccelerometerReading"; "QAmbientLightFilter";
    "QAmbientLightReading"; "QAmbientLightSensor"; "QAmbientTemperatureFilter";
    "QAmbientTemperatureReading"; "QAmbientTemperatureSensor"; "QCompass"; "QCompassFilter";
    "QCompassReading"; "QGyroscope"; "QGyroscopeFilter"; "QGyroscopeReading"; "QHumidityFilter";
    "QHumidityReading"; "QHumiditySensor"; "QIRProximityFilter"; "QIRProximityReading";
    "QIRProximitySensor"; "QLidFilter"; "QLidReading"; "QLidSensor"; "QLightFilter"; "QLightReading";
    "QLightSensor"; "QMagnetometer"; "QMagnetometerFilter"; "QMagnetometerReading"; "QOrientationFilter";
    "QOrientationReading"; "QOrientationSensor"; "QPressureFilter"; "QPressureReading"; "QPressureSensor";
    "QProximityFilter"; "QProximityReading"; "QProximitySensor"; "QRotationFilter"; "QRotationReading";
    "QRotationSensor"; "QSensor"; "QSensorFilter"; "QSensorReading"; "QTapFilter"; "QTapReading";
    "QTapSensor"; "QTiltFilter"; "QTiltReading"; "QTiltSensor"
  ].

Definition factory_qtsensors_meta_object_names : list string :=
  [
    "QAccelerometer"; "QAccelerometerFilter"; "QAccelerometerReading"; "QAmbientLightFilter";
    "QAmbientLightReading"; "QAmbientLightSensor"; "QAmbientTemperatureFilter";
    "QAmbientTemperatureReading"; "QAmbientTemperatureSensor"; "QCompass"; "QCompassFilter";
    "QCompassReading"; "QGyroscope"; "QGyroscopeFilter"; "QGyroscopeReading"; "QHumidityFilter";
    "QHumidityReading"; "QHumiditySensor"; "QIRProximityFilter"; "QIRProximityReading";
    "QIRProximitySensor"; "QLidFilter"; "QLidReading"; "QLidSensor"; "QLightFilter"; "QLightReading";
    "QLightSensor"; "QMagnetometer"; "QMagnetometerFilter"; "QMagnetometerReading"; "QOrientationFilter";
    "QOrientationReading"; "QOrientationSensor"; "QPressureFilter"; "QPressureReading"; "QPressureSensor";
    "QProximityFilter"; "QProximityReading"; "QProximitySensor"; "QRotationFilter"; "QRotationReading";
    "QRotationSensor"; "QSensor"; "QSensorFilter"; "QSensorReading"; "QTapFilter"; "QTapReading";
    "QTapSensor"; "QTiltFilter"; "QTiltReading"; "QTiltSensor"
  ].

Definition factory_qtsensors_value_type : list string :=
  [
    "QAccelerometer"; "QAccelerometerFilter"; "QAccelerometerReading"; "QAmbientLightFilter";
    "QAmbientLightReading"; "QAmbientLightSensor"; "QAmbientTemperatureFilter";
    "QAmbientTemperatureReading"; "QAmbientTemperatureSensor"; "QCompass"; "QCompassFilter";
    "QCompassReading"; "QGyroscope"; "QGyroscopeFilter"; "QGyroscopeReading"; "QHumidityFilter";
    "QHumidityReading"; "QHumiditySensor"; "QIRProximityFilter"; "QIRProximityReading";
    "QIRProximitySensor"; "QLidFilter"; "QLidReading"; "QLidSensor"; "QLightFilter"; "QLightReading";
    "QLightSensor"; "QMagnetometer"; "QMagnetometerFilter"; "QMagnetometerReading"; "QOrientationFilter";
    "QOrientationReading"; "QOrientationSensor"; "QPressureFilter"; "QPressureReading"; "QPressureSensor";
    "QProximityFilter"; "QProximityReading"; "QProximitySensor"; "QRotationFilter"; "QRotationReading";
    "QRotationSensor"; "QSensor"; "QSensorFilter"; "QSensorReading"; "QTapFilter"; "QTapReading";
    "QTapSensor"; "QTiltFilter"; "QTiltReading"; "QTiltSensor"
  ].

Definition factory_qtsensors : factory_module :=
  FactoryModule "QtSensors" "QtSensors"
    (factory_qtsensors_includes_1 ++ factory_qtsensors_includes_2)
    (factory_qtsensors_has)
    (factory_qtsensors_construct)
    (factory_qtsensors_constructors)
    (factory_qtsensors_meta_object)
    (factory_qtsensors_meta_object_names)
    (factory_qtsensors_value_type)
    [
      "QAccelerometer"; "QAccelerometerFilter"; "QAccelerometerReading"; "QAmbientLightFilter";
      "QAmbientLightReading"; "QAmbientLightSensor"; "QAmbientTemperatureFilter";
      "QAmbientTemperatureReading"; "QAmbientTemperatureSensor"; "QCompass"; "QCompassFilter";
      "QCompassReading"; "QGyroscope"; "QGyroscopeFilter"; "QGyroscopeReading"; "QHumidityFilter";
      "QHumidityReading"; "QHumiditySensor"; "QIRProximityFilter"; "QIRProximityReading";
      "QIRProximitySensor"; "QLidFilter"; "QLidReading"; "QLidSensor"; "QLightFilter"; "QLightReading";
      "QLightSensor"; "QMagnetometer"; "QMagnetometerFilter"; "QMagnetometerReading"; "QOrientationFilter";
      "QOrientationReading"; "QOrientationSensor"; "QPressureFilter"; "QPressureReading";
      "QPressureSensor"; "QProximityFilter"; "QProximityReading"; "QProximitySensor"; "QRotationFilter";
      "QRotationReading"; "QRotationSensor"; "QSensor"; "QSensorFilter"; "QSensorReading"; "QTapFilter";
      "QTapReading"; "QTapSensor"; "QTiltFilter"; "QTiltReading"; "QTiltSensor"
    ]
    [].

Definition factory_qtserialport : factory_module :=
  same_rows "QtSerialPort" "QtSerialPort"
    [
      "QSerialPort"; "QSerialPortInfo"
    ]
    [].

Definition factory_qtspatialaudio : factory_module :=
  same_rows "QtSpatialAudio" "QtSpatialAudio"
    [
      "QAmbientSound"; "QAudioEngine"; "QAudioListener"; "QAudioRoom"; "QSpatialSound"
    ]
    [].

Definition factory_qtsql : factory_module :=
  same_rows "QtSql" "QtSql"
    [
      "QSqlDatabase"; "QSqlDriver"; "QSqlDriverCreatorBase"; "QSqlError"; "QSqlField"; "QSqlIndex";
      "QSqlQuery"; "QSqlQueryModel"; "QSqlRecord"; "QSqlRelation"; "QSqlRelationalDelegate";
      "QSqlRelationalTableModel"; "QSqlResult"; "QSqlTableModel"
    ]
    [].

Definition factory_qtstatemachine : factory_module :=
  same_rows "QtStateMachine" "QtStateMachine"
    [
      "QAbstractState"; "QAbstractTransition"; "QEventTransition"; "QFinalState"; "QHistoryState";
      "QKeyEventTransition"; "QMouseEventTransition"; "QSignalTransition"; "QState"; "QStateMachine"
    ]
    [].

Definition factory_qtsvg : factory_module :=
  same_rows "QtSvg" "QtSvg"
    [
      "QSvgGenerator"; "QSvgRenderer"
    ]
    [].

Definition factory_qtsvgwidgets : factory_module :=
  same_rows "QtSvgWidgets" "QtSvgWidgets"
    [
      "QGraphicsSvgItem"; "QSvgWidget"
    ]
    [].

Definition factory_qttest : factory_module :=
  same_rows "QtTest" "QtTest"
    [
      "QAbstractItemModelTester"; "QSignalSpy"
    ]
    [].

Definition factory_qttexttospeech : factory_module :=
  same_rows "QtTextToSpeech" "QtTextToSpeech"
    [
      "QTextToSpeech"; "QVoice"
    ]
    [].

Definition factory_qtwebchannel : factory_module :=
  same_rows "QtWebChannel" "QtWebChannel"
    [
      "QWebChannel"; "QWebChannelAbstractTransport"
    ]
    [].

Definition factory_qtwebenginecore_includes : list (string * string) :=
  own_headers
    [
      "QWebEngineCertificateError"; "QWebEngineClientCertificateSelection";
      "QWebEngineClientCertificateStore"; "QWebEngineClientHints"; "QWebEngineContextMenuRequest";
      "QWebEngineCookieStore"; "QWebEngineDesktopMediaRequest"; "QWebEngineDownloadRequest";
      "QWebEngineExtensionInfo"; "QWebEngineExtensionManager"; "QWebEngineFileSystemAccessRequest";
      "QWebEngineFindTextResult"; "QWebEngineFrame"; "QWebEngineFullScreenRequest";
      "QWebEngineGlobalSettings"; "QWebEngineHistory"; "QWebEngineHistoryItem"; "QWebEngineHistoryModel";
      "QWebEngineHttpRequest"; "QWebEngineLoadingInfo"; "QWebEngineNavigationRequest";
      "QWebEngineNewWindowRequest"; "QWebEngineNotification"; "QWebEnginePage"; "QWebEnginePermission";
      "QWebEngineProfile"; "QWebEngineProfileBuilder"; "QWebEngineQuotaRequest";
      "QWebEngineRegisterProtocolHandlerRequest"; "QWebEngineScript"; "QWebEngineScriptCollection";
      "QWebEngineSettings"; "QWebEngineUrlRequestInfo"; "QWebEngineUrlRequestInterceptor";
      "QWebEngineUrlRequestJob"; "QWebEngineUrlScheme"; "QWebEngineUrlSchemeHandler";
      "QWebEngineWebAuthPinRequest"; "QWebEngineWebAuthUxRequest"
    ].

Definition factory_qtwebenginecore_has : list string :=
  [
    "QWebEngineCertificateError"; "QWebEngineClientCertificateSelection";
    "QWebEngineClientCertificateStore"; "QWebEngineClientHints"; "QWebEngineContextMenuRequest";
    "QWebEngineCookieStore"; "QWebEngineDesktopMediaRequest"; "QWebEngineDownloadRequest";
    "QWebEngineExtensionInfo"; "QWebEngineExtensionManager"; "QWebEngineFileSystemAccessRequest";
    "QWebEngineFindTextResult"; "QWebEngineFrame"; "QWebEngineFullScreenRequest";
    "QWebEngineGlobalSettings"; "QWebEngineHistory"; "QWebEngineHistoryItem"; "QWebEngineHistoryModel";
    "QWebEngineHttpRequest"; "QWebEngineLoadingInfo"; "QWebEngineNavigationRequest";
    "QWebEngineNewWindowRequest"; "QWebEngineNotification"; "QWebEnginePage"; "QWebEnginePermission";
    "QWebEngineProfile"; "QWebEngineProfileBuilder"; "QWebEngineQuotaRequest";
    "QWebEngineRegisterProtocolHandlerRequest"; "QWebEngineScript"; "QWebEngineScriptCollection";
    "QWebEngineSettings"; "QWebEngineUrlRequestInfo"; "QWebEngineUrlRequestInterceptor";
    "QWebEngineUrlRequestJob"; "QWebEngineUrlScheme"; "QWebEngineUrlSchemeHandler";
    "QWebEngineWebAuthPinRequest"; "QWebEngineWebAuthUxRequest"
  ].

Definition factory_qtwebenginecore_construct : list string :=
  [
    "QWebEngineCertificateError"; "QWebEngineClientCertificateSelection";
    "QWebEngineClientCertificateStore"; "QWebEngineClientHints"; "QWebEngineContextMenuRequest";
    "QWebEngineCookieStore"; "QWebEngineDesktopMediaRequest"; "QWebEngineDownloadRequest";
    "QWebEngineExtensionInfo"; "QWebEngineExtensionManager"; "QWebEngineFileSystemAccessRequest";
    "QWebEngineFindTextResult"; "QWebEngineFrame"; "QWebEngineFullScreenRequest";
    "QWebEngineGlobalSettings"; "QWebEngineHistory"; "QWebEngineHistoryItem"; "QWebEngineHistoryModel";
    "QWebEngineHttpRequest"; "QWebEngineLoadingInfo"; "QWebEngineNavigationRequest";
    "QWebEngineNewWindowRequest"; "QWebEngineNotification"; "QWebEnginePage"; "QWebEnginePermission";
    "QWebEngineProfile"; "QWebEngineProfileBuilder"; "QWebEngineQuotaRequest";
    "QWebEngineRegisterProtocolHandlerRequest"; "QWebEngineScript"; "QWebEngineScriptCollection";
    "QWebEngineSettings"; "QWebEngineUrlRequestInfo"; "QWebEngineUrlRequestInterceptor";
    "QWebEngineUrlRequestJob"; "QWebEngineUrlScheme"; "QWebEngineUrlSchemeHandler";
    "QWebEngineWebAuthPinRequest"; "QWebEngineWebAuthUxRequest"
  ].

Definition factory_qtwebenginecore_constructors : list string :=
  [
    "QWebEngineCertificateError"; "QWebEngineClientCertificateSelection";
    "QWebEngineClientCertificateStore"; "QWebEngineClientHints"; "QWebEngineContextMenuRequest";
    "QWebEngineCookieStore"; "QWebEngineDesktopMediaRequest"; "QWebEngineDownloadRequest";
    "QWebEngineExtensionInfo"; "QWebEngineExtensionManager"; "QWebEngineFileSystemAccessRequest";
    "QWebEngineFindTextResult"; "QWebEngineFrame"; "QWebEngineFullScreenRequest";
    "QWebEngineGlobalSettings"; "QWebEngineHistory"; "QWebEngineHistoryItem"; "QWebEngineHistoryModel";
    "QWebEngineHttpRequest"; "QWebEngineLoadingInfo"; "QWebEngineNavigationRequest";
    "QWebEngineNewWindowRequest"; "QWebEngineNotification"; "QWebEnginePage"; "QWebEnginePermission";
    "QWebEngineProfile"; "QWebEngineProfileBuilder"; "QWebEngineQuotaRequest";
    "QWebEngineRegisterProtocolHandlerRequest"; "QWebEngineScript"; "QWebEngineScriptCollection";
    "QWebEngineSettings"; "QWebEngineUrlRequestInfo"; "QWebEngineUrlRequestInterceptor";
    "QWebEngineUrlRequestJob"; "QWebEngineUrlScheme"; "QWebEngineUrlSchemeHandler";
    "QWebEngineWebAuthPinRequest"; "QWebEngineWebAuthUxRequest"
  ].

Definition factory_qtwebenginecore_meta_object : list string :=
  [
    "QWebEngineCertificateError"; "QWebEngineClientCertificateSelection";
    "QWebEngineClientCertificateStore"; "QWebEngineClientHints"; "QWebEngineContextMenuRequest";
    "QWebEngineCookieStore"; "QWebEngineDesktopMediaRequest"; "QWebEngineDownloadRequest";
    "QWebEngineExtensionInfo"; "QWebEngineExtensionManager"; "QWebEngineFileSystemAccessRequest";
    "QWebEngineFindTextResult"; "QWebEngineFrame"; "QWebEngineFullScreenRequest";
    "QWebEngineGlobalSettings"; "QWebEngineHistory"; "QWebEngineHistoryItem"; "QWebEngineHistoryModel";
    "QWebEngineHttpRequest"; "QWebEngineLoadingInfo"; "QWebEngineNavigationRequest";
    "QWebEngineNewWindowRequest"; "QWebEngineNotification"; "QWebEnginePage"; "QWebEnginePermission";
    "QWebEngineProfile"; "QWebEngineProfileBuilder"; "QWebEngineQuotaRequest";
    "QWebEngineRegisterProtocolHandlerRequest"; "QWebEngineScript"; "QWebEngineScriptCollection";
    "QWebEngineSettings"; "QWebEngineUrlRequestInfo"; "QWebEngineUrlRequestInterceptor";
    "QWebEngineUrlRequestJob"; "QWebEngineUrlScheme"; "QWebEngineUrlSchemeHandler";
    "QWebEngineWebAuthPinRequest"; "QWebEngineWebAuthUxRequest"
  ].

Definition factory_qtwebenginecore_meta_object_names : list string :=
  [
    "QWebEngineCertificateError"; "QWebEngineClientCertificateSelection";
    "QWebEngineClientCertificateStore"; "QWebEngineClientHints"; "QWebEngineContextMenuRequest";
    "QWebEngineCookieStore"; "QWebEngineDesktopMediaRequest"; "QWebEngineDownloadRequest";
    "QWebEngineExtensionInfo"; "QWebEngineExtensionManager"; "QWebEngineFileSystemAccessRequest";
    "QWebEngineFindTextResult"; "QWebEngineFrame"; "QWebEngineFullScreenRequest";
    "QWebEngineGlobalSettings"; "QWebEngineHistory"; "QWebEngineHistoryItem"; "QWebEngineHistoryModel";
    "QWebEngineHttpRequest"; "QWebEngineLoadingInfo"; "QWebEngineNavigationRequest";
    "QWebEngineNewWindowRequest"; "QWebEngineNotification"; "QWebEnginePage"; "QWebEnginePermission";
    "QWebEngineProfile"; "QWebEngineProfileBuilder"; "QWebEngineQuotaRequest";
    "QWebEngineRegisterProtocolHandlerRequest"; "QWebEngineScript"; "QWebEngineScriptCollection";
    "QWebEngineSettings"; "QWebEngineUrlRequestInfo"; "QWebEngineUrlRequestInterceptor";
    "QWebEngineUrlRequestJob"; "QWebEngineUrlScheme"; "QWebEngineUrlSchemeHandler";
    "QWebEngineWebAuthPinRequest"; "QWebEngineWebAuthUxRequest"
  ].

Definition factory_qtwebenginecore_value_type : list string :=
  [
    "QWebEngineCertificateError"; "QWebEngineClientCertificateSelection";
    "QWebEngineClientCertificateStore"; "QWebEngineClientHints"; "QWebEngineContextMenuRequest";
    "QWebEngineCookieStore"; "QWebEngineDesktopMediaRequest"; "QWebEngineDownloadRequest";
    "QWebEngineExtensionInfo"; "QWebEngineExtensionManager"; "QWebEngineFileSystemAccessRequest";
    "QWebEngineFindTextResult"; "QWebEngineFrame"; "QWebEngineFullScreenRequest";
    "QWebEngineGlobalSettings"; "QWebEngineHistory"; "QWebEngineHistoryItem"; "QWebEngineHistoryModel";
    "QWebEngineHttpRequest"; "QWebEngineLoadingInfo"; "QWebEngineNavigationRequest";
    "QWebEngineNewWindowRequest"; "QWebEngineNotification"; "QWebEnginePage"; "QWebEnginePermission";
    "QWebEngineProfile"; "QWebEngineProfileBuilder"; "QWebEngineQuotaRequest";
    "QWebEngineRegisterProtocolHandlerRequest"; "QWebEngineScript"; "QWebEngineScriptCollection";
    "QWebEngineSettings"; "QWebEngineUrlRequestInfo"; "QWebEngineUrlRequestInterceptor";
    "QWebEngineUrlRequestJob"; "QWebEngineUrlScheme"; "QWebEngineUrlSchemeHandler";
    "QWebEngineWebAuthPinRequest"; "QWebEngineWebAuthUxRequest"
  ].

Definition factory_qtwebenginecore : factory_module :=
  FactoryModule "QtWebEngineCore" "QtWebEngineCore"
    (factory_qtwebenginecore_includes)
    (factory_qtwebenginecore_has)
    (factory_qtwebenginecore_construct)
    (factory_qtwebenginecore_constructors)
    (factory_qtwebenginecore_meta_object)
    (factory_qtwebenginecore_meta_object_names)
    (factory_qtwebenginecore_value_type)
    [
      "QWebEngineCertificateError"; "QWebEngineClientCertificateSelection";
      "QWebEngineClientCertificateStore"; "QWebEngineClientHints"; "QWebEngineContextMenuRequest";
      "QWebEngineCookieStore"; "QWebEngineDesktopMediaRequest"; "QWebEngineDownloadRequest";
      "QWebEngineExtensionInfo"; "QWebEngineExtensionManager"; "QWebEngineFileSystemAccessRequest";
      "QWebEngineFindTextResult"; "QWebEngineFrame"; "QWebEngineFullScreenRequest";
      "QWebEngineGlobalSettings"; "QWebEngineHistory"; "QWebEngineHistoryItem"; "QWebEngineHistoryModel";
      "QWebEngineHttpRequest"; "QWebEngineLoadingInfo"; "QWebEngineNavigationRequest";
      "QWebEngineNewWindowRequest"; "QWebEngineNotification"; "QWebEnginePage"; "QWebEnginePermission";
      "QWebEngineProfile"; "QWebEngineProfileBuilder"; "QWebEngineQuotaRequest";
      "QWebEngineRegisterProtocolHandlerRequest"; "QWebEngineScript"; "QWebEngineScriptCollection";
      "QWebEngineSettings"; "QWebEngineUrlRequestInfo"; "QWebEngineUrlRequestInterceptor";
      "QWebEngineUrlRequestJob"; "QWebEngineUrlScheme"; "QWebEngineUrlSchemeHandler";
      "QWebEngineWebAuthPinRequest"; "QWebEngineWebAuthUxRequest"
    ]
    [].

Definition factory_qtwebenginequick : factory_module :=
  same_rows "QtWebEngineQuick" "QtWebEngineQuick"
    [
      "QQuickWebEngineProfile"
    ]
    [].

Definition factory_qtwebenginewidgets : factory_module :=
  same_rows "QtWebEngineWidgets" "QtWebEngineWidgets"
    [
      "QWebEngineView"
    ]
    [].

Definition factory_qtwebsockets : factory_module :=
  same_rows "QtWebSockets" "QtWebSockets"
    [
      "QMaskGenerator"; "QWebSocket"; "QWebSocketCorsAuthenticator"; "QWebSocketHandshakeOptions";
      "QWebSocketServer"
    ]
    [].

Definition factory_qtwidgets_includes_1 : list (string * string) :=
  own_headers
    [
      "QAbstractButton"; "QAbstractGraphicsShapeItem"; "QAbstractItemDelegate"; "QAbstractItemView";
      "QAbstractScrollArea"; "QAbstractSlider"; "QAbstractSpinBox"; "QApplication"; "QBoxLayout";
      "QButtonGroup"; "QCalendarWidget"; "QCheckBox"; "QColorDialog"; "QColumnView"; "QComboBox";
      "QCommandLinkButton"; "QCommonStyle"; "QCompleter"; "QDataWidgetMapper"; "QDateEdit";
      "QDateTimeEdit"; "QDial"; "QDialog"; "QDialogButtonBox"; "QDockWidget"; "QDoubleSpinBox";
      "QErrorMessage"; "QFileDialog"; "QFileIconProvider"; "QFocusFrame"; "QFontComboBox"; "QFontDialog";
      "QFormLayout"; "QFrame"; "QGesture"; "QGestureEvent"; "QGestureRecognizer"
    ].

Definition factory_qtwidgets_includes_2 : list (string * string) :=
  own_headers
    [
      "QGraphicsAnchor"; "QGraphicsAnchorLayout"; "QGraphicsBlurEffect"; "QGraphicsColorizeEffect";
      "QGraphicsDropShadowEffect"; "QGraphicsEffect"; "QGraphicsEllipseItem"; "QGraphicsGridLayout";
      "QGraphicsItem"; "QGraphicsItemGroup"; "QGraphicsLayout"; "QGraphicsLayoutItem"; "QGraphicsLineItem";
      "QGraphicsLinearLayout"; "QGraphicsObject"; "QGraphicsOpacityEffect"; "QGraphicsPathItem";
      "QGraphicsPixmapItem"; "QGraphicsPolygonItem"; "QGraphicsProxyWidget"; "QGraphicsRectItem";
      "QGraphicsRotation"; "QGraphicsScale"; "QGraphicsScene"; "QGraphicsSceneContextMenuEvent";
      "QGraphicsSceneDragDropEvent"; "QGraphicsSceneEvent"; "QGraphicsSceneHelpEvent";
      "QGraphicsSceneHoverEvent"; "QGraphicsSceneMouseEvent"; "QGraphicsSceneMoveEvent";
      "QGraphicsSceneResizeEvent"; "QGraphicsSceneWheelEvent"; "QGraphicsSimpleTextItem";
      "QGraphicsTextItem"; "QGraphicsTransform"; "QGraphicsView"
    ].

Definition factory_qtwidgets_includes_3 : list (string * string) :=
  own_headers
    [
      "QGraphicsWidget"; "QGridLayout"; "QGroupBox"; "QHBoxLayout"; "QHeaderView"; "QInputDialog";
      "QItemDelegate"; "QItemEditorCreatorBase"; "QItemEditorFactory"; "QKeySequenceEdit"; "QLCDNumber";
      "QLabel"; "QLayout"; "QLayoutItem"; "QLineEdit"; "QListView"; "QListWidget"; "QListWidgetItem";
      "QMainWindow"; "QMdiArea"; "QMdiSubWindow"; "QMenu"; "QMenuBar"; "QMessageBox"; "QPanGesture";
      "QPinchGesture"; "QPlainTextDocumentLayout"; "QPlainTextEdit"; "QProgressBar"; "QProgressDialog";
      "QProxyStyle"; "QPushButton"; "QRadioButton"; "QRubberBand"; "QScrollArea"; "QScrollBar"; "QScroller"
    ].

Definition factory_qtwidgets_includes_4 : list (string * string) :=
  own_headers
    [
      "QScrollerProperties"; "QSizeGrip"; "QSizePolicy"; "QSlider"; "QSpacerItem"; "QSpinBox";
      "QSplashScreen"; "QSplitter"; "QSplitterHandle"; "QStackedLayout"; "QStackedWidget"; "QStatusBar";
      "QStyle"; "QStyleFactory"; "QStyleHintReturn"; "QStyleHintReturnMask"; "QStyleHintReturnVariant";
      "QStyleOption"; "QStyleOptionButton"; "QStyleOptionComboBox"; "QStyleOptionComplex";
      "QStyleOptionDockWidget"; "QStyleOptionFocusRect"; "QStyleOptionFrame"; "QStyleOptionGraphicsItem";
      "QStyleOptionGroupBox"; "QStyleOptionHeader"; "QStyleOptionHeaderV2"; "QStyleOptionMenuItem";
      "QStyleOptionMenuItemV2"; "QStyleOptionProgressBar"; "QStyleOptionRubberBand";
      "QStyleOptionSizeGrip"; "QStyleOptionSlider"; "QStyleOptionSpinBox"; "QStyleOptionTab";
      "QStyleOptionTabBarBase"
    ].

Definition factory_qtwidgets_includes_5 : list (string * string) :=
  own_headers
    [
      "QStyleOptionTabWidgetFrame"; "QStyleOptionTitleBar"; "QStyleOptionToolBar"; "QStyleOptionToolBox";
      "QStyleOptionToolButton"; "QStyleOptionViewItem"; "QStylePainter"; "QStyledItemDelegate";
      "QSwipeGesture"; "QSystemTrayIcon"; "QTabBar"; "QTabWidget"; "QTableView"; "QTableWidget";
      "QTableWidgetItem"; "QTableWidgetSelectionRange"; "QTapAndHoldGesture"; "QTapGesture";
      "QTextBrowser"; "QTextEdit"; "QTimeEdit"; "QToolBar"; "QToolBox"; "QToolButton"; "QToolTip";
      "QTreeView"; "QTreeWidget"; "QTreeWidgetItem"; "QTreeWidgetItemIterator"; "QUndoView"; "QVBoxLayout";
      "QWhatsThis"; "QWidget"; "QWidgetAction"; "QWidgetItem"; "QWizard"; "QWizardPage"
    ].

Definition factory_qtwidgets_has_1 : list string :=
  [
    "QAbstractButton"; "QAbstractGraphicsShapeItem"; "QAbstractItemDelegate"; "QAbstractItemView";
    "QAbstractScrollArea"; "QAbstractSlider"; "QAbstractSpinBox"; "QApplication"; "QBoxLayout";
    "QButtonGroup"; "QCalendarWidget"; "QCheckBox"; "QColorDialog"; "QColumnView"; "QComboBox";
    "QCommandLinkButton"; "QCommonStyle"; "QCompleter"; "QDataWidgetMapper"; "QDateEdit"; "QDateTimeEdit";
    "QDial"; "QDialog"; "QDialogButtonBox"; "QDockWidget"; "QDoubleSpinBox"; "QErrorMessage";
    "QFileDialog"; "QFileIconProvider"; "QFocusFrame"; "QFontComboBox"; "QFontDialog"; "QFormLayout";
    "QFrame"; "QGesture"; "QGestureEvent"; "QGestureRecognizer"; "QGraphicsAnchor";
    "QGraphicsAnchorLayout"; "QGraphicsBlurEffect"; "QGraphicsColorizeEffect"; "QGraphicsDropShadowEffect";
    "QGraphicsEffect"; "QGraphicsEllipseItem"; "QGraphicsGridLayout"; "QGraphicsItem"; "QGraphicsItemGroup"
  ].

Definition factory_qtwidgets_has_2 : list string :=
  [
    "QGraphicsLayout"; "QGraphicsLayoutItem"; "QGraphicsLineItem"; "QGraphicsLinearLayout";
    "QGraphicsObject"; "QGraphicsOpacityEffect"; "QGraphicsPathItem"; "QGraphicsPixmapItem";
    "QGraphicsPolygonItem"; "QGraphicsProxyWidget"; "QGraphicsRectItem"; "QGraphicsRotation";
    "QGraphicsScale"; "QGraphicsScene"; "QGraphicsSceneContextMenuEvent"; "QGraphicsSceneDragDropEvent";
    "QGraphicsSceneEvent"; "QGraphicsSceneHelpEvent"; "QGraphicsSceneHoverEvent";
    "QGraphicsSceneMouseEvent"; "QGraphicsSceneMoveEvent"; "QGraphicsSceneResizeEvent";
    "QGraphicsSceneWheelEvent"; "QGraphicsSimpleTextItem"; "QGraphicsTextItem"; "QGraphicsTransform";
    "QGraphicsView"; "QGraphicsWidget"; "QGridLayout"; "QGroupBox"; "QHBoxLayout"; "QHeaderView";
    "QInputDialog"; "QItemDelegate"; "QItemEditorCreatorBase"; "QItemEditorFactory"; "QKeySequenceEdit";
    "QLCDNumber"; "QLabel"; "QLayout"; "QLayoutItem"; "QLineEdit"; "QListView"; "QListWidget";
    "QListWidgetItem"; "QMainWindow"; "QMdiArea"
  ].

Definition factory_qtwidgets_has_3 : list string :=
  [
    "QMdiSubWindow"; "QMenu"; "QMenuBar"; "QMessageBox"; "QPanGesture"; "QPinchGesture";
    "QPlainTextDocumentLayout"; "QPlainTextEdit"; "QProgressBar"; "QProgressDialog"; "QProxyStyle";
    "QPushButton"; "QRadioButton"; "QRubberBand"; "QScrollArea"; "QScrollBar"; "QScroller";
    "QScrollerProperties"; "QSizeGrip"; "QSizePolicy"; "QSlider"; "QSpacerItem"; "QSpinBox";
    "QSplashScreen"; "QSplitter"; "QSplitterHandle"; "QStackedLayout"; "QStackedWidget"; "QStatusBar";
    "QStyle"; "QStyleFactory"; "QStyleHintReturn"; "QStyleHintReturnMask"; "QStyleHintReturnVariant";
    "QStyleOption"; "QStyleOptionButton"; "QStyleOptionComboBox"; "QStyleOptionComplex";
    "QStyleOptionDockWidget"; "QStyleOptionFocusRect"; "QStyleOptionFrame"; "QStyleOptionGraphicsItem";
    "QStyleOptionGroupBox"; "QStyleOptionHeader"; "QStyleOptionHeaderV2"; "QStyleOptionMenuItem";
    "QStyleOptionMenuItemV2"
  ].

Definition factory_qtwidgets_has_4 : list string :=
  [
    "QStyleOptionProgressBar"; "QStyleOptionRubberBand"; "QStyleOptionSizeGrip"; "QStyleOptionSlider";
    "QStyleOptionSpinBox"; "QStyleOptionTab"; "QStyleOptionTabBarBase"; "QStyleOptionTabWidgetFrame";
    "QStyleOptionTitleBar"; "QStyleOptionToolBar"; "QStyleOptionToolBox"; "QStyleOptionToolButton";
    "QStyleOptionViewItem"; "QStylePainter"; "QStyledItemDelegate"; "QSwipeGesture"; "QSystemTrayIcon";
    "QTabBar"; "QTabWidget"; "QTableView"; "QTableWidget"; "QTableWidgetItem";
    "QTableWidgetSelectionRange"; "QTapAndHoldGesture"; "QTapGesture"; "QTextBrowser"; "QTextEdit";
    "QTimeEdit"; "QToolBar"; "QToolBox"; "QToolButton"; "QToolTip"; "QTreeView"; "QTreeWidget";
    "QTreeWidgetItem"; "QTreeWidgetItemIterator"; "QUndoView"; "QVBoxLayout"; "QWhatsThis"; "QWidget";
    "QWidgetAction"; "QWidgetItem"; "QWizard"; "QWizardPage"
  ].

Definition factory_qtwidgets_construct_1 : list string :=
  [
    "QAbstractButton"; "QAbstractGraphicsShapeItem"; "QAbstractItemDelegate"; "QAbstractItemView";
    "QAbstractScrollArea"; "QAbstractSlider"; "QAbstractSpinBox"; "QApplication"; "QBoxLayout";
    "QButtonGroup"; "QCalendarWidget"; "QCheckBox"; "QColorDialog"; "QColumnView"; "QComboBox";
    "QCommandLinkButton"; "QCommonStyle"; "QCompleter"; "QDataWidgetMapper"; "QDateEdit"; "QDateTimeEdit";
    "QDial"; "QDialog"; "QDialogButtonBox"; "QDockWidget"; "QDoubleSpinBox"; "QErrorMessage";
    "QFileDialog"; "QFileIconProvider"; "QFocusFrame"; "QFontComboBox"; "QFontDialog"; "QFormLayout";
    "QFrame"; "QGesture"; "QGestureEvent"; "QGestureRecognizer"; "QGraphicsAnchor";
    "QGraphicsAnchorLayout"; "QGraphicsBlurEffect"; "QGraphicsColorizeEffect"; "QGraphicsDropShadowEffect";
    "QGraphicsEffect"; "QGraphicsEllipseItem"; "QGraphicsGridLayout"; "QGraphicsItem"; "QGraphicsItemGroup"
  ].

Definition factory_qtwidgets_construct_2 : list string :=
  [
    "QGraphicsLayout"; "QGraphicsLayoutItem"; "QGraphicsLineItem"; "QGraphicsLinearLayout";
    "QGraphicsObject"; "QGraphicsOpacityEffect"; "QGraphicsPathItem"; "QGraphicsPixmapItem";
    "QGraphicsPolygonItem"; "QGraphicsProxyWidget"; "QGraphicsRectItem"; "QGraphicsRotation";
    "QGraphicsScale"; "QGraphicsScene"; "QGraphicsSceneContextMenuEvent"; "QGraphicsSceneDragDropEvent";
    "QGraphicsSceneEvent"; "QGraphicsSceneHelpEvent"; "QGraphicsSceneHoverEvent";
    "QGraphicsSceneMouseEvent"; "QGraphicsSceneMoveEvent"; "QGraphicsSceneResizeEvent";
    "QGraphicsSceneWheelEvent"; "QGraphicsSimpleTextItem"; "QGraphicsTextItem"; "QGraphicsTransform";
    "QGraphicsView"; "QGraphicsWidget"; "QGridLayout"; "QGroupBox"; "QHBoxLayout"; "QHeaderView";
    "QInputDialog"; "QItemDelegate"; "QItemEditorCreatorBase"; "QItemEditorFactory"; "QKeySequenceEdit";
    "QLCDNumber"; "QLabel"; "QLayout"; "QLayoutItem"; "QLineEdit"; "QListView"; "QListWidget";
    "QListWidgetItem"; "QMainWindow"; "QMdiArea"
  ].

Definition factory_qtwidgets_construct_3 : list string :=
  [
    "QMdiSubWindow"; "QMenu"; "QMenuBar"; "QMessageBox"; "QPanGesture"; "QPinchGesture";
    "QPlainTextDocumentLayout"; "QPlainTextEdit"; "QProgressBar"; "QProgressDialog"; "QProxyStyle";
    "QPushButton"; "QRadioButton"; "QRubberBand"; "QScrollArea"; "QScrollBar"; "QScroller";
    "QScrollerProperties"; "QSizeGrip"; "QSizePolicy"; "QSlider"; "QSpacerItem"; "QSpinBox";
    "QSplashScreen"; "QSplitter"; "QSplitterHandle"; "QStackedLayout"; "QStackedWidget"; "QStatusBar";
    "QStyle"; "QStyleFactory"; "QStyleHintReturn"; "QStyleHintReturnMask"; "QStyleHintReturnVariant";
    "QStyleOption"; "QStyleOptionButton"; "QStyleOptionComboBox"; "QStyleOptionComplex";
    "QStyleOptionDockWidget"; "QStyleOptionFocusRect"; "QStyleOptionFrame"; "QStyleOptionGraphicsItem";
    "QStyleOptionGroupBox"; "QStyleOptionHeader"; "QStyleOptionHeaderV2"; "QStyleOptionMenuItem";
    "QStyleOptionMenuItemV2"
  ].

Definition factory_qtwidgets_construct_4 : list string :=
  [
    "QStyleOptionProgressBar"; "QStyleOptionRubberBand"; "QStyleOptionSizeGrip"; "QStyleOptionSlider";
    "QStyleOptionSpinBox"; "QStyleOptionTab"; "QStyleOptionTabBarBase"; "QStyleOptionTabWidgetFrame";
    "QStyleOptionTitleBar"; "QStyleOptionToolBar"; "QStyleOptionToolBox"; "QStyleOptionToolButton";
    "QStyleOptionViewItem"; "QStylePainter"; "QStyledItemDelegate"; "QSwipeGesture"; "QSystemTrayIcon";
    "QTabBar"; "QTabWidget"; "QTableView"; "QTableWidget"; "QTableWidgetItem";
    "QTableWidgetSelectionRange"; "QTapAndHoldGesture"; "QTapGesture"; "QTextBrowser"; "QTextEdit";
    "QTimeEdit"; "QToolBar"; "QToolBox"; "QToolButton"; "QToolTip"; "QTreeView"; "QTreeWidget";
    "QTreeWidgetItem"; "QTreeWidgetItemIterator"; "QUndoView"; "QVBoxLayout"; "QWhatsThis"; "QWidget";
    "QWidgetAction"; "QWidgetItem"; "QWizard"; "QWizardPage"
  ].

Definition factory_qtwidgets_constructors_1 : list string :=
  [
    "QAbstractButton"; "QAbstractGraphicsShapeItem"; "QAbstractItemDelegate"; "QAbstractItemView";
    "QAbstractScrollArea"; "QAbstractSlider"; "QAbstractSpinBox"; "QApplication"; "QBoxLayout";
    "QButtonGroup"; "QCalendarWidget"; "QCheckBox"; "QColorDialog"; "QColumnView"; "QComboBox";
    "QCommandLinkButton"; "QCommonStyle"; "QCompleter"; "QDataWidgetMapper"; "QDateEdit"; "QDateTimeEdit";
    "QDial"; "QDialog"; "QDialogButtonBox"; "QDockWidget"; "QDoubleSpinBox"; "QErrorMessage";
    "QFileDialog"; "QFileIconProvider"; "QFocusFrame"; "QFontComboBox"; "QFontDialog"; "QFormLayout";
    "QFrame"; "QGesture"; "QGestureEvent"; "QGestureRecognizer"; "QGraphicsAnchor";
    "QGraphicsAnchorLayout"; "QGraphicsBlurEffect"; "QGraphicsColorizeEffect"; "QGraphicsDropShadowEffect";
    "QGraphicsEffect"; "QGraphicsEllipseItem"; "QGraphicsGridLayout"; "QGraphicsItem"; "QGraphicsItemGroup"
  ].

Definition factory_qtwidgets_constructors_2 : list string :=
  [
    "QGraphicsLayout"; "QGraphicsLayoutItem"; "QGraphicsLineItem"; "QGraphicsLinearLayout";
    "QGraphicsObject"; "QGraphicsOpacityEffect"; "QGraphicsPathItem"; "QGraphicsPixmapItem";
    "QGraphicsPolygonItem"; "QGraphicsProxyWidget"; "QGraphicsRectItem"; "QGraphicsRotation";
    "QGraphicsScale"; "QGraphicsScene"; "QGraphicsSceneContextMenuEvent"; "QGraphicsSceneDragDropEvent";
    "QGraphicsSceneEvent"; "QGraphicsSceneHelpEvent"; "QGraphicsSceneHoverEvent";
    "QGraphicsSceneMouseEvent"; "QGraphicsSceneMoveEvent"; "QGraphicsSceneResizeEvent";
    "QGraphicsSceneWheelEvent"; "QGraphicsSimpleTextItem"; "QGraphicsTextItem"; "QGraphicsTransform";
    "QGraphicsView"; "QGraphicsWidget"; "QGridLayout"; "QGroupBox"; "QHBoxLayout"; "QHeaderView";
    "QInputDialog"; "QItemDelegate"; "QItemEditorCreatorBase"; "QItemEditorFactory"; "QKeySequenceEdit";
    "QLCDNumber"; "QLabel"; "QLayout"; "QLayoutItem"; "QLineEdit"; "QListView"; "QListWidget";
    "QListWidgetItem"; "QMainWindow"; "QMdiArea"
  ].

Definition factory_qtwidgets_constructors_3 : list string :=
  [
    "QMdiSubWindow"; "QMenu"; "QMenuBar"; "QMessageBox"; "QPanGesture"; "QPinchGesture";
    "QPlainTextDocumentLayout"; "QPlainTextEdit"; "QProgressBar"; "QProgressDialog"; "QProxyStyle";
    "QPushButton"; "QRadioButton"; "QRubberBand"; "QScrollArea"; "QScrollBar"; "QScroller";
    "QScrollerProperties"; "QSizeGrip"; "QSizePolicy"; "QSlider"; "QSpacerItem"; "QSpinBox";
    "QSplashScreen"; "QSplitter"; "QSplitterHandle"; "QStackedLayout"; "QStackedWidget"; "QStatusBar";
    "QStyle"; "QStyleFactory"; "QStyleHintReturn"; "QStyleHintReturnMask"; "QStyleHintReturnVariant";
    "QStyleOption"; "QStyleOptionButton"; "QStyleOptionComboBox"; "QStyleOptionComplex";
    "QStyleOptionDockWidget"; "QStyleOptionFocusRect"; "QStyleOptionFrame"; "QStyleOptionGraphicsItem";
    "QStyleOptionGroupBox"; "QStyleOptionHeader"; "QStyleOptionHeaderV2"; "QStyleOptionMenuItem";
    "QStyleOptionMenuItemV2"
  ].

Definition factory_qtwidgets_constructors_4 : list string :=
  [
    "QStyleOptionProgressBar"; "QStyleOptionRubberBand"; "QStyleOptionSizeGrip"; "QStyleOptionSlider";
    "QStyleOptionSpinBox"; "QStyleOptionTab"; "QStyleOptionTabBarBase"; "QStyleOptionTabWidgetFrame";
    "QStyleOptionTitleBar"; "QStyleOptionToolBar"; "QStyleOptionToolBox"; "QStyleOptionToolButton";
    "QStyleOptionViewItem"; "QStylePainter"; "QStyledItemDelegate"; "QSwipeGesture"; "QSystemTrayIcon";
    "QTabBar"; "QTabWidget"; "QTableView"; "QTableWidget"; "QTableWidgetItem";
    "QTableWidgetSelectionRange"; "QTapAndHoldGesture"; "QTapGesture"; "QTextBrowser"; "QTextEdit";
    "QTimeEdit"; "QToolBar"; "QToolBox"; "QToolButton"; "QToolTip"; "QTreeView"; "QTreeWidget";
    "QTreeWidgetItem"; "QTreeWidgetItemIterator"; "QUndoView"; "QVBoxLayout"; "QWhatsThis"; "QWidget";
    "QWidgetAction"; "QWidgetItem"; "QWizard"; "QWizardPage"
  ].

Definition factory_qtwidgets_meta_object_1 : list string :=
  [
    "QAbstractButton"; "QAbstractGraphicsShapeItem"; "QAbstractItemDelegate"; "QAbstractItemView";
    "QAbstractScrollArea"; "QAbstractSlider"; "QAbstractSpinBox"; "QApplication"; "QBoxLayout";
    "QButtonGroup"; "QCalendarWidget"; "QCheckBox"; "QColorDialog"; "QColumnView"; "QComboBox";
    "QCommandLinkButton"; "QCommonStyle"; "QCompleter"; "QDataWidgetMapper"; "QDateEdit"; "QDateTimeEdit";
    "QDial"; "QDialog"; "QDialogButtonBox"; "QDockWidget"; "QDoubleSpinBox"; "QErrorMessage";
    "QFileDialog"; "QFileIconProvider"; "QFocusFrame"; "QFontComboBox"; "QFontDialog"; "QFormLayout";
    "QFrame"; "QGesture"; "QGestureEvent"; "QGestureRecognizer"; "QGraphicsAnchor";
    "QGraphicsAnchorLayout"; "QGraphicsBlurEffect"; "QGraphicsColorizeEffect"; "QGraphicsDropShadowEffect";
    "QGraphicsEffect"; "QGraphicsEllipseItem"; "QGraphicsGridLayout"; "QGraphicsItem"; "QGraphicsItemGroup"
  ].

Definition factory_qtwidgets_meta_object_2 : list string :=
  [
    "QGraphicsLayout"; "QGraphicsLayoutItem"; "QGraphicsLineItem"; "QGraphicsLinearLayout";
    "QGraphicsObject"; "QGraphicsOpacityEffect"; "QGraphicsPathItem"; "QGraphicsPixmapItem";
    "QGraphicsPolygonItem"; "QGraphicsProxyWidget"; "QGraphicsRectItem"; "QGraphicsRotation";
    "QGraphicsScale"; "QGraphicsScene"; "QGraphicsSceneContextMenuEvent"; "QGraphicsSceneDragDropEvent";
    "QGraphicsSceneEvent"; "QGraphicsSceneHelpEvent"; "QGraphicsSceneHoverEvent";
    "QGraphicsSceneMouseEvent"; "QGraphicsSceneMoveEvent"; "QGraphicsSceneResizeEvent";
    "QGraphicsSceneWheelEvent"; "QGraphicsSimpleTextItem"; "QGraphicsTextItem"; "QGraphicsTransform";
    "QGraphicsView"; "QGraphicsWidget"; "QGridLayout"; "QGroupBox"; "QHBoxLayout"; "QHeaderView";
    "QInputDialog"; "QItemDelegate"; "QItemEditorCreatorBase"; "QItemEditorFactory"; "QKeySequenceEdit";
    "QLCDNumber"; "QLabel"; "QLayout"; "QLayoutItem"; "QLineEdit"; "QListView"; "QListWidget";
    "QListWidgetItem"; "QMainWindow"; "QMdiArea"
  ].

Definition factory_qtwidgets_meta_object_3 : list string :=
  [
    "QMdiSubWindow"; "QMenu"; "QMenuBar"; "QMessageBox"; "QPanGesture"; "QPinchGesture";
    "QPlainTextDocumentLayout"; "QPlainTextEdit"; "QProgressBar"; "QProgressDialog"; "QProxyStyle";
    "QPushButton"; "QRadioButton"; "QRubberBand"; "QScrollArea"; "QScrollBar"; "QScroller";
    "QScrollerProperties"; "QSizeGrip"; "QSizePolicy"; "QSlider"; "QSpacerItem"; "QSpinBox";
    "QSplashScreen"; "QSplitter"; "QSplitterHandle"; "QStackedLayout"; "QStackedWidget"; "QStatusBar";
    "QStyle"; "QStyleFactory"; "QStyleHintReturn"; "QStyleHintReturnMask"; "QStyleHintReturnVariant";
    "QStyleOption"; "QStyleOptionButton"; "QStyleOptionComboBox"; "QStyleOptionComplex";
    "QStyleOptionDockWidget"; "QStyleOptionFocusRect"; "QStyleOptionFrame"; "QStyleOptionGraphicsItem";
    "QStyleOptionGroupBox"; "QStyleOptionHeader"; "QStyleOptionHeaderV2"; "QStyleOptionMenuItem";
    "QStyleOptionMenuItemV2"
  ].

Definition factory_qtwidgets_meta_object_4 : list string :=
  [
    "QStyleOptionProgressBar"; "QStyleOptionRubberBand"; "QStyleOptionSizeGrip"; "QStyleOptionSlider";
    "QStyleOptionSpinBox"; "QStyleOptionTab"; "QStyleOptionTabBarBase"; "QStyleOptionTabWidgetFrame";
    "QStyleOptionTitleBar"; "QStyleOptionToolBar"; "QStyleOptionToolBox"; "QStyleOptionToolButton";
    "QStyleOptionViewItem"; "QStylePainter"; "QStyledItemDelegate"; "QSwipeGesture"; "QSystemTrayIcon";
    "QTabBar"; "QTabWidget"; "QTableView"; "QTableWidget"; "QTableWidgetItem";
    "QTableWidgetSelectionRange"; "QTapAndHoldGesture"; "QTapGesture"; "QTextBrowser"; "QTextEdit";
    "QTimeEdit"; "QToolBar"; "QToolBox"; "QToolButton"; "QToolTip"; "QTreeView"; "QTreeWidget";
    "QTreeWidgetItem"; "QTreeWidgetItemIterator"; "QUndoView"; "QVBoxLayout"; "QWhatsThis"; "QWidget";
    "QWidgetAction"; "QWidgetItem"; "QWizard"; "QWizardPage"
  ].

Definition factory_qtwidgets_meta_object_names_1 : list string :=
  [
    "QAbstractButton"; "QAbstractGraphicsShapeItem"; "QAbstractItemDelegate"; "QAbstractItemView";
    "QAbstractScrollArea"; "QAbstractSlider"; "QAbstractSpinBox"; "QApplication"; "QBoxLayout";
    "QButtonGroup"; "QCalendarWidget"; "QCheckBox"; "QColorDialog"; "QColumnView"; "QComboBox";
    "QCommandLinkButton"; "QCommonStyle"; "QCompleter"; "QDataWidgetMapper"; "QDateEdit"; "QDateTimeEdit";
    "QDial"; "QDialog"; "QDialogButtonBox"; "QDockWidget"; "QDoubleSpinBox"; "QErrorMessage";
    "QFileDialog"; "QFileIconProvider"; "QFocusFrame"; "QFontComboBox"; "QFontDialog"; "QFormLayout";
    "QFrame"; "QGesture"; "QGestureEvent"; "QGestureRecognizer"; "QGraphicsAnchor";
    "QGraphicsAnchorLayout"; "QGraphicsBlurEffect"; "QGraphicsColorizeEffect"; "QGraphicsDropShadowEffect";
    "QGraphicsEffect"; "QGraphicsEllipseItem"; "QGraphicsGridLayout"; "QGraphicsItem"; "QGraphicsItemGroup"
  ].

Definition factory_qtwidgets_meta_object_names_2 : list string :=
  [
    "QGraphicsLayout"; "QGraphicsLayoutItem"; "QGraphicsLineItem"; "QGraphicsLinearLayout";
    "QGraphicsObject"; "QGraphicsOpacityEffect"; "QGraphicsPathItem"; "QGraphicsPixmapItem";
    "QGraphicsPolygonItem"; "QGraphicsProxyWidget"; "QGraphicsRectItem"; "QGraphicsRotation";
    "QGraphicsScale"; "QGraphicsScene"; "QGraphicsSceneContextMenuEvent"; "QGraphicsSceneDragDropEvent";
    "QGraphicsSceneEvent"; "QGraphicsSceneHelpEvent"; "QGraphicsSceneHoverEvent";
    "QGraphicsSceneMouseEvent"; "QGraphicsSceneMoveEvent"; "QGraphicsSceneResizeEvent";
    "QGraphicsSceneWheelEvent"; "QGraphicsSimpleTextItem"; "QGraphicsTextItem"; "QGraphicsTransform";
    "QGraphicsView"; "QGraphicsWidget"; "QGridLayout"; "QGroupBox"; "QHBoxLayout"; "QHeaderView";
    "QInputDialog"; "QItemDelegate"; "QItemEditorCreatorBase"; "QItemEditorFactory"; "QKeySequenceEdit";
    "QLCDNumber"; "QLabel"; "QLayout"; "QLayoutItem"; "QLineEdit"; "QListView"; "QListWidget";
    "QListWidgetItem"; "QMainWindow"; "QMdiArea"
  ].

Definition factory_qtwidgets_meta_object_names_3 : list string :=
  [
    "QMdiSubWindow"; "QMenu"; "QMenuBar"; "QMessageBox"; "QPanGesture"; "QPinchGesture";
    "QPlainTextDocumentLayout"; "QPlainTextEdit"; "QProgressBar"; "QProgressDialog"; "QProxyStyle";
    "QPushButton"; "QRadioButton"; "QRubberBand"; "QScrollArea"; "QScrollBar"; "QScroller";
    "QScrollerProperties"; "QSizeGrip"; "QSizePolicy"; "QSlider"; "QSpacerItem"; "QSpinBox";
    "QSplashScreen"; "QSplitter"; "QSplitterHandle"; "QStackedLayout"; "QStackedWidget"; "QStatusBar";
    "QStyle"; "QStyleFactory"; "QStyleHintReturn"; "QStyleHintReturnMask"; "QStyleHintReturnVariant";
    "QStyleOption"; "QStyleOptionButton"; "QStyleOptionComboBox"; "QStyleOptionComplex";
    "QStyleOptionDockWidget"; "QStyleOptionFocusRect"; "QStyleOptionFrame"; "QStyleOptionGraphicsItem";
    "QStyleOptionGroupBox"; "QStyleOptionHeader"; "QStyleOptionHeaderV2"; "QStyleOptionMenuItem";
    "QStyleOptionMenuItemV2"
  ].

Definition factory_qtwidgets_meta_object_names_4 : list string :=
  [
    "QStyleOptionProgressBar"; "QStyleOptionRubberBand"; "QStyleOptionSizeGrip"; "QStyleOptionSlider";
    "QStyleOptionSpinBox"; "QStyleOptionTab"; "QStyleOptionTabBarBase"; "QStyleOptionTabWidgetFrame";
    "QStyleOptionTitleBar"; "QStyleOptionToolBar"; "QStyleOptionToolBox"; "QStyleOptionToolButton";
    "QStyleOptionViewItem"; "QStylePainter"; "QStyledItemDelegate"; "QSwipeGesture"; "QSystemTrayIcon";
    "QTabBar"; "QTabWidget"; "QTableView"; "QTableWidget"; "QTableWidgetItem";
    "QTableWidgetSelectionRange"; "QTapAndHoldGesture"; "QTapGesture"; "QTextBrowser"; "QTextEdit";
    "QTimeEdit"; "QToolBar"; "QToolBox"; "QToolButton"; "QToolTip"; "QTreeView"; "QTreeWidget";
    "QTreeWidgetItem"; "QTreeWidgetItemIterator"; "QUndoView"; "QVBoxLayout"; "QWhatsThis"; "QWidget";
    "QWidgetAction"; "QWidgetItem"; "QWizard"; "QWizardPage"
  ].

Definition factory_qtwidgets_value_type_1 : list string :=
  [
    "QAbstractButton"; "QAbstractGraphicsShapeItem"; "QAbstractItemDelegate"; "QAbstractItemView";
    "QAbstractScrollArea"; "QAbstractSlider"; "QAbstractSpinBox"; "QApplication"; "QBoxLayout";
    "QButtonGroup"; "QCalendarWidget"; "QCheckBox"; "QColorDialog"; "QColumnView"; "QComboBox";
    "QCommandLinkButton"; "QCommonStyle"; "QCompleter"; "QDataWidgetMapper"; "QDateEdit"; "QDateTimeEdit";
    "QDial"; "QDialog"; "QDialogButtonBox"; "QDockWidget"; "QDoubleSpinBox"; "QErrorMessage";
    "QFileDialog"; "QFileIconProvider"; "QFocusFrame"; "QFontComboBox"; "QFontDialog"; "QFormLayout";
    "QFrame"; "QGesture"; "QGestureEvent"; "QGestureRecognizer"; "QGraphicsAnchor";
    "QGraphicsAnchorLayout"; "QGraphicsBlurEffect"; "QGraphicsColorizeEffect"; "QGraphicsDropShadowEffect";
    "QGraphicsEffect"; "QGraphicsEllipseItem"; "QGraphicsGridLayout"; "QGraphicsItem"; "QGraphicsItemGroup"
  ].

Definition factory_qtwidgets_value_type_2 : list string :=
  [
    "QGraphicsLayout"; "QGraphicsLayoutItem"; "QGraphicsLineItem"; "QGraphicsLinearLayout";
    "QGraphicsObject"; "QGraphicsOpacityEffect"; "QGraphicsPathItem"; "QGraphicsPixmapItem";
    "QGraphicsPolygonItem"; "QGraphicsProxyWidget"; "QGraphicsRectItem"; "QGraphicsRotation";
    "QGraphicsScale"; "QGraphicsScene"; "QGraphicsSceneContextMenuEvent"; "QGraphicsSceneDragDropEvent";
    "QGraphicsSceneEvent"; "QGraphicsSceneHelpEvent"; "QGraphicsSceneHoverEvent";
    "QGraphicsSceneMouseEvent"; "QGraphicsSceneMoveEvent"; "QGraphicsSceneResizeEvent";
    "QGraphicsSceneWheelEvent"; "QGraphicsSimpleTextItem"; "QGraphicsTextItem"; "QGraphicsTransform";
    "QGraphicsView"; "QGraphicsWidget"; "QGridLayout"; "QGroupBox"; "QHBoxLayout"; "QHeaderView";
    "QInputDialog"; "QItemDelegate"; "QItemEditorCreatorBase"; "QItemEditorFactory"; "QKeySequenceEdit";
    "QLCDNumber"; "QLabel"; "QLayout"; "QLayoutItem"; "QLineEdit"; "QListView"; "QListWidget";
    "QListWidgetItem"; "QMainWindow"; "QMdiArea"
  ].

Definition factory_qtwidgets_value_type_3 : list string :=
  [
    "QMdiSubWindow"; "QMenu"; "QMenuBar"; "QMessageBox"; "QPanGesture"; "QPinchGesture";
    "QPlainTextDocumentLayout"; "QPlainTextEdit"; "QProgressBar"; "QProgressDialog"; "QProxyStyle";
    "QPushButton"; "QRadioButton"; "QRubberBand"; "QScrollArea"; "QScrollBar"; "QScroller";
    "QScrollerProperties"; "QSizeGrip"; "QSizePolicy"; "QSlider"; "QSpacerItem"; "QSpinBox";
    "QSplashScreen"; "QSplitter"; "QSplitterHandle"; "QStackedLayout"; "QStackedWidget"; "QStatusBar";
    "QStyle"; "QStyleFactory"; "QStyleHintReturn"; "QStyleHintReturnMask"; "QStyleHintReturnVariant";
    "QStyleOption"; "QStyleOptionButton"; "QStyleOptionComboBox"; "QStyleOptionComplex";
    "QStyleOptionDockWidget"; "QStyleOptionFocusRect"; "QStyleOptionFrame"; "QStyleOptionGraphicsItem";
    "QStyleOptionGroupBox"; "QStyleOptionHeader"; "QStyleOptionHeaderV2"; "QStyleOptionMenuItem";
    "QStyleOptionMenuItemV2"
  ].

Definition factory_qtwidgets_value_type_4 : list string :=
  [
    "QStyleOptionProgressBar"; "QStyleOptionRubberBand"; "QStyleOptionSizeGrip"; "QStyleOptionSlider";
    "QStyleOptionSpinBox"; "QStyleOptionTab"; "QStyleOptionTabBarBase"; "QStyleOptionTabWidgetFrame";
    "QStyleOptionTitleBar"; "QStyleOptionToolBar"; "QStyleOptionToolBox"; "QStyleOptionToolButton";
    "QStyleOptionViewItem"; "QStylePainter"; "QStyledItemDelegate"; "QSwipeGesture"; "QSystemTrayIcon";
    "QTabBar"; "QTabWidget"; "QTableView"; "QTableWidget"; "QTableWidgetItem";
    "QTableWidgetSelectionRange"; "QTapAndHoldGesture"; "QTapGesture"; "QTextBrowser"; "QTextEdit";
    "QTimeEdit"; "QToolBar"; "QToolBox"; "QToolButton"; "QToolTip"; "QTreeView"; "QTreeWidget";
    "QTreeWidgetItem"; "QTreeWidgetItemIterator"; "QUndoView"; "QVBoxLayout"; "QWhatsThis"; "QWidget";
    "QWidgetAction"; "QWidgetItem"; "QWizard"; "QWizardPage"
  ].

Definition factory_qtwidgets : factory_module :=
  FactoryModule "QtWidgets" "QtWidgets"
    (factory_qtwidgets_includes_1 ++ factory_qtwidgets_includes_2 ++
     factory_qtwidgets_includes_3 ++ factory_qtwidgets_includes_4 ++ factory_qtwidgets_includes_5)
    (factory_qtwidgets_has_1 ++ factory_qtwidgets_has_2 ++ factory_qtwidgets_has_3 ++
     factory_qtwidgets_has_4)
    (factory_qtwidgets_construct_1 ++ factory_qtwidgets_construct_2 ++
     factory_qtwidgets_construct_3 ++ factory_qtwidgets_construct_4)
    (factory_qtwidgets_constructors_1 ++ factory_qtwidgets_constructors_2 ++
     factory_qtwidgets_constructors_3 ++ factory_qtwidgets_constructors_4)
    (factory_qtwidgets_meta_object_1 ++ factory_qtwidgets_meta_object_2 ++
     factory_qtwidgets_meta_object_3 ++ factory_qtwidgets_meta_object_4)
    (factory_qtwidgets_meta_object_names_1 ++ factory_qtwidgets_meta_object_names_2 ++
     factory_qtwidgets_meta_object_names_3 ++ factory_qtwidgets_meta_object_names_4)
    (factory_qtwidgets_value_type_1 ++ factory_qtwidgets_value_type_2 ++
     factory_qtwidgets_value_type_3 ++ factory_qtwidgets_value_type_4)
    [
      "QAbstractButton"; "QAbstractGraphicsShapeItem"; "QAbstractItemDelegate"; "QAbstractItemView";
      "QAbstractScrollArea"; "QAbstractSlider"; "QAbstractSpinBox"; "QApplication"; "QBoxLayout";
      "QButtonGroup"; "QCalendarWidget"; "QCheckBox"; "QColorDialog"; "QColumnView"; "QComboBox";
      "QCommandLinkButton"; "QCommonStyle"; "QCompleter"; "QDataWidgetMapper"; "QDateEdit";
      "QDateTimeEdit"; "QDial"; "QDialog"; "QDialogButtonBox"; "QDockWidget"; "QDoubleSpinBox";
      "QErrorMessage"; "QFileDialog"; "QFileIconProvider"; "QFocusFrame"; "QFontComboBox"; "QFontDialog";
      "QFormLayout"; "QFrame"; "QGesture"; "QGestureEvent"; "QGestureRecognizer"; "QGraphicsAnchor";
      "QGraphicsAnchorLayout"; "QGraphicsBlurEffect"; "QGraphicsColorizeEffect";
      "QGraphicsDropShadowEffect"; "QGraphicsEffect"; "QGraphicsEllipseItem"; "QGraphicsGridLayout";
      "QGraphicsItem"; "QGraphicsItemGroup"; "QGraphicsLayout"; "QGraphicsLayoutItem"; "QGraphicsLineItem";
      "QGraphicsLinearLayout"; "QGraphicsObject"; "QGraphicsOpacityEffect"; "QGraphicsPathItem";
      "QGraphicsPixmapItem"; "QGraphicsPolygonItem"; "QGraphicsProxyWidget"; "QGraphicsRectItem";
      "QGraphicsRotation"; "QGraphicsScale"; "QGraphicsScene"; "QGraphicsSceneContextMenuEvent";
      "QGraphicsSceneDragDropEvent"; "QGraphicsSceneEvent"; "QGraphicsSceneHelpEvent";
      "QGraphicsSceneHoverEvent"; "QGraphicsSceneMouseEvent"; "QGraphicsSceneMoveEvent";
      "QGraphicsSceneResizeEvent"; "QGraphicsSceneWheelEvent"; "QGraphicsSimpleTextItem";
      "QGraphicsTextItem"; "QGraphicsTransform"; "QGraphicsView"; "QGraphicsWidget"; "QGridLayout";
      "QGroupBox"; "QHBoxLayout"; "QHeaderView"; "QInputDialog"; "QItemDelegate"; "QItemEditorCreatorBase";
      "QItemEditorFactory"; "QKeySequenceEdit"; "QLCDNumber"; "QLabel"; "QLayout"; "QLayoutItem";
      "QLineEdit"; "QListView"; "QListWidget"; "QListWidgetItem"; "QMainWindow"; "QMdiArea";
      "QMdiSubWindow"; "QMenu"; "QMenuBar"; "QMessageBox"; "QPanGesture"; "QPinchGesture";
      "QPlainTextDocumentLayout"; "QPlainTextEdit"; "QProgressBar"; "QProgressDialog"; "QProxyStyle";
      "QPushButton"; "QRadioButton"; "QRubberBand"; "QScrollArea"; "QScrollBar"; "QScroller";
      "QScrollerProperties"; "QSizeGrip"; "QSizePolicy"; "QSlider"; "QSpacerItem"; "QSpinBox";
      "QSplashScreen"; "QSplitter"; "QSplitterHandle"; "QStackedLayout"; "QStackedWidget"; "QStatusBar";
      "QStyle"; "QStyleFactory"; "QStyleHintReturn"; "QStyleHintReturnMask"; "QStyleHintReturnVariant";
      "QStyleOption"; "QStyleOptionButton"; "QStyleOptionComboBox"; "QStyleOptionComplex";
      "QStyleOptionDockWidget"; "QStyleOptionFocusRect"; "QStyleOptionFrame"; "QStyleOptionGraphicsItem";
      "QStyleOptionGroupBox"; "QStyleOptionHeader"; "QStyleOptionHeaderV2"; "QStyleOptionMenuItem";
      "QStyleOptionMenuItemV2"; "QStyleOptionProgressBar"; "QStyleOptionRubberBand";
      "QStyleOptionSizeGrip"; "QStyleOptionSlider"; "QStyleOptionSpinBox"; "QStyleOptionTab";
      "QStyleOptionTabBarBase"; "QStyleOptionTabWidgetFrame"; "QStyleOptionTitleBar";
      "QStyleOptionToolBar"; "QStyleOptionToolBox"; "QStyleOptionToolButton"; "QStyleOptionViewItem";
      "QStylePainter"; "QStyledItemDelegate"; "QSwipeGesture"; "QSystemTrayIcon"; "QTabBar"; "QTabWidget";
      "QTableView"; "QTableWidget"; "QTableWidgetItem"; "QTableWidgetSelectionRange"; "QTapAndHoldGesture";
      "QTapGesture"; "QTextBrowser"; "QTextEdit"; "QTimeEdit"; "QToolBar"; "QToolBox"; "QToolButton";
      "QToolTip"; "QTreeView"; "QTreeWidget"; "QTreeWidgetItem"; "QTreeWidgetItemIterator"; "QUndoView";
      "QVBoxLayout"; "QWhatsThis"; "QWidget"; "QWidgetAction"; "QWidgetItem"; "QWizard"; "QWizardPage"
    ]
    [
      "QButtonGroup"; "QCalendarWidget"; "QCheckBox"; "QColorDialog"; "QComboBox"; "QCommandLinkButton";
      "QDateEdit"; "QDateTimeEdit"; "QDial"; "QDialog"; "QDialogButtonBox"; "QDockWidget";
      "QDoubleSpinBox"; "QFileDialog"; "QFontComboBox"; "QFontDialog"; "QFormLayout"; "QFrame";
      "QGraphicsScene"; "QGraphicsView"; "QGridLayout"; "QGroupBox"; "QHBoxLayout"; "QInputDialog";
      "QKeySequenceEdit"; "QLCDNumber"; "QLabel"; "QLineEdit"; "QListView"; "QListWidget"; "QMainWindow";
      "QMdiArea"; "QMenu"; "QMenuBar"; "QMessageBox"; "QPlainTextEdit"; "QProgressBar"; "QProgressDialog";
      "QPushButton"; "QRadioButton"; "QScrollArea"; "QScrollBar"; "QSlider"; "QSpinBox"; "QSplitter";
      "QStackedWidget"; "QStatusBar"; "QTabBar"; "QTabWidget"; "QTableView"; "QTableWidget";
      "QTextBrowser"; "QTextEdit"; "QTimeEdit"; "QToolBar"; "QToolButton"; "QTreeView"; "QTreeWidget";
      "QUndoView"; "QVBoxLayout"; "QWidget"; "QWizard"; "QWizardPage"
    ].

Definition factory_qtxml : factory_module :=
  same_rows "QtXml" "QtXml"
    [
      "QDomAttr"; "QDomCDATASection"; "QDomCharacterData"; "QDomComment"; "QDomDocument";
      "QDomDocumentFragment"; "QDomDocumentType"; "QDomElement"; "QDomEntity"; "QDomEntityReference";
      "QDomImplementation"; "QDomNamedNodeMap"; "QDomNode"; "QDomNodeList"; "QDomNotation";
      "QDomProcessingInstruction"; "QDomText"
    ]
    [].

Definition factory_modules : list factory_module :=
  [
    factory_qaxcontainer; factory_qt3danimation; factory_qt3dcore; factory_qt3dextras;
    factory_qt3dinput; factory_qt3dlogic; factory_qt3drender; factory_qtbluetooth; factory_qtcharts;
    factory_qtcore; factory_qtdatavisualization; factory_qtdbus; factory_qtdesigner;
    factory_qtgraphs; factory_qtgraphswidgets; factory_qtgui; factory_qthelp; factory_qtmultimedia;
    factory_qtmultimediawidgets; factory_qtnetwork; factory_qtnetworkauth; factory_qtnfc;
    factory_qtopengl; factory_qtopenglwidgets; factory_qtpdf; factory_qtpdfwidgets;
    factory_qtpositioning; factory_qtprintsupport; factory_qtqml; factory_qtquick;
    factory_qtquick3d; factory_qtquickwidgets; factory_qtremoteobjects; factory_qtsensors;
    factory_qtserialport; factory_qtspatialaudio; factory_qtsql; factory_qtstatemachine;
    factory_qtsvg; factory_qtsvgwidgets; factory_qttest; factory_qttexttospeech;
    factory_qtwebchannel; factory_qtwebenginecore; factory_qtwebenginequick;
    factory_qtwebenginewidgets; factory_qtwebsockets; factory_qtwidgets; factory_qtxml
  ].
