(* ===== verification/ValueTypes.v ===== *)
(** The table of describeDirectValueType (generated_value_methods): the
    value types with native method bindings and the signatures of their
    methods, in the order of the source. One definition per initial letter,
    or several where a letter has more than 150 lines. *)
From S2P Require Export Json.

(** * Definitions *)

Definition value_table_A : list (string * list string) :=
  [
    ("QAbstractFileIconProvider", ["icon(QAbstractFileIconProvider::IconType)"; "icon(QFileInfo)";
       "options()"; "setOptions(QAbstractFileIconProvider::Options)"; "type(QFileInfo)"]);
    ("QAbstractFormBuilder", ["errorString()"; "load(QIODevice*,QWidget*)"; "save(QIODevice*,QWidget*)";
       "setWorkingDirectory(QDir)"; "workingDirectory()"]);
    ("QAbstractGraphicsShapeItem", ["brush()"; "opaqueArea()"; "pen()"; "setBrush(QBrush)"; "setPen(QPen)"]);
    ("QActionEvent", ["action()"; "before()"]);
    ("QAnimationClipData", ["channelCount()"; "clearChannels()"; "isValid()"; "name()"; "removeChannel(int)";
       "setName(QString)"]);
    ("QAudioBuffer", ["byteCount()"; "detach()"; "duration()"; "format()"; "frameCount()"; "isValid()";
       "sampleCount()"; "startTime()"; "swap(QAudioBuffer)"]);
    ("QAudioDevice", ["channelConfiguration()"; "description()"; "id()"; "isDefault()";
       "isFormatSupported(QAudioFormat)"; "isNull()"; "maximumChannelCount()"; "maximumSampleRate()";
       "minimumChannelCount()"; "minimumSampleRate()"; "mode()"; "preferredFormat()";
       "supportedSampleFormats()"; "swap(QAudioDevice)"]);
    ("QAudioFormat", ["bytesPerFrame()"; "bytesPerSample()"; "channelConfig()"; "channelCount()";
       "channelOffset(QAudioFormat::AudioChannelPosition)"; "isValid()"; "sampleFormat()"; "sampleRate()";
       "setChannelConfig(QAudioFormat::ChannelConfig)"; "setChannelCount(int)";
       "setSampleFormat(QAudioFormat::SampleFormat)"; "setSampleRate(int)"]);
    ("QAuthenticator", ["clear()"; "isNull()"; "option(QString)"; "options()"; "password()"; "realm()";
       "setOption(QString,QVariant)"; "setPassword(QString)"; "setUser(QString)"; "user()"]);
    ("QAxBase", ["asVariant()"; "clear()"; "control()"; "disableClassInfo()"; "disableEventSink()";
       "disableMetaObject()"; "generateDocumentation()"; "isNull()"; "propertyBag()"; "setControl(QString)";
       "verbs()"])
  ].

Definition value_table_B_1 : list (string * list string) :=
  [
    ("QBackendNode", ["isEnabled()"; "mode()"; "setEnabled(bool)"; "syncFromFrontEnd(Qt3DCore::QNode*,bool)"]);
    ("QBackingStore", ["beginPaint(QRegion)"; "endPaint()"; "flush(QRegion,QWindow*,QPoint)";
       "hasStaticContents()"; "resize(QSize)"; "scroll(QRegion,int,int)"; "setStaticContents(QRegion)";
       "size()"; "staticContents()"; "window()"]);
    ("QBasicTimer", ["isActive()"; "start(int,QObject*)"; "start(int,Qt::TimerType,QObject*)"; "stop()";
       "swap(QBasicTimer)"; "timerId()"]);
    ("QBitArray", ["at(qsizetype)"; "clear()"; "clearBit(qsizetype)"; "count()"; "count(bool)"; "detach()";
       "fill(bool,qsizetype)"; "fill(bool,qsizetype,qsizetype)"; "isDetached()"; "isEmpty()"; "isNull()";
       "resize(qsizetype)"; "setBit(qsizetype)"; "setBit(qsizetype,bool)"; "size()"; "swap(QBitArray)";
       "testBit(qsizetype)"; "toggleBit(qsizetype)"; "truncate(qsizetype)"]);
    ("QBitmap", ["clear()"; "swap(QBitmap)"; "transformed(QTransform)"]);
    ("QBluetoothAddress", ["clear()"; "isNull()"; "toString()"; "toUInt64()"]);
    ("QBluetoothDeviceInfo", ["address()"; "deviceUuid()"; "isCached()"; "isValid()"; "majorDeviceClass()";
       "name()"; "serviceData(QBluetoothUuid)"; "serviceIds()"; "serviceUuids()"; "setCached(bool)";
       "setDeviceUuid(QBluetoothUuid)"; "setName(QString)"; "setServiceData(QBluetoothUuid,QByteArray)";
       "setServiceUuids(QList<QBluetoothUuid>)"]);
    ("QBluetoothHostInfo", ["address()"; "name()"; "setAddress(QBluetoothAddress)"; "setName(QString)"]);
    ("QBluetoothServiceInfo", ["device()"; "isComplete()"; "isRegistered()"; "isValid()";
       "protocolServiceMultiplexer()"; "registerService(QBluetoothAddress)"; "serverChannel()";
       "serviceClassUuids()"; "serviceDescription()"; "serviceName()"; "serviceProvider()"; "serviceUuid()";
       "setDevice(QBluetoothDeviceInfo)"; "setServiceDescription(QString)"; "setServiceName(QString)";
       "setServiceProvider(QString)"; "setServiceUuid(QBluetoothUuid)"; "socketProtocol()";
       "unregisterService()"]);
    ("QBluetoothUuid", ["minimumSize()"]);
    ("QBrush", ["color()"; "isOpaque()"; "setColor(QColor)"; "setColor(Qt::GlobalColor)";
       "setStyle(Qt::BrushStyle)"; "setTexture(QPixmap)"; "setTextureImage(QImage)";
       "setTransform(QTransform)"; "style()"; "swap(QBrush)"; "texture()"; "textureImage()"; "transform()"])
  ].

Definition value_table_B_2 : list (string * list string) :=
  [
    ("QByteArray", ["capacity()"; "chop(qsizetype)"; "chopped(qsizetype)"; "clear()"; "count()";
       "first(qsizetype)"; "isEmpty()"; "isLower()"; "isNull()"; "isUpper()"; "isValidUtf8()";
       "last(qsizetype)"; "left(qsizetype)"; "length()"; "max_size()"; "mid(qsizetype,qsizetype)";
       "nullTerminate()"; "nullTerminated()"; "remove(qsizetype,qsizetype)"; "removeAt(qsizetype)";
       "removeFirst()"; "removeLast()"; "repeated(qsizetype)"; "reserve(qsizetype)"; "resize(qsizetype)";
       "right(qsizetype)"; "simplified()"; "size()"; "slice(qsizetype)"; "slice(qsizetype,qsizetype)";
       "sliced(qsizetype)"; "sliced(qsizetype,qsizetype)"; "squeeze()"; "swap(QByteArray)"; "toLower()";
       "toUpper()"; "trimmed()"; "truncate(qsizetype)"]);
    ("QByteArrayMatcher", ["pattern()"; "setPattern(QByteArray)"])
  ].

Definition value_table_C_1 : list (string * list string) :=
  [
    ("QCalendar", ["dateFromParts(QCalendar::YearMonthDay)"; "dateFromParts(int,int,int)";
       "dayOfWeek(QDate)"; "daysInYear(int)"; "hasYearZero()"; "isDateValid(int,int,int)"; "isGregorian()";
       "isLeapYear(int)"; "isLunar()"; "isLuniSolar()"; "isProleptic()"; "isSolar()";
       "matchCenturyToWeekday(QCalendar::YearMonthDay,int)"; "maximumDaysInMonth()"; "maximumMonthsInYear()";
       "minimumDaysInMonth()"; "monthName(QLocale,int,int,QLocale::FormatType)"; "monthsInYear(int)";
       "name()"; "partsFromDate(QDate)"; "standaloneMonthName(QLocale,int,int,QLocale::FormatType)";
       "standaloneWeekDayName(QLocale,int,QLocale::FormatType)";
       "weekDayName(QLocale,int,QLocale::FormatType)"]);
    ("QCalendarPermission", ["accessMode()"; "setAccessMode(QCalendarPermission::AccessMode)"]);
    ("QCameraDevice", ["description()"; "id()"; "isDefault()"; "isNull()"; "photoResolutions()";
       "position()"; "videoFormats()"]);
    ("QCameraFormat", ["isNull()"; "maxFrameRate()"; "minFrameRate()"; "pixelFormat()"; "resolution()"]);
    ("QCapturableWindow", ["description()"; "isValid()"; "swap(QCapturableWindow)"]);
    ("QCborStreamReader", ["addData(QByteArray)"; "clear()"; "containerDepth()"; "currentOffset()";
       "device()"; "enterContainer()"; "hasNext()"; "isArray()"; "isBool()"; "isByteArray()";
       "isContainer()"; "isDouble()"; "isFalse()"; "isFloat()"; "isFloat16()"; "isInteger()"; "isInvalid()";
       "isLengthKnown()"; "isMap()"; "isNegativeInteger()"; "isNull()"; "isSimpleType()"; "isString()";
       "isTag()"; "isTrue()"; "isUndefined()"; "isUnsignedInteger()"; "isValid()"; "leaveContainer()";
       "length()"; "next(int)"; "parentContainerType()"; "readAllByteArray()"; "readAllString()";
       "readAllUtf8String()"; "readAndAppendToByteArray(QByteArray)"; "readAndAppendToString(QString)";
       "readAndAppendToUtf8String(QByteArray)"; "reparse()"; "reset()"; "setDevice(QIODevice*)"; "toBool()";
       "toDouble()"; "toInteger()"; "toUnsignedInteger()"; "type()"]);
    ("QCborStreamWriter", ["append(bool)"; "append(double)"; "appendNull()"; "appendUndefined()"; "device()";
       "endArray()"; "endMap()"; "setDevice(QIODevice*)"; "startArray()"; "startArray(quint64)";
       "startMap()"; "startMap(quint64)"]);
    ("QChannel", ["channelComponentCount()"; "clearChannelComponents()"; "jointIndex()"; "name()";
       "removeChannelComponent(int)"; "setJointIndex(int)"; "setName(QString)"]);
    ("QChannelComponent", ["clearKeyFrames()"; "keyFrameCount()"; "name()"; "removeKeyFrame(int)";
       "setName(QString)"])
  ].

Definition value_table_C_2 : list (string * list string) :=
  [
    ("QChildEvent", ["added()"; "child()"; "polished()"; "removed()"]);
    ("QChildWindowEvent", ["child()"]);
    ("QCollator", ["caseSensitivity()"; "compare(QString,QString)"; "ignorePunctuation()"; "locale()";
       "numericMode()"; "setCaseSensitivity(Qt::CaseSensitivity)"; "setIgnorePunctuation(bool)";
       "setLocale(QLocale)"; "setNumericMode(bool)"; "sortKey(QString)"; "swap(QCollator)"]);
    ("QCollatorSortKey", ["compare(QCollatorSortKey)"; "swap(QCollatorSortKey)"]);
    ("QColor", ["alpha()"; "alphaF()"; "black()"; "blackF()"; "blue()"; "blueF()"; "convertTo(QColor::Spec)";
       "cyan()"; "cyanF()"; "darker(int)"; "green()"; "greenF()"; "hslHue()"; "hslHueF()"; "hslSaturation()";
       "hslSaturationF()"; "hsvHue()"; "hsvHueF()"; "hsvSaturation()"; "hsvSaturationF()"; "hue()"; "hueF()";
       "isValid()"; "lighter(int)"; "lightness()"; "lightnessF()"; "magenta()"; "magentaF()";
       "name(QColor::NameFormat)"; "red()"; "redF()"; "rgba64()"; "saturation()"; "saturationF()";
       "setAlpha(int)"; "setAlphaF(float)"; "setBlue(int)"; "setBlueF(float)";
       "setCmyk(int,int,int,int,int)"; "setCmykF(float,float,float,float,float)"; "setGreen(int)";
       "setGreenF(float)"; "setHsl(int,int,int,int)"; "setHslF(float,float,float,float)";
       "setHsv(int,int,int,int)"; "setHsvF(float,float,float,float)"; "setRed(int)"; "setRedF(float)";
       "setRgb(int,int,int,int)"; "setRgbF(float,float,float,float)"; "setRgba64(QRgba64)"; "spec()";
       "toCmyk()"; "toExtendedRgb()"; "toHsl()"; "toHsv()"; "toRgb()"; "value()"; "valueF()"; "yellow()";
       "yellowF()"]);
    ("QColorSpace", ["colorModel()"; "description()"; "gamma()"; "iccProfile()"; "isValid()";
       "isValidTarget()"; "primaries()"; "primaryPoints()"; "setDescription(QString)";
       "setPrimaries(QColorSpace::Primaries)"; "setPrimaries(QPointF,QPointF,QPointF,QPointF)";
       "setPrimaryPoints(QColorSpace::PrimaryPoints)";
       "setTransferFunction(QColorSpace::TransferFunction,float)"; "setWhitePoint(QPointF)";
       "swap(QColorSpace)"; "transferFunction()"; "transformModel()";
       "transformationToColorSpace(QColorSpace)"; "whitePoint()";
       "withTransferFunction(QColorSpace::TransferFunction,float)"]);
    ("QColorTransform", ["isIdentity()"; "map(QColor)"; "map(QRgba64)"; "swap(QColorTransform)"]);
    ("QCommandLineOption", ["defaultValues()"; "description()"; "flags()"; "names()";
       "setDefaultValue(QString)"; "setDefaultValues(QStringList)"; "setDescription(QString)";
       "setFlags(QCommandLineOption::Flags)"; "setValueName(QString)"; "swap(QCommandLineOption)";
       "valueName()"])
  ].

Definition value_table_C_3 : list (string * list string) :=
  [
    ("QCommandLineParser", ["addHelpOption()"; "addOption(QCommandLineOption)";
       "addOptions(QList<QCommandLineOption>)"; "addPositionalArgument(QString,QString,QString)";
       "addVersionOption()"; "applicationDescription()"; "clearPositionalArguments()"; "errorText()";
       "helpText()"; "isSet(QCommandLineOption)"; "isSet(QString)"; "optionNames()"; "parse(QStringList)";
       "positionalArguments()"; "process(QStringList)"; "setApplicationDescription(QString)";
       "setOptionsAfterPositionalArgumentsMode(QCommandLineParser::OptionsAfterPositionalArgumentsMode)";
       "setSingleDashWordOptionMode(QCommandLineParser::SingleDashWordOptionMode)"; "showHelp(int)";
       "showVersion()"; "unknownOptionNames()"; "value(QCommandLineOption)"; "value(QString)";
       "values(QCommandLineOption)"; "values(QString)"]);
    ("QCompressedHelpInfo", ["component()"; "isNull()"; "namespaceName()"; "swap(QCompressedHelpInfo)";
       "version()"]);
    ("QConicalGradient", ["angle()"; "center()"; "setAngle(qreal)"; "setCenter(QPointF)";
       "setCenter(qreal,qreal)"]);
    ("QContactsPermission", ["accessMode()"; "setAccessMode(QContactsPermission::AccessMode)"]);
    ("QContextMenuEvent", ["globalPos()"; "globalX()"; "globalY()"; "pos()"; "reason()"; "x()"; "y()"]);
    ("QCryptographicHash", ["addData(QIODevice*)"; "algorithm()"; "reset()"; "result()";
       "swap(QCryptographicHash)"]);
    ("QCursor", ["bitmap()"; "hotSpot()"; "mask()"; "pixmap()"; "setShape(Qt::CursorShape)"; "shape()";
       "swap(QCursor)"])
  ].

Definition value_table_D_1 : list (string * list string) :=
  [
    ("QDBusArgument", ["beginArray(QMetaType)"; "beginArray(int)"; "beginMap(QMetaType,QMetaType)";
       "beginMap(int,int)"; "beginMapEntry()"; "beginStructure()"; "endArray()"; "endMap()"; "endMapEntry()";
       "endStructure()"; "swap(QDBusArgument)"]);
    ("QDBusConnection", ["asyncCall(QDBusMessage,int)"; "baseService()"; "interface()"; "isConnected()";
       "lastError()"; "name()"; "objectRegisteredAt(QString)"; "registerService(QString)";
       "send(QDBusMessage)"; "swap(QDBusConnection)";
       "unregisterObject(QString,QDBusConnection::UnregisterMode)"; "unregisterService(QString)"]);
    ("QDBusError", ["isValid()"; "message()"; "name()"; "swap(QDBusError)"; "type()"]);
    ("QDBusMessage", ["arguments()"; "autoStartService()"; "createErrorReply(QDBusError)";
       "createErrorReply(QDBusError::ErrorType,QString)"; "createErrorReply(QString,QString)";
       "createReply(QList<QVariant>)"; "createReply(QVariant)"; "errorMessage()"; "errorName()";
       "interface()"; "isDelayedReply()"; "isInteractiveAuthorizationAllowed()"; "isReplyRequired()";
       "member()"; "path()"; "service()"; "setArguments(QList<QVariant>)"; "setAutoStartService(bool)";
       "setDelayedReply(bool)"; "setInteractiveAuthorizationAllowed(bool)"; "signature()";
       "swap(QDBusMessage)"; "type()"]);
    ("QDBusObjectPath", ["path()"; "setPath(QString)"; "swap(QDBusObjectPath)"]);
    ("QDBusPendingCall", ["swap(QDBusPendingCall)"]);
    ("QDBusSignature", ["setSignature(QString)"; "signature()"; "swap(QDBusSignature)"]);
    ("QDBusUnixFileDescriptor", ["fileDescriptor()"; "isValid()"; "setFileDescriptor(int)";
       "swap(QDBusUnixFileDescriptor)"]);
    ("QDBusVariant", ["setVariant(QVariant)"; "swap(QDBusVariant)"; "variant()"]);
    ("QDataStream", ["abortTransaction()"; "atEnd()"; "byteOrder()"; "commitTransaction()"; "device()";
       "floatingPointPrecision()"; "resetStatus()"; "rollbackTransaction()";
       "setByteOrder(QDataStream::ByteOrder)"; "setDevice(QIODevice*)";
       "setFloatingPointPrecision(QDataStream::FloatingPointPrecision)"; "setStatus(QDataStream::Status)";
       "setVersion(int)"; "startTransaction()"; "status()"; "version()"])
  ].

Definition value_table_D_2 : list (string * list string) :=
  [
    ("QDate", ["addDays(qint64)"; "addMonths(int)"; "addMonths(int,QCalendar)"; "addYears(int)";
       "addYears(int,QCalendar)"; "day()"; "day(QCalendar)"; "dayOfWeek()"; "dayOfWeek(QCalendar)";
       "dayOfYear()"; "dayOfYear(QCalendar)"; "daysInMonth()"; "daysInMonth(QCalendar)"; "daysInYear()";
       "daysInYear(QCalendar)"; "daysTo(QDate)"; "endOfDay(QTimeZone)"; "endOfDay(Qt::TimeSpec,int)";
       "isNull()"; "isValid()"; "month()"; "month(QCalendar)"; "setDate(int,int,int)";
       "setDate(int,int,int,QCalendar)"; "startOfDay(QTimeZone)"; "startOfDay(Qt::TimeSpec,int)";
       "toJulianDay()"; "toString(QString,QCalendar)"; "toString(Qt::DateFormat)"; "year()";
       "year(QCalendar)"]);
    ("QDateTime", ["addDays(qint64)"; "addMSecs(qint64)"; "addMonths(int)"; "addSecs(qint64)";
       "addYears(int)"; "date()"; "daysTo(QDateTime)"; "isDaylightTime()"; "isNull()"; "isValid()";
       "msecsTo(QDateTime)"; "offsetFromUtc()"; "secsTo(QDateTime)";
       "setDate(QDate,QDateTime::TransitionResolution)"; "setMSecsSinceEpoch(qint64)";
       "setOffsetFromUtc(int)"; "setSecsSinceEpoch(qint64)";
       "setTime(QTime,QDateTime::TransitionResolution)"; "setTimeSpec(Qt::TimeSpec)";
       "setTimeZone(QTimeZone,QDateTime::TransitionResolution)"; "swap(QDateTime)"; "time()";
       "timeRepresentation()"; "timeSpec()"; "timeZone()"; "timeZoneAbbreviation()"; "toLocalTime()";
       "toMSecsSinceEpoch()"; "toOffsetFromUtc(int)"; "toSecsSinceEpoch()"; "toString(QString,QCalendar)";
       "toString(Qt::DateFormat)"; "toTimeSpec(Qt::TimeSpec)"; "toTimeZone(QTimeZone)"; "toUTC()"]);
    ("QDeadlineTimer", ["deadline()"; "deadlineNSecs()"; "hasExpired()"; "isForever()"; "remainingTime()";
       "remainingTimeNSecs()"; "setDeadline(qint64,Qt::TimerType)";
       "setPreciseDeadline(qint64,qint64,Qt::TimerType)";
       "setPreciseRemainingTime(qint64,qint64,Qt::TimerType)"; "setRemainingTime(qint64,Qt::TimerType)";
       "setTimerType(Qt::TimerType)"; "swap(QDeadlineTimer)"; "timerType()"]);
    ("QDesignerCustomWidgetInterface", ["codeTemplate()"; "domXml()";
       "initialize(QDesignerFormEditorInterface*)"; "isInitialized()"]);
    ("QDesignerFormWindowCursorInterface", ["isWidgetSelected(QWidget*)"]);
    ("QDir", ["absoluteFilePath(QString)"; "absolutePath()"; "canonicalPath()"; "cd(QString)"; "cdUp()";
       "dirName()"; "exists()"; "exists(QString)"; "filePath(QString)"; "filter()"; "isAbsolute()";
       "isEmpty(QDir::Filters)"; "isReadable()"; "isRelative()"; "isRoot()"; "makeAbsolute()";
       "mkdir(QString)"; "mkpath(QString)"; "nameFilters()"; "path()"; "refresh()";
       "relativeFilePath(QString)"; "remove(QString)"; "removeRecursively()"; "rename(QString,QString)";
       "rmdir(QString)"; "rmpath(QString)"; "setFilter(QDir::Filters)"; "setNameFilters(QStringList)";
       "setPath(QString)"; "swap(QDir)"]);
    ("QDirIterator", ["fileInfo()"; "fileName()"; "filePath()"; "hasNext()"; "next()"; "nextFileInfo()";
       "path()"])
  ].

Definition value_table_D_3 : list (string * list string) :=
  [
    ("QDnsDomainNameRecord", ["name()"; "swap(QDnsDomainNameRecord)"; "value()"]);
    ("QDnsHostAddressRecord", ["name()"; "swap(QDnsHostAddressRecord)"; "value()"]);
    ("QDnsMailExchangeRecord", ["exchange()"; "name()"; "swap(QDnsMailExchangeRecord)"]);
    ("QDnsServiceRecord", ["name()"; "swap(QDnsServiceRecord)"; "target()"]);
    ("QDnsTextRecord", ["name()"; "swap(QDnsTextRecord)"; "values()"]);
    ("QDnsTlsAssociationRecord", ["matchType()"; "name()"; "selector()"; "swap(QDnsTlsAssociationRecord)";
       "usage()"; "value()"]);
    ("QDomAttr", ["name()"; "nodeType()"; "ownerElement()"; "setValue(QString)"; "specified()"; "value()"]);
    ("QDomCDATASection", ["nodeType()"]);
    ("QDomCharacterData", ["appendData(QString)"; "data()"; "length()"; "nodeType()"; "setData(QString)"]);
    ("QDomComment", ["nodeType()"]);
    ("QDomDocument", ["createAttribute(QString)"; "createAttributeNS(QString,QString)";
       "createCDATASection(QString)"; "createComment(QString)"; "createDocumentFragment()";
       "createElement(QString)"; "createElementNS(QString,QString)"; "createEntityReference(QString)";
       "createProcessingInstruction(QString,QString)"; "createTextNode(QString)"; "doctype()";
       "documentElement()"; "elementById(QString)"; "elementsByTagName(QString)";
       "elementsByTagNameNS(QString,QString)"; "implementation()"; "importNode(QDomNode,bool)"; "nodeType()";
       "toByteArray(int)"; "toString(int)"]);
    ("QDomDocumentFragment", ["nodeType()"]);
    ("QDomDocumentType", ["entities()"; "internalSubset()"; "name()"; "nodeType()"; "notations()";
       "publicId()"; "systemId()"]);
    ("QDomElement", ["attribute(QString,QString)"; "attributeNS(QString,QString,QString)";
       "attributeNode(QString)"; "attributeNodeNS(QString,QString)"; "attributes()";
       "elementsByTagName(QString)"; "elementsByTagNameNS(QString,QString)"; "hasAttribute(QString)";
       "hasAttributeNS(QString,QString)"; "nodeType()"; "removeAttribute(QString)";
       "removeAttributeNS(QString,QString)"; "removeAttributeNode(QDomAttr)";
       "setAttribute(QString,QString)"; "setAttribute(QString,double)"; "setAttribute(QString,int)";
       "setAttribute(QString,qint64)"; "setAttribute(QString,quint64)";
       "setAttributeNS(QString,QString,QString)"; "setAttributeNS(QString,QString,double)";
       "setAttributeNode(QDomAttr)"; "setAttributeNodeNS(QDomAttr)"; "setTagName(QString)"; "tagName()";
       "text()"])
  ].

Definition value_table_D_4 : list (string * list string) :=
  [
    ("QDomEntity", ["nodeType()"; "notationName()"; "publicId()"; "systemId()"]);
    ("QDomEntityReference", ["nodeType()"]);
    ("QDomImplementation", ["createDocument(QString,QString,QDomDocumentType)";
       "createDocumentType(QString,QString,QString)"; "hasFeature(QString,QString)"; "isNull()"]);
    ("QDomNamedNodeMap", ["contains(QString)"; "count()"; "isEmpty()"; "item(int)"; "length()";
       "namedItem(QString)"; "namedItemNS(QString,QString)"; "removeNamedItem(QString)";
       "removeNamedItemNS(QString,QString)"; "setNamedItem(QDomNode)"; "setNamedItemNS(QDomNode)"; "size()"]);
    ("QDomNode", ["appendChild(QDomNode)"; "attributes()"; "childNodes()"; "clear()"; "cloneNode(bool)";
       "columnNumber()"; "firstChild()"; "firstChildElement(QString,QString)"; "hasAttributes()";
       "hasChildNodes()"; "insertAfter(QDomNode,QDomNode)"; "insertBefore(QDomNode,QDomNode)"; "isAttr()";
       "isCDATASection()"; "isCharacterData()"; "isComment()"; "isDocument()"; "isDocumentFragment()";
       "isDocumentType()"; "isElement()"; "isEntity()"; "isEntityReference()"; "isNotation()"; "isNull()";
       "isProcessingInstruction()"; "isSupported(QString,QString)"; "isText()"; "lastChild()";
       "lastChildElement(QString,QString)"; "lineNumber()"; "localName()"; "namedItem(QString)";
       "namespaceURI()"; "nextSibling()"; "nextSiblingElement(QString,QString)"; "nodeName()"; "nodeType()";
       "nodeValue()"; "normalize()"; "ownerDocument()"; "parentNode()"; "prefix()"; "previousSibling()";
       "previousSiblingElement(QString,QString)"; "removeChild(QDomNode)"; "replaceChild(QDomNode,QDomNode)";
       "save(QTextStream,int,QDomNode::EncodingPolicy)"; "setNodeValue(QString)"; "setPrefix(QString)";
       "toAttr()"; "toCDATASection()"; "toCharacterData()"; "toComment()"; "toDocument()";
       "toDocumentFragment()"; "toDocumentType()"; "toElement()"; "toEntity()"; "toEntityReference()";
       "toNotation()"; "toProcessingInstruction()"; "toText()"]);
    ("QDomNodeList", ["at(int)"; "count()"; "isEmpty()"; "item(int)"; "length()"; "size()"]);
    ("QDomNotation", ["nodeType()"; "publicId()"; "systemId()"]);
    ("QDomProcessingInstruction", ["data()"; "nodeType()"; "setData(QString)"; "target()"]);
    ("QDomText", ["nodeType()"; "splitText(int)"]);
    ("QDragMoveEvent", ["accept()"; "accept(QRect)"; "answerRect()"; "ignore()"; "ignore(QRect)"])
  ].

Definition value_table_D_5 : list (string * list string) :=
  [
    ("QDropEvent", ["acceptProposedAction()"; "buttons()"; "dropAction()"; "mimeData()"; "position()";
       "possibleActions()"; "proposedAction()"; "setDropAction(Qt::DropAction)"; "source()"]);
    ("QDynamicPropertyChangeEvent", ["propertyName()"])
  ].

Definition value_table_E : list (string * list string) :=
  [
    ("QEasingCurve", ["addCubicBezierSegment(QPointF,QPointF,QPointF)";
       "addTCBSegment(QPointF,qreal,qreal,qreal)"; "amplitude()"; "overshoot()"; "period()";
       "setAmplitude(qreal)"; "setOvershoot(qreal)"; "setPeriod(qreal)"; "setType(QEasingCurve::Type)";
       "swap(QEasingCurve)"; "toCubicSpline()"; "type()"; "valueForProgress(qreal)"]);
    ("QElapsedTimer", ["elapsed()"; "hasExpired(qint64)"; "invalidate()"; "isValid()";
       "msecsSinceReference()"; "msecsTo(QElapsedTimer)"; "nsecsElapsed()"; "restart()";
       "secsTo(QElapsedTimer)"; "start()"]);
    ("QEvent", ["accept()"; "ignore()"; "isAccepted()"; "isInputEvent()"; "isPointerEvent()";
       "isSinglePointEvent()"; "setAccepted(bool)"; "spontaneous()"; "type()"]);
    ("QEventLoopLocker", ["swap(QEventLoopLocker)"]);
    ("QEventPoint", ["device()"; "ellipseDiameters()"; "globalGrabPosition()"; "globalLastPosition()";
       "globalPosition()"; "globalPressPosition()"; "grabPosition()"; "id()"; "isAccepted()";
       "lastPosition()"; "normalizedPosition()"; "position()"; "pressPosition()"; "pressure()"; "rotation()";
       "sceneGrabPosition()"; "sceneLastPosition()"; "scenePosition()"; "scenePressPosition()";
       "setAccepted(bool)"; "state()"; "swap(QEventPoint)"; "timeHeld()"; "uniqueId()"; "velocity()"])
  ].

Definition value_table_F_1 : list (string * list string) :=
  [
    ("QFileIconProvider", ["icon(QAbstractFileIconProvider::IconType)"; "icon(QFileInfo)"]);
    ("QFileInfo", ["absoluteDir()"; "absoluteFilePath()"; "absolutePath()"; "baseName()"; "birthTime()";
       "birthTime(QTimeZone)"; "bundleName()"; "caching()"; "canonicalFilePath()"; "canonicalPath()";
       "completeBaseName()"; "completeSuffix()"; "dir()"; "exists()"; "fileName()"; "filePath()";
       "fileTime(QFileDevice::FileTime)"; "fileTime(QFileDevice::FileTime,QTimeZone)"; "group()";
       "groupId()"; "isAbsolute()"; "isAlias()"; "isBundle()"; "isDir()"; "isExecutable()"; "isFile()";
       "isHidden()"; "isJunction()"; "isNativePath()"; "isOther()"; "isReadable()"; "isRelative()";
       "isRoot()"; "isShortcut()"; "isSymLink()"; "isSymbolicLink()"; "isWritable()"; "junctionTarget()";
       "lastModified()"; "lastModified(QTimeZone)"; "lastRead()"; "lastRead(QTimeZone)"; "makeAbsolute()";
       "metadataChangeTime()"; "metadataChangeTime(QTimeZone)"; "owner()"; "ownerId()"; "path()";
       "readSymLink()"; "refresh()"; "setCaching(bool)"; "setFile(QDir,QString)"; "setFile(QString)";
       "size()"; "stat()"; "suffix()"; "swap(QFileInfo)"; "symLinkTarget()"]);
    ("QFileOpenEvent", ["file()"; "url()"]);
    ("QFocusEvent", ["gotFocus()"; "lostFocus()"; "reason()"]);
    ("QFont", ["bold()"; "capitalization()"; "clearFeatures()"; "clearVariableAxes()"; "defaultFamily()";
       "exactMatch()"; "families()"; "family()"; "featureTags()"; "fixedPitch()"; "fromString(QString)";
       "hintingPreference()"; "isCopyOf(QFont)"; "isFeatureSet(QFont::Tag)"; "isVariableAxisSet(QFont::Tag)";
       "italic()"; "kerning()"; "key()"; "letterSpacing()"; "letterSpacingType()"; "overline()";
       "pixelSize()"; "pointSize()"; "pointSizeF()"; "resolve(QFont)"; "setBold(bool)";
       "setCapitalization(QFont::Capitalization)"; "setFamilies(QStringList)"; "setFamily(QString)";
       "setFixedPitch(bool)"; "setHintingPreference(QFont::HintingPreference)"; "setItalic(bool)";
       "setKerning(bool)"; "setLetterSpacing(QFont::SpacingType,qreal)"; "setOverline(bool)";
       "setPixelSize(int)"; "setPointSize(int)"; "setPointSizeF(qreal)"; "setStretch(int)";
       "setStrikeOut(bool)"; "setStyle(QFont::Style)"; "setStyleHint(QFont::StyleHint,QFont::StyleStrategy)";
       "setStyleName(QString)"; "setStyleStrategy(QFont::StyleStrategy)"; "setUnderline(bool)";
       "setVariableAxis(QFont::Tag,float)"; "setWordSpacing(qreal)"; "stretch()"; "strikeOut()"; "style()";
       "styleHint()"; "styleName()"; "styleStrategy()"; "swap(QFont)"; "toString()"; "underline()";
       "unsetFeature(QFont::Tag)"; "unsetVariableAxis(QFont::Tag)"; "variableAxisTags()";
       "variableAxisValue(QFont::Tag)"; "wordSpacing()"])
  ].

Definition value_table_F_2 : list (string * list string) :=
  [
    ("QFontInfo", ["bold()"; "exactMatch()"; "family()"; "fixedPitch()"; "italic()"; "pixelSize()";
       "pointSize()"; "pointSizeF()"; "style()"; "styleHint()"; "styleName()"; "swap(QFontInfo)";
       "variableAxes()"; "weight()"]);
    ("QFontMetrics", ["ascent()"; "averageCharWidth()"; "boundingRect(QString)";
       "boundingRect(QString,QTextOption)"; "capHeight()"; "descent()";
       "elidedText(QString,Qt::TextElideMode,int,int)"; "fontDpi()"; "height()";
       "horizontalAdvance(QString,QTextOption)"; "horizontalAdvance(QString,int)";
       "inFontUcs4(unsigned int)"; "leading()"; "lineSpacing()"; "lineWidth()"; "maxWidth()";
       "minLeftBearing()"; "minRightBearing()"; "overlinePos()"; "strikeOutPos()"; "swap(QFontMetrics)";
       "tightBoundingRect(QString)"; "tightBoundingRect(QString,QTextOption)"; "underlinePos()"; "xHeight()"]);
    ("QFontMetricsF", ["ascent()"; "averageCharWidth()"; "boundingRect(QString)";
       "boundingRect(QString,QTextOption)"; "capHeight()"; "descent()";
       "elidedText(QString,Qt::TextElideMode,qreal,int)"; "fontDpi()"; "height()";
       "horizontalAdvance(QString,QTextOption)"; "horizontalAdvance(QString,int)";
       "inFontUcs4(unsigned int)"; "leading()"; "lineSpacing()"; "lineWidth()"; "maxWidth()";
       "minLeftBearing()"; "minRightBearing()"; "overlinePos()"; "strikeOutPos()"; "swap(QFontMetricsF)";
       "tightBoundingRect(QString)"; "tightBoundingRect(QString,QTextOption)"; "underlinePos()"; "xHeight()"]);
    ("QFontVariableAxis", ["defaultValue()"; "maximumValue()"; "minimumValue()"; "name()";
       "setDefaultValue(qreal)"; "setMaximumValue(qreal)"; "setMinimumValue(qreal)"; "setName(QString)";
       "setTag(QFont::Tag)"; "swap(QFontVariableAxis)"; "tag()"]);
    ("QFormBuilder", ["addPluginPath(QString)"; "clearPluginPaths()"; "pluginPaths()";
       "setPluginPath(QStringList)"]);
    ("QFormDataBuilder", ["swap(QFormDataBuilder)"]);
    ("QFormDataPartBuilder", ["setHeaders(QHttpHeaders)"; "swap(QFormDataPartBuilder)"])
  ].

Definition value_table_G_1 : list (string * list string) :=
  [
    ("QGeoAddress", ["city()"; "clear()"; "country()"; "countryCode()"; "county()"; "district()";
       "isEmpty()"; "isTextGenerated()"; "postalCode()"; "setCity(QString)"; "setCountry(QString)";
       "setCountryCode(QString)"; "setCounty(QString)"; "setDistrict(QString)"; "setPostalCode(QString)";
       "setState(QString)"; "setStreet(QString)"; "setStreetNumber(QString)"; "setText(QString)"; "state()";
       "street()"; "streetNumber()"; "swap(QGeoAddress)"; "text()"]);
    ("QGeoAreaMonitorInfo", ["area()"; "expiration()"; "identifier()"; "isPersistent()"; "isValid()";
       "name()"; "notificationParameters()"; "setArea(QGeoShape)"; "setExpiration(QDateTime)";
       "setName(QString)"; "setPersistent(bool)"; "swap(QGeoAreaMonitorInfo)"]);
    ("QGeoCircle", ["center()"; "extendCircle(QGeoCoordinate)"; "radius()"; "setCenter(QGeoCoordinate)";
       "setRadius(qreal)"; "toString()"; "translate(double,double)"; "translated(double,double)"]);
    ("QGeoCoordinate", ["altitude()"; "atDistanceAndAzimuth(qreal,qreal,qreal)"; "azimuthTo(QGeoCoordinate)";
       "distanceTo(QGeoCoordinate)"; "isValid()"; "latitude()"; "longitude()"; "setAltitude(double)";
       "setLatitude(double)"; "setLongitude(double)"; "swap(QGeoCoordinate)";
       "toString(QGeoCoordinate::CoordinateFormat)"; "type()"]);
    ("QGeoLocation", ["address()"; "boundingShape()"; "coordinate()"; "extendedAttributes()"; "isEmpty()";
       "setAddress(QGeoAddress)"; "setBoundingShape(QGeoShape)"; "setCoordinate(QGeoCoordinate)";
       "swap(QGeoLocation)"]);
    ("QGeoPath", ["addCoordinate(QGeoCoordinate)"; "clearPath()"; "containsCoordinate(QGeoCoordinate)";
       "coordinateAt(qsizetype)"; "insertCoordinate(qsizetype,QGeoCoordinate)";
       "length(qsizetype,qsizetype)"; "path()"; "removeCoordinate(QGeoCoordinate)";
       "removeCoordinate(qsizetype)"; "replaceCoordinate(qsizetype,QGeoCoordinate)";
       "setPath(QList<QGeoCoordinate>)"; "setWidth(qreal)"; "size()"; "toString()";
       "translate(double,double)"; "translated(double,double)"; "width()"]);
    ("QGeoPolygon", ["addCoordinate(QGeoCoordinate)"; "addHole(QList<QGeoCoordinate>)"; "addHole(QVariant)";
       "containsCoordinate(QGeoCoordinate)"; "coordinateAt(qsizetype)"; "holePath(qsizetype)";
       "holesCount()"; "insertCoordinate(qsizetype,QGeoCoordinate)"; "length(qsizetype,qsizetype)";
       "perimeter()"; "removeCoordinate(QGeoCoordinate)"; "removeCoordinate(qsizetype)";
       "removeHole(qsizetype)"; "replaceCoordinate(qsizetype,QGeoCoordinate)";
       "setPerimeter(QList<QGeoCoordinate>)"; "size()"; "toString()"; "translate(double,double)";
       "translated(double,double)"]);
    ("QGeoPositionInfo", ["attribute(QGeoPositionInfo::Attribute)"; "coordinate()";
       "hasAttribute(QGeoPositionInfo::Attribute)"; "isValid()";
       "removeAttribute(QGeoPositionInfo::Attribute)"; "setAttribute(QGeoPositionInfo::Attribute,qreal)";
       "setCoordinate(QGeoCoordinate)"; "setTimestamp(QDateTime)"; "swap(QGeoPositionInfo)"; "timestamp()"])
  ].

Definition value_table_G_2 : list (string * list string) :=
  [
    ("QGeoRectangle", ["bottomLeft()"; "bottomRight()"; "center()"; "contains(QGeoRectangle)";
       "extendRectangle(QGeoCoordinate)"; "height()"; "intersects(QGeoRectangle)";
       "setBottomLeft(QGeoCoordinate)"; "setBottomRight(QGeoCoordinate)"; "setCenter(QGeoCoordinate)";
       "setHeight(double)"; "setTopLeft(QGeoCoordinate)"; "setTopRight(QGeoCoordinate)"; "setWidth(double)";
       "toString()"; "topLeft()"; "topRight()"; "translate(double,double)"; "translated(double,double)";
       "united(QGeoRectangle)"; "width()"]);
    ("QGeoSatelliteInfo", ["attribute(QGeoSatelliteInfo::Attribute)";
       "hasAttribute(QGeoSatelliteInfo::Attribute)"; "removeAttribute(QGeoSatelliteInfo::Attribute)";
       "satelliteIdentifier()"; "satelliteSystem()"; "setAttribute(QGeoSatelliteInfo::Attribute,qreal)";
       "setSatelliteIdentifier(int)"; "setSatelliteSystem(QGeoSatelliteInfo::SatelliteSystem)";
       "setSignalStrength(int)"; "signalStrength()"; "swap(QGeoSatelliteInfo)"]);
    ("QGeoShape", ["boundingGeoRectangle()"; "center()"; "contains(QGeoCoordinate)"; "isEmpty()";
       "isValid()"; "toString()"; "type()"]);
    ("QGestureEvent", ["accept()"; "accept(QGesture*)"; "accept(Qt::GestureType)"; "activeGestures()";
       "canceledGestures()"; "gesture(Qt::GestureType)"; "gestures()"; "ignore()"; "ignore(QGesture*)";
       "ignore(Qt::GestureType)"; "isAccepted()"; "isAccepted(QGesture*)"; "isAccepted(Qt::GestureType)";
       "mapToGraphicsScene(QPointF)"; "setAccepted(QGesture*,bool)"; "setAccepted(Qt::GestureType,bool)";
       "setAccepted(bool)"; "widget()"]);
    ("QGestureRecognizer", ["create(QObject*)"; "reset(QGesture*)"]);
    ("QGlyphRun", ["boundingRect()"; "clear()"; "flags()"; "glyphIndexes()"; "isEmpty()"; "isRightToLeft()";
       "overline()"; "positions()"; "rawFont()"; "setBoundingRect(QRectF)";
       "setFlag(QGlyphRun::GlyphRunFlag,bool)"; "setFlags(QGlyphRun::GlyphRunFlags)";
       "setGlyphIndexes(QList<unsigned int>)"; "setOverline(bool)"; "setPositions(QList<QPointF>)";
       "setRawFont(QRawFont)"; "setRightToLeft(bool)"; "setSourceString(QString)"; "setStrikeOut(bool)";
       "setStringIndexes(QList<qsizetype>)"; "setUnderline(bool)"; "sourceString()"; "strikeOut()";
       "stringIndexes()"; "swap(QGlyphRun)"; "underline()"]);
    ("QGradient", ["coordinateMode()"; "setColorAt(qreal,QColor)";
       "setCoordinateMode(QGradient::CoordinateMode)"; "setSpread(QGradient::Spread)"; "spread()"; "type()"]);
    ("QGraphicsAnchorLayout", ["count()"; "horizontalSpacing()"; "invalidate()"; "removeAt(int)";
       "setGeometry(QRectF)"; "setHorizontalSpacing(qreal)"; "setSpacing(qreal)";
       "setVerticalSpacing(qreal)"; "verticalSpacing()"]);
    ("QGraphicsEllipseItem", ["boundingRect()"; "contains(QPointF)"; "opaqueArea()"; "rect()";
       "setRect(QRectF)"; "setRect(qreal,qreal,qreal,qreal)"; "setSpanAngle(int)"; "setStartAngle(int)";
       "shape()"; "spanAngle()"; "startAngle()"; "type()"])
  ].

Definition value_table_G_3 : list (string * list string) :=
  [
    ("QGraphicsGridLayout", ["columnCount()"; "columnMaximumWidth(int)"; "columnMinimumWidth(int)";
       "columnPreferredWidth(int)"; "columnSpacing(int)"; "columnStretchFactor(int)"; "count()";
       "horizontalSpacing()"; "invalidate()"; "rowCount()"; "rowMaximumHeight(int)"; "rowMinimumHeight(int)";
       "rowPreferredHeight(int)"; "rowSpacing(int)"; "rowStretchFactor(int)";
       "setColumnFixedWidth(int,qreal)"; "setColumnMaximumWidth(int,qreal)";
       "setColumnMinimumWidth(int,qreal)"; "setColumnPreferredWidth(int,qreal)";
       "setColumnSpacing(int,qreal)"; "setColumnStretchFactor(int,int)"; "setGeometry(QRectF)";
       "setHorizontalSpacing(qreal)"; "setRowFixedHeight(int,qreal)"; "setRowMaximumHeight(int,qreal)";
       "setRowMinimumHeight(int,qreal)"; "setRowPreferredHeight(int,qreal)"; "setRowSpacing(int,qreal)";
       "setRowStretchFactor(int,int)"; "setSpacing(qreal)"; "setVerticalSpacing(qreal)";
       "sizeHint(Qt::SizeHint,QSizeF)"; "verticalSpacing()"])
  ].

Definition value_table_G_4 : list (string * list string) :=
  [
    ("QGraphicsItem", ["acceptDrops()"; "acceptHoverEvents()"; "acceptTouchEvents()";
       "acceptedMouseButtons()"; "advance(int)"; "boundingRegion(QTransform)"; "boundingRegionGranularity()";
       "cacheMode()"; "childrenBoundingRect()"; "clearFocus()"; "clipPath()";
       "collidesWithPath(QPainterPath,Qt::ItemSelectionMode)"; "contains(QPointF)"; "cursor()"; "data(int)";
       "deviceTransform(QTransform)"; "effectiveOpacity()"; "ensureVisible(QRectF,int,int)";
       "ensureVisible(qreal,qreal,qreal,qreal,int,int)"; "filtersChildEvents()"; "flags()"; "grabKeyboard()";
       "grabMouse()"; "graphicsEffect()"; "hasCursor()"; "hasFocus()"; "hide()"; "isActive()"; "isClipped()";
       "isEnabled()"; "isObscured(QRectF)"; "isObscured(qreal,qreal,qreal,qreal)"; "isPanel()";
       "isSelected()"; "isUnderMouse()"; "isVisible()"; "isWidget()"; "isWindow()";
       "mapFromParent(QPainterPath)"; "mapFromParent(QPointF)"; "mapFromParent(QPolygonF)";
       "mapFromParent(QRectF)"; "mapFromParent(qreal,qreal)"; "mapFromParent(qreal,qreal,qreal,qreal)";
       "mapFromScene(QPainterPath)"; "mapFromScene(QPointF)"; "mapFromScene(QPolygonF)";
       "mapFromScene(QRectF)"; "mapFromScene(qreal,qreal)"; "mapFromScene(qreal,qreal,qreal,qreal)";
       "mapRectFromParent(QRectF)"; "mapRectFromParent(qreal,qreal,qreal,qreal)"; "mapRectFromScene(QRectF)";
       "mapRectFromScene(qreal,qreal,qreal,qreal)"; "mapRectToParent(QRectF)";
       "mapRectToParent(qreal,qreal,qreal,qreal)"; "mapRectToScene(QRectF)";
       "mapRectToScene(qreal,qreal,qreal,qreal)"; "mapToParent(QPainterPath)"; "mapToParent(QPointF)";
       "mapToParent(QPolygonF)"; "mapToParent(QRectF)"; "mapToParent(qreal,qreal)";
       "mapToParent(qreal,qreal,qreal,qreal)"; "mapToScene(QPainterPath)"; "mapToScene(QPointF)";
       "mapToScene(QPolygonF)"; "mapToScene(QRectF)"; "mapToScene(qreal,qreal)";
       "mapToScene(qreal,qreal,qreal,qreal)"; "moveBy(qreal,qreal)"; "opacity()"; "opaqueArea()";
       "panelModality()"; "parentObject()"; "parentWidget()"; "pos()"; "resetTransform()"; "rotation()";
       "scale()"; "scene()"; "sceneBoundingRect()"; "scenePos()"; "sceneTransform()";
       "scroll(qreal,qreal,QRectF)"; "setAcceptDrops(bool)"; "setAcceptHoverEvents(bool)";
       "setAcceptTouchEvents(bool)"; "setAcceptedMouseButtons(Qt::MouseButtons)"; "setActive(bool)";
       "setBoundingRegionGranularity(qreal)"; "setCacheMode(QGraphicsItem::CacheMode,QSize)";
       "setCursor(QCursor)"; "setData(int,QVariant)"; "setEnabled(bool)"; "setFiltersChildEvents(bool)";
       "setFlag(QGraphicsItem::GraphicsItemFlag,bool)"; "setFlags(QGraphicsItem::GraphicsItemFlags)";
       "setFocus(Qt::FocusReason)"; "setGraphicsEffect(QGraphicsEffect*)"; "setOpacity(qreal)";
       "setPanelModality(QGraphicsItem::PanelModality)"; "setPos(QPointF)"; "setPos(qreal,qreal)";
       "setRotation(qreal)"; "setScale(qreal)"; "setSelected(bool)"; "setToolTip(QString)";
       "setTransform(QTransform,bool)"; "setTransformOriginPoint(QPointF)";
       "setTransformOriginPoint(qreal,qreal)"; "setTransformations(QList<QGraphicsTransform*>)";
       "setVisible(bool)"; "setX(qreal)"; "setY(qreal)"; "setZValue(qreal)"; "shape()"; "show()";
       "toGraphicsObject()"; "toolTip()"; "topLevelWidget()"; "transform()"; "transformOriginPoint()";
       "transformations()"; "type()"; "ungrabKeyboard()"; "ungrabMouse()"; "unsetCursor()"; "update(QRectF)";
       "update(qreal,qreal,qreal,qreal)"; "window()"; "x()"; "y()"; "zValue()"]);
    ("QGraphicsItemGroup", ["boundingRect()"; "opaqueArea()"; "type()"])
  ].

Definition value_table_G_5 : list (string * list string) :=
  [
    ("QGraphicsLayout", ["activate()"; "invalidate()"; "isActivated()";
       "setContentsMargins(qreal,qreal,qreal,qreal)"; "updateGeometry()"]);
    ("QGraphicsLayoutItem", ["contentsRect()"; "effectiveSizeHint(Qt::SizeHint,QSizeF)"; "geometry()";
       "isEmpty()"; "isLayout()"; "maximumHeight()"; "maximumSize()"; "maximumWidth()"; "minimumHeight()";
       "minimumSize()"; "minimumWidth()"; "ownedByLayout()"; "preferredHeight()"; "preferredSize()";
       "preferredWidth()"; "setGeometry(QRectF)"; "setMaximumHeight(qreal)"; "setMaximumSize(QSizeF)";
       "setMaximumSize(qreal,qreal)"; "setMaximumWidth(qreal)"; "setMinimumHeight(qreal)";
       "setMinimumSize(QSizeF)"; "setMinimumSize(qreal,qreal)"; "setMinimumWidth(qreal)";
       "setPreferredHeight(qreal)"; "setPreferredSize(QSizeF)"; "setPreferredSize(qreal,qreal)";
       "setPreferredWidth(qreal)"; "setSizePolicy(QSizePolicy)";
       "setSizePolicy(QSizePolicy::Policy,QSizePolicy::Policy,QSizePolicy::ControlType)"; "sizePolicy()";
       "updateGeometry()"]);
    ("QGraphicsLineItem", ["boundingRect()"; "contains(QPointF)"; "line()"; "opaqueArea()"; "pen()";
       "setLine(QLineF)"; "setLine(qreal,qreal,qreal,qreal)"; "setPen(QPen)"; "shape()"; "type()"]);
    ("QGraphicsLinearLayout", ["addStretch(int)"; "count()"; "insertStretch(int,int)"; "invalidate()";
       "itemSpacing(int)"; "orientation()"; "setGeometry(QRectF)"; "setItemSpacing(int,qreal)";
       "setOrientation(Qt::Orientation)"; "setSpacing(qreal)"; "sizeHint(Qt::SizeHint,QSizeF)"; "spacing()"]);
    ("QGraphicsPathItem", ["boundingRect()"; "contains(QPointF)"; "opaqueArea()"; "path()";
       "setPath(QPainterPath)"; "shape()"; "type()"]);
    ("QGraphicsPixmapItem", ["boundingRect()"; "contains(QPointF)"; "offset()"; "opaqueArea()"; "pixmap()";
       "setOffset(QPointF)"; "setOffset(qreal,qreal)"; "setPixmap(QPixmap)";
       "setShapeMode(QGraphicsPixmapItem::ShapeMode)"; "setTransformationMode(Qt::TransformationMode)";
       "shape()"; "shapeMode()"; "transformationMode()"; "type()"]);
    ("QGraphicsPolygonItem", ["boundingRect()"; "contains(QPointF)"; "fillRule()"; "opaqueArea()";
       "polygon()"; "setFillRule(Qt::FillRule)"; "setPolygon(QPolygonF)"; "shape()"; "type()"]);
    ("QGraphicsRectItem", ["boundingRect()"; "contains(QPointF)"; "opaqueArea()"; "rect()";
       "setRect(QRectF)"; "setRect(qreal,qreal,qreal,qreal)"; "shape()"; "type()"]);
    ("QGraphicsSceneContextMenuEvent", ["pos()"; "reason()"; "scenePos()"; "screenPos()"])
  ].

Definition value_table_G_6 : list (string * list string) :=
  [
    ("QGraphicsSceneDragDropEvent", ["acceptProposedAction()"; "buttons()"; "dropAction()"; "mimeData()";
       "pos()"; "possibleActions()"; "proposedAction()"; "scenePos()"; "screenPos()";
       "setDropAction(Qt::DropAction)"; "source()"]);
    ("QGraphicsSceneEvent", ["timestamp()"; "widget()"]);
    ("QGraphicsSceneHelpEvent", ["scenePos()"; "screenPos()"]);
    ("QGraphicsSceneHoverEvent", ["lastPos()"; "lastScenePos()"; "lastScreenPos()"; "pos()"; "scenePos()";
       "screenPos()"]);
    ("QGraphicsSceneMouseEvent", ["button()"; "buttonDownPos(Qt::MouseButton)";
       "buttonDownScenePos(Qt::MouseButton)"; "buttonDownScreenPos(Qt::MouseButton)"; "buttons()";
       "lastPos()"; "lastScenePos()"; "lastScreenPos()"; "pos()"; "scenePos()"; "screenPos()"; "source()"]);
    ("QGraphicsSceneMoveEvent", ["newPos()"; "oldPos()"]);
    ("QGraphicsSceneResizeEvent", ["newSize()"; "oldSize()"]);
    ("QGraphicsSceneWheelEvent", ["buttons()"; "delta()"; "isInverted()"; "orientation()"; "phase()";
       "pixelDelta()"; "pos()"; "scenePos()"; "screenPos()"]);
    ("QGraphicsSimpleTextItem", ["boundingRect()"; "contains(QPointF)"; "font()"; "opaqueArea()";
       "setFont(QFont)"; "setText(QString)"; "shape()"; "text()"; "type()"]);
    ("QGraphsLine", ["labelTextColor()"; "mainColor()"; "mainWidth()"; "setLabelTextColor(QColor)";
       "setMainColor(QColor)"; "setMainWidth(qreal)"; "setSubColor(QColor)"; "setSubWidth(qreal)";
       "subColor()"; "subWidth()"; "swap(QGraphsLine)"])
  ].

Definition value_table_H : list (string * list string) :=
  [
    ("QHelpContentItem", ["childCount()"; "row()"; "title()"; "url()"]);
    ("QHelpEvent", ["globalPos()"; "globalX()"; "globalY()"; "pos()"; "x()"; "y()"]);
    ("QHelpFilterData", ["components()"; "setComponents(QStringList)"; "setVersions(QList<QVersionNumber>)";
       "swap(QHelpFilterData)"; "versions()"]);
    ("QHelpSearchResult", ["snippet()"; "title()"; "url()"]);
    ("QHostAddress", ["clear()"; "isBroadcast()"; "isGlobal()"; "isInSubnet(QHostAddress,int)";
       "isLinkLocal()"; "isLoopback()"; "isMulticast()"; "isNull()"; "isPrivateUse()"; "isSiteLocal()";
       "isUniqueLocalUnicast()"; "protocol()"; "scopeId()"; "setAddress(QHostAddress::SpecialAddress)";
       "setAddress(QString)"; "setScopeId(QString)"; "swap(QHostAddress)"; "toString()"]);
    ("QHostInfo", ["addresses()"; "error()"; "errorString()"; "hostName()"; "lookupId()";
       "setAddresses(QList<QHostAddress>)"; "setError(QHostInfo::HostInfoError)"; "setErrorString(QString)";
       "setHostName(QString)"; "setLookupId(int)"; "swap(QHostInfo)"]);
    ("QHoverEvent", ["isUpdateEvent()"; "oldPos()"; "oldPosF()"]);
    ("QHstsPolicy", ["expiry()"; "includesSubDomains()"; "isExpired()"; "setExpiry(QDateTime)";
       "setHost(QString,QUrl::ParsingMode)"; "setIncludesSubDomains(bool)"; "swap(QHstsPolicy)"]);
    ("QHttp1Configuration", ["numberOfConnectionsPerHost()"; "setNumberOfConnectionsPerHost(qsizetype)";
       "swap(QHttp1Configuration)"]);
    ("QHttp2Configuration", ["huffmanCompressionEnabled()"; "maxConcurrentStreams()"; "maxFrameSize()";
       "serverPushEnabled()"; "sessionReceiveWindowSize()"; "setHuffmanCompressionEnabled(bool)";
       "setMaxConcurrentStreams(unsigned int)"; "setMaxFrameSize(unsigned int)";
       "setServerPushEnabled(bool)"; "setSessionReceiveWindowSize(unsigned int)";
       "setStreamReceiveWindowSize(unsigned int)"; "streamReceiveWindowSize()"; "swap(QHttp2Configuration)"]);
    ("QHttpHeaders", ["clear()"; "combinedValue(QHttpHeaders::WellKnownHeader)";
       "contains(QHttpHeaders::WellKnownHeader)"; "isEmpty()"; "removeAll(QHttpHeaders::WellKnownHeader)";
       "removeAt(qsizetype)"; "reserve(qsizetype)";
       "setDateTimeValue(QHttpHeaders::WellKnownHeader,QDateTime)"; "size()"; "swap(QHttpHeaders)";
       "values(QHttpHeaders::WellKnownHeader)"]);
    ("QHttpPart", ["setBody(QByteArray)"; "setBodyDevice(QIODevice*)";
       "setHeader(QNetworkRequest::KnownHeaders,QVariant)"; "setRawHeader(QByteArray,QByteArray)";
       "swap(QHttpPart)"])
  ].

Definition value_table_I_1 : list (string * list string) :=
  [
    ("QIcon", ["actualSize(QSize,QIcon::Mode,QIcon::State)";
       "addFile(QString,QSize,QIcon::Mode,QIcon::State)"; "addPixmap(QPixmap,QIcon::Mode,QIcon::State)";
       "availableSizes(QIcon::Mode,QIcon::State)"; "cacheKey()"; "isDetached()"; "isMask()"; "isNull()";
       "name()"; "pixmap(QSize,QIcon::Mode,QIcon::State)"; "pixmap(QSize,qreal,QIcon::Mode,QIcon::State)";
       "pixmap(int,QIcon::Mode,QIcon::State)"; "pixmap(int,int,QIcon::Mode,QIcon::State)"; "setIsMask(bool)";
       "swap(QIcon)"]);
    ("QIconEngine", ["actualSize(QSize,QIcon::Mode,QIcon::State)";
       "addFile(QString,QSize,QIcon::Mode,QIcon::State)"; "addPixmap(QPixmap,QIcon::Mode,QIcon::State)";
       "availableSizes(QIcon::Mode,QIcon::State)"; "iconName()"; "isNull()"; "key()";
       "pixmap(QSize,QIcon::Mode,QIcon::State)"; "read(QDataStream)";
       "scaledPixmap(QSize,QIcon::Mode,QIcon::State,qreal)"; "write(QDataStream)"]);
    ("QImage", ["allGray()"; "applyColorTransform(QColorTransform)"; "bitPlaneCount()"; "bytesPerLine()";
       "cacheKey()"; "colorCount()"; "colorSpace()"; "colorTable()"; "colorTransformed(QColorTransform)";
       "convertToColorSpace(QColorSpace)"; "convertedToColorSpace(QColorSpace)"; "copy(QRect)";
       "copy(int,int,int,int)"; "createHeuristicMask(bool)"; "depth()"; "deviceIndependentSize()";
       "devicePixelRatio()"; "dotsPerMeterX()"; "dotsPerMeterY()"; "fill(QColor)"; "fill(Qt::GlobalColor)";
       "fill(unsigned int)"; "flip(Qt::Orientations)"; "flipped(Qt::Orientations)"; "format()";
       "hasAlphaChannel()"; "height()"; "invertPixels(QImage::InvertMode)"; "isGrayscale()"; "isNull()";
       "mirror(bool,bool)"; "mirrored(bool,bool)"; "offset()"; "pixelColor(QPoint)"; "pixelColor(int,int)";
       "pixelFormat()"; "pixelIndex(QPoint)"; "pixelIndex(int,int)"; "rect()";
       "reinterpretAsFormat(QImage::Format)"; "rgbSwap()"; "rgbSwapped()";
       "scaled(QSize,Qt::AspectRatioMode,Qt::TransformationMode)";
       "scaled(int,int,Qt::AspectRatioMode,Qt::TransformationMode)";
       "scaledToHeight(int,Qt::TransformationMode)"; "scaledToWidth(int,Qt::TransformationMode)";
       "setAlphaChannel(QImage)"; "setColorCount(int)"; "setColorSpace(QColorSpace)";
       "setColorTable(QList<unsigned int>)"; "setDevicePixelRatio(qreal)"; "setDotsPerMeterX(int)";
       "setDotsPerMeterY(int)"; "setOffset(QPoint)"; "setPixel(QPoint,unsigned int)";
       "setPixel(int,int,unsigned int)"; "setPixelColor(QPoint,QColor)"; "setPixelColor(int,int,QColor)";
       "setText(QString,QString)"; "size()"; "sizeInBytes()"; "swap(QImage)"; "text(QString)"; "textKeys()";
       "transformed(QTransform,Qt::TransformationMode)"; "valid(QPoint)"; "valid(int,int)"; "width()"]);
    ("QImageIOHandler", ["currentImageNumber()"; "currentImageRect()"; "device()"; "format()";
       "imageCount()"; "jumpToImage(int)"; "jumpToNextImage()"; "loopCount()"; "nextImageDelay()";
       "option(QImageIOHandler::ImageOption)"; "setDevice(QIODevice*)"; "setFormat(QByteArray)";
       "setOption(QImageIOHandler::ImageOption,QVariant)"; "supportsOption(QImageIOHandler::ImageOption)";
       "write(QImage)"])
  ].

Definition value_table_I_2 : list (string * list string) :=
  [
    ("QImageReader", ["autoDetectImageFormat()"; "autoTransform()"; "backgroundColor()"; "canRead()";
       "clipRect()"; "currentImageNumber()"; "currentImageRect()"; "decideFormatFromContent()"; "device()";
       "error()"; "errorString()"; "fileName()"; "format()"; "imageCount()"; "imageFormat()";
       "jumpToImage(int)"; "jumpToNextImage()"; "loopCount()"; "nextImageDelay()"; "quality()"; "read()";
       "scaledClipRect()"; "scaledSize()"; "setAutoDetectImageFormat(bool)"; "setAutoTransform(bool)";
       "setBackgroundColor(QColor)"; "setClipRect(QRect)"; "setDecideFormatFromContent(bool)";
       "setDevice(QIODevice*)"; "setFileName(QString)"; "setFormat(QByteArray)"; "setQuality(int)";
       "setScaledClipRect(QRect)"; "setScaledSize(QSize)"; "size()"; "subType()"; "supportedSubTypes()";
       "supportsAnimation()"; "supportsOption(QImageIOHandler::ImageOption)"; "text(QString)"; "textKeys()"]);
    ("QImageWriter", ["canWrite()"; "compression()"; "device()"; "error()"; "errorString()"; "fileName()";
       "format()"; "optimizedWrite()"; "progressiveScanWrite()"; "quality()"; "setCompression(int)";
       "setDevice(QIODevice*)"; "setFileName(QString)"; "setFormat(QByteArray)"; "setOptimizedWrite(bool)";
       "setProgressiveScanWrite(bool)"; "setQuality(int)"; "setSubType(QByteArray)";
       "setText(QString,QString)"; "subType()"; "supportedSubTypes()";
       "supportsOption(QImageIOHandler::ImageOption)"; "write(QImage)"]);
    ("QInputEvent", ["device()"; "deviceType()"; "timestamp()"]);
    ("QInputMethodEvent", ["attributes()"; "commitString()"; "preeditString()"; "replacementLength()";
       "replacementStart()"; "setCommitString(QString,int,int)"]);
    ("QInputMethodQueryEvent", ["queries()"; "setValue(Qt::InputMethodQuery,QVariant)";
       "value(Qt::InputMethodQuery)"]);
    ("QItemEditorFactory", ["createEditor(int,QWidget*)"; "valuePropertyName(int)"]);
    ("QItemSelection", ["append(QItemSelectionRange)"; "clear()"; "contains(QModelIndex)"; "count()";
       "count(QItemSelectionRange)"; "first()"; "indexOf(QItemSelectionRange,int)";
       "insert(int,QItemSelectionRange)"; "isEmpty()"; "last()"; "lastIndexOf(QItemSelectionRange,int)";
       "move(int,int)"; "prepend(QItemSelectionRange)"; "removeAll(QItemSelectionRange)"; "removeAt(int)";
       "replace(int,QItemSelectionRange)"; "select(QModelIndex,QModelIndex)"; "takeAt(int)"; "takeFirst()";
       "takeLast()"]);
    ("QItemSelectionRange", ["bottom()"; "bottomRight()"; "contains(QModelIndex)";
       "contains(int,int,QModelIndex)"; "height()"; "intersected(QItemSelectionRange)";
       "intersects(QItemSelectionRange)"; "isEmpty()"; "isValid()"; "left()"; "model()"; "parent()";
       "right()"; "swap(QItemSelectionRange)"; "top()"; "topLeft()"; "width()"])
  ].

Definition value_table_J : list (string * list string) :=
  [
    ("QJSManagedValue", ["deleteProperty(QString)"; "engine()"; "equals(QJSManagedValue)";
       "hasOwnProperty(QString)"; "hasProperty(QString)"; "isArray()"; "isBoolean()"; "isDate()";
       "isError()"; "isFunction()"; "isInteger()"; "isNull()"; "isNumber()"; "isObject()"; "isQMetaObject()";
       "isQObject()"; "isRegularExpression()"; "isString()"; "isSymbol()"; "isUndefined()"; "isUrl()";
       "isVariant()"; "property(QString)"; "prototype()"; "setProperty(QString,QJSValue)";
       "setPrototype(QJSManagedValue)"; "strictlyEquals(QJSManagedValue)"; "toBoolean()"; "toDateTime()";
       "toInteger()"; "toJSValue()"; "toNumber()"; "toPrimitive()"; "toQObject()"; "toRegularExpression()";
       "toString()"; "toUrl()"; "toVariant()"; "type()"]);
    ("QJSPrimitiveValue", ["equals(QJSPrimitiveValue)"; "metaType()"; "strictlyEquals(QJSPrimitiveValue)";
       "toBoolean()"; "toDouble()"; "toInteger()"; "toString()"; "type()"]);
    ("QJSValue", ["deleteProperty(QString)"; "equals(QJSValue)"; "errorType()"; "hasOwnProperty(QString)";
       "hasProperty(QString)"; "isArray()"; "isBool()"; "isCallable()"; "isDate()"; "isError()"; "isNull()";
       "isNumber()"; "isObject()"; "isQObject()"; "isRegExp()"; "isString()"; "isUndefined()"; "isUrl()";
       "isVariant()"; "property(QString)"; "prototype()"; "setProperty(QString,QJSValue)";
       "setPrototype(QJSValue)"; "strictlyEquals(QJSValue)"; "toBool()"; "toDateTime()"; "toNumber()";
       "toPrimitive()"; "toQObject()"; "toString()"; "toVariant()";
       "toVariant(QJSValue::ObjectConversionBehavior)"]);
    ("QJSValueIterator", ["hasNext()"; "name()"; "next()"; "value()"]);
    ("QJsonDocument", ["isArray()"; "isEmpty()"; "isNull()"; "isObject()"; "swap(QJsonDocument)";
       "toJson(QJsonDocument::JsonFormat)"; "toVariant()"]);
    ("QJsonValue", ["isArray()"; "isBool()"; "isDouble()"; "isNull()"; "isObject()"; "isString()";
       "isUndefined()"; "swap(QJsonValue)"; "toBool(bool)"; "toDouble(double)"; "toInt(int)";
       "toInteger(qint64)"; "toJson(QJsonValue::JsonFormat)"; "toString()"; "toString(QString)";
       "toVariant()"; "type()"])
  ].

Definition value_table_K : list (string * list string) :=
  [
    ("QKeyCombination", ["key()"; "toCombined()"]);
    ("QKeyEvent", ["count()"; "isAutoRepeat()"; "key()"; "keyCombination()";
       "matches(QKeySequence::StandardKey)"; "text()"]);
    ("QKeyFrame", ["coordinates()"; "interpolationType()"; "leftControlPoint()"; "rightControlPoint()";
       "setCoordinates(QVector2D)"; "setInterpolationType(Qt3DAnimation::QKeyFrame::InterpolationType)";
       "setLeftControlPoint(QVector2D)"; "setRightControlPoint(QVector2D)"]);
    ("QKeySequence", ["count()"; "isDetached()"; "isEmpty()"; "matches(QKeySequence)"; "swap(QKeySequence)";
       "toString(QKeySequence::SequenceFormat)"])
  ].

Definition value_table_L_1 : list (string * list string) :=
  [
    ("QLayoutItem", ["controlTypes()"; "hasHeightForWidth()"; "heightForWidth(int)"; "invalidate()";
       "layout()"; "minimumHeightForWidth(int)"; "widget()"]);
    ("QLevelOfDetailBoundingSphere", ["center()"; "isEmpty()"; "radius()"]);
    ("QLine", ["center()"; "dx()"; "dy()"; "isNull()"; "p1()"; "p2()"; "setLine(int,int,int,int)";
       "setP1(QPoint)"; "setP2(QPoint)"; "setPoints(QPoint,QPoint)"; "toLineF()"; "translate(QPoint)";
       "translate(int,int)"; "translated(QPoint)"; "translated(int,int)"; "x1()"; "x2()"; "y1()"; "y2()"]);
    ("QLineF", ["angle()"; "angleTo(QLineF)"; "center()"; "dx()"; "dy()"; "isNull()"; "length()";
       "normalVector()"; "p1()"; "p2()"; "pointAt(qreal)"; "setAngle(qreal)"; "setLength(qreal)";
       "setLine(qreal,qreal,qreal,qreal)"; "setP1(QPointF)"; "setP2(QPointF)"; "setPoints(QPointF,QPointF)";
       "toLine()"; "translate(QPointF)"; "translate(qreal,qreal)"; "translated(QPointF)";
       "translated(qreal,qreal)"; "unitVector()"; "x1()"; "x2()"; "y1()"; "y2()"]);
    ("QLinearGradient", ["finalStop()"; "setFinalStop(QPointF)"; "setFinalStop(qreal,qreal)";
       "setStart(QPointF)"; "setStart(qreal,qreal)"; "start()"]);
    ("QListWidgetItem", ["background()"; "checkState()"; "data(int)"; "font()"; "foreground()"; "icon()";
       "isHidden()"; "isSelected()"; "listWidget()"; "read(QDataStream)"; "setBackground(QBrush)";
       "setCheckState(Qt::CheckState)"; "setData(int,QVariant)"; "setFont(QFont)"; "setForeground(QBrush)";
       "setHidden(bool)"; "setIcon(QIcon)"; "setSelected(bool)"; "setSizeHint(QSize)";
       "setStatusTip(QString)"; "setText(QString)"; "setTextAlignment(int)"; "setToolTip(QString)";
       "setWhatsThis(QString)"; "sizeHint()"; "statusTip()"; "text()"; "textAlignment()"; "toolTip()";
       "type()"; "whatsThis()"; "write(QDataStream)"])
  ].

Definition value_table_L_2 : list (string * list string) :=
  [
    ("QLocale", ["amText()"; "bcp47Name(QLocale::TagSeparator)"; "collation()"; "country()";
       "createSeparatedList(QStringList)"; "currencySymbol(QLocale::CurrencySymbolFormat)";
       "dateFormat(QLocale::FormatType)"; "dateTimeFormat(QLocale::FormatType)";
       "dayName(int,QLocale::FormatType)"; "decimalPoint()"; "exponential()"; "firstDayOfWeek()";
       "groupSeparator()"; "language()"; "measurementSystem()"; "monthName(int,QLocale::FormatType)";
       "name(QLocale::TagSeparator)"; "nativeCountryName()"; "nativeLanguageName()"; "nativeTerritoryName()";
       "negativeSign()"; "percent()"; "pmText()"; "positiveSign()"; "script()";
       "standaloneDayName(int,QLocale::FormatType)"; "standaloneMonthName(int,QLocale::FormatType)";
       "swap(QLocale)"; "territory()"; "textDirection()"; "timeFormat(QLocale::FormatType)";
       "toCurrencyString(double,QString,int)"; "toDate(QString,QLocale::FormatType,QCalendar,int)";
       "toDate(QString,QLocale::FormatType,int)"; "toDate(QString,QString,QCalendar,int)";
       "toDate(QString,QString,int)"; "toDateTime(QString,QLocale::FormatType,QCalendar,int)";
       "toDateTime(QString,QLocale::FormatType,int)"; "toDateTime(QString,QString,QCalendar,int)";
       "toDateTime(QString,QString,int)"; "toLower(QString)"; "toString(QDate,QLocale::FormatType)";
       "toString(QDate,QLocale::FormatType,QCalendar)"; "toString(QDateTime,QLocale::FormatType)";
       "toString(QDateTime,QLocale::FormatType,QCalendar)"; "toString(QDateTime,QString)";
       "toString(QTime,QLocale::FormatType)"; "toTime(QString,QLocale::FormatType)";
       "toTime(QString,QString)"; "toUpper(QString)"; "uiLanguages(QLocale::TagSeparator)"; "weekdays()";
       "zeroDigit()"]);
    ("QLocationPermission", ["accuracy()"; "availability()"; "setAccuracy(QLocationPermission::Accuracy)";
       "setAvailability(QLocationPermission::Availability)"]);
    ("QLockFile", ["error()"; "fileName()"; "isLocked()"; "lock()"; "removeStaleLockFile()";
       "setStaleLockTime(int)"; "staleLockTime()"; "tryLock(int)"; "unlock()"]);
    ("QLoggingCategory", ["isCriticalEnabled()"; "isDebugEnabled()"; "isInfoEnabled()"; "isWarningEnabled()"]);
    ("QLowEnergyAdvertisingData", ["discoverability()"; "includePowerLevel()"; "localName()";
       "manufacturerData()"; "rawData()"; "services()";
       "setDiscoverability(QLowEnergyAdvertisingData::Discoverability)"; "setIncludePowerLevel(bool)";
       "setLocalName(QString)"; "setRawData(QByteArray)"; "setServices(QList<QBluetoothUuid>)";
       "swap(QLowEnergyAdvertisingData)"]);
    ("QLowEnergyAdvertisingParameters", ["filterPolicy()"; "maximumInterval()"; "minimumInterval()";
       "mode()"; "setMode(QLowEnergyAdvertisingParameters::Mode)"; "swap(QLowEnergyAdvertisingParameters)"]);
    ("QLowEnergyCharacteristic", ["clientCharacteristicConfiguration()"; "descriptor(QBluetoothUuid)";
       "descriptors()"; "isValid()"; "name()"; "uuid()"; "value()"]);
    ("QLowEnergyCharacteristicData", ["addDescriptor(QLowEnergyDescriptorData)"; "descriptors()";
       "isValid()"; "maximumValueLength()"; "minimumValueLength()";
       "setDescriptors(QList<QLowEnergyDescriptorData>)"; "setUuid(QBluetoothUuid)"; "setValue(QByteArray)";
       "setValueLength(int,int)"; "swap(QLowEnergyCharacteristicData)"; "uuid()"; "value()"])
  ].

Definition value_table_L_3 : list (string * list string) :=
  [
    ("QLowEnergyConnectionParameters", ["latency()"; "maximumInterval()"; "minimumInterval()";
       "setIntervalRange(double,double)"; "setLatency(int)"; "setSupervisionTimeout(int)";
       "supervisionTimeout()"; "swap(QLowEnergyConnectionParameters)"]);
    ("QLowEnergyDescriptor", ["isValid()"; "name()"; "type()"; "uuid()"; "value()"]);
    ("QLowEnergyDescriptorData", ["isReadable()"; "isValid()"; "isWritable()"; "setUuid(QBluetoothUuid)";
       "setValue(QByteArray)"; "swap(QLowEnergyDescriptorData)"; "uuid()"; "value()"]);
    ("QLowEnergyServiceData", ["addCharacteristic(QLowEnergyCharacteristicData)";
       "addIncludedService(QLowEnergyService*)"; "characteristics()"; "includedServices()"; "isValid()";
       "setCharacteristics(QList<QLowEnergyCharacteristicData>)";
       "setIncludedServices(QList<QLowEnergyService*>)"; "setType(QLowEnergyServiceData::ServiceType)";
       "setUuid(QBluetoothUuid)"; "swap(QLowEnergyServiceData)"; "type()"; "uuid()"])
  ].

Definition value_table_M_1 : list (string * list string) :=
  [
    ("QMargins", ["bottom()"; "isNull()"; "left()"; "right()"; "setBottom(int)"; "setLeft(int)";
       "setRight(int)"; "setTop(int)"; "toMarginsF()"; "top()"]);
    ("QMarginsF", ["bottom()"; "isNull()"; "left()"; "right()"; "setBottom(qreal)"; "setLeft(qreal)";
       "setRight(qreal)"; "setTop(qreal)"; "toMargins()"; "top()"]);
    ("QMatrix2x2", ["fill(float)"; "isIdentity()"; "setToIdentity()"; "transposed()"]);
    ("QMatrix2x3", ["fill(float)"; "isIdentity()"; "setToIdentity()"; "transposed()"]);
    ("QMatrix2x4", ["fill(float)"; "isIdentity()"; "setToIdentity()"; "transposed()"]);
    ("QMatrix3x2", ["fill(float)"; "isIdentity()"; "setToIdentity()"; "transposed()"]);
    ("QMatrix3x3", ["fill(float)"; "isIdentity()"; "setToIdentity()"; "transposed()"]);
    ("QMatrix3x4", ["fill(float)"; "isIdentity()"; "setToIdentity()"; "transposed()"]);
    ("QMatrix4x2", ["fill(float)"; "isIdentity()"; "setToIdentity()"; "transposed()"]);
    ("QMatrix4x3", ["fill(float)"; "isIdentity()"; "setToIdentity()"; "transposed()"]);
    ("QMatrix4x4", ["column(int)"; "determinant()"; "fill(float)";
       "frustum(float,float,float,float,float,float)"; "isAffine()"; "isIdentity()";
       "lookAt(QVector3D,QVector3D,QVector3D)"; "map(QPoint)"; "map(QPointF)"; "map(QVector3D)";
       "map(QVector4D)"; "mapRect(QRect)"; "mapRect(QRectF)"; "mapVector(QVector3D)"; "normalMatrix()";
       "optimize()"; "ortho(QRect)"; "ortho(QRectF)"; "ortho(float,float,float,float,float,float)";
       "perspective(float,float,float,float)"; "rotate(QQuaternion)"; "rotate(float,QVector3D)";
       "rotate(float,float,float,float)"; "row(int)"; "scale(QVector3D)"; "scale(float)";
       "scale(float,float)"; "scale(float,float,float)"; "setColumn(int,QVector4D)"; "setRow(int,QVector4D)";
       "setToIdentity()"; "toTransform()"; "toTransform(float)"; "translate(QVector3D)";
       "translate(float,float)"; "translate(float,float,float)"; "transposed()"; "viewport(QRectF)";
       "viewport(float,float,float,float,float,float)"])
  ].

Definition value_table_M_2 : list (string * list string) :=
  [
    ("QMediaFormat", ["audioCodec()"; "fileFormat()"; "isSupported(QMediaFormat::ConversionMode)";
       "mimeType()"; "resolveForEncoding(QMediaFormat::ResolveFlags)";
       "setAudioCodec(QMediaFormat::AudioCodec)"; "setFileFormat(QMediaFormat::FileFormat)";
       "setVideoCodec(QMediaFormat::VideoCodec)"; "supportedAudioCodecs(QMediaFormat::ConversionMode)";
       "supportedFileFormats(QMediaFormat::ConversionMode)";
       "supportedVideoCodecs(QMediaFormat::ConversionMode)"; "swap(QMediaFormat)"; "videoCodec()"]);
    ("QMediaMetaData", ["insert(QMediaMetaData::Key,QVariant)"; "keys()"; "stringValue(QMediaMetaData::Key)";
       "value(QMediaMetaData::Key)"]);
    ("QMediaTimeRange", ["addInterval(QMediaTimeRange::Interval)"; "addInterval(qint64,qint64)";
       "addTimeRange(QMediaTimeRange)"; "clear()"; "contains(qint64)"; "earliestTime()"; "intervals()";
       "isContinuous()"; "isEmpty()"; "latestTime()"; "removeInterval(QMediaTimeRange::Interval)";
       "removeInterval(qint64,qint64)"; "removeTimeRange(QMediaTimeRange)"]);
    ("QMessageAuthenticationCode", ["reset()"; "result()"; "swap(QMessageAuthenticationCode)"]);
    ("QMetaEnum", ["is64Bit()"; "isFlag()"; "isScoped()"; "isValid()"; "keyCount()"; "metaType()";
       "value(int)"; "valueToKeys(quint64)"]);
    ("QMetaMethod", ["access()"; "isConst()"; "isValid()"; "methodIndex()"; "methodSignature()";
       "methodType()"; "name()"; "parameterCount()"; "parameterMetaType(int)"; "parameterNames()";
       "parameterType(int)"; "parameterTypeName(int)"; "parameterTypes()"; "relativeMethodIndex()";
       "returnMetaType()"; "returnType()"; "revision()"]);
    ("QMetaProperty", ["enumerator()"; "hasNotifySignal()"; "hasStdCppSet()"; "isBindable()"; "isConstant()";
       "isDesignable()"; "isEnumType()"; "isFinal()"; "isFlagType()"; "isOverride()"; "isReadable()";
       "isRequired()"; "isResettable()"; "isScriptable()"; "isStored()"; "isUser()"; "isValid()";
       "isVirtual()"; "isWritable()"; "metaType()"; "notifySignal()"; "notifySignalIndex()";
       "propertyIndex()"; "relativePropertyIndex()"; "reset(QObject*)"; "revision()"; "typeId()";
       "userType()"]);
    ("QMetaType", ["alignOf()"; "hasRegisteredDataStreamOperators()"; "hasRegisteredDebugStreamOperator()";
       "id()"; "isCopyConstructible()"; "isDefaultConstructible()"; "isDestructible()";
       "isEqualityComparable()"; "isMoveConstructible()"; "isOrdered()"; "isRegistered()"; "isValid()";
       "registerType()"; "sizeOf()"; "underlyingType()"]);
    ("QMimeDatabase", ["allMimeTypes()"; "mimeTypeForData(QByteArray)"; "mimeTypeForData(QIODevice*)";
       "mimeTypeForFile(QFileInfo,QMimeDatabase::MatchMode)";
       "mimeTypeForFile(QString,QMimeDatabase::MatchMode)"; "mimeTypeForFileNameAndData(QString,QByteArray)";
       "mimeTypeForFileNameAndData(QString,QIODevice*)"; "mimeTypeForName(QString)"; "mimeTypeForUrl(QUrl)";
       "mimeTypesForFileName(QString)"; "suffixForFileName(QString)"])
  ].

Definition value_table_M_3 : list (string * list string) :=
  [
    ("QMimeType", ["aliases()"; "allAncestors()"; "comment()"; "filterString()"; "genericIconName()";
       "globPatterns()"; "iconName()"; "inherits(QString)"; "isDefault()"; "isValid()"; "name()";
       "parentMimeTypes()"; "preferredSuffix()"; "suffixes()"; "swap(QMimeType)"]);
    ("QModelIndex", ["column()"; "data(int)"; "isValid()"; "model()"; "parent()"; "row()";
       "sibling(int,int)"; "siblingAtColumn(int)"; "siblingAtRow(int)"]);
    ("QModelRoleData", ["clearData()"; "data()"; "role()"; "setData(QVariant)"]);
    ("QModelRoleDataSpan", ["length()"; "size()"]);
    ("QMouseEvent", ["pos()"]);
    ("QMoveEvent", ["oldPos()"; "pos()"]);
    ("QMutex", ["lock()"; "tryLock()"; "tryLock(QDeadlineTimer)"; "tryLock(int)"; "unlock()"])
  ].

Definition value_table_N_1 : list (string * list string) :=
  [
    ("QNativeGestureEvent", ["delta()"; "fingerCount()"; "gestureType()"; "value()"]);
    ("QNativeIpcKey", ["isEmpty()"; "isValid()"; "nativeKey()"; "setNativeKey(QString)";
       "setType(QNativeIpcKey::Type)"; "swap(QNativeIpcKey)"; "toString()"; "type()"]);
    ("QNdefFilter", ["appendRecord(QNdefFilter::Record)";
       "appendRecord(QNdefRecord::TypeNameFormat,QByteArray,unsigned int,unsigned int)"; "clear()";
       "match(QNdefMessage)"; "orderMatch()"; "recordAt(qsizetype)"; "recordCount()"; "setOrderMatch(bool)"]);
    ("QNdefMessage", ["toByteArray()"]);
    ("QNdefNfcIconRecord", ["data()"; "setData(QByteArray)"]);
    ("QNdefNfcSmartPosterRecord", ["action()"; "addIcon(QByteArray,QByteArray)";
       "addIcon(QNdefNfcIconRecord)"; "addTitle(QNdefNfcTextRecord)";
       "addTitle(QString,QString,QNdefNfcTextRecord::Encoding)"; "hasAction()"; "hasIcon(QByteArray)";
       "hasSize()"; "hasTitle(QString)"; "hasTypeInfo()"; "icon(QByteArray)"; "iconCount()";
       "iconRecord(qsizetype)"; "iconRecords()"; "removeIcon(QByteArray)"; "removeIcon(QNdefNfcIconRecord)";
       "removeTitle(QNdefNfcTextRecord)"; "removeTitle(QString)";
       "setAction(QNdefNfcSmartPosterRecord::Action)"; "setIcons(QList<QNdefNfcIconRecord>)";
       "setPayload(QByteArray)"; "setTitles(QList<QNdefNfcTextRecord>)"; "setTypeInfo(QString)";
       "setUri(QNdefNfcUriRecord)"; "setUri(QUrl)"; "title(QString)"; "titleCount()";
       "titleRecord(qsizetype)"; "titleRecords()"; "typeInfo()"; "uri()"; "uriRecord()"]);
    ("QNdefNfcTextRecord", ["encoding()"; "locale()"; "setEncoding(QNdefNfcTextRecord::Encoding)";
       "setLocale(QString)"; "setText(QString)"; "text()"]);
    ("QNdefNfcUriRecord", ["setUri(QUrl)"; "uri()"]);
    ("QNdefRecord", ["clear()"; "id()"; "isEmpty()"; "payload()"; "setId(QByteArray)";
       "setPayload(QByteArray)"; "setType(QByteArray)"; "setTypeNameFormat(QNdefRecord::TypeNameFormat)";
       "type()"; "typeNameFormat()"]);
    ("QNetworkAddressEntry", ["broadcast()"; "clearAddressLifetime()"; "dnsEligibility()"; "ip()";
       "isLifetimeKnown()"; "isPermanent()"; "isTemporary()"; "netmask()"; "preferredLifetime()";
       "prefixLength()"; "setAddressLifetime(QDeadlineTimer,QDeadlineTimer)"; "setBroadcast(QHostAddress)";
       "setDnsEligibility(QNetworkAddressEntry::DnsEligibilityStatus)"; "setIp(QHostAddress)";
       "setNetmask(QHostAddress)"; "setPrefixLength(int)"; "swap(QNetworkAddressEntry)";
       "validityLifetime()"]);
    ("QNetworkCacheMetaData", ["expirationDate()"; "headers()"; "isValid()"; "lastModified()";
       "saveToDisk()"; "setExpirationDate(QDateTime)"; "setHeaders(QHttpHeaders)";
       "setLastModified(QDateTime)"; "setSaveToDisk(bool)"; "setUrl(QUrl)"; "swap(QNetworkCacheMetaData)";
       "url()"])
  ].

Definition value_table_N_2 : list (string * list string) :=
  [
    ("QNetworkCookie", ["domain()"; "expirationDate()"; "hasSameIdentifier(QNetworkCookie)"; "isHttpOnly()";
       "isSecure()"; "isSessionCookie()"; "name()"; "normalize(QUrl)"; "path()"; "sameSitePolicy()";
       "setDomain(QString)"; "setExpirationDate(QDateTime)"; "setHttpOnly(bool)"; "setName(QByteArray)";
       "setPath(QString)"; "setSameSitePolicy(QNetworkCookie::SameSite)"; "setSecure(bool)";
       "setValue(QByteArray)"; "swap(QNetworkCookie)"; "toRawForm(QNetworkCookie::RawForm)"; "value()"]);
    ("QNetworkDatagram", ["clear()"; "data()"; "destinationAddress()"; "destinationPort()"; "hopLimit()";
       "interfaceIndex()"; "isNull()"; "isValid()"; "makeReply(QByteArray)"; "senderAddress()";
       "senderPort()"; "setData(QByteArray)"; "setHopLimit(int)"; "setInterfaceIndex(unsigned int)";
       "swap(QNetworkDatagram)"]);
    ("QNetworkInterface", ["addressEntries()"; "hardwareAddress()"; "humanReadableName()"; "index()";
       "isValid()"; "maximumTransmissionUnit()"; "name()"; "swap(QNetworkInterface)"; "type()"]);
    ("QNetworkProxy", ["capabilities()"; "hasRawHeader(QByteArray)"; "header(QNetworkRequest::KnownHeaders)";
       "headers()"; "hostName()"; "isCachingProxy()"; "isTransparentProxy()"; "password()";
       "rawHeader(QByteArray)"; "rawHeaderList()"; "setCapabilities(QNetworkProxy::Capabilities)";
       "setHeader(QNetworkRequest::KnownHeaders,QVariant)"; "setHeaders(QHttpHeaders)";
       "setHostName(QString)"; "setPassword(QString)"; "setRawHeader(QByteArray,QByteArray)";
       "setType(QNetworkProxy::ProxyType)"; "setUser(QString)"; "swap(QNetworkProxy)"; "type()"; "user()"]);
    ("QNetworkProxyQuery", ["localPort()"; "peerHostName()"; "peerPort()"; "protocolTag()"; "queryType()";
       "setLocalPort(int)"; "setPeerHostName(QString)"; "setPeerPort(int)"; "setProtocolTag(QString)";
       "setQueryType(QNetworkProxyQuery::QueryType)"; "setUrl(QUrl)"; "swap(QNetworkProxyQuery)"; "url()"]);
    ("QNetworkRequest", ["attribute(QNetworkRequest::Attribute,QVariant)";
       "decompressedSafetyCheckThreshold()"; "header(QNetworkRequest::KnownHeaders)"; "headers()";
       "http1Configuration()"; "http2Configuration()"; "maximumRedirectsAllowed()"; "originatingObject()";
       "peerVerifyName()"; "priority()"; "rawHeaderList()";
       "setAttribute(QNetworkRequest::Attribute,QVariant)"; "setDecompressedSafetyCheckThreshold(qint64)";
       "setHeader(QNetworkRequest::KnownHeaders,QVariant)"; "setHeaders(QHttpHeaders)";
       "setHttp1Configuration(QHttp1Configuration)"; "setHttp2Configuration(QHttp2Configuration)";
       "setMaximumRedirectsAllowed(int)"; "setOriginatingObject(QObject*)"; "setPeerVerifyName(QString)";
       "setPriority(QNetworkRequest::Priority)"; "setRawHeader(QByteArray,QByteArray)";
       "setSslConfiguration(QSslConfiguration)"; "setTcpKeepAliveProbeCount(int)"; "setTransferTimeout(int)";
       "setUrl(QUrl)"; "sslConfiguration()"; "swap(QNetworkRequest)"; "tcpKeepAliveProbeCount()";
       "transferTimeout()"; "url()"])
  ].

Definition value_table_N_3 : list (string * list string) :=
  [
    ("QNetworkRequestFactory", ["attribute(QNetworkRequest::Attribute)";
       "attribute(QNetworkRequest::Attribute,QVariant)"; "baseUrl()"; "bearerToken()";
       "clearAttribute(QNetworkRequest::Attribute)"; "clearAttributes()"; "clearBearerToken()";
       "clearCommonHeaders()"; "clearPassword()"; "clearQueryParameters()"; "clearUserName()";
       "commonHeaders()"; "createRequest()"; "createRequest(QString)"; "createRequest(QString,QUrlQuery)";
       "createRequest(QUrlQuery)"; "password()"; "priority()"; "queryParameters()";
       "setAttribute(QNetworkRequest::Attribute,QVariant)"; "setBaseUrl(QUrl)"; "setBearerToken(QByteArray)";
       "setCommonHeaders(QHttpHeaders)"; "setPassword(QString)"; "setPriority(QNetworkRequest::Priority)";
       "setQueryParameters(QUrlQuery)"; "setSslConfiguration(QSslConfiguration)"; "setUserName(QString)";
       "sslConfiguration()"; "swap(QNetworkRequestFactory)"; "userName()"]);
    ("QNodeId", ["id()"; "isNull()"])
  ].

Definition value_table_O_1 : list (string * list string) :=
  [
    ("QOAuth1Signature", ["addRequestBody(QUrlQuery)"; "clientSharedKey()"; "customMethodString()";
       "hmacSha1()"; "httpRequestMethod()"; "insert(QString,QVariant)"; "keys()"; "plainText()"; "rsaSha1()";
       "setClientSharedKey(QString)"; "setCustomMethodString(QByteArray)";
       "setHttpRequestMethod(QOAuth1Signature::HttpRequestMethod)"; "setTokenSecret(QString)";
       "setUrl(QUrl)"; "swap(QOAuth1Signature)"; "take(QString)"; "tokenSecret()"; "url()";
       "value(QString,QVariant)"]);
    ("QOcspResponse", ["responder()"; "subject()"; "swap(QOcspResponse)"]);
    ("QOpenGLBuffer", ["allocate(int)"; "bind()"; "create()"; "destroy()"; "isCreated()"; "release()";
       "setUsagePattern(QOpenGLBuffer::UsagePattern)"; "size()"; "swap(QOpenGLBuffer)"; "type()"; "unmap()";
       "usagePattern()"]);
    ("QOpenGLDebugMessage", ["message()"; "severity()"; "source()"; "swap(QOpenGLDebugMessage)"; "type()"]);
    ("QOpenGLFramebufferObject", ["attachment()"; "bind()"; "format()"; "height()"; "isBound()"; "isValid()";
       "release()"; "setAttachment(QOpenGLFramebufferObject::Attachment)"; "size()"; "sizes()"; "textures()";
       "toImage(bool)"; "toImage(bool,int)"; "width()"]);
    ("QOpenGLFramebufferObjectFormat", ["attachment()"; "mipmap()"; "samples()";
       "setAttachment(QOpenGLFramebufferObject::Attachment)"; "setMipmap(bool)"; "setSamples(int)"]);
    ("QOpenGLFunctions_2_0", ["glEnd()"; "glEndList()"; "glFinish()"; "glFlush()"; "glInitNames()";
       "glLoadIdentity()"; "glPopAttrib()"; "glPopClientAttrib()"; "glPopMatrix()"; "glPopName()";
       "glPushMatrix()"; "initializeOpenGLFunctions()"]);
    ("QOpenGLFunctions_2_1", ["glEnd()"; "glEndList()"; "glFinish()"; "glFlush()"; "glInitNames()";
       "glLoadIdentity()"; "glPopAttrib()"; "glPopClientAttrib()"; "glPopMatrix()"; "glPopName()";
       "glPushMatrix()"; "initializeOpenGLFunctions()"]);
    ("QOpenGLFunctions_4_1_Core", ["glEndConditionalRender()"; "glEndTransformFeedback()"; "glFinish()";
       "glFlush()"; "glPauseTransformFeedback()"; "glReleaseShaderCompiler()"; "glResumeTransformFeedback()";
       "initializeOpenGLFunctions()"]);
    ("QOpenGLPaintDevice", ["context()"; "dotsPerMeterX()"; "dotsPerMeterY()"; "ensureActiveTarget()";
       "paintFlipped()"; "setDevicePixelRatio(qreal)"; "setDotsPerMeterX(qreal)"; "setDotsPerMeterY(qreal)";
       "setPaintFlipped(bool)"; "setSize(QSize)"; "size()"])
  ].

Definition value_table_O_2 : list (string * list string) :=
  [
    ("QOpenGLPixelTransferOptions", ["alignment()"; "imageHeight()"; "isLeastSignificantBitFirst()";
       "isSwapBytesEnabled()"; "rowLength()"; "setAlignment(int)"; "setImageHeight(int)";
       "setLeastSignificantByteFirst(bool)"; "setRowLength(int)"; "setSkipImages(int)"; "setSkipPixels(int)";
       "setSkipRows(int)"; "setSwapBytesEnabled(bool)"; "skipImages()"; "skipPixels()"; "skipRows()";
       "swap(QOpenGLPixelTransferOptions)"]);
    ("QOpenGLTexture", ["allocateStorage()";
       "allocateStorage(QOpenGLTexture::PixelFormat,QOpenGLTexture::PixelType)"; "bind()";
       "bind(unsigned int,QOpenGLTexture::TextureUnitReset)"; "borderColor()"; "comparisonFunction()";
       "comparisonMode()"; "create()"; "depth()"; "depthStencilMode()"; "destroy()"; "faces()"; "format()";
       "generateMipMaps()"; "generateMipMaps(int,bool)"; "height()"; "isAutoMipMapGenerationEnabled()";
       "isBound()"; "isBound(unsigned int)"; "isCreated()"; "isFixedSamplePositions()";
       "isStorageAllocated()"; "isTextureView()"; "layers()"; "levelofDetailBias()"; "magnificationFilter()";
       "maximumAnisotropy()"; "maximumLevelOfDetail()"; "maximumMipLevels()"; "minificationFilter()";
       "minimumLevelOfDetail()"; "mipBaseLevel()"; "mipLevels()"; "mipMaxLevel()"; "release()";
       "release(unsigned int,QOpenGLTexture::TextureUnitReset)"; "samples()";
       "setAutoMipMapGenerationEnabled(bool)"; "setBorderColor(QColor)";
       "setComparisonFunction(QOpenGLTexture::ComparisonFunction)";
       "setComparisonMode(QOpenGLTexture::ComparisonMode)";
       "setData(QImage,QOpenGLTexture::MipMapGeneration)";
       "setDepthStencilMode(QOpenGLTexture::DepthStencilMode)"; "setFixedSamplePositions(bool)";
       "setFormat(QOpenGLTexture::TextureFormat)"; "setLayers(int)"; "setLevelOfDetailRange(float,float)";
       "setLevelofDetailBias(float)"; "setMagnificationFilter(QOpenGLTexture::Filter)";
       "setMaximumAnisotropy(float)"; "setMaximumLevelOfDetail(float)";
       "setMinMagFilters(QOpenGLTexture::Filter,QOpenGLTexture::Filter)";
       "setMinificationFilter(QOpenGLTexture::Filter)"; "setMinimumLevelOfDetail(float)";
       "setMipBaseLevel(int)"; "setMipLevelRange(int,int)"; "setMipLevels(int)"; "setMipMaxLevel(int)";
       "setSamples(int)"; "setSize(int,int,int)";
       "setSwizzleMask(QOpenGLTexture::SwizzleComponent,QOpenGLTexture::SwizzleValue)";
       "setSwizzleMask(QOpenGLTexture::SwizzleValue,QOpenGLTexture::SwizzleValue,QOpenGLTexture::SwizzleValue,QOpenGLTexture::SwizzleValue)";
       "setWrapMode(QOpenGLTexture::CoordinateDirection,QOpenGLTexture::WrapMode)";
       "setWrapMode(QOpenGLTexture::WrapMode)"; "swizzleMask(QOpenGLTexture::SwizzleComponent)"; "target()";
       "width()"; "wrapMode(QOpenGLTexture::CoordinateDirection)"]);
    ("QOpenGLTextureBlitter", ["create()"; "destroy()"; "isCreated()"; "release()"; "setOpacity(float)";
       "setRedBlueSwizzle(bool)"; "supportsExternalOESTarget()"; "supportsRectangleTarget()"]);
    ("QOpenGLVersionProfile", ["hasProfiles()"; "isLegacyVersion()"; "isValid()"; "profile()";
       "setProfile(QSurfaceFormat::OpenGLContextProfile)"; "setVersion(int,int)"]);
    ("QOperatingSystemVersion", ["type()"]);
    ("QOperatingSystemVersionBase", ["majorVersion()"; "microVersion()"; "minorVersion()"; "name()";
       "segmentCount()"; "version()"])
  ].

Definition value_table_P_1 : list (string * list string) :=
  [
    ("QPageLayout", ["fullRect()"; "fullRect(QPageLayout::Unit)"; "fullRectPixels(int)"; "fullRectPoints()";
       "isEquivalentTo(QPageLayout)"; "isValid()"; "margins()"; "margins(QPageLayout::Unit)";
       "marginsPixels(int)"; "marginsPoints()"; "maximumMargins()"; "minimumMargins()"; "mode()";
       "orientation()"; "pageSize()"; "paintRect()"; "paintRect(QPageLayout::Unit)"; "paintRectPixels(int)";
       "paintRectPoints()"; "setBottomMargin(qreal,QPageLayout::OutOfBoundsPolicy)";
       "setLeftMargin(qreal,QPageLayout::OutOfBoundsPolicy)";
       "setMargins(QMarginsF,QPageLayout::OutOfBoundsPolicy)"; "setMinimumMargins(QMarginsF)";
       "setMode(QPageLayout::Mode)"; "setOrientation(QPageLayout::Orientation)";
       "setPageSize(QPageSize,QMarginsF)"; "setRightMargin(qreal,QPageLayout::OutOfBoundsPolicy)";
       "setTopMargin(qreal,QPageLayout::OutOfBoundsPolicy)"; "setUnits(QPageLayout::Unit)";
       "swap(QPageLayout)"; "units()"]);
    ("QPageRanges", ["addPage(int)"; "addRange(int,int)"; "clear()"; "contains(int)"; "firstPage()";
       "isEmpty()"; "lastPage()"; "swap(QPageRanges)"; "toString()"]);
    ("QPageSize", ["definitionSize()"; "definitionUnits()"; "id()"; "isEquivalentTo(QPageSize)"; "isValid()";
       "key()"; "name()"; "rect(QPageSize::Unit)"; "rectPixels(int)"; "rectPoints()";
       "size(QPageSize::Unit)"; "sizePixels(int)"; "sizePoints()"; "swap(QPageSize)"; "windowsId()"]);
    ("QPagedPaintDevice", ["pageLayout()"; "pageRanges()"; "setPageLayout(QPageLayout)";
       "setPageMargins(QMarginsF,QPageLayout::Unit)"; "setPageOrientation(QPageLayout::Orientation)";
       "setPageRanges(QPageRanges)"; "setPageSize(QPageSize)"]);
    ("QPaintDevice", ["colorCount()"; "depth()"; "devicePixelRatio()"; "devicePixelRatioF()"; "height()";
       "heightMM()"; "logicalDpiX()"; "logicalDpiY()"; "paintingActive()"; "physicalDpiX()";
       "physicalDpiY()"; "width()"; "widthMM()"]);
    ("QPaintEngine", ["drawEllipse(QRect)"; "drawEllipse(QRectF)"; "drawPath(QPainterPath)";
       "drawTextItem(QPointF,QTextItem)"; "drawTiledPixmap(QRectF,QPixmap,QPointF)"; "isActive()";
       "setActive(bool)"]);
    ("QPaintEngineState", ["backgroundBrush()"; "backgroundMode()"; "brush()"; "brushNeedsResolving()";
       "brushOrigin()"; "clipOperation()"; "clipPath()"; "clipRegion()"; "compositionMode()"; "font()";
       "isClipEnabled()"; "opacity()"; "pen()"; "penNeedsResolving()"; "renderHints()"; "transform()"]);
    ("QPaintEvent", ["rect()"; "region()"])
  ].

Definition value_table_P_2 : list (string * list string) :=
  [
    ("QPainter", ["background()"; "backgroundMode()"; "beginNativePainting()";
       "boundingRect(QRect,int,QString)"; "boundingRect(QRectF,QString,QTextOption)";
       "boundingRect(QRectF,int,QString)"; "boundingRect(int,int,int,int,int,QString)"; "brush()";
       "brushOrigin()"; "brushOriginF()"; "clipBoundingRect()"; "clipPath()"; "clipRegion()";
       "combinedTransform()"; "compositionMode()"; "deviceTransform()"; "drawArc(QRect,int,int)";
       "drawArc(QRectF,int,int)"; "drawArc(int,int,int,int,int,int)"; "drawChord(QRect,int,int)";
       "drawChord(QRectF,int,int)"; "drawChord(int,int,int,int,int,int)"; "drawConvexPolygon(QPolygon)";
       "drawConvexPolygon(QPolygonF)"; "drawEllipse(QPoint,int,int)"; "drawEllipse(QPointF,qreal,qreal)";
       "drawEllipse(QRect)"; "drawEllipse(QRectF)"; "drawEllipse(int,int,int,int)";
       "drawGlyphRun(QPointF,QGlyphRun)"; "drawImage(QPoint,QImage)"; "drawImage(QPointF,QImage)";
       "drawImage(QRect,QImage)"; "drawImage(QRectF,QImage)"; "drawLine(QLine)"; "drawLine(QLineF)";
       "drawLine(QPoint,QPoint)"; "drawLine(QPointF,QPointF)"; "drawLine(int,int,int,int)";
       "drawPath(QPainterPath)"; "drawPicture(QPoint,QPicture)"; "drawPicture(QPointF,QPicture)";
       "drawPicture(int,int,QPicture)"; "drawPie(QRect,int,int)"; "drawPie(QRectF,int,int)";
       "drawPie(int,int,int,int,int,int)"; "drawPixmap(QPoint,QPixmap)"; "drawPixmap(QPoint,QPixmap,QRect)";
       "drawPixmap(QPointF,QPixmap)"; "drawPixmap(QPointF,QPixmap,QRectF)"; "drawPixmap(QRect,QPixmap)";
       "drawPixmap(QRect,QPixmap,QRect)"; "drawPixmap(QRectF,QPixmap,QRectF)"; "drawPixmap(int,int,QPixmap)";
       "drawPixmap(int,int,QPixmap,int,int,int,int)"; "drawPixmap(int,int,int,int,QPixmap)";
       "drawPixmap(int,int,int,int,QPixmap,int,int,int,int)"; "drawPoint(QPoint)"; "drawPoint(QPointF)";
       "drawPoint(int,int)"; "drawPoints(QPolygon)"; "drawPoints(QPolygonF)";
       "drawPolygon(QPolygon,Qt::FillRule)"; "drawPolygon(QPolygonF,Qt::FillRule)"; "drawPolyline(QPolygon)";
       "drawPolyline(QPolygonF)"; "drawRect(QRect)"; "drawRect(QRectF)"; "drawRect(int,int,int,int)";
       "drawRoundedRect(QRect,qreal,qreal,Qt::SizeMode)"; "drawRoundedRect(QRectF,qreal,qreal,Qt::SizeMode)";
       "drawRoundedRect(int,int,int,int,qreal,qreal,Qt::SizeMode)"; "drawStaticText(QPoint,QStaticText)";
       "drawStaticText(QPointF,QStaticText)"; "drawStaticText(int,int,QStaticText)";
       "drawText(QPoint,QString)"; "drawText(QPointF,QString)"; "drawText(QRectF,QString,QTextOption)";
       "drawText(int,int,QString)"; "drawTiledPixmap(QRect,QPixmap,QPoint)";
       "drawTiledPixmap(QRectF,QPixmap,QPointF)"; "drawTiledPixmap(int,int,int,int,QPixmap,int,int)";
       "end()"; "endNativePainting()"; "eraseRect(QRect)"; "eraseRect(QRectF)"; "eraseRect(int,int,int,int)";
       "fillPath(QPainterPath,QBrush)"; "fillRect(QRect,QBrush)"; "fillRect(QRect,QColor)";
       "fillRect(QRect,QGradient::Preset)"; "fillRect(QRect,Qt::BrushStyle)";
       "fillRect(QRect,Qt::GlobalColor)"; "fillRect(QRectF,QBrush)"; "fillRect(QRectF,QColor)";
       "fillRect(QRectF,QGradient::Preset)"; "fillRect(QRectF,Qt::BrushStyle)";
       "fillRect(QRectF,Qt::GlobalColor)"; "fillRect(int,int,int,int,QBrush)";
       "fillRect(int,int,int,int,QColor)"; "fillRect(int,int,int,int,QGradient::Preset)";
       "fillRect(int,int,int,int,Qt::BrushStyle)"; "fillRect(int,int,int,int,Qt::GlobalColor)"; "font()";
       "fontInfo()"; "fontMetrics()"; "hasClipping()"; "isActive()"; "layoutDirection()"; "opacity()";
       "pen()"; "renderHints()"; "resetTransform()"; "restore()"; "rotate(qreal)"; "save()";
       "scale(qreal,qreal)"; "setBackground(QBrush)"; "setBackgroundMode(Qt::BGMode)"; "setBrush(QBrush)";
       "setBrush(Qt::BrushStyle)"; "setBrushOrigin(QPoint)"; "setBrushOrigin(QPointF)";
       "setBrushOrigin(int,int)"; "setClipPath(QPainterPath,Qt::ClipOperation)";
       "setClipRect(QRect,Qt::ClipOperation)"; "setClipRect(QRectF,Qt::ClipOperation)";
       "setClipRect(int,int,int,int,Qt::ClipOperation)"; "setClipRegion(QRegion,Qt::ClipOperation)";
       "setClipping(bool)"; "setCompositionMode(QPainter::CompositionMode)"; "setFont(QFont)";
       "setLayoutDirection(Qt::LayoutDirection)"; "setOpacity(qreal)"; "setPen(QColor)"; "setPen(QPen)";
       "setPen(Qt::PenStyle)"; "setRenderHint(QPainter::RenderHint,bool)";
       "setRenderHints(QPainter::RenderHints,bool)"; "setTransform(QTransform,bool)";
       "setViewTransformEnabled(bool)"; "setViewport(QRect)"; "setViewport(int,int,int,int)";
       "setWindow(QRect)"; "setWindow(int,int,int,int)"; "setWorldMatrixEnabled(bool)";
       "setWorldTransform(QTransform,bool)"; "shear(qreal,qreal)"; "strokePath(QPainterPath,QPen)";
       "testRenderHint(QPainter::RenderHint)"; "transform()"; "translate(QPoint)"; "translate(QPointF)";
       "translate(qreal,qreal)"; "viewTransformEnabled()"; "viewport()"; "window()"; "worldMatrixEnabled()";
       "worldTransform()"])
  ].

Definition value_table_P_3 : list (string * list string) :=
  [
    ("QPainterPath", ["addEllipse(QPointF,qreal,qreal)"; "addEllipse(QRectF)";
       "addEllipse(qreal,qreal,qreal,qreal)"; "addPath(QPainterPath)"; "addPolygon(QPolygonF)";
       "addRect(QRectF)"; "addRect(qreal,qreal,qreal,qreal)"; "addRegion(QRegion)";
       "addRoundedRect(QRectF,qreal,qreal,Qt::SizeMode)";
       "addRoundedRect(qreal,qreal,qreal,qreal,qreal,qreal,Qt::SizeMode)"; "addText(QPointF,QFont,QString)";
       "addText(qreal,qreal,QFont,QString)"; "angleAtPercent(qreal)"; "arcMoveTo(QRectF,qreal)";
       "arcMoveTo(qreal,qreal,qreal,qreal,qreal)"; "arcTo(QRectF,qreal,qreal)";
       "arcTo(qreal,qreal,qreal,qreal,qreal,qreal)"; "boundingRect()"; "capacity()"; "clear()";
       "closeSubpath()"; "connectPath(QPainterPath)"; "contains(QPainterPath)"; "contains(QPointF)";
       "contains(QRectF)"; "controlPointRect()"; "cubicTo(QPointF,QPointF,QPointF)";
       "cubicTo(qreal,qreal,qreal,qreal,qreal,qreal)"; "currentPosition()"; "elementAt(int)";
       "elementCount()"; "fillRule()"; "intersected(QPainterPath)"; "intersects(QPainterPath)";
       "intersects(QRectF)"; "isCachingEnabled()"; "isEmpty()"; "length()"; "lineTo(QPointF)";
       "lineTo(qreal,qreal)"; "moveTo(QPointF)"; "moveTo(qreal,qreal)"; "percentAtLength(qreal)";
       "pointAtPercent(qreal)"; "quadTo(QPointF,QPointF)"; "quadTo(qreal,qreal,qreal,qreal)"; "reserve(int)";
       "setCachingEnabled(bool)"; "setElementPositionAt(int,qreal,qreal)"; "setFillRule(Qt::FillRule)";
       "simplified()"; "slopeAtPercent(qreal)"; "subtracted(QPainterPath)"; "swap(QPainterPath)";
       "toFillPolygon(QTransform)"; "toFillPolygons(QTransform)"; "toReversed()";
       "toSubpathPolygons(QTransform)"; "translate(QPointF)"; "translate(qreal,qreal)";
       "translated(QPointF)"; "translated(qreal,qreal)"; "trimmed(qreal,qreal,qreal)";
       "united(QPainterPath)"]);
    ("QPainterPathStroker", ["capStyle()"; "createStroke(QPainterPath)"; "curveThreshold()"; "dashOffset()";
       "dashPattern()"; "joinStyle()"; "miterLimit()"; "setCapStyle(Qt::PenCapStyle)";
       "setCurveThreshold(qreal)"; "setDashOffset(qreal)"; "setDashPattern(QList<qreal>)";
       "setDashPattern(Qt::PenStyle)"; "setJoinStyle(Qt::PenJoinStyle)"; "setMiterLimit(qreal)";
       "setWidth(qreal)"; "width()"]);
    ("QPainterStateGuard", ["restore()"; "save()"; "swap(QPainterStateGuard)"]);
    ("QPalette", ["accent()"; "alternateBase()"; "base()"; "brightText()";
       "brush(QPalette::ColorGroup,QPalette::ColorRole)"; "brush(QPalette::ColorRole)"; "button()";
       "buttonText()"; "cacheKey()"; "color(QPalette::ColorGroup,QPalette::ColorRole)";
       "color(QPalette::ColorRole)"; "currentColorGroup()"; "dark()"; "highlight()"; "highlightedText()";
       "isBrushSet(QPalette::ColorGroup,QPalette::ColorRole)"; "isCopyOf(QPalette)";
       "isEqual(QPalette::ColorGroup,QPalette::ColorGroup)"; "light()"; "link()"; "linkVisited()"; "mid()";
       "midlight()"; "placeholderText()"; "resolve(QPalette)";
       "setBrush(QPalette::ColorGroup,QPalette::ColorRole,QBrush)"; "setBrush(QPalette::ColorRole,QBrush)";
       "setColor(QPalette::ColorGroup,QPalette::ColorRole,QColor)"; "setColor(QPalette::ColorRole,QColor)";
       "setColorGroup(QPalette::ColorGroup,QBrush,QBrush,QBrush,QBrush,QBrush,QBrush,QBrush,QBrush,QBrush)";
       "setCurrentColorGroup(QPalette::ColorGroup)"; "shadow()"; "swap(QPalette)"; "text()"; "toolTipBase()";
       "toolTipText()"; "window()"; "windowText()"]);
    ("QPdfDocumentRenderOptions", ["rotation()"; "scaledClipRect()"; "scaledSize()";
       "setRotation(QPdfDocumentRenderOptions::Rotation)"; "setScaledClipRect(QRect)";
       "setScaledSize(QSize)"])
  ].

Definition value_table_P_4 : list (string * list string) :=
  [
    ("QPdfLink", ["contextAfter()"; "contextBefore()"; "copyToClipboard(QClipboard::Mode)"; "isValid()";
       "location()"; "page()"; "rectangles()"; "swap(QPdfLink)"; "toString()"; "url()"; "zoom()"]);
    ("QPdfOutputIntent", ["outputCondition()"; "outputConditionIdentifier()"; "outputProfile()";
       "registryName()"; "setOutputCondition(QString)"; "setOutputConditionIdentifier(QString)";
       "setOutputProfile(QColorSpace)"; "setRegistryName(QUrl)"; "swap(QPdfOutputIntent)"]);
    ("QPdfSelection", ["boundingRectangle()"; "bounds()"; "copyToClipboard(QClipboard::Mode)"; "endIndex()";
       "isValid()"; "startIndex()"; "swap(QPdfSelection)"; "text()"]);
    ("QPen", ["brush()"; "capStyle()"; "color()"; "dashOffset()"; "dashPattern()"; "isCosmetic()";
       "isSolid()"; "joinStyle()"; "miterLimit()"; "setBrush(QBrush)"; "setCapStyle(Qt::PenCapStyle)";
       "setColor(QColor)"; "setCosmetic(bool)"; "setDashOffset(qreal)"; "setDashPattern(QList<qreal>)";
       "setJoinStyle(Qt::PenJoinStyle)"; "setMiterLimit(qreal)"; "setStyle(Qt::PenStyle)"; "setWidth(int)";
       "setWidthF(qreal)"; "style()"; "swap(QPen)"; "width()"; "widthF()"]);
    ("QPermission", ["status()"; "type()"]);
    ("QPersistentModelIndex", ["column()"; "data(int)"; "isValid()"; "model()"; "parent()"; "row()";
       "sibling(int,int)"; "swap(QPersistentModelIndex)"]);
    ("QPicture", ["boundingRect()"; "detach()"; "devType()"; "isDetached()"; "isNull()"; "load(QIODevice*)";
       "load(QString)"; "save(QIODevice*)"; "save(QString)"; "setBoundingRect(QRect)"; "size()";
       "swap(QPicture)"]);
    ("QPixelFormat", ["alphaPosition()"; "alphaUsage()"; "byteOrder()"; "colorModel()"; "premultiplied()";
       "typeInterpretation()"; "yuvLayout()"]);
    ("QPixmap", ["cacheKey()"; "copy(QRect)"; "copy(int,int,int,int)"; "createHeuristicMask(bool)";
       "createMaskFromColor(QColor,Qt::MaskMode)"; "depth()"; "detach()"; "devType()";
       "deviceIndependentSize()"; "devicePixelRatio()"; "fill(QColor)"; "hasAlpha()"; "hasAlphaChannel()";
       "height()"; "isNull()"; "isQBitmap()"; "mask()"; "rect()";
       "scaled(QSize,Qt::AspectRatioMode,Qt::TransformationMode)";
       "scaled(int,int,Qt::AspectRatioMode,Qt::TransformationMode)";
       "scaledToHeight(int,Qt::TransformationMode)"; "scaledToWidth(int,Qt::TransformationMode)";
       "setDevicePixelRatio(qreal)"; "setMask(QBitmap)"; "size()"; "swap(QPixmap)"; "toImage()";
       "transformed(QTransform,Qt::TransformationMode)"; "width()"])
  ].

Definition value_table_P_5 : list (string * list string) :=
  [
    ("QPlatformSurfaceEvent", ["surfaceEventType()"]);
    ("QPlaybackOptions", ["playbackIntent()"; "probeSize()"; "resetNetworkTimeout()";
       "resetPlaybackIntent()"; "resetProbeSize()"; "setPlaybackIntent(QPlaybackOptions::PlaybackIntent)";
       "setProbeSize(qsizetype)"; "swap(QPlaybackOptions)"]);
    ("QPoint", ["isNull()"; "manhattanLength()"; "setX(int)"; "setY(int)"; "toPointF()"; "transposed()";
       "x()"; "y()"]);
    ("QPointF", ["isNull()"; "manhattanLength()"; "setX(qreal)"; "setY(qreal)"; "toPoint()"; "transposed()";
       "x()"; "y()"]);
    ("QPointerEvent", ["allPointsAccepted()"; "isBeginEvent()"; "isEndEvent()"; "isUpdateEvent()";
       "point(qsizetype)"; "pointCount()"; "pointerType()"; "pointingDevice()"; "points()";
       "setAccepted(bool)"]);
    ("QPointingDeviceUniqueId", ["isValid()"; "numericId()"]);
    ("QPolygon", ["append(QPoint)"; "at(int)"; "boundingRect()"; "clear()"; "contains(QPoint)";
       "containsPoint(QPoint,Qt::FillRule)"; "count()"; "count(QPoint)"; "fill(QPoint,int)"; "first()";
       "indexOf(QPoint,int)"; "insert(int,QPoint)"; "intersected(QPolygon)"; "intersects(QPolygon)";
       "isEmpty()"; "last()"; "lastIndexOf(QPoint,int)"; "mid(int,int)"; "point(int)"; "prepend(QPoint)";
       "putPoints(int,int,QPolygon,int)"; "remove(int)"; "remove(int,int)"; "replace(int,QPoint)";
       "resize(qsizetype)"; "setPoint(int,QPoint)"; "setPoint(int,int,int)"; "size()";
       "subtracted(QPolygon)"; "swap(QPolygon)"; "toPolygonF()"; "translate(QPoint)"; "translate(int,int)";
       "translated(QPoint)"; "translated(int,int)"; "united(QPolygon)"; "value(int)"; "value(int,QPoint)"]);
    ("QPolygonF", ["append(QPointF)"; "at(int)"; "boundingRect()"; "clear()"; "contains(QPointF)";
       "containsPoint(QPointF,Qt::FillRule)"; "count()"; "count(QPointF)"; "fill(QPointF,int)"; "first()";
       "indexOf(QPointF,int)"; "insert(int,QPointF)"; "intersected(QPolygonF)"; "intersects(QPolygonF)";
       "isClosed()"; "isEmpty()"; "last()"; "lastIndexOf(QPointF,int)"; "mid(int,int)"; "prepend(QPointF)";
       "remove(int)"; "remove(int,int)"; "replace(int,QPointF)"; "resize(qsizetype)"; "size()";
       "subtracted(QPolygonF)"; "swap(QPolygonF)"; "toPolygon()"; "translate(QPointF)";
       "translate(qreal,qreal)"; "translated(QPointF)"; "translated(qreal,qreal)"; "united(QPolygonF)";
       "value(int)"; "value(int,QPointF)"])
  ].

Definition value_table_P_6 : list (string * list string) :=
  [
    ("QPrinter", ["abort()"; "collateCopies()"; "colorMode()"; "copyCount()"; "creator()"; "docName()";
       "duplex()"; "fontEmbeddingEnabled()"; "fromPage()"; "fullPage()"; "isValid()"; "newPage()";
       "outputFileName()"; "outputFormat()"; "pageOrder()"; "pageRect(QPrinter::Unit)";
       "paperRect(QPrinter::Unit)"; "paperSource()"; "pdfVersion()"; "printProgram()"; "printRange()";
       "printerName()"; "printerState()"; "resolution()"; "setCollateCopies(bool)";
       "setColorMode(QPrinter::ColorMode)"; "setCopyCount(int)"; "setCreator(QString)";
       "setDocName(QString)"; "setDuplex(QPrinter::DuplexMode)"; "setFontEmbeddingEnabled(bool)";
       "setFromTo(int,int)"; "setFullPage(bool)"; "setOutputFileName(QString)";
       "setOutputFormat(QPrinter::OutputFormat)"; "setPageOrder(QPrinter::PageOrder)";
       "setPaperSource(QPrinter::PaperSource)"; "setPdfVersion(QPagedPaintDevice::PdfVersion)";
       "setPrintProgram(QString)"; "setPrintRange(QPrinter::PrintRange)"; "setPrinterName(QString)";
       "setResolution(int)"; "supportedResolutions()"; "supportsMultipleCopies()"; "toPage()"]);
    ("QPrinterInfo", ["defaultColorMode()"; "defaultDuplexMode()"; "defaultPageSize()"; "description()";
       "isDefault()"; "isNull()"; "isRemote()"; "location()"; "makeAndModel()"; "maximumPhysicalPageSize()";
       "minimumPhysicalPageSize()"; "printerName()"; "state()"; "supportedColorModes()";
       "supportedDuplexModes()"; "supportedPageSizes()"; "supportedResolutions()";
       "supportsCustomPageSizes()"]);
    ("QProcessEnvironment", ["clear()"; "contains(QString)"; "inheritsFromParent()";
       "insert(QProcessEnvironment)"; "insert(QString,QString)"; "isEmpty()"; "keys()"; "remove(QString)";
       "swap(QProcessEnvironment)"; "toStringList()"; "value(QString,QString)"])
  ].

Definition value_table_Q_1 : list (string * list string) :=
  [
    ("QQmlError", ["column()"; "description()"; "isValid()"; "line()"; "object()"; "setColumn(int)";
       "setDescription(QString)"; "setLine(int)"; "setObject(QObject*)"; "setUrl(QUrl)"; "swap(QQmlError)";
       "toString()"; "url()"]);
    ("QQmlIncubationController", ["engine()"; "incubateFor(int)"; "incubatingObjectCount()"]);
    ("QQmlIncubator", ["clear()"; "errors()"; "forceCompletion()"; "incubationMode()"; "isError()";
       "isLoading()"; "isNull()"; "isReady()"; "object()"; "status()"]);
    ("QQmlListReference", ["append(QObject*)"; "at(qsizetype)"; "canAppend()"; "canAt()"; "canClear()";
       "canCount()"; "canRemoveLast()"; "canReplace()"; "clear()"; "count()"; "isManipulable()";
       "isReadable()"; "isValid()"; "object()"; "removeLast()"; "replace(qsizetype,QObject*)"]);
    ("QQmlProperty", ["connectNotifySignal(QObject*,int)"; "hasNotifySignal()"; "index()"; "isBindable()";
       "isDesignable()"; "isProperty()"; "isResettable()"; "isSignalProperty()"; "isValid()"; "isWritable()";
       "method()"; "name()"; "needsNotifySignal()"; "object()"; "property()"; "propertyMetaType()";
       "propertyType()"; "propertyTypeCategory()"; "read()"; "reset()"; "swap(QQmlProperty)"; "type()";
       "write(QVariant)"]);
    ("QQmlScriptString", ["isEmpty()"; "isNullLiteral()"; "isUndefinedLiteral()"; "stringLiteral()"]);
    ("QQuaternion", ["conjugated()"; "inverted()"; "isIdentity()"; "isNull()"; "length()"; "lengthSquared()";
       "normalize()"; "normalized()"; "rotatedVector(QVector3D)"; "scalar()"; "setScalar(float)";
       "setVector(QVector3D)"; "setVector(float,float,float)"; "setX(float)"; "setY(float)"; "setZ(float)";
       "toAxes()"; "toEulerAngles()"; "toRotationMatrix()"; "toVector4D()"; "vector()"; "x()"; "y()"; "z()"]);
    ("QQuickGraphicsConfiguration", ["isAutomaticPipelineCacheEnabled()"; "isDebugLayerEnabled()";
       "isDebugMarkersEnabled()"; "isDepthBufferEnabledFor2D()"; "pipelineCacheLoadFile()";
       "pipelineCacheSaveFile()"; "prefersSoftwareDevice()"; "setAutomaticPipelineCache(bool)";
       "setDebugLayer(bool)"; "setDebugMarkers(bool)"; "setDepthBufferFor2D(bool)";
       "setPipelineCacheLoadFile(QString)"; "setPipelineCacheSaveFile(QString)";
       "setPreferSoftwareDevice(bool)"; "setTimestamps(bool)"; "timestampsEnabled()"]);
    ("QQuickGraphicsDevice", ["isNull()"])
  ].

Definition value_table_Q_2 : list (string * list string) :=
  [
    ("QQuickRenderTarget", ["devicePixelRatio()"; "isNull()"; "mirrorVertically()";
       "setDevicePixelRatio(qreal)"; "setMirrorVertically(bool)"])
  ].

Definition value_table_R_1 : list (string * list string) :=
  [
    ("QRadialGradient", ["center()"; "centerRadius()"; "focalPoint()"; "focalRadius()"; "radius()";
       "setCenter(QPointF)"; "setCenter(qreal,qreal)"; "setCenterRadius(qreal)"; "setFocalPoint(QPointF)";
       "setFocalPoint(qreal,qreal)"; "setFocalRadius(qreal)"; "setRadius(qreal)"]);
    ("QRandomGenerator", ["bounded(double)"; "bounded(qint64)"; "bounded(qint64,qint64)"; "discard(quint64)";
       "generate64()"; "generateDouble()"]);
    ("QRawFont", ["advancesForGlyphIndexes(QList<unsigned int>)"; "ascent()"; "averageCharWidth()";
       "capHeight()"; "descent()"; "familyName()"; "fontTable(QFont::Tag)"; "glyphIndexesForString(QString)";
       "hintingPreference()"; "isValid()"; "leading()"; "lineThickness()";
       "loadFromData(QByteArray,qreal,QFont::HintingPreference)";
       "loadFromFile(QString,qreal,QFont::HintingPreference)"; "maxCharWidth()"; "pixelSize()";
       "setPixelSize(qreal)"; "style()"; "styleName()"; "supportedWritingSystems()";
       "supportsCharacter(unsigned int)"; "swap(QRawFont)"; "underlinePosition()"; "unitsPerEm()";
       "weight()"; "xHeight()"]);
    ("QRayCasterHit", ["distance()"; "entity()"; "localIntersection()"; "primitiveIndex()"; "type()";
       "vertex1Index()"; "vertex2Index()"; "vertex3Index()"; "worldIntersection()"]);
    ("QReadLocker", ["relock()"; "unlock()"]);
    ("QReadWriteLock", ["lockForRead()"; "lockForWrite()"; "tryLockForRead(QDeadlineTimer)";
       "tryLockForRead(int)"; "tryLockForWrite(QDeadlineTimer)"; "tryLockForWrite(int)"; "unlock()"])
  ].

Definition value_table_R_2 : list (string * list string) :=
  [
    ("QRect", ["adjust(int,int,int,int)"; "adjusted(int,int,int,int)"; "bottom()"; "bottomLeft()";
       "bottomRight()"; "center()"; "contains(QPoint,bool)"; "contains(QRect,bool)"; "contains(int,int)";
       "contains(int,int,bool)"; "height()"; "intersected(QRect)"; "intersects(QRect)"; "isEmpty()";
       "isNull()"; "isValid()"; "left()"; "marginsAdded(QMargins)"; "marginsRemoved(QMargins)";
       "moveBottom(int)"; "moveBottomLeft(QPoint)"; "moveBottomRight(QPoint)"; "moveCenter(QPoint)";
       "moveLeft(int)"; "moveRight(int)"; "moveTo(QPoint)"; "moveTo(int,int)"; "moveTop(int)";
       "moveTopLeft(QPoint)"; "moveTopRight(QPoint)"; "normalized()"; "right()"; "setBottom(int)";
       "setBottomLeft(QPoint)"; "setBottomRight(QPoint)"; "setCoords(int,int,int,int)"; "setHeight(int)";
       "setLeft(int)"; "setRect(int,int,int,int)"; "setRight(int)"; "setSize(QSize)"; "setTop(int)";
       "setTopLeft(QPoint)"; "setTopRight(QPoint)"; "setWidth(int)"; "setX(int)"; "setY(int)"; "size()";
       "toRectF()"; "top()"; "topLeft()"; "topRight()"; "translate(QPoint)"; "translate(int,int)";
       "translated(QPoint)"; "translated(int,int)"; "transposed()"; "united(QRect)"; "width()"; "x()"; "y()"]);
    ("QRectF", ["adjust(qreal,qreal,qreal,qreal)"; "adjusted(qreal,qreal,qreal,qreal)"; "bottom()";
       "bottomLeft()"; "bottomRight()"; "center()"; "contains(QPointF)"; "contains(QRectF)";
       "contains(qreal,qreal)"; "height()"; "intersected(QRectF)"; "intersects(QRectF)"; "isEmpty()";
       "isNull()"; "isValid()"; "left()"; "marginsAdded(QMarginsF)"; "marginsRemoved(QMarginsF)";
       "moveBottom(qreal)"; "moveBottomLeft(QPointF)"; "moveBottomRight(QPointF)"; "moveCenter(QPointF)";
       "moveLeft(qreal)"; "moveRight(qreal)"; "moveTo(QPointF)"; "moveTo(qreal,qreal)"; "moveTop(qreal)";
       "moveTopLeft(QPointF)"; "moveTopRight(QPointF)"; "normalized()"; "right()"; "setBottom(qreal)";
       "setBottomLeft(QPointF)"; "setBottomRight(QPointF)"; "setCoords(qreal,qreal,qreal,qreal)";
       "setHeight(qreal)"; "setLeft(qreal)"; "setRect(qreal,qreal,qreal,qreal)"; "setRight(qreal)";
       "setSize(QSizeF)"; "setTop(qreal)"; "setTopLeft(QPointF)"; "setTopRight(QPointF)"; "setWidth(qreal)";
       "setX(qreal)"; "setY(qreal)"; "size()"; "toAlignedRect()"; "toRect()"; "top()"; "topLeft()";
       "topRight()"; "translate(QPointF)"; "translate(qreal,qreal)"; "translated(QPointF)";
       "translated(qreal,qreal)"; "transposed()"; "united(QRectF)"; "width()"; "x()"; "y()"]);
    ("QRecursiveMutex", ["lock()"; "tryLock(int)"; "unlock()"])
  ].

Definition value_table_R_3 : list (string * list string) :=
  [
    ("QRegion", ["boundingRect()"; "contains(QPoint)"; "contains(QRect)"; "intersected(QRect)";
       "intersected(QRegion)"; "intersects(QRect)"; "intersects(QRegion)"; "isEmpty()"; "isNull()";
       "rectCount()"; "subtracted(QRegion)"; "swap(QRegion)"; "translate(QPoint)"; "translate(int,int)";
       "translated(QPoint)"; "translated(int,int)"; "united(QRect)"; "united(QRegion)"; "xored(QRegion)"]);
    ("QRegularExpression", ["captureCount()"; "errorString()"; "isValid()"; "namedCaptureGroups()";
       "optimize()"; "pattern()"; "patternErrorOffset()"; "setPattern(QString)"; "swap(QRegularExpression)"]);
    ("QRegularExpressionMatch", ["captured(int)"; "capturedEnd(int)"; "capturedLength(int)";
       "capturedStart(int)"; "capturedTexts()"; "hasCaptured(int)"; "hasMatch()"; "hasPartialMatch()";
       "isValid()"; "lastCapturedIndex()"; "matchType()"; "regularExpression()";
       "swap(QRegularExpressionMatch)"]);
    ("QRegularExpressionMatchIterator", ["hasNext()"; "isValid()"; "matchType()"; "next()"; "peekNext()";
       "regularExpression()"; "swap(QRegularExpressionMatchIterator)"]);
    ("QResizeEvent", ["oldSize()"; "size()"]);
    ("QResource", ["absoluteFilePath()"; "compressionAlgorithm()"; "fileName()"; "isValid()";
       "lastModified()"; "locale()"; "setFileName(QString)"; "setLocale(QLocale)"; "size()";
       "uncompressedData()"; "uncompressedSize()"]);
    ("QRestReply", ["error()"; "errorString()"; "hasError()"; "httpStatus()"; "isHttpStatusSuccess()";
       "isSuccess()"; "networkReply()"; "readBody()"; "readText()"; "swap(QRestReply)"]);
    ("QRgba64", ["isOpaque()"; "isTransparent()"; "premultiplied()"; "toArgb32()"; "unpremultiplied()"]);
    ("QRunnable", ["autoDelete()"; "setAutoDelete(bool)"])
  ].

Definition value_table_S_1 : list (string * list string) :=
  [
    ("QSGClipNode", ["clipRect()"; "isRectangular()"; "setClipRect(QRectF)"; "setIsRectangular(bool)"]);
    ("QSGFlatColorMaterial", ["color()"; "setColor(QColor)"]);
    ("QSGGeometry", ["allocate(int,int)"; "attributeCount()"; "drawingMode()"; "indexCount()";
       "indexDataPattern()"; "indexType()"; "lineWidth()"; "markIndexDataDirty()"; "markVertexDataDirty()";
       "setDrawingMode(unsigned int)"; "setIndexCount(int)"; "setIndexDataPattern(QSGGeometry::DataPattern)";
       "setLineWidth(float)"; "setVertexCount(int)"; "setVertexDataPattern(QSGGeometry::DataPattern)";
       "sizeOfIndex()"; "sizeOfVertex()"; "vertexCount()"; "vertexDataPattern()"]);
    ("QSGImageNode", ["setRect(qreal,qreal,qreal,qreal)"; "setSourceRect(qreal,qreal,qreal,qreal)"]);
    ("QSGMaterial", ["flags()"; "setFlag(QSGMaterial::Flags,bool)"; "viewCount()"]);
    ("QSGMaterialShader", ["combinedImageSamplerCount(int)"; "flags()";
       "setFlag(QSGMaterialShader::Flags,bool)"; "setFlags(QSGMaterialShader::Flags)"]);
    ("QSGNode", ["childCount()"; "flags()"; "isSubtreeBlocked()"; "preprocess()"; "removeAllChildNodes()";
       "setFlags(QSGNode::Flags,bool)"; "type()"]);
    ("QSGOpacityNode", ["opacity()"; "setOpacity(qreal)"]);
    ("QSGOpaqueTextureMaterial", ["anisotropyLevel()"; "filtering()"; "horizontalWrapMode()";
       "mipmapFiltering()"; "setAnisotropyLevel(QSGTexture::AnisotropyLevel)";
       "setFiltering(QSGTexture::Filtering)"; "setHorizontalWrapMode(QSGTexture::WrapMode)";
       "setMipmapFiltering(QSGTexture::Filtering)"; "setTexture(QSGTexture*)";
       "setVerticalWrapMode(QSGTexture::WrapMode)"; "texture()"; "verticalWrapMode()"]);
    ("QSGRectangleNode", ["setRect(qreal,qreal,qreal,qreal)"]);
    ("QSGRenderNode", ["inheritedOpacity()"; "prepare()"; "rect()"; "releaseResources()"]);
    ("QSGSimpleRectNode", ["color()"; "rect()"; "setColor(QColor)"; "setRect(QRectF)";
       "setRect(qreal,qreal,qreal,qreal)"]);
    ("QSGSimpleTextureNode", ["filtering()"; "ownsTexture()"; "rect()";
       "setFiltering(QSGTexture::Filtering)"; "setOwnsTexture(bool)"; "setRect(QRectF)";
       "setRect(qreal,qreal,qreal,qreal)"; "setSourceRect(QRectF)"; "setSourceRect(qreal,qreal,qreal,qreal)";
       "setTexture(QSGTexture*)"; "sourceRect()"; "texture()"]);
    ("QSGTextNode", ["addTextDocument(QPointF,QTextDocument*,int,int)"]);
    ("QSGTransformNode", ["matrix()"; "setMatrix(QMatrix4x4)"]);
    ("QScrollEvent", ["contentPos()"; "overshootDistance()"; "scrollState()"])
  ].

Definition value_table_S_2 : list (string * list string) :=
  [
    ("QScrollPrepareEvent", ["contentPos()"; "contentPosRange()"; "setContentPos(QPointF)";
       "setContentPosRange(QRectF)"; "setViewportSize(QSizeF)"; "startPos()"; "viewportSize()"]);
    ("QScrollerProperties", ["scrollMetric(QScrollerProperties::ScrollMetric)";
       "setScrollMetric(QScrollerProperties::ScrollMetric,QVariant)"]);
    ("QSemaphore", ["acquire(int)"; "available()"; "release(int)"; "tryAcquire(int)";
       "tryAcquire(int,QDeadlineTimer)"; "tryAcquire(int,int)"]);
    ("QSemaphoreReleaser", ["swap(QSemaphoreReleaser)"]);
    ("QSerialPortInfo", ["description()"; "hasProductIdentifier()"; "hasVendorIdentifier()"; "isNull()";
       "manufacturer()"; "portName()"; "serialNumber()"; "swap(QSerialPortInfo)"; "systemLocation()"]);
    ("QShortcutEvent", ["isAmbiguous()"; "key()"; "shortcutId()"]);
    ("QSignalBlocker", ["dismiss()"; "reblock()"; "unblock()"]);
    ("QSignalSpy", ["isValid()"; "signal()"; "wait(int)"]);
    ("QSinglePointEvent", ["button()"; "buttons()"; "exclusivePointGrabber()"; "globalPosition()";
       "isBeginEvent()"; "isEndEvent()"; "isUpdateEvent()"; "position()"; "scenePosition()";
       "setExclusivePointGrabber(QObject*)"]);
    ("QSize", ["boundedTo(QSize)"; "expandedTo(QSize)"; "grownBy(QMargins)"; "height()"; "isEmpty()";
       "isNull()"; "isValid()"; "scale(QSize,Qt::AspectRatioMode)"; "scale(int,int,Qt::AspectRatioMode)";
       "scaled(QSize,Qt::AspectRatioMode)"; "scaled(int,int,Qt::AspectRatioMode)"; "setHeight(int)";
       "setWidth(int)"; "shrunkBy(QMargins)"; "toSizeF()"; "transpose()"; "transposed()"; "width()"]);
    ("QSizeF", ["boundedTo(QSizeF)"; "expandedTo(QSizeF)"; "grownBy(QMarginsF)"; "height()"; "isEmpty()";
       "isNull()"; "isValid()"; "scale(QSizeF,Qt::AspectRatioMode)";
       "scale(qreal,qreal,Qt::AspectRatioMode)"; "scaled(QSizeF,Qt::AspectRatioMode)";
       "scaled(qreal,qreal,Qt::AspectRatioMode)"; "setHeight(qreal)"; "setWidth(qreal)";
       "shrunkBy(QMarginsF)"; "toSize()"; "transpose()"; "transposed()"; "width()"]);
    ("QSizePolicy", ["controlType()"; "expandingDirections()"; "hasHeightForWidth()"; "hasWidthForHeight()";
       "horizontalPolicy()"; "horizontalStretch()"; "retainSizeWhenHidden()";
       "setControlType(QSizePolicy::ControlType)"; "setHeightForWidth(bool)";
       "setHorizontalPolicy(QSizePolicy::Policy)"; "setHorizontalStretch(int)";
       "setRetainSizeWhenHidden(bool)"; "setVerticalPolicy(QSizePolicy::Policy)"; "setVerticalStretch(int)";
       "setWidthForHeight(bool)"; "transpose()"; "transposed()"; "verticalPolicy()"; "verticalStretch()"])
  ].

Definition value_table_S_3 : list (string * list string) :=
  [
    ("QSpacerItem", ["changeSize(int,int,QSizePolicy::Policy,QSizePolicy::Policy)"; "expandingDirections()";
       "geometry()"; "isEmpty()"; "maximumSize()"; "minimumSize()"; "setGeometry(QRect)"; "sizeHint()";
       "sizePolicy()"]);
    ("QSqlDatabase", ["close()"; "commit()"; "connectOptions()"; "connectionName()"; "databaseName()";
       "driver()"; "driverName()"; "exec(QString)"; "hostName()"; "isOpen()"; "isOpenError()"; "isValid()";
       "lastError()"; "moveToThread(QThread*)"; "open()"; "open(QString,QString)"; "password()"; "port()";
       "primaryIndex(QString)"; "record(QString)"; "rollback()"; "setConnectOptions(QString)";
       "setDatabaseName(QString)"; "setHostName(QString)"; "setPassword(QString)"; "setPort(int)";
       "setUserName(QString)"; "thread()"; "transaction()"; "userName()"]);
    ("QSqlError", ["databaseText()"; "driverText()"; "isValid()"; "nativeErrorCode()"; "swap(QSqlError)";
       "text()"; "type()"]);
    ("QSqlField", ["clear()"; "defaultValue()"; "isAutoValue()"; "isGenerated()"; "isNull()"; "isReadOnly()";
       "isValid()"; "length()"; "metaType()"; "name()"; "precision()"; "requiredStatus()";
       "setAutoValue(bool)"; "setDefaultValue(QVariant)"; "setGenerated(bool)"; "setLength(int)";
       "setMetaType(QMetaType)"; "setName(QString)"; "setPrecision(int)"; "setReadOnly(bool)";
       "setRequired(bool)"; "setRequiredStatus(QSqlField::RequiredStatus)"; "setSqlType(int)";
       "setTableName(QString)"; "setValue(QVariant)"; "swap(QSqlField)"; "tableName()"; "typeID()";
       "value()"]);
    ("QSqlIndex", ["append(QSqlField)"; "append(QSqlField,bool)"; "cursorName()"; "isDescending(int)";
       "name()"; "setCursorName(QString)"; "setDescending(int,bool)"; "setName(QString)"; "swap(QSqlIndex)"]);
    ("QSqlQuery", ["at()"; "boundValue(QString)"; "boundValue(int)"; "boundValueName(int)";
       "boundValueNames()"; "clear()"; "driver()"; "exec()"; "exec(QString)";
       "execBatch(QSqlQuery::BatchExecutionMode)"; "executedQuery()"; "finish()"; "first()"; "isActive()";
       "isForwardOnly()"; "isNull(int)"; "isPositionalBindingEnabled()"; "isSelect()"; "isValid()"; "last()";
       "lastError()"; "lastInsertId()"; "lastQuery()"; "next()"; "nextResult()"; "numRowsAffected()";
       "prepare(QString)"; "previous()"; "record()"; "seek(int,bool)"; "setForwardOnly(bool)";
       "setPositionalBindingEnabled(bool)"; "size()"; "swap(QSqlQuery)"; "value(int)"])
  ].

Definition value_table_S_4 : list (string * list string) :=
  [
    ("QSqlRecord", ["append(QSqlField)"; "clear()"; "clearValues()"; "count()"; "field(int)";
       "fieldName(int)"; "insert(int,QSqlField)"; "isEmpty()"; "isGenerated(int)"; "isNull(int)";
       "keyValues(QSqlRecord)"; "remove(int)"; "replace(int,QSqlField)"; "setGenerated(int,bool)";
       "setNull(int)"; "setValue(int,QVariant)"; "swap(QSqlRecord)"; "value(int)"]);
    ("QSqlRelation", ["displayColumn()"; "indexColumn()"; "isValid()"; "swap(QSqlRelation)"; "tableName()"]);
    ("QSqlResult", ["handle()"]);
    ("QSslCertificate", ["clear()"; "digest(QCryptographicHash::Algorithm)"; "effectiveDate()";
       "expiryDate()"; "extensions()"; "isBlacklisted()"; "isNull()"; "isSelfSigned()";
       "issuerDisplayName()"; "issuerInfo(QByteArray)"; "issuerInfo(QSslCertificate::SubjectInfo)";
       "issuerInfoAttributes()"; "publicKey()"; "serialNumber()"; "subjectDisplayName()";
       "subjectInfo(QByteArray)"; "subjectInfo(QSslCertificate::SubjectInfo)"; "subjectInfoAttributes()";
       "swap(QSslCertificate)"; "toDer()"; "toPem()"; "toText()"; "version()"]);
    ("QSslCertificateExtension", ["isCritical()"; "isSupported()"; "name()"; "oid()";
       "swap(QSslCertificateExtension)"; "value()"]);
    ("QSslCipher", ["authenticationMethod()"; "encryptionMethod()"; "isNull()"; "keyExchangeMethod()";
       "name()"; "protocolString()"; "supportedBits()"; "swap(QSslCipher)"; "usedBits()"]);
    ("QSslConfiguration", ["addCaCertificate(QSslCertificate)"; "addCaCertificates(QList<QSslCertificate>)";
       "allowedNextProtocols()"; "caCertificates()"; "ciphers()"; "diffieHellmanParameters()";
       "dtlsCookieVerificationEnabled()"; "ellipticCurves()"; "ephemeralServerKey()";
       "handshakeMustInterruptOnError()"; "isNull()"; "localCertificate()"; "localCertificateChain()";
       "missingCertificateIsFatal()"; "nextNegotiatedProtocol()"; "nextProtocolNegotiationStatus()";
       "ocspStaplingEnabled()"; "peerCertificate()"; "peerCertificateChain()"; "peerVerifyDepth()";
       "peerVerifyMode()"; "preSharedKeyIdentityHint()"; "privateKey()"; "sessionCipher()";
       "sessionTicket()"; "sessionTicketLifeTimeHint()"; "setAllowedNextProtocols(QList<QByteArray>)";
       "setBackendConfigurationOption(QByteArray,QVariant)"; "setCaCertificates(QList<QSslCertificate>)";
       "setCiphers(QList<QSslCipher>)"; "setCiphers(QString)";
       "setDiffieHellmanParameters(QSslDiffieHellmanParameters)"; "setDtlsCookieVerificationEnabled(bool)";
       "setEllipticCurves(QList<QSslEllipticCurve>)"; "setHandshakeMustInterruptOnError(bool)";
       "setLocalCertificate(QSslCertificate)"; "setLocalCertificateChain(QList<QSslCertificate>)";
       "setMissingCertificateIsFatal(bool)"; "setOcspStaplingEnabled(bool)"; "setPeerVerifyDepth(int)";
       "setPeerVerifyMode(QSslSocket::PeerVerifyMode)"; "setPreSharedKeyIdentityHint(QByteArray)";
       "setPrivateKey(QSslKey)"; "setSessionTicket(QByteArray)"; "swap(QSslConfiguration)"]);
    ("QSslDiffieHellmanParameters", ["error()"; "errorString()"; "isEmpty()"; "isValid()";
       "swap(QSslDiffieHellmanParameters)"])
  ].

Definition value_table_S_5 : list (string * list string) :=
  [
    ("QSslEllipticCurve", ["isTlsNamedCurve()"; "isValid()"; "longName()"; "shortName()"]);
    ("QSslError", ["certificate()"; "error()"; "errorString()"; "swap(QSslError)"]);
    ("QSslKey", ["clear()"; "isNull()"; "length()"; "swap(QSslKey)"; "toDer(QByteArray)";
       "toPem(QByteArray)"]);
    ("QSslPreSharedKeyAuthenticator", ["identity()"; "identityHint()"; "maximumIdentityLength()";
       "maximumPreSharedKeyLength()"; "preSharedKey()"; "setIdentity(QByteArray)";
       "setPreSharedKey(QByteArray)"; "swap(QSslPreSharedKeyAuthenticator)"]);
    ("QStandardItem", ["accessibleDescription()"; "accessibleText()"; "background()"; "checkState()";
       "clearData()"; "column()"; "columnCount()"; "data(int)"; "font()"; "foreground()"; "hasChildren()";
       "icon()"; "index()"; "insertColumns(int,int)"; "insertRows(int,int)"; "isAutoTristate()";
       "isCheckable()"; "isDragEnabled()"; "isDropEnabled()"; "isEditable()"; "isEnabled()";
       "isSelectable()"; "isUserTristate()"; "model()"; "read(QDataStream)"; "removeColumn(int)";
       "removeColumns(int,int)"; "removeRow(int)"; "removeRows(int,int)"; "row()"; "rowCount()";
       "setAccessibleDescription(QString)"; "setAccessibleText(QString)"; "setAutoTristate(bool)";
       "setBackground(QBrush)"; "setCheckState(Qt::CheckState)"; "setCheckable(bool)"; "setColumnCount(int)";
       "setData(QVariant,int)"; "setDragEnabled(bool)"; "setDropEnabled(bool)"; "setEditable(bool)";
       "setEnabled(bool)"; "setFont(QFont)"; "setForeground(QBrush)"; "setIcon(QIcon)"; "setRowCount(int)";
       "setSelectable(bool)"; "setSizeHint(QSize)"; "setStatusTip(QString)"; "setText(QString)";
       "setToolTip(QString)"; "setUserTristate(bool)"; "setWhatsThis(QString)"; "sizeHint()";
       "sortChildren(int,Qt::SortOrder)"; "statusTip()"; "text()"; "toolTip()"; "type()"; "whatsThis()";
       "write(QDataStream)"]);
    ("QStaticText", ["performanceHint()"; "prepare(QTransform,QFont)";
       "setPerformanceHint(QStaticText::PerformanceHint)"; "setText(QString)";
       "setTextFormat(Qt::TextFormat)"; "setTextOption(QTextOption)"; "setTextWidth(qreal)"; "size()";
       "swap(QStaticText)"; "text()"; "textFormat()"; "textOption()"; "textWidth()"]);
    ("QStatusTipEvent", ["tip()"]);
    ("QStorageInfo", ["blockSize()"; "bytesAvailable()"; "bytesFree()"; "bytesTotal()"; "device()";
       "displayName()"; "fileSystemType()"; "isReadOnly()"; "isReady()"; "isRoot()"; "isValid()"; "name()";
       "refresh()"; "rootPath()"; "setPath(QString)"; "subvolume()"; "swap(QStorageInfo)"])
  ].

Definition value_table_S_6 : list (string * list string) :=
  [
    ("QStringConverter", ["hasError()"; "isValid()"; "resetState()"]);
    ("QStyleOption", ["initFrom(QWidget*)"]);
    ("QStylePainter", ["begin(QWidget*)"; "drawComplexControl(QStyle::ComplexControl,QStyleOptionComplex)";
       "drawControl(QStyle::ControlElement,QStyleOption)"; "drawItemPixmap(QRect,int,QPixmap)";
       "drawItemText(QRect,int,QPalette,bool,QString,QPalette::ColorRole)";
       "drawPrimitive(QStyle::PrimitiveElement,QStyleOption)"; "style()"]);
    ("QSurface", ["supportsOpenGL()"; "surfaceClass()"]);
    ("QSurfaceFormat", ["alphaBufferSize()"; "blueBufferSize()"; "colorSpace()"; "depthBufferSize()";
       "greenBufferSize()"; "hasAlpha()"; "majorVersion()"; "minorVersion()"; "options()"; "profile()";
       "redBufferSize()"; "renderableType()"; "samples()"; "setAlphaBufferSize(int)";
       "setBlueBufferSize(int)"; "setColorSpace(QColorSpace)"; "setDepthBufferSize(int)";
       "setGreenBufferSize(int)"; "setMajorVersion(int)"; "setMinorVersion(int)";
       "setOption(QSurfaceFormat::FormatOption,bool)"; "setOptions(QSurfaceFormat::FormatOptions)";
       "setProfile(QSurfaceFormat::OpenGLContextProfile)"; "setRedBufferSize(int)";
       "setRenderableType(QSurfaceFormat::RenderableType)"; "setSamples(int)"; "setStencilBufferSize(int)";
       "setStereo(bool)"; "setSwapBehavior(QSurfaceFormat::SwapBehavior)"; "setSwapInterval(int)";
       "setVersion(int,int)"; "stencilBufferSize()"; "stereo()"; "swapBehavior()"; "swapInterval()";
       "testOption(QSurfaceFormat::FormatOption)"]);
    ("QSvgGenerator", ["description()"; "fileName()"; "outputDevice()"; "resolution()";
       "setDescription(QString)"; "setFileName(QString)"; "setOutputDevice(QIODevice*)";
       "setResolution(int)"; "setSize(QSize)"; "setTitle(QString)"; "setViewBox(QRect)";
       "setViewBox(QRectF)"; "size()"; "svgVersion()"; "title()"; "viewBox()"; "viewBoxF()"]);
    ("QSystemSemaphore", ["acquire()"; "error()"; "errorString()"; "key()"; "nativeIpcKey()"; "release(int)";
       "setKey(QString,int,QSystemSemaphore::AccessMode)";
       "setNativeKey(QNativeIpcKey,int,QSystemSemaphore::AccessMode)";
       "setNativeKey(QString,int,QSystemSemaphore::AccessMode,QNativeIpcKey::Type)"])
  ].

Definition value_table_T_1 : list (string * list string) :=
  [
    ("QTableWidgetItem", ["background()"; "checkState()"; "column()"; "data(int)"; "font()"; "foreground()";
       "icon()"; "isSelected()"; "read(QDataStream)"; "row()"; "setBackground(QBrush)";
       "setCheckState(Qt::CheckState)"; "setData(int,QVariant)"; "setFont(QFont)"; "setForeground(QBrush)";
       "setIcon(QIcon)"; "setSelected(bool)"; "setSizeHint(QSize)"; "setStatusTip(QString)";
       "setText(QString)"; "setTextAlignment(int)"; "setToolTip(QString)"; "setWhatsThis(QString)";
       "sizeHint()"; "statusTip()"; "tableWidget()"; "text()"; "textAlignment()"; "toolTip()"; "type()";
       "whatsThis()"; "write(QDataStream)"]);
    ("QTableWidgetSelectionRange", ["bottomRow()"; "columnCount()"; "leftColumn()"; "rightColumn()";
       "rowCount()"; "topRow()"]);
    ("QTabletEvent", ["pressure()"; "rotation()"; "tangentialPressure()"; "xTilt()"; "yTilt()"; "z()"]);
    ("QTemporaryDir", ["autoRemove()"; "errorString()"; "filePath(QString)"; "isValid()"; "path()";
       "remove()"; "setAutoRemove(bool)"; "swap(QTemporaryDir)"]);
    ("QTextBlock", ["begin()"; "blockFormat()"; "blockFormatIndex()"; "blockNumber()"; "charFormat()";
       "charFormatIndex()"; "clearLayout()"; "contains(int)"; "document()"; "end()"; "firstLineNumber()";
       "isValid()"; "isVisible()"; "length()"; "lineCount()"; "next()"; "position()"; "previous()";
       "revision()"; "setLineCount(int)"; "setRevision(int)"; "setUserState(int)"; "setVisible(bool)";
       "text()"; "textDirection()"; "textList()"; "userState()"]);
    ("QTextBlockFormat", ["bottomMargin()"; "headingLevel()"; "indent()"; "isValid()"; "leftMargin()";
       "lineHeight()"; "lineHeight(qreal,qreal)"; "lineHeightType()"; "marker()"; "nonBreakableLines()";
       "rightMargin()"; "setBottomMargin(qreal)"; "setHeadingLevel(int)"; "setIndent(int)";
       "setLeftMargin(qreal)"; "setLineHeight(qreal,int)"; "setMarker(QTextBlockFormat::MarkerType)";
       "setNonBreakableLines(bool)"; "setRightMargin(qreal)"; "setTextIndent(qreal)"; "setTopMargin(qreal)";
       "textIndent()"; "topMargin()"]);
    ("QTextBoundaryFinder", ["isAtBoundary()"; "isValid()"; "position()"; "setPosition(qsizetype)";
       "string()"; "swap(QTextBoundaryFinder)"; "toEnd()"; "toNextBoundary()"; "toPreviousBoundary()";
       "toStart()"; "type()"])
  ].

Definition value_table_T_2 : list (string * list string) :=
  [
    ("QTextCharFormat", ["anchorHref()"; "anchorNames()"; "baselineOffset()"; "font()";
       "fontCapitalization()"; "fontFamilies()"; "fontFamily()"; "fontFixedPitch()";
       "fontHintingPreference()"; "fontItalic()"; "fontKerning()"; "fontLetterSpacing()";
       "fontLetterSpacingType()"; "fontOverline()"; "fontPointSize()"; "fontStretch()"; "fontStrikeOut()";
       "fontStyleHint()"; "fontStyleName()"; "fontStyleStrategy()"; "fontUnderline()"; "fontWeight()";
       "fontWordSpacing()"; "isAnchor()"; "isValid()"; "setAnchor(bool)"; "setAnchorHref(QString)";
       "setAnchorNames(QStringList)"; "setBaselineOffset(qreal)";
       "setFont(QFont,QTextCharFormat::FontPropertiesInheritanceBehavior)";
       "setFontCapitalization(QFont::Capitalization)"; "setFontFamilies(QStringList)";
       "setFontFamily(QString)"; "setFontFixedPitch(bool)";
       "setFontHintingPreference(QFont::HintingPreference)"; "setFontItalic(bool)"; "setFontKerning(bool)";
       "setFontLetterSpacing(qreal)"; "setFontLetterSpacingType(QFont::SpacingType)";
       "setFontOverline(bool)"; "setFontPointSize(qreal)"; "setFontStretch(int)"; "setFontStrikeOut(bool)";
       "setFontStyleHint(QFont::StyleHint,QFont::StyleStrategy)"; "setFontStyleName(QString)";
       "setFontStyleStrategy(QFont::StyleStrategy)"; "setFontUnderline(bool)"; "setFontWeight(int)";
       "setFontWordSpacing(qreal)"; "setSubScriptBaseline(qreal)"; "setSuperScriptBaseline(qreal)";
       "setTableCellColumnSpan(int)"; "setTableCellRowSpan(int)"; "setTextOutline(QPen)";
       "setToolTip(QString)"; "setUnderlineColor(QColor)";
       "setUnderlineStyle(QTextCharFormat::UnderlineStyle)";
       "setVerticalAlignment(QTextCharFormat::VerticalAlignment)"; "subScriptBaseline()";
       "superScriptBaseline()"; "tableCellColumnSpan()"; "tableCellRowSpan()"; "textOutline()"; "toolTip()";
       "underlineColor()"; "underlineStyle()"; "verticalAlignment()"]);
    ("QTextCursor", ["anchor()"; "atBlockEnd()"; "atBlockStart()"; "atEnd()"; "atStart()";
       "beginEditBlock()"; "block()"; "blockCharFormat()"; "blockFormat()"; "blockNumber()"; "charFormat()";
       "clearSelection()"; "columnNumber()"; "createList(QTextListFormat)";
       "createList(QTextListFormat::Style)"; "currentFrame()"; "currentList()"; "currentTable()";
       "deleteChar()"; "deletePreviousChar()"; "document()"; "endEditBlock()"; "hasComplexSelection()";
       "hasSelection()"; "insertBlock()"; "insertBlock(QTextBlockFormat)";
       "insertBlock(QTextBlockFormat,QTextCharFormat)"; "insertFragment(QTextDocumentFragment)";
       "insertFrame(QTextFrameFormat)"; "insertHtml(QString)"; "insertImage(QImage,QString)";
       "insertImage(QString)"; "insertImage(QTextImageFormat)";
       "insertImage(QTextImageFormat,QTextFrameFormat::Position)"; "insertList(QTextListFormat)";
       "insertList(QTextListFormat::Style)"; "insertTable(int,int)"; "insertTable(int,int,QTextTableFormat)";
       "insertText(QString)"; "insertText(QString,QTextCharFormat)"; "isCopyOf(QTextCursor)"; "isNull()";
       "joinPreviousEditBlock()"; "keepPositionOnInsert()"; "mergeBlockCharFormat(QTextCharFormat)";
       "mergeBlockFormat(QTextBlockFormat)"; "mergeCharFormat(QTextCharFormat)";
       "movePosition(QTextCursor::MoveOperation,QTextCursor::MoveMode,int)"; "position()";
       "positionInBlock()"; "removeSelectedText()"; "select(QTextCursor::SelectionType)"; "selectedText()";
       "selection()"; "selectionEnd()"; "selectionStart()"; "setBlockCharFormat(QTextCharFormat)";
       "setBlockFormat(QTextBlockFormat)"; "setCharFormat(QTextCharFormat)"; "setKeepPositionOnInsert(bool)";
       "setPosition(int,QTextCursor::MoveMode)"; "setVerticalMovementX(int)"; "setVisualNavigation(bool)";
       "swap(QTextCursor)"; "verticalMovementX()"; "visualNavigation()"]);
    ("QTextDocumentFragment", ["isEmpty()"; "toHtml()"; "toPlainText()"; "toRawText()"])
  ].

Definition value_table_T_3 : list (string * list string) :=
  [
    ("QTextDocumentWriter", ["device()"; "fileName()"; "format()"; "setDevice(QIODevice*)";
       "setFileName(QString)"; "setFormat(QByteArray)"; "write(QTextDocument*)";
       "write(QTextDocumentFragment)"]);
    ("QTextFormat", ["background()"; "boolProperty(int)"; "brushProperty(int)"; "clearBackground()";
       "clearForeground()"; "clearProperty(int)"; "colorProperty(int)"; "doubleProperty(int)";
       "foreground()"; "hasProperty(int)"; "intProperty(int)"; "isBlockFormat()"; "isCharFormat()";
       "isEmpty()"; "isFrameFormat()"; "isImageFormat()"; "isListFormat()"; "isTableCellFormat()";
       "isTableFormat()"; "isValid()"; "layoutDirection()"; "lengthProperty(int)";
       "lengthVectorProperty(int)"; "merge(QTextFormat)"; "objectIndex()"; "objectType()";
       "penProperty(int)"; "property(int)"; "propertyCount()"; "setBackground(QBrush)";
       "setForeground(QBrush)"; "setLayoutDirection(Qt::LayoutDirection)"; "setObjectIndex(int)";
       "setObjectType(int)"; "setProperty(int,QList<QTextLength>)"; "setProperty(int,QVariant)";
       "stringProperty(int)"; "swap(QTextFormat)"; "toBlockFormat()"; "toCharFormat()"; "toFrameFormat()";
       "toImageFormat()"; "toListFormat()"; "toTableCellFormat()"; "toTableFormat()"; "type()"]);
    ("QTextFragment", ["charFormat()"; "charFormatIndex()"; "contains(int)"; "glyphRuns(int,int)";
       "isValid()"; "length()"; "position()"; "text()"]);
    ("QTextFrameFormat", ["border()"; "borderBrush()"; "borderStyle()"; "bottomMargin()"; "height()";
       "isValid()"; "leftMargin()"; "margin()"; "padding()"; "position()"; "rightMargin()";
       "setBorder(qreal)"; "setBorderBrush(QBrush)"; "setBorderStyle(QTextFrameFormat::BorderStyle)";
       "setBottomMargin(qreal)"; "setHeight(QTextLength)"; "setHeight(qreal)"; "setLeftMargin(qreal)";
       "setMargin(qreal)"; "setPadding(qreal)"; "setPosition(QTextFrameFormat::Position)";
       "setRightMargin(qreal)"; "setTopMargin(qreal)"; "setWidth(QTextLength)"; "setWidth(qreal)";
       "topMargin()"; "width()"]);
    ("QTextImageFormat", ["height()"; "isValid()"; "maximumWidth()"; "name()"; "quality()";
       "setHeight(qreal)"; "setMaximumWidth(QTextLength)"; "setName(QString)"; "setQuality(int)";
       "setWidth(qreal)"; "width()"]);
    ("QTextInlineObject", ["ascent()"; "descent()"; "format()"; "formatIndex()"; "height()"; "isValid()";
       "rect()"; "setAscent(qreal)"; "setDescent(qreal)"; "setWidth(qreal)"; "textDirection()";
       "textPosition()"; "width()"]);
    ("QTextItem", ["ascent()"; "descent()"; "font()"; "text()"; "width()"])
  ].

Definition value_table_T_4 : list (string * list string) :=
  [
    ("QTextLayout", ["beginLayout()"; "boundingRect()"; "cacheEnabled()"; "clearFormats()"; "clearLayout()";
       "createLine()"; "cursorMoveStyle()"; "endLayout()"; "font()"; "glyphRuns(int,int)";
       "isValidCursorPosition(int)"; "leftCursorPosition(int)"; "lineAt(int)"; "lineCount()";
       "lineForTextPosition(int)"; "maximumWidth()"; "minimumWidth()";
       "nextCursorPosition(int,QTextLayout::CursorMode)"; "position()"; "preeditAreaPosition()";
       "preeditAreaText()"; "previousCursorPosition(int,QTextLayout::CursorMode)";
       "rightCursorPosition(int)"; "setCacheEnabled(bool)"; "setCursorMoveStyle(Qt::CursorMoveStyle)";
       "setFont(QFont)"; "setPosition(QPointF)"; "setPreeditArea(int,QString)"; "setText(QString)";
       "setTextOption(QTextOption)"; "text()"; "textOption()"]);
    ("QTextLength", ["rawValue()"; "type()"; "value(qreal)"]);
    ("QTextLine", ["ascent()"; "descent()"; "glyphRuns(int,int)"; "height()"; "horizontalAdvance()";
       "isValid()"; "leading()"; "leadingIncluded()"; "lineNumber()"; "naturalTextRect()";
       "naturalTextWidth()"; "position()"; "rect()"; "setLeadingIncluded(bool)"; "setLineWidth(qreal)";
       "setNumColumns(int)"; "setNumColumns(int,qreal)"; "setPosition(QPointF)"; "textLength()";
       "textStart()"; "width()"; "x()"; "xToCursor(qreal,QTextLine::CursorPosition)"; "y()"]);
    ("QTextListFormat", ["indent()"; "isValid()"; "numberPrefix()"; "numberSuffix()"; "setIndent(int)";
       "setNumberPrefix(QString)"; "setNumberSuffix(QString)"; "setStart(int)";
       "setStyle(QTextListFormat::Style)"; "start()"; "style()"]);
    ("QTextOption", ["flags()"; "setFlags(QTextOption::Flags)"; "setTabArray(QList<qreal>)";
       "setTabStopDistance(qreal)"; "setTextDirection(Qt::LayoutDirection)"; "setUseDesignMetrics(bool)";
       "setWrapMode(QTextOption::WrapMode)"; "tabArray()"; "tabStopDistance()"; "textDirection()";
       "useDesignMetrics()"; "wrapMode()"]);
    ("QTextStream", ["atEnd()"; "autoDetectUnicode()"; "device()"; "encoding()"; "fieldAlignment()";
       "fieldWidth()"; "flush()"; "generateByteOrderMark()"; "integerBase()"; "locale()"; "pos()";
       "read(qint64)"; "readAll()"; "readLine(qint64)"; "realNumberNotation()"; "realNumberPrecision()";
       "reset()"; "resetStatus()"; "seek(qint64)"; "setAutoDetectUnicode(bool)"; "setDevice(QIODevice*)";
       "setEncoding(QStringConverter::Encoding)"; "setFieldAlignment(QTextStream::FieldAlignment)";
       "setFieldWidth(int)"; "setGenerateByteOrderMark(bool)"; "setIntegerBase(int)"; "setLocale(QLocale)";
       "setRealNumberNotation(QTextStream::RealNumberNotation)"; "setRealNumberPrecision(int)";
       "setStatus(QTextStream::Status)"; "skipWhiteSpace()"; "status()"])
  ].

Definition value_table_T_5 : list (string * list string) :=
  [
    ("QTextTableCell", ["column()"; "columnSpan()"; "firstCursorPosition()"; "format()"; "isValid()";
       "lastCursorPosition()"; "row()"; "rowSpan()"; "setFormat(QTextCharFormat)"; "tableCellFormatIndex()"]);
    ("QTextTableCellFormat", ["bottomBorder()"; "bottomBorderBrush()"; "bottomBorderStyle()";
       "bottomPadding()"; "isValid()"; "leftBorder()"; "leftBorderBrush()"; "leftBorderStyle()";
       "leftPadding()"; "rightBorder()"; "rightBorderBrush()"; "rightBorderStyle()"; "rightPadding()";
       "setBorder(qreal)"; "setBorderBrush(QBrush)"; "setBorderStyle(QTextFrameFormat::BorderStyle)";
       "setBottomBorder(qreal)"; "setBottomBorderBrush(QBrush)";
       "setBottomBorderStyle(QTextFrameFormat::BorderStyle)"; "setBottomPadding(qreal)";
       "setLeftBorder(qreal)"; "setLeftBorderBrush(QBrush)";
       "setLeftBorderStyle(QTextFrameFormat::BorderStyle)"; "setLeftPadding(qreal)"; "setPadding(qreal)";
       "setRightBorder(qreal)"; "setRightBorderBrush(QBrush)";
       "setRightBorderStyle(QTextFrameFormat::BorderStyle)"; "setRightPadding(qreal)"; "setTopBorder(qreal)";
       "setTopBorderBrush(QBrush)"; "setTopBorderStyle(QTextFrameFormat::BorderStyle)";
       "setTopPadding(qreal)"; "topBorder()"; "topBorderBrush()"; "topBorderStyle()"; "topPadding()"]);
    ("QTextTableFormat", ["borderCollapse()"; "cellPadding()"; "cellSpacing()";
       "clearColumnWidthConstraints()"; "columnWidthConstraints()"; "columns()"; "headerRowCount()";
       "isValid()"; "setBorderCollapse(bool)"; "setCellPadding(qreal)"; "setCellSpacing(qreal)";
       "setColumnWidthConstraints(QList<QTextLength>)"; "setColumns(int)"; "setHeaderRowCount(int)"]);
    ("QTextureData", ["comparisonFunction()"; "comparisonMode()"; "depth()"; "format()"; "height()";
       "isAutoMipMapGenerationEnabled()"; "layers()"; "magnificationFilter()"; "maximumAnisotropy()";
       "minificationFilter()"; "setAutoMipMapGenerationEnabled(bool)";
       "setComparisonFunction(Qt3DRender::QAbstractTexture::ComparisonFunction)";
       "setComparisonMode(Qt3DRender::QAbstractTexture::ComparisonMode)"; "setDepth(int)";
       "setFormat(Qt3DRender::QAbstractTexture::TextureFormat)"; "setHeight(int)"; "setLayers(int)";
       "setMagnificationFilter(Qt3DRender::QAbstractTexture::Filter)"; "setMaximumAnisotropy(float)";
       "setMinificationFilter(Qt3DRender::QAbstractTexture::Filter)";
       "setTarget(Qt3DRender::QAbstractTexture::Target)"; "setWidth(int)";
       "setWrapModeX(Qt3DRender::QTextureWrapMode::WrapMode)";
       "setWrapModeY(Qt3DRender::QTextureWrapMode::WrapMode)";
       "setWrapModeZ(Qt3DRender::QTextureWrapMode::WrapMode)"; "target()"; "width()"; "wrapModeX()";
       "wrapModeY()"; "wrapModeZ()"]);
    ("QTextureDataUpdate", ["face()"; "layer()"; "mipLevel()";
       "setFace(Qt3DRender::QAbstractTexture::CubeMapFace)"; "setLayer(int)"; "setMipLevel(int)";
       "setX(int)"; "setY(int)"; "setZ(int)"; "x()"; "y()"; "z()"])
  ].

Definition value_table_T_6 : list (string * list string) :=
  [
    ("QTextureImageData", ["alignment()"; "cleanup()"; "data(int,int,int)"; "depth()"; "faces()"; "format()";
       "height()"; "isCompressed()"; "layers()"; "mipLevels()"; "pixelFormat()"; "pixelType()";
       "setAlignment(int)"; "setData(QByteArray,int,bool)"; "setDepth(int)"; "setFaces(int)";
       "setFormat(QOpenGLTexture::TextureFormat)"; "setHeight(int)"; "setImage(QImage)"; "setLayers(int)";
       "setMipLevels(int)"; "setPixelFormat(QOpenGLTexture::PixelFormat)";
       "setPixelType(QOpenGLTexture::PixelType)"; "setTarget(QOpenGLTexture::Target)"; "setWidth(int)";
       "target()"; "width()"]);
    ("QTime", ["addMSecs(int)"; "addSecs(int)"; "hour()"; "isNull()"; "isValid()"; "minute()"; "msec()";
       "msecsSinceStartOfDay()"; "msecsTo(QTime)"; "second()"; "secsTo(QTime)"; "setHMS(int,int,int,int)";
       "toString(QString)"; "toString(Qt::DateFormat)"]);
    ("QTimeZone", ["abbreviation(QDateTime)"; "asBackendZone()"; "comment()"; "country()";
       "daylightTimeOffset(QDateTime)"; "displayName(QDateTime,QTimeZone::NameType,QLocale)";
       "displayName(QTimeZone::TimeType,QTimeZone::NameType,QLocale)"; "fixedSecondsAheadOfUtc()";
       "hasDaylightTime()"; "hasTransitions()"; "id()"; "isDaylightTime(QDateTime)"; "isUtcOrFixedOffset()";
       "isValid()"; "nextTransition(QDateTime)"; "offsetData(QDateTime)"; "offsetFromUtc(QDateTime)";
       "previousTransition(QDateTime)"; "standardTimeOffset(QDateTime)"; "swap(QTimeZone)"; "territory()";
       "timeSpec()"]);
    ("QTimerEvent", ["matches(QBasicTimer)"; "timerId()"]);
    ("QTouchEvent", ["isBeginEvent()"; "isEndEvent()"; "isUpdateEvent()"; "target()"; "touchPointStates()"]);
    ("QTransform", ["adjoint()"; "determinant()"; "dx()"; "dy()"; "isAffine()"; "isIdentity()";
       "isInvertible()"; "isRotating()"; "isScaling()"; "isTranslating()"; "m11()"; "m12()"; "m13()";
       "m21()"; "m22()"; "m23()"; "m31()"; "m32()"; "m33()"; "map(QLine)"; "map(QLineF)";
       "map(QPainterPath)"; "map(QPoint)"; "map(QPointF)"; "map(QPolygon)"; "map(QPolygonF)"; "map(QRegion)";
       "mapRect(QRect)"; "mapRect(QRectF)"; "mapToPolygon(QRect)"; "reset()"; "rotate(qreal,Qt::Axis)";
       "rotate(qreal,Qt::Axis,qreal)"; "rotateRadians(qreal,Qt::Axis)";
       "rotateRadians(qreal,Qt::Axis,qreal)"; "scale(qreal,qreal)";
       "setMatrix(qreal,qreal,qreal,qreal,qreal,qreal,qreal,qreal,qreal)"; "shear(qreal,qreal)";
       "translate(qreal,qreal)"; "transposed()"; "type()"])
  ].

Definition value_table_T_7 : list (string * list string) :=
  [
    ("QTreeWidgetItem", ["background(int)"; "checkState(int)"; "childCount()"; "childIndicatorPolicy()";
       "columnCount()"; "data(int,int)"; "font(int)"; "foreground(int)"; "icon(int)"; "isDisabled()";
       "isExpanded()"; "isFirstColumnSpanned()"; "isHidden()"; "isSelected()"; "read(QDataStream)";
       "setBackground(int,QBrush)"; "setCheckState(int,Qt::CheckState)";
       "setChildIndicatorPolicy(QTreeWidgetItem::ChildIndicatorPolicy)"; "setData(int,int,QVariant)";
       "setDisabled(bool)"; "setExpanded(bool)"; "setFirstColumnSpanned(bool)"; "setFont(int,QFont)";
       "setForeground(int,QBrush)"; "setHidden(bool)"; "setIcon(int,QIcon)"; "setSelected(bool)";
       "setSizeHint(int,QSize)"; "setStatusTip(int,QString)"; "setText(int,QString)";
       "setTextAlignment(int,int)"; "setToolTip(int,QString)"; "setWhatsThis(int,QString)"; "sizeHint(int)";
       "sortChildren(int,Qt::SortOrder)"; "statusTip(int)"; "text(int)"; "textAlignment(int)";
       "toolTip(int)"; "treeWidget()"; "type()"; "whatsThis(int)"; "write(QDataStream)"]);
    ("QTypeRevision", ["hasMajorVersion()"; "hasMinorVersion()"; "isValid()"])
  ].

Definition value_table_U : list (string * list string) :=
  [
    ("QUndoCommand", ["actionText()"; "childCount()"; "id()"; "isObsolete()"; "redo()"; "setObsolete(bool)";
       "setText(QString)"; "text()"; "undo()"]);
    ("QUrl", ["clear()"; "detach()"; "errorString()"; "hasFragment()"; "hasQuery()"; "isDetached()";
       "isEmpty()"; "isLocalFile()"; "isParentOf(QUrl)"; "isRelative()"; "isValid()"; "port(int)";
       "resolved(QUrl)"; "scheme()"; "setAuthority(QString,QUrl::ParsingMode)";
       "setFragment(QString,QUrl::ParsingMode)"; "setHost(QString,QUrl::ParsingMode)";
       "setPassword(QString,QUrl::ParsingMode)"; "setPath(QString,QUrl::ParsingMode)"; "setPort(int)";
       "setQuery(QString,QUrl::ParsingMode)"; "setQuery(QUrlQuery)"; "setScheme(QString)";
       "setUrl(QString,QUrl::ParsingMode)"; "setUserInfo(QString,QUrl::ParsingMode)";
       "setUserName(QString,QUrl::ParsingMode)"; "swap(QUrl)"; "toLocalFile()"]);
    ("QUrlQuery", ["addQueryItem(QString,QString)"; "clear()"; "hasQueryItem(QString)"; "isDetached()";
       "isEmpty()"; "removeAllQueryItems(QString)"; "removeQueryItem(QString)"; "setQuery(QString)";
       "swap(QUrlQuery)"]);
    ("QUuid", ["isNull()"; "toByteArray(QUuid::StringFormat)"; "toRfc4122()";
       "toString(QUuid::StringFormat)"; "variant()"; "version()"])
  ].

Definition value_table_V_1 : list (string * list string) :=
  [
    ("QVariant", ["canConvert(QMetaType)"; "canView(QMetaType)"; "clear()"; "convert(QMetaType)"; "isNull()";
       "isValid()"; "load(QDataStream)"; "metaType()"; "save(QDataStream)"; "swap(QVariant)"; "typeId()";
       "userType()"]);
    ("QVector2D", ["distanceToLine(QVector2D,QVector2D)"; "distanceToPoint(QVector2D)"; "isNull()";
       "length()"; "lengthSquared()"; "normalize()"; "normalized()"; "setX(float)"; "setY(float)";
       "toPoint()"; "toPointF()"; "toVector3D()"; "toVector4D()"; "x()"; "y()"]);
    ("QVector3D", ["distanceToLine(QVector3D,QVector3D)"; "distanceToPlane(QVector3D,QVector3D)";
       "distanceToPlane(QVector3D,QVector3D,QVector3D)"; "distanceToPoint(QVector3D)"; "isNull()";
       "length()"; "lengthSquared()"; "normalize()"; "normalized()"; "project(QMatrix4x4,QMatrix4x4,QRect)";
       "setX(float)"; "setY(float)"; "setZ(float)"; "toPoint()"; "toPointF()"; "toVector2D()";
       "toVector4D()"; "unproject(QMatrix4x4,QMatrix4x4,QRect)"; "x()"; "y()"; "z()"]);
    ("QVector4D", ["isNull()"; "length()"; "lengthSquared()"; "normalize()"; "normalized()"; "setW(float)";
       "setX(float)"; "setY(float)"; "setZ(float)"; "toPoint()"; "toPointF()"; "toVector2D()";
       "toVector2DAffine()"; "toVector3D()"; "toVector3DAffine()"; "w()"; "x()"; "y()"; "z()"]);
    ("QVersionNumber", ["isNormalized()"; "isNull()"; "isPrefixOf(QVersionNumber)"; "majorVersion()";
       "microVersion()"; "minorVersion()"; "normalized()"; "segmentAt(qsizetype)"; "segmentCount()";
       "segments()"; "toString()"]);
    ("QVideoFrame", ["bytesPerLine(int)"; "endTime()"; "handleType()"; "height()"; "isMapped()";
       "isReadable()"; "isValid()"; "isWritable()"; "map(QVideoFrame::MapMode)"; "mapMode()";
       "mappedBytes(int)"; "mirrored()"; "pixelFormat()"; "planeCount()"; "rotationAngle()";
       "setEndTime(qint64)"; "setMirrored(bool)"; "setRotationAngle(QVideoFrame::RotationAngle)";
       "setStartTime(qint64)"; "setStreamFrameRate(qreal)"; "setSubtitleText(QString)"; "size()";
       "startTime()"; "streamFrameRate()"; "subtitleText()"; "surfaceFormat()"; "toImage()"; "unmap()";
       "width()"])
  ].

Definition value_table_V_2 : list (string * list string) :=
  [
    ("QVideoFrameFormat", ["colorRange()"; "colorSpace()"; "colorTransfer()"; "frameHeight()"; "frameRate()";
       "frameSize()"; "frameWidth()"; "isMirrored()"; "isValid()"; "pixelFormat()"; "planeCount()";
       "scanLineDirection()"; "setColorRange(QVideoFrameFormat::ColorRange)";
       "setColorSpace(QVideoFrameFormat::ColorSpace)"; "setColorTransfer(QVideoFrameFormat::ColorTransfer)";
       "setFrameRate(qreal)"; "setFrameSize(QSize)"; "setFrameSize(int,int)"; "setMirrored(bool)";
       "setScanLineDirection(QVideoFrameFormat::Direction)"; "setStreamFrameRate(qreal)";
       "setViewport(QRect)"; "setYCbCrColorSpace(QVideoFrameFormat::YCbCrColorSpace)"; "streamFrameRate()";
       "viewport()"; "yCbCrColorSpace()"]);
    ("QVoice", ["age()"; "gender()"; "language()"; "locale()"; "name()"; "swap(QVoice)"])
  ].

Definition value_table_W_1 : list (string * list string) :=
  [
    ("QWaitCondition", ["wakeAll()"; "wakeOne()"]);
    ("QWebEngineCertificateError", ["acceptCertificate()"; "certificateChain()"; "defer()"; "description()";
       "isOverridable()"; "rejectCertificate()"; "type()"; "url()"]);
    ("QWebEngineClientCertificateSelection", ["certificates()"; "host()"; "select(QSslCertificate)";
       "selectNone()"]);
    ("QWebEngineClientCertificateStore", ["add(QSslCertificate,QSslKey)"; "certificates()"; "clear()";
       "remove(QSslCertificate)"]);
    ("QWebEngineFindTextResult", ["activeMatch()"; "numberOfMatches()"]);
    ("QWebEngineFullScreenRequest", ["accept()"; "origin()"; "reject()"; "toggleOn()"]);
    ("QWebEngineHistoryItem", ["iconUrl()"; "isValid()"; "lastVisited()"; "originalUrl()";
       "swap(QWebEngineHistoryItem)"; "title()"; "url()"]);
    ("QWebEngineHttpRequest", ["hasHeader(QByteArray)"; "header(QByteArray)"; "headers()"; "method()";
       "postData()"; "setHeader(QByteArray,QByteArray)"; "setMethod(QWebEngineHttpRequest::Method)";
       "setPostData(QByteArray)"; "setUrl(QUrl)"; "swap(QWebEngineHttpRequest)"; "unsetHeader(QByteArray)";
       "url()"]);
    ("QWebEngineLoadingInfo", ["errorCode()"; "errorDomain()"; "errorString()"; "isErrorPage()"; "status()";
       "url()"]);
    ("QWebEngineQuotaRequest", ["accept()"; "origin()"; "reject()"; "requestedSize()"]);
    ("QWebEngineRegisterProtocolHandlerRequest", ["accept()"; "origin()"; "reject()"; "scheme()"]);
    ("QWebEngineScript", ["injectionPoint()"; "name()"; "runsOnSubFrames()";
       "setInjectionPoint(QWebEngineScript::InjectionPoint)"; "setName(QString)"; "setRunsOnSubFrames(bool)";
       "setSourceCode(QString)"; "setSourceUrl(QUrl)"; "sourceCode()"; "sourceUrl()";
       "swap(QWebEngineScript)"]);
    ("QWebEngineScriptCollection", ["clear()"; "contains(QWebEngineScript)"; "count()"; "find(QString)";
       "insert(QList<QWebEngineScript>)"; "insert(QWebEngineScript)"; "isEmpty()";
       "remove(QWebEngineScript)"; "toList()"]);
    ("QWebEngineSettings", ["defaultTextEncoding()"; "fontFamily(QWebEngineSettings::FontFamily)";
       "fontSize(QWebEngineSettings::FontSize)"; "resetAttribute(QWebEngineSettings::WebAttribute)";
       "resetFontFamily(QWebEngineSettings::FontFamily)"; "resetFontSize(QWebEngineSettings::FontSize)";
       "resetUnknownUrlSchemePolicy()"; "setAttribute(QWebEngineSettings::WebAttribute,bool)";
       "setDefaultTextEncoding(QString)"; "setFontFamily(QWebEngineSettings::FontFamily,QString)";
       "setFontSize(QWebEngineSettings::FontSize,int)";
       "setUnknownUrlSchemePolicy(QWebEngineSettings::UnknownUrlSchemePolicy)";
       "testAttribute(QWebEngineSettings::WebAttribute)"; "unknownUrlSchemePolicy()"])
  ].

Definition value_table_W_2 : list (string * list string) :=
  [
    ("QWebEngineUrlRequestInfo", ["block(bool)"; "firstPartyUrl()"; "initiator()"; "navigationType()";
       "redirect(QUrl)"; "requestMethod()"; "requestUrl()"; "resourceType()";
       "setHttpHeader(QByteArray,QByteArray)"]);
    ("QWebEngineUrlScheme", ["defaultPort()"; "flags()"; "name()"; "setDefaultPort(int)";
       "setFlags(QWebEngineUrlScheme::Flags)"; "setName(QByteArray)";
       "setSyntax(QWebEngineUrlScheme::Syntax)"; "syntax()"]);
    ("QWebSocketCorsAuthenticator", ["allowed()"; "origin()"; "setAllowed(bool)";
       "swap(QWebSocketCorsAuthenticator)"]);
    ("QWebSocketHandshakeOptions", ["setSubprotocols(QStringList)"; "subprotocols()";
       "swap(QWebSocketHandshakeOptions)"]);
    ("QWhatsThisClickedEvent", ["href()"]);
    ("QWheelEvent", ["angleDelta()"; "inverted()"; "isBeginEvent()"; "isEndEvent()"; "isUpdateEvent()";
       "phase()"; "pixelDelta()"]);
    ("QWidgetItem", ["controlTypes()"; "expandingDirections()"; "geometry()"; "hasHeightForWidth()";
       "heightForWidth(int)"; "isEmpty()"; "maximumSize()"; "minimumHeightForWidth(int)"; "minimumSize()";
       "setGeometry(QRect)"; "sizeHint()"; "widget()"]);
    ("QWindowStateChangeEvent", ["oldState()"]);
    ("QWriteLocker", ["relock()"; "unlock()"])
  ].

Definition value_table_X : list (string * list string) :=
  [
    ("QXmlStreamAttribute", ["isDefault()"]);
    ("QXmlStreamAttributes", ["append(QString,QString)"; "append(QString,QString,QString)";
       "append(QXmlStreamAttribute)"; "at(int)"; "clear()"; "contains(QXmlStreamAttribute)"; "count()";
       "count(QXmlStreamAttribute)"; "fill(QXmlStreamAttribute,int)"; "first()";
       "indexOf(QXmlStreamAttribute,int)"; "insert(int,QXmlStreamAttribute)"; "isEmpty()"; "last()";
       "lastIndexOf(QXmlStreamAttribute,int)"; "prepend(QXmlStreamAttribute)"; "remove(int)";
       "remove(int,int)"; "replace(int,QXmlStreamAttribute)"; "resize(qsizetype)"; "size()"]);
    ("QXmlStreamEntityResolver", ["resolveUndeclaredEntity(QString)"]);
    ("QXmlStreamReader", ["addExtraNamespaceDeclaration(QXmlStreamNamespaceDeclaration)"; "atEnd()";
       "attributes()"; "characterOffset()"; "clear()"; "columnNumber()"; "device()";
       "entityExpansionLimit()"; "error()"; "errorString()"; "hasError()"; "hasStandaloneDeclaration()";
       "isCDATA()"; "isCharacters()"; "isComment()"; "isDTD()"; "isEndDocument()"; "isEndElement()";
       "isEntityReference()"; "isProcessingInstruction()"; "isStandaloneDocument()"; "isStartDocument()";
       "isStartElement()"; "isWhitespace()"; "lineNumber()"; "namespaceProcessing()"; "raiseError(QString)";
       "readElementText(QXmlStreamReader::ReadElementTextBehaviour)"; "readNext()"; "readNextStartElement()";
       "readRawInnerData()"; "setDevice(QIODevice*)"; "setEntityExpansionLimit(int)";
       "setNamespaceProcessing(bool)"; "skipCurrentElement()"; "tokenString()"; "tokenType()"]);
    ("QXmlStreamWriter", ["autoFormatting()"; "autoFormattingIndent()"; "device()"; "error()";
       "errorString()"; "hasError()"; "setAutoFormatting(bool)"; "setAutoFormattingIndent(int)";
       "setDevice(QIODevice*)"; "setStopWritingOnError(bool)"; "stopWritingOnError()";
       "writeAttribute(QXmlStreamAttribute)"; "writeAttributes(QXmlStreamAttributes)";
       "writeCurrentToken(QXmlStreamReader)"; "writeEndDocument()"; "writeEndElement()";
       "writeStartDocument()"])
  ].

Definition value_table : list (string * list string) :=
    value_table_A ++ value_table_B_1 ++ value_table_B_2 ++ value_table_C_1 ++ value_table_C_2 ++
    value_table_C_3 ++ value_table_D_1 ++ value_table_D_2 ++ value_table_D_3 ++ value_table_D_4 ++
    value_table_D_5 ++ value_table_E ++ value_table_F_1 ++ value_table_F_2 ++ value_table_G_1 ++
    value_table_G_2 ++ value_table_G_3 ++ value_table_G_4 ++ value_table_G_5 ++ value_table_G_6 ++
    value_table_H ++ value_table_I_1 ++ value_table_I_2 ++ value_table_J ++ value_table_K ++
    value_table_L_1 ++ value_table_L_2 ++ value_table_L_3 ++ value_table_M_1 ++ value_table_M_2 ++
    value_table_M_3 ++ value_table_N_1 ++ value_table_N_2 ++ value_table_N_3 ++ value_table_O_1 ++
    value_table_O_2 ++ value_table_P_1 ++ value_table_P_2 ++ value_table_P_3 ++ value_table_P_4 ++
    value_table_P_5 ++ value_table_P_6 ++ value_table_Q_1 ++ value_table_Q_2 ++ value_table_R_1 ++
    value_table_R_2 ++ value_table_R_3 ++ value_table_S_1 ++ value_table_S_2 ++ value_table_S_3 ++
    value_table_S_4 ++ value_table_S_5 ++ value_table_S_6 ++ value_table_T_1 ++ value_table_T_2 ++
    value_table_T_3 ++ value_table_T_4 ++ value_table_T_5 ++ value_table_T_6 ++ value_table_T_7 ++
    value_table_U ++ value_table_V_1 ++ value_table_V_2 ++ value_table_W_1 ++ value_table_W_2 ++
    value_table_X.

Fixpoint table_row (name : string) (l : list (string * list string)) : option (list string) :=
  match l with
  | [] => None
  | (n, methods) :: l' => if bool_decide (name = n) then Some methods else table_row name l'
  end.

(** [QJsonValue()] is the null value, not an undefined one. *)
Definition describeDirectValueType (className : string) : json :=
  match table_row className value_table with
  | Some methods =>
      make_object [("type"%string, JString className); ("kind"%string, JString "value");
                   ("methods"%string, strings_array methods)]
  | None => JNull
  end.
