(* ===== verification/Factories.v ===== *)
(** The factory templates of generated_default_constructors.h and the
    functions of the generated factory files, over the compile-time facts the
    templates branch on, and the module table. *)
From S2P Require Export State Modules.

(** * Definitions *)

(** The type traits of a Qt class [T] that the templates test. *)
Record cxx_class : Type := CxxClass {
  cc_name : string;              (* the C++ name of T *)
  cc_complete : bool;            (* sizeof(T) is defined *)
  cc_widget : bool;              (* std::is_base_of_v<QWidget, T> *)
  cc_window : bool;
  cc_layout : bool;
  cc_node : bool;
  cc_object : bool;              (* std::is_base_of_v<QObject, T> *)
  cc_abstract : bool;
  cc_from_widget : bool;         (* std::is_constructible_v<T, QWidget *> *)
  cc_from_window : bool;
  cc_from_node : bool;
  cc_from_object : bool;
  cc_default : bool;             (* std::is_default_constructible_v<T> *)
  cc_static_meta : metaobject;   (* T::staticMetaObject, when T is a QObject *)
  cc_gadget : option metatype;   (* QMetaType::fromType<T>(), when T is a gadget *)
  cc_gadget_default : bool;      (* type.isDefaultConstructible() *)
}.

(** The classes of the installed Qt, by module and name: [None] when the header
    of the class is missing. *)
Class CxxTraits := {
  cxx_class_of : string -> string -> option cxx_class;
  (* what the generated shards test of headers and of other types *)
  cxx_has_header : string -> string -> bool;      (* __has_include(<module/header>) *)
  cxx_registered : string -> bool;                (* QMetaTypeId2<T>::Defined *)
  cxx_copyable : string -> bool;                  (* std::is_copy_constructible_v<T> *)
  cxx_default_constructible : string -> bool;
  cxx_abstract : string -> bool;                  (* std::is_abstract_v<T> *)
  cxx_constructible : string -> list string -> bool; (* std::is_constructible_v<T, Args...> *)
  (* the same from local variables of the types *)
  cxx_constructible_from : string -> list string -> bool;
  cxx_enum_size : string -> option Z;             (* sizeof(T), for an enumeration *)
}.

Definition is_some_meta (m : option metaobject) : bool :=
  match m with Some _ => true | None => false end.

Section Factories.
Context {T : QtTypes} {QB : QtLib} {QW : QtWorld} {CT : CxxTraits}.

Definition gadgetMetaType (c : cxx_class) : metatype :=
  if cc_complete c then
    match cc_gadget c with
    | Some type => if cc_gadget_default c then type else MT_Invalid
    | None => MT_Invalid
    end
  else MT_Invalid.

Definition qObjectMetaObject (c : cxx_class) : option metaobject :=
  if cc_complete c && cc_object c then Some (cc_static_meta c) else None.

Definition exactQObjectMetaObject (c : cxx_class) (name : string) : option metaobject :=
  match qObjectMetaObject c with
  | None => None
  | Some meta =>
      let fullName := mo_class_name meta in
      let shortName :=
        match str_last_index_of "::" fullName with
        | None => fullName
        | Some separator => str_mid (separator + 2) fullName
        end in
      if bool_decide (shortName = q_to_latin1 name) then Some meta else None
  end.

Definition hasPublicInvokableConstructor (m : option metaobject) : bool :=
  match m with
  | None => false
  | Some meta => existsb (fun c => bool_decide (mm_access c = APublic)) (mo_constructors meta)
  end.

Definition hasInvokableConstructor (c : cxx_class) (name : string) : bool :=
  cc_complete c && cc_object c && negb (cc_abstract c) &&
  hasPublicInvokableConstructor (exactQObjectMetaObject c name).

(** [qobject_cast<C *>(parent)], null for a null parent. *)
Definition cast_to (w : world) (class_name : string) (p : option ptr) : option ptr :=
  match p with
  | Some q => if w_is_a w class_name q then Some q else None
  | None => None
  end.

Definition is_null_ptr (p : option ptr) : bool :=
  match p with Some _ => false | None => true end.

(** [return new T(p);] *)
Definition new_with (c : cxx_class) (error : string) (p : option ptr) : M (option ptr * string) :=
  let! o := call (QNew (cc_name c) [AObject p]) in ret (Some o, error).

(** [T *instance = new T(); if (p != nullptr) attach; return instance;] *)
Definition new_then (c : cxx_class) (error : string) (attach : ptr -> ptr -> native unit)
    (p : option ptr) : M (option ptr * string) :=
  let! o := call (QNew (cc_name c) []) in
  match p with
  | None => ret (Some o, error)
  | Some q => let! _ := call (attach o q) in ret (Some o, error)
  end.

(** [create<T>]: the branches of [if constexpr] in order. *)
Definition create (c : cxx_class) (parent : option ptr) (error : string) : M (option ptr * string) :=
  let! s := get_state in
  let w := st_world s in
  let new_with := new_with c error in
  let new_then := new_then c error in
  if cc_widget c then
    let widgetParent := cast_to w "QWidget" parent in
    if negb (is_null_ptr parent) && is_null_ptr widgetParent
    then ret (None, "class requires a QWidget parent"%string)
    else if cc_from_widget c then new_with widgetParent
    else if cc_default c then new_then QWidget_setParent widgetParent
    else ret (None, error)
  else if cc_window c then
    let windowParent := cast_to w "QWindow" parent in
    if negb (is_null_ptr parent) && is_null_ptr windowParent
    then ret (None, "window constructors require a QWindow parent"%string)
    else if cc_from_window c then new_with windowParent
    else if cc_default c then new_then QWindow_setParent windowParent
    else ret (None, error)
  else if cc_layout c then
    let widgetParent := cast_to w "QWidget" parent in
    if negb (is_null_ptr parent) && is_null_ptr widgetParent
    then ret (None, "layout constructors require a QWidget parent"%string)
    else if match widgetParent with
            | Some q => negb (is_null_ptr (w_layout w q))
            | None => false
            end
    then ret (None, "QWidget already has a layout"%string)
    else if cc_from_widget c then new_with widgetParent
    else if cc_default c then new_then (fun o q => QWidget_setLayout q o) widgetParent
    else ret (None, error)
  else if cc_node c then
    let nodeParent := cast_to w "Qt3DCore::QNode" parent in
    if negb (is_null_ptr parent) && is_null_ptr nodeParent
    then ret (None, "Qt3D objects require a Qt3DCore.QNode parent"%string)
    else if cc_from_node c then new_with nodeParent
    else if cc_default c then new_then QNode_setParent nodeParent
    else ret (None, error)
  else if cc_object c then
    if cc_from_object c then new_with parent
    else if cc_default c then new_then QObject_setParent parent
    else ret (None, error)
  else ret (None, error).

(** [factory<T>() != nullptr]; the factory is then [create<T>]. *)
Definition factory (c : cxx_class) : bool :=
  cc_complete c && negb (cc_abstract c) &&
  ((cc_widget c && (cc_from_widget c || cc_default c)) ||
   (cc_window c && (cc_from_window c || cc_default c)) ||
   (cc_layout c && (cc_from_widget c || cc_default c)) ||
   (cc_node c && (cc_from_node c || cc_default c)) ||
   (cc_object c && (cc_from_object c || cc_default c))).

(** ** The functions of a factory file *)

(** [KRY_QT6_HAS_<MODULE>_<row>] is defined. *)
Definition row_compiled (f : factory_module) (row : string) : bool :=
  existsb (fun '(header, c) => String.eqb c row && cxx_has_header (fm_directory f) header) (fm_includes f).

(** The class of a row, [None] when its row is compiled out. *)
Definition row_class (f : factory_module) (row : string) : option cxx_class :=
  if row_compiled f row then cxx_class_of (fm_name f) row else None.

Definition has (f : factory_module) (name : string) : bool :=
  existsb (fun row =>
    bool_decide (name = row) &&
    match row_class f row with
    | Some c => factory c
    | None => false
    end) (fm_has f) || str_mem name (fm_explicit f).

Fixpoint construct_rows (f : factory_module) (rows : list string) (name : string)
    (parent : option ptr) (error : string) : M (option ptr * string) :=
  match rows with
  | [] => ret (None, error)
  | row :: rows' =>
      let continue := construct_rows f rows' name parent error in
      if bool_decide (name = row) then
        match row_class f row with
        | Some c => if factory c then create c parent error else continue
        | None => continue
        end
      else continue
  end.

Definition construct_module (f : factory_module) (name : string) (parent : option ptr)
    (error : string) : M (option ptr * string) :=
  construct_rows f (fm_construct f) name parent error.

Definition constructors (f : factory_module) : list string :=
  sorted_set (filter (fun row =>
    match row_class f row with
    | Some c => factory c || hasInvokableConstructor c row
    | None => false
    end = true) (fm_constructors f) ++ fm_explicit f).

Fixpoint meta_object_rows (f : factory_module) (rows : list string) (name : string) :
    option metaobject :=
  match rows with
  | [] => None
  | row :: rows' =>
      if bool_decide (name = row) then
        match row_class f row with
        | Some c => exactQObjectMetaObject c name
        | None => meta_object_rows f rows' name
        end
      else meta_object_rows f rows' name
  end.

Definition meta_object (f : factory_module) (name : string) : option metaobject :=
  meta_object_rows f (fm_meta_object f) name.

Definition meta_object_names (f : factory_module) : list string :=
  filter (fun row =>
    match row_class f row with
    | Some c => is_some_meta (exactQObjectMetaObject c row)
    | None => false
    end = true) (fm_meta_object_names f).

Fixpoint value_type_rows (f : factory_module) (rows : list string) (name : string) : metatype :=
  match rows with
  | [] => MT_Invalid
  | row :: rows' =>
      if bool_decide (name = row) then
        match row_class f row with
        | Some c => gadgetMetaType c
        | None => value_type_rows f rows' name
        end
      else value_type_rows f rows' name
  end.

Definition value_type (f : factory_module) (name : string) : metatype :=
  value_type_rows f (fm_value_type f) name.

Definition value_types (f : factory_module) : list string :=
  filter (fun row => mt_valid (value_type f row) = true) (fm_value_types f).

(** ** The module table *)
Record gmodule : Type := GModule {
  m_name : string;
  m_hasClass : string -> bool;
  m_construct : string -> option ptr -> string -> M (option ptr * string);
  m_constructorNames : list json;
  m_valueType : string -> metatype;
  m_valueTypeNames : list json;
  m_metaObject : string -> option metaobject;
  m_metaObjectNames : list json;
}.

Definition modules : list gmodule :=
  (fun f => GModule (fm_name f) (has f) (construct_module f) (JString <$> constructors f)
              (value_type f) (JString <$> value_types f) (meta_object f)
              (JString <$> meta_object_names f)) <$> factory_modules.

End Factories.
