(* ===== verification/Generated.v ===== *)
(** The generated part of the bridge: the module registry of
    generated_default_constructors.h and the four dispatch files
    (generated_methods, generated_constructors, generated_value_constructors,
    generated_value_methods). The shards they call are the parameters of the
    class [Generated]. *)
From S2P Require Export Factories ValueTypes.

(** * Definitions *)

(** ** The generated shards

    Each lists the classes it serves ([GeneratedNames]) and has a function that
    tries to carry out a call ([Generated]).
    Every function that takes [QString *error] (or another pointer it writes
    through) receives the current contents and returns the new ones. A shard of
    value methods gets the identifier of the entry of [values] its [QVariant *]
    points to. *)
Class GeneratedNames := {
  g_constructor_classes : string -> list string;
  g_value_constructor_classes : string -> list string;
  g_direct_value_types : string -> list string;
}.

Class Generated `{QW : QtWorld} := {
  (* invoke_<shard>: object, class, signature, arguments, output, error *)
  g_invoke : string -> option ptr -> string -> string -> list json -> json -> string ->
    M (bool * json * string);
  (* construct_<shard>: module, class, parent, arguments, output, error *)
  g_construct_args : string -> string -> string -> option ptr -> list json -> option ptr ->
    string -> M (bool * option ptr * string);
  (* construct_value_<shard>: module, class, arguments, output, error *)
  g_construct_value : string -> string -> string -> list json -> qvariant -> string ->
    M (bool * qvariant * string);
  (* invoke_value_<shard>: entry, class, signature, arguments, output, error *)
  g_invoke_value : string -> Z -> string -> string -> list json -> json -> string ->
    M (bool * json * string);
}.

(** ** Tables of names *)
(** The shards [invoke] tries, in order. *)
Definition invoke_shards : list string :=
  [
    "qaxcontainer_0"; "qt3danimation_0"; "qt3dcore_0"; "qt3dextras_0"; "qt3dextras_1";
    "qt3dinput_0"; "qt3dlogic_0"; "qt3drender_0"; "qt3drender_1"; "qt3drender_2"; "qt3drender_3";
    "qtbluetooth_0"; "qtcharts_0"; "qtcharts_1"; "qtcore_0"; "qtcore_1"; "qtcore_2"; "qtcore_3";
    "qtdatavisualization_0"; "qtdatavisualization_1"; "qtdbus_0"; "qtdesigner_0"; "qtgraphs_0";
    "qtgraphs_1"; "qtgraphswidgets_0"; "qtgui_0"; "qtgui_1"; "qtgui_2"; "qthelp_0";
    "qtmultimedia_0"; "qtmultimediawidgets_0"; "qtnetwork_0"; "qtnetworkauth_0"; "qtnfc_0";
    "qtopengl_0"; "qtopenglwidgets_0"; "qtpdf_0"; "qtpdfwidgets_0"; "qtpositioning_0";
    "qtprintsupport_0"; "qtqml_0"; "qtquick3d_0"; "qtquick_0"; "qtquickwidgets_0";
    "qtremoteobjects_0"; "qtsensors_0"; "qtsensors_1"; "qtserialport_0"; "qtspatialaudio_0";
    "qtsql_0"; "qtstatemachine_0"; "qtsvg_0"; "qtsvgwidgets_0"; "qttest_0"; "qttexttospeech_0";
    "qtwebchannel_0"; "qtwebenginecore_0"; "qtwebenginequick_0"; "qtwebenginewidgets_0";
    "qtwebsockets_0"; "qtwidgets_0"; "qtwidgets_1"; "qtwidgets_2"; "qtwidgets_3"; "qtwidgets_4";
    "qtxml_0"
  ].

(** The shards [constructArguments] tries, with their modules. *)
Definition constructor_shards : list (string * string) :=
  [
    ("QAxContainer", "qaxcontainer_0"); ("Qt3DAnimation", "qt3danimation_0");
    ("Qt3DCore", "qt3dcore_0"); ("Qt3DExtras", "qt3dextras_0"); ("Qt3DExtras", "qt3dextras_1");
    ("Qt3DInput", "qt3dinput_0"); ("Qt3DLogic", "qt3dlogic_0"); ("Qt3DRender", "qt3drender_0");
    ("Qt3DRender", "qt3drender_1"); ("Qt3DRender", "qt3drender_2"); ("Qt3DRender", "qt3drender_3");
    ("Qt3DRender", "qt3drender_4"); ("QtBluetooth", "qtbluetooth_0"); ("QtCharts", "qtcharts_0");
    ("QtCharts", "qtcharts_1"); ("QtCore", "qtcore_0"); ("QtCore", "qtcore_1");
    ("QtDataVisualization", "qtdatavisualization_0"); ("QtDBus", "qtdbus_0");
    ("QtDesigner", "qtdesigner_0"); ("QtGraphs", "qtgraphs_0"); ("QtGraphs", "qtgraphs_1");
    ("QtGraphsWidgets", "qtgraphswidgets_0"); ("QtGui", "qtgui_0"); ("QtGui", "qtgui_1");
    ("QtHelp", "qthelp_0"); ("QtMultimedia", "qtmultimedia_0");
    ("QtMultimediaWidgets", "qtmultimediawidgets_0"); ("QtNetwork", "qtnetwork_0");
    ("QtNetworkAuth", "qtnetworkauth_0"); ("QtNfc", "qtnfc_0"); ("QtOpenGL", "qtopengl_0");
    ("QtOpenGLWidgets", "qtopenglwidgets_0"); ("QtPdf", "qtpdf_0");
    ("QtPdfWidgets", "qtpdfwidgets_0"); ("QtPositioning", "qtpositioning_0");
    ("QtPrintSupport", "qtprintsupport_0"); ("QtQml", "qtqml_0"); ("QtQuick3D", "qtquick3d_0");
    ("QtQuick", "qtquick_0"); ("QtQuickWidgets", "qtquickwidgets_0");
    ("QtRemoteObjects", "qtremoteobjects_0"); ("QtSensors", "qtsensors_0");
    ("QtSerialPort", "qtserialport_0"); ("QtSpatialAudio", "qtspatialaudio_0");
    ("QtSql", "qtsql_0"); ("QtStateMachine", "qtstatemachine_0"); ("QtSvg", "qtsvg_0");
    ("QtSvgWidgets", "qtsvgwidgets_0"); ("QtTest", "qttest_0");
    ("QtTextToSpeech", "qttexttospeech_0"); ("QtWebChannel", "qtwebchannel_0");
    ("QtWebEngineCore", "qtwebenginecore_0"); ("QtWebEngineQuick", "qtwebenginequick_0");
    ("QtWebEngineWidgets", "qtwebenginewidgets_0"); ("QtWebSockets", "qtwebsockets_0");
    ("QtWidgets", "qtwidgets_0"); ("QtWidgets", "qtwidgets_1"); ("QtWidgets", "qtwidgets_2");
    ("QtWidgets", "qtwidgets_3"); ("QtWidgets", "qtwidgets_4")
  ].

(** The shards [constructValueArguments] tries, with their modules. *)
Definition value_constructor_shards : list (string * string) :=
  [
    ("Qt3DAnimation", "qt3danimation_0"); ("Qt3DCore", "qt3dcore_0");
    ("Qt3DRender", "qt3drender_0"); ("QtBluetooth", "qtbluetooth_0");
    ("QtBluetooth", "qtbluetooth_1"); ("QtCore", "qtcore_0"); ("QtCore", "qtcore_1");
    ("QtCore", "qtcore_10"); ("QtCore", "qtcore_11"); ("QtCore", "qtcore_12");
    ("QtCore", "qtcore_2"); ("QtCore", "qtcore_3"); ("QtCore", "qtcore_4"); ("QtCore", "qtcore_5");
    ("QtCore", "qtcore_6"); ("QtCore", "qtcore_7"); ("QtCore", "qtcore_8"); ("QtCore", "qtcore_9");
    ("QtDBus", "qtdbus_0"); ("QtDBus", "qtdbus_1"); ("QtDesigner", "qtdesigner_0");
    ("QtGraphs", "qtgraphs_0"); ("QtGui", "qtgui_0"); ("QtGui", "qtgui_1"); ("QtGui", "qtgui_10");
    ("QtGui", "qtgui_11"); ("QtGui", "qtgui_12"); ("QtGui", "qtgui_13"); ("QtGui", "qtgui_2");
    ("QtGui", "qtgui_3"); ("QtGui", "qtgui_4"); ("QtGui", "qtgui_5"); ("QtGui", "qtgui_6");
    ("QtGui", "qtgui_7"); ("QtGui", "qtgui_8"); ("QtGui", "qtgui_9"); ("QtHelp", "qthelp_0");
    ("QtMultimedia", "qtmultimedia_0"); ("QtMultimedia", "qtmultimedia_1");
    ("QtNetwork", "qtnetwork_0"); ("QtNetwork", "qtnetwork_1"); ("QtNetwork", "qtnetwork_2");
    ("QtNetwork", "qtnetwork_3"); ("QtNetwork", "qtnetwork_4");
    ("QtNetworkAuth", "qtnetworkauth_0"); ("QtNfc", "qtnfc_0"); ("QtOpenGL", "qtopengl_0");
    ("QtOpenGL", "qtopengl_1"); ("QtPdf", "qtpdf_0"); ("QtPositioning", "qtpositioning_0");
    ("QtPositioning", "qtpositioning_1"); ("QtPrintSupport", "qtprintsupport_0");
    ("QtQml", "qtqml_0"); ("QtQml", "qtqml_1"); ("QtQuick", "qtquick_0"); ("QtQuick", "qtquick_1");
    ("QtSerialPort", "qtserialport_0"); ("QtSql", "qtsql_0"); ("QtSvg", "qtsvg_0");
    ("QtTest", "qttest_0"); ("QtTextToSpeech", "qttexttospeech_0");
    ("QtWebEngineCore", "qtwebenginecore_0"); ("QtWebEngineCore", "qtwebenginecore_1");
    ("QtWebSockets", "qtwebsockets_0"); ("QtWidgets", "qtwidgets_0"); ("QtWidgets", "qtwidgets_1");
    ("QtWidgets", "qtwidgets_2"); ("QtWidgets", "qtwidgets_3"); ("QtWidgets", "qtwidgets_4");
    ("QtWidgets", "qtwidgets_5"); ("QtXml", "qtxml_0"); ("QtXml", "qtxml_1"); ("QtXml", "qtxml_2")
  ].

(** The shards [invokeValue] tries, in order. *)
Definition invoke_value_shards : list string :=
  [
    "qaxcontainer_0"; "qt3danimation_0"; "qt3dcore_0"; "qt3drender_0"; "qtbluetooth_0";
    "qtbluetooth_1"; "qtcore_0"; "qtcore_1"; "qtcore_10"; "qtcore_11"; "qtcore_12"; "qtcore_2";
    "qtcore_3"; "qtcore_4"; "qtcore_5"; "qtcore_6"; "qtcore_7"; "qtcore_8"; "qtcore_9"; "qtdbus_0";
    "qtdbus_1"; "qtdesigner_0"; "qtgraphs_0"; "qtgui_0"; "qtgui_1"; "qtgui_10"; "qtgui_11";
    "qtgui_12"; "qtgui_13"; "qtgui_14"; "qtgui_2"; "qtgui_3"; "qtgui_4"; "qtgui_5"; "qtgui_6";
    "qtgui_7"; "qtgui_8"; "qtgui_9"; "qthelp_0"; "qtmultimedia_0"; "qtmultimedia_1"; "qtnetwork_0";
    "qtnetwork_1"; "qtnetwork_2"; "qtnetwork_3"; "qtnetwork_4"; "qtnetworkauth_0"; "qtnfc_0";
    "qtopengl_0"; "qtopengl_1"; "qtpdf_0"; "qtpositioning_0"; "qtpositioning_1";
    "qtprintsupport_0"; "qtqml_0"; "qtqml_1"; "qtquick_0"; "qtquick_1"; "qtquick_2";
    "qtserialport_0"; "qtsql_0"; "qtsvg_0"; "qttest_0"; "qttexttospeech_0"; "qtwebenginecore_0";
    "qtwebenginecore_1"; "qtwebsockets_0"; "qtwidgets_0"; "qtwidgets_1"; "qtwidgets_2";
    "qtwidgets_3"; "qtwidgets_4"; "qtxml_0"; "qtxml_1"; "qtxml_2"
  ].

(** The classes createObject builds itself, with their modules. *)
Definition explicit_constructors : list (string * string) :=
  [
    ("QAxContainer", "QAxObject"); ("QAxContainer", "QAxWidget"); ("QtCore", "QBuffer");
    ("QtCore", "QConcatenateTablesProxyModel"); ("QtCore", "QEventLoop"); ("QtCore", "QFile");
    ("QtCore", "QFileSystemWatcher"); ("QtCore", "QIdentityProxyModel");
    ("QtCore", "QItemSelectionModel"); ("QtCore", "QLibrary"); ("QtCore", "QObject");
    ("QtCore", "QPluginLoader"); ("QtCore", "QProcess"); ("QtCore", "QSaveFile");
    ("QtCore", "QSettings"); ("QtCore", "QSignalMapper"); ("QtCore", "QSortFilterProxyModel");
    ("QtCore", "QStringListModel"); ("QtCore", "QTemporaryFile"); ("QtCore", "QThread");
    ("QtCore", "QThreadPool"); ("QtCore", "QTimer"); ("QtCore", "QTranslator");
    ("QtCore", "QTransposeProxyModel"); ("QtGui", "QAction"); ("QtGui", "QMovie");
    ("QtGui", "QShortcut"); ("QtGui", "QStandardItemModel"); ("QtGui", "QTextDocument");
    ("QtGui", "QUndoGroup"); ("QtGui", "QUndoStack"); ("QtWidgets", "QButtonGroup");
    ("QtWidgets", "QCalendarWidget"); ("QtWidgets", "QCheckBox"); ("QtWidgets", "QColorDialog");
    ("QtWidgets", "QComboBox"); ("QtWidgets", "QCommandLinkButton"); ("QtWidgets", "QDateEdit");
    ("QtWidgets", "QDateTimeEdit"); ("QtWidgets", "QDial"); ("QtWidgets", "QDialog");
    ("QtWidgets", "QDialogButtonBox"); ("QtWidgets", "QDockWidget");
    ("QtWidgets", "QDoubleSpinBox"); ("QtWidgets", "QFileDialog"); ("QtWidgets", "QFontComboBox");
    ("QtWidgets", "QFontDialog"); ("QtWidgets", "QFormLayout"); ("QtWidgets", "QFrame");
    ("QtWidgets", "QGraphicsScene"); ("QtWidgets", "QGraphicsView"); ("QtWidgets", "QGridLayout");
    ("QtWidgets", "QGroupBox"); ("QtWidgets", "QHBoxLayout"); ("QtWidgets", "QInputDialog");
    ("QtWidgets", "QKeySequenceEdit"); ("QtWidgets", "QLCDNumber"); ("QtWidgets", "QLabel");
    ("QtWidgets", "QLineEdit"); ("QtWidgets", "QListView"); ("QtWidgets", "QListWidget");
    ("QtWidgets", "QMainWindow"); ("QtWidgets", "QMdiArea"); ("QtWidgets", "QMenu");
    ("QtWidgets", "QMenuBar"); ("QtWidgets", "QMessageBox"); ("QtWidgets", "QPlainTextEdit");
    ("QtWidgets", "QProgressBar"); ("QtWidgets", "QProgressDialog"); ("QtWidgets", "QPushButton");
    ("QtWidgets", "QRadioButton"); ("QtWidgets", "QScrollArea"); ("QtWidgets", "QScrollBar");
    ("QtWidgets", "QSlider"); ("QtWidgets", "QSpinBox"); ("QtWidgets", "QSplitter");
    ("QtWidgets", "QStackedWidget"); ("QtWidgets", "QStatusBar"); ("QtWidgets", "QTabBar");
    ("QtWidgets", "QTabWidget"); ("QtWidgets", "QTableView"); ("QtWidgets", "QTableWidget");
    ("QtWidgets", "QTextBrowser"); ("QtWidgets", "QTextEdit"); ("QtWidgets", "QTimeEdit");
    ("QtWidgets", "QToolBar"); ("QtWidgets", "QToolButton"); ("QtWidgets", "QTreeView");
    ("QtWidgets", "QTreeWidget"); ("QtWidgets", "QUndoView"); ("QtWidgets", "QVBoxLayout");
    ("QtWidgets", "QWidget"); ("QtWidgets", "QWizard"); ("QtWidgets", "QWizardPage")
  ].

Section Registry.
Context {T : QtTypes} {QB : QtLib} {QW : QtWorld} {CT : CxxTraits} {GN : GeneratedNames} {G : Generated}.

(** ** The module registry *)

(** [module.hasClass(name) || module.metaObject(name) != nullptr]. *)
Definition provides (name : string) (m : gmodule) : bool :=
  m_hasClass m name || is_some_meta (m_metaObject m name).

(** [hasClass] asks only the first module of the given name. *)
Definition hasClass (qualifiedName : string) : bool :=
  match str_index_of "."%char qualifiedName with
  | Some n =>
      let moduleName := str_left n qualifiedName in
      let className := str_mid (S n) qualifiedName in
      match filter (fun m => m_name m = moduleName) modules with
      | m :: _ => provides className m
      | [] => false
      end
  | None => existsb (provides qualifiedName) modules
  end.

(** The loop that selects the only module accepted by [accepts]: [None] when a
    second one is met. *)
Fixpoint select_module (moduleName : string) (accepts : gmodule -> bool) (l : list gmodule)
    (selected : option gmodule) : option (option gmodule) :=
  match l with
  | [] => Some selected
  | m :: l' =>
      if negb (str_empty moduleName) && negb (bool_decide (moduleName = m_name m))
      then select_module moduleName accepts l' selected
      else if negb (accepts m) then select_module moduleName accepts l' selected
      else match selected with
           | Some _ => None
           | None => select_module moduleName accepts l' (Some m)
           end
  end.

Definition valueMetaType (qualifiedName error : string) : metatype * string :=
  let '(moduleName, className) := split_qualified qualifiedName in
  match select_module moduleName (fun m => mt_valid (m_valueType m className)) modules None with
  | None =>
      (MT_Invalid, q_arg "value type %1 is ambiguous across Qt modules; use Module.%1" className)
  | Some None => (MT_Invalid, error)
  | Some (Some m) => (m_valueType m className, error)
  end.

Definition classMetaObject (qualifiedName error : string) : option metaobject * string :=
  let '(moduleName, className) := split_qualified qualifiedName in
  match select_module moduleName (fun m => is_some_meta (m_metaObject m className)) modules None with
  | None => (None, q_arg "class %1 is ambiguous across Qt modules; use Module.%1" className)
  | Some None => (None, error)
  | Some (Some m) => (m_metaObject m className, error)
  end.

Definition construct (qualifiedName : string) (parent : option ptr) (error : string) :
    M (option ptr * string) :=
  let '(moduleName, className) := split_qualified qualifiedName in
  match select_module moduleName (provides className) modules None with
  | None => ret (None, q_arg "class %1 is ambiguous across Qt modules; use Module.%1" className)
  | Some None => ret (None, error)
  | Some (Some m) => m_construct m className parent error
  end.

(** The names of all modules, qualified, and those unique to one of them. *)
Definition published_names (names : gmodule -> list json) : list string :=
  let shorts := modules ≫= (fun m => to_string <$> names m) in
  let allNames := modules ≫= (fun m => (fun v => qualify (m_name m) (to_string v)) <$> names m) in
  sorted_set (allNames ++ counted_once shorts).

Definition availableValueTypes : list string := published_names m_valueTypeNames.

Definition availableConstructors : list string := published_names m_constructorNames.

Definition availableMetaObjects : list string :=
  modules ≫= (fun m => (fun v => qualify (m_name m) (to_string v)) <$> m_metaObjectNames m).

Definition classCount (name : string) : Z :=
  Z.of_nat (length (filter (fun m => provides name m = true) modules)).

Definition isExplicitConstructor (moduleName name : string) : bool :=
  bool_decide ((moduleName, name) ∈ explicit_constructors).

(** ** The dispatch files *)

Fixpoint try_invoke (l : list string) (object : option ptr) (className signature : string)
    (args : list json) (output : json) (error : string) : M (bool * json * string) :=
  match l with
  | [] => ret (false, output, error)
  | shard :: l' =>
      let! (handled, output, error) := g_invoke shard object className signature args output error in
      if handled : bool then ret (true, output, error)
      else try_invoke l' object className signature args output error
  end.

Definition invoke (object : option ptr) (className signature : string) (args : list json)
    (output : json) (error : string) : M (bool * json * string) :=
  try_invoke invoke_shards object className signature args output error.

Fixpoint try_construct (l : list (string * string)) (moduleName className : string)
    (parent : option ptr) (args : list json) (output : option ptr) (error : string) :
    M (bool * option ptr * string) :=
  match l with
  | [] => ret (false, output, error)
  | (_, shard) :: l' =>
      let! (handled, output, error) :=
        g_construct_args shard moduleName className parent args output error in
      if handled : bool then ret (true, output, error)
      else try_construct l' moduleName className parent args output error
  end.

Definition constructArguments (moduleName className : string) (parent : option ptr)
    (args : list json) (error : string) : M (bool * option ptr * string) :=
  try_construct constructor_shards moduleName className parent args None error.

Definition hasArgumentConstructor (moduleName className : string) : bool :=
  existsb (fun '(m, shard) =>
    (str_empty moduleName || bool_decide (moduleName = m)) &&
    str_mem className (g_constructor_classes shard)) constructor_shards.

Definition argumentConstructorModules (className : string) : list string :=
  (filter (fun '(_, shard) => str_mem className (g_constructor_classes shard) = true)
     constructor_shards).*1.

(** Unlike the lists of the registry, this one is not a set. *)
Definition availableArgumentConstructors : list string :=
  let shorts := constructor_shards ≫= (fun '(_, shard) => g_constructor_classes shard) in
  let qualifiedNames :=
    constructor_shards ≫= (fun '(m, shard) => qualify m <$> g_constructor_classes shard) in
  std_sort (qualifiedNames ++ counted_once shorts).

Fixpoint try_construct_value (l : list (string * string)) (moduleName className : string)
    (args : list json) (output : qvariant) (error : string) : M (bool * qvariant * string) :=
  match l with
  | [] => ret (false, output, error)
  | (m, shard) :: l' =>
      if str_empty moduleName || bool_decide (moduleName = m) then
        let! (handled, output, error) :=
          g_construct_value shard moduleName className args output error in
        if handled : bool then ret (true, output, error)
        else try_construct_value l' moduleName className args output error
      else try_construct_value l' moduleName className args output error
  end.

Definition constructValueArguments (moduleName className : string) (args : list json)
    (error : string) : M (bool * qvariant * string) :=
  try_construct_value value_constructor_shards moduleName className args VInvalid error.

Definition availableDirectValueConstructors : list string :=
  sorted_set (value_constructor_shards ≫= (fun '(_, shard) => g_value_constructor_classes shard)).

Fixpoint try_invoke_value (l : list string) (value : Z) (className signature : string)
    (args : list json) (output : json) (error : string) : M (bool * json * string) :=
  match l with
  | [] => ret (false, output, error)
  | shard :: l' =>
      let! (handled, output, error) :=
        g_invoke_value shard value className signature args output error in
      if handled : bool then ret (true, output, error)
      else try_invoke_value l' value className signature args output error
  end.

Definition invokeValue (value : Z) (className signature : string) (args : list json)
    (output : json) (error : string) : M (bool * json * string) :=
  try_invoke_value invoke_value_shards value className signature args output error.

Definition availableDirectValueTypes : list string :=
  sorted_set (invoke_value_shards ≫= g_direct_value_types).

End Registry.
