(* ===== verification/Convert.v ===== *)
(** Conversion between JSON and Qt values: the functions of qt6_bridge.cpp
    from [readNumber] to [toJson], with one definition per family of target
    types of [fromJson]. *)
From S2P Require Export Generated.

(** * Definitions *)

Definition char_nul : Ascii.ascii := "000"%char.
Definition char_lf : Ascii.ascii := "010"%char.
Definition char_cr : Ascii.ascii := "013"%char.

Definition hasNul (value : string) : bool := str_contains char_nul value.

Definition num (z : Z) : json := JDouble (double_of_Z z).

Definition pointObject (x y : double) : json :=
  make_object [("x"%string, JDouble x); ("y"%string, JDouble y)].

Definition sizeObject (width height : double) : json :=
  make_object [("width"%string, JDouble width); ("height"%string, JDouble height)].

Definition rectObject (x y width height : double) : json :=
  make_object [("x"%string, JDouble x); ("y"%string, JDouble y);
               ("width"%string, JDouble width); ("height"%string, JDouble height)].

Definition marginsObject (left top right bottom : double) : json :=
  make_object [("left"%string, JDouble left); ("top"%string, JDouble top);
               ("right"%string, JDouble right); ("bottom"%string, JDouble bottom)].

Definition lineObject (x1 y1 x2 y2 : double) : json :=
  make_object [("x1"%string, JDouble x1); ("y1"%string, JDouble y1);
               ("x2"%string, JDouble x2); ("y2"%string, JDouble y2)].

Definition readJsonInteger (value : json) : option Z :=
  match value with
  | JDouble raw => if int_in_range int_min int_max raw then Some (trunc_Z raw) else None
  | _ => None
  end.

Section Convert.
Context {T : QtTypes} {QB : QtLib} {QW : QtWorld} {CT : CxxTraits} {GN : GeneratedNames} {G : Generated}.

Definition readNumber (object : jmembers) (key : string) : res double :=
  match obj_value key object with
  | JDouble d =>
      if isfinite d then Ok d
      else Err (q_arg "Qt value field %1 must be a finite JSON number" key)
  | _ => Err (q_arg "Qt value field %1 must be a finite JSON number" key)
  end.

Definition readInteger (object : jmembers) (key : string) : res Z :=
  let? value := readNumber object key in
  if negb (dbl_eq (std_floor value) value) || dbl_lt value (double_of_Z int_min) ||
     dbl_gt value (double_of_Z int_max)
  then Err (q_arg "Qt value field %1 must be a 32-bit integer" key)
  else Ok (trunc_Z value).

(** An empty byte array when the image cannot be encoded. *)
Definition pngBase64 (image : qimage) : string :=
  match q_image_png image with
  | Some encoded => q_to_base64 encoded
  | None => estr
  end.

Definition decodePng (s : state) (value : json) : res qimage :=
  match value with
  | JString path =>
      match w_image_load (st_world s) path with
      | Some image => Ok image
      | None => Err (q_arg "Qt could not load image file %1" path)
      end
  | _ =>
      match obj_value "png_base64" (to_object value) with
      | JString text =>
          match q_from_base64 (q_to_latin1 text) with
          | None => Err "image png_base64 data is malformed"
          | Some bytes =>
              match q_image_from_data bytes with
              | None => Err "Qt could not decode the supplied image data"
              | Some image => Ok image
              end
          end
      | _ => Err ("image values must be a file path or {" ++ dquote ++ "png_base64" ++ dquote ++
                  ": " ++ dquote ++ "..." ++ dquote ++ "}")%string
      end
  end.

(** ** Enumerations *)

Definition find_enumerator (simpleName : string) (l : list metaenum) : option metaenum :=
  match filter (fun e => simpleName = me_name e) l with
  | e :: _ => Some e
  | [] => None
  end.

Definition enumForMetaType (type : metatype) : option metaenum :=
  match q_meta_object type with
  | None => None
  | Some metaObject =>
      if str_empty (mt_name type) then None
      else
        let raw := q_from_latin1 (mt_name type) in
        let typeName :=
          if str_starts_with "QFlags<" raw && str_ends_with ">"%char raw
          then str_left (String.length raw - 8) (str_mid 7 raw) else raw in
        let simpleName :=
          match str_last_index_of "::" typeName with
          | Some separator => str_mid (separator + 2) typeName
          | None => typeName
          end in
        find_enumerator simpleName (mo_enumerators metaObject)
  end.

(** The integer a JSON value gives for an enumeration, as 64 bits. *)
Definition enum_bits (value : json) (target : metatype) : res Z :=
  match value with
  | JString text =>
      match enumForMetaType target with
      | None => Err (q_arg "Qt enum metadata is unavailable for type %1; pass its integer value"
                       (q_from_latin1 (mt_name target)))
      | Some enumeration =>
          let key := str_remove " "%char (q_to_latin1 text) in
          let parsed := if me_is_flag enumeration then q_keys_to_value64 enumeration key
                        else q_key_to_value64 enumeration key in
          match parsed with
          | None => Err (q_arg2 "unknown key %1 for Qt enum %2" text (q_from_latin1 (mt_name target)))
          | Some bits => Ok bits
          end
      end
  | JDouble raw =>
      if negb (int_abs_at_most maximum_exact raw)
      then Err "Qt enum values must be finite, integral JSON numbers within the exact integer range"
      else Ok (trunc_Z raw mod 2 ^ 64)
  | _ => Err "Qt enum values must be a key string or integer"
  end.

(** Storing the bits in the integer type of the enumeration's size. *)
Definition fromJson_enum (value : json) (target : metatype) : res qvariant :=
  let? rawBits := enum_bits value target in
  let size := mt_size_of target in
  if bool_decide (size = 1) || bool_decide (size = 2) || bool_decide (size = 4) || bool_decide (size = 8)
  then Ok (VEnum (mt_name target) size (rawBits mod 2 ^ (8 * size)))
  else Err (q_arg "unsupported storage size for Qt enum type %1" (q_from_latin1 (mt_name target))).

(** ** Pointers and value handles *)

Definition fromJson_pointer (s : state) (value : json) (target : metatype) (class_name : string) :
    res qvariant :=
  match q_meta_object target with
  | None => Err (q_arg "Qt does not expose a class meta-object for pointer type %1"
                   (q_from_latin1 (mt_name target)))
  | Some targetClass =>
      match value with
      | JNull => Ok (VObject class_name None)
      | JObject o =>
          let? id := parseObjectId (obj_value "object_id" o) in
          match objectForId s id with
          | None => Err "QObject handle is closed or unknown"
          | Some nativeObject =>
              if w_cast (st_world s) targetClass nativeObject
              then Ok (VObject class_name (Some nativeObject))
              else Err (q_arg "QObject handle is not compatible with argument type %1"
                          (q_from_latin1 (mt_name target)))
          end
      | _ => Err ("QObject arguments must be null or {" ++ dquote ++ "object_id" ++ dquote ++
                  ": handle}")%string
      end
  end.

(** The range check on a [value_id]. *)
Definition parse_value_id (rawId : json) : option Z :=
  match rawId with
  | JDouble raw => if int_in_range 1 maximum_exact raw then Some (trunc_Z raw) else None
  | _ => None
  end.

(** A failed conversion leaves the converted variant behind, whose type is the
    one the message names first. *)
Definition fromJson_value_handle (s : state) (o : jmembers) (target : metatype) : res qvariant :=
  match parse_value_id (obj_value "value_id" o) with
  | None => Err "Qt value handle must be a positive integer value_id"
  | Some id =>
      match valueForId s id with
      | None => Err "Qt value handle is closed or unknown"
      | Some stored =>
          if bool_decide (v_type stored = target) then Ok stored
          else match q_convert stored target with
               | (true, converted) => Ok converted
               | (false, converted) =>
                   Err (q_arg2 "Qt value type %1 cannot be converted to %2"
                          (q_from_latin1 (mt_name (v_type converted)))
                          (q_from_latin1 (mt_name target)))
               end
      end
  end.

(** ** Containers *)

Definition fromJson_variant_map (value : json) (target : metatype) : res qvariant :=
  match value with
  | JObject o =>
      let map := (fun '(k, v) => (k, q_to_variant v)) <$> o in
      Ok (if bool_decide (target = MT_QVariantMap) then VVariantMap map else VVariantHash map)
  | _ => Err "Qt variant maps require a JSON object"
  end.

Fixpoint string_entries (o : jmembers) : res (list (string * string)) :=
  match o with
  | [] => Ok []
  | (k, JString text) :: o' => let? rest := string_entries o' in Ok ((k, text) :: rest)
  | _ :: _ => Err "Qt string map values must be strings"
  end.

Definition fromJson_string_map (value : json) (target : metatype) : res qvariant :=
  match value with
  | JObject o =>
      let? map := string_entries o in
      Ok (if bool_decide (target = MT_QStringMap) then VStringMap map else VStringHash map)
  | _ => Err "Qt string maps require a JSON object of string values"
  end.

Definition fromJson_json (value : json) (target : metatype) : res qvariant :=
  match target with
  | MT_QJsonObject =>
      match value with
      | JObject o => Ok (VJsonObject o)
      | _ => Err "QJsonObject arguments require a JSON object"
      end
  | MT_QJsonArray =>
      match value with
      | JArray a => Ok (VJsonArray a)
      | _ => Err "QJsonArray arguments require a JSON array"
      end
  | _ => Ok (VJsonValue value)
  end.

(** ** Geometry *)

Definition fromJson_geometry (value : json) (target : metatype) : res qvariant :=
  match value with
  | JObject o =>
      match target with
      | MT_QPoint =>
          let? x := readInteger o "x" in let? y := readInteger o "y" in Ok (VPoint x y)
      | MT_QPointF =>
          let? x := readNumber o "x" in let? y := readNumber o "y" in Ok (VPointF x y)
      | MT_QSize =>
          let? width := readInteger o "width" in let? height := readInteger o "height" in
          Ok (VSize width height)
      | MT_QSizeF =>
          let? width := readNumber o "width" in let? height := readNumber o "height" in
          Ok (VSizeF width height)
      | MT_QRect =>
          let? x := readInteger o "x" in let? y := readInteger o "y" in
          let? width := readInteger o "width" in let? height := readInteger o "height" in
          Ok (VRect x y width height)
      | MT_QRectF =>
          let? x := readNumber o "x" in let? y := readNumber o "y" in
          let? width := readNumber o "width" in let? height := readNumber o "height" in
          Ok (VRectF x y width height)
      | MT_QMargins =>
          let? l := readInteger o "left" in let? t := readInteger o "top" in
          let? r := readInteger o "right" in let? b := readInteger o "bottom" in
          Ok (VMargins l t r b)
      | _ =>
          let? l := readNumber o "left" in let? t := readNumber o "top" in
          let? r := readNumber o "right" in let? b := readNumber o "bottom" in
          Ok (VMarginsF l t r b)
      end
  | _ => Err "Qt geometry values must be JSON objects"
  end.

Definition fromJson_line (value : json) (target : metatype) : res qvariant :=
  match value with
  | JObject o =>
      match target with
      | MT_QLine =>
          let? x1 := readInteger o "x1" in let? y1 := readInteger o "y1" in
          let? x2 := readInteger o "x2" in let? y2 := readInteger o "y2" in Ok (VLine x1 y1 x2 y2)
      | _ =>
          let? x1 := readNumber o "x1" in let? y1 := readNumber o "y1" in
          let? x2 := readNumber o "x2" in let? y2 := readNumber o "y2" in Ok (VLineF x1 y1 x2 y2)
      end
  | _ => Err "QLine values must be JSON objects with x1, y1, x2, and y2 fields"
  end.

(** [std::numeric_limits<float>::max()], (2 - 2^-23) * 2^127. *)
Definition maximumFloat : double := double_of_Z ((2 ^ 24 - 1) * 2 ^ 104).

Definition exceeds_float (x : double) : bool := dbl_gt (std_abs x) maximumFloat.

Definition fromJson_vector (value : json) (target : metatype) : res qvariant :=
  let zero := S754_zero false in
  match value with
  | JObject o =>
      let? x := readNumber o "x" in
      let? y := readNumber o "y" in
      let? z := (if bool_decide (target = MT_QVector2D) then Ok zero else readNumber o "z") in
      let? w := (if bool_decide (target = MT_QVector4D) then readNumber o "w" else Ok zero) in
      if exceeds_float x || exceeds_float y || exceeds_float z || exceeds_float w
      then Err "Qt vector values must fit in a finite 32-bit float"
      else Ok (match target with
               | MT_QVector2D => VVector2D (to_float32 x) (to_float32 y)
               | MT_QVector3D => VVector3D (to_float32 x) (to_float32 y) (to_float32 z)
               | _ => VVector4D (to_float32 x) (to_float32 y) (to_float32 z) (to_float32 w)
               end)
  | _ => Err "Qt vector values must be JSON objects with x, y, z, and optionally w fields"
  end.

(** ** Values with a textual or structured form *)

Definition is_hex (c : Ascii.ascii) : bool :=
  let n := Z.of_nat (Ascii.nat_of_ascii c) in
  ((48 <=? n) && (n <=? 57)) || ((65 <=? n) && (n <=? 70)) || ((97 <=? n) && (n <=? 102)).

(** What follows [n] hexadecimal digits. *)
Fixpoint hex_run (n : nat) (s : string) : option string :=
  match n, s with
  | O, _ => Some s
  | S n', String c s' => if is_hex c then hex_run n' s' else None
  | S _, EmptyString => None
  end.

(** Groups of digits separated by dashes. *)
Fixpoint hex_groups (l : list nat) (s : string) : option string :=
  match l with
  | [] => Some s
  | [n] => hex_run n s
  | n :: l' =>
      match hex_run n s with
      | Some (String "-"%char s') => hex_groups l' s'
      | _ => None
      end
  end.

(** The end of a match of [uuidFormat]: [$] also matches before a final newline. *)
Definition at_line_end (rest : option string) : bool :=
  match rest with
  | Some EmptyString => true
  | Some (String c EmptyString) => bool_decide (c = char_lf)
  | _ => false
  end.

(** [uuidFormat.match(text).hasMatch()]. *)
Definition uuid_matches (text : string) : bool :=
  at_line_end (hex_groups [8; 4; 4; 4; 12]%nat text) || at_line_end (hex_run 32 text).

Definition fromJson_uuid (value : json) : res qvariant :=
  match value with
  | JString text =>
      let opensBrace := str_starts_with "{" text in
      let closesBrace := str_ends_with "}"%char text in
      if negb (Bool.eqb opensBrace closesBrace) then Err "invalid UUID brace format"
      else
        let uuidText := if opensBrace then str_left (String.length text - 2) (str_mid 1 text)
                        else text in
        if negb (uuid_matches uuidText) then Err "invalid UUID string"
        else Ok (VUuid (q_uuid uuidText))
  | _ => Err "QUuid values must use UUID string format"
  end.

Definition regexp_shape_error : string :=
  ("QRegularExpression values must be a pattern string or {" ++ dquote ++ "pattern" ++ dquote ++
   ": string, " ++ dquote ++ "options" ++ dquote ++ ": integer}")%string.

Definition fromJson_regexp (value : json) : res qvariant :=
  let? (pattern, options) :=
    match value with
    | JString pattern => Ok (pattern, 0)
    | JObject o =>
        match obj_value "pattern" o with
        | JString pattern =>
            let optionValue := obj_value "options" o in
            if is_undefined optionValue then Ok (pattern, 0)
            else match readJsonInteger optionValue with
                 | Some options => Ok (pattern, options)
                 | None => Err "QRegularExpression options must be a 32-bit integer bitmask"
                 end
        | _ => Err regexp_shape_error
        end
    | _ => Err regexp_shape_error
    end in
  let expression := q_regexp pattern options in
  match q_regexp_error expression with
  | Some errorString => Err (q_arg "invalid QRegularExpression: %1" errorString)
  | None => Ok (VRegularExpression expression)
  end.

Definition fromJson_geo (value : json) : res qvariant :=
  match value with
  | JObject o =>
      let? latitude := readNumber o "latitude" in
      let? longitude := readNumber o "longitude" in
      let altitudeValue := obj_value "altitude" o in
      let? coordinate :=
        (if is_undefined altitudeValue || is_null altitudeValue then Ok (q_geo latitude longitude)
         else match altitudeValue with
              | JDouble altitude =>
                  if isfinite altitude then Ok (q_geo_altitude latitude longitude altitude)
                  else Err "QGeoCoordinate altitude must be a finite number or null"
              | _ => Err "QGeoCoordinate altitude must be a finite number or null"
              end) in
      if negb (q_geo_valid coordinate)
      then Err "QGeoCoordinate latitude or longitude is outside its valid range"
      else Ok (VGeoCoordinate coordinate)
  | _ => Err "QGeoCoordinate values require a JSON object with latitude and longitude"
  end.

(** A byte that would let a header break out of its line. *)
Definition breaks_header (s : string) : bool :=
  str_contains char_cr s || str_contains char_lf s || str_contains char_nul s.

Fixpoint add_headers (o : jmembers) (request : qnetworkrequest) : res qnetworkrequest :=
  match o with
  | [] => Ok request
  | (key, JString text) :: o' =>
      let name := q_to_latin1 key in
      let content := q_to_latin1 text in
      if str_empty name || breaks_header name || breaks_header content
      then Err "QNetworkRequest header names and values must not contain CR, LF, or NUL"
      else add_headers o' (q_request_set_header name content request)
  | _ :: _ => Err "QNetworkRequest header values must be strings"
  end.

Definition request_shape_error : string :=
  ("QNetworkRequest values must be a URL string or {" ++ dquote ++ "url" ++ dquote ++
   ": string, " ++ dquote ++ "headers" ++ dquote ++ ": object}")%string.

Definition fromJson_request (value : json) : res qvariant :=
  let? (urlText, headers) :=
    match value with
    | JString urlText => Ok (urlText, [])
    | JObject o =>
        match obj_value "url" o with
        | JString urlText =>
            let headersValue := obj_value "headers" o in
            if negb (is_undefined headersValue) && negb (is_object headersValue)
            then Err "QNetworkRequest headers must be a JSON object of string values"
            else Ok (urlText, to_object headersValue)
        | _ => Err request_shape_error
        end
    | _ => Err request_shape_error
    end in
  let url := q_url urlText in
  match q_url_error url with
  | Some errorString => Err (q_arg "invalid QNetworkRequest URL: %1" errorString)
  | None =>
      let? request := add_headers headers (q_request url) in
      Ok (VNetworkRequest request)
  end.

Definition fromJson_image (s : state) (value : json) (target : metatype) : res qvariant :=
  let? image := decodePng s value in
  Ok (match target with
      | MT_QImage => VImage image
      | MT_QPixmap => VPixmap (q_pixmap_of_image image)
      | _ => VIcon (q_icon_of_pixmap (q_pixmap_of_image image))
      end).

(** The types whose JSON form is a string. *)
Definition fromJson_text (value : json) (target : metatype) : res qvariant :=
  match target with
  | MT_QHostAddress =>
      match value with
      | JString text =>
          match q_host text with
          | Some address => Ok (VHostAddress address)
          | None => Err "invalid IPv4 or IPv6 host address"
          end
      | _ => Err "QHostAddress values must be IPv4 or IPv6 address strings"
      end
  | MT_QColor =>
      match value with
      | JString text =>
          match q_color text with
          | Some color => Ok (VColor color)
          | None => Err "invalid QColor name or hexadecimal color string"
          end
      | _ => Err "QColor values must be a color name or #RRGGBB/#AARRGGBB string"
      end
  | MT_QDate =>
      match value with
      | JString text =>
          match q_date text with
          | Some date => Ok (VDate date)
          | None => Err "invalid ISO QDate value"
          end
      | _ => Err "QDate values must use ISO date strings"
      end
  | MT_QTime =>
      match value with
      | JString text =>
          match q_time text "HH:mm:ss.zzz" with
          | Some time => Ok (VTime time)
          | None =>
              match q_time text "HH:mm:ss" with
              | Some time => Ok (VTime time)
              | None => Err "invalid ISO QTime value"
              end
          end
      | _ => Err "QTime values must use HH:mm:ss[.zzz] strings"
      end
  | MT_QDateTime =>
      match value with
      | JString text =>
          match q_datetime_ms text with
          | Some dateTime => Ok (VDateTime dateTime)
          | None =>
              match q_datetime_iso text with
              | Some dateTime => Ok (VDateTime dateTime)
              | None => Err "invalid ISO QDateTime value"
              end
          end
      | _ => Err "QDateTime values must use ISO date-time strings"
      end
  | MT_QUrl =>
      match value with
      | JString text =>
          let url := q_url text in
          match q_url_error url with
          | Some errorString => Err (q_arg "invalid QUrl: %1" errorString)
          | None => Ok (VUrl url)
          end
      | _ => Err "QUrl values must be strings"
      end
  | MT_QFont =>
      match value with
      | JString text =>
          match q_font text with
          | Some font => Ok (VFont font)
          | None => Err "invalid QFont serialized value"
          end
      | _ => Err "QFont values must use QFont::toString() format"
      end
  | _ =>
      match value with
      | JString text => Ok (VKeySequence (q_keysequence text))
      | _ => Err "QKeySequence values must be PortableText strings"
      end
  end.

Definition fromJson_bytes (value : json) : res qvariant :=
  match obj_value "base64" (to_object value) with
  | JString text =>
      match q_from_base64 (q_to_latin1 text) with
      | Some bytes => Ok (VByteArray bytes)
      | None => Err "QByteArray base64 data is malformed"
      end
  | _ => Err ("QByteArray values must be {" ++ dquote ++ "base64" ++ dquote ++ ": " ++ dquote ++
              "..." ++ dquote ++ "}")%string
  end.

(** ** Integers and everything else *)

Definition fromJson_longlong (value : json) : res qvariant :=
  match value with
  | JDouble raw =>
      if negb (int_in_range (- maximum_exact) maximum_exact raw)
      then Err "64-bit integer JSON numbers must be integral and within the exact range; use a decimal string for larger values"
      else Ok (VLongLong (trunc_Z raw))
  | JString text =>
      match q_to_long_long text with
      | Some integer => Ok (VLongLong integer)
      | None => Err "invalid signed 64-bit decimal integer"
      end
  | _ => Err "64-bit integer arguments must be exact JSON numbers or decimal strings"
  end.

Definition fromJson_ulonglong (value : json) : res qvariant :=
  match value with
  | JDouble raw =>
      if negb (int_in_range 0 maximum_exact raw)
      then Err "unsigned 64-bit integer JSON numbers must be integral and within the exact range; use a decimal string for larger values"
      else Ok (VULongLong (trunc_Z raw))
  | JString text =>
      match q_to_ulong_long text with
      | Some integer => Ok (VULongLong integer)
      | None => Err "invalid unsigned 64-bit decimal integer"
      end
  | _ => Err "unsigned 64-bit integer arguments must be exact JSON numbers or decimal strings"
  end.

Definition is_integer_type (target : metatype) : bool :=
  match target with
  | MT_Int | MT_UInt | MT_LongLong | MT_ULongLong => true
  | _ => false
  end.

Definition fromJson_plain (value : json) (target : metatype) : res qvariant :=
  match value with
  | JDouble raw =>
      if is_integer_type target && negb (is_integral raw)
      then Err "integer Qt arguments require a finite integral JSON number"
      else if bool_decide (target = MT_UInt) &&
              (dbl_lt raw (double_of_Z 0) || dbl_gt raw (double_of_Z uint_max))
      then Err "unsigned Qt integer arguments must fit in 32 bits"
      else Ok (q_to_variant value)
  | _ => Ok (q_to_variant value)
  end.

(** The chain of tests on the target type: [converted] before the last check. *)
Definition fromJson_converted (s : state) (value : json) (target : metatype) : res qvariant :=
  match target with
  | MT_QObjectPtr class_name => fromJson_pointer s value target class_name
  | _ =>
      if obj_contains "value_id" (to_object value)
      then fromJson_value_handle s (to_object value) target
      else match target with
           | MT_Enum _ _ => fromJson_enum value target
           | MT_QVariantMap | MT_QVariantHash => fromJson_variant_map value target
           | MT_QStringMap | MT_QStringHash => fromJson_string_map value target
           | MT_QJsonValue | MT_QJsonObject | MT_QJsonArray => fromJson_json value target
           | MT_QPoint | MT_QPointF | MT_QSize | MT_QSizeF | MT_QRect | MT_QRectF
           | MT_QMargins | MT_QMarginsF => fromJson_geometry value target
           | MT_QLine | MT_QLineF => fromJson_line value target
           | MT_QVector2D | MT_QVector3D | MT_QVector4D => fromJson_vector value target
           | MT_QUuid => fromJson_uuid value
           | MT_QRegularExpression => fromJson_regexp value
           | MT_QGeoCoordinate => fromJson_geo value
           | MT_QNetworkRequest => fromJson_request value
           | MT_QImage | MT_QPixmap | MT_QIcon => fromJson_image s value target
           | MT_QHostAddress | MT_QColor | MT_QDate | MT_QTime | MT_QDateTime | MT_QUrl | MT_QFont
           | MT_QKeySequence => fromJson_text value target
           | MT_QByteArray => fromJson_bytes value
           | MT_LongLong => fromJson_longlong value
           | MT_ULongLong => fromJson_ulonglong value
           | _ => fromJson_plain value target
           end
  end.

Definition fromJson (s : state) (value : json) (target : metatype) : res qvariant :=
  if negb (mt_valid target) then Err "Qt does not expose a meta-type for this argument"
  else if bool_decide (target = MT_QVariant) then Ok (q_to_variant value)
  else
    let? converted := fromJson_converted s value target in
    if bool_decide (v_type converted = target) then Ok converted
    else match q_convert converted target with
         | (true, result) => Ok result
         | (false, _) => Err (q_arg "JSON value cannot be converted to Qt type %1"
                                (q_from_latin1 (mt_name target)))
         end.

(** ** Qt values to JSON *)

(** The two's complement value of [bits]. *)
Definition signed (size bits : Z) : Z :=
  if bits <? 2 ^ (8 * size - 1) then bits else bits - 2 ^ (8 * size).

Definition toJson_enum (type : metatype) (size bits : Z) : json :=
  if bool_decide (size = 1) || bool_decide (size = 2) || bool_decide (size = 4) then
    match enumForMetaType type with
    | Some enumeration => if negb (me_is_flag enumeration) then num (signed size bits) else num bits
    | None => num bits
    end
  else if bool_decide (size = 8) then num bits
  else JNull.

(** The class and name of an object without a handle are read through its
    pointer. *)
Definition toJson_object (s : state) (value : qvariant) : outcome json :=
  let objectPointer := MT_QObjectPtr "QObject" in
  let converted :=
    if bool_decide (v_type value = objectPointer) then (true, value)
    else q_convert value objectPointer in
  match converted with
  | (false, _) => Done JNull
  | (true, objectValue) =>
      match q_object_of objectValue with
      | None => Done JNull
      | Some object =>
          let id := idForObject s (Some object) in
          if id =? 0 then
            if w_alive (st_world s) object then
              Done (make_object
                [("class"%string, JString (q_from_latin1 (mo_class_name (w_meta (st_world s) object))));
                 ("object_name"%string, JString (w_object_name (st_world s) object))])
            else Crashed DanglingVariant
          else Done (make_object [("object_id"%string, num id)])
      end
  end.

Definition json_integer (lo hi z : Z) : json :=
  if (lo <=? z) && (z <=? hi) then num z else JString (q_number z).

Definition json_png (encoded : string) : json :=
  if str_empty encoded then JNull
  else make_object [("png_base64"%string, JString (q_from_latin1 encoded))].

Definition value_handle_json (id : Z) (type_name : string) : json :=
  make_object [("value_id"%string, num id); ("type"%string, JString type_name)].

(** The types without a JSON form of their own. *)
Definition toJson_other (value : qvariant) : M json :=
  let className := q_from_latin1 (mt_name (v_type value)) in
  if str_mem className availableDirectValueTypes || str_mem className availableDirectValueConstructors
  then
    let! id := registerValue value in
    ret (value_handle_json id className)
  else
    let v := q_from_variant value in
    ret (if is_undefined v then JNull else v).

(** The types whose JSON form is computed from the value alone: [None] for the
    others. *)
Definition toJson_pure (value : qvariant) : option json :=
  match value with
  | VLongLong z => Some (json_integer (- maximum_exact) maximum_exact z)
  | VULongLong z => Some (json_integer 0 maximum_exact z)
  | VJsonValue v => Some v
  | VJsonObject o => Some (JObject o)
  | VJsonArray a => Some (JArray a)
  | VStringMap m | VStringHash m => Some (make_object ((fun '(k, v) => (k, JString v)) <$> m))
  | VPoint x y => Some (pointObject (double_of_Z x) (double_of_Z y))
  | VPointF x y => Some (pointObject x y)
  | VSize w h => Some (sizeObject (double_of_Z w) (double_of_Z h))
  | VSizeF w h => Some (sizeObject w h)
  | VRect x y w h =>
      Some (rectObject (double_of_Z x) (double_of_Z y) (double_of_Z w) (double_of_Z h))
  | VRectF x y w h => Some (rectObject x y w h)
  | VLine x1 y1 x2 y2 =>
      Some (lineObject (double_of_Z x1) (double_of_Z y1) (double_of_Z x2) (double_of_Z y2))
  | VLineF x1 y1 x2 y2 => Some (lineObject x1 y1 x2 y2)
  | VVector2D x y => Some (pointObject x y)
  | VVector3D x y z =>
      Some (make_object [("x"%string, JDouble x); ("y"%string, JDouble y); ("z"%string, JDouble z)])
  | VVector4D x y z w =>
      Some (make_object [("x"%string, JDouble x); ("y"%string, JDouble y);
                         ("z"%string, JDouble z); ("w"%string, JDouble w)])
  | VUuid u => Some (JString (q_uuid_text u))
  | VRegularExpression r =>
      Some (make_object [("pattern"%string, JString (q_regexp_pattern r));
                         ("options"%string, num (q_regexp_options r))])
  | VImage i => Some (json_png (pngBase64 i))
  | VPixmap p => Some (json_png (pngBase64 (q_image_of_pixmap p)))
  | VIcon i => Some (json_png (pngBase64 (q_image_of_pixmap (q_pixmap_of_icon i))))
  | VMargins l t r b =>
      Some (marginsObject (double_of_Z l) (double_of_Z t) (double_of_Z r) (double_of_Z b))
  | VMarginsF l t r b => Some (marginsObject l t r b)
  | VColor c => Some (JString (q_color_name c))
  | VDate d => Some (JString (q_date_text d))
  | VTime t => Some (JString (q_time_text t "HH:mm:ss.zzz"))
  | VDateTime d => Some (JString (q_datetime_text d))
  | VUrl u => Some (JString (q_url_encoded u))
  | VFont f => Some (JString (q_font_text f))
  | VKeySequence k => Some (JString (q_keysequence_text k))
  | VByteArray bytes =>
      Some (make_object [("base64"%string, JString (q_from_latin1 (q_to_base64 bytes)))])
  | _ => None
  end.

(** The types tested before gadgets and enumerations. *)
Definition toJson_early (value : qvariant) : option json :=
  match value with
  | VGeoCoordinate g =>
      if negb (q_geo_valid g) then Some JNull
      else
        let '(latitude, longitude, altitude) := q_geo_fields g in
        let members := make_members [("latitude"%string, JDouble latitude);
                                     ("longitude"%string, JDouble longitude)] in
        Some (JObject (if isfinite altitude then obj_insert "altitude" (JDouble altitude) members
                       else members))
  | VHostAddress h => Some (JString (q_host_text h))
  | VNetworkRequest r =>
      let headers := make_object ((fun '(name, content) =>
        (q_from_latin1 name, JString (q_from_latin1 content))) <$> q_request_headers r) in
      Some (make_object [("url"%string, JString (q_url_encoded (q_request_url r)));
                         ("headers"%string, headers)])
  | _ => None
  end.

Definition is_gadget_type (type : metatype) : bool :=
  q_is_gadget type && is_some_meta (q_meta_object type).

Fixpoint toJson (value : qvariant) : M json :=
  let entries :=
    (fix entries (m : list (string * qvariant)) (o : jmembers) : M jmembers :=
       match m with
       | [] => ret o
       | (key, v) :: m' => let! j := toJson v in entries m' (obj_insert key j o)
       end) in
  if negb (v_valid value) then ret JNull
  else if mt_is_qobject_pointer (v_type value) then fun s => (toJson_object s value, s)
  else match toJson_early value with
  | Some j => ret j
  | None =>
      if is_gadget_type (v_type value) then
        let! id := registerValue value in
        ret (value_handle_json id (q_from_latin1 (mt_name (v_type value))))
      else match value with
      | VEnum name size bits => ret (toJson_enum (MT_Enum name size) size bits)
      | VVariantMap m | VVariantHash m => let! o := entries m [] in ret (JObject o)
      | _ =>
          match toJson_pure value with
          | Some j => ret j
          | None => toJson_other value
          end
      end
  end.

(** A list of values, in order. *)
Fixpoint toJson_list (l : list qvariant) : M (list json) :=
  match l with
  | [] => ret []
  | v :: l' => let! j := toJson v in let! js := toJson_list l' in ret (j :: js)
  end.

End Convert.
