(* ===== verification/Invoke.v ===== *)
(** Reflective calls: the functions of qt6_bridge.cpp from [buildArguments] to
    [metaObjectDescription], without object construction. *)
From S2P Require Export Convert.

(** * Definitions *)

(** The target of a reflective call: an object, or the entry of [values] that
    holds a gadget. *)
Inductive callee : Type :=
  | OnObject (object : ptr)
  | OnGadget (value : Z).

Section Invoke.
Context {T : QtTypes} {QB : QtLib} {QW : QtWorld} {CT : CxxTraits} {GN : GeneratedNames} {G : Generated}.

(** ** Arguments *)

(** The conversion loop; [error] is the text the last failed conversion left. *)
Fixpoint build_loop (s : state) (jsonArguments : list json) (types : list metatype)
    (values : list qvariant) (error : string) : res (list qvariant) :=
  match jsonArguments, types with
  | argument :: jsonArguments', type :: types' =>
      let '(converted, error) :=
        match fromJson s argument type with
        | Ok v => (v, error)
        | Err e => (VInvalid, e)
        end in
      if negb (v_valid converted) && negb (bool_decide (type = MT_Nullptr)) &&
         negb (bool_decide (type = MT_QVariant))
      then Err error
      else build_loop s jsonArguments' types' (values ++ [converted]) error
  | _, _ => Ok values
  end.

Definition buildArguments (s : state) (jsonArguments : list json) (types : list metatype) :
    res (list qvariant) :=
  if negb (bool_decide (length jsonArguments = length types))
  then Err (q_arg (q_arg "expected %1 argument(s), got %2" (q_number (Z.of_nat (length types))))
              (q_number (arr_size jsonArguments)))
  else if kMaxInvocationArguments <? arr_size jsonArguments
  then Err "this reflective call supports at most 10 arguments"
  else build_loop s jsonArguments types [] estr.

(** ** Class hierarchies *)

Fixpoint metaInherits (m : metaobject) (className : string) : bool :=
  let '(MetaObject name super _ _ _ _) := m in
  if bool_decide (name = className) then true
  else match super with
       | Some m' => metaInherits m' className
       | None => false
       end.

(** ** Method calls *)

(** Replacing the contents of an entry of [values] in place. *)
Definition store_value (id : Z) (v : qvariant) : M unit :=
  update_bridge (fun b => set_values (<[id := v]> (values b)) b).

Definition is_void (t : metatype) : bool := bool_decide (t = MT_Void).

(** [method.invoke] and [method.invokeOnGadget]. *)
Definition call_method (method : metamethod) (target : callee) (arguments : list qvariant) :
    M (bool * qvariant) :=
  match target with
  | OnObject object => call (Invoke method object arguments)
  | OnGadget id =>
      let! s := get_state in
      match valueForId s id with
      | None => crash UseAfterFree
      | Some gadget =>
          let! (gadget', result) := call (InvokeOnGadget method gadget arguments) in
          let! _ := store_value id gadget' in
          resume result
      end
  end.

Definition invokeMethod (metaObject : metaobject) (target : callee) (rawSignature : string)
    (jsonArguments : list json) : M (res json) :=
  if hasNul rawSignature
  then ret (Err "method signature must not contain NUL characters")
  else
    let signature := q_normalized_signature rawSignature in
    if str_empty signature
    then ret (Err "method must use a normalized signature, for example setText(QString)")
    else match q_index_of_method metaObject signature with
    | None => ret (Err (q_arg "method %1 is not exposed as a Qt slot or invokable method"
                          (q_from_latin1 signature)))
    | Some method =>
        if bool_decide (mm_type method = MSignal) || negb (bool_decide (mm_access method = APublic))
        then ret (Err "only public non-signal methods can be invoked")
        else
          let! s := get_state in
          match buildArguments s jsonArguments (mm_parameter_types method) with
          | Err error => ret (Err error)
          | Ok arguments =>
              let returnType := mm_return_type method in
              let returns := mt_valid returnType && negb (is_void returnType) in
              if returns && negb (v_valid (q_default_variant returnType))
              then ret (Err (q_arg "Qt cannot construct return type %1"
                               (q_from_latin1 (mt_name returnType))))
              else
                let! (invoked, returnValue) := call_method method target arguments in
                if negb invoked
                then ret (Err (q_arg "Qt rejected the method arguments for %1"
                                 (q_from_latin1 signature)))
                else if returns then let! j := toJson returnValue in ret (Ok j)
                else ret (Ok JNull)
          end
    end.

(** ** Properties *)

Definition setProperty (object : ptr) (name : string) (jsonValue : json) : M (res unit) :=
  if str_empty name || hasNul name
  then ret (Err "property name must be non-empty and contain no NUL character")
  else
    let! s := get_state in
    match q_index_of_property (w_meta (st_world s) object) name with
    | None =>
        let! _ := call (QObject_setProperty object name (q_to_variant jsonValue)) in
        let! s' := get_state in
        if str_mem name (w_dynamic_property_names (st_world s') object) then ret (Ok tt)
        else ret (Err (q_arg "unknown Qt property %1" name))
    | Some property =>
        if negb (mp_writable property)
        then ret (Err (q_arg "Qt property %1 is read-only" name))
        else
          let '(converted, error) :=
            match fromJson s jsonValue (mp_type property) with
            | Ok v => (v, estr)
            | Err e => (VInvalid, e)
            end in
          if negb (v_valid converted) && negb (bool_decide (mp_type property = MT_Nullptr))
          then ret (Err error)
          else
            let! written := call (WriteProperty object property converted) in
            if written : bool then ret (Ok tt)
            else ret (Err (q_arg "Qt rejected a value for property %1" name))
    end.

(** ** Descriptions *)

Definition describe_property (p : metaproperty) : json :=
  make_object [("name"%string, JString (q_from_latin1 (mp_name p)));
               ("type"%string, JString (q_from_latin1 (mt_name (mp_type p))));
               ("readable"%string, JBool (mp_readable p));
               ("writable"%string, JBool (mp_writable p));
               ("designable"%string, JBool (mp_designable p));
               ("stored"%string, JBool (mp_stored p))].

(** The parameters: [parameterNames.value(p)] is empty past the end. *)
Definition describe_parameters (m : metamethod) : json :=
  JArray (imap (fun p type =>
    make_object [("name"%string, JString (q_from_latin1 (default estr (mm_parameter_names m !! p))));
                 ("type"%string, JString (q_from_latin1 type))]) (mm_parameter_type_names m)).

Definition kind_name (t : method_type) : string :=
  match t with
  | MSignal => "signal" | MSlot => "slot" | MConstructor => "constructor" | MMethod => "method"
  end.

Definition access_name (a : access) : string :=
  match a with APrivate => "private" | AProtected => "protected" | APublic => "public" end.

Definition is_invokable (m : metamethod) : bool :=
  mm_valid m && negb (bool_decide (mm_type m = MSignal)) &&
  negb (bool_decide (mm_type m = MConstructor)) && bool_decide (mm_access m = APublic).

Definition describe_method (m : metamethod) : json :=
  make_object [("signature"%string, JString (q_from_latin1 (mm_signature m)));
               ("kind"%string, JString (kind_name (mm_type m)));
               ("access"%string, JString (access_name (mm_access m)));
               ("return_type"%string, JString (q_from_latin1 (default "void"%string (mm_type_name m))));
               ("parameters"%string, describe_parameters m);
               ("invokable"%string, JBool (is_invokable m))].

Definition enum_keys (e : metaenum) : json :=
  JObject (fold_left (fun o '(key, value) => obj_insert (q_from_latin1 key) (num value) o)
             (me_keys e) []).

Definition describe_enumerator (e : metaenum) : json :=
  make_object [("name"%string, JString (q_from_latin1 (me_name e)));
               ("scope"%string, JString (q_from_latin1 (me_scope e)));
               ("is_flag"%string, JBool (me_is_flag e));
               ("keys"%string, enum_keys e)].

Definition superclass_name (m : metaobject) : json :=
  match mo_super m with
  | None => JNull
  | Some s => JString (q_from_latin1 (mo_class_name s))
  end.

Definition metaObjectDescription (m : metaobject) : json :=
  make_object [("class"%string, JString (q_from_latin1 (mo_class_name m)));
               ("superclass"%string, superclass_name m);
               ("properties"%string, JArray (describe_property <$> mo_properties m));
               ("methods"%string, JArray (describe_method <$> mo_methods m));
               ("enumerators"%string, JArray (describe_enumerator <$> mo_enumerators m))].

End Invoke.
