(* ===== verification/Create.v ===== *)
(** Construction of objects: [adopt], [constructInvokable] and [createObject]
    of qt6_bridge.cpp. *)
From S2P Require Export Invoke.

(** * Definitions *)

(** The [if] lines of createObject that build a class themselves. *)
Inductive row_guard : Set := NoArgs | OptionalText.

Inductive row_arg : Set :=
  | WidgetParent | Parent | Text | EmptyText | EmptyBytes | Null | Enumerator (name : string).

Inductive explicit_row : Set :=
  | Row (class_name : string) (guard : row_guard) (args : list row_arg)
  | AxRow (class_name : string) (guard : row_guard) (args : list row_arg)
  | TableWidgetRow
  | SelectionModelRow
  | SettingsRow.

Definition explicit_rows : list explicit_row :=
  [
    Row "QWidget" NoArgs [WidgetParent];
    Row "QMainWindow" NoArgs [WidgetParent];
    Row "QPushButton" OptionalText [Text; WidgetParent];
    Row "QToolButton" NoArgs [WidgetParent];
    Row "QLabel" OptionalText [Text; WidgetParent];
    Row "QLineEdit" OptionalText [Text; WidgetParent];
    Row "QTextEdit" OptionalText [Text; WidgetParent];
    Row "QPlainTextEdit" OptionalText [Text; WidgetParent];
    Row "QCheckBox" OptionalText [Text; WidgetParent];
    Row "QRadioButton" OptionalText [Text; WidgetParent];
    Row "QComboBox" NoArgs [WidgetParent];
    Row "QSpinBox" NoArgs [WidgetParent];
    Row "QDoubleSpinBox" NoArgs [WidgetParent];
    Row "QSlider" NoArgs [Enumerator "Qt::Horizontal"; WidgetParent];
    Row "QScrollBar" NoArgs [Enumerator "Qt::Vertical"; WidgetParent];
    Row "QDial" NoArgs [WidgetParent];
    Row "QProgressBar" NoArgs [WidgetParent];
    Row "QGroupBox" OptionalText [Text; WidgetParent];
    Row "QTabWidget" NoArgs [WidgetParent];
    Row "QTabBar" NoArgs [WidgetParent];
    Row "QStackedWidget" NoArgs [WidgetParent];
    Row "QVBoxLayout" NoArgs [WidgetParent];
    Row "QHBoxLayout" NoArgs [WidgetParent];
    Row "QFormLayout" NoArgs [WidgetParent];
    Row "QGridLayout" NoArgs [WidgetParent];
    Row "QStatusBar" NoArgs [WidgetParent];
    Row "QDialog" NoArgs [WidgetParent];
    Row "QDialogButtonBox" NoArgs [WidgetParent];
    Row "QCalendarWidget" NoArgs [WidgetParent];
    Row "QDateEdit" NoArgs [WidgetParent];
    Row "QDateTimeEdit" NoArgs [WidgetParent];
    Row "QTimeEdit" NoArgs [WidgetParent];
    Row "QLCDNumber" NoArgs [WidgetParent];
    Row "QScrollArea" NoArgs [WidgetParent];
    Row "QSplitter" NoArgs [Enumerator "Qt::Horizontal"; WidgetParent];
    Row "QTableWidget" NoArgs [WidgetParent];
    TableWidgetRow;
    Row "QTreeWidget" NoArgs [WidgetParent];
    Row "QListWidget" NoArgs [WidgetParent];
    Row "QTableView" NoArgs [WidgetParent];
    Row "QTreeView" NoArgs [WidgetParent];
    Row "QListView" NoArgs [WidgetParent];
    Row "QGraphicsView" NoArgs [WidgetParent];
    Row "QMdiArea" NoArgs [WidgetParent];
    Row "QToolBar" OptionalText [Text; WidgetParent];
    Row "QMenuBar" NoArgs [WidgetParent];
    Row "QMenu" OptionalText [Text; WidgetParent];
    Row "QFrame" NoArgs [WidgetParent];
    Row "QDockWidget" OptionalText [Text; WidgetParent];
    Row "QWizard" NoArgs [WidgetParent];
    Row "QWizardPage" NoArgs [WidgetParent];
    Row "QFontComboBox" NoArgs [WidgetParent];
    Row "QKeySequenceEdit" NoArgs [WidgetParent];
    Row "QMessageBox" NoArgs [WidgetParent];
    Row "QFileDialog" NoArgs [WidgetParent];
    Row "QColorDialog" NoArgs [WidgetParent];
    Row "QFontDialog" NoArgs [WidgetParent];
    Row "QInputDialog" NoArgs [WidgetParent];
    Row "QProgressDialog" NoArgs [WidgetParent];
    AxRow "QAxObject" OptionalText [Text; Parent];
    AxRow "QAxWidget" OptionalText [Text; WidgetParent];
    Row "QCommandLinkButton" OptionalText [Text; EmptyText; WidgetParent];
    Row "QTimer" NoArgs [Parent];
    Row "QAction" OptionalText [Text; Parent];
    Row "QButtonGroup" NoArgs [Parent];
    Row "QStringListModel" NoArgs [Parent];
    Row "QStandardItemModel" NoArgs [Parent];
    Row "QSortFilterProxyModel" NoArgs [Parent];
    Row "QObject" NoArgs [Parent];
    Row "QBuffer" NoArgs [Parent];
    Row "QConcatenateTablesProxyModel" NoArgs [Parent];
    Row "QEventLoop" NoArgs [Parent];
    Row "QFile" NoArgs [Parent];
    Row "QFile" OptionalText [Text; Parent];
    Row "QFileSystemWatcher" NoArgs [Parent];
    Row "QIdentityProxyModel" NoArgs [Parent];
    Row "QItemSelectionModel" NoArgs [Null; Parent];
    SelectionModelRow;
    Row "QLibrary" NoArgs [Parent];
    Row "QLibrary" OptionalText [Text; Parent];
    Row "QPluginLoader" NoArgs [Parent];
    Row "QPluginLoader" OptionalText [Text; Parent];
    Row "QProcess" NoArgs [Parent];
    Row "QSaveFile" NoArgs [Parent];
    Row "QSaveFile" OptionalText [Text; Parent];
    Row "QSettings" NoArgs [Parent];
    Row "QSettings" OptionalText [Text; EmptyText; Parent];
    SettingsRow;
    Row "QSignalMapper" NoArgs [Parent];
    Row "QTemporaryFile" NoArgs [Parent];
    Row "QTemporaryFile" OptionalText [Text; Parent];
    Row "QThread" NoArgs [Parent];
    Row "QThreadPool" NoArgs [Parent];
    Row "QTranslator" NoArgs [Parent];
    Row "QTransposeProxyModel" NoArgs [Parent];
    Row "QMovie" NoArgs [Parent];
    Row "QMovie" OptionalText [Text; EmptyBytes; Parent];
    Row "QShortcut" NoArgs [Parent];
    Row "QTextDocument" NoArgs [Parent];
    Row "QTextDocument" OptionalText [Text; Parent];
    Row "QUndoGroup" NoArgs [Parent];
    Row "QUndoStack" NoArgs [Parent];
    Row "QGraphicsScene" NoArgs [Parent];
    Row "QTextBrowser" NoArgs [WidgetParent];
    Row "QUndoView" NoArgs [WidgetParent]
  ].

Definition widgetClasses : list string :=
  [
    "QWidget"; "QMainWindow"; "QPushButton"; "QToolButton"; "QLabel"; "QLineEdit"; "QTextEdit";
    "QPlainTextEdit"; "QCheckBox"; "QRadioButton"; "QComboBox"; "QSpinBox"; "QDoubleSpinBox";
    "QSlider"; "QScrollBar"; "QDial"; "QProgressBar"; "QGroupBox"; "QTabWidget"; "QTabBar";
    "QStackedWidget"; "QVBoxLayout"; "QHBoxLayout"; "QFormLayout"; "QGridLayout"; "QStatusBar";
    "QDialog"; "QDialogButtonBox"; "QCalendarWidget"; "QDateEdit"; "QDateTimeEdit"; "QTimeEdit";
    "QLCDNumber"; "QScrollArea"; "QSplitter"; "QTableWidget"; "QTreeWidget"; "QListWidget";
    "QTableView"; "QTreeView"; "QListView"; "QGraphicsView"; "QMdiArea"; "QToolBar"; "QMenuBar";
    "QMenu"; "QFrame"; "QDockWidget"; "QAxWidget"; "QWizard"; "QWizardPage"; "QFontComboBox";
    "QKeySequenceEdit"; "QMessageBox"; "QFileDialog"; "QColorDialog"; "QFontDialog"; "QInputDialog";
    "QProgressDialog"; "QCommandLinkButton"; "QTextBrowser"; "QUndoView"
  ].

(** Whether the ActiveX container module is compiled in
    (KRY_QT6_HAS_AXCONTAINER). *)
Class BuildFlags := { has_axcontainer : bool }.

Section Create.
Context {T : QtTypes} {QB : QtLib} {QW : QtWorld} {CT : CxxTraits} {GN : GeneratedNames} {G : Generated} {BF : BuildFlags}.

(** ** Parents *)

(** [created->parent() == nullptr] or another comparison with the parent. *)
Definition parent_of (p : ptr) : M (option ptr) :=
  let! s := get_state in ret (w_parent (st_world s) p).

Definition layout_of (w : ptr) : M (option ptr) :=
  let! s := get_state in ret (w_layout (st_world s) w).

Definition cast (class_name : string) (p : option ptr) : M (option ptr) :=
  let! s := get_state in ret (cast_to (st_world s) class_name p).

Definition adopt (object parent : option ptr) (error : string) : M (option ptr * string) :=
  match object, parent with
  | Some o, Some p =>
      let! current := parent_of o in
      let already := bool_decide (current = Some p) in
      let! s := get_state in
      let is_a c := w_is_a (st_world s) c o in
      if is_a "QWidget"%string then
        if already then ret (object, error)
        else if negb (w_is_a (st_world s) "QWidget" p)
        then ret (None, "widget constructors require a QWidget parent"%string)
        else let! _ := call (QWidget_setParent o p) in ret (object, error)
      else if is_a "QWindow"%string then
        if already then ret (object, error)
        else if negb (w_is_a (st_world s) "QWindow" p)
        then ret (None, "window constructors require a QWindow parent"%string)
        else let! _ := call (QWindow_setParent o p) in ret (object, error)
      else if is_a "QLayout"%string then
        if negb (w_is_a (st_world s) "QWidget" p)
        then ret (None, "layout constructors require a QWidget parent"%string)
        else if bool_decide (w_layout (st_world s) p = Some o) then ret (object, error)
        else if negb (is_null_ptr (w_layout (st_world s) p))
        then ret (None, "QWidget already has a layout"%string)
        else let! _ := call (QWidget_setLayout p o) in ret (object, error)
      else if is_a "Qt3DCore::QNode"%string then
        if already then ret (object, error)
        else if negb (w_is_a (st_world s) "Qt3DCore::QNode" p)
        then ret (None, "Qt 3D constructors require a Qt3DCore.QNode parent"%string)
        else let! _ := call (QNode_setParent o p) in ret (object, error)
      else
        if already then ret (object, error)
        else let! _ := call (QObject_setParent o p) in ret (object, error)
  | _, _ => ret (object, error)
  end.

(** ** Invokable constructors *)

Definition is_node_class (m : metaobject) : bool :=
  metaInherits m "QNode" || metaInherits m "Qt3DCore::QNode".

(** The checks on the parent, in order. *)
Definition parent_error (w : world) (m : metaobject) (parent : option ptr) : option string :=
  match parent with
  | None => None
  | Some p =>
      if metaInherits m "QWidget" && negb (w_is_a w "QWidget" p)
      then Some "widget constructors require a QWidget parent"%string
      else if metaInherits m "QWindow" && negb (w_is_a w "QWindow" p)
      then Some "window constructors require a QWindow parent"%string
      else if metaInherits m "QLayout" && negb (w_is_a w "QWidget" p)
      then Some "layout constructors require a QWidget parent"%string
      else if metaInherits m "QLayout" && negb (is_null_ptr (w_layout w p))
      then Some "QWidget already has a layout"%string
      else if is_node_class m && negb (w_is_a w "Qt3DCore::QNode" p)
      then Some "Qt 3D constructors require a Qt3DCore.QNode parent"%string
      else None
  end.

(** Attaching a created object that Qt did not give a parent. *)
Definition attach (m : metaobject) (created : ptr) (parent : option ptr) : M unit :=
  match parent with
  | None => ret tt
  | Some p =>
      let! current := parent_of created in
      if negb (is_null_ptr current) then ret tt
      else if metaInherits m "QWidget" then call (QWidget_setParent created p)
      else if metaInherits m "QWindow" then call (QWindow_setParent created p)
      else if metaInherits m "QLayout" then call (QWidget_setLayout p created)
      else if is_node_class m then call (QNode_setParent created p)
      else call (QObject_setParent created p)
  end.

Fixpoint construct_loop (m : metaobject) (parent : option ptr) (jsonArguments : list json)
    (l : list metamethod) (considered : list string) : M (option ptr * list string) :=
  match l with
  | [] => ret (None, considered)
  | constructor :: l' =>
      if negb (bool_decide (mm_access constructor = APublic)) ||
         negb (bool_decide (length (mm_parameter_types constructor) = length jsonArguments))
      then construct_loop m parent jsonArguments l' considered
      else
        let! s := get_state in
        match buildArguments s jsonArguments (mm_parameter_types constructor) with
        | Err _ => construct_loop m parent jsonArguments l' considered
        | Ok arguments =>
            let considered := considered ++ [q_from_latin1 (mm_signature constructor)] in
            let! created := call (NewInstance m arguments) in
            match created with
            | None => construct_loop m parent jsonArguments l' considered
            | Some o => let! _ := attach m o parent in ret (Some o, considered)
            end
        end
  end.

Definition constructInvokable (m : metaobject) (parent : option ptr) (jsonArguments : list json)
    (error : string) : M (option ptr * string) :=
  if kMaxInvocationArguments <? arr_size jsonArguments
  then ret (None, "this reflective constructor supports at most 10 arguments"%string)
  else
    let! s := get_state in
    match parent_error (st_world s) m parent with
    | Some e => ret (None, e)
    | None =>
        let! (created, considered) := construct_loop m parent jsonArguments (mo_constructors m) [] in
        match created with
        | Some o => ret (Some o, error)
        | None =>
            let className := q_from_latin1 (mo_class_name m) in
            ret (None,
              match considered with
              | [] => q_arg (q_arg "%1 exposes no public Q_INVOKABLE constructor with %2 compatible argument(s)"
                               className) (q_number (arr_size jsonArguments))
              | _ => q_arg2 "Qt could not construct %1 with the matching invokable constructor(s): %2"
                       className (str_join ", " considered)
              end)
        end
    end.

(** ** createObject *)

(** Whether the class name denotes a class of one module: the checks made
    before anything is constructed. *)
Definition class_error (requestedClassName : string) : option string :=
  match str_index_of "."%char requestedClassName with
  | Some n =>
      let moduleName := str_left n requestedClassName in
      let className := str_mid (S n) requestedClassName in
      if negb (hasClass requestedClassName) && negb (hasArgumentConstructor moduleName className)
      then Some (q_arg "Qt class %1 has no native constructor in this package" requestedClassName)
      else None
  | None =>
      let className := requestedClassName in
      let availableModules :=
        sorted_set ((m_name <$> filter (fun m => provides className m = true) modules) ++
                    argumentConstructorModules className) in
      if (1 <? Z.of_nat (length availableModules))
      then Some (q_arg "class %1 is ambiguous across Qt modules; use Module.%1" className)
      else None
  end.

Definition creates_layout (className : string) : bool :=
  str_mem className ["QVBoxLayout"; "QHBoxLayout"; "QFormLayout"; "QGridLayout"]%string.

Definition optional_text (args : list json) : bool :=
  match args with
  | [] => true
  | [a] => is_string a
  | _ => false
  end.

Definition guard_holds (g : row_guard) (args : list json) : bool :=
  match g with
  | NoArgs => arr_empty args
  | OptionalText => optional_text args
  end.

Definition cxx_args (l : list row_arg) (text : string) (parent widgetParent : option ptr) :
    list cxx_arg :=
  (fun a => match a with
            | WidgetParent => AObject widgetParent
            | Parent => AObject parent
            | Text => AText text
            | EmptyText => AText estr
            | EmptyBytes => AByteArray estr
            | Null => AObject None
            | Enumerator n => AEnumerator n
            end) <$> l.

(** The chain of explicit constructors: [None] when no line applies. *)
Fixpoint explicit_construct (rows : list explicit_row) (className : string) (args : list json)
    (parent widgetParent : option ptr) (error : string) : M (option (option ptr * string)) :=
  let text := to_string (arr_first args) in
  match rows with
  | [] => ret None
  | row :: rows' =>
      let continue := explicit_construct rows' className args parent widgetParent error in
      let build c g l :=
        if bool_decide (className = c) && guard_holds g args
        then let! o := call (QNew c (cxx_args l text parent widgetParent)) in ret (Some (Some o, error))
        else continue in
      match row with
      | Row c g l => build c g l
      | AxRow c g l => if has_axcontainer then build c g l else continue
      | TableWidgetRow =>
          match args with
          | [JDouble rows_; JDouble columns] =>
              if bool_decide (className = "QTableWidget"%string) then
                if int_in_range 0 int_max rows_ && int_in_range 0 int_max columns then
                  let! o := call (QNew "QTableWidget"
                    [AInt (trunc_Z rows_); AInt (trunc_Z columns); AObject widgetParent]) in
                  ret (Some (Some o, error))
                else ret (Some (None,
                  "QTableWidget row and column counts must be non-negative 32-bit integers"%string))
              else continue
          | _ => continue
          end
      | SelectionModelRow =>
          if bool_decide (className = "QItemSelectionModel"%string) && (arr_size args =? 1) then
            let! s := get_state in
            match objectArgument s args 0 with
            | Err e => ret (Some (None, e))
            | Ok p =>
                if w_is_a (st_world s) "QAbstractItemModel" p then
                  let! o := call (QNew "QItemSelectionModel" [AObject (Some p); AObject parent]) in
                  ret (Some (Some o, error))
                else ret (Some (None,
                  if str_empty error then "QItemSelectionModel expects a QAbstractItemModel handle"%string
                  else error))
            end
          else continue
      | SettingsRow =>
          match args with
          | [JString organization; JString application_] =>
              if bool_decide (className = "QSettings"%string) then
                let! o := call (QNew "QSettings"
                  [AText organization; AText application_; AObject parent]) in
                ret (Some (Some o, error))
              else continue
          | _ => continue
          end
      end
  end.

(** The native constructors that take arguments, then the meta-object's. *)
Definition create_reflectively (requestedClassName moduleName className : string)
    (parent : option ptr) (args : list json) (error : string) : M (option ptr * string) :=
  let! (handled, generatedWithArguments, error) :=
    constructArguments moduleName className parent args error in
  if handled && negb (is_null_ptr generatedWithArguments) then ret (generatedWithArguments, error)
  else if handled && negb (str_empty error) then ret (None, error)
  else
    let '(metaObject, error) := classMetaObject requestedClassName error in
    if negb (str_empty error) then ret (None, error)
    else
      let! (created, error) :=
        match metaObject with
        | None => ret (None, error)
        | Some m => constructInvokable m parent args error
        end in
      match created with
      | Some o => ret (Some o, error)
      | None =>
          ret (None, if str_empty error
                     then q_arg "class %1 has no native constructor binding yet" className
                     else error)
      end.

(** The generated default constructor, for a call without arguments. *)
Definition create_generated (requestedClassName moduleName className : string)
    (parent : option ptr) (args : list json) (error : string) : M (option ptr * string) :=
  if arr_empty args then
    let! (generated, error) := construct requestedClassName parent error in
    match generated with
    | Some o => ret (Some o, error)
    | None =>
        if negb (str_empty error) then ret (None, error)
        else create_reflectively requestedClassName moduleName className parent args error
    end
  else create_reflectively requestedClassName moduleName className parent args error.

(** Called with an empty [*error]. *)
Definition createObject (requestedClassName : string) (parent : option ptr) (args : list json) :
    M (option ptr * string) :=
  let '(moduleName, className) := split_qualified requestedClassName in
  match class_error requestedClassName with
  | Some e => ret (None, e)
  | None =>
      let! s := get_state in
      let w := st_world s in
      let widgetParent := cast_to w "QWidget" parent in
      if negb (is_null_ptr parent) && str_mem className widgetClasses && is_null_ptr widgetParent
      then ret (None, q_arg "class %1 requires a QWidget parent" className)
      else if creates_layout className &&
              match widgetParent with
              | Some q => negb (is_null_ptr (w_layout w q))
              | None => false
              end
      then ret (None, "QWidget already has a layout"%string)
      else
        let generated := create_generated requestedClassName moduleName className parent args estr in
        if str_empty moduleName || isExplicitConstructor moduleName className then
          let! explicit := explicit_construct explicit_rows className args parent widgetParent estr in
          match explicit with
          | Some r => ret r
          | None => generated
          end
        else generated
  end.

End Create.
