(* ===== verification/ShardRuns.v ===== *)
(** What the code of a generated shard does, given its rows: conversion of the
    arguments, the call, conversion of the result, construction. The functions
    follow the blocks of the shards line by line; the preprocessor and
    [if constexpr] are tests on [CxxTraits]. *)
From stdpp Require Import pretty.
From S2P Require Export Create.

(** * Definitions *)

(** ** Types *)

(** The C++ types whose meta-type has a constructor of its own. *)
Definition named_metatypes : list metatype :=
  [MT_QVariant; MT_Bool; MT_Double; MT_QString; MT_Int; MT_UInt; MT_LongLong; MT_ULongLong;
   MT_QByteArray; MT_QStringList; MT_QVariantMap; MT_QVariantHash; MT_QStringMap; MT_QStringHash;
   MT_QJsonValue; MT_QJsonObject; MT_QJsonArray; MT_QPoint; MT_QPointF; MT_QSize; MT_QSizeF;
   MT_QRect; MT_QRectF; MT_QMargins; MT_QMarginsF; MT_QLine; MT_QLineF; MT_QVector2D; MT_QVector3D;
   MT_QVector4D; MT_QUuid; MT_QRegularExpression; MT_QGeoCoordinate; MT_QHostAddress;
   MT_QNetworkRequest; MT_QImage; MT_QPixmap; MT_QIcon; MT_QColor; MT_QDate; MT_QTime; MT_QDateTime;
   MT_QUrl; MT_QFont; MT_QKeySequence].

(** Other names of the same types. *)
Definition type_aliases : list (string * metatype) :=
  [("qint64", MT_LongLong); ("qsizetype", MT_LongLong); ("quint64", MT_ULongLong);
   ("unsigned int", MT_UInt); ("qreal", MT_Double); ("QMap<QString, QString>", MT_QStringMap);
   ("QMap<QString, QVariant>", MT_QVariantMap)]%string.

Section Shards.
Context {T : QtTypes} {QB : QtLib} {QW : QtWorld} {CT : CxxTraits} {GN : GeneratedNames}.

(** [QMetaType::fromType<type>()]. *)
Definition meta_type_of (type : string) : metatype :=
  match filter (fun t => mt_name t = type) named_metatypes,
        filter (fun a => a.1 = type) type_aliases with
  | t :: _, _ => t
  | [], a :: _ => a.2
  | [], [] =>
      match cxx_enum_size type with
      | Some size => MT_Enum type size
      | None => MT_Other type
      end
  end.

Definition item_metatype (i : item) : metatype :=
  match i with
  | IVariant => MT_QVariant
  | IMeta type | IValue type => meta_type_of type
  | IObject c => MT_QObjectPtr c
  end.

(** The types an [if constexpr] asks to be registered, copyable and default
    constructible. *)
Definition guarded_types (params : list param) : list string :=
  params ≫= (fun p =>
    match p with
    | PValue type | PList (IValue type) => [type]
    | _ => []
    end).

Definition guard_holds_for (params : list param) : bool :=
  forallb (fun type => cxx_registered type && cxx_copyable type && cxx_default_constructible type)
    (guarded_types params).

(** ** Macros *)

Definition include_macro (prefix : string) (i : include) : option string :=
  match i with
  | ClassInclude m h c => if cxx_has_header m h then Some (prefix ++ c)%string else None
  | TypeInclude m h macro => if cxx_has_header m h then Some macro else None
  | EnumDefine macro => Some macro
  end.

(** [defined(macro)], after the include blocks of the file. *)
Definition macro_defined (prefix : string) (includes : list include) (macro : string) : bool :=
  existsb (fun i => bool_decide (include_macro prefix i = Some macro)) includes.

(** ** Arguments *)

(** A conversion gives a value, or ends the block; either way with the
    contents of [*error] afterwards. *)
Definition conversion (A : Type) : Type := option A * string.

Definition argument_error (n : nat) (what : string) : string :=
  ("argument " ++ pretty n ++ " " ++ what)%string.

(** [fromJson] followed by [if (!converted.isValid()) return]. *)
Definition convert_meta (s : state) (value : json) (target : metatype) (error : string) :
    conversion qvariant :=
  match fromJson s value target with
  | Ok v => (if v_valid v then Some v else None, error)
  | Err e => (None, e)
  end.

(** The loop over the entries of an array. *)
Fixpoint convert_items (s : state) (i : item) (entries : list json) (error : string) :
    conversion (list qvariant) :=
  match entries with
  | [] => (Some [], error)
  | entry :: entries' =>
      match (match i with
             | IVariant => (Some (q_to_variant entry), error)
             | _ => convert_meta s entry (item_metatype i) error
             end) with
      | (None, error) => (None, error)
      | (Some v, error) =>
          match convert_items s i entries' error with
          | (None, error) => (None, error)
          | (Some vs, error) => (Some (v :: vs), error)
          end
      end
  end.

Definition as_value (c : conversion qvariant) : conversion cxx_value :=
  (CVariant <$> c.1, c.2).

Definition as_list (c : conversion (list qvariant)) : conversion cxx_value :=
  (CList <$> c.1, c.2).

Definition convert_param (s : state) (n : nat) (p : param) (value : json) (error : string) :
    conversion cxx_value :=
  match p with
  | PBool =>
      match value with
      | JBool b => (Some (CBool b), error)
      | _ => (None, argument_error n "must be a boolean")
      end
  | PInt =>
      match value with
      | JDouble raw =>
          if int_in_range int_min int_max raw then (Some (CInt (trunc_Z raw)), error)
          else (None, argument_error n "must be a 32-bit integer")
      | _ => (None, argument_error n "must be a 32-bit integer")
      end
  | PUInt =>
      match value with
      | JDouble raw =>
          if int_in_range 0 uint_max raw then (Some (CUInt (trunc_Z raw)), error)
          else (None, argument_error n "must be an unsigned 32-bit integer")
      | _ => (None, argument_error n "must be an unsigned 32-bit integer")
      end
  | PNumber type =>
      match value with
      | JDouble raw =>
          if isfinite raw then
            (Some (if bool_decide (type = "float"%string) then CFloat (to_float32 raw)
                   else CDouble raw), error)
          else (None, argument_error n "must be a finite number")
      | _ => (None, argument_error n "must be a finite number")
      end
  | PString nullable =>
      match value with
      | JString text => (Some (CString text), error)
      | JNull => if nullable then (Some (CString estr), error)
                 else (None, argument_error n "must be a string")
      | _ => (None, argument_error n (if nullable then "must be a string or null"
                                      else "must be a string"))
      end
  | PVariant =>
      match fromJson s value MT_QVariant with
      | Ok v => (Some (CVariant v), error)
      | Err e => (Some (CVariant VInvalid), e)
      end
  | PMeta type | PValue type => as_value (convert_meta s value (meta_type_of type) error)
  | PObject c nullable =>
      if negb nullable && is_null value then (None, argument_error n "cannot be null")
      else as_value (convert_meta s value (MT_QObjectPtr c) error)
  | PStringList =>
      match value with
      | JArray entries => as_list (convert_items s (IMeta "QString") entries error)
      | _ => (None, argument_error n "must be an array")
      end
  | PList i =>
      match value with
      | JArray entries => as_list (convert_items s i entries error)
      | _ => (None, argument_error n "must be an array")
      end
  | PVariantMap =>
      match value with
      | JObject o => (Some (CMap ((fun '(k, v) => (k, q_to_variant v)) <$> o)), error)
      | _ => (None, argument_error n "must be a JSON object")
      end
  end.

(** The parameters from number [n] on. *)
Fixpoint convert_params (s : state) (n : nat) (params : list param) (args : list json)
    (error : string) : conversion (list cxx_value) :=
  match params with
  | [] => (Some [], error)
  | p :: params' =>
      match convert_param s n p (arr_at n args) error with
      | (None, error) => (None, error)
      | (Some v, error) =>
          match convert_params s (S n) params' args error with
          | (None, error) => (None, error)
          | (Some vs, error) => (Some (v :: vs), error)
          end
      end
  end.

(** ** Results *)

(** [kry_qt6_direct::objectHandle]. *)
Definition objectHandle (object : option ptr) : M json :=
  match object with
  | None => ret JNull
  | Some p => objectHandleValue (Some p)
  end.

(** [storeValue<T>(value)] gives a valid QVariant. *)
Definition storable (type : string) (v : qvariant) : bool :=
  cxx_registered type && cxx_copyable type && v_valid v.

Definition item_json (i : item) : item_result i -> M (res json) :=
  match i return item_result i -> M (res json) with
  | IObject _ => fun p => let! j := objectHandle p in ret (Ok j)
  | IValue type => fun v =>
      if storable type v then let! j := toJson v in ret (Ok j)
      else ret (Err "Qt returned a list value Kryndel cannot store")
  | _ => fun v => let! j := toJson v in ret (Ok j)
  end.

Fixpoint items_json (i : item) (l : list (item_result i)) : M (res (list json)) :=
  match l with
  | [] => ret (Ok [])
  | x :: l' =>
      let! first := item_json i x in
      match first with
      | Err e => ret (Err e)
      | Ok j =>
          let! rest := items_json i l' in
          ret (match rest with Ok js => Ok (j :: js) | Err e => Err e end)
      end
  end.

Fixpoint map_json (l : list (string * qvariant)) (values : jmembers) : M jmembers :=
  match l with
  | [] => ret values
  | (key, v) :: l' => let! j := toJson v in map_json l' (obj_insert key j values)
  end.

(** What is written to [*output], or to [*error]. *)
Definition result_json (r : result) : cxx_result r -> M (res json) :=
  match r return cxx_result r -> M (res json) with
  | RVoid => fun _ => ret (Ok JNull)
  | RBool => fun b => ret (Ok (JBool b))
  | RDouble => fun d => ret (Ok (JDouble d))
  | RString => fun text => ret (Ok (JString text))
  | RVariant | RMeta _ => fun v => let! j := toJson v in ret (Ok j)
  | RValue type => fun v =>
      if storable type v then let! j := toJson v in ret (Ok j)
      else ret (Err "Qt returned a value Kryndel cannot store")
  | RObject => fun p => let! j := objectHandle p in ret (Ok j)
  | RList i => fun l =>
      let! values := items_json i l in
      ret (match values with Ok js => Ok (JArray js) | Err e => Err e end)
  | RMap _ _ => fun l => let! values := map_json l [] in ret (Ok (JObject values))
  end.

(** ** Method shards *)

(** The state of a block: handled, [*output] and [*error]. *)
Abbreviation block := (M (bool * json * string)) (only parsing).

(** [*output = ...; return true;] *)
Definition answer (r : result) (x : cxx_result r) (output : json) (error : string) : block :=
  let! j := result_json r x in
  ret (match j with Ok j => (true, j, error) | Err e => (true, output, e) end).

(** The receiver of a call: an object, or the entry of [values]. *)
Inductive receiver : Type :=
  | Object (object : option ptr)
  | Value (id : Z).

(** The test in front of a target, and the call. *)
Definition call_target (module className : string) (rec : receiver) (row : signature_row) (t : target)
    (args : list cxx_value) (output : json) (error : string) : option block :=
  let f := sr_name row in
  let r := sr_result row in
  match t, rec with
  | Static c, _ =>
      if bool_decide (className = qualify module c) then
        Some (let! x := call (CxxStatic (cpp_class module c) f args r) in answer r x output error)
      else None
  | On c, Object None => None
  | On c, Object (Some object) =>
      Some (let! s := get_state in
            if w_is_a (st_world s) (cpp_class module c) object then
              let! x := call (CxxMethod (cpp_class module c) f object args r) in
              answer r x output error
            else ret (false, output, error))
  | On c, Value id =>
      if bool_decide (className = c) then
        Some (let! s := get_state in
              match valueForId s id with
              | None => ret (false, output, error)
              | Some v =>
                  if bool_decide (v_type v = meta_type_of (cpp_class module c)) then
                    let! (v', x) := call (CxxValueMethod (cpp_class module c) f v args r) in
                    let! _ := store_value id v' in
                    let! x := resume x in
                    answer r x output error
                  else ret (false, output, error)
              end)
      else None
  end.

(** The blocks of the classes, in order. *)
Fixpoint try_targets (sh : method_shard) (className : string) (rec : receiver) (row : signature_row)
    (targets : list target) (args : list cxx_value) (output : json) (error : string) : block :=
  match targets with
  | [] => ret (false, output, error)
  | t :: targets' =>
      let c := match t with On c | Static c => c end in
      let next := try_targets sh className rec row targets' args output error in
      if macro_defined (ms_prefix sh) (ms_includes sh) (ms_prefix sh ++ c) then
        match call_target (ms_module sh) className rec row t args output error with
        | None => next
        | Some body =>
            let! (handled, output', error') := body in
            if handled : bool then ret (true, output', error') else next
        end
      else next
  end.

Definition count_error (signature : string) (n : nat) : string :=
  (signature ++ " expects " ++ pretty n ++ " argument(s)")%string.

(** The row is compiled in: its macros are defined and its guard holds. *)
Definition row_enabled (sh : method_shard) (row : signature_row) : bool :=
  forallb (macro_defined (ms_prefix sh) (ms_includes sh)) (sr_macros row) &&
  guard_holds_for (sr_params row).

Definition run_row (sh : method_shard) (className : string) (rec : receiver) (signature : string)
    (args : list json) (row : signature_row) (output : json) (error : string) : block :=
  if row_enabled sh row && bool_decide (signature = signature_text row) then
    if negb (bool_decide (length args = length (sr_params row)))
    then ret (true, output, count_error (signature_text row) (length (sr_params row)))
    else
      let! s := get_state in
      match convert_params s 0 (sr_params row) args error with
      | (None, error) => ret (true, output, error)
      | (Some vs, error) => try_targets sh className rec row (sr_targets row) vs output error
      end
  else ret (false, output, error).

Fixpoint run_rows (sh : method_shard) (className : string) (rec : receiver) (signature : string)
    (args : list json) (rows : list signature_row) (output : json) (error : string) : block :=
  match rows with
  | [] => ret (false, output, error)
  | row :: rows' =>
      let! (handled, output, error) := run_row sh className rec signature args row output error in
      if handled : bool then ret (true, output, error)
      else run_rows sh className rec signature args rows' output error
  end.

(** [invoke_<shard>] and [invoke_value_<shard>]. *)
Definition run_method_shard (sh : method_shard) (rec : receiver) (className signature : string)
    (args : list json) (output : json) (error : string) : block :=
  run_rows sh className rec signature args (ms_rows sh) output error.

(** ** Constructor shards *)

Definition insert_at {A : Type} (n : nat) (a : A) (l : list A) : list A := take n l ++ a :: drop n l.

(** [std::is_constructible_v<T, Args...>] for the arguments of makeQObject and makeQtValue. *)
Definition makes_from (sh : constructor_shard) (c : string) (ca : candidate) : bool :=
  let types := param_type <$> ca_params ca in
  cxx_constructible_from (cpp_class (cs_module sh) c)
    (match ca_parent ca with
     | None => types
     | Some (n, parentClass) => insert_at n (pointer_to parentClass) types
     end).

Definition candidate_enabled (sh : constructor_shard) (c : string) (ca : candidate) : bool :=
  let defined := macro_defined (cs_prefix sh) (cs_includes sh) in
  defined (cs_prefix sh ++ c)%string && forallb defined (ca_macros ca).

(** [adopt], and [delete] of an object it refuses. *)
Definition adopt_or_delete (instance : ptr) (parent : option ptr) (error : string) :
    M (option ptr * string) :=
  let! (attached, error) := adopt (Some instance) parent error in
  match attached with
  | Some o => ret (Some o, error)
  | None =>
      let! s := get_state in
      if w_alive (st_world s) instance then
        let! _ := update_world (w_delete instance) in ret (None, error)
      else crash UseAfterFree
  end.

(** [construct_candidate]: the object or null, and [candidateError]. *)
Definition construct_candidate (sh : constructor_shard) (c : string) (ca : candidate)
    (parent : option ptr) (args : list json) : M (option ptr * string) :=
  if negb (guard_holds_for (ca_params ca)) then ret (None, estr)
  else
    let! s := get_state in
    match convert_params s 0 (ca_params ca) args estr with
    | (None, error) => ret (None, error)
    | (Some vs, error) =>
        let make cxx :=
          if cxx_abstract (cpp_class (cs_module sh) c) || negb (makes_from sh c ca)
          then ret (None, error)
          else
            let! instance := call (QNew (cpp_class (cs_module sh) c) cxx) in
            adopt_or_delete instance parent error in
        match ca_parent ca with
        | None => make (AValue <$> vs)
        | Some (n, parentClass) =>
            let constructorParent := cast_to (st_world s) parentClass parent in
            if negb (is_null_ptr parent) && is_null_ptr constructorParent
            then ret (None, ("parent must be a " ++
                   match str_last_index_of "::" parentClass with
                   | Some i => str_mid (i + 2) parentClass
                   | None => parentClass
                   end ++ " object")%string)
            else make (insert_at n (AObject constructorParent) (AValue <$> vs))
        end
    end.

Fixpoint try_candidates (sh : constructor_shard) (c : string) (cas : list candidate)
    (parent : option ptr) (args : list json) (lastCandidateError : string) :
    M (option ptr * string) :=
  match cas with
  | [] => ret (None, lastCandidateError)
  | ca :: cas' =>
      if candidate_enabled sh c ca then
        let! (created, candidateError) := construct_candidate sh c ca parent args in
        match created with
        | Some o => ret (Some o, lastCandidateError)
        | None =>
            try_candidates sh c cas' parent args
              (if str_empty candidateError then lastCandidateError else candidateError)
        end
      else try_candidates sh c cas' parent args lastCandidateError
  end.

(** The test in front of the block of a class and a number of arguments. *)
Definition row_applies (sh : constructor_shard) (moduleName className : string) (args : list json)
    (row : constructor_row) : bool :=
  (str_empty moduleName || bool_decide (moduleName = cs_module sh)) &&
  bool_decide (className = cr_class row) && (arr_size args =? cr_count row).

(** [construct_<shard>]. *)
Fixpoint construct_object (sh : constructor_shard) (rows : list constructor_row)
    (moduleName className : string) (parent : option ptr) (args : list json) (output : option ptr)
    (error : string) : M (bool * option ptr * string) :=
  match rows with
  | [] => ret (false, output, error)
  | row :: rows' =>
      if row_applies sh moduleName className args row then
        let! (created, last) :=
          try_candidates sh (cr_class row) (cr_candidates row) parent args estr in
        match created with
        | Some o => ret (true, Some o, error)
        | None => ret (true, output, if str_empty last then error else last)
        end
      else construct_object sh rows' moduleName className parent args output error
  end.

(** [build_candidate]. *)
Definition build_candidate (sh : constructor_shard) (c : string) (ca : candidate)
    (args : list json) : M (qvariant * string) :=
  if negb (guard_holds_for (ca_params ca)) then ret (VInvalid, estr)
  else
    let! s := get_state in
    match convert_params s 0 (ca_params ca) args estr with
    | (None, error) => ret (VInvalid, error)
    | (Some vs, error) =>
        let type := cpp_class (cs_module sh) c in
        if cxx_registered type && cxx_copyable type && makes_from sh c ca then
          let! v := call (CxxValue type vs) in ret (v, error)
        else ret (VInvalid, error)
    end.

Fixpoint try_value_candidates (sh : constructor_shard) (c : string) (cas : list candidate)
    (args : list json) (lastCandidateError : string) : M (option qvariant * string) :=
  match cas with
  | [] => ret (None, lastCandidateError)
  | ca :: cas' =>
      if candidate_enabled sh c ca then
        let! (created, candidateError) := build_candidate sh c ca args in
        if v_valid created then ret (Some created, lastCandidateError)
        else try_value_candidates sh c cas' args
               (if str_empty candidateError then lastCandidateError else candidateError)
      else try_value_candidates sh c cas' args lastCandidateError
  end.

(** [construct_value_<shard>]. *)
Fixpoint construct_value (sh : constructor_shard) (rows : list constructor_row)
    (moduleName className : string) (args : list json) (output : qvariant) (error : string) :
    M (bool * qvariant * string) :=
  match rows with
  | [] => ret (false, output, error)
  | row :: rows' =>
      if row_applies sh moduleName className args row then
        let! (created, last) := try_value_candidates sh (cr_class row) (cr_candidates row) args estr in
        match created with
        | Some v => ret (true, v, error)
        | None => ret (true, output, if str_empty last then error else last)
        end
      else construct_value sh rows' moduleName className args output error
  end.

End Shards.

(** ** The names the shards publish *)

Section Published.
Context {CT : CxxTraits}.

(** [direct_value_types_<shard>]. *)
Definition value_types_of (sh : method_shard) : list string :=
  filter (fun c =>
    macro_defined (ms_prefix sh) (ms_includes sh) (ms_prefix sh ++ c) &&
    cxx_registered (cpp_class (ms_module sh) c) && cxx_copyable (cpp_class (ms_module sh) c) = true)
    (ms_types sh).

Definition class_row_enabled (sh : constructor_shard) (row : class_row) : bool :=
  let defined := macro_defined (cs_prefix sh) (cs_includes sh) in
  defined (cs_prefix sh ++ cl_class row)%string && forallb defined (cl_macros row).

(** [constructor_classes_<shard>]. *)
Definition constructor_classes (sh : constructor_shard) : list string :=
  cl_class <$> filter (fun row =>
    let type := cpp_class (cs_module sh) (cl_class row) in
    class_row_enabled sh row && negb (cxx_abstract type) &&
    existsb (cxx_constructible type) (cl_alternatives row) = true) (cs_classes sh).

(** [value_constructor_classes_<shard>]. *)
Definition value_constructor_classes (sh : constructor_shard) : list string :=
  cl_class <$> filter (fun row =>
    let type := cpp_class (cs_module sh) (cl_class row) in
    class_row_enabled sh row && cxx_registered type && cxx_copyable type &&
    existsb (cxx_constructible type) (cl_alternatives row) = true) (cs_classes sh).

End Published.
