(* ===== verification/ShardTables.v ===== *)
(** The generated shards by name, and the interface [Generated] of the dispatch
    files implemented by running their rows. *)
From S2P Require Export ShardRuns.
From S2P Require Import MethodsOther MethodsQt3D MethodsNetwork MethodsGraphsB MethodsCore.
From S2P Require Import MethodsGraphsA MethodsGui MethodsWidgetsA MethodsWidgetsB ValueMethodsOther.
From S2P Require Import ValueMethodsNetwork ValueMethodsCore ValueMethodsGui ValueMethodsWidgets ConstructorTables.
From S2P Require Import ValueConstructorTables.

(** * Definitions *)

(** The shards of generated_methods. *)
Definition invoke_tables : list (string * method_shard) :=
  [
    ("qaxcontainer_0"%string, methods_qaxcontainer_0);
    ("qt3danimation_0"%string, methods_qt3danimation_0);
    ("qt3dcore_0"%string, methods_qt3dcore_0);
    ("qt3dextras_0"%string, methods_qt3dextras_0);
    ("qt3dextras_1"%string, methods_qt3dextras_1);
    ("qt3dinput_0"%string, methods_qt3dinput_0);
    ("qt3dlogic_0"%string, methods_qt3dlogic_0);
    ("qt3drender_0"%string, methods_qt3drender_0);
    ("qt3drender_1"%string, methods_qt3drender_1);
    ("qt3drender_2"%string, methods_qt3drender_2);
    ("qt3drender_3"%string, methods_qt3drender_3);
    ("qtbluetooth_0"%string, methods_qtbluetooth_0);
    ("qtcharts_0"%string, methods_qtcharts_0);
    ("qtcharts_1"%string, methods_qtcharts_1);
    ("qtcore_0"%string, methods_qtcore_0);
    ("qtcore_1"%string, methods_qtcore_1);
    ("qtcore_2"%string, methods_qtcore_2);
    ("qtcore_3"%string, methods_qtcore_3);
    ("qtdatavisualization_0"%string, methods_qtdatavisualization_0);
    ("qtdatavisualization_1"%string, methods_qtdatavisualization_1);
    ("qtdbus_0"%string, methods_qtdbus_0);
    ("qtdesigner_0"%string, methods_qtdesigner_0);
    ("qtgraphs_0"%string, methods_qtgraphs_0);
    ("qtgraphs_1"%string, methods_qtgraphs_1);
    ("qtgraphswidgets_0"%string, methods_qtgraphswidgets_0);
    ("qtgui_0"%string, methods_qtgui_0);
    ("qtgui_1"%string, methods_qtgui_1);
    ("qtgui_2"%string, methods_qtgui_2);
    ("qthelp_0"%string, methods_qthelp_0);
    ("qtmultimedia_0"%string, methods_qtmultimedia_0);
    ("qtmultimediawidgets_0"%string, methods_qtmultimediawidgets_0);
    ("qtnetwork_0"%string, methods_qtnetwork_0);
    ("qtnetworkauth_0"%string, methods_qtnetworkauth_0);
    ("qtnfc_0"%string, methods_qtnfc_0);
    ("qtopengl_0"%string, methods_qtopengl_0);
    ("qtopenglwidgets_0"%string, methods_qtopenglwidgets_0);
    ("qtpdf_0"%string, methods_qtpdf_0);
    ("qtpdfwidgets_0"%string, methods_qtpdfwidgets_0);
    ("qtpositioning_0"%string, methods_qtpositioning_0);
    ("qtprintsupport_0"%string, methods_qtprintsupport_0);
    ("qtqml_0"%string, methods_qtqml_0);
    ("qtquick3d_0"%string, methods_qtquick3d_0);
    ("qtquick_0"%string, methods_qtquick_0);
    ("qtquickwidgets_0"%string, methods_qtquickwidgets_0);
    ("qtremoteobjects_0"%string, methods_qtremoteobjects_0);
    ("qtsensors_0"%string, methods_qtsensors_0);
    ("qtsensors_1"%string, methods_qtsensors_1);
    ("qtserialport_0"%string, methods_qtserialport_0);
    ("qtspatialaudio_0"%string, methods_qtspatialaudio_0);
    ("qtsql_0"%string, methods_qtsql_0);
    ("qtstatemachine_0"%string, methods_qtstatemachine_0);
    ("qtsvg_0"%string, methods_qtsvg_0);
    ("qtsvgwidgets_0"%string, methods_qtsvgwidgets_0);
    ("qttest_0"%string, methods_qttest_0);
    ("qttexttospeech_0"%string, methods_qttexttospeech_0);
    ("qtwebchannel_0"%string, methods_qtwebchannel_0);
    ("qtwebenginecore_0"%string, methods_qtwebenginecore_0);
    ("qtwebenginequick_0"%string, methods_qtwebenginequick_0);
    ("qtwebenginewidgets_0"%string, methods_qtwebenginewidgets_0);
    ("qtwebsockets_0"%string, methods_qtwebsockets_0);
    ("qtwidgets_0"%string, methods_qtwidgets_0);
    ("qtwidgets_1"%string, methods_qtwidgets_1);
    ("qtwidgets_2"%string, methods_qtwidgets_2);
    ("qtwidgets_3"%string, methods_qtwidgets_3);
    ("qtwidgets_4"%string, methods_qtwidgets_4);
    ("qtxml_0"%string, methods_qtxml_0)
  ].

(** The shards of generated_value_methods. *)
Definition invoke_value_tables : list (string * method_shard) :=
  [
    ("qaxcontainer_0"%string, value_methods_qaxcontainer_0);
    ("qt3danimation_0"%string, value_methods_qt3danimation_0);
    ("qt3dcore_0"%string, value_methods_qt3dcore_0);
    ("qt3drender_0"%string, value_methods_qt3drender_0);
    ("qtbluetooth_0"%string, value_methods_qtbluetooth_0);
    ("qtbluetooth_1"%string, value_methods_qtbluetooth_1);
    ("qtcore_0"%string, value_methods_qtcore_0);
    ("qtcore_1"%string, value_methods_qtcore_1);
    ("qtcore_10"%string, value_methods_qtcore_10);
    ("qtcore_11"%string, value_methods_qtcore_11);
    ("qtcore_12"%string, value_methods_qtcore_12);
    ("qtcore_2"%string, value_methods_qtcore_2);
    ("qtcore_3"%string, value_methods_qtcore_3);
    ("qtcore_4"%string, value_methods_qtcore_4);
    ("qtcore_5"%string, value_methods_qtcore_5);
    ("qtcore_6"%string, value_methods_qtcore_6);
    ("qtcore_7"%string, value_methods_qtcore_7);
    ("qtcore_8"%string, value_methods_qtcore_8);
    ("qtcore_9"%string, value_methods_qtcore_9);
    ("qtdbus_0"%string, value_methods_qtdbus_0);
    ("qtdbus_1"%string, value_methods_qtdbus_1);
    ("qtdesigner_0"%string, value_methods_qtdesigner_0);
    ("qtgraphs_0"%string, value_methods_qtgraphs_0);
    ("qtgui_0"%string, value_methods_qtgui_0);
    ("qtgui_1"%string, value_methods_qtgui_1);
    ("qtgui_10"%string, value_methods_qtgui_10);
    ("qtgui_11"%string, value_methods_qtgui_11);
    ("qtgui_12"%string, value_methods_qtgui_12);
    ("qtgui_13"%string, value_methods_qtgui_13);
    ("qtgui_14"%string, value_methods_qtgui_14);
    ("qtgui_2"%string, value_methods_qtgui_2);
    ("qtgui_3"%string, value_methods_qtgui_3);
    ("qtgui_4"%string, value_methods_qtgui_4);
    ("qtgui_5"%string, value_methods_qtgui_5);
    ("qtgui_6"%string, value_methods_qtgui_6);
    ("qtgui_7"%string, value_methods_qtgui_7);
    ("qtgui_8"%string, value_methods_qtgui_8);
    ("qtgui_9"%string, value_methods_qtgui_9);
    ("qthelp_0"%string, value_methods_qthelp_0);
    ("qtmultimedia_0"%string, value_methods_qtmultimedia_0);
    ("qtmultimedia_1"%string, value_methods_qtmultimedia_1);
    ("qtnetwork_0"%string, value_methods_qtnetwork_0);
    ("qtnetwork_1"%string, value_methods_qtnetwork_1);
    ("qtnetwork_2"%string, value_methods_qtnetwork_2);
    ("qtnetwork_3"%string, value_methods_qtnetwork_3);
    ("qtnetwork_4"%string, value_methods_qtnetwork_4);
    ("qtnetworkauth_0"%string, value_methods_qtnetworkauth_0);
    ("qtnfc_0"%string, value_methods_qtnfc_0);
    ("qtopengl_0"%string, value_methods_qtopengl_0);
    ("qtopengl_1"%string, value_methods_qtopengl_1);
    ("qtpdf_0"%string, value_methods_qtpdf_0);
    ("qtpositioning_0"%string, value_methods_qtpositioning_0);
    ("qtpositioning_1"%string, value_methods_qtpositioning_1);
    ("qtprintsupport_0"%string, value_methods_qtprintsupport_0);
    ("qtqml_0"%string, value_methods_qtqml_0);
    ("qtqml_1"%string, value_methods_qtqml_1);
    ("qtquick_0"%string, value_methods_qtquick_0);
    ("qtquick_1"%string, value_methods_qtquick_1);
    ("qtquick_2"%string, value_methods_qtquick_2);
    ("qtserialport_0"%string, value_methods_qtserialport_0);
    ("qtsql_0"%string, value_methods_qtsql_0);
    ("qtsvg_0"%string, value_methods_qtsvg_0);
    ("qttest_0"%string, value_methods_qttest_0);
    ("qttexttospeech_0"%string, value_methods_qttexttospeech_0);
    ("qtwebenginecore_0"%string, value_methods_qtwebenginecore_0);
    ("qtwebenginecore_1"%string, value_methods_qtwebenginecore_1);
    ("qtwebsockets_0"%string, value_methods_qtwebsockets_0);
    ("qtwidgets_0"%string, value_methods_qtwidgets_0);
    ("qtwidgets_1"%string, value_methods_qtwidgets_1);
    ("qtwidgets_2"%string, value_methods_qtwidgets_2);
    ("qtwidgets_3"%string, value_methods_qtwidgets_3);
    ("qtwidgets_4"%string, value_methods_qtwidgets_4);
    ("qtxml_0"%string, value_methods_qtxml_0);
    ("qtxml_1"%string, value_methods_qtxml_1);
    ("qtxml_2"%string, value_methods_qtxml_2)
  ].

(** The shards of generated_constructors. *)
Definition constructor_tables : list (string * constructor_shard) :=
  [
    ("qaxcontainer_0"%string, constructors_qaxcontainer_0);
    ("qt3danimation_0"%string, constructors_qt3danimation_0);
    ("qt3dcore_0"%string, constructors_qt3dcore_0);
    ("qt3dextras_0"%string, constructors_qt3dextras_0);
    ("qt3dextras_1"%string, constructors_qt3dextras_1);
    ("qt3dinput_0"%string, constructors_qt3dinput_0);
    ("qt3dlogic_0"%string, constructors_qt3dlogic_0);
    ("qt3drender_0"%string, constructors_qt3drender_0);
    ("qt3drender_1"%string, constructors_qt3drender_1);
    ("qt3drender_2"%string, constructors_qt3drender_2);
    ("qt3drender_3"%string, constructors_qt3drender_3);
    ("qt3drender_4"%string, constructors_qt3drender_4);
    ("qtbluetooth_0"%string, constructors_qtbluetooth_0);
    ("qtcharts_0"%string, constructors_qtcharts_0);
    ("qtcharts_1"%string, constructors_qtcharts_1);
    ("qtcore_0"%string, constructors_qtcore_0);
    ("qtcore_1"%string, constructors_qtcore_1);
    ("qtdatavisualization_0"%string, constructors_qtdatavisualization_0);
    ("qtdbus_0"%string, constructors_qtdbus_0);
    ("qtdesigner_0"%string, constructors_qtdesigner_0);
    ("qtgraphs_0"%string, constructors_qtgraphs_0);
    ("qtgraphs_1"%string, constructors_qtgraphs_1);
    ("qtgraphswidgets_0"%string, constructors_qtgraphswidgets_0);
    ("qtgui_0"%string, constructors_qtgui_0);
    ("qtgui_1"%string, constructors_qtgui_1);
    ("qthelp_0"%string, constructors_qthelp_0);
    ("qtmultimedia_0"%string, constructors_qtmultimedia_0);
    ("qtmultimediawidgets_0"%string, constructors_qtmultimediawidgets_0);
    ("qtnetwork_0"%string, constructors_qtnetwork_0);
    ("qtnetworkauth_0"%string, constructors_qtnetworkauth_0);
    ("qtnfc_0"%string, constructors_qtnfc_0);
    ("qtopengl_0"%string, constructors_qtopengl_0);
    ("qtopenglwidgets_0"%string, constructors_qtopenglwidgets_0);
    ("qtpdf_0"%string, constructors_qtpdf_0);
    ("qtpdfwidgets_0"%string, constructors_qtpdfwidgets_0);
    ("qtpositioning_0"%string, constructors_qtpositioning_0);
    ("qtprintsupport_0"%string, constructors_qtprintsupport_0);
    ("qtqml_0"%string, constructors_qtqml_0);
    ("qtquick3d_0"%string, constructors_qtquick3d_0);
    ("qtquick_0"%string, constructors_qtquick_0);
    ("qtquickwidgets_0"%string, constructors_qtquickwidgets_0);
    ("qtremoteobjects_0"%string, constructors_qtremoteobjects_0);
    ("qtsensors_0"%string, constructors_qtsensors_0);
    ("qtserialport_0"%string, constructors_qtserialport_0);
    ("qtspatialaudio_0"%string, constructors_qtspatialaudio_0);
    ("qtsql_0"%string, constructors_qtsql_0);
    ("qtstatemachine_0"%string, constructors_qtstatemachine_0);
    ("qtsvg_0"%string, constructors_qtsvg_0);
    ("qtsvgwidgets_0"%string, constructors_qtsvgwidgets_0);
    ("qttest_0"%string, constructors_qttest_0);
    ("qttexttospeech_0"%string, constructors_qttexttospeech_0);
    ("qtwebchannel_0"%string, constructors_qtwebchannel_0);
    ("qtwebenginecore_0"%string, constructors_qtwebenginecore_0);
    ("qtwebenginequick_0"%string, constructors_qtwebenginequick_0);
    ("qtwebenginewidgets_0"%string, constructors_qtwebenginewidgets_0);
    ("qtwebsockets_0"%string, constructors_qtwebsockets_0);
    ("qtwidgets_0"%string, constructors_qtwidgets_0);
    ("qtwidgets_1"%string, constructors_qtwidgets_1);
    ("qtwidgets_2"%string, constructors_qtwidgets_2);
    ("qtwidgets_3"%string, constructors_qtwidgets_3);
    ("qtwidgets_4"%string, constructors_qtwidgets_4)
  ].

(** The shards of generated_value_constructors. *)
Definition value_constructor_tables : list (string * constructor_shard) :=
  [
    ("qt3danimation_0"%string, value_constructors_qt3danimation_0);
    ("qt3dcore_0"%string, value_constructors_qt3dcore_0);
    ("qt3drender_0"%string, value_constructors_qt3drender_0);
    ("qtbluetooth_0"%string, value_constructors_qtbluetooth_0);
    ("qtbluetooth_1"%string, value_constructors_qtbluetooth_1);
    ("qtcore_0"%string, value_constructors_qtcore_0);
    ("qtcore_1"%string, value_constructors_qtcore_1);
    ("qtcore_10"%string, value_constructors_qtcore_10);
    ("qtcore_11"%string, value_constructors_qtcore_11);
    ("qtcore_12"%string, value_constructors_qtcore_12);
    ("qtcore_2"%string, value_constructors_qtcore_2);
    ("qtcore_3"%string, value_constructors_qtcore_3);
    ("qtcore_4"%string, value_constructors_qtcore_4);
    ("qtcore_5"%string, value_constructors_qtcore_5);
    ("qtcore_6"%string, value_constructors_qtcore_6);
    ("qtcore_7"%string, value_constructors_qtcore_7);
    ("qtcore_8"%string, value_constructors_qtcore_8);
    ("qtcore_9"%string, value_constructors_qtcore_9);
    ("qtdbus_0"%string, value_constructors_qtdbus_0);
    ("qtdbus_1"%string, value_constructors_qtdbus_1);
    ("qtdesigner_0"%string, value_constructors_qtdesigner_0);
    ("qtgraphs_0"%string, value_constructors_qtgraphs_0);
    ("qtgui_0"%string, value_constructors_qtgui_0);
    ("qtgui_1"%string, value_constructors_qtgui_1);
    ("qtgui_10"%string, value_constructors_qtgui_10);
    ("qtgui_11"%string, value_constructors_qtgui_11);
    ("qtgui_12"%string, value_constructors_qtgui_12);
    ("qtgui_13"%string, value_constructors_qtgui_13);
    ("qtgui_2"%string, value_constructors_qtgui_2);
    ("qtgui_3"%string, value_constructors_qtgui_3);
    ("qtgui_4"%string, value_constructors_qtgui_4);
    ("qtgui_5"%string, value_constructors_qtgui_5);
    ("qtgui_6"%string, value_constructors_qtgui_6);
    ("qtgui_7"%string, value_constructors_qtgui_7);
    ("qtgui_8"%string, value_constructors_qtgui_8);
    ("qtgui_9"%string, value_constructors_qtgui_9);
    ("qthelp_0"%string, value_constructors_qthelp_0);
    ("qtmultimedia_0"%string, value_constructors_qtmultimedia_0);
    ("qtmultimedia_1"%string, value_constructors_qtmultimedia_1);
    ("qtnetwork_0"%string, value_constructors_qtnetwork_0);
    ("qtnetwork_1"%string, value_constructors_qtnetwork_1);
    ("qtnetwork_2"%string, value_constructors_qtnetwork_2);
    ("qtnetwork_3"%string, value_constructors_qtnetwork_3);
    ("qtnetwork_4"%string, value_constructors_qtnetwork_4);
    ("qtnetworkauth_0"%string, value_constructors_qtnetworkauth_0);
    ("qtnfc_0"%string, value_constructors_qtnfc_0);
    ("qtopengl_0"%string, value_constructors_qtopengl_0);
    ("qtopengl_1"%string, value_constructors_qtopengl_1);
    ("qtpdf_0"%string, value_constructors_qtpdf_0);
    ("qtpositioning_0"%string, value_constructors_qtpositioning_0);
    ("qtpositioning_1"%string, value_constructors_qtpositioning_1);
    ("qtprintsupport_0"%string, value_constructors_qtprintsupport_0);
    ("qtqml_0"%string, value_constructors_qtqml_0);
    ("qtqml_1"%string, value_constructors_qtqml_1);
    ("qtquick_0"%string, value_constructors_qtquick_0);
    ("qtquick_1"%string, value_constructors_qtquick_1);
    ("qtserialport_0"%string, value_constructors_qtserialport_0);
    ("qtsql_0"%string, value_constructors_qtsql_0);
    ("qtsvg_0"%string, value_constructors_qtsvg_0);
    ("qttest_0"%string, value_constructors_qttest_0);
    ("qttexttospeech_0"%string, value_constructors_qttexttospeech_0);
    ("qtwebenginecore_0"%string, value_constructors_qtwebenginecore_0);
    ("qtwebenginecore_1"%string, value_constructors_qtwebenginecore_1);
    ("qtwebsockets_0"%string, value_constructors_qtwebsockets_0);
    ("qtwidgets_0"%string, value_constructors_qtwidgets_0);
    ("qtwidgets_1"%string, value_constructors_qtwidgets_1);
    ("qtwidgets_2"%string, value_constructors_qtwidgets_2);
    ("qtwidgets_3"%string, value_constructors_qtwidgets_3);
    ("qtwidgets_4"%string, value_constructors_qtwidgets_4);
    ("qtwidgets_5"%string, value_constructors_qtwidgets_5);
    ("qtxml_0"%string, value_constructors_qtxml_0);
    ("qtxml_1"%string, value_constructors_qtxml_1);
    ("qtxml_2"%string, value_constructors_qtxml_2)
  ].

(** The table of a shard. *)
Fixpoint shard_at {A : Type} (name : string) (l : list (string * A)) : option A :=
  match l with
  | [] => None
  | (n, a) :: l' => if String.eqb n name then Some a else shard_at name l'
  end.

Definition listed {A : Type} (f : A -> list string) (l : list (string * A)) (shard : string) :
    list string :=
  match shard_at shard l with Some a => f a | None => [] end.

(** The lists of classes of the shards. *)
Definition table_names {CT : CxxTraits} : GeneratedNames := {|
  g_constructor_classes := listed constructor_classes constructor_tables;
  g_value_constructor_classes := listed value_constructor_classes value_constructor_tables;
  g_direct_value_types := listed value_types_of invoke_value_tables;
|}.

(** The functions of the shards. *)
Definition table_generated {T : QtTypes} {QB : QtLib} {QW : QtWorld} {CT : CxxTraits}
    {GN : GeneratedNames} : Generated := {|
  g_invoke := fun shard object className signature args output error =>
    match shard_at shard invoke_tables with
    | Some sh => run_method_shard sh (Object object) className signature args output error
    | None => ret (false, output, error)
    end;
  g_construct_args := fun shard moduleName className parent args output error =>
    match shard_at shard constructor_tables with
    | Some sh => construct_object sh (cs_rows sh) moduleName className parent args output error
    | None => ret (false, output, error)
    end;
  g_construct_value := fun shard moduleName className args output error =>
    match shard_at shard value_constructor_tables with
    | Some sh => construct_value sh (cs_rows sh) moduleName className args output error
    | None => ret (false, output, error)
    end;
  g_invoke_value := fun shard value className signature args output error =>
    match shard_at shard invoke_value_tables with
    | Some sh => run_method_shard sh (Value value) className signature args output error
    | None => ret (false, output, error)
    end;
|}.
