(* ===== verification/Calls.v ===== *)
(** The [call] operation of handleRequest: the hand-written method handlers, in
    the order the source tries them, then the generated shards and reflection. *)
From S2P Require Export Create.

(** * Definitions *)

Section Calls.
Context {T : QtTypes} {QB : QtLib} {QW : QtWorld} {CT : CxxTraits} {GN : GeneratedNames} {G : Generated} {BF : BuildFlags}.

(** ** Vocabulary of the handlers *)

Definition fail (message : string) : M json := ret (failure message).
Definition succeed : M json := ret (success JNull).
Definition succeed_with (v : json) : M json := ret (success v).

(** A block [if (condition) { ... return ...; }]. *)
Definition when (condition : bool) (body : M json) : option (M json) :=
  if condition then Some body else None.

Definition sig_is (signature expected : string) : bool := bool_decide (signature = expected).

(** [return success(toJson(v))]. *)
Definition succeed_json (v : qvariant) : M json := let! j := toJson v in succeed_with j.

(** [return success(objectHandleValue(p))]. *)
Definition succeed_handle (p : option ptr) : M json :=
  let! j := objectHandleValue p in succeed_with j.

(** A setter, and getters by the type of their result. *)
Definition do_call (n : native unit) : M json := let! _ := call n in succeed.
Definition get_bool (n : native bool) : M json := let! b := call n in succeed_with (JBool b).
Definition get_int (n : native Z) : M json := let! z := call n in succeed_with (num z).
Definition get_text (n : native string) : M json := let! t := call n in succeed_with (JString t).
Definition get_bytes (n : native string) : M json := let! t := call n in succeed_json (VByteArray t).
Definition get_handle (n : native (option ptr)) : M json := let! p := call n in succeed_handle p.
Definition get_size (n : native (Z * Z)) : M json :=
  let! (w, h) := call n in succeed_json (VSize w h).
Definition get_point (n : native (Z * Z)) : M json :=
  let! (x, y) := call n in succeed_json (VPoint x y).
Definition get_rect (n : native (Z * Z * Z * Z)) : M json :=
  let! (x, y, w, h) := call n in succeed_json (VRect x y w h).

Definition no_args (args : list json) (message : string) (body : M json) : M json :=
  if arr_empty args then body else fail message.

Definition one_string (args : list json) (message : string) (body : string -> M json) : M json :=
  match args with
  | [JString text] => body text
  | _ => fail message
  end.

(** [integerArgument] and [integer64Argument]. *)
Definition integerArgument (args : list json) (index : nat) : option Z :=
  readJsonInteger (arr_at index args).

Definition integer64Argument (args : list json) (index : nat) : option Z :=
  match arr_at index args with
  | JDouble raw => if int_abs_at_most maximum_exact raw then Some (trunc_Z raw) else None
  | _ => None
  end.

Definition one_integer (args : list json) (message : string) (body : Z -> M json) : M json :=
  match args, integerArgument args 0 with
  | [_], Some a => body a
  | _, _ => fail message
  end.

Definition two_integers (args : list json) (message : string) (body : Z -> Z -> M json) : M json :=
  match args, integerArgument args 0, integerArgument args 1 with
  | [_; _], Some a, Some b => body a b
  | _, _, _ => fail message
  end.

Definition four_integers (args : list json) (message : string) (body : Z -> Z -> Z -> Z -> M json) :
    M json :=
  match args, integerArgument args 0, integerArgument args 1, integerArgument args 2,
        integerArgument args 3 with
  | [_; _; _; _], Some a, Some b, Some c, Some d => body a b c d
  | _, _, _, _, _ => fail message
  end.

(** [fromJson] of one argument: [if (!value.isValid()) return failure(error)]. *)
Definition with_value (s : state) (arg : json) (target : metatype) (body : qvariant -> M json) :
    M json :=
  match fromJson s arg target with
  | Ok v => if v_valid v then body v else fail estr
  | Err error => fail error
  end.

(** [qobject_cast<C *>(objectArgument(args, index, &error))]. *)
Definition with_object (s : state) (args : list json) (index : Z) (class_name message : string)
    (body : ptr -> M json) : M json :=
  match objectArgument s args index with
  | Err error => fail error
  | Ok p => if w_is_a (st_world s) class_name p then body p else fail message
  end.

(** The same through parseObjectId and objectForId, which report a closed
    handle and one of the wrong class alike. *)
Definition with_child (s : state) (arg : json) (class_name message : string)
    (body : ptr -> M json) : M json :=
  match parseObjectId (obj_value "object_id" (to_object arg)) with
  | Err error => fail error
  | Ok id =>
      match objectForId s id with
      | Some p => if w_is_a (st_world s) class_name p then body p else fail message
      | None => fail message
      end
  end.

(** [v.value<T>()]: a default value when [v] holds another type. *)
Definition as_point (v : qvariant) : Z * Z := match v with VPoint x y => (x, y) | _ => (0, 0) end.
Definition as_size (v : qvariant) : Z * Z := match v with VSize w h => (w, h) | _ => (-1, -1) end.
Definition as_rect (v : qvariant) : Z * Z * Z * Z :=
  match v with VRect x y w h => (x, y, w, h) | _ => (0, 0, 0, 0) end.
Definition as_request (v : qvariant) : qnetworkrequest :=
  match v with VNetworkRequest r => r | _ => q_request (q_url estr) end.
Definition as_bytes (v : qvariant) : string := match v with VByteArray b => b | _ => estr end.

(** ** QWidget geometry *)

Definition call_widget_geometry (s : state) (o : ptr) (signature : string) (args : list json) :
    option (M json) :=
  let sg e := sig_is signature e in
  if negb (w_is_a (st_world s) "QWidget" o) then None
  else if sg "move(int,int)" || sg "resize(int,int)" then
    Some (two_integers args "QWidget move/resize expects two 32-bit integers" (fun first second =>
      do_call (if sg "move(int,int)" then QWidget_move o first second
               else QWidget_resize o first second)))
  else if sg "move(QPoint)" || sg "resize(QSize)" then
    Some (match args with
          | [arg] =>
              if sg "move(QPoint)"
              then with_value s arg MT_QPoint (fun v =>
                     let '(x, y) := as_point v in do_call (QWidget_move o x y))
              else with_value s arg MT_QSize (fun v =>
                     let '(w, h) := as_size v in do_call (QWidget_resize o w h))
          | _ => fail "QWidget move/resize expects one Qt geometry value"
          end)
  else if sg "setGeometry(int,int,int,int)" then
    Some (four_integers args "QWidget setGeometry expects four 32-bit integers"
            (fun x y width height => do_call (QWidget_setGeometry o x y width height)))
  else if sg "setGeometry(QRect)" || sg "setMinimumSize(QSize)" || sg "setMaximumSize(QSize)" ||
          sg "setFixedSize(QSize)" then
    Some (match args with
          | [arg] =>
              if sg "setGeometry(QRect)"
              then with_value s arg MT_QRect (fun v =>
                     let '(x, y, w, h) := as_rect v in do_call (QWidget_setGeometry o x y w h))
              else with_value s arg MT_QSize (fun v =>
                     let '(w, h) := as_size v in
                     do_call (if sg "setMinimumSize(QSize)" then QWidget_setMinimumSize o w h
                              else if sg "setMaximumSize(QSize)" then QWidget_setMaximumSize o w h
                              else QWidget_setFixedSize o w h))
          | _ => fail "QWidget geometry setter expects one Qt geometry value"
          end)
  else if sg "setMinimumSize(int,int)" || sg "setMaximumSize(int,int)" || sg "setFixedSize(int,int)" then
    Some (two_integers args "QWidget size setter expects two 32-bit integers" (fun width height =>
      do_call (if sg "setMinimumSize(int,int)" then QWidget_setMinimumSize o width height
               else if sg "setMaximumSize(int,int)" then QWidget_setMaximumSize o width height
               else QWidget_setFixedSize o width height)))
  else None.

Definition widget_getters : list string :=
  ["width()"; "height()"; "size()"; "pos()"; "geometry()"; "frameGeometry()"; "frameSize()";
   "minimumSize()"; "maximumSize()"; "contentsRect()"]%string.

Definition call_widget_getter (s : state) (o : ptr) (signature : string) (args : list json) :
    option (M json) :=
  let sg e := sig_is signature e in
  if negb (w_is_a (st_world s) "QWidget" o) then None
  else if str_mem signature widget_getters then
    Some (no_args args "QWidget geometry getter takes no arguments" (
      if sg "width()" then get_int (QWidget_width o)
      else if sg "height()" then get_int (QWidget_height o)
      else if sg "size()" then get_size (QWidget_size o)
      else if sg "pos()" then get_point (QWidget_pos o)
      else if sg "geometry()" then get_rect (QWidget_geometry o)
      else if sg "frameGeometry()" then get_rect (QWidget_frameGeometry o)
      else if sg "frameSize()" then get_size (QWidget_frameSize o)
      else if sg "minimumSize()" then get_size (QWidget_minimumSize o)
      else if sg "maximumSize()" then get_size (QWidget_maximumSize o)
      else get_rect (QWidget_contentsRect o)))
  else if sg "window()" then
    Some (no_args args "QWidget window() takes no arguments" (get_handle (QWidget_window o)))
  else None.

(** ** ActiveX containers *)

Definition two_strings_list (args : list json) (message : string)
    (body : string -> list qvariant -> M json) : M json :=
  match args with
  | [JString method; JArray values] => body method (q_to_variant <$> values)
  | _ => fail message
  end.

(** [querySubObject]: a missing object is an error. *)
Definition sub_object (n : native (option ptr)) : M json :=
  let! child := call n in
  match child with
  | None => fail "ActiveX querySubObject returned no object"
  | Some _ => succeed_handle child
  end.

Definition call_ax_base (o : ptr) (signature : string) (args : list json) : option (M json) :=
  let sg e := sig_is signature e in
  if sg "control()" then
    Some (no_args args "control() takes no arguments" (get_text (QAx_control o)))
  else if sg "isNull()" then
    Some (no_args args "isNull() takes no arguments" (get_bool (QAx_isNull o)))
  else if sg "setControl(QString)" then
    Some (one_string args "setControl(QString) requires one string" (fun text =>
      get_bool (QAx_setControl o text)))
  else if sg "clear()" then
    Some (no_args args "clear() takes no arguments" (do_call (QAx_clear o)))
  else if sg "classContext()" then
    Some (no_args args "classContext() takes no arguments" (get_int (QAx_classContext o)))
  else if sg "setClassContext(int)" then
    let message := "setClassContext(int) requires a non-negative 32-bit context value"%string in
    Some (one_integer args message (fun context =>
      if context <? 0 then fail message else do_call (QAx_setClassContext o context)))
  else if sg "verbs()" then
    Some (no_args args "verbs() takes no arguments" (
      let! verbs := call (QAx_verbs o) in succeed_with (strings_array verbs)))
  else if sg "propertyBag()" then
    Some (no_args args "propertyBag() takes no arguments" (
      let! bag := call (QAx_propertyBag o) in succeed_json (VVariantMap bag)))
  else if sg "setPropertyBag(QVariantMap)" then
    Some (match args with
          | [JObject entries] =>
              do_call (QAx_setPropertyBag o ((fun '(k, v) => (k, q_to_variant v)) <$> entries))
          | _ => fail "setPropertyBag(QVariantMap) requires one object"
          end)
  else if sg "dynamicCall(QString)" then
    Some (one_string args "dynamicCall(QString) requires one method expression" (fun method =>
      let! v := call (QAx_dynamicCall o method None) in succeed_json v))
  else if sg "dynamicCall(QString,QVariantList)" then
    Some (two_strings_list args
      "dynamicCall(QString,QVariantList) requires a method expression and an argument array"
      (fun method values =>
         let! v := call (QAx_dynamicCall o method (Some values)) in succeed_json v))
  else if sg "querySubObject(QString)" then
    Some (one_string args "querySubObject(QString) requires one method expression" (fun method =>
      sub_object (QAx_querySubObject o method None)))
  else if sg "querySubObject(QString,QVariantList)" then
    Some (two_strings_list args
      "querySubObject(QString,QVariantList) requires a method expression and an argument array"
      (fun method values => sub_object (QAx_querySubObject o method (Some values))))
  else if sg "propertyWritable(QString)" then
    Some (one_string args "propertyWritable(QString) requires one property name" (fun name =>
      get_bool (QAx_propertyWritable o name)))
  else if sg "setPropertyWritable(QString,bool)" then
    Some (match args with
          | [JString name; JBool writable] => do_call (QAx_setPropertyWritable o name writable)
          | _ => fail "setPropertyWritable(QString,bool) requires a property name and boolean"
          end)
  else if sg "asVariant()" then
    Some (no_args args "asVariant() takes no arguments" (
      let! v := call (QAx_asVariant o) in succeed_json v))
  else if sg "generateDocumentation()" then
    Some (no_args args "generateDocumentation() takes no arguments" (
      get_text (QAx_generateDocumentation o)))
  else None.

Definition call_ax (s : state) (o : ptr) (signature : string) (args : list json) : option (M json) :=
  let sg e := sig_is signature e in
  let isObject := w_is_a (st_world s) "QAxObject" o in
  let isWidget := w_is_a (st_world s) "QAxWidget" o in
  if negb has_axcontainer then None
  else
    match (if isObject || isWidget then call_ax_base o signature args else None) with
    | Some body => Some body
    | None =>
        if isObject && sg "doVerb(QString)" then
          Some (one_string args "doVerb(QString) requires one verb name" (fun verb =>
            get_bool (QAxObject_doVerb o verb)))
        else if isObject && sg "resetControl()" then
          Some (no_args args "resetControl() takes no arguments" (do_call (QAxObject_resetControl o)))
        else if isWidget && sg "doVerb(QString)" then
          Some (one_string args "doVerb(QString) requires one verb name" (fun verb =>
            get_bool (QAxWidget_doVerb o verb)))
        else if isWidget && sg "resetControl()" then
          Some (no_args args "resetControl() takes no arguments" (do_call (QAxWidget_resetControl o)))
        else None
    end.

(** ** Network *)

Definition call_network (s : state) (o : ptr) (signature : string) (args : list json) :
    option (M json) :=
  let sg e := sig_is signature e in
  let is_a c := w_is_a (st_world s) c o in
  if is_a "QNetworkAccessManager"%string &&
     (sg "get(QNetworkRequest)" || sg "head(QNetworkRequest)" || sg "deleteResource(QNetworkRequest)")
  then
    Some (match args with
          | [arg] => with_value s arg MT_QNetworkRequest (fun v =>
              let request := as_request v in
              get_handle (if sg "get(QNetworkRequest)" then QNetworkAccessManager_get o request
                          else if sg "head(QNetworkRequest)" then QNetworkAccessManager_head o request
                          else QNetworkAccessManager_deleteResource o request))
          | _ => fail "QNetworkAccessManager request methods expect one QNetworkRequest value"
          end)
  else if is_a "QNetworkAccessManager"%string &&
     (sg "post(QNetworkRequest,QByteArray)" || sg "put(QNetworkRequest,QByteArray)") then
    Some (match args with
          | [first; second] => with_value s first MT_QNetworkRequest (fun requestValue =>
              with_value s second MT_QByteArray (fun dataValue =>
                let request := as_request requestValue in
                let data := as_bytes dataValue in
                get_handle (if sg "post(QNetworkRequest,QByteArray)"
                            then QNetworkAccessManager_post o request data
                            else QNetworkAccessManager_put o request data)))
          | _ => fail "QNetworkAccessManager post/put expect a request and QByteArray value"
          end)
  else if is_a "QNetworkReply"%string && sg "errorString()" then
    Some (no_args args "QNetworkReply errorString() takes no arguments"
            (get_text (QNetworkReply_errorString o)))
  else if is_a "QNetworkReply"%string && sg "attribute(QNetworkRequest::Attribute)" then
    Some (one_integer args "QNetworkReply attribute expects one integer QNetworkRequest::Attribute"
            (fun attribute =>
               let! v := call (QNetworkReply_attribute o attribute) in succeed_json v))
  else if is_a "QTcpServer"%string &&
     (sg "listen(QHostAddress,quint16)" || sg "listen(QHostAddress,ushort)") then
    let message := "QTcpServer listen expects an IP address string and port in 0..65535"%string in
    Some (match args, integerArgument args 1 with
          | [JString text; _], Some port =>
              if (port <? 0) || (65535 <? port) then fail message
              else match q_host text with
                   | None => fail "invalid QTcpServer IP address"
                   | Some address =>
                       let! listening := call (QTcpServer_listen o address port) in
                       if negb listening
                       then let! e := call (QTcpServer_errorString o) in fail e
                       else succeed_with (JBool true)
                   end
          | _, _ => fail message
          end)
  else if is_a "QTcpServer"%string && sg "serverPort()" then
    Some (no_args args "QTcpServer serverPort() takes no arguments" (get_int (QTcpServer_serverPort o)))
  else if is_a "QTcpServer"%string && sg "close()" then
    Some (no_args args "QTcpServer close() takes no arguments" (do_call (QTcpServer_close o)))
  else None.

(** ** QIODevice *)

Definition call_device (s : state) (o : ptr) (signature : string) (args : list json) :
    option (M json) :=
  let sg e := sig_is signature e in
  if negb (w_is_a (st_world s) "QIODevice" o) then None
  else if sg "open(QIODevice::OpenMode)" then
    Some (one_integer args "QIODevice open expects an integer OpenMode bitmask" (fun mode =>
      let! opened := call (QIODevice_open o mode) in
      if negb opened then let! e := call (QIODevice_errorString o) in fail e
      else succeed_with (JBool true)))
  else if sg "close()" then
    Some (no_args args "QIODevice close() takes no arguments" (do_call (QIODevice_close o)))
  else if sg "isOpen()" then
    Some (no_args args "QIODevice isOpen() takes no arguments" (get_bool (QIODevice_isOpen o)))
  else if sg "isReadable()" then
    Some (no_args args "QIODevice isReadable() takes no arguments" (get_bool (QIODevice_isReadable o)))
  else if sg "isWritable()" then
    Some (no_args args "QIODevice isWritable() takes no arguments" (get_bool (QIODevice_isWritable o)))
  else if sg "atEnd()" then
    Some (no_args args "QIODevice atEnd() takes no arguments" (get_bool (QIODevice_atEnd o)))
  else if sg "readAll()" then
    Some (no_args args "QIODevice readAll() takes no arguments" (get_bytes (QIODevice_readAll o)))
  else if sg "readLine()" then
    Some (no_args args "QIODevice readLine() takes no arguments" (get_bytes (QIODevice_readLine o)))
  else if sg "write(QByteArray)" then
    Some (match args with
          | [arg] => with_value s arg MT_QByteArray (fun data =>
              let! written := call (QIODevice_write o (as_bytes data)) in
              if written <? 0 then let! e := call (QIODevice_errorString o) in fail e
              else succeed_with (num written))
          | _ => fail "QIODevice write expects one QByteArray value"
          end)
  else if sg "pos()" then
    Some (no_args args "QIODevice pos() takes no arguments" (get_int (QIODevice_pos o)))
  else if sg "size()" then
    Some (no_args args "QIODevice size() takes no arguments" (get_int (QIODevice_size o)))
  else if sg "seek(qint64)" then
    Some (match args, integer64Argument args 0 with
          | [_], Some position =>
              let! moved := call (QIODevice_seek o position) in
              if negb moved then let! e := call (QIODevice_errorString o) in fail e
              else succeed_with (JBool true)
          | _, _ => fail "QIODevice seek expects one safe-range integer position"
          end)
  else None.

(** ** QSettings, QFileSystemWatcher and QProcess *)

Definition call_settings (s : state) (o : ptr) (signature : string) (args : list json) :
    option (M json) :=
  let sg e := sig_is signature e in
  if negb (w_is_a (st_world s) "QSettings" o) then None
  else if sg "value(QString)" then
    Some (one_string args "QSettings value(QString) expects one string key" (fun key =>
      let! v := call (QSettings_value o key) in succeed_json v))
  else if sg "setValue(QString,QVariant)" then
    Some (match args with
          | [JString key; v] => do_call (QSettings_setValue o key (q_to_variant v))
          | _ => fail "QSettings setValue expects a string key and JSON value"
          end)
  else if sg "contains(QString)" then
    Some (one_string args "QSettings contains(QString) expects one string key" (fun key =>
      get_bool (QSettings_contains o key)))
  else if sg "remove(QString)" then
    Some (one_string args "QSettings remove(QString) expects one string key" (fun key =>
      do_call (QSettings_remove o key)))
  else if sg "allKeys()" then
    Some (no_args args "QSettings allKeys() takes no arguments" (
      let! keys := call (QSettings_allKeys o) in succeed_with (q_from_variant (VStringList keys))))
  else if sg "sync()" then
    Some (no_args args "QSettings sync() takes no arguments" (
      let! _ := call (QSettings_sync o) in
      let! no_error := call (QSettings_statusNoError o) in
      if negb no_error then fail "QSettings could not synchronize its backing store" else succeed))
  else None.

(** A native call that reports failure by [false]. *)
Definition require (n : native bool) (message : string) : M json :=
  let! done_ := call n in
  if negb done_ then fail message else succeed_with (JBool true).

Definition call_watcher_process (s : state) (o : ptr) (signature : string) (args : list json) :
    option (M json) :=
  let sg e := sig_is signature e in
  let watcher := w_is_a (st_world s) "QFileSystemWatcher" o in
  let process := w_is_a (st_world s) "QProcess" o in
  if watcher && sg "addPath(QString)" then
    Some (one_string args "QFileSystemWatcher addPath(QString) expects one path string" (fun path =>
      require (QFileSystemWatcher_addPath o path) "QFileSystemWatcher could not watch the path"))
  else if watcher && sg "removePath(QString)" then
    Some (one_string args "QFileSystemWatcher removePath(QString) expects one path string" (fun path =>
      require (QFileSystemWatcher_removePath o path) "QFileSystemWatcher was not watching the path"))
  else if watcher && sg "files()" then
    Some (no_args args "QFileSystemWatcher files() takes no arguments" (
      let! l := call (QFileSystemWatcher_files o) in succeed_with (q_from_variant (VStringList l))))
  else if watcher && sg "directories()" then
    Some (no_args args "QFileSystemWatcher directories() takes no arguments" (
      let! l := call (QFileSystemWatcher_directories o) in
      succeed_with (q_from_variant (VStringList l))))
  else if process && sg "readAllStandardOutput()" then
    Some (no_args args "QProcess readAllStandardOutput() takes no arguments"
            (get_bytes (QProcess_readAllStandardOutput o)))
  else if process && sg "readAllStandardError()" then
    Some (no_args args "QProcess readAllStandardError() takes no arguments"
            (get_bytes (QProcess_readAllStandardError o)))
  else if process && sg "exitCode()" then
    Some (no_args args "QProcess exitCode() takes no arguments" (get_int (QProcess_exitCode o)))
  else None.

(** ** Main windows and layouts *)

Definition dock_areas : list Z := [1; 2; 4; 8].

Definition call_window_layout (s : state) (o : ptr) (signature : string) (args : list json) :
    option (M json) :=
  let sg e := sig_is signature e in
  let is_a c := w_is_a (st_world s) c o in
  let exactly (n : Z) message body := if arr_size args =? n then body else fail message in
  if is_a "QMainWindow"%string && sg "setMenuBar(QMenuBar*)" then
    Some (exactly 1 "setMenuBar expects one menu bar handle"%string (
      with_object s args 0 "QMenuBar" "setMenuBar expects a QMenuBar handle" (fun menuBar =>
        do_call (QMainWindow_setMenuBar o menuBar))))
  else if is_a "QMainWindow"%string && sg "addToolBar(QToolBar*)" then
    Some (exactly 1 "addToolBar expects one toolbar handle"%string (
      with_object s args 0 "QToolBar" "addToolBar expects a QToolBar handle" (fun toolbar =>
        do_call (QMainWindow_addToolBar o toolbar))))
  else if is_a "QMainWindow"%string && sg "addDockWidget(Qt::DockWidgetArea,QDockWidget*)" then
    Some (exactly 2 "addDockWidget expects a dock area and dock widget handle"%string (
      with_object s args 1 "QDockWidget" "addDockWidget expects a QDockWidget handle" (fun dock =>
        let message := "dock area must be a Qt::DockWidgetArea integer value"%string in
        match integerArgument args 0 with
        | Some area =>
            if bool_decide (area ∈ dock_areas) then do_call (QMainWindow_addDockWidget o area dock)
            else fail message
        | None => fail message
        end)))
  else if is_a "QWidget"%string && sg "setLayout(QLayout*)" then
    Some (exactly 1 "setLayout expects one layout handle"%string (
      with_object s args 0 "QLayout" "setLayout expects a QLayout handle" (fun layout =>
        if bool_decide (w_layout (st_world s) o = Some layout) then succeed
        else if negb (is_null_ptr (w_layout (st_world s) o)) then fail "QWidget already has a layout"
        else do_call (QWidget_setLayout o layout))))
  else if is_a "QLayout"%string && sg "setSpacing(int)" then
    Some (one_integer args "setSpacing expects one 32-bit integer" (fun spacing =>
      do_call (QLayout_setSpacing o spacing)))
  else if is_a "QLayout"%string && sg "setContentsMargins(int,int,int,int)" then
    Some (four_integers args "setContentsMargins expects four 32-bit integers" (fun l t r b =>
      do_call (QLayout_setContentsMargins o l t r b)))
  else if is_a "QMainWindow"%string && sg "setCentralWidget(QWidget*)" then
    Some (match args with
          | [JObject _ as arg] =>
              with_child s arg "QWidget" "setCentralWidget expects a QWidget handle" (fun child =>
                do_call (QMainWindow_setCentralWidget o child))
          | _ => fail "setCentralWidget requires one Qt object handle"
          end)
  else if is_a "QLayout"%string && sg "addWidget(QWidget*)" then
    Some (match args with
          | [JObject _ as arg] =>
              with_child s arg "QWidget" "addWidget expects a QWidget handle" (fun child =>
                do_call (QLayout_addWidget o child))
          | _ => fail "addWidget requires one Qt object handle"
          end)
  else if is_a "QBoxLayout"%string && sg "addLayout(QLayout*)" then
    Some (match args with
          | [JObject _ as arg] =>
              with_child s arg "QLayout" "addLayout expects a QLayout handle" (fun child =>
                do_call (QBoxLayout_addLayout o child))
          | _ => fail "addLayout requires one Qt object handle"
          end)
  else None.

(** ** Item widgets *)

(** [row < 0 || row >= rows || column < 0 || column >= columns], with the
    counts asked for only when the test before them passes. *)
Definition in_table (table : ptr) (row column : Z) : M bool :=
  if row <? 0 then ret false
  else
    let! rows := call (QTableWidget_rowCount table) in
    if rows <=? row then ret false
    else if column <? 0 then ret false
    else let! columns := call (QTableWidget_columnCount table) in ret (column <? columns).

Definition call_items (s : state) (o : ptr) (signature : string) (args : list json) :
    option (M json) :=
  let sg e := sig_is signature e in
  let is_a c := w_is_a (st_world s) c o in
  let outside := "QTableWidget cell is outside its current row or column range"%string in
  if is_a "QComboBox"%string && sg "addItem(QString)" then
    Some (one_string args "addItem(QString) requires one string" (fun text =>
      do_call (QComboBox_addItem o text)))
  else if is_a "QListWidget"%string && sg "addItem(QString)" then
    Some (one_string args "addItem(QString) requires one string" (fun text =>
      let! _ := call (QListWidget_addItem o text) in
      let! count := call (QListWidget_count o) in succeed_with (num (count - 1))))
  else if is_a "QListWidget"%string && sg "itemText(int)" then
    Some (one_integer args "itemText(int) requires one 32-bit row index" (fun row =>
      let message := "QListWidget row is outside its current item range"%string in
      if row <? 0 then fail message
      else
        let! count := call (QListWidget_count o) in
        if count <=? row then fail message else get_text (QListWidget_itemText o row)))
  else if is_a "QTableWidget"%string && sg "setCellText(int,int,QString)" then
    Some (match args, integerArgument args 0, integerArgument args 1 with
          | [_; _; JString text], Some row, Some column =>
              let! inside := in_table o row column in
              if negb inside then fail outside
              else
                let! item := call (QTableWidget_item o row column) in
                do_call (match item with
                         | None => QTableWidget_setItem o row column text
                         | Some _ => QTableWidget_setItemText o row column text
                         end)
          | _, _, _ => fail "setCellText(int,int,QString) requires two 32-bit indices and a string"
          end)
  else if is_a "QTableWidget"%string && sg "cellText(int,int)" then
    Some (two_integers args "cellText(int,int) requires two 32-bit indices" (fun row column =>
      let! inside := in_table o row column in
      if negb inside then fail outside
      else
        let! item := call (QTableWidget_item o row column) in
        succeed_with (JString (default estr item))))
  else if is_a "QTreeWidget"%string && sg "addTopLevelItem(QString)" then
    Some (one_string args "addTopLevelItem(QString) requires one string" (fun text =>
      let! item := call (QTreeWidget_addTopLevelItem o text) in
      get_int (QTreeWidget_indexOfTopLevelItem o item)))
  else if is_a "QTreeWidget"%string && sg "topLevelItemText(int)" then
    Some (one_integer args "topLevelItemText(int) requires one 32-bit row index" (fun row =>
      let message := "QTreeWidget row is outside its current top-level item range"%string in
      if row <? 0 then fail message
      else
        let! count := call (QTreeWidget_topLevelItemCount o) in
        if count <=? row then fail message else get_text (QTreeWidget_topLevelItemText o row)))
  else None.

(** ** Containers *)

(** The optional spans of QGridLayout::addWidget. *)
Definition grid_position (args : list json) : option (Z * Z) :=
  match integerArgument args 1, integerArgument args 2 with
  | Some row, Some column => Some (row, column)
  | _, _ => None
  end.

Definition grid_span (args : list json) : option (Z * Z) :=
  match integerArgument args 3, integerArgument args 4 with
  | Some rowSpan, Some columnSpan => Some (rowSpan, columnSpan)
  | _, _ => None
  end.

Definition call_tab_grid_form (s : state) (o : ptr) (signature : string) (args : list json) :
    option (M json) :=
  let sg e := sig_is signature e in
  let is_a c := w_is_a (st_world s) c o in
  if is_a "QTabWidget"%string && sg "addTab(QWidget*,QString)" then
    Some (match args with
          | [JObject _ as arg; JString label] =>
              with_child s arg "QWidget" "addTab expects a QWidget handle" (fun child =>
                get_int (QTabWidget_addTab o child label))
          | _ => fail "addTab requires a Qt widget handle and a string"
          end)
  else if is_a "QGridLayout"%string &&
          (sg "addWidget(QWidget*,int,int)" || sg "addWidget(QWidget*,int,int,int,int)") then
    let expected := if sg "addWidget(QWidget*,int,int)" then 3 else 5 in
    let message := "QGridLayout indices and spans must be 32-bit integers"%string in
    Some (if negb (arr_size args =? expected)
          then fail "QGridLayout addWidget received the wrong argument count"
          else with_object s args 0 "QWidget" "QGridLayout expects a QWidget handle" (fun child =>
            match grid_position args with
            | None => fail message
            | Some (row, column) =>
                if expected =? 3 then do_call (QGridLayout_addWidget o child row column)
                else match grid_span args with
                     | None => fail message
                     | Some (rowSpan, columnSpan) =>
                         do_call (QGridLayout_addWidgetSpan o child row column rowSpan columnSpan)
                     end
            end))
  else if is_a "QFormLayout"%string && sg "addRow(QString,QWidget*)" then
    Some (match args with
          | [JString label; _] =>
              with_object s args 1 "QWidget" "QFormLayout expects a QWidget handle" (fun field =>
                do_call (QFormLayout_addRowText o label field))
          | _ => fail "QFormLayout addRow(QString,QWidget*) expects a string and a widget handle"
          end)
  else if is_a "QFormLayout"%string && sg "addRow(QWidget*,QWidget*)" then
    Some (if negb (arr_size args =? 2)
          then fail "QFormLayout addRow(QWidget*,QWidget*) expects two widget handles"
          else with_object s args 0 "QWidget" "QFormLayout expects QWidget handles" (fun label =>
            with_object s args 1 "QWidget" "QFormLayout expects QWidget handles" (fun field =>
              do_call (QFormLayout_addRow o label field))))
  else None.

(** The handlers that take one object handle and pass it to one setter. *)
Definition one_handle (s : state) (args : list json) (count_message class_name message : string)
    (body : ptr -> M json) : M json :=
  if negb (arr_size args =? 1) then fail count_message
  else with_object s args 0 class_name message body.

Definition call_containers (s : state) (o : ptr) (signature : string) (args : list json) :
    option (M json) :=
  let sg e := sig_is signature e in
  let is_a c := w_is_a (st_world s) c o in
  if is_a "QStackedWidget"%string && sg "addWidget(QWidget*)" then
    Some (one_handle s args "QStackedWidget addWidget expects one widget handle" "QWidget"
            "QStackedWidget expects a QWidget handle" (fun child =>
            get_int (QStackedWidget_addWidget o child)))
  else if is_a "QSplitter"%string && sg "addWidget(QWidget*)" then
    Some (one_handle s args "QSplitter addWidget expects one widget handle" "QWidget"
            "QSplitter expects a QWidget handle" (fun child => do_call (QSplitter_addWidget o child)))
  else if is_a "QScrollArea"%string && sg "setWidget(QWidget*)" then
    Some (one_handle s args "QScrollArea setWidget expects one widget handle" "QWidget"
            "QScrollArea expects a QWidget handle" (fun child =>
            do_call (QScrollArea_setWidget o child)))
  else if is_a "QGraphicsScene"%string && sg "addWidget(QWidget*)" then
    Some (one_handle s args "QGraphicsScene addWidget expects one widget handle" "QWidget"
            "QGraphicsScene expects a QWidget handle" (fun child =>
            get_handle (QGraphicsScene_addWidget o child)))
  else if is_a "QGraphicsView"%string && sg "setScene(QGraphicsScene*)" then
    Some (one_handle s args "QGraphicsView setScene expects one scene handle" "QGraphicsScene"
            "QGraphicsView expects a QGraphicsScene handle" (fun scene =>
            do_call (QGraphicsView_setScene o scene)))
  else if is_a "QTextEdit"%string && sg "setDocument(QTextDocument*)" then
    Some (one_handle s args "QTextEdit setDocument expects one document handle" "QTextDocument"
            "QTextEdit expects a QTextDocument handle" (fun document =>
            do_call (QTextEdit_setDocument o document)))
  else if is_a "QUndoView"%string && sg "setStack(QUndoStack*)" then
    Some (one_handle s args "QUndoView setStack expects one undo stack handle" "QUndoStack"
            "QUndoView expects a QUndoStack handle" (fun stack => do_call (QUndoView_setStack o stack)))
  else if is_a "QUndoView"%string && sg "setGroup(QUndoGroup*)" then
    Some (one_handle s args "QUndoView setGroup expects one undo group handle" "QUndoGroup"
            "QUndoView expects a QUndoGroup handle" (fun group => do_call (QUndoView_setGroup o group)))
  else if is_a "QWizard"%string && sg "addPage(QWizardPage*)" then
    Some (one_handle s args "QWizard addPage expects one page handle" "QWizardPage"
            "QWizard expects a QWizardPage handle" (fun page => get_int (QWizard_addPage o page)))
  else None.

(** ** Buttons, tabs, menus and toolbars *)

Definition call_actions (s : state) (o : ptr) (signature : string) (args : list json) :
    option (M json) :=
  let sg e := sig_is signature e in
  let is_a c := w_is_a (st_world s) c o in
  if is_a "QButtonGroup"%string &&
     (sg "addButton(QAbstractButton*)" || sg "addButton(QAbstractButton*,int)") then
    let expected := if sg "addButton(QAbstractButton*)" then 1 else 2 in
    Some (if negb (arr_size args =? expected)
          then fail "QButtonGroup addButton received the wrong argument count"
          else with_object s args 0 "QAbstractButton" "QButtonGroup expects a QAbstractButton handle"
            (fun button =>
               if arr_size args =? 2 then
                 match integerArgument args 1 with
                 | Some buttonId => do_call (QButtonGroup_addButton o button buttonId)
                 | None => fail "QButtonGroup id must be a 32-bit integer"
                 end
               else do_call (QButtonGroup_addButton o button (-1))))
  else if is_a "QTabBar"%string && sg "addTab(QString)" then
    Some (one_string args "QTabBar addTab(QString) expects one string" (fun text =>
      get_int (QTabBar_addTab o text)))
  else if is_a "QMenu"%string && sg "addAction(QString)" then
    Some (one_string args "QMenu addAction(QString) expects one string" (fun text =>
      get_handle (QMenu_addActionText o text)))
  else if is_a "QMenu"%string && sg "addAction(QAction*)" then
    Some (one_handle s args "QMenu addAction(QAction*) expects one action handle" "QAction"
            "QMenu expects a QAction handle" (fun action => do_call (QMenu_addAction o action)))
  else if is_a "QMenuBar"%string && sg "addMenu(QMenu*)" then
    Some (one_handle s args "QMenuBar addMenu(QMenu*) expects one menu handle" "QMenu"
            "QMenuBar expects a QMenu handle" (fun menu => get_handle (QMenuBar_addMenu o menu)))
  else if is_a "QMenuBar"%string && sg "addMenu(QString)" then
    Some (one_string args "QMenuBar addMenu(QString) expects one string" (fun text =>
      get_handle (QMenuBar_addMenuText o text)))
  else if is_a "QToolBar"%string && sg "addAction(QString)" then
    Some (one_string args "QToolBar addAction(QString) expects one string" (fun text =>
      get_handle (QToolBar_addActionText o text)))
  else if is_a "QToolBar"%string && sg "addAction(QAction*)" then
    Some (one_handle s args "QToolBar addAction(QAction*) expects one action handle" "QAction"
            "QToolBar expects a QAction handle" (fun action => do_call (QToolBar_addAction o action)))
  else None.

(** ** The operation *)

Definition call_handlers : list (state -> ptr -> string -> list json -> option (M json)) :=
  [call_widget_geometry; call_widget_getter; call_ax; call_network; call_device; call_settings;
   call_watcher_process; call_window_layout; call_items; call_tab_grid_form; call_containers;
   call_actions].

Fixpoint first_handler (l : list (state -> ptr -> string -> list json -> option (M json)))
    (s : state) (o : ptr) (signature : string) (args : list json) : option (M json) :=
  match l with
  | [] => None
  | h :: l' =>
      match h s o signature args with
      | Some body => Some body
      | None => first_handler l' s o signature args
      end
  end.

(** The generated shards, then the meta-object of the object. *)
Definition call_generic (s : state) (o : ptr) (signature : string) (args : list json) : M json :=
  let! (handled, directResult, directError) := invoke (Some o) estr signature args JNull estr in
  if handled : bool then
    if negb (str_empty directError) then fail directError else succeed_with directResult
  else
    let! s' := get_state in
    let! result := invokeMethod (w_meta (st_world s') o) (OnObject o) signature args in
    match result with
    | Err error => fail error
    | Ok v => succeed_with v
    end.

Definition op_call (s : state) (o : ptr) (request : jmembers) : M json :=
  let signature := to_string (obj_value "method" request) in
  let argsValue := obj_value "args" request in
  if str_empty signature then fail "call requires a method signature"
  else if negb (is_undefined argsValue) && negb (is_array argsValue)
  then fail "call field args must be a JSON array"
  else
    let args := to_array argsValue in
    match first_handler call_handlers s o signature args with
    | Some body => body
    | None => call_generic s o signature args
    end.

End Calls.
