(* ===== verification/Requests.v ===== *)
(** handleRequest of qt6_bridge.cpp: one definition per operation, and the
    dispatch with its guards in the order of the source. *)
From S2P Require Export Calls.

(** * Definitions *)

Section Requests.
Context {T : QtTypes} {QB : QtLib} {QW : QtWorld} {CT : CxxTraits} {GN : GeneratedNames} {G : Generated} {BF : BuildFlags}.

(** ** Operations that need no application *)

Definition contains_dot (name : string) : bool := str_contains "."%char name.

Definition after_dot (name : string) : string := (split_qualified name).2.

Definition op_constructors : json :=
  let qualifiedNames :=
    sorted_set (filter (fun n => contains_dot n = true)
                  (availableConstructors ++ availableArgumentConstructors)) in
  success (strings_array
    (std_sort (qualifiedNames ++ counted_once (after_dot <$> qualifiedNames)))).

Definition op_value_types : json :=
  success (strings_array
    (sorted_set (availableValueTypes ++ availableDirectValueTypes ++ availableDirectValueConstructors))).

Definition op_meta_classes : json := success (strings_array availableMetaObjects).

Definition op_describe_class (request : jmembers) : json :=
  let className := to_string (obj_value "class" request) in
  if str_empty className || hasNul className
  then failure "describe_class requires a non-empty Qt class name without NUL characters"
  else
    let '(metaObject, error) := classMetaObject className estr in
    if negb (str_empty error) then failure error
    else match metaObject with
         | None => failure (q_arg "Qt class %1 has no linked QObject meta-object" className)
         | Some m => success (metaObjectDescription m)
         end.

(** The description of a type without methods. *)
Definition bare_value_description (className : string) : json :=
  make_object [("type"%string, JString className); ("kind"%string, JString "value");
               ("methods"%string, JArray [])].

Definition op_describe_value_type (request : jmembers) : json :=
  let typeName := to_string (obj_value "type" request) in
  if str_empty typeName || hasNul typeName
  then failure "describe_value_type requires a non-empty Qt value type name without NUL characters"
  else
    let '(type, error) := valueMetaType typeName estr in
    if negb (str_empty error) then failure error
    else
      match (if mt_valid type then q_meta_object type else None) with
      | Some m => success (metaObjectDescription m)
      | None =>
          let shortName := q_section_last typeName in
          let direct := describeDirectValueType shortName in
          if negb (is_undefined direct) then success direct
          else if str_mem shortName availableDirectValueConstructors
          then success (bare_value_description shortName)
          else failure (q_arg
            "Qt value type %1 has no generated meta-object or native method bindings" typeName)
      end.

(** ** Starting and stopping the application *)

Definition running : json := success (make_object [("running"%string, JBool true)]).

Definition op_application (current : thread) : M json :=
  let! s := get_state in
  if application (st_bridge s) then ret running
  else
    let! _ := call CreateApplication in
    let! _ := update_bridge (set_application true) in
    let! _ := update_bridge (set_application_thread (Some current)) in
    ret running.

(** [delete p]. *)
Definition qt_delete (p : ptr) : M unit :=
  let! s := get_state in
  if w_alive (st_world s) p then update_world (w_delete p) else crash UseAfterFree.

(** [if (!pointer.isNull()) delete pointer.data()] over a list. *)
Fixpoint delete_remaining (l : list ptr) : M unit :=
  match l with
  | [] => ret tt
  | p :: l' =>
      let! s := get_state in
      let! _ := (if w_alive (st_world s) p then qt_delete p else ret tt) in
      delete_remaining l'
  end.

(** The live objects with a handle whose parent has none. *)
Definition shutdown_roots (s : state) : list ptr :=
  filter (fun p =>
    (w_alive (st_world s) p &&
     match w_parent (st_world s) p with
     | None => true
     | Some parent => idForObject s (Some parent) =? 0
     end) = true) ((map_entries (objects (st_bridge s))).*2).

Definition op_shutdown (current : thread) : M json :=
  let! s := get_state in
  if negb (application (st_bridge s)) then ret (success JNull)
  else if negb (bool_decide (application_thread (st_bridge s) = Some current))
  then ret (failure "Qt shutdown must run on the application thread")
  else
    let! _ := update_bridge (set_subscriptions ∅) in
    let! s := get_state in
    let! _ := delete_remaining (shutdown_roots s) in
    let! _ := delete_remaining ((map_entries (objects (st_bridge s))).*2) in
    let! _ := update_bridge (set_objects ∅) in
    let! _ := update_bridge (set_values ∅) in
    let! _ := update_world w_destroy_application in
    let! _ := update_bridge (set_application false) in
    let! _ := update_bridge (set_application_thread None) in
    ret (success JNull).

(** ** Creation *)

Definition value_response (id : Z) (type_name : string) : json :=
  success (value_handle_json id type_name).

Definition op_value_new (request : jmembers) : M json :=
  let requestedType := to_string (obj_value "type" request) in
  let argsValue := obj_value "args" request in
  if str_empty requestedType || hasNul requestedType
  then fail "value_new requires a non-empty Qt value type name"
  else if negb (is_undefined argsValue) && negb (is_array argsValue)
  then fail "value_new args must be a JSON array"
  else
    let '(moduleName, className) := split_qualified requestedType in
    let args := to_array argsValue in
    let! (handled, constructed, error) := constructValueArguments moduleName className args estr in
    if handled : bool then
      if negb (v_valid constructed)
      then fail (if str_empty error
                 then q_arg "Qt value type %1 has no matching native constructor" requestedType
                 else error)
      else
        let! id := registerValue constructed in
        ret (value_response id (q_from_latin1 (mt_name (v_type constructed))))
    else if negb (str_empty error) then fail error
    else if negb (arr_empty args)
    then fail (q_arg (q_arg "Qt value type %1 has no generated constructor for %2 argument(s)"
                        requestedType) (q_number (arr_size args)))
    else
      let '(type, error) := valueMetaType requestedType error in
      if negb (str_empty error) then fail error
      else if negb (mt_valid type)
      then fail (q_arg "Qt gadget type %1 has no generated default value constructor" requestedType)
      else
        let value := q_default_variant type in
        if negb (v_valid value)
        then fail (q_arg "Qt cannot default-construct value type %1" requestedType)
        else
          let! id := registerValue value in
          ret (value_response id (q_from_latin1 (mt_name type))).

(** The [parent] field of [new]. *)
Definition parse_parent (s : state) (parentValue : json) : res (option ptr) :=
  if is_undefined parentValue || is_null parentValue then Ok None
  else
    let? parentId := parseObjectId parentValue in
    match objectForId s parentId with
    | None => Err "parent object handle is closed or unknown"
    | Some p => Ok (Some p)
    end.

Definition op_new (request : jmembers) : M json :=
  let className := to_string (obj_value "class" request) in
  let argsValue := obj_value "args" request in
  if str_empty className || hasNul className
  then fail "new requires a non-empty Qt class name without NUL characters"
  else
    let! s := get_state in
    match parse_parent s (obj_value "parent" request) with
    | Err error => fail error
    | Ok parent =>
        if negb (is_undefined argsValue) && negb (is_array argsValue)
        then fail "new field args must be a JSON array"
        else
          let! (created, error) := createObject className parent (to_array argsValue) in
          match created with
          | None => fail error
          | Some o =>
              let! current := parent_of o in
              let! _ := match parent with
                        | Some p => if is_null_ptr current then call (QObject_setParent o p) else ret tt
                        | None => ret tt
                        end in
              let! id := fresh_id in
              let! _ := emplace_object id o in
              let! s' := get_state in
              succeed_with (make_object
                [("object_id"%string, num id);
                 ("class"%string, JString (q_from_latin1 (mo_class_name (w_meta (st_world s') o))))])
          end
    end.

(** ** Events *)

(** The checks on [wait_ms] and [max]. *)
Definition not_number (v : json) : bool := negb (is_undefined v) && negb (is_double v).

Definition bad_count (v : json) : bool :=
  match v with
  | JDouble raw => negb (int_in_range 0 2147483647 raw)
  | _ => false
  end.

Definition event_limits (request : jmembers) : res (Z * Z) :=
  let waitValue := obj_value "wait_ms" request in
  let maximumValue := obj_value "max" request in
  if not_number waitValue || not_number maximumValue
  then Err "wait_ms and max must be integer JSON numbers"
  else if bad_count waitValue || bad_count maximumValue
  then Err "wait_ms and max must be non-negative 32-bit integers"
  else
    let waitMilliseconds := to_int 0 waitValue in
    let maximum := to_int 64 maximumValue in
    if (waitMilliseconds <? 0) || (kMaxWaitMilliseconds <? waitMilliseconds)
    then Err "wait_ms must be in 0..30000"
    else if (maximum <? 1) || (kMaxEventsPerPoll <? maximum)
    then Err "max must be in 1..1000"
    else Ok (waitMilliseconds, maximum).

Definition event_json (sub : subscription) (jsonArguments : list json) : json :=
  make_object [("object_id"%string, num (sub_object_id sub));
               ("signal"%string, JString (q_from_latin1 (sub_signature sub)));
               ("args"%string, JArray jsonArguments)].

(** The [while] loop over one spy; [room] events may still be appended. *)
Fixpoint drain_spy (room : nat) (sub : subscription) (events : list json) : M (list json) :=
  match room with
  | O => ret events
  | S room' =>
      let! s := get_state in
      match w_spy_queue (st_world s) (sub_spy sub) with
      | [] => ret events
      | _ :: _ =>
          let! arguments := call (SpyTakeFirst (sub_spy sub)) in
          let! jsonArguments := toJson_list arguments in
          drain_spy room' sub (events ++ [event_json sub jsonArguments])
      end
  end.

Definition room (maximum : Z) (events : list json) : nat := Z.to_nat (maximum - arr_size events).

Fixpoint drain_subscriptions (maximum : Z) (l : list subscription) (events : list json) :
    M (list json) :=
  match l with
  | [] => ret events
  | sub :: l' =>
      let! s := get_state in
      if negb (w_spy_valid (st_world s) (sub_spy sub)) then drain_subscriptions maximum l' events
      else
        let! events := drain_spy (room maximum events) sub events in
        if maximum <=? arr_size events then ret events
        else drain_subscriptions maximum l' events
  end.

(** The loop over the groups, erasing those of destroyed objects. *)
Fixpoint drain_groups (maximum : Z) (groups : list (Z * list subscription)) (events : list json) :
    M (list json) :=
  match groups with
  | [] => ret events
  | (id, subs) :: groups' =>
      let! s := get_state in
      match objectForId s id with
      | None =>
          let! _ := update_bridge (fun b => set_subscriptions (delete id (subscriptions b)) b) in
          drain_groups maximum groups' events
      | Some _ =>
          let! events := drain_subscriptions maximum subs events in
          if maximum <=? arr_size events then ret events else drain_groups maximum groups' events
      end
  end.

Definition op_events (request : jmembers) : M json :=
  match event_limits request with
  | Err error => fail error
  | Ok (waitMilliseconds, maximum) =>
      let! _ := call (if 0 <? waitMilliseconds then EventLoopWait waitMilliseconds else ProcessEvents) in
      let! s := get_state in
      let! events := drain_groups maximum (map_entries (subscriptions (st_bridge s))) [] in
      succeed_with (JArray events)
  end.

(** ** Objects *)

(** The source repeats the text of metaObjectDescription here. *)
Definition op_describe (request : jmembers) : M json :=
  let! s := get_state in
  match parseObjectId (obj_value "object_id" request) with
  | Err error => fail error
  | Ok id =>
      match objectForId s id with
      | None => fail "Qt object handle is closed or unknown"
      | Some object => succeed_with (metaObjectDescription (w_meta (st_world s) object))
      end
  end.

Definition op_get (s : state) (object : ptr) (request : jmembers) : M json :=
  let name := to_string (obj_value "name" request) in
  if str_empty name || hasNul name
  then fail "get requires a non-empty property name without NUL characters"
  else match q_index_of_property (w_meta (st_world s) object) name with
       | Some property => let! v := call (ReadProperty object property) in succeed_json v
       | None =>
           if str_mem name (w_dynamic_property_names (st_world s) object)
           then let! v := call (QObject_property object name) in succeed_json v
           else fail (q_arg "unknown Qt property %1" name)
       end.

Definition op_set (object : ptr) (request : jmembers) : M json :=
  let! r := setProperty object (to_string (obj_value "name" request)) (obj_value "value" request) in
  match r with
  | Err error => fail error
  | Ok _ => succeed
  end.

Definition push_subscription (id : Z) (sub : subscription) : M unit :=
  update_bridge (fun b =>
    set_subscriptions (<[id := default [] (subscriptions b !! id) ++ [sub]]> (subscriptions b)) b).

Definition op_connect (s : state) (id : Z) (object : ptr) (request : jmembers) : M json :=
  let rawSignature := to_string (obj_value "signal" request) in
  if str_empty rawSignature || hasNul rawSignature
  then fail "connect requires a signal signature without NUL characters"
  else
    let signature := q_normalized_signature rawSignature in
    let metaObject := w_meta (st_world s) object in
    match q_index_of_signal metaObject signature with
    | None => fail (q_arg2 "signal %1 does not exist on %2" rawSignature
                      (q_from_latin1 (mo_class_name metaObject)))
    | Some signal =>
        let! spy := call (NewSpy object signal) in
        let! s' := get_state in
        if negb (w_spy_valid (st_world s') spy)
        then fail (q_arg "Qt cannot capture signal %1 because one or more argument types are not registered"
                     rawSignature)
        else
          let! _ := push_subscription id (Subscription id signature spy) in
          succeed
    end.

(** The handles a deletion of [object] closes. *)
Definition invalidated (s : state) (object : ptr) : list Z :=
  (filter (fun '(_, p) =>
     match guarded (st_world s) p with
     | None => true
     | Some candidate =>
         bool_decide (candidate = object) || isDescendantOf (st_world s) (Some candidate) object
     end = true) (map_entries (objects (st_bridge s)))).*1.

Definition erase_handle (id : Z) : M unit :=
  let! _ := update_bridge (fun b => set_subscriptions (delete id (subscriptions b)) b) in
  update_bridge (fun b => set_objects (delete id (objects b)) b).

Fixpoint erase_handles (l : list Z) : M unit :=
  match l with
  | [] => ret tt
  | id :: l' => let! _ := erase_handle id in erase_handles l'
  end.

Definition op_delete (s : state) (object : ptr) : M json :=
  let! _ := erase_handles (invalidated s object) in
  let! _ := qt_delete object in
  succeed.

(** ** Values *)

Definition op_value_delete (id : Z) : M json :=
  let! _ := update_bridge (fun b => set_values (delete id (values b)) b) in
  succeed.

(** The text a shard leaves in [directError] is not looked at when it reports
    that it handled the call. *)
Definition op_value_call (id : Z) (value : qvariant) (request : jmembers) : M json :=
  let signature := to_string (obj_value "method" request) in
  let argsValue := obj_value "args" request in
  if negb (is_undefined argsValue) && negb (is_array argsValue)
  then fail "value_call args must be a JSON array"
  else
    let args := to_array argsValue in
    let className := q_from_latin1 (mt_name (v_type value)) in
    let! reflected :=
      match q_meta_object (v_type value) with
      | None => ret (Err estr)
      | Some m => invokeMethod m (OnGadget id) signature args
      end in
    match reflected with
    | Ok result => succeed_with result
    | Err reflectionError =>
        let! (handled, result, directError) := invokeValue id className signature args JNull estr in
        if handled : bool then succeed_with result
        else if negb (str_empty directError) then fail directError
        else if negb (str_empty reflectionError) then fail reflectionError
        else fail (q_arg2 "Qt value type %1 has no generated method %2" className signature)
    end.

Definition op_value_get (value : qvariant) (m : metaobject) (request : jmembers) : M json :=
  let name := to_string (obj_value "name" request) in
  match q_index_of_property m name with
  | None => fail (q_arg "unknown Qt gadget property %1" name)
  | Some property =>
      if negb (mp_readable property)
      then fail (q_arg "Qt gadget property %1 is not readable" name)
      else let! v := call (ReadGadget value property) in succeed_json v
  end.

Definition op_value_set (s : state) (id : Z) (value : qvariant) (m : metaobject)
    (request : jmembers) : M json :=
  let name := to_string (obj_value "name" request) in
  match q_index_of_property m name with
  | None => fail (q_arg "unknown Qt gadget property %1" name)
  | Some property =>
      if negb (mp_writable property)
      then fail (q_arg "Qt gadget property %1 is read-only" name)
      else with_value s (obj_value "value" request) (mp_type property) (fun converted =>
        let! (value', written) := call (WriteGadget value property converted) in
        let! _ := store_value id value' in
        if negb written then fail (q_arg "Qt rejected a value for gadget property %1" name)
        else succeed)
  end.

Definition describe_gadget_property (p : metaproperty) : json :=
  make_object [("name"%string, JString (q_from_latin1 (mp_name p)));
               ("type"%string, JString (q_from_latin1 (mt_name (mp_type p))));
               ("readable"%string, JBool (mp_readable p));
               ("writable"%string, JBool (mp_writable p))].

Definition describe_gadget_method (m : metamethod) : json :=
  make_object [("signature"%string, JString (q_from_latin1 (mm_signature m)));
               ("kind"%string, JString (if bool_decide (mm_type m = MSignal) then "signal" else "method"));
               ("public"%string, JBool (bool_decide (mm_access m = APublic)))].

Definition describe_gadget_enum (e : metaenum) : json :=
  make_object [("name"%string, JString (q_from_latin1 (me_name e)));
               ("is_flag"%string, JBool (me_is_flag e));
               ("keys"%string, enum_keys e)].

Definition gadget_description (m : metaobject) : json :=
  make_object [("class"%string, JString (q_from_latin1 (mo_class_name m)));
               ("properties"%string, JArray (describe_gadget_property <$> mo_properties m));
               ("methods"%string, JArray (describe_gadget_method <$> mo_methods m));
               ("enumerators"%string, JArray (describe_gadget_enum <$> mo_enumerators m))].

Definition op_value (operation : string) (request : jmembers) : M json :=
  let! s := get_state in
  match parse_value_id (obj_value "value_id" request) with
  | None => fail "value operation requires a positive integer value_id"
  | Some id =>
      match valueForId s id with
      | None => fail "Qt value handle is closed or unknown"
      | Some value =>
          if bool_decide (operation = "value_delete"%string) then op_value_delete id
          else if bool_decide (operation = "value_call"%string) then op_value_call id value request
          else match q_meta_object (v_type value) with
          | None =>
              if bool_decide (operation = "value_describe"%string) then
                let className := q_from_latin1 (mt_name (v_type value)) in
                let direct := describeDirectValueType className in
                if negb (is_undefined direct) then succeed_with direct
                else succeed_with (bare_value_description className)
              else fail "Qt value type has no gadget property meta-object"
          | Some m =>
              if bool_decide (operation = "value_get"%string) then op_value_get value m request
              else if bool_decide (operation = "value_set"%string) then op_value_set s id value m request
              else if bool_decide (operation = "value_describe"%string)
              then succeed_with (gadget_description m)
              else fail (q_arg "unknown Qt value operation %1" operation)
          end
      end
  end.

(** ** Static methods *)

Definition op_call_static (request : jmembers) : M json :=
  let className := to_string (obj_value "class" request) in
  let signature := to_string (obj_value "method" request) in
  match obj_value "args" request with
  | JArray args =>
      if str_empty className || hasNul className || str_empty signature || hasNul signature
      then fail "call_static requires class and method names without NUL characters"
      else
        let! (handled, directResult, directError) := invoke None className signature args JNull estr in
        if negb handled then fail (q_arg2 "static method %1 is not exposed for %2" signature className)
        else if negb (str_empty directError) then fail directError
        else succeed_with directResult
  | _ => fail "call_static args must be a JSON array"
  end.

(** ** Dispatch *)

(** The operations on an object handle. *)
Definition op_object (operation : string) (request : jmembers) : M json :=
  let! s := get_state in
  match parseObjectId (obj_value "object_id" request) with
  | Err error => fail error
  | Ok id =>
      match objectForId s id with
      | None => fail "Qt object handle is closed or unknown"
      | Some object =>
          if bool_decide (operation = "get"%string) then op_get s object request
          else if bool_decide (operation = "set"%string) then op_set object request
          else if bool_decide (operation = "call"%string) then op_call s object request
          else if bool_decide (operation = "connect"%string) then op_connect s id object request
          else if bool_decide (operation = "delete"%string) then op_delete s object
          else fail (q_arg "unsupported Qt operation: %1" operation)
      end
  end.

(** The operations that need the application, on its thread. *)
Definition op_running (operation : string) (request : jmembers) : M json :=
  if bool_decide (operation = "value_new"%string) then op_value_new request
  else if bool_decide (operation = "new"%string) then op_new request
  else if bool_decide (operation = "events"%string) then op_events request
  else if bool_decide (operation = "describe"%string) then op_describe request
  else if str_starts_with "value_" operation then op_value operation request
  else if bool_decide (operation = "call_static"%string) then op_call_static request
  else op_object operation request.

Definition handleRequest (current : thread) (request : jmembers) : M json :=
  let operation := to_string (obj_value "op" request) in
  if str_empty operation then fail "request requires a string field named op"
  else if bool_decide (operation = "constructors"%string) then ret op_constructors
  else if bool_decide (operation = "value_types"%string) then ret op_value_types
  else if bool_decide (operation = "meta_classes"%string) then ret op_meta_classes
  else if bool_decide (operation = "describe_class"%string) then ret (op_describe_class request)
  else if bool_decide (operation = "describe_value_type"%string)
  then ret (op_describe_value_type request)
  else if bool_decide (operation = "application"%string) then op_application current
  else if bool_decide (operation = "shutdown"%string) then op_shutdown current
  else
    let! s := get_state in
    if negb (application (st_bridge s)) || negb (w_core_application (st_world s))
    then fail "start the Qt application before creating or using Qt objects"
    else if negb (bool_decide (application_thread (st_bridge s) = Some current))
    then fail "Qt requests must run on the application thread"
    else op_running operation request.

End Requests.
