(* ===== verification/Wire.v ===== *)
(** The exported functions of qt6_bridge.cpp: [writeResponse],
    [kry_qt6_request] and [kry_qt6_abi_version]. *)
From S2P Require Export Requests.

(** * Definitions *)

(** What a request leaves behind: the returned integer, the bytes copied to
    the output buffer and the state. *)
Record wire_result `{QtWorld} : Type := WireResult {
  wr_length : Z;
  wr_written : option string;
  wr_state : state;
}.

Section Wire.
Context {T : QtTypes} {QB : QtLib} {QW : QtWorld} {CT : CxxTraits} {GN : GeneratedNames} {G : Generated} {BF : BuildFlags}.

Definition maximumJsonBytes : Z := kMaxResponseBytes / 4 * 3 - 3.

Definition byte_count (s : string) : Z := Z.of_nat (String.length s).

(** The response text, replaced by an error when it is too long to encode. *)
Definition response_json (object : json) : string :=
  let responseJson := q_document_compact object in
  if maximumJsonBytes <? byte_count responseJson
  then q_document_compact (failure "Qt response exceeds the 16 MiB wire limit")
  else responseJson.

(** The returned length, and the bytes written to [output] ([None] for a null
    pointer) of [capacity] bytes. *)
Definition writeResponse (object : json) (output : bool) (capacity : Z) : Z * option string :=
  let encoded := q_to_base64 (response_json object) in
  let length := byte_count encoded in
  if negb output || (capacity <? 0) || (kMaxResponseBytes <? capacity) then (0, None)
  else if capacity <? byte_count encoded then (length, None)
  else (length, Some encoded).

(** The response to the outcome of [handleRequest]: the [try] statement. *)
Definition response_of (r : outcome json) : option json :=
  match r with
  | Done object => Some object
  | Threw (Some what) => Some (failure (q_from_utf8 what))
  | Threw None => Some (failure "unknown exception inside Qt bridge")
  | Crashed _ => None
  end.

(** [request] is the byte string at the request pointer, [None] for null;
    [response] tells whether the response pointer is not null. [None] is
    undefined behaviour. *)
Definition kry_qt6_request (current : thread) (request : option string) (requestLength : Z)
    (response : bool) (capacity : Z) (s : state) : option wire_result :=
  match request with
  | None => Some (WireResult _ _ 0 None s)
  | Some bytes =>
      if (requestLength <? 2) || (kMaxRequestBytes <? requestLength) || negb response ||
         (capacity <? 1) || (kMaxResponseBytes <? capacity)
      then Some (WireResult _ _ 0 None s)
      else
        let '(errorString, document) := q_parse_document (str_left (Z.to_nat requestLength) bytes) in
        match document with
        | Some (JObject object) =>
            let '(r, s') := handleRequest current object s in
            match response_of r with
            | Some answer =>
                let '(length, written) := writeResponse answer response capacity in
                Some (WireResult _ _ length written s')
            | None => None
            end
        | _ =>
            let '(length, written) :=
              writeResponse (failure (q_arg "request must be a JSON object: %1" errorString))
                response capacity in
            Some (WireResult _ _ length written s)
        end
  end.

Definition kry_qt6_abi_version : Z := 1.

End Wire.
