(* ===== verification/Safety.v ===== *)
(** The invariant of the bridge state is kept by conversions, handle
    registration and every handler of the operation [call], whatever the
    generated shards do within their laws. *)
From S2P Require Export Invariant Requests.

(** * Definitions *)

(** What the generated shards promise: they work on the tables through
    fromJson, toJson, objectHandle and adopt only, a constructor shard returns
    an object it has just made, and writes its output only when it reports
    that it handled the call. *)
Class GeneratedLaws {T : QtTypes} {QW : QtWorld} (QL : QtLaws QW) (G : Generated) := {
  gl_invoke : forall shard o c s a out e, keeps (g_invoke shard o c s a out e);
  gl_construct : forall shard m c p a e g,
    hoare (live g) (live g) (g_construct_args shard m c p a None e)
      (fun r s => live g s /\ (r.1.1 = false -> r.1.2 = None) /\
         forall q, r.1.2 = Some q -> unregistered q s);
  gl_construct_value : forall shard m c a v e, keeps (g_construct_value shard m c a v e);
  gl_invoke_value : forall shard id c s a out e g, kept_values g !! id = None ->
    hoare (live g) (fun s => live g s /\ is_Some (values (st_bridge s) !! id))
      (g_invoke_value shard id c s a out e)
      (fun _ s => live g s /\ is_Some (values (st_bridge s) !! id));
}.

(** The identifiers given out so far, as a request on thread [t] finds them. *)
Definition past_of `{QtWorld} (s : state) (t : thread) : past :=
  {| past_next := next_object_id (st_bridge s); past_objects := objects (st_bridge s);
     past_values := dom (values (st_bridge s)); past_thread := t;
     kept_objects := ∅; kept_values := ∅; kept_subscriptions := fun _ => None |}.

(** A handler of [call] that applies keeps the invariant. *)
Definition handler_keeps {T : QtTypes} {QW : QtWorld} {QL : QtLaws QW} (h : option (M json)) : Prop :=
  forall body, h = Some body -> keeps body.

Section Safety.
Context {T : QtTypes} {QB : QtLib} {QW : QtWorld} {CT : CxxTraits} {GN : GeneratedNames} {G : Generated} {BF : BuildFlags}.
Context {LB : QtLibLaws QB} {QL : QtLaws QW} {GL : GeneratedLaws QL G}.

(** ** Conversions and calls *)

Lemma toJson_eq v :
  toJson v =
    if negb (v_valid v) then ret JNull
    else if mt_is_qobject_pointer (v_type v) then (fun s => (toJson_object s v, s))
    else match toJson_early v with
    | Some j => ret j
    | None =>
        if is_gadget_type (v_type v) then
          let! id := registerValue v in
          ret (value_handle_json id (q_from_latin1 (mt_name (v_type v))))
        else match v with
        | VEnum name size bits => ret (toJson_enum (MT_Enum name size) size bits)
        | VVariantMap m | VVariantHash m =>
            let! o := (fix entries (m : list (string * qvariant)) (o : jmembers) : M jmembers :=
              match m with
              | [] => ret o
              | (key, v) :: m' => let! j := toJson v in entries m' (obj_insert key j o)
              end) m [] in ret (JObject o)
        | _ =>
            match toJson_pure v with
            | Some j => ret j
            | None => toJson_other v
            end
        end
    end.
Proof. by destruct v. Qed.

(** What is closed under the steps toJson is made of holds of toJson. *)
Section Closed.
Variable P : forall A : Type, M A -> Prop.
Hypothesis P_ret : forall A (a : A), P A (ret a).
Hypothesis P_bind : forall A B (m : M A) (k : A -> M B),
  P A m -> (forall a, P B (k a)) -> P B (bind m k).
Hypothesis P_register : forall v, P Z (registerValue v).
Hypothesis P_object : forall v, P json (fun s => (toJson_object s v, s)).

Lemma toJson_other_closed v : P json (toJson_other v).
Proof. unfold toJson_other. case_match; auto. Qed.

Lemma toJson_closed : forall v, P json (toJson v).
Proof.
  fix IH 1. intros v. rewrite toJson_eq.
  destruct (negb (v_valid v)); [apply P_ret|].
  destruct (mt_is_qobject_pointer (v_type v)); [apply P_object|].
  destruct (toJson_early v); [apply P_ret|].
  destruct (is_gadget_type (v_type v)); [by apply P_bind|].
  destruct v; try (destruct (toJson_pure _); [apply P_ret|apply toJson_other_closed]);
    try apply P_ret.
  all: apply P_bind; [|intros o; apply P_ret].
  all: generalize (@nil (string * json)).
  all: induction m as [|[k v] m IHm]; intros o; [apply P_ret|].
  all: apply P_bind; [apply IH|intros j; apply IHm].
Qed.

Lemma toJson_list_closed l : P (list json) (toJson_list l).
Proof.
  induction l as [|v l IH]; simpl; [apply P_ret|].
  apply P_bind; [apply toJson_closed|]. intros j. apply P_bind; [apply IH|]. intros js. apply P_ret.
Qed.

End Closed.

(** The only steps of toJson that read the state of Qt: they do not change it,
    and end or read a dangling pointer. *)
Lemma toJson_object_outcome v s :
  match toJson_object s v with Done _ => True | Threw _ => False | Crashed u => u = DanglingVariant end.
Proof. unfold toJson_object. repeat case_match; simplify_eq; done. Qed.

Lemma keeps_toJson_object v : keeps (fun s => (toJson_object s v, s)).
Proof.
  intros g s Hs. pose proof (toJson_object_outcome v s) as H. by destruct (toJson_object s v).
Qed.

Lemma keeps_toJson v : keeps (toJson v).
Proof.
  apply (toJson_closed (fun A m => keeps m));
    auto using @keeps_ret, @keeps_bind, keeps_registerValue, keeps_toJson_object.
Qed.

(** Calls into Qt leave the tables alone. *)
Lemma hoare_call_bridge {A} (n : native A) b g :
  hoare (live g) (fun s => live g s /\ st_bridge s = b) (call n)
    (fun _ s => live g s /\ st_bridge s = b).
Proof.
  intros [b' w] [Hl Hb]. unfold call. simpl in *. pose proof (live_native g n b' w Hl) as Hl'.
  by destruct (w_native n w) as [[a|what] w'].
Qed.

Lemma keeps_hoare {A} (m : M A) g (P : state -> Prop) :
  keeps m -> (forall s, P s -> live g s) -> hoare (live g) P m (fun _ => live g).
Proof. intros Hm HP. eapply hoare_weaken; [apply Hm|exact HP|done]. Qed.

Lemma keeps_toJson_list l : keeps (toJson_list l).
Proof.
  apply (toJson_list_closed (fun A m => keeps m));
    auto using @keeps_ret, @keeps_bind, keeps_registerValue, keeps_toJson_object.
Qed.

Lemma keeps_get_handle n : returns_handle n -> keeps (get_handle n).
Proof.
  intros Hn. unfold get_handle, succeed_handle. intros g.
  eapply hoare_bind; [by apply hoare_call_result|].
  intros p. eapply hoare_bind; [apply hoare_objectHandleValue|]. intros j. by intros s.
Qed.

Lemma keeps_sub_object n : returns_handle n -> keeps (sub_object n).
Proof.
  intros Hn. unfold sub_object. intros g. eapply hoare_bind; [by apply hoare_call_result|].
  intros [p|]; [|by intros s [Hs _]].
  eapply hoare_bind; [apply hoare_objectHandleValue|]. intros j. by intros s.
Qed.

End Safety.

(** Proves [keeps] of code without obligations of its own. *)
Ltac keeps_step :=
  match goal with
  | |- keeps (ret _) => apply keeps_ret
  | |- keeps (call _) => apply keeps_call
  | |- keeps (fail _) => apply keeps_ret
  | |- keeps (succeed) => apply keeps_ret
  | |- keeps (succeed_with _) => apply keeps_ret
  | |- keeps (toJson _) => apply keeps_toJson
  | |- keeps (registerValue _) => apply keeps_registerValue
  | |- keeps (bind get_state _) => apply keeps_with_state; intros ?
  | |- keeps (bind _ _) => apply keeps_bind; [|intros ?]
  | |- keeps (let '(_, _) := ?x in _) => destruct x
  | |- keeps (if ?b then _ else _) => destruct b
  | |- keeps (match ?x with _ => _ end) => destruct x
  | |- keeps _ => progress simpl
  end.
Ltac keeps_tac := repeat (keeps_step || solve [eauto with kry]).

Section Handlers.
Context {T : QtTypes} {QB : QtLib} {QW : QtWorld} {CT : CxxTraits} {GN : GeneratedNames} {G : Generated} {BF : BuildFlags}.
Context {LB : QtLibLaws QB} {QL : QtLaws QW} {GL : GeneratedLaws QL G}.

(** ** The call handlers *)

Lemma handler_none : handler_keeps None.
Proof. done. Qed.

Lemma handler_some body : keeps body -> handler_keeps (Some body).
Proof. by intros H ? [= <-]. Qed.

End Handlers.

Ltac handler_step :=
  match goal with
  | |- handler_keeps None => apply handler_none
  | |- handler_keeps (Some _) => apply handler_some
  | |- handler_keeps (if ?b then _ else _) => destruct b
  | |- handler_keeps (let _ := _ in _) => cbv zeta
  | |- handler_keeps (match ?x with _ => _ end) => let E := fresh "E" in destruct x eqn:E
  | |- keeps (get_handle (if ?b then _ else _)) => destruct b
  | |- keeps (get_handle _) => apply keeps_get_handle; intros ?; reflexivity
  | |- keeps (sub_object _) => apply keeps_sub_object; intros ?; reflexivity
  | |- keeps (no_args _ _ _) => unfold no_args
  | |- keeps (one_string _ _ _) => unfold one_string
  | |- keeps (one_integer _ _ _) => unfold one_integer
  | |- keeps (two_integers _ _ _) => unfold two_integers
  | |- keeps (four_integers _ _ _) => unfold four_integers
  | |- keeps (two_strings_list _ _ _) => unfold two_strings_list
  | |- keeps (with_value _ _ _ _) => unfold with_value
  | |- keeps (with_object _ _ _ _ _ _) => unfold with_object
  | |- keeps (with_child _ _ _ _ _) => unfold with_child
  | |- keeps (one_handle _ _ _ _ _ _) => unfold one_handle
  | |- keeps (do_call _) => unfold do_call
  | |- keeps (get_int _) => unfold get_int
  | |- keeps (get_bool _) => unfold get_bool
  | |- keeps (get_text _) => unfold get_text
  | |- keeps (get_bytes _) => unfold get_bytes
  | |- keeps (get_size _) => unfold get_size
  | |- keeps (get_point _) => unfold get_point
  | |- keeps (get_rect _) => unfold get_rect
  | |- keeps (require _ _) => unfold require
  | |- keeps (in_table _ _ _) => unfold in_table
  | |- keeps (succeed_json _) => unfold succeed_json
  | |- keeps _ => keeps_step
  end.
Ltac handler_tac := repeat handler_step.

Section CallHandlers.
Context {T : QtTypes} {QB : QtLib} {QW : QtWorld} {CT : CxxTraits} {GN : GeneratedNames} {G : Generated} {BF : BuildFlags}.
Context {LB : QtLibLaws QB} {QL : QtLaws QW} {GL : GeneratedLaws QL G}.

Lemma call_widget_geometry_keeps s o sg args : handler_keeps (call_widget_geometry s o sg args).
Proof. unfold call_widget_geometry. handler_tac. Qed.

Lemma call_widget_getter_keeps s o sg args : handler_keeps (call_widget_getter s o sg args).
Proof. unfold call_widget_getter. handler_tac. Qed.

Lemma call_ax_base_keeps o sg args : handler_keeps (call_ax_base o sg args).
Proof. unfold call_ax_base. handler_tac. Qed.

Lemma call_ax_keeps s o sg args : handler_keeps (call_ax s o sg args).
Proof.
  unfold call_ax. cbv zeta. destruct (negb has_axcontainer); [apply handler_none|].
  match goal with |- context [match ?x with Some _ => _ | None => _ end] =>
    assert (handler_keeps x) as Hx; [|destruct x as [body|]; [exact Hx|handler_tac]] end.
  destruct (_ || _); [apply call_ax_base_keeps|apply handler_none].
Qed.

Lemma call_network_keeps s o sg args : handler_keeps (call_network s o sg args).
Proof. unfold call_network. handler_tac. Qed.

Lemma call_device_keeps s o sg args : handler_keeps (call_device s o sg args).
Proof. unfold call_device. handler_tac. Qed.

Lemma call_settings_keeps s o sg args : handler_keeps (call_settings s o sg args).
Proof. unfold call_settings. handler_tac. Qed.

Lemma call_watcher_process_keeps s o sg args : handler_keeps (call_watcher_process s o sg args).
Proof. unfold call_watcher_process. handler_tac. Qed.

Lemma call_window_layout_keeps s o sg args : handler_keeps (call_window_layout s o sg args).
Proof. unfold call_window_layout. handler_tac. Qed.

Lemma call_items_keeps s o sg args : handler_keeps (call_items s o sg args).
Proof. unfold call_items. handler_tac. Qed.

Lemma call_tab_grid_form_keeps s o sg args : handler_keeps (call_tab_grid_form s o sg args).
Proof. unfold call_tab_grid_form. handler_tac. Qed.

Lemma call_containers_keeps s o sg args : handler_keeps (call_containers s o sg args).
Proof. unfold call_containers. handler_tac. Qed.

Lemma call_actions_keeps s o sg args : handler_keeps (call_actions s o sg args).
Proof. unfold call_actions. handler_tac. Qed.

Lemma first_handler_keeps l s o sg args :
  Forall (fun h => forall s o sg args, handler_keeps (h s o sg args)) l ->
  handler_keeps (first_handler l s o sg args).
Proof.
  induction 1 as [|h l Hh _ IH]; simpl; [apply handler_none|].
  destruct (h s o sg args) as [body|] eqn:E; [|exact IH].
  intros ? [= <-]. by eapply Hh.
Qed.

Lemma call_handlers_keep :
  Forall (fun h => forall s o sg args, handler_keeps (h s o sg args)) call_handlers.
Proof.
  unfold call_handlers. repeat constructor; [apply call_widget_geometry_keeps|
    apply call_widget_getter_keeps|apply call_ax_keeps|apply call_network_keeps|
    apply call_device_keeps|apply call_settings_keeps|apply call_watcher_process_keeps|
    apply call_window_layout_keeps|apply call_items_keeps|apply call_tab_grid_form_keeps|
    apply call_containers_keeps|apply call_actions_keeps].
Qed.

End CallHandlers.
