(* ===== verification/Stores.v ===== *)
(** Computations that leave the objects alone: what the conversion of results
    to JSON changes of the state. *)
From S2P Require Export Safety.

(** * Definitions *)

Section Stores.
Context {T : QtTypes} {QW : QtWorld}.

(** States that differ in the stored values only. *)
Record same_objects (s s' : state) : Prop := SameObjects {
  same_world : st_world s' = st_world s;
  same_table : objects (st_bridge s') = objects (st_bridge s);
  same_subscriptions : subscriptions (st_bridge s') = subscriptions (st_bridge s);
  same_application : application (st_bridge s') = application (st_bridge s);
  same_thread : application_thread (st_bridge s') = application_thread (st_bridge s);
}.

(** A computation that only stores values, and never throws. *)
Definition only_stores {A : Type} (m : M A) : Prop :=
  forall s, match m s with
            | (Done _, s') => same_objects s s'
            | (Threw _, _) => False
            | (Crashed u, _) => u = DanglingVariant
            end.

(** Qt is left alone, and stored values stay. *)
Definition only_extends {A : Type} (m : M A) : Prop :=
  forall s, match m s with
            | (Done _, s') => st_world s' = st_world s /\
                forall id, is_Some (values (st_bridge s) !! id) -> is_Some (values (st_bridge s') !! id)
            | _ => True
            end.

End Stores.

Section Conversion.
Context {T : QtTypes} {QB : QtLib} {QW : QtWorld} {CT : CxxTraits} {GN : GeneratedNames}.

Lemma same_objects_refl s : same_objects s s.
Proof. by split. Qed.

Lemma same_objects_trans s1 s2 s3 : same_objects s1 s2 -> same_objects s2 s3 -> same_objects s1 s3.
Proof. intros [] []. split; congruence. Qed.

(** ** Computations that only store values *)

Lemma only_stores_ret {A} (a : A) : only_stores (ret a).
Proof. intros s. apply same_objects_refl. Qed.

Lemma only_stores_bind {A B} (m : M A) (k : A -> M B) :
  only_stores m -> (forall a, only_stores (k a)) -> only_stores (bind m k).
Proof.
  intros Hm Hk s. specialize (Hm s). unfold bind. destruct (m s) as [[a|what|u] s']; [|done..].
  specialize (Hk a s'). destruct (k a s') as [[b|what|u] s'']; [|done..].
  by eapply same_objects_trans.
Qed.

(** What registerValue does. *)
Lemma registerValue_effect v s : exists id b,
  registerValue v s = (Done id, State _ _ b (st_world s)) /\
  objects b = objects (st_bridge s) /\ subscriptions b = subscriptions (st_bridge s) /\
  application b = application (st_bridge s) /\
  application_thread b = application_thread (st_bridge s) /\
  forall i, is_Some (values (st_bridge s) !! i) -> is_Some (values b !! i).
Proof.
  unfold registerValue. destruct (negb (v_valid v)); [by destruct s; eexists _, _|].
  unfold fresh_id, emplace_value, bind, get_state, update_bridge, ret. simpl.
  eexists _, _. split; [done|]. destruct (values _ !! _) eqn:E; simpl; split_and!; try done.
  intros i Hi. destruct (decide (i = next_object_id (st_bridge s))) as [->|Hne].
  - rewrite lookup_insert_eq. eauto.
  - by rewrite lookup_insert_ne.
Qed.

Lemma only_stores_registerValue v : only_stores (registerValue v).
Proof.
  intros s. destruct (registerValue_effect v s) as (id & b & -> & Ho & Hs & Ha & Ht & _). by split.
Qed.

Lemma only_stores_toJson_object v : only_stores (fun s => (toJson_object s v, s)).
Proof.
  intros s. pose proof (toJson_object_outcome v s) as H.
  destruct (toJson_object s v); [apply same_objects_refl|done..].
Qed.

Lemma only_stores_toJson v : only_stores (toJson v).
Proof.
  apply (toJson_closed (fun A m => only_stores m)); auto using @only_stores_ret, @only_stores_bind,
    only_stores_registerValue, only_stores_toJson_object.
Qed.

Lemma only_stores_toJson_list l : only_stores (toJson_list l).
Proof.
  apply (toJson_list_closed (fun A m => only_stores m)); auto using @only_stores_ret, @only_stores_bind,
    only_stores_registerValue, only_stores_toJson_object.
Qed.

(** ** Computations that only add values *)

Lemma only_extends_ret {A} (a : A) : only_extends (ret a).
Proof. by intros s. Qed.

Lemma only_extends_bind {A B} (m : M A) (k : A -> M B) :
  only_extends m -> (forall a, only_extends (k a)) -> only_extends (bind m k).
Proof.
  intros Hm Hk s. specialize (Hm s). unfold bind. destruct (m s) as [[a|what|u] s']; [|done..].
  specialize (Hk a s'). destruct (k a s') as [[b|what|u] s'']; [|done..].
  destruct Hm, Hk. split; [congruence|auto].
Qed.

Lemma only_extends_registerValue v : only_extends (registerValue v).
Proof. intros s. destruct (registerValue_effect v s) as (id & b & -> & _ & _ & _ & _ & Hv). by split. Qed.

Lemma only_extends_toJson v : only_extends (toJson v).
Proof.
  apply (toJson_closed (fun A m => only_extends m)); auto using @only_extends_ret,
    @only_extends_bind, only_extends_registerValue.
  intros u s. by destruct (toJson_object s u).
Qed.

Lemma only_extends_objectHandleValue p : only_extends (objectHandleValue p).
Proof.
  unfold objectHandleValue. apply only_extends_bind; [|intros id; apply only_extends_ret].
  intros s. destruct p as [p|]; [|done]. unfold registerObject, bind, get_state.
  destruct (negb _); [done|]. unfold fresh_id, emplace_object, bind, get_state, update_bridge, ret.
  simpl. by destruct (objects _ !! _).
Qed.

End Conversion.
