(* ===== verification/Preservation.v ===== *)
(** Object construction gives objects without a handle, and reflective calls and
    property writes keep the invariant of the bridge state. *)
From S2P Require Export Safety.

(** * Definitions *)

(** [m] keeps the invariant, and the object [out] finds in its result is new. *)
Definition makes {T : QtTypes} {QW : QtWorld} {QL : QtLaws QW} {A : Type}
    (out : A -> option ptr) (m : M A) : Prop :=
  forall g, hoare (live g) (live g) m (fun r s =>
    live g s /\ forall p, out r = Some p -> unregistered p s).

Definition result_object (r : option (option ptr * string)) : option ptr :=
  match r with Some (o, _) => o | None => None end.

(** The entry a call writes back may change. *)
Definition writable `{QtTypes} (g : past) (id : Z) : Prop := kept_values g !! id = None.

Definition callee_writable `{QtTypes} (g : past) (target : callee) : Prop :=
  match target with
  | OnObject _ => True
  | OnGadget id => writable g id
  end.

(** The entry a reflective call works on is there. *)
Definition callee_ok `{QtWorld} (target : callee) (s : state) : Prop :=
  match target with
  | OnObject _ => True
  | OnGadget id => exists v, values (st_bridge s) !! id = Some v
  end.

Section Preservation.
Context {T : QtTypes} {QB : QtLib} {QW : QtWorld} {CT : CxxTraits} {GN : GeneratedNames} {G : Generated} {BF : BuildFlags}.
Context {LB : QtLibLaws QB} {QL : QtLaws QW} {GL : GeneratedLaws QL G}.

(** ** Rules *)

Lemma makes_none {A} (out : A -> option ptr) a : out a = None -> makes out (ret a).
Proof. intros H g s Hs. split; [done|]. by rewrite H. Qed.

Lemma makes_bind_keeps {A B} (out : B -> option ptr) (m : M A) k :
  keeps m -> (forall a, makes out (k a)) -> makes out (bind m k).
Proof. intros Hm Hk g. eapply hoare_bind; [apply Hm|intros a; apply Hk]. Qed.

Lemma makes_with_state {B} (out : B -> option ptr) k :
  (forall s, makes out (k s)) -> makes out (bind get_state k).
Proof. intros H g s Hs. exact (H s g s Hs). Qed.

Lemma makes_bind {A B} (out1 : A -> option ptr) (out2 : B -> option ptr) (m : M A) k :
  makes out1 m ->
  (forall a, out1 a = None -> makes out2 (k a)) ->
  (forall a p g, out1 a = Some p ->
     hoare (live g) (fun s => live g s /\ unregistered p s) (k a)
       (fun r s => live g s /\ forall q, out2 r = Some q -> unregistered q s)) ->
  makes out2 (bind m k).
Proof.
  intros Hm Hn Hs g. eapply hoare_bind; [apply Hm|]. simpl. intros a s [Hl Hu].
  destruct (out1 a) as [p|] eqn:E; [apply (Hs a p g E s); split; auto|exact (Hn a E g s Hl)].
Qed.

(** The result is the object that was new before. *)
Lemma hoare_ret_new {A} (out : A -> option ptr) (a : A) p g :
  out a = Some p ->
  hoare (live g) (fun s => live g s /\ unregistered p s) (ret a)
    (fun r s => live g s /\ forall q, out r = Some q -> unregistered q s).
Proof. intros H s [Hl Hu]. split; [done|]. rewrite H. by intros q [= <-]. Qed.

Lemma hoare_call_then {A B} (n : native A) p (k : A -> M B) Q g :
  (forall a, hoare (live g) (fun s => live g s /\ unregistered p s) (k a) Q) ->
  hoare (live g) (fun s => live g s /\ unregistered p s) (bind (call n) k) Q.
Proof. intros Hk. eapply hoare_bind; [apply hoare_call_frame|exact Hk]. Qed.

Lemma makes_new {A} (out : A -> option ptr) c args k :
  (forall p g, hoare (live g) (fun s => live g s /\ unregistered p s) (k p)
     (fun r s => live g s /\ forall q, out r = Some q -> unregistered q s)) ->
  makes out (bind (call (QNew c args)) k).
Proof. intros Hk g. eapply hoare_bind; [apply hoare_new|intros p; apply Hk]. Qed.

(** ** The factory templates *)

Lemma new_with_makes c error p : makes fst (new_with c error p).
Proof. apply makes_new. intros o g. by apply hoare_ret_new. Qed.

Lemma new_then_makes c error attach p : makes fst (new_then c error attach p).
Proof.
  apply makes_new. intros o g.
  destruct p; [apply hoare_call_then; intros _|]; by apply hoare_ret_new.
Qed.

Lemma create_makes c parent error : makes fst (create c parent error).
Proof.
  unfold create. apply makes_with_state. intros s. cbv zeta.
  repeat match goal with
  | |- makes _ (if ?b then _ else _) => destruct b
  | |- makes _ (ret _) => by apply makes_none
  | |- makes _ (new_with _ _ _) => apply new_with_makes
  | |- makes _ (new_then _ _ _ _) => apply new_then_makes
  end.
Qed.

Lemma construct_rows_makes f rows name parent error :
  makes fst (construct_rows f rows name parent error).
Proof.
  induction rows as [|row rows IH]; simpl; [by apply makes_none|].
  destruct (bool_decide _); [|done]. destruct (row_class f row) as [c|]; [|done].
  destruct (factory c); [apply create_makes|done].
Qed.

Lemma construct_makes name parent error : makes fst (construct name parent error).
Proof.
  unfold construct. destruct (split_qualified name) as [moduleName className].
  destruct (select_module _ _ _ _) as [[m|]|] eqn:E; try (by apply makes_none).
  assert (forall l sel, Forall (fun m => forall n p e, makes fst (m_construct m n p e)) l ->
    match sel with Some m => forall n p e, makes fst (m_construct m n p e) | None => True end ->
    forall m, select_module moduleName (provides className) l sel = Some (Some m) ->
    forall n p e, makes fst (m_construct m n p e)) as Hsel.
  { intros l. induction l as [|m' l IH]; simpl; intros sel Hl Hs m0 Hm; [by simplify_eq|].
    inversion Hl; subst. destruct (_ && _); [by eapply IH|].
    destruct (negb _); [by eapply IH|]. destruct sel; [done|]. by eapply (IH (Some m')). }
  eapply (Hsel modules None); [|done|done].
  apply Forall_fmap, Forall_true. intros f n p e. apply construct_rows_makes.
Qed.

(** ** The dispatch files *)

Lemma keeps_invoke o c s a out e : keeps (invoke o c s a out e).
Proof.
  unfold invoke. generalize invoke_shards. intros l. revert out e.
  induction l as [|shard l IH]; simpl; intros out e; [apply keeps_ret|].
  apply keeps_bind; [apply gl_invoke|]. intros [[handled out'] e'].
  destruct handled; [apply keeps_ret|apply IH].
Qed.

Lemma constructArguments_makes m c p a e :
  makes (fun r => r.1.2) (constructArguments m c p a e).
Proof.
  unfold constructArguments. generalize constructor_shards. intros l. revert e.
  induction l as [|[mod_ shard] l IH]; simpl; intros e; [by apply makes_none|].
  intros g. eapply hoare_bind; [apply gl_construct|]. intros [[handled out] e'] s. simpl.
  intros (Hl & Hn & Hu). destruct handled; [done|]. rewrite (Hn eq_refl). by apply IH.
Qed.

Lemma keeps_constructValueArguments m c a e : keeps (constructValueArguments m c a e).
Proof.
  unfold constructValueArguments. generalize value_constructor_shards. intros l.
  generalize (@VInvalid T). revert e.
  induction l as [|[mod_ shard] l IH]; simpl; intros e v; [apply keeps_ret|].
  destruct (_ || _); [|apply IH]. apply keeps_bind; [apply gl_construct_value|].
  intros [[handled out] e']. destruct handled; [apply keeps_ret|apply IH].
Qed.

Lemma hoare_invokeValue id c s a out e g :
  writable g id ->
  hoare (live g) (fun s => live g s /\ is_Some (values (st_bridge s) !! id))
    (invokeValue id c s a out e) (fun _ => live g).
Proof.
  intros Hw. unfold invokeValue. generalize invoke_value_shards. intros l. revert out e.
  induction l as [|shard l IH]; simpl; intros out e; [by intros s' [Hs _]|].
  eapply hoare_bind; [by apply gl_invoke_value|]. intros [[handled out'] e'].
  destruct handled; [by intros s' [Hs _]|apply IH].
Qed.

(** ** Values and reflective calls *)

Lemma live_store_value g b w id old v :
  live g (State _ _ b w) -> values b !! id = Some old -> v_valid v = true -> writable g id ->
  live g (State _ _ (set_values (<[id := v]> (values b)) b) w).
Proof.
  intros ([] & [] & Happ & Hth) Hold Hv Hwr. split_and!; try done; split; simpl in *; try done; try lia.
  - intros i u [[<- <-]|[Hne Hu]]%lookup_insert_Some; eauto.
  - intros i q Hq. rewrite lookup_insert_ne; [by eapply ok_disjoint|].
    intros ->. by rewrite (ok_disjoint _ _ Hq) in Hold.
  - intros i u [[<- <-]|[Hne Hu]]%lookup_insert_Some; eauto.
  - intros i u Hlt [[<- <-]|[Hne Hu]]%lookup_insert_Some; eauto.
  - intros i u Hu. rewrite lookup_insert_ne; [eauto|].
    intros ->. by rewrite Hwr in Hu.
Qed.

(** Writing the gadget a native call returned back to its entry. *)
Lemma hoare_store_value g b id v :
  writable g id ->
  hoare (live g) (fun s => (live g s /\ st_bridge s = b) /\ v_valid v = true /\
                           is_Some (values b !! id))
    (store_value id v) (fun _ s => live g s /\ is_Some (values (st_bridge s) !! id)).
Proof.
  intros Hw [b' w] [[Hl Hb] [Hv [old Hold]]]. simpl in *. subst b'. split.
  - by eapply live_store_value.
  - simpl. rewrite lookup_insert_eq. eauto.
Qed.

Lemma hoare_call_method method target args g :
  callee_writable g target ->
  hoare (live g) (fun s => live g s /\ callee_ok target s) (call_method method target args)
    (fun _ s => live g s /\ callee_ok target s).
Proof.
  destruct target as [o|id]; simpl; intros Hwr.
  - eapply hoare_weaken; [apply keeps_call|by intros s [Hs _]|done].
  - intros [b w] [Hl [v Hv]]. simpl in Hv. unfold bind, get_state, valueForId, call. simpl.
    rewrite Hv. simpl.
    pose proof (live_native g (InvokeOnGadget method v args) b w Hl) as Hl'.
    pose proof (law_gadget_invoke method v args w) as Ht.
    destruct (w_native _ w) as [[[v' r]|what] w'] eqn:E; simpl in *; [|done].
    specialize (Ht v' r eq_refl).
    assert (live g (State _ _ (set_values (<[id:=v']> (values b)) b) w')) as Hs.
    { eapply live_store_value; [done|done| |done]. unfold v_valid. rewrite Ht.
      exact (ok_valid _ (proj1 Hl) id v Hv). }
    destruct r as [[ok u]|what]; simpl; [|done]. split; [done|].
    exists v'. simpl. apply lookup_insert_eq.
Qed.

Lemma hoare_invokeMethod m target sig args g :
  callee_writable g target ->
  hoare (live g) (fun s => live g s /\ callee_ok target s) (invokeMethod m target sig args)
    (fun r s => live g s /\ forall e, r = Err e -> callee_ok target s).
Proof.
  intros Hwr. unfold invokeMethod.
  repeat match goal with
  | |- hoare _ _ (if ?b then _ else _) _ => destruct b
  | |- hoare _ _ (match ?x with _ => _ end) _ => destruct x
  | |- hoare _ _ (ret _) _ => by intros s [Hl Hc]
  | |- hoare _ _ (let _ := _ in _) _ => cbv zeta
  | |- hoare _ _ (bind get_state _) _ => idtac
  end.
  apply hoare_with_state. intros s0 Hs0.
  destruct (buildArguments s0 args _) as [arguments|error]; [|by intros s ->; destruct Hs0].
  cbv zeta. destruct (_ && negb (v_valid _)); [by intros s ->; destruct Hs0|].
  eapply hoare_bind; [eapply hoare_weaken; [by apply hoare_call_method|by intros s ->|done]|].
  intros [invoked v]. simpl. destruct invoked; simpl; [|by intros s [Hl Hc]].
  destruct (_ && _); [|by intros s [Hl Hc]].
  eapply hoare_bind; [eapply keeps_hoare; [apply keeps_toJson|by intros s [Hl _]]|].
  intros j s Hl. by split.
Qed.

Lemma keeps_invokeMethod m o sig args : keeps (invokeMethod m (OnObject o) sig args).
Proof.
  intros g. eapply hoare_weaken; [by apply hoare_invokeMethod|by intros s Hs|by intros r s [Hl _]].
Qed.

Lemma keeps_setProperty o name v : keeps (setProperty o name v).
Proof. unfold setProperty. keeps_tac. Qed.

(** ** Construction *)

Lemma attach_frame m o parent g :
  hoare (live g) (fun s => live g s /\ unregistered o s) (attach m o parent)
    (fun _ s => live g s /\ unregistered o s).
Proof.
  unfold attach, parent_of. destruct parent as [p|]; [|by intros s Hs].
  intros s Hs. unfold bind at 1, bind at 1, get_state, ret.
  repeat match goal with |- context [if ?b then _ else _] => destruct b end;
    try exact Hs; by apply hoare_call_frame.
Qed.

Lemma construct_loop_makes m parent args l considered :
  makes fst (construct_loop m parent args l considered).
Proof.
  revert considered. induction l as [|c l IH]; simpl; intros considered; [by apply makes_none|].
  destruct (_ || _); [done|]. apply makes_with_state. intros s.
  destruct (buildArguments s args _) as [arguments|]; [|done]. cbv zeta.
  intros g. eapply hoare_bind; [apply hoare_new_instance|]. intros [o|]; simpl.
  - intros s' [Hl Hu]. revert s' Hl Hu. intros s' Hl Hu.
    eapply (hoare_bind (live g) (fun s => live g s /\ unregistered o s)); [apply attach_frame| |eauto].
    intros []. by apply hoare_ret_new.
  - intros s' [Hl _]. by apply IH.
Qed.

Lemma constructInvokable_makes m parent args e : makes fst (constructInvokable m parent args e).
Proof.
  unfold constructInvokable. destruct (_ <? _); [by apply makes_none|].
  apply makes_with_state. intros s. destruct (parent_error _ _ _); [by apply makes_none|].
  eapply makes_bind; [apply construct_loop_makes|..].
  - intros [[o|] considered] H; [done|]. by apply makes_none.
  - intros [[o|] considered] p g H; simplify_eq/=. by apply hoare_ret_new.
Qed.

Lemma explicit_construct_makes rows c args parent widgetParent e :
  makes result_object (explicit_construct rows c args parent widgetParent e).
Proof.
  induction rows as [|row rows IH]; simpl; [by apply makes_none|].
  assert (forall cn a, makes result_object
    (let! o := call (QNew cn a) in ret (Some (Some o, e)))) as Hnew.
  { intros cn a. apply makes_new. intros p g. by apply hoare_ret_new. }
  destruct row; cbv zeta; repeat match goal with
  | |- makes _ (explicit_construct _ _ _ _ _ _) => exact IH
  | |- makes _ (bind (call (QNew _ _)) _) => apply Hnew
  | |- makes _ (bind get_state _) => apply makes_with_state; intros ?
  | |- makes _ (ret _) => by apply makes_none
  | |- makes _ (if ?b then _ else _) => destruct b
  | |- makes _ (match ?x with _ => _ end) => destruct x
  end.
Qed.

Lemma create_reflectively_makes r m c parent args e :
  makes fst (create_reflectively r m c parent args e).
Proof.
  unfold create_reflectively.
  assert (forall e', makes fst
    (let '(metaObject, error) := classMetaObject r e' in
     if negb (str_empty error) then ret (None, error)
     else
       let! (created, error) :=
         match metaObject with
         | None => ret (None, error)
         | Some m => constructInvokable m parent args error
         end in
       match created with
       | Some o => ret (Some o, error)
       | None => ret (None, if str_empty error
                            then q_arg "class %1 has no native constructor binding yet" c
                            else error)
       end)) as Hrest.
  { intros e'. destruct (classMetaObject r e') as [meta e2].
    destruct (negb _); [by apply makes_none|].
    eapply (makes_bind fst); [destruct meta; [apply constructInvokable_makes|by apply makes_none]|..].
    + intros [[o|] e3] H; [done|]. by apply makes_none.
    + intros [[o|] e3] p g H; simplify_eq/=. by apply hoare_ret_new. }
  intros g. eapply hoare_bind; [apply constructArguments_makes|].
  intros [[handled out] e'] s [Hl Hu]. simpl in Hu. cbv beta iota.
  destruct handled; [|exact (Hrest e' g s Hl)].
  destruct out as [o|]; [exact (conj Hl Hu)|]. simpl.
  destruct (negb (str_empty e')); [exact (conj Hl Hu)|exact (Hrest e' g s Hl)].
Qed.

Lemma create_generated_makes r m c parent args e :
  makes fst (create_generated r m c parent args e).
Proof.
  unfold create_generated. destruct (arr_empty args); [|apply create_reflectively_makes].
  eapply makes_bind; [apply construct_makes|..].
  - intros [[o|] e'] H; [done|]. destruct (negb _); [by apply makes_none|].
    apply create_reflectively_makes.
  - intros [[o|] e'] p g H; simplify_eq/=. by apply hoare_ret_new.
Qed.

Lemma createObject_makes c parent args : makes fst (createObject c parent args).
Proof.
  unfold createObject. destruct (split_qualified c) as [moduleName className].
  destruct (class_error c); [by apply makes_none|].
  apply makes_with_state. intros s. cbv zeta.
  destruct (_ && _); [by apply makes_none|]. destruct (_ && _); [by apply makes_none|].
  destruct (_ || _); [|apply create_generated_makes].
  eapply makes_bind; [apply explicit_construct_makes|..].
  - intros [[o e']|] H; [|apply create_generated_makes]. simpl in H. subst o. by apply makes_none.
  - intros [[o e']|] p g H; [|done]. simpl in H. subst o. by apply hoare_ret_new.
Qed.

End Preservation.
