(* ===== verification/ShardsOk.v ===== *)
(** The rows of the generated shards keep the laws the rest of the bridge relies
    on ([GeneratedLaws]), whatever rows they are. *)
From S2P Require Export ShardTables Stores Preservation.

(** * Definitions *)

Section Frames.
Context {T : QtTypes} {QW : QtWorld} {QL : QtLaws QW}.

Definition all_born (l : list ptr) (s : state) : Prop := Forall (w_born (st_world s)) l.

(** The entry of [values] a receiver points to is there. *)
Definition receiver_ok (rec : receiver) (s : state) : Prop :=
  match rec with
  | Object _ => True
  | Value id => is_Some (values (st_bridge s) !! id)
  end.

Definition receiver_writable (g : past) (rec : receiver) : Prop :=
  match rec with
  | Object _ => True
  | Value id => writable g id
  end.

End Frames.

Section Values.
Context {T : QtTypes} {QB : QtLib} {QW : QtWorld} {CT : CxxTraits} {GN : GeneratedNames}.

(** The call on a stored value. *)
Definition value_call (c f : string) (id : Z) (v : qvariant) (args : list cxx_value) (r : result)
    (out : json) (e : string) : M (bool * json * string) :=
  let! (v', x) := call (CxxValueMethod c f v args r) in
  let! _ := store_value id v' in
  let! x := resume x in
  answer r x out e.

End Values.

Section ShardsOk.
Context {T : QtTypes} {QB : QtLib} {QW : QtWorld} {CT : CxxTraits} {GN : GeneratedNames}.
Context {QL : QtLaws QW}.

(** ** Results *)

(** What only adds values keeps what is known of objects and of a receiver. *)
Lemma hoare_extends {A} (m : M A) g (P : state -> Prop) l rec :
  hoare (live g) P m (fun _ => live g) -> only_extends m ->
  hoare (live g) (fun s => P s /\ all_born l s /\ receiver_ok rec s) m
    (fun _ s => live g s /\ all_born l s /\ receiver_ok rec s).
Proof.
  intros Hm He s (HP & Hb & Hr). specialize (Hm s HP). specialize (He s).
  destruct (m s) as [[a|what|u] s']; [|done..]. destruct He as [Hw Hv]. split_and!; [done|..].
  - unfold all_born. by rewrite Hw.
  - destruct rec; [done|by apply Hv].
Qed.

Lemma only_extends_objectHandle p : only_extends (objectHandle p).
Proof. destruct p; [apply only_extends_objectHandleValue|apply only_extends_ret]. Qed.

Lemma hoare_objectHandle p l rec g :
  hoare (live g) (fun s => live g s /\ all_born (option_list p ++ l) s /\ receiver_ok rec s)
    (objectHandle p) (fun _ s => live g s /\ all_born l s /\ receiver_ok rec s).
Proof.
  eapply hoare_weaken;
    [apply (hoare_extends _ g (fun s => live g s /\ forall q, p = Some q -> w_born (st_world s) q) l rec)| |done].
  - destruct p as [p|]; [apply hoare_objectHandleValue|by intros s [Hl _]].
  - apply only_extends_objectHandle.
  - intros s (Hl & [Hp Hb]%Forall_app & Hr). split_and!; try done.
    intros q ->. by apply Forall_inv in Hp.
Qed.

Lemma hoare_toJson v l rec g :
  hoare (live g) (fun s => live g s /\ all_born l s /\ receiver_ok rec s)
    (toJson v) (fun _ s => live g s /\ all_born l s /\ receiver_ok rec s).
Proof.
  apply (hoare_extends _ g (live g)); [|apply only_extends_toJson].
  by apply keeps_toJson.
Qed.

Lemma hoare_done {A} (a : A) g l rec :
  hoare (live g) (fun s => live g s /\ all_born l s /\ receiver_ok rec s) (ret a)
    (fun _ s => live g s /\ all_born l s /\ receiver_ok rec s).
Proof. by intros s. Qed.

Lemma hoare_item_json i (x : item_result i) l rec g :
  hoare (live g) (fun s => live g s /\ all_born (option_list (item_object i x) ++ l) s /\ receiver_ok rec s)
    (item_json i x) (fun _ s => live g s /\ all_born l s /\ receiver_ok rec s).
Proof.
  destruct i; simpl; try (destruct (storable _ _); [|apply hoare_done]);
    (eapply hoare_bind; [apply hoare_toJson || apply hoare_objectHandle|intros j; apply hoare_done]).
Qed.

Lemma omap_cons_list {A B} (f : A -> option B) a l :
  omap f (a :: l) = option_list (f a) ++ omap f l.
Proof. simpl. by destruct (f a). Qed.

Lemma hoare_items_json i (l : list (item_result i)) rec g :
  hoare (live g) (fun s => live g s /\ all_born (omap (item_object i) l) s /\ receiver_ok rec s)
    (items_json i l) (fun _ s => live g s /\ all_born [] s /\ receiver_ok rec s).
Proof.
  induction l as [|x l IH]; [apply hoare_done|]. rewrite omap_cons_list. simpl.
  eapply hoare_bind; [apply hoare_item_json|]. intros [j|e].
  - eapply hoare_bind; [apply IH|]. intros rest. by intros s.
  - intros s (Hl & _ & Hr). split_and!; [done|by constructor|done].
Qed.

Lemma hoare_map_json m o l rec g :
  hoare (live g) (fun s => live g s /\ all_born l s /\ receiver_ok rec s)
    (map_json m o) (fun _ s => live g s /\ all_born l s /\ receiver_ok rec s).
Proof.
  revert o. induction m as [|[k v] m IH]; intros o; simpl; [apply hoare_done|].
  eapply hoare_bind; [apply hoare_toJson|intros j; apply IH].
Qed.

Lemma hoare_result_json r (x : cxx_result r) rec g :
  hoare (live g) (fun s => live g s /\ all_born (result_objects r x) s /\ receiver_ok rec s)
    (result_json r x) (fun _ s => live g s /\ all_born [] s /\ receiver_ok rec s).
Proof.
  destruct r; simpl; try (destruct (storable _ _); [|apply hoare_done]); try apply hoare_done.
  all: eapply hoare_bind; [|intros j; apply hoare_done].
  all: try apply hoare_toJson.
  - eapply (hoare_weaken _ _ _ _ _ _ (hoare_objectHandle x [] rec g)); [|done].
    intros s. by rewrite app_nil_r.
  - apply hoare_items_json.
  - apply hoare_map_json.
Qed.

Lemma hoare_answer r (x : cxx_result r) out e rec g :
  hoare (live g) (fun s => live g s /\ all_born (result_objects r x) s /\ receiver_ok rec s)
    (answer r x out e) (fun _ s => live g s /\ receiver_ok rec s).
Proof.
  unfold answer. eapply hoare_bind; [apply hoare_result_json|].
  intros [j|e'] s (Hl & _ & Hr); done.
Qed.

(** ** Calls *)

(** The objects a call returns are born, and the bridge is left alone. *)
Lemma hoare_call_objects {A} (n : native A) rec g :
  hoare (live g) (fun s => live g s /\ receiver_ok rec s) (call n)
    (fun a s => live g s /\ all_born (result_ptrs n a) s /\ receiver_ok rec s).
Proof.
  intros [b w] [Hl Hr]. unfold call. simpl. pose proof (live_native g n b w Hl) as Hl'.
  pose proof (law_result_born _ n w) as Hb.
  destruct (w_native n w) as [[a|what] w'] eqn:E; simpl in *; [|done]. split_and!; [done| |done].
  apply Forall_forall. intros p Hp. by eapply Hb.
Qed.

Lemma hoare_then_answer r (n : native (cxx_result r)) out e rec g :
  (forall x, result_ptrs n x = result_objects r x) ->
  hoare (live g) (fun s => live g s /\ receiver_ok rec s)
    (let! x := call n in answer r x out e) (fun _ s => live g s /\ receiver_ok rec s).
Proof.
  intros Hn. eapply hoare_bind; [apply hoare_call_objects|]. intros x.
  eapply hoare_weaken; [apply (hoare_answer r x out e rec g)| |done].
  intros s. simpl. by rewrite Hn.
Qed.

Lemma hoare_value_call c f id v args r out e g b w :
  values b !! id = Some v -> writable g id ->
  hoare (live g) (fun s => live g s /\ s = State _ _ b w) (value_call c f id v args r out e)
    (fun _ s => live g s /\ receiver_ok (Value id) s).
Proof.
  intros Hv Hwr s [Hl ->]. unfold value_call, bind at 1, call. simpl.
  pose proof (live_native g (CxxValueMethod c f v args r) b w Hl) as Hl'.
  pose proof (law_value_method c f v args r w) as Ht.
  pose proof (law_result_born _ (CxxValueMethod c f v args r) w) as Hb.
  destruct (w_native _ w) as [[[v' x]|what] w']; simpl in *; [|done].
  specialize (Ht v' x eq_refl). specialize (Hb (v', x)). simpl in Hb.
  assert (live g (State _ _ (set_values (<[id:=v']> (values b)) b) w')) as Hs.
  { eapply live_store_value; [done|done| |done]. unfold v_valid. rewrite Ht.
    exact (ok_valid _ (proj1 Hl) id v Hv). }
  destruct x as [x|what]; simpl; [|done].
  apply (hoare_answer r x out e (Value id) g). split_and!; [done| |].
  - apply Forall_forall. intros p Hp. by apply Hb.
  - simpl. rewrite lookup_insert_eq. eauto.
Qed.

Lemma call_target_ok md c rec row t args out e body g :
  receiver_writable g rec -> call_target md c rec row t args out e = Some body ->
  hoare (live g) (fun s => live g s /\ receiver_ok rec s) body
    (fun _ s => live g s /\ receiver_ok rec s).
Proof.
  intros Hwr. destruct t as [cl|cl]; cbn -[receiver_ok];
    [|case_bool_decide; [|done]; intros [= <-]; by apply hoare_then_answer].
  destruct rec as [[o|]|id]; try done; try (case_bool_decide; [|done]); intros [= <-].
  - apply hoare_with_state. intros s0 Hs0. destruct (w_is_a _ _ _); [|by intros s ->].
    eapply hoare_weaken; [by apply (hoare_then_answer _ _ _ _ (Object (Some o)))|by intros s ->|done].
  - apply hoare_with_state. intros [b w] Hs0. unfold valueForId. simpl.
    destruct (values b !! id) as [v|] eqn:Hv; [|by intros s ->].
    case_bool_decide; [|by intros s ->].
    eapply hoare_weaken; [by apply (hoare_value_call _ _ id v _ _ _ _ g b w)| |done].
    intros s ->. split; [apply Hs0|done].
Qed.

Lemma try_targets_ok sh c rec row l args out e g :
  receiver_writable g rec ->
  hoare (live g) (fun s => live g s /\ receiver_ok rec s) (try_targets sh c rec row l args out e)
    (fun _ s => live g s /\ receiver_ok rec s).
Proof.
  intros Hwr. induction l as [|t l IH]; simpl; [by intros s|].
  destruct (macro_defined _ _ _); [|exact IH].
  destruct (call_target _ _ _ _ _ _ _ _) as [body|] eqn:E; [|exact IH].
  eapply hoare_bind; [by eapply call_target_ok|]. intros [[handled out'] e'].
  destruct handled; [by intros s|exact IH].
Qed.

Lemma run_method_shard_ok sh rec c sg args out e g :
  receiver_writable g rec ->
  hoare (live g) (fun s => live g s /\ receiver_ok rec s) (run_method_shard sh rec c sg args out e)
    (fun _ s => live g s /\ receiver_ok rec s).
Proof.
  intros Hwr. unfold run_method_shard. generalize (ms_rows sh). intros rows. revert out e.
  induction rows as [|row rows IH]; simpl; intros out e; [by intros s|].
  eapply (hoare_bind _ _ _ _ (fun _ s => live g s /\ receiver_ok rec s)).
  - unfold run_row. destruct (_ && _); [|by intros s]. destruct (negb _); [by intros s|].
    apply hoare_with_state. intros s0 Hs0. destruct (convert_params _ _ _ _ _) as [[vs|] e'].
    + eapply hoare_weaken; [by apply try_targets_ok|by intros s ->|done].
    + by intros s ->.
  - intros [[handled out'] e']. destruct handled; [by intros s|apply IH].
Qed.

(** ** Construction *)

(** adopt leaves the bridge alone, and refuses an object without touching
    anything. *)
Lemma adopt_effect o parent e s :
  match adopt (Some o) parent e s with
  | (Done (r, _), s') => (r = Some o /\ st_bridge s' = st_bridge s) \/ (r = None /\ s' = s)
  | (Threw _, s') => st_bridge s' = st_bridge s
  | (Crashed _, _) => False
  end.
Proof.
  unfold adopt. destruct parent as [p|]; [|by left].
  unfold parent_of, bind, get_state, ret, call. simpl.
  repeat match goal with
  | |- context [if ?b then _ else _] => destruct b
  | |- context [w_native ?n ?w] => destruct (w_native n w) as [[?|?] ?]
  end; auto.
Qed.

Lemma hoare_adopt o parent e g :
  hoare (live g) (fun s => live g s /\ unregistered o s) (adopt (Some o) parent e)
    (fun _ s => live g s /\ unregistered o s).
Proof.
  unfold adopt. destruct parent as [p|]; [|by intros s].
  intros s Hs. unfold parent_of. unfold bind at 1, bind at 1, get_state, ret. cbv zeta.
  unfold bind at 1.
  repeat match goal with |- context [if ?b then _ else _] => destruct b end; try exact Hs;
    (eapply hoare_bind; [apply hoare_call_frame|by intros a s'|exact Hs]).
Qed.

(** An object that is refused is deleted. *)
Lemma hoare_adopt_or_delete o parent e g :
  hoare (live g) (fun s => live g s /\ unregistered o s /\ w_alive (st_world s) o = true)
    (adopt_or_delete o parent e)
    (fun r s => live g s /\ (forall q, r.1 = Some q -> unregistered q s) /\
       (r.1 = None -> w_alive (st_world s) o = false)).
Proof.
  intros s (Hl & Hu & Ha). unfold adopt_or_delete. unfold bind at 1.
  pose proof (adopt_effect o parent e s) as Hr. pose proof (hoare_adopt o parent e g s (conj Hl Hu)) as Hh.
  destruct (adopt (Some o) parent e s) as [[[r e']|what|u] s']; [|exact Hh|done].
  destruct Hr as [[-> _]|[-> ->]]; simpl.
  - destruct Hh as [Hl' Hu']. split_and!; [done|by intros q [= <-]|done].
  - unfold bind, get_state. rewrite Ha. unfold update_world, ret. simpl. split_and!.
    + destruct s as [b w]. eapply live_world; [| |exact Hl].
      * intros p. apply law_delete_born.
      * intros p. apply law_delete_dead.
    + done.
    + intros _. apply law_delete_self.
Qed.

Lemma hoare_new_adopted c cxx parent e g :
  hoare (live g) (live g) (let! o := call (QNew c cxx) in adopt_or_delete o parent e)
    (fun r s => live g s /\ forall q, r.1 = Some q -> unregistered q s).
Proof.
  eapply (hoare_bind _ _ _ _ (fun o s => live g s /\ unregistered o s /\ w_alive (st_world s) o = true)).
  - intros s Hl. pose proof (hoare_new c cxx g s Hl) as Hu.
    pose proof (law_new_fresh c cxx (st_world s)) as Hf. unfold call in *.
    destruct (w_native _ _) as [[o|what] w']; simpl in *; [|done].
    destruct (Hf o eq_refl) as (_ & _ & Ha). by destruct Hu.
  - intros o. eapply hoare_weaken; [apply hoare_adopt_or_delete|done|by intros r s (? & ? & _)].
Qed.

Lemma construct_candidate_makes sh c ca parent args : makes fst (construct_candidate sh c ca parent args).
Proof.
  unfold construct_candidate. destruct (negb _); [by apply makes_none|].
  apply makes_with_state. intros s. destruct (convert_params _ _ _ _ _) as [[vs|] e];
    [|by apply makes_none]. cbv zeta.
  assert (forall cxx, makes fst (if cxx_abstract (cpp_class (cs_module sh) c) || negb (makes_from sh c ca)
    then ret (None, e) else let! o := call (QNew (cpp_class (cs_module sh) c) cxx) in adopt_or_delete o parent e))
    as Hmake.
  { intros cxx. destruct (_ || _); [by apply makes_none|]. intros g. apply hoare_new_adopted. }
  destruct (ca_parent ca) as [[n pc]|]; [|apply Hmake].
  destruct (_ && _); [by apply makes_none|apply Hmake].
Qed.

Lemma try_candidates_makes sh c l parent args e : makes fst (try_candidates sh c l parent args e).
Proof.
  revert e. induction l as [|ca l IH]; intros e; simpl; [by apply makes_none|].
  destruct (candidate_enabled _ _ _); [|apply IH].
  eapply makes_bind; [apply construct_candidate_makes|..].
  - intros [[o|] e'] H; [done|apply IH].
  - intros [[o|] e'] p g H; simplify_eq/=. by apply hoare_ret_new.
Qed.

Lemma construct_object_ok sh rows m c parent args e g :
  hoare (live g) (live g) (construct_object sh rows m c parent args None e)
    (fun r s => live g s /\ (r.1.1 = false -> r.1.2 = None) /\
       forall q, r.1.2 = Some q -> unregistered q s).
Proof.
  induction rows as [|row rows IH]; simpl; [by intros s|].
  destruct (row_applies _ _ _ _ _); [|exact IH].
  eapply hoare_bind; [apply try_candidates_makes|]. intros [[o|] last] s [Hl Hu]; simpl in *.
  - split_and!; [done|done|by intros q [= <-]; apply Hu].
  - by split_and!.
Qed.

Lemma keeps_construct_value sh rows m c args v e : keeps (construct_value sh rows m c args v e).
Proof.
  induction rows as [|row rows IH]; simpl; [apply keeps_ret|].
  destruct (row_applies _ _ _ _ _); [|exact IH].
  apply keeps_bind; [|intros [[u|] last]; apply keeps_ret].
  generalize estr. induction (cr_candidates row) as [|ca l IHl]; intros e'; simpl; [apply keeps_ret|].
  destruct (candidate_enabled _ _ _); [|apply IHl].
  apply keeps_bind; [|intros [u ce]; destruct (v_valid u); [apply keeps_ret|apply IHl]].
  unfold build_candidate. keeps_tac.
Qed.

(** ** The laws *)

#[export] Instance table_laws : GeneratedLaws QL table_generated.
Proof.
  split.
  - intros shard o c sg args out e g. cbn [g_invoke table_generated].
    destruct (shard_at shard invoke_tables) as [sh|]; [|by intros s].
    eapply hoare_weaken; [by apply (run_method_shard_ok sh (Object o))|done|by intros r s [Hl _]].
  - intros shard m c parent args e g. cbn [g_construct_args table_generated].
    destruct (shard_at shard constructor_tables) as [sh|]; [apply construct_object_ok|by intros s].
  - intros shard m c args v e. cbn [g_construct_value table_generated].
    destruct (shard_at shard value_constructor_tables) as [sh|];
      [apply keeps_construct_value|apply keeps_ret].
  - intros shard id c sg args out e g Hwr. cbn [g_invoke_value table_generated].
    destruct (shard_at shard invoke_value_tables) as [sh|];
      [by apply (run_method_shard_ok sh (Value id))|by intros s].
Qed.

End ShardsOk.
