(* ===== verification/RequestsOk.v ===== *)
(** handleRequest keeps the invariant of the bridge state: every operation,
    every error and every exception. *)
From S2P Require Export Preservation.

(** * Definitions *)

(** The outcome of a request that keeps the invariant. *)
Definition request_ok {T : QtTypes} {QW : QtWorld} {QL : QtLaws QW} (t : thread) (s : state) (r : outcome json * state) : Prop :=
  match r with
  | (Done _, s') | (Threw _, s') => bridge_ok s' /\ since (past_of s t) s'
  | (Crashed u, _) => u = DanglingVariant
  end.

Section Spared.
Context {T : QtTypes} {QB : QtLib} {QW : QtWorld}.

(** The stored value a request may change or close. *)
Definition value_changed (operation : string) (request : jmembers) : option Z :=
  if bool_decide (operation ∈ ["value_delete"; "value_call"; "value_set"]%string)
  then parse_value_id (obj_value "value_id" request) else None.

(** The handles of objects a request closes. *)
Definition handles_closed (s : state) (operation : string) (request : jmembers) : list Z :=
  if bool_decide (operation = "delete"%string) then
    match parseObjectId (obj_value "object_id" request) with
    | Ok id => match objectForId s id with Some o => invalidated s o | None => [] end
    | Err _ => []
    end
  else [].

Definition closable (g : past) (id : Z) : Prop :=
  kept_objects g !! id = None /\ kept_subscriptions g id = None.

(** The handle of the object a request subscribes to. *)
Definition connected (operation : string) (request : jmembers) : list Z :=
  if bool_decide (operation = "connect"%string) then
    match parseObjectId (obj_value "object_id" request) with Ok id => [id] | Err _ => [] end
  else [].

(** The kept entries of [g] are not those the request is about. *)
Definition spares (g : past) (s : state) (operation : string) (request : jmembers) : Prop :=
  (forall id, value_changed operation request = Some id -> writable g id) /\
  (forall id, id ∈ handles_closed s operation request -> closable g id) /\
  (forall id, id ∈ connected operation request -> kept_subscriptions g id = None) /\
  (operation = "events"%string -> forall id, kept_subscriptions g id = None).

End Spared.

Section RequestsOk.
Context {T : QtTypes} {QB : QtLib} {QW : QtWorld} {CT : CxxTraits} {GN : GeneratedNames} {G : Generated} {BF : BuildFlags}.
Context {LB : QtLibLaws QB} {QL : QtLaws QW} {GL : GeneratedLaws QL G}.

(** ** Updates of the tables *)

Lemma live_erase_subscription g b w id :
  live g (State _ _ b w) -> kept_subscriptions g id = None ->
  live g (State _ _ (set_subscriptions (delete id (subscriptions b)) b) w).
Proof.
  intros ([] & [] & Happ & Hth) Hk. split_and!; try done; split; simpl in *; try done.
  - intros i l [Hne Hl]%lookup_delete_Some. eauto.
  - intros i l [Hne Hl]%lookup_delete_Some. eauto.
  - intros i entry Hl. rewrite lookup_delete_ne; [eauto|]. intros ->. by rewrite Hk in Hl.
Qed.

Lemma live_erase_object g b w id :
  live g (State _ _ b w) -> subscriptions b !! id = None -> kept_objects g !! id = None ->
  live g (State _ _ (set_objects (delete id (objects b)) b) w).
Proof.
  intros ([] & [] & Happ & Hth) Hs Hk. split_and!; try done; split; simpl in *; try done.
  - intros i p [Hne Hp]%lookup_delete_Some. eauto.
  - intros i p [Hne Hp]%lookup_delete_Some. eauto.
  - intros i l Hl. rewrite lookup_delete_ne; [eauto|]. intros ->. by rewrite Hl in Hs.
  - intros i p [Hne Hp]%lookup_delete_Some. eauto.
  - intros i j p Ha [_ Hi]%lookup_delete_Some [_ Hj]%lookup_delete_Some. eauto.
  - intros i p Hlt [_ Hp]%lookup_delete_Some. eauto.
  - intros i p Hp. apply lookup_delete_Some. split; [intros ->; by rewrite Hk in Hp|eauto].
Qed.

Lemma live_erase_value g b w id :
  live g (State _ _ b w) -> writable g id ->
  live g (State _ _ (set_values (delete id (values b)) b) w).
Proof.
  intros ([] & [] & Happ & Hth) Hk. split_and!; try done; split; simpl in *; try done.
  - intros i v [_ Hv]%lookup_delete_Some. eauto.
  - intros i p Hp. rewrite lookup_delete_None. right. eauto.
  - intros i v [_ Hv]%lookup_delete_Some. eauto.
  - intros i v Hlt [_ Hv]%lookup_delete_Some. eauto.
  - intros i v Hv. apply lookup_delete_Some. split; [intros ->; by rewrite Hk in Hv|eauto].
Qed.

Lemma live_push_subscription g b w id sub :
  live g (State _ _ b w) -> is_Some (objects b !! id) -> sub_object_id sub = id ->
  kept_subscriptions g id = None ->
  live g (State _ _ (set_subscriptions
    (<[id := default [] (subscriptions b !! id) ++ [sub]]> (subscriptions b)) b) w).
Proof.
  intros ([] & [] & Happ & Hth) Ho Hid Hk. split_and!; try done; split; simpl in *; try done.
  - intros i l [[<- _]|[_ Hl]]%lookup_insert_Some; eauto.
  - intros i l [[<- <-]|[_ Hl]]%lookup_insert_Some; [|eauto].
    apply Forall_app. split; [|by constructor].
    destruct (subscriptions b !! id) as [l|] eqn:E; simpl; [by eapply ok_subscription_id|constructor].
  - intros i entry Hl. rewrite lookup_insert_ne; [eauto|]. intros ->. by rewrite Hk in Hl.
Qed.

Lemma live_delete_world g b w p :
  live g (State _ _ b w) -> live g (State _ _ b (w_delete p w)).
Proof. apply live_world; intros q; [apply law_delete_born|apply law_delete_dead]. Qed.

Lemma hoare_erase_subscription id g :
  kept_subscriptions g id = None ->
  hoare (live g) (live g) (update_bridge (fun b => set_subscriptions (delete id (subscriptions b)) b))
    (fun _ => live g).
Proof. intros Hk [b w] Hl. by apply live_erase_subscription. Qed.

Lemma hoare_op_value_delete id g :
  writable g id -> hoare (live g) (live g) (op_value_delete id) (fun _ => live g).
Proof. intros Hw [b w] Hl. by apply live_erase_value. Qed.

(** ** Events *)

Lemma keeps_drain_spy room sub events : keeps (drain_spy room sub events).
Proof.
  revert events. induction room as [|room IH]; intros events; simpl; [apply keeps_ret|].
  apply keeps_with_state. intros s. destruct (w_spy_queue _ _); [apply keeps_ret|].
  apply keeps_bind; [apply keeps_call|]. intros arguments.
  apply keeps_bind; [apply keeps_toJson_list|]. intros js. apply IH.
Qed.

Lemma keeps_drain_subscriptions maximum l events : keeps (drain_subscriptions maximum l events).
Proof.
  revert events. induction l as [|sub l IH]; intros events; simpl; [apply keeps_ret|].
  apply keeps_with_state. intros s. destruct (negb _); [apply IH|].
  apply keeps_bind; [apply keeps_drain_spy|]. intros events'.
  destruct (_ <=? _); [apply keeps_ret|apply IH].
Qed.

Lemma hoare_drain_groups maximum l events g :
  (forall id, kept_subscriptions g id = None) ->
  hoare (live g) (live g) (drain_groups maximum l events) (fun _ => live g).
Proof.
  intros Hk. revert events. induction l as [|[id subs] l IH]; intros events; simpl; [by intros s|].
  apply hoare_with_state. intros s Hs.
  apply (hoare_pre _ _ (live g)); [|by intros s' ->].
  destruct (objectForId s id).
  - eapply hoare_bind; [apply keeps_drain_subscriptions|]. intros events'.
    destruct (_ <=? _); [by intros s'|apply IH].
  - eapply hoare_bind; [by apply hoare_erase_subscription|intros []; apply IH].
Qed.

Lemma hoare_op_events request g :
  (forall id, kept_subscriptions g id = None) ->
  hoare (live g) (live g) (op_events request) (fun _ => live g).
Proof.
  intros Hk. unfold op_events.
  destruct (event_limits request) as [[wait maximum]|e]; [|by intros s].
  eapply hoare_bind; [apply keeps_call|]. intros []. apply hoare_with_state. intros s Hs.
  apply (hoare_bind _ _ _ _ (fun _ => live g)); [|by intros events s'].
  eapply hoare_pre; [by apply hoare_drain_groups|by intros s' ->].
Qed.

(** ** Objects *)

Lemma keeps_op_describe request : keeps (op_describe request).
Proof. unfold op_describe. keeps_tac. Qed.

Lemma keeps_op_get s o request : keeps (op_get s o request).
Proof. unfold op_get, succeed_json. keeps_tac. Qed.

Lemma keeps_op_set o request : keeps (op_set o request).
Proof.
  unfold op_set. apply keeps_bind; [apply keeps_setProperty|]. intros []; apply keeps_ret.
Qed.

Lemma keeps_call_generic s o sg args : keeps (call_generic s o sg args).
Proof.
  unfold call_generic. apply keeps_bind; [apply keeps_invoke|].
  intros [[handled out] e]. destruct handled; [destruct (negb _); apply keeps_ret|].
  apply keeps_with_state. intros s'. apply keeps_bind; [apply keeps_invokeMethod|].
  intros []; apply keeps_ret.
Qed.

Lemma keeps_op_call s o request : keeps (op_call s o request).
Proof.
  unfold op_call. cbv zeta. destruct (str_empty _); [apply keeps_ret|].
  destruct (_ && _); [apply keeps_ret|].
  destruct (first_handler _ _ _ _ _) as [body|] eqn:E; [|apply keeps_call_generic].
  exact (first_handler_keeps _ _ _ _ _ call_handlers_keep _ E).
Qed.

Lemma hoare_op_connect s0 id o request g :
  is_Some (objects (st_bridge s0) !! id) -> kept_subscriptions g id = None ->
  hoare (live g) (fun s => s = s0 /\ live g s) (op_connect s0 id o request) (fun _ => live g).
Proof.
  intros Ho Hk. unfold op_connect. cbv zeta. destruct (_ || _); [by intros s [_ Hl]|].
  destruct (q_index_of_signal _ _) as [signal|]; [|by intros s [_ Hl]].
  eapply hoare_bind.
  { eapply hoare_weaken; [apply (hoare_call_bridge _ (st_bridge s0))| |intros a s H; exact H].
    by intros s [-> Hl]. }
  intros spy [b w] [Hl Hb]. simpl in Hb. subst b. unfold bind, get_state. simpl.
  destruct (negb _); [done|]. by apply live_push_subscription.
Qed.

Lemma erase_handles_spec l s :
  erase_handles l s =
    (Done tt, State _ _
      (set_objects (foldl (fun m id => delete id m) (objects (st_bridge s)) l)
         (set_subscriptions (foldl (fun m id => delete id m) (subscriptions (st_bridge s)) l)
            (st_bridge s))) (st_world s)).
Proof.
  revert s. induction l as [|id l IH]; intros [b w].
  - by destruct b.
  - simpl. unfold bind, erase_handle, bind, update_bridge. simpl. by rewrite IH.
Qed.

Lemma live_erase_handles g l s s' :
  (forall id, id ∈ l -> closable g id) ->
  live g s -> erase_handles l s = (Done tt, s') -> live g s' /\ st_world s' = st_world s.
Proof.
  intros Hk. revert s. induction l as [|id l IH]; intros [b w] Hl; simpl; [by intros [= <-]|].
  unfold bind, erase_handle, bind, update_bridge. simpl. intros He.
  apply IH in He; [done|by intros i Hi; apply Hk; right|].
  apply (live_erase_object g (set_subscriptions (delete id (subscriptions b)) b) w id);
    [by apply live_erase_subscription; [|apply Hk; left]|simpl; apply lookup_delete_eq|apply Hk; left].
Qed.

Lemma hoare_op_delete s0 o g :
  w_alive (st_world s0) o = true ->
  (forall id, id ∈ invalidated s0 o -> closable g id) ->
  hoare (live g) (fun s => s = s0 /\ live g s) (op_delete s0 o) (fun _ => live g).
Proof.
  intros Ha Hk s [-> Hl]. unfold op_delete, bind at 1.
  destruct (erase_handles (invalidated s0 o) s0) as [r s1] eqn:E.
  pose proof E as E'. rewrite erase_handles_spec in E'. injection E' as <- _.
  apply (live_erase_handles g) in E as [Hl1 Hw]; [|done..].
  destruct s1 as [b w]. simpl in Hw. subst w. unfold bind, qt_delete, bind, get_state. simpl.
  rewrite Ha. simpl. by apply live_delete_world.
Qed.

(** ** Values *)

Lemma keeps_op_value_get v m request : keeps (op_value_get v m request).
Proof. unfold op_value_get, succeed_json. keeps_tac. Qed.

Lemma hoare_op_value_set s0 id v m request g :
  values (st_bridge s0) !! id = Some v -> writable g id ->
  hoare (live g) (fun s => s = s0 /\ live g s) (op_value_set s0 id v m request) (fun _ => live g).
Proof.
  intros Hv Hwr. unfold op_value_set. cbv zeta.
  destruct (q_index_of_property _ _) as [property|]; [|by intros s [_ Hl]].
  destruct (negb _); [by intros s [_ Hl]|]. unfold with_value.
  destruct (fromJson _ _ _) as [x|]; [|by intros s [_ Hl]].
  destruct (v_valid x); [|by intros s [_ Hl]].
  intros [b w] [<- Hl]. simpl in Hv. unfold bind at 1, call. simpl.
  pose proof (live_native g (WriteGadget v property x) b w Hl) as Hl'.
  pose proof (law_gadget_write v property x w) as Ht.
  destruct (w_native _ w) as [[[v' ok]|what] w'] eqn:E; simpl in *; [|done].
  specialize (Ht v' ok eq_refl). destruct ok; simpl;
    (eapply live_store_value; [done|done| |done]; unfold v_valid; rewrite Ht;
     exact (ok_valid _ (proj1 Hl) id v Hv)).
Qed.

Lemma hoare_op_value_call s0 id v request g :
  values (st_bridge s0) !! id = Some v -> writable g id ->
  hoare (live g) (fun s => s = s0 /\ live g s) (op_value_call id v request) (fun _ => live g).
Proof.
  intros Hv Hwr. unfold op_value_call. cbv zeta. destruct (_ && _); [by intros s [_ Hl]|].
  apply (hoare_bind _ _ _ _ (fun r s => live g s /\
    forall e, r = Err e -> is_Some (values (st_bridge s) !! id))).
  - destruct (q_meta_object _) as [m|].
    + eapply hoare_weaken; [by apply (hoare_invokeMethod m (OnGadget id))|..].
      * intros s [-> Hl]. split; [done|]. simpl. eauto.
      * intros r s [Hl Hr]. split; [done|]. intros e He. destruct (Hr e He) as [u Hu]. by exists u.
    + intros s [-> Hl]. split; [done|]. eauto.
  - intros [result|e]; [by intros s [Hl _]|].
    eapply hoare_bind.
    + eapply hoare_weaken; [by apply hoare_invokeValue| |intros a s H; exact H].
      intros s [Hl Hr]. split; [done|]. by eapply Hr.
    + intros [[handled result] de]. destruct handled; [by intros s|].
      destruct (negb _); [by intros s|]. destruct (negb _); by intros s.
Qed.

Lemma hoare_op_value operation request g :
  (forall id, value_changed operation request = Some id -> writable g id) ->
  hoare (live g) (live g) (op_value operation request) (fun _ => live g).
Proof.
  intros Hw. unfold op_value. apply hoare_with_state. intros s0 Hl.
  destruct (parse_value_id _) as [id|] eqn:Hid; [|by intros s ->].
  assert (operation ∈ ["value_delete"; "value_call"; "value_set"]%string -> writable g id) as Hwid.
  { intros Hop. apply Hw. unfold value_changed. by rewrite bool_decide_eq_true_2. }
  unfold valueForId. destruct (values (st_bridge s0) !! id) as [v|] eqn:Hv; [|by intros s ->].
  repeat match goal with
  | |- hoare _ _ (op_value_call _ _ _) _ =>
      eapply hoare_weaken; [apply hoare_op_value_call; [done|set_solver]|by intros s ->|done]
  | |- hoare _ _ (op_value_set _ _ _ _ _) _ =>
      eapply hoare_weaken; [apply hoare_op_value_set; [done|set_solver]|by intros s ->|done]
  | |- hoare _ _ (op_value_get _ _ _) _ =>
      apply keeps_hoare; [apply keeps_op_value_get|by intros s ->]
  | |- hoare _ _ (op_value_delete _) _ =>
      eapply hoare_weaken; [apply hoare_op_value_delete; set_solver|by intros s ->|done]
  | |- hoare _ _ (if bool_decide _ then _ else _) _ => case_bool_decide
  | |- hoare _ _ (if ?b then _ else _) _ => destruct b
  | |- hoare _ _ (match ?x with _ => _ end) _ => destruct x
  | |- hoare _ _ (let _ := _ in _) _ => cbv zeta
  | |- _ => by intros s ->
  end.
Qed.

(** ** Creation *)

Lemma keeps_op_value_new request : keeps (op_value_new request).
Proof.
  unfold op_value_new. cbv zeta. destruct (_ || _); [apply keeps_ret|].
  destruct (_ && _); [apply keeps_ret|]. destruct (split_qualified _) as [m c].
  apply keeps_bind; [apply keeps_constructValueArguments|]. intros [[handled v] e].
  destruct handled; [keeps_tac|].
  destruct (negb _); [apply keeps_ret|]. destruct (negb _); [apply keeps_ret|].
  destruct (valueMetaType _ _) as [type e']. keeps_tac.
Qed.

Lemma hoare_new_handle o g :
  hoare (live g) (fun s => live g s /\ unregistered o s)
    (let! id := fresh_id in let! _ := emplace_object id o in ret id) (fun _ => live g).
Proof.
  intros [b w] [Hl [Hb Hu]]. simpl in *.
  unfold fresh_id, bind, get_state, update_bridge, ret, emplace_object, update_bridge. simpl.
  pose proof (next_id_free _ (proj1 Hl)) as Hf. simpl in Hf. rewrite Hf.
  by apply live_emplace_object.
Qed.

Lemma bind_assoc {A B C} (m : M A) (k : A -> M B) (k' : B -> M C) s :
  bind (bind m k) k' s = bind m (fun a => bind (k a) k') s.
Proof. unfold bind. by destruct (m s) as [[a|what|u] s']. Qed.

Lemma keeps_op_new request : keeps (op_new request).
Proof.
  unfold op_new. cbv zeta. destruct (_ || _); [apply keeps_ret|].
  apply keeps_with_state. intros s0. destruct (parse_parent _ _) as [parent|]; [|apply keeps_ret].
  destruct (_ && _); [apply keeps_ret|]. intros g.
  eapply hoare_bind; [apply createObject_makes|]. intros [[o|] e]; simpl; [|by intros s [Hl _]].
  eapply (hoare_bind _ _ _ _ (fun _ s => live g s /\ unregistered o s)).
  { intros s [Hl Hu]. unfold parent_of, bind, get_state. simpl. auto. }
  intros current. eapply (hoare_bind _ _ _ _ (fun _ s => live g s /\ unregistered o s)).
  { destruct parent as [p|]; [|by intros s]. destruct (is_null_ptr current); [|by intros s].
    apply hoare_call_frame. }
  intros [] s Hs. pose proof (hoare_new_handle o g s Hs) as H. revert H.
  unfold bind, get_state. destruct (fresh_id s) as [[id|what|u] s1]; [|done|done].
  by destruct (emplace_object id o s1) as [[[]|what|u] s2].
Qed.

(** ** The running application *)

Lemma keeps_op_call_static request : keeps (op_call_static request).
Proof.
  unfold op_call_static. cbv zeta. destruct (obj_value "args" request); try apply keeps_ret.
  destruct (_ || _); [apply keeps_ret|]. apply keeps_bind; [apply keeps_invoke|].
  intros [[handled out] e]. keeps_tac.
Qed.

Lemma hoare_op_object operation request s0 g :
  (forall id, id ∈ handles_closed s0 operation request -> closable g id) ->
  (forall id, id ∈ connected operation request -> kept_subscriptions g id = None) ->
  hoare (live g) (fun s => s = s0 /\ live g s) (op_object operation request) (fun _ => live g).
Proof.
  intros Hk Hc. unfold op_object. apply hoare_with_state. intros ? [-> Hl].
  destruct (parseObjectId _) as [id|] eqn:Hid; [|by intros s ->].
  destruct (objectForId s0 id) as [o|] eqn:Ho; [|by intros s ->].
  assert (operation = "delete"%string -> forall i, i ∈ invalidated s0 o -> closable g i) as Hdel.
  { intros -> i Hi. apply Hk. unfold handles_closed. simpl. by rewrite Hid, Ho. }
  assert (operation = "connect"%string -> kept_subscriptions g id = None) as Hcon.
  { intros ->. apply Hc. unfold connected. simpl. rewrite Hid. left. }
  apply objectForId_Some in Ho as [Ho Ha].
  repeat match goal with
  | |- hoare _ _ (if bool_decide _ then _ else _) _ => case_bool_decide
  end.
  - apply keeps_hoare; [apply keeps_op_get|by intros s ->].
  - apply keeps_hoare; [apply keeps_op_set|by intros s ->].
  - apply keeps_hoare; [apply keeps_op_call|by intros s ->].
  - eapply hoare_weaken; [apply hoare_op_connect; [eauto|by apply Hcon]|by intros s ->|done].
  - eapply hoare_weaken; [apply hoare_op_delete; auto|by intros s ->|done].
  - by intros s ->.
Qed.

Lemma hoare_op_running operation request s0 g :
  spares g s0 operation request ->
  hoare (live g) (fun s => s = s0 /\ live g s) (op_running operation request) (fun _ => live g).
Proof.
  intros (Hv & Ho & Hc & He). unfold op_running.
  repeat match goal with |- hoare _ _ (if ?b then _ else _) _ => destruct b eqn:? end;
    [..|by apply hoare_op_object];
    (apply (hoare_pre _ _ (live g)); [|by intros s [_ Hs]]).
  - apply keeps_op_value_new.
  - apply keeps_op_new.
  - apply hoare_op_events, He. by eapply bool_decide_eq_true.
  - apply keeps_op_describe.
  - by apply hoare_op_value.
  - apply keeps_op_call_static.
Qed.

(** ** Starting and stopping *)

Lemma idle_tables b w :
  1 <= next_object_id b -> objects b = ∅ -> values b = ∅ -> subscriptions b = ∅ ->
  tables_ok (State _ _ b w).
Proof. intros Hn Ho Hv Hs. split; simpl; rewrite ?Ho, ?Hv, ?Hs; done. Qed.

Lemma since_refl s t : since (past_of s t) s.
Proof.
  split; simpl; [lia|done| |done..]. intros id v _ Hv. apply elem_of_dom. eauto.
Qed.

Lemma past_of_spares s t operation request : spares (past_of s t) s operation request.
Proof. by split_and!; [|intros id _; split|..]. Qed.

Lemma live_past s t :
  tables_ok s -> application (st_bridge s) = true -> application_thread (st_bridge s) = Some t ->
  live (past_of s t) s.
Proof. intros Hok Ha Ht. split_and!; [done|apply since_refl|done|done]. Qed.

Lemma live_bridge_ok g s : live g s -> bridge_ok s.
Proof. intros (Hok & _ & Ha & Ht). split; [done|]. rewrite Ha, Ht. eauto. Qed.

(** What a series of deletions does to the world. *)
Lemma delete_remaining_spec l s :
  exists w', delete_remaining l s = (Done tt, State _ _ (st_bridge s) w') /\
    (forall p, w_born (st_world s) p -> w_born w' p) /\
    (forall p, w_born (st_world s) p -> w_alive (st_world s) p = false -> w_alive w' p = false) /\
    (forall p, p ∈ l -> w_born (st_world s) p -> w_alive w' p = false).
Proof.
  revert s. induction l as [|p l IH]; intros [b w]; simpl.
  { exists w. split_and!; try done. intros p Hp. by apply not_elem_of_nil in Hp. }
  unfold bind at 1, get_state, bind at 1. simpl.
  destruct (w_alive w p) eqn:Ha.
  - unfold qt_delete, bind, get_state. simpl. rewrite Ha. simpl.
    destruct (IH (State _ _ b (w_delete p w))) as (w' & E & Hb & Hd & Hl). simpl in *.
    exists w'. split_and!; [done|..].
    + intros q Hq. by apply Hb, law_delete_born.
    + intros q Hq Hqd. apply Hd; [by apply law_delete_born|by apply law_delete_dead].
    + intros q [->|Hq]%elem_of_cons Hqb; [|by apply Hl, law_delete_born].
      apply Hd; [by apply law_delete_born|apply law_delete_self].
  - simpl. destruct (IH (State _ _ b w)) as (w' & E & Hb & Hd & Hl). simpl in *.
    exists w'. split_and!; [done|done|done|].
    intros q [->|Hq]%elem_of_cons Hqb; [by apply Hd|by apply Hl].
Qed.

(** A shutdown on the application thread, in one step. *)
Lemma op_shutdown_spec current s :
  application (st_bridge s) = true -> application_thread (st_bridge s) = Some current ->
  exists w', op_shutdown current s =
    (Done (success JNull),
     State _ _ (Bridge _ false None ∅ ∅ ∅ (next_object_id (st_bridge s))) w') /\
    forall id p, objects (st_bridge s) !! id = Some p -> w_born (st_world s) p ->
      w_alive w' p = false.
Proof.
  intros Ha Ht. unfold op_shutdown, bind at 1, get_state. rewrite Ha. simpl.
  rewrite bool_decide_eq_true_2 by done. simpl.
  unfold bind at 1, update_bridge. simpl. unfold bind at 1, get_state. simpl. unfold bind at 1.
  destruct (delete_remaining_spec
    (shutdown_roots (State _ _ (set_subscriptions ∅ (st_bridge s)) (st_world s)))
    (State _ _ (set_subscriptions ∅ (st_bridge s)) (st_world s))) as (w1 & -> & Hb1 & _).
  unfold bind at 1. simpl in *.
  destruct (delete_remaining_spec ((map_entries (objects (st_bridge s))).*2)
    (State _ _ (set_subscriptions ∅ (st_bridge s)) w1)) as (w2 & -> & Hb2 & Hd2 & Hl2).
  simpl in *. exists (w_destroy_application w2). split; [done|].
  intros id p Hp Hpb. apply law_destroy_dead; [by apply Hb2, Hb1|].
  apply Hl2; [|by apply Hb1].
  apply list_elem_of_fmap. exists (id, p). split; [done|]. by apply elem_of_map_entries.
Qed.

Lemma op_application_ok current s : bridge_ok s -> request_ok current s (op_application current s).
Proof.
  intros [Hok Hb]. unfold op_application, bind at 1, get_state.
  destruct (application (st_bridge s)) eqn:Ha; simpl.
  - split; [split; [done|by rewrite Ha]|apply since_refl].
  - destruct Hb as (Ho & Hv & Hs & Ht). destruct s as [b w]. simpl in *.
    unfold bind at 1, call. simpl.
    destruct (w_native CreateApplication w) as [[[]|what] w'] eqn:E; simpl.
    + split; [|split; simpl; [lia| | |done..]; intros id x _; rewrite ?Ho, ?Hv; done].
      split; [|simpl; eauto]. destruct b. simpl in *.
      apply idle_tables; simpl; try done. apply Hok.
    + split; [|split; simpl; [lia| | |done..]; intros id x _; rewrite ?Ho, ?Hv; done].
      split; [|by simpl; rewrite Ha]. apply idle_tables; simpl; try done. apply Hok.
Qed.

Lemma op_shutdown_ok current s : bridge_ok s -> request_ok current s (op_shutdown current s).
Proof.
  intros [Hok Hb]. destruct (application (st_bridge s)) eqn:Ha;
    [destruct (decide (application_thread (st_bridge s) = Some current)) as [Ht|Ht]|].
  - destruct (op_shutdown_spec current s Ha Ht) as (w' & -> & _). split.
    + split; [|done]. apply idle_tables; try done. apply Hok.
    + split; simpl; [lia|done..].
  - unfold op_shutdown, bind at 1, get_state. rewrite Ha, bool_decide_eq_false_2 by done.
    split; [split; [done|by rewrite Ha]|apply since_refl].
  - unfold op_shutdown, bind at 1, get_state. rewrite Ha.
    split; [split; [done|by rewrite Ha]|apply since_refl].
Qed.

(** Every request keeps the invariant. *)
Lemma handleRequest_keeps current request s :
  bridge_ok s -> request_ok current s (handleRequest current request s).
Proof.
  intros Hs. assert (forall j, request_ok current s (ret j s)) as Hret
    by (intros j; split; [done|apply since_refl]).
  unfold handleRequest. cbv zeta.
  repeat match goal with
  | |- request_ok _ _ ((if ?b then _ else _) _) => destruct b; [try apply Hret|]
  end; [by apply op_application_ok|by apply op_shutdown_ok|].
  unfold bind, get_state.
  destruct (application (st_bridge s)) eqn:Ha; [|apply Hret].
  destruct (w_core_application (st_world s)); [|apply Hret]. simpl.
  case_bool_decide as Ht; [|apply Hret]. simpl.
  pose proof (hoare_op_running (to_string (obj_value "op" request)) request s (past_of s current)
    (past_of_spares _ _ _ _) s
    (conj eq_refl (live_past s current (proj1 Hs) Ha Ht))) as H.
  unfold request_ok. destruct (op_running _ _ s) as [[j|what|u] s']; [| |done];
    (split; [by eapply live_bridge_ok|apply H]).
Qed.

End RequestsOk.
