(* ===== verification/Toy.v ===== *)
(** A small concrete Qt that satisfies every law of the interface: the
    instance at which theorems with hypotheses are evaluated. *)
From S2P Require Export RequestsOk.

(** * Definitions *)

#[export] Instance toy_types : QtTypes | 1000 := {|
  qimage := string; qpixmap := string; qicon := string; qcolor := string; qdate := string;
  qtime := string; qdatetime := string; qurl := string; qfont := string; qkeysequence := string;
  quuid := string; qregularexpression := string * Z; qgeocoordinate := double * double * double;
  qhostaddress := string; qnetworkrequest := string * list (string * string); qopaque := unit;
|}.

(** [%1] and [%2] replaced in a format. *)
Fixpoint toy_arg (digit : Ascii.ascii) (fmt a : string) : string :=
  match fmt with
  | String "%"%char (String d rest) =>
      if bool_decide (d = digit) then (a ++ toy_arg digit rest a)%string
      else String "%"%char (String d (toy_arg digit rest a))
  | String c rest => String c (toy_arg digit rest a)
  | EmptyString => EmptyString
  end.

Fixpoint toy_digits (fuel : nat) (n : Z) (acc : string) : string :=
  match fuel with
  | O => acc
  | S fuel' =>
      let acc' := String (Ascii.ascii_of_nat (48 + Z.to_nat (n mod 10))) acc in
      if n / 10 =? 0 then acc' else toy_digits fuel' (n / 10) acc'
  end.

Definition toy_number (z : Z) : string :=
  if z <? 0 then String "-"%char (toy_digits 25 (- z) estr) else toy_digits 25 z estr.

Definition toy_nonempty (s : string) : option string := if str_empty s then None else Some s.

Fixpoint toy_key (keys : list (string * Z)) (key : string) : option Z :=
  match keys with
  | [] => None
  | (k, v) :: keys' => if bool_decide (k = key) then Some (v mod 2 ^ 64) else toy_key keys' key
  end.

Definition toy_to_variant (v : json) : @qvariant toy_types :=
  match v with
  | JUndefined => VInvalid
  | JNull => VNullptr
  | JBool b => VBool b
  | JDouble d => VDouble d
  | JString s => VString s
  | JArray a => VJsonArray a
  | JObject o => VJsonObject o
  end.

Definition toy_from_variant (v : @qvariant toy_types) : json :=
  match v with
  | VBool b => JBool b
  | VDouble d => JDouble d
  | VString s => JString s
  | VInt z | VUInt z => JDouble (double_of_Z z)
  | VStringList l => strings_array l
  | _ => JNull
  end.

Definition toy_convert (v : @qvariant toy_types) (t : metatype) : bool * @qvariant toy_types :=
  match v, t with
  | VDouble d, MT_Int => (true, VInt (trunc_Z d))
  | VDouble d, MT_UInt => (true, VUInt (trunc_Z d))
  | VObject _ p, MT_QObjectPtr c => (true, VObject c p)
  | _, MT_QString => (false, VString estr)
  | _, _ => (false, v)
  end.

Definition toy_default (t : metatype) : @qvariant toy_types :=
  match t with
  | MT_QString => VString estr
  | MT_Int => VInt 0
  | MT_Bool => VBool false
  | MT_QPoint => VPoint 0 0
  | _ => VInvalid
  end.

(** A reflected class with one method, one signal and one writable property. *)
Definition toy_method (signature : string) (kind : method_type) (params : list metatype)
    (result : metatype) : metamethod :=
  MetaMethod signature true kind APublic (Some (mt_name result)) [] (mt_name <$> params) params result.

Definition toy_object_meta : metaobject :=
  MetaObject "QObject" None [MetaProperty "objectName" MT_QString true true true true]
    [toy_method "setObjectName(QString)" MSlot [MT_QString] MT_Void;
     toy_method "destroyed(QObject*)" MSignal [MT_QObjectPtr "QObject"] MT_Void] [] [].

Definition toy_class_meta (c : string) : metaobject :=
  if bool_decide (c = "QObject"%string) then toy_object_meta
  else MetaObject c (Some toy_object_meta) (mo_properties toy_object_meta)
         (mo_methods toy_object_meta) [] [].

Definition toy_find {A} (name : A -> string) (key : string) (l : list A) : option A :=
  match filter (fun a => name a = key) l with
  | a :: _ => Some a
  | [] => None
  end.

(** The JSON texts the toy parser knows. *)
Definition toy_known : list (list (string * string)) :=
  [[("op", "application")]; [("op", "new"); ("class", "QWidget")]]%string.

Definition toy_quoted (t : string) : string := (dquote ++ t ++ dquote)%string.

Definition toy_text (members : list (string * string)) : string :=
  ("{" ++ str_join "," ((fun m => toy_quoted m.1 ++ ":" ++ toy_quoted m.2)%string <$> members) ++ "}")%string.

Definition toy_parse (text : string) : string * option json :=
  match filter (fun members => toy_text members = text) toy_known with
  | members :: _ => (estr, Some (JObject (make_members ((fun m => (m.1, JString m.2)) <$> members))))
  | [] => ("illegal value"%string, None)
  end.

#[export] Instance toy_lib : QtLib | 1000 := {|
  q_arg := toy_arg "1"%char;
  q_arg2 := fun fmt a b => toy_arg "2"%char (toy_arg "1"%char fmt a) b;
  q_number := toy_number;
  q_to_latin1 := fun s => s;
  q_from_latin1 := fun s => s;
  q_from_utf8 := fun s => s;
  q_section_last := fun s => (split_qualified s).2;
  q_to_long_long := fun s => if bool_decide (s = "-9223372036854775808"%string)
                             then Some (- 2 ^ 63) else None;
  q_to_ulong_long := fun s => None;
  q_from_base64 := fun s => Some s;
  q_to_base64 := fun s => s;
  q_normalized_signature := fun s => str_remove " "%char s;
  q_parse_document := toy_parse;
  q_document_compact := fun j => "{}"%string;
  q_key_to_value64 := fun e key => toy_key (me_keys e) key;
  q_keys_to_value64 := fun e key => toy_key (me_keys e) key;
  q_meta_object := fun t =>
    match t with
    | MT_QObjectPtr c => Some (toy_class_meta c)
    | MT_Enum n _ => Some (MetaObject "Qt" None [] [] []
        [MetaEnum "Orientation" "Qt" false [("Horizontal"%string, 1); ("Vertical"%string, 2)]])
    | _ => None
    end;
  q_is_gadget := fun t => false;
  q_index_of_method := fun m s => toy_find mm_signature s (mo_methods m);
  q_index_of_signal := fun m s =>
    toy_find mm_signature s (filter (fun x => mm_type x = MSignal) (mo_methods m));
  q_index_of_property := fun m s => toy_find mp_name s (mo_properties m);
  q_to_variant := toy_to_variant;
  q_from_variant := toy_from_variant;
  q_convert := toy_convert;
  q_default_variant := toy_default;
  q_object_of := fun v => match v with VObject _ p => p | _ => None end;
  q_uuid := fun s => s;
  q_uuid_text := fun s => s;
  q_regexp := fun p o => (p, o);
  q_regexp_error := fun _ => None;
  q_regexp_pattern := fst;
  q_regexp_options := snd;
  q_geo := fun a b => (a, b, S754_nan);
  q_geo_altitude := fun a b c => (a, b, c);
  q_geo_valid := fun _ => true;
  q_geo_fields := fun g => g;
  q_host := toy_nonempty;
  q_host_text := fun s => s;
  q_url := fun s => s;
  q_url_error := fun s => if str_empty s then Some "empty URL"%string else None;
  q_url_encoded := fun s => s;
  q_request := fun u => (u, []);
  q_request_set_header := fun k v r => (r.1, r.2 ++ [(k, v)]);
  q_request_headers := snd;
  q_request_url := fst;
  q_image_from_data := toy_nonempty;
  q_image_png := fun i => Some i;
  q_pixmap_of_image := fun i => i;
  q_image_of_pixmap := fun i => i;
  q_icon_of_pixmap := fun i => i;
  q_pixmap_of_icon := fun i => i;
  q_color := toy_nonempty;
  q_color_name := fun s => s;
  q_date := toy_nonempty;
  q_date_text := fun s => s;
  q_time := fun s _ => toy_nonempty s;
  q_time_text := fun s _ => s;
  q_datetime_ms := toy_nonempty;
  q_datetime_iso := toy_nonempty;
  q_datetime_text := fun s => s;
  q_font := toy_nonempty;
  q_font_text := fun s => s;
  q_keysequence := fun s => s;
  q_keysequence_text := fun s => s;
|}.

(** The world: objects are numbered from 1 and their parents have smaller
    numbers; an object is alive while it and all its ancestors are kept. *)
Record toy_world : Type := ToyWorld {
  tw_next : positive;
  tw_class : gmap positive string;
  tw_parent : gmap positive positive;
  tw_kept : gmap positive unit;
  tw_layout : gmap positive positive;
  tw_running : bool;
  tw_next_spy : positive;
  tw_spies : gmap positive (list (list (@qvariant toy_types)));
}.

Definition toy_parent (w : toy_world) (p : positive) : option positive :=
  match tw_parent w !! p with
  | Some q => if (q <? p)%positive then Some q else None
  | None => None
  end.

Definition toy_kept (w : toy_world) (p : positive) : bool :=
  match tw_kept w !! p with
  | Some _ => (p <? tw_next w)%positive
  | None => false
  end.

Fixpoint toy_alive_upto (fuel : nat) (w : toy_world) (p : positive) : bool :=
  toy_kept w p &&
  match toy_parent w p with
  | None => true
  | Some q => match fuel with O => false | S fuel' => toy_alive_upto fuel' w q end
  end.

Definition toy_alive (w : toy_world) (p : positive) : bool := toy_alive_upto (Pos.to_nat p) w p.

Definition toy_delete (p : positive) (w : toy_world) : toy_world :=
  ToyWorld (tw_next w) (tw_class w) (tw_parent w) (delete p (tw_kept w)) (tw_layout w)
    (tw_running w) (tw_next_spy w) (tw_spies w).

Fixpoint first_object (args : list cxx_arg) : option positive :=
  match args with
  | [] => None
  | AObject p :: _ => p
  | _ :: args' => first_object args'
  end.

Definition toy_new (c : string) (args : list cxx_arg) (w : toy_world) : positive * toy_world :=
  let p := tw_next w in
  (p, ToyWorld (Pos.succ p) (<[p := c]> (tw_class w))
        (match first_object args with
         | Some q => if toy_alive w q then <[p := q]> (tw_parent w) else delete p (tw_parent w)
         | None => delete p (tw_parent w)
         end)
        (<[p := tt]> (tw_kept w)) (tw_layout w) (tw_running w) (tw_next_spy w) (tw_spies w)).

Definition toy_set_spies (n : positive) (m : gmap positive (list (list (@qvariant toy_types))))
    (w : toy_world) : toy_world :=
  ToyWorld (tw_next w) (tw_class w) (tw_parent w) (tw_kept w) (tw_layout w) (tw_running w) n m.

Definition toy_set_running (b : bool) (w : toy_world) : toy_world :=
  ToyWorld (tw_next w) (tw_class w) (tw_parent w) (tw_kept w) (tw_layout w) b (tw_next_spy w)
    (tw_spies w).

(** The calls the examples use; every other one raises an exception. *)
Definition toy_native {A : Type} (n : native A) : toy_world -> reply A * toy_world :=
  match n in native B return toy_world -> reply B * toy_world with
  | CreateApplication => fun w => (Replied tt, toy_set_running true w)
  | ProcessEvents => fun w => (Replied tt, w)
  | EventLoopWait _ => fun w => (Replied tt, w)
  | QNew c args => fun w => let '(p, w') := toy_new c args w in (Replied p, w')
  | QWidget_width _ => fun w => (Replied 640, w)
  | QWidget_window o => fun w => (Replied (if (o <? tw_next w)%positive then Some o else None), w)
  | ReadProperty _ _ => fun w => (Replied (VString "name"), w)
  | WriteProperty _ _ _ => fun w => (Replied true, w)
  | NewSpy _ _ => fun w =>
      (Replied (tw_next_spy w),
       toy_set_spies (Pos.succ (tw_next_spy w)) (<[tw_next_spy w := []]> (tw_spies w)) w)
  | SpyTakeFirst spy => fun w =>
      match tw_spies w !! spy with
      | Some (e :: rest) => (Replied e, toy_set_spies (tw_next_spy w) (<[spy := rest]> (tw_spies w)) w)
      | _ => (Replied [], w)
      end
  | _ => fun w => (Raised (Some "not supported"%string), w)
  end.

#[export] Instance toy_qt : QtWorld | 1000 := {|
  world := toy_world;
  w_alive := toy_alive;
  w_parent := toy_parent;
  w_depth := fun _ p => Pos.to_nat p;
  w_is_a := fun w c p =>
    match tw_class w !! p with
    | Some c' => bool_decide (c = c') ||
                 (bool_decide (c = "QWidget"%string) &&
                  str_mem c' ["QPushButton"; "QLabel"; "QMainWindow"]%string)
    | None => false
    end;
  w_cast := fun w m p =>
    match tw_class w !! p with
    | Some c => bool_decide (mo_class_name m = c) || bool_decide (mo_class_name m = "QObject"%string)
    | None => false
    end;
  w_meta := fun w p => toy_class_meta (default "QObject"%string (tw_class w !! p));
  w_object_name := fun _ _ => "name"%string;
  w_layout := fun w p => tw_layout w !! p;
  w_dynamic_property_names := fun _ _ => [];
  w_core_application := tw_running;
  w_spy_valid := fun w spy => match tw_spies w !! spy with Some _ => true | None => false end;
  w_spy_queue := fun w spy => default [] (tw_spies w !! spy);
  w_image_load := fun _ path => toy_nonempty path;
  w_native := @toy_native;
  w_delete := toy_delete;
  w_destroy_application := toy_set_running false;
|}.

(** Every header exists and every type is registered; the classes are given. *)
Definition traits_with (class_of : string -> string -> option cxx_class) : CxxTraits := {|
  cxx_class_of := class_of;
  cxx_has_header := fun m h => true;
  cxx_registered := fun t => true;
  cxx_copyable := fun t => true;
  cxx_default_constructible := fun t => true;
  cxx_abstract := fun t => false;
  cxx_constructible := fun t l => true;
  cxx_constructible_from := fun t l => true;
  cxx_enum_size := fun t => None;
|}.

#[export] Instance toy_traits : CxxTraits | 1000 := traits_with (fun m c =>
  if bool_decide (c = "QSvgRenderer"%string) then
    Some (CxxClass c true false false false false true false false false false true true
            (toy_class_meta c) None false)
  else None).

#[export] Instance toy_flags : BuildFlags | 1000 := {| has_axcontainer := false |}.

#[export] Instance toy_names : GeneratedNames | 1000 := {|
  g_constructor_classes := fun _ => [];
  g_value_constructor_classes := fun _ => [];
  g_direct_value_types := fun _ => [];
|}.

(** One value shard knows [QVersionNumber] and rejects every call on it. *)
#[export] Instance toy_generated : Generated | 1000 := {|
  g_invoke := fun shard o c s a out e => ret (false, out, e);
  g_construct_args := fun shard m c p a out e => ret (false, out, e);
  g_construct_value := fun shard m c a v e => ret (false, v, e);
  g_invoke_value := fun shard id c s a out e =>
    if bool_decide (shard = "qtcore_11"%string) && bool_decide (c = "QVersionNumber"%string)
    then ret (true, out, "majorVersion() expects 0 argument(s)"%string)
    else ret (false, out, e);
|}.

Definition toy_empty_world : toy_world := ToyWorld 1 ∅ ∅ ∅ ∅ false 1 ∅.

Definition toy_initial : state := State _ _ initial_bridge toy_empty_world.

(** A session on thread 7: the requests in order, while none of them crashes. *)
Fixpoint toy_run (requests : list jmembers) (s : state) : option state :=
  match requests with
  | [] => Some s
  | request :: requests' =>
      match handleRequest 7 request s with
      | (Crashed _, _) => None
      | (_, s') => toy_run requests' s'
      end
  end.

Definition toy_request (members : jmembers) : jmembers := make_members members.

(** Start the application and make a widget (1), a button in it (2), an
    unrelated widget (3), a subscription to the button and a second button in
    the first one (4). *)
Definition toy_session : list jmembers :=
  [toy_request [("op"%string, JString "application")];
   toy_request [("op"%string, JString "new"); ("class"%string, JString "QWidget")];
   toy_request [("op"%string, JString "new"); ("class"%string, JString "QPushButton");
                ("parent"%string, num 1); ("args"%string, JArray [JString "Go"])];
   toy_request [("op"%string, JString "new"); ("class"%string, JString "QWidget")];
   toy_request [("op"%string, JString "connect"); ("object_id"%string, num 2);
                ("signal"%string, JString "destroyed(QObject*)")];
   toy_request [("op"%string, JString "new"); ("class"%string, JString "QPushButton");
                ("parent"%string, num 2)]].

Definition toy_running : state := default toy_initial (toy_run toy_session toy_initial).

(** Requests of the same client on the session's state. *)
Definition toy_delete_request : jmembers :=
  toy_request [("op"%string, JString "delete"); ("object_id"%string, num 2)].

Definition toy_shutdown_request : jmembers := toy_request [("op"%string, JString "shutdown")].

Definition toy_new_request : jmembers :=
  toy_request [("op"%string, JString "new"); ("class"%string, JString "QPushButton");
               ("parent"%string, num 3)].

Definition toy_connect_request : jmembers :=
  toy_request [("op"%string, JString "connect"); ("object_id"%string, num 3);
               ("signal"%string, JString "destroyed(QObject*)")].

Definition toy_events_request : jmembers := toy_request [("op"%string, JString "events")].

(** The same session once a signal of object 2 that names object 3 is pending,
    and after object 3 has been deleted. *)
Definition toy_pending : state :=
  State _ _ (st_bridge toy_running)
    (toy_set_spies 2 {[1%positive := [[VObject "QObject" (Some 3%positive)]]]} (st_world toy_running)).

Definition toy_dangling : state :=
  default toy_pending
    (toy_run [toy_request [("op"%string, JString "delete"); ("object_id"%string, num 3)]] toy_pending).

(** The same session with a stored value, a QVersionNumber. *)
Definition toy_version : @qvariant toy_types := VOther "QVersionNumber" tt.

Definition toy_values : state :=
  State _ _ (set_values {[5 := toy_version]} (set_next_object_id 6 (st_bridge toy_running)))
    (st_world toy_running).

Definition toy_value_call_request : jmembers :=
  toy_request [("op"%string, JString "value_call"); ("value_id"%string, num 5);
               ("method"%string, JString "majorVersion()"); ("args"%string, JArray [num 1])].

Definition toy_value_delete_request : jmembers :=
  toy_request [("op"%string, JString "value_delete"); ("value_id"%string, num 5)].

Definition toy_value_new_request : jmembers :=
  toy_request [("op"%string, JString "value_new"); ("type"%string, JString "QNoSuchGadget")].

Definition toy_application_request : jmembers := toy_request [("op"%string, JString "application")].

(** * Lemmas *)

Lemma toy_arg_cons d c fmt a :
  c <> "%"%char -> toy_arg d (String c fmt) a = String c (toy_arg d fmt a).
Proof. by destruct c as [[] [] [] [] [] [] [] []]. Qed.

#[export] Instance toy_lib_laws : QtLibLaws toy_lib | 1000.
Proof.
  split.
  - intros v t v'. simpl. unfold toy_convert. by destruct v, t; intros [= <-].
  - intros []; simpl; auto.
  - intros c fmt a Hc. eexists. exact (toy_arg_cons "1" c fmt a Hc).
  - intros c fmt a b Hc. change (toy_arg "2" (toy_arg "1" (String c fmt) a) b <> estr).
    by rewrite !toy_arg_cons.
  - done.
  - done.
  - done.
Qed.

Lemma toy_parent_lt w p q : toy_parent w p = Some q -> (q < p)%positive.
Proof.
  unfold toy_parent. destruct (tw_parent w !! p) as [q'|]; [|done].
  destruct (Pos.ltb_spec q' p); by intros [= <-].
Qed.

Lemma toy_alive_fuel w p n m :
  (Pos.to_nat p <= n)%nat -> (Pos.to_nat p <= m)%nat -> toy_alive_upto n w p = toy_alive_upto m w p.
Proof.
  revert p m. induction n as [|n IH]; intros p m Hn Hm; [lia|].
  destruct m as [|m]; [lia|]. simpl. destruct (toy_kept w p); [|done]. simpl.
  destruct (toy_parent w p) as [q|] eqn:Hq; [|done]. apply toy_parent_lt in Hq. apply IH; lia.
Qed.

Lemma toy_alive_eq w p :
  toy_alive w p = toy_kept w p && match toy_parent w p with None => true | Some q => toy_alive w q end.
Proof.
  unfold toy_alive. destruct (Pos.to_nat p) as [|n] eqn:Hn; [lia|]. simpl.
  destruct (toy_parent w p) as [q|] eqn:Hq; [|done]. apply toy_parent_lt in Hq.
  f_equal. apply toy_alive_fuel; lia.
Qed.

Lemma toy_alive_kept w p : toy_alive w p = true -> toy_kept w p = true.
Proof. rewrite toy_alive_eq. by intros [? _]%andb_true_iff. Qed.

(** Aliveness depends on the parents and on what is kept. *)
Lemma toy_dead_mono w w' :
  (forall p, (p < tw_next w)%positive -> toy_parent w' p = toy_parent w p) ->
  (forall p, (p < tw_next w)%positive -> toy_kept w' p = true -> toy_kept w p = true) ->
  forall p, (p < tw_next w)%positive -> toy_alive w p = false -> toy_alive w' p = false.
Proof.
  intros Hp Hk p. remember (Pos.to_nat p) as n eqn:Hn. revert p Hn.
  induction (lt_wf n) as [n _ IH]. intros p -> Hlt.
  rewrite !toy_alive_eq, (Hp p Hlt). destruct (toy_kept w' p) eqn:E; [|done].
  rewrite (Hk p Hlt E). simpl. destruct (toy_parent w p) as [q|] eqn:Hq; [|done].
  apply toy_parent_lt in Hq. apply (IH (Pos.to_nat q)); lia.
Qed.

(** A new object leaves the others alone. *)
Lemma toy_new_parent c args w q :
  (q < tw_next w)%positive -> toy_parent (toy_new c args w).2 q = toy_parent w q.
Proof.
  intros Hq. unfold toy_parent. simpl. destruct (first_object args) as [r|]; [destruct (toy_alive w r)|].
  - by rewrite lookup_insert_ne by lia.
  - by rewrite lookup_delete_ne by lia.
  - by rewrite lookup_delete_ne by lia.
Qed.

Lemma toy_new_alive_old c args w q :
  toy_alive w q = true -> toy_alive (toy_new c args w).2 q = true.
Proof.
  intros Ha. pose proof (toy_alive_kept _ _ Ha) as Hk. unfold toy_kept in Hk.
  assert (q < tw_next w)%positive as Hlt by (destruct (tw_kept w !! q); [by apply Pos.ltb_lt|done]).
  clear Hk. remember (Pos.to_nat q) as n eqn:Hn. revert q Hn Ha Hlt.
  induction (lt_wf n) as [n _ IH]. intros q -> Ha Hlt. rewrite toy_alive_eq in Ha |- *.
  apply andb_true_iff in Ha as [Hk Hp]. rewrite toy_new_parent by done. apply andb_true_iff. split.
  - unfold toy_kept in *. simpl. rewrite lookup_insert_ne by lia.
    destruct (tw_kept w !! q); [apply Pos.ltb_lt; lia|done].
  - destruct (toy_parent w q) as [r|] eqn:E; [|done]. apply toy_parent_lt in E.
    eapply (IH (Pos.to_nat r)); [lia|done|done|lia].
Qed.

Lemma toy_new_alive c args w : toy_alive (toy_new c args w).2 (tw_next w) = true.
Proof.
  rewrite toy_alive_eq. apply andb_true_iff. split.
  - unfold toy_kept. simpl. rewrite lookup_insert_eq. apply Pos.ltb_lt. lia.
  - unfold toy_parent. simpl. destruct (first_object args) as [r|] eqn:F; [destruct (toy_alive w r) eqn:E|].
    + rewrite lookup_insert_eq. destruct (r <? tw_next w)%positive; [|done].
      pose proof (toy_new_alive_old c args w r E) as H. simpl in H. by rewrite F, E in H.
    + by rewrite lookup_delete_eq.
    + by rewrite lookup_delete_eq.
Qed.

Lemma toy_native_dead {A} (n : native A) w p :
  (p < tw_next w)%positive -> toy_alive w p = false ->
  (tw_next w <= tw_next (toy_native n w).2)%positive /\ toy_alive (toy_native n w).2 p = false.
Proof.
  intros Hp Ha.
  assert (forall w', tw_next w' = tw_next w -> tw_parent w' = tw_parent w -> tw_kept w' = tw_kept w ->
    (tw_next w <= tw_next w')%positive /\ toy_alive w' p = false) as Hsame.
  { intros w' H1 H2 H3. split; [rewrite H1; lia|].
    eapply (toy_dead_mono w); [..|done|done].
    - intros q Hq. unfold toy_parent. by rewrite H2.
    - intros q Hq. unfold toy_kept. by rewrite H1, H3. }
  destruct n; simpl;
    try (match goal with |- context [tw_spies w !! ?spy] =>
           destruct (tw_spies w !! spy) as [[|e rest]|] end);
    simpl; try (match goal with |- _ /\ toy_alive ?w' p = false => by apply (Hsame w') end).
  split; [lia|]. eapply (toy_dead_mono w); [..|done|done].
  - intros q Hq. by apply toy_new_parent.
  - intros q Hq. unfold toy_kept. simpl. rewrite lookup_insert_ne by lia.
    destruct (tw_kept w !! q); [|done]. intros _. by apply Pos.ltb_lt.
Qed.

#[export] Instance toy_laws : QtLaws toy_qt | 1000.
Proof.
  refine {| w_born := fun (w : @world _ toy_qt) p => (p < tw_next w)%positive |}; simpl.
  - intros w p q Hq. apply toy_parent_lt in Hq. lia.
  - intros w p Ha. apply toy_alive_kept in Ha. unfold toy_kept in Ha.
    destruct (tw_kept w !! p); [|done]. by apply Pos.ltb_lt.
  - intros A n w p Hp. destruct n; simpl; try done; try lia.
    match goal with |- context [tw_spies w !! ?spy] =>
      by destruct (tw_spies w !! spy) as [[|e rest]|] end.
  - intros A n w p Hp Ha. by apply toy_native_dead.
  - intros c args w p [= <-]. pose proof (toy_new_alive c args w). simpl in *. split_and!; [lia|lia|done].
  - done.
  - intros A n w a p. destruct n; simpl; try done; try (by intros _ ?%elem_of_nil).
    match goal with |- context [(?o <? tw_next w)%positive] =>
      destruct (Pos.ltb_spec o (tw_next w)); intros [= <-];
        [by intros ->%list_elem_of_singleton|by intros ?%elem_of_nil] end.
  - done.
  - done.
  - done.
  - done.
  - intros o w p Hp Ha. eapply (toy_dead_mono w); [..|done|done]; [done|].
    intros q Hq. unfold toy_kept. simpl. destruct (decide (o = q)) as [->|Hne].
    + by rewrite lookup_delete_eq.
    + by rewrite lookup_delete_ne.
  - intros o w. rewrite toy_alive_eq. unfold toy_kept. simpl. by rewrite lookup_delete_eq.
  - intros o w p Hp. induction Hp as [p q Hpq|p q r Hpq _ IH]; unfold w_below in Hpq; simpl in Hpq.
    + rewrite toy_alive_eq. unfold toy_parent at 1. simpl.
      change (toy_kept (toy_delete q w) p &&
        match toy_parent w p with None => true | Some q' => toy_alive (toy_delete q w) q' end = false).
      rewrite Hpq, (toy_alive_eq _ q). unfold toy_kept at 2. simpl. rewrite lookup_delete_eq.
      by rewrite andb_false_r.
    + rewrite toy_alive_eq.
      change (toy_kept (toy_delete r w) p &&
        match toy_parent w p with None => true | Some q' => toy_alive (toy_delete r w) q' end = false).
      rewrite Hpq, IH. by rewrite andb_false_r.
  - done.
  - intros w p Hp Ha. by apply (toy_dead_mono w).
  - intros spy w. simpl. destruct (tw_spies w !! spy) as [[|e rest]|] eqn:E; simpl; [done| |done].
    split_and!; [done|by rewrite lookup_insert_eq|..].
    + intros other Hne. by rewrite lookup_insert_ne.
    + intros p. unfold toy_alive. generalize (Pos.to_nat p). intros n. revert p.
      induction n as [|n IH]; intros p; simpl; [done|]. unfold toy_kept, toy_parent. simpl.
      destruct (tw_parent w !! p) as [q|]; [|done]. destruct (q <? p)%positive; [|done].
      by rewrite IH.
    + intros other. destruct (decide (spy = other)) as [<-|Hne].
      * by rewrite lookup_insert_eq, E.
      * by rewrite lookup_insert_ne.
    + done.
Defined.

#[export] Instance toy_generated_laws : GeneratedLaws toy_laws toy_generated | 1000.
Proof.
  split; simpl.
  - intros. apply keeps_ret.
  - intros shard m c p a e g st Hs. by split_and!.
  - intros. apply keeps_ret.
  - intros. destruct (_ && _); by intros st Hs.
Qed.

Lemma toy_initial_ok : bridge_ok toy_initial.
Proof. split; [by apply idle_tables|done]. Qed.

Lemma toy_run_ok requests s : bridge_ok s ->
  match toy_run requests s with Some s' => bridge_ok s' | None => True end.
Proof.
  revert s. induction requests as [|request requests IH]; intros s Hs; simpl; [done|].
  pose proof (handleRequest_keeps 7 request s Hs) as H. unfold request_ok in H.
  destruct (handleRequest 7 request s) as [[j|what|u] s']; [apply IH, H|apply IH, H|done].
Qed.

Lemma toy_running_ok : bridge_ok toy_running.
Proof.
  pose proof (toy_run_ok toy_session toy_initial toy_initial_ok) as H. unfold toy_running.
  destruct (toy_run _ _); [done|apply toy_initial_ok].
Qed.

Lemma toy_running_tables :
  application (st_bridge toy_running) = true /\
  application_thread (st_bridge toy_running) = Some 7 /\
  map_entries (objects (st_bridge toy_running)) = [(1, 1%positive); (2, 2%positive); (3, 3%positive); (4, 4%positive)] /\
  next_object_id (st_bridge toy_running) = 5 /\
  length (map_entries (subscriptions (st_bridge toy_running))) = 1%nat.
Proof. vm_compute. done. Qed.
