(* ===== verification/Sessions.v ===== *)
(** Sessions: sequences of requests from any threads, as a step relation, and
    what holds of every state they reach. *)
From S2P Require Export Wire Toy.

(** * Definitions *)

(** One call of kry_qt6_request, made on the thread [current]. The mutex of
    the bridge makes calls from several threads such a sequence. *)
Inductive step {T : QtTypes} {QB : QtLib} {QW : QtWorld} {CT : CxxTraits} {GN : GeneratedNames} {G : Generated}
    {BF : BuildFlags} : state -> state -> Prop :=
  | step_request current request requestLength response capacity s r :
      kry_qt6_request current request requestLength response capacity s = Some r ->
      step s (wr_state r).

(** The operations that need no running application. *)
Definition static_operations : list string :=
  ["constructors"; "value_types"; "meta_classes"; "describe_class"; "describe_value_type"]%string.

Definition op_name (request : jmembers) : string := to_string (obj_value "op" request).

(** ** A session over the wire *)

Definition toy_send (members : list (string * string)) (s : state) : state :=
  match kry_qt6_request 7 (Some (toy_text members)) (Z.of_nat (String.length (toy_text members))) true 4096 s with
  | Some r => wr_state r
  | None => s
  end.

(** After [application] and [new QWidget]. *)
Definition toy_one : state :=
  toy_send [("op", "new"); ("class", "QWidget")]%string (toy_send [("op", "application")]%string toy_initial).

Definition toy_two : state := toy_send [("op", "new"); ("class", "QWidget")]%string toy_one.

Section Sessions.
Context {T : QtTypes} {QB : QtLib} {QW : QtWorld} {CT : CxxTraits} {GN : GeneratedNames} {G : Generated} {BF : BuildFlags}.

(** ** Guards *)

(** Past its static operations, handleRequest is one of three things. *)
Lemma handleRequest_guarded current request s :
  op_name request <> estr -> ~ op_name request ∈ static_operations ->
  op_name request <> "application"%string -> op_name request <> "shutdown"%string ->
  handleRequest current request s =
    if negb (application (st_bridge s)) || negb (w_core_application (st_world s))
    then (Done (failure "start the Qt application before creating or using Qt objects"), s)
    else if negb (bool_decide (application_thread (st_bridge s) = Some current))
    then (Done (failure "Qt requests must run on the application thread"), s)
    else op_running (op_name request) request s.
Proof.
  unfold op_name, static_operations, handleRequest. cbv zeta.
  generalize (to_string (obj_value "op" request)). intros op He Hs Ha Hd.
  assert (str_empty op = false) as -> by (destruct op; done).
  rewrite !elem_of_cons in Hs.
  repeat (rewrite bool_decide_eq_false_2 by tauto).
  unfold bind, get_state, fail, ret. by repeat case_match.
Qed.

(** The operations that only read the class tables do not touch the state. *)
Lemma handleRequest_static current request s :
  op_name request ∈ static_operations ->
  exists j, handleRequest current request s = (Done j, s).
Proof.
  unfold op_name, static_operations, handleRequest. cbv zeta.
  generalize (to_string (obj_value "op" request)). intros op Hop.
  destruct (str_empty op); [by eexists|]. rewrite !elem_of_cons in Hop.
  repeat (destruct (bool_decide_reflect (op = _)); [by eexists|]). set_solver.
Qed.

Section Laws.
Context {LB : QtLibLaws QB} {QL : QtLaws QW} {GL : GeneratedLaws QL G}.

(** ** Steps *)

Lemma kry_qt6_request_keeps current request len response capacity s r :
  bridge_ok s -> kry_qt6_request current request len response capacity s = Some r ->
  bridge_ok (wr_state r) /\ since (past_of s current) (wr_state r).
Proof.
  intros Hs. pose proof (since_refl s current) as Hrefl. unfold kry_qt6_request.
  destruct request as [bytes|]; [|by intros [= <-]].
  destruct (_ || _); [by intros [= <-]|].
  destruct (q_parse_document _) as [e document].
  assert (forall j, (let '(length, written) := writeResponse j response capacity in
    Some (WireResult _ _ length written s)) = Some r -> wr_state r = s) as Hsame.
  { intros j. destruct (writeResponse _ _ _). by intros [= <-]. }
  destruct document as [[| | | | | |object]|];
    try (intros Hr; apply Hsame in Hr; by rewrite Hr).
  pose proof (handleRequest_keeps current object s Hs) as H. unfold request_ok in H.
  destruct (handleRequest current object s) as [[j|[what|]|u] s']; simpl; [..|done];
    destruct (writeResponse _ _ _); by intros [= <-].
Qed.

Lemma steps_keep s s' : bridge_ok s -> rtc step s s' -> bridge_ok s'.
Proof.
  intros Hs H. induction H as [s|s s1 s2 [] _ IH]; [done|].
  apply IH. by eapply kry_qt6_request_keeps.
Qed.

(** Requests never lower the counter, and never bind an identifier below it. *)
Lemma steps_since s s' : bridge_ok s -> rtc step s s' ->
  next_object_id (st_bridge s) <= next_object_id (st_bridge s') /\
  forall id, id < next_object_id (st_bridge s) ->
    (forall p, objects (st_bridge s') !! id = Some p -> objects (st_bridge s) !! id = Some p) /\
    (is_Some (values (st_bridge s') !! id) -> is_Some (values (st_bridge s) !! id)).
Proof.
  intros Hs H. induction H as [s|s s1 s2 [] _ IH]; [split; [lia|done]|].
  destruct (kry_qt6_request_keeps _ _ _ _ _ _ _ Hs H) as [Hs1 [Hn Ho Hv]]. simpl in *.
  destruct (IH Hs1) as [Hn' Hid]. split; [lia|]. intros id Hlt.
  destruct (Hid id) as [Hido Hidv]; [lia|]. split.
  - intros p Hp. by apply Ho, Hido.
  - intros Hx. destruct (Hidv Hx) as [v Hv']. by apply elem_of_dom, (Hv id v).
Qed.

(** ** Properties *)

(** C1: every request keeps the invariant. From a well-formed bridge state,
    handleRequest (any operation, arguments well formed or not, on any thread)
    either returns or raises an exception in a well-formed state in which every
    identifier given out earlier still names the same object or nothing. The
    only undefined behaviour it can run into is reading a QVariant that holds a
    pointer to a destroyed object; it never deletes an object twice. *)
Theorem handleRequest_ok current request s :
  bridge_ok s -> request_ok current s (handleRequest current request s).
Proof. apply handleRequest_keeps. Qed.

(** Whatever byte strings are sent from whatever threads, every state the
    bridge reaches from its initial one is well formed: identifiers are positive
    and below the counter, no identifier is both an object and a value, a live
    object has one identifier, every subscription belongs to a registered
    object, stored values are valid, and without an application all tables are
    empty. *)
Theorem reachable_ok w s : rtc step (State _ _ initial_bridge w) s -> bridge_ok s.
Proof. apply steps_keep. split; [by apply idle_tables|done]. Qed.

(** C3: identifiers are never reused. In every state reached later, an
    identifier that had been given out names the object it named before or
    nothing, and a value identifier that was closed stays closed, across
    deletions, shutdowns and restarts of the application. *)
Theorem identifiers_never_reused s s' id :
  bridge_ok s -> rtc step s s' -> id < next_object_id (st_bridge s) ->
  (forall p, objects (st_bridge s') !! id = Some p -> objects (st_bridge s) !! id = Some p) /\
  (is_Some (values (st_bridge s') !! id) -> is_Some (values (st_bridge s) !! id)).
Proof. intros Hs H. by apply steps_since. Qed.

End Laws.

(** C6: requests are confined to the thread that started the application. On
    any other thread no request changes the bridge or Qt in any way, and every
    operation except the five static ones and [application] is answered with an
    error. *)
Theorem thread_confinement current owner request s :
  application (st_bridge s) = true -> application_thread (st_bridge s) = Some owner ->
  current <> owner ->
  exists j, handleRequest current request s = (Done j, s) /\
    (op_name request ∈ "application"%string :: static_operations \/ exists m, j = failure m).
Proof.
  intros Ha Ht Hne. destruct (decide (op_name request = estr)) as [He|He].
  { eexists. unfold handleRequest. unfold op_name in He. rewrite He. simpl. eauto. }
  destruct (decide (op_name request ∈ static_operations)) as [Hs|Hs].
  { destruct (handleRequest_static current request s Hs) as [j Hj]. exists j. set_solver. }
  destruct (decide (op_name request = "application"%string)) as [Hap|Hap].
  { exists running. unfold handleRequest. unfold op_name in *. rewrite Hap. simpl.
    unfold op_application, bind, get_state. rewrite Ha. split; [done|]. left. constructor. }
  destruct (decide (op_name request = "shutdown"%string)) as [Hd|Hd].
  { eexists. unfold handleRequest. unfold op_name in *. rewrite Hd. simpl.
    unfold op_shutdown, bind, get_state. rewrite Ha, Ht, bool_decide_eq_false_2 by congruence.
    simpl. eauto. }
  rewrite handleRequest_guarded by done. rewrite Ha, Ht, bool_decide_eq_false_2 by congruence.
  destruct (_ || _); eauto.
Qed.

(** C23: before the application runs, nothing but the operation [application]
    changes anything: every other operation leaves bridge and Qt as they are and
    the ones on objects and values report that the application must be started. *)
Theorem not_running_refused current request s :
  application (st_bridge s) = false -> op_name request <> "application"%string ->
  exists j, handleRequest current request s = (Done j, s) /\
    (op_name request <> estr -> ~ op_name request ∈ "shutdown"%string :: static_operations ->
     j = failure "start the Qt application before creating or using Qt objects").
Proof.
  intros Ha Hap. destruct (decide (op_name request = estr)) as [He|He].
  { eexists. unfold handleRequest. unfold op_name in He. rewrite He. simpl. by split. }
  destruct (decide (op_name request ∈ static_operations)) as [Hs|Hs].
  { destruct (handleRequest_static current request s Hs) as [j Hj]. exists j. set_solver. }
  destruct (decide (op_name request = "shutdown"%string)) as [Hd|Hd].
  { eexists. unfold handleRequest. unfold op_name in *. rewrite Hd. simpl.
    unfold op_shutdown, bind, get_state. rewrite Ha. split; [done|].
    intros _ []. constructor. }
  rewrite handleRequest_guarded by done. rewrite Ha. by eexists.
Qed.

End Sessions.

Lemma toy_send_steps members s : rtc step s (toy_send members s).
Proof.
  unfold toy_send. destruct (kry_qt6_request _ _ _ _ _ _) as [r|] eqn:E; [|apply rtc_refl].
  apply rtc_once. by eapply step_request.
Qed.

Lemma toy_one_reached : rtc step toy_initial toy_one.
Proof. eapply rtc_trans; apply toy_send_steps. Qed.

Lemma toy_one_ok : bridge_ok toy_one.
Proof. apply (steps_keep toy_initial toy_one toy_initial_ok toy_one_reached). Qed.

(** ** Witnesses *)

Lemma handleRequest_ok_witness :
  bridge_ok toy_running /\
  request_ok 7 toy_running (handleRequest 7 (toy_request
    [("op"%string, JString "delete"); ("object_id"%string, num 1)]) toy_running).
Proof. split; [exact toy_running_ok|apply handleRequest_ok, toy_running_ok]. Defined.

Lemma reachable_ok_witness :
  next_object_id (st_bridge toy_one) = 2 /\ bridge_ok toy_one.
Proof.
  split; [vm_compute; reflexivity|].
  apply (reachable_ok (QW := toy_qt) toy_empty_world). exact toy_one_reached.
Defined.

Lemma identifiers_never_reused_witness :
  1 < next_object_id (st_bridge toy_one) /\ next_object_id (st_bridge toy_two) = 3 /\
  (forall p, objects (st_bridge toy_two) !! 1 = Some p -> objects (st_bridge toy_one) !! 1 = Some p).
Proof.
  split; [vm_compute; done|split; [vm_compute; done|]].
  apply (identifiers_never_reused toy_one toy_two 1 toy_one_ok); [apply toy_send_steps|vm_compute; done].
Defined.

Lemma thread_confinement_witness :
  exists j, handleRequest 8 (toy_request
      [("op"%string, JString "delete"); ("object_id"%string, num 1)]) toy_running = (Done j, toy_running) /\
    ("delete"%string ∈ "application"%string :: static_operations \/ exists m, j = failure m).
Proof.
  apply (thread_confinement 8 7 (toy_request
    [("op"%string, JString "delete"); ("object_id"%string, num 1)]) toy_running);
    [vm_compute; done|vm_compute; done|lia].
Defined.

Lemma not_running_refused_witness :
  exists j, handleRequest 7 (toy_request [("op"%string, JString "events")]) toy_initial =
      (Done j, toy_initial) /\
    ("events"%string <> estr -> ~ "events"%string ∈ "shutdown"%string :: static_operations ->
     j = failure "start the Qt application before creating or using Qt objects").
Proof.
  apply (not_running_refused 7 (toy_request [("op"%string, JString "events")]) toy_initial);
    [done|vm_compute; done].
Defined.
