(* ===== verification/HandleTable.v ===== *)
(** What the identifiers of the bridge promise to its clients, as an abstract
    table of handles, and the proof that the bridge implements it. *)
From S2P Require Export Sessions.

(** * Definitions *)

(** ** The abstract table

    Identifiers are handed out in order, one per opened object or value; the
    only other thing that happens to one is that it is closed. *)
Record handle_table : Type := HandleTable {
  t_objects : gmap Z ptr;
  t_values : gset Z;
  t_next : Z;
}.

Definition empty_table : handle_table := HandleTable ∅ ∅ 1.

Inductive handle_event : Set :=
  | OpenObject (p : ptr)
  | OpenValue
  | Close (id : Z).

(** The identifiers in use. *)
Definition in_use (t : handle_table) : gset Z := dom (t_objects t) ∪ t_values t.

Definition act (e : handle_event) (t : handle_table) : option handle_table :=
  match e with
  | OpenObject p =>
      Some (HandleTable (<[t_next t := p]> (t_objects t)) (t_values t) (t_next t + 1))
  | OpenValue =>
      Some (HandleTable (t_objects t) ({[t_next t]} ∪ t_values t) (t_next t + 1))
  | Close id =>
      if bool_decide (id ∈ in_use t)
      then Some (HandleTable (delete id (t_objects t)) (t_values t ∖ {[id]}) (t_next t))
      else None
  end.

Fixpoint run (trace : list handle_event) (t : handle_table) : option handle_table :=
  match trace with
  | [] => Some t
  | e :: trace' => match act e t with Some t' => run trace' t' | None => None end
  end.

(** The identifiers a trace opens, when the next one is [next]. *)
Fixpoint opened (trace : list handle_event) (next : Z) : list Z :=
  match trace with
  | [] => []
  | Close _ :: trace' => opened trace' next
  | _ :: trace' => next :: opened trace' (next + 1)
  end.

(** No identifier names both an object and a value, and all are below the
    next one. *)
Definition table_wf (t : handle_table) : Prop :=
  dom (t_objects t) ## t_values t /\ forall id, id ∈ in_use t -> id < t_next t.

(** [t'] has no identifier below the next one of [t] that [t] does not have. *)
Definition later (t t' : handle_table) : Prop :=
  t_next t <= t_next t' /\
  forall id, id < t_next t ->
    (forall p, t_objects t' !! id = Some p -> t_objects t !! id = Some p) /\
    (id ∈ t_values t' -> id ∈ t_values t).

(** The part of a table below an identifier. *)
Definition below (t : handle_table) (n : Z) : handle_table :=
  HandleTable (filter (fun kv => kv.1 < n) (t_objects t)) (filter (fun k => k < n) (t_values t)) n.

(** The event that makes the identifier [id] what it is in [t]. *)
Definition open_at (t : handle_table) (id : Z) : list handle_event :=
  match t_objects t !! id with
  | Some p => [OpenObject p]
  | None => if bool_decide (id ∈ t_values t) then [OpenValue] else [OpenValue; Close id]
  end.

(** The table of a state of the bridge. *)
Definition table_of `{QtWorld} (s : state) : handle_table :=
  HandleTable (objects (st_bridge s)) (dom (values (st_bridge s))) (next_object_id (st_bridge s)).

(** ** The abstract table by itself *)

Lemma run_app tr1 tr2 t t1 :
  run tr1 t = Some t1 -> run (tr1 ++ tr2) t = run tr2 t1.
Proof.
  revert t. induction tr1 as [|e tr1 IH]; intros t; simpl; [by intros [= ->]|].
  destruct (act e t); [apply IH|done].
Qed.

(** No trace opens an identifier twice. *)
Lemma opened_lower trace next id : id ∈ opened trace next -> next <= id.
Proof.
  revert next. induction trace as [|[p| |i] trace IH]; intros next; simpl.
  - by intros ?%not_elem_of_nil.
  - intros [->|H%IH]%elem_of_cons; lia.
  - intros [->|H%IH]%elem_of_cons; lia.
  - apply IH.
Qed.

Lemma NoDup_opened trace next : NoDup (opened trace next).
Proof.
  revert next. induction trace as [|[p| |i] trace IH]; intros next; simpl;
    [constructor| | |apply IH]; (constructor; [|apply IH]); intros H%opened_lower; lia.
Qed.

(** ** Between two tables *)

Lemma run_close (l : list Z) t :
  NoDup l -> (forall id, id ∈ l -> id ∈ in_use t) ->
  run (Close <$> l) t =
    Some (HandleTable (filter (fun kv => kv.1 ∉ l) (t_objects t))
            (t_values t ∖ list_to_set l) (t_next t)).
Proof.
  intros Hnd. revert t. induction Hnd as [|id l Hid Hnd IH]; intros t Ht; simpl.
  - f_equal. destruct t as [o v n]. simpl. f_equal; [|set_solver].
    symmetry. apply map_filter_id. intros k p _. by intros ?%not_elem_of_nil.
  - rewrite bool_decide_eq_true_2 by (apply Ht; left). rewrite IH.
    + simpl. f_equal. f_equal; [|set_solver]. apply map_eq. intros k.
      apply option_eq. intros p. rewrite !map_lookup_filter_Some, lookup_delete_Some.
      simpl. rewrite not_elem_of_cons. naive_solver.
    + intros k Hk. specialize (Ht k (list_elem_of_further _ _ _ Hk)). unfold in_use in *. simpl.
      assert (k <> id) by (by intros ->). set_solver.
Qed.

(** Closing what the later table has lost. *)
Lemma run_to_below t t' :
  table_wf t -> later t t' -> exists trace, run trace t = Some (below t' (t_next t)).
Proof.
  intros [Hdis Hlt] [Hle Hlater]. exists (Close <$> elements (in_use t ∖ in_use t')).
  rewrite run_close; [|apply NoDup_elements|set_solver]. unfold below. f_equal. f_equal.
  - apply map_eq. intros k. apply option_eq. intros p.
    rewrite !map_lookup_filter_Some. simpl. rewrite elem_of_elements. unfold in_use in *. split.
    + intros [Hk Hin]. assert (k < t_next t) as Hkn by (apply Hlt; apply elem_of_dom_2 in Hk; set_solver).
      destruct (Hlater k Hkn) as [Ho Hv]. destruct (t_objects t' !! k) as [q|] eqn:E.
      * specialize (Ho q eq_refl). by simplify_eq.
      * apply elem_of_dom_2 in Hk. apply not_elem_of_dom in E. set_solver.
    + intros [Hk Hkn]. split; [by apply Hlater|]. apply elem_of_dom_2 in Hk. set_solver.
  - apply set_eq. intros k. rewrite elem_of_difference, elem_of_filter, elem_of_list_to_set,
      elem_of_elements. unfold in_use in *. split.
    + intros [Hk Hin]. assert (k < t_next t) as Hkn by (apply Hlt; set_solver).
      split; [done|]. destruct (decide (k ∈ t_values t')) as [|Hn]; [done|].
      destruct (decide (k ∈ dom (t_objects t'))) as [[q Hq]%elem_of_dom|]; [|set_solver].
      apply (Hlater k Hkn) in Hq. apply elem_of_dom_2 in Hq. set_solver.
    + intros [Hkn Hk]. split; [by apply (Hlater k Hkn)|]. set_solver.
Qed.

(** Opening the identifier [n]. *)
Lemma run_open_at t n :
  table_wf t -> run (open_at t n) (below t n) = Some (below t (n + 1)).
Proof.
  intros [Hdis _]. unfold open_at, below. destruct (t_objects t !! n) as [p|] eqn:E; simpl.
  - f_equal. f_equal.
    + apply map_eq. intros k. apply option_eq. intros q.
      rewrite lookup_insert_Some, !map_lookup_filter_Some. simpl.
      destruct (decide (n = k)) as [<-|]; naive_solver lia.
    + apply elem_of_dom_2 in E. apply set_eq. intros k. rewrite !elem_of_filter.
      destruct (decide (k = n)) as [->|]; [set_solver|]. naive_solver lia.
  - assert (filter (fun kv => kv.1 < n) (t_objects t) =
      filter (fun kv => kv.1 < n + 1) (t_objects t)) as Ho.
    { apply map_eq. intros k. apply option_eq. intros q. rewrite !map_lookup_filter_Some. simpl.
      destruct (decide (k = n)) as [->|]; [naive_solver|]. naive_solver lia. }
    case_bool_decide as Hn; simpl.
    + rewrite Ho. f_equal. f_equal. apply set_eq. intros k.
      rewrite elem_of_union, elem_of_singleton, !elem_of_filter.
      destruct (decide (k = n)) as [->|]; naive_solver lia.
    + rewrite bool_decide_eq_true_2 by (unfold in_use; simpl; set_solver). rewrite Ho. f_equal. f_equal.
      * apply delete_id. apply map_lookup_filter_None. naive_solver.
      * apply set_eq. intros k.
        rewrite elem_of_difference, elem_of_union, elem_of_singleton, !elem_of_filter.
        destruct (decide (k = n)) as [->|]; naive_solver lia.
Qed.

Lemma run_up_to t n (d : nat) :
  table_wf t -> exists trace, run trace (below t n) = Some (below t (n + Z.of_nat d)).
Proof.
  intros Hwf. induction d as [|d [trace IH]]; [exists []; simpl; by rewrite Z.add_0_r|].
  exists (trace ++ open_at t (n + Z.of_nat d)). rewrite (run_app _ _ _ _ IH), run_open_at by done.
  do 2 f_equal. lia.
Qed.

Lemma below_all t : table_wf t -> below t (t_next t) = t.
Proof.
  intros [_ Hlt]. destruct t as [o v n]. unfold below, in_use in *. simpl in *. f_equal.
  - apply map_filter_id. intros k p Hk%elem_of_dom_2. apply Hlt. set_solver.
  - apply set_eq. intros k. rewrite elem_of_filter. split; [by intros []|].
    intros Hk. split; [apply Hlt; set_solver|done].
Qed.

(** Every later table is reached by closing and opening identifiers. *)
Lemma run_later t t' :
  table_wf t -> table_wf t' -> later t t' -> exists trace, run trace t = Some t'.
Proof.
  intros Hwf Hwf' Hl. destruct (run_to_below t t' Hwf Hl) as [tr1 H1].
  destruct (run_up_to t' (t_next t) (Z.to_nat (t_next t' - t_next t)) Hwf') as [tr2 H2].
  exists (tr1 ++ tr2). rewrite (run_app _ _ _ _ H1), H2. destruct Hl as [Hn _].
  replace (t_next t + _) with (t_next t') by lia. by rewrite below_all.
Qed.

(** ** The bridge *)

Section Refinement.
Context {T : QtTypes} {QB : QtLib} {QW : QtWorld} {CT : CxxTraits} {GN : GeneratedNames} {G : Generated} {BF : BuildFlags}.
Context {LB : QtLibLaws QB} {QL : QtLaws QW} {GL : GeneratedLaws QL G}.

Lemma table_of_wf s : bridge_ok s -> table_wf (table_of s).
Proof.
  intros [Hok _]. split; unfold in_use; simpl.
  - intros id [p Hp]%elem_of_dom [v Hv]%elem_of_dom. pose proof (ok_disjoint _ Hok id p Hp). congruence.
  - intros id [[p Hp]%elem_of_dom|[v Hv]%elem_of_dom]%elem_of_union.
    + apply (ok_objects _ Hok id p Hp).
    + apply (ok_values _ Hok id v Hv).
Qed.

Lemma steps_later s s' : bridge_ok s -> rtc step s s' -> later (table_of s) (table_of s').
Proof.
  intros Hs H. destruct (steps_since s s' Hs H) as [Hn Hid]. split; [done|]. simpl. intros id Hlt.
  destruct (Hid id Hlt) as [Ho Hv]. split; [done|]. by rewrite !elem_of_dom.
Qed.

(** C5: the bridge implements the abstract table of handles. Whatever requests
    are sent, from whatever threads, what they do to the identifiers of the bridge
    is a run of the abstract table: identifiers are opened in order, each at most
    once, for one object or one value, and an identifier in use is closed; nothing
    else ever happens to one. *)
Theorem session_refines_handle_table s s' :
  bridge_ok s -> rtc step s s' ->
  exists trace, run trace (table_of s) = Some (table_of s') /\
    NoDup (opened trace (next_object_id (st_bridge s))).
Proof.
  intros Hs H. destruct (run_later (table_of s) (table_of s')) as [trace Ht].
  - by apply table_of_wf.
  - by eapply table_of_wf, steps_keep.
  - by apply steps_later.
  - exists trace. split; [done|apply NoDup_opened].
Qed.

End Refinement.

(** ** Witnesses *)

Lemma session_refines_handle_table_witness :
  table_of toy_initial = empty_table /\ t_objects (table_of toy_one) = {[1 := 1%positive]} /\
  exists trace, run trace empty_table = Some (table_of toy_one) /\ NoDup (opened trace 1).
Proof.
  split; [reflexivity|split; [vm_compute; reflexivity|]].
  apply (session_refines_handle_table toy_initial toy_one); [apply toy_initial_ok|apply toy_one_reached].
Defined.
