(* ===== verification/Handles.v ===== *)
(** The handle tables: parsing handles, looking objects up, registering them,
    and the object tree. *)
From S2P Require Export Sessions.

Section Handles.
Context {T : QtTypes} {QB : QtLib} {QW : QtWorld}.

Lemma parseObjectId_Ok v z :
  parseObjectId v = Ok z <->
  exists x, v = JDouble x /\ int_in_range 1 maximum_exact x = true /\ trunc_Z x = z.
Proof.
  unfold parseObjectId. destruct v as [| | |x| | |]; try (split; [done|by intros (? & ? & _)]).
  destruct (int_in_range 1 maximum_exact x) eqn:E; simpl; split.
  - intros [= <-]. by exists x.
  - by intros (? & [= <-] & _ & <-).
  - done.
  - intros (? & [= <-] & H & _). by rewrite H in E.
Qed.

(** A handle in a request is accepted exactly when it is a JSON number with
    an integral value between 1 and 2^53 - 1, and then it is that value; NaN,
    infinities, fractions, zero, negative and larger numbers and every other JSON
    value are rejected. *)
Theorem parseObjectId_spec v z :
  (forall x, v = JDouble x -> valid_double x = true) ->
  parseObjectId v = Ok z <->
  exists x, v = JDouble x /\ integral_value x = Some z /\ 1 <= z <= 2 ^ 53 - 1.
Proof.
  intros Hv. rewrite parseObjectId_Ok. split.
  - intros (x & -> & Hx & <-). apply int_in_range_spec in Hx as (z & Hz & Hr); [|by apply Hv|done|done].
    exists x. rewrite (trunc_integral x z) by done. done.
  - intros (x & -> & Hz & Hr). exists x. split_and!; [done| |by apply trunc_integral].
    apply int_in_range_spec; [by apply Hv|done|done|]. by exists z.
Qed.

Section Laws.
Context {QL : QtLaws QW}.

Lemma registerObject_known s id p :
  tables_ok s -> objectForId s id = Some p -> registerObject (Some p) s = (Done id, s).
Proof.
  intros Hok H. rewrite registerObject_Some, (idForObject_objectForId s id p Hok H).
  destruct (Z.eqb_spec id 0) as [->|]; [|done].
  apply objectForId_Some in H as [H _]. pose proof (ok_objects _ Hok _ _ H). lia.
Qed.

(** Registering a live object gives it one stable handle. The handle
    returned is accepted by later lookups (when the counter has not left the range
    of exact numbers), registering the object again returns the same handle and
    changes nothing, the handles of all other objects keep their meaning, and no
    stored value is touched. *)
Theorem registerObject_spec s p :
  tables_ok s -> w_alive (st_world s) p = true -> w_born (st_world s) p ->
  exists id s', registerObject (Some p) s = (Done id, s') /\
    objectForId s' id = Some p /\
    (id <= maximum_exact -> parseObjectId (num id) = Ok id) /\
    registerObject (Some p) s' = (Done id, s') /\
    (forall i q, objectForId s i = Some q -> objectForId s' i = Some q) /\
    values (st_bridge s') = values (st_bridge s) /\ st_world s' = st_world s.
Proof.
  intros Hok Ha Hb. rewrite registerObject_Some.
  assert (forall id, 1 <= id -> id <= maximum_exact -> parseObjectId (num id) = Ok id) as Hparse.
  { intros id H1 H2. unfold maximum_exact in *. apply parseObjectId_Ok. exists (double_of_Z id).
    split; [done|]. rewrite int_in_range_of_Z, trunc_of_Z by (unfold maximum_exact in *; lia).
    split; [|done]. apply andb_true_iff. split; apply Z.leb_le; unfold maximum_exact; lia. }
  destruct (Z.eqb_spec (idForObject s (Some p)) 0) as [H0|H0]; simpl.
  - rewrite (next_id_free s Hok).
    set (s' := State _ _ _ (st_world s)).
    assert (tables_ok s') as Hok'.
    { subst s'. destruct s as [b w]. simpl in *.
      destruct (live_emplace_object
        (Past _ (next_object_id b) (objects b) (dom (values b)) 0 ∅ ∅ (fun _ => None))
        (set_application true (set_application_thread (Some 0) b)) w p) as [[] _]; [|done|..].
      - split_and!; [destruct Hok; by split| |done|done].
        split; simpl; [lia|done| |done..]. intros id v _ Hv. apply elem_of_dom. eauto.
      - intros _. simpl. by apply (idForObject_None (State _ _ b w)).
      - by split. }
    exists (next_object_id (st_bridge s)), s'.
    assert (objectForId s' (next_object_id (st_bridge s)) = Some p) as Hf.
    { apply objectForId_Some. split; [|done]. simpl. apply lookup_insert_eq. }
    split_and!; [done|done|..|done|done].
    + apply Hparse. apply Hok.
    + exact (registerObject_known _ _ _ Hok' Hf).
    + intros i q [Hi Hq]%objectForId_Some. apply objectForId_Some. split; [|done]. simpl.
      rewrite lookup_insert_ne; [done|]. intros <-. by rewrite next_id_free in Hi.
  - exists (idForObject s (Some p)), s. split_and!; try done.
    + by apply idForObject_found.
    + apply Hparse. apply idForObject_found, objectForId_Some in H0 as [H0 _].
      apply (ok_objects _ Hok) in H0. lia.
    + exact (registerObject_known _ _ _ Hok (idForObject_found s p H0)).
Qed.

(** [isDescendantOf] decides the strict descendant relation of the object
    tree: it terminates on every tree and is true exactly when the ancestor is
    reached by following parents one or more times. *)
Theorem isDescendantOf_spec w c a : isDescendantOf w (Some c) a = true <-> tc (w_below w) c a.
Proof.
  split; [apply ancestor_walk_sound|]. intros H. by apply ancestor_walk_complete.
Qed.

End Laws.

(** An object argument of a call is accepted exactly when the element at
    that index exists, is a JSON object, its object_id is a valid handle, and the
    handle names a live object; otherwise the call fails with a message and
    nothing is dereferenced. *)
Theorem objectArgument_spec s arguments index :
  match objectArgument s arguments index with
  | Ok p =>
      0 <= index < Z.of_nat (length arguments) /\
      exists o id, arguments !! Z.to_nat index = Some (JObject o) /\
        parseObjectId (obj_value "object_id" o) = Ok id /\
        objects (st_bridge s) !! id = Some p /\ w_alive (st_world s) p = true
  | Err e => e <> estr
  end.
Proof.
  unfold objectArgument, arr_at, arr_size. cbv zeta.
  destruct (Z.ltb_spec index 0); [done|]. destruct (Z.leb_spec (Z.of_nat (length arguments)) index); [done|].
  simpl. destruct (arguments !! Z.to_nat index) as [j|] eqn:Hj; [|done]. simpl.
  destruct j as [| | | | | |o]; simpl; try done.
  destruct (parseObjectId _) as [id|e] eqn:Hp.
  - destruct (objectForId s id) as [p|] eqn:Ho; [|done].
    apply objectForId_Some in Ho as [Ho Ha]. split; [lia|]. by exists o, id.
  - unfold parseObjectId in Hp. repeat case_match; by simplify_eq.
Qed.

End Handles.

(** ** Witnesses *)

Lemma parseObjectId_spec_witness :
  parseObjectId (num 9007199254740991) = Ok 9007199254740991 <->
  exists x, num 9007199254740991 = JDouble x /\ integral_value x = Some 9007199254740991 /\
    1 <= 9007199254740991 <= 2 ^ 53 - 1.
Proof.
  apply (parseObjectId_spec (num 9007199254740991)).
  intros x [= <-]. vm_compute. reflexivity.
Defined.

Lemma registerObject_spec_witness :
  exists id s', registerObject (Some 2%positive) toy_running = (Done id, s') /\
    objectForId s' id = Some 2%positive.
Proof.
  destruct (registerObject_spec toy_running 2%positive (proj1 toy_running_ok))
    as (id & s' & H1 & H2 & _); [vm_compute; reflexivity|vm_compute; reflexivity|].
  exists id, s'. split; [exact H1|exact H2].
Defined.
