(* ===== verification/Lifecycle.v ===== *)
(** The life of objects and subscriptions: what [new], [connect], [delete] and
    [shutdown] leave behind. *)
From S2P Require Export Handles.

(** * Definitions *)

(** The request is on the application's thread while the application runs. *)
Definition admitted `{QtWorld} (current : thread) (s : state) : Prop :=
  application (st_bridge s) = true /\ application_thread (st_bridge s) = Some current /\
  w_core_application (st_world s) = true.

(** The objects that a deletion of [o] closes the handles of. *)
Definition closed_by `{QtWorld} (w : world) (o p : ptr) : Prop :=
  w_alive w p = false \/ p = o \/ tc (w_below w) p o.

(** What [connect] does on a live handle. *)
Definition connects `{QtLib} `{QtWorld} (request : jmembers) (s : state) (id : Z) (r : outcome json * state) : Prop :=
  match r with
  | (Done j, s') =>
      ((exists m, j = failure m) /\ st_bridge s' = st_bridge s) \/
      (j = success JNull /\ exists spy,
         w_spy_valid (st_world s') spy = true /\
         st_bridge s' = set_subscriptions
           (<[id := default [] (subscriptions (st_bridge s) !! id) ++
              [Subscription id (q_normalized_signature (to_string (obj_value "signal" request))) spy]]>
              (subscriptions (st_bridge s))) (st_bridge s))
  | (Threw _, s') => st_bridge s' = st_bridge s
  | (Crashed _, _) => False
  end.

Section Lifecycle.
Context {T : QtTypes} {QB : QtLib} {QW : QtWorld} {CT : CxxTraits} {GN : GeneratedNames} {G : Generated} {BF : BuildFlags}.
Context {LB : QtLibLaws QB} {QL : QtLaws QW} {GL : GeneratedLaws QL G}.

(** An operation on an object handle, past the guards. *)
Lemma handleRequest_object current request s op id o :
  admitted current s -> op_name request = op ->
  op ∈ ["get"; "set"; "call"; "connect"; "delete"]%string ->
  parseObjectId (obj_value "object_id" request) = Ok id -> objectForId s id = Some o ->
  handleRequest current request s = op_object op request s.
Proof.
  intros (Ha & Ht & Hc) Hop Hin Hid Ho. rewrite !elem_of_cons, elem_of_nil in Hin.
  assert (op <> estr /\ ~ op ∈ static_operations /\ op <> "application"%string /\
    op <> "shutdown"%string) as (H1 & H2 & H3 & H4).
  { unfold static_operations. rewrite !elem_of_cons, elem_of_nil.
    clear -Hin.
    destruct_or! Hin; rewrite Hin; split_and!; intros ?; destruct_or?; done. }
  subst op. rewrite handleRequest_guarded by done.
  rewrite Ha, Hc, Ht, bool_decide_eq_true_2 by done. simpl. unfold op_running.
  destruct_or! Hin; by rewrite Hin.
Qed.

Lemma foldl_delete_lookup {A} (l : list Z) (m : gmap Z A) i :
  foldl (fun m id => delete id m) m l !! i = if bool_decide (i ∈ l) then None else m !! i.
Proof.
  revert m. induction l as [|id l IH]; intros m; simpl; [done|]. rewrite IH.
  destruct (decide (i ∈ l)) as [Hin|Hin].
  - rewrite !bool_decide_eq_true_2; [done|set_solver|done].
  - rewrite (bool_decide_eq_false_2 (i ∈ l)) by done. destruct (decide (i = id)) as [->|Hne].
    + rewrite bool_decide_eq_true_2 by set_solver. apply lookup_delete_eq.
    + rewrite bool_decide_eq_false_2 by set_solver. by apply lookup_delete_ne.
Qed.

Lemma elem_of_invalidated s o i :
  i ∈ invalidated s o <->
  exists p, objects (st_bridge s) !! i = Some p /\ closed_by (st_world s) o p.
Proof.
  unfold invalidated, closed_by. rewrite list_elem_of_fmap. split.
  - intros ([i' p] & -> & [Hc Hin]%list_elem_of_filter). apply elem_of_map_entries in Hin.
    exists p. split; [done|]. simpl in Hc. unfold guarded in Hc.
    destruct (w_alive (st_world s) p); [|by left]. right.
    apply orb_true_iff in Hc as [Hc|Hc]; [left; by apply bool_decide_eq_true in Hc|right].
    by apply ancestor_walk_sound in Hc.
  - intros (p & Hp & Hc). exists (i, p). split; [done|]. apply list_elem_of_filter.
    split; [|by apply elem_of_map_entries]. unfold guarded.
    destruct (w_alive (st_world s) p) eqn:Ha; [|done]. apply orb_true_iff.
    destruct Hc as [?|[->|Hc]]; [done|left; by apply bool_decide_eq_true_2|right].
    by apply ancestor_walk_complete.
Qed.

(** C11: deleting an object. [delete] on a live handle always succeeds; it
    closes exactly the handles, and the subscriptions, of the object itself, of its
    registered descendants and of objects that had already been destroyed, and no
    other; the object and all its descendants are dead afterwards; stored values
    are not touched. *)
Theorem delete_spec current request s id o :
  bridge_ok s -> admitted current s -> op_name request = "delete"%string ->
  parseObjectId (obj_value "object_id" request) = Ok id -> objectForId s id = Some o ->
  exists s', handleRequest current request s = (Done (success JNull), s') /\
    w_alive (st_world s') o = false /\
    (forall p, tc (w_below (st_world s)) p o -> w_alive (st_world s') p = false) /\
    (forall i p, objects (st_bridge s) !! i = Some p ->
       (closed_by (st_world s) o p -> objects (st_bridge s') !! i = None /\
          subscriptions (st_bridge s') !! i = None) /\
       (~ closed_by (st_world s) o p -> objects (st_bridge s') !! i = Some p /\
          subscriptions (st_bridge s') !! i = subscriptions (st_bridge s) !! i)) /\
    objectForId s' id = None /\ values (st_bridge s') = values (st_bridge s).
Proof.
  intros Hs Had Hop Hid Ho. rewrite (handleRequest_object current request s "delete" id o) by set_solver.
  unfold op_object, bind at 1, get_state. rewrite Hid, Ho. simpl.
  pose proof Ho as [Hoid Ha]%objectForId_Some.
  unfold op_delete, bind at 1. rewrite erase_handles_spec.
  unfold bind, qt_delete, bind, get_state. simpl. rewrite Ha. simpl.
  assert (forall {A} (m : gmap Z A) i, i ∈ invalidated s o ->
    foldl (fun m id => delete id m) m (invalidated s o) !! i = None) as Hgone.
  { intros A m i Hi. by rewrite foldl_delete_lookup, bool_decide_eq_true_2. }
  eexists. split; [done|]. simpl. split_and!.
  - apply law_delete_self.
  - intros p Hp. by apply law_delete_descendant.
  - intros i p Hp. split; intros Hc.
    + split; apply Hgone, elem_of_invalidated; eauto.
    + assert (i ∉ invalidated s o) as Hn.
      { intros (q & Hq & Hcq)%elem_of_invalidated. by simplify_eq. }
      by rewrite !foldl_delete_lookup, bool_decide_eq_false_2.
  - unfold objectForId. simpl. rewrite Hgone; [done|]. apply elem_of_invalidated.
    exists o. split; [done|]. right. by left.
  - done.
Qed.

(** C12: shutting the application down. On its thread, [shutdown] always
    succeeds and destroys every registered object, in particular each one at most
    once; afterwards there is no application, no object, no value and no
    subscription, and the counter of identifiers is not reset. *)
Theorem shutdown_spec current request s :
  bridge_ok s -> op_name request = "shutdown"%string ->
  application (st_bridge s) = true -> application_thread (st_bridge s) = Some current ->
  exists s', handleRequest current request s = (Done (success JNull), s') /\
    idle s' /\ application (st_bridge s') = false /\
    next_object_id (st_bridge s') = next_object_id (st_bridge s) /\
    forall id p, objects (st_bridge s) !! id = Some p -> w_alive (st_world s') p = false.
Proof.
  intros Hs Hop Ha Ht. unfold op_name in Hop. unfold handleRequest. rewrite Hop. simpl.
  destruct (op_shutdown_spec current s Ha Ht) as (w' & -> & Hdead).
  eexists. split; [done|]. split_and!; try done. simpl. intros id p Hp.
  apply (Hdead id p Hp). exact (ok_born _ (proj1 Hs) id p Hp).
Qed.

(** C21: creating an object. When [new] succeeds, the response carries an
    identifier that was never given out before; it names exactly one object, which
    has no other handle. When it fails, the response is an error message. *)
Theorem new_spec current request s :
  bridge_ok s -> admitted current s -> op_name request = "new"%string ->
  match handleRequest current request s with
  | (Done j, s') =>
      (exists m, j = failure m) \/
      exists id o c, j = success (make_object [("object_id"%string, num id); ("class"%string, JString c)]) /\
        next_object_id (st_bridge s) <= id < next_object_id (st_bridge s') /\
        objects (st_bridge s') !! id = Some o /\
        (forall i, objects (st_bridge s') !! i = Some o -> i = id)
  | (Threw _, s') => bridge_ok s'
  | (Crashed u, _) => u = DanglingVariant
  end.
Proof.
  intros [Hok _] (Ha & Ht & Hc) Hop. rewrite handleRequest_guarded; rewrite ?Hop; [|set_solver..].
  rewrite Ha, Hc, Ht, bool_decide_eq_true_2 by done. simpl.
  change (op_running "new" request s) with (op_new request s).
  pose proof (live_past s current Hok Ha Ht) as Hl. set (g := past_of s current) in *.
  change (next_object_id (st_bridge s)) with (past_next g). clearbody g.
  assert (hoare (live g) (live g) (op_new request) (fun j s' =>
    (exists m, j = failure m) \/
      exists id o c, j = success (make_object [("object_id"%string, num id); ("class"%string, JString c)]) /\
        past_next g <= id < next_object_id (st_bridge s') /\
        objects (st_bridge s') !! id = Some o /\
        (forall i, objects (st_bridge s') !! i = Some o -> i = id))) as H.
  { unfold op_new. cbv zeta. destruct (_ || _); [intros st _; left; by eexists|].
    apply hoare_with_state. intros s0 Hs0.
    destruct (parse_parent _ _) as [parent|]; [|intros st _; left; by eexists].
    destruct (_ && _); [intros st _; left; by eexists|].
    eapply hoare_bind; [eapply hoare_weaken;
      [apply createObject_makes|by intros st ->|intros a st Hq; exact Hq]|].
    intros [[o|] e]; simpl; [|intros st _; left; by eexists].
    eapply (hoare_bind _ _ _ _ (fun _ st => live g st /\ unregistered o st)).
    { intros st [Hls Hu]. unfold parent_of, bind, get_state. simpl. auto. }
    intros cur. eapply (hoare_bind _ _ _ _ (fun _ st => live g st /\ unregistered o st)).
    { destruct parent as [p|]; [|by intros st]. destruct (is_null_ptr cur); [|by intros st].
      apply hoare_call_frame. }
    intros [] [b w] [(Hok' & [Hn _ _] & _) [Hb Hu]]. simpl in *.
    unfold fresh_id, emplace_object, bind, get_state, update_bridge, ret, succeed_with. simpl.
    pose proof (next_id_free _ Hok') as Hf. simpl in Hf. rewrite Hf. simpl. right.
    exists (next_object_id b), o. eexists. split_and!; [done|done|simpl; lia|..].
    - apply lookup_insert_eq.
    - intros i [[? _]|[_ Hi]]%lookup_insert_Some; [done|]. by destruct (Hu i). }
  specialize (H s Hl). destruct (op_new request s) as [[j|what|u] s']; [done| |done].
  by eapply live_bridge_ok.
Qed.

Lemma op_connect_connects s id o request : connects request s id (op_connect s id o request s).
Proof.
  unfold connects, op_connect. cbv zeta.
  destruct (_ || _); [left; split; [by eexists|done]|].
  destruct (q_index_of_signal _ _) as [signal|]; [|left; split; [by eexists|done]].
  unfold bind, get_state, call, push_subscription, update_bridge.
  destruct (w_native _ _) as [[spy|what] w']; simpl; [|done].
  destruct (w_spy_valid w' spy) eqn:Hv; simpl; [|left; split; [by eexists|done]].
  right. split; [done|]. by exists spy.
Qed.

(** C22: subscribing to a signal. When [connect] on a live handle succeeds,
    exactly one subscription is appended to those of that object, carrying its
    identifier, the normalized signature and a new spy; nothing else in the bridge
    changes. When it fails, the bridge is unchanged. *)
Theorem connect_spec current request s id o :
  admitted current s -> op_name request = "connect"%string ->
  parseObjectId (obj_value "object_id" request) = Ok id -> objectForId s id = Some o ->
  match handleRequest current request s with
  | (Done j, s') =>
      ((exists m, j = failure m) /\ st_bridge s' = st_bridge s) \/
      (j = success JNull /\ exists spy,
         w_spy_valid (st_world s') spy = true /\
         st_bridge s' = set_subscriptions
           (<[id := default [] (subscriptions (st_bridge s) !! id) ++
              [Subscription id (q_normalized_signature (to_string (obj_value "signal" request))) spy]]>
              (subscriptions (st_bridge s))) (st_bridge s))
  | (Threw _, s') => st_bridge s' = st_bridge s
  | (Crashed _, _) => False
  end.
Proof.
  intros Had Hop Hid Ho. rewrite (handleRequest_object current request s "connect" id o) by set_solver.
  unfold op_object, bind at 1, get_state. rewrite Hid, Ho. simpl. apply op_connect_connects.
Qed.

End Lifecycle.

(** ** Witnesses *)

Lemma toy_admitted : admitted 7 toy_running.
Proof. split_and!; vm_compute; reflexivity. Qed.

Lemma delete_spec_witness :
  admitted 7 toy_running /\ exists s', handleRequest 7 toy_delete_request toy_running = (Done (success JNull), s') /\ objectForId s' 2 = None.
Proof.
  split; [exact toy_admitted|].
  destruct (delete_spec 7 toy_delete_request toy_running 2 2%positive toy_running_ok toy_admitted)
    as (s' & H & _ & _ & _ & Hid & _); [vm_compute; reflexivity..|].
  exists s'. split; [exact H|exact Hid].
Defined.

Lemma shutdown_spec_witness :
  exists s', handleRequest 7 toy_shutdown_request toy_running = (Done (success JNull), s') /\ idle s' /\ next_object_id (st_bridge s') = next_object_id (st_bridge toy_running).
Proof.
  destruct (shutdown_spec 7 toy_shutdown_request toy_running toy_running_ok)
    as (s' & H & Hi & _ & Hn & _); [vm_compute; reflexivity..|].
  exists s'. split; [exact H|split; [exact Hi|exact Hn]].
Defined.

Lemma new_spec_witness :
  match handleRequest 7 toy_new_request toy_running with
  | (Done j, s') =>
      (exists m, j = failure m) \/
      exists id o c, j = success (make_object [("object_id"%string, num id); ("class"%string, JString c)]) /\
        next_object_id (st_bridge toy_running) <= id < next_object_id (st_bridge s') /\
        objects (st_bridge s') !! id = Some o /\
        (forall i, objects (st_bridge s') !! i = Some o -> i = id)
  | (Threw _, s') => bridge_ok s'
  | (Crashed u, _) => u = DanglingVariant
  end.
Proof.
  apply (new_spec 7 toy_new_request toy_running toy_running_ok toy_admitted).
  vm_compute. reflexivity.
Defined.

Lemma connect_spec_witness :
  match handleRequest 7 toy_connect_request toy_running with
  | (Done j, s') =>
      ((exists m, j = failure m) /\ st_bridge s' = st_bridge toy_running) \/
      (j = success JNull /\ exists spy,
         w_spy_valid (st_world s') spy = true /\
         st_bridge s' = set_subscriptions
           (<[3 := default [] (subscriptions (st_bridge toy_running) !! 3) ++
              [Subscription 3 (q_normalized_signature (to_string (obj_value "signal" toy_connect_request))) spy]]>
              (subscriptions (st_bridge toy_running))) (st_bridge toy_running))
  | (Threw _, s') => st_bridge s' = st_bridge toy_running
  | (Crashed _, _) => False
  end.
Proof.
  apply (connect_spec 7 toy_connect_request toy_running 3 3%positive toy_admitted);
    vm_compute; reflexivity.
Defined.
