(* ===== verification/Events.v ===== *)
(** The signal queues: what [events] delivers, in which order, and what it
    leaves behind. *)
From S2P Require Export Stores Lifecycle.

(** * Definitions *)

(** One event taken from a queue: its subscription and the signal's arguments. *)
Abbreviation taken := (subscription * list qvariant)%type (only parsing).

Section Log.
Context {T : QtTypes} {QB : QtLib} {QW : QtWorld} {CT : CxxTraits} {GN : GeneratedNames} {G : Generated}.

(** [j] reports the event [e]. *)
Definition event_of (e : taken) (j : json) : Prop :=
  exists args st st', toJson_list e.2 st = (Done args, st') /\ j = event_json e.1 args.

(** What a log of taken events takes from one spy, in order. *)
Definition from_spy (spy : positive) (log : list taken) : list (list qvariant) :=
  (filter (fun e => sub_spy e.1 = spy) log).*2.

(** From [s] to [s'] exactly the events of [log] were taken, in order, each
    from the front of its queue. *)
Record drained (s : state) (log : list taken) (s' : state) : Prop := Drained {
  dr_queues : forall spy, w_spy_queue (st_world s) spy =
    from_spy spy log ++ w_spy_queue (st_world s') spy;
  dr_alive : forall p, w_alive (st_world s') p = w_alive (st_world s) p;
  dr_valid : forall spy, w_spy_valid (st_world s') spy = w_spy_valid (st_world s) spy;
  dr_objects : objects (st_bridge s') = objects (st_bridge s);
  dr_subscriptions : forall id,
    subscriptions (st_bridge s') !! id = subscriptions (st_bridge s) !! id \/
    (objectForId s id = None /\ subscriptions (st_bridge s') !! id = None);
  dr_application : application (st_bridge s') = application (st_bridge s);
  dr_thread : application_thread (st_bridge s') = application_thread (st_bridge s);
  dr_core : w_core_application (st_world s') = w_core_application (st_world s);
}.

(** The state once the event loop has run. *)
Definition after_event_loop (wait : Z) (s : state) : state :=
  State _ _ (st_bridge s)
    (w_native (if 0 <? wait then EventLoopWait wait else ProcessEvents) (st_world s)).2.

(** Nothing of the groups [groups] is left to deliver. *)
Definition exhausted (groups : list (Z * list subscription)) (s s' : state) : Prop :=
  forall id subs, (id, subs) ∈ groups ->
    match objectForId s id with
    | None => subscriptions (st_bridge s') !! id = None
    | Some _ => forall sub, sub ∈ subs -> w_spy_valid (st_world s) (sub_spy sub) = true ->
                  w_spy_queue (st_world s') (sub_spy sub) = []
    end.

(** What one of the loops guarantees, from [events] on, for at most [maximum]
    events: those it takes belong to the subscriptions [mine], and [complete]
    holds unless it stopped at the maximum. *)
Definition drains (maximum : Z) (mine : subscription -> Prop) (events : list json) (s : state)
    (m : M (list json)) (complete : state -> Prop) : Prop :=
  match m s with
  | (Done events', s') =>
      exists log js, events' = events ++ js /\ Forall2 event_of log js /\ drained s log s' /\
        Forall mine log.*1 /\
        arr_size events' <= maximum /\ (arr_size events' < maximum -> complete s')
  | (Threw _, _) => False
  | (Crashed u, _) => u = DanglingVariant
  end.

(** [sub] is in one of the groups of the bridge. *)
Definition subscribed (b : bridge) (sub : subscription) : Prop :=
  exists id subs, subscriptions b !! id = Some subs /\ sub ∈ subs.

End Log.

Section Events.
Context {T : QtTypes} {QB : QtLib} {QW : QtWorld} {CT : CxxTraits} {GN : GeneratedNames} {G : Generated} {BF : BuildFlags}.
Context {LB : QtLibLaws QB} {QL : QtLaws QW} {GL : GeneratedLaws QL G}.

(** ** Logs *)

Lemma from_spy_app spy l1 l2 : from_spy spy (l1 ++ l2) = from_spy spy l1 ++ from_spy spy l2.
Proof. unfold from_spy. by rewrite filter_app, fmap_app. Qed.

Lemma drained_refl s : drained s [] s.
Proof. split; auto. Qed.

Lemma objectForId_same s s' :
  objects (st_bridge s') = objects (st_bridge s) ->
  (forall p, w_alive (st_world s') p = w_alive (st_world s) p) ->
  forall id, objectForId s' id = objectForId s id.
Proof. intros Ho Ha id. unfold objectForId, guarded. rewrite Ho. case_match; [by rewrite Ha|done]. Qed.

Lemma drained_objectForId s log s' id : drained s log s' -> objectForId s' id = objectForId s id.
Proof. intros []. by apply objectForId_same. Qed.

Lemma drained_trans s1 s2 s3 l1 l2 :
  drained s1 l1 s2 -> drained s2 l2 s3 -> drained s1 (l1 ++ l2) s3.
Proof.
  intros H1 H2. pose proof (fun id => drained_objectForId _ _ _ id H1) as Hid.
  destruct H1 as [q1 a1 v1 o1 b1 p1 t1 c1], H2 as [q2 a2 v2 o2 b2 p2 t2 c2]. split; [..|congruence|congruence|congruence].
  - intros spy. by rewrite q1, q2, from_spy_app, app_assoc.
  - intros p. by rewrite a2, a1.
  - intros spy. by rewrite v2, v1.
  - congruence.
  - intros id. specialize (b1 id). specialize (b2 id). rewrite Hid in b2.
    destruct b2 as [->|[]]; [done|by right].
Qed.

Lemma drained_same s s' : same_objects s s' -> drained s [] s'.
Proof. intros [Hw Ho Hb Ha Ht]. split; intros; rewrite ?Hw, ?Hb; auto. Qed.

(** A queue that has been emptied stays empty. *)
Lemma drained_empty s log s' spy : drained s log s' ->
  w_spy_queue (st_world s) spy = [] -> w_spy_queue (st_world s') spy = [].
Proof. intros [q _ _ _ _ _ _ _] He. specialize (q spy). rewrite He in q. by symmetry in q; apply app_eq_nil in q as []. Qed.

Lemma drained_take sub e rest s :
  w_spy_queue (st_world s) (sub_spy sub) = e :: rest ->
  exists s', call (SpyTakeFirst (sub_spy sub)) s = (Done e, s') /\ drained s [(sub, e)] s'.
Proof.
  intros Hq. pose proof (law_take_first (sub_spy sub) (st_world s)) as H. rewrite Hq in H.
  unfold call. destruct (w_native _ _) as [r w'] eqn:Ew. simpl in H.
  destruct H as (-> & Hr & Ho & Ha & Hv & Hc). eexists. split; [done|]. split; simpl; auto.
  intros spy. unfold from_spy. destruct (decide (sub_spy sub = spy)) as [<-|Hne].
  - rewrite filter_cons_True by done. simpl. by rewrite Hq, Hr.
  - rewrite filter_cons_False by done. simpl. by rewrite Ho.
Qed.

(** ** The loops *)

Section Loops.
Variables (maximum : Z) (mine : subscription -> Prop).

Abbreviation drains := (drains maximum mine) (only parsing).

Lemma arr_size_app {A} (l1 l2 : list A) :
  Z.of_nat (length (l1 ++ l2)) = Z.of_nat (length l1) + Z.of_nat (length l2).
Proof. rewrite length_app. lia. Qed.

Lemma drains_ret events s (complete : state -> Prop) :
  arr_size events <= maximum -> (arr_size events < maximum -> complete s) ->
  drains events s (ret events) complete.
Proof.
  intros Hm Hc. exists [], []. rewrite app_nil_r. by split_and!; [|constructor|apply drained_refl|constructor|..].
Qed.

(** Composing two loops. *)
Lemma drains_then events s s1 log js (m : M (list json)) complete :
  drained s log s1 -> Forall2 event_of log js -> Forall mine log.*1 ->
  drains (events ++ js) s1 m complete ->
  match m s1 with
  | (Done events', s') =>
      exists log js, events' = events ++ js /\ Forall2 event_of log js /\ drained s log s' /\
        Forall mine log.*1 /\ arr_size events' <= maximum /\ (arr_size events' < maximum -> complete s')
  | (Threw _, _) => False
  | (Crashed u, _) => u = DanglingVariant
  end.
Proof.
  intros Hd Hj Hp Hm. unfold drains in Hm. destruct (m s1) as [[events'|what|u] s']; [|done..].
  destruct Hm as (log' & js' & -> & Hj' & Hd' & Hp' & Hmax & Hc).
  exists (log ++ log'), (js ++ js'). rewrite app_assoc. split_and!; try done.
  - by apply Forall2_app.
  - by eapply drained_trans.
  - rewrite fmap_app. by apply Forall_app.
Qed.

Lemma drain_spy_drains sub events s :
  mine sub -> arr_size events <= maximum ->
  drains events s (drain_spy (room maximum events) sub events)
    (fun s' => w_spy_queue (st_world s') (sub_spy sub) = []).
Proof.
  intros Hmine. remember (room maximum events) as n eqn:Hn. revert events s Hn.
  induction n as [|n IH]; intros events s Hn Hle; unfold room, arr_size in *.
  { simpl. apply drains_ret; unfold arr_size; lia. }
  unfold drains. simpl. unfold bind at 1, get_state.
  destruct (w_spy_queue (st_world s) (sub_spy sub)) as [|e rest] eqn:Hq.
  { apply (drains_ret events s); done. }
  destruct (drained_take sub e rest s Hq) as (s1 & Hcall & Hd1).
  unfold bind at 1. rewrite Hcall.
  pose proof (only_stores_toJson_list e s1) as Hjs. unfold bind at 1.
  destruct (toJson_list e s1) as [[args|what|u] s2] eqn:Hargs; [|done..].
  pose proof (drained_trans _ _ _ _ _ Hd1 (drained_same _ _ Hjs)) as Hd2.
  apply (drains_then events s s2 [(sub, e)] [event_json sub args] _
    (fun s' => w_spy_queue (st_world s') (sub_spy sub) = [])); [done|..].
  - repeat constructor. by exists args, s1, s2.
  - by repeat constructor.
  - apply IH; rewrite arr_size_app; simpl; lia.
Qed.

Lemma drain_subscriptions_drains l events s :
  Forall mine l -> arr_size events <= maximum ->
  drains events s (drain_subscriptions maximum l events)
    (fun s' => forall sub, sub ∈ l -> w_spy_valid (st_world s) (sub_spy sub) = true ->
       w_spy_queue (st_world s') (sub_spy sub) = []).
Proof.
  intros Hmine. revert events s. induction Hmine as [|sub l Hsub Hmine IH]; intros events s Hle.
  { apply drains_ret; [done|]. intros _ sub Hin. by apply not_elem_of_nil in Hin. }
  unfold drains. simpl. unfold bind at 1, get_state.
  destruct (w_spy_valid (st_world s) (sub_spy sub)) eqn:Hv; simpl.
  2:{ specialize (IH events s Hle). unfold drains in IH.
      destruct (drain_subscriptions maximum l events s) as [[events'|what|u] s']; [|done..].
      destruct IH as (log & js & ? & ? & ? & ? & ? & Hc). exists log, js. split_and!; try done.
      intros Hlt sub' [->|Hin]%elem_of_cons Hv'; [congruence|by apply Hc]. }
  pose proof (drain_spy_drains sub events s Hsub Hle) as Hs. unfold drains in Hs.
  unfold bind. destruct (drain_spy _ sub events s) as [[events1|what|u] s1]; [|done..].
  destruct Hs as (log & js & -> & Hj & Hd & Hp & Hle1 & Hc).
  destruct (Z.leb_spec maximum (arr_size (events ++ js))) as [Hge|Hlt].
  { exists log, js. split_and!; try done. lia. }
  apply (drains_then events s s1 log js (drain_subscriptions maximum l (events ++ js))); [done..|].
  specialize (IH (events ++ js) s1 Hle1). unfold drains in *.
  destruct (drain_subscriptions _ _ _ s1) as [[events'|what|u] s']; [|done..].
  destruct IH as (log' & js' & ? & ? & Hd' & ? & ? & Hc'). exists log', js'. split_and!; try done.
  intros Hlt' sub' [->|Hin]%elem_of_cons Hv'.
  - eapply drained_empty; [done|by apply Hc].
  - apply Hc'; [done..|]. by rewrite (dr_valid _ _ _ Hd).
Qed.

Lemma drained_erase id s :
  objectForId s id = None ->
  drained s [] (State _ _ (set_subscriptions (delete id (subscriptions (st_bridge s))) (st_bridge s))
                  (st_world s)).
Proof.
  intros Hid. split; simpl; auto. intros id'. destruct (decide (id = id')) as [<-|Hne].
  - right. by rewrite lookup_delete_eq.
  - left. by rewrite lookup_delete_ne.
Qed.

Lemma drain_groups_drains groups events s :
  Forall (fun g => Forall mine g.2) groups -> arr_size events <= maximum ->
  drains events s (drain_groups maximum groups events) (exhausted groups s).
Proof.
  intros Hmine. revert events s.
  induction Hmine as [|[id subs] groups Hsubs Hmine IH]; intros events s Hle.
  { apply drains_ret; [done|]. intros _ id subs Hin. by apply not_elem_of_nil in Hin. }
  unfold drains. simpl. unfold bind at 1, get_state.
  destruct (objectForId s id) as [p|] eqn:Hid.
  - pose proof (drain_subscriptions_drains subs events s Hsubs Hle) as Hs. unfold drains in Hs.
    unfold bind. destruct (drain_subscriptions _ _ events s) as [[events1|what|u] s1]; [|done..].
    destruct Hs as (log & js & -> & Hj & Hd & Hp & Hle1 & Hc).
    destruct (Z.leb_spec maximum (arr_size (events ++ js))) as [Hge|Hlt].
    { exists log, js. split_and!; try done. lia. }
    apply (drains_then events s s1 log js (drain_groups maximum groups (events ++ js))); [done..|].
    specialize (IH (events ++ js) s1 Hle1). unfold drains in *.
    destruct (drain_groups _ _ _ s1) as [[events'|what|u] s']; [|done..].
    destruct IH as (log' & js' & ? & ? & Hd' & ? & ? & Hc'). exists log', js'. split_and!; try done.
    intros Hlt' id' subs' [[= -> ->]|Hin]%elem_of_cons.
    + rewrite Hid. intros sub Hin Hv. eapply drained_empty; [done|]. by apply Hc.
    + specialize (Hc' Hlt' id' subs' Hin). rewrite (drained_objectForId _ _ _ id' Hd) in Hc'.
      destruct (objectForId s id'); [|done]. intros sub. rewrite <- (dr_valid _ _ _ Hd). apply Hc'.
  - unfold bind, update_bridge. pose proof (drained_erase id s Hid) as Hd.
    set (s1 := State _ _ _ _) in *.
    pose proof (drains_then events s s1 [] [] (drain_groups maximum groups events)
      (exhausted ((id, subs) :: groups) s) Hd) as H. rewrite app_nil_r in H.
    apply H; [constructor|constructor|]. specialize (IH events s1 Hle). unfold drains in *.
    destruct (drain_groups _ _ _ s1) as [[events'|what|u] s']; [|done..].
    destruct IH as (log & js & ? & ? & Hd' & ? & ? & Hc). exists log, js. split_and!; try done.
    intros Hlt id' subs' [[= -> ->]|Hin]%elem_of_cons; [rewrite Hid|by apply (Hc Hlt id' subs')].
    destruct (dr_subscriptions _ _ _ Hd' id) as [->|[]]; [apply lookup_delete_eq|done].
Qed.

End Loops.

(** ** Requests *)

Lemma handleRequest_running current request s op :
  admitted current s -> op_name request = op ->
  op ∈ ["value_new"; "new"; "events"; "describe"; "value_delete"; "value_call"; "value_get";
        "value_set"; "value_describe"; "call_static"; "connect"; "delete"]%string ->
  handleRequest current request s = op_running op request s.
Proof.
  intros (Ha & Ht & Hc) Hop Hin. rewrite !elem_of_cons, elem_of_nil in Hin.
  assert (op <> estr /\ ~ op ∈ static_operations /\ op <> "application"%string /\
    op <> "shutdown"%string) as (H1 & H2 & H3 & H4).
  { unfold static_operations. rewrite !elem_of_cons, elem_of_nil. clear -Hin.
    destruct_or! Hin; rewrite Hin; split_and!; intros ?; destruct_or?; done. }
  subst op. rewrite handleRequest_guarded by done.
  by rewrite Ha, Hc, Ht, bool_decide_eq_true_2 by done.
Qed.

Lemma event_limits_range request wait maximum :
  event_limits request = Ok (wait, maximum) -> 1 <= maximum <= kMaxEventsPerPoll.
Proof.
  unfold event_limits. cbv zeta. repeat case_match; intros; simplify_eq; try done.
  match goal with H : (_ <? 1) || _ = false |- _ => apply orb_false_iff in H; lia end.
Qed.

(** [events] with limits it accepts. *)
Lemma handleRequest_events current request s wait maximum :
  admitted current s -> op_name request = "events"%string ->
  event_limits request = Ok (wait, maximum) ->
  match handleRequest current request s with
  | (Done j, s') => exists log js, j = success (JArray js) /\
      Forall2 event_of log js /\ drained (after_event_loop wait s) log s' /\
      Forall (subscribed (st_bridge s)) log.*1 /\ arr_size js <= maximum /\
      (arr_size js < maximum ->
         exhausted (map_entries (subscriptions (st_bridge s))) (after_event_loop wait s) s')
  | (Threw what, s') => s' = after_event_loop wait s /\
      (w_native (if 0 <? wait then EventLoopWait wait else ProcessEvents) (st_world s)).1 = Raised what
  | (Crashed u, _) => u = DanglingVariant
  end.
Proof.
  intros Had Hop Hl. rewrite (handleRequest_running current request s "events") by set_solver.
  change (op_running "events" request s) with (op_events request s). unfold op_events. rewrite Hl.
  pose proof (event_limits_range _ _ _ Hl) as Hm. unfold bind at 1, call.
  destruct (w_native _ (st_world s)) as [[[]|what] w'] eqn:Ew;
    [|by unfold after_event_loop; rewrite Ew].
  assert (State _ _ (st_bridge s) w' = after_event_loop wait s) as ->.
  { unfold after_event_loop. by rewrite Ew. }
  unfold bind at 1, get_state. change (st_bridge (after_event_loop wait s)) with (st_bridge s).
  pose proof (drain_groups_drains maximum (subscribed (st_bridge s))
    (map_entries (subscriptions (st_bridge s))) [] (after_event_loop wait s)) as H.
  unfold drains in H. unfold bind.
  assert (Forall (fun g => Forall (subscribed (st_bridge s)) g.2)
    (map_entries (subscriptions (st_bridge s)))) as Hsub.
  { apply Forall_forall. intros [id subs] Hin%elem_of_map_entries. apply Forall_forall.
    intros sub Hs. by exists id, subs. }
  assert (arr_size [] <= maximum) as H0 by (unfold arr_size; simpl; lia).
  specialize (H Hsub H0). destruct (drain_groups _ _ _ _) as [[events|what|u] s']; [|done..].
  destruct H as (log & js & -> & Hj & Hd & Hp & Hle & Hc). by exists log, js.
Qed.

(** C13: polling for signals. [events] either reports what is wrong with its
    limits and does nothing, or runs the event loop once and takes events off the
    queues of the subscriptions: what it returns is the JSON form of exactly the
    events it took, all of them of subscriptions in the table; each queue is
    consumed from its front (what was pending is what was delivered, in order,
    followed by what is still pending), at most [max] <= 1000 events are taken, and
    when fewer are, no event of a live object is left and the subscriptions of
    destroyed objects are gone. No other subscription is lost. If the event loop
    throws, nothing is taken. *)
Theorem events_spec current request s :
  admitted current s -> op_name request = "events"%string ->
  match handleRequest current request s with
  | (Done j, s') =>
      (exists m, event_limits request = Err m /\ j = failure m /\ s' = s) \/
      exists wait maximum log js,
        event_limits request = Ok (wait, maximum) /\ 1 <= maximum <= kMaxEventsPerPoll /\
        j = success (JArray js) /\ arr_size js <= maximum /\ Forall2 event_of log js /\
        drained (after_event_loop wait s) log s' /\
        Forall (subscribed (st_bridge s)) log.*1 /\
        (arr_size js < maximum ->
           exhausted (map_entries (subscriptions (st_bridge s))) (after_event_loop wait s) s')
  | (Threw _, s') => st_bridge s' = st_bridge s
  | (Crashed u, _) => u = DanglingVariant
  end.
Proof.
  intros Had Hop. destruct (event_limits request) as [[wait maximum]|e] eqn:Hl.
  - pose proof (handleRequest_events _ _ _ _ _ Had Hop Hl) as H.
    destruct (handleRequest current request s) as [[j|what|u] s']; [|by destruct H as [-> _]|done].
    right. destruct H as (log & js & H). exists wait, maximum, log, js.
    pose proof (event_limits_range _ _ _ Hl). tauto.
  - rewrite (handleRequest_running current request s "events") by set_solver.
    change (op_running "events" request s) with (op_events request s). unfold op_events. rewrite Hl.
    left. by exists e.
Qed.

(** ** Dangling arguments *)

Lemma find_id_dead w p l : w_alive w p = false -> find_id w (Some p) l = 0.
Proof.
  intros Hp. induction l as [|[id q] l IH]; simpl; [done|].
  rewrite bool_decide_eq_false_2; [done|]. intros [-> Hq]%guarded_Some. congruence.
Qed.

Lemma toJson_dangling v p s :
  v_type v = MT_QObjectPtr "QObject" -> q_object_of v = Some p ->
  w_alive (st_world s) p = false -> toJson v s = (Crashed DanglingVariant, s).
Proof.
  intros Ht Hp Ha. rewrite toJson_eq. unfold v_valid. rewrite Ht. simpl. f_equal.
  unfold toJson_object. rewrite Ht, bool_decide_eq_true_2 by done. rewrite Hp.
  unfold idForObject. rewrite find_id_dead by done. simpl. by rewrite Ha.
Qed.

Lemma drain_spy_dangling maximum sub s v args rest p :
  1 <= maximum -> w_spy_queue (st_world s) (sub_spy sub) = (v :: args) :: rest ->
  v_type v = MT_QObjectPtr "QObject" -> q_object_of v = Some p ->
  w_alive (st_world s) p = false ->
  exists s', drain_spy (room maximum []) sub [] s = (Crashed DanglingVariant, s').
Proof.
  intros Hm Hq Ht Hp Ha. unfold room, arr_size. simpl.
  destruct (Z.to_nat (maximum - Z.of_nat 0)) as [|n] eqn:Hn; [lia|]. simpl.
  unfold bind, get_state. rewrite Hq.
  destruct (drained_take sub (v :: args) rest s Hq) as (s1 & -> & Hd). simpl. unfold bind.
  rewrite (toJson_dangling v p s1 Ht Hp); [by eexists|]. by rewrite (dr_alive _ _ _ Hd).
Qed.

(** C25: a queued signal argument can outlive the object it points to. When
    the first pending event of the first live subscription carries a pointer to an
    object that has been destroyed since the signal was emitted, [events] reads
    through that pointer: the queue keeps the plain pointer, and only the objects
    of the table are guarded. *)
Theorem events_dangling_argument current request s wait maximum id o sub subs groups v args rest p :
  admitted current s -> op_name request = "events"%string ->
  event_limits request = Ok (wait, maximum) ->
  (w_native (if 0 <? wait then EventLoopWait wait else ProcessEvents) (st_world s)).1 = Replied tt ->
  map_entries (subscriptions (st_bridge s)) = (id, sub :: subs) :: groups ->
  objectForId (after_event_loop wait s) id = Some o ->
  w_spy_valid (st_world (after_event_loop wait s)) (sub_spy sub) = true ->
  w_spy_queue (st_world (after_event_loop wait s)) (sub_spy sub) = (v :: args) :: rest ->
  v_type v = MT_QObjectPtr "QObject" -> q_object_of v = Some p ->
  w_alive (st_world (after_event_loop wait s)) p = false -> 1 <= maximum ->
  exists s', handleRequest current request s = (Crashed DanglingVariant, s').
Proof.
  intros Had Hop Hl Hr Hg Hid Hv Hq Ht Hp Ha Hm.
  rewrite (handleRequest_running current request s "events") by set_solver.
  change (op_running "events" request s) with (op_events request s). unfold op_events. rewrite Hl.
  unfold bind at 1, call. revert Hid Hv Hq Ha. unfold after_event_loop.
  destruct (w_native _ (st_world s)) as [r w']. simpl in Hr. rewrite Hr. simpl. intros Hid Hv Hq Ha.
  unfold bind, get_state. simpl. rewrite Hg. simpl. unfold bind, get_state. rewrite Hid.
  simpl. unfold bind, get_state. simpl. rewrite Hv. simpl.
  destruct (drain_spy_dangling maximum sub (State _ _ (st_bridge s) w') v args rest p Hm Hq Ht Hp Ha)
    as [s' ->].
  by eexists.
Qed.

End Events.

(** ** Witnesses *)

Lemma toy_pending_admitted : admitted 7 toy_pending.
Proof. split_and!; vm_compute; reflexivity. Qed.

Lemma toy_dangling_admitted : admitted 7 toy_dangling.
Proof. split_and!; vm_compute; reflexivity. Qed.

Lemma events_spec_witness :
  exists wait maximum log js s',
    handleRequest 7 toy_events_request toy_pending = (Done (success (JArray js)), s') /\
    arr_size js <= maximum /\ drained (after_event_loop wait toy_pending) log s'.
Proof.
  pose proof (events_spec 7 toy_events_request toy_pending toy_pending_admitted) as H.
  destruct (handleRequest 7 toy_events_request toy_pending) as [[j|what|u] s'] eqn:E.
  - destruct H as [(m & Hl & _)|(wait & maximum & log & js & _ & _ & -> & Hle & _ & Hd & _)];
      [vm_compute; reflexivity|vm_compute in Hl; discriminate|].
    exists wait, maximum, log, js, s'. split; [reflexivity|split; [exact Hle|exact Hd]].
  - exfalso. clear H. apply (f_equal fst) in E. vm_compute in E. discriminate.
  - exfalso. clear H. apply (f_equal fst) in E. vm_compute in E. discriminate.
Defined.

Lemma events_dangling_argument_witness :
  exists s', handleRequest 7 toy_events_request toy_dangling = (Crashed DanglingVariant, s').
Proof.
  eapply (events_dangling_argument 7 toy_events_request toy_dangling 0 64 2 2%positive
    (Subscription 2 "destroyed(QObject*)" 1) [] [] (VObject "QObject" (Some 3%positive)) [] []
    3%positive toy_dangling_admitted);
    first [vm_compute; reflexivity | done].
Defined.
