(* ===== verification/Frames.v ===== *)
(** What a request leaves alone: the entries of the tables that it does not
    name. *)
From S2P Require Export Events.

(** * Definitions *)

Section Frames.
Context {T : QtTypes} {QB : QtLib} {QW : QtWorld}.

(** Whether the request must leave the subscriptions under [id] alone. *)
Definition keeps_subscriptions (s : state) (request : jmembers) (id : Z) : bool :=
  negb (bool_decide (op_name request = "events"%string)) &&
  negb (bool_decide (id ∈ handles_closed s (op_name request) request)) &&
  negb (bool_decide (id ∈ connected (op_name request) request)).

(** The tables of [s] without what [request] is about. *)
Definition frame_of (s : state) (t : thread) (request : jmembers) : past :=
  let closed := handles_closed s (op_name request) request in
  {| past_next := next_object_id (st_bridge s); past_objects := objects (st_bridge s);
     past_values := dom (values (st_bridge s)); past_thread := t;
     kept_objects := filter (fun kv => kv.1 ∉ closed) (objects (st_bridge s));
     kept_values := filter (fun kv => value_changed (op_name request) request <> Some kv.1)
                      (values (st_bridge s));
     kept_subscriptions := fun id =>
       if keeps_subscriptions s request id then Some (subscriptions (st_bridge s) !! id) else None |}.

(** The subscriptions under [id] after [request]: as they were, or with one more
    that [connect] made for that handle, or gone because [delete] closed the handle or
    because [events] found the object destroyed. *)
Definition subscriptions_framed (s : state) (request : jmembers) (s' : state) (id : Z) : Prop :=
  let before := subscriptions (st_bridge s) !! id in
  let after := subscriptions (st_bridge s') !! id in
  after = before \/
  (id ∈ connected (op_name request) request /\
     exists sub, sub_object_id sub = id /\ after = Some (default [] before ++ [sub])) \/
  (id ∈ handles_closed s (op_name request) request /\ after = None) \/
  (op_name request = "events"%string /\ objectForId s' id = None /\ after = None).

(** The entries that [request] does not name are in [s'] as they are in [s]. *)
Record framed (s : state) (request : jmembers) (s' : state) : Prop := Framed {
  framed_objects : forall id p, objects (st_bridge s) !! id = Some p ->
    id ∉ handles_closed s (op_name request) request -> objects (st_bridge s') !! id = Some p;
  framed_values : forall id v, values (st_bridge s) !! id = Some v ->
    value_changed (op_name request) request <> Some id -> values (st_bridge s') !! id = Some v;
  framed_subscriptions : forall id, subscriptions_framed s request s' id;
}.

End Frames.

Section Requests.
Context {T : QtTypes} {QB : QtLib} {QW : QtWorld} {CT : CxxTraits} {GN : GeneratedNames} {G : Generated} {BF : BuildFlags}.
Context {LB : QtLibLaws QB} {QL : QtLaws QW} {GL : GeneratedLaws QL G}.

Lemma framed_same s request s' : st_bridge s' = st_bridge s -> framed s request s'.
Proof. intros E. split; rewrite ?E; [done..|]. intros id. left. by rewrite E. Qed.

Lemma frame_of_since s t request : since (frame_of s t request) s.
Proof.
  split; simpl; [lia|done|..].
  - intros id v _ Hv. apply elem_of_dom. eauto.
  - by intros id p [Hp _]%map_lookup_filter_Some.
  - by intros id v [Hv _]%map_lookup_filter_Some.
  - intros id entry. by destruct (keeps_subscriptions _ _ _); intros [= <-].
Qed.

Lemma frame_of_spares s t request : spares (frame_of s t request) s (op_name request) request.
Proof.
  unfold spares, closable, frame_of, keeps_subscriptions. simpl. split_and!.
  - intros id Hid. apply map_lookup_filter_None. right. intros v _. simpl. by intros [].
  - intros id Hid. rewrite (bool_decide_eq_true_2 (id ∈ handles_closed _ _ _)) by done.
    rewrite andb_false_r. split; [|done]. apply map_lookup_filter_None. right. by intros p _ [].
  - intros id Hid. by rewrite (bool_decide_eq_true_2 (id ∈ connected _ _)), andb_false_r.
  - intros Hop id. by rewrite bool_decide_eq_true_2.
Qed.

(** ** Subscriptions *)

(** A request on an object that is not there. *)
Lemma op_object_unknown operation request s :
  (forall id, parseObjectId (obj_value "object_id" request) = Ok id -> objectForId s id = None) ->
  exists e, op_object operation request s = (Done (failure e), s).
Proof.
  intros H. unfold op_object, bind, get_state.
  destruct (parseObjectId _) as [id|e]; [rewrite (H id eq_refl)|]; by eexists.
Qed.

(** The handle a request names, if its object is there. *)
Lemma handle_named s request :
  (exists id o, parseObjectId (obj_value "object_id" request) = Ok id /\ objectForId s id = Some o) \/
  (forall id, parseObjectId (obj_value "object_id" request) = Ok id -> objectForId s id = None).
Proof.
  destruct (parseObjectId _) as [id|e]; [|by right].
  destruct (objectForId s id) as [o|] eqn:Ho; [left; eauto|]. right. by intros ? [= <-].
Qed.

Lemma connect_subscriptions current request s :
  admitted current s -> op_name request = "connect"%string ->
  match handleRequest current request s with
  | (Done _, s') | (Threw _, s') => forall id, subscriptions_framed s request s' id
  | (Crashed u, _) => u = DanglingVariant
  end.
Proof.
  intros Had Hop.
  destruct (handle_named s request) as [(id & o & Hid & Ho)|Hnone].
  2:{ rewrite (handleRequest_running current request s "connect") by set_solver.
      change (op_running "connect" request s) with (op_object "connect" request s).
      destruct (op_object_unknown "connect" request s Hnone) as [e ->]. by left. }
  rewrite (handleRequest_object current request s "connect" id o) by set_solver.
  assert (connects request s id (op_object "connect" request s)) as H.
  { unfold op_object, bind at 1, get_state. rewrite Hid, Ho. apply op_connect_connects. }
  destruct (op_object "connect" request s) as [[j|what|u] s']; [..|done].
  - destruct H as [[_ E]|(_ & spy & _ & E)]; intros i; unfold subscriptions_framed; rewrite E; [by left|].
    simpl. destruct (decide (i = id)) as [->|Hne]; [right; left|left; by rewrite lookup_insert_ne].
    split; [unfold connected; rewrite Hop, Hid; left|].
    eexists (Subscription _ _ _). split; [|by rewrite lookup_insert_eq]. done.
  - intros i. left. by rewrite H.
Qed.

Lemma delete_subscriptions current request s :
  admitted current s -> op_name request = "delete"%string ->
  match handleRequest current request s with
  | (Done _, s') | (Threw _, s') => forall id, subscriptions_framed s request s' id
  | (Crashed u, _) => True
  end.
Proof.
  intros Had Hop.
  destruct (handle_named s request) as [(id & o & Hid & Ho)|Hnone].
  2:{ rewrite (handleRequest_running current request s "delete") by set_solver.
      change (op_running "delete" request s) with (op_object "delete" request s).
      destruct (op_object_unknown "delete" request s Hnone) as [e ->]. by left. }
  rewrite (handleRequest_object current request s "delete" id o) by set_solver.
  unfold op_object, bind at 1, get_state. rewrite Hid, Ho. simpl.
  pose proof Ho as [_ Ha]%objectForId_Some.
  unfold op_delete, bind at 1. rewrite erase_handles_spec.
  unfold bind, qt_delete, bind, get_state. simpl. rewrite Ha. simpl.
  intros i. unfold subscriptions_framed. simpl. rewrite foldl_delete_lookup.
  case_bool_decide as Hi; [|by left]. right. right. left. split; [|done].
  unfold handles_closed. by rewrite Hop, Hid, Ho.
Qed.

Lemma events_subscriptions current request s :
  admitted current s -> op_name request = "events"%string ->
  match handleRequest current request s with
  | (Done _, s') | (Threw _, s') => forall id, subscriptions_framed s request s' id
  | (Crashed u, _) => u = DanglingVariant
  end.
Proof.
  intros Had Hop. destruct (event_limits request) as [[wait maximum]|e] eqn:Hl.
  - pose proof (handleRequest_events _ _ _ _ _ Had Hop Hl) as H.
    destruct (handleRequest current request s) as [[j|what|u] s']; [..|done].
    + destruct H as (log & js & _ & _ & Hd & _). intros id. unfold subscriptions_framed.
      rewrite (drained_objectForId _ _ _ id Hd).
      destruct (dr_subscriptions _ _ _ Hd id) as [E|[E1 E2]]; [by left|]. right. right. by right.
    + destruct H as [-> _]. by left.
  - rewrite (handleRequest_running current request s "events") by set_solver.
    change (op_running "events" request s) with (op_events request s). unfold op_events. rewrite Hl.
    by left.
Qed.

(** ** Requests *)

(** What the invariant says of a request on the tables without what it names. *)
Lemma handleRequest_since current request s :
  bridge_ok s -> admitted current s -> op_name request <> estr ->
  ~ op_name request ∈ static_operations -> op_name request <> "application"%string ->
  op_name request <> "shutdown"%string ->
  match handleRequest current request s with
  | (Done _, s') | (Threw _, s') => since (frame_of s current request) s'
  | (Crashed u, _) => u = DanglingVariant
  end.
Proof.
  intros [Hok _] Had H1 H2 H3 H4. pose proof Had as (Ha & Ht & Hc).
  rewrite handleRequest_guarded, Ha, Hc, Ht, bool_decide_eq_true_2 by done. simpl.
  pose proof (hoare_op_running (op_name request) request s (frame_of s current request)
    (frame_of_spares s current request) s) as H.
  destruct (op_running _ _ s) as [[j|what|u] s']; [..|apply H]; try apply H;
    (split; [done|split_and!; [done|apply frame_of_since|done|done]]).
Qed.

Lemma handleRequest_subscriptions current request s :
  bridge_ok s -> admitted current s -> op_name request <> estr ->
  ~ op_name request ∈ static_operations -> op_name request <> "application"%string ->
  op_name request <> "shutdown"%string ->
  match handleRequest current request s with
  | (Done _, s') | (Threw _, s') => forall id, subscriptions_framed s request s' id
  | (Crashed u, _) => True
  end.
Proof.
  intros Hs Had H1 H2 H3 H4.
  destruct (decide (op_name request = "connect"%string)) as [Hop|Hcon].
  { pose proof (connect_subscriptions current request s Had Hop) as H. by repeat case_match. }
  destruct (decide (op_name request = "delete"%string)) as [Hop|Hdel].
  { by apply delete_subscriptions. }
  destruct (decide (op_name request = "events"%string)) as [Hop|Hev].
  { pose proof (events_subscriptions current request s Had Hop) as H. by repeat case_match. }
  pose proof (handleRequest_since current request s Hs Had H1 H2 H3 H4) as H.
  assert (forall id, keeps_subscriptions s request id = true) as Hk.
  { intros id. unfold keeps_subscriptions, handles_closed, connected.
    by rewrite !(bool_decide_eq_false_2 (op_name request = _)), !bool_decide_eq_false_2
      by (done || apply not_elem_of_nil). }
  destruct (handleRequest current request s) as [[j|what|u] s']; [..|done]; intros id; left;
    (apply (since_kept_subscriptions _ _ H); simpl; by rewrite Hk).
Qed.

Lemma handleRequest_framed current request s :
  bridge_ok s -> op_name request <> "shutdown"%string ->
  match handleRequest current request s with
  | (Done _, s') | (Threw _, s') => framed s request s'
  | (Crashed u, _) => u = DanglingVariant
  end.
Proof.
  intros Hs H4. pose proof (framed_same s request s eq_refl) as Hrefl.
  destruct (decide (op_name request = estr)) as [H1|H1].
  { unfold handleRequest. cbv zeta. fold (op_name request). by rewrite H1. }
  destruct (decide (op_name request ∈ static_operations)) as [H2|H2].
  { by destruct (handleRequest_static current request s H2) as [j ->]. }
  destruct (decide (op_name request = "application"%string)) as [H3|H3].
  { unfold handleRequest. cbv zeta. fold (op_name request). rewrite H3. simpl.
    unfold op_application, bind at 1, get_state. destruct (application (st_bridge s)); [done|].
    unfold bind at 1, call. destruct (w_native CreateApplication (st_world s)) as [[[]|what] w'];
      simpl; (split; [done|done|intros id; by left]). }
  destruct (decide (admitted current s)) as [Had|Hn].
  - pose proof (handleRequest_since current request s Hs Had H1 H2 H3 H4) as Hsince.
    pose proof (handleRequest_subscriptions current request s Hs Had H1 H2 H3 H4) as Hsub.
    destruct (handleRequest current request s) as [[j|what|u] s']; [..|done];
      (split; [| |exact Hsub]; intros id x Hx Hid;
       [apply (since_kept_objects _ _ Hsince)|apply (since_kept_values _ _ Hsince)];
       by apply map_lookup_filter_Some).
  - rewrite handleRequest_guarded by done. unfold admitted in Hn.
    destruct (negb _ || _) eqn:Hrun; [done|]. destruct (negb (bool_decide _)) eqn:Ht; [done|].
    apply orb_false_iff in Hrun as [Ha Hc]. apply negb_false_iff in Ha, Hc, Ht.
    apply bool_decide_eq_true in Ht. by destruct Hn.
Qed.

(** C8: a request touches only what it names. Whatever the request, and whether it
    succeeds, fails or raises: every handle of an object stays open and keeps naming its
    object, unless the request deletes that object, an ancestor of it, or closes a handle
    whose object was already destroyed; every stored value stays as it is, unless it is
    the one the request calls, sets or deletes; and the subscriptions under every
    identifier, registered or not, are exactly as before, except that [connect] may append
    one to those of its own object, [delete] removes those of the handles it closes, and
    [events] removes those whose object is destroyed. Only shutdown is different: it
    leaves all this alone, or empties all tables. *)
Theorem request_frame current request s :
  bridge_ok s ->
  match handleRequest current request s with
  | (Done _, s') | (Threw _, s') =>
      framed s request s' \/ (op_name request = "shutdown"%string /\ idle s')
  | (Crashed u, _) => u = DanglingVariant
  end.
Proof.
  intros Hs. destruct (decide (op_name request = "shutdown"%string)) as [Hop|Hop].
  - unfold handleRequest. cbv zeta. fold (op_name request). rewrite Hop. simpl.
    pose proof (framed_same s request s eq_refl) as Hrefl.
    destruct (application (st_bridge s)) eqn:Ha;
      [destruct (decide (application_thread (st_bridge s) = Some current)) as [Ht|Ht]|].
    + destruct (op_shutdown_spec current s Ha Ht) as (w' & -> & _). by right.
    + unfold op_shutdown, bind at 1, get_state. rewrite Ha, bool_decide_eq_false_2 by done. by left.
    + unfold op_shutdown, bind at 1, get_state. rewrite Ha. by left.
  - pose proof (handleRequest_framed current request s Hs Hop) as H.
    destruct (handleRequest current request s) as [[j|what|u] s']; [by left|by left|done].
Qed.

End Requests.
(** ** Witnesses *)

(** Deleting object 2 and its child 4 leaves 1 and 3 open. *)
Lemma request_frame_witness :
  handles_closed toy_running "delete" toy_delete_request = [2; 4] /\
  exists s', handleRequest 7 toy_delete_request toy_running = (Done (success JNull), s') /\
    objects (st_bridge s') !! 1 = Some 1%positive /\ objects (st_bridge s') !! 3 = Some 3%positive.
Proof.
  split; [vm_compute; reflexivity|].
  pose proof (request_frame 7 toy_delete_request toy_running toy_running_ok) as H.
  destruct (handleRequest 7 toy_delete_request toy_running) as [r s'] eqn:E.
  assert (r = Done (success JNull)) as ->.
  { apply (f_equal fst) in E. change r with (fst (r, s')). rewrite <- E. vm_compute. reflexivity. }
  exists s'. split; [reflexivity|].
  assert (framed toy_running toy_delete_request s') as Hf.
  { destruct H as [H|[H _]]; [exact H|]. vm_compute in H. discriminate H. }
  split; eapply framed_objects; [exact Hf|vm_compute; reflexivity|..|exact Hf|vm_compute; reflexivity|];
    (apply (bool_decide_eq_true_1 _); vm_compute; reflexivity).
Defined.
