(* ===== verification/Roundtrips.v ===== *)
(** Handles that are handed out: they keep naming what they were made for as
    long as no request closes them. *)
From S2P Require Export Frames.

(** * Definitions *)

Section Roundtrips.
Context {T : QtTypes} {QB : QtLib} {QW : QtWorld} {CT : CxxTraits} {GN : GeneratedNames} {G : Generated} {BF : BuildFlags}.

(** One request, on any thread, which returned or raised and was not shutdown,
    and which satisfies [spared] in the state it was received in. *)
Definition sparing_step (spared : state -> jmembers -> Prop) : relation state := fun s s' =>
  exists current request r, handleRequest current request s = (r, s') /\
    op_name request <> "shutdown"%string /\ spared s request /\
    match r with Crashed _ => False | _ => True end.

(** Any number of such requests. *)
Definition sparing (spared : state -> jmembers -> Prop) : relation state := rtc (sparing_step spared).

(** The request does not close the handle of an object. *)
Definition spares_object (id : Z) (s : state) (request : jmembers) : Prop :=
  id ∉ handles_closed s (op_name request) request.

(** The request does not call, set or delete the value. *)
Definition spares_value (id : Z) (s : state) (request : jmembers) : Prop :=
  value_changed (op_name request) request <> Some id.

(** A value whose JSON form is a handle: a gadget, or a value of a type with
    native methods or constructors and no form of its own. *)
Definition sent_as_handle (v : qvariant) : bool :=
  v_valid v && negb (mt_is_qobject_pointer (v_type v)) &&
  match toJson_early v with Some _ => false | None => true end &&
  (is_gadget_type (v_type v) ||
   match v with
   | VOther _ _ =>
       let className := q_from_latin1 (mt_name (v_type v)) in
       str_mem className availableDirectValueTypes || str_mem className availableDirectValueConstructors
   | _ => false
   end).

End Roundtrips.

(** The names of a library where QVersionNumber has native methods. *)
Definition version_names : GeneratedNames := {|
  g_constructor_classes := fun _ => [];
  g_value_constructor_classes := fun _ => [];
  g_direct_value_types := fun _ => ["QVersionNumber"%string];
|}.

(** The object and the value, sent and followed by the requests of another client. *)
Definition toy_object_sent : state := (objectHandleValue (Some 1%positive) toy_running).2.
Definition toy_value_sent : state := (toJson (GN := version_names) toy_version toy_running).2.
Definition toy_object_later : state := (handleRequest 7 toy_delete_request toy_object_sent).2.
Definition toy_value_later : state :=
  (handleRequest (GN := version_names) 7 toy_events_request toy_value_sent).2.

(** * Lemmas *)

Section Requests.
Context {T : QtTypes} {QB : QtLib} {QW : QtWorld} {CT : CxxTraits} {GN : GeneratedNames} {G : Generated} {BF : BuildFlags}.
Context {LB : QtLibLaws QB} {QL : QtLaws QW} {GL : GeneratedLaws QL G}.

Lemma sparing_step_framed spared s s' :
  bridge_ok s -> sparing_step spared s s' ->
  bridge_ok s' /\ exists request, spared s request /\ framed s request s'.
Proof.
  intros Hs (current & request & r & Hr & Hop & Hsp & Hc).
  pose proof (handleRequest_keeps current request s Hs) as Hk.
  pose proof (handleRequest_framed current request s Hs Hop) as Hf. unfold request_ok in Hk.
  rewrite Hr in Hk, Hf. destruct r as [j|what|u]; [..|done];
    (split; [apply Hk|by exists request]).
Qed.

Lemma sparing_object id p s s' :
  bridge_ok s -> objects (st_bridge s) !! id = Some p -> sparing (spares_object id) s s' ->
  bridge_ok s' /\ objects (st_bridge s') !! id = Some p.
Proof.
  intros Hs Hp Hrun. induction Hrun as [s|s s1 s' Hstep _ IH]; [done|].
  apply sparing_step_framed in Hstep as (Hs1 & request & Hsp & Hf); [|done].
  apply IH; [done|]. by eapply framed_objects.
Qed.

Lemma sparing_value id v s s' :
  bridge_ok s -> values (st_bridge s) !! id = Some v -> sparing (spares_value id) s s' ->
  bridge_ok s' /\ values (st_bridge s') !! id = Some v.
Proof.
  intros Hs Hp Hrun. induction Hrun as [s|s s1 s' Hstep _ IH]; [done|].
  apply sparing_step_framed in Hstep as (Hs1 & request & Hsp & Hf); [|done].
  apply IH; [done|]. by eapply framed_values.
Qed.

(** A number that the counter gave out and that is exact is read back. *)
Lemma sent_id_in_range id :
  1 <= id <= maximum_exact -> int_in_range 1 maximum_exact (double_of_Z id) = true /\
    trunc_Z (double_of_Z id) = id.
Proof.
  unfold maximum_exact. intros H. rewrite int_in_range_of_Z, trunc_of_Z by lia.
  split; [|done]. apply andb_true_iff. split; apply Z.leb_le; lia.
Qed.

Lemma parseObjectId_sent id : 1 <= id <= maximum_exact -> parseObjectId (num id) = Ok id.
Proof.
  intros H. apply sent_id_in_range in H as [Hr Ht]. apply parseObjectId_Ok. by exists (double_of_Z id).
Qed.

Lemma parse_value_id_sent id : 1 <= id <= maximum_exact -> parse_value_id (num id) = Some id.
Proof.
  intros H. apply sent_id_in_range in H as [Hr Ht]. unfold parse_value_id, num. by rewrite Hr, Ht.
Qed.

(** ** Objects *)

Lemma objectHandleValue_outcome s p j s1 :
  objectHandleValue (Some p) s = (Done j, s1) ->
  exists id, registerObject (Some p) s = (Done id, s1) /\
    j = make_object [("object_id"%string, num id)].
Proof.
  unfold objectHandleValue, bind. destruct (registerObject (Some p) s) as [[id|what|u] s'] eqn:E;
    [|done..]. intros [= <- <-]. by exists id.
Qed.

Lemma running_live s :
  bridge_ok s -> application (st_bridge s) = true -> exists t, live (past_of s t) s.
Proof.
  intros [Hok Ht] Ha. rewrite Ha in Ht. destruct Ht as [t Ht]. exists t. by apply live_past.
Qed.

Lemma object_sent s p id s1 :
  bridge_ok s -> application (st_bridge s) = true -> next_object_id (st_bridge s) <= maximum_exact ->
  w_alive (st_world s) p = true -> w_born (st_world s) p ->
  registerObject (Some p) s = (Done id, s1) ->
  bridge_ok s1 /\ objects (st_bridge s1) !! id = Some p /\ 1 <= id <= maximum_exact.
Proof.
  intros Hs Ha Hmax Hp Hb Hr. destruct (running_live s Hs Ha) as [t Hl].
  pose proof (hoare_registerObject p (past_of s t) s (conj Hl Hb)) as Hk. rewrite Hr in Hk.
  split; [by eapply live_bridge_ok|]. rewrite registerObject_Some in Hr.
  destruct (Z.eqb_spec (idForObject s (Some p)) 0) as [H0|H0]; simpl in Hr.
  - rewrite next_id_free in Hr by apply Hs. injection Hr as <- <-. simpl.
    rewrite lookup_insert_eq. split; [done|]. pose proof (ok_next _ (proj1 Hs)). lia.
  - injection Hr as <- <-. apply idForObject_found, objectForId_Some in H0 as [H0 _].
    split; [done|]. pose proof (ok_objects _ (proj1 Hs) _ _ H0). lia.
Qed.

Lemma fromJson_pointer_sent s id p c m :
  parseObjectId (num id) = Ok id -> objectForId s id = Some p ->
  q_meta_object (MT_QObjectPtr c) = Some m -> w_cast (st_world s) m p = true ->
  fromJson_pointer s (make_object [("object_id"%string, num id)]) (MT_QObjectPtr c) c =
    Ok (VObject c (Some p)).
Proof.
  intros Hid Hf Hm Hc. unfold fromJson_pointer. rewrite Hm. cbn [make_object].
  change (obj_value "object_id" (make_members [("object_id"%string, num id)])) with (num id).
  by rewrite Hid, Hf, Hc.
Qed.

(** C29: an object handed to the client can be handed back. The handle made for
    a live object (of which the counter has not left the exact numbers) names that
    object in every later state, however many requests were made in between, on
    whatever threads, as long as none of them closed the handle and the object lives:
    it is accepted as an object argument of a method, it converts to any pointer type
    the object can be cast to, and the object is handed out again under the same
    handle. *)
Theorem object_handle_roundtrip s p j s1 s2 :
  bridge_ok s -> application (st_bridge s) = true -> next_object_id (st_bridge s) <= maximum_exact ->
  w_alive (st_world s) p = true -> w_born (st_world s) p ->
  objectHandleValue (Some p) s = (Done j, s1) ->
  exists id, j = make_object [("object_id"%string, num id)] /\ idForObject s1 (Some p) = id /\
    (sparing (spares_object id) s1 s2 -> w_alive (st_world s2) p = true ->
     objectForId s2 id = Some p /\
     objectArgument s2 [j] 0 = Ok p /\
     (forall c m, q_meta_object (MT_QObjectPtr c) = Some m -> w_cast (st_world s2) m p = true ->
        fromJson s2 j (MT_QObjectPtr c) = Ok (VObject c (Some p))) /\
     objectHandleValue (Some p) s2 = (Done j, s2)).
Proof.
  intros Hs Ha Hmax Hp Hb Hj. apply objectHandleValue_outcome in Hj as (id & Hr & ->).
  exists id. split; [done|].
  assert (st_world s1 = st_world s) as Hw.
  { rewrite registerObject_Some in Hr. destruct (negb _); by injection Hr as _ <-. }
  apply object_sent in Hr as (Hs1 & Ho & Hid); [|done..].
  split; [apply idForObject_objectForId; [apply Hs1|apply objectForId_Some; by rewrite Hw]|].
  intros Hrun Hp2.
  eapply sparing_object in Hrun as [Hs2 Ho2]; [|done..].
  assert (objectForId s2 id = Some p) as Hf by by apply objectForId_Some.
  split; [done|]. apply parseObjectId_sent in Hid. split_and!.
  - unfold objectArgument. change (obj_value _ (to_object _)) with (num id).
    by rewrite Hid, Hf.
  - intros c m Hm Hc. unfold fromJson. cbn [mt_valid negb].
    rewrite bool_decide_eq_false_2 by done. cbn [fromJson_converted].
    rewrite (fromJson_pointer_sent _ _ _ _ _ Hid Hf Hm Hc). cbn [v_type].
    by rewrite bool_decide_eq_true_2.
  - unfold objectHandleValue, bind. rewrite (registerObject_known s2 id p); [done|apply Hs2|done].
Qed.

(** ** Values *)

Lemma v_type_not_variant v : v_type v <> MT_QVariant.
Proof. by destruct v. Qed.

Lemma toJson_handle v :
  sent_as_handle v = true ->
  toJson v = (let! id := registerValue v in
              ret (value_handle_json id (q_from_latin1 (mt_name (v_type v))))).
Proof.
  unfold sent_as_handle. rewrite toJson_eq.
  intros [[[Hv Hp]%andb_true_iff He]%andb_true_iff Hh]%andb_true_iff.
  rewrite Hv. apply negb_true_iff in Hp. rewrite Hp. destruct (toJson_early v); [done|]. cbn [negb].
  destruct (is_gadget_type (v_type v)); [done|]. simpl in Hh. destruct v; try done.
  cbn [toJson_pure]. unfold toJson_other. cbv zeta in Hh |- *. by rewrite Hh.
Qed.

Lemma registerValue_valid s v :
  tables_ok s -> v_valid v = true ->
  registerValue v s = (Done (next_object_id (st_bridge s)),
    State _ _ (set_values (<[next_object_id (st_bridge s) := v]> (values (st_bridge s)))
                 (set_next_object_id (next_object_id (st_bridge s) + 1) (st_bridge s))) (st_world s)).
Proof.
  intros Hok Hv. unfold registerValue. rewrite Hv. simpl.
  unfold fresh_id, emplace_value, bind, get_state, update_bridge, ret. simpl.
  by rewrite (next_value_free s Hok).
Qed.

Lemma fromJson_converted_handle s o target :
  (forall c, target <> MT_QObjectPtr c) -> obj_contains "value_id" o = true ->
  fromJson_converted s (JObject o) target = fromJson_value_handle s o target.
Proof.
  intros Ht Ho. unfold fromJson_converted. cbn [to_object]. rewrite Ho.
  destruct target; try done. by destruct (Ht class_name).
Qed.

(** A stored value is read back from its handle. *)
Lemma fromJson_sent_value s id v name :
  1 <= id <= maximum_exact -> valueForId s id = Some v -> v_valid v = true ->
  mt_is_qobject_pointer (v_type v) = false ->
  fromJson s (value_handle_json id name) (v_type v) = Ok v.
Proof.
  intros Hid Hf Hv Hp. unfold fromJson. unfold v_valid in Hv. rewrite Hv. cbn [negb].
  rewrite (bool_decide_eq_false_2 _ (v_type_not_variant v)).
  unfold value_handle_json, make_object. rewrite fromJson_converted_handle;
    [|by intros c Hc; rewrite Hc in Hp|done].
  unfold fromJson_value_handle.
  change (obj_value "value_id" (make_members [("value_id"%string, num id); ("type"%string, JString name)]))
    with (num id).
  rewrite parse_value_id_sent, Hf, bool_decide_eq_true_2 by done. cbn.
  by rewrite bool_decide_eq_true_2.
Qed.

(** C30: a value handed to the client can be handed back. A gadget, or a value of
    a type that has native methods or constructors but no JSON form of its own, is
    sent as a handle, and the handle converts back to the value itself in every later
    state, however many requests were made in between, on whatever threads, as long
    as none of them called, set or deleted this very value. Sending the value again
    gives another handle. *)
Theorem value_handle_roundtrip s v j s1 s2 :
  bridge_ok s -> application (st_bridge s) = true -> next_object_id (st_bridge s) <= maximum_exact ->
  sent_as_handle v = true -> toJson v s = (Done j, s1) ->
  exists id, j = value_handle_json id (q_from_latin1 (mt_name (v_type v))) /\
    (id ∉ dom (values (st_bridge s))) /\
    (sparing (spares_value id) s1 s2 -> valueForId s2 id = Some v /\ fromJson s2 j (v_type v) = Ok v).
Proof.
  intros Hs Ha Hmax Hv Hj. rewrite toJson_handle in Hj by done. unfold sent_as_handle in Hv.
  apply andb_true_iff in Hv as [[[Hvalid Hp]%andb_true_iff _]%andb_true_iff _].
  apply negb_true_iff in Hp. destruct (running_live s Hs Ha) as [t Hl].
  pose proof (keeps_registerValue v (past_of s t) s Hl) as Hk. unfold bind in Hj.
  rewrite registerValue_valid in Hj, Hk by (done || apply Hs). injection Hj as <- <-.
  eexists. split; [done|]. split.
  { rewrite not_elem_of_dom. apply next_value_free, Hs. }
  intros Hrun. apply live_bridge_ok in Hk.
  apply (sparing_value _ v) in Hrun as [Hs2 Hv2]; [|done|apply lookup_insert_eq].
  split; [done|]. apply fromJson_sent_value; [|done..]. pose proof (ok_next _ (proj1 Hs)). lia.
Qed.

End Requests.

(** ** Witnesses *)

(** The window is handed out, its button is deleted, and the handle still works. *)
Lemma object_handle_roundtrip_witness :
  exists id, objectForId toy_object_later id = Some 1%positive /\
    objectArgument toy_object_later [make_object [("object_id"%string, num id)]] 0 = Ok 1%positive.
Proof.
  destruct (object_handle_roundtrip toy_running 1%positive
    (make_object [("object_id"%string, num 1)]) toy_object_sent toy_object_later)
    as (id & Hj & Hid & H).
  - exact toy_running_ok.
  - vm_compute. reflexivity.
  - vm_compute. intros H. discriminate H.
  - vm_compute. reflexivity.
  - vm_compute. reflexivity.
  - vm_compute. reflexivity.
  - exists id. rewrite <- Hj. destruct H as (H1 & H2 & _); [|vm_compute; reflexivity|split; [exact H1|exact H2]].
    apply rtc_once. exists 7, toy_delete_request, (Done (success JNull)). split_and!.
    + vm_compute. reflexivity.
    + vm_compute. intros Hd. discriminate Hd.
    + rewrite <- Hid.
      apply (bool_decide_eq_true_1 _). vm_compute. reflexivity.
    + exact I.
Defined.

(** The value is handed out, the client polls for events, and the handle still works. *)
Lemma value_handle_roundtrip_witness :
  exists id, fromJson toy_value_later (value_handle_json id "QVersionNumber") (v_type toy_version) =
    Ok toy_version.
Proof.
  destruct (value_handle_roundtrip (GN := version_names) toy_running toy_version
    (value_handle_json 5 "QVersionNumber") toy_value_sent toy_value_later) as (id & Hj & _ & H).
  - exact toy_running_ok.
  - vm_compute. reflexivity.
  - vm_compute. intros H. discriminate H.
  - vm_compute. reflexivity.
  - vm_compute. reflexivity.
  - exists 5. apply H. apply rtc_once. exists 7, toy_events_request, (Done (success (JArray []))).
    split_and!.
    + vm_compute. reflexivity.
    + vm_compute. intros Hd. discriminate Hd.
    + vm_compute. intros Hd. discriminate Hd.
    + exact I.
Defined.
