(* ===== verification/Polling.v ===== *)
(** The loops of [events]: the while loop over one queue ends, and a client
    that keeps polling gets every pending event. *)
From S2P Require Export Events.

(** * Definitions *)

Section Polling.
Context {T : QtTypes} {QB : QtLib} {QW : QtWorld} {CT : CxxTraits} {GN : GeneratedNames} {G : Generated} {BF : BuildFlags}.

(** ** The while loop over a queue

    [while (!spy->isEmpty() && events.size() < maximum)] by its rules, with no
    bound on the number of rounds: [spy_loop maximum sub events s r] when the loop
    entered with [events] in [s] ends with the outcome [r]. *)
Definition spy_round (sub : subscription) (events : list json) : M (list json) :=
  let! arguments := call (SpyTakeFirst (sub_spy sub)) in
  let! jsonArguments := toJson_list arguments in
  ret (events ++ [event_json sub jsonArguments]).

Definition loop_goes_on (maximum : Z) (sub : subscription) (events : list json) (s : state) : Prop :=
  w_spy_queue (st_world s) (sub_spy sub) <> [] /\ arr_size events < maximum.

Inductive spy_loop (maximum : Z) (sub : subscription) (events : list json) (s : state) :
    outcome (list json) * state -> Prop :=
  | loop_ends :
      ~ loop_goes_on maximum sub events s -> spy_loop maximum sub events s (Done events, s)
  | loop_round events' s' r :
      loop_goes_on maximum sub events s -> spy_round sub events s = (Done events', s') ->
      spy_loop maximum sub events' s' r -> spy_loop maximum sub events s r
  | loop_throws what s' :
      loop_goes_on maximum sub events s -> spy_round sub events s = (Threw what, s') ->
      spy_loop maximum sub events s (Threw what, s')
  | loop_crashes u s' :
      loop_goes_on maximum sub events s -> spy_round sub events s = (Crashed u, s') ->
      spy_loop maximum sub events s (Crashed u, s').

(** ** Polling *)

(** [n] requests in a row, on the same thread. *)
Fixpoint polls (n : nat) (current : thread) (request : jmembers) : M (list json) :=
  match n with
  | O => ret []
  | S n' =>
      let! response := handleRequest current request in
      let! responses := polls n' current request in
      ret (response :: responses)
  end.

(** One state is reached from another by a request that returns. *)
Definition polled (current : thread) (request : jmembers) : relation state :=
  fun s s' => exists response, handleRequest current request s = (Done response, s').

(** The event loop has nothing to do. *)
Definition quiet (wait : Z) (w : world) : Prop :=
  w_native (if 0 <? wait then EventLoopWait wait else ProcessEvents) w = (Replied tt, w).

(** The spies of the subscriptions, and the events that wait in them. *)
Definition spies (b : bridge) : gset positive :=
  list_to_set (map_entries (subscriptions b) ≫= fun g => sub_spy <$> g.2).

Definition queued (l : list positive) (w : world) : nat :=
  sum_list_with (fun spy => length (w_spy_queue w spy)) l.

Definition pending (s : state) : Z :=
  Z.of_nat (queued (elements (spies (st_bridge s))) (st_world s)).

(** [sub] is a subscription to a live object, whose spy works. *)
Definition watching (s : state) (sub : subscription) : Prop :=
  exists id subs, subscriptions (st_bridge s) !! id = Some subs /\ is_Some (objectForId s id) /\
    sub ∈ subs /\ w_spy_valid (st_world s) (sub_spy sub) = true.

(** No event of a live object is left to deliver (to the subscriptions of [s]). *)
Definition nothing_pending (s : state) : Prop :=
  forall sub, watching s sub -> w_spy_queue (st_world s) (sub_spy sub) = [].

(** The responses are successes with lists of events, and the lists together
    report the events of [log], in order. *)
Definition reports (responses : list json) (log : list taken) : Prop :=
  exists batches, responses = (fun batch => success (JArray batch)) <$> batches /\
    Forall2 event_of log (concat batches).

(** From [s] to [s'], the responses have reported exactly what was taken off the
    queues, and that includes all that was pending in [s] for a subscription to a live
    object, in order; these subscriptions are still there. *)
Definition delivered (s : state) (responses : list json) (s' : state) : Prop :=
  exists log, reports responses log /\ drained s log s' /\
    Forall (subscribed (st_bridge s)) log.*1 /\
    forall sub, watching s sub ->
      watching s' sub /\ from_spy (sub_spy sub) log = w_spy_queue (st_world s) (sub_spy sub).

End Polling.

Section Termination.
Context {T : QtTypes} {QB : QtLib} {QW : QtWorld} {CT : CxxTraits} {GN : GeneratedNames} {G : Generated} {BF : BuildFlags}.

(** ** The while loop *)

Lemma spy_loop_deterministic maximum sub events s r1 r2 :
  spy_loop maximum sub events s r1 -> spy_loop maximum sub events s r2 -> r1 = r2.
Proof.
  intros H. revert r2. induction H; intros r2 H2; inversion H2; simplify_eq; try done; try tauto.
  all: match goal with
       | H1 : spy_round _ _ _ = _, H2 : spy_round _ _ _ = _ |- _ =>
           rewrite H1 in H2; simplify_eq; auto
       end.
Qed.

(** A round makes the list longer by one. *)
Lemma spy_round_longer sub events s events' s' :
  spy_round sub events s = (Done events', s') -> arr_size events' = arr_size events + 1.
Proof.
  unfold spy_round, bind, call, ret. destruct (w_native _ _) as [[args|what] w']; [|done].
  destruct (toJson_list _ _) as [[js|what|u] s1]; intros; simplify_eq/=.
  unfold arr_size. by rewrite arr_size_app.
Qed.

Lemma drain_spy_round n sub events s :
  w_spy_queue (st_world s) (sub_spy sub) <> [] ->
  drain_spy (S n) sub events s = bind (spy_round sub events) (drain_spy n sub) s.
Proof.
  intros Hq. simpl. unfold spy_round, bind, get_state, call, ret.
  destruct (w_spy_queue (st_world s) (sub_spy sub)) as [|e rest]; [done|].
  destruct (w_native _ (st_world s)) as [[args|what] w']; [|done].
  by destruct (toJson_list _ _) as [[js|what|u] s1].
Qed.

(** Enough fuel: the room left in the response. *)
Lemma drain_spy_loop maximum sub events s :
  spy_loop maximum sub events s (drain_spy (room maximum events) sub events s).
Proof.
  remember (room maximum events) as n eqn:Hn. revert events s Hn.
  induction n as [|n IH]; intros events s Hn.
  { apply loop_ends. intros [_ Hlt]. unfold room in Hn. lia. }
  destruct (w_spy_queue (st_world s) (sub_spy sub)) as [|e rest] eqn:Hq.
  { simpl. unfold bind, get_state. rewrite Hq. apply loop_ends. by intros [? _]. }
  assert (loop_goes_on maximum sub events s) as Hgo.
  { split; [by rewrite Hq|]. unfold room in Hn. lia. }
  rewrite drain_spy_round by apply Hgo. unfold bind.
  destruct (spy_round sub events s) as [[events'|what|u] s'] eqn:E.
  - eapply loop_round; [done|done|]. apply IH.
    apply spy_round_longer in E. unfold room in *. lia.
  - by apply loop_throws.
  - by apply loop_crashes.
Qed.

(** C24: the loop over the queue of a subscription ends. Whatever the queue, the
    conversions and the state, the while loop of [events], whose rules have no
    bound on the rounds, has exactly one outcome, and it is the one [drain_spy]
    computes with as much fuel as the response has room. *)
Theorem spy_loop_terminates maximum sub events s r :
  spy_loop maximum sub events s r <-> r = drain_spy (room maximum events) sub events s.
Proof.
  split; [|intros ->; apply drain_spy_loop].
  intros H. eapply spy_loop_deterministic; [exact H|apply drain_spy_loop].
Qed.

(** ** Counting pending events *)

(** Each event of a log comes off one of the spies. *)
Lemma sum_from_spy (l : list positive) log :
  NoDup l -> Forall (fun sub => sub_spy sub ∈ l) log.*1 ->
  sum_list_with (fun spy => length (from_spy spy log)) l = length log.
Proof.
  intros Hnd. induction log as [|e log IH]; intros Hl.
  { clear Hnd Hl. by induction l. }
  inversion Hl as [|? ? He Hl']; subst. specialize (IH Hl'). clear Hl Hl'. simpl.
  rewrite <- IH. clear IH. induction Hnd as [|x l Hx Hnd IHl]; [by apply not_elem_of_nil in He|].
  simpl. unfold from_spy at 1. apply elem_of_cons in He as [He|He].
  - rewrite filter_cons_True by done. simpl. f_equal.
    fold (from_spy x log). f_equal. clear IHl Hnd. induction l as [|y l IH]; [done|]. simpl.
    apply not_elem_of_cons in Hx as [Hy Hx]. unfold from_spy at 1.
    rewrite filter_cons_False by congruence. fold (from_spy y log). by rewrite IH.
  - rewrite filter_cons_False by (intros <-; done). fold (from_spy x log). rewrite IHl by done. lia.
Qed.

Lemma queued_drained (l : list positive) s log s' :
  NoDup l -> Forall (fun sub => sub_spy sub ∈ l) log.*1 -> drained s log s' ->
  queued l (st_world s) = (length log + queued l (st_world s'))%nat.
Proof.
  intros Hnd Hl Hd. rewrite <- (sum_from_spy l log Hnd Hl). unfold queued. clear Hnd Hl.
  induction l as [|x l IH]; simpl; [done|]. rewrite IH, (dr_queues _ _ _ Hd x), length_app. lia.
Qed.

Lemma subscribed_spies b sub : subscribed b sub -> sub_spy sub ∈ spies b.
Proof.
  intros (id & subs & Hid & Hsub). unfold spies. apply elem_of_list_to_set, list_elem_of_bind.
  exists (id, subs). split; [|by apply elem_of_map_entries]. by apply list_elem_of_fmap_2.
Qed.

Lemma spies_subscribed b spy : spy ∈ spies b -> exists sub, subscribed b sub /\ sub_spy sub = spy.
Proof.
  unfold spies. intros ([id subs] & Hin & Hg)%elem_of_list_to_set%list_elem_of_bind.
  apply list_elem_of_fmap in Hin as (sub & -> & Hsub). apply elem_of_map_entries in Hg.
  exists sub. split; [by exists id, subs|done].
Qed.

(** ** What polls leave alone *)

Lemma drained_subscribed s log s' id subs :
  drained s log s' -> subscriptions (st_bridge s') !! id = Some subs ->
  subscriptions (st_bridge s) !! id = Some subs.
Proof. intros Hd H. destruct (dr_subscriptions _ _ _ Hd id) as [E|[_ E]]; congruence. Qed.

Lemma drained_spies s log s' : drained s log s' -> spies (st_bridge s') ⊆ spies (st_bridge s).
Proof.
  intros Hd spy (sub & (id & subs & Hid & Hsub) & <-)%spies_subscribed. apply subscribed_spies.
  exists id, subs. split; [by eapply drained_subscribed|done].
Qed.

Lemma drained_admitted current s log s' :
  drained s log s' -> admitted current s -> admitted current s'.
Proof. intros [] (? & ? & ?). unfold admitted in *. split_and!; congruence. Qed.

(** Draining neither makes nor loses a subscription to a live object. *)
Lemma drained_watching s log s' sub : drained s log s' -> watching s' sub <-> watching s sub.
Proof.
  intros Hd. unfold watching. setoid_rewrite (dr_valid _ _ _ Hd).
  setoid_rewrite (fun id => drained_objectForId _ _ _ id Hd). split.
  - intros (id & subs & Hid & Hl). exists id, subs. split; [by eapply drained_subscribed|done].
  - intros (id & subs & Hid & [p Hp] & Hl). exists id, subs. split; [|split; [by exists p|done]].
    destruct (dr_subscriptions _ _ _ Hd id) as [->|[E _]]; [done|congruence].
Qed.

Lemma drained_nothing_pending s log s' :
  drained s log s' -> nothing_pending s -> nothing_pending s'.
Proof.
  intros Hd H sub Hsub. eapply drained_empty; [done|]. apply H. by apply (drained_watching _ _ _ _ Hd).
Qed.

Lemma exhausted_nothing_pending s log s' :
  drained s log s' -> exhausted (map_entries (subscriptions (st_bridge s))) s s' ->
  nothing_pending s'.
Proof.
  intros Hd He sub (id & subs & Hid & [p Hlive] & Hsub & Hv)%(drained_watching _ _ _ _ Hd).
  specialize (He id subs). rewrite elem_of_map_entries, Hlive in He. by apply He.
Qed.

(** When nothing is pending any more, all that was pending is in the log. *)
Lemma nothing_pending_delivered s responses log s' :
  reports responses log -> drained s log s' -> Forall (subscribed (st_bridge s)) log.*1 ->
  nothing_pending s' -> delivered s responses s'.
Proof.
  intros Hr Hd Hs Hn. exists log. split_and!; [done..|]. intros sub Hsub.
  apply (drained_watching _ _ _ _ Hd) in Hsub. split; [done|].
  by rewrite (dr_queues _ _ _ Hd), (Hn sub Hsub), app_nil_r.
Qed.

Lemma reports_cons js responses log1 log2 :
  Forall2 event_of log1 js -> reports responses log2 ->
  reports (success (JArray js) :: responses) (log1 ++ log2).
Proof.
  intros H1 (batches & -> & H2). exists (js :: batches). split; [done|]. by apply Forall2_app.
Qed.

End Termination.

Section Liveness.
Context {T : QtTypes} {QB : QtLib} {QW : QtWorld} {CT : CxxTraits} {GN : GeneratedNames} {G : Generated} {BF : BuildFlags}.
Context {LB : QtLibLaws QB} {QL : QtLaws QW} {GL : GeneratedLaws QL G}.
Variables (current : thread) (request : jmembers) (wait maximum : Z).
Hypothesis is_events : op_name request = "events"%string.
Hypothesis limits : event_limits request = Ok (wait, maximum).

Lemma after_quiet s : quiet wait (st_world s) -> after_event_loop wait s = s.
Proof. unfold quiet, after_event_loop. intros ->. by destruct s. Qed.

(** One poll of a quiet Qt. *)
Lemma poll_quiet s :
  admitted current s -> quiet wait (st_world s) ->
  match handleRequest current request s with
  | (Done j, s') => exists log js, j = success (JArray js) /\ Forall2 event_of log js /\
      drained s log s' /\ Forall (subscribed (st_bridge s)) log.*1 /\
      (Z.of_nat (length log) = maximum \/ nothing_pending s')
  | (Threw _, _) => False
  | (Crashed u, _) => u = DanglingVariant
  end.
Proof.
  intros Had Hq. pose proof (handleRequest_events _ _ _ _ _ Had is_events limits) as H.
  rewrite (after_quiet s Hq) in H.
  destruct (handleRequest current request s) as [[j|what|u] s']; [| |done].
  - destruct H as (log & js & -> & Hj & Hd & Hs & Hle & Hc). exists log, js. split_and!; [done..|].
    apply Forall2_length in Hj. unfold arr_size in *.
    destruct (decide (Z.of_nat (length js) < maximum)) as [Hlt|]; [|left; lia].
    right. eapply exhausted_nothing_pending; [done|by apply Hc].
  - destruct H as [_ H]. unfold quiet in Hq. by rewrite Hq in H.
Qed.

(** The progress of the polls, counted over a fixed list of spies. *)
Lemma polls_progress n (l : list positive) s :
  NoDup l -> (forall spy, spy ∈ spies (st_bridge s) -> spy ∈ l) -> admitted current s ->
  (forall s', rtc (polled current request) s s' -> quiet wait (st_world s')) ->
  Z.of_nat (queued l (st_world s)) < Z.of_nat n * maximum \/ nothing_pending s ->
  match polls n current request s with
  | (Done responses, s') => length responses = n /\ nothing_pending s' /\
      exists log, reports responses log /\ drained s log s' /\
        Forall (subscribed (st_bridge s)) log.*1
  | (Threw _, _) => False
  | (Crashed u, _) => u = DanglingVariant
  end.
Proof.
  intros Hnd. revert s. induction n as [|n IH]; intros s Hl Had Hq Hn.
  { simpl. split_and!; [done|destruct Hn as [Hn|]; [lia|done]|]. exists [].
    split_and!; [by exists []|apply drained_refl|constructor]. }
  simpl. unfold bind. pose proof (poll_quiet s Had (Hq s (rtc_refl _ s))) as Hp.
  destruct (handleRequest current request s) as [[j|what|u] s1] eqn:E; [|done..].
  destruct Hp as (log & batch & -> & Hb & Hd & Hs & Hdone).
  assert (Forall (fun sub => sub_spy sub ∈ l) log.*1) as Hlog.
  { eapply Forall_impl; [exact Hs|]. intros sub Hsub. by apply Hl, subscribed_spies. }
  assert (Z.of_nat (queued l (st_world s1)) < Z.of_nat n * maximum \/ nothing_pending s1) as Hn1.
  { destruct Hn as [Hn|Hn]; [|right; by eapply drained_nothing_pending].
    destruct Hdone as [Hdone|]; [left|by right].
    rewrite (queued_drained l s log s1 Hnd Hlog Hd) in Hn. lia. }
  assert (forall spy, spy ∈ spies (st_bridge s1) -> spy ∈ l) as Hl1.
  { intros spy Hspy. apply Hl. by apply (drained_spies _ _ _ Hd). }
  assert (forall s', rtc (polled current request) s1 s' -> quiet wait (st_world s')) as Hq1.
  { intros s' Hs'. apply Hq. eapply rtc_l; [by eexists|done]. }
  specialize (IH s1 Hl1 (drained_admitted _ _ _ _ Hd Had) Hq1 Hn1).
  destruct (polls n current request s1) as [[js|what|u] s2]; [|done..].
  destruct IH as (<- & Hn2 & log2 & Hr2 & Hd2 & Hs2). split_and!; [done..|].
  exists (log ++ log2). split_and!; [by apply reports_cons|by eapply drained_trans|].
  rewrite fmap_app. apply Forall_app. split; [done|]. eapply Forall_impl; [exact Hs2|].
  intros sub (id & subs & Hid & Hin). exists id, subs. split; [by eapply drained_subscribed|done].
Qed.

(** C14: polling delivers everything. While Qt is quiet (its event loop emits
    nothing more), a client that keeps sending the same [events] request has
    received every pending event of a live object after [n] polls, as soon as [n]
    times the maximum exceeds the number of events that were pending: each of the [n]
    responses is a success with a list of events, the lists together report exactly
    the events that left the queues, all of subscriptions the bridge had, and for every
    subscription to a live object with a working spy these are all the events that were
    pending at the start, in order; the subscription stays. None of the polls fails,
    unless it reads a pending argument through a dangling pointer. *)
Theorem polling_delivers_everything n s :
  admitted current s ->
  (forall s', rtc (polled current request) s s' -> quiet wait (st_world s')) ->
  pending s < Z.of_nat n * maximum ->
  match polls n current request s with
  | (Done responses, s') => length responses = n /\ delivered s responses s'
  | (Threw _, _) => False
  | (Crashed u, _) => u = DanglingVariant
  end.
Proof.
  intros Had Hq Hn. pose proof (polls_progress n (elements (spies (st_bridge s))) s) as H.
  destruct (polls n current request s) as [[responses|what|u] s'].
  1: destruct H as (Hlen & Hp & log & Hr & Hd & Hs);
    [..|split; [done|by eapply nothing_pending_delivered]].
  all: try apply H; try apply NoDup_elements; try done; try (by left);
    intros spy; by rewrite elem_of_elements.
Qed.

End Liveness.

(** ** Witnesses *)

Lemma polling_delivers_everything_witness :
  pending toy_pending = 1 /\
  match polls 1 7 toy_events_request toy_pending with
  | (Done responses, s') => length responses = 1%nat /\ delivered toy_pending responses s'
  | (Threw _, _) => False
  | (Crashed u, _) => u = DanglingVariant
  end.
Proof.
  split; [vm_compute; reflexivity|].
  apply (polling_delivers_everything 7 toy_events_request 0 64).
  - vm_compute. reflexivity.
  - vm_compute. reflexivity.
  - exact toy_pending_admitted.
  - intros s' _. reflexivity.
  - vm_compute. reflexivity.
Defined.
