(* ===== verification/Conversions.v ===== *)
(** Conversions between JSON and Qt values: their types, ranges and round
    trips. *)
From S2P Require Export Events.

(** * Definitions *)

(** An integer that fits [int]. *)
Definition fits_int (z : Z) : bool := (int_min <=? z) && (z <=? int_max).

(** The values whose JSON form carries them exactly: 64-bit integers in the
    exact range of JSON numbers, geometry and byte arrays. *)
Definition exact_on_wire `{QtTypes} (v : qvariant) : bool :=
  match v with
  | VLongLong z => (- maximum_exact <=? z) && (z <=? maximum_exact)
  | VULongLong z => (0 <=? z) && (z <=? maximum_exact)
  | VPoint x y | VSize x y => fits_int x && fits_int y
  | VRect x y w h | VMargins x y w h | VLine x y w h =>
      fits_int x && fits_int y && fits_int w && fits_int h
  | VPointF x y | VSizeF x y => isfinite x && isfinite y
  | VRectF x y w h | VMarginsF x y w h | VLineF x y w h =>
      isfinite x && isfinite y && isfinite w && isfinite h
  | VByteArray _ => true
  | _ => false
  end.

(** A header that stays on its line. *)
Definition safe_header (h : string * string) : Prop :=
  h.1 <> estr /\ forall c, c ∈ [char_cr; char_lf; char_nul] ->
    str_contains c h.1 = false /\ str_contains c h.2 = false.

(** ** Lemmas *)

Section Conversions.
Context {T : QtTypes} {QB : QtLib} {QW : QtWorld} {CT : CxxTraits} {GN : GeneratedNames} {G : Generated}.

Lemma let_Ok {A B} (r : res A) (k : A -> res B) b :
  (let? x := r in k x) = Ok b -> exists a, r = Ok a /\ k a = Ok b.
Proof. destruct r; [by eexists|done]. Qed.

Lemma readInteger_in_range o key z :
  readInteger o key = Ok z <->
  exists raw, obj_value key o = JDouble raw /\ int_in_range int_min int_max raw = true /\
    z = trunc_Z raw.
Proof.
  unfold readInteger, readNumber, int_in_range, is_integral. split.
  - intros H. destruct (obj_value key o) as [| | |raw| | |]; try done. exists raw. split; [done|].
    destruct (isfinite raw); [|done]. simpl in *.
    destruct (dbl_eq _ _), (dbl_lt _ _), (dbl_gt _ _); simpl in *; try done. by injection H.
  - intros (raw & -> & H & ->). destruct (isfinite raw); [|done]. simpl in *.
    by destruct (dbl_eq _ _), (dbl_lt _ _), (dbl_gt _ _).
Qed.

Lemma readInteger_of_Z o key z :
  obj_value key o = JDouble (double_of_Z z) -> fits_int z = true -> readInteger o key = Ok z.
Proof.
  unfold fits_int, int_min, int_max. intros Ho [Hlo Hhi]%andb_true_iff.
  apply Z.leb_le in Hlo, Hhi. apply readInteger_in_range. eexists. split; [exact Ho|]. split.
  - unfold int_min, int_max. rewrite int_in_range_of_Z by lia.
    apply andb_true_iff. by rewrite !Z.leb_le.
  - symmetry. apply trunc_of_Z. lia.
Qed.

Lemma readNumber_finite o key x :
  obj_value key o = JDouble x -> isfinite x = true -> readNumber o key = Ok x.
Proof. intros Ho Hx. unfold readNumber. by rewrite Ho, Hx. Qed.






Lemma add_headers_safe o r r' :
  add_headers o r = Ok r' -> exists headers, Forall safe_header headers /\
    r' = foldl (fun r h => q_request_set_header h.1 h.2 r) r headers.
Proof.
  revert r. induction o as [|[key v] o IH]; intros r; simpl; [intros [= <-]; by exists []|].
  destruct v as [| | | |text| |]; try done. unfold breaks_header.
  destruct (_ || _) eqn:He; [done|].
  repeat match goal with H : (_ || _) = false |- _ => apply orb_false_iff in H as [? ?] end.
  intros (headers & Hs & ->)%IH. exists ((q_to_latin1 key, q_to_latin1 text) :: headers).
  split; [|done]. constructor; [|done]. split; simpl; [by destruct (q_to_latin1 key)|].
  intros c Hc. rewrite !elem_of_cons, elem_of_nil in Hc. by destruct Hc as [->|[->|[->|[]]]].
Qed.

Section Laws.
Context {LB : QtLibLaws QB}.

Lemma toJson_plain v j s :
  v_type v ∈ plain_types -> toJson_pure v = Some j -> toJson v s = (Done j, s).
Proof.
  intros Hin Hj. pose proof (law_plain _ Hin) as Hg. rewrite toJson_eq.
  unfold is_gadget_type, v_valid. rewrite Hg.
  by destruct v; simpl in Hj; try done; injection Hj as <-.
Qed.

Lemma fromJson_exact s j t v :
  mt_valid t = true -> t <> MT_QVariant -> fromJson_converted s j t = Ok v -> v_type v = t ->
  fromJson s j t = Ok v.
Proof.
  intros Hv Ht Hc Hty. unfold fromJson. rewrite Hv, Hc. simpl.
  by rewrite bool_decide_eq_false_2, bool_decide_eq_true_2.
Qed.

(** The wire form of a value that is exact on the wire reads back. *)
Lemma exact_converted v s :
  exact_on_wire v = true ->
  v_type v ∈ plain_types /\ exists j, toJson_pure v = Some j /\
    fromJson_converted s j (v_type v) = Ok v.
Proof.
  intros H. destruct v; simpl in H; try done;
    (split; [unfold plain_types; rewrite !elem_of_cons; simpl; tauto|]);
    repeat match goal with
    | H : (_ && _) = true |- _ => apply andb_true_iff in H as [? ?]
    end; (eexists; split; [reflexivity|]); unfold fromJson_converted; simpl.
  1-2: unfold json_integer, maximum_exact in *;
    repeat match goal with H : (_ <=? _) = true |- _ => rewrite H; apply Z.leb_le in H end; simpl.
  1-2: rewrite int_in_range_of_Z by (unfold maximum_exact; lia); unfold maximum_exact;
    rewrite !(proj2 (Z.leb_le _ _)) by lia; simpl; by rewrite trunc_of_Z by lia.
  all: try (erewrite ?readInteger_of_Z by (reflexivity || done); done).
  all: try (erewrite ?readNumber_finite by (reflexivity || done); done).
  unfold fromJson_bytes. simpl. by rewrite law_latin1, law_base64.
Qed.

(** ** Properties *)

Lemma fromJson_has_type s j t v :
  fromJson s j t = Ok v -> t <> MT_QVariant -> v_type v = t.
Proof.
  unfold fromJson. intros H Ht. destruct (negb (mt_valid t)); [done|].
  rewrite bool_decide_eq_false_2 in H by done. apply let_Ok in H as (w & _ & H).
  case_bool_decide as Hw; [by injection H as <-|].
  destruct (q_convert w t) as [[] w'] eqn:Hc; [|done]. injection H as <-. by eapply law_convert.
Qed.

(** C26: a conversion from JSON gives a value of the type asked for. *)
Theorem fromJson_typed s j t v :
  fromJson s j t = Ok v -> t <> MT_QVariant -> v_type v = t.
Proof. apply fromJson_has_type. Qed.

(** The integer fields of points, sizes and the like. readInteger (and
    readJsonInteger, on the field's value) accepts exactly the JSON numbers that
    stand for an integer of 32 bits, and returns that integer: fractions, infinities,
    NaN and larger numbers are refused, nothing is rounded or wrapped. *)
Theorem readInteger_spec o key z :
  (forall raw, obj_value key o = JDouble raw -> valid_double raw = true) ->
  (readInteger o key = Ok z <->
     exists raw, obj_value key o = JDouble raw /\ integral_value raw = Some z /\
       int_min <= z <= int_max) /\
  (readJsonInteger (obj_value key o) = Some z <-> readInteger o key = Ok z).
Proof.
  intros Hv. rewrite readInteger_in_range. split.
  - split; intros (raw & Hraw & H); exists raw; (split; [done|]).
    + destruct H as [H ->]. apply int_in_range_spec in H as (z & Hz & Hr); [|by apply Hv|done..].
      by rewrite (trunc_integral _ _ Hz).
    + destruct H as [Hz Hr]. split.
      * apply int_in_range_spec; [by apply Hv|done..|]. by exists z.
      * by rewrite (trunc_integral _ _ Hz).
  - unfold readJsonInteger. destruct (obj_value key o) as [| | |raw| | |];
      try (by split; [|intros (? & ? & _)]).
    destruct (int_in_range int_min int_max raw) eqn:Hr.
    + split; [intros [= <-]; by exists raw|by intros (? & [= <-] & _ & ->)].
    + split; [done|]. intros (? & [= <-] & ? & _). congruence.
Qed.

(** C27: round trip of exact values. A 64-bit integer in the exact range of
    JSON numbers, a point, size, rectangle, margin or line (integral, or with finite
    coordinates) and a byte array are converted to JSON without touching the state,
    and converting that JSON back to the value's type gives the same value. *)
Theorem wire_roundtrip s s' v :
  exact_on_wire v = true ->
  exists j, toJson v s = (Done j, s) /\ fromJson s' j (v_type v) = Ok v.
Proof.
  intros H. destruct (exact_converted v s' H) as (Hin & j & Hj & Hc). exists j.
  split; [by apply toJson_plain|]. by apply fromJson_exact; destruct v.
Qed.

(** C28: 64-bit integers outside the exact range of JSON numbers travel as
    decimal strings, the others as numbers, and both read back, for every signed
    64-bit integer. *)
Theorem longlong_roundtrip s s' z :
  - 2 ^ 63 <= z < 2 ^ 63 -> q_to_long_long (q_number z) = Some z ->
  exists j, toJson (VLongLong z) s = (Done j, s) /\
    fromJson s' j MT_LongLong = Ok (VLongLong z) /\
    (Z.abs z <= maximum_exact -> j = num z) /\ (maximum_exact < Z.abs z -> j = JString (q_number z)).
Proof.
  intros Hz Hq. exists (json_integer (- maximum_exact) maximum_exact z).
  split; [by apply toJson_plain; [unfold plain_types; set_solver|]|].
  assert (json_integer (- maximum_exact) maximum_exact z =
    if Z.abs z <=? maximum_exact then num z else JString (q_number z)) as ->.
  { unfold json_integer. destruct (Z.leb_spec (- maximum_exact) z), (Z.leb_spec z maximum_exact),
      (Z.leb_spec (Z.abs z) maximum_exact); simpl; try done; lia. }
  destruct (Z.leb_spec (Z.abs z) maximum_exact) as [Hle|Hgt]; (split; [|split; [done || lia|done || lia]]).
  - apply fromJson_exact; try done. unfold fromJson_converted. simpl.
    unfold maximum_exact in *. rewrite int_in_range_of_Z by lia.
    rewrite !(proj2 (Z.leb_le _ _)) by lia. simpl. by rewrite trunc_of_Z by lia.
  - apply fromJson_exact; try done. unfold fromJson_converted. simpl. by rewrite Hq.
Qed.


(** C32: header injection. Whenever a JSON value is accepted as a
    QNetworkRequest, the request is one for the given URL on which headers were set
    that all have a non-empty name, and no name or value with CR, LF or NUL. *)
Theorem request_headers_safe value r :
  fromJson_request value = Ok (VNetworkRequest r) ->
  exists url headers, q_url_error (q_url url) = None /\ Forall safe_header headers /\
    r = foldl (fun r h => q_request_set_header h.1 h.2 r) (q_request (q_url url)) headers.
Proof.
  unfold fromJson_request. intros H. apply let_Ok in H as ([url o] & _ & H).
  destruct (q_url_error (q_url url)) eqn:Hu; [done|]. apply let_Ok in H as (r' & Ha & [= ->]).
  apply add_headers_safe in Ha as (headers & Hs & ->). by exists url, headers.
Qed.

End Laws.

End Conversions.

(** ** Witnesses *)

Lemma fromJson_typed_witness :
  fromJson toy_running (num 7) MT_LongLong = Ok (VLongLong 7) /\ v_type (VLongLong 7) = MT_LongLong.
Proof.
  split; [vm_compute; reflexivity|].
  apply (fromJson_typed toy_running (num 7)); [vm_compute; reflexivity|discriminate].
Defined.

Lemma readInteger_spec_witness :
  readInteger [("x"%string, num (-12))] "x" = Ok (-12) <->
  exists raw, obj_value "x" [("x"%string, num (-12))] = JDouble raw /\
    integral_value raw = Some (-12) /\ int_min <= -12 <= int_max.
Proof.
  apply (readInteger_spec [("x"%string, num (-12))] "x" (-12)).
  intros raw [= <-]. vm_compute. reflexivity.
Defined.

Lemma wire_roundtrip_witness :
  exists j, toJson (VRect 1 (-2) 30 40) toy_running = (Done j, toy_running) /\
    fromJson toy_initial j MT_QRect = Ok (VRect 1 (-2) 30 40).
Proof. apply (wire_roundtrip toy_running toy_initial (VRect 1 (-2) 30 40)). reflexivity. Defined.

Lemma longlong_roundtrip_witness :
  exists j, toJson (VLongLong (- 2 ^ 63)) toy_running = (Done j, toy_running) /\
    fromJson toy_running j MT_LongLong = Ok (VLongLong (- 2 ^ 63)) /\
    (Z.abs (- 2 ^ 63) <= maximum_exact -> j = num (- 2 ^ 63)) /\
    (maximum_exact < Z.abs (- 2 ^ 63) -> j = JString (q_number (- 2 ^ 63))).
Proof.
  apply (longlong_roundtrip toy_running toy_running (- 2 ^ 63)); [lia|vm_compute; reflexivity].
Defined.


Lemma request_headers_safe_witness :
  exists url headers, q_url_error (q_url url) = None /\ Forall safe_header headers /\
    ("http://host"%string, [("Accept"%string, "text/html"%string)]) =
    foldl (fun r h => q_request_set_header h.1 h.2 r) (q_request (q_url url)) headers.
Proof.
  apply (request_headers_safe (QB := toy_lib)
    (JObject [("headers"%string, JObject [("Accept"%string, JString "text/html")]);
              ("url"%string, JString "http://host")])
    ("http://host"%string, [("Accept"%string, "text/html"%string)])).
  vm_compute. reflexivity.
Defined.
