(* ===== verification/ShardCalls.v ===== *)
(** What a generated shard does with a call: the rows it tries, the arguments
    it passes on, the errors it reports, and what becomes of objects it
    constructs for nothing. *)
From S2P Require Export ShardsOk Conversions.

(** * Definitions *)

Section Types.
Context {T : QtTypes} {QB : QtLib} {QW : QtWorld} {CT : CxxTraits} {GN : GeneratedNames}.

(** ** Types of arguments

    For QVariant itself fromJson gives a value of any type. *)
Definition of_type (t : metatype) (v : qvariant) : Prop :=
  v_valid v = true /\ (t <> MT_QVariant -> v_type v = t).

Definition typed_item (i : item) (v : qvariant) : Prop :=
  match i with
  | IVariant => True
  | _ => of_type (item_metatype i) v
  end.

(** The C++ value [x] can be passed for a parameter [p]. *)
Definition typed_argument (p : param) (x : cxx_value) : Prop :=
  match p, x with
  | PBool, CBool _ | PString _, CString _ | PVariant, CVariant _ | PVariantMap, CMap _ => True
  | PInt, CInt z => int_min <= z <= int_max
  | PUInt, CUInt z => 0 <= z <= uint_max
  | PNumber type, CFloat d =>
      type = "float"%string /\ exists raw, isfinite raw = true /\ d = to_float32 raw
  | PNumber type, CDouble d => type <> "float"%string /\ isfinite d = true
  | PMeta type, CVariant v | PValue type, CVariant v =>
      of_type (meta_type_of type) v
  | PObject c _, CVariant v => of_type (MT_QObjectPtr c) v
  | PStringList, CList l => Forall (of_type MT_QString) l
  | PList i, CList l => Forall (typed_item i) l
  | _, _ => False
  end.

(** A number of the request is a double. *)
Definition json_valid (j : json) : Prop :=
  match j with JDouble x => valid_double x = true | _ => True end.

(** ** Calls *)

(** The arguments fit the row: their number, and they convert. *)
Definition arguments_fit (s : state) (args : list json) (row : signature_row) : Prop :=
  length args = length (sr_params row) /\
  is_Some (convert_params s 0 (sr_params row) args estr).1.

(** The row refuses the arguments, with the error [e]. *)
Definition arguments_refused (s : state) (args : list json) (row : signature_row) (e : string) : Prop :=
  (length args <> length (sr_params row) /\
   e = count_error (signature_text row) (length (sr_params row))) \/
  (length args = length (sr_params row) /\
   exists e0, convert_params s 0 (sr_params row) args e0 = (None, e)).

(** The tests in front of a target hold for the receiver. *)
Definition target_applies (module className : string) (rec : receiver) (t : target) (s : state) : bool :=
  match t, rec with
  | Static c, _ => bool_decide (className = qualify module c)
  | On c, Object None => false
  | On c, Object (Some o) => w_is_a (st_world s) (cpp_class module c) o
  | On c, Value id =>
      bool_decide (className = c) &&
      match valueForId s id with
      | Some v => bool_decide (v_type v = meta_type_of (cpp_class module c))
      | None => false
      end
  end.

(** The class of the target is there. *)
Definition target_defined (sh : method_shard) (t : target) : bool :=
  macro_defined (ms_prefix sh) (ms_includes sh)
    (ms_prefix sh ++ match t with On c | Static c => c end).

(** [r] is the outcome of calling one of [targets] with the arguments [vs]. *)
Definition target_applied (sh : method_shard) (className : string) (rec : receiver)
    (row : signature_row) (targets : list target) (vs : list cxx_value) (output : json) (e : string)
    (s : state) (r : outcome (bool * json * string) * state) : Prop :=
  exists t body, t ∈ targets /\ target_defined sh t = true /\
    target_applies (ms_module sh) className rec t s = true /\
    call_target (ms_module sh) className rec row t vs output e = Some body /\ body s = r.

(** None of [targets] is for the receiver. *)
Definition no_target (sh : method_shard) (className : string) (rec : receiver) (targets : list target)
    (s : state) : Prop :=
  forall t, t ∈ targets -> target_defined sh t = true ->
    target_applies (ms_module sh) className rec t s = false.

(** What a shard does with a call, by its outcome. *)
Definition row_refused (sh : method_shard) (signature : string) (args : list json) (output : json)
    (s : state) (row : signature_row) (r : outcome (bool * json * string) * state) : Prop :=
  row_enabled sh row = true /\ signature_text row = signature /\
  exists e, arguments_refused s args row e /\ r = (Done (true, output, e), s).

Definition row_called (sh : method_shard) (className : string) (rec : receiver) (signature : string)
    (args : list json) (output : json) (s : state) (row : signature_row)
    (r : outcome (bool * json * string) * state) : Prop :=
  row_enabled sh row = true /\ signature_text row = signature /\
  length args = length (sr_params row) /\
  exists vs e0 e1, convert_params s 0 (sr_params row) args e0 = (Some vs, e1) /\
    target_applied sh className rec row (sr_targets row) vs output e1 s r.

(** An object is constructed and deleted at once. *)
Definition discarded : relation world := fun w w' =>
  exists c cxx o w1, w_native (QNew c cxx) w = (Replied o, w1) /\ w_alive w1 o = true /\
    w' = w_delete o w1.

(** What a candidate, and then a list of them, does. *)
Definition constructs (s : state) (r : outcome (option ptr * string) * state) : Prop :=
  match r with
  | (Done (Some o, _), s') => st_bridge s' = st_bridge s /\
      exists w c cxx w', rtc discarded (st_world s) w /\ w_native (QNew c cxx) w = (Replied o, w')
  | (Done (None, _), s') => st_bridge s' = st_bridge s /\ rtc discarded (st_world s) (st_world s')
  | (Threw _, s') => st_bridge s' = st_bridge s
  | (Crashed _, _) => False
  end.

End Types.

Section ShardCalls.
Context {T : QtTypes} {QB : QtLib} {QW : QtWorld} {CT : CxxTraits} {GN : GeneratedNames}.

(** ** Conversions *)

(** Whether a value converts does not depend on the error so far. *)
Lemma convert_meta_error s j t e e' : (convert_meta s j t e).1 = (convert_meta s j t e').1.
Proof. unfold convert_meta. by destruct (fromJson s j t). Qed.

Lemma convert_items_error s i l e e' : (convert_items s i l e).1 = (convert_items s i l e').1.
Proof.
  revert e e'. induction l as [|j l IH]; intros e e'; simpl; [done|].
  assert (forall c c' : conversion qvariant, c.1 = c'.1 ->
    (match c with
     | (None, error) => (None, error)
     | (Some v, error) => match convert_items s i l error with
         | (None, error) => (None, error) | (Some vs, error) => (Some (v :: vs), error) end end).1 =
    (match c' with
     | (None, error) => (None, error)
     | (Some v, error) => match convert_items s i l error with
         | (None, error) => (None, error) | (Some vs, error) => (Some (v :: vs), error) end end).1) as H.
  { intros [[v|] e1] [[v'|] e2] Hv; simplify_eq/=; [|done]. specialize (IH e1 e2).
    destruct (convert_items s i l e1) as [[] ?], (convert_items s i l e2) as [[] ?]; simpl in *; congruence. }
  apply H. destruct i; [done|apply convert_meta_error..].
Qed.

Lemma convert_param_error s n p j e e' : (convert_param s n p j e).1 = (convert_param s n p j e').1.
Proof.
  destruct p; simpl; unfold as_value, as_list; simpl; rewrite ?(convert_meta_error s j _ e e');
    try done; repeat case_match; simpl; try done; f_equal;
    apply convert_meta_error || apply convert_items_error.
Qed.

Lemma convert_params_error s n ps args e e' :
  (convert_params s n ps args e).1 = (convert_params s n ps args e').1.
Proof.
  revert n e e'. induction ps as [|p ps IH]; intros n e e'; simpl; [done|].
  pose proof (convert_param_error s n p (arr_at n args) e e') as Hp.
  destruct (convert_param _ _ _ _ e) as [[v|] e1], (convert_param _ _ _ _ e') as [[v'|] e2];
    simpl in *; try done. injection Hp as <-. specialize (IH (S n) e1 e2).
  destruct (convert_params _ _ _ _ e1) as [[] ?], (convert_params _ _ _ _ e2) as [[] ?];
    simpl in *; congruence.
Qed.

Section Typed.
Context {LB : QtLibLaws QB}.

Lemma convert_meta_typed s j t e v e' : convert_meta s j t e = (Some v, e') -> of_type t v.
Proof.
  unfold convert_meta. destruct (fromJson s j t) as [w|] eqn:E; [|done].
  destruct (v_valid w) eqn:Hv; [|done]. intros [= <- _]. split; [done|].
  by apply (fromJson_has_type s j).
Qed.

Lemma convert_items_typed s i l e vs e' :
  convert_items s i l e = (Some vs, e') -> Forall (typed_item i) vs.
Proof.
  revert e vs e'. induction l as [|j l IH]; intros e vs e'; simpl; [by intros [= <- _]|].
  destruct (match i with IVariant => _ | _ => _ end) as [[v|] e1] eqn:E; [|done].
  destruct (convert_items s i l e1) as [[vs'|] e2] eqn:El; [|done]. intros [= <- _].
  constructor; [|by eapply IH].
  destruct i; [done|by eapply convert_meta_typed..].
Qed.

Lemma trunc_in_range lo hi x :
  valid_double x = true -> Z.abs lo < 2 ^ 53 -> Z.abs hi < 2 ^ 53 ->
  int_in_range lo hi x = true -> lo <= trunc_Z x <= hi.
Proof.
  intros Hv Hlo Hhi H. apply int_in_range_spec in H as (z & Hz & Hr); [|done..].
  by rewrite (trunc_integral _ _ Hz).
Qed.

Lemma convert_param_typed s n p j e x e' :
  json_valid j -> convert_param s n p j e = (Some x, e') -> typed_argument p x.
Proof.
  intros Hj. destruct p; simpl; unfold as_value, as_list; simpl.
  - by destruct j; intros; simplify_eq/=.
  - destruct j; try done. destruct (int_in_range _ _ _) eqn:E; intros; simplify_eq/=.
    by apply trunc_in_range.
  - destruct j; try done. destruct (int_in_range _ _ _) eqn:E; intros; simplify_eq/=.
    by apply trunc_in_range.
  - destruct j; try done. destruct (isfinite _) eqn:E; intros; simplify_eq/=.
    case_bool_decide; [by eauto|done].
  - destruct j, nullable; intros; by simplify_eq/=.
  - destruct (fromJson s j MT_QVariant); intros; by simplify_eq/=.
  - destruct (convert_meta _ _ _ _) as [[v|] e1] eqn:E; intros; simplify_eq/=.
    by eapply convert_meta_typed.
  - destruct (convert_meta _ _ _ _) as [[v|] e1] eqn:E; intros; simplify_eq/=.
    by eapply convert_meta_typed.
  - destruct (_ && _); [done|].
    destruct (convert_meta _ _ _ _) as [[v|] e1] eqn:E; intros; simplify_eq/=.
    by eapply convert_meta_typed.
  - destruct j; try done.
    destruct (convert_items _ _ _ _) as [[l'|] e1] eqn:E; intros; simplify_eq/=.
    exact (convert_items_typed _ _ _ _ _ _ E).
  - destruct j; try done.
    destruct (convert_items _ _ _ _) as [[l'|] e1] eqn:E; intros; simplify_eq/=.
    exact (convert_items_typed _ _ _ _ _ _ E).
  - by destruct j; intros; simplify_eq/=.
Qed.

Lemma arr_at_valid n args : Forall json_valid args -> json_valid (arr_at n args).
Proof.
  unfold arr_at. intros H. revert n. induction H; intros [|n]; simpl; auto.
Qed.

Lemma converted_arguments s n ps args e xs e' :
  Forall json_valid args -> convert_params s n ps args e = (Some xs, e') ->
  Forall2 typed_argument ps xs.
Proof.
  intros Hargs. revert n e xs e'. induction ps as [|p ps IH]; intros n e xs e'; simpl.
  { by intros [= <- _]. }
  destruct (convert_param _ _ _ _ _) as [[x|] e1] eqn:E; [|done].
  destruct (convert_params _ _ _ _ _) as [[xs'|] e2] eqn:Es; [|done]. intros [= <- _].
  constructor; [|by eapply IH]. eapply convert_param_typed; [by apply arr_at_valid|exact E].
Qed.

(** C19: the arguments a generated shard passes to C++ have the types the
    parameters declare: integers fit their 32 bits, doubles are finite, floats are
    finite doubles rounded to single precision (which is never NaN, but an infinity when
    the number is too large: [float_argument_overflows]), values and list entries are
    valid and of the meta-type of the C++ type; there is exactly one per parameter. *)
Theorem convert_params_typed s n ps args e xs e' :
  Forall json_valid args -> convert_params s n ps args e = (Some xs, e') ->
  Forall2 typed_argument ps xs.
Proof. apply converted_arguments. Qed.

(** The shards test the number of the request and not the float they pass on: the
    finite 1e39 is accepted for a float parameter and passed as infinity. *)
Lemma float_argument_overflows s n e :
  let raw := binary_normalize prec emax (10 ^ 39) 0 false in
  isfinite raw = true /\
  convert_param s n (PNumber "float") (JDouble raw) e = (Some (CFloat (S754_infinity false)), e).
Proof. by vm_compute. Qed.

End Typed.

(** ** Calls *)

(** A target that does not apply does nothing, one that applies handles the
    call. *)
Definition decided (applies : bool) (out : json) (e : string) (s : state)
    (r : outcome (bool * json * string) * state) : Prop :=
  match r with
  | (Done (false, out', e'), s') => applies = false /\ out' = out /\ e' = e /\ s' = s
  | _ => applies = true
  end.

Lemma answer_after {A} (m : M A) r (f : A -> cxx_result r) out e s st :
  decided true out e st ((let! x := m in answer r (f x) out e) s).
Proof.
  unfold answer, bind, ret. destruct (m s) as [[x|what|u] s']; [|done..].
  by destruct (result_json r (f x) s') as [[[j|e']|what|u] s''].
Qed.

Lemma call_target_spec md c rec row t args out e s :
  match call_target md c rec row t args out e with
  | Some body => decided (target_applies md c rec t s) out e s (body s)
  | None => target_applies md c rec t s = false
  end.
Proof.
  destruct t as [cl|cl]; cbn.
  - destruct rec as [[o|]|id]; [|done|case_bool_decide; [|done]].
    + unfold bind at 1, get_state. destruct (w_is_a _ _ _); [|done].
      apply (answer_after _ _ (fun x => x)).
    + unfold bind at 1, get_state. simpl. destruct (valueForId s id) as [v|]; [|done].
      case_bool_decide; [|done]. unfold bind at 1.
      destruct (call _ s) as [[[v' x]|what|u] s1]; [|done..].
      unfold bind at 1. destruct (store_value id v' s1) as [[[]|what|u] s2]; [|done..].
      apply (answer_after _ _ (fun x => x)).
  - case_bool_decide; [|done]. apply (answer_after _ _ (fun x => x)).
Qed.

Lemma try_targets_spec sh c rec row l args out e s :
  match try_targets sh c rec row l args out e s with
  | (Done (false, out', e'), s') => out' = out /\ e' = e /\ s' = s /\ no_target sh c rec l s
  | r => target_applied sh c rec row l args out e s r
  end.
Proof.
  induction l as [|t l IH]; simpl; [by split_and!; try (intros t ?%not_elem_of_nil)|].
  assert ((target_defined sh t = true -> target_applies (ms_module sh) c rec t s = false) ->
    match try_targets sh c rec row l args out e s with
    | (Done (false, out', e'), s') => out' = out /\ e' = e /\ s' = s /\ no_target sh c rec (t :: l) s
    | r => target_applied sh c rec row (t :: l) args out e s r
    end) as IH'.
  { intros Ht. assert (forall r, target_applied sh c rec row l args out e s r ->
      target_applied sh c rec row (t :: l) args out e s r) as Hmono.
    { intros r (t' & body & Hin & H). exists t', body. split; [by right|done]. }
    destruct (try_targets _ _ _ _ _ _ _ _ s) as [[[[[] ?] ?]|?|?] ?]; try by apply Hmono.
    destruct IH as (-> & -> & -> & Hn). split_and!; [done..|].
    intros t' [->|Hin]%elem_of_cons; [exact Ht|by apply Hn]. }
  change (macro_defined _ _ _) with (target_defined sh t).
  destruct (target_defined sh t) eqn:Hm; [|by apply IH'].
  pose proof (call_target_spec (ms_module sh) c rec row t args out e s) as Hd.
  destruct (call_target _ _ _ _ t _ _ _) as [body|] eqn:E; [|by apply IH'].
  unfold decided in Hd. unfold bind at 1.
  destruct (body s) as [[[[[] o'] e']|what|u] s'] eqn:Eb.
  2:{ destruct Hd as (Hd & -> & -> & ->). by apply IH'. }
  all: exists t, body; split_and!; [left|done..].
Qed.

(** One row. *)
Lemma run_row_spec sh c rec sg args row out e s :
  match run_row sh c rec sg args row out e s with
  | (Done (false, out', _), s') => out' = out /\ s' = s /\
      (row_enabled sh row = true -> signature_text row = sg ->
       arguments_fit s args row /\ no_target sh c rec (sr_targets row) s)
  | r => row_refused sh sg args out s row r \/ row_called sh c rec sg args out s row r
  end.
Proof.
  unfold run_row. destruct (row_enabled sh row) eqn:He; simpl; [|done].
  case_bool_decide as Hs; simpl; [|by split_and!]. subst sg.
  case_bool_decide as Hl; simpl.
  2:{ left. split_and!; [done..|]. eexists. split; [by left|done]. }
  unfold bind at 1, get_state.
  pose proof (convert_params_error s 0 (sr_params row) args e estr) as Herr.
  destruct (convert_params s 0 (sr_params row) args e) as [[vs|] e1] eqn:Ec; simpl in Herr.
  - pose proof (try_targets_spec sh c rec row (sr_targets row) vs out e1 s) as H.
    assert (forall r, target_applied sh c rec row (sr_targets row) vs out e1 s r ->
      row_called sh c rec (signature_text row) args out s row r) as Hc.
    { intros r Hr. split_and!; [done..|]. by exists vs, e, e1. }
    destruct (try_targets _ _ _ _ _ _ _ _ s) as [[[[[] o'] e']|what|u] s']; auto.
    destruct H as (-> & -> & -> & Hn). split_and!; [done..|]. intros _ _. split; [|done].
    split; [done|]. rewrite <- Herr. by eexists.
  - left. split_and!; [done..|]. exists e1. split; [|done]. right. split; [done|by exists e].
Qed.

Lemma run_method_shard_outcome sh rec c sg args out e s :
  match run_method_shard sh rec c sg args out e s with
  | (Done (false, out', _), s') => out' = out /\ s' = s /\
      forall row, row ∈ ms_rows sh -> row_enabled sh row = true -> signature_text row = sg ->
        arguments_fit s args row /\ no_target sh c rec (sr_targets row) s
  | r => exists row, row ∈ ms_rows sh /\
      (row_refused sh sg args out s row r \/ row_called sh c rec sg args out s row r)
  end.
Proof.
  unfold run_method_shard. generalize (ms_rows sh). intros rows. revert e.
  induction rows as [|row rows IH]; intros e; simpl.
  { split_and!; [done..|]. by intros row ?%not_elem_of_nil. }
  pose proof (run_row_spec sh c rec sg args row out e s) as H. unfold bind at 1.
  destruct (run_row _ _ _ _ _ _ _ _ s) as [[[[[] o'] e']|what|u] s'].
  2:{ destruct H as (-> & -> & Hfit). specialize (IH e').
      destruct (run_rows _ _ _ _ _ _ _ _ s) as [[[[[] o2] e2]|what|u] s2].
      2:{ destruct IH as (-> & -> & Hall). split_and!; [done..|].
          intros row' [->|Hin]%elem_of_cons; auto. }
      all: destruct IH as (row' & Hin & IH); exists row'; split; [by right|exact IH]. }
  all: exists row; split; [left|exact H].
Qed.

(** C10: what a generated shard does with a call. It either leaves the call to
    the others, without any effect, and then the arguments fit every row compiled in
    for the signature and none of its targets is for the receiver; or one of its rows
    has the signature, and the row refuses the arguments, with the error for their
    number or for the argument that does not convert and without any effect, or one of
    its targets, which is for the receiver, is called with the converted arguments, and
    the outcome of that call is the outcome of the shard. *)
Theorem run_method_shard_spec sh rec c sg args out e s :
  match run_method_shard sh rec c sg args out e s with
  | (Done (false, out', _), s') => out' = out /\ s' = s /\
      forall row, row ∈ ms_rows sh -> row_enabled sh row = true -> signature_text row = sg ->
        arguments_fit s args row /\ no_target sh c rec (sr_targets row) s
  | r => exists row, row ∈ ms_rows sh /\
      (row_refused sh sg args out s row r \/ row_called sh c rec sg args out s row r)
  end.
Proof. apply run_method_shard_outcome. Qed.

(** ** Refused constructions *)

Section Refused.
Context {QL : QtLaws QW}.

Lemma adopt_or_delete_spec o parent e s :
  w_alive (st_world s) o = true ->
  match adopt_or_delete o parent e s with
  | (Done (Some o', _), s') => o' = o /\ st_bridge s' = st_bridge s
  | (Done (None, _), s') => s' = State _ _ (st_bridge s) (w_delete o (st_world s))
  | (Threw _, s') => st_bridge s' = st_bridge s
  | (Crashed _, _) => False
  end.
Proof.
  intros Ha. unfold adopt_or_delete. unfold bind at 1. pose proof (adopt_effect o parent e s) as H.
  destruct (adopt (Some o) parent e s) as [[[r e']|what|u] s']; [|done..].
  destruct H as [[-> Hb]|[-> ->]]; [done|].
  unfold bind, get_state. by rewrite Ha.
Qed.

Lemma constructs_none e s : constructs s (Done (None, e), s).
Proof. split; [done|apply rtc_refl]. Qed.

Lemma constructs_new c cxx parent e s :
  constructs s ((let! o := call (QNew c cxx) in adopt_or_delete o parent e) s).
Proof.
  unfold bind, call. destruct (w_native (QNew c cxx) (st_world s)) as [[o|what] w'] eqn:E; [|done].
  assert (w_alive w' o = true) as Ha.
  { pose proof (law_new_fresh c cxx (st_world s) o) as H. rewrite E in H. by apply H. }
  pose proof (adopt_or_delete_spec o parent e (State _ _ (st_bridge s) w') Ha) as H.
  destruct (adopt_or_delete o parent e _) as [[[[o'|] e']|what|u] s']; simpl in *; [| |done..].
  - destruct H as [-> Hb]. split; [done|]. exists (st_world s), c, cxx, w'. split; [apply rtc_refl|done].
  - subst s'. split; [done|]. apply rtc_once. by exists c, cxx, o, w'.
Qed.

Lemma construct_candidate_spec sh c ca parent args s :
  constructs s (construct_candidate sh c ca parent args s).
Proof.
  unfold construct_candidate. destruct (negb _); [apply constructs_none|].
  unfold bind at 1, get_state.
  destruct (convert_params _ _ _ _ _) as [[vs|] e]; [|apply constructs_none]. cbv zeta.
  destruct (ca_parent ca) as [[n pc]|]; [destruct (_ && _); [apply constructs_none|]|].
  all: destruct (_ || _); [apply constructs_none|apply constructs_new].
Qed.

Lemma try_candidates_spec sh c l parent args e s :
  constructs s (try_candidates sh c l parent args e s).
Proof.
  revert e s. induction l as [|ca l IH]; intros e s; simpl; [exact (constructs_none e s)|].
  destruct (candidate_enabled sh c ca); [|apply IH].
  pose proof (construct_candidate_spec sh c ca parent args s) as H. unfold bind at 1.
  destruct (construct_candidate sh c ca parent args s) as [[[[o|] e']|what|u] s1]; [done| |done..].
  destruct H as [Hb Hd]. set (e2 := if str_empty e' then e else e'). specialize (IH e2 s1).
  destruct (try_candidates sh c l parent args e2 s1) as [[[[o|] e3]|what|u] s2]; simpl in *; [| |congruence|done].
  - destruct IH as [Hb2 (w & cn & cxx & w' & Hw & Hn)]. split; [congruence|].
    exists w, cn, cxx, w'. split; [by eapply rtc_trans|done].
  - destruct IH as [Hb2 Hd2]. split; [congruence|by eapply rtc_trans].
Qed.

(** C20: a refused construction leaves nothing behind. When a generated shard
    gives no object, the bridge is as before and Qt has only seen objects that were
    constructed and, once adopt had refused them, deleted again while they were
    alive; when it gives one, it is the object of the last constructor that ran. The
    shards never delete an object twice. *)
Theorem refused_construction_discarded sh rows m c parent args e s :
  match construct_object sh rows m c parent args None e s with
  | (Done (_, None, _), s') =>
      st_bridge s' = st_bridge s /\ rtc discarded (st_world s) (st_world s')
  | (Done (handled, Some o, _), s') =>
      handled = true /\ st_bridge s' = st_bridge s /\
      exists w cn cxx w', rtc discarded (st_world s) w /\ w_native (QNew cn cxx) w = (Replied o, w')
  | (Threw _, s') => st_bridge s' = st_bridge s
  | (Crashed _, _) => False
  end.
Proof.
  induction rows as [|row rows IH]; simpl; [split; [done|apply rtc_refl]|].
  destruct (row_applies sh m c args row); [|exact IH].
  pose proof (try_candidates_spec sh (cr_class row) (cr_candidates row) parent args estr s) as H.
  unfold bind at 1.
  by destruct (try_candidates sh (cr_class row) (cr_candidates row) parent args estr s) as [[[[o|] last]|what|u] s'].
Qed.

End Refused.

End ShardCalls.

(** ** Witnesses *)

Lemma convert_params_typed_witness :
  convert_params toy_running 0 [PInt; PString false; PList (IMeta "QString")]
    [num 5; JString "go"; JArray [JString "a"]] estr =
    (Some [CInt 5; CString "go"; CList [VString "a"]], estr) /\
  Forall2 typed_argument [PInt; PString false; PList (IMeta "QString")]
    [CInt 5; CString "go"; CList [VString "a"]].
Proof.
  split; [vm_compute; reflexivity|].
  apply (convert_params_typed toy_running 0 _
    [num 5; JString "go"; JArray [JString "a"]] estr _ estr); [|vm_compute; reflexivity].
  repeat constructor; vm_compute; reflexivity.
Defined.
