(* ===== verification/Registry.v ===== *)
(** The tables of the generated part: the module registry, the names it
    publishes, the native constructors and the descriptions of value types. *)
From S2P Require Export Wire Toy Events.

(** * Definitions *)

(** The class a line of createObject builds, and whether it takes the parent
    as a QWidget. *)
Definition row_class_name (r : explicit_row) : string :=
  match r with
  | Row c _ _ | AxRow c _ _ => c
  | TableWidgetRow => "QTableWidget"
  | SelectionModelRow => "QItemSelectionModel"
  | SettingsRow => "QSettings"
  end.

Definition row_takes_widget (r : explicit_row) : bool :=
  match r with
  | Row _ _ l | AxRow _ _ l => existsb (fun a => match a with WidgetParent => true | _ => false end) l
  | TableWidgetRow => true
  | SelectionModelRow | SettingsRow => false
  end.

Definition same_names (l1 l2 : list string) : Prop := forall x, x ∈ l1 <-> x ∈ l2.

Section Candidates.
Context {T : QtTypes} {QB : QtLib} {QW : QtWorld} {CT : CxxTraits}.

(** The modules a class name may refer to: all of them, or those named in
    front of its first dot, that accept the class. *)
Definition candidates_in (moduleName : string) (accepts : gmodule -> bool) (l : list gmodule) :
    list gmodule :=
  filter (fun m => (str_empty moduleName || bool_decide (moduleName = m_name m)) && accepts m = true) l.

Definition candidates (qualifiedName : string) (accepts : string -> gmodule -> bool) : list gmodule :=
  let '(moduleName, className) := split_qualified qualifiedName in
  candidates_in moduleName (accepts className) modules.

(** The qualified names that [constructors] publishes for the short name [c]. *)
Definition published_for {GN : GeneratedNames} (c q : string) : Prop :=
  q ∈ availableConstructors ++ availableArgumentConstructors /\ contains_dot q = true /\ after_dot q = c.

(** The module [m] knows the class [c]. *)
Definition known_in {GN : GeneratedNames} (c m : string) : Prop :=
  (exists g, g ∈ modules /\ m_name g = m /\ provides c g = true) \/ m ∈ argumentConstructorModules c.

(** The short names of all modules, with repetitions. *)
Definition short_names (names : gmodule -> list json) : list string :=
  modules ≫= (fun m => to_string <$> names m).

End Candidates.

(** Two facts of Qt: Qt3DAnimation::QAnimationGroup can be created,
    QAnimationGroup of QtCore is abstract; the headers of the other classes are
    missing. *)
Definition animation_traits : CxxTraits := traits_with (fun m c =>
  if bool_decide (c = "QAnimationGroup"%string) then
    if bool_decide (m = "Qt3DAnimation"%string) then
      Some (CxxClass c true false false false false true false false false false true true
              (toy_class_meta "Qt3DAnimation::QAnimationGroup") None false)
    else if bool_decide (m = "QtCore"%string) then
      Some (CxxClass c true false false false false true true false false false true true
              (toy_class_meta c) None false)
    else None
  else None).

Definition toy_animation_request : jmembers :=
  toy_request [("op"%string, JString "new"); ("class"%string, JString "QAnimationGroup")].

(** * Lemmas *)

(** Boolean forms, for tables that are checked by computation. *)
Lemma same_names_decide l1 l2 :
  forallb (fun x => str_mem x l2) l1 && forallb (fun x => str_mem x l1) l2 = true ->
  same_names l1 l2.
Proof.
  intros [H1 H2]%andb_true_iff x. rewrite forallb_forall in H1, H2.
  split; intros Hx%list_elem_of_In; [apply H1 in Hx|apply H2 in Hx]; by apply bool_decide_eq_true in Hx.
Qed.

Section Selection.
Context {T : QtTypes} {QB : QtLib} {QW : QtWorld} {CT : CxxTraits}.

Lemma select_module_candidates moduleName accepts l selected :
  select_module moduleName accepts l selected =
  match selected, candidates_in moduleName accepts l with
  | None, [] => Some None
  | None, [m] => Some (Some m)
  | Some m, [] => Some (Some m)
  | _, _ => None
  end.
Proof.
  revert selected. induction l as [|m l IH]; intros selected; simpl; [by destruct selected|].
  unfold candidates_in in *. rewrite filter_cons, !IH.
  destruct (str_empty moduleName), (bool_decide_reflect (moduleName = m_name m)), (accepts m); simpl;
    try (case_decide; [|done]); try (case_decide; [done|]); destruct selected; try done;
    by repeat case_match.
Qed.

End Selection.

Lemma table_row_found c methods l :
  NoDup l.*1 -> (c, methods) ∈ l -> table_row c l = Some methods.
Proof.
  induction l as [|[n ms] l IH]; simpl; intros Hnd Hin; [by apply not_elem_of_nil in Hin|].
  apply NoDup_cons in Hnd as [Hn Hnd]. apply elem_of_cons in Hin as [[= -> ->]|Hin].
  - by rewrite bool_decide_eq_true_2.
  - rewrite bool_decide_eq_false_2; [by apply IH|]. intros ->. apply Hn.
    apply list_elem_of_fmap. by exists (n, methods).
Qed.

Lemma table_row_missing c l : c ∉ l.*1 -> table_row c l = None.
Proof.
  induction l as [|[n ms] l IH]; simpl; intros Hin; [done|].
  rewrite bool_decide_eq_false_2; [apply IH; set_solver|set_solver].
Qed.

Lemma describe_not_undefined c : is_undefined (describeDirectValueType c) = false.
Proof. unfold describeDirectValueType. by destruct (table_row _ _). Qed.

(** ** Properties *)

(** C35: the four tables of native constructors agree. The classes that
    createObject builds itself are exactly those of isExplicitConstructor, those
    it gives a QWidget parent are exactly the classes of widgetClasses, every
    explicit constructor is published by the factory of its module and by no
    other, and no module is declared twice. *)
Theorem explicit_tables_agree :
  same_names (row_class_name <$> explicit_rows) (explicit_constructors.*2) /\
  same_names (row_class_name <$> filter (fun r => row_takes_widget r = true) explicit_rows) widgetClasses /\
  (forall m c, (m, c) ∈ explicit_constructors <->
     exists f, f ∈ factory_modules /\ fm_name f = m /\ c ∈ fm_explicit f) /\
  NoDup explicit_constructors /\ NoDup (fm_name <$> factory_modules).
Proof.
  split_and!; [apply same_names_decide; vm_compute; done..| | |].
  - intros m c. transitivity ((m, c) ∈ factory_modules ≫= fun f => pair (fm_name f) <$> fm_explicit f).
    + revert m c. assert (bool_decide (explicit_constructors =
        factory_modules ≫= fun f => pair (fm_name f) <$> fm_explicit f) = true) as H.
      { vm_compute. done. }
      apply bool_decide_eq_true in H. by rewrite H.
    + rewrite list_elem_of_bind. setoid_rewrite list_elem_of_fmap. naive_solver.
  - apply (bool_decide_eq_true_1 _). vm_compute. reflexivity.
  - apply str_no_dup_sound. vm_compute. reflexivity.
Qed.

(** Descriptions of value types. The table has no name twice; a name in
    it is described by its row, with exactly the methods of the row, any other
    name by null. *)
Theorem describeDirectValueType_spec :
  NoDup value_table.*1 /\
  (forall c methods, (c, methods) ∈ value_table ->
     describeDirectValueType c =
       make_object [("type"%string, JString c); ("kind"%string, JString "value");
                    ("methods"%string, strings_array methods)]) /\
  (forall c, c ∉ value_table.*1 -> describeDirectValueType c = JNull).
Proof.
  assert (NoDup value_table.*1) as Hnd by (apply str_no_dup_sound; vm_compute; reflexivity).
  split; [done|]. unfold describeDirectValueType. split.
  - intros c methods Hin. by rewrite (table_row_found c methods).
  - intros c Hc. by rewrite table_row_missing.
Qed.

Section Registry.
Context {T : QtTypes} {QB : QtLib} {QW : QtWorld} {CT : CxxTraits}.

(** C33: name resolution. valueMetaType, classMetaObject and construct resolve
    a name [Module.Class] or [Class] among the candidate modules (those with the
    module name, or all, that know the class): with none they report nothing, with
    one they use it, with several they report the ambiguity and do nothing. *)
Theorem registry_resolves q error parent s :
  let c := (split_qualified q).2 in
  valueMetaType q error =
    match candidates q (fun c m => mt_valid (m_valueType m c)) with
    | [] => (MT_Invalid, error)
    | [m] => (m_valueType m c, error)
    | _ => (MT_Invalid, q_arg "value type %1 is ambiguous across Qt modules; use Module.%1" c)
    end /\
  classMetaObject q error =
    match candidates q (fun c m => is_some_meta (m_metaObject m c)) with
    | [] => (None, error)
    | [m] => (m_metaObject m c, error)
    | _ => (None, q_arg "class %1 is ambiguous across Qt modules; use Module.%1" c)
    end /\
  construct q parent error s =
    match candidates q provides with
    | [] => (Done (None, error), s)
    | [m] => m_construct m c parent error s
    | _ => (Done (None, q_arg "class %1 is ambiguous across Qt modules; use Module.%1" c), s)
    end.
Proof.
  unfold valueMetaType, classMetaObject, construct, candidates.
  destruct (split_qualified q) as [moduleName c]. cbn [fst snd]. rewrite !select_module_candidates.
  split; [|split];
    match goal with |- context [candidates_in ?m ?a ?l] => destruct (candidates_in m a l) as [|? [|]] end;
    reflexivity.
Qed.

(** The published names. availableValueTypes and availableConstructors
    are sorted and without repetition, and contain exactly the qualified names of
    every module together with the short names that occur once in all modules. *)
Theorem published_names_spec names :
  let l := published_names names in
  Sorted str_le l /\ NoDup l /\
  forall x, x ∈ l <->
    (exists m v, m ∈ modules /\ v ∈ names m /\ x = qualify (m_name m) (to_string v)) \/
    str_count x (short_names names) = 1%nat.
Proof.
  intros l. unfold l, published_names. split_and!; [apply sorted_set_sorted|apply NoDup_sorted_set|].
  intros x. rewrite elem_of_sorted_set, elem_of_app, elem_of_counted_once.
  rewrite list_elem_of_bind. setoid_rewrite list_elem_of_fmap. split.
  - intros [(m & (v & -> & Hv) & Hm)|H]; [left; by exists m, v|by right].
  - intros [(m & v & Hm & Hv & ->)|H]; [left; exists m; split; [by exists v|done]|by right].
Qed.

(** [describe_value_type] never finds a type unknown. Every non-empty
    name without NUL and without an ambiguity is answered with success: the
    meta-object's description, a row of the table, or, for an unknown type, null.
    The two branches after the table, the description of types that only have
    constructors and the error message, are never reached. *)
Theorem describe_value_type_always_succeeds {GN : GeneratedNames} {G : Generated} request type name :
  to_string (obj_value "type" request) = name -> name <> estr -> hasNul name = false ->
  valueMetaType name estr = (type, estr) ->
  exists v, op_describe_value_type request = success v /\
    ((exists m, q_meta_object type = Some m /\ v = metaObjectDescription m) \/
     v = describeDirectValueType (q_section_last name)).
Proof.
  intros Hn Hne Hnul Ht. unfold op_describe_value_type. cbv zeta. rewrite Hn, Hnul.
  replace (str_empty name) with false by (by destruct name). cbn [orb]. rewrite Ht. cbn [str_empty negb].
  destruct (if mt_valid type then q_meta_object type else None) as [m|] eqn:Hm.
  - exists (metaObjectDescription m). split; [done|]. left. exists m.
    by destruct (mt_valid type).
  - exists (describeDirectValueType (q_section_last name)). split; [|by right].
    by rewrite describe_not_undefined.
Qed.

(** ** Short names *)

Lemma known_by_computation c m :
  existsb (fun g => bool_decide (m_name g = m) && provides c g) modules = true ->
  exists g, g ∈ modules /\ m_name g = m /\ provides c g = true.
Proof.
  intros (g & Hg%list_elem_of_In & [Hm%bool_decide_eq_true Hp]%andb_true_iff)%existsb_exists. by exists g.
Qed.

Lemma str_index_of_None a c : str_index_of a c = None -> str_contains a c = false.
Proof.
  induction c as [|b c IH]; simpl; [done|]. case_bool_decide; simpl; [done|].
  destruct (str_index_of a c); [done|auto].
Qed.

(** One qualified name ends in [c]. *)
Lemma published_for_once {GN : GeneratedNames} c :
  str_count c (after_dot <$> sorted_set (filter (fun n => contains_dot n = true)
    (availableConstructors ++ availableArgumentConstructors))) = 1%nat <->
  exists q, forall q', published_for c q' <-> q' = q.
Proof.
  set (l := sorted_set _). assert (NoDup l) as Hnd by apply NoDup_sorted_set.
  assert (forall q, published_for c q <-> q ∈ filter (fun q => after_dot q = c) l) as Hp.
  { intros q. unfold published_for, l. rewrite list_elem_of_filter, elem_of_sorted_set, list_elem_of_filter.
    tauto. }
  assert (str_count c (after_dot <$> l) = length (filter (fun q => after_dot q = c) l)) as ->.
  { unfold str_count. clear. induction l as [|q l IH]; [done|]. rewrite fmap_cons, !filter_cons.
    by repeat case_decide; simpl; rewrite ?IH. }
  apply (NoDup_filter (fun q => after_dot q = c)) in Hnd. setoid_rewrite Hp. clear Hp.
  destruct (filter _ l) as [|q [|q' r]]; split; try done.
  - intros [q H]. specialize (H q). set_solver.
  - intros _. exists q. set_solver.
  - intros [x H]. apply NoDup_cons in Hnd as [Hq _].
    assert (q = x) as -> by (apply H; left). assert (q' = x) as -> by (apply H; right; left).
    destruct Hq. left.
Qed.

(** Two modules that know a class make its short name ambiguous. *)
Lemma class_error_ambiguous {GN : GeneratedNames} c m1 m2 :
  str_index_of "."%char c = None -> known_in c m1 -> known_in c m2 -> m1 <> m2 ->
  class_error c = Some (q_arg "class %1 is ambiguous across Qt modules; use Module.%1" c).
Proof.
  intros Hc H1 H2 Hne. unfold class_error. rewrite Hc. set (l := sorted_set _).
  assert (forall m, known_in c m -> m ∈ l) as Hl.
  { intros m Hm. apply elem_of_sorted_set, elem_of_app. destruct Hm as [(g & Hg & <- & Hp)|]; [left|by right].
    apply list_elem_of_fmap. exists g. split; [done|]. by apply list_elem_of_filter. }
  apply Hl in H1. apply Hl in H2. destruct l as [|x [|y r]]; [set_solver|set_solver|].
  replace (1 <? _) with true; [done|]. symmetry. apply Z.ltb_lt. simpl. lia.
Qed.

Lemma op_new_ambiguous {GN : GeneratedNames} {G : Generated} {BF : BuildFlags} c m1 m2 request s :
  str_index_of "."%char c = None -> obj_value "class" request = JString c ->
  known_in c m1 -> known_in c m2 -> m1 <> m2 ->
  exists e, op_new request s = (Done (failure e), s) /\
    (str_empty c || hasNul c = false -> is_ok (parse_parent s (obj_value "parent" request)) = true ->
     is_undefined (obj_value "args" request) || is_array (obj_value "args" request) = true ->
     e = q_arg "class %1 is ambiguous across Qt modules; use Module.%1" c).
Proof.
  intros Hc Hcl H1 H2 Hne. unfold op_new. rewrite Hcl. cbv zeta. change (to_string (JString c)) with c.
  destruct (str_empty c || hasNul c); [eexists; split; [reflexivity|done]|]. unfold bind at 1, get_state.
  destruct (parse_parent _ _) as [parent|e]; [|eexists; split; [reflexivity|done]].
  assert (createObject c parent (to_array (obj_value "args" request)) s =
    (Done (None, q_arg "class %1 is ambiguous across Qt modules; use Module.%1" c), s)) as Hcreate.
  { unfold createObject, split_qualified. by rewrite Hc, (class_error_ambiguous c m1 m2). }
  destruct (is_undefined _), (is_array _); simpl.
  4: by eexists; split.
  all: unfold bind; rewrite Hcreate; by eexists.
Qed.

(** C36: short names. [constructors] publishes a class by its short name exactly
    when one qualified name, of those it publishes, ends in it; that counts the modules
    that can create the class. [new] counts all modules that know the class, those where
    it is abstract too: when two know it, every request with the short name is refused,
    without effect, as ambiguous (when its parent and arguments are well-formed). So a
    class that one module creates and another knows is published under a short name that
    is never accepted, like QAnimationGroup, which Qt3DAnimation creates and which is
    abstract in QtCore. *)
Theorem short_names_spec {GN : GeneratedNames} {G : Generated} {BF : BuildFlags} c :
  str_index_of "."%char c = None ->
  exists l, op_constructors = success (strings_array l) /\
    (c ∈ l <-> exists q, forall q', published_for c q' <-> q' = q) /\
    forall current request s m1 m2,
      admitted current s -> op_name request = "new"%string -> obj_value "class" request = JString c ->
      known_in c m1 -> known_in c m2 -> m1 <> m2 ->
      exists e, handleRequest current request s = (Done (failure e), s) /\
        (str_empty c || hasNul c = false -> is_ok (parse_parent s (obj_value "parent" request)) = true ->
         is_undefined (obj_value "args" request) || is_array (obj_value "args" request) = true ->
         e = q_arg "class %1 is ambiguous across Qt modules; use Module.%1" c).
Proof.
  intros Hc. eexists. split; [reflexivity|]. split.
  - rewrite std_sort_perm, elem_of_app, elem_of_counted_once, published_for_once, elem_of_sorted_set.
    split; [|by right]. intros [[Hd _]%list_elem_of_filter|]; [|done].
    unfold contains_dot in Hd. by rewrite str_index_of_None in Hd.
  - intros current request s m1 m2 Had Hop Hcl H1 H2 Hne.
    rewrite (handleRequest_running current request s "new") by set_solver.
    change (op_running "new" request s) with (op_new request s).
    by apply op_new_ambiguous with m1 m2.
Qed.

End Registry.

(** ** Witnesses *)

(** QAnimationGroup is published, and refused. *)
Lemma short_names_spec_witness :
  exists l, op_constructors (CT := animation_traits) = success (strings_array l) /\
    "QAnimationGroup"%string ∈ l /\
    handleRequest (CT := animation_traits) 7 toy_animation_request toy_running =
      (Done (failure "class QAnimationGroup is ambiguous across Qt modules; use Module.QAnimationGroup"),
       toy_running).
Proof.
  destruct (short_names_spec (CT := animation_traits) "QAnimationGroup" eq_refl) as (l & Hl & Hin & Hr).
  exists l. split; [exact Hl|split].
  - apply Hin. apply published_for_once. vm_compute. reflexivity.
  - destruct (Hr 7 toy_animation_request toy_running "Qt3DAnimation"%string "QtCore"%string)
      as (e & He & Htext); [exact toy_admitted|reflexivity|reflexivity| | |discriminate|].
    1-2: left; apply known_by_computation; vm_compute; reflexivity.
    rewrite He, Htext; reflexivity.
Defined.

Lemma describe_value_type_always_succeeds_witness :
  exists v, op_describe_value_type (toy_request [("type"%string, JString "NoSuchType")]) = success v /\
    ((exists m, q_meta_object MT_Invalid = Some m /\ v = metaObjectDescription m) \/
     v = describeDirectValueType (q_section_last "NoSuchType")).
Proof.
  assert (valueMetaType "NoSuchType" estr = (MT_Invalid, estr)) as H by (vm_compute; reflexivity).
  exact (describe_value_type_always_succeeds (toy_request [("type"%string, JString "NoSuchType")])
    MT_Invalid "NoSuchType" eq_refl ltac:(discriminate) eq_refl H).
Defined.
