(* ===== verification/FactoryFacts.v ===== *)
(** What the rows of the factory files say, checked by computation, and what
    follows for the functions that read them. *)
From S2P Require Export Registry.

(** * Definitions *)

(** The includes and the seven functions of a file are for the same classes, in
    the same order. *)
Definition sections_agree (f : factory_module) : bool :=
  let rows := fm_value_type f in
  bool_decide ((fm_includes f).*2 = rows) && bool_decide (fm_has f = rows) &&
  bool_decide (fm_construct f = rows) && bool_decide (fm_constructors f = rows) &&
  bool_decide (fm_meta_object f = rows) && bool_decide (fm_meta_object_names f = rows) &&
  bool_decide (fm_value_types f = rows).

(** * Lemmas *)

Lemma all_sections_agree : forallb sections_agree factory_modules = true.
Proof. vm_compute. reflexivity. Qed.

Section Factories.
Context {T : QtTypes} {QB : QtLib} {QW : QtWorld} {CT : CxxTraits}.

Lemma sections_agree_rows f :
  f ∈ factory_modules ->
  (fm_includes f).*2 = fm_value_type f /\ fm_has f = fm_value_type f /\
  fm_construct f = fm_value_type f /\ fm_constructors f = fm_value_type f /\
  fm_meta_object f = fm_value_type f /\ fm_meta_object_names f = fm_value_type f /\
  fm_value_types f = fm_value_type f.
Proof.
  intros Hf. pose proof all_sections_agree as H. rewrite forallb_forall in H.
  specialize (H f (proj1 (list_elem_of_In _ _) Hf)). unfold sections_agree in H. cbv zeta in H.
  rewrite !andb_true_iff, !bool_decide_eq_true in H. tauto.
Qed.

(** ** Lookups *)

(** What a lookup finds: the class of the row of that name, when there is one. *)
Definition class_in (f : factory_module) (rows : list string) (name : string) : option cxx_class :=
  if str_mem name rows then row_class f name else None.

Lemma class_in_cons f row rows name :
  class_in f (row :: rows) name =
    if bool_decide (name = row) then row_class f name else class_in f rows name.
Proof.
  unfold class_in, str_mem. destruct (decide (name = row)) as [->|Hn].
  - by rewrite !bool_decide_eq_true_2 by (done || left).
  - rewrite (bool_decide_eq_false_2 _ Hn).
    rewrite (bool_decide_ext (name ∈ row :: rows) (name ∈ rows)); [done|]. set_solver.
Qed.

(** A row without a class is passed over, whether or not the name comes again. *)
Lemma class_in_none f rows name : row_class f name = None -> class_in f rows name = None.
Proof. unfold class_in. intros ->. by destruct (str_mem _ _). Qed.

Lemma meta_object_rows_class f rows name :
  meta_object_rows f rows name =
    match class_in f rows name with Some c => exactQObjectMetaObject c name | None => None end.
Proof.
  induction rows as [|row rows IH]; [done|]. rewrite class_in_cons. cbn [meta_object_rows].
  case_bool_decide as Hn; [subst row|done].
  destruct (row_class f name) eqn:Hc; [done|]. by rewrite IH, class_in_none.
Qed.

Lemma value_type_rows_class f rows name :
  value_type_rows f rows name =
    match class_in f rows name with Some c => gadgetMetaType c | None => MT_Invalid end.
Proof.
  induction rows as [|row rows IH]; [done|]. rewrite class_in_cons. cbn [value_type_rows].
  case_bool_decide as Hn; [subst row|done].
  destruct (row_class f name) eqn:Hc; [done|]. by rewrite IH, class_in_none.
Qed.

Lemma construct_rows_class f rows name parent e :
  (exists c, class_in f rows name = Some c /\ factory c = true /\
     construct_rows f rows name parent e = create c parent e) \/
  ((forall c, class_in f rows name = Some c -> factory c = false) /\
   construct_rows f rows name parent e = ret (None, e)).
Proof.
  induction rows as [|row rows IH]; [by right|]. rewrite class_in_cons. cbn [construct_rows]. cbv zeta.
  case_bool_decide as Hn; [subst row|done].
  destruct (row_class f name) as [c|] eqn:Hc.
  - destruct (factory c) eqn:Hf; [left; by exists c|]. right. split; [by intros ? [= <-]|].
    destruct IH as [(c' & Hc' & Hf' & _)|[_ ->]]; [|done]. unfold class_in in Hc'. rewrite Hc in Hc'.
    destruct (str_mem _ _); [|done]. injection Hc' as ->. by rewrite Hf in Hf'.
  - rewrite class_in_none in IH by done. destruct IH as [(c' & ? & _)|[_ ->]]; [done|by right].
Qed.

Lemma has_class f name :
  has f name =
    match class_in f (fm_has f) name with Some c => factory c | None => false end ||
    str_mem name (fm_explicit f).
Proof.
  unfold has. f_equal. generalize (fm_has f). intros rows.
  induction rows as [|row rows IH]; [done|]. rewrite class_in_cons. cbn [existsb]. rewrite IH.
  case_bool_decide as Hn; [subst row|done]. simpl.
  destruct (row_class f name) as [c|] eqn:Hc; [|by rewrite class_in_none].
  unfold class_in. rewrite Hc. destruct (str_mem _ _); [|by rewrite orb_false_r].
  by destruct (factory c).
Qed.

Lemma elem_of_filtered f rows (P : cxx_class -> string -> bool) name :
  name ∈ filter (fun row => match row_class f row with Some c => P c row | None => false end = true) rows <->
  exists c, class_in f rows name = Some c /\ P c name = true.
Proof.
  rewrite list_elem_of_filter. unfold class_in, str_mem. split.
  - intros [H Hin]. rewrite bool_decide_eq_true_2 by done. destruct (row_class f name) as [c|]; [|done].
    by exists c.
  - intros (c & Hc & HP). case_bool_decide as Hin; [|done]. by rewrite Hc.
Qed.

(** ** Properties *)

(** C34: the functions of a factory file agree. In each of the 49 files, which
    write the list of their classes eight times: the names that
    meta_object_names_<module> and value_types_<module> publish are exactly those for
    which meta_object_<module> and value_type_<module> find something; a class that
    has_<module> knows is published by constructors_<module>; and it is one of those
    left to createObject, or construct_<module> runs its factory, while a class that
    has_<module> does not know is not constructed, without effect. *)
Theorem factory_functions_agree f name :
  f ∈ factory_modules ->
  (name ∈ meta_object_names f <-> is_Some (meta_object f name)) /\
  (name ∈ value_types f <-> mt_valid (value_type f name) = true) /\
  (has f name = true -> name ∈ constructors f) /\
  (has f name = true -> name ∈ fm_explicit f \/
     exists c, row_class f name = Some c /\ factory c = true /\
       forall parent e, construct_module f name parent e = create c parent e) /\
  (has f name = false -> forall parent e, construct_module f name parent e = ret (None, e)).
Proof.
  intros Hf. apply sections_agree_rows in Hf as (_ & Hh & Hc & Hcs & Hm & Hmn & Hv).
  unfold meta_object_names, meta_object, value_types, value_type, constructors, construct_module.
  rewrite has_class, Hh, Hc, Hcs, Hm, Hmn, Hv. generalize (fm_value_type f). intros rows. split_and!.
  - rewrite (elem_of_filtered f rows (fun c row => is_some_meta (exactQObjectMetaObject c row))).
    rewrite meta_object_rows_class. split.
    + intros (c & -> & H). by destruct (exactQObjectMetaObject c name).
    + destruct (class_in f rows name) as [c|]; [|by intros []]. intros [m Hmo]. exists c.
      by rewrite Hmo.
  - rewrite list_elem_of_filter. split; [by intros [H _]|]. intros H. split; [done|].
    rewrite value_type_rows_class in H. unfold class_in, str_mem in H. by case_bool_decide.
  - intros [H|H]%orb_true_iff; apply elem_of_sorted_set, elem_of_app.
    + left. apply (elem_of_filtered f rows (fun c row => factory c || hasInvokableConstructor c row)).
      destruct (class_in f rows name) as [c|]; [|done]. exists c. by rewrite H.
    + right. by apply bool_decide_eq_true in H.
  - intros [H|H]%orb_true_iff; [right|left; by apply bool_decide_eq_true in H].
    destruct (class_in f rows name) as [c|] eqn:E; [|done]. exists c. split_and!.
    + unfold class_in in E. by destruct (str_mem _ _).
    + done.
    + intros parent e. destruct (construct_rows_class f rows name parent e) as [(c' & E' & _ & ->)|[Hn _]].
      * rewrite E in E'. by injection E' as ->.
      * by rewrite (Hn c E) in H.
  - intros [H _]%orb_false_iff parent e.
    destruct (construct_rows_class f rows name parent e) as [(c' & E' & Hf' & _)|[_ ->]]; [|done].
    by rewrite E', Hf' in H.
Qed.

End Factories.

(** ** Witnesses *)

Lemma factory_functions_agree_witness :
  factory_qtsvg ∈ factory_modules /\ has factory_qtsvg "QSvgRenderer" = true /\
  "QSvgRenderer"%string ∈ constructors factory_qtsvg.
Proof.
  assert (factory_qtsvg ∈ factory_modules) as Hf.
  { change factory_qtsvg with (nth 38 factory_modules factory_qtsvg). apply nth_elem_of. vm_compute. lia. }
  split; [exact Hf|]. assert (has factory_qtsvg "QSvgRenderer" = true) as Hh.
  { vm_compute. reflexivity. }
  split; [exact Hh|].
  exact (proj1 (proj2 (proj2 (factory_functions_agree factory_qtsvg "QSvgRenderer" Hf))) Hh).
Defined.
