(* ===== verification/TableFacts.v ===== *)
(** What the rows of the generated shards say, checked by computation, and what
    follows for the dispatch files that run them. *)
From S2P Require Export ShardCalls ShardTables Registry.
From S2P Require Import MethodsCore.

(** * Definitions *)

#[export] Instance item_eq_dec : EqDecision item.
Proof. solve_decision. Defined.

#[export] Instance param_eq_dec : EqDecision param.
Proof. solve_decision. Defined.

(** The tables of the shards a dispatch file tries, in its order. *)
Definition dispatched {A : Type} (tables : list (string * A)) (shards : list string) : list A :=
  shards ≫= fun name => option_list (shard_at name tables).

(** ** Value types *)

Definition target_class (t : target) : string := match t with On c | Static c => c end.

Definition is_on (t : target) : bool := match t with On _ => true | Static _ => false end.

Definition value_shards : list method_shard := dispatched invoke_value_tables invoke_value_shards.

(** The value type [c] has a row for the signature [sg] in a shard that
    invokeValue tries. *)
Definition handles_value (c sg : string) : Prop :=
  exists sh row, sh ∈ value_shards /\ row ∈ ms_rows sh /\ On c ∈ sr_targets row /\
    signature_text row = sg.

(** describe_value_type publishes the method [sg] of [c]. *)
Definition describes_value (c sg : string) : Prop :=
  exists methods, describeDirectValueType c =
      make_object [("type"%string, JString c); ("kind"%string, JString "value");
                   ("methods"%string, strings_array methods)] /\ sg ∈ methods.

(** The pairs of a class and a signature of the rows, and those of a class. *)
Definition row_pairs (row : signature_row) : list (string * string) :=
  (fun t => (target_class t, signature_text row)) <$> sr_targets row.

Definition pairs_of (shards : list method_shard) : list (string * string) :=
  shards ≫= fun sh => ms_rows sh ≫= row_pairs.

Definition signatures_of (c : string) (l : list (string * string)) : list string :=
  (filter (fun p => String.eqb p.1 c = true) l).*2.

Definition str_subset (l1 l2 : list string) : bool := forallb (fun a => existsb (String.eqb a) l2) l1.

(** A table of value types says what the rows of the shards say. *)
Definition tables_agree (table : list (string * list string)) (shards : list method_shard) : bool :=
  let pairs := pairs_of shards in
  forallb (fun row =>
    let found := signatures_of row.1 pairs in
    str_subset row.2 found && str_subset found row.2) table &&
  str_subset pairs.*1 table.*1 &&
  forallb (fun sh => forallb (fun row => forallb is_on (sr_targets row)) (ms_rows sh)) shards &&
  str_subset (shards ≫= ms_types) table.*1 && str_subset table.*1 (shards ≫= ms_types).

(** ** Signatures *)

(** The rows of the shards with the signature of [row] have its parameters. *)
Definition parameters_by_signature (shards : list method_shard) (row : signature_row) : Prop :=
  forall sh' row', sh' ∈ shards -> row' ∈ ms_rows sh' -> signature_text row' = signature_text row ->
    sr_params row' = sr_params row.

(** Rows with the same signature have the same parameters. *)
Fixpoint consistent (rows : list signature_row) (seen : gmap string (list param)) : bool :=
  match rows with
  | [] => true
  | row :: rows' =>
      match seen !! signature_text row with
      | Some ps => bool_decide (ps = sr_params row) && consistent rows' seen
      | None => consistent rows' (<[signature_text row := sr_params row]> seen)
      end
  end.

(** ** Dispatch *)

Section Dispatch.
Context {T : QtTypes} {QB : QtLib} {QW : QtWorld} {CT : CxxTraits} {GN : GeneratedNames}.

(** The dispatch functions on the tables of the shards. *)
Fixpoint run_shards (shards : list method_shard) (rec : receiver) (className signature : string)
    (args : list json) (output : json) (error : string) : M (bool * json * string) :=
  match shards with
  | [] => ret (false, output, error)
  | sh :: shards' =>
      let! (handled, output, error) :=
        run_method_shard sh rec className signature args output error in
      if handled : bool then ret (true, output, error)
      else run_shards shards' rec className signature args output error
  end.

End Dispatch.

(** * Lemmas *)

Lemma str_subset_sound l1 l2 a : str_subset l1 l2 = true -> a ∈ l1 -> a ∈ l2.
Proof.
  unfold str_subset. rewrite forallb_forall. setoid_rewrite <- list_elem_of_In. intros H Ha.
  specialize (H a Ha). apply existsb_exists in H as (b & Hb & ->%String.eqb_eq).
  by apply list_elem_of_In.
Qed.

Lemma elem_of_signatures_of c sg l : sg ∈ signatures_of c l <-> (c, sg) ∈ l.
Proof.
  unfold signatures_of. rewrite list_elem_of_fmap. split.
  - intros ([c' sg'] & -> & [Hc Hin]%list_elem_of_filter). simpl in *.
    by apply String.eqb_eq in Hc as ->.
  - intros Hin. exists (c, sg). split; [done|]. apply list_elem_of_filter. split; [|done].
    apply String.eqb_refl.
Qed.

Section Agree.
Variables (table : list (string * list string)) (shards : list method_shard).
Hypothesis agree : tables_agree table shards = true.

(** The parts of the check. *)
Lemma agree_parts :
  (forall row, row ∈ table -> str_subset row.2 (signatures_of row.1 (pairs_of shards)) = true /\
     str_subset (signatures_of row.1 (pairs_of shards)) row.2 = true) /\
  str_subset (pairs_of shards).*1 table.*1 = true /\
  (forall sh row t, sh ∈ shards -> row ∈ ms_rows sh -> t ∈ sr_targets row -> is_on t = true) /\
  str_subset (shards ≫= ms_types) table.*1 = true /\
  str_subset table.*1 (shards ≫= ms_types) = true.
Proof.
  pose proof agree as H. unfold tables_agree in H. cbv zeta in H.
  apply andb_true_iff in H as [H H5]. apply andb_true_iff in H as [H H4].
  apply andb_true_iff in H as [H H3]. apply andb_true_iff in H as [H1 H2].
  rewrite forallb_forall in H1, H3. split_and!; try done.
  - intros row Hrow%list_elem_of_In. specialize (H1 row Hrow). by apply andb_true_iff in H1.
  - intros sh row t Hsh%list_elem_of_In Hrow%list_elem_of_In Ht%list_elem_of_In.
    specialize (H3 sh Hsh). rewrite forallb_forall in H3. specialize (H3 row Hrow).
    rewrite forallb_forall in H3. by apply H3.
Qed.

Lemma table_pairs c methods sg :
  (c, methods) ∈ table -> sg ∈ methods <-> (c, sg) ∈ pairs_of shards.
Proof.
  intros Hin. destruct agree_parts as [H _]. destruct (H _ Hin) as [H1 H2].
  rewrite <- elem_of_signatures_of. by split; apply str_subset_sound.
Qed.

Lemma table_listed c sg : (c, sg) ∈ pairs_of shards -> c ∈ table.*1.
Proof.
  intros Hin. destruct agree_parts as (_ & H & _). apply (str_subset_sound _ _ _ H).
  by apply (list_elem_of_fmap_2 fst) in Hin.
Qed.

Lemma table_types c : c ∈ table.*1 <-> exists sh, sh ∈ shards /\ c ∈ ms_types sh.
Proof.
  destruct agree_parts as (_ & _ & _ & H1 & H2). split.
  - intros Hc%(str_subset_sound _ _ _ H2). apply list_elem_of_bind in Hc as (sh & ? & ?). by exists sh.
  - intros (sh & Hsh & Hc). apply (str_subset_sound _ _ _ H1), list_elem_of_bind. by exists sh.
Qed.

Lemma elem_of_pairs c sg : (c, sg) ∈ pairs_of shards <->
  exists sh row, sh ∈ shards /\ row ∈ ms_rows sh /\ On c ∈ sr_targets row /\ signature_text row = sg.
Proof.
  destruct agree_parts as (_ & _ & Hon & _).
  unfold pairs_of, row_pairs. rewrite list_elem_of_bind. split.
  - intros (sh & Hrow & Hsh). apply list_elem_of_bind in Hrow as (row & Ht & Hrow).
    apply list_elem_of_fmap in Ht as (t & Ht & Hin). injection Ht as -> ->.
    exists sh, row. specialize (Hon sh row t Hsh Hrow Hin). by destruct t.
  - intros (sh & row & Hsh & Hrow & Ht & <-). exists sh. split; [|done].
    apply list_elem_of_bind. exists row. split; [|done]. apply list_elem_of_fmap. by exists (On c).
Qed.

End Agree.

Lemma value_tables_agree : tables_agree value_table value_shards = true.
Proof. vm_compute. reflexivity. Qed.

Lemma describe_row c methods :
  (c, methods) ∈ value_table ->
  describeDirectValueType c =
    make_object [("type"%string, JString c); ("kind"%string, JString "value");
                 ("methods"%string, strings_array methods)].
Proof.
  intros Hin. unfold describeDirectValueType. rewrite (table_row_found c methods); [done| |done].
  apply str_no_dup_sound. vm_compute. reflexivity.
Qed.

Lemma described_methods_inj c l1 l2 :
  make_object [("type"%string, JString c); ("kind"%string, JString "value");
               ("methods"%string, strings_array l1)] =
  make_object [("type"%string, JString c); ("kind"%string, JString "value");
               ("methods"%string, strings_array l2)] -> l1 = l2.
Proof.
  unfold strings_array. simpl. intros H. injection H as H. revert l2 H.
  induction l1 as [|a l1 IH]; intros [|b l2] H; simplify_eq/=; [done|]. f_equal. by apply IH.
Qed.

(** ** Signatures *)

Lemma consistent_sound rows seen row1 row2 :
  consistent rows seen = true -> row1 ∈ rows -> row2 ∈ rows ->
  signature_text row1 = signature_text row2 -> sr_params row1 = sr_params row2.
Proof.
  assert (forall rows seen row, consistent rows seen = true -> row ∈ rows ->
    forall ps, seen !! signature_text row = Some ps -> ps = sr_params row) as Hseen.
  { clear. intros rows. induction rows as [|r rows IH]; intros seen row H Hin ps Hps;
      [by apply not_elem_of_nil in Hin|]. simpl in H. apply elem_of_cons in Hin as [->|Hin].
    - rewrite Hps in H. apply andb_true_iff in H as [H _]. by apply bool_decide_eq_true in H.
    - destruct (seen !! signature_text r) as [ps'|] eqn:E.
      + apply andb_true_iff in H as [_ H]. by eapply (IH seen).
      + eapply IH; [exact H|done|]. rewrite lookup_insert_ne; [done|congruence]. }
  revert seen. induction rows as [|r rows IH]; intros seen H Hin1 Hin2 Heq;
    [by apply not_elem_of_nil in Hin1|].
  assert (forall row, row ∈ rows -> signature_text row = signature_text r ->
    sr_params r = sr_params row) as Hr.
  { intros row Hrow Ht. simpl in H. destruct (seen !! signature_text r) as [ps|] eqn:E.
    - apply andb_true_iff in H as [Hps%bool_decide_eq_true H]. subst ps.
      by eapply (Hseen rows seen row); [..|rewrite Ht].
    - eapply (Hseen rows _ row); [exact H|done|]. rewrite Ht. by rewrite lookup_insert_eq. }
  apply elem_of_cons in Hin1 as [->|Hin1], Hin2 as [->|Hin2].
  - done.
  - by apply Hr.
  - symmetry. by apply Hr.
  - simpl in H. destruct (seen !! signature_text r).
    + apply andb_true_iff in H as [_ H]. by eapply IH.
    + by eapply IH.
Qed.

Lemma method_rows_consistent : consistent (dispatched invoke_tables invoke_shards ≫= ms_rows) ∅ = true.
Proof. vm_compute. reflexivity. Qed.

Lemma value_rows_consistent : consistent (value_shards ≫= ms_rows) ∅ = true.
Proof. vm_compute. reflexivity. Qed.

(** ** Properties *)

(** C15: what is said of value types is what the shards do. For every name,
    describe_value_type publishes a method of a generated value type exactly when a
    row of a shard that invokeValue tries handles that signature on that type; and it
    knows exactly the types that the shards list. *)
Theorem descriptions_match_shards c :
  (forall sg, describes_value c sg <-> handles_value c sg) /\
  (describeDirectValueType c <> JNull <-> exists sh, sh ∈ value_shards /\ c ∈ ms_types sh).
Proof.
  pose proof value_tables_agree as H. rewrite <- (table_types _ _ H c). split.
  - intros sg. unfold handles_value. rewrite <- (elem_of_pairs _ _ H). split.
    + intros (methods & Hd & Hsg). destruct (decide (c ∈ value_table.*1)) as [Hc|Hc].
      * apply list_elem_of_fmap in Hc as ([c' row] & Hc & Hrow). cbn [fst] in Hc. subst c'.
        rewrite (describe_row c row Hrow) in Hd. apply described_methods_inj in Hd as <-.
        by apply (table_pairs _ _ H c row).
      * unfold describeDirectValueType in Hd. by rewrite table_row_missing in Hd.
    + intros Hin. pose proof (table_listed _ _ H c sg Hin) as Hc.
      apply list_elem_of_fmap in Hc as ([c' row] & Hc & Hrow). cbn [fst] in Hc. subst c'. exists row.
      split; [by apply describe_row|]. by apply (table_pairs _ _ H c row).
  - split.
    + intros Hd. destruct (decide (c ∈ value_table.*1)) as [|Hc]; [assumption|].
      destruct Hd. unfold describeDirectValueType. by rewrite (table_row_missing c value_table Hc).
    + intros ([c' row] & Hc & Hrow)%list_elem_of_fmap. cbn [fst] in Hc. subst c'.
      rewrite (describe_row c row Hrow). clear. unfold make_object. discriminate.
Qed.

Section DispatchFacts.
Context {T : QtTypes} {QB : QtLib} {QW : QtWorld} {CT : CxxTraits}.
#[local] Existing Instance table_names.
#[local] Existing Instance table_generated.

(** ** Dispatch *)

Lemma try_invoke_tables l object c sg args out e s :
  try_invoke l object c sg args out e s =
    run_shards (dispatched invoke_tables l) (Object object) c sg args out e s.
Proof.
  revert out e s. induction l as [|name l IH]; intros out e s; [done|].
  unfold dispatched. cbn [try_invoke g_invoke table_generated mbind list_bind].
  destruct (shard_at name invoke_tables) as [sh|]; [|apply IH]. simpl. unfold bind.
  destruct (run_method_shard _ _ _ _ _ _ _ s) as [[[[[] o] e']|what|u] s']; [done|apply IH|done..].
Qed.

Lemma try_invoke_value_tables l id c sg args out e s :
  try_invoke_value l id c sg args out e s =
    run_shards (dispatched invoke_value_tables l) (Value id) c sg args out e s.
Proof.
  revert out e s. induction l as [|name l IH]; intros out e s; [done|].
  unfold dispatched. cbn [try_invoke_value g_invoke_value table_generated mbind list_bind].
  destruct (shard_at name invoke_value_tables) as [sh|]; [|apply IH]. simpl. unfold bind.
  destruct (run_method_shard _ _ _ _ _ _ _ s) as [[[[[] o] e']|what|u] s']; [done|apply IH|done..].
Qed.

(** The verdict on the arguments is one on the signature and the parameters. *)
Lemma arguments_same s args row1 row2 e :
  signature_text row1 = signature_text row2 -> sr_params row1 = sr_params row2 ->
  (arguments_fit s args row1 <-> arguments_fit s args row2) /\
  (arguments_refused s args row1 e <-> arguments_refused s args row2 e).
Proof. unfold arguments_fit, arguments_refused. by intros -> ->. Qed.

(** What a list of shards does with a call. *)
Lemma run_shards_outcome shards rec c sg args out e s :
  match run_shards shards rec c sg args out e s with
  | (Done (false, out', _), s') => out' = out /\ s' = s /\
      forall sh row, sh ∈ shards -> row ∈ ms_rows sh -> row_enabled sh row = true ->
        signature_text row = sg ->
        arguments_fit s args row /\ no_target sh c rec (sr_targets row) s
  | r => exists sh row, sh ∈ shards /\ row ∈ ms_rows sh /\
      (row_refused sh sg args out s row r \/ row_called sh c rec sg args out s row r)
  end.
Proof.
  revert e. induction shards as [|sh shards IH]; intros e; simpl.
  { split_and!; [done..|]. by intros sh row ?%not_elem_of_nil. }
  pose proof (run_method_shard_outcome sh rec c sg args out e s) as H. unfold bind at 1.
  destruct (run_method_shard sh rec c sg args out e s) as [[[[[] o] e1]|what|u] s'].
  2:{ destruct H as (-> & -> & Hall). specialize (IH e1).
      destruct (run_shards shards rec c sg args out e1 s) as [[[[[] o2] e2]|what|u] s2].
      2:{ destruct IH as (-> & -> & IH). split_and!; [done..|].
          intros sh' row [->|Hin]%elem_of_cons; [apply Hall|by apply IH]. }
      all: destruct IH as (sh' & row & Hin & IH); exists sh', row; split; [by right|exact IH]. }
  all: destruct H as (row & H); exists sh, row; split; [left|exact H].
Qed.

Section Consistent.
Variable shards : list method_shard.
Hypothesis consistent_rows : consistent (shards ≫= ms_rows) ∅ = true.

Lemma same_signature sh1 row1 sh2 row2 :
  sh1 ∈ shards -> row1 ∈ ms_rows sh1 -> sh2 ∈ shards -> row2 ∈ ms_rows sh2 ->
  signature_text row1 = signature_text row2 -> sr_params row1 = sr_params row2.
Proof.
  intros Hs1 Hr1 Hs2 Hr2. apply (consistent_sound _ _ _ _ consistent_rows);
    apply list_elem_of_bind; eauto.
Qed.

(** Arguments that do not fit some row are refused. *)
Lemma run_shards_refuses sh row rec c args out e s :
  sh ∈ shards -> row ∈ ms_rows sh -> row_enabled sh row = true -> ~ arguments_fit s args row ->
  exists e', arguments_refused s args row e' /\
    run_shards shards rec c (signature_text row) args out e s = (Done (true, out, e'), s).
Proof.
  intros Hsh Hrow He Hfit.
  pose proof (run_shards_outcome shards rec c (signature_text row) args out e s) as H.
  assert (forall r, (exists sh' row', sh' ∈ shards /\ row' ∈ ms_rows sh' /\
      (row_refused sh' (signature_text row) args out s row' r \/
       row_called sh' c rec (signature_text row) args out s row' r)) ->
    exists e', arguments_refused s args row e' /\ r = (Done (true, out, e'), s)) as Hr.
  { intros r (sh' & row' & Hsh' & Hrow' & Hr).
    assert (forall Ht, sr_params row' = sr_params row) as Hp by
      (intros Ht; exact (same_signature sh' row' sh row Hsh' Hrow' Hsh Hrow Ht)).
    destruct Hr as [(_ & Ht & e' & Href & ->)|(_ & Ht & Hlen & vs & e0 & e1 & Hc & _)].
    - exists e'. split; [|done]. by eapply (arguments_same s args row' row); [|apply Hp|].
    - destruct Hfit. rewrite (Hp Ht) in Hlen, Hc. split; [done|].
      rewrite (convert_params_error s 0 _ _ _ e0), Hc. by eexists. }
  destruct (run_shards shards rec c (signature_text row) args out e s) as [[[[[] o] e1]|what|u] s'].
  2:{ destruct H as (_ & _ & H). destruct Hfit. by apply (H sh row). }
  all: by apply Hr.
Qed.

(** Arguments that fit are passed to a target for the receiver. *)
Lemma run_shards_calls sh row t rec c args out e s :
  sh ∈ shards -> row ∈ ms_rows sh -> row_enabled sh row = true -> arguments_fit s args row ->
  t ∈ sr_targets row -> target_defined sh t = true ->
  target_applies (ms_module sh) c rec t s = true ->
  exists sh' row', sh' ∈ shards /\ row' ∈ ms_rows sh' /\
    row_called sh' c rec (signature_text row) args out s row'
      (run_shards shards rec c (signature_text row) args out e s).
Proof.
  intros Hsh Hrow He [Hlen [vs Hfit]] Ht Hd Ha.
  pose proof (run_shards_outcome shards rec c (signature_text row) args out e s) as H.
  assert (forall r, (exists sh' row', sh' ∈ shards /\ row' ∈ ms_rows sh' /\
      (row_refused sh' (signature_text row) args out s row' r \/
       row_called sh' c rec (signature_text row) args out s row' r)) ->
    exists sh' row', sh' ∈ shards /\ row' ∈ ms_rows sh' /\
      row_called sh' c rec (signature_text row) args out s row' r) as Hr.
  { intros r (sh' & row' & Hsh' & Hrow' & [Hr|Hr]); [|by exists sh', row'].
    destruct Hr as (_ & Htext & e' & Href & _). exfalso.
    pose proof (same_signature sh' row' sh row Hsh' Hrow' Hsh Hrow Htext) as Hp.
    destruct Href as [[Hl _]|(_ & e0 & Hc)]; [congruence|].
    rewrite Hp in Hc. pose proof (convert_params_error s 0 (sr_params row) args e0 estr) as Herr.
    rewrite Hc, Hfit in Herr. done. }
  destruct (run_shards shards rec c (signature_text row) args out e s) as [[[[[] o] e1]|what|u] s'].
  2:{ destruct H as (_ & _ & H). destruct (H sh row Hsh Hrow He eq_refl) as [_ Hn].
      by rewrite (Hn t Ht Hd) in Ha. }
  all: by apply Hr.
Qed.

End Consistent.

(** C16: arguments are judged by the signature alone. When some shard has a row
    for the signature of a call and the arguments do not fit it, the call is answered
    with the error of that row, and without any effect, whatever shard comes first and
    whatever the receiver is: an object or a value of another class, or null. All rows
    with the same signature, of all shards of methods or of all shards of value
    methods, have the same parameters, so that no other row would accept them. *)
Theorem arguments_judged_by_signature sh row c args out e s :
  row ∈ ms_rows sh ->
  (sh ∈ dispatched invoke_tables invoke_shards ->
     parameters_by_signature (dispatched invoke_tables invoke_shards) row /\
     (row_enabled sh row = true -> ~ arguments_fit s args row -> forall object, exists e',
        arguments_refused s args row e' /\
        invoke object c (signature_text row) args out e s = (Done (true, out, e'), s))) /\
  (sh ∈ value_shards ->
     parameters_by_signature value_shards row /\
     (row_enabled sh row = true -> ~ arguments_fit s args row -> forall id, exists e',
        arguments_refused s args row e' /\
        invokeValue id c (signature_text row) args out e s = (Done (true, out, e'), s))).
Proof.
  intros Hrow. split; intros Hsh; split.
  - intros sh' row' Hsh' Hrow' Hs. by apply (same_signature _ method_rows_consistent sh' row' sh row).
  - intros He Hfit x. unfold invoke. rewrite try_invoke_tables.
    by apply (run_shards_refuses _ method_rows_consistent sh row).
  - intros sh' row' Hsh' Hrow' Hs. by apply (same_signature _ value_rows_consistent sh' row' sh row).
  - intros He Hfit x. unfold invokeValue. rewrite try_invoke_value_tables.
    by apply (run_shards_refuses _ value_rows_consistent sh row).
Qed.

(** C9: a call that fits is made. When some shard has a row for the signature of
    a call, compiled in, whose parameters the arguments fit, with a target for the
    receiver, then the call is handled: a target that is for the receiver, of a row
    with that signature, is called with the converted arguments, and its outcome is
    the outcome of the call. The shards before it cannot lose the call or refuse it. *)
Theorem fitting_call_is_made sh row t c args out e s :
  row ∈ ms_rows sh -> row_enabled sh row = true -> arguments_fit s args row ->
  t ∈ sr_targets row -> target_defined sh t = true ->
  (sh ∈ dispatched invoke_tables invoke_shards -> forall object,
     target_applies (ms_module sh) c (Object object) t s = true ->
     exists sh' row', sh' ∈ dispatched invoke_tables invoke_shards /\ row' ∈ ms_rows sh' /\
       row_called sh' c (Object object) (signature_text row) args out s row'
         (invoke object c (signature_text row) args out e s)) /\
  (sh ∈ value_shards -> forall id, target_applies (ms_module sh) c (Value id) t s = true ->
     exists sh' row', sh' ∈ value_shards /\ row' ∈ ms_rows sh' /\
       row_called sh' c (Value id) (signature_text row) args out s row'
         (invokeValue id c (signature_text row) args out e s)).
Proof.
  intros Hrow He Hfit Ht Hd. split; intros Hsh x Ha.
  - unfold invoke. rewrite try_invoke_tables.
    destruct (run_shards_calls _ method_rows_consistent sh row t (Object x) c args out e s)
      as (sh' & row' & H); [done..|]. by exists sh', row'.
  - unfold invokeValue. rewrite try_invoke_value_tables.
    destruct (run_shards_calls _ value_rows_consistent sh row t (Value x) c args out e s)
      as (sh' & row' & H); [done..|]. by exists sh', row'.
Qed.

End DispatchFacts.

(** ** Witnesses *)

(** A call of addLibraryPath with two arguments, on no object. *)
Lemma arguments_judged_by_signature_witness :
  exists row, row ∈ ms_rows methods_qtcore_0 /\ sr_params row = [PString true] /\
  exists e', arguments_refused toy_running [JNull; JNull] row e' /\
    invoke (G := table_generated (GN := table_names)) None "QObject" (signature_text row) [JNull; JNull] JNull estr toy_running =
      (Done (true, JNull, e'), toy_running).
Proof.
  exists (nth 1 (ms_rows methods_qtcore_0) (Sig [] estr [] RVoid [])).
  split; [by right; left|split; [vm_compute; reflexivity|]].
  refine (proj2 (proj1 (arguments_judged_by_signature methods_qtcore_0 _ "QObject" [JNull; JNull] JNull estr
    toy_running _) _) _ _ None).
  - by right; left.
  - apply list_elem_of_bind. exists "qtcore_0"%string. split; [left|].
    apply (bool_decide_eq_true_1 _). vm_compute. reflexivity.
  - vm_compute. reflexivity.
  - intros [Hlen _]. vm_compute in Hlen. discriminate.
Defined.

(** The static call QCoreApplication::addLibraryPath("plugins"). *)
Lemma fitting_call_is_made_witness :
  exists row sh' row', row ∈ ms_rows methods_qtcore_0 /\ signature_text row = "addLibraryPath(QString)"%string /\
    sh' ∈ dispatched invoke_tables invoke_shards /\ row' ∈ ms_rows sh' /\
    row_called (GN := table_names) sh' "QtCore.QCoreApplication" (Object None) (signature_text row) [JString "plugins"] JNull
      toy_running row'
      (invoke (G := table_generated (GN := table_names)) None "QtCore.QCoreApplication"
         (signature_text row) [JString "plugins"] JNull estr toy_running).
Proof.
  exists (nth 1 (ms_rows methods_qtcore_0) (Sig [] estr [] RVoid [])).
  refine (let '(ex_intro _ sh' (ex_intro _ row' H)) := proj1 (fitting_call_is_made methods_qtcore_0 _
    (Static "QCoreApplication") "QtCore.QCoreApplication" [JString "plugins"] JNull estr toy_running
    _ _ _ _ _) _ None _ in _).
  - by right; left.
  - vm_compute. reflexivity.
  - split; [vm_compute; reflexivity|]. vm_compute. by eexists.
  - left.
  - vm_compute. reflexivity.
  - apply list_elem_of_bind. exists "qtcore_0"%string. split; [left|].
    apply (bool_decide_eq_true_1 _). vm_compute. reflexivity.
  - vm_compute. reflexivity.
  - exists sh', row'. split; [by right; left|split; [vm_compute; reflexivity|exact H]].
Defined.
