(* ===== verification/ClassFacts.v ===== *)
(** What the rows of the constructor shards say, checked by computation: every
    block has a key of its own, so that a construction reaches it whatever the
    order of the shards, and what is published is compiled. *)
From stdpp Require Import pretty.
From S2P Require Export TableFacts.
From S2P Require Import ConstructorTables Toy.

(** * Definitions *)

(** The shards that the dispatch files of the constructors try. *)
Definition object_shards : list constructor_shard := dispatched constructor_tables constructor_shards.*2.

Definition value_class_shards : list constructor_shard :=
  dispatched value_constructor_tables value_constructor_shards.*2.

(** The blocks of a list of shards. *)
Definition blocks (shards : list constructor_shard) : list (constructor_shard * constructor_row) :=
  shards ≫= fun sh => pair sh <$> cs_rows sh.

(** What the test in front of a block compares with, without and with the module. *)
Definition class_key (b : constructor_shard * constructor_row) : string :=
  (cr_class b.2 ++ "/" ++ pretty (cr_count b.2))%string.

Definition module_key (b : constructor_shard * constructor_row) : string :=
  (cs_module b.1 ++ "." ++ class_key b)%string.

(** The one short name of a value class that two modules share. *)
Definition shared_name (b : constructor_shard * constructor_row) : bool :=
  String.eqb (cr_class b.2) "QTransform".

(** The module a dispatch file notes for each shard is the module of the shard. *)
Definition modules_noted (tables : list (string * constructor_shard)) (l : list (string * string)) : bool :=
  forallb (fun p => match shard_at p.2 tables with
                    | Some sh => String.eqb (cs_module sh) p.1 && negb (str_empty p.1)
                    | None => false
                    end) l.

(** Every block is for a class that the shard lists, every listed class has a
    block, and what the blocks of a class need is what publishing it needs. *)
Definition classes_agree (sh : constructor_shard) : bool :=
  str_subset (cr_class <$> cs_rows sh) (cl_class <$> cs_classes sh) &&
  str_subset (cl_class <$> cs_classes sh) (cr_class <$> cs_rows sh) &&
  forallb (fun listed => forallb (fun row =>
    negb (String.eqb (cr_class row) (cl_class listed)) ||
    forallb (fun ca => str_subset (ca_macros ca) (cl_macros listed)) (cr_candidates row))
    (cs_rows sh)) (cs_classes sh).

(** The block with the key of a call is the only one whose test passes. *)
Definition only_block (shards : list constructor_shard) (m c : string) (args : list json)
    (b : constructor_shard * constructor_row) : Prop :=
  forall b', b' ∈ blocks shards -> row_applies b'.1 m c args b'.2 = true -> b' = b.

Section Blocks.
Context {T : QtTypes} {QB : QtLib} {QW : QtWorld} {CT : CxxTraits}.

(** What a block does with a call it is for. *)
Definition object_block (sh : constructor_shard) (row : constructor_row) (parent : option ptr)
    (args : list json) (e : string) : M (bool * option ptr * string) :=
  let! (created, last) := try_candidates sh (cr_class row) (cr_candidates row) parent args estr in
  ret (match created with
       | Some o => (true, Some o, e)
       | None => (true, None, if str_empty last then e else last)
       end).

Definition value_block (sh : constructor_shard) (row : constructor_row) (args : list json)
    (e : string) : M (bool * qvariant * string) :=
  let! (created, last) := try_value_candidates sh (cr_class row) (cr_candidates row) args estr in
  ret (match created with
       | Some v => (true, v, e)
       | None => (true, VInvalid, if str_empty last then e else last)
       end).

End Blocks.

(** * Lemmas *)

(** ** Checks *)

Lemma object_modules_noted : modules_noted constructor_tables constructor_shards = true.
Proof. vm_compute. reflexivity. Qed.

Lemma value_modules_noted : modules_noted value_constructor_tables value_constructor_shards = true.
Proof. vm_compute. reflexivity. Qed.

Lemma object_keys_distinct : NoDup (module_key <$> blocks object_shards).
Proof. apply str_no_dup_sound. vm_compute. reflexivity. Qed.

Lemma value_keys_distinct : NoDup (module_key <$> blocks value_class_shards).
Proof. apply str_no_dup_sound. vm_compute. reflexivity. Qed.

Lemma value_class_keys_distinct :
  NoDup (class_key <$> filter (fun b => shared_name b = false) (blocks value_class_shards)).
Proof. apply str_no_dup_sound. vm_compute. reflexivity. Qed.

Lemma all_classes_agree : forallb classes_agree (object_shards ++ value_class_shards) = true.
Proof. vm_compute. reflexivity. Qed.

(** ** Keys *)

Lemma NoDup_fmap_inj_in {A B} (f : A -> B) (l : list A) x y :
  NoDup (f <$> l) -> x ∈ l -> y ∈ l -> f x = f y -> x = y.
Proof.
  induction l as [|a l IH]; simpl; [by intros _ ?%not_elem_of_nil|].
  intros [Ha Hl]%NoDup_cons [->|Hx]%elem_of_cons [->|Hy]%elem_of_cons Heq; [done|..].
  - destruct Ha. rewrite Heq. by apply list_elem_of_fmap_2.
  - destruct Ha. rewrite <- Heq. by apply list_elem_of_fmap_2.
  - by apply IH.
Qed.

Lemma elem_of_blocks shards sh row : (sh, row) ∈ blocks shards <-> sh ∈ shards /\ row ∈ cs_rows sh.
Proof.
  unfold blocks. rewrite list_elem_of_bind. split.
  - by intros (sh' & (row' & [= -> ->] & Hrow)%list_elem_of_fmap & Hsh).
  - intros [Hsh Hrow]. exists sh. split; [by apply list_elem_of_fmap_2|done].
Qed.

Lemma row_applies_keys sh m c args row :
  row_applies sh m c args row = true ->
  (m = estr \/ m = cs_module sh) /\ c = cr_class row /\ arr_size args = cr_count row.
Proof.
  unfold row_applies. intros [[Hm Hc%bool_decide_eq_true]%andb_true_iff Hn%Z.eqb_eq]%andb_true_iff.
  split; [|done]. apply orb_true_iff in Hm as [Hm|Hm%bool_decide_eq_true]; [|by right].
  left. by destruct m.
Qed.

Lemma row_applies_itself sh args row :
  arr_size args = cr_count row -> row_applies sh (cs_module sh) (cr_class row) args row = true.
Proof.
  intros Hn. unfold row_applies. rewrite !bool_decide_eq_true_2, orb_true_r by done.
  by apply Z.eqb_eq.
Qed.

Lemma only_qualified shards sh row args :
  NoDup (module_key <$> blocks shards) -> str_empty (cs_module sh) = false ->
  sh ∈ shards -> row ∈ cs_rows sh -> arr_size args = cr_count row ->
  only_block shards (cs_module sh) (cr_class row) args (sh, row).
Proof.
  intros Hk Hm Hsh Hrow Hn [sh' row'] Hin ([He|He] & Hc & Hn')%row_applies_keys; simpl in *.
  { by rewrite He in Hm. }
  eapply (NoDup_fmap_inj_in module_key); [exact Hk|done|by apply elem_of_blocks|].
  unfold module_key, class_key. simpl. by rewrite <- He, <- Hc, <- Hn', Hn.
Qed.

Lemma only_short sh row args :
  sh ∈ value_class_shards -> row ∈ cs_rows sh -> arr_size args = cr_count row ->
  cr_class row <> "QTransform"%string ->
  only_block value_class_shards estr (cr_class row) args (sh, row).
Proof.
  intros Hsh Hrow Hn Hq [sh' row'] Hin (_ & Hc & Hn')%row_applies_keys; simpl in *.
  assert (forall r s', cr_class r = cr_class row -> shared_name (s', r) = false) as Hs.
  { intros r s' Hr. unfold shared_name. simpl. rewrite Hr. by apply String.eqb_neq. }
  eapply (NoDup_fmap_inj_in class_key); [exact value_class_keys_distinct|..].
  - apply list_elem_of_filter. split; [by apply Hs|done].
  - apply list_elem_of_filter. split; [by apply Hs|by apply elem_of_blocks].
  - unfold class_key. simpl. by rewrite <- Hc, <- Hn', Hn.
Qed.

(** ** Shards *)

Section Reach.
Context {T : QtTypes} {QB : QtLib} {QW : QtWorld} {CT : CxxTraits}.

Lemma construct_object_at sh rows m c parent args e s row :
  row ∈ rows -> row_applies sh m c args row = true ->
  (forall row', row' ∈ rows -> row_applies sh m c args row' = true -> row' = row) ->
  construct_object sh rows m c parent args None e s = object_block sh row parent args e s.
Proof.
  induction rows as [|r rows IH]; [by intros ?%not_elem_of_nil|]. intros Hin Ha Hu. cbn [construct_object].
  destruct (row_applies sh m c args r) eqn:Hr.
  - rewrite (Hu r) by (left || done). unfold object_block, bind.
    by destruct (try_candidates _ _ _ _ _ _ s) as [[[[o|] last]|what|u] s'].
  - apply IH; [|done|intros r' Hr'; apply Hu; by right].
    apply elem_of_cons in Hin as [->|]; [congruence|done].
Qed.

Lemma construct_object_none sh rows m c parent args out e s :
  (forall row, row ∈ rows -> row_applies sh m c args row = false) ->
  construct_object sh rows m c parent args out e s = (Done (false, out, e), s).
Proof.
  induction rows as [|r rows IH]; intros H; [done|]. cbn [construct_object].
  rewrite H by left. apply IH. intros row Hrow. apply H. by right.
Qed.

Lemma construct_value_at sh rows m c args e s row :
  row ∈ rows -> row_applies sh m c args row = true ->
  (forall row', row' ∈ rows -> row_applies sh m c args row' = true -> row' = row) ->
  construct_value sh rows m c args VInvalid e s = value_block sh row args e s.
Proof.
  induction rows as [|r rows IH]; [by intros ?%not_elem_of_nil|]. intros Hin Ha Hu. cbn [construct_value].
  destruct (row_applies sh m c args r) eqn:Hr.
  - rewrite (Hu r) by (left || done). unfold value_block, bind.
    by destruct (try_value_candidates _ _ _ _ _ s) as [[[[o|] last]|what|u] s'].
  - apply IH; [|done|intros r' Hr'; apply Hu; by right].
    apply elem_of_cons in Hin as [->|]; [congruence|done].
Qed.

Lemma construct_value_none sh rows m c args v e s :
  (forall row, row ∈ rows -> row_applies sh m c args row = false) ->
  construct_value sh rows m c args v e s = (Done (false, v, e), s).
Proof.
  induction rows as [|r rows IH]; intros H; [done|]. cbn [construct_value].
  rewrite H by left. apply IH. intros row Hrow. apply H. by right.
Qed.

(** A shard has a block for the call, or none. *)
Lemma block_or_none sh m c args :
  (exists row, row ∈ cs_rows sh /\ row_applies sh m c args row = true) \/
  (forall row, row ∈ cs_rows sh -> row_applies sh m c args row = false).
Proof.
  destruct (existsb (row_applies sh m c args) (cs_rows sh)) eqn:E.
  - left. apply existsb_exists in E as (row & Hin%list_elem_of_In & Ha). by exists row.
  - right. intros row Hin%list_elem_of_In. destruct (row_applies _ _ _ _ _) eqn:Ha; [|done].
    rewrite <- not_true_iff_false, existsb_exists in E. destruct E. by exists row.
Qed.

(** Every block returns, handled. *)
Lemma object_block_handled sh row parent args e s :
  match object_block sh row parent args e s with (Done r, _) => r.1.1 = true | _ => True end.
Proof.
  unfold object_block, bind. by destruct (try_candidates _ _ _ _ _ _ s) as [[[[o|] last]|what|u] s'].
Qed.

Lemma value_block_handled sh row args e s :
  match value_block sh row args e s with (Done r, _) => r.1.1 = true | _ => True end.
Proof.
  unfold value_block, bind. by destruct (try_value_candidates _ _ _ _ _ s) as [[[[o|] last]|what|u] s'].
Qed.

End Reach.

(** ** Dispatch *)

Section Dispatch.
Context {T : QtTypes} {QB : QtLib} {QW : QtWorld} {CT : CxxTraits}.
#[local] Existing Instance table_names.
#[local] Existing Instance table_generated.

Lemma dispatched_cons {A} (tables : list (string * A)) name l :
  dispatched tables (name :: l) = option_list (shard_at name tables) ++ dispatched tables l.
Proof. done. Qed.

Lemma only_block_tail (tables : list (string * constructor_shard)) name l m c args b :
  only_block (dispatched tables (name :: l)) m c args b -> only_block (dispatched tables l) m c args b.
Proof.
  intros H [sh row] [Hsh Hrow]%elem_of_blocks. apply H. apply elem_of_blocks.
  split; [|done]. rewrite dispatched_cons. apply elem_of_app. by right.
Qed.

Lemma only_block_head (tables : list (string * constructor_shard)) name l m c args b sh row :
  only_block (dispatched tables (name :: l)) m c args b -> shard_at name tables = Some sh ->
  row ∈ cs_rows sh -> row_applies sh m c args row = true -> (sh, row) = b.
Proof.
  intros H Hs Hrow. apply (H (sh, row)). apply elem_of_blocks. split; [|done].
  rewrite dispatched_cons, Hs. apply elem_of_app. left. simpl. left.
Qed.

Lemma try_construct_reaches l m c parent args e s sh row :
  only_block (dispatched constructor_tables l.*2) m c args (sh, row) ->
  sh ∈ dispatched constructor_tables l.*2 -> row ∈ cs_rows sh ->
  row_applies sh m c args row = true ->
  try_construct l m c parent args None e s = object_block sh row parent args e s.
Proof.
  induction l as [|[md name] l IH]; intros Hu Hsh Hrow Ha; [by apply not_elem_of_nil in Hsh|].
  cbn [fmap list_fmap snd] in Hu, Hsh. cbn [try_construct g_construct_args table_generated].
  pose proof (only_block_tail _ _ _ _ _ _ _ Hu) as Hu'. rewrite dispatched_cons in Hsh.
  destruct (shard_at name constructor_tables) as [sh'|] eqn:Hs; [|by apply IH].
  destruct (block_or_none sh' m c args) as [(row' & Hrow' & Ha')|Hnone].
  - injection (only_block_head _ _ _ _ _ _ _ _ _ Hu Hs Hrow' Ha') as -> ->. unfold bind.
    rewrite (construct_object_at sh _ _ _ _ _ _ _ row Hrow Ha).
    + pose proof (object_block_handled sh row parent args e s) as Hh.
      by destruct (object_block _ _ _ _ _ s) as [[[[[] o] e']|what|u] s'].
    + intros r Hr Har. by injection (only_block_head _ _ _ _ _ _ _ _ _ Hu Hs Hr Har).
  - unfold bind. rewrite construct_object_none by done. apply IH; [done| |done|done].
    apply elem_of_app in Hsh as [Hsh|]; [|done]. simpl in Hsh.
    apply list_elem_of_singleton in Hsh as ->. by rewrite Hnone in Ha.
Qed.

Lemma try_construct_none l m c parent args out e s :
  (forall sh row, sh ∈ dispatched constructor_tables l.*2 -> row ∈ cs_rows sh ->
     row_applies sh m c args row = false) ->
  try_construct l m c parent args out e s = (Done (false, out, e), s).
Proof.
  induction l as [|[md name] l IH]; intros Hn; [done|].
  cbn [fmap list_fmap snd] in Hn. cbn [try_construct g_construct_args table_generated].
  rewrite dispatched_cons in Hn.
  assert (forall sh row, sh ∈ dispatched constructor_tables l.*2 -> row ∈ cs_rows sh ->
     row_applies sh m c args row = false) as Hn' by (intros sh row Hsh; apply Hn, elem_of_app; by right).
  destruct (shard_at name constructor_tables) as [sh'|] eqn:Hs; [|by apply IH].
  unfold bind. rewrite construct_object_none; [by apply IH|].
  intros row. apply Hn, elem_of_app. left. left.
Qed.

Lemma try_construct_value_reaches l m c args e s sh row :
  modules_noted value_constructor_tables l = true ->
  only_block (dispatched value_constructor_tables l.*2) m c args (sh, row) ->
  sh ∈ dispatched value_constructor_tables l.*2 -> row ∈ cs_rows sh ->
  row_applies sh m c args row = true ->
  try_construct_value l m c args VInvalid e s = value_block sh row args e s.
Proof.
  induction l as [|[md name] l IH]; intros Hmd Hu Hsh Hrow Ha; [by apply not_elem_of_nil in Hsh|].
  cbn [fmap list_fmap snd] in Hu, Hsh. cbn [try_construct_value g_construct_value table_generated].
  pose proof (only_block_tail _ _ _ _ _ _ _ Hu) as Hu'. rewrite dispatched_cons in Hsh.
  apply andb_true_iff in Hmd as [Hm Hmd]. cbn [fst snd] in Hm.
  destruct (shard_at name value_constructor_tables) as [sh'|] eqn:Hs; [|done].
  apply andb_true_iff in Hm as [Hm%String.eqb_eq _].
  destruct (block_or_none sh' m c args) as [(row' & Hrow' & Ha')|Hnone].
  - injection (only_block_head _ _ _ _ _ _ _ _ _ Hu Hs Hrow' Ha') as -> ->.
    assert (str_empty m || bool_decide (m = md) = true) as ->.
    { apply row_applies_keys in Ha as [[->| ->] _]; [done|]. rewrite bool_decide_eq_true_2 by done.
      apply orb_true_r. }
    unfold bind. rewrite (construct_value_at sh _ _ _ _ _ _ row Hrow Ha).
    + pose proof (value_block_handled sh row args e s) as Hh.
      by destruct (value_block _ _ _ _ s) as [[[[[] o] e']|what|u] s'].
    + intros r Hr Har. by injection (only_block_head _ _ _ _ _ _ _ _ _ Hu Hs Hr Har).
  - assert (sh ∈ dispatched value_constructor_tables l.*2) as Hsh'.
    { apply elem_of_app in Hsh as [Hsh|]; [|done]. simpl in Hsh.
      apply list_elem_of_singleton in Hsh as ->. by rewrite Hnone in Ha. }
    destruct (_ || _); [|by apply IH]. unfold bind. rewrite construct_value_none by done. by apply IH.
Qed.

End Dispatch.

(** ** Classes *)

Lemma noted_module tables l sh :
  modules_noted tables l = true -> sh ∈ dispatched tables l.*2 -> str_empty (cs_module sh) = false.
Proof.
  induction l as [|[md name] l IH]; [by intros _ ?%not_elem_of_nil|].
  intros [Hm Hmd]%andb_true_iff. cbn [fst snd fmap list_fmap] in *. rewrite dispatched_cons.
  destruct (shard_at name tables) as [sh'|]; [|done].
  apply andb_true_iff in Hm as [<-%String.eqb_eq Hne%negb_true_iff].
  intros [Hin|Hin]%elem_of_app; [|by apply IH]. simpl in Hin.
  by apply list_elem_of_singleton in Hin as ->.
Qed.

Section Classes.
Context {CT : CxxTraits}.

Lemma agree_listed sh row :
  classes_agree sh = true -> row ∈ cs_rows sh -> cr_class row ∈ cl_class <$> cs_classes sh.
Proof.
  intros [[H _]%andb_true_iff _]%andb_true_iff Hrow.
  eapply str_subset_sound; [exact H|by apply list_elem_of_fmap_2].
Qed.

Lemma agree_block sh c :
  classes_agree sh = true -> c ∈ cl_class <$> cs_classes sh ->
  exists row, row ∈ cs_rows sh /\ cr_class row = c.
Proof.
  intros [[_ H]%andb_true_iff _]%andb_true_iff Hc.
  assert (c ∈ cr_class <$> cs_rows sh) as (row & -> & Hrow)%list_elem_of_fmap
    by by eapply str_subset_sound. by exists row.
Qed.

Lemma agree_macros sh listed row ca macro :
  classes_agree sh = true -> listed ∈ cs_classes sh -> row ∈ cs_rows sh ->
  cr_class row = cl_class listed -> ca ∈ cr_candidates row -> macro ∈ ca_macros ca ->
  macro ∈ cl_macros listed.
Proof.
  intros [_ H]%andb_true_iff Hl Hrow Hc Hca Hm. rewrite forallb_forall in H.
  specialize (H listed (proj1 (list_elem_of_In _ _) Hl)). rewrite forallb_forall in H.
  specialize (H row (proj1 (list_elem_of_In _ _) Hrow)). rewrite Hc, String.eqb_refl in H. simpl in H.
  rewrite forallb_forall in H. specialize (H ca (proj1 (list_elem_of_In _ _) Hca)).
  by eapply str_subset_sound.
Qed.

Lemma enabled_candidate sh listed row ca :
  classes_agree sh = true -> listed ∈ cs_classes sh -> class_row_enabled sh listed = true ->
  row ∈ cs_rows sh -> cr_class row = cl_class listed -> ca ∈ cr_candidates row ->
  candidate_enabled sh (cl_class listed) ca = true.
Proof.
  intros Hag Hl [Hd Hm]%andb_true_iff Hrow Hc Hca. unfold candidate_enabled. cbv zeta in *.
  rewrite Hd. apply forallb_forall. intros macro Hin%list_elem_of_In.
  rewrite forallb_forall in Hm. apply Hm, list_elem_of_In. by eapply agree_macros.
Qed.

(** A published class is a listed one whose macros are defined. *)
Lemma published_listed sh c :
  c ∈ constructor_classes sh \/ c ∈ value_constructor_classes sh ->
  exists listed, listed ∈ cs_classes sh /\ cl_class listed = c /\ class_row_enabled sh listed = true.
Proof.
  intros [Hc|Hc]; apply list_elem_of_fmap in Hc as (listed & -> & [Hf Hl]%list_elem_of_filter);
    exists listed; (split; [done|split; [done|]]); cbv zeta in Hf.
  - by apply andb_true_iff in Hf as [[Hf _]%andb_true_iff _].
  - by apply andb_true_iff in Hf as [[[Hf _]%andb_true_iff _]%andb_true_iff _].
Qed.

(** ** Properties *)

(** C18: what constructors publishes is compiled in. In every constructor shard of
    objects and of values, a class that has a block is one the shard lists; and a class
    the shard publishes, with the headers and types of the Qt at hand, has a block, and
    every candidate of every one of its blocks is compiled: no call for it finds the
    block but not its constructors. *)
Theorem published_class_compiled sh c :
  sh ∈ object_shards ++ value_class_shards ->
  (forall row, row ∈ cs_rows sh -> cr_class row ∈ cl_class <$> cs_classes sh) /\
  (c ∈ constructor_classes sh \/ c ∈ value_constructor_classes sh ->
   (exists row, row ∈ cs_rows sh /\ cr_class row = c) /\
   forall row ca, row ∈ cs_rows sh -> cr_class row = c -> ca ∈ cr_candidates row ->
     candidate_enabled sh c ca = true).
Proof.
  intros Hsh. pose proof all_classes_agree as Hall. rewrite forallb_forall in Hall.
  specialize (Hall sh (proj1 (list_elem_of_In _ _) Hsh)).
  split; [intros row; by apply agree_listed|].
  intros (listed & Hl & <- & He)%published_listed. split.
  - apply agree_block; [done|]. by apply list_elem_of_fmap_2.
  - intros row ca Hrow Hc Hca. by eapply enabled_candidate.
Qed.

End Classes.

Section Constructions.
Context {T : QtTypes} {QB : QtLib} {QW : QtWorld} {CT : CxxTraits}.
#[local] Existing Instance table_names.
#[local] Existing Instance table_generated.

(** C17: a construction reaches its block. Among the 890 blocks of the object
    shards and the 948 of the value shards, a call with the module, the class and the
    number of arguments of a block is carried out by that block and no other, whatever
    the order in which the dispatch files try the shards; a value class is found by its
    short name as well, QTransform apart; and a call that no block is for is left to
    the meta-object, without effect. *)
Theorem construction_reaches_block sh row args :
  (row ∈ cs_rows sh -> arr_size args = cr_count row ->
   (sh ∈ object_shards -> forall parent e s,
      constructArguments (cs_module sh) (cr_class row) parent args e s =
        object_block sh row parent args e s) /\
   (sh ∈ value_class_shards -> forall e s,
      constructValueArguments (cs_module sh) (cr_class row) args e s = value_block sh row args e s /\
      (cr_class row <> "QTransform"%string ->
       constructValueArguments estr (cr_class row) args e s = value_block sh row args e s))) /\
  (forall m c parent e s,
     (forall b, b ∈ blocks object_shards -> row_applies b.1 m c args b.2 = false) ->
     constructArguments m c parent args e s = (Done (false, None, e), s)).
Proof.
  split; [intros Hrow Hn; split|].
  - intros Hsh parent e s. apply try_construct_reaches; [|exact Hsh|exact Hrow|by apply row_applies_itself].
    apply only_qualified; [exact object_keys_distinct| |exact Hsh|exact Hrow|exact Hn].
    eapply noted_module; [exact object_modules_noted|exact Hsh].
  - intros Hsh e s. split.
    + apply try_construct_value_reaches;
        [exact value_modules_noted| |exact Hsh|exact Hrow|by apply row_applies_itself].
      apply only_qualified; [exact value_keys_distinct| |exact Hsh|exact Hrow|exact Hn].
      eapply noted_module; [exact value_modules_noted|exact Hsh].
    + intros Hq. apply try_construct_value_reaches;
        [exact value_modules_noted|by apply only_short|exact Hsh|exact Hrow|].
      unfold row_applies. rewrite (bool_decide_eq_true_2 (cr_class row = cr_class row)) by done.
      by rewrite Hn, Z.eqb_refl.
  - intros m c parent e s Hnone. apply try_construct_none. intros sh' row' Hsh' Hrow'.
    apply (Hnone (sh', row')). by apply elem_of_blocks.
Qed.

End Constructions.

(** ** Witnesses *)

(** QAnimationClipLoader of Qt 3D, by its URL. *)
Lemma construction_reaches_block_witness :
  exists row, cr_class row = "QAnimationClipLoader"%string /\
    constructArguments (G := table_generated (GN := table_names))
      "Qt3DAnimation" "QAnimationClipLoader" None [JString "file:///clip"] estr toy_running =
    object_block constructors_qt3danimation_0 row None [JString "file:///clip"] estr toy_running.
Proof.
  exists (nth 4 (cs_rows constructors_qt3danimation_0) (Ctor estr 0 [])).
  split; [reflexivity|].
  refine (proj1 (proj1 (construction_reaches_block constructors_qt3danimation_0
    (nth 4 (cs_rows constructors_qt3danimation_0) (Ctor estr 0 [])) [JString "file:///clip"]) _ _) _
    None estr toy_running).
  - apply (nth_elem_of _ 4). vm_compute. lia.
  - vm_compute. reflexivity.
  - right. left.
Defined.

(** With every header there, QAnimationClipLoader is published and its candidates are
    compiled. *)
Lemma published_class_compiled_witness :
  "QAnimationClipLoader"%string ∈ constructor_classes constructors_qt3danimation_0 /\
  exists row, row ∈ cs_rows constructors_qt3danimation_0 /\ cr_class row = "QAnimationClipLoader"%string.
Proof.
  assert ("QAnimationClipLoader"%string ∈ constructor_classes constructors_qt3danimation_0) as Hc.
  { apply (bool_decide_eq_true_1 _). vm_compute. reflexivity. }
  split; [exact Hc|].
  refine (proj1 (proj2 (published_class_compiled constructors_qt3danimation_0 "QAnimationClipLoader" _)
    (or_introl Hc))).
  apply elem_of_app. left. right. left.
Defined.
