(* ===== verification/Reflection.v ===== *)
(** Calls through the meta-objects: class hierarchies, argument lists, method
    calls and property writes. *)
From S2P Require Export Conversions.

(** * Definitions *)

(** [a] is the superclass of [m]. *)
Definition superclass (m a : metaobject) : Prop := mo_super m = Some a.

(** A converted argument: of the parameter's type, or one of the two types that
    may stay invalid. *)
Definition argument_ok `{QtTypes} (v : qvariant) (t : metatype) : Prop :=
  (v_valid v = true /\ (t <> MT_QVariant -> v_type v = t)) \/ t = MT_Nullptr \/ t = MT_QVariant.

(** A method that may be called through the bridge. *)
Definition callable (m : metamethod) : Prop := mm_type m <> MSignal /\ mm_access m = APublic.

(** * Lemmas *)

Section Reflection.
Context {T : QtTypes} {QB : QtLib} {QW : QtWorld} {CT : CxxTraits} {GN : GeneratedNames} {G : Generated}.
Context {LB : QtLibLaws QB}.

Lemma metaInherits_ancestor : forall m c,
  metaInherits m c = true -> exists a, rtc superclass m a /\ mo_class_name a = c.
Proof.
  fix IH 1. intros [name super props methods ctors enums] c. simpl.
  case_bool_decide as Hn; [intros _; eexists; split; [apply rtc_refl|done]|].
  destruct super as [m'|]; [|done]. intros H. destruct (IH m' c H) as (a & Ha & Hc).
  exists a. split; [|done]. by eapply rtc_l.
Qed.

Lemma converted_ok s (v : json) (t : metatype) (w : qvariant) :
  fromJson s v t = Ok w -> v_valid w = true -> argument_ok w t.
Proof.
  intros H Hv. left. split; [done|]. intros Ht. unfold fromJson in H.
  destruct (negb (mt_valid t)); [done|]. rewrite bool_decide_eq_false_2 in H by done.
  apply let_Ok in H as (w' & _ & H). case_bool_decide as Hw; [by injection H as <-|].
  destruct (q_convert w' t) as [[] w''] eqn:Hc; [|done]. injection H as <-. by eapply law_convert.
Qed.

Lemma build_loop_ok s args types values e vs :
  length args = length types -> build_loop s args types values e = Ok vs ->
  exists new, vs = values ++ new /\ Forall2 argument_ok new types.
Proof.
  revert types values e. induction args as [|a args IH]; intros [|t types] values e Hlen; simpl; try done.
  { intros [= <-]. exists []. by rewrite app_nil_r. }
  destruct (fromJson s a t) as [v|e'] eqn:Hf.
  - destruct (v_valid v) eqn:Hv; simpl.
    + intros (new & -> & Hnew)%IH; [|simpl in Hlen; lia]. exists (v :: new). rewrite <- app_assoc.
      split; [done|]. constructor; [by eapply converted_ok|done].
    + destruct (bool_decide_reflect (t = MT_Nullptr)), (bool_decide_reflect (t = MT_QVariant)); simpl; try done;
        (intros (new & -> & Hnew)%IH; [|simpl in Hlen; lia]); exists (v :: new); rewrite <- app_assoc;
        (split; [done|]); constructor; try done; unfold argument_ok; tauto.
  - destruct (bool_decide_reflect (t = MT_Nullptr)), (bool_decide_reflect (t = MT_QVariant)); simpl; try done;
      (intros (new & -> & Hnew)%IH; [|simpl in Hlen; lia]); exists (VInvalid :: new); rewrite <- app_assoc;
      (split; [done|]); constructor; try done; unfold argument_ok; tauto.
Qed.

Lemma build_loop_complete s args types vs values e :
  Forall3 (fun a t v => fromJson s a t = Ok v /\ v_valid v = true) args types vs ->
  build_loop s args types values e = Ok (values ++ vs).
Proof.
  intros H. revert values e. induction H as [|a t v args types vs [Hf Hv] _ IH]; intros values e; simpl.
  - by rewrite app_nil_r.
  - rewrite Hf, Hv. simpl. by rewrite IH, <- app_assoc.
Qed.

Lemma buildArguments_ok s args types vs :
  buildArguments s args types = Ok vs ->
  length args = length types /\ (length args <= 10)%nat /\ Forall2 argument_ok vs types.
Proof.
  unfold buildArguments, arr_size, kMaxInvocationArguments. case_bool_decide as Hlen; [|done]. simpl.
  destruct (Z.ltb_spec 10 (Z.of_nat (length args))) as [|Hmax]; [done|]. intros H.
  apply build_loop_ok in H as (new & -> & Hnew); [|done]. split_and!; [done|lia|done].
Qed.

(** ** Properties *)

(** MetaInherits finds a class name exactly among the class and its
    ancestors. *)
Theorem metaInherits_spec m c :
  metaInherits m c = true <-> exists a, rtc superclass m a /\ mo_class_name a = c.
Proof.
  split; [apply metaInherits_ancestor|]. intros (a & Ha & Hc). induction Ha as [m|m m' a Hm _ IH].
  - destruct m as [name super]. simpl in *. by rewrite bool_decide_eq_true_2.
  - destruct m as [name super]. unfold superclass in Hm. simpl in *. subst super.
    case_bool_decide; [done|]. by apply IH.
Qed.

(** Argument lists. buildArguments accepts one argument per parameter and
    at most 10 of them (the size of the array they are passed in), and gives each
    parameter a valid value of its type; only parameters of type QVariant or
    nullptr_t may get an invalid one. Conversely, at most 10 arguments that all
    convert to valid values are accepted, and those values are passed. *)
Theorem buildArguments_typed s args types vs :
  (buildArguments s args types = Ok vs ->
     length args = length types /\ (length args <= 10)%nat /\ Forall2 argument_ok vs types) /\
  ((length args <= 10)%nat ->
     Forall3 (fun a t v => fromJson s a t = Ok v /\ v_valid v = true) args types vs ->
     buildArguments s args types = Ok vs).
Proof.
  split; [apply buildArguments_ok|]. intros Hlen H. unfold buildArguments, arr_size, kMaxInvocationArguments.
  rewrite bool_decide_eq_true_2 by (by eapply Forall3_length_lm). simpl.
  destruct (Z.ltb_spec 10 (Z.of_nat (length args))); [lia|].
  by rewrite (build_loop_complete _ _ _ _ _ _ H).
Qed.

(** Reflective calls. When invokeMethod succeeds, the signature names a
    public method that is not a signal, and it was called once on the given object
    with a value for each parameter; when it reports an error without having
    called the method, the state is unchanged, which covers unknown signatures,
    signals, private methods, and arguments that do not fit. *)
Theorem invokeMethod_guarded m o rawSignature args s :
  match invokeMethod m (OnObject o) rawSignature args s with
  | (Done (Ok _), _) =>
      exists method vs, q_index_of_method m (q_normalized_signature rawSignature) = Some method /\
        callable method /\ buildArguments s args (mm_parameter_types method) = Ok vs /\
        exists v, (w_native (Invoke method o vs) (st_world s)).1 = Replied (true, v)
  | (Done (Err _), s') =>
      s' = s \/
      exists method vs, q_index_of_method m (q_normalized_signature rawSignature) = Some method /\
        callable method /\ buildArguments s args (mm_parameter_types method) = Ok vs /\
        exists v, w_native (Invoke method o vs) (st_world s) = (Replied (false, v), st_world s')
  | (Threw _, _) | (Crashed _, _) =>
      exists method, q_index_of_method m (q_normalized_signature rawSignature) = Some method /\
        callable method
  end.
Proof.
  unfold invokeMethod. destruct (hasNul rawSignature); [by left|]. cbv zeta.
  destruct (str_empty _); [by left|].
  destruct (q_index_of_method m _) as [method|] eqn:Hm; [|by left].
  destruct (bool_decide_reflect (mm_type method = MSignal)) as [|Hs]; [by left|].
  destruct (bool_decide_reflect (mm_access method = APublic)) as [Hp|]; [|by left].
  cbn [orb negb]. unfold bind at 1, get_state.
  destruct (buildArguments s args _) as [vs|e] eqn:Hb; [|by left].
  destruct (_ && negb _); [by left|]. unfold bind at 1, call_method, call.
  destruct (w_native _ (st_world s)) as [[[ok v]|what] w'] eqn:Hw; [|by exists method].
  assert (exists method0 vs0, Some method = Some method0 /\ callable method0 /\
    buildArguments s args (mm_parameter_types method0) = Ok vs0 /\
    exists v, (w_native (Invoke method0 o vs0) (st_world s)).1 = Replied (ok, v)) as Hcalled.
  { exists method, vs. split_and!; try done. exists v. by rewrite Hw. }
  destruct ok; cbn [negb].
  2:{ right. exists method, vs. split_and!; try done. by exists v. }
  destruct (_ && _); [|exact Hcalled]. unfold bind.
  destruct (toJson v _) as [[j|what|u] s']; [exact Hcalled|by exists method..].
Qed.

(** Property writes. setProperty writes a declared property only when it
    is writable, and only a value of the property's type; a read-only property, a
    malformed name or a value that does not convert leaves the state as it was. *)
Theorem setProperty_guarded o name j s p :
  q_index_of_property (w_meta (st_world s) o) name = Some p ->
  match setProperty o name j s with
  | (Done (Ok _), _) =>
      mp_writable p = true /\ exists v, (argument_ok v (mp_type p)) /\
        (w_native (WriteProperty o p v) (st_world s)).1 = Replied true
  | (Done (Err _), s') =>
      s' = s \/
      mp_writable p = true /\ exists v, (argument_ok v (mp_type p)) /\
        w_native (WriteProperty o p v) (st_world s) = (Replied false, st_world s')
  | (Threw _, _) => mp_writable p = true
  | (Crashed _, _) => False
  end.
Proof.
  intros Hp. unfold setProperty. destruct (_ || _); [by left|]. unfold bind at 1, get_state. rewrite Hp.
  destruct (mp_writable p); cbn [negb]; [|by left].
  destruct (match fromJson s j (mp_type p) with Ok v => (v, estr) | Err e => (VInvalid, e) end)
    as [v e] eqn:Hv.
  destruct (_ && _) eqn:Hc; [by left|].
  assert (argument_ok v (mp_type p)) as Hok.
  { apply andb_false_iff in Hc as [Hc|Hc]; apply negb_false_iff in Hc.
    - destruct (fromJson s j (mp_type p)) as [w|] eqn:Hf; injection Hv as <- <-; [|done].
      by eapply converted_ok.
    - apply bool_decide_eq_true in Hc. right. by left. }
  unfold bind, call. destruct (w_native _ (st_world s)) as [[[]|what] w'] eqn:Hw; simpl; [| |done].
  - split; [done|]. exists v. by rewrite Hw.
  - right. split; [done|]. by exists v.
Qed.

End Reflection.

(** ** Witnesses *)

Lemma buildArguments_typed_witness :
  buildArguments toy_running [num 5; JNull] [MT_LongLong; MT_QObjectPtr "QObject"] =
    Ok [VLongLong 5; VObject "QObject" None] /\
  Forall2 argument_ok [VLongLong 5; VObject "QObject" None] [MT_LongLong; MT_QObjectPtr "QObject"].
Proof.
  split; [vm_compute; reflexivity|].
  apply (buildArguments_typed toy_running [num 5; JNull] [MT_LongLong; MT_QObjectPtr "QObject"]).
  vm_compute. reflexivity.
Defined.

Lemma setProperty_guarded_witness :
  let p := MetaProperty "objectName" MT_QString true true true true in
  exists v, argument_ok v MT_QString /\
    (w_native (WriteProperty 1%positive p v) (st_world toy_running)).1 = Replied true.
Proof.
  pose proof (setProperty_guarded 1%positive "objectName" (JString "window") toy_running
    (MetaProperty "objectName" MT_QString true true true true)) as H.
  destruct (setProperty 1%positive "objectName" (JString "window") toy_running) as [[[r|e]|what|u] s'] eqn:E.
  - destruct H as [_ H]; [vm_compute; reflexivity|]. exact H.
  - exfalso. clear H. apply (f_equal fst) in E. vm_compute in E. discriminate.
  - exfalso. clear H. apply (f_equal fst) in E. vm_compute in E. discriminate.
  - exfalso. clear H. apply (f_equal fst) in E. vm_compute in E. discriminate.
Defined.

Lemma invokeMethod_guarded_witness :
  exists e, invokeMethod toy_object_meta (OnObject 1%positive) "destroyed(QObject*)" [JNull] toy_running =
    (Done (Err e), toy_running).
Proof.
  pose proof (invokeMethod_guarded toy_object_meta 1%positive "destroyed(QObject*)" [JNull] toy_running) as H.
  assert (q_index_of_method toy_object_meta (q_normalized_signature "destroyed(QObject*)") =
    Some (toy_method "destroyed(QObject*)" MSignal [MT_QObjectPtr "QObject"] MT_Void)) as Hi
    by (vm_compute; reflexivity).
  rewrite Hi in H.
  destruct (invokeMethod _ _ _ _ _) as [[[r|e]|what|u] s'].
  - destruct H as (method & vs & [= <-] & [Hs _] & _). by destruct Hs.
  - destruct H as [->|(method & vs & [= <-] & [Hs _] & _)]; [by exists e|by destruct Hs].
  - destruct H as (method & [= <-] & [Hs _]). by destruct Hs.
  - destruct H as (method & [= <-] & [Hs _]). by destruct Hs.
Defined.

Lemma metaInherits_spec_witness :
  exists a, rtc superclass (toy_class_meta "QWidget") a /\ mo_class_name a = "QObject"%string.
Proof. apply metaInherits_spec. vm_compute. reflexivity. Defined.
