(* ===== verification/Contract.v ===== *)
(** The calls the bridge makes into Qt: a Qt that writes down every call, what
    the bridge promises of each, and the rules to prove it of a computation. *)
From S2P Require Export ShardCalls Reflection.

(** * Definitions *)

(** ** What the bridge has learnt

    The answers to the counts it asked for, until the next call that may
    change them. *)
Inductive count_fact : Type :=
  | Rows (table : ptr) (n : Z)
  | Columns (table : ptr) (n : Z)
  | Items (list_widget : ptr) (n : Z)
  | TopLevelItems (tree : ptr) (n : Z).

Definition index_below (i n : Z) : bool := (0 <=? i) && (i <? n).

Definition known_row (k : list count_fact) (table : ptr) (row : Z) : bool :=
  existsb (fun f => match f with Rows t n => bool_decide (t = table) && index_below row n | _ => false end) k.

Definition known_column (k : list count_fact) (table : ptr) (column : Z) : bool :=
  existsb (fun f => match f with Columns t n => bool_decide (t = table) && index_below column n
                               | _ => false end) k.

Definition known_item (k : list count_fact) (list_widget : ptr) (row : Z) : bool :=
  existsb (fun f => match f with Items l n => bool_decide (l = list_widget) && index_below row n
                               | _ => false end) k.

Definition known_top_level (k : list count_fact) (tree : ptr) (row : Z) : bool :=
  existsb (fun f => match f with TopLevelItems t n => bool_decide (t = tree) && index_below row n
                               | _ => false end) k.

(** ** What is promised of a call *)

Section Allowed.
Context {T : QtTypes} {QB : QtLib} {QW : QtWorld}.

(** The C++ value is in the range of its type. *)
Definition value_in_range (v : cxx_value) : bool :=
  match v with
  | CInt z => fits_int z
  | CUInt z => (0 <=? z) && (z <=? uint_max)
  | CDouble d => isfinite d
  | CFloat d => negb (is_nan d)
  | _ => true
  end.

Definition argument_in_range (a : cxx_arg) : bool :=
  match a with
  | AInt z => fits_int z
  | AValue v => value_in_range v
  | _ => true
  end.

#[local] Instance argument_ok_dec (v : qvariant) (t : metatype) : Decision (argument_ok v t).
Proof. unfold argument_ok. apply _. Defined.

(** Only public methods that are not signals are invoked, with an argument of the
    right type for each of their at most ten parameters. *)
Definition invocable (m : metamethod) (args : list qvariant) : bool :=
  bool_decide (mm_access m = APublic) && negb (bool_decide (mm_type m = MSignal)) &&
  bool_decide (Forall2 argument_ok args (mm_parameter_types m)) &&
  (Z.of_nat (length args) <=? kMaxInvocationArguments).

(** A value that may be written to a property. *)
Definition writes_property (p : metaproperty) (v : qvariant) : bool :=
  mp_writable p && bool_decide (argument_ok v (mp_type p)).

Definition allowed (w : world) (k : list count_fact) {A : Type} (n : native A) : bool :=
  match n with
  | EventLoopWait ms => (0 <? ms) && (ms <=? kMaxWaitMilliseconds)
  | QNew _ args => forallb argument_in_range args
  | NewInstance _ args => Z.of_nat (length args) <=? kMaxInvocationArguments
  | Invoke m _ args => invocable m args
  | InvokeOnGadget m _ args => invocable m args
  | ReadGadget _ p => mp_readable p
  | WriteProperty _ p v => writes_property p v
  | WriteGadget _ p v => writes_property p v && v_valid v
  | QObject_setProperty _ key _ => negb (str_empty key) && negb (hasNul key)
  | SpyTakeFirst spy => match w_spy_queue w spy with [] => false | _ :: _ => true end
  | QAx_setClassContext _ context => (0 <=? context) && fits_int context
  | QNetworkReply_attribute _ attribute => fits_int attribute
  | QTcpServer_listen _ _ port => (0 <=? port) && (port <=? 65535)
  | QIODevice_open _ mode => fits_int mode
  | QIODevice_seek _ position => Z.abs position <=? maximum_exact
  | QMainWindow_addDockWidget _ area _ => bool_decide (area ∈ dock_areas)
  | QLayout_setSpacing _ spacing => fits_int spacing
  | QLayout_setContentsMargins _ l t r b => fits_int l && fits_int t && fits_int r && fits_int b
  | QGridLayout_addWidget _ _ row column => fits_int row && fits_int column
  | QGridLayout_addWidgetSpan _ _ row column rows columns =>
      fits_int row && fits_int column && fits_int rows && fits_int columns
  | QButtonGroup_addButton _ _ id => fits_int id
  | QListWidget_itemText l row => known_item k l row
  | QTableWidget_item t row column => known_row k t row && known_column k t column
  | QTableWidget_setItem t row column _ => known_row k t row && known_column k t column
  | QTableWidget_setItemText t row column _ => known_row k t row && known_column k t column
  | QTreeWidget_topLevelItemText t row => known_top_level k t row
  | CxxMethod _ _ _ args _ => forallb value_in_range args
  | CxxStatic _ _ args _ => forallb value_in_range args
  | CxxValueMethod _ _ _ args _ => forallb value_in_range args
  | CxxValue _ args => forallb value_in_range args
  | _ => true
  end.

(** What is known after a call. *)
Definition learn (k : list count_fact) {A : Type} (n : native A) : reply A -> list count_fact :=
  match n in native B return reply B -> list count_fact with
  | QTableWidget_rowCount t => fun r => match r with Replied c => Rows t c :: k | Raised _ => [] end
  | QTableWidget_columnCount t => fun r => match r with Replied c => Columns t c :: k | Raised _ => [] end
  | QListWidget_count l => fun r => match r with Replied c => Items l c :: k | Raised _ => [] end
  | QTreeWidget_topLevelItemCount t => fun r =>
      match r with Replied c => TopLevelItems t c :: k | Raised _ => [] end
  | QTableWidget_item _ _ _ => fun _ => k
  | _ => fun _ => []
  end.

End Allowed.

(** ** A Qt that writes down its calls *)

(** A call, in the world it was made in, and its answer. *)
Inductive qt_call `{QtWorld} : Type :=
  | Called {A : Type} (w : world) (n : native A) (r : reply A).

Definition traced {T : QtTypes} (QW : QtWorld) : QtWorld := {|
  world := @world T QW * list qt_call;
  w_alive w := w_alive w.1;
  w_parent w := w_parent w.1;
  w_depth w := w_depth w.1;
  w_is_a w := w_is_a w.1;
  w_cast w := w_cast w.1;
  w_meta w := w_meta w.1;
  w_object_name w := w_object_name w.1;
  w_layout w := w_layout w.1;
  w_dynamic_property_names w := w_dynamic_property_names w.1;
  w_core_application w := w_core_application w.1;
  w_spy_valid w := w_spy_valid w.1;
  w_spy_queue w := w_spy_queue w.1;
  w_image_load w := w_image_load w.1;
  w_native A n w := let '(r, w') := w_native n w.1 in (r, (w', w.2 ++ [Called w.1 n r]));
  w_delete p w := (w_delete p w.1, w.2);
  w_destroy_application w := (w_destroy_application w.1, w.2);
|}.

Section Contract.
Context {T : QtTypes} (Q : @QtWorld T).

(** Every call of the list keeps the promise, given what is known before. *)
Fixpoint well_called (k : list count_fact) (calls : list qt_call) : Prop :=
  match calls with
  | [] => True
  | Called w n r :: calls' => allowed w k n = true /\ well_called (learn k n r) calls'
  end.

Fixpoint learn_all (k : list count_fact) (calls : list qt_call) : list count_fact :=
  match calls with
  | [] => k
  | Called w n r :: calls' => learn_all (learn k n r) calls'
  end.

#[local] Instance traced_world : @QtWorld T := traced Q.

Definition trace_of (s : state) : list (@qt_call T Q) := (st_world s).2.

(** From [s], knowing [k], [m] makes only calls that keep the promise, and ends
    with a value, a state and a knowledge of [R]. *)
Definition calls {A : Type} (s : state) (k : list count_fact) (m : M A)
    (R : A -> state -> list count_fact -> Prop) : Prop :=
  let '(r, s') := m s in
  exists made, trace_of s' = trace_of s ++ made /\ well_called k made /\
    match r with Done a => R a s' (learn_all k made) | _ => True end.

Definition polite {A : Type} (m : M A) : Prop :=
  forall s k, calls s k m (fun _ _ _ => True).

(** The value is in range whatever happens. *)
Definition polite_result {A : Type} (m : M A) (R : A -> Prop) : Prop :=
  forall s k, calls s k m (fun a _ _ => R a).

Definition handler_polite (h : option (M json)) : Prop :=
  forall body, h = Some body -> polite body.

(** ** Rules *)

Lemma well_called_app k l1 l2 :
  well_called k (l1 ++ l2) <-> well_called k l1 /\ well_called (learn_all k l1) l2.
Proof.
  revert k. induction l1 as [|[A w n r] l1 IH]; intros k; simpl; [tauto|]. rewrite IH. tauto.
Qed.

Lemma learn_all_app k l1 l2 : learn_all k (l1 ++ l2) = learn_all (learn_all k l1) l2.
Proof. revert k. induction l1 as [|[A w n r] l1 IH]; intros k; simpl; [done|apply IH]. Qed.

Lemma calls_weaken {A} s k (m : M A) (R R' : A -> state -> list count_fact -> Prop) :
  calls s k m R -> (forall a s' k', R a s' k' -> R' a s' k') -> calls s k m R'.
Proof.
  unfold calls. intros H HR. destruct (m s) as [r s']. destruct H as (made & ? & ? & H).
  exists made. split_and!; [done..|]. destruct r; auto.
Qed.

Lemma calls_ret {A} s k (a : A) (R : A -> state -> list count_fact -> Prop) :
  R a s k -> calls s k (ret a) R.
Proof. intros H. exists []. by rewrite app_nil_r. Qed.

Lemma calls_bind {A B} s k (m : M A) (f : A -> M B) R R' :
  calls s k m R -> (forall a s' k', R a s' k' -> calls s' k' (f a) R') -> calls s k (bind m f) R'.
Proof.
  unfold calls, bind. intros H Hf. destruct (m s) as [[a|what|u] s'].
  2,3: destruct H as (made & H & Hw & _); by exists made.
  destruct H as (made & H & Hw & Ha). specialize (Hf a s' (learn_all k made) Ha).
  destruct (f a s') as [r s'']. destruct Hf as (made' & H' & Hw' & Hr).
  exists (made ++ made'). rewrite well_called_app, learn_all_app. split_and!; [|done..].
  by rewrite H', H, app_assoc.
Qed.

Lemma calls_with_state {B} s k (f : state -> M B) R :
  calls s k (f s) R -> calls s k (bind get_state f) R.
Proof. done. Qed.

Lemma calls_call {A} (s : state) k (n : native A) :
  allowed (st_world s).1 k n = true ->
  calls s k (call n) (fun a _ k' => k' = learn k n (Replied a)).
Proof.
  intros H. unfold calls, call. simpl. destruct (w_native n (st_world s).1) as [r w'] eqn:E. simpl.
  destruct r as [a|what]; (eexists; split_and!; [reflexivity|simpl; tauto|done]).
Qed.

Lemma polite_ret {A} (a : A) : polite (ret a).
Proof. intros s k. by apply calls_ret. Qed.

Lemma polite_bind {A B} (m : M A) (f : A -> M B) :
  polite m -> (forall a, polite (f a)) -> polite (bind m f).
Proof. intros Hm Hf s k. eapply calls_bind; [apply Hm|]. intros a s' k' _. apply Hf. Qed.

Lemma polite_with_state {B} (f : state -> M B) : (forall s, polite (f s)) -> polite (bind get_state f).
Proof. intros H s k. apply calls_with_state, H. Qed.

Lemma polite_call {A} (n : native A) : (forall (w : @world T Q) k, allowed w k n = true) -> polite (call n).
Proof. intros H s k. eapply calls_weaken; [by apply calls_call|done]. Qed.

(** What does not call Qt. *)
Lemma calls_silent {A} s k (m : M A) :
  trace_of (m s).2 = trace_of s -> calls s k m (fun _ _ _ => True).
Proof.
  unfold calls. destruct (m s) as [r s']. simpl. intros H. exists []. rewrite app_nil_r.
  by destruct r.
Qed.

Lemma polite_update_bridge f : polite (update_bridge f).
Proof. intros s k. by apply calls_silent. Qed.

Lemma polite_crash {A} u : polite (@crash _ _ A u).
Proof. intros s k. by apply calls_silent. Qed.

Lemma polite_resume {A} (r : reply A) : polite (resume r).
Proof. intros s k. apply calls_silent. by destruct r. Qed.

Lemma polite_run {A} (m : M A) s :
  polite m -> exists made, trace_of (m s).2 = trace_of s ++ made /\ well_called [] made.
Proof.
  intros H. specialize (H s []). unfold calls in H. destruct (m s) as [r s'].
  destruct H as (made & Ht & Hw & _). by exists made.
Qed.

End Contract.

#[export] Hint Resolve polite_ret polite_bind polite_with_state polite_update_bridge polite_crash
  polite_resume : kry.
