(* ===== verification/ContractOk.v ===== *)
(** Every call the bridge makes into Qt is one its contract allows. *)
From S2P Require Export Contract ShardsOk.

(** * Definitions *)

(** The numbers among the arguments of a request are doubles. *)
Definition request_valid (request : jmembers) : Prop :=
  Forall json_valid (to_array (obj_value "args" request)).

(** ** Conversions and handles *)

Section Silent.
Context {T : QtTypes} {QB : QtLib} {Q : @QtWorld T} {CT : CxxTraits} {GN : GeneratedNames}.
#[local] Instance here : @QtWorld T := traced Q.
#[local] Abbreviation polite := (polite Q).

Lemma polite_registerValue v : polite (registerValue v).
Proof. unfold registerValue. destruct (negb _); eauto with kry. Qed.

Lemma polite_registerObject p : polite (registerObject p).
Proof.
  unfold registerObject. destruct p as [p|]; [|eauto with kry].
  apply polite_with_state. intros s. cbv zeta. destruct (negb _); eauto with kry.
Qed.

Lemma polite_objectHandleValue p : polite (objectHandleValue p).
Proof. unfold objectHandleValue. apply polite_bind; [apply polite_registerObject|eauto with kry]. Qed.

Lemma polite_toJson_object v : polite (fun s => (toJson_object s v, s)).
Proof. intros s k. by apply calls_silent. Qed.

Lemma polite_toJson v : polite (toJson v).
Proof.
  apply (toJson_closed (fun A m => polite m)); auto using @polite_ret, @polite_bind,
    polite_registerValue, polite_toJson_object.
Qed.

Lemma polite_toJson_list l : polite (toJson_list l).
Proof.
  apply (toJson_list_closed (fun A m => polite m)); auto using @polite_ret, @polite_bind,
    polite_registerValue, polite_toJson_object.
Qed.

(** ** Integer arguments *)

Lemma readJsonInteger_fits j z : json_valid j -> readJsonInteger j = Some z -> fits_int z = true.
Proof.
  destruct j as [| | |raw| | |]; try done. simpl. intros Hv.
  destruct (int_in_range _ _ _) eqn:E; [|done]. intros [= <-].
  apply trunc_in_range in E; [|done..]. unfold fits_int. apply andb_true_iff. lia.
Qed.

Lemma integerArgument_fits args i z :
  Forall json_valid args -> integerArgument args i = Some z -> fits_int z = true.
Proof. intros H. apply readJsonInteger_fits, arr_at_valid, H. Qed.

Lemma grid_position_fits args p :
  Forall json_valid args -> grid_position args = Some p -> fits_int p.1 = true /\ fits_int p.2 = true.
Proof.
  intros H. unfold grid_position.
  destruct (integerArgument args 1) eqn:E1; [|done]. destruct (integerArgument args 2) eqn:E2; [|done].
  intros [= <-]. by split; eapply integerArgument_fits.
Qed.

Lemma grid_span_fits args p :
  Forall json_valid args -> grid_span args = Some p -> fits_int p.1 = true /\ fits_int p.2 = true.
Proof.
  intros H. unfold grid_span.
  destruct (integerArgument args 3) eqn:E1; [|done]. destruct (integerArgument args 4) eqn:E2; [|done].
  intros [= <-]. by split; eapply integerArgument_fits.
Qed.

Lemma integer64Argument_fits args i z :
  Forall json_valid args -> integer64Argument args i = Some z -> Z.abs z <= maximum_exact.
Proof.
  intros H. unfold integer64Argument. pose proof (arr_at_valid i args H) as Hv.
  destruct (arr_at i args) as [| | |raw| | |]; try done.
  destruct (int_abs_at_most _ _) eqn:E; [|done]. intros [= <-].
  apply int_abs_at_most_spec in E as (z & Hz & Hr); [|done|unfold maximum_exact; lia].
  rewrite (trunc_integral _ _ Hz). lia.
Qed.

Lemma polite_one_integer args message (body : Z -> M json) :
  Forall json_valid args -> (forall a, fits_int a = true -> polite (body a)) ->
  polite (one_integer args message body).
Proof.
  intros Hv Hb. unfold one_integer. destruct args as [|x [|]]; try apply polite_ret.
  destruct (integerArgument _ 0) eqn:E; [|apply polite_ret].
  by apply Hb, (integerArgument_fits [x] 0).
Qed.

Lemma polite_two_integers args message (body : Z -> Z -> M json) :
  Forall json_valid args ->
  (forall a b, fits_int a = true -> fits_int b = true -> polite (body a b)) ->
  polite (two_integers args message body).
Proof.
  intros Hv Hb. unfold two_integers.
  destruct args as [|x [|y [|]]]; try apply polite_ret.
  destruct (integerArgument _ 0) eqn:E0; [|apply polite_ret].
  destruct (integerArgument _ 1) eqn:E1; [|apply polite_ret].
  by apply Hb; eapply integerArgument_fits.
Qed.

Lemma polite_four_integers args message (body : Z -> Z -> Z -> Z -> M json) :
  Forall json_valid args ->
  (forall a b c d, fits_int a = true -> fits_int b = true -> fits_int c = true ->
     fits_int d = true -> polite (body a b c d)) ->
  polite (four_integers args message body).
Proof.
  intros Hv Hb. unfold four_integers.
  destruct args as [|x [|y [|z [|t [|]]]]]; try apply polite_ret.
  destruct (integerArgument _ 0) eqn:E0; [|apply polite_ret].
  destruct (integerArgument _ 1) eqn:E1; [|apply polite_ret].
  destruct (integerArgument _ 2) eqn:E2; [|apply polite_ret].
  destruct (integerArgument _ 3) eqn:E3; [|apply polite_ret].
  by apply Hb; eapply integerArgument_fits.
Qed.

Lemma polite_get_handle n : (forall (w : @world T Q) k, allowed w k n = true) -> polite (get_handle n).
Proof.
  intros H. unfold get_handle, succeed_handle. apply polite_bind; [by apply polite_call|].
  intros p. apply polite_bind; [apply polite_objectHandleValue|eauto with kry].
Qed.

Lemma polite_sub_object n : (forall (w : @world T Q) k, allowed w k n = true) -> polite (sub_object n).
Proof.
  intros H. unfold sub_object. apply polite_bind; [by apply polite_call|]. intros [p|]; [|apply polite_ret].
  unfold succeed_handle. apply polite_bind; [apply polite_objectHandleValue|eauto with kry].
Qed.

(** ** Indices *)

(** A cell that passes the test of [in_table] is known to be in the table. *)
Lemma calls_in_table s k table row column :
  calls Q s k (in_table table row column) (fun inside _ k' =>
    inside = true -> known_row k' table row = true /\ known_column k' table column = true).
Proof.
  unfold in_table. destruct (Z.ltb_spec row 0) as [|Hr]; [by apply calls_ret|].
  eapply calls_bind; [by apply calls_call|]. intros rows s' k' ->. simpl.
  destruct (Z.leb_spec rows row) as [|Hrows]; [by apply calls_ret|].
  destruct (Z.ltb_spec column 0) as [|Hc]; [by apply calls_ret|].
  eapply calls_bind; [by apply calls_call|]. intros columns s'' k'' ->. simpl.
  apply calls_ret. intros Hcol%Z.ltb_lt. unfold known_row, known_column, index_below. simpl.
  rewrite !bool_decide_eq_true_2 by done.
  rewrite (proj2 (Z.leb_le 0 row)), (proj2 (Z.leb_le 0 column)), (proj2 (Z.ltb_lt row rows)),
    (proj2 (Z.ltb_lt column columns)) by lia. done.
Qed.

(** An index that passes a count is known to be below it. *)
Lemma index_known_item k l row n : 0 <= row -> row < n -> known_item (Items l n :: k) l row = true.
Proof.
  intros H1 H2. unfold known_item, index_below. simpl. rewrite bool_decide_eq_true_2 by done.
  by rewrite (proj2 (Z.leb_le 0 row)), (proj2 (Z.ltb_lt row n)).
Qed.

Lemma index_known_top_level k t row n :
  0 <= row -> row < n -> known_top_level (TopLevelItems t n :: k) t row = true.
Proof.
  intros H1 H2. unfold known_top_level, index_below. simpl. rewrite bool_decide_eq_true_2 by done.
  by rewrite (proj2 (Z.leb_le 0 row)), (proj2 (Z.ltb_lt row n)).
Qed.

(** A call after which any computation is polite. *)
Lemma polite_then_call {A B} (n : native A) (f : A -> M B) (s : state) k :
  (forall w : @world T Q, allowed w k n = true) -> (forall a, polite (f a)) ->
  calls Q s k (bind (call n) f) (fun _ _ _ => True).
Proof. intros Hn Hf. eapply calls_bind; [by apply calls_call|]. intros a s' k' _. apply Hf. Qed.

Lemma polite_inside table row column outside (body : M json) :
  (forall s k, known_row k table row = true -> known_column k table column = true ->
     calls Q s k body (fun _ _ _ => True)) ->
  polite (let! inside := in_table table row column in if negb inside then fail outside else body).
Proof.
  intros Hbody s k. eapply calls_bind; [apply calls_in_table|]. intros [|] s' k' Hk; simpl.
  - by apply Hbody; apply Hk.
  - by apply polite_ret.
Qed.

(** Reading the text of a cell, and writing one. *)
Lemma polite_cell_text table row column :
  polite (let! inside := in_table table row column in
          if negb inside then fail "QTableWidget cell is outside its current row or column range"
          else let! item := call (QTableWidget_item table row column) in
               succeed_with (JString (default estr item))).
Proof.
  apply polite_inside. intros s k Hr Hc. apply polite_then_call; [|intros; apply polite_ret].
  simpl. by rewrite Hr, Hc.
Qed.

Lemma polite_set_cell_text table row column text :
  polite (let! inside := in_table table row column in
          if negb inside then fail "QTableWidget cell is outside its current row or column range"
          else let! item := call (QTableWidget_item table row column) in
               do_call (match item with
                        | None => QTableWidget_setItem table row column text
                        | Some _ => QTableWidget_setItemText table row column text
                        end)).
Proof.
  apply polite_inside. intros s k Hr Hc. eapply calls_bind; [apply calls_call|].
  - simpl. by rewrite Hr, Hc.
  - intros item s' k' ->. unfold do_call. simpl.
    destruct item; (apply polite_then_call; [simpl; by rewrite Hr, Hc|intros; apply polite_ret]).
Qed.

Lemma polite_item_text l row message :
  0 <= row ->
  polite (let! count := call (QListWidget_count l) in
          if count <=? row then fail message else get_text (QListWidget_itemText l row)).
Proof.
  intros Hrow s k. eapply calls_bind; [by apply calls_call|]. intros n s' k' ->.
  destruct (Z.leb_spec n row); [by apply polite_ret|].
  apply polite_then_call; [intros w; by apply index_known_item|intros; apply polite_ret].
Qed.

Lemma polite_top_level_text t row message :
  0 <= row ->
  polite (let! count := call (QTreeWidget_topLevelItemCount t) in
          if count <=? row then fail message else get_text (QTreeWidget_topLevelItemText t row)).
Proof.
  intros Hrow s k. eapply calls_bind; [by apply calls_call|]. intros n s' k' ->.
  destruct (Z.leb_spec n row); [by apply polite_ret|].
  apply polite_then_call; [intros w; by apply index_known_top_level|intros; apply polite_ret].
Qed.

End Silent.

#[export] Hint Resolve polite_registerValue polite_registerObject polite_objectHandleValue
  polite_toJson polite_toJson_list : kry.

(** Decides that a call is allowed from the ranges in the context. *)
Ltac allowed_tac :=
  intros; cbn [allowed forallb argument_in_range value_in_range];
  first [reflexivity | assumption | cbn [fst snd] in *; unfold fits_int, int_min, int_max in *; lia].

Ltac polite_step :=
  match goal with
  | |- polite _ (ret _) => apply polite_ret
  | |- polite _ (fail _) => apply polite_ret
  | |- polite _ succeed => apply polite_ret
  | |- polite _ (succeed_with _) => apply polite_ret
  | |- polite _ (toJson _) => apply polite_toJson
  | |- polite _ (get_handle (if ?b then _ else _)) => destruct b
  | |- polite _ (get_handle _) => apply polite_get_handle; allowed_tac
  | |- polite _ (sub_object _) => apply polite_sub_object; allowed_tac
  | |- polite _ (call (if ?b then _ else _)) => destruct b
  | |- polite _ (call (match ?x with _ => _ end)) => destruct x
  | |- polite _ (call _) => apply polite_call; solve [allowed_tac]
  | |- polite _ (one_integer _ _ _) => apply polite_one_integer; [assumption|intros]
  | |- polite _ (two_integers _ _ _) => apply polite_two_integers; [assumption|intros]
  | |- polite _ (four_integers _ _ _) => apply polite_four_integers; [assumption|intros]
  | |- polite _ (no_args _ _ _) => unfold no_args
  | |- polite _ (one_string _ _ _) => unfold one_string
  | |- polite _ (two_strings_list _ _ _) => unfold two_strings_list
  | |- polite _ (with_value _ _ _ _) => unfold with_value
  | |- polite _ (with_object _ _ _ _ _ _) => unfold with_object
  | |- polite _ (with_child _ _ _ _ _) => unfold with_child
  | |- polite _ (one_handle _ _ _ _ _ _) => unfold one_handle
  | |- polite _ (do_call _) => unfold do_call
  | |- polite _ (get_int _) => unfold get_int
  | |- polite _ (get_bool _) => unfold get_bool
  | |- polite _ (get_text _) => unfold get_text
  | |- polite _ (get_bytes _) => unfold get_bytes
  | |- polite _ (get_size _) => unfold get_size
  | |- polite _ (get_point _) => unfold get_point
  | |- polite _ (get_rect _) => unfold get_rect
  | |- polite _ (require _ _) => unfold require
  | |- polite _ (succeed_json _) => unfold succeed_json
  | |- polite _ (bind (in_table _ _ _) _) => first [apply polite_cell_text | apply polite_set_cell_text]
  | |- polite _ (bind (call (QListWidget_count _)) (fun _ => if _ then _ else _)) =>
      apply polite_item_text; lia
  | |- polite _ (bind (call (QTreeWidget_topLevelItemCount _)) (fun _ => if _ then _ else _)) =>
      apply polite_top_level_text; lia
  | |- polite _ (bind get_state _) => apply polite_with_state; intros ?
  | |- polite _ (bind _ _) => apply polite_bind; [|intros ?]
  | |- polite _ (let '(_, _) := ?x in _) => destruct x
  | |- polite _ (match integerArgument ?a ?i with _ => _ end) =>
      let E := fresh "E" in destruct (integerArgument a i) eqn:E;
      [apply (integerArgument_fits a i) in E; [|assumption]|]
  | |- polite _ (match integer64Argument ?a ?i with _ => _ end) =>
      let E := fresh "E" in destruct (integer64Argument a i) eqn:E;
      [apply (integer64Argument_fits a i) in E; [|assumption]|]
  | |- polite _ (match grid_position ?a with _ => _ end) =>
      let E := fresh "E" in destruct (grid_position a) as [[? ?]|] eqn:E;
      [apply (grid_position_fits a) in E as [? ?]; [|assumption]|]
  | |- polite _ (match grid_span ?a with _ => _ end) =>
      let E := fresh "E" in destruct (grid_span a) as [[? ?]|] eqn:E;
      [apply (grid_span_fits a) in E as [? ?]; [|assumption]|]
  | |- polite _ (if ?b then _ else _) => let E := fresh "E" in destruct b eqn:E
  | |- polite _ (match ?x with _ => _ end) => let E := fresh "E" in destruct x eqn:E
  | |- handler_polite _ None => by intros ?
  | |- handler_polite _ (Some _) => intros ? [= <-]
  | |- handler_polite _ (if ?b then _ else _) => destruct b
  | |- handler_polite _ (let _ := _ in _) => cbv zeta
  | |- handler_polite _ (match ?x with _ => _ end) => let E := fresh "E" in destruct x eqn:E
  | |- polite _ _ => progress simpl
  end.
Ltac polite_tac := repeat (polite_step || solve [eauto with kry]).

Section Handlers.
Context {T : QtTypes} {QB : QtLib} {Q : @QtWorld T} {CT : CxxTraits} {GN : GeneratedNames} {BF : BuildFlags}.
#[local] Instance here' : @QtWorld T := traced Q.
#[local] Abbreviation polite := (polite Q).
#[local] Abbreviation handler_polite := (handler_polite Q).

Section Call.
Variables (s : state) (o : ptr) (sg : string) (args : list json).
Hypothesis args_valid : Forall json_valid args.

Lemma call_widget_geometry_polite : handler_polite (call_widget_geometry s o sg args).
Proof. unfold call_widget_geometry. polite_tac. Qed.

Lemma call_widget_getter_polite : handler_polite (call_widget_getter s o sg args).
Proof. unfold call_widget_getter. polite_tac. Qed.

Lemma call_ax_base_polite : handler_polite (call_ax_base o sg args).
Proof. unfold call_ax_base. polite_tac. Qed.

Lemma call_ax_polite : handler_polite (call_ax s o sg args).
Proof.
  unfold call_ax. cbv zeta. destruct (negb has_axcontainer); [by intros ?|].
  destruct (if _ || _ then _ else None) as [body|] eqn:E; [|polite_tac].
  destruct (_ || _); [|done]. intros ? [= <-]. by apply call_ax_base_polite.
Qed.

Lemma call_network_polite : handler_polite (call_network s o sg args).
Proof. unfold call_network. polite_tac. Qed.

Lemma call_device_polite : handler_polite (call_device s o sg args).
Proof.
  unfold call_device. polite_tac.
Qed.

Lemma call_settings_polite : handler_polite (call_settings s o sg args).
Proof. unfold call_settings. polite_tac. Qed.

Lemma call_watcher_process_polite : handler_polite (call_watcher_process s o sg args).
Proof. unfold call_watcher_process. polite_tac. Qed.

Lemma call_window_layout_polite : handler_polite (call_window_layout s o sg args).
Proof. unfold call_window_layout. polite_tac. Qed.

Lemma call_containers_polite : handler_polite (call_containers s o sg args).
Proof. unfold call_containers. polite_tac. Qed.

Lemma call_actions_polite : handler_polite (call_actions s o sg args).
Proof.
  unfold call_actions. polite_tac.
Qed.

Lemma call_tab_grid_form_polite : handler_polite (call_tab_grid_form s o sg args).
Proof. unfold call_tab_grid_form. polite_tac. Qed.

Lemma call_items_polite : handler_polite (call_items s o sg args).
Proof. unfold call_items. polite_tac. Qed.

Lemma first_handler_polite l :
  Forall (fun h => handler_polite (h s o sg args)) l -> handler_polite (first_handler l s o sg args).
Proof.
  induction 1 as [|h l Hh _ IH]; simpl; [done|].
  destruct (h s o sg args) as [body|] eqn:E; [|exact IH]. intros ? [= <-]. by apply Hh.
Qed.

Lemma call_handlers_polite : Forall (fun h => handler_polite (h s o sg args)) call_handlers.
Proof.
  repeat constructor.
  - apply call_widget_geometry_polite.
  - apply call_widget_getter_polite.
  - apply call_ax_polite.
  - apply call_network_polite.
  - apply call_device_polite.
  - apply call_settings_polite.
  - apply call_watcher_process_polite.
  - apply call_window_layout_polite.
  - apply call_items_polite.
  - apply call_tab_grid_form_polite.
  - apply call_containers_polite.
  - apply call_actions_polite.
Qed.

End Call.
End Handlers.
