(* ===== verification/ContractShards.v ===== *)
(** The calls of reflection, of the factories and of the generated shards keep
    the contract of the calls into Qt. *)
From S2P Require Export ContractOk.

(** * Definitions *)

(** What the shards promise: given JSON arguments whose numbers are doubles, they
    make only calls the contract allows. *)
Class PoliteShards {T : QtTypes} {QB : QtLib} (Q : @QtWorld T)
    (G : @Generated T (traced Q)) : Prop := {
  gp_invoke : forall shard o c s a out e,
    Forall json_valid a -> polite Q (g_invoke (QW := traced Q) shard o c s a out e);
  gp_construct : forall shard m c p a out e,
    Forall json_valid a -> polite Q (g_construct_args (QW := traced Q) shard m c p a out e);
  gp_construct_value : forall shard m c a v e,
    Forall json_valid a -> polite Q (g_construct_value (QW := traced Q) shard m c a v e);
  gp_invoke_value : forall shard id c s a out e,
    Forall json_valid a -> polite Q (g_invoke_value (QW := traced Q) shard id c s a out e);
}.

(** ** Reflection *)

Section Reflected.
Context {T : QtTypes} {QB : QtLib} {Q : @QtWorld T} {CT : CxxTraits} {GN : GeneratedNames}.
Context {LB : QtLibLaws QB}.
#[local] Instance here_r : @QtWorld T := traced Q.
#[local] Abbreviation polite := (polite Q).

Lemma polite_call_method method target args :
  invocable method args = true -> polite (call_method method target args).
Proof.
  intros H. destruct target as [o|id]; simpl; [by apply polite_call|].
  apply polite_with_state. intros s. destruct (valueForId s id); [|apply polite_crash].
  apply polite_bind; [by apply polite_call|]. intros [v r].
  apply polite_bind; [apply polite_update_bridge|]. intros _. apply polite_resume.
Qed.

Lemma built_invocable s method jsonArguments args :
  bool_decide (mm_type method = MSignal) || negb (bool_decide (mm_access method = APublic)) = false ->
  buildArguments s jsonArguments (mm_parameter_types method) = Ok args ->
  invocable method args = true.
Proof.
  intros [Hsig Hpub]%orb_false_iff H. apply buildArguments_ok in H as (Hlen & Hmax & Hargs).
  apply negb_false_iff in Hpub. unfold invocable, kMaxInvocationArguments.
  rewrite Hsig, Hpub, (bool_decide_eq_true_2 _ Hargs). simpl.
  apply Forall2_length in Hargs. apply Z.leb_le. lia.
Qed.

Lemma polite_invokeMethod m target sg args : polite (invokeMethod m target sg args).
Proof.
  unfold invokeMethod. destruct (hasNul sg); [apply polite_ret|]. cbv zeta.
  destruct (str_empty _); [apply polite_ret|].
  destruct (q_index_of_method _ _) as [method|]; [|apply polite_ret].
  destruct (_ || _) eqn:Hm; [apply polite_ret|]. apply polite_with_state. intros s.
  destruct (buildArguments _ _ _) as [vs|] eqn:Hb; [|apply polite_ret].
  destruct (_ && _); [apply polite_ret|].
  apply polite_bind; [by eapply polite_call_method, built_invocable|]. intros [invoked v].
  repeat (polite_step || eauto with kry).
Qed.

Lemma written_ok s j p v :
  mp_writable p = true -> fromJson s j (mp_type p) = Ok v -> v_valid v = true ->
  writes_property p v = true.
Proof.
  intros Hp Hj Hv. unfold writes_property. rewrite Hp. simpl.
  by eapply bool_decide_eq_true_2, converted_ok.
Qed.

Lemma polite_setProperty o name j : polite (setProperty o name j).
Proof.
  unfold setProperty. destruct (str_empty name) eqn:He; [apply polite_ret|].
  destruct (hasNul name) eqn:Hn; [apply polite_ret|]. simpl.
  apply polite_with_state. intros s. destruct (q_index_of_property _ _) as [p|].
  - destruct (mp_writable p) eqn:Hw; [|apply polite_ret]. simpl.
    destruct (fromJson s j (mp_type p)) as [v|e] eqn:Hj; simpl.
    + destruct (negb (v_valid v) && _) eqn:Hb; [apply polite_ret|].
      apply polite_bind; [|intros []; apply polite_ret]. apply polite_call. intros w k. simpl.
      apply andb_false_iff in Hb as [Hv|Ht].
      * apply negb_false_iff in Hv. by eapply written_ok.
      * apply negb_false_iff in Ht. apply bool_decide_eq_true in Ht. unfold writes_property.
        rewrite Hw. apply bool_decide_eq_true_2. right. by left.
    + destruct (bool_decide (mp_type p = MT_Nullptr)) eqn:Ht; simpl; [|apply polite_ret].
      apply bool_decide_eq_true in Ht. apply polite_bind; [|intros []; apply polite_ret].
      apply polite_call. intros w k. simpl. unfold writes_property.
      rewrite Hw. apply bool_decide_eq_true_2. right. by left.
  - apply polite_bind; [|intros _; apply polite_with_state; intros s'; destruct (str_mem _ _); apply polite_ret].
    apply polite_call. intros w k. simpl. by rewrite He, Hn.
Qed.

(** ** Constructors of the meta-object *)

Lemma polite_attach m o parent : polite (attach m o parent).
Proof.
  unfold attach. destruct parent as [p|]; [|apply polite_ret].
  apply polite_bind; [by apply polite_with_state; intros; apply polite_ret|]. intros current.
  polite_tac.
Qed.

Lemma polite_construct_loop m parent args l considered :
  polite (construct_loop m parent args l considered).
Proof.
  revert considered. induction l as [|c l IH]; intros considered; simpl; [apply polite_ret|].
  destruct (_ || _); [apply IH|]. apply polite_with_state. intros s.
  destruct (buildArguments _ _ _) as [vs|] eqn:Hb; [|apply IH].
  apply buildArguments_ok in Hb as (Hlen & Hmax & Hargs). apply Forall2_length in Hargs.
  apply polite_bind.
  - apply polite_call. intros w k. apply Z.leb_le. unfold kMaxInvocationArguments. lia.
  - intros [o|]; [|apply IH]. apply polite_bind; [apply polite_attach|]. intros _. apply polite_ret.
Qed.

Lemma polite_constructInvokable m parent args e : polite (constructInvokable m parent args e).
Proof.
  unfold constructInvokable. destruct (_ <? _); [apply polite_ret|].
  apply polite_with_state. intros s. destruct (parent_error _ _ _); [apply polite_ret|].
  apply polite_bind; [apply polite_construct_loop|]. intros [[o|] considered]; apply polite_ret.
Qed.

End Reflected.

(** ** Factories and explicit constructors *)

Section Constructed.
Context {T : QtTypes} {QB : QtLib} {Q : @QtWorld T} {CT : CxxTraits} {GN : GeneratedNames}.
Context {BF : BuildFlags}.
#[local] Instance here_c : @QtWorld T := traced Q.
#[local] Abbreviation polite := (polite Q).

Lemma polite_new_with c e p : polite (new_with c e p).
Proof. unfold new_with. polite_tac. Qed.

Lemma polite_new_then c e attach p :
  (forall o q (w : @world T Q) k, allowed w k (attach o q) = true) -> polite (new_then c e attach p).
Proof.
  intros H. unfold new_then. apply polite_bind; [by apply polite_call|]. intros o.
  destruct p; [|apply polite_ret]. apply polite_bind; [by apply polite_call|]. intros. apply polite_ret.
Qed.

Lemma polite_create c parent e : polite (create c parent e).
Proof.
  unfold create. apply polite_with_state. intros s. cbv zeta.
  repeat match goal with |- context [if ?b then _ else _] => destruct b end;
    first [apply polite_ret | apply polite_new_with | by apply polite_new_then].
Qed.

Lemma polite_construct_rows f rows name parent e : polite (construct_rows f rows name parent e).
Proof.
  induction rows as [|row rows IH]; simpl; [apply polite_ret|].
  destruct (bool_decide _); [|exact IH]. destruct (row_class f row) as [c|]; [|exact IH].
  destruct (factory c); [apply polite_create|exact IH].
Qed.

Lemma polite_adopt o parent e : polite (adopt o parent e).
Proof.
  unfold adopt. destruct o as [o|]; [|apply polite_ret]. destruct parent as [p|]; [|apply polite_ret].
  apply polite_bind; [by apply polite_with_state; intros; apply polite_ret|]. intros current.
  polite_tac.
Qed.

Lemma forallb_cxx_args l text parent widgetParent :
  forallb argument_in_range (cxx_args l text parent widgetParent) = true.
Proof. induction l as [|[] l IH]; simpl; auto. Qed.

Lemma polite_new c args : forallb argument_in_range args = true -> polite (call (QNew c args)).
Proof. intros H. by apply polite_call. Qed.

Lemma count_in_range raw : valid_double raw = true -> int_in_range 0 int_max raw = true ->
  fits_int (trunc_Z raw) = true.
Proof.
  intros Hv H. apply trunc_in_range in H; [|done..]. unfold fits_int, int_min. apply andb_true_iff. lia.
Qed.

Lemma polite_table_widget e (r c : double) parent :
  json_valid (JDouble r) -> json_valid (JDouble c) ->
  int_in_range 0 int_max r && int_in_range 0 int_max c = true ->
  polite (let! o := call (QNew "QTableWidget" [AInt (trunc_Z r); AInt (trunc_Z c); AObject parent]) in
          ret (Some (Some o, e : string))).
Proof.
  intros Hr Hc [Hir Hic]%andb_true_iff. apply polite_bind; [|intros; apply polite_ret].
  apply polite_new. simpl. by rewrite !count_in_range.
Qed.

Lemma polite_explicit_construct rows c args parent widgetParent e :
  Forall json_valid args -> polite (explicit_construct rows c args parent widgetParent e).
Proof.
  intros Hv. induction rows as [|row rows IH]; simpl; [apply polite_ret|].
  assert (forall cn l, polite (let! o := call (QNew cn (cxx_args l (to_string (arr_first args)) parent
    widgetParent)) in ret (Some (Some o, e)))) as Hnew.
  { intros cn l. apply polite_bind; [apply polite_new, forallb_cxx_args|intros; apply polite_ret]. }
  destruct row; cbv zeta.
  - destruct (_ && _); [apply Hnew|exact IH].
  - destruct has_axcontainer; [|exact IH]. destruct (_ && _); [apply Hnew|exact IH].
  - destruct args as [|[| | |r| | |] [|[| | |k| | |] [|]]]; try exact IH.
    destruct (bool_decide _); [|exact IH]. destruct (_ && _) eqn:Hr; [|apply polite_ret].
    inversion Hv as [|? ? ? Hv']; inversion Hv'; subst. by apply polite_table_widget.
  - destruct (_ && _); [|exact IH]. polite_tac.
  - destruct args as [|[| | | | | |] [|[| | | | | |] [|]]]; try exact IH.
    destruct (bool_decide _); [|exact IH]. polite_tac.
Qed.

End Constructed.

(** ** The generated shards *)

Section Shards.
Context {T : QtTypes} {QB : QtLib} {Q : @QtWorld T} {CT : CxxTraits} {GN : GeneratedNames}.
Context {LB : QtLibLaws QB}.
#[local] Instance here_s : @QtWorld T := traced Q.
#[local] Abbreviation polite := (polite Q).

Lemma typed_in_range p x : typed_argument p x -> value_in_range x = true.
Proof.
  destruct p, x; simpl; try done; unfold fits_int, int_min, int_max, uint_max;
    try (intros; apply andb_true_iff; lia).
  - by intros [_ H].
  - intros (_ & raw & Hr & ->). by rewrite to_float32_number.
Qed.

Lemma converted_in_range s n ps args e xs e' :
  Forall json_valid args -> convert_params s n ps args e = (Some xs, e') ->
  forallb value_in_range xs = true.
Proof.
  intros Hv H. apply converted_arguments in H; [|done].
  induction H as [|p x ps xs Hx _ IH]; simpl; [done|]. by rewrite (typed_in_range p x Hx), IH.
Qed.

Lemma polite_objectHandle p : polite (objectHandle p).
Proof. destruct p; simpl; auto with kry. Qed.

Lemma polite_item_json i (x : item_result i) : polite (item_json i x).
Proof.
  destruct i; simpl; try (apply polite_bind; [apply polite_toJson|intros; apply polite_ret]).
  - destruct (storable _ _); [|apply polite_ret].
    apply polite_bind; [apply polite_toJson|intros; apply polite_ret].
  - apply polite_bind; [apply polite_objectHandle|intros; apply polite_ret].
Qed.

Lemma polite_items_json i (l : list (item_result i)) : polite (items_json i l).
Proof.
  induction l as [|x l IH]; simpl; [apply polite_ret|].
  apply polite_bind; [apply polite_item_json|]. intros [j|e]; [|apply polite_ret].
  apply polite_bind; [exact IH|intros; apply polite_ret].
Qed.

Lemma polite_map_json l o : polite (map_json l o).
Proof.
  revert o. induction l as [|[key v] l IH]; intros o; simpl; [apply polite_ret|].
  apply polite_bind; [apply polite_toJson|intros; apply IH].
Qed.

Lemma polite_result_json r (x : cxx_result r) : polite (result_json r x).
Proof.
  destruct r; simpl; try apply polite_ret.
  1,2: apply polite_bind; [apply polite_toJson|intros; apply polite_ret].
  - destruct (storable _ _); [|apply polite_ret].
    apply polite_bind; [apply polite_toJson|intros; apply polite_ret].
  - apply polite_bind; [apply polite_objectHandle|intros; apply polite_ret].
  - apply polite_bind; [apply polite_items_json|intros; apply polite_ret].
  - apply polite_bind; [apply polite_map_json|intros; apply polite_ret].
Qed.

Lemma polite_answer r (x : cxx_result r) out e : polite (answer r x out e).
Proof. unfold answer. apply polite_bind; [apply polite_result_json|intros [j|e']; apply polite_ret]. Qed.

Lemma polite_then_answer r (n : native (cxx_result r)) out e :
  (forall (w : @world T Q) k, allowed w k n = true) ->
  polite (let! x := call n in answer r x out e).
Proof. intros H. apply polite_bind; [by apply polite_call|intros; apply polite_answer]. Qed.

Lemma polite_call_target md c rec row t args out e body :
  forallb value_in_range args = true ->
  call_target md c rec row t args out e = Some body -> polite body.
Proof.
  intros Hargs. unfold call_target. cbv zeta. destruct t as [cl|cl].
  - destruct rec as [[o|]|id]; [|done|].
    + intros [= <-]. apply polite_with_state. intros s.
      destruct (w_is_a _ _ _); [by apply polite_then_answer|apply polite_ret].
    + destruct (bool_decide _); [|done]. intros [= <-]. apply polite_with_state. intros s.
      destruct (valueForId s id) as [v|]; [|apply polite_ret].
      destruct (bool_decide _); [|apply polite_ret].
      apply polite_bind; [by apply polite_call|]. intros [v' x].
      apply polite_bind; [apply polite_update_bridge|]. intros _.
      apply polite_bind; [apply polite_resume|intros; apply polite_answer].
  - destruct (bool_decide _); [|done]. intros [= <-]. by apply polite_then_answer.
Qed.

Lemma polite_try_targets sh c rec row l args out e :
  forallb value_in_range args = true -> polite (try_targets sh c rec row l args out e).
Proof.
  intros Hargs. induction l as [|t l IH]; simpl; [apply polite_ret|].
  destruct (macro_defined _ _ _); [|exact IH].
  destruct (call_target _ _ _ _ _ _ _ _) as [body|] eqn:E; [|exact IH].
  apply polite_bind; [by eapply polite_call_target|]. intros [[[] out'] e']; [apply polite_ret|exact IH].
Qed.

Lemma polite_run_method_shard sh rec c sg args out e :
  Forall json_valid args -> polite (run_method_shard sh rec c sg args out e).
Proof.
  intros Hv. unfold run_method_shard. generalize (ms_rows sh). intros rows. revert out e.
  induction rows as [|row rows IH]; intros out e; simpl; [apply polite_ret|].
  apply polite_bind; [|intros [[[] out'] e']; [apply polite_ret|apply IH]].
  unfold run_row. destruct (_ && _); [|apply polite_ret]. destruct (negb _); [apply polite_ret|].
  apply polite_with_state. intros s.
  destruct (convert_params _ _ _ _ _) as [[vs|] e1] eqn:E; [|apply polite_ret].
  by eapply polite_try_targets, converted_in_range.
Qed.

(** ** Constructor shards *)

Lemma polite_adopt_or_delete o parent e : polite (adopt_or_delete o parent e).
Proof.
  unfold adopt_or_delete. apply polite_bind; [apply polite_adopt|].
  intros [[a|] e']; [apply polite_ret|]. apply polite_with_state. intros s.
  destruct (w_alive _ _); [|apply polite_crash].
  apply polite_bind; [|intros; apply polite_ret]. intros s' k. by apply calls_silent.
Qed.

Lemma forallb_values xs :
  forallb value_in_range xs = true -> forallb argument_in_range (AValue <$> xs) = true.
Proof. intros H. by induction xs as [|x xs IH]; simpl in *; [|apply andb_true_iff in H as [-> H]; apply IH]. Qed.

Lemma forallb_insert_at n p l :
  forallb argument_in_range l = true -> forallb argument_in_range (insert_at n (AObject p) l) = true.
Proof.
  intros H. unfold insert_at. rewrite <- (take_drop n l) in H at 1. rewrite forallb_app in *. done.
Qed.

Lemma polite_new_adopted c args parent e :
  forallb argument_in_range args = true ->
  polite (let! instance := call (QNew c args) in adopt_or_delete instance parent e).
Proof.
  intros H. apply polite_bind; [by apply polite_new|intros; apply polite_adopt_or_delete].
Qed.

Lemma polite_construct_candidate sh c ca parent args :
  Forall json_valid args -> polite (construct_candidate sh c ca parent args).
Proof.
  intros Hv. unfold construct_candidate. destruct (negb _); [apply polite_ret|].
  apply polite_with_state. intros s.
  destruct (convert_params _ _ _ _ _) as [[vs|] e] eqn:E; [|apply polite_ret].
  apply converted_in_range, forallb_values in E; [|done].
  destruct (ca_parent ca) as [[n pc]|]; cbv zeta.
  - destruct (_ && _); [apply polite_ret|]. destruct (_ || _); [apply polite_ret|].
    by apply polite_new_adopted, forallb_insert_at.
  - destruct (_ || _); [apply polite_ret|]. by apply polite_new_adopted.
Qed.

Lemma polite_try_candidates sh c cas parent args e :
  Forall json_valid args -> polite (try_candidates sh c cas parent args e).
Proof.
  intros Hv. revert e. induction cas as [|ca cas IH]; intros e; simpl; [apply polite_ret|].
  destruct (candidate_enabled _ _ _); [|apply IH].
  apply polite_bind; [by apply polite_construct_candidate|]. intros [[o|] e']; [apply polite_ret|apply IH].
Qed.

Lemma polite_construct_object sh rows m c parent args out e :
  Forall json_valid args -> polite (construct_object sh rows m c parent args out e).
Proof.
  intros Hv. induction rows as [|row rows IH]; simpl; [apply polite_ret|].
  destruct (row_applies _ _ _ _ _); [|exact IH].
  apply polite_bind; [by apply polite_try_candidates|]. intros [[o|] e']; apply polite_ret.
Qed.

Lemma polite_build_candidate sh c ca args :
  Forall json_valid args -> polite (build_candidate sh c ca args).
Proof.
  intros Hv. unfold build_candidate. destruct (negb _); [apply polite_ret|].
  apply polite_with_state. intros s.
  destruct (convert_params _ _ _ _ _) as [[vs|] e] eqn:E; [|apply polite_ret].
  apply converted_in_range in E; [|done]. cbv zeta. destruct (_ && _); [|apply polite_ret].
  apply polite_bind; [by apply polite_call|intros; apply polite_ret].
Qed.

Lemma polite_try_value_candidates sh c cas args e :
  Forall json_valid args -> polite (try_value_candidates sh c cas args e).
Proof.
  intros Hv. revert e. induction cas as [|ca cas IH]; intros e; simpl; [apply polite_ret|].
  destruct (candidate_enabled _ _ _); [|apply IH].
  apply polite_bind; [by apply polite_build_candidate|]. intros [v e'].
  destruct (v_valid v); [apply polite_ret|apply IH].
Qed.

Lemma polite_construct_value sh rows m c args v e :
  Forall json_valid args -> polite (construct_value sh rows m c args v e).
Proof.
  intros Hv. induction rows as [|row rows IH]; simpl; [apply polite_ret|].
  destruct (row_applies _ _ _ _ _); [|exact IH].
  apply polite_bind; [by apply polite_try_value_candidates|]. intros [[o|] e']; apply polite_ret.
Qed.

End Shards.
