(* ===== verification/Construction.v ===== *)
(** Construction of objects: createObject and adopt report every failure, and
    what a failure leaves behind. *)
From S2P Require Export Lifecycle Registry.

(** * Definitions *)

(** A construction that gives no object gives the reason. *)
Definition reports `{QtWorld} (m : M (option ptr * string)) : Prop :=
  forall s, match m s with (Done (None, e), _) => e <> estr | _ => True end.

(** * Lemmas *)

Section Construction.
Context {T : QtTypes} {QB : QtLib} {QW : QtWorld} {CT : CxxTraits} {GN : GeneratedNames} {G : Generated} {BF : BuildFlags}.
Context {LB : QtLibLaws QB}.

(** Filling in a text that does not begin with a place marker. *)
Lemma law_arg c fmt a : c <> "%"%char -> q_arg (String c fmt) a <> estr.
Proof. intros Hc. by destruct (law_arg_first c fmt a Hc) as [rest ->]. Qed.

Lemma law_arg_arg c fmt a b : c <> "%"%char -> q_arg (q_arg (String c fmt) a) b <> estr.
Proof. intros Hc. destruct (law_arg_first c fmt a Hc) as [rest ->]. by apply law_arg. Qed.

Lemma reports_some o e : reports (ret (Some o, e)).
Proof. by intros s. Qed.

Lemma reports_none e : e <> estr -> reports (ret (None, e)).
Proof. by intros He s. Qed.

Lemma reports_bind {A} (m : M A) k : (forall a, reports (k a)) -> reports (bind m k).
Proof. intros Hk s. unfold bind. destruct (m s) as [[a|what|u] s']; [apply Hk|done|done]. Qed.

Lemma str_empty_false s : str_empty s = false <-> s <> estr.
Proof. by destruct s. Qed.

Lemma class_error_reports q e : class_error q = Some e -> e <> estr.
Proof.
  unfold class_error. destruct (str_index_of _ _).
  - destruct (_ && _); [|done]. intros [= <-]. by apply law_arg.
  - destruct (_ <? _); [|done]. intros [= <-]. by apply law_arg.
Qed.

Lemma objectArgument_reports s args i e : objectArgument s args i = Err e -> e <> estr.
Proof.
  unfold objectArgument, parseObjectId. cbv zeta. intros H He. subst e. by repeat case_match; simplify_eq.
Qed.

Lemma create_reflectively_reports q m c parent args e :
  reports (create_reflectively q m c parent args e).
Proof.
  unfold create_reflectively. apply reports_bind. intros [[handled o] e'].
  destruct handled, o as [o|], (str_empty e') eqn:He'; cbn [andb negb is_null_ptr];
    try apply reports_some; try (by apply reports_none, str_empty_false);
    destruct (classMetaObject q e') as [mo e''];
    destruct (str_empty e'') eqn:He''; cbn [negb]; try (by apply reports_none, str_empty_false).
  all: apply reports_bind; intros [[o'|] e3]; [apply reports_some|]; apply reports_none.
  all: destruct (str_empty e3) eqn:E; [by apply law_arg|by apply str_empty_false].
Qed.

Lemma create_generated_reports q m c parent args e : reports (create_generated q m c parent args e).
Proof.
  unfold create_generated. destruct (arr_empty args); [|apply create_reflectively_reports].
  apply reports_bind. intros [[o|] e']; [apply reports_some|].
  destruct (str_empty e') eqn:He; [apply create_reflectively_reports|].
  by apply reports_none, str_empty_false.
Qed.

Lemma explicit_construct_reports rows c args parent widgetParent e s s' e' :
  explicit_construct rows c args parent widgetParent e s = (Done (Some (None, e')), s') -> e' <> estr.
Proof.
  induction rows as [|row rows IH]; simpl; [done|].
  destruct row as [c' g l|c' g l| | |].
  - destruct (_ && _); [|exact IH]. unfold bind. by destruct (call _ s) as [[]].
  - destruct has_axcontainer; [|exact IH]. destruct (_ && _); [|exact IH].
    unfold bind. by destruct (call _ s) as [[]].
  - destruct args as [|[] [|[] []]]; try exact IH. destruct (bool_decide _); [|exact IH].
    destruct (_ && _); [unfold bind; by destruct (call _ s) as [[]]|by intros [= <- _]].
  - destruct (_ && _); [|exact IH]. unfold bind at 1, get_state.
    destruct (objectArgument s args 0) as [p|e1] eqn:Ho.
    + destruct (w_is_a _ _ p); [unfold bind; by destruct (call _ s) as [[]]|].
      destruct (str_empty e) eqn:He; intros [= <- _]; [done|by apply str_empty_false].
    + intros [= <- _]. by eapply objectArgument_reports.
  - destruct args as [|[] [|[] []]]; try exact IH. destruct (bool_decide _); [|exact IH].
    unfold bind. by destruct (call _ s) as [[]].
Qed.

Lemma createObject_explains q parent args : reports (createObject q parent args).
Proof.
  intros s. unfold createObject. destruct (split_qualified q) as [m c].
  destruct (class_error q) as [e|] eqn:Hc; [by apply class_error_reports in Hc|].
  unfold bind at 1, get_state. destruct (_ && is_null_ptr (cast_to _ _ _)); [by apply law_arg|].
  destruct (_ && _); [done|].
  destruct (_ || _); [|apply create_generated_reports]. unfold bind.
  destruct (explicit_construct _ _ _ _ _ _ s) as [[[[[o|] e]|]|what|u] s1] eqn:He; try done.
  - by eapply explicit_construct_reports.
  - apply create_generated_reports.
Qed.

(** ** Properties *)

(** CreateObject never fails in silence. Whatever the class name, the
    parent, the arguments and the generated constructors do, it either gives an
    object, or a non-empty reason, or lets an exception of Qt through. *)
Theorem createObject_reports q parent args s :
  match createObject q parent args s with
  | (Done (None, e), _) => e <> estr
  | _ => True
  end.
Proof. exact (createObject_explains q parent args s). Qed.

(** Widgets and layouts in a wrong parent. When the class is one of
    widgetClasses (by its short or its qualified name) and the parent is not a
    QWidget, nothing is constructed and nothing changes; and a layout is not
    constructed in a widget that has one. *)
Theorem widget_parent_required q c m p args s :
  split_qualified q = (m, c) -> class_error q = None -> c ∈ widgetClasses ->
  (w_is_a (st_world s) "QWidget" p = false ->
     createObject q (Some p) args s = (Done (None, q_arg "class %1 requires a QWidget parent" c), s)) /\
  (w_is_a (st_world s) "QWidget" p = true -> creates_layout c = true ->
     is_Some (w_layout (st_world s) p) ->
     createObject q (Some p) args s = (Done (None, "QWidget already has a layout"%string), s)).
Proof.
  intros Hq He Hc. unfold createObject. rewrite Hq, He. unfold bind, get_state, cast_to, str_mem.
  rewrite bool_decide_eq_true_2 by done. split.
  - intros Hp. by rewrite Hp.
  - intros Hp Hl [l Hw]. by rewrite Hp, Hl, Hw.
Qed.

(** Adopting a constructed object. adopt returns the very object it is
    given, without touching the bridge, or fails without changing anything. A
    failure is reported, but the object that was constructed for the request is
    then neither deleted nor registered: it stays alive without a handle. *)
Theorem adopt_spec o p e s :
  match adopt (Some o) (Some p) e s with
  | (Done (Some o', e'), s') => o' = o /\ e' = e /\ st_bridge s' = st_bridge s
  | (Done (None, e'), s') => e' <> estr /\ s' = s /\
      w_alive (st_world s') o = w_alive (st_world s) o /\ idForObject s' (Some o) = idForObject s (Some o)
  | (Threw _, s') => st_bridge s' = st_bridge s
  | (Crashed _, _) => False
  end.
Proof.
  unfold adopt, parent_of, bind, get_state, call, ret.
  repeat (match goal with |- context [if ?b then _ else _] => destruct b end; simpl);
    try done; by match goal with |- context [w_native ?n ?w] => destruct (w_native n w) as [[?|?] ?] end.
Qed.

End Construction.

(** ** Witnesses *)

Lemma widget_parent_required_witness :
  createObject "QWidget" (Some 2%positive) [] toy_initial =
    (Done (None, q_arg "class %1 requires a QWidget parent" "QWidget"), toy_initial).
Proof.
  apply (widget_parent_required "QWidget" "QWidget" estr 2%positive [] toy_initial);
    [vm_compute; reflexivity|vm_compute; reflexivity|vm_compute; constructor|vm_compute; reflexivity].
Defined.

Lemma createObject_reports_witness :
  match createObject "NoSuchClass" None [] toy_initial with
  | (Done (None, e), _) => e <> estr
  | _ => True
  end.
Proof.
  pose proof (createObject_reports "NoSuchClass" None [] toy_initial) as H. revert H.
  generalize (createObject "NoSuchClass" None [] toy_initial). intros r H. exact H.
Defined.
