(* ===== verification/Replies.v ===== *)
(** Replies: every answer is a success with a value or a failure with a text. *)
From S2P Require Export Construction Reflection.

(** * Definitions *)

(** A failed conversion or lookup has a text. *)
Definition explains {A} (r : res A) : Prop := forall e, r = Err e -> e <> estr.

Section Explained.
Context {T : QtTypes} {QW : QtWorld}.

(** [e] is the text Qt gives for a call it has just refused, and [w] the world after
    it was asked for it: a server that does not listen, or a device that cannot be
    opened, written or positioned. *)
Inductive reason_of_qt (e : string) (w : world) : Prop :=
  | listen_refused o address port w0 w1 :
      w_native (QTcpServer_listen o address port) w0 = (Replied false, w1) ->
      w_native (QTcpServer_errorString o) w1 = (Replied e, w) -> reason_of_qt e w
  | open_refused o mode w0 w1 :
      w_native (QIODevice_open o mode) w0 = (Replied false, w1) ->
      w_native (QIODevice_errorString o) w1 = (Replied e, w) -> reason_of_qt e w
  | write_refused o bytes written w0 w1 :
      w_native (QIODevice_write o bytes) w0 = (Replied written, w1) -> written < 0 ->
      w_native (QIODevice_errorString o) w1 = (Replied e, w) -> reason_of_qt e w
  | seek_refused o position w0 w1 :
      w_native (QIODevice_seek o position) w0 = (Replied false, w1) ->
      w_native (QIODevice_errorString o) w1 = (Replied e, w) -> reason_of_qt e w.

(** A response of the bridge that says what happened: a value, or a text that is
    not empty or, for a request that [relays] what Qt says, the text of Qt. *)
Definition explained (relays : Prop) (j : json) (s : state) : Prop :=
  (exists v, j = success v) \/
  exists e, (e <> estr \/ relays /\ reason_of_qt e (st_world s)) /\ j = failure e.

(** What [m] returns, and the state it leaves, satisfy [R]. *)
Definition returns {A : Type} (m : M A) (R : A -> state -> Prop) : Prop :=
  forall s, match m s with (Done a, s') => R a s' | _ => True end.

Definition handler_answers (h : option (M json)) : Prop :=
  forall body, h = Some body -> returns body (explained True).

End Explained.

(** What Qt documents of QJsonValue::toVariant: only the undefined value gives an
    invalid variant. *)
Class QtDefined {T : QtTypes} (QB : QtLib) : Prop :=
  defined_variant : forall j, j <> JUndefined -> v_valid (q_to_variant j) = true.

(** The requests that write a property give a value to write. *)
Definition gives_value (request : jmembers) : Prop :=
  to_string (obj_value "op" request) ∈ ["set"; "value_set"]%string ->
  obj_value "value" request <> JUndefined.

(** * Lemmas *)

Lemma explained_success `{QtWorld} relays v s : explained relays (success v) s.
Proof. left. eauto. Qed.

Lemma explained_failure `{QtWorld} relays e s : e <> estr -> explained relays (failure e) s.
Proof. right. eauto. Qed.

Lemma explained_relayed `{QtWorld} (relays : Prop) e s :
  relays -> reason_of_qt e (st_world s) -> explained relays (failure e) s.
Proof. right. eauto. Qed.

Lemma explains_ok {A} (a : A) : explains (Ok a).
Proof. done. Qed.

Lemma explains_err {A} e : e <> estr -> explains (@Err A e).
Proof. by intros He e' [= <-]. Qed.

Lemma explains_bind {A B} (r : res A) (k : A -> res B) :
  explains r -> (forall a, explains (k a)) -> explains (match r with Ok a => k a | Err e => Err e end).
Proof. destruct r as [a|e]; [intros _ H; apply H|]. intros H _. apply explains_err. by apply H. Qed.

#[export] Hint Resolve explained_success explains_ok : kry.

(** A text the program gives is not empty. *)
Ltac text_tac :=
  solve [done | by apply law_arg | by apply law_arg2 | by apply law_arg_arg
    | match goal with H : explains (Err ?e) |- ?e <> estr => by apply H end
    | match goal with H : explains ?r, E : ?r = Err ?e |- ?e <> estr => by apply H end
    | match goal with H : negb (str_empty ?e) = true |- ?e <> estr => by destruct e end
    | match goal with H : str_empty ?e = false |- ?e <> estr => by destruct e end].

Section Conversions.
Context {T : QtTypes} {QB : QtLib} {QW : QtWorld} {CT : CxxTraits} {GN : GeneratedNames} {G : Generated}.
Context {LB : QtLibLaws QB}.

(** ** Conversions *)

Ltac explains_tac :=
  repeat first
    [ apply explains_ok
    | apply explains_err; text_tac
    | apply explains_bind; [|intros ?]
    | assumption
    | match goal with
      | |- explains (match ?x with Ok _ => _ | Err _ => _ end) => fail 1
      | |- explains (match ?x with _ => _ end) => destruct x eqn:?
      end ].

Lemma readNumber_explains o key : explains (readNumber o key).
Proof. unfold readNumber. explains_tac. Qed.

Lemma readInteger_explains o key : explains (readInteger o key).
Proof. unfold readInteger. pose proof (readNumber_explains o key). explains_tac. Qed.

Lemma parseObjectId_explains v : explains (parseObjectId v).
Proof. unfold parseObjectId. explains_tac. Qed.

Lemma string_entries_explains o : explains (string_entries o).
Proof. induction o as [|[k []] o IH]; simpl; explains_tac. Qed.

Lemma add_headers_explains o r : explains (add_headers o r).
Proof.
  revert r. induction o as [|[k []] o IH]; intros r; cbn [add_headers]; cbv zeta;
    explains_tac; apply IH.
Qed.

Lemma decodePng_explains s v : explains (decodePng s v).
Proof. unfold decodePng. explains_tac. Qed.

Lemma enum_bits_explains v t : explains (enum_bits v t).
Proof. unfold enum_bits. cbv zeta. explains_tac. Qed.

#[local] Hint Resolve readNumber_explains readInteger_explains parseObjectId_explains
  string_entries_explains add_headers_explains decodePng_explains enum_bits_explains : kry.

Ltac conv_tac :=
  cbv zeta; repeat first [progress explains_tac | solve [auto with kry]].

Lemma fromJson_converted_explains s v t : explains (fromJson_converted s v t).
Proof.
  assert (explains (fromJson_value_handle s (to_object v) t)) by (unfold fromJson_value_handle; conv_tac).
  assert (explains (fromJson_plain v t)) by (unfold fromJson_plain; conv_tac).
  assert (explains (fromJson_enum v t)) by (unfold fromJson_enum; conv_tac).
  assert (explains (fromJson_text v t)) by (unfold fromJson_text; conv_tac).
  assert (explains (fromJson_json v t)) by (unfold fromJson_json; conv_tac).
  assert (explains (fromJson_variant_map v t)) by (unfold fromJson_variant_map; conv_tac).
  assert (explains (fromJson_string_map v t)) by (unfold fromJson_string_map; conv_tac).
  assert (explains (fromJson_geometry v t)) by (unfold fromJson_geometry; conv_tac).
  assert (explains (fromJson_line v t)) by (unfold fromJson_line; conv_tac).
  assert (explains (fromJson_vector v t)) by (unfold fromJson_vector; conv_tac).
  assert (explains (fromJson_image s v t)) by (unfold fromJson_image; conv_tac).
  assert (explains (fromJson_uuid v)) by (unfold fromJson_uuid; conv_tac).
  assert (explains (fromJson_regexp v)) by (unfold fromJson_regexp; conv_tac).
  assert (explains (fromJson_geo v)) by (unfold fromJson_geo; conv_tac).
  assert (explains (fromJson_request v)) by (unfold fromJson_request; conv_tac).
  assert (explains (fromJson_bytes v)) by (unfold fromJson_bytes; conv_tac).
  assert (explains (fromJson_longlong v)) by (unfold fromJson_longlong; conv_tac).
  assert (explains (fromJson_ulonglong v)) by (unfold fromJson_ulonglong; conv_tac).
  unfold fromJson_converted. destruct t; try (destruct (obj_contains _ _); assumption).
  unfold fromJson_pointer. conv_tac.
Qed.

Lemma fromJson_explains s v t : explains (fromJson s v t).
Proof.
  unfold fromJson. pose proof (fromJson_converted_explains s v t). conv_tac.
Qed.

(** A conversion that succeeds gives a value, unless the type is QVariant. *)
Lemma fromJson_value s v t w : fromJson s v t = Ok w -> t <> MT_QVariant -> v_valid w = true.
Proof.
  intros H Ht. assert (mt_valid t = true) as Hv.
  { unfold fromJson in H. by destruct (mt_valid t). }
  unfold v_valid. by rewrite (fromJson_has_type s v t w H Ht).
Qed.

End Conversions.

Section Answers.
Context {T : QtTypes} {QB : QtLib} {QW : QtWorld} {CT : CxxTraits} {GN : GeneratedNames} {G : Generated}.
Context {BF : BuildFlags} {LB : QtLibLaws QB}.

(** ** Answers *)

Lemma returns_ret {A} (a : A) (R : A -> state -> Prop) : (forall s, R a s) -> returns (ret a) R.
Proof. intros H s. apply H. Qed.

Lemma returns_bind {A B} (m : M A) (k : A -> M B) (R : A -> state -> Prop) (R' : B -> state -> Prop) :
  returns m R -> (forall a s, R a s -> returns (k a) R') -> returns (bind m k) R'.
Proof.
  intros Hm Hk s. unfold bind. specialize (Hm s).
  destruct (m s) as [[a|what|u] s']; [by eapply Hk|done|done].
Qed.

Lemma returns_then {A B} (m : M A) (k : A -> M B) (R : B -> state -> Prop) :
  (forall a, returns (k a) R) -> returns (bind m k) R.
Proof.
  intros Hk s. unfold bind. destruct (m s) as [[a|what|u] s']; [apply Hk|done|done].
Qed.

Lemma returns_weaken {A} (m : M A) (R R' : A -> state -> Prop) :
  returns m R -> (forall a s, R a s -> R' a s) -> returns m R'.
Proof. intros H HR s. specialize (H s). destruct (m s) as [[a|what|u] s']; auto. Qed.

Lemma answers_success relays v : returns (succeed_with v) (explained relays).
Proof. apply returns_ret, explained_success. Qed.

Lemma answers_fail relays e : e <> estr -> returns (fail e) (explained relays).
Proof. intros He. apply returns_ret. intros s. by apply explained_failure. Qed.

(** A call that Qt refuses is answered with the text of Qt. *)
Lemma answers_refused {A} (n : native A) (text : native string) (refused : A -> bool) (k : A -> M json) :
  (forall a e w0 w1 w2, w_native n w0 = (Replied a, w1) -> refused a = true ->
     w_native text w1 = (Replied e, w2) -> reason_of_qt e w2) ->
  (forall a, returns (k a) (explained True)) ->
  returns (let! a := call n in if refused a then let! e := call text in fail e else k a) (explained True).
Proof.
  intros Hr Hk s. unfold bind at 1, call. destruct (w_native n (st_world s)) as [[a|what] w1] eqn:E; [|done].
  destruct (refused a) eqn:Ha; [|apply Hk]. unfold bind, call. simpl.
  destruct (w_native text w1) as [[e|what] w2] eqn:Et; [|done].
  apply explained_relayed; [done|]. by eapply Hr.
Qed.

Lemma answers_listen o address port k :
  (forall a, returns (k a) (explained True)) ->
  returns (let! a := call (QTcpServer_listen o address port) in
           if negb a then let! e := call (QTcpServer_errorString o) in fail e else k a) (explained True).
Proof. apply answers_refused. intros [] e w0 w1 w2 H ? Ht; [done|]. by eapply listen_refused. Qed.

Lemma answers_open o mode k :
  (forall a, returns (k a) (explained True)) ->
  returns (let! a := call (QIODevice_open o mode) in
           if negb a then let! e := call (QIODevice_errorString o) in fail e else k a) (explained True).
Proof. apply answers_refused. intros [] e w0 w1 w2 H ? Ht; [done|]. by eapply open_refused. Qed.

Lemma answers_write o bytes k :
  (forall a, returns (k a) (explained True)) ->
  returns (let! a := call (QIODevice_write o bytes) in
           if a <? 0 then let! e := call (QIODevice_errorString o) in fail e else k a) (explained True).
Proof.
  apply (answers_refused _ _ (fun a => a <? 0)). intros a e w0 w1 w2 H ?%Z.ltb_lt Ht.
  by eapply write_refused.
Qed.

Lemma answers_seek o position k :
  (forall a, returns (k a) (explained True)) ->
  returns (let! a := call (QIODevice_seek o position) in
           if negb a then let! e := call (QIODevice_errorString o) in fail e else k a) (explained True).
Proof. apply answers_refused. intros [] e w0 w1 w2 H ? Ht; [done|]. by eapply seek_refused. Qed.

Lemma answers_with_value relays s arg t body :
  t <> MT_QVariant -> (forall v, returns (body v) (explained relays)) ->
  returns (with_value s arg t body) (explained relays).
Proof.
  intros Ht Hb. unfold with_value. pose proof (fromJson_explains s arg t) as He.
  destruct (fromJson s arg t) as [v|e] eqn:E; [|by apply answers_fail, He].
  by rewrite (fromJson_value s arg t v E Ht).
Qed.

Lemma objectArgument_explains s args i : explains (objectArgument s args i).
Proof.
  unfold objectArgument. cbv zeta. destruct (_ || _); [by apply explains_err|].
  apply explains_bind; [apply parseObjectId_explains|]. intros id.
  destruct (objectForId s id); [apply explains_ok|by apply explains_err].
Qed.

Lemma answers_with_object relays s args i c message body :
  message <> estr -> (forall p, returns (body p) (explained relays)) ->
  returns (with_object s args i c message body) (explained relays).
Proof.
  intros Hm Hb. unfold with_object. pose proof (objectArgument_explains s args i) as He.
  destruct (objectArgument s args i) as [p|e]; [|by apply answers_fail, He].
  destruct (w_is_a _ _ _); [apply Hb|by apply answers_fail].
Qed.

Lemma answers_with_child relays s arg c message body :
  message <> estr -> (forall p, returns (body p) (explained relays)) ->
  returns (with_child s arg c message body) (explained relays).
Proof.
  intros Hm Hb. unfold with_child. pose proof (parseObjectId_explains (obj_value "object_id" (to_object arg))) as He.
  destruct (parseObjectId _) as [id|e]; [|by apply answers_fail, He].
  destruct (objectForId s id) as [p|]; [|by apply answers_fail].
  destruct (w_is_a _ _ _); [apply Hb|by apply answers_fail].
Qed.

End Answers.

Ltac answers_step :=
  match goal with
  | |- returns (ret (success _)) (explained _) => apply returns_ret, explained_success
  | |- returns (succeed_with _) (explained _) => apply answers_success
  | |- returns succeed (explained _) => apply returns_ret, explained_success
  | |- returns (ret (failure _)) (explained _) => apply returns_ret; intros ?; apply explained_failure; text_tac
  | |- returns (fail _) (explained _) => apply answers_fail; text_tac
  | |- returns (bind (call (QTcpServer_listen _ _ _)) _) _ => apply answers_listen; intros ?
  | |- returns (bind (call (QIODevice_open _ _)) _) _ => apply answers_open; intros ?
  | |- returns (bind (call (QIODevice_write _ _)) _) _ => apply answers_write; intros ?
  | |- returns (bind (call (QIODevice_seek _ _)) _) _ => apply answers_seek; intros ?
  | |- returns (with_value _ _ _ _) (explained _) => apply answers_with_value; [done|intros ?]
  | |- returns (with_object _ _ _ _ _ _) (explained _) => apply answers_with_object; [done|intros ?]
  | |- returns (with_child _ _ _ _ _) (explained _) => apply answers_with_child; [done|intros ?]
  | |- returns (bind _ _) (explained _) => apply returns_then; intros ?
  | |- returns (one_string _ _ _) (explained _) => unfold one_string
  | |- returns (one_integer _ _ _) (explained _) => unfold one_integer
  | |- returns (two_integers _ _ _) (explained _) => unfold two_integers
  | |- returns (four_integers _ _ _) (explained _) => unfold four_integers
  | |- returns (no_args _ _ _) (explained _) => unfold no_args
  | |- returns (one_handle _ _ _ _ _ _) (explained _) => unfold one_handle
  | |- returns (two_strings_list _ _ _) (explained _) => unfold two_strings_list
  | |- returns (get_bool _) (explained _) => unfold get_bool
  | |- returns (get_int _) (explained _) => unfold get_int
  | |- returns (get_text _) (explained _) => unfold get_text
  | |- returns (get_bytes _) (explained _) => unfold get_bytes
  | |- returns (get_size _) (explained _) => unfold get_size
  | |- returns (get_point _) (explained _) => unfold get_point
  | |- returns (get_rect _) (explained _) => unfold get_rect
  | |- returns (get_handle _) (explained _) => unfold get_handle
  | |- returns (succeed_handle _) (explained _) => unfold succeed_handle
  | |- returns (succeed_json _) (explained _) => unfold succeed_json
  | |- returns (sub_object _) (explained _) => unfold sub_object
  | |- returns (require _ _) (explained _) => unfold require
  | |- returns (do_call _) (explained _) => unfold do_call
  | |- returns (let _ := _ in _) (explained _) => cbv zeta
  | |- returns (if ?b then _ else _) (explained _) => destruct b eqn:?
  | |- returns (match ?x with _ => _ end) (explained _) => destruct x eqn:?
  | |- handler_answers None => by intros ?
  | |- handler_answers (Some _) => intros ? [= <-]
  | |- handler_answers (let _ := _ in _) => cbv zeta
  | |- handler_answers (if ?b then _ else _) => destruct b
  | |- handler_answers (match ?x with _ => _ end) => destruct x eqn:?
  end.
Ltac answers_tac := repeat answers_step.

Section Handlers.
Context {T : QtTypes} {QB : QtLib} {QW : QtWorld} {CT : CxxTraits} {GN : GeneratedNames} {G : Generated}.
Context {BF : BuildFlags} {LB : QtLibLaws QB} {QD : QtDefined QB}.
Variables (s : state) (o : ptr) (sg : string) (args : list json).

(** ** The handlers of call *)

Lemma call_ax_base_answers : handler_answers (call_ax_base o sg args).
Proof. unfold call_ax_base. answers_tac. Qed.

Lemma call_ax_answers : handler_answers (call_ax s o sg args).
Proof.
  unfold call_ax. cbv zeta. destruct (negb has_axcontainer); [by intros ?|].
  destruct (if _ || _ then _ else None) as [body|] eqn:E; [|answers_tac].
  destruct (_ || _); [|done]. intros ? [= <-]. by apply call_ax_base_answers.
Qed.

Lemma call_handlers_answer : Forall (fun h => handler_answers (h s o sg args)) call_handlers.
Proof.
  repeat constructor; try apply call_ax_answers;
    [unfold call_widget_geometry|unfold call_widget_getter|unfold call_network|unfold call_device
    |unfold call_settings|unfold call_watcher_process|unfold call_window_layout|unfold call_items
    |unfold call_tab_grid_form|unfold call_containers|unfold call_actions]; answers_tac.
Qed.

End Handlers.

Section Requests.
Context {T : QtTypes} {QB : QtLib} {QW : QtWorld} {CT : CxxTraits} {GN : GeneratedNames} {G : Generated}.
Context {BF : BuildFlags} {LB : QtLibLaws QB} {QD : QtDefined QB}.
Variable relays : Prop.

(** ** Reflection *)

Lemma build_loop_explains s args types values e : explains (build_loop s args types values e).
Proof.
  revert types values e. induction args as [|a args IH]; intros [|t types] values e; simpl;
    try apply explains_ok.
  destruct (fromJson s a t) as [v|e'] eqn:E.
  - destruct (bool_decide_reflect (t = MT_QVariant)) as [|Ht]; [rewrite andb_false_r; apply IH|].
    rewrite (fromJson_value s a t v E Ht). apply IH.
  - destruct (_ && _); [|apply IH]. apply explains_err. by eapply fromJson_explains.
Qed.

Lemma buildArguments_explains s args types : explains (buildArguments s args types).
Proof.
  unfold buildArguments. destruct (negb _); [by apply explains_err, law_arg_arg|].
  destruct (_ <? _); [by apply explains_err|apply build_loop_explains].
Qed.

Lemma invokeMethod_explains m target sg args : returns (invokeMethod m target sg args) (fun r _ => explains r).
Proof.
  unfold invokeMethod. destruct (hasNul sg); [by apply returns_ret; intros _; apply explains_err|]. cbv zeta.
  destruct (str_empty _); [by apply returns_ret; intros _; apply explains_err|].
  destruct (q_index_of_method _ _) as [method|]; [|by apply returns_ret; intros _; apply explains_err, law_arg].
  destruct (_ || _); [by apply returns_ret; intros _; apply explains_err|]. apply returns_then. intros s.
  pose proof (buildArguments_explains s args (mm_parameter_types method)) as Hb.
  destruct (buildArguments _ _ _) as [vs|e]; [|by apply returns_ret; intros _; apply explains_err, Hb].
  destruct (_ && _); [by apply returns_ret; intros _; apply explains_err, law_arg|]. apply returns_then. intros [invoked v].
  destruct invoked; [|by apply returns_ret; intros _; apply explains_err, law_arg]. simpl.
  destruct (_ && _); [apply returns_then; intros j|]; apply returns_ret; intros _; apply explains_ok.
Qed.

(** What is there converts to something. *)
Lemma fromJson_defined s j t v : j <> JUndefined -> fromJson s j t = Ok v -> v_valid v = true.
Proof.
  intros Hj H. destruct (decide (t = MT_QVariant)) as [->|Ht]; [|by eapply fromJson_value].
  injection H as <-. by apply defined_variant.
Qed.

Lemma setProperty_explains o name j : j <> JUndefined -> returns (setProperty o name j) (fun r _ => explains r).
Proof.
  intros Hj. unfold setProperty. destruct (_ || _); [by apply returns_ret; intros _; apply explains_err|].
  apply returns_then. intros s. destruct (q_index_of_property _ _) as [p|].
  - destruct (negb _); [by apply returns_ret; intros _; apply explains_err, law_arg|].
    destruct (fromJson s j (mp_type p)) as [v|e] eqn:E.
    + rewrite (fromJson_defined s j _ v Hj E). simpl. apply returns_then. intros [].
      * apply returns_ret; intros _; apply explains_ok.
      * by apply returns_ret; intros _; apply explains_err, law_arg.
    + destruct (_ && _); [by apply returns_ret; intros _; apply explains_err, (fromJson_explains s j (mp_type p))|].
      apply returns_then. intros []; [apply returns_ret; intros _; apply explains_ok|by apply returns_ret; intros _; apply explains_err, law_arg].
  - apply returns_then. intros _. apply returns_then. intros s'.
    destruct (str_mem _ _); [apply returns_ret; intros _; apply explains_ok|by apply returns_ret; intros _; apply explains_err, law_arg].
Qed.

(** ** Operations *)

Lemma op_call_answers s o request : relays -> returns (op_call s o request) (explained relays).
Proof.
  intros Hrel. apply (returns_weaken _ (explained True)).
  2:{ intros j s' [?|(e & He & Hj)]; [by left|right]. exists e. tauto. }
  unfold op_call. cbv zeta. destruct (str_empty _); [by apply answers_fail|].
  destruct (_ && _); [by apply answers_fail|].
  destruct (first_handler _ _ _ _ _) as [body|] eqn:E.
  - pose proof (call_handlers_answer s o (to_string (obj_value "method" request))
      (to_array (obj_value "args" request))) as H.
    revert E. induction H as [|h l Hh _ IH]; simpl; [done|].
    destruct (h _ _ _ _) as [b|] eqn:Eb; [intros [= <-]; by apply Hh|exact IH].
  - unfold call_generic. apply returns_then. intros [[handled out] e].
    destruct handled; [destruct (negb _) eqn:He; answers_tac|]. apply returns_then. intros s'.
    eapply returns_bind; [apply invokeMethod_explains|]. intros [v|e'] ? Hr; answers_tac.
Qed.

Lemma op_set_answers o request :
  obj_value "value" request <> JUndefined -> returns (op_set o request) (explained relays).
Proof.
  intros Hv. unfold op_set. eapply returns_bind; [by apply setProperty_explains|].
  intros [[]|e] ? Hr; answers_tac.
Qed.

Lemma op_value_set_answers s id v m request :
  obj_value "value" request <> JUndefined -> returns (op_value_set s id v m request) (explained relays).
Proof.
  intros Hj. unfold op_value_set. cbv zeta. destruct (q_index_of_property _ _) as [p|]; [|answers_tac].
  destruct (negb _); [answers_tac|]. unfold with_value.
  pose proof (fromJson_explains s (obj_value "value" request) (mp_type p)) as He.
  destruct (fromJson _ _ _) as [x|e] eqn:E; [|answers_tac].
  rewrite (fromJson_defined s _ _ _ Hj E). answers_tac.
Qed.

Lemma op_value_answers operation request :
  (operation = "value_set"%string -> obj_value "value" request <> JUndefined) ->
  returns (op_value operation request) (explained relays).
Proof.
  intros Hv. unfold op_value. apply returns_then. intros s.
  destruct (parse_value_id _) as [id|]; [|answers_tac].
  destruct (valueForId s id) as [v|]; [|answers_tac].
  destruct (bool_decide _); [unfold op_value_delete; answers_tac|].
  destruct (bool_decide _); [unfold op_value_call; answers_tac|].
  destruct (q_meta_object _) as [m|]; [|answers_tac].
  destruct (bool_decide _); [unfold op_value_get; answers_tac|].
  case_bool_decide; [by apply op_value_set_answers, Hv|answers_tac].
Qed.

Lemma parse_parent_explains s v : explains (parse_parent s v).
Proof.
  unfold parse_parent. destruct (_ || _); [apply explains_ok|].
  apply explains_bind; [apply parseObjectId_explains|]. intros id.
  destruct (objectForId s id); [apply explains_ok|by apply explains_err].
Qed.

Lemma op_new_answers request : returns (op_new request) (explained relays).
Proof.
  unfold op_new. cbv zeta. destruct (_ || _); [answers_tac|]. apply returns_then. intros s.
  pose proof (parse_parent_explains s (obj_value "parent" request)) as Hp.
  destruct (parse_parent _ _) as [parent|e]; [|answers_tac]. destruct (_ && _); [answers_tac|].
  apply (returns_bind _ _ (fun r _ => r.1 = None -> r.2 <> estr)).
  - intros s'. pose proof (createObject_explains (to_string (obj_value "class" request)) parent
      (to_array (obj_value "args" request)) s') as H.
    destruct (createObject _ _ _ s') as [[[[o|] e]|what|u] s'']; [done|by intros _|done|done].
  - intros [[o|] e] _ H; [answers_tac|]. apply answers_fail. by apply H.
Qed.

Lemma op_value_new_answers request : returns (op_value_new request) (explained relays).
Proof.
  unfold op_value_new, value_response. cbv zeta. destruct (_ || _); [answers_tac|].
  destruct (_ && _); [answers_tac|]. destruct (split_qualified _) as [m c].
  apply returns_then. intros [[handled v] e]. destruct handled.
  - destruct (negb _); [|answers_tac]. apply answers_fail.
    destruct (str_empty e) eqn:He; text_tac.
  - destruct (negb (str_empty e)) eqn:He; [answers_tac|]. destruct (negb _); [answers_tac|].
    destruct (valueMetaType _ _) as [t e']. answers_tac.
Qed.

Lemma event_limits_explains request : explains (event_limits request).
Proof.
  unfold event_limits. cbv zeta. by repeat (destruct (_ || _); [by apply explains_err|]).
Qed.

Lemma op_events_answers request : returns (op_events request) (explained relays).
Proof.
  unfold op_events. pose proof (event_limits_explains request) as He.
  destruct (event_limits request) as [[wait maximum]|e]; answers_tac.
Qed.

Lemma op_describe_answers request : returns (op_describe request) (explained relays).
Proof.
  unfold op_describe. apply returns_then. intros s.
  pose proof (parseObjectId_explains (obj_value "object_id" request)) as He. answers_tac.
Qed.

Lemma op_connect_answers s id o request : returns (op_connect s id o request) (explained relays).
Proof. unfold op_connect. answers_tac. Qed.

Lemma op_object_answers operation request :
  (operation = "set"%string -> obj_value "value" request <> JUndefined) ->
  (operation = "call"%string -> relays) ->
  returns (op_object operation request) (explained relays).
Proof.
  intros Hv Hr. unfold op_object. apply returns_then. intros s.
  pose proof (parseObjectId_explains (obj_value "object_id" request)) as He.
  destruct (parseObjectId _) as [id|e]; [|answers_tac].
  destruct (objectForId s id) as [o|]; [|answers_tac].
  destruct (bool_decide _); [unfold op_get; answers_tac|].
  case_bool_decide; [by apply op_set_answers, Hv|].
  case_bool_decide; [by apply op_call_answers, Hr|].
  destruct (bool_decide _); [apply op_connect_answers|].
  destruct (bool_decide _); [unfold op_delete; answers_tac|answers_tac].
Qed.

Lemma op_running_answers operation request :
  (operation ∈ ["set"; "value_set"]%string -> obj_value "value" request <> JUndefined) ->
  (operation = "call"%string -> relays) ->
  returns (op_running operation request) (explained relays).
Proof.
  intros Hv Hr. unfold op_running.
  destruct (bool_decide _); [apply op_value_new_answers|].
  destruct (bool_decide _); [apply op_new_answers|].
  destruct (bool_decide _); [apply op_events_answers|].
  destruct (bool_decide _); [apply op_describe_answers|].
  destruct (str_starts_with _ _); [apply op_value_answers; intros ->; apply Hv; set_solver|].
  destruct (bool_decide _); [unfold op_call_static; answers_tac|].
  apply op_object_answers; [|done]. intros ->. apply Hv. set_solver.
Qed.

(** ** Static operations *)

Lemma explained_describe_class request s : explained relays (op_describe_class request) s.
Proof.
  unfold op_describe_class. cbv zeta. destruct (_ || _); [by apply explained_failure|].
  destruct (classMetaObject _ _) as [m e]. destruct (str_empty e) eqn:He; cbn [negb];
    [|apply explained_failure; text_tac].
  destruct m; [apply explained_success|by apply explained_failure, law_arg].
Qed.

Lemma explained_describe_value_type request s : explained relays (op_describe_value_type request) s.
Proof.
  unfold op_describe_value_type. cbv zeta. destruct (_ || _); [by apply explained_failure|].
  destruct (valueMetaType _ _) as [t e]. destruct (str_empty e) eqn:He; cbn [negb];
    [|apply explained_failure; text_tac].
  destruct (if mt_valid t then _ else _); [apply explained_success|].
  destruct (negb _); [apply explained_success|].
  destruct (str_mem _ _); [apply explained_success|by apply explained_failure, law_arg].
Qed.

Lemma handleRequest_answers current request :
  gives_value request -> (op_name request = "call"%string -> relays) ->
  returns (handleRequest current request) (explained relays).
Proof.
  intros Hv Hr. unfold handleRequest. cbv zeta.
  destruct (str_empty _); [answers_tac|].
  repeat (destruct (bool_decide _);
    [solve [apply returns_ret; intros ?; first [apply explained_success | apply explained_describe_class
              | apply explained_describe_value_type]
           | unfold op_application, running; answers_tac
           | unfold op_shutdown; answers_tac]|]).
  apply returns_then. intros s0. destruct (_ || _); [answers_tac|].
  destruct (negb _); [answers_tac|]. by apply op_running_answers.
Qed.

End Requests.

Section Replies.
Context {T : QtTypes} {QB : QtLib} {QW : QtWorld} {CT : CxxTraits} {GN : GeneratedNames} {G : Generated}.
Context {BF : BuildFlags} {LB : QtLibLaws QB}.

(** C7: no answer without a reason. Every request that returns is answered by an
    envelope: either ok is true and there is a value, or ok is false and there is a
    text of what went wrong; whatever the operation, its arguments, the state and the
    thread, and whatever the shards do. The text is not empty, except that a [call] that
    Qt has just refused (listening of a server; opening, writing or positioning a
    device) is answered with what Qt then gives as the error, whatever it is. The other
    exception are the operations that write a property when the request has no value at
    all ([set_without_value]). *)
Theorem requests_answered {QD : QtDefined QB} current request s :
  gives_value request ->
  match handleRequest current request s with
  | (Done j, s') => explained (op_name request = "call"%string) j s'
  | _ => True
  end.
Proof. intros Hv. by apply (handleRequest_answers (op_name request = "call"%string)). Qed.

(** The exception: a property of type QVariant set without a value. *)
Lemma set_without_value o request s p :
  obj_value "value" request = JUndefined -> v_valid (q_to_variant JUndefined) = false ->
  let name := to_string (obj_value "name" request) in
  str_empty name || hasNul name = false ->
  q_index_of_property (w_meta (st_world s) o) name = Some p ->
  mp_writable p = true -> mp_type p = MT_QVariant ->
  op_set o request s = (Done (failure estr), s).
Proof.
  intros Hv Hu name Hn Hp Hw Ht. unfold op_set, setProperty. fold name. rewrite Hv, Hn.
  unfold bind, get_state. rewrite Hp, Hw, Ht. simpl. unfold fromJson. simpl. by rewrite Hu.
Qed.

(** The server that Qt does not let listen, without saying why: a server that
    listens already has no error. The client gets a failure with an empty text. *)
Lemma listen_without_text st o text j port address s w1 w2 :
  w_is_a (st_world st) "QTcpServer" o = true ->
  readJsonInteger j = Some port -> 0 <= port <= 65535 -> q_host text = Some address ->
  w_native (QTcpServer_listen o address port) (st_world s) = (Replied false, w1) ->
  w_native (QTcpServer_errorString o) w1 = (Replied estr, w2) ->
  exists body, call_network st o "listen(QHostAddress,quint16)" [JString text; j] = Some body /\
    body s = (Done (failure estr), State _ _ (st_bridge s) w2).
Proof.
  intros Hs Hj Hp Ha Hl He. unfold call_network. cbv zeta.
  change (integerArgument [JString text; j] 1) with (readJsonInteger j).
  rewrite Hs, Hj, Ha. simpl. rewrite !andb_false_r. eexists. split; [done|].
  replace ((port <? 0) || (65535 <? port)) with false by (symmetry; apply orb_false_iff; lia).
  unfold bind, call. rewrite Hl. simpl. by rewrite He.
Qed.

End Replies.

(** ** Witnesses *)

#[export] Instance toy_defined : QtDefined toy_lib.
Proof. by intros []. Qed.

(** A widget is created, and a request on an unknown handle is refused with a reason. *)
Lemma requests_answered_witness :
  gives_value toy_new_request /\
  exists j s', handleRequest 7 toy_new_request toy_running = (Done j, s') /\
    explained (op_name toy_new_request = "call"%string) j s'.
Proof.
  assert (gives_value toy_new_request) as Hv.
  { intros H. exfalso. revert H. apply (bool_decide_eq_false_1 _). vm_compute. reflexivity. }
  split; [exact Hv|]. pose proof (requests_answered 7 toy_new_request toy_running Hv) as H.
  destruct (handleRequest 7 toy_new_request toy_running) as [r s'] eqn:E.
  apply (f_equal fst) in E. destruct r as [j|what|u].
  - exists j, s'. split; [reflexivity|exact H].
  - vm_compute in E. discriminate E.
  - vm_compute in E. discriminate E.
Defined.
