(* ===== verification/Values.v ===== *)
(** Starting the application, and the life of stored values. *)
From S2P Require Export Events.

(** * Definitions *)

(** The operations on a stored value. *)
Definition value_operations : list string :=
  ["value_delete"; "value_call"; "value_get"; "value_set"; "value_describe"]%string.

Section Values.
Context {T : QtTypes} {QB : QtLib} {QW : QtWorld} {CT : CxxTraits} {GN : GeneratedNames} {G : Generated} {BF : BuildFlags}.

(** ** Lemmas *)

Lemma handleRequest_value current request s op :
  admitted current s -> op_name request = op -> op ∈ value_operations ->
  handleRequest current request s = op_value op request s.
Proof.
  intros Had Hop Hin. rewrite (handleRequest_running current request s op); [|done|done|].
  - unfold value_operations in Hin. rewrite !elem_of_cons, elem_of_nil in Hin.
    unfold op_running. by destruct_or! Hin; rewrite Hin.
  - unfold value_operations in Hin. rewrite !elem_of_cons, elem_of_nil in *. tauto.
Qed.

Lemma op_value_stored request id v s :
  parse_value_id (obj_value "value_id" request) = Some id -> values (st_bridge s) !! id = Some v ->
  op_value "value_delete" request s = op_value_delete id s /\
  op_value "value_call" request s = op_value_call id v request s.
Proof. intros Hid Hv. unfold op_value, bind, get_state, valueForId. by rewrite Hid, Hv. Qed.

Lemma op_value_closed op request id s :
  parse_value_id (obj_value "value_id" request) = Some id -> values (st_bridge s) !! id = None ->
  op_value op request s = (Done (failure "Qt value handle is closed or unknown"), s).
Proof. intros Hid Hv. unfold op_value, bind, get_state, valueForId. by rewrite Hid, Hv. Qed.

(** ** Properties *)

(** Closing a value. [value_delete] on a stored value succeeds and
    removes that value only; from then on every operation on its identifier is
    answered with an error and changes nothing. *)
Theorem value_delete_spec current request s id v :
  admitted current s -> op_name request = "value_delete"%string ->
  parse_value_id (obj_value "value_id" request) = Some id -> values (st_bridge s) !! id = Some v ->
  exists s', handleRequest current request s = (Done (success JNull), s') /\
    s' = State _ _ (set_values (delete id (values (st_bridge s))) (st_bridge s)) (st_world s) /\
    forall request', op_name request' ∈ value_operations ->
      parse_value_id (obj_value "value_id" request') = Some id ->
      handleRequest current request' s' = (Done (failure "Qt value handle is closed or unknown"), s').
Proof.
  intros Had Hop Hid Hv.
  rewrite (handleRequest_value current request s "value_delete")
    by (done || (unfold value_operations; set_solver)).
  rewrite (proj1 (op_value_stored request id v s Hid Hv)). eexists. split; [reflexivity|]. split; [done|].
  intros request' Hop' Hid'. rewrite (handleRequest_value current request' _ (op_name request')) by done.
  apply (op_value_closed _ _ id); [done|]. simpl. apply lookup_delete_eq.
Qed.

(** C38: the error of a generated value method is lost. When a shard handles
    the call of a value method and reports an error (it returns true after writing
    the error text, as generated shards do when the arguments do not match),
    [value_call] answers with success, whatever the text. *)
Theorem value_call_ignores_error current request s id v result e s' :
  admitted current s -> op_name request = "value_call"%string ->
  parse_value_id (obj_value "value_id" request) = Some id -> values (st_bridge s) !! id = Some v ->
  q_meta_object (v_type v) = None -> is_array (obj_value "args" request) = true ->
  invokeValue id (q_from_latin1 (mt_name (v_type v))) (to_string (obj_value "method" request))
    (to_array (obj_value "args" request)) JNull estr s = (Done (true, result, e), s') ->
  e <> estr ->
  handleRequest current request s = (Done (success result), s').
Proof.
  intros Had Hop Hid Hv Hm Ha Hi _.
  rewrite (handleRequest_value current request s "value_call")
    by (done || (unfold value_operations; set_solver)).
  rewrite (proj2 (op_value_stored request id v s Hid Hv)).
  unfold op_value_call. cbv zeta. rewrite Ha, andb_false_r, Hm.
  unfold bind at 1, ret. unfold bind. by rewrite Hi.
Qed.

Section Laws.
Context {LB : QtLibLaws QB} {QL : QtLaws QW} {GL : GeneratedLaws QL G}.

(** Starting the application. [application] always answers that it runs.
    When it was running, on whatever thread, nothing changes, in particular the
    thread that owns it; otherwise it starts owned by the calling thread, with no
    object, value or subscription, and the counter of identifiers continues. *)
Theorem application_spec current request s :
  bridge_ok s -> op_name request = "application"%string ->
  match handleRequest current request s with
  | (Done j, s') =>
      j = running /\
      if application (st_bridge s) then s' = s
      else application (st_bridge s') = true /\ application_thread (st_bridge s') = Some current /\
           objects (st_bridge s') = ∅ /\ values (st_bridge s') = ∅ /\
           subscriptions (st_bridge s') = ∅ /\
           next_object_id (st_bridge s') = next_object_id (st_bridge s)
  | (Threw _, s') => application (st_bridge s) = false /\ st_bridge s' = st_bridge s
  | (Crashed _, _) => False
  end.
Proof.
  intros [_ Hidle] Hop. unfold op_name in Hop. unfold handleRequest. rewrite Hop. simpl.
  unfold op_application, bind, get_state, call, update_bridge, ret.
  destruct (application (st_bridge s)) eqn:Ha; [done|].
  destruct Hidle as (Ho & Hv & Hb & _).
  destruct (w_native CreateApplication (st_world s)) as [[u|what] w']; simpl; [|done].
  by rewrite Ho, Hv, Hb.
Qed.

Lemma hoare_registerValue v g :
  v_valid v = true ->
  hoare (live g) (live g) (registerValue v) (fun id s' =>
    past_next g <= id < next_object_id (st_bridge s') /\ values (st_bridge s') !! id = Some v).
Proof.
  intros Hv [b w] (Hok & [Hn _ _] & _). simpl in *. unfold registerValue. rewrite Hv. simpl.
  unfold fresh_id, emplace_value, bind, get_state, update_bridge, ret. simpl.
  pose proof (next_value_free _ Hok) as Hf. simpl in Hf. rewrite Hf. simpl.
  split; [lia|apply lookup_insert_eq].
Qed.

(** Creating a value. When [value_new] succeeds, the response carries an
    identifier that was never given out before, under which a valid value is
    stored, and the name of its type. When it fails, the response is an error. *)
Theorem value_new_spec current request s :
  bridge_ok s -> admitted current s -> op_name request = "value_new"%string ->
  match handleRequest current request s with
  | (Done j, s') =>
      (exists m, j = failure m) \/
      exists id v t, j = value_response id t /\
        next_object_id (st_bridge s) <= id < next_object_id (st_bridge s') /\
        values (st_bridge s') !! id = Some v /\ v_valid v = true /\
        t = q_from_latin1 (mt_name (v_type v))
  | (Threw _, s') => bridge_ok s'
  | (Crashed u, _) => u = DanglingVariant
  end.
Proof.
  intros [Hok _] Had Hop. rewrite (handleRequest_running current request s "value_new") by set_solver.
  destruct Had as (Ha & Ht & _). change (op_running "value_new" request s) with (op_value_new request s).
  pose proof (live_past s current Hok Ha Ht) as Hl. set (g := past_of s current) in *.
  change (next_object_id (st_bridge s)) with (past_next g). clearbody g.
  assert (hoare (live g) (live g) (op_value_new request) (fun j s' =>
    (exists m, j = failure m) \/
      exists id v t, j = value_response id t /\ past_next g <= id < next_object_id (st_bridge s') /\
        values (st_bridge s') !! id = Some v /\ v_valid v = true /\
        t = q_from_latin1 (mt_name (v_type v)))) as H.
  { assert (forall v t, v_valid v = true -> t = q_from_latin1 (mt_name (v_type v)) ->
      hoare (live g) (live g) (let! id := registerValue v in ret (value_response id t)) (fun j s' =>
        (exists m, j = failure m) \/
        exists id v t, j = value_response id t /\ past_next g <= id < next_object_id (st_bridge s') /\
          values (st_bridge s') !! id = Some v /\ v_valid v = true /\
          t = q_from_latin1 (mt_name (v_type v)))) as Hreg.
    { intros v t Hv Ht'. eapply hoare_bind; [by apply hoare_registerValue|]. intros id st [Hid Hval].
      right. exists id, v, t. destruct Hid; by split_and!. }
    unfold op_value_new. cbv zeta. destruct (_ || _); [intros st _; left; by eexists|].
    destruct (_ && _); [intros st _; left; by eexists|]. destruct (split_qualified _) as [m c].
    eapply hoare_bind; [apply keeps_constructValueArguments|]. intros [[handled v] e].
    destruct handled.
    { destruct (v_valid v) eqn:Hv; [by apply Hreg|intros st _; left; by eexists]. }
    destruct (negb _); [intros st _; left; by eexists|].
    destruct (negb _); [intros st _; left; by eexists|].
    destruct (valueMetaType _ _) as [type e'] eqn:Hvt.
    destruct (negb _); [intros st _; left; by eexists|].
    destruct (negb _); [intros st _; left; by eexists|].
    destruct (v_valid (q_default_variant type)) eqn:Hv; [|intros st _; left; by eexists].
    apply Hreg; [done|]. destruct (law_default type) as [->|Hd]; [done|]. by rewrite Hd in Hv. }
  specialize (H s Hl). destruct (op_value_new request s) as [[j|what|u] s']; [done| |done].
  by eapply live_bridge_ok.
Qed.

End Laws.
End Values.

(** ** Witnesses *)

Lemma toy_values_admitted : admitted 7 toy_values.
Proof. split_and!; vm_compute; reflexivity. Qed.

Lemma application_spec_witness :
  exists s', handleRequest 7 toy_application_request toy_initial = (Done running, s') /\
    application_thread (st_bridge s') = Some 7.
Proof.
  pose proof (application_spec 7 toy_application_request toy_initial toy_initial_ok) as H.
  destruct (handleRequest 7 toy_application_request toy_initial) as [[j|what|u] s'] eqn:E.
  - destruct H as (-> & _ & Ht & _); [vm_compute; reflexivity|]. by exists s'.
  - exfalso. clear H. apply (f_equal fst) in E. vm_compute in E. discriminate.
  - exfalso. clear H. apply (f_equal fst) in E. vm_compute in E. discriminate.
Defined.

Lemma value_delete_spec_witness :
  exists s', handleRequest 7 toy_value_delete_request toy_values = (Done (success JNull), s') /\
    s' = State _ _ (set_values (delete 5 (values (st_bridge toy_values))) (st_bridge toy_values))
           (st_world toy_values).
Proof.
  destruct (value_delete_spec 7 toy_value_delete_request toy_values 5 toy_version toy_values_admitted)
    as (s' & H & Hs & _); [vm_compute; reflexivity..|].
  exists s'. split; [exact H|exact Hs].
Defined.

Lemma value_call_ignores_error_witness :
  exists s', handleRequest 7 toy_value_call_request toy_values = (Done (success JNull), s').
Proof.
  exists toy_values.
  apply (value_call_ignores_error 7 toy_value_call_request toy_values 5 toy_version JNull
    "majorVersion() expects 0 argument(s)" toy_values toy_values_admitted);
    first [discriminate | vm_compute; reflexivity].
Defined.

Lemma value_new_spec_witness :
  match handleRequest 7 toy_value_new_request toy_running with
  | (Done j, s') =>
      (exists m, j = failure m) \/
      exists id v t, j = value_response id t /\
        next_object_id (st_bridge toy_running) <= id < next_object_id (st_bridge s') /\
        values (st_bridge s') !! id = Some v /\ v_valid v = true /\
        t = q_from_latin1 (mt_name (v_type v))
  | (Threw _, s') => bridge_ok s'
  | (Crashed u, _) => u = DanglingVariant
  end.
Proof.
  apply (value_new_spec 7 toy_value_new_request toy_running toy_running_ok toy_admitted).
  vm_compute. reflexivity.
Defined.
