(* ===== verification/Program.v ===== *)
(** The whole program: the bridge with its actual shards, for every Qt that
    satisfies the laws. *)
From S2P Require Export TableFacts Values.
From S2P Require Import ValueConstructorTables.

(** * Definitions *)

Section Program.
Context {T : QtTypes} {QB : QtLib} {QW : QtWorld} {CT : CxxTraits} {BF : BuildFlags}.

(** Requests carried out with the functions of the generated shards. *)
#[local] Existing Instance table_names.
#[local] Existing Instance table_generated.

Definition program_request (current : thread) (request : jmembers) : M json :=
  handleRequest current request.

Definition program_step : relation state := step.

End Program.

(** The C++ library of the witness: everything is there, only Qt 3D's
    QTransform, which is a QObject, cannot be copied. *)
Definition shadow_traits : CxxTraits := {|
  cxx_class_of := fun m c => None;
  cxx_has_header := fun m h => true;
  cxx_registered := fun t => true;
  cxx_copyable := fun t => negb (bool_decide (t = "Qt3DCore::QTransform"%string));
  cxx_default_constructible := fun t => true;
  cxx_abstract := fun t => false;
  cxx_constructible := fun t l => true;
  cxx_constructible_from := fun t l => true;
  cxx_enum_size := fun t => None;
|}.

Definition toy_transform_request (name : string) : jmembers :=
  toy_request [("op"%string, JString "value_new"); ("type"%string, JString name)].

Section Laws.
Context {T : QtTypes} {QB : QtLib} {QW : QtWorld} {CT : CxxTraits} {BF : BuildFlags}.
Context {LB : QtLibLaws QB} {QL : QtLaws QW}.

(** C2: the program as it is, with the rows of all its generated shards and no
    assumption on them. Every state it reaches by requests, whatever the requests
    and the threads, is well formed (identifiers lie below the counter, no live
    object has two, objects and values share none, stored values are valid,
    subscriptions belong to entries of the object table), and the next request,
    whatever it is, returns or raises in a well-formed state, or reads a dangling
    QVariant; it never uses an object or a value after its deletion. *)
Theorem program_ok w s :
  rtc program_step (State _ _ initial_bridge w) s ->
  bridge_ok s /\ forall current request, request_ok current s (program_request current request s).
Proof.
  intros H. assert (bridge_ok s) as Hs.
  { refine (steps_keep _ s _ H). split; [by apply idle_tables|done]. }
  split; [done|]. intros current request. by apply handleRequest_keeps.
Qed.

End Laws.

(** ** Constructing values *)

(** A name whose construction is handled without a value. *)
Lemma value_new_refused {T : QtTypes} {QB : QtLib} {QW : QtWorld} {CT : CxxTraits}
    {GN : GeneratedNames} {G : Generated} {BF : BuildFlags} current request s name e :
  admitted current s -> op_name request = "value_new"%string ->
  obj_value "type" request = JString name ->
  is_undefined (obj_value "args" request) || is_array (obj_value "args" request) = true ->
  str_empty name || hasNul name = false -> split_qualified name = (estr, name) ->
  constructValueArguments estr name (to_array (obj_value "args" request)) estr s =
    (Done (true, VInvalid, e), s) ->
  handleRequest current request s =
    (Done (failure (if str_empty e
       then q_arg "Qt value type %1 has no matching native constructor" name else e)), s).
Proof.
  intros Had Hop Ht Ha Hn Hsplit Hc.
  rewrite (handleRequest_running current request s "value_new") by set_solver.
  change (op_running "value_new" request s) with (op_value_new request s). unfold op_value_new.
  rewrite Ht. cbv zeta. change (to_string (JString name)) with name. rewrite Hn, Hsplit.
  rewrite <- negb_orb, Ha. unfold bind. simpl. by rewrite Hc.
Qed.

Section ValueNames.
Context {T : QtTypes} {QB : QtLib} {QW : QtWorld} {CT : CxxTraits} {BF : BuildFlags}.
#[local] Existing Instance table_names.
#[local] Existing Instance table_generated.

(** No row is for the class. *)
Definition no_row (c : string) (rows : list constructor_row) : bool :=
  forallb (fun row => negb (String.eqb c (cr_class row))) rows.

Lemma construct_value_skip sh rows1 rows2 m c args v e s :
  no_row c rows1 = true ->
  construct_value sh (rows1 ++ rows2) m c args v e s = construct_value sh rows2 m c args v e s.
Proof.
  induction rows1 as [|row rows IH]; [done|]. intros [H1 H2]%andb_true_iff. cbn [app construct_value].
  unfold row_applies. rewrite (bool_decide_eq_false_2 (c = cr_class row)).
  - rewrite andb_false_r. by apply IH.
  - intros ->. by rewrite String.eqb_refl in H1.
Qed.

(** No value of a type that cannot be copied is built. *)
Lemma build_candidate_uncopyable sh c ca args s :
  cxx_copyable (cpp_class (cs_module sh) c) = false ->
  exists e, build_candidate sh c ca args s = (Done (VInvalid, e), s) /\
    (ca_params ca = [] -> e = estr).
Proof.
  intros Hc. unfold build_candidate. destruct (negb _); [by eexists|]. unfold bind, get_state.
  destruct (convert_params _ _ _ _ _) as [[vs|] e] eqn:E; exists e;
    (split; [try done|intros Hp; rewrite Hp in E; simpl in E; congruence]).
  cbv zeta. by rewrite Hc, andb_false_r.
Qed.

(** The blocks of Qt 3D for a QTransform, without arguments and with one. *)
Lemma qtransform_block args e s :
  cxx_copyable "Qt3DCore::QTransform" = false -> (length args <= 1)%nat ->
  exists e', construct_value value_constructors_qt3dcore_0 (cs_rows value_constructors_qt3dcore_0)
      estr "QTransform" args VInvalid e s = (Done (true, VInvalid, e'), s) /\
    (args = [] -> e' = e).
Proof.
  intros Hc Hlen. rewrite <- (take_drop 4 (cs_rows value_constructors_qt3dcore_0)).
  rewrite construct_value_skip by reflexivity.
  destruct args as [|a [|b r]]; [| |simpl in Hlen; lia]; simpl;
    (destruct (candidate_enabled _ _ _); [|by eexists]); unfold bind;
    edestruct build_candidate_uncopyable as (e1 & -> & He1); try exact Hc; simpl; eexists;
    (split; [done|]); [|done].
  intros _. by rewrite He1.
Qed.

(** The second shard handles what the first one leaves. *)
Lemma try_construct_value_second {GN : GeneratedNames} {G : Generated} m1 shard1 m2 shard2 l c args v e v2 e2 s :
  g_construct_value shard1 estr c args v e s = (Done (false, v, e), s) ->
  g_construct_value shard2 estr c args v e s = (Done (true, v2, e2), s) ->
  try_construct_value ((m1, shard1) :: (m2, shard2) :: l) estr c args v e s = (Done (true, v2, e2), s).
Proof. intros H1 H2. simpl. unfold bind at 1. rewrite H1. unfold bind. by rewrite H2. Qed.

(** QTransform goes to the shard of Qt 3D, the first one that has rows for the
    name. *)
Lemma qtransform_construct args e s :
  cxx_copyable "Qt3DCore::QTransform" = false -> (length args <= 1)%nat ->
  exists e', constructValueArguments estr "QTransform" args e s = (Done (true, VInvalid, e'), s) /\
    (args = [] -> e' = e).
Proof.
  intros Hc Hlen. destruct (qtransform_block args e s Hc Hlen) as (e' & Hb & He'). exists e'.
  split; [|done]. unfold constructValueArguments, value_constructor_shards.
  apply try_construct_value_second; [|exact Hb].
  apply (construct_value_skip value_constructors_qt3danimation_0
    (cs_rows value_constructors_qt3danimation_0) []). reflexivity.
Qed.

(** The QTransform of QtGui is published under its short name. *)
Lemma macro_defined_by prefix includes i macro :
  i ∈ includes -> include_macro prefix i = Some macro -> macro_defined prefix includes macro = true.
Proof.
  intros Hi Hm. apply existsb_exists. exists i. split; [by apply list_elem_of_In|].
  by apply bool_decide_eq_true.
Qed.

Lemma class_include_macro prefix m h c :
  cxx_has_header m h = true -> include_macro prefix (ClassInclude m h c) = Some (prefix ++ c)%string.
Proof. simpl. by intros ->. Qed.

Lemma type_include_macro prefix m h macro :
  cxx_has_header m h = true -> include_macro prefix (TypeInclude m h macro) = Some macro.
Proof. simpl. by intros ->. Qed.

Lemma class_row_enabled_one sh macro c alternatives :
  macro_defined (cs_prefix sh) (cs_includes sh) (cs_prefix sh ++ c) = true ->
  macro_defined (cs_prefix sh) (cs_includes sh) macro = true ->
  class_row_enabled sh (Cls [macro] c alternatives) = true.
Proof. intros H1 H2. unfold class_row_enabled. cbn -[macro_defined]. by rewrite H1, H2. Qed.

Lemma qtransform_published :
  cxx_has_header "QtGui" "QTransform" = true -> cxx_registered "QTransform" = true ->
  cxx_copyable "QTransform" = true -> cxx_constructible "QTransform" [] = true ->
  "QTransform"%string ∈ availableDirectValueConstructors.
Proof.
  intros Hh Hr Hc Hk. unfold availableDirectValueConstructors. apply elem_of_sorted_set.
  apply list_elem_of_bind. exists ("QtGui", "qtgui_13")%string. split.
  2:{ apply (bool_decide_eq_true_1 _). vm_compute. reflexivity. }
  change (g_value_constructor_classes "qtgui_13") with
    (value_constructor_classes value_constructors_qtgui_13).
  unfold value_constructor_classes. apply list_elem_of_fmap.
  exists (nth 2 (cs_classes value_constructors_qtgui_13) (Cls [] estr [])). split; [reflexivity|].
  apply list_elem_of_filter. split; [|by right; right; left].
  change (cpp_class _ _) with "QTransform"%string. rewrite Hr, Hc. simpl existsb. rewrite Hk.
  rewrite !andb_true_r. apply class_row_enabled_one.
  - apply (macro_defined_by _ _ (nth 2 (cs_includes value_constructors_qtgui_13) (EnumDefine estr)));
      [by right; right; left|]. exact (class_include_macro _ "QtGui" "QTransform" "QTransform" Hh).
  - apply (macro_defined_by _ _ (nth 17 (cs_includes value_constructors_qtgui_13) (EnumDefine estr))).
    + apply (nth_elem_of _ 17). vm_compute. lia.
    + exact (type_include_macro _ "QtGui" "QTransform" _ Hh).
Qed.

(** C37: a published name that is refused. [value_new] with the short name
    QTransform and at most one argument goes to the shard of Qt 3D, which has blocks for
    its own, uncopyable, QTransform; whether or not Qt 3D is installed the shard handles
    the request and builds nothing, so the request fails, without effect. The QTransform
    of QtGui, which value_types publishes under that name and which can be built without
    arguments, is not reached. *)
Theorem value_new_shadowed current request s :
  let args := obj_value "args" request in
  cxx_copyable "Qt3DCore::QTransform" = false -> admitted current s ->
  op_name request = "value_new"%string -> obj_value "type" request = JString "QTransform" ->
  is_undefined args || is_array args = true -> (length (to_array args) <= 1)%nat ->
  (exists e, program_request current request s = (Done (failure e), s) /\
     (to_array args = [] ->
      e = q_arg "Qt value type %1 has no matching native constructor" "QTransform")) /\
  (cxx_has_header "QtGui" "QTransform" = true -> cxx_registered "QTransform" = true ->
   cxx_copyable "QTransform" = true -> cxx_constructible "QTransform" [] = true ->
   "QTransform"%string ∈ availableDirectValueConstructors).
Proof.
  intros args Hc Had Hop Ht Ha Hlen. split; [|apply qtransform_published].
  destruct (qtransform_construct (to_array args) estr s Hc Hlen) as (e & Hq & He).
  eexists. split; [exact (value_new_refused current request s "QTransform" e Had Hop Ht Ha eq_refl eq_refl Hq)|].
  intros Hnil. by rewrite (He Hnil).
Qed.

End ValueNames.

(** ** Witnesses *)

Lemma program_ok_witness :
  bridge_ok toy_initial /\
  request_ok 7 toy_initial (program_request 7 toy_application_request toy_initial).
Proof.
  destruct (program_ok (QW := toy_qt) toy_empty_world toy_initial (rtc_refl _ _)) as [H1 H2].
  split; [exact H1|apply H2].
Defined.

Lemma value_new_shadowed_witness :
  program_request (CT := shadow_traits) 7 (toy_transform_request "QTransform") toy_running =
    (Done (failure (q_arg "Qt value type %1 has no matching native constructor" "QTransform")),
     toy_running).
Proof.
  destruct (value_new_shadowed (CT := shadow_traits) 7 (toy_transform_request "QTransform") toy_running)
    as [(e & He & Htext) _].
  - vm_compute. reflexivity.
  - exact toy_admitted.
  - vm_compute. reflexivity.
  - vm_compute. reflexivity.
  - vm_compute. reflexivity.
  - vm_compute. repeat constructor.
  - rewrite He, Htext; reflexivity.
Defined.
