(* ===== verification/ContractRun.v ===== *)
(** Every call that carrying out a request makes into Qt keeps the contract. *)
From S2P Require Export ContractShards.
From S2P Require Import Program.

(** * Definitions *)


(** * Lemmas *)

(** ** The registry *)

Section Registry.
Context {T : QtTypes} {QB : QtLib} {Q : @QtWorld T} {CT : CxxTraits} {GN : GeneratedNames}.
Context {BF : BuildFlags} {LB : QtLibLaws QB}.
#[local] Instance here_g : @QtWorld T := traced Q.
#[local] Abbreviation polite := (polite Q).
Context {G : @Generated T here_g} {GP : PoliteShards Q G}.






(** ** Creation *)




(** ** Events *)






(** ** Objects *)











(** ** Values *)





(** ** Creation *)





(** ** Requests *)






End Registry.

(** ** The generated shards *)

Section Tables.
Context {T : QtTypes} {QB : QtLib} (Q : @QtWorld T) {CT : CxxTraits} {BF : BuildFlags}.
Context {LB : QtLibLaws QB}.



End Tables.

(** ** Witnesses *)

