(* ===== verification/Protocol.v ===== *)
(** The exported function: buffers, limits and errors of the wire protocol. *)
From S2P Require Export Sessions.

(** * Definitions *)

(** The checks of kry_qt6_request on its pointers and lengths. *)
Definition buffers_ok (request : option string) (requestLength : Z) (response : bool) (capacity : Z) : bool :=
  match request with
  | None => false
  | Some _ => (2 <=? requestLength) && (requestLength <=? kMaxRequestBytes) && response &&
              (1 <=? capacity) && (capacity <=? kMaxResponseBytes)
  end.

(** The text for responses that are too long. *)
Definition too_long_text `{QtLib} : string :=
  q_document_compact (failure "Qt response exceeds the 16 MiB wire limit").

Section Protocol.
Context {T : QtTypes} {QB : QtLib} {QW : QtWorld} {CT : CxxTraits} {GN : GeneratedNames} {G : Generated} {BF : BuildFlags}.

(** * Lemmas *)

Lemma kry_qt6_request_guard current request len response capacity s :
  buffers_ok request len response capacity = false ->
  kry_qt6_request current request len response capacity s = Some (WireResult _ _ 0 None s).
Proof.
  unfold buffers_ok, kry_qt6_request. destruct request as [bytes|]; [|done]. intros H.
  replace ((len <? 2) || (kMaxRequestBytes <? len) || negb response || (capacity <? 1) ||
    (kMaxResponseBytes <? capacity)) with true; [done|].
  symmetry. revert H. destruct response; simpl; rewrite !Z.ltb_antisym;
    by destruct (2 <=? len), (len <=? kMaxRequestBytes), (1 <=? capacity), (capacity <=? kMaxResponseBytes).
Qed.

Local Arguments writeResponse : simpl never.

(** The answer to a request whose buffers are in order. *)
Lemma kry_qt6_request_answer current bytes len response capacity (s : @state T QW) :
  buffers_ok (Some bytes) len response capacity = true ->
  kry_qt6_request current (Some bytes) len response capacity s =
  let '(errorString, document) := q_parse_document (str_left (Z.to_nat len) bytes) in
  let '(answer, s') :=
    match document with
    | Some (JObject object) =>
        let '(r, s') := handleRequest current object s in (response_of r, s')
    | _ => (Some (failure (q_arg "request must be a JSON object: %1" errorString)), s)
    end in
  (fun j => let '(length, written) := writeResponse j response capacity in
            WireResult _ _ length written s') <$> answer.
Proof.
  unfold buffers_ok, kry_qt6_request. rewrite !andb_true_iff. intros [[[[H1 H2] ->] H3] H4].
  rewrite !Z.ltb_antisym, H1, H2, H3, H4. simpl.
  destruct (q_parse_document (str_left (Z.to_nat len) bytes)) as [e [[| | | | | |object]|]]; simpl;
    try (match goal with |- context [writeResponse ?j ?o ?c] => by destruct (writeResponse j o c) end).
  destruct (handleRequest current object s) as [r s']. destruct (response_of r) as [answer|]; [|done].
  simpl. by destruct (writeResponse answer true capacity).
Qed.

Lemma writeResponse_length j c1 c2 :
  0 <= c1 <= kMaxResponseBytes -> 0 <= c2 <= kMaxResponseBytes ->
  (writeResponse j true c1).1 = (writeResponse j true c2).1.
Proof.
  intros H1 H2. unfold writeResponse. cbn [negb orb].
  rewrite (proj2 (Z.ltb_ge c1 0)), (proj2 (Z.ltb_ge c2 0)), (proj2 (Z.ltb_ge kMaxResponseBytes c1)),
    (proj2 (Z.ltb_ge kMaxResponseBytes c2)) by lia.
  simpl. by destruct (c1 <? _), (c2 <? _).
Qed.

(** ** Properties *)

(** C39: responses stay within their buffer. With base64 growing three bytes
    to four, the encoded response never exceeds the 16 MiB limit, also when the
    response itself is too long (an error is sent instead). For a buffer the
    function accepts, the returned length is that of the encoded response; it is
    written completely when it fits and not at all otherwise, and then the
    returned length tells the caller how much is needed. *)
Theorem writeResponse_bounds j capacity :
  (forall s, byte_count (q_to_base64 s) <= 4 * ((byte_count s + 2) / 3)) ->
  byte_count too_long_text <= maximumJsonBytes ->
  0 <= capacity <= kMaxResponseBytes ->
  let '(length, written) := writeResponse j true capacity in
  0 <= length <= kMaxResponseBytes /\ length = byte_count (q_to_base64 (response_json j)) /\
  match written with
  | Some t => t = q_to_base64 (response_json j) /\ byte_count t = length /\ length <= capacity
  | None => capacity < length
  end.
Proof.
  intros Hb64 Hshort Hcap. assert (byte_count (response_json j) <= maximumJsonBytes) as Hle.
  { unfold response_json. destruct (Z.ltb_spec maximumJsonBytes (byte_count (q_document_compact j)));
      [exact Hshort|lia]. }
  specialize (Hb64 (response_json j)).
  assert (byte_count (q_to_base64 (response_json j)) <= kMaxResponseBytes) as Hmax.
  { etransitivity; [exact Hb64|]. unfold maximumJsonBytes, kMaxResponseBytes in *.
    change (16 * 1024 * 1024 / 4 * 3 - 3) with 12582909 in Hle.
    assert ((byte_count (response_json j) + 2) / 3 <= 12582911 / 3) by (apply Z.div_le_mono; lia).
    change (12582911 / 3) with 4194303 in *. lia. }
  unfold writeResponse. cbn [negb orb].
  rewrite (proj2 (Z.ltb_ge capacity 0)), (proj2 (Z.ltb_ge kMaxResponseBytes capacity)) by lia. simpl.
  assert (0 <= byte_count (q_to_base64 (response_json j))) by (unfold byte_count; lia).
  destruct (Z.ltb_spec capacity (byte_count (q_to_base64 (response_json j)))); split_and!; lia || done.
Qed.

(** C40: the exported function. With a null pointer, or a length or capacity
    out of its limits, it returns 0, writes nothing and changes nothing. Otherwise
    the request is carried out before the response buffer is looked at: the
    resulting state and the returned length do not depend on the capacity, so that a
    call whose buffer proves too small has had its effects all the same, and
    repeating it with a larger buffer repeats them. *)
Theorem kry_qt6_request_spec current request len response capacity s :
  (buffers_ok request len response capacity = false ->
     kry_qt6_request current request len response capacity s = Some (WireResult _ _ 0 None s)) /\
  (buffers_ok request len response capacity = true -> forall capacity' r,
     1 <= capacity' <= kMaxResponseBytes ->
     kry_qt6_request current request len response capacity s = Some r ->
     exists r', kry_qt6_request current request len response capacity' s = Some r' /\
       wr_state r' = wr_state r /\ wr_length r' = wr_length r).
Proof.
  split; [apply kry_qt6_request_guard|]. intros Hok capacity' r Hc' Hr.
  destruct request as [bytes|]; [|done].
  assert (buffers_ok (Some bytes) len response capacity' = true) as Hok'.
  { revert Hok. unfold buffers_ok. rewrite !andb_true_iff, !Z.leb_le. intros [[[[? ?] ?] ?] ?].
    split_and!; done || lia. }
  assert (response = true /\ 0 <= capacity <= kMaxResponseBytes) as [-> Hc].
  { revert Hok. unfold buffers_ok. rewrite !andb_true_iff, !Z.leb_le.
    intros [[[_ Hresp] Hlo] Hhi]. split; [done|lia]. }
  rewrite (kry_qt6_request_answer current bytes len true capacity s Hok) in Hr.
  rewrite (kry_qt6_request_answer current bytes len true capacity' s Hok').
  destruct (q_parse_document (str_left (Z.to_nat len) bytes)) as [e document].
  destruct (match document with Some (JObject object) => _ | _ => _ end) as [[answer|] s']; [|done].
  simpl in *. pose proof (writeResponse_length answer capacity capacity' Hc ltac:(lia)) as Hlen.
  destruct (writeResponse answer true capacity) as [l1 w1], (writeResponse answer true capacity') as [l2 w2].
  injection Hr as <-. eexists. split; [done|]. by split.
Qed.

End Protocol.

(** ** Witnesses *)

Lemma toy_base64_length t : byte_count (q_to_base64 t) <= 4 * ((byte_count t + 2) / 3).
Proof.
  change (q_to_base64 t) with t. assert (0 <= byte_count t) by (unfold byte_count; lia).
  pose proof (Z.div_mod (byte_count t + 2) 3). pose proof (Z.mod_pos_bound (byte_count t + 2) 3). lia.
Qed.

Lemma writeResponse_bounds_witness :
  0 <= (writeResponse running true 4096).1 <= kMaxResponseBytes.
Proof.
  pose proof (writeResponse_bounds running 4096 toy_base64_length) as H.
  destruct (writeResponse running true 4096) as [l w]. apply H; vm_compute; [|split]; discriminate.
Defined.

Lemma kry_qt6_request_spec_witness :
  kry_qt6_request 7 (Some "{}"%string) 1 true 4096 toy_initial =
    Some (WireResult _ _ 0 None toy_initial).
Proof. apply (kry_qt6_request_spec 7 (Some "{}"%string) 1 true 4096 toy_initial). reflexivity. Defined.
